(* ===== verification/_CoqProject ===== *)
-Q . S2P
Prelude.v
Ids.v
Kucommon.v
Pci.v
Skb.v
Du.v
Delim.v
Rds.v
Queues.v
EfcpState.v
PduRefine.v
DtpUtils.v
Dtcp.v
Dtp.v
Transfer.v
Efcp.v
EfcpExamples.v
EfcpSdu.v
SduExamples.v
Config.v
Names.v
Serdes.v
Wire.v
SerdesLaws.v
SerdesLen.v
MsgLayout.v
Messages.v
MsgExamples.v
Policies.v
RmtPs.v
LgcLut.v
LgcDtcp.v
LgcLaw.v
LgcRmt.v
LgcExamples.v
CcDtcp.v
CcExamples.v
CcRmt.v
Pff.v
Rmt.v
RmtInv.v
RmtWake.v
RmtRuns.v
SdupReplay.v
SdupMem.v
Sdup.v
SdupLaws.v
SdupTtl.v
SdupExamples.v
RmtFwd.v
RmtNet.v
Hmap.v
Kfa.v
KfaInv.v
KfaWake.v
KfaRuns.v
EfcpCont.v
EfcpContInv.v
EfcpContRuns.v
ContView.v
Prog.v
Normal.v
NormalInv.v
NormalExamples.v
KfaPids.v
Ctrldev.v
Kipcm.v
KipcmLaws.v
KipcmInv.v
KipcmRuns.v
KipcmCtl.v
KipcmExamples.v
