(* ===== verification/Prelude.v ===== *)
(** * A verification of the IRATI RINA stack

    The program is the IRATI implementation of the Recursive InterNetwork Architecture: a set of
    kernel modules ([src/kernel]) that carry data, a serialisation library shared by kernel and user
    space ([src/common], [src/include]), C++ libraries and daemons that manage the layers
    ([src/librina], [src/rinad]), and plugins and tools.  This development models the C code on
    which the transfer of data and the control interface of the kernel rest, and the congestion control
    plugins ([src/plugins/lgc-shq], [dctcp], [red], [cong_avoidance]).

    ** How the parts work together

    An application writes SDUs to a flow, which belongs to a port of the flow allocator (KFA).
    Delimiting cuts an SDU into user-data fields; EFCP, that
    is DTP for data and DTCP for control, puts each behind a header (PCI) in a data unit (a socket
    buffer), numbers it, keeps it until it may be sent and until it is acknowledged, and hands it
    to the relaying task (RMT).  The forwarding function (PFF) names the N-1 ports a PDU leaves by; the RMT
    writes it there, through SDU protection, or queues it until the port takes it.  At the other end EFCP puts
    the PDUs back in order, delimiting rebuilds the SDUs, and the KFA hands them to a reader.  The
    EFCP instances of an IPC process live in a container.  Connections and ports have identifiers from two managers.  The daemons
    configure all that through control messages, which are structures written to and read from a
    device; the kernel IPC manager (KIPCM) handles them, by calling the operations of an IPC process and
    the KFA, and answers.

    ** Files

    - [Prelude.v] (this file): machine integers, little-endian bytes, typed access to buffers,
      allocation oracles, list lemmas, the hint databases and the tactic [zb].
    - [Ids.v]: [Cidm] is [src/kernel/cidm.c], [Pidm] is [src/kernel/pidm.c].
    - [Kucommon.v], [Config.v]: the structures of [src/include/irati/kucommon.h]; [Config.v] has
      also the creation functions of [src/common/serdes-utils.c].
    - [Pci.v]: [src/kernel/pci.c], the offset table and every accessor of the header.
    - [Skb.v], [Du.v]: the interface of the socket buffers of Linux with a concrete instance,
      and [src/kernel/du.c] over it.
    - [Delim.v]: [src/kernel/delim-ps-default.c].
    - [Rds.v]: [src/kernel/rds/rqueue.c], [rfifo.c], [ringq.c], [rtimer.c]; the class [FifoLaws] is
      what the transfer protocol relies on, [FifoList] what the queues of the RMT and the KFA do.
    - [Queues.v]: the sequencing queue of [src/kernel/dtp.c] and the retransmission, round-trip-time
      and closed-window queues of [src/kernel/dtp-utils.c].
    - [EfcpState.v]: [struct dtp], [struct dtcp] and their state vectors ([src/kernel/efcp-str.h]), the
      state monad of the handlers and its logic ([hoare], [safe]).
    - [PduRefine.v]: the PDUs of the handlers against the bytes of [Pci.v].
    - [DtpUtils.v], [Dtcp.v], [Dtp.v]: the handlers of [src/kernel/dtp-utils.c], [dtcp.c], [dtp.c] with
      the default policies ([dtp-ps-default.c], [dtcp-ps-default.c]).
    - [Transfer.v]: the invariant of one end of a reliable connection under every handler.
    - [Efcp.v]: [efcp_receive] of [src/kernel/efcp.c], and two ends with a network between them.
    - [EfcpExamples.v]: a concrete connection and the EFCP theorems at it.
    - [EfcpSdu.v]: [efcp_write] and [efcp_enqueue] of [src/kernel/efcp.c], and two ends whose users write SDUs
      through delimiting;
      [SduExamples.v]: an SDU over the concrete connection.
    - [Names.v]: the functions on names of [src/common/serdes-utils.c].
    - [Serdes.v]: its [serialize_X], [deserialize_X] and [X_serlen]; [Wire.v]: what the receiver
      reads for every structure; [SerdesLaws.v], [SerdesLen.v]: that it does, and that the lengths
      are right, as instances of the classes [Reads] and [Announces].
    - [MsgLayout.v]: [src/include/irati/kernel-msg.h] and [src/common/ker-numtables.c]; [Messages.v]:
      the messages, proved against [Reads] and [Announces]; [MsgExamples.v]: a message, and the places
      where writer and reader disagree.
    - [Policies.v]: the parameters of policies ([src/kernel/policies.c]).
    - [RmtPs.v]: the class [RmtPs] of policy sets of the RMT with the laws [RmtPsLaws] the RMT relies on, and the
      default one ([src/kernel/rmt-ps-default.c]) as an instance.
    - [LgcLut.v]: the two tables of [src/plugins/lgc-shq/tcp_lgc_lut.c]; [LgcLaw.v]: the control law with them.
    - [LgcDtcp.v], [LgcRmt.v]: the two halves of LGC-ShQ ([src/plugins/lgc-shq/dtcp-ps-lgcshq.c],
      [rmt-ps-lgcshq.c]), [LgcRmt.v] as another instance of [RmtPs]; [LgcExamples.v]: both at concrete inputs.
    - [CcDtcp.v], [CcRmt.v]: the policy sets of the plugins [dctcp], [red] and [cong_avoidance] for DTCP and
      for the RMT; [CcExamples.v]: those of DTCP at concrete inputs.
    - [Pff.v]: the forwarding table ([src/kernel/pff-ps-default.c], [pff.c]) against a finite map.
    - [Rmt.v]: the N-1 ports of the RMT ([src/kernel/rmt.c]) as a transition system over its critical
      sections, for any instance of [RmtPs]; [RmtInv.v]: its invariant; [RmtWake.v]: no wake-up of the
      tasklet is lost; [RmtRuns.v]: runs.
    - [SdupMem.v]: the buffer of a data unit with its pointers; [Sdup.v]: the default policy sets of SDU
      protection ([src/kernel/sdup-crypto-ps-default.c], [sdup-errc-ps-default.c],
      [sdup-ttl-ps-default.c]) and the port that calls them ([sdup.c]); [SdupReplay.v]: the replay
      window; [SdupLaws.v]: protecting and unprotecting; [SdupTtl.v]: lifetimes, and where buffers are misused;
      [SdupExamples.v]: concrete ports.
    - [RmtFwd.v]: [rmt_receive], [rmt_send] and [n1_port_write] of [src/kernel/rmt.c] on the bytes of a
      PDU, and a network of nodes that relay PDUs, against a specification on headers; [RmtNet.v]: what
      follows for the way of a PDU, and senders that share the cache of next hops.
    - [Hmap.v]: the hash tables under an identifier ([src/kernel/kfa-utils.c], [efcp-utils.c], [kipcm-utils.c]).
    - [Kfa.v]: the flow allocator ([src/kernel/kfa.c]) as a transition system with sleeping threads;
      [KfaInv.v]: its invariant; [KfaWake.v]: readers are woken up; [KfaRuns.v]: runs; [KfaPids.v]:
      which port ids are reserved.
    - [EfcpCont.v]: the container of EFCP instances ([src/kernel/efcp.c]) as a transition system;
      [EfcpContInv.v]: its invariant; [EfcpContRuns.v]: destructions end, and runs.
    - [ContView.v]: the container as a map from cep-ids to ports.
    - [Prog.v]: the state monad in which the normal IPC process, the control device and the KIPCM are written,
      and its logic ([wp]).
    - [Normal.v]: the flows of the normal IPC process ([src/kernel/ipcps/normal-ipcp.c]) over the container;
      [NormalInv.v]: that flows and connections agree; [NormalExamples.v]: a flow, and uses that go wrong.
    - [Ctrldev.v]: the control device ([src/kernel/ctrldev.c]).
    - [Kipcm.v]: the KIPCM ([src/kernel/kipcm.c], [kipcm-utils.c], [ipcp-factories.c]), every handler of control
      messages; [KipcmLaws.v]: the messages it sends; [KipcmInv.v],
      [KipcmRuns.v]: requests to allocate flows over any run; [KipcmCtl.v]: a request from the bytes that are
      written to the bytes that are read; [KipcmExamples.v]: both at concrete inputs, and where the KIPCM
      goes wrong.

    ** Conventions

    A w-bit integer is a [Z] and its wrap-around is written out ([uwrap], [swrap]).  A pointer that
    may be null is an [option].  Every allocation may fail: its outcome is taken from a list of
    booleans, an exhausted list granting everything, or is an argument.  A fault (null dereference, access outside a
    buffer, use after free, double free) is [None] as the result of the operation.  In the transition systems a
    step is what happens under one hold of a lock, or between two; objects are known by their address, which is not
    reused, and ghost fields (their names begin with [g_]) record what passed through.  What the stack calls and does not
    contain is a parameter: the socket buffers ([SkBuff] with the laws [SkBuffLaws]), the outcome of
    [rmt_send] and of the posts to local flows, the clock and the random numbers ([env]), the algorithms
    of the crypto interface of Linux, the write operation of the IPC process below, the computations of
    RED in Linux, and for the KIPCM what IPC processes answer and call meanwhile ([world]) and the order in which a hash
    table is walked.

    ** What the theorems show

    - Reliable transfer: between two ends of an established connection with retransmission
      control (A timer 0, no gap allowed, memory granted), over a network that loses, duplicates and reorders, under
      every interleaving of writes, arrivals and timers other than the expiry of an inactivity timer, what a user is
      given is a prefix of what the other wrote ([efcp_reliable_transfer]), and all of it once every PDU arrives often
      enough ([dtp_eventual_delivery]); below it, the receiver in order, the sender inside its window,
      the closed-window queue, the opening of a run.  When the receiver's inactivity timer has expired, a later
      PDU is taken as the first of a run and what is missing before it is skipped ([efcp_inactivity_skips]).  With
      delimiting on top, SDUs come out as they went in ([efcp_sdu_transfer]).
    - Relaying: a port that a reader, a sender or the tasklet has counted is not freed, PDUs of a class leave in the
      order they came and none is lost ([rmt_ports_safe], [rmt_port_order]), an idle tasklet has nothing to do
      ([rmt_no_lost_wakeup]).  The thread that is unbinding a port, and the port the tasklet has saved as the next of
      its walk, are not counted by the code and not covered ([rmt_double_free] has a run of the former).  The forwarding table
      refines a map ([pff_refines]).
    - Forwarding: through nodes that decapsulate, look up, encapsulate and protect with a lifetime limit, a PDU
      reaches the node with its destination address as it was sent ([rmt_forwarding_delivers]), and every way ends,
      whatever the tables, when a node has one next hop for the PDU or copies start from a non-null protection
      header ([rmt_forwarding_ends]; [rmt_copies_lifetime] for the other case).
    - Flows and connections: threads find their flow or instance, counters are right, what is deallocated is
      reclaimed ([kfa_flows_safe], when no pending flow with readers is deallocated, no flow bound twice and no pending
      flow disabled; [efcp_container_safe], up to the point where an operation lowers its counter); SDUs are read in
      the order they were posted ([kfa_fifo_order]); sleepers are woken up ([kfa_no_lost_wakeup],
      [efcp_destroy_completes]).
    - IPC process: the connections of the container are those of the flows, and an SDU written to a flow finds
      the connection made for its port ([normal_flows_served]).
    - Control: every request to allocate a flow is answered once, with its own event id, over any order of
      messages, reports and steps of the KFA, and the KIPCM keeps to what the KFA requires ([kipcm_answers_once]); a
      request written as bytes is served and its reply read as bytes ([control_request_answered]).
    - SDU protection: unprotecting what was protected gives it back ([sdup_roundtrip]); the replay
      window refines a set of numbers when its size is not a multiple of 8 and the numbers stay below 2^31
      ([replay_refines]); a lifetime bounds the relays.
    - Congestion control: the arithmetic of LGC-ShQ stays inside its types and tables
      ([lgc_flow_control_safe]), its control law computes with the shipped tables what it should and moves the rate
      in the right direction ([lgc_update_rate_law]), its queues and its marking; the credits that DCTCP, RED and
      CAS give stay inside their bounds ([cc_policies_safe]).
    - Formats: the offset table tiles the header; setters, getters and [pci_format] agree;
      encapsulation and decapsulation are inverse; the bytes refine the attributes the handlers
      use ([pdu_set_refines], [pdu_format_refines]).
    - Delimiting: fragmentation and reassembly are inverse, and what arrives in any order, not
      empty, keeps the invariant and gives nothing or one whole SDU ([delim_process_udf_invariant]); an empty field is
      read outside its buffer ([delim_empty_udf]).
    - Queues, identifiers, timers: refinement of bounded FIFOs, exact effect of the
      operations, freshness, termination.
    - Control messages: the layout table describes the structures ([numtables_typed]), well-formed
      messages are read back ([irati_msg_roundtrip]), and the length announced for one without null names or buffers
      is the one written ([irati_msg_serlen_exact]).
    - Defects: where the code does not do what it means to, the theorem says what it does
      (a lost PDU after a failed acknowledgement, permuted policies, ports freed twice, buffers used after
      they were replaced, instances and flows used after they were freed, readers and writers that are never woken up,
      data skipped after an inactivity timer, fields read outside their buffer, flows changed outside their lock,
      copies with the wrong number of lifetimes, senders that take each other's ports, a handler that stays
      registered, messages that make the kernel call a null pointer, connections without a flow and flows without their
      connection).

    ** Fuel

    The search of the identifier managers has fuel; one turn of the identifier space is shown
    to be enough exactly when an identifier is free.  The fragmentation loops have fuel and
    finish when the fragment size is positive.  The loops over the queues of a connection are given the
    length of the queue, and the lemmas on them show that it suffices.  The hops of a PDU through a network have
    fuel; as much as its lifetime is enough.  The loop that destroys the instances of a factory is given their
    number ([wp_destroy_instances]).

    ** Not modelled

    The handlers of one connection (with them [efcp_write], of which one call runs at a time), the operations of the
    normal IPC process and those of the KIPCM run one after the other; the A timer has its handler in [Dtp.v] and is not
    armed in the two-end systems, where it is 0.  The end of a write that left the lock of the KFA is one step of [Kfa.v];
    [kfa_finish_races] has it in two.  Locks and sleeping threads are modelled in [Cidm], [Rmt.v],
    [Kfa.v] and [EfcpCont.v].  Sysfs objects, the selection of policy sets, debugging output and
    the functions that release the structures of the messages are left out.  The bytes that copies of a data unit
    share are modelled where SDU protection changes them ([SdupExamples.v]) and not in EFCP, whose copies are values.  Not modelled
    yet: the creation of protected ports and the negotiation of keys, the assignment of a normal IPC process to
    a DIF and its management SDUs, the creation and destruction of the KIPCM, the other policy sets (multipath, loop-free alternates,
    QTA-mux and those of the examples).  Left out for good: shim IPC processes, VMPI, RINARP and the data device, which are
    adapters to Linux; the C++ code; tools. *)

From Stdlib Require Import ZArith Lia Sorted Permutation.
From stdpp Require Import base list numbers option sets gmap.

#[local] Open Scope Z_scope.

(** ** Machine integers

    A [w]-bit C integer is a [Z]; the wrap-around of a conversion or of unsigned
    arithmetic is written out with [uwrap] and [swrap]. *)

Definition uwrap (w z : Z) : Z := z mod 2 ^ w.
Definition swrap (w z : Z) : Z := (z + 2 ^ (w - 1)) mod 2 ^ w - 2 ^ (w - 1).

Abbreviation u8 := (uwrap 8).
Abbreviation u16 := (uwrap 16).
Abbreviation u32 := (uwrap 32).
Abbreviation u64 := (uwrap 64).
Abbreviation s16 := (swrap 16).
Abbreviation s32 := (swrap 32).
Abbreviation s64 := (swrap 64).

(** Membership in the range of an unsigned/signed [w]-bit type. *)
Definition in_u (w z : Z) : Prop := 0 <= z < 2 ^ w.
Definition in_s (w z : Z) : Prop := - 2 ^ (w - 1) <= z < 2 ^ (w - 1).

#[export] Instance in_u_dec w z : Decision (in_u w z).
Proof. unfold in_u. apply _. Defined.
#[export] Instance in_s_dec w z : Decision (in_s w z).
Proof. unfold in_s. apply _. Defined.

(** Hint database of the development, and its rewriting database. *)
Create HintDb irati.
Create Rewrite HintDb irati_rw.

Lemma uwrap_range w z : 0 <= w -> in_u w (uwrap w z).
Proof. intros. apply Z.mod_pos_bound. apply Z.pow_pos_nonneg; lia. Qed.

Lemma uwrap_small w z : in_u w z -> uwrap w z = z.
Proof. intros H. apply Z.mod_small, H. Qed.

Lemma uwrap_uwrap w z : uwrap w (uwrap w z) = uwrap w z.
Proof. unfold uwrap. apply Zmod_mod. Qed.

Lemma swrap_small w z : in_s w z -> 0 < w -> swrap w z = z.
Proof.
  unfold in_s, swrap. intros H Hw.
  assert (2 ^ w = 2 * 2 ^ (w - 1)) as E.
  { rewrite <- Z.pow_succ_r by lia. f_equal. lia. }
  rewrite Z.mod_small; lia.
Qed.

Lemma swrap_uwrap w z : 0 <= w -> swrap w (uwrap w z) = swrap w z.
Proof. intros. unfold swrap, uwrap. rewrite Zplus_mod_idemp_l. done. Qed.

Lemma swrap_add w a b : swrap w (swrap w a + b) = swrap w (a + b).
Proof.
  unfold swrap. set (h := 2 ^ (w - 1)). set (m := 2 ^ w).
  replace ((a + h) mod m - h + b + h) with ((a + h) mod m + b) by lia.
  rewrite Zplus_mod_idemp_l. do 2 f_equal. lia.
Qed.

#[export] Hint Resolve uwrap_range : irati.
#[export] Hint Rewrite uwrap_uwrap : irati_rw.

(** ** Bytes: little-endian encoding of integers

    The target machines store integers in little-endian order; a byte is a [Z]
    in [0 .. 255]. *)

Fixpoint le_encode (n : nat) (z : Z) : list Z :=
  match n with
  | O => []
  | S n' => z mod 256 :: le_encode n' (z / 256)
  end.

Fixpoint le_decode (bs : list Z) : Z :=
  match bs with
  | [] => 0
  | b :: bs' => b + 256 * le_decode bs'
  end.

Lemma length_le_encode n z : length (le_encode n z) = n.
Proof. revert z. induction n; intros; simpl; auto. Qed.

Lemma le_decode_encode n z : le_decode (le_encode n z) = uwrap (8 * Z.of_nat n) z.
Proof.
  unfold uwrap. revert z. induction n as [|n IH]; intros z.
  - cbn. symmetry. apply Z.mod_1_r.
  - cbn [le_encode le_decode]. rewrite IH.
    replace (8 * Z.of_nat (S n)) with (8 + 8 * Z.of_nat n) by lia.
    rewrite Z.pow_add_r by lia. change (2 ^ 8) with 256.
    rewrite Z.rem_mul_r; [done | lia | apply Z.pow_pos_nonneg; lia].
Qed.

Lemma le_encode_uwrap n w z :
  8 * Z.of_nat n <= w -> le_encode n (uwrap w z) = le_encode n z.
Proof.
  unfold uwrap. revert w z. induction n as [|n IH]; intros w z Hw; [done|].
  cbn [le_encode]. assert (2 ^ w = 256 * 2 ^ (w - 8)) as E.
  { change 256 with (2 ^ 8). rewrite <- Z.pow_add_r by lia. f_equal. lia. }
  assert (0 < 2 ^ (w - 8)) by (apply Z.pow_pos_nonneg; lia).
  rewrite E, Z.rem_mul_r by lia. f_equal.
  - rewrite (Z.mul_comm 256), Z_mod_plus_full. apply Zmod_mod.
  - rewrite (Z.mul_comm 256), Z_div_plus_full by lia.
    rewrite (Z.div_small (z mod 256)) by (apply Z.mod_pos_bound; lia).
    rewrite Z.add_0_l. apply IH. lia.
Qed.

Definition is_byte (b : Z) : Prop := 0 <= b < 256.

Lemma le_encode_bytes n z : Forall is_byte (le_encode n z).
Proof.
  revert z. induction n as [|n IH]; intros z; cbn [le_encode]; constructor; [|apply IH].
  apply Z.mod_pos_bound. lia.
Qed.

#[export] Hint Resolve le_encode_bytes : irati.
#[export] Hint Rewrite length_le_encode le_decode_encode : irati_rw.

(** ** Typed access to a byte buffer

    [load]/[store] model [*((__uN * )(p + off))] on a buffer that starts at [p];
    an access that is not inside the buffer has no defined result in C and is
    [None]. *)

Definition load (n off : nat) (buf : list Z) : option Z :=
  if decide (off + n <= length buf)%nat
  then Some (le_decode (take n (drop off buf))) else None.

Definition store (n off : nat) (v : Z) (buf : list Z) : option (list Z) :=
  if decide (off + n <= length buf)%nat
  then Some (take off buf ++ le_encode n v ++ drop (off + n) buf) else None.

Lemma store_Some n off v buf :
  (off + n <= length buf)%nat ->
  store n off v buf = Some (take off buf ++ le_encode n v ++ drop (off + n) buf).
Proof. intros. unfold store. by rewrite decide_True. Qed.

Lemma store_length n off v buf buf' :
  store n off v buf = Some buf' -> length buf' = length buf.
Proof.
  unfold store. case_decide; intros; simplify_eq.
  rewrite !length_app, length_take, length_drop, length_le_encode. lia.
Qed.

Lemma store_bound n off v buf buf' :
  store n off v buf = Some buf' -> (off + n <= length buf)%nat.
Proof. unfold store. case_decide; congruence. Qed.

Lemma load_store_eq n off v buf buf' :
  store n off v buf = Some buf' -> load n off buf' = Some (uwrap (8 * Z.of_nat n) v).
Proof.
  intros H. pose proof (store_length _ _ _ _ _ H) as Hl.
  unfold store in H. case_decide as Hb; simplify_eq.
  unfold load. rewrite decide_True by (rewrite Hl; lia). f_equal.
  rewrite drop_app_le by (rewrite length_take; lia).
  rewrite (drop_ge (take off buf)) by (rewrite length_take; lia). cbn [app].
  rewrite take_app_le by (rewrite length_le_encode; lia).
  rewrite take_ge by (rewrite length_le_encode; lia).
  apply le_decode_encode.
Qed.

Lemma load_store_ne n off v m off' buf buf' :
  store n off v buf = Some buf' ->
  (off' + m <= off \/ off + n <= off')%nat ->
  load m off' buf' = load m off' buf.
Proof.
  intros H Hd. pose proof (store_length _ _ _ _ _ H) as Hl.
  unfold store in H. case_decide as Hb; simplify_eq.
  unfold load. rewrite Hl. case_decide as Hm; [|done]. do 2 f_equal.
  apply list_eq. intros i. destruct (decide (i < m)%nat) as [Hi|Hi].
  - rewrite !lookup_take_lt, !lookup_drop by lia. destruct Hd.
    + rewrite lookup_app_l by (rewrite length_take; lia).
      by rewrite lookup_take_lt by lia.
    + rewrite lookup_app_r by (rewrite length_take; lia).
      rewrite lookup_app_r by (rewrite length_le_encode, length_take; lia).
      rewrite lookup_drop, length_take, length_le_encode. f_equal. lia.
  - by rewrite !lookup_take_ge by lia.
Qed.

(** A store leaves the bytes behind it alone. *)
Lemma store_drop n off v buf buf' k :
  store n off v buf = Some buf' -> (off + n <= k)%nat -> drop k buf' = drop k buf.
Proof.
  unfold store. case_decide; intros; simplify_eq.
  rewrite drop_app_ge by (rewrite length_take; lia).
  rewrite drop_app_ge by (rewrite length_le_encode, length_take; lia).
  rewrite drop_drop, length_take, length_le_encode. f_equal. lia.
Qed.

(** A load inside a buffer does not see what follows it. *)
Lemma load_is_Some n off buf : (off + n <= length buf)%nat -> is_Some (load n off buf).
Proof. intros. unfold load. rewrite decide_True by done. by eexists. Qed.

Lemma load_app n off buf ext v : load n off buf = Some v -> load n off (buf ++ ext) = Some v.
Proof.
  unfold load. case_decide as Hb; [|done]. intros; simplify_eq.
  rewrite decide_True by (rewrite length_app; lia). do 2 f_equal.
  rewrite drop_app_le by lia. by rewrite take_app_le by (rewrite length_drop; lia).
Qed.

(** ** Allocation

    [rkmalloc]/[rkzalloc]/[alloc_skb] may fail.  A sequence of allocations is
    driven by an oracle that lists their outcomes; an exhausted oracle grants
    everything. *)

Definition oracle : Type := list bool.

Definition rkmalloc (o : oracle) : bool * oracle :=
  match o with
  | [] => (true, [])
  | b :: o' => (b, o')
  end.

(** ** Generic list lemmas *)

(** Removal of the first element that satisfies a test, and of all of them. *)
Fixpoint remove_first {A} (p : A -> bool) (l : list A) : list A :=
  match l with
  | [] => []
  | x :: l' => if p x then l' else x :: remove_first p l'
  end.

Fixpoint remove_all {A} (p : A -> bool) (l : list A) : list A :=
  match l with
  | [] => []
  | x :: l' => if p x then remove_all p l' else x :: remove_all p l'
  end.

Lemma remove_all_no_match {A} (p : A -> bool) l :
  (forall x, x ∈ l -> p x = false) -> remove_all p l = l.
Proof.
  induction l as [|x l IH]; intros H; [done|]. cbn.
  rewrite H by set_solver. f_equal. apply IH. set_solver.
Qed.

Lemma remove_first_all_NoDup (l : list Z) x :
  NoDup l -> remove_first (Z.eqb x) l = remove_all (Z.eqb x) l.
Proof.
  induction 1 as [|y l Hy Hl IH]; [done|]. cbn. case (Z.eqb_spec x y); intros; [|by f_equal].
  subst. symmetry. apply remove_all_no_match. intros z Hz. apply Z.eqb_neq. set_solver.
Qed.

Lemma elem_of_remove_all (l : list Z) x y :
  y ∈ remove_all (Z.eqb x) l <-> y ∈ l /\ y <> x.
Proof.
  induction l as [|z l IH]; cbn; [set_solver|].
  destruct (Z.eqb_spec x z); set_solver.
Qed.

Lemma NoDup_remove_all (l : list Z) x : NoDup l -> NoDup (remove_all (Z.eqb x) l).
Proof.
  induction 1 as [|y l Hy Hl IH]; cbn; [constructor|].
  destruct (Z.eqb_spec x y); [done|]. constructor; [|done].
  rewrite elem_of_remove_all. tauto.
Qed.

(** Destruct every [if]/[match] discriminee of the goal or the hypotheses that
    is a boolean comparison of integers, leaving the comparison as arithmetic. *)
Ltac zb :=
  repeat match goal with
  | H : context [(?a =? ?b)%Z] |- _ => destruct (Z.eqb_spec a b)
  | H : context [(?a <? ?b)%Z] |- _ => destruct (Z.ltb_spec a b)
  | H : context [(?a <=? ?b)%Z] |- _ => destruct (Z.leb_spec a b)
  | |- context [(?a =? ?b)%Z] => destruct (Z.eqb_spec a b)
  | |- context [(?a <? ?b)%Z] => destruct (Z.ltb_spec a b)
  | |- context [(?a <=? ?b)%Z] => destruct (Z.leb_spec a b)
  end.
