(* ===== verification/Ids.v ===== *)
(** * Identifier managers

    [Cidm] models [src/kernel/cidm.c] (connection-endpoint identifiers of an EFCP
    container) and [Pidm] models [src/kernel/pidm.c] (port identifiers of the
    KIPCM).  Both keep the list of identifiers in use and the last one given out,
    and search cyclically in [1 .. MAX] for a free one.  The search loop has no
    bound in the source: it is modelled with fuel, and the theorems show that one
    turn of the identifier space is enough exactly when an identifier is free. *)

From S2P Require Import Prelude.
From Stdlib Require Import ZArith Lia.
From stdpp Require Import base list numbers option sets gmap.
#[local] Open Scope Z_scope.

(** ** The cyclic search shared by the two managers *)

Module Cyclic.

(** The successor of an identifier: the [if (id == MAX) id = 1 else id++] of
    both search loops. *)
Definition next_id (max id : Z) : Z := if id =? max then 1 else id + 1.

(** [search] counts the identifiers found busy before the free one. *)
Fixpoint search (max : Z) (ids : list Z) (fuel : nat) (id : Z) : option (Z * nat) :=
  match fuel with
  | O => None
  | S fuel' =>
      if decide (id ∈ ids) then
        '(r, k) ← search max ids fuel' (next_id max id); Some (r, S k)
      else Some (id, 0%nat)
  end.

Section Cyclic.
Context (max : Z) (max_pos : 0 < max).

Definition in_range (id : Z) : Prop := 1 <= id <= max.

Lemma next_id_range id : in_range id -> in_range (next_id max id).
Proof. unfold in_range, next_id. case (Z.eqb_spec id max); lia. Qed.

Lemma next_id_mod id : in_range id -> next_id max id = id mod max + 1.
Proof.
  unfold in_range, next_id. intros H. case (Z.eqb_spec id max); intros; subst.
  - rewrite Z_mod_same_full. lia.
  - rewrite Z.mod_small; lia.
Qed.

Lemma iter_next_id k id :
  in_range id -> Nat.iter k (next_id max) id = (id - 1 + Z.of_nat k) mod max + 1.
Proof.
  intros Hid. induction k as [|k IH].
  - cbn. rewrite Z.add_0_r, Z.mod_small; unfold in_range in *; lia.
  - rewrite Nat.iter_succ, IH, next_id_mod.
    + rewrite Zplus_mod_idemp_l. f_equal. f_equal. lia.
    + unfold in_range. pose proof (Z.mod_pos_bound (id - 1 + Z.of_nat k) max). lia.
Qed.

(** Every identifier is met within one turn. *)
Lemma reach id x :
  in_range id -> in_range x ->
  exists k, (k < Z.to_nat max)%nat /\ Nat.iter k (next_id max) id = x.
Proof.
  intros Hid Hx. exists (Z.to_nat ((x - id) mod max)).
  pose proof (Z.mod_pos_bound (x - id) max max_pos). split; [lia|].
  rewrite iter_next_id, Z2Nat.id by (done || lia).
  rewrite Zplus_mod_idemp_r. unfold in_range in *.
  replace (id - 1 + (x - id)) with (x - 1) by lia. rewrite Z.mod_small; lia.
Qed.

Lemma iter_shift k id :
  Nat.iter k (next_id max) (next_id max id) = next_id max (Nat.iter k (next_id max) id).
Proof. induction k as [|k IH]; [done|]. rewrite !Nat.iter_succ. congruence. Qed.

Lemma search_None ids fuel id :
  search max ids fuel id = None <->
  forall k, (k < fuel)%nat -> Nat.iter k (next_id max) id ∈ ids.
Proof.
  revert id. induction fuel as [|fuel IH]; intros id; cbn; [split; [lia|done]|].
  case_decide as Hin.
  - transitivity (search max ids fuel (next_id max id) = None).
    + destruct (search _ _ fuel _) as [[r j]|]; cbn; split; congruence.
    + rewrite IH. split; intros H k Hk.
      * destruct k as [|k]; [done|]. rewrite Nat.iter_succ, <- iter_shift. apply H. lia.
      * rewrite iter_shift. apply (H (S k)). lia.
  - split; [congruence|]. intros H. destruct Hin. apply (H 0%nat). lia.
Qed.

Lemma search_Some ids fuel id r k :
  search max ids fuel id = Some (r, k) -> in_range id ->
  in_range r /\ r ∉ ids /\ (k = 0%nat <-> id ∉ ids).
Proof.
  revert id k. induction fuel as [|fuel IH]; intros id k; cbn; [done|].
  case_decide as Hin; [|intros; simplify_eq; tauto].
  destruct (search _ _ fuel _) as [[r' j]|] eqn:E; cbn; [|done].
  intros Heq Hid; simplify_eq. apply IH in E as (? & ? & _); [|by apply next_id_range].
  split_and!; [done..|]. split; [lia|tauto].
Qed.

(** With a free identifier, one turn of the identifier space finds one. *)
Lemma search_finds ids id :
  in_range id -> (length ids < Z.to_nat max)%nat ->
  is_Some (search max ids (Z.to_nat max) id).
Proof.
  intros Hid Hlen. destruct (search _ _ _ _) as [p|] eqn:E; [by eexists|exfalso].
  rewrite search_None in E.
  assert (seqZ 1 max ⊆+ ids) as Hsub.
  { apply NoDup_submseteq; [apply NoDup_seqZ|]. intros x. rewrite elem_of_seqZ. intros Hx.
    destruct (reach id x) as (k & Hk & <-); [done|unfold in_range; lia|]. by apply E. }
  apply submseteq_length in Hsub. rewrite length_seqZ in Hsub. lia.
Qed.

(** With no free identifier, no amount of fuel finds one. *)
Lemma search_full ids fuel id :
  in_range id -> (forall x, in_range x -> x ∈ ids) -> search max ids fuel id = None.
Proof.
  intros Hid Hfull. apply search_None. intros k _. apply Hfull.
  induction k as [|k IH]; [done|]. rewrite Nat.iter_succ. by apply next_id_range.
Qed.

(** The well-formedness both managers maintain. *)
Record wf (ids : list Z) (last : Z) : Prop := {
  wf_nodup : NoDup ids;
  wf_ids : Forall in_range ids;
  wf_last : 0 <= last <= max
}.

Lemma wf_start ids last : wf ids last -> in_range (next_id max last).
Proof. intros [_ _ H]. unfold in_range, next_id. case (Z.eqb_spec last max); lia. Qed.

Lemma wf_add ids last id : wf ids last -> in_range id -> id ∉ ids -> wf (id :: ids) id.
Proof.
  intros [? ? ?] Hr ?. split.
  - by constructor.
  - by constructor.
  - unfold in_range in Hr; lia.
Qed.

Lemma wf_remove ids last id : wf ids last -> wf (remove_all (Z.eqb id) ids) last.
Proof.
  intros [? H ?]. split; [by apply NoDup_remove_all| |done].
  rewrite Forall_forall in *. intros x Hx. by apply elem_of_remove_all in Hx as [Hx%H _].
Qed.

End Cyclic.

#[export] Hint Resolve wf_start wf_add wf_remove next_id_range : irati.
End Cyclic.

Import Cyclic.

(** Well-formedness of a concrete manager, by evaluation. *)
Ltac id_wf :=
  split; [apply (bool_decide_unpack _); vm_compute; exact I
         |cbn; repeat constructor; vm_compute; congruence
         |vm_compute; split; congruence].

(** ** [cidm.c] *)

Module Cidm.

Definition BITS_PER_BYTE : Z := 8.
Definition sizeof_cep_id_t : Z := 4.
Definition MAX_CEP_ID : Z := Z.shiftl 2 BITS_PER_BYTE * sizeof_cep_id_t - 1.
Definition port_id_bad : Z := -1.
Definition cep_id_bad : Z := -1.
Definition is_port_id_ok (id : Z) : bool := 0 <=? id.

(** [lock] is the balance of [spin_lock]s over [spin_unlock]s. *)
Record cidm := mk_cidm {
  allocated_cep_ids : list Z;
  last_allocated : Z;
  lock : Z
}.

Definition spin_lock (i : cidm) : cidm :=
  mk_cidm i.(allocated_cep_ids) i.(last_allocated) (i.(lock) + 1).
Definition spin_unlock (i : cidm) : cidm :=
  mk_cidm i.(allocated_cep_ids) i.(last_allocated) (i.(lock) - 1).

Definition cidm_create (mem : bool) : option cidm :=
  if mem then Some (spin_unlock (mk_cidm [] 0 1)) else None.

Definition cidm_destroy (instance : option cidm) : Z * option cidm :=
  match instance with
  | None => (-1, None)
  | Some _ => (0, None)
  end.

(** The lookup releases the lock of the instance when it finds the id. *)
Definition cidm_allocated (i : cidm) (cep_id : Z) : Z * cidm :=
  if decide (cep_id ∈ i.(allocated_cep_ids)) then (1, spin_unlock i) else (0, i).

(** The [while (cidm_allocated(...))] loop of [cidm_allocate]. *)
Fixpoint cidm_allocate_loop (fuel : nat) (i : cidm) (cep_id : Z) : option (Z * cidm) :=
  match fuel with
  | O => None
  | S fuel' =>
      let '(busy, i) := cidm_allocated i cep_id in
      if busy =? 0 then Some (cep_id, i)
      else cidm_allocate_loop fuel' i (if cep_id =? MAX_CEP_ID then 1 else cep_id + 1)
  end.

(** [None] is a loop that has not finished within [fuel] turns. *)
Definition cidm_allocate (fuel : nat) (mem : bool) (instance : option cidm)
  : option (Z * option cidm) :=
  match instance with
  | None => Some (port_id_bad, None)
  | Some i =>
      let i := spin_lock i in
      let cep_id := if i.(last_allocated) =? MAX_CEP_ID then 1
                    else i.(last_allocated) + 1 in
      match cidm_allocate_loop fuel i cep_id with
      | None => None
      | Some (cep_id, i) =>
          if mem then
            let i := mk_cidm (cep_id :: i.(allocated_cep_ids)) cep_id i.(lock) in
            Some (cep_id, Some (spin_unlock i))
          else Some (cep_id_bad, Some (spin_unlock i))
      end
  end.

Definition cidm_release (instance : option cidm) (id : Z) : Z * option cidm :=
  if negb (is_port_id_ok id) then (-1, instance)
  else match instance with
  | None => (-1, None)
  | Some i =>
      let i := spin_lock i in
      if decide (id ∈ i.(allocated_cep_ids)) then
        (0, Some (spin_unlock (mk_cidm (remove_first (Z.eqb id) i.(allocated_cep_ids))
                                 i.(last_allocated) i.(lock))))
      else (-1, Some (spin_unlock i))
  end.

Definition wf (i : cidm) : Prop :=
  Cyclic.wf MAX_CEP_ID i.(allocated_cep_ids) i.(last_allocated).

(** The fuel of one turn of the identifier space. *)
Definition turn : nat := Z.to_nat MAX_CEP_ID.

(** The loop is the cyclic search, with one unlock per busy identifier. *)
Lemma cidm_loop_search fuel i id :
  cidm_allocate_loop fuel i id =
  ('(r, k) ← search MAX_CEP_ID i.(allocated_cep_ids) fuel id;
   Some (r, mk_cidm i.(allocated_cep_ids) i.(last_allocated) (i.(lock) - Z.of_nat k))).
Proof.
  revert i id. induction fuel as [|fuel IH]; intros i id; [done|].
  cbn [cidm_allocate_loop search]. unfold cidm_allocated. case_decide as H; cbn [Z.eqb].
  - rewrite IH. change (if id =? MAX_CEP_ID then 1 else id + 1) with (next_id MAX_CEP_ID id).
    cbn [allocated_cep_ids spin_unlock]. destruct (search _ _ fuel _) as [[r k]|]; cbn; [|done].
    do 3 f_equal. lia.
  - cbn. destruct i. do 3 f_equal. cbn. lia.
Qed.

Lemma cidm_create_wf i : cidm_create true = Some i -> wf i /\ i.(lock) = 0.
Proof. intros H; inversion H. split; [id_wf|done]. Qed.

(** What [cidm_allocate] gives when it returns: a fresh identifier, which is now in use, or none. *)
Lemma cidm_allocate_result fuel mem i id p :
  wf i -> cidm_allocate fuel mem (Some i) = Some (id, p) ->
  exists i', p = Some i' /\ wf i' /\
    if mem then in_range MAX_CEP_ID id /\ id ∉ i.(allocated_cep_ids) /\ i'.(allocated_cep_ids) = id :: i.(allocated_cep_ids)
    else id = cep_id_bad /\ i'.(allocated_cep_ids) = i.(allocated_cep_ids).
Proof.
  intros Hwf. unfold cidm_allocate. rewrite cidm_loop_search. cbn [spin_lock last_allocated].
  change (if last_allocated i =? _ then _ else _) with (next_id MAX_CEP_ID (last_allocated i)).
  cbn. destruct (search _ _ fuel _) as [[r k]|] eqn:E; cbn; [|done].
  apply search_Some in E as (Hr & Hnin & _); [|done|by eapply wf_start].
  destruct mem; intros [= <- <-]; eexists; (split; [done|]); [|done]. split; [by eapply wf_add|done].
Qed.

(** With fewer than [MAX_CEP_ID] identifiers in use, [cidm_allocate]
    finishes within one turn of the identifier space and returns an identifier
    in range that was not in use, which it records as in use and as the last
    one given out, keeping the manager well formed. *)
Theorem cidm_allocate_fresh (i : cidm) :
  wf i -> (length i.(allocated_cep_ids) < turn)%nat ->
  exists id i', cidm_allocate turn true (Some i) = Some (id, Some i') /\
    in_range MAX_CEP_ID id /\ id ∉ i.(allocated_cep_ids) /\
    i'.(allocated_cep_ids) = id :: i.(allocated_cep_ids) /\
    i'.(last_allocated) = id /\ wf i'.
Proof.
  intros Hwf Hlen. unfold cidm_allocate. rewrite cidm_loop_search. cbn [spin_lock last_allocated].
  change (if last_allocated i =? _ then _ else _) with (next_id MAX_CEP_ID (last_allocated i)).
  pose proof (wf_start MAX_CEP_ID eq_refl _ _ Hwf) as Hst.
  destruct (search_finds MAX_CEP_ID eq_refl (allocated_cep_ids i) _ Hst Hlen) as [[r k] E].
  cbn. unfold turn. rewrite E. cbn.
  apply search_Some in E as (Hr & Hnin & _); [|done|done].
  eexists _, _. split_and!; [done..|]. by eapply wf_add.
Qed.

Lemma cidm_allocate_fresh_witness :
  exists id i', cidm_allocate turn true (Some (mk_cidm [1; 2047] 2047 0)) = Some (id, Some i') /\
    in_range MAX_CEP_ID id /\ id ∉ [1; 2047] /\
    i'.(allocated_cep_ids) = id :: [1; 2047] /\ i'.(last_allocated) = id /\ wf i'.
Proof.
  apply (cidm_allocate_fresh (mk_cidm [1; 2047] 2047 0)).
  - id_wf.
  - apply (bool_decide_unpack _). vm_compute. exact I.
Defined.

(** When every identifier is in use, [cidm_allocate] never returns: its
    loop does not finish for any number of turns. *)
Theorem cidm_allocate_full (fuel : nat) (mem : bool) (i : cidm) :
  wf i -> (forall x, in_range MAX_CEP_ID x -> x ∈ i.(allocated_cep_ids)) ->
  cidm_allocate fuel mem (Some i) = None.
Proof.
  intros Hwf Hfull. unfold cidm_allocate. rewrite cidm_loop_search. cbn [spin_lock last_allocated].
  change (if last_allocated i =? _ then _ else _) with (next_id MAX_CEP_ID (last_allocated i)).
  cbn. rewrite search_full; [done|done|by eapply wf_start|done].
Qed.

Lemma cidm_allocate_full_witness :
  cidm_allocate 10 true (Some (mk_cidm (seqZ 1 MAX_CEP_ID) 5 0)) = None.
Proof.
  apply cidm_allocate_full.
  - split; [apply NoDup_seqZ|apply Forall_forall; intros x Hx; apply elem_of_seqZ in Hx
                              |cbn]; unfold in_range; change MAX_CEP_ID with 2047 in *; lia.
  - intros x Hx. apply elem_of_seqZ. unfold in_range in Hx. lia.
Defined.

(** [cidm_allocate] leaves the spin lock balanced exactly when the first
    candidate was free; after a collision the lock has been released more often
    than it was taken. *)
Theorem cidm_allocate_lock (fuel : nat) (i i' : cidm) (id : Z) :
  wf i -> cidm_allocate fuel true (Some i) = Some (id, Some i') ->
  i'.(lock) <= i.(lock) /\
  (i'.(lock) = i.(lock) <-> next_id MAX_CEP_ID i.(last_allocated) ∉ i.(allocated_cep_ids)).
Proof.
  intros Hwf. unfold cidm_allocate. rewrite cidm_loop_search. cbn [spin_lock last_allocated].
  change (if last_allocated i =? _ then _ else _) with (next_id MAX_CEP_ID (last_allocated i)).
  cbn. destruct (search _ _ fuel _) as [[r k]|] eqn:E; cbn; [|done]. intros; simplify_eq.
  apply search_Some in E as (_ & _ & <-); [|done|by eapply wf_start].
  cbn. split; lia.
Qed.

Lemma cidm_allocate_lock_witness :
  (-1) <= 0 /\ (-1 = 0 <-> next_id MAX_CEP_ID 2047 ∉ [1; 2047]).
Proof.
  apply (cidm_allocate_lock 5 (mk_cidm [1; 2047] 2047 0) (mk_cidm [2; 1; 2047] 2 (-1)) 2).
  - id_wf.
  - reflexivity.
Defined.

(** Releasing an identifier in use removes exactly that one and succeeds,
    releasing one that is not in use fails and changes nothing; the lock is
    balanced on both paths and well-formedness is kept. *)
Theorem cidm_release_spec (i : cidm) (id : Z) :
  wf i -> 0 <= id ->
  exists ret i', cidm_release (Some i) id = (ret, Some i') /\ wf i' /\ i'.(lock) = i.(lock) /\
    (ret = 0 <-> id ∈ i.(allocated_cep_ids)) /\ (ret <> 0 -> i' = i) /\
    (forall x, x ∈ i'.(allocated_cep_ids) <-> x ∈ i.(allocated_cep_ids) /\ x <> id).
Proof.
  intros Hwf Hid. unfold cidm_release, is_port_id_ok.
  rewrite (proj2 (Z.leb_le 0 id) Hid). cbn.
  pose proof (wf_nodup _ _ _ Hwf) as Hnd. case_decide as Hin.
  - eexists _, _. split; [done|]. cbn. rewrite remove_first_all_NoDup by done.
    split_and!; [by apply wf_remove|lia|done|congruence|].
    intros x. apply elem_of_remove_all.
  - eexists _, _. split; [done|]. split_and!; cbn; try done.
    + lia.
    + intros _. destruct i. unfold spin_unlock, spin_lock. cbn. f_equal. lia.
    + set_solver.
Qed.

Lemma cidm_release_spec_witness :
  exists ret i', cidm_release (Some (mk_cidm [3; 1] 3 0)) 1 = (ret, Some i') /\ wf i' /\
    i'.(lock) = 0 /\ (ret = 0 <-> 1 ∈ [3; 1]) /\ (ret <> 0 -> i' = mk_cidm [3; 1] 3 0) /\
    (forall x, x ∈ i'.(allocated_cep_ids) <-> x ∈ [3; 1] /\ x <> 1).
Proof.
  apply (cidm_release_spec (mk_cidm [3; 1] 3 0) 1); [|lia].
  id_wf.
Defined.

End Cidm.

(** ** [pidm.c] *)

Module Pidm.

Definition BITS_PER_BYTE : Z := 8.
Definition sizeof_port_id_t : Z := 4.
Definition MAX_PORT_ID : Z := Z.shiftl 2 BITS_PER_BYTE * sizeof_port_id_t - 1.
Definition port_id_bad : Z := -1.
Definition is_port_id_ok (id : Z) : bool := 0 <=? id.

Record pidm := mk_pidm {
  allocated_ports : list Z;
  last_allocated : Z
}.

Definition pidm_create (mem : bool) : option pidm :=
  if mem then Some (mk_pidm [] 0) else None.

Definition pidm_destroy (instance : option pidm) : Z * option pidm :=
  match instance with
  | None => (-1, None)
  | Some _ => (0, None)
  end.

Definition pidm_allocated (i : pidm) (port_id : Z) : Z :=
  if decide (port_id ∈ i.(allocated_ports)) then 1 else 0.

(** The [while (pidm_allocated(...))] loop of [pidm_allocate]. *)
Fixpoint pidm_allocate_loop (fuel : nat) (i : pidm) (pid : Z) : option Z :=
  match fuel with
  | O => None
  | S fuel' =>
      if pidm_allocated i pid =? 0 then Some pid
      else pidm_allocate_loop fuel' i (if pid =? MAX_PORT_ID then 1 else pid + 1)
  end.

Definition pidm_allocate (fuel : nat) (mem : bool) (instance : option pidm)
  : option (Z * option pidm) :=
  match instance with
  | None => Some (port_id_bad, None)
  | Some i =>
      let pid := if i.(last_allocated) =? MAX_PORT_ID then 1
                 else i.(last_allocated) + 1 in
      match pidm_allocate_loop fuel i pid with
      | None => None
      | Some pid =>
          if mem then Some (pid, Some (mk_pidm (pid :: i.(allocated_ports)) pid))
          else Some (port_id_bad, Some i)
      end
  end.

(** [pidm_release] scans the whole list, removes every match, and reports
    success whether or not it found one. *)
Definition pidm_release (instance : option pidm) (id : Z) : Z * option pidm :=
  if negb (is_port_id_ok id) then (-1, instance)
  else match instance with
  | None => (-1, None)
  | Some i => (0, Some (mk_pidm (remove_all (Z.eqb id) i.(allocated_ports)) i.(last_allocated)))
  end.

Definition wf (i : pidm) : Prop :=
  Cyclic.wf MAX_PORT_ID i.(allocated_ports) i.(last_allocated).

Definition turn : nat := Z.to_nat MAX_PORT_ID.

Lemma pidm_loop_search fuel i id :
  pidm_allocate_loop fuel i id = fst <$> search MAX_PORT_ID i.(allocated_ports) fuel id.
Proof.
  revert id. induction fuel as [|fuel IH]; intros id; [done|].
  cbn [pidm_allocate_loop search]. unfold pidm_allocated. case_decide; cbn [Z.eqb]; [|done].
  rewrite IH. change (if id =? MAX_PORT_ID then 1 else id + 1) with (next_id MAX_PORT_ID id).
  by destruct (search _ _ fuel _) as [[r k]|].
Qed.

(** With a free port identifier, [pidm_allocate] finishes within one turn
    with one that was not in use; releasing it right away gives back the same
    set of ports in use and keeps the manager well formed. *)
Theorem pidm_allocate_release (i : pidm) :
  wf i -> (length i.(allocated_ports) < turn)%nat ->
  exists id i' i'', pidm_allocate turn true (Some i) = Some (id, Some i') /\
    in_range MAX_PORT_ID id /\ id ∉ i.(allocated_ports) /\
    i'.(allocated_ports) = id :: i.(allocated_ports) /\ wf i' /\
    pidm_release (Some i') id = (0, Some i'') /\
    i''.(allocated_ports) = i.(allocated_ports) /\ wf i''.
Proof.
  intros Hwf Hlen. unfold pidm_allocate. rewrite pidm_loop_search.
  change (if last_allocated i =? _ then _ else _) with (next_id MAX_PORT_ID (last_allocated i)).
  pose proof (wf_start MAX_PORT_ID eq_refl _ _ Hwf) as Hst.
  destruct (search_finds MAX_PORT_ID eq_refl (allocated_ports i) _ Hst Hlen) as [[r k] E].
  unfold turn. rewrite E. cbn.
  apply search_Some in E as (Hr & Hnin & _); [|done|done].
  assert (wf (mk_pidm (r :: allocated_ports i) r)) as Hwf' by by eapply wf_add.
  assert (remove_all (Z.eqb r) (r :: allocated_ports i) = allocated_ports i) as Hrem.
  { cbn. rewrite Z.eqb_refl. apply remove_all_no_match. intros x Hx. apply Z.eqb_neq. congruence. }
  eexists r, _, _. split; [done|]. unfold pidm_release, is_port_id_ok.
  rewrite (proj2 (Z.leb_le 0 r)) by (destruct Hr; lia).
  split_and!; try done. by apply (wf_remove _ _ _ r) in Hwf'.
Qed.

Lemma pidm_allocate_release_witness :
  exists id i' i'', pidm_allocate turn true (Some (mk_pidm [1; 2] 2047)) = Some (id, Some i') /\
    in_range MAX_PORT_ID id /\ id ∉ [1; 2] /\
    i'.(allocated_ports) = id :: [1; 2] /\ wf i' /\
    pidm_release (Some i') id = (0, Some i'') /\
    i''.(allocated_ports) = [1; 2] /\ wf i''.
Proof.
  apply (pidm_allocate_release (mk_pidm [1; 2] 2047)); [id_wf|].
  apply (bool_decide_unpack _). vm_compute. exact I.
Defined.

(** [pidm_release] reports success for any identifier that is not negative,
    and an identifier that is not in use leaves the manager unchanged. *)
Theorem pidm_release_unknown (i : pidm) (id : Z) :
  0 <= id -> id ∉ i.(allocated_ports) -> pidm_release (Some i) id = (0, Some i).
Proof.
  intros Hid Hn. unfold pidm_release, is_port_id_ok.
  rewrite (proj2 (Z.leb_le 0 id) Hid). cbn. rewrite remove_all_no_match; [by destruct i|].
  intros x Hx. apply Z.eqb_neq. congruence.
Qed.

Lemma pidm_release_unknown_witness :
  pidm_release (Some (mk_pidm [1; 2] 2)) 9 = (0, Some (mk_pidm [1; 2] 2)).
Proof.
  apply pidm_release_unknown; [lia|]. apply (bool_decide_unpack _). vm_compute. exact I.
Defined.

End Pidm.
