(* ===== verification/Kucommon.v ===== *)
(** * Data structures shared by the kernel and user space

    The structures of [src/include/irati/kucommon.h] that the components use,
    with the fields in the order of the source.  A C integer field is a [Z]; the
    width of its type is kept by the [*_ok] predicates of the components that
    need it. *)

From S2P Require Import Prelude.
From Stdlib Require Import ZArith.
From stdpp Require Import base list numbers option.
#[local] Open Scope Z_scope.

(** [struct dt_cons]: the lengths of the fields of the PCI of a DIF, in bytes,
    and the limits of the DIF. *)
Record dt_cons := mk_dt_cons {
  address_length : Z;
  cep_id_length : Z;
  length_length : Z;
  port_id_length : Z;
  qos_id_length : Z;
  seq_num_length : Z;
  ctrl_seq_num_length : Z;
  max_pdu_size : Z;
  max_sdu_size : Z;
  max_pdu_life : Z;
  rate_length : Z;
  frame_length : Z;
  dif_integrity : bool;
  seq_rollover_thres : Z;
  dif_concat : bool;
  dif_frag : bool;
  max_time_to_keep_ret_ : Z;
  max_time_to_ack_ : Z
}.

Definition PORT_ID_WRONG : Z := -1.
Definition CEP_ID_WRONG : Z := -1.

(** A C string that is not null, without its terminator, and a pointer to one. *)
Abbreviation cstring := (list Z).
Abbreviation string_ptr := (option (list Z)).

(** [struct policy_parm] and [struct policy]. *)
Record policy_parm := mk_policy_parm { parm_name : string_ptr; parm_value : string_ptr }.
Record policy := mk_policy {
  policy_name : string_ptr;
  policy_version : string_ptr;
  policy_params : list policy_parm
}.

(** [struct dtp_config]. *)
Record dtp_config := mk_dtp_config {
  dtcp_present : bool;
  seq_num_ro_th : Z;
  initial_a_timer : Z;
  dtpc_partial_delivery : bool;
  dtpc_incomplete_delivery : bool;
  dtpc_in_order_delivery : bool;
  dtpc_max_sdu_gap : Z;
  dtp_ps_policy : option policy
}.

(** [struct window_fctrl_config] and [struct rate_fctrl_config]. *)
Record window_fctrl_config := mk_window_fctrl_config {
  max_closed_winq_length : Z;
  initial_credit : Z;
  wfc_rcvr_flow_control : option policy;
  wfc_tx_control : option policy
}.

Record rate_fctrl_config := mk_rate_fctrl_config {
  sending_rate : Z;
  time_period : Z;
  rfc_no_rate_slow_down : option policy;
  rfc_no_override_default_peak : option policy;
  rfc_rate_reduction : option policy
}.

(** [struct dtcp_fctrl_config]. *)
Record dtcp_fctrl_config := mk_dtcp_fctrl_config {
  window_based_fctrl : bool;
  wfctrl_cfg : option window_fctrl_config;
  rate_based_fctrl : bool;
  rfctrl_cfg : option rate_fctrl_config;
  sent_bytes_th : Z;
  sent_bytes_percent_th : Z;
  sent_buffers_th : Z;
  rcvd_bytes_th : Z;
  rcvd_bytes_percent_th : Z;
  rcvd_buffers_th : Z;
  fc_closed_window : option policy;
  fc_reconcile_flow_conflict : option policy;
  fc_receiving_flow_control : option policy;
  fc_flow_control_overrun : option policy
}.

(** [struct dtcp_rxctrl_config]. *)
Record dtcp_rxctrl_config := mk_dtcp_rxctrl_config {
  max_time_retry : Z;
  rx_data_retransmit_max : Z;
  initial_tr : Z;
  rx_retransmission_timer_expiry : option policy;
  rx_sender_ack : option policy;
  rx_receiving_ack_list : option policy;
  rx_rcvr_ack : option policy;
  rx_sending_ack : option policy;
  rx_rcvr_control_ack : option policy
}.

(** [struct dtcp_config]. *)
Record dtcp_config := mk_dtcp_config {
  flow_ctrl : bool;
  fctrl_cfg : option dtcp_fctrl_config;
  rtx_ctrl : bool;
  rxctrl_cfg : option dtcp_rxctrl_config;
  dc_lost_control_pdu : option policy;
  dc_dtcp_ps : option policy;
  dc_rtt_estimator : option policy
}.
