(* ===== verification/Pci.v ===== *)
(** * Protocol control information

    Models [src/kernel/pci.c] and the PDU types of [src/kernel/pci.h]: the table
    of field offsets computed from the data-transfer constants of the DIF, and
    the accessors of the fields of a PDU header.  A header is the list of bytes
    that starts at [pci->h]; an access outside of it is [None]. *)

From S2P Require Import Prelude Kucommon.
From Stdlib Require Import ZArith Lia.
From stdpp Require Import base list numbers option sets gmap.
#[local] Open Scope Z_scope.

(** ** PDU types and flags ([pci.h]) *)

Definition PDU_FLAGS_EXPLICIT_CONGESTION : Z := 0x01.
Definition PDU_FLAGS_DATA_RUN : Z := 0x80.

Definition PDU_TYPE_DT : Z := 0x80.
Definition PDU_TYPE_CACK : Z := 0xC0.
Definition PDU_TYPE_ACK : Z := 0xC1.
Definition PDU_TYPE_NACK : Z := 0xC2.
Definition PDU_TYPE_FC : Z := 0xC4.
Definition PDU_TYPE_ACK_AND_FC : Z := 0xC5.
Definition PDU_TYPE_NACK_AND_FC : Z := 0xC6.
Definition PDU_TYPE_SACK : Z := 0xC9.
Definition PDU_TYPE_SNACK : Z := 0xCA.
Definition PDU_TYPE_SACK_AND_FC : Z := 0xCD.
Definition PDU_TYPE_SNACK_AND_FC : Z := 0xCE.
Definition PDU_TYPE_RENDEZVOUS : Z := 0xCF.
Definition PDU_TYPE_MGMT : Z := 0x40.

Definition pdu_type_is_ok (x : Z) : bool :=
  (x =? PDU_TYPE_DT) || (x =? PDU_TYPE_CACK) || (x =? PDU_TYPE_SACK) ||
  (x =? PDU_TYPE_NACK) || (x =? PDU_TYPE_FC) || (x =? PDU_TYPE_ACK) ||
  (x =? PDU_TYPE_ACK_AND_FC) || (x =? PDU_TYPE_SACK_AND_FC) ||
  (x =? PDU_TYPE_SNACK_AND_FC) || (x =? PDU_TYPE_RENDEZVOUS) || (x =? PDU_TYPE_MGMT).

Definition pdu_type_is_control (x : Z) : bool :=
  (x =? PDU_TYPE_CACK) || (x =? PDU_TYPE_SACK) || (x =? PDU_TYPE_NACK) ||
  (x =? PDU_TYPE_FC) || (x =? PDU_TYPE_ACK) || (x =? PDU_TYPE_ACK_AND_FC) ||
  (x =? PDU_TYPE_SACK_AND_FC) || (x =? PDU_TYPE_RENDEZVOUS) || (x =? PDU_TYPE_SNACK_AND_FC).

(** ** The offset table *)

Definition VERSION_SIZE : Z := 1.
Definition FLAGS_SIZE : Z := 1.
Definition TYPE_SIZE : Z := 1.
Definition VERSION : Z := 1.

Inductive pci_field_index :=
| PCI_BASE_VERSION
| PCI_BASE_DST_ADD
| PCI_BASE_SRC_ADD
| PCI_BASE_QOS_ID
| PCI_BASE_DST_CEP
| PCI_BASE_SRC_CEP
| PCI_BASE_TYPE
| PCI_BASE_FLAGS
| PCI_BASE_LEN
| PCI_DT_MGMT_SN
| PCI_DT_MGMT_SIZE
| PCI_CTRL_SN
| PCI_FC_NEW_RWE
| PCI_FC_MY_LWE
| PCI_FC_MY_RWE
| PCI_FC_SNDR_RATE
| PCI_FC_TIME_FRAME
| PCI_FC_SIZE
| PCI_CACK_LAST_CSN_RCVD
| PCI_CACK_NEW_LWE
| PCI_CACK_NEW_RWE
| PCI_CACK_MY_LWE
| PCI_CACK_MY_RWE
| PCI_CACK_SNDR_RATE
| PCI_CACK_TIME_FRAME
| PCI_CACK_SIZE
| PCI_ACK_ACKED_SN
| PCI_ACK_SIZE
| PCI_ACK_FC_ACKED_SN
| PCI_ACK_FC_LAST_CSN_RCVD
| PCI_ACK_FC_NEW_LWE
| PCI_ACK_FC_NEW_RWE
| PCI_ACK_FC_MY_LWE
| PCI_ACK_FC_MY_RWE
| PCI_ACK_FC_SNDR_RATE
| PCI_ACK_FC_TIME_FRAME
| PCI_ACK_FC_SIZE
| PCI_RVOUS_LAST_CSN_RCVD
| PCI_RVOUS_NEW_LWE
| PCI_RVOUS_NEW_RWE
| PCI_RVOUS_MY_LWE
| PCI_RVOUS_MY_RWE
| PCI_RVOUS_SNDR_RATE
| PCI_RVOUS_TIME_FRAME
| PCI_RVOUS_SIZE.

#[export] Instance pci_field_index_eq_dec : EqDecision pci_field_index.
Proof. solve_decision. Defined.

(** The enumeration in the order of its values, [0 .. PCI_FIELD_INDEX_MAX-1]. *)
Definition all_fields : list pci_field_index :=
  [PCI_BASE_VERSION; PCI_BASE_DST_ADD; PCI_BASE_SRC_ADD; PCI_BASE_QOS_ID; PCI_BASE_DST_CEP;
   PCI_BASE_SRC_CEP; PCI_BASE_TYPE; PCI_BASE_FLAGS; PCI_BASE_LEN; PCI_DT_MGMT_SN;
   PCI_DT_MGMT_SIZE; PCI_CTRL_SN; PCI_FC_NEW_RWE; PCI_FC_MY_LWE; PCI_FC_MY_RWE;
   PCI_FC_SNDR_RATE; PCI_FC_TIME_FRAME; PCI_FC_SIZE; PCI_CACK_LAST_CSN_RCVD;
   PCI_CACK_NEW_LWE; PCI_CACK_NEW_RWE; PCI_CACK_MY_LWE; PCI_CACK_MY_RWE;
   PCI_CACK_SNDR_RATE; PCI_CACK_TIME_FRAME; PCI_CACK_SIZE; PCI_ACK_ACKED_SN; PCI_ACK_SIZE;
   PCI_ACK_FC_ACKED_SN; PCI_ACK_FC_LAST_CSN_RCVD; PCI_ACK_FC_NEW_LWE; PCI_ACK_FC_NEW_RWE;
   PCI_ACK_FC_MY_LWE; PCI_ACK_FC_MY_RWE; PCI_ACK_FC_SNDR_RATE; PCI_ACK_FC_TIME_FRAME;
   PCI_ACK_FC_SIZE; PCI_RVOUS_LAST_CSN_RCVD; PCI_RVOUS_NEW_LWE; PCI_RVOUS_NEW_RWE;
   PCI_RVOUS_MY_LWE; PCI_RVOUS_MY_RWE; PCI_RVOUS_SNDR_RATE; PCI_RVOUS_TIME_FRAME;
   PCI_RVOUS_SIZE].

Definition PCI_FIELD_INDEX_MAX : nat := length all_fields.

(** One turn of the loop: the [switch (i)] on the pair [(offset, base_offset)]. *)
Definition offset_step (d : dt_cons) (i : pci_field_index) (st : Z * Z) : Z * Z :=
  let '(offset, base_offset) := st in
  match i with
  | PCI_BASE_VERSION => (offset + VERSION_SIZE, base_offset)
  | PCI_BASE_DST_ADD | PCI_BASE_SRC_ADD => (offset + d.(address_length), base_offset)
  | PCI_BASE_QOS_ID => (offset + d.(qos_id_length), base_offset)
  | PCI_BASE_DST_CEP | PCI_BASE_SRC_CEP => (offset + d.(cep_id_length), base_offset)
  | PCI_BASE_TYPE => (offset + TYPE_SIZE, base_offset)
  | PCI_BASE_FLAGS => (offset + FLAGS_SIZE, base_offset)
  | PCI_BASE_LEN => let offset := offset + d.(length_length) in (offset, offset)
  | PCI_DT_MGMT_SN
  | PCI_FC_NEW_RWE | PCI_FC_MY_LWE | PCI_FC_MY_RWE
  | PCI_CACK_NEW_LWE | PCI_CACK_NEW_RWE | PCI_CACK_MY_LWE | PCI_CACK_MY_RWE
  | PCI_ACK_FC_ACKED_SN | PCI_ACK_ACKED_SN
  | PCI_ACK_FC_NEW_LWE | PCI_ACK_FC_NEW_RWE | PCI_ACK_FC_MY_LWE | PCI_ACK_FC_MY_RWE
  | PCI_RVOUS_NEW_LWE | PCI_RVOUS_NEW_RWE | PCI_RVOUS_MY_LWE | PCI_RVOUS_MY_RWE =>
      (offset + d.(seq_num_length), base_offset)
  | PCI_CTRL_SN => (offset + d.(ctrl_seq_num_length), base_offset + d.(ctrl_seq_num_length))
  | PCI_CACK_LAST_CSN_RCVD | PCI_ACK_FC_LAST_CSN_RCVD | PCI_RVOUS_LAST_CSN_RCVD =>
      (offset + d.(ctrl_seq_num_length), base_offset)
  | PCI_FC_SNDR_RATE | PCI_CACK_SNDR_RATE | PCI_ACK_FC_SNDR_RATE | PCI_RVOUS_SNDR_RATE =>
      (offset + d.(rate_length), base_offset)
  | PCI_FC_TIME_FRAME | PCI_CACK_TIME_FRAME | PCI_ACK_FC_TIME_FRAME | PCI_RVOUS_TIME_FRAME =>
      (offset + d.(frame_length), base_offset)
  | PCI_DT_MGMT_SIZE | PCI_FC_SIZE | PCI_CACK_SIZE | PCI_ACK_SIZE | PCI_RVOUS_SIZE
  | PCI_ACK_FC_SIZE => (base_offset, base_offset)
  end.

Fixpoint offset_loop (d : dt_cons) (fs : list pci_field_index) (st : Z * Z) : list Z :=
  match fs with
  | [] => []
  | i :: fs' => fst st :: offset_loop d fs' (offset_step d i st)
  end.

Definition pci_offset_table_create (mem : bool) (d : dt_cons) : option (list Z) :=
  if mem then Some (offset_loop d all_fields (0, 0)) else None.

(** The numeric value of a field of the enumeration. *)
Definition field_num (f : pci_field_index) : nat :=
  match f with
  | PCI_BASE_VERSION => 0
  | PCI_BASE_DST_ADD => 1
  | PCI_BASE_SRC_ADD => 2
  | PCI_BASE_QOS_ID => 3
  | PCI_BASE_DST_CEP => 4
  | PCI_BASE_SRC_CEP => 5
  | PCI_BASE_TYPE => 6
  | PCI_BASE_FLAGS => 7
  | PCI_BASE_LEN => 8
  | PCI_DT_MGMT_SN => 9
  | PCI_DT_MGMT_SIZE => 10
  | PCI_CTRL_SN => 11
  | PCI_FC_NEW_RWE => 12
  | PCI_FC_MY_LWE => 13
  | PCI_FC_MY_RWE => 14
  | PCI_FC_SNDR_RATE => 15
  | PCI_FC_TIME_FRAME => 16
  | PCI_FC_SIZE => 17
  | PCI_CACK_LAST_CSN_RCVD => 18
  | PCI_CACK_NEW_LWE => 19
  | PCI_CACK_NEW_RWE => 20
  | PCI_CACK_MY_LWE => 21
  | PCI_CACK_MY_RWE => 22
  | PCI_CACK_SNDR_RATE => 23
  | PCI_CACK_TIME_FRAME => 24
  | PCI_CACK_SIZE => 25
  | PCI_ACK_ACKED_SN => 26
  | PCI_ACK_SIZE => 27
  | PCI_ACK_FC_ACKED_SN => 28
  | PCI_ACK_FC_LAST_CSN_RCVD => 29
  | PCI_ACK_FC_NEW_LWE => 30
  | PCI_ACK_FC_NEW_RWE => 31
  | PCI_ACK_FC_MY_LWE => 32
  | PCI_ACK_FC_MY_RWE => 33
  | PCI_ACK_FC_SNDR_RATE => 34
  | PCI_ACK_FC_TIME_FRAME => 35
  | PCI_ACK_FC_SIZE => 36
  | PCI_RVOUS_LAST_CSN_RCVD => 37
  | PCI_RVOUS_NEW_LWE => 38
  | PCI_RVOUS_NEW_RWE => 39
  | PCI_RVOUS_MY_LWE => 40
  | PCI_RVOUS_MY_RWE => 41
  | PCI_RVOUS_SNDR_RATE => 42
  | PCI_RVOUS_TIME_FRAME => 43
  | PCI_RVOUS_SIZE => 44
  end.

(** [struct efcp_config], the part the headers depend on. *)
Record efcp_config := mk_efcp_config {
  cfg_dt_cons : dt_cons;
  pci_offset_table : list Z
}.

(** [cfg->pci_offset_table[pci_index]]. *)
Definition table_get (c : efcp_config) (f : pci_field_index) : Z :=
  nth (field_num f) c.(pci_offset_table) 0.

(** The configuration whose table was computed from its own constants. *)
Definition config_of (d : dt_cons) : efcp_config :=
  mk_efcp_config d (offset_loop d all_fields (0, 0)).

Definition pci_calculate_size (c : efcp_config) (type : Z) : Z :=
  if (type =? PDU_TYPE_DT) || (type =? PDU_TYPE_MGMT) then table_get c PCI_DT_MGMT_SIZE
  else if type =? PDU_TYPE_FC then table_get c PCI_FC_SIZE
  else if type =? PDU_TYPE_ACK then table_get c PCI_ACK_SIZE
  else if type =? PDU_TYPE_ACK_AND_FC then table_get c PCI_ACK_FC_SIZE
  else if type =? PDU_TYPE_CACK then table_get c PCI_CACK_SIZE
  else if type =? PDU_TYPE_RENDEZVOUS then table_get c PCI_RVOUS_SIZE
  else -1.

(** ** Field accessors

    The getter and setter macros: the width of the field selects the C type of
    the access, any other width reads [-1] and writes nothing.  [cast] is the
    conversion to the type of the result. *)

Definition PCI_GETTER (c : efcp_config) (h : list Z) (f : pci_field_index) (size : Z)
    (cast : Z -> Z) : option Z :=
  let off := Z.to_nat (table_get c f) in
  if size =? 1 then cast <$> load 1 off h
  else if size =? 2 then cast <$> load 2 off h
  else if size =? 4 then cast <$> load 4 off h
  else Some (cast (-1)).

Definition PCI_SETTER (c : efcp_config) (h : list Z) (f : pci_field_index) (size : Z)
    (val : Z) : option (Z * list Z) :=
  let off := Z.to_nat (table_get c f) in
  if size =? 1 then h' ← store 1 off val h; Some (0, h')
  else if size =? 2 then h' ← store 2 off val h; Some (0, h')
  else if size =? 4 then h' ← store 4 off val h; Some (0, h')
  else Some (0, h).

Section Accessors.
Context (c : efcp_config).
#[local] Abbreviation d := (c.(cfg_dt_cons)).
#[local] Abbreviation GET := (PCI_GETTER c).
#[local] Abbreviation SET := (PCI_SETTER c).

(** Base getters; [cep_id_t] is [int32_t], [qos_id_t] is [int16_t],
    [address_t] and [seq_num_t] are [uint32_t]. *)
Definition pci_version (h : list Z) := GET h PCI_BASE_VERSION VERSION_SIZE u8.
Definition pci_cep_source (h : list Z) := GET h PCI_BASE_SRC_CEP d.(cep_id_length) s32.
Definition pci_cep_destination (h : list Z) := GET h PCI_BASE_DST_CEP d.(cep_id_length) s32.
Definition pci_destination (h : list Z) := GET h PCI_BASE_DST_ADD d.(address_length) u32.
Definition pci_source (h : list Z) := GET h PCI_BASE_SRC_ADD d.(address_length) u32.
Definition pci_qos_id (h : list Z) := GET h PCI_BASE_QOS_ID d.(qos_id_length) s16.
Definition pci_type (h : list Z) := GET h PCI_BASE_TYPE TYPE_SIZE u8.
Definition pci_flags_get (h : list Z) := GET h PCI_BASE_FLAGS FLAGS_SIZE u8.
Definition pci_length (h : list Z) := GET h PCI_BASE_LEN d.(length_length) s64.

(** Base setters. *)
Definition pci_version_set (h : list Z) (v : Z) := SET h PCI_BASE_VERSION VERSION_SIZE v.
Definition pci_sequence_number_set (h : list Z) (v : Z) := SET h PCI_DT_MGMT_SN d.(seq_num_length) v.
Definition pci_cep_source_set (h : list Z) (v : Z) := SET h PCI_BASE_SRC_CEP d.(cep_id_length) v.
Definition pci_cep_destination_set (h : list Z) (v : Z) :=
  SET h PCI_BASE_DST_CEP d.(cep_id_length) v.
Definition pci_destination_set (h : list Z) (v : Z) := SET h PCI_BASE_DST_ADD d.(address_length) v.
Definition pci_source_set (h : list Z) (v : Z) := SET h PCI_BASE_SRC_ADD d.(address_length) v.
Definition pci_qos_id_set (h : list Z) (v : Z) := SET h PCI_BASE_QOS_ID d.(qos_id_length) v.
Definition pci_type_set (h : list Z) (v : Z) := SET h PCI_BASE_TYPE TYPE_SIZE v.
Definition pci_flags_set (h : list Z) (v : Z) := SET h PCI_BASE_FLAGS FLAGS_SIZE v.
Definition pci_len_set (h : list Z) (v : Z) := SET h PCI_BASE_LEN d.(length_length) v.

(** [a || b]: the second setter runs when the first returned zero. *)
Definition or_else (r : option (Z * list Z)) (k : list Z -> option (Z * list Z))
  : option (Z * list Z) :=
  '(ret, h) ← r; if ret =? 0 then k h else Some (-1, h).

Definition pci_format (h : list Z) (src_cep_id dst_cep_id src_address dst_address
    sequence_number qos_id flags length type : Z) : option (Z * list Z) :=
  or_else (pci_version_set h VERSION) (fun h =>
  or_else (pci_type_set h type) (fun h =>
  or_else (pci_cep_destination_set h dst_cep_id) (fun h =>
  or_else (pci_cep_source_set h src_cep_id) (fun h =>
  or_else (pci_destination_set h dst_address) (fun h =>
  or_else (pci_source_set h src_address) (fun h =>
  or_else (pci_sequence_number_set h sequence_number) (fun h =>
  or_else (pci_qos_id_set h qos_id) (fun h =>
  or_else (pci_flags_set h flags) (fun h =>
  or_else (pci_len_set h length) (fun h => Some (0, h))))))))))).

(** Getters and setters that depend on the type of the PDU. *)
Definition pci_sequence_number_get (h : list Z) : option Z :=
  t ← pci_type h;
  if (t =? PDU_TYPE_DT) || (t =? PDU_TYPE_MGMT) then
    GET h PCI_DT_MGMT_SN d.(seq_num_length) u32
  else GET h PCI_CTRL_SN d.(ctrl_seq_num_length) u32.

Definition pci_control_ack_seq_num (h : list Z) : option Z :=
  t ← pci_type h;
  if t =? PDU_TYPE_ACK then GET h PCI_ACK_ACKED_SN d.(seq_num_length) u32
  else if t =? PDU_TYPE_ACK_AND_FC then GET h PCI_ACK_FC_ACKED_SN d.(seq_num_length) u32
  else Some (u32 (-1)).

Definition pci_control_new_rt_wind_edge (h : list Z) : option Z :=
  t ← pci_type h;
  if t =? PDU_TYPE_FC then GET h PCI_FC_NEW_RWE d.(seq_num_length) u32
  else if (t =? PDU_TYPE_RENDEZVOUS) || (t =? PDU_TYPE_CACK) then
    GET h PCI_CACK_NEW_RWE d.(seq_num_length) u32
  else if t =? PDU_TYPE_ACK_AND_FC then GET h PCI_ACK_FC_NEW_RWE d.(seq_num_length) u32
  else Some (u32 (-1)).

Definition pci_control_new_left_wind_edge (h : list Z) : option Z :=
  t ← pci_type h;
  if (t =? PDU_TYPE_RENDEZVOUS) || (t =? PDU_TYPE_CACK) then
    GET h PCI_CACK_NEW_LWE d.(seq_num_length) u32
  else if t =? PDU_TYPE_ACK_AND_FC then GET h PCI_ACK_FC_NEW_LWE d.(seq_num_length) u32
  else Some (u32 (-1)).

Definition pci_control_my_rt_wind_edge (h : list Z) : option Z :=
  t ← pci_type h;
  if t =? PDU_TYPE_FC then GET h PCI_FC_MY_RWE d.(seq_num_length) u32
  else if (t =? PDU_TYPE_RENDEZVOUS) || (t =? PDU_TYPE_CACK) then
    GET h PCI_CACK_MY_RWE d.(seq_num_length) u32
  else if t =? PDU_TYPE_ACK_AND_FC then GET h PCI_ACK_FC_MY_RWE d.(seq_num_length) u32
  else Some (u32 (-1)).

Definition pci_control_my_left_wind_edge (h : list Z) : option Z :=
  t ← pci_type h;
  if t =? PDU_TYPE_FC then GET h PCI_FC_MY_LWE d.(seq_num_length) u32
  else if (t =? PDU_TYPE_RENDEZVOUS) || (t =? PDU_TYPE_CACK) then
    GET h PCI_CACK_MY_LWE d.(seq_num_length) u32
  else if t =? PDU_TYPE_ACK_AND_FC then GET h PCI_ACK_FC_MY_LWE d.(seq_num_length) u32
  else Some (u32 (-1)).

Definition pci_control_last_seq_num_rcvd (h : list Z) : option Z :=
  t ← pci_type h;
  if (t =? PDU_TYPE_RENDEZVOUS) || (t =? PDU_TYPE_CACK) then
    GET h PCI_CACK_LAST_CSN_RCVD d.(seq_num_length) u32
  else if t =? PDU_TYPE_ACK_AND_FC then GET h PCI_ACK_FC_LAST_CSN_RCVD d.(seq_num_length) u32
  else Some (u32 (-1)).

Definition pci_control_sndr_rate (h : list Z) : option Z :=
  t ← pci_type h;
  if t =? PDU_TYPE_FC then GET h PCI_FC_SNDR_RATE d.(rate_length) u32
  else if (t =? PDU_TYPE_RENDEZVOUS) || (t =? PDU_TYPE_CACK) then
    GET h PCI_CACK_SNDR_RATE d.(rate_length) u32
  else if t =? PDU_TYPE_ACK_AND_FC then GET h PCI_ACK_FC_SNDR_RATE d.(rate_length) u32
  else Some 0.

Definition pci_control_time_frame (h : list Z) : option Z :=
  t ← pci_type h;
  if t =? PDU_TYPE_FC then GET h PCI_FC_TIME_FRAME d.(frame_length) u32
  else if t =? PDU_TYPE_CACK then GET h PCI_CACK_TIME_FRAME d.(frame_length) u32
  else if t =? PDU_TYPE_ACK_AND_FC then GET h PCI_ACK_FC_TIME_FRAME d.(frame_length) u32
  else Some 0.

Definition pci_control_ack_seq_num_set (h : list Z) (seq : Z) : option (Z * list Z) :=
  t ← pci_type h;
  if t =? PDU_TYPE_ACK then SET h PCI_ACK_ACKED_SN d.(seq_num_length) seq
  else if t =? PDU_TYPE_ACK_AND_FC then SET h PCI_ACK_FC_ACKED_SN d.(seq_num_length) seq
  else Some (-1, h).

Definition pci_control_new_rt_wind_edge_set (h : list Z) (seq : Z) : option (Z * list Z) :=
  t ← pci_type h;
  if t =? PDU_TYPE_FC then SET h PCI_FC_NEW_RWE d.(seq_num_length) seq
  else if (t =? PDU_TYPE_RENDEZVOUS) || (t =? PDU_TYPE_CACK) then
    SET h PCI_CACK_NEW_RWE d.(seq_num_length) seq
  else if t =? PDU_TYPE_ACK_AND_FC then SET h PCI_ACK_FC_NEW_RWE d.(seq_num_length) seq
  else Some (-1, h).

Definition pci_control_new_left_wind_edge_set (h : list Z) (seq : Z) : option (Z * list Z) :=
  t ← pci_type h;
  if (t =? PDU_TYPE_RENDEZVOUS) || (t =? PDU_TYPE_CACK) then
    SET h PCI_CACK_NEW_LWE d.(seq_num_length) seq
  else if t =? PDU_TYPE_ACK_AND_FC then SET h PCI_ACK_FC_NEW_LWE d.(seq_num_length) seq
  else Some (-1, h).

Definition pci_control_my_rt_wind_edge_set (h : list Z) (seq : Z) : option (Z * list Z) :=
  t ← pci_type h;
  if t =? PDU_TYPE_FC then SET h PCI_FC_MY_RWE d.(seq_num_length) seq
  else if (t =? PDU_TYPE_RENDEZVOUS) || (t =? PDU_TYPE_CACK) then
    SET h PCI_CACK_MY_RWE d.(seq_num_length) seq
  else if t =? PDU_TYPE_ACK_AND_FC then SET h PCI_ACK_FC_MY_RWE d.(seq_num_length) seq
  else Some (-1, h).

Definition pci_control_my_left_wind_edge_set (h : list Z) (seq : Z) : option (Z * list Z) :=
  t ← pci_type h;
  if t =? PDU_TYPE_FC then SET h PCI_FC_MY_LWE d.(seq_num_length) seq
  else if (t =? PDU_TYPE_RENDEZVOUS) || (t =? PDU_TYPE_CACK) then
    SET h PCI_CACK_MY_LWE d.(seq_num_length) seq
  else if t =? PDU_TYPE_ACK_AND_FC then SET h PCI_ACK_FC_MY_LWE d.(seq_num_length) seq
  else Some (-1, h).

Definition pci_control_last_seq_num_rcvd_set (h : list Z) (seq : Z) : option (Z * list Z) :=
  t ← pci_type h;
  if (t =? PDU_TYPE_RENDEZVOUS) || (t =? PDU_TYPE_CACK) then
    SET h PCI_CACK_LAST_CSN_RCVD d.(seq_num_length) seq
  else if t =? PDU_TYPE_ACK_AND_FC then SET h PCI_ACK_FC_LAST_CSN_RCVD d.(seq_num_length) seq
  else Some (-1, h).

Definition pci_control_sndr_rate_set (h : list Z) (rate : Z) : option (Z * list Z) :=
  t ← pci_type h;
  if t =? PDU_TYPE_FC then SET h PCI_FC_SNDR_RATE d.(rate_length) rate
  else if (t =? PDU_TYPE_RENDEZVOUS) || (t =? PDU_TYPE_CACK) then
    SET h PCI_CACK_SNDR_RATE d.(rate_length) rate
  else if t =? PDU_TYPE_ACK_AND_FC then SET h PCI_ACK_FC_SNDR_RATE d.(rate_length) rate
  else Some (-1, h).

Definition pci_control_time_frame_set (h : list Z) (frame : Z) : option (Z * list Z) :=
  t ← pci_type h;
  if t =? PDU_TYPE_FC then SET h PCI_FC_TIME_FRAME d.(frame_length) frame
  else if t =? PDU_TYPE_CACK then SET h PCI_CACK_TIME_FRAME d.(frame_length) frame
  else if t =? PDU_TYPE_ACK_AND_FC then SET h PCI_ACK_FC_TIME_FRAME d.(frame_length) frame
  else Some (-1, h).

(** [pci_is_ok]: [len] is [pci->len], [None] a null header. *)
Definition pci_is_ok (h : option (list Z)) (len : Z) : option bool :=
  match h with
  | None => Some false
  | Some h => if 0 <? len then t ← pci_type h; Some (pdu_type_is_ok t) else Some false
  end.

End Accessors.

(** The numbering is the order of [all_fields]. *)
Lemma field_num_lookup f : all_fields !! field_num f = Some f.
Proof. by destruct f. Qed.

(** ** Reference layout

    The header of each type of PDU as the sequence of its fields with their
    widths, independently of how the table is computed. *)

Definition base_layout (d : dt_cons) : list (pci_field_index * Z) :=
  [(PCI_BASE_VERSION, VERSION_SIZE); (PCI_BASE_DST_ADD, d.(address_length));
   (PCI_BASE_SRC_ADD, d.(address_length)); (PCI_BASE_QOS_ID, d.(qos_id_length));
   (PCI_BASE_DST_CEP, d.(cep_id_length)); (PCI_BASE_SRC_CEP, d.(cep_id_length));
   (PCI_BASE_TYPE, TYPE_SIZE); (PCI_BASE_FLAGS, FLAGS_SIZE);
   (PCI_BASE_LEN, d.(length_length))].

Definition ctrl_layout (d : dt_cons) : list (pci_field_index * Z) :=
  base_layout d ++ [(PCI_CTRL_SN, d.(ctrl_seq_num_length))].

Definition layout (d : dt_cons) (t : Z) : list (pci_field_index * Z) :=
  let sn := d.(seq_num_length) in
  let csn := d.(ctrl_seq_num_length) in
  let rate := d.(rate_length) in
  let frame := d.(frame_length) in
  if (t =? PDU_TYPE_DT) || (t =? PDU_TYPE_MGMT) then base_layout d ++ [(PCI_DT_MGMT_SN, sn)]
  else if t =? PDU_TYPE_FC then
    ctrl_layout d ++ [(PCI_FC_NEW_RWE, sn); (PCI_FC_MY_LWE, sn); (PCI_FC_MY_RWE, sn);
                      (PCI_FC_SNDR_RATE, rate); (PCI_FC_TIME_FRAME, frame)]
  else if t =? PDU_TYPE_ACK then ctrl_layout d ++ [(PCI_ACK_ACKED_SN, sn)]
  else if t =? PDU_TYPE_ACK_AND_FC then
    ctrl_layout d ++ [(PCI_ACK_FC_ACKED_SN, sn); (PCI_ACK_FC_LAST_CSN_RCVD, csn);
      (PCI_ACK_FC_NEW_LWE, sn); (PCI_ACK_FC_NEW_RWE, sn); (PCI_ACK_FC_MY_LWE, sn);
      (PCI_ACK_FC_MY_RWE, sn); (PCI_ACK_FC_SNDR_RATE, rate); (PCI_ACK_FC_TIME_FRAME, frame)]
  else if t =? PDU_TYPE_CACK then
    ctrl_layout d ++ [(PCI_CACK_LAST_CSN_RCVD, csn); (PCI_CACK_NEW_LWE, sn);
      (PCI_CACK_NEW_RWE, sn); (PCI_CACK_MY_LWE, sn); (PCI_CACK_MY_RWE, sn);
      (PCI_CACK_SNDR_RATE, rate); (PCI_CACK_TIME_FRAME, frame)]
  else if t =? PDU_TYPE_RENDEZVOUS then
    ctrl_layout d ++ [(PCI_RVOUS_LAST_CSN_RCVD, csn); (PCI_RVOUS_NEW_LWE, sn);
      (PCI_RVOUS_NEW_RWE, sn); (PCI_RVOUS_MY_LWE, sn); (PCI_RVOUS_MY_RWE, sn);
      (PCI_RVOUS_SNDR_RATE, rate); (PCI_RVOUS_TIME_FRAME, frame)]
  else [].

(** The types of PDU that have a header. *)
Definition header_types : list Z :=
  [PDU_TYPE_DT; PDU_TYPE_MGMT; PDU_TYPE_FC; PDU_TYPE_ACK; PDU_TYPE_ACK_AND_FC;
   PDU_TYPE_CACK; PDU_TYPE_RENDEZVOUS].

Definition total (l : list (pci_field_index * Z)) : Z := foldr (fun p s => snd p + s) 0 l.

(** The table places the fields of [l] one after the other from offset [o]. *)
Fixpoint contiguous (c : efcp_config) (o : Z) (l : list (pci_field_index * Z)) : Prop :=
  match l with
  | [] => True
  | (f, w) :: l' => table_get c f = o /\ contiguous c (o + w) l'
  end.

Ltac header_cases H :=
  unfold header_types in H;
  repeat (apply elem_of_cons in H as [H|H]; [subst|]); [..|by apply elem_of_nil in H].

(** C32: for every type of PDU that has a header, the offset table computed by
    [pci_offset_table_create] places the fields of the header one after the
    other from offset 0, with no gap and no overlap, and [pci_calculate_size]
    is the sum of their widths; every other type has no header. *)
Theorem pci_offset_table_layout (d : dt_cons) (t : Z) :
  pci_offset_table_create true d = Some (pci_offset_table (config_of d)) /\
  (t ∈ header_types ->
     contiguous (config_of d) 0 (layout d t) /\
     pci_calculate_size (config_of d) t = total (layout d t)) /\
  (t ∉ header_types -> pci_calculate_size (config_of d) t = -1).
Proof.
  split; [done|]. split.
  - intros H. split; header_cases H; cbn;
      unfold table_get, VERSION_SIZE, TYPE_SIZE, FLAGS_SIZE; cbn; repeat split; lia.
  - intros H. unfold pci_calculate_size, header_types in *.
    repeat match goal with
    | |- context [t =? ?x] => destruct (Z.eqb_spec t x); [subst; set_solver|]
    end. done.
Qed.

(** ** The attributes of a header

    One name per pair of accessors; [attr_slot] gives the field and the width
    that a pair uses in the header of a PDU of type [t]. *)

Inductive pci_attr :=
| A_VERSION | A_CEP_SOURCE | A_CEP_DESTINATION | A_DESTINATION | A_SOURCE | A_QOS_ID
| A_TYPE | A_FLAGS | A_LENGTH | A_SEQUENCE_NUMBER | A_ACK_SEQ_NUM | A_NEW_RT_WIND_EDGE
| A_NEW_LEFT_WIND_EDGE | A_MY_RT_WIND_EDGE | A_MY_LEFT_WIND_EDGE | A_LAST_SEQ_NUM_RCVD
| A_SNDR_RATE | A_TIME_FRAME.

#[export] Instance pci_attr_eq_dec : EqDecision pci_attr.
Proof. solve_decision. Defined.

Definition attr_get (c : efcp_config) (a : pci_attr) : list Z -> option Z :=
  match a with
  | A_VERSION => pci_version c
  | A_CEP_SOURCE => pci_cep_source c
  | A_CEP_DESTINATION => pci_cep_destination c
  | A_DESTINATION => pci_destination c
  | A_SOURCE => pci_source c
  | A_QOS_ID => pci_qos_id c
  | A_TYPE => pci_type c
  | A_FLAGS => pci_flags_get c
  | A_LENGTH => pci_length c
  | A_SEQUENCE_NUMBER => pci_sequence_number_get c
  | A_ACK_SEQ_NUM => pci_control_ack_seq_num c
  | A_NEW_RT_WIND_EDGE => pci_control_new_rt_wind_edge c
  | A_NEW_LEFT_WIND_EDGE => pci_control_new_left_wind_edge c
  | A_MY_RT_WIND_EDGE => pci_control_my_rt_wind_edge c
  | A_MY_LEFT_WIND_EDGE => pci_control_my_left_wind_edge c
  | A_LAST_SEQ_NUM_RCVD => pci_control_last_seq_num_rcvd c
  | A_SNDR_RATE => pci_control_sndr_rate c
  | A_TIME_FRAME => pci_control_time_frame c
  end.

Definition attr_set (c : efcp_config) (a : pci_attr) : list Z -> Z -> option (Z * list Z) :=
  match a with
  | A_VERSION => pci_version_set c
  | A_CEP_SOURCE => pci_cep_source_set c
  | A_CEP_DESTINATION => pci_cep_destination_set c
  | A_DESTINATION => pci_destination_set c
  | A_SOURCE => pci_source_set c
  | A_QOS_ID => pci_qos_id_set c
  | A_TYPE => pci_type_set c
  | A_FLAGS => pci_flags_set c
  | A_LENGTH => pci_len_set c
  | A_SEQUENCE_NUMBER => pci_sequence_number_set c
  | A_ACK_SEQ_NUM => pci_control_ack_seq_num_set c
  | A_NEW_RT_WIND_EDGE => pci_control_new_rt_wind_edge_set c
  | A_NEW_LEFT_WIND_EDGE => pci_control_new_left_wind_edge_set c
  | A_MY_RT_WIND_EDGE => pci_control_my_rt_wind_edge_set c
  | A_MY_LEFT_WIND_EDGE => pci_control_my_left_wind_edge_set c
  | A_LAST_SEQ_NUM_RCVD => pci_control_last_seq_num_rcvd_set c
  | A_SNDR_RATE => pci_control_sndr_rate_set c
  | A_TIME_FRAME => pci_control_time_frame_set c
  end.

(** The conversion to the type of the result of the getter. *)
Definition attr_cast (a : pci_attr) : Z -> Z :=
  match a with
  | A_CEP_SOURCE | A_CEP_DESTINATION => s32
  | A_QOS_ID => s16
  | A_VERSION | A_TYPE | A_FLAGS => u8
  | A_LENGTH => s64
  | _ => u32
  end.

(** Choice of a control field by type: FC, CACK (also used for RENDEZVOUS),
    ACK_AND_FC. *)
Definition by_type (t : Z) (fc cack ack_fc : option pci_field_index) : option pci_field_index :=
  if t =? PDU_TYPE_FC then fc
  else if (t =? PDU_TYPE_RENDEZVOUS) || (t =? PDU_TYPE_CACK) then cack
  else if t =? PDU_TYPE_ACK_AND_FC then ack_fc
  else None.

Definition attr_slot (d : dt_cons) (t : Z) (a : pci_attr) : option (pci_field_index * Z) :=
  let sn := (fun f => (f, d.(seq_num_length))) in
  match a with
  | A_VERSION => Some (PCI_BASE_VERSION, VERSION_SIZE)
  | A_CEP_SOURCE => Some (PCI_BASE_SRC_CEP, d.(cep_id_length))
  | A_CEP_DESTINATION => Some (PCI_BASE_DST_CEP, d.(cep_id_length))
  | A_DESTINATION => Some (PCI_BASE_DST_ADD, d.(address_length))
  | A_SOURCE => Some (PCI_BASE_SRC_ADD, d.(address_length))
  | A_QOS_ID => Some (PCI_BASE_QOS_ID, d.(qos_id_length))
  | A_TYPE => Some (PCI_BASE_TYPE, TYPE_SIZE)
  | A_FLAGS => Some (PCI_BASE_FLAGS, FLAGS_SIZE)
  | A_LENGTH => Some (PCI_BASE_LEN, d.(length_length))
  | A_SEQUENCE_NUMBER =>
      if (t =? PDU_TYPE_DT) || (t =? PDU_TYPE_MGMT) then Some (PCI_DT_MGMT_SN, d.(seq_num_length))
      else Some (PCI_CTRL_SN, d.(ctrl_seq_num_length))
  | A_ACK_SEQ_NUM =>
      if t =? PDU_TYPE_ACK then Some (PCI_ACK_ACKED_SN, d.(seq_num_length))
      else sn <$> by_type t None None (Some PCI_ACK_FC_ACKED_SN)
  | A_NEW_RT_WIND_EDGE =>
      sn <$> by_type t (Some PCI_FC_NEW_RWE) (Some PCI_CACK_NEW_RWE) (Some PCI_ACK_FC_NEW_RWE)
  | A_NEW_LEFT_WIND_EDGE => sn <$> by_type t None (Some PCI_CACK_NEW_LWE) (Some PCI_ACK_FC_NEW_LWE)
  | A_MY_RT_WIND_EDGE =>
      sn <$> by_type t (Some PCI_FC_MY_RWE) (Some PCI_CACK_MY_RWE) (Some PCI_ACK_FC_MY_RWE)
  | A_MY_LEFT_WIND_EDGE =>
      sn <$> by_type t (Some PCI_FC_MY_LWE) (Some PCI_CACK_MY_LWE) (Some PCI_ACK_FC_MY_LWE)
  | A_LAST_SEQ_NUM_RCVD =>
      sn <$> by_type t None (Some PCI_CACK_LAST_CSN_RCVD) (Some PCI_ACK_FC_LAST_CSN_RCVD)
  | A_SNDR_RATE =>
      (fun f => (f, d.(rate_length))) <$>
        by_type t (Some PCI_FC_SNDR_RATE) (Some PCI_CACK_SNDR_RATE) (Some PCI_ACK_FC_SNDR_RATE)
  | A_TIME_FRAME =>
      if t =? PDU_TYPE_RENDEZVOUS then None
      else (fun f => (f, d.(frame_length))) <$>
        by_type t (Some PCI_FC_TIME_FRAME) (Some PCI_CACK_TIME_FRAME) (Some PCI_ACK_FC_TIME_FRAME)
  end.

(** The widths the accessors support. *)
Definition width_ok (w : Z) : Prop := w = 1 \/ w = 2 \/ w = 4.

#[export] Instance width_ok_dec w : Decision (width_ok w).
Proof. unfold width_ok. apply _. Defined.

(** Data-transfer constants with supported widths and control sequence numbers
    as wide as data ones. *)
Record widths_ok (d : dt_cons) : Prop := {
  ok_address : width_ok d.(address_length);
  ok_cep : width_ok d.(cep_id_length);
  ok_length : width_ok d.(length_length);
  ok_qos : width_ok d.(qos_id_length);
  ok_seq : width_ok d.(seq_num_length);
  ok_ctrl : d.(ctrl_seq_num_length) = d.(seq_num_length);
  ok_rate : width_ok d.(rate_length);
  ok_frame : width_ok d.(frame_length)
}.

(** The layout through which the accessors see a header: RENDEZVOUS PDUs are
    accessed with the fields of CACK PDUs. *)
Definition access_layout (d : dt_cons) (t : Z) : list (pci_field_index * Z) :=
  layout d (if t =? PDU_TYPE_RENDEZVOUS then PDU_TYPE_CACK else t).

Lemma access_layout_contiguous d t :
  t ∈ header_types ->
  contiguous (config_of d) 0 (access_layout d t) /\
  total (access_layout d t) = pci_calculate_size (config_of d) t.
Proof.
  intros H. unfold access_layout. split; header_cases H; cbn;
    unfold table_get, VERSION_SIZE, TYPE_SIZE, FLAGS_SIZE; cbn; repeat split; lia.
Qed.

Lemma access_layout_NoDup d t : t ∈ header_types -> NoDup (fst <$> access_layout d t).
Proof. intros H. apply (bool_decide_unpack _). header_cases H; vm_compute; exact I. Qed.

Lemma access_layout_widths d t :
  widths_ok d -> t ∈ header_types -> Forall (fun p => width_ok (snd p)) (access_layout d t).
Proof.
  intros [] H. unfold access_layout, width_ok in *.
  header_cases H; cbn; unfold VERSION_SIZE, TYPE_SIZE, FLAGS_SIZE; rewrite ?ok_ctrl0;
    repeat first [apply Forall_cons; split | apply Forall_nil]; cbn; auto.
Qed.

Lemma attr_slot_layout d t a s :
  widths_ok d -> t ∈ header_types -> attr_slot d t a = Some s -> s ∈ access_layout d t.
Proof.
  intros [] H Hs. unfold access_layout. header_cases H;
    destruct a; cbn in Hs; simplify_eq; cbn; rewrite ?ok_ctrl0;
    apply list_elem_of_In; cbn; tauto.
Qed.

Lemma attr_slot_inj d t a b f v w :
  t ∈ header_types -> attr_slot d t a = Some (f, v) -> attr_slot d t b = Some (f, w) -> a = b.
Proof.
  intros H. header_cases H; destruct a; cbn; intros Ha; simplify_eq;
    destruct b; cbn; intros Hb; simplify_eq; done.
Qed.

(** Fields of a contiguous layout occupy disjoint ranges inside the header. *)
Lemma contiguous_bounds c o l f w :
  contiguous c o l -> Forall (fun p => width_ok (snd p)) l -> (f, w) ∈ l ->
  o <= table_get c f /\ table_get c f + w <= o + total l.
Proof.
  revert o. induction l as [|[g v] l IH]; intros o; cbn [contiguous]; [set_solver|].
  change (total ((g, v) :: l)) with (v + total l).
  intros [Hg Hc] Hw Hin. apply Forall_cons in Hw as [Hv Hw]. cbn in Hv.
  assert (0 <= total l).
  { clear -Hw. induction Hw as [|p l' H ? IH]; [done|].
    change (total (p :: l')) with (snd p + total l'). unfold width_ok in H. lia. }
  apply elem_of_cons in Hin as [Hin|Hin]; simplify_eq; [lia|].
  destruct (IH _ Hc Hw Hin). unfold width_ok in Hv. lia.
Qed.

Lemma contiguous_disjoint c o l f w g v :
  contiguous c o l -> Forall (fun p => width_ok (snd p)) l ->
  (f, w) ∈ l -> (g, v) ∈ l -> f <> g ->
  table_get c f + w <= table_get c g \/ table_get c g + v <= table_get c f.
Proof.
  revert o. induction l as [|[k u] l IH]; intros o; cbn; [set_solver|].
  intros [Hk Hc] Hw Hf Hg Hne. apply Forall_cons in Hw as [Hu Hw].
  apply elem_of_cons in Hf as [Hf|Hf]; apply elem_of_cons in Hg as [Hg|Hg]; simplify_eq.
  - left. by apply (contiguous_bounds _ _ _ g v Hc).
  - right. by apply (contiguous_bounds _ _ _ f w Hc).
  - eauto.
Qed.

Lemma getter_load c h f w cast :
  width_ok w ->
  PCI_GETTER c h f w cast = cast <$> load (Z.to_nat w) (Z.to_nat (table_get c f)) h.
Proof. intros [-> | [-> | ->]]; done. Qed.

(** A getter that finds its field does not see what follows the header. *)
Lemma getter_app c h ext f w cast v :
  PCI_GETTER c h f w cast = Some v -> PCI_GETTER c (h ++ ext) f w cast = Some v.
Proof.
  assert (forall n off, cast <$> load n off h = Some v -> cast <$> load n off (h ++ ext) = Some v).
  { intros n off. destruct (load n off h) eqn:E; [|done]. by rewrite (load_app _ _ _ _ _ E). }
  unfold PCI_GETTER. repeat case_match; auto.
Qed.

Lemma setter_store c h f w v :
  width_ok w ->
  PCI_SETTER c h f w v =
  (h' ← store (Z.to_nat w) (Z.to_nat (table_get c f)) v h; Some (0, h')).
Proof. intros [-> | [-> | ->]]; done. Qed.

(** Every getter (setter) that applies to the type of the PDU is a load (store)
    of its slot. *)
Lemma attr_get_load c t a f w h :
  widths_ok c.(cfg_dt_cons) -> t ∈ header_types -> pci_type c h = Some t ->
  attr_slot c.(cfg_dt_cons) t a = Some (f, w) ->
  attr_get c a h = attr_cast a <$> load (Z.to_nat w) (Z.to_nat (table_get c f)) h.
Proof.
  intros Hok Ht Hty Hs. pose proof (attr_slot_layout _ _ _ _ Hok Ht Hs) as Hin.
  assert (width_ok w) as Hw.
  { eapply (proj1 (Forall_forall _ _) (access_layout_widths _ _ Hok Ht)) in Hin. done. }
  rewrite <- (getter_load c h f w) by done. clear Hin Hok Hw.
  destruct a; cbn [attr_get attr_cast];
    try (cbn in Hs; injection Hs as <- <-; done);
    unfold pci_sequence_number_get, pci_control_ack_seq_num, pci_control_new_rt_wind_edge,
      pci_control_new_left_wind_edge, pci_control_my_rt_wind_edge,
      pci_control_my_left_wind_edge, pci_control_last_seq_num_rcvd, pci_control_sndr_rate,
      pci_control_time_frame; rewrite Hty; clear Hty;
    header_cases Ht; cbn in Hs |- *; (discriminate Hs || injection Hs as <- <-); done.
Qed.

Lemma attr_set_store c t a f w h v :
  widths_ok c.(cfg_dt_cons) -> t ∈ header_types -> pci_type c h = Some t ->
  table_get c PCI_DT_MGMT_SN = table_get c PCI_CTRL_SN ->
  attr_slot c.(cfg_dt_cons) t a = Some (f, w) ->
  attr_set c a h v =
  (h' ← store (Z.to_nat w) (Z.to_nat (table_get c f)) v h; Some (0, h')).
Proof.
  intros Hok Ht Hty Hsn Hs. pose proof (attr_slot_layout _ _ _ _ Hok Ht Hs) as Hin.
  pose proof (ok_ctrl _ Hok) as Hctrl. assert (width_ok w) as Hw.
  { eapply (proj1 (Forall_forall _ _) (access_layout_widths _ _ Hok Ht)) in Hin. done. }
  rewrite <- (setter_store c h f w) by done. clear Hin Hok Hw.
  destruct a; cbn [attr_set];
    try (cbn in Hs; injection Hs as <- <-; done);
    unfold pci_sequence_number_set, pci_control_ack_seq_num_set,
      pci_control_new_rt_wind_edge_set, pci_control_new_left_wind_edge_set,
      pci_control_my_rt_wind_edge_set, pci_control_my_left_wind_edge_set,
      pci_control_last_seq_num_rcvd_set, pci_control_sndr_rate_set,
      pci_control_time_frame_set; rewrite ?Hty; clear Hty;
    header_cases Ht; cbn in Hs |- *; (discriminate Hs || injection Hs as <- <-);
    rewrite ?Hctrl; unfold PCI_SETTER; rewrite ?Hsn; done.
Qed.

(** Writing an attribute: the bytes of its slot, and those of the other slots. *)
Lemma attr_set_frame (d : dt_cons) (t : Z) (a : pci_attr) (f : pci_field_index) (w : Z)
    (h : list Z) (v : Z) :
  widths_ok d -> t ∈ header_types -> pci_type (config_of d) h = Some t ->
  pci_calculate_size (config_of d) t <= Z.of_nat (length h) ->
  a <> A_TYPE -> attr_slot d t a = Some (f, w) ->
  exists h', attr_set (config_of d) a h v = Some (0, h') /\ length h' = length h /\
    pci_type (config_of d) h' = Some t /\
    load (Z.to_nat w) (Z.to_nat (table_get (config_of d) f)) h' = Some (uwrap (8 * w) v) /\
    forall b g u, b <> a -> attr_slot d t b = Some (g, u) ->
      load (Z.to_nat u) (Z.to_nat (table_get (config_of d) g)) h' =
      load (Z.to_nat u) (Z.to_nat (table_get (config_of d) g)) h.
Proof.
  intros Hok Ht Hty Hlen Hna Hs. set (c := config_of d) in *.
  assert (table_get c PCI_DT_MGMT_SN = table_get c PCI_CTRL_SN) as Hsn by reflexivity.
  destruct (access_layout_contiguous d t Ht) as [Hc Htot]. fold c in Hc, Htot.
  pose proof (access_layout_widths d t Hok Ht) as Hws.
  pose proof (attr_slot_layout d t a _ Hok Ht Hs) as Hin.
  destruct (contiguous_bounds _ _ _ _ _ Hc Hws Hin) as [Hlo Hhi].
  assert (width_ok w) as Hw by exact (proj1 (Forall_forall _ _) Hws _ Hin).
  assert (exists h', store (Z.to_nat w) (Z.to_nat (table_get c f)) v h = Some h') as [h' Hst].
  { eexists. apply store_Some. unfold width_ok in Hw. lia. }
  assert (forall b g u, b <> a -> attr_slot d t b = Some (g, u) ->
    load (Z.to_nat u) (Z.to_nat (table_get c g)) h' =
    load (Z.to_nat u) (Z.to_nat (table_get c g)) h) as Hframe.
  { intros b g u Hba Hb. pose proof (attr_slot_layout d t b _ Hok Ht Hb) as Hinb.
    assert (f <> g) as Hfg by (intros <-; by eapply Hba, attr_slot_inj).
    assert (width_ok u) as Hu by exact (proj1 (Forall_forall _ _) Hws _ Hinb).
    destruct (contiguous_bounds _ _ _ _ _ Hc Hws Hinb) as [Hlob _].
    eapply load_store_ne; [exact Hst|]. unfold width_ok in *.
    destruct (contiguous_disjoint _ _ _ _ _ _ _ Hc Hws Hin Hinb Hfg); lia. }
  exists h'. split_and!; [|by eapply store_length| | |exact Hframe].
  - erewrite attr_set_store by done. by rewrite Hst.
  - rewrite <- Hty. unfold pci_type. rewrite !getter_load by (by left). f_equal.
    apply (Hframe A_TYPE); [done|reflexivity].
  - erewrite load_store_eq by exact Hst. do 2 f_equal. unfold width_ok in Hw. lia.
Qed.

(** What the accessors of a control attribute do on a PDU whose type has no such
    field. *)
Definition attr_absent (a : pci_attr) : Z :=
  match a with A_SNDR_RATE | A_TIME_FRAME => 0 | _ => u32 (-1) end.

Lemma attr_absent_access c t a h v :
  t ∈ header_types -> pci_type c h = Some t -> attr_slot c.(cfg_dt_cons) t a = None ->
  attr_get c a h = Some (attr_absent a) /\ attr_set c a h v = Some (-1, h).
Proof.
  intros Ht Hty Hs.
  destruct a; try discriminate Hs; cbn [attr_get attr_set attr_absent];
    unfold pci_sequence_number_get, pci_control_ack_seq_num, pci_control_new_rt_wind_edge,
      pci_control_new_left_wind_edge, pci_control_my_rt_wind_edge,
      pci_control_my_left_wind_edge, pci_control_last_seq_num_rcvd, pci_control_sndr_rate,
      pci_control_time_frame, pci_sequence_number_set, pci_control_ack_seq_num_set,
      pci_control_new_rt_wind_edge_set, pci_control_new_left_wind_edge_set,
      pci_control_my_rt_wind_edge_set, pci_control_my_left_wind_edge_set,
      pci_control_last_seq_num_rcvd_set, pci_control_sndr_rate_set,
      pci_control_time_frame_set; rewrite ?Hty;
    header_cases Ht; cbn in Hs |- *; (discriminate Hs || by split).
Qed.

(** Writing an attribute of a header with its setter succeeds, the matching
    getter then returns the value truncated to the width of the field, and no
    other attribute of the header changes. *)
Theorem pci_set_get (d : dt_cons) (t : Z) (a : pci_attr) (f : pci_field_index) (w : Z)
    (h : list Z) (v : Z) :
  widths_ok d -> t ∈ header_types -> pci_type (config_of d) h = Some t ->
  pci_calculate_size (config_of d) t <= Z.of_nat (length h) ->
  a <> A_TYPE -> attr_slot d t a = Some (f, w) ->
  exists h', attr_set (config_of d) a h v = Some (0, h') /\ length h' = length h /\
    attr_get (config_of d) a h' = Some (attr_cast a (uwrap (8 * w) v)) /\
    (forall b, b <> a -> is_Some (attr_slot d t b) ->
       attr_get (config_of d) b h' = attr_get (config_of d) b h).
Proof.
  intros Hok Ht Hty Hlen Hna Hs.
  destruct (attr_set_frame d t a f w h v Hok Ht Hty Hlen Hna Hs) as (h' & Hset & Hl & Hty' & Hv & Hfr).
  exists h'. split_and!; [done|done| |].
  - erewrite attr_get_load by done. by rewrite Hv.
  - intros b Hba [[g u] Hb]. erewrite !attr_get_load by done. f_equal. by eapply Hfr.
Qed.

(** ** Sequences of writes *)

Definition write_slot (c : efcp_config) (h : list Z) (x : pci_field_index * Z * Z)
  : option (list Z) :=
  let '(f, w, v) := x in store (Z.to_nat w) (Z.to_nat (table_get c f)) v h.

Fixpoint write_all (c : efcp_config) (h : list Z) (l : list (pci_field_index * Z * Z))
  : option (list Z) :=
  match l with
  | [] => Some h
  | x :: l' => h' ← write_slot c h x; write_all c h' l'
  end.

Section WriteAll.
Context (c : efcp_config) (L : list (pci_field_index * Z)).
Context (Hc : contiguous c 0 L) (HL : Forall (fun p => width_ok (snd p)) L).

Lemma write_slot_ok h f w v :
  (f, w) ∈ L -> total L <= Z.of_nat (length h) ->
  exists h', write_slot c h (f, w, v) = Some h' /\ length h' = length h /\
    load (Z.to_nat w) (Z.to_nat (table_get c f)) h' = Some (uwrap (8 * w) v) /\
    forall g u, (g, u) ∈ L -> g <> f ->
      load (Z.to_nat u) (Z.to_nat (table_get c g)) h' =
      load (Z.to_nat u) (Z.to_nat (table_get c g)) h.
Proof.
  intros Hin Hlen. destruct (contiguous_bounds _ _ _ _ _ Hc HL Hin) as [Hlo Hhi].
  assert (width_ok w) as Hw by exact (proj1 (Forall_forall _ _) HL _ Hin).
  unfold width_ok in Hw. eexists. cbn [write_slot].
  rewrite store_Some by lia. split; [done|].
  assert (store (Z.to_nat w) (Z.to_nat (table_get c f)) v h = Some
    (take (Z.to_nat (table_get c f)) h ++ le_encode (Z.to_nat w) v ++
     drop (Z.to_nat (table_get c f) + Z.to_nat w) h)) as Hst by (apply store_Some; lia).
  split; [by eapply store_length|split].
  - erewrite load_store_eq by exact Hst. do 2 f_equal. lia.
  - intros g u Hg Hne. assert (width_ok u) as Hu by exact (proj1 (Forall_forall _ _) HL _ Hg).
    unfold width_ok in Hu. destruct (contiguous_bounds _ _ _ _ _ Hc HL Hg) as [Hlog _].
    eapply load_store_ne; [exact Hst|].
    destruct (contiguous_disjoint _ _ _ _ _ _ _ Hc HL Hin Hg); [done|lia..].
Qed.

Lemma write_all_ok l h :
  Forall (fun x => fst x ∈ L) l -> NoDup ((fun x => fst (fst x)) <$> l) ->
  total L <= Z.of_nat (length h) ->
  exists h', write_all c h l = Some h' /\ length h' = length h /\
    (forall f w v, (f, w, v) ∈ l ->
       load (Z.to_nat w) (Z.to_nat (table_get c f)) h' = Some (uwrap (8 * w) v)) /\
    (forall g u, (g, u) ∈ L -> g ∉ ((fun x => fst (fst x)) <$> l) ->
       load (Z.to_nat u) (Z.to_nat (table_get c g)) h' =
       load (Z.to_nat u) (Z.to_nat (table_get c g)) h).
Proof.
  revert h. induction l as [|[[f w] v] l IH]; intros h HlL Hnd Hlen.
  - exists h. split_and!; [done..| |done]. intros f w v Hin. by apply elem_of_nil in Hin.
  - apply Forall_cons in HlL as [Hf HlL]. apply NoDup_cons in Hnd as [Hnf Hnd]. cbn in Hf, Hnf.
    destruct (write_slot_ok h f w v Hf Hlen) as (h1 & E1 & Hl1 & Hv1 & Hfr1).
    destruct (IH h1 HlL Hnd) as (h2 & E2 & Hl2 & Hv2 & Hfr2); [congruence|].
    exists h2. cbn [write_all]. rewrite E1. split_and!; [done|congruence| |].
    + intros f' w' v' Hin. apply elem_of_cons in Hin as [Hin|Hin]; [simplify_eq|by apply Hv2].
      rewrite Hfr2; done.
    + intros g u Hg Hnin. rewrite fmap_cons in Hnin. cbn in Hnin.
      rewrite Hfr2 by set_solver. apply Hfr1; set_solver.
Qed.

Lemma write_all_drop l h h' k :
  Forall (fun x => fst x ∈ L) l -> total L <= Z.of_nat k ->
  write_all c h l = Some h' -> drop k h' = drop k h.
Proof.
  intros HlL Hk. revert h. induction HlL as [|[[f w] v] l Hf HlL IH]; intros h E; [by simplify_eq/=|].
  cbn [write_all] in E. destruct (write_slot c h _) as [h1|] eqn:E1; [|done]. cbn in E.
  rewrite (IH h1 E). cbn in Hf. destruct (contiguous_bounds _ _ _ _ _ Hc HL Hf).
  assert (width_ok w) as Hw by exact (proj1 (Forall_forall _ _) HL _ Hf).
  unfold width_ok in Hw. eapply store_drop; [exact E1|]. lia.
Qed.
End WriteAll.

(** The slots [pci_format] writes, in its order. *)
Definition format_writes (d : dt_cons) (src_cep_id dst_cep_id src_address dst_address
    sequence_number qos_id flags length type : Z) : list (pci_field_index * Z * Z) :=
  [(PCI_BASE_VERSION, VERSION_SIZE, VERSION); (PCI_BASE_TYPE, TYPE_SIZE, type);
   (PCI_BASE_DST_CEP, d.(cep_id_length), dst_cep_id);
   (PCI_BASE_SRC_CEP, d.(cep_id_length), src_cep_id);
   (PCI_BASE_DST_ADD, d.(address_length), dst_address);
   (PCI_BASE_SRC_ADD, d.(address_length), src_address);
   (PCI_DT_MGMT_SN, d.(seq_num_length), sequence_number);
   (PCI_BASE_QOS_ID, d.(qos_id_length), qos_id); (PCI_BASE_FLAGS, FLAGS_SIZE, flags);
   (PCI_BASE_LEN, d.(length_length), length)].

Lemma or_else_store c h f w v k :
  width_ok w -> or_else (PCI_SETTER c h f w v) k = (h' ← write_slot c h (f, w, v); k h').
Proof.
  intros Hw. rewrite setter_store by done. unfold or_else, write_slot.
  by destruct (store _ _ _ _).
Qed.

Lemma pci_format_writes c h s1 d1 s2 d2 sn q fl ln t :
  widths_ok c.(cfg_dt_cons) ->
  pci_format c h s1 d1 s2 d2 sn q fl ln t =
  (h' ← write_all c h (format_writes c.(cfg_dt_cons) s1 d1 s2 d2 sn q fl ln t); Some (0, h')).
Proof.
  intros []. assert (width_ok 1) by by left.
  unfold pci_format, pci_version_set, pci_type_set, pci_cep_destination_set,
    pci_cep_source_set, pci_destination_set, pci_source_set, pci_sequence_number_set,
    pci_qos_id_set, pci_flags_set, pci_len_set, format_writes. cbn [write_all].
  rewrite or_else_store by done. destruct (write_slot c h _) as [h1|]; [|done]. cbn [mbind option_bind].
  do 9 (rewrite or_else_store by done; match goal with
        | |- (write_slot ?c ?h ?x ≫= _) = _ => destruct (write_slot c h x); [|done]
        end; cbn [mbind option_bind]).
  done.
Qed.

(** The value [pci_format] gives to each attribute it writes. *)
Definition format_arg (src_cep_id dst_cep_id src_address dst_address
    sequence_number qos_id flags length type : Z) (a : pci_attr) : option Z :=
  match a with
  | A_VERSION => Some VERSION
  | A_TYPE => Some type
  | A_CEP_DESTINATION => Some dst_cep_id
  | A_CEP_SOURCE => Some src_cep_id
  | A_DESTINATION => Some dst_address
  | A_SOURCE => Some src_address
  | A_SEQUENCE_NUMBER => Some sequence_number
  | A_QOS_ID => Some qos_id
  | A_FLAGS => Some flags
  | A_LENGTH => Some length
  | _ => None
  end.

(** A data header is the shortest one. *)
Lemma data_header_shortest d t :
  widths_ok d -> t ∈ header_types ->
  total (layout d PDU_TYPE_DT) <= pci_calculate_size (config_of d) t.
Proof.
  intros [] H. unfold width_ok in *. rewrite <- (proj2 (access_layout_contiguous d t H)).
  unfold access_layout. header_cases H; cbn; lia.
Qed.

Lemma header_size_pos d t :
  widths_ok d -> t ∈ header_types -> 0 < pci_calculate_size (config_of d) t.
Proof.
  intros Hok Ht. pose proof (data_header_shortest d t Hok Ht).
  assert (0 < total (layout d PDU_TYPE_DT)); [|lia].
  destruct Hok. unfold width_ok in *. cbn. unfold VERSION_SIZE, TYPE_SIZE, FLAGS_SIZE. lia.
Qed.

Lemma format_writes_layout d s1 d1 s2 d2 sn q fl ln t :
  Forall (fun x => fst x ∈ layout d PDU_TYPE_DT) (format_writes d s1 d1 s2 d2 sn q fl ln t).
Proof.
  repeat (apply Forall_cons; split); [..|apply Forall_nil; done];
    apply list_elem_of_In; cbn; tauto.
Qed.

(** [pci_format] leaves the bytes behind the header alone. *)
Lemma pci_format_drop d h h' s1 d1 s2 d2 sn q fl ln t :
  widths_ok d -> t ∈ header_types ->
  pci_format (config_of d) h s1 d1 s2 d2 sn q fl ln t = Some (0, h') ->
  drop (Z.to_nat (pci_calculate_size (config_of d) t)) h' =
  drop (Z.to_nat (pci_calculate_size (config_of d) t)) h.
Proof.
  intros Hok Ht. rewrite pci_format_writes by done.
  destruct (write_all _ _ _) as [h1|] eqn:E; [|done]. cbn [mbind option_bind]. intros [= <-].
  assert (PDU_TYPE_DT ∈ header_types) as Hdt by (apply list_elem_of_In; cbn; tauto).
  eapply (write_all_drop _ (layout d PDU_TYPE_DT)); [| | | |exact E].
  - apply (access_layout_contiguous d PDU_TYPE_DT Hdt).
  - by apply (access_layout_widths d PDU_TYPE_DT).
  - apply format_writes_layout.
  - pose proof (data_header_shortest d t Hok Ht). lia.
Qed.

(** The bytes of the slots after [pci_format]. *)
Lemma pci_format_loads (d : dt_cons) (h : list Z) (src_cep_id dst_cep_id src_address
    dst_address sequence_number qos_id flags length_ type : Z) :
  widths_ok d -> type ∈ header_types ->
  pci_calculate_size (config_of d) type <= Z.of_nat (length h) ->
  exists h', pci_format (config_of d) h src_cep_id dst_cep_id src_address dst_address
               sequence_number qos_id flags length_ type = Some (0, h') /\
    length h' = length h /\ pci_type (config_of d) h' = Some type /\
    forall a v f w,
      format_arg src_cep_id dst_cep_id src_address dst_address sequence_number qos_id
        flags length_ type a = Some v ->
      attr_slot d type a = Some (f, w) ->
      load (Z.to_nat w) (Z.to_nat (table_get (config_of d) f)) h' = Some (uwrap (8 * w) v).
Proof.
  intros Hok Ht Hlen. pose proof (data_header_shortest d type Hok Ht) as Hmin.
  assert (PDU_TYPE_DT ∈ header_types) as Hdt by (apply list_elem_of_In; cbn; tauto).
  destruct (access_layout_contiguous d PDU_TYPE_DT Hdt) as [Hc _].
  pose proof (access_layout_widths d PDU_TYPE_DT Hok Hdt) as Hws.
  set (c := config_of d) in *.
  destruct (write_all_ok c (layout d PDU_TYPE_DT) Hc Hws
    (format_writes d src_cep_id dst_cep_id src_address dst_address sequence_number qos_id
       flags length_ type) h) as (h' & E & Hl & Hv & _).
  { apply format_writes_layout. }
  { apply (bool_decide_unpack _). vm_compute. exact I. }
  { lia. }
  assert (pci_type c h' = Some type) as Hty.
  { unfold pci_type. rewrite getter_load by (by left).
    rewrite (Hv PCI_BASE_TYPE TYPE_SIZE type) by (apply list_elem_of_In; cbn; tauto).
    cbn. f_equal. rewrite uwrap_uwrap. apply uwrap_small.
    header_cases Ht; split; vm_compute; congruence. }
  exists h'. rewrite pci_format_writes by done. unfold c. cbn [cfg_dt_cons config_of].
  fold c. rewrite E. split; [done|]. split; [done|]. split; [done|].
  intros a v f w Ha Hs.
  pose proof (ok_ctrl _ Hok) as Hctrl.
  assert (table_get c PCI_CTRL_SN = table_get c PCI_DT_MGMT_SN) as Hsn by reflexivity.
  destruct a; cbn in Ha; try discriminate Ha; injection Ha as <-; cbn in Hs;
    try (injection Hs as <- <-; apply Hv; apply list_elem_of_In; cbn; tauto).
  case_match; injection Hs as <- <-; rewrite ?Hctrl, ?Hsn; apply Hv;
    apply list_elem_of_In; cbn; tauto.
Qed.

(** [pci_format] on a buffer that holds the header of a PDU of type [type]
    succeeds, and every attribute it is given reads back as its argument
    truncated to the width of the field: the type is the one given, so are the
    addresses, the connection-endpoint ids, the QoS id, the flags, the length and
    the sequence number, for data and control PDUs alike. *)
Theorem pci_format_get (d : dt_cons) (h : list Z) (src_cep_id dst_cep_id src_address
    dst_address sequence_number qos_id flags length_ type : Z) :
  widths_ok d -> type ∈ header_types ->
  pci_calculate_size (config_of d) type <= Z.of_nat (length h) ->
  exists h', pci_format (config_of d) h src_cep_id dst_cep_id src_address dst_address
               sequence_number qos_id flags length_ type = Some (0, h') /\
    length h' = length h /\ pci_type (config_of d) h' = Some type /\
    forall a v f w,
      format_arg src_cep_id dst_cep_id src_address dst_address sequence_number qos_id
        flags length_ type a = Some v ->
      attr_slot d type a = Some (f, w) ->
      attr_get (config_of d) a h' = Some (attr_cast a (uwrap (8 * w) v)).
Proof.
  intros Hok Ht Hlen.
  destruct (pci_format_loads d h src_cep_id dst_cep_id src_address dst_address sequence_number
    qos_id flags length_ type Hok Ht Hlen) as (h' & Hf & Hl & Hty & Hv).
  exists h'. split_and!; [done..|]. intros a v f w Ha Hs.
  erewrite attr_get_load by done. by rewrite (Hv a v f w Ha Hs).
Qed.

(** The data-transfer constants of the configurations shipped with the stack. *)
Definition example_dt_cons : dt_cons :=
  mk_dt_cons 2 2 2 2 2 4 4 10000 10000 60000 4 4 false 0 true true 0 0.

Lemma example_widths_ok : widths_ok example_dt_cons.
Proof. split; apply (bool_decide_unpack _); vm_compute; exact I. Qed.

Lemma pci_set_get_witness :
  exists h', attr_set (config_of example_dt_cons) A_NEW_RT_WIND_EDGE
               (le_encode 13 (256 ^ 11 * PDU_TYPE_FC) ++ repeat 0 30) 77 = Some (0, h') /\
    length h' = 43%nat /\
    attr_get (config_of example_dt_cons) A_NEW_RT_WIND_EDGE h' = Some (u32 (uwrap (8 * 4) 77)) /\
    (forall b, b <> A_NEW_RT_WIND_EDGE -> is_Some (attr_slot example_dt_cons PDU_TYPE_FC b) ->
       attr_get (config_of example_dt_cons) b h' =
       attr_get (config_of example_dt_cons) b
         (le_encode 13 (256 ^ 11 * PDU_TYPE_FC) ++ repeat 0 30)).
Proof.
  apply (pci_set_get example_dt_cons PDU_TYPE_FC A_NEW_RT_WIND_EDGE PCI_FC_NEW_RWE 4
           (le_encode 13 (256 ^ 11 * PDU_TYPE_FC) ++ repeat 0 30) 77).
  - exact example_widths_ok.
  - apply list_elem_of_In. cbn. tauto.
  - reflexivity.
  - vm_compute. congruence.
  - discriminate.
  - reflexivity.
Defined.

Lemma pci_format_get_witness :
  exists h', pci_format (config_of example_dt_cons) (repeat 0 60) 1 2 22 23 2533 1 0 40
               PDU_TYPE_MGMT = Some (0, h') /\
    length h' = 60%nat /\ pci_type (config_of example_dt_cons) h' = Some PDU_TYPE_MGMT /\
    forall a v f w,
      format_arg 1 2 22 23 2533 1 0 40 PDU_TYPE_MGMT a = Some v ->
      attr_slot example_dt_cons PDU_TYPE_MGMT a = Some (f, w) ->
      attr_get (config_of example_dt_cons) a h' = Some (attr_cast a (uwrap (8 * w) v)).
Proof.
  apply (pci_format_get example_dt_cons (repeat 0 60) 1 2 22 23 2533 1 0 40 PDU_TYPE_MGMT).
  - exact example_widths_ok.
  - apply list_elem_of_In. cbn. tauto.
  - vm_compute. congruence.
Defined.

(** Constants with control sequence numbers narrower than data ones. *)
Definition narrow_dt_cons : dt_cons :=
  mk_dt_cons 2 2 2 2 2 4 2 10000 10000 60000 4 4 false 0 true true 0 0.

(** When control sequence numbers are narrower than data ones, writing the
    last control sequence number received overwrites the new left window edge
    that follows it in the header of an ACK_AND_FC PDU. *)
Theorem pci_last_csn_overlap :
  let c := config_of narrow_dt_cons in
  exists h1 h2,
    pci_format c (repeat 0 60) 1 2 22 23 5 1 0 40 PDU_TYPE_ACK_AND_FC = Some (0, h1) /\
    pci_control_new_left_wind_edge c h1 = Some 0 /\
    pci_control_last_seq_num_rcvd_set c h1 (2 ^ 16) = Some (0, h2) /\
    pci_control_new_left_wind_edge c h2 = Some 1.
Proof.
  intros c.
  set (r1 := pci_format c (repeat 0 60) 1 2 22 23 5 1 0 40 PDU_TYPE_ACK_AND_FC).
  set (h1 := snd (default (0, []) r1)).
  exists h1, (snd (default (0, []) (pci_control_last_seq_num_rcvd_set c h1 (2 ^ 16)))).
  vm_compute. repeat split.
Qed.

(** RENDEZVOUS PDUs have a sender rate and a time frame in their layout,
    but only the rate is accessible: the setter of the time frame fails on
    them and its getter reads 0 whatever the header holds. *)
Theorem pci_rendezvous_time_frame (d : dt_cons) (h : list Z) (v : Z) :
  (PCI_RVOUS_TIME_FRAME, d.(frame_length)) ∈ layout d PDU_TYPE_RENDEZVOUS /\
  (pci_type (config_of d) h = Some PDU_TYPE_RENDEZVOUS ->
   pci_control_time_frame (config_of d) h = Some 0 /\
   pci_control_time_frame_set (config_of d) h v = Some (-1, h)).
Proof.
  split; [apply list_elem_of_In; cbn; tauto|].
  intros H. unfold pci_control_time_frame, pci_control_time_frame_set. by rewrite H.
Qed.
