(* ===== verification/Skb.v ===== *)
(** * Socket buffers

    The buffers of the data units are [struct sk_buff] of the Linux kernel, which
    is not part of the repository.  [SkBuff] names the operations the stack calls
    and [SkBuffLaws] their documented behaviour; the components are proved against
    the interface, and [lskb] is a concrete instance to evaluate examples with. *)

From S2P Require Import Prelude.
From Stdlib Require Import ZArith Lia.
From stdpp Require Import base list numbers option.
#[local] Open Scope Z_scope.

Class SkBuff (S : Type) := {
  skb_data : S -> list Z;
  skb_headroom : S -> nat;
  skb_tailroom : S -> nat;
  alloc_skb : nat -> S;
  skb_reserve : S -> nat -> S;
  skb_put : S -> nat -> S;
  skb_push : S -> nat -> S;
  skb_pull : S -> nat -> S;
  skb_trim : S -> nat -> S;
  pskb_expand_head : S -> nat -> nat -> S;
  skb_memcpy : S -> nat -> list Z -> S
}.

(** [skb->len]. *)
Definition skb_len {S} `{SkBuff S} (s : S) : nat := length (skb_data s).

(** The documented behaviour.  [alloc_skb] and [pskb_expand_head] are described
    for a granted allocation; a refused one is a value of the oracle.  The kernel rounds
    the size of a buffer up, so that the tail room may be larger than what was asked for. *)
Class SkBuffLaws (S : Type) `{SkBuff S} := {
  skb_alloc_spec n : skb_data (alloc_skb n) = [] /\ skb_headroom (alloc_skb n) = 0%nat /\
    (n <= skb_tailroom (alloc_skb n))%nat;
  skb_reserve_spec s n : skb_data s = [] -> (n <= skb_tailroom s)%nat ->
    skb_data (skb_reserve s n) = [] /\ skb_headroom (skb_reserve s n) = (skb_headroom s + n)%nat /\
    skb_tailroom (skb_reserve s n) = (skb_tailroom s - n)%nat;
  skb_put_spec s n : (n <= skb_tailroom s)%nat ->
    skb_len (skb_put s n) = (skb_len s + n)%nat /\
    take (skb_len s) (skb_data (skb_put s n)) = skb_data s /\
    skb_headroom (skb_put s n) = skb_headroom s /\
    skb_tailroom (skb_put s n) = (skb_tailroom s - n)%nat;
  skb_push_spec s n : (n <= skb_headroom s)%nat ->
    skb_len (skb_push s n) = (n + skb_len s)%nat /\
    drop n (skb_data (skb_push s n)) = skb_data s /\
    skb_headroom (skb_push s n) = (skb_headroom s - n)%nat;
  skb_pull_spec s n : (n <= skb_len s)%nat ->
    skb_data (skb_pull s n) = drop n (skb_data s) /\
    skb_headroom (skb_pull s n) = (skb_headroom s + n)%nat;
  skb_pull_short s n : (skb_len s < n)%nat -> skb_pull s n = s;
  skb_trim_spec s n : skb_data (skb_trim s n) = take n (skb_data s) /\
    skb_headroom (skb_trim s n) = skb_headroom s;
  skb_expand_spec s h t : skb_data (pskb_expand_head s h t) = skb_data s /\
    skb_headroom (pskb_expand_head s h t) = (skb_headroom s + h)%nat /\
    (skb_tailroom s + t <= skb_tailroom (pskb_expand_head s h t))%nat;
  skb_memcpy_spec s off bs : (off + length bs <= skb_len s)%nat ->
    skb_data (skb_memcpy s off bs) =
      take off (skb_data s) ++ bs ++ drop (off + length bs) (skb_data s) /\
    skb_headroom (skb_memcpy s off bs) = skb_headroom s /\
    skb_tailroom (skb_memcpy s off bs) = skb_tailroom s
}.

(** ** A concrete buffer: head room, data and tail room as byte lists *)

Record lskb := mk_lskb { l_head : list Z; l_data : list Z; l_tail : list Z }.

#[export] Instance lskb_SkBuff : SkBuff lskb := {|
  skb_data s := s.(l_data);
  skb_headroom s := length s.(l_head);
  skb_tailroom s := length s.(l_tail);
  alloc_skb n := mk_lskb [] [] (repeat 0 n);
  skb_reserve s n := mk_lskb (s.(l_head) ++ take n s.(l_tail)) s.(l_data) (drop n s.(l_tail));
  skb_put s n := mk_lskb s.(l_head) (s.(l_data) ++ take n s.(l_tail)) (drop n s.(l_tail));
  skb_push s n :=
    let k := (length s.(l_head) - n)%nat in
    mk_lskb (take k s.(l_head)) (drop k s.(l_head) ++ s.(l_data)) s.(l_tail);
  skb_pull s n :=
    if decide (n <= length s.(l_data))%nat
    then mk_lskb (s.(l_head) ++ take n s.(l_data)) (drop n s.(l_data)) s.(l_tail) else s;
  skb_trim s n := mk_lskb s.(l_head) (take n s.(l_data)) (drop n s.(l_data) ++ s.(l_tail));
  pskb_expand_head s h t :=
    mk_lskb (repeat 0 h ++ s.(l_head)) s.(l_data) (s.(l_tail) ++ repeat 0 t);
  skb_memcpy s off bs :=
    mk_lskb s.(l_head) (take off s.(l_data) ++ bs ++ drop (off + length bs) s.(l_data)) s.(l_tail)
|}.

#[export] Instance lskb_SkBuffLaws : SkBuffLaws lskb.
Proof.
  constructor; unfold skb_len; cbn; intros;
    rewrite ?length_app, ?length_take, ?length_drop, ?repeat_length; split_and?; try done; try lia.
  - by rewrite take_app_length.
  - rewrite drop_app_le, (drop_ge (drop _ _)); rewrite ?length_drop; try lia; done.
  - by case_decide.
  - case_decide; [|done]. cbn. rewrite length_app, length_take. lia.
  - case_decide; [lia|done].
Qed.
