(* ===== verification/Du.v ===== *)
(** * Data units

    Models [src/kernel/du.c]: a data unit is a socket buffer with the position of
    its PCI, its configuration, and the operations that grow, shrink, encapsulate
    and decapsulate it, and the lists of data units.  [pci_h] is the distance of
    [pci->h] from the start of the buffer, [None] the null pointer; [skb->data]
    is at distance [skb_headroom].  [None] as the result of an operation is the
    kernel stopping on a buffer overrun ([skb_push] under the head of the buffer,
    [skb_put] over its end) or on a null configuration. *)

From S2P Require Import Prelude Kucommon Pci Skb.
From Stdlib Require Import ZArith Lia.
From stdpp Require Import base list numbers option.
#[local] Open Scope Z_scope.

Definition MAX_PCIS_LEN : nat := 40 * 5.
Definition MAX_TAIL_LEN : nat := 20.

Record du (S : Type) := mk_du {
  du_cfg : option efcp_config;
  pci_h : option nat;
  pci_len : Z;
  du_skb : S
}.
Arguments mk_du {S}.
Arguments du_cfg {S}.
Arguments pci_h {S}.
Arguments pci_len {S}.
Arguments du_skb {S}.

Section Du.
Context {S : Type} `{SkBuffLaws S}.
Implicit Types (x : du S) (s : S).

Definition set_skb x s : du S := mk_du x.(du_cfg) x.(pci_h) x.(pci_len) s.
Definition set_pci_h x (p : option nat) : du S := mk_du x.(du_cfg) p x.(pci_len) x.(du_skb).

(** [du_buffer] is [skb->data]; as a value, the bytes found there. *)
Definition du_buffer x : list Z := skb_data x.(du_skb).
Definition du_len x : Z := Z.of_nat (skb_len x.(du_skb)).

(** Two allocations: the structure and its buffer. *)
Definition du_create_gfp (data_len : nat) (o : oracle) : option (du S) * oracle :=
  let '(ok1, o) := rkmalloc o in
  if negb ok1 then (None, o)
  else let '(ok2, o) := rkmalloc o in
  if negb ok2 then (None, o)
  else
    let s := alloc_skb (MAX_PCIS_LEN + data_len + MAX_TAIL_LEN) in
    let s := skb_reserve s MAX_PCIS_LEN in
    let s := skb_put s data_len in
    (Some (mk_du None None 0 s), o).

Definition du_create_gfp_efcp (type : Z) (cfg : efcp_config) (o : oracle)
  : option (du S) * oracle :=
  let pci_len := pci_calculate_size cfg type in
  let '(ok1, o) := rkmalloc o in
  if negb ok1 then (None, o)
  else let '(ok2, o) := rkmalloc o in
  if negb ok2 then (None, o)
  else
    let s := alloc_skb (MAX_PCIS_LEN + MAX_TAIL_LEN) in
    let s := skb_reserve s MAX_PCIS_LEN in
    let s := skb_push s (Z.to_nat pci_len) in
    (Some (mk_du (Some cfg) (Some (skb_headroom s)) pci_len s), o).

Definition du_consume_data x (size : nat) : du S := set_skb x (skb_pull x.(du_skb) size).

Definition du_encap x (type : Z) : option (Z * du S) :=
  cfg ← x.(du_cfg);
  let pci_len := pci_calculate_size cfg type in
  if 0 <? pci_len then
    if decide (Z.to_nat pci_len <= skb_headroom x.(du_skb))%nat then
      let s := skb_push x.(du_skb) (Z.to_nat pci_len) in
      Some (0, mk_du x.(du_cfg) (Some (skb_headroom s)) pci_len s)
    else None
  else Some (-1, x).

Definition du_tail_shrink x (bytes : Z) : Z * du S :=
  (0, set_skb x (skb_trim x.(du_skb) (Z.to_nat (u32 (du_len x - bytes))))).

Definition du_decap x : option (Z * du S) :=
  let x := set_pci_h x (Some (skb_headroom x.(du_skb))) in
  cfg ← x.(du_cfg);
  type ← pci_type cfg (du_buffer x);
  if negb (pdu_type_is_ok type) then Some (-1, x)
  else
    let pci_len := pci_calculate_size cfg type in
    if pci_len <=? 0 then Some (-1, x)
    else
      plen ← pci_length cfg (du_buffer x);
      let x := if plen <? du_len x then snd (du_tail_shrink x (du_len x - plen)) else x in
      let s := skb_pull x.(du_skb) (Z.to_nat pci_len) in
      Some (0, mk_du x.(du_cfg) x.(pci_h) pci_len s).

Definition du_data_len x : Z :=
  if decide (x.(pci_h) = Some (skb_headroom x.(du_skb))) then du_len x - x.(pci_len)
  else du_len x.

(** [du_dup]: the clone shares the buffer, the copy of the structure does not. *)
Definition du_dup_gfp x (o : oracle) : option (du S) * oracle :=
  let '(ok1, o) := rkmalloc o in
  if negb ok1 then (None, o)
  else let '(ok2, o) := rkmalloc o in
  if negb ok2 then (None, o)
  else (Some (mk_du x.(du_cfg) x.(pci_h) x.(pci_len) x.(du_skb)), o).

Definition du_tail_grow x (bytes : nat) (o : oracle) : option (Z * du S) * oracle :=
  if decide (skb_tailroom x.(du_skb) < bytes)%nat then
    let '(ok, o) := rkmalloc o in
    if negb ok then (Some (-1, x), o)
    else
      let s := pskb_expand_head x.(du_skb) 0 bytes in
      let p := match x.(pci_h) with Some _ => Some (skb_headroom s) | None => None end in
      (Some (0, mk_du x.(du_cfg) p x.(pci_len) (skb_put s bytes)), o)
  else (Some (0, set_skb x (skb_put x.(du_skb) bytes)), o).

Definition du_head_grow x (bytes : nat) (o : oracle) : option (Z * du S) * oracle :=
  let offset := match x.(pci_h) with
                | Some p => Z.of_nat (skb_headroom x.(du_skb)) - Z.of_nat p
                | None => 0
                end in
  let push x :=
    let n := match x.(pci_h) with
             | Some _ => if offset <=? 0 then bytes else (Z.to_nat offset + bytes)%nat
             | None => bytes
             end in
    if decide (n <= skb_headroom x.(du_skb))%nat
    then Some (0, set_skb x (skb_push x.(du_skb) n)) else None in
  if decide (skb_headroom x.(du_skb) < bytes)%nat then
    let '(ok, o) := rkmalloc o in
    if negb ok then (Some (-1, x), o)
    else
      let s := pskb_expand_head x.(du_skb) bytes 0 in
      let p := match x.(pci_h) with Some _ => Some (skb_headroom s) | None => None end in
      (push (mk_du x.(du_cfg) p x.(pci_len) s), o)
  else (push x, o).

(** [skb_pull] returns the new [skb->data], or the null pointer when the buffer
    is shorter than [bytes]. *)
Definition du_head_shrink x (bytes : nat) : Z * du S :=
  let s := skb_pull x.(du_skb) bytes in
  let r := if decide (bytes <= skb_len x.(du_skb))%nat then Some (skb_headroom s) else None in
  let p := match x.(pci_h) with Some _ => r | None => None end in
  (0, mk_du x.(du_cfg) p x.(pci_len) s).

(** ** Lists of data units *)

(** [add_du_to_list_gfp]: one allocation, the item goes to the tail. *)
Definition add_du_to_list_gfp (l : list (du S)) x (o : oracle) : Z * list (du S) * oracle :=
  let '(ok, o) := rkmalloc o in
  if negb ok then (-1, l, o) else (0, l ++ [x], o).

(** [du_list_clear] with the data units destroyed. *)
Definition du_list_clear (l : list (du S)) : list (du S) := [].

(** ** Lemmas *)

Lemma du_len_nonneg x : 0 <= du_len x.
Proof. unfold du_len. lia. Qed.

(** A granted data unit has [data_len] bytes and room for the headers. *)
Lemma du_create_spec n :
  exists x, du_create_gfp n [] = (Some x, []) /\ du_len x = Z.of_nat n /\
    x.(du_cfg) = None /\ x.(pci_h) = None /\ skb_headroom x.(du_skb) = MAX_PCIS_LEN.
Proof.
  unfold du_create_gfp. cbn [rkmalloc negb]. eexists. split; [done|].
  set (a := alloc_skb _). destruct (skb_alloc_spec (MAX_PCIS_LEN + n + MAX_TAIL_LEN)) as (Hd & Hh & Ht).
  destruct (skb_reserve_spec a MAX_PCIS_LEN) as (Hd1 & Hh1 & Ht1); [done|fold a in Ht; lia|].
  fold a in Hh, Ht. destruct (skb_put_spec (skb_reserve a MAX_PCIS_LEN) n) as (Hl & _ & Hh2 & _); [lia|].
  unfold du_len. cbn [du_skb du_cfg pci_h]. rewrite Hl, Hh2. unfold skb_len. rewrite Hd1.
  cbn [length]. split_and!; [lia|done..|lia].
Qed.

(** Decapsulation of a PDU whose header reads as type [type] and length
    [length pdu], in a buffer that may have padding behind the PDU. *)
Lemma du_decap_padded d type x y sz pdu pad :
  let c := config_of d in
  widths_ok d -> type ∈ header_types -> y.(du_cfg) = Some c -> du_buffer y = pdu ++ pad ->
  sz = pci_calculate_size c type -> 0 < sz ->
  pci_type c pdu = Some type -> pci_length c pdu = Some (sz + du_len x) ->
  length pdu = (Z.to_nat sz + length (du_buffer x))%nat -> in_u 32 (sz + du_len x) ->
  drop (Z.to_nat sz) pdu = du_buffer x ->
  exists y', du_decap y = Some (0, y') /\ du_buffer y' = du_buffer x /\
    du_data_len y' = du_len x.
Proof.
  intros c Hok Ht Hy Hbuf Hsz Hpos Hty Hplen Hlen H32 Hdrop.
  assert (pdu_type_is_ok type = true) as Htok by (header_cases Ht; done).
  apply (getter_app _ _ pad) in Hty, Hplen.
  assert (du_len y = sz + du_len x + Z.of_nat (length pad)) as Hly.
  { unfold du_len, skb_len. fold (du_buffer y) (du_buffer x). rewrite Hbuf, length_app. lia. }
  unfold du_decap. cbn [du_cfg set_pci_h]. rewrite Hy. cbn [mbind option_bind].
  fold (du_buffer y). change (du_buffer (set_pci_h y _)) with (du_buffer y).
  rewrite Hbuf. unfold pci_type. rewrite Hty. cbn [mbind option_bind].
  rewrite Htok, <- Hsz. cbn [negb]. rewrite (proj2 (Z.leb_gt sz 0)) by done.
  unfold pci_length. rewrite Hplen. cbn [mbind option_bind].
  change (du_len (set_pci_h y _)) with (du_len y).
  set (x' := if _ <? _ then _ else _).
  assert (du_buffer x' = pdu /\ skb_headroom x'.(du_skb) = skb_headroom y.(du_skb) /\
          pci_h x' = Some (skb_headroom y.(du_skb))) as (Hb' & Hh' & Hp').
  { unfold x'. case (Z.ltb_spec (sz + du_len x) (du_len y)); intros Hlt.
    - unfold du_tail_shrink, du_buffer, set_skb. cbn.
      change (du_len (set_pci_h y _)) with (du_len y).
      replace (du_len y - (du_len y - (sz + du_len x))) with (sz + du_len x) by lia.
      rewrite uwrap_small by done.
      destruct (skb_trim_spec y.(du_skb) (Z.to_nat (sz + du_len x))) as [-> ->].
      split_and!; [|done..]. fold (du_buffer y). rewrite Hbuf, take_app_le, take_ge; [done|..];
        unfold du_len, skb_len; fold (du_buffer x); lia.
    - assert (pad = []) as -> by (destruct pad; cbn in Hly; [done|lia]).
      rewrite app_nil_r in Hbuf. done. }
  destruct (skb_pull_spec x'.(du_skb) (Z.to_nat sz)) as [Hd Hh].
  { unfold skb_len. fold (du_buffer x'). rewrite Hb'. lia. }
  eexists. split; [done|]. unfold du_buffer at 1. cbn [du_skb]. rewrite Hd.
  fold (du_buffer x'). rewrite Hb', Hdrop. split; [done|].
  unfold du_data_len, du_len, skb_len. cbn [pci_h du_skb]. rewrite decide_False.
  - rewrite Hd. fold (du_buffer x'). by rewrite Hb', Hdrop.
  - rewrite Hp', Hh, Hh'. intros [=]. lia.
Qed.

(** What a peer does with a data unit between [du_encap] and [du_decap]: the
    header is formatted with the length of the PDU, and lower layers may append
    padding, so that the buffer received holds the PDU followed by [pad]. *)
Definition formatted (cfg : efcp_config) (type : Z) (args : Z * Z * Z * Z * Z * Z * Z)
    x (pdu : list Z) : Prop :=
  let '(sc, dc, sa, da, sn, q, fl) := args in
  pci_format cfg (du_buffer x) sc dc sa da sn q fl (du_len x) type = Some (0, pdu).

(** C33: encapsulating a data unit for any type of PDU with a header, formatting
    the header with the length of the PDU and decapsulating it at the other end
    gives back the user data exactly, also when lower layers padded the PDU. *)
Theorem du_encap_decap (d : dt_cons) (type : Z) (args : Z * Z * Z * Z * Z * Z * Z)
    (x : du S) (pad : list Z) :
  widths_ok d -> type ∈ header_types -> x.(du_cfg) = Some (config_of d) ->
  pci_calculate_size (config_of d) type <= Z.of_nat (skb_headroom x.(du_skb)) ->
  in_u (8 * d.(length_length)) (pci_calculate_size (config_of d) type + du_len x) ->
  exists x1 pdu, du_encap x type = Some (0, x1) /\ formatted (config_of d) type args x1 pdu /\
    forall y, y.(du_cfg) = Some (config_of d) -> du_buffer y = pdu ++ pad ->
      exists y', du_decap y = Some (0, y') /\ du_buffer y' = du_buffer x /\
        du_data_len y' = du_len x.
Proof.
  intros Hok Ht Hcfg Hroom Hfit. destruct args as [[[[[[sc dc] sa] da] sn] q] fl].
  pose proof (header_size_pos d type Hok Ht) as Hpos.
  set (c := config_of d) in *. set (sz := pci_calculate_size c type) in *.
  destruct (skb_push_spec x.(du_skb) (Z.to_nat sz)) as (Hl1 & Hd1 & Hh1); [lia|].
  set (s1 := skb_push x.(du_skb) (Z.to_nat sz)) in *.
  assert (du_encap x type = Some (0, mk_du x.(du_cfg) (Some (skb_headroom s1)) sz s1)) as Henc.
  { unfold du_encap. rewrite Hcfg. cbn [mbind option_bind]. fold sz.
    rewrite (proj2 (Z.ltb_lt 0 sz)) by done. rewrite decide_True by lia. done. }
  destruct (pci_format_get d (skb_data s1) sc dc sa da sn q fl (sz + du_len x) type Hok Ht)
    as (pdu & Hfmt & Hlen & Hty & Hget).
  { fold c sz. unfold skb_len in Hl1. lia. }
  fold c in Hfmt, Hty, Hget. unfold skb_len in Hl1.
  assert (du_len x = Z.of_nat (length (skb_data x.(du_skb)))) as Hlx by done.
  exists (mk_du x.(du_cfg) (Some (skb_headroom s1)) sz s1), pdu. split; [done|]. split.
  { unfold formatted, du_buffer, du_len, skb_len. cbn [du_skb].
    replace (Z.of_nat (length (skb_data s1))) with (sz + du_len x) by lia. done. }
  pose proof (pci_format_drop d _ _ _ _ _ _ _ _ _ _ _ Hok Ht Hfmt) as Hdrop.
  fold c sz in Hdrop. rewrite Hd1 in Hdrop.
  assert (d.(length_length) <= 4) as Hw4 by (destruct Hok as [_ _ Hw _ _ _ _ _]; unfold width_ok in Hw; lia).
  assert (pci_length c pdu = Some (sz + du_len x)) as Hplen.
  { change (pci_length c pdu) with (attr_get c A_LENGTH pdu).
    rewrite (Hget A_LENGTH (sz + du_len x) PCI_BASE_LEN d.(length_length)) by done.
    cbn [attr_cast]. rewrite uwrap_small by done. f_equal. apply swrap_small; [|lia].
    destruct Hfit. split; [lia|]. assert (2 ^ (8 * length_length d) <= 2 ^ 63); [|cbn; lia].
    apply Z.pow_le_mono_r; lia. }
  assert (in_u 32 (sz + du_len x)) as H32.
  { destruct Hfit. split; [lia|]. assert (2 ^ (8 * length_length d) <= 2 ^ 32); [|lia].
    apply Z.pow_le_mono_r; lia. }
  intros y Hy Hbuf. apply (du_decap_padded d type x y sz pdu pad); try done.
  unfold du_buffer. lia.
Qed.
End Du.

Lemma du_encap_decap_witness :
  let x := mk_du (Some (config_of example_dt_cons)) None 0 (mk_lskb (repeat 0 200) [5; 6; 7] []) in
  exists x1 pdu, du_encap x PDU_TYPE_DT = Some (0, x1) /\
    formatted (config_of example_dt_cons) PDU_TYPE_DT (1, 2, 22, 23, 2533, 1, 0) x1 pdu /\
    forall y : du lskb, y.(du_cfg) = Some (config_of example_dt_cons) ->
      du_buffer y = pdu ++ [0; 0] ->
      exists y', du_decap y = Some (0, y') /\ du_buffer y' = du_buffer x /\
        du_data_len y' = du_len x.
Proof.
  intros x. apply (du_encap_decap example_dt_cons PDU_TYPE_DT (1, 2, 22, 23, 2533, 1, 0) x [0; 0]).
  - exact example_widths_ok.
  - apply list_elem_of_In. cbn. tauto.
  - reflexivity.
  - vm_compute. congruence.
  - vm_compute. split; congruence.
Defined.
