(* ===== verification/Delim.v ===== *)
(** * Delimiting

    Models [src/kernel/delim-ps-default.c], the default policy set of the
    delimiting module ([src/kernel/delim.c]): an SDU is cut into User Data Fields
    of at most [max_fragment_size] bytes, each behind one byte of flags, and
    rebuilt at the receiver.  Every allocation may fail: its outcome comes from
    the oracle.  The fragmentation loops have no bound in the source; they are
    modelled with fuel and shown to finish when [max_fragment_size] is positive.
    [None] is a fault: a null list, a buffer of a negative length, or a copy that does not
    fit. *)

From S2P Require Import Prelude Kucommon Pci Skb Du.
From Stdlib Require Import ZArith Lia.
From stdpp Require Import base list numbers option.
#[local] Open Scope Z_scope.

Section Delim.
Context {B : Type} `{SkBuffLaws B}.
Implicit Types (x y : du B) (l : list (du B)) (o : oracle).

(** [struct delim_def_priv]; the list is the null pointer when its allocation failed. *)
Record delim_def_priv := mk_priv {
  pending_dus : option (list (du B));
  reassembly_in_process : bool;
  total_length : Z
}.

Definition delim_def_priv_create (o : oracle) : option delim_def_priv * oracle :=
  let '(ok, o) := rkmalloc o in
  if ok then
    let '(ok, o) := rkmalloc o in
    (Some (mk_priv (if ok then Some [] else None) false 0), o)
  else (None, o).

Definition delim_def_priv_reset (p : delim_def_priv) : delim_def_priv :=
  mk_priv (du_list_clear <$> p.(pending_dus)) false 0.

(** ** Fragmentation *)

Definition fragment_single_full_sdu x l o : option (Z * list (du B) * oracle) :=
  match du_head_grow x 1 o with
  | (None, _) => None
  | (Some (ret, x), o) =>
      if negb (ret =? 0) then Some (-1, l, o)
      else
        let x := set_skb x (skb_memcpy x.(du_skb) 0 [0x07]) in
        let '(ret, l, o) := add_du_to_list_gfp l x o in
        if negb (ret =? 0) then Some (-1, l, o) else Some (0, l, o)
  end.

Definition copy_du_fragment_to_list (length offset : Z) (flags : Z) x l o
  : Z * list (du B) * oracle :=
  match du_create_gfp (Z.to_nat (length + 1)) o with
  | (None, o) => (-1, l, o)
  | (Some frag_du, o) =>
      let s := skb_memcpy frag_du.(du_skb) 0 [flags] in
      let s := skb_memcpy s 1 (take (Z.to_nat length) (drop (Z.to_nat offset) (du_buffer x))) in
      let frag_du := mk_du x.(du_cfg) frag_du.(pci_h) frag_du.(pci_len) s in
      let '(ret, l, o) := add_du_to_list_gfp l frag_du o in
      if negb (ret =? 0) then (-1, l, o) else (0, l, o)
  end.

(** The [while (pending_du_len > 0)] loop; [pending_du_len] is an [int] and
    [max_fragment_size] a [uint32_t], compared as unsigned. *)
Fixpoint fragment_loop (fuel : nat) (max : Z) (first_frag : bool) (offset pending : Z) x l o
  : option (Z * list (du B) * oracle) :=
  match fuel with
  | O => None
  | S fuel' =>
      if 0 <? pending then
        let flags := if first_frag then 0x05
                     else if u32 pending <=? max then 0x06 else 0x04 in
        let length := if max <? u32 pending then s32 max else pending in
        let '(ret, l, o) := copy_du_fragment_to_list length offset flags x l o in
        if negb (ret =? 0) then Some (-1, l, o)
        else fragment_loop fuel' max false (offset + length) (pending - length) x l o
      else Some (0, l, o)
  end.

Definition default_delim_fragment (fuel : nat) (max : Z) x l o
  : option (Z * list (du B) * oracle) :=
  let pending := s32 (du_len x) in
  if u32 pending <=? max then fragment_single_full_sdu x l o
  else fragment_loop fuel max true 0 pending x l o.

Fixpoint num_udfs_loop (fuel : nat) (max dulen num : Z) : option Z :=
  match fuel with
  | O => None
  | S fuel' => if 0 <? dulen then num_udfs_loop fuel' max (s32 (dulen - max)) (num + 1) else Some num
  end.

Definition default_delim_num_udfs (fuel : nat) (max : Z) x : option Z :=
  num_udfs_loop fuel max (s32 (du_len x)) 0.

(** ** Reassembly *)

Definition process_single_full_sdu x l o : Z * list (du B) * oracle :=
  let '(ret, x) := du_head_shrink x 1 in
  if negb (ret =? 0) then (-1, l, o)
  else
    let '(ret, l, o) := add_du_to_list_gfp l x o in
    if negb (ret =? 0) then (-1, l, o) else (0, l, o).

(** [add_du_to_list_gfp] at the list of pending fragments; the item is allocated before the
    list is touched. *)
Definition add_pending_du (q : option (list (du B))) x o : option (Z * option (list (du B)) * oracle) :=
  match q with
  | Some l => let '(ret, l, o) := add_du_to_list_gfp l x o in Some (ret, Some l, o)
  | None => let '(ret, _, o) := add_du_to_list_gfp [] x o in
            if negb (ret =? 0) then Some (ret, None, o) else None
  end.

Definition append_pending_du (p : delim_def_priv) x o : option (Z * delim_def_priv * oracle) :=
  let total := s32 (p.(total_length) + du_len x - 1) in
  '(ret, pending, o) ← add_pending_du p.(pending_dus) x o;
  let p := mk_priv pending p.(reassembly_in_process) total in
  if negb (ret =? 0) then Some (-1, delim_def_priv_reset p, o) else Some (0, p, o).

Definition process_first_fragment (p : delim_def_priv) x o : option (Z * delim_def_priv * oracle) :=
  let p := if p.(reassembly_in_process) then delim_def_priv_reset p else p in
  let p := mk_priv p.(pending_dus) true p.(total_length) in
  append_pending_du p x o.

Definition process_mid_fragment (p : delim_def_priv) x o : option (Z * delim_def_priv * oracle) :=
  if negb p.(reassembly_in_process) then Some (-1, delim_def_priv_reset p, o)
  else append_pending_du p x o.

(** The copy of the pending fragments, each without its flags, into [s].  The length of a
    copy is that of the fragment less 1, which is a huge size for an empty one. *)
Fixpoint copy_pending (pending : list (du B)) (offset : nat) (s : B) : option B :=
  match pending with
  | [] => Some s
  | y :: pending' =>
      let bytes := drop 1 (du_buffer y) in
      if decide (1 <= skb_len y.(du_skb) /\ offset + length bytes <= skb_len s)%nat
      then copy_pending pending' (offset + length bytes) (skb_memcpy s offset bytes)
      else None
  end.

(** [du_create_ni] with an [int]: a negative length is a size of almost 2^64 bytes, which wraps
    around in the size of the allocation, and [skb_put] stops the kernel. *)
Definition du_create_int (len : Z) o : option (option (du B) * oracle) :=
  if 0 <=? len then Some (du_create_gfp (Z.to_nat len) o)
  else match du_create_gfp 0 o with
       | (None, o) => Some (None, o)
       | (Some _, _) => None
       end.

Definition process_last_fragment (p : delim_def_priv) x l o
  : option (Z * delim_def_priv * list (du B) * oracle) :=
  '(ret, p, o) ← process_mid_fragment p x o;
  if negb (ret =? 0) then Some (-1, p, l, o)
  else
  '(frag_sdu, o) ← du_create_int p.(total_length) o;
  match frag_sdu with
  | None => Some (-1, delim_def_priv_reset p, l, o)
  | Some frag_sdu =>
      s ← copy_pending (default [] p.(pending_dus)) 0 frag_sdu.(du_skb);
      let '(ret, l, o) := add_du_to_list_gfp l (set_skb frag_sdu s) o in
      if negb (ret =? 0) then Some (-1, delim_def_priv_reset p, l, o)
      else Some (0, delim_def_priv_reset p, l, o)
  end.

(** [junk] is the byte behind the data of the buffer: the flags that are read from a User Data
    Field without a byte. *)
Context (junk : Z).

Definition default_delim_process_udf (p : delim_def_priv) x l o
  : option (Z * delim_def_priv * list (du B) * oracle) :=
  let flags := default junk (du_buffer x !! 0%nat) in
  let bit m := negb (Z.land flags m =? 0) in
  if bit 0x08 then Some (-1, p, l, o)
  else if bit 0x04 then
    if bit 0x02 && bit 0x01 then
      let '(ret, l, o) := process_single_full_sdu x l o in Some (ret, p, l, o)
    else if bit 0x01 then
      '(ret, p, o) ← process_first_fragment p x o; Some (ret, p, l, o)
    else if bit 0x02 then process_last_fragment p x l o
    else '(_, p, o) ← process_mid_fragment p x o; Some (0, p, l, o)
  else Some (-1, p, l, o).

(** Delivery of the User Data Fields of a list, in order. *)
Fixpoint process_udfs (p : delim_def_priv) (udfs : list (du B)) l o
  : option (Z * delim_def_priv * list (du B) * oracle) :=
  match udfs with
  | [] => Some (0, p, l, o)
  | x :: udfs' =>
      '(ret, p, l, o) ← default_delim_process_udf p x l o;
      if ret =? 0 then process_udfs p udfs' l o else Some (ret, p, l, o)
  end.

(** ** Reference fragmentation

    The User Data Fields of the bytes [bs] of an SDU, as byte lists. *)
Fixpoint frag_spec (fuel : nat) (max : nat) (first : bool) (bs : list Z) : list (list Z) :=
  match fuel, bs with
  | O, _ | _, [] => []
  | Datatypes.S fuel', _ =>
      let flags := if first then 0x05
                   else if decide (length bs <= max)%nat then 0x06 else 0x04 in
      (flags :: take max bs) :: frag_spec fuel' max false (drop max bs)
  end.

Lemma skb_memcpy_all (s : B) (off : nat) (bs : list Z) :
  (off + length bs)%nat = skb_len s ->
  skb_data (skb_memcpy s off bs) = take off (skb_data s) ++ bs.
Proof.
  intros Hl. destruct (skb_memcpy_spec s off bs) as [-> _]; [lia|].
  rewrite drop_ge by (unfold skb_len in Hl; lia). by rewrite app_nil_r.
Qed.

Lemma copy_du_fragment_ok x l (len off flags : Z) :
  0 <= off -> 0 < len -> off + len <= du_len x ->
  exists y, copy_du_fragment_to_list len off flags x l [] = (0, l ++ [y], []) /\
    du_buffer y = flags :: take (Z.to_nat len) (drop (Z.to_nat off) (du_buffer x)) /\
    du_cfg y = du_cfg x /\ pci_h y = None.
Proof.
  intros Hoff Hlen Hb. unfold copy_du_fragment_to_list.
  destruct (du_create_spec (S:=B) (Z.to_nat (len + 1))) as (f & -> & Hl & _ & Hp & _).
  set (bs := take _ (drop _ _)). cbn. eexists. split; [done|]. cbn [du_buffer du_cfg du_skb pci_h].
  split; [|done]. unfold du_buffer. cbn [du_skb]. unfold du_len in *.
  destruct (skb_memcpy_spec f.(du_skb) 0 [flags]) as (Hd & _ & _); [cbn; lia|].
  assert (length bs = Z.to_nat len) as Hbs.
  { unfold bs. rewrite length_take, length_drop. unfold du_buffer, skb_len in *. lia. }
  rewrite skb_memcpy_all; rewrite ?Hd, ?Hbs; [done|].
  unfold skb_len in *. rewrite Hd, !length_app, length_take, length_drop. cbn [length]. lia.
Qed.

Lemma fragment_loop_spec fuel max first off bs x l :
  (length bs < fuel)%nat -> 0 < max -> 0 <= off -> bs = drop (Z.to_nat off) (du_buffer x) ->
  (off + Z.of_nat (length bs) = du_len x \/ bs = []) -> Z.of_nat (length bs) < 2 ^ 31 ->
  exists ys, fragment_loop fuel max first off (Z.of_nat (length bs)) x l [] = Some (0, l ++ ys, []) /\
    (du_buffer <$> ys) = frag_spec fuel (Z.to_nat max) first bs /\
    Forall (fun y => du_cfg y = du_cfg x /\ pci_h y = None) ys.
Proof.
  revert first off bs l. induction fuel as [|fuel IH]; intros first off bs l Hf Hmax Hoff Hbs Hend H31; [lia|].
  cbn [fragment_loop]. case (Z.ltb_spec 0 (Z.of_nat (length bs))); intros Hpos.
  2:{ exists []. rewrite app_nil_r. destruct bs; [done|cbn in Hpos; lia]. }
  destruct Hend as [Hend|Hnil]; [|rewrite Hnil in Hpos; cbn in Hpos; lia].
  rewrite uwrap_small by (split; lia). set (n := Z.of_nat (length bs)) in *.
  set (len := if max <? n then s32 max else n).
  assert (len = Z.min max n) as Hlen.
  { unfold len. case (Z.ltb_spec max n); intros; [|lia]. rewrite swrap_small; [lia|split; lia|lia]. }
  set (flags := if first then 5 else _).
  destruct (copy_du_fragment_ok x l len off flags) as (y & -> & Hy & Hyc & Hyp); [lia..|].
  cbn [negb Z.eqb]. replace (n - len) with (Z.of_nat (length (drop (Z.to_nat max) bs)))
    by (rewrite length_drop; lia).
  destruct (IH false (off + len) (drop (Z.to_nat max) bs) (l ++ [y])) as (ys & -> & Hys & Hfa).
  - rewrite length_drop. lia.
  - lia.
  - lia.
  - rewrite Hbs, drop_drop. destruct (decide (max <= n)) as [Hc|Hc].
    + f_equal. lia.
    + rewrite !drop_ge; [done|..]; unfold du_len, skb_len in Hend; fold (du_buffer x) in Hend; lia.
  - destruct (decide (max <= n)); [left|right; apply drop_ge; lia]. rewrite length_drop. lia.
  - rewrite length_drop. lia.
  - exists (y :: ys). rewrite <- app_assoc. split; [done|]. split; [|by constructor].
    cbn [fmap list_fmap]. rewrite Hy. destruct bs as [|b bs']; [cbn in n; lia|].
    cbn [frag_spec]. f_equal; [|exact Hys].
    rewrite <- Hbs. f_equal.
    + unfold flags. destruct first; [done|]. case_decide; case (Z.leb_spec n max); intros; (done || lia).
    + destruct (decide (max <= n)) as [Hc|Hc]; [by replace len with max by lia|].
      rewrite !take_ge; [done|lia..].
Qed.

Lemma copy_pending_spec ps off (s : B) :
  let bytes := concat (drop 1 ∘ du_buffer <$> ps) in
  Forall (fun y => 0 < du_len y) ps -> (off + length bytes <= skb_len s)%nat ->
  exists s', copy_pending ps off s = Some s' /\
    skb_data s' = take off (skb_data s) ++ bytes ++ drop (off + length bytes) (skb_data s).
Proof.
  revert off s. induction ps as [|y ps IH]; intros off s; cbn [fmap list_fmap concat compose copy_pending].
  - intros _ _. exists s. cbn. by rewrite Nat.add_0_r, take_drop.
  - rewrite length_app. intros [Hy Hps]%Forall_cons_1 Hl. set (b := drop 1 (du_buffer y)) in *.
    unfold du_len in Hy. rewrite decide_True by lia.
    destruct (skb_memcpy_spec s off b) as (Hd & _ & _); [lia|].
    assert (skb_len (skb_memcpy s off b) = skb_len s) as Hln.
    { unfold skb_len in *. rewrite Hd, !length_app, length_take, length_drop. lia. }
    destruct (IH (off + length b)%nat (skb_memcpy s off b)) as (s' & Hs' & Hdata); [done|lia|].
    exists s'. split; [exact Hs'|]. rewrite Hdata. rewrite app_assoc in Hd. rewrite Hd. unfold skb_len in *.
    assert (length (take off (skb_data s) ++ b) = (off + length b)%nat) as Hp
      by (rewrite length_app, length_take; lia).
    rewrite take_app_length' by lia. rewrite drop_app_ge, drop_drop by lia.
    rewrite <- !app_assoc. do 4 f_equal. lia.
Qed.

(** ** Reassembly state *)

(** The bytes the pending fragments carry. *)
Definition payload (ps : list (du B)) : list Z := concat (drop 1 ∘ du_buffer <$> ps).

Lemma payload_snoc ps x : payload (ps ++ [x]) = payload ps ++ drop 1 (du_buffer x).
Proof. unfold payload. rewrite fmap_app, concat_app. cbn. by rewrite app_nil_r. Qed.

(** The fragments pending. *)
Definition pend (p : delim_def_priv) : list (du B) := default [] p.(pending_dus).

(** No reassembly in process. *)
Definition idle : delim_def_priv := mk_priv (Some []) false 0.

(** The invariant of the reassembly state: there is a list, the length is that of the bytes
    pending, each pending fragment has its flags, and nothing is pending when no
    reassembly is in process. *)
Record priv_wf (p : delim_def_priv) : Prop := {
  pw_list : p.(pending_dus) = Some (pend p);
  pw_total : p.(total_length) = Z.of_nat (length (payload (pend p)));
  pw_flags : Forall (fun y => 0 < du_len y) (pend p);
  pw_idle : p.(reassembly_in_process) = false -> pend p = []
}.

Lemma idle_wf : priv_wf idle.
Proof. by split. Qed.

Lemma priv_reset_wf p : priv_wf p -> delim_def_priv_reset p = idle.
Proof. intros [Hl _ _ _]. unfold delim_def_priv_reset. by rewrite Hl. Qed.

(** Appending a fragment: the outcome of the allocation decides. *)
Lemma append_pending_ok p x o :
  priv_wf p -> p.(reassembly_in_process) = true -> 0 < du_len x ->
  Z.of_nat (length (payload (pend p))) + du_len x <= 2 ^ 31 ->
  exists p', append_pending_du p x o =
      Some (if (rkmalloc o).1 then (0, p', (rkmalloc o).2) else (-1, idle, (rkmalloc o).2)) /\
    priv_wf p' /\ pend p' = pend p ++ [x] /\ p'.(reassembly_in_process) = true.
Proof.
  intros [Hl Ht Hf Hi] Hin Hx Hb. unfold append_pending_du, add_pending_du, add_du_to_list_gfp.
  exists (mk_priv (Some (pend p ++ [x])) true (Z.of_nat (length (payload (pend p ++ [x]))))).
  rewrite Hl, Hin. destruct (rkmalloc o) as [[] o1]; cbn [fst snd negb Z.eqb mbind option_bind].
  - split; [|split; [|done]].
    + do 4 f_equal. rewrite payload_snoc, length_app, length_drop, Ht, swrap_small; [|split; lia|lia].
      unfold du_len, skb_len in *. fold (du_buffer x) in *. lia.
    + split; cbn; try done. by apply Forall_app; auto.
  - split; [done|]. split; [|done]. split; cbn; try done. by apply Forall_app; auto.
Qed.

(** A data unit of a granted or a refused allocation. *)
Lemma du_create_any (n : nat) o :
  match (du_create_gfp (S := B) n o).1 with Some f => skb_len f.(du_skb) = n | None => True end.
Proof.
  destruct (du_create_spec (S := B) n) as (f & Hf & Hl & _). unfold du_len in Hl. revert Hf. unfold du_create_gfp.
  destruct (rkmalloc o) as [[] o1]; cbn [negb]; [|done]. destruct (rkmalloc o1) as [[] o2]; cbn [negb]; [|done].
  cbn. intros [= <-]. cbn in *. lia.
Qed.

(** The last fragment: an SDU of the bytes pending and its own, or an error; no reassembly is in
    process afterwards. *)
Lemma process_last_ok p x l o :
  priv_wf p -> p.(reassembly_in_process) = true -> 0 < du_len x ->
  Z.of_nat (length (payload (pend p))) + du_len x <= 2 ^ 31 ->
  exists ret l' o', process_last_fragment p x l o = Some (ret, idle, l', o') /\
    ((ret = -1 /\ l' = l) \/
     (exists y, ret = 0 /\ l' = l ++ [y] /\ du_buffer y = payload (pend p) ++ drop 1 (du_buffer x))) /\
    (o = [] -> ret = 0 /\ o' = []).
Proof.
  intros Hp Hin Hx Hb. unfold process_last_fragment, process_mid_fragment. rewrite Hin. cbn [negb].
  destruct (append_pending_ok p x o Hp Hin Hx Hb) as (p' & -> & Hp' & Hpend & _). cbn [mbind option_bind].
  destruct (rkmalloc o) as [[] o1] eqn:E1; cbn [fst snd negb Z.eqb];
    [|eexists _, _, _; split; [done|]; split; [by left|intros ->; by injection E1]].
  rewrite (pw_total _ Hp'), Hpend. unfold du_create_int. rewrite (proj2 (Z.leb_le 0 _)) by lia. rewrite Nat2Z.id.
  pose proof (du_create_any (length (payload (pend p ++ [x]))) o1) as Hc.
  assert (o = [] -> exists f, du_create_gfp (S := B) (length (payload (pend p ++ [x]))) o1 = (Some f, [])) as Hgr.
  { intros ->. injection E1 as <-. destruct (du_create_spec (S := B) (length (payload (pend p ++ [x])))) as (f & Hf & _).
    by exists f. }
  destruct (du_create_gfp _ o1) as [[f|] o2]; cbn [mbind option_bind fst] in *.
  2:{ rewrite priv_reset_wf by done. eexists _, _, _. split; [done|]. split; [by left|].
      intros (? & ?)%Hgr. done. }
  change (default [] (pending_dus p')) with (pend p'). rewrite Hpend.
  destruct (copy_pending_spec (pend p ++ [x]) 0 f.(du_skb)) as (s' & -> & Hs').
  { rewrite <- Hpend. apply Hp'. }
  { fold (payload (pend p ++ [x])). lia. }
  cbn [mbind option_bind]. fold (payload (pend p ++ [x])) in Hs'. unfold add_du_to_list_gfp.
  rewrite priv_reset_wf by done. destruct (rkmalloc o2) as [[] o3] eqn:E3; cbn [negb Z.eqb].
  - eexists _, _, _. split; [done|]. split; [right; eexists; split; [done|]; split; [done|]|].
    + unfold du_buffer at 1. cbn [du_skb set_skb]. rewrite Hs', drop_ge by (unfold skb_len in Hc; lia).
      by rewrite take_0, app_nil_r, payload_snoc.
    + intros (? & Hf)%Hgr. simplify_eq. by injection E3.
  - eexists _, _, _. split; [done|]. split; [by left|]. intros (? & Hf)%Hgr. simplify_eq.
Qed.

Lemma process_single_ok x l o ret l' o' :
  0 < du_len x -> process_single_full_sdu x l o = (ret, l', o') ->
  l' = l \/ exists y, ret = 0 /\ l' = l ++ [y] /\ du_buffer y = drop 1 (du_buffer x).
Proof.
  intros Hx. unfold process_single_full_sdu, du_head_shrink, add_du_to_list_gfp. cbn [negb Z.eqb].
  destruct (rkmalloc o) as [[] o1]; cbn [negb Z.eqb]; intros; simplify_eq; [right|by left].
  eexists. split_and!; [done|done|]. unfold du_buffer. cbn [du_skb].
  by destruct (skb_pull_spec x.(du_skb) 1) as [-> _]; [unfold du_len in Hx; lia|].
Qed.

(** A first fragment starts over, whatever was pending. *)
Lemma process_first_ok p x o :
  priv_wf p -> 0 < du_len x <= 2 ^ 31 ->
  exists p', process_first_fragment p x o =
      Some (if (rkmalloc o).1 then (0, p', (rkmalloc o).2) else (-1, idle, (rkmalloc o).2)) /\
    priv_wf p' /\ pend p' = [x] /\ p'.(reassembly_in_process) = true.
Proof.
  intros Hp Hx. unfold process_first_fragment. set (p0 := if reassembly_in_process p then _ else p).
  assert (priv_wf (mk_priv p0.(pending_dus) true p0.(total_length)) /\
          pend (mk_priv p0.(pending_dus) true p0.(total_length)) = []) as [Hp0 Hn].
  { subst p0. destruct (reassembly_in_process p) eqn:Hin; [rewrite priv_reset_wf by done; by split|].
    split; [|exact (pw_idle _ Hp Hin)]. by split; try apply Hp. }
  destruct (append_pending_ok _ x o Hp0 eq_refl) as (p' & Hrun & Hp' & Hpend & Hin);
    [lia|rewrite Hn; cbn; lia|]. exists p'. by rewrite Hpend, Hn.
Qed.

(** C34: reassembly.  A User Data Field with at least its byte of flags arrives while fewer than 2^31
    bytes are pending, its own included; any allocation may fail.  [default_delim_process_udf]
    returns without a fault and keeps the invariant of the reassembly state: the
    length recorded is that of the bytes pending, and nothing is pending when no
    reassembly is in process.  It hands over nothing, or one SDU: the bytes behind the
    flags, or the bytes pending followed by them. *)
Theorem delim_process_udf_invariant (p : delim_def_priv) (x : du B) (l : list (du B)) (o : oracle) :
  priv_wf p -> 0 < du_len x -> Z.of_nat (length (payload (pend p))) + du_len x <= 2 ^ 31 ->
  exists ret p' l' o', default_delim_process_udf p x l o = Some (ret, p', l', o') /\ priv_wf p' /\
    (l' = l \/ exists y, ret = 0 /\ l' = l ++ [y] /\
      (du_buffer y = drop 1 (du_buffer x) \/
       p.(reassembly_in_process) = true /\ du_buffer y = payload (pend p) ++ drop 1 (du_buffer x))).
Proof.
  intros Hp Hx Hb. unfold default_delim_process_udf. set (flags := default junk _).
  repeat match goal with |- context [negb (Z.land flags ?m =? 0)] =>
    destruct (negb (Z.land flags m =? 0)) end; cbn [andb]; try (eexists _, _, _, _; by eauto).
  - destruct (process_single_full_sdu x l o) as [[ret l'] o'] eqn:E. eexists _, _, _, _. split; [done|].
    split; [done|]. destruct (process_single_ok _ _ _ _ _ _ Hx E) as [->|(y & -> & -> & Hy)]; eauto 7.
  - destruct (reassembly_in_process p) eqn:Hin.
    + destruct (process_last_ok p x l o Hp Hin Hx Hb) as (ret & l' & o' & -> & Hl & _).
      eexists _, _, _, _. split; [done|]. split; [apply idle_wf|]. destruct Hl as [[_ ->]|(y & -> & -> & Hy)]; eauto 7.
    + unfold process_last_fragment, process_mid_fragment. rewrite Hin. cbn. rewrite priv_reset_wf by done.
      eexists _, _, _, _. split; [done|]. split; [apply idle_wf|by left].
  - destruct (process_first_ok p x o Hp) as (p' & -> & Hp' & _); [lia|].
    cbn. destruct (rkmalloc o).1; cbn; eexists _, _, _, _; (split; [done|]); eauto using idle_wf.
  - unfold process_mid_fragment. destruct (reassembly_in_process p) eqn:Hin; cbn [negb].
    + destruct (append_pending_ok p x o Hp Hin Hx Hb) as (p' & -> & Hp' & _).
      cbn. destruct (rkmalloc o).1; cbn; eexists _, _, _, _; (split; [done|]); eauto using idle_wf.
    + rewrite priv_reset_wf by done. cbn. eexists _, _, _, _. split; [done|]. eauto using idle_wf.
Qed.

Lemma du_len_buffer x : du_len x = Z.of_nat (length (du_buffer x)).
Proof. done. Qed.

Lemma nil_length_inv_drop {A} (n : nat) (bs : list A) : drop n bs = [] -> (length bs <= n)%nat.
Proof. intros Hd. apply (f_equal length) in Hd. rewrite length_drop in Hd. cbn in Hd. lia. Qed.

(** The fragments behind the first one complete the SDU in process. *)
Lemma reassemble_tail fuel (max : nat) bs p ys l :
  (0 < max)%nat -> (length bs <= fuel)%nat -> bs <> [] ->
  priv_wf p -> p.(reassembly_in_process) = true ->
  Z.of_nat (length (payload (pend p)) + length bs) < 2 ^ 31 ->
  du_buffer <$> ys = frag_spec fuel max false bs ->
  exists y, process_udfs p ys l [] = Some (0, idle, l ++ [y], []) /\
    du_buffer y = payload (pend p) ++ bs.
Proof.
  intros Hmax. revert bs p ys. induction fuel as [|fuel IH]; intros bs p ys Hf Hne Hp Hin Hb Hys;
    (destruct bs as [|b bs']; [done|]); [cbn in Hf; lia|].
  cbn [frag_spec] in Hys. set (bs := b :: bs') in *.
  destruct ys as [|y1 ys]; [done|]. rewrite fmap_cons in Hys. injection Hys as Hy1 Hys.
  assert (drop 1 (du_buffer y1) = take max bs) as Hpay by by rewrite Hy1.
  assert (du_len y1 = 1 + Z.of_nat (length (take max bs))) as Hl1
    by (rewrite du_len_buffer, Hy1; cbn [length]; lia).
  assert (length (take max bs) = Nat.min max (length bs)) as Hlt by apply length_take.
  change (Datatypes.S (length bs')) with (length bs) in Hy1.
  cbn [process_udfs]. unfold default_delim_process_udf. rewrite Hy1. cbn [lookup list_lookup default].
  case_decide as Hlast.
  - change (Z.land 6 8) with 0. change (Z.land 6 4) with 4.
    change (Z.land 6 2) with 2. change (Z.land 6 1) with 0. cbn [negb Z.eqb andb].
    destruct (process_last_ok p y1 l [] Hp Hin) as (ret & l' & o' & -> & Hl & Hg); [lia|lia|].
    destruct (Hg eq_refl) as [-> ->]. destruct Hl as [[? _]|(y & _ & -> & Hy)]; [done|].
    rewrite (drop_ge bs max) in Hys by done.
    assert (ys = []) as -> by (destruct ys; [done|]; by destruct fuel).
    cbn. eexists. split; [done|]. by rewrite Hy, Hpay, take_ge by done.
  - change (Z.land 4 8) with 0. change (Z.land 4 4) with 4.
    change (Z.land 4 2) with 0. change (Z.land 4 1) with 0. cbn [negb Z.eqb andb].
    unfold process_mid_fragment. rewrite Hin. cbn [negb].
    destruct (append_pending_ok p y1 [] Hp Hin) as (p1 & -> & Hp1 & Hpend & Hin1); [lia|lia|].
    cbn [rkmalloc fst snd mbind option_bind Z.eqb].
    destruct (IH (drop max bs) p1 ys) as (y & Hy & Hbuf); try done.
    + rewrite length_drop. unfold bs in *. cbn [length] in *. lia.
    + intros Hd. apply nil_length_inv_drop in Hd. lia.
    + rewrite Hpend, payload_snoc, length_app, Hpay, length_drop. lia.
    + exists y. split; [exact Hy|]. by rewrite Hbuf, Hpend, payload_snoc, Hpay, <- app_assoc, take_drop.
Qed.

Lemma fragment_single_ok x :
  x.(pci_h) = None ->
  exists y, fragment_single_full_sdu x [] [] = Some (0, [y], []) /\ du_buffer y = 7 :: du_buffer x.
Proof.
  intros Hpci. unfold fragment_single_full_sdu, du_head_grow. rewrite Hpci.
  assert (forall z : du B, z.(pci_h) = None -> (1 <= skb_headroom z.(du_skb))%nat ->
    du_buffer (set_skb (set_skb z (skb_push z.(du_skb) 1))
                 (skb_memcpy (skb_push z.(du_skb) 1) 0 [7])) = 7 :: du_buffer z) as Hz.
  { intros z _ Hr. destruct (skb_push_spec z.(du_skb) 1 Hr) as (Hl & Hd & _).
    unfold du_buffer. cbn [du_skb set_skb].
    destruct (skb_memcpy_spec (skb_push z.(du_skb) 1) 0 [7]) as (-> & _); [cbn; lia|].
    cbn [length Nat.add]. by rewrite Hd. }
  case_decide as Hr.
  - cbn [rkmalloc negb]. destruct (skb_expand_spec x.(du_skb) 1 0) as (Hed & Heh & _).
    cbn [pci_h du_skb]. rewrite decide_True by lia. cbn.
    eexists. split; [done|]. specialize (Hz (mk_du x.(du_cfg) None x.(pci_len) (pskb_expand_head x.(du_skb) 1 0))).
    unfold set_skb in Hz. cbn in Hz. unfold set_skb. cbn. rewrite Hz by (done || lia).
    unfold du_buffer. cbn. by rewrite Hed.
  - rewrite decide_True by lia. cbn. eexists. split; [done|]. apply Hz; [done|lia].
Qed.

Lemma reassemble_first max x p ys l :
  0 < max -> max < du_len x -> du_len x < 2 ^ 31 -> priv_wf p ->
  du_buffer <$> ys = frag_spec (Datatypes.S (Z.to_nat (du_len x))) (Z.to_nat max) true (du_buffer x) ->
  exists y, process_udfs p ys l [] = Some (0, idle, l ++ [y], []) /\
    du_buffer y = du_buffer x.
Proof.
  intros Hmax Hlt H31 Hp Hys. rewrite du_len_buffer in *. set (bs := du_buffer x) in *.
  cbn [frag_spec] in Hys. destruct bs as [|b bs'] eqn:Ebs; [cbn in Hlt; lia|]. rewrite <- Ebs in *.
  destruct ys as [|y1 ys]; [done|]. rewrite fmap_cons in Hys. injection Hys as Hy1 Hys.
  set (m := Z.to_nat max) in *.
  assert (drop 1 (du_buffer y1) = take m bs) as Hpay by by rewrite Hy1.
  assert (length (take m bs) = m) as Hm by (rewrite length_take; lia).
  assert (du_len y1 = 1 + max) as Hl1 by (rewrite du_len_buffer, Hy1; cbn [length]; lia).
  cbn [process_udfs]. unfold default_delim_process_udf. rewrite Hy1. cbn [lookup list_lookup default].
  change (Z.land 5 8) with 0. change (Z.land 5 4) with 4.
  change (Z.land 5 2) with 0. change (Z.land 5 1) with 1. cbn [negb Z.eqb andb].
  destruct (process_first_ok p y1 [] Hp) as (p1 & -> & Hp1 & Hpend & Hin1); [lia|].
  cbn [rkmalloc fst snd mbind option_bind Z.eqb].
  assert (payload (pend p1) = take m bs) as Hpl.
  { rewrite Hpend. change [y1] with ([] ++ [y1]). by rewrite payload_snoc, Hpay. }
  destruct (reassemble_tail (Z.to_nat (Z.of_nat (length bs))) m (drop m bs) p1 ys l) as (y & Hy & Hbuf); try done.
  - lia.
  - rewrite length_drop. lia.
  - intros Hd. apply nil_length_inv_drop in Hd. lia.
  - rewrite Hpl, length_drop. lia.
  - exists y. split; [done|]. by rewrite Hbuf, Hpl, take_drop.
Qed.

(** An SDU cut by [default_delim_fragment] and delivered fragment by
    fragment, in order, to [default_delim_process_udf] comes out as one SDU with
    the same bytes, whatever reassembly the receiver had left unfinished, and
    leaves the reassembly state empty; fragmentation finishes within one turn
    of its loop per byte. *)
Theorem delim_fragment_reassemble (max : Z) (x : du B) (p : delim_def_priv) (l : list (du B)) :
  0 < max -> du_len x < 2 ^ 31 -> x.(pci_h) = None -> priv_wf p ->
  exists udfs y p',
    default_delim_fragment (Datatypes.S (Z.to_nat (du_len x))) max x [] [] = Some (0, udfs, []) /\
    process_udfs p udfs l [] = Some (0, p', l ++ [y], []) /\
    du_buffer y = du_buffer x /\
    (max < du_len x -> p' = idle) /\ (du_len x <= max -> p' = p).
Proof.
  intros Hmax Hlen Hpci Hp. unfold default_delim_fragment.
  pose proof (du_len_nonneg x) as Hnn.
  rewrite swrap_small by (split; lia). rewrite uwrap_small by (split; lia).
  case (Z.leb_spec (du_len x) max); intros Hcase.
  - destruct (fragment_single_ok x) as (x1 & -> & Hx1).
    { done. }
    eexists [x1], _, p. split; [done|].
    cbn [process_udfs]. unfold default_delim_process_udf. rewrite Hx1.
    cbn [lookup list_lookup default].
    change (Z.land 7 8) with 0. change (Z.land 7 4) with 4.
    change (Z.land 7 2) with 2. change (Z.land 7 1) with 1. cbn [negb Z.eqb andb].
    unfold process_single_full_sdu, du_head_shrink, add_du_to_list_gfp. cbn [rkmalloc negb Z.eqb].
    cbn. split; [done|]. split; [|split; [lia|done]].
    unfold du_buffer. cbn [du_skb]. destruct (skb_pull_spec x1.(du_skb) 1) as [-> _].
    + enough (1 <= length (du_buffer x1))%nat by done. rewrite Hx1. cbn. lia.
    + change (drop 1 (du_buffer x1) = du_buffer x). by rewrite Hx1.
  - destruct (fragment_loop_spec (Datatypes.S (Z.to_nat (du_len x))) max true 0 (du_buffer x) x [])
      as (ys & Hys & Hspec & _); [rewrite du_len_buffer; lia|lia|lia|done| | |].
    { left. rewrite du_len_buffer. lia. }
    { rewrite <- du_len_buffer. lia. }
    rewrite <- du_len_buffer in Hys. cbn [app] in Hys.
    destruct (reassemble_first max x p ys l) as (y & Hy & Hbuf); [done..|].
    exists ys, y, idle. split_and!; try done. lia.
Qed.

Lemma frag_spec_facts fuel max first bs :
  (0 < max)%nat -> (length bs <= fuel)%nat ->
  concat (drop 1 <$> frag_spec fuel max first bs) = bs /\
  Forall (fun u => (2 <= length u <= max + 1)%nat) (frag_spec fuel max first bs).
Proof.
  intros Hmax. revert first bs. induction fuel as [|fuel IH]; intros first bs Hf;
    (destruct bs as [|b bs']; [by split|]); [cbn in Hf; lia|].
  destruct (IH false (drop max (b :: bs'))) as [IH1 IH2]; [rewrite length_drop; cbn in *; lia|].
  cbn [frag_spec]. split.
  - rewrite fmap_cons. cbn [concat]. rewrite IH1. cbn [drop]. apply take_drop.
  - constructor; [|exact IH2]. cbn [length]. rewrite length_take. cbn [length]. lia.
Qed.

Lemma num_udfs_spec fuel max first bs k :
  0 < max < 2 ^ 31 -> (length bs < fuel)%nat -> Z.of_nat (length bs) < 2 ^ 31 ->
  num_udfs_loop fuel max (Z.of_nat (length bs)) k =
  Some (k + Z.of_nat (length (frag_spec fuel (Z.to_nat max) first bs))).
Proof.
  intros Hmax. revert first bs k. induction fuel as [|fuel IH]; intros first bs k Hf Hb; [lia|].
  cbn [num_udfs_loop]. destruct bs as [|b bs']; [cbn; f_equal; lia|]. set (bs := b :: bs') in *.
  assert (0 < length bs)%nat as Hpos by (cbn; lia).
  rewrite (proj2 (Z.ltb_lt 0 _)) by lia. rewrite swrap_small by (split; lia).
  change (frag_spec _ _ _ bs) with
    (((if first then 5 else if decide (length bs <= Z.to_nat max)%nat then 6 else 4)
       :: take (Z.to_nat max) bs) :: frag_spec fuel (Z.to_nat max) false (drop (Z.to_nat max) bs)).
  cbn [length]. pose proof (length_drop bs (Z.to_nat max)) as Hld.
  destruct (decide (max <= Z.of_nat (length bs))).
  - replace (Z.of_nat (length bs) - max) with (Z.of_nat (length (drop (Z.to_nat max) bs))) by lia.
    rewrite (IH false) by lia. f_equal. lia.
  - rewrite (drop_ge bs) by lia. destruct fuel as [|fuel]; [lia|].
    cbn [num_udfs_loop frag_spec length]. rewrite (proj2 (Z.ltb_ge 0 _)) by lia. f_equal; lia.
Qed.

(** The User Data Fields of an SDU that is longer than a fragment carry
    its bytes in order, are all within the fragment size plus the flags, and are
    as many as [default_delim_num_udfs] announces. *)
Theorem delim_fragment_shape (max : Z) (x : du B) :
  0 < max < du_len x -> du_len x < 2 ^ 31 ->
  let fuel := Datatypes.S (Z.to_nat (du_len x)) in
  exists udfs, default_delim_fragment fuel max x [] [] = Some (0, udfs, []) /\
    payload udfs = du_buffer x /\
    Forall (fun y => 2 <= du_len y <= max + 1 /\ du_cfg y = du_cfg x) udfs /\
    default_delim_num_udfs fuel max x = Some (Z.of_nat (length udfs)).
Proof.
  intros Hmax Hlen fuel. unfold default_delim_fragment, default_delim_num_udfs.
  rewrite swrap_small by (split; lia). rewrite uwrap_small by (split; lia).
  rewrite (proj2 (Z.leb_gt _ _)) by lia.
  destruct (fragment_loop_spec fuel max true 0 (du_buffer x) x [])
    as (ys & Hys & Hspec & Hcfg); [unfold fuel; rewrite du_len_buffer; lia|lia|lia|done| | |].
  { left. rewrite du_len_buffer. lia. }
  { rewrite <- du_len_buffer. lia. }
  exists ys. cbn [app] in Hys. rewrite <- du_len_buffer in Hys. split; [exact Hys|].
  destruct (frag_spec_facts fuel (Z.to_nat max) true (du_buffer x)) as [Hcat Hfa];
    [lia|unfold fuel; rewrite du_len_buffer; lia|].
  rewrite <- Hspec in Hcat, Hfa. split; [|split].
  - rewrite <- Hcat. unfold payload. by rewrite list_fmap_compose.
  - rewrite Forall_fmap in Hfa. apply Forall_forall. intros y Hy.
    rewrite Forall_forall in Hfa, Hcfg. specialize (Hfa y Hy). destruct (Hcfg y Hy) as [? _].
    cbn in Hfa. rewrite du_len_buffer. split; [lia|done].
  - rewrite du_len_buffer, (num_udfs_spec fuel max true) by (unfold fuel; rewrite ?du_len_buffer in *; lia).
    rewrite <- Hspec, length_fmap. done.
Qed.

(** A middle or last fragment that arrives with no reassembly in process
    delivers nothing and leaves the reassembly state empty; the last one is
    reported as an error, the middle one is not. *)
Theorem delim_stray_fragment (p : delim_def_priv) (x : du B) (l : list (du B)) (o : oracle) (flags : Z) :
  priv_wf p -> p.(reassembly_in_process) = false -> du_buffer x !! 0%nat = Some flags ->
  flags = 0x04 \/ flags = 0x06 ->
  default_delim_process_udf p x l o =
    Some (if flags =? 0x06 then -1 else 0, idle, l, o).
Proof.
  intros Hw Hp Hx Hf. unfold default_delim_process_udf. rewrite Hx. cbn [default].
  unfold process_last_fragment, process_mid_fragment. rewrite Hp.
  destruct Hf as [-> | ->]; cbn; by rewrite priv_reset_wf.
Qed.

(** A User Data Field without a byte is kept with the flags that follow it in memory: as a first
    fragment it makes the length -1, and the last fragment behind it, whatever it holds, ends in a
    copy of a negative length. *)
Theorem delim_empty_udf (p : delim_def_priv) (x z : du B) (l : list (du B)) (flags : Z) :
  priv_wf p -> du_buffer x = [] -> junk = 0x05 ->
  du_buffer z !! 0%nat = Some flags -> flags = 0x06 -> du_len z < 2 ^ 31 ->
  exists p', default_delim_process_udf p x l [] = Some (0, p', l, []) /\ p'.(total_length) = -1 /\
    default_delim_process_udf p' z l [] = None.
Proof.
  intros Hp Hx Hj Hz Hf Hl. exists (mk_priv (Some [x]) true (-1)). split_and!; [|done|].
  - unfold default_delim_process_udf. rewrite Hx, Hj. cbn. unfold process_first_fragment.
    assert (mk_priv ((if reassembly_in_process p then delim_def_priv_reset p else p).(pending_dus)) true
      ((if reassembly_in_process p then delim_def_priv_reset p else p).(total_length)) = mk_priv (Some []) true 0) as ->.
    { destruct (reassembly_in_process p) eqn:Hin; [by rewrite priv_reset_wf|].
      rewrite (pw_list _ Hp), (pw_total _ Hp), (pw_idle _ Hp Hin). done. }
    unfold append_pending_du. rewrite (du_len_buffer x), Hx. done.
  - unfold default_delim_process_udf. rewrite Hz, Hf. change (default junk (Some 6)) with 6.
    change (Z.land 6 8) with 0. change (Z.land 6 4) with 4. change (Z.land 6 2) with 2. change (Z.land 6 1) with 0.
    cbn [negb Z.eqb andb]. unfold process_last_fragment, process_mid_fragment, append_pending_du.
    cbn [reassembly_in_process pending_dus total_length add_pending_du add_du_to_list_gfp rkmalloc negb Z.eqb mbind option_bind].
    apply lookup_lt_Some in Hz. rewrite du_len_buffer in *. unfold du_create_int.
    rewrite swrap_small by (split; lia). set (n := -1 + Z.of_nat (length (du_buffer z)) - 1).
    destruct (du_create_spec (S := B) (Z.to_nat n)) as (f & Hf1 & _).
    destruct (du_create_spec (S := B) 0) as (f0 & Hf0 & _).
    destruct (Z.leb_spec 0 n); [rewrite Hf1|by rewrite Hf0]. cbn [mbind option_bind].
    change (default [] (Some ([x] ++ [z]))) with [x; z]. cbn [copy_pending].
    rewrite decide_False; [done|]. unfold skb_len. fold (du_buffer x). rewrite Hx. cbn. lia.
Qed.
End Delim.
Arguments delim_def_priv B : clear implicits.

(** ** Witnesses, on the concrete socket buffer *)

Definition example_sdu : du lskb :=
  mk_du None None 0 (mk_lskb (repeat 0 40) [1; 2; 3; 4; 5; 6; 7] []).

Definition example_priv : delim_def_priv lskb :=
  mk_priv (Some [mk_du None None 0 (mk_lskb [] [5; 9] [])]) true 1.

Lemma example_priv_wf : priv_wf example_priv.
Proof. split; [reflexivity|reflexivity|repeat constructor|discriminate]. Qed.

Lemma delim_fragment_reassemble_witness :
  exists udfs y p',
    default_delim_fragment (S (Z.to_nat (du_len example_sdu))) 3 example_sdu [] [] = Some (0, udfs, []) /\
    process_udfs 0 example_priv udfs [] [] = Some (0, p', [] ++ [y], []) /\
    du_buffer y = du_buffer example_sdu /\
    (3 < du_len example_sdu -> p' = idle) /\ (du_len example_sdu <= 3 -> p' = example_priv).
Proof.
  apply (delim_fragment_reassemble 0 3 example_sdu example_priv []).
  - lia.
  - vm_compute. reflexivity.
  - reflexivity.
  - exact example_priv_wf.
Defined.

(** A last fragment arrives while there is memory for its list entry, the SDU and the buffer, and
    none for the entry of the SDU. *)
Lemma delim_process_udf_invariant_witness :
  exists ret p' l' o',
    default_delim_process_udf 0 example_priv (mk_du None None 0 (mk_lskb [] [6; 8; 8] [])) [] [true; true; true; false] =
      Some (ret, p', l', o') /\ priv_wf p' /\ l' = [].
Proof.
  destruct (delim_process_udf_invariant 0 example_priv (mk_du None None 0 (mk_lskb [] [6; 8; 8] [])) []
              [true; true; true; false] example_priv_wf) as (ret & p' & l' & o' & Hrun & Hwf & _).
  - by vm_compute.
  - by vm_compute.
  - exists ret, p', l', o'. split; [exact Hrun|]. split; [exact Hwf|].
    vm_compute in Hrun. by injection Hrun.
Defined.

Lemma delim_fragment_shape_witness :
  exists udfs, default_delim_fragment (S (Z.to_nat (du_len example_sdu))) 3 example_sdu [] [] = Some (0, udfs, []) /\
    payload udfs = du_buffer example_sdu /\
    Forall (fun y => 2 <= du_len y <= 3 + 1 /\ du_cfg y = du_cfg example_sdu) udfs /\
    default_delim_num_udfs (S (Z.to_nat (du_len example_sdu))) 3 example_sdu = Some (Z.of_nat (length udfs)).
Proof.
  apply (delim_fragment_shape 3 example_sdu); vm_compute; [split|]; reflexivity.
Defined.

Lemma delim_stray_fragment_witness :
  default_delim_process_udf 0 idle (mk_du None None 0 (mk_lskb [] [6; 1] [])) [] [] =
    Some (-1, idle, [], []).
Proof.
  apply (delim_stray_fragment 0 idle (mk_du None None 0 (mk_lskb [] [6; 1] [])) [] [] 6);
    [apply idle_wf|reflexivity|reflexivity|by right].
Defined.

Lemma delim_empty_udf_witness :
  exists p', default_delim_process_udf 5 idle (mk_du None None 0 (mk_lskb [] [] [5])) [] [] = Some (0, p', [], []) /\
    p'.(total_length) = -1 /\
    default_delim_process_udf 5 p' (mk_du None None 0 (mk_lskb [] [6; 1] [])) [] [] = None.
Proof.
  apply (delim_empty_udf 5 idle (mk_du None None 0 (mk_lskb [] [] [5])) (mk_du None None 0 (mk_lskb [] [6; 1] [])) [] 6);
    first [apply idle_wf | reflexivity | by vm_compute].
Defined.
