(* ===== verification/Rds.v ===== *)
(** * Queues of the RINA data structures

    [Rqueue] models [src/kernel/rds/rqueue.c] (a linked list with a length),
    [Rfifo] the wrapper [src/kernel/rds/rfifo.c], and [Ringq] the ring of
    preallocated slots of [src/kernel/rds/ringq.c].  [FifoOps] and [FifoLaws] state
    what the transfer protocol relies on: a queue behaves as the list of its
    elements; the two implementations discharge them. *)

From S2P Require Import Prelude.
From Stdlib Require Import ZArith Lia.
From stdpp Require Import base list numbers option.
#[local] Open Scope Z_scope.

(** ** The interface

    [fifo_push] returns 0 or -1; [fifo_ok] is the condition under which a push
    succeeds and [fifo_wf] the invariant of the implementation. *)

Class FifoOps (Q A : Type) := {
  fifo_elems : Q -> list A;
  fifo_wf : Q -> Prop;
  fifo_ok : Q -> Prop;
  fifo_push : Q -> A -> option (Z * Q);
  fifo_pop : Q -> option (option A * Q)
}.

Class FifoLaws (Q A : Type) `{FifoOps Q A} := {
  fifo_push_ok q a : fifo_wf q -> fifo_ok q ->
    exists q', fifo_push q a = Some (0, q') /\ fifo_wf q' /\ fifo_elems q' = fifo_elems q ++ [a];
  fifo_push_fail q a : fifo_wf q -> ~ fifo_ok q ->
    exists q', fifo_push q a = Some (-1, q') /\ fifo_wf q' /\ fifo_elems q' = fifo_elems q;
  fifo_pop_nil q : fifo_wf q -> fifo_elems q = [] -> fifo_pop q = Some (None, q);
  fifo_pop_cons q a l : fifo_wf q -> fifo_elems q = a :: l ->
    exists q', fifo_pop q = Some (Some a, q') /\ fifo_wf q' /\ fifo_elems q' = l
}.

(** Draining a queue pops its elements in order. *)
Fixpoint fifo_drain {Q A} `{FifoOps Q A} (fuel : nat) (q : Q) : option (list A * Q) :=
  match fuel with
  | O => None
  | S fuel' =>
      '(r, q') ← fifo_pop q;
      match r with
      | None => Some ([], q')
      | Some a => '(l, q'') ← fifo_drain fuel' q'; Some (a :: l, q'')
      end
  end.

Lemma fifo_drain_spec {Q A} `{FifoLaws Q A} fuel (q : Q) :
  fifo_wf q -> (length (fifo_elems q) < fuel)%nat ->
  exists q', fifo_drain fuel q = Some (fifo_elems q, q') /\ fifo_wf q' /\ fifo_elems q' = [].
Proof.
  revert q. induction fuel as [|fuel IH]; intros q Hwf Hl; [lia|]. cbn [fifo_drain].
  destruct (fifo_elems q) as [|a l] eqn:E.
  - rewrite fifo_pop_nil by done. eexists. by split.
  - destruct (fifo_pop_cons q a l Hwf E) as (q' & -> & Hwf' & E'). cbn.
    destruct (IH q' Hwf') as (q2 & Hd & Hw2 & Hn); [rewrite E'; cbn in Hl; lia|].
    rewrite Hd. cbn. exists q2. by rewrite E'.
Qed.

(** ** [rqueue.c] *)

Module Rqueue.
Section Rqueue.
Context {A : Type}.

Record rqueue := mk_rqueue { head : list A; rq_length : Z }.

Definition rqueue_create_gfp (mem : bool) : option rqueue :=
  if mem then Some (mk_rqueue [] 0) else None.

Definition rqueue_length (q : option rqueue) : Z :=
  match q with None => -1 | Some q => q.(rq_length) end.

Definition entry_create (mem : bool) (data : A) : option A := if mem then Some data else None.

(** The [list_for_each_entry_safe] loop: the destroyed elements, in order, and
    the queue left. *)
Fixpoint flush_loop (l : list A) (len : Z) : list A * rqueue :=
  match l with
  | [] => ([], mk_rqueue [] len)
  | x :: l' => let '(freed, q) := flush_loop l' (u64 (len - 1)) in (x :: freed, q)
  end.

Definition rqueue_flush (q : rqueue) : list A * rqueue := flush_loop q.(head) q.(rq_length).

Definition rqueue_destroy (q : option rqueue) (dtor : bool) : Z * list A :=
  match q with
  | Some q => if dtor then (0, fst (rqueue_flush q)) else (-1, [])
  | None => (-1, [])
  end.

Definition rqueue_head_push_gfp (mem : bool) (q : option rqueue) (data : A) : Z * option rqueue :=
  match q with
  | None => (-1, None)
  | Some q => match entry_create mem data with
              | None => (-1, Some q)
              | Some e => (0, Some (mk_rqueue (e :: q.(head)) (u64 (q.(rq_length) + 1))))
              end
  end.

Definition rqueue_tail_push_gfp (mem : bool) (q : option rqueue) (data : A) : Z * option rqueue :=
  match q with
  | None => (-1, None)
  | Some q => match entry_create mem data with
              | None => (-1, Some q)
              | Some e => (0, Some (mk_rqueue (q.(head) ++ [e]) (u64 (q.(rq_length) + 1))))
              end
  end.

Definition rqueue_head_pop (q : option rqueue) : option A * option rqueue :=
  match q with
  | None => (None, None)
  | Some q => match q.(head) with
              | [] => (None, Some q)
              | e :: l => (Some e, Some (mk_rqueue l (u64 (q.(rq_length) - 1))))
              end
  end.

Definition rqueue_head_peek (q : option rqueue) : option A :=
  match q with
  | None => None
  | Some q => match q.(head) with [] => None | e :: _ => Some e end
  end.

(** [rqueue_tail_pop] moves the list head itself in front of a null list: on a
    queue that is not empty it dereferences the null pointer, the outer [None]. *)
Definition rqueue_tail_pop (q : option rqueue) : option (option A * option rqueue) :=
  match q with
  | None => Some (None, None)
  | Some q => match q.(head) with
              | [] => Some (None, Some q)
              | _ :: _ => None
              end
  end.

Definition rqueue_is_empty (q : option rqueue) : bool :=
  match q with
  | None => false
  | Some q => match q.(head) with [] => true | _ => false end
  end.

(** The length is the number of elements, and they fit in memory. *)
Definition rq_wf (q : rqueue) : Prop :=
  q.(rq_length) = Z.of_nat (length q.(head)) /\ Z.of_nat (length q.(head)) < 2 ^ 64 - 1.

#[export] Instance rqueue_FifoOps : FifoOps rqueue A := {|
  fifo_elems := head;
  fifo_wf := rq_wf;
  fifo_ok q := Z.of_nat (length q.(head)) + 1 < 2 ^ 64 - 1;
  fifo_push q a :=
    if decide (Z.of_nat (length q.(head)) + 1 < 2 ^ 64 - 1) then
      match rqueue_tail_push_gfp true (Some q) a with
      | (r, Some q') => Some (r, q') | (_, None) => None end
    else match rqueue_tail_push_gfp false (Some q) a with
         | (r, Some q') => Some (r, q') | (_, None) => None end;
  fifo_pop q := match rqueue_head_pop (Some q) with
                | (r, Some q') => Some (r, q') | (_, None) => None end
|}.

#[export] Instance rqueue_FifoLaws : FifoLaws rqueue A.
Proof.
  split; cbn.
  - intros q a [Hl Hb] Hok. rewrite decide_True by done. cbn. eexists. split; [done|].
    split; [|done]. split; cbn; rewrite length_app; cbn [length]; [|lia].
    rewrite Hl, uwrap_small by (split; lia). lia.
  - intros q a Hwf Hok. rewrite decide_False by done. cbn. by exists q.
  - intros q _ ->. done.
  - intros q a l [Hl Hb] E. rewrite E. eexists. split; [done|]. split; [|done].
    rewrite E in Hl, Hb. cbn [length] in *. split; cbn; [|lia].
    rewrite Hl, uwrap_small by (split; lia). lia.
Qed.

Lemma flush_loop_spec (l : list A) (len : Z) :
  len = Z.of_nat (length l) -> len < 2 ^ 64 -> flush_loop l len = (l, mk_rqueue [] 0).
Proof.
  revert len. induction l as [|x l IH]; intros len Hl Hb; cbn in *; [by subst|].
  rewrite uwrap_small by (split; lia). rewrite IH; [done|lia..].
Qed.

(** Every operation of the queue keeps its length equal to the number of its
    elements: a granted push adds one at its end, a pop takes the oldest, a refused
    allocation changes nothing, and destruction hands every element to the
    destructor once, in order. *)
Theorem rqueue_ops_spec (q : rqueue) (x : A) :
  rq_wf q -> Z.of_nat (length q.(head)) + 1 < 2 ^ 64 - 1 ->
  (exists q', rqueue_tail_push_gfp true (Some q) x = (0, Some q') /\ rq_wf q' /\
     q'.(head) = q.(head) ++ [x]) /\
  (exists q', rqueue_head_push_gfp true (Some q) x = (0, Some q') /\ rq_wf q' /\
     q'.(head) = x :: q.(head)) /\
  (forall y l, q.(head) = y :: l -> exists q', rqueue_head_pop (Some q) = (Some y, Some q') /\
     rq_wf q' /\ q'.(head) = l /\ rqueue_head_peek (Some q) = Some y) /\
  rqueue_tail_push_gfp false (Some q) x = (-1, Some q) /\
  rqueue_head_push_gfp false (Some q) x = (-1, Some q) /\
  rqueue_destroy (Some q) true = (0, q.(head)) /\
  rqueue_length (Some q) = Z.of_nat (length q.(head)).
Proof.
  intros [Hl Hb] Hok. split_and!; try done.
  - eexists. split; [done|]. split; [|done]. split; cbn; rewrite length_app; cbn [length]; [|lia].
    rewrite Hl, uwrap_small by (split; lia). lia.
  - eexists. split; [done|]. split; [|done]. split; cbn [head rq_length length]; [|lia].
    rewrite Hl, uwrap_small by (split; lia). lia.
  - intros y l E. cbn. rewrite E. eexists. split; [done|]. split; [|done].
    rewrite E in Hl, Hb. cbn [length] in *. split; cbn; [|lia].
    rewrite Hl, uwrap_small by (split; lia). lia.
  - cbn. unfold rqueue_flush. by rewrite flush_loop_spec by lia.
Qed.

(** [rqueue_tail_pop] never pops: on a queue that is not empty it
    dereferences a null list. *)
Theorem rqueue_tail_pop_faults (q : rqueue) :
  rqueue_tail_pop (Some q) = None <-> q.(head) <> [].
Proof. cbn. destruct (head q); split; congruence. Qed.

End Rqueue.
Arguments rqueue A : clear implicits.

Lemma rqueue_ops_spec_witness :
  let q := mk_rqueue [1; 2] 2 in
  (exists q', rqueue_tail_push_gfp true (Some q) 3 = (0, Some q') /\ rq_wf q' /\
     q'.(head) = q.(head) ++ [3]) /\
  (exists q', rqueue_head_push_gfp true (Some q) 3 = (0, Some q') /\ rq_wf q' /\
     q'.(head) = 3 :: q.(head)) /\
  (forall y l, q.(head) = y :: l -> exists q', rqueue_head_pop (Some q) = (Some y, Some q') /\
     rq_wf q' /\ q'.(head) = l /\ rqueue_head_peek (Some q) = Some y) /\
  rqueue_tail_push_gfp false (Some q) 3 = (-1, Some q) /\
  rqueue_head_push_gfp false (Some q) 3 = (-1, Some q) /\
  rqueue_destroy (Some q) true = (0, q.(head)) /\
  rqueue_length (Some q) = Z.of_nat (length q.(head)).
Proof.
  intros q. apply (rqueue_ops_spec q 3); [split|]; vm_compute; reflexivity.
Defined.
End Rqueue.

(** ** [rfifo.c] *)

Module Rfifo.
Import Rqueue.
Section Rfifo.
Context {A : Type}.

Record rfifo := mk_rfifo { q : rqueue A }.

Definition rfifo_create_gfp (mem mem_q : bool) : option rfifo :=
  if mem then match rqueue_create_gfp mem_q with
              | Some q => Some (mk_rfifo q)
              | None => None
              end
  else None.

Definition lift_push (r : Z * option (rqueue A)) (f : rfifo) : Z * option rfifo :=
  match r with
  | (ret, Some q') => (ret, Some (mk_rfifo q'))
  | (ret, None) => (ret, Some f)
  end.

Definition rfifo_push (mem : bool) (f : option rfifo) (e : A) : Z * option rfifo :=
  match f with
  | None => (-1, None)
  | Some f => lift_push (rqueue_tail_push_gfp mem (Some f.(q)) e) f
  end.

Definition rfifo_head_push_ni (mem : bool) (f : option rfifo) (e : A) : Z * option rfifo :=
  match f with
  | None => (-1, None)
  | Some f => lift_push (rqueue_head_push_gfp mem (Some f.(q)) e) f
  end.

Definition rfifo_pop (f : option rfifo) : option A * option rfifo :=
  match f with
  | None => (None, None)
  | Some f => match rqueue_head_pop (Some f.(q)) with
              | (r, Some q') => (r, Some (mk_rfifo q'))
              | (r, None) => (r, Some f)
              end
  end.

Definition rfifo_peek (f : option rfifo) : option A :=
  match f with None => None | Some f => rqueue_head_peek (Some f.(q)) end.

Definition rfifo_is_empty (f : option rfifo) : bool :=
  match f with None => false | Some f => rqueue_is_empty (Some f.(q)) end.

Definition rfifo_length (f : option rfifo) : Z :=
  match f with None => -1 | Some f => rqueue_length (Some f.(q)) end.
End Rfifo.
Arguments rfifo A : clear implicits.
End Rfifo.

(** ** A FIFO as a list *)

Module FifoList.
Import Rqueue Rfifo.
Section Fifo.
Context {A : Type}.
Implicit Types (f : option (rfifo A)) (l : list A).

Definition fifo_holds f l : Prop :=
  exists q, f = Some (mk_rfifo q) /\ rq_wf q /\ q.(Rqueue.head) = l.

Lemma fifo_holds_length f l :
  fifo_holds f l -> rfifo_length f = Z.of_nat (length l) /\ rfifo_is_empty f = bool_decide (l = []).
Proof.
  intros (q & -> & Hwf & <-). cbn. split; [apply Hwf|]. by destruct (Rqueue.head q).
Qed.

Lemma fifo_holds_push f l p mem :
  fifo_holds f l -> Z.of_nat (length l) < 2 ^ 32 ->
  fifo_holds (snd (rfifo_push mem f p)) (if mem then l ++ [p] else l).
Proof.
  intros (q & -> & Hwf & <-) Hl. unfold rfifo_push, rqueue_tail_push_gfp, entry_create, lift_push.
  destruct mem; cbn [snd Rfifo.q]; eexists; (split; [reflexivity|]); [|by destruct q].
  unfold rq_wf in *. cbn. rewrite length_app, (proj1 Hwf). cbn. rewrite uwrap_small by (unfold in_u; lia).
  split; [lia|done].
Qed.

Lemma fifo_holds_pop f l :
  fifo_holds f l ->
  fst (rfifo_pop f) = hd_error l /\ fifo_holds (snd (rfifo_pop f)) (tail l).
Proof.
  intros (q & -> & Hwf & Hh). unfold rfifo_pop, rqueue_head_pop. cbn [Rfifo.q]. rewrite Hh.
  destruct l as [|p l]; cbn [fst snd hd_error tail]; split; try done; eexists; (split; [reflexivity|]);
    [by destruct q|].
  unfold rq_wf in *. rewrite Hh in Hwf. cbn in *. rewrite (proj1 Hwf), uwrap_small by (unfold in_u; lia).
  split; [lia|done].
Qed.

Lemma fifo_holds_peek f l : fifo_holds f l -> rfifo_peek f = hd_error l.
Proof. intros (q & -> & Hwf & <-). cbn. by destruct (Rqueue.head q). Qed.

Lemma fifo_holds_new : fifo_holds (rfifo_create_gfp true true) [].
Proof. by eexists. Qed.
End Fifo.
End FifoList.


(** ** [ringq.c]

    The ring is a circular list of preallocated slots; [cur] points to the slot
    the next element goes to.  [slots] is the list from its first entry on, a slot
    holds a pointer ([None] when it is null) and [cur] is an index in it, or [None]
    when [cur] has walked onto the list head, which is not a slot: writing its
    [data] overwrites a field of the queue itself, and has no defined result. *)

Module Ringq.
Section Ringq.
Context {A : Type}.

Record ringq := mk_ringq {
  slots : list (option A);
  cur : option nat;
  rg_length : Z;
  occupation : Z
}.

(** One pass of the loop of [ringq_create_gfp] with a zero size: [list_add] of an
    empty entry, or failure. *)
Fixpoint create_loop (n : nat) (l : list (option A)) (o : oracle) : option (list (option A)) * oracle :=
  match n with
  | O => (Some l, o)
  | S n' => let '(ok, o) := rkmalloc o in
            if ok then create_loop n' (None :: l) o else (None, o)
  end.

Definition first_entry (l : list (option A)) : option nat :=
  match l with [] => None | _ :: _ => Some 0%nat end.

Definition ringq_create_gfp (length : nat) (o : oracle) : option ringq * oracle :=
  let '(ok, o) := rkmalloc o in
  if ok then
    match create_loop length [] o with
    | (Some l, o) => (Some (mk_ringq l (first_entry l) (Z.of_nat length) 0), o)
    | (None, o) => (None, o)
    end
  else (None, o).

(** [list_next_entry], the list head included. *)
Definition nxt_entry (n : nat) (c : option nat) : option nat :=
  match c with
  | Some k => if decide (k + 1 < n)%nat then Some (k + 1)%nat else None
  | None => if decide (0 < n)%nat then Some 0%nat else None
  end.

(** [None]: the write goes through the list head. *)
Definition entry_add (q : ringq) (e : A) : option ringq :=
  match q.(cur) with
  | None => None
  | Some k =>
      Some (mk_ringq (<[k := Some e]> q.(slots))
              (if q.(occupation) <? u64 (q.(rg_length) - 1)
               then nxt_entry (length q.(slots)) (Some k) else Some k)
              q.(rg_length) (u64 (q.(occupation) + 1)))
  end.

Definition ringq_push (q : option ringq) (e : A) : option (Z * option ringq) :=
  match q with
  | None => Some (-1, None)
  | Some q =>
      if q.(rg_length) <=? q.(occupation) then Some (-1, Some q)
      else q' ← entry_add q e; Some (0, Some q')
  end.

(** Where the entry [cur] points to is after [list_move_tail] of the first one. *)
Definition move_tail_cur (n : nat) (c : option nat) : option nat :=
  match c with
  | None => None
  | Some O => Some (n - 1)%nat
  | Some (S k) => Some k
  end.

Definition ringq_pop (q : option ringq) : option A * option ringq :=
  match q with
  | None => (None, None)
  | Some q =>
      if q.(occupation) =? 0 then (None, Some q)
      else match q.(slots) with
           | [] => (None, Some q)
           | data :: l =>
               let c := move_tail_cur (length q.(slots)) q.(cur) in
               (data, Some (mk_ringq (l ++ [None])
                        (if q.(occupation) =? q.(rg_length)
                         then nxt_entry (length q.(slots)) c else c)
                        q.(rg_length) (u64 (q.(occupation) - 1))))
           end
  end.

Definition ringq_is_empty (q : ringq) : bool := q.(occupation) =? 0.

Definition ringq_length (q : option ringq) : Z :=
  match q with None => -1 | Some q => q.(rg_length) end.

Definition ringq_occupation (q : option ringq) : Z :=
  match q with None => -1 | Some q => q.(occupation) end.

Definition ringq_destroy (q : option ringq) (dtor : bool) : Z * list A :=
  match q with
  | Some q => if dtor then (0, omap id q.(slots)) else (-1, [])
  | None => (-1, [])
  end.

(** [ringq_holds q l]: the ring holds exactly [l]: its first slots, the others
    being empty, with [cur] at the first free slot (at the last slot when the ring
    is full). *)
Definition ringq_holds (q : ringq) (l : list A) : Prop :=
  q.(slots) = (Some <$> l) ++ replicate (Z.to_nat q.(rg_length) - length l) None /\
  q.(occupation) = Z.of_nat (length l) /\
  Z.of_nat (length l) <= q.(rg_length) /\ 2 <= q.(rg_length) < 2 ^ 32 /\
  q.(cur) = Some (length l `min` (Z.to_nat q.(rg_length) - 1))%nat.

Definition elems (q : ringq) : list A := omap id q.(slots).

Lemma omap_Some_replicate (l : list A) n : omap id ((Some <$> l) ++ replicate n None) = l.
Proof.
  induction l as [|a l IH]; cbn; [|by rewrite IH]. induction n as [|n IH]; cbn; auto.
Qed.

Lemma ringq_holds_elems q l : ringq_holds q l -> elems q = l.
Proof. intros (E & _). unfold elems. rewrite E. apply omap_Some_replicate. Qed.

Lemma ringq_holds_slots q l : ringq_holds q l -> length q.(slots) = Z.to_nat q.(rg_length).
Proof.
  intros (E & _ & Hl & Hb & _). rewrite E, length_app, length_fmap, length_replicate. lia.
Qed.

Lemma ringq_push_holds q l e :
  ringq_holds q l -> Z.of_nat (length l) < q.(rg_length) ->
  exists q', ringq_push (Some q) e = Some (0, Some q') /\ ringq_holds q' (l ++ [e]) /\
    q'.(rg_length) = q.(rg_length).
Proof.
  intros Hh Hlt. pose proof (ringq_holds_slots q l Hh) as Hs.
  destruct Hh as (E & Ho & Hl & Hb & Hc). unfold ringq_push, entry_add.
  rewrite (proj2 (Z.leb_gt _ _)) by lia. rewrite Hc, Nat.min_l by lia. cbn.
  eexists. split; [done|]. split; [|done].
  unfold ringq_holds. cbn [slots occupation rg_length cur]. rewrite length_app. cbn [length].
  split_and!; try lia.
  - rewrite E, fmap_app, <- app_assoc, insert_app_r_alt by (rewrite length_fmap; lia).
    f_equal. rewrite length_fmap, Nat.sub_diag.
    replace (Z.to_nat (rg_length q) - length l)%nat
      with (S (Z.to_nat (rg_length q) - (length l + 1)))%nat by lia. done.
  - rewrite uwrap_small by (split; lia). lia.
  - rewrite uwrap_small by (split; lia). rewrite Ho, Hs. zb.
    + rewrite decide_True by lia. f_equal. lia.
    + f_equal. lia.
Qed.

Lemma ringq_pop_holds q a l :
  ringq_holds q (a :: l) ->
  exists q', ringq_pop (Some q) = (Some a, Some q') /\ ringq_holds q' l /\
    q'.(rg_length) = q.(rg_length).
Proof.
  intros Hh. pose proof (ringq_holds_slots q _ Hh) as Hs.
  destruct Hh as (E & Ho & Hl & Hb & Hc). cbn [length] in *. unfold ringq_pop.
  rewrite (proj2 (Z.eqb_neq _ _)) by lia. rewrite Hs, E. cbn [fmap list_fmap app].
  eexists. split; [done|]. split; [|done].
  unfold ringq_holds. cbn [slots occupation rg_length cur].
  split_and!; try lia.
  - rewrite <- app_assoc. f_equal. rewrite <- replicate_S_end. f_equal. lia.
  - rewrite uwrap_small by (split; lia). lia.
  - rewrite Hc, Ho. cbn.
    destruct (Z.to_nat (rg_length q) - 1)%nat as [|m] eqn:Em; [lia|]. cbn.
    zb.
    + rewrite decide_True by lia. f_equal. lia.
    + f_equal. lia.
Qed.

#[export] Instance ringq_FifoOps : FifoOps ringq A := {|
  fifo_elems := elems;
  fifo_wf q := ringq_holds q (elems q);
  fifo_ok q := q.(occupation) < q.(rg_length);
  fifo_push q a := match ringq_push (Some q) a with
                   | Some (r, Some q') => Some (r, q') | _ => None end;
  fifo_pop q := match ringq_pop (Some q) with
                | (r, Some q') => Some (r, q') | (_, None) => None end
|}.

#[export] Instance ringq_FifoLaws : FifoLaws ringq A.
Proof.
  split; cbn -[ringq_push ringq_pop].
  - intros q a Hwf Hok. destruct (Hwf) as (_ & Ho & _).
    destruct (ringq_push_holds q _ a Hwf) as (q' & -> & Hh & _); [lia|].
    exists q'. split; [done|]. by rewrite (ringq_holds_elems _ _ Hh).
  - intros q a Hwf Hok. destruct (Hwf) as (_ & Ho & _). exists q. cbn.
    rewrite (proj2 (Z.leb_le _ _)) by lia. done.
  - intros q Hwf E. destruct (Hwf) as (_ & Ho & _). rewrite E in Ho. cbn in *. by rewrite Ho.
  - intros q a l Hwf E. rewrite E in Hwf.
    destruct (ringq_pop_holds q a l Hwf) as (q' & -> & Hh & _).
    exists q'. split; [done|]. by rewrite (ringq_holds_elems _ _ Hh).
Qed.

Lemma create_loop_granted n l :
  create_loop n l [] = (Some (replicate n None ++ l), []).
Proof.
  revert l. induction n as [|n IH]; intros l; [done|]. cbn [create_loop rkmalloc].
  rewrite IH. rewrite (replicate_S_end n), <- app_assoc. done.
Qed.

(** A sequence of operations on a ring and the answers they give. *)
Inductive ring_op := RingPush (a : A) | RingPop.
Inductive ring_ans := AnsPush (r : Z) | AnsPop (a : option A).

Fixpoint ring_run (q : ringq) (ops : list ring_op) : option (list ring_ans * ringq) :=
  match ops with
  | [] => Some ([], q)
  | RingPush a :: ops' =>
      '(r, q) ← fifo_push q a; '(as_, q) ← ring_run q ops'; Some (AnsPush r :: as_, q)
  | RingPop :: ops' =>
      '(r, q) ← fifo_pop q; '(as_, q) ← ring_run q ops'; Some (AnsPop r :: as_, q)
  end.

(** The specification: a list that holds at most [n] elements. *)
Fixpoint bounded_fifo_run (n : Z) (l : list A) (ops : list ring_op) : list ring_ans * list A :=
  match ops with
  | [] => ([], l)
  | RingPush a :: ops' =>
      if n <=? Z.of_nat (length l)
      then let '(as_, l) := bounded_fifo_run n l ops' in (AnsPush (-1) :: as_, l)
      else let '(as_, l) := bounded_fifo_run n (l ++ [a]) ops' in (AnsPush 0 :: as_, l)
  | RingPop :: ops' =>
      match l with
      | [] => let '(as_, l) := bounded_fifo_run n [] ops' in (AnsPop None :: as_, l)
      | a :: l' => let '(as_, l) := bounded_fifo_run n l' ops' in (AnsPop (Some a) :: as_, l)
      end
  end.

Lemma ring_run_holds (ops : list ring_op) q l :
  ringq_holds q l ->
  exists q', ring_run q ops = Some (fst (bounded_fifo_run q.(rg_length) l ops), q') /\
    ringq_holds q' (snd (bounded_fifo_run q.(rg_length) l ops)).
Proof.
  revert q l. induction ops as [|[a|] ops IH]; intros q l Hh; [by exists q| |];
    cbn -[ringq_push ringq_pop]; destruct (Hh) as (_ & Ho & Hl & Hb & _).
  - destruct (Z.leb_spec (rg_length q) (Z.of_nat (length l))) as [Hf|Hf].
    + replace (ringq_push (Some q) a) with (Some (-1, Some q))
        by (cbn; by rewrite (proj2 (Z.leb_le _ _)) by lia).
      cbn. destruct (IH q l Hh) as (q' & -> & Hh'). exists q'.
      by destruct (bounded_fifo_run _ l ops).
    + destruct (ringq_push_holds q l a Hh Hf) as (q1 & -> & Hh1 & Hr). cbn.
      destruct (IH q1 _ Hh1) as (q' & -> & Hh'). rewrite Hr in *. exists q'.
      by destruct (bounded_fifo_run _ (l ++ [a]) ops).
  - destruct l as [|a l].
    + replace (ringq_pop (Some q)) with (@None A, Some q) by (cbn; by rewrite Ho).
      cbn. destruct (IH q [] Hh) as (q' & -> & Hh'). exists q'.
      by destruct (bounded_fifo_run _ [] ops).
    + destruct (ringq_pop_holds q a l Hh) as (q1 & -> & Hh1 & Hr). cbn.
      destruct (IH q1 _ Hh1) as (q' & -> & Hh'). rewrite Hr in *. exists q'.
      by destruct (bounded_fifo_run _ l ops).
Qed.

(** C35: a ring created with at least two slots answers every sequence of pushes
    and pops as a list of at most that many elements does, and never writes
    outside its slots. *)
Theorem ringq_refines_bounded_fifo (n : nat) (ops : list ring_op) :
  (2 <= n)%nat -> Z.of_nat n < 2 ^ 32 ->
  exists q q', ringq_create_gfp n [] = (Some q, []) /\
    ring_run q ops = Some (fst (bounded_fifo_run (Z.of_nat n) [] ops), q') /\
    elems q' = snd (bounded_fifo_run (Z.of_nat n) [] ops).
Proof.
  intros Hn Hb. unfold ringq_create_gfp. cbn [rkmalloc]. rewrite create_loop_granted, app_nil_r.
  set (q := mk_ringq _ _ _ _).
  assert (ringq_holds q []) as Hh.
  { unfold ringq_holds. cbn. rewrite Nat2Z.id, Nat.sub_0_r. split_and!; try done; try lia.
    destruct n; [lia|done]. }
  destruct (ring_run_holds ops q [] Hh) as (q' & Hr & Hh').
  exists q, q'. split; [done|]. split; [exact Hr|]. by apply ringq_holds_elems.
Qed.

(** A ring created with one slot is broken by its first pop: the cursor walks
    onto the list head, and the next push writes through it. *)
Theorem ringq_one_slot_faults (a b : A) :
  exists q, fst (ringq_create_gfp 1 []) = Some q /\
    ring_run q [RingPush a; RingPop; RingPush b] = None.
Proof. eexists. split; reflexivity. Qed.

End Ringq.
Arguments ringq A : clear implicits.
Arguments ring_op A : clear implicits.
Arguments ring_ans A : clear implicits.

Lemma ringq_refines_bounded_fifo_witness :
  exists q q', ringq_create_gfp 2 [] = (Some q, []) /\
    ring_run q [RingPush 1; RingPush 2; RingPush 3; RingPop; RingPush 4; RingPop; RingPop; RingPop]
    = Some (fst (bounded_fifo_run 2 []
        [RingPush 1; RingPush 2; RingPush 3; RingPop; RingPush 4; RingPop; RingPop; RingPop]), q') /\
    elems q' = snd (bounded_fifo_run 2 []
        [RingPush 1; RingPush 2; RingPush 3; RingPop; RingPush 4; RingPop; RingPop; RingPop]).
Proof. apply (ringq_refines_bounded_fifo 2); lia. Defined.
End Ringq.

(** ** [rtimer.c]

    A timer is pending with the tick it expires at, or it is not.  [HZ] is the
    number of ticks per second of the kernel. *)

Module Rtimer.

Definition timer : Type := option Z.

Definition rtimer_is_pending (tl : timer) : bool := match tl with Some _ => true | None => false end.

(** [millisecs * HZ] is a product of [unsigned int]s. *)
Definition rtimer_start (HZ jiffies : Z) (tl : timer) (millisecs : Z) : Z * timer :=
  if rtimer_is_pending tl then (0, tl)
  else (0, Some (u64 (jiffies + u32 (millisecs * HZ) / 1000))).

Definition rtimer_stop (tl : timer) : Z * timer :=
  if negb (rtimer_is_pending tl) then (0, tl) else (0, None).

Definition rtimer_restart (HZ jiffies : Z) (tl : timer) (millisecs : Z) : Z * timer :=
  rtimer_start HZ jiffies tl millisecs.

Definition rtimer_destroy (tl : timer) : Z * timer :=
  let '(r, tl') := rtimer_stop tl in
  if negb (r =? 0) then (-1, tl') else (0, tl').

(** The timer operations never fail; stopping and starting a timer sets it
    the given time ahead, but restarting a pending timer leaves its expiry as it
    was. *)
Theorem rtimer_restart_pending (HZ jiffies ms t : Z) :
  0 <= ms -> 0 < HZ -> ms * HZ < 2 ^ 32 -> 0 <= jiffies < 2 ^ 63 ->
  rtimer_restart HZ jiffies (Some t) ms = (0, Some t) /\
  rtimer_start HZ jiffies (snd (rtimer_stop (Some t))) ms = (0, Some (jiffies + ms * HZ / 1000)).
Proof.
  intros Hms Hhz Hov Hj. split; [done|]. cbn.
  rewrite (uwrap_small 32) by (split; nia).
  assert (0 <= ms * HZ / 1000 < 2 ^ 32).
  { split; [apply Z.div_pos; nia|]. apply Z.div_lt_upper_bound; lia. }
  by rewrite uwrap_small by (split; lia).
Qed.

Lemma rtimer_restart_pending_witness :
  rtimer_restart 250 100000 (Some 100040) 2000 = (0, Some 100040) /\
  rtimer_start 250 100000 (snd (rtimer_stop (Some 100040))) 2000
    = (0, Some (100000 + 2000 * 250 / 1000)).
Proof. apply (rtimer_restart_pending 250 100000 2000 100040); lia. Defined.

Lemma rtimer_ret0 HZ jiffies tl ms : fst (rtimer_restart HZ jiffies tl ms) = 0.
Proof. unfold rtimer_restart, rtimer_start. by destruct tl. Qed.

Lemma rtimer_stop_ret0 tl : fst (rtimer_stop tl) = 0.
Proof. unfold rtimer_stop. by destruct tl. Qed.
End Rtimer.
