(* ===== verification/Queues.v ===== *)
(** * Queues of the transfer protocol

    [Seqq] models the sequencing queue of [src/kernel/dtp.c], [Rtxq] and [Rttq] the
    retransmission and round-trip-time queues of [src/kernel/dtp-utils.c], and [Cwq] its
    closed-window queue, over the queue interface of [Rds.v].

    The first three are lists the code keeps in the order of the sequence numbers
    with one insertion routine written three times.  [Ordered] holds its walk, the
    order invariant and the lemmas the three share. *)

From S2P Require Import Prelude Rds.
From Stdlib Require Import ZArith Lia Sorted.
From stdpp Require Import base list numbers option sorting.
#[local] Open Scope Z_scope.

(** ** Insertion by sequence number *)

Module Ordered.
Section Ordered.
Context {E : Type} (key : E -> Z).

(** The [list_for_each_entry] loop of the push routines: compare with each entry
    from the first one on, and insert after the first one that is smaller. *)
Inductive walk_result := WalkDup | WalkMiddle (l : list E) | WalkNone.

Fixpoint push_walk (x : E) (l : list E) : walk_result :=
  match l with
  | [] => WalkNone
  | cur :: l' =>
      if key x =? key cur then WalkDup
      else if key cur <? key x then WalkMiddle (cur :: x :: l')
      else match push_walk x l' with
           | WalkDup => WalkDup
           | WalkMiddle l'' => WalkMiddle (cur :: l'')
           | WalkNone => WalkNone
           end
  end.

(** The loop of the routines that drop the acknowledged prefix: the entries
    destroyed and the entries left. *)
Fixpoint drop_upto (sn : Z) (l : list E) : list E * list E :=
  match l with
  | [] => ([], [])
  | cur :: l' =>
      if key cur <=? sn then let '(d, r) := drop_upto sn l' in (cur :: d, r)
      else ([], l)
  end.

Definition lt_key (a b : E) : Prop := key a < key b.
Definition sorted (l : list E) : Prop := StronglySorted lt_key l.

Lemma sorted_cons_inv a l : sorted (a :: l) -> sorted l /\ Forall (fun b => key a < key b) l.
Proof. intros H. apply StronglySorted_inv in H. exact H. Qed.

Lemma sorted_snoc l x : sorted (l ++ [x]) <-> sorted l /\ Forall (fun b => key b < key x) l.
Proof.
  induction l as [|a l IH]; cbn.
  - split; intros; [split; constructor|repeat constructor].
  - split.
    + intros H. apply StronglySorted_inv in H as [Hs Hf]. apply IH in Hs as [Hs Hx].
      apply Forall_app in Hf as [Hf Hl]. inversion Hl; subst.
      split; constructor; auto.
    + intros [Hs Hf]. apply sorted_cons_inv in Hs as [Hs Ha]. inversion Hf; subst.
      constructor; [by apply IH|]. apply Forall_app. split; [exact Ha|]. by constructor.
Qed.

Lemma sorted_last l z : sorted l -> last l = Some z -> Forall (fun b => key b <= key z) l.
Proof.
  destruct l as [|l y _] using rev_ind; [done|]. rewrite last_snoc. intros Hs [= ->].
  apply sorted_snoc in Hs as [_ Hf]. apply Forall_app. split; [|by repeat constructor; lia].
  eapply Forall_impl; [exact Hf|]. cbn. lia.
Qed.

Lemma sorted_push_last l z x : sorted l -> last l = Some z -> key z < key x -> sorted (l ++ [x]).
Proof.
  intros Hs Hl Hx. apply sorted_snoc. split; [done|].
  eapply Forall_impl; [by eapply sorted_last|]. cbn. lia.
Qed.

(** On an ordered queue the walk looks at the first entry only. *)
Lemma push_walk_head x a l :
  push_walk x (a :: l) =
    if key x =? key a then WalkDup
    else if key a <? key x then WalkMiddle (a :: x :: l)
    else match push_walk x l with
         | WalkDup => WalkDup
         | WalkMiddle l'' => WalkMiddle (a :: l'')
         | WalkNone => WalkNone
         end.
Proof. done. Qed.

Lemma push_walk_none x l : Forall (fun b => key x < key b) l -> push_walk x l = WalkNone.
Proof.
  induction 1 as [|b l Hb _ IH]; [done|]. rewrite push_walk_head, IH. zb; try lia; done.
Qed.

Lemma sorted_walk x a l :
  sorted (a :: l) ->
  push_walk x (a :: l) =
    if key x =? key a then WalkDup
    else if key a <? key x then WalkMiddle (a :: x :: l) else WalkNone.
Proof.
  intros Hs. apply sorted_cons_inv in Hs as [_ Hf]. rewrite push_walk_head. zb; try done.
  rewrite push_walk_none; [done|]. eapply Forall_impl; [exact Hf|]. cbn. lia.
Qed.

(** ... so that a middle insertion keeps the order only before the second one. *)
Lemma sorted_middle x a b l :
  sorted (a :: b :: l) -> key a < key x -> (sorted (a :: x :: b :: l) <-> key x < key b).
Proof.
  intros Hs Hx. split.
  - intros H. apply sorted_cons_inv in H as [H _]. apply sorted_cons_inv in H as [_ H].
    by inversion H.
  - intros Hb. apply sorted_cons_inv in Hs as [Hs Ha].
    pose proof (sorted_cons_inv _ _ Hs) as [_ Hbl].
    constructor; [constructor; [exact Hs|]|].
    + constructor; [exact Hb|]. eapply Forall_impl; [exact Hbl|]. unfold lt_key. cbn. lia.
    + constructor; [exact Hx|exact Ha].
Qed.

(** The walk adds nothing but the entry given. *)
Lemma push_walk_forall (P : E -> Prop) x l l' :
  push_walk x l = WalkMiddle l' -> P x -> Forall P l -> Forall P l'.
Proof.
  intros Hw Hx Hl. revert l' Hw. induction Hl as [|a l Ha Hl IH]; intros l'; [done|].
  rewrite push_walk_head. destruct (_ =? _); [done|]. destruct (_ <? _).
  - intros [= <-]. by repeat constructor.
  - destruct (push_walk x l); try done. intros [= <-]. constructor; auto.
Qed.

Lemma drop_upto_app sn l : fst (drop_upto sn l) ++ snd (drop_upto sn l) = l.
Proof.
  induction l as [|a l IH]; cbn; [done|]. destruct (key a <=? sn); [|done].
  destruct (drop_upto sn l) as [d r]; cbn in *. by rewrite IH.
Qed.

Lemma drop_upto_sorted sn l :
  sorted l ->
  fst (drop_upto sn l) = filter (fun e => key e <= sn) l /\
  snd (drop_upto sn l) = filter (fun e => sn < key e) l.
Proof.
  induction l as [|a l IH]; intros Hs; [done|]. apply sorted_cons_inv in Hs as [Hs Hf].
  specialize (IH Hs). cbn [drop_upto]. rewrite !filter_cons. zb.
  - rewrite decide_True by lia. rewrite decide_False by lia.
    destruct (drop_upto sn l) as [d r]; cbn in *. destruct IH as [-> ->]. done.
  - rewrite decide_False by lia. rewrite decide_True by lia.
    assert (Forall (fun e => sn < key e) l) as Hall
      by (eapply Forall_impl; [exact Hf|]; cbn; lia).
    cbn. split.
    + clear -Hall. symmetry. induction Hall as [|b l Hb _ IH]; [done|].
      rewrite filter_cons, decide_False by lia. exact IH.
    + f_equal. clear -Hall. induction Hall as [|b l Hb _ IH]; [done|].
      rewrite filter_cons, decide_True by lia. by rewrite <- IH.
Qed.

Lemma drop_upto_sorted_rest sn l : sorted l -> sorted (snd (drop_upto sn l)).
Proof.
  induction l as [|a l IH]; intros Hs; [done|]. cbn. zb; [|exact Hs].
  apply sorted_cons_inv in Hs as [Hs _]. specialize (IH Hs).
  by destruct (drop_upto sn l).
Qed.
End Ordered.
Arguments walk_result E : clear implicits.
End Ordered.

(** ** The sequencing queue of [dtp.c]

    [D] is the type of PDUs and [seq_of] reads their sequence number
    ([pci_sequence_number_get]). *)

Module Seqq.
Import Ordered.
Section Seqq.
Context {D : Type} (seq_of : D -> Z).

Record seq_queue_entry := mk_seq_queue_entry { sq_time_stamp : Z; sq_du : D }.

Definition sq_key (e : seq_queue_entry) : Z := seq_of e.(sq_du).

Definition seq_queue_entry_create_gfp (mem : bool) (jiffies : Z) (du : D) : option seq_queue_entry :=
  if mem then Some (mk_seq_queue_entry jiffies du) else None.

(** The value returned, the queue, and the PDUs destroyed. *)
Definition seq_queue_push_ni (mem : bool) (jiffies : Z) (q : list seq_queue_entry) (du : D)
    : Z * list seq_queue_entry * list D :=
  match seq_queue_entry_create_gfp mem jiffies du with
  | None => (-1, q, [])
  | Some tmp =>
      let csn := seq_of du in
      match last q with
      | None => (0, [tmp], [])
      | Some lst =>
          let psn := sq_key lst in
          if csn =? psn then (-1, q, [du])
          else if psn <? csn then (0, q ++ [tmp], [])
          else match push_walk sq_key tmp q with
               | WalkDup => (0, q, [du])
               | WalkMiddle q' => (0, q', [])
               | WalkNone => (0, q, [])
               end
      end
  end.

Definition seq_queue_pop (q : list seq_queue_entry) : option D * list seq_queue_entry :=
  match q with
  | [] => (None, [])
  | p :: q' => (Some p.(sq_du), q')
  end.

(** The queue left and the PDUs destroyed. *)
Fixpoint dtp_squeue_flush (q : list seq_queue_entry) : list seq_queue_entry * list D :=
  match q with
  | [] => ([], [])
  | cur :: q' => let '(r, freed) := dtp_squeue_flush q' in (r, cur.(sq_du) :: freed)
  end.

Lemma dtp_squeue_flush_spec q : dtp_squeue_flush q = ([], sq_du <$> q).
Proof. induction q as [|e q IH]; cbn; [done|]. by rewrite IH. Qed.

Lemma seq_queue_push_newest q jiffies du :
  sorted sq_key q -> Forall (fun e => sq_key e < seq_of du) q ->
  seq_queue_push_ni true jiffies q du = (0, q ++ [mk_seq_queue_entry jiffies du], []) /\
  sorted sq_key (q ++ [mk_seq_queue_entry jiffies du]).
Proof.
  intros Hs Hf. split; [|by apply sorted_snoc]. unfold seq_queue_push_ni. cbn.
  destruct (last q) as [z|] eqn:Hz; [|apply last_None in Hz; by subst].
  assert (sq_key z < seq_of du).
  { rewrite Forall_forall in Hf. apply Hf. by apply last_Some_elem_of. }
  zb; try lia; done.
Qed.

(** What happens to a PDU pushed on an ordered queue. *)
Inductive push_fate := FateAppended | FateSecond | FateDestroyed | FateLost.

Definition push_fate_of (q : list seq_queue_entry) (sn : Z) : push_fate :=
  match q, last q with
  | a :: _, Some z =>
      if sq_key z <? sn then FateAppended
      else if sn =? sq_key z then FateDestroyed
      else if sn =? sq_key a then FateDestroyed
      else if sq_key a <? sn then FateSecond
      else FateLost
  | _, _ => FateAppended
  end.

(** On an ordered sequencing queue a PDU that is newer than all of them goes to the
    end, a copy of the first or of the last is destroyed, any other PDU newer than the
    first is put right behind the first one, and a PDU older than the first is neither
    queued nor destroyed, with success reported. *)
Theorem seq_queue_push_fate (q : list seq_queue_entry) (jiffies : Z) (du : D) :
  sorted sq_key q ->
  let tmp := mk_seq_queue_entry jiffies du in
  let '(ret, q', freed) := seq_queue_push_ni true jiffies q du in
  match push_fate_of q (seq_of du) with
  | FateAppended => ret = 0 /\ q' = q ++ [tmp] /\ freed = [] /\ sorted sq_key q'
  | FateSecond => ret = 0 /\ freed = [] /\
      exists a b l, q = a :: b :: l /\ q' = a :: tmp :: b :: l /\
        (sorted sq_key q' <-> seq_of du < sq_key b)
  | FateDestroyed => q' = q /\ freed = [du]
  | FateLost => ret = 0 /\ q' = q /\ freed = []
  end.
Proof.
  intros Hs tmp. unfold seq_queue_push_ni, push_fate_of. cbn [seq_queue_entry_create_gfp].
  fold tmp. destruct q as [|a q].
  { cbn. split_and!; [done..|]. by repeat constructor. }
  destruct (last (a :: q)) as [z|] eqn:Hz; [|by apply last_None in Hz].
  rewrite (sorted_walk sq_key tmp a q Hs). change (sq_key tmp) with (seq_of du).
  destruct (Z.eqb_spec (seq_of du) (sq_key z)) as [Ez|Nz].
  { rewrite Ez, Z.ltb_irrefl. done. }
  destruct (Z.ltb_spec (sq_key z) (seq_of du)) as [Lz|Gz].
  { split_and!; [done..|]. by eapply sorted_push_last. }
  destruct (Z.eqb_spec (seq_of du) (sq_key a)); [done|].
  destruct (Z.ltb_spec (sq_key a) (seq_of du)) as [La|Ga]; [|done].
  split; [done|]. split; [done|]. destruct q as [|b q].
  { cbn in Hz. injection Hz as <-. lia. }
  exists a, b, q. split; [done|]. split; [done|].
  apply (sorted_middle sq_key tmp a b q Hs La).
Qed.

(** PDUs pushed in increasing order of their sequence numbers come out of the
    queue in that order, all of them. *)
Theorem seq_queue_in_order (jiffies : Z) (dus : list D) :
  StronglySorted (fun a b => seq_of a < seq_of b) dus ->
  exists q, foldl (fun q du => snd (fst (seq_queue_push_ni true jiffies q du))) [] dus = q /\
    sorted sq_key q /\ sq_du <$> q = dus.
Proof.
  intros Hs. eexists. split; [reflexivity|].
  induction dus as [|d dus IH] using rev_ind; [split; [constructor|done]|].
  rewrite foldl_snoc.
  assert (StronglySorted (fun a b => seq_of a < seq_of b) dus /\
          Forall (fun b => seq_of b < seq_of d) dus) as [Hs' Hf]
    by by apply (proj1 (sorted_snoc seq_of dus d)).
  destruct (IH Hs') as [IHs IHd]. set (q := foldl _ _ _) in *. clearbody q. subst dus.
  rewrite Forall_fmap in Hf.
  destruct (seq_queue_push_newest q jiffies d IHs Hf) as [-> Hq]. cbn [fst snd].
  split; [exact Hq|]. by rewrite fmap_app.
Qed.
End Seqq.

(** The ordered queue 2, 3, 5 receives 4, which the walk puts before 3. *)
Lemma seq_queue_push_fate_witness :
  let q := [mk_seq_queue_entry 0 2; mk_seq_queue_entry 0 3; mk_seq_queue_entry 0 5] in
  snd (fst (seq_queue_push_ni id true 0 q 4)) =
    [mk_seq_queue_entry 0 2; mk_seq_queue_entry 0 4; mk_seq_queue_entry 0 3; mk_seq_queue_entry 0 5] /\
  ~ sorted (sq_key id) (snd (fst (seq_queue_push_ni id true 0 q 4))).
Proof.
  intros q. split; [reflexivity|]. intros Hs.
  pose proof (seq_queue_push_fate id q 0 4) as P.
  destruct P as (_ & _ & a & b & l & Hq & _ & Hiff).
  - repeat constructor.
  - injection Hq as <- <- <-. cbn in Hiff. apply Hiff in Hs. unfold sq_key in Hs. cbn in Hs. lia.
Defined.

Lemma seq_queue_in_order_witness :
  exists q, foldl (fun q du => snd (fst (seq_queue_push_ni id true 0 q du))) [] [3; 7; 8] = q /\
    sorted (sq_key id) q /\ sq_du <$> q = [3; 7; 8].
Proof. apply (seq_queue_in_order id 0 [3; 7; 8]). repeat constructor. Defined.
End Seqq.

(** ** The retransmission queue of [dtp-utils.c] *)

Module Rtxq.
Import Ordered.
Section Rtxq.
Context {D : Type} (seq_of : D -> Z).

Record rtxq_entry := mk_rtxq_entry { rx_time_stamp : Z; rx_du : D; retries : Z }.
Record rtxqueue := mk_rtxqueue { rx_len : Z; drop_pdus : Z; rx_head : list rtxq_entry }.

Definition rx_key (e : rtxq_entry) : Z := seq_of e.(rx_du).

Definition rtxq_entry_create_gfp (mem : bool) (jiffies : Z) (du : D) : option rtxq_entry :=
  if mem then Some (mk_rtxq_entry jiffies du 0) else None.

Definition rtxqueue_create_gfp (mem : bool) : option rtxqueue :=
  if mem then Some (mk_rtxqueue 0 0 []) else None.

(** The PDUs destroyed and the queue left. *)
Fixpoint rtxqueue_flush_loop (l : list rtxq_entry) (len : Z) : list D * Z :=
  match l with
  | [] => ([], len)
  | cur :: l' => let '(freed, len) := rtxqueue_flush_loop l' (s32 (len - 1)) in
                 (cur.(rx_du) :: freed, len)
  end.

Definition rtxqueue_flush (q : rtxqueue) : list D * rtxqueue :=
  let '(freed, len) := rtxqueue_flush_loop q.(rx_head) q.(rx_len) in
  (freed, mk_rtxqueue len q.(drop_pdus) []).

(** [rtxqueue_entries_ack]: destroy entries from the first one on until one is
    beyond the acknowledged number. *)
Fixpoint rtxqueue_ack_loop (seq_num : Z) (l : list rtxq_entry) (len : Z)
    : list D * list rtxq_entry * Z :=
  match l with
  | [] => ([], [], len)
  | cur :: l' =>
      if rx_key cur <=? seq_num
      then let '(freed, r, len) := rtxqueue_ack_loop seq_num l' (s32 (len - 1)) in
           (cur.(rx_du) :: freed, r, len)
      else ([], l, len)
  end.

Definition rtxqueue_entries_ack (q : rtxqueue) (seq_num : Z) : Z * list D * rtxqueue :=
  let '(freed, r, len) := rtxqueue_ack_loop seq_num q.(rx_head) q.(rx_len) in
  (0, freed, mk_rtxqueue len q.(drop_pdus) r).

(** The result is an [unsigned long]: -1 is 2^64 - 1. *)
Fixpoint rtxqueue_entry_timestamp (l : list rtxq_entry) (sn : Z) : Z :=
  match l with
  | [] => u64 (-1)
  | cur :: l' =>
      let csn := rx_key cur in
      if sn <? csn then u64 (-1)
      else if csn =? sn then (if negb (cur.(retries) =? 0) then 0 else cur.(rx_time_stamp))
      else rtxqueue_entry_timestamp l' sn
  end.

Definition rtxqueue_push_ni (mem : bool) (jiffies : Z) (q : rtxqueue) (du : D) : Z * rtxqueue :=
  let csn := seq_of du in
  match rtxq_entry_create_gfp mem jiffies du with
  | None => (-1, q)
  | Some tmp =>
      let add l := (0, mk_rtxqueue (s32 (q.(rx_len) + 1)) q.(drop_pdus) l) in
      match last q.(rx_head) with
      | None => add [tmp]
      | Some lst =>
          let psn := rx_key lst in
          if csn =? psn then (-1, q)
          else if psn <? csn then add (q.(rx_head) ++ [tmp])
          else match push_walk rx_key tmp q.(rx_head) with
               | WalkDup => (-1, q)
               | WalkMiddle l => add l
               | WalkNone => (-1, q)
               end
      end
  end.

(** [MAX_RTX_WAIT_TIME] is [msecs_to_jiffies(60000)], a number of ticks. *)
Definition time_to_rtx (MAX_RTX_WAIT_TIME : Z) (cur : rtxq_entry) (tr : Z) : Z :=
  let rtx_wtime := u32 ((1 + cur.(retries) * cur.(retries)) * tr) in
  let rtx_wtime := if MAX_RTX_WAIT_TIME <? rtx_wtime then MAX_RTX_WAIT_TIME else rtx_wtime in
  u64 (cur.(rx_time_stamp) + rtx_wtime).

Definition rtxqueue_empty (q : option rtxqueue) : bool :=
  match q with None => true | Some q => match q.(rx_head) with [] => true | _ => false end end.

(** The counter is the number of entries and these are in order. *)
Definition rtx_wf (q : rtxqueue) : Prop :=
  q.(rx_len) = Z.of_nat (length q.(rx_head)) /\ q.(rx_len) < 2 ^ 31 - 1 /\
  sorted rx_key q.(rx_head).

Lemma rtxqueue_ack_loop_spec sn l len :
  sorted rx_key l -> len = Z.of_nat (length l) -> len < 2 ^ 31 ->
  rtxqueue_ack_loop sn l len =
    (rx_du <$> fst (drop_upto rx_key sn l), snd (drop_upto rx_key sn l),
     Z.of_nat (length (snd (drop_upto rx_key sn l)))).
Proof.
  revert len. induction l as [|a l IH]; intros len Hs Hl Hb; [by subst|].
  apply sorted_cons_inv in Hs as [Hs _]. cbn [rtxqueue_ack_loop drop_upto length] in *.
  destruct (rx_key a <=? sn); [|by subst].
  rewrite swrap_small by (unfold in_s; lia). rewrite IH by (done || lia).
  by destruct (drop_upto rx_key sn l).
Qed.

(** Neither an insertion nor an acknowledgement adds anything but the entry given. *)
Lemma rtxqueue_push_forall (P : D -> Prop) mem jiffies q du :
  Forall (fun e => P e.(rx_du)) q.(rx_head) -> P du ->
  Forall (fun e => P e.(rx_du)) (snd (rtxqueue_push_ni mem jiffies q du)).(rx_head).
Proof.
  intros Hq Hd. unfold rtxqueue_push_ni. destruct mem; cbn [rtxq_entry_create_gfp]; [|done].
  destruct (last _); [|by repeat constructor].
  destruct (_ =? _); [done|]. destruct (_ <? _).
  - cbn. apply Forall_app. split; [done|]. by repeat constructor.
  - destruct (push_walk _ _ _) eqn:Ew; [done| |done].
    by eapply (push_walk_forall rx_key (fun e => P e.(rx_du))).
Qed.

Lemma rtxqueue_ack_forall (P : rtxq_entry -> Prop) q sn :
  Forall P q.(rx_head) -> Forall P (snd (rtxqueue_entries_ack q sn)).(rx_head).
Proof.
  unfold rtxqueue_entries_ack. generalize q.(rx_len). induction (rx_head q) as [|a l IH];
    intros len Hl; [done|]. cbn [rtxqueue_ack_loop]. apply Forall_cons in Hl as [Ha Hl].
  destruct (_ <=? _); [|cbn; by constructor].
  specialize (IH (s32 (len - 1)) Hl). by destruct (rtxqueue_ack_loop _ _ _) as [[? ?] ?].
Qed.

Lemma rtxqueue_push_last q jiffies du :
  Forall (fun e => rx_key e < seq_of du) q.(rx_head) ->
  rtxqueue_push_ni true jiffies q du =
    (0, mk_rtxqueue (s32 (q.(rx_len) + 1)) q.(drop_pdus)
          (q.(rx_head) ++ [mk_rtxq_entry jiffies du 0])).
Proof.
  intros Hf. unfold rtxqueue_push_ni. cbn.
  destruct (last (rx_head q)) as [z|] eqn:Hz.
  - assert (rx_key z < seq_of du).
    { rewrite Forall_forall in Hf. apply Hf. by apply last_Some_elem_of. }
    zb; try lia; done.
  - apply last_None in Hz. by rewrite Hz.
Qed.

(** PDUs pushed on the retransmission queue in the order of their numbers keep
    it ordered and its counter exact. *)
Theorem rtxqueue_push_newest (q : rtxqueue) (jiffies : Z) (du : D) :
  rtx_wf q -> q.(rx_len) + 1 < 2 ^ 31 - 1 ->
  Forall (fun e => rx_key e < seq_of du) q.(rx_head) ->
  exists q', rtxqueue_push_ni true jiffies q du = (0, q') /\ rtx_wf q' /\
    q'.(rx_head) = q.(rx_head) ++ [mk_rtxq_entry jiffies du 0].
Proof.
  intros (Hl & Hb & Hs) Hb' Hf. rewrite rtxqueue_push_last by done.
  eexists. split; [done|]. split; [|done]. unfold rtx_wf. cbn.
  rewrite length_app, swrap_small by (unfold in_s; lia). cbn [length].
  split_and!; [lia..|]. by apply sorted_snoc.
Qed.

(** On a retransmission queue filled in the order of transmission, an
    acknowledgement destroys exactly the PDUs up to the number acknowledged, keeps the
    others in order, and the counter stays the number of entries. *)
Theorem rtxqueue_ack_spec (q : rtxqueue) (seq_num : Z) :
  rtx_wf q ->
  exists q', rtxqueue_entries_ack q seq_num =
      (0, rx_du <$> filter (fun e => rx_key e <= seq_num) q.(rx_head), q') /\
    q'.(rx_head) = filter (fun e => seq_num < rx_key e) q.(rx_head) /\
    rtx_wf q' /\ q'.(drop_pdus) = q.(drop_pdus).
Proof.
  intros (Hl & Hb & Hs). unfold rtxqueue_entries_ack.
  rewrite rtxqueue_ack_loop_spec by (done || lia).
  pose proof (drop_upto_sorted_rest rx_key seq_num _ Hs) as Hr.
  pose proof (f_equal length (drop_upto_app rx_key seq_num (rx_head q))) as Ha.
  rewrite length_app in Ha.
  destruct (drop_upto_sorted rx_key seq_num _ Hs) as [-> E2]. eexists. split; [done|].
  cbn. split; [exact E2|]. split; [|done]. split_and!; cbn; [done|lia|exact Hr].
Qed.

(** The time of transmission of a PDU in an ordered queue is found, and is 0
    once it was retransmitted; a PDU that is not there gives the greatest number. *)
Theorem rtxqueue_timestamp_spec (q : rtxqueue) (sn : Z) :
  rtx_wf q ->
  (forall e, e ∈ q.(rx_head) -> rx_key e = sn ->
    rtxqueue_entry_timestamp q.(rx_head) sn = if e.(retries) =? 0 then e.(rx_time_stamp) else 0) /\
  (Forall (fun e => rx_key e <> sn) q.(rx_head) ->
    rtxqueue_entry_timestamp q.(rx_head) sn = 2 ^ 64 - 1).
Proof.
  intros (_ & _ & Hs). induction (rx_head q) as [|a l IH].
  { split; [|done]. intros e He. by apply not_elem_of_nil in He. }
  apply sorted_cons_inv in Hs as [Hs Hf]. destruct (IH Hs) as [IH1 IH2]. cbn. split.
  - intros e [->|He]%elem_of_cons Hk.
    + rewrite Hk, Z.ltb_irrefl, Z.eqb_refl. by destruct (retries a =? 0).
    + rewrite Forall_forall in Hf. specialize (Hf e He). cbn in Hf.
      rewrite <- (IH1 e He Hk). zb; try lia; done.
  - intros Ha. inversion Ha; subst. zb; try lia; try done. by apply IH2.
Qed.

(** The wait before a retransmission never exceeds the maximum and, while the
    product does not overflow 32 bits, grows with the square of the retries. *)
Theorem time_to_rtx_bounds (MAXW tr : Z) (e : rtxq_entry) :
  0 <= MAXW < 2 ^ 62 -> in_u 62 e.(rx_time_stamp) -> 0 <= tr ->
  e.(rx_time_stamp) <= time_to_rtx MAXW e tr <= e.(rx_time_stamp) + MAXW /\
  ((1 + e.(retries) * e.(retries)) * tr < 2 ^ 32 ->
     time_to_rtx MAXW e tr =
       e.(rx_time_stamp) + Z.min MAXW ((1 + e.(retries) * e.(retries)) * tr)).
Proof.
  intros HM [Ht0 Ht] Hr. unfold time_to_rtx.
  pose proof (uwrap_range 32 ((1 + retries e * retries e) * tr)) as [Hw0 Hw]; [lia|].
  assert (0 <= (1 + retries e * retries e) * tr) by nia.
  split.
  - zb; rewrite uwrap_small by (split; lia); lia.
  - intros Ho. rewrite (uwrap_small 32) by (split; lia).
    zb; rewrite uwrap_small by (split; lia); lia.
Qed.
End Rtxq.

Lemma rtxqueue_push_newest_witness :
  let q := mk_rtxqueue 2 0 [mk_rtxq_entry 0 7 0; mk_rtxq_entry 0 8 0] in
  exists q', rtxqueue_push_ni id true 3 q 9 = (0, q') /\ rtx_wf id q' /\
    q'.(rx_head) = q.(rx_head) ++ [mk_rtxq_entry 3 9 0].
Proof.
  intros q. apply (rtxqueue_push_newest id q 3 9); [split_and!; [done|done|]|done|];
    repeat constructor.
Defined.

Lemma rtxqueue_ack_spec_witness :
  let q := mk_rtxqueue 3 0 [mk_rtxq_entry 0 7 0; mk_rtxq_entry 0 8 0; mk_rtxq_entry 1 9 0] in
  exists q', rtxqueue_entries_ack id q 8 =
      (0, rx_du <$> filter (fun e => rx_key id e <= 8) q.(rx_head), q') /\
    q'.(rx_head) = filter (fun e => 8 < rx_key id e) q.(rx_head) /\
    rtx_wf id q' /\ q'.(drop_pdus) = q.(drop_pdus).
Proof.
  intros q. apply (rtxqueue_ack_spec id q 8). split_and!; [done|done|].
  repeat constructor.
Defined.

Lemma rtxqueue_timestamp_spec_witness :
  let q := mk_rtxqueue 2 0 [mk_rtxq_entry 10 7 0; mk_rtxq_entry 12 9 0] in
  rtxqueue_entry_timestamp id q.(rx_head) 7 = 10 /\
  rtxqueue_entry_timestamp id q.(rx_head) 8 = 2 ^ 64 - 1.
Proof.
  intros q. destruct (rtxqueue_timestamp_spec id q 7) as [H7 _]; [split_and!; [done|done|repeat constructor]|].
  destruct (rtxqueue_timestamp_spec id q 8) as [_ H8]; [split_and!; [done|done|repeat constructor]|].
  split; [apply (H7 (mk_rtxq_entry 10 7 0)); [left|reflexivity]|].
  apply H8. repeat constructor; vm_compute; congruence.
Defined.

Lemma time_to_rtx_bounds_witness :
  let e := mk_rtxq_entry 1000 7 3 in
  (e.(rx_time_stamp) <= time_to_rtx 60000 e 50 <= e.(rx_time_stamp) + 60000 /\
  ((1 + e.(retries) * e.(retries)) * 50 < 2 ^ 32 ->
     time_to_rtx 60000 e 50 =
       e.(rx_time_stamp) + Z.min 60000 ((1 + e.(retries) * e.(retries)) * 50))) /\
  time_to_rtx 60000 e 50 = 1500.
Proof.
  intros e. split; [|reflexivity]. apply (time_to_rtx_bounds 60000 50 e); [lia| |lia].
  vm_compute. split; congruence.
Defined.
End Rtxq.

(** ** The round-trip-time queue, used when there is no retransmission control *)

Module Rttq.
Import Ordered.

Record rtt_entry := mk_rtt_entry { rt_time_stamp : Z; rt_sn : Z }.

Definition rtt_entry_create_gfp (mem : bool) (jiffies sn : Z) : option rtt_entry :=
  if mem then Some (mk_rtt_entry jiffies sn) else None.

Definition rttq_push_ni (mem : bool) (jiffies : Z) (q : list rtt_entry) (sn : Z) : Z * list rtt_entry :=
  match rtt_entry_create_gfp mem jiffies sn with
  | None => (-1, q)
  | Some new =>
      match last q with
      | None => (0, [new])
      | Some lst =>
          let psn := lst.(rt_sn) in
          if sn =? psn then (0, q)
          else if psn <? sn then (0, q ++ [new])
          else match push_walk rt_sn new q with
               | WalkDup => (0, q)
               | WalkMiddle q' => (0, q')
               | WalkNone => (0, q)
               end
      end
  end.

Fixpoint rttqueue_entry_timestamp (q : list rtt_entry) (sn : Z) : Z :=
  match q with
  | [] => 0
  | cur :: q' =>
      let csn := cur.(rt_sn) in
      if sn <? csn then 0
      else if csn =? sn then cur.(rt_time_stamp)
      else rttqueue_entry_timestamp q' sn
  end.

Fixpoint rttq_drop_loop (q : list rtt_entry) (sn : Z) : list rtt_entry :=
  match q with
  | [] => []
  | cur :: q' => if cur.(rt_sn) <=? sn then rttq_drop_loop q' sn else q
  end.

Definition rttq_drop (q : list rtt_entry) (sn : Z) : Z * list rtt_entry :=
  match q with
  | [] => (0, q)
  | _ :: _ => (0, rttq_drop_loop q sn)
  end.

Fixpoint rttq_flush (q : list rtt_entry) : list rtt_entry :=
  match q with
  | [] => []
  | _ :: q' => rttq_flush q'
  end.

Lemma rttq_drop_loop_upto q sn : rttq_drop_loop q sn = snd (drop_upto rt_sn sn q).
Proof.
  induction q as [|a q IH]; cbn; [done|]. rewrite IH. zb; [|done].
  by destruct (drop_upto rt_sn sn q).
Qed.

Lemma rttqueue_timestamp_app q e sn :
  Forall (fun e => rt_sn e < sn) q ->
  rttqueue_entry_timestamp (q ++ [e]) sn =
    if rt_sn e =? sn then e.(rt_time_stamp) else 0.
Proof.
  induction 1 as [|a q Ha _ IH]; cbn; [zb; done || lia|]. zb; try lia; rewrite IH; zb; lia || done.
Qed.

(** An ordered round-trip queue stays ordered when a newer number is pushed, the
    time pushed is found again under its number, and a drop removes exactly the
    numbers up to the one given. *)
Theorem rttq_push_drop (jiffies : Z) (q : list rtt_entry) (sn k : Z) :
  sorted rt_sn q -> Forall (fun e => e.(rt_sn) < sn) q ->
  exists q', rttq_push_ni true jiffies q sn = (0, q') /\ sorted rt_sn q' /\
    rttqueue_entry_timestamp q' sn = jiffies /\
    rttq_drop q' k = (0, filter (fun e => k < e.(rt_sn)) q').
Proof.
  intros Hs Hf. exists (q ++ [mk_rtt_entry jiffies sn]).
  assert (sorted rt_sn (q ++ [mk_rtt_entry jiffies sn])) as Hs' by by apply sorted_snoc.
  split_and!; [|done| |].
  - unfold rttq_push_ni. cbn. destruct (last q) as [z|] eqn:Hz.
    + assert (rt_sn z < sn).
      { rewrite Forall_forall in Hf. apply Hf. by apply last_Some_elem_of. }
      zb; try lia; done.
    + apply last_None in Hz. by subst.
  - rewrite rttqueue_timestamp_app by done. cbn. by rewrite Z.eqb_refl.
  - unfold rttq_drop. destruct (q ++ _) as [|a l] eqn:E; [done|]. rewrite <- E in *.
    rewrite rttq_drop_loop_upto. f_equal. by apply drop_upto_sorted.
Qed.

Lemma rttq_push_drop_witness :
  let q := [mk_rtt_entry 5 1; mk_rtt_entry 6 2] in
  exists q', rttq_push_ni true 9 q 4 = (0, q') /\ sorted rt_sn q' /\
    rttqueue_entry_timestamp q' 4 = 9 /\
    rttq_drop q' 2 = (0, filter (fun e => 2 < e.(rt_sn)) q').
Proof. intros q. apply (rttq_push_drop 9 q 4 2); repeat constructor. Defined.
End Rttq.

(** ** The closed-window queue *)

Module Cwq.
Import Rqueue.
Section Cwq.
Context {D : Type}.

Record cwq := mk_cwq { cq : rqueue D }.

Definition cwq_create (mem mem_q : bool) : option cwq :=
  if mem then match rqueue_create_gfp mem_q with
              | Some q => Some (mk_cwq q)
              | None => None
              end
  else None.

(** The value returned, the queue, and the PDUs destroyed. *)
Definition cwq_push (mem : bool) (w : cwq) (du : D) : Z * cwq * list D :=
  match rqueue_tail_push_gfp mem (Some w.(cq)) du with
  | (r, q') =>
      let w' := mk_cwq (default w.(cq) q') in
      if negb (r =? 0) then (-1, w', [du]) else (0, w', [])
  end.

Definition cwq_pop (w : option cwq) : option D * option cwq :=
  match w with
  | None => (None, None)
  | Some w => let '(d, q') := rqueue_head_pop (Some w.(cq)) in
              (d, Some (mk_cwq (default w.(cq) q')))
  end.

Definition cwq_is_empty (w : option cwq) : bool :=
  match w with None => false | Some w => rqueue_is_empty (Some w.(cq)) end.

(** The [while] loop of [cwq_flush], with the PDUs destroyed. *)
Fixpoint cwq_flush_loop (fuel : nat) (q : rqueue D) : option (Z * rqueue D * list D) :=
  match fuel with
  | O => None
  | S fuel' =>
      if rqueue_is_empty (Some q) then Some (0, q, [])
      else match rqueue_head_pop (Some q) with
           | (Some d, q') =>
               '(r, q'', freed) ← cwq_flush_loop fuel' (default q q');
               Some (r, q'', d :: freed)
           | (None, q') => Some (-1, default q q', [])
           end
  end.

Definition cwq_flush (fuel : nat) (w : option cwq) : option (Z * option cwq * list D) :=
  match w with
  | None => Some (-1, None, [])
  | Some w => '(r, q, freed) ← cwq_flush_loop fuel w.(cq); Some (r, Some (mk_cwq q), freed)
  end.

Definition cwq_size (w : option cwq) : Z :=
  match w with None => -1 | Some w => rqueue_length (Some w.(cq)) end.

Lemma cwq_flush_loop_spec fuel q :
  rq_wf q -> (length q.(head) < fuel)%nat ->
  cwq_flush_loop fuel q = Some (0, mk_rqueue [] 0, q.(head)).
Proof.
  revert q. induction fuel as [|fuel IH]; intros [h n] [Hl Hb] Hf; cbn in *; [lia|].
  destruct h as [|d h]; cbn in *; [by subst|].
  rewrite IH; cbn; [done| |lia]. split; cbn; [|lia].
  rewrite Hl, uwrap_small by (split; lia). lia.
Qed.

(** Flushing the closed-window queue ends after one pass over it, with the queue
    empty, its length zero, and every PDU in it destroyed once and in order. *)
Theorem cwq_flush_empties (w : cwq) (fuel : nat) :
  rq_wf w.(cq) -> (length w.(cq).(head) < fuel)%nat ->
  cwq_flush fuel (Some w) = Some (0, Some (mk_cwq (mk_rqueue [] 0)), w.(cq).(head)) /\
  cwq_size (Some (mk_cwq (mk_rqueue [] 0))) = 0.
Proof.
  intros Hwf Hf. split; [|done]. unfold cwq_flush. by rewrite cwq_flush_loop_spec.
Qed.
End Cwq.
Arguments cwq D : clear implicits.

Lemma cwq_flush_empties_witness :
  let w := mk_cwq (mk_rqueue [7; 8] 2) in
  cwq_flush 3 (Some w) = Some (0, Some (mk_cwq (mk_rqueue [] 0)), w.(cq).(head)) /\
  cwq_size (Some (mk_cwq (D := Z) (mk_rqueue [] 0))) = 0.
Proof. intros w. apply (cwq_flush_empties w 3); [split; vm_compute; done|]. cbn. lia. Defined.
End Cwq.
