(* ===== verification/EfcpState.v ===== *)
(** * The state of an EFCP connection

    [struct dtp], [struct dtcp] and their state vectors ([src/kernel/efcp-str.h]), the
    configuration they read, and the small state monad the handlers of [DtpUtils.v],
    [Dtcp.v] and [Dtp.v] are written in.

    - A PDU is the value its accessors see: one integer per attribute of the header
      and the user data.  [PduRefine.v] shows that the accessors of [pci.c]
      implement exactly that in a DIF whose field widths they support ([pdu_set] below is
      their specification); the queues hold PDUs.
    - A handler takes the state and returns a value and the new state, or [None] when
      the code dereferences a null pointer or uses a PDU it has destroyed.
    - What happens outside (a PDU given to the RMT, to a local flow or to the user, a
      PDU destroyed, the port enabled or disabled) is appended to [st_log].  Whether
      an allocation or an outside call succeeds is read from [st_oracle]; an empty
      oracle grants everything.
    - [env] holds what the handlers only read: the clock, the kernel configuration,
      the conversions of Linux between ticks and milliseconds, and what an
      allocated header holds before it is written.  The clock does not
      move during a handler, and handlers run one at a time (the locks of the code are
      not modelled here). *)

From S2P Require Import Prelude Kucommon Pci Rds Queues.
From Stdlib Require Import ZArith Lia.
From stdpp Require Import base list numbers option.
Import Ringq Rtimer Seqq Rtxq Rttq Cwq.
#[local] Open Scope Z_scope.

(** ** PDUs *)

Record pdu := mk_pdu { attr : pci_attr -> Z; pdu_data : list Z }.

Definition pdu_type (p : pdu) : Z := p.(attr) A_TYPE.
Definition pdu_sn (p : pdu) : Z := p.(attr) A_SEQUENCE_NUMBER.
Definition pdu_data_len (p : pdu) : Z := Z.of_nat (length p.(pdu_data)).

(** A setter of the header: it fails when a PDU of this type has no such field. *)
Definition pdu_set (d : dt_cons) (p : pdu) (a : pci_attr) (v : Z) : Z * pdu :=
  match attr_slot d (pdu_type p) a with
  | None => (-1, p)
  | Some (_, w) =>
      (0, mk_pdu (fun b => if decide (b = a) then attr_cast a (uwrap (8 * w) v) else p.(attr) b)
            p.(pdu_data))
  end.

(** [pci_format] on a header: the attributes it is given.  The other fields of the type
    hold what the buffer held; the getters of the fields it does not have return a
    constant.  None of its setters fails. *)
Definition pdu_format (d : dt_cons) (p : pdu) (src_cep dst_cep src dst sn qos fl len t : Z) : Z * pdu :=
  (0, mk_pdu (fun a => match attr_slot d t a with
                       | None => attr_absent a
                       | Some (_, w) =>
                           match format_arg src_cep dst_cep src dst sn qos fl len t a with
                           | Some v => attr_cast a (uwrap (8 * w) v)
                           | None => p.(attr) a
                           end
                       end) p.(pdu_data)).

(** ** Configuration *)

(** The parametric policies of [struct dtp_ps] that the handlers read. *)
Record dtp_ps := mk_dtp_ps { in_order_delivery : bool; incomplete_delivery : bool; max_sdu_gap : Z }.

(** Those of [struct dtcp_ps]. *)
Record dtcp_ps := mk_dtcp_ps {
  ps_flow_ctrl : bool;
  ps_rtx_ctrl : bool;
  ps_window_based : bool;
  ps_rate_based : bool;
  ps_initial_credit : Z;
  ps_sending_rate : Z;
  ps_time_period : Z;
  ps_data_retransmit_max : Z
}.

Definition dtcp_window_based_fctrl (cfg : dtcp_config) : bool :=
  match cfg.(fctrl_cfg) with None => false | Some f => f.(window_based_fctrl) end.

Definition dtcp_rate_based_fctrl (cfg : dtcp_config) : bool :=
  match cfg.(fctrl_cfg) with None => false | Some f => f.(rate_based_fctrl) end.

Definition dtcp_max_closed_winq_length (cfg : dtcp_config) : Z :=
  match cfg.(fctrl_cfg) with
  | None => 0
  | Some f => match f.(wfctrl_cfg) with None => 0 | Some w => w.(max_closed_winq_length) end
  end.

Definition dtcp_initial_credit (cfg : dtcp_config) : Z :=
  match cfg.(fctrl_cfg) with
  | None => 2 ^ 32 - 1
  | Some f => match f.(wfctrl_cfg) with None => 2 ^ 32 - 1 | Some w => w.(initial_credit) end
  end.

Definition dtcp_flow_ctrl (cfg : dtcp_config) : bool := cfg.(flow_ctrl).
Definition dtcp_rtx_ctrl (cfg : dtcp_config) : bool := cfg.(rtx_ctrl).

Definition dtcp_data_retransmit_max (cfg : dtcp_config) : Z :=
  match cfg.(rxctrl_cfg) with None => 0 | Some r => r.(rx_data_retransmit_max) end.

(** ** State vectors *)

Record dtp_sv := mk_dtp_sv {
  max_flow_pdu_size : Z;
  max_flow_sdu_size : Z;
  sv_MPL : Z;
  sv_R : Z;
  sv_A : Z;
  sv_tr : Z;
  rcv_left_window_edge : Z;
  window_closed : bool;
  drf_flag : bool;
  seq_number_rollover_threshold : Z;
  stat_drop_pdus : Z;
  stat_err_pdus : Z;
  stat_tx_pdus : Z;
  stat_tx_bytes : Z;
  stat_rx_pdus : Z;
  stat_rx_bytes : Z;
  max_seq_nr_rcv : Z;
  seq_nr_to_send : Z;
  max_seq_nr_sent : Z;
  window_based : bool;
  rexmsn_ctrl : bool;
  rate_based : bool;
  drf_required : bool;
  rate_fulfiled : bool
}.

Definition set_sv_tr (v : Z) (r : dtp_sv) : dtp_sv :=
  mk_dtp_sv r.(max_flow_pdu_size) r.(max_flow_sdu_size) r.(sv_MPL) r.(sv_R) r.(sv_A) v
    r.(rcv_left_window_edge) r.(window_closed) r.(drf_flag) r.(seq_number_rollover_threshold)
    r.(stat_drop_pdus) r.(stat_err_pdus) r.(stat_tx_pdus) r.(stat_tx_bytes) r.(stat_rx_pdus)
    r.(stat_rx_bytes) r.(max_seq_nr_rcv) r.(seq_nr_to_send) r.(max_seq_nr_sent) r.(window_based)
    r.(rexmsn_ctrl) r.(rate_based) r.(drf_required) r.(rate_fulfiled).
Definition set_rcv_left_window_edge (v : Z) (r : dtp_sv) : dtp_sv :=
  mk_dtp_sv r.(max_flow_pdu_size) r.(max_flow_sdu_size) r.(sv_MPL) r.(sv_R) r.(sv_A) r.(sv_tr) v
    r.(window_closed) r.(drf_flag) r.(seq_number_rollover_threshold) r.(stat_drop_pdus)
    r.(stat_err_pdus) r.(stat_tx_pdus) r.(stat_tx_bytes) r.(stat_rx_pdus) r.(stat_rx_bytes)
    r.(max_seq_nr_rcv) r.(seq_nr_to_send) r.(max_seq_nr_sent) r.(window_based) r.(rexmsn_ctrl)
    r.(rate_based) r.(drf_required) r.(rate_fulfiled).
Definition set_window_closed (v : bool) (r : dtp_sv) : dtp_sv :=
  mk_dtp_sv r.(max_flow_pdu_size) r.(max_flow_sdu_size) r.(sv_MPL) r.(sv_R) r.(sv_A) r.(sv_tr)
    r.(rcv_left_window_edge) v r.(drf_flag) r.(seq_number_rollover_threshold) r.(stat_drop_pdus)
    r.(stat_err_pdus) r.(stat_tx_pdus) r.(stat_tx_bytes) r.(stat_rx_pdus) r.(stat_rx_bytes)
    r.(max_seq_nr_rcv) r.(seq_nr_to_send) r.(max_seq_nr_sent) r.(window_based) r.(rexmsn_ctrl)
    r.(rate_based) r.(drf_required) r.(rate_fulfiled).
Definition set_drf_flag (v : bool) (r : dtp_sv) : dtp_sv :=
  mk_dtp_sv r.(max_flow_pdu_size) r.(max_flow_sdu_size) r.(sv_MPL) r.(sv_R) r.(sv_A) r.(sv_tr)
    r.(rcv_left_window_edge) r.(window_closed) v r.(seq_number_rollover_threshold)
    r.(stat_drop_pdus) r.(stat_err_pdus) r.(stat_tx_pdus) r.(stat_tx_bytes) r.(stat_rx_pdus)
    r.(stat_rx_bytes) r.(max_seq_nr_rcv) r.(seq_nr_to_send) r.(max_seq_nr_sent) r.(window_based)
    r.(rexmsn_ctrl) r.(rate_based) r.(drf_required) r.(rate_fulfiled).
Definition set_stat_drop_pdus (v : Z) (r : dtp_sv) : dtp_sv :=
  mk_dtp_sv r.(max_flow_pdu_size) r.(max_flow_sdu_size) r.(sv_MPL) r.(sv_R) r.(sv_A) r.(sv_tr)
    r.(rcv_left_window_edge) r.(window_closed) r.(drf_flag) r.(seq_number_rollover_threshold) v
    r.(stat_err_pdus) r.(stat_tx_pdus) r.(stat_tx_bytes) r.(stat_rx_pdus) r.(stat_rx_bytes)
    r.(max_seq_nr_rcv) r.(seq_nr_to_send) r.(max_seq_nr_sent) r.(window_based) r.(rexmsn_ctrl)
    r.(rate_based) r.(drf_required) r.(rate_fulfiled).
Definition set_stat_err_pdus (v : Z) (r : dtp_sv) : dtp_sv :=
  mk_dtp_sv r.(max_flow_pdu_size) r.(max_flow_sdu_size) r.(sv_MPL) r.(sv_R) r.(sv_A) r.(sv_tr)
    r.(rcv_left_window_edge) r.(window_closed) r.(drf_flag) r.(seq_number_rollover_threshold)
    r.(stat_drop_pdus) v r.(stat_tx_pdus) r.(stat_tx_bytes) r.(stat_rx_pdus) r.(stat_rx_bytes)
    r.(max_seq_nr_rcv) r.(seq_nr_to_send) r.(max_seq_nr_sent) r.(window_based) r.(rexmsn_ctrl)
    r.(rate_based) r.(drf_required) r.(rate_fulfiled).
Definition set_stat_tx_pdus (v : Z) (r : dtp_sv) : dtp_sv :=
  mk_dtp_sv r.(max_flow_pdu_size) r.(max_flow_sdu_size) r.(sv_MPL) r.(sv_R) r.(sv_A) r.(sv_tr)
    r.(rcv_left_window_edge) r.(window_closed) r.(drf_flag) r.(seq_number_rollover_threshold)
    r.(stat_drop_pdus) r.(stat_err_pdus) v r.(stat_tx_bytes) r.(stat_rx_pdus) r.(stat_rx_bytes)
    r.(max_seq_nr_rcv) r.(seq_nr_to_send) r.(max_seq_nr_sent) r.(window_based) r.(rexmsn_ctrl)
    r.(rate_based) r.(drf_required) r.(rate_fulfiled).
Definition set_stat_tx_bytes (v : Z) (r : dtp_sv) : dtp_sv :=
  mk_dtp_sv r.(max_flow_pdu_size) r.(max_flow_sdu_size) r.(sv_MPL) r.(sv_R) r.(sv_A) r.(sv_tr)
    r.(rcv_left_window_edge) r.(window_closed) r.(drf_flag) r.(seq_number_rollover_threshold)
    r.(stat_drop_pdus) r.(stat_err_pdus) r.(stat_tx_pdus) v r.(stat_rx_pdus) r.(stat_rx_bytes)
    r.(max_seq_nr_rcv) r.(seq_nr_to_send) r.(max_seq_nr_sent) r.(window_based) r.(rexmsn_ctrl)
    r.(rate_based) r.(drf_required) r.(rate_fulfiled).
Definition set_stat_rx_pdus (v : Z) (r : dtp_sv) : dtp_sv :=
  mk_dtp_sv r.(max_flow_pdu_size) r.(max_flow_sdu_size) r.(sv_MPL) r.(sv_R) r.(sv_A) r.(sv_tr)
    r.(rcv_left_window_edge) r.(window_closed) r.(drf_flag) r.(seq_number_rollover_threshold)
    r.(stat_drop_pdus) r.(stat_err_pdus) r.(stat_tx_pdus) r.(stat_tx_bytes) v r.(stat_rx_bytes)
    r.(max_seq_nr_rcv) r.(seq_nr_to_send) r.(max_seq_nr_sent) r.(window_based) r.(rexmsn_ctrl)
    r.(rate_based) r.(drf_required) r.(rate_fulfiled).
Definition set_stat_rx_bytes (v : Z) (r : dtp_sv) : dtp_sv :=
  mk_dtp_sv r.(max_flow_pdu_size) r.(max_flow_sdu_size) r.(sv_MPL) r.(sv_R) r.(sv_A) r.(sv_tr)
    r.(rcv_left_window_edge) r.(window_closed) r.(drf_flag) r.(seq_number_rollover_threshold)
    r.(stat_drop_pdus) r.(stat_err_pdus) r.(stat_tx_pdus) r.(stat_tx_bytes) r.(stat_rx_pdus) v
    r.(max_seq_nr_rcv) r.(seq_nr_to_send) r.(max_seq_nr_sent) r.(window_based) r.(rexmsn_ctrl)
    r.(rate_based) r.(drf_required) r.(rate_fulfiled).
Definition set_seq_nr_to_send (v : Z) (r : dtp_sv) : dtp_sv :=
  mk_dtp_sv r.(max_flow_pdu_size) r.(max_flow_sdu_size) r.(sv_MPL) r.(sv_R) r.(sv_A) r.(sv_tr)
    r.(rcv_left_window_edge) r.(window_closed) r.(drf_flag) r.(seq_number_rollover_threshold)
    r.(stat_drop_pdus) r.(stat_err_pdus) r.(stat_tx_pdus) r.(stat_tx_bytes) r.(stat_rx_pdus)
    r.(stat_rx_bytes) r.(max_seq_nr_rcv) v r.(max_seq_nr_sent) r.(window_based) r.(rexmsn_ctrl)
    r.(rate_based) r.(drf_required) r.(rate_fulfiled).
Definition set_max_seq_nr_sent (v : Z) (r : dtp_sv) : dtp_sv :=
  mk_dtp_sv r.(max_flow_pdu_size) r.(max_flow_sdu_size) r.(sv_MPL) r.(sv_R) r.(sv_A) r.(sv_tr)
    r.(rcv_left_window_edge) r.(window_closed) r.(drf_flag) r.(seq_number_rollover_threshold)
    r.(stat_drop_pdus) r.(stat_err_pdus) r.(stat_tx_pdus) r.(stat_tx_bytes) r.(stat_rx_pdus)
    r.(stat_rx_bytes) r.(max_seq_nr_rcv) r.(seq_nr_to_send) v r.(window_based) r.(rexmsn_ctrl)
    r.(rate_based) r.(drf_required) r.(rate_fulfiled).
Definition set_drf_required (v : bool) (r : dtp_sv) : dtp_sv :=
  mk_dtp_sv r.(max_flow_pdu_size) r.(max_flow_sdu_size) r.(sv_MPL) r.(sv_R) r.(sv_A) r.(sv_tr)
    r.(rcv_left_window_edge) r.(window_closed) r.(drf_flag) r.(seq_number_rollover_threshold)
    r.(stat_drop_pdus) r.(stat_err_pdus) r.(stat_tx_pdus) r.(stat_tx_bytes) r.(stat_rx_pdus)
    r.(stat_rx_bytes) r.(max_seq_nr_rcv) r.(seq_nr_to_send) r.(max_seq_nr_sent) r.(window_based)
    r.(rexmsn_ctrl) r.(rate_based) v r.(rate_fulfiled).
Definition set_rate_fulfiled (v : bool) (r : dtp_sv) : dtp_sv :=
  mk_dtp_sv r.(max_flow_pdu_size) r.(max_flow_sdu_size) r.(sv_MPL) r.(sv_R) r.(sv_A) r.(sv_tr)
    r.(rcv_left_window_edge) r.(window_closed) r.(drf_flag) r.(seq_number_rollover_threshold)
    r.(stat_drop_pdus) r.(stat_err_pdus) r.(stat_tx_pdus) r.(stat_tx_bytes) r.(stat_rx_pdus)
    r.(stat_rx_bytes) r.(max_seq_nr_rcv) r.(seq_nr_to_send) r.(max_seq_nr_sent) r.(window_based)
    r.(rexmsn_ctrl) r.(rate_based) r.(drf_required) v.

Record dtcp_sv := mk_dtcp_sv {
  pdus_per_time_unit : Z;
  next_snd_ctl_seq : Z;
  last_rcv_ctl_seq : Z;
  last_snd_data_ack : Z;
  snd_lft_win : Z;
  data_retransmit_max : Z;
  last_rcv_data_ack : Z;
  time_unit : Z;
  sndr_credit : Z;
  snd_rt_wind_edge : Z;
  sndr_rate : Z;
  pdus_sent_in_time_unit : Z;
  rcvr_credit : Z;
  rcvr_rt_wind_edge : Z;
  rcvr_rate : Z;
  pdus_rcvd_in_time_unit : Z;
  last_time_sec : Z;
  last_time_nsec : Z;
  acks : Z;
  flow_ctl : Z;
  rtt : Z;
  srtt : Z;
  rttvar : Z;
  rendezvous_sndr : bool;
  rendezvous_rcvr : bool
}.

Definition set_next_snd_ctl_seq (v : Z) (r : dtcp_sv) : dtcp_sv :=
  mk_dtcp_sv r.(pdus_per_time_unit) v r.(last_rcv_ctl_seq) r.(last_snd_data_ack) r.(snd_lft_win)
    r.(data_retransmit_max) r.(last_rcv_data_ack) r.(time_unit) r.(sndr_credit)
    r.(snd_rt_wind_edge) r.(sndr_rate) r.(pdus_sent_in_time_unit) r.(rcvr_credit)
    r.(rcvr_rt_wind_edge) r.(rcvr_rate) r.(pdus_rcvd_in_time_unit) r.(last_time_sec)
    r.(last_time_nsec) r.(acks) r.(flow_ctl) r.(rtt) r.(srtt) r.(rttvar) r.(rendezvous_sndr)
    r.(rendezvous_rcvr).
Definition set_last_rcv_ctl_seq (v : Z) (r : dtcp_sv) : dtcp_sv :=
  mk_dtcp_sv r.(pdus_per_time_unit) r.(next_snd_ctl_seq) v r.(last_snd_data_ack) r.(snd_lft_win)
    r.(data_retransmit_max) r.(last_rcv_data_ack) r.(time_unit) r.(sndr_credit)
    r.(snd_rt_wind_edge) r.(sndr_rate) r.(pdus_sent_in_time_unit) r.(rcvr_credit)
    r.(rcvr_rt_wind_edge) r.(rcvr_rate) r.(pdus_rcvd_in_time_unit) r.(last_time_sec)
    r.(last_time_nsec) r.(acks) r.(flow_ctl) r.(rtt) r.(srtt) r.(rttvar) r.(rendezvous_sndr)
    r.(rendezvous_rcvr).
Definition set_last_snd_data_ack (v : Z) (r : dtcp_sv) : dtcp_sv :=
  mk_dtcp_sv r.(pdus_per_time_unit) r.(next_snd_ctl_seq) r.(last_rcv_ctl_seq) v r.(snd_lft_win)
    r.(data_retransmit_max) r.(last_rcv_data_ack) r.(time_unit) r.(sndr_credit)
    r.(snd_rt_wind_edge) r.(sndr_rate) r.(pdus_sent_in_time_unit) r.(rcvr_credit)
    r.(rcvr_rt_wind_edge) r.(rcvr_rate) r.(pdus_rcvd_in_time_unit) r.(last_time_sec)
    r.(last_time_nsec) r.(acks) r.(flow_ctl) r.(rtt) r.(srtt) r.(rttvar) r.(rendezvous_sndr)
    r.(rendezvous_rcvr).
Definition set_snd_lft_win (v : Z) (r : dtcp_sv) : dtcp_sv :=
  mk_dtcp_sv r.(pdus_per_time_unit) r.(next_snd_ctl_seq) r.(last_rcv_ctl_seq)
    r.(last_snd_data_ack) v r.(data_retransmit_max) r.(last_rcv_data_ack) r.(time_unit)
    r.(sndr_credit) r.(snd_rt_wind_edge) r.(sndr_rate) r.(pdus_sent_in_time_unit)
    r.(rcvr_credit) r.(rcvr_rt_wind_edge) r.(rcvr_rate) r.(pdus_rcvd_in_time_unit)
    r.(last_time_sec) r.(last_time_nsec) r.(acks) r.(flow_ctl) r.(rtt) r.(srtt) r.(rttvar)
    r.(rendezvous_sndr) r.(rendezvous_rcvr).
Definition set_time_unit (v : Z) (r : dtcp_sv) : dtcp_sv :=
  mk_dtcp_sv r.(pdus_per_time_unit) r.(next_snd_ctl_seq) r.(last_rcv_ctl_seq)
    r.(last_snd_data_ack) r.(snd_lft_win) r.(data_retransmit_max) r.(last_rcv_data_ack) v
    r.(sndr_credit) r.(snd_rt_wind_edge) r.(sndr_rate) r.(pdus_sent_in_time_unit)
    r.(rcvr_credit) r.(rcvr_rt_wind_edge) r.(rcvr_rate) r.(pdus_rcvd_in_time_unit)
    r.(last_time_sec) r.(last_time_nsec) r.(acks) r.(flow_ctl) r.(rtt) r.(srtt) r.(rttvar)
    r.(rendezvous_sndr) r.(rendezvous_rcvr).
Definition set_snd_rt_wind_edge (v : Z) (r : dtcp_sv) : dtcp_sv :=
  mk_dtcp_sv r.(pdus_per_time_unit) r.(next_snd_ctl_seq) r.(last_rcv_ctl_seq)
    r.(last_snd_data_ack) r.(snd_lft_win) r.(data_retransmit_max) r.(last_rcv_data_ack)
    r.(time_unit) r.(sndr_credit) v r.(sndr_rate) r.(pdus_sent_in_time_unit) r.(rcvr_credit)
    r.(rcvr_rt_wind_edge) r.(rcvr_rate) r.(pdus_rcvd_in_time_unit) r.(last_time_sec)
    r.(last_time_nsec) r.(acks) r.(flow_ctl) r.(rtt) r.(srtt) r.(rttvar) r.(rendezvous_sndr)
    r.(rendezvous_rcvr).
Definition set_sndr_rate (v : Z) (r : dtcp_sv) : dtcp_sv :=
  mk_dtcp_sv r.(pdus_per_time_unit) r.(next_snd_ctl_seq) r.(last_rcv_ctl_seq)
    r.(last_snd_data_ack) r.(snd_lft_win) r.(data_retransmit_max) r.(last_rcv_data_ack)
    r.(time_unit) r.(sndr_credit) r.(snd_rt_wind_edge) v r.(pdus_sent_in_time_unit)
    r.(rcvr_credit) r.(rcvr_rt_wind_edge) r.(rcvr_rate) r.(pdus_rcvd_in_time_unit)
    r.(last_time_sec) r.(last_time_nsec) r.(acks) r.(flow_ctl) r.(rtt) r.(srtt) r.(rttvar)
    r.(rendezvous_sndr) r.(rendezvous_rcvr).
Definition set_pdus_sent_in_time_unit (v : Z) (r : dtcp_sv) : dtcp_sv :=
  mk_dtcp_sv r.(pdus_per_time_unit) r.(next_snd_ctl_seq) r.(last_rcv_ctl_seq)
    r.(last_snd_data_ack) r.(snd_lft_win) r.(data_retransmit_max) r.(last_rcv_data_ack)
    r.(time_unit) r.(sndr_credit) r.(snd_rt_wind_edge) r.(sndr_rate) v r.(rcvr_credit)
    r.(rcvr_rt_wind_edge) r.(rcvr_rate) r.(pdus_rcvd_in_time_unit) r.(last_time_sec)
    r.(last_time_nsec) r.(acks) r.(flow_ctl) r.(rtt) r.(srtt) r.(rttvar) r.(rendezvous_sndr)
    r.(rendezvous_rcvr).
Definition set_rcvr_credit (v : Z) (r : dtcp_sv) : dtcp_sv :=
  mk_dtcp_sv r.(pdus_per_time_unit) r.(next_snd_ctl_seq) r.(last_rcv_ctl_seq)
    r.(last_snd_data_ack) r.(snd_lft_win) r.(data_retransmit_max) r.(last_rcv_data_ack)
    r.(time_unit) r.(sndr_credit) r.(snd_rt_wind_edge) r.(sndr_rate) r.(pdus_sent_in_time_unit)
    v r.(rcvr_rt_wind_edge) r.(rcvr_rate) r.(pdus_rcvd_in_time_unit) r.(last_time_sec)
    r.(last_time_nsec) r.(acks) r.(flow_ctl) r.(rtt) r.(srtt) r.(rttvar) r.(rendezvous_sndr)
    r.(rendezvous_rcvr).
Definition set_rcvr_rt_wind_edge (v : Z) (r : dtcp_sv) : dtcp_sv :=
  mk_dtcp_sv r.(pdus_per_time_unit) r.(next_snd_ctl_seq) r.(last_rcv_ctl_seq)
    r.(last_snd_data_ack) r.(snd_lft_win) r.(data_retransmit_max) r.(last_rcv_data_ack)
    r.(time_unit) r.(sndr_credit) r.(snd_rt_wind_edge) r.(sndr_rate) r.(pdus_sent_in_time_unit)
    r.(rcvr_credit) v r.(rcvr_rate) r.(pdus_rcvd_in_time_unit) r.(last_time_sec)
    r.(last_time_nsec) r.(acks) r.(flow_ctl) r.(rtt) r.(srtt) r.(rttvar) r.(rendezvous_sndr)
    r.(rendezvous_rcvr).
Definition set_rcvr_rate (v : Z) (r : dtcp_sv) : dtcp_sv :=
  mk_dtcp_sv r.(pdus_per_time_unit) r.(next_snd_ctl_seq) r.(last_rcv_ctl_seq)
    r.(last_snd_data_ack) r.(snd_lft_win) r.(data_retransmit_max) r.(last_rcv_data_ack)
    r.(time_unit) r.(sndr_credit) r.(snd_rt_wind_edge) r.(sndr_rate) r.(pdus_sent_in_time_unit)
    r.(rcvr_credit) r.(rcvr_rt_wind_edge) v r.(pdus_rcvd_in_time_unit) r.(last_time_sec)
    r.(last_time_nsec) r.(acks) r.(flow_ctl) r.(rtt) r.(srtt) r.(rttvar) r.(rendezvous_sndr)
    r.(rendezvous_rcvr).
Definition set_pdus_rcvd_in_time_unit (v : Z) (r : dtcp_sv) : dtcp_sv :=
  mk_dtcp_sv r.(pdus_per_time_unit) r.(next_snd_ctl_seq) r.(last_rcv_ctl_seq)
    r.(last_snd_data_ack) r.(snd_lft_win) r.(data_retransmit_max) r.(last_rcv_data_ack)
    r.(time_unit) r.(sndr_credit) r.(snd_rt_wind_edge) r.(sndr_rate) r.(pdus_sent_in_time_unit)
    r.(rcvr_credit) r.(rcvr_rt_wind_edge) r.(rcvr_rate) v r.(last_time_sec) r.(last_time_nsec)
    r.(acks) r.(flow_ctl) r.(rtt) r.(srtt) r.(rttvar) r.(rendezvous_sndr) r.(rendezvous_rcvr).
Definition set_last_time_sec (v : Z) (r : dtcp_sv) : dtcp_sv :=
  mk_dtcp_sv r.(pdus_per_time_unit) r.(next_snd_ctl_seq) r.(last_rcv_ctl_seq)
    r.(last_snd_data_ack) r.(snd_lft_win) r.(data_retransmit_max) r.(last_rcv_data_ack)
    r.(time_unit) r.(sndr_credit) r.(snd_rt_wind_edge) r.(sndr_rate) r.(pdus_sent_in_time_unit)
    r.(rcvr_credit) r.(rcvr_rt_wind_edge) r.(rcvr_rate) r.(pdus_rcvd_in_time_unit) v
    r.(last_time_nsec) r.(acks) r.(flow_ctl) r.(rtt) r.(srtt) r.(rttvar) r.(rendezvous_sndr)
    r.(rendezvous_rcvr).
Definition set_last_time_nsec (v : Z) (r : dtcp_sv) : dtcp_sv :=
  mk_dtcp_sv r.(pdus_per_time_unit) r.(next_snd_ctl_seq) r.(last_rcv_ctl_seq)
    r.(last_snd_data_ack) r.(snd_lft_win) r.(data_retransmit_max) r.(last_rcv_data_ack)
    r.(time_unit) r.(sndr_credit) r.(snd_rt_wind_edge) r.(sndr_rate) r.(pdus_sent_in_time_unit)
    r.(rcvr_credit) r.(rcvr_rt_wind_edge) r.(rcvr_rate) r.(pdus_rcvd_in_time_unit)
    r.(last_time_sec) v r.(acks) r.(flow_ctl) r.(rtt) r.(srtt) r.(rttvar) r.(rendezvous_sndr)
    r.(rendezvous_rcvr).
Definition set_acks (v : Z) (r : dtcp_sv) : dtcp_sv :=
  mk_dtcp_sv r.(pdus_per_time_unit) r.(next_snd_ctl_seq) r.(last_rcv_ctl_seq)
    r.(last_snd_data_ack) r.(snd_lft_win) r.(data_retransmit_max) r.(last_rcv_data_ack)
    r.(time_unit) r.(sndr_credit) r.(snd_rt_wind_edge) r.(sndr_rate) r.(pdus_sent_in_time_unit)
    r.(rcvr_credit) r.(rcvr_rt_wind_edge) r.(rcvr_rate) r.(pdus_rcvd_in_time_unit)
    r.(last_time_sec) r.(last_time_nsec) v r.(flow_ctl) r.(rtt) r.(srtt) r.(rttvar)
    r.(rendezvous_sndr) r.(rendezvous_rcvr).
Definition set_flow_ctl (v : Z) (r : dtcp_sv) : dtcp_sv :=
  mk_dtcp_sv r.(pdus_per_time_unit) r.(next_snd_ctl_seq) r.(last_rcv_ctl_seq)
    r.(last_snd_data_ack) r.(snd_lft_win) r.(data_retransmit_max) r.(last_rcv_data_ack)
    r.(time_unit) r.(sndr_credit) r.(snd_rt_wind_edge) r.(sndr_rate) r.(pdus_sent_in_time_unit)
    r.(rcvr_credit) r.(rcvr_rt_wind_edge) r.(rcvr_rate) r.(pdus_rcvd_in_time_unit)
    r.(last_time_sec) r.(last_time_nsec) r.(acks) v r.(rtt) r.(srtt) r.(rttvar)
    r.(rendezvous_sndr) r.(rendezvous_rcvr).
Definition set_rtt (v : Z) (r : dtcp_sv) : dtcp_sv :=
  mk_dtcp_sv r.(pdus_per_time_unit) r.(next_snd_ctl_seq) r.(last_rcv_ctl_seq)
    r.(last_snd_data_ack) r.(snd_lft_win) r.(data_retransmit_max) r.(last_rcv_data_ack)
    r.(time_unit) r.(sndr_credit) r.(snd_rt_wind_edge) r.(sndr_rate) r.(pdus_sent_in_time_unit)
    r.(rcvr_credit) r.(rcvr_rt_wind_edge) r.(rcvr_rate) r.(pdus_rcvd_in_time_unit)
    r.(last_time_sec) r.(last_time_nsec) r.(acks) r.(flow_ctl) v r.(srtt) r.(rttvar)
    r.(rendezvous_sndr) r.(rendezvous_rcvr).
Definition set_srtt (v : Z) (r : dtcp_sv) : dtcp_sv :=
  mk_dtcp_sv r.(pdus_per_time_unit) r.(next_snd_ctl_seq) r.(last_rcv_ctl_seq)
    r.(last_snd_data_ack) r.(snd_lft_win) r.(data_retransmit_max) r.(last_rcv_data_ack)
    r.(time_unit) r.(sndr_credit) r.(snd_rt_wind_edge) r.(sndr_rate) r.(pdus_sent_in_time_unit)
    r.(rcvr_credit) r.(rcvr_rt_wind_edge) r.(rcvr_rate) r.(pdus_rcvd_in_time_unit)
    r.(last_time_sec) r.(last_time_nsec) r.(acks) r.(flow_ctl) r.(rtt) v r.(rttvar)
    r.(rendezvous_sndr) r.(rendezvous_rcvr).
Definition set_rttvar (v : Z) (r : dtcp_sv) : dtcp_sv :=
  mk_dtcp_sv r.(pdus_per_time_unit) r.(next_snd_ctl_seq) r.(last_rcv_ctl_seq)
    r.(last_snd_data_ack) r.(snd_lft_win) r.(data_retransmit_max) r.(last_rcv_data_ack)
    r.(time_unit) r.(sndr_credit) r.(snd_rt_wind_edge) r.(sndr_rate) r.(pdus_sent_in_time_unit)
    r.(rcvr_credit) r.(rcvr_rt_wind_edge) r.(rcvr_rate) r.(pdus_rcvd_in_time_unit)
    r.(last_time_sec) r.(last_time_nsec) r.(acks) r.(flow_ctl) r.(rtt) r.(srtt) v
    r.(rendezvous_sndr) r.(rendezvous_rcvr).
Definition set_rendezvous_sndr (v : bool) (r : dtcp_sv) : dtcp_sv :=
  mk_dtcp_sv r.(pdus_per_time_unit) r.(next_snd_ctl_seq) r.(last_rcv_ctl_seq)
    r.(last_snd_data_ack) r.(snd_lft_win) r.(data_retransmit_max) r.(last_rcv_data_ack)
    r.(time_unit) r.(sndr_credit) r.(snd_rt_wind_edge) r.(sndr_rate) r.(pdus_sent_in_time_unit)
    r.(rcvr_credit) r.(rcvr_rt_wind_edge) r.(rcvr_rate) r.(pdus_rcvd_in_time_unit)
    r.(last_time_sec) r.(last_time_nsec) r.(acks) r.(flow_ctl) r.(rtt) r.(srtt) r.(rttvar) v
    r.(rendezvous_rcvr).
Definition set_rendezvous_rcvr (v : bool) (r : dtcp_sv) : dtcp_sv :=
  mk_dtcp_sv r.(pdus_per_time_unit) r.(next_snd_ctl_seq) r.(last_rcv_ctl_seq)
    r.(last_snd_data_ack) r.(snd_lft_win) r.(data_retransmit_max) r.(last_rcv_data_ack)
    r.(time_unit) r.(sndr_credit) r.(snd_rt_wind_edge) r.(sndr_rate) r.(pdus_sent_in_time_unit)
    r.(rcvr_credit) r.(rcvr_rt_wind_edge) r.(rcvr_rate) r.(pdus_rcvd_in_time_unit)
    r.(last_time_sec) r.(last_time_nsec) r.(acks) r.(flow_ctl) r.(rtt) r.(srtt) r.(rttvar)
    r.(rendezvous_sndr) v.

(** ** Timers, connection, instances *)

Record dtp_timers := mk_dtp_timers {
  t_sender_inactivity : timer;
  t_receiver_inactivity : timer;
  t_a : timer;
  t_rate_window : timer;
  t_rtx : timer;
  t_rendezvous : timer
}.

Definition set_t_sender_inactivity (v : timer) (r : dtp_timers) : dtp_timers :=
  mk_dtp_timers v r.(t_receiver_inactivity) r.(t_a) r.(t_rate_window) r.(t_rtx) r.(t_rendezvous).
Definition set_t_receiver_inactivity (v : timer) (r : dtp_timers) : dtp_timers :=
  mk_dtp_timers r.(t_sender_inactivity) v r.(t_a) r.(t_rate_window) r.(t_rtx) r.(t_rendezvous).
Definition set_t_a (v : timer) (r : dtp_timers) : dtp_timers :=
  mk_dtp_timers r.(t_sender_inactivity) r.(t_receiver_inactivity) v r.(t_rate_window) r.(t_rtx)
    r.(t_rendezvous).
Definition set_t_rate_window (v : timer) (r : dtp_timers) : dtp_timers :=
  mk_dtp_timers r.(t_sender_inactivity) r.(t_receiver_inactivity) r.(t_a) v r.(t_rtx)
    r.(t_rendezvous).
Definition set_t_rtx (v : timer) (r : dtp_timers) : dtp_timers :=
  mk_dtp_timers r.(t_sender_inactivity) r.(t_receiver_inactivity) r.(t_a) r.(t_rate_window) v
    r.(t_rendezvous).
Definition set_t_rendezvous (v : timer) (r : dtp_timers) : dtp_timers :=
  mk_dtp_timers r.(t_sender_inactivity) r.(t_receiver_inactivity) r.(t_a) r.(t_rate_window)
    r.(t_rtx) v.

Record connection := mk_connection {
  conn_port_id : Z;
  source_address : Z;
  destination_address : Z;
  source_cep_id : Z;
  destination_cep_id : Z;
  conn_qos_id : Z
}.

Definition set_destination_address (v : Z) (r : connection) : connection :=
  mk_connection r.(conn_port_id) r.(source_address) v r.(source_cep_id) r.(destination_cep_id)
    r.(conn_qos_id).

Record dtcp := mk_dtcp {
  dtcp_sv_of : dtcp_sv;
  dtcp_cfg : dtcp_config;
  dtcp_ps_of : dtcp_ps;
  cpdus_in_transit : Z;
  t_rendezvous_rcv : timer
}.

Definition set_dtcp_sv_of (v : dtcp_sv) (r : dtcp) : dtcp :=
  mk_dtcp v r.(dtcp_cfg) r.(dtcp_ps_of) r.(cpdus_in_transit) r.(t_rendezvous_rcv).
Definition set_cpdus_in_transit (v : Z) (r : dtcp) : dtcp :=
  mk_dtcp r.(dtcp_sv_of) r.(dtcp_cfg) r.(dtcp_ps_of) v r.(t_rendezvous_rcv).
Definition set_t_rendezvous_rcv (v : timer) (r : dtcp) : dtcp :=
  mk_dtcp r.(dtcp_sv_of) r.(dtcp_cfg) r.(dtcp_ps_of) r.(cpdus_in_transit) v.

Record dtp := mk_dtp {
  dtp_dtcp : option dtcp;
  dtp_connection : connection;
  dtp_cwq : option (cwq pdu);
  dtp_rtxq : option (rtxqueue (D := pdu));
  dtp_rttq : option (list rtt_entry);
  dtp_sv_of : dtp_sv;
  dtp_ps_of : dtp_ps;
  dtp_seqq : list (seq_queue_entry (D := pdu));
  to_post : ringq pdu;
  to_send : ringq pdu;
  timers : dtp_timers
}.

Definition set_dtp_dtcp (v : option dtcp) (r : dtp) : dtp :=
  mk_dtp v r.(dtp_connection) r.(dtp_cwq) r.(dtp_rtxq) r.(dtp_rttq) r.(dtp_sv_of) r.(dtp_ps_of)
    r.(dtp_seqq) r.(to_post) r.(to_send) r.(timers).
Definition set_dtp_connection (v : connection) (r : dtp) : dtp :=
  mk_dtp r.(dtp_dtcp) v r.(dtp_cwq) r.(dtp_rtxq) r.(dtp_rttq) r.(dtp_sv_of) r.(dtp_ps_of)
    r.(dtp_seqq) r.(to_post) r.(to_send) r.(timers).
Definition set_dtp_cwq (v : option (cwq pdu)) (r : dtp) : dtp :=
  mk_dtp r.(dtp_dtcp) r.(dtp_connection) v r.(dtp_rtxq) r.(dtp_rttq) r.(dtp_sv_of) r.(dtp_ps_of)
    r.(dtp_seqq) r.(to_post) r.(to_send) r.(timers).
Definition set_dtp_rtxq (v : option (rtxqueue (D := pdu))) (r : dtp) : dtp :=
  mk_dtp r.(dtp_dtcp) r.(dtp_connection) r.(dtp_cwq) v r.(dtp_rttq) r.(dtp_sv_of) r.(dtp_ps_of)
    r.(dtp_seqq) r.(to_post) r.(to_send) r.(timers).
Definition set_dtp_rttq (v : option (list rtt_entry)) (r : dtp) : dtp :=
  mk_dtp r.(dtp_dtcp) r.(dtp_connection) r.(dtp_cwq) r.(dtp_rtxq) v r.(dtp_sv_of) r.(dtp_ps_of)
    r.(dtp_seqq) r.(to_post) r.(to_send) r.(timers).
Definition set_dtp_sv_of (v : dtp_sv) (r : dtp) : dtp :=
  mk_dtp r.(dtp_dtcp) r.(dtp_connection) r.(dtp_cwq) r.(dtp_rtxq) r.(dtp_rttq) v r.(dtp_ps_of)
    r.(dtp_seqq) r.(to_post) r.(to_send) r.(timers).
Definition set_dtp_seqq (v : list (seq_queue_entry (D := pdu))) (r : dtp) : dtp :=
  mk_dtp r.(dtp_dtcp) r.(dtp_connection) r.(dtp_cwq) r.(dtp_rtxq) r.(dtp_rttq) r.(dtp_sv_of)
    r.(dtp_ps_of) v r.(to_post) r.(to_send) r.(timers).
Definition set_to_post (v : ringq pdu) (r : dtp) : dtp :=
  mk_dtp r.(dtp_dtcp) r.(dtp_connection) r.(dtp_cwq) r.(dtp_rtxq) r.(dtp_rttq) r.(dtp_sv_of)
    r.(dtp_ps_of) r.(dtp_seqq) v r.(to_send) r.(timers).
Definition set_to_send (v : ringq pdu) (r : dtp) : dtp :=
  mk_dtp r.(dtp_dtcp) r.(dtp_connection) r.(dtp_cwq) r.(dtp_rtxq) r.(dtp_rttq) r.(dtp_sv_of)
    r.(dtp_ps_of) r.(dtp_seqq) r.(to_post) v r.(timers).
Definition set_timers (v : dtp_timers) (r : dtp) : dtp :=
  mk_dtp r.(dtp_dtcp) r.(dtp_connection) r.(dtp_cwq) r.(dtp_rtxq) r.(dtp_rttq) r.(dtp_sv_of)
    r.(dtp_ps_of) r.(dtp_seqq) r.(to_post) r.(to_send) v.

(** ** Environment and log *)

Record env := mk_env {
  HZ : Z;
  jiffies : Z;
  now_sec : Z;
  now_nsec : Z;
  msecs_to_jiffies : Z -> Z;
  jiffies_to_msecs : Z -> Z;
  dt : dt_cons;
  config_rcvr_ack : bool;
  fresh_header : pci_attr -> Z
}.

Inductive event :=
| EvRmt (p : pdu)
| EvLocal (cep_id : Z) (p : pdu)
| EvPost (p : pdu)
| EvDestroy (p : pdu)
| EvEnableWrite
| EvDisableWrite.

Record st := mk_st {
  st_dtp : dtp;
  st_oracle : oracle;
  st_log : list event
}.

Definition set_st_dtp (v : dtp) (r : st) : st :=
  mk_st v r.(st_oracle) r.(st_log).
Definition set_st_oracle (v : oracle) (r : st) : st :=
  mk_st r.(st_dtp) v r.(st_log).
Definition set_st_log (v : list event) (r : st) : st :=
  mk_st r.(st_dtp) r.(st_oracle) v.

(** The PDUs handed to the user, and to the network, in order. *)
Definition posted (l : list event) : list pdu :=
  omap (fun e => match e with EvPost p => Some p | _ => None end) l.
Definition transmitted (l : list event) : list pdu :=
  omap (fun e => match e with EvRmt p => Some p | EvLocal _ p => Some p | _ => None end) l.

(** ** The monad *)

Definition M (A : Type) : Type := st -> option (A * st).

Definition ret {A} (a : A) : M A := fun s => Some (a, s).
Definition bind {A B} (m : M A) (k : A -> M B) : M B :=
  fun s => match m s with Some (a, s') => k a s' | None => None end.
Definition fault {A} : M A := fun _ => None.
Definition gets {A} (f : st -> A) : M A := fun s => Some (f s, s).
Definition modify (f : st -> st) : M unit := fun s => Some (tt, f s).

Declare Scope efcp_scope.
Delimit Scope efcp_scope with efcp.
Notation "'let!' x ':=' m 'in' k" := (bind m (fun x => k))
  (at level 200, x pattern, m at level 100, k at level 200) : efcp_scope.
Notation "m ;;; k" := (bind m (fun _ => k)) (at level 100, right associativity) : efcp_scope.
#[local] Open Scope efcp_scope.

Definition whenb (b : bool) (m : M unit) : M unit := if b then m else ret tt.

(** The outcome of an allocation or of an outside call. *)
Definition ask : M bool :=
  fun s => let '(b, o) := rkmalloc s.(st_oracle) in Some (b, set_st_oracle o s).

Definition emit (e : event) : M unit := modify (fun s => set_st_log (s.(st_log) ++ [e]) s).
Definition du_destroy (p : pdu) : M unit := emit (EvDestroy p).

Definition get_dtp : M dtp := gets st_dtp.
Definition mod_dtp (f : dtp -> dtp) : M unit := modify (fun s => set_st_dtp (f s.(st_dtp)) s).

Definition get_sv : M dtp_sv := gets (fun s => s.(st_dtp).(dtp_sv_of)).
Definition mod_sv (f : dtp_sv -> dtp_sv) : M unit :=
  mod_dtp (fun d => set_dtp_sv_of (f d.(dtp_sv_of)) d).

(** The DTCP instance: a null one is a fault. *)
Definition get_dtcp : M dtcp :=
  fun s => match s.(st_dtp).(dtp_dtcp) with Some c => Some (c, s) | None => None end.
Definition mod_dtcp (f : dtcp -> dtcp) : M unit :=
  fun s => match s.(st_dtp).(dtp_dtcp) with
           | Some c => Some (tt, set_st_dtp (set_dtp_dtcp (Some (f c)) s.(st_dtp)) s)
           | None => None
           end.
Definition get_csv : M dtcp_sv := let! c := get_dtcp in ret c.(dtcp_sv_of).
Definition mod_csv (f : dtcp_sv -> dtcp_sv) : M unit :=
  mod_dtcp (fun c => set_dtcp_sv_of (f c.(dtcp_sv_of)) c).

(** Timers of the DTP instance, by their accessors; the operations return 0. *)
Section Timers.
Context (E : env).

Definition timer_start (get : dtp_timers -> timer) (set : timer -> dtp_timers -> dtp_timers) (ms : Z) : M Z :=
  let! d := get_dtp in
  let '(r, t) := rtimer_start E.(HZ) E.(jiffies) (get d.(timers)) ms in
  mod_dtp (fun d => set_timers (set t d.(timers)) d) ;;; ret r.

Definition timer_restart (get : dtp_timers -> timer) (set : timer -> dtp_timers -> dtp_timers) (ms : Z) : M Z :=
  let! d := get_dtp in
  let '(r, t) := rtimer_restart E.(HZ) E.(jiffies) (get d.(timers)) ms in
  mod_dtp (fun d => set_timers (set t d.(timers)) d) ;;; ret r.

Definition timer_stop (get : dtp_timers -> timer) (set : timer -> dtp_timers -> dtp_timers) : M Z :=
  let! d := get_dtp in
  let '(r, t) := rtimer_stop (get d.(timers)) in
  mod_dtp (fun d => set_timers (set t d.(timers)) d) ;;; ret r.
End Timers.

(** ** Reasoning about handlers

    [hoare P m Q]: from a state that satisfies [P], [m] does not fault, and its value
    and the state after it satisfy [Q].  [safe I m Q]: moreover [m] keeps [I]; [Q] is
    then about the value alone. *)

Definition hoare {A} (P : st -> Prop) (m : M A) (Q : A -> st -> Prop) : Prop :=
  forall s, P s -> exists a s', m s = Some (a, s') /\ Q a s'.

Definition safe {A} (I : st -> Prop) (m : M A) (Q : A -> Prop) : Prop :=
  hoare I m (fun a s => Q a /\ I s).

Lemma hoare_bind {A B} P (m : M A) R (k : A -> M B) Q :
  hoare P m R -> (forall a, hoare (R a) (k a) Q) -> hoare P (bind m k) Q.
Proof.
  intros Hm Hk s Hs. destruct (Hm s Hs) as (a & s1 & E1 & H1).
  destruct (Hk a s1 H1) as (b & s2 & E2 & H2). exists b, s2.
  unfold bind. by rewrite E1.
Qed.

Lemma hoare_ret {A} (P : st -> Prop) (a : A) (Q : A -> st -> Prop) :
  (forall s, P s -> Q a s) -> hoare P (ret a) Q.
Proof. intros H s Hs. exists a, s. auto. Qed.

Lemma hoare_conseq {A} (P P' : st -> Prop) (m : M A) (Q Q' : A -> st -> Prop) :
  hoare P' m Q' -> (forall s, P s -> P' s) -> (forall a s, Q' a s -> Q a s) -> hoare P m Q.
Proof. intros Hm HP HQ s Hs. destruct (Hm s (HP s Hs)) as (a & s' & E & H). eauto. Qed.

Section Safe.
Context (I : st -> Prop).

Lemma safe_ret {A} (a : A) (Q : A -> Prop) : Q a -> safe I (ret a) Q.
Proof. intros H. by apply hoare_ret. Qed.

Lemma safe_bind {A B} (m : M A) (R : A -> Prop) (k : A -> M B) Q :
  safe I m R -> (forall a, R a -> safe I (k a) Q) -> safe I (bind m k) Q.
Proof.
  intros Hm Hk. eapply hoare_bind; [exact Hm|]. intros a s [Ha Hs]. by apply Hk.
Qed.

Lemma safe_any {A} (m : M A) (Q : A -> Prop) : safe I m Q -> safe I m (fun _ => True).
Proof. intros Hm. eapply hoare_conseq; [exact Hm|done|]. by intros a s [_ ?]. Qed.

Lemma safe_whenb b m : (b = true -> safe I m (fun _ => True)) -> safe I (whenb b m) (fun _ => True).
Proof. intros H. destruct b; [auto|by apply safe_ret]. Qed.

Lemma safe_modify f : (forall s, I s -> I (f s)) -> safe I (modify f) (fun _ => True).
Proof. intros H s Hs. exists tt, (f s). auto. Qed.

Lemma safe_gets {A} (f : st -> A) (Q : A -> Prop) : (forall s, I s -> Q (f s)) -> safe I (gets f) Q.
Proof. intros H s Hs. exists (f s), s. auto. Qed.
End Safe.

Create HintDb safe.
