(* ===== verification/PduRefine.v ===== *)
(** * PDUs and their bytes

    The protocol handlers work on the attributes of a PDU ([EfcpState.pdu]); the code
    works on the bytes of its header through the accessors of [pci.c].  The theorems of
    this file are the refinement between the two: on a header that represents a PDU,
    setting an attribute and formatting do to the bytes what they do to the PDU. *)

From S2P Require Import Prelude Kucommon Pci Rds Queues EfcpState.
From Stdlib Require Import ZArith Lia.
From stdpp Require Import base list numbers option.
#[local] Open Scope Z_scope.

(** The bytes [h] are long enough for a header of the type of [p], and every getter
    reads from them what [p] says. *)
Record represents (d : dt_cons) (h : list Z) (p : pdu) : Prop := {
  rp_type : pdu_type p ∈ header_types;
  rp_size : pci_calculate_size (config_of d) (pdu_type p) <= Z.of_nat (length h);
  rp_attr : forall a, attr_get (config_of d) a h = Some (p.(attr) a)
}.

(** C6: in a DIF whose control and data sequence numbers have the same width ([widths_ok]), a
    setter of [pci.c] other than that of the type, on the header of a PDU, returns what the
    setter of the attribute returns on the PDU - success, or -1 for a field the type does not
    have - and leaves a header that represents the PDU so changed, of the same length. *)
Theorem pdu_set_refines (d : dt_cons) (h : list Z) (p : pdu) (a : pci_attr) (v : Z) :
  widths_ok d -> represents d h p -> a <> A_TYPE ->
  exists h', attr_set (config_of d) a h v = Some (fst (pdu_set d p a v), h') /\
    represents d h' (snd (pdu_set d p a v)) /\ length h' = length h.
Proof.
  intros Hok [Ht Hsz Hat] Hna. pose proof (Hat A_TYPE) as Hty. cbn [attr_get] in Hty.
  unfold pdu_set. destruct (attr_slot d (pdu_type p) a) as [[f w]|] eqn:Es.
  - destruct (attr_set_frame d (pdu_type p) a f w h v Hok Ht Hty Hsz Hna Es)
      as (h' & Hset & Hl & Hty' & Hv & Hfr).
    exists h'. split; [exact Hset|]. split; [|done].
    assert (pdu_type (mk_pdu (fun b => if decide (b = a) then attr_cast a (uwrap (8 * w) v)
              else attr p b) (pdu_data p)) = pdu_type p) as Hpt
      by (unfold pdu_type; cbn; by rewrite decide_False by congruence).
    cbn [snd]. split; rewrite ?Hpt; [done|by rewrite Hl|]. cbn [attr]. intros b.
    destruct (decide (b = a)) as [->|Hb].
    + erewrite attr_get_load by done. by rewrite Hv.
    + rewrite <- Hat. destruct (attr_slot d (pdu_type p) b) as [[g u]|] eqn:Eb.
      * erewrite !attr_get_load by done. f_equal. by eapply Hfr.
      * destruct (attr_absent_access (config_of d) (pdu_type p) b h v Ht Hty Eb) as [-> _].
        by destruct (attr_absent_access (config_of d) (pdu_type p) b h' v Ht Hty' Eb) as [-> _].
  - destruct (attr_absent_access (config_of d) (pdu_type p) a h v Ht Hty Es) as [_ ->].
    by exists h.
Qed.

(** [pci_format] on a buffer long enough for a header of the given type succeeds
    and leaves a header that represents the formatted PDU, whose other fields hold what
    the buffer held. *)
Theorem pdu_format_refines (d : dt_cons) (h data : list Z) (src_cep dst_cep src dst sn qos fl len t : Z) :
  widths_ok d -> t ∈ header_types -> pci_calculate_size (config_of d) t <= Z.of_nat (length h) ->
  exists h' fresh p, pci_format (config_of d) h src_cep dst_cep src dst sn qos fl len t = Some (0, h') /\
    pdu_format d (mk_pdu fresh data) src_cep dst_cep src dst sn qos fl len t = (0, p) /\
    represents d h' p /\ pdu_type p = t /\ pdu_data p = data /\ length h' = length h.
Proof.
  intros Hok Ht Hsz.
  destruct (pci_format_loads d h src_cep dst_cep src dst sn qos fl len t Hok Ht Hsz)
    as (h' & Hf & Hl & Hty & Hv).
  exists h', (fun a => default 0 (attr_get (config_of d) a h')). eexists.
  split; [exact Hf|]. split; [reflexivity|].
  assert (forall a, attr_get (config_of d) a h' = Some
    (match attr_slot d t a with
     | None => attr_absent a
     | Some (_, w) => match format_arg src_cep dst_cep src dst sn qos fl len t a with
                      | Some v => attr_cast a (uwrap (8 * w) v)
                      | None => default 0 (attr_get (config_of d) a h')
                      end
     end)) as Hat.
  { intros a. destruct (attr_slot d t a) as [[f w]|] eqn:Es.
    - destruct (format_arg src_cep dst_cep src dst sn qos fl len t a) as [v|] eqn:Ea.
      + erewrite attr_get_load by done. by rewrite (Hv a v f w Ea Es).
      + assert (is_Some (attr_get (config_of d) a h')) as [x ->]; [|done].
        erewrite attr_get_load by done. apply fmap_is_Some.
        destruct (access_layout_contiguous d t Ht) as [Hc Htot].
        pose proof (attr_slot_layout d t a _ Hok Ht Es) as Hin.
        pose proof (access_layout_widths d t Hok Ht) as Hws.
        destruct (contiguous_bounds _ _ _ _ _ Hc Hws Hin) as [Hlo Hhi].
        rewrite List.Forall_forall in Hws. apply list_elem_of_In, Hws in Hin as Hw. unfold width_ok in Hw.
        cbn in Hw. apply load_is_Some. rewrite Htot, <- Hl in *. lia.
    - apply (attr_absent_access (config_of d) t a h' 0 Ht Hty Es). }
  match goal with |- represents d h' ?p /\ _ => assert (pdu_type p = t) as Hpt end.
  { specialize (Hat A_TYPE). cbn [attr_get] in Hat. rewrite Hty in Hat. injection Hat as Hat. done. }
  split; [|by split]. split; rewrite ?Hpt; [done|by rewrite Hl|exact Hat].
Qed.

(** ** A data PDU of the configurations shipped with the stack *)

Lemma pdu_format_refines_witness :
  exists h' fresh p,
    pci_format (config_of example_dt_cons) (repeat 0 60) 1 2 22 23 2533 1 0 40 PDU_TYPE_DT = Some (0, h') /\
    pdu_format example_dt_cons (mk_pdu fresh [7]) 1 2 22 23 2533 1 0 40 PDU_TYPE_DT = (0, p) /\
    represents example_dt_cons h' p /\ pdu_type p = PDU_TYPE_DT /\ pdu_data p = [7] /\
    length h' = 60%nat.
Proof.
  apply (pdu_format_refines example_dt_cons (repeat 0 60) [7] 1 2 22 23 2533 1 0 40 PDU_TYPE_DT).
  - exact example_widths_ok.
  - apply list_elem_of_In. cbn. tauto.
  - vm_compute. congruence.
Defined.

(** A header of zeros with the type of a data PDU. *)
Definition ex_header : list Z := le_encode 13 (256 ^ 11 * PDU_TYPE_DT) ++ repeat 0 30.
Definition ex_header_pdu : pdu :=
  mk_pdu (fun a => default 0 (attr_get (config_of example_dt_cons) a ex_header)) [].

Lemma ex_header_represents : represents example_dt_cons ex_header ex_header_pdu.
Proof.
  split; [apply list_elem_of_In; vm_compute; tauto|vm_compute; congruence|].
  intros a. destruct a; vm_compute; reflexivity.
Qed.

(** Its flags are set, and its acknowledgement, which a data PDU does not have, is
    not. *)
Lemma pdu_set_refines_witness :
  (exists h', attr_set (config_of example_dt_cons) A_FLAGS ex_header 128 = Some (0, h') /\
     attr_get (config_of example_dt_cons) A_FLAGS h' = Some 128) /\
  exists h', attr_set (config_of example_dt_cons) A_ACK_SEQ_NUM ex_header 5 = Some (-1, h').
Proof.
  split.
  - destruct (pdu_set_refines example_dt_cons ex_header ex_header_pdu A_FLAGS 128 example_widths_ok
      ex_header_represents) as (h' & Hs & [_ _ Ha] & _); [discriminate|].
    exists h'. split; [exact Hs|]. by rewrite Ha.
  - destruct (pdu_set_refines example_dt_cons ex_header ex_header_pdu A_ACK_SEQ_NUM 5 example_widths_ok
      ex_header_represents) as (h' & Hs & _); [discriminate|].
    exists h'. exact Hs.
Defined.
