(* ===== verification/DtpUtils.v ===== *)
(** * Sending, retransmission and closed-window delivery

    The parts of [src/kernel/dtp-utils.c] that work on a connection: [dtp_pdu_send],
    the retransmission queue with its timer, acknowledgements and negative
    acknowledgements, and [cwq_deliver], which empties the closed-window queue while
    the flow control allows it.  With them the rate functions of [dtp.c] and [dtcp.c]
    they call. *)

From S2P Require Import Prelude Kucommon Pci Rds Queues EfcpState.
From Stdlib Require Import ZArith Lia.
From stdpp Require Import base list numbers option.
Import Rqueue Ringq Rtimer Ordered Seqq Rtxq Rttq Cwq.
#[local] Open Scope Z_scope.
#[local] Open Scope efcp_scope.

Section DtpUtils.
Context (E : env).

(** ** Sending

    [rmt_send] and [efcp_container_receive] own the PDU and destroy it when they
    fail. *)

Definition dtp_pdu_send (du : pdu) : M Z :=
  if negb (du.(attr) A_SOURCE =? du.(attr) A_DESTINATION) then
    let! _ := get_dtcp in
    let! sent := ask in
    if sent then emit (EvRmt du) ;;; ret 0 else du_destroy du ;;; ret (-1)
  else
    let! decap := ask in
    if negb decap then du_destroy du ;;; ret (-1)
    else let! sent := ask in
         if sent then emit (EvLocal (du.(attr) A_CEP_DESTINATION) du) ;;; ret 0
         else du_destroy du ;;; ret (-1).

(** ** Rates *)

(** The difference in milliseconds, in [int]s, as an [unsigned int]. *)
Definition timedif_ms (c : dtcp_sv) : Z :=
  u32 (s32 (s32 (E.(now_sec) - c.(last_time_sec)) * 1000)
       + Z.quot (s32 (s32 E.(now_nsec) - s32 c.(last_time_nsec))) 1000000).

Definition dtcp_rate_exceeded (send : bool) : M bool :=
  let! c := get_csv in
  whenb (c.(time_unit) <=? timedif_ms c)
    (mod_csv (fun c => set_last_time_nsec E.(now_nsec) (set_last_time_sec E.(now_sec)
       (set_pdus_rcvd_in_time_unit 0 (set_pdus_sent_in_time_unit 0 c))))) ;;;
  let! c := get_csv in
  ret (if send then c.(sndr_rate) <=? c.(pdus_sent_in_time_unit)
       else c.(rcvr_rate) <=? c.(pdus_rcvd_in_time_unit)).

Definition msec_to_next_rate (time_frame last_sec last_nsec : Z) : Z :=
  u32 (s32 (s32 (s32 last_sec - s32 E.(now_sec)) * 1000)
       + Z.quot (s32 (s32 last_nsec - s32 E.(now_nsec))) 1000000 + time_frame).

Definition dtp_start_rate_timer : M unit :=
  let! d := get_dtp in
  if rtimer_is_pending d.(timers).(t_rate_window) then ret tt
  else let! c := get_csv in
       let tf := msec_to_next_rate c.(time_unit) c.(last_time_sec) c.(last_time_nsec) in
       timer_start E t_rate_window set_t_rate_window tf ;;; ret tt.

(** The accounting of the bytes of a PDU sent under rate control. *)
Definition rate_account (sz : Z) : M bool :=
  let! c := get_csv in
  if 0 <=? sz then
    if c.(sndr_rate) <=? u32 (sz + c.(pdus_sent_in_time_unit))
    then mod_csv (set_pdus_sent_in_time_unit c.(sndr_rate)) ;;; ret true
    else mod_csv (set_pdus_sent_in_time_unit (u32 (c.(pdus_sent_in_time_unit) + sz))) ;;; ret false
  else ret false.

(** ** The retransmission queue *)

Definition set_rtxq (q : rtxqueue) : M unit := mod_dtp (set_dtp_rtxq (Some q)).

Definition rtxq_push_ni (du : pdu) : M Z :=
  let! sv := get_sv in
  timer_start E t_rtx set_t_rtx sv.(sv_tr) ;;;
  let! mem := ask in
  let! d := get_dtp in
  match d.(dtp_rtxq) with
  | None => fault
  | Some q => let '(r, q') := rtxqueue_push_ni pdu_sn mem E.(jiffies) q du in
              set_rtxq q' ;;; ret r
  end.

Definition rtxq_size : M Z :=
  let! d := get_dtp in
  ret (match d.(dtp_rtxq) with None => -1 | Some q => q.(rx_len) end).

Fixpoint destroy_all (l : list pdu) : M unit :=
  match l with
  | [] => ret tt
  | p :: l' => du_destroy p ;;; destroy_all l'
  end.

Definition rtxq_flush : M Z :=
  let! d := get_dtp in
  match d.(dtp_rtxq) with
  | None => ret (-1)
  | Some q =>
      timer_stop t_rtx set_t_rtx ;;;
      let '(freed, q') := rtxqueue_flush q in
      destroy_all freed ;;; set_rtxq q' ;;; ret 0
  end.

Definition rtxq_ack (seq_num tr : Z) : M Z :=
  let! d := get_dtp in
  match d.(dtp_rtxq) with
  | None => ret (-1)
  | Some q =>
      let '(res, freed, q') := rtxqueue_entries_ack pdu_sn q seq_num in
      destroy_all freed ;;; set_rtxq q' ;;;
      timer_restart E t_rtx set_t_rtx tr ;;; ret res
  end.

Definition rtxq_entry_timestamp (sn : Z) : M Z :=
  let! d := get_dtp in
  ret (match d.(dtp_rtxq) with None => 0 | Some q => rtxqueue_entry_timestamp pdu_sn q.(rx_head) sn end).

(** The copy of a PDU that is sent again is not checked for a failed allocation. *)
Definition send_copy (du : pdu) : M Z :=
  let! mem := ask in if mem then dtp_pdu_send du else fault.

(** [rtxqueue_entries_nack] goes through the queue from its last entry; the list is
    given in that order. The result is the entries kept, in that order, with the
    number of entries destroyed. *)
Fixpoint nack_loop (seq_num data_rtx_max : Z) (l : list (rtxq_entry (D := pdu)))
    : M (list (rtxq_entry (D := pdu)) * Z) :=
  match l with
  | [] => ret ([], 0)
  | cur :: l' =>
      if seq_num <=? pdu_sn cur.(rx_du) then
        let cur := mk_rtxq_entry cur.(rx_time_stamp) cur.(rx_du) (s32 (cur.(retries) + 1)) in
        if data_rtx_max <=? u32 cur.(retries) then
          du_destroy cur.(rx_du) ;;;
          let! (r, n) := nack_loop seq_num data_rtx_max l' in ret (r, n + 1)
        else
          let! c := get_dtcp in
          let! stop :=
            (if dtcp_rate_based_fctrl c.(dtcp_cfg) then
               rate_account (pdu_data_len cur.(rx_du)) ;;;
               let! ex := dtcp_rate_exceeded true in
               if ex then mod_sv (set_rate_fulfiled true) ;;; dtp_start_rate_timer ;;; ret true
               else ret false
             else ret false) in
          if (stop : bool) then ret (cur :: l', 0)
          else send_copy cur.(rx_du) ;;;
               let! (r, n) := nack_loop seq_num data_rtx_max l' in ret (cur :: r, n)
      else ret (l, 0)
  end.

Definition rtxqueue_entries_nack (q : rtxqueue (D := pdu)) (seq_num data_rtx_max : Z) : M rtxqueue :=
  let! (r, n) := nack_loop seq_num data_rtx_max (rev q.(rx_head)) in
  ret (mk_rtxqueue (s32 (q.(rx_len) - n)) (s32 (q.(drop_pdus) + n)) (rev r)).

Definition rtxq_nack (seq_num tr : Z) : M Z :=
  let! d := get_dtp in
  match d.(dtp_rtxq) with
  | None => ret (-1)
  | Some q =>
      let! c := get_dtcp in
      let! q' := rtxqueue_entries_nack q seq_num c.(dtcp_ps_of).(ps_data_retransmit_max) in
      set_rtxq q' ;;;
      let! r := timer_restart E t_rtx set_t_rtx tr in
      if negb (r =? 0) then ret (-1) else ret 0
  end.

(** The loop of [rtxqueue_rtx]: the entries kept, how many were destroyed and the
    greatest number destroyed. *)
Fixpoint rtx_loop (tr data_rtx_max : Z) (l : list (rtxq_entry (D := pdu)))
    : M (list (rtxq_entry (D := pdu)) * Z * Z) :=
  match l with
  | [] => ret ([], 0, 0)
  | cur :: l' =>
      let seq := pdu_sn cur.(rx_du) in
      if 0 <=? s64 (E.(jiffies) - time_to_rtx (E.(msecs_to_jiffies) 60000) cur tr) then
        let cur := mk_rtxq_entry cur.(rx_time_stamp) cur.(rx_du) (s32 (cur.(retries) + 1)) in
        if data_rtx_max <=? u32 cur.(retries) then
          du_destroy cur.(rx_du) ;;;
          let! (r, n, dropped_sn) := rtx_loop tr data_rtx_max l' in
          ret (r, n + 1, Z.max seq dropped_sn)
        else
          let! c := get_dtcp in
          let! stop :=
            (if dtcp_rate_based_fctrl c.(dtcp_cfg) then
               rate_account (pdu_data_len cur.(rx_du)) ;;;
               let! ex := dtcp_rate_exceeded true in
               if ex then mod_sv (set_rate_fulfiled true) ;;; dtp_start_rate_timer ;;; ret true
               else ret false
             else ret false) in
          if (stop : bool) then ret (cur :: l', 0, 0)
          else send_copy cur.(rx_du) ;;;
               let! (r, n, dropped_sn) := rtx_loop tr data_rtx_max l' in
               ret (cur :: r, n, dropped_sn)
      else ret (l, 0, 0)
  end.

Definition cwq_size_of (d : dtp) : Z := cwq_size d.(dtp_cwq).

Definition rtxqueue_rtx (q : rtxqueue (D := pdu)) (tr data_rtx_max : Z) : M Z :=
  let! (r, n, dropped_sn) := rtx_loop tr data_rtx_max q.(rx_head) in
  let q' := mk_rtxqueue (s32 (q.(rx_len) - n)) (s32 (q.(drop_pdus) + n)) r in
  set_rtxq q' ;;;
  let! start_rv_timer :=
    (if negb (n =? 0) then
       let! c := get_dtcp in
       whenb (c.(dtcp_sv_of).(snd_lft_win) <? dropped_sn) (mod_csv (set_snd_lft_win dropped_sn)) ;;;
       let! d := get_dtp in
       if (q'.(rx_len) =? 0) && (cwq_size_of d =? dtcp_max_closed_winq_length c.(dtcp_cfg)) then
         let! c := get_csv in
         if negb c.(rendezvous_sndr) then mod_csv (set_rendezvous_sndr true) ;;; ret true
         else ret false
       else ret false
     else ret false) in
  let! sv := get_sv in
  whenb start_rv_timer
    (timer_start E t_rendezvous set_t_rendezvous (E.(jiffies_to_msecs) sv.(sv_tr)) ;;; ret tt) ;;;
  ret 0.

(** The expiry of the retransmission timer. *)
Definition rtx_timer_func : M unit :=
  mod_dtp (fun d => set_timers (set_t_rtx None d.(timers)) d) ;;;
  let! d := get_dtp in
  match d.(dtp_rtxq) with
  | None => fault
  | Some q =>
      let tr := d.(dtp_sv_of).(sv_tr) in
      let! c := get_dtcp in
      match c.(dtcp_cfg).(rxctrl_cfg) with
      | None => fault
      | Some rx =>
          rtxqueue_rtx q tr rx.(rx_data_retransmit_max) ;;;
          let! d := get_dtp in
          whenb (negb (rtxqueue_empty d.(dtp_rtxq)))
            (timer_restart E t_rtx set_t_rtx tr ;;; ret tt)
      end
  end.

Definition rttq_push (sn : Z) : M Z :=
  let! d := get_dtp in
  match d.(dtp_rttq) with
  | None => fault
  | Some q => let! mem := ask in
              let '(r, q') := rttq_push_ni mem E.(jiffies) q sn in
              mod_dtp (set_dtp_rttq (Some q')) ;;; ret r
  end.

(** ** Delivery of the closed-window queue *)

Definition default_reconcile_flow_conflict : bool := true.

Definition can_deliver : M bool :=
  let! c := get_dtcp in
  let! sv := get_sv in
  let is_wb := dtcp_window_based_fctrl c.(dtcp_cfg) in
  let is_rb := dtcp_rate_based_fctrl c.(dtcp_cfg) in
  let w_ret := is_wb && (sv.(max_seq_nr_sent) <? c.(dtcp_sv_of).(snd_rt_wind_edge)) in
  let! r_ret := (if is_rb then let! ex := dtcp_rate_exceeded false in ret (negb ex) else ret false) in
  if (is_wb && is_rb) && negb (Bool.eqb w_ret r_ret) then ret default_reconcile_flow_conflict
  else ret (w_ret || r_ret).

(** The loop of [cwq_deliver]; [false] when the function returns from inside it. *)
Fixpoint cwq_deliver_loop (fuel : nat) (rtx_ctrl rate_ctrl : bool) : M bool :=
  match fuel with
  | O => fault
  | S fuel' =>
      let! d := get_dtp in
      match d.(dtp_cwq) with
      | None => fault
      | Some w =>
          if rqueue_is_empty (Some w.(cq)) then ret true
          else
            let! can := can_deliver in
            if negb can then ret true
            else match rqueue_head_pop (Some w.(cq)) with
            | (Some du, q') =>
                mod_dtp (set_dtp_cwq (Some (mk_cwq (default w.(cq) q')))) ;;;
                let! d := get_dtp in
                let! goes_on :=
                  (if rtx_ctrl then
                     match d.(dtp_rtxq) with
                     | None => ret false
                     | Some _ => let! mem := ask in
                                 if mem then rtxq_push_ni du ;;; ret true else ret false
                     end
                   else match d.(dtp_rttq) with
                        | None => ret true
                        | Some _ => rttq_push (pdu_sn du) ;;; ret true
                        end) in
                if negb goes_on then ret false
                else
                  let! full := (if rate_ctrl then rate_account (pdu_data_len du) else ret false) in
                  if (full : bool) then ret true
                  else
                    mod_sv (set_max_seq_nr_sent (pdu_sn du)) ;;;
                    mod_csv (set_snd_lft_win (pdu_sn du)) ;;;
                    dtp_pdu_send du ;;;
                    cwq_deliver_loop fuel' rtx_ctrl rate_ctrl
            | (None, _) => ret false
            end
      end
  end.

Definition cwq_deliver : M unit :=
  let! c := get_dtcp in
  let! d := get_dtp in
  match d.(dtp_cwq) with
  | None => fault
  | Some w =>
      let rate_ctrl := c.(dtcp_ps_of).(ps_flow_ctrl) && dtcp_rate_based_fctrl c.(dtcp_cfg) in
      let! ended := cwq_deliver_loop (Datatypes.S (length w.(cq).(head)))
                      c.(dtcp_ps_of).(ps_rtx_ctrl) rate_ctrl in
      if negb ended then ret tt
      else
        let wb := dtcp_window_based_fctrl c.(dtcp_cfg) in
        let rb := dtcp_rate_based_fctrl c.(dtcp_cfg) in
        let! d := get_dtp in
        if negb (cwq_is_empty d.(dtp_cwq)) then
          whenb wb (mod_sv (set_window_closed true)) ;;;
          whenb rb (mod_sv (set_rate_fulfiled true) ;;; dtp_start_rate_timer)
        else
          whenb wb (mod_sv (set_window_closed false)) ;;;
          whenb rb (mod_sv (set_rate_fulfiled true)) ;;;
          whenb (cwq_size_of d <? dtcp_max_closed_winq_length c.(dtcp_cfg)) (emit EvEnableWrite)
  end.
End DtpUtils.

(** ** Delivery with everything granted *)

Lemma ask_granted s : s.(st_oracle) = [] -> ask s = Some (true, s).
Proof. destruct s as [d o l]. cbn. by intros ->. Qed.

Lemma run_bind {A B} (m : M A) (k : A -> M B) s a s' :
  m s = Some (a, s') -> bind m k s = k a s'.
Proof. unfold bind. by intros ->. Qed.

Lemma posted_app l l' : posted (l ++ l') = posted l ++ posted l'.
Proof. apply omap_app. Qed.

Lemma transmitted_app l l' : transmitted (l ++ l') = transmitted l ++ transmitted l'.
Proof. apply omap_app. Qed.

Lemma mod_sv_run f s :
  mod_sv f s = Some (tt, set_st_dtp (set_dtp_sv_of (f s.(st_dtp).(dtp_sv_of)) s.(st_dtp)) s).
Proof. done. Qed.

Lemma mod_csv_run f s c :
  s.(st_dtp).(dtp_dtcp) = Some c ->
  mod_csv f s = Some (tt, set_st_dtp (set_dtp_dtcp
    (Some (set_dtcp_sv_of (f c.(dtcp_sv_of)) c)) s.(st_dtp)) s).
Proof. unfold mod_csv, mod_dtcp. by intros ->. Qed.

Section DtpUtilsFacts.
Context (E : env).

Lemma dtp_pdu_send_granted s c du :
  s.(st_oracle) = [] -> s.(st_dtp).(dtp_dtcp) = Some c ->
  exists e, dtp_pdu_send du s = Some (0, set_st_log (s.(st_log) ++ [e]) s) /\
    transmitted [e] = [du] /\ posted [e] = [].
Proof.
  destruct s as [d o l]. cbn. intros -> Hc. unfold dtp_pdu_send.
  destruct (_ =? _); cbn.
  - eexists. by split.
  - unfold bind, get_dtcp, ask. cbn. rewrite Hc. cbn. eexists. by split.
Qed.

Lemma rtxq_push_ni_granted s q du :
  s.(st_oracle) = [] -> s.(st_dtp).(dtp_rtxq) = Some q ->
  exists r q' tm, rtxq_push_ni E du s =
    Some (r, set_st_dtp (set_dtp_rtxq (Some q') (set_timers tm s.(st_dtp))) s) /\
    rtxqueue_push_ni pdu_sn true E.(jiffies) q du = (r, q').
Proof.
  destruct s as [[] o l]. cbn. intros -> ->.
  unfold rtxq_push_ni, timer_start, bind, ask, get_sv, gets, get_dtp, mod_dtp, modify.
  cbn -[rtxqueue_push_ni rtimer_start].
  destruct (rtimer_start _ _ _ _) as [x tm]. cbn -[rtxqueue_push_ni].
  destruct (rtxqueue_push_ni pdu_sn true E.(jiffies) q du) as [r q'] eqn:Eq. cbn.
  by exists r, q', (set_t_rtx tm timers).
Qed.

Lemma rttq_push_granted s q sn :
  s.(st_oracle) = [] -> s.(st_dtp).(dtp_rttq) = Some q ->
  exists r q', rttq_push E sn s = Some (r, set_st_dtp (set_dtp_rttq (Some q') s.(st_dtp)) s).
Proof.
  destruct s as [[] o l]. cbn. intros -> ->.
  unfold rttq_push, bind, ask, gets, get_dtp, mod_dtp, modify. cbn -[rttq_push_ni].
  destruct (rttq_push_ni true E.(jiffies) q sn) as [r q'] eqn:Eq. by exists r, q'.
Qed.

(** A connection with window-based flow control only, whose outside calls succeed:
    [l] waits in the closed-window queue, [sent] is the last number sent and [rwe]
    the right window edge. *)
Record sending (s : st) (l : list pdu) (sent rwe : Z) : Prop := {
  sn_oracle : s.(st_oracle) = [];
  sn_dtcp : exists c, s.(st_dtp).(dtp_dtcp) = Some c /\
    dtcp_window_based_fctrl c.(dtcp_cfg) = true /\ dtcp_rate_based_fctrl c.(dtcp_cfg) = false /\
    c.(dtcp_sv_of).(snd_rt_wind_edge) = rwe /\
    (c.(dtcp_ps_of).(ps_rtx_ctrl) = true -> exists q, s.(st_dtp).(dtp_rtxq) = Some q /\
       Forall (fun e => pdu_sn e.(rx_du) <= sent) q.(rx_head));
  sn_cwq : exists w, s.(st_dtp).(dtp_cwq) = Some w /\ w.(cq).(head) = l /\ rq_wf w.(cq);
  sn_sent : s.(st_dtp).(dtp_sv_of).(max_seq_nr_sent) = sent
}.

Definition rtx_of (s : st) : bool :=
  match s.(st_dtp).(dtp_dtcp) with Some c => c.(dtcp_ps_of).(ps_rtx_ctrl) | None => false end.

(** The PDUs kept for retransmission. *)
Definition rtx_pdus (s : st) : list pdu :=
  match s.(st_dtp).(dtp_rtxq) with Some q => rx_du <$> q.(rx_head) | None => [] end.

(** What a delivery leaves alone: the receiving side and what the user was given. *)
Definition same_receiver (s s' : st) : Prop :=
  s'.(st_dtp).(dtp_seqq) = s.(st_dtp).(dtp_seqq) /\ s'.(st_dtp).(to_post) = s.(st_dtp).(to_post) /\
  s'.(st_dtp).(dtp_ps_of) = s.(st_dtp).(dtp_ps_of) /\
  s'.(st_dtp).(dtp_sv_of).(rcv_left_window_edge) = s.(st_dtp).(dtp_sv_of).(rcv_left_window_edge) /\
  s'.(st_dtp).(dtp_sv_of).(drf_required) = s.(st_dtp).(dtp_sv_of).(drf_required) /\
  s'.(st_dtp).(dtp_sv_of).(sv_A) = s.(st_dtp).(dtp_sv_of).(sv_A) /\
  posted s'.(st_log) = posted s.(st_log).

#[export] Instance same_receiver_PreOrder : PreOrder same_receiver.
Proof.
  split.
  - intros s. by repeat split.
  - intros a b c (?&?&?&?&?&?&?) (?&?&?&?&?&?&?). repeat split; congruence.
Qed.

(** What it leaves alone on the sending side. *)
Definition same_sender (s s' : st) : Prop :=
  s'.(st_dtp).(dtp_sv_of).(seq_nr_to_send) = s.(st_dtp).(dtp_sv_of).(seq_nr_to_send) /\
  s'.(st_dtp).(dtp_sv_of).(window_based) = s.(st_dtp).(dtp_sv_of).(window_based) /\
  s'.(st_dtp).(dtp_sv_of).(rate_based) = s.(st_dtp).(dtp_sv_of).(rate_based) /\
  s'.(st_dtp).(dtp_sv_of).(rexmsn_ctrl) = s.(st_dtp).(dtp_sv_of).(rexmsn_ctrl) /\
  rtx_of s' = rtx_of s.

#[export] Instance same_sender_PreOrder : PreOrder same_sender.
Proof.
  split.
  - intros s. by repeat split.
  - intros a b c (?&?&?&?&?) (?&?&?&?&?). repeat split; congruence.
Qed.

Lemma can_deliver_window s l sent rwe :
  sending s l sent rwe -> can_deliver E s = Some (sent <? rwe, s).
Proof.
  intros [Ho (c & Hc & Hw & Hr & He & _) _ Hs].
  unfold can_deliver, bind, get_dtcp, get_sv, gets. rewrite Hc, Hw, Hr. cbn.
  rewrite Hs, He, orb_false_r. done.
Qed.

Lemma rq_wf_pop (q : rqueue pdu) p l :
  rq_wf q -> q.(head) = p :: l ->
  exists q', rqueue_head_pop (Some q) = (Some p, Some q') /\ q'.(head) = l /\ rq_wf q'.
Proof.
  intros Hwf Hh.
  destruct (fifo_pop_cons (FifoLaws := rqueue_FifoLaws) q p l Hwf Hh) as (q' & Hp & Hwf' & He).
  exists q'. cbn in Hp |- *. rewrite Hh in *. injection Hp as <-. done.
Qed.

(** The copy kept of a PDU about to be sent: in the retransmission queue, or its
    number in the round-trip-time queue. *)
Definition keep_copy (rtx : bool) (p : pdu) (d : dtp) : M bool :=
  if rtx then match d.(dtp_rtxq) with
              | None => ret false
              | Some _ => let! mem := ask in if mem then rtxq_push_ni E p ;;; ret true else ret false
              end
  else match d.(dtp_rttq) with
       | None => ret true
       | Some _ => rttq_push E (pdu_sn p) ;;; ret true
       end.

Lemma keep_copy_granted rtx p s sent :
  s.(st_oracle) = [] -> sent < pdu_sn p ->
  (rtx = true -> exists q, s.(st_dtp).(dtp_rtxq) = Some q /\
     Forall (fun e => pdu_sn e.(rx_du) <= sent) q.(rx_head)) ->
  exists q1 q2 tm, keep_copy rtx p s.(st_dtp) s =
      Some (true, set_st_dtp (set_dtp_rtxq q1 (set_dtp_rttq q2 (set_timers tm s.(st_dtp)))) s) /\
    (rtx = true -> exists q, q1 = Some q /\ rx_du <$> q.(rx_head) = rtx_pdus s ++ [p] /\
       Forall (fun e => pdu_sn e.(rx_du) <= pdu_sn p) q.(rx_head)).
Proof.
  intros Ho Hp Hq. unfold keep_copy. destruct rtx.
  - destruct (Hq eq_refl) as (qx & Eq & Hf). rewrite Eq.
    erewrite run_bind by by apply ask_granted.
    destruct (rtxq_push_ni_granted s qx p Ho Eq) as (r & q1 & tm & Hpush & Hr).
    erewrite run_bind by exact Hpush.
    exists (Some q1), s.(st_dtp).(dtp_rttq), tm. split; [by destruct s as [[] ? ?]|].
    intros _. rewrite rtxqueue_push_last in Hr
      by (eapply Forall_impl; [|exact Hf]; unfold rx_key; cbn; lia).
    injection Hr as <- <-. eexists. split; [done|]. unfold rtx_pdus. rewrite Eq. cbn.
    rewrite fmap_app. split; [done|]. apply Forall_app. split; [|by repeat constructor].
    eapply Forall_impl; [|exact Hf]. cbn. lia.
  - destruct (dtp_rttq (st_dtp s)) as [qx|] eqn:Eq.
    + destruct (rttq_push_granted s qx (pdu_sn p) Ho Eq) as (r & q2 & Hpush).
      erewrite run_bind by exact Hpush.
      exists s.(st_dtp).(dtp_rtxq), (Some q2), s.(st_dtp).(timers). by destruct s as [[] ? ?].
    + exists s.(st_dtp).(dtp_rtxq), s.(st_dtp).(dtp_rttq), s.(st_dtp).(timers).
      by destruct s as [[] ? ?].
Qed.

(** The state after a PDU [p] left the head of the queue: the end of a turn. *)
Lemma send_head s c p :
  s.(st_oracle) = [] -> s.(st_dtp).(dtp_dtcp) = Some c ->
  exists s', (mod_sv (set_max_seq_nr_sent (pdu_sn p)) ;;;
              mod_csv (set_snd_lft_win (pdu_sn p)) ;;; dtp_pdu_send p) s = Some (0, s') /\
    s'.(st_oracle) = [] /\ same_receiver s s' /\
    s'.(st_dtp) = set_dtp_dtcp (Some (set_dtcp_sv_of (set_snd_lft_win (pdu_sn p) c.(dtcp_sv_of)) c))
      (set_dtp_sv_of (set_max_seq_nr_sent (pdu_sn p) s.(st_dtp).(dtp_sv_of)) s.(st_dtp)) /\
    transmitted s'.(st_log) = transmitted s.(st_log) ++ [p].
Proof.
  intros Ho Hc. erewrite run_bind by apply mod_sv_run.
  set (s3 := set_st_dtp _ s).
  assert (s3.(st_dtp).(dtp_dtcp) = Some c) as Hc3 by by destruct s as [[] ? ?].
  erewrite run_bind by (apply mod_csv_run; exact Hc3).
  set (s4 := set_st_dtp (set_dtp_dtcp _ _) s3).
  destruct (dtp_pdu_send_granted s4 (set_dtcp_sv_of (set_snd_lft_win (pdu_sn p) c.(dtcp_sv_of)) c) p)
    as (e & Hsend & Htr & Hpo); [by destruct s|reflexivity|].
  exists (set_st_log (s4.(st_log) ++ [e]) s4). split; [exact Hsend|].
  assert (posted (s4.(st_log) ++ [e]) = posted s.(st_log)) as Hp
    by (rewrite posted_app, Hpo, app_nil_r; by destruct s).
  assert (transmitted (s4.(st_log) ++ [e]) = transmitted s.(st_log) ++ [p]) as Ht
    by (rewrite transmitted_app, Htr; by destruct s).
  destruct s as [[] ? ?]. by repeat split.
Qed.

(** One turn of the delivery loop. *)
Lemma cwq_deliver_turn fuel s p l sent rwe :
  sending s (p :: l) sent rwe -> sent < rwe -> sent < pdu_sn p ->
  exists s', sending s' l (pdu_sn p) rwe /\ rtx_of s' = rtx_of s /\ same_receiver s s' /\
    same_sender s s' /\ transmitted s'.(st_log) = transmitted s.(st_log) ++ [p] /\
    (rtx_of s = true -> rtx_pdus s' = rtx_pdus s ++ [p]) /\
    cwq_deliver_loop E (S fuel) (rtx_of s) false s = cwq_deliver_loop E fuel (rtx_of s) false s'.
Proof.
  intros Hs Hlt Hsn. pose proof (can_deliver_window _ _ _ _ Hs) as Hcan.
  destruct (Hs) as [Ho (c & Hc & Hw & Hr & He & Hq) (w & Hcw & Hh & Hwf) Hms].
  destruct (rq_wf_pop _ _ _ Hwf Hh) as (q' & Hpop & Hh' & Hwf').
  assert (rtx_of s = ps_rtx_ctrl (dtcp_ps_of c)) as Hrt by (unfold rtx_of; by rewrite Hc).
  set (s1 := set_st_dtp (set_dtp_cwq (Some (mk_cwq q')) s.(st_dtp)) s).
  destruct (keep_copy_granted (rtx_of s) p s1 sent) as (q1 & q2 & tm & Hcopy & Hq1);
    [by destruct s|done|destruct s as [[] ? ?]; rewrite Hrt; exact Hq|].
  set (s2 := set_st_dtp (set_dtp_rtxq q1 _) s1) in *.
  destruct (send_head s2 c p) as (s' & Hsend & Ho' & Hsame & Hd & Ht);
    [by destruct s|by destruct s as [[] ? ?]|].
  exists s'. split_and!.
  - split; [exact Ho'| | |by rewrite Hd].
    + rewrite Hd. eexists. split; [reflexivity|]. split_and!; [exact Hw|exact Hr|exact He|].
      intros Hx. destruct (Hq1 (eq_trans Hrt Hx)) as (q & -> & _ & Hf). by exists q.
    + rewrite Hd. eexists. split; [reflexivity|]. by split.
  - unfold rtx_of. rewrite Hd, Hc. done.
  - etrans; [|exact Hsame]. destruct s as [[] ? ?]. by repeat split.
  - unfold same_sender, rtx_of. rewrite Hd, Hc. by repeat split.
  - rewrite Ht. by destruct s as [[] ? ?].
  - intros Hx. destruct (Hq1 Hx) as (q & Eq & Hpd & _).
    unfold rtx_pdus at 1. rewrite Hd. cbn. by rewrite Eq.
  - cbn [cwq_deliver_loop]. unfold get_dtp. erewrite run_bind by reflexivity. rewrite Hcw.
    replace (rqueue_is_empty (Some (cq w))) with false by (cbn; by rewrite Hh).
    erewrite run_bind by exact Hcan. rewrite (proj2 (Z.ltb_lt _ _) Hlt). cbn [negb].
    rewrite Hpop. erewrite run_bind by reflexivity. erewrite run_bind by reflexivity.
    erewrite run_bind by exact Hcopy. cbn [negb]. erewrite run_bind by reflexivity. cbv iota.
    unfold bind in Hsend |- *. destruct (mod_sv _ s2) as [[u sa]|]; [|done].
    destruct (mod_csv _ sa) as [[v sb]|]; [|done].
    by rewrite Hsend.
Qed.

(** The numbers of [l] follow [n] without a gap. *)
Fixpoint consecutive (n : Z) (l : list pdu) : Prop :=
  match l with
  | [] => True
  | p :: l' => pdu_sn p = n + 1 /\ consecutive (n + 1) l'
  end.

Lemma consecutive_beyond n l :
  consecutive n l -> Forall (fun p => n < pdu_sn p) l.
Proof.
  revert n. induction l as [|p l IH]; intros n; cbn; [constructor|]. intros [Hp Hl].
  constructor; [lia|]. eapply Forall_impl; [|exact (IH _ Hl)]. cbn. lia.
Qed.

Lemma filter_all {A} (P : A -> Prop) `{!forall x, Decision (P x)} (l : list A) :
  Forall P l -> filter P l = l.
Proof. induction 1 as [|a l Ha _ IH]; [done|]. by rewrite filter_cons_True, IH. Qed.

Lemma filter_none {A} (P : A -> Prop) `{!forall x, Decision (P x)} (l : list A) :
  Forall (fun x => ~ P x) l -> filter P l = [].
Proof. induction 1 as [|a l Ha _ IH]; [done|]. by rewrite filter_cons_False. Qed.

Lemma cwq_deliver_loop_window l fuel s sent rwe :
  sending s l sent rwe -> consecutive sent l -> (length l < fuel)%nat ->
  exists s', cwq_deliver_loop E fuel (rtx_of s) false s = Some (true, s') /\
    sending s' (filter (fun p => rwe < pdu_sn p) l)
      (sent + Z.of_nat (length (filter (fun p => pdu_sn p <= rwe) l))) rwe /\
    same_receiver s s' /\ same_sender s s' /\
    transmitted s'.(st_log) = transmitted s.(st_log) ++ filter (fun p => pdu_sn p <= rwe) l /\
    (rtx_of s = true -> rtx_pdus s' = rtx_pdus s ++ filter (fun p => pdu_sn p <= rwe) l).
Proof.
  revert fuel s sent. induction l as [|p l IH]; intros [|fuel] s sent Hs Hcon Hf; cbn in Hf; try lia.
  - exists s. destruct (Hs) as [_ _ (w & Hcw & Hh & _) _]. cbn [cwq_deliver_loop].
    unfold get_dtp. erewrite run_bind by reflexivity. rewrite Hcw.
    replace (rqueue_is_empty (Some (cq w))) with true by (cbn; by rewrite Hh).
    cbn. rewrite Z.add_0_r, !app_nil_r. by split_and!.
  - destruct (Hcon) as [Hp Hl]. destruct (decide (sent < rwe)) as [Hlt|Hge].
    + destruct (cwq_deliver_turn fuel s p l sent rwe Hs Hlt)
        as (s1 & Hs1 & Hr1 & Hsame & Hsnd & Ht & Hx & ->); [lia|].
      destruct (IH fuel s1 (pdu_sn p) Hs1) as (s' & Hrun & Hs' & Hsame' & Hsnd' & Ht' & Hx');
        [by rewrite Hp|lia|].
      exists s'. rewrite Hr1 in Hrun. split; [exact Hrun|].
      rewrite (filter_cons_True (fun p => pdu_sn p <= rwe)) by lia.
      rewrite (filter_cons_False (fun p => rwe < pdu_sn p)) by lia.
      split_and!; [|by etrans|by etrans| |].
      * cbn [length]. replace (sent + _) with
          (pdu_sn p + Z.of_nat (length (filter (fun p => pdu_sn p <= rwe) l))) by lia. exact Hs'.
      * rewrite Ht', Ht, <- app_assoc. done.
      * intros Hrt. rewrite Hx' by congruence. rewrite Hx, <- app_assoc by done. done.
    + exists s. pose proof (consecutive_beyond _ _ Hcon) as Hb.
      rewrite (filter_all (fun p => rwe < pdu_sn p))
        by (eapply Forall_impl; [|exact Hb]; cbn; lia).
      rewrite (filter_none (fun p => pdu_sn p <= rwe))
        by (eapply Forall_impl; [|exact Hb]; cbn; lia).
      cbn [length]. rewrite Z.add_0_r, !app_nil_r. split; [|by split_and!].
      pose proof (can_deliver_window _ _ _ _ Hs) as Hcan.
      destruct (Hs) as [_ _ (w & Hcw & Hh & _) _]. cbn [cwq_deliver_loop].
      unfold get_dtp. erewrite run_bind by reflexivity. rewrite Hcw.
      replace (rqueue_is_empty (Some (cq w))) with false by (cbn; by rewrite Hh).
      erewrite run_bind by exact Hcan. by rewrite (proj2 (Z.ltb_ge _ _)) by lia.
Qed.

(** A change of the state vector or of the log that keeps the rest. *)
Lemma sending_window_closed b s l sent rwe :
  sending s l sent rwe ->
  let s' := set_st_dtp (set_dtp_sv_of (set_window_closed b s.(st_dtp).(dtp_sv_of)) s.(st_dtp)) s in
  sending s' l sent rwe /\ same_receiver s s' /\ same_sender s s' /\ rtx_pdus s' = rtx_pdus s.
Proof.
  intros [Ho Hc Hw Hs]. destruct s as [[] ? ?]. split; [|by repeat split].
  by split.
Qed.

Lemma sending_emit e s l sent rwe :
  sending s l sent rwe -> posted [e] = [] ->
  let s' := set_st_log (s.(st_log) ++ [e]) s in
  sending s' l sent rwe /\ same_receiver s s' /\ same_sender s s' /\ rtx_pdus s' = rtx_pdus s.
Proof.
  intros [Ho Hc Hw Hs] He. split; [by split|]. unfold same_receiver. cbn [st_log set_st_log].
  rewrite posted_app, He, app_nil_r. by repeat split.
Qed.

(** The end of [cwq_deliver], with window-based flow control only. *)
Lemma cwq_deliver_finish c s l sent rwe :
  sending s l sent rwe ->
  exists s', (let! d := get_dtp in
    if negb (cwq_is_empty d.(dtp_cwq)) then
      whenb true (mod_sv (set_window_closed true)) ;;;
      whenb false (mod_sv (set_rate_fulfiled true) ;;; dtp_start_rate_timer E)
    else
      whenb true (mod_sv (set_window_closed false)) ;;;
      whenb false (mod_sv (set_rate_fulfiled true)) ;;;
      whenb (cwq_size_of d <? dtcp_max_closed_winq_length c.(dtcp_cfg)) (emit EvEnableWrite)) s
      = Some (tt, s') /\
    sending s' l sent rwe /\ same_receiver s s' /\ same_sender s s' /\
    s'.(st_dtp).(dtp_sv_of).(window_closed) = negb (bool_decide (l = [])) /\
    transmitted s'.(st_log) = transmitted s.(st_log) /\ rtx_pdus s' = rtx_pdus s.
Proof.
  intros Hs. unfold get_dtp. erewrite run_bind by reflexivity. cbv beta.
  destruct (Hs) as [_ _ (w & Hcw & Hh & _) _]. rewrite Hcw.
  replace (cwq_is_empty (Some w)) with (bool_decide (l = []))
    by (cbn; rewrite Hh; by destruct l).
  destruct (bool_decide (l = [])) eqn:El; cbn [negb whenb].
  - erewrite run_bind by apply mod_sv_run. erewrite run_bind by reflexivity.
    destruct (sending_window_closed false s l sent rwe Hs) as (H1 & H2 & H3 & H4).
    set (s1 := set_st_dtp _ s) in *. destruct (cwq_size_of _ <? _); cbn [whenb].
    + destruct (sending_emit EvEnableWrite s1 l sent rwe H1 eq_refl) as (K1 & K2 & K3 & K4).
      eexists. split; [reflexivity|]. split_and!; [exact K1|by etrans|by etrans|done| |congruence].
      cbn [st_log set_st_log]. rewrite transmitted_app. cbn. by rewrite app_nil_r.
    + exists s1. by split_and!.
  - erewrite run_bind by apply mod_sv_run.
    destruct (sending_window_closed true s l sent rwe Hs) as (H1 & H2 & H3 & H4).
    eexists. split; [reflexivity|]. by split_and!.
Qed.

Lemma cwq_deliver_run s l sent rwe :
  sending s l sent rwe -> consecutive sent l ->
  exists s', cwq_deliver E s = Some (tt, s') /\
    transmitted s'.(st_log) = transmitted s.(st_log) ++ filter (fun p => pdu_sn p <= rwe) l /\
    sending s' (filter (fun p => rwe < pdu_sn p) l)
      (sent + Z.of_nat (length (filter (fun p => pdu_sn p <= rwe) l))) rwe /\
    s'.(st_dtp).(dtp_sv_of).(window_closed)
      = negb (bool_decide (filter (fun p => rwe < pdu_sn p) l = [])) /\
    same_receiver s s' /\ same_sender s s' /\
    (rtx_of s = true -> rtx_pdus s' = rtx_pdus s ++ filter (fun p => pdu_sn p <= rwe) l).
Proof.
  intros Hs Hcon.
  destruct (Hs) as [_ (c & Hc & Hw & Hr & _) (w & Hcw & Hh & _) _].
  destruct (cwq_deliver_loop_window l (Datatypes.S (length w.(cq).(head))) s sent rwe Hs Hcon)
    as (s1 & Hrun & Hs1 & Hsame & Hsnd & Ht & Hx); [rewrite Hh; lia|].
  destruct (cwq_deliver_finish c s1 _ _ _ Hs1) as (s' & Hfin & Hs' & Hsame' & Hsnd' & Hwc & Ht' & Hx').
  exists s'. split_and!; [|congruence|exact Hs'|exact Hwc|by etrans|by etrans|
    intros Hrt; rewrite Hx'; by apply Hx].
  unfold cwq_deliver. erewrite run_bind by (unfold get_dtcp; rewrite Hc; reflexivity).
  unfold get_dtp at 1. erewrite run_bind by reflexivity. rewrite Hcw, Hw, Hr, andb_false_r.
  unfold rtx_of in Hrun. rewrite Hc in Hrun. erewrite run_bind by exact Hrun. exact Hfin.
Qed.

(** When the window opens, [cwq_deliver] hands to the network exactly the waiting
    PDUs inside the window, in their order, keeps a copy of each for retransmission,
    keeps the others waiting in their order, marks the window closed exactly when some
    PDU still waits, and changes nothing on the receiving side. *)
Theorem cwq_deliver_window (s : st) (l : list pdu) (sent rwe : Z) :
  sending s l sent rwe -> consecutive sent l ->
  exists s', cwq_deliver E s = Some (tt, s') /\
    transmitted s'.(st_log) = transmitted s.(st_log) ++ filter (fun p => pdu_sn p <= rwe) l /\
    (rtx_of s = true -> rtx_pdus s' = rtx_pdus s ++ filter (fun p => pdu_sn p <= rwe) l) /\
    (exists w, s'.(st_dtp).(dtp_cwq) = Some w /\ w.(cq).(head) = filter (fun p => rwe < pdu_sn p) l) /\
    cwq_size s'.(st_dtp).(dtp_cwq) = Z.of_nat (length (filter (fun p => rwe < pdu_sn p) l)) /\
    s'.(st_dtp).(dtp_sv_of).(window_closed)
      = negb (bool_decide (filter (fun p => rwe < pdu_sn p) l = [])) /\
    same_receiver s s'.
Proof.
  intros Hs Hcon. destruct (cwq_deliver_run s l sent rwe Hs Hcon)
    as (s' & Hrun & Ht & [_ _ (w & Hcw & Hh & Hl & _) _] & Hwc & Hsame & _ & Hx).
  exists s'. split_and!; [done|done|done|by exists w| |done|done].
  rewrite Hcw. cbn. by rewrite Hl, Hh.
Qed.
End DtpUtilsFacts.
