(* ===== verification/Dtcp.v ===== *)
(** * DTCP: control PDUs, flow control and acknowledgements

    [src/kernel/dtcp.c] with the default policies of [src/kernel/dtcp-ps-default.c],
    and the two functions of [src/kernel/dtp.c] they call: [process_A_expiration] and
    [dtp_send_pending_ctrl_pdus].  A policy is called through the policy set in the
    code; here the default policy set is selected, and its functions are called
    directly. *)

From S2P Require Import Prelude Kucommon Pci Rds Queues EfcpState DtpUtils.
From Stdlib Require Import ZArith Lia.
From stdpp Require Import base list numbers option.
Import Rqueue Ringq Rtimer Ordered Seqq Rtxq Rttq Cwq.
#[local] Open Scope Z_scope.
#[local] Open Scope efcp_scope.

Section Dtcp.
Context (E : env).

(** ** The rings of the DTP instance *)

Definition ring_push_to (get : dtp -> ringq pdu) (set : ringq pdu -> dtp -> dtp) (du : pdu) : M Z :=
  let! d := get_dtp in
  match ringq_push (Some (get d)) du with
  | Some (r, Some q) => mod_dtp (set q) ;;; ret r
  | _ => fault
  end.

Definition ring_pop_from (get : dtp -> ringq pdu) (set : ringq pdu -> dtp -> dtp) : M (option pdu) :=
  let! d := get_dtp in
  match ringq_pop (Some (get d)) with
  | (r, Some q) => mod_dtp (set q) ;;; ret r
  | (_, None) => fault
  end.

Definition dtp_pdu_ctrl_send (du : pdu) : M Z := ring_push_to to_send set_to_send du.
Definition dtcp_pdu_send (du : pdu) : M Z := let! _ := get_dtcp in dtp_pdu_ctrl_send du.

(** The loop of [dtp_send_pending_ctrl_pdus].  [dtp_pdu_send] destroys the PDU when it fails, and the
    loop destroys it once more: a fault. *)
Fixpoint send_pending_loop (fuel : nat) : M unit :=
  match fuel with
  | O => fault
  | S fuel' =>
      let! d := get_dtp in
      if ringq_is_empty d.(to_send) then ret tt
      else
        let! du := ring_pop_from to_send set_to_send in
        match du with
        | Some du => let! r := dtp_pdu_send du in
                     whenb (negb (r =? 0)) fault
        | None => ret tt
        end ;;;
        send_pending_loop fuel'
  end.

Definition dtp_send_pending_ctrl_pdus : M unit :=
  let! d := get_dtp in
  send_pending_loop (Datatypes.S (Z.to_nat d.(to_send).(occupation))).

Definition pdu_post (du : pdu) : M Z :=
  let! enqueued := ask in
  if negb enqueued then ret (-1) else emit (EvPost du) ;;; ret 0.

(** ** Control PDUs *)

Definition next_snd_ctl_seq : M Z :=
  mod_csv (fun c => set_next_snd_ctl_seq (u32 (c.(EfcpState.next_snd_ctl_seq) + 1)) c) ;;;
  let! c := get_csv in ret c.(EfcpState.next_snd_ctl_seq).

(** The window and rate fields of a control PDU; the setters of fields the type does
    not have fail, and the code goes on. *)
Definition flow_fields (c : dtcp) (LWE : Z) (p : pdu) : pdu :=
  let cv := c.(dtcp_sv_of) in
  let set p a v := snd (pdu_set E.(dt) p a v) in
  if dtcp_flow_ctrl c.(dtcp_cfg) then
    let p := if dtcp_window_based_fctrl c.(dtcp_cfg) then
               set (set (set (set p A_NEW_LEFT_WIND_EDGE LWE)
                 A_NEW_RT_WIND_EDGE cv.(rcvr_rt_wind_edge))
                 A_MY_LEFT_WIND_EDGE cv.(snd_lft_win)) A_MY_RT_WIND_EDGE cv.(snd_rt_wind_edge)
             else p in
    if dtcp_rate_based_fctrl c.(dtcp_cfg) then
      set (set p A_SNDR_RATE cv.(sndr_rate)) A_TIME_FRAME cv.(time_unit)
    else p
  else p.

Definition populate_ctrl_pci (p : pdu) : M (Z * pdu) :=
  let! c := get_dtcp in
  let! sv := get_sv in
  let cv := c.(dtcp_sv_of) in
  let LWE := sv.(rcv_left_window_edge) in
  let p := flow_fields c LWE p in
  let t := pdu_type p in
  ret (if t =? PDU_TYPE_ACK_AND_FC then
         let '(r, p) := pdu_set E.(dt) p A_ACK_SEQ_NUM LWE in
         if negb (r =? 0) then (-1, p)
         else let '(r, p) := pdu_set E.(dt) p A_LAST_SEQ_NUM_RCVD cv.(last_rcv_ctl_seq) in
              if negb (r =? 0) then (-1, p) else (0, p)
       else if t =? PDU_TYPE_ACK then
         let '(r, p) := pdu_set E.(dt) p A_ACK_SEQ_NUM LWE in
         if negb (r =? 0) then (-1, p) else (0, p)
       else if (t =? PDU_TYPE_NACK_AND_FC) || (t =? PDU_TYPE_NACK) then
         let '(r, p) := pdu_set E.(dt) p A_ACK_SEQ_NUM (u32 (LWE + 1)) in
         if negb (r =? 0) then (-1, p) else (0, p)
       else if (t =? PDU_TYPE_RENDEZVOUS) || (t =? PDU_TYPE_CACK) then
         let '(r, p) := pdu_set E.(dt) p A_LAST_SEQ_NUM_RCVD cv.(last_rcv_ctl_seq) in
         if negb (r =? 0) then (-1, p) else (0, p)
       else (0, p)).

Definition pdu_ctrl_generate (type : Z) : M (option pdu) :=
  let! mem := ask in
  if negb mem then ret None
  else
    let du := mk_pdu E.(fresh_header) [] in
    let! seq := next_snd_ctl_seq in
    let! d := get_dtp in
    let k := d.(dtp_connection) in
    let '(r, du) := pdu_format E.(dt) du k.(source_cep_id) k.(destination_cep_id)
      k.(source_address) k.(destination_address) seq k.(conn_qos_id) 0
      (pci_calculate_size (config_of E.(dt)) type) type in
    if negb (r =? 0) then du_destroy du ;;; ret None
    else
      let! (r, du) := populate_ctrl_pci du in
      if negb (r =? 0) then du_destroy du ;;; ret None
      else ret (Some du).

Definition add_in_transit (n : Z) : M unit :=
  mod_dtcp (fun c => set_cpdus_in_transit (s32 (c.(cpdus_in_transit) + n)) c).

(** A PDU that could not be sent directly was destroyed by [dtp_pdu_send]. *)
Definition ctrl_pdu_send (type : Z) (direct : bool) : M Z :=
  let! du := pdu_ctrl_generate type in
  match du with
  | None => add_in_transit (-1) ;;; ret (-1)
  | Some du =>
      let! r := (if direct then dtp_pdu_send du else dtcp_pdu_send du) in
      if negb (r =? 0) then
        add_in_transit (-1) ;;; (if direct then fault else du_destroy du) ;;; ret (-1)
      else add_in_transit (-1) ;;; ret 0
  end.

(** Arming the timer of the rendezvous at the receiver. *)
Definition rendezvous_rcv_start (ms : Z) : M unit :=
  mod_dtcp (fun c => set_t_rendezvous_rcv
    (snd (rtimer_start E.(HZ) E.(jiffies) c.(t_rendezvous_rcv) ms)) c).

(** The expiry of that timer. *)
Definition tf_rendezvous_rcv : M unit :=
  mod_dtcp (set_t_rendezvous_rcv None) ;;;
  let! c := get_csv in
  let! sv := get_sv in
  whenb c.(rendezvous_rcvr)
    (add_in_transit 1 ;;; ctrl_pdu_send PDU_TYPE_FC true ;;;
     rendezvous_rcv_start (E.(jiffies_to_msecs) sv.(sv_tr))).

Definition pdu_ctrl_type_get (seq : Z) : M Z :=
  let! c := get_dtcp in
  let! sv := get_sv in
  let LWE := sv.(rcv_left_window_edge) in
  if c.(dtcp_sv_of).(last_snd_data_ack) <? LWE then
    mod_csv (set_last_snd_data_ack LWE) ;;;
    ret (if c.(dtcp_ps_of).(ps_flow_ctrl) then PDU_TYPE_ACK_AND_FC else PDU_TYPE_ACK)
  else ret 0.

Definition dtcp_ack_flow_control_pdu_send (seq : Z) : M Z :=
  add_in_transit 1 ;;;
  let! type := pdu_ctrl_type_get seq in
  if type =? 0 then add_in_transit (-1) ;;; ret 0
  else ctrl_pdu_send type false.

Definition dtcp_rendezvous_pdu_send : M Z :=
  add_in_transit 1 ;;; ctrl_pdu_send PDU_TYPE_RENDEZVOUS true.

(** ** Policies of the receiving side *)

Definition default_rcvr_ack (pci : pdu) : M Z := dtcp_ack_flow_control_pdu_send (pdu_sn pci).
Definition default_rcvr_ack_atimer (pci : pdu) : M Z := ret 0.

Definition rcvr_ack (pci : pdu) : M Z :=
  if E.(config_rcvr_ack) then default_rcvr_ack pci else default_rcvr_ack_atimer pci.

Definition default_receiving_flow_control (pci : pdu) : M Z :=
  let! du := pdu_ctrl_generate PDU_TYPE_FC in
  match du with
  | None => ret (-1)
  | Some du => let! r := dtcp_pdu_send du in if negb (r =? 0) then ret (-1) else ret 0
  end.

Definition default_rcvr_flow_control (pci : pdu) : M Z :=
  let! sv := get_sv in
  mod_csv (fun c => set_rcvr_rt_wind_edge (u32 (sv.(rcv_left_window_edge) + c.(rcvr_credit))) c) ;;;
  ret 0.

Definition default_rate_reduction (pci : pdu) : M Z :=
  let rt := pci.(attr) A_SNDR_RATE in
  let tf := pci.(attr) A_TIME_FRAME in
  if (rt =? 0) || (tf =? 0) then ret 0
  else mod_csv (fun c => set_time_unit tf (set_rcvr_rate rt (set_sndr_rate rt c))) ;;; ret 0.

Definition dtcp_sv_update (pci : pdu) : M Z :=
  let! c := get_dtcp in
  let ps := c.(dtcp_ps_of) in
  let! (retval, done) :=
    (if ps.(ps_flow_ctrl) then
       let! r1 := (if ps.(ps_window_based) then default_rcvr_flow_control pci else ret 0) in
       let! r2 := (if ps.(ps_rate_based) then default_rate_reduction pci else ret 0) in
       let! r3 := (if negb ps.(ps_rtx_ctrl) then default_receiving_flow_control pci else ret 0) in
       ret (if (r1 =? 0) && (r2 =? 0) && (r3 =? 0) then 0 else -1, negb ps.(ps_rtx_ctrl))
     else ret (0, false)) in
  if (done : bool) then ret retval
  else if ps.(ps_rtx_ctrl) then
    let! r := rcvr_ack pci in
    ret (if negb (r =? 0) then -1 else retval)
  else ret retval.

(** ** Policies of the sending side *)

Definition default_sender_ack (seq_num : Z) : M Z :=
  let! c := get_dtcp in
  if c.(dtcp_ps_of).(ps_rtx_ctrl) then
    let! d := get_dtp in
    match d.(dtp_rtxq) with
    | None => ret (-1)
    | Some _ => rtxq_ack E seq_num d.(dtp_sv_of).(sv_tr) ;;;
                mod_csv (set_snd_lft_win (u32 (seq_num + 1))) ;;; ret 0
    end
  else ret 0.

Definition rtt_calculation (start_time : Z) : M Z :=
  let new_sample := E.(jiffies_to_msecs) (u64 (E.(jiffies) - start_time)) in
  let! c := get_csv in
  let! sv := get_sv in
  let '(rtt', rttvar', srtt') :=
    if c.(rtt) =? 0 then (new_sample, Z.shiftr new_sample 1, new_sample)
    else
      let rtt' := Z.shiftr (u32 (c.(rtt) * 112 + u32 (Z.shiftl new_sample 4))) 7 in
      let abs := s32 (c.(srtt) - new_sample) in
      let abs := if abs <? 0 then s32 (- abs) else abs in
      (rtt', u32 (Z.shiftr (u32 (3 * c.(rttvar))) 2 + Z.shiftr (u32 abs) 2), c.(srtt)) in
  let trmsecs := u32 (Z.shiftl rttvar' 2) in
  let trmsecs := if trmsecs <? 100 then 100 else trmsecs in
  let trmsecs := u32 (trmsecs + srtt' + E.(jiffies_to_msecs) sv.(sv_A)) in
  mod_csv (fun c => set_srtt srtt' (set_rttvar rttvar' (set_rtt rtt' c))) ;;;
  mod_sv (set_sv_tr (u32 (E.(msecs_to_jiffies) trmsecs))) ;;;
  ret 0.

Definition default_rtt_estimator (sn : Z) : M Z :=
  let! ts := rtxq_entry_timestamp sn in
  let start_time := u32 ts in
  if start_time =? 0 then ret 0
  else if start_time =? u32 (-1) then ret (-1)
  else rtt_calculation start_time ;;; ret 0.

Definition default_rtt_estimator_nortx (sn : Z) : M Z :=
  let! d := get_dtp in
  let start_time :=
    u32 (match d.(dtp_rttq) with None => 0 | Some q => rttqueue_entry_timestamp q sn end) in
  if start_time =? 0 then ret 0
  else rtt_calculation start_time ;;; ret 0.

Definition default_lost_control_pdu : M Z := ret 0.

Definition default_rcvr_rendezvous (pci : pdu) : M Z :=
  let! sv := get_sv in
  let! _ := get_csv in
  whenb sv.(window_based)
    (mod_csv (fun c => set_rcvr_rt_wind_edge (u32 (pci.(attr) A_MY_LEFT_WIND_EDGE + c.(rcvr_credit))) c)) ;;;
  mod_csv (set_rendezvous_rcvr true) ;;;
  let! c := get_csv in
  whenb (negb (c.(rcvr_credit) =? 0)) (rendezvous_rcv_start (E.(jiffies_to_msecs) sv.(sv_tr))) ;;;
  add_in_transit 1 ;;;
  ctrl_pdu_send PDU_TYPE_FC true.

(** ** Reception of control PDUs *)

Definition push_pdus_rmt : M Z :=
  let! d := get_dtp in
  match d.(dtp_cwq) with
  | None => ret (-1)
  | Some _ => cwq_deliver E ;;; ret 0
  end.

Definition rcv_nack_ctl (du : pdu) : M Z :=
  let! c := get_dtcp in
  let! sv := get_sv in
  let seq_num := du.(attr) A_ACK_SEQ_NUM in
  if c.(dtcp_ps_of).(ps_rtx_ctrl) then
    let! d := get_dtp in
    match d.(dtp_rtxq) with
    | None => ret (-1)
    | Some _ => rtxq_nack E seq_num sv.(sv_tr) ;;; default_rtt_estimator seq_num ;;;
                du_destroy du ;;; ret 0
    end
  else du_destroy du ;;; ret 0.

Definition rcv_ack (du : pdu) : M Z :=
  let! c := get_dtcp in
  let seq := du.(attr) A_ACK_SEQ_NUM in
  let! stop := (if c.(dtcp_ps_of).(ps_rtx_ctrl)
                then let! r := default_rtt_estimator seq in ret (r =? -1) else ret false) in
  if (stop : bool) then ret 0
  else let! r := default_sender_ack seq in du_destroy du ;;; ret r.

Definition update_window_and_rate (du : pdu) : M Z :=
  let! c := get_dtcp in
  whenb (dtcp_window_based_fctrl c.(dtcp_cfg))
    (mod_csv (set_snd_rt_wind_edge (du.(attr) A_NEW_RT_WIND_EDGE))) ;;;
  whenb (dtcp_rate_based_fctrl c.(dtcp_cfg))
    (let rt := du.(attr) A_SNDR_RATE in
     let tf := du.(attr) A_TIME_FRAME in
     whenb (negb (tf =? 0) && negb (rt =? 0))
       (mod_csv (fun c => set_time_unit tf (set_sndr_rate rt c)))) ;;;
  let! c := get_csv in
  whenb c.(rendezvous_sndr)
    (mod_csv (set_rendezvous_sndr false) ;;; timer_stop t_rendezvous set_t_rendezvous ;;; ret tt) ;;;
  push_pdus_rmt ;;;
  du_destroy du ;;; ret 0.

Definition rcv_flow_ctl (du : pdu) : M Z :=
  let! c := get_dtcp in
  let seq := du.(attr) A_NEW_RT_WIND_EDGE in
  let sn := u32 (seq - c.(dtcp_sv_of).(sndr_credit)) in
  (if negb c.(dtcp_ps_of).(ps_rtx_ctrl) then default_rtt_estimator_nortx sn else ret 0) ;;;
  let! d := get_dtp in
  match d.(dtp_rttq) with
  | Some q => mod_dtp (set_dtp_rttq (Some (snd (rttq_drop q sn))))
  | None => ret tt
  end ;;;
  update_window_and_rate du.

Definition rcv_ack_and_flow_ctl (du : pdu) : M Z :=
  let! c := get_dtcp in
  let seq := du.(attr) A_ACK_SEQ_NUM in
  let! stop := (if c.(dtcp_ps_of).(ps_rtx_ctrl)
                then let! r := default_rtt_estimator seq in ret (r =? -1) else ret false) in
  if (stop : bool) then ret 0
  else default_sender_ack seq ;;; update_window_and_rate du.

Definition rcvr_rendezvous (du : pdu) : M Z :=
  let! r := default_rcvr_rendezvous du in du_destroy du ;;; ret r.

Definition dtcp_common_rcv_control (du : pdu) : M Z :=
  add_in_transit 1 ;;;
  let type := pdu_type du in
  if negb (pdu_type_is_control type) then add_in_transit (-1) ;;; du_destroy du ;;; ret (-1)
  else
    mod_dtp (fun d => set_dtp_connection
      (set_destination_address (du.(attr) A_SOURCE) d.(dtp_connection)) d) ;;;
    let sn := pdu_sn du in
    let! c := get_csv in
    let last_ctrl := c.(last_rcv_ctl_seq) in
    if sn <=? last_ctrl then
      (if type =? PDU_TYPE_FC then mod_csv (fun c => set_flow_ctl (u32 (c.(flow_ctl) + 1)) c)
       else if type =? PDU_TYPE_ACK then mod_csv (fun c => set_acks (u32 (c.(acks) + 1)) c)
       else if type =? PDU_TYPE_ACK_AND_FC then
         mod_csv (fun c => set_acks (u32 (c.(acks) + 1)) (set_flow_ctl (u32 (c.(flow_ctl) + 1)) c))
       else ret tt) ;;;
      du_destroy du ;;; ret 0
    else
      (if u32 (last_ctrl + 1) <? sn then default_lost_control_pdu else ret 0) ;;;
      mod_csv (set_last_rcv_ctl_seq sn) ;;;
      let! r :=
        (if type =? PDU_TYPE_ACK then rcv_ack du
         else if type =? PDU_TYPE_NACK then rcv_nack_ctl du
         else if type =? PDU_TYPE_FC then rcv_flow_ctl du
         else if type =? PDU_TYPE_ACK_AND_FC then rcv_ack_and_flow_ctl du
         else if type =? PDU_TYPE_RENDEZVOUS then rcvr_rendezvous du
         else ret (-1)) in
      add_in_transit (-1) ;;;
      dtp_send_pending_ctrl_pdus ;;;
      ret r.

(** ** The A timer *)

(** The loop of [process_A_expiration] over the sequencing queue: the entries kept
    and the last PDU posted. *)
Fixpoint a_expiration_loop (rtx : option bool) (gap a LWE : Z) (pci_ret : option pdu)
    (l : list (seq_queue_entry (D := pdu))) : M (list (seq_queue_entry (D := pdu)) * option pdu) :=
  match l with
  | [] => ret ([], pci_ret)
  | pos :: l' =>
      let du := pos.(sq_du) in
      let seq_num := pdu_sn du in
      let a_timer_expired := 0 <=? s64 (E.(jiffies) - u64 (pos.(sq_time_stamp) + a)) in
      if a_timer_expired || (u32 (seq_num - LWE - 1) <=? gap) then
        match (if a_timer_expired then rtx else Some false) with
        | None => fault
        | Some true => du_destroy du ;;; a_expiration_loop rtx gap a LWE pci_ret l'
        | Some false =>
            mod_sv (set_rcv_left_window_edge seq_num) ;;;
            ring_push_to to_post set_to_post du ;;;
            a_expiration_loop rtx gap a seq_num (Some du) l'
        end
      else ret (l, pci_ret)
  end.

Fixpoint post_loop (fuel : nat) : M unit :=
  match fuel with
  | O => fault
  | S fuel' =>
      let! d := get_dtp in
      if ringq_is_empty d.(to_post) then ret tt
      else let! du := ring_pop_from to_post set_to_post in
           match du with Some du => pdu_post du ;;; ret tt | None => ret tt end ;;;
           post_loop fuel'
  end.

(** [pci_get] of the null pointer, when nothing was posted, is a fault. *)
Definition process_A_expiration : M (option pdu) :=
  let! d := get_dtp in
  let a := E.(msecs_to_jiffies) d.(dtp_sv_of).(sv_A) in
  let rtx := (fun c => dtcp_rtx_ctrl c.(dtcp_cfg)) <$> d.(dtp_dtcp) in
  let! (kept, pci_ret) := a_expiration_loop rtx d.(dtp_ps_of).(max_sdu_gap) a
    d.(dtp_sv_of).(rcv_left_window_edge) None d.(dtp_seqq) in
  mod_dtp (set_dtp_seqq kept) ;;;
  match pci_ret with
  | None => fault
  | Some _ =>
      let! d := get_dtp in
      post_loop (Datatypes.S (Z.to_nat d.(to_post).(occupation))) ;;;
      ret pci_ret
  end.

Definition default_sending_ack (seq : Z) : M Z :=
  let! _ := get_dtcp in
  let! pci := process_A_expiration in
  match pci with
  | None => ret 0
  | Some pci => dtcp_sv_update pci
  end.

Definition dtcp_sending_ack_policy : M Z := default_sending_ack 0.

(** ** Initialisation *)

Definition default_dtcp_sv : dtcp_sv :=
  mk_dtcp_sv 0 0 0 0 0 0 0 0 1 100 0 0 1 100 0 0 0 0 0 0 0 0 0 false false.

(** [dtcp_sv_init] on the state vector; [seq] is the [seq_nr_to_send] of the DTP. *)
Definition dtcp_sv_init (sv : dtcp_sv) (ps : dtcp_ps) (seq : Z) : dtcp_sv :=
  let drm := if ps.(ps_rtx_ctrl) then ps.(ps_data_retransmit_max) else sv.(data_retransmit_max) in
  let w := ps.(ps_flow_ctrl) && ps.(ps_window_based) in
  let r := ps.(ps_flow_ctrl) && ps.(ps_rate_based) in
  let credit := ps.(ps_initial_credit) in
  mk_dtcp_sv sv.(pdus_per_time_unit) sv.(EfcpState.next_snd_ctl_seq) sv.(last_rcv_ctl_seq)
    sv.(last_snd_data_ack) sv.(snd_lft_win) drm sv.(last_rcv_data_ack)
    (if r then ps.(ps_time_period) else sv.(time_unit))
    (if w then credit else sv.(sndr_credit))
    (if w then u32 (credit + seq) else sv.(snd_rt_wind_edge))
    (if r then ps.(ps_sending_rate) else sv.(sndr_rate)) sv.(pdus_sent_in_time_unit)
    (if w then credit else sv.(rcvr_credit))
    (if w then credit else sv.(rcvr_rt_wind_edge))
    (if r then ps.(ps_sending_rate) else sv.(rcvr_rate)) sv.(pdus_rcvd_in_time_unit)
    sv.(last_time_sec) sv.(last_time_nsec) sv.(acks) sv.(flow_ctl) sv.(rtt) sv.(srtt)
    sv.(rttvar) sv.(rendezvous_sndr) sv.(rendezvous_rcvr).
End Dtcp.

(** ** Control PDUs with everything granted *)

Lemma get_csv_run s c : s.(st_dtp).(dtp_dtcp) = Some c -> get_csv s = Some (c.(dtcp_sv_of), s).
Proof. unfold get_csv, bind, get_dtcp. by intros ->. Qed.

Lemma get_dtcp_run s c : s.(st_dtp).(dtp_dtcp) = Some c -> get_dtcp s = Some (c, s).
Proof. unfold get_dtcp. by intros ->. Qed.

Lemma pdu_set_other d p a v b : b <> a -> attr (snd (pdu_set d p a v)) b = attr p b.
Proof.
  intros Hb. unfold pdu_set. destruct (attr_slot _ _ _) as [[f w]|]; [|done].
  cbn. by rewrite decide_False.
Qed.

Lemma pdu_set_same d p a v f w :
  attr_slot d (pdu_type p) a = Some (f, w) ->
  fst (pdu_set d p a v) = 0 /\ attr (snd (pdu_set d p a v)) a = attr_cast a (uwrap (8 * w) v).
Proof.
  intros Hs. unfold pdu_set. rewrite Hs. cbn. by rewrite decide_True.
Qed.

Lemma pdu_set_type d p a v : a <> A_TYPE -> pdu_type (snd (pdu_set d p a v)) = pdu_type p.
Proof. intros Ha. unfold pdu_type. by apply pdu_set_other. Qed.

Section DtcpFacts.
Context (E : env).
Hypothesis dt_seq : E.(dt).(seq_num_length) = 4.

(** What the control of a connection leaves alone on the receiving side: the window
    it announces included. *)
Definition ctrl_frame (s s' : st) : Prop :=
  same_receiver s s' /\ (s.(st_oracle) = [] -> s'.(st_oracle) = []) /\
  forall c, s.(st_dtp).(dtp_dtcp) = Some c -> exists c', s'.(st_dtp).(dtp_dtcp) = Some c' /\
    c'.(dtcp_cfg) = c.(dtcp_cfg) /\ c'.(dtcp_ps_of) = c.(dtcp_ps_of) /\
    c'.(dtcp_sv_of).(rcvr_credit) = c.(dtcp_sv_of).(rcvr_credit) /\
    c'.(dtcp_sv_of).(rcvr_rt_wind_edge) = c.(dtcp_sv_of).(rcvr_rt_wind_edge).

#[export] Instance ctrl_frame_PreOrder : PreOrder ctrl_frame.
Proof.
  split.
  - intros s. split_and!; [done|done|]. intros c Hc. by exists c.
  - intros a b c (R1 & O1 & C1) (R2 & O2 & C2). split_and!; [by etrans|auto|].
    intros x Hx. destruct (C1 x Hx) as (y & Hy & ? & ? & ? & ?).
    destruct (C2 y Hy) as (z & Hz & ? & ? & ? & ?). exists z. split_and!; congruence.
Qed.

Lemma ctrl_frame_csv f s c :
  s.(st_dtp).(dtp_dtcp) = Some c ->
  (f c.(dtcp_sv_of)).(rcvr_credit) = c.(dtcp_sv_of).(rcvr_credit) ->
  (f c.(dtcp_sv_of)).(rcvr_rt_wind_edge) = c.(dtcp_sv_of).(rcvr_rt_wind_edge) ->
  ctrl_frame s (set_st_dtp (set_dtp_dtcp (Some (set_dtcp_sv_of (f c.(dtcp_sv_of)) c)) s.(st_dtp)) s).
Proof.
  intros Hc H1 H2. split_and!; [by repeat split|done|].
  intros c' Hc'. rewrite Hc in Hc'. injection Hc' as <-. eexists. split; [reflexivity|]. done.
Qed.

Lemma add_in_transit_run n s c :
  s.(st_dtp).(dtp_dtcp) = Some c ->
  exists s', add_in_transit n s = Some (tt, s') /\ ctrl_frame s s' /\
    s'.(st_dtp).(to_send) = s.(st_dtp).(to_send) /\ s'.(st_log) = s.(st_log).
Proof.
  intros Hc. unfold add_in_transit, mod_dtcp. rewrite Hc. eexists. split; [reflexivity|].
  split_and!; try done. split_and!; [by repeat split|done|].
  intros c' Hc'. rewrite Hc in Hc'. injection Hc' as <-. eexists. split; [reflexivity|]. done.
Qed.

(** The acknowledgement fields. *)
Lemma flow_fields_type c LWE p : pdu_type (flow_fields E c LWE p) = pdu_type p.
Proof.
  unfold flow_fields. destruct (dtcp_flow_ctrl _); [|done].
  destruct (dtcp_window_based_fctrl _), (dtcp_rate_based_fctrl _);
    by rewrite ?pdu_set_type.
Qed.

Definition is_ack (t : Z) : Prop := t = PDU_TYPE_ACK \/ t = PDU_TYPE_ACK_AND_FC.

Lemma populate_ack p s c :
  s.(st_dtp).(dtp_dtcp) = Some c -> is_ack (pdu_type p) ->
  in_u 32 s.(st_dtp).(dtp_sv_of).(rcv_left_window_edge) ->
  exists p', populate_ctrl_pci E p s = Some ((0, p'), s) /\ pdu_type p' = pdu_type p /\
    attr p' A_ACK_SEQ_NUM = s.(st_dtp).(dtp_sv_of).(rcv_left_window_edge).
Proof.
  intros Hc Ht Hlwe. unfold populate_ctrl_pci. erewrite run_bind by by apply get_dtcp_run.
  unfold get_sv. erewrite run_bind by reflexivity. cbv zeta.
  set (LWE := rcv_left_window_edge (dtp_sv_of (st_dtp s))) in *.
  set (q := flow_fields E c LWE p). assert (pdu_type q = pdu_type p) as Hq by apply flow_fields_type.
  assert (exists f, attr_slot (dt E) (pdu_type q) A_ACK_SEQ_NUM = Some (f, 4)) as [f Hs].
  { rewrite Hq, <- dt_seq. destruct Ht as [->| ->]; eexists; reflexivity. }
  destruct (pdu_set_same (dt E) q A_ACK_SEQ_NUM LWE f 4 Hs) as [H0 Hv].
  assert (attr_cast A_ACK_SEQ_NUM (uwrap (8 * 4) LWE) = LWE) as Hcast
    by (change (8 * 4) with 32; cbn [attr_cast]; rewrite uwrap_uwrap; by apply uwrap_small).
  pose proof (pdu_set_type (dt E) q A_ACK_SEQ_NUM LWE) as Hty.
  destruct (pdu_set (dt E) q A_ACK_SEQ_NUM LWE) as [r q1] eqn:E1. cbn [fst snd] in H0, Hv, Hty. subst r.
  rewrite Hcast in Hv. rewrite Hq. destruct Ht as [Ht|Ht]; rewrite Ht.
  - exists q1. cbn. split; [done|]. split; [rewrite Hty, Hq by done; done|done].
  - cbn [Z.eqb negb].
    assert (exists f, attr_slot (dt E) (pdu_type q1) A_LAST_SEQ_NUM_RCVD = Some (f, 4)) as [g Hg].
    { rewrite Hty, Hq, Ht, <- dt_seq by done. eexists; reflexivity. }
    destruct (pdu_set_same (dt E) q1 A_LAST_SEQ_NUM_RCVD (last_rcv_ctl_seq (dtcp_sv_of c)) g 4 Hg)
      as [K0 _].
    pose proof (pdu_set_type (dt E) q1 A_LAST_SEQ_NUM_RCVD (last_rcv_ctl_seq (dtcp_sv_of c))) as Kty.
    pose proof (pdu_set_other (dt E) q1 A_LAST_SEQ_NUM_RCVD (last_rcv_ctl_seq (dtcp_sv_of c))
      A_ACK_SEQ_NUM) as Ko.
    destruct (pdu_set (dt E) q1 A_LAST_SEQ_NUM_RCVD _) as [r q2] eqn:E2. cbn [fst snd] in K0, Kty, Ko. subst r.
    exists q2. cbn. split; [done|]. rewrite Kty, Ko, Hty, Hq by done. done.
Qed.

(** The acknowledgement of a state: of one of the two types, with its left window
    edge. *)
Definition ack_of (LWE : Z) (p : pdu) : Prop := is_ack (pdu_type p) /\ attr p A_ACK_SEQ_NUM = LWE.

Lemma next_snd_ctl_seq_run s c :
  s.(st_dtp).(dtp_dtcp) = Some c ->
  exists n s', next_snd_ctl_seq s = Some (n, s') /\ ctrl_frame s s' /\
    s'.(st_dtp).(to_send) = s.(st_dtp).(to_send) /\ s'.(st_log) = s.(st_log).
Proof.
  intros Hc. unfold next_snd_ctl_seq. erewrite run_bind by by apply mod_csv_run.
  eexists _, _. split; [reflexivity|]. split; [|done].
  apply (ctrl_frame_csv (fun c => set_next_snd_ctl_seq (u32 (EfcpState.next_snd_ctl_seq c + 1)) c)); done.
Qed.

Lemma pdu_ctrl_generate_ack t s c :
  s.(st_oracle) = [] -> s.(st_dtp).(dtp_dtcp) = Some c -> is_ack t ->
  in_u 32 s.(st_dtp).(dtp_sv_of).(rcv_left_window_edge) ->
  exists du s', pdu_ctrl_generate E t s = Some (Some du, s') /\ ctrl_frame s s' /\
    s'.(st_dtp).(to_send) = s.(st_dtp).(to_send) /\ s'.(st_log) = s.(st_log) /\
    ack_of s.(st_dtp).(dtp_sv_of).(rcv_left_window_edge) du.
Proof.
  intros Ho Hc Ht Hlwe. unfold pdu_ctrl_generate.
  erewrite run_bind by by apply ask_granted. cbn [negb].
  destruct (next_snd_ctl_seq_run s c Hc) as (n & s1 & Hn & F1 & S1 & L1).
  erewrite run_bind by exact Hn. unfold get_dtp. erewrite run_bind by reflexivity.
  unfold pdu_format. cbn [negb Z.eqb]. set (p := mk_pdu _ _).
  destruct (F1) as ((_ & _ & _ & Hl & _) & _ & Hc1). destruct (Hc1 c Hc) as (c1 & Ec1 & _).
  assert (pdu_type p = t) as Hp by (destruct Ht as [->| ->]; reflexivity).
  destruct (populate_ack p s1 c1 Ec1) as (p' & Hpop & Hty & Hack);
    [by rewrite Hp|by rewrite Hl|].
  erewrite run_bind by exact Hpop. exists p', s1. split_and!; try done.
  split; [by rewrite Hty, Hp|congruence].
Qed.

Lemma dtcp_pdu_send_run du s c l :
  s.(st_dtp).(dtp_dtcp) = Some c -> ringq_holds s.(st_dtp).(to_send) l ->
  Z.of_nat (length l) < s.(st_dtp).(to_send).(rg_length) ->
  exists s', dtcp_pdu_send du s = Some (0, s') /\ ctrl_frame s s' /\
    ringq_holds s'.(st_dtp).(to_send) (l ++ [du]) /\ s'.(st_log) = s.(st_log).
Proof.
  intros Hc Hh Hl. destruct (ringq_push_holds _ _ du Hh Hl) as (q' & Hp & Hq & _).
  unfold dtcp_pdu_send. erewrite run_bind by by apply get_dtcp_run.
  unfold dtp_pdu_ctrl_send, ring_push_to, get_dtp. erewrite run_bind by reflexivity.
  rewrite Hp. eexists. split; [reflexivity|]. split; [|by split].
  split; [by repeat split|]. split; [done|]. intros c' Hc'. by exists c'.
Qed.

Lemma ctrl_pdu_send_ack t s c :
  s.(st_oracle) = [] -> s.(st_dtp).(dtp_dtcp) = Some c -> is_ack t ->
  in_u 32 s.(st_dtp).(dtp_sv_of).(rcv_left_window_edge) ->
  ringq_holds s.(st_dtp).(to_send) [] ->
  exists du s', ctrl_pdu_send E t false s = Some (0, s') /\ ctrl_frame s s' /\
    ringq_holds s'.(st_dtp).(to_send) [du] /\ s'.(st_log) = s.(st_log) /\
    ack_of s.(st_dtp).(dtp_sv_of).(rcv_left_window_edge) du.
Proof.
  intros Ho Hc Ht Hlwe Hh.
  destruct (pdu_ctrl_generate_ack t s c Ho Hc Ht Hlwe) as (du & s1 & Hg & F1 & S1 & L1 & Hack).
  destruct (F1) as (_ & _ & Hc1). destruct (Hc1 c Hc) as (c1 & Ec1 & _).
  destruct (dtcp_pdu_send_run du s1 c1 [] Ec1) as (s2 & Hsend & F2 & Hh2 & L2);
    [by rewrite S1|rewrite S1; destruct Hh as (_ & _ & _ & ? & _); cbn; lia|].
  destruct (F2) as (_ & _ & Hc2). destruct (Hc2 c1 Ec1) as (c2 & Ec2 & _).
  destruct (add_in_transit_run (-1) s2 c2 Ec2) as (s3 & Hadd & F3 & S3 & L3).
  exists du, s3. split; [|split; [by etrans; [exact F1|]; etrans|by rewrite S3, L3, L2]].
  unfold ctrl_pdu_send. erewrite run_bind by exact Hg. cbv iota.
  erewrite run_bind by exact Hsend. cbn [negb Z.eqb]. by erewrite run_bind by exact Hadd.
Qed.

(** The control PDUs waiting are all sent. *)
Lemma send_pending_loop_run fuel s c l :
  s.(st_oracle) = [] -> s.(st_dtp).(dtp_dtcp) = Some c ->
  ringq_holds s.(st_dtp).(to_send) l -> (length l < fuel)%nat ->
  exists s', send_pending_loop fuel s = Some (tt, s') /\ ctrl_frame s s' /\
    ringq_holds s'.(st_dtp).(to_send) [] /\
    transmitted s'.(st_log) = transmitted s.(st_log) ++ l.
Proof.
  revert s c l. induction fuel as [|fuel IH]; intros s c l Ho Hc Hh Hf; [lia|].
  cbn [send_pending_loop]. unfold get_dtp. erewrite run_bind by reflexivity.
  unfold ringq_is_empty. destruct (Hh) as (_ & Hocc & _). rewrite Hocc.
  destruct l as [|p l]; cbn [length].
  - exists s. rewrite app_nil_r. by split_and!.
  - rewrite (proj2 (Z.eqb_neq _ _)) by lia.
    destruct (ringq_pop_holds _ _ _ Hh) as (q' & Hpop & Hq & _).
    set (s1 := set_st_dtp (set_to_send q' s.(st_dtp)) s).
    erewrite run_bind; [|unfold ring_pop_from, get_dtp; erewrite run_bind by reflexivity;
      rewrite Hpop; reflexivity]. fold s1.
    destruct (dtp_pdu_send_granted s1 c p Ho Hc) as (e & Hsend & Htr & Hpo).
    set (s2 := set_st_log (s1.(st_log) ++ [e]) s1) in *.
    erewrite run_bind; [|erewrite run_bind by exact Hsend; reflexivity].
    destruct (IH s2 c l) as (s' & Hrun & F & Hh' & Ht); [done|done|exact Hq|cbn in Hf; lia|].
    exists s'. split; [exact Hrun|]. split; [|split; [done|]].
    + etrans; [|exact F]. split; [|split; [done|intros c' Hc'; by exists c']].
      repeat split. change (st_log s2) with (s.(st_log) ++ [e]). by rewrite posted_app, Hpo, app_nil_r.
    + rewrite Ht. change (st_log s2) with (s.(st_log) ++ [e]).
      rewrite transmitted_app, Htr, <- app_assoc. done.
Qed.

Lemma dtp_send_pending_run s c l :
  s.(st_oracle) = [] -> s.(st_dtp).(dtp_dtcp) = Some c -> ringq_holds s.(st_dtp).(to_send) l ->
  exists s', dtp_send_pending_ctrl_pdus s = Some (tt, s') /\ ctrl_frame s s' /\
    ringq_holds s'.(st_dtp).(to_send) [] /\
    transmitted s'.(st_log) = transmitted s.(st_log) ++ l.
Proof.
  intros Ho Hc Hh. unfold dtp_send_pending_ctrl_pdus, get_dtp. erewrite run_bind by reflexivity.
  destruct (Hh) as (_ & Hocc & _). eapply send_pending_loop_run; try done. rewrite Hocc. lia.
Qed.

(** The acknowledgement policy: at most one acknowledgement, of the left window edge. *)
Lemma rcvr_ack_run pci s c :
  s.(st_oracle) = [] -> s.(st_dtp).(dtp_dtcp) = Some c ->
  in_u 32 s.(st_dtp).(dtp_sv_of).(rcv_left_window_edge) ->
  ringq_holds s.(st_dtp).(to_send) [] ->
  exists out s', rcvr_ack E pci s = Some (0, s') /\ ctrl_frame s s' /\
    ringq_holds s'.(st_dtp).(to_send) out /\ s'.(st_log) = s.(st_log) /\
    Forall (ack_of s.(st_dtp).(dtp_sv_of).(rcv_left_window_edge)) out.
Proof.
  intros Ho Hc Hlwe Hh. unfold rcvr_ack. destruct (config_rcvr_ack E); [|by exists [], s].
  unfold default_rcvr_ack, dtcp_ack_flow_control_pdu_send.
  destruct (add_in_transit_run 1 s c Hc) as (s1 & Hadd & F1 & S1 & L1).
  erewrite run_bind by exact Hadd.
  destruct (F1) as ((_ & _ & _ & Hl1 & _) & Ho1 & Hc1). destruct (Hc1 c Hc) as (c1 & Ec1 & _).
  unfold pdu_ctrl_type_get. unfold bind at 1. erewrite run_bind by by apply get_dtcp_run.
  unfold get_sv. erewrite run_bind by reflexivity.
  destruct (_ <? _).
  - erewrite run_bind by by apply mod_csv_run. set (s2 := set_st_dtp _ s1).
    assert (ctrl_frame s1 s2) as F2 by by apply (ctrl_frame_csv (set_last_snd_data_ack _)).
    cbn [ret]. set (t := if ps_flow_ctrl (dtcp_ps_of c1) then _ else _).
    assert (is_ack t) as Ht by (unfold t; destruct (ps_flow_ctrl _); [by right|by left]).
    replace (t =? 0) with false by (by destruct Ht as [->| ->]).
    destruct (ctrl_pdu_send_ack t s2 (set_dtcp_sv_of (set_last_snd_data_ack
      (rcv_left_window_edge (dtp_sv_of (st_dtp s1))) c1.(dtcp_sv_of)) c1)) as
      (du & s3 & Hsend & F3 & Hh3 & L3 & Hack); [by apply Ho1|done|done| | |].
    { change (in_u 32 (rcv_left_window_edge (dtp_sv_of (st_dtp s1)))). by rewrite Hl1. }
    { change (to_send (st_dtp s2)) with (to_send (st_dtp s1)). by rewrite S1. }
    exists [du], s3. split; [exact Hsend|].
    split; [etrans; [exact F1|]; by etrans|]. split; [done|].
    split; [rewrite L3; exact L1|]. constructor; [|done].
    change (rcv_left_window_edge (dtp_sv_of (st_dtp s2))) with
      (rcv_left_window_edge (dtp_sv_of (st_dtp s1))) in Hack. by rewrite Hl1 in Hack.
  - cbn [ret]. change (0 =? 0) with true. cbv iota.
    destruct (add_in_transit_run (-1) s1 c1 Ec1) as (s2 & Hadd2 & F2 & S2 & L2).
    erewrite run_bind by exact Hadd2. exists [], s2. split; [done|].
    split; [by etrans|]. rewrite S2, S1, L2, L1. by split_and!.
Qed.

(** The update of the state vector for a PDU received, with retransmission control. *)
Lemma dtcp_sv_update_rtx pci s c :
  s.(st_oracle) = [] -> s.(st_dtp).(dtp_dtcp) = Some c -> c.(dtcp_ps_of).(ps_rtx_ctrl) = true ->
  in_u 32 s.(st_dtp).(dtp_sv_of).(rcv_left_window_edge) ->
  ringq_holds s.(st_dtp).(to_send) [] ->
  exists out s' c', dtcp_sv_update E pci s = Some (0, s') /\ same_receiver s s' /\
    s'.(st_oracle) = [] /\ s'.(st_log) = s.(st_log) /\ s'.(st_dtp).(dtp_dtcp) = Some c' /\
    c'.(dtcp_cfg) = c.(dtcp_cfg) /\ c'.(dtcp_ps_of) = c.(dtcp_ps_of) /\
    c'.(dtcp_sv_of).(rcvr_credit) = c.(dtcp_sv_of).(rcvr_credit) /\
    (c.(dtcp_ps_of).(ps_flow_ctrl) = true -> c.(dtcp_ps_of).(ps_window_based) = true ->
     c'.(dtcp_sv_of).(rcvr_rt_wind_edge) =
       u32 (s.(st_dtp).(dtp_sv_of).(rcv_left_window_edge) + c.(dtcp_sv_of).(rcvr_credit))) /\
    ringq_holds s'.(st_dtp).(to_send) out /\
    Forall (ack_of s.(st_dtp).(dtp_sv_of).(rcv_left_window_edge)) out.
Proof.
  intros Ho Hc Hrtx Hlwe Hh. unfold dtcp_sv_update.
  erewrite run_bind by by apply get_dtcp_run. rewrite Hrtx. cbn [negb].
  set (LWE := rcv_left_window_edge (dtp_sv_of (st_dtp s))) in *.
  set (ps := dtcp_ps_of c) in *.
  (* the window and the rates *)
  assert (exists s1 c1, (if ps_flow_ctrl ps then
       let! r1 := (if ps_window_based ps then default_rcvr_flow_control pci else ret 0) in
       let! r2 := (if ps_rate_based ps then default_rate_reduction pci else ret 0) in
       let! r3 := ret 0 in
       ret (if (r1 =? 0) && (r2 =? 0) && (r3 =? 0) then 0 else -1, false)
     else ret (0, false)) s = Some ((0, false), s1) /\ same_receiver s s1 /\
     s1.(st_oracle) = [] /\ s1.(st_log) = s.(st_log) /\
     s1.(st_dtp).(to_send) = s.(st_dtp).(to_send) /\ s1.(st_dtp).(dtp_dtcp) = Some c1 /\
     c1.(dtcp_cfg) = c.(dtcp_cfg) /\ c1.(dtcp_ps_of) = ps /\
     c1.(dtcp_sv_of).(rcvr_credit) = c.(dtcp_sv_of).(rcvr_credit) /\
     (ps_flow_ctrl ps = true -> ps_window_based ps = true ->
      c1.(dtcp_sv_of).(rcvr_rt_wind_edge) = u32 (LWE + c.(dtcp_sv_of).(rcvr_credit))))
    as (s1 & c1 & Hfc & R1 & O1 & L1 & S1 & Ec1 & C1 & C2 & C3 & C4).
  { unfold default_rcvr_flow_control, default_rate_reduction, mod_csv, mod_dtcp, get_sv, gets,
      bind, ret. destruct s as [[] o lg]. cbn in Hc. subst. cbn in Ho. subst o.
    destruct (ps_flow_ctrl ps), (ps_window_based ps), (ps_rate_based ps); cbn;
      try destruct (_ || _); cbn; eexists _, _; split; try reflexivity; by repeat split. }
  erewrite run_bind by exact Hfc. cbv iota.
  destruct (rcvr_ack_run pci s1 c1 O1 Ec1) as (out & s2 & Hack & F2 & Hh2 & L2 & Hall);
    [destruct R1 as (_ & _ & _ & -> & _); done|by rewrite S1|].
  erewrite run_bind by exact Hack. cbn [negb Z.eqb].
  destruct F2 as (R2 & O2 & Hc2). destruct (Hc2 c1 Ec1) as (c2 & Ec2 & D1 & D2 & D3 & D4).
  exists out, s2, c2. split; [done|]. split; [by etrans|]. split; [auto|].
  do 5 (split; [congruence|]). split; [intros; rewrite D4; auto|]. split; [done|].
  destruct R1 as (_ & _ & _ & E1 & _). fold LWE in E1. by rewrite E1 in Hall.
Qed.

(** A control PDU that was received before, or is older than the last one, is
    counted and destroyed: it moves no window, acknowledges nothing and sends nothing.
    The count of control PDUs in transit, which the function raised, is not lowered
    again. *)
Theorem dtcp_duplicate_control (du : pdu) (s : st) (c : dtcp) :
  s.(st_dtp).(dtp_dtcp) = Some c -> pdu_type_is_control (pdu_type du) = true ->
  pdu_sn du <= c.(dtcp_sv_of).(last_rcv_ctl_seq) ->
  exists s' c', dtcp_common_rcv_control E du s = Some (0, s') /\
    s'.(st_log) = s.(st_log) ++ [EvDestroy du] /\ same_receiver s s' /\
    s'.(st_dtp).(dtp_cwq) = s.(st_dtp).(dtp_cwq) /\ s'.(st_dtp).(dtp_rtxq) = s.(st_dtp).(dtp_rtxq) /\
    s'.(st_dtp).(dtp_sv_of) = s.(st_dtp).(dtp_sv_of) /\ s'.(st_dtp).(dtp_dtcp) = Some c' /\
    c'.(dtcp_sv_of).(snd_rt_wind_edge) = c.(dtcp_sv_of).(snd_rt_wind_edge) /\
    c'.(dtcp_sv_of).(snd_lft_win) = c.(dtcp_sv_of).(snd_lft_win) /\
    c'.(dtcp_sv_of).(rcvr_rt_wind_edge) = c.(dtcp_sv_of).(rcvr_rt_wind_edge) /\
    c'.(dtcp_sv_of).(last_rcv_ctl_seq) = c.(dtcp_sv_of).(last_rcv_ctl_seq) /\
    c'.(cpdus_in_transit) = s32 (c.(cpdus_in_transit) + 1).
Proof.
  intros Hc Ht Hsn. destruct s as [[] o lg]. cbn in Hc. subst.
  unfold dtcp_common_rcv_control, add_in_transit, mod_dtcp. unfold bind at 1. cbn [st_dtp EfcpState.dtp_dtcp].
  rewrite Ht. cbn [negb]. erewrite run_bind by reflexivity.
  erewrite run_bind by (apply get_csv_run; reflexivity).
  cbn [dtcp_sv_of set_cpdus_in_transit]. rewrite (proj2 (Z.leb_le _ _) Hsn).
  assert (forall lg, posted (lg ++ [EvDestroy du]) = posted lg) as Hp
    by (intros l; by rewrite posted_app, app_nil_r).
  destruct (pdu_type du =? PDU_TYPE_FC); [|destruct (pdu_type du =? PDU_TYPE_ACK);
    [|destruct (pdu_type du =? PDU_TYPE_ACK_AND_FC)]];
    (erewrite run_bind by reflexivity; erewrite run_bind by reflexivity;
     eexists _, _; split; [reflexivity|]; split; [reflexivity|]; split;
     [repeat split; apply Hp|by repeat split]).
Qed.

(** The estimator of the round-trip time takes its smoothed value from the first
    sample and never changes it afterwards; the retransmission time is at least a
    tenth of a second above it. *)
Theorem rtt_calculation_srtt (start : Z) (s : st) (c : dtcp) :
  s.(st_dtp).(dtp_dtcp) = Some c -> in_u 32 c.(dtcp_sv_of).(srtt) -> c.(dtcp_sv_of).(rtt) <> 0 ->
  exists s' c' tr, rtt_calculation E start s = Some (0, s') /\ s'.(st_dtp).(dtp_dtcp) = Some c' /\
    c'.(dtcp_sv_of).(srtt) = c.(dtcp_sv_of).(srtt) /\
    s'.(st_dtp).(dtp_sv_of).(sv_tr) = u32 (E.(msecs_to_jiffies) tr) /\
    (c'.(dtcp_sv_of).(rttvar) < 2 ^ 30 ->
       c'.(dtcp_sv_of).(srtt) + 4 * c'.(dtcp_sv_of).(rttvar)
         + E.(jiffies_to_msecs) s.(st_dtp).(dtp_sv_of).(sv_A) < 2 ^ 32 - 100 ->
       0 <= E.(jiffies_to_msecs) s.(st_dtp).(dtp_sv_of).(sv_A) ->
       c.(dtcp_sv_of).(srtt) + 100 <= tr).
Proof.
  intros Hc Hsr Hr. unfold rtt_calculation. erewrite run_bind by by apply get_csv_run.
  unfold get_sv. erewrite run_bind by reflexivity. rewrite (proj2 (Z.eqb_neq _ _) Hr).
  set (rtt' := Z.shiftr _ 7). set (var := u32 (_ + _)). set (tr := u32 (_ + _ + _)).
  erewrite run_bind by by apply mod_csv_run. erewrite run_bind by apply mod_sv_run.
  eexists _, _, tr. split; [reflexivity|]. split; [reflexivity|]. split; [done|]. split; [done|].
  cbn. intros Hv Hb Ha. unfold tr.
  assert (0 <= var) as Hv0 by (apply uwrap_range; lia). destruct Hsr as [Hs0 Hs1].
  rewrite (Z.shiftl_mul_pow2 var 2) by lia. change (2 ^ 2) with 4.
  rewrite (uwrap_small 32 (var * 4)) by (split; lia).
  destruct (Z.ltb_spec (var * 4) 100); rewrite uwrap_small by (split; lia); lia.
Qed.

(** When sending a waiting control PDU fails, the PDU is destroyed twice: by the
    function that failed and by [dtp_send_pending_ctrl_pdus]. *)
Theorem send_pending_destroys_twice (du : pdu) (s : st) (c : dtcp) :
  s.(st_oracle) = [false] -> s.(st_dtp).(dtp_dtcp) = Some c ->
  ringq_holds s.(st_dtp).(to_send) [du] ->
  dtp_send_pending_ctrl_pdus s = None.
Proof.
  intros Ho Hc Hh. unfold dtp_send_pending_ctrl_pdus, get_dtp. erewrite run_bind by reflexivity.
  destruct (Hh) as (_ & Hocc & _). rewrite Hocc.
  destruct (ringq_pop_holds _ _ _ Hh) as (q' & Hpop & (_ & Hocc' & _) & _).
  change (Z.to_nat (Z.of_nat (length [du]))) with 1%nat. cbn [send_pending_loop]. unfold get_dtp.
  erewrite run_bind by reflexivity. unfold ringq_is_empty. rewrite Hocc.
  change (Z.of_nat (length [du]) =? 0) with false. cbv iota.
  erewrite run_bind; [|unfold ring_pop_from, get_dtp; erewrite run_bind by reflexivity;
    rewrite Hpop; reflexivity].
  set (s1 := set_st_dtp (set_to_send q' s.(st_dtp)) s).
  assert (dtp_pdu_send du s1 = Some (-1, set_st_log (s.(st_log) ++ [EvDestroy du])
            (set_st_oracle [] s1))) as Hsend.
  { unfold dtp_pdu_send. destruct (_ =? _); cbn [negb].
    - unfold bind, ask, du_destroy, emit, modify, ret. cbn. by rewrite Ho.
    - erewrite run_bind by (apply get_dtcp_run; exact Hc).
      unfold bind, ask, du_destroy, emit, modify, ret. cbn. by rewrite Ho. }
  unfold bind at 1. erewrite run_bind by exact Hsend. reflexivity.
Qed.
End DtcpFacts.
