(* ===== verification/Dtp.v ===== *)
(** * DTP: sending and receiving data

    [dtp_write], [dtp_receive] and the timers of [src/kernel/dtp.c] with the default
    policies of [src/kernel/dtp-ps-default.c].  The theorems state what a user of a
    connection relies on: a sender with window-based flow control never has a PDU
    beyond the window in the network and loses none of those written; a receiver with
    retransmission control hands over every PDU once and in order. *)

From S2P Require Import Prelude Kucommon Pci Rds Queues EfcpState DtpUtils Dtcp.
From Stdlib Require Import ZArith Lia.
From stdpp Require Import base list numbers option.
Import Rqueue Ringq Rtimer Ordered Seqq Rtxq Rttq Cwq.
#[local] Open Scope Z_scope.
#[local] Open Scope efcp_scope.

Definition PDU_FLAGS_DATA_RUN : Z := 128.

Section Dtp.
Context (E : env).

(** ** Statistics *)

Definition stats_inc_drop : M unit := mod_sv (fun v => set_stat_drop_pdus (u32 (v.(stat_drop_pdus) + 1)) v).
Definition stats_inc_err : M unit := mod_sv (fun v => set_stat_err_pdus (u32 (v.(stat_err_pdus) + 1)) v).
Definition stats_inc_bytes_tx (n : Z) : M unit :=
  mod_sv (fun v => set_stat_tx_bytes (u32 (v.(stat_tx_bytes) + n))
                     (set_stat_tx_pdus (u32 (v.(stat_tx_pdus) + 1)) v)).
Definition stats_inc_bytes_rx (n : Z) : M unit :=
  mod_sv (fun v => set_stat_rx_bytes (u32 (v.(stat_rx_bytes) + n))
                     (set_stat_rx_pdus (u32 (v.(stat_rx_pdus) + 1)) v)).

(** ** The sending side *)

Definition window_is_closed (seq_num : Z) : M bool :=
  let! sv := get_sv in
  let! c := get_csv in
  let w_ret := sv.(window_based) && (c.(snd_rt_wind_edge) <? seq_num) in
  whenb w_ret (mod_sv (set_window_closed true)) ;;;
  let! r_ret :=
    (if sv.(rate_based) then
       let! ex := dtcp_rate_exceeded E true in
       if ex then mod_sv (set_rate_fulfiled true) ;;; ret true
       else mod_sv (set_rate_fulfiled false) ;;; ret false
     else ret false) in
  whenb r_ret (dtp_start_rate_timer E) ;;;
  ret (if w_ret && r_ret then default_reconcile_flow_conflict else w_ret || r_ret).

Definition cwq_push_m (du : pdu) : M Z :=
  let! d := get_dtp in
  match d.(dtp_cwq) with
  | None => fault
  | Some w => let! mem := ask in
              let '(r, w', freed) := cwq_push mem w du in
              mod_dtp (set_dtp_cwq (Some w')) ;;; destroy_all freed ;;; ret r
  end.

Definition default_snd_flow_control_overrun (du : pdu) : M Z :=
  let! r := cwq_push_m du in
  if negb (r =? 0) then ret (-1)
  else emit EvDisableWrite ;;;
       let! disabled := ask in
       if negb disabled then ret (-1) else ret 0.

Definition default_closed_window (du : pdu) : M Z :=
  let! c := get_dtcp in
  let! d := get_dtp in
  let max_len := dtcp_max_closed_winq_length c.(dtcp_cfg) in
  if negb (max_len =? 0) && (cwq_size d.(dtp_cwq) <? u32 (max_len - 1)) then
    let! r := cwq_push_m du in if negb (r =? 0) then ret (-1) else ret 0
  else
    let! r := default_snd_flow_control_overrun du in if negb (r =? 0) then ret (-1) else ret 0.

Definition default_transmission_control (du : pdu) : M Z :=
  mod_sv (set_max_seq_nr_sent (pdu_sn du)) ;;;
  mod_csv (set_snd_lft_win (pdu_sn du)) ;;;
  dtp_pdu_send du.

(** The rendezvous of a sender whose window is closed. *)
Definition start_rendezvous : M unit :=
  let! sv := get_sv in
  let! c := get_csv in
  whenb (negb c.(rendezvous_sndr))
    (mod_csv (set_rendezvous_sndr true) ;;;
     timer_start E t_rendezvous set_t_rendezvous (E.(jiffies_to_msecs) sv.(sv_tr)) ;;; ret tt).

(** The header [dtp_write] puts on the user data [data]; [None] when the format
    fails. *)
Definition write_pdu (d : dtp) (csn sbytes : Z) (snd_lft : Z) (data : list Z) : option pdu :=
  let k := d.(dtp_connection) in
  let '(r, du) := pdu_format E.(dt) (mk_pdu E.(fresh_header) data)
    k.(source_cep_id) k.(destination_cep_id) k.(source_address) k.(destination_address) csn
    k.(conn_qos_id) 0 (sbytes + pci_calculate_size (config_of E.(dt)) PDU_TYPE_DT) PDU_TYPE_DT in
  if negb (r =? 0) then None
  else if d.(dtp_sv_of).(drf_flag) || ((snd_lft =? u32 (csn - 1)) && d.(dtp_sv_of).(rexmsn_ctrl))
       then Some (snd (pdu_set E.(dt) du A_FLAGS (Z.lor (du.(attr) A_FLAGS) PDU_FLAGS_DATA_RUN)))
       else Some du.

(** The copy [dtp_write] keeps of a PDU it sends. *)
Definition write_copy (rexmsn : bool) (csn : Z) (du : pdu) : M bool :=
  let! d := get_dtp in
  if rexmsn then
    let! mem := ask in
    if negb mem then ret false
    else let! r := rtxq_push_ni E du in ret (r =? 0)
  else match d.(dtp_rttq) with
       | Some _ => rttq_push E csn ;;; ret true
       | None => ret true
       end.

(** The part of [dtp_write] after the PDU is formatted: [sv] is the state vector
    then. *)
Definition write_formatted (sv : dtp_sv) (csn sbytes : Z) (du : pdu) : M Z :=
  let! closed := (if sv.(window_based) || sv.(rate_based) then window_is_closed csn else ret false) in
  if (closed : bool) then
    let! r := default_closed_window du in
    if negb (r =? 0) then stats_inc_err ;;; ret (-1)
    else
      let! n := rtxq_size in
      if sv.(rexmsn_ctrl) && (0 <? n) then ret 0
      else start_rendezvous ;;; ret 0
  else
    whenb sv.(rate_based) (rate_account sbytes ;;; ret tt) ;;;
    let! kept := write_copy sv.(rexmsn_ctrl) csn du in
    if negb kept then du_destroy du ;;; stats_inc_err ;;; ret (-1)
    else
      let! r := default_transmission_control du in
      if negb (r =? 0) then stats_inc_err ;;; ret (-1)
      else
        stats_inc_bytes_tx sbytes ;;;
        let! r := timer_restart E t_sender_inactivity set_t_sender_inactivity
                    (u32 (3 * u32 (sv.(sv_MPL) + sv.(sv_R) + sv.(sv_A)))) in
        if negb (r =? 0) then stats_inc_err ;;; ret (-1) else ret 0.

Definition dtp_write (data : list Z) : M Z :=
  timer_stop t_sender_inactivity set_t_sender_inactivity ;;;
  let sbytes := Z.of_nat (length data) in
  let! encap := ask in
  if negb encap then du_destroy (mk_pdu E.(fresh_header) data) ;;; ret (-1)
  else
    mod_sv (fun v => set_seq_nr_to_send (u32 (v.(seq_nr_to_send) + 1)) v) ;;;
    let! d := get_dtp in
    let! c := get_csv in
    let csn := d.(dtp_sv_of).(seq_nr_to_send) in
    match write_pdu d csn sbytes c.(snd_lft_win) data with
    | None => du_destroy (mk_pdu E.(fresh_header) data) ;;; ret (-1)
    | Some du => write_formatted d.(dtp_sv_of) csn sbytes du
    end.

(** ** The receiving side *)

Definition is_fc_overrun (seq_num pdul : Z) : M bool :=
  let! d := get_dtp in
  match d.(dtp_dtcp) with
  | None => ret false
  | Some c =>
      let w_ret := dtcp_window_based_fctrl c.(dtcp_cfg) &&
                   (c.(dtcp_sv_of).(rcvr_rt_wind_edge) <? seq_num) in
      whenb (dtcp_rate_based_fctrl c.(dtcp_cfg) && (0 <=? pdul))
        (mod_csv (fun c => set_pdus_rcvd_in_time_unit (u32 (c.(pdus_rcvd_in_time_unit) + pdul)) c)) ;;;
      ret w_ret
  end.

Definition are_there_pdus (q : list (seq_queue_entry (D := pdu))) (LWE : Z) : bool :=
  match q with
  | [] => false
  | p :: _ => pdu_sn p.(sq_du) =? u32 (LWE + 1)
  end.

Definition squeue_flush : M unit :=
  let! d := get_dtp in
  let '(q, freed) := dtp_squeue_flush d.(dtp_seqq) in
  mod_dtp (set_dtp_seqq q) ;;; destroy_all freed.

(** The loop that moves the PDUs that follow the left window edge from the sequencing
    queue to the ring; [du] is the variable of the function, with whether the PDU it
    points to is still allocated. *)
Fixpoint in_order_loop (fuel : nat) (LWE : Z) (du : pdu * bool) : M (pdu * bool) :=
  match fuel with
  | O => fault
  | S fuel' =>
      let! d := get_dtp in
      if are_there_pdus d.(dtp_seqq) LWE then
        match seq_queue_pop d.(dtp_seqq) with
        | (Some p, q) =>
            mod_dtp (set_dtp_seqq q) ;;;
            mod_sv (set_rcv_left_window_edge (pdu_sn p)) ;;;
            ring_push_to to_post set_to_post p ;;;
            in_order_loop fuel' (pdu_sn p) (p, true)
        | (None, _) => ret du
        end
      else ret du
  end.

Fixpoint post_stats_loop (fuel : nat) : M unit :=
  match fuel with
  | O => fault
  | S fuel' =>
      let! d := get_dtp in
      if ringq_is_empty d.(to_post) then ret tt
      else let! du := ring_pop_from to_post set_to_post in
           match du with
           | Some du => pdu_post du ;;; stats_inc_bytes_rx (pdu_data_len du)
           | None => ret tt
           end ;;;
           post_stats_loop fuel'
  end.

(** The part of [dtp_receive] for a connection that expects the start of a run. *)
Definition receive_drf (du : pdu) : M Z :=
  if negb (Z.land (du.(attr) A_FLAGS) PDU_FLAGS_DATA_RUN =? 0) then
    mod_sv (fun v => set_rcv_left_window_edge (pdu_sn du) (set_drf_required false v)) ;;;
    squeue_flush ;;;
    let! d := get_dtp in
    match d.(dtp_rttq) with
    | Some q => mod_dtp (set_dtp_rttq (Some (rttq_flush q)))
    | None => ret tt
    end ;;;
    let! r := (match d.(dtp_dtcp) with Some _ => dtcp_sv_update E du | None => ret 0 end) in
    if negb (r =? 0) then ret (-1)
    else
      dtp_send_pending_ctrl_pdus ;;;
      pdu_post du ;;;
      stats_inc_bytes_rx (pdu_data_len du) ;;;
      ret 0
  else stats_inc_drop ;;; du_destroy du ;;; ret 0.

(** The part without an A timer. *)
Definition receive_no_a (du : pdu) (LWE : Z) (in_order : bool) (gap : Z) : M Z :=
  let! d := get_dtp in
  match d.(dtp_dtcp) with
  | None =>
      if negb in_order then let! r := pdu_post du in if negb (r =? 0) then ret (-1) else ret 0
      else fault
  | Some c =>
      let seq_num := pdu_sn du in
      let set_lft_win_edge :=
        negb (dtcp_rtx_ctrl c.(dtcp_cfg) && (u32 (gap + 1) <? u32 (seq_num - LWE))) in
      whenb set_lft_win_edge (mod_sv (set_rcv_left_window_edge seq_num)) ;;;
      let! r := dtcp_sv_update E du in
      if negb (r =? 0) then du_destroy du ;;; ret (-1)
      else
        dtp_send_pending_ctrl_pdus ;;;
        if negb set_lft_win_edge then du_destroy du ;;; ret 0
        else
          let! r := pdu_post du in
          if negb (r =? 0) then ret (-1)
          else stats_inc_bytes_rx (pdu_data_len du) ;;; ret 0
  end.

(** The part with an A timer. *)
Definition receive_a (du : pdu) (a : Z) : M Z :=
  let! d := get_dtp in
  let LWE := d.(dtp_sv_of).(rcv_left_window_edge) in
  let seq_num := pdu_sn du in
  let! (LWE, du) :=
    (if seq_num =? u32 (LWE + 1) then
       mod_sv (set_rcv_left_window_edge seq_num) ;;;
       ring_push_to to_post set_to_post du ;;;
       ret (seq_num, (du, true))
     else
       let! mem := ask in
       let '(_, q, freed) := seq_queue_push_ni pdu_sn mem E.(jiffies) d.(dtp_seqq) du in
       mod_dtp (set_dtp_seqq q) ;;; destroy_all freed ;;;
       ret (LWE, (du, match freed with [] => true | _ => false end))) in
  let! d := get_dtp in
  let! (du, alive) := in_order_loop (Datatypes.S (length d.(dtp_seqq))) LWE du in
  match d.(dtp_dtcp) with
  | Some _ => if alive : bool then dtcp_sv_update E du ;;; ret tt else fault
  | None => ret tt
  end ;;;
  dtp_send_pending_ctrl_pdus ;;;
  let! d := get_dtp in
  match d.(dtp_seqq) with
  | [] => timer_stop t_a set_t_a
  | _ :: _ => timer_start E t_a set_t_a a
  end ;;;
  let! d := get_dtp in
  post_stats_loop (Datatypes.S (Z.to_nat d.(to_post).(occupation))) ;;;
  ret 0.

Definition dtp_receive (du : pdu) : M Z :=
  let! d := get_dtp in
  let sv := d.(dtp_sv_of) in
  let a := sv.(sv_A) in
  let inact := u32 (2 * u32 (sv.(sv_MPL) + sv.(sv_R) + a)) in
  let LWE := sv.(rcv_left_window_edge) in
  let seq_num := pdu_sn du in
  if sv.(drf_required) then
    let! r := timer_restart E t_receiver_inactivity set_t_receiver_inactivity inact in
    if negb (r =? 0) then du_destroy du ;;; ret (-1)
    else receive_drf du
  else
    let! drop := (if seq_num <=? LWE then ret true else is_fc_overrun seq_num (pdu_data_len du)) in
    if (drop : bool) then stats_inc_drop ;;; du_destroy du ;;; ret 0
    else
      let! r := timer_restart E t_receiver_inactivity set_t_receiver_inactivity inact in
      if negb (r =? 0) then du_destroy du ;;; ret (-1)
      else
        let! c := get_csv in
        whenb c.(rendezvous_rcvr)
          (mod_csv (set_rendezvous_rcvr false) ;;;
           mod_dtcp (fun c => set_t_rendezvous_rcv (snd (rtimer_stop c.(t_rendezvous_rcv))) c)) ;;;
        if a =? 0 then receive_no_a du LWE d.(dtp_ps_of).(in_order_delivery) d.(dtp_ps_of).(max_sdu_gap)
        else receive_a du a.

(** ** Timers *)

Definition tf_rendezvous : M unit :=
  mod_dtp (fun d => set_timers (set_t_rendezvous None d.(timers)) d) ;;;
  let! c := get_csv in
  let! sv := get_sv in
  whenb c.(rendezvous_sndr)
    (dtcp_rendezvous_pdu_send E ;;;
     timer_start E t_rendezvous set_t_rendezvous (E.(jiffies_to_msecs) sv.(sv_tr)) ;;; ret tt).

Definition tf_a : M unit :=
  mod_dtp (fun d => set_timers (set_t_a None d.(timers)) d) ;;;
  let! d := get_dtp in
  let sv := d.(dtp_sv_of) in
  let a := sv.(sv_A) in
  let! goes_on :=
    (match d.(dtp_dtcp) with
     | Some _ =>
         let! r := dtcp_sending_ack_policy E in
         whenb (negb (r =? 0)) (timer_start E t_a set_t_a a ;;; ret tt) ;;;
         dtp_send_pending_ctrl_pdus ;;; ret true
     | None =>
         process_A_expiration E ;;;
         let! r := timer_restart E t_sender_inactivity set_t_sender_inactivity
                     (u32 (3 * u32 (sv.(sv_MPL) + sv.(sv_R) + a))) in
         if negb (r =? 0) then timer_start E t_a set_t_a a ;;; ret false else ret true
     end) in
  if negb goes_on then ret tt
  else
    let! d := get_dtp in
    match d.(dtp_seqq) with
    | [] => ret tt
    | _ :: _ => timer_start E t_a set_t_a a ;;; ret tt
    end.

Definition tf_rate_window : M unit :=
  mod_dtp (fun d => set_timers (set_t_rate_window None d.(timers)) d) ;;;
  mod_csv (fun c => set_last_time_nsec E.(now_nsec) (set_last_time_sec E.(now_sec)
    (set_pdus_rcvd_in_time_unit 0 (set_pdus_sent_in_time_unit 0 c)))) ;;;
  mod_sv (set_rate_fulfiled false) ;;;
  emit EvEnableWrite ;;;
  cwq_deliver E.

Definition default_receiver_inactivity_timer : M Z :=
  let! d := get_dtp in
  match d.(dtp_dtcp) with
  | None => ret (-1)
  | Some _ =>
      mod_csv (set_rcvr_rt_wind_edge 0) ;;;
      mod_sv (set_rcv_left_window_edge 0) ;;;
      squeue_flush ;;;
      mod_csv (set_rendezvous_rcvr false) ;;;
      mod_sv (set_drf_required true) ;;;
      ret 0
  end.

(** [random] is the value of [get_random_bytes]. *)
Definition initial_seq_num (random : Z) : M unit :=
  mod_sv (set_seq_nr_to_send (if random =? 0 then 1 else random)).

Definition default_sender_inactivity_timer (random : Z) : M Z :=
  let! d := get_dtp in
  match d.(dtp_dtcp) with
  | None => ret (-1)
  | Some c =>
      initial_seq_num random ;;;
      mod_sv (fun v => set_window_closed false (set_drf_flag true v)) ;;;
      let! sv := get_sv in
      mod_csv (fun c' => set_rendezvous_sndr false (set_snd_rt_wind_edge
        (u32 (sv.(seq_nr_to_send) + dtcp_initial_credit c.(dtcp_cfg))) c')) ;;;
      match d.(dtp_rttq) with
      | Some q => mod_dtp (set_dtp_rttq (Some (rttq_flush q)))
      | None => ret tt
      end ;;;
      let! r1 :=
        (if c.(dtcp_ps_of).(ps_rtx_ctrl) then
           match d.(dtp_rtxq) with
           | None => ret (-1)
           | Some _ => rtxq_flush ;;; ret 0
           end
         else ret 0) in
      if negb (r1 =? 0) then ret (-1)
      else if c.(dtcp_ps_of).(ps_flow_ctrl) then
        match cwq_flush (Datatypes.S (match d.(dtp_cwq) with Some w => length w.(cq).(head) | None => 0%nat end))
                d.(dtp_cwq) with
        | None => fault
        | Some (r, w, freed) =>
            mod_dtp (set_dtp_cwq w) ;;; destroy_all freed ;;;
            (if negb (r =? 0) then ret (-1) else ret 0)
        end
      else ret 0
  end.

Definition tf_sender_inactivity (random : Z) : M unit :=
  mod_dtp (fun d => set_timers (set_t_sender_inactivity None d.(timers)) d) ;;;
  default_sender_inactivity_timer random ;;; ret tt.

Definition tf_receiver_inactivity : M unit :=
  mod_dtp (fun d => set_timers (set_t_receiver_inactivity None d.(timers)) d) ;;;
  default_receiver_inactivity_timer ;;; ret tt.

(** ** Initialisation *)

Definition default_dtp_sv : dtp_sv :=
  mk_dtp_sv (2 ^ 32 - 1) (2 ^ 32 - 1) 1000 100 0 0 0 false true 0 0 0 0 0 0 0 0 0 0
    false false false true false.

Definition dtp_sv_init (rexmsn window rate : bool) (mfps mfss mpl a r tr : Z) : M Z :=
  mod_sv (fun v => mk_dtp_sv mfps mfss mpl r a tr v.(rcv_left_window_edge) v.(window_closed)
    v.(drf_flag) v.(seq_number_rollover_threshold) 0 0 0 0 0 0 0 v.(seq_nr_to_send)
    v.(seq_nr_to_send) window rexmsn rate v.(drf_required) v.(rate_fulfiled)) ;;;
  ret 0.
End Dtp.

(** ** The sender keeps inside the window *)

Section Sender.
Context (E : env).

(** A step that changes none of what the sender's invariant is about. *)
Definition keeps (s s' : st) : Prop :=
  same_receiver s s' /\ same_sender s s' /\
  transmitted s'.(st_log) = transmitted s.(st_log) /\ rtx_pdus s' = rtx_pdus s /\
  forall l sent rwe, sending s l sent rwe -> sending s' l sent rwe.

#[local] Instance keeps_PreOrder : PreOrder keeps.
Proof.
  split.
  - intros s. split_and!; done.
  - intros a b c (?&?&?&?&?) (?&?&?&?&?). split_and!; try (by etrans); try congruence. eauto.
Qed.

Lemma keeps_timers tm s : keeps s (set_st_dtp (set_timers tm s.(st_dtp)) s).
Proof.
  destruct s as [[] ? ?]. split_and!; try (by repeat split). intros l sent rwe []. by split.
Qed.

Lemma keeps_emit e s :
  posted [e] = [] -> transmitted [e] = [] -> keeps s (set_st_log (s.(st_log) ++ [e]) s).
Proof.
  intros Hp Ht. unfold keeps, same_receiver. cbn [st_log set_st_log].
  rewrite posted_app, transmitted_app, Hp, Ht, !app_nil_r. split_and!; try (by repeat split).
  intros l sent rwe []. by split.
Qed.

Lemma keeps_sv f s :
  (forall v, (f v).(rcv_left_window_edge) = v.(rcv_left_window_edge) /\
     (f v).(drf_required) = v.(drf_required) /\ (f v).(sv_A) = v.(sv_A) /\
     (f v).(seq_nr_to_send) = v.(seq_nr_to_send) /\ (f v).(window_based) = v.(window_based) /\
     (f v).(rate_based) = v.(rate_based) /\ (f v).(rexmsn_ctrl) = v.(rexmsn_ctrl) /\
     (f v).(max_seq_nr_sent) = v.(max_seq_nr_sent)) ->
  keeps s (set_st_dtp (set_dtp_sv_of (f s.(st_dtp).(dtp_sv_of)) s.(st_dtp)) s).
Proof.
  intros Hf. destruct (Hf s.(st_dtp).(dtp_sv_of)) as (?&?&?&?&?&?&?&?).
  destruct s as [[] ? ?]. cbn in *. split_and!; try (by repeat split).
  intros l sent rwe [? ? ? Hs]. split; try done. cbn in Hs |- *. congruence.
Qed.

Lemma keeps_csv f s c :
  s.(st_dtp).(dtp_dtcp) = Some c ->
  (forall v, (f v).(snd_rt_wind_edge) = v.(snd_rt_wind_edge)) ->
  keeps s (set_st_dtp (set_dtp_dtcp (Some (set_dtcp_sv_of (f c.(dtcp_sv_of)) c)) s.(st_dtp)) s).
Proof.
  intros Hc Hf. destruct s as [[] ? ?]. cbn in Hc. subst.
  split_and!; try (by repeat split).
  intros l sent rwe [Ho (c' & Hc' & Hw & Hr & He & Hq) Hcw Hs]. split; try done.
  cbn in Hc'. injection Hc' as <-. eexists. split; [reflexivity|]. cbn. rewrite Hf. done.
Qed.

Lemma timer_stop_run g set s :
  exists tm, timer_stop g set s = Some (0, set_st_dtp (set_timers tm s.(st_dtp)) s).
Proof.
  unfold timer_stop, bind, get_dtp, gets, mod_dtp, modify.
  destruct (rtimer_stop _) as [r t] eqn:Er. cbn.
  pose proof (rtimer_stop_ret0 (g (timers (st_dtp s)))) as H. rewrite Er in H. cbn in H. subst.
  by eexists.
Qed.

Lemma timer_restart_run g set ms s :
  exists tm, timer_restart E g set ms s = Some (0, set_st_dtp (set_timers tm s.(st_dtp)) s) /\
    timer_start E g set ms s = Some (0, set_st_dtp (set_timers tm s.(st_dtp)) s).
Proof.
  unfold timer_restart, timer_start, bind, get_dtp, gets, mod_dtp, modify, rtimer_restart.
  destruct (rtimer_start _ _ _ _) as [r t] eqn:Er. cbn.
  pose proof (rtimer_ret0 (HZ E) (jiffies E) (g (timers (st_dtp s))) ms) as H.
  unfold rtimer_restart in H. rewrite Er in H. cbn in H. subst. eexists. by split.
Qed.

(** A sender with window-based flow control only. *)
Record windowed (s : st) (l : list pdu) (sent rwe : Z) : Prop := {
  wd_sending : sending s l sent rwe;
  wd_wb : s.(st_dtp).(dtp_sv_of).(window_based) = true;
  wd_rb : s.(st_dtp).(dtp_sv_of).(rate_based) = false;
  wd_rtx : s.(st_dtp).(dtp_sv_of).(rexmsn_ctrl) = rtx_of s
}.

(** Its invariant: the PDUs written and not yet sent wait in the order of their
    numbers, the first one beyond the window. *)
Record sender (s : st) (l : list pdu) (sent rwe : Z) : Prop := {
  sd_windowed : windowed s l sent rwe;
  sd_consecutive : consecutive sent l;
  sd_next : s.(st_dtp).(dtp_sv_of).(seq_nr_to_send) = sent + Z.of_nat (length l);
  sd_window : l <> [] -> rwe <= sent
}.

Lemma windowed_same s s' l l' sent sent' rwe rwe' :
  same_sender s s' -> windowed s l sent rwe -> sending s' l' sent' rwe' -> windowed s' l' sent' rwe'.
Proof. intros (Hn & Hw & Hr & Hx & Hy) [] Hs. split; auto; congruence. Qed.

Hypothesis dt_seq : E.(dt).(seq_num_length) = 4.

Lemma write_pdu_spec d csn n lft data :
  0 <= csn < 2 ^ 32 ->
  exists du, write_pdu E d csn n lft data = Some du /\ pdu_sn du = csn /\ pdu_data du = data.
Proof.
  intros Hc. unfold write_pdu, pdu_format. cbn [negb Z.eqb].
  set (du := mk_pdu _ _).
  assert (pdu_sn du = csn) as Hsn.
  { unfold pdu_sn. cbn -[uwrap Z.mul]. rewrite dt_seq. change (8 * 4) with 32.
    rewrite uwrap_uwrap. by apply uwrap_small. }
  destruct (_ || _); [|by exists du].
  unfold pdu_set. cbn [attr_slot]. eexists. split; [done|]. split; [|done]. exact Hsn.
Qed.

(** The window check without rate control. *)
Lemma window_is_closed_run csn s l sent rwe :
  windowed s l sent rwe ->
  exists s', window_is_closed E csn s = Some (rwe <? csn, s') /\ keeps s s' /\
    s'.(st_oracle) = [].
Proof.
  intros [[Ho (c & Hc & Hw & Hr & He & Hq) Hcw Hs] Hwb Hrb _].
  unfold window_is_closed, get_sv. erewrite run_bind by reflexivity.
  erewrite run_bind by by apply get_csv_run. rewrite Hwb, Hrb, He. cbn [andb].
  destruct (rwe <? csn); cbn [whenb].
  - erewrite run_bind by apply mod_sv_run. erewrite run_bind by reflexivity.
    erewrite run_bind by reflexivity. eexists. split; [reflexivity|].
    split; [|done]. by apply (keeps_sv (set_window_closed true)).
  - erewrite run_bind by reflexivity. erewrite run_bind by reflexivity.
    erewrite run_bind by reflexivity. exists s. split; [reflexivity|]. by split.
Qed.

(** Queueing a PDU behind a closed window. *)
Lemma cwq_push_m_run du s l sent rwe :
  sending s l sent rwe -> Z.of_nat (length l) < 2 ^ 32 ->
  exists s', cwq_push_m du s = Some (0, s') /\ sending s' (l ++ [du]) sent rwe /\
    same_receiver s s' /\ same_sender s s' /\
    transmitted s'.(st_log) = transmitted s.(st_log) /\ rtx_pdus s' = rtx_pdus s.
Proof.
  intros [Ho Hc (w & Hcw & Hh & Hwf) Hs] Hlen. unfold cwq_push_m, get_dtp.
  erewrite run_bind by reflexivity. rewrite Hcw.
  erewrite run_bind by by apply ask_granted.
  unfold cwq_push. cbn [rqueue_tail_push_gfp entry_create default Z.eqb negb].
  erewrite run_bind by reflexivity. erewrite run_bind by reflexivity.
  eexists. split; [reflexivity|]. split_and!; [|by destruct s as [[] ? ?]..].
  split; [exact Ho|exact Hc| |exact Hs].
  eexists. split; [reflexivity|]. cbn. rewrite Hh. split; [done|].
  destruct Hwf as [Hl Hb]. split; cbn; rewrite length_app; cbn [length]; rewrite Hh in *; [|lia].
  rewrite Hl, uwrap_small by (split; lia). lia.
Qed.

Lemma default_closed_window_run du s l sent rwe :
  sending s l sent rwe -> Z.of_nat (length l) < 2 ^ 32 ->
  exists s', default_closed_window du s = Some (0, s') /\ sending s' (l ++ [du]) sent rwe /\
    same_receiver s s' /\ same_sender s s' /\
    transmitted s'.(st_log) = transmitted s.(st_log) /\ rtx_pdus s' = rtx_pdus s.
Proof.
  intros Hs Hlen. destruct (cwq_push_m_run du s l sent rwe Hs Hlen) as (s1 & Hp & Hs1 & K1 & K2 & K3 & K4).
  destruct (Hs) as [_ (c & Hc & _) _ _]. unfold default_closed_window.
  erewrite run_bind by by apply get_dtcp_run. unfold get_dtp. erewrite run_bind by reflexivity.
  destruct (_ && _).
  - erewrite run_bind by exact Hp. exists s1. by split_and!.
  - destruct (keeps_emit EvDisableWrite s1 eq_refl eq_refl) as (E1 & E2 & E3 & E4 & E5).
    set (s2 := set_st_log (s1.(st_log) ++ [EvDisableWrite]) s1) in *.
    assert (default_snd_flow_control_overrun du s = Some (0, s2)) as Hover.
    { unfold default_snd_flow_control_overrun. erewrite run_bind by exact Hp. cbn [negb Z.eqb].
      erewrite run_bind by reflexivity. fold s2.
      erewrite run_bind by (apply ask_granted; destruct Hs1; done). done. }
    erewrite run_bind by exact Hover. exists s2.
    split_and!; [done|by apply E5|by etrans|by etrans|congruence|congruence].
Qed.

Lemma start_rendezvous_run s c :
  s.(st_dtp).(dtp_dtcp) = Some c ->
  exists s', start_rendezvous E s = Some (tt, s') /\ keeps s s'.
Proof.
  intros Hc. unfold start_rendezvous, get_sv. erewrite run_bind by reflexivity.
  erewrite run_bind by by apply get_csv_run. destruct (negb _); cbn [whenb]; [|by exists s].
  erewrite run_bind by by apply mod_csv_run.
  set (s1 := set_st_dtp _ s).
  destruct (timer_restart_run t_rendezvous set_t_rendezvous
    (jiffies_to_msecs E (sv_tr (dtp_sv_of (st_dtp s)))) s1) as (tm & _ & Ht).
  erewrite run_bind by exact Ht. eexists. split; [reflexivity|].
  etrans; [|apply keeps_timers]. by apply (keeps_csv (set_rendezvous_sndr true)).
Qed.

(** The copy kept of a PDU written inside the window. *)
Lemma write_copy_run csn du s sent rwe :
  windowed s [] sent rwe -> pdu_sn du = sent + 1 ->
  exists s', write_copy E (rtx_of s) csn du s = Some (true, s') /\
    same_receiver s s' /\ same_sender s s' /\ transmitted s'.(st_log) = transmitted s.(st_log) /\
    s'.(st_oracle) = [] /\ s'.(st_dtp).(dtp_dtcp) = s.(st_dtp).(dtp_dtcp) /\
    s'.(st_dtp).(dtp_cwq) = s.(st_dtp).(dtp_cwq) /\
    (rtx_of s = true -> rtx_pdus s' = rtx_pdus s ++ [du] /\
       exists q, s'.(st_dtp).(dtp_rtxq) = Some q /\
         Forall (fun e => pdu_sn e.(rx_du) <= sent + 1) q.(rx_head)).
Proof.
  intros [[Ho (c & Hc & Hw & Hr & He & Hq) Hcw Hs] Hwb Hrb _] Hsn.
  unfold write_copy, get_dtp. erewrite run_bind by reflexivity.
  assert (rtx_of s = ps_rtx_ctrl (dtcp_ps_of c)) as Hrt by (unfold rtx_of; by rewrite Hc).
  destruct (rtx_of s) eqn:Er.
  - destruct (Hq (eq_sym Hrt)) as (qx & Eq & Hf).
    erewrite run_bind by by apply ask_granted. cbn [negb].
    destruct (rtxq_push_ni_granted E s qx du Ho Eq) as (r & q1 & tm & Hpush & Hres).
    rewrite rtxqueue_push_last in Hres
      by (eapply Forall_impl; [|exact Hf]; unfold rx_key; cbn; lia).
    injection Hres as <- <-. erewrite run_bind by exact Hpush.
    eexists. split; [reflexivity|]. split_and!; try (by destruct s as [[] ? ?]). intros _. split.
    + unfold rtx_pdus. cbn. rewrite Eq, fmap_app. done.
    + eexists. split; [reflexivity|]. apply Forall_app. split; [|repeat constructor; cbn; lia].
      eapply Forall_impl; [|exact Hf]. cbn. lia.
  - destruct (dtp_rttq (st_dtp s)) as [qx|] eqn:Eq.
    + destruct (rttq_push_granted E s qx csn Ho Eq) as (r & q2 & Hpush).
      erewrite run_bind by exact Hpush. eexists. split; [reflexivity|].
      split_and!; try done; destruct s as [[] ? ?]; done.
    + exists s. by split_and!.
Qed.

(** Transmission of a PDU. *)
Lemma default_transmission_control_run du s c :
  s.(st_oracle) = [] -> s.(st_dtp).(dtp_dtcp) = Some c ->
  exists s', default_transmission_control du s = Some (0, s') /\
    s'.(st_oracle) = [] /\ same_receiver s s' /\ same_sender s s' /\
    rtx_pdus s' = rtx_pdus s /\ s'.(st_dtp).(dtp_rtxq) = s.(st_dtp).(dtp_rtxq) /\
    s'.(st_dtp).(dtp_cwq) = s.(st_dtp).(dtp_cwq) /\
    s'.(st_dtp).(dtp_sv_of).(max_seq_nr_sent) = pdu_sn du /\
    s'.(st_dtp).(dtp_dtcp) = Some (set_dtcp_sv_of (set_snd_lft_win (pdu_sn du) c.(dtcp_sv_of)) c) /\
    transmitted s'.(st_log) = transmitted s.(st_log) ++ [du].
Proof.
  intros Ho Hc. destruct (send_head s c du Ho Hc) as (s' & Hrun & Ho' & Hsame & Hd & Ht).
  exists s'. split; [exact Hrun|]. unfold same_sender, rtx_pdus, rtx_of. rewrite Hd, Hc.
  by split_and!.
Qed.

(** The state after [dtp_write] took a number: the steps before the window check. *)
Definition numbered (s : st) (tm : dtp_timers) : st :=
  let d := set_timers tm s.(st_dtp) in
  set_st_dtp (set_dtp_sv_of (set_seq_nr_to_send (u32 (d.(dtp_sv_of).(seq_nr_to_send) + 1))
    d.(dtp_sv_of)) d) s.

Lemma dtp_write_start data s l sent rwe c :
  windowed s l sent rwe -> s.(st_dtp).(dtp_dtcp) = Some c ->
  let csn := s.(st_dtp).(dtp_sv_of).(seq_nr_to_send) + 1 in
  0 < csn < 2 ^ 32 ->
  exists tm du, pdu_sn du = csn /\ pdu_data du = data /\
    (numbered s tm).(st_dtp).(dtp_sv_of).(seq_nr_to_send) = csn /\
    dtp_write E data s =
      write_formatted E (numbered s tm).(st_dtp).(dtp_sv_of) csn (Z.of_nat (length data)) du
        (numbered s tm).
Proof.
  intros Hsd Hc csn Hn.
  destruct (timer_stop_run t_sender_inactivity set_t_sender_inactivity s) as (tm & Htm).
  destruct (write_pdu_spec (numbered s tm).(st_dtp) csn
    (Z.of_nat (length data)) c.(dtcp_sv_of).(snd_lft_win) data) as (du & Hdu & Hsn & Hdata); [lia|].
  assert (seq_nr_to_send (dtp_sv_of (st_dtp (numbered s tm))) = csn)
    as Hnum by (cbn; by apply uwrap_small; split; lia).
  exists tm, du. split_and!; try done. unfold dtp_write.
  erewrite run_bind by exact Htm.
  erewrite run_bind by (apply ask_granted; destruct Hsd as [[] _ _ _]; done). cbn [negb].
  erewrite run_bind by apply mod_sv_run.
  change (set_st_dtp _ _) with (numbered s tm) at 1.
  unfold get_dtp. erewrite run_bind by reflexivity.
  erewrite run_bind by (apply get_csv_run; exact Hc). cbv zeta. by rewrite Hnum, Hdu.
Qed.

(** A formatted PDU beyond the window waits; one inside it is sent.  The number was
    already taken, so that the state is one number ahead of the invariant. *)
Lemma write_formatted_closed sv csn n du s l sent rwe :
  windowed s l sent rwe -> sv.(window_based) = true -> rwe < csn -> Z.of_nat (length l) < 2 ^ 32 ->
  exists s', write_formatted E sv csn n du s = Some (0, s') /\ sending s' (l ++ [du]) sent rwe /\
    same_receiver s s' /\ same_sender s s' /\
    transmitted s'.(st_log) = transmitted s.(st_log) /\ rtx_pdus s' = rtx_pdus s.
Proof.
  intros Hsd Hsv Hlt Hlen. unfold write_formatted. rewrite Hsv. cbn [orb].
  destruct (window_is_closed_run csn s l sent rwe Hsd) as (s1 & Hw & (A1 & A2 & A3 & A4 & A5) & _).
  erewrite run_bind by exact Hw. rewrite (proj2 (Z.ltb_lt _ _) Hlt). cbv iota.
  destruct (default_closed_window_run du s1 l sent rwe) as (s2 & Hcw & B0 & B1 & B2 & B3 & B4);
    [by apply A5, wd_sending|done|].
  erewrite run_bind by exact Hcw. cbn [negb Z.eqb].
  unfold rtxq_size, get_dtp. erewrite run_bind by reflexivity.
  destruct (_ && _).
  - exists s2. split_and!; [done|done|by etrans|by etrans|congruence|congruence].
  - destruct (B0) as [_ (c & Hc & _) _ _].
    destruct (start_rendezvous_run s2 c Hc) as (s3 & Hr & C1 & C2 & C3 & C4 & C5).
    erewrite run_bind by exact Hr. exists s3.
    split_and!; [done|by apply C5| | |congruence|congruence].
    + etrans; [exact A1|]. by etrans.
    + etrans; [exact A2|]. by etrans.
Qed.

Lemma write_formatted_open sv csn n du s sent rwe :
  windowed s [] sent rwe -> sv.(window_based) = true -> sv.(rate_based) = false ->
  sv.(rexmsn_ctrl) = rtx_of s -> csn <= rwe -> pdu_sn du = sent + 1 ->
  exists s', write_formatted E sv csn n du s = Some (0, s') /\ sending s' [] (sent + 1) rwe /\
    same_receiver s s' /\ same_sender s s' /\
    transmitted s'.(st_log) = transmitted s.(st_log) ++ [du] /\
    (rtx_of s = true -> rtx_pdus s' = rtx_pdus s ++ [du]).
Proof.
  intros Hsd Hsv Hrb Hrx Hle Hsn. unfold write_formatted. rewrite Hsv, Hrb, Hrx. cbn [orb].
  destruct (window_is_closed_run csn s [] sent rwe Hsd) as (s1 & Hw & HK & _).
  destruct HK as (A1 & A2 & A3 & A4 & A5).
  pose proof (windowed_same _ _ _ _ _ _ _ _ A2 Hsd (A5 _ _ _ (wd_sending _ _ _ _ Hsd))) as Hsd1.
  erewrite run_bind by exact Hw. rewrite (proj2 (Z.ltb_ge _ _) Hle). cbn [whenb].
  erewrite run_bind by reflexivity.
  assert (rtx_of s1 = rtx_of s) as Hrt by apply A2. rewrite <- Hrt.
  destruct (write_copy_run csn du s1 sent rwe Hsd1 Hsn) as (s2 & Hcp & B1 & B2 & B3 & B4 & B5 & B6 & B7).
  erewrite run_bind by exact Hcp. cbn [negb].
  destruct (wd_sending _ _ _ _ Hsd1) as [_ (c & Hc & Hwb & Hrb' & He & Hq) Hcw Hs].
  destruct (default_transmission_control_run du s2 c B4) as
    (s3 & Htx & C1 & C2 & C3 & C4 & C5 & C6 & C7 & C8 & C9); [congruence|].
  erewrite run_bind by exact Htx. cbn [negb Z.eqb].
  erewrite run_bind by apply mod_sv_run. set (s4 := set_st_dtp _ s3).
  destruct (timer_restart_run t_sender_inactivity set_t_sender_inactivity
    (u32 (3 * u32 (sv_MPL sv + sv_R sv + sv_A sv))) s4) as (tm & Htm & _).
  erewrite run_bind by exact Htm. cbn [negb Z.eqb]. eexists. split; [reflexivity|].
  assert (keeps s3 (set_st_dtp (set_timers tm s4.(st_dtp)) s4)) as (D1 & D2 & D3 & D4 & D5).
  { etrans; [|apply keeps_timers]. unfold s4. apply (keeps_sv (fun v => set_stat_tx_bytes
      (u32 (stat_tx_bytes v + n)) (set_stat_tx_pdus (u32 (stat_tx_pdus v + 1)) v))). done. }
  split_and!.
  - apply D5. split; [exact C1| |rewrite C6, B6; exact Hcw|congruence].
    eexists. split; [exact C8|]. split_and!; [done|done|done|].
    intros Hx. rewrite C5. destruct B7 as (_ & q & Eq & Hf); [|by exists q].
    unfold rtx_of. by rewrite Hc.
  - etrans; [exact A1|]. etrans; [exact B1|]. by etrans.
  - etrans; [exact A2|]. etrans; [exact B2|]. by etrans.
  - rewrite D3, C9, B3, A3. done.
  - intros Hx. rewrite D4, C4. destruct B7 as [-> _]; [congruence|]. by rewrite A4.
Qed.

Lemma consecutive_snoc n l p :
  consecutive n l -> pdu_sn p = n + Z.of_nat (length l) + 1 -> consecutive n (l ++ [p]).
Proof.
  revert n. induction l as [|a l IH]; intros n; cbn [consecutive app length].
  - intros _ Hp. split; [|done]. cbn in Hp. lia.
  - intros [Ha Hl] Hp. split; [done|]. apply IH; [done|]. lia.
Qed.

(** Taking a number keeps everything but the number. *)
Lemma numbered_windowed s tm l sent rwe :
  windowed s l sent rwe ->
  windowed (numbered s tm) l sent rwe /\ same_receiver s (numbered s tm) /\
  transmitted (numbered s tm).(st_log) = transmitted s.(st_log) /\
  rtx_pdus (numbered s tm) = rtx_pdus s /\ rtx_of (numbered s tm) = rtx_of s.
Proof. intros [[Ho Hc Hcw Hs] Hwb Hrb Hrx]. split_and!; by repeat split.
Qed.

(** One write, in both cases. *)
Lemma dtp_write_run data s l sent rwe :
  sender s l sent rwe -> 0 <= sent -> sent + Z.of_nat (length l) + 1 < 2 ^ 32 ->
  exists s' du, dtp_write E data s = Some (0, s') /\
    pdu_sn du = sent + Z.of_nat (length l) + 1 /\ pdu_data du = data /\ same_receiver s s' /\
    rtx_of s' = rtx_of s /\
    (if decide (pdu_sn du <= rwe)
     then l = [] /\ sender s' [] (sent + 1) rwe /\
          transmitted s'.(st_log) = transmitted s.(st_log) ++ [du] /\
          (rtx_of s = true -> rtx_pdus s' = rtx_pdus s ++ [du])
     else sender s' (l ++ [du]) sent rwe /\
          transmitted s'.(st_log) = transmitted s.(st_log) /\ rtx_pdus s' = rtx_pdus s).
Proof.
  intros [Hwd Hcon Hnext Hwin] Hpos Hmax.
  destruct (wd_sending _ _ _ _ Hwd) as [_ (c & Hc & _) _ _].
  destruct (dtp_write_start data s l sent rwe c Hwd Hc) as (tm & du & Hsn & Hdata & Hnum & Hrun);
    [lia|].
  destruct (numbered_windowed s tm l sent rwe Hwd) as (Hwd1 & R1 & T1 & X1 & O1).
  set (s1 := numbered s tm) in *.
  assert (pdu_sn du = sent + Z.of_nat (length l) + 1) as Hsn' by lia.
  destruct (decide (pdu_sn du <= rwe)) as [Hin|Hout].
  - assert (l = []) as -> by (destruct l; [done|]; cbn in *; assert (rwe <= sent) by (by apply Hwin); lia).
    cbn [length] in *.
    destruct (write_formatted_open s1.(st_dtp).(dtp_sv_of)
      (s.(st_dtp).(dtp_sv_of).(seq_nr_to_send) + 1) (Z.of_nat (length data)) du s1 sent rwe Hwd1)
      as (s' & Hw & Hs' & R2 & S2 & T2 & X2);
      [apply Hwd1|apply Hwd1|apply Hwd1|lia|lia|].
    exists s', du. rewrite Hrun. split_and!; [done|done|done|by etrans|
      by destruct S2 as (_ & _ & _ & _ & ->)|].
    rewrite decide_True by done. split_and!; [done| |congruence|].
    + split; [by eapply windowed_same|done| |done]. cbn. destruct S2 as (-> & _). lia.
    + intros Hx. rewrite X2 by congruence. by rewrite X1.
  - destruct (write_formatted_closed s1.(st_dtp).(dtp_sv_of)
      (s.(st_dtp).(dtp_sv_of).(seq_nr_to_send) + 1) (Z.of_nat (length data)) du s1 l sent rwe Hwd1)
      as (s' & Hw & Hs' & R2 & S2 & T2 & X2); [apply Hwd1|lia|lia|].
    exists s', du. rewrite Hrun. split_and!; [done|done|done|by etrans|
      by destruct S2 as (_ & _ & _ & _ & ->)|].
    rewrite decide_False by done. split_and!; [|congruence|congruence].
    split; [by eapply windowed_same|by apply consecutive_snoc| |].
    + rewrite length_app. cbn [length]. destruct S2 as (-> & _). lia.
    + intros _. destruct l as [|p l]; [cbn in *; lia|]. by apply Hwin.
Qed.

(** The window cuts a run of consecutive PDUs in two. *)
Lemma consecutive_split n r l :
  consecutive n l ->
  let a := filter (fun p => pdu_sn p <= r) l in
  let b := filter (fun p => r < pdu_sn p) l in
  a ++ b = l /\ consecutive (n + Z.of_nat (length a)) b /\
  (b <> [] -> r <= n + Z.of_nat (length a)).
Proof.
  cbv zeta. revert n. induction l as [|p l IH]; intros n Hc; [by split_and!|].
  destruct (decide (n < r)) as [Hlt|Hge].
  - destruct Hc as [Hp Hl]. destruct (IH _ Hl) as (E1 & E2 & E3).
    rewrite (filter_cons_True (fun p => pdu_sn p <= r)) by lia.
    rewrite (filter_cons_False (fun p => r < pdu_sn p)) by lia.
    cbn [length app]. rewrite E1.
    replace (n + Z.of_nat (S (length (filter (fun p => pdu_sn p <= r) l)))) with
      (n + 1 + Z.of_nat (length (filter (fun p => pdu_sn p <= r) l))) by lia. done.
  - pose proof (consecutive_beyond _ _ Hc) as Hb.
    rewrite (filter_all (fun p => r < pdu_sn p)) by (eapply Forall_impl; [|exact Hb]; cbn; lia).
    rewrite (filter_none (fun p => pdu_sn p <= r)) by (eapply Forall_impl; [|exact Hb]; cbn; lia).
    cbn [length app]. rewrite Z.add_0_r. split_and!; [done|done|lia].
Qed.

(** The right window edge of a flow-control PDU, before anything is delivered. *)
Lemma set_window_run r s l sent rwe c :
  windowed s l sent rwe -> s.(st_dtp).(dtp_dtcp) = Some c ->
  let s1 := set_st_dtp (set_dtp_dtcp (Some (set_dtcp_sv_of (set_snd_rt_wind_edge r c.(dtcp_sv_of)) c))
              s.(st_dtp)) s in
  windowed s1 l sent r /\ same_receiver s s1 /\ same_sender s s1 /\ rtx_pdus s1 = rtx_pdus s /\
  transmitted s1.(st_log) = transmitted s.(st_log).
Proof.
  intros [[Ho (c' & Hc' & Hw & Hr & He & Hq) Hcw Hs] Hwb Hrb Hrx] Hc s1.
  rewrite Hc in Hc'. injection Hc' as <-.
  assert (same_sender s s1) as Hsame by (unfold same_sender, rtx_of; cbn; rewrite Hc; by repeat split).
  split_and!; [|by repeat split|done|done|done].
  split; [|done|done|by destruct Hsame as (_ & _ & _ & -> & ->)].
  split; [done| |done|done]. eexists. split; [reflexivity|]. by split_and!.
Qed.

(** The end of the rendezvous when the window opens. *)
Lemma stop_rendezvous_run s c :
  s.(st_dtp).(dtp_dtcp) = Some c ->
  exists s', whenb c.(dtcp_sv_of).(rendezvous_sndr)
      (mod_csv (set_rendezvous_sndr false) ;;; timer_stop t_rendezvous set_t_rendezvous ;;; ret tt) s
      = Some (tt, s') /\ keeps s s'.
Proof.
  intros Hc. destruct (rendezvous_sndr _); cbn [whenb]; [|by exists s].
  erewrite run_bind by by apply mod_csv_run. set (s1 := set_st_dtp _ s).
  destruct (timer_stop_run t_rendezvous set_t_rendezvous s1) as (tm & Ht).
  erewrite run_bind by exact Ht. eexists. split; [reflexivity|].
  etrans; [|apply keeps_timers]. by apply (keeps_csv (set_rendezvous_sndr false)).
Qed.

Lemma update_window_run du s l sent rwe :
  sender s l sent rwe ->
  let r := du.(attr) A_NEW_RT_WIND_EDGE in
  let out := filter (fun p => pdu_sn p <= r) l in
  exists s', update_window_and_rate E du s = Some (0, s') /\
    sender s' (filter (fun p => r < pdu_sn p) l) (sent + Z.of_nat (length out)) r /\
    transmitted s'.(st_log) = transmitted s.(st_log) ++ out /\
    (rtx_of s = true -> rtx_pdus s' = rtx_pdus s ++ out) /\ rtx_of s' = rtx_of s /\
    same_receiver s s'.
Proof.
  intros [Hwd Hcon Hnext Hwin] r out.
  destruct (wd_sending _ _ _ _ Hwd) as [Ho (c & Hc & Hw & Hr & _) _ _].
  destruct (set_window_run r s l sent rwe c Hwd Hc) as (Hwd1 & R1 & S1 & X1 & T1).
  set (s1 := set_st_dtp _ s) in *.
  assert (s1.(st_dtp).(dtp_dtcp) = Some (set_dtcp_sv_of (set_snd_rt_wind_edge r c.(dtcp_sv_of)) c))
    as Hc1 by reflexivity.
  destruct (stop_rendezvous_run s1 _ Hc1) as (s2 & Hrun2 & R2 & S2 & T2 & X2 & Hs2).
  pose proof (Hs2 _ _ _ (wd_sending _ _ _ _ Hwd1)) as Hsend2.
  destruct (cwq_deliver_run E s2 l sent r Hsend2 Hcon) as (s3 & Hrun3 & T3 & Hs3 & _ & R3 & S3 & X3).
  destruct (keeps_emit (EvDestroy du) s3 eq_refl eq_refl) as (R4 & S4 & T4 & X4 & Hs4).
  set (s4 := set_st_log _ s3) in *.
  assert (same_sender s s4) as Hsnd by (etrans; [exact S1|]; etrans; [exact S2|]; by etrans).
  destruct (consecutive_split sent r l Hcon) as (E1 & E2 & E3). fold out in E1, E2, E3, Hs3.
  exists s4. split_and!.
  - unfold update_window_and_rate. erewrite run_bind by by apply get_dtcp_run.
    rewrite Hw, Hr. cbn [whenb]. erewrite run_bind by by apply mod_csv_run.
    erewrite run_bind by reflexivity. fold r s1.
    erewrite run_bind by by apply get_csv_run. erewrite run_bind by exact Hrun2.
    erewrite run_bind; [|unfold push_pdus_rmt, get_dtp; erewrite run_bind by reflexivity;
      destruct (Hsend2) as [_ _ (w & -> & _) _]; erewrite run_bind by exact Hrun3; reflexivity].
    erewrite run_bind by reflexivity. done.
  - split; [|exact E2| |exact E3].
    + eapply windowed_same; [exact Hsnd|exact Hwd|]. by apply Hs4.
    + destruct Hsnd as (-> & _). rewrite Hnext. rewrite <- E1 at 1. rewrite length_app. lia.
  - rewrite T4, T3, T2, T1. done.
  - intros Hx. rewrite X4. destruct S1 as (_ & _ & _ & _ & O1). destruct S2 as (_ & _ & _ & _ & O2).
    rewrite X3 by congruence. by rewrite X2, X1.
  - by destruct Hsnd as (_ & _ & _ & _ & ->).
  - etrans; [exact R1|]. etrans; [exact R2|]. by etrans.
Qed.

Lemma consecutive_app n a b :
  consecutive n (a ++ b) <-> consecutive n a /\ consecutive (n + Z.of_nat (length a)) b.
Proof.
  revert n. induction a as [|p a IH]; intros n; cbn [app consecutive length].
  - rewrite Z.add_0_r. tauto.
  - rewrite IH. replace (n + 1 + Z.of_nat (length a)) with (n + Z.of_nat (S (length a))) by lia. tauto.
Qed.

(** What happens to a sender: the user writes, or a control PDU moves the window. *)
Inductive snd_event := SWrite (data : list Z) | SWindow (du : pdu).

Fixpoint snd_run (evs : list snd_event) : M unit :=
  match evs with
  | [] => ret tt
  | SWrite data :: evs' => dtp_write E data ;;; snd_run evs'
  | SWindow du :: evs' => update_window_and_rate E du ;;; snd_run evs'
  end.

Definition written (evs : list snd_event) : list (list Z) :=
  omap (fun e => match e with SWrite data => Some data | SWindow _ => None end) evs.

(** The greatest right window edge announced. *)
Fixpoint max_edge (rwe : Z) (evs : list snd_event) : Z :=
  match evs with
  | [] => rwe
  | SWrite _ :: evs' => max_edge rwe evs'
  | SWindow du :: evs' => Z.max rwe (max_edge (du.(attr) A_NEW_RT_WIND_EDGE) evs')
  end.

Lemma max_edge_ge rwe evs : rwe <= max_edge rwe evs.
Proof. induction evs as [|[] evs IH]; cbn; lia. Qed.

(** What happened between two states of a sender: [out] went to the network, none of it beyond
    [edge], [wait] waits, [ws] was written meanwhile. *)
Record progress (s : st) (l : list pdu) (sent : Z) (ws : list (list Z)) (edge : Z)
    (s' : st) (out wait : list pdu) (sent' rwe' : Z) : Prop := {
  pg_sender : sender s' wait sent' rwe';
  pg_sent : transmitted s'.(st_log) = transmitted s.(st_log) ++ out;
  pg_data : pdu_data <$> (out ++ wait) = (pdu_data <$> l) ++ ws;
  pg_numbers : consecutive sent (out ++ wait);
  pg_count : sent' = sent + Z.of_nat (length out);
  pg_edge : Forall (fun p => pdu_sn p <= edge) out;
  pg_copies : rtx_of s = true -> rtx_pdus s' = rtx_pdus s ++ out;
  pg_rtx : rtx_of s' = rtx_of s;
  pg_receiver : same_receiver s s'
}.

Lemma progress_refl s l sent rwe : sender s l sent rwe -> progress s l sent [] rwe s [] l sent rwe.
Proof. intros Hs. split; try done; try (by rewrite app_nil_r); [apply Hs|cbn; lia]. Qed.

Lemma progress_trans s l sent ws1 e1 s1 out1 wait1 sent1 rwe1 ws2 e2 s2 out2 wait2 sent2 rwe2 :
  progress s l sent ws1 e1 s1 out1 wait1 sent1 rwe1 -> progress s1 wait1 sent1 ws2 e2 s2 out2 wait2 sent2 rwe2 ->
  e1 <= e2 -> progress s l sent (ws1 ++ ws2) e2 s2 (out1 ++ out2) wait2 sent2 rwe2.
Proof.
  intros [_ T1 D1 C1 L1 F1 X1 O1 R1] [H2 T2 D2 C2 L2 F2 X2 O2 R2] He. split; [done| | | | | | |congruence|by etrans].
  - by rewrite T2, T1, app_assoc.
  - rewrite fmap_app in D1. rewrite <- app_assoc, fmap_app, D2, app_assoc, D1, app_assoc. done.
  - rewrite <- app_assoc. apply consecutive_app. split; [by eapply (proj1 (consecutive_app _ out1 wait1))|]. by rewrite <- L1.
  - rewrite length_app. lia.
  - apply Forall_app. split; [|done]. eapply Forall_impl; [|exact F1]. cbn. lia.
  - intros Hx. rewrite X2 by congruence. by rewrite X1, app_assoc by done.
Qed.

Lemma progress_length s l sent ws e s' out wait sent' rwe' :
  progress s l sent ws e s' out wait sent' rwe' ->
  sent' = sent + Z.of_nat (length out) /\ (length out + length wait = length l + length ws)%nat.
Proof.
  intros [_ _ D _ L _ _ _ _]. split; [done|]. apply (f_equal length) in D. 
  rewrite ?length_fmap, ?length_app, ?length_fmap in D. lia.
Qed.

Lemma progress_edge s l sent ws e e' s' out wait sent' rwe' :
  progress s l sent ws e s' out wait sent' rwe' -> e <= e' -> progress s l sent ws e' s' out wait sent' rwe'.
Proof.
  intros [] He. split; try done. eapply Forall_impl; [|eassumption]. cbn. lia.
Qed.

Lemma write_progress data s l sent rwe :
  sender s l sent rwe -> 0 <= sent -> sent + Z.of_nat (length l) + 1 < 2 ^ 32 ->
  exists s' r out wait sent', dtp_write E data s = Some (r, s') /\ progress s l sent [data] rwe s' out wait sent' rwe.
Proof.
  intros Hsd Hpos Hmax. destruct (dtp_write_run data s l sent rwe Hsd Hpos) as
    (s1 & du & Hrun & Hsn & Hdata & R1 & O1 & Hcase); [lia|].
  destruct (decide (pdu_sn du <= rwe)).
  - destruct Hcase as (-> & Hsd1 & T1 & X1). cbn [length] in *. eexists s1, _, [du], [], (sent + 1). split; [exact Hrun|].
    split; try done; cbn; [by rewrite Hdata|lia|by constructor].
  - destruct Hcase as (Hsd1 & T1 & X1). eexists s1, _, [], (l ++ [du]), sent. split; [exact Hrun|].
    split; try done; [by rewrite app_nil_r|cbn; rewrite fmap_app; cbn; by rewrite Hdata|apply Hsd1|cbn; lia|].
    intros Hx. by rewrite app_nil_r, X1.
Qed.

Lemma window_progress du s l sent rwe :
  sender s l sent rwe ->
  exists s' r out wait sent', update_window_and_rate E du s = Some (r, s') /\
    progress s l sent [] (du.(attr) A_NEW_RT_WIND_EDGE) s' out wait sent' (du.(attr) A_NEW_RT_WIND_EDGE).
Proof.
  intros Hsd. destruct (update_window_run du s l sent rwe Hsd) as (s1 & Hrun & Hsd1 & T1 & X1 & O1 & R1).
  set (r := du.(attr) A_NEW_RT_WIND_EDGE) in *.
  destruct (consecutive_split sent r l) as (E1 & E2 & E3); [apply Hsd|].
  do 5 eexists. split; [exact Hrun|]. split; try done; rewrite ?E1; [by rewrite app_nil_r|apply Hsd|].
  apply List.Forall_forall. intros p Hp%list_elem_of_In. by apply list_elem_of_filter in Hp as [Hp _].
Qed.

(** C4: with memory for every allocation and sequence numbers that do not wrap around, whatever
    the order of writes and window updates, nothing that a user writes is lost, duplicated or
    reordered: what was handed to the network followed by what still waits is what waited before
    followed by what was written, numbered consecutively; no PDU goes beyond the greatest right
    window edge announced, and with retransmission control a copy of everything sent is kept. *)
Theorem dtp_sender_fifo (evs : list snd_event) (s : st) (l : list pdu) (sent rwe : Z) :
  sender s l sent rwe -> 0 <= sent ->
  sent + Z.of_nat (length l) + Z.of_nat (length (written evs)) < 2 ^ 32 ->
  exists s' out wait sent' rwe', snd_run evs s = Some (tt, s') /\ sender s' wait sent' rwe' /\
    transmitted s'.(st_log) = transmitted s.(st_log) ++ out /\
    pdu_data <$> (out ++ wait) = (pdu_data <$> l) ++ written evs /\
    consecutive sent (out ++ wait) /\ sent' = sent + Z.of_nat (length out) /\
    Forall (fun p => pdu_sn p <= max_edge rwe evs) out /\
    (rtx_of s = true -> rtx_pdus s' = rtx_pdus s ++ out) /\ same_receiver s s'.
Proof.
  intros Hsd Hpos Hmax.
  enough (exists s' out wait sent' rwe', snd_run evs s = Some (tt, s') /\
    progress s l sent (written evs) (max_edge rwe evs) s' out wait sent' rwe') as (s' & out & wait & sent' & rwe' & Hr & []).
  { exists s', out, wait, sent', rwe'. by split_and!. }
  revert s l sent rwe Hsd Hpos Hmax. induction evs as [|[data|du] evs IH]; intros s l sent rwe Hsd Hpos Hmax.
  - exists s, [], l, sent, rwe. split; [done|]. by apply progress_refl.
  - change (written (SWrite data :: evs)) with ([data] ++ written evs) in *. cbn [length app] in Hmax.
    destruct (write_progress data s l sent rwe Hsd Hpos) as (s1 & r & o1 & w1 & n1 & Hrun & P1); [lia|].
    pose proof (progress_length _ _ _ _ _ _ _ _ _ _ P1) as Hl. cbn [length] in Hl.
    destruct (IH s1 w1 n1 rwe (pg_sender _ _ _ _ _ _ _ _ _ _ P1)) as (s' & out & wait & sent' & rwe' & Hr & P2); [lia|lia|].
    cbn [snd_run]. erewrite run_bind by exact Hrun. do 5 eexists. split; [exact Hr|].
    eapply progress_trans; [exact P1|exact P2|]. apply max_edge_ge.
  - destruct (window_progress du s l sent rwe Hsd) as (s1 & r & o1 & w1 & n1 & Hrun & P1).
    pose proof (progress_length _ _ _ _ _ _ _ _ _ _ P1) as Hl. cbn [length] in Hl.
    destruct (IH s1 w1 n1 _ (pg_sender _ _ _ _ _ _ _ _ _ _ P1)) as (s' & out & wait & sent' & rwe' & Hr & P2);
      [lia|change (written (SWindow du :: evs)) with (written evs) in Hmax; lia|].
    cbn [snd_run]. erewrite run_bind by exact Hrun. do 5 eexists. split; [exact Hr|].
    change (written (SWindow du :: evs)) with ([] ++ written evs). cbn [max_edge].
    eapply progress_edge; [|apply Z.le_max_r]. eapply progress_trans; [exact P1|exact P2|]. apply max_edge_ge.
Qed.
End Sender.

(** ** The receiver hands over every PDU once and in order *)

Section Receiver.
Context (E : env).
Hypothesis dt_seq : E.(dt).(seq_num_length) = 4.

(** The greatest credit of the connection. *)
Context (K : Z).

(** The constant part of a reliable connection: retransmission control, and, when
    there is window-based flow control, the window open by the credit. *)
Definition reliable (LWE : Z) (c : dtcp) : Prop :=
  dtcp_rtx_ctrl c.(dtcp_cfg) = true /\ c.(dtcp_ps_of).(ps_rtx_ctrl) = true /\
  (dtcp_window_based_fctrl c.(dtcp_cfg) = true ->
     c.(dtcp_ps_of).(ps_flow_ctrl) = true /\ c.(dtcp_ps_of).(ps_window_based) = true /\
     1 <= c.(dtcp_sv_of).(rcvr_credit) <= K /\
     c.(dtcp_sv_of).(rcvr_rt_wind_edge) = LWE + c.(dtcp_sv_of).(rcvr_credit)).

(** A receiver in the middle of a run, without an A timer, that accepts no gaps. *)
Record receiving (s : st) (LWE : Z) : Prop := {
  rc_oracle : s.(st_oracle) = [];
  rc_drf : s.(st_dtp).(dtp_sv_of).(drf_required) = false;
  rc_A : s.(st_dtp).(dtp_sv_of).(sv_A) = 0;
  rc_gap : s.(st_dtp).(dtp_ps_of).(max_sdu_gap) = 0;
  rc_lwe : s.(st_dtp).(dtp_sv_of).(rcv_left_window_edge) = LWE;
  rc_dtcp : exists c, s.(st_dtp).(dtp_dtcp) = Some c /\ reliable LWE c;
  rc_send : ringq_holds s.(st_dtp).(to_send) []
}.

(** A step that neither hands over, nor sends, nor touches the window. *)
Definition quiet (s s' : st) : Prop :=
  ctrl_frame s s' /\ s'.(st_dtp).(to_send) = s.(st_dtp).(to_send) /\
  transmitted s'.(st_log) = transmitted s.(st_log).

#[local] Instance quiet_PreOrder : PreOrder quiet.
Proof.
  split; [by intros s; split|]. intros a b c (?&?&?) (?&?&?). split; [by etrans|].
  split; congruence.
Qed.

Lemma receiving_quiet s s' LWE : quiet s s' -> receiving s LWE -> receiving s' LWE.
Proof.
  intros (((H1 & H2 & H3 & H4 & H5 & H6 & H7) & Ho & Hc) & Hs & _) [].
  destruct rc_dtcp0 as (c & Ec & Hrel & Hps & Hw).
  destruct (Hc c Ec) as (c' & Ec' & K1 & K2 & K3 & K4).
  split; try congruence; [by auto|].
  exists c'. split; [done|]. unfold reliable. by rewrite K1, K2, K3, K4.
Qed.

Lemma quiet_timers tm s : quiet s (set_st_dtp (set_timers tm s.(st_dtp)) s).
Proof. split; [|done]. split; [by repeat split|]. split; [done|]. intros c Hc. by exists c. Qed.

Lemma quiet_destroy du s : quiet s (set_st_log (s.(st_log) ++ [EvDestroy du]) s).
Proof.
  split; [|split; [done|]].
  - split; [|split; [done|intros c Hc; by exists c]].
    repeat split. cbn [st_log set_st_log]. by rewrite posted_app, app_nil_r.
  - cbn [st_log set_st_log]. by rewrite transmitted_app, app_nil_r.
Qed.

Lemma quiet_stats f s :
  (forall v, (f v).(rcv_left_window_edge) = v.(rcv_left_window_edge) /\
     (f v).(drf_required) = v.(drf_required) /\ (f v).(sv_A) = v.(sv_A)) ->
  quiet s (set_st_dtp (set_dtp_sv_of (f s.(st_dtp).(dtp_sv_of)) s.(st_dtp)) s).
Proof.
  intros Hf. destruct (Hf s.(st_dtp).(dtp_sv_of)) as (?&?&?). split; [|done].
  split; [by repeat split|]. split; [done|]. intros c Hc. by exists c.
Qed.

Lemma quiet_csv f s c :
  s.(st_dtp).(dtp_dtcp) = Some c ->
  (f c.(dtcp_sv_of)).(rcvr_credit) = c.(dtcp_sv_of).(rcvr_credit) ->
  (f c.(dtcp_sv_of)).(rcvr_rt_wind_edge) = c.(dtcp_sv_of).(rcvr_rt_wind_edge) ->
  quiet s (set_st_dtp (set_dtp_dtcp (Some (set_dtcp_sv_of (f c.(dtcp_sv_of)) c)) s.(st_dtp)) s).
Proof. intros Hc H1 H2. split; [by apply ctrl_frame_csv|done]. Qed.

(** A PDU that is dropped. *)
Lemma drop_run du s :
  exists s', (stats_inc_drop ;;; du_destroy du ;;; ret 0) s = Some (0, s') /\ quiet s s'.
Proof.
  unfold stats_inc_drop. erewrite run_bind by apply mod_sv_run.
  erewrite run_bind by reflexivity. eexists. split; [reflexivity|].
  etrans; [|apply quiet_destroy].
  by apply (quiet_stats (fun v => set_stat_drop_pdus (u32 (stat_drop_pdus v + 1)) v)).
Qed.

(** The flow-control check. *)
Lemma is_fc_overrun_run sn n s c LWE :
  s.(st_dtp).(dtp_dtcp) = Some c -> reliable LWE c ->
  exists b s', is_fc_overrun sn n s = Some (b, s') /\ quiet s s' /\ (sn = LWE + 1 -> b = false).
Proof.
  intros Hc (_ & _ & Hw). unfold is_fc_overrun, get_dtp. erewrite run_bind by reflexivity.
  rewrite Hc.
  assert (exists s', whenb (dtcp_rate_based_fctrl (dtcp_cfg c) && (0 <=? n))
    (mod_csv (fun c => set_pdus_rcvd_in_time_unit (u32 (pdus_rcvd_in_time_unit c + n)) c)) s
    = Some (tt, s') /\ quiet s s') as (s' & Hrun & Hq).
  { destruct (_ && _); cbn [whenb]; [|by exists s]. erewrite mod_csv_run by exact Hc.
    eexists. split; [reflexivity|]. by apply (quiet_csv
      (fun c => set_pdus_rcvd_in_time_unit (u32 (pdus_rcvd_in_time_unit c + n)) c)). }
  erewrite run_bind by exact Hrun. eexists _, s'. split; [reflexivity|]. split; [done|].
  intros ->. destruct (dtcp_window_based_fctrl _); [|done]. cbn [andb].
  destruct (Hw eq_refl) as (_ & _ & Hcr & ->). apply Z.ltb_ge. lia.
Qed.

(** The end of the rendezvous at the receiver. *)
Lemma clear_rendezvous_run s c :
  s.(st_dtp).(dtp_dtcp) = Some c ->
  exists s', whenb c.(dtcp_sv_of).(rendezvous_rcvr)
    (mod_csv (set_rendezvous_rcvr false) ;;;
     mod_dtcp (fun c => set_t_rendezvous_rcv (snd (rtimer_stop c.(t_rendezvous_rcv))) c)) s
    = Some (tt, s') /\ quiet s s'.
Proof.
  intros Hc. destruct (rendezvous_rcvr _); cbn [whenb]; [|by exists s].
  erewrite run_bind by by apply mod_csv_run. unfold mod_dtcp. cbn.
  eexists. split; [reflexivity|]. split; [|done]. split; [by repeat split|]. split; [done|].
  intros c' Hc'. rewrite Hc in Hc'. injection Hc' as <-. eexists. by split.
Qed.

(** The update of the window and the acknowledgements after the left window edge is
    [LWE']. *)
Lemma acknowledge_run du s c LWE LWE' :
  s.(st_oracle) = [] -> s.(st_dtp).(dtp_dtcp) = Some c -> reliable LWE c ->
  s.(st_dtp).(dtp_sv_of).(rcv_left_window_edge) = LWE' -> 0 <= LWE' -> LWE' + K < 2 ^ 32 -> 0 <= K ->
  ringq_holds s.(st_dtp).(to_send) [] ->
  exists out s1 s', dtcp_sv_update E du s = Some (0, s1) /\
    dtp_send_pending_ctrl_pdus s1 = Some (tt, s') /\ same_receiver s s' /\ s'.(st_oracle) = [] /\
    (exists c', s'.(st_dtp).(dtp_dtcp) = Some c' /\ reliable LWE' c') /\
    ringq_holds s'.(st_dtp).(to_send) [] /\
    transmitted s'.(st_log) = transmitted s.(st_log) ++ out /\ Forall (ack_of LWE') out.
Proof.
  intros Ho Hc (Hcfg & Hps & Hw) Hl H0 Hb HK Hh.
  destruct (dtcp_sv_update_rtx E dt_seq du s c Ho Hc Hps) as
    (out & s1 & c1 & Hupd & R1 & O1 & L1 & Ec1 & C1 & C2 & C3 & C4 & Hh1 & Hall);
    [rewrite Hl; split; lia|done|].
  destruct (dtp_send_pending_run s1 c1 out O1 Ec1 Hh1) as (s2 & Hsend & (R2 & O2 & Hc2) & Hh2 & T2).
  destruct (Hc2 c1 Ec1) as (c2 & Ec2 & D1 & D2 & D3 & D4).
  exists out, s1, s2. split; [done|]. split; [done|]. split; [by etrans|]. split; [auto|].
  split; [|split; [done|split; [by rewrite T2, L1|by rewrite Hl in Hall]]].
  exists c2. split; [done|]. unfold reliable. rewrite D1, D2, D3, D4, C1, C2, C3.
  split; [done|]. split; [done|]. intros Hwb. destruct (Hw Hwb) as (W1 & W2 & W3 & W4).
  split_and!; try (done || lia). rewrite (C4 W1 W2), Hl. apply uwrap_small. split; lia.
Qed.

Lemma receive_no_a_run du in_order s LWE :
  receiving s LWE -> 0 <= LWE < pdu_sn du -> pdu_sn du < 2 ^ 32 -> LWE + 1 + K < 2 ^ 32 -> 0 <= K ->
  let LWE' := if decide (pdu_sn du = LWE + 1) then LWE + 1 else LWE in
  exists out s', receive_no_a E du LWE in_order 0 s = Some (0, s') /\
    posted s'.(st_log) = posted s.(st_log) ++ (if decide (pdu_sn du = LWE + 1) then [du] else []) /\
    transmitted s'.(st_log) = transmitted s.(st_log) ++ out /\
    receiving s' LWE' /\ Forall (ack_of LWE') out.
Proof.
  intros [Ho Hd HA Hg Hl (c & Hc & Hrel) Hh] [H0 Hsn] Hmax HmK HK LWE'.
  unfold receive_no_a, get_dtp. erewrite run_bind by reflexivity. rewrite Hc.
  destruct (Hrel) as (Hcfg & _ & _). rewrite Hcfg. cbn [andb].
  rewrite !uwrap_small by (split; lia). change (0 + 1) with 1.
  replace (negb (1 <? pdu_sn du - LWE)) with (bool_decide (pdu_sn du = LWE + 1))
    by (destruct (Z.ltb_spec 1 (pdu_sn du - LWE));
        [rewrite bool_decide_eq_false_2|rewrite bool_decide_eq_true_2]; (done || lia)).
  unfold LWE'. destruct (decide (pdu_sn du = LWE + 1)) as [Heq|Hne].
  - rewrite bool_decide_eq_true_2 by done. cbn [whenb negb].
    erewrite run_bind by apply mod_sv_run. set (s0 := set_st_dtp _ s).
    destruct (acknowledge_run du s0 c LWE (LWE + 1)) as
      (out & s1 & s2 & Hupd & Hsend & R & O & Hrel' & Hh' & T & Hall); try done; try lia.
    erewrite run_bind by exact Hupd. cbn [negb Z.eqb]. erewrite run_bind by exact Hsend.
    set (s3 := set_st_log (s2.(st_log) ++ [EvPost du]) s2).
    erewrite run_bind; [|unfold pdu_post; erewrite run_bind by (by apply ask_granted); cbn [negb];
      erewrite run_bind by reflexivity; fold s3; reflexivity].
    cbn [negb Z.eqb]. unfold stats_inc_bytes_rx. erewrite run_bind by apply mod_sv_run.
    eexists out, _. split; [reflexivity|].
    destruct R as (R1 & R2 & R3 & R4 & R5 & R6 & R7).
    change (st_log (set_st_dtp _ s3)) with (s2.(st_log) ++ [EvPost du]).
    rewrite posted_app, transmitted_app, R7, T, app_nil_r.
    split; [done|]. split; [done|]. split; [|done]. unfold s0 in R3, R4, R5, R6.
    cbn in R3, R4, R5, R6. split; cbn; try congruence; done.
  - rewrite bool_decide_eq_false_2 by done. cbn [whenb negb].
    erewrite run_bind by reflexivity.
    destruct (acknowledge_run du s c LWE LWE) as
      (out & s1 & s2 & Hupd & Hsend & R & O & Hrel' & Hh' & T & Hall); try done; try lia.
    erewrite run_bind by exact Hupd. cbn [negb Z.eqb]. erewrite run_bind by exact Hsend.
    erewrite run_bind by reflexivity. eexists out, _. split; [reflexivity|].
    destruct R as (R1 & R2 & R3 & R4 & R5 & R6 & R7).
    cbn [st_log set_st_log]. rewrite posted_app, transmitted_app, R7, T, !app_nil_r.
    split; [done|]. split; [done|]. split; [|done].
    split; cbn; try congruence; done.
Qed.

(** One PDU received. *)
Lemma dtp_receive_run du s LWE :
  receiving s LWE -> 0 <= LWE -> pdu_sn du < 2 ^ 32 -> LWE + 1 + K < 2 ^ 32 -> 0 <= K ->
  let LWE' := if decide (pdu_sn du = LWE + 1) then LWE + 1 else LWE in
  exists out s', dtp_receive E du s = Some (0, s') /\
    posted s'.(st_log) = posted s.(st_log) ++ (if decide (pdu_sn du = LWE + 1) then [du] else []) /\
    transmitted s'.(st_log) = transmitted s.(st_log) ++ out /\
    receiving s' LWE' /\ Forall (ack_of LWE') out.
Proof.
  intros Hrc H0 Hsn HmK HK LWE'. destruct (Hrc) as [Ho Hd HA Hg Hl (c & Hc & Hrel) Hh].
  unfold dtp_receive, get_dtp. erewrite run_bind by reflexivity. rewrite Hd, HA, Hg, Hl.
  (* the PDU is dropped *)
  assert (forall s1, quiet s s1 -> pdu_sn du <> LWE + 1 ->
    exists out s', (stats_inc_drop ;;; du_destroy du ;;; ret 0) s1 = Some (0, s') /\
      posted s'.(st_log) = posted s.(st_log) ++ (if decide (pdu_sn du = LWE + 1) then [du] else []) /\
      transmitted s'.(st_log) = transmitted s.(st_log) ++ out /\
      receiving s' LWE' /\ Forall (ack_of LWE') out) as Hdrop.
  { intros s1 Hq Hne. destruct (drop_run du s1) as (s' & Hrun & Hq').
    assert (quiet s s') as Hq2 by by etrans. exists [], s'. unfold LWE'.
    rewrite !decide_False, !app_nil_r by done.
    pose proof (receiving_quiet _ _ _ Hq2 Hrc). destruct Hq2 as (((_ & _ & _ & _ & _ & _ & P) & _) & _ & T).
    by split_and!. }
  destruct (Z.leb_spec (pdu_sn du) LWE) as [Hle|Hgt].
  { erewrite run_bind by reflexivity. cbv iota. apply Hdrop; [done|lia]. }
  destruct (is_fc_overrun_run (pdu_sn du) (pdu_data_len du) s c LWE Hc Hrel) as (b & s1 & Hov & Q1 & Hb).
  erewrite run_bind by exact Hov. destruct b; cbv iota.
  { apply Hdrop; [done|]. intros Heq. by apply Hb in Heq. }
  destruct (timer_restart_run E t_receiver_inactivity set_t_receiver_inactivity
    (u32 (2 * u32 (sv_MPL (dtp_sv_of (st_dtp s)) + sv_R (dtp_sv_of (st_dtp s)) + 0))) s1)
    as (tm & Htm & _).
  erewrite run_bind by exact Htm. cbn [negb Z.eqb].
  set (s2 := set_st_dtp (set_timers tm s1.(st_dtp)) s1) in *.
  assert (quiet s s2) as Q2 by (etrans; [exact Q1|apply quiet_timers]).
  destruct (rc_dtcp _ _ (receiving_quiet _ _ _ Q2 Hrc)) as (c2 & Hc2 & _).
  erewrite run_bind by (apply get_csv_run; exact Hc2).
  destruct (clear_rendezvous_run s2 c2 Hc2) as (s3 & Hrun3 & Q3').
  erewrite run_bind by exact Hrun3. assert (quiet s s3) as Q3 by by etrans.
  change (0 =? 0) with true. cbv iota.
  destruct (receive_no_a_run du (in_order_delivery (dtp_ps_of (st_dtp s))) s3 LWE) as
    (out & s' & Hrun & P & T & Hrc' & Hall); [by eapply receiving_quiet|lia|done|done|done|].
  exists out, s'. destruct Q3 as (((_ & _ & _ & _ & _ & _ & P3) & _) & _ & T3).
  rewrite P3 in P. rewrite T3 in T. by split_and!.
Qed.

Fixpoint rcv_run (l : list pdu) : M unit :=
  match l with
  | [] => ret tt
  | du :: l' => dtp_receive E du ;;; rcv_run l'
  end.

(** The PDUs of [l] that a receiver at [LWE] hands over. *)
Fixpoint in_order (LWE : Z) (l : list pdu) : list pdu :=
  match l with
  | [] => []
  | p :: l' => if decide (pdu_sn p = LWE + 1) then p :: in_order (LWE + 1) l' else in_order LWE l'
  end.

Lemma in_order_consecutive LWE l : consecutive LWE (in_order LWE l).
Proof.
  revert LWE. induction l as [|p l IH]; intros LWE; cbn; [done|].
  destruct (decide _); [|done]. by split.
Qed.

(** What is handed over out of anything the network delivers of a consecutive run is
    the beginning of that run. *)
Lemma in_order_prefix LWE l sent :
  consecutive LWE sent -> Forall (fun p => p ∈ sent \/ pdu_sn p <= LWE) l ->
  in_order LWE l `prefix_of` sent.
Proof.
  revert LWE sent. induction l as [|p l IH]; intros LWE sent Hc Hl; cbn; [apply prefix_nil|].
  inversion Hl as [|? ? Hp Hl0]; subst. clear Hl. rename Hl0 into Hl. destruct (decide (pdu_sn p = LWE + 1)) as [Heq|Hne].
  - destruct sent as [|q sent]; [destruct Hp as [Hp|]; [by apply not_elem_of_nil in Hp|lia]|].
    destruct Hc as [Hq Hc]. pose proof (consecutive_beyond _ _ Hc) as Hb.
    assert (p = q) as ->.
    { destruct Hp as [Hp|]; [|lia]. apply elem_of_cons in Hp as [->|Hp]; [done|].
      rewrite List.Forall_forall in Hb. apply list_elem_of_In in Hp. specialize (Hb p Hp). cbn in Hb. lia. }
    apply prefix_cons, IH; [done|]. eapply Forall_impl; [|exact Hl]. cbn.
    intros x [Hx|Hx]; [|right; lia]. apply elem_of_cons in Hx as [->|Hx]; [right; lia|by left].
  - by apply IH.
Qed.

(** The PDUs handed over and the acknowledgements sent for a sequence of arrivals. *)
Lemma rcv_run_in_order (l : list pdu) (s : st) (LWE : Z) :
  receiving s LWE -> 0 <= LWE -> 0 <= K -> LWE + Z.of_nat (length l) + K < 2 ^ 32 ->
  Forall (fun p => pdu_sn p < 2 ^ 32) l ->
  exists s' out, rcv_run l s = Some (tt, s') /\
    posted s'.(st_log) = posted s.(st_log) ++ in_order LWE l /\
    receiving s' (LWE + Z.of_nat (length (in_order LWE l))) /\
    transmitted s'.(st_log) = transmitted s.(st_log) ++ out /\
    Forall (fun p => is_ack (pdu_type p) /\
      LWE <= attr p A_ACK_SEQ_NUM <= LWE + Z.of_nat (length (in_order LWE l))) out.
Proof.
  intros Hrc H0 HK Hmax Hsn.
  revert s LWE Hrc H0 Hmax. induction l as [|du l IH]; intros s LWE Hrc H0 Hmax.
  { exists s, []. cbn. rewrite !app_nil_r, Z.add_0_r. by split_and!. }
  inversion Hsn as [|? ? Hdu Hsn']; subst. cbn [length] in Hmax.
  destruct (dtp_receive_run du s LWE Hrc H0 Hdu) as (out1 & s1 & Hrun & P1 & T1 & Hrc1 & A1);
    [lia|done|].
  cbn [in_order rcv_run]. erewrite run_bind by exact Hrun.
  destruct (decide (pdu_sn du = LWE + 1)) as [Heq|Hne].
  - destruct (IH Hsn' s1 (LWE + 1) Hrc1) as (s' & out & Hr & P & Hrc' & T & A); [lia|lia|].
    exists s', (out1 ++ out). cbn [length].
    replace (LWE + Z.of_nat (S (length (in_order (LWE + 1) l)))) with
      (LWE + 1 + Z.of_nat (length (in_order (LWE + 1) l))) by lia.
    split_and!; [done|by rewrite P, P1, <- app_assoc|done|by rewrite T, T1, <- app_assoc|].
    apply Forall_app. split; [|eapply Forall_impl; [|exact A]; cbn; intros ? [? ?]; split; [done|lia]].
    eapply Forall_impl; [|exact A1]. intros p [Hp1 Hp2]. split; [done|lia].
  - destruct (IH Hsn' s1 LWE Hrc1) as (s' & out & Hr & P & Hrc' & T & A); [lia|lia|].
    exists s', (out1 ++ out). rewrite app_nil_r in P1.
    split_and!; [done|by rewrite P, P1|done|by rewrite T, T1, <- app_assoc|].
    apply Forall_app. split; [|done].
    eapply Forall_impl; [|exact A1]. intros p [Hp1 Hp2]. split; [done|lia].
Qed.

(** C3: over any network - PDUs lost, duplicated, reordered or foreign to the window - a
    receiver with retransmission control, no A timer, no allowed gap and memory for every
    allocation hands over the PDUs with consecutive numbers from its left window edge on, each
    once and in order: when everything received comes from a consecutive run, a prefix of that
    run. It never faults, and every acknowledgement it sends is for a number it has reached. *)
Theorem dtp_receiver_in_order (l : list pdu) (s : st) (LWE : Z) :
  receiving s LWE -> 0 <= LWE -> 0 <= K -> LWE + Z.of_nat (length l) + K < 2 ^ 32 ->
  Forall (fun p => pdu_sn p < 2 ^ 32) l ->
  let LWE' := LWE + Z.of_nat (length (in_order LWE l)) in
  exists s' out, rcv_run l s = Some (tt, s') /\
    posted s'.(st_log) = posted s.(st_log) ++ in_order LWE l /\
    consecutive LWE (in_order LWE l) /\ receiving s' LWE' /\
    (forall sent, consecutive LWE sent -> Forall (fun p => p ∈ sent) l ->
       in_order LWE l `prefix_of` sent) /\
    transmitted s'.(st_log) = transmitted s.(st_log) ++ out /\
    Forall (fun p => is_ack (pdu_type p) /\ LWE <= attr p A_ACK_SEQ_NUM <= LWE') out.
Proof.
  intros Hrc H0 HK Hmax Hsn. cbv zeta.
  destruct (rcv_run_in_order l s LWE Hrc H0 HK Hmax Hsn) as (s' & out & H1 & H2 & H3 & H4 & H5).
  exists s', out. split_and!; try done; [apply in_order_consecutive|].
  intros sent Hc Hl. apply in_order_prefix; [done|]. eapply Forall_impl; [|exact Hl]. by left.
Qed.

(** *** Progress *)

Lemma in_order_app LWE a b :
  in_order LWE (a ++ b) = in_order LWE a ++ in_order (LWE + Z.of_nat (length (in_order LWE a))) b.
Proof.
  revert LWE. induction a as [|p a IH]; intros LWE; cbn [app in_order]; [by rewrite Z.add_0_r|].
  destruct (decide _); rewrite IH; [|done]. cbn [length app]. do 3 f_equal. lia.
Qed.

Lemma in_order_progress LWE l p : p ∈ l -> pdu_sn p = LWE + 1 -> in_order LWE l <> [].
Proof.
  intros Hp Hsn. induction Hp as [p l|p q l Hp IH]; cbn; [by rewrite decide_True|].
  destruct (decide _); [done|auto].
Qed.

Lemma consecutive_lookup LWE l i p : consecutive LWE l -> l !! i = Some p -> pdu_sn p = LWE + Z.of_nat i + 1.
Proof.
  revert LWE i. induction l as [|q l IH]; intros LWE i Hc Hi; [done|]. destruct Hc as [Hq Hc].
  destruct i as [|i]; cbn in Hi; [simplify_eq; lia|]. rewrite (IH _ _ Hc Hi). lia.
Qed.

(** In every round in which all PDUs of the run arrive, at least one more is handed over. *)
Lemma rounds_progress LWE sent rounds k :
  consecutive LWE sent -> Forall (fun r => Forall (fun p => p ∈ r) sent) rounds -> (k <= length sent)%nat ->
  (length sent `min` (k + length rounds) <=
   k + length (in_order (LWE + Z.of_nat k) (concat rounds)))%nat.
Proof.
  intros Hc Hr. revert k. induction Hr as [|r rounds Hr Hrs IH]; intros k Hk; cbn [concat length]; [cbn; lia|].
  rewrite in_order_app, length_app.
  set (n := length (in_order (LWE + Z.of_nat k) r)).
  destruct (decide (k + n <= length sent)%nat) as [Hle|]; [|lia].
  specialize (IH (k + n)%nat Hle). rewrite Nat2Z.inj_add, Z.add_assoc in IH.
  assert (k = length sent \/ 1 <= n)%nat as [|]; [|lia|lia].
  destruct (sent !! k) as [p|] eqn:Hp; [|left; apply lookup_ge_None in Hp; lia]. right.
  assert (in_order (LWE + Z.of_nat k) r <> []) as Hne.
  { apply (in_order_progress _ _ p); [|by apply (consecutive_lookup _ _ _ _ Hc)].
    rewrite List.Forall_forall in Hr. apply Hr, list_elem_of_In, (list_elem_of_lookup_2 _ _ _ Hp). }
  unfold n. destruct (in_order _ r); [done|cbn; lia].
Qed.

(** C5: a sender that repeats its PDUs until they are acknowledged gets them all through to a
    receiver with retransmission control, no A timer, no allowed gap and memory for every
    allocation ([receiving]): whatever the order, and however often, the PDUs of a run arrive in
    a round, and with anything else of the run between them, after as many rounds as there are
    PDUs every one of them has been handed over, once and in order. *)
Theorem dtp_eventual_delivery (sent : list pdu) (rounds : list (list pdu)) (s : st) (LWE : Z) :
  receiving s LWE -> 0 <= LWE -> 0 <= K -> LWE + Z.of_nat (length (concat rounds)) + K < 2 ^ 32 ->
  consecutive LWE sent -> Forall (fun p => pdu_sn p < 2 ^ 32) sent ->
  Forall (fun r => Forall (fun p => p ∈ sent) r /\ Forall (fun p => p ∈ r) sent) rounds ->
  (length sent <= length rounds)%nat ->
  exists s', rcv_run (concat rounds) s = Some (tt, s') /\
    posted s'.(st_log) = posted s.(st_log) ++ sent /\
    receiving s' (LWE + Z.of_nat (length sent)).
Proof.
  intros Hrc H0 HK Hmax Hc Hsn Hr Hn.
  assert (Forall (fun p => p ∈ sent) (concat rounds)) as Hall.
  { apply Forall_concat. eapply Forall_impl; [|exact Hr]. by intros r [? _]. }
  assert (in_order LWE (concat rounds) = sent) as Hdone.
  { destruct (in_order_prefix LWE (concat rounds) sent Hc) as [rest Hrest];
      [eapply Forall_impl; [|exact Hall]; by left|].
    pose proof (rounds_progress LWE sent rounds 0 Hc) as Hp. rewrite Z.add_0_r in Hp.
    specialize (Hp ltac:(eapply Forall_impl; [|exact Hr]; by intros r [_ ?]) ltac:(lia)).
    rewrite Hrest, length_app in Hp at 1. pose proof (f_equal length Hrest) as Hlen. rewrite length_app in Hlen.
    destruct rest; [by rewrite app_nil_r in Hrest|]. cbn in *. lia. }
  destruct (rcv_run_in_order (concat rounds) s LWE Hrc H0 HK Hmax) as (s' & out & H1 & H2 & H3 & _).
  { eapply Forall_impl; [|exact Hall]. intros p Hp. rewrite List.Forall_forall in Hsn. by apply Hsn, list_elem_of_In. }
  rewrite Hdone in H2, H3. by exists s'.
Qed.

(** An acknowledgement for which there is no memory. *)
Lemma dtcp_sv_update_no_memory du o s c :
  s.(st_oracle) = false :: o -> s.(st_dtp).(dtp_dtcp) = Some c ->
  c.(dtcp_ps_of).(ps_rtx_ctrl) = true -> E.(config_rcvr_ack) = true ->
  c.(dtcp_sv_of).(last_snd_data_ack) < s.(st_dtp).(dtp_sv_of).(rcv_left_window_edge) ->
  exists s', dtcp_sv_update E du s = Some (-1, s') /\ s'.(st_log) = s.(st_log) /\
    s'.(st_dtp).(dtp_sv_of) = s.(st_dtp).(dtp_sv_of).
Proof.
  destruct s as [[] oo lg]. cbn [st_oracle st_dtp EfcpState.dtp_dtcp EfcpState.dtp_sv_of].
  intros -> -> Hps HE Hack%Z.ltb_lt.
  unfold dtcp_sv_update, default_rcvr_flow_control, default_rate_reduction, rcvr_ack, default_rcvr_ack,
    dtcp_ack_flow_control_pdu_send, pdu_ctrl_type_get, ctrl_pdu_send, pdu_ctrl_generate, add_in_transit,
    mod_csv, mod_dtcp, get_sv, gets, get_dtcp, ask, bind, ret.
  cbn -[Z.ltb Z.eqb]. rewrite Hps, HE.
  destruct (ps_flow_ctrl (dtcp_ps_of c)) eqn:Ef, (ps_window_based (dtcp_ps_of c)),
    (ps_rate_based (dtcp_ps_of c)); cbn -[Z.ltb Z.eqb];
    try destruct ((attr du A_SNDR_RATE =? 0) || (attr du A_TIME_FRAME =? 0));
    cbn -[Z.ltb Z.eqb]; rewrite Hack, ?Ef; eexists; repeat split.
Qed.

(** The left window edge advances before the acknowledgement of a PDU is made:
    when the control PDU cannot be allocated the PDU is destroyed although the window
    has passed it, and a retransmission of it is dropped as a duplicate. *)
Theorem dtp_receive_lost (du : pdu) (b : bool) (o : oracle) (s : st) (c : dtcp) (LWE : Z) :
  s.(st_oracle) = false :: o -> s.(st_dtp).(dtp_dtcp) = Some c ->
  dtcp_rtx_ctrl c.(dtcp_cfg) = true -> c.(dtcp_ps_of).(ps_rtx_ctrl) = true ->
  E.(config_rcvr_ack) = true -> c.(dtcp_sv_of).(last_snd_data_ack) < LWE + 1 ->
  s.(st_dtp).(dtp_sv_of).(drf_required) = false ->
  0 <= LWE -> LWE + 1 < 2 ^ 32 -> pdu_sn du = LWE + 1 ->
  exists s1 s2, receive_no_a E du LWE b 0 s = Some (-1, s1) /\
    s1.(st_dtp).(dtp_sv_of).(rcv_left_window_edge) = LWE + 1 /\
    s1.(st_log) = s.(st_log) ++ [EvDestroy du] /\
    dtp_receive E du s1 = Some (0, s2) /\ s2.(st_log) = s1.(st_log) ++ [EvDestroy du].
Proof.
  intros Ho Hc Hcfg Hps HE Hack Hdrf H0 Hmax Hsn.
  unfold receive_no_a, get_dtp. erewrite run_bind by reflexivity. rewrite Hc, Hcfg, Hsn. cbn [andb].
  cbv zeta. rewrite !uwrap_small by (split; lia).
  replace (0 + 1 <? LWE + 1 - LWE) with false by (symmetry; apply Z.ltb_ge; lia). cbn [negb whenb].
  erewrite run_bind by apply mod_sv_run. set (s0 := set_st_dtp _ _).
  destruct (dtcp_sv_update_no_memory du o s0 c Ho Hc Hps HE Hack) as (s1 & Hupd & L1 & W1).
  erewrite run_bind by exact Hupd. cbn [negb Z.eqb]. erewrite run_bind by reflexivity.
  eexists _, _. split; [reflexivity|]. cbn [st_dtp st_log set_st_log]. rewrite W1, L1.
  split; [done|]. split; [done|].
  unfold dtp_receive, get_dtp. erewrite run_bind by reflexivity. cbn [st_dtp set_st_log]. rewrite W1.
  cbn [EfcpState.dtp_sv_of set_dtp_sv_of st_dtp set_st_dtp s0 drf_required set_rcv_left_window_edge
    rcv_left_window_edge]. rewrite Hdrf, Hsn, Z.leb_refl.
  erewrite run_bind by reflexivity. cbv iota. split; reflexivity.
Qed.
End Receiver.
