(* ===== verification/Transfer.v ===== *)
(** * What every handler of a connection keeps

    The invariant of one end of a reliable connection under all of its handlers: the
    writes of the user, the PDUs received - data or control, whatever they hold - and
    the timers.  No handler faults, every PDU given to the network is a control PDU or
    one of those written, and what is handed to the user only grows, PDU by PDU, in
    the order of the sequence numbers.  [Efcp.v] puts two ends together. *)

From S2P Require Import Prelude Kucommon Pci Rds Queues EfcpState DtpUtils Dtcp Dtp.
From Stdlib Require Import ZArith Lia.
From stdpp Require Import base list numbers option.
Import Rqueue Ringq Rtimer Ordered Seqq Rtxq Rttq Cwq.
#[local] Open Scope Z_scope.
#[local] Open Scope efcp_scope.

(** ** The invariant *)

(** What is known of an end: the PDUs it has numbered, the last number, the left
    window edge of its receiving side, what it has handed to its user, whether it has
    a round-trip-time queue, and bounds of the length of its closed-window queue and of
    its ring of control PDUs. *)
Record view := mk_view {
  v_all : list pdu;
  v_next : Z;
  v_lwe : Z;
  v_got : list pdu;
  v_rtt : bool;
  v_cwq : nat;
  v_ring : nat
}.

Definition is_ctrl (p : pdu) : Prop := pdu_type_is_control (pdu_type p) = true.
Definition own (v : view) (p : pdu) : Prop := p ∈ v.(v_all) \/ is_ctrl p.

(** A connection with retransmission control, no A timer and no allowed gap. *)
Definition conf_ok (c : dtcp) : Prop :=
  dtcp_rtx_ctrl c.(dtcp_cfg) = true /\ is_Some c.(dtcp_cfg).(rxctrl_cfg).

Record end_ok (v : view) (d : dtp) : Prop := {
  eo_dtcp : exists c, d.(dtp_dtcp) = Some c /\ conf_ok c;
  eo_cwq : exists w, d.(dtp_cwq) = Some w /\ (length w.(cq).(head) <= v.(v_cwq))%nat /\
    Forall (fun p => p ∈ v.(v_all)) w.(cq).(head);
  eo_rtxq : exists q, d.(dtp_rtxq) = Some q /\ Forall (fun e => e.(rx_du) ∈ v.(v_all)) q.(rx_head);
  eo_rtt : match d.(dtp_rttq) with Some _ => true | None => false end = v.(v_rtt);
  eo_ring : exists l, ringq_holds d.(to_send) l /\ (length l <= v.(v_ring))%nat /\ Forall is_ctrl l;
  eo_next : d.(dtp_sv_of).(seq_nr_to_send) = v.(v_next);
  eo_lwe : d.(dtp_sv_of).(rcv_left_window_edge) = v.(v_lwe);
  eo_drf : d.(dtp_sv_of).(drf_required) = false;
  eo_A : d.(dtp_sv_of).(sv_A) = 0;
  eo_gap : d.(dtp_ps_of).(max_sdu_gap) = 0
}.

Record inv (v : view) (s : st) : Prop := {
  in_oracle : s.(st_oracle) = [];
  in_end : end_ok v s.(st_dtp);
  in_sent : Forall (own v) (transmitted s.(st_log));
  in_got : posted s.(st_log) = v.(v_got)
}.

(** The changes of a state vector that the invariant does not see. *)
Definition sv_frame (f : dtp_sv -> dtp_sv) : Prop :=
  forall v, (f v).(seq_nr_to_send) = v.(seq_nr_to_send) /\
    (f v).(rcv_left_window_edge) = v.(rcv_left_window_edge) /\
    (f v).(drf_required) = v.(drf_required) /\ (f v).(sv_A) = v.(sv_A).

Section Frame.
Context (v : view).
Notation safe_inv := (safe (inv v)).

Lemma inv_dtp s d : inv v s -> end_ok v d -> inv v (set_st_dtp d s).
Proof. intros [] ?. by split. Qed.

Lemma safe_get_dtp : safe_inv get_dtp (end_ok v).
Proof. apply safe_gets. by intros s []. Qed.

Lemma safe_get_dtcp : safe_inv get_dtcp conf_ok.
Proof.
  intros s Hs. destruct (eo_dtcp _ _ (in_end _ _ Hs)) as (c & Hc & Hok).
  exists c, s. unfold get_dtcp. by rewrite Hc.
Qed.

Lemma safe_get_csv : safe_inv get_csv (fun _ => True).
Proof.
  eapply safe_bind; [apply safe_get_dtcp|]. intros c _. by apply safe_ret.
Qed.

Lemma safe_get_sv :
  safe_inv get_sv (fun sv => sv.(seq_nr_to_send) = v.(v_next) /\
    sv.(rcv_left_window_edge) = v.(v_lwe) /\ sv.(drf_required) = false /\ sv.(sv_A) = 0).
Proof. apply safe_gets. by intros s [_ [] _ _]. Qed.

Lemma safe_ask : safe_inv ask (eq true).
Proof. intros s Hs. exists true, s. split; [|done]. apply ask_granted, Hs. Qed.

Lemma safe_mod_dtp f : (forall d, end_ok v d -> end_ok v (f d)) -> safe_inv (mod_dtp f) (fun _ => True).
Proof. intros H. apply safe_modify. intros s Hs. apply inv_dtp; [done|]. apply H, Hs. Qed.

Lemma safe_mod_sv f : sv_frame f -> safe_inv (mod_sv f) (fun _ => True).
Proof.
  intros Hf. apply safe_mod_dtp. intros d []. destruct (Hf d.(dtp_sv_of)) as (? & ? & ? & ?).
  split; cbn; try done; congruence.
Qed.

Lemma safe_mod_dtcp f :
  (forall c, (f c).(dtcp_cfg) = c.(dtcp_cfg)) -> safe_inv (mod_dtcp f) (fun _ => True).
Proof.
  intros Hf s Hs. destruct (in_end _ _ Hs) as [(c & Hc & Hok)].
  unfold mod_dtcp. rewrite Hc. eexists _, _. split; [reflexivity|]. split; [done|].
  apply inv_dtp; [done|]. split; cbn; try done. eexists. split; [done|].
  unfold conf_ok. by rewrite Hf.
Qed.

Lemma safe_mod_csv f : safe_inv (mod_csv f) (fun _ => True).
Proof. by apply safe_mod_dtcp. Qed.

Lemma safe_timers g : safe_inv (mod_dtp (fun d => set_timers (g d.(timers)) d)) (fun _ => True).
Proof. apply safe_mod_dtp. intros d []. by split. Qed.

Lemma safe_rttq q : v.(v_rtt) = true -> safe_inv (mod_dtp (set_dtp_rttq (Some q))) (fun _ => True).
Proof. intros Hr. apply safe_mod_dtp. intros d []. by split. Qed.

Lemma safe_connection k : safe_inv (mod_dtp (fun d => set_dtp_connection (k d) d)) (fun _ => True).
Proof. apply safe_mod_dtp. intros d []. by split. Qed.

Lemma safe_emit e :
  posted [e] = [] -> Forall (own v) (transmitted [e]) -> safe_inv (emit e) (fun _ => True).
Proof.
  intros Hp Ht. apply safe_modify. intros s []. split; cbn; try done.
  - rewrite transmitted_app. by apply Forall_app.
  - by rewrite posted_app, Hp, app_nil_r.
Qed.

Lemma safe_du_destroy p : safe_inv (du_destroy p) (fun _ => True).
Proof. by apply safe_emit. Qed.

Lemma safe_set_rtxq q :
  Forall (fun e => e.(rx_du) ∈ v.(v_all)) q.(rx_head) -> safe_inv (set_rtxq q) (fun _ => True).
Proof. intros Hq. apply safe_mod_dtp. intros d []. split; try done. by exists q. Qed.
End Frame.

#[export] Hint Resolve safe_get_dtp safe_get_dtcp safe_get_csv safe_get_sv safe_ask safe_mod_csv
  safe_timers safe_rttq safe_connection safe_du_destroy safe_set_rtxq : safe.
#[export] Hint Extern 1 (safe _ (mod_sv _) _) => (apply safe_mod_sv; by intros []) : safe.
#[export] Hint Extern 1 (safe _ (mod_dtcp _) _) => (apply safe_mod_dtcp; by intros []) : safe.
#[export] Hint Extern 1 (safe _ (emit _) _) => (apply safe_emit; done) : safe.
#[export] Hint Extern 2 (safe _ _ (fun _ => True)) => (eapply safe_any; solve [eauto 2 with safe nocore]) : safe.

(** The tactic for handlers: one step of the program at a time. *)
Ltac safe_step :=
  match goal with
  | |- safe _ (bind _ _) _ =>
      first [ eapply safe_bind; [solve [eauto 2 with safe nocore]|]; intros ? ?
            | eapply (safe_bind _ _ (fun _ => True)); [|intros ? _] ]
  | |- safe _ (whenb _ _) _ => apply safe_whenb; intros ?
  | |- safe _ (ret _) _ => apply safe_ret; first [done | by eauto | by constructor]
  | H : end_ok _ ?d |- safe _ (match dtp_rtxq ?d with _ => _ end) _ =>
      let q := fresh "q" in destruct (eo_rtxq _ _ H) as (q & -> & ?)
  | H : end_ok _ ?d |- safe _ (match dtp_cwq ?d with _ => _ end) _ =>
      let w := fresh "w" in destruct (eo_cwq _ _ H) as (w & -> & ? & ?)
  | H : end_ok ?v ?d |- safe _ (match dtp_rttq ?d with _ => _ end) _ =>
      let Hr := fresh "Hr" in pose proof (eo_rtt v d H) as Hr; destruct (dtp_rttq d);
      [symmetry in Hr|clear Hr]
  | H : conf_ok ?c |- safe _ (match rxctrl_cfg (dtcp_cfg ?c) with _ => _ end) _ =>
      let rx := fresh "rx" in destruct (proj2 H) as [rx ->]
  | H : end_ok _ ?d |- safe _ (match dtp_dtcp ?d with _ => _ end) _ =>
      let c := fresh "c" in destruct (eo_dtcp _ _ H) as (c & -> & ?)
  | |- safe _ (if ?b then _ else _) _ => destruct b eqn:?
  | |- safe _ (let (_, _) := ?x in _) _ => destruct x eqn:?
  | |- safe _ (match ?x with _ => _ end) _ => destruct x eqn:?
  | |- safe _ _ _ => solve [eauto 3 with safe nocore]
  end.
Ltac safe_auto := repeat safe_step.

(** ** Sending and the retransmission queue *)

Section Handlers.
Context (E : env) (v : view).
Notation safe_inv := (safe (inv v)).

Lemma safe_timer_start g set ms : safe_inv (timer_start E g set ms) (eq 0).
Proof.
  intros s Hs. destruct (timer_restart_run E g set ms s) as (tm & _ & Ht).
  eexists _, _. split; [exact Ht|]. split; [done|].
  apply inv_dtp; [done|]. destruct (in_end _ _ Hs). by split.
Qed.

Lemma safe_timer_restart g set ms : safe_inv (timer_restart E g set ms) (eq 0).
Proof. exact (safe_timer_start g set ms). Qed.

Lemma safe_timer_stop g set : safe_inv (timer_stop g set) (eq 0).
Proof.
  intros s Hs. destruct (timer_stop_run g set s) as (tm & Ht).
  eexists _, _. split; [exact Ht|]. split; [done|].
  apply inv_dtp; [done|]. destruct (in_end _ _ Hs). by split.
Qed.

#[local] Hint Resolve safe_timer_start safe_timer_restart safe_timer_stop : safe.

Lemma safe_destroy_all l : safe_inv (destroy_all l) (fun _ => True).
Proof. induction l as [|p l IH]; cbn; safe_auto. Qed.

Lemma safe_dtp_pdu_send p : own v p -> safe_inv (dtp_pdu_send p) (eq 0).
Proof.
  intros Hp. unfold dtp_pdu_send.
  safe_auto; subst; try done; apply safe_emit; [done|by constructor|done|by constructor].
Qed.

Lemma safe_dtcp_rate_exceeded b : safe_inv (dtcp_rate_exceeded E b) (fun _ => True).
Proof. unfold dtcp_rate_exceeded. safe_auto. Qed.

Lemma safe_dtp_start_rate_timer : safe_inv (dtp_start_rate_timer E) (fun _ => True).
Proof. unfold dtp_start_rate_timer. safe_auto. Qed.

Lemma safe_rate_account n : safe_inv (rate_account n) (fun _ => True).
Proof. unfold rate_account. safe_auto. Qed.

#[local] Hint Resolve safe_destroy_all safe_dtp_pdu_send safe_dtcp_rate_exceeded
  safe_dtp_start_rate_timer safe_rate_account : safe.

Lemma safe_rtxq_push_ni p : p ∈ v.(v_all) -> safe_inv (rtxq_push_ni E p) (fun _ => True).
Proof.
  intros Hp. unfold rtxq_push_ni. safe_auto. subst.
  pose proof (rtxqueue_push_forall pdu_sn (fun p => p ∈ v.(v_all)) true E.(jiffies) q p) as Hpush.
  rewrite Heqp0 in Hpush. safe_auto.
Qed.

Lemma safe_rtxq_size : safe_inv rtxq_size (fun _ => True).
Proof. unfold rtxq_size. safe_auto. Qed.

Lemma safe_rtxq_entry_timestamp n : safe_inv (rtxq_entry_timestamp n) (fun _ => True).
Proof. unfold rtxq_entry_timestamp. safe_auto. Qed.

Lemma safe_rtxq_ack n tr : safe_inv (rtxq_ack E n tr) (fun _ => True).
Proof.
  unfold rtxq_ack. safe_auto. apply safe_set_rtxq.
  pose proof (rtxqueue_ack_forall pdu_sn (fun e => e.(rx_du) ∈ v.(v_all)) q n) as Hack.
  rewrite Heqp in Hack. by apply Hack.
Qed.

Lemma safe_send_copy p : own v p -> safe_inv (send_copy p) (fun _ => True).
Proof. intros Hp. unfold send_copy. safe_auto. done. Qed.

#[local] Hint Resolve safe_rtxq_push_ni safe_rtxq_size safe_rtxq_entry_timestamp safe_rtxq_ack
  safe_send_copy : safe.

(** The retransmission of a list of entries keeps entries of that list. *)
Notation kept l := (Forall (fun e => e.(rx_du) ∈ v.(v_all)) l).

Lemma safe_nack_loop sn m l : kept l -> safe_inv (nack_loop E sn m l) (fun r => kept r.1).
Proof.
  induction 1 as [|e l He Hl IH]; cbn [nack_loop]; [by safe_auto|].
  assert (own v (rx_du e)) by by left. safe_auto.
Qed.

Lemma safe_rtx_loop tr m l : kept l -> safe_inv (rtx_loop E tr m l) (fun r => kept r.1.1).
Proof.
  induction 1 as [|e l He Hl IH]; cbn [rtx_loop]; [by safe_auto|].
  assert (own v (rx_du e)) by by left. safe_auto.
Qed.

Lemma safe_rtxq_nack n tr : safe_inv (rtxq_nack E n tr) (fun _ => True).
Proof.
  unfold rtxq_nack, rtxqueue_entries_nack. safe_step. safe_step. safe_step.
  eapply (safe_bind _ _ (fun q => kept q.(rx_head))); [|intros q' Hq'; safe_auto].
  eapply safe_bind; [apply safe_nack_loop; by apply Forall_rev|]. intros [r k] Hr.
  apply safe_ret. by apply Forall_rev.
Qed.

Lemma safe_rtxqueue_rtx q tr m : kept q.(rx_head) -> safe_inv (rtxqueue_rtx E q tr m) (fun _ => True).
Proof.
  intros Hq. unfold rtxqueue_rtx.
  eapply safe_bind; [apply safe_rtx_loop; exact Hq|]. intros [[r k] z] Hr. cbn [fst] in Hr.
  safe_auto.
Qed.

#[local] Hint Resolve safe_rtxq_nack safe_rtxqueue_rtx : safe.

Lemma safe_rtx_timer_func : safe_inv (rtx_timer_func E) (fun _ => True).
Proof. unfold rtx_timer_func. safe_auto. Qed.

Lemma safe_rttq_push n : v.(v_rtt) = true -> safe_inv (rttq_push E n) (fun _ => True).
Proof.
  intros Hr. unfold rttq_push. safe_step. pose proof (eo_rtt _ _ H) as Hd. rewrite Hr in Hd.
  destruct (dtp_rttq a); [|done]. safe_auto.
Qed.

(** ** Closed-window queue *)

Lemma safe_can_deliver : safe_inv (can_deliver E) (fun _ => True).
Proof. unfold can_deliver. safe_auto. Qed.

#[local] Hint Resolve safe_rttq_push safe_can_deliver : safe.

Lemma safe_keep_copy rtx p d :
  end_ok v d -> p ∈ v.(v_all) -> safe_inv (keep_copy E rtx p d) (fun _ => True).
Proof. intros Hd Hp. unfold keep_copy. safe_auto. Qed.
End Handlers.

#[export] Hint Resolve safe_timer_start safe_timer_restart safe_timer_stop safe_destroy_all
  safe_dtp_pdu_send safe_dtcp_rate_exceeded safe_dtp_start_rate_timer safe_rate_account
  safe_rtxq_push_ni safe_rtxq_size safe_rtxq_entry_timestamp safe_rtxq_ack safe_rtxq_nack
  safe_rttq_push safe_can_deliver safe_keep_copy : safe.

(** The bounds of the queues. *)
Definition with_cwq (n : nat) (v : view) : view :=
  mk_view v.(v_all) v.(v_next) v.(v_lwe) v.(v_got) v.(v_rtt) n v.(v_ring).
Definition with_ring (n : nat) (v : view) : view :=
  mk_view v.(v_all) v.(v_next) v.(v_lwe) v.(v_got) v.(v_rtt) v.(v_cwq) n.

Lemma inv_weaken v n m s :
  inv v s -> (v.(v_cwq) <= n)%nat -> (v.(v_ring) <= m)%nat -> inv (with_ring m (with_cwq n v)) s.
Proof.
  intros [Ho [Hc (w & Hw & Hlen & Hf) Hx Hr (l & Hl & Hlr & Hlc)] Hs Hg] Hn Hm.
  split; try done. split; try done; [exists w|exists l]; split_and!; (done || cbn; lia).
Qed.

(** A handler that ends under tighter bounds. *)
Lemma safe_bounds {A} v n m (f : M A) (Q : A -> Prop) :
  (n <= v.(v_cwq))%nat -> (m <= v.(v_ring))%nat ->
  safe (inv (with_ring m (with_cwq n v))) f Q ->
  hoare (inv (with_ring m (with_cwq n v))) f (fun a s => Q a /\ inv v s).
Proof.
  intros Hn Hm Hf. eapply hoare_conseq; [exact Hf|done|]. intros a s [Ha Hs]. split; [done|].
  pose proof (inv_weaken _ v.(v_cwq) v.(v_ring) s Hs) as Hw. destruct v. by apply Hw.
Qed.

Section Cwq.
Context (E : env).

(** The closed-window queue becomes [w']. *)
Lemma set_cwq_hoare v w' n :
  Forall (fun p => p ∈ v.(v_all)) w'.(cq).(head) -> (length w'.(cq).(head) <= n)%nat ->
  hoare (inv v) (mod_dtp (set_dtp_cwq (Some w'))) (fun _ s => inv (with_cwq n v) s).
Proof.
  intros Hq Hn s [Ho [] Hs Hg]. eexists _, _. split; [reflexivity|].
  split; try done. split; try done. by eexists.
Qed.

Lemma safe_cwq_deliver_loop fuel v rtx rate :
  (v.(v_cwq) < fuel)%nat -> safe (inv v) (cwq_deliver_loop E fuel rtx rate) (fun _ => True).
Proof.
  revert v. induction fuel as [|fuel IH]; intros v Hf; [lia|]. cbn [cwq_deliver_loop].
  do 3 safe_step; [by safe_auto|]. do 2 safe_step; [by safe_auto|].
  unfold rqueue_is_empty in *. unfold rqueue_head_pop.
  destruct (head (cq w)) as [|p l] eqn:Eh; [done|]. inversion H1; subst. cbn [length] in H0.
  eapply hoare_bind; [apply (set_cwq_hoare v _ (length l)); cbn; done|]. intros u.
  set (v' := with_ring v.(v_ring) (with_cwq (length l) v)).
  change (with_cwq (length l) v) with v'. apply safe_bounds; [lia|done|]. fold v'.
  assert (own v' p) by by left. assert (p ∈ v_all v') by done.
  assert (safe (inv v') (cwq_deliver_loop E fuel rtx rate) (fun _ => True)) by (apply IH; cbn; lia).
  safe_step. eapply safe_bind; [by apply (safe_keep_copy E v' rtx p)|]. intros ok _. safe_auto.
Qed.

(** Reading the instance gives the exact lengths of its queues. *)
Lemma safe_tight {A} v (k : dtp -> M A) (Q : A -> Prop) :
  (forall d w l, d.(dtp_cwq) = Some w -> ringq_holds d.(to_send) l ->
     let v' := with_ring (length l) (with_cwq (length w.(cq).(head)) v) in
     end_ok v' d -> safe (inv v') (k d) Q) ->
  safe (inv v) (bind get_dtp k) Q.
Proof.
  intros Hk s Hs. pose proof (in_end _ _ Hs) as [Hc (w & Hw & Hlen & Hf) Hx Hr (l & Hl & Hlr & Hlc)].
  set (v' := with_ring (length l) (with_cwq (length w.(cq).(head)) v)).
  assert (end_ok v' s.(st_dtp)) as He
    by (split; try done; [by exists w|by exists l]).
  destruct (safe_bounds v (length w.(cq).(head)) (length l) (k s.(st_dtp)) Q Hlen Hlr
    (Hk _ w l Hw Hl He) s) as (a & s' & Hrun & Ha & Hs').
  - destruct Hs. by split.
  - exists a, s'. done.
Qed.

Lemma safe_cwq_deliver v : safe (inv v) (cwq_deliver E) (fun _ => True).
Proof.
  unfold cwq_deliver. eapply safe_bind; [apply safe_get_dtcp|]. intros c Hc.
  apply safe_tight. intros d w l Hw Hl v' He. rewrite Hw.
  pose proof (safe_cwq_deliver_loop (Datatypes.S (length (head (cq w)))) v'
    (ps_rtx_ctrl (dtcp_ps_of c)) (ps_flow_ctrl (dtcp_ps_of c) && dtcp_rate_based_fctrl (dtcp_cfg c))).
  eapply safe_bind; [apply H; cbn; lia|]. intros ended _. safe_auto.
Qed.
End Cwq.
#[export] Hint Resolve safe_cwq_deliver : safe.

(** ** Control PDUs *)

Section Control.
Context (E : env).

(** The PDUs of the ring are sent. *)
Lemma ring_pop_hoare v d l p :
  ringq_holds d.(to_send) (p :: l) -> Forall is_ctrl (p :: l) ->
  forall s, inv v s -> s.(st_dtp) = d ->
  exists s', ring_pop_from to_send set_to_send s = Some (Some p, s') /\ inv (with_ring (length l) v) s'.
Proof.
  intros Hh Hl s [Ho [] Hs Hg] <-. inversion Hl; subst.
  destruct (ringq_pop_holds _ _ _ Hh) as (q' & Hpop & Hq & _).
  unfold ring_pop_from, get_dtp. erewrite run_bind by reflexivity. rewrite Hpop.
  eexists. split; [reflexivity|]. split; try done. split; try done. by exists l.
Qed.

Lemma safe_send_pending_loop fuel v :
  (v.(v_ring) < fuel)%nat -> hoare (inv v) (send_pending_loop fuel) (fun _ s => inv (with_ring 0 v) s).
Proof.
  revert v. induction fuel as [|fuel IH]; intros v Hf; [lia|]. cbn [send_pending_loop].
  intros s Hs. unfold get_dtp. erewrite run_bind by reflexivity.
  destruct (in_end _ _ Hs) as [_ _ _ _ (l & Hh & Hlen & Hl) _ _ _ _ _].
  destruct (Hh) as (_ & Hocc & _). unfold ringq_is_empty. rewrite Hocc.
  destruct l as [|p l]; cbn [length] in *.
  - exists tt, s. split; [done|]. destruct Hs as [Ho [] Hsn Hg]. split; try done.
    split; try done. by exists [].
  - rewrite (proj2 (Z.eqb_neq _ _)) by lia.
    destruct (ring_pop_hoare v _ l p Hh Hl s Hs eq_refl) as (s1 & Hpop & Hs1).
    erewrite run_bind by exact Hpop.
    set (v' := with_ring (length l) v) in *.
    assert (own v' p) by (right; by inversion Hl).
    assert (hoare (inv v') ((let! r := dtp_pdu_send p in whenb (negb (r =? 0)) fault) ;;;
      send_pending_loop fuel) (fun _ s => inv (with_ring 0 v) s)) as Hrest.
    { eapply hoare_bind; [eassert (safe (inv v') _ (fun _ => True)) as Hsf; [|exact Hsf]|].
      { eapply safe_bind; [by apply safe_dtp_pdu_send|]. intros r <-. cbn [negb Z.eqb whenb]. by apply safe_ret. }
      intros u. eapply hoare_conseq; [apply (IH v'); cbn; lia|by intros ? [_ ?]|done]. }
    exact (Hrest s1 Hs1).
Qed.

Lemma hoare_send_pending v :
  hoare (inv v) dtp_send_pending_ctrl_pdus (fun _ s => inv (with_ring 0 v) s).
Proof.
  intros s Hs. unfold dtp_send_pending_ctrl_pdus, get_dtp. erewrite run_bind by reflexivity.
  destruct (in_end _ _ Hs) as [Hc Hw Hx Hr (l & Hh & Hlen & Hl) Hn HL Hd Ha Hg].
  destruct (Hh) as (_ & Hocc & _). rewrite Hocc, Nat2Z.id.
  destruct (safe_send_pending_loop (Datatypes.S (length l)) (with_ring (length l) v))
    with (s := s) as (a & s' & Hrun & Hs'); [cbn; lia| |by exists a, s'].
  destruct Hs. split; try done. split; try done. by exists l.
Qed.

(** The control PDUs that a connection generates. *)
Definition generated (t : Z) : Prop :=
  t = PDU_TYPE_ACK \/ t = PDU_TYPE_ACK_AND_FC \/ t = PDU_TYPE_FC \/ t = PDU_TYPE_RENDEZVOUS.

Lemma pdu_set_ok d p a x f w :
  attr_slot d (pdu_type p) a = Some (f, w) -> a <> A_TYPE ->
  exists p', pdu_set d p a x = (0, p') /\ pdu_type p' = pdu_type p.
Proof.
  intros Hs Ha. pose proof (pdu_set_type d p a x Ha) as Ht.
  destruct (pdu_set_same d p a x f w Hs) as [H0 _].
  destruct (pdu_set d p a x) as [r p']. cbn in *. subst. by exists p'.
Qed.

Lemma safe_populate_ctrl_pci v p :
  generated (pdu_type p) ->
  safe (inv v) (populate_ctrl_pci E p) (fun r => r.1 = 0 /\ pdu_type r.2 = pdu_type p).
Proof.
  intros Hg. unfold populate_ctrl_pci.
  eapply safe_bind; [apply safe_get_dtcp|]. intros c _.
  eapply safe_bind; [apply safe_get_sv|]. intros sv _. apply safe_ret. cbv zeta.
  pose proof (flow_fields_type E c (rcv_left_window_edge sv) p) as Hq.
  set (q := flow_fields _ _ _ _) in *. rewrite Hq.
  destruct Hg as [Ht|[Ht|[Ht|Ht]]]; rewrite Ht in *; cbn -[pdu_set].
  - edestruct (pdu_set_ok (dt E) q A_ACK_SEQ_NUM (rcv_left_window_edge sv)) as (q1 & -> & H1);
      [rewrite Hq; reflexivity|done|]. cbn. by rewrite H1, Hq.
  - edestruct (pdu_set_ok (dt E) q A_ACK_SEQ_NUM (rcv_left_window_edge sv)) as (q1 & -> & H1);
      [rewrite Hq; reflexivity|done|]. cbn -[pdu_set].
    edestruct (pdu_set_ok (dt E) q1 A_LAST_SEQ_NUM_RCVD (last_rcv_ctl_seq (dtcp_sv_of c)))
      as (q2 & -> & H2); [rewrite H1, Hq; reflexivity|done|]. cbn. by rewrite H2, H1, Hq.
  - by rewrite Hq.
  - edestruct (pdu_set_ok (dt E) q A_LAST_SEQ_NUM_RCVD (last_rcv_ctl_seq (dtcp_sv_of c)))
      as (q2 & -> & H2); [rewrite Hq; reflexivity|done|]. cbn. by rewrite H2, Hq.
Qed.

Lemma pdu_format_type d p a1 a2 a3 a4 a5 a6 a7 a8 t r p' :
  pdu_format d p a1 a2 a3 a4 a5 a6 a7 a8 t = (r, p') ->
  generated t \/ t = PDU_TYPE_DT -> r = 0 /\ pdu_type p' = t.
Proof.
  unfold pdu_format. intros Hp Ht. injection Hp as <- <-. split; [done|].
  by destruct Ht as [[->|[->|[->| ->]]]| ->].
Qed.

Lemma generated_ctrl p : generated (pdu_type p) -> is_ctrl p.
Proof. unfold is_ctrl. by intros [->|[->|[->| ->]]]. Qed.

Lemma safe_pdu_ctrl_generate v t :
  generated t -> safe (inv v) (pdu_ctrl_generate E t) (fun r => exists p, r = Some p /\ is_ctrl p).
Proof.
  intros Hg. unfold pdu_ctrl_generate.
  eapply safe_bind; [apply safe_ask|]. intros ? <-. cbn [negb]. unfold next_snd_ctl_seq.
  do 2 safe_step; [by safe_auto|]. safe_step.
  apply pdu_format_type in Heqp as [-> Hq]; [|by left].
  cbn [negb Z.eqb]. rewrite <- Hq in Hg.
  eapply safe_bind; [by apply safe_populate_ctrl_pci|]. intros [r q'] [Hr Hq']. cbn in Hr, Hq'.
  subst r. cbn. apply safe_ret. exists q'. split; [done|]. apply generated_ctrl. by rewrite Hq'.
Qed.

Lemma safe_add_in_transit v n : safe (inv v) (add_in_transit n) (fun _ => True).
Proof. unfold add_in_transit. safe_auto. Qed.

Lemma safe_rendezvous_rcv_start v ms : safe (inv v) (rendezvous_rcv_start E ms) (fun _ => True).
Proof. unfold rendezvous_rcv_start. safe_auto. Qed.

#[local] Hint Resolve safe_add_in_transit safe_rendezvous_rcv_start safe_pdu_ctrl_generate : safe.

(** A control PDU sent at once. *)
Lemma safe_ctrl_pdu_send v t : generated t -> safe (inv v) (ctrl_pdu_send E t true) (fun _ => True).
Proof.
  intros Hg. unfold ctrl_pdu_send. eapply safe_bind; [by apply safe_pdu_ctrl_generate|].
  intros ? (p & -> & Hp). eapply safe_bind; [apply safe_dtp_pdu_send; by right|].
  intros r <-. cbn [negb Z.eqb]. safe_auto.
Qed.

Lemma safe_tf_rendezvous_rcv v : safe (inv v) (tf_rendezvous_rcv E) (fun _ => True).
Proof.
  unfold tf_rendezvous_rcv.
  assert (safe (inv v) (ctrl_pdu_send E PDU_TYPE_FC true) (fun _ => True))
    by (apply safe_ctrl_pdu_send; unfold generated; tauto). safe_auto.
Qed.

Lemma safe_tf_rendezvous v : safe (inv v) (tf_rendezvous E) (fun _ => True).
Proof.
  unfold tf_rendezvous, dtcp_rendezvous_pdu_send.
  assert (safe (inv v) (ctrl_pdu_send E PDU_TYPE_RENDEZVOUS true) (fun _ => True))
    by (apply safe_ctrl_pdu_send; unfold generated; tauto). safe_auto.
Qed.

(** ** Acknowledgements

    They wait in the ring, which is empty before. *)

Lemma dtcp_pdu_send_hoare v p :
  v.(v_ring) = 0%nat -> is_ctrl p ->
  hoare (inv v) (dtcp_pdu_send p) (fun r s => r = 0 /\ inv (with_ring 1 v) s).
Proof.
  intros H0 Hp s Hs. unfold dtcp_pdu_send.
  destruct (in_end _ _ Hs) as [(c & Hc & Hok) Hw Hx Hr (l & Hh & Hlen & Hl) Hn HL Hd Ha Hg].
  erewrite run_bind by by apply get_dtcp_run. rewrite H0 in Hlen. destruct l; [|cbn in Hlen; lia].
  destruct (ringq_push_holds _ _ p Hh) as (q' & Hpush & Hq & _);
    [destruct Hh as (_ & _ & _ & ? & _); cbn; lia|].
  unfold dtp_pdu_ctrl_send, ring_push_to, get_dtp. erewrite run_bind by reflexivity. rewrite Hpush.
  eexists _, _. split; [reflexivity|]. split; [done|]. destruct Hs. split; try done.
  split; try done; [by exists c|]. exists [p]. split; [done|]. split; [done|]. by repeat constructor.
Qed.

(** A step under the invariant, before or after the ring was used. *)
Lemma hoare_safe {A B} v (m : M A) (k : A -> M B) R Q :
  safe (inv v) m R -> (forall a, R a -> hoare (inv v) (k a) Q) -> hoare (inv v) (bind m k) Q.
Proof. intros Hm Hk. eapply hoare_bind; [exact Hm|]. intros a s [Ha Hs]. by apply Hk. Qed.

Lemma hoare_ring {A} v (m : M A) (Q : A -> Prop) :
  v.(v_ring) = 0%nat -> safe (inv v) m Q -> hoare (inv v) m (fun r s => Q r /\ inv (with_ring 1 v) s).
Proof.
  intros H0 Hm. eapply hoare_conseq; [exact Hm|done|]. intros a s [Ha Hs]. split; [done|].
  pose proof (inv_weaken v v.(v_cwq) 1 s Hs) as Hw. destruct v. cbn in *. subst. by apply Hw; auto.
Qed.

Lemma ctrl_pdu_send_ring v t :
  v.(v_ring) = 0%nat -> generated t ->
  hoare (inv v) (ctrl_pdu_send E t false) (fun r s => r = 0 /\ inv (with_ring 1 v) s).
Proof.
  intros H0 Hg. unfold ctrl_pdu_send.
  eapply hoare_safe; [by apply safe_pdu_ctrl_generate|]. intros ? (p & -> & Hp).
  eapply hoare_bind; [by apply dtcp_pdu_send_hoare|]. intros r s [-> Hs]. cbn [negb Z.eqb].
  apply (safe_bind _ _ (fun _ => True)); [apply safe_add_in_transit| |done].
  intros; by apply safe_ret.
Qed.

Lemma rcvr_ack_hoare v p :
  v.(v_ring) = 0%nat ->
  hoare (inv v) (rcvr_ack E p) (fun r s => r = 0 /\ inv (with_ring 1 v) s).
Proof.
  intros H0. unfold rcvr_ack, default_rcvr_ack, default_rcvr_ack_atimer, dtcp_ack_flow_control_pdu_send.
  destruct (config_rcvr_ack E); [|apply hoare_ring; [done|]; by apply safe_ret].
  eapply hoare_safe; [apply safe_add_in_transit|]. intros _ _.
  eapply (hoare_safe _ _ _ (fun t => generated t \/ t = 0)).
  { unfold pdu_ctrl_type_get. eapply safe_bind; [apply safe_get_dtcp|]. intros c Hc.
    eapply safe_bind; [apply safe_get_sv|]. intros sv _. cbv zeta. destruct (_ <? _).
    - safe_step. apply safe_ret. left. unfold generated. destruct (ps_flow_ctrl _); tauto.
    - apply safe_ret. by right. }
  intros t [Hg| ->].
  - destruct (Z.eqb_spec t 0); [by subst; destruct Hg as [|[|[|]]]|]. by apply ctrl_pdu_send_ring.
  - cbn [Z.eqb]. apply hoare_ring; [done|]. by safe_auto.
Qed.

Lemma default_receiving_flow_control_hoare v p :
  v.(v_ring) = 0%nat ->
  hoare (inv v) (default_receiving_flow_control E p) (fun r s => r = 0 /\ inv (with_ring 1 v) s).
Proof.
  intros H0. unfold default_receiving_flow_control.
  eapply hoare_safe; [apply safe_pdu_ctrl_generate; unfold generated; tauto|].
  intros ? (q & -> & Hq). eapply hoare_bind; [by apply dtcp_pdu_send_hoare|].
  intros r s [-> Hs]. by exists 0, s.
Qed.

(** The update of the window and the acknowledgement of a PDU succeed. *)
Lemma dtcp_sv_update_hoare v p :
  v.(v_ring) = 0%nat ->
  hoare (inv v) (dtcp_sv_update E p) (fun r s => r = 0 /\ inv (with_ring 1 v) s).
Proof.
  intros H0. unfold dtcp_sv_update. eapply hoare_safe; [apply safe_get_dtcp|]. intros c Hc. cbv zeta.
  assert (safe (inv v) (default_rcvr_flow_control p) (eq 0)) as H1
    by (unfold default_rcvr_flow_control; safe_auto).
  assert (safe (inv v) (default_rate_reduction p) (eq 0)) as H2
    by (unfold default_rate_reduction; safe_auto).
  set (ps := dtcp_ps_of c). destruct (ps_rtx_ctrl ps) eqn:Er; cbn [negb].
  - eapply (hoare_safe _ _ _ (eq (0, false))).
    + destruct (ps_flow_ctrl ps); [|by apply safe_ret].
      eapply (safe_bind _ _ (eq 0)); [destruct (ps_window_based ps); [done|by apply safe_ret]|].
      intros ? <-. eapply (safe_bind _ _ (eq 0)); [destruct (ps_rate_based ps); [done|by apply safe_ret]|].
      intros ? <-. eapply (safe_bind _ _ (eq 0)); [by apply safe_ret|].
      intros ? <-. by apply safe_ret.
    + intros ? <-. cbv iota. eapply hoare_bind; [by apply rcvr_ack_hoare|].
      intros r s [-> Hs]. by exists 0, s.
  - destruct (ps_flow_ctrl ps) eqn:Ef.
    + eapply hoare_bind.
      { eapply (hoare_safe _ _ _ (eq 0)); [destruct (ps_window_based ps); [done|by apply safe_ret]|].
        intros ? <-.
        eapply (hoare_safe _ _ _ (eq 0)); [destruct (ps_rate_based ps); [done|by apply safe_ret]|].
        intros ? <-. eapply hoare_bind; [by apply default_receiving_flow_control_hoare|].
        intros r. apply (hoare_ret _ _ (fun a s => a = (0, true) /\ inv (with_ring 1 v) s)).
        by intros s [-> Hs]. }
      intros a s [-> Hs]. by exists 0, s.
    + eapply (hoare_safe _ _ _ (eq (0, false))); [by apply safe_ret|]. intros ? <-. cbv iota.
      apply hoare_ring; [done|]. by apply safe_ret.
Qed.

(** ** Reception of control PDUs *)

Lemma safe_default_sender_ack v n : safe (inv v) (default_sender_ack E n) (fun _ => True).
Proof. unfold default_sender_ack. safe_auto. Qed.

Lemma safe_rtt_calculation v n : safe (inv v) (rtt_calculation E n) (fun _ => True).
Proof. unfold rtt_calculation. safe_auto. Qed.

#[local] Hint Resolve safe_default_sender_ack safe_rtt_calculation : safe.

Lemma safe_default_rtt_estimator v n : safe (inv v) (default_rtt_estimator E n) (fun _ => True).
Proof. unfold default_rtt_estimator. safe_auto. Qed.

Lemma safe_default_rtt_estimator_nortx v n :
  safe (inv v) (default_rtt_estimator_nortx E n) (fun _ => True).
Proof. unfold default_rtt_estimator_nortx. safe_auto. Qed.

Lemma safe_default_rcvr_rendezvous v p : safe (inv v) (default_rcvr_rendezvous E p) (fun _ => True).
Proof.
  unfold default_rcvr_rendezvous.
  assert (safe (inv v) (ctrl_pdu_send E PDU_TYPE_FC true) (fun _ => True))
    by (apply safe_ctrl_pdu_send; unfold generated; tauto). safe_auto.
Qed.

Lemma safe_push_pdus_rmt v : safe (inv v) (push_pdus_rmt E) (fun _ => True).
Proof. unfold push_pdus_rmt. safe_auto. Qed.

#[local] Hint Resolve safe_default_rtt_estimator safe_default_rtt_estimator_nortx
  safe_default_rcvr_rendezvous safe_push_pdus_rmt : safe.

Lemma safe_update_window_and_rate v p : safe (inv v) (update_window_and_rate E p) (fun _ => True).
Proof. unfold update_window_and_rate. safe_auto. Qed.

#[local] Hint Resolve safe_update_window_and_rate : safe.

Lemma safe_rcv_nack_ctl v p : safe (inv v) (rcv_nack_ctl E p) (fun _ => True).
Proof. unfold rcv_nack_ctl. safe_auto. Qed.

Lemma safe_rcv_ack v p : safe (inv v) (rcv_ack E p) (fun _ => True).
Proof. unfold rcv_ack. safe_auto. Qed.

Lemma safe_rcv_flow_ctl v p : safe (inv v) (rcv_flow_ctl E p) (fun _ => True).
Proof. unfold rcv_flow_ctl. safe_auto. Qed.

Lemma safe_rcv_ack_and_flow_ctl v p : safe (inv v) (rcv_ack_and_flow_ctl E p) (fun _ => True).
Proof. unfold rcv_ack_and_flow_ctl. safe_auto. Qed.

Lemma safe_rcvr_rendezvous v p : safe (inv v) (rcvr_rendezvous E p) (fun _ => True).
Proof. unfold rcvr_rendezvous. safe_auto. Qed.

#[local] Hint Resolve safe_rcv_nack_ctl safe_rcv_ack safe_rcv_flow_ctl safe_rcv_ack_and_flow_ctl
  safe_rcvr_rendezvous : safe.

Lemma safe_dtcp_common_rcv_control v p :
  v.(v_ring) = 0%nat -> safe (inv v) (dtcp_common_rcv_control E p) (fun _ => True).
Proof.
  intros H0. assert (safe (inv v) dtp_send_pending_ctrl_pdus (fun _ => True)).
  { eapply hoare_conseq; [apply hoare_send_pending|done|]. intros [] s Hs. split; [done|].
    destruct v. cbn in *. by subst. }
  unfold dtcp_common_rcv_control, default_lost_control_pdu. safe_auto.
Qed.

Lemma safe_tf_rate_window v : safe (inv v) (tf_rate_window E) (fun _ => True).
Proof. unfold tf_rate_window. safe_auto. Qed.
End Control.

(** ** Writing *)

(** The invariant without a bound of the closed-window queue. *)
Definition inv_any (v : view) (s : st) : Prop := exists n, inv (with_cwq n v) s.

Lemma safe_uncap {A} v (m : M A) (Q : A -> Prop) :
  (forall n, safe (inv (with_cwq n v)) m Q) -> safe (inv_any v) m Q.
Proof.
  intros Hm s [n Hs]. destruct (Hm n s Hs) as (a & s' & Hrun & Ha & Hs').
  exists a, s'. split; [done|]. split; [done|]. by exists n.
Qed.

#[export] Hint Extern 4 (safe (inv_any _) _ _) =>
  (apply safe_uncap; intros; solve [eauto 3 with safe nocore]) : safe.

(** The view after [p] was numbered. *)
Definition wrote (p : pdu) (v : view) : view :=
  mk_view (v.(v_all) ++ [p]) (v.(v_next) + 1) v.(v_lwe) v.(v_got) v.(v_rtt) v.(v_cwq) v.(v_ring).

Section Write.
Context (E : env).
Hypothesis dt_seq : E.(dt).(seq_num_length) = 4.

Lemma safe_cwq_push_m v p :
  p ∈ v.(v_all) -> safe (inv_any v) (cwq_push_m p) (fun _ => True).
Proof.
  intros Hp s [n Hs]. destruct (in_end _ _ Hs) as [_ (w & Hw & Hlen & Hf)].
  unfold cwq_push_m, get_dtp. erewrite run_bind by reflexivity. rewrite Hw.
  erewrite run_bind by apply ask_granted, Hs. unfold cwq_push.
  cbn [rqueue_tail_push_gfp entry_create default Z.eqb negb]. cbn in Hlen.
  edestruct (set_cwq_hoare (with_cwq n v)) as ([] & s' & Hrun & Hs');
    [| |exact Hs|erewrite run_bind by exact Hrun; eexists _, _; split; [reflexivity|]].
  - cbn. apply Forall_app. split; [exact Hf|]. by repeat constructor.
  - cbn. rewrite length_app. cbn. reflexivity.
  - split; [done|]. eexists. exact Hs'.
Qed.

#[local] Hint Resolve safe_cwq_push_m : safe.

Lemma safe_default_closed_window v p :
  p ∈ v.(v_all) -> safe (inv_any v) (default_closed_window p) (fun _ => True).
Proof.
  intros Hp. unfold default_closed_window, default_snd_flow_control_overrun. safe_auto.
Qed.

Lemma safe_window_is_closed v n : safe (inv v) (window_is_closed E n) (fun _ => True).
Proof. unfold window_is_closed. safe_auto. Qed.

Lemma safe_write_copy v b n p : p ∈ v.(v_all) -> safe (inv v) (write_copy E b n p) (fun _ => True).
Proof. intros Hp. unfold write_copy. safe_auto. Qed.

Lemma safe_default_transmission_control v p :
  own v p -> safe (inv v) (default_transmission_control p) (fun _ => True).
Proof. intros Hp. unfold default_transmission_control. safe_auto. Qed.

Lemma safe_start_rendezvous v : safe (inv v) (start_rendezvous E) (fun _ => True).
Proof. unfold start_rendezvous. safe_auto. Qed.

Lemma safe_stats_err v : safe (inv v) stats_inc_err (fun _ => True).
Proof. unfold stats_inc_err. safe_auto. Qed.

Lemma safe_stats_tx v n : safe (inv v) (stats_inc_bytes_tx n) (fun _ => True).
Proof. unfold stats_inc_bytes_tx. safe_auto. Qed.

#[local] Hint Resolve safe_default_closed_window safe_window_is_closed safe_write_copy
  safe_default_transmission_control safe_start_rendezvous safe_stats_err safe_stats_tx : safe.

Lemma safe_write_formatted v sv csn n p :
  p ∈ v.(v_all) -> safe (inv_any v) (write_formatted E sv csn n p) (fun _ => True).
Proof.
  intros Hp. assert (forall n, own (with_cwq n v) p) by by left.
  assert (forall n, p ∈ v_all (with_cwq n v)) by done.
  unfold write_formatted. safe_auto.
Qed.

Lemma write_pdu_type d csn n lft data p :
  write_pdu E d csn n lft data = Some p -> pdu_type p = PDU_TYPE_DT.
Proof.
  unfold write_pdu. destruct (pdu_format _ _ _ _ _ _ _ _ _ _ _) as [r q] eqn:Eq.
  apply pdu_format_type in Eq as [-> Hq]; [|by right]. cbn [negb Z.eqb].
  destruct (_ || _); intros Hp%(inj Some); subst p; [by rewrite pdu_set_type|done].
Qed.

(** Numbering a PDU, and knowing it. *)
Lemma inv_wrote v p s :
  inv (mk_view v.(v_all) (v.(v_next) + 1) v.(v_lwe) v.(v_got) v.(v_rtt) v.(v_cwq) v.(v_ring)) s ->
  inv (wrote p v) s.
Proof.
  intros [Ho [Hc (w & Hw & Hlen & Hf) (q & Hq & Hqf)] Hs Hg]. split; try done.
  - split; try done; [exists w|exists q]; split_and!; try done;
      (eapply Forall_impl; [|eassumption]); cbn; intros x Hx; apply elem_of_app; by left.
  - eapply Forall_impl; [|exact Hs]. intros x [Hx|Hx]; [|by right]. left. apply elem_of_app. by left.
Qed.

Lemma dtp_write_hoare v data :
  0 <= v.(v_next) -> v.(v_next) + 1 < 2 ^ 32 ->
  hoare (inv v) (dtp_write E data) (fun _ s => exists p, inv_any (wrote p v) s /\
    pdu_sn p = v.(v_next) + 1 /\ pdu_data p = data /\ pdu_type p = PDU_TYPE_DT).
Proof.
  intros H0 Hmax. unfold dtp_write. eapply hoare_safe; [apply safe_timer_stop|]. intros r _.
  eapply hoare_safe; [apply safe_ask|]. intros ? <-. cbn [negb].
  set (v1 := mk_view v.(v_all) (v.(v_next) + 1) v.(v_lwe) v.(v_got) v.(v_rtt) v.(v_cwq) v.(v_ring)).
  eapply (hoare_bind _ _ (fun _ s => inv v1 s)).
  { intros s [Ho [] Hs Hg]. eexists _, _. split; [reflexivity|]. split; try done.
    split; try done. cbn. rewrite eo_next0. apply uwrap_small. split; lia. }
  intros u. eapply hoare_safe; [apply safe_get_dtp|]. intros d Hd.
  eapply hoare_safe; [apply safe_get_csv|]. intros c _. cbv zeta. rewrite (eo_next _ _ Hd).
  destruct (write_pdu_spec E dt_seq d (v_next v1) (Z.of_nat (length data)) (snd_lft_win c) data)
    as (p & Hp & Hsn & Hdata); [cbn; lia|].
  rewrite Hp. eapply hoare_conseq; [apply (safe_write_formatted (wrote p v))| |].
  - cbn. apply elem_of_app. right. by apply list_elem_of_singleton.
  - intros s Hs. exists v.(v_cwq). exact (inv_wrote v p s Hs).
  - intros a s [_ Hs]. exists p. split; [done|]. split; [done|]. split; [done|].
    by eapply write_pdu_type.
Qed.
End Write.

(** ** Receiving *)

(** The view after [p] was handed to the user. *)
Definition got (p : pdu) (v : view) : view :=
  mk_view v.(v_all) v.(v_next) (v.(v_lwe) + 1) (v.(v_got) ++ [p]) v.(v_rtt) v.(v_cwq) v.(v_ring).

Section Receive.
Context (E : env).

(** A PDU changes nothing, or it is the next one and is handed over. *)
Definition received (p : pdu) (v : view) (s : st) : Prop :=
  inv v s \/ (pdu_sn p = v.(v_lwe) + 1 /\ inv (got p v) s).

Lemma safe_stats_drop v : safe (inv v) stats_inc_drop (fun _ => True).
Proof. unfold stats_inc_drop. safe_auto. Qed.

Lemma safe_stats_rx v n : safe (inv v) (stats_inc_bytes_rx n) (fun _ => True).
Proof. unfold stats_inc_bytes_rx. safe_auto. Qed.

Lemma safe_is_fc_overrun v a b : safe (inv v) (is_fc_overrun a b) (fun _ => True).
Proof. unfold is_fc_overrun. safe_auto. Qed.

#[local] Hint Resolve safe_stats_drop safe_stats_rx safe_is_fc_overrun : safe.

Lemma with_ring_id v : v.(v_ring) = 0%nat -> with_ring 0 (with_ring 1 v) = v.
Proof. destruct v. cbn. by intros ->. Qed.

(** The acknowledgement of a PDU succeeds and leaves the ring empty. *)
Lemma acknowledge_hoare v p (k : M Z) Q :
  v.(v_ring) = 0%nat -> hoare (inv v) k Q ->
  hoare (inv v) (let! r := dtcp_sv_update E p in
                 if negb (r =? 0) then du_destroy p ;;; ret (-1)
                 else dtp_send_pending_ctrl_pdus ;;; k) Q.
Proof.
  intros H0 Hk. eapply hoare_bind; [by apply dtcp_sv_update_hoare|].
  intros r s [-> Hs]. revert s Hs. cbn [negb Z.eqb].
  eapply hoare_bind; [apply hoare_send_pending|]. intros u. by rewrite with_ring_id.
Qed.

Lemma pdu_post_hoare v p :
  hoare (inv v) (pdu_post p) (fun r s => r = 0 /\
    inv (mk_view v.(v_all) v.(v_next) v.(v_lwe) (v.(v_got) ++ [p]) v.(v_rtt) v.(v_cwq) v.(v_ring)) s).
Proof.
  intros s [Ho He Hs Hg]. unfold pdu_post.
  erewrite run_bind by by apply ask_granted. cbn [negb]. erewrite run_bind by reflexivity. eexists _, _. split; [reflexivity|]. split; [done|].
  split; cbn; try done; [by destruct He| |].
  - by rewrite transmitted_app, app_nil_r.
  - by rewrite posted_app, Hg.
Qed.

Lemma receive_no_a_hoare v p b :
  v.(v_ring) = 0%nat -> 0 <= v.(v_lwe) < pdu_sn p -> pdu_sn p < 2 ^ 32 ->
  hoare (inv v) (receive_no_a E p v.(v_lwe) b 0) (fun _ s => received p v s).
Proof.
  intros H0 Hsn Hmax. unfold receive_no_a. eapply hoare_safe; [apply safe_get_dtp|]. intros d Hd.
  destruct (eo_dtcp _ _ Hd) as (c & -> & Hrtx & _). rewrite Hrtx. cbn [andb]. cbv zeta.
  rewrite !uwrap_small by (split; lia).
  destruct (Z.ltb_spec (0 + 1) (pdu_sn p - v.(v_lwe))); cbn [negb whenb].
  - eapply (hoare_safe _ _ _ (fun _ => True)); [by apply safe_ret|]. intros _ _. apply acknowledge_hoare; [done|].
    eapply hoare_safe; [apply safe_du_destroy|]. intros _ _. apply hoare_ret. intros s Hs. by left.
  - set (v1 := mk_view v.(v_all) v.(v_next) (v.(v_lwe) + 1) v.(v_got) v.(v_rtt) v.(v_cwq) v.(v_ring)).
    eapply (hoare_bind _ _ (fun _ s => inv v1 s)).
    { intros s [Ho [] Hs Hg]. eexists _, _. split; [reflexivity|]. split; try done.
      split; try done. cbn. lia. }
    intros _. apply acknowledge_hoare; [done|].
    eapply hoare_bind; [apply (pdu_post_hoare v1)|]. intros r s [-> Hs]. revert s Hs. cbn [negb Z.eqb].
    eapply hoare_safe; [apply safe_stats_rx|]. intros _ _. apply hoare_ret.
    intros s Hs. right. split; [lia|done].
Qed.

Lemma dtp_receive_hoare v p :
  v.(v_ring) = 0%nat -> 0 <= v.(v_lwe) -> pdu_sn p < 2 ^ 32 ->
  hoare (inv v) (dtp_receive E p) (fun _ s => received p v s).
Proof.
  intros H0 HL Hmax. unfold dtp_receive. eapply hoare_safe; [apply safe_get_dtp|]. intros d Hd.
  cbv zeta. rewrite (eo_drf _ _ Hd), (eo_lwe _ _ Hd), (eo_A _ _ Hd), (eo_gap _ _ Hd).
  assert (forall (m : M Z), safe (inv v) m (fun _ => True) -> hoare (inv v) m (fun _ s => received p v s))
    as Hskip by (intros m Hm; eapply hoare_conseq; [exact Hm|done|]; intros ? ? [_ ?]; by left).
  eapply (hoare_safe _ _ _ (fun b : bool => b = false -> v.(v_lwe) < pdu_sn p)).
  { destruct (Z.leb_spec (pdu_sn p) v.(v_lwe)); [by apply safe_ret|].
    eapply hoare_conseq; [apply safe_is_fc_overrun|done|]. by intros b s [_ ?]. }
  intros drop Hdrop. destruct drop; [apply Hskip; safe_auto|].
  eapply hoare_safe; [apply safe_timer_restart|]. intros ? <-. cbn [negb Z.eqb].
  eapply hoare_safe; [apply safe_get_csv|]. intros c _.
  eapply (hoare_safe _ _ _ (fun _ => True)); [by safe_auto|]. intros _ _. cbn [Z.eqb].
  apply receive_no_a_hoare; auto.
Qed.
End Receive.
