(* ===== verification/Efcp.v ===== *)
(** * Two ends and a network

    [efcp_receive] of [src/kernel/efcp.c], which hands a PDU to the DTP or to the DTCP,
    and the system of two ends that exchange PDUs over a network that may lose,
    duplicate and reorder them, while timers expire at any time.  The theorems of this
    file are what the protocol promises to its users as long as neither inactivity timer
    expires, and what the expiration of the receiver's one does to that promise. *)

From S2P Require Import Prelude Kucommon Pci Rds Queues EfcpState DtpUtils Dtcp Dtp Transfer.
From Stdlib Require Import ZArith Lia.
From stdpp Require Import base list numbers option relations.
Import Rqueue Ringq Rtimer Ordered Seqq Rtxq Rttq Cwq.
#[local] Open Scope Z_scope.
#[local] Open Scope efcp_scope.

Definition efcp_receive (E : env) (du : pdu) : M Z :=
  if pdu_type_is_control (pdu_type du) then
    let! d := get_dtp in
    match d.(dtp_dtcp) with
    | None => du_destroy du ;;; ret (-1)
    | Some _ => let! r := dtcp_common_rcv_control E du in
                if negb (r =? 0) then ret (-1) else ret 0
    end
  else
    let! r := dtp_receive E du in
    if negb (r =? 0) then ret (-1) else ret 0.

(** ** The system *)

(** What happens to an end: its user writes, a PDU arrives, a timer expires.  The A timer is
    not among them: the connections below have none.  [random] is the new sequence number
    [get_random_bytes] gives. *)
Inductive action :=
| AWrite (data : list Z)
| ARecv (p : pdu)
| ARtx
| ARendezvous
| ARendezvousRcv
| ARateWindow
| ASenderInactivity (random : Z)
| AReceiverInactivity.

Definition handler (E : env) (a : action) : M unit :=
  match a with
  | AWrite data => dtp_write E data ;;; ret tt
  | ARecv p => efcp_receive E p ;;; ret tt
  | ARtx => rtx_timer_func E
  | ARendezvous => tf_rendezvous E
  | ARendezvousRcv => tf_rendezvous_rcv E
  | ARateWindow => tf_rate_window E
  | ASenderInactivity random => tf_sender_inactivity random
  | AReceiverInactivity => tf_receiver_inactivity
  end.

(** Everything but the expiration of an inactivity timer, which ends the run of numbers: the
    sender draws a new one and the receiver waits for the start of another run. *)
Definition active (a : action) : Prop :=
  match a with ASenderInactivity _ | AReceiverInactivity => False | _ => True end.
Definition any_action (a : action) : Prop := True.

Definition data_of (a : action) : list (list Z) :=
  match a with AWrite data => [data] | _ => [] end.

(** An end, with what its user has written. *)
Record endpoint := mk_endpoint { ep_st : st; ep_written : list (list Z) }.

(** What its user has been given. *)
Definition ep_delivered (x : endpoint) : list (list Z) := pdu_data <$> posted x.(ep_st).(st_log).

(** A PDU may arrive, once or more and at any time after it was sent. *)
Definition deliverable (a : action) (peer : endpoint) : Prop :=
  match a with ARecv p => p ∈ transmitted peer.(ep_st).(st_log) | _ => True end.

(** The clock and the rest of the environment are free at every step; the DIF has
    32-bit sequence numbers. *)
Definition env_ok (E : env) : Prop := E.(dt).(seq_num_length) = 4.

Section Steps.
Context (ok : action -> Prop).

Definition end_step (x peer x' : endpoint) : Prop :=
  exists E a, env_ok E /\ ok a /\ deliverable a peer /\ handler E a x.(ep_st) = Some (tt, x'.(ep_st)) /\
    x'.(ep_written) = x.(ep_written) ++ data_of a.

Inductive net_step : endpoint * endpoint -> endpoint * endpoint -> Prop :=
| net_left x y x' : end_step x y x' -> net_step (x, y) (x', y)
| net_right x y y' : end_step y x y' -> net_step (x, y) (x, y').
End Steps.

(** ** The invariant of one direction *)

(** [v] is the view of the sender and [peer] that of the receiver; [start] is the
    number before the first PDU of the run. *)
Record direction (start : Z) (w : list (list Z)) (v peer : view) : Prop := {
  di_start : 0 <= start;
  di_consecutive : consecutive start v.(v_all);
  di_next : v.(v_next) = start + Z.of_nat (length v.(v_all));
  di_data : pdu_data <$> v.(v_all) = w;
  di_type : Forall (fun p => pdu_type p = PDU_TYPE_DT) v.(v_all);
  di_got : peer.(v_got) `prefix_of` v.(v_all);
  di_lwe : peer.(v_lwe) = start + Z.of_nat (length peer.(v_got));
  di_ring : v.(v_ring) = 0%nat
}.

Definition linked (sx sy : Z) (x y : endpoint) : Prop :=
  exists vx vy, inv vx x.(ep_st) /\ inv vy y.(ep_st) /\
    direction sx x.(ep_written) vx vy /\ direction sy y.(ep_written) vy vx.

Lemma linked_sym sx sy x y : linked sx sy x y -> linked sy sx y x.
Proof. intros (vx & vy & ? & ? & ? & ?). by exists vy, vx. Qed.

(** A PDU of the run that is the next one extends what was handed over. *)
Lemma consecutive_next start l got p :
  consecutive start l -> got `prefix_of` l -> p ∈ l ->
  pdu_sn p = start + Z.of_nat (length got) + 1 -> (got ++ [p]) `prefix_of` l.
Proof.
  intros Hc [k ->] Hp Hsn. apply prefix_app. apply consecutive_app in Hc as [Hg Hk].
  assert (forall x n, consecutive n x -> Forall (fun p => n < pdu_sn p <= n + Z.of_nat (length x)) x)
    as Hrange.
  { clear. induction x as [|q x IH]; intros n; [constructor|]. intros [Hq Hx]. constructor; [cbn; lia|].
    eapply Forall_impl; [apply (IH _ Hx)|]. cbn. lia. }
  apply elem_of_app in Hp as [Hp|Hp].
  - pose proof (Hrange _ _ Hg) as Hr. rewrite List.Forall_forall in Hr.
    apply list_elem_of_In, Hr in Hp. lia.
  - destruct k as [|q k]; [by apply not_elem_of_nil in Hp|]. destruct Hk as [Hq Hk].
    apply elem_of_cons in Hp as [->|Hp]; [apply prefix_cons, prefix_nil|].
    pose proof (Hrange _ _ Hk) as Hr. rewrite List.Forall_forall in Hr.
    apply list_elem_of_In, Hr in Hp. lia.
Qed.

Lemma consecutive_bound start l p :
  consecutive start l -> p ∈ l -> pdu_sn p <= start + Z.of_nat (length l).
Proof.
  intros Hc Hp. revert start Hc. induction Hp as [p l|p q l Hp IH]; intros start [Hq Hl]; cbn [length].
  - lia.
  - specialize (IH _ Hl). lia.
Qed.

Lemma consecutive_above start l p : consecutive start l -> p ∈ l -> start < pdu_sn p.
Proof.
  intros Hc Hp. revert start Hc. induction Hp as [p l|p q l Hp IH]; intros start [Hq Hl].
  - lia.
  - specialize (IH _ Hl). lia.
Qed.

(** ** One step *)

Lemma with_cwq_ring n v : v_ring (with_cwq n v) = v.(v_ring).
Proof. done. Qed.

(** A timer, or a control PDU, changes the view of neither end. *)
Lemma handler_quiet E a v :
  env_ok E -> v.(v_ring) = 0%nat ->
  match a with AWrite _ => False | ARecv p => is_ctrl p | _ => active a end ->
  safe (inv v) (handler E a) (fun _ => True).
Proof.
  intros HE H0 Ha. destruct a as [data|p| | | | |random|]; cbn [handler]; [done| | | | | |done|done].
  - unfold efcp_receive. rewrite Ha.
    pose proof (safe_dtcp_common_rcv_control E v p H0). safe_auto.
  - apply safe_rtx_timer_func.
  - by apply safe_tf_rendezvous.
  - by apply safe_tf_rendezvous_rcv.
  - apply safe_tf_rate_window.
Qed.

Lemma direction_cwq_l n start w v peer : direction start w v peer -> direction start w (with_cwq n v) peer.
Proof. by intros []. Qed.

Lemma direction_cwq_r n start w v peer : direction start w v peer -> direction start w v (with_cwq n peer).
Proof. by intros []. Qed.

Lemma direction_wrote start w v peer p :
  direction start w v peer -> pdu_sn p = v.(v_next) + 1 -> pdu_type p = PDU_TYPE_DT ->
  direction start (w ++ [pdu_data p]) (wrote p v) peer.
Proof.
  intros [] Hsn Ht. split; cbn; try done.
  - apply consecutive_app. split; [done|]. split; [lia|done].
  - rewrite length_app. cbn. lia.
  - rewrite fmap_app. by rewrite di_data0.
  - apply Forall_app. by split; [|constructor].
  - by apply prefix_app_r.
Qed.

Lemma direction_got start w v peer p :
  direction start w v peer -> p ∈ v.(v_all) -> pdu_sn p = peer.(v_lwe) + 1 ->
  direction start w v (got p peer).
Proof.
  intros [] Hp Hsn. split; cbn; try done.
  - eapply consecutive_next; [done|done|done|lia].
  - rewrite length_app. cbn. lia.
Qed.

(** Every action of an end returns and keeps the link. *)
Lemma handler_linked E a sx sy x y :
  linked sx sy x y -> env_ok E -> active a -> deliverable a y ->
  sx + Z.of_nat (length (x.(ep_written) ++ data_of a)) < 2 ^ 32 ->
  sy + Z.of_nat (length y.(ep_written)) < 2 ^ 32 ->
  exists s', handler E a x.(ep_st) = Some (tt, s') /\
    linked sx sy (mk_endpoint s' (x.(ep_written) ++ data_of a)) y.
Proof.
  intros (vx & vy & Ix & Iy & Dx & Dy) HE Hact Hdel Hbx Hby. pose proof (di_ring _ _ _ _ Dx) as H0.
  assert (forall a, match a with AWrite _ => False | ARecv p => is_ctrl p | _ => active a end ->
    exists s', handler E a x.(ep_st) = Some (tt, s') /\
      linked sx sy (mk_endpoint s' (x.(ep_written) ++ data_of a)) y) as Hquiet.
  { intros b Hb. destruct (handler_quiet E b vx HE H0 Hb _ Ix) as ([] & s' & Hrun & _ & Is').
    exists s'. split; [done|]. exists vx, vy.
    replace (data_of b) with (@nil (list Z)) by by destruct b. by rewrite app_nil_r. }
  destruct a as [data|p| | | | |random|]; try (by apply Hquiet); pose proof HE as Hs4.
  - cbn [data_of] in *. rewrite length_app in Hbx. cbn [length] in Hbx.
    assert (length (v_all vx) = length (ep_written x)) as Hlen
      by (rewrite <- (di_data _ _ _ _ Dx); by rewrite length_fmap).
    pose proof (di_next _ _ _ _ Dx). pose proof (di_start _ _ _ _ Dx).
    destruct (dtp_write_hoare E Hs4 vx data) with (s := ep_st x) as (r & s' & Hrun & p & [n Is'] & Hsn & Hd & Ht);
      [lia|lia|done|].
    exists s'. split; [cbn [handler]; by erewrite run_bind by exact Hrun|].
    exists (with_cwq n (wrote p vx)), vy. split_and!; [done|done| |].
    + apply direction_cwq_l. rewrite <- Hd. by apply direction_wrote.
    + apply direction_cwq_r. by destruct Dy.
  - destruct (pdu_type_is_control (pdu_type p)) eqn:Ht; [by apply Hquiet|].
    cbn [data_of deliverable] in *. rewrite app_nil_r in *.
    assert (p ∈ vy.(v_all)) as Hp.
    { pose proof (in_sent _ _ Iy) as Hown. rewrite Forall_forall in Hown.
      destruct (Hown p Hdel) as [?|Hc]; [done|]. unfold is_ctrl in Hc. congruence. }
    assert (length (v_all vy) = length (ep_written y)) as Hlen
      by (rewrite <- (di_data _ _ _ _ Dy); by rewrite length_fmap).
    pose proof (consecutive_bound _ _ _ (di_consecutive _ _ _ _ Dy) Hp) as Hsn.
    pose proof (di_start _ _ _ _ Dy). pose proof (di_lwe _ _ _ _ Dy).
    destruct (dtp_receive_hoare E vx p) with (s := ep_st x) as (r & s' & Hrun & Hrc);
      [done|lia|lia|done|].
    exists s'. split.
    { cbn [handler]. unfold efcp_receive. rewrite Ht. unfold bind. rewrite Hrun.
      by destruct (negb (r =? 0)). }
    destruct Hrc as [Is'|[Hnext Is']]; [by exists vx, vy|].
    exists (got p vx), vy. split_and!; [done|done|by destruct Dx|by apply direction_got].
Qed.

Lemma linked_reachable sx sy p q :
  rtc (net_step active) p q -> linked sx sy p.1 p.2 ->
  sx + Z.of_nat (length q.1.(ep_written)) < 2 ^ 32 ->
  sy + Z.of_nat (length q.2.(ep_written)) < 2 ^ 32 ->
  linked sx sy q.1 q.2.
Proof.
  intros Hrtc. induction Hrtc as [|p r q Hstep Hrtc IH]; [done|]. intros Hl Hx Hy.
  assert (forall p q, rtc (net_step active) p q ->
    (length p.1.(ep_written) <= length q.1.(ep_written))%nat /\
    (length p.2.(ep_written) <= length q.2.(ep_written))%nat) as Hmono.
  { clear. induction 1 as [|p r q Hstep _ IH]; [done|].
    destruct Hstep as [x y x' (E & a & _ & _ & _ & _ & Hw)|x y y' (E & a & _ & _ & _ & _ & Hw)];
      cbn in *; rewrite Hw, length_app in IH; lia. }
  destruct (Hmono _ _ Hrtc) as [M1 M2]. apply IH; [|done|done].
  destruct Hstep as [x y x' (E & a & HE & Hok & Hd & Hrun & Hw)|x y y' (E & a & HE & Hok & Hd & Hrun & Hw)];
    cbn [fst snd] in *.
  - destruct (handler_linked E a sx sy x y Hl HE Hok Hd) as (s' & Hrun' & Hl'); [rewrite <- Hw; lia|lia|].
    rewrite Hrun in Hrun'. injection Hrun' as <-. rewrite <- Hw in Hl'. by destruct x'.
  - apply linked_sym.
    destruct (handler_linked E a sy sx y x (linked_sym _ _ _ _ Hl) HE Hok Hd) as (s' & Hrun' & Hl');
      [rewrite <- Hw; lia|lia|].
    rewrite Hrun in Hrun'. injection Hrun' as <-. rewrite <- Hw in Hl'. by destruct y'.
Qed.

Lemma linked_delivered sx sy x y :
  linked sx sy x y -> ep_delivered y `prefix_of` x.(ep_written).
Proof.
  intros (vx & vy & Ix & Iy & Dx & _). unfold ep_delivered. rewrite (in_got _ _ Iy).
  rewrite <- (di_data _ _ _ _ Dx). destruct (di_got _ _ _ _ Dx) as [k ->].
  rewrite fmap_app. by exists (pdu_data <$> k).
Qed.

(** ** The start of a run *)

(** A receiver that waits for the start of a run: as above, but for the flag and the
    left window edge. *)
Definition opening (v : view) (s : st) : Prop :=
  s.(st_dtp).(dtp_sv_of).(drf_required) = true /\
  inv v (set_st_dtp (set_dtp_sv_of (set_drf_required false
    (set_rcv_left_window_edge v.(v_lwe) s.(st_dtp).(dtp_sv_of))) s.(st_dtp)) s).

(** The view once [p] started the run. *)
Definition started (p : pdu) (v : view) : view :=
  mk_view v.(v_all) v.(v_next) (pdu_sn p) (v.(v_got) ++ [p]) v.(v_rtt) v.(v_cwq) v.(v_ring).

Section Opening.
Context (E : env).

Lemma safe_squeue_flush v : safe (inv v) squeue_flush (fun _ => True).
Proof.
  unfold squeue_flush. do 2 safe_step.
  eapply (safe_bind _ _ (fun _ => True)); [|intros _ _; apply safe_destroy_all].
  apply safe_mod_dtp. intros d []. by split.
Qed.

Lemma receive_drf_hoare v p s :
  opening v s -> v.(v_ring) = 0%nat -> Z.land (p.(attr) A_FLAGS) PDU_FLAGS_DATA_RUN <> 0 ->
  exists s', receive_drf E p s = Some (0, s') /\ inv (started p v) s'.
Proof.
  intros [_ Hs] H0 Hflag. unfold receive_drf. rewrite (proj2 (Z.eqb_neq _ _) Hflag). cbn [negb].
  set (v1 := mk_view v.(v_all) v.(v_next) (pdu_sn p) v.(v_got) v.(v_rtt) v.(v_cwq) v.(v_ring)).
  erewrite run_bind by apply mod_sv_run. set (s1 := set_st_dtp _ s).
  assert (inv v1 s1) as Hs1.
  { destruct Hs as [Ho [] Hsent Hg]. by split. }
  revert Hs1. generalize s1. clear s s1 Hs.
  enough (hoare (inv v1) (squeue_flush ;;;
    let! d := get_dtp in
    match d.(dtp_rttq) with
    | Some q => mod_dtp (set_dtp_rttq (Some (rttq_flush q)))
    | None => ret tt
    end ;;;
    let! r := (match d.(dtp_dtcp) with Some _ => dtcp_sv_update E p | None => ret 0 end) in
    if negb (r =? 0) then ret (-1)
    else dtp_send_pending_ctrl_pdus ;;; pdu_post p ;;; stats_inc_bytes_rx (pdu_data_len p) ;;; ret 0)
    (fun r s => r = 0 /\ inv (started p v) s)) as Hm.
  { intros s Hs. destruct (Hm s Hs) as (r & s' & Hrun & -> & Hs'). by exists s'. }
  eapply hoare_safe; [apply safe_squeue_flush|]. intros _ _.
  eapply hoare_safe; [apply safe_get_dtp|]. intros d Hd.
  eapply (hoare_safe _ _ _ (fun _ => True)); [by safe_auto|]. intros _ _.
  destruct (eo_dtcp _ _ Hd) as (c & -> & _).
  eapply hoare_bind; [by apply dtcp_sv_update_hoare|]. intros r s [-> Hs]. revert s Hs. cbn [negb Z.eqb].
  eapply hoare_bind; [apply hoare_send_pending|]. intros u. rewrite with_ring_id by done.
  eapply hoare_bind; [apply pdu_post_hoare|]. intros r s [_ Hs]. revert s Hs.
  eapply hoare_safe; [apply safe_stats_rx|]. intros _ _. by apply hoare_ret.
Qed.

(** A receiver that waits for the start of a run drops the PDUs without the
    data-run flag; the first one with it is handed over and becomes the left window
    edge: from then on the receiver is as [efcp_reliable_transfer] asks for, and no
    PDU before that one is ever handed over, whether or not it was. *)
Theorem dtp_receive_opening (v : view) (p q : pdu) (s : st) :
  opening v s -> v.(v_ring) = 0%nat -> 0 <= pdu_sn p -> pdu_sn q <= pdu_sn p < 2 ^ 32 ->
  if Z.land (p.(attr) A_FLAGS) PDU_FLAGS_DATA_RUN =? 0
  then exists s', dtp_receive E p s = Some (0, s') /\ opening v s'
  else exists s' s'' r, dtp_receive E p s = Some (0, s') /\ inv (started p v) s' /\
         dtp_receive E q s' = Some (r, s'') /\ inv (started p v) s''.
Proof.
  intros Hop H0 Hp Hq. pose proof Hop as [Hd Hs].
  destruct (timer_restart_run E t_receiver_inactivity set_t_receiver_inactivity
    (u32 (2 * u32 (sv_MPL (dtp_sv_of (st_dtp s)) + sv_R (dtp_sv_of (st_dtp s)) + sv_A (dtp_sv_of (st_dtp s))))) s)
    as (tm & Htm & _).
  set (s1 := set_st_dtp (set_timers tm s.(st_dtp)) s) in *.
  assert (dtp_receive E p s = receive_drf E p s1) as Hrun.
  { unfold dtp_receive, get_dtp. erewrite run_bind by reflexivity. cbv zeta. rewrite Hd.
    by erewrite run_bind by exact Htm. }
  assert (opening v s1) as Hop1 by (split; [done|]; destruct Hs as [Ho [] ? ?]; by split).
  rewrite Hrun. destruct (Z.eqb_spec (Z.land (p.(attr) A_FLAGS) PDU_FLAGS_DATA_RUN) 0) as [Hz|Hnz].
  - unfold receive_drf. rewrite Hz. cbn [negb Z.eqb]. eexists. split; [reflexivity|].
    destruct Hop1 as [? [Ho [] Hsent Hg]]. split; [done|]. split; try done; cbn.
    + by rewrite transmitted_app, app_nil_r.
    + by rewrite posted_app, app_nil_r.
  - destruct (receive_drf_hoare v p s1 Hop1 H0 Hnz) as (s' & Hr & Hs').
    destruct (dtp_receive_hoare E (started p v) q) with (s := s')
      as (r & s'' & Hr2 & [Hs''|[Hn _]]); [done|cbn; lia|lia|done| |cbn in Hn; lia].
    by exists s', s'', r.
Qed.
End Opening.

(** ** The inactivity timers *)

Lemma destroy_all_run l s :
  destroy_all l s = Some (tt, mk_st s.(st_dtp) s.(st_oracle) (s.(st_log) ++ (EvDestroy <$> l))).
Proof.
  revert s. induction l as [|p l IH]; intros s; cbn; [rewrite app_nil_r; by destruct s|].
  unfold bind. cbn. rewrite IH. cbn. by rewrite <- app_assoc.
Qed.

Lemma destroyed_log l :
  transmitted (EvDestroy <$> l) = [] /\ posted (EvDestroy <$> l) = [].
Proof. induction l as [|p l [IH1 IH2]]; [done|]. by split. Qed.

(** The receiver's timer leaves an end that waits for the start of a run. *)
Lemma receiver_inactivity_opening v s :
  inv v s -> exists s', tf_receiver_inactivity s = Some (tt, s') /\ opening v s'.
Proof.
  intros [Ho [(c & Hc & Hconf) Hw Hq Hrtt Hring Hnext Hlwe Hdrf HA Hgap] Hsent Hg].
  eexists. split.
  - unfold tf_receiver_inactivity, default_receiver_inactivity_timer, squeue_flush, bind, get_dtp, gets, mod_dtp, modify.
    cbn. rewrite Hc. unfold mod_csv, mod_dtcp, mod_sv, mod_dtp, modify. cbn. rewrite Hc. cbn.
    rewrite dtp_squeue_flush_spec. cbn. rewrite destroy_all_run. cbn. reflexivity.
  - destruct (destroyed_log (sq_du <$> s.(st_dtp).(dtp_seqq))) as [Hd1 Hd2].
    split; [done|]. split; cbn; [done| | |].
    + split; cbn; try done. eexists. split; [reflexivity|]. done.
    + by rewrite transmitted_app, Hd1, app_nil_r.
    + by rewrite posted_app, Hd2, app_nil_r.
Qed.

Lemma cwq_flush_total (w : option (cwq pdu)) :
  is_Some (cwq_flush (Datatypes.S (match w with Some w => length w.(cq).(head) | None => 0%nat end)) w).
Proof.
  destruct w as [w|]; [|by eexists]. unfold cwq_flush.
  enough (forall fuel (q : rqueue pdu), (length q.(head) < fuel)%nat -> is_Some (cwq_flush_loop fuel q)) as Hl.
  { destruct (Hl (Datatypes.S (length (head (cq w)))) (cq w)) as [[[r q] freed] ->]; [lia|]. by eexists. }
  induction fuel as [|fuel IH]; intros [l n] Hf; cbn in *; [lia|]. destruct l as [|p l]; cbn; [by eexists|].
  destruct (IH (mk_rqueue l (u64 (n - 1)))) as [[[r q] freed] ->]; [cbn in *; lia|]. by eexists.
Qed.

Lemma rtxq_flush_run s : exists r s', rtxq_flush s = Some (r, s') /\ dtp_cwq s'.(st_dtp) = dtp_cwq s.(st_dtp).
Proof.
  unfold rtxq_flush. erewrite run_bind by reflexivity. destruct (dtp_rtxq (st_dtp s)) as [q|]; [|by eexists _, _].
  destruct (timer_stop_run t_rtx set_t_rtx s) as (tm & Htm). erewrite run_bind by exact Htm.
  destruct (rtxqueue_flush q) as [freed q']. erewrite run_bind by apply destroy_all_run. by eexists _, _.
Qed.

(** The sender's timer runs to its end. *)
Lemma sender_inactivity_runs v random s : inv v s -> is_Some (tf_sender_inactivity random s).
Proof.
  intros [_ [(c & Hc & _) _ _ _ _ _ _ _ _ _] _ _].
  unfold tf_sender_inactivity. erewrite run_bind by reflexivity.
  match goal with |- is_Some (_ ?t) => assert (dtp_dtcp (st_dtp t) = Some c) as Hc1 by exact Hc; revert Hc1; generalize t end.
  clear s Hc. intros s Hc. enough (is_Some (default_sender_inactivity_timer random s)) as [[r s'] Hr] by (erewrite run_bind by exact Hr; by eexists).
  unfold default_sender_inactivity_timer. erewrite run_bind by reflexivity. rewrite Hc.
  erewrite run_bind by reflexivity. erewrite run_bind by reflexivity. erewrite run_bind by reflexivity.
  erewrite run_bind by (apply mod_csv_run; exact Hc).
  match goal with |- is_Some (bind _ _ ?t) => generalize t end. intros s2.
  assert (exists s3, match dtp_rttq (st_dtp s) with
    | Some q => mod_dtp (set_dtp_rttq (Some (rttq_flush q))) | None => ret tt end s2 = Some (tt, s3)) as [s3 H3]
    by (destruct (dtp_rttq (st_dtp s)); by eexists).
  erewrite run_bind by exact H3. clear s2 H3.
  assert (exists r s4, (if ps_rtx_ctrl (dtcp_ps_of c) then
      match dtp_rtxq (st_dtp s) with None => ret (-1) | Some _ => rtxq_flush ;;; ret 0 end
    else ret 0) s3 = Some (r, s4)) as (r & s4 & H4).
  { destruct (ps_rtx_ctrl _); [|by eexists _, _]. destruct (dtp_rtxq (st_dtp s)); [|by eexists _, _].
    destruct (rtxq_flush_run s3) as (r0 & s' & Hr & _). erewrite run_bind by exact Hr. by eexists _, _. }
  erewrite run_bind by exact H4. destruct (negb (r =? 0)); [by eexists|].
  destruct (ps_flow_ctrl _); [|by eexists]. destruct (cwq_flush_total (dtp_cwq (st_dtp s))) as [[[r5 w] freed] ->].
  erewrite run_bind by reflexivity. erewrite run_bind by apply destroy_all_run.
  destruct (negb (r5 =? 0)); by eexists.
Qed.

(** No handler faults, whatever timer it is. *)
Lemma handler_runs E a sx sy x y :
  linked sx sy x y -> env_ok E -> deliverable a y ->
  sx + Z.of_nat (length (x.(ep_written) ++ data_of a)) < 2 ^ 32 ->
  sy + Z.of_nat (length y.(ep_written)) < 2 ^ 32 ->
  is_Some (handler E a x.(ep_st)).
Proof.
  intros Hl HE Hd Hx Hy. pose proof Hl as (vx & _ & Ix & _).
  assert (active a -> is_Some (handler E a x.(ep_st))) as Hact.
  { intros Ha. destruct (handler_linked E a sx sy x y) as (s' & -> & _); [done..|]. by eexists. }
  destruct a; try (by apply Hact); cbn [handler].
  - by eapply sender_inactivity_runs.
  - destruct (receiver_inactivity_opening vx x.(ep_st) Ix) as (s' & -> & _). by eexists.
Qed.

(** ** The promise of the protocol *)


(** C31: the limit of that promise.  Once the receiver's inactivity timer has expired, whichever data PDU of
    the peer arrives first with the data-run flag is handed to the user and becomes the start of the run,
    be it one that was handed over before or one behind PDUs that were not: the user is given data
    twice, or data is missing in the middle.  The code sets the flag in every PDU, as the sender
    never clears [drf_flag]. *)
Theorem efcp_inactivity_skips (sx sy : Z) (E : env) (x y : endpoint) (p : pdu) :
  linked sx sy x y -> env_ok E -> sx + Z.of_nat (length x.(ep_written)) < 2 ^ 32 ->
  p ∈ transmitted x.(ep_st).(st_log) -> pdu_type_is_control (pdu_type p) = false ->
  Z.land (p.(attr) A_FLAGS) PDU_FLAGS_DATA_RUN <> 0 ->
  exists y', rtc (net_step any_action) (x, y) (x, y') /\ ep_delivered y' = ep_delivered y ++ [pdu_data p].
Proof.
  intros (vx & vy & Ix & Iy & Dx & Dy) HE Hx Hp Ht Hflag.
  assert (p ∈ vx.(v_all)) as Hall.
  { pose proof (in_sent _ _ Ix) as Hown. rewrite Forall_forall in Hown.
    destruct (Hown p Hp) as [?|Hc]; [done|]. unfold is_ctrl in Hc. congruence. }
  assert (length (v_all vx) = length (ep_written x)) as Hlen
    by (rewrite <- (di_data _ _ _ _ Dx); by rewrite length_fmap).
  pose proof (consecutive_bound _ _ _ (di_consecutive _ _ _ _ Dx) Hall) as Hsn.
  pose proof (consecutive_above _ _ _ (di_consecutive _ _ _ _ Dx) Hall) as Hsn0. pose proof (di_start _ _ _ _ Dx).
  destruct (receiver_inactivity_opening vy y.(ep_st) Iy) as (s1 & Hrun1 & Hop).
  pose proof (dtp_receive_opening E vy p p s1 Hop (di_ring _ _ _ _ Dy)) as Hr.
  rewrite (proj2 (Z.eqb_neq _ _) Hflag) in Hr. destruct Hr as (s2 & _ & _ & Hrun2 & I2 & _); [lia|lia|].
  exists (mk_endpoint s2 y.(ep_written)). split.
  - apply (rtc_l _ _ (x, mk_endpoint s1 y.(ep_written))).
    + apply net_right. exists E, AReceiverInactivity. split_and!; try done. by rewrite app_nil_r.
    + apply rtc_once, net_right. exists E, (ARecv p). split_and!; try done; [|by rewrite app_nil_r].
      cbn [handler]. unfold efcp_receive. rewrite Ht. unfold bind. cbn [ep_st]. by rewrite Hrun2.
  - unfold ep_delivered. cbn [ep_st]. rewrite (in_got _ _ I2), (in_got _ _ Iy). cbn. by rewrite fmap_app.
Qed.
