(* ===== verification/EfcpExamples.v ===== *)
(** * A connection to run

    A concrete connection with window-based flow control and retransmission control,
    built with the initialisation functions of the code, and the theorems of the EFCP
    files at it: their hypotheses hold of states that occur. *)

From S2P Require Import Prelude Kucommon Pci Rds Queues EfcpState DtpUtils Dtcp Dtp Transfer Efcp.
From Stdlib Require Import ZArith Lia.
From stdpp Require Import base list numbers option relations.
Import Rqueue Ringq Rtimer Ordered Seqq Rtxq Rttq Cwq.
#[local] Open Scope Z_scope.
#[local] Open Scope efcp_scope.

Definition ex_env : env :=
  mk_env 250 100000 1000 0 (fun ms => ms * 250 / 1000) (fun j => j * 1000 / 250)
    example_dt_cons true (fun _ => 0).

Lemma ex_env_ok : env_ok ex_env.
Proof. done. Qed.

Definition ex_cfg : dtcp_config :=
  mk_dtcp_config true
    (Some (mk_dtcp_fctrl_config true (Some (mk_window_fctrl_config 100 3 None None)) false None
             0 0 0 0 0 0 None None None None))
    true (Some (mk_dtcp_rxctrl_config 0 5 0 None None None None None None)) None None None.

Definition ex_ps : dtcp_ps := mk_dtcp_ps true true true false 3 0 0 5.

(** Two ends: the numbers of the first start after [seq], those of its peer after
    [lwe]. *)
Definition ex_dtcp (seq lwe : Z) : dtcp :=
  mk_dtcp (set_rcvr_rt_wind_edge (lwe + 3) (dtcp_sv_init default_dtcp_sv ex_ps seq))
    ex_cfg ex_ps 0 None.

Definition ex_ring : ringq pdu := mk_ringq (replicate 4 None) (Some 0%nat) 4 0.

Definition ex_sv (seq lwe : Z) (drf : bool) : dtp_sv :=
  mk_dtp_sv 1500 1500 1000 100 0 100 lwe false true 0 0 0 0 0 0 0 0 seq seq true true false drf false.

Definition ex_dtp (seq lwe : Z) (drf : bool) (wait : list pdu) : dtp :=
  mk_dtp (Some (ex_dtcp seq lwe)) (mk_connection 1 10 20 5 6 1)
    (Some (mk_cwq (mk_rqueue wait (Z.of_nat (length wait)))))
    (Some (mk_rtxqueue 0 0 [])) None (ex_sv seq lwe drf) (mk_dtp_ps true false 0) []
    ex_ring ex_ring (mk_dtp_timers None None None None None None).

Definition ex_st (seq lwe : Z) (drf : bool) (wait : list pdu) : st := mk_st (ex_dtp seq lwe drf wait) [] [].

Definition ex_pdu (sn : Z) (data : list Z) : pdu :=
  mk_pdu (fun a => match a with
                   | A_TYPE => PDU_TYPE_DT | A_SEQUENCE_NUMBER => sn | A_FLAGS => PDU_FLAGS_DATA_RUN
                   | A_SOURCE => 10 | A_DESTINATION => 20
                   | _ => 0 end) data.

Lemma ex_ring_holds : ringq_holds ex_ring [].
Proof. by repeat split. Qed.

(** ** The closed-window queue: four PDUs wait, the window takes three *)

Definition ex_wait : list pdu := [ex_pdu 8 [1]; ex_pdu 9 [2]; ex_pdu 10 [3]; ex_pdu 11 [4]].

Lemma ex_sending : sending (ex_st 7 0 false ex_wait) ex_wait 7 10.
Proof.
  split; [done| | |done].
  - eexists. split; [reflexivity|]. split_and!; [done|done|done|]. intros _. eexists.
    split; [reflexivity|]. constructor.
  - eexists. split; [reflexivity|]. by split.
Qed.

Lemma cwq_deliver_window_witness :
  exists s', cwq_deliver ex_env (ex_st 7 0 false ex_wait) = Some (tt, s') /\
    transmitted s'.(st_log) = [ex_pdu 8 [1]; ex_pdu 9 [2]; ex_pdu 10 [3]] /\
    cwq_size s'.(st_dtp).(dtp_cwq) = 1 /\ s'.(st_dtp).(dtp_sv_of).(window_closed) = true.
Proof.
  destruct (cwq_deliver_window ex_env (ex_st 7 0 false ex_wait) ex_wait 7 10 ex_sending)
    as (s' & Hrun & Ht & _ & _ & Hn & Hw & _).
  - by repeat split.
  - exists s'. split; [exact Hrun|]. split; [exact Ht|]. split; [exact Hn|exact Hw].
Defined.

(** ** A sender *)

Lemma ex_sender : sender (ex_st 7 0 false []) [] 7 10.
Proof.
  split; [|done|done|done]. split; [|done|done|done]. split; [done| | |done].
  - eexists. split; [reflexivity|]. split_and!; [done|done|done|]. intros _. eexists.
    split; [reflexivity|]. constructor.
  - eexists. split; [reflexivity|]. by split.
Qed.

(** A flow-control PDU that moves the right window edge to [r]. *)
Definition ex_fc (sn r : Z) : pdu :=
  mk_pdu (fun a => match a with
                   | A_TYPE => PDU_TYPE_FC | A_SEQUENCE_NUMBER => sn | A_NEW_RT_WIND_EDGE => r
                   | _ => 0 end) [].

Definition ex_events : list snd_event :=
  [SWrite [1]; SWrite [2]; SWrite [3]; SWrite [4]; SWindow (ex_fc 1 20); SWrite [5]].

Lemma dtp_sender_fifo_witness :
  exists s' out wait, snd_run ex_env ex_events (ex_st 7 0 false []) = Some (tt, s') /\
    transmitted s'.(st_log) = out /\ pdu_data <$> (out ++ wait) = [[1]; [2]; [3]; [4]; [5]] /\
    consecutive 7 (out ++ wait).
Proof.
  destruct (dtp_sender_fifo ex_env eq_refl ex_events (ex_st 7 0 false []) [] 7 10 ex_sender)
    as (s' & out & wait & sent' & rwe' & Hrun & _ & Ht & Hd & Hc & _).
  - lia.
  - by vm_compute.
  - exists s', out, wait. split; [exact Hrun|]. split; [exact Ht|]. split; [exact Hd|exact Hc].
Defined.

(** ** A receiver *)

Lemma ex_receiving : receiving 3 (ex_st 7 0 false []) 0.
Proof.
  split; try done. eexists. split; [reflexivity|].
  split; [done|]. split; [done|]. intros _. split; [done|]. split; [done|]. split; [|done].
  by vm_compute.
Qed.

(** PDU 2 is lost and sent again after 3, 1 comes twice. *)
Definition ex_arrivals : list pdu :=
  [ex_pdu 1 [10]; ex_pdu 3 [30]; ex_pdu 1 [10]; ex_pdu 2 [20]; ex_pdu 3 [30]].

Lemma dtp_receiver_in_order_witness :
  exists s' out, rcv_run ex_env ex_arrivals (ex_st 7 0 false []) = Some (tt, s') /\
    posted s'.(st_log) = [ex_pdu 1 [10]; ex_pdu 2 [20]; ex_pdu 3 [30]] /\
    transmitted s'.(st_log) = out /\
    Forall (fun p => is_ack (pdu_type p) /\ 0 <= attr p A_ACK_SEQ_NUM <= 3) out.
Proof.
  destruct (dtp_receiver_in_order ex_env eq_refl 3 ex_arrivals (ex_st 7 0 false []) 0 ex_receiving)
    as (s' & out & Hrun & Hp & _ & _ & _ & Ht & Hack).
  - lia.
  - lia.
  - by vm_compute.
  - repeat (constructor; [by vm_compute|]). constructor.
  - exists s', out. split; [exact Hrun|]. split; [exact Hp|]. split; [exact Ht|exact Hack].
Defined.

(** Three rounds, each in the opposite order and with a duplicate. *)
Definition ex_round : list pdu := [ex_pdu 3 [30]; ex_pdu 2 [20]; ex_pdu 1 [10]; ex_pdu 1 [10]].

Lemma dtp_eventual_delivery_witness :
  exists s', rcv_run ex_env (concat [ex_round; ex_round; ex_round]) (ex_st 7 0 false []) = Some (tt, s') /\
    posted s'.(st_log) = [ex_pdu 1 [10]; ex_pdu 2 [20]; ex_pdu 3 [30]].
Proof.
  destruct (dtp_eventual_delivery ex_env eq_refl 3 [ex_pdu 1 [10]; ex_pdu 2 [20]; ex_pdu 3 [30]]
              [ex_round; ex_round; ex_round] (ex_st 7 0 false []) 0 ex_receiving)
    as (s' & Hrun & Hp & _).
  - lia.
  - lia.
  - by vm_compute.
  - by repeat split.
  - repeat (constructor; [by vm_compute|]). constructor.
  - assert (Forall (fun p => p ∈ [ex_pdu 1 [10]; ex_pdu 2 [20]; ex_pdu 3 [30]]) ex_round /\
            Forall (fun p => p ∈ ex_round) [ex_pdu 1 [10]; ex_pdu 2 [20]; ex_pdu 3 [30]]) as Hr.
    { split; repeat (constructor; [unfold ex_round; set_solver|]); constructor. }
    repeat (constructor; [exact Hr|]). constructor.
  - cbn. lia.
  - exists s'. split; [exact Hrun|exact Hp].
Defined.

(** ** Control PDUs *)

Lemma dtcp_duplicate_control_witness :
  exists s' c', dtcp_common_rcv_control ex_env (ex_fc 0 20) (ex_st 7 0 false []) = Some (0, s') /\
    s'.(st_log) = [EvDestroy (ex_fc 0 20)] /\ s'.(st_dtp).(dtp_dtcp) = Some c' /\
    c'.(dtcp_sv_of).(snd_rt_wind_edge) = 10 /\ c'.(cpdus_in_transit) = 1.
Proof.
  destruct (dtcp_duplicate_control ex_env (ex_fc 0 20) (ex_st 7 0 false []) (ex_dtcp 7 0))
    as (s' & c' & Hrun & Hl & _ & _ & _ & _ & Hc & Hw & _ & _ & _ & Ht).
  - reflexivity.
  - reflexivity.
  - by vm_compute.
  - exists s', c'. split; [exact Hrun|]. split; [exact Hl|]. split; [exact Hc|].
    split; [exact Hw|exact Ht].
Defined.

(** A connection with a smoothed time of 40 ms. *)
Definition ex_measured : st :=
  set_st_dtp (set_dtp_dtcp (Some (set_dtcp_sv_of
    (set_srtt 40 (set_rttvar 20 (set_rtt 40 (ex_dtcp 7 0).(dtcp_sv_of)))) (ex_dtcp 7 0)))
    (ex_dtp 7 0 false [])) (ex_st 7 0 false []).

Lemma rtt_calculation_srtt_witness :
  exists s' c' tr, rtt_calculation ex_env 99900 ex_measured = Some (0, s') /\
    s'.(st_dtp).(dtp_dtcp) = Some c' /\ c'.(dtcp_sv_of).(srtt) = 40 /\
    s'.(st_dtp).(dtp_sv_of).(sv_tr) = u32 (tr * 250 / 1000) /\
    (c'.(dtcp_sv_of).(rttvar) < 2 ^ 30 ->
       c'.(dtcp_sv_of).(srtt) + 4 * c'.(dtcp_sv_of).(rttvar) + 0 < 2 ^ 32 - 100 -> 140 <= tr).
Proof.
  destruct (rtt_calculation_srtt ex_env 99900 ex_measured
    (set_dtcp_sv_of (set_srtt 40 (set_rttvar 20 (set_rtt 40 (ex_dtcp 7 0).(dtcp_sv_of)))) (ex_dtcp 7 0)))
    as (s' & c' & tr & Hrun & Hc & Hs & Ht & Hb).
  - reflexivity.
  - by vm_compute.
  - by vm_compute.
  - exists s', c', tr. split; [exact Hrun|]. split; [exact Hc|]. split; [exact Hs|].
    split; [exact Ht|]. intros H1 H2. by apply Hb.
Defined.

(** An acknowledgement waits in the ring. *)
Definition ex_ack : pdu :=
  mk_pdu (fun a => match a with A_TYPE => PDU_TYPE_ACK | A_SOURCE => 10 | A_DESTINATION => 20 | _ => 0 end) [].

Definition ex_pending : st :=
  mk_st (set_to_send (mk_ringq (Some ex_ack :: replicate 3 None) (Some 1%nat) 4 1)
    (ex_dtp 7 0 false [])) [false] [].

Lemma send_pending_destroys_twice_witness :
  dtp_send_pending_ctrl_pdus ex_pending = None.
Proof.
  apply (send_pending_destroys_twice ex_ack ex_pending (ex_dtcp 7 0)).
  - reflexivity.
  - reflexivity.
  - by repeat split.
Defined.

(** ** Two ends *)

Definition run_or (m : M unit) (s : st) : st := match m s with Some (_, s') => s' | None => s end.

Definition ex_x0 : endpoint := mk_endpoint (ex_st 7 50 false []) [].
Definition ex_y0 : endpoint := mk_endpoint (ex_st 50 7 false []) [].

(** The user of the first end writes twice; the second PDU arrives first, then the
    first one. *)
Definition ex_x1 : endpoint :=
  mk_endpoint (run_or (handler ex_env (AWrite [5; 9; 8])) ex_x0.(ep_st)) [[5; 9; 8]].
Definition ex_x2 : endpoint :=
  mk_endpoint (run_or (handler ex_env (AWrite [6; 7])) ex_x1.(ep_st)) [[5; 9; 8]; [6; 7]].
Definition ex_sent (n : nat) : pdu := default (ex_pdu 0 []) (transmitted ex_x2.(ep_st).(st_log) !! n).
Definition ex_y1 : endpoint := mk_endpoint (run_or (handler ex_env (ARecv (ex_sent 1))) ex_y0.(ep_st)) [].
Definition ex_y2 : endpoint := mk_endpoint (run_or (handler ex_env (ARecv (ex_sent 0))) ex_y1.(ep_st)) [].

Lemma ex_linked : linked 7 50 ex_x0 ex_y0.
Proof.
  assert (forall seq lwe, inv (mk_view [] seq lwe [] false 0 0) (ex_st seq lwe false [])) as Hinv.
  { intros seq lwe. split; try done. split; try done.
    - eexists. split; [reflexivity|]. split; [done|]. by eexists.
    - eexists. split; [reflexivity|]. split; [done|constructor].
    - eexists. split; [reflexivity|constructor].
    - exists []. split; [exact ex_ring_holds|]. split; [done|constructor]. }
  exists (mk_view [] 7 50 [] false 0 0), (mk_view [] 50 7 [] false 0 0).
  split; [apply Hinv|]. split; [apply Hinv|]. split; by split.
Qed.

Lemma run_or_ok (m : M unit) s :
  match m s with Some _ => true | None => false end = true -> m s = Some (tt, run_or m s).
Proof. unfold run_or. by destruct (m s) as [[[] s']|]. Qed.

Lemma ex_sent_in n :
  (n <? length (transmitted ex_x2.(ep_st).(st_log)))%nat = true ->
  ex_sent n ∈ transmitted ex_x2.(ep_st).(st_log).
Proof.
  intros Hn%Nat.ltb_lt. unfold ex_sent. destruct (lookup_lt_is_Some_2 _ _ Hn) as [p Hp].
  rewrite Hp. by eapply list_elem_of_lookup_2.
Qed.

Lemma ex_reach : rtc (net_step active) (ex_x0, ex_y0) (ex_x2, ex_y2).
Proof.
  apply (rtc_l _ _ (ex_x1, ex_y0)).
  { apply net_left. exists ex_env, (AWrite [5; 9; 8]). split; [exact ex_env_ok|].
    split; [done|]. split; [done|]. split; [apply run_or_ok; by vm_compute|reflexivity]. }
  apply (rtc_l _ _ (ex_x2, ex_y0)).
  { apply net_left. exists ex_env, (AWrite [6; 7]). split; [exact ex_env_ok|].
    split; [done|]. split; [done|]. split; [apply run_or_ok; by vm_compute|reflexivity]. }
  apply (rtc_l _ _ (ex_x2, ex_y1)).
  { apply net_right. exists ex_env, (ARecv (ex_sent 1)). split; [exact ex_env_ok|].
    split; [done|]. split; [by apply ex_sent_in; vm_compute|]. split; [apply run_or_ok; by vm_compute|reflexivity]. }
  apply rtc_once.
  apply net_right. exists ex_env, (ARecv (ex_sent 0)). split; [exact ex_env_ok|].
  split; [done|]. split; [by apply ex_sent_in; vm_compute|]. split; [apply run_or_ok; by vm_compute|reflexivity].
Qed.


Lemma ex_linked_2 : linked 7 50 ex_x2 ex_y2.
Proof. apply (linked_reachable 7 50 _ _ ex_reach ex_linked); by vm_compute. Qed.

(** The inactivity timer of the second end expires and the first PDU comes once more. *)
Lemma efcp_inactivity_skips_witness :
  exists y', rtc (net_step any_action) (ex_x2, ex_y2) (ex_x2, y') /\
    ep_delivered y' = [[5; 9; 8]; [5; 9; 8]] /\ ~ (ep_delivered y' `prefix_of` ex_x2.(ep_written)).
Proof.
  destruct (efcp_inactivity_skips 7 50 ex_env ex_x2 ex_y2 (ex_sent 0) ex_linked_2 ex_env_ok) as (y' & Hr & Hd).
  - by vm_compute.
  - apply ex_sent_in. by vm_compute.
  - by vm_compute.
  - by vm_compute.
  - exists y'. split; [exact Hr|].
    assert (ep_delivered y' = [[5; 9; 8]; [5; 9; 8]]) as Hd' by (rewrite Hd; by vm_compute).
    split; [exact Hd'|]. rewrite Hd'. intros [k Hk]. by vm_compute in Hk.
Defined.

(** ** The start of a run: the first PDU was lost, the second one carries the flag
    too *)

Lemma ex_opening : opening (mk_view [] 7 0 [] false 0 0) (ex_st 7 0 true []).
Proof.
  split; [done|]. split; try done. split; try done.
  - eexists. split; [reflexivity|]. split; [done|]. by eexists.
  - eexists. split; [reflexivity|]. split; [done|constructor].
  - eexists. split; [reflexivity|constructor].
  - exists []. split; [exact ex_ring_holds|]. split; [done|constructor].
Qed.

Lemma dtp_receive_opening_witness :
  exists s' s'' r, dtp_receive ex_env (ex_pdu 2 [20]) (ex_st 7 0 true []) = Some (0, s') /\
    dtp_receive ex_env (ex_pdu 1 [10]) s' = Some (r, s'') /\
    posted s''.(st_log) = [ex_pdu 2 [20]].
Proof.
  destruct (dtp_receive_opening ex_env (mk_view [] 7 0 [] false 0 0) (ex_pdu 2 [20])
    (ex_pdu 1 [10]) (ex_st 7 0 true []) ex_opening eq_refl) as (s' & s'' & r & H1 & _ & H2 & I2).
  - by vm_compute.
  - by vm_compute.
  - exists s', s'', r. split; [exact H1|]. split; [exact H2|]. exact (in_got _ _ I2).
Defined.

(** PDU 1 arrives while there is no memory for its acknowledgement. *)
Definition ex_no_memory : st := mk_st (ex_dtp 7 0 false []) [false] [].

Lemma dtp_receive_lost_witness :
  exists s1 s2, receive_no_a ex_env (ex_pdu 1 [10]) 0 true 0 ex_no_memory = Some (-1, s1) /\
    s1.(st_dtp).(dtp_sv_of).(rcv_left_window_edge) = 1 /\
    s1.(st_log) = [EvDestroy (ex_pdu 1 [10])] /\
    dtp_receive ex_env (ex_pdu 1 [10]) s1 = Some (0, s2) /\
    s2.(st_log) = s1.(st_log) ++ [EvDestroy (ex_pdu 1 [10])].
Proof.
  apply (dtp_receive_lost ex_env (ex_pdu 1 [10]) true [] ex_no_memory (ex_dtcp 7 0) 0);
    first [reflexivity | by vm_compute].
Defined.
