(* ===== verification/EfcpSdu.v ===== *)
(** * SDUs over a connection

    [efcp_write] and [efcp_enqueue] of [src/kernel/efcp.c]: delimiting on top of the transfer protocol.  The SDUs
    that come out at one end of a reliable connection are a prefix of those that went in at
    the other, byte for byte. *)

From S2P Require Import Prelude Kucommon Pci Skb Du Delim Rds Queues EfcpState DtpUtils Dtcp Dtp Transfer Efcp.
From Stdlib Require Import ZArith Lia.
From stdpp Require Import base list numbers option relations.
#[local] Open Scope Z_scope.
#[local] Open Scope efcp_scope.

Section Sdu.
Context {B : Type} `{SkBuffLaws B}.
Context (junk : Z).
Implicit Types (x y : du B) (l us : list (du B)) (o : oracle).

(** ** The code *)

(** The loop over the fragments; an error of [dtp_write] is logged. *)
Fixpoint write_udfs (E : env) (us : list (du B)) : M unit :=
  match us with
  | [] => ret tt
  | x :: us => dtp_write E (du_buffer x) ;;; write_udfs E us
  end.

(** [max] is the [max_fragment_size] of the delimiting module, if there is one. *)
Definition efcp_write (E : env) (max : option Z) x o : M Z :=
  match max with
  | Some max =>
      match default_delim_fragment (Datatypes.S (Z.to_nat (du_len x))) max x [] o with
      | None => fun _ => None
      | Some (r, us, _) => if negb (r =? 0) then ret (-1) else write_udfs E us ;;; ret 0
      end
  | None => let! r := dtp_write E (du_buffer x) in if negb (r =? 0) then ret (-1) else ret 0
  end.

(** The user IPC process takes SDUs as long as [oks] says so: what it was given, and
    whether it took all. *)
Fixpoint post_sdus (l : list (du B)) (oks : list bool) : list (du B) * bool :=
  match l with
  | [] => ([], true)
  | x :: l =>
      let '(ok, oks) := match oks with [] => (true, []) | b :: oks => (b, oks) end in
      if ok then let '(out, r) := post_sdus l oks in (x :: out, r) else ([], false)
  end.

(** The state of the delimiting module at the receiver, and the list [rx_dus]. *)
Record rx := mk_rx { rx_priv : delim_def_priv B; rx_dus : list (du B) }.

(** Without a delimiting module ([r] is none) the PDU is handed over as it is. *)
Definition efcp_enqueue (r : option rx) (user : bool) x (oks : list bool) o : option (Z * option rx * list (du B) * oracle) :=
  if negb user then Some (-1, r, [], o)
  else match r with
  | Some r =>
      '(ret, p, l, o) ← default_delim_process_udf junk r.(rx_priv) x r.(rx_dus) o;
      if negb (ret =? 0) then Some (-1, Some (mk_rx p (du_list_clear l)), [], o)
      else
        let '(out, ok) := post_sdus l oks in
        if ok then Some (0, Some (mk_rx p []), out, o) else Some (-1, Some (mk_rx p l), out, o)
  | None => let '(out, ok) := post_sdus [x] oks in Some (if ok then 0 else -1, None, out, o)
  end.

(** The user data fields of a list arrive one after the other; the user takes everything. *)
Fixpoint enqueue_all (r : option rx) us o : option (option rx * list (du B) * oracle) :=
  match us with
  | [] => Some (r, [], o)
  | x :: us =>
      '(_, r, out, o) ← efcp_enqueue r true x [] o;
      '(r, out', o) ← enqueue_all r us o;
      Some (r, out ++ out', o)
  end.

(** ** Reassembly from any list *)

Lemma post_sdus_all l : post_sdus l [] = (l, true).
Proof. induction l as [|x l IH]; cbn; [done|]. by rewrite IH. Qed.

(** The SDUs that are waiting do not matter to reassembly. *)
Lemma process_last_frame p x l o :
  process_last_fragment p x l o = '(r, p, l', o) ← process_last_fragment p x [] o; Some (r, p, l ++ l', o).
Proof.
  unfold process_last_fragment, add_du_to_list_gfp. destruct (process_mid_fragment p x o) as [[[r p1] o1]|]; [|done].
  cbn [mbind option_bind]. destruct (negb (r =? 0)); [by cbn; rewrite app_nil_r|].
  destruct (du_create_int (total_length p1) o1) as [[[f|] o2]|]; [|by cbn; rewrite app_nil_r|done]. cbn [mbind option_bind].
  destruct (copy_pending _ 0 _) as [s|]; [|done]. cbn [mbind option_bind].
  destruct (rkmalloc o2) as [[] o3]; cbn; by rewrite ?app_nil_r.
Qed.

Lemma process_udf_frame p x l o :
  default_delim_process_udf junk p x l o =
  '(r, p, l', o) ← default_delim_process_udf junk p x [] o; Some (r, p, l ++ l', o).
Proof.
  unfold default_delim_process_udf, process_single_full_sdu, du_head_shrink, add_du_to_list_gfp.
  set (flags := default junk _).
  repeat match goal with |- context [negb (Z.land flags ?m =? 0)] => destruct (negb (Z.land flags m =? 0)) end;
    cbn [andb negb Z.eqb]; try (by cbn; rewrite app_nil_r).
  - destruct (rkmalloc o) as [[] o1]; cbn; by rewrite ?app_nil_r.
  - apply process_last_frame.
  - destruct (process_first_fragment p x o) as [[[r p1] o1]|]; cbn; by rewrite ?app_nil_r.
  - destruct (process_mid_fragment p x o) as [[[r p1] o1]|]; cbn; by rewrite ?app_nil_r.
Qed.

Lemma process_udfs_app p us vs l o :
  process_udfs junk p (us ++ vs) l o =
  '(r, p, l, o) ← process_udfs junk p us l o; if r =? 0 then process_udfs junk p vs l o else Some (r, p, l, o).
Proof.
  revert p l o. induction us as [|x us IH]; intros p l o; cbn; [done|].
  destruct (default_delim_process_udf junk p x l o) as [[[[r p1] l1] o1]|]; [|done]. cbn.
  destruct (r =? 0) eqn:Er; [apply IH|]. cbn. by rewrite Er.
Qed.

Lemma process_udfs_extends p us l o r p' l' o' :
  process_udfs junk p us l o = Some (r, p', l', o') -> l `prefix_of` l'.
Proof.
  revert p l o. induction us as [|x us IH]; intros p l o; cbn; [by intros; simplify_eq|].
  rewrite process_udf_frame. destruct (default_delim_process_udf junk p x [] o) as [[[[r1 p1] l1] o1]|]; [|done]. cbn.
  destruct (r1 =? 0).
  - intros Hp%IH. etrans; [|exact Hp]. by exists l1.
  - intros; simplify_eq. by exists l1.
Qed.

Lemma append_pending_granted p x r p' o' : append_pending_du p x [] = Some (r, p', o') -> o' = [].
Proof. unfold append_pending_du, add_pending_du. destruct (pending_dus p); cbn; intros; by simplify_eq. Qed.

Lemma process_mid_granted p x r p' o' : process_mid_fragment p x [] = Some (r, p', o') -> o' = [].
Proof.
  unfold process_mid_fragment. destruct (reassembly_in_process p); cbn [negb]; [apply append_pending_granted|].
  intros; by simplify_eq.
Qed.

Lemma process_last_granted p x l r p' l' o' : process_last_fragment p x l [] = Some (r, p', l', o') -> o' = [].
Proof.
  unfold process_last_fragment. destruct (process_mid_fragment p x []) as [[[r1 p1] o1]|] eqn:E; [|done].
  apply process_mid_granted in E as ->. cbn [mbind option_bind]. destruct (negb (r1 =? 0)); [intros; by simplify_eq|].
  unfold du_create_int. destruct (0 <=? _); [|done]. cbn. destruct (copy_pending _ 0 _); cbn; intros; by simplify_eq.
Qed.

Lemma process_udf_granted p x l r p' l' o' :
  default_delim_process_udf junk p x l [] = Some (r, p', l', o') -> o' = [].
Proof.
  unfold default_delim_process_udf. set (flags := default junk _).
  repeat match goal with |- context [negb (Z.land flags ?m =? 0)] => destruct (negb (Z.land flags m =? 0)) end;
    cbn [andb negb Z.eqb]; try (intros; by simplify_eq/=).
  - apply process_last_granted.
  - destruct (process_first_fragment p x []) as [[[r1 p1] o1]|] eqn:E; [|done].
    apply append_pending_granted in E as ->. cbn. intros; by simplify_eq.
  - destruct (process_mid_fragment p x []) as [[[r1 p1] o1]|] eqn:E; [|done].
    apply process_mid_granted in E as ->. cbn. intros; by simplify_eq.
Qed.

Lemma process_udfs_granted p us l r p' l' o' : process_udfs junk p us l [] = Some (r, p', l', o') -> o' = [].
Proof.
  revert p l. induction us as [|x us IH]; intros p l; cbn; [by intros; simplify_eq|].
  destruct (default_delim_process_udf junk p x l []) as [[[[r1 p1] l1] o1]|] eqn:E; [|done]. cbn.
  apply process_udf_granted in E as ->. destruct (r1 =? 0); [apply IH|by intros; simplify_eq].
Qed.

(** [efcp_enqueue] hands over what reassembly gives. *)
Lemma enqueue_all_process p us l o p' l' o' :
  process_udfs junk p us l o = Some (0, p', l', o') ->
  exists out, enqueue_all (Some (mk_rx p [])) us o = Some (Some (mk_rx p' []), out, o') /\ l' = l ++ out.
Proof.
  revert p l o. induction us as [|x us IH]; intros p l o; cbn.
  - intros; simplify_eq. exists []. by rewrite app_nil_r.
  - unfold efcp_enqueue. cbn [negb rx_priv rx_dus]. rewrite process_udf_frame.
    destruct (default_delim_process_udf junk p x [] o) as [[[[r1 p1] l1] o1]|]; [|done]. cbn.
    destruct (r1 =? 0) eqn:Er; [|intros; simplify_eq; by rewrite Z.eqb_refl in Er].
    intros (out & E & ->)%IH. cbn. rewrite post_sdus_all. cbn. rewrite E. cbn. exists (l1 ++ out).
    by rewrite app_assoc.
Qed.

(** ** Fragments of SDUs *)

(** The user data fields of an SDU of the bytes [bs]. *)
Definition udfs_of (max : Z) (bs : list Z) : list (list Z) :=
  if Z.of_nat (length bs) <=? max then [7 :: bs]
  else frag_spec (Datatypes.S (length bs)) (Z.to_nat max) true bs.

Definition sdu_ok x : Prop := du_len x < 2 ^ 31 /\ x.(pci_h) = None.

Lemma fragment_udfs max x :
  0 < max -> sdu_ok x ->
  exists us, default_delim_fragment (Datatypes.S (Z.to_nat (du_len x))) max x [] [] = Some (0, us, []) /\
    du_buffer <$> us = udfs_of max (du_buffer x).
Proof.
  intros Hmax [Hlen Hpci]. unfold default_delim_fragment, udfs_of. pose proof (du_len_nonneg x) as Hnn.
  rewrite swrap_small by (split; lia). rewrite uwrap_small by (split; lia). rewrite <- du_len_buffer.
  case (Z.leb_spec (du_len x) max); intros Hcase.
  - destruct (fragment_single_ok x Hpci) as (y & -> & Hy). exists [y]. cbn. by rewrite Hy.
  - destruct (fragment_loop_spec (Datatypes.S (Z.to_nat (du_len x))) max true 0 (du_buffer x) x []) as (ys & Hys & Hspec & _);
      [rewrite du_len_buffer; lia|lia|lia|done|left; rewrite du_len_buffer; lia|rewrite <- du_len_buffer; lia|].
    rewrite <- du_len_buffer in Hys. exists ys. split; [exact Hys|]. rewrite Hspec, du_len_buffer. do 2 f_equal. lia.
Qed.

Lemma single_udf p x y l :
  du_buffer y = 7 :: du_buffer x ->
  exists z, default_delim_process_udf junk p y l [] = Some (0, p, l ++ [z], []) /\ du_buffer z = du_buffer x.
Proof.
  intros Hy. unfold default_delim_process_udf. rewrite Hy. change (default junk _) with 7.
  change (Z.land 7 8) with 0. change (Z.land 7 4) with 4. change (Z.land 7 2) with 2. change (Z.land 7 1) with 1.
  cbn [negb Z.eqb andb]. unfold process_single_full_sdu, du_head_shrink, add_du_to_list_gfp. cbn [rkmalloc negb Z.eqb].
  eexists. split; [reflexivity|]. unfold du_buffer. cbn [du_skb]. destruct (skb_pull_spec y.(du_skb) 1) as [-> _].
  - enough (1 <= length (du_buffer y))%nat by done. rewrite Hy. cbn. lia.
  - change (drop 1 (du_buffer y) = du_buffer x). by rewrite Hy.
Qed.

Lemma reassemble_udfs max x p us l :
  0 < max -> sdu_ok x -> priv_wf p -> du_buffer <$> us = udfs_of max (du_buffer x) ->
  exists z p', process_udfs junk p us l [] = Some (0, p', l ++ [z], []) /\ du_buffer z = du_buffer x /\ priv_wf p'.
Proof.
  intros Hmax [Hlen _] Hp. unfold udfs_of. rewrite <- du_len_buffer. case (Z.leb_spec (du_len x) max); intros Hcase Hus.
  - destruct us as [|y [|]]; try done. rewrite fmap_cons in Hus. injection Hus as Hy.
    destruct (single_udf p x y l Hy) as (z & Hz & Hb). exists z, p. split; [|done]. cbn. by rewrite Hz.
  - destruct (reassemble_first junk max x p us l) as (z & Hz & Hb); try done.
    { rewrite Hus, du_len_buffer. do 2 f_equal. lia. }
    exists z, idle. split_and!; [done|done|apply idle_wf].
Qed.

(** ... and of a list of SDUs. *)
Lemma fragment_all max sdus :
  0 < max -> Forall sdu_ok sdus ->
  exists us, du_buffer <$> us = sdus ≫= (fun x => udfs_of max (du_buffer x)).
Proof.
  intros Hmax Hs. induction Hs as [|x sdus Hx Hs [us Hus]]; [by exists []|].
  destruct (fragment_udfs max x Hmax Hx) as (ys & _ & Hys). exists (ys ++ us). cbn. by rewrite fmap_app, Hys, Hus.
Qed.

Lemma reassemble_all max sdus p us l :
  0 < max -> Forall sdu_ok sdus -> priv_wf p -> du_buffer <$> us = sdus ≫= (fun x => udfs_of max (du_buffer x)) ->
  exists out p', process_udfs junk p us l [] = Some (0, p', l ++ out, []) /\ du_buffer <$> out = du_buffer <$> sdus.
Proof.
  intros Hmax Hs. revert p us l. induction Hs as [|x sdus Hx Hs IH]; intros p us l Hp Hus; cbn in Hus.
  - apply fmap_nil_inv in Hus as ->. exists [], p. by rewrite app_nil_r.
  - apply fmap_app_inv in Hus as (us1 & us2 & H1 & H2 & ->).
    destruct (reassemble_udfs max x p us1 l Hmax Hx Hp) as (z & p1 & E1 & Hz & Hp1); [done|].
    destruct (IH p1 us2 (l ++ [z]) Hp1) as (out & p' & E2 & Ho); [done|].
    exists (z :: out), p'. rewrite process_udfs_app, E1. cbn. rewrite E2, <- app_assoc. split; [done|]. cbn. by rewrite Hz, Ho.
Qed.

(** What comes out of a prefix of the fragments. *)
Lemma reassemble_prefix max sdus us :
  0 < max -> Forall sdu_ok sdus ->
  (du_buffer <$> us) `prefix_of` (sdus ≫= (fun x => udfs_of max (du_buffer x))) ->
  exists r out, enqueue_all (Some (mk_rx idle [])) us [] = Some (r, out, []) /\
    (du_buffer <$> out) `prefix_of` (du_buffer <$> sdus) /\
    (du_buffer <$> us = sdus ≫= (fun x => udfs_of max (du_buffer x)) -> du_buffer <$> out = du_buffer <$> sdus).
Proof.
  intros Hmax Hs [rest Hrest]. destruct (fragment_all max sdus Hmax Hs) as [ys Hys].
  rewrite Hrest in Hys. apply fmap_app_inv in Hys as (y1 & vs & Hy1 & Hvs & _).
  assert (priv_wf (B := B) idle) as Hp by by split.
  destruct (reassemble_all max sdus idle (us ++ vs) [] Hmax Hs Hp) as (out & p' & E & Ho).
  { by rewrite fmap_app, <- Hvs. }
  rewrite process_udfs_app in E. destruct (process_udfs junk _ us [] []) as [[[[r1 p1] l1] o1]|] eqn:E1; [|done]. cbn in E.
  destruct (Z.eqb_spec r1 0) as [->|Hr]; [|by simplify_eq].
  pose proof (process_udfs_extends _ _ _ _ _ _ _ _ E) as Hpre. pose proof (process_udfs_granted _ _ _ _ _ _ _ E1) as ->.
  destruct (enqueue_all_process _ _ _ _ _ _ _ E1) as (out1 & Ee & ->). cbn [app] in *.
  exists (Some (mk_rx p1 [])), out1. split; [done|]. split; [rewrite <- Ho; destruct Hpre as [k ->]; rewrite fmap_app; by eexists|].
  intros Hall. rewrite <- Hall in Hrest. apply (f_equal length) in Hrest. rewrite length_app in Hrest.
  destruct rest; [|cbn in Hrest; lia]. symmetry in Hvs; apply fmap_nil_inv in Hvs as ->. cbn in E. by simplify_eq.
Qed.

(** ** Over the connection *)

(** The two ends, the SDUs the user of the first one has passed to [efcp_write], and the user
    data fields of the last one that are still to be written. *)
Record conn := mk_conn {
  cn_x : endpoint;
  cn_y : endpoint;
  cn_sdus : list (du B);
  cn_todo : list (du B)
}.

(** The user of the first end writes one SDU after the other, each by a call of [efcp_write]: as a
    whole, or taken apart where the code lets others run, in its cutting and its writes of
    user data fields.  Between calls, and between these parts, anything else may happen at both ends. *)
Inductive sdu_step (max : Z) : conn -> conn -> Prop :=
| sdu_write E d us o s s' w (y : endpoint) sdus :
    env_ok E -> efcp_write E (Some max) d [] s = Some (0, s') ->
    default_delim_fragment (Datatypes.S (Z.to_nat (du_len d))) max d [] [] = Some (0, us, o) ->
    sdu_step max (mk_conn (mk_endpoint s w) y sdus [])
      (mk_conn (mk_endpoint s' (w ++ (du_buffer <$> us))) y (sdus ++ [d]) [])
| sdu_cut d us o (x y : endpoint) sdus :
    default_delim_fragment (Datatypes.S (Z.to_nat (du_len d))) max d [] [] = Some (0, us, o) ->
    sdu_step max (mk_conn x y sdus []) (mk_conn x y (sdus ++ [d]) us)
| sdu_next E u us s s' w (y : endpoint) sdus r :
    env_ok E -> dtp_write E (du_buffer u) s = Some (r, s') ->
    sdu_step max (mk_conn (mk_endpoint s w) y sdus (u :: us))
      (mk_conn (mk_endpoint s' (w ++ [du_buffer u])) y sdus us)
| sdu_other (x y x' y' : endpoint) sdus todo :
    net_step active (x, y) (x', y') -> x'.(ep_written) = x.(ep_written) ->
    sdu_step max (mk_conn x y sdus todo) (mk_conn x' y' sdus todo).

(** The writes of a list of user data fields are steps of the connection. *)
Lemma write_udfs_steps E us s s' w peer :
  env_ok E -> write_udfs E us s = Some (tt, s') ->
  rtc (net_step active) (mk_endpoint s w, peer) (mk_endpoint s' (w ++ (du_buffer <$> us)), peer).
Proof.
  intros HE. revert s w. induction us as [|y us IH]; intros s w Hw.
  - injection Hw as ->. by rewrite app_nil_r.
  - cbn in Hw. unfold bind in Hw. destruct (dtp_write E (du_buffer y) s) as [[r s1]|] eqn:E1; [|done].
    eapply rtc_l; [|rewrite fmap_cons; apply (IH s1 (w ++ [du_buffer y])) in Hw; rewrite <- app_assoc in Hw; exact Hw].
    apply net_left. exists E, (AWrite (du_buffer y)). split_and!; try done. cbn. unfold bind. by rewrite E1.
Qed.

(** [efcp_write] is its cutting and these writes. *)
Lemma efcp_write_steps E max d us o s s' w peer :
  env_ok E -> efcp_write E (Some max) d [] s = Some (0, s') ->
  default_delim_fragment (Datatypes.S (Z.to_nat (du_len d))) max d [] [] = Some (0, us, o) ->
  rtc (net_step active) (mk_endpoint s w, peer) (mk_endpoint s' (w ++ (du_buffer <$> us)), peer).
Proof.
  intros HE Hrun Hus. unfold efcp_write in Hrun. rewrite Hus in Hrun. cbn [negb Z.eqb] in Hrun. unfold bind in Hrun.
  destruct (write_udfs E us s) as [[[] s1]|] eqn:Hw; [|done]. injection Hrun as <-. by eapply write_udfs_steps.
Qed.

(** A run of the user is a run of the connection in which the user data fields of the SDUs are
    written, up to those that are still to be written. *)
Lemma sdu_run_writes max (x0 y0 : endpoint) (c : conn) :
  0 < max -> rtc (sdu_step max) (mk_conn x0 y0 [] []) c -> Forall sdu_ok c.(cn_sdus) -> x0.(ep_written) = [] ->
  rtc (net_step active) (x0, y0) (c.(cn_x), c.(cn_y)) /\
  c.(cn_x).(ep_written) ++ (du_buffer <$> c.(cn_todo)) = c.(cn_sdus) ≫= (fun d => udfs_of max (du_buffer d)).
Proof.
  intros Hmax Hrun Hok Hnil.
  assert (forall d us o, sdu_ok d -> default_delim_fragment (Datatypes.S (Z.to_nat (du_len d))) max d [] [] = Some (0, us, o) ->
    du_buffer <$> us = udfs_of max (du_buffer d)) as Hcut.
  { intros d us o Hd Hus. destruct (fragment_udfs max d Hmax Hd) as (us' & Hus' & Hb). by simplify_eq. }
  revert Hok. pattern c. revert c Hrun. apply rtc_ind_r.
  { intros _. cbn. rewrite Hnil. split; [constructor|done]. }
  intros c c' _ Hstep IH Hok.
  destruct Hstep as [E d us o s s' w y sdus HE Hw Hus|d us o x y sdus Hus|E u us s s' w y sdus r HE Hw
    |x y x' y' sdus todo Hn Hwr]; cbn [cn_x cn_y cn_sdus cn_todo ep_written ep_st] in *.
  - apply Forall_app in Hok as [Hok [Hd _]%Forall_cons_1]. destruct (IH Hok) as [Hr Hi]. split.
    + etrans; [exact Hr|]. by eapply efcp_write_steps.
    + rewrite bind_app, <- Hi. cbn. rewrite !app_nil_r. by rewrite (Hcut _ _ _ Hd Hus).
  - apply Forall_app in Hok as [Hok [Hd _]%Forall_cons_1]. destruct (IH Hok) as [Hr Hi]. split; [done|].
    rewrite bind_app, <- Hi. cbn. rewrite !app_nil_r. by rewrite (Hcut _ _ _ Hd Hus).
  - destruct (IH Hok) as [Hr Hi]. split.
    + eapply rtc_r; [exact Hr|]. apply net_left. exists E, (AWrite (du_buffer u)). split_and!; try done.
      cbn. unfold bind. by rewrite Hw.
    + by rewrite <- app_assoc, <- Hi.
  - destruct (IH Hok) as [Hr Hi]. split; [by eapply rtc_r|]. by rewrite Hwr.
Qed.

(** C2: SDUs end to end.  The user of one end of a connection as in [efcp_reliable_transfer] passes SDUs to [efcp_write],
    which cuts them with [default_delim_fragment] and writes the user data fields to the connection; one
    call at a time, but anything else may happen between two writes of a call.  The SDUs are shorter
    than 2^31 bytes and carry no PCI yet, the fragment size is positive.  The
    network loses, duplicates and reorders PDUs, both ends run in any order, and neither
    inactivity timer expires.  What the other end is given, put through [efcp_enqueue] and its
    reassembly, is a prefix of the SDUs that were passed, byte for byte; it is all of them when no
    write is under way and everything that was written has been handed over. *)
Theorem efcp_sdu_transfer (sx sy max : Z) (x0 y0 : endpoint) (c : conn) (us : list (du B)) :
  linked sx sy x0 y0 -> x0.(ep_written) = [] -> rtc (sdu_step max) (mk_conn x0 y0 [] []) c ->
  sx + Z.of_nat (length c.(cn_x).(ep_written)) < 2 ^ 32 -> sy + Z.of_nat (length c.(cn_y).(ep_written)) < 2 ^ 32 ->
  0 < max -> Forall sdu_ok c.(cn_sdus) ->
  du_buffer <$> us = ep_delivered c.(cn_y) ->
  exists r out, enqueue_all (Some (mk_rx idle [])) us [] = Some (r, out, []) /\
    (du_buffer <$> out) `prefix_of` (du_buffer <$> c.(cn_sdus)) /\
    (c.(cn_todo) = [] -> ep_delivered c.(cn_y) = c.(cn_x).(ep_written) -> du_buffer <$> out = du_buffer <$> c.(cn_sdus)).
Proof.
  intros Hl Hnil Hr Hx Hy Hmax Hs Hus. destruct (sdu_run_writes max x0 y0 c Hmax Hr Hs Hnil) as [Hnet Hw].
  pose proof (linked_reachable sx sy _ _ Hnet Hl Hx Hy) as Hxy.
  apply linked_delivered in Hxy. cbn [fst snd] in Hxy. rewrite <- Hus in *.
  destruct (reassemble_prefix max c.(cn_sdus) us Hmax Hs) as (r & out & He & Hpre & Hall).
  { rewrite <- Hw. etrans; [exact Hxy|]. by eexists. }
  exists r, out. split_and!; [done|done|]. intros Ht Hd. apply Hall. by rewrite Hd, <- Hw, Ht, app_nil_r.
Qed.
End Sdu.
