(* ===== verification/SduExamples.v ===== *)
(** * SDUs over a concrete connection

    The end-to-end theorem at the connection of [EfcpExamples.v]: an SDU of three bytes is cut in two,
    the fragments arrive in the wrong order, and the second one once more. *)

From S2P Require Import Prelude Kucommon Pci Skb Du Delim Rds Queues EfcpState DtpUtils Dtcp Dtp Transfer Efcp EfcpExamples EfcpSdu.
From Stdlib Require Import ZArith Lia.
From stdpp Require Import base list numbers option relations.
#[local] Open Scope Z_scope.

Definition ex_y3 : endpoint := mk_endpoint (run_or (handler ex_env (ARecv (ex_sent 1))) ex_y2.(ep_st)) [].

Definition ex_bytes (bs : list Z) : du lskb := mk_du None None 0 (mk_lskb (repeat 0 40) bs []).
Definition ex_sdu : du lskb := ex_bytes [9; 8; 7].
Definition ex_udfs : list (du lskb) := [ex_bytes [5; 9; 8]; ex_bytes [6; 7]].

(** What the code cuts the SDU into. *)
Definition ex_cut : list (du lskb) :=
  match default_delim_fragment 4 2 ex_sdu [] [] with Some (_, us, _) => us | None => [] end.

Lemma ex_cut_data : exists u1 u2, ex_cut = [u1; u2] /\ du_buffer u1 = [5; 9; 8] /\ du_buffer u2 = [6; 7].
Proof. eexists _, _. split; [vm_compute; reflexivity|]. by split. Qed.

Lemma ex_next u us data x x' y :
  du_buffer u = data -> match dtp_write ex_env data x.(ep_st) with Some _ => true | None => false end = true ->
  x' = mk_endpoint (run_or (handler ex_env (AWrite data)) x.(ep_st)) (x.(ep_written) ++ [data]) ->
  sdu_step (B := lskb) 2 (mk_conn x y [ex_sdu] (u :: us)) (mk_conn x' y [ex_sdu] us).
Proof.
  intros <- Hr ->. destruct x as [s w]. cbn [ep_st ep_written handler] in *. unfold run_or, bind.
  destruct (dtp_write ex_env (du_buffer u) s) as [[r s']|] eqn:Hd; [|done].
  exact (sdu_next 2 ex_env u us s s' w y [ex_sdu] r ex_env_ok Hd).
Qed.

Lemma ex_arrives n y y' :
  (n <? length (transmitted ex_x2.(ep_st).(st_log)))%nat = true -> y'.(ep_written) = y.(ep_written) ->
  handler ex_env (ARecv (ex_sent n)) y.(ep_st) = Some (tt, y'.(ep_st)) ->
  sdu_step (B := lskb) 2 (mk_conn ex_x2 y [ex_sdu] []) (mk_conn ex_x2 y' [ex_sdu] []).
Proof.
  intros Hn Hw Hrun. apply sdu_other; [|done]. apply net_right. exists ex_env, (ARecv (ex_sent n)).
  split; [exact ex_env_ok|]. split; [done|]. split; [by apply ex_sent_in|]. split; [exact Hrun|]. by rewrite app_nil_r.
Qed.

Lemma ex_sdu_reach : rtc (sdu_step (B := lskb) 2) (mk_conn ex_x0 ex_y0 [] []) (mk_conn ex_x2 ex_y3 [ex_sdu] []).
Proof.
  destruct ex_cut_data as (u1 & u2 & Hc & H1 & H2).
  apply (rtc_l _ _ (mk_conn ex_x0 ex_y0 [ex_sdu] [u1; u2])).
  { rewrite <- Hc. apply (sdu_cut _ ex_sdu ex_cut []). vm_compute. reflexivity. }
  apply (rtc_l _ _ (mk_conn ex_x1 ex_y0 [ex_sdu] [u2])).
  { apply (ex_next u1 [u2] [5; 9; 8]); [exact H1|by vm_compute|reflexivity]. }
  apply (rtc_l _ _ (mk_conn ex_x2 ex_y0 [ex_sdu] [])).
  { apply (ex_next u2 [] [6; 7]); [exact H2|by vm_compute|reflexivity]. }
  apply (rtc_l _ _ (mk_conn ex_x2 ex_y1 [ex_sdu] []));
    [apply (ex_arrives 1); [by vm_compute|reflexivity|apply run_or_ok; by vm_compute]|].
  apply (rtc_l _ _ (mk_conn ex_x2 ex_y2 [ex_sdu] []));
    [apply (ex_arrives 0); [by vm_compute|reflexivity|apply run_or_ok; by vm_compute]|].
  apply rtc_once, (ex_arrives 1); [by vm_compute|reflexivity|apply run_or_ok; by vm_compute].
Qed.

Lemma ex_delivered_y3 : ep_delivered ex_y3 = [[5; 9; 8]; [6; 7]].
Proof. by vm_compute. Qed.

Lemma efcp_sdu_transfer_witness :
  exists r out, enqueue_all 0 (Some (mk_rx idle [])) ex_udfs [] = Some (r, out, []) /\
    du_buffer <$> out = [[9; 8; 7]].
Proof.
  destruct (efcp_sdu_transfer 0 7 50 2 ex_x0 ex_y0 (mk_conn ex_x2 ex_y3 [ex_sdu] []) ex_udfs ex_linked eq_refl ex_sdu_reach)
    as (r & out & E & _ & Hall).
  - by vm_compute.
  - by vm_compute.
  - lia.
  - constructor; [|constructor]. split; [by vm_compute|reflexivity].
  - cbn [cn_y]. rewrite ex_delivered_y3. reflexivity.
  - exists r, out. split; [exact E|]. rewrite Hall; [vm_compute; reflexivity|reflexivity|].
    cbn [cn_y cn_x]. rewrite ex_delivered_y3. vm_compute. reflexivity.
Defined.
