(* ===== verification/Config.v ===== *)
(** * The structures of the control messages

    The structures of [src/include/irati/kucommon.h] that the kernel and the daemons
    exchange, with the fields in the order of the source.  A pointer to a structure is
    an [option]; an intrusive list is the list of its elements; a list of entries that
    point to a structure is a list of options.  [put_f v x] is the assignment of [v] to the field [f] of [x].

    [X_create] is the structure of the function of that name of
    [src/common/serdes-utils.c]: every byte zero, every list empty.  Whether the memory
    for it could be allocated is decided where it is called. *)

From S2P Require Import Prelude Kucommon.
From Stdlib Require Import ZArith.
From stdpp Require Import base list numbers option.
#[local] Open Scope Z_scope.

(** ** Structures *)

Record name := mk_name {
  process_name : string_ptr;
  process_instance : string_ptr;
  entity_name : string_ptr;
  entity_instance : string_ptr
}.

Record flow_spec := mk_flow_spec {
  fs_average_bandwidth : Z;
  fs_average_sdu_bandwidth : Z;
  fs_delay : Z;
  fs_jitter : Z;
  fs_loss : Z;
  fs_max_allowable_gap : Z;
  fs_max_sdu_size : Z;
  fs_ordered_delivery : bool;
  fs_partial_delivery : bool;
  fs_peak_bandwidth_duration : Z;
  fs_peak_sdu_bandwidth_duration : Z;
  fs_undetected_bit_error_rate : Z;
  fs_msg_boundaries : bool
}.

Record buffer := mk_buffer {
  buf_data : list Z;
  buf_size : Z
}.

Record qos_cube := mk_qos_cube {
  qc_name : string_ptr;
  qc_id : Z;
  qc_avg_bw : Z;
  qc_avg_sdu_bw : Z;
  qc_peak_bw_duration : Z;
  qc_peak_sdu_bw_duration : Z;
  qc_partial_delivery : bool;
  qc_ordered_delivery : bool;
  qc_max_allowed_gap : Z;
  qc_delay : Z;
  qc_jitter : Z;
  qc_loss : Z;
  qc_dtpc : option dtp_config;
  qc_dtcpc : option dtcp_config
}.

Record efcp_config := mk_efcp_config {
  efc_dt_cons : option dt_cons;
  efc_pci_offset_table : option (list Z);
  efc_unknown_flow : option policy;
  efc_qos_cubes : list (option qos_cube)
}.

Record fa_config := mk_fa_config {
  fac_ps : option policy;
  fac_allocate_notify : option policy;
  fac_allocate_retry : option policy;
  fac_new_flow_req : option policy;
  fac_seq_roll_over : option policy;
  fac_max_create_flow_retries : Z
}.

Record resall_config := mk_resall_config {
  resc_pff_gen : option policy
}.

Record et_config := mk_et_config {
  etc_ps : option policy
}.

Record static_ipcp_addr := mk_static_ipcp_addr {
  sia_ap_name : string_ptr;
  sia_ap_instance : string_ptr;
  sia_address : Z
}.

Record address_pref_config := mk_address_pref_config {
  apc_org : string_ptr;
  apc_prefix : Z
}.

Record addressing_config := mk_addressing_config {
  ac_static_ipcp_addrs : list (option static_ipcp_addr);
  ac_address_prefixes : list (option address_pref_config)
}.

Record nsm_config := mk_nsm_config {
  nsmc_ps : option policy;
  nsmc_addr_conf : option addressing_config
}.

Record auth_sdup_profile := mk_auth_sdup_profile {
  asp_auth : option policy;
  asp_encrypt : option policy;
  asp_crc : option policy;
  asp_ttl : option policy
}.

Record auth_sdup_profile_entry := mk_auth_sdup_profile_entry {
  aspe_n1_dif_name : string_ptr;
  aspe_entry : option auth_sdup_profile
}.

Record secman_config := mk_secman_config {
  sc_ps : option policy;
  sc_default_profile : option auth_sdup_profile;
  sc_specific_profiles : list auth_sdup_profile_entry
}.

Record routing_config := mk_routing_config {
  rc_ps : option policy
}.

Record pff_config := mk_pff_config {
  pffc_policy_set : option policy
}.

Record rmt_config := mk_rmt_config {
  rmtc_policy_set : option policy;
  rmtc_pff_conf : option pff_config
}.

Record ipcp_config_entry := mk_ipcp_config_entry {
  ice_name : string_ptr;
  ice_value : string_ptr
}.

Record dif_config := mk_dif_config {
  dif_ipcp_config_entries : list (option ipcp_config_entry);
  dif_efcp_config : option efcp_config;
  dif_rmt_config : option rmt_config;
  dif_address : Z;
  dif_fa_config : option fa_config;
  dif_et_config : option et_config;
  dif_nsm_config : option nsm_config;
  dif_routing_config : option routing_config;
  dif_resall_config : option resall_config;
  dif_secman_config : option secman_config
}.

Record ipcp_neighbor := mk_ipcp_neighbor {
  nei_ipcp_name : option name;
  nei_sup_dif_name : option name;
  nei_supporting_difs : list (option name);
  nei_address : Z;
  nei_old_address : Z;
  nei_enrolled : bool;
  nei_average_rtt_in_ms : Z;
  nei_under_port_id : Z;
  nei_intern_port_id : Z;
  nei_last_heard_time_ms : Z;
  nei_num_enroll_attempts : Z
}.

Record ipcp_neigh_list := mk_ipcp_neigh_list {
  inl_ipcp_neighbors : list (option ipcp_neighbor)
}.

Record rib_object_data := mk_rib_object_data {
  rod_clazz : string_ptr;
  rod_name : string_ptr;
  rod_disp_value : string_ptr;
  rod_instance : Z
}.

Record query_rib_resp := mk_query_rib_resp {
  qrr_rib_object_data_entries : list rib_object_data
}.

Record dif_properties_entry := mk_dif_properties_entry {
  dpe_dif_name : option name;
  dpe_max_sdu_size : Z
}.

Record get_dif_prop_resp := mk_get_dif_prop_resp {
  gdp_dif_propery_entries : list dif_properties_entry
}.

Record sdup_crypto_state := mk_sdup_crypto_state {
  scs_enable_crypto_tx : bool;
  scs_enable_crypto_rx : bool;
  scs_mac_alg : string_ptr;
  scs_mac_key_tx : option buffer;
  scs_mac_key_rx : option buffer;
  scs_enc_alg : string_ptr;
  scs_encrypt_key_tx : option buffer;
  scs_encrypt_key_rx : option buffer;
  scs_iv_tx : option buffer;
  scs_iv_rx : option buffer;
  scs_compress_alg : string_ptr;
  scs_port_id : Z
}.

Record port_id_altlist := mk_port_id_altlist {
  pia_ports : list Z;
  pia_num_ports : Z
}.

Record mod_pff_entry := mk_mod_pff_entry {
  mpe_fwd_info : Z;
  mpe_qos_id : Z;
  mpe_cost : Z;
  mpe_port_id_altlists : list port_id_altlist
}.

Record pff_entry_list := mk_pff_entry_list {
  pel_pff_entries : list mod_pff_entry
}.

Record bs_info_entry := mk_bs_info_entry {
  bie_signal_strength : Z;
  bie_ipcp_addr : string_ptr
}.

Record media_dif_info := mk_media_dif_info {
  mdi_dif_name : string_ptr;
  mdi_sec_policies : string_ptr;
  mdi_available_bs_ipcps : list bs_info_entry
}.

Record media_info_entry := mk_media_info_entry {
  mie_entry : option media_dif_info;
  mie_dif_name : string_ptr
}.

Record media_report := mk_media_report {
  mre_ipcp_id : Z;
  mre_dif_name : string_ptr;
  mre_bs_ipcp_addr : string_ptr;
  mre_available_difs : list media_info_entry
}.

(** ** Freshly created structures *)

Definition rina_name_create : name := mk_name None None None None.
Definition rina_fspec_create : flow_spec := mk_flow_spec 0 0 0 0 0 0 0 false false 0 0 0 false.
Definition policy_parm_create : policy_parm := mk_policy_parm None None.
Definition policy_create : policy := mk_policy None None [].
Definition dtp_config_create : dtp_config := mk_dtp_config false 0 0 false false false 0 None.
Definition window_fctrl_config_create : window_fctrl_config := mk_window_fctrl_config 0 0 None None.
Definition rate_fctrl_config_create : rate_fctrl_config := mk_rate_fctrl_config 0 0 None None None.
Definition dtcp_fctrl_config_create : dtcp_fctrl_config := mk_dtcp_fctrl_config false None false None 0 0 0 0 0 0 None None None None.
Definition dtcp_rxctrl_config_create : dtcp_rxctrl_config := mk_dtcp_rxctrl_config 0 0 0 None None None None None None.
Definition dtcp_config_create : dtcp_config := mk_dtcp_config false None false None None None None.
Definition dt_cons_create : dt_cons := mk_dt_cons 0 0 0 0 0 0 0 0 0 0 0 0 false 0 false false 0 0.
Definition qos_cube_create : qos_cube := mk_qos_cube None 0 0 0 0 0 false false 0 0 0 0 None None.
Definition efcp_config_create : efcp_config := mk_efcp_config None None None [].
Definition fa_config_create : fa_config := mk_fa_config None None None None None 0.
Definition resall_config_create : resall_config := mk_resall_config None.
Definition et_config_create : et_config := mk_et_config None.
Definition static_ipcp_addr_create : static_ipcp_addr := mk_static_ipcp_addr None None 0.
Definition address_pref_config_create : address_pref_config := mk_address_pref_config None 0.
Definition addressing_config_create : addressing_config := mk_addressing_config [] [].
Definition nsm_config_create : nsm_config := mk_nsm_config None None.
Definition auth_sdup_profile_create : auth_sdup_profile := mk_auth_sdup_profile None None None None.
Definition secman_config_create : secman_config := mk_secman_config None None [].
Definition routing_config_create : routing_config := mk_routing_config None.
Definition pff_config_create : pff_config := mk_pff_config None.
Definition rmt_config_create : rmt_config := mk_rmt_config None None.
Definition ipcp_config_entry_create : ipcp_config_entry := mk_ipcp_config_entry None None.
Definition dif_config_create : dif_config := mk_dif_config [] None None 0 None None None None None None.
Definition ipcp_neighbor_create : ipcp_neighbor := mk_ipcp_neighbor None None [] 0 0 false 0 0 0 0 0.
Definition ipcp_neigh_list_create : ipcp_neigh_list := mk_ipcp_neigh_list [].
Definition rib_object_data_create : rib_object_data := mk_rib_object_data None None None 0.
Definition query_rib_resp_create : query_rib_resp := mk_query_rib_resp [].
Definition dif_properties_entry_create : dif_properties_entry := mk_dif_properties_entry None 0.
Definition get_dif_prop_resp_create : get_dif_prop_resp := mk_get_dif_prop_resp [].
Definition sdup_crypto_state_create : sdup_crypto_state := mk_sdup_crypto_state false false None None None None None None None None None 0.
Definition port_id_altlist_create : port_id_altlist := mk_port_id_altlist [] 0.
Definition mod_pff_entry_create : mod_pff_entry := mk_mod_pff_entry 0 0 0 [].
Definition pff_entry_list_create : pff_entry_list := mk_pff_entry_list [].
Definition bs_info_entry_create : bs_info_entry := mk_bs_info_entry 0 None.
Definition media_dif_info_create : media_dif_info := mk_media_dif_info None None [].
Definition media_report_create : media_report := mk_media_report 0 None None [].

(** ** Assignments to fields *)

Definition put_process_name (v : string_ptr) (x : name) : name := mk_name v x.(process_instance)
  x.(entity_name) x.(entity_instance).
Definition put_process_instance (v : string_ptr) (x : name) : name := mk_name x.(process_name) v
  x.(entity_name) x.(entity_instance).
Definition put_entity_name (v : string_ptr) (x : name) : name := mk_name x.(process_name)
  x.(process_instance) v x.(entity_instance).
Definition put_entity_instance (v : string_ptr) (x : name) : name := mk_name x.(process_name)
  x.(process_instance) x.(entity_name) v.

Definition put_fs_average_bandwidth (v : Z) (x : flow_spec) : flow_spec := mk_flow_spec v
  x.(fs_average_sdu_bandwidth) x.(fs_delay) x.(fs_jitter) x.(fs_loss) x.(fs_max_allowable_gap)
  x.(fs_max_sdu_size) x.(fs_ordered_delivery) x.(fs_partial_delivery)
  x.(fs_peak_bandwidth_duration) x.(fs_peak_sdu_bandwidth_duration)
  x.(fs_undetected_bit_error_rate) x.(fs_msg_boundaries).
Definition put_fs_average_sdu_bandwidth (v : Z) (x : flow_spec) : flow_spec := mk_flow_spec
  x.(fs_average_bandwidth) v x.(fs_delay) x.(fs_jitter) x.(fs_loss) x.(fs_max_allowable_gap)
  x.(fs_max_sdu_size) x.(fs_ordered_delivery) x.(fs_partial_delivery)
  x.(fs_peak_bandwidth_duration) x.(fs_peak_sdu_bandwidth_duration)
  x.(fs_undetected_bit_error_rate) x.(fs_msg_boundaries).
Definition put_fs_delay (v : Z) (x : flow_spec) : flow_spec := mk_flow_spec
  x.(fs_average_bandwidth) x.(fs_average_sdu_bandwidth) v x.(fs_jitter) x.(fs_loss)
  x.(fs_max_allowable_gap) x.(fs_max_sdu_size) x.(fs_ordered_delivery) x.(fs_partial_delivery)
  x.(fs_peak_bandwidth_duration) x.(fs_peak_sdu_bandwidth_duration)
  x.(fs_undetected_bit_error_rate) x.(fs_msg_boundaries).
Definition put_fs_jitter (v : Z) (x : flow_spec) : flow_spec := mk_flow_spec
  x.(fs_average_bandwidth) x.(fs_average_sdu_bandwidth) x.(fs_delay) v x.(fs_loss)
  x.(fs_max_allowable_gap) x.(fs_max_sdu_size) x.(fs_ordered_delivery) x.(fs_partial_delivery)
  x.(fs_peak_bandwidth_duration) x.(fs_peak_sdu_bandwidth_duration)
  x.(fs_undetected_bit_error_rate) x.(fs_msg_boundaries).
Definition put_fs_loss (v : Z) (x : flow_spec) : flow_spec := mk_flow_spec
  x.(fs_average_bandwidth) x.(fs_average_sdu_bandwidth) x.(fs_delay) x.(fs_jitter) v
  x.(fs_max_allowable_gap) x.(fs_max_sdu_size) x.(fs_ordered_delivery) x.(fs_partial_delivery)
  x.(fs_peak_bandwidth_duration) x.(fs_peak_sdu_bandwidth_duration)
  x.(fs_undetected_bit_error_rate) x.(fs_msg_boundaries).
Definition put_fs_max_allowable_gap (v : Z) (x : flow_spec) : flow_spec := mk_flow_spec
  x.(fs_average_bandwidth) x.(fs_average_sdu_bandwidth) x.(fs_delay) x.(fs_jitter) x.(fs_loss) v
  x.(fs_max_sdu_size) x.(fs_ordered_delivery) x.(fs_partial_delivery)
  x.(fs_peak_bandwidth_duration) x.(fs_peak_sdu_bandwidth_duration)
  x.(fs_undetected_bit_error_rate) x.(fs_msg_boundaries).
Definition put_fs_max_sdu_size (v : Z) (x : flow_spec) : flow_spec := mk_flow_spec
  x.(fs_average_bandwidth) x.(fs_average_sdu_bandwidth) x.(fs_delay) x.(fs_jitter) x.(fs_loss)
  x.(fs_max_allowable_gap) v x.(fs_ordered_delivery) x.(fs_partial_delivery)
  x.(fs_peak_bandwidth_duration) x.(fs_peak_sdu_bandwidth_duration)
  x.(fs_undetected_bit_error_rate) x.(fs_msg_boundaries).
Definition put_fs_ordered_delivery (v : bool) (x : flow_spec) : flow_spec := mk_flow_spec
  x.(fs_average_bandwidth) x.(fs_average_sdu_bandwidth) x.(fs_delay) x.(fs_jitter) x.(fs_loss)
  x.(fs_max_allowable_gap) x.(fs_max_sdu_size) v x.(fs_partial_delivery)
  x.(fs_peak_bandwidth_duration) x.(fs_peak_sdu_bandwidth_duration)
  x.(fs_undetected_bit_error_rate) x.(fs_msg_boundaries).
Definition put_fs_partial_delivery (v : bool) (x : flow_spec) : flow_spec := mk_flow_spec
  x.(fs_average_bandwidth) x.(fs_average_sdu_bandwidth) x.(fs_delay) x.(fs_jitter) x.(fs_loss)
  x.(fs_max_allowable_gap) x.(fs_max_sdu_size) x.(fs_ordered_delivery) v
  x.(fs_peak_bandwidth_duration) x.(fs_peak_sdu_bandwidth_duration)
  x.(fs_undetected_bit_error_rate) x.(fs_msg_boundaries).
Definition put_fs_peak_bandwidth_duration (v : Z) (x : flow_spec) : flow_spec := mk_flow_spec
  x.(fs_average_bandwidth) x.(fs_average_sdu_bandwidth) x.(fs_delay) x.(fs_jitter) x.(fs_loss)
  x.(fs_max_allowable_gap) x.(fs_max_sdu_size) x.(fs_ordered_delivery) x.(fs_partial_delivery) v
  x.(fs_peak_sdu_bandwidth_duration) x.(fs_undetected_bit_error_rate) x.(fs_msg_boundaries).
Definition put_fs_peak_sdu_bandwidth_duration (v : Z) (x : flow_spec) : flow_spec := mk_flow_spec
  x.(fs_average_bandwidth) x.(fs_average_sdu_bandwidth) x.(fs_delay) x.(fs_jitter) x.(fs_loss)
  x.(fs_max_allowable_gap) x.(fs_max_sdu_size) x.(fs_ordered_delivery) x.(fs_partial_delivery)
  x.(fs_peak_bandwidth_duration) v x.(fs_undetected_bit_error_rate) x.(fs_msg_boundaries).
Definition put_fs_undetected_bit_error_rate (v : Z) (x : flow_spec) : flow_spec := mk_flow_spec
  x.(fs_average_bandwidth) x.(fs_average_sdu_bandwidth) x.(fs_delay) x.(fs_jitter) x.(fs_loss)
  x.(fs_max_allowable_gap) x.(fs_max_sdu_size) x.(fs_ordered_delivery) x.(fs_partial_delivery)
  x.(fs_peak_bandwidth_duration) x.(fs_peak_sdu_bandwidth_duration) v x.(fs_msg_boundaries).
Definition put_fs_msg_boundaries (v : bool) (x : flow_spec) : flow_spec := mk_flow_spec
  x.(fs_average_bandwidth) x.(fs_average_sdu_bandwidth) x.(fs_delay) x.(fs_jitter) x.(fs_loss)
  x.(fs_max_allowable_gap) x.(fs_max_sdu_size) x.(fs_ordered_delivery) x.(fs_partial_delivery)
  x.(fs_peak_bandwidth_duration) x.(fs_peak_sdu_bandwidth_duration)
  x.(fs_undetected_bit_error_rate) v.

Definition put_parm_name (v : string_ptr) (x : policy_parm) : policy_parm := mk_policy_parm v
  x.(parm_value).
Definition put_parm_value (v : string_ptr) (x : policy_parm) : policy_parm := mk_policy_parm
  x.(parm_name) v.

Definition put_policy_name (v : string_ptr) (x : policy) : policy := mk_policy v
  x.(policy_version) x.(policy_params).
Definition put_policy_version (v : string_ptr) (x : policy) : policy := mk_policy x.(policy_name)
  v x.(policy_params).
Definition put_policy_params (v : list policy_parm) (x : policy) : policy := mk_policy
  x.(policy_name) x.(policy_version) v.

Definition put_dtcp_present (v : bool) (x : dtp_config) : dtp_config := mk_dtp_config v
  x.(seq_num_ro_th) x.(initial_a_timer) x.(dtpc_partial_delivery) x.(dtpc_incomplete_delivery)
  x.(dtpc_in_order_delivery) x.(dtpc_max_sdu_gap) x.(dtp_ps_policy).
Definition put_seq_num_ro_th (v : Z) (x : dtp_config) : dtp_config := mk_dtp_config
  x.(dtcp_present) v x.(initial_a_timer) x.(dtpc_partial_delivery) x.(dtpc_incomplete_delivery)
  x.(dtpc_in_order_delivery) x.(dtpc_max_sdu_gap) x.(dtp_ps_policy).
Definition put_initial_a_timer (v : Z) (x : dtp_config) : dtp_config := mk_dtp_config
  x.(dtcp_present) x.(seq_num_ro_th) v x.(dtpc_partial_delivery) x.(dtpc_incomplete_delivery)
  x.(dtpc_in_order_delivery) x.(dtpc_max_sdu_gap) x.(dtp_ps_policy).
Definition put_dtpc_partial_delivery (v : bool) (x : dtp_config) : dtp_config := mk_dtp_config
  x.(dtcp_present) x.(seq_num_ro_th) x.(initial_a_timer) v x.(dtpc_incomplete_delivery)
  x.(dtpc_in_order_delivery) x.(dtpc_max_sdu_gap) x.(dtp_ps_policy).
Definition put_dtpc_incomplete_delivery (v : bool) (x : dtp_config) : dtp_config := mk_dtp_config
  x.(dtcp_present) x.(seq_num_ro_th) x.(initial_a_timer) x.(dtpc_partial_delivery) v
  x.(dtpc_in_order_delivery) x.(dtpc_max_sdu_gap) x.(dtp_ps_policy).
Definition put_dtpc_in_order_delivery (v : bool) (x : dtp_config) : dtp_config := mk_dtp_config
  x.(dtcp_present) x.(seq_num_ro_th) x.(initial_a_timer) x.(dtpc_partial_delivery)
  x.(dtpc_incomplete_delivery) v x.(dtpc_max_sdu_gap) x.(dtp_ps_policy).
Definition put_dtpc_max_sdu_gap (v : Z) (x : dtp_config) : dtp_config := mk_dtp_config
  x.(dtcp_present) x.(seq_num_ro_th) x.(initial_a_timer) x.(dtpc_partial_delivery)
  x.(dtpc_incomplete_delivery) x.(dtpc_in_order_delivery) v x.(dtp_ps_policy).
Definition put_dtp_ps_policy (v : option policy) (x : dtp_config) : dtp_config := mk_dtp_config
  x.(dtcp_present) x.(seq_num_ro_th) x.(initial_a_timer) x.(dtpc_partial_delivery)
  x.(dtpc_incomplete_delivery) x.(dtpc_in_order_delivery) x.(dtpc_max_sdu_gap) v.

Definition put_max_closed_winq_length (v : Z) (x : window_fctrl_config) : window_fctrl_config :=
  mk_window_fctrl_config v x.(initial_credit) x.(wfc_rcvr_flow_control) x.(wfc_tx_control).
Definition put_initial_credit (v : Z) (x : window_fctrl_config) : window_fctrl_config :=
  mk_window_fctrl_config x.(max_closed_winq_length) v x.(wfc_rcvr_flow_control)
  x.(wfc_tx_control).
Definition put_wfc_rcvr_flow_control (v : option policy) (x : window_fctrl_config) :
  window_fctrl_config := mk_window_fctrl_config x.(max_closed_winq_length) x.(initial_credit) v
  x.(wfc_tx_control).
Definition put_wfc_tx_control (v : option policy) (x : window_fctrl_config) : window_fctrl_config
  := mk_window_fctrl_config x.(max_closed_winq_length) x.(initial_credit)
  x.(wfc_rcvr_flow_control) v.

Definition put_sending_rate (v : Z) (x : rate_fctrl_config) : rate_fctrl_config :=
  mk_rate_fctrl_config v x.(time_period) x.(rfc_no_rate_slow_down)
  x.(rfc_no_override_default_peak) x.(rfc_rate_reduction).
Definition put_time_period (v : Z) (x : rate_fctrl_config) : rate_fctrl_config :=
  mk_rate_fctrl_config x.(sending_rate) v x.(rfc_no_rate_slow_down)
  x.(rfc_no_override_default_peak) x.(rfc_rate_reduction).
Definition put_rfc_no_rate_slow_down (v : option policy) (x : rate_fctrl_config) :
  rate_fctrl_config := mk_rate_fctrl_config x.(sending_rate) x.(time_period) v
  x.(rfc_no_override_default_peak) x.(rfc_rate_reduction).
Definition put_rfc_no_override_default_peak (v : option policy) (x : rate_fctrl_config) :
  rate_fctrl_config := mk_rate_fctrl_config x.(sending_rate) x.(time_period)
  x.(rfc_no_rate_slow_down) v x.(rfc_rate_reduction).
Definition put_rfc_rate_reduction (v : option policy) (x : rate_fctrl_config) : rate_fctrl_config
  := mk_rate_fctrl_config x.(sending_rate) x.(time_period) x.(rfc_no_rate_slow_down)
  x.(rfc_no_override_default_peak) v.

Definition put_window_based_fctrl (v : bool) (x : dtcp_fctrl_config) : dtcp_fctrl_config :=
  mk_dtcp_fctrl_config v x.(wfctrl_cfg) x.(rate_based_fctrl) x.(rfctrl_cfg) x.(sent_bytes_th)
  x.(sent_bytes_percent_th) x.(sent_buffers_th) x.(rcvd_bytes_th) x.(rcvd_bytes_percent_th)
  x.(rcvd_buffers_th) x.(fc_closed_window) x.(fc_reconcile_flow_conflict)
  x.(fc_receiving_flow_control) x.(fc_flow_control_overrun).
Definition put_wfctrl_cfg (v : option window_fctrl_config) (x : dtcp_fctrl_config) :
  dtcp_fctrl_config := mk_dtcp_fctrl_config x.(window_based_fctrl) v x.(rate_based_fctrl)
  x.(rfctrl_cfg) x.(sent_bytes_th) x.(sent_bytes_percent_th) x.(sent_buffers_th) x.(rcvd_bytes_th)
  x.(rcvd_bytes_percent_th) x.(rcvd_buffers_th) x.(fc_closed_window)
  x.(fc_reconcile_flow_conflict) x.(fc_receiving_flow_control) x.(fc_flow_control_overrun).
Definition put_rate_based_fctrl (v : bool) (x : dtcp_fctrl_config) : dtcp_fctrl_config :=
  mk_dtcp_fctrl_config x.(window_based_fctrl) x.(wfctrl_cfg) v x.(rfctrl_cfg) x.(sent_bytes_th)
  x.(sent_bytes_percent_th) x.(sent_buffers_th) x.(rcvd_bytes_th) x.(rcvd_bytes_percent_th)
  x.(rcvd_buffers_th) x.(fc_closed_window) x.(fc_reconcile_flow_conflict)
  x.(fc_receiving_flow_control) x.(fc_flow_control_overrun).
Definition put_rfctrl_cfg (v : option rate_fctrl_config) (x : dtcp_fctrl_config) :
  dtcp_fctrl_config := mk_dtcp_fctrl_config x.(window_based_fctrl) x.(wfctrl_cfg)
  x.(rate_based_fctrl) v x.(sent_bytes_th) x.(sent_bytes_percent_th) x.(sent_buffers_th)
  x.(rcvd_bytes_th) x.(rcvd_bytes_percent_th) x.(rcvd_buffers_th) x.(fc_closed_window)
  x.(fc_reconcile_flow_conflict) x.(fc_receiving_flow_control) x.(fc_flow_control_overrun).
Definition put_sent_bytes_th (v : Z) (x : dtcp_fctrl_config) : dtcp_fctrl_config :=
  mk_dtcp_fctrl_config x.(window_based_fctrl) x.(wfctrl_cfg) x.(rate_based_fctrl) x.(rfctrl_cfg) v
  x.(sent_bytes_percent_th) x.(sent_buffers_th) x.(rcvd_bytes_th) x.(rcvd_bytes_percent_th)
  x.(rcvd_buffers_th) x.(fc_closed_window) x.(fc_reconcile_flow_conflict)
  x.(fc_receiving_flow_control) x.(fc_flow_control_overrun).
Definition put_sent_bytes_percent_th (v : Z) (x : dtcp_fctrl_config) : dtcp_fctrl_config :=
  mk_dtcp_fctrl_config x.(window_based_fctrl) x.(wfctrl_cfg) x.(rate_based_fctrl) x.(rfctrl_cfg)
  x.(sent_bytes_th) v x.(sent_buffers_th) x.(rcvd_bytes_th) x.(rcvd_bytes_percent_th)
  x.(rcvd_buffers_th) x.(fc_closed_window) x.(fc_reconcile_flow_conflict)
  x.(fc_receiving_flow_control) x.(fc_flow_control_overrun).
Definition put_sent_buffers_th (v : Z) (x : dtcp_fctrl_config) : dtcp_fctrl_config :=
  mk_dtcp_fctrl_config x.(window_based_fctrl) x.(wfctrl_cfg) x.(rate_based_fctrl) x.(rfctrl_cfg)
  x.(sent_bytes_th) x.(sent_bytes_percent_th) v x.(rcvd_bytes_th) x.(rcvd_bytes_percent_th)
  x.(rcvd_buffers_th) x.(fc_closed_window) x.(fc_reconcile_flow_conflict)
  x.(fc_receiving_flow_control) x.(fc_flow_control_overrun).
Definition put_rcvd_bytes_th (v : Z) (x : dtcp_fctrl_config) : dtcp_fctrl_config :=
  mk_dtcp_fctrl_config x.(window_based_fctrl) x.(wfctrl_cfg) x.(rate_based_fctrl) x.(rfctrl_cfg)
  x.(sent_bytes_th) x.(sent_bytes_percent_th) x.(sent_buffers_th) v x.(rcvd_bytes_percent_th)
  x.(rcvd_buffers_th) x.(fc_closed_window) x.(fc_reconcile_flow_conflict)
  x.(fc_receiving_flow_control) x.(fc_flow_control_overrun).
Definition put_rcvd_bytes_percent_th (v : Z) (x : dtcp_fctrl_config) : dtcp_fctrl_config :=
  mk_dtcp_fctrl_config x.(window_based_fctrl) x.(wfctrl_cfg) x.(rate_based_fctrl) x.(rfctrl_cfg)
  x.(sent_bytes_th) x.(sent_bytes_percent_th) x.(sent_buffers_th) x.(rcvd_bytes_th) v
  x.(rcvd_buffers_th) x.(fc_closed_window) x.(fc_reconcile_flow_conflict)
  x.(fc_receiving_flow_control) x.(fc_flow_control_overrun).
Definition put_rcvd_buffers_th (v : Z) (x : dtcp_fctrl_config) : dtcp_fctrl_config :=
  mk_dtcp_fctrl_config x.(window_based_fctrl) x.(wfctrl_cfg) x.(rate_based_fctrl) x.(rfctrl_cfg)
  x.(sent_bytes_th) x.(sent_bytes_percent_th) x.(sent_buffers_th) x.(rcvd_bytes_th)
  x.(rcvd_bytes_percent_th) v x.(fc_closed_window) x.(fc_reconcile_flow_conflict)
  x.(fc_receiving_flow_control) x.(fc_flow_control_overrun).
Definition put_fc_closed_window (v : option policy) (x : dtcp_fctrl_config) : dtcp_fctrl_config :=
  mk_dtcp_fctrl_config x.(window_based_fctrl) x.(wfctrl_cfg) x.(rate_based_fctrl) x.(rfctrl_cfg)
  x.(sent_bytes_th) x.(sent_bytes_percent_th) x.(sent_buffers_th) x.(rcvd_bytes_th)
  x.(rcvd_bytes_percent_th) x.(rcvd_buffers_th) v x.(fc_reconcile_flow_conflict)
  x.(fc_receiving_flow_control) x.(fc_flow_control_overrun).
Definition put_fc_reconcile_flow_conflict (v : option policy) (x : dtcp_fctrl_config) :
  dtcp_fctrl_config := mk_dtcp_fctrl_config x.(window_based_fctrl) x.(wfctrl_cfg)
  x.(rate_based_fctrl) x.(rfctrl_cfg) x.(sent_bytes_th) x.(sent_bytes_percent_th)
  x.(sent_buffers_th) x.(rcvd_bytes_th) x.(rcvd_bytes_percent_th) x.(rcvd_buffers_th)
  x.(fc_closed_window) v x.(fc_receiving_flow_control) x.(fc_flow_control_overrun).
Definition put_fc_receiving_flow_control (v : option policy) (x : dtcp_fctrl_config) :
  dtcp_fctrl_config := mk_dtcp_fctrl_config x.(window_based_fctrl) x.(wfctrl_cfg)
  x.(rate_based_fctrl) x.(rfctrl_cfg) x.(sent_bytes_th) x.(sent_bytes_percent_th)
  x.(sent_buffers_th) x.(rcvd_bytes_th) x.(rcvd_bytes_percent_th) x.(rcvd_buffers_th)
  x.(fc_closed_window) x.(fc_reconcile_flow_conflict) v x.(fc_flow_control_overrun).
Definition put_fc_flow_control_overrun (v : option policy) (x : dtcp_fctrl_config) :
  dtcp_fctrl_config := mk_dtcp_fctrl_config x.(window_based_fctrl) x.(wfctrl_cfg)
  x.(rate_based_fctrl) x.(rfctrl_cfg) x.(sent_bytes_th) x.(sent_bytes_percent_th)
  x.(sent_buffers_th) x.(rcvd_bytes_th) x.(rcvd_bytes_percent_th) x.(rcvd_buffers_th)
  x.(fc_closed_window) x.(fc_reconcile_flow_conflict) x.(fc_receiving_flow_control) v.

Definition put_max_time_retry (v : Z) (x : dtcp_rxctrl_config) : dtcp_rxctrl_config :=
  mk_dtcp_rxctrl_config v x.(rx_data_retransmit_max) x.(initial_tr)
  x.(rx_retransmission_timer_expiry) x.(rx_sender_ack) x.(rx_receiving_ack_list) x.(rx_rcvr_ack)
  x.(rx_sending_ack) x.(rx_rcvr_control_ack).
Definition put_rx_data_retransmit_max (v : Z) (x : dtcp_rxctrl_config) : dtcp_rxctrl_config :=
  mk_dtcp_rxctrl_config x.(max_time_retry) v x.(initial_tr) x.(rx_retransmission_timer_expiry)
  x.(rx_sender_ack) x.(rx_receiving_ack_list) x.(rx_rcvr_ack) x.(rx_sending_ack)
  x.(rx_rcvr_control_ack).
Definition put_initial_tr (v : Z) (x : dtcp_rxctrl_config) : dtcp_rxctrl_config :=
  mk_dtcp_rxctrl_config x.(max_time_retry) x.(rx_data_retransmit_max) v
  x.(rx_retransmission_timer_expiry) x.(rx_sender_ack) x.(rx_receiving_ack_list) x.(rx_rcvr_ack)
  x.(rx_sending_ack) x.(rx_rcvr_control_ack).
Definition put_rx_retransmission_timer_expiry (v : option policy) (x : dtcp_rxctrl_config) :
  dtcp_rxctrl_config := mk_dtcp_rxctrl_config x.(max_time_retry) x.(rx_data_retransmit_max)
  x.(initial_tr) v x.(rx_sender_ack) x.(rx_receiving_ack_list) x.(rx_rcvr_ack) x.(rx_sending_ack)
  x.(rx_rcvr_control_ack).
Definition put_rx_sender_ack (v : option policy) (x : dtcp_rxctrl_config) : dtcp_rxctrl_config :=
  mk_dtcp_rxctrl_config x.(max_time_retry) x.(rx_data_retransmit_max) x.(initial_tr)
  x.(rx_retransmission_timer_expiry) v x.(rx_receiving_ack_list) x.(rx_rcvr_ack)
  x.(rx_sending_ack) x.(rx_rcvr_control_ack).
Definition put_rx_receiving_ack_list (v : option policy) (x : dtcp_rxctrl_config) :
  dtcp_rxctrl_config := mk_dtcp_rxctrl_config x.(max_time_retry) x.(rx_data_retransmit_max)
  x.(initial_tr) x.(rx_retransmission_timer_expiry) x.(rx_sender_ack) v x.(rx_rcvr_ack)
  x.(rx_sending_ack) x.(rx_rcvr_control_ack).
Definition put_rx_rcvr_ack (v : option policy) (x : dtcp_rxctrl_config) : dtcp_rxctrl_config :=
  mk_dtcp_rxctrl_config x.(max_time_retry) x.(rx_data_retransmit_max) x.(initial_tr)
  x.(rx_retransmission_timer_expiry) x.(rx_sender_ack) x.(rx_receiving_ack_list) v
  x.(rx_sending_ack) x.(rx_rcvr_control_ack).
Definition put_rx_sending_ack (v : option policy) (x : dtcp_rxctrl_config) : dtcp_rxctrl_config :=
  mk_dtcp_rxctrl_config x.(max_time_retry) x.(rx_data_retransmit_max) x.(initial_tr)
  x.(rx_retransmission_timer_expiry) x.(rx_sender_ack) x.(rx_receiving_ack_list) x.(rx_rcvr_ack) v
  x.(rx_rcvr_control_ack).
Definition put_rx_rcvr_control_ack (v : option policy) (x : dtcp_rxctrl_config) :
  dtcp_rxctrl_config := mk_dtcp_rxctrl_config x.(max_time_retry) x.(rx_data_retransmit_max)
  x.(initial_tr) x.(rx_retransmission_timer_expiry) x.(rx_sender_ack) x.(rx_receiving_ack_list)
  x.(rx_rcvr_ack) x.(rx_sending_ack) v.

Definition put_flow_ctrl (v : bool) (x : dtcp_config) : dtcp_config := mk_dtcp_config v
  x.(fctrl_cfg) x.(rtx_ctrl) x.(rxctrl_cfg) x.(dc_lost_control_pdu) x.(dc_dtcp_ps)
  x.(dc_rtt_estimator).
Definition put_fctrl_cfg (v : option dtcp_fctrl_config) (x : dtcp_config) : dtcp_config :=
  mk_dtcp_config x.(flow_ctrl) v x.(rtx_ctrl) x.(rxctrl_cfg) x.(dc_lost_control_pdu)
  x.(dc_dtcp_ps) x.(dc_rtt_estimator).
Definition put_rtx_ctrl (v : bool) (x : dtcp_config) : dtcp_config := mk_dtcp_config x.(flow_ctrl)
  x.(fctrl_cfg) v x.(rxctrl_cfg) x.(dc_lost_control_pdu) x.(dc_dtcp_ps) x.(dc_rtt_estimator).
Definition put_rxctrl_cfg (v : option dtcp_rxctrl_config) (x : dtcp_config) : dtcp_config :=
  mk_dtcp_config x.(flow_ctrl) x.(fctrl_cfg) x.(rtx_ctrl) v x.(dc_lost_control_pdu) x.(dc_dtcp_ps)
  x.(dc_rtt_estimator).
Definition put_dc_lost_control_pdu (v : option policy) (x : dtcp_config) : dtcp_config :=
  mk_dtcp_config x.(flow_ctrl) x.(fctrl_cfg) x.(rtx_ctrl) x.(rxctrl_cfg) v x.(dc_dtcp_ps)
  x.(dc_rtt_estimator).
Definition put_dc_dtcp_ps (v : option policy) (x : dtcp_config) : dtcp_config := mk_dtcp_config
  x.(flow_ctrl) x.(fctrl_cfg) x.(rtx_ctrl) x.(rxctrl_cfg) x.(dc_lost_control_pdu) v
  x.(dc_rtt_estimator).
Definition put_dc_rtt_estimator (v : option policy) (x : dtcp_config) : dtcp_config :=
  mk_dtcp_config x.(flow_ctrl) x.(fctrl_cfg) x.(rtx_ctrl) x.(rxctrl_cfg) x.(dc_lost_control_pdu)
  x.(dc_dtcp_ps) v.

Definition put_address_length (v : Z) (x : dt_cons) : dt_cons := mk_dt_cons v x.(cep_id_length)
  x.(length_length) x.(port_id_length) x.(qos_id_length) x.(seq_num_length)
  x.(ctrl_seq_num_length) x.(max_pdu_size) x.(max_sdu_size) x.(max_pdu_life) x.(rate_length)
  x.(frame_length) x.(dif_integrity) x.(seq_rollover_thres) x.(dif_concat) x.(dif_frag)
  x.(max_time_to_keep_ret_) x.(max_time_to_ack_).
Definition put_cep_id_length (v : Z) (x : dt_cons) : dt_cons := mk_dt_cons x.(address_length) v
  x.(length_length) x.(port_id_length) x.(qos_id_length) x.(seq_num_length)
  x.(ctrl_seq_num_length) x.(max_pdu_size) x.(max_sdu_size) x.(max_pdu_life) x.(rate_length)
  x.(frame_length) x.(dif_integrity) x.(seq_rollover_thres) x.(dif_concat) x.(dif_frag)
  x.(max_time_to_keep_ret_) x.(max_time_to_ack_).
Definition put_length_length (v : Z) (x : dt_cons) : dt_cons := mk_dt_cons x.(address_length)
  x.(cep_id_length) v x.(port_id_length) x.(qos_id_length) x.(seq_num_length)
  x.(ctrl_seq_num_length) x.(max_pdu_size) x.(max_sdu_size) x.(max_pdu_life) x.(rate_length)
  x.(frame_length) x.(dif_integrity) x.(seq_rollover_thres) x.(dif_concat) x.(dif_frag)
  x.(max_time_to_keep_ret_) x.(max_time_to_ack_).
Definition put_port_id_length (v : Z) (x : dt_cons) : dt_cons := mk_dt_cons x.(address_length)
  x.(cep_id_length) x.(length_length) v x.(qos_id_length) x.(seq_num_length)
  x.(ctrl_seq_num_length) x.(max_pdu_size) x.(max_sdu_size) x.(max_pdu_life) x.(rate_length)
  x.(frame_length) x.(dif_integrity) x.(seq_rollover_thres) x.(dif_concat) x.(dif_frag)
  x.(max_time_to_keep_ret_) x.(max_time_to_ack_).
Definition put_qos_id_length (v : Z) (x : dt_cons) : dt_cons := mk_dt_cons x.(address_length)
  x.(cep_id_length) x.(length_length) x.(port_id_length) v x.(seq_num_length)
  x.(ctrl_seq_num_length) x.(max_pdu_size) x.(max_sdu_size) x.(max_pdu_life) x.(rate_length)
  x.(frame_length) x.(dif_integrity) x.(seq_rollover_thres) x.(dif_concat) x.(dif_frag)
  x.(max_time_to_keep_ret_) x.(max_time_to_ack_).
Definition put_seq_num_length (v : Z) (x : dt_cons) : dt_cons := mk_dt_cons x.(address_length)
  x.(cep_id_length) x.(length_length) x.(port_id_length) x.(qos_id_length) v
  x.(ctrl_seq_num_length) x.(max_pdu_size) x.(max_sdu_size) x.(max_pdu_life) x.(rate_length)
  x.(frame_length) x.(dif_integrity) x.(seq_rollover_thres) x.(dif_concat) x.(dif_frag)
  x.(max_time_to_keep_ret_) x.(max_time_to_ack_).
Definition put_ctrl_seq_num_length (v : Z) (x : dt_cons) : dt_cons := mk_dt_cons
  x.(address_length) x.(cep_id_length) x.(length_length) x.(port_id_length) x.(qos_id_length)
  x.(seq_num_length) v x.(max_pdu_size) x.(max_sdu_size) x.(max_pdu_life) x.(rate_length)
  x.(frame_length) x.(dif_integrity) x.(seq_rollover_thres) x.(dif_concat) x.(dif_frag)
  x.(max_time_to_keep_ret_) x.(max_time_to_ack_).
Definition put_max_pdu_size (v : Z) (x : dt_cons) : dt_cons := mk_dt_cons x.(address_length)
  x.(cep_id_length) x.(length_length) x.(port_id_length) x.(qos_id_length) x.(seq_num_length)
  x.(ctrl_seq_num_length) v x.(max_sdu_size) x.(max_pdu_life) x.(rate_length) x.(frame_length)
  x.(dif_integrity) x.(seq_rollover_thres) x.(dif_concat) x.(dif_frag) x.(max_time_to_keep_ret_)
  x.(max_time_to_ack_).
Definition put_max_sdu_size (v : Z) (x : dt_cons) : dt_cons := mk_dt_cons x.(address_length)
  x.(cep_id_length) x.(length_length) x.(port_id_length) x.(qos_id_length) x.(seq_num_length)
  x.(ctrl_seq_num_length) x.(max_pdu_size) v x.(max_pdu_life) x.(rate_length) x.(frame_length)
  x.(dif_integrity) x.(seq_rollover_thres) x.(dif_concat) x.(dif_frag) x.(max_time_to_keep_ret_)
  x.(max_time_to_ack_).
Definition put_max_pdu_life (v : Z) (x : dt_cons) : dt_cons := mk_dt_cons x.(address_length)
  x.(cep_id_length) x.(length_length) x.(port_id_length) x.(qos_id_length) x.(seq_num_length)
  x.(ctrl_seq_num_length) x.(max_pdu_size) x.(max_sdu_size) v x.(rate_length) x.(frame_length)
  x.(dif_integrity) x.(seq_rollover_thres) x.(dif_concat) x.(dif_frag) x.(max_time_to_keep_ret_)
  x.(max_time_to_ack_).
Definition put_rate_length (v : Z) (x : dt_cons) : dt_cons := mk_dt_cons x.(address_length)
  x.(cep_id_length) x.(length_length) x.(port_id_length) x.(qos_id_length) x.(seq_num_length)
  x.(ctrl_seq_num_length) x.(max_pdu_size) x.(max_sdu_size) x.(max_pdu_life) v x.(frame_length)
  x.(dif_integrity) x.(seq_rollover_thres) x.(dif_concat) x.(dif_frag) x.(max_time_to_keep_ret_)
  x.(max_time_to_ack_).
Definition put_frame_length (v : Z) (x : dt_cons) : dt_cons := mk_dt_cons x.(address_length)
  x.(cep_id_length) x.(length_length) x.(port_id_length) x.(qos_id_length) x.(seq_num_length)
  x.(ctrl_seq_num_length) x.(max_pdu_size) x.(max_sdu_size) x.(max_pdu_life) x.(rate_length) v
  x.(dif_integrity) x.(seq_rollover_thres) x.(dif_concat) x.(dif_frag) x.(max_time_to_keep_ret_)
  x.(max_time_to_ack_).
Definition put_dif_integrity (v : bool) (x : dt_cons) : dt_cons := mk_dt_cons x.(address_length)
  x.(cep_id_length) x.(length_length) x.(port_id_length) x.(qos_id_length) x.(seq_num_length)
  x.(ctrl_seq_num_length) x.(max_pdu_size) x.(max_sdu_size) x.(max_pdu_life) x.(rate_length)
  x.(frame_length) v x.(seq_rollover_thres) x.(dif_concat) x.(dif_frag) x.(max_time_to_keep_ret_)
  x.(max_time_to_ack_).
Definition put_seq_rollover_thres (v : Z) (x : dt_cons) : dt_cons := mk_dt_cons x.(address_length)
  x.(cep_id_length) x.(length_length) x.(port_id_length) x.(qos_id_length) x.(seq_num_length)
  x.(ctrl_seq_num_length) x.(max_pdu_size) x.(max_sdu_size) x.(max_pdu_life) x.(rate_length)
  x.(frame_length) x.(dif_integrity) v x.(dif_concat) x.(dif_frag) x.(max_time_to_keep_ret_)
  x.(max_time_to_ack_).
Definition put_dif_concat (v : bool) (x : dt_cons) : dt_cons := mk_dt_cons x.(address_length)
  x.(cep_id_length) x.(length_length) x.(port_id_length) x.(qos_id_length) x.(seq_num_length)
  x.(ctrl_seq_num_length) x.(max_pdu_size) x.(max_sdu_size) x.(max_pdu_life) x.(rate_length)
  x.(frame_length) x.(dif_integrity) x.(seq_rollover_thres) v x.(dif_frag)
  x.(max_time_to_keep_ret_) x.(max_time_to_ack_).
Definition put_dif_frag (v : bool) (x : dt_cons) : dt_cons := mk_dt_cons x.(address_length)
  x.(cep_id_length) x.(length_length) x.(port_id_length) x.(qos_id_length) x.(seq_num_length)
  x.(ctrl_seq_num_length) x.(max_pdu_size) x.(max_sdu_size) x.(max_pdu_life) x.(rate_length)
  x.(frame_length) x.(dif_integrity) x.(seq_rollover_thres) x.(dif_concat) v
  x.(max_time_to_keep_ret_) x.(max_time_to_ack_).
Definition put_max_time_to_keep_ret_ (v : Z) (x : dt_cons) : dt_cons := mk_dt_cons
  x.(address_length) x.(cep_id_length) x.(length_length) x.(port_id_length) x.(qos_id_length)
  x.(seq_num_length) x.(ctrl_seq_num_length) x.(max_pdu_size) x.(max_sdu_size) x.(max_pdu_life)
  x.(rate_length) x.(frame_length) x.(dif_integrity) x.(seq_rollover_thres) x.(dif_concat)
  x.(dif_frag) v x.(max_time_to_ack_).
Definition put_max_time_to_ack_ (v : Z) (x : dt_cons) : dt_cons := mk_dt_cons x.(address_length)
  x.(cep_id_length) x.(length_length) x.(port_id_length) x.(qos_id_length) x.(seq_num_length)
  x.(ctrl_seq_num_length) x.(max_pdu_size) x.(max_sdu_size) x.(max_pdu_life) x.(rate_length)
  x.(frame_length) x.(dif_integrity) x.(seq_rollover_thres) x.(dif_concat) x.(dif_frag)
  x.(max_time_to_keep_ret_) v.

Definition put_qc_name (v : string_ptr) (x : qos_cube) : qos_cube := mk_qos_cube v x.(qc_id)
  x.(qc_avg_bw) x.(qc_avg_sdu_bw) x.(qc_peak_bw_duration) x.(qc_peak_sdu_bw_duration)
  x.(qc_partial_delivery) x.(qc_ordered_delivery) x.(qc_max_allowed_gap) x.(qc_delay)
  x.(qc_jitter) x.(qc_loss) x.(qc_dtpc) x.(qc_dtcpc).
Definition put_qc_id (v : Z) (x : qos_cube) : qos_cube := mk_qos_cube x.(qc_name) v x.(qc_avg_bw)
  x.(qc_avg_sdu_bw) x.(qc_peak_bw_duration) x.(qc_peak_sdu_bw_duration) x.(qc_partial_delivery)
  x.(qc_ordered_delivery) x.(qc_max_allowed_gap) x.(qc_delay) x.(qc_jitter) x.(qc_loss)
  x.(qc_dtpc) x.(qc_dtcpc).
Definition put_qc_avg_bw (v : Z) (x : qos_cube) : qos_cube := mk_qos_cube x.(qc_name) x.(qc_id) v
  x.(qc_avg_sdu_bw) x.(qc_peak_bw_duration) x.(qc_peak_sdu_bw_duration) x.(qc_partial_delivery)
  x.(qc_ordered_delivery) x.(qc_max_allowed_gap) x.(qc_delay) x.(qc_jitter) x.(qc_loss)
  x.(qc_dtpc) x.(qc_dtcpc).
Definition put_qc_avg_sdu_bw (v : Z) (x : qos_cube) : qos_cube := mk_qos_cube x.(qc_name)
  x.(qc_id) x.(qc_avg_bw) v x.(qc_peak_bw_duration) x.(qc_peak_sdu_bw_duration)
  x.(qc_partial_delivery) x.(qc_ordered_delivery) x.(qc_max_allowed_gap) x.(qc_delay)
  x.(qc_jitter) x.(qc_loss) x.(qc_dtpc) x.(qc_dtcpc).
Definition put_qc_peak_bw_duration (v : Z) (x : qos_cube) : qos_cube := mk_qos_cube x.(qc_name)
  x.(qc_id) x.(qc_avg_bw) x.(qc_avg_sdu_bw) v x.(qc_peak_sdu_bw_duration) x.(qc_partial_delivery)
  x.(qc_ordered_delivery) x.(qc_max_allowed_gap) x.(qc_delay) x.(qc_jitter) x.(qc_loss)
  x.(qc_dtpc) x.(qc_dtcpc).
Definition put_qc_peak_sdu_bw_duration (v : Z) (x : qos_cube) : qos_cube := mk_qos_cube
  x.(qc_name) x.(qc_id) x.(qc_avg_bw) x.(qc_avg_sdu_bw) x.(qc_peak_bw_duration) v
  x.(qc_partial_delivery) x.(qc_ordered_delivery) x.(qc_max_allowed_gap) x.(qc_delay)
  x.(qc_jitter) x.(qc_loss) x.(qc_dtpc) x.(qc_dtcpc).
Definition put_qc_partial_delivery (v : bool) (x : qos_cube) : qos_cube := mk_qos_cube x.(qc_name)
  x.(qc_id) x.(qc_avg_bw) x.(qc_avg_sdu_bw) x.(qc_peak_bw_duration) x.(qc_peak_sdu_bw_duration) v
  x.(qc_ordered_delivery) x.(qc_max_allowed_gap) x.(qc_delay) x.(qc_jitter) x.(qc_loss)
  x.(qc_dtpc) x.(qc_dtcpc).
Definition put_qc_ordered_delivery (v : bool) (x : qos_cube) : qos_cube := mk_qos_cube x.(qc_name)
  x.(qc_id) x.(qc_avg_bw) x.(qc_avg_sdu_bw) x.(qc_peak_bw_duration) x.(qc_peak_sdu_bw_duration)
  x.(qc_partial_delivery) v x.(qc_max_allowed_gap) x.(qc_delay) x.(qc_jitter) x.(qc_loss)
  x.(qc_dtpc) x.(qc_dtcpc).
Definition put_qc_max_allowed_gap (v : Z) (x : qos_cube) : qos_cube := mk_qos_cube x.(qc_name)
  x.(qc_id) x.(qc_avg_bw) x.(qc_avg_sdu_bw) x.(qc_peak_bw_duration) x.(qc_peak_sdu_bw_duration)
  x.(qc_partial_delivery) x.(qc_ordered_delivery) v x.(qc_delay) x.(qc_jitter) x.(qc_loss)
  x.(qc_dtpc) x.(qc_dtcpc).
Definition put_qc_delay (v : Z) (x : qos_cube) : qos_cube := mk_qos_cube x.(qc_name) x.(qc_id)
  x.(qc_avg_bw) x.(qc_avg_sdu_bw) x.(qc_peak_bw_duration) x.(qc_peak_sdu_bw_duration)
  x.(qc_partial_delivery) x.(qc_ordered_delivery) x.(qc_max_allowed_gap) v x.(qc_jitter)
  x.(qc_loss) x.(qc_dtpc) x.(qc_dtcpc).
Definition put_qc_jitter (v : Z) (x : qos_cube) : qos_cube := mk_qos_cube x.(qc_name) x.(qc_id)
  x.(qc_avg_bw) x.(qc_avg_sdu_bw) x.(qc_peak_bw_duration) x.(qc_peak_sdu_bw_duration)
  x.(qc_partial_delivery) x.(qc_ordered_delivery) x.(qc_max_allowed_gap) x.(qc_delay) v
  x.(qc_loss) x.(qc_dtpc) x.(qc_dtcpc).
Definition put_qc_loss (v : Z) (x : qos_cube) : qos_cube := mk_qos_cube x.(qc_name) x.(qc_id)
  x.(qc_avg_bw) x.(qc_avg_sdu_bw) x.(qc_peak_bw_duration) x.(qc_peak_sdu_bw_duration)
  x.(qc_partial_delivery) x.(qc_ordered_delivery) x.(qc_max_allowed_gap) x.(qc_delay)
  x.(qc_jitter) v x.(qc_dtpc) x.(qc_dtcpc).
Definition put_qc_dtpc (v : option dtp_config) (x : qos_cube) : qos_cube := mk_qos_cube
  x.(qc_name) x.(qc_id) x.(qc_avg_bw) x.(qc_avg_sdu_bw) x.(qc_peak_bw_duration)
  x.(qc_peak_sdu_bw_duration) x.(qc_partial_delivery) x.(qc_ordered_delivery)
  x.(qc_max_allowed_gap) x.(qc_delay) x.(qc_jitter) x.(qc_loss) v x.(qc_dtcpc).
Definition put_qc_dtcpc (v : option dtcp_config) (x : qos_cube) : qos_cube := mk_qos_cube
  x.(qc_name) x.(qc_id) x.(qc_avg_bw) x.(qc_avg_sdu_bw) x.(qc_peak_bw_duration)
  x.(qc_peak_sdu_bw_duration) x.(qc_partial_delivery) x.(qc_ordered_delivery)
  x.(qc_max_allowed_gap) x.(qc_delay) x.(qc_jitter) x.(qc_loss) x.(qc_dtpc) v.

Definition put_efc_dt_cons (v : option dt_cons) (x : efcp_config) : efcp_config := mk_efcp_config
  v x.(efc_pci_offset_table) x.(efc_unknown_flow) x.(efc_qos_cubes).
Definition put_efc_pci_offset_table (v : option (list Z)) (x : efcp_config) : efcp_config :=
  mk_efcp_config x.(efc_dt_cons) v x.(efc_unknown_flow) x.(efc_qos_cubes).
Definition put_efc_unknown_flow (v : option policy) (x : efcp_config) : efcp_config :=
  mk_efcp_config x.(efc_dt_cons) x.(efc_pci_offset_table) v x.(efc_qos_cubes).
Definition put_efc_qos_cubes (v : list (option qos_cube)) (x : efcp_config) : efcp_config :=
  mk_efcp_config x.(efc_dt_cons) x.(efc_pci_offset_table) x.(efc_unknown_flow) v.

Definition put_fac_ps (v : option policy) (x : fa_config) : fa_config := mk_fa_config v
  x.(fac_allocate_notify) x.(fac_allocate_retry) x.(fac_new_flow_req) x.(fac_seq_roll_over)
  x.(fac_max_create_flow_retries).
Definition put_fac_allocate_notify (v : option policy) (x : fa_config) : fa_config := mk_fa_config
  x.(fac_ps) v x.(fac_allocate_retry) x.(fac_new_flow_req) x.(fac_seq_roll_over)
  x.(fac_max_create_flow_retries).
Definition put_fac_allocate_retry (v : option policy) (x : fa_config) : fa_config := mk_fa_config
  x.(fac_ps) x.(fac_allocate_notify) v x.(fac_new_flow_req) x.(fac_seq_roll_over)
  x.(fac_max_create_flow_retries).
Definition put_fac_new_flow_req (v : option policy) (x : fa_config) : fa_config := mk_fa_config
  x.(fac_ps) x.(fac_allocate_notify) x.(fac_allocate_retry) v x.(fac_seq_roll_over)
  x.(fac_max_create_flow_retries).
Definition put_fac_seq_roll_over (v : option policy) (x : fa_config) : fa_config := mk_fa_config
  x.(fac_ps) x.(fac_allocate_notify) x.(fac_allocate_retry) x.(fac_new_flow_req) v
  x.(fac_max_create_flow_retries).
Definition put_fac_max_create_flow_retries (v : Z) (x : fa_config) : fa_config := mk_fa_config
  x.(fac_ps) x.(fac_allocate_notify) x.(fac_allocate_retry) x.(fac_new_flow_req)
  x.(fac_seq_roll_over) v.

Definition put_resc_pff_gen (v : option policy) (x : resall_config) : resall_config :=
  mk_resall_config v.

Definition put_etc_ps (v : option policy) (x : et_config) : et_config := mk_et_config v.

Definition put_sia_ap_name (v : string_ptr) (x : static_ipcp_addr) : static_ipcp_addr :=
  mk_static_ipcp_addr v x.(sia_ap_instance) x.(sia_address).
Definition put_sia_ap_instance (v : string_ptr) (x : static_ipcp_addr) : static_ipcp_addr :=
  mk_static_ipcp_addr x.(sia_ap_name) v x.(sia_address).
Definition put_sia_address (v : Z) (x : static_ipcp_addr) : static_ipcp_addr :=
  mk_static_ipcp_addr x.(sia_ap_name) x.(sia_ap_instance) v.

Definition put_apc_org (v : string_ptr) (x : address_pref_config) : address_pref_config :=
  mk_address_pref_config v x.(apc_prefix).
Definition put_apc_prefix (v : Z) (x : address_pref_config) : address_pref_config :=
  mk_address_pref_config x.(apc_org) v.

Definition put_ac_static_ipcp_addrs (v : list (option static_ipcp_addr)) (x : addressing_config) :
  addressing_config := mk_addressing_config v x.(ac_address_prefixes).
Definition put_ac_address_prefixes (v : list (option address_pref_config)) (x : addressing_config)
  : addressing_config := mk_addressing_config x.(ac_static_ipcp_addrs) v.

Definition put_nsmc_ps (v : option policy) (x : nsm_config) : nsm_config := mk_nsm_config v
  x.(nsmc_addr_conf).
Definition put_nsmc_addr_conf (v : option addressing_config) (x : nsm_config) : nsm_config :=
  mk_nsm_config x.(nsmc_ps) v.

Definition put_asp_auth (v : option policy) (x : auth_sdup_profile) : auth_sdup_profile :=
  mk_auth_sdup_profile v x.(asp_encrypt) x.(asp_crc) x.(asp_ttl).
Definition put_asp_encrypt (v : option policy) (x : auth_sdup_profile) : auth_sdup_profile :=
  mk_auth_sdup_profile x.(asp_auth) v x.(asp_crc) x.(asp_ttl).
Definition put_asp_crc (v : option policy) (x : auth_sdup_profile) : auth_sdup_profile :=
  mk_auth_sdup_profile x.(asp_auth) x.(asp_encrypt) v x.(asp_ttl).
Definition put_asp_ttl (v : option policy) (x : auth_sdup_profile) : auth_sdup_profile :=
  mk_auth_sdup_profile x.(asp_auth) x.(asp_encrypt) x.(asp_crc) v.

Definition put_sc_ps (v : option policy) (x : secman_config) : secman_config := mk_secman_config v
  x.(sc_default_profile) x.(sc_specific_profiles).
Definition put_sc_default_profile (v : option auth_sdup_profile) (x : secman_config) :
  secman_config := mk_secman_config x.(sc_ps) v x.(sc_specific_profiles).
Definition put_sc_specific_profiles (v : list auth_sdup_profile_entry) (x : secman_config) :
  secman_config := mk_secman_config x.(sc_ps) x.(sc_default_profile) v.

Definition put_rc_ps (v : option policy) (x : routing_config) : routing_config :=
  mk_routing_config v.

Definition put_pffc_policy_set (v : option policy) (x : pff_config) : pff_config := mk_pff_config v.

Definition put_rmtc_policy_set (v : option policy) (x : rmt_config) : rmt_config := mk_rmt_config
  v x.(rmtc_pff_conf).
Definition put_rmtc_pff_conf (v : option pff_config) (x : rmt_config) : rmt_config :=
  mk_rmt_config x.(rmtc_policy_set) v.

Definition put_ice_name (v : string_ptr) (x : ipcp_config_entry) : ipcp_config_entry :=
  mk_ipcp_config_entry v x.(ice_value).
Definition put_ice_value (v : string_ptr) (x : ipcp_config_entry) : ipcp_config_entry :=
  mk_ipcp_config_entry x.(ice_name) v.

Definition put_dif_ipcp_config_entries (v : list (option ipcp_config_entry)) (x : dif_config) :
  dif_config := mk_dif_config v x.(dif_efcp_config) x.(dif_rmt_config) x.(dif_address)
  x.(dif_fa_config) x.(dif_et_config) x.(dif_nsm_config) x.(dif_routing_config)
  x.(dif_resall_config) x.(dif_secman_config).
Definition put_dif_efcp_config (v : option efcp_config) (x : dif_config) : dif_config :=
  mk_dif_config x.(dif_ipcp_config_entries) v x.(dif_rmt_config) x.(dif_address) x.(dif_fa_config)
  x.(dif_et_config) x.(dif_nsm_config) x.(dif_routing_config) x.(dif_resall_config)
  x.(dif_secman_config).
Definition put_dif_rmt_config (v : option rmt_config) (x : dif_config) : dif_config :=
  mk_dif_config x.(dif_ipcp_config_entries) x.(dif_efcp_config) v x.(dif_address)
  x.(dif_fa_config) x.(dif_et_config) x.(dif_nsm_config) x.(dif_routing_config)
  x.(dif_resall_config) x.(dif_secman_config).
Definition put_dif_address (v : Z) (x : dif_config) : dif_config := mk_dif_config
  x.(dif_ipcp_config_entries) x.(dif_efcp_config) x.(dif_rmt_config) v x.(dif_fa_config)
  x.(dif_et_config) x.(dif_nsm_config) x.(dif_routing_config) x.(dif_resall_config)
  x.(dif_secman_config).
Definition put_dif_fa_config (v : option fa_config) (x : dif_config) : dif_config := mk_dif_config
  x.(dif_ipcp_config_entries) x.(dif_efcp_config) x.(dif_rmt_config) x.(dif_address) v
  x.(dif_et_config) x.(dif_nsm_config) x.(dif_routing_config) x.(dif_resall_config)
  x.(dif_secman_config).
Definition put_dif_et_config (v : option et_config) (x : dif_config) : dif_config := mk_dif_config
  x.(dif_ipcp_config_entries) x.(dif_efcp_config) x.(dif_rmt_config) x.(dif_address)
  x.(dif_fa_config) v x.(dif_nsm_config) x.(dif_routing_config) x.(dif_resall_config)
  x.(dif_secman_config).
Definition put_dif_nsm_config (v : option nsm_config) (x : dif_config) : dif_config :=
  mk_dif_config x.(dif_ipcp_config_entries) x.(dif_efcp_config) x.(dif_rmt_config) x.(dif_address)
  x.(dif_fa_config) x.(dif_et_config) v x.(dif_routing_config) x.(dif_resall_config)
  x.(dif_secman_config).
Definition put_dif_routing_config (v : option routing_config) (x : dif_config) : dif_config :=
  mk_dif_config x.(dif_ipcp_config_entries) x.(dif_efcp_config) x.(dif_rmt_config) x.(dif_address)
  x.(dif_fa_config) x.(dif_et_config) x.(dif_nsm_config) v x.(dif_resall_config)
  x.(dif_secman_config).
Definition put_dif_resall_config (v : option resall_config) (x : dif_config) : dif_config :=
  mk_dif_config x.(dif_ipcp_config_entries) x.(dif_efcp_config) x.(dif_rmt_config) x.(dif_address)
  x.(dif_fa_config) x.(dif_et_config) x.(dif_nsm_config) x.(dif_routing_config) v
  x.(dif_secman_config).
Definition put_dif_secman_config (v : option secman_config) (x : dif_config) : dif_config :=
  mk_dif_config x.(dif_ipcp_config_entries) x.(dif_efcp_config) x.(dif_rmt_config) x.(dif_address)
  x.(dif_fa_config) x.(dif_et_config) x.(dif_nsm_config) x.(dif_routing_config)
  x.(dif_resall_config) v.

Definition put_nei_ipcp_name (v : option name) (x : ipcp_neighbor) : ipcp_neighbor :=
  mk_ipcp_neighbor v x.(nei_sup_dif_name) x.(nei_supporting_difs) x.(nei_address)
  x.(nei_old_address) x.(nei_enrolled) x.(nei_average_rtt_in_ms) x.(nei_under_port_id)
  x.(nei_intern_port_id) x.(nei_last_heard_time_ms) x.(nei_num_enroll_attempts).
Definition put_nei_sup_dif_name (v : option name) (x : ipcp_neighbor) : ipcp_neighbor :=
  mk_ipcp_neighbor x.(nei_ipcp_name) v x.(nei_supporting_difs) x.(nei_address) x.(nei_old_address)
  x.(nei_enrolled) x.(nei_average_rtt_in_ms) x.(nei_under_port_id) x.(nei_intern_port_id)
  x.(nei_last_heard_time_ms) x.(nei_num_enroll_attempts).
Definition put_nei_supporting_difs (v : list (option name)) (x : ipcp_neighbor) : ipcp_neighbor :=
  mk_ipcp_neighbor x.(nei_ipcp_name) x.(nei_sup_dif_name) v x.(nei_address) x.(nei_old_address)
  x.(nei_enrolled) x.(nei_average_rtt_in_ms) x.(nei_under_port_id) x.(nei_intern_port_id)
  x.(nei_last_heard_time_ms) x.(nei_num_enroll_attempts).
Definition put_nei_address (v : Z) (x : ipcp_neighbor) : ipcp_neighbor := mk_ipcp_neighbor
  x.(nei_ipcp_name) x.(nei_sup_dif_name) x.(nei_supporting_difs) v x.(nei_old_address)
  x.(nei_enrolled) x.(nei_average_rtt_in_ms) x.(nei_under_port_id) x.(nei_intern_port_id)
  x.(nei_last_heard_time_ms) x.(nei_num_enroll_attempts).
Definition put_nei_old_address (v : Z) (x : ipcp_neighbor) : ipcp_neighbor := mk_ipcp_neighbor
  x.(nei_ipcp_name) x.(nei_sup_dif_name) x.(nei_supporting_difs) x.(nei_address) v
  x.(nei_enrolled) x.(nei_average_rtt_in_ms) x.(nei_under_port_id) x.(nei_intern_port_id)
  x.(nei_last_heard_time_ms) x.(nei_num_enroll_attempts).
Definition put_nei_enrolled (v : bool) (x : ipcp_neighbor) : ipcp_neighbor := mk_ipcp_neighbor
  x.(nei_ipcp_name) x.(nei_sup_dif_name) x.(nei_supporting_difs) x.(nei_address)
  x.(nei_old_address) v x.(nei_average_rtt_in_ms) x.(nei_under_port_id) x.(nei_intern_port_id)
  x.(nei_last_heard_time_ms) x.(nei_num_enroll_attempts).
Definition put_nei_average_rtt_in_ms (v : Z) (x : ipcp_neighbor) : ipcp_neighbor :=
  mk_ipcp_neighbor x.(nei_ipcp_name) x.(nei_sup_dif_name) x.(nei_supporting_difs) x.(nei_address)
  x.(nei_old_address) x.(nei_enrolled) v x.(nei_under_port_id) x.(nei_intern_port_id)
  x.(nei_last_heard_time_ms) x.(nei_num_enroll_attempts).
Definition put_nei_under_port_id (v : Z) (x : ipcp_neighbor) : ipcp_neighbor := mk_ipcp_neighbor
  x.(nei_ipcp_name) x.(nei_sup_dif_name) x.(nei_supporting_difs) x.(nei_address)
  x.(nei_old_address) x.(nei_enrolled) x.(nei_average_rtt_in_ms) v x.(nei_intern_port_id)
  x.(nei_last_heard_time_ms) x.(nei_num_enroll_attempts).
Definition put_nei_intern_port_id (v : Z) (x : ipcp_neighbor) : ipcp_neighbor := mk_ipcp_neighbor
  x.(nei_ipcp_name) x.(nei_sup_dif_name) x.(nei_supporting_difs) x.(nei_address)
  x.(nei_old_address) x.(nei_enrolled) x.(nei_average_rtt_in_ms) x.(nei_under_port_id) v
  x.(nei_last_heard_time_ms) x.(nei_num_enroll_attempts).
Definition put_nei_last_heard_time_ms (v : Z) (x : ipcp_neighbor) : ipcp_neighbor :=
  mk_ipcp_neighbor x.(nei_ipcp_name) x.(nei_sup_dif_name) x.(nei_supporting_difs) x.(nei_address)
  x.(nei_old_address) x.(nei_enrolled) x.(nei_average_rtt_in_ms) x.(nei_under_port_id)
  x.(nei_intern_port_id) v x.(nei_num_enroll_attempts).
Definition put_nei_num_enroll_attempts (v : Z) (x : ipcp_neighbor) : ipcp_neighbor :=
  mk_ipcp_neighbor x.(nei_ipcp_name) x.(nei_sup_dif_name) x.(nei_supporting_difs) x.(nei_address)
  x.(nei_old_address) x.(nei_enrolled) x.(nei_average_rtt_in_ms) x.(nei_under_port_id)
  x.(nei_intern_port_id) x.(nei_last_heard_time_ms) v.

Definition put_inl_ipcp_neighbors (v : list (option ipcp_neighbor)) (x : ipcp_neigh_list) :
  ipcp_neigh_list := mk_ipcp_neigh_list v.

Definition put_rod_clazz (v : string_ptr) (x : rib_object_data) : rib_object_data :=
  mk_rib_object_data v x.(rod_name) x.(rod_disp_value) x.(rod_instance).
Definition put_rod_name (v : string_ptr) (x : rib_object_data) : rib_object_data :=
  mk_rib_object_data x.(rod_clazz) v x.(rod_disp_value) x.(rod_instance).
Definition put_rod_disp_value (v : string_ptr) (x : rib_object_data) : rib_object_data :=
  mk_rib_object_data x.(rod_clazz) x.(rod_name) v x.(rod_instance).
Definition put_rod_instance (v : Z) (x : rib_object_data) : rib_object_data := mk_rib_object_data
  x.(rod_clazz) x.(rod_name) x.(rod_disp_value) v.

Definition put_qrr_rib_object_data_entries (v : list rib_object_data) (x : query_rib_resp) :
  query_rib_resp := mk_query_rib_resp v.

Definition put_dpe_dif_name (v : option name) (x : dif_properties_entry) : dif_properties_entry :=
  mk_dif_properties_entry v x.(dpe_max_sdu_size).
Definition put_dpe_max_sdu_size (v : Z) (x : dif_properties_entry) : dif_properties_entry :=
  mk_dif_properties_entry x.(dpe_dif_name) v.

Definition put_gdp_dif_propery_entries (v : list dif_properties_entry) (x : get_dif_prop_resp) :
  get_dif_prop_resp := mk_get_dif_prop_resp v.

Definition put_scs_enable_crypto_tx (v : bool) (x : sdup_crypto_state) : sdup_crypto_state :=
  mk_sdup_crypto_state v x.(scs_enable_crypto_rx) x.(scs_mac_alg) x.(scs_mac_key_tx)
  x.(scs_mac_key_rx) x.(scs_enc_alg) x.(scs_encrypt_key_tx) x.(scs_encrypt_key_rx) x.(scs_iv_tx)
  x.(scs_iv_rx) x.(scs_compress_alg) x.(scs_port_id).
Definition put_scs_enable_crypto_rx (v : bool) (x : sdup_crypto_state) : sdup_crypto_state :=
  mk_sdup_crypto_state x.(scs_enable_crypto_tx) v x.(scs_mac_alg) x.(scs_mac_key_tx)
  x.(scs_mac_key_rx) x.(scs_enc_alg) x.(scs_encrypt_key_tx) x.(scs_encrypt_key_rx) x.(scs_iv_tx)
  x.(scs_iv_rx) x.(scs_compress_alg) x.(scs_port_id).
Definition put_scs_mac_alg (v : string_ptr) (x : sdup_crypto_state) : sdup_crypto_state :=
  mk_sdup_crypto_state x.(scs_enable_crypto_tx) x.(scs_enable_crypto_rx) v x.(scs_mac_key_tx)
  x.(scs_mac_key_rx) x.(scs_enc_alg) x.(scs_encrypt_key_tx) x.(scs_encrypt_key_rx) x.(scs_iv_tx)
  x.(scs_iv_rx) x.(scs_compress_alg) x.(scs_port_id).
Definition put_scs_mac_key_tx (v : option buffer) (x : sdup_crypto_state) : sdup_crypto_state :=
  mk_sdup_crypto_state x.(scs_enable_crypto_tx) x.(scs_enable_crypto_rx) x.(scs_mac_alg) v
  x.(scs_mac_key_rx) x.(scs_enc_alg) x.(scs_encrypt_key_tx) x.(scs_encrypt_key_rx) x.(scs_iv_tx)
  x.(scs_iv_rx) x.(scs_compress_alg) x.(scs_port_id).
Definition put_scs_mac_key_rx (v : option buffer) (x : sdup_crypto_state) : sdup_crypto_state :=
  mk_sdup_crypto_state x.(scs_enable_crypto_tx) x.(scs_enable_crypto_rx) x.(scs_mac_alg)
  x.(scs_mac_key_tx) v x.(scs_enc_alg) x.(scs_encrypt_key_tx) x.(scs_encrypt_key_rx) x.(scs_iv_tx)
  x.(scs_iv_rx) x.(scs_compress_alg) x.(scs_port_id).
Definition put_scs_enc_alg (v : string_ptr) (x : sdup_crypto_state) : sdup_crypto_state :=
  mk_sdup_crypto_state x.(scs_enable_crypto_tx) x.(scs_enable_crypto_rx) x.(scs_mac_alg)
  x.(scs_mac_key_tx) x.(scs_mac_key_rx) v x.(scs_encrypt_key_tx) x.(scs_encrypt_key_rx)
  x.(scs_iv_tx) x.(scs_iv_rx) x.(scs_compress_alg) x.(scs_port_id).
Definition put_scs_encrypt_key_tx (v : option buffer) (x : sdup_crypto_state) : sdup_crypto_state
  := mk_sdup_crypto_state x.(scs_enable_crypto_tx) x.(scs_enable_crypto_rx) x.(scs_mac_alg)
  x.(scs_mac_key_tx) x.(scs_mac_key_rx) x.(scs_enc_alg) v x.(scs_encrypt_key_rx) x.(scs_iv_tx)
  x.(scs_iv_rx) x.(scs_compress_alg) x.(scs_port_id).
Definition put_scs_encrypt_key_rx (v : option buffer) (x : sdup_crypto_state) : sdup_crypto_state
  := mk_sdup_crypto_state x.(scs_enable_crypto_tx) x.(scs_enable_crypto_rx) x.(scs_mac_alg)
  x.(scs_mac_key_tx) x.(scs_mac_key_rx) x.(scs_enc_alg) x.(scs_encrypt_key_tx) v x.(scs_iv_tx)
  x.(scs_iv_rx) x.(scs_compress_alg) x.(scs_port_id).
Definition put_scs_iv_tx (v : option buffer) (x : sdup_crypto_state) : sdup_crypto_state :=
  mk_sdup_crypto_state x.(scs_enable_crypto_tx) x.(scs_enable_crypto_rx) x.(scs_mac_alg)
  x.(scs_mac_key_tx) x.(scs_mac_key_rx) x.(scs_enc_alg) x.(scs_encrypt_key_tx)
  x.(scs_encrypt_key_rx) v x.(scs_iv_rx) x.(scs_compress_alg) x.(scs_port_id).
Definition put_scs_iv_rx (v : option buffer) (x : sdup_crypto_state) : sdup_crypto_state :=
  mk_sdup_crypto_state x.(scs_enable_crypto_tx) x.(scs_enable_crypto_rx) x.(scs_mac_alg)
  x.(scs_mac_key_tx) x.(scs_mac_key_rx) x.(scs_enc_alg) x.(scs_encrypt_key_tx)
  x.(scs_encrypt_key_rx) x.(scs_iv_tx) v x.(scs_compress_alg) x.(scs_port_id).
Definition put_scs_compress_alg (v : string_ptr) (x : sdup_crypto_state) : sdup_crypto_state :=
  mk_sdup_crypto_state x.(scs_enable_crypto_tx) x.(scs_enable_crypto_rx) x.(scs_mac_alg)
  x.(scs_mac_key_tx) x.(scs_mac_key_rx) x.(scs_enc_alg) x.(scs_encrypt_key_tx)
  x.(scs_encrypt_key_rx) x.(scs_iv_tx) x.(scs_iv_rx) v x.(scs_port_id).
Definition put_scs_port_id (v : Z) (x : sdup_crypto_state) : sdup_crypto_state :=
  mk_sdup_crypto_state x.(scs_enable_crypto_tx) x.(scs_enable_crypto_rx) x.(scs_mac_alg)
  x.(scs_mac_key_tx) x.(scs_mac_key_rx) x.(scs_enc_alg) x.(scs_encrypt_key_tx)
  x.(scs_encrypt_key_rx) x.(scs_iv_tx) x.(scs_iv_rx) x.(scs_compress_alg) v.

Definition put_pia_ports (v : list Z) (x : port_id_altlist) : port_id_altlist :=
  mk_port_id_altlist v x.(pia_num_ports).
Definition put_pia_num_ports (v : Z) (x : port_id_altlist) : port_id_altlist := mk_port_id_altlist
  x.(pia_ports) v.

Definition put_mpe_fwd_info (v : Z) (x : mod_pff_entry) : mod_pff_entry := mk_mod_pff_entry v
  x.(mpe_qos_id) x.(mpe_cost) x.(mpe_port_id_altlists).
Definition put_mpe_qos_id (v : Z) (x : mod_pff_entry) : mod_pff_entry := mk_mod_pff_entry
  x.(mpe_fwd_info) v x.(mpe_cost) x.(mpe_port_id_altlists).
Definition put_mpe_cost (v : Z) (x : mod_pff_entry) : mod_pff_entry := mk_mod_pff_entry
  x.(mpe_fwd_info) x.(mpe_qos_id) v x.(mpe_port_id_altlists).
Definition put_mpe_port_id_altlists (v : list port_id_altlist) (x : mod_pff_entry) : mod_pff_entry
  := mk_mod_pff_entry x.(mpe_fwd_info) x.(mpe_qos_id) x.(mpe_cost) v.

Definition put_pel_pff_entries (v : list mod_pff_entry) (x : pff_entry_list) : pff_entry_list :=
  mk_pff_entry_list v.

Definition put_bie_signal_strength (v : Z) (x : bs_info_entry) : bs_info_entry := mk_bs_info_entry
  v x.(bie_ipcp_addr).
Definition put_bie_ipcp_addr (v : string_ptr) (x : bs_info_entry) : bs_info_entry :=
  mk_bs_info_entry x.(bie_signal_strength) v.

Definition put_mdi_dif_name (v : string_ptr) (x : media_dif_info) : media_dif_info :=
  mk_media_dif_info v x.(mdi_sec_policies) x.(mdi_available_bs_ipcps).
Definition put_mdi_sec_policies (v : string_ptr) (x : media_dif_info) : media_dif_info :=
  mk_media_dif_info x.(mdi_dif_name) v x.(mdi_available_bs_ipcps).
Definition put_mdi_available_bs_ipcps (v : list bs_info_entry) (x : media_dif_info) :
  media_dif_info := mk_media_dif_info x.(mdi_dif_name) x.(mdi_sec_policies) v.

Definition put_mre_ipcp_id (v : Z) (x : media_report) : media_report := mk_media_report v
  x.(mre_dif_name) x.(mre_bs_ipcp_addr) x.(mre_available_difs).
Definition put_mre_dif_name (v : string_ptr) (x : media_report) : media_report := mk_media_report
  x.(mre_ipcp_id) v x.(mre_bs_ipcp_addr) x.(mre_available_difs).
Definition put_mre_bs_ipcp_addr (v : string_ptr) (x : media_report) : media_report :=
  mk_media_report x.(mre_ipcp_id) x.(mre_dif_name) v x.(mre_available_difs).
Definition put_mre_available_difs (v : list media_info_entry) (x : media_report) : media_report :=
  mk_media_report x.(mre_ipcp_id) x.(mre_dif_name) x.(mre_bs_ipcp_addr) v.

