(* ===== verification/Names.v ===== *)
(** * Names

    The functions of [src/common/serdes-utils.c] on [struct name]: comparison, copies, and the
    conversion to and from one string with the components separated by a bar.  A string is
    the list of its bytes without the terminator; [None] is a null pointer.  The oracle
    decides the allocations ([COMMON_ALLOC], [COMMON_STRDUP]). *)

From S2P Require Import Prelude Kucommon Config.
From Stdlib Require Import ZArith Lia.
From stdpp Require Import base list numbers option.
#[local] Open Scope Z_scope.

(** The characters the code looks for: ':' and '|'. *)
Definition colon : Z := 58.
Definition bar : Z := 124.

(** ** Validity *)

(** The loop over the string: [cnt] colons have been seen. *)
Fixpoint sername_loop (cnt : Z) (s : cstring) : bool :=
  match s with
  | [] => true
  | c :: s' =>
      if c =? colon then if 3 <? cnt + 1 then false else sername_loop (cnt + 1) s'
      else sername_loop cnt s'
  end.

Definition rina_sername_valid (str : string_ptr) : Z :=
  match str with
  | None | Some [] => 0
  | Some (c :: s) => if sername_loop 0 (c :: s) then (if c =? colon then 0 else 1) else 0
  end.

Definition rina_name_valid (p : option name) : Z :=
  match p with
  | Some n => match n.(process_name) with None | Some [] => 0 | Some _ => 1 end
  | None => 0
  end.

(** ** Comparison *)

(** [!!one ^ !!two] and [strcmp]: whether a component differs. *)
Definition component_differs (one two : string_ptr) : bool :=
  match one, two with
  | None, None => false
  | Some s, Some t => negb (bool_decide (s = t))
  | _, _ => true
  end.

Definition rina_name_cmp (one two : option name) : Z :=
  match one, two with
  | None, None => 0
  | None, Some _ | Some _, None => 1
  | Some a, Some b =>
      if component_differs a.(process_name) b.(process_name) then -1
      else if component_differs a.(process_instance) b.(process_instance) then -1
      else if component_differs a.(entity_name) b.(entity_name) then -1
      else if component_differs a.(entity_instance) b.(entity_instance) then -1
      else 0
  end.

(** ** Copies *)

(** [s ? COMMON_STRDUP(s) : NULL] *)
Definition strdup (s : string_ptr) (o : oracle) : string_ptr * oracle :=
  match s with
  | None => (None, o)
  | Some s => let '(ok, o) := rkmalloc o in (if ok then Some s else None, o)
  end.

Definition rina_name_copy (dst src : option name) (o : oracle) : Z * option name * oracle :=
  match dst, src with
  | Some _, Some src =>
      let '(pn, o) := strdup src.(process_name) o in
      let '(pi, o) := strdup src.(process_instance) o in
      let '(en, o) := strdup src.(entity_name) o in
      let '(ei, o) := strdup src.(entity_instance) o in
      (0, Some (mk_name pn pi en ei), o)
  | _, _ => (0, dst, o)
  end.

(** The new destination and source. *)
Definition rina_name_move (dst src : option name) : option name * option name :=
  match dst, src with
  | Some _, Some s => (Some s, Some (mk_name None None None None))
  | _, _ => (dst, src)
  end.

(** [(s && strlen(s)) ? COMMON_STRDUP(s) : NULL] *)
Definition strdup_nonempty (s : string_ptr) (o : oracle) : string_ptr * oracle :=
  match s with
  | None | Some [] => (None, o)
  | Some _ => strdup s o
  end.

Definition is_nonempty (s : string_ptr) : bool :=
  match s with None | Some [] => false | Some _ => true end.

(** [s && strlen(s) && !copy] *)
Definition lost (s copy : string_ptr) : bool := is_nonempty s && negb (bool_decide (is_Some copy)).

(** The name is released when a component cannot be copied: [None]. *)
Definition __rina_name_fill (nm : option name) (apn api aen aei : string_ptr) (o : oracle)
  : Z * option name * oracle :=
  match nm with
  | None => (-1, None, o)
  | Some _ =>
      let '(pn, o) := strdup_nonempty apn o in
      let '(pi, o) := strdup_nonempty api o in
      let '(en, o) := strdup_nonempty aen o in
      let '(ei, o) := strdup_nonempty aei o in
      if lost apn pn || lost api pi || lost aen en || lost aei ei then (-1, None, o)
      else (0, Some (mk_name pn pi en ei), o)
  end.

(** ** Conversion to a string and back *)

Definition str (s : string_ptr) : cstring := default [] s.

Definition __rina_name_to_string (p : option name) (o : oracle) : string_ptr * oracle :=
  match p with
  | None => (None, o)
  | Some n =>
      let '(ok, o) := rkmalloc o in
      if ok then
        (Some (str n.(process_name) ++ [bar] ++ str n.(process_instance) ++ [bar] ++
               str n.(entity_name) ++ [bar] ++ str n.(entity_instance)), o)
      else (None, o)
  end.

(** The string up to the first bar and what follows it. *)
Fixpoint cut (s : cstring) : cstring * string_ptr :=
  match s with
  | [] => ([], None)
  | c :: s' => if c =? bar then ([], Some s') else let '(tok, rest) := cut s' in (c :: tok, rest)
  end.

(** [strsep(strp, "|")]: the token and the new value of [*strp]. *)
Definition strsep (s : string_ptr) : string_ptr * string_ptr :=
  match s with
  | None => (None, None)
  | Some s => let '(tok, rest) := cut s in (Some tok, rest)
  end.

(** The result of [__rina_name_fill] is not looked at. *)
Definition __rina_name_from_string (s : cstring) (o : oracle) : Z * option name * oracle :=
  let '(ok, o) := rkmalloc o in
  if negb ok then (-1, Some (mk_name None None None None), o)
  else
    let '(apn, strc) := strsep (Some s) in
    let '(api, strc) := strsep strc in
    let '(aen, strc) := strsep strc in
    let '(aei, strc) := strsep strc in
    match apn with
    | None => (-1, Some (mk_name None None None None), o)
    | Some _ =>
        let '(_, nm, o) := __rina_name_fill (Some (mk_name None None None None)) apn api aen aei o in
        (0, nm, o)
    end.

(** ** Lemmas *)

(** A component without bars, and how an empty one is read. *)
Definition no_bar (s : string_ptr) : Prop := bar ∉ str s.
Definition nonempty (s : string_ptr) : string_ptr := if is_nonempty s then s else None.

Lemma cut_app s t : bar ∉ s -> cut (s ++ bar :: t) = (s, Some t).
Proof.
  induction s as [|c s IH]; intros Hs; cbn; [done|].
  apply not_elem_of_cons in Hs as [Hc Hs]. rewrite IH by done.
  by replace (c =? bar) with false by (symmetry; apply Z.eqb_neq; congruence).
Qed.

Lemma cut_end s : bar ∉ s -> cut s = (s, None).
Proof.
  induction s as [|c s IH]; intros Hs; cbn; [done|].
  apply not_elem_of_cons in Hs as [Hc Hs]. rewrite IH by done.
  by replace (c =? bar) with false by (symmetry; apply Z.eqb_neq; congruence).
Qed.

Lemma strdup_nonempty_granted s : strdup_nonempty (Some (str s)) [] = (nonempty s, []).
Proof. by destruct s as [[|? ?]|]. Qed.

Lemma lost_granted s : lost (Some (str s)) (nonempty s) = false.
Proof. by destruct s as [[|? ?]|]. Qed.

Lemma component_differs_spec s t : component_differs s t = negb (bool_decide (s = t)).
Proof. destruct s, t; cbn; repeat case_bool_decide; cbn; congruence. Qed.

Lemma rina_name_cmp_zero a b : rina_name_cmp a b = 0 <-> a = b.
Proof.
  destruct a as [[p i e k]|], b as [[p' i' e' k']|]; cbn; try (split; congruence).
  rewrite !component_differs_spec. repeat case_bool_decide; cbn; split; congruence.
Qed.

(** ** Theorems *)

(** A name whose components hold no bar survives the conversion to a string and back, except
    that an empty component comes back as a null pointer. *)
Theorem rina_name_string_roundtrip (n : name) :
  no_bar n.(process_name) -> no_bar n.(process_instance) ->
  no_bar n.(entity_name) -> no_bar n.(entity_instance) ->
  exists s, __rina_name_to_string (Some n) [] = (Some s, []) /\
    __rina_name_from_string s [] =
      (0, Some (mk_name (nonempty n.(process_name)) (nonempty n.(process_instance))
                        (nonempty n.(entity_name)) (nonempty n.(entity_instance))), []).
Proof.
  intros H1 H2 H3 H4. eexists. split; [reflexivity|].
  unfold __rina_name_from_string; cbn [rkmalloc negb]. unfold strsep. cbn [app].
  rewrite !cut_app by done. rewrite cut_end by done.
  unfold __rina_name_fill. rewrite !strdup_nonempty_granted, !lost_granted. done.
Qed.

Lemma rina_name_string_roundtrip_witness :
  exists s, __rina_name_to_string (Some (mk_name (Some [97; 46; 73]) (Some [49]) None (Some []))) [] = (Some s, []) /\
    __rina_name_from_string s [] = (0, Some (mk_name (Some [97; 46; 73]) (Some [49]) None None), []).
Proof.
  apply (rina_name_string_roundtrip (mk_name (Some [97; 46; 73]) (Some [49]) None (Some [])));
    apply (bool_decide_unpack _); vm_compute; exact I.
Defined.

(** [rina_name_cmp] is 0 exactly on equal names, null components being different from empty
    ones, and a name compared with a copy made with enough memory is equal to it. *)
Theorem rina_name_cmp_spec (a b : option name) (n d : name) :
  (rina_name_cmp a b = 0 <-> a = b) /\
  exists c, rina_name_copy (Some d) (Some n) [] = (0, c, []) /\ rina_name_cmp c (Some n) = 0.
Proof.
  split; [apply rina_name_cmp_zero|]. exists (Some n). rewrite rina_name_cmp_zero. split; [|done].
  by destruct n as [[p|] [i|] [e|] [k|]].
Qed.

(** When the memory for a component runs out, [__rina_name_from_string] reports success although the
    name it was given has been released. *)
Lemma rina_name_from_string_released :
  __rina_name_from_string [97; bar; 49] [true; true; false] = (0, None, []).
Proof. reflexivity. Qed.
