(* ===== verification/Serdes.v ===== *)
(** * Serialisation of the control messages

    [src/common/serdes-utils.c]: what every [serialize_X] writes, what every
    [deserialize_X] reads and the number of bytes [X_serlen] announces.

    - [serialize_X p] is the list of bytes the function writes at [*pptr] for the
      pointer [p]; a null pointer of most structures writes nothing.
    - A deserialiser works on the structure it fills in and on the bytes that are
      left, and returns normally (a result of 0) or early with a code.  It keeps the
      fields filled in so far when it fails, as the code does: some callers ignore the
      failure.  [None] is a fault: a read behind the end of the buffer or a
      write through a null pointer.
    - Every allocation may fail; its outcome comes from the oracle [rd_alloc].
      [rd_junk] is the value of an integer variable that the code returns without having
      assigned it.
    - [X_serlen] is computed in [int], with its wrap-around. *)

From S2P Require Import Prelude Kucommon Config.
From Stdlib Require Import ZArith.
From stdpp Require Import base list numbers option.
#[local] Open Scope Z_scope.

(** ** Reading a buffer *)

Record rd := mk_rd { rd_buf : list Z; rd_alloc : oracle; rd_junk : Z }.

(** A reader that fills in a structure of type [X] and yields an [A], or returns early
    with a code. *)
Definition D (X A : Type) : Type := X -> rd -> option ((A + Z) * X * rd).

Section Reader.
Context {X : Type}.

Definition D_ret {A} (a : A) : D X A := fun x r => Some (inl a, x, r).

Definition D_bind {A B} (d : D X A) (k : A -> D X B) : D X B := fun x r =>
  match d x r with
  | Some (inl a, x', r') => k a x' r'
  | Some (inr e, x', r') => Some (inr e, x', r')
  | None => None
  end.

(** [return code;] *)
Definition D_return {A} (code : Z) : D X A := fun x r => Some (inr code, x, r).

(** [if (ret) return ret;] *)
Definition D_check (ret : Z) : D X unit := if ret =? 0 then D_ret tt else D_return ret.

Definition D_fault {A} : D X A := fun _ _ => None.

(** An assignment to a field of the structure, and its value. *)
Definition D_put (f : X -> X) : D X unit := fun x r => Some (inl tt, f x, r).
Definition D_get {A} (f : X -> A) : D X A := fun x r => Some (inl (f x), x, r).

(** [n] bytes at the read pointer, which moves behind them. *)
Definition D_bytes (n : Z) : D X (list Z) := fun x r =>
  if (n <=? Z.of_nat (length r.(rd_buf)))
  then Some (inl (take (Z.to_nat n) r.(rd_buf)), x,
             mk_rd (drop (Z.to_nat n) r.(rd_buf)) r.(rd_alloc) r.(rd_junk))
  else None.

(** [COMMON_ALLOC]: whether the allocation succeeds. *)
Definition D_alloc : D X bool := fun x r =>
  let '(b, o) := rkmalloc r.(rd_alloc) in Some (inl b, x, mk_rd r.(rd_buf) o r.(rd_junk)).

(** The value of a variable that was not assigned. *)
Definition D_junk : D X Z := fun x r => Some (inl r.(rd_junk), x, r).

(** [for (i = 0; i < n; i++)] *)
Fixpoint D_repeat (n : nat) (d : D X unit) : D X unit :=
  match n with
  | O => D_ret tt
  | S n' => D_bind d (fun _ => D_repeat n' d)
  end.

Definition D_when (b : bool) (d : D X unit) : D X unit := if b then d else D_ret tt.

(** A call of a reader on the structure at a pointer field: the field holds what the
    call leaves there, and the result of the call is looked at or ignored. *)
Definition D_try {Y} (put : Y -> X -> X) (y : Y) (d : D Y unit) : D X Z := fun x r =>
  match d y r with
  | Some (inl _, y', r') => Some (inl 0, put y' x, r')
  | Some (inr e, y', r') => Some (inl e, put y' x, r')
  | None => None
  end.

Definition D_field {Y} (put : option Y -> X -> X) (d : D (option Y) unit) : D X unit :=
  D_bind (D_try put None d) D_check.

(** A call on a structure that is not part of [X] yet; it is leaked when the call fails. *)
Definition D_local {Y} (y : Y) (d : D Y unit) : D X Y := fun x r =>
  match d y r with
  | Some (inl _, y', r') => Some (inl y', x, r')
  | Some (inr e, _, r') => Some (inr e, x, r')
  | None => None
  end.

End Reader.

Declare Scope serdes_scope.
Delimit Scope serdes_scope with serdes.
Notation "x <- d ;; k" := (D_bind d (fun x => k)) (at level 100, d at next level, k at level 200, right associativity) : serdes_scope.
Notation "d1 ;; d2" := (D_bind d1 (fun _ => d2)) (at level 100, d2 at level 200, right associativity) : serdes_scope.
#[local] Open Scope serdes_scope.

(** [p = X_create(); if (!p) return -1;] followed by a reader of the new structure. *)
Definition D_new {Y} (create : Y) (d : D Y unit) : D (option Y) unit :=
  ok <- D_alloc;;
  if ok : bool then ret <- D_try (fun y _ => Some y) create d;; D_check ret else D_return (-1).

(** The same for the element [pos] of a list. *)
Definition D_elem {X Y} (create : Y) (d : D Y unit) : D X Y :=
  ok <- D_alloc;;
  if ok : bool then D_local create d else D_return (-1).

(** An entry of a list that points to the element: two allocations. *)
Definition D_entry {X Y} (create : Y) (d : D Y unit) : D X Y :=
  ok <- D_alloc;;
  if ok : bool then D_elem create d else D_return (-1).

(** ** Numbers ([serialize_obj], [deserialize_obj]) *)

Inductive ctype := uint8 | uint16 | uint32 | uint64 | int16 | int32.

Definition sizeof (t : ctype) : nat :=
  match t with
  | uint8 => 1 | uint16 | int16 => 2 | uint32 | int32 => 4 | uint64 => 8
  end.

Definition is_signed (t : ctype) : bool :=
  match t with int16 | int32 => true | _ => false end.

(** The conversion of an integer to type [t]. *)
Definition to_ctype (t : ctype) (z : Z) : Z :=
  if is_signed t then swrap (8 * Z.of_nat (sizeof t)) z else uwrap (8 * Z.of_nat (sizeof t)) z.

Definition serialize_obj (t : ctype) (v : Z) : list Z := le_encode (sizeof t) v.

Definition deserialize_obj {X} (t : ctype) (put : Z -> X -> X) : D X unit :=
  bs <- D_bytes (Z.of_nat (sizeof t));; D_put (put (to_ctype t (le_decode bs))).

Definition deserialize_num {X} (t : ctype) : D X Z :=
  bs <- D_bytes (Z.of_nat (sizeof t));; D_ret (to_ctype t (le_decode bs)).

Definition serialize_bool (b : bool) : list Z := serialize_obj uint8 (Z.b2z b).

Definition deserialize_bool {X} (put : bool -> X -> X) : D X unit :=
  deserialize_obj uint8 (fun v => put (negb (v =? 0))).

(** ** Strings and buffers *)

Definition string_prlen (s : string_ptr) : Z :=
  let slen := from_option (fun s => Z.of_nat (length s)) 0 s in
  if 65535 <? slen then 65535 else slen.

Definition serialize_string (s : string_ptr) : list Z :=
  serialize_obj uint16 (string_prlen s) ++
  take (Z.to_nat (string_prlen s)) (from_option id [] s).

(** The C string in a buffer: the bytes before the first null byte. *)
Fixpoint c_string (bs : list Z) : cstring :=
  match bs with
  | [] => []
  | b :: bs' => if b =? 0 then [] else b :: c_string bs'
  end.

Definition deserialize_string : D string_ptr unit :=
  slen <- deserialize_num uint16;;
  ok <- D_alloc;;
  if ok : bool then
    bs <- D_bytes slen;;
    D_put (fun _ => Some (c_string bs))
  else D_put (fun _ => None);; D_return (-1).

Definition buffer_prlen (b : option buffer) : Z := from_option buf_size 0 b.

Definition serialize_buffer (b : option buffer) : list Z :=
  match b with
  | None => serialize_obj uint32 0
  | Some b => serialize_obj uint32 b.(buf_size) ++ take (Z.to_nat b.(buf_size)) b.(buf_data)
  end.

(** The fields of a buffer whose data could not be allocated are its size and a null
    pointer. *)
Definition deserialize_buffer : D (option buffer) unit :=
  blen <- deserialize_num uint32;;
  if negb (blen =? 0) then
    ok <- D_alloc;;
    if ok : bool then
      ok <- D_alloc;;
      if ok : bool then
        bs <- D_bytes blen;;
        D_put (fun _ => Some (mk_buffer bs blen))
      else D_put (fun _ => Some (mk_buffer [] blen));; D_return (-1)
    else D_put (fun _ => None);; D_return (-1)
  else D_put (fun _ => None).

(** A list is written as the number of its elements, counted in a [uint16_t], and the
    elements. *)
Definition serialize_list {Y} (ser : Y -> list Z) (l : list Y) : list Z :=
  serialize_obj uint16 (Z.of_nat (length l)) ++ concat (map ser l).

Definition deserialize_list {X Y} (elem : D X Y) (add : Y -> X -> X) : D X unit :=
  size <- deserialize_num uint16;;
  D_repeat (Z.to_nat size) (pos <- elem;; D_put (add pos)).

(** [list_for_each_entry(pos, ...) ret = ret + X_serlen(pos);] *)
Definition add_serlen {Y} (serlen : Y -> Z) (ret : Z) (l : list Y) : Z :=
  foldl (fun ret pos => s32 (ret + serlen pos)) ret l.

(** ** Names *)

Definition rina_name_serlen (p : option name) : Z :=
  let ret := 4 * 2 in
  match p with
  | None => ret
  | Some n => u32 (ret + string_prlen n.(process_name) + string_prlen n.(process_instance)
                   + string_prlen n.(entity_name) + string_prlen n.(entity_instance))
  end.

Definition serialize_rina_name (p : option name) : list Z :=
  match p with
  | None => []
  | Some n => serialize_string n.(process_name) ++ serialize_string n.(process_instance) ++
              serialize_string n.(entity_name) ++ serialize_string n.(entity_instance)
  end.

Definition deserialize_rina_name : D (option name) unit :=
  D_new rina_name_create
    (D_field put_process_name deserialize_string;;
     D_field put_process_instance deserialize_string;;
     D_field put_entity_name deserialize_string;;
     D_field put_entity_instance deserialize_string).

(** ** Flow specifications *)

Definition flow_spec_serlen (p : option flow_spec) : Z :=
  match p with
  | None => 0
  | Some _ => 8 * 4 + 4 + 2 + 3 * 1
  end.

Definition serialize_flow_spec (p : option flow_spec) : list Z :=
  match p with
  | None => []
  | Some f =>
      serialize_obj uint32 f.(fs_average_bandwidth) ++
      serialize_obj uint32 f.(fs_average_sdu_bandwidth) ++
      serialize_obj uint32 f.(fs_delay) ++
      serialize_obj uint32 f.(fs_jitter) ++
      serialize_obj uint16 f.(fs_loss) ++
      serialize_obj int32 f.(fs_max_allowable_gap) ++
      serialize_obj uint32 f.(fs_max_sdu_size) ++
      serialize_bool f.(fs_ordered_delivery) ++
      serialize_bool f.(fs_partial_delivery) ++
      serialize_obj uint32 f.(fs_peak_bandwidth_duration) ++
      serialize_obj uint32 f.(fs_peak_sdu_bandwidth_duration) ++
      serialize_obj int32 f.(fs_undetected_bit_error_rate) ++
      serialize_bool f.(fs_msg_boundaries)
  end.

(** The error rate is read as an [int32_t] and stored in a [uint32_t]. *)
Definition deserialize_flow_spec : D (option flow_spec) unit :=
  D_new rina_fspec_create
    (deserialize_obj uint32 put_fs_average_bandwidth;;
     deserialize_obj uint32 put_fs_average_sdu_bandwidth;;
     deserialize_obj uint32 put_fs_delay;;
     deserialize_obj uint32 put_fs_jitter;;
     deserialize_obj uint16 put_fs_loss;;
     deserialize_obj int32 put_fs_max_allowable_gap;;
     deserialize_obj uint32 put_fs_max_sdu_size;;
     deserialize_bool put_fs_ordered_delivery;;
     deserialize_bool put_fs_partial_delivery;;
     deserialize_obj uint32 put_fs_peak_bandwidth_duration;;
     deserialize_obj uint32 put_fs_peak_sdu_bandwidth_duration;;
     deserialize_obj int32 (fun v => put_fs_undetected_bit_error_rate (u32 v));;
     deserialize_bool put_fs_msg_boundaries).

(** ** Policies *)

Definition policy_parm_serlen (p : policy_parm) : Z :=
  s32 (2 * 2 + string_prlen p.(parm_name) + string_prlen p.(parm_value)).

Definition serialize_policy_parm (p : policy_parm) : list Z :=
  serialize_string p.(parm_name) ++ serialize_string p.(parm_value).

Definition deserialize_policy_parm : D policy_parm unit :=
  D_field put_parm_name deserialize_string;;
  D_field put_parm_value deserialize_string.

Definition policy_serlen (p : option policy) : Z :=
  match p with
  | None => 0
  | Some p =>
      let ret := s32 (2 * 2 + string_prlen p.(policy_name) + string_prlen p.(policy_version) + 2) in
      add_serlen policy_parm_serlen ret p.(policy_params)
  end.

Definition serialize_policy (p : option policy) : list Z :=
  match p with
  | None => []
  | Some p =>
      serialize_string p.(policy_name) ++
      serialize_string p.(policy_version) ++
      serialize_list serialize_policy_parm p.(policy_params)
  end.

Definition deserialize_policy : D policy unit :=
  D_field put_policy_name deserialize_string;;
  D_field put_policy_version deserialize_string;;
  deserialize_list (D_elem policy_parm_create deserialize_policy_parm)
    (fun pos p => put_policy_params (p.(policy_params) ++ [pos]) p).

(** [p->f = policy_create(); if (!p->f) return -1; ret = deserialize_policy(pptr, p->f);] *)
Definition D_policy {X} (put : option policy -> X -> X) : D X unit :=
  D_field put (D_new policy_create deserialize_policy).

(** ** Configuration of the transfer protocols *)

Definition dtp_config_serlen (p : option dtp_config) : Z :=
  match p with
  | None => 0
  | Some c => s32 (4 * 1 + 4 + 4 + 4 + policy_serlen c.(dtp_ps_policy))
  end.

Definition serialize_dtp_config (p : option dtp_config) : list Z :=
  match p with
  | None => []
  | Some c =>
      serialize_bool c.(dtcp_present) ++
      serialize_obj int32 c.(seq_num_ro_th) ++
      serialize_obj uint32 c.(initial_a_timer) ++
      serialize_bool c.(dtpc_partial_delivery) ++
      serialize_bool c.(dtpc_incomplete_delivery) ++
      serialize_bool c.(dtpc_in_order_delivery) ++
      serialize_obj uint32 c.(dtpc_max_sdu_gap) ++
      serialize_policy c.(dtp_ps_policy)
  end.

Definition deserialize_dtp_config : D (option dtp_config) unit :=
  D_new dtp_config_create
    (deserialize_bool put_dtcp_present;;
     deserialize_obj int32 put_seq_num_ro_th;;
     deserialize_obj uint32 put_initial_a_timer;;
     deserialize_bool put_dtpc_partial_delivery;;
     deserialize_bool put_dtpc_incomplete_delivery;;
     deserialize_bool put_dtpc_in_order_delivery;;
     deserialize_obj uint32 put_dtpc_max_sdu_gap;;
     D_policy put_dtp_ps_policy).

Definition window_fctrl_config_serlen (p : option window_fctrl_config) : Z :=
  match p with
  | None => 0
  | Some c => s32 (2 * 4 + policy_serlen c.(wfc_rcvr_flow_control) + policy_serlen c.(wfc_tx_control))
  end.

Definition serialize_window_fctrl_config (p : option window_fctrl_config) : list Z :=
  match p with
  | None => []
  | Some c =>
      serialize_obj uint32 c.(initial_credit) ++
      serialize_obj uint32 c.(max_closed_winq_length) ++
      serialize_policy c.(wfc_rcvr_flow_control) ++
      serialize_policy c.(wfc_tx_control)
  end.

Definition deserialize_window_fctrl_config : D window_fctrl_config unit :=
  deserialize_obj uint32 put_initial_credit;;
  deserialize_obj uint32 put_max_closed_winq_length;;
  D_policy put_wfc_rcvr_flow_control;;
  D_policy put_wfc_tx_control.

Definition rate_fctrl_config_serlen (p : option rate_fctrl_config) : Z :=
  match p with
  | None => 0
  | Some c => s32 (2 * 4 + policy_serlen c.(rfc_rate_reduction) + policy_serlen c.(rfc_no_rate_slow_down)
                   + policy_serlen c.(rfc_no_override_default_peak))
  end.

Definition serialize_rate_fctrl_config (p : option rate_fctrl_config) : list Z :=
  match p with
  | None => []
  | Some c =>
      serialize_obj uint32 c.(sending_rate) ++
      serialize_obj uint32 c.(time_period) ++
      serialize_policy c.(rfc_no_override_default_peak) ++
      serialize_policy c.(rfc_no_rate_slow_down) ++
      serialize_policy c.(rfc_rate_reduction)
  end.

Definition deserialize_rate_fctrl_config : D rate_fctrl_config unit :=
  deserialize_obj uint32 put_sending_rate;;
  deserialize_obj uint32 put_time_period;;
  D_policy put_rfc_no_override_default_peak;;
  D_policy put_rfc_no_rate_slow_down;;
  D_policy put_rfc_rate_reduction.

Definition dtcp_fctrl_config_serlen (p : option dtcp_fctrl_config) : Z :=
  match p with
  | None => 0
  | Some c =>
      let ret := s32 (6 * 4 + 2 * 1 + policy_serlen c.(fc_closed_window)
                      + policy_serlen c.(fc_receiving_flow_control)
                      + policy_serlen c.(fc_reconcile_flow_conflict)
                      + policy_serlen c.(fc_flow_control_overrun)) in
      let ret := if c.(window_based_fctrl)
                 then s32 (ret + window_fctrl_config_serlen c.(wfctrl_cfg)) else ret in
      if c.(rate_based_fctrl)
      then s32 (ret + rate_fctrl_config_serlen c.(rfctrl_cfg)) else ret
  end.

Definition serialize_dtcp_fctrl_config (p : option dtcp_fctrl_config) : list Z :=
  match p with
  | None => []
  | Some c =>
      serialize_obj uint32 c.(rcvd_buffers_th) ++
      serialize_obj uint32 c.(rcvd_bytes_percent_th) ++
      serialize_obj uint32 c.(rcvd_bytes_th) ++
      serialize_obj uint32 c.(sent_buffers_th) ++
      serialize_obj uint32 c.(sent_bytes_percent_th) ++
      serialize_obj uint32 c.(sent_bytes_th) ++
      serialize_bool c.(window_based_fctrl) ++
      serialize_bool c.(rate_based_fctrl) ++
      serialize_policy c.(fc_closed_window) ++
      serialize_policy c.(fc_receiving_flow_control) ++
      serialize_policy c.(fc_reconcile_flow_conflict) ++
      serialize_policy c.(fc_flow_control_overrun) ++
      (if c.(window_based_fctrl) then serialize_window_fctrl_config c.(wfctrl_cfg) else []) ++
      (if c.(rate_based_fctrl) then serialize_rate_fctrl_config c.(rfctrl_cfg) else [])
  end.

Definition deserialize_dtcp_fctrl_config : D dtcp_fctrl_config unit :=
  deserialize_obj uint32 put_rcvd_buffers_th;;
  deserialize_obj uint32 put_rcvd_bytes_percent_th;;
  deserialize_obj uint32 put_rcvd_bytes_th;;
  deserialize_obj uint32 put_sent_buffers_th;;
  deserialize_obj uint32 put_sent_bytes_percent_th;;
  deserialize_obj uint32 put_sent_bytes_th;;
  deserialize_bool put_window_based_fctrl;;
  deserialize_bool put_rate_based_fctrl;;
  D_policy put_fc_closed_window;;
  D_policy put_fc_flow_control_overrun;;
  D_policy put_fc_receiving_flow_control;;
  D_policy put_fc_reconcile_flow_conflict;;
  (wb <- D_get window_based_fctrl;;
   D_when wb (D_field put_wfctrl_cfg
                (D_new window_fctrl_config_create deserialize_window_fctrl_config)));;
  (rb <- D_get rate_based_fctrl;;
   D_when rb (D_field put_rfctrl_cfg
                (D_new rate_fctrl_config_create deserialize_rate_fctrl_config))).

Definition dtcp_rxctrl_config_serlen (p : option dtcp_rxctrl_config) : Z :=
  match p with
  | None => 0
  | Some c => s32 (3 * 4 + policy_serlen c.(rx_rcvr_ack) + policy_serlen c.(rx_rcvr_control_ack)
                   + policy_serlen c.(rx_receiving_ack_list)
                   + policy_serlen c.(rx_retransmission_timer_expiry)
                   + policy_serlen c.(rx_sender_ack) + policy_serlen c.(rx_sending_ack))
  end.

Definition serialize_dtcp_rxctrl_config (p : option dtcp_rxctrl_config) : list Z :=
  match p with
  | None => []
  | Some c =>
      serialize_obj uint32 c.(rx_data_retransmit_max) ++
      serialize_obj uint32 c.(initial_tr) ++
      serialize_obj uint32 c.(max_time_retry) ++
      serialize_policy c.(rx_rcvr_ack) ++
      serialize_policy c.(rx_rcvr_control_ack) ++
      serialize_policy c.(rx_receiving_ack_list) ++
      serialize_policy c.(rx_retransmission_timer_expiry) ++
      serialize_policy c.(rx_sender_ack) ++
      serialize_policy c.(rx_sending_ack)
  end.

Definition deserialize_dtcp_rxctrl_config : D dtcp_rxctrl_config unit :=
  deserialize_obj uint32 put_rx_data_retransmit_max;;
  deserialize_obj uint32 put_initial_tr;;
  deserialize_obj uint32 put_max_time_retry;;
  D_policy put_rx_rcvr_ack;;
  D_policy put_rx_rcvr_control_ack;;
  D_policy put_rx_receiving_ack_list;;
  D_policy put_rx_retransmission_timer_expiry;;
  D_policy put_rx_sender_ack;;
  D_policy put_rx_sending_ack.

Definition dtcp_config_serlen (p : option dtcp_config) : Z :=
  match p with
  | None => 0
  | Some c =>
      let ret := s32 (2 * 1 + policy_serlen c.(dc_dtcp_ps) + policy_serlen c.(dc_lost_control_pdu)
                      + policy_serlen c.(dc_rtt_estimator)) in
      let ret := if c.(flow_ctrl) then s32 (ret + dtcp_fctrl_config_serlen c.(fctrl_cfg)) else ret in
      if c.(rtx_ctrl) then s32 (ret + dtcp_rxctrl_config_serlen c.(rxctrl_cfg)) else ret
  end.

Definition serialize_dtcp_config (p : option dtcp_config) : list Z :=
  match p with
  | None => []
  | Some c =>
      serialize_bool c.(flow_ctrl) ++
      serialize_bool c.(rtx_ctrl) ++
      serialize_policy c.(dc_dtcp_ps) ++
      serialize_policy c.(dc_lost_control_pdu) ++
      serialize_policy c.(dc_rtt_estimator) ++
      (if c.(flow_ctrl) then serialize_dtcp_fctrl_config c.(fctrl_cfg) else []) ++
      (if c.(rtx_ctrl) then serialize_dtcp_rxctrl_config c.(rxctrl_cfg) else [])
  end.

Definition deserialize_dtcp_config : D (option dtcp_config) unit :=
  D_new dtcp_config_create
    (deserialize_bool put_flow_ctrl;;
     deserialize_bool put_rtx_ctrl;;
     D_policy put_dc_dtcp_ps;;
     D_policy put_dc_lost_control_pdu;;
     D_policy put_dc_rtt_estimator;;
     (fc <- D_get flow_ctrl;;
      D_when fc (D_field put_fctrl_cfg
                   (D_new dtcp_fctrl_config_create deserialize_dtcp_fctrl_config)));;
     (rx <- D_get rtx_ctrl;;
      D_when rx (D_field put_rxctrl_cfg
                   (D_new dtcp_rxctrl_config_create deserialize_dtcp_rxctrl_config)))).

(** ** Configuration of the other components of an IPC process *)

Definition pff_config_serlen (p : option pff_config) : Z :=
  match p with None => 0 | Some c => policy_serlen c.(pffc_policy_set) end.

Definition serialize_pff_config (p : option pff_config) : list Z :=
  match p with None => [] | Some c => serialize_policy c.(pffc_policy_set) end.

Definition deserialize_pff_config : D pff_config unit := D_policy put_pffc_policy_set.

Definition rmt_config_serlen (p : option rmt_config) : Z :=
  match p with
  | None => 0
  | Some c => s32 (policy_serlen c.(rmtc_policy_set) + pff_config_serlen c.(rmtc_pff_conf))
  end.

Definition serialize_rmt_config (p : option rmt_config) : list Z :=
  match p with
  | None => []
  | Some c => serialize_policy c.(rmtc_policy_set) ++ serialize_pff_config c.(rmtc_pff_conf)
  end.

Definition deserialize_rmt_config : D rmt_config unit :=
  D_policy put_rmtc_policy_set;;
  D_field put_rmtc_pff_conf (D_new pff_config_create deserialize_pff_config).

Definition dt_cons_serlen (p : option dt_cons) : Z :=
  match p with None => 0 | Some _ => 9 * 2 + 6 * 4 + 3 * 1 end.

Definition serialize_dt_cons (p : option dt_cons) : list Z :=
  match p with
  | None => []
  | Some c =>
      serialize_obj uint16 c.(address_length) ++
      serialize_obj uint16 c.(cep_id_length) ++
      serialize_obj uint16 c.(ctrl_seq_num_length) ++
      serialize_bool c.(dif_integrity) ++
      serialize_obj uint16 c.(frame_length) ++
      serialize_obj uint16 c.(length_length) ++
      serialize_obj uint32 c.(max_pdu_life) ++
      serialize_obj uint32 c.(max_pdu_size) ++
      serialize_obj uint32 c.(max_sdu_size) ++
      serialize_obj uint16 c.(port_id_length) ++
      serialize_obj uint16 c.(qos_id_length) ++
      serialize_obj uint16 c.(rate_length) ++
      serialize_obj uint16 c.(seq_num_length) ++
      serialize_obj uint32 c.(seq_rollover_thres) ++
      serialize_obj uint32 c.(max_time_to_ack_) ++
      serialize_obj uint32 c.(max_time_to_keep_ret_) ++
      serialize_bool c.(dif_frag) ++
      serialize_bool c.(dif_concat)
  end.

Definition deserialize_dt_cons : D dt_cons unit :=
  deserialize_obj uint16 put_address_length;;
  deserialize_obj uint16 put_cep_id_length;;
  deserialize_obj uint16 put_ctrl_seq_num_length;;
  deserialize_bool put_dif_integrity;;
  deserialize_obj uint16 put_frame_length;;
  deserialize_obj uint16 put_length_length;;
  deserialize_obj uint32 put_max_pdu_life;;
  deserialize_obj uint32 put_max_pdu_size;;
  deserialize_obj uint32 put_max_sdu_size;;
  deserialize_obj uint16 put_port_id_length;;
  deserialize_obj uint16 put_qos_id_length;;
  deserialize_obj uint16 put_rate_length;;
  deserialize_obj uint16 put_seq_num_length;;
  deserialize_obj uint32 put_seq_rollover_thres;;
  deserialize_obj uint32 put_max_time_to_ack_;;
  deserialize_obj uint32 put_max_time_to_keep_ret_;;
  deserialize_bool put_dif_frag;;
  deserialize_bool put_dif_concat.

Definition qos_cube_serlen (p : option qos_cube) : Z :=
  match p with
  | None => 0
  | Some c => s32 (6 * 4 + 2 * 1 + 4 + 3 * 2 + string_prlen c.(qc_name)
                   + dtp_config_serlen c.(qc_dtpc) + dtcp_config_serlen c.(qc_dtcpc))
  end.

Definition serialize_qos_cube (p : option qos_cube) : list Z :=
  match p with
  | None => []
  | Some c =>
      serialize_obj uint16 c.(qc_id) ++
      serialize_obj uint32 c.(qc_avg_bw) ++
      serialize_obj uint32 c.(qc_avg_sdu_bw) ++
      serialize_obj uint32 c.(qc_peak_bw_duration) ++
      serialize_obj uint32 c.(qc_peak_sdu_bw_duration) ++
      serialize_bool c.(qc_partial_delivery) ++
      serialize_bool c.(qc_ordered_delivery) ++
      serialize_obj int32 c.(qc_max_allowed_gap) ++
      serialize_obj uint32 c.(qc_delay) ++
      serialize_obj uint32 c.(qc_jitter) ++
      serialize_obj uint16 c.(qc_loss) ++
      serialize_string c.(qc_name) ++
      serialize_dtp_config c.(qc_dtpc) ++
      serialize_dtcp_config c.(qc_dtcpc)
  end.

Definition deserialize_qos_cube : D qos_cube unit :=
  deserialize_obj uint16 put_qc_id;;
  deserialize_obj uint32 put_qc_avg_bw;;
  deserialize_obj uint32 put_qc_avg_sdu_bw;;
  deserialize_obj uint32 put_qc_peak_bw_duration;;
  deserialize_obj uint32 put_qc_peak_sdu_bw_duration;;
  deserialize_bool put_qc_partial_delivery;;
  deserialize_bool put_qc_ordered_delivery;;
  deserialize_obj int32 put_qc_max_allowed_gap;;
  deserialize_obj uint32 put_qc_delay;;
  deserialize_obj uint32 put_qc_jitter;;
  deserialize_obj uint16 put_qc_loss;;
  D_field put_qc_name deserialize_string;;
  D_field put_qc_dtpc deserialize_dtp_config;;
  D_field put_qc_dtcpc deserialize_dtcp_config.

(** The offset table is an array of [ssize_t]; here its bytes.  Only the first
    [sizeof(ssize_t)] of them are written. *)
Definition efcp_config_serlen (p : option efcp_config) : Z :=
  match p with
  | None => 0
  | Some c =>
      let ret := s32 (dt_cons_serlen c.(efc_dt_cons) + 1 + 2 + policy_serlen c.(efc_unknown_flow)) in
      let ret := if c.(efc_pci_offset_table) then s32 (ret + 8) else ret in
      add_serlen qos_cube_serlen ret c.(efc_qos_cubes)
  end.

Definition serialize_efcp_config (p : option efcp_config) : list Z :=
  match p with
  | None => []
  | Some c =>
      serialize_dt_cons c.(efc_dt_cons) ++
      serialize_policy c.(efc_unknown_flow) ++
      match c.(efc_pci_offset_table) with
      | Some t => serialize_obj uint8 8 ++ take 8 t
      | None => serialize_obj uint8 0
      end ++
      serialize_list serialize_qos_cube c.(efc_qos_cubes)
  end.

Definition deserialize_efcp_config : D efcp_config unit :=
  D_field put_efc_dt_cons (D_new dt_cons_create deserialize_dt_cons);;
  D_policy put_efc_unknown_flow;;
  (size <- deserialize_num uint8;;
   if 0 <? size then
     ok <- D_alloc;;
     if ok : bool then
       bs <- D_bytes size;;
       D_put (put_efc_pci_offset_table (Some bs))
     else D_put (put_efc_pci_offset_table None);; D_return (-1)
   else D_put (put_efc_pci_offset_table None));;
  deserialize_list (D_entry qos_cube_create deserialize_qos_cube)
    (fun pos c => put_efc_qos_cubes (c.(efc_qos_cubes) ++ [Some pos]) c).

Definition fa_config_serlen (p : option fa_config) : Z :=
  match p with
  | None => 0
  | Some c => s32 (4 + policy_serlen c.(fac_allocate_notify) + policy_serlen c.(fac_allocate_retry)
                   + policy_serlen c.(fac_new_flow_req) + policy_serlen c.(fac_ps)
                   + policy_serlen c.(fac_seq_roll_over))
  end.

Definition serialize_fa_config (p : option fa_config) : list Z :=
  match p with
  | None => []
  | Some c =>
      serialize_obj uint32 c.(fac_max_create_flow_retries) ++
      serialize_policy c.(fac_allocate_notify) ++
      serialize_policy c.(fac_allocate_retry) ++
      serialize_policy c.(fac_new_flow_req) ++
      serialize_policy c.(fac_ps) ++
      serialize_policy c.(fac_seq_roll_over)
  end.

Definition deserialize_fa_config : D fa_config unit :=
  deserialize_obj uint32 put_fac_max_create_flow_retries;;
  D_policy put_fac_allocate_notify;;
  D_policy put_fac_allocate_retry;;
  D_policy put_fac_new_flow_req;;
  D_policy put_fac_ps;;
  D_policy put_fac_seq_roll_over.

Definition resall_config_serlen (p : option resall_config) : Z :=
  match p with None => 0 | Some c => policy_serlen c.(resc_pff_gen) end.

Definition serialize_resall_config (p : option resall_config) : list Z :=
  match p with None => [] | Some c => serialize_policy c.(resc_pff_gen) end.

Definition deserialize_resall_config : D resall_config unit := D_policy put_resc_pff_gen.

Definition et_config_serlen (p : option et_config) : Z :=
  match p with None => 0 | Some c => policy_serlen c.(etc_ps) end.

Definition serialize_et_config (p : option et_config) : list Z :=
  match p with None => [] | Some c => serialize_policy c.(etc_ps) end.

Definition deserialize_et_config : D et_config unit := D_policy put_etc_ps.

Definition static_ipcp_addr_serlen (p : option static_ipcp_addr) : Z :=
  match p with
  | None => 0
  | Some a => s32 (2 * 2 + 4 + string_prlen a.(sia_ap_name) + string_prlen a.(sia_ap_instance))
  end.

Definition serialize_static_ipcp_addr (p : option static_ipcp_addr) : list Z :=
  match p with
  | None => []
  | Some a => serialize_obj uint32 a.(sia_address) ++ serialize_string a.(sia_ap_name) ++
              serialize_string a.(sia_ap_instance)
  end.

Definition deserialize_static_ipcp_addr : D static_ipcp_addr unit :=
  deserialize_obj uint32 put_sia_address;;
  D_field put_sia_ap_name deserialize_string;;
  D_field put_sia_ap_instance deserialize_string.

Definition address_pref_config_serlen (p : option address_pref_config) : Z :=
  match p with
  | None => 0
  | Some a => s32 (2 + 4 + string_prlen a.(apc_org))
  end.

Definition serialize_address_pref_config (p : option address_pref_config) : list Z :=
  match p with
  | None => []
  | Some a => serialize_obj uint32 a.(apc_prefix) ++ serialize_string a.(apc_org)
  end.

Definition deserialize_address_pref_config : D address_pref_config unit :=
  deserialize_obj uint32 put_apc_prefix;;
  D_field put_apc_org deserialize_string.

Definition addressing_config_serlen (p : option addressing_config) : Z :=
  match p with
  | None => 0
  | Some a =>
      let ret := add_serlen static_ipcp_addr_serlen (2 * 2) a.(ac_static_ipcp_addrs) in
      add_serlen address_pref_config_serlen ret a.(ac_address_prefixes)
  end.

Definition serialize_addressing_config (p : option addressing_config) : list Z :=
  match p with
  | None => []
  | Some a =>
      serialize_list serialize_static_ipcp_addr a.(ac_static_ipcp_addrs) ++
      serialize_list serialize_address_pref_config a.(ac_address_prefixes)
  end.

(** [ret] is assigned in the loops only: with two empty lists the value returned is the
    one the variable happens to hold. *)
Definition deserialize_addressing_config : D addressing_config unit :=
  (size <- deserialize_num uint16;;
   D_repeat (Z.to_nat size)
     (pos <- D_entry static_ipcp_addr_create deserialize_static_ipcp_addr;;
      D_put (fun a => put_ac_static_ipcp_addrs (a.(ac_static_ipcp_addrs) ++ [Some pos]) a));;
   size' <- deserialize_num uint16;;
   D_repeat (Z.to_nat size')
     (pos <- D_entry address_pref_config_create deserialize_address_pref_config;;
      D_put (fun a => put_ac_address_prefixes (a.(ac_address_prefixes) ++ [Some pos]) a));;
   D_when ((size =? 0) && (size' =? 0)) (ret <- D_junk;; D_check ret)).

Definition nsm_config_serlen (p : option nsm_config) : Z :=
  match p with
  | None => 0
  | Some c => s32 (addressing_config_serlen c.(nsmc_addr_conf) + policy_serlen c.(nsmc_ps))
  end.

Definition serialize_nsm_config (p : option nsm_config) : list Z :=
  match p with
  | None => []
  | Some c => serialize_policy c.(nsmc_ps) ++ serialize_addressing_config c.(nsmc_addr_conf)
  end.

Definition deserialize_nsm_config : D nsm_config unit :=
  D_policy put_nsmc_ps;;
  D_field put_nsmc_addr_conf (D_new addressing_config_create deserialize_addressing_config).

Definition auth_sdup_profile_serlen (p : option auth_sdup_profile) : Z :=
  match p with
  | None => 0
  | Some c => s32 (policy_serlen c.(asp_auth) + policy_serlen c.(asp_encrypt)
                   + policy_serlen c.(asp_crc) + policy_serlen c.(asp_ttl))
  end.

Definition serialize_auth_sdup_profile (p : option auth_sdup_profile) : list Z :=
  match p with
  | None => []
  | Some c => serialize_policy c.(asp_auth) ++ serialize_policy c.(asp_encrypt) ++
              serialize_policy c.(asp_crc) ++ serialize_policy c.(asp_ttl)
  end.

Definition deserialize_auth_sdup_profile : D auth_sdup_profile unit :=
  D_policy put_asp_auth;;
  D_policy put_asp_encrypt;;
  D_policy put_asp_crc;;
  D_policy put_asp_ttl.

Definition secman_config_serlen (p : option secman_config) : Z :=
  match p with
  | None => 0
  | Some c =>
      let ret := s32 (2 + policy_serlen c.(sc_ps) + auth_sdup_profile_serlen c.(sc_default_profile)) in
      add_serlen (fun pos => auth_sdup_profile_serlen pos.(aspe_entry) + 2
                             + string_prlen pos.(aspe_n1_dif_name)) ret c.(sc_specific_profiles)
  end.

Definition serialize_secman_config (p : option secman_config) : list Z :=
  match p with
  | None => []
  | Some c =>
      serialize_policy c.(sc_ps) ++
      serialize_auth_sdup_profile c.(sc_default_profile) ++
      serialize_list (fun pos => serialize_string pos.(aspe_n1_dif_name) ++
                                 serialize_auth_sdup_profile pos.(aspe_entry))
        c.(sc_specific_profiles)
  end.

(** [p->f = X_create(); if (!p->f) return -1; deserialize_X(pptr, p->f);]: the result of the
    call is not looked at. *)
Definition D_ignore {X Y} (put : option Y -> X -> X) (create : Y) (d : D Y unit) : D X unit :=
  ok <- D_alloc;;
  if ok : bool then D_try (fun y => put (Some y)) create d;; D_ret tt
  else D_put (put None);; D_return (-1).

Definition deserialize_secman_config : D secman_config unit :=
  D_ignore put_sc_ps policy_create deserialize_policy;;
  D_ignore put_sc_default_profile auth_sdup_profile_create deserialize_auth_sdup_profile;;
  deserialize_list
    (ok <- D_alloc;;
     if ok : bool then
       n1 <- D_local None deserialize_string;;
       e <- D_elem auth_sdup_profile_create deserialize_auth_sdup_profile;;
       D_ret (mk_auth_sdup_profile_entry n1 (Some e))
     else D_return (-1))
    (fun pos c => put_sc_specific_profiles (c.(sc_specific_profiles) ++ [pos]) c).

Definition routing_config_serlen (p : option routing_config) : Z :=
  match p with None => 0 | Some c => policy_serlen c.(rc_ps) end.

Definition serialize_routing_config (p : option routing_config) : list Z :=
  match p with None => [] | Some c => serialize_policy c.(rc_ps) end.

Definition deserialize_routing_config : D routing_config unit := D_policy put_rc_ps.

Definition ipcp_config_entry_serlen (p : option ipcp_config_entry) : Z :=
  match p with
  | None => 0
  | Some e => s32 (2 * 2 + string_prlen e.(ice_name) + string_prlen e.(ice_value))
  end.

Definition serialize_ipcp_config_entry (p : option ipcp_config_entry) : list Z :=
  match p with
  | None => []
  | Some e => serialize_string e.(ice_name) ++ serialize_string e.(ice_value)
  end.

Definition deserialize_ipcp_config_entry : D ipcp_config_entry unit :=
  D_field put_ice_name deserialize_string;;
  D_field put_ice_value deserialize_string.

(** ** Configuration of a DIF *)

Definition dif_config_serlen (p : option dif_config) : Z :=
  match p with
  | None => 0
  | Some c =>
      let ret := add_serlen ipcp_config_entry_serlen (4 + 2) c.(dif_ipcp_config_entries) in
      s32 (ret + efcp_config_serlen c.(dif_efcp_config) + rmt_config_serlen c.(dif_rmt_config)
           + fa_config_serlen c.(dif_fa_config) + et_config_serlen c.(dif_et_config)
           + nsm_config_serlen c.(dif_nsm_config) + routing_config_serlen c.(dif_routing_config)
           + resall_config_serlen c.(dif_resall_config) + secman_config_serlen c.(dif_secman_config))
  end.

Definition serialize_dif_config (p : option dif_config) : list Z :=
  match p with
  | None => []
  | Some c =>
      serialize_obj uint32 c.(dif_address) ++
      serialize_list serialize_ipcp_config_entry c.(dif_ipcp_config_entries) ++
      serialize_efcp_config c.(dif_efcp_config) ++
      serialize_rmt_config c.(dif_rmt_config) ++
      serialize_fa_config c.(dif_fa_config) ++
      serialize_et_config c.(dif_et_config) ++
      serialize_nsm_config c.(dif_nsm_config) ++
      serialize_routing_config c.(dif_routing_config) ++
      serialize_resall_config c.(dif_resall_config) ++
      serialize_secman_config c.(dif_secman_config)
  end.

(** The results of the sub-configurations are ignored, and [ret] is assigned in the loop
    over the entries only. *)
Definition deserialize_dif_config : D (option dif_config) unit :=
  D_new dif_config_create
    (deserialize_obj uint32 put_dif_address;;
     size <- deserialize_num uint16;;
     D_repeat (Z.to_nat size)
       (pos <- D_entry ipcp_config_entry_create deserialize_ipcp_config_entry;;
        D_put (fun c => put_dif_ipcp_config_entries (c.(dif_ipcp_config_entries) ++ [Some pos]) c));;
     D_ignore put_dif_efcp_config efcp_config_create deserialize_efcp_config;;
     D_ignore put_dif_rmt_config rmt_config_create deserialize_rmt_config;;
     D_ignore put_dif_fa_config fa_config_create deserialize_fa_config;;
     D_ignore put_dif_et_config et_config_create deserialize_et_config;;
     D_ignore put_dif_nsm_config nsm_config_create deserialize_nsm_config;;
     D_ignore put_dif_routing_config routing_config_create deserialize_routing_config;;
     D_ignore put_dif_resall_config resall_config_create deserialize_resall_config;;
     D_ignore put_dif_secman_config secman_config_create deserialize_secman_config;;
     D_when (size =? 0) (ret <- D_junk;; D_check ret)).

(** ** The RIB *)

Definition rib_object_data_serlen (o : rib_object_data) : Z :=
  s32 (3 * 2 + string_prlen o.(rod_name) + string_prlen o.(rod_clazz)
       + string_prlen o.(rod_disp_value) + 8).

Definition serialize_rib_object_data (o : rib_object_data) : list Z :=
  serialize_obj uint64 o.(rod_instance) ++
  serialize_string o.(rod_name) ++
  serialize_string o.(rod_clazz) ++
  serialize_string o.(rod_disp_value).

Definition deserialize_rib_object_data : D rib_object_data unit :=
  deserialize_obj uint64 put_rod_instance;;
  D_field put_rod_name deserialize_string;;
  D_field put_rod_clazz deserialize_string;;
  D_field put_rod_disp_value deserialize_string.

Definition query_rib_resp_serlen (p : option query_rib_resp) : Z :=
  match p with
  | None => 0
  | Some q => add_serlen rib_object_data_serlen 2 q.(qrr_rib_object_data_entries)
  end.

Definition serialize_query_rib_resp (p : option query_rib_resp) : list Z :=
  match p with
  | None => []
  | Some q => serialize_list serialize_rib_object_data q.(qrr_rib_object_data_entries)
  end.

Definition deserialize_query_rib_resp : D (option query_rib_resp) unit :=
  D_new query_rib_resp_create
    (deserialize_list (D_elem rib_object_data_create deserialize_rib_object_data)
       (fun pos q => put_qrr_rib_object_data_entries (q.(qrr_rib_object_data_entries) ++ [pos]) q)).

(** ** Forwarding tables *)

Definition port_id_altlist_serlen (l : port_id_altlist) : Z := s32 (2 + l.(pia_num_ports) * 4).

Definition serialize_port_id_altlist (l : port_id_altlist) : list Z :=
  let plength := l.(pia_num_ports) * 4 in
  serialize_obj uint16 l.(pia_num_ports) ++
  (if 0 <? plength
   then take (Z.to_nat plength) (concat (map (serialize_obj int32) l.(pia_ports))) else []).

(** The ports of an array of bytes. *)
Fixpoint ports_of (n : nat) (bs : list Z) : list Z :=
  match n with
  | O => []
  | S n' => to_ctype int32 (le_decode (take 4 bs)) :: ports_of n' (drop 4 bs)
  end.

(** The allocation is not tested. *)
Definition deserialize_port_id_altlist : D port_id_altlist unit :=
  deserialize_obj uint16 put_pia_num_ports;;
  n <- D_get pia_num_ports;;
  let plength := n * 4 in
  D_when (0 <? plength)
    (ok <- D_alloc;;
     if ok : bool then
       bs <- D_bytes plength;;
       D_put (put_pia_ports (ports_of (Z.to_nat n) bs))
     else D_fault).

Definition mod_pff_entry_serlen (e : mod_pff_entry) : Z :=
  add_serlen port_id_altlist_serlen (4 + 2 + 2 + 4) e.(mpe_port_id_altlists).

Definition serialize_mod_pff_entry (e : mod_pff_entry) : list Z :=
  serialize_obj uint32 e.(mpe_fwd_info) ++
  serialize_obj int16 e.(mpe_qos_id) ++
  serialize_obj uint32 e.(mpe_cost) ++
  serialize_list serialize_port_id_altlist e.(mpe_port_id_altlists).

Definition deserialize_mod_pff_entry : D mod_pff_entry unit :=
  deserialize_obj uint32 put_mpe_fwd_info;;
  deserialize_obj int16 put_mpe_qos_id;;
  deserialize_obj uint32 put_mpe_cost;;
  deserialize_list (D_elem port_id_altlist_create deserialize_port_id_altlist)
    (fun pos e => put_mpe_port_id_altlists (e.(mpe_port_id_altlists) ++ [pos]) e).

Definition pff_entry_list_serlen (p : option pff_entry_list) : Z :=
  match p with
  | None => 0
  | Some l => add_serlen mod_pff_entry_serlen 2 l.(pel_pff_entries)
  end.

Definition serialize_pff_entry_list (p : option pff_entry_list) : list Z :=
  match p with
  | None => []
  | Some l => serialize_list serialize_mod_pff_entry l.(pel_pff_entries)
  end.

Definition deserialize_pff_entry_list : D (option pff_entry_list) unit :=
  D_new pff_entry_list_create
    (deserialize_list (D_elem mod_pff_entry_create deserialize_mod_pff_entry)
       (fun pos l => put_pel_pff_entries (l.(pel_pff_entries) ++ [pos]) l)).

(** ** SDU protection *)

Definition sdup_crypto_state_serlen (p : option sdup_crypto_state) : Z :=
  match p with
  | None => 0
  | Some c =>
      s32 (2 * 1 + 3 * 2 + 4
           + string_prlen c.(scs_compress_alg) + string_prlen c.(scs_enc_alg)
           + string_prlen c.(scs_mac_alg) + 6 * 4
           + buffer_prlen c.(scs_encrypt_key_rx) + buffer_prlen c.(scs_encrypt_key_tx)
           + buffer_prlen c.(scs_iv_rx) + buffer_prlen c.(scs_iv_tx)
           + buffer_prlen c.(scs_mac_key_rx) + buffer_prlen c.(scs_mac_key_tx))
  end.

Definition serialize_sdup_crypto_state (p : option sdup_crypto_state) : list Z :=
  match p with
  | None => []
  | Some c =>
      serialize_bool c.(scs_enable_crypto_rx) ++
      serialize_bool c.(scs_enable_crypto_tx) ++
      serialize_obj int32 c.(scs_port_id) ++
      serialize_string c.(scs_compress_alg) ++
      serialize_string c.(scs_enc_alg) ++
      serialize_string c.(scs_mac_alg) ++
      serialize_buffer c.(scs_encrypt_key_rx) ++
      serialize_buffer c.(scs_encrypt_key_tx) ++
      serialize_buffer c.(scs_iv_rx) ++
      serialize_buffer c.(scs_iv_tx) ++
      serialize_buffer c.(scs_mac_key_rx) ++
      serialize_buffer c.(scs_mac_key_tx)
  end.

Definition deserialize_sdup_crypto_state : D (option sdup_crypto_state) unit :=
  D_new sdup_crypto_state_create
    (deserialize_bool put_scs_enable_crypto_rx;;
     deserialize_bool put_scs_enable_crypto_tx;;
     deserialize_obj int32 put_scs_port_id;;
     D_field put_scs_compress_alg deserialize_string;;
     D_field put_scs_enc_alg deserialize_string;;
     D_field put_scs_mac_alg deserialize_string;;
     D_field put_scs_encrypt_key_rx deserialize_buffer;;
     D_field put_scs_encrypt_key_tx deserialize_buffer;;
     D_field put_scs_iv_rx deserialize_buffer;;
     D_field put_scs_iv_tx deserialize_buffer;;
     D_field put_scs_mac_key_rx deserialize_buffer;;
     D_field put_scs_mac_key_tx deserialize_buffer).

(** ** Properties of the DIFs *)

Definition dif_properties_entry_serlen (e : dif_properties_entry) : Z :=
  s32 (2 + rina_name_serlen e.(dpe_dif_name)).

Definition serialize_dif_properties_entry (e : dif_properties_entry) : list Z :=
  serialize_obj uint16 e.(dpe_max_sdu_size) ++ serialize_rina_name e.(dpe_dif_name).

Definition deserialize_dif_properties_entry : D dif_properties_entry unit :=
  deserialize_obj uint16 put_dpe_max_sdu_size;;
  D_field put_dpe_dif_name deserialize_rina_name.

Definition get_dif_prop_resp_serlen (p : option get_dif_prop_resp) : Z :=
  match p with
  | None => 0
  | Some g => add_serlen dif_properties_entry_serlen 2 g.(gdp_dif_propery_entries)
  end.

Definition serialize_get_dif_prop_resp (p : option get_dif_prop_resp) : list Z :=
  match p with
  | None => []
  | Some g => serialize_list serialize_dif_properties_entry g.(gdp_dif_propery_entries)
  end.

Definition deserialize_get_dif_prop_resp : D (option get_dif_prop_resp) unit :=
  D_new get_dif_prop_resp_create
    (deserialize_list (D_elem dif_properties_entry_create deserialize_dif_properties_entry)
       (fun pos g => put_gdp_dif_propery_entries (g.(gdp_dif_propery_entries) ++ [pos]) g)).

(** ** Neighbours *)

Definition ipcp_neighbor_serlen (p : option ipcp_neighbor) : Z :=
  match p with
  | None => 0
  | Some n =>
      let ret := s32 (4 * 4 + 1 + 3 * 4 + 2 + rina_name_serlen n.(nei_ipcp_name)
                      + rina_name_serlen n.(nei_sup_dif_name)) in
      add_serlen rina_name_serlen ret n.(nei_supporting_difs)
  end.

Definition serialize_ipcp_neighbor (p : option ipcp_neighbor) : list Z :=
  match p with
  | None => []
  | Some n =>
      serialize_obj uint32 n.(nei_address) ++
      serialize_obj uint32 n.(nei_old_address) ++
      serialize_obj uint32 n.(nei_average_rtt_in_ms) ++
      serialize_obj uint32 n.(nei_num_enroll_attempts) ++
      serialize_bool n.(nei_enrolled) ++
      serialize_obj int32 n.(nei_under_port_id) ++
      serialize_obj int32 n.(nei_intern_port_id) ++
      serialize_obj int32 n.(nei_last_heard_time_ms) ++
      serialize_rina_name n.(nei_ipcp_name) ++
      serialize_rina_name n.(nei_sup_dif_name) ++
      serialize_list serialize_rina_name n.(nei_supporting_difs)
  end.

(** The results for the two names are ignored.  The pointer to a supporting DIF is not
    null when [deserialize_rina_name] has succeeded. *)
Definition deserialize_ipcp_neighbor : D ipcp_neighbor unit :=
  deserialize_obj uint32 put_nei_address;;
  deserialize_obj uint32 put_nei_old_address;;
  deserialize_obj uint32 put_nei_average_rtt_in_ms;;
  deserialize_obj uint32 put_nei_num_enroll_attempts;;
  deserialize_bool put_nei_enrolled;;
  deserialize_obj int32 put_nei_under_port_id;;
  deserialize_obj int32 put_nei_intern_port_id;;
  deserialize_obj int32 put_nei_last_heard_time_ms;;
  D_try put_nei_ipcp_name None deserialize_rina_name;;
  D_try put_nei_sup_dif_name None deserialize_rina_name;;
  deserialize_list
    (ok <- D_alloc;;
     if ok : bool then D_local None deserialize_rina_name else D_return (-1))
    (fun pos n => put_nei_supporting_difs (n.(nei_supporting_difs) ++ [pos]) n).

Definition ipcp_neigh_list_serlen (p : option ipcp_neigh_list) : Z :=
  match p with
  | None => 0
  | Some l => add_serlen ipcp_neighbor_serlen 2 l.(inl_ipcp_neighbors)
  end.

Definition serialize_ipcp_neigh_list (p : option ipcp_neigh_list) : list Z :=
  match p with
  | None => []
  | Some l => serialize_list serialize_ipcp_neighbor l.(inl_ipcp_neighbors)
  end.

Definition deserialize_ipcp_neigh_list : D (option ipcp_neigh_list) unit :=
  D_new ipcp_neigh_list_create
    (deserialize_list (D_entry ipcp_neighbor_create deserialize_ipcp_neighbor)
       (fun pos l => put_inl_ipcp_neighbors (l.(inl_ipcp_neighbors) ++ [Some pos]) l)).

(** ** Media reports *)

Definition bs_info_entry_serlen (e : bs_info_entry) : Z := s32 (4 + 2 + string_prlen e.(bie_ipcp_addr)).

Definition serialize_bs_info_entry (e : bs_info_entry) : list Z :=
  serialize_obj int32 e.(bie_signal_strength) ++ serialize_string e.(bie_ipcp_addr).

Definition deserialize_bs_info_entry : D bs_info_entry unit :=
  deserialize_obj int32 put_bie_signal_strength;;
  D_field put_bie_ipcp_addr deserialize_string.

Definition media_dif_info_serlen (p : option media_dif_info) : Z :=
  match p with
  | None => 0
  | Some m =>
      let ret := s32 (3 * 2 + string_prlen m.(mdi_dif_name) + string_prlen m.(mdi_sec_policies)) in
      add_serlen bs_info_entry_serlen ret m.(mdi_available_bs_ipcps)
  end.

Definition serialize_media_dif_info (p : option media_dif_info) : list Z :=
  match p with
  | None => []
  | Some m => serialize_string m.(mdi_dif_name) ++ serialize_string m.(mdi_sec_policies) ++
              serialize_list serialize_bs_info_entry m.(mdi_available_bs_ipcps)
  end.

Definition deserialize_media_dif_info : D media_dif_info unit :=
  D_field put_mdi_dif_name deserialize_string;;
  D_field put_mdi_sec_policies deserialize_string;;
  deserialize_list (D_elem bs_info_entry_create deserialize_bs_info_entry)
    (fun pos m => put_mdi_available_bs_ipcps (m.(mdi_available_bs_ipcps) ++ [pos]) m).

Definition media_report_serlen (p : option media_report) : Z :=
  match p with
  | None => 0
  | Some m =>
      let ret := s32 (3 * 2 + string_prlen m.(mre_dif_name) + string_prlen m.(mre_bs_ipcp_addr) + 2) in
      add_serlen (fun pos => 2 + string_prlen pos.(mie_dif_name) + media_dif_info_serlen pos.(mie_entry))
        ret m.(mre_available_difs)
  end.

Definition serialize_media_report (p : option media_report) : list Z :=
  match p with
  | None => []
  | Some m =>
      serialize_obj uint16 m.(mre_ipcp_id) ++
      serialize_string m.(mre_dif_name) ++
      serialize_string m.(mre_bs_ipcp_addr) ++
      serialize_list (fun pos => serialize_string pos.(mie_dif_name) ++
                                 serialize_media_dif_info pos.(mie_entry))
        m.(mre_available_difs)
  end.

Definition deserialize_media_report : D (option media_report) unit :=
  D_new media_report_create
    (deserialize_obj uint16 put_mre_ipcp_id;;
     D_field put_mre_dif_name deserialize_string;;
     D_field put_mre_bs_ipcp_addr deserialize_string;;
     deserialize_list
       (ok <- D_alloc;;
        if ok : bool then
          n <- D_local None deserialize_string;;
          e <- D_elem media_dif_info_create deserialize_media_dif_info;;
          D_ret (mk_media_info_entry (Some e) n)
        else D_return (-1))
       (fun pos m => put_mre_available_difs (m.(mre_available_difs) ++ [pos]) m)).
