(* ===== verification/Wire.v ===== *)
(** * What survives serialisation

    For every structure of the control messages, [w_ok] says which values the
    serialisers handle - integers in the range of their C types, strings without a null
    byte, lists no longer than their counter can count, no null pointer where the
    deserialiser expects a structure - and [w_norm] what the receiver reads: a null string
    as the empty string, a string cut at 65535 bytes, a sub-configuration only where the
    flag for it is set.  Where the two sides of the code do not agree, [w_norm] says so:
    see [dtcp_fctrl_config_wire] and [efcp_config_wire]. *)

From S2P Require Import Prelude Kucommon Config Serdes.
From Stdlib Require Import ZArith.
From stdpp Require Import base list numbers option.
#[local] Open Scope Z_scope.

Class Wire (X : Type) := { w_ok : X -> Prop; w_norm : X -> X }.

(** [v] is a value of type [t]. *)
Definition fits (t : ctype) (v : Z) : Prop := to_ctype t v = v.

#[export] Instance fits_dec t v : Decision (fits t v).
Proof. unfold fits. apply _. Defined.

(** ** Strings, lists and pointers *)

#[export] Instance string_wire : Wire string_ptr | 0 := {
  w_ok s := Forall (fun b => b <> 0) (from_option id [] s);
  w_norm s := Some (take (Z.to_nat 65535) (from_option id [] s))
}.

#[export] Instance list_wire {Y} `{Wire Y} : Wire (list Y) | 1 := {
  w_ok l := Z.of_nat (length l) < 65536 /\ Forall w_ok l;
  w_norm l := map w_norm l
}.

#[export] Instance ptr_wire {Y} `{Wire Y} : Wire (option Y) | 1 := {
  w_ok p := match p with Some y => w_ok y | None => False end;
  w_norm p := w_norm <$> p
}.

(** A null buffer is written as an empty one, and an empty one is read as null. *)
#[export] Instance buffer_wire : Wire (option buffer) | 0 := {
  w_ok p := match p with
            | Some b => fits uint32 b.(buf_size) /\ b.(buf_size) = Z.of_nat (length b.(buf_data))
            | None => True
            end;
  w_norm p := match p with
              | Some b => if b.(buf_size) =? 0 then None else Some b
              | None => None
              end
}.

(** ** Structures *)

#[export] Instance name_wire : Wire name := {
  w_ok c :=
    w_ok c.(process_name) /\ w_ok c.(process_instance) /\ w_ok c.(entity_name) /\
    w_ok c.(entity_instance);
  w_norm c :=
    mk_name (w_norm c.(process_name)) (w_norm c.(process_instance)) (w_norm c.(entity_name))
      (w_norm c.(entity_instance))
}.

#[export] Instance flow_spec_wire : Wire flow_spec := {
  w_ok c :=
    fits uint32 c.(fs_average_bandwidth) /\ fits uint32 c.(fs_average_sdu_bandwidth) /\
    fits uint32 c.(fs_delay) /\ fits uint32 c.(fs_jitter) /\ fits uint16 c.(fs_loss) /\
    fits int32 c.(fs_max_allowable_gap) /\ fits uint32 c.(fs_max_sdu_size) /\
    fits uint32 c.(fs_peak_bandwidth_duration) /\
    fits uint32 c.(fs_peak_sdu_bandwidth_duration) /\
    fits uint32 c.(fs_undetected_bit_error_rate);
  w_norm c :=
    mk_flow_spec c.(fs_average_bandwidth) c.(fs_average_sdu_bandwidth) c.(fs_delay)
      c.(fs_jitter) c.(fs_loss) c.(fs_max_allowable_gap) c.(fs_max_sdu_size)
      c.(fs_ordered_delivery) c.(fs_partial_delivery) c.(fs_peak_bandwidth_duration)
      c.(fs_peak_sdu_bandwidth_duration) c.(fs_undetected_bit_error_rate) c.(fs_msg_boundaries)
}.

#[export] Instance policy_parm_wire : Wire policy_parm := {
  w_ok c :=
    w_ok c.(parm_name) /\ w_ok c.(parm_value);
  w_norm c :=
    mk_policy_parm (w_norm c.(parm_name)) (w_norm c.(parm_value))
}.

#[export] Instance policy_wire : Wire policy := {
  w_ok c :=
    w_ok c.(policy_name) /\ w_ok c.(policy_version) /\ w_ok c.(policy_params);
  w_norm c :=
    mk_policy (w_norm c.(policy_name)) (w_norm c.(policy_version)) (w_norm c.(policy_params))
}.

#[export] Instance dtp_config_wire : Wire dtp_config := {
  w_ok c :=
    fits int32 c.(seq_num_ro_th) /\ fits uint32 c.(initial_a_timer) /\
    fits uint32 c.(dtpc_max_sdu_gap) /\ w_ok c.(dtp_ps_policy);
  w_norm c :=
    mk_dtp_config c.(dtcp_present) c.(seq_num_ro_th) c.(initial_a_timer)
      c.(dtpc_partial_delivery) c.(dtpc_incomplete_delivery) c.(dtpc_in_order_delivery)
      c.(dtpc_max_sdu_gap) (w_norm c.(dtp_ps_policy))
}.

#[export] Instance window_fctrl_config_wire : Wire window_fctrl_config := {
  w_ok c :=
    fits uint32 c.(max_closed_winq_length) /\ fits uint32 c.(initial_credit) /\
    w_ok c.(wfc_rcvr_flow_control) /\ w_ok c.(wfc_tx_control);
  w_norm c :=
    mk_window_fctrl_config c.(max_closed_winq_length) c.(initial_credit)
      (w_norm c.(wfc_rcvr_flow_control)) (w_norm c.(wfc_tx_control))
}.

#[export] Instance rate_fctrl_config_wire : Wire rate_fctrl_config := {
  w_ok c :=
    fits uint32 c.(sending_rate) /\ fits uint32 c.(time_period) /\
    w_ok c.(rfc_no_rate_slow_down) /\ w_ok c.(rfc_no_override_default_peak) /\
    w_ok c.(rfc_rate_reduction);
  w_norm c :=
    mk_rate_fctrl_config c.(sending_rate) c.(time_period) (w_norm c.(rfc_no_rate_slow_down))
      (w_norm c.(rfc_no_override_default_peak)) (w_norm c.(rfc_rate_reduction))
}.

(** The four policies are written in the order closed window, receiving flow control,
    reconcile flow conflict, flow control overrun, and read in the order closed window, flow control
    overrun, receiving flow control, reconcile flow conflict. *)
#[export] Instance dtcp_fctrl_config_wire : Wire dtcp_fctrl_config := {
  w_ok c :=
    (c.(window_based_fctrl) = true -> w_ok c.(wfctrl_cfg)) /\
    (c.(rate_based_fctrl) = true -> w_ok c.(rfctrl_cfg)) /\
    fits uint32 c.(sent_bytes_th) /\ fits uint32 c.(sent_bytes_percent_th) /\
    fits uint32 c.(sent_buffers_th) /\ fits uint32 c.(rcvd_bytes_th) /\
    fits uint32 c.(rcvd_bytes_percent_th) /\ fits uint32 c.(rcvd_buffers_th) /\
    w_ok c.(fc_closed_window) /\ w_ok c.(fc_reconcile_flow_conflict) /\
    w_ok c.(fc_receiving_flow_control) /\ w_ok c.(fc_flow_control_overrun);
  w_norm c :=
    mk_dtcp_fctrl_config
      c.(window_based_fctrl) (if c.(window_based_fctrl) then w_norm c.(wfctrl_cfg) else None)
      c.(rate_based_fctrl) (if c.(rate_based_fctrl) then w_norm c.(rfctrl_cfg) else None)
      c.(sent_bytes_th) c.(sent_bytes_percent_th) c.(sent_buffers_th)
      c.(rcvd_bytes_th) c.(rcvd_bytes_percent_th) c.(rcvd_buffers_th)
      (w_norm c.(fc_closed_window))
      (w_norm c.(fc_flow_control_overrun))
      (w_norm c.(fc_reconcile_flow_conflict))
      (w_norm c.(fc_receiving_flow_control))
}.

#[export] Instance dtcp_rxctrl_config_wire : Wire dtcp_rxctrl_config := {
  w_ok c :=
    fits uint32 c.(max_time_retry) /\ fits uint32 c.(rx_data_retransmit_max) /\
    fits uint32 c.(initial_tr) /\ w_ok c.(rx_retransmission_timer_expiry) /\
    w_ok c.(rx_sender_ack) /\ w_ok c.(rx_receiving_ack_list) /\ w_ok c.(rx_rcvr_ack) /\
    w_ok c.(rx_sending_ack) /\ w_ok c.(rx_rcvr_control_ack);
  w_norm c :=
    mk_dtcp_rxctrl_config c.(max_time_retry) c.(rx_data_retransmit_max) c.(initial_tr)
      (w_norm c.(rx_retransmission_timer_expiry)) (w_norm c.(rx_sender_ack))
      (w_norm c.(rx_receiving_ack_list)) (w_norm c.(rx_rcvr_ack)) (w_norm c.(rx_sending_ack))
      (w_norm c.(rx_rcvr_control_ack))
}.

#[export] Instance dtcp_config_wire : Wire dtcp_config := {
  w_ok c :=
    (c.(flow_ctrl) = true -> w_ok c.(fctrl_cfg)) /\ (c.(rtx_ctrl) = true -> w_ok c.(rxctrl_cfg)) /\
    w_ok c.(dc_lost_control_pdu) /\ w_ok c.(dc_dtcp_ps) /\ w_ok c.(dc_rtt_estimator);
  w_norm c :=
    mk_dtcp_config
      c.(flow_ctrl) (if c.(flow_ctrl) then w_norm c.(fctrl_cfg) else None)
      c.(rtx_ctrl) (if c.(rtx_ctrl) then w_norm c.(rxctrl_cfg) else None)
      (w_norm c.(dc_lost_control_pdu)) (w_norm c.(dc_dtcp_ps)) (w_norm c.(dc_rtt_estimator))
}.

#[export] Instance dt_cons_wire : Wire dt_cons := {
  w_ok c :=
    fits uint16 c.(address_length) /\ fits uint16 c.(cep_id_length) /\
    fits uint16 c.(length_length) /\ fits uint16 c.(port_id_length) /\
    fits uint16 c.(qos_id_length) /\ fits uint16 c.(seq_num_length) /\
    fits uint16 c.(ctrl_seq_num_length) /\ fits uint32 c.(max_pdu_size) /\
    fits uint32 c.(max_sdu_size) /\ fits uint32 c.(max_pdu_life) /\
    fits uint16 c.(rate_length) /\ fits uint16 c.(frame_length) /\
    fits uint32 c.(seq_rollover_thres) /\ fits uint32 c.(max_time_to_keep_ret_) /\
    fits uint32 c.(max_time_to_ack_);
  w_norm c :=
    mk_dt_cons c.(address_length) c.(cep_id_length) c.(length_length) c.(port_id_length)
      c.(qos_id_length) c.(seq_num_length) c.(ctrl_seq_num_length) c.(max_pdu_size)
      c.(max_sdu_size) c.(max_pdu_life) c.(rate_length) c.(frame_length) c.(dif_integrity)
      c.(seq_rollover_thres) c.(dif_concat) c.(dif_frag) c.(max_time_to_keep_ret_)
      c.(max_time_to_ack_)
}.

#[export] Instance qos_cube_wire : Wire qos_cube := {
  w_ok c :=
    w_ok c.(qc_name) /\ fits uint16 c.(qc_id) /\ fits uint32 c.(qc_avg_bw) /\
    fits uint32 c.(qc_avg_sdu_bw) /\ fits uint32 c.(qc_peak_bw_duration) /\
    fits uint32 c.(qc_peak_sdu_bw_duration) /\ fits int32 c.(qc_max_allowed_gap) /\
    fits uint32 c.(qc_delay) /\ fits uint32 c.(qc_jitter) /\ fits uint16 c.(qc_loss) /\
    w_ok c.(qc_dtpc) /\ w_ok c.(qc_dtcpc);
  w_norm c :=
    mk_qos_cube (w_norm c.(qc_name)) c.(qc_id) c.(qc_avg_bw) c.(qc_avg_sdu_bw)
      c.(qc_peak_bw_duration) c.(qc_peak_sdu_bw_duration) c.(qc_partial_delivery)
      c.(qc_ordered_delivery) c.(qc_max_allowed_gap) c.(qc_delay) c.(qc_jitter) c.(qc_loss)
      (w_norm c.(qc_dtpc)) (w_norm c.(qc_dtcpc))
}.

(** Of the offset table only the first entry is transferred. *)
#[export] Instance efcp_config_wire : Wire efcp_config := {
  w_ok c :=
    w_ok c.(efc_dt_cons) /\
    match c.(efc_pci_offset_table) with Some t => (8 <= length t)%nat | None => True end /\
    w_ok c.(efc_unknown_flow) /\ w_ok c.(efc_qos_cubes);
  w_norm c :=
    mk_efcp_config (w_norm c.(efc_dt_cons)) (take 8 <$> c.(efc_pci_offset_table))
      (w_norm c.(efc_unknown_flow)) (w_norm c.(efc_qos_cubes))
}.

#[export] Instance fa_config_wire : Wire fa_config := {
  w_ok c :=
    w_ok c.(fac_ps) /\ w_ok c.(fac_allocate_notify) /\ w_ok c.(fac_allocate_retry) /\
    w_ok c.(fac_new_flow_req) /\ w_ok c.(fac_seq_roll_over) /\
    fits uint32 c.(fac_max_create_flow_retries);
  w_norm c :=
    mk_fa_config (w_norm c.(fac_ps)) (w_norm c.(fac_allocate_notify))
      (w_norm c.(fac_allocate_retry)) (w_norm c.(fac_new_flow_req))
      (w_norm c.(fac_seq_roll_over)) c.(fac_max_create_flow_retries)
}.

#[export] Instance resall_config_wire : Wire resall_config := {
  w_ok c :=
    w_ok c.(resc_pff_gen);
  w_norm c :=
    mk_resall_config (w_norm c.(resc_pff_gen))
}.

#[export] Instance et_config_wire : Wire et_config := {
  w_ok c :=
    w_ok c.(etc_ps);
  w_norm c :=
    mk_et_config (w_norm c.(etc_ps))
}.

#[export] Instance static_ipcp_addr_wire : Wire static_ipcp_addr := {
  w_ok c :=
    w_ok c.(sia_ap_name) /\ w_ok c.(sia_ap_instance) /\ fits uint32 c.(sia_address);
  w_norm c :=
    mk_static_ipcp_addr (w_norm c.(sia_ap_name)) (w_norm c.(sia_ap_instance)) c.(sia_address)
}.

#[export] Instance address_pref_config_wire : Wire address_pref_config := {
  w_ok c :=
    w_ok c.(apc_org) /\ fits uint32 c.(apc_prefix);
  w_norm c :=
    mk_address_pref_config (w_norm c.(apc_org)) c.(apc_prefix)
}.

#[export] Instance addressing_config_wire : Wire addressing_config := {
  w_ok c :=
    w_ok c.(ac_static_ipcp_addrs) /\ w_ok c.(ac_address_prefixes);
  w_norm c :=
    mk_addressing_config (w_norm c.(ac_static_ipcp_addrs)) (w_norm c.(ac_address_prefixes))
}.

#[export] Instance nsm_config_wire : Wire nsm_config := {
  w_ok c :=
    w_ok c.(nsmc_ps) /\ w_ok c.(nsmc_addr_conf);
  w_norm c :=
    mk_nsm_config (w_norm c.(nsmc_ps)) (w_norm c.(nsmc_addr_conf))
}.

#[export] Instance auth_sdup_profile_wire : Wire auth_sdup_profile := {
  w_ok c :=
    w_ok c.(asp_auth) /\ w_ok c.(asp_encrypt) /\ w_ok c.(asp_crc) /\ w_ok c.(asp_ttl);
  w_norm c :=
    mk_auth_sdup_profile (w_norm c.(asp_auth)) (w_norm c.(asp_encrypt)) (w_norm c.(asp_crc))
      (w_norm c.(asp_ttl))
}.

#[export] Instance auth_sdup_profile_entry_wire : Wire auth_sdup_profile_entry := {
  w_ok c :=
    w_ok c.(aspe_n1_dif_name) /\ w_ok c.(aspe_entry);
  w_norm c :=
    mk_auth_sdup_profile_entry (w_norm c.(aspe_n1_dif_name)) (w_norm c.(aspe_entry))
}.

#[export] Instance secman_config_wire : Wire secman_config := {
  w_ok c :=
    w_ok c.(sc_ps) /\ w_ok c.(sc_default_profile) /\ w_ok c.(sc_specific_profiles);
  w_norm c :=
    mk_secman_config (w_norm c.(sc_ps)) (w_norm c.(sc_default_profile))
      (w_norm c.(sc_specific_profiles))
}.

#[export] Instance routing_config_wire : Wire routing_config := {
  w_ok c :=
    w_ok c.(rc_ps);
  w_norm c :=
    mk_routing_config (w_norm c.(rc_ps))
}.

#[export] Instance pff_config_wire : Wire pff_config := {
  w_ok c :=
    w_ok c.(pffc_policy_set);
  w_norm c :=
    mk_pff_config (w_norm c.(pffc_policy_set))
}.

#[export] Instance rmt_config_wire : Wire rmt_config := {
  w_ok c :=
    w_ok c.(rmtc_policy_set) /\ w_ok c.(rmtc_pff_conf);
  w_norm c :=
    mk_rmt_config (w_norm c.(rmtc_policy_set)) (w_norm c.(rmtc_pff_conf))
}.

#[export] Instance ipcp_config_entry_wire : Wire ipcp_config_entry := {
  w_ok c :=
    w_ok c.(ice_name) /\ w_ok c.(ice_value);
  w_norm c :=
    mk_ipcp_config_entry (w_norm c.(ice_name)) (w_norm c.(ice_value))
}.

#[export] Instance dif_config_wire : Wire dif_config := {
  w_ok c :=
    w_ok c.(dif_ipcp_config_entries) /\ w_ok c.(dif_efcp_config) /\ w_ok c.(dif_rmt_config) /\
    fits uint32 c.(dif_address) /\ w_ok c.(dif_fa_config) /\ w_ok c.(dif_et_config) /\
    w_ok c.(dif_nsm_config) /\ w_ok c.(dif_routing_config) /\ w_ok c.(dif_resall_config) /\
    w_ok c.(dif_secman_config);
  w_norm c :=
    mk_dif_config (w_norm c.(dif_ipcp_config_entries)) (w_norm c.(dif_efcp_config))
      (w_norm c.(dif_rmt_config)) c.(dif_address) (w_norm c.(dif_fa_config))
      (w_norm c.(dif_et_config)) (w_norm c.(dif_nsm_config)) (w_norm c.(dif_routing_config))
      (w_norm c.(dif_resall_config)) (w_norm c.(dif_secman_config))
}.

#[export] Instance ipcp_neighbor_wire : Wire ipcp_neighbor := {
  w_ok c :=
    w_ok c.(nei_ipcp_name) /\ w_ok c.(nei_sup_dif_name) /\ w_ok c.(nei_supporting_difs) /\
    fits uint32 c.(nei_address) /\ fits uint32 c.(nei_old_address) /\
    fits uint32 c.(nei_average_rtt_in_ms) /\ fits int32 c.(nei_under_port_id) /\
    fits int32 c.(nei_intern_port_id) /\ fits int32 c.(nei_last_heard_time_ms) /\
    fits uint32 c.(nei_num_enroll_attempts);
  w_norm c :=
    mk_ipcp_neighbor (w_norm c.(nei_ipcp_name)) (w_norm c.(nei_sup_dif_name))
      (w_norm c.(nei_supporting_difs)) c.(nei_address) c.(nei_old_address) c.(nei_enrolled)
      c.(nei_average_rtt_in_ms) c.(nei_under_port_id) c.(nei_intern_port_id)
      c.(nei_last_heard_time_ms) c.(nei_num_enroll_attempts)
}.

#[export] Instance ipcp_neigh_list_wire : Wire ipcp_neigh_list := {
  w_ok c :=
    w_ok c.(inl_ipcp_neighbors);
  w_norm c :=
    mk_ipcp_neigh_list (w_norm c.(inl_ipcp_neighbors))
}.

#[export] Instance rib_object_data_wire : Wire rib_object_data := {
  w_ok c :=
    w_ok c.(rod_clazz) /\ w_ok c.(rod_name) /\ w_ok c.(rod_disp_value) /\
    fits uint64 c.(rod_instance);
  w_norm c :=
    mk_rib_object_data (w_norm c.(rod_clazz)) (w_norm c.(rod_name)) (w_norm c.(rod_disp_value))
      c.(rod_instance)
}.

#[export] Instance query_rib_resp_wire : Wire query_rib_resp := {
  w_ok c :=
    w_ok c.(qrr_rib_object_data_entries);
  w_norm c :=
    mk_query_rib_resp (w_norm c.(qrr_rib_object_data_entries))
}.

#[export] Instance dif_properties_entry_wire : Wire dif_properties_entry := {
  w_ok c :=
    w_ok c.(dpe_dif_name) /\ fits uint16 c.(dpe_max_sdu_size);
  w_norm c :=
    mk_dif_properties_entry (w_norm c.(dpe_dif_name)) c.(dpe_max_sdu_size)
}.

#[export] Instance get_dif_prop_resp_wire : Wire get_dif_prop_resp := {
  w_ok c :=
    w_ok c.(gdp_dif_propery_entries);
  w_norm c :=
    mk_get_dif_prop_resp (w_norm c.(gdp_dif_propery_entries))
}.

#[export] Instance sdup_crypto_state_wire : Wire sdup_crypto_state := {
  w_ok c :=
    w_ok c.(scs_mac_alg) /\ w_ok c.(scs_mac_key_tx) /\ w_ok c.(scs_mac_key_rx) /\
    w_ok c.(scs_enc_alg) /\ w_ok c.(scs_encrypt_key_tx) /\ w_ok c.(scs_encrypt_key_rx) /\
    w_ok c.(scs_iv_tx) /\ w_ok c.(scs_iv_rx) /\ w_ok c.(scs_compress_alg) /\
    fits int32 c.(scs_port_id);
  w_norm c :=
    mk_sdup_crypto_state c.(scs_enable_crypto_tx) c.(scs_enable_crypto_rx)
      (w_norm c.(scs_mac_alg)) (w_norm c.(scs_mac_key_tx)) (w_norm c.(scs_mac_key_rx))
      (w_norm c.(scs_enc_alg)) (w_norm c.(scs_encrypt_key_tx)) (w_norm c.(scs_encrypt_key_rx))
      (w_norm c.(scs_iv_tx)) (w_norm c.(scs_iv_rx)) (w_norm c.(scs_compress_alg))
      c.(scs_port_id)
}.

#[export] Instance port_id_altlist_wire : Wire port_id_altlist := {
  w_ok l := fits uint16 l.(pia_num_ports) /\ l.(pia_num_ports) = Z.of_nat (length l.(pia_ports)) /\
            Forall (fits int32) l.(pia_ports);
  w_norm l := l
}.

#[export] Instance mod_pff_entry_wire : Wire mod_pff_entry := {
  w_ok c :=
    fits uint32 c.(mpe_fwd_info) /\ fits int16 c.(mpe_qos_id) /\ fits uint32 c.(mpe_cost) /\
    w_ok c.(mpe_port_id_altlists);
  w_norm c :=
    mk_mod_pff_entry c.(mpe_fwd_info) c.(mpe_qos_id) c.(mpe_cost)
      (w_norm c.(mpe_port_id_altlists))
}.

#[export] Instance pff_entry_list_wire : Wire pff_entry_list := {
  w_ok c :=
    w_ok c.(pel_pff_entries);
  w_norm c :=
    mk_pff_entry_list (w_norm c.(pel_pff_entries))
}.

#[export] Instance bs_info_entry_wire : Wire bs_info_entry := {
  w_ok c :=
    fits int32 c.(bie_signal_strength) /\ w_ok c.(bie_ipcp_addr);
  w_norm c :=
    mk_bs_info_entry c.(bie_signal_strength) (w_norm c.(bie_ipcp_addr))
}.

#[export] Instance media_dif_info_wire : Wire media_dif_info := {
  w_ok c :=
    w_ok c.(mdi_dif_name) /\ w_ok c.(mdi_sec_policies) /\ w_ok c.(mdi_available_bs_ipcps);
  w_norm c :=
    mk_media_dif_info (w_norm c.(mdi_dif_name)) (w_norm c.(mdi_sec_policies))
      (w_norm c.(mdi_available_bs_ipcps))
}.

#[export] Instance media_info_entry_wire : Wire media_info_entry := {
  w_ok c :=
    w_ok c.(mie_entry) /\ w_ok c.(mie_dif_name);
  w_norm c :=
    mk_media_info_entry (w_norm c.(mie_entry)) (w_norm c.(mie_dif_name))
}.

#[export] Instance media_report_wire : Wire media_report := {
  w_ok c :=
    fits uint16 c.(mre_ipcp_id) /\ w_ok c.(mre_dif_name) /\ w_ok c.(mre_bs_ipcp_addr) /\
    w_ok c.(mre_available_difs);
  w_norm c :=
    mk_media_report c.(mre_ipcp_id) (w_norm c.(mre_dif_name)) (w_norm c.(mre_bs_ipcp_addr))
      (w_norm c.(mre_available_difs))
}.

