(* ===== verification/SerdesLaws.v ===== *)
(** * The serialisers and deserialisers fit together

    For every structure: reading what was written, with memory available, consumes
    exactly the bytes written and yields [w_norm] of the structure ([Reads]); and the
    length announced is the number of bytes written, modulo the width of the counter
    ([Announces]).  The two classes are the interface to the messages: [Messages.v] is proved
    against them. *)

From S2P Require Import Prelude Kucommon Config Serdes Wire.
From Stdlib Require Import ZArith Lia Morphisms.
From stdpp Require Import base list numbers option.
#[local] Open Scope Z_scope.
#[local] Open Scope serdes_scope.

(** ** Readers

    [reads d bs x a x']: [d] on [x] consumes [bs], yields [a] and leaves [x'].  [leaves] says
    the same of a reader whose result does not matter. *)

Definition reads {X A} (d : D X A) (bs : list Z) (x : X) (a : A) (x' : X) : Prop :=
  forall rest j, d x (mk_rd (bs ++ rest) [] j) = Some (inl a, x', mk_rd rest [] j).

Definition leaves {X} (d : D X unit) (bs : list Z) (x x' : X) : Prop :=
  forall rest j, exists r, d x (mk_rd (bs ++ rest) [] j) = Some (r, x', mk_rd rest [] j).

Lemma reads_leaves {X} (d : D X unit) bs x x' : reads d bs x tt x' -> leaves d bs x x'.
Proof. intros H rest j. eexists. apply H. Qed.

Lemma reads_conv {X A} (d : D X A) bs x a x1 x2 : reads d bs x a x1 -> x1 = x2 -> reads d bs x a x2.
Proof. by intros ? <-. Qed.

Lemma leaves_conv {X} (d : D X unit) bs x x1 x2 : leaves d bs x x1 -> x1 = x2 -> leaves d bs x x2.
Proof. by intros ? <-. Qed.

Section Reading.
Context {X : Type}.
Implicit Types (x : X).

Lemma reads_ret {A} (a : A) x : reads (D_ret a) [] x a x.
Proof. done. Qed.

Lemma reads_bind {A B} (d : D X A) (k : A -> D X B) b1 b2 x x1 x2 a b :
  reads d b1 x a x1 -> reads (k a) b2 x1 b x2 -> reads (D_bind d k) (b1 ++ b2) x b x2.
Proof. intros H1 H2 rest j. unfold D_bind. by rewrite <- app_assoc, H1, H2. Qed.

Lemma leaves_bind {A} (d : D X A) (k : A -> D X unit) b1 b2 x x1 x2 a :
  reads d b1 x a x1 -> leaves (k a) b2 x1 x2 -> leaves (D_bind d k) (b1 ++ b2) x x2.
Proof.
  intros H1 H2 rest j. destruct (H2 rest j) as [r Hr]. exists r. unfold D_bind.
  by rewrite <- app_assoc, H1, Hr.
Qed.

Lemma run_reads {A B} (d : D X A) (k : A -> D X B) bs rest j x x1 a :
  reads d bs x a x1 ->
  D_bind d k x (mk_rd (bs ++ rest) [] j) = k a x1 (mk_rd rest [] j).
Proof. intros H. unfold D_bind. by rewrite H. Qed.

(** Steps that consume nothing. *)
Lemma reads_step {A B} (d : D X A) (k : A -> D X B) bs x x1 x2 a b :
  reads d [] x a x1 -> reads (k a) bs x1 b x2 -> reads (D_bind d k) bs x b x2.
Proof. apply (reads_bind d k []). Qed.

(** Steps after everything has been consumed. *)
Lemma reads_last {A B} (d : D X A) (k : A -> D X B) bs x x1 x2 a b :
  reads d bs x a x1 -> reads (k a) [] x1 b x2 -> reads (D_bind d k) bs x b x2.
Proof. intros H1 H2. rewrite <- (app_nil_r bs). by eapply reads_bind. Qed.

Lemma reads_put (f : X -> X) x : reads (D_put f) [] x tt (f x).
Proof. done. Qed.

Lemma reads_get {A} (f : X -> A) x : reads (D_get f) [] x (f x) x.
Proof. done. Qed.

Lemma reads_alloc x : reads D_alloc [] x true x.
Proof. done. Qed.

Lemma reads_bytes bs n x : Z.of_nat (length bs) = n -> reads (D_bytes n) bs x bs x.
Proof.
  intros <- rest j. unfold D_bytes; cbn [rd_buf rd_alloc rd_junk].
  rewrite length_app. replace (_ <=? _) with true by (symmetry; apply Z.leb_le; lia).
  by rewrite Nat2Z.id, take_app_length, drop_app_length.
Qed.

Lemma reads_when (b : bool) d bs x x' :
  (b = true -> reads d bs x tt x') ->
  reads (D_when b d) (if b then bs else []) x tt (if b then x' else x).
Proof. destruct b; intros H; [by apply H | done]. Qed.

(** ** Numbers *)

Lemma reads_num t v x : fits t v -> reads (deserialize_num t) (serialize_obj t v) x v x.
Proof.
  intros Hv. assert (to_ctype t (le_decode (serialize_obj t v)) = v) as E.
  { unfold serialize_obj. rewrite le_decode_encode. unfold fits, to_ctype in *.
    destruct (is_signed t); [|by rewrite uwrap_uwrap].
    by rewrite swrap_uwrap by (destruct t; cbn; lia). }
  eapply reads_last; [apply reads_bytes; unfold serialize_obj; by rewrite length_le_encode|].
  rewrite E. apply reads_ret.
Qed.

Lemma reads_obj t (put : Z -> X -> X) v x :
  fits t v -> reads (deserialize_obj t put) (serialize_obj t v) x tt (put v x).
Proof.
  intros Hv rest j. pose proof (reads_num t v x Hv rest j) as H.
  unfold deserialize_num, deserialize_obj, D_bind in *.
  destruct (D_bytes _ _ _) as [[[[bs|e] x1] r1]|]; try done. unfold D_ret, D_put in *. by simplify_eq.
Qed.

Lemma reads_bool (put : bool -> X -> X) b x :
  reads (deserialize_bool put) (serialize_bool b) x tt (put b x).
Proof.
  unfold deserialize_bool, serialize_bool.
  eapply reads_conv; [apply reads_obj; by destruct b|]. by destruct b.
Qed.

(** The same number read through a type of the other signedness. *)
Lemma reads_obj_signed (put : Z -> X -> X) v x :
  fits uint32 v -> reads (deserialize_obj int32 (fun w => put (u32 w))) (serialize_obj int32 v) x tt (put v x).
Proof.
  intros Hv. assert (serialize_obj int32 v = serialize_obj int32 (s32 v)) as ->.
  { unfold serialize_obj, swrap. cbn [sizeof].
    rewrite <- (le_encode_uwrap 4 32 v), <- (le_encode_uwrap 4 32 (_ - _)) by done. f_equal.
    unfold uwrap. rewrite Zminus_mod_idemp_l. f_equal. lia. }
  eapply reads_conv.
  - apply (reads_obj int32 (fun w => put (u32 w))). unfold fits, to_ctype; cbn.
    unfold swrap. rewrite Z.sub_add, Zmod_mod. done.
  - f_equal. unfold fits, to_ctype in Hv; cbn in Hv. rewrite <- Hv at 2.
    unfold swrap, uwrap. rewrite Zminus_mod_idemp_l. f_equal. lia.
Qed.

(** ** Calls *)

Lemma reads_local {Y} (y0 : Y) (d : D Y unit) bs x y :
  reads d bs y0 tt y -> reads (D_local y0 d) bs x y x.
Proof. intros H rest j. unfold D_local. by rewrite H. Qed.

Lemma reads_elem {Y} (y0 : Y) (d : D Y unit) bs x y :
  reads d bs y0 tt y -> reads (D_elem y0 d) bs x y x.
Proof. intros H. eapply reads_step; [apply reads_alloc|]. by apply reads_local. Qed.

Lemma reads_entry {Y} (y0 : Y) (d : D Y unit) bs x y :
  reads d bs y0 tt y -> reads (D_entry y0 d) bs x y x.
Proof. intros H. eapply reads_step; [apply reads_alloc|]. by apply reads_elem. Qed.

Lemma reads_try {Y} (put : Y -> X -> X) (y0 : Y) (d : D Y unit) bs x y :
  reads d bs y0 tt y -> reads (D_try put y0 d) bs x 0 (put y x).
Proof. intros H rest j. unfold D_try. by rewrite H. Qed.

Lemma reads_field {Y} (put : option Y -> X -> X) (d : D (option Y) unit) bs x p :
  reads d bs None tt p -> reads (D_field put d) bs x tt (put p x).
Proof. intros H. eapply reads_last; [by apply reads_try|]. apply reads_ret. Qed.

Lemma reads_ignore {Y} (put : option Y -> X -> X) (y0 : Y) (d : D Y unit) bs x y :
  leaves d bs y0 y -> reads (D_ignore put y0 d) bs x tt (put (Some y) x).
Proof.
  intros H rest j. destruct (H rest j) as [r Hr].
  unfold D_ignore, D_alloc, D_bind, D_try; cbn. rewrite Hr. by destruct r.
Qed.

Lemma leaves_field {Y} (put : option Y -> X -> X) (d : D (option Y) unit) bs x p :
  leaves d bs None p -> leaves (D_field put d) bs x (put p x).
Proof.
  intros H rest j. destruct (H rest j) as [r Hr].
  unfold D_field, D_bind, D_try. rewrite Hr. destruct r as [|e]; [by eexists|].
  unfold D_check. destruct (e =? 0); by eexists.
Qed.

End Reading.

Lemma reads_new {Y} (y0 : Y) (d : D Y unit) bs p y :
  reads d bs y0 tt y -> reads (D_new y0 d) bs p tt (Some y).
Proof.
  intros H. eapply reads_step; [apply reads_alloc|]. cbv iota.
  eapply reads_last; [by apply reads_try|]. apply reads_ret.
Qed.

Lemma run_new {Y} (y0 : Y) (d : D Y unit) bs j r' p y res :
  d y0 (mk_rd bs [] j) = Some (res, y, r') -> res <> inr 0 ->
  D_new y0 d p (mk_rd bs [] j) = Some (res, Some y, r').
Proof.
  intros Hd Hres. unfold D_new, D_bind, D_alloc, D_try; cbn. rewrite Hd.
  destruct res as [[]|e]; [done|]. unfold D_check. case (Z.eqb_spec e 0); [by intros ->|done].
Qed.

Lemma leaves_new {Y} (y0 : Y) (d : D Y unit) bs p y :
  leaves d bs y0 y -> leaves (D_new y0 d) bs p (Some y).
Proof.
  intros H rest j. destruct (H rest j) as [r Hr].
  unfold D_new, D_bind, D_alloc, D_try; cbn. rewrite Hr. destruct r as [|e]; [by eexists|].
  unfold D_check. destruct (e =? 0); by eexists.
Qed.

(** ** The interface

    [Reads x0 ser d]: on the structure [x0] the reader [d] reads back what [ser] writes. *)

Class Reads {X} `{Wire X} (x0 : X) (ser : X -> list Z) (d : D X unit) : Prop :=
  reads_law : forall c, w_ok c -> reads d (ser c) x0 tt (w_norm c).

(** A pointer to a structure that is created first. *)
#[export] Instance reads_ptr {Y} `{Wire Y} (y0 : Y) (ser : option Y -> list Z) (d : D Y unit) :
  Reads y0 (fun c => ser (Some c)) d -> Reads (X := option Y) (H := ptr_wire) None ser (D_new y0 d).
Proof. intros Hd [c|] Hc; [|done]. apply reads_new, Hd, Hc. Qed.

Lemma c_string_id s : Forall (fun b => b <> 0) s -> c_string s = s.
Proof.
  induction 1 as [|b s Hb Hs IH]; [done|]. cbn. rewrite IH.
  by replace (b =? 0) with false by (symmetry; by apply Z.eqb_neq).
Qed.

Lemma string_prlen_range s : fits uint16 (string_prlen s).
Proof.
  unfold fits, to_ctype, string_prlen; cbn. apply uwrap_small. unfold in_u.
  destruct s; cbn; zb; lia.
Qed.

Lemma string_prlen_length s :
  Z.of_nat (length (take (Z.to_nat (string_prlen s)) (from_option id [] s))) = string_prlen s.
Proof. rewrite length_take. unfold string_prlen. destruct s; cbn; zb; lia. Qed.

Lemma string_prlen_take s :
  take (Z.to_nat (string_prlen s)) (from_option id [] s) = take (Z.to_nat 65535) (from_option id [] s).
Proof.
  unfold string_prlen. destruct s as [s|]; cbn; [|done]. unfold id. zb; [done|].
  rewrite Nat2Z.id. rewrite !take_ge by lia. done.
Qed.

#[export] Instance reads_string : Reads (H := string_wire) None serialize_string deserialize_string.
Proof.
  intros s Hs. cbn in Hs. unfold deserialize_string, serialize_string.
  eapply reads_bind; [apply reads_num, string_prlen_range|].
  eapply reads_step; [apply reads_alloc|]. cbv iota.
  eapply reads_last; [apply reads_bytes, string_prlen_length|].
  eapply reads_conv; [apply reads_put|]. cbn [w_norm string_wire]. f_equal.
  rewrite string_prlen_take. by apply c_string_id, Forall_take.
Qed.

#[export] Instance reads_buffer : Reads (H := buffer_wire) None serialize_buffer deserialize_buffer.
Proof.
  intros [[bs n]|] Hb; cbn in Hb; unfold deserialize_buffer; cbn [serialize_buffer w_norm buffer_wire buf_size buf_data].
  - destruct Hb as [Hn ->].
    eapply reads_bind; [by apply reads_num|]. case_eq (Z.of_nat (length bs) =? 0); intros E; cbn [negb].
    + apply Z.eqb_eq in E. rewrite E. apply (reads_put (fun _ => None)).
    + eapply reads_step; [apply reads_alloc|]. cbv iota.
      eapply reads_step; [apply reads_alloc|]. cbv iota.
      rewrite Nat2Z.id, take_ge by lia. eapply reads_last; [by apply reads_bytes|].
      apply (reads_put (fun _ => Some _)).
  - eapply reads_last; [by apply reads_num|]. apply (reads_put (fun _ => None)).
Qed.

(** ** Lists *)

Section Lists.
Context {X Y W : Type} `{Wire W}.

(** A structure with a list field. *)
Variables (get : X -> list W) (put : list W -> X -> X).
Hypothesis get_put : forall v x, get (put v x) = v.
Hypothesis put_put : forall v w x, put v (put w x) = put v x.
Hypothesis put_get : forall x, put (get x) x = x.

(** An element of the list, as written and as read. *)
Variables (ser : W -> list Z) (elem : D X Y) (f : Y -> W).
Hypothesis elem_reads : forall w, w_ok w -> exists y, f y = w_norm w /\ forall x, reads elem (ser w) x y x.

Lemma reads_loop l x :
  Forall w_ok l ->
  reads (D_repeat (length l) (pos <- elem;; D_put (fun x => put (get x ++ [f pos]) x)))
    (concat (map ser l)) x tt (put (get x ++ map w_norm l) x).
Proof.
  intros Hl. revert x. induction Hl as [|w l Hw Hl IH]; intros x; cbn [length D_repeat map concat].
  - eapply reads_conv; [apply reads_ret|]. by rewrite app_nil_r, put_get.
  - destruct (elem_reads w Hw) as (y & Hy & Hr).
    eapply reads_bind; [eapply reads_last; [apply Hr | apply reads_put]|].
    eapply reads_conv; [apply IH|]. by rewrite get_put, put_put, Hy, <- app_assoc.
Qed.

Lemma reads_list l x :
  w_ok l ->
  reads (deserialize_list elem (fun pos x => put (get x ++ [f pos]) x))
    (serialize_list ser l) x tt (put (get x ++ w_norm l) x).
Proof.
  intros [Hlen Hl]. unfold deserialize_list, serialize_list.
  eapply reads_bind; [apply reads_num|].
  - unfold fits, to_ctype; cbn. apply uwrap_small. unfold in_u. lia.
  - rewrite Nat2Z.id. by apply reads_loop.
Qed.

End Lists.

(** The elements of the two kinds of lists. *)
Lemma elem_intrusive {X Y} `{Wire Y} (y0 : Y) (ser : Y -> list Z) (d : D Y unit) :
  Reads y0 ser d ->
  forall w, w_ok w -> exists y, y = w_norm w /\ forall x : X, reads (D_elem y0 d) (ser w) x y x.
Proof. intros Hd w Hw. eexists. split; [done|]. intros. by apply reads_elem, Hd. Qed.

Lemma elem_entry {X Y} `{Wire Y} (y0 : Y) (ser : option Y -> list Z) (d : D Y unit) :
  Reads y0 (fun c => ser (Some c)) d ->
  forall w, w_ok (Wire := ptr_wire) w -> exists y, Some y = w_norm w /\ forall x : X, reads (D_entry y0 d) (ser w) x y x.
Proof. intros Hd [w|] Hw; [|done]. eexists. split; [done|]. intros. by apply reads_entry, Hd. Qed.

#[export] Hint Resolve reads_obj reads_bool reads_obj_signed : serdes.

(** [serdes] follows the fields of a structure through its writer and its reader. *)
Ltac serdes_leaf :=
  lazymatch goal with
  | |- reads (deserialize_obj int32 (fun _ => _ (u32 _))) _ _ _ _ => apply reads_obj_signed; assumption
  | |- reads (deserialize_obj _ _) _ _ _ _ => apply reads_obj; assumption
  | |- reads (deserialize_bool _) _ _ _ _ => apply reads_bool
  | |- reads (D_policy _) _ _ _ _ => apply reads_field, reads_law; assumption
  | |- reads (D_field _ _) _ _ _ _ => apply reads_field, reads_law; assumption
  | |- reads (deserialize_list (D_elem _ _) _) _ _ _ _ =>
      eapply reads_list; [done | done | by intros [] | apply elem_intrusive, _ | assumption]
  | |- reads (deserialize_list (D_entry _ _) _) _ _ _ _ =>
      eapply reads_list; [done | done | by intros [] | apply elem_entry, _ | assumption]
  end.

Ltac serdes :=
  repeat (first [serdes_leaf | eapply reads_bind; [serdes_leaf|] ]).

(** Proves [Reads] of a structure: its fields in the order of the code. *)
Ltac solve_reads d ser :=
  let c := fresh "c" in let H := fresh "H" in
  intros c H; hnf in H; destruct_and?; unfold d, ser;
  eapply reads_conv; [serdes | destruct c; reflexivity].

#[export] Instance reads_policy_parm :
  Reads policy_parm_create serialize_policy_parm deserialize_policy_parm.
Proof. solve_reads deserialize_policy_parm serialize_policy_parm. Qed.

#[export] Instance reads_policy : Reads policy_create (fun c => serialize_policy (Some c)) deserialize_policy.
Proof. solve_reads deserialize_policy serialize_policy. Qed.

#[export] Instance reads_name : Reads None serialize_rina_name deserialize_rina_name.
Proof.
  apply reads_ptr. intros c H; hnf in H; destruct_and?. unfold serialize_rina_name.
  eapply reads_conv; [serdes | by destruct c].
Qed.

#[export] Instance reads_flow_spec : Reads None serialize_flow_spec deserialize_flow_spec.
Proof.
  apply reads_ptr. intros c H; hnf in H; destruct_and?. unfold serialize_flow_spec.
  eapply reads_conv; [serdes | by destruct c].
Qed.

(** ** Configuration of the transfer protocols *)

#[export] Instance reads_dtp_config : Reads None serialize_dtp_config deserialize_dtp_config.
Proof.
  apply reads_ptr. intros c H; hnf in H; destruct_and?. unfold serialize_dtp_config.
  eapply reads_conv; [serdes | by destruct c].
Qed.

#[export] Instance reads_window_fctrl_config :
  Reads window_fctrl_config_create (fun c => serialize_window_fctrl_config (Some c))
    deserialize_window_fctrl_config.
Proof. solve_reads deserialize_window_fctrl_config serialize_window_fctrl_config. Qed.

#[export] Instance reads_rate_fctrl_config :
  Reads rate_fctrl_config_create (fun c => serialize_rate_fctrl_config (Some c))
    deserialize_rate_fctrl_config.
Proof. solve_reads deserialize_rate_fctrl_config serialize_rate_fctrl_config. Qed.

(** A sub-configuration behind a flag. *)
Lemma reads_flag {X Y} `{Wire Y} (flag : X -> bool) (b : bool) (put : option Y -> X -> X)
    (ser : option Y -> list Z) (y0 : Y) (d : D Y unit) (p : option Y) (x : X) :
  Reads y0 (fun c => ser (Some c)) d -> flag x = b -> (b = true -> w_ok (Wire := ptr_wire) p) ->
  reads (fl <- D_get flag;; D_when fl (D_field put (D_new y0 d))) (if b then ser p else []) x tt
    (if b then put (w_norm p) x else x).
Proof.
  intros Hd Hb Hp. eapply reads_step; [apply reads_get|]. rewrite Hb.
  apply reads_when. intros ->. apply reads_field, reads_law, Hp, eq_refl.
Qed.

#[export] Instance reads_dtcp_fctrl_config :
  Reads dtcp_fctrl_config_create (fun c => serialize_dtcp_fctrl_config (Some c))
    deserialize_dtcp_fctrl_config.
Proof.
  intros c H; hnf in H; destruct H as [Hw [Hr H]]; destruct_and?.
  unfold deserialize_dtcp_fctrl_config, serialize_dtcp_fctrl_config.
  eapply reads_conv.
  - serdes. eapply reads_bind; apply reads_flag; [apply _ | reflexivity | exact Hw | apply _ | | exact Hr].
    by destruct (window_based_fctrl c).
  - destruct c as [[] ? [] ?]; reflexivity.
Qed.

#[export] Instance reads_dtcp_rxctrl_config :
  Reads dtcp_rxctrl_config_create (fun c => serialize_dtcp_rxctrl_config (Some c))
    deserialize_dtcp_rxctrl_config.
Proof. solve_reads deserialize_dtcp_rxctrl_config serialize_dtcp_rxctrl_config. Qed.

#[export] Instance reads_dtcp_config : Reads None serialize_dtcp_config deserialize_dtcp_config.
Proof.
  apply reads_ptr. intros c H; hnf in H; destruct H as [Hf [Hr H]]; destruct_and?.
  unfold serialize_dtcp_config. eapply reads_conv.
  - serdes. eapply reads_bind; apply reads_flag; [apply _ | reflexivity | exact Hf | apply _ | | exact Hr].
    by destruct (flow_ctrl c).
  - destruct c as [[] ? [] ?]; reflexivity.
Qed.

(** ** Configuration of the other components *)

#[export] Instance reads_pff_config :
  Reads pff_config_create (fun c => serialize_pff_config (Some c)) deserialize_pff_config.
Proof. solve_reads deserialize_pff_config serialize_pff_config. Qed.

#[export] Instance reads_rmt_config :
  Reads rmt_config_create (fun c => serialize_rmt_config (Some c)) deserialize_rmt_config.
Proof. solve_reads deserialize_rmt_config serialize_rmt_config. Qed.

#[export] Instance reads_dt_cons :
  Reads dt_cons_create (fun c => serialize_dt_cons (Some c)) deserialize_dt_cons.
Proof. solve_reads deserialize_dt_cons serialize_dt_cons. Qed.

#[export] Instance reads_qos_cube :
  Reads qos_cube_create (fun c => serialize_qos_cube (Some c)) deserialize_qos_cube.
Proof. solve_reads deserialize_qos_cube serialize_qos_cube. Qed.

#[export] Instance reads_fa_config :
  Reads fa_config_create (fun c => serialize_fa_config (Some c)) deserialize_fa_config.
Proof. solve_reads deserialize_fa_config serialize_fa_config. Qed.

#[export] Instance reads_resall_config :
  Reads resall_config_create (fun c => serialize_resall_config (Some c)) deserialize_resall_config.
Proof. solve_reads deserialize_resall_config serialize_resall_config. Qed.

#[export] Instance reads_et_config :
  Reads et_config_create (fun c => serialize_et_config (Some c)) deserialize_et_config.
Proof. solve_reads deserialize_et_config serialize_et_config. Qed.

#[export] Instance reads_static_ipcp_addr :
  Reads static_ipcp_addr_create (fun c => serialize_static_ipcp_addr (Some c)) deserialize_static_ipcp_addr.
Proof. solve_reads deserialize_static_ipcp_addr serialize_static_ipcp_addr. Qed.

#[export] Instance reads_address_pref_config :
  Reads address_pref_config_create (fun c => serialize_address_pref_config (Some c))
    deserialize_address_pref_config.
Proof. solve_reads deserialize_address_pref_config serialize_address_pref_config. Qed.

#[export] Instance reads_auth_sdup_profile :
  Reads auth_sdup_profile_create (fun c => serialize_auth_sdup_profile (Some c))
    deserialize_auth_sdup_profile.
Proof. solve_reads deserialize_auth_sdup_profile serialize_auth_sdup_profile. Qed.

#[export] Instance reads_routing_config :
  Reads routing_config_create (fun c => serialize_routing_config (Some c)) deserialize_routing_config.
Proof. solve_reads deserialize_routing_config serialize_routing_config. Qed.

#[export] Instance reads_ipcp_config_entry :
  Reads ipcp_config_entry_create (fun c => serialize_ipcp_config_entry (Some c))
    deserialize_ipcp_config_entry.
Proof. solve_reads deserialize_ipcp_config_entry serialize_ipcp_config_entry. Qed.

#[export] Instance reads_efcp_config :
  Reads efcp_config_create (fun c => serialize_efcp_config (Some c)) deserialize_efcp_config.
Proof.
  intros c H; hnf in H; destruct H as (Hd & Ht & Hu & Hq).
  unfold deserialize_efcp_config, serialize_efcp_config.
  eapply reads_conv.
  - do 2 (eapply reads_bind; [serdes_leaf|]). eapply reads_bind; [|serdes_leaf].
    instantiate (1 := put_efc_pci_offset_table (take 8 <$> efc_pci_offset_table c) _).
    destruct (efc_pci_offset_table c) as [t|]; cbn [fmap option_fmap option_map].
    + eapply reads_bind; [by apply reads_num|]. cbn [Z.ltb Z.compare].
      eapply reads_step; [apply reads_alloc|]. cbv iota.
      eapply reads_last; [|apply reads_put]. apply reads_bytes. rewrite length_take. lia.
    + eapply reads_last; [by apply reads_num|]. apply reads_put.
  - destruct c; reflexivity.
Qed.

(** The addresses are read whatever the function returns. *)
Lemma leaves_addressing_config c :
  w_ok c -> leaves deserialize_addressing_config (serialize_addressing_config (Some c))
              addressing_config_create (w_norm c).
Proof.
  intros [[Hn1 H1] [Hn2 H2]]. unfold deserialize_addressing_config, serialize_addressing_config, serialize_list.
  rewrite <- app_assoc. eapply leaves_conv.
  - eapply leaves_bind; [apply reads_num; apply uwrap_small; unfold in_u; cbn; lia|].
    rewrite Nat2Z.id. eapply leaves_bind.
    { eapply reads_loop; [done | done | by intros [] | apply elem_entry, _ | assumption]. }
    eapply leaves_bind; [apply reads_num; apply uwrap_small; unfold in_u; cbn; lia|].
    rewrite Nat2Z.id, <- (app_nil_r (concat _)). eapply leaves_bind.
    { eapply reads_loop; [done | done | by intros [] | apply elem_entry, _ | assumption]. }
    intros rest j. unfold D_when, D_bind, D_junk, D_check, D_ret, D_return.
    destruct (_ && _); [destruct (_ =? 0)|]; by eexists.
  - by destruct c.
Qed.

Lemma leaves_nsm_config c :
  w_ok c -> leaves deserialize_nsm_config (serialize_nsm_config (Some c)) nsm_config_create (w_norm c).
Proof.
  intros [Hp Ha]. unfold deserialize_nsm_config, serialize_nsm_config.
  destruct (nsmc_addr_conf c) as [a|] eqn:Ea; [|done].
  eapply leaves_conv.
  - eapply leaves_bind; [serdes_leaf|].
    apply leaves_field, leaves_new, leaves_addressing_config, Ha.
  - destruct c; cbn in *. by subst.
Qed.

Lemma reads_ignore_ptr {X Y} `{Wire Y} (put : option Y -> X -> X) (y0 : Y) (ser : option Y -> list Z)
    (d : D Y unit) c x :
  Reads y0 (fun c => ser (Some c)) d -> w_ok c ->
  reads (D_ignore put y0 d) (ser (Some c)) x tt (put (Some (w_norm c)) x).
Proof. intros Hd Hc. apply reads_ignore, reads_leaves, Hd, Hc. Qed.

Lemma reads_elem_ptr {X Y} `{Wire Y} (y0 : Y) (ser : option Y -> list Z) (d : D Y unit) c (x : X) :
  Reads y0 (fun c => ser (Some c)) d -> w_ok c -> reads (D_elem y0 d) (ser (Some c)) x (w_norm c) x.
Proof. intros Hd Hc. apply reads_elem, Hd, Hc. Qed.

#[export] Instance reads_secman_config :
  Reads secman_config_create (fun c => serialize_secman_config (Some c)) deserialize_secman_config.
Proof.
  intros c (Hp & Ha & Hl). unfold deserialize_secman_config, serialize_secman_config.
  destruct (sc_ps c) as [p|] eqn:Ep; [|done]. destruct (sc_default_profile c) as [a|] eqn:Ea; [|done].
  eapply reads_conv.
  - eapply reads_bind; [apply reads_ignore_ptr; [apply _ | exact Hp]|].
    eapply reads_bind; [apply reads_ignore_ptr; [apply _ | exact Ha]|].
    eapply (reads_list sc_specific_profiles put_sc_specific_profiles) with (f := fun y => y);
      [done | done | by intros [] | | exact Hl].
    intros [n1 [e|]] [Hn He]; [|done]. eexists. split; [reflexivity|]. intros x. cbn [aspe_n1_dif_name aspe_entry].
    eapply reads_step; [apply reads_alloc|]. cbv iota.
    eapply reads_bind; [apply reads_local, reads_law, Hn|].
    eapply reads_last; [apply reads_elem_ptr; [apply _ | exact He]|]. apply reads_ret.
  - destruct c; cbn in *. by subst.
Qed.

(** ** Configuration of a DIF *)

(** Everything up to the value returned: with no configuration entry it is the value of a
    variable that was never assigned. *)
Lemma reads_dif_config_junk c rest j :
  w_ok c ->
  deserialize_dif_config None (mk_rd (serialize_dif_config (Some c) ++ rest) [] j) =
  Some (if (Z.of_nat (length c.(dif_ipcp_config_entries)) =? 0) && negb (j =? 0) then inr j else inl tt,
        Some (w_norm c), mk_rd rest [] j).
Proof.
  intros H; hnf in H; destruct H as ([Hn He] & Hef & Hrm & Hadr & Hfa & Het & Hns & Hro & Hre & Hse).
  destruct (dif_efcp_config c) as [ef|] eqn:Eef; [|done]. destruct (dif_rmt_config c) as [rm|] eqn:Erm; [|done].
  destruct (dif_fa_config c) as [fa|] eqn:Efa; [|done]. destruct (dif_et_config c) as [et|] eqn:Eet; [|done].
  destruct (dif_nsm_config c) as [ns|] eqn:Ens; [|done]. destruct (dif_routing_config c) as [ro|] eqn:Ero; [|done].
  destruct (dif_resall_config c) as [re|] eqn:Ere; [|done]. destruct (dif_secman_config c) as [se|] eqn:Ese; [|done].
  set (n := Z.of_nat (length (dif_ipcp_config_entries c))).
  set (res := (if (n =? 0) && negb (j =? 0) then inr j else inl tt) : unit + Z).
  apply run_new; [|unfold res; destruct (n =? 0), (Z.eqb_spec j 0); cbn; congruence].
  unfold serialize_dif_config, serialize_list. rewrite Eef, Erm, Efa, Eet, Ens, Ero, Ere, Ese, <- !app_assoc.
  erewrite run_reads by (by apply reads_obj).
  erewrite run_reads by (apply reads_num, uwrap_small; unfold in_u; cbn; lia). rewrite Nat2Z.id.
  erewrite run_reads by
    (eapply reads_loop; [done | done | by intros [] | apply elem_entry, _ | done]).
  do 4 erewrite run_reads by (apply reads_ignore_ptr; [apply _ | eassumption]).
  erewrite run_reads by (apply reads_ignore, leaves_nsm_config, Hns).
  do 3 erewrite run_reads by (apply reads_ignore_ptr; [apply _ | eassumption]).
  fold n. unfold res. destruct c; cbn in *; subst.
  destruct (n =? 0), (j =? 0) eqn:Ej; cbn; unfold D_bind, D_junk, D_check, D_ret, D_return; cbn; rewrite ?Ej; done.
Qed.

(** ** The RIB, forwarding tables, SDU protection *)

#[export] Instance reads_rib_object_data :
  Reads rib_object_data_create serialize_rib_object_data deserialize_rib_object_data.
Proof. solve_reads deserialize_rib_object_data serialize_rib_object_data. Qed.

#[export] Instance reads_query_rib_resp : Reads None serialize_query_rib_resp deserialize_query_rib_resp.
Proof.
  apply reads_ptr. intros c H; hnf in H. unfold serialize_query_rib_resp.
  eapply reads_conv; [serdes | by destruct c].
Qed.

Lemma ports_of_concat l :
  Forall (fits int32) l -> ports_of (length l) (concat (map (serialize_obj int32) l)) = l.
Proof.
  induction 1 as [|v l Hv Hl IH]; [done|]. cbn [length ports_of map concat].
  pose proof (length_le_encode 4 v) as E. unfold serialize_obj at 1 3; cbn [sizeof].
  rewrite take_app_length', drop_app_length' by done. rewrite IH. f_equal.
  rewrite le_decode_encode. unfold fits, to_ctype in *; cbn in *. by rewrite swrap_uwrap by lia.
Qed.

Lemma length_ports l : length (concat (map (serialize_obj int32) l)) = (4 * length l)%nat.
Proof.
  induction l as [|v l IH]; [done|]. cbn [map concat length]. rewrite length_app, IH.
  unfold serialize_obj. rewrite length_le_encode. cbn. lia.
Qed.

#[export] Instance reads_port_id_altlist :
  Reads port_id_altlist_create serialize_port_id_altlist deserialize_port_id_altlist.
Proof.
  intros [ports n] (Hn & Hl & Hp); cbn [pia_num_ports pia_ports] in *. subst n.
  unfold deserialize_port_id_altlist, serialize_port_id_altlist; cbn [pia_num_ports pia_ports].
  eapply reads_bind; [by apply reads_obj|]. eapply reads_step; [apply reads_get|].
  cbn [pia_num_ports put_pia_num_ports].
  eapply reads_conv.
  - apply reads_when. intros Hpos. eapply reads_step; [apply reads_alloc|]. cbv iota.
    rewrite take_ge by (rewrite length_ports; lia). eapply reads_last; [|apply reads_put].
    apply reads_bytes. rewrite length_ports. lia.
  - rewrite Nat2Z.id, ports_of_concat by done. destruct ports; reflexivity.
Qed.

#[export] Instance reads_mod_pff_entry :
  Reads mod_pff_entry_create serialize_mod_pff_entry deserialize_mod_pff_entry.
Proof. solve_reads deserialize_mod_pff_entry serialize_mod_pff_entry. Qed.

#[export] Instance reads_pff_entry_list : Reads None serialize_pff_entry_list deserialize_pff_entry_list.
Proof.
  apply reads_ptr. intros c H; hnf in H. unfold serialize_pff_entry_list.
  eapply reads_conv; [serdes | by destruct c].
Qed.

#[export] Instance reads_sdup_crypto_state :
  Reads None serialize_sdup_crypto_state deserialize_sdup_crypto_state.
Proof.
  apply reads_ptr. intros c H; hnf in H; destruct_and?. unfold serialize_sdup_crypto_state.
  eapply reads_conv; [serdes | by destruct c].
Qed.

(** ** DIF properties, neighbours, media reports *)

#[export] Instance reads_dif_properties_entry :
  Reads dif_properties_entry_create serialize_dif_properties_entry deserialize_dif_properties_entry.
Proof. solve_reads deserialize_dif_properties_entry serialize_dif_properties_entry. Qed.

#[export] Instance reads_get_dif_prop_resp :
  Reads None serialize_get_dif_prop_resp deserialize_get_dif_prop_resp.
Proof.
  apply reads_ptr. intros c H; hnf in H. unfold serialize_get_dif_prop_resp.
  eapply reads_conv; [serdes | by destruct c].
Qed.

#[export] Instance reads_ipcp_neighbor :
  Reads ipcp_neighbor_create (fun c => serialize_ipcp_neighbor (Some c)) deserialize_ipcp_neighbor.
Proof.
  intros c H; hnf in H; destruct_and?. unfold deserialize_ipcp_neighbor, serialize_ipcp_neighbor.
  eapply reads_conv.
  - do 8 (eapply reads_bind; [serdes_leaf|]).
    do 2 (eapply reads_bind; [apply reads_try, reads_law; assumption|]).
    eapply (reads_list nei_supporting_difs put_nei_supporting_difs) with (f := fun y => y);
      [done | done | by intros [] | | assumption].
    intros w Hw. eexists. split; [reflexivity|]. intros x.
    eapply reads_step; [apply reads_alloc|]. cbv iota. apply reads_local, reads_law, Hw.
  - by destruct c.
Qed.

#[export] Instance reads_ipcp_neigh_list : Reads None serialize_ipcp_neigh_list deserialize_ipcp_neigh_list.
Proof.
  apply reads_ptr. intros c H; hnf in H. unfold serialize_ipcp_neigh_list.
  eapply reads_conv; [serdes | by destruct c].
Qed.

#[export] Instance reads_bs_info_entry :
  Reads bs_info_entry_create serialize_bs_info_entry deserialize_bs_info_entry.
Proof. solve_reads deserialize_bs_info_entry serialize_bs_info_entry. Qed.

#[export] Instance reads_media_dif_info :
  Reads media_dif_info_create (fun c => serialize_media_dif_info (Some c)) deserialize_media_dif_info.
Proof. solve_reads deserialize_media_dif_info serialize_media_dif_info. Qed.

#[export] Instance reads_media_report : Reads None serialize_media_report deserialize_media_report.
Proof.
  apply reads_ptr. intros c H; hnf in H; destruct_and?. unfold serialize_media_report.
  eapply reads_conv.
  - do 3 (eapply reads_bind; [serdes_leaf|]).
    eapply (reads_list mre_available_difs put_mre_available_difs) with (f := fun y => y);
      [done | done | by intros [] | | assumption].
    intros [[e|] n] [He Hn]; [|done]. eexists. split; [reflexivity|]. intros x. cbn [mie_dif_name mie_entry].
    eapply reads_step; [apply reads_alloc|]. cbv iota.
    eapply reads_bind; [apply reads_local, reads_law, Hn|].
    eapply reads_last; [apply reads_elem_ptr; [apply _ | exact He]|]. apply reads_ret.
  - by destruct c.
Qed.
