(* ===== verification/SerdesLen.v ===== *)
(** * The lengths announced by the serialisers

    [X_serlen] adds up in [int] what [serialize_X] will write; the caller allocates that many
    bytes.  For every structure the two agree modulo 2^32 ([Announces]).  The sums are rewritten
    modulo 2^32 with the setoid [eq32]. *)

From S2P Require Import Prelude Kucommon Config Serdes Wire SerdesLaws.
From Stdlib Require Import ZArith Lia Morphisms.
From stdpp Require Import base list numbers option.
#[local] Open Scope Z_scope.

(** ** Equality modulo 2^32 *)

Definition eq32 (a b : Z) : Prop := u32 a = u32 b.

#[export] Instance eq32_equiv : Equivalence eq32.
Proof. unfold eq32. split; repeat intro; congruence. Qed.

#[export] Instance eq32_add : Proper (eq32 ==> eq32 ==> eq32) Z.add.
Proof. unfold eq32, uwrap. intros a a' Ha b b' Hb. by rewrite Zplus_mod, Ha, Hb, <- Zplus_mod. Qed.

Lemma eq32_eq a b : a = b -> eq32 a b.
Proof. by intros ->. Qed.

Lemma eq32_u32 a : eq32 (u32 a) a.
Proof. unfold eq32. apply uwrap_uwrap. Qed.

Lemma eq32_s32 a : eq32 (s32 a) a.
Proof.
  unfold eq32, swrap, uwrap. rewrite Zminus_mod_idemp_l. f_equal. lia.
Qed.

(** The same as an equation, and as a remainder. *)
Lemma eq32_multiple a b : eq32 a b -> exists k, a = b + k * 4294967296.
Proof.
  unfold eq32, uwrap. intros H. exists (a / 2 ^ 32 - b / 2 ^ 32).
  rewrite (Z.div_mod a (2 ^ 32)), H at 1 by lia. rewrite (Z.div_mod b (2 ^ 32)) at 2 by lia.
  change (2 ^ 32) with 4294967296. lia.
Qed.

Lemma eq32_mod a b : (a - b) mod 4294967296 = 0 -> eq32 a b.
Proof. unfold eq32, uwrap. change (2 ^ 32) with 4294967296. Z.div_mod_to_equations. lia. Qed.

(** ** The interface *)

Class Announces {X} `{Wire X} (ser : X -> list Z) (len : X -> Z) : Prop :=
  announces : forall c, w_ok c -> eq32 (len c) (Z.of_nat (length (ser c))).

(** A pointer that is not null. *)
Lemma announces_ptr {Y} `{Wire Y} (ser : option Y -> list Z) (len : option Y -> Z) :
  (forall c, w_ok c -> eq32 (len (Some c)) (Z.of_nat (length (ser (Some c))))) ->
  Announces (X := option Y) (H := ptr_wire) ser len.
Proof. by intros Hl [c|] Hc; [apply Hl|]. Qed.

(** ** Numbers, strings, buffers and lists *)

Lemma length_obj t v : length (serialize_obj t v) = sizeof t.
Proof. apply length_le_encode. Qed.

Lemma length_bool b : length (serialize_bool b) = 1%nat.
Proof. apply length_le_encode. Qed.

Lemma length_string s : Z.of_nat (length (serialize_string s)) = 2 + string_prlen s.
Proof.
  unfold serialize_string. rewrite length_app, length_obj, length_take.
  unfold string_prlen. destruct s; cbn; zb; lia.
Qed.

Lemma length_buffer b :
  w_ok (Wire := buffer_wire) b -> Z.of_nat (length (serialize_buffer b)) = 4 + buffer_prlen b.
Proof.
  destruct b as [[bs n]|]; cbn [w_ok buffer_wire serialize_buffer buffer_prlen from_option buf_data buf_size].
  - intros [_ ->]. rewrite length_app, length_obj, length_take. cbn. lia.
  - intros _. by rewrite length_obj.
Qed.

Lemma length_list {Y} (ser : Y -> list Z) l :
  Z.of_nat (length (serialize_list ser l)) = 2 + Z.of_nat (length (concat (map ser l))).
Proof. unfold serialize_list. rewrite length_app, length_obj. cbn. lia. Qed.

Lemma eq32_add_serlen {Y} `{Wire Y} (ser : Y -> list Z) (len : Y -> Z) l ret :
  Announces ser len -> w_ok l ->
  eq32 (add_serlen len ret l) (ret + Z.of_nat (length (concat (map ser l)))).
Proof.
  intros Hlen [_ Hl]. unfold add_serlen. revert ret.
  induction Hl as [|y l Hy Hl IH]; intros ret; cbn [foldl map concat]; [apply eq32_eq; cbn; lia|].
  rewrite IH, eq32_s32, (announces y Hy), length_app. apply eq32_eq. lia.
Qed.

(** [solve_len] proves that a sum announces a concatenation: every part is replaced by what it
    announces up to a multiple of 2^32. *)
Ltac lengths :=
  cbn [app]; rewrite ?length_app, ?length_obj, ?length_bool, ?Nat2Z.inj_add, ?length_string, ?length_list.

Ltac announce_by H :=
  let k := fresh "k" in let E := fresh "E" in
  destruct (eq32_multiple _ _ H) as [k E]; rewrite E; clear E.

Ltac announce :=
  repeat match goal with
  | H : @w_ok (list _) _ ?l |- context [add_serlen ?f ?r ?l] =>
      announce_by (eq32_add_serlen _ f l r _ H); clear H
  | H : @w_ok (option (list _)) _ _ |- _ => clear H
  | H : @w_ok _ buffer_wire ?p |- _ => rewrite (length_buffer p H); clear H
  | H : @w_ok _ _ ?p |- _ => announce_by (announces p H); clear H
  | |- context [s32 ?a] => announce_by (eq32_s32 a)
  | |- context [u32 ?a] => announce_by (eq32_u32 a)
  end.

Ltac solve_len := cbv zeta iota; rewrite ?app_nil_r; lengths; announce; apply eq32_mod; cbn [sizeof]; Z.div_mod_to_equations; lia.

#[export] Instance len_policy_parm : Announces serialize_policy_parm policy_parm_serlen.
Proof. intros c H; hnf in H; destruct_and?. unfold policy_parm_serlen, serialize_policy_parm. solve_len. Qed.

#[export] Instance len_policy : Announces serialize_policy policy_serlen.
Proof.
  apply announces_ptr. intros c H; hnf in H; destruct_and?. unfold policy_serlen, serialize_policy. solve_len.
Qed.

(** ** Structures *)

#[export] Instance len_rina_name : Announces serialize_rina_name rina_name_serlen.
Proof.
  apply announces_ptr. intros c H; hnf in H; destruct_and?.
  unfold rina_name_serlen, serialize_rina_name. solve_len.
Qed.

#[export] Instance len_flow_spec : Announces serialize_flow_spec flow_spec_serlen.
Proof.
  apply announces_ptr. intros c H; hnf in H; destruct_and?.
  unfold flow_spec_serlen, serialize_flow_spec. solve_len.
Qed.

#[export] Instance len_dtp_config : Announces serialize_dtp_config dtp_config_serlen.
Proof.
  apply announces_ptr. intros c H; hnf in H; destruct_and?.
  unfold dtp_config_serlen, serialize_dtp_config. solve_len.
Qed.

#[export] Instance len_window_fctrl_config : Announces serialize_window_fctrl_config window_fctrl_config_serlen.
Proof.
  apply announces_ptr. intros c H; hnf in H; destruct_and?.
  unfold window_fctrl_config_serlen, serialize_window_fctrl_config. solve_len.
Qed.

#[export] Instance len_rate_fctrl_config : Announces serialize_rate_fctrl_config rate_fctrl_config_serlen.
Proof.
  apply announces_ptr. intros c H; hnf in H; destruct_and?.
  unfold rate_fctrl_config_serlen, serialize_rate_fctrl_config. solve_len.
Qed.

#[export] Instance len_dtcp_fctrl_config : Announces serialize_dtcp_fctrl_config dtcp_fctrl_config_serlen.
Proof.
  apply announces_ptr. intros c H; hnf in H; destruct H as [Hw [Hr H]]; destruct_and?.
  unfold dtcp_fctrl_config_serlen, serialize_dtcp_fctrl_config.
  destruct (window_based_fctrl c), (rate_based_fctrl c);
    try specialize (Hw eq_refl); try specialize (Hr eq_refl); solve_len.
Qed.

#[export] Instance len_dtcp_rxctrl_config : Announces serialize_dtcp_rxctrl_config dtcp_rxctrl_config_serlen.
Proof.
  apply announces_ptr. intros c H; hnf in H; destruct_and?.
  unfold dtcp_rxctrl_config_serlen, serialize_dtcp_rxctrl_config. solve_len.
Qed.

#[export] Instance len_dtcp_config : Announces serialize_dtcp_config dtcp_config_serlen.
Proof.
  apply announces_ptr. intros c H; hnf in H; destruct H as [Hf [Hr H]]; destruct_and?.
  unfold dtcp_config_serlen, serialize_dtcp_config.
  destruct (flow_ctrl c), (rtx_ctrl c);
    try specialize (Hf eq_refl); try specialize (Hr eq_refl); solve_len.
Qed.

#[export] Instance len_pff_config : Announces serialize_pff_config pff_config_serlen.
Proof.
  apply announces_ptr. intros c H. change (w_ok c.(pffc_policy_set)) in H.
  unfold pff_config_serlen, serialize_pff_config. solve_len.
Qed.

#[export] Instance len_rmt_config : Announces serialize_rmt_config rmt_config_serlen.
Proof.
  apply announces_ptr. intros c H; hnf in H; destruct_and?.
  unfold rmt_config_serlen, serialize_rmt_config. solve_len.
Qed.

#[export] Instance len_dt_cons : Announces serialize_dt_cons dt_cons_serlen.
Proof.
  apply announces_ptr. intros c H; hnf in H; destruct_and?.
  unfold dt_cons_serlen, serialize_dt_cons. solve_len.
Qed.

#[export] Instance len_qos_cube : Announces serialize_qos_cube qos_cube_serlen.
Proof.
  apply announces_ptr. intros c H; hnf in H; destruct_and?.
  unfold qos_cube_serlen, serialize_qos_cube. solve_len.
Qed.

#[export] Instance len_efcp_config : Announces serialize_efcp_config efcp_config_serlen.
Proof.
  apply announces_ptr. intros c (Hd & Ht & Hu & Hq). unfold efcp_config_serlen, serialize_efcp_config.
  destruct (efc_pci_offset_table c) as [t|]; [|solve_len].
  assert (Z.of_nat (length (take 8 t)) = 8) by (rewrite length_take; lia). solve_len.
Qed.

#[export] Instance len_fa_config : Announces serialize_fa_config fa_config_serlen.
Proof.
  apply announces_ptr. intros c H; hnf in H; destruct_and?.
  unfold fa_config_serlen, serialize_fa_config. solve_len.
Qed.

#[export] Instance len_resall_config : Announces serialize_resall_config resall_config_serlen.
Proof.
  apply announces_ptr. intros c H. change (w_ok c.(resc_pff_gen)) in H.
  unfold resall_config_serlen, serialize_resall_config. solve_len.
Qed.

#[export] Instance len_et_config : Announces serialize_et_config et_config_serlen.
Proof.
  apply announces_ptr. intros c H. change (w_ok c.(etc_ps)) in H.
  unfold et_config_serlen, serialize_et_config. solve_len.
Qed.

#[export] Instance len_static_ipcp_addr : Announces serialize_static_ipcp_addr static_ipcp_addr_serlen.
Proof.
  apply announces_ptr. intros c H; hnf in H; destruct_and?.
  unfold static_ipcp_addr_serlen, serialize_static_ipcp_addr. solve_len.
Qed.

#[export] Instance len_address_pref_config : Announces serialize_address_pref_config address_pref_config_serlen.
Proof.
  apply announces_ptr. intros c H; hnf in H; destruct_and?.
  unfold address_pref_config_serlen, serialize_address_pref_config. solve_len.
Qed.

#[export] Instance len_addressing_config : Announces serialize_addressing_config addressing_config_serlen.
Proof.
  apply announces_ptr. intros c H; hnf in H; destruct_and?.
  unfold addressing_config_serlen, serialize_addressing_config. solve_len.
Qed.

#[export] Instance len_nsm_config : Announces serialize_nsm_config nsm_config_serlen.
Proof.
  apply announces_ptr. intros c H; hnf in H; destruct_and?.
  unfold nsm_config_serlen, serialize_nsm_config. solve_len.
Qed.

#[export] Instance len_auth_sdup_profile : Announces serialize_auth_sdup_profile auth_sdup_profile_serlen.
Proof.
  apply announces_ptr. intros c H; hnf in H; destruct_and?.
  unfold auth_sdup_profile_serlen, serialize_auth_sdup_profile. solve_len.
Qed.

#[export] Instance len_auth_sdup_profile_entry :
  Announces (fun pos => serialize_string pos.(aspe_n1_dif_name) ++ serialize_auth_sdup_profile pos.(aspe_entry))
    (fun pos => auth_sdup_profile_serlen pos.(aspe_entry) + 2 + string_prlen pos.(aspe_n1_dif_name)).
Proof. intros c H; hnf in H; destruct_and?. solve_len. Qed.

#[export] Instance len_secman_config : Announces serialize_secman_config secman_config_serlen.
Proof.
  apply announces_ptr. intros c H; hnf in H; destruct_and?.
  unfold secman_config_serlen, serialize_secman_config. solve_len.
Qed.

#[export] Instance len_routing_config : Announces serialize_routing_config routing_config_serlen.
Proof.
  apply announces_ptr. intros c H. change (w_ok c.(rc_ps)) in H.
  unfold routing_config_serlen, serialize_routing_config. solve_len.
Qed.

#[export] Instance len_ipcp_config_entry : Announces serialize_ipcp_config_entry ipcp_config_entry_serlen.
Proof.
  apply announces_ptr. intros c H; hnf in H; destruct_and?.
  unfold ipcp_config_entry_serlen, serialize_ipcp_config_entry. solve_len.
Qed.

#[export] Instance len_dif_config : Announces serialize_dif_config dif_config_serlen.
Proof.
  apply announces_ptr. intros c H; hnf in H; destruct_and?.
  unfold dif_config_serlen, serialize_dif_config. solve_len.
Qed.

#[export] Instance len_rib_object_data : Announces serialize_rib_object_data rib_object_data_serlen.
Proof. intros c H; hnf in H; destruct_and?. unfold rib_object_data_serlen, serialize_rib_object_data. solve_len. Qed.

#[export] Instance len_query_rib_resp : Announces serialize_query_rib_resp query_rib_resp_serlen.
Proof.
  apply announces_ptr. intros c H. change (w_ok c.(qrr_rib_object_data_entries)) in H.
  unfold query_rib_resp_serlen, serialize_query_rib_resp. solve_len.
Qed.

#[export] Instance len_port_id_altlist : Announces serialize_port_id_altlist port_id_altlist_serlen.
Proof.
  intros [ports n] (Hn & Hl & Hp); cbn [pia_num_ports pia_ports] in *. subst n.
  unfold port_id_altlist_serlen, serialize_port_id_altlist; cbn [pia_num_ports pia_ports].
  rewrite eq32_s32, length_app, length_obj. apply eq32_eq. zb; [|cbn; lia].
  rewrite length_take, length_ports. cbn. lia.
Qed.

#[export] Instance len_mod_pff_entry : Announces serialize_mod_pff_entry mod_pff_entry_serlen.
Proof. intros c H; hnf in H; destruct_and?. unfold mod_pff_entry_serlen, serialize_mod_pff_entry. solve_len. Qed.

#[export] Instance len_pff_entry_list : Announces serialize_pff_entry_list pff_entry_list_serlen.
Proof.
  apply announces_ptr. intros c H. change (w_ok c.(pel_pff_entries)) in H.
  unfold pff_entry_list_serlen, serialize_pff_entry_list. solve_len.
Qed.

#[export] Instance len_sdup_crypto_state : Announces serialize_sdup_crypto_state sdup_crypto_state_serlen.
Proof.
  apply announces_ptr. intros c H; hnf in H; destruct_and?.
  unfold sdup_crypto_state_serlen, serialize_sdup_crypto_state. solve_len.
Qed.

#[export] Instance len_dif_properties_entry : Announces serialize_dif_properties_entry dif_properties_entry_serlen.
Proof. intros c H; hnf in H; destruct_and?. unfold dif_properties_entry_serlen, serialize_dif_properties_entry. solve_len. Qed.

#[export] Instance len_get_dif_prop_resp : Announces serialize_get_dif_prop_resp get_dif_prop_resp_serlen.
Proof.
  apply announces_ptr. intros c H. change (w_ok c.(gdp_dif_propery_entries)) in H.
  unfold get_dif_prop_resp_serlen, serialize_get_dif_prop_resp. solve_len.
Qed.

#[export] Instance len_ipcp_neighbor : Announces serialize_ipcp_neighbor ipcp_neighbor_serlen.
Proof.
  apply announces_ptr. intros c H; hnf in H; destruct_and?.
  unfold ipcp_neighbor_serlen, serialize_ipcp_neighbor. solve_len.
Qed.

#[export] Instance len_ipcp_neigh_list : Announces serialize_ipcp_neigh_list ipcp_neigh_list_serlen.
Proof.
  apply announces_ptr. intros c H. change (w_ok c.(inl_ipcp_neighbors)) in H.
  unfold ipcp_neigh_list_serlen, serialize_ipcp_neigh_list. solve_len.
Qed.

#[export] Instance len_bs_info_entry : Announces serialize_bs_info_entry bs_info_entry_serlen.
Proof. intros c H; hnf in H; destruct_and?. unfold bs_info_entry_serlen, serialize_bs_info_entry. solve_len. Qed.

#[export] Instance len_media_dif_info : Announces serialize_media_dif_info media_dif_info_serlen.
Proof.
  apply announces_ptr. intros c H; hnf in H; destruct_and?.
  unfold media_dif_info_serlen, serialize_media_dif_info. solve_len.
Qed.

#[export] Instance len_media_info_entry :
  Announces (fun pos => serialize_string pos.(mie_dif_name) ++ serialize_media_dif_info pos.(mie_entry))
    (fun pos => 2 + string_prlen pos.(mie_dif_name) + media_dif_info_serlen pos.(mie_entry)).
Proof. intros c H; hnf in H; destruct_and?. solve_len. Qed.

#[export] Instance len_media_report : Announces serialize_media_report media_report_serlen.
Proof.
  apply announces_ptr. intros c H; hnf in H; destruct_and?.
  unfold media_report_serlen, serialize_media_report. solve_len.
Qed.
