(* ===== verification/MsgLayout.v ===== *)
(** * The layout of the control messages

    [src/include/irati/kernel-msg.h] and [src/common/ker-numtables.c]: the numbers of the message
    types, the structures of the messages, the table that tells the serialiser how many pointers of
    every kind a message has, and [allocate_irati_msg] of [src/common/serdes-utils.c], which
    chooses the structure a received message is stored in.

    The structures are packed; a pointer takes eight bytes. *)

From S2P Require Import Prelude.
From Stdlib Require Import ZArith.
From stdpp Require Import base list numbers option.
#[local] Open Scope Z_scope.

(** ** Message types ([msg_type_t]) *)

Definition RINA_C_MIN : Z := 0.
Definition RINA_C_IPCM_ASSIGN_TO_DIF_REQUEST : Z := 1.
Definition RINA_C_IPCM_ASSIGN_TO_DIF_RESPONSE : Z := 2.
Definition RINA_C_IPCM_UPDATE_DIF_CONFIG_REQUEST : Z := 3.
Definition RINA_C_IPCM_UPDATE_DIF_CONFIG_RESPONSE : Z := 4.
Definition RINA_C_IPCM_IPC_PROCESS_DIF_REGISTRATION_NOTIFICATION : Z := 5.
Definition RINA_C_IPCM_IPC_PROCESS_DIF_UNREGISTRATION_NOTIFICATION : Z := 6.
Definition RINA_C_IPCM_ALLOCATE_FLOW_REQUEST : Z := 7.
Definition RINA_C_IPCM_ALLOCATE_FLOW_REQUEST_ARRIVED : Z := 8.
Definition RINA_C_IPCM_ALLOCATE_FLOW_REQUEST_RESULT : Z := 9.
Definition RINA_C_IPCM_ALLOCATE_FLOW_RESPONSE : Z := 10.
Definition RINA_C_IPCM_DEALLOCATE_FLOW_REQUEST : Z := 11.
Definition RINA_C_IPCM_FLOW_DEALLOCATED_NOTIFICATION : Z := 12.
Definition RINA_C_IPCM_REGISTER_APPLICATION_REQUEST : Z := 13.
Definition RINA_C_IPCM_REGISTER_APPLICATION_RESPONSE : Z := 14.
Definition RINA_C_IPCM_UNREGISTER_APPLICATION_REQUEST : Z := 15.
Definition RINA_C_IPCM_UNREGISTER_APPLICATION_RESPONSE : Z := 16.
Definition RINA_C_IPCM_QUERY_RIB_REQUEST : Z := 17.
Definition RINA_C_IPCM_QUERY_RIB_RESPONSE : Z := 18.
Definition RINA_C_RMT_MODIFY_FTE_REQUEST : Z := 19.
Definition RINA_C_RMT_DUMP_FT_REQUEST : Z := 20.
Definition RINA_C_RMT_DUMP_FT_REPLY : Z := 21.
Definition RINA_C_IPCP_CONN_CREATE_REQUEST : Z := 22.
Definition RINA_C_IPCP_CONN_CREATE_RESPONSE : Z := 23.
Definition RINA_C_IPCP_CONN_CREATE_ARRIVED : Z := 24.
Definition RINA_C_IPCP_CONN_CREATE_RESULT : Z := 25.
Definition RINA_C_IPCP_CONN_UPDATE_REQUEST : Z := 26.
Definition RINA_C_IPCP_CONN_UPDATE_RESULT : Z := 27.
Definition RINA_C_IPCP_CONN_DESTROY_REQUEST : Z := 28.
Definition RINA_C_IPCP_CONN_DESTROY_RESULT : Z := 29.
Definition RINA_C_IPCP_SET_POLICY_SET_PARAM_REQUEST : Z := 30.
Definition RINA_C_IPCP_SET_POLICY_SET_PARAM_RESPONSE : Z := 31.
Definition RINA_C_IPCP_SELECT_POLICY_SET_REQUEST : Z := 32.
Definition RINA_C_IPCP_SELECT_POLICY_SET_RESPONSE : Z := 33.
Definition RINA_C_IPCP_UPDATE_CRYPTO_STATE_REQUEST : Z := 34.
Definition RINA_C_IPCP_UPDATE_CRYPTO_STATE_RESPONSE : Z := 35.
Definition RINA_C_IPCP_ADDRESS_CHANGE_REQUEST : Z := 36.
Definition RINA_C_IPCP_ALLOCATE_PORT_REQUEST : Z := 37.
Definition RINA_C_IPCP_ALLOCATE_PORT_RESPONSE : Z := 38.
Definition RINA_C_IPCP_DEALLOCATE_PORT_REQUEST : Z := 39.
Definition RINA_C_IPCP_DEALLOCATE_PORT_RESPONSE : Z := 40.
Definition RINA_C_IPCP_MANAGEMENT_SDU_WRITE_REQUEST : Z := 41.
Definition RINA_C_IPCP_MANAGEMENT_SDU_WRITE_RESPONSE : Z := 42.
Definition RINA_C_IPCP_MANAGEMENT_SDU_READ_NOTIF : Z := 43.
Definition RINA_C_IPCM_CREATE_IPCP_REQUEST : Z := 44.
Definition RINA_C_IPCM_CREATE_IPCP_RESPONSE : Z := 45.
Definition RINA_C_IPCM_DESTROY_IPCP_REQUEST : Z := 46.
Definition RINA_C_IPCM_DESTROY_IPCP_RESPONSE : Z := 47.
Definition RINA_C_IPCM_ENROLL_TO_DIF_REQUEST : Z := 48.
Definition RINA_C_IPCM_ENROLL_TO_DIF_RESPONSE : Z := 49.
Definition RINA_C_IPCM_DISCONNECT_FROM_NEIGHBOR_REQUEST : Z := 50.
Definition RINA_C_IPCM_DISCONNECT_FROM_NEIGHBOR_RESPONSE : Z := 51.
Definition RINA_C_IPCM_IPC_PROCESS_INITIALIZED : Z := 52.
Definition RINA_C_APP_ALLOCATE_FLOW_REQUEST : Z := 53.
Definition RINA_C_APP_ALLOCATE_FLOW_REQUEST_RESULT : Z := 54.
Definition RINA_C_APP_ALLOCATE_FLOW_REQUEST_ARRIVED : Z := 55.
Definition RINA_C_APP_ALLOCATE_FLOW_RESPONSE : Z := 56.
Definition RINA_C_APP_DEALLOCATE_FLOW_REQUEST : Z := 57.
Definition RINA_C_APP_FLOW_DEALLOCATED_NOTIFICATION : Z := 58.
Definition RINA_C_APP_REGISTER_APPLICATION_REQUEST : Z := 59.
Definition RINA_C_APP_REGISTER_APPLICATION_RESPONSE : Z := 60.
Definition RINA_C_APP_UNREGISTER_APPLICATION_REQUEST : Z := 61.
Definition RINA_C_APP_UNREGISTER_APPLICATION_RESPONSE : Z := 62.
Definition RINA_C_APP_APPLICATION_REGISTRATION_CANCELED_NOTIFICATION : Z := 63.
Definition RINA_C_APP_GET_DIF_PROPERTIES_REQUEST : Z := 64.
Definition RINA_C_APP_GET_DIF_PROPERTIES_RESPONSE : Z := 65.
Definition RINA_C_IPCM_PLUGIN_LOAD_REQUEST : Z := 66.
Definition RINA_C_IPCM_PLUGIN_LOAD_RESPONSE : Z := 67.
Definition RINA_C_IPCM_FWD_CDAP_MSG_REQUEST : Z := 68.
Definition RINA_C_IPCM_FWD_CDAP_MSG_RESPONSE : Z := 69.
Definition RINA_C_IPCM_MEDIA_REPORT : Z := 70.
Definition RINA_C_IPCM_FINALIZE_REQUEST : Z := 71.
Definition RINA_C_IPCP_CONN_MODIFY_REQUEST : Z := 72.
Definition RINA_C_IPCM_SCAN_MEDIA_REQUEST : Z := 73.
Definition RINA_C_MAX : Z := 74.

(** ** Structures *)

(** What a pointer of a message points to. *)
Inductive kind :=
  | KName | KString | KFlowSpec | KDifConfig | KDtpConfig | KDtcpConfig | KQueryRibResp | KPffEntryList
  | KSdupCryptoState | KDifProperties | KIpcpNeighList | KMediaReport | KBuffer.

#[export] Instance kind_eq_dec : EqDecision kind.
Proof. solve_decision. Defined.

(** A structure: the sizes of its plain fields and, behind them, the kinds of its pointers. *)
Record cstruct := mk_cstruct { cs_plain : list Z; cs_ptrs : list kind }.

(** [msg_type], [src_port], [dest_port], [src_ipcp_id], [dest_ipcp_id], [event_id]: every message
    starts with them. *)
Definition irati_msg_header : list Z := [2; 4; 4; 2; 2; 4].

Definition PTR : Z := 8.

Definition sizeof_plain (s : cstruct) : Z := foldr Z.add 0 s.(cs_plain).
Definition sizeof_struct (s : cstruct) : Z := sizeof_plain s + Z.of_nat (length s.(cs_ptrs)) * PTR.

Definition irati_msg_base : cstruct := mk_cstruct irati_msg_header [].
Definition irati_msg_base_resp : cstruct := mk_cstruct (irati_msg_header ++ [1]) [].
Definition irati_kmsg_ipcm_assign_to_dif : cstruct := mk_cstruct irati_msg_header [KName; KString; KDifConfig].
Definition irati_kmsg_ipcm_update_config : cstruct := mk_cstruct irati_msg_header [KDifConfig].
Definition irati_kmsg_ipcp_dif_reg_not : cstruct := mk_cstruct (irati_msg_header ++ [1]) [KName; KName].
Definition irati_kmsg_ipcm_allocate_flow : cstruct := mk_cstruct (irati_msg_header ++ [4; 4]) [KName; KName; KName; KFlowSpec].
Definition irati_kmsg_ipcm_allocate_flow_resp : cstruct := mk_cstruct (irati_msg_header ++ [1; 1; 4]) [].
Definition irati_kmsg_ipcm_reg_app : cstruct := mk_cstruct (irati_msg_header ++ [2]) [KName; KName; KName].
Definition irati_kmsg_ipcm_unreg_app : cstruct := mk_cstruct irati_msg_header [KName; KName].
Definition irati_kmsg_ipcm_query_rib : cstruct := mk_cstruct (irati_msg_header ++ [8; 4]) [KString; KString; KString].
Definition irati_kmsg_ipcm_query_rib_resp : cstruct := mk_cstruct (irati_msg_header ++ [1]) [KQueryRibResp].
Definition irati_kmsg_rmt_dump_ft : cstruct := mk_cstruct (irati_msg_header ++ [1; 1]) [KPffEntryList].
Definition irati_kmsg_ipcp_conn_create_arrived : cstruct := mk_cstruct (irati_msg_header ++ [4; 4; 4; 4; 4; 2; 2]) [KDtpConfig; KDtcpConfig].
Definition irati_kmsg_ipcp_conn_update : cstruct := mk_cstruct (irati_msg_header ++ [4; 4; 4; 4; 4]) [].
Definition irati_kmsg_ipcp_select_ps_param : cstruct := mk_cstruct irati_msg_header [KString; KString; KString].
Definition irati_kmsg_ipcp_select_ps : cstruct := mk_cstruct irati_msg_header [KString; KString].
Definition irati_kmsg_ipcp_update_crypto_state : cstruct := mk_cstruct (irati_msg_header ++ [4]) [KSdupCryptoState].
Definition irati_kmsg_ipcp_address_change : cstruct := mk_cstruct (irati_msg_header ++ [4; 4; 4; 4]) [].
Definition irati_kmsg_ipcp_allocate_port : cstruct := mk_cstruct (irati_msg_header ++ [1]) [KName].
Definition irati_kmsg_multi_msg : cstruct := mk_cstruct (irati_msg_header ++ [1; 4; 4]) [].
Definition irati_kmsg_ipcp_mgmt_sdu : cstruct := mk_cstruct (irati_msg_header ++ [4]) [KBuffer].
Definition irati_kmsg_ipcm_create_ipcp : cstruct := mk_cstruct (irati_msg_header ++ [2; 4]) [KName; KString].
Definition irati_kmsg_ipcm_destroy_ipcp : cstruct := mk_cstruct (irati_msg_header ++ [2]) [].
Definition irati_msg_ipcm_enroll_to_dif : cstruct := mk_cstruct (irati_msg_header ++ [1]) [KName; KName; KName; KName].
Definition irati_msg_ipcm_enroll_to_dif_resp : cstruct := mk_cstruct (irati_msg_header ++ [1]) [KName; KString; KDifConfig; KIpcpNeighList].
Definition irati_msg_with_name : cstruct := mk_cstruct irati_msg_header [KName].
Definition irati_msg_app_alloc_flow_result : cstruct := mk_cstruct (irati_msg_header ++ [4]) [KName; KName; KString].
Definition irati_msg_app_alloc_flow_response : cstruct := mk_cstruct (irati_msg_header ++ [1; 1; 4]) [].
Definition irati_msg_app_dealloc_flow : cstruct := mk_cstruct (irati_msg_header ++ [1; 4]) [].
Definition irati_msg_app_reg_app : cstruct := mk_cstruct (irati_msg_header ++ [2; 4; 1; 4]) [KName; KName; KName].
Definition irati_msg_app_reg_app_resp : cstruct := mk_cstruct (irati_msg_header ++ [1]) [KName; KName].
Definition irati_msg_app_reg_cancel : cstruct := mk_cstruct (irati_msg_header ++ [1]) [KName; KName; KString].
Definition irati_msg_get_dif_prop : cstruct := mk_cstruct (irati_msg_header ++ [1]) [KName; KName; KDifProperties].
Definition irati_msg_ipcm_plugin_load : cstruct := mk_cstruct (irati_msg_header ++ [1]) [KString].
Definition irati_msg_ipcm_fwd_cdap_msg : cstruct := mk_cstruct (irati_msg_header ++ [1]) [KBuffer].
Definition irati_msg_ipcm_media_report : cstruct := mk_cstruct irati_msg_header [KMediaReport].

(** ** The table of layouts *)

Record irati_msg_layout := mk_layout {
  copylen : Z;
  names : Z;
  strings : Z;
  flow_specs : Z;
  dif_configs : Z;
  dtp_configs : Z;
  dtcp_configs : Z;
  query_rib_resps : Z;
  pff_entry_lists : Z;
  sdup_crypto_states : Z;
  dif_properties : Z;
  ipcp_neigh_lists : Z;
  media_reports : Z;
  buffers : Z
}.

(** A designated initialiser leaves the other members zero. *)
Definition layout0 (len : Z) : irati_msg_layout := mk_layout len 0 0 0 0 0 0 0 0 0 0 0 0 0.

(** The members a message needs, in the order of the structure. *)
Inductive member :=
  | M_names
  | M_strings
  | M_flow_specs
  | M_dif_configs
  | M_dtp_configs
  | M_dtcp_configs
  | M_query_rib_resps
  | M_pff_entry_lists
  | M_sdup_crypto_states
  | M_dif_properties
  | M_ipcp_neigh_lists
  | M_media_reports
  | M_buffers.

Definition with_member (m : member * Z) (l : irati_msg_layout) : irati_msg_layout :=
  let '(mk_layout len a b c d e f g h i j k m' n) := l in
  match m with
  | (M_names, v) => mk_layout len v b c d e f g h i j k m' n
  | (M_strings, v) => mk_layout len a v c d e f g h i j k m' n
  | (M_flow_specs, v) => mk_layout len a b v d e f g h i j k m' n
  | (M_dif_configs, v) => mk_layout len a b c v e f g h i j k m' n
  | (M_dtp_configs, v) => mk_layout len a b c d v f g h i j k m' n
  | (M_dtcp_configs, v) => mk_layout len a b c d e v g h i j k m' n
  | (M_query_rib_resps, v) => mk_layout len a b c d e f v h i j k m' n
  | (M_pff_entry_lists, v) => mk_layout len a b c d e f g v i j k m' n
  | (M_sdup_crypto_states, v) => mk_layout len a b c d e f g h v j k m' n
  | (M_dif_properties, v) => mk_layout len a b c d e f g h i v k m' n
  | (M_ipcp_neigh_lists, v) => mk_layout len a b c d e f g h i j v m' n
  | (M_media_reports, v) => mk_layout len a b c d e f g h i j k v n
  | (M_buffers, v) => mk_layout len a b c d e f g h i j k m' v
  end.

Definition layout (len : Z) (ms : list (member * Z)) : irati_msg_layout :=
  foldr with_member (layout0 len) ms.

Definition irati_ker_numtables : list (Z * irati_msg_layout) := [
  (RINA_C_IPCM_ASSIGN_TO_DIF_REQUEST,
    layout (sizeof_struct irati_kmsg_ipcm_assign_to_dif - PTR - PTR - PTR) [(M_names, 1); (M_strings, 1); (M_dif_configs, 1)]);
  (RINA_C_IPCM_ASSIGN_TO_DIF_RESPONSE,
    layout (sizeof_struct irati_msg_base_resp) []);
  (RINA_C_IPCM_UPDATE_DIF_CONFIG_REQUEST,
    layout (sizeof_struct irati_kmsg_ipcm_update_config - PTR) [(M_dif_configs, 1)]);
  (RINA_C_IPCM_UPDATE_DIF_CONFIG_RESPONSE,
    layout (sizeof_struct irati_msg_base_resp) []);
  (RINA_C_IPCM_IPC_PROCESS_DIF_REGISTRATION_NOTIFICATION,
    layout (sizeof_struct irati_kmsg_ipcp_dif_reg_not - 2 * PTR) [(M_names, 2)]);
  (RINA_C_IPCM_IPC_PROCESS_DIF_UNREGISTRATION_NOTIFICATION,
    layout (sizeof_struct irati_kmsg_ipcp_dif_reg_not - 2 * PTR) [(M_names, 2)]);
  (RINA_C_IPCM_ALLOCATE_FLOW_REQUEST,
    layout (sizeof_struct irati_kmsg_ipcm_allocate_flow - 3 * PTR - PTR) [(M_names, 3); (M_flow_specs, 1)]);
  (RINA_C_IPCM_ALLOCATE_FLOW_REQUEST_ARRIVED,
    layout (sizeof_struct irati_kmsg_ipcm_allocate_flow - 3 * PTR - PTR) [(M_names, 3); (M_flow_specs, 1)]);
  (RINA_C_IPCM_ALLOCATE_FLOW_RESPONSE,
    layout (sizeof_struct irati_kmsg_ipcm_allocate_flow_resp) []);
  (RINA_C_IPCM_REGISTER_APPLICATION_REQUEST,
    layout (sizeof_struct irati_kmsg_ipcm_reg_app - 3 * PTR) [(M_names, 3)]);
  (RINA_C_IPCM_REGISTER_APPLICATION_RESPONSE,
    layout (sizeof_struct irati_msg_base_resp) []);
  (RINA_C_IPCM_UNREGISTER_APPLICATION_REQUEST,
    layout (sizeof_struct irati_kmsg_ipcm_unreg_app - 2 * PTR) [(M_names, 2)]);
  (RINA_C_IPCM_UNREGISTER_APPLICATION_RESPONSE,
    layout (sizeof_struct irati_msg_base_resp) []);
  (RINA_C_IPCM_QUERY_RIB_REQUEST,
    layout (sizeof_struct irati_kmsg_ipcm_query_rib - 3 * PTR) [(M_strings, 3)]);
  (RINA_C_IPCM_QUERY_RIB_RESPONSE,
    layout (sizeof_struct irati_kmsg_ipcm_query_rib_resp - PTR) [(M_query_rib_resps, 1)]);
  (RINA_C_RMT_DUMP_FT_REQUEST,
    layout (sizeof_struct irati_msg_base) []);
  (RINA_C_RMT_MODIFY_FTE_REQUEST,
    layout (sizeof_struct irati_kmsg_rmt_dump_ft - PTR) [(M_pff_entry_lists, 1)]);
  (RINA_C_RMT_DUMP_FT_REPLY,
    layout (sizeof_struct irati_kmsg_rmt_dump_ft - PTR) [(M_pff_entry_lists, 1)]);
  (RINA_C_IPCP_CONN_CREATE_REQUEST,
    layout (sizeof_struct irati_kmsg_ipcp_conn_create_arrived - PTR - PTR) [(M_dtp_configs, 1); (M_dtcp_configs, 1)]);
  (RINA_C_IPCP_CONN_CREATE_ARRIVED,
    layout (sizeof_struct irati_kmsg_ipcp_conn_create_arrived - PTR - PTR) [(M_dtp_configs, 1); (M_dtcp_configs, 1)]);
  (RINA_C_IPCP_CONN_CREATE_RESPONSE,
    layout (sizeof_struct irati_kmsg_ipcp_conn_update) []);
  (RINA_C_IPCP_CONN_CREATE_RESULT,
    layout (sizeof_struct irati_kmsg_ipcp_conn_update) []);
  (RINA_C_IPCP_CONN_UPDATE_REQUEST,
    layout (sizeof_struct irati_kmsg_ipcp_conn_update) []);
  (RINA_C_IPCP_SET_POLICY_SET_PARAM_REQUEST,
    layout (sizeof_struct irati_kmsg_ipcp_select_ps_param - 3 * PTR) [(M_strings, 3)]);
  (RINA_C_IPCP_SET_POLICY_SET_PARAM_RESPONSE,
    layout (sizeof_struct irati_msg_base_resp) []);
  (RINA_C_IPCP_SELECT_POLICY_SET_REQUEST,
    layout (sizeof_struct irati_kmsg_ipcp_select_ps - 2 * PTR) [(M_strings, 2)]);
  (RINA_C_IPCP_SELECT_POLICY_SET_RESPONSE,
    layout (sizeof_struct irati_msg_base_resp) []);
  (RINA_C_IPCP_UPDATE_CRYPTO_STATE_REQUEST,
    layout (sizeof_struct irati_kmsg_ipcp_update_crypto_state - PTR) [(M_sdup_crypto_states, 1)]);
  (RINA_C_IPCP_ADDRESS_CHANGE_REQUEST,
    layout (sizeof_struct irati_kmsg_ipcp_address_change) []);
  (RINA_C_IPCP_ALLOCATE_PORT_REQUEST,
    layout (sizeof_struct irati_kmsg_ipcp_allocate_port - PTR) [(M_names, 1)]);
  (RINA_C_IPCM_ALLOCATE_FLOW_REQUEST_RESULT,
    layout (sizeof_struct irati_kmsg_multi_msg) []);
  (RINA_C_IPCM_DEALLOCATE_FLOW_REQUEST,
    layout (sizeof_struct irati_kmsg_multi_msg) []);
  (RINA_C_IPCM_FLOW_DEALLOCATED_NOTIFICATION,
    layout (sizeof_struct irati_kmsg_multi_msg) []);
  (RINA_C_IPCP_CONN_UPDATE_RESULT,
    layout (sizeof_struct irati_kmsg_multi_msg) []);
  (RINA_C_IPCP_CONN_DESTROY_REQUEST,
    layout (sizeof_struct irati_kmsg_multi_msg) []);
  (RINA_C_IPCP_CONN_DESTROY_RESULT,
    layout (sizeof_struct irati_kmsg_multi_msg) []);
  (RINA_C_IPCP_UPDATE_CRYPTO_STATE_RESPONSE,
    layout (sizeof_struct irati_kmsg_multi_msg) []);
  (RINA_C_IPCP_ALLOCATE_PORT_RESPONSE,
    layout (sizeof_struct irati_kmsg_multi_msg) []);
  (RINA_C_IPCP_DEALLOCATE_PORT_REQUEST,
    layout (sizeof_struct irati_kmsg_multi_msg) []);
  (RINA_C_IPCP_DEALLOCATE_PORT_RESPONSE,
    layout (sizeof_struct irati_kmsg_multi_msg) []);
  (RINA_C_IPCP_MANAGEMENT_SDU_WRITE_REQUEST,
    layout (sizeof_struct irati_kmsg_ipcp_mgmt_sdu - PTR) [(M_buffers, 1)]);
  (RINA_C_IPCP_MANAGEMENT_SDU_READ_NOTIF,
    layout (sizeof_struct irati_kmsg_ipcp_mgmt_sdu - PTR) [(M_buffers, 1)]);
  (RINA_C_IPCP_MANAGEMENT_SDU_WRITE_RESPONSE,
    layout (sizeof_struct irati_msg_base_resp) []);
  (RINA_C_IPCM_CREATE_IPCP_REQUEST,
    layout (sizeof_struct irati_kmsg_ipcm_create_ipcp - PTR - PTR) [(M_names, 1); (M_strings, 1)]);
  (RINA_C_IPCM_CREATE_IPCP_RESPONSE,
    layout (sizeof_struct irati_msg_base_resp) []);
  (RINA_C_IPCM_DESTROY_IPCP_REQUEST,
    layout (sizeof_struct irati_kmsg_ipcm_destroy_ipcp) []);
  (RINA_C_IPCM_DESTROY_IPCP_RESPONSE,
    layout (sizeof_struct irati_msg_base_resp) []);
  (RINA_C_IPCM_ENROLL_TO_DIF_REQUEST,
    layout (sizeof_struct irati_msg_ipcm_enroll_to_dif - 4 * PTR) [(M_names, 4)]);
  (RINA_C_IPCM_ENROLL_TO_DIF_RESPONSE,
    layout (sizeof_struct irati_msg_ipcm_enroll_to_dif_resp - PTR - PTR - PTR - PTR) [(M_names, 1); (M_strings, 1); (M_dif_configs, 1); (M_ipcp_neigh_lists, 1)]);
  (RINA_C_IPCM_DISCONNECT_FROM_NEIGHBOR_REQUEST,
    layout (sizeof_struct irati_msg_with_name - PTR) [(M_names, 1)]);
  (RINA_C_IPCM_DISCONNECT_FROM_NEIGHBOR_RESPONSE,
    layout (sizeof_struct irati_msg_base_resp) []);
  (RINA_C_IPCM_IPC_PROCESS_INITIALIZED,
    layout (sizeof_struct irati_msg_with_name - PTR) [(M_names, 1)]);
  (RINA_C_APP_ALLOCATE_FLOW_REQUEST,
    layout (sizeof_struct irati_kmsg_ipcm_allocate_flow - 3 * PTR - PTR) [(M_names, 3); (M_flow_specs, 1)]);
  (RINA_C_APP_ALLOCATE_FLOW_REQUEST_RESULT,
    layout (sizeof_struct irati_msg_app_alloc_flow_result - 2 * PTR - PTR) [(M_names, 2); (M_strings, 1)]);
  (RINA_C_APP_ALLOCATE_FLOW_REQUEST_ARRIVED,
    layout (sizeof_struct irati_kmsg_ipcm_allocate_flow - 3 * PTR - PTR) [(M_names, 3); (M_flow_specs, 1)]);
  (RINA_C_APP_ALLOCATE_FLOW_RESPONSE,
    layout (sizeof_struct irati_msg_app_alloc_flow_response) []);
  (RINA_C_APP_DEALLOCATE_FLOW_REQUEST,
    layout (sizeof_struct irati_msg_app_dealloc_flow) []);
  (RINA_C_APP_FLOW_DEALLOCATED_NOTIFICATION,
    layout (sizeof_struct irati_msg_app_dealloc_flow) []);
  (RINA_C_APP_REGISTER_APPLICATION_REQUEST,
    layout (sizeof_struct irati_msg_app_reg_app - 3 * PTR) [(M_names, 3)]);
  (RINA_C_APP_REGISTER_APPLICATION_RESPONSE,
    layout (sizeof_struct irati_msg_app_reg_app_resp - 2 * PTR) [(M_names, 2)]);
  (RINA_C_APP_UNREGISTER_APPLICATION_REQUEST,
    layout (sizeof_struct irati_msg_app_reg_app_resp - 2 * PTR) [(M_names, 2)]);
  (RINA_C_APP_UNREGISTER_APPLICATION_RESPONSE,
    layout (sizeof_struct irati_msg_app_reg_app_resp - 2 * PTR) [(M_names, 2)]);
  (RINA_C_APP_APPLICATION_REGISTRATION_CANCELED_NOTIFICATION,
    layout (sizeof_struct irati_msg_app_reg_cancel - 2 * PTR - PTR) [(M_names, 2); (M_strings, 1)]);
  (RINA_C_APP_GET_DIF_PROPERTIES_REQUEST,
    layout (sizeof_struct irati_msg_app_reg_app_resp - 2 * PTR) [(M_names, 2)]);
  (RINA_C_APP_GET_DIF_PROPERTIES_RESPONSE,
    layout (sizeof_struct irati_msg_get_dif_prop - 2 * PTR - PTR) [(M_names, 2); (M_dif_properties, 1)]);
  (RINA_C_IPCM_PLUGIN_LOAD_REQUEST,
    layout (sizeof_struct irati_msg_ipcm_plugin_load - PTR) [(M_strings, 1)]);
  (RINA_C_IPCM_PLUGIN_LOAD_RESPONSE,
    layout (sizeof_struct irati_msg_base_resp) []);
  (RINA_C_IPCM_FWD_CDAP_MSG_REQUEST,
    layout (sizeof_struct irati_msg_ipcm_fwd_cdap_msg - PTR) [(M_buffers, 1)]);
  (RINA_C_IPCM_FWD_CDAP_MSG_RESPONSE,
    layout (sizeof_struct irati_msg_ipcm_fwd_cdap_msg - PTR) [(M_buffers, 1)]);
  (RINA_C_IPCM_MEDIA_REPORT,
    layout (sizeof_struct irati_msg_ipcm_media_report - PTR) [(M_media_reports, 1)]);
  (RINA_C_IPCM_FINALIZE_REQUEST,
    layout (sizeof_struct irati_msg_base) []);
  (RINA_C_IPCP_CONN_MODIFY_REQUEST,
    layout (sizeof_struct irati_kmsg_ipcp_conn_update) []);
  (RINA_C_IPCM_SCAN_MEDIA_REQUEST,
    layout (sizeof_struct irati_msg_base) []);
  (RINA_C_MAX,
    layout (0) [])
].

(** [numtables[t]] *)
Fixpoint table_lookup {A} (t : Z) (l : list (Z * A)) : option A :=
  match l with
  | [] => None
  | (t', a) :: l' => if t =? t' then Some a else table_lookup t l'
  end.

Definition numtables_at (tab : list (Z * irati_msg_layout)) (t : Z) : irati_msg_layout :=
  default (layout0 0) (table_lookup t tab).

(** The pointers of a message in the order in which the loops of [serialize_irati_msg],
    [deserialize_irati_msg] and [irati_msg_serlen] go through them. *)
Definition slots (l : irati_msg_layout) : list kind :=
  replicate (Z.to_nat l.(names)) KName ++
  replicate (Z.to_nat l.(strings)) KString ++
  replicate (Z.to_nat l.(flow_specs)) KFlowSpec ++
  replicate (Z.to_nat l.(dif_configs)) KDifConfig ++
  replicate (Z.to_nat l.(dtp_configs)) KDtpConfig ++
  replicate (Z.to_nat l.(dtcp_configs)) KDtcpConfig ++
  replicate (Z.to_nat l.(query_rib_resps)) KQueryRibResp ++
  replicate (Z.to_nat l.(pff_entry_lists)) KPffEntryList ++
  replicate (Z.to_nat l.(sdup_crypto_states)) KSdupCryptoState ++
  replicate (Z.to_nat l.(dif_properties)) KDifProperties ++
  replicate (Z.to_nat l.(ipcp_neigh_lists)) KIpcpNeighList ++
  replicate (Z.to_nat l.(media_reports)) KMediaReport ++
  replicate (Z.to_nat l.(buffers)) KBuffer.

(** ** The structure of a received message ([allocate_irati_msg]) *)

Definition allocate_table : list (Z * cstruct) := [
  (RINA_C_IPCM_ASSIGN_TO_DIF_REQUEST, irati_kmsg_ipcm_assign_to_dif);
  (RINA_C_IPCM_PLUGIN_LOAD_RESPONSE, irati_msg_base_resp);
  (RINA_C_IPCM_DISCONNECT_FROM_NEIGHBOR_RESPONSE, irati_msg_base_resp);
  (RINA_C_IPCM_DESTROY_IPCP_RESPONSE, irati_msg_base_resp);
  (RINA_C_IPCM_CREATE_IPCP_RESPONSE, irati_msg_base_resp);
  (RINA_C_IPCP_MANAGEMENT_SDU_WRITE_RESPONSE, irati_msg_base_resp);
  (RINA_C_IPCP_SET_POLICY_SET_PARAM_RESPONSE, irati_msg_base_resp);
  (RINA_C_IPCP_SELECT_POLICY_SET_RESPONSE, irati_msg_base_resp);
  (RINA_C_IPCM_UNREGISTER_APPLICATION_RESPONSE, irati_msg_base_resp);
  (RINA_C_IPCM_REGISTER_APPLICATION_RESPONSE, irati_msg_base_resp);
  (RINA_C_IPCM_UPDATE_DIF_CONFIG_RESPONSE, irati_msg_base_resp);
  (RINA_C_IPCM_ASSIGN_TO_DIF_RESPONSE, irati_msg_base_resp);
  (RINA_C_IPCM_UPDATE_DIF_CONFIG_REQUEST, irati_kmsg_ipcm_update_config);
  (RINA_C_IPCM_IPC_PROCESS_DIF_UNREGISTRATION_NOTIFICATION, irati_kmsg_ipcp_dif_reg_not);
  (RINA_C_IPCM_IPC_PROCESS_DIF_REGISTRATION_NOTIFICATION, irati_kmsg_ipcp_dif_reg_not);
  (RINA_C_APP_ALLOCATE_FLOW_REQUEST, irati_kmsg_ipcm_allocate_flow);
  (RINA_C_APP_ALLOCATE_FLOW_REQUEST_ARRIVED, irati_kmsg_ipcm_allocate_flow);
  (RINA_C_IPCM_ALLOCATE_FLOW_REQUEST_ARRIVED, irati_kmsg_ipcm_allocate_flow);
  (RINA_C_IPCM_ALLOCATE_FLOW_REQUEST, irati_kmsg_ipcm_allocate_flow);
  (RINA_C_IPCP_CONN_UPDATE_RESULT, irati_kmsg_multi_msg);
  (RINA_C_IPCP_CONN_DESTROY_REQUEST, irati_kmsg_multi_msg);
  (RINA_C_IPCP_CONN_DESTROY_RESULT, irati_kmsg_multi_msg);
  (RINA_C_IPCP_UPDATE_CRYPTO_STATE_RESPONSE, irati_kmsg_multi_msg);
  (RINA_C_IPCP_ALLOCATE_PORT_RESPONSE, irati_kmsg_multi_msg);
  (RINA_C_IPCP_DEALLOCATE_PORT_REQUEST, irati_kmsg_multi_msg);
  (RINA_C_IPCP_DEALLOCATE_PORT_RESPONSE, irati_kmsg_multi_msg);
  (RINA_C_IPCM_DEALLOCATE_FLOW_REQUEST, irati_kmsg_multi_msg);
  (RINA_C_IPCM_FLOW_DEALLOCATED_NOTIFICATION, irati_kmsg_multi_msg);
  (RINA_C_IPCM_ALLOCATE_FLOW_REQUEST_RESULT, irati_kmsg_multi_msg);
  (RINA_C_IPCM_ALLOCATE_FLOW_RESPONSE, irati_kmsg_ipcm_allocate_flow_resp);
  (RINA_C_IPCM_REGISTER_APPLICATION_REQUEST, irati_kmsg_ipcm_reg_app);
  (RINA_C_IPCM_UNREGISTER_APPLICATION_REQUEST, irati_kmsg_ipcm_unreg_app);
  (RINA_C_IPCM_QUERY_RIB_REQUEST, irati_kmsg_ipcm_query_rib);
  (RINA_C_IPCM_QUERY_RIB_RESPONSE, irati_kmsg_ipcm_query_rib_resp);
  (RINA_C_IPCM_SCAN_MEDIA_REQUEST, irati_msg_base);
  (RINA_C_IPCM_FINALIZE_REQUEST, irati_msg_base);
  (RINA_C_RMT_DUMP_FT_REQUEST, irati_msg_base);
  (RINA_C_RMT_MODIFY_FTE_REQUEST, irati_kmsg_rmt_dump_ft);
  (RINA_C_RMT_DUMP_FT_REPLY, irati_kmsg_rmt_dump_ft);
  (RINA_C_IPCP_CONN_CREATE_REQUEST, irati_kmsg_ipcp_conn_create_arrived);
  (RINA_C_IPCP_CONN_CREATE_ARRIVED, irati_kmsg_ipcp_conn_create_arrived);
  (RINA_C_IPCP_CONN_CREATE_RESPONSE, irati_kmsg_ipcp_conn_update);
  (RINA_C_IPCP_CONN_CREATE_RESULT, irati_kmsg_ipcp_conn_update);
  (RINA_C_IPCP_CONN_MODIFY_REQUEST, irati_kmsg_ipcp_conn_update);
  (RINA_C_IPCP_CONN_UPDATE_REQUEST, irati_kmsg_ipcp_conn_update);
  (RINA_C_IPCP_SET_POLICY_SET_PARAM_REQUEST, irati_kmsg_ipcp_select_ps_param);
  (RINA_C_IPCP_SELECT_POLICY_SET_REQUEST, irati_kmsg_ipcp_select_ps);
  (RINA_C_IPCP_UPDATE_CRYPTO_STATE_REQUEST, irati_kmsg_ipcp_update_crypto_state);
  (RINA_C_IPCP_ADDRESS_CHANGE_REQUEST, irati_kmsg_ipcp_address_change);
  (RINA_C_IPCP_ALLOCATE_PORT_REQUEST, irati_kmsg_ipcp_allocate_port);
  (RINA_C_IPCP_MANAGEMENT_SDU_WRITE_REQUEST, irati_kmsg_ipcp_mgmt_sdu);
  (RINA_C_IPCP_MANAGEMENT_SDU_READ_NOTIF, irati_kmsg_ipcp_mgmt_sdu);
  (RINA_C_IPCM_CREATE_IPCP_REQUEST, irati_kmsg_ipcm_create_ipcp);
  (RINA_C_IPCM_DESTROY_IPCP_REQUEST, irati_kmsg_ipcm_destroy_ipcp);
  (RINA_C_IPCM_ENROLL_TO_DIF_REQUEST, irati_msg_ipcm_enroll_to_dif);
  (RINA_C_IPCM_ENROLL_TO_DIF_RESPONSE, irati_msg_ipcm_enroll_to_dif_resp);
  (RINA_C_IPCM_DISCONNECT_FROM_NEIGHBOR_REQUEST, irati_msg_with_name);
  (RINA_C_IPCM_IPC_PROCESS_INITIALIZED, irati_msg_with_name);
  (RINA_C_APP_ALLOCATE_FLOW_REQUEST_RESULT, irati_msg_app_alloc_flow_result);
  (RINA_C_APP_ALLOCATE_FLOW_RESPONSE, irati_msg_app_alloc_flow_response);
  (RINA_C_APP_DEALLOCATE_FLOW_REQUEST, irati_msg_app_reg_app);
  (RINA_C_APP_REGISTER_APPLICATION_REQUEST, irati_msg_app_reg_app);
  (RINA_C_APP_UNREGISTER_APPLICATION_REQUEST, irati_msg_app_reg_app_resp);
  (RINA_C_APP_UNREGISTER_APPLICATION_RESPONSE, irati_msg_app_reg_app_resp);
  (RINA_C_APP_GET_DIF_PROPERTIES_REQUEST, irati_msg_app_reg_app_resp);
  (RINA_C_APP_REGISTER_APPLICATION_RESPONSE, irati_msg_app_reg_app_resp);
  (RINA_C_APP_APPLICATION_REGISTRATION_CANCELED_NOTIFICATION, irati_msg_app_reg_cancel);
  (RINA_C_APP_GET_DIF_PROPERTIES_RESPONSE, irati_msg_get_dif_prop);
  (RINA_C_IPCM_PLUGIN_LOAD_REQUEST, irati_msg_ipcm_plugin_load);
  (RINA_C_IPCM_FWD_CDAP_MSG_REQUEST, irati_msg_ipcm_fwd_cdap_msg);
  (RINA_C_IPCM_FWD_CDAP_MSG_RESPONSE, irati_msg_ipcm_fwd_cdap_msg);
  (RINA_C_IPCM_MEDIA_REPORT, irati_msg_ipcm_media_report)
].

Definition allocate_irati_msg (t : Z) : option cstruct := table_lookup t allocate_table.
