(* ===== verification/Messages.v ===== *)
(** * Control messages

    [serialize_irati_msg], [deserialize_irati_msg] and [irati_msg_serlen] of
    [src/common/serdes-utils.c].  A message is a structure of [kernel-msg.h]: the bytes of its plain
    fields and its pointers.  The functions know the structure from the table of layouts only;
    [None] is a fault: a pointer taken for one of another type, a read or a write outside
    the structure or the buffer.

    The theorems: the table describes the structures it is used for and a received message
    fits the structure allocated for it; a message is read back as it was written; the
    length announced is the number of bytes written. *)

From S2P Require Import Prelude Kucommon Config Serdes Wire SerdesLaws SerdesLen MsgLayout.
From Stdlib Require Import ZArith Lia.
From stdpp Require Import base list numbers option.
#[local] Open Scope Z_scope.
#[local] Open Scope serdes_scope.

(** ** Messages *)

Inductive ptr :=
  | PName (p : option name)
  | PString (p : string_ptr)
  | PFlowSpec (p : option flow_spec)
  | PDifConfig (p : option dif_config)
  | PDtpConfig (p : option dtp_config)
  | PDtcpConfig (p : option dtcp_config)
  | PQueryRibResp (p : option query_rib_resp)
  | PPffEntryList (p : option pff_entry_list)
  | PSdupCryptoState (p : option sdup_crypto_state)
  | PDifProperties (p : option get_dif_prop_resp)
  | PIpcpNeighList (p : option ipcp_neigh_list)
  | PMediaReport (p : option media_report)
  | PBuffer (p : option buffer).

Definition kind_of (p : ptr) : kind :=
  match p with
  | PName _ => KName
  | PString _ => KString
  | PFlowSpec _ => KFlowSpec
  | PDifConfig _ => KDifConfig
  | PDtpConfig _ => KDtpConfig
  | PDtcpConfig _ => KDtcpConfig
  | PQueryRibResp _ => KQueryRibResp
  | PPffEntryList _ => KPffEntryList
  | PSdupCryptoState _ => KSdupCryptoState
  | PDifProperties _ => KDifProperties
  | PIpcpNeighList _ => KIpcpNeighList
  | PMediaReport _ => KMediaReport
  | PBuffer _ => KBuffer
  end.

Record irati_msg := mk_irati_msg { im_plain : list Z; im_ptrs : list ptr }.

(** [msg->msg_type]: the first two bytes; a shorter buffer is a fault. *)
Definition msg_type (plain : list Z) : option Z := load 2 0 plain.

(** ** Serialisation *)

Definition serialize_ptr (p : ptr) : list Z :=
  match p with
  | PName p => serialize_rina_name p
  | PString p => serialize_string p
  | PFlowSpec p => serialize_flow_spec p
  | PDifConfig p => serialize_dif_config p
  | PDtpConfig p => serialize_dtp_config p
  | PDtcpConfig p => serialize_dtcp_config p
  | PQueryRibResp p => serialize_query_rib_resp p
  | PPffEntryList p => serialize_pff_entry_list p
  | PSdupCryptoState p => serialize_sdup_crypto_state p
  | PDifProperties p => serialize_get_dif_prop_resp p
  | PIpcpNeighList p => serialize_ipcp_neigh_list p
  | PMediaReport p => serialize_media_report p
  | PBuffer p => serialize_buffer p
  end.

(** The loops over the pointers: the [i]-th pointer is taken for the type the table says. *)
Fixpoint serialize_slots (ks : list kind) (ps : list ptr) : option (list Z) :=
  match ks, ps with
  | [], _ => Some []
  | k :: ks', p :: ps' =>
      if decide (kind_of p = k)
      then rest ← serialize_slots ks' ps'; Some (serialize_ptr p ++ rest)
      else None
  | _ :: _, [] => None
  end.

(** The plain fields are where the table says the pointers start, or the pointers are read from
    somewhere else. *)
Definition check_copylen (l : irati_msg_layout) (m : irati_msg) : option unit :=
  if Z.of_nat (length m.(im_plain)) =? l.(copylen) then Some tt else None.

Definition serialize_irati_msg (tab : list (Z * irati_msg_layout)) (num_entries : Z) (m : irati_msg)
  : option (Z * list Z) :=
  t ← msg_type m.(im_plain);
  if num_entries <=? t then Some (-1, [])
  else
    let l := numtables_at tab t in
    _ ← check_copylen l m;
    bs ← serialize_slots (slots l) m.(im_ptrs);
    let serbuf := m.(im_plain) ++ bs in
    Some (s32 (u32 (Z.of_nat (length serbuf))), serbuf).

(** ** The length of a serialised message *)

Definition ptr_serlen (p : ptr) : option Z :=
  match p with
  | PName p => Some (rina_name_serlen p)
  | PString p => Some (2 + string_prlen p)
  | PFlowSpec p => Some (flow_spec_serlen p)
  | PDifConfig p => Some (dif_config_serlen p)
  | PDtpConfig p => Some (dtp_config_serlen p)
  | PDtcpConfig p => Some (dtcp_config_serlen p)
  | PQueryRibResp p => Some (query_rib_resp_serlen p)
  | PPffEntryList p => Some (pff_entry_list_serlen p)
  | PSdupCryptoState p => Some (sdup_crypto_state_serlen p)
  | PDifProperties p => Some (get_dif_prop_resp_serlen p)
  | PIpcpNeighList p => Some (ipcp_neigh_list_serlen p)
  | PMediaReport p => Some (media_report_serlen p)
  | PBuffer p => b ← p; Some (4 + b.(buf_size))
  end.

Fixpoint serlen_slots (ks : list kind) (ps : list ptr) (ret : Z) : option Z :=
  match ks, ps with
  | [], _ => Some ret
  | k :: ks', p :: ps' =>
      if decide (kind_of p = k)
      then n ← ptr_serlen p; serlen_slots ks' ps' (u32 (ret + n))
      else None
  | _ :: _, [] => None
  end.

Definition irati_msg_serlen (tab : list (Z * irati_msg_layout)) (num_entries : Z) (m : irati_msg)
  : option Z :=
  t ← msg_type m.(im_plain);
  if num_entries <=? t then Some (u32 (-1))
  else
    let l := numtables_at tab t in
    _ ← check_copylen l m;
    serlen_slots (slots l) m.(im_ptrs) (u32 l.(copylen)).

(** ** Deserialisation *)

Definition deserialize_ptr {X} (k : kind) : D X ptr :=
  match k with
  | KName => p <- D_local None deserialize_rina_name;; D_ret (PName p)
  | KString => p <- D_local None deserialize_string;; D_ret (PString p)
  | KFlowSpec => p <- D_local None deserialize_flow_spec;; D_ret (PFlowSpec p)
  | KDifConfig => p <- D_local None deserialize_dif_config;; D_ret (PDifConfig p)
  | KDtpConfig => p <- D_local None deserialize_dtp_config;; D_ret (PDtpConfig p)
  | KDtcpConfig => p <- D_local None deserialize_dtcp_config;; D_ret (PDtcpConfig p)
  | KQueryRibResp => p <- D_local None deserialize_query_rib_resp;; D_ret (PQueryRibResp p)
  | KPffEntryList => p <- D_local None deserialize_pff_entry_list;; D_ret (PPffEntryList p)
  | KSdupCryptoState => p <- D_local None deserialize_sdup_crypto_state;; D_ret (PSdupCryptoState p)
  | KDifProperties => p <- D_local None deserialize_get_dif_prop_resp;; D_ret (PDifProperties p)
  | KIpcpNeighList => p <- D_local None deserialize_ipcp_neigh_list;; D_ret (PIpcpNeighList p)
  | KMediaReport => p <- D_local None deserialize_media_report;; D_ret (PMediaReport p)
  | KBuffer => p <- D_local None deserialize_buffer;; D_ret (PBuffer p)
  end.

(** The loops store the pointers behind the plain fields; [room] pointers fit in the structure. *)
Fixpoint deserialize_slots (room : Z) (ks : list kind) : D (list ptr) unit :=
  match ks with
  | [] => D_ret tt
  | k :: ks' =>
      n <- D_get (fun ps => Z.of_nat (length ps));;
      if room <=? n then D_fault
      else
        p <- deserialize_ptr k;;
        D_put (fun ps => ps ++ [p]);;
        deserialize_slots room ks'
  end.

(** The message, or a null pointer; a message that is not returned is released. *)
Definition deserialize_irati_msg (tab : list (Z * irati_msg_layout)) (num_entries : Z)
    (serbuf : list Z) (serbuf_len : Z) (o : oracle) (junk : Z) : option (option irati_msg) :=
  t ← msg_type serbuf;
  if num_entries <=? t then Some None
  else
    match allocate_irati_msg t with
    | None => Some None
    | Some st =>
        let '(ok, o) := rkmalloc o in
        if negb ok then Some None
        else
          let l := numtables_at tab t in
          if negb ((l.(copylen) <=? sizeof_struct st) && (l.(copylen) <=? Z.of_nat (length serbuf))) then None
          else
            let plain := take (Z.to_nat l.(copylen)) serbuf in
            let rest := drop (Z.to_nat l.(copylen)) serbuf in
            let room := (sizeof_struct st - l.(copylen)) / PTR in
            match deserialize_slots room (slots l) [] (mk_rd rest o junk) with
            | None => None
            | Some (inr _, _, _) => Some None
            | Some (inl _, ps, r) =>
                if Z.of_nat (length serbuf) - Z.of_nat (length r.(rd_buf)) =? serbuf_len
                then Some (Some (mk_irati_msg plain ps)) else Some None
            end
    end.

(** The structure of every message type ([kernel-msg.h]). *)
Definition message_structs : list (Z * cstruct) := [
  (RINA_C_IPCM_ASSIGN_TO_DIF_REQUEST, irati_kmsg_ipcm_assign_to_dif);
  (RINA_C_IPCM_ASSIGN_TO_DIF_RESPONSE, irati_msg_base_resp);
  (RINA_C_IPCM_UPDATE_DIF_CONFIG_REQUEST, irati_kmsg_ipcm_update_config);
  (RINA_C_IPCM_UPDATE_DIF_CONFIG_RESPONSE, irati_msg_base_resp);
  (RINA_C_IPCM_IPC_PROCESS_DIF_REGISTRATION_NOTIFICATION, irati_kmsg_ipcp_dif_reg_not);
  (RINA_C_IPCM_IPC_PROCESS_DIF_UNREGISTRATION_NOTIFICATION, irati_kmsg_ipcp_dif_reg_not);
  (RINA_C_IPCM_ALLOCATE_FLOW_REQUEST, irati_kmsg_ipcm_allocate_flow);
  (RINA_C_IPCM_ALLOCATE_FLOW_REQUEST_ARRIVED, irati_kmsg_ipcm_allocate_flow);
  (RINA_C_IPCM_ALLOCATE_FLOW_RESPONSE, irati_kmsg_ipcm_allocate_flow_resp);
  (RINA_C_IPCM_REGISTER_APPLICATION_REQUEST, irati_kmsg_ipcm_reg_app);
  (RINA_C_IPCM_REGISTER_APPLICATION_RESPONSE, irati_msg_base_resp);
  (RINA_C_IPCM_UNREGISTER_APPLICATION_REQUEST, irati_kmsg_ipcm_unreg_app);
  (RINA_C_IPCM_UNREGISTER_APPLICATION_RESPONSE, irati_msg_base_resp);
  (RINA_C_IPCM_QUERY_RIB_REQUEST, irati_kmsg_ipcm_query_rib);
  (RINA_C_IPCM_QUERY_RIB_RESPONSE, irati_kmsg_ipcm_query_rib_resp);
  (RINA_C_RMT_DUMP_FT_REQUEST, irati_msg_base);
  (RINA_C_RMT_MODIFY_FTE_REQUEST, irati_kmsg_rmt_dump_ft);
  (RINA_C_RMT_DUMP_FT_REPLY, irati_kmsg_rmt_dump_ft);
  (RINA_C_IPCP_CONN_CREATE_REQUEST, irati_kmsg_ipcp_conn_create_arrived);
  (RINA_C_IPCP_CONN_CREATE_ARRIVED, irati_kmsg_ipcp_conn_create_arrived);
  (RINA_C_IPCP_CONN_CREATE_RESPONSE, irati_kmsg_ipcp_conn_update);
  (RINA_C_IPCP_CONN_CREATE_RESULT, irati_kmsg_ipcp_conn_update);
  (RINA_C_IPCP_CONN_UPDATE_REQUEST, irati_kmsg_ipcp_conn_update);
  (RINA_C_IPCP_SET_POLICY_SET_PARAM_REQUEST, irati_kmsg_ipcp_select_ps_param);
  (RINA_C_IPCP_SET_POLICY_SET_PARAM_RESPONSE, irati_msg_base_resp);
  (RINA_C_IPCP_SELECT_POLICY_SET_REQUEST, irati_kmsg_ipcp_select_ps);
  (RINA_C_IPCP_SELECT_POLICY_SET_RESPONSE, irati_msg_base_resp);
  (RINA_C_IPCP_UPDATE_CRYPTO_STATE_REQUEST, irati_kmsg_ipcp_update_crypto_state);
  (RINA_C_IPCP_ADDRESS_CHANGE_REQUEST, irati_kmsg_ipcp_address_change);
  (RINA_C_IPCP_ALLOCATE_PORT_REQUEST, irati_kmsg_ipcp_allocate_port);
  (RINA_C_IPCM_ALLOCATE_FLOW_REQUEST_RESULT, irati_kmsg_multi_msg);
  (RINA_C_IPCM_DEALLOCATE_FLOW_REQUEST, irati_kmsg_multi_msg);
  (RINA_C_IPCM_FLOW_DEALLOCATED_NOTIFICATION, irati_kmsg_multi_msg);
  (RINA_C_IPCP_CONN_UPDATE_RESULT, irati_kmsg_multi_msg);
  (RINA_C_IPCP_CONN_DESTROY_REQUEST, irati_kmsg_multi_msg);
  (RINA_C_IPCP_CONN_DESTROY_RESULT, irati_kmsg_multi_msg);
  (RINA_C_IPCP_UPDATE_CRYPTO_STATE_RESPONSE, irati_kmsg_multi_msg);
  (RINA_C_IPCP_ALLOCATE_PORT_RESPONSE, irati_kmsg_multi_msg);
  (RINA_C_IPCP_DEALLOCATE_PORT_REQUEST, irati_kmsg_multi_msg);
  (RINA_C_IPCP_DEALLOCATE_PORT_RESPONSE, irati_kmsg_multi_msg);
  (RINA_C_IPCP_MANAGEMENT_SDU_WRITE_REQUEST, irati_kmsg_ipcp_mgmt_sdu);
  (RINA_C_IPCP_MANAGEMENT_SDU_READ_NOTIF, irati_kmsg_ipcp_mgmt_sdu);
  (RINA_C_IPCP_MANAGEMENT_SDU_WRITE_RESPONSE, irati_msg_base_resp);
  (RINA_C_IPCM_CREATE_IPCP_REQUEST, irati_kmsg_ipcm_create_ipcp);
  (RINA_C_IPCM_CREATE_IPCP_RESPONSE, irati_msg_base_resp);
  (RINA_C_IPCM_DESTROY_IPCP_REQUEST, irati_kmsg_ipcm_destroy_ipcp);
  (RINA_C_IPCM_DESTROY_IPCP_RESPONSE, irati_msg_base_resp);
  (RINA_C_IPCM_ENROLL_TO_DIF_REQUEST, irati_msg_ipcm_enroll_to_dif);
  (RINA_C_IPCM_ENROLL_TO_DIF_RESPONSE, irati_msg_ipcm_enroll_to_dif_resp);
  (RINA_C_IPCM_DISCONNECT_FROM_NEIGHBOR_REQUEST, irati_msg_with_name);
  (RINA_C_IPCM_DISCONNECT_FROM_NEIGHBOR_RESPONSE, irati_msg_base_resp);
  (RINA_C_IPCM_IPC_PROCESS_INITIALIZED, irati_msg_with_name);
  (RINA_C_APP_ALLOCATE_FLOW_REQUEST, irati_kmsg_ipcm_allocate_flow);
  (RINA_C_APP_ALLOCATE_FLOW_REQUEST_RESULT, irati_msg_app_alloc_flow_result);
  (RINA_C_APP_ALLOCATE_FLOW_REQUEST_ARRIVED, irati_kmsg_ipcm_allocate_flow);
  (RINA_C_APP_ALLOCATE_FLOW_RESPONSE, irati_msg_app_alloc_flow_response);
  (RINA_C_APP_DEALLOCATE_FLOW_REQUEST, irati_msg_app_dealloc_flow);
  (RINA_C_APP_FLOW_DEALLOCATED_NOTIFICATION, irati_msg_app_dealloc_flow);
  (RINA_C_APP_REGISTER_APPLICATION_REQUEST, irati_msg_app_reg_app);
  (RINA_C_APP_REGISTER_APPLICATION_RESPONSE, irati_msg_app_reg_app_resp);
  (RINA_C_APP_UNREGISTER_APPLICATION_REQUEST, irati_msg_app_reg_app_resp);
  (RINA_C_APP_UNREGISTER_APPLICATION_RESPONSE, irati_msg_app_reg_app_resp);
  (RINA_C_APP_APPLICATION_REGISTRATION_CANCELED_NOTIFICATION, irati_msg_app_reg_cancel);
  (RINA_C_APP_GET_DIF_PROPERTIES_REQUEST, irati_msg_app_reg_app_resp);
  (RINA_C_APP_GET_DIF_PROPERTIES_RESPONSE, irati_msg_get_dif_prop);
  (RINA_C_IPCM_PLUGIN_LOAD_REQUEST, irati_msg_ipcm_plugin_load);
  (RINA_C_IPCM_PLUGIN_LOAD_RESPONSE, irati_msg_base_resp);
  (RINA_C_IPCM_FWD_CDAP_MSG_REQUEST, irati_msg_ipcm_fwd_cdap_msg);
  (RINA_C_IPCM_FWD_CDAP_MSG_RESPONSE, irati_msg_ipcm_fwd_cdap_msg);
  (RINA_C_IPCM_MEDIA_REPORT, irati_msg_ipcm_media_report);
  (RINA_C_IPCM_FINALIZE_REQUEST, irati_msg_base);
  (RINA_C_IPCP_CONN_MODIFY_REQUEST, irati_kmsg_ipcp_conn_update);
  (RINA_C_IPCM_SCAN_MEDIA_REQUEST, irati_msg_base)
].

(** ** The table describes the structures *)

(** The number of pointers and the length of the plain fields of one entry. *)
Definition entry_typed (e : Z * cstruct) : bool :=
  let l := numtables_at irati_ker_numtables e.1 in
  (l.(copylen) =? sizeof_plain e.2) && bool_decide (slots l = e.2.(cs_ptrs)) &&
  ((e.1 =? RINA_C_APP_FLOW_DEALLOCATED_NOTIFICATION) ||
   match allocate_irati_msg e.1 with
   | Some st => sizeof_struct e.2 <=? sizeof_struct st
   | None => false
   end).

Lemma table_lookup_In {A} t (l : list (Z * A)) a : table_lookup t l = Some a -> In (t, a) l.
Proof.
  induction l as [|[t' a'] l IH]; [done|]. cbn. case (Z.eqb_spec t t'); intros; simplify_eq; auto.
Qed.

Lemma message_structs_typed t st :
  table_lookup t message_structs = Some st ->
  let l := numtables_at irati_ker_numtables t in
  l.(copylen) = sizeof_plain st /\ slots l = st.(cs_ptrs) /\
  (t <> RINA_C_APP_FLOW_DEALLOCATED_NOTIFICATION ->
   exists st', allocate_irati_msg t = Some st' /\ sizeof_struct st <= sizeof_struct st').
Proof.
  intros Ht%table_lookup_In l.
  assert (forallb entry_typed message_structs = true) as E by (vm_compute; reflexivity).
  rewrite forallb_forall in E. specialize (E _ Ht). unfold entry_typed in E; cbn [fst snd] in E.
  apply andb_prop in E as [E Ha]. apply andb_prop in E as [Hc Hs].
  split; [by apply Z.eqb_eq|]. split; [by apply bool_decide_eq_true_1 in Hs|].
  intros Hne. apply orb_prop in Ha as [Ha|Ha]; [by apply Z.eqb_eq in Ha|].
  destruct (allocate_irati_msg t) as [st'|]; [|done]. exists st'. split; [done|by apply Z.leb_le].
Qed.

(** The entry points of a message type lie below [RINA_C_MAX]. *)
Lemma message_structs_range t st : table_lookup t message_structs = Some st -> 0 < t < RINA_C_MAX.
Proof.
  intros Ht%table_lookup_In.
  assert (forallb (fun e => (0 <? e.1) && (e.1 <? RINA_C_MAX)) message_structs = true) as E
    by (vm_compute; reflexivity).
  rewrite forallb_forall in E. specialize (E _ Ht). cbn in E. lia.
Qed.

(** ** Well-formed messages and what the receiver reads *)

#[export] Instance ptr_wire_msg : Wire ptr := {
  w_ok p :=
    match p with
    | PName p => w_ok p
    | PString p => w_ok p
    | PFlowSpec p => w_ok p
    | PDifConfig p => w_ok p /\ from_option dif_ipcp_config_entries [] p <> []
    | PDtpConfig p => w_ok p
    | PDtcpConfig p => w_ok p
    | PQueryRibResp p => w_ok p
    | PPffEntryList p => w_ok p
    | PSdupCryptoState p => w_ok p
    | PDifProperties p => w_ok p
    | PIpcpNeighList p => w_ok p
    | PMediaReport p => w_ok p
    | PBuffer p => w_ok p
    end;
  w_norm p :=
    match p with
    | PName p => PName (w_norm p)
    | PString p => PString (w_norm p)
    | PFlowSpec p => PFlowSpec (w_norm p)
    | PDifConfig p => PDifConfig (w_norm p)
    | PDtpConfig p => PDtpConfig (w_norm p)
    | PDtcpConfig p => PDtcpConfig (w_norm p)
    | PQueryRibResp p => PQueryRibResp (w_norm p)
    | PPffEntryList p => PPffEntryList (w_norm p)
    | PSdupCryptoState p => PSdupCryptoState (w_norm p)
    | PDifProperties p => PDifProperties (w_norm p)
    | PIpcpNeighList p => PIpcpNeighList (w_norm p)
    | PMediaReport p => PMediaReport (w_norm p)
    | PBuffer p => PBuffer (w_norm p)
    end
}.

(** A message of type [t] with contents the serialisers handle. *)
Definition msg_ok (t : Z) (m : irati_msg) : Prop :=
  exists st, table_lookup t message_structs = Some st /\ Z.of_nat (length m.(im_plain)) = sizeof_plain st /\
    msg_type m.(im_plain) = Some t /\ map kind_of m.(im_ptrs) = st.(cs_ptrs) /\ Forall w_ok m.(im_ptrs).

Definition msg_read (m : irati_msg) : irati_msg := mk_irati_msg m.(im_plain) (map w_norm m.(im_ptrs)).

Lemma reads_dif_config c :
  w_ok c -> dif_ipcp_config_entries c <> [] ->
  reads deserialize_dif_config (serialize_dif_config (Some c)) None tt (Some (w_norm c)).
Proof.
  intros Hc Hne rest j. rewrite reads_dif_config_junk by done.
  destruct (dif_ipcp_config_entries c); [done|]. reflexivity.
Qed.

Lemma reads_ptr_slot {X} p (x : X) :
  w_ok p -> reads (deserialize_ptr (kind_of p)) (serialize_ptr p) x (w_norm p) x.
Proof.
  intros Hp. destruct p as [p|p|p|p|p|p|p|p|p|p|p|p|p];
    cbn [w_ok w_norm ptr_wire_msg deserialize_ptr serialize_ptr kind_of] in *;
    try (eapply reads_last; [apply reads_local, reads_law, Hp | apply reads_ret]).
  destruct p as [c|]; destruct Hp as [Hp Hne]; [|done].
  eapply reads_last; [apply reads_local, reads_dif_config; [exact Hp | exact Hne] | apply reads_ret].
Qed.

Lemma serialize_slots_kinds ps :
  serialize_slots (map kind_of ps) ps = Some (concat (map serialize_ptr ps)).
Proof.
  induction ps as [|p ps IH]; [done|]. cbn [map serialize_slots concat].
  rewrite decide_True by done. by rewrite IH.
Qed.

Lemma reads_slots room ps ps0 :
  Forall w_ok ps -> Z.of_nat (length ps0) + Z.of_nat (length ps) <= room ->
  reads (deserialize_slots room (map kind_of ps)) (concat (map serialize_ptr ps)) ps0 tt
    (ps0 ++ map w_norm ps).
Proof.
  intros Hps. revert ps0. induction Hps as [|p ps Hp Hps IH]; intros ps0 Hroom; cbn [map deserialize_slots concat length] in *.
  - eapply reads_conv; [apply reads_ret|]. by rewrite app_nil_r.
  - eapply reads_step; [apply reads_get|]. cbv beta.
    replace (room <=? _) with false by (symmetry; apply Z.leb_gt; lia).
    eapply reads_bind; [by apply reads_ptr_slot|]. eapply reads_step; [apply reads_put|].
    eapply reads_conv; [apply IH; rewrite length_app; cbn; lia|]. by rewrite <- app_assoc.
Qed.

(** What is written for a well-formed message. *)
Lemma serialize_ok t m :
  msg_ok t m ->
  let bs := m.(im_plain) ++ concat (map serialize_ptr m.(im_ptrs)) in
  serialize_irati_msg irati_ker_numtables RINA_C_MAX m = Some (s32 (u32 (Z.of_nat (length bs))), bs).
Proof.
  intros (st & Hst & Hlen & Ht & Hk & Hok). cbv zeta. unfold serialize_irati_msg. rewrite Ht. cbn [mbind option_bind].
  pose proof (message_structs_range _ _ Hst) as Hr. destruct (message_structs_typed _ _ Hst) as (Hc & Hs & _).
  replace (RINA_C_MAX <=? t) with false by lia. cbv zeta. unfold check_copylen.
  rewrite Hc, Hlen, Z.eqb_refl, Hs, <- Hk, serialize_slots_kinds. done.
Qed.

(** The length announced for the pointers. *)
Lemma announces_ptr_slot p :
  w_ok p -> p <> PBuffer None ->
  exists n, ptr_serlen p = Some n /\ eq32 n (Z.of_nat (length (serialize_ptr p))).
Proof.
  intros Hp Hne.
  destruct p as [p|p|p|p|p|p|p|p|p|p|p|p|p]; cbn [w_ok ptr_wire_msg ptr_serlen serialize_ptr] in *;
    try (eexists; split; [done|]; apply announces, Hp).
  - eexists. split; [done|]. by rewrite length_string.
  - rewrite (length_buffer p Hp). destruct p as [b|]; [by eexists|done].
Qed.

Lemma serlen_slots_kinds ps ret :
  Forall w_ok ps -> Forall (fun p => p <> PBuffer None) ps ->
  exists n, serlen_slots (map kind_of ps) ps (u32 ret) = Some (u32 n) /\
    eq32 n (ret + Z.of_nat (length (concat (map serialize_ptr ps)))).
Proof.
  intros Hok. revert ret. induction Hok as [|p ps Hp Hok IH]; intros ret Hb; cbn [map serlen_slots concat].
  - eexists. split; [done|]. apply eq32_eq. cbn. lia.
  - inversion_clear Hb as [|? ? Hb1 Hbs]. rewrite decide_True by done.
    destruct (announces_ptr_slot p Hp Hb1) as (k & -> & Hk). cbn [mbind option_bind].
    destruct (IH (u32 ret + k) Hbs) as (n & -> & Hn). exists n. split; [done|].
    rewrite Hn, eq32_u32, Hk, length_app. apply eq32_eq. lia.
Qed.

(** The length announced for a well-formed message. *)
Lemma serlen_ok t m :
  msg_ok t m -> Forall (fun p => p <> PBuffer None) m.(im_ptrs) ->
  let bs := m.(im_plain) ++ concat (map serialize_ptr m.(im_ptrs)) in
  irati_msg_serlen irati_ker_numtables RINA_C_MAX m = Some (u32 (Z.of_nat (length bs))).
Proof.
  intros (st & Hst & Hlen & Ht & Hk & Hok) Hb bs.
  pose proof (message_structs_range _ _ Hst) as Hr. destruct (message_structs_typed _ _ Hst) as (Hc & Hs & _).
  destruct (serlen_slots_kinds (im_ptrs m) (Z.of_nat (length (im_plain m))) Hok Hb) as (n & En & Hn).
  rewrite <- Nat2Z.inj_add, <- length_app in Hn. unfold eq32 in Hn. fold bs in Hn. rewrite <- Hn.
  unfold irati_msg_serlen. rewrite Ht. cbn [mbind option_bind].
  replace (RINA_C_MAX <=? t) with false by lia. cbv zeta. unfold check_copylen.
  rewrite Hc, Hlen, Z.eqb_refl, Hs, <- Hk. cbn [mbind option_bind]. rewrite <- Hlen. exact En.
Qed.

(** What is read from the bytes of a well-formed message. *)
Lemma read_back t m junk :
  msg_ok t m -> t <> RINA_C_APP_FLOW_DEALLOCATED_NOTIFICATION ->
  let bs := m.(im_plain) ++ concat (map serialize_ptr m.(im_ptrs)) in
  deserialize_irati_msg irati_ker_numtables RINA_C_MAX bs (Z.of_nat (length bs)) [] junk = Some (Some (msg_read m)).
Proof.
  intros (st & Hst & Hlen & Ht & Hk & Hok) Hne. cbv zeta.
  pose proof (message_structs_range _ _ Hst) as Hr.
  destruct (message_structs_typed _ _ Hst) as (Hc & Hs & Ha). destruct (Ha Hne) as (st' & Hst' & Hle).
  set (bs := concat (map serialize_ptr (im_ptrs m))). unfold deserialize_irati_msg.
  unfold msg_type in *. rewrite (load_app _ _ _ bs _ Ht). cbn [mbind option_bind].
  replace (RINA_C_MAX <=? t) with false by lia. rewrite Hst'. cbn [rkmalloc negb]. cbv zeta.
  assert (sizeof_struct st = sizeof_plain st + Z.of_nat (length (im_ptrs m)) * PTR) as Hsz.
  { unfold sizeof_struct. by rewrite <- Hk, length_map. }
  rewrite Hc, Hs, <- Hk, <- Hlen, length_app. unfold PTR in *.
  replace (_ <=? _) with true by (symmetry; apply Z.leb_le; lia).
  replace (_ <=? _) with true by (symmetry; apply Z.leb_le; lia). cbn [andb negb].
  rewrite Nat2Z.id, take_app_length, drop_app_length.
  pose proof (reads_slots ((sizeof_struct st' - Z.of_nat (length (im_plain m))) / 8) (im_ptrs m) [] Hok) as Hread.
  rewrite <- (app_nil_r bs). rewrite Hread by (cbn [length]; apply Z.div_le_lower_bound; lia).
  cbn [rd_buf length]. by replace (_ =? _) with true by (symmetry; apply Z.eqb_eq; lia).
Qed.

(** ** Theorems *)

(** C23: For every message type the table of layouts describes the structure of the message: the
    plain fields are the bytes copied, and the pointers come behind them, grouped by type in the
    order of the loops; and the structure a received message is stored in, chosen by
    [allocate_irati_msg], is at least as large, for every type but the notification of a
    deallocated flow, for which none is allocated.  Every type between [RINA_C_MIN] and [RINA_C_MAX]
    is described. *)
Theorem numtables_typed (t : Z) :
  RINA_C_MIN < t < RINA_C_MAX ->
  exists st, table_lookup t message_structs = Some st /\
    let l := numtables_at irati_ker_numtables t in
    l.(copylen) = sizeof_plain st /\ slots l = st.(cs_ptrs) /\
    match allocate_irati_msg t with
    | Some st' => sizeof_struct st <= sizeof_struct st'
    | None => t = RINA_C_APP_FLOW_DEALLOCATED_NOTIFICATION
    end.
Proof.
  intros Ht. assert (is_Some (table_lookup t message_structs)) as [st Hst].
  { assert (forallb (fun t => bool_decide (is_Some (table_lookup (Z.of_nat t) message_structs))) (seq 1 73) = true) as E
      by (vm_compute; reflexivity).
    rewrite forallb_forall in E. specialize (E (Z.to_nat t)).
    rewrite in_seq in E. unfold RINA_C_MIN, RINA_C_MAX in Ht.
    apply bool_decide_eq_true_1 in E; [|lia]. by rewrite Z2Nat.id in E by lia. }
  exists st. split; [done|]. destruct (message_structs_typed _ _ Hst) as (Hc & Hs & Ha).
  split; [done|]. split; [done|].
  destruct (decide (t = RINA_C_APP_FLOW_DEALLOCATED_NOTIFICATION)) as [->|Hne]; [by vm_compute|].
  destruct (Ha Hne) as (st' & -> & Hle). done.
Qed.

Lemma numtables_typed_witness :
  exists st, table_lookup RINA_C_IPCM_ENROLL_TO_DIF_RESPONSE message_structs = Some st /\
    slots (numtables_at irati_ker_numtables RINA_C_IPCM_ENROLL_TO_DIF_RESPONSE) = st.(cs_ptrs).
Proof.
  destruct (numtables_typed RINA_C_IPCM_ENROLL_TO_DIF_RESPONSE) as (st & Hst & _ & Hs & _);
    [vm_compute; split; reflexivity|].
  exists st. split; [exact Hst | exact Hs].
Defined.

(** C22: A message whose contents the serialisers handle ([msg_ok]), of any type but the
    notification of a deallocated flow, is read back: [deserialize_irati_msg] applied to the
    bytes of [serialize_irati_msg], with memory available, returns the message with the same
    plain fields and, for every pointer, what its structure is read as, which is the structure
    but for three DTCP policies that are permuted. *)
Theorem irati_msg_roundtrip (t : Z) (m : irati_msg) (junk : Z) :
  msg_ok t m -> t <> RINA_C_APP_FLOW_DEALLOCATED_NOTIFICATION ->
  exists ret bs,
    serialize_irati_msg irati_ker_numtables RINA_C_MAX m = Some (ret, bs) /\
    deserialize_irati_msg irati_ker_numtables RINA_C_MAX bs (Z.of_nat (length bs)) [] junk =
      Some (Some (msg_read m)).
Proof.
  intros Hm Hne. eexists _, _. split; [by apply (serialize_ok t)|by apply (read_back t)].
Qed.

(** C24: For a well-formed message ([msg_ok]: no null name, values in the ranges of their types)
    without a null buffer, the length announced by [irati_msg_serlen] - the size of the buffer
    the callers allocate - is the number of bytes [serialize_irati_msg] writes, modulo 2^32;
    below 2^31 bytes it is that number and the value returned. *)
Theorem irati_msg_serlen_exact (t : Z) (m : irati_msg) :
  msg_ok t m -> Forall (fun p => p <> PBuffer None) m.(im_ptrs) ->
  exists ret bs n,
    serialize_irati_msg irati_ker_numtables RINA_C_MAX m = Some (ret, bs) /\
    irati_msg_serlen irati_ker_numtables RINA_C_MAX m = Some n /\
    n = u32 (Z.of_nat (length bs)) /\
    (Z.of_nat (length bs) < 2 ^ 31 -> n = Z.of_nat (length bs) /\ ret = n).
Proof.
  intros Hm Hb. eexists _, _, _. split; [exact (serialize_ok t m Hm)|]. split; [exact (serlen_ok t m Hm Hb)|].
  split; [done|]. intros Hsmall. rewrite !uwrap_small by (unfold in_u; lia).
  split; [done|]. apply swrap_small; [unfold in_s; lia | lia].
Qed.

(** A DTCP configuration with flow control does not come back as it was sent: the policies are
    written and read in different orders.  The reader finds the flow-control-overrun policy where
    the sender put the receiving-flow-control policy, that one where the sender put the
    reconcile-flow-conflict policy, and that one where the sender put the overrun policy; everything
    else is read as written. *)
Theorem dtcp_config_policies_permuted (c : dtcp_config) (f : dtcp_fctrl_config) (rest : list Z) (j : Z) :
  w_ok c -> c.(flow_ctrl) = true -> c.(fctrl_cfg) = Some f ->
  exists c' f',
    deserialize_dtcp_config None (mk_rd (serialize_dtcp_config (Some c) ++ rest) [] j) =
      Some (inl tt, Some c', mk_rd rest [] j) /\
    c'.(fctrl_cfg) = Some f' /\
    f'.(fc_flow_control_overrun) = w_norm f.(fc_receiving_flow_control) /\
    f'.(fc_receiving_flow_control) = w_norm f.(fc_reconcile_flow_conflict) /\
    f'.(fc_reconcile_flow_conflict) = w_norm f.(fc_flow_control_overrun) /\
    f'.(fc_closed_window) = w_norm f.(fc_closed_window) /\
    c'.(rtx_ctrl) = c.(rtx_ctrl) /\ c'.(dc_dtcp_ps) = w_norm c.(dc_dtcp_ps) /\
    f'.(wfctrl_cfg) = (if f.(window_based_fctrl) then w_norm f.(wfctrl_cfg) else None).
Proof.
  intros Hc Hf Ef. eexists (w_norm c), (w_norm f).
  split; [apply (reads_dtcp_config (Some c) Hc)|]. cbn. rewrite Hf, Ef. done.
Qed.

(** A DIF configuration without configuration entries is read completely, but the value
    returned is the one an uninitialised variable holds: unless it is 0 the configuration
    is taken for unreadable. *)
Theorem dif_config_no_entries (c : dif_config) (rest : list Z) (j : Z) :
  w_ok c -> c.(dif_ipcp_config_entries) = [] ->
  deserialize_dif_config None (mk_rd (serialize_dif_config (Some c) ++ rest) [] j) =
    Some (if j =? 0 then inl tt else inr j, Some (w_norm c), mk_rd rest [] j).
Proof.
  intros Hc He. rewrite reads_dif_config_junk by done. rewrite He. cbn. by destruct (j =? 0).
Qed.

(** A string that announces more bytes than there are is read behind the end of the buffer. *)
Lemma deserialize_string_overrun p n bs j :
  fits uint16 n -> Z.of_nat (length bs) < n ->
  deserialize_string p (mk_rd (serialize_obj uint16 n ++ bs) [] j) = None.
Proof.
  intros Hn Hbs. unfold deserialize_string. erewrite run_reads by (by apply reads_num).
  unfold D_bind, D_alloc, D_bytes; cbn [rkmalloc rd_buf rd_alloc rd_junk].
  by replace (n <=? _) with false by (symmetry; apply Z.leb_gt; lia).
Qed.

(** The deserialisers do not look at the length of the buffer: a request to load a plugin whose
    string announces more bytes than the buffer holds makes [deserialize_irati_msg] read behind
    its end, whatever the length passed. *)
Theorem irati_msg_overrun (plain bs : list Z) (n serbuf_len junk : Z) :
  Z.of_nat (length plain) = sizeof_plain irati_msg_ipcm_plugin_load ->
  msg_type plain = Some RINA_C_IPCM_PLUGIN_LOAD_REQUEST ->
  fits uint16 n -> Z.of_nat (length bs) < n ->
  deserialize_irati_msg irati_ker_numtables RINA_C_MAX (plain ++ serialize_obj uint16 n ++ bs)
    serbuf_len [] junk = None.
Proof.
  intros Hl Ht Hn Hbs. unfold deserialize_irati_msg. unfold msg_type in *.
  rewrite (load_app _ _ _ _ _ Ht). cbn [mbind option_bind].
  change (RINA_C_MAX <=? RINA_C_IPCM_PLUGIN_LOAD_REQUEST) with false.
  change (allocate_irati_msg RINA_C_IPCM_PLUGIN_LOAD_REQUEST) with (Some irati_msg_ipcm_plugin_load).
  cbn [rkmalloc negb]. cbv zeta.
  change (copylen (numtables_at irati_ker_numtables RINA_C_IPCM_PLUGIN_LOAD_REQUEST)) with 19.
  change (sizeof_struct irati_msg_ipcm_plugin_load) with 27. change (sizeof_plain _) with 19 in Hl.
  change (slots _) with [KString].
  rewrite !length_app, length_obj. replace (19 <=? _) with true by (symmetry; apply Z.leb_le; lia).
  cbn [andb negb Z.leb Z.compare]. assert (Z.to_nat 19 = length plain) as -> by lia.
  replace (19 <=? _) with true by (symmetry; apply Z.leb_le; lia). cbn [andb negb].
  rewrite drop_app_length. change ((27 - 19) / PTR) with 1.
  cbn [deserialize_slots deserialize_ptr]. unfold D_bind, D_get, D_local. cbn [length].
  change (1 <=? Z.of_nat 0) with false. cbv beta iota. by rewrite deserialize_string_overrun.
Qed.
