(* ===== verification/MsgExamples.v ===== *)
(** * Messages to run

    A request to assign an IPC process to a DIF, with a complete configuration, and the
    theorems of the serialisation files at it: the hypotheses hold of messages that occur.  With it
    the places where writer and reader do not agree. *)

From S2P Require Import Prelude Kucommon Config Serdes Wire SerdesLaws SerdesLen MsgLayout Messages.
From Stdlib Require Import ZArith Lia.
From stdpp Require Import base list numbers option.
#[local] Open Scope Z_scope.

(** ** A configuration *)

(** The policy with the one-letter name [c]. *)
Definition ex_policy (c : Z) : option policy :=
  Some (mk_policy (Some [c]) (Some [49]) [mk_policy_parm (Some [107]) (Some [118])]).

Definition ex_dtp_config : option dtp_config :=
  Some (mk_dtp_config true (-1) 0 false false true 0 (ex_policy 97)).

Definition ex_fctrl : dtcp_fctrl_config :=
  mk_dtcp_fctrl_config true (Some (mk_window_fctrl_config 10 5 (ex_policy 98) (ex_policy 99)))
    false None 0 0 0 0 0 0 (ex_policy 100) (ex_policy 101) (ex_policy 102) (ex_policy 103).

Definition ex_dtcp : dtcp_config :=
  mk_dtcp_config true (Some ex_fctrl) false None (ex_policy 104) (ex_policy 105) (ex_policy 106).

Definition ex_qos_cube : option qos_cube :=
  Some (mk_qos_cube (Some [114]) 1 0 0 0 0 false true (-1) 0 0 10000 ex_dtp_config (Some ex_dtcp)).

Definition ex_efcp : option efcp_config :=
  Some (mk_efcp_config
          (Some (mk_dt_cons 2 2 2 2 2 4 4 10000 10000 60000 4 4 false 0 false false 0 0))
          None (ex_policy 107) [ex_qos_cube]).

Definition ex_dif : dif_config :=
  mk_dif_config [Some (mk_ipcp_config_entry (Some [120]) None)] ex_efcp
    (Some (mk_rmt_config (ex_policy 97) (Some (mk_pff_config (ex_policy 97))))) 16
    (Some (mk_fa_config (ex_policy 97) (ex_policy 97) (ex_policy 97) (ex_policy 97) (ex_policy 97) 3))
    (Some (mk_et_config (ex_policy 97)))
    (Some (mk_nsm_config (ex_policy 97) (Some (mk_addressing_config
       [Some (mk_static_ipcp_addr (Some [97]) (Some [49]) 16)] []))))
    (Some (mk_routing_config (ex_policy 97))) (Some (mk_resall_config (ex_policy 97)))
    (Some (mk_secman_config (ex_policy 97)
       (Some (mk_auth_sdup_profile (ex_policy 97) (ex_policy 97) (ex_policy 97) (ex_policy 97))) [])).

(** ** It is well formed *)

Ltac wire := repeat first [split | constructor | done | intros ?; discriminate].

Lemma ex_dtcp_ok : w_ok ex_dtcp.
Proof. cbn. wire. Qed.

Lemma ex_dif_ok : w_ok ex_dif.
Proof. cbn. wire. Qed.

(** The request: a header of type [RINA_C_IPCM_ASSIGN_TO_DIF_REQUEST], the name of the DIF, its type
    and its configuration. *)
Definition ex_msg : irati_msg :=
  mk_irati_msg ([1; 0] ++ replicate 16 0)
    [PName (Some (mk_name (Some [110]) None None None)); PString (Some [110; 111; 114; 109; 97; 108]);
     PDifConfig (Some ex_dif)].

Lemma ex_msg_ok : msg_ok RINA_C_IPCM_ASSIGN_TO_DIF_REQUEST ex_msg.
Proof.
  eexists. split; [vm_compute; reflexivity|]. split; [vm_compute; reflexivity|].
  split; [vm_compute; reflexivity|]. split; [vm_compute; reflexivity|].
  constructor; [cbn; wire|]. constructor; [cbn; wire|]. constructor; [|constructor].
  split; [exact ex_dif_ok | done].
Qed.

(** ** The theorems at it *)

Lemma irati_msg_roundtrip_witness :
  exists ret bs,
    serialize_irati_msg irati_ker_numtables RINA_C_MAX ex_msg = Some (ret, bs) /\
    deserialize_irati_msg irati_ker_numtables RINA_C_MAX bs (Z.of_nat (length bs)) [] 7 =
      Some (Some (msg_read ex_msg)).
Proof. apply (irati_msg_roundtrip RINA_C_IPCM_ASSIGN_TO_DIF_REQUEST ex_msg 7 ex_msg_ok). done. Defined.

Lemma irati_msg_serlen_exact_witness :
  exists ret bs n,
    serialize_irati_msg irati_ker_numtables RINA_C_MAX ex_msg = Some (ret, bs) /\
    irati_msg_serlen irati_ker_numtables RINA_C_MAX ex_msg = Some n /\
    n = u32 (Z.of_nat (length bs)) /\
    (Z.of_nat (length bs) < 2 ^ 31 -> n = Z.of_nat (length bs) /\ ret = n).
Proof.
  apply (irati_msg_serlen_exact RINA_C_IPCM_ASSIGN_TO_DIF_REQUEST ex_msg ex_msg_ok).
  repeat constructor; discriminate.
Defined.

(** The overrun policy of the sender is the reconcile policy of the receiver. *)
Lemma dtcp_config_policies_permuted_witness :
  exists c' f',
    deserialize_dtcp_config None (mk_rd (serialize_dtcp_config (Some ex_dtcp) ++ []) [] 0) =
      Some (inl tt, Some c', mk_rd [] [] 0) /\
    c'.(fctrl_cfg) = Some f' /\ f'.(fc_reconcile_flow_conflict) = ex_policy 103.
Proof.
  destruct (dtcp_config_policies_permuted ex_dtcp ex_fctrl [] 0 ex_dtcp_ok eq_refl eq_refl)
    as (c' & f' & H1 & H2 & _ & _ & H3 & _).
  exists c', f'. split; [exact H1|]. split; [exact H2|exact H3].
Defined.

Definition ex_dif_empty : dif_config := put_dif_ipcp_config_entries [] ex_dif.

Lemma dif_config_no_entries_witness :
  deserialize_dif_config None (mk_rd (serialize_dif_config (Some ex_dif_empty) ++ []) [] 7) =
    Some (inr 7, Some (w_norm ex_dif_empty), mk_rd [] [] 7).
Proof. apply (dif_config_no_entries ex_dif_empty [] 7); [cbn; wire | reflexivity]. Defined.

Lemma irati_msg_overrun_witness :
  deserialize_irati_msg irati_ker_numtables RINA_C_MAX
    (([66; 0] ++ replicate 17 0) ++ serialize_obj uint16 500 ++ [97; 98]) 23 [] 0 = None.
Proof.
  apply (irati_msg_overrun ([66; 0] ++ replicate 17 0) [97; 98] 500 23 0); vm_compute; reflexivity.
Defined.

(** A failed allocation inside the configuration of the EFCP is ignored: the configuration of the
    RMT is read from the bytes of the data-transfer constants, and the reader runs behind the end
    of the buffer.  The allocations: the configuration, the entry and its two strings, the EFCP
    configuration, and the constants, which fail. *)
Lemma dif_config_ignored_failure :
  deserialize_dif_config None
    (mk_rd (serialize_dif_config (Some ex_dif)) [true; true; true; true; true; true; false] 0) = None.
Proof. vm_compute. reflexivity. Qed.

(** A null name writes nothing, announces eight bytes, and is read as four strings. *)
Lemma rina_name_null :
  serialize_rina_name None = [] /\ rina_name_serlen None = 8 /\
  deserialize_rina_name None (mk_rd [] [] 0) = None.
Proof. vm_compute. auto. Qed.

(** No structure is allocated for the notification of a deallocated flow: it cannot be received. *)
Lemma flow_deallocated_not_received :
  deserialize_irati_msg irati_ker_numtables RINA_C_MAX ([58; 0] ++ replicate 21 0) 23 [] 0 = Some None.
Proof. vm_compute. reflexivity. Qed.

(** The length of a message with a null buffer cannot be computed, although the serialiser
    accepts it. *)
Lemma serlen_null_buffer :
  let m := mk_irati_msg ([41; 0] ++ replicate 20 0) [PBuffer None] in
  irati_msg_serlen irati_ker_numtables RINA_C_MAX m = None /\
  is_Some (serialize_irati_msg irati_ker_numtables RINA_C_MAX m).
Proof. vm_compute. split; [reflexivity | eexists; reflexivity]. Qed.
