(* ===== verification/Policies.v ===== *)
(** * Policies and their parameters

    The list of parameters of a policy ([src/kernel/policies.c]), which the policy sets
    read when they are created.  A string comparison through a null pointer is a fault
    ([None]). *)

From S2P Require Import Prelude Kucommon.
From Stdlib Require Import ZArith Lia Ascii String.
From stdpp Require Import base list numbers option.
#[local] Open Scope Z_scope.

(** The bytes of a string constant of the code. *)
Definition c_str (s : string) : cstring :=
  (fun a => Z.of_nat (nat_of_ascii a)) <$> list_ascii_of_string s.

Definition strcmp_eq (a b : cstring) : bool := bool_decide (a = b).

Fixpoint param_find_loop (name : cstring) (l : list policy_parm) : option (option policy_parm) :=
  match l with
  | [] => Some None
  | pos :: l' =>
      match pos.(parm_name) with
      | None => None
      | Some n => if strcmp_eq n name then Some (Some pos) else param_find_loop name l'
      end
  end.

Definition policy_param_find (p : option policy) (name : string_ptr) : option (option policy_parm) :=
  match p, name with
  | Some p, Some name => param_find_loop name p.(policy_params)
  | _, _ => Some None
  end.

Definition policy_param_bind (p : option policy) (param : option policy_parm) : Z * option policy :=
  match p, param with
  | Some p, Some prm =>
      (0, Some (mk_policy p.(policy_name) p.(policy_version) (p.(policy_params) ++ [prm])))
  | _, _ => (-1, p)
  end.

(** [list_del] takes [param] itself out of the list: the parameter is given by its
    position. *)
Definition policy_param_unbind (p : option policy) (param : option nat) : option (Z * option policy) :=
  match p, param with
  | Some q, Some i =>
      match q.(policy_params) !! i with
      | None => None
      | Some prm =>
          match prm.(parm_name) with
          | Some _ => Some (-1, p)
          | None =>
              match policy_param_find p prm.(parm_name) with
              | None => None
              | Some None => Some (-1, p)
              | Some (Some _) =>
                  Some (0, Some (mk_policy q.(policy_name) q.(policy_version)
                                   (base.delete i q.(policy_params))))
              end
          end
      end
  | _, _ => Some (-1, p)
  end.

Definition policy_param_name (param : option policy_parm) : string_ptr :=
  match param with None => None | Some p => p.(parm_name) end.
Definition policy_param_value (param : option policy_parm) : string_ptr :=
  match param with None => None | Some p => p.(parm_value) end.

(** [policy_name]: an empty name counts as none. *)
Definition policy_name_get (p : option policy) : string_ptr :=
  match p with
  | None => None
  | Some p => match p.(policy_name) with
              | None => None
              | Some [] => None
              | Some n => Some n
              end
  end.

(** ** Lemmas *)

(** Every parameter has a name. *)
Definition params_named (l : list policy_parm) : Prop := Forall (fun p => is_Some p.(parm_name)) l.

Lemma param_find_loop_spec name l :
  params_named l ->
  exists r, param_find_loop name l = Some r /\
    match r with
    | Some p => p ∈ l /\ p.(parm_name) = Some name
    | None => Forall (fun p => p.(parm_name) <> Some name) l
    end.
Proof.
  induction l as [|pos l IH]; intros Hn; cbn [param_find_loop]; [by exists None|].
  inversion_clear Hn as [|? ? [n Hp] Hl]. rewrite Hp. unfold strcmp_eq. case_bool_decide as E.
  - subst. exists (Some pos). split; [done|]. split; [left|done].
  - destruct (IH Hl) as (r & -> & Hr). exists r. split; [done|].
    destruct r as [p|]; [split; [right|]; naive_solver|]. constructor; [congruence|done].
Qed.

(** The parameter that was bound last is found, unless one of the same name precedes it. *)
Lemma policy_param_bind_find p prm name :
  params_named p.(policy_params) -> prm.(parm_name) = Some name ->
  exists p', policy_param_bind (Some p) (Some prm) = (0, Some p') /\
    (Forall (fun q => q.(parm_name) <> Some name) p.(policy_params) ->
     policy_param_find (Some p') (Some name) = Some (Some prm)).
Proof.
  intros Hn Hp. eexists. split; [reflexivity|]. cbn [policy_param_find policy_params].
  induction Hn as [|q l [m Hq] Hl IH]; cbn [app param_find_loop].
  - rewrite Hp. unfold strcmp_eq. by rewrite bool_decide_true.
  - intros Hf. inversion_clear Hf. rewrite Hq. unfold strcmp_eq.
    rewrite bool_decide_false by congruence. by apply IH.
Qed.

(** [policy_param_unbind] never unbinds: a parameter with a name is refused by the
    inverted test, one without a name is not found. *)
Lemma policy_param_unbind_never p i r p' : policy_param_unbind p i = Some (r, p') -> r = -1 /\ p' = p.
Proof.
  unfold policy_param_unbind. destruct p as [p|], i as [i|]; try (intros [= <- <-]; done).
  destruct (policy_params p !! i) as [prm|]; [|done].
  destruct (parm_name prm); intros [= <- <-]; done.
Qed.
