(* ===== verification/RmtPs.v ===== *)
(** * Policy sets of the RMT

    What the policy set of an RMT ([src/kernel/rmt-ps.h]) promises to the RMT, as a class of
    operations and a class of laws, and the default policy set
    ([src/kernel/rmt-ps-default.c]), which satisfies it.  The theorems on the RMT in
    [Rmt.v] are proved against the classes; [LgcRmt.v] gives a second instance. *)

From S2P Require Import Prelude Kucommon Pci Rds Queues EfcpState Policies.
From Stdlib Require Import ZArith Lia String.
From stdpp Require Import base list numbers option.
Import Rqueue Rfifo FifoList.
#[local] Open Scope Z_scope.

(** ** Results of the enqueue policy *)

Definition RMT_PS_ENQ_SEND : Z := 0.
Definition RMT_PS_ENQ_SCHED : Z := 1.
Definition RMT_PS_ENQ_ERR : Z := 2.
Definition RMT_PS_ENQ_DROP : Z := 3.

(** What became of the PDU that was to be enqueued. *)
Inductive fate :=
| Sent (p : pdu)      (* returned to the RMT, which sends it *)
| Queued (p : pdu)
| Destroyed (p : pdu)
| Lost (p : pdu)      (* neither stored nor freed *)
| Untouched.

(** [struct rmt_n1_port] as the policies see it: its id and the queues they created for it. *)
Record ps_port (Q : Type) := mk_ps_port { port_id : Z; rmt_ps_queues : option Q }.
Arguments mk_ps_port {Q}.
Arguments port_id {Q}.
Arguments rmt_ps_queues {Q}.

(** ** Interface

    [P] is the private data of the policy set, [Q] the queues of a port, [X] what a call
    reads from outside (clock, random numbers, memory). *)

Class RmtPs (P Q X : Type) := {
  ps_enqueue : P -> Q -> pdu -> bool -> X -> option (Z * P * Q * fate);
  ps_dequeue : P -> Q -> option pdu * Q;
  q_new : Q;
  q_wf : Q -> Prop;
  (* the PDUs of a queue in the order in which they leave *)
  q_elems : Q -> list pdu;
  (* there is memory for a queue entry *)
  x_mem : X -> bool;
  (* PDUs of one class leave in the order in which they came *)
  ps_class : pdu -> bool
}.

(** The PDUs of class [k]. *)
Definition of_class `{RmtPs P Q X} (k : bool) (l : list pdu) : list pdu :=
  filter (fun p => ps_class p = k) l.

Class RmtPsLaws (P Q X : Type) `{RmtPs P Q X} := {
  q_new_law : q_wf q_new /\ q_elems q_new = [];
  ps_enqueue_law ps q p must x r ps' q' f :
    q_wf q -> x_mem x = true -> Z.of_nat (length (q_elems q)) < 2 ^ 32 - 2 ->
    ps_enqueue ps q p must x = Some (r, ps', q', f) ->
    (r = RMT_PS_ENQ_SCHED /\ q_wf q' /\
       exists p', f = Queued p' /\ length (q_elems q') = S (length (q_elems q)) /\
         forall k, of_class k (q_elems q') = of_class k (q_elems q ++ [p'])) \/
    (r = RMT_PS_ENQ_SEND /\ must = false /\ q_wf q' /\ q_elems q' = q_elems q /\ exists p', f = Sent p') \/
    ((r = RMT_PS_ENQ_DROP \/ r = RMT_PS_ENQ_ERR) /\ q_wf q' /\ q_elems q' = q_elems q /\ (f = Destroyed p \/ f = Untouched));
  ps_dequeue_law ps q :
    q_wf q -> q_wf (snd (ps_dequeue ps q)) /\
    fst (ps_dequeue ps q) = hd_error (q_elems q) /\ q_elems (snd (ps_dequeue ps q)) = tail (q_elems q)
}.

(** ** The default policy set *)

Definition DEFAULT_Q_MAX : Z := 1000.

Record rmt_queue := mk_rmt_queue { dt_queue : option (rfifo pdu); mgt_queue : option (rfifo pdu); pid : Z }.

(** [struct rmt_ps_default_data]: its limit. *)
Record rmt_ps_default_data := mk_default_data { q_max : Z }.

(** [rfifo_create_ni] and its two allocations. *)
Definition rfifo_create_ni (o : oracle) : option (rfifo pdu) * oracle :=
  let '(m1, o) := rkmalloc o in
  let '(m2, o) := if m1 then rkmalloc o else (true, o) in
  (rfifo_create_gfp m1 m2, o).

Definition rmt_queue_create (port : Z) (o : oracle) : option rmt_queue * oracle :=
  let '(ok, o) := rkmalloc o in
  if negb ok then (None, o)
  else
    let '(d, o) := rfifo_create_ni o in
    match d with
    | None => (None, o)
    | Some d =>
        let '(m, o) := rfifo_create_ni o in
        match m with
        | None => (None, o)
        | Some m => (Some (mk_rmt_queue (Some d) (Some m) port), o)
        end
    end.

(** The PDUs that were destroyed. *)
Definition destroyed_fifo (f : option (rfifo pdu)) : list pdu :=
  match f with Some f => snd (rqueue_destroy (Some f.(Rfifo.q)) true) | None => [] end.

Definition rmt_queue_destroy (q : option rmt_queue) : Z * list pdu :=
  match q with
  | None => (-1, [])
  | Some q => (0, destroyed_fifo q.(dt_queue) ++ destroyed_fifo q.(mgt_queue))
  end.

Definition default_rmt_q_create_policy (ps : option (option rmt_ps_default_data))
  (port : option (ps_port rmt_queue)) (o : oracle) : option rmt_queue * oracle :=
  match ps, port with
  | Some (Some _), Some port => rmt_queue_create port.(port_id) o
  | _, _ => (None, o)
  end.

Definition default_rmt_q_destroy_policy (ps : option (option rmt_ps_default_data))
  (port : option (ps_port rmt_queue)) : Z * list pdu :=
  match ps, port with
  | Some (Some _), Some port =>
      match port.(rmt_ps_queues) with
      | None => (-1, [])
      | Some q => (0, snd (rmt_queue_destroy (Some q)))
      end
  | _, _ => (-1, [])
  end.

(** The result, the queues and the fate of the PDU.  [mem] tells whether the allocation in
    [rfifo_push_ni] succeeds; its result is not looked at. *)
Definition default_rmt_enqueue_policy (ps : option (option rmt_ps_default_data))
  (port : option (ps_port rmt_queue)) (du : option pdu) (must_enqueue mem : bool)
  : option (Z * option (ps_port rmt_queue) * fate) :=
  match ps with
  | None => None
  | Some data =>
      match port, du with
      | Some po, Some p =>
          match po.(rmt_ps_queues) with
          | None => Some (RMT_PS_ENQ_ERR, port, Destroyed p)
          | Some q =>
              let stored := if mem then Queued p else Lost p in
              if pdu_type p =? PDU_TYPE_MGMT then
                if negb must_enqueue && rfifo_is_empty q.(mgt_queue)
                then Some (RMT_PS_ENQ_SEND, port, Sent p)
                else
                  let '(_, f) := rfifo_push mem q.(mgt_queue) p in
                  Some (RMT_PS_ENQ_SCHED,
                        Some (mk_ps_port po.(port_id) (Some (mk_rmt_queue q.(dt_queue) f q.(pid)))), stored)
              else if negb must_enqueue && rfifo_is_empty q.(dt_queue)
              then Some (RMT_PS_ENQ_SEND, port, Sent p)
              else
                match data with
                | None => None
                | Some d =>
                    if d.(q_max) <=? rfifo_length q.(dt_queue)
                    then Some (RMT_PS_ENQ_DROP, port, Destroyed p)
                    else
                      let '(_, f) := rfifo_push mem q.(dt_queue) p in
                      Some (RMT_PS_ENQ_SCHED,
                            Some (mk_ps_port po.(port_id) (Some (mk_rmt_queue f q.(mgt_queue) q.(pid)))), stored)
                end
          end
      | _, _ => Some (RMT_PS_ENQ_ERR, port, Untouched)
      end
  end.

Definition default_rmt_dequeue_policy (ps : option (option rmt_ps_default_data))
  (port : option (ps_port rmt_queue)) : option pdu * option (ps_port rmt_queue) :=
  match ps, port with
  | Some _, Some po =>
      match po.(rmt_ps_queues) with
      | None => (None, port)
      | Some q =>
          if negb (rfifo_is_empty q.(mgt_queue)) then
            let '(r, f) := rfifo_pop q.(mgt_queue) in
            (r, Some (mk_ps_port po.(port_id) (Some (mk_rmt_queue q.(dt_queue) f q.(pid)))))
          else
            let '(r, f) := rfifo_pop q.(dt_queue) in
            (r, Some (mk_ps_port po.(port_id) (Some (mk_rmt_queue f q.(mgt_queue) q.(pid)))))
      end
  | _, _ => (None, port)
  end.

Section Parameters.
Context (kstrtoint : cstring -> option Z).

Definition rmt_ps_default_set_policy_set_param (d : rmt_ps_default_data) (name value : string_ptr)
  : Z * rmt_ps_default_data :=
  match name, value with
  | Some name, Some value =>
      (0, if strcmp_eq name (c_str "q_max")
          then match kstrtoint value with Some v => mk_default_data (u32 v) | None => d end
          else d)
  | _, _ => (-1, d)
  end.

(** Three steps that may fail: the two allocations and the sysfs entry; a parameter that does
    not parse leaves the limit at the zero of the allocation. *)
Definition rmt_ps_default_create (cfg : option (option policy)) (o : oracle)
  : option (option rmt_ps_default_data * oracle) :=
  let '(ok1, o) := rkmalloc o in
  if negb ok1 then Some (None, o)
  else let '(ok2, o) := rkmalloc o in
  if negb ok2 then Some (None, o)
  else let '(ok3, o) := rkmalloc o in
  if negb ok3 then Some (None, o)
  else
    parm ← match cfg with
           | Some pol => policy_param_find pol (Some (c_str "q_max"))
           | None => Some None
           end;
    match parm with
    | None => Some (Some (mk_default_data DEFAULT_Q_MAX), o)
    | Some p =>
        Some (Some (snd (rmt_ps_default_set_policy_set_param (mk_default_data 0)
                           (policy_param_name (Some p)) (policy_param_value (Some p)))), o)
    end.
End Parameters.

(** ** The default policy set satisfies the interface

    Its two classes are management PDUs and the others. *)

Definition fifo_list (f : option (rfifo pdu)) : list pdu :=
  match f with Some f => f.(Rfifo.q).(Rqueue.head) | None => [] end.

#[export] Instance default_ps : RmtPs rmt_ps_default_data rmt_queue bool := {|
  ps_enqueue d q p must mem :=
    match default_rmt_enqueue_policy (Some (Some d)) (Some (mk_ps_port 0 (Some q))) (Some p) must mem with
    | Some (r, Some (mk_ps_port _ (Some q')), f) => Some (r, d, q', f)
    | _ => None
    end;
  ps_dequeue d q :=
    match default_rmt_dequeue_policy (Some (Some d)) (Some (mk_ps_port 0 (Some q))) with
    | (r, Some (mk_ps_port _ (Some q'))) => (r, q')
    | (r, _) => (r, q)
    end;
  q_new := mk_rmt_queue (rfifo_create_gfp true true) (rfifo_create_gfp true true) 0;
  q_wf q := fifo_holds q.(dt_queue) (fifo_list q.(dt_queue)) /\ fifo_holds q.(mgt_queue) (fifo_list q.(mgt_queue)) /\
            Forall (fun p => pdu_type p = PDU_TYPE_MGMT) (fifo_list q.(mgt_queue)) /\
            Forall (fun p => pdu_type p <> PDU_TYPE_MGMT) (fifo_list q.(dt_queue));
  q_elems q := fifo_list q.(mgt_queue) ++ fifo_list q.(dt_queue);
  x_mem mem := mem;
  ps_class p := pdu_type p =? PDU_TYPE_MGMT
|}.

Lemma fifo_holds_list f l : fifo_holds f l -> fifo_list f = l.
Proof. by intros (q & -> & _ & <-). Qed.

Lemma of_class_app `{RmtPs P Q X} k l1 l2 : of_class k (l1 ++ l2) = of_class k l1 ++ of_class k l2.
Proof.
  unfold of_class. induction l1 as [|p l1 IH]; [done|]. cbn [app].
  rewrite !filter_cons. case_decide; cbn [app]; by rewrite IH.
Qed.

Lemma of_class_nil `{RmtPs P Q X} k l : Forall (fun p => ps_class p = negb k) l -> of_class k l = [].
Proof.
  unfold of_class. induction 1 as [|p l Hp _ IH]; [done|]. rewrite filter_cons_False; [done|].
  rewrite Hp. by destruct k.
Qed.

Lemma mgmt_class l :
  Forall (fun p => pdu_type p = PDU_TYPE_MGMT) l -> of_class (H := default_ps) false l = [].
Proof. intros Hl. apply of_class_nil. induction Hl as [|p l Hp]; constructor; cbn; [by rewrite Hp|done]. Qed.

Lemma data_class l :
  Forall (fun p => pdu_type p <> PDU_TYPE_MGMT) l -> of_class (H := default_ps) true l = [].
Proof.
  intros Hl. apply of_class_nil. induction Hl as [|p l Hp]; constructor; [|done].
  cbn. by apply Z.eqb_neq.
Qed.

(** Storing a PDU of the class of a queue behind the others. *)
Lemma store_mgmt (m d : list pdu) p k :
  Forall (fun p => pdu_type p <> PDU_TYPE_MGMT) d -> pdu_type p = PDU_TYPE_MGMT ->
  of_class (H := default_ps) k ((m ++ [p]) ++ d) = of_class (H := default_ps) k ((m ++ d) ++ [p]).
Proof.
  intros Hd Hp. rewrite !of_class_app. destruct k.
  - by rewrite (data_class d), !app_nil_r.
  - rewrite (mgmt_class [p]) by (constructor; [done|constructor]). by rewrite !app_nil_r.
Qed.

#[export] Instance default_ps_laws : RmtPsLaws rmt_ps_default_data rmt_queue bool.
Proof.
  split.
  - split; [|done]. repeat split; try apply fifo_holds_new; constructor.
  - intros d [dq mq i] p must mem r d' q' f Hwf Hmem Hl E. pose proof Hwf as (Hd & Hm & Fm & Fd). cbn [x_mem default_ps] in Hmem. subst mem.
    cbn [ps_enqueue q_elems default_ps dt_queue mgt_queue pid] in Hl, E |- *. cbn [dt_queue mgt_queue] in Hd, Hm, Fm, Fd. rewrite length_app in Hl.
    unfold default_rmt_enqueue_policy in E. cbn [rmt_ps_queues dt_queue mgt_queue pid port_id] in E.
    destruct (Z.eqb_spec (pdu_type p) PDU_TYPE_MGMT) as [Ht|Ht].
    + destruct (negb must && rfifo_is_empty mq) eqn:Es.
      * apply andb_prop in Es as [Es _]. simplify_eq. right; left. destruct must; [done|].
        split; [done|]. split; [done|]. split; [exact Hwf|]. split; [done|]. by exists p.
      * pose proof (fifo_holds_push mq _ p true Hm ltac:(lia)) as Hp.
        destruct (rfifo_push true mq p) as [r0 f0]. cbn [snd] in Hp. simplify_eq. left.
        cbn [q_wf q_elems default_ps dt_queue mgt_queue]. rewrite (fifo_holds_list _ _ Hp). split; [done|].
        split; [by repeat split; [| |apply Forall_app; split; [|constructor]|]|].
        exists p. split; [done|]. split; [rewrite !length_app; cbn; lia|]. intros k. by apply store_mgmt.
    + destruct (negb must && rfifo_is_empty dq) eqn:Es.
      * apply andb_prop in Es as [Es _]. simplify_eq. right; left. destruct must; [done|].
        split; [done|]. split; [done|]. split; [exact Hwf|]. split; [done|]. by exists p.
      * destruct (q_max d <=? rfifo_length dq); [simplify_eq; right; right; split; [by left|]; split; [exact Hwf|]; split; [done|by left]|].
        pose proof (fifo_holds_push dq _ p true Hd ltac:(lia)) as Hp.
        destruct (rfifo_push true dq p) as [r0 f0]. cbn [snd] in Hp. simplify_eq. left.
        cbn [q_wf q_elems default_ps dt_queue mgt_queue]. rewrite (fifo_holds_list _ _ Hp). split; [done|].
        split; [by repeat split; [| | |apply Forall_app; split; [|constructor]]|].
        exists p. split; [done|]. split; [rewrite !length_app; cbn; lia|]. intros k. by rewrite (assoc_L (++)).
  - intros d [dq mq i] (Hd & Hm & Fm & Fd).
    cbn [ps_dequeue q_elems q_wf default_ps dt_queue mgt_queue pid] in *.
    unfold default_rmt_dequeue_policy. cbn [rmt_ps_queues dt_queue mgt_queue pid port_id].
    rewrite (proj2 (fifo_holds_length _ _ Hm)). case_bool_decide as Em; cbn [negb].
    + destruct (fifo_holds_pop _ _ Hd) as [Hr Hq]. destruct (rfifo_pop dq) as [r f]. cbn [fst snd] in *.
      cbn [dt_queue mgt_queue]. rewrite (fifo_holds_list _ _ Hq), Em in *. cbn [app].
      split; [|done]. repeat split; try done. destruct (fifo_list dq); [done|]. by inversion_clear Fd.
    + destruct (fifo_holds_pop _ _ Hm) as [Hr Hq]. destruct (rfifo_pop mq) as [r f]. cbn [fst snd] in *.
      cbn [dt_queue mgt_queue]. rewrite (fifo_holds_list _ _ Hq) in *.
      destruct (fifo_list mq) as [|p l]; [done|]. cbn [tail app hd_error] in *.
      inversion_clear Fm. repeat split; try done.
Qed.
