(* ===== verification/LgcLut.v ===== *)
(** * The tables of the LGC-ShQ policy set

    [log_lut] and [pow_lut] of [src/plugins/lgc-shq/tcp_lgc_lut.c], with their values, and what the control
    law needs of them: their sizes, bounds of their entries, that they do not increase, and
    that a step of the law is never larger than the rate it is taken from.  The initialiser of
    [log_lut] has one value less than the array; the last entry is zero.  The
    rows of the source are taken fifty at a time.  The third table of the file, [exp_lut], is not used
    by any code. *)

From S2P Require Import Prelude.
From Stdlib Require Import ZArith Lia.
From stdpp Require Import base list numbers option.
#[local] Open Scope Z_scope.

Definition LGC_LUT_SIZE : Z := 65537.

Module Rows.
Definition log_lut_0 : list Z := [
  315652;
  315652; 295924; 284384; 276196; 269845; 264655; 260268; 256467; 253115; 250116; 247404; 244927; 242649; 240540; 238576; 236739; 235014; 233387;
  231848; 230388; 228999; 227675; 226410; 225199; 224037; 222921; 221846; 220811; 219813; 218848; 217914; 217011; 216135; 215285; 214460; 213658;
  212879; 212120; 211380; 210660; 209957; 209271; 208601; 207947; 207307; 206682; 206070; 205471; 204884; 204309; 203745; 203192; 202650; 202118;
  201596; 201083; 200579; 200084; 199598; 199119; 198649; 198186; 197731; 197283; 196841; 196407; 195979; 195557; 195142; 194732; 194328; 193930;
  193538; 193150; 192768; 192391; 192019; 191652; 191289; 190931; 190578; 190229; 189884; 189543; 189206; 188873; 188544; 188219; 187897; 187579;
  187265; 186954; 186646; 186341; 186040; 185742; 185447; 185155; 184866; 184580; 184297; 184017; 183739; 183464; 183192; 182922; 182655; 182390;
  182128; 181868; 181610; 181355; 181102; 180851; 180602; 180356; 180112; 179869; 179629; 179391; 179155; 178921; 178688; 178458; 178229; 178002;
  177777; 177554; 177333; 177113; 176895; 176678; 176464; 176250; 176039; 175829; 175620; 175413; 175208; 175004; 174801; 174600; 174400; 174202;
  174005; 173809; 173615; 173422; 173230; 173040; 172851; 172663; 172476; 172291; 172107; 171924; 171742; 171561; 171382; 171203; 171026; 170850;
  170674; 170500; 170327; 170155; 169984; 169814; 169646; 169478; 169311; 169145; 168980; 168816; 168653; 168490; 168329; 168169; 168009; 167851;
  167693; 167536; 167380; 167225; 167071; 166918; 166765; 166613; 166462; 166312; 166163; 166014; 165866; 165719; 165573; 165427; 165282; 165138;
  164995; 164852; 164710; 164569; 164428; 164288; 164149; 164011; 163873; 163736; 163599; 163463; 163328; 163194; 163060; 162926; 162794; 162662;
  162530; 162399; 162269; 162139; 162010; 161882; 161754; 161626; 161500; 161373; 161248; 161123; 160998; 160874; 160751; 160628; 160505; 160383;
  160262; 160141; 160021; 159901; 159782; 159663; 159544; 159427; 159309; 159192; 159076; 158960; 158845; 158730; 158615; 158501; 158387; 158274;
  158161; 158049; 157937; 157826; 157715; 157604; 157494; 157385; 157275; 157167; 157058; 156950; 156842; 156735; 156628; 156522; 156416; 156310;
  156205; 156100; 155996; 155892; 155788; 155685; 155582; 155479; 155377; 155275; 155174; 155073; 154972; 154872; 154772; 154672; 154573; 154474;
  154375; 154277; 154179; 154081; 153984; 153887; 153790; 153694; 153598; 153502; 153407; 153312; 153217; 153123; 153029; 152935; 152841; 152748;
  152655; 152563; 152470; 152378; 152287; 152195; 152104; 152014; 151923; 151833; 151743; 151653; 151564; 151475; 151386; 151297; 151209; 151121;
  151034; 150946; 150859; 150772; 150685; 150599; 150513; 150427; 150341; 150256; 150171; 150086; 150002; 149917; 149833; 149749; 149666; 149582;
  149499; 149416; 149334; 149251; 149169; 149087; 149006; 148924; 148843; 148762; 148681; 148601; 148521; 148441; 148361; 148281; 148202; 148122;
  148044; 147965; 147886; 147808; 147730; 147652; 147574; 147497; 147420; 147343; 147266; 147189; 147113; 147037; 146961; 146885; 146809; 146734;
  146659; 146584; 146509; 146434; 146360; 146286; 146212; 146138; 146064; 145991; 145917; 145844; 145771; 145699; 145626; 145554; 145482; 145410;
  145338; 145266; 145195; 145124; 145053; 144982; 144911; 144841; 144770; 144700; 144630; 144560; 144490; 144421; 144352; 144282; 144213; 144145;
  144076; 144007; 143939; 143871; 143803; 143735; 143667; 143600; 143532; 143465; 143398; 143331; 143265; 143198; 143132; 143065; 142999; 142933;
  142867; 142802; 142736; 142671; 142606; 142541; 142476; 142411; 142346; 142282; 142218; 142153; 142089; 142026; 141962; 141898; 141835; 141771;
  141708; 141645; 141582; 141520; 141457; 141394; 141332; 141270; 141208; 141146; 141084; 141022; 140961; 140899; 140838; 140777; 140716; 140655;
  140594; 140534; 140473; 140413; 140353; 140293; 140233; 140173; 140113; 140053; 139994; 139935; 139875; 139816; 139757; 139698; 139640; 139581;
  139522; 139464; 139406; 139348; 139290; 139232; 139174; 139116; 139059; 139001; 138944; 138887; 138830; 138773; 138716; 138659; 138602; 138546;
  138489; 138433; 138377; 138321; 138265; 138209; 138153; 138098; 138042; 137987; 137931; 137876; 137821; 137766; 137711; 137656; 137602; 137547;
  137493; 137438; 137384; 137330; 137276; 137222; 137168; 137114; 137061; 137007; 136954; 136900; 136847; 136794; 136741; 136688; 136635; 136582;
  136530; 136477; 136424; 136372; 136320; 136268; 136216; 136164; 136112; 136060; 136008; 135957; 135905; 135854; 135802; 135751; 135700; 135649;
  135598; 135547; 135496; 135446; 135395; 135345; 135294; 135244; 135194; 135143; 135093; 135043; 134993; 134944; 134894; 134844; 134795; 134745;
  134696; 134647; 134597; 134548; 134499; 134450; 134401; 134353; 134304; 134255; 134207; 134158; 134110; 134062; 134014; 133965; 133917; 133869;
  133822; 133774; 133726; 133678; 133631; 133583; 133536; 133489; 133441; 133394; 133347; 133300; 133253; 133206; 133160; 133113; 133066; 133020;
  132973; 132927; 132881; 132834; 132788; 132742; 132696; 132650; 132604; 132558; 132513; 132467; 132422; 132376; 132331; 132285; 132240; 132195;
  132150; 132105; 132060; 132015; 131970; 131925; 131880; 131836; 131791; 131747; 131702; 131658; 131613; 131569; 131525; 131481; 131437; 131393;
  131349; 131305; 131261; 131218; 131174; 131131; 131087; 131044; 131000; 130957; 130914; 130871; 130828; 130785; 130742; 130699; 130656; 130613;
  130570; 130528; 130485; 130443; 130400; 130358; 130316; 130273; 130231; 130189; 130147; 130105; 130063; 130021; 129979; 129937; 129896; 129854;
  129813; 129771; 129730; 129688; 129647; 129606; 129564; 129523; 129482; 129441; 129400; 129359; 129318; 129277; 129237; 129196; 129155; 129115;
  129074; 129034; 128993; 128953; 128913; 128873; 128832; 128792; 128752; 128712; 128672; 128632; 128593; 128553; 128513; 128473; 128434; 128394;
  128355; 128315; 128276; 128237; 128197; 128158; 128119; 128080; 128041; 128002; 127963; 127924; 127885; 127846; 127807; 127769; 127730; 127691;
  127653; 127614; 127576; 127538; 127499; 127461; 127423; 127385; 127346; 127308; 127270; 127232; 127194; 127157; 127119; 127081; 127043; 127006;
  126968; 126930; 126893; 126855; 126818; 126781; 126743; 126706; 126669; 126632; 126594; 126557; 126520; 126483; 126446; 126409; 126373; 126336;
  126299; 126262; 126226; 126189; 126153; 126116; 126080; 126043; 126007; 125970; 125934; 125898; 125862; 125826; 125789; 125753; 125717; 125681;
  125646; 125610; 125574; 125538; 125502; 125467; 125431; 125395; 125360; 125324; 125289; 125253; 125218; 125183; 125147; 125112; 125077; 125042;
  125007; 124972; 124937; 124902; 124867; 124832; 124797; 124762; 124727; 124693; 124658; 124623; 124589; 124554; 124520; 124485; 124451; 124416;
  124382; 124348; 124313; 124279; 124245; 124211; 124177; 124143; 124109; 124075; 124041; 124007; 123973; 123939; 123905; 123872; 123838; 123804;
  123771; 123737; 123703; 123670; 123636; 123603; 123570; 123536; 123503; 123470; 123436; 123403; 123370; 123337; 123304; 123271; 123238; 123205;
  123172; 123139; 123106; 123074; 123041; 123008; 122975; 122943; 122910; 122877; 122845; 122812; 122780; 122747; 122715; 122683; 122650; 122618].
Definition log_lut_1 : list Z := [
  122586; 122554; 122521; 122489; 122457; 122425; 122393; 122361; 122329; 122297; 122265; 122233; 122202; 122170; 122138; 122106; 122075; 122043;
  122011; 121980; 121948; 121917; 121885; 121854; 121823; 121791; 121760; 121729; 121697; 121666; 121635; 121604; 121573; 121542; 121510; 121479;
  121448; 121418; 121387; 121356; 121325; 121294; 121263; 121233; 121202; 121171; 121140; 121110; 121079; 121049; 121018; 120988; 120957; 120927;
  120896; 120866; 120836; 120805; 120775; 120745; 120715; 120685; 120654; 120624; 120594; 120564; 120534; 120504; 120474; 120444; 120414; 120385;
  120355; 120325; 120295; 120266; 120236; 120206; 120177; 120147; 120117; 120088; 120058; 120029; 119999; 119970; 119941; 119911; 119882; 119853;
  119823; 119794; 119765; 119736; 119707; 119677; 119648; 119619; 119590; 119561; 119532; 119503; 119474; 119446; 119417; 119388; 119359; 119330;
  119302; 119273; 119244; 119216; 119187; 119158; 119130; 119101; 119073; 119044; 119016; 118987; 118959; 118931; 118902; 118874; 118846; 118818;
  118789; 118761; 118733; 118705; 118677; 118649; 118621; 118593; 118565; 118537; 118509; 118481; 118453; 118425; 118397; 118369; 118342; 118314;
  118286; 118258; 118231; 118203; 118175; 118148; 118120; 118093; 118065; 118038; 118010; 117983; 117955; 117928; 117901; 117873; 117846; 117819;
  117792; 117764; 117737; 117710; 117683; 117656; 117629; 117602; 117574; 117547; 117520; 117493; 117467; 117440; 117413; 117386; 117359; 117332;
  117305; 117279; 117252; 117225; 117199; 117172; 117145; 117119; 117092; 117065; 117039; 117012; 116986; 116959; 116933; 116907; 116880; 116854;
  116828; 116801; 116775; 116749; 116722; 116696; 116670; 116644; 116618; 116592; 116565; 116539; 116513; 116487; 116461; 116435; 116409; 116383;
  116358; 116332; 116306; 116280; 116254; 116228; 116203; 116177; 116151; 116125; 116100; 116074; 116048; 116023; 115997; 115972; 115946; 115921;
  115895; 115870; 115844; 115819; 115793; 115768; 115743; 115717; 115692; 115667; 115641; 115616; 115591; 115566; 115541; 115515; 115490; 115465;
  115440; 115415; 115390; 115365; 115340; 115315; 115290; 115265; 115240; 115215; 115190; 115166; 115141; 115116; 115091; 115066; 115042; 115017;
  114992; 114968; 114943; 114918; 114894; 114869; 114845; 114820; 114795; 114771; 114746; 114722; 114698; 114673; 114649; 114624; 114600; 114576;
  114551; 114527; 114503; 114479; 114454; 114430; 114406; 114382; 114358; 114333; 114309; 114285; 114261; 114237; 114213; 114189; 114165; 114141;
  114117; 114093; 114069; 114045; 114022; 113998; 113974; 113950; 113926; 113903; 113879; 113855; 113831; 113808; 113784; 113760; 113737; 113713;
  113690; 113666; 113642; 113619; 113595; 113572; 113548; 113525; 113502; 113478; 113455; 113431; 113408; 113385; 113361; 113338; 113315; 113291;
  113268; 113245; 113222; 113199; 113175; 113152; 113129; 113106; 113083; 113060; 113037; 113014; 112991; 112968; 112945; 112922; 112899; 112876;
  112853; 112830; 112807; 112784; 112762; 112739; 112716; 112693; 112670; 112648; 112625; 112602; 112580; 112557; 112534; 112512; 112489; 112466;
  112444; 112421; 112399; 112376; 112354; 112331; 112309; 112286; 112264; 112241; 112219; 112197; 112174; 112152; 112130; 112107; 112085; 112063;
  112040; 112018; 111996; 111974; 111952; 111929; 111907; 111885; 111863; 111841; 111819; 111797; 111775; 111753; 111731; 111709; 111687; 111665;
  111643; 111621; 111599; 111577; 111555; 111533; 111511; 111489; 111468; 111446; 111424; 111402; 111381; 111359; 111337; 111315; 111294; 111272;
  111250; 111229; 111207; 111186; 111164; 111142; 111121; 111099; 111078; 111056; 111035; 111013; 110992; 110970; 110949; 110928; 110906; 110885;
  110863; 110842; 110821; 110799; 110778; 110757; 110736; 110714; 110693; 110672; 110651; 110630; 110608; 110587; 110566; 110545; 110524; 110503;
  110482; 110461; 110440; 110419; 110398; 110377; 110356; 110335; 110314; 110293; 110272; 110251; 110230; 110209; 110188; 110167; 110147; 110126;
  110105; 110084; 110063; 110043; 110022; 110001; 109981; 109960; 109939; 109918; 109898; 109877; 109857; 109836; 109815; 109795; 109774; 109754;
  109733; 109713; 109692; 109672; 109651; 109631; 109610; 109590; 109570; 109549; 109529; 109508; 109488; 109468; 109447; 109427; 109407; 109386;
  109366; 109346; 109326; 109306; 109285; 109265; 109245; 109225; 109205; 109184; 109164; 109144; 109124; 109104; 109084; 109064; 109044; 109024;
  109004; 108984; 108964; 108944; 108924; 108904; 108884; 108864; 108844; 108824; 108805; 108785; 108765; 108745; 108725; 108705; 108686; 108666;
  108646; 108626; 108607; 108587; 108567; 108548; 108528; 108508; 108489; 108469; 108449; 108430; 108410; 108391; 108371; 108351; 108332; 108312;
  108293; 108273; 108254; 108234; 108215; 108195; 108176; 108157; 108137; 108118; 108098; 108079; 108060; 108040; 108021; 108002; 107982; 107963;
  107944; 107925; 107905; 107886; 107867; 107848; 107828; 107809; 107790; 107771; 107752; 107733; 107714; 107694; 107675; 107656; 107637; 107618;
  107599; 107580; 107561; 107542; 107523; 107504; 107485; 107466; 107447; 107428; 107409; 107390; 107371; 107353; 107334; 107315; 107296; 107277;
  107258; 107240; 107221; 107202; 107183; 107165; 107146; 107127; 107108; 107090; 107071; 107052; 107034; 107015; 106996; 106978; 106959; 106940;
  106922; 106903; 106885; 106866; 106848; 106829; 106810; 106792; 106773; 106755; 106736; 106718; 106700; 106681; 106663; 106644; 106626; 106607;
  106589; 106571; 106552; 106534; 106516; 106497; 106479; 106461; 106443; 106424; 106406; 106388; 106369; 106351; 106333; 106315; 106297; 106278;
  106260; 106242; 106224; 106206; 106188; 106170; 106152; 106133; 106115; 106097; 106079; 106061; 106043; 106025; 106007; 105989; 105971; 105953;
  105935; 105917; 105899; 105881; 105863; 105846; 105828; 105810; 105792; 105774; 105756; 105738; 105721; 105703; 105685; 105667; 105649; 105632;
  105614; 105596; 105578; 105561; 105543; 105525; 105507; 105490; 105472; 105454; 105437; 105419; 105402; 105384; 105366; 105349; 105331; 105314;
  105296; 105278; 105261; 105243; 105226; 105208; 105191; 105173; 105156; 105138; 105121; 105104; 105086; 105069; 105051; 105034; 105016; 104999;
  104982; 104964; 104947; 104930; 104912; 104895; 104878; 104860; 104843; 104826; 104809; 104791; 104774; 104757; 104740; 104722; 104705; 104688;
  104671; 104654; 104636; 104619; 104602; 104585; 104568; 104551; 104534; 104517; 104500; 104482; 104465; 104448; 104431; 104414; 104397; 104380;
  104363; 104346; 104329; 104312; 104295; 104278; 104262; 104245; 104228; 104211; 104194; 104177; 104160; 104143; 104126; 104110; 104093; 104076;
  104059; 104042; 104025; 104009; 103992; 103975; 103958; 103942; 103925; 103908; 103891; 103875; 103858; 103841; 103825; 103808; 103791; 103775;
  103758; 103741; 103725; 103708; 103692; 103675; 103658; 103642; 103625; 103609; 103592; 103576; 103559; 103543; 103526; 103510; 103493; 103477;
  103460; 103444; 103427; 103411; 103394; 103378; 103362; 103345; 103329; 103312; 103296; 103280; 103263; 103247; 103231; 103214; 103198; 103182;
  103165; 103149; 103133; 103117; 103100; 103084; 103068; 103052; 103035; 103019; 103003; 102987; 102971; 102954; 102938; 102922; 102906; 102890;
  102874; 102858; 102841; 102825; 102809; 102793; 102777; 102761; 102745; 102729; 102713; 102697; 102681; 102665; 102649; 102633; 102617; 102601].
Definition log_lut_2 : list Z := [
  102585; 102569; 102553; 102537; 102521; 102505; 102489; 102473; 102457; 102442; 102426; 102410; 102394; 102378; 102362; 102346; 102331; 102315;
  102299; 102283; 102267; 102252; 102236; 102220; 102204; 102189; 102173; 102157; 102141; 102126; 102110; 102094; 102079; 102063; 102047; 102032;
  102016; 102000; 101985; 101969; 101953; 101938; 101922; 101907; 101891; 101875; 101860; 101844; 101829; 101813; 101798; 101782; 101767; 101751;
  101736; 101720; 101705; 101689; 101674; 101658; 101643; 101627; 101612; 101597; 101581; 101566; 101550; 101535; 101520; 101504; 101489; 101473;
  101458; 101443; 101427; 101412; 101397; 101382; 101366; 101351; 101336; 101320; 101305; 101290; 101275; 101259; 101244; 101229; 101214; 101198;
  101183; 101168; 101153; 101138; 101123; 101107; 101092; 101077; 101062; 101047; 101032; 101017; 101002; 100986; 100971; 100956; 100941; 100926;
  100911; 100896; 100881; 100866; 100851; 100836; 100821; 100806; 100791; 100776; 100761; 100746; 100731; 100716; 100701; 100686; 100671; 100656;
  100641; 100627; 100612; 100597; 100582; 100567; 100552; 100537; 100522; 100508; 100493; 100478; 100463; 100448; 100433; 100419; 100404; 100389;
  100374; 100360; 100345; 100330; 100315; 100301; 100286; 100271; 100256; 100242; 100227; 100212; 100198; 100183; 100168; 100154; 100139; 100124;
  100110; 100095; 100080; 100066; 100051; 100037; 100022; 100007; 99993; 99978; 99964; 99949; 99935; 99920; 99906; 99891; 99877; 99862;
  99848; 99833; 99819; 99804; 99790; 99775; 99761; 99746; 99732; 99717; 99703; 99688; 99674; 99660; 99645; 99631; 99616; 99602;
  99588; 99573; 99559; 99545; 99530; 99516; 99502; 99487; 99473; 99459; 99444; 99430; 99416; 99402; 99387; 99373; 99359; 99345;
  99330; 99316; 99302; 99288; 99273; 99259; 99245; 99231; 99217; 99202; 99188; 99174; 99160; 99146; 99132; 99117; 99103; 99089;
  99075; 99061; 99047; 99033; 99019; 99005; 98991; 98977; 98962; 98948; 98934; 98920; 98906; 98892; 98878; 98864; 98850; 98836;
  98822; 98808; 98794; 98780; 98766; 98752; 98738; 98725; 98711; 98697; 98683; 98669; 98655; 98641; 98627; 98613; 98599; 98585;
  98572; 98558; 98544; 98530; 98516; 98502; 98489; 98475; 98461; 98447; 98433; 98420; 98406; 98392; 98378; 98364; 98351; 98337;
  98323; 98309; 98296; 98282; 98268; 98255; 98241; 98227; 98213; 98200; 98186; 98172; 98159; 98145; 98131; 98118; 98104; 98090;
  98077; 98063; 98050; 98036; 98022; 98009; 97995; 97982; 97968; 97954; 97941; 97927; 97914; 97900; 97887; 97873; 97860; 97846;
  97833; 97819; 97806; 97792; 97779; 97765; 97752; 97738; 97725; 97711; 97698; 97684; 97671; 97658; 97644; 97631; 97617; 97604;
  97591; 97577; 97564; 97550; 97537; 97524; 97510; 97497; 97484; 97470; 97457; 97444; 97430; 97417; 97404; 97390; 97377; 97364;
  97350; 97337; 97324; 97311; 97297; 97284; 97271; 97258; 97244; 97231; 97218; 97205; 97192; 97178; 97165; 97152; 97139; 97126;
  97112; 97099; 97086; 97073; 97060; 97047; 97033; 97020; 97007; 96994; 96981; 96968; 96955; 96942; 96929; 96916; 96902; 96889;
  96876; 96863; 96850; 96837; 96824; 96811; 96798; 96785; 96772; 96759; 96746; 96733; 96720; 96707; 96694; 96681; 96668; 96655;
  96642; 96629; 96616; 96603; 96590; 96577; 96565; 96552; 96539; 96526; 96513; 96500; 96487; 96474; 96461; 96448; 96436; 96423;
  96410; 96397; 96384; 96371; 96359; 96346; 96333; 96320; 96307; 96295; 96282; 96269; 96256; 96243; 96231; 96218; 96205; 96192;
  96180; 96167; 96154; 96141; 96129; 96116; 96103; 96090; 96078; 96065; 96052; 96040; 96027; 96014; 96002; 95989; 95976; 95964;
  95951; 95938; 95926; 95913; 95901; 95888; 95875; 95863; 95850; 95837; 95825; 95812; 95800; 95787; 95775; 95762; 95749; 95737;
  95724; 95712; 95699; 95687; 95674; 95662; 95649; 95637; 95624; 95612; 95599; 95587; 95574; 95562; 95549; 95537; 95524; 95512;
  95499; 95487; 95475; 95462; 95450; 95437; 95425; 95412; 95400; 95388; 95375; 95363; 95351; 95338; 95326; 95313; 95301; 95289;
  95276; 95264; 95252; 95239; 95227; 95215; 95202; 95190; 95178; 95165; 95153; 95141; 95129; 95116; 95104; 95092; 95079; 95067;
  95055; 95043; 95030; 95018; 95006; 94994; 94982; 94969; 94957; 94945; 94933; 94920; 94908; 94896; 94884; 94872; 94860; 94847;
  94835; 94823; 94811; 94799; 94787; 94775; 94762; 94750; 94738; 94726; 94714; 94702; 94690; 94678; 94666; 94653; 94641; 94629;
  94617; 94605; 94593; 94581; 94569; 94557; 94545; 94533; 94521; 94509; 94497; 94485; 94473; 94461; 94449; 94437; 94425; 94413;
  94401; 94389; 94377; 94365; 94353; 94341; 94329; 94317; 94305; 94293; 94281; 94269; 94258; 94246; 94234; 94222; 94210; 94198;
  94186; 94174; 94162; 94151; 94139; 94127; 94115; 94103; 94091; 94079; 94068; 94056; 94044; 94032; 94020; 94008; 93997; 93985;
  93973; 93961; 93949; 93938; 93926; 93914; 93902; 93891; 93879; 93867; 93855; 93844; 93832; 93820; 93808; 93797; 93785; 93773;
  93762; 93750; 93738; 93726; 93715; 93703; 93691; 93680; 93668; 93656; 93645; 93633; 93621; 93610; 93598; 93586; 93575; 93563;
  93552; 93540; 93528; 93517; 93505; 93494; 93482; 93470; 93459; 93447; 93436; 93424; 93412; 93401; 93389; 93378; 93366; 93355;
  93343; 93332; 93320; 93309; 93297; 93286; 93274; 93262; 93251; 93239; 93228; 93217; 93205; 93194; 93182; 93171; 93159; 93148;
  93136; 93125; 93113; 93102; 93090; 93079; 93068; 93056; 93045; 93033; 93022; 93011; 92999; 92988; 92976; 92965; 92954; 92942;
  92931; 92919; 92908; 92897; 92885; 92874; 92863; 92851; 92840; 92829; 92817; 92806; 92795; 92783; 92772; 92761; 92749; 92738;
  92727; 92716; 92704; 92693; 92682; 92670; 92659; 92648; 92637; 92625; 92614; 92603; 92592; 92580; 92569; 92558; 92547; 92536;
  92524; 92513; 92502; 92491; 92480; 92468; 92457; 92446; 92435; 92424; 92412; 92401; 92390; 92379; 92368; 92357; 92346; 92334;
  92323; 92312; 92301; 92290; 92279; 92268; 92257; 92245; 92234; 92223; 92212; 92201; 92190; 92179; 92168; 92157; 92146; 92135;
  92124; 92113; 92102; 92090; 92079; 92068; 92057; 92046; 92035; 92024; 92013; 92002; 91991; 91980; 91969; 91958; 91947; 91936;
  91925; 91914; 91903; 91892; 91881; 91871; 91860; 91849; 91838; 91827; 91816; 91805; 91794; 91783; 91772; 91761; 91750; 91739;
  91728; 91718; 91707; 91696; 91685; 91674; 91663; 91652; 91641; 91631; 91620; 91609; 91598; 91587; 91576; 91565; 91555; 91544;
  91533; 91522; 91511; 91500; 91490; 91479; 91468; 91457; 91446; 91436; 91425; 91414; 91403; 91393; 91382; 91371; 91360; 91349;
  91339; 91328; 91317; 91306; 91296; 91285; 91274; 91264; 91253; 91242; 91231; 91221; 91210; 91199; 91189; 91178; 91167; 91157;
  91146; 91135; 91124; 91114; 91103; 91092; 91082; 91071; 91061; 91050; 91039; 91029; 91018; 91007; 90997; 90986; 90975; 90965].
Definition log_lut_3 : list Z := [
  90954; 90944; 90933; 90922; 90912; 90901; 90891; 90880; 90870; 90859; 90848; 90838; 90827; 90817; 90806; 90796; 90785; 90774;
  90764; 90753; 90743; 90732; 90722; 90711; 90701; 90690; 90680; 90669; 90659; 90648; 90638; 90627; 90617; 90606; 90596; 90585;
  90575; 90564; 90554; 90544; 90533; 90523; 90512; 90502; 90491; 90481; 90470; 90460; 90450; 90439; 90429; 90418; 90408; 90397;
  90387; 90377; 90366; 90356; 90346; 90335; 90325; 90314; 90304; 90294; 90283; 90273; 90263; 90252; 90242; 90232; 90221; 90211;
  90201; 90190; 90180; 90170; 90159; 90149; 90139; 90128; 90118; 90108; 90097; 90087; 90077; 90067; 90056; 90046; 90036; 90025;
  90015; 90005; 89995; 89984; 89974; 89964; 89954; 89943; 89933; 89923; 89913; 89902; 89892; 89882; 89872; 89862; 89851; 89841;
  89831; 89821; 89811; 89800; 89790; 89780; 89770; 89760; 89750; 89739; 89729; 89719; 89709; 89699; 89689; 89678; 89668; 89658;
  89648; 89638; 89628; 89618; 89608; 89597; 89587; 89577; 89567; 89557; 89547; 89537; 89527; 89517; 89507; 89496; 89486; 89476;
  89466; 89456; 89446; 89436; 89426; 89416; 89406; 89396; 89386; 89376; 89366; 89356; 89346; 89336; 89326; 89316; 89306; 89296;
  89286; 89276; 89266; 89256; 89246; 89236; 89226; 89216; 89206; 89196; 89186; 89176; 89166; 89156; 89146; 89136; 89126; 89116;
  89106; 89096; 89086; 89076; 89066; 89056; 89046; 89037; 89027; 89017; 89007; 88997; 88987; 88977; 88967; 88957; 88947; 88938;
  88928; 88918; 88908; 88898; 88888; 88878; 88868; 88859; 88849; 88839; 88829; 88819; 88809; 88800; 88790; 88780; 88770; 88760;
  88750; 88741; 88731; 88721; 88711; 88701; 88692; 88682; 88672; 88662; 88652; 88643; 88633; 88623; 88613; 88604; 88594; 88584;
  88574; 88564; 88555; 88545; 88535; 88526; 88516; 88506; 88496; 88487; 88477; 88467; 88457; 88448; 88438; 88428; 88419; 88409;
  88399; 88389; 88380; 88370; 88360; 88351; 88341; 88331; 88322; 88312; 88302; 88293; 88283; 88273; 88264; 88254; 88244; 88235;
  88225; 88216; 88206; 88196; 88187; 88177; 88167; 88158; 88148; 88139; 88129; 88119; 88110; 88100; 88091; 88081; 88071; 88062;
  88052; 88043; 88033; 88023; 88014; 88004; 87995; 87985; 87976; 87966; 87957; 87947; 87937; 87928; 87918; 87909; 87899; 87890;
  87880; 87871; 87861; 87852; 87842; 87833; 87823; 87814; 87804; 87795; 87785; 87776; 87766; 87757; 87747; 87738; 87728; 87719;
  87709; 87700; 87690; 87681; 87672; 87662; 87653; 87643; 87634; 87624; 87615; 87605; 87596; 87587; 87577; 87568; 87558; 87549;
  87540; 87530; 87521; 87511; 87502; 87493; 87483; 87474; 87464; 87455; 87446; 87436; 87427; 87417; 87408; 87399; 87389; 87380;
  87371; 87361; 87352; 87343; 87333; 87324; 87315; 87305; 87296; 87287; 87277; 87268; 87259; 87249; 87240; 87231; 87221; 87212;
  87203; 87193; 87184; 87175; 87166; 87156; 87147; 87138; 87129; 87119; 87110; 87101; 87091; 87082; 87073; 87064; 87054; 87045;
  87036; 87027; 87017; 87008; 86999; 86990; 86981; 86971; 86962; 86953; 86944; 86934; 86925; 86916; 86907; 86898; 86888; 86879;
  86870; 86861; 86852; 86842; 86833; 86824; 86815; 86806; 86797; 86787; 86778; 86769; 86760; 86751; 86742; 86732; 86723; 86714;
  86705; 86696; 86687; 86678; 86669; 86659; 86650; 86641; 86632; 86623; 86614; 86605; 86596; 86587; 86577; 86568; 86559; 86550;
  86541; 86532; 86523; 86514; 86505; 86496; 86487; 86478; 86468; 86459; 86450; 86441; 86432; 86423; 86414; 86405; 86396; 86387;
  86378; 86369; 86360; 86351; 86342; 86333; 86324; 86315; 86306; 86297; 86288; 86279; 86270; 86261; 86252; 86243; 86234; 86225;
  86216; 86207; 86198; 86189; 86180; 86171; 86162; 86153; 86144; 86135; 86126; 86117; 86108; 86099; 86090; 86081; 86073; 86064;
  86055; 86046; 86037; 86028; 86019; 86010; 86001; 85992; 85983; 85974; 85966; 85957; 85948; 85939; 85930; 85921; 85912; 85903;
  85894; 85886; 85877; 85868; 85859; 85850; 85841; 85832; 85823; 85815; 85806; 85797; 85788; 85779; 85770; 85761; 85753; 85744;
  85735; 85726; 85717; 85709; 85700; 85691; 85682; 85673; 85664; 85656; 85647; 85638; 85629; 85620; 85612; 85603; 85594; 85585;
  85576; 85568; 85559; 85550; 85541; 85533; 85524; 85515; 85506; 85498; 85489; 85480; 85471; 85463; 85454; 85445; 85436; 85428;
  85419; 85410; 85401; 85393; 85384; 85375; 85366; 85358; 85349; 85340; 85332; 85323; 85314; 85306; 85297; 85288; 85279; 85271;
  85262; 85253; 85245; 85236; 85227; 85219; 85210; 85201; 85193; 85184; 85175; 85167; 85158; 85149; 85141; 85132; 85123; 85115;
  85106; 85098; 85089; 85080; 85072; 85063; 85054; 85046; 85037; 85029; 85020; 85011; 85003; 84994; 84985; 84977; 84968; 84960;
  84951; 84943; 84934; 84925; 84917; 84908; 84900; 84891; 84882; 84874; 84865; 84857; 84848; 84840; 84831; 84823; 84814; 84805;
  84797; 84788; 84780; 84771; 84763; 84754; 84746; 84737; 84729; 84720; 84712; 84703; 84695; 84686; 84678; 84669; 84660; 84652;
  84643; 84635; 84626; 84618; 84610; 84601; 84593; 84584; 84576; 84567; 84559; 84550; 84542; 84533; 84525; 84516; 84508; 84499;
  84491; 84482; 84474; 84466; 84457; 84449; 84440; 84432; 84423; 84415; 84407; 84398; 84390; 84381; 84373; 84364; 84356; 84348;
  84339; 84331; 84322; 84314; 84306; 84297; 84289; 84280; 84272; 84264; 84255; 84247; 84238; 84230; 84222; 84213; 84205; 84197;
  84188; 84180; 84172; 84163; 84155; 84146; 84138; 84130; 84121; 84113; 84105; 84096; 84088; 84080; 84071; 84063; 84055; 84046;
  84038; 84030; 84021; 84013; 84005; 83997; 83988; 83980; 83972; 83963; 83955; 83947; 83938; 83930; 83922; 83914; 83905; 83897;
  83889; 83880; 83872; 83864; 83856; 83847; 83839; 83831; 83823; 83814; 83806; 83798; 83790; 83781; 83773; 83765; 83757; 83748;
  83740; 83732; 83724; 83715; 83707; 83699; 83691; 83683; 83674; 83666; 83658; 83650; 83641; 83633; 83625; 83617; 83609; 83601;
  83592; 83584; 83576; 83568; 83560; 83551; 83543; 83535; 83527; 83519; 83511; 83502; 83494; 83486; 83478; 83470; 83462; 83453;
  83445; 83437; 83429; 83421; 83413; 83405; 83396; 83388; 83380; 83372; 83364; 83356; 83348; 83340; 83331; 83323; 83315; 83307;
  83299; 83291; 83283; 83275; 83267; 83258; 83250; 83242; 83234; 83226; 83218; 83210; 83202; 83194; 83186; 83178; 83170; 83161;
  83153; 83145; 83137; 83129; 83121; 83113; 83105; 83097; 83089; 83081; 83073; 83065; 83057; 83049; 83041; 83033; 83025; 83017;
  83009; 83001; 82993; 82985; 82977; 82969; 82961; 82953; 82945; 82936; 82928; 82920; 82912; 82905; 82897; 82889; 82881; 82873;
  82865; 82857; 82849; 82841; 82833; 82825; 82817; 82809; 82801; 82793; 82785; 82777; 82769; 82761; 82753; 82745; 82737; 82729].
Definition log_lut_4 : list Z := [
  82721; 82713; 82705; 82697; 82689; 82682; 82674; 82666; 82658; 82650; 82642; 82634; 82626; 82618; 82610; 82602; 82594; 82586;
  82579; 82571; 82563; 82555; 82547; 82539; 82531; 82523; 82515; 82508; 82500; 82492; 82484; 82476; 82468; 82460; 82452; 82445;
  82437; 82429; 82421; 82413; 82405; 82397; 82390; 82382; 82374; 82366; 82358; 82350; 82342; 82335; 82327; 82319; 82311; 82303;
  82295; 82288; 82280; 82272; 82264; 82256; 82249; 82241; 82233; 82225; 82217; 82210; 82202; 82194; 82186; 82178; 82171; 82163;
  82155; 82147; 82139; 82132; 82124; 82116; 82108; 82100; 82093; 82085; 82077; 82069; 82062; 82054; 82046; 82038; 82031; 82023;
  82015; 82007; 82000; 81992; 81984; 81976; 81969; 81961; 81953; 81945; 81938; 81930; 81922; 81915; 81907; 81899; 81891; 81884;
  81876; 81868; 81861; 81853; 81845; 81837; 81830; 81822; 81814; 81807; 81799; 81791; 81784; 81776; 81768; 81761; 81753; 81745;
  81738; 81730; 81722; 81715; 81707; 81699; 81692; 81684; 81676; 81669; 81661; 81653; 81646; 81638; 81630; 81623; 81615; 81607;
  81600; 81592; 81584; 81577; 81569; 81562; 81554; 81546; 81539; 81531; 81523; 81516; 81508; 81501; 81493; 81485; 81478; 81470;
  81463; 81455; 81447; 81440; 81432; 81425; 81417; 81409; 81402; 81394; 81387; 81379; 81372; 81364; 81356; 81349; 81341; 81334;
  81326; 81319; 81311; 81303; 81296; 81288; 81281; 81273; 81266; 81258; 81251; 81243; 81235; 81228; 81220; 81213; 81205; 81198;
  81190; 81183; 81175; 81168; 81160; 81153; 81145; 81138; 81130; 81123; 81115; 81108; 81100; 81093; 81085; 81078; 81070; 81063;
  81055; 81048; 81040; 81033; 81025; 81018; 81010; 81003; 80995; 80988; 80980; 80973; 80965; 80958; 80950; 80943; 80936; 80928;
  80921; 80913; 80906; 80898; 80891; 80883; 80876; 80868; 80861; 80854; 80846; 80839; 80831; 80824; 80816; 80809; 80802; 80794;
  80787; 80779; 80772; 80764; 80757; 80750; 80742; 80735; 80727; 80720; 80713; 80705; 80698; 80690; 80683; 80676; 80668; 80661;
  80653; 80646; 80639; 80631; 80624; 80616; 80609; 80602; 80594; 80587; 80580; 80572; 80565; 80558; 80550; 80543; 80535; 80528;
  80521; 80513; 80506; 80499; 80491; 80484; 80477; 80469; 80462; 80455; 80447; 80440; 80433; 80425; 80418; 80411; 80403; 80396;
  80389; 80381; 80374; 80367; 80359; 80352; 80345; 80338; 80330; 80323; 80316; 80308; 80301; 80294; 80286; 80279; 80272; 80265;
  80257; 80250; 80243; 80235; 80228; 80221; 80214; 80206; 80199; 80192; 80185; 80177; 80170; 80163; 80155; 80148; 80141; 80134;
  80126; 80119; 80112; 80105; 80097; 80090; 80083; 80076; 80069; 80061; 80054; 80047; 80040; 80032; 80025; 80018; 80011; 80003;
  79996; 79989; 79982; 79975; 79967; 79960; 79953; 79946; 79939; 79931; 79924; 79917; 79910; 79903; 79895; 79888; 79881; 79874;
  79867; 79859; 79852; 79845; 79838; 79831; 79824; 79816; 79809; 79802; 79795; 79788; 79780; 79773; 79766; 79759; 79752; 79745;
  79738; 79730; 79723; 79716; 79709; 79702; 79695; 79688; 79680; 79673; 79666; 79659; 79652; 79645; 79638; 79630; 79623; 79616;
  79609; 79602; 79595; 79588; 79581; 79573; 79566; 79559; 79552; 79545; 79538; 79531; 79524; 79517; 79510; 79502; 79495; 79488;
  79481; 79474; 79467; 79460; 79453; 79446; 79439; 79432; 79425; 79417; 79410; 79403; 79396; 79389; 79382; 79375; 79368; 79361;
  79354; 79347; 79340; 79333; 79326; 79319; 79312; 79305; 79297; 79290; 79283; 79276; 79269; 79262; 79255; 79248; 79241; 79234;
  79227; 79220; 79213; 79206; 79199; 79192; 79185; 79178; 79171; 79164; 79157; 79150; 79143; 79136; 79129; 79122; 79115; 79108;
  79101; 79094; 79087; 79080; 79073; 79066; 79059; 79052; 79045; 79038; 79031; 79024; 79017; 79010; 79003; 78996; 78989; 78982;
  78975; 78968; 78961; 78954; 78947; 78941; 78934; 78927; 78920; 78913; 78906; 78899; 78892; 78885; 78878; 78871; 78864; 78857;
  78850; 78843; 78836; 78829; 78823; 78816; 78809; 78802; 78795; 78788; 78781; 78774; 78767; 78760; 78753; 78746; 78740; 78733;
  78726; 78719; 78712; 78705; 78698; 78691; 78684; 78677; 78671; 78664; 78657; 78650; 78643; 78636; 78629; 78622; 78615; 78609;
  78602; 78595; 78588; 78581; 78574; 78567; 78561; 78554; 78547; 78540; 78533; 78526; 78519; 78513; 78506; 78499; 78492; 78485;
  78478; 78471; 78465; 78458; 78451; 78444; 78437; 78430; 78424; 78417; 78410; 78403; 78396; 78389; 78383; 78376; 78369; 78362;
  78355; 78349; 78342; 78335; 78328; 78321; 78315; 78308; 78301; 78294; 78287; 78280; 78274; 78267; 78260; 78253; 78247; 78240;
  78233; 78226; 78219; 78213; 78206; 78199; 78192; 78186; 78179; 78172; 78165; 78158; 78152; 78145; 78138; 78131; 78125; 78118;
  78111; 78104; 78098; 78091; 78084; 78077; 78071; 78064; 78057; 78050; 78044; 78037; 78030; 78023; 78017; 78010; 78003; 77996;
  77990; 77983; 77976; 77970; 77963; 77956; 77949; 77943; 77936; 77929; 77923; 77916; 77909; 77902; 77896; 77889; 77882; 77876;
  77869; 77862; 77856; 77849; 77842; 77835; 77829; 77822; 77815; 77809; 77802; 77795; 77789; 77782; 77775; 77769; 77762; 77755;
  77749; 77742; 77735; 77729; 77722; 77715; 77709; 77702; 77695; 77689; 77682; 77675; 77669; 77662; 77655; 77649; 77642; 77635;
  77629; 77622; 77616; 77609; 77602; 77596; 77589; 77582; 77576; 77569; 77562; 77556; 77549; 77543; 77536; 77529; 77523; 77516;
  77509; 77503; 77496; 77490; 77483; 77476; 77470; 77463; 77457; 77450; 77443; 77437; 77430; 77424; 77417; 77410; 77404; 77397;
  77391; 77384; 77378; 77371; 77364; 77358; 77351; 77345; 77338; 77331; 77325; 77318; 77312; 77305; 77299; 77292; 77285; 77279;
  77272; 77266; 77259; 77253; 77246; 77240; 77233; 77226; 77220; 77213; 77207; 77200; 77194; 77187; 77181; 77174; 77168; 77161;
  77155; 77148; 77141; 77135; 77128; 77122; 77115; 77109; 77102; 77096; 77089; 77083; 77076; 77070; 77063; 77057; 77050; 77044;
  77037; 77031; 77024; 77018; 77011; 77005; 76998; 76992; 76985; 76979; 76972; 76966; 76959; 76953; 76946; 76940; 76933; 76927;
  76920; 76914; 76907; 76901; 76894; 76888; 76881; 76875; 76869; 76862; 76856; 76849; 76843; 76836; 76830; 76823; 76817; 76810;
  76804; 76797; 76791; 76785; 76778; 76772; 76765; 76759; 76752; 76746; 76739; 76733; 76727; 76720; 76714; 76707; 76701; 76694;
  76688; 76682; 76675; 76669; 76662; 76656; 76650; 76643; 76637; 76630; 76624; 76617; 76611; 76605; 76598; 76592; 76585; 76579;
  76573; 76566; 76560; 76553; 76547; 76541; 76534; 76528; 76521; 76515; 76509; 76502; 76496; 76490; 76483; 76477; 76470; 76464;
  76458; 76451; 76445; 76439; 76432; 76426; 76419; 76413; 76407; 76400; 76394; 76388; 76381; 76375; 76369; 76362; 76356; 76349].
Definition log_lut_5 : list Z := [
  76343; 76337; 76330; 76324; 76318; 76311; 76305; 76299; 76292; 76286; 76280; 76273; 76267; 76261; 76254; 76248; 76242; 76235;
  76229; 76223; 76216; 76210; 76204; 76197; 76191; 76185; 76179; 76172; 76166; 76160; 76153; 76147; 76141; 76134; 76128; 76122;
  76115; 76109; 76103; 76097; 76090; 76084; 76078; 76071; 76065; 76059; 76053; 76046; 76040; 76034; 76027; 76021; 76015; 76009;
  76002; 75996; 75990; 75984; 75977; 75971; 75965; 75958; 75952; 75946; 75940; 75933; 75927; 75921; 75915; 75908; 75902; 75896;
  75890; 75883; 75877; 75871; 75865; 75858; 75852; 75846; 75840; 75833; 75827; 75821; 75815; 75809; 75802; 75796; 75790; 75784;
  75777; 75771; 75765; 75759; 75752; 75746; 75740; 75734; 75728; 75721; 75715; 75709; 75703; 75697; 75690; 75684; 75678; 75672;
  75666; 75659; 75653; 75647; 75641; 75635; 75628; 75622; 75616; 75610; 75604; 75597; 75591; 75585; 75579; 75573; 75567; 75560;
  75554; 75548; 75542; 75536; 75530; 75523; 75517; 75511; 75505; 75499; 75493; 75486; 75480; 75474; 75468; 75462; 75456; 75449;
  75443; 75437; 75431; 75425; 75419; 75413; 75406; 75400; 75394; 75388; 75382; 75376; 75370; 75363; 75357; 75351; 75345; 75339;
  75333; 75327; 75321; 75314; 75308; 75302; 75296; 75290; 75284; 75278; 75272; 75265; 75259; 75253; 75247; 75241; 75235; 75229;
  75223; 75217; 75210; 75204; 75198; 75192; 75186; 75180; 75174; 75168; 75162; 75156; 75150; 75143; 75137; 75131; 75125; 75119;
  75113; 75107; 75101; 75095; 75089; 75083; 75077; 75070; 75064; 75058; 75052; 75046; 75040; 75034; 75028; 75022; 75016; 75010;
  75004; 74998; 74992; 74986; 74980; 74974; 74967; 74961; 74955; 74949; 74943; 74937; 74931; 74925; 74919; 74913; 74907; 74901;
  74895; 74889; 74883; 74877; 74871; 74865; 74859; 74853; 74847; 74841; 74835; 74829; 74823; 74817; 74811; 74805; 74799; 74793;
  74787; 74781; 74775; 74769; 74763; 74757; 74751; 74745; 74739; 74733; 74727; 74721; 74715; 74709; 74703; 74697; 74691; 74685;
  74679; 74673; 74667; 74661; 74655; 74649; 74643; 74637; 74631; 74625; 74619; 74613; 74607; 74601; 74595; 74589; 74583; 74577;
  74571; 74565; 74559; 74553; 74547; 74541; 74535; 74529; 74523; 74517; 74511; 74505; 74499; 74494; 74488; 74482; 74476; 74470;
  74464; 74458; 74452; 74446; 74440; 74434; 74428; 74422; 74416; 74410; 74404; 74399; 74393; 74387; 74381; 74375; 74369; 74363;
  74357; 74351; 74345; 74339; 74333; 74327; 74322; 74316; 74310; 74304; 74298; 74292; 74286; 74280; 74274; 74268; 74262; 74257;
  74251; 74245; 74239; 74233; 74227; 74221; 74215; 74209; 74203; 74198; 74192; 74186; 74180; 74174; 74168; 74162; 74156; 74151;
  74145; 74139; 74133; 74127; 74121; 74115; 74109; 74104; 74098; 74092; 74086; 74080; 74074; 74068; 74063; 74057; 74051; 74045;
  74039; 74033; 74027; 74022; 74016; 74010; 74004; 73998; 73992; 73986; 73981; 73975; 73969; 73963; 73957; 73951; 73946; 73940;
  73934; 73928; 73922; 73916; 73911; 73905; 73899; 73893; 73887; 73881; 73876; 73870; 73864; 73858; 73852; 73847; 73841; 73835;
  73829; 73823; 73817; 73812; 73806; 73800; 73794; 73788; 73783; 73777; 73771; 73765; 73759; 73754; 73748; 73742; 73736; 73730;
  73725; 73719; 73713; 73707; 73701; 73696; 73690; 73684; 73678; 73673; 73667; 73661; 73655; 73649; 73644; 73638; 73632; 73626;
  73621; 73615; 73609; 73603; 73598; 73592; 73586; 73580; 73574; 73569; 73563; 73557; 73551; 73546; 73540; 73534; 73528; 73523;
  73517; 73511; 73505; 73500; 73494; 73488; 73482; 73477; 73471; 73465; 73460; 73454; 73448; 73442; 73437; 73431; 73425; 73419;
  73414; 73408; 73402; 73396; 73391; 73385; 73379; 73374; 73368; 73362; 73356; 73351; 73345; 73339; 73334; 73328; 73322; 73316;
  73311; 73305; 73299; 73294; 73288; 73282; 73277; 73271; 73265; 73259; 73254; 73248; 73242; 73237; 73231; 73225; 73220; 73214;
  73208; 73202; 73197; 73191; 73185; 73180; 73174; 73168; 73163; 73157; 73151; 73146; 73140; 73134; 73129; 73123; 73117; 73112;
  73106; 73100; 73095; 73089; 73083; 73078; 73072; 73066; 73061; 73055; 73049; 73044; 73038; 73032; 73027; 73021; 73015; 73010;
  73004; 72999; 72993; 72987; 72982; 72976; 72970; 72965; 72959; 72953; 72948; 72942; 72937; 72931; 72925; 72920; 72914; 72908;
  72903; 72897; 72891; 72886; 72880; 72875; 72869; 72863; 72858; 72852; 72847; 72841; 72835; 72830; 72824; 72818; 72813; 72807;
  72802; 72796; 72790; 72785; 72779; 72774; 72768; 72762; 72757; 72751; 72746; 72740; 72734; 72729; 72723; 72718; 72712; 72707;
  72701; 72695; 72690; 72684; 72679; 72673; 72667; 72662; 72656; 72651; 72645; 72640; 72634; 72628; 72623; 72617; 72612; 72606;
  72601; 72595; 72589; 72584; 72578; 72573; 72567; 72562; 72556; 72550; 72545; 72539; 72534; 72528; 72523; 72517; 72512; 72506;
  72501; 72495; 72489; 72484; 72478; 72473; 72467; 72462; 72456; 72451; 72445; 72440; 72434; 72429; 72423; 72417; 72412; 72406;
  72401; 72395; 72390; 72384; 72379; 72373; 72368; 72362; 72357; 72351; 72346; 72340; 72335; 72329; 72324; 72318; 72313; 72307;
  72302; 72296; 72291; 72285; 72280; 72274; 72269; 72263; 72257; 72252; 72247; 72241; 72236; 72230; 72225; 72219; 72214; 72208;
  72203; 72197; 72192; 72186; 72181; 72175; 72170; 72164; 72159; 72153; 72148; 72142; 72137; 72131; 72126; 72120; 72115; 72109;
  72104; 72098; 72093; 72088; 72082; 72077; 72071; 72066; 72060; 72055; 72049; 72044; 72038; 72033; 72027; 72022; 72017; 72011;
  72006; 72000; 71995; 71989; 71984; 71978; 71973; 71967; 71962; 71957; 71951; 71946; 71940; 71935; 71929; 71924; 71919; 71913;
  71908; 71902; 71897; 71891; 71886; 71881; 71875; 71870; 71864; 71859; 71853; 71848; 71843; 71837; 71832; 71826; 71821; 71815;
  71810; 71805; 71799; 71794; 71788; 71783; 71778; 71772; 71767; 71761; 71756; 71751; 71745; 71740; 71734; 71729; 71724; 71718;
  71713; 71707; 71702; 71697; 71691; 71686; 71680; 71675; 71670; 71664; 71659; 71653; 71648; 71643; 71637; 71632; 71627; 71621;
  71616; 71610; 71605; 71600; 71594; 71589; 71584; 71578; 71573; 71567; 71562; 71557; 71551; 71546; 71541; 71535; 71530; 71525;
  71519; 71514; 71508; 71503; 71498; 71492; 71487; 71482; 71476; 71471; 71466; 71460; 71455; 71450; 71444; 71439; 71434; 71428;
  71423; 71418; 71412; 71407; 71402; 71396; 71391; 71386; 71380; 71375; 71370; 71364; 71359; 71354; 71348; 71343; 71338; 71332;
  71327; 71322; 71316; 71311; 71306; 71300; 71295; 71290; 71284; 71279; 71274; 71268; 71263; 71258; 71252; 71247; 71242; 71237;
  71231; 71226; 71221; 71215; 71210; 71205; 71199; 71194; 71189; 71184; 71178; 71173; 71168; 71162; 71157; 71152; 71146; 71141].
Definition log_lut_6 : list Z := [
  71136; 71131; 71125; 71120; 71115; 71109; 71104; 71099; 71094; 71088; 71083; 71078; 71073; 71067; 71062; 71057; 71051; 71046;
  71041; 71036; 71030; 71025; 71020; 71015; 71009; 71004; 70999; 70994; 70988; 70983; 70978; 70972; 70967; 70962; 70957; 70951;
  70946; 70941; 70936; 70930; 70925; 70920; 70915; 70909; 70904; 70899; 70894; 70888; 70883; 70878; 70873; 70868; 70862; 70857;
  70852; 70847; 70841; 70836; 70831; 70826; 70820; 70815; 70810; 70805; 70800; 70794; 70789; 70784; 70779; 70773; 70768; 70763;
  70758; 70753; 70747; 70742; 70737; 70732; 70726; 70721; 70716; 70711; 70706; 70700; 70695; 70690; 70685; 70680; 70674; 70669;
  70664; 70659; 70654; 70648; 70643; 70638; 70633; 70628; 70622; 70617; 70612; 70607; 70602; 70596; 70591; 70586; 70581; 70576;
  70571; 70565; 70560; 70555; 70550; 70545; 70539; 70534; 70529; 70524; 70519; 70514; 70508; 70503; 70498; 70493; 70488; 70483;
  70477; 70472; 70467; 70462; 70457; 70452; 70446; 70441; 70436; 70431; 70426; 70421; 70415; 70410; 70405; 70400; 70395; 70390;
  70385; 70379; 70374; 70369; 70364; 70359; 70354; 70349; 70343; 70338; 70333; 70328; 70323; 70318; 70313; 70307; 70302; 70297;
  70292; 70287; 70282; 70277; 70271; 70266; 70261; 70256; 70251; 70246; 70241; 70236; 70230; 70225; 70220; 70215; 70210; 70205;
  70200; 70195; 70190; 70184; 70179; 70174; 70169; 70164; 70159; 70154; 70149; 70144; 70138; 70133; 70128; 70123; 70118; 70113;
  70108; 70103; 70098; 70093; 70087; 70082; 70077; 70072; 70067; 70062; 70057; 70052; 70047; 70042; 70037; 70031; 70026; 70021;
  70016; 70011; 70006; 70001; 69996; 69991; 69986; 69981; 69976; 69970; 69965; 69960; 69955; 69950; 69945; 69940; 69935; 69930;
  69925; 69920; 69915; 69910; 69905; 69899; 69894; 69889; 69884; 69879; 69874; 69869; 69864; 69859; 69854; 69849; 69844; 69839;
  69834; 69829; 69824; 69819; 69814; 69809; 69803; 69798; 69793; 69788; 69783; 69778; 69773; 69768; 69763; 69758; 69753; 69748;
  69743; 69738; 69733; 69728; 69723; 69718; 69713; 69708; 69703; 69698; 69693; 69688; 69683; 69678; 69673; 69668; 69663; 69658;
  69652; 69647; 69642; 69637; 69632; 69627; 69622; 69617; 69612; 69607; 69602; 69597; 69592; 69587; 69582; 69577; 69572; 69567;
  69562; 69557; 69552; 69547; 69542; 69537; 69532; 69527; 69522; 69517; 69512; 69507; 69502; 69497; 69492; 69487; 69482; 69477;
  69472; 69467; 69462; 69457; 69452; 69447; 69442; 69437; 69433; 69428; 69423; 69418; 69413; 69408; 69403; 69398; 69393; 69388;
  69383; 69378; 69373; 69368; 69363; 69358; 69353; 69348; 69343; 69338; 69333; 69328; 69323; 69318; 69313; 69308; 69303; 69298;
  69293; 69288; 69283; 69279; 69274; 69269; 69264; 69259; 69254; 69249; 69244; 69239; 69234; 69229; 69224; 69219; 69214; 69209;
  69204; 69199; 69194; 69190; 69185; 69180; 69175; 69170; 69165; 69160; 69155; 69150; 69145; 69140; 69135; 69130; 69125; 69120;
  69116; 69111; 69106; 69101; 69096; 69091; 69086; 69081; 69076; 69071; 69066; 69061; 69057; 69052; 69047; 69042; 69037; 69032;
  69027; 69022; 69017; 69012; 69007; 69002; 68998; 68993; 68988; 68983; 68978; 68973; 68968; 68963; 68958; 68953; 68949; 68944;
  68939; 68934; 68929; 68924; 68919; 68914; 68909; 68905; 68900; 68895; 68890; 68885; 68880; 68875; 68870; 68865; 68861; 68856;
  68851; 68846; 68841; 68836; 68831; 68826; 68822; 68817; 68812; 68807; 68802; 68797; 68792; 68787; 68783; 68778; 68773; 68768;
  68763; 68758; 68753; 68749; 68744; 68739; 68734; 68729; 68724; 68719; 68715; 68710; 68705; 68700; 68695; 68690; 68685; 68681;
  68676; 68671; 68666; 68661; 68656; 68651; 68647; 68642; 68637; 68632; 68627; 68622; 68618; 68613; 68608; 68603; 68598; 68593;
  68589; 68584; 68579; 68574; 68569; 68564; 68560; 68555; 68550; 68545; 68540; 68535; 68531; 68526; 68521; 68516; 68511; 68506;
  68502; 68497; 68492; 68487; 68482; 68478; 68473; 68468; 68463; 68458; 68454; 68449; 68444; 68439; 68434; 68429; 68425; 68420;
  68415; 68410; 68405; 68401; 68396; 68391; 68386; 68381; 68377; 68372; 68367; 68362; 68357; 68353; 68348; 68343; 68338; 68333;
  68329; 68324; 68319; 68314; 68310; 68305; 68300; 68295; 68290; 68286; 68281; 68276; 68271; 68266; 68262; 68257; 68252; 68247;
  68243; 68238; 68233; 68228; 68223; 68219; 68214; 68209; 68204; 68200; 68195; 68190; 68185; 68181; 68176; 68171; 68166; 68161;
  68157; 68152; 68147; 68142; 68138; 68133; 68128; 68123; 68119; 68114; 68109; 68104; 68100; 68095; 68090; 68085; 68081; 68076;
  68071; 68066; 68062; 68057; 68052; 68047; 68043; 68038; 68033; 68028; 68024; 68019; 68014; 68009; 68005; 68000; 67995; 67991;
  67986; 67981; 67976; 67972; 67967; 67962; 67957; 67953; 67948; 67943; 67939; 67934; 67929; 67924; 67920; 67915; 67910; 67905;
  67901; 67896; 67891; 67887; 67882; 67877; 67872; 67868; 67863; 67858; 67854; 67849; 67844; 67839; 67835; 67830; 67825; 67821;
  67816; 67811; 67807; 67802; 67797; 67792; 67788; 67783; 67778; 67774; 67769; 67764; 67760; 67755; 67750; 67745; 67741; 67736;
  67731; 67727; 67722; 67717; 67713; 67708; 67703; 67699; 67694; 67689; 67684; 67680; 67675; 67670; 67666; 67661; 67656; 67652;
  67647; 67642; 67638; 67633; 67628; 67624; 67619; 67614; 67610; 67605; 67600; 67596; 67591; 67586; 67582; 67577; 67572; 67568;
  67563; 67558; 67554; 67549; 67544; 67540; 67535; 67530; 67526; 67521; 67516; 67512; 67507; 67502; 67498; 67493; 67488; 67484;
  67479; 67474; 67470; 67465; 67461; 67456; 67451; 67447; 67442; 67437; 67433; 67428; 67423; 67419; 67414; 67409; 67405; 67400;
  67396; 67391; 67386; 67382; 67377; 67372; 67368; 67363; 67358; 67354; 67349; 67345; 67340; 67335; 67331; 67326; 67321; 67317;
  67312; 67308; 67303; 67298; 67294; 67289; 67285; 67280; 67275; 67271; 67266; 67261; 67257; 67252; 67248; 67243; 67238; 67234;
  67229; 67225; 67220; 67215; 67211; 67206; 67202; 67197; 67192; 67188; 67183; 67178; 67174; 67169; 67165; 67160; 67155; 67151;
  67146; 67142; 67137; 67133; 67128; 67123; 67119; 67114; 67110; 67105; 67100; 67096; 67091; 67087; 67082; 67077; 67073; 67068;
  67064; 67059; 67055; 67050; 67045; 67041; 67036; 67032; 67027; 67022; 67018; 67013; 67009; 67004; 67000; 66995; 66990; 66986;
  66981; 66977; 66972; 66968; 66963; 66958; 66954; 66949; 66945; 66940; 66936; 66931; 66927; 66922; 66917; 66913; 66908; 66904;
  66899; 66895; 66890; 66886; 66881; 66876; 66872; 66867; 66863; 66858; 66854; 66849; 66845; 66840; 66835; 66831; 66826; 66822;
  66817; 66813; 66808; 66804; 66799; 66795; 66790; 66786; 66781; 66776; 66772; 66767; 66763; 66758; 66754; 66749; 66745; 66740].
Definition log_lut_7 : list Z := [
  66736; 66731; 66727; 66722; 66718; 66713; 66708; 66704; 66699; 66695; 66690; 66686; 66681; 66677; 66672; 66668; 66663; 66659;
  66654; 66650; 66645; 66641; 66636; 66632; 66627; 66623; 66618; 66614; 66609; 66605; 66600; 66596; 66591; 66587; 66582; 66578;
  66573; 66569; 66564; 66560; 66555; 66551; 66546; 66542; 66537; 66533; 66528; 66524; 66519; 66515; 66510; 66506; 66501; 66497;
  66492; 66488; 66483; 66479; 66474; 66470; 66465; 66461; 66456; 66452; 66447; 66443; 66438; 66434; 66429; 66425; 66420; 66416;
  66411; 66407; 66402; 66398; 66393; 66389; 66384; 66380; 66376; 66371; 66367; 66362; 66358; 66353; 66349; 66344; 66340; 66335;
  66331; 66326; 66322; 66317; 66313; 66309; 66304; 66300; 66295; 66291; 66286; 66282; 66277; 66273; 66268; 66264; 66259; 66255;
  66251; 66246; 66242; 66237; 66233; 66228; 66224; 66219; 66215; 66211; 66206; 66202; 66197; 66193; 66188; 66184; 66179; 66175;
  66171; 66166; 66162; 66157; 66153; 66148; 66144; 66139; 66135; 66131; 66126; 66122; 66117; 66113; 66108; 66104; 66100; 66095;
  66091; 66086; 66082; 66077; 66073; 66069; 66064; 66060; 66055; 66051; 66046; 66042; 66038; 66033; 66029; 66024; 66020; 66016;
  66011; 66007; 66002; 65998; 65993; 65989; 65985; 65980; 65976; 65971; 65967; 65963; 65958; 65954; 65949; 65945; 65941; 65936;
  65932; 65927; 65923; 65919; 65914; 65910; 65905; 65901; 65897; 65892; 65888; 65883; 65879; 65875; 65870; 65866; 65861; 65857;
  65853; 65848; 65844; 65839; 65835; 65831; 65826; 65822; 65817; 65813; 65809; 65804; 65800; 65796; 65791; 65787; 65782; 65778;
  65774; 65769; 65765; 65760; 65756; 65752; 65747; 65743; 65739; 65734; 65730; 65725; 65721; 65717; 65712; 65708; 65704; 65699;
  65695; 65691; 65686; 65682; 65677; 65673; 65669; 65664; 65660; 65656; 65651; 65647; 65643; 65638; 65634; 65629; 65625; 65621;
  65616; 65612; 65608; 65603; 65599; 65595; 65590; 65586; 65582; 65577; 65573; 65569; 65564; 65560; 65555; 65551; 65547; 65542;
  65538; 65534; 65529; 65525; 65521; 65516; 65512; 65508; 65503; 65499; 65495; 65490; 65486; 65482; 65477; 65473; 65469; 65464;
  65460; 65456; 65451; 65447; 65443; 65438; 65434; 65430; 65425; 65421; 65417; 65412; 65408; 65404; 65399; 65395; 65391; 65386;
  65382; 65378; 65374; 65369; 65365; 65361; 65356; 65352; 65348; 65343; 65339; 65335; 65330; 65326; 65322; 65317; 65313; 65309;
  65305; 65300; 65296; 65292; 65287; 65283; 65279; 65274; 65270; 65266; 65261; 65257; 65253; 65249; 65244; 65240; 65236; 65231;
  65227; 65223; 65218; 65214; 65210; 65206; 65201; 65197; 65193; 65188; 65184; 65180; 65176; 65171; 65167; 65163; 65158; 65154;
  65150; 65146; 65141; 65137; 65133; 65128; 65124; 65120; 65116; 65111; 65107; 65103; 65098; 65094; 65090; 65086; 65081; 65077;
  65073; 65069; 65064; 65060; 65056; 65051; 65047; 65043; 65039; 65034; 65030; 65026; 65022; 65017; 65013; 65009; 65005; 65000;
  64996; 64992; 64988; 64983; 64979; 64975; 64970; 64966; 64962; 64958; 64953; 64949; 64945; 64941; 64936; 64932; 64928; 64924;
  64919; 64915; 64911; 64907; 64902; 64898; 64894; 64890; 64885; 64881; 64877; 64873; 64868; 64864; 64860; 64856; 64852; 64847;
  64843; 64839; 64835; 64830; 64826; 64822; 64818; 64813; 64809; 64805; 64801; 64796; 64792; 64788; 64784; 64780; 64775; 64771;
  64767; 64763; 64758; 64754; 64750; 64746; 64741; 64737; 64733; 64729; 64725; 64720; 64716; 64712; 64708; 64704; 64699; 64695;
  64691; 64687; 64682; 64678; 64674; 64670; 64666; 64661; 64657; 64653; 64649; 64645; 64640; 64636; 64632; 64628; 64623; 64619;
  64615; 64611; 64607; 64602; 64598; 64594; 64590; 64586; 64581; 64577; 64573; 64569; 64565; 64560; 64556; 64552; 64548; 64544;
  64539; 64535; 64531; 64527; 64523; 64519; 64514; 64510; 64506; 64502; 64498; 64493; 64489; 64485; 64481; 64477; 64472; 64468;
  64464; 64460; 64456; 64452; 64447; 64443; 64439; 64435; 64431; 64426; 64422; 64418; 64414; 64410; 64406; 64401; 64397; 64393;
  64389; 64385; 64381; 64376; 64372; 64368; 64364; 64360; 64356; 64351; 64347; 64343; 64339; 64335; 64331; 64326; 64322; 64318;
  64314; 64310; 64306; 64301; 64297; 64293; 64289; 64285; 64281; 64277; 64272; 64268; 64264; 64260; 64256; 64252; 64247; 64243;
  64239; 64235; 64231; 64227; 64223; 64218; 64214; 64210; 64206; 64202; 64198; 64194; 64189; 64185; 64181; 64177; 64173; 64169;
  64165; 64160; 64156; 64152; 64148; 64144; 64140; 64136; 64131; 64127; 64123; 64119; 64115; 64111; 64107; 64103; 64098; 64094;
  64090; 64086; 64082; 64078; 64074; 64070; 64065; 64061; 64057; 64053; 64049; 64045; 64041; 64037; 64032; 64028; 64024; 64020;
  64016; 64012; 64008; 64004; 63999; 63995; 63991; 63987; 63983; 63979; 63975; 63971; 63967; 63962; 63958; 63954; 63950; 63946;
  63942; 63938; 63934; 63930; 63926; 63921; 63917; 63913; 63909; 63905; 63901; 63897; 63893; 63889; 63884; 63880; 63876; 63872;
  63868; 63864; 63860; 63856; 63852; 63848; 63844; 63839; 63835; 63831; 63827; 63823; 63819; 63815; 63811; 63807; 63803; 63799;
  63794; 63790; 63786; 63782; 63778; 63774; 63770; 63766; 63762; 63758; 63754; 63750; 63745; 63741; 63737; 63733; 63729; 63725;
  63721; 63717; 63713; 63709; 63705; 63701; 63697; 63693; 63688; 63684; 63680; 63676; 63672; 63668; 63664; 63660; 63656; 63652;
  63648; 63644; 63640; 63636; 63632; 63627; 63623; 63619; 63615; 63611; 63607; 63603; 63599; 63595; 63591; 63587; 63583; 63579;
  63575; 63571; 63567; 63563; 63559; 63554; 63550; 63546; 63542; 63538; 63534; 63530; 63526; 63522; 63518; 63514; 63510; 63506;
  63502; 63498; 63494; 63490; 63486; 63482; 63478; 63474; 63470; 63465; 63461; 63457; 63453; 63449; 63445; 63441; 63437; 63433;
  63429; 63425; 63421; 63417; 63413; 63409; 63405; 63401; 63397; 63393; 63389; 63385; 63381; 63377; 63373; 63369; 63365; 63361;
  63357; 63353; 63349; 63345; 63341; 63337; 63333; 63329; 63324; 63320; 63316; 63312; 63308; 63304; 63300; 63296; 63292; 63288;
  63284; 63280; 63276; 63272; 63268; 63264; 63260; 63256; 63252; 63248; 63244; 63240; 63236; 63232; 63228; 63224; 63220; 63216;
  63212; 63208; 63204; 63200; 63196; 63192; 63188; 63184; 63180; 63176; 63172; 63168; 63164; 63160; 63156; 63152; 63148; 63144;
  63140; 63136; 63132; 63128; 63124; 63120; 63116; 63112; 63108; 63104; 63100; 63096; 63092; 63088; 63084; 63080; 63076; 63072;
  63068; 63064; 63061; 63057; 63053; 63049; 63045; 63041; 63037; 63033; 63029; 63025; 63021; 63017; 63013; 63009; 63005; 63001;
  62997; 62993; 62989; 62985; 62981; 62977; 62973; 62969; 62965; 62961; 62957; 62953; 62949; 62945; 62941; 62937; 62933; 62929].
Definition log_lut_8 : list Z := [
  62925; 62922; 62918; 62914; 62910; 62906; 62902; 62898; 62894; 62890; 62886; 62882; 62878; 62874; 62870; 62866; 62862; 62858;
  62854; 62850; 62846; 62842; 62838; 62834; 62831; 62827; 62823; 62819; 62815; 62811; 62807; 62803; 62799; 62795; 62791; 62787;
  62783; 62779; 62775; 62771; 62767; 62763; 62760; 62756; 62752; 62748; 62744; 62740; 62736; 62732; 62728; 62724; 62720; 62716;
  62712; 62708; 62704; 62701; 62697; 62693; 62689; 62685; 62681; 62677; 62673; 62669; 62665; 62661; 62657; 62653; 62649; 62646;
  62642; 62638; 62634; 62630; 62626; 62622; 62618; 62614; 62610; 62606; 62602; 62598; 62595; 62591; 62587; 62583; 62579; 62575;
  62571; 62567; 62563; 62559; 62555; 62552; 62548; 62544; 62540; 62536; 62532; 62528; 62524; 62520; 62516; 62512; 62509; 62505;
  62501; 62497; 62493; 62489; 62485; 62481; 62477; 62473; 62470; 62466; 62462; 62458; 62454; 62450; 62446; 62442; 62438; 62434;
  62431; 62427; 62423; 62419; 62415; 62411; 62407; 62403; 62399; 62396; 62392; 62388; 62384; 62380; 62376; 62372; 62368; 62364;
  62361; 62357; 62353; 62349; 62345; 62341; 62337; 62333; 62329; 62326; 62322; 62318; 62314; 62310; 62306; 62302; 62298; 62295;
  62291; 62287; 62283; 62279; 62275; 62271; 62267; 62264; 62260; 62256; 62252; 62248; 62244; 62240; 62236; 62233; 62229; 62225;
  62221; 62217; 62213; 62209; 62206; 62202; 62198; 62194; 62190; 62186; 62182; 62179; 62175; 62171; 62167; 62163; 62159; 62155;
  62152; 62148; 62144; 62140; 62136; 62132; 62128; 62125; 62121; 62117; 62113; 62109; 62105; 62101; 62098; 62094; 62090; 62086;
  62082; 62078; 62075; 62071; 62067; 62063; 62059; 62055; 62051; 62048; 62044; 62040; 62036; 62032; 62028; 62025; 62021; 62017;
  62013; 62009; 62005; 62002; 61998; 61994; 61990; 61986; 61982; 61979; 61975; 61971; 61967; 61963; 61959; 61956; 61952; 61948;
  61944; 61940; 61936; 61933; 61929; 61925; 61921; 61917; 61913; 61910; 61906; 61902; 61898; 61894; 61891; 61887; 61883; 61879;
  61875; 61871; 61868; 61864; 61860; 61856; 61852; 61849; 61845; 61841; 61837; 61833; 61829; 61826; 61822; 61818; 61814; 61810;
  61807; 61803; 61799; 61795; 61791; 61788; 61784; 61780; 61776; 61772; 61769; 61765; 61761; 61757; 61753; 61749; 61746; 61742;
  61738; 61734; 61730; 61727; 61723; 61719; 61715; 61711; 61708; 61704; 61700; 61696; 61693; 61689; 61685; 61681; 61677; 61674;
  61670; 61666; 61662; 61658; 61655; 61651; 61647; 61643; 61639; 61636; 61632; 61628; 61624; 61621; 61617; 61613; 61609; 61605;
  61602; 61598; 61594; 61590; 61586; 61583; 61579; 61575; 61571; 61568; 61564; 61560; 61556; 61552; 61549; 61545; 61541; 61537;
  61534; 61530; 61526; 61522; 61519; 61515; 61511; 61507; 61503; 61500; 61496; 61492; 61488; 61485; 61481; 61477; 61473; 61470;
  61466; 61462; 61458; 61454; 61451; 61447; 61443; 61439; 61436; 61432; 61428; 61424; 61421; 61417; 61413; 61409; 61406; 61402;
  61398; 61394; 61391; 61387; 61383; 61379; 61376; 61372; 61368; 61364; 61361; 61357; 61353; 61349; 61346; 61342; 61338; 61334;
  61331; 61327; 61323; 61319; 61316; 61312; 61308; 61304; 61301; 61297; 61293; 61289; 61286; 61282; 61278; 61274; 61271; 61267;
  61263; 61259; 61256; 61252; 61248; 61245; 61241; 61237; 61233; 61230; 61226; 61222; 61218; 61215; 61211; 61207; 61203; 61200;
  61196; 61192; 61189; 61185; 61181; 61177; 61174; 61170; 61166; 61162; 61159; 61155; 61151; 61148; 61144; 61140; 61136; 61133;
  61129; 61125; 61122; 61118; 61114; 61110; 61107; 61103; 61099; 61096; 61092; 61088; 61084; 61081; 61077; 61073; 61070; 61066;
  61062; 61058; 61055; 61051; 61047; 61044; 61040; 61036; 61032; 61029; 61025; 61021; 61018; 61014; 61010; 61006; 61003; 60999;
  60995; 60992; 60988; 60984; 60981; 60977; 60973; 60969; 60966; 60962; 60958; 60955; 60951; 60947; 60944; 60940; 60936; 60932;
  60929; 60925; 60921; 60918; 60914; 60910; 60907; 60903; 60899; 60896; 60892; 60888; 60885; 60881; 60877; 60873; 60870; 60866;
  60862; 60859; 60855; 60851; 60848; 60844; 60840; 60837; 60833; 60829; 60826; 60822; 60818; 60815; 60811; 60807; 60803; 60800;
  60796; 60792; 60789; 60785; 60781; 60778; 60774; 60770; 60767; 60763; 60759; 60756; 60752; 60748; 60745; 60741; 60737; 60734;
  60730; 60726; 60723; 60719; 60715; 60712; 60708; 60704; 60701; 60697; 60693; 60690; 60686; 60682; 60679; 60675; 60671; 60668;
  60664; 60660; 60657; 60653; 60649; 60646; 60642; 60638; 60635; 60631; 60627; 60624; 60620; 60617; 60613; 60609; 60606; 60602;
  60598; 60595; 60591; 60587; 60584; 60580; 60576; 60573; 60569; 60565; 60562; 60558; 60554; 60551; 60547; 60544; 60540; 60536;
  60533; 60529; 60525; 60522; 60518; 60514; 60511; 60507; 60503; 60500; 60496; 60493; 60489; 60485; 60482; 60478; 60474; 60471;
  60467; 60463; 60460; 60456; 60453; 60449; 60445; 60442; 60438; 60434; 60431; 60427; 60424; 60420; 60416; 60413; 60409; 60405;
  60402; 60398; 60395; 60391; 60387; 60384; 60380; 60376; 60373; 60369; 60366; 60362; 60358; 60355; 60351; 60347; 60344; 60340;
  60337; 60333; 60329; 60326; 60322; 60318; 60315; 60311; 60308; 60304; 60300; 60297; 60293; 60290; 60286; 60282; 60279; 60275;
  60272; 60268; 60264; 60261; 60257; 60253; 60250; 60246; 60243; 60239; 60235; 60232; 60228; 60225; 60221; 60217; 60214; 60210;
  60207; 60203; 60199; 60196; 60192; 60189; 60185; 60181; 60178; 60174; 60171; 60167; 60163; 60160; 60156; 60153; 60149; 60145;
  60142; 60138; 60135; 60131; 60128; 60124; 60120; 60117; 60113; 60110; 60106; 60102; 60099; 60095; 60092; 60088; 60084; 60081;
  60077; 60074; 60070; 60067; 60063; 60059; 60056; 60052; 60049; 60045; 60041; 60038; 60034; 60031; 60027; 60024; 60020; 60016;
  60013; 60009; 60006; 60002; 59999; 59995; 59991; 59988; 59984; 59981; 59977; 59973; 59970; 59966; 59963; 59959; 59956; 59952;
  59949; 59945; 59941; 59938; 59934; 59931; 59927; 59924; 59920; 59916; 59913; 59909; 59906; 59902; 59899; 59895; 59891; 59888;
  59884; 59881; 59877; 59874; 59870; 59867; 59863; 59859; 59856; 59852; 59849; 59845; 59842; 59838; 59835; 59831; 59827; 59824;
  59820; 59817; 59813; 59810; 59806; 59803; 59799; 59795; 59792; 59788; 59785; 59781; 59778; 59774; 59771; 59767; 59764; 59760;
  59756; 59753; 59749; 59746; 59742; 59739; 59735; 59732; 59728; 59725; 59721; 59717; 59714; 59710; 59707; 59703; 59700; 59696;
  59693; 59689; 59686; 59682; 59679; 59675; 59671; 59668; 59664; 59661; 59657; 59654; 59650; 59647; 59643; 59640; 59636; 59633;
  59629; 59626; 59622; 59619; 59615; 59611; 59608; 59604; 59601; 59597; 59594; 59590; 59587; 59583; 59580; 59576; 59573; 59569].
Definition log_lut_9 : list Z := [
  59566; 59562; 59559; 59555; 59552; 59548; 59545; 59541; 59537; 59534; 59530; 59527; 59523; 59520; 59516; 59513; 59509; 59506;
  59502; 59499; 59495; 59492; 59488; 59485; 59481; 59478; 59474; 59471; 59467; 59464; 59460; 59457; 59453; 59450; 59446; 59443;
  59439; 59436; 59432; 59429; 59425; 59422; 59418; 59415; 59411; 59408; 59404; 59401; 59397; 59394; 59390; 59387; 59383; 59380;
  59376; 59373; 59369; 59366; 59362; 59359; 59355; 59352; 59348; 59345; 59341; 59338; 59334; 59331; 59327; 59324; 59320; 59317;
  59313; 59310; 59306; 59303; 59299; 59296; 59292; 59289; 59285; 59282; 59278; 59275; 59271; 59268; 59264; 59261; 59257; 59254;
  59250; 59247; 59244; 59240; 59237; 59233; 59230; 59226; 59223; 59219; 59216; 59212; 59209; 59205; 59202; 59198; 59195; 59191;
  59188; 59184; 59181; 59177; 59174; 59171; 59167; 59164; 59160; 59157; 59153; 59150; 59146; 59143; 59139; 59136; 59132; 59129;
  59125; 59122; 59118; 59115; 59112; 59108; 59105; 59101; 59098; 59094; 59091; 59087; 59084; 59080; 59077; 59073; 59070; 59067;
  59063; 59060; 59056; 59053; 59049; 59046; 59042; 59039; 59035; 59032; 59028; 59025; 59022; 59018; 59015; 59011; 59008; 59004;
  59001; 58997; 58994; 58991; 58987; 58984; 58980; 58977; 58973; 58970; 58966; 58963; 58959; 58956; 58953; 58949; 58946; 58942;
  58939; 58935; 58932; 58928; 58925; 58922; 58918; 58915; 58911; 58908; 58904; 58901; 58897; 58894; 58891; 58887; 58884; 58880;
  58877; 58873; 58870; 58867; 58863; 58860; 58856; 58853; 58849; 58846; 58843; 58839; 58836; 58832; 58829; 58825; 58822; 58818;
  58815; 58812; 58808; 58805; 58801; 58798; 58794; 58791; 58788; 58784; 58781; 58777; 58774; 58771; 58767; 58764; 58760; 58757;
  58753; 58750; 58747; 58743; 58740; 58736; 58733; 58729; 58726; 58723; 58719; 58716; 58712; 58709; 58706; 58702; 58699; 58695;
  58692; 58688; 58685; 58682; 58678; 58675; 58671; 58668; 58665; 58661; 58658; 58654; 58651; 58648; 58644; 58641; 58637; 58634;
  58630; 58627; 58624; 58620; 58617; 58613; 58610; 58607; 58603; 58600; 58596; 58593; 58590; 58586; 58583; 58579; 58576; 58573;
  58569; 58566; 58562; 58559; 58556; 58552; 58549; 58545; 58542; 58539; 58535; 58532; 58528; 58525; 58522; 58518; 58515; 58511;
  58508; 58505; 58501; 58498; 58494; 58491; 58488; 58484; 58481; 58478; 58474; 58471; 58467; 58464; 58461; 58457; 58454; 58450;
  58447; 58444; 58440; 58437; 58434; 58430; 58427; 58423; 58420; 58417; 58413; 58410; 58406; 58403; 58400; 58396; 58393; 58390;
  58386; 58383; 58379; 58376; 58373; 58369; 58366; 58363; 58359; 58356; 58352; 58349; 58346; 58342; 58339; 58336; 58332; 58329;
  58325; 58322; 58319; 58315; 58312; 58309; 58305; 58302; 58298; 58295; 58292; 58288; 58285; 58282; 58278; 58275; 58272; 58268;
  58265; 58261; 58258; 58255; 58251; 58248; 58245; 58241; 58238; 58235; 58231; 58228; 58224; 58221; 58218; 58214; 58211; 58208;
  58204; 58201; 58198; 58194; 58191; 58188; 58184; 58181; 58177; 58174; 58171; 58167; 58164; 58161; 58157; 58154; 58151; 58147;
  58144; 58141; 58137; 58134; 58131; 58127; 58124; 58121; 58117; 58114; 58111; 58107; 58104; 58100; 58097; 58094; 58090; 58087;
  58084; 58080; 58077; 58074; 58070; 58067; 58064; 58060; 58057; 58054; 58050; 58047; 58044; 58040; 58037; 58034; 58030; 58027;
  58024; 58020; 58017; 58014; 58010; 58007; 58004; 58000; 57997; 57994; 57990; 57987; 57984; 57980; 57977; 57974; 57970; 57967;
  57964; 57960; 57957; 57954; 57950; 57947; 57944; 57940; 57937; 57934; 57930; 57927; 57924; 57920; 57917; 57914; 57910; 57907;
  57904; 57900; 57897; 57894; 57891; 57887; 57884; 57881; 57877; 57874; 57871; 57867; 57864; 57861; 57857; 57854; 57851; 57847;
  57844; 57841; 57837; 57834; 57831; 57828; 57824; 57821; 57818; 57814; 57811; 57808; 57804; 57801; 57798; 57794; 57791; 57788;
  57784; 57781; 57778; 57775; 57771; 57768; 57765; 57761; 57758; 57755; 57751; 57748; 57745; 57742; 57738; 57735; 57732; 57728;
  57725; 57722; 57718; 57715; 57712; 57709; 57705; 57702; 57699; 57695; 57692; 57689; 57685; 57682; 57679; 57676; 57672; 57669;
  57666; 57662; 57659; 57656; 57652; 57649; 57646; 57643; 57639; 57636; 57633; 57629; 57626; 57623; 57620; 57616; 57613; 57610;
  57606; 57603; 57600; 57597; 57593; 57590; 57587; 57583; 57580; 57577; 57574; 57570; 57567; 57564; 57560; 57557; 57554; 57551;
  57547; 57544; 57541; 57538; 57534; 57531; 57528; 57524; 57521; 57518; 57515; 57511; 57508; 57505; 57501; 57498; 57495; 57492;
  57488; 57485; 57482; 57479; 57475; 57472; 57469; 57465; 57462; 57459; 57456; 57452; 57449; 57446; 57443; 57439; 57436; 57433;
  57429; 57426; 57423; 57420; 57416; 57413; 57410; 57407; 57403; 57400; 57397; 57394; 57390; 57387; 57384; 57381; 57377; 57374;
  57371; 57367; 57364; 57361; 57358; 57354; 57351; 57348; 57345; 57341; 57338; 57335; 57332; 57328; 57325; 57322; 57319; 57315;
  57312; 57309; 57306; 57302; 57299; 57296; 57293; 57289; 57286; 57283; 57280; 57276; 57273; 57270; 57267; 57263; 57260; 57257;
  57254; 57250; 57247; 57244; 57241; 57237; 57234; 57231; 57228; 57224; 57221; 57218; 57215; 57211; 57208; 57205; 57202; 57199;
  57195; 57192; 57189; 57186; 57182; 57179; 57176; 57173; 57169; 57166; 57163; 57160; 57156; 57153; 57150; 57147; 57143; 57140;
  57137; 57134; 57131; 57127; 57124; 57121; 57118; 57114; 57111; 57108; 57105; 57101; 57098; 57095; 57092; 57089; 57085; 57082;
  57079; 57076; 57072; 57069; 57066; 57063; 57060; 57056; 57053; 57050; 57047; 57043; 57040; 57037; 57034; 57031; 57027; 57024;
  57021; 57018; 57014; 57011; 57008; 57005; 57002; 56998; 56995; 56992; 56989; 56985; 56982; 56979; 56976; 56973; 56969; 56966;
  56963; 56960; 56957; 56953; 56950; 56947; 56944; 56940; 56937; 56934; 56931; 56928; 56924; 56921; 56918; 56915; 56912; 56908;
  56905; 56902; 56899; 56896; 56892; 56889; 56886; 56883; 56880; 56876; 56873; 56870; 56867; 56864; 56860; 56857; 56854; 56851;
  56847; 56844; 56841; 56838; 56835; 56832; 56828; 56825; 56822; 56819; 56816; 56812; 56809; 56806; 56803; 56800; 56796; 56793;
  56790; 56787; 56784; 56780; 56777; 56774; 56771; 56768; 56764; 56761; 56758; 56755; 56752; 56748; 56745; 56742; 56739; 56736;
  56733; 56729; 56726; 56723; 56720; 56717; 56713; 56710; 56707; 56704; 56701; 56697; 56694; 56691; 56688; 56685; 56682; 56678;
  56675; 56672; 56669; 56666; 56662; 56659; 56656; 56653; 56650; 56647; 56643; 56640; 56637; 56634; 56631; 56628; 56624; 56621;
  56618; 56615; 56612; 56608; 56605; 56602; 56599; 56596; 56593; 56589; 56586; 56583; 56580; 56577; 56574; 56570; 56567; 56564].
Definition log_lut_10 : list Z := [
  56561; 56558; 56555; 56551; 56548; 56545; 56542; 56539; 56536; 56532; 56529; 56526; 56523; 56520; 56517; 56513; 56510; 56507;
  56504; 56501; 56498; 56494; 56491; 56488; 56485; 56482; 56479; 56475; 56472; 56469; 56466; 56463; 56460; 56457; 56453; 56450;
  56447; 56444; 56441; 56438; 56434; 56431; 56428; 56425; 56422; 56419; 56416; 56412; 56409; 56406; 56403; 56400; 56397; 56393;
  56390; 56387; 56384; 56381; 56378; 56375; 56371; 56368; 56365; 56362; 56359; 56356; 56353; 56349; 56346; 56343; 56340; 56337;
  56334; 56331; 56327; 56324; 56321; 56318; 56315; 56312; 56309; 56305; 56302; 56299; 56296; 56293; 56290; 56287; 56283; 56280;
  56277; 56274; 56271; 56268; 56265; 56261; 56258; 56255; 56252; 56249; 56246; 56243; 56240; 56236; 56233; 56230; 56227; 56224;
  56221; 56218; 56214; 56211; 56208; 56205; 56202; 56199; 56196; 56193; 56189; 56186; 56183; 56180; 56177; 56174; 56171; 56168;
  56164; 56161; 56158; 56155; 56152; 56149; 56146; 56143; 56139; 56136; 56133; 56130; 56127; 56124; 56121; 56118; 56115; 56111;
  56108; 56105; 56102; 56099; 56096; 56093; 56090; 56086; 56083; 56080; 56077; 56074; 56071; 56068; 56065; 56062; 56058; 56055;
  56052; 56049; 56046; 56043; 56040; 56037; 56034; 56030; 56027; 56024; 56021; 56018; 56015; 56012; 56009; 56006; 56002; 55999;
  55996; 55993; 55990; 55987; 55984; 55981; 55978; 55974; 55971; 55968; 55965; 55962; 55959; 55956; 55953; 55950; 55947; 55943;
  55940; 55937; 55934; 55931; 55928; 55925; 55922; 55919; 55916; 55912; 55909; 55906; 55903; 55900; 55897; 55894; 55891; 55888;
  55885; 55882; 55878; 55875; 55872; 55869; 55866; 55863; 55860; 55857; 55854; 55851; 55848; 55844; 55841; 55838; 55835; 55832;
  55829; 55826; 55823; 55820; 55817; 55814; 55810; 55807; 55804; 55801; 55798; 55795; 55792; 55789; 55786; 55783; 55780; 55777;
  55773; 55770; 55767; 55764; 55761; 55758; 55755; 55752; 55749; 55746; 55743; 55740; 55736; 55733; 55730; 55727; 55724; 55721;
  55718; 55715; 55712; 55709; 55706; 55703; 55700; 55697; 55693; 55690; 55687; 55684; 55681; 55678; 55675; 55672; 55669; 55666;
  55663; 55660; 55657; 55654; 55650; 55647; 55644; 55641; 55638; 55635; 55632; 55629; 55626; 55623; 55620; 55617; 55614; 55611;
  55608; 55604; 55601; 55598; 55595; 55592; 55589; 55586; 55583; 55580; 55577; 55574; 55571; 55568; 55565; 55562; 55559; 55555;
  55552; 55549; 55546; 55543; 55540; 55537; 55534; 55531; 55528; 55525; 55522; 55519; 55516; 55513; 55510; 55507; 55504; 55500;
  55497; 55494; 55491; 55488; 55485; 55482; 55479; 55476; 55473; 55470; 55467; 55464; 55461; 55458; 55455; 55452; 55449; 55446;
  55443; 55439; 55436; 55433; 55430; 55427; 55424; 55421; 55418; 55415; 55412; 55409; 55406; 55403; 55400; 55397; 55394; 55391;
  55388; 55385; 55382; 55379; 55376; 55373; 55370; 55366; 55363; 55360; 55357; 55354; 55351; 55348; 55345; 55342; 55339; 55336;
  55333; 55330; 55327; 55324; 55321; 55318; 55315; 55312; 55309; 55306; 55303; 55300; 55297; 55294; 55291; 55288; 55285; 55282;
  55279; 55275; 55272; 55269; 55266; 55263; 55260; 55257; 55254; 55251; 55248; 55245; 55242; 55239; 55236; 55233; 55230; 55227;
  55224; 55221; 55218; 55215; 55212; 55209; 55206; 55203; 55200; 55197; 55194; 55191; 55188; 55185; 55182; 55179; 55176; 55173;
  55170; 55167; 55164; 55161; 55158; 55155; 55152; 55149; 55146; 55143; 55140; 55137; 55133; 55130; 55127; 55124; 55121; 55118;
  55115; 55112; 55109; 55106; 55103; 55100; 55097; 55094; 55091; 55088; 55085; 55082; 55079; 55076; 55073; 55070; 55067; 55064;
  55061; 55058; 55055; 55052; 55049; 55046; 55043; 55040; 55037; 55034; 55031; 55028; 55025; 55022; 55019; 55016; 55013; 55010;
  55007; 55004; 55001; 54998; 54995; 54992; 54989; 54986; 54983; 54980; 54977; 54974; 54971; 54968; 54965; 54962; 54959; 54956;
  54953; 54950; 54947; 54944; 54941; 54938; 54935; 54932; 54929; 54926; 54923; 54920; 54917; 54914; 54911; 54908; 54905; 54902;
  54899; 54896; 54893; 54890; 54887; 54884; 54881; 54878; 54876; 54873; 54870; 54867; 54864; 54861; 54858; 54855; 54852; 54849;
  54846; 54843; 54840; 54837; 54834; 54831; 54828; 54825; 54822; 54819; 54816; 54813; 54810; 54807; 54804; 54801; 54798; 54795;
  54792; 54789; 54786; 54783; 54780; 54777; 54774; 54771; 54768; 54765; 54762; 54759; 54756; 54753; 54750; 54747; 54744; 54741;
  54738; 54736; 54733; 54730; 54727; 54724; 54721; 54718; 54715; 54712; 54709; 54706; 54703; 54700; 54697; 54694; 54691; 54688;
  54685; 54682; 54679; 54676; 54673; 54670; 54667; 54664; 54661; 54658; 54655; 54652; 54649; 54646; 54644; 54641; 54638; 54635;
  54632; 54629; 54626; 54623; 54620; 54617; 54614; 54611; 54608; 54605; 54602; 54599; 54596; 54593; 54590; 54587; 54584; 54581;
  54578; 54575; 54573; 54570; 54567; 54564; 54561; 54558; 54555; 54552; 54549; 54546; 54543; 54540; 54537; 54534; 54531; 54528;
  54525; 54522; 54519; 54516; 54513; 54511; 54508; 54505; 54502; 54499; 54496; 54493; 54490; 54487; 54484; 54481; 54478; 54475;
  54472; 54469; 54466; 54463; 54460; 54458; 54455; 54452; 54449; 54446; 54443; 54440; 54437; 54434; 54431; 54428; 54425; 54422;
  54419; 54416; 54413; 54410; 54408; 54405; 54402; 54399; 54396; 54393; 54390; 54387; 54384; 54381; 54378; 54375; 54372; 54369;
  54366; 54364; 54361; 54358; 54355; 54352; 54349; 54346; 54343; 54340; 54337; 54334; 54331; 54328; 54325; 54322; 54320; 54317;
  54314; 54311; 54308; 54305; 54302; 54299; 54296; 54293; 54290; 54287; 54284; 54282; 54279; 54276; 54273; 54270; 54267; 54264;
  54261; 54258; 54255; 54252; 54249; 54246; 54244; 54241; 54238; 54235; 54232; 54229; 54226; 54223; 54220; 54217; 54214; 54211;
  54208; 54206; 54203; 54200; 54197; 54194; 54191; 54188; 54185; 54182; 54179; 54176; 54174; 54171; 54168; 54165; 54162; 54159;
  54156; 54153; 54150; 54147; 54144; 54141; 54139; 54136; 54133; 54130; 54127; 54124; 54121; 54118; 54115; 54112; 54109; 54107;
  54104; 54101; 54098; 54095; 54092; 54089; 54086; 54083; 54080; 54078; 54075; 54072; 54069; 54066; 54063; 54060; 54057; 54054;
  54051; 54049; 54046; 54043; 54040; 54037; 54034; 54031; 54028; 54025; 54022; 54020; 54017; 54014; 54011; 54008; 54005; 54002;
  53999; 53996; 53993; 53991; 53988; 53985; 53982; 53979; 53976; 53973; 53970; 53967; 53965; 53962; 53959; 53956; 53953; 53950;
  53947; 53944; 53941; 53938; 53936; 53933; 53930; 53927; 53924; 53921; 53918; 53915; 53912; 53910; 53907; 53904; 53901; 53898;
  53895; 53892; 53889; 53887; 53884; 53881; 53878; 53875; 53872; 53869; 53866; 53863; 53861; 53858; 53855; 53852; 53849; 53846].
Definition log_lut_11 : list Z := [
  53843; 53840; 53838; 53835; 53832; 53829; 53826; 53823; 53820; 53817; 53815; 53812; 53809; 53806; 53803; 53800; 53797; 53794;
  53792; 53789; 53786; 53783; 53780; 53777; 53774; 53771; 53769; 53766; 53763; 53760; 53757; 53754; 53751; 53748; 53746; 53743;
  53740; 53737; 53734; 53731; 53728; 53725; 53723; 53720; 53717; 53714; 53711; 53708; 53705; 53703; 53700; 53697; 53694; 53691;
  53688; 53685; 53682; 53680; 53677; 53674; 53671; 53668; 53665; 53662; 53660; 53657; 53654; 53651; 53648; 53645; 53642; 53640;
  53637; 53634; 53631; 53628; 53625; 53622; 53620; 53617; 53614; 53611; 53608; 53605; 53602; 53600; 53597; 53594; 53591; 53588;
  53585; 53582; 53580; 53577; 53574; 53571; 53568; 53565; 53562; 53560; 53557; 53554; 53551; 53548; 53545; 53543; 53540; 53537;
  53534; 53531; 53528; 53525; 53523; 53520; 53517; 53514; 53511; 53508; 53505; 53503; 53500; 53497; 53494; 53491; 53488; 53486;
  53483; 53480; 53477; 53474; 53471; 53469; 53466; 53463; 53460; 53457; 53454; 53451; 53449; 53446; 53443; 53440; 53437; 53434;
  53432; 53429; 53426; 53423; 53420; 53417; 53415; 53412; 53409; 53406; 53403; 53400; 53398; 53395; 53392; 53389; 53386; 53383;
  53381; 53378; 53375; 53372; 53369; 53366; 53364; 53361; 53358; 53355; 53352; 53349; 53347; 53344; 53341; 53338; 53335; 53332;
  53330; 53327; 53324; 53321; 53318; 53315; 53313; 53310; 53307; 53304; 53301; 53298; 53296; 53293; 53290; 53287; 53284; 53282;
  53279; 53276; 53273; 53270; 53267; 53265; 53262; 53259; 53256; 53253; 53250; 53248; 53245; 53242; 53239; 53236; 53234; 53231;
  53228; 53225; 53222; 53219; 53217; 53214; 53211; 53208; 53205; 53203; 53200; 53197; 53194; 53191; 53189; 53186; 53183; 53180;
  53177; 53174; 53172; 53169; 53166; 53163; 53160; 53158; 53155; 53152; 53149; 53146; 53144; 53141; 53138; 53135; 53132; 53129;
  53127; 53124; 53121; 53118; 53115; 53113; 53110; 53107; 53104; 53101; 53099; 53096; 53093; 53090; 53087; 53085; 53082; 53079;
  53076; 53073; 53071; 53068; 53065; 53062; 53059; 53057; 53054; 53051; 53048; 53045; 53043; 53040; 53037; 53034; 53031; 53029;
  53026; 53023; 53020; 53017; 53015; 53012; 53009; 53006; 53003; 53001; 52998; 52995; 52992; 52989; 52987; 52984; 52981; 52978;
  52975; 52973; 52970; 52967; 52964; 52961; 52959; 52956; 52953; 52950; 52947; 52945; 52942; 52939; 52936; 52934; 52931; 52928;
  52925; 52922; 52920; 52917; 52914; 52911; 52908; 52906; 52903; 52900; 52897; 52895; 52892; 52889; 52886; 52883; 52881; 52878;
  52875; 52872; 52869; 52867; 52864; 52861; 52858; 52856; 52853; 52850; 52847; 52844; 52842; 52839; 52836; 52833; 52831; 52828;
  52825; 52822; 52819; 52817; 52814; 52811; 52808; 52806; 52803; 52800; 52797; 52794; 52792; 52789; 52786; 52783; 52781; 52778;
  52775; 52772; 52769; 52767; 52764; 52761; 52758; 52756; 52753; 52750; 52747; 52745; 52742; 52739; 52736; 52733; 52731; 52728;
  52725; 52722; 52720; 52717; 52714; 52711; 52709; 52706; 52703; 52700; 52697; 52695; 52692; 52689; 52686; 52684; 52681; 52678;
  52675; 52673; 52670; 52667; 52664; 52662; 52659; 52656; 52653; 52650; 52648; 52645; 52642; 52639; 52637; 52634; 52631; 52628;
  52626; 52623; 52620; 52617; 52615; 52612; 52609; 52606; 52604; 52601; 52598; 52595; 52593; 52590; 52587; 52584; 52581; 52579;
  52576; 52573; 52570; 52568; 52565; 52562; 52559; 52557; 52554; 52551; 52548; 52546; 52543; 52540; 52537; 52535; 52532; 52529;
  52526; 52524; 52521; 52518; 52515; 52513; 52510; 52507; 52504; 52502; 52499; 52496; 52493; 52491; 52488; 52485; 52482; 52480;
  52477; 52474; 52472; 52469; 52466; 52463; 52461; 52458; 52455; 52452; 52450; 52447; 52444; 52441; 52439; 52436; 52433; 52430;
  52428; 52425; 52422; 52419; 52417; 52414; 52411; 52408; 52406; 52403; 52400; 52398; 52395; 52392; 52389; 52387; 52384; 52381;
  52378; 52376; 52373; 52370; 52367; 52365; 52362; 52359; 52356; 52354; 52351; 52348; 52346; 52343; 52340; 52337; 52335; 52332;
  52329; 52326; 52324; 52321; 52318; 52316; 52313; 52310; 52307; 52305; 52302; 52299; 52296; 52294; 52291; 52288; 52285; 52283;
  52280; 52277; 52275; 52272; 52269; 52266; 52264; 52261; 52258; 52256; 52253; 52250; 52247; 52245; 52242; 52239; 52236; 52234;
  52231; 52228; 52226; 52223; 52220; 52217; 52215; 52212; 52209; 52207; 52204; 52201; 52198; 52196; 52193; 52190; 52188; 52185;
  52182; 52179; 52177; 52174; 52171; 52169; 52166; 52163; 52160; 52158; 52155; 52152; 52149; 52147; 52144; 52141; 52139; 52136;
  52133; 52131; 52128; 52125; 52122; 52120; 52117; 52114; 52112; 52109; 52106; 52103; 52101; 52098; 52095; 52093; 52090; 52087;
  52084; 52082; 52079; 52076; 52074; 52071; 52068; 52066; 52063; 52060; 52057; 52055; 52052; 52049; 52047; 52044; 52041; 52038;
  52036; 52033; 52030; 52028; 52025; 52022; 52020; 52017; 52014; 52011; 52009; 52006; 52003; 52001; 51998; 51995; 51993; 51990;
  51987; 51984; 51982; 51979; 51976; 51974; 51971; 51968; 51966; 51963; 51960; 51957; 51955; 51952; 51949; 51947; 51944; 51941;
  51939; 51936; 51933; 51931; 51928; 51925; 51922; 51920; 51917; 51914; 51912; 51909; 51906; 51904; 51901; 51898; 51896; 51893;
  51890; 51887; 51885; 51882; 51879; 51877; 51874; 51871; 51869; 51866; 51863; 51861; 51858; 51855; 51853; 51850; 51847; 51845;
  51842; 51839; 51836; 51834; 51831; 51828; 51826; 51823; 51820; 51818; 51815; 51812; 51810; 51807; 51804; 51802; 51799; 51796;
  51794; 51791; 51788; 51786; 51783; 51780; 51777; 51775; 51772; 51769; 51767; 51764; 51761; 51759; 51756; 51753; 51751; 51748;
  51745; 51743; 51740; 51737; 51735; 51732; 51729; 51727; 51724; 51721; 51719; 51716; 51713; 51711; 51708; 51705; 51703; 51700;
  51697; 51695; 51692; 51689; 51687; 51684; 51681; 51679; 51676; 51673; 51671; 51668; 51665; 51663; 51660; 51657; 51655; 51652;
  51649; 51647; 51644; 51641; 51639; 51636; 51633; 51631; 51628; 51625; 51623; 51620; 51617; 51615; 51612; 51609; 51607; 51604;
  51601; 51599; 51596; 51593; 51591; 51588; 51585; 51583; 51580; 51577; 51575; 51572; 51569; 51567; 51564; 51561; 51559; 51556;
  51553; 51551; 51548; 51545; 51543; 51540; 51537; 51535; 51532; 51529; 51527; 51524; 51522; 51519; 51516; 51514; 51511; 51508;
  51506; 51503; 51500; 51498; 51495; 51492; 51490; 51487; 51484; 51482; 51479; 51476; 51474; 51471; 51468; 51466; 51463; 51461;
  51458; 51455; 51453; 51450; 51447; 51445; 51442; 51439; 51437; 51434; 51431; 51429; 51426; 51423; 51421; 51418; 51416; 51413;
  51410; 51408; 51405; 51402; 51400; 51397; 51394; 51392; 51389; 51386; 51384; 51381; 51379; 51376; 51373; 51371; 51368; 51365].
Definition log_lut_12 : list Z := [
  51363; 51360; 51357; 51355; 51352; 51350; 51347; 51344; 51342; 51339; 51336; 51334; 51331; 51328; 51326; 51323; 51321; 51318;
  51315; 51313; 51310; 51307; 51305; 51302; 51299; 51297; 51294; 51292; 51289; 51286; 51284; 51281; 51278; 51276; 51273; 51270;
  51268; 51265; 51263; 51260; 51257; 51255; 51252; 51249; 51247; 51244; 51242; 51239; 51236; 51234; 51231; 51228; 51226; 51223;
  51221; 51218; 51215; 51213; 51210; 51207; 51205; 51202; 51200; 51197; 51194; 51192; 51189; 51186; 51184; 51181; 51179; 51176;
  51173; 51171; 51168; 51165; 51163; 51160; 51158; 51155; 51152; 51150; 51147; 51144; 51142; 51139; 51137; 51134; 51131; 51129;
  51126; 51124; 51121; 51118; 51116; 51113; 51110; 51108; 51105; 51103; 51100; 51097; 51095; 51092; 51090; 51087; 51084; 51082;
  51079; 51076; 51074; 51071; 51069; 51066; 51063; 51061; 51058; 51056; 51053; 51050; 51048; 51045; 51042; 51040; 51037; 51035;
  51032; 51029; 51027; 51024; 51022; 51019; 51016; 51014; 51011; 51009; 51006; 51003; 51001; 50998; 50996; 50993; 50990; 50988;
  50985; 50983; 50980; 50977; 50975; 50972; 50970; 50967; 50964; 50962; 50959; 50956; 50954; 50951; 50949; 50946; 50943; 50941;
  50938; 50936; 50933; 50930; 50928; 50925; 50923; 50920; 50917; 50915; 50912; 50910; 50907; 50904; 50902; 50899; 50897; 50894;
  50892; 50889; 50886; 50884; 50881; 50879; 50876; 50873; 50871; 50868; 50866; 50863; 50860; 50858; 50855; 50853; 50850; 50847;
  50845; 50842; 50840; 50837; 50834; 50832; 50829; 50827; 50824; 50822; 50819; 50816; 50814; 50811; 50809; 50806; 50803; 50801;
  50798; 50796; 50793; 50790; 50788; 50785; 50783; 50780; 50778; 50775; 50772; 50770; 50767; 50765; 50762; 50759; 50757; 50754;
  50752; 50749; 50746; 50744; 50741; 50739; 50736; 50734; 50731; 50728; 50726; 50723; 50721; 50718; 50716; 50713; 50710; 50708;
  50705; 50703; 50700; 50697; 50695; 50692; 50690; 50687; 50685; 50682; 50679; 50677; 50674; 50672; 50669; 50667; 50664; 50661;
  50659; 50656; 50654; 50651; 50649; 50646; 50643; 50641; 50638; 50636; 50633; 50631; 50628; 50625; 50623; 50620; 50618; 50615;
  50612; 50610; 50607; 50605; 50602; 50600; 50597; 50595; 50592; 50589; 50587; 50584; 50582; 50579; 50577; 50574; 50571; 50569;
  50566; 50564; 50561; 50559; 50556; 50553; 50551; 50548; 50546; 50543; 50541; 50538; 50535; 50533; 50530; 50528; 50525; 50523;
  50520; 50518; 50515; 50512; 50510; 50507; 50505; 50502; 50500; 50497; 50494; 50492; 50489; 50487; 50484; 50482; 50479; 50477;
  50474; 50471; 50469; 50466; 50464; 50461; 50459; 50456; 50454; 50451; 50448; 50446; 50443; 50441; 50438; 50436; 50433; 50431;
  50428; 50425; 50423; 50420; 50418; 50415; 50413; 50410; 50408; 50405; 50402; 50400; 50397; 50395; 50392; 50390; 50387; 50385;
  50382; 50380; 50377; 50374; 50372; 50369; 50367; 50364; 50362; 50359; 50357; 50354; 50351; 50349; 50346; 50344; 50341; 50339;
  50336; 50334; 50331; 50329; 50326; 50323; 50321; 50318; 50316; 50313; 50311; 50308; 50306; 50303; 50301; 50298; 50295; 50293;
  50290; 50288; 50285; 50283; 50280; 50278; 50275; 50273; 50270; 50268; 50265; 50262; 50260; 50257; 50255; 50252; 50250; 50247;
  50245; 50242; 50240; 50237; 50235; 50232; 50229; 50227; 50224; 50222; 50219; 50217; 50214; 50212; 50209; 50207; 50204; 50202;
  50199; 50197; 50194; 50191; 50189; 50186; 50184; 50181; 50179; 50176; 50174; 50171; 50169; 50166; 50164; 50161; 50159; 50156;
  50153; 50151; 50148; 50146; 50143; 50141; 50138; 50136; 50133; 50131; 50128; 50126; 50123; 50121; 50118; 50116; 50113; 50110;
  50108; 50105; 50103; 50100; 50098; 50095; 50093; 50090; 50088; 50085; 50083; 50080; 50078; 50075; 50073; 50070; 50068; 50065;
  50063; 50060; 50057; 50055; 50052; 50050; 50047; 50045; 50042; 50040; 50037; 50035; 50032; 50030; 50027; 50025; 50022; 50020;
  50017; 50015; 50012; 50010; 50007; 50005; 50002; 50000; 49997; 49995; 49992; 49990; 49987; 49984; 49982; 49979; 49977; 49974;
  49972; 49969; 49967; 49964; 49962; 49959; 49957; 49954; 49952; 49949; 49947; 49944; 49942; 49939; 49937; 49934; 49932; 49929;
  49927; 49924; 49922; 49919; 49917; 49914; 49912; 49909; 49907; 49904; 49902; 49899; 49897; 49894; 49892; 49889; 49887; 49884;
  49882; 49879; 49877; 49874; 49872; 49869; 49867; 49864; 49862; 49859; 49857; 49854; 49852; 49849; 49847; 49844; 49841; 49839;
  49836; 49834; 49831; 49829; 49826; 49824; 49821; 49819; 49816; 49814; 49811; 49809; 49806; 49804; 49801; 49799; 49796; 49794;
  49791; 49789; 49787; 49784; 49782; 49779; 49777; 49774; 49772; 49769; 49767; 49764; 49762; 49759; 49757; 49754; 49752; 49749;
  49747; 49744; 49742; 49739; 49737; 49734; 49732; 49729; 49727; 49724; 49722; 49719; 49717; 49714; 49712; 49709; 49707; 49704;
  49702; 49699; 49697; 49694; 49692; 49689; 49687; 49684; 49682; 49679; 49677; 49674; 49672; 49669; 49667; 49664; 49662; 49659;
  49657; 49654; 49652; 49649; 49647; 49645; 49642; 49640; 49637; 49635; 49632; 49630; 49627; 49625; 49622; 49620; 49617; 49615;
  49612; 49610; 49607; 49605; 49602; 49600; 49597; 49595; 49592; 49590; 49587; 49585; 49582; 49580; 49577; 49575; 49573; 49570;
  49568; 49565; 49563; 49560; 49558; 49555; 49553; 49550; 49548; 49545; 49543; 49540; 49538; 49535; 49533; 49530; 49528; 49525;
  49523; 49521; 49518; 49516; 49513; 49511; 49508; 49506; 49503; 49501; 49498; 49496; 49493; 49491; 49488; 49486; 49483; 49481;
  49479; 49476; 49474; 49471; 49469; 49466; 49464; 49461; 49459; 49456; 49454; 49451; 49449; 49446; 49444; 49441; 49439; 49437;
  49434; 49432; 49429; 49427; 49424; 49422; 49419; 49417; 49414; 49412; 49409; 49407; 49404; 49402; 49400; 49397; 49395; 49392;
  49390; 49387; 49385; 49382; 49380; 49377; 49375; 49372; 49370; 49368; 49365; 49363; 49360; 49358; 49355; 49353; 49350; 49348;
  49345; 49343; 49340; 49338; 49336; 49333; 49331; 49328; 49326; 49323; 49321; 49318; 49316; 49313; 49311; 49309; 49306; 49304;
  49301; 49299; 49296; 49294; 49291; 49289; 49286; 49284; 49282; 49279; 49277; 49274; 49272; 49269; 49267; 49264; 49262; 49259;
  49257; 49255; 49252; 49250; 49247; 49245; 49242; 49240; 49237; 49235; 49233; 49230; 49228; 49225; 49223; 49220; 49218; 49215;
  49213; 49210; 49208; 49206; 49203; 49201; 49198; 49196; 49193; 49191; 49188; 49186; 49184; 49181; 49179; 49176; 49174; 49171;
  49169; 49166; 49164; 49162; 49159; 49157; 49154; 49152; 49149; 49147; 49144; 49142; 49140; 49137; 49135; 49132; 49130; 49127;
  49125; 49123; 49120; 49118; 49115; 49113; 49110; 49108; 49105; 49103; 49101; 49098; 49096; 49093; 49091; 49088; 49086; 49084].
Definition log_lut_13 : list Z := [
  49081; 49079; 49076; 49074; 49071; 49069; 49066; 49064; 49062; 49059; 49057; 49054; 49052; 49049; 49047; 49045; 49042; 49040;
  49037; 49035; 49032; 49030; 49028; 49025; 49023; 49020; 49018; 49015; 49013; 49011; 49008; 49006; 49003; 49001; 48998; 48996;
  48994; 48991; 48989; 48986; 48984; 48981; 48979; 48977; 48974; 48972; 48969; 48967; 48964; 48962; 48960; 48957; 48955; 48952;
  48950; 48947; 48945; 48943; 48940; 48938; 48935; 48933; 48930; 48928; 48926; 48923; 48921; 48918; 48916; 48913; 48911; 48909;
  48906; 48904; 48901; 48899; 48897; 48894; 48892; 48889; 48887; 48884; 48882; 48880; 48877; 48875; 48872; 48870; 48868; 48865;
  48863; 48860; 48858; 48855; 48853; 48851; 48848; 48846; 48843; 48841; 48839; 48836; 48834; 48831; 48829; 48826; 48824; 48822;
  48819; 48817; 48814; 48812; 48810; 48807; 48805; 48802; 48800; 48797; 48795; 48793; 48790; 48788; 48785; 48783; 48781; 48778;
  48776; 48773; 48771; 48769; 48766; 48764; 48761; 48759; 48756; 48754; 48752; 48749; 48747; 48744; 48742; 48740; 48737; 48735;
  48732; 48730; 48728; 48725; 48723; 48720; 48718; 48716; 48713; 48711; 48708; 48706; 48704; 48701; 48699; 48696; 48694; 48692;
  48689; 48687; 48684; 48682; 48680; 48677; 48675; 48672; 48670; 48668; 48665; 48663; 48660; 48658; 48656; 48653; 48651; 48648;
  48646; 48644; 48641; 48639; 48636; 48634; 48632; 48629; 48627; 48624; 48622; 48620; 48617; 48615; 48612; 48610; 48608; 48605;
  48603; 48600; 48598; 48596; 48593; 48591; 48588; 48586; 48584; 48581; 48579; 48576; 48574; 48572; 48569; 48567; 48564; 48562;
  48560; 48557; 48555; 48552; 48550; 48548; 48545; 48543; 48541; 48538; 48536; 48533; 48531; 48529; 48526; 48524; 48521; 48519;
  48517; 48514; 48512; 48509; 48507; 48505; 48502; 48500; 48498; 48495; 48493; 48490; 48488; 48486; 48483; 48481; 48478; 48476;
  48474; 48471; 48469; 48467; 48464; 48462; 48459; 48457; 48455; 48452; 48450; 48447; 48445; 48443; 48440; 48438; 48436; 48433;
  48431; 48428; 48426; 48424; 48421; 48419; 48417; 48414; 48412; 48409; 48407; 48405; 48402; 48400; 48397; 48395; 48393; 48390;
  48388; 48386; 48383; 48381; 48378; 48376; 48374; 48371; 48369; 48367; 48364; 48362; 48359; 48357; 48355; 48352; 48350; 48348;
  48345; 48343; 48340; 48338; 48336; 48333; 48331; 48329; 48326; 48324; 48321; 48319; 48317; 48314; 48312; 48310; 48307; 48305;
  48303; 48300; 48298; 48295; 48293; 48291; 48288; 48286; 48284; 48281; 48279; 48276; 48274; 48272; 48269; 48267; 48265; 48262;
  48260; 48258; 48255; 48253; 48250; 48248; 48246; 48243; 48241; 48239; 48236; 48234; 48231; 48229; 48227; 48224; 48222; 48220;
  48217; 48215; 48213; 48210; 48208; 48205; 48203; 48201; 48198; 48196; 48194; 48191; 48189; 48187; 48184; 48182; 48180; 48177;
  48175; 48172; 48170; 48168; 48165; 48163; 48161; 48158; 48156; 48154; 48151; 48149; 48146; 48144; 48142; 48139; 48137; 48135;
  48132; 48130; 48128; 48125; 48123; 48121; 48118; 48116; 48114; 48111; 48109; 48106; 48104; 48102; 48099; 48097; 48095; 48092;
  48090; 48088; 48085; 48083; 48081; 48078; 48076; 48073; 48071; 48069; 48066; 48064; 48062; 48059; 48057; 48055; 48052; 48050;
  48048; 48045; 48043; 48041; 48038; 48036; 48034; 48031; 48029; 48027; 48024; 48022; 48019; 48017; 48015; 48012; 48010; 48008;
  48005; 48003; 48001; 47998; 47996; 47994; 47991; 47989; 47987; 47984; 47982; 47980; 47977; 47975; 47973; 47970; 47968; 47966;
  47963; 47961; 47959; 47956; 47954; 47951; 47949; 47947; 47944; 47942; 47940; 47937; 47935; 47933; 47930; 47928; 47926; 47923;
  47921; 47919; 47916; 47914; 47912; 47909; 47907; 47905; 47902; 47900; 47898; 47895; 47893; 47891; 47888; 47886; 47884; 47881;
  47879; 47877; 47874; 47872; 47870; 47867; 47865; 47863; 47860; 47858; 47856; 47853; 47851; 47849; 47846; 47844; 47842; 47839;
  47837; 47835; 47832; 47830; 47828; 47825; 47823; 47821; 47818; 47816; 47814; 47811; 47809; 47807; 47804; 47802; 47800; 47797;
  47795; 47793; 47790; 47788; 47786; 47783; 47781; 47779; 47776; 47774; 47772; 47769; 47767; 47765; 47762; 47760; 47758; 47755;
  47753; 47751; 47749; 47746; 47744; 47742; 47739; 47737; 47735; 47732; 47730; 47728; 47725; 47723; 47721; 47718; 47716; 47714;
  47711; 47709; 47707; 47704; 47702; 47700; 47697; 47695; 47693; 47690; 47688; 47686; 47683; 47681; 47679; 47677; 47674; 47672;
  47670; 47667; 47665; 47663; 47660; 47658; 47656; 47653; 47651; 47649; 47646; 47644; 47642; 47639; 47637; 47635; 47633; 47630;
  47628; 47626; 47623; 47621; 47619; 47616; 47614; 47612; 47609; 47607; 47605; 47602; 47600; 47598; 47595; 47593; 47591; 47589;
  47586; 47584; 47582; 47579; 47577; 47575; 47572; 47570; 47568; 47565; 47563; 47561; 47559; 47556; 47554; 47552; 47549; 47547;
  47545; 47542; 47540; 47538; 47535; 47533; 47531; 47529; 47526; 47524; 47522; 47519; 47517; 47515; 47512; 47510; 47508; 47505;
  47503; 47501; 47499; 47496; 47494; 47492; 47489; 47487; 47485; 47482; 47480; 47478; 47476; 47473; 47471; 47469; 47466; 47464;
  47462; 47459; 47457; 47455; 47452; 47450; 47448; 47446; 47443; 47441; 47439; 47436; 47434; 47432; 47429; 47427; 47425; 47423;
  47420; 47418; 47416; 47413; 47411; 47409; 47407; 47404; 47402; 47400; 47397; 47395; 47393; 47390; 47388; 47386; 47384; 47381;
  47379; 47377; 47374; 47372; 47370; 47367; 47365; 47363; 47361; 47358; 47356; 47354; 47351; 47349; 47347; 47345; 47342; 47340;
  47338; 47335; 47333; 47331; 47329; 47326; 47324; 47322; 47319; 47317; 47315; 47312; 47310; 47308; 47306; 47303; 47301; 47299;
  47296; 47294; 47292; 47290; 47287; 47285; 47283; 47280; 47278; 47276; 47274; 47271; 47269; 47267; 47264; 47262; 47260; 47258;
  47255; 47253; 47251; 47248; 47246; 47244; 47242; 47239; 47237; 47235; 47232; 47230; 47228; 47226; 47223; 47221; 47219; 47216;
  47214; 47212; 47210; 47207; 47205; 47203; 47201; 47198; 47196; 47194; 47191; 47189; 47187; 47185; 47182; 47180; 47178; 47175;
  47173; 47171; 47169; 47166; 47164; 47162; 47160; 47157; 47155; 47153; 47150; 47148; 47146; 47144; 47141; 47139; 47137; 47134;
  47132; 47130; 47128; 47125; 47123; 47121; 47119; 47116; 47114; 47112; 47109; 47107; 47105; 47103; 47100; 47098; 47096; 47094;
  47091; 47089; 47087; 47084; 47082; 47080; 47078; 47075; 47073; 47071; 47069; 47066; 47064; 47062; 47059; 47057; 47055; 47053;
  47050; 47048; 47046; 47044; 47041; 47039; 47037; 47035; 47032; 47030; 47028; 47025; 47023; 47021; 47019; 47016; 47014; 47012;
  47010; 47007; 47005; 47003; 47001; 46998; 46996; 46994; 46991; 46989; 46987; 46985; 46982; 46980; 46978; 46976; 46973; 46971].
Definition log_lut_14 : list Z := [
  46969; 46967; 46964; 46962; 46960; 46958; 46955; 46953; 46951; 46949; 46946; 46944; 46942; 46939; 46937; 46935; 46933; 46930;
  46928; 46926; 46924; 46921; 46919; 46917; 46915; 46912; 46910; 46908; 46906; 46903; 46901; 46899; 46897; 46894; 46892; 46890;
  46888; 46885; 46883; 46881; 46879; 46876; 46874; 46872; 46870; 46867; 46865; 46863; 46861; 46858; 46856; 46854; 46851; 46849;
  46847; 46845; 46842; 46840; 46838; 46836; 46833; 46831; 46829; 46827; 46824; 46822; 46820; 46818; 46815; 46813; 46811; 46809;
  46806; 46804; 46802; 46800; 46797; 46795; 46793; 46791; 46788; 46786; 46784; 46782; 46780; 46777; 46775; 46773; 46771; 46768;
  46766; 46764; 46762; 46759; 46757; 46755; 46753; 46750; 46748; 46746; 46744; 46741; 46739; 46737; 46735; 46732; 46730; 46728;
  46726; 46723; 46721; 46719; 46717; 46714; 46712; 46710; 46708; 46705; 46703; 46701; 46699; 46696; 46694; 46692; 46690; 46688;
  46685; 46683; 46681; 46679; 46676; 46674; 46672; 46670; 46667; 46665; 46663; 46661; 46658; 46656; 46654; 46652; 46649; 46647;
  46645; 46643; 46641; 46638; 46636; 46634; 46632; 46629; 46627; 46625; 46623; 46620; 46618; 46616; 46614; 46611; 46609; 46607;
  46605; 46603; 46600; 46598; 46596; 46594; 46591; 46589; 46587; 46585; 46582; 46580; 46578; 46576; 46574; 46571; 46569; 46567;
  46565; 46562; 46560; 46558; 46556; 46553; 46551; 46549; 46547; 46545; 46542; 46540; 46538; 46536; 46533; 46531; 46529; 46527;
  46524; 46522; 46520; 46518; 46516; 46513; 46511; 46509; 46507; 46504; 46502; 46500; 46498; 46496; 46493; 46491; 46489; 46487;
  46484; 46482; 46480; 46478; 46476; 46473; 46471; 46469; 46467; 46464; 46462; 46460; 46458; 46456; 46453; 46451; 46449; 46447;
  46444; 46442; 46440; 46438; 46436; 46433; 46431; 46429; 46427; 46424; 46422; 46420; 46418; 46416; 46413; 46411; 46409; 46407;
  46404; 46402; 46400; 46398; 46396; 46393; 46391; 46389; 46387; 46385; 46382; 46380; 46378; 46376; 46373; 46371; 46369; 46367;
  46365; 46362; 46360; 46358; 46356; 46354; 46351; 46349; 46347; 46345; 46342; 46340; 46338; 46336; 46334; 46331; 46329; 46327;
  46325; 46323; 46320; 46318; 46316; 46314; 46312; 46309; 46307; 46305; 46303; 46300; 46298; 46296; 46294; 46292; 46289; 46287;
  46285; 46283; 46281; 46278; 46276; 46274; 46272; 46270; 46267; 46265; 46263; 46261; 46259; 46256; 46254; 46252; 46250; 46247;
  46245; 46243; 46241; 46239; 46236; 46234; 46232; 46230; 46228; 46225; 46223; 46221; 46219; 46217; 46214; 46212; 46210; 46208;
  46206; 46203; 46201; 46199; 46197; 46195; 46192; 46190; 46188; 46186; 46184; 46181; 46179; 46177; 46175; 46173; 46170; 46168;
  46166; 46164; 46162; 46159; 46157; 46155; 46153; 46151; 46148; 46146; 46144; 46142; 46140; 46137; 46135; 46133; 46131; 46129;
  46126; 46124; 46122; 46120; 46118; 46115; 46113; 46111; 46109; 46107; 46105; 46102; 46100; 46098; 46096; 46094; 46091; 46089;
  46087; 46085; 46083; 46080; 46078; 46076; 46074; 46072; 46069; 46067; 46065; 46063; 46061; 46058; 46056; 46054; 46052; 46050;
  46048; 46045; 46043; 46041; 46039; 46037; 46034; 46032; 46030; 46028; 46026; 46023; 46021; 46019; 46017; 46015; 46012; 46010;
  46008; 46006; 46004; 46002; 45999; 45997; 45995; 45993; 45991; 45988; 45986; 45984; 45982; 45980; 45978; 45975; 45973; 45971;
  45969; 45967; 45964; 45962; 45960; 45958; 45956; 45953; 45951; 45949; 45947; 45945; 45943; 45940; 45938; 45936; 45934; 45932;
  45929; 45927; 45925; 45923; 45921; 45919; 45916; 45914; 45912; 45910; 45908; 45906; 45903; 45901; 45899; 45897; 45895; 45892;
  45890; 45888; 45886; 45884; 45882; 45879; 45877; 45875; 45873; 45871; 45868; 45866; 45864; 45862; 45860; 45858; 45855; 45853;
  45851; 45849; 45847; 45845; 45842; 45840; 45838; 45836; 45834; 45832; 45829; 45827; 45825; 45823; 45821; 45818; 45816; 45814;
  45812; 45810; 45808; 45805; 45803; 45801; 45799; 45797; 45795; 45792; 45790; 45788; 45786; 45784; 45782; 45779; 45777; 45775;
  45773; 45771; 45769; 45766; 45764; 45762; 45760; 45758; 45756; 45753; 45751; 45749; 45747; 45745; 45743; 45740; 45738; 45736;
  45734; 45732; 45730; 45727; 45725; 45723; 45721; 45719; 45717; 45714; 45712; 45710; 45708; 45706; 45704; 45701; 45699; 45697;
  45695; 45693; 45691; 45688; 45686; 45684; 45682; 45680; 45678; 45675; 45673; 45671; 45669; 45667; 45665; 45663; 45660; 45658;
  45656; 45654; 45652; 45650; 45647; 45645; 45643; 45641; 45639; 45637; 45634; 45632; 45630; 45628; 45626; 45624; 45621; 45619;
  45617; 45615; 45613; 45611; 45609; 45606; 45604; 45602; 45600; 45598; 45596; 45593; 45591; 45589; 45587; 45585; 45583; 45581;
  45578; 45576; 45574; 45572; 45570; 45568; 45565; 45563; 45561; 45559; 45557; 45555; 45553; 45550; 45548; 45546; 45544; 45542;
  45540; 45537; 45535; 45533; 45531; 45529; 45527; 45525; 45522; 45520; 45518; 45516; 45514; 45512; 45510; 45507; 45505; 45503;
  45501; 45499; 45497; 45494; 45492; 45490; 45488; 45486; 45484; 45482; 45479; 45477; 45475; 45473; 45471; 45469; 45467; 45464;
  45462; 45460; 45458; 45456; 45454; 45452; 45449; 45447; 45445; 45443; 45441; 45439; 45437; 45434; 45432; 45430; 45428; 45426;
  45424; 45422; 45419; 45417; 45415; 45413; 45411; 45409; 45407; 45404; 45402; 45400; 45398; 45396; 45394; 45392; 45389; 45387;
  45385; 45383; 45381; 45379; 45377; 45374; 45372; 45370; 45368; 45366; 45364; 45362; 45360; 45357; 45355; 45353; 45351; 45349;
  45347; 45345; 45342; 45340; 45338; 45336; 45334; 45332; 45330; 45327; 45325; 45323; 45321; 45319; 45317; 45315; 45313; 45310;
  45308; 45306; 45304; 45302; 45300; 45298; 45295; 45293; 45291; 45289; 45287; 45285; 45283; 45281; 45278; 45276; 45274; 45272;
  45270; 45268; 45266; 45263; 45261; 45259; 45257; 45255; 45253; 45251; 45249; 45246; 45244; 45242; 45240; 45238; 45236; 45234;
  45232; 45229; 45227; 45225; 45223; 45221; 45219; 45217; 45215; 45212; 45210; 45208; 45206; 45204; 45202; 45200; 45198; 45195;
  45193; 45191; 45189; 45187; 45185; 45183; 45181; 45178; 45176; 45174; 45172; 45170; 45168; 45166; 45164; 45161; 45159; 45157;
  45155; 45153; 45151; 45149; 45147; 45144; 45142; 45140; 45138; 45136; 45134; 45132; 45130; 45127; 45125; 45123; 45121; 45119;
  45117; 45115; 45113; 45111; 45108; 45106; 45104; 45102; 45100; 45098; 45096; 45094; 45091; 45089; 45087; 45085; 45083; 45081;
  45079; 45077; 45075; 45072; 45070; 45068; 45066; 45064; 45062; 45060; 45058; 45055; 45053; 45051; 45049; 45047; 45045; 45043;
  45041; 45039; 45036; 45034; 45032; 45030; 45028; 45026; 45024; 45022; 45020; 45017; 45015; 45013; 45011; 45009; 45007; 45005].
Definition log_lut_15 : list Z := [
  45003; 45001; 44998; 44996; 44994; 44992; 44990; 44988; 44986; 44984; 44982; 44979; 44977; 44975; 44973; 44971; 44969; 44967;
  44965; 44963; 44960; 44958; 44956; 44954; 44952; 44950; 44948; 44946; 44944; 44941; 44939; 44937; 44935; 44933; 44931; 44929;
  44927; 44925; 44923; 44920; 44918; 44916; 44914; 44912; 44910; 44908; 44906; 44904; 44901; 44899; 44897; 44895; 44893; 44891;
  44889; 44887; 44885; 44883; 44880; 44878; 44876; 44874; 44872; 44870; 44868; 44866; 44864; 44862; 44859; 44857; 44855; 44853;
  44851; 44849; 44847; 44845; 44843; 44841; 44838; 44836; 44834; 44832; 44830; 44828; 44826; 44824; 44822; 44820; 44817; 44815;
  44813; 44811; 44809; 44807; 44805; 44803; 44801; 44799; 44797; 44794; 44792; 44790; 44788; 44786; 44784; 44782; 44780; 44778;
  44776; 44773; 44771; 44769; 44767; 44765; 44763; 44761; 44759; 44757; 44755; 44753; 44750; 44748; 44746; 44744; 44742; 44740;
  44738; 44736; 44734; 44732; 44730; 44727; 44725; 44723; 44721; 44719; 44717; 44715; 44713; 44711; 44709; 44707; 44704; 44702;
  44700; 44698; 44696; 44694; 44692; 44690; 44688; 44686; 44684; 44681; 44679; 44677; 44675; 44673; 44671; 44669; 44667; 44665;
  44663; 44661; 44659; 44656; 44654; 44652; 44650; 44648; 44646; 44644; 44642; 44640; 44638; 44636; 44634; 44631; 44629; 44627;
  44625; 44623; 44621; 44619; 44617; 44615; 44613; 44611; 44609; 44606; 44604; 44602; 44600; 44598; 44596; 44594; 44592; 44590;
  44588; 44586; 44584; 44581; 44579; 44577; 44575; 44573; 44571; 44569; 44567; 44565; 44563; 44561; 44559; 44557; 44554; 44552;
  44550; 44548; 44546; 44544; 44542; 44540; 44538; 44536; 44534; 44532; 44530; 44527; 44525; 44523; 44521; 44519; 44517; 44515;
  44513; 44511; 44509; 44507; 44505; 44503; 44500; 44498; 44496; 44494; 44492; 44490; 44488; 44486; 44484; 44482; 44480; 44478;
  44476; 44474; 44471; 44469; 44467; 44465; 44463; 44461; 44459; 44457; 44455; 44453; 44451; 44449; 44447; 44445; 44442; 44440;
  44438; 44436; 44434; 44432; 44430; 44428; 44426; 44424; 44422; 44420; 44418; 44416; 44413; 44411; 44409; 44407; 44405; 44403;
  44401; 44399; 44397; 44395; 44393; 44391; 44389; 44387; 44385; 44382; 44380; 44378; 44376; 44374; 44372; 44370; 44368; 44366;
  44364; 44362; 44360; 44358; 44356; 44354; 44352; 44349; 44347; 44345; 44343; 44341; 44339; 44337; 44335; 44333; 44331; 44329;
  44327; 44325; 44323; 44321; 44319; 44316; 44314; 44312; 44310; 44308; 44306; 44304; 44302; 44300; 44298; 44296; 44294; 44292;
  44290; 44288; 44286; 44284; 44281; 44279; 44277; 44275; 44273; 44271; 44269; 44267; 44265; 44263; 44261; 44259; 44257; 44255;
  44253; 44251; 44249; 44246; 44244; 44242; 44240; 44238; 44236; 44234; 44232; 44230; 44228; 44226; 44224; 44222; 44220; 44218;
  44216; 44214; 44212; 44210; 44207; 44205; 44203; 44201; 44199; 44197; 44195; 44193; 44191; 44189; 44187; 44185; 44183; 44181;
  44179; 44177; 44175; 44173; 44171; 44168; 44166; 44164; 44162; 44160; 44158; 44156; 44154; 44152; 44150; 44148; 44146; 44144;
  44142; 44140; 44138; 44136; 44134; 44132; 44130; 44128; 44125; 44123; 44121; 44119; 44117; 44115; 44113; 44111; 44109; 44107;
  44105; 44103; 44101; 44099; 44097; 44095; 44093; 44091; 44089; 44087; 44085; 44083; 44080; 44078; 44076; 44074; 44072; 44070;
  44068; 44066; 44064; 44062; 44060; 44058; 44056; 44054; 44052; 44050; 44048; 44046; 44044; 44042; 44040; 44038; 44036; 44034;
  44031; 44029; 44027; 44025; 44023; 44021; 44019; 44017; 44015; 44013; 44011; 44009; 44007; 44005; 44003; 44001; 43999; 43997;
  43995; 43993; 43991; 43989; 43987; 43985; 43983; 43981; 43978; 43976; 43974; 43972; 43970; 43968; 43966; 43964; 43962; 43960;
  43958; 43956; 43954; 43952; 43950; 43948; 43946; 43944; 43942; 43940; 43938; 43936; 43934; 43932; 43930; 43928; 43926; 43924;
  43922; 43919; 43917; 43915; 43913; 43911; 43909; 43907; 43905; 43903; 43901; 43899; 43897; 43895; 43893; 43891; 43889; 43887;
  43885; 43883; 43881; 43879; 43877; 43875; 43873; 43871; 43869; 43867; 43865; 43863; 43861; 43859; 43857; 43855; 43853; 43850;
  43848; 43846; 43844; 43842; 43840; 43838; 43836; 43834; 43832; 43830; 43828; 43826; 43824; 43822; 43820; 43818; 43816; 43814;
  43812; 43810; 43808; 43806; 43804; 43802; 43800; 43798; 43796; 43794; 43792; 43790; 43788; 43786; 43784; 43782; 43780; 43778;
  43776; 43774; 43772; 43770; 43767; 43765; 43763; 43761; 43759; 43757; 43755; 43753; 43751; 43749; 43747; 43745; 43743; 43741;
  43739; 43737; 43735; 43733; 43731; 43729; 43727; 43725; 43723; 43721; 43719; 43717; 43715; 43713; 43711; 43709; 43707; 43705;
  43703; 43701; 43699; 43697; 43695; 43693; 43691; 43689; 43687; 43685; 43683; 43681; 43679; 43677; 43675; 43673; 43671; 43669;
  43667; 43665; 43663; 43661; 43659; 43657; 43655; 43653; 43650; 43648; 43646; 43644; 43642; 43640; 43638; 43636; 43634; 43632;
  43630; 43628; 43626; 43624; 43622; 43620; 43618; 43616; 43614; 43612; 43610; 43608; 43606; 43604; 43602; 43600; 43598; 43596;
  43594; 43592; 43590; 43588; 43586; 43584; 43582; 43580; 43578; 43576; 43574; 43572; 43570; 43568; 43566; 43564; 43562; 43560;
  43558; 43556; 43554; 43552; 43550; 43548; 43546; 43544; 43542; 43540; 43538; 43536; 43534; 43532; 43530; 43528; 43526; 43524;
  43522; 43520; 43518; 43516; 43514; 43512; 43510; 43508; 43506; 43504; 43502; 43500; 43498; 43496; 43494; 43492; 43490; 43488;
  43486; 43484; 43482; 43480; 43478; 43476; 43474; 43472; 43470; 43468; 43466; 43464; 43462; 43460; 43458; 43456; 43454; 43452;
  43450; 43448; 43446; 43444; 43442; 43440; 43438; 43436; 43434; 43432; 43430; 43428; 43426; 43424; 43422; 43420; 43418; 43416;
  43414; 43412; 43410; 43408; 43406; 43404; 43402; 43400; 43398; 43396; 43394; 43392; 43390; 43388; 43386; 43384; 43382; 43380;
  43378; 43376; 43374; 43372; 43370; 43368; 43366; 43364; 43362; 43360; 43358; 43356; 43354; 43352; 43350; 43348; 43346; 43344;
  43342; 43340; 43338; 43336; 43334; 43332; 43330; 43328; 43326; 43324; 43322; 43320; 43318; 43316; 43314; 43312; 43310; 43308;
  43306; 43304; 43302; 43300; 43298; 43296; 43294; 43292; 43290; 43288; 43286; 43284; 43282; 43280; 43279; 43277; 43275; 43273;
  43271; 43269; 43267; 43265; 43263; 43261; 43259; 43257; 43255; 43253; 43251; 43249; 43247; 43245; 43243; 43241; 43239; 43237;
  43235; 43233; 43231; 43229; 43227; 43225; 43223; 43221; 43219; 43217; 43215; 43213; 43211; 43209; 43207; 43205; 43203; 43201;
  43199; 43197; 43195; 43193; 43191; 43189; 43187; 43185; 43183; 43181; 43179; 43177; 43175; 43173; 43171; 43169; 43167; 43165].
Definition log_lut_16 : list Z := [
  43164; 43162; 43160; 43158; 43156; 43154; 43152; 43150; 43148; 43146; 43144; 43142; 43140; 43138; 43136; 43134; 43132; 43130;
  43128; 43126; 43124; 43122; 43120; 43118; 43116; 43114; 43112; 43110; 43108; 43106; 43104; 43102; 43100; 43098; 43096; 43094;
  43092; 43090; 43088; 43086; 43084; 43082; 43081; 43079; 43077; 43075; 43073; 43071; 43069; 43067; 43065; 43063; 43061; 43059;
  43057; 43055; 43053; 43051; 43049; 43047; 43045; 43043; 43041; 43039; 43037; 43035; 43033; 43031; 43029; 43027; 43025; 43023;
  43021; 43019; 43017; 43015; 43014; 43012; 43010; 43008; 43006; 43004; 43002; 43000; 42998; 42996; 42994; 42992; 42990; 42988;
  42986; 42984; 42982; 42980; 42978; 42976; 42974; 42972; 42970; 42968; 42966; 42964; 42962; 42960; 42958; 42956; 42955; 42953;
  42951; 42949; 42947; 42945; 42943; 42941; 42939; 42937; 42935; 42933; 42931; 42929; 42927; 42925; 42923; 42921; 42919; 42917;
  42915; 42913; 42911; 42909; 42907; 42905; 42903; 42902; 42900; 42898; 42896; 42894; 42892; 42890; 42888; 42886; 42884; 42882;
  42880; 42878; 42876; 42874; 42872; 42870; 42868; 42866; 42864; 42862; 42860; 42858; 42856; 42855; 42853; 42851; 42849; 42847;
  42845; 42843; 42841; 42839; 42837; 42835; 42833; 42831; 42829; 42827; 42825; 42823; 42821; 42819; 42817; 42815; 42813; 42811;
  42810; 42808; 42806; 42804; 42802; 42800; 42798; 42796; 42794; 42792; 42790; 42788; 42786; 42784; 42782; 42780; 42778; 42776;
  42774; 42772; 42770; 42769; 42767; 42765; 42763; 42761; 42759; 42757; 42755; 42753; 42751; 42749; 42747; 42745; 42743; 42741;
  42739; 42737; 42735; 42733; 42731; 42730; 42728; 42726; 42724; 42722; 42720; 42718; 42716; 42714; 42712; 42710; 42708; 42706;
  42704; 42702; 42700; 42698; 42696; 42694; 42692; 42691; 42689; 42687; 42685; 42683; 42681; 42679; 42677; 42675; 42673; 42671;
  42669; 42667; 42665; 42663; 42661; 42659; 42657; 42656; 42654; 42652; 42650; 42648; 42646; 42644; 42642; 42640; 42638; 42636;
  42634; 42632; 42630; 42628; 42626; 42624; 42623; 42621; 42619; 42617; 42615; 42613; 42611; 42609; 42607; 42605; 42603; 42601;
  42599; 42597; 42595; 42593; 42591; 42590; 42588; 42586; 42584; 42582; 42580; 42578; 42576; 42574; 42572; 42570; 42568; 42566;
  42564; 42562; 42560; 42559; 42557; 42555; 42553; 42551; 42549; 42547; 42545; 42543; 42541; 42539; 42537; 42535; 42533; 42531;
  42529; 42528; 42526; 42524; 42522; 42520; 42518; 42516; 42514; 42512; 42510; 42508; 42506; 42504; 42502; 42500; 42499; 42497;
  42495; 42493; 42491; 42489; 42487; 42485; 42483; 42481; 42479; 42477; 42475; 42473; 42471; 42470; 42468; 42466; 42464; 42462;
  42460; 42458; 42456; 42454; 42452; 42450; 42448; 42446; 42444; 42443; 42441; 42439; 42437; 42435; 42433; 42431; 42429; 42427;
  42425; 42423; 42421; 42419; 42417; 42416; 42414; 42412; 42410; 42408; 42406; 42404; 42402; 42400; 42398; 42396; 42394; 42392;
  42390; 42389; 42387; 42385; 42383; 42381; 42379; 42377; 42375; 42373; 42371; 42369; 42367; 42365; 42364; 42362; 42360; 42358;
  42356; 42354; 42352; 42350; 42348; 42346; 42344; 42342; 42340; 42339; 42337; 42335; 42333; 42331; 42329; 42327; 42325; 42323;
  42321; 42319; 42317; 42315; 42314; 42312; 42310; 42308; 42306; 42304; 42302; 42300; 42298; 42296; 42294; 42292; 42291; 42289;
  42287; 42285; 42283; 42281; 42279; 42277; 42275; 42273; 42271; 42269; 42267; 42266; 42264; 42262; 42260; 42258; 42256; 42254;
  42252; 42250; 42248; 42246; 42244; 42243; 42241; 42239; 42237; 42235; 42233; 42231; 42229; 42227; 42225; 42223; 42221; 42220;
  42218; 42216; 42214; 42212; 42210; 42208; 42206; 42204; 42202; 42200; 42199; 42197; 42195; 42193; 42191; 42189; 42187; 42185;
  42183; 42181; 42179; 42178; 42176; 42174; 42172; 42170; 42168; 42166; 42164; 42162; 42160; 42158; 42156; 42155; 42153; 42151;
  42149; 42147; 42145; 42143; 42141; 42139; 42137; 42135; 42134; 42132; 42130; 42128; 42126; 42124; 42122; 42120; 42118; 42116;
  42114; 42113; 42111; 42109; 42107; 42105; 42103; 42101; 42099; 42097; 42095; 42094; 42092; 42090; 42088; 42086; 42084; 42082;
  42080; 42078; 42076; 42074; 42073; 42071; 42069; 42067; 42065; 42063; 42061; 42059; 42057; 42055; 42054; 42052; 42050; 42048;
  42046; 42044; 42042; 42040; 42038; 42036; 42035; 42033; 42031; 42029; 42027; 42025; 42023; 42021; 42019; 42017; 42015; 42014;
  42012; 42010; 42008; 42006; 42004; 42002; 42000; 41998; 41996; 41995; 41993; 41991; 41989; 41987; 41985; 41983; 41981; 41979;
  41978; 41976; 41974; 41972; 41970; 41968; 41966; 41964; 41962; 41960; 41959; 41957; 41955; 41953; 41951; 41949; 41947; 41945;
  41943; 41941; 41940; 41938; 41936; 41934; 41932; 41930; 41928; 41926; 41924; 41923; 41921; 41919; 41917; 41915; 41913; 41911;
  41909; 41907; 41905; 41904; 41902; 41900; 41898; 41896; 41894; 41892; 41890; 41888; 41887; 41885; 41883; 41881; 41879; 41877;
  41875; 41873; 41871; 41870; 41868; 41866; 41864; 41862; 41860; 41858; 41856; 41854; 41853; 41851; 41849; 41847; 41845; 41843;
  41841; 41839; 41837; 41835; 41834; 41832; 41830; 41828; 41826; 41824; 41822; 41820; 41819; 41817; 41815; 41813; 41811; 41809;
  41807; 41805; 41803; 41802; 41800; 41798; 41796; 41794; 41792; 41790; 41788; 41786; 41785; 41783; 41781; 41779; 41777; 41775;
  41773; 41771; 41769; 41768; 41766; 41764; 41762; 41760; 41758; 41756; 41754; 41753; 41751; 41749; 41747; 41745; 41743; 41741;
  41739; 41737; 41736; 41734; 41732; 41730; 41728; 41726; 41724; 41722; 41721; 41719; 41717; 41715; 41713; 41711; 41709; 41707;
  41705; 41704; 41702; 41700; 41698; 41696; 41694; 41692; 41690; 41689; 41687; 41685; 41683; 41681; 41679; 41677; 41675; 41674;
  41672; 41670; 41668; 41666; 41664; 41662; 41660; 41659; 41657; 41655; 41653; 41651; 41649; 41647; 41645; 41644; 41642; 41640;
  41638; 41636; 41634; 41632; 41630; 41629; 41627; 41625; 41623; 41621; 41619; 41617; 41615; 41614; 41612; 41610; 41608; 41606;
  41604; 41602; 41600; 41599; 41597; 41595; 41593; 41591; 41589; 41587; 41585; 41584; 41582; 41580; 41578; 41576; 41574; 41572;
  41570; 41569; 41567; 41565; 41563; 41561; 41559; 41557; 41555; 41554; 41552; 41550; 41548; 41546; 41544; 41542; 41541; 41539;
  41537; 41535; 41533; 41531; 41529; 41527; 41526; 41524; 41522; 41520; 41518; 41516; 41514; 41512; 41511; 41509; 41507; 41505;
  41503; 41501; 41499; 41498; 41496; 41494; 41492; 41490; 41488; 41486; 41484; 41483; 41481; 41479; 41477; 41475; 41473; 41471;
  41470; 41468; 41466; 41464; 41462; 41460; 41458; 41457; 41455; 41453; 41451; 41449; 41447; 41445; 41443; 41442; 41440; 41438].
Definition log_lut_17 : list Z := [
  41436; 41434; 41432; 41430; 41429; 41427; 41425; 41423; 41421; 41419; 41417; 41416; 41414; 41412; 41410; 41408; 41406; 41404;
  41403; 41401; 41399; 41397; 41395; 41393; 41391; 41390; 41388; 41386; 41384; 41382; 41380; 41378; 41377; 41375; 41373; 41371;
  41369; 41367; 41365; 41363; 41362; 41360; 41358; 41356; 41354; 41352; 41350; 41349; 41347; 41345; 41343; 41341; 41339; 41338;
  41336; 41334; 41332; 41330; 41328; 41326; 41325; 41323; 41321; 41319; 41317; 41315; 41313; 41312; 41310; 41308; 41306; 41304;
  41302; 41300; 41299; 41297; 41295; 41293; 41291; 41289; 41287; 41286; 41284; 41282; 41280; 41278; 41276; 41274; 41273; 41271;
  41269; 41267; 41265; 41263; 41262; 41260; 41258; 41256; 41254; 41252; 41250; 41249; 41247; 41245; 41243; 41241; 41239; 41237;
  41236; 41234; 41232; 41230; 41228; 41226; 41225; 41223; 41221; 41219; 41217; 41215; 41213; 41212; 41210; 41208; 41206; 41204;
  41202; 41200; 41199; 41197; 41195; 41193; 41191; 41189; 41188; 41186; 41184; 41182; 41180; 41178; 41176; 41175; 41173; 41171;
  41169; 41167; 41165; 41164; 41162; 41160; 41158; 41156; 41154; 41153; 41151; 41149; 41147; 41145; 41143; 41141; 41140; 41138;
  41136; 41134; 41132; 41130; 41129; 41127; 41125; 41123; 41121; 41119; 41118; 41116; 41114; 41112; 41110; 41108; 41106; 41105;
  41103; 41101; 41099; 41097; 41095; 41094; 41092; 41090; 41088; 41086; 41084; 41083; 41081; 41079; 41077; 41075; 41073; 41071;
  41070; 41068; 41066; 41064; 41062; 41060; 41059; 41057; 41055; 41053; 41051; 41049; 41048; 41046; 41044; 41042; 41040; 41038;
  41037; 41035; 41033; 41031; 41029; 41027; 41026; 41024; 41022; 41020; 41018; 41016; 41015; 41013; 41011; 41009; 41007; 41005;
  41004; 41002; 41000; 40998; 40996; 40994; 40993; 40991; 40989; 40987; 40985; 40983; 40982; 40980; 40978; 40976; 40974; 40972;
  40971; 40969; 40967; 40965; 40963; 40961; 40960; 40958; 40956; 40954; 40952; 40950; 40949; 40947; 40945; 40943; 40941; 40939;
  40938; 40936; 40934; 40932; 40930; 40928; 40927; 40925; 40923; 40921; 40919; 40917; 40916; 40914; 40912; 40910; 40908; 40907;
  40905; 40903; 40901; 40899; 40897; 40896; 40894; 40892; 40890; 40888; 40886; 40885; 40883; 40881; 40879; 40877; 40875; 40874;
  40872; 40870; 40868; 40866; 40864; 40863; 40861; 40859; 40857; 40855; 40854; 40852; 40850; 40848; 40846; 40844; 40843; 40841;
  40839; 40837; 40835; 40833; 40832; 40830; 40828; 40826; 40824; 40823; 40821; 40819; 40817; 40815; 40813; 40812; 40810; 40808;
  40806; 40804; 40802; 40801; 40799; 40797; 40795; 40793; 40792; 40790; 40788; 40786; 40784; 40782; 40781; 40779; 40777; 40775;
  40773; 40772; 40770; 40768; 40766; 40764; 40762; 40761; 40759; 40757; 40755; 40753; 40752; 40750; 40748; 40746; 40744; 40742;
  40741; 40739; 40737; 40735; 40733; 40732; 40730; 40728; 40726; 40724; 40722; 40721; 40719; 40717; 40715; 40713; 40712; 40710;
  40708; 40706; 40704; 40702; 40701; 40699; 40697; 40695; 40693; 40692; 40690; 40688; 40686; 40684; 40683; 40681; 40679; 40677;
  40675; 40673; 40672; 40670; 40668; 40666; 40664; 40663; 40661; 40659; 40657; 40655; 40654; 40652; 40650; 40648; 40646; 40644;
  40643; 40641; 40639; 40637; 40635; 40634; 40632; 40630; 40628; 40626; 40625; 40623; 40621; 40619; 40617; 40616; 40614; 40612;
  40610; 40608; 40606; 40605; 40603; 40601; 40599; 40597; 40596; 40594; 40592; 40590; 40588; 40587; 40585; 40583; 40581; 40579;
  40578; 40576; 40574; 40572; 40570; 40569; 40567; 40565; 40563; 40561; 40559; 40558; 40556; 40554; 40552; 40550; 40549; 40547;
  40545; 40543; 40541; 40540; 40538; 40536; 40534; 40532; 40531; 40529; 40527; 40525; 40523; 40522; 40520; 40518; 40516; 40514;
  40513; 40511; 40509; 40507; 40505; 40504; 40502; 40500; 40498; 40496; 40495; 40493; 40491; 40489; 40487; 40486; 40484; 40482;
  40480; 40478; 40477; 40475; 40473; 40471; 40469; 40468; 40466; 40464; 40462; 40460; 40459; 40457; 40455; 40453; 40451; 40450;
  40448; 40446; 40444; 40442; 40441; 40439; 40437; 40435; 40433; 40432; 40430; 40428; 40426; 40424; 40423; 40421; 40419; 40417;
  40415; 40414; 40412; 40410; 40408; 40406; 40405; 40403; 40401; 40399; 40397; 40396; 40394; 40392; 40390; 40388; 40387; 40385;
  40383; 40381; 40379; 40378; 40376; 40374; 40372; 40370; 40369; 40367; 40365; 40363; 40362; 40360; 40358; 40356; 40354; 40353;
  40351; 40349; 40347; 40345; 40344; 40342; 40340; 40338; 40336; 40335; 40333; 40331; 40329; 40327; 40326; 40324; 40322; 40320;
  40319; 40317; 40315; 40313; 40311; 40310; 40308; 40306; 40304; 40302; 40301; 40299; 40297; 40295; 40293; 40292; 40290; 40288;
  40286; 40285; 40283; 40281; 40279; 40277; 40276; 40274; 40272; 40270; 40268; 40267; 40265; 40263; 40261; 40259; 40258; 40256;
  40254; 40252; 40251; 40249; 40247; 40245; 40243; 40242; 40240; 40238; 40236; 40234; 40233; 40231; 40229; 40227; 40226; 40224;
  40222; 40220; 40218; 40217; 40215; 40213; 40211; 40209; 40208; 40206; 40204; 40202; 40201; 40199; 40197; 40195; 40193; 40192;
  40190; 40188; 40186; 40185; 40183; 40181; 40179; 40177; 40176; 40174; 40172; 40170; 40169; 40167; 40165; 40163; 40161; 40160;
  40158; 40156; 40154; 40152; 40151; 40149; 40147; 40145; 40144; 40142; 40140; 40138; 40136; 40135; 40133; 40131; 40129; 40128;
  40126; 40124; 40122; 40120; 40119; 40117; 40115; 40113; 40112; 40110; 40108; 40106; 40104; 40103; 40101; 40099; 40097; 40096;
  40094; 40092; 40090; 40088; 40087; 40085; 40083; 40081; 40080; 40078; 40076; 40074; 40072; 40071; 40069; 40067; 40065; 40064;
  40062; 40060; 40058; 40057; 40055; 40053; 40051; 40049; 40048; 40046; 40044; 40042; 40041; 40039; 40037; 40035; 40033; 40032;
  40030; 40028; 40026; 40025; 40023; 40021; 40019; 40018; 40016; 40014; 40012; 40010; 40009; 40007; 40005; 40003; 40002; 40000;
  39998; 39996; 39994; 39993; 39991; 39989; 39987; 39986; 39984; 39982; 39980; 39979; 39977; 39975; 39973; 39971; 39970; 39968;
  39966; 39964; 39963; 39961; 39959; 39957; 39956; 39954; 39952; 39950; 39948; 39947; 39945; 39943; 39941; 39940; 39938; 39936;
  39934; 39933; 39931; 39929; 39927; 39926; 39924; 39922; 39920; 39918; 39917; 39915; 39913; 39911; 39910; 39908; 39906; 39904;
  39903; 39901; 39899; 39897; 39896; 39894; 39892; 39890; 39888; 39887; 39885; 39883; 39881; 39880; 39878; 39876; 39874; 39873;
  39871; 39869; 39867; 39866; 39864; 39862; 39860; 39858; 39857; 39855; 39853; 39851; 39850; 39848; 39846; 39844; 39843; 39841;
  39839; 39837; 39836; 39834; 39832; 39830; 39829; 39827; 39825; 39823; 39822; 39820; 39818; 39816; 39814; 39813; 39811; 39809].
Definition log_lut_18 : list Z := [
  39807; 39806; 39804; 39802; 39800; 39799; 39797; 39795; 39793; 39792; 39790; 39788; 39786; 39785; 39783; 39781; 39779; 39778;
  39776; 39774; 39772; 39771; 39769; 39767; 39765; 39764; 39762; 39760; 39758; 39756; 39755; 39753; 39751; 39749; 39748; 39746;
  39744; 39742; 39741; 39739; 39737; 39735; 39734; 39732; 39730; 39728; 39727; 39725; 39723; 39721; 39720; 39718; 39716; 39714;
  39713; 39711; 39709; 39707; 39706; 39704; 39702; 39700; 39699; 39697; 39695; 39693; 39692; 39690; 39688; 39686; 39685; 39683;
  39681; 39679; 39678; 39676; 39674; 39672; 39671; 39669; 39667; 39665; 39664; 39662; 39660; 39658; 39657; 39655; 39653; 39651;
  39650; 39648; 39646; 39644; 39643; 39641; 39639; 39637; 39636; 39634; 39632; 39630; 39629; 39627; 39625; 39623; 39622; 39620;
  39618; 39616; 39615; 39613; 39611; 39609; 39608; 39606; 39604; 39602; 39601; 39599; 39597; 39595; 39594; 39592; 39590; 39588;
  39587; 39585; 39583; 39581; 39580; 39578; 39576; 39574; 39573; 39571; 39569; 39568; 39566; 39564; 39562; 39561; 39559; 39557;
  39555; 39554; 39552; 39550; 39548; 39547; 39545; 39543; 39541; 39540; 39538; 39536; 39534; 39533; 39531; 39529; 39527; 39526;
  39524; 39522; 39520; 39519; 39517; 39515; 39513; 39512; 39510; 39508; 39507; 39505; 39503; 39501; 39500; 39498; 39496; 39494;
  39493; 39491; 39489; 39487; 39486; 39484; 39482; 39480; 39479; 39477; 39475; 39473; 39472; 39470; 39468; 39467; 39465; 39463;
  39461; 39460; 39458; 39456; 39454; 39453; 39451; 39449; 39447; 39446; 39444; 39442; 39440; 39439; 39437; 39435; 39434; 39432;
  39430; 39428; 39427; 39425; 39423; 39421; 39420; 39418; 39416; 39414; 39413; 39411; 39409; 39408; 39406; 39404; 39402; 39401;
  39399; 39397; 39395; 39394; 39392; 39390; 39388; 39387; 39385; 39383; 39382; 39380; 39378; 39376; 39375; 39373; 39371; 39369;
  39368; 39366; 39364; 39362; 39361; 39359; 39357; 39356; 39354; 39352; 39350; 39349; 39347; 39345; 39343; 39342; 39340; 39338;
  39336; 39335; 39333; 39331; 39330; 39328; 39326; 39324; 39323; 39321; 39319; 39317; 39316; 39314; 39312; 39311; 39309; 39307;
  39305; 39304; 39302; 39300; 39298; 39297; 39295; 39293; 39292; 39290; 39288; 39286; 39285; 39283; 39281; 39279; 39278; 39276;
  39274; 39273; 39271; 39269; 39267; 39266; 39264; 39262; 39260; 39259; 39257; 39255; 39254; 39252; 39250; 39248; 39247; 39245;
  39243; 39242; 39240; 39238; 39236; 39235; 39233; 39231; 39229; 39228; 39226; 39224; 39223; 39221; 39219; 39217; 39216; 39214;
  39212; 39210; 39209; 39207; 39205; 39204; 39202; 39200; 39198; 39197; 39195; 39193; 39192; 39190; 39188; 39186; 39185; 39183;
  39181; 39180; 39178; 39176; 39174; 39173; 39171; 39169; 39167; 39166; 39164; 39162; 39161; 39159; 39157; 39155; 39154; 39152;
  39150; 39149; 39147; 39145; 39143; 39142; 39140; 39138; 39137; 39135; 39133; 39131; 39130; 39128; 39126; 39125; 39123; 39121;
  39119; 39118; 39116; 39114; 39112; 39111; 39109; 39107; 39106; 39104; 39102; 39100; 39099; 39097; 39095; 39094; 39092; 39090;
  39088; 39087; 39085; 39083; 39082; 39080; 39078; 39076; 39075; 39073; 39071; 39070; 39068; 39066; 39064; 39063; 39061; 39059;
  39058; 39056; 39054; 39052; 39051; 39049; 39047; 39046; 39044; 39042; 39040; 39039; 39037; 39035; 39034; 39032; 39030; 39029;
  39027; 39025; 39023; 39022; 39020; 39018; 39017; 39015; 39013; 39011; 39010; 39008; 39006; 39005; 39003; 39001; 38999; 38998;
  38996; 38994; 38993; 38991; 38989; 38987; 38986; 38984; 38982; 38981; 38979; 38977; 38976; 38974; 38972; 38970; 38969; 38967;
  38965; 38964; 38962; 38960; 38958; 38957; 38955; 38953; 38952; 38950; 38948; 38946; 38945; 38943; 38941; 38940; 38938; 38936;
  38935; 38933; 38931; 38929; 38928; 38926; 38924; 38923; 38921; 38919; 38917; 38916; 38914; 38912; 38911; 38909; 38907; 38906;
  38904; 38902; 38900; 38899; 38897; 38895; 38894; 38892; 38890; 38889; 38887; 38885; 38883; 38882; 38880; 38878; 38877; 38875;
  38873; 38872; 38870; 38868; 38866; 38865; 38863; 38861; 38860; 38858; 38856; 38854; 38853; 38851; 38849; 38848; 38846; 38844;
  38843; 38841; 38839; 38837; 38836; 38834; 38832; 38831; 38829; 38827; 38826; 38824; 38822; 38820; 38819; 38817; 38815; 38814;
  38812; 38810; 38809; 38807; 38805; 38804; 38802; 38800; 38798; 38797; 38795; 38793; 38792; 38790; 38788; 38787; 38785; 38783;
  38781; 38780; 38778; 38776; 38775; 38773; 38771; 38770; 38768; 38766; 38764; 38763; 38761; 38759; 38758; 38756; 38754; 38753;
  38751; 38749; 38748; 38746; 38744; 38742; 38741; 38739; 38737; 38736; 38734; 38732; 38731; 38729; 38727; 38726; 38724; 38722;
  38720; 38719; 38717; 38715; 38714; 38712; 38710; 38709; 38707; 38705; 38704; 38702; 38700; 38698; 38697; 38695; 38693; 38692;
  38690; 38688; 38687; 38685; 38683; 38682; 38680; 38678; 38676; 38675; 38673; 38671; 38670; 38668; 38666; 38665; 38663; 38661;
  38660; 38658; 38656; 38654; 38653; 38651; 38649; 38648; 38646; 38644; 38643; 38641; 38639; 38638; 38636; 38634; 38633; 38631;
  38629; 38627; 38626; 38624; 38622; 38621; 38619; 38617; 38616; 38614; 38612; 38611; 38609; 38607; 38606; 38604; 38602; 38601;
  38599; 38597; 38595; 38594; 38592; 38590; 38589; 38587; 38585; 38584; 38582; 38580; 38579; 38577; 38575; 38574; 38572; 38570;
  38568; 38567; 38565; 38563; 38562; 38560; 38558; 38557; 38555; 38553; 38552; 38550; 38548; 38547; 38545; 38543; 38542; 38540;
  38538; 38537; 38535; 38533; 38531; 38530; 38528; 38526; 38525; 38523; 38521; 38520; 38518; 38516; 38515; 38513; 38511; 38510;
  38508; 38506; 38505; 38503; 38501; 38500; 38498; 38496; 38495; 38493; 38491; 38489; 38488; 38486; 38484; 38483; 38481; 38479;
  38478; 38476; 38474; 38473; 38471; 38469; 38468; 38466; 38464; 38463; 38461; 38459; 38458; 38456; 38454; 38453; 38451; 38449;
  38448; 38446; 38444; 38442; 38441; 38439; 38437; 38436; 38434; 38432; 38431; 38429; 38427; 38426; 38424; 38422; 38421; 38419;
  38417; 38416; 38414; 38412; 38411; 38409; 38407; 38406; 38404; 38402; 38401; 38399; 38397; 38396; 38394; 38392; 38391; 38389;
  38387; 38386; 38384; 38382; 38381; 38379; 38377; 38376; 38374; 38372; 38370; 38369; 38367; 38365; 38364; 38362; 38360; 38359;
  38357; 38355; 38354; 38352; 38350; 38349; 38347; 38345; 38344; 38342; 38340; 38339; 38337; 38335; 38334; 38332; 38330; 38329;
  38327; 38325; 38324; 38322; 38320; 38319; 38317; 38315; 38314; 38312; 38310; 38309; 38307; 38305; 38304; 38302; 38300; 38299;
  38297; 38295; 38294; 38292; 38290; 38289; 38287; 38285; 38284; 38282; 38280; 38279; 38277; 38275; 38274; 38272; 38270; 38269].
Definition log_lut_19 : list Z := [
  38267; 38265; 38264; 38262; 38260; 38259; 38257; 38255; 38254; 38252; 38250; 38249; 38247; 38245; 38244; 38242; 38240; 38239;
  38237; 38235; 38234; 38232; 38230; 38229; 38227; 38225; 38224; 38222; 38220; 38219; 38217; 38215; 38214; 38212; 38210; 38209;
  38207; 38205; 38204; 38202; 38200; 38199; 38197; 38195; 38194; 38192; 38190; 38189; 38187; 38185; 38184; 38182; 38180; 38179;
  38177; 38176; 38174; 38172; 38171; 38169; 38167; 38166; 38164; 38162; 38161; 38159; 38157; 38156; 38154; 38152; 38151; 38149;
  38147; 38146; 38144; 38142; 38141; 38139; 38137; 38136; 38134; 38132; 38131; 38129; 38127; 38126; 38124; 38122; 38121; 38119;
  38117; 38116; 38114; 38112; 38111; 38109; 38108; 38106; 38104; 38103; 38101; 38099; 38098; 38096; 38094; 38093; 38091; 38089;
  38088; 38086; 38084; 38083; 38081; 38079; 38078; 38076; 38074; 38073; 38071; 38069; 38068; 38066; 38064; 38063; 38061; 38060;
  38058; 38056; 38055; 38053; 38051; 38050; 38048; 38046; 38045; 38043; 38041; 38040; 38038; 38036; 38035; 38033; 38031; 38030;
  38028; 38026; 38025; 38023; 38021; 38020; 38018; 38017; 38015; 38013; 38012; 38010; 38008; 38007; 38005; 38003; 38002; 38000;
  37998; 37997; 37995; 37993; 37992; 37990; 37988; 37987; 37985; 37984; 37982; 37980; 37979; 37977; 37975; 37974; 37972; 37970;
  37969; 37967; 37965; 37964; 37962; 37960; 37959; 37957; 37955; 37954; 37952; 37951; 37949; 37947; 37946; 37944; 37942; 37941;
  37939; 37937; 37936; 37934; 37932; 37931; 37929; 37927; 37926; 37924; 37923; 37921; 37919; 37918; 37916; 37914; 37913; 37911;
  37909; 37908; 37906; 37904; 37903; 37901; 37900; 37898; 37896; 37895; 37893; 37891; 37890; 37888; 37886; 37885; 37883; 37881;
  37880; 37878; 37876; 37875; 37873; 37872; 37870; 37868; 37867; 37865; 37863; 37862; 37860; 37858; 37857; 37855; 37853; 37852;
  37850; 37849; 37847; 37845; 37844; 37842; 37840; 37839; 37837; 37835; 37834; 37832; 37831; 37829; 37827; 37826; 37824; 37822;
  37821; 37819; 37817; 37816; 37814; 37812; 37811; 37809; 37808; 37806; 37804; 37803; 37801; 37799; 37798; 37796; 37794; 37793;
  37791; 37790; 37788; 37786; 37785; 37783; 37781; 37780; 37778; 37776; 37775; 37773; 37772; 37770; 37768; 37767; 37765; 37763;
  37762; 37760; 37758; 37757; 37755; 37754; 37752; 37750; 37749; 37747; 37745; 37744; 37742; 37740; 37739; 37737; 37736; 37734;
  37732; 37731; 37729; 37727; 37726; 37724; 37722; 37721; 37719; 37718; 37716; 37714; 37713; 37711; 37709; 37708; 37706; 37704;
  37703; 37701; 37700; 37698; 37696; 37695; 37693; 37691; 37690; 37688; 37686; 37685; 37683; 37682; 37680; 37678; 37677; 37675;
  37673; 37672; 37670; 37669; 37667; 37665; 37664; 37662; 37660; 37659; 37657; 37655; 37654; 37652; 37651; 37649; 37647; 37646;
  37644; 37642; 37641; 37639; 37638; 37636; 37634; 37633; 37631; 37629; 37628; 37626; 37625; 37623; 37621; 37620; 37618; 37616;
  37615; 37613; 37612; 37610; 37608; 37607; 37605; 37603; 37602; 37600; 37598; 37597; 37595; 37594; 37592; 37590; 37589; 37587;
  37585; 37584; 37582; 37581; 37579; 37577; 37576; 37574; 37572; 37571; 37569; 37568; 37566; 37564; 37563; 37561; 37559; 37558;
  37556; 37555; 37553; 37551; 37550; 37548; 37546; 37545; 37543; 37542; 37540; 37538; 37537; 37535; 37533; 37532; 37530; 37529;
  37527; 37525; 37524; 37522; 37520; 37519; 37517; 37516; 37514; 37512; 37511; 37509; 37507; 37506; 37504; 37503; 37501; 37499;
  37498; 37496; 37495; 37493; 37491; 37490; 37488; 37486; 37485; 37483; 37482; 37480; 37478; 37477; 37475; 37473; 37472; 37470;
  37469; 37467; 37465; 37464; 37462; 37460; 37459; 37457; 37456; 37454; 37452; 37451; 37449; 37448; 37446; 37444; 37443; 37441;
  37439; 37438; 37436; 37435; 37433; 37431; 37430; 37428; 37426; 37425; 37423; 37422; 37420; 37418; 37417; 37415; 37414; 37412;
  37410; 37409; 37407; 37405; 37404; 37402; 37401; 37399; 37397; 37396; 37394; 37393; 37391; 37389; 37388; 37386; 37384; 37383;
  37381; 37380; 37378; 37376; 37375; 37373; 37372; 37370; 37368; 37367; 37365; 37363; 37362; 37360; 37359; 37357; 37355; 37354;
  37352; 37351; 37349; 37347; 37346; 37344; 37343; 37341; 37339; 37338; 37336; 37334; 37333; 37331; 37330; 37328; 37326; 37325;
  37323; 37322; 37320; 37318; 37317; 37315; 37313; 37312; 37310; 37309; 37307; 37305; 37304; 37302; 37301; 37299; 37297; 37296;
  37294; 37293; 37291; 37289; 37288; 37286; 37285; 37283; 37281; 37280; 37278; 37276; 37275; 37273; 37272; 37270; 37268; 37267;
  37265; 37264; 37262; 37260; 37259; 37257; 37256; 37254; 37252; 37251; 37249; 37248; 37246; 37244; 37243; 37241; 37239; 37238;
  37236; 37235; 37233; 37231; 37230; 37228; 37227; 37225; 37223; 37222; 37220; 37219; 37217; 37215; 37214; 37212; 37211; 37209;
  37207; 37206; 37204; 37203; 37201; 37199; 37198; 37196; 37195; 37193; 37191; 37190; 37188; 37186; 37185; 37183; 37182; 37180;
  37178; 37177; 37175; 37174; 37172; 37170; 37169; 37167; 37166; 37164; 37162; 37161; 37159; 37158; 37156; 37154; 37153; 37151;
  37150; 37148; 37146; 37145; 37143; 37142; 37140; 37138; 37137; 37135; 37134; 37132; 37130; 37129; 37127; 37126; 37124; 37122;
  37121; 37119; 37118; 37116; 37114; 37113; 37111; 37110; 37108; 37106; 37105; 37103; 37102; 37100; 37098; 37097; 37095; 37094;
  37092; 37090; 37089; 37087; 37086; 37084; 37082; 37081; 37079; 37078; 37076; 37074; 37073; 37071; 37070; 37068; 37066; 37065;
  37063; 37062; 37060; 37058; 37057; 37055; 37054; 37052; 37050; 37049; 37047; 37046; 37044; 37042; 37041; 37039; 37038; 37036;
  37035; 37033; 37031; 37030; 37028; 37027; 37025; 37023; 37022; 37020; 37019; 37017; 37015; 37014; 37012; 37011; 37009; 37007;
  37006; 37004; 37003; 37001; 36999; 36998; 36996; 36995; 36993; 36991; 36990; 36988; 36987; 36985; 36984; 36982; 36980; 36979;
  36977; 36976; 36974; 36972; 36971; 36969; 36968; 36966; 36964; 36963; 36961; 36960; 36958; 36956; 36955; 36953; 36952; 36950;
  36948; 36947; 36945; 36944; 36942; 36941; 36939; 36937; 36936; 36934; 36933; 36931; 36929; 36928; 36926; 36925; 36923; 36921;
  36920; 36918; 36917; 36915; 36914; 36912; 36910; 36909; 36907; 36906; 36904; 36902; 36901; 36899; 36898; 36896; 36894; 36893;
  36891; 36890; 36888; 36887; 36885; 36883; 36882; 36880; 36879; 36877; 36875; 36874; 36872; 36871; 36869; 36867; 36866; 36864;
  36863; 36861; 36860; 36858; 36856; 36855; 36853; 36852; 36850; 36848; 36847; 36845; 36844; 36842; 36841; 36839; 36837; 36836;
  36834; 36833; 36831; 36829; 36828; 36826; 36825; 36823; 36822; 36820; 36818; 36817; 36815; 36814; 36812; 36810; 36809; 36807].
Definition log_lut_20 : list Z := [
  36806; 36804; 36803; 36801; 36799; 36798; 36796; 36795; 36793; 36791; 36790; 36788; 36787; 36785; 36784; 36782; 36780; 36779;
  36777; 36776; 36774; 36772; 36771; 36769; 36768; 36766; 36765; 36763; 36761; 36760; 36758; 36757; 36755; 36754; 36752; 36750;
  36749; 36747; 36746; 36744; 36742; 36741; 36739; 36738; 36736; 36735; 36733; 36731; 36730; 36728; 36727; 36725; 36724; 36722;
  36720; 36719; 36717; 36716; 36714; 36712; 36711; 36709; 36708; 36706; 36705; 36703; 36701; 36700; 36698; 36697; 36695; 36694;
  36692; 36690; 36689; 36687; 36686; 36684; 36682; 36681; 36679; 36678; 36676; 36675; 36673; 36671; 36670; 36668; 36667; 36665;
  36664; 36662; 36660; 36659; 36657; 36656; 36654; 36653; 36651; 36649; 36648; 36646; 36645; 36643; 36642; 36640; 36638; 36637;
  36635; 36634; 36632; 36631; 36629; 36627; 36626; 36624; 36623; 36621; 36620; 36618; 36616; 36615; 36613; 36612; 36610; 36609;
  36607; 36605; 36604; 36602; 36601; 36599; 36598; 36596; 36594; 36593; 36591; 36590; 36588; 36587; 36585; 36583; 36582; 36580;
  36579; 36577; 36576; 36574; 36572; 36571; 36569; 36568; 36566; 36565; 36563; 36561; 36560; 36558; 36557; 36555; 36554; 36552;
  36550; 36549; 36547; 36546; 36544; 36543; 36541; 36539; 36538; 36536; 36535; 36533; 36532; 36530; 36528; 36527; 36525; 36524;
  36522; 36521; 36519; 36518; 36516; 36514; 36513; 36511; 36510; 36508; 36507; 36505; 36503; 36502; 36500; 36499; 36497; 36496;
  36494; 36492; 36491; 36489; 36488; 36486; 36485; 36483; 36481; 36480; 36478; 36477; 36475; 36474; 36472; 36471; 36469; 36467;
  36466; 36464; 36463; 36461; 36460; 36458; 36456; 36455; 36453; 36452; 36450; 36449; 36447; 36446; 36444; 36442; 36441; 36439;
  36438; 36436; 36435; 36433; 36431; 36430; 36428; 36427; 36425; 36424; 36422; 36421; 36419; 36417; 36416; 36414; 36413; 36411;
  36410; 36408; 36406; 36405; 36403; 36402; 36400; 36399; 36397; 36396; 36394; 36392; 36391; 36389; 36388; 36386; 36385; 36383;
  36382; 36380; 36378; 36377; 36375; 36374; 36372; 36371; 36369; 36367; 36366; 36364; 36363; 36361; 36360; 36358; 36357; 36355;
  36353; 36352; 36350; 36349; 36347; 36346; 36344; 36343; 36341; 36339; 36338; 36336; 36335; 36333; 36332; 36330; 36329; 36327;
  36325; 36324; 36322; 36321; 36319; 36318; 36316; 36315; 36313; 36311; 36310; 36308; 36307; 36305; 36304; 36302; 36301; 36299;
  36297; 36296; 36294; 36293; 36291; 36290; 36288; 36287; 36285; 36283; 36282; 36280; 36279; 36277; 36276; 36274; 36273; 36271;
  36269; 36268; 36266; 36265; 36263; 36262; 36260; 36259; 36257; 36256; 36254; 36252; 36251; 36249; 36248; 36246; 36245; 36243;
  36242; 36240; 36238; 36237; 36235; 36234; 36232; 36231; 36229; 36228; 36226; 36224; 36223; 36221; 36220; 36218; 36217; 36215;
  36214; 36212; 36211; 36209; 36207; 36206; 36204; 36203; 36201; 36200; 36198; 36197; 36195; 36193; 36192; 36190; 36189; 36187;
  36186; 36184; 36183; 36181; 36180; 36178; 36176; 36175; 36173; 36172; 36170; 36169; 36167; 36166; 36164; 36163; 36161; 36159;
  36158; 36156; 36155; 36153; 36152; 36150; 36149; 36147; 36145; 36144; 36142; 36141; 36139; 36138; 36136; 36135; 36133; 36132;
  36130; 36128; 36127; 36125; 36124; 36122; 36121; 36119; 36118; 36116; 36115; 36113; 36111; 36110; 36108; 36107; 36105; 36104;
  36102; 36101; 36099; 36098; 36096; 36095; 36093; 36091; 36090; 36088; 36087; 36085; 36084; 36082; 36081; 36079; 36078; 36076;
  36074; 36073; 36071; 36070; 36068; 36067; 36065; 36064; 36062; 36061; 36059; 36057; 36056; 36054; 36053; 36051; 36050; 36048;
  36047; 36045; 36044; 36042; 36041; 36039; 36037; 36036; 36034; 36033; 36031; 36030; 36028; 36027; 36025; 36024; 36022; 36021;
  36019; 36017; 36016; 36014; 36013; 36011; 36010; 36008; 36007; 36005; 36004; 36002; 36001; 35999; 35997; 35996; 35994; 35993;
  35991; 35990; 35988; 35987; 35985; 35984; 35982; 35981; 35979; 35977; 35976; 35974; 35973; 35971; 35970; 35968; 35967; 35965;
  35964; 35962; 35961; 35959; 35957; 35956; 35954; 35953; 35951; 35950; 35948; 35947; 35945; 35944; 35942; 35941; 35939; 35937;
  35936; 35934; 35933; 35931; 35930; 35928; 35927; 35925; 35924; 35922; 35921; 35919; 35918; 35916; 35914; 35913; 35911; 35910;
  35908; 35907; 35905; 35904; 35902; 35901; 35899; 35898; 35896; 35895; 35893; 35891; 35890; 35888; 35887; 35885; 35884; 35882;
  35881; 35879; 35878; 35876; 35875; 35873; 35872; 35870; 35868; 35867; 35865; 35864; 35862; 35861; 35859; 35858; 35856; 35855;
  35853; 35852; 35850; 35849; 35847; 35846; 35844; 35842; 35841; 35839; 35838; 35836; 35835; 35833; 35832; 35830; 35829; 35827;
  35826; 35824; 35823; 35821; 35820; 35818; 35816; 35815; 35813; 35812; 35810; 35809; 35807; 35806; 35804; 35803; 35801; 35800;
  35798; 35797; 35795; 35794; 35792; 35790; 35789; 35787; 35786; 35784; 35783; 35781; 35780; 35778; 35777; 35775; 35774; 35772;
  35771; 35769; 35768; 35766; 35765; 35763; 35761; 35760; 35758; 35757; 35755; 35754; 35752; 35751; 35749; 35748; 35746; 35745;
  35743; 35742; 35740; 35739; 35737; 35736; 35734; 35733; 35731; 35729; 35728; 35726; 35725; 35723; 35722; 35720; 35719; 35717;
  35716; 35714; 35713; 35711; 35710; 35708; 35707; 35705; 35704; 35702; 35701; 35699; 35697; 35696; 35694; 35693; 35691; 35690;
  35688; 35687; 35685; 35684; 35682; 35681; 35679; 35678; 35676; 35675; 35673; 35672; 35670; 35669; 35667; 35666; 35664; 35662;
  35661; 35659; 35658; 35656; 35655; 35653; 35652; 35650; 35649; 35647; 35646; 35644; 35643; 35641; 35640; 35638; 35637; 35635;
  35634; 35632; 35631; 35629; 35628; 35626; 35625; 35623; 35621; 35620; 35618; 35617; 35615; 35614; 35612; 35611; 35609; 35608;
  35606; 35605; 35603; 35602; 35600; 35599; 35597; 35596; 35594; 35593; 35591; 35590; 35588; 35587; 35585; 35584; 35582; 35581;
  35579; 35577; 35576; 35574; 35573; 35571; 35570; 35568; 35567; 35565; 35564; 35562; 35561; 35559; 35558; 35556; 35555; 35553;
  35552; 35550; 35549; 35547; 35546; 35544; 35543; 35541; 35540; 35538; 35537; 35535; 35534; 35532; 35531; 35529; 35527; 35526;
  35524; 35523; 35521; 35520; 35518; 35517; 35515; 35514; 35512; 35511; 35509; 35508; 35506; 35505; 35503; 35502; 35500; 35499;
  35497; 35496; 35494; 35493; 35491; 35490; 35488; 35487; 35485; 35484; 35482; 35481; 35479; 35478; 35476; 35475; 35473; 35472;
  35470; 35469; 35467; 35466; 35464; 35463; 35461; 35459; 35458; 35456; 35455; 35453; 35452; 35450; 35449; 35447; 35446; 35444;
  35443; 35441; 35440; 35438; 35437; 35435; 35434; 35432; 35431; 35429; 35428; 35426; 35425; 35423; 35422; 35420; 35419; 35417].
Definition log_lut_21 : list Z := [
  35416; 35414; 35413; 35411; 35410; 35408; 35407; 35405; 35404; 35402; 35401; 35399; 35398; 35396; 35395; 35393; 35392; 35390;
  35389; 35387; 35386; 35384; 35383; 35381; 35380; 35378; 35377; 35375; 35374; 35372; 35371; 35369; 35368; 35366; 35365; 35363;
  35362; 35360; 35359; 35357; 35356; 35354; 35353; 35351; 35349; 35348; 35346; 35345; 35343; 35342; 35340; 35339; 35337; 35336;
  35334; 35333; 35331; 35330; 35328; 35327; 35325; 35324; 35322; 35321; 35319; 35318; 35316; 35315; 35313; 35312; 35310; 35309;
  35307; 35306; 35304; 35303; 35301; 35300; 35298; 35297; 35295; 35294; 35292; 35291; 35289; 35288; 35286; 35285; 35283; 35282;
  35280; 35279; 35277; 35276; 35274; 35273; 35271; 35270; 35268; 35267; 35265; 35264; 35262; 35261; 35259; 35258; 35256; 35255;
  35253; 35252; 35250; 35249; 35247; 35246; 35244; 35243; 35241; 35240; 35238; 35237; 35235; 35234; 35232; 35231; 35229; 35228;
  35226; 35225; 35223; 35222; 35220; 35219; 35217; 35216; 35214; 35213; 35211; 35210; 35208; 35207; 35205; 35204; 35203; 35201;
  35200; 35198; 35197; 35195; 35194; 35192; 35191; 35189; 35188; 35186; 35185; 35183; 35182; 35180; 35179; 35177; 35176; 35174;
  35173; 35171; 35170; 35168; 35167; 35165; 35164; 35162; 35161; 35159; 35158; 35156; 35155; 35153; 35152; 35150; 35149; 35147;
  35146; 35144; 35143; 35141; 35140; 35138; 35137; 35135; 35134; 35132; 35131; 35129; 35128; 35126; 35125; 35123; 35122; 35120;
  35119; 35117; 35116; 35114; 35113; 35111; 35110; 35108; 35107; 35105; 35104; 35102; 35101; 35099; 35098; 35096; 35095; 35094;
  35092; 35091; 35089; 35088; 35086; 35085; 35083; 35082; 35080; 35079; 35077; 35076; 35074; 35073; 35071; 35070; 35068; 35067;
  35065; 35064; 35062; 35061; 35059; 35058; 35056; 35055; 35053; 35052; 35050; 35049; 35047; 35046; 35044; 35043; 35041; 35040;
  35038; 35037; 35035; 35034; 35032; 35031; 35029; 35028; 35027; 35025; 35024; 35022; 35021; 35019; 35018; 35016; 35015; 35013;
  35012; 35010; 35009; 35007; 35006; 35004; 35003; 35001; 35000; 34998; 34997; 34995; 34994; 34992; 34991; 34989; 34988; 34986;
  34985; 34983; 34982; 34980; 34979; 34977; 34976; 34975; 34973; 34972; 34970; 34969; 34967; 34966; 34964; 34963; 34961; 34960;
  34958; 34957; 34955; 34954; 34952; 34951; 34949; 34948; 34946; 34945; 34943; 34942; 34940; 34939; 34937; 34936; 34934; 34933;
  34932; 34930; 34929; 34927; 34926; 34924; 34923; 34921; 34920; 34918; 34917; 34915; 34914; 34912; 34911; 34909; 34908; 34906;
  34905; 34903; 34902; 34900; 34899; 34897; 34896; 34895; 34893; 34892; 34890; 34889; 34887; 34886; 34884; 34883; 34881; 34880;
  34878; 34877; 34875; 34874; 34872; 34871; 34869; 34868; 34866; 34865; 34863; 34862; 34860; 34859; 34858; 34856; 34855; 34853;
  34852; 34850; 34849; 34847; 34846; 34844; 34843; 34841; 34840; 34838; 34837; 34835; 34834; 34832; 34831; 34829; 34828; 34827;
  34825; 34824; 34822; 34821; 34819; 34818; 34816; 34815; 34813; 34812; 34810; 34809; 34807; 34806; 34804; 34803; 34801; 34800;
  34798; 34797; 34796; 34794; 34793; 34791; 34790; 34788; 34787; 34785; 34784; 34782; 34781; 34779; 34778; 34776; 34775; 34773;
  34772; 34770; 34769; 34768; 34766; 34765; 34763; 34762; 34760; 34759; 34757; 34756; 34754; 34753; 34751; 34750; 34748; 34747;
  34745; 34744; 34742; 34741; 34740; 34738; 34737; 34735; 34734; 34732; 34731; 34729; 34728; 34726; 34725; 34723; 34722; 34720;
  34719; 34717; 34716; 34715; 34713; 34712; 34710; 34709; 34707; 34706; 34704; 34703; 34701; 34700; 34698; 34697; 34695; 34694;
  34692; 34691; 34690; 34688; 34687; 34685; 34684; 34682; 34681; 34679; 34678; 34676; 34675; 34673; 34672; 34670; 34669; 34668;
  34666; 34665; 34663; 34662; 34660; 34659; 34657; 34656; 34654; 34653; 34651; 34650; 34648; 34647; 34645; 34644; 34643; 34641;
  34640; 34638; 34637; 34635; 34634; 34632; 34631; 34629; 34628; 34626; 34625; 34623; 34622; 34621; 34619; 34618; 34616; 34615;
  34613; 34612; 34610; 34609; 34607; 34606; 34604; 34603; 34602; 34600; 34599; 34597; 34596; 34594; 34593; 34591; 34590; 34588;
  34587; 34585; 34584; 34582; 34581; 34580; 34578; 34577; 34575; 34574; 34572; 34571; 34569; 34568; 34566; 34565; 34563; 34562;
  34561; 34559; 34558; 34556; 34555; 34553; 34552; 34550; 34549; 34547; 34546; 34544; 34543; 34542; 34540; 34539; 34537; 34536;
  34534; 34533; 34531; 34530; 34528; 34527; 34525; 34524; 34523; 34521; 34520; 34518; 34517; 34515; 34514; 34512; 34511; 34509;
  34508; 34506; 34505; 34504; 34502; 34501; 34499; 34498; 34496; 34495; 34493; 34492; 34490; 34489; 34487; 34486; 34485; 34483;
  34482; 34480; 34479; 34477; 34476; 34474; 34473; 34471; 34470; 34469; 34467; 34466; 34464; 34463; 34461; 34460; 34458; 34457;
  34455; 34454; 34452; 34451; 34450; 34448; 34447; 34445; 34444; 34442; 34441; 34439; 34438; 34436; 34435; 34434; 34432; 34431;
  34429; 34428; 34426; 34425; 34423; 34422; 34420; 34419; 34418; 34416; 34415; 34413; 34412; 34410; 34409; 34407; 34406; 34404;
  34403; 34402; 34400; 34399; 34397; 34396; 34394; 34393; 34391; 34390; 34388; 34387; 34386; 34384; 34383; 34381; 34380; 34378;
  34377; 34375; 34374; 34372; 34371; 34370; 34368; 34367; 34365; 34364; 34362; 34361; 34359; 34358; 34356; 34355; 34354; 34352;
  34351; 34349; 34348; 34346; 34345; 34343; 34342; 34341; 34339; 34338; 34336; 34335; 34333; 34332; 34330; 34329; 34327; 34326;
  34325; 34323; 34322; 34320; 34319; 34317; 34316; 34314; 34313; 34312; 34310; 34309; 34307; 34306; 34304; 34303; 34301; 34300;
  34298; 34297; 34296; 34294; 34293; 34291; 34290; 34288; 34287; 34285; 34284; 34283; 34281; 34280; 34278; 34277; 34275; 34274;
  34272; 34271; 34269; 34268; 34267; 34265; 34264; 34262; 34261; 34259; 34258; 34256; 34255; 34254; 34252; 34251; 34249; 34248;
  34246; 34245; 34243; 34242; 34241; 34239; 34238; 34236; 34235; 34233; 34232; 34230; 34229; 34228; 34226; 34225; 34223; 34222;
  34220; 34219; 34217; 34216; 34215; 34213; 34212; 34210; 34209; 34207; 34206; 34204; 34203; 34202; 34200; 34199; 34197; 34196;
  34194; 34193; 34191; 34190; 34189; 34187; 34186; 34184; 34183; 34181; 34180; 34178; 34177; 34176; 34174; 34173; 34171; 34170;
  34168; 34167; 34165; 34164; 34163; 34161; 34160; 34158; 34157; 34155; 34154; 34152; 34151; 34150; 34148; 34147; 34145; 34144;
  34142; 34141; 34139; 34138; 34137; 34135; 34134; 34132; 34131; 34129; 34128; 34127; 34125; 34124; 34122; 34121; 34119; 34118;
  34116; 34115; 34114; 34112; 34111; 34109; 34108; 34106; 34105; 34103; 34102; 34101; 34099; 34098; 34096; 34095; 34093; 34092].
Definition log_lut_22 : list Z := [
  34091; 34089; 34088; 34086; 34085; 34083; 34082; 34080; 34079; 34078; 34076; 34075; 34073; 34072; 34070; 34069; 34068; 34066;
  34065; 34063; 34062; 34060; 34059; 34057; 34056; 34055; 34053; 34052; 34050; 34049; 34047; 34046; 34045; 34043; 34042; 34040;
  34039; 34037; 34036; 34034; 34033; 34032; 34030; 34029; 34027; 34026; 34024; 34023; 34022; 34020; 34019; 34017; 34016; 34014;
  34013; 34012; 34010; 34009; 34007; 34006; 34004; 34003; 34001; 34000; 33999; 33997; 33996; 33994; 33993; 33991; 33990; 33989;
  33987; 33986; 33984; 33983; 33981; 33980; 33979; 33977; 33976; 33974; 33973; 33971; 33970; 33968; 33967; 33966; 33964; 33963;
  33961; 33960; 33958; 33957; 33956; 33954; 33953; 33951; 33950; 33948; 33947; 33946; 33944; 33943; 33941; 33940; 33938; 33937;
  33936; 33934; 33933; 33931; 33930; 33928; 33927; 33926; 33924; 33923; 33921; 33920; 33918; 33917; 33916; 33914; 33913; 33911;
  33910; 33908; 33907; 33906; 33904; 33903; 33901; 33900; 33898; 33897; 33896; 33894; 33893; 33891; 33890; 33888; 33887; 33886;
  33884; 33883; 33881; 33880; 33878; 33877; 33876; 33874; 33873; 33871; 33870; 33868; 33867; 33866; 33864; 33863; 33861; 33860;
  33858; 33857; 33856; 33854; 33853; 33851; 33850; 33848; 33847; 33846; 33844; 33843; 33841; 33840; 33838; 33837; 33836; 33834;
  33833; 33831; 33830; 33828; 33827; 33826; 33824; 33823; 33821; 33820; 33818; 33817; 33816; 33814; 33813; 33811; 33810; 33809;
  33807; 33806; 33804; 33803; 33801; 33800; 33799; 33797; 33796; 33794; 33793; 33791; 33790; 33789; 33787; 33786; 33784; 33783;
  33781; 33780; 33779; 33777; 33776; 33774; 33773; 33771; 33770; 33769; 33767; 33766; 33764; 33763; 33762; 33760; 33759; 33757;
  33756; 33754; 33753; 33752; 33750; 33749; 33747; 33746; 33744; 33743; 33742; 33740; 33739; 33737; 33736; 33735; 33733; 33732;
  33730; 33729; 33727; 33726; 33725; 33723; 33722; 33720; 33719; 33717; 33716; 33715; 33713; 33712; 33710; 33709; 33708; 33706;
  33705; 33703; 33702; 33700; 33699; 33698; 33696; 33695; 33693; 33692; 33691; 33689; 33688; 33686; 33685; 33683; 33682; 33681;
  33679; 33678; 33676; 33675; 33673; 33672; 33671; 33669; 33668; 33666; 33665; 33664; 33662; 33661; 33659; 33658; 33656; 33655;
  33654; 33652; 33651; 33649; 33648; 33647; 33645; 33644; 33642; 33641; 33639; 33638; 33637; 33635; 33634; 33632; 33631; 33630;
  33628; 33627; 33625; 33624; 33622; 33621; 33620; 33618; 33617; 33615; 33614; 33613; 33611; 33610; 33608; 33607; 33606; 33604;
  33603; 33601; 33600; 33598; 33597; 33596; 33594; 33593; 33591; 33590; 33589; 33587; 33586; 33584; 33583; 33581; 33580; 33579;
  33577; 33576; 33574; 33573; 33572; 33570; 33569; 33567; 33566; 33565; 33563; 33562; 33560; 33559; 33557; 33556; 33555; 33553;
  33552; 33550; 33549; 33548; 33546; 33545; 33543; 33542; 33541; 33539; 33538; 33536; 33535; 33533; 33532; 33531; 33529; 33528;
  33526; 33525; 33524; 33522; 33521; 33519; 33518; 33517; 33515; 33514; 33512; 33511; 33510; 33508; 33507; 33505; 33504; 33502;
  33501; 33500; 33498; 33497; 33495; 33494; 33493; 33491; 33490; 33488; 33487; 33486; 33484; 33483; 33481; 33480; 33479; 33477;
  33476; 33474; 33473; 33471; 33470; 33469; 33467; 33466; 33464; 33463; 33462; 33460; 33459; 33457; 33456; 33455; 33453; 33452;
  33450; 33449; 33448; 33446; 33445; 33443; 33442; 33441; 33439; 33438; 33436; 33435; 33433; 33432; 33431; 33429; 33428; 33426;
  33425; 33424; 33422; 33421; 33419; 33418; 33417; 33415; 33414; 33412; 33411; 33410; 33408; 33407; 33405; 33404; 33403; 33401;
  33400; 33398; 33397; 33396; 33394; 33393; 33391; 33390; 33389; 33387; 33386; 33384; 33383; 33382; 33380; 33379; 33377; 33376;
  33375; 33373; 33372; 33370; 33369; 33367; 33366; 33365; 33363; 33362; 33360; 33359; 33358; 33356; 33355; 33353; 33352; 33351;
  33349; 33348; 33346; 33345; 33344; 33342; 33341; 33339; 33338; 33337; 33335; 33334; 33332; 33331; 33330; 33328; 33327; 33325;
  33324; 33323; 33321; 33320; 33318; 33317; 33316; 33314; 33313; 33311; 33310; 33309; 33307; 33306; 33304; 33303; 33302; 33300;
  33299; 33297; 33296; 33295; 33293; 33292; 33290; 33289; 33288; 33286; 33285; 33283; 33282; 33281; 33279; 33278; 33276; 33275;
  33274; 33272; 33271; 33269; 33268; 33267; 33265; 33264; 33262; 33261; 33260; 33258; 33257; 33255; 33254; 33253; 33251; 33250;
  33249; 33247; 33246; 33244; 33243; 33242; 33240; 33239; 33237; 33236; 33235; 33233; 33232; 33230; 33229; 33228; 33226; 33225;
  33223; 33222; 33221; 33219; 33218; 33216; 33215; 33214; 33212; 33211; 33209; 33208; 33207; 33205; 33204; 33202; 33201; 33200;
  33198; 33197; 33195; 33194; 33193; 33191; 33190; 33189; 33187; 33186; 33184; 33183; 33182; 33180; 33179; 33177; 33176; 33175;
  33173; 33172; 33170; 33169; 33168; 33166; 33165; 33163; 33162; 33161; 33159; 33158; 33156; 33155; 33154; 33152; 33151; 33150;
  33148; 33147; 33145; 33144; 33143; 33141; 33140; 33138; 33137; 33136; 33134; 33133; 33131; 33130; 33129; 33127; 33126; 33124;
  33123; 33122; 33120; 33119; 33118; 33116; 33115; 33113; 33112; 33111; 33109; 33108; 33106; 33105; 33104; 33102; 33101; 33099;
  33098; 33097; 33095; 33094; 33093; 33091; 33090; 33088; 33087; 33086; 33084; 33083; 33081; 33080; 33079; 33077; 33076; 33074;
  33073; 33072; 33070; 33069; 33068; 33066; 33065; 33063; 33062; 33061; 33059; 33058; 33056; 33055; 33054; 33052; 33051; 33049;
  33048; 33047; 33045; 33044; 33043; 33041; 33040; 33038; 33037; 33036; 33034; 33033; 33031; 33030; 33029; 33027; 33026; 33025;
  33023; 33022; 33020; 33019; 33018; 33016; 33015; 33013; 33012; 33011; 33009; 33008; 33007; 33005; 33004; 33002; 33001; 33000;
  32998; 32997; 32995; 32994; 32993; 32991; 32990; 32989; 32987; 32986; 32984; 32983; 32982; 32980; 32979; 32977; 32976; 32975;
  32973; 32972; 32971; 32969; 32968; 32966; 32965; 32964; 32962; 32961; 32959; 32958; 32957; 32955; 32954; 32953; 32951; 32950;
  32948; 32947; 32946; 32944; 32943; 32941; 32940; 32939; 32937; 32936; 32935; 32933; 32932; 32930; 32929; 32928; 32926; 32925;
  32924; 32922; 32921; 32919; 32918; 32917; 32915; 32914; 32912; 32911; 32910; 32908; 32907; 32906; 32904; 32903; 32901; 32900;
  32899; 32897; 32896; 32895; 32893; 32892; 32890; 32889; 32888; 32886; 32885; 32884; 32882; 32881; 32879; 32878; 32877; 32875;
  32874; 32872; 32871; 32870; 32868; 32867; 32866; 32864; 32863; 32861; 32860; 32859; 32857; 32856; 32855; 32853; 32852; 32850;
  32849; 32848; 32846; 32845; 32844; 32842; 32841; 32839; 32838; 32837; 32835; 32834; 32833; 32831; 32830; 32828; 32827; 32826].
Definition log_lut_23 : list Z := [
  32824; 32823; 32822; 32820; 32819; 32817; 32816; 32815; 32813; 32812; 32811; 32809; 32808; 32806; 32805; 32804; 32802; 32801;
  32800; 32798; 32797; 32795; 32794; 32793; 32791; 32790; 32789; 32787; 32786; 32784; 32783; 32782; 32780; 32779; 32778; 32776;
  32775; 32773; 32772; 32771; 32769; 32768; 32767; 32765; 32764; 32762; 32761; 32760; 32758; 32757; 32756; 32754; 32753; 32751;
  32750; 32749; 32747; 32746; 32745; 32743; 32742; 32740; 32739; 32738; 32736; 32735; 32734; 32732; 32731; 32729; 32728; 32727;
  32725; 32724; 32723; 32721; 32720; 32719; 32717; 32716; 32714; 32713; 32712; 32710; 32709; 32708; 32706; 32705; 32703; 32702;
  32701; 32699; 32698; 32697; 32695; 32694; 32692; 32691; 32690; 32688; 32687; 32686; 32684; 32683; 32682; 32680; 32679; 32677;
  32676; 32675; 32673; 32672; 32671; 32669; 32668; 32666; 32665; 32664; 32662; 32661; 32660; 32658; 32657; 32656; 32654; 32653;
  32651; 32650; 32649; 32647; 32646; 32645; 32643; 32642; 32640; 32639; 32638; 32636; 32635; 32634; 32632; 32631; 32630; 32628;
  32627; 32625; 32624; 32623; 32621; 32620; 32619; 32617; 32616; 32615; 32613; 32612; 32610; 32609; 32608; 32606; 32605; 32604;
  32602; 32601; 32599; 32598; 32597; 32595; 32594; 32593; 32591; 32590; 32589; 32587; 32586; 32584; 32583; 32582; 32580; 32579;
  32578; 32576; 32575; 32574; 32572; 32571; 32569; 32568; 32567; 32565; 32564; 32563; 32561; 32560; 32559; 32557; 32556; 32554;
  32553; 32552; 32550; 32549; 32548; 32546; 32545; 32544; 32542; 32541; 32539; 32538; 32537; 32535; 32534; 32533; 32531; 32530;
  32529; 32527; 32526; 32524; 32523; 32522; 32520; 32519; 32518; 32516; 32515; 32514; 32512; 32511; 32510; 32508; 32507; 32505;
  32504; 32503; 32501; 32500; 32499; 32497; 32496; 32495; 32493; 32492; 32490; 32489; 32488; 32486; 32485; 32484; 32482; 32481;
  32480; 32478; 32477; 32476; 32474; 32473; 32471; 32470; 32469; 32467; 32466; 32465; 32463; 32462; 32461; 32459; 32458; 32456;
  32455; 32454; 32452; 32451; 32450; 32448; 32447; 32446; 32444; 32443; 32442; 32440; 32439; 32437; 32436; 32435; 32433; 32432;
  32431; 32429; 32428; 32427; 32425; 32424; 32423; 32421; 32420; 32418; 32417; 32416; 32414; 32413; 32412; 32410; 32409; 32408;
  32406; 32405; 32404; 32402; 32401; 32399; 32398; 32397; 32395; 32394; 32393; 32391; 32390; 32389; 32387; 32386; 32385; 32383;
  32382; 32381; 32379; 32378; 32376; 32375; 32374; 32372; 32371; 32370; 32368; 32367; 32366; 32364; 32363; 32362; 32360; 32359;
  32358; 32356; 32355; 32353; 32352; 32351; 32349; 32348; 32347; 32345; 32344; 32343; 32341; 32340; 32339; 32337; 32336; 32334;
  32333; 32332; 32330; 32329; 32328; 32326; 32325; 32324; 32322; 32321; 32320; 32318; 32317; 32316; 32314; 32313; 32312; 32310;
  32309; 32307; 32306; 32305; 32303; 32302; 32301; 32299; 32298; 32297; 32295; 32294; 32293; 32291; 32290; 32289; 32287; 32286;
  32284; 32283; 32282; 32280; 32279; 32278; 32276; 32275; 32274; 32272; 32271; 32270; 32268; 32267; 32266; 32264; 32263; 32262;
  32260; 32259; 32258; 32256; 32255; 32253; 32252; 32251; 32249; 32248; 32247; 32245; 32244; 32243; 32241; 32240; 32239; 32237;
  32236; 32235; 32233; 32232; 32231; 32229; 32228; 32226; 32225; 32224; 32222; 32221; 32220; 32218; 32217; 32216; 32214; 32213;
  32212; 32210; 32209; 32208; 32206; 32205; 32204; 32202; 32201; 32200; 32198; 32197; 32196; 32194; 32193; 32191; 32190; 32189;
  32187; 32186; 32185; 32183; 32182; 32181; 32179; 32178; 32177; 32175; 32174; 32173; 32171; 32170; 32169; 32167; 32166; 32165;
  32163; 32162; 32161; 32159; 32158; 32157; 32155; 32154; 32152; 32151; 32150; 32148; 32147; 32146; 32144; 32143; 32142; 32140;
  32139; 32138; 32136; 32135; 32134; 32132; 32131; 32130; 32128; 32127; 32126; 32124; 32123; 32122; 32120; 32119; 32118; 32116;
  32115; 32114; 32112; 32111; 32110; 32108; 32107; 32105; 32104; 32103; 32101; 32100; 32099; 32097; 32096; 32095; 32093; 32092;
  32091; 32089; 32088; 32087; 32085; 32084; 32083; 32081; 32080; 32079; 32077; 32076; 32075; 32073; 32072; 32071; 32069; 32068;
  32067; 32065; 32064; 32063; 32061; 32060; 32059; 32057; 32056; 32055; 32053; 32052; 32051; 32049; 32048; 32046; 32045; 32044;
  32042; 32041; 32040; 32038; 32037; 32036; 32034; 32033; 32032; 32030; 32029; 32028; 32026; 32025; 32024; 32022; 32021; 32020;
  32018; 32017; 32016; 32014; 32013; 32012; 32010; 32009; 32008; 32006; 32005; 32004; 32002; 32001; 32000; 31998; 31997; 31996;
  31994; 31993; 31992; 31990; 31989; 31988; 31986; 31985; 31984; 31982; 31981; 31980; 31978; 31977; 31976; 31974; 31973; 31972;
  31970; 31969; 31968; 31966; 31965; 31964; 31962; 31961; 31960; 31958; 31957; 31956; 31954; 31953; 31952; 31950; 31949; 31948;
  31946; 31945; 31944; 31942; 31941; 31940; 31938; 31937; 31936; 31934; 31933; 31932; 31930; 31929; 31928; 31926; 31925; 31924;
  31922; 31921; 31920; 31918; 31917; 31916; 31914; 31913; 31912; 31910; 31909; 31908; 31906; 31905; 31904; 31902; 31901; 31900;
  31898; 31897; 31896; 31894; 31893; 31892; 31890; 31889; 31888; 31886; 31885; 31884; 31882; 31881; 31880; 31878; 31877; 31876;
  31874; 31873; 31872; 31870; 31869; 31868; 31866; 31865; 31864; 31862; 31861; 31860; 31858; 31857; 31856; 31854; 31853; 31852;
  31850; 31849; 31848; 31846; 31845; 31844; 31842; 31841; 31840; 31838; 31837; 31836; 31834; 31833; 31832; 31830; 31829; 31828;
  31826; 31825; 31824; 31822; 31821; 31820; 31818; 31817; 31816; 31814; 31813; 31812; 31810; 31809; 31808; 31806; 31805; 31804;
  31803; 31801; 31800; 31799; 31797; 31796; 31795; 31793; 31792; 31791; 31789; 31788; 31787; 31785; 31784; 31783; 31781; 31780;
  31779; 31777; 31776; 31775; 31773; 31772; 31771; 31769; 31768; 31767; 31765; 31764; 31763; 31761; 31760; 31759; 31757; 31756;
  31755; 31753; 31752; 31751; 31749; 31748; 31747; 31745; 31744; 31743; 31742; 31740; 31739; 31738; 31736; 31735; 31734; 31732;
  31731; 31730; 31728; 31727; 31726; 31724; 31723; 31722; 31720; 31719; 31718; 31716; 31715; 31714; 31712; 31711; 31710; 31708;
  31707; 31706; 31704; 31703; 31702; 31700; 31699; 31698; 31697; 31695; 31694; 31693; 31691; 31690; 31689; 31687; 31686; 31685;
  31683; 31682; 31681; 31679; 31678; 31677; 31675; 31674; 31673; 31671; 31670; 31669; 31667; 31666; 31665; 31663; 31662; 31661;
  31659; 31658; 31657; 31656; 31654; 31653; 31652; 31650; 31649; 31648; 31646; 31645; 31644; 31642; 31641; 31640; 31638; 31637;
  31636; 31634; 31633; 31632; 31630; 31629; 31628; 31626; 31625; 31624; 31623; 31621; 31620; 31619; 31617; 31616; 31615; 31613].
Definition log_lut_24 : list Z := [
  31612; 31611; 31609; 31608; 31607; 31605; 31604; 31603; 31601; 31600; 31599; 31597; 31596; 31595; 31594; 31592; 31591; 31590;
  31588; 31587; 31586; 31584; 31583; 31582; 31580; 31579; 31578; 31576; 31575; 31574; 31572; 31571; 31570; 31568; 31567; 31566;
  31565; 31563; 31562; 31561; 31559; 31558; 31557; 31555; 31554; 31553; 31551; 31550; 31549; 31547; 31546; 31545; 31543; 31542;
  31541; 31540; 31538; 31537; 31536; 31534; 31533; 31532; 31530; 31529; 31528; 31526; 31525; 31524; 31522; 31521; 31520; 31519;
  31517; 31516; 31515; 31513; 31512; 31511; 31509; 31508; 31507; 31505; 31504; 31503; 31501; 31500; 31499; 31497; 31496; 31495;
  31494; 31492; 31491; 31490; 31488; 31487; 31486; 31484; 31483; 31482; 31480; 31479; 31478; 31476; 31475; 31474; 31473; 31471;
  31470; 31469; 31467; 31466; 31465; 31463; 31462; 31461; 31459; 31458; 31457; 31455; 31454; 31453; 31452; 31450; 31449; 31448;
  31446; 31445; 31444; 31442; 31441; 31440; 31438; 31437; 31436; 31435; 31433; 31432; 31431; 31429; 31428; 31427; 31425; 31424;
  31423; 31421; 31420; 31419; 31417; 31416; 31415; 31414; 31412; 31411; 31410; 31408; 31407; 31406; 31404; 31403; 31402; 31400;
  31399; 31398; 31397; 31395; 31394; 31393; 31391; 31390; 31389; 31387; 31386; 31385; 31383; 31382; 31381; 31380; 31378; 31377;
  31376; 31374; 31373; 31372; 31370; 31369; 31368; 31366; 31365; 31364; 31363; 31361; 31360; 31359; 31357; 31356; 31355; 31353;
  31352; 31351; 31349; 31348; 31347; 31346; 31344; 31343; 31342; 31340; 31339; 31338; 31336; 31335; 31334; 31332; 31331; 31330;
  31329; 31327; 31326; 31325; 31323; 31322; 31321; 31319; 31318; 31317; 31315; 31314; 31313; 31312; 31310; 31309; 31308; 31306;
  31305; 31304; 31302; 31301; 31300; 31299; 31297; 31296; 31295; 31293; 31292; 31291; 31289; 31288; 31287; 31285; 31284; 31283;
  31282; 31280; 31279; 31278; 31276; 31275; 31274; 31272; 31271; 31270; 31269; 31267; 31266; 31265; 31263; 31262; 31261; 31259;
  31258; 31257; 31256; 31254; 31253; 31252; 31250; 31249; 31248; 31246; 31245; 31244; 31243; 31241; 31240; 31239; 31237; 31236;
  31235; 31233; 31232; 31231; 31229; 31228; 31227; 31226; 31224; 31223; 31222; 31220; 31219; 31218; 31216; 31215; 31214; 31213;
  31211; 31210; 31209; 31207; 31206; 31205; 31203; 31202; 31201; 31200; 31198; 31197; 31196; 31194; 31193; 31192; 31190; 31189;
  31188; 31187; 31185; 31184; 31183; 31181; 31180; 31179; 31177; 31176; 31175; 31174; 31172; 31171; 31170; 31168; 31167; 31166;
  31165; 31163; 31162; 31161; 31159; 31158; 31157; 31155; 31154; 31153; 31152; 31150; 31149; 31148; 31146; 31145; 31144; 31142;
  31141; 31140; 31139; 31137; 31136; 31135; 31133; 31132; 31131; 31129; 31128; 31127; 31126; 31124; 31123; 31122; 31120; 31119;
  31118; 31117; 31115; 31114; 31113; 31111; 31110; 31109; 31107; 31106; 31105; 31104; 31102; 31101; 31100; 31098; 31097; 31096;
  31094; 31093; 31092; 31091; 31089; 31088; 31087; 31085; 31084; 31083; 31082; 31080; 31079; 31078; 31076; 31075; 31074; 31072;
  31071; 31070; 31069; 31067; 31066; 31065; 31063; 31062; 31061; 31060; 31058; 31057; 31056; 31054; 31053; 31052; 31051; 31049;
  31048; 31047; 31045; 31044; 31043; 31041; 31040; 31039; 31038; 31036; 31035; 31034; 31032; 31031; 31030; 31029; 31027; 31026;
  31025; 31023; 31022; 31021; 31019; 31018; 31017; 31016; 31014; 31013; 31012; 31010; 31009; 31008; 31007; 31005; 31004; 31003;
  31001; 31000; 30999; 30998; 30996; 30995; 30994; 30992; 30991; 30990; 30989; 30987; 30986; 30985; 30983; 30982; 30981; 30979;
  30978; 30977; 30976; 30974; 30973; 30972; 30970; 30969; 30968; 30967; 30965; 30964; 30963; 30961; 30960; 30959; 30958; 30956;
  30955; 30954; 30952; 30951; 30950; 30949; 30947; 30946; 30945; 30943; 30942; 30941; 30940; 30938; 30937; 30936; 30934; 30933;
  30932; 30931; 30929; 30928; 30927; 30925; 30924; 30923; 30921; 30920; 30919; 30918; 30916; 30915; 30914; 30912; 30911; 30910;
  30909; 30907; 30906; 30905; 30903; 30902; 30901; 30900; 30898; 30897; 30896; 30894; 30893; 30892; 30891; 30889; 30888; 30887;
  30885; 30884; 30883; 30882; 30880; 30879; 30878; 30876; 30875; 30874; 30873; 30871; 30870; 30869; 30867; 30866; 30865; 30864;
  30862; 30861; 30860; 30859; 30857; 30856; 30855; 30853; 30852; 30851; 30850; 30848; 30847; 30846; 30844; 30843; 30842; 30841;
  30839; 30838; 30837; 30835; 30834; 30833; 30832; 30830; 30829; 30828; 30826; 30825; 30824; 30823; 30821; 30820; 30819; 30817;
  30816; 30815; 30814; 30812; 30811; 30810; 30808; 30807; 30806; 30805; 30803; 30802; 30801; 30799; 30798; 30797; 30796; 30794;
  30793; 30792; 30791; 30789; 30788; 30787; 30785; 30784; 30783; 30782; 30780; 30779; 30778; 30776; 30775; 30774; 30773; 30771;
  30770; 30769; 30767; 30766; 30765; 30764; 30762; 30761; 30760; 30759; 30757; 30756; 30755; 30753; 30752; 30751; 30750; 30748;
  30747; 30746; 30744; 30743; 30742; 30741; 30739; 30738; 30737; 30735; 30734; 30733; 30732; 30730; 30729; 30728; 30727; 30725;
  30724; 30723; 30721; 30720; 30719; 30718; 30716; 30715; 30714; 30712; 30711; 30710; 30709; 30707; 30706; 30705; 30704; 30702;
  30701; 30700; 30698; 30697; 30696; 30695; 30693; 30692; 30691; 30689; 30688; 30687; 30686; 30684; 30683; 30682; 30681; 30679;
  30678; 30677; 30675; 30674; 30673; 30672; 30670; 30669; 30668; 30667; 30665; 30664; 30663; 30661; 30660; 30659; 30658; 30656;
  30655; 30654; 30652; 30651; 30650; 30649; 30647; 30646; 30645; 30644; 30642; 30641; 30640; 30638; 30637; 30636; 30635; 30633;
  30632; 30631; 30630; 30628; 30627; 30626; 30624; 30623; 30622; 30621; 30619; 30618; 30617; 30616; 30614; 30613; 30612; 30610;
  30609; 30608; 30607; 30605; 30604; 30603; 30602; 30600; 30599; 30598; 30596; 30595; 30594; 30593; 30591; 30590; 30589; 30588;
  30586; 30585; 30584; 30582; 30581; 30580; 30579; 30577; 30576; 30575; 30574; 30572; 30571; 30570; 30568; 30567; 30566; 30565;
  30563; 30562; 30561; 30560; 30558; 30557; 30556; 30554; 30553; 30552; 30551; 30549; 30548; 30547; 30546; 30544; 30543; 30542;
  30541; 30539; 30538; 30537; 30535; 30534; 30533; 30532; 30530; 30529; 30528; 30527; 30525; 30524; 30523; 30521; 30520; 30519;
  30518; 30516; 30515; 30514; 30513; 30511; 30510; 30509; 30508; 30506; 30505; 30504; 30502; 30501; 30500; 30499; 30497; 30496;
  30495; 30494; 30492; 30491; 30490; 30488; 30487; 30486; 30485; 30483; 30482; 30481; 30480; 30478; 30477; 30476; 30475; 30473;
  30472; 30471; 30469; 30468; 30467; 30466; 30464; 30463; 30462; 30461; 30459; 30458; 30457; 30456; 30454; 30453; 30452; 30450].
Definition log_lut_25 : list Z := [
  30449; 30448; 30447; 30445; 30444; 30443; 30442; 30440; 30439; 30438; 30437; 30435; 30434; 30433; 30431; 30430; 30429; 30428;
  30426; 30425; 30424; 30423; 30421; 30420; 30419; 30418; 30416; 30415; 30414; 30413; 30411; 30410; 30409; 30407; 30406; 30405;
  30404; 30402; 30401; 30400; 30399; 30397; 30396; 30395; 30394; 30392; 30391; 30390; 30389; 30387; 30386; 30385; 30383; 30382;
  30381; 30380; 30378; 30377; 30376; 30375; 30373; 30372; 30371; 30370; 30368; 30367; 30366; 30365; 30363; 30362; 30361; 30359;
  30358; 30357; 30356; 30354; 30353; 30352; 30351; 30349; 30348; 30347; 30346; 30344; 30343; 30342; 30341; 30339; 30338; 30337;
  30336; 30334; 30333; 30332; 30330; 30329; 30328; 30327; 30325; 30324; 30323; 30322; 30320; 30319; 30318; 30317; 30315; 30314;
  30313; 30312; 30310; 30309; 30308; 30307; 30305; 30304; 30303; 30301; 30300; 30299; 30298; 30296; 30295; 30294; 30293; 30291;
  30290; 30289; 30288; 30286; 30285; 30284; 30283; 30281; 30280; 30279; 30278; 30276; 30275; 30274; 30273; 30271; 30270; 30269;
  30267; 30266; 30265; 30264; 30262; 30261; 30260; 30259; 30257; 30256; 30255; 30254; 30252; 30251; 30250; 30249; 30247; 30246;
  30245; 30244; 30242; 30241; 30240; 30239; 30237; 30236; 30235; 30234; 30232; 30231; 30230; 30229; 30227; 30226; 30225; 30224;
  30222; 30221; 30220; 30218; 30217; 30216; 30215; 30213; 30212; 30211; 30210; 30208; 30207; 30206; 30205; 30203; 30202; 30201;
  30200; 30198; 30197; 30196; 30195; 30193; 30192; 30191; 30190; 30188; 30187; 30186; 30185; 30183; 30182; 30181; 30180; 30178;
  30177; 30176; 30175; 30173; 30172; 30171; 30170; 30168; 30167; 30166; 30165; 30163; 30162; 30161; 30160; 30158; 30157; 30156;
  30155; 30153; 30152; 30151; 30149; 30148; 30147; 30146; 30144; 30143; 30142; 30141; 30139; 30138; 30137; 30136; 30134; 30133;
  30132; 30131; 30129; 30128; 30127; 30126; 30124; 30123; 30122; 30121; 30119; 30118; 30117; 30116; 30114; 30113; 30112; 30111;
  30109; 30108; 30107; 30106; 30104; 30103; 30102; 30101; 30099; 30098; 30097; 30096; 30094; 30093; 30092; 30091; 30089; 30088;
  30087; 30086; 30084; 30083; 30082; 30081; 30079; 30078; 30077; 30076; 30074; 30073; 30072; 30071; 30069; 30068; 30067; 30066;
  30064; 30063; 30062; 30061; 30059; 30058; 30057; 30056; 30054; 30053; 30052; 30051; 30049; 30048; 30047; 30046; 30044; 30043;
  30042; 30041; 30039; 30038; 30037; 30036; 30034; 30033; 30032; 30031; 30029; 30028; 30027; 30026; 30025; 30023; 30022; 30021;
  30020; 30018; 30017; 30016; 30015; 30013; 30012; 30011; 30010; 30008; 30007; 30006; 30005; 30003; 30002; 30001; 30000; 29998;
  29997; 29996; 29995; 29993; 29992; 29991; 29990; 29988; 29987; 29986; 29985; 29983; 29982; 29981; 29980; 29978; 29977; 29976;
  29975; 29973; 29972; 29971; 29970; 29968; 29967; 29966; 29965; 29963; 29962; 29961; 29960; 29958; 29957; 29956; 29955; 29954;
  29952; 29951; 29950; 29949; 29947; 29946; 29945; 29944; 29942; 29941; 29940; 29939; 29937; 29936; 29935; 29934; 29932; 29931;
  29930; 29929; 29927; 29926; 29925; 29924; 29922; 29921; 29920; 29919; 29917; 29916; 29915; 29914; 29912; 29911; 29910; 29909;
  29908; 29906; 29905; 29904; 29903; 29901; 29900; 29899; 29898; 29896; 29895; 29894; 29893; 29891; 29890; 29889; 29888; 29886;
  29885; 29884; 29883; 29881; 29880; 29879; 29878; 29876; 29875; 29874; 29873; 29872; 29870; 29869; 29868; 29867; 29865; 29864;
  29863; 29862; 29860; 29859; 29858; 29857; 29855; 29854; 29853; 29852; 29850; 29849; 29848; 29847; 29845; 29844; 29843; 29842;
  29841; 29839; 29838; 29837; 29836; 29834; 29833; 29832; 29831; 29829; 29828; 29827; 29826; 29824; 29823; 29822; 29821; 29819;
  29818; 29817; 29816; 29815; 29813; 29812; 29811; 29810; 29808; 29807; 29806; 29805; 29803; 29802; 29801; 29800; 29798; 29797;
  29796; 29795; 29793; 29792; 29791; 29790; 29789; 29787; 29786; 29785; 29784; 29782; 29781; 29780; 29779; 29777; 29776; 29775;
  29774; 29772; 29771; 29770; 29769; 29768; 29766; 29765; 29764; 29763; 29761; 29760; 29759; 29758; 29756; 29755; 29754; 29753;
  29751; 29750; 29749; 29748; 29747; 29745; 29744; 29743; 29742; 29740; 29739; 29738; 29737; 29735; 29734; 29733; 29732; 29730;
  29729; 29728; 29727; 29726; 29724; 29723; 29722; 29721; 29719; 29718; 29717; 29716; 29714; 29713; 29712; 29711; 29709; 29708;
  29707; 29706; 29705; 29703; 29702; 29701; 29700; 29698; 29697; 29696; 29695; 29693; 29692; 29691; 29690; 29689; 29687; 29686;
  29685; 29684; 29682; 29681; 29680; 29679; 29677; 29676; 29675; 29674; 29672; 29671; 29670; 29669; 29668; 29666; 29665; 29664;
  29663; 29661; 29660; 29659; 29658; 29656; 29655; 29654; 29653; 29652; 29650; 29649; 29648; 29647; 29645; 29644; 29643; 29642;
  29640; 29639; 29638; 29637; 29636; 29634; 29633; 29632; 29631; 29629; 29628; 29627; 29626; 29624; 29623; 29622; 29621; 29620;
  29618; 29617; 29616; 29615; 29613; 29612; 29611; 29610; 29609; 29607; 29606; 29605; 29604; 29602; 29601; 29600; 29599; 29597;
  29596; 29595; 29594; 29593; 29591; 29590; 29589; 29588; 29586; 29585; 29584; 29583; 29581; 29580; 29579; 29578; 29577; 29575;
  29574; 29573; 29572; 29570; 29569; 29568; 29567; 29566; 29564; 29563; 29562; 29561; 29559; 29558; 29557; 29556; 29554; 29553;
  29552; 29551; 29550; 29548; 29547; 29546; 29545; 29543; 29542; 29541; 29540; 29539; 29537; 29536; 29535; 29534; 29532; 29531;
  29530; 29529; 29528; 29526; 29525; 29524; 29523; 29521; 29520; 29519; 29518; 29516; 29515; 29514; 29513; 29512; 29510; 29509;
  29508; 29507; 29505; 29504; 29503; 29502; 29501; 29499; 29498; 29497; 29496; 29494; 29493; 29492; 29491; 29490; 29488; 29487;
  29486; 29485; 29483; 29482; 29481; 29480; 29479; 29477; 29476; 29475; 29474; 29472; 29471; 29470; 29469; 29468; 29466; 29465;
  29464; 29463; 29461; 29460; 29459; 29458; 29457; 29455; 29454; 29453; 29452; 29450; 29449; 29448; 29447; 29446; 29444; 29443;
  29442; 29441; 29439; 29438; 29437; 29436; 29435; 29433; 29432; 29431; 29430; 29428; 29427; 29426; 29425; 29424; 29422; 29421;
  29420; 29419; 29417; 29416; 29415; 29414; 29413; 29411; 29410; 29409; 29408; 29406; 29405; 29404; 29403; 29402; 29400; 29399;
  29398; 29397; 29395; 29394; 29393; 29392; 29391; 29389; 29388; 29387; 29386; 29384; 29383; 29382; 29381; 29380; 29378; 29377;
  29376; 29375; 29373; 29372; 29371; 29370; 29369; 29367; 29366; 29365; 29364; 29363; 29361; 29360; 29359; 29358; 29356; 29355;
  29354; 29353; 29352; 29350; 29349; 29348; 29347; 29345; 29344; 29343; 29342; 29341; 29339; 29338; 29337; 29336; 29335; 29333].
Definition log_lut_26 : list Z := [
  29332; 29331; 29330; 29328; 29327; 29326; 29325; 29324; 29322; 29321; 29320; 29319; 29317; 29316; 29315; 29314; 29313; 29311;
  29310; 29309; 29308; 29307; 29305; 29304; 29303; 29302; 29300; 29299; 29298; 29297; 29296; 29294; 29293; 29292; 29291; 29290;
  29288; 29287; 29286; 29285; 29283; 29282; 29281; 29280; 29279; 29277; 29276; 29275; 29274; 29273; 29271; 29270; 29269; 29268;
  29266; 29265; 29264; 29263; 29262; 29260; 29259; 29258; 29257; 29256; 29254; 29253; 29252; 29251; 29249; 29248; 29247; 29246;
  29245; 29243; 29242; 29241; 29240; 29239; 29237; 29236; 29235; 29234; 29232; 29231; 29230; 29229; 29228; 29226; 29225; 29224;
  29223; 29222; 29220; 29219; 29218; 29217; 29215; 29214; 29213; 29212; 29211; 29209; 29208; 29207; 29206; 29205; 29203; 29202;
  29201; 29200; 29199; 29197; 29196; 29195; 29194; 29192; 29191; 29190; 29189; 29188; 29186; 29185; 29184; 29183; 29182; 29180;
  29179; 29178; 29177; 29175; 29174; 29173; 29172; 29171; 29169; 29168; 29167; 29166; 29165; 29163; 29162; 29161; 29160; 29159;
  29157; 29156; 29155; 29154; 29153; 29151; 29150; 29149; 29148; 29146; 29145; 29144; 29143; 29142; 29140; 29139; 29138; 29137;
  29136; 29134; 29133; 29132; 29131; 29130; 29128; 29127; 29126; 29125; 29123; 29122; 29121; 29120; 29119; 29117; 29116; 29115;
  29114; 29113; 29111; 29110; 29109; 29108; 29107; 29105; 29104; 29103; 29102; 29101; 29099; 29098; 29097; 29096; 29095; 29093;
  29092; 29091; 29090; 29088; 29087; 29086; 29085; 29084; 29082; 29081; 29080; 29079; 29078; 29076; 29075; 29074; 29073; 29072;
  29070; 29069; 29068; 29067; 29066; 29064; 29063; 29062; 29061; 29060; 29058; 29057; 29056; 29055; 29053; 29052; 29051; 29050;
  29049; 29047; 29046; 29045; 29044; 29043; 29041; 29040; 29039; 29038; 29037; 29035; 29034; 29033; 29032; 29031; 29029; 29028;
  29027; 29026; 29025; 29023; 29022; 29021; 29020; 29019; 29017; 29016; 29015; 29014; 29013; 29011; 29010; 29009; 29008; 29007;
  29005; 29004; 29003; 29002; 29001; 28999; 28998; 28997; 28996; 28994; 28993; 28992; 28991; 28990; 28988; 28987; 28986; 28985;
  28984; 28982; 28981; 28980; 28979; 28978; 28976; 28975; 28974; 28973; 28972; 28970; 28969; 28968; 28967; 28966; 28964; 28963;
  28962; 28961; 28960; 28958; 28957; 28956; 28955; 28954; 28952; 28951; 28950; 28949; 28948; 28946; 28945; 28944; 28943; 28942;
  28940; 28939; 28938; 28937; 28936; 28934; 28933; 28932; 28931; 28930; 28928; 28927; 28926; 28925; 28924; 28922; 28921; 28920;
  28919; 28918; 28916; 28915; 28914; 28913; 28912; 28910; 28909; 28908; 28907; 28906; 28904; 28903; 28902; 28901; 28900; 28898;
  28897; 28896; 28895; 28894; 28892; 28891; 28890; 28889; 28888; 28886; 28885; 28884; 28883; 28882; 28880; 28879; 28878; 28877;
  28876; 28874; 28873; 28872; 28871; 28870; 28868; 28867; 28866; 28865; 28864; 28862; 28861; 28860; 28859; 28858; 28856; 28855;
  28854; 28853; 28852; 28851; 28849; 28848; 28847; 28846; 28845; 28843; 28842; 28841; 28840; 28839; 28837; 28836; 28835; 28834;
  28833; 28831; 28830; 28829; 28828; 28827; 28825; 28824; 28823; 28822; 28821; 28819; 28818; 28817; 28816; 28815; 28813; 28812;
  28811; 28810; 28809; 28807; 28806; 28805; 28804; 28803; 28801; 28800; 28799; 28798; 28797; 28796; 28794; 28793; 28792; 28791;
  28790; 28788; 28787; 28786; 28785; 28784; 28782; 28781; 28780; 28779; 28778; 28776; 28775; 28774; 28773; 28772; 28770; 28769;
  28768; 28767; 28766; 28764; 28763; 28762; 28761; 28760; 28759; 28757; 28756; 28755; 28754; 28753; 28751; 28750; 28749; 28748;
  28747; 28745; 28744; 28743; 28742; 28741; 28739; 28738; 28737; 28736; 28735; 28733; 28732; 28731; 28730; 28729; 28728; 28726;
  28725; 28724; 28723; 28722; 28720; 28719; 28718; 28717; 28716; 28714; 28713; 28712; 28711; 28710; 28708; 28707; 28706; 28705;
  28704; 28702; 28701; 28700; 28699; 28698; 28697; 28695; 28694; 28693; 28692; 28691; 28689; 28688; 28687; 28686; 28685; 28683;
  28682; 28681; 28680; 28679; 28678; 28676; 28675; 28674; 28673; 28672; 28670; 28669; 28668; 28667; 28666; 28664; 28663; 28662;
  28661; 28660; 28658; 28657; 28656; 28655; 28654; 28653; 28651; 28650; 28649; 28648; 28647; 28645; 28644; 28643; 28642; 28641;
  28639; 28638; 28637; 28636; 28635; 28634; 28632; 28631; 28630; 28629; 28628; 28626; 28625; 28624; 28623; 28622; 28620; 28619;
  28618; 28617; 28616; 28615; 28613; 28612; 28611; 28610; 28609; 28607; 28606; 28605; 28604; 28603; 28601; 28600; 28599; 28598;
  28597; 28596; 28594; 28593; 28592; 28591; 28590; 28588; 28587; 28586; 28585; 28584; 28583; 28581; 28580; 28579; 28578; 28577;
  28575; 28574; 28573; 28572; 28571; 28569; 28568; 28567; 28566; 28565; 28564; 28562; 28561; 28560; 28559; 28558; 28556; 28555;
  28554; 28553; 28552; 28551; 28549; 28548; 28547; 28546; 28545; 28543; 28542; 28541; 28540; 28539; 28537; 28536; 28535; 28534;
  28533; 28532; 28530; 28529; 28528; 28527; 28526; 28524; 28523; 28522; 28521; 28520; 28519; 28517; 28516; 28515; 28514; 28513;
  28511; 28510; 28509; 28508; 28507; 28506; 28504; 28503; 28502; 28501; 28500; 28498; 28497; 28496; 28495; 28494; 28493; 28491;
  28490; 28489; 28488; 28487; 28485; 28484; 28483; 28482; 28481; 28480; 28478; 28477; 28476; 28475; 28474; 28472; 28471; 28470;
  28469; 28468; 28467; 28465; 28464; 28463; 28462; 28461; 28459; 28458; 28457; 28456; 28455; 28454; 28452; 28451; 28450; 28449;
  28448; 28446; 28445; 28444; 28443; 28442; 28441; 28439; 28438; 28437; 28436; 28435; 28434; 28432; 28431; 28430; 28429; 28428;
  28426; 28425; 28424; 28423; 28422; 28421; 28419; 28418; 28417; 28416; 28415; 28413; 28412; 28411; 28410; 28409; 28408; 28406;
  28405; 28404; 28403; 28402; 28401; 28399; 28398; 28397; 28396; 28395; 28393; 28392; 28391; 28390; 28389; 28388; 28386; 28385;
  28384; 28383; 28382; 28380; 28379; 28378; 28377; 28376; 28375; 28373; 28372; 28371; 28370; 28369; 28368; 28366; 28365; 28364;
  28363; 28362; 28360; 28359; 28358; 28357; 28356; 28355; 28353; 28352; 28351; 28350; 28349; 28348; 28346; 28345; 28344; 28343;
  28342; 28340; 28339; 28338; 28337; 28336; 28335; 28333; 28332; 28331; 28330; 28329; 28328; 28326; 28325; 28324; 28323; 28322;
  28321; 28319; 28318; 28317; 28316; 28315; 28313; 28312; 28311; 28310; 28309; 28308; 28306; 28305; 28304; 28303; 28302; 28301;
  28299; 28298; 28297; 28296; 28295; 28294; 28292; 28291; 28290; 28289; 28288; 28286; 28285; 28284; 28283; 28282; 28281; 28279;
  28278; 28277; 28276; 28275; 28274; 28272; 28271; 28270; 28269; 28268; 28267; 28265; 28264; 28263; 28262; 28261; 28259; 28258].
Definition log_lut_27 : list Z := [
  28257; 28256; 28255; 28254; 28252; 28251; 28250; 28249; 28248; 28247; 28245; 28244; 28243; 28242; 28241; 28240; 28238; 28237;
  28236; 28235; 28234; 28233; 28231; 28230; 28229; 28228; 28227; 28226; 28224; 28223; 28222; 28221; 28220; 28219; 28217; 28216;
  28215; 28214; 28213; 28211; 28210; 28209; 28208; 28207; 28206; 28204; 28203; 28202; 28201; 28200; 28199; 28197; 28196; 28195;
  28194; 28193; 28192; 28190; 28189; 28188; 28187; 28186; 28185; 28183; 28182; 28181; 28180; 28179; 28178; 28176; 28175; 28174;
  28173; 28172; 28171; 28169; 28168; 28167; 28166; 28165; 28164; 28162; 28161; 28160; 28159; 28158; 28157; 28155; 28154; 28153;
  28152; 28151; 28150; 28148; 28147; 28146; 28145; 28144; 28143; 28141; 28140; 28139; 28138; 28137; 28136; 28134; 28133; 28132;
  28131; 28130; 28129; 28127; 28126; 28125; 28124; 28123; 28122; 28120; 28119; 28118; 28117; 28116; 28115; 28113; 28112; 28111;
  28110; 28109; 28108; 28106; 28105; 28104; 28103; 28102; 28101; 28099; 28098; 28097; 28096; 28095; 28094; 28092; 28091; 28090;
  28089; 28088; 28087; 28085; 28084; 28083; 28082; 28081; 28080; 28078; 28077; 28076; 28075; 28074; 28073; 28071; 28070; 28069;
  28068; 28067; 28066; 28064; 28063; 28062; 28061; 28060; 28059; 28057; 28056; 28055; 28054; 28053; 28052; 28050; 28049; 28048;
  28047; 28046; 28045; 28043; 28042; 28041; 28040; 28039; 28038; 28036; 28035; 28034; 28033; 28032; 28031; 28030; 28028; 28027;
  28026; 28025; 28024; 28023; 28021; 28020; 28019; 28018; 28017; 28016; 28014; 28013; 28012; 28011; 28010; 28009; 28007; 28006;
  28005; 28004; 28003; 28002; 28000; 27999; 27998; 27997; 27996; 27995; 27993; 27992; 27991; 27990; 27989; 27988; 27987; 27985;
  27984; 27983; 27982; 27981; 27980; 27978; 27977; 27976; 27975; 27974; 27973; 27971; 27970; 27969; 27968; 27967; 27966; 27964;
  27963; 27962; 27961; 27960; 27959; 27958; 27956; 27955; 27954; 27953; 27952; 27951; 27949; 27948; 27947; 27946; 27945; 27944;
  27942; 27941; 27940; 27939; 27938; 27937; 27935; 27934; 27933; 27932; 27931; 27930; 27929; 27927; 27926; 27925; 27924; 27923;
  27922; 27920; 27919; 27918; 27917; 27916; 27915; 27913; 27912; 27911; 27910; 27909; 27908; 27907; 27905; 27904; 27903; 27902;
  27901; 27900; 27898; 27897; 27896; 27895; 27894; 27893; 27891; 27890; 27889; 27888; 27887; 27886; 27885; 27883; 27882; 27881;
  27880; 27879; 27878; 27876; 27875; 27874; 27873; 27872; 27871; 27869; 27868; 27867; 27866; 27865; 27864; 27863; 27861; 27860;
  27859; 27858; 27857; 27856; 27854; 27853; 27852; 27851; 27850; 27849; 27848; 27846; 27845; 27844; 27843; 27842; 27841; 27839;
  27838; 27837; 27836; 27835; 27834; 27833; 27831; 27830; 27829; 27828; 27827; 27826; 27824; 27823; 27822; 27821; 27820; 27819;
  27818; 27816; 27815; 27814; 27813; 27812; 27811; 27809; 27808; 27807; 27806; 27805; 27804; 27803; 27801; 27800; 27799; 27798;
  27797; 27796; 27794; 27793; 27792; 27791; 27790; 27789; 27788; 27786; 27785; 27784; 27783; 27782; 27781; 27779; 27778; 27777;
  27776; 27775; 27774; 27773; 27771; 27770; 27769; 27768; 27767; 27766; 27764; 27763; 27762; 27761; 27760; 27759; 27758; 27756;
  27755; 27754; 27753; 27752; 27751; 27750; 27748; 27747; 27746; 27745; 27744; 27743; 27741; 27740; 27739; 27738; 27737; 27736;
  27735; 27733; 27732; 27731; 27730; 27729; 27728; 27726; 27725; 27724; 27723; 27722; 27721; 27720; 27718; 27717; 27716; 27715;
  27714; 27713; 27712; 27710; 27709; 27708; 27707; 27706; 27705; 27703; 27702; 27701; 27700; 27699; 27698; 27697; 27695; 27694;
  27693; 27692; 27691; 27690; 27689; 27687; 27686; 27685; 27684; 27683; 27682; 27681; 27679; 27678; 27677; 27676; 27675; 27674;
  27672; 27671; 27670; 27669; 27668; 27667; 27666; 27664; 27663; 27662; 27661; 27660; 27659; 27658; 27656; 27655; 27654; 27653;
  27652; 27651; 27650; 27648; 27647; 27646; 27645; 27644; 27643; 27641; 27640; 27639; 27638; 27637; 27636; 27635; 27633; 27632;
  27631; 27630; 27629; 27628; 27627; 27625; 27624; 27623; 27622; 27621; 27620; 27619; 27617; 27616; 27615; 27614; 27613; 27612;
  27611; 27609; 27608; 27607; 27606; 27605; 27604; 27603; 27601; 27600; 27599; 27598; 27597; 27596; 27594; 27593; 27592; 27591;
  27590; 27589; 27588; 27586; 27585; 27584; 27583; 27582; 27581; 27580; 27578; 27577; 27576; 27575; 27574; 27573; 27572; 27570;
  27569; 27568; 27567; 27566; 27565; 27564; 27562; 27561; 27560; 27559; 27558; 27557; 27556; 27554; 27553; 27552; 27551; 27550;
  27549; 27548; 27546; 27545; 27544; 27543; 27542; 27541; 27540; 27538; 27537; 27536; 27535; 27534; 27533; 27532; 27530; 27529;
  27528; 27527; 27526; 27525; 27524; 27522; 27521; 27520; 27519; 27518; 27517; 27516; 27514; 27513; 27512; 27511; 27510; 27509;
  27508; 27506; 27505; 27504; 27503; 27502; 27501; 27500; 27498; 27497; 27496; 27495; 27494; 27493; 27492; 27490; 27489; 27488;
  27487; 27486; 27485; 27484; 27482; 27481; 27480; 27479; 27478; 27477; 27476; 27475; 27473; 27472; 27471; 27470; 27469; 27468;
  27467; 27465; 27464; 27463; 27462; 27461; 27460; 27459; 27457; 27456; 27455; 27454; 27453; 27452; 27451; 27449; 27448; 27447;
  27446; 27445; 27444; 27443; 27441; 27440; 27439; 27438; 27437; 27436; 27435; 27433; 27432; 27431; 27430; 27429; 27428; 27427;
  27426; 27424; 27423; 27422; 27421; 27420; 27419; 27418; 27416; 27415; 27414; 27413; 27412; 27411; 27410; 27408; 27407; 27406;
  27405; 27404; 27403; 27402; 27400; 27399; 27398; 27397; 27396; 27395; 27394; 27393; 27391; 27390; 27389; 27388; 27387; 27386;
  27385; 27383; 27382; 27381; 27380; 27379; 27378; 27377; 27375; 27374; 27373; 27372; 27371; 27370; 27369; 27368; 27366; 27365;
  27364; 27363; 27362; 27361; 27360; 27358; 27357; 27356; 27355; 27354; 27353; 27352; 27350; 27349; 27348; 27347; 27346; 27345;
  27344; 27343; 27341; 27340; 27339; 27338; 27337; 27336; 27335; 27333; 27332; 27331; 27330; 27329; 27328; 27327; 27326; 27324;
  27323; 27322; 27321; 27320; 27319; 27318; 27316; 27315; 27314; 27313; 27312; 27311; 27310; 27309; 27307; 27306; 27305; 27304;
  27303; 27302; 27301; 27299; 27298; 27297; 27296; 27295; 27294; 27293; 27292; 27290; 27289; 27288; 27287; 27286; 27285; 27284;
  27282; 27281; 27280; 27279; 27278; 27277; 27276; 27275; 27273; 27272; 27271; 27270; 27269; 27268; 27267; 27265; 27264; 27263;
  27262; 27261; 27260; 27259; 27258; 27256; 27255; 27254; 27253; 27252; 27251; 27250; 27248; 27247; 27246; 27245; 27244; 27243;
  27242; 27241; 27239; 27238; 27237; 27236; 27235; 27234; 27233; 27232; 27230; 27229; 27228; 27227; 27226; 27225; 27224; 27222].
Definition log_lut_28 : list Z := [
  27221; 27220; 27219; 27218; 27217; 27216; 27215; 27213; 27212; 27211; 27210; 27209; 27208; 27207; 27206; 27204; 27203; 27202;
  27201; 27200; 27199; 27198; 27196; 27195; 27194; 27193; 27192; 27191; 27190; 27189; 27187; 27186; 27185; 27184; 27183; 27182;
  27181; 27180; 27178; 27177; 27176; 27175; 27174; 27173; 27172; 27171; 27169; 27168; 27167; 27166; 27165; 27164; 27163; 27162;
  27160; 27159; 27158; 27157; 27156; 27155; 27154; 27152; 27151; 27150; 27149; 27148; 27147; 27146; 27145; 27143; 27142; 27141;
  27140; 27139; 27138; 27137; 27136; 27134; 27133; 27132; 27131; 27130; 27129; 27128; 27127; 27125; 27124; 27123; 27122; 27121;
  27120; 27119; 27118; 27116; 27115; 27114; 27113; 27112; 27111; 27110; 27109; 27107; 27106; 27105; 27104; 27103; 27102; 27101;
  27100; 27098; 27097; 27096; 27095; 27094; 27093; 27092; 27091; 27089; 27088; 27087; 27086; 27085; 27084; 27083; 27082; 27080;
  27079; 27078; 27077; 27076; 27075; 27074; 27073; 27071; 27070; 27069; 27068; 27067; 27066; 27065; 27064; 27062; 27061; 27060;
  27059; 27058; 27057; 27056; 27055; 27053; 27052; 27051; 27050; 27049; 27048; 27047; 27046; 27044; 27043; 27042; 27041; 27040;
  27039; 27038; 27037; 27035; 27034; 27033; 27032; 27031; 27030; 27029; 27028; 27026; 27025; 27024; 27023; 27022; 27021; 27020;
  27019; 27018; 27016; 27015; 27014; 27013; 27012; 27011; 27010; 27009; 27007; 27006; 27005; 27004; 27003; 27002; 27001; 27000;
  26998; 26997; 26996; 26995; 26994; 26993; 26992; 26991; 26989; 26988; 26987; 26986; 26985; 26984; 26983; 26982; 26981; 26979;
  26978; 26977; 26976; 26975; 26974; 26973; 26972; 26970; 26969; 26968; 26967; 26966; 26965; 26964; 26963; 26961; 26960; 26959;
  26958; 26957; 26956; 26955; 26954; 26953; 26951; 26950; 26949; 26948; 26947; 26946; 26945; 26944; 26942; 26941; 26940; 26939;
  26938; 26937; 26936; 26935; 26933; 26932; 26931; 26930; 26929; 26928; 26927; 26926; 26925; 26923; 26922; 26921; 26920; 26919;
  26918; 26917; 26916; 26914; 26913; 26912; 26911; 26910; 26909; 26908; 26907; 26906; 26904; 26903; 26902; 26901; 26900; 26899;
  26898; 26897; 26895; 26894; 26893; 26892; 26891; 26890; 26889; 26888; 26887; 26885; 26884; 26883; 26882; 26881; 26880; 26879;
  26878; 26876; 26875; 26874; 26873; 26872; 26871; 26870; 26869; 26868; 26866; 26865; 26864; 26863; 26862; 26861; 26860; 26859;
  26857; 26856; 26855; 26854; 26853; 26852; 26851; 26850; 26849; 26847; 26846; 26845; 26844; 26843; 26842; 26841; 26840; 26839;
  26837; 26836; 26835; 26834; 26833; 26832; 26831; 26830; 26829; 26827; 26826; 26825; 26824; 26823; 26822; 26821; 26820; 26818;
  26817; 26816; 26815; 26814; 26813; 26812; 26811; 26810; 26808; 26807; 26806; 26805; 26804; 26803; 26802; 26801; 26800; 26798;
  26797; 26796; 26795; 26794; 26793; 26792; 26791; 26790; 26788; 26787; 26786; 26785; 26784; 26783; 26782; 26781; 26779; 26778;
  26777; 26776; 26775; 26774; 26773; 26772; 26771; 26769; 26768; 26767; 26766; 26765; 26764; 26763; 26762; 26761; 26759; 26758;
  26757; 26756; 26755; 26754; 26753; 26752; 26751; 26749; 26748; 26747; 26746; 26745; 26744; 26743; 26742; 26741; 26739; 26738;
  26737; 26736; 26735; 26734; 26733; 26732; 26731; 26729; 26728; 26727; 26726; 26725; 26724; 26723; 26722; 26721; 26719; 26718;
  26717; 26716; 26715; 26714; 26713; 26712; 26711; 26709; 26708; 26707; 26706; 26705; 26704; 26703; 26702; 26701; 26699; 26698;
  26697; 26696; 26695; 26694; 26693; 26692; 26691; 26690; 26688; 26687; 26686; 26685; 26684; 26683; 26682; 26681; 26680; 26678;
  26677; 26676; 26675; 26674; 26673; 26672; 26671; 26670; 26668; 26667; 26666; 26665; 26664; 26663; 26662; 26661; 26660; 26658;
  26657; 26656; 26655; 26654; 26653; 26652; 26651; 26650; 26648; 26647; 26646; 26645; 26644; 26643; 26642; 26641; 26640; 26639;
  26637; 26636; 26635; 26634; 26633; 26632; 26631; 26630; 26629; 26627; 26626; 26625; 26624; 26623; 26622; 26621; 26620; 26619;
  26617; 26616; 26615; 26614; 26613; 26612; 26611; 26610; 26609; 26608; 26606; 26605; 26604; 26603; 26602; 26601; 26600; 26599;
  26598; 26596; 26595; 26594; 26593; 26592; 26591; 26590; 26589; 26588; 26587; 26585; 26584; 26583; 26582; 26581; 26580; 26579;
  26578; 26577; 26575; 26574; 26573; 26572; 26571; 26570; 26569; 26568; 26567; 26566; 26564; 26563; 26562; 26561; 26560; 26559;
  26558; 26557; 26556; 26554; 26553; 26552; 26551; 26550; 26549; 26548; 26547; 26546; 26545; 26543; 26542; 26541; 26540; 26539;
  26538; 26537; 26536; 26535; 26534; 26532; 26531; 26530; 26529; 26528; 26527; 26526; 26525; 26524; 26522; 26521; 26520; 26519;
  26518; 26517; 26516; 26515; 26514; 26513; 26511; 26510; 26509; 26508; 26507; 26506; 26505; 26504; 26503; 26502; 26500; 26499;
  26498; 26497; 26496; 26495; 26494; 26493; 26492; 26491; 26489; 26488; 26487; 26486; 26485; 26484; 26483; 26482; 26481; 26480;
  26478; 26477; 26476; 26475; 26474; 26473; 26472; 26471; 26470; 26469; 26467; 26466; 26465; 26464; 26463; 26462; 26461; 26460;
  26459; 26458; 26456; 26455; 26454; 26453; 26452; 26451; 26450; 26449; 26448; 26447; 26445; 26444; 26443; 26442; 26441; 26440;
  26439; 26438; 26437; 26436; 26434; 26433; 26432; 26431; 26430; 26429; 26428; 26427; 26426; 26425; 26423; 26422; 26421; 26420;
  26419; 26418; 26417; 26416; 26415; 26414; 26412; 26411; 26410; 26409; 26408; 26407; 26406; 26405; 26404; 26403; 26401; 26400;
  26399; 26398; 26397; 26396; 26395; 26394; 26393; 26392; 26390; 26389; 26388; 26387; 26386; 26385; 26384; 26383; 26382; 26381;
  26379; 26378; 26377; 26376; 26375; 26374; 26373; 26372; 26371; 26370; 26369; 26367; 26366; 26365; 26364; 26363; 26362; 26361;
  26360; 26359; 26358; 26356; 26355; 26354; 26353; 26352; 26351; 26350; 26349; 26348; 26347; 26345; 26344; 26343; 26342; 26341;
  26340; 26339; 26338; 26337; 26336; 26335; 26333; 26332; 26331; 26330; 26329; 26328; 26327; 26326; 26325; 26324; 26322; 26321;
  26320; 26319; 26318; 26317; 26316; 26315; 26314; 26313; 26312; 26310; 26309; 26308; 26307; 26306; 26305; 26304; 26303; 26302;
  26301; 26300; 26298; 26297; 26296; 26295; 26294; 26293; 26292; 26291; 26290; 26289; 26287; 26286; 26285; 26284; 26283; 26282;
  26281; 26280; 26279; 26278; 26277; 26275; 26274; 26273; 26272; 26271; 26270; 26269; 26268; 26267; 26266; 26265; 26263; 26262;
  26261; 26260; 26259; 26258; 26257; 26256; 26255; 26254; 26252; 26251; 26250; 26249; 26248; 26247; 26246; 26245; 26244; 26243;
  26242; 26240; 26239; 26238; 26237; 26236; 26235; 26234; 26233; 26232; 26231; 26230; 26228; 26227; 26226; 26225; 26224; 26223].
Definition log_lut_29 : list Z := [
  26222; 26221; 26220; 26219; 26218; 26216; 26215; 26214; 26213; 26212; 26211; 26210; 26209; 26208; 26207; 26206; 26204; 26203;
  26202; 26201; 26200; 26199; 26198; 26197; 26196; 26195; 26194; 26192; 26191; 26190; 26189; 26188; 26187; 26186; 26185; 26184;
  26183; 26182; 26180; 26179; 26178; 26177; 26176; 26175; 26174; 26173; 26172; 26171; 26170; 26169; 26167; 26166; 26165; 26164;
  26163; 26162; 26161; 26160; 26159; 26158; 26157; 26155; 26154; 26153; 26152; 26151; 26150; 26149; 26148; 26147; 26146; 26145;
  26143; 26142; 26141; 26140; 26139; 26138; 26137; 26136; 26135; 26134; 26133; 26131; 26130; 26129; 26128; 26127; 26126; 26125;
  26124; 26123; 26122; 26121; 26120; 26118; 26117; 26116; 26115; 26114; 26113; 26112; 26111; 26110; 26109; 26108; 26106; 26105;
  26104; 26103; 26102; 26101; 26100; 26099; 26098; 26097; 26096; 26095; 26093; 26092; 26091; 26090; 26089; 26088; 26087; 26086;
  26085; 26084; 26083; 26082; 26080; 26079; 26078; 26077; 26076; 26075; 26074; 26073; 26072; 26071; 26070; 26068; 26067; 26066;
  26065; 26064; 26063; 26062; 26061; 26060; 26059; 26058; 26057; 26055; 26054; 26053; 26052; 26051; 26050; 26049; 26048; 26047;
  26046; 26045; 26044; 26042; 26041; 26040; 26039; 26038; 26037; 26036; 26035; 26034; 26033; 26032; 26031; 26029; 26028; 26027;
  26026; 26025; 26024; 26023; 26022; 26021; 26020; 26019; 26018; 26016; 26015; 26014; 26013; 26012; 26011; 26010; 26009; 26008;
  26007; 26006; 26005; 26003; 26002; 26001; 26000; 25999; 25998; 25997; 25996; 25995; 25994; 25993; 25992; 25990; 25989; 25988;
  25987; 25986; 25985; 25984; 25983; 25982; 25981; 25980; 25979; 25977; 25976; 25975; 25974; 25973; 25972; 25971; 25970; 25969;
  25968; 25967; 25966; 25964; 25963; 25962; 25961; 25960; 25959; 25958; 25957; 25956; 25955; 25954; 25953; 25951; 25950; 25949;
  25948; 25947; 25946; 25945; 25944; 25943; 25942; 25941; 25940; 25939; 25937; 25936; 25935; 25934; 25933; 25932; 25931; 25930;
  25929; 25928; 25927; 25926; 25924; 25923; 25922; 25921; 25920; 25919; 25918; 25917; 25916; 25915; 25914; 25913; 25912; 25910;
  25909; 25908; 25907; 25906; 25905; 25904; 25903; 25902; 25901; 25900; 25899; 25898; 25896; 25895; 25894; 25893; 25892; 25891;
  25890; 25889; 25888; 25887; 25886; 25885; 25883; 25882; 25881; 25880; 25879; 25878; 25877; 25876; 25875; 25874; 25873; 25872;
  25871; 25869; 25868; 25867; 25866; 25865; 25864; 25863; 25862; 25861; 25860; 25859; 25858; 25857; 25855; 25854; 25853; 25852;
  25851; 25850; 25849; 25848; 25847; 25846; 25845; 25844; 25843; 25841; 25840; 25839; 25838; 25837; 25836; 25835; 25834; 25833;
  25832; 25831; 25830; 25829; 25827; 25826; 25825; 25824; 25823; 25822; 25821; 25820; 25819; 25818; 25817; 25816; 25815; 25813;
  25812; 25811; 25810; 25809; 25808; 25807; 25806; 25805; 25804; 25803; 25802; 25801; 25800; 25798; 25797; 25796; 25795; 25794;
  25793; 25792; 25791; 25790; 25789; 25788; 25787; 25786; 25784; 25783; 25782; 25781; 25780; 25779; 25778; 25777; 25776; 25775;
  25774; 25773; 25772; 25770; 25769; 25768; 25767; 25766; 25765; 25764; 25763; 25762; 25761; 25760; 25759; 25758; 25757; 25755;
  25754; 25753; 25752; 25751; 25750; 25749; 25748; 25747; 25746; 25745; 25744; 25743; 25742; 25740; 25739; 25738; 25737; 25736;
  25735; 25734; 25733; 25732; 25731; 25730; 25729; 25728; 25726; 25725; 25724; 25723; 25722; 25721; 25720; 25719; 25718; 25717;
  25716; 25715; 25714; 25713; 25711; 25710; 25709; 25708; 25707; 25706; 25705; 25704; 25703; 25702; 25701; 25700; 25699; 25698;
  25696; 25695; 25694; 25693; 25692; 25691; 25690; 25689; 25688; 25687; 25686; 25685; 25684; 25683; 25681; 25680; 25679; 25678;
  25677; 25676; 25675; 25674; 25673; 25672; 25671; 25670; 25669; 25668; 25666; 25665; 25664; 25663; 25662; 25661; 25660; 25659;
  25658; 25657; 25656; 25655; 25654; 25653; 25652; 25650; 25649; 25648; 25647; 25646; 25645; 25644; 25643; 25642; 25641; 25640;
  25639; 25638; 25637; 25635; 25634; 25633; 25632; 25631; 25630; 25629; 25628; 25627; 25626; 25625; 25624; 25623; 25622; 25621;
  25619; 25618; 25617; 25616; 25615; 25614; 25613; 25612; 25611; 25610; 25609; 25608; 25607; 25606; 25604; 25603; 25602; 25601;
  25600; 25599; 25598; 25597; 25596; 25595; 25594; 25593; 25592; 25591; 25590; 25588; 25587; 25586; 25585; 25584; 25583; 25582;
  25581; 25580; 25579; 25578; 25577; 25576; 25575; 25574; 25572; 25571; 25570; 25569; 25568; 25567; 25566; 25565; 25564; 25563;
  25562; 25561; 25560; 25559; 25558; 25556; 25555; 25554; 25553; 25552; 25551; 25550; 25549; 25548; 25547; 25546; 25545; 25544;
  25543; 25542; 25541; 25539; 25538; 25537; 25536; 25535; 25534; 25533; 25532; 25531; 25530; 25529; 25528; 25527; 25526; 25525;
  25523; 25522; 25521; 25520; 25519; 25518; 25517; 25516; 25515; 25514; 25513; 25512; 25511; 25510; 25509; 25507; 25506; 25505;
  25504; 25503; 25502; 25501; 25500; 25499; 25498; 25497; 25496; 25495; 25494; 25493; 25492; 25490; 25489; 25488; 25487; 25486;
  25485; 25484; 25483; 25482; 25481; 25480; 25479; 25478; 25477; 25476; 25475; 25473; 25472; 25471; 25470; 25469; 25468; 25467;
  25466; 25465; 25464; 25463; 25462; 25461; 25460; 25459; 25458; 25456; 25455; 25454; 25453; 25452; 25451; 25450; 25449; 25448;
  25447; 25446; 25445; 25444; 25443; 25442; 25441; 25439; 25438; 25437; 25436; 25435; 25434; 25433; 25432; 25431; 25430; 25429;
  25428; 25427; 25426; 25425; 25424; 25422; 25421; 25420; 25419; 25418; 25417; 25416; 25415; 25414; 25413; 25412; 25411; 25410;
  25409; 25408; 25407; 25406; 25404; 25403; 25402; 25401; 25400; 25399; 25398; 25397; 25396; 25395; 25394; 25393; 25392; 25391;
  25390; 25389; 25387; 25386; 25385; 25384; 25383; 25382; 25381; 25380; 25379; 25378; 25377; 25376; 25375; 25374; 25373; 25372;
  25371; 25369; 25368; 25367; 25366; 25365; 25364; 25363; 25362; 25361; 25360; 25359; 25358; 25357; 25356; 25355; 25354; 25353;
  25351; 25350; 25349; 25348; 25347; 25346; 25345; 25344; 25343; 25342; 25341; 25340; 25339; 25338; 25337; 25336; 25335; 25334;
  25332; 25331; 25330; 25329; 25328; 25327; 25326; 25325; 25324; 25323; 25322; 25321; 25320; 25319; 25318; 25317; 25316; 25314;
  25313; 25312; 25311; 25310; 25309; 25308; 25307; 25306; 25305; 25304; 25303; 25302; 25301; 25300; 25299; 25298; 25297; 25295;
  25294; 25293; 25292; 25291; 25290; 25289; 25288; 25287; 25286; 25285; 25284; 25283; 25282; 25281; 25280; 25279; 25278; 25276;
  25275; 25274; 25273; 25272; 25271; 25270; 25269; 25268; 25267; 25266; 25265; 25264; 25263; 25262; 25261; 25260; 25259; 25257].
Definition log_lut_30 : list Z := [
  25256; 25255; 25254; 25253; 25252; 25251; 25250; 25249; 25248; 25247; 25246; 25245; 25244; 25243; 25242; 25241; 25240; 25238;
  25237; 25236; 25235; 25234; 25233; 25232; 25231; 25230; 25229; 25228; 25227; 25226; 25225; 25224; 25223; 25222; 25221; 25220;
  25218; 25217; 25216; 25215; 25214; 25213; 25212; 25211; 25210; 25209; 25208; 25207; 25206; 25205; 25204; 25203; 25202; 25201;
  25199; 25198; 25197; 25196; 25195; 25194; 25193; 25192; 25191; 25190; 25189; 25188; 25187; 25186; 25185; 25184; 25183; 25182;
  25181; 25180; 25178; 25177; 25176; 25175; 25174; 25173; 25172; 25171; 25170; 25169; 25168; 25167; 25166; 25165; 25164; 25163;
  25162; 25161; 25160; 25158; 25157; 25156; 25155; 25154; 25153; 25152; 25151; 25150; 25149; 25148; 25147; 25146; 25145; 25144;
  25143; 25142; 25141; 25140; 25139; 25137; 25136; 25135; 25134; 25133; 25132; 25131; 25130; 25129; 25128; 25127; 25126; 25125;
  25124; 25123; 25122; 25121; 25120; 25119; 25118; 25116; 25115; 25114; 25113; 25112; 25111; 25110; 25109; 25108; 25107; 25106;
  25105; 25104; 25103; 25102; 25101; 25100; 25099; 25098; 25097; 25095; 25094; 25093; 25092; 25091; 25090; 25089; 25088; 25087;
  25086; 25085; 25084; 25083; 25082; 25081; 25080; 25079; 25078; 25077; 25076; 25074; 25073; 25072; 25071; 25070; 25069; 25068;
  25067; 25066; 25065; 25064; 25063; 25062; 25061; 25060; 25059; 25058; 25057; 25056; 25055; 25054; 25052; 25051; 25050; 25049;
  25048; 25047; 25046; 25045; 25044; 25043; 25042; 25041; 25040; 25039; 25038; 25037; 25036; 25035; 25034; 25033; 25032; 25031;
  25029; 25028; 25027; 25026; 25025; 25024; 25023; 25022; 25021; 25020; 25019; 25018; 25017; 25016; 25015; 25014; 25013; 25012;
  25011; 25010; 25009; 25008; 25006; 25005; 25004; 25003; 25002; 25001; 25000; 24999; 24998; 24997; 24996; 24995; 24994; 24993;
  24992; 24991; 24990; 24989; 24988; 24987; 24986; 24985; 24983; 24982; 24981; 24980; 24979; 24978; 24977; 24976; 24975; 24974;
  24973; 24972; 24971; 24970; 24969; 24968; 24967; 24966; 24965; 24964; 24963; 24962; 24960; 24959; 24958; 24957; 24956; 24955;
  24954; 24953; 24952; 24951; 24950; 24949; 24948; 24947; 24946; 24945; 24944; 24943; 24942; 24941; 24940; 24939; 24938; 24936;
  24935; 24934; 24933; 24932; 24931; 24930; 24929; 24928; 24927; 24926; 24925; 24924; 24923; 24922; 24921; 24920; 24919; 24918;
  24917; 24916; 24915; 24914; 24913; 24911; 24910; 24909; 24908; 24907; 24906; 24905; 24904; 24903; 24902; 24901; 24900; 24899;
  24898; 24897; 24896; 24895; 24894; 24893; 24892; 24891; 24890; 24889; 24888; 24886; 24885; 24884; 24883; 24882; 24881; 24880;
  24879; 24878; 24877; 24876; 24875; 24874; 24873; 24872; 24871; 24870; 24869; 24868; 24867; 24866; 24865; 24864; 24863; 24861;
  24860; 24859; 24858; 24857; 24856; 24855; 24854; 24853; 24852; 24851; 24850; 24849; 24848; 24847; 24846; 24845; 24844; 24843;
  24842; 24841; 24840; 24839; 24838; 24837; 24835; 24834; 24833; 24832; 24831; 24830; 24829; 24828; 24827; 24826; 24825; 24824;
  24823; 24822; 24821; 24820; 24819; 24818; 24817; 24816; 24815; 24814; 24813; 24812; 24811; 24810; 24808; 24807; 24806; 24805;
  24804; 24803; 24802; 24801; 24800; 24799; 24798; 24797; 24796; 24795; 24794; 24793; 24792; 24791; 24790; 24789; 24788; 24787;
  24786; 24785; 24784; 24783; 24781; 24780; 24779; 24778; 24777; 24776; 24775; 24774; 24773; 24772; 24771; 24770; 24769; 24768;
  24767; 24766; 24765; 24764; 24763; 24762; 24761; 24760; 24759; 24758; 24757; 24756; 24755; 24754; 24752; 24751; 24750; 24749;
  24748; 24747; 24746; 24745; 24744; 24743; 24742; 24741; 24740; 24739; 24738; 24737; 24736; 24735; 24734; 24733; 24732; 24731;
  24730; 24729; 24728; 24727; 24726; 24725; 24723; 24722; 24721; 24720; 24719; 24718; 24717; 24716; 24715; 24714; 24713; 24712;
  24711; 24710; 24709; 24708; 24707; 24706; 24705; 24704; 24703; 24702; 24701; 24700; 24699; 24698; 24697; 24696; 24694; 24693;
  24692; 24691; 24690; 24689; 24688; 24687; 24686; 24685; 24684; 24683; 24682; 24681; 24680; 24679; 24678; 24677; 24676; 24675;
  24674; 24673; 24672; 24671; 24670; 24669; 24668; 24667; 24666; 24665; 24663; 24662; 24661; 24660; 24659; 24658; 24657; 24656;
  24655; 24654; 24653; 24652; 24651; 24650; 24649; 24648; 24647; 24646; 24645; 24644; 24643; 24642; 24641; 24640; 24639; 24638;
  24637; 24636; 24635; 24634; 24633; 24631; 24630; 24629; 24628; 24627; 24626; 24625; 24624; 24623; 24622; 24621; 24620; 24619;
  24618; 24617; 24616; 24615; 24614; 24613; 24612; 24611; 24610; 24609; 24608; 24607; 24606; 24605; 24604; 24603; 24602; 24601;
  24600; 24598; 24597; 24596; 24595; 24594; 24593; 24592; 24591; 24590; 24589; 24588; 24587; 24586; 24585; 24584; 24583; 24582;
  24581; 24580; 24579; 24578; 24577; 24576; 24575; 24574; 24573; 24572; 24571; 24570; 24569; 24568; 24567; 24566; 24564; 24563;
  24562; 24561; 24560; 24559; 24558; 24557; 24556; 24555; 24554; 24553; 24552; 24551; 24550; 24549; 24548; 24547; 24546; 24545;
  24544; 24543; 24542; 24541; 24540; 24539; 24538; 24537; 24536; 24535; 24534; 24533; 24532; 24531; 24530; 24528; 24527; 24526;
  24525; 24524; 24523; 24522; 24521; 24520; 24519; 24518; 24517; 24516; 24515; 24514; 24513; 24512; 24511; 24510; 24509; 24508;
  24507; 24506; 24505; 24504; 24503; 24502; 24501; 24500; 24499; 24498; 24497; 24496; 24495; 24494; 24493; 24491; 24490; 24489;
  24488; 24487; 24486; 24485; 24484; 24483; 24482; 24481; 24480; 24479; 24478; 24477; 24476; 24475; 24474; 24473; 24472; 24471;
  24470; 24469; 24468; 24467; 24466; 24465; 24464; 24463; 24462; 24461; 24460; 24459; 24458; 24457; 24456; 24455; 24454; 24452;
  24451; 24450; 24449; 24448; 24447; 24446; 24445; 24444; 24443; 24442; 24441; 24440; 24439; 24438; 24437; 24436; 24435; 24434;
  24433; 24432; 24431; 24430; 24429; 24428; 24427; 24426; 24425; 24424; 24423; 24422; 24421; 24420; 24419; 24418; 24417; 24416;
  24415; 24414; 24413; 24412; 24410; 24409; 24408; 24407; 24406; 24405; 24404; 24403; 24402; 24401; 24400; 24399; 24398; 24397;
  24396; 24395; 24394; 24393; 24392; 24391; 24390; 24389; 24388; 24387; 24386; 24385; 24384; 24383; 24382; 24381; 24380; 24379;
  24378; 24377; 24376; 24375; 24374; 24373; 24372; 24371; 24370; 24369; 24368; 24366; 24365; 24364; 24363; 24362; 24361; 24360;
  24359; 24358; 24357; 24356; 24355; 24354; 24353; 24352; 24351; 24350; 24349; 24348; 24347; 24346; 24345; 24344; 24343; 24342;
  24341; 24340; 24339; 24338; 24337; 24336; 24335; 24334; 24333; 24332; 24331; 24330; 24329; 24328; 24327; 24326; 24325; 24324].
Definition log_lut_31 : list Z := [
  24323; 24322; 24321; 24319; 24318; 24317; 24316; 24315; 24314; 24313; 24312; 24311; 24310; 24309; 24308; 24307; 24306; 24305;
  24304; 24303; 24302; 24301; 24300; 24299; 24298; 24297; 24296; 24295; 24294; 24293; 24292; 24291; 24290; 24289; 24288; 24287;
  24286; 24285; 24284; 24283; 24282; 24281; 24280; 24279; 24278; 24277; 24276; 24275; 24274; 24273; 24272; 24271; 24270; 24269;
  24267; 24266; 24265; 24264; 24263; 24262; 24261; 24260; 24259; 24258; 24257; 24256; 24255; 24254; 24253; 24252; 24251; 24250;
  24249; 24248; 24247; 24246; 24245; 24244; 24243; 24242; 24241; 24240; 24239; 24238; 24237; 24236; 24235; 24234; 24233; 24232;
  24231; 24230; 24229; 24228; 24227; 24226; 24225; 24224; 24223; 24222; 24221; 24220; 24219; 24218; 24217; 24216; 24215; 24214;
  24213; 24212; 24210; 24209; 24208; 24207; 24206; 24205; 24204; 24203; 24202; 24201; 24200; 24199; 24198; 24197; 24196; 24195;
  24194; 24193; 24192; 24191; 24190; 24189; 24188; 24187; 24186; 24185; 24184; 24183; 24182; 24181; 24180; 24179; 24178; 24177;
  24176; 24175; 24174; 24173; 24172; 24171; 24170; 24169; 24168; 24167; 24166; 24165; 24164; 24163; 24162; 24161; 24160; 24159;
  24158; 24157; 24156; 24155; 24154; 24153; 24152; 24151; 24150; 24149; 24148; 24147; 24145; 24144; 24143; 24142; 24141; 24140;
  24139; 24138; 24137; 24136; 24135; 24134; 24133; 24132; 24131; 24130; 24129; 24128; 24127; 24126; 24125; 24124; 24123; 24122;
  24121; 24120; 24119; 24118; 24117; 24116; 24115; 24114; 24113; 24112; 24111; 24110; 24109; 24108; 24107; 24106; 24105; 24104;
  24103; 24102; 24101; 24100; 24099; 24098; 24097; 24096; 24095; 24094; 24093; 24092; 24091; 24090; 24089; 24088; 24087; 24086;
  24085; 24084; 24083; 24082; 24081; 24080; 24079; 24078; 24077; 24076; 24075; 24074; 24073; 24072; 24071; 24070; 24069; 24067;
  24066; 24065; 24064; 24063; 24062; 24061; 24060; 24059; 24058; 24057; 24056; 24055; 24054; 24053; 24052; 24051; 24050; 24049;
  24048; 24047; 24046; 24045; 24044; 24043; 24042; 24041; 24040; 24039; 24038; 24037; 24036; 24035; 24034; 24033; 24032; 24031;
  24030; 24029; 24028; 24027; 24026; 24025; 24024; 24023; 24022; 24021; 24020; 24019; 24018; 24017; 24016; 24015; 24014; 24013;
  24012; 24011; 24010; 24009; 24008; 24007; 24006; 24005; 24004; 24003; 24002; 24001; 24000; 23999; 23998; 23997; 23996; 23995;
  23994; 23993; 23992; 23991; 23990; 23989; 23988; 23987; 23986; 23985; 23984; 23983; 23982; 23981; 23980; 23979; 23978; 23977;
  23976; 23975; 23974; 23973; 23972; 23971; 23970; 23969; 23968; 23967; 23965; 23964; 23963; 23962; 23961; 23960; 23959; 23958;
  23957; 23956; 23955; 23954; 23953; 23952; 23951; 23950; 23949; 23948; 23947; 23946; 23945; 23944; 23943; 23942; 23941; 23940;
  23939; 23938; 23937; 23936; 23935; 23934; 23933; 23932; 23931; 23930; 23929; 23928; 23927; 23926; 23925; 23924; 23923; 23922;
  23921; 23920; 23919; 23918; 23917; 23916; 23915; 23914; 23913; 23912; 23911; 23910; 23909; 23908; 23907; 23906; 23905; 23904;
  23903; 23902; 23901; 23900; 23899; 23898; 23897; 23896; 23895; 23894; 23893; 23892; 23891; 23890; 23889; 23888; 23887; 23886;
  23885; 23884; 23883; 23882; 23881; 23880; 23879; 23878; 23877; 23876; 23875; 23874; 23873; 23872; 23871; 23870; 23869; 23868;
  23867; 23866; 23865; 23864; 23863; 23862; 23861; 23860; 23859; 23858; 23857; 23856; 23855; 23854; 23853; 23852; 23851; 23850;
  23849; 23848; 23847; 23846; 23845; 23844; 23843; 23842; 23841; 23840; 23839; 23838; 23837; 23836; 23835; 23834; 23833; 23832;
  23831; 23830; 23829; 23828; 23827; 23826; 23825; 23824; 23823; 23822; 23821; 23820; 23819; 23818; 23817; 23816; 23815; 23814;
  23813; 23812; 23811; 23810; 23809; 23808; 23807; 23806; 23805; 23804; 23803; 23802; 23801; 23800; 23799; 23798; 23797; 23796;
  23795; 23794; 23793; 23792; 23791; 23790; 23789; 23788; 23787; 23786; 23785; 23784; 23783; 23782; 23781; 23780; 23779; 23778;
  23777; 23776; 23775; 23774; 23773; 23772; 23771; 23770; 23769; 23768; 23767; 23766; 23765; 23764; 23763; 23762; 23761; 23760;
  23759; 23758; 23757; 23756; 23755; 23754; 23753; 23752; 23751; 23750; 23749; 23748; 23747; 23746; 23745; 23744; 23743; 23742;
  23741; 23740; 23739; 23738; 23737; 23736; 23735; 23734; 23733; 23732; 23731; 23730; 23729; 23728; 23727; 23726; 23725; 23724;
  23723; 23722; 23721; 23720; 23719; 23718; 23717; 23716; 23715; 23714; 23713; 23712; 23711; 23710; 23709; 23708; 23707; 23706;
  23705; 23704; 23703; 23702; 23701; 23700; 23699; 23698; 23697; 23696; 23695; 23694; 23693; 23692; 23691; 23690; 23689; 23688;
  23687; 23686; 23685; 23684; 23683; 23682; 23681; 23680; 23679; 23678; 23677; 23676; 23675; 23674; 23673; 23672; 23671; 23670;
  23669; 23668; 23667; 23666; 23665; 23664; 23663; 23662; 23661; 23660; 23659; 23658; 23657; 23656; 23655; 23654; 23653; 23652;
  23651; 23650; 23649; 23648; 23647; 23646; 23645; 23644; 23643; 23642; 23641; 23640; 23639; 23638; 23637; 23636; 23635; 23634;
  23633; 23632; 23631; 23630; 23629; 23628; 23627; 23626; 23625; 23624; 23623; 23622; 23621; 23620; 23619; 23618; 23617; 23616;
  23615; 23614; 23613; 23612; 23611; 23610; 23609; 23608; 23607; 23606; 23605; 23604; 23603; 23602; 23601; 23600; 23599; 23598;
  23597; 23596; 23595; 23594; 23593; 23592; 23591; 23590; 23589; 23588; 23587; 23586; 23585; 23584; 23583; 23582; 23581; 23580;
  23579; 23578; 23577; 23576; 23575; 23574; 23573; 23572; 23571; 23570; 23569; 23568; 23567; 23566; 23565; 23564; 23563; 23562;
  23561; 23560; 23559; 23558; 23557; 23556; 23555; 23554; 23553; 23552; 23551; 23550; 23549; 23548; 23547; 23546; 23545; 23544;
  23543; 23542; 23541; 23540; 23539; 23538; 23537; 23536; 23535; 23534; 23533; 23532; 23531; 23530; 23529; 23528; 23527; 23526;
  23525; 23524; 23523; 23522; 23521; 23520; 23519; 23518; 23517; 23516; 23515; 23514; 23513; 23512; 23511; 23510; 23510; 23509;
  23508; 23507; 23506; 23505; 23504; 23503; 23502; 23501; 23500; 23499; 23498; 23497; 23496; 23495; 23494; 23493; 23492; 23491;
  23490; 23489; 23488; 23487; 23486; 23485; 23484; 23483; 23482; 23481; 23480; 23479; 23478; 23477; 23476; 23475; 23474; 23473;
  23472; 23471; 23470; 23469; 23468; 23467; 23466; 23465; 23464; 23463; 23462; 23461; 23460; 23459; 23458; 23457; 23456; 23455;
  23454; 23453; 23452; 23451; 23450; 23449; 23448; 23447; 23446; 23445; 23444; 23443; 23442; 23441; 23440; 23439; 23438; 23437;
  23436; 23435; 23434; 23433; 23432; 23431; 23430; 23429; 23428; 23427; 23426; 23425; 23424; 23423; 23422; 23421; 23420; 23419].
Definition log_lut_32 : list Z := [
  23418; 23417; 23416; 23415; 23414; 23413; 23412; 23411; 23410; 23409; 23409; 23408; 23407; 23406; 23405; 23404; 23403; 23402;
  23401; 23400; 23399; 23398; 23397; 23396; 23395; 23394; 23393; 23392; 23391; 23390; 23389; 23388; 23387; 23386; 23385; 23384;
  23383; 23382; 23381; 23380; 23379; 23378; 23377; 23376; 23375; 23374; 23373; 23372; 23371; 23370; 23369; 23368; 23367; 23366;
  23365; 23364; 23363; 23362; 23361; 23360; 23359; 23358; 23357; 23356; 23355; 23354; 23353; 23352; 23351; 23350; 23349; 23348;
  23347; 23346; 23345; 23344; 23343; 23342; 23341; 23340; 23339; 23338; 23337; 23336; 23335; 23334; 23333; 23332; 23332; 23331;
  23330; 23329; 23328; 23327; 23326; 23325; 23324; 23323; 23322; 23321; 23320; 23319; 23318; 23317; 23316; 23315; 23314; 23313;
  23312; 23311; 23310; 23309; 23308; 23307; 23306; 23305; 23304; 23303; 23302; 23301; 23300; 23299; 23298; 23297; 23296; 23295;
  23294; 23293; 23292; 23291; 23290; 23289; 23288; 23287; 23286; 23285; 23284; 23283; 23282; 23281; 23280; 23279; 23278; 23277;
  23276; 23275; 23274; 23273; 23272; 23271; 23270; 23269; 23268; 23267; 23267; 23266; 23265; 23264; 23263; 23262; 23261; 23260;
  23259; 23258; 23257; 23256; 23255; 23254; 23253; 23252; 23251; 23250; 23249; 23248; 23247; 23246; 23245; 23244; 23243; 23242;
  23241; 23240; 23239; 23238; 23237; 23236; 23235; 23234; 23233; 23232; 23231; 23230; 23229; 23228; 23227; 23226; 23225; 23224;
  23223; 23222; 23221; 23220; 23219; 23218; 23217; 23216; 23215; 23214; 23213; 23212; 23211; 23211; 23210; 23209; 23208; 23207;
  23206; 23205; 23204; 23203; 23202; 23201; 23200; 23199; 23198; 23197; 23196; 23195; 23194; 23193; 23192; 23191; 23190; 23189;
  23188; 23187; 23186; 23185; 23184; 23183; 23182; 23181; 23180; 23179; 23178; 23177; 23176; 23175; 23174; 23173; 23172; 23171;
  23170; 23169; 23168; 23167; 23166; 23165; 23164; 23163; 23162; 23161; 23160; 23160; 23159; 23158; 23157; 23156; 23155; 23154;
  23153; 23152; 23151; 23150; 23149; 23148; 23147; 23146; 23145; 23144; 23143; 23142; 23141; 23140; 23139; 23138; 23137; 23136;
  23135; 23134; 23133; 23132; 23131; 23130; 23129; 23128; 23127; 23126; 23125; 23124; 23123; 23122; 23121; 23120; 23119; 23118;
  23117; 23116; 23115; 23114; 23113; 23113; 23112; 23111; 23110; 23109; 23108; 23107; 23106; 23105; 23104; 23103; 23102; 23101;
  23100; 23099; 23098; 23097; 23096; 23095; 23094; 23093; 23092; 23091; 23090; 23089; 23088; 23087; 23086; 23085; 23084; 23083;
  23082; 23081; 23080; 23079; 23078; 23077; 23076; 23075; 23074; 23073; 23072; 23071; 23070; 23069; 23069; 23068; 23067; 23066;
  23065; 23064; 23063; 23062; 23061; 23060; 23059; 23058; 23057; 23056; 23055; 23054; 23053; 23052; 23051; 23050; 23049; 23048;
  23047; 23046; 23045; 23044; 23043; 23042; 23041; 23040; 23039; 23038; 23037; 23036; 23035; 23034; 23033; 23032; 23031; 23030;
  23029; 23028; 23028; 23027; 23026; 23025; 23024; 23023; 23022; 23021; 23020; 23019; 23018; 23017; 23016; 23015; 23014; 23013;
  23012; 23011; 23010; 23009; 23008; 23007; 23006; 23005; 23004; 23003; 23002; 23001; 23000; 22999; 22998; 22997; 22996; 22995;
  22994; 22993; 22992; 22991; 22990; 22990; 22989; 22988; 22987; 22986; 22985; 22984; 22983; 22982; 22981; 22980; 22979; 22978;
  22977; 22976; 22975; 22974; 22973; 22972; 22971; 22970; 22969; 22968; 22967; 22966; 22965; 22964; 22963; 22962; 22961; 22960;
  22959; 22958; 22957; 22956; 22955; 22954; 22953; 22953; 22952; 22951; 22950; 22949; 22948; 22947; 22946; 22945; 22944; 22943;
  22942; 22941; 22940; 22939; 22938; 22937; 22936; 22935; 22934; 22933; 22932; 22931; 22930; 22929; 22928; 22927; 22926; 22925;
  22924; 22923; 22922; 22921; 22920; 22919; 22918; 22918; 22917; 22916; 22915; 22914; 22913; 22912; 22911; 22910; 22909; 22908;
  22907; 22906; 22905; 22904; 22903; 22902; 22901; 22900; 22899; 22898; 22897; 22896; 22895; 22894; 22893; 22892; 22891; 22890;
  22889; 22888; 22887; 22886; 22885; 22885; 22884; 22883; 22882; 22881; 22880; 22879; 22878; 22877; 22876; 22875; 22874; 22873;
  22872; 22871; 22870; 22869; 22868; 22867; 22866; 22865; 22864; 22863; 22862; 22861; 22860; 22859; 22858; 22857; 22856; 22855;
  22854; 22853; 22852; 22852; 22851; 22850; 22849; 22848; 22847; 22846; 22845; 22844; 22843; 22842; 22841; 22840; 22839; 22838;
  22837; 22836; 22835; 22834; 22833; 22832; 22831; 22830; 22829; 22828; 22827; 22826; 22825; 22824; 22823; 22822; 22821; 22821;
  22820; 22819; 22818; 22817; 22816; 22815; 22814; 22813; 22812; 22811; 22810; 22809; 22808; 22807; 22806; 22805; 22804; 22803;
  22802; 22801; 22800; 22799; 22798; 22797; 22796; 22795; 22794; 22793; 22792; 22791; 22791; 22790; 22789; 22788; 22787; 22786;
  22785; 22784; 22783; 22782; 22781; 22780; 22779; 22778; 22777; 22776; 22775; 22774; 22773; 22772; 22771; 22770; 22769; 22768;
  22767; 22766; 22765; 22764; 22763; 22762; 22762; 22761; 22760; 22759; 22758; 22757; 22756; 22755; 22754; 22753; 22752; 22751;
  22750; 22749; 22748; 22747; 22746; 22745; 22744; 22743; 22742; 22741; 22740; 22739; 22738; 22737; 22736; 22735; 22734; 22734;
  22733; 22732; 22731; 22730; 22729; 22728; 22727; 22726; 22725; 22724; 22723; 22722; 22721; 22720; 22719; 22718; 22717; 22716;
  22715; 22714; 22713; 22712; 22711; 22710; 22709; 22708; 22707; 22706; 22706; 22705; 22704; 22703; 22702; 22701; 22700; 22699;
  22698; 22697; 22696; 22695; 22694; 22693; 22692; 22691; 22690; 22689; 22688; 22687; 22686; 22685; 22684; 22683; 22682; 22681;
  22680; 22680; 22679; 22678; 22677; 22676; 22675; 22674; 22673; 22672; 22671; 22670; 22669; 22668; 22667; 22666; 22665; 22664;
  22663; 22662; 22661; 22660; 22659; 22658; 22657; 22656; 22655; 22654; 22654; 22653; 22652; 22651; 22650; 22649; 22648; 22647;
  22646; 22645; 22644; 22643; 22642; 22641; 22640; 22639; 22638; 22637; 22636; 22635; 22634; 22633; 22632; 22631; 22630; 22629;
  22628; 22628; 22627; 22626; 22625; 22624; 22623; 22622; 22621; 22620; 22619; 22618; 22617; 22616; 22615; 22614; 22613; 22612;
  22611; 22610; 22609; 22608; 22607; 22606; 22605; 22604; 22603; 22603; 22602; 22601; 22600; 22599; 22598; 22597; 22596; 22595;
  22594; 22593; 22592; 22591; 22590; 22589; 22588; 22587; 22586; 22585; 22584; 22583; 22582; 22581; 22580; 22579; 22579; 22578;
  22577; 22576; 22575; 22574; 22573; 22572; 22571; 22570; 22569; 22568; 22567; 22566; 22565; 22564; 22563; 22562; 22561; 22560;
  22559; 22558; 22557; 22556; 22555; 22555; 22554; 22553; 22552; 22551; 22550; 22549; 22548; 22547; 22546; 22545; 22544; 22543].
Definition log_lut_33 : list Z := [
  22542; 22541; 22540; 22539; 22538; 22537; 22536; 22535; 22534; 22533; 22532; 22532; 22531; 22530; 22529; 22528; 22527; 22526;
  22525; 22524; 22523; 22522; 22521; 22520; 22519; 22518; 22517; 22516; 22515; 22514; 22513; 22512; 22511; 22510; 22509; 22509;
  22508; 22507; 22506; 22505; 22504; 22503; 22502; 22501; 22500; 22499; 22498; 22497; 22496; 22495; 22494; 22493; 22492; 22491;
  22490; 22489; 22488; 22487; 22486; 22486; 22485; 22484; 22483; 22482; 22481; 22480; 22479; 22478; 22477; 22476; 22475; 22474;
  22473; 22472; 22471; 22470; 22469; 22468; 22467; 22466; 22465; 22464; 22464; 22463; 22462; 22461; 22460; 22459; 22458; 22457;
  22456; 22455; 22454; 22453; 22452; 22451; 22450; 22449; 22448; 22447; 22446; 22445; 22444; 22443; 22443; 22442; 22441; 22440;
  22439; 22438; 22437; 22436; 22435; 22434; 22433; 22432; 22431; 22430; 22429; 22428; 22427; 22426; 22425; 22424; 22423; 22422;
  22421; 22421; 22420; 22419; 22418; 22417; 22416; 22415; 22414; 22413; 22412; 22411; 22410; 22409; 22408; 22407; 22406; 22405;
  22404; 22403; 22402; 22401; 22400; 22400; 22399; 22398; 22397; 22396; 22395; 22394; 22393; 22392; 22391; 22390; 22389; 22388;
  22387; 22386; 22385; 22384; 22383; 22382; 22381; 22380; 22380; 22379; 22378; 22377; 22376; 22375; 22374; 22373; 22372; 22371;
  22370; 22369; 22368; 22367; 22366; 22365; 22364; 22363; 22362; 22361; 22360; 22360; 22359; 22358; 22357; 22356; 22355; 22354;
  22353; 22352; 22351; 22350; 22349; 22348; 22347; 22346; 22345; 22344; 22343; 22342; 22341; 22340; 22340; 22339; 22338; 22337;
  22336; 22335; 22334; 22333; 22332; 22331; 22330; 22329; 22328; 22327; 22326; 22325; 22324; 22323; 22322; 22321; 22320; 22320;
  22319; 22318; 22317; 22316; 22315; 22314; 22313; 22312; 22311; 22310; 22309; 22308; 22307; 22306; 22305; 22304; 22303; 22302;
  22301; 22300; 22300; 22299; 22298; 22297; 22296; 22295; 22294; 22293; 22292; 22291; 22290; 22289; 22288; 22287; 22286; 22285;
  22284; 22283; 22282; 22281; 22281; 22280; 22279; 22278; 22277; 22276; 22275; 22274; 22273; 22272; 22271; 22270; 22269; 22268;
  22267; 22266; 22265; 22264; 22263; 22262; 22262; 22261; 22260; 22259; 22258; 22257; 22256; 22255; 22254; 22253; 22252; 22251;
  22250; 22249; 22248; 22247; 22246; 22245; 22244; 22244; 22243; 22242; 22241; 22240; 22239; 22238; 22237; 22236; 22235; 22234;
  22233; 22232; 22231; 22230; 22229; 22228; 22227; 22226; 22225; 22225; 22224; 22223; 22222; 22221; 22220; 22219; 22218; 22217;
  22216; 22215; 22214; 22213; 22212; 22211; 22210; 22209; 22208; 22207; 22207; 22206; 22205; 22204; 22203; 22202; 22201; 22200;
  22199; 22198; 22197; 22196; 22195; 22194; 22193; 22192; 22191; 22190; 22189; 22189; 22188; 22187; 22186; 22185; 22184; 22183;
  22182; 22181; 22180; 22179; 22178; 22177; 22176; 22175; 22174; 22173; 22172; 22171; 22171; 22170; 22169; 22168; 22167; 22166;
  22165; 22164; 22163; 22162; 22161; 22160; 22159; 22158; 22157; 22156; 22155; 22154; 22154; 22153; 22152; 22151; 22150; 22149;
  22148; 22147; 22146; 22145; 22144; 22143; 22142; 22141; 22140; 22139; 22138; 22137; 22136; 22136; 22135; 22134; 22133; 22132;
  22131; 22130; 22129; 22128; 22127; 22126; 22125; 22124; 22123; 22122; 22121; 22120; 22119; 22119; 22118; 22117; 22116; 22115;
  22114; 22113; 22112; 22111; 22110; 22109; 22108; 22107; 22106; 22105; 22104; 22103; 22102; 22102; 22101; 22100; 22099; 22098;
  22097; 22096; 22095; 22094; 22093; 22092; 22091; 22090; 22089; 22088; 22087; 22086; 22085; 22085; 22084; 22083; 22082; 22081;
  22080; 22079; 22078; 22077; 22076; 22075; 22074; 22073; 22072; 22071; 22070; 22069; 22069; 22068; 22067; 22066; 22065; 22064;
  22063; 22062; 22061; 22060; 22059; 22058; 22057; 22056; 22055; 22054; 22053; 22052; 22052; 22051; 22050; 22049; 22048; 22047;
  22046; 22045; 22044; 22043; 22042; 22041; 22040; 22039; 22038; 22037; 22036; 22036; 22035; 22034; 22033; 22032; 22031; 22030;
  22029; 22028; 22027; 22026; 22025; 22024; 22023; 22022; 22021; 22020; 22020; 22019; 22018; 22017; 22016; 22015; 22014; 22013;
  22012; 22011; 22010; 22009; 22008; 22007; 22006; 22005; 22004; 22004; 22003; 22002; 22001; 22000; 21999; 21998; 21997; 21996;
  21995; 21994; 21993; 21992; 21991; 21990; 21989; 21988; 21988; 21987; 21986; 21985; 21984; 21983; 21982; 21981; 21980; 21979;
  21978; 21977; 21976; 21975; 21974; 21973; 21972; 21972; 21971; 21970; 21969; 21968; 21967; 21966; 21965; 21964; 21963; 21962;
  21961; 21960; 21959; 21958; 21957; 21957; 21956; 21955; 21954; 21953; 21952; 21951; 21950; 21949; 21948; 21947; 21946; 21945;
  21944; 21943; 21942; 21941; 21941; 21940; 21939; 21938; 21937; 21936; 21935; 21934; 21933; 21932; 21931; 21930; 21929; 21928;
  21927; 21926; 21926; 21925; 21924; 21923; 21922; 21921; 21920; 21919; 21918; 21917; 21916; 21915; 21914; 21913; 21912; 21911;
  21911; 21910; 21909; 21908; 21907; 21906; 21905; 21904; 21903; 21902; 21901; 21900; 21899; 21898; 21897; 21896; 21896; 21895;
  21894; 21893; 21892; 21891; 21890; 21889; 21888; 21887; 21886; 21885; 21884; 21883; 21882; 21881; 21881; 21880; 21879; 21878;
  21877; 21876; 21875; 21874; 21873; 21872; 21871; 21870; 21869; 21868; 21867; 21866; 21866; 21865; 21864; 21863; 21862; 21861;
  21860; 21859; 21858; 21857; 21856; 21855; 21854; 21853; 21852; 21851; 21851; 21850; 21849; 21848; 21847; 21846; 21845; 21844;
  21843; 21842; 21841; 21840; 21839; 21838; 21837; 21837; 21836; 21835; 21834; 21833; 21832; 21831; 21830; 21829; 21828; 21827;
  21826; 21825; 21824; 21823; 21822; 21822; 21821; 21820; 21819; 21818; 21817; 21816; 21815; 21814; 21813; 21812; 21811; 21810;
  21809; 21808; 21808; 21807; 21806; 21805; 21804; 21803; 21802; 21801; 21800; 21799; 21798; 21797; 21796; 21795; 21794; 21794;
  21793; 21792; 21791; 21790; 21789; 21788; 21787; 21786; 21785; 21784; 21783; 21782; 21781; 21780; 21780; 21779; 21778; 21777;
  21776; 21775; 21774; 21773; 21772; 21771; 21770; 21769; 21768; 21767; 21766; 21766; 21765; 21764; 21763; 21762; 21761; 21760;
  21759; 21758; 21757; 21756; 21755; 21754; 21753; 21752; 21752; 21751; 21750; 21749; 21748; 21747; 21746; 21745; 21744; 21743;
  21742; 21741; 21740; 21739; 21738; 21738; 21737; 21736; 21735; 21734; 21733; 21732; 21731; 21730; 21729; 21728; 21727; 21726;
  21725; 21724; 21724; 21723; 21722; 21721; 21720; 21719; 21718; 21717; 21716; 21715; 21714; 21713; 21712; 21711; 21711; 21710;
  21709; 21708; 21707; 21706; 21705; 21704; 21703; 21702; 21701; 21700; 21699; 21698; 21697; 21697; 21696; 21695; 21694; 21693].
Definition log_lut_34 : list Z := [
  21692; 21691; 21690; 21689; 21688; 21687; 21686; 21685; 21684; 21684; 21683; 21682; 21681; 21680; 21679; 21678; 21677; 21676;
  21675; 21674; 21673; 21672; 21671; 21671; 21670; 21669; 21668; 21667; 21666; 21665; 21664; 21663; 21662; 21661; 21660; 21659;
  21658; 21657; 21657; 21656; 21655; 21654; 21653; 21652; 21651; 21650; 21649; 21648; 21647; 21646; 21645; 21644; 21644; 21643;
  21642; 21641; 21640; 21639; 21638; 21637; 21636; 21635; 21634; 21633; 21632; 21631; 21631; 21630; 21629; 21628; 21627; 21626;
  21625; 21624; 21623; 21622; 21621; 21620; 21619; 21618; 21618; 21617; 21616; 21615; 21614; 21613; 21612; 21611; 21610; 21609;
  21608; 21607; 21606; 21605; 21605; 21604; 21603; 21602; 21601; 21600; 21599; 21598; 21597; 21596; 21595; 21594; 21593; 21593;
  21592; 21591; 21590; 21589; 21588; 21587; 21586; 21585; 21584; 21583; 21582; 21581; 21580; 21580; 21579; 21578; 21577; 21576;
  21575; 21574; 21573; 21572; 21571; 21570; 21569; 21568; 21567; 21567; 21566; 21565; 21564; 21563; 21562; 21561; 21560; 21559;
  21558; 21557; 21556; 21555; 21555; 21554; 21553; 21552; 21551; 21550; 21549; 21548; 21547; 21546; 21545; 21544; 21543; 21542;
  21542; 21541; 21540; 21539; 21538; 21537; 21536; 21535; 21534; 21533; 21532; 21531; 21530; 21530; 21529; 21528; 21527; 21526;
  21525; 21524; 21523; 21522; 21521; 21520; 21519; 21518; 21517; 21517; 21516; 21515; 21514; 21513; 21512; 21511; 21510; 21509;
  21508; 21507; 21506; 21505; 21505; 21504; 21503; 21502; 21501; 21500; 21499; 21498; 21497; 21496; 21495; 21494; 21493; 21493;
  21492; 21491; 21490; 21489; 21488; 21487; 21486; 21485; 21484; 21483; 21482; 21481; 21481; 21480; 21479; 21478; 21477; 21476;
  21475; 21474; 21473; 21472; 21471; 21470; 21469; 21468; 21468; 21467; 21466; 21465; 21464; 21463; 21462; 21461; 21460; 21459;
  21458; 21457; 21456; 21456; 21455; 21454; 21453; 21452; 21451; 21450; 21449; 21448; 21447; 21446; 21445; 21445; 21444; 21443;
  21442; 21441; 21440; 21439; 21438; 21437; 21436; 21435; 21434; 21433; 21433; 21432; 21431; 21430; 21429; 21428; 21427; 21426;
  21425; 21424; 21423; 21422; 21421; 21421; 21420; 21419; 21418; 21417; 21416; 21415; 21414; 21413; 21412; 21411; 21410; 21409;
  21409; 21408; 21407; 21406; 21405; 21404; 21403; 21402; 21401; 21400; 21399; 21398; 21397; 21397; 21396; 21395; 21394; 21393;
  21392; 21391; 21390; 21389; 21388; 21387; 21386; 21386; 21385; 21384; 21383; 21382; 21381; 21380; 21379; 21378; 21377; 21376;
  21375; 21374; 21374; 21373; 21372; 21371; 21370; 21369; 21368; 21367; 21366; 21365; 21364; 21363; 21363; 21362; 21361; 21360;
  21359; 21358; 21357; 21356; 21355; 21354; 21353; 21352; 21351; 21351; 21350; 21349; 21348; 21347; 21346; 21345; 21344; 21343;
  21342; 21341; 21340; 21340; 21339; 21338; 21337; 21336; 21335; 21334; 21333; 21332; 21331; 21330; 21329; 21328; 21328; 21327;
  21326; 21325; 21324; 21323; 21322; 21321; 21320; 21319; 21318; 21317; 21317; 21316; 21315; 21314; 21313; 21312; 21311; 21310;
  21309; 21308; 21307; 21306; 21306; 21305; 21304; 21303; 21302; 21301; 21300; 21299; 21298; 21297; 21296; 21295; 21295; 21294;
  21293; 21292; 21291; 21290; 21289; 21288; 21287; 21286; 21285; 21284; 21284; 21283; 21282; 21281; 21280; 21279; 21278; 21277;
  21276; 21275; 21274; 21273; 21272; 21272; 21271; 21270; 21269; 21268; 21267; 21266; 21265; 21264; 21263; 21262; 21261; 21261;
  21260; 21259; 21258; 21257; 21256; 21255; 21254; 21253; 21252; 21251; 21250; 21250; 21249; 21248; 21247; 21246; 21245; 21244;
  21243; 21242; 21241; 21240; 21240; 21239; 21238; 21237; 21236; 21235; 21234; 21233; 21232; 21231; 21230; 21229; 21229; 21228;
  21227; 21226; 21225; 21224; 21223; 21222; 21221; 21220; 21219; 21218; 21218; 21217; 21216; 21215; 21214; 21213; 21212; 21211;
  21210; 21209; 21208; 21207; 21207; 21206; 21205; 21204; 21203; 21202; 21201; 21200; 21199; 21198; 21197; 21196; 21196; 21195;
  21194; 21193; 21192; 21191; 21190; 21189; 21188; 21187; 21186; 21186; 21185; 21184; 21183; 21182; 21181; 21180; 21179; 21178;
  21177; 21176; 21175; 21175; 21174; 21173; 21172; 21171; 21170; 21169; 21168; 21167; 21166; 21165; 21164; 21164; 21163; 21162;
  21161; 21160; 21159; 21158; 21157; 21156; 21155; 21154; 21154; 21153; 21152; 21151; 21150; 21149; 21148; 21147; 21146; 21145;
  21144; 21143; 21143; 21142; 21141; 21140; 21139; 21138; 21137; 21136; 21135; 21134; 21133; 21133; 21132; 21131; 21130; 21129;
  21128; 21127; 21126; 21125; 21124; 21123; 21123; 21122; 21121; 21120; 21119; 21118; 21117; 21116; 21115; 21114; 21113; 21112;
  21112; 21111; 21110; 21109; 21108; 21107; 21106; 21105; 21104; 21103; 21102; 21102; 21101; 21100; 21099; 21098; 21097; 21096;
  21095; 21094; 21093; 21092; 21092; 21091; 21090; 21089; 21088; 21087; 21086; 21085; 21084; 21083; 21082; 21081; 21081; 21080;
  21079; 21078; 21077; 21076; 21075; 21074; 21073; 21072; 21071; 21071; 21070; 21069; 21068; 21067; 21066; 21065; 21064; 21063;
  21062; 21061; 21061; 21060; 21059; 21058; 21057; 21056; 21055; 21054; 21053; 21052; 21051; 21051; 21050; 21049; 21048; 21047;
  21046; 21045; 21044; 21043; 21042; 21041; 21041; 21040; 21039; 21038; 21037; 21036; 21035; 21034; 21033; 21032; 21031; 21031;
  21030; 21029; 21028; 21027; 21026; 21025; 21024; 21023; 21022; 21021; 21021; 21020; 21019; 21018; 21017; 21016; 21015; 21014;
  21013; 21012; 21011; 21011; 21010; 21009; 21008; 21007; 21006; 21005; 21004; 21003; 21002; 21001; 21001; 21000; 20999; 20998;
  20997; 20996; 20995; 20994; 20993; 20992; 20991; 20991; 20990; 20989; 20988; 20987; 20986; 20985; 20984; 20983; 20982; 20981;
  20981; 20980; 20979; 20978; 20977; 20976; 20975; 20974; 20973; 20972; 20971; 20971; 20970; 20969; 20968; 20967; 20966; 20965;
  20964; 20963; 20962; 20961; 20961; 20960; 20959; 20958; 20957; 20956; 20955; 20954; 20953; 20952; 20952; 20951; 20950; 20949;
  20948; 20947; 20946; 20945; 20944; 20943; 20942; 20942; 20941; 20940; 20939; 20938; 20937; 20936; 20935; 20934; 20933; 20932;
  20932; 20931; 20930; 20929; 20928; 20927; 20926; 20925; 20924; 20923; 20923; 20922; 20921; 20920; 20919; 20918; 20917; 20916;
  20915; 20914; 20913; 20913; 20912; 20911; 20910; 20909; 20908; 20907; 20906; 20905; 20904; 20904; 20903; 20902; 20901; 20900;
  20899; 20898; 20897; 20896; 20895; 20894; 20894; 20893; 20892; 20891; 20890; 20889; 20888; 20887; 20886; 20885; 20884; 20884;
  20883; 20882; 20881; 20880; 20879; 20878; 20877; 20876; 20875; 20875; 20874; 20873; 20872; 20871; 20870; 20869; 20868; 20867].
Definition log_lut_35 : list Z := [
  20866; 20866; 20865; 20864; 20863; 20862; 20861; 20860; 20859; 20858; 20857; 20856; 20856; 20855; 20854; 20853; 20852; 20851;
  20850; 20849; 20848; 20847; 20847; 20846; 20845; 20844; 20843; 20842; 20841; 20840; 20839; 20838; 20837; 20837; 20836; 20835;
  20834; 20833; 20832; 20831; 20830; 20829; 20828; 20828; 20827; 20826; 20825; 20824; 20823; 20822; 20821; 20820; 20819; 20819;
  20818; 20817; 20816; 20815; 20814; 20813; 20812; 20811; 20810; 20810; 20809; 20808; 20807; 20806; 20805; 20804; 20803; 20802;
  20801; 20800; 20800; 20799; 20798; 20797; 20796; 20795; 20794; 20793; 20792; 20791; 20791; 20790; 20789; 20788; 20787; 20786;
  20785; 20784; 20783; 20782; 20782; 20781; 20780; 20779; 20778; 20777; 20776; 20775; 20774; 20773; 20773; 20772; 20771; 20770;
  20769; 20768; 20767; 20766; 20765; 20764; 20764; 20763; 20762; 20761; 20760; 20759; 20758; 20757; 20756; 20755; 20755; 20754;
  20753; 20752; 20751; 20750; 20749; 20748; 20747; 20746; 20746; 20745; 20744; 20743; 20742; 20741; 20740; 20739; 20738; 20737;
  20737; 20736; 20735; 20734; 20733; 20732; 20731; 20730; 20729; 20728; 20728; 20727; 20726; 20725; 20724; 20723; 20722; 20721;
  20720; 20719; 20719; 20718; 20717; 20716; 20715; 20714; 20713; 20712; 20711; 20710; 20710; 20709; 20708; 20707; 20706; 20705;
  20704; 20703; 20702; 20701; 20701; 20700; 20699; 20698; 20697; 20696; 20695; 20694; 20693; 20692; 20692; 20691; 20690; 20689;
  20688; 20687; 20686; 20685; 20684; 20683; 20683; 20682; 20681; 20680; 20679; 20678; 20677; 20676; 20675; 20675; 20674; 20673;
  20672; 20671; 20670; 20669; 20668; 20667; 20666; 20666; 20665; 20664; 20663; 20662; 20661; 20660; 20659; 20658; 20657; 20657;
  20656; 20655; 20654; 20653; 20652; 20651; 20650; 20649; 20648; 20648; 20647; 20646; 20645; 20644; 20643; 20642; 20641; 20640;
  20640; 20639; 20638; 20637; 20636; 20635; 20634; 20633; 20632; 20631; 20631; 20630; 20629; 20628; 20627; 20626; 20625; 20624;
  20623; 20622; 20622; 20621; 20620; 20619; 20618; 20617; 20616; 20615; 20614; 20614; 20613; 20612; 20611; 20610; 20609; 20608;
  20607; 20606; 20605; 20605; 20604; 20603; 20602; 20601; 20600; 20599; 20598; 20597; 20596; 20596; 20595; 20594; 20593; 20592;
  20591; 20590; 20589; 20588; 20588; 20587; 20586; 20585; 20584; 20583; 20582; 20581; 20580; 20579; 20579; 20578; 20577; 20576;
  20575; 20574; 20573; 20572; 20571; 20571; 20570; 20569; 20568; 20567; 20566; 20565; 20564; 20563; 20562; 20562; 20561; 20560;
  20559; 20558; 20557; 20556; 20555; 20554; 20554; 20553; 20552; 20551; 20550; 20549; 20548; 20547; 20546; 20545; 20545; 20544;
  20543; 20542; 20541; 20540; 20539; 20538; 20537; 20537; 20536; 20535; 20534; 20533; 20532; 20531; 20530; 20529; 20529; 20528;
  20527; 20526; 20525; 20524; 20523; 20522; 20521; 20520; 20520; 20519; 20518; 20517; 20516; 20515; 20514; 20513; 20512; 20512;
  20511; 20510; 20509; 20508; 20507; 20506; 20505; 20504; 20504; 20503; 20502; 20501; 20500; 20499; 20498; 20497; 20496; 20495;
  20495; 20494; 20493; 20492; 20491; 20490; 20489; 20488; 20487; 20487; 20486; 20485; 20484; 20483; 20482; 20481; 20480; 20479;
  20479; 20478; 20477; 20476; 20475; 20474; 20473; 20472; 20471; 20470; 20470; 20469; 20468; 20467; 20466; 20465; 20464; 20463;
  20462; 20462; 20461; 20460; 20459; 20458; 20457; 20456; 20455; 20454; 20454; 20453; 20452; 20451; 20450; 20449; 20448; 20447;
  20446; 20446; 20445; 20444; 20443; 20442; 20441; 20440; 20439; 20438; 20438; 20437; 20436; 20435; 20434; 20433; 20432; 20431;
  20430; 20430; 20429; 20428; 20427; 20426; 20425; 20424; 20423; 20422; 20422; 20421; 20420; 20419; 20418; 20417; 20416; 20415;
  20414; 20413; 20413; 20412; 20411; 20410; 20409; 20408; 20407; 20406; 20405; 20405; 20404; 20403; 20402; 20401; 20400; 20399;
  20398; 20397; 20397; 20396; 20395; 20394; 20393; 20392; 20391; 20390; 20389; 20389; 20388; 20387; 20386; 20385; 20384; 20383;
  20382; 20381; 20381; 20380; 20379; 20378; 20377; 20376; 20375; 20374; 20373; 20373; 20372; 20371; 20370; 20369; 20368; 20367;
  20366; 20365; 20365; 20364; 20363; 20362; 20361; 20360; 20359; 20358; 20357; 20357; 20356; 20355; 20354; 20353; 20352; 20351;
  20350; 20350; 20349; 20348; 20347; 20346; 20345; 20344; 20343; 20342; 20342; 20341; 20340; 20339; 20338; 20337; 20336; 20335;
  20334; 20334; 20333; 20332; 20331; 20330; 20329; 20328; 20327; 20326; 20326; 20325; 20324; 20323; 20322; 20321; 20320; 20319;
  20318; 20318; 20317; 20316; 20315; 20314; 20313; 20312; 20311; 20310; 20310; 20309; 20308; 20307; 20306; 20305; 20304; 20303;
  20302; 20302; 20301; 20300; 20299; 20298; 20297; 20296; 20295; 20295; 20294; 20293; 20292; 20291; 20290; 20289; 20288; 20287;
  20287; 20286; 20285; 20284; 20283; 20282; 20281; 20280; 20279; 20279; 20278; 20277; 20276; 20275; 20274; 20273; 20272; 20271;
  20271; 20270; 20269; 20268; 20267; 20266; 20265; 20264; 20264; 20263; 20262; 20261; 20260; 20259; 20258; 20257; 20256; 20256;
  20255; 20254; 20253; 20252; 20251; 20250; 20249; 20248; 20248; 20247; 20246; 20245; 20244; 20243; 20242; 20241; 20241; 20240;
  20239; 20238; 20237; 20236; 20235; 20234; 20233; 20233; 20232; 20231; 20230; 20229; 20228; 20227; 20226; 20225; 20225; 20224;
  20223; 20222; 20221; 20220; 20219; 20218; 20218; 20217; 20216; 20215; 20214; 20213; 20212; 20211; 20210; 20210; 20209; 20208;
  20207; 20206; 20205; 20204; 20203; 20203; 20202; 20201; 20200; 20199; 20198; 20197; 20196; 20195; 20195; 20194; 20193; 20192;
  20191; 20190; 20189; 20188; 20188; 20187; 20186; 20185; 20184; 20183; 20182; 20181; 20180; 20180; 20179; 20178; 20177; 20176;
  20175; 20174; 20173; 20173; 20172; 20171; 20170; 20169; 20168; 20167; 20166; 20165; 20165; 20164; 20163; 20162; 20161; 20160;
  20159; 20158; 20158; 20157; 20156; 20155; 20154; 20153; 20152; 20151; 20150; 20150; 20149; 20148; 20147; 20146; 20145; 20144;
  20143; 20143; 20142; 20141; 20140; 20139; 20138; 20137; 20136; 20135; 20135; 20134; 20133; 20132; 20131; 20130; 20129; 20128;
  20128; 20127; 20126; 20125; 20124; 20123; 20122; 20121; 20120; 20120; 20119; 20118; 20117; 20116; 20115; 20114; 20113; 20113;
  20112; 20111; 20110; 20109; 20108; 20107; 20106; 20106; 20105; 20104; 20103; 20102; 20101; 20100; 20099; 20098; 20098; 20097;
  20096; 20095; 20094; 20093; 20092; 20091; 20091; 20090; 20089; 20088; 20087; 20086; 20085; 20084; 20084; 20083; 20082; 20081;
  20080; 20079; 20078; 20077; 20076; 20076; 20075; 20074; 20073; 20072; 20071; 20070; 20069; 20069; 20068; 20067; 20066; 20065].
Definition log_lut_36 : list Z := [
  20064; 20063; 20062; 20062; 20061; 20060; 20059; 20058; 20057; 20056; 20055; 20055; 20054; 20053; 20052; 20051; 20050; 20049;
  20048; 20047; 20047; 20046; 20045; 20044; 20043; 20042; 20041; 20040; 20040; 20039; 20038; 20037; 20036; 20035; 20034; 20033;
  20033; 20032; 20031; 20030; 20029; 20028; 20027; 20026; 20026; 20025; 20024; 20023; 20022; 20021; 20020; 20019; 20019; 20018;
  20017; 20016; 20015; 20014; 20013; 20012; 20012; 20011; 20010; 20009; 20008; 20007; 20006; 20005; 20004; 20004; 20003; 20002;
  20001; 20000; 19999; 19998; 19997; 19997; 19996; 19995; 19994; 19993; 19992; 19991; 19990; 19990; 19989; 19988; 19987; 19986;
  19985; 19984; 19983; 19983; 19982; 19981; 19980; 19979; 19978; 19977; 19976; 19976; 19975; 19974; 19973; 19972; 19971; 19970;
  19969; 19969; 19968; 19967; 19966; 19965; 19964; 19963; 19962; 19962; 19961; 19960; 19959; 19958; 19957; 19956; 19955; 19955;
  19954; 19953; 19952; 19951; 19950; 19949; 19948; 19948; 19947; 19946; 19945; 19944; 19943; 19942; 19941; 19941; 19940; 19939;
  19938; 19937; 19936; 19935; 19934; 19934; 19933; 19932; 19931; 19930; 19929; 19928; 19927; 19927; 19926; 19925; 19924; 19923;
  19922; 19921; 19920; 19920; 19919; 19918; 19917; 19916; 19915; 19914; 19913; 19913; 19912; 19911; 19910; 19909; 19908; 19907;
  19906; 19906; 19905; 19904; 19903; 19902; 19901; 19900; 19899; 19899; 19898; 19897; 19896; 19895; 19894; 19893; 19892; 19892;
  19891; 19890; 19889; 19888; 19887; 19886; 19885; 19885; 19884; 19883; 19882; 19881; 19880; 19879; 19878; 19878; 19877; 19876;
  19875; 19874; 19873; 19872; 19871; 19871; 19870; 19869; 19868; 19867; 19866; 19865; 19864; 19864; 19863; 19862; 19861; 19860;
  19859; 19858; 19858; 19857; 19856; 19855; 19854; 19853; 19852; 19851; 19851; 19850; 19849; 19848; 19847; 19846; 19845; 19844;
  19844; 19843; 19842; 19841; 19840; 19839; 19838; 19837; 19837; 19836; 19835; 19834; 19833; 19832; 19831; 19830; 19830; 19829;
  19828; 19827; 19826; 19825; 19824; 19824; 19823; 19822; 19821; 19820; 19819; 19818; 19817; 19817; 19816; 19815; 19814; 19813;
  19812; 19811; 19810; 19810; 19809; 19808; 19807; 19806; 19805; 19804; 19803; 19803; 19802; 19801; 19800; 19799; 19798; 19797;
  19797; 19796; 19795; 19794; 19793; 19792; 19791; 19790; 19790; 19789; 19788; 19787; 19786; 19785; 19784; 19783; 19783; 19782;
  19781; 19780; 19779; 19778; 19777; 19776; 19776; 19775; 19774; 19773; 19772; 19771; 19770; 19770; 19769; 19768; 19767; 19766;
  19765; 19764; 19763; 19763; 19762; 19761; 19760; 19759; 19758; 19757; 19756; 19756; 19755; 19754; 19753; 19752; 19751; 19750;
  19750; 19749; 19748; 19747; 19746; 19745; 19744; 19743; 19743; 19742; 19741; 19740; 19739; 19738; 19737; 19736; 19736; 19735;
  19734; 19733; 19732; 19731; 19730; 19730; 19729; 19728; 19727; 19726; 19725; 19724; 19723; 19723; 19722; 19721; 19720; 19719;
  19718; 19717; 19717; 19716; 19715; 19714; 19713; 19712; 19711; 19710; 19710; 19709; 19708; 19707; 19706; 19705; 19704; 19703;
  19703; 19702; 19701; 19700; 19699; 19698; 19697; 19697; 19696; 19695; 19694; 19693; 19692; 19691; 19690; 19690; 19689; 19688;
  19687; 19686; 19685; 19684; 19684; 19683; 19682; 19681; 19680; 19679; 19678; 19677; 19677; 19676; 19675; 19674; 19673; 19672;
  19671; 19671; 19670; 19669; 19668; 19667; 19666; 19665; 19664; 19664; 19663; 19662; 19661; 19660; 19659; 19658; 19658; 19657;
  19656; 19655; 19654; 19653; 19652; 19651; 19651; 19650; 19649; 19648; 19647; 19646; 19645; 19645; 19644; 19643; 19642; 19641;
  19640; 19639; 19638; 19638; 19637; 19636; 19635; 19634; 19633; 19632; 19632; 19631; 19630; 19629; 19628; 19627; 19626; 19625;
  19625; 19624; 19623; 19622; 19621; 19620; 19619; 19619; 19618; 19617; 19616; 19615; 19614; 19613; 19613; 19612; 19611; 19610;
  19609; 19608; 19607; 19606; 19606; 19605; 19604; 19603; 19602; 19601; 19600; 19600; 19599; 19598; 19597; 19596; 19595; 19594;
  19593; 19593; 19592; 19591; 19590; 19589; 19588; 19587; 19587; 19586; 19585; 19584; 19583; 19582; 19581; 19581; 19580; 19579;
  19578; 19577; 19576; 19575; 19574; 19574; 19573; 19572; 19571; 19570; 19569; 19568; 19568; 19567; 19566; 19565; 19564; 19563;
  19562; 19562; 19561; 19560; 19559; 19558; 19557; 19556; 19555; 19555; 19554; 19553; 19552; 19551; 19550; 19549; 19549; 19548;
  19547; 19546; 19545; 19544; 19543; 19543; 19542; 19541; 19540; 19539; 19538; 19537; 19536; 19536; 19535; 19534; 19533; 19532;
  19531; 19530; 19530; 19529; 19528; 19527; 19526; 19525; 19524; 19524; 19523; 19522; 19521; 19520; 19519; 19518; 19518; 19517;
  19516; 19515; 19514; 19513; 19512; 19511; 19511; 19510; 19509; 19508; 19507; 19506; 19505; 19505; 19504; 19503; 19502; 19501;
  19500; 19499; 19499; 19498; 19497; 19496; 19495; 19494; 19493; 19493; 19492; 19491; 19490; 19489; 19488; 19487; 19486; 19486;
  19485; 19484; 19483; 19482; 19481; 19480; 19480; 19479; 19478; 19477; 19476; 19475; 19474; 19474; 19473; 19472; 19471; 19470;
  19469; 19468; 19468; 19467; 19466; 19465; 19464; 19463; 19462; 19462; 19461; 19460; 19459; 19458; 19457; 19456; 19456; 19455;
  19454; 19453; 19452; 19451; 19450; 19449; 19449; 19448; 19447; 19446; 19445; 19444; 19443; 19443; 19442; 19441; 19440; 19439;
  19438; 19437; 19437; 19436; 19435; 19434; 19433; 19432; 19431; 19431; 19430; 19429; 19428; 19427; 19426; 19425; 19425; 19424;
  19423; 19422; 19421; 19420; 19419; 19419; 19418; 19417; 19416; 19415; 19414; 19413; 19413; 19412; 19411; 19410; 19409; 19408;
  19407; 19407; 19406; 19405; 19404; 19403; 19402; 19401; 19400; 19400; 19399; 19398; 19397; 19396; 19395; 19394; 19394; 19393;
  19392; 19391; 19390; 19389; 19388; 19388; 19387; 19386; 19385; 19384; 19383; 19382; 19382; 19381; 19380; 19379; 19378; 19377;
  19376; 19376; 19375; 19374; 19373; 19372; 19371; 19370; 19370; 19369; 19368; 19367; 19366; 19365; 19364; 19364; 19363; 19362;
  19361; 19360; 19359; 19358; 19358; 19357; 19356; 19355; 19354; 19353; 19352; 19352; 19351; 19350; 19349; 19348; 19347; 19346;
  19346; 19345; 19344; 19343; 19342; 19341; 19340; 19340; 19339; 19338; 19337; 19336; 19335; 19334; 19334; 19333; 19332; 19331;
  19330; 19329; 19328; 19328; 19327; 19326; 19325; 19324; 19323; 19322; 19322; 19321; 19320; 19319; 19318; 19317; 19316; 19316;
  19315; 19314; 19313; 19312; 19311; 19310; 19310; 19309; 19308; 19307; 19306; 19305; 19304; 19304; 19303; 19302; 19301; 19300;
  19299; 19298; 19298; 19297; 19296; 19295; 19294; 19293; 19293; 19292; 19291; 19290; 19289; 19288; 19287; 19287; 19286; 19285].
Definition log_lut_37 : list Z := [
  19284; 19283; 19282; 19281; 19281; 19280; 19279; 19278; 19277; 19276; 19275; 19275; 19274; 19273; 19272; 19271; 19270; 19269;
  19269; 19268; 19267; 19266; 19265; 19264; 19263; 19263; 19262; 19261; 19260; 19259; 19258; 19257; 19257; 19256; 19255; 19254;
  19253; 19252; 19251; 19251; 19250; 19249; 19248; 19247; 19246; 19246; 19245; 19244; 19243; 19242; 19241; 19240; 19240; 19239;
  19238; 19237; 19236; 19235; 19234; 19234; 19233; 19232; 19231; 19230; 19229; 19228; 19228; 19227; 19226; 19225; 19224; 19223;
  19222; 19222; 19221; 19220; 19219; 19218; 19217; 19216; 19216; 19215; 19214; 19213; 19212; 19211; 19211; 19210; 19209; 19208;
  19207; 19206; 19205; 19205; 19204; 19203; 19202; 19201; 19200; 19199; 19199; 19198; 19197; 19196; 19195; 19194; 19193; 19193;
  19192; 19191; 19190; 19189; 19188; 19187; 19187; 19186; 19185; 19184; 19183; 19182; 19182; 19181; 19180; 19179; 19178; 19177;
  19176; 19176; 19175; 19174; 19173; 19172; 19171; 19170; 19170; 19169; 19168; 19167; 19166; 19165; 19164; 19164; 19163; 19162;
  19161; 19160; 19159; 19159; 19158; 19157; 19156; 19155; 19154; 19153; 19153; 19152; 19151; 19150; 19149; 19148; 19147; 19147;
  19146; 19145; 19144; 19143; 19142; 19142; 19141; 19140; 19139; 19138; 19137; 19136; 19136; 19135; 19134; 19133; 19132; 19131;
  19130; 19130; 19129; 19128; 19127; 19126; 19125; 19124; 19124; 19123; 19122; 19121; 19120; 19119; 19119; 19118; 19117; 19116;
  19115; 19114; 19113; 19113; 19112; 19111; 19110; 19109; 19108; 19107; 19107; 19106; 19105; 19104; 19103; 19102; 19102; 19101;
  19100; 19099; 19098; 19097; 19096; 19096; 19095; 19094; 19093; 19092; 19091; 19090; 19090; 19089; 19088; 19087; 19086; 19085;
  19085; 19084; 19083; 19082; 19081; 19080; 19079; 19079; 19078; 19077; 19076; 19075; 19074; 19074; 19073; 19072; 19071; 19070;
  19069; 19068; 19068; 19067; 19066; 19065; 19064; 19063; 19062; 19062; 19061; 19060; 19059; 19058; 19057; 19057; 19056; 19055;
  19054; 19053; 19052; 19051; 19051; 19050; 19049; 19048; 19047; 19046; 19046; 19045; 19044; 19043; 19042; 19041; 19040; 19040;
  19039; 19038; 19037; 19036; 19035; 19034; 19034; 19033; 19032; 19031; 19030; 19029; 19029; 19028; 19027; 19026; 19025; 19024;
  19023; 19023; 19022; 19021; 19020; 19019; 19018; 19018; 19017; 19016; 19015; 19014; 19013; 19012; 19012; 19011; 19010; 19009;
  19008; 19007; 19007; 19006; 19005; 19004; 19003; 19002; 19001; 19001; 19000; 18999; 18998; 18997; 18996; 18996; 18995; 18994;
  18993; 18992; 18991; 18990; 18990; 18989; 18988; 18987; 18986; 18985; 18985; 18984; 18983; 18982; 18981; 18980; 18979; 18979;
  18978; 18977; 18976; 18975; 18974; 18974; 18973; 18972; 18971; 18970; 18969; 18968; 18968; 18967; 18966; 18965; 18964; 18963;
  18963; 18962; 18961; 18960; 18959; 18958; 18957; 18957; 18956; 18955; 18954; 18953; 18952; 18952; 18951; 18950; 18949; 18948;
  18947; 18946; 18946; 18945; 18944; 18943; 18942; 18941; 18941; 18940; 18939; 18938; 18937; 18936; 18935; 18935; 18934; 18933;
  18932; 18931; 18930; 18930; 18929; 18928; 18927; 18926; 18925; 18925; 18924; 18923; 18922; 18921; 18920; 18919; 18919; 18918;
  18917; 18916; 18915; 18914; 18914; 18913; 18912; 18911; 18910; 18909; 18908; 18908; 18907; 18906; 18905; 18904; 18903; 18903;
  18902; 18901; 18900; 18899; 18898; 18898; 18897; 18896; 18895; 18894; 18893; 18892; 18892; 18891; 18890; 18889; 18888; 18887;
  18887; 18886; 18885; 18884; 18883; 18882; 18881; 18881; 18880; 18879; 18878; 18877; 18876; 18876; 18875; 18874; 18873; 18872;
  18871; 18871; 18870; 18869; 18868; 18867; 18866; 18865; 18865; 18864; 18863; 18862; 18861; 18860; 18860; 18859; 18858; 18857;
  18856; 18855; 18855; 18854; 18853; 18852; 18851; 18850; 18849; 18849; 18848; 18847; 18846; 18845; 18844; 18844; 18843; 18842;
  18841; 18840; 18839; 18839; 18838; 18837; 18836; 18835; 18834; 18833; 18833; 18832; 18831; 18830; 18829; 18828; 18828; 18827;
  18826; 18825; 18824; 18823; 18823; 18822; 18821; 18820; 18819; 18818; 18817; 18817; 18816; 18815; 18814; 18813; 18812; 18812;
  18811; 18810; 18809; 18808; 18807; 18807; 18806; 18805; 18804; 18803; 18802; 18801; 18801; 18800; 18799; 18798; 18797; 18796;
  18796; 18795; 18794; 18793; 18792; 18791; 18791; 18790; 18789; 18788; 18787; 18786; 18786; 18785; 18784; 18783; 18782; 18781;
  18780; 18780; 18779; 18778; 18777; 18776; 18775; 18775; 18774; 18773; 18772; 18771; 18770; 18770; 18769; 18768; 18767; 18766;
  18765; 18765; 18764; 18763; 18762; 18761; 18760; 18759; 18759; 18758; 18757; 18756; 18755; 18754; 18754; 18753; 18752; 18751;
  18750; 18749; 18749; 18748; 18747; 18746; 18745; 18744; 18744; 18743; 18742; 18741; 18740; 18739; 18739; 18738; 18737; 18736;
  18735; 18734; 18733; 18733; 18732; 18731; 18730; 18729; 18728; 18728; 18727; 18726; 18725; 18724; 18723; 18723; 18722; 18721;
  18720; 18719; 18718; 18718; 18717; 18716; 18715; 18714; 18713; 18713; 18712; 18711; 18710; 18709; 18708; 18707; 18707; 18706;
  18705; 18704; 18703; 18702; 18702; 18701; 18700; 18699; 18698; 18697; 18697; 18696; 18695; 18694; 18693; 18692; 18692; 18691;
  18690; 18689; 18688; 18687; 18687; 18686; 18685; 18684; 18683; 18682; 18682; 18681; 18680; 18679; 18678; 18677; 18676; 18676;
  18675; 18674; 18673; 18672; 18671; 18671; 18670; 18669; 18668; 18667; 18666; 18666; 18665; 18664; 18663; 18662; 18661; 18661;
  18660; 18659; 18658; 18657; 18656; 18656; 18655; 18654; 18653; 18652; 18651; 18651; 18650; 18649; 18648; 18647; 18646; 18646;
  18645; 18644; 18643; 18642; 18641; 18641; 18640; 18639; 18638; 18637; 18636; 18636; 18635; 18634; 18633; 18632; 18631; 18630;
  18630; 18629; 18628; 18627; 18626; 18625; 18625; 18624; 18623; 18622; 18621; 18620; 18620; 18619; 18618; 18617; 18616; 18615;
  18615; 18614; 18613; 18612; 18611; 18610; 18610; 18609; 18608; 18607; 18606; 18605; 18605; 18604; 18603; 18602; 18601; 18600;
  18600; 18599; 18598; 18597; 18596; 18595; 18595; 18594; 18593; 18592; 18591; 18590; 18590; 18589; 18588; 18587; 18586; 18585;
  18585; 18584; 18583; 18582; 18581; 18580; 18580; 18579; 18578; 18577; 18576; 18575; 18575; 18574; 18573; 18572; 18571; 18570;
  18570; 18569; 18568; 18567; 18566; 18565; 18565; 18564; 18563; 18562; 18561; 18560; 18560; 18559; 18558; 18557; 18556; 18555;
  18555; 18554; 18553; 18552; 18551; 18550; 18550; 18549; 18548; 18547; 18546; 18545; 18545; 18544; 18543; 18542; 18541; 18540;
  18540; 18539; 18538; 18537; 18536; 18535; 18535; 18534; 18533; 18532; 18531; 18530; 18530; 18529; 18528; 18527; 18526; 18525].
Definition log_lut_38 : list Z := [
  18525; 18524; 18523; 18522; 18521; 18520; 18520; 18519; 18518; 18517; 18516; 18515; 18515; 18514; 18513; 18512; 18511; 18510;
  18510; 18509; 18508; 18507; 18506; 18505; 18505; 18504; 18503; 18502; 18501; 18500; 18500; 18499; 18498; 18497; 18496; 18495;
  18495; 18494; 18493; 18492; 18491; 18490; 18490; 18489; 18488; 18487; 18486; 18485; 18485; 18484; 18483; 18482; 18481; 18480;
  18480; 18479; 18478; 18477; 18476; 18475; 18475; 18474; 18473; 18472; 18471; 18470; 18470; 18469; 18468; 18467; 18466; 18465;
  18465; 18464; 18463; 18462; 18461; 18461; 18460; 18459; 18458; 18457; 18456; 18456; 18455; 18454; 18453; 18452; 18451; 18451;
  18450; 18449; 18448; 18447; 18446; 18446; 18445; 18444; 18443; 18442; 18441; 18441; 18440; 18439; 18438; 18437; 18436; 18436;
  18435; 18434; 18433; 18432; 18431; 18431; 18430; 18429; 18428; 18427; 18426; 18426; 18425; 18424; 18423; 18422; 18421; 18421;
  18420; 18419; 18418; 18417; 18417; 18416; 18415; 18414; 18413; 18412; 18412; 18411; 18410; 18409; 18408; 18407; 18407; 18406;
  18405; 18404; 18403; 18402; 18402; 18401; 18400; 18399; 18398; 18397; 18397; 18396; 18395; 18394; 18393; 18392; 18392; 18391;
  18390; 18389; 18388; 18387; 18387; 18386; 18385; 18384; 18383; 18383; 18382; 18381; 18380; 18379; 18378; 18378; 18377; 18376;
  18375; 18374; 18373; 18373; 18372; 18371; 18370; 18369; 18368; 18368; 18367; 18366; 18365; 18364; 18363; 18363; 18362; 18361;
  18360; 18359; 18359; 18358; 18357; 18356; 18355; 18354; 18354; 18353; 18352; 18351; 18350; 18349; 18349; 18348; 18347; 18346;
  18345; 18344; 18344; 18343; 18342; 18341; 18340; 18339; 18339; 18338; 18337; 18336; 18335; 18335; 18334; 18333; 18332; 18331;
  18330; 18330; 18329; 18328; 18327; 18326; 18325; 18325; 18324; 18323; 18322; 18321; 18320; 18320; 18319; 18318; 18317; 18316;
  18315; 18315; 18314; 18313; 18312; 18311; 18311; 18310; 18309; 18308; 18307; 18306; 18306; 18305; 18304; 18303; 18302; 18301;
  18301; 18300; 18299; 18298; 18297; 18296; 18296; 18295; 18294; 18293; 18292; 18292; 18291; 18290; 18289; 18288; 18287; 18287;
  18286; 18285; 18284; 18283; 18282; 18282; 18281; 18280; 18279; 18278; 18277; 18277; 18276; 18275; 18274; 18273; 18273; 18272;
  18271; 18270; 18269; 18268; 18268; 18267; 18266; 18265; 18264; 18263; 18263; 18262; 18261; 18260; 18259; 18259; 18258; 18257;
  18256; 18255; 18254; 18254; 18253; 18252; 18251; 18250; 18249; 18249; 18248; 18247; 18246; 18245; 18244; 18244; 18243; 18242;
  18241; 18240; 18240; 18239; 18238; 18237; 18236; 18235; 18235; 18234; 18233; 18232; 18231; 18230; 18230; 18229; 18228; 18227;
  18226; 18226; 18225; 18224; 18223; 18222; 18221; 18221; 18220; 18219; 18218; 18217; 18216; 18216; 18215; 18214; 18213; 18212;
  18212; 18211; 18210; 18209; 18208; 18207; 18207; 18206; 18205; 18204; 18203; 18202; 18202; 18201; 18200; 18199; 18198; 18198;
  18197; 18196; 18195; 18194; 18193; 18193; 18192; 18191; 18190; 18189; 18188; 18188; 18187; 18186; 18185; 18184; 18184; 18183;
  18182; 18181; 18180; 18179; 18179; 18178; 18177; 18176; 18175; 18175; 18174; 18173; 18172; 18171; 18170; 18170; 18169; 18168;
  18167; 18166; 18165; 18165; 18164; 18163; 18162; 18161; 18161; 18160; 18159; 18158; 18157; 18156; 18156; 18155; 18154; 18153;
  18152; 18151; 18151; 18150; 18149; 18148; 18147; 18147; 18146; 18145; 18144; 18143; 18142; 18142; 18141; 18140; 18139; 18138;
  18138; 18137; 18136; 18135; 18134; 18133; 18133; 18132; 18131; 18130; 18129; 18128; 18128; 18127; 18126; 18125; 18124; 18124;
  18123; 18122; 18121; 18120; 18119; 18119; 18118; 18117; 18116; 18115; 18115; 18114; 18113; 18112; 18111; 18110; 18110; 18109;
  18108; 18107; 18106; 18105; 18105; 18104; 18103; 18102; 18101; 18101; 18100; 18099; 18098; 18097; 18096; 18096; 18095; 18094;
  18093; 18092; 18092; 18091; 18090; 18089; 18088; 18087; 18087; 18086; 18085; 18084; 18083; 18083; 18082; 18081; 18080; 18079;
  18078; 18078; 18077; 18076; 18075; 18074; 18074; 18073; 18072; 18071; 18070; 18069; 18069; 18068; 18067; 18066; 18065; 18065;
  18064; 18063; 18062; 18061; 18060; 18060; 18059; 18058; 18057; 18056; 18055; 18055; 18054; 18053; 18052; 18051; 18051; 18050;
  18049; 18048; 18047; 18046; 18046; 18045; 18044; 18043; 18042; 18042; 18041; 18040; 18039; 18038; 18037; 18037; 18036; 18035;
  18034; 18033; 18033; 18032; 18031; 18030; 18029; 18028; 18028; 18027; 18026; 18025; 18024; 18024; 18023; 18022; 18021; 18020;
  18019; 18019; 18018; 18017; 18016; 18015; 18015; 18014; 18013; 18012; 18011; 18010; 18010; 18009; 18008; 18007; 18006; 18006;
  18005; 18004; 18003; 18002; 18001; 18001; 18000; 17999; 17998; 17997; 17997; 17996; 17995; 17994; 17993; 17993; 17992; 17991;
  17990; 17989; 17988; 17988; 17987; 17986; 17985; 17984; 17984; 17983; 17982; 17981; 17980; 17979; 17979; 17978; 17977; 17976;
  17975; 17975; 17974; 17973; 17972; 17971; 17970; 17970; 17969; 17968; 17967; 17966; 17966; 17965; 17964; 17963; 17962; 17961;
  17961; 17960; 17959; 17958; 17957; 17957; 17956; 17955; 17954; 17953; 17952; 17952; 17951; 17950; 17949; 17948; 17948; 17947;
  17946; 17945; 17944; 17944; 17943; 17942; 17941; 17940; 17939; 17939; 17938; 17937; 17936; 17935; 17935; 17934; 17933; 17932;
  17931; 17930; 17930; 17929; 17928; 17927; 17926; 17926; 17925; 17924; 17923; 17922; 17921; 17921; 17920; 17919; 17918; 17917;
  17917; 17916; 17915; 17914; 17913; 17913; 17912; 17911; 17910; 17909; 17908; 17908; 17907; 17906; 17905; 17904; 17904; 17903;
  17902; 17901; 17900; 17899; 17899; 17898; 17897; 17896; 17895; 17895; 17894; 17893; 17892; 17891; 17891; 17890; 17889; 17888;
  17887; 17886; 17886; 17885; 17884; 17883; 17882; 17882; 17881; 17880; 17879; 17878; 17878; 17877; 17876; 17875; 17874; 17873;
  17873; 17872; 17871; 17870; 17869; 17869; 17868; 17867; 17866; 17865; 17864; 17864; 17863; 17862; 17861; 17860; 17860; 17859;
  17858; 17857; 17856; 17856; 17855; 17854; 17853; 17852; 17851; 17851; 17850; 17849; 17848; 17847; 17847; 17846; 17845; 17844;
  17843; 17843; 17842; 17841; 17840; 17839; 17838; 17838; 17837; 17836; 17835; 17834; 17834; 17833; 17832; 17831; 17830; 17830;
  17829; 17828; 17827; 17826; 17825; 17825; 17824; 17823; 17822; 17821; 17821; 17820; 17819; 17818; 17817; 17817; 17816; 17815;
  17814; 17813; 17812; 17812; 17811; 17810; 17809; 17808; 17808; 17807; 17806; 17805; 17804; 17804; 17803; 17802; 17801; 17800;
  17799; 17799; 17798; 17797; 17796; 17795; 17795; 17794; 17793; 17792; 17791; 17791; 17790; 17789; 17788; 17787; 17786; 17786].
Definition log_lut_39 : list Z := [
  17785; 17784; 17783; 17782; 17782; 17781; 17780; 17779; 17778; 17778; 17777; 17776; 17775; 17774; 17774; 17773; 17772; 17771;
  17770; 17769; 17769; 17768; 17767; 17766; 17765; 17765; 17764; 17763; 17762; 17761; 17761; 17760; 17759; 17758; 17757; 17756;
  17756; 17755; 17754; 17753; 17752; 17752; 17751; 17750; 17749; 17748; 17748; 17747; 17746; 17745; 17744; 17744; 17743; 17742;
  17741; 17740; 17739; 17739; 17738; 17737; 17736; 17735; 17735; 17734; 17733; 17732; 17731; 17731; 17730; 17729; 17728; 17727;
  17727; 17726; 17725; 17724; 17723; 17722; 17722; 17721; 17720; 17719; 17718; 17718; 17717; 17716; 17715; 17714; 17714; 17713;
  17712; 17711; 17710; 17710; 17709; 17708; 17707; 17706; 17705; 17705; 17704; 17703; 17702; 17701; 17701; 17700; 17699; 17698;
  17697; 17697; 17696; 17695; 17694; 17693; 17693; 17692; 17691; 17690; 17689; 17688; 17688; 17687; 17686; 17685; 17684; 17684;
  17683; 17682; 17681; 17680; 17680; 17679; 17678; 17677; 17676; 17676; 17675; 17674; 17673; 17672; 17672; 17671; 17670; 17669;
  17668; 17667; 17667; 17666; 17665; 17664; 17663; 17663; 17662; 17661; 17660; 17659; 17659; 17658; 17657; 17656; 17655; 17655;
  17654; 17653; 17652; 17651; 17651; 17650; 17649; 17648; 17647; 17646; 17646; 17645; 17644; 17643; 17642; 17642; 17641; 17640;
  17639; 17638; 17638; 17637; 17636; 17635; 17634; 17634; 17633; 17632; 17631; 17630; 17630; 17629; 17628; 17627; 17626; 17625;
  17625; 17624; 17623; 17622; 17621; 17621; 17620; 17619; 17618; 17617; 17617; 17616; 17615; 17614; 17613; 17613; 17612; 17611;
  17610; 17609; 17609; 17608; 17607; 17606; 17605; 17605; 17604; 17603; 17602; 17601; 17600; 17600; 17599; 17598; 17597; 17596;
  17596; 17595; 17594; 17593; 17592; 17592; 17591; 17590; 17589; 17588; 17588; 17587; 17586; 17585; 17584; 17584; 17583; 17582;
  17581; 17580; 17580; 17579; 17578; 17577; 17576; 17576; 17575; 17574; 17573; 17572; 17571; 17571; 17570; 17569; 17568; 17567;
  17567; 17566; 17565; 17564; 17563; 17563; 17562; 17561; 17560; 17559; 17559; 17558; 17557; 17556; 17555; 17555; 17554; 17553;
  17552; 17551; 17551; 17550; 17549; 17548; 17547; 17547; 17546; 17545; 17544; 17543; 17543; 17542; 17541; 17540; 17539; 17539;
  17538; 17537; 17536; 17535; 17534; 17534; 17533; 17532; 17531; 17530; 17530; 17529; 17528; 17527; 17526; 17526; 17525; 17524;
  17523; 17522; 17522; 17521; 17520; 17519; 17518; 17518; 17517; 17516; 17515; 17514; 17514; 17513; 17512; 17511; 17510; 17510;
  17509; 17508; 17507; 17506; 17506; 17505; 17504; 17503; 17502; 17502; 17501; 17500; 17499; 17498; 17498; 17497; 17496; 17495;
  17494; 17493; 17493; 17492; 17491; 17490; 17489; 17489; 17488; 17487; 17486; 17485; 17485; 17484; 17483; 17482; 17481; 17481;
  17480; 17479; 17478; 17477; 17477; 17476; 17475; 17474; 17473; 17473; 17472; 17471; 17470; 17469; 17469; 17468; 17467; 17466;
  17465; 17465; 17464; 17463; 17462; 17461; 17461; 17460; 17459; 17458; 17457; 17457; 17456; 17455; 17454; 17453; 17453; 17452;
  17451; 17450; 17449; 17449; 17448; 17447; 17446; 17445; 17445; 17444; 17443; 17442; 17441; 17441; 17440; 17439; 17438; 17437;
  17437; 17436; 17435; 17434; 17433; 17433; 17432; 17431; 17430; 17429; 17429; 17428; 17427; 17426; 17425; 17425; 17424; 17423;
  17422; 17421; 17421; 17420; 17419; 17418; 17417; 17417; 17416; 17415; 17414; 17413; 17413; 17412; 17411; 17410; 17409; 17409;
  17408; 17407; 17406; 17405; 17405; 17404; 17403; 17402; 17401; 17400; 17400; 17399; 17398; 17397; 17396; 17396; 17395; 17394;
  17393; 17392; 17392; 17391; 17390; 17389; 17388; 17388; 17387; 17386; 17385; 17384; 17384; 17383; 17382; 17381; 17380; 17380;
  17379; 17378; 17377; 17376; 17376; 17375; 17374; 17373; 17372; 17372; 17371; 17370; 17369; 17369; 17368; 17367; 17366; 17365;
  17365; 17364; 17363; 17362; 17361; 17361; 17360; 17359; 17358; 17357; 17357; 17356; 17355; 17354; 17353; 17353; 17352; 17351;
  17350; 17349; 17349; 17348; 17347; 17346; 17345; 17345; 17344; 17343; 17342; 17341; 17341; 17340; 17339; 17338; 17337; 17337;
  17336; 17335; 17334; 17333; 17333; 17332; 17331; 17330; 17329; 17329; 17328; 17327; 17326; 17325; 17325; 17324; 17323; 17322;
  17321; 17321; 17320; 17319; 17318; 17317; 17317; 17316; 17315; 17314; 17313; 17313; 17312; 17311; 17310; 17309; 17309; 17308;
  17307; 17306; 17305; 17305; 17304; 17303; 17302; 17301; 17301; 17300; 17299; 17298; 17297; 17297; 17296; 17295; 17294; 17293;
  17293; 17292; 17291; 17290; 17289; 17289; 17288; 17287; 17286; 17285; 17285; 17284; 17283; 17282; 17281; 17281; 17280; 17279;
  17278; 17278; 17277; 17276; 17275; 17274; 17274; 17273; 17272; 17271; 17270; 17270; 17269; 17268; 17267; 17266; 17266; 17265;
  17264; 17263; 17262; 17262; 17261; 17260; 17259; 17258; 17258; 17257; 17256; 17255; 17254; 17254; 17253; 17252; 17251; 17250;
  17250; 17249; 17248; 17247; 17246; 17246; 17245; 17244; 17243; 17242; 17242; 17241; 17240; 17239; 17238; 17238; 17237; 17236;
  17235; 17235; 17234; 17233; 17232; 17231; 17231; 17230; 17229; 17228; 17227; 17227; 17226; 17225; 17224; 17223; 17223; 17222;
  17221; 17220; 17219; 17219; 17218; 17217; 17216; 17215; 17215; 17214; 17213; 17212; 17211; 17211; 17210; 17209; 17208; 17207;
  17207; 17206; 17205; 17204; 17203; 17203; 17202; 17201; 17200; 17200; 17199; 17198; 17197; 17196; 17196; 17195; 17194; 17193;
  17192; 17192; 17191; 17190; 17189; 17188; 17188; 17187; 17186; 17185; 17184; 17184; 17183; 17182; 17181; 17180; 17180; 17179;
  17178; 17177; 17176; 17176; 17175; 17174; 17173; 17173; 17172; 17171; 17170; 17169; 17169; 17168; 17167; 17166; 17165; 17165;
  17164; 17163; 17162; 17161; 17161; 17160; 17159; 17158; 17157; 17157; 17156; 17155; 17154; 17153; 17153; 17152; 17151; 17150;
  17149; 17149; 17148; 17147; 17146; 17146; 17145; 17144; 17143; 17142; 17142; 17141; 17140; 17139; 17138; 17138; 17137; 17136;
  17135; 17134; 17134; 17133; 17132; 17131; 17130; 17130; 17129; 17128; 17127; 17126; 17126; 17125; 17124; 17123; 17123; 17122;
  17121; 17120; 17119; 17119; 17118; 17117; 17116; 17115; 17115; 17114; 17113; 17112; 17111; 17111; 17110; 17109; 17108; 17107;
  17107; 17106; 17105; 17104; 17104; 17103; 17102; 17101; 17100; 17100; 17099; 17098; 17097; 17096; 17096; 17095; 17094; 17093;
  17092; 17092; 17091; 17090; 17089; 17088; 17088; 17087; 17086; 17085; 17085; 17084; 17083; 17082; 17081; 17081; 17080; 17079;
  17078; 17077; 17077; 17076; 17075; 17074; 17073; 17073; 17072; 17071; 17070; 17069; 17069; 17068; 17067; 17066; 17066; 17065].
Definition log_lut_40 : list Z := [
  17064; 17063; 17062; 17062; 17061; 17060; 17059; 17058; 17058; 17057; 17056; 17055; 17054; 17054; 17053; 17052; 17051; 17050;
  17050; 17049; 17048; 17047; 17047; 17046; 17045; 17044; 17043; 17043; 17042; 17041; 17040; 17039; 17039; 17038; 17037; 17036;
  17035; 17035; 17034; 17033; 17032; 17032; 17031; 17030; 17029; 17028; 17028; 17027; 17026; 17025; 17024; 17024; 17023; 17022;
  17021; 17020; 17020; 17019; 17018; 17017; 17017; 17016; 17015; 17014; 17013; 17013; 17012; 17011; 17010; 17009; 17009; 17008;
  17007; 17006; 17005; 17005; 17004; 17003; 17002; 17002; 17001; 17000; 16999; 16998; 16998; 16997; 16996; 16995; 16994; 16994;
  16993; 16992; 16991; 16990; 16990; 16989; 16988; 16987; 16987; 16986; 16985; 16984; 16983; 16983; 16982; 16981; 16980; 16979;
  16979; 16978; 16977; 16976; 16975; 16975; 16974; 16973; 16972; 16972; 16971; 16970; 16969; 16968; 16968; 16967; 16966; 16965;
  16964; 16964; 16963; 16962; 16961; 16961; 16960; 16959; 16958; 16957; 16957; 16956; 16955; 16954; 16953; 16953; 16952; 16951;
  16950; 16949; 16949; 16948; 16947; 16946; 16946; 16945; 16944; 16943; 16942; 16942; 16941; 16940; 16939; 16938; 16938; 16937;
  16936; 16935; 16935; 16934; 16933; 16932; 16931; 16931; 16930; 16929; 16928; 16927; 16927; 16926; 16925; 16924; 16923; 16923;
  16922; 16921; 16920; 16920; 16919; 16918; 16917; 16916; 16916; 16915; 16914; 16913; 16912; 16912; 16911; 16910; 16909; 16909;
  16908; 16907; 16906; 16905; 16905; 16904; 16903; 16902; 16901; 16901; 16900; 16899; 16898; 16898; 16897; 16896; 16895; 16894;
  16894; 16893; 16892; 16891; 16890; 16890; 16889; 16888; 16887; 16887; 16886; 16885; 16884; 16883; 16883; 16882; 16881; 16880;
  16879; 16879; 16878; 16877; 16876; 16876; 16875; 16874; 16873; 16872; 16872; 16871; 16870; 16869; 16868; 16868; 16867; 16866;
  16865; 16865; 16864; 16863; 16862; 16861; 16861; 16860; 16859; 16858; 16857; 16857; 16856; 16855; 16854; 16854; 16853; 16852;
  16851; 16850; 16850; 16849; 16848; 16847; 16846; 16846; 16845; 16844; 16843; 16843; 16842; 16841; 16840; 16839; 16839; 16838;
  16837; 16836; 16835; 16835; 16834; 16833; 16832; 16832; 16831; 16830; 16829; 16828; 16828; 16827; 16826; 16825; 16824; 16824;
  16823; 16822; 16821; 16821; 16820; 16819; 16818; 16817; 16817; 16816; 16815; 16814; 16814; 16813; 16812; 16811; 16810; 16810;
  16809; 16808; 16807; 16806; 16806; 16805; 16804; 16803; 16803; 16802; 16801; 16800; 16799; 16799; 16798; 16797; 16796; 16795;
  16795; 16794; 16793; 16792; 16792; 16791; 16790; 16789; 16788; 16788; 16787; 16786; 16785; 16785; 16784; 16783; 16782; 16781;
  16781; 16780; 16779; 16778; 16777; 16777; 16776; 16775; 16774; 16774; 16773; 16772; 16771; 16770; 16770; 16769; 16768; 16767;
  16766; 16766; 16765; 16764; 16763; 16763; 16762; 16761; 16760; 16759; 16759; 16758; 16757; 16756; 16756; 16755; 16754; 16753;
  16752; 16752; 16751; 16750; 16749; 16749; 16748; 16747; 16746; 16745; 16745; 16744; 16743; 16742; 16741; 16741; 16740; 16739;
  16738; 16738; 16737; 16736; 16735; 16734; 16734; 16733; 16732; 16731; 16731; 16730; 16729; 16728; 16727; 16727; 16726; 16725;
  16724; 16723; 16723; 16722; 16721; 16720; 16720; 16719; 16718; 16717; 16716; 16716; 16715; 16714; 16713; 16713; 16712; 16711;
  16710; 16709; 16709; 16708; 16707; 16706; 16706; 16705; 16704; 16703; 16702; 16702; 16701; 16700; 16699; 16698; 16698; 16697;
  16696; 16695; 16695; 16694; 16693; 16692; 16691; 16691; 16690; 16689; 16688; 16688; 16687; 16686; 16685; 16684; 16684; 16683;
  16682; 16681; 16681; 16680; 16679; 16678; 16677; 16677; 16676; 16675; 16674; 16674; 16673; 16672; 16671; 16670; 16670; 16669;
  16668; 16667; 16666; 16666; 16665; 16664; 16663; 16663; 16662; 16661; 16660; 16659; 16659; 16658; 16657; 16656; 16656; 16655;
  16654; 16653; 16652; 16652; 16651; 16650; 16649; 16649; 16648; 16647; 16646; 16645; 16645; 16644; 16643; 16642; 16642; 16641;
  16640; 16639; 16638; 16638; 16637; 16636; 16635; 16635; 16634; 16633; 16632; 16631; 16631; 16630; 16629; 16628; 16628; 16627;
  16626; 16625; 16624; 16624; 16623; 16622; 16621; 16620; 16620; 16619; 16618; 16617; 16617; 16616; 16615; 16614; 16613; 16613;
  16612; 16611; 16610; 16610; 16609; 16608; 16607; 16606; 16606; 16605; 16604; 16603; 16603; 16602; 16601; 16600; 16599; 16599;
  16598; 16597; 16596; 16596; 16595; 16594; 16593; 16592; 16592; 16591; 16590; 16589; 16589; 16588; 16587; 16586; 16585; 16585;
  16584; 16583; 16582; 16582; 16581; 16580; 16579; 16578; 16578; 16577; 16576; 16575; 16575; 16574; 16573; 16572; 16571; 16571;
  16570; 16569; 16568; 16568; 16567; 16566; 16565; 16564; 16564; 16563; 16562; 16561; 16561; 16560; 16559; 16558; 16557; 16557;
  16556; 16555; 16554; 16554; 16553; 16552; 16551; 16550; 16550; 16549; 16548; 16547; 16547; 16546; 16545; 16544; 16544; 16543;
  16542; 16541; 16540; 16540; 16539; 16538; 16537; 16537; 16536; 16535; 16534; 16533; 16533; 16532; 16531; 16530; 16530; 16529;
  16528; 16527; 16526; 16526; 16525; 16524; 16523; 16523; 16522; 16521; 16520; 16519; 16519; 16518; 16517; 16516; 16516; 16515;
  16514; 16513; 16512; 16512; 16511; 16510; 16509; 16509; 16508; 16507; 16506; 16505; 16505; 16504; 16503; 16502; 16502; 16501;
  16500; 16499; 16498; 16498; 16497; 16496; 16495; 16495; 16494; 16493; 16492; 16492; 16491; 16490; 16489; 16488; 16488; 16487;
  16486; 16485; 16485; 16484; 16483; 16482; 16481; 16481; 16480; 16479; 16478; 16478; 16477; 16476; 16475; 16474; 16474; 16473;
  16472; 16471; 16471; 16470; 16469; 16468; 16467; 16467; 16466; 16465; 16464; 16464; 16463; 16462; 16461; 16461; 16460; 16459;
  16458; 16457; 16457; 16456; 16455; 16454; 16454; 16453; 16452; 16451; 16450; 16450; 16449; 16448; 16447; 16447; 16446; 16445;
  16444; 16443; 16443; 16442; 16441; 16440; 16440; 16439; 16438; 16437; 16437; 16436; 16435; 16434; 16433; 16433; 16432; 16431;
  16430; 16430; 16429; 16428; 16427; 16426; 16426; 16425; 16424; 16423; 16423; 16422; 16421; 16420; 16420; 16419; 16418; 16417;
  16416; 16416; 16415; 16414; 16413; 16413; 16412; 16411; 16410; 16409; 16409; 16408; 16407; 16406; 16406; 16405; 16404; 16403;
  16403; 16402; 16401; 16400; 16399; 16399; 16398; 16397; 16396; 16396; 16395; 16394; 16393; 16392; 16392; 16391; 16390; 16389;
  16389; 16388; 16387; 16386; 16386; 16385; 16384; 16383; 16382; 16382; 16381; 16380; 16379; 16379; 16378; 16377; 16376; 16375;
  16375; 16374; 16373; 16372; 16372; 16371; 16370; 16369; 16369; 16368; 16367; 16366; 16365; 16365; 16364; 16363; 16362; 16362].
Definition log_lut_41 : list Z := [
  16361; 16360; 16359; 16358; 16358; 16357; 16356; 16355; 16355; 16354; 16353; 16352; 16352; 16351; 16350; 16349; 16348; 16348;
  16347; 16346; 16345; 16345; 16344; 16343; 16342; 16342; 16341; 16340; 16339; 16338; 16338; 16337; 16336; 16335; 16335; 16334;
  16333; 16332; 16331; 16331; 16330; 16329; 16328; 16328; 16327; 16326; 16325; 16325; 16324; 16323; 16322; 16321; 16321; 16320;
  16319; 16318; 16318; 16317; 16316; 16315; 16315; 16314; 16313; 16312; 16311; 16311; 16310; 16309; 16308; 16308; 16307; 16306;
  16305; 16305; 16304; 16303; 16302; 16301; 16301; 16300; 16299; 16298; 16298; 16297; 16296; 16295; 16295; 16294; 16293; 16292;
  16291; 16291; 16290; 16289; 16288; 16288; 16287; 16286; 16285; 16285; 16284; 16283; 16282; 16281; 16281; 16280; 16279; 16278;
  16278; 16277; 16276; 16275; 16275; 16274; 16273; 16272; 16271; 16271; 16270; 16269; 16268; 16268; 16267; 16266; 16265; 16265;
  16264; 16263; 16262; 16261; 16261; 16260; 16259; 16258; 16258; 16257; 16256; 16255; 16255; 16254; 16253; 16252; 16251; 16251;
  16250; 16249; 16248; 16248; 16247; 16246; 16245; 16245; 16244; 16243; 16242; 16241; 16241; 16240; 16239; 16238; 16238; 16237;
  16236; 16235; 16235; 16234; 16233; 16232; 16231; 16231; 16230; 16229; 16228; 16228; 16227; 16226; 16225; 16225; 16224; 16223;
  16222; 16221; 16221; 16220; 16219; 16218; 16218; 16217; 16216; 16215; 16215; 16214; 16213; 16212; 16211; 16211; 16210; 16209;
  16208; 16208; 16207; 16206; 16205; 16205; 16204; 16203; 16202; 16202; 16201; 16200; 16199; 16198; 16198; 16197; 16196; 16195;
  16195; 16194; 16193; 16192; 16192; 16191; 16190; 16189; 16188; 16188; 16187; 16186; 16185; 16185; 16184; 16183; 16182; 16182;
  16181; 16180; 16179; 16179; 16178; 16177; 16176; 16175; 16175; 16174; 16173; 16172; 16172; 16171; 16170; 16169; 16169; 16168;
  16167; 16166; 16165; 16165; 16164; 16163; 16162; 16162; 16161; 16160; 16159; 16159; 16158; 16157; 16156; 16156; 16155; 16154;
  16153; 16152; 16152; 16151; 16150; 16149; 16149; 16148; 16147; 16146; 16146; 16145; 16144; 16143; 16142; 16142; 16141; 16140;
  16139; 16139; 16138; 16137; 16136; 16136; 16135; 16134; 16133; 16133; 16132; 16131; 16130; 16129; 16129; 16128; 16127; 16126;
  16126; 16125; 16124; 16123; 16123; 16122; 16121; 16120; 16120; 16119; 16118; 16117; 16116; 16116; 16115; 16114; 16113; 16113;
  16112; 16111; 16110; 16110; 16109; 16108; 16107; 16107; 16106; 16105; 16104; 16103; 16103; 16102; 16101; 16100; 16100; 16099;
  16098; 16097; 16097; 16096; 16095; 16094; 16094; 16093; 16092; 16091; 16090; 16090; 16089; 16088; 16087; 16087; 16086; 16085;
  16084; 16084; 16083; 16082; 16081; 16081; 16080; 16079; 16078; 16077; 16077; 16076; 16075; 16074; 16074; 16073; 16072; 16071;
  16071; 16070; 16069; 16068; 16068; 16067; 16066; 16065; 16064; 16064; 16063; 16062; 16061; 16061; 16060; 16059; 16058; 16058;
  16057; 16056; 16055; 16055; 16054; 16053; 16052; 16052; 16051; 16050; 16049; 16048; 16048; 16047; 16046; 16045; 16045; 16044;
  16043; 16042; 16042; 16041; 16040; 16039; 16039; 16038; 16037; 16036; 16035; 16035; 16034; 16033; 16032; 16032; 16031; 16030;
  16029; 16029; 16028; 16027; 16026; 16026; 16025; 16024; 16023; 16023; 16022; 16021; 16020; 16019; 16019; 16018; 16017; 16016;
  16016; 16015; 16014; 16013; 16013; 16012; 16011; 16010; 16010; 16009; 16008; 16007; 16007; 16006; 16005; 16004; 16003; 16003;
  16002; 16001; 16000; 16000; 15999; 15998; 15997; 15997; 15996; 15995; 15994; 15994; 15993; 15992; 15991; 15991; 15990; 15989;
  15988; 15987; 15987; 15986; 15985; 15984; 15984; 15983; 15982; 15981; 15981; 15980; 15979; 15978; 15978; 15977; 15976; 15975;
  15975; 15974; 15973; 15972; 15971; 15971; 15970; 15969; 15968; 15968; 15967; 15966; 15965; 15965; 15964; 15963; 15962; 15962;
  15961; 15960; 15959; 15959; 15958; 15957; 15956; 15955; 15955; 15954; 15953; 15952; 15952; 15951; 15950; 15949; 15949; 15948;
  15947; 15946; 15946; 15945; 15944; 15943; 15943; 15942; 15941; 15940; 15940; 15939; 15938; 15937; 15936; 15936; 15935; 15934;
  15933; 15933; 15932; 15931; 15930; 15930; 15929; 15928; 15927; 15927; 15926; 15925; 15924; 15924; 15923; 15922; 15921; 15921;
  15920; 15919; 15918; 15917; 15917; 15916; 15915; 15914; 15914; 15913; 15912; 15911; 15911; 15910; 15909; 15908; 15908; 15907;
  15906; 15905; 15905; 15904; 15903; 15902; 15902; 15901; 15900; 15899; 15898; 15898; 15897; 15896; 15895; 15895; 15894; 15893;
  15892; 15892; 15891; 15890; 15889; 15889; 15888; 15887; 15886; 15886; 15885; 15884; 15883; 15883; 15882; 15881; 15880; 15880;
  15879; 15878; 15877; 15876; 15876; 15875; 15874; 15873; 15873; 15872; 15871; 15870; 15870; 15869; 15868; 15867; 15867; 15866;
  15865; 15864; 15864; 15863; 15862; 15861; 15861; 15860; 15859; 15858; 15858; 15857; 15856; 15855; 15854; 15854; 15853; 15852;
  15851; 15851; 15850; 15849; 15848; 15848; 15847; 15846; 15845; 15845; 15844; 15843; 15842; 15842; 15841; 15840; 15839; 15839;
  15838; 15837; 15836; 15836; 15835; 15834; 15833; 15833; 15832; 15831; 15830; 15829; 15829; 15828; 15827; 15826; 15826; 15825;
  15824; 15823; 15823; 15822; 15821; 15820; 15820; 15819; 15818; 15817; 15817; 15816; 15815; 15814; 15814; 15813; 15812; 15811;
  15811; 15810; 15809; 15808; 15808; 15807; 15806; 15805; 15804; 15804; 15803; 15802; 15801; 15801; 15800; 15799; 15798; 15798;
  15797; 15796; 15795; 15795; 15794; 15793; 15792; 15792; 15791; 15790; 15789; 15789; 15788; 15787; 15786; 15786; 15785; 15784;
  15783; 15783; 15782; 15781; 15780; 15780; 15779; 15778; 15777; 15777; 15776; 15775; 15774; 15773; 15773; 15772; 15771; 15770;
  15770; 15769; 15768; 15767; 15767; 15766; 15765; 15764; 15764; 15763; 15762; 15761; 15761; 15760; 15759; 15758; 15758; 15757;
  15756; 15755; 15755; 15754; 15753; 15752; 15752; 15751; 15750; 15749; 15749; 15748; 15747; 15746; 15746; 15745; 15744; 15743;
  15743; 15742; 15741; 15740; 15739; 15739; 15738; 15737; 15736; 15736; 15735; 15734; 15733; 15733; 15732; 15731; 15730; 15730;
  15729; 15728; 15727; 15727; 15726; 15725; 15724; 15724; 15723; 15722; 15721; 15721; 15720; 15719; 15718; 15718; 15717; 15716;
  15715; 15715; 15714; 15713; 15712; 15712; 15711; 15710; 15709; 15709; 15708; 15707; 15706; 15706; 15705; 15704; 15703; 15703;
  15702; 15701; 15700; 15699; 15699; 15698; 15697; 15696; 15696; 15695; 15694; 15693; 15693; 15692; 15691; 15690; 15690; 15689;
  15688; 15687; 15687; 15686; 15685; 15684; 15684; 15683; 15682; 15681; 15681; 15680; 15679; 15678; 15678; 15677; 15676; 15675].
Definition log_lut_42 : list Z := [
  15675; 15674; 15673; 15672; 15672; 15671; 15670; 15669; 15669; 15668; 15667; 15666; 15666; 15665; 15664; 15663; 15663; 15662;
  15661; 15660; 15660; 15659; 15658; 15657; 15657; 15656; 15655; 15654; 15654; 15653; 15652; 15651; 15651; 15650; 15649; 15648;
  15648; 15647; 15646; 15645; 15645; 15644; 15643; 15642; 15642; 15641; 15640; 15639; 15638; 15638; 15637; 15636; 15635; 15635;
  15634; 15633; 15632; 15632; 15631; 15630; 15629; 15629; 15628; 15627; 15626; 15626; 15625; 15624; 15623; 15623; 15622; 15621;
  15620; 15620; 15619; 15618; 15617; 15617; 15616; 15615; 15614; 15614; 15613; 15612; 15611; 15611; 15610; 15609; 15608; 15608;
  15607; 15606; 15605; 15605; 15604; 15603; 15602; 15602; 15601; 15600; 15599; 15599; 15598; 15597; 15596; 15596; 15595; 15594;
  15593; 15593; 15592; 15591; 15590; 15590; 15589; 15588; 15587; 15587; 15586; 15585; 15584; 15584; 15583; 15582; 15581; 15581;
  15580; 15579; 15578; 15578; 15577; 15576; 15575; 15575; 15574; 15573; 15572; 15572; 15571; 15570; 15569; 15569; 15568; 15567;
  15566; 15566; 15565; 15564; 15563; 15563; 15562; 15561; 15560; 15560; 15559; 15558; 15557; 15557; 15556; 15555; 15554; 15554;
  15553; 15552; 15551; 15551; 15550; 15549; 15548; 15548; 15547; 15546; 15545; 15545; 15544; 15543; 15542; 15542; 15541; 15540;
  15539; 15539; 15538; 15537; 15536; 15536; 15535; 15534; 15533; 15533; 15532; 15531; 15530; 15530; 15529; 15528; 15527; 15527;
  15526; 15525; 15524; 15524; 15523; 15522; 15521; 15521; 15520; 15519; 15518; 15518; 15517; 15516; 15515; 15515; 15514; 15513;
  15512; 15512; 15511; 15510; 15509; 15509; 15508; 15507; 15506; 15506; 15505; 15504; 15503; 15503; 15502; 15501; 15500; 15500;
  15499; 15498; 15497; 15497; 15496; 15495; 15494; 15494; 15493; 15492; 15491; 15491; 15490; 15489; 15488; 15488; 15487; 15486;
  15485; 15485; 15484; 15483; 15482; 15482; 15481; 15480; 15479; 15479; 15478; 15477; 15476; 15476; 15475; 15474; 15473; 15473;
  15472; 15471; 15470; 15470; 15469; 15468; 15467; 15467; 15466; 15465; 15464; 15464; 15463; 15462; 15461; 15461; 15460; 15459;
  15459; 15458; 15457; 15456; 15456; 15455; 15454; 15453; 15453; 15452; 15451; 15450; 15450; 15449; 15448; 15447; 15447; 15446;
  15445; 15444; 15444; 15443; 15442; 15441; 15441; 15440; 15439; 15438; 15438; 15437; 15436; 15435; 15435; 15434; 15433; 15432;
  15432; 15431; 15430; 15429; 15429; 15428; 15427; 15426; 15426; 15425; 15424; 15423; 15423; 15422; 15421; 15420; 15420; 15419;
  15418; 15417; 15417; 15416; 15415; 15414; 15414; 15413; 15412; 15411; 15411; 15410; 15409; 15408; 15408; 15407; 15406; 15405;
  15405; 15404; 15403; 15402; 15402; 15401; 15400; 15400; 15399; 15398; 15397; 15397; 15396; 15395; 15394; 15394; 15393; 15392;
  15391; 15391; 15390; 15389; 15388; 15388; 15387; 15386; 15385; 15385; 15384; 15383; 15382; 15382; 15381; 15380; 15379; 15379;
  15378; 15377; 15376; 15376; 15375; 15374; 15373; 15373; 15372; 15371; 15370; 15370; 15369; 15368; 15367; 15367; 15366; 15365;
  15364; 15364; 15363; 15362; 15361; 15361; 15360; 15359; 15358; 15358; 15357; 15356; 15356; 15355; 15354; 15353; 15353; 15352;
  15351; 15350; 15350; 15349; 15348; 15347; 15347; 15346; 15345; 15344; 15344; 15343; 15342; 15341; 15341; 15340; 15339; 15338;
  15338; 15337; 15336; 15335; 15335; 15334; 15333; 15332; 15332; 15331; 15330; 15329; 15329; 15328; 15327; 15326; 15326; 15325;
  15324; 15324; 15323; 15322; 15321; 15321; 15320; 15319; 15318; 15318; 15317; 15316; 15315; 15315; 15314; 15313; 15312; 15312;
  15311; 15310; 15309; 15309; 15308; 15307; 15306; 15306; 15305; 15304; 15303; 15303; 15302; 15301; 15300; 15300; 15299; 15298;
  15297; 15297; 15296; 15295; 15295; 15294; 15293; 15292; 15292; 15291; 15290; 15289; 15289; 15288; 15287; 15286; 15286; 15285;
  15284; 15283; 15283; 15282; 15281; 15280; 15280; 15279; 15278; 15277; 15277; 15276; 15275; 15274; 15274; 15273; 15272; 15271;
  15271; 15270; 15269; 15268; 15268; 15267; 15266; 15266; 15265; 15264; 15263; 15263; 15262; 15261; 15260; 15260; 15259; 15258;
  15257; 15257; 15256; 15255; 15254; 15254; 15253; 15252; 15251; 15251; 15250; 15249; 15248; 15248; 15247; 15246; 15245; 15245;
  15244; 15243; 15243; 15242; 15241; 15240; 15240; 15239; 15238; 15237; 15237; 15236; 15235; 15234; 15234; 15233; 15232; 15231;
  15231; 15230; 15229; 15228; 15228; 15227; 15226; 15225; 15225; 15224; 15223; 15222; 15222; 15221; 15220; 15220; 15219; 15218;
  15217; 15217; 15216; 15215; 15214; 15214; 15213; 15212; 15211; 15211; 15210; 15209; 15208; 15208; 15207; 15206; 15205; 15205;
  15204; 15203; 15202; 15202; 15201; 15200; 15200; 15199; 15198; 15197; 15197; 15196; 15195; 15194; 15194; 15193; 15192; 15191;
  15191; 15190; 15189; 15188; 15188; 15187; 15186; 15185; 15185; 15184; 15183; 15182; 15182; 15181; 15180; 15180; 15179; 15178;
  15177; 15177; 15176; 15175; 15174; 15174; 15173; 15172; 15171; 15171; 15170; 15169; 15168; 15168; 15167; 15166; 15165; 15165;
  15164; 15163; 15163; 15162; 15161; 15160; 15160; 15159; 15158; 15157; 15157; 15156; 15155; 15154; 15154; 15153; 15152; 15151;
  15151; 15150; 15149; 15148; 15148; 15147; 15146; 15145; 15145; 15144; 15143; 15143; 15142; 15141; 15140; 15140; 15139; 15138;
  15137; 15137; 15136; 15135; 15134; 15134; 15133; 15132; 15131; 15131; 15130; 15129; 15128; 15128; 15127; 15126; 15126; 15125;
  15124; 15123; 15123; 15122; 15121; 15120; 15120; 15119; 15118; 15117; 15117; 15116; 15115; 15114; 15114; 15113; 15112; 15111;
  15111; 15110; 15109; 15109; 15108; 15107; 15106; 15106; 15105; 15104; 15103; 15103; 15102; 15101; 15100; 15100; 15099; 15098;
  15097; 15097; 15096; 15095; 15095; 15094; 15093; 15092; 15092; 15091; 15090; 15089; 15089; 15088; 15087; 15086; 15086; 15085;
  15084; 15083; 15083; 15082; 15081; 15080; 15080; 15079; 15078; 15078; 15077; 15076; 15075; 15075; 15074; 15073; 15072; 15072;
  15071; 15070; 15069; 15069; 15068; 15067; 15066; 15066; 15065; 15064; 15064; 15063; 15062; 15061; 15061; 15060; 15059; 15058;
  15058; 15057; 15056; 15055; 15055; 15054; 15053; 15052; 15052; 15051; 15050; 15050; 15049; 15048; 15047; 15047; 15046; 15045;
  15044; 15044; 15043; 15042; 15041; 15041; 15040; 15039; 15038; 15038; 15037; 15036; 15036; 15035; 15034; 15033; 15033; 15032;
  15031; 15030; 15030; 15029; 15028; 15027; 15027; 15026; 15025; 15024; 15024; 15023; 15022; 15022; 15021; 15020; 15019; 15019;
  15018; 15017; 15016; 15016; 15015; 15014; 15013; 15013; 15012; 15011; 15010; 15010; 15009; 15008; 15008; 15007; 15006; 15005].
Definition log_lut_43 : list Z := [
  15005; 15004; 15003; 15002; 15002; 15001; 15000; 14999; 14999; 14998; 14997; 14997; 14996; 14995; 14994; 14994; 14993; 14992;
  14991; 14991; 14990; 14989; 14988; 14988; 14987; 14986; 14985; 14985; 14984; 14983; 14983; 14982; 14981; 14980; 14980; 14979;
  14978; 14977; 14977; 14976; 14975; 14974; 14974; 14973; 14972; 14972; 14971; 14970; 14969; 14969; 14968; 14967; 14966; 14966;
  14965; 14964; 14963; 14963; 14962; 14961; 14960; 14960; 14959; 14958; 14958; 14957; 14956; 14955; 14955; 14954; 14953; 14952;
  14952; 14951; 14950; 14949; 14949; 14948; 14947; 14947; 14946; 14945; 14944; 14944; 14943; 14942; 14941; 14941; 14940; 14939;
  14938; 14938; 14937; 14936; 14936; 14935; 14934; 14933; 14933; 14932; 14931; 14930; 14930; 14929; 14928; 14927; 14927; 14926;
  14925; 14925; 14924; 14923; 14922; 14922; 14921; 14920; 14919; 14919; 14918; 14917; 14916; 14916; 14915; 14914; 14914; 14913;
  14912; 14911; 14911; 14910; 14909; 14908; 14908; 14907; 14906; 14905; 14905; 14904; 14903; 14903; 14902; 14901; 14900; 14900;
  14899; 14898; 14897; 14897; 14896; 14895; 14894; 14894; 14893; 14892; 14892; 14891; 14890; 14889; 14889; 14888; 14887; 14886;
  14886; 14885; 14884; 14883; 14883; 14882; 14881; 14881; 14880; 14879; 14878; 14878; 14877; 14876; 14875; 14875; 14874; 14873;
  14872; 14872; 14871; 14870; 14870; 14869; 14868; 14867; 14867; 14866; 14865; 14864; 14864; 14863; 14862; 14861; 14861; 14860;
  14859; 14859; 14858; 14857; 14856; 14856; 14855; 14854; 14853; 14853; 14852; 14851; 14851; 14850; 14849; 14848; 14848; 14847;
  14846; 14845; 14845; 14844; 14843; 14842; 14842; 14841; 14840; 14840; 14839; 14838; 14837; 14837; 14836; 14835; 14834; 14834;
  14833; 14832; 14831; 14831; 14830; 14829; 14829; 14828; 14827; 14826; 14826; 14825; 14824; 14823; 14823; 14822; 14821; 14821;
  14820; 14819; 14818; 14818; 14817; 14816; 14815; 14815; 14814; 14813; 14812; 14812; 14811; 14810; 14810; 14809; 14808; 14807;
  14807; 14806; 14805; 14804; 14804; 14803; 14802; 14802; 14801; 14800; 14799; 14799; 14798; 14797; 14796; 14796; 14795; 14794;
  14793; 14793; 14792; 14791; 14791; 14790; 14789; 14788; 14788; 14787; 14786; 14785; 14785; 14784; 14783; 14783; 14782; 14781;
  14780; 14780; 14779; 14778; 14777; 14777; 14776; 14775; 14775; 14774; 14773; 14772; 14772; 14771; 14770; 14769; 14769; 14768;
  14767; 14766; 14766; 14765; 14764; 14764; 14763; 14762; 14761; 14761; 14760; 14759; 14758; 14758; 14757; 14756; 14756; 14755;
  14754; 14753; 14753; 14752; 14751; 14750; 14750; 14749; 14748; 14748; 14747; 14746; 14745; 14745; 14744; 14743; 14742; 14742;
  14741; 14740; 14739; 14739; 14738; 14737; 14737; 14736; 14735; 14734; 14734; 14733; 14732; 14731; 14731; 14730; 14729; 14729;
  14728; 14727; 14726; 14726; 14725; 14724; 14723; 14723; 14722; 14721; 14721; 14720; 14719; 14718; 14718; 14717; 14716; 14715;
  14715; 14714; 14713; 14713; 14712; 14711; 14710; 14710; 14709; 14708; 14707; 14707; 14706; 14705; 14705; 14704; 14703; 14702;
  14702; 14701; 14700; 14699; 14699; 14698; 14697; 14697; 14696; 14695; 14694; 14694; 14693; 14692; 14691; 14691; 14690; 14689;
  14689; 14688; 14687; 14686; 14686; 14685; 14684; 14683; 14683; 14682; 14681; 14681; 14680; 14679; 14678; 14678; 14677; 14676;
  14675; 14675; 14674; 14673; 14673; 14672; 14671; 14670; 14670; 14669; 14668; 14667; 14667; 14666; 14665; 14665; 14664; 14663;
  14662; 14662; 14661; 14660; 14659; 14659; 14658; 14657; 14657; 14656; 14655; 14654; 14654; 14653; 14652; 14651; 14651; 14650;
  14649; 14649; 14648; 14647; 14646; 14646; 14645; 14644; 14643; 14643; 14642; 14641; 14641; 14640; 14639; 14638; 14638; 14637;
  14636; 14635; 14635; 14634; 14633; 14633; 14632; 14631; 14630; 14630; 14629; 14628; 14627; 14627; 14626; 14625; 14625; 14624;
  14623; 14622; 14622; 14621; 14620; 14619; 14619; 14618; 14617; 14617; 14616; 14615; 14614; 14614; 14613; 14612; 14611; 14611;
  14610; 14609; 14609; 14608; 14607; 14606; 14606; 14605; 14604; 14604; 14603; 14602; 14601; 14601; 14600; 14599; 14598; 14598;
  14597; 14596; 14596; 14595; 14594; 14593; 14593; 14592; 14591; 14590; 14590; 14589; 14588; 14588; 14587; 14586; 14585; 14585;
  14584; 14583; 14582; 14582; 14581; 14580; 14580; 14579; 14578; 14577; 14577; 14576; 14575; 14575; 14574; 14573; 14572; 14572;
  14571; 14570; 14569; 14569; 14568; 14567; 14567; 14566; 14565; 14564; 14564; 14563; 14562; 14561; 14561; 14560; 14559; 14559;
  14558; 14557; 14556; 14556; 14555; 14554; 14553; 14553; 14552; 14551; 14551; 14550; 14549; 14548; 14548; 14547; 14546; 14546;
  14545; 14544; 14543; 14543; 14542; 14541; 14540; 14540; 14539; 14538; 14538; 14537; 14536; 14535; 14535; 14534; 14533; 14533;
  14532; 14531; 14530; 14530; 14529; 14528; 14527; 14527; 14526; 14525; 14525; 14524; 14523; 14522; 14522; 14521; 14520; 14519;
  14519; 14518; 14517; 14517; 14516; 14515; 14514; 14514; 14513; 14512; 14512; 14511; 14510; 14509; 14509; 14508; 14507; 14506;
  14506; 14505; 14504; 14504; 14503; 14502; 14501; 14501; 14500; 14499; 14499; 14498; 14497; 14496; 14496; 14495; 14494; 14493;
  14493; 14492; 14491; 14491; 14490; 14489; 14488; 14488; 14487; 14486; 14486; 14485; 14484; 14483; 14483; 14482; 14481; 14480;
  14480; 14479; 14478; 14478; 14477; 14476; 14475; 14475; 14474; 14473; 14472; 14472; 14471; 14470; 14470; 14469; 14468; 14467;
  14467; 14466; 14465; 14465; 14464; 14463; 14462; 14462; 14461; 14460; 14460; 14459; 14458; 14457; 14457; 14456; 14455; 14454;
  14454; 14453; 14452; 14452; 14451; 14450; 14449; 14449; 14448; 14447; 14447; 14446; 14445; 14444; 14444; 14443; 14442; 14441;
  14441; 14440; 14439; 14439; 14438; 14437; 14436; 14436; 14435; 14434; 14434; 14433; 14432; 14431; 14431; 14430; 14429; 14428;
  14428; 14427; 14426; 14426; 14425; 14424; 14423; 14423; 14422; 14421; 14421; 14420; 14419; 14418; 14418; 14417; 14416; 14416;
  14415; 14414; 14413; 14413; 14412; 14411; 14410; 14410; 14409; 14408; 14408; 14407; 14406; 14405; 14405; 14404; 14403; 14403;
  14402; 14401; 14400; 14400; 14399; 14398; 14397; 14397; 14396; 14395; 14395; 14394; 14393; 14392; 14392; 14391; 14390; 14390;
  14389; 14388; 14387; 14387; 14386; 14385; 14385; 14384; 14383; 14382; 14382; 14381; 14380; 14379; 14379; 14378; 14377; 14377;
  14376; 14375; 14374; 14374; 14373; 14372; 14372; 14371; 14370; 14369; 14369; 14368; 14367; 14367; 14366; 14365; 14364; 14364;
  14363; 14362; 14362; 14361; 14360; 14359; 14359; 14358; 14357; 14356; 14356; 14355; 14354; 14354; 14353; 14352; 14351; 14351].
Definition log_lut_44 : list Z := [
  14350; 14349; 14349; 14348; 14347; 14346; 14346; 14345; 14344; 14344; 14343; 14342; 14341; 14341; 14340; 14339; 14338; 14338;
  14337; 14336; 14336; 14335; 14334; 14333; 14333; 14332; 14331; 14331; 14330; 14329; 14328; 14328; 14327; 14326; 14326; 14325;
  14324; 14323; 14323; 14322; 14321; 14321; 14320; 14319; 14318; 14318; 14317; 14316; 14316; 14315; 14314; 14313; 14313; 14312;
  14311; 14310; 14310; 14309; 14308; 14308; 14307; 14306; 14305; 14305; 14304; 14303; 14303; 14302; 14301; 14300; 14300; 14299;
  14298; 14298; 14297; 14296; 14295; 14295; 14294; 14293; 14293; 14292; 14291; 14290; 14290; 14289; 14288; 14288; 14287; 14286;
  14285; 14285; 14284; 14283; 14282; 14282; 14281; 14280; 14280; 14279; 14278; 14277; 14277; 14276; 14275; 14275; 14274; 14273;
  14272; 14272; 14271; 14270; 14270; 14269; 14268; 14267; 14267; 14266; 14265; 14265; 14264; 14263; 14262; 14262; 14261; 14260;
  14260; 14259; 14258; 14257; 14257; 14256; 14255; 14255; 14254; 14253; 14252; 14252; 14251; 14250; 14250; 14249; 14248; 14247;
  14247; 14246; 14245; 14244; 14244; 14243; 14242; 14242; 14241; 14240; 14239; 14239; 14238; 14237; 14237; 14236; 14235; 14234;
  14234; 14233; 14232; 14232; 14231; 14230; 14229; 14229; 14228; 14227; 14227; 14226; 14225; 14224; 14224; 14223; 14222; 14222;
  14221; 14220; 14219; 14219; 14218; 14217; 14217; 14216; 14215; 14214; 14214; 14213; 14212; 14212; 14211; 14210; 14209; 14209;
  14208; 14207; 14207; 14206; 14205; 14204; 14204; 14203; 14202; 14202; 14201; 14200; 14199; 14199; 14198; 14197; 14197; 14196;
  14195; 14194; 14194; 14193; 14192; 14192; 14191; 14190; 14189; 14189; 14188; 14187; 14187; 14186; 14185; 14184; 14184; 14183;
  14182; 14182; 14181; 14180; 14179; 14179; 14178; 14177; 14177; 14176; 14175; 14174; 14174; 14173; 14172; 14172; 14171; 14170;
  14169; 14169; 14168; 14167; 14167; 14166; 14165; 14164; 14164; 14163; 14162; 14162; 14161; 14160; 14159; 14159; 14158; 14157;
  14157; 14156; 14155; 14154; 14154; 14153; 14152; 14152; 14151; 14150; 14149; 14149; 14148; 14147; 14147; 14146; 14145; 14144;
  14144; 14143; 14142; 14142; 14141; 14140; 14139; 14139; 14138; 14137; 14137; 14136; 14135; 14134; 14134; 14133; 14132; 14132;
  14131; 14130; 14129; 14129; 14128; 14127; 14127; 14126; 14125; 14124; 14124; 14123; 14122; 14122; 14121; 14120; 14119; 14119;
  14118; 14117; 14117; 14116; 14115; 14114; 14114; 14113; 14112; 14112; 14111; 14110; 14109; 14109; 14108; 14107; 14107; 14106;
  14105; 14104; 14104; 14103; 14102; 14102; 14101; 14100; 14099; 14099; 14098; 14097; 14097; 14096; 14095; 14094; 14094; 14093;
  14092; 14092; 14091; 14090; 14089; 14089; 14088; 14087; 14087; 14086; 14085; 14084; 14084; 14083; 14082; 14082; 14081; 14080;
  14079; 14079; 14078; 14077; 14077; 14076; 14075; 14075; 14074; 14073; 14072; 14072; 14071; 14070; 14070; 14069; 14068; 14067;
  14067; 14066; 14065; 14065; 14064; 14063; 14062; 14062; 14061; 14060; 14060; 14059; 14058; 14057; 14057; 14056; 14055; 14055;
  14054; 14053; 14052; 14052; 14051; 14050; 14050; 14049; 14048; 14047; 14047; 14046; 14045; 14045; 14044; 14043; 14042; 14042;
  14041; 14040; 14040; 14039; 14038; 14037; 14037; 14036; 14035; 14035; 14034; 14033; 14033; 14032; 14031; 14030; 14030; 14029;
  14028; 14028; 14027; 14026; 14025; 14025; 14024; 14023; 14023; 14022; 14021; 14020; 14020; 14019; 14018; 14018; 14017; 14016;
  14015; 14015; 14014; 14013; 14013; 14012; 14011; 14010; 14010; 14009; 14008; 14008; 14007; 14006; 14006; 14005; 14004; 14003;
  14003; 14002; 14001; 14001; 14000; 13999; 13998; 13998; 13997; 13996; 13996; 13995; 13994; 13993; 13993; 13992; 13991; 13991;
  13990; 13989; 13988; 13988; 13987; 13986; 13986; 13985; 13984; 13983; 13983; 13982; 13981; 13981; 13980; 13979; 13979; 13978;
  13977; 13976; 13976; 13975; 13974; 13974; 13973; 13972; 13971; 13971; 13970; 13969; 13969; 13968; 13967; 13966; 13966; 13965;
  13964; 13964; 13963; 13962; 13962; 13961; 13960; 13959; 13959; 13958; 13957; 13957; 13956; 13955; 13954; 13954; 13953; 13952;
  13952; 13951; 13950; 13949; 13949; 13948; 13947; 13947; 13946; 13945; 13944; 13944; 13943; 13942; 13942; 13941; 13940; 13940;
  13939; 13938; 13937; 13937; 13936; 13935; 13935; 13934; 13933; 13932; 13932; 13931; 13930; 13930; 13929; 13928; 13927; 13927;
  13926; 13925; 13925; 13924; 13923; 13923; 13922; 13921; 13920; 13920; 13919; 13918; 13918; 13917; 13916; 13915; 13915; 13914;
  13913; 13913; 13912; 13911; 13910; 13910; 13909; 13908; 13908; 13907; 13906; 13906; 13905; 13904; 13903; 13903; 13902; 13901;
  13901; 13900; 13899; 13898; 13898; 13897; 13896; 13896; 13895; 13894; 13893; 13893; 13892; 13891; 13891; 13890; 13889; 13889;
  13888; 13887; 13886; 13886; 13885; 13884; 13884; 13883; 13882; 13881; 13881; 13880; 13879; 13879; 13878; 13877; 13877; 13876;
  13875; 13874; 13874; 13873; 13872; 13872; 13871; 13870; 13869; 13869; 13868; 13867; 13867; 13866; 13865; 13864; 13864; 13863;
  13862; 13862; 13861; 13860; 13860; 13859; 13858; 13857; 13857; 13856; 13855; 13855; 13854; 13853; 13852; 13852; 13851; 13850;
  13850; 13849; 13848; 13848; 13847; 13846; 13845; 13845; 13844; 13843; 13843; 13842; 13841; 13840; 13840; 13839; 13838; 13838;
  13837; 13836; 13836; 13835; 13834; 13833; 13833; 13832; 13831; 13831; 13830; 13829; 13828; 13828; 13827; 13826; 13826; 13825;
  13824; 13824; 13823; 13822; 13821; 13821; 13820; 13819; 13819; 13818; 13817; 13816; 13816; 13815; 13814; 13814; 13813; 13812;
  13812; 13811; 13810; 13809; 13809; 13808; 13807; 13807; 13806; 13805; 13804; 13804; 13803; 13802; 13802; 13801; 13800; 13800;
  13799; 13798; 13797; 13797; 13796; 13795; 13795; 13794; 13793; 13792; 13792; 13791; 13790; 13790; 13789; 13788; 13788; 13787;
  13786; 13785; 13785; 13784; 13783; 13783; 13782; 13781; 13780; 13780; 13779; 13778; 13778; 13777; 13776; 13776; 13775; 13774;
  13773; 13773; 13772; 13771; 13771; 13770; 13769; 13769; 13768; 13767; 13766; 13766; 13765; 13764; 13764; 13763; 13762; 13761;
  13761; 13760; 13759; 13759; 13758; 13757; 13757; 13756; 13755; 13754; 13754; 13753; 13752; 13752; 13751; 13750; 13750; 13749;
  13748; 13747; 13747; 13746; 13745; 13745; 13744; 13743; 13742; 13742; 13741; 13740; 13740; 13739; 13738; 13738; 13737; 13736;
  13735; 13735; 13734; 13733; 13733; 13732; 13731; 13731; 13730; 13729; 13728; 13728; 13727; 13726; 13726; 13725; 13724; 13723;
  13723; 13722; 13721; 13721; 13720; 13719; 13719; 13718; 13717; 13716; 13716; 13715; 13714; 13714; 13713; 13712; 13712; 13711].
Definition log_lut_45 : list Z := [
  13710; 13709; 13709; 13708; 13707; 13707; 13706; 13705; 13704; 13704; 13703; 13702; 13702; 13701; 13700; 13700; 13699; 13698;
  13697; 13697; 13696; 13695; 13695; 13694; 13693; 13693; 13692; 13691; 13690; 13690; 13689; 13688; 13688; 13687; 13686; 13686;
  13685; 13684; 13683; 13683; 13682; 13681; 13681; 13680; 13679; 13678; 13678; 13677; 13676; 13676; 13675; 13674; 13674; 13673;
  13672; 13671; 13671; 13670; 13669; 13669; 13668; 13667; 13667; 13666; 13665; 13664; 13664; 13663; 13662; 13662; 13661; 13660;
  13660; 13659; 13658; 13657; 13657; 13656; 13655; 13655; 13654; 13653; 13653; 13652; 13651; 13650; 13650; 13649; 13648; 13648;
  13647; 13646; 13645; 13645; 13644; 13643; 13643; 13642; 13641; 13641; 13640; 13639; 13638; 13638; 13637; 13636; 13636; 13635;
  13634; 13634; 13633; 13632; 13631; 13631; 13630; 13629; 13629; 13628; 13627; 13627; 13626; 13625; 13624; 13624; 13623; 13622;
  13622; 13621; 13620; 13620; 13619; 13618; 13617; 13617; 13616; 13615; 13615; 13614; 13613; 13613; 13612; 13611; 13610; 13610;
  13609; 13608; 13608; 13607; 13606; 13606; 13605; 13604; 13603; 13603; 13602; 13601; 13601; 13600; 13599; 13599; 13598; 13597;
  13596; 13596; 13595; 13594; 13594; 13593; 13592; 13592; 13591; 13590; 13589; 13589; 13588; 13587; 13587; 13586; 13585; 13585;
  13584; 13583; 13582; 13582; 13581; 13580; 13580; 13579; 13578; 13578; 13577; 13576; 13575; 13575; 13574; 13573; 13573; 13572;
  13571; 13571; 13570; 13569; 13568; 13568; 13567; 13566; 13566; 13565; 13564; 13564; 13563; 13562; 13561; 13561; 13560; 13559;
  13559; 13558; 13557; 13557; 13556; 13555; 13554; 13554; 13553; 13552; 13552; 13551; 13550; 13550; 13549; 13548; 13547; 13547;
  13546; 13545; 13545; 13544; 13543; 13543; 13542; 13541; 13540; 13540; 13539; 13538; 13538; 13537; 13536; 13536; 13535; 13534;
  13533; 13533; 13532; 13531; 13531; 13530; 13529; 13529; 13528; 13527; 13526; 13526; 13525; 13524; 13524; 13523; 13522; 13522;
  13521; 13520; 13520; 13519; 13518; 13517; 13517; 13516; 13515; 13515; 13514; 13513; 13513; 13512; 13511; 13510; 13510; 13509;
  13508; 13508; 13507; 13506; 13506; 13505; 13504; 13503; 13503; 13502; 13501; 13501; 13500; 13499; 13499; 13498; 13497; 13496;
  13496; 13495; 13494; 13494; 13493; 13492; 13492; 13491; 13490; 13489; 13489; 13488; 13487; 13487; 13486; 13485; 13485; 13484;
  13483; 13483; 13482; 13481; 13480; 13480; 13479; 13478; 13478; 13477; 13476; 13476; 13475; 13474; 13473; 13473; 13472; 13471;
  13471; 13470; 13469; 13469; 13468; 13467; 13466; 13466; 13465; 13464; 13464; 13463; 13462; 13462; 13461; 13460; 13460; 13459;
  13458; 13457; 13457; 13456; 13455; 13455; 13454; 13453; 13453; 13452; 13451; 13450; 13450; 13449; 13448; 13448; 13447; 13446;
  13446; 13445; 13444; 13443; 13443; 13442; 13441; 13441; 13440; 13439; 13439; 13438; 13437; 13437; 13436; 13435; 13434; 13434;
  13433; 13432; 13432; 13431; 13430; 13430; 13429; 13428; 13427; 13427; 13426; 13425; 13425; 13424; 13423; 13423; 13422; 13421;
  13421; 13420; 13419; 13418; 13418; 13417; 13416; 13416; 13415; 13414; 13414; 13413; 13412; 13411; 13411; 13410; 13409; 13409;
  13408; 13407; 13407; 13406; 13405; 13405; 13404; 13403; 13402; 13402; 13401; 13400; 13400; 13399; 13398; 13398; 13397; 13396;
  13395; 13395; 13394; 13393; 13393; 13392; 13391; 13391; 13390; 13389; 13389; 13388; 13387; 13386; 13386; 13385; 13384; 13384;
  13383; 13382; 13382; 13381; 13380; 13379; 13379; 13378; 13377; 13377; 13376; 13375; 13375; 13374; 13373; 13373; 13372; 13371;
  13370; 13370; 13369; 13368; 13368; 13367; 13366; 13366; 13365; 13364; 13364; 13363; 13362; 13361; 13361; 13360; 13359; 13359;
  13358; 13357; 13357; 13356; 13355; 13354; 13354; 13353; 13352; 13352; 13351; 13350; 13350; 13349; 13348; 13348; 13347; 13346;
  13345; 13345; 13344; 13343; 13343; 13342; 13341; 13341; 13340; 13339; 13339; 13338; 13337; 13336; 13336; 13335; 13334; 13334;
  13333; 13332; 13332; 13331; 13330; 13329; 13329; 13328; 13327; 13327; 13326; 13325; 13325; 13324; 13323; 13323; 13322; 13321;
  13320; 13320; 13319; 13318; 13318; 13317; 13316; 13316; 13315; 13314; 13314; 13313; 13312; 13311; 13311; 13310; 13309; 13309;
  13308; 13307; 13307; 13306; 13305; 13305; 13304; 13303; 13302; 13302; 13301; 13300; 13300; 13299; 13298; 13298; 13297; 13296;
  13296; 13295; 13294; 13293; 13293; 13292; 13291; 13291; 13290; 13289; 13289; 13288; 13287; 13287; 13286; 13285; 13284; 13284;
  13283; 13282; 13282; 13281; 13280; 13280; 13279; 13278; 13278; 13277; 13276; 13275; 13275; 13274; 13273; 13273; 13272; 13271;
  13271; 13270; 13269; 13269; 13268; 13267; 13266; 13266; 13265; 13264; 13264; 13263; 13262; 13262; 13261; 13260; 13260; 13259;
  13258; 13257; 13257; 13256; 13255; 13255; 13254; 13253; 13253; 13252; 13251; 13251; 13250; 13249; 13248; 13248; 13247; 13246;
  13246; 13245; 13244; 13244; 13243; 13242; 13242; 13241; 13240; 13239; 13239; 13238; 13237; 13237; 13236; 13235; 13235; 13234;
  13233; 13233; 13232; 13231; 13230; 13230; 13229; 13228; 13228; 13227; 13226; 13226; 13225; 13224; 13224; 13223; 13222; 13221;
  13221; 13220; 13219; 13219; 13218; 13217; 13217; 13216; 13215; 13215; 13214; 13213; 13212; 13212; 13211; 13210; 13210; 13209;
  13208; 13208; 13207; 13206; 13206; 13205; 13204; 13204; 13203; 13202; 13201; 13201; 13200; 13199; 13199; 13198; 13197; 13197;
  13196; 13195; 13195; 13194; 13193; 13192; 13192; 13191; 13190; 13190; 13189; 13188; 13188; 13187; 13186; 13186; 13185; 13184;
  13183; 13183; 13182; 13181; 13181; 13180; 13179; 13179; 13178; 13177; 13177; 13176; 13175; 13175; 13174; 13173; 13172; 13172;
  13171; 13170; 13170; 13169; 13168; 13168; 13167; 13166; 13166; 13165; 13164; 13163; 13163; 13162; 13161; 13161; 13160; 13159;
  13159; 13158; 13157; 13157; 13156; 13155; 13155; 13154; 13153; 13152; 13152; 13151; 13150; 13150; 13149; 13148; 13148; 13147;
  13146; 13146; 13145; 13144; 13143; 13143; 13142; 13141; 13141; 13140; 13139; 13139; 13138; 13137; 13137; 13136; 13135; 13135;
  13134; 13133; 13132; 13132; 13131; 13130; 13130; 13129; 13128; 13128; 13127; 13126; 13126; 13125; 13124; 13124; 13123; 13122;
  13121; 13121; 13120; 13119; 13119; 13118; 13117; 13117; 13116; 13115; 13115; 13114; 13113; 13112; 13112; 13111; 13110; 13110;
  13109; 13108; 13108; 13107; 13106; 13106; 13105; 13104; 13104; 13103; 13102; 13101; 13101; 13100; 13099; 13099; 13098; 13097;
  13097; 13096; 13095; 13095; 13094; 13093; 13093; 13092; 13091; 13090; 13090; 13089; 13088; 13088; 13087; 13086; 13086; 13085].
Definition log_lut_46 : list Z := [
  13084; 13084; 13083; 13082; 13082; 13081; 13080; 13079; 13079; 13078; 13077; 13077; 13076; 13075; 13075; 13074; 13073; 13073;
  13072; 13071; 13071; 13070; 13069; 13068; 13068; 13067; 13066; 13066; 13065; 13064; 13064; 13063; 13062; 13062; 13061; 13060;
  13060; 13059; 13058; 13057; 13057; 13056; 13055; 13055; 13054; 13053; 13053; 13052; 13051; 13051; 13050; 13049; 13049; 13048;
  13047; 13046; 13046; 13045; 13044; 13044; 13043; 13042; 13042; 13041; 13040; 13040; 13039; 13038; 13038; 13037; 13036; 13035;
  13035; 13034; 13033; 13033; 13032; 13031; 13031; 13030; 13029; 13029; 13028; 13027; 13027; 13026; 13025; 13025; 13024; 13023;
  13022; 13022; 13021; 13020; 13020; 13019; 13018; 13018; 13017; 13016; 13016; 13015; 13014; 13014; 13013; 13012; 13011; 13011;
  13010; 13009; 13009; 13008; 13007; 13007; 13006; 13005; 13005; 13004; 13003; 13003; 13002; 13001; 13000; 13000; 12999; 12998;
  12998; 12997; 12996; 12996; 12995; 12994; 12994; 12993; 12992; 12992; 12991; 12990; 12990; 12989; 12988; 12987; 12987; 12986;
  12985; 12985; 12984; 12983; 12983; 12982; 12981; 12981; 12980; 12979; 12979; 12978; 12977; 12977; 12976; 12975; 12974; 12974;
  12973; 12972; 12972; 12971; 12970; 12970; 12969; 12968; 12968; 12967; 12966; 12966; 12965; 12964; 12963; 12963; 12962; 12961;
  12961; 12960; 12959; 12959; 12958; 12957; 12957; 12956; 12955; 12955; 12954; 12953; 12953; 12952; 12951; 12950; 12950; 12949;
  12948; 12948; 12947; 12946; 12946; 12945; 12944; 12944; 12943; 12942; 12942; 12941; 12940; 12940; 12939; 12938; 12937; 12937;
  12936; 12935; 12935; 12934; 12933; 12933; 12932; 12931; 12931; 12930; 12929; 12929; 12928; 12927; 12927; 12926; 12925; 12924;
  12924; 12923; 12922; 12922; 12921; 12920; 12920; 12919; 12918; 12918; 12917; 12916; 12916; 12915; 12914; 12914; 12913; 12912;
  12911; 12911; 12910; 12909; 12909; 12908; 12907; 12907; 12906; 12905; 12905; 12904; 12903; 12903; 12902; 12901; 12901; 12900;
  12899; 12899; 12898; 12897; 12896; 12896; 12895; 12894; 12894; 12893; 12892; 12892; 12891; 12890; 12890; 12889; 12888; 12888;
  12887; 12886; 12886; 12885; 12884; 12883; 12883; 12882; 12881; 12881; 12880; 12879; 12879; 12878; 12877; 12877; 12876; 12875;
  12875; 12874; 12873; 12873; 12872; 12871; 12871; 12870; 12869; 12868; 12868; 12867; 12866; 12866; 12865; 12864; 12864; 12863;
  12862; 12862; 12861; 12860; 12860; 12859; 12858; 12858; 12857; 12856; 12855; 12855; 12854; 12853; 12853; 12852; 12851; 12851;
  12850; 12849; 12849; 12848; 12847; 12847; 12846; 12845; 12845; 12844; 12843; 12843; 12842; 12841; 12840; 12840; 12839; 12838;
  12838; 12837; 12836; 12836; 12835; 12834; 12834; 12833; 12832; 12832; 12831; 12830; 12830; 12829; 12828; 12828; 12827; 12826;
  12825; 12825; 12824; 12823; 12823; 12822; 12821; 12821; 12820; 12819; 12819; 12818; 12817; 12817; 12816; 12815; 12815; 12814;
  12813; 12813; 12812; 12811; 12810; 12810; 12809; 12808; 12808; 12807; 12806; 12806; 12805; 12804; 12804; 12803; 12802; 12802;
  12801; 12800; 12800; 12799; 12798; 12798; 12797; 12796; 12796; 12795; 12794; 12793; 12793; 12792; 12791; 12791; 12790; 12789;
  12789; 12788; 12787; 12787; 12786; 12785; 12785; 12784; 12783; 12783; 12782; 12781; 12781; 12780; 12779; 12779; 12778; 12777;
  12776; 12776; 12775; 12774; 12774; 12773; 12772; 12772; 12771; 12770; 12770; 12769; 12768; 12768; 12767; 12766; 12766; 12765;
  12764; 12764; 12763; 12762; 12761; 12761; 12760; 12759; 12759; 12758; 12757; 12757; 12756; 12755; 12755; 12754; 12753; 12753;
  12752; 12751; 12751; 12750; 12749; 12749; 12748; 12747; 12747; 12746; 12745; 12744; 12744; 12743; 12742; 12742; 12741; 12740;
  12740; 12739; 12738; 12738; 12737; 12736; 12736; 12735; 12734; 12734; 12733; 12732; 12732; 12731; 12730; 12730; 12729; 12728;
  12728; 12727; 12726; 12725; 12725; 12724; 12723; 12723; 12722; 12721; 12721; 12720; 12719; 12719; 12718; 12717; 12717; 12716;
  12715; 12715; 12714; 12713; 12713; 12712; 12711; 12711; 12710; 12709; 12709; 12708; 12707; 12706; 12706; 12705; 12704; 12704;
  12703; 12702; 12702; 12701; 12700; 12700; 12699; 12698; 12698; 12697; 12696; 12696; 12695; 12694; 12694; 12693; 12692; 12692;
  12691; 12690; 12690; 12689; 12688; 12687; 12687; 12686; 12685; 12685; 12684; 12683; 12683; 12682; 12681; 12681; 12680; 12679;
  12679; 12678; 12677; 12677; 12676; 12675; 12675; 12674; 12673; 12673; 12672; 12671; 12671; 12670; 12669; 12668; 12668; 12667;
  12666; 12666; 12665; 12664; 12664; 12663; 12662; 12662; 12661; 12660; 12660; 12659; 12658; 12658; 12657; 12656; 12656; 12655;
  12654; 12654; 12653; 12652; 12652; 12651; 12650; 12650; 12649; 12648; 12647; 12647; 12646; 12645; 12645; 12644; 12643; 12643;
  12642; 12641; 12641; 12640; 12639; 12639; 12638; 12637; 12637; 12636; 12635; 12635; 12634; 12633; 12633; 12632; 12631; 12631;
  12630; 12629; 12629; 12628; 12627; 12626; 12626; 12625; 12624; 12624; 12623; 12622; 12622; 12621; 12620; 12620; 12619; 12618;
  12618; 12617; 12616; 12616; 12615; 12614; 12614; 12613; 12612; 12612; 12611; 12610; 12610; 12609; 12608; 12608; 12607; 12606;
  12606; 12605; 12604; 12603; 12603; 12602; 12601; 12601; 12600; 12599; 12599; 12598; 12597; 12597; 12596; 12595; 12595; 12594;
  12593; 12593; 12592; 12591; 12591; 12590; 12589; 12589; 12588; 12587; 12587; 12586; 12585; 12585; 12584; 12583; 12583; 12582;
  12581; 12581; 12580; 12579; 12578; 12578; 12577; 12576; 12576; 12575; 12574; 12574; 12573; 12572; 12572; 12571; 12570; 12570;
  12569; 12568; 12568; 12567; 12566; 12566; 12565; 12564; 12564; 12563; 12562; 12562; 12561; 12560; 12560; 12559; 12558; 12558;
  12557; 12556; 12556; 12555; 12554; 12553; 12553; 12552; 12551; 12551; 12550; 12549; 12549; 12548; 12547; 12547; 12546; 12545;
  12545; 12544; 12543; 12543; 12542; 12541; 12541; 12540; 12539; 12539; 12538; 12537; 12537; 12536; 12535; 12535; 12534; 12533;
  12533; 12532; 12531; 12531; 12530; 12529; 12529; 12528; 12527; 12527; 12526; 12525; 12524; 12524; 12523; 12522; 12522; 12521;
  12520; 12520; 12519; 12518; 12518; 12517; 12516; 12516; 12515; 12514; 12514; 12513; 12512; 12512; 12511; 12510; 12510; 12509;
  12508; 12508; 12507; 12506; 12506; 12505; 12504; 12504; 12503; 12502; 12502; 12501; 12500; 12500; 12499; 12498; 12498; 12497;
  12496; 12495; 12495; 12494; 12493; 12493; 12492; 12491; 12491; 12490; 12489; 12489; 12488; 12487; 12487; 12486; 12485; 12485;
  12484; 12483; 12483; 12482; 12481; 12481; 12480; 12479; 12479; 12478; 12477; 12477; 12476; 12475; 12475; 12474; 12473; 12473].
Definition log_lut_47 : list Z := [
  12472; 12471; 12471; 12470; 12469; 12469; 12468; 12467; 12467; 12466; 12465; 12465; 12464; 12463; 12463; 12462; 12461; 12460;
  12460; 12459; 12458; 12458; 12457; 12456; 12456; 12455; 12454; 12454; 12453; 12452; 12452; 12451; 12450; 12450; 12449; 12448;
  12448; 12447; 12446; 12446; 12445; 12444; 12444; 12443; 12442; 12442; 12441; 12440; 12440; 12439; 12438; 12438; 12437; 12436;
  12436; 12435; 12434; 12434; 12433; 12432; 12432; 12431; 12430; 12430; 12429; 12428; 12428; 12427; 12426; 12426; 12425; 12424;
  12424; 12423; 12422; 12421; 12421; 12420; 12419; 12419; 12418; 12417; 12417; 12416; 12415; 12415; 12414; 12413; 12413; 12412;
  12411; 12411; 12410; 12409; 12409; 12408; 12407; 12407; 12406; 12405; 12405; 12404; 12403; 12403; 12402; 12401; 12401; 12400;
  12399; 12399; 12398; 12397; 12397; 12396; 12395; 12395; 12394; 12393; 12393; 12392; 12391; 12391; 12390; 12389; 12389; 12388;
  12387; 12387; 12386; 12385; 12385; 12384; 12383; 12383; 12382; 12381; 12381; 12380; 12379; 12379; 12378; 12377; 12377; 12376;
  12375; 12374; 12374; 12373; 12372; 12372; 12371; 12370; 12370; 12369; 12368; 12368; 12367; 12366; 12366; 12365; 12364; 12364;
  12363; 12362; 12362; 12361; 12360; 12360; 12359; 12358; 12358; 12357; 12356; 12356; 12355; 12354; 12354; 12353; 12352; 12352;
  12351; 12350; 12350; 12349; 12348; 12348; 12347; 12346; 12346; 12345; 12344; 12344; 12343; 12342; 12342; 12341; 12340; 12340;
  12339; 12338; 12338; 12337; 12336; 12336; 12335; 12334; 12334; 12333; 12332; 12332; 12331; 12330; 12330; 12329; 12328; 12328;
  12327; 12326; 12326; 12325; 12324; 12324; 12323; 12322; 12322; 12321; 12320; 12320; 12319; 12318; 12318; 12317; 12316; 12316;
  12315; 12314; 12314; 12313; 12312; 12312; 12311; 12310; 12309; 12309; 12308; 12307; 12307; 12306; 12305; 12305; 12304; 12303;
  12303; 12302; 12301; 12301; 12300; 12299; 12299; 12298; 12297; 12297; 12296; 12295; 12295; 12294; 12293; 12293; 12292; 12291;
  12291; 12290; 12289; 12289; 12288; 12287; 12287; 12286; 12285; 12285; 12284; 12283; 12283; 12282; 12281; 12281; 12280; 12279;
  12279; 12278; 12277; 12277; 12276; 12275; 12275; 12274; 12273; 12273; 12272; 12271; 12271; 12270; 12269; 12269; 12268; 12267;
  12267; 12266; 12265; 12265; 12264; 12263; 12263; 12262; 12261; 12261; 12260; 12259; 12259; 12258; 12257; 12257; 12256; 12255;
  12255; 12254; 12253; 12253; 12252; 12251; 12251; 12250; 12249; 12249; 12248; 12247; 12247; 12246; 12245; 12245; 12244; 12243;
  12243; 12242; 12241; 12241; 12240; 12239; 12239; 12238; 12237; 12237; 12236; 12235; 12235; 12234; 12233; 12233; 12232; 12231;
  12231; 12230; 12229; 12229; 12228; 12227; 12227; 12226; 12225; 12225; 12224; 12223; 12223; 12222; 12221; 12221; 12220; 12219;
  12219; 12218; 12217; 12217; 12216; 12215; 12215; 12214; 12213; 12213; 12212; 12211; 12211; 12210; 12209; 12209; 12208; 12207;
  12207; 12206; 12205; 12205; 12204; 12203; 12203; 12202; 12201; 12201; 12200; 12199; 12199; 12198; 12197; 12197; 12196; 12195;
  12195; 12194; 12193; 12193; 12192; 12191; 12191; 12190; 12189; 12189; 12188; 12187; 12187; 12186; 12185; 12185; 12184; 12183;
  12183; 12182; 12181; 12181; 12180; 12179; 12179; 12178; 12177; 12177; 12176; 12175; 12175; 12174; 12173; 12173; 12172; 12171;
  12171; 12170; 12169; 12169; 12168; 12167; 12167; 12166; 12165; 12165; 12164; 12163; 12163; 12162; 12161; 12161; 12160; 12159;
  12159; 12158; 12157; 12157; 12156; 12155; 12155; 12154; 12153; 12153; 12152; 12151; 12151; 12150; 12149; 12149; 12148; 12147;
  12147; 12146; 12145; 12145; 12144; 12143; 12143; 12142; 12141; 12141; 12140; 12139; 12139; 12138; 12137; 12137; 12136; 12135;
  12135; 12134; 12133; 12133; 12132; 12131; 12131; 12130; 12129; 12129; 12128; 12127; 12127; 12126; 12125; 12125; 12124; 12123;
  12123; 12122; 12121; 12121; 12120; 12119; 12119; 12118; 12117; 12117; 12116; 12115; 12115; 12114; 12113; 12113; 12112; 12111;
  12111; 12110; 12109; 12109; 12108; 12107; 12107; 12106; 12105; 12105; 12104; 12103; 12103; 12102; 12101; 12101; 12100; 12099;
  12099; 12098; 12097; 12097; 12096; 12095; 12095; 12094; 12093; 12093; 12092; 12091; 12091; 12090; 12089; 12089; 12088; 12087;
  12087; 12086; 12085; 12085; 12084; 12084; 12083; 12082; 12082; 12081; 12080; 12080; 12079; 12078; 12078; 12077; 12076; 12076;
  12075; 12074; 12074; 12073; 12072; 12072; 12071; 12070; 12070; 12069; 12068; 12068; 12067; 12066; 12066; 12065; 12064; 12064;
  12063; 12062; 12062; 12061; 12060; 12060; 12059; 12058; 12058; 12057; 12056; 12056; 12055; 12054; 12054; 12053; 12052; 12052;
  12051; 12050; 12050; 12049; 12048; 12048; 12047; 12046; 12046; 12045; 12044; 12044; 12043; 12042; 12042; 12041; 12040; 12040;
  12039; 12038; 12038; 12037; 12036; 12036; 12035; 12034; 12034; 12033; 12032; 12032; 12031; 12030; 12030; 12029; 12028; 12028;
  12027; 12026; 12026; 12025; 12024; 12024; 12023; 12022; 12022; 12021; 12020; 12020; 12019; 12019; 12018; 12017; 12017; 12016;
  12015; 12015; 12014; 12013; 12013; 12012; 12011; 12011; 12010; 12009; 12009; 12008; 12007; 12007; 12006; 12005; 12005; 12004;
  12003; 12003; 12002; 12001; 12001; 12000; 11999; 11999; 11998; 11997; 11997; 11996; 11995; 11995; 11994; 11993; 11993; 11992;
  11991; 11991; 11990; 11989; 11989; 11988; 11987; 11987; 11986; 11985; 11985; 11984; 11983; 11983; 11982; 11981; 11981; 11980;
  11979; 11979; 11978; 11977; 11977; 11976; 11975; 11975; 11974; 11973; 11973; 11972; 11972; 11971; 11970; 11970; 11969; 11968;
  11968; 11967; 11966; 11966; 11965; 11964; 11964; 11963; 11962; 11962; 11961; 11960; 11960; 11959; 11958; 11958; 11957; 11956;
  11956; 11955; 11954; 11954; 11953; 11952; 11952; 11951; 11950; 11950; 11949; 11948; 11948; 11947; 11946; 11946; 11945; 11944;
  11944; 11943; 11942; 11942; 11941; 11940; 11940; 11939; 11938; 11938; 11937; 11936; 11936; 11935; 11934; 11934; 11933; 11933;
  11932; 11931; 11931; 11930; 11929; 11929; 11928; 11927; 11927; 11926; 11925; 11925; 11924; 11923; 11923; 11922; 11921; 11921;
  11920; 11919; 11919; 11918; 11917; 11917; 11916; 11915; 11915; 11914; 11913; 11913; 11912; 11911; 11911; 11910; 11909; 11909;
  11908; 11907; 11907; 11906; 11905; 11905; 11904; 11903; 11903; 11902; 11901; 11901; 11900; 11900; 11899; 11898; 11898; 11897;
  11896; 11896; 11895; 11894; 11894; 11893; 11892; 11892; 11891; 11890; 11890; 11889; 11888; 11888; 11887; 11886; 11886; 11885;
  11884; 11884; 11883; 11882; 11882; 11881; 11880; 11880; 11879; 11878; 11878; 11877; 11876; 11876; 11875; 11874; 11874; 11873].
Definition log_lut_48 : list Z := [
  11872; 11872; 11871; 11870; 11870; 11869; 11869; 11868; 11867; 11867; 11866; 11865; 11865; 11864; 11863; 11863; 11862; 11861;
  11861; 11860; 11859; 11859; 11858; 11857; 11857; 11856; 11855; 11855; 11854; 11853; 11853; 11852; 11851; 11851; 11850; 11849;
  11849; 11848; 11847; 11847; 11846; 11845; 11845; 11844; 11843; 11843; 11842; 11842; 11841; 11840; 11840; 11839; 11838; 11838;
  11837; 11836; 11836; 11835; 11834; 11834; 11833; 11832; 11832; 11831; 11830; 11830; 11829; 11828; 11828; 11827; 11826; 11826;
  11825; 11824; 11824; 11823; 11822; 11822; 11821; 11820; 11820; 11819; 11818; 11818; 11817; 11816; 11816; 11815; 11815; 11814;
  11813; 11813; 11812; 11811; 11811; 11810; 11809; 11809; 11808; 11807; 11807; 11806; 11805; 11805; 11804; 11803; 11803; 11802;
  11801; 11801; 11800; 11799; 11799; 11798; 11797; 11797; 11796; 11795; 11795; 11794; 11793; 11793; 11792; 11792; 11791; 11790;
  11790; 11789; 11788; 11788; 11787; 11786; 11786; 11785; 11784; 11784; 11783; 11782; 11782; 11781; 11780; 11780; 11779; 11778;
  11778; 11777; 11776; 11776; 11775; 11774; 11774; 11773; 11772; 11772; 11771; 11770; 11770; 11769; 11769; 11768; 11767; 11767;
  11766; 11765; 11765; 11764; 11763; 11763; 11762; 11761; 11761; 11760; 11759; 11759; 11758; 11757; 11757; 11756; 11755; 11755;
  11754; 11753; 11753; 11752; 11751; 11751; 11750; 11749; 11749; 11748; 11748; 11747; 11746; 11746; 11745; 11744; 11744; 11743;
  11742; 11742; 11741; 11740; 11740; 11739; 11738; 11738; 11737; 11736; 11736; 11735; 11734; 11734; 11733; 11732; 11732; 11731;
  11730; 11730; 11729; 11728; 11728; 11727; 11727; 11726; 11725; 11725; 11724; 11723; 11723; 11722; 11721; 11721; 11720; 11719;
  11719; 11718; 11717; 11717; 11716; 11715; 11715; 11714; 11713; 11713; 11712; 11711; 11711; 11710; 11709; 11709; 11708; 11708;
  11707; 11706; 11706; 11705; 11704; 11704; 11703; 11702; 11702; 11701; 11700; 11700; 11699; 11698; 11698; 11697; 11696; 11696;
  11695; 11694; 11694; 11693; 11692; 11692; 11691; 11690; 11690; 11689; 11689; 11688; 11687; 11687; 11686; 11685; 11685; 11684;
  11683; 11683; 11682; 11681; 11681; 11680; 11679; 11679; 11678; 11677; 11677; 11676; 11675; 11675; 11674; 11673; 11673; 11672;
  11671; 11671; 11670; 11670; 11669; 11668; 11668; 11667; 11666; 11666; 11665; 11664; 11664; 11663; 11662; 11662; 11661; 11660;
  11660; 11659; 11658; 11658; 11657; 11656; 11656; 11655; 11654; 11654; 11653; 11653; 11652; 11651; 11651; 11650; 11649; 11649;
  11648; 11647; 11647; 11646; 11645; 11645; 11644; 11643; 11643; 11642; 11641; 11641; 11640; 11639; 11639; 11638; 11637; 11637;
  11636; 11636; 11635; 11634; 11634; 11633; 11632; 11632; 11631; 11630; 11630; 11629; 11628; 11628; 11627; 11626; 11626; 11625;
  11624; 11624; 11623; 11622; 11622; 11621; 11620; 11620; 11619; 11619; 11618; 11617; 11617; 11616; 11615; 11615; 11614; 11613;
  11613; 11612; 11611; 11611; 11610; 11609; 11609; 11608; 11607; 11607; 11606; 11605; 11605; 11604; 11604; 11603; 11602; 11602;
  11601; 11600; 11600; 11599; 11598; 11598; 11597; 11596; 11596; 11595; 11594; 11594; 11593; 11592; 11592; 11591; 11590; 11590;
  11589; 11588; 11588; 11587; 11587; 11586; 11585; 11585; 11584; 11583; 11583; 11582; 11581; 11581; 11580; 11579; 11579; 11578;
  11577; 11577; 11576; 11575; 11575; 11574; 11573; 11573; 11572; 11572; 11571; 11570; 11570; 11569; 11568; 11568; 11567; 11566;
  11566; 11565; 11564; 11564; 11563; 11562; 11562; 11561; 11560; 11560; 11559; 11558; 11558; 11557; 11557; 11556; 11555; 11555;
  11554; 11553; 11553; 11552; 11551; 11551; 11550; 11549; 11549; 11548; 11547; 11547; 11546; 11545; 11545; 11544; 11544; 11543;
  11542; 11542; 11541; 11540; 11540; 11539; 11538; 11538; 11537; 11536; 11536; 11535; 11534; 11534; 11533; 11532; 11532; 11531;
  11530; 11530; 11529; 11529; 11528; 11527; 11527; 11526; 11525; 11525; 11524; 11523; 11523; 11522; 11521; 11521; 11520; 11519;
  11519; 11518; 11517; 11517; 11516; 11516; 11515; 11514; 11514; 11513; 11512; 11512; 11511; 11510; 11510; 11509; 11508; 11508;
  11507; 11506; 11506; 11505; 11504; 11504; 11503; 11502; 11502; 11501; 11501; 11500; 11499; 11499; 11498; 11497; 11497; 11496;
  11495; 11495; 11494; 11493; 11493; 11492; 11491; 11491; 11490; 11489; 11489; 11488; 11488; 11487; 11486; 11486; 11485; 11484;
  11484; 11483; 11482; 11482; 11481; 11480; 11480; 11479; 11478; 11478; 11477; 11476; 11476; 11475; 11475; 11474; 11473; 11473;
  11472; 11471; 11471; 11470; 11469; 11469; 11468; 11467; 11467; 11466; 11465; 11465; 11464; 11463; 11463; 11462; 11462; 11461;
  11460; 11460; 11459; 11458; 11458; 11457; 11456; 11456; 11455; 11454; 11454; 11453; 11452; 11452; 11451; 11450; 11450; 11449;
  11449; 11448; 11447; 11447; 11446; 11445; 11445; 11444; 11443; 11443; 11442; 11441; 11441; 11440; 11439; 11439; 11438; 11438;
  11437; 11436; 11436; 11435; 11434; 11434; 11433; 11432; 11432; 11431; 11430; 11430; 11429; 11428; 11428; 11427; 11426; 11426;
  11425; 11425; 11424; 11423; 11423; 11422; 11421; 11421; 11420; 11419; 11419; 11418; 11417; 11417; 11416; 11415; 11415; 11414;
  11414; 11413; 11412; 11412; 11411; 11410; 11410; 11409; 11408; 11408; 11407; 11406; 11406; 11405; 11404; 11404; 11403; 11402;
  11402; 11401; 11401; 11400; 11399; 11399; 11398; 11397; 11397; 11396; 11395; 11395; 11394; 11393; 11393; 11392; 11391; 11391;
  11390; 11390; 11389; 11388; 11388; 11387; 11386; 11386; 11385; 11384; 11384; 11383; 11382; 11382; 11381; 11380; 11380; 11379;
  11379; 11378; 11377; 11377; 11376; 11375; 11375; 11374; 11373; 11373; 11372; 11371; 11371; 11370; 11369; 11369; 11368; 11367;
  11367; 11366; 11366; 11365; 11364; 11364; 11363; 11362; 11362; 11361; 11360; 11360; 11359; 11358; 11358; 11357; 11356; 11356;
  11355; 11355; 11354; 11353; 11353; 11352; 11351; 11351; 11350; 11349; 11349; 11348; 11347; 11347; 11346; 11345; 11345; 11344;
  11344; 11343; 11342; 11342; 11341; 11340; 11340; 11339; 11338; 11338; 11337; 11336; 11336; 11335; 11334; 11334; 11333; 11333;
  11332; 11331; 11331; 11330; 11329; 11329; 11328; 11327; 11327; 11326; 11325; 11325; 11324; 11323; 11323; 11322; 11322; 11321;
  11320; 11320; 11319; 11318; 11318; 11317; 11316; 11316; 11315; 11314; 11314; 11313; 11313; 11312; 11311; 11311; 11310; 11309;
  11309; 11308; 11307; 11307; 11306; 11305; 11305; 11304; 11303; 11303; 11302; 11302; 11301; 11300; 11300; 11299; 11298; 11298;
  11297; 11296; 11296; 11295; 11294; 11294; 11293; 11292; 11292; 11291; 11291; 11290; 11289; 11289; 11288; 11287; 11287; 11286].
Definition log_lut_49 : list Z := [
  11285; 11285; 11284; 11283; 11283; 11282; 11282; 11281; 11280; 11280; 11279; 11278; 11278; 11277; 11276; 11276; 11275; 11274;
  11274; 11273; 11272; 11272; 11271; 11271; 11270; 11269; 11269; 11268; 11267; 11267; 11266; 11265; 11265; 11264; 11263; 11263;
  11262; 11261; 11261; 11260; 11260; 11259; 11258; 11258; 11257; 11256; 11256; 11255; 11254; 11254; 11253; 11252; 11252; 11251;
  11251; 11250; 11249; 11249; 11248; 11247; 11247; 11246; 11245; 11245; 11244; 11243; 11243; 11242; 11242; 11241; 11240; 11240;
  11239; 11238; 11238; 11237; 11236; 11236; 11235; 11234; 11234; 11233; 11232; 11232; 11231; 11231; 11230; 11229; 11229; 11228;
  11227; 11227; 11226; 11225; 11225; 11224; 11223; 11223; 11222; 11222; 11221; 11220; 11220; 11219; 11218; 11218; 11217; 11216;
  11216; 11215; 11214; 11214; 11213; 11213; 11212; 11211; 11211; 11210; 11209; 11209; 11208; 11207; 11207; 11206; 11205; 11205;
  11204; 11203; 11203; 11202; 11202; 11201; 11200; 11200; 11199; 11198; 11198; 11197; 11196; 11196; 11195; 11194; 11194; 11193;
  11193; 11192; 11191; 11191; 11190; 11189; 11189; 11188; 11187; 11187; 11186; 11185; 11185; 11184; 11184; 11183; 11182; 11182;
  11181; 11180; 11180; 11179; 11178; 11178; 11177; 11176; 11176; 11175; 11175; 11174; 11173; 11173; 11172; 11171; 11171; 11170;
  11169; 11169; 11168; 11167; 11167; 11166; 11166; 11165; 11164; 11164; 11163; 11162; 11162; 11161; 11160; 11160; 11159; 11158;
  11158; 11157; 11157; 11156; 11155; 11155; 11154; 11153; 11153; 11152; 11151; 11151; 11150; 11149; 11149; 11148; 11148; 11147;
  11146; 11146; 11145; 11144; 11144; 11143; 11142; 11142; 11141; 11140; 11140; 11139; 11139; 11138; 11137; 11137; 11136; 11135;
  11135; 11134; 11133; 11133; 11132; 11131; 11131; 11130; 11130; 11129; 11128; 11128; 11127; 11126; 11126; 11125; 11124; 11124;
  11123; 11122; 11122; 11121; 11121; 11120; 11119; 11119; 11118; 11117; 11117; 11116; 11115; 11115; 11114; 11114; 11113; 11112;
  11112; 11111; 11110; 11110; 11109; 11108; 11108; 11107; 11106; 11106; 11105; 11105; 11104; 11103; 11103; 11102; 11101; 11101;
  11100; 11099; 11099; 11098; 11097; 11097; 11096; 11096; 11095; 11094; 11094; 11093; 11092; 11092; 11091; 11090; 11090; 11089;
  11088; 11088; 11087; 11087; 11086; 11085; 11085; 11084; 11083; 11083; 11082; 11081; 11081; 11080; 11080; 11079; 11078; 11078;
  11077; 11076; 11076; 11075; 11074; 11074; 11073; 11072; 11072; 11071; 11071; 11070; 11069; 11069; 11068; 11067; 11067; 11066;
  11065; 11065; 11064; 11063; 11063; 11062; 11062; 11061; 11060; 11060; 11059; 11058; 11058; 11057; 11056; 11056; 11055; 11055;
  11054; 11053; 11053; 11052; 11051; 11051; 11050; 11049; 11049; 11048; 11047; 11047; 11046; 11046; 11045; 11044; 11044; 11043;
  11042; 11042; 11041; 11040; 11040; 11039; 11039; 11038; 11037; 11037; 11036; 11035; 11035; 11034; 11033; 11033; 11032; 11031;
  11031; 11030; 11030; 11029; 11028; 11028; 11027; 11026; 11026; 11025; 11024; 11024; 11023; 11023; 11022; 11021; 11021; 11020;
  11019; 11019; 11018; 11017; 11017; 11016; 11015; 11015; 11014; 11014; 11013; 11012; 11012; 11011; 11010; 11010; 11009; 11008;
  11008; 11007; 11007; 11006; 11005; 11005; 11004; 11003; 11003; 11002; 11001; 11001; 11000; 11000; 10999; 10998; 10998; 10997;
  10996; 10996; 10995; 10994; 10994; 10993; 10992; 10992; 10991; 10991; 10990; 10989; 10989; 10988; 10987; 10987; 10986; 10985;
  10985; 10984; 10984; 10983; 10982; 10982; 10981; 10980; 10980; 10979; 10978; 10978; 10977; 10977; 10976; 10975; 10975; 10974;
  10973; 10973; 10972; 10971; 10971; 10970; 10969; 10969; 10968; 10968; 10967; 10966; 10966; 10965; 10964; 10964; 10963; 10962;
  10962; 10961; 10961; 10960; 10959; 10959; 10958; 10957; 10957; 10956; 10955; 10955; 10954; 10954; 10953; 10952; 10952; 10951;
  10950; 10950; 10949; 10948; 10948; 10947; 10947; 10946; 10945; 10945; 10944; 10943; 10943; 10942; 10941; 10941; 10940; 10939;
  10939; 10938; 10938; 10937; 10936; 10936; 10935; 10934; 10934; 10933; 10932; 10932; 10931; 10931; 10930; 10929; 10929; 10928;
  10927; 10927; 10926; 10925; 10925; 10924; 10924; 10923; 10922; 10922; 10921; 10920; 10920; 10919; 10918; 10918; 10917; 10917;
  10916; 10915; 10915; 10914; 10913; 10913; 10912; 10911; 10911; 10910; 10910; 10909; 10908; 10908; 10907; 10906; 10906; 10905;
  10904; 10904; 10903; 10903; 10902; 10901; 10901; 10900; 10899; 10899; 10898; 10897; 10897; 10896; 10896; 10895; 10894; 10894;
  10893; 10892; 10892; 10891; 10890; 10890; 10889; 10889; 10888; 10887; 10887; 10886; 10885; 10885; 10884; 10883; 10883; 10882;
  10881; 10881; 10880; 10880; 10879; 10878; 10878; 10877; 10876; 10876; 10875; 10874; 10874; 10873; 10873; 10872; 10871; 10871;
  10870; 10869; 10869; 10868; 10867; 10867; 10866; 10866; 10865; 10864; 10864; 10863; 10862; 10862; 10861; 10861; 10860; 10859;
  10859; 10858; 10857; 10857; 10856; 10855; 10855; 10854; 10854; 10853; 10852; 10852; 10851; 10850; 10850; 10849; 10848; 10848;
  10847; 10847; 10846; 10845; 10845; 10844; 10843; 10843; 10842; 10841; 10841; 10840; 10840; 10839; 10838; 10838; 10837; 10836;
  10836; 10835; 10834; 10834; 10833; 10833; 10832; 10831; 10831; 10830; 10829; 10829; 10828; 10827; 10827; 10826; 10826; 10825;
  10824; 10824; 10823; 10822; 10822; 10821; 10820; 10820; 10819; 10819; 10818; 10817; 10817; 10816; 10815; 10815; 10814; 10813;
  10813; 10812; 10812; 10811; 10810; 10810; 10809; 10808; 10808; 10807; 10806; 10806; 10805; 10805; 10804; 10803; 10803; 10802;
  10801; 10801; 10800; 10800; 10799; 10798; 10798; 10797; 10796; 10796; 10795; 10794; 10794; 10793; 10793; 10792; 10791; 10791;
  10790; 10789; 10789; 10788; 10787; 10787; 10786; 10786; 10785; 10784; 10784; 10783; 10782; 10782; 10781; 10780; 10780; 10779;
  10779; 10778; 10777; 10777; 10776; 10775; 10775; 10774; 10773; 10773; 10772; 10772; 10771; 10770; 10770; 10769; 10768; 10768;
  10767; 10767; 10766; 10765; 10765; 10764; 10763; 10763; 10762; 10761; 10761; 10760; 10760; 10759; 10758; 10758; 10757; 10756;
  10756; 10755; 10754; 10754; 10753; 10753; 10752; 10751; 10751; 10750; 10749; 10749; 10748; 10748; 10747; 10746; 10746; 10745;
  10744; 10744; 10743; 10742; 10742; 10741; 10741; 10740; 10739; 10739; 10738; 10737; 10737; 10736; 10735; 10735; 10734; 10734;
  10733; 10732; 10732; 10731; 10730; 10730; 10729; 10729; 10728; 10727; 10727; 10726; 10725; 10725; 10724; 10723; 10723; 10722;
  10722; 10721; 10720; 10720; 10719; 10718; 10718; 10717; 10716; 10716; 10715; 10715; 10714; 10713; 10713; 10712; 10711; 10711].
Definition log_lut_50 : list Z := [
  10710; 10710; 10709; 10708; 10708; 10707; 10706; 10706; 10705; 10704; 10704; 10703; 10703; 10702; 10701; 10701; 10700; 10699;
  10699; 10698; 10697; 10697; 10696; 10696; 10695; 10694; 10694; 10693; 10692; 10692; 10691; 10691; 10690; 10689; 10689; 10688;
  10687; 10687; 10686; 10685; 10685; 10684; 10684; 10683; 10682; 10682; 10681; 10680; 10680; 10679; 10679; 10678; 10677; 10677;
  10676; 10675; 10675; 10674; 10673; 10673; 10672; 10672; 10671; 10670; 10670; 10669; 10668; 10668; 10667; 10667; 10666; 10665;
  10665; 10664; 10663; 10663; 10662; 10661; 10661; 10660; 10660; 10659; 10658; 10658; 10657; 10656; 10656; 10655; 10655; 10654;
  10653; 10653; 10652; 10651; 10651; 10650; 10649; 10649; 10648; 10648; 10647; 10646; 10646; 10645; 10644; 10644; 10643; 10643;
  10642; 10641; 10641; 10640; 10639; 10639; 10638; 10637; 10637; 10636; 10636; 10635; 10634; 10634; 10633; 10632; 10632; 10631;
  10631; 10630; 10629; 10629; 10628; 10627; 10627; 10626; 10625; 10625; 10624; 10624; 10623; 10622; 10622; 10621; 10620; 10620;
  10619; 10619; 10618; 10617; 10617; 10616; 10615; 10615; 10614; 10614; 10613; 10612; 10612; 10611; 10610; 10610; 10609; 10608;
  10608; 10607; 10607; 10606; 10605; 10605; 10604; 10603; 10603; 10602; 10602; 10601; 10600; 10600; 10599; 10598; 10598; 10597;
  10596; 10596; 10595; 10595; 10594; 10593; 10593; 10592; 10591; 10591; 10590; 10590; 10589; 10588; 10588; 10587; 10586; 10586;
  10585; 10585; 10584; 10583; 10583; 10582; 10581; 10581; 10580; 10579; 10579; 10578; 10578; 10577; 10576; 10576; 10575; 10574;
  10574; 10573; 10573; 10572; 10571; 10571; 10570; 10569; 10569; 10568; 10568; 10567; 10566; 10566; 10565; 10564; 10564; 10563;
  10562; 10562; 10561; 10561; 10560; 10559; 10559; 10558; 10557; 10557; 10556; 10556; 10555; 10554; 10554; 10553; 10552; 10552;
  10551; 10551; 10550; 10549; 10549; 10548; 10547; 10547; 10546; 10545; 10545; 10544; 10544; 10543; 10542; 10542; 10541; 10540;
  10540; 10539; 10539; 10538; 10537; 10537; 10536; 10535; 10535; 10534; 10534; 10533; 10532; 10532; 10531; 10530; 10530; 10529;
  10529; 10528; 10527; 10527; 10526; 10525; 10525; 10524; 10523; 10523; 10522; 10522; 10521; 10520; 10520; 10519; 10518; 10518;
  10517; 10517; 10516; 10515; 10515; 10514; 10513; 10513; 10512; 10512; 10511; 10510; 10510; 10509; 10508; 10508; 10507; 10507;
  10506; 10505; 10505; 10504; 10503; 10503; 10502; 10501; 10501; 10500; 10500; 10499; 10498; 10498; 10497; 10496; 10496; 10495;
  10495; 10494; 10493; 10493; 10492; 10491; 10491; 10490; 10490; 10489; 10488; 10488; 10487; 10486; 10486; 10485; 10485; 10484;
  10483; 10483; 10482; 10481; 10481; 10480; 10480; 10479; 10478; 10478; 10477; 10476; 10476; 10475; 10474; 10474; 10473; 10473;
  10472; 10471; 10471; 10470; 10469; 10469; 10468; 10468; 10467; 10466; 10466; 10465; 10464; 10464; 10463; 10463; 10462; 10461;
  10461; 10460; 10459; 10459; 10458; 10458; 10457; 10456; 10456; 10455; 10454; 10454; 10453; 10453; 10452; 10451; 10451; 10450;
  10449; 10449; 10448; 10448; 10447; 10446; 10446; 10445; 10444; 10444; 10443; 10443; 10442; 10441; 10441; 10440; 10439; 10439;
  10438; 10437; 10437; 10436; 10436; 10435; 10434; 10434; 10433; 10432; 10432; 10431; 10431; 10430; 10429; 10429; 10428; 10427;
  10427; 10426; 10426; 10425; 10424; 10424; 10423; 10422; 10422; 10421; 10421; 10420; 10419; 10419; 10418; 10417; 10417; 10416;
  10416; 10415; 10414; 10414; 10413; 10412; 10412; 10411; 10411; 10410; 10409; 10409; 10408; 10407; 10407; 10406; 10406; 10405;
  10404; 10404; 10403; 10402; 10402; 10401; 10401; 10400; 10399; 10399; 10398; 10397; 10397; 10396; 10396; 10395; 10394; 10394;
  10393; 10392; 10392; 10391; 10391; 10390; 10389; 10389; 10388; 10387; 10387; 10386; 10386; 10385; 10384; 10384; 10383; 10382;
  10382; 10381; 10381; 10380; 10379; 10379; 10378; 10377; 10377; 10376; 10376; 10375; 10374; 10374; 10373; 10372; 10372; 10371;
  10371; 10370; 10369; 10369; 10368; 10367; 10367; 10366; 10366; 10365; 10364; 10364; 10363; 10362; 10362; 10361; 10361; 10360;
  10359; 10359; 10358; 10357; 10357; 10356; 10356; 10355; 10354; 10354; 10353; 10352; 10352; 10351; 10351; 10350; 10349; 10349;
  10348; 10347; 10347; 10346; 10346; 10345; 10344; 10344; 10343; 10342; 10342; 10341; 10341; 10340; 10339; 10339; 10338; 10337;
  10337; 10336; 10336; 10335; 10334; 10334; 10333; 10332; 10332; 10331; 10331; 10330; 10329; 10329; 10328; 10327; 10327; 10326;
  10326; 10325; 10324; 10324; 10323; 10322; 10322; 10321; 10321; 10320; 10319; 10319; 10318; 10317; 10317; 10316; 10316; 10315;
  10314; 10314; 10313; 10312; 10312; 10311; 10311; 10310; 10309; 10309; 10308; 10307; 10307; 10306; 10306; 10305; 10304; 10304;
  10303; 10302; 10302; 10301; 10301; 10300; 10299; 10299; 10298; 10297; 10297; 10296; 10296; 10295; 10294; 10294; 10293; 10292;
  10292; 10291; 10291; 10290; 10289; 10289; 10288; 10287; 10287; 10286; 10286; 10285; 10284; 10284; 10283; 10282; 10282; 10281;
  10281; 10280; 10279; 10279; 10278; 10278; 10277; 10276; 10276; 10275; 10274; 10274; 10273; 10273; 10272; 10271; 10271; 10270;
  10269; 10269; 10268; 10268; 10267; 10266; 10266; 10265; 10264; 10264; 10263; 10263; 10262; 10261; 10261; 10260; 10259; 10259;
  10258; 10258; 10257; 10256; 10256; 10255; 10254; 10254; 10253; 10253; 10252; 10251; 10251; 10250; 10249; 10249; 10248; 10248;
  10247; 10246; 10246; 10245; 10244; 10244; 10243; 10243; 10242; 10241; 10241; 10240; 10240; 10239; 10238; 10238; 10237; 10236;
  10236; 10235; 10235; 10234; 10233; 10233; 10232; 10231; 10231; 10230; 10230; 10229; 10228; 10228; 10227; 10226; 10226; 10225;
  10225; 10224; 10223; 10223; 10222; 10221; 10221; 10220; 10220; 10219; 10218; 10218; 10217; 10216; 10216; 10215; 10215; 10214;
  10213; 10213; 10212; 10212; 10211; 10210; 10210; 10209; 10208; 10208; 10207; 10207; 10206; 10205; 10205; 10204; 10203; 10203;
  10202; 10202; 10201; 10200; 10200; 10199; 10198; 10198; 10197; 10197; 10196; 10195; 10195; 10194; 10193; 10193; 10192; 10192;
  10191; 10190; 10190; 10189; 10189; 10188; 10187; 10187; 10186; 10185; 10185; 10184; 10184; 10183; 10182; 10182; 10181; 10180;
  10180; 10179; 10179; 10178; 10177; 10177; 10176; 10175; 10175; 10174; 10174; 10173; 10172; 10172; 10171; 10171; 10170; 10169;
  10169; 10168; 10167; 10167; 10166; 10166; 10165; 10164; 10164; 10163; 10162; 10162; 10161; 10161; 10160; 10159; 10159; 10158;
  10157; 10157; 10156; 10156; 10155; 10154; 10154; 10153; 10153; 10152; 10151; 10151; 10150; 10149; 10149; 10148; 10148; 10147].
Definition log_lut_51 : list Z := [
  10146; 10146; 10145; 10144; 10144; 10143; 10143; 10142; 10141; 10141; 10140; 10139; 10139; 10138; 10138; 10137; 10136; 10136;
  10135; 10135; 10134; 10133; 10133; 10132; 10131; 10131; 10130; 10130; 10129; 10128; 10128; 10127; 10126; 10126; 10125; 10125;
  10124; 10123; 10123; 10122; 10122; 10121; 10120; 10120; 10119; 10118; 10118; 10117; 10117; 10116; 10115; 10115; 10114; 10113;
  10113; 10112; 10112; 10111; 10110; 10110; 10109; 10109; 10108; 10107; 10107; 10106; 10105; 10105; 10104; 10104; 10103; 10102;
  10102; 10101; 10100; 10100; 10099; 10099; 10098; 10097; 10097; 10096; 10095; 10095; 10094; 10094; 10093; 10092; 10092; 10091;
  10091; 10090; 10089; 10089; 10088; 10087; 10087; 10086; 10086; 10085; 10084; 10084; 10083; 10082; 10082; 10081; 10081; 10080;
  10079; 10079; 10078; 10078; 10077; 10076; 10076; 10075; 10074; 10074; 10073; 10073; 10072; 10071; 10071; 10070; 10070; 10069;
  10068; 10068; 10067; 10066; 10066; 10065; 10065; 10064; 10063; 10063; 10062; 10061; 10061; 10060; 10060; 10059; 10058; 10058;
  10057; 10057; 10056; 10055; 10055; 10054; 10053; 10053; 10052; 10052; 10051; 10050; 10050; 10049; 10048; 10048; 10047; 10047;
  10046; 10045; 10045; 10044; 10044; 10043; 10042; 10042; 10041; 10040; 10040; 10039; 10039; 10038; 10037; 10037; 10036; 10035;
  10035; 10034; 10034; 10033; 10032; 10032; 10031; 10031; 10030; 10029; 10029; 10028; 10027; 10027; 10026; 10026; 10025; 10024;
  10024; 10023; 10023; 10022; 10021; 10021; 10020; 10019; 10019; 10018; 10018; 10017; 10016; 10016; 10015; 10014; 10014; 10013;
  10013; 10012; 10011; 10011; 10010; 10010; 10009; 10008; 10008; 10007; 10006; 10006; 10005; 10005; 10004; 10003; 10003; 10002;
  10002; 10001; 10000; 10000; 9999; 9998; 9998; 9997; 9997; 9996; 9995; 9995; 9994; 9994; 9993; 9992; 9992; 9991;
  9990; 9990; 9989; 9989; 9988; 9987; 9987; 9986; 9985; 9985; 9984; 9984; 9983; 9982; 9982; 9981; 9981; 9980;
  9979; 9979; 9978; 9977; 9977; 9976; 9976; 9975; 9974; 9974; 9973; 9973; 9972; 9971; 9971; 9970; 9969; 9969;
  9968; 9968; 9967; 9966; 9966; 9965; 9965; 9964; 9963; 9963; 9962; 9961; 9961; 9960; 9960; 9959; 9958; 9958;
  9957; 9957; 9956; 9955; 9955; 9954; 9953; 9953; 9952; 9952; 9951; 9950; 9950; 9949; 9949; 9948; 9947; 9947;
  9946; 9945; 9945; 9944; 9944; 9943; 9942; 9942; 9941; 9940; 9940; 9939; 9939; 9938; 9937; 9937; 9936; 9936;
  9935; 9934; 9934; 9933; 9932; 9932; 9931; 9931; 9930; 9929; 9929; 9928; 9928; 9927; 9926; 9926; 9925; 9924;
  9924; 9923; 9923; 9922; 9921; 9921; 9920; 9920; 9919; 9918; 9918; 9917; 9916; 9916; 9915; 9915; 9914; 9913;
  9913; 9912; 9912; 9911; 9910; 9910; 9909; 9908; 9908; 9907; 9907; 9906; 9905; 9905; 9904; 9904; 9903; 9902;
  9902; 9901; 9900; 9900; 9899; 9899; 9898; 9897; 9897; 9896; 9896; 9895; 9894; 9894; 9893; 9893; 9892; 9891;
  9891; 9890; 9889; 9889; 9888; 9888; 9887; 9886; 9886; 9885; 9885; 9884; 9883; 9883; 9882; 9881; 9881; 9880;
  9880; 9879; 9878; 9878; 9877; 9877; 9876; 9875; 9875; 9874; 9873; 9873; 9872; 9872; 9871; 9870; 9870; 9869;
  9869; 9868; 9867; 9867; 9866; 9865; 9865; 9864; 9864; 9863; 9862; 9862; 9861; 9861; 9860; 9859; 9859; 9858;
  9857; 9857; 9856; 9856; 9855; 9854; 9854; 9853; 9853; 9852; 9851; 9851; 9850; 9849; 9849; 9848; 9848; 9847;
  9846; 9846; 9845; 9845; 9844; 9843; 9843; 9842; 9842; 9841; 9840; 9840; 9839; 9838; 9838; 9837; 9837; 9836;
  9835; 9835; 9834; 9834; 9833; 9832; 9832; 9831; 9830; 9830; 9829; 9829; 9828; 9827; 9827; 9826; 9826; 9825;
  9824; 9824; 9823; 9822; 9822; 9821; 9821; 9820; 9819; 9819; 9818; 9818; 9817; 9816; 9816; 9815; 9815; 9814;
  9813; 9813; 9812; 9811; 9811; 9810; 9810; 9809; 9808; 9808; 9807; 9807; 9806; 9805; 9805; 9804; 9803; 9803;
  9802; 9802; 9801; 9800; 9800; 9799; 9799; 9798; 9797; 9797; 9796; 9796; 9795; 9794; 9794; 9793; 9792; 9792;
  9791; 9791; 9790; 9789; 9789; 9788; 9788; 9787; 9786; 9786; 9785; 9785; 9784; 9783; 9783; 9782; 9781; 9781;
  9780; 9780; 9779; 9778; 9778; 9777; 9777; 9776; 9775; 9775; 9774; 9773; 9773; 9772; 9772; 9771; 9770; 9770;
  9769; 9769; 9768; 9767; 9767; 9766; 9766; 9765; 9764; 9764; 9763; 9762; 9762; 9761; 9761; 9760; 9759; 9759;
  9758; 9758; 9757; 9756; 9756; 9755; 9755; 9754; 9753; 9753; 9752; 9751; 9751; 9750; 9750; 9749; 9748; 9748;
  9747; 9747; 9746; 9745; 9745; 9744; 9743; 9743; 9742; 9742; 9741; 9740; 9740; 9739; 9739; 9738; 9737; 9737;
  9736; 9736; 9735; 9734; 9734; 9733; 9732; 9732; 9731; 9731; 9730; 9729; 9729; 9728; 9728; 9727; 9726; 9726;
  9725; 9725; 9724; 9723; 9723; 9722; 9721; 9721; 9720; 9720; 9719; 9718; 9718; 9717; 9717; 9716; 9715; 9715;
  9714; 9714; 9713; 9712; 9712; 9711; 9710; 9710; 9709; 9709; 9708; 9707; 9707; 9706; 9706; 9705; 9704; 9704;
  9703; 9703; 9702; 9701; 9701; 9700; 9699; 9699; 9698; 9698; 9697; 9696; 9696; 9695; 9695; 9694; 9693; 9693;
  9692; 9692; 9691; 9690; 9690; 9689; 9689; 9688; 9687; 9687; 9686; 9685; 9685; 9684; 9684; 9683; 9682; 9682;
  9681; 9681; 9680; 9679; 9679; 9678; 9678; 9677; 9676; 9676; 9675; 9674; 9674; 9673; 9673; 9672; 9671; 9671;
  9670; 9670; 9669; 9668; 9668; 9667; 9667; 9666; 9665; 9665; 9664; 9663; 9663; 9662; 9662; 9661; 9660; 9660;
  9659; 9659; 9658; 9657; 9657; 9656; 9656; 9655; 9654; 9654; 9653; 9653; 9652; 9651; 9651; 9650; 9649; 9649;
  9648; 9648; 9647; 9646; 9646; 9645; 9645; 9644; 9643; 9643; 9642; 9642; 9641; 9640; 9640; 9639; 9638; 9638;
  9637; 9637; 9636; 9635; 9635; 9634; 9634; 9633; 9632; 9632; 9631; 9631; 9630; 9629; 9629; 9628; 9628; 9627;
  9626; 9626; 9625; 9624; 9624; 9623; 9623; 9622; 9621; 9621; 9620; 9620; 9619; 9618; 9618; 9617; 9617; 9616;
  9615; 9615; 9614; 9614; 9613; 9612; 9612; 9611; 9610; 9610; 9609; 9609; 9608; 9607; 9607; 9606; 9606; 9605;
  9604; 9604; 9603; 9603; 9602; 9601; 9601; 9600; 9600; 9599; 9598; 9598; 9597; 9596; 9596; 9595; 9595; 9594].
Definition log_lut_52 : list Z := [
  9593; 9593; 9592; 9592; 9591; 9590; 9590; 9589; 9589; 9588; 9587; 9587; 9586; 9586; 9585; 9584; 9584; 9583;
  9582; 9582; 9581; 9581; 9580; 9579; 9579; 9578; 9578; 9577; 9576; 9576; 9575; 9575; 9574; 9573; 9573; 9572;
  9572; 9571; 9570; 9570; 9569; 9569; 9568; 9567; 9567; 9566; 9565; 9565; 9564; 9564; 9563; 9562; 9562; 9561;
  9561; 9560; 9559; 9559; 9558; 9558; 9557; 9556; 9556; 9555; 9555; 9554; 9553; 9553; 9552; 9551; 9551; 9550;
  9550; 9549; 9548; 9548; 9547; 9547; 9546; 9545; 9545; 9544; 9544; 9543; 9542; 9542; 9541; 9541; 9540; 9539;
  9539; 9538; 9538; 9537; 9536; 9536; 9535; 9534; 9534; 9533; 9533; 9532; 9531; 9531; 9530; 9530; 9529; 9528;
  9528; 9527; 9527; 9526; 9525; 9525; 9524; 9524; 9523; 9522; 9522; 9521; 9521; 9520; 9519; 9519; 9518; 9517;
  9517; 9516; 9516; 9515; 9514; 9514; 9513; 9513; 9512; 9511; 9511; 9510; 9510; 9509; 9508; 9508; 9507; 9507;
  9506; 9505; 9505; 9504; 9504; 9503; 9502; 9502; 9501; 9501; 9500; 9499; 9499; 9498; 9497; 9497; 9496; 9496;
  9495; 9494; 9494; 9493; 9493; 9492; 9491; 9491; 9490; 9490; 9489; 9488; 9488; 9487; 9487; 9486; 9485; 9485;
  9484; 9484; 9483; 9482; 9482; 9481; 9481; 9480; 9479; 9479; 9478; 9477; 9477; 9476; 9476; 9475; 9474; 9474;
  9473; 9473; 9472; 9471; 9471; 9470; 9470; 9469; 9468; 9468; 9467; 9467; 9466; 9465; 9465; 9464; 9464; 9463;
  9462; 9462; 9461; 9461; 9460; 9459; 9459; 9458; 9457; 9457; 9456; 9456; 9455; 9454; 9454; 9453; 9453; 9452;
  9451; 9451; 9450; 9450; 9449; 9448; 9448; 9447; 9447; 9446; 9445; 9445; 9444; 9444; 9443; 9442; 9442; 9441;
  9441; 9440; 9439; 9439; 9438; 9438; 9437; 9436; 9436; 9435; 9434; 9434; 9433; 9433; 9432; 9431; 9431; 9430;
  9430; 9429; 9428; 9428; 9427; 9427; 9426; 9425; 9425; 9424; 9424; 9423; 9422; 9422; 9421; 9421; 9420; 9419;
  9419; 9418; 9418; 9417; 9416; 9416; 9415; 9415; 9414; 9413; 9413; 9412; 9412; 9411; 9410; 9410; 9409; 9408;
  9408; 9407; 9407; 9406; 9405; 9405; 9404; 9404; 9403; 9402; 9402; 9401; 9401; 9400; 9399; 9399; 9398; 9398;
  9397; 9396; 9396; 9395; 9395; 9394; 9393; 9393; 9392; 9392; 9391; 9390; 9390; 9389; 9389; 9388; 9387; 9387;
  9386; 9386; 9385; 9384; 9384; 9383; 9383; 9382; 9381; 9381; 9380; 9379; 9379; 9378; 9378; 9377; 9376; 9376;
  9375; 9375; 9374; 9373; 9373; 9372; 9372; 9371; 9370; 9370; 9369; 9369; 9368; 9367; 9367; 9366; 9366; 9365;
  9364; 9364; 9363; 9363; 9362; 9361; 9361; 9360; 9360; 9359; 9358; 9358; 9357; 9357; 9356; 9355; 9355; 9354;
  9354; 9353; 9352; 9352; 9351; 9351; 9350; 9349; 9349; 9348; 9347; 9347; 9346; 9346; 9345; 9344; 9344; 9343;
  9343; 9342; 9341; 9341; 9340; 9340; 9339; 9338; 9338; 9337; 9337; 9336; 9335; 9335; 9334; 9334; 9333; 9332;
  9332; 9331; 9331; 9330; 9329; 9329; 9328; 9328; 9327; 9326; 9326; 9325; 9325; 9324; 9323; 9323; 9322; 9322;
  9321; 9320; 9320; 9319; 9319; 9318; 9317; 9317; 9316; 9316; 9315; 9314; 9314; 9313; 9313; 9312; 9311; 9311;
  9310; 9310; 9309; 9308; 9308; 9307; 9307; 9306; 9305; 9305; 9304; 9304; 9303; 9302; 9302; 9301; 9300; 9300;
  9299; 9299; 9298; 9297; 9297; 9296; 9296; 9295; 9294; 9294; 9293; 9293; 9292; 9291; 9291; 9290; 9290; 9289;
  9288; 9288; 9287; 9287; 9286; 9285; 9285; 9284; 9284; 9283; 9282; 9282; 9281; 9281; 9280; 9279; 9279; 9278;
  9278; 9277; 9276; 9276; 9275; 9275; 9274; 9273; 9273; 9272; 9272; 9271; 9270; 9270; 9269; 9269; 9268; 9267;
  9267; 9266; 9266; 9265; 9264; 9264; 9263; 9263; 9262; 9261; 9261; 9260; 9260; 9259; 9258; 9258; 9257; 9257;
  9256; 9255; 9255; 9254; 9254; 9253; 9252; 9252; 9251; 9251; 9250; 9249; 9249; 9248; 9248; 9247; 9246; 9246;
  9245; 9245; 9244; 9243; 9243; 9242; 9242; 9241; 9240; 9240; 9239; 9239; 9238; 9237; 9237; 9236; 9236; 9235;
  9234; 9234; 9233; 9233; 9232; 9231; 9231; 9230; 9230; 9229; 9228; 9228; 9227; 9227; 9226; 9225; 9225; 9224;
  9224; 9223; 9222; 9222; 9221; 9221; 9220; 9219; 9219; 9218; 9218; 9217; 9216; 9216; 9215; 9215; 9214; 9213;
  9213; 9212; 9212; 9211; 9210; 9210; 9209; 9209; 9208; 9207; 9207; 9206; 9206; 9205; 9204; 9204; 9203; 9203;
  9202; 9201; 9201; 9200; 9200; 9199; 9198; 9198; 9197; 9197; 9196; 9195; 9195; 9194; 9194; 9193; 9192; 9192;
  9191; 9191; 9190; 9189; 9189; 9188; 9188; 9187; 9186; 9186; 9185; 9185; 9184; 9183; 9183; 9182; 9182; 9181;
  9180; 9180; 9179; 9179; 9178; 9177; 9177; 9176; 9176; 9175; 9174; 9174; 9173; 9173; 9172; 9171; 9171; 9170;
  9170; 9169; 9168; 9168; 9167; 9167; 9166; 9165; 9165; 9164; 9164; 9163; 9162; 9162; 9161; 9161; 9160; 9159;
  9159; 9158; 9158; 9157; 9156; 9156; 9155; 9155; 9154; 9153; 9153; 9152; 9152; 9151; 9150; 9150; 9149; 9149;
  9148; 9147; 9147; 9146; 9146; 9145; 9144; 9144; 9143; 9143; 9142; 9141; 9141; 9140; 9140; 9139; 9138; 9138;
  9137; 9137; 9136; 9135; 9135; 9134; 9134; 9133; 9132; 9132; 9131; 9131; 9130; 9129; 9129; 9128; 9128; 9127;
  9126; 9126; 9125; 9125; 9124; 9123; 9123; 9122; 9122; 9121; 9120; 9120; 9119; 9119; 9118; 9117; 9117; 9116;
  9116; 9115; 9114; 9114; 9113; 9113; 9112; 9111; 9111; 9110; 9110; 9109; 9108; 9108; 9107; 9107; 9106; 9105;
  9105; 9104; 9104; 9103; 9102; 9102; 9101; 9101; 9100; 9099; 9099; 9098; 9098; 9097; 9096; 9096; 9095; 9095;
  9094; 9094; 9093; 9092; 9092; 9091; 9091; 9090; 9089; 9089; 9088; 9088; 9087; 9086; 9086; 9085; 9085; 9084;
  9083; 9083; 9082; 9082; 9081; 9080; 9080; 9079; 9079; 9078; 9077; 9077; 9076; 9076; 9075; 9074; 9074; 9073;
  9073; 9072; 9071; 9071; 9070; 9070; 9069; 9068; 9068; 9067; 9067; 9066; 9065; 9065; 9064; 9064; 9063; 9062;
  9062; 9061; 9061; 9060; 9059; 9059; 9058; 9058; 9057; 9056; 9056; 9055; 9055; 9054; 9053; 9053; 9052; 9052].
Definition log_lut_53 : list Z := [
  9051; 9050; 9050; 9049; 9049; 9048; 9048; 9047; 9046; 9046; 9045; 9045; 9044; 9043; 9043; 9042; 9042; 9041;
  9040; 9040; 9039; 9039; 9038; 9037; 9037; 9036; 9036; 9035; 9034; 9034; 9033; 9033; 9032; 9031; 9031; 9030;
  9030; 9029; 9028; 9028; 9027; 9027; 9026; 9025; 9025; 9024; 9024; 9023; 9022; 9022; 9021; 9021; 9020; 9019;
  9019; 9018; 9018; 9017; 9016; 9016; 9015; 9015; 9014; 9014; 9013; 9012; 9012; 9011; 9011; 9010; 9009; 9009;
  9008; 9008; 9007; 9006; 9006; 9005; 9005; 9004; 9003; 9003; 9002; 9002; 9001; 9000; 9000; 8999; 8999; 8998;
  8997; 8997; 8996; 8996; 8995; 8994; 8994; 8993; 8993; 8992; 8991; 8991; 8990; 8990; 8989; 8988; 8988; 8987;
  8987; 8986; 8986; 8985; 8984; 8984; 8983; 8983; 8982; 8981; 8981; 8980; 8980; 8979; 8978; 8978; 8977; 8977;
  8976; 8975; 8975; 8974; 8974; 8973; 8972; 8972; 8971; 8971; 8970; 8969; 8969; 8968; 8968; 8967; 8966; 8966;
  8965; 8965; 8964; 8963; 8963; 8962; 8962; 8961; 8961; 8960; 8959; 8959; 8958; 8958; 8957; 8956; 8956; 8955;
  8955; 8954; 8953; 8953; 8952; 8952; 8951; 8950; 8950; 8949; 8949; 8948; 8947; 8947; 8946; 8946; 8945; 8944;
  8944; 8943; 8943; 8942; 8941; 8941; 8940; 8940; 8939; 8939; 8938; 8937; 8937; 8936; 8936; 8935; 8934; 8934;
  8933; 8933; 8932; 8931; 8931; 8930; 8930; 8929; 8928; 8928; 8927; 8927; 8926; 8925; 8925; 8924; 8924; 8923;
  8922; 8922; 8921; 8921; 8920; 8919; 8919; 8918; 8918; 8917; 8917; 8916; 8915; 8915; 8914; 8914; 8913; 8912;
  8912; 8911; 8911; 8910; 8909; 8909; 8908; 8908; 8907; 8906; 8906; 8905; 8905; 8904; 8903; 8903; 8902; 8902;
  8901; 8900; 8900; 8899; 8899; 8898; 8898; 8897; 8896; 8896; 8895; 8895; 8894; 8893; 8893; 8892; 8892; 8891;
  8890; 8890; 8889; 8889; 8888; 8887; 8887; 8886; 8886; 8885; 8884; 8884; 8883; 8883; 8882; 8881; 8881; 8880;
  8880; 8879; 8879; 8878; 8877; 8877; 8876; 8876; 8875; 8874; 8874; 8873; 8873; 8872; 8871; 8871; 8870; 8870;
  8869; 8868; 8868; 8867; 8867; 8866; 8865; 8865; 8864; 8864; 8863; 8863; 8862; 8861; 8861; 8860; 8860; 8859;
  8858; 8858; 8857; 8857; 8856; 8855; 8855; 8854; 8854; 8853; 8852; 8852; 8851; 8851; 8850; 8849; 8849; 8848;
  8848; 8847; 8846; 8846; 8845; 8845; 8844; 8844; 8843; 8842; 8842; 8841; 8841; 8840; 8839; 8839; 8838; 8838;
  8837; 8836; 8836; 8835; 8835; 8834; 8833; 8833; 8832; 8832; 8831; 8831; 8830; 8829; 8829; 8828; 8828; 8827;
  8826; 8826; 8825; 8825; 8824; 8823; 8823; 8822; 8822; 8821; 8820; 8820; 8819; 8819; 8818; 8817; 8817; 8816;
  8816; 8815; 8815; 8814; 8813; 8813; 8812; 8812; 8811; 8810; 8810; 8809; 8809; 8808; 8807; 8807; 8806; 8806;
  8805; 8804; 8804; 8803; 8803; 8802; 8801; 8801; 8800; 8800; 8799; 8799; 8798; 8797; 8797; 8796; 8796; 8795;
  8794; 8794; 8793; 8793; 8792; 8791; 8791; 8790; 8790; 8789; 8788; 8788; 8787; 8787; 8786; 8786; 8785; 8784;
  8784; 8783; 8783; 8782; 8781; 8781; 8780; 8780; 8779; 8778; 8778; 8777; 8777; 8776; 8775; 8775; 8774; 8774;
  8773; 8773; 8772; 8771; 8771; 8770; 8770; 8769; 8768; 8768; 8767; 8767; 8766; 8765; 8765; 8764; 8764; 8763;
  8762; 8762; 8761; 8761; 8760; 8760; 8759; 8758; 8758; 8757; 8757; 8756; 8755; 8755; 8754; 8754; 8753; 8752;
  8752; 8751; 8751; 8750; 8749; 8749; 8748; 8748; 8747; 8747; 8746; 8745; 8745; 8744; 8744; 8743; 8742; 8742;
  8741; 8741; 8740; 8739; 8739; 8738; 8738; 8737; 8736; 8736; 8735; 8735; 8734; 8734; 8733; 8732; 8732; 8731;
  8731; 8730; 8729; 8729; 8728; 8728; 8727; 8726; 8726; 8725; 8725; 8724; 8723; 8723; 8722; 8722; 8721; 8721;
  8720; 8719; 8719; 8718; 8718; 8717; 8716; 8716; 8715; 8715; 8714; 8713; 8713; 8712; 8712; 8711; 8711; 8710;
  8709; 8709; 8708; 8708; 8707; 8706; 8706; 8705; 8705; 8704; 8703; 8703; 8702; 8702; 8701; 8700; 8700; 8699;
  8699; 8698; 8698; 8697; 8696; 8696; 8695; 8695; 8694; 8693; 8693; 8692; 8692; 8691; 8690; 8690; 8689; 8689;
  8688; 8688; 8687; 8686; 8686; 8685; 8685; 8684; 8683; 8683; 8682; 8682; 8681; 8680; 8680; 8679; 8679; 8678;
  8678; 8677; 8676; 8676; 8675; 8675; 8674; 8673; 8673; 8672; 8672; 8671; 8670; 8670; 8669; 8669; 8668; 8667;
  8667; 8666; 8666; 8665; 8665; 8664; 8663; 8663; 8662; 8662; 8661; 8660; 8660; 8659; 8659; 8658; 8657; 8657;
  8656; 8656; 8655; 8655; 8654; 8653; 8653; 8652; 8652; 8651; 8650; 8650; 8649; 8649; 8648; 8647; 8647; 8646;
  8646; 8645; 8645; 8644; 8643; 8643; 8642; 8642; 8641; 8640; 8640; 8639; 8639; 8638; 8637; 8637; 8636; 8636;
  8635; 8635; 8634; 8633; 8633; 8632; 8632; 8631; 8630; 8630; 8629; 8629; 8628; 8627; 8627; 8626; 8626; 8625;
  8625; 8624; 8623; 8623; 8622; 8622; 8621; 8620; 8620; 8619; 8619; 8618; 8617; 8617; 8616; 8616; 8615; 8615;
  8614; 8613; 8613; 8612; 8612; 8611; 8610; 8610; 8609; 8609; 8608; 8607; 8607; 8606; 8606; 8605; 8605; 8604;
  8603; 8603; 8602; 8602; 8601; 8600; 8600; 8599; 8599; 8598; 8598; 8597; 8596; 8596; 8595; 8595; 8594; 8593;
  8593; 8592; 8592; 8591; 8590; 8590; 8589; 8589; 8588; 8588; 8587; 8586; 8586; 8585; 8585; 8584; 8583; 8583;
  8582; 8582; 8581; 8580; 8580; 8579; 8579; 8578; 8578; 8577; 8576; 8576; 8575; 8575; 8574; 8573; 8573; 8572;
  8572; 8571; 8570; 8570; 8569; 8569; 8568; 8568; 8567; 8566; 8566; 8565; 8565; 8564; 8563; 8563; 8562; 8562;
  8561; 8561; 8560; 8559; 8559; 8558; 8558; 8557; 8556; 8556; 8555; 8555; 8554; 8553; 8553; 8552; 8552; 8551;
  8551; 8550; 8549; 8549; 8548; 8548; 8547; 8546; 8546; 8545; 8545; 8544; 8544; 8543; 8542; 8542; 8541; 8541;
  8540; 8539; 8539; 8538; 8538; 8537; 8536; 8536; 8535; 8535; 8534; 8534; 8533; 8532; 8532; 8531; 8531; 8530;
  8529; 8529; 8528; 8528; 8527; 8527; 8526; 8525; 8525; 8524; 8524; 8523; 8522; 8522; 8521; 8521; 8520; 8519].
Definition log_lut_54 : list Z := [
  8519; 8518; 8518; 8517; 8517; 8516; 8515; 8515; 8514; 8514; 8513; 8512; 8512; 8511; 8511; 8510; 8510; 8509;
  8508; 8508; 8507; 8507; 8506; 8505; 8505; 8504; 8504; 8503; 8502; 8502; 8501; 8501; 8500; 8500; 8499; 8498;
  8498; 8497; 8497; 8496; 8495; 8495; 8494; 8494; 8493; 8493; 8492; 8491; 8491; 8490; 8490; 8489; 8488; 8488;
  8487; 8487; 8486; 8486; 8485; 8484; 8484; 8483; 8483; 8482; 8481; 8481; 8480; 8480; 8479; 8478; 8478; 8477;
  8477; 8476; 8476; 8475; 8474; 8474; 8473; 8473; 8472; 8471; 8471; 8470; 8470; 8469; 8469; 8468; 8467; 8467;
  8466; 8466; 8465; 8464; 8464; 8463; 8463; 8462; 8462; 8461; 8460; 8460; 8459; 8459; 8458; 8457; 8457; 8456;
  8456; 8455; 8455; 8454; 8453; 8453; 8452; 8452; 8451; 8450; 8450; 8449; 8449; 8448; 8448; 8447; 8446; 8446;
  8445; 8445; 8444; 8443; 8443; 8442; 8442; 8441; 8440; 8440; 8439; 8439; 8438; 8438; 8437; 8436; 8436; 8435;
  8435; 8434; 8433; 8433; 8432; 8432; 8431; 8431; 8430; 8429; 8429; 8428; 8428; 8427; 8426; 8426; 8425; 8425;
  8424; 8424; 8423; 8422; 8422; 8421; 8421; 8420; 8419; 8419; 8418; 8418; 8417; 8417; 8416; 8415; 8415; 8414;
  8414; 8413; 8412; 8412; 8411; 8411; 8410; 8410; 8409; 8408; 8408; 8407; 8407; 8406; 8405; 8405; 8404; 8404;
  8403; 8403; 8402; 8401; 8401; 8400; 8400; 8399; 8398; 8398; 8397; 8397; 8396; 8396; 8395; 8394; 8394; 8393;
  8393; 8392; 8391; 8391; 8390; 8390; 8389; 8389; 8388; 8387; 8387; 8386; 8386; 8385; 8384; 8384; 8383; 8383;
  8382; 8382; 8381; 8380; 8380; 8379; 8379; 8378; 8377; 8377; 8376; 8376; 8375; 8375; 8374; 8373; 8373; 8372;
  8372; 8371; 8370; 8370; 8369; 8369; 8368; 8368; 8367; 8366; 8366; 8365; 8365; 8364; 8363; 8363; 8362; 8362;
  8361; 8361; 8360; 8359; 8359; 8358; 8358; 8357; 8356; 8356; 8355; 8355; 8354; 8354; 8353; 8352; 8352; 8351;
  8351; 8350; 8350; 8349; 8348; 8348; 8347; 8347; 8346; 8345; 8345; 8344; 8344; 8343; 8343; 8342; 8341; 8341;
  8340; 8340; 8339; 8338; 8338; 8337; 8337; 8336; 8336; 8335; 8334; 8334; 8333; 8333; 8332; 8331; 8331; 8330;
  8330; 8329; 8329; 8328; 8327; 8327; 8326; 8326; 8325; 8324; 8324; 8323; 8323; 8322; 8322; 8321; 8320; 8320;
  8319; 8319; 8318; 8317; 8317; 8316; 8316; 8315; 8315; 8314; 8313; 8313; 8312; 8312; 8311; 8311; 8310; 8309;
  8309; 8308; 8308; 8307; 8306; 8306; 8305; 8305; 8304; 8304; 8303; 8302; 8302; 8301; 8301; 8300; 8299; 8299;
  8298; 8298; 8297; 8297; 8296; 8295; 8295; 8294; 8294; 8293; 8292; 8292; 8291; 8291; 8290; 8290; 8289; 8288;
  8288; 8287; 8287; 8286; 8286; 8285; 8284; 8284; 8283; 8283; 8282; 8281; 8281; 8280; 8280; 8279; 8279; 8278;
  8277; 8277; 8276; 8276; 8275; 8274; 8274; 8273; 8273; 8272; 8272; 8271; 8270; 8270; 8269; 8269; 8268; 8268;
  8267; 8266; 8266; 8265; 8265; 8264; 8263; 8263; 8262; 8262; 8261; 8261; 8260; 8259; 8259; 8258; 8258; 8257;
  8256; 8256; 8255; 8255; 8254; 8254; 8253; 8252; 8252; 8251; 8251; 8250; 8250; 8249; 8248; 8248; 8247; 8247;
  8246; 8245; 8245; 8244; 8244; 8243; 8243; 8242; 8241; 8241; 8240; 8240; 8239; 8238; 8238; 8237; 8237; 8236;
  8236; 8235; 8234; 8234; 8233; 8233; 8232; 8232; 8231; 8230; 8230; 8229; 8229; 8228; 8227; 8227; 8226; 8226;
  8225; 8225; 8224; 8223; 8223; 8222; 8222; 8221; 8221; 8220; 8219; 8219; 8218; 8218; 8217; 8216; 8216; 8215;
  8215; 8214; 8214; 8213; 8212; 8212; 8211; 8211; 8210; 8209; 8209; 8208; 8208; 8207; 8207; 8206; 8205; 8205;
  8204; 8204; 8203; 8203; 8202; 8201; 8201; 8200; 8200; 8199; 8198; 8198; 8197; 8197; 8196; 8196; 8195; 8194;
  8194; 8193; 8193; 8192; 8192; 8191; 8190; 8190; 8189; 8189; 8188; 8187; 8187; 8186; 8186; 8185; 8185; 8184;
  8183; 8183; 8182; 8182; 8181; 8181; 8180; 8179; 8179; 8178; 8178; 8177; 8176; 8176; 8175; 8175; 8174; 8174;
  8173; 8172; 8172; 8171; 8171; 8170; 8170; 8169; 8168; 8168; 8167; 8167; 8166; 8165; 8165; 8164; 8164; 8163;
  8163; 8162; 8161; 8161; 8160; 8160; 8159; 8159; 8158; 8157; 8157; 8156; 8156; 8155; 8154; 8154; 8153; 8153;
  8152; 8152; 8151; 8150; 8150; 8149; 8149; 8148; 8148; 8147; 8146; 8146; 8145; 8145; 8144; 8144; 8143; 8142;
  8142; 8141; 8141; 8140; 8139; 8139; 8138; 8138; 8137; 8137; 8136; 8135; 8135; 8134; 8134; 8133; 8133; 8132;
  8131; 8131; 8130; 8130; 8129; 8128; 8128; 8127; 8127; 8126; 8126; 8125; 8124; 8124; 8123; 8123; 8122; 8122;
  8121; 8120; 8120; 8119; 8119; 8118; 8118; 8117; 8116; 8116; 8115; 8115; 8114; 8113; 8113; 8112; 8112; 8111;
  8111; 8110; 8109; 8109; 8108; 8108; 8107; 8107; 8106; 8105; 8105; 8104; 8104; 8103; 8102; 8102; 8101; 8101;
  8100; 8100; 8099; 8098; 8098; 8097; 8097; 8096; 8096; 8095; 8094; 8094; 8093; 8093; 8092; 8092; 8091; 8090;
  8090; 8089; 8089; 8088; 8087; 8087; 8086; 8086; 8085; 8085; 8084; 8083; 8083; 8082; 8082; 8081; 8081; 8080;
  8079; 8079; 8078; 8078; 8077; 8077; 8076; 8075; 8075; 8074; 8074; 8073; 8072; 8072; 8071; 8071; 8070; 8070;
  8069; 8068; 8068; 8067; 8067; 8066; 8066; 8065; 8064; 8064; 8063; 8063; 8062; 8062; 8061; 8060; 8060; 8059;
  8059; 8058; 8057; 8057; 8056; 8056; 8055; 8055; 8054; 8053; 8053; 8052; 8052; 8051; 8051; 8050; 8049; 8049;
  8048; 8048; 8047; 8047; 8046; 8045; 8045; 8044; 8044; 8043; 8043; 8042; 8041; 8041; 8040; 8040; 8039; 8038;
  8038; 8037; 8037; 8036; 8036; 8035; 8034; 8034; 8033; 8033; 8032; 8032; 8031; 8030; 8030; 8029; 8029; 8028;
  8028; 8027; 8026; 8026; 8025; 8025; 8024; 8024; 8023; 8022; 8022; 8021; 8021; 8020; 8019; 8019; 8018; 8018;
  8017; 8017; 8016; 8015; 8015; 8014; 8014; 8013; 8013; 8012; 8011; 8011; 8010; 8010; 8009; 8009; 8008; 8007;
  8007; 8006; 8006; 8005; 8005; 8004; 8003; 8003; 8002; 8002; 8001; 8000; 8000; 7999; 7999; 7998; 7998; 7997].
Definition log_lut_55 : list Z := [
  7996; 7996; 7995; 7995; 7994; 7994; 7993; 7992; 7992; 7991; 7991; 7990; 7990; 7989; 7988; 7988; 7987; 7987;
  7986; 7986; 7985; 7984; 7984; 7983; 7983; 7982; 7982; 7981; 7980; 7980; 7979; 7979; 7978; 7977; 7977; 7976;
  7976; 7975; 7975; 7974; 7973; 7973; 7972; 7972; 7971; 7971; 7970; 7969; 7969; 7968; 7968; 7967; 7967; 7966;
  7965; 7965; 7964; 7964; 7963; 7963; 7962; 7961; 7961; 7960; 7960; 7959; 7959; 7958; 7957; 7957; 7956; 7956;
  7955; 7955; 7954; 7953; 7953; 7952; 7952; 7951; 7950; 7950; 7949; 7949; 7948; 7948; 7947; 7946; 7946; 7945;
  7945; 7944; 7944; 7943; 7942; 7942; 7941; 7941; 7940; 7940; 7939; 7938; 7938; 7937; 7937; 7936; 7936; 7935;
  7934; 7934; 7933; 7933; 7932; 7932; 7931; 7930; 7930; 7929; 7929; 7928; 7928; 7927; 7926; 7926; 7925; 7925;
  7924; 7924; 7923; 7922; 7922; 7921; 7921; 7920; 7919; 7919; 7918; 7918; 7917; 7917; 7916; 7915; 7915; 7914;
  7914; 7913; 7913; 7912; 7911; 7911; 7910; 7910; 7909; 7909; 7908; 7907; 7907; 7906; 7906; 7905; 7905; 7904;
  7903; 7903; 7902; 7902; 7901; 7901; 7900; 7899; 7899; 7898; 7898; 7897; 7897; 7896; 7895; 7895; 7894; 7894;
  7893; 7893; 7892; 7891; 7891; 7890; 7890; 7889; 7889; 7888; 7887; 7887; 7886; 7886; 7885; 7885; 7884; 7883;
  7883; 7882; 7882; 7881; 7881; 7880; 7879; 7879; 7878; 7878; 7877; 7876; 7876; 7875; 7875; 7874; 7874; 7873;
  7872; 7872; 7871; 7871; 7870; 7870; 7869; 7868; 7868; 7867; 7867; 7866; 7866; 7865; 7864; 7864; 7863; 7863;
  7862; 7862; 7861; 7860; 7860; 7859; 7859; 7858; 7858; 7857; 7856; 7856; 7855; 7855; 7854; 7854; 7853; 7852;
  7852; 7851; 7851; 7850; 7850; 7849; 7848; 7848; 7847; 7847; 7846; 7846; 7845; 7844; 7844; 7843; 7843; 7842;
  7842; 7841; 7840; 7840; 7839; 7839; 7838; 7838; 7837; 7836; 7836; 7835; 7835; 7834; 7834; 7833; 7832; 7832;
  7831; 7831; 7830; 7830; 7829; 7828; 7828; 7827; 7827; 7826; 7826; 7825; 7824; 7824; 7823; 7823; 7822; 7822;
  7821; 7820; 7820; 7819; 7819; 7818; 7818; 7817; 7816; 7816; 7815; 7815; 7814; 7814; 7813; 7812; 7812; 7811;
  7811; 7810; 7810; 7809; 7808; 7808; 7807; 7807; 7806; 7806; 7805; 7804; 7804; 7803; 7803; 7802; 7802; 7801;
  7800; 7800; 7799; 7799; 7798; 7798; 7797; 7796; 7796; 7795; 7795; 7794; 7794; 7793; 7792; 7792; 7791; 7791;
  7790; 7790; 7789; 7788; 7788; 7787; 7787; 7786; 7786; 7785; 7784; 7784; 7783; 7783; 7782; 7782; 7781; 7780;
  7780; 7779; 7779; 7778; 7778; 7777; 7776; 7776; 7775; 7775; 7774; 7774; 7773; 7772; 7772; 7771; 7771; 7770;
  7770; 7769; 7768; 7768; 7767; 7767; 7766; 7766; 7765; 7764; 7764; 7763; 7763; 7762; 7762; 7761; 7760; 7760;
  7759; 7759; 7758; 7758; 7757; 7756; 7756; 7755; 7755; 7754; 7754; 7753; 7752; 7752; 7751; 7751; 7750; 7750;
  7749; 7748; 7748; 7747; 7747; 7746; 7746; 7745; 7744; 7744; 7743; 7743; 7742; 7742; 7741; 7741; 7740; 7739;
  7739; 7738; 7738; 7737; 7737; 7736; 7735; 7735; 7734; 7734; 7733; 7733; 7732; 7731; 7731; 7730; 7730; 7729;
  7729; 7728; 7727; 7727; 7726; 7726; 7725; 7725; 7724; 7723; 7723; 7722; 7722; 7721; 7721; 7720; 7719; 7719;
  7718; 7718; 7717; 7717; 7716; 7715; 7715; 7714; 7714; 7713; 7713; 7712; 7711; 7711; 7710; 7710; 7709; 7709;
  7708; 7707; 7707; 7706; 7706; 7705; 7705; 7704; 7703; 7703; 7702; 7702; 7701; 7701; 7700; 7699; 7699; 7698;
  7698; 7697; 7697; 7696; 7696; 7695; 7694; 7694; 7693; 7693; 7692; 7692; 7691; 7690; 7690; 7689; 7689; 7688;
  7688; 7687; 7686; 7686; 7685; 7685; 7684; 7684; 7683; 7682; 7682; 7681; 7681; 7680; 7680; 7679; 7678; 7678;
  7677; 7677; 7676; 7676; 7675; 7674; 7674; 7673; 7673; 7672; 7672; 7671; 7670; 7670; 7669; 7669; 7668; 7668;
  7667; 7666; 7666; 7665; 7665; 7664; 7664; 7663; 7663; 7662; 7661; 7661; 7660; 7660; 7659; 7659; 7658; 7657;
  7657; 7656; 7656; 7655; 7655; 7654; 7653; 7653; 7652; 7652; 7651; 7651; 7650; 7649; 7649; 7648; 7648; 7647;
  7647; 7646; 7645; 7645; 7644; 7644; 7643; 7643; 7642; 7641; 7641; 7640; 7640; 7639; 7639; 7638; 7638; 7637;
  7636; 7636; 7635; 7635; 7634; 7634; 7633; 7632; 7632; 7631; 7631; 7630; 7630; 7629; 7628; 7628; 7627; 7627;
  7626; 7626; 7625; 7624; 7624; 7623; 7623; 7622; 7622; 7621; 7620; 7620; 7619; 7619; 7618; 7618; 7617; 7617;
  7616; 7615; 7615; 7614; 7614; 7613; 7613; 7612; 7611; 7611; 7610; 7610; 7609; 7609; 7608; 7607; 7607; 7606;
  7606; 7605; 7605; 7604; 7603; 7603; 7602; 7602; 7601; 7601; 7600; 7599; 7599; 7598; 7598; 7597; 7597; 7596;
  7596; 7595; 7594; 7594; 7593; 7593; 7592; 7592; 7591; 7590; 7590; 7589; 7589; 7588; 7588; 7587; 7586; 7586;
  7585; 7585; 7584; 7584; 7583; 7582; 7582; 7581; 7581; 7580; 7580; 7579; 7579; 7578; 7577; 7577; 7576; 7576;
  7575; 7575; 7574; 7573; 7573; 7572; 7572; 7571; 7571; 7570; 7569; 7569; 7568; 7568; 7567; 7567; 7566; 7565;
  7565; 7564; 7564; 7563; 7563; 7562; 7562; 7561; 7560; 7560; 7559; 7559; 7558; 7558; 7557; 7556; 7556; 7555;
  7555; 7554; 7554; 7553; 7552; 7552; 7551; 7551; 7550; 7550; 7549; 7548; 7548; 7547; 7547; 7546; 7546; 7545;
  7545; 7544; 7543; 7543; 7542; 7542; 7541; 7541; 7540; 7539; 7539; 7538; 7538; 7537; 7537; 7536; 7535; 7535;
  7534; 7534; 7533; 7533; 7532; 7532; 7531; 7530; 7530; 7529; 7529; 7528; 7528; 7527; 7526; 7526; 7525; 7525;
  7524; 7524; 7523; 7522; 7522; 7521; 7521; 7520; 7520; 7519; 7518; 7518; 7517; 7517; 7516; 7516; 7515; 7515;
  7514; 7513; 7513; 7512; 7512; 7511; 7511; 7510; 7509; 7509; 7508; 7508; 7507; 7507; 7506; 7505; 7505; 7504;
  7504; 7503; 7503; 7502; 7502; 7501; 7500; 7500; 7499; 7499; 7498; 7498; 7497; 7496; 7496; 7495; 7495; 7494;
  7494; 7493; 7492; 7492; 7491; 7491; 7490; 7490; 7489; 7489; 7488; 7487; 7487; 7486; 7486; 7485; 7485; 7484].
Definition log_lut_56 : list Z := [
  7483; 7483; 7482; 7482; 7481; 7481; 7480; 7479; 7479; 7478; 7478; 7477; 7477; 7476; 7476; 7475; 7474; 7474;
  7473; 7473; 7472; 7472; 7471; 7470; 7470; 7469; 7469; 7468; 7468; 7467; 7467; 7466; 7465; 7465; 7464; 7464;
  7463; 7463; 7462; 7461; 7461; 7460; 7460; 7459; 7459; 7458; 7457; 7457; 7456; 7456; 7455; 7455; 7454; 7454;
  7453; 7452; 7452; 7451; 7451; 7450; 7450; 7449; 7448; 7448; 7447; 7447; 7446; 7446; 7445; 7444; 7444; 7443;
  7443; 7442; 7442; 7441; 7441; 7440; 7439; 7439; 7438; 7438; 7437; 7437; 7436; 7435; 7435; 7434; 7434; 7433;
  7433; 7432; 7432; 7431; 7430; 7430; 7429; 7429; 7428; 7428; 7427; 7426; 7426; 7425; 7425; 7424; 7424; 7423;
  7422; 7422; 7421; 7421; 7420; 7420; 7419; 7419; 7418; 7417; 7417; 7416; 7416; 7415; 7415; 7414; 7413; 7413;
  7412; 7412; 7411; 7411; 7410; 7410; 7409; 7408; 7408; 7407; 7407; 7406; 7406; 7405; 7404; 7404; 7403; 7403;
  7402; 7402; 7401; 7401; 7400; 7399; 7399; 7398; 7398; 7397; 7397; 7396; 7395; 7395; 7394; 7394; 7393; 7393;
  7392; 7392; 7391; 7390; 7390; 7389; 7389; 7388; 7388; 7387; 7386; 7386; 7385; 7385; 7384; 7384; 7383; 7383;
  7382; 7381; 7381; 7380; 7380; 7379; 7379; 7378; 7377; 7377; 7376; 7376; 7375; 7375; 7374; 7373; 7373; 7372;
  7372; 7371; 7371; 7370; 7370; 7369; 7368; 7368; 7367; 7367; 7366; 7366; 7365; 7364; 7364; 7363; 7363; 7362;
  7362; 7361; 7361; 7360; 7359; 7359; 7358; 7358; 7357; 7357; 7356; 7355; 7355; 7354; 7354; 7353; 7353; 7352;
  7352; 7351; 7350; 7350; 7349; 7349; 7348; 7348; 7347; 7346; 7346; 7345; 7345; 7344; 7344; 7343; 7343; 7342;
  7341; 7341; 7340; 7340; 7339; 7339; 7338; 7338; 7337; 7336; 7336; 7335; 7335; 7334; 7334; 7333; 7332; 7332;
  7331; 7331; 7330; 7330; 7329; 7329; 7328; 7327; 7327; 7326; 7326; 7325; 7325; 7324; 7323; 7323; 7322; 7322;
  7321; 7321; 7320; 7320; 7319; 7318; 7318; 7317; 7317; 7316; 7316; 7315; 7314; 7314; 7313; 7313; 7312; 7312;
  7311; 7311; 7310; 7309; 7309; 7308; 7308; 7307; 7307; 7306; 7305; 7305; 7304; 7304; 7303; 7303; 7302; 7302;
  7301; 7300; 7300; 7299; 7299; 7298; 7298; 7297; 7297; 7296; 7295; 7295; 7294; 7294; 7293; 7293; 7292; 7291;
  7291; 7290; 7290; 7289; 7289; 7288; 7288; 7287; 7286; 7286; 7285; 7285; 7284; 7284; 7283; 7282; 7282; 7281;
  7281; 7280; 7280; 7279; 7279; 7278; 7277; 7277; 7276; 7276; 7275; 7275; 7274; 7274; 7273; 7272; 7272; 7271;
  7271; 7270; 7270; 7269; 7268; 7268; 7267; 7267; 7266; 7266; 7265; 7265; 7264; 7263; 7263; 7262; 7262; 7261;
  7261; 7260; 7259; 7259; 7258; 7258; 7257; 7257; 7256; 7256; 7255; 7254; 7254; 7253; 7253; 7252; 7252; 7251;
  7251; 7250; 7249; 7249; 7248; 7248; 7247; 7247; 7246; 7245; 7245; 7244; 7244; 7243; 7243; 7242; 7242; 7241;
  7240; 7240; 7239; 7239; 7238; 7238; 7237; 7237; 7236; 7235; 7235; 7234; 7234; 7233; 7233; 7232; 7231; 7231;
  7230; 7230; 7229; 7229; 7228; 7228; 7227; 7226; 7226; 7225; 7225; 7224; 7224; 7223; 7223; 7222; 7221; 7221;
  7220; 7220; 7219; 7219; 7218; 7217; 7217; 7216; 7216; 7215; 7215; 7214; 7214; 7213; 7212; 7212; 7211; 7211;
  7210; 7210; 7209; 7209; 7208; 7207; 7207; 7206; 7206; 7205; 7205; 7204; 7203; 7203; 7202; 7202; 7201; 7201;
  7200; 7200; 7199; 7198; 7198; 7197; 7197; 7196; 7196; 7195; 7195; 7194; 7193; 7193; 7192; 7192; 7191; 7191;
  7190; 7190; 7189; 7188; 7188; 7187; 7187; 7186; 7186; 7185; 7184; 7184; 7183; 7183; 7182; 7182; 7181; 7181;
  7180; 7179; 7179; 7178; 7178; 7177; 7177; 7176; 7176; 7175; 7174; 7174; 7173; 7173; 7172; 7172; 7171; 7171;
  7170; 7169; 7169; 7168; 7168; 7167; 7167; 7166; 7165; 7165; 7164; 7164; 7163; 7163; 7162; 7162; 7161; 7160;
  7160; 7159; 7159; 7158; 7158; 7157; 7157; 7156; 7155; 7155; 7154; 7154; 7153; 7153; 7152; 7152; 7151; 7150;
  7150; 7149; 7149; 7148; 7148; 7147; 7146; 7146; 7145; 7145; 7144; 7144; 7143; 7143; 7142; 7141; 7141; 7140;
  7140; 7139; 7139; 7138; 7138; 7137; 7136; 7136; 7135; 7135; 7134; 7134; 7133; 7133; 7132; 7131; 7131; 7130;
  7130; 7129; 7129; 7128; 7128; 7127; 7126; 7126; 7125; 7125; 7124; 7124; 7123; 7123; 7122; 7121; 7121; 7120;
  7120; 7119; 7119; 7118; 7117; 7117; 7116; 7116; 7115; 7115; 7114; 7114; 7113; 7112; 7112; 7111; 7111; 7110;
  7110; 7109; 7109; 7108; 7107; 7107; 7106; 7106; 7105; 7105; 7104; 7104; 7103; 7102; 7102; 7101; 7101; 7100;
  7100; 7099; 7099; 7098; 7097; 7097; 7096; 7096; 7095; 7095; 7094; 7094; 7093; 7092; 7092; 7091; 7091; 7090;
  7090; 7089; 7088; 7088; 7087; 7087; 7086; 7086; 7085; 7085; 7084; 7083; 7083; 7082; 7082; 7081; 7081; 7080;
  7080; 7079; 7078; 7078; 7077; 7077; 7076; 7076; 7075; 7075; 7074; 7073; 7073; 7072; 7072; 7071; 7071; 7070;
  7070; 7069; 7068; 7068; 7067; 7067; 7066; 7066; 7065; 7065; 7064; 7063; 7063; 7062; 7062; 7061; 7061; 7060;
  7060; 7059; 7058; 7058; 7057; 7057; 7056; 7056; 7055; 7055; 7054; 7053; 7053; 7052; 7052; 7051; 7051; 7050;
  7050; 7049; 7048; 7048; 7047; 7047; 7046; 7046; 7045; 7045; 7044; 7043; 7043; 7042; 7042; 7041; 7041; 7040;
  7040; 7039; 7038; 7038; 7037; 7037; 7036; 7036; 7035; 7035; 7034; 7033; 7033; 7032; 7032; 7031; 7031; 7030;
  7030; 7029; 7028; 7028; 7027; 7027; 7026; 7026; 7025; 7025; 7024; 7023; 7023; 7022; 7022; 7021; 7021; 7020;
  7019; 7019; 7018; 7018; 7017; 7017; 7016; 7016; 7015; 7014; 7014; 7013; 7013; 7012; 7012; 7011; 7011; 7010;
  7009; 7009; 7008; 7008; 7007; 7007; 7006; 7006; 7005; 7004; 7004; 7003; 7003; 7002; 7002; 7001; 7001; 7000;
  6999; 6999; 6998; 6998; 6997; 6997; 6996; 6996; 6995; 6994; 6994; 6993; 6993; 6992; 6992; 6991; 6991; 6990;
  6990; 6989; 6988; 6988; 6987; 6987; 6986; 6986; 6985; 6985; 6984; 6983; 6983; 6982; 6982; 6981; 6981; 6980].
Definition log_lut_57 : list Z := [
  6980; 6979; 6978; 6978; 6977; 6977; 6976; 6976; 6975; 6975; 6974; 6973; 6973; 6972; 6972; 6971; 6971; 6970;
  6970; 6969; 6968; 6968; 6967; 6967; 6966; 6966; 6965; 6965; 6964; 6963; 6963; 6962; 6962; 6961; 6961; 6960;
  6960; 6959; 6958; 6958; 6957; 6957; 6956; 6956; 6955; 6955; 6954; 6953; 6953; 6952; 6952; 6951; 6951; 6950;
  6950; 6949; 6948; 6948; 6947; 6947; 6946; 6946; 6945; 6945; 6944; 6943; 6943; 6942; 6942; 6941; 6941; 6940;
  6940; 6939; 6938; 6938; 6937; 6937; 6936; 6936; 6935; 6935; 6934; 6933; 6933; 6932; 6932; 6931; 6931; 6930;
  6930; 6929; 6928; 6928; 6927; 6927; 6926; 6926; 6925; 6925; 6924; 6924; 6923; 6922; 6922; 6921; 6921; 6920;
  6920; 6919; 6919; 6918; 6917; 6917; 6916; 6916; 6915; 6915; 6914; 6914; 6913; 6912; 6912; 6911; 6911; 6910;
  6910; 6909; 6909; 6908; 6907; 6907; 6906; 6906; 6905; 6905; 6904; 6904; 6903; 6902; 6902; 6901; 6901; 6900;
  6900; 6899; 6899; 6898; 6897; 6897; 6896; 6896; 6895; 6895; 6894; 6894; 6893; 6893; 6892; 6891; 6891; 6890;
  6890; 6889; 6889; 6888; 6888; 6887; 6886; 6886; 6885; 6885; 6884; 6884; 6883; 6883; 6882; 6881; 6881; 6880;
  6880; 6879; 6879; 6878; 6878; 6877; 6876; 6876; 6875; 6875; 6874; 6874; 6873; 6873; 6872; 6871; 6871; 6870;
  6870; 6869; 6869; 6868; 6868; 6867; 6867; 6866; 6865; 6865; 6864; 6864; 6863; 6863; 6862; 6862; 6861; 6860;
  6860; 6859; 6859; 6858; 6858; 6857; 6857; 6856; 6855; 6855; 6854; 6854; 6853; 6853; 6852; 6852; 6851; 6850;
  6850; 6849; 6849; 6848; 6848; 6847; 6847; 6846; 6846; 6845; 6844; 6844; 6843; 6843; 6842; 6842; 6841; 6841;
  6840; 6839; 6839; 6838; 6838; 6837; 6837; 6836; 6836; 6835; 6834; 6834; 6833; 6833; 6832; 6832; 6831; 6831;
  6830; 6830; 6829; 6828; 6828; 6827; 6827; 6826; 6826; 6825; 6825; 6824; 6823; 6823; 6822; 6822; 6821; 6821;
  6820; 6820; 6819; 6818; 6818; 6817; 6817; 6816; 6816; 6815; 6815; 6814; 6813; 6813; 6812; 6812; 6811; 6811;
  6810; 6810; 6809; 6809; 6808; 6807; 6807; 6806; 6806; 6805; 6805; 6804; 6804; 6803; 6802; 6802; 6801; 6801;
  6800; 6800; 6799; 6799; 6798; 6797; 6797; 6796; 6796; 6795; 6795; 6794; 6794; 6793; 6793; 6792; 6791; 6791;
  6790; 6790; 6789; 6789; 6788; 6788; 6787; 6786; 6786; 6785; 6785; 6784; 6784; 6783; 6783; 6782; 6782; 6781;
  6780; 6780; 6779; 6779; 6778; 6778; 6777; 6777; 6776; 6775; 6775; 6774; 6774; 6773; 6773; 6772; 6772; 6771;
  6770; 6770; 6769; 6769; 6768; 6768; 6767; 6767; 6766; 6766; 6765; 6764; 6764; 6763; 6763; 6762; 6762; 6761;
  6761; 6760; 6759; 6759; 6758; 6758; 6757; 6757; 6756; 6756; 6755; 6755; 6754; 6753; 6753; 6752; 6752; 6751;
  6751; 6750; 6750; 6749; 6748; 6748; 6747; 6747; 6746; 6746; 6745; 6745; 6744; 6744; 6743; 6742; 6742; 6741;
  6741; 6740; 6740; 6739; 6739; 6738; 6737; 6737; 6736; 6736; 6735; 6735; 6734; 6734; 6733; 6733; 6732; 6731;
  6731; 6730; 6730; 6729; 6729; 6728; 6728; 6727; 6726; 6726; 6725; 6725; 6724; 6724; 6723; 6723; 6722; 6721;
  6721; 6720; 6720; 6719; 6719; 6718; 6718; 6717; 6717; 6716; 6715; 6715; 6714; 6714; 6713; 6713; 6712; 6712;
  6711; 6711; 6710; 6709; 6709; 6708; 6708; 6707; 6707; 6706; 6706; 6705; 6704; 6704; 6703; 6703; 6702; 6702;
  6701; 6701; 6700; 6700; 6699; 6698; 6698; 6697; 6697; 6696; 6696; 6695; 6695; 6694; 6693; 6693; 6692; 6692;
  6691; 6691; 6690; 6690; 6689; 6689; 6688; 6687; 6687; 6686; 6686; 6685; 6685; 6684; 6684; 6683; 6682; 6682;
  6681; 6681; 6680; 6680; 6679; 6679; 6678; 6678; 6677; 6676; 6676; 6675; 6675; 6674; 6674; 6673; 6673; 6672;
  6671; 6671; 6670; 6670; 6669; 6669; 6668; 6668; 6667; 6667; 6666; 6665; 6665; 6664; 6664; 6663; 6663; 6662;
  6662; 6661; 6661; 6660; 6659; 6659; 6658; 6658; 6657; 6657; 6656; 6656; 6655; 6654; 6654; 6653; 6653; 6652;
  6652; 6651; 6651; 6650; 6650; 6649; 6648; 6648; 6647; 6647; 6646; 6646; 6645; 6645; 6644; 6644; 6643; 6642;
  6642; 6641; 6641; 6640; 6640; 6639; 6639; 6638; 6637; 6637; 6636; 6636; 6635; 6635; 6634; 6634; 6633; 6633;
  6632; 6631; 6631; 6630; 6630; 6629; 6629; 6628; 6628; 6627; 6627; 6626; 6625; 6625; 6624; 6624; 6623; 6623;
  6622; 6622; 6621; 6620; 6620; 6619; 6619; 6618; 6618; 6617; 6617; 6616; 6616; 6615; 6614; 6614; 6613; 6613;
  6612; 6612; 6611; 6611; 6610; 6610; 6609; 6608; 6608; 6607; 6607; 6606; 6606; 6605; 6605; 6604; 6603; 6603;
  6602; 6602; 6601; 6601; 6600; 6600; 6599; 6599; 6598; 6597; 6597; 6596; 6596; 6595; 6595; 6594; 6594; 6593;
  6593; 6592; 6591; 6591; 6590; 6590; 6589; 6589; 6588; 6588; 6587; 6587; 6586; 6585; 6585; 6584; 6584; 6583;
  6583; 6582; 6582; 6581; 6581; 6580; 6579; 6579; 6578; 6578; 6577; 6577; 6576; 6576; 6575; 6574; 6574; 6573;
  6573; 6572; 6572; 6571; 6571; 6570; 6570; 6569; 6568; 6568; 6567; 6567; 6566; 6566; 6565; 6565; 6564; 6564;
  6563; 6562; 6562; 6561; 6561; 6560; 6560; 6559; 6559; 6558; 6558; 6557; 6556; 6556; 6555; 6555; 6554; 6554;
  6553; 6553; 6552; 6552; 6551; 6550; 6550; 6549; 6549; 6548; 6548; 6547; 6547; 6546; 6545; 6545; 6544; 6544;
  6543; 6543; 6542; 6542; 6541; 6541; 6540; 6539; 6539; 6538; 6538; 6537; 6537; 6536; 6536; 6535; 6535; 6534;
  6533; 6533; 6532; 6532; 6531; 6531; 6530; 6530; 6529; 6529; 6528; 6527; 6527; 6526; 6526; 6525; 6525; 6524;
  6524; 6523; 6523; 6522; 6521; 6521; 6520; 6520; 6519; 6519; 6518; 6518; 6517; 6517; 6516; 6515; 6515; 6514;
  6514; 6513; 6513; 6512; 6512; 6511; 6511; 6510; 6509; 6509; 6508; 6508; 6507; 6507; 6506; 6506; 6505; 6505;
  6504; 6503; 6503; 6502; 6502; 6501; 6501; 6500; 6500; 6499; 6499; 6498; 6497; 6497; 6496; 6496; 6495; 6495;
  6494; 6494; 6493; 6493; 6492; 6491; 6491; 6490; 6490; 6489; 6489; 6488; 6488; 6487; 6487; 6486; 6485; 6485].
Definition log_lut_58 : list Z := [
  6484; 6484; 6483; 6483; 6482; 6482; 6481; 6481; 6480; 6479; 6479; 6478; 6478; 6477; 6477; 6476; 6476; 6475;
  6475; 6474; 6473; 6473; 6472; 6472; 6471; 6471; 6470; 6470; 6469; 6469; 6468; 6467; 6467; 6466; 6466; 6465;
  6465; 6464; 6464; 6463; 6463; 6462; 6461; 6461; 6460; 6460; 6459; 6459; 6458; 6458; 6457; 6457; 6456; 6455;
  6455; 6454; 6454; 6453; 6453; 6452; 6452; 6451; 6451; 6450; 6449; 6449; 6448; 6448; 6447; 6447; 6446; 6446;
  6445; 6445; 6444; 6443; 6443; 6442; 6442; 6441; 6441; 6440; 6440; 6439; 6439; 6438; 6437; 6437; 6436; 6436;
  6435; 6435; 6434; 6434; 6433; 6433; 6432; 6431; 6431; 6430; 6430; 6429; 6429; 6428; 6428; 6427; 6427; 6426;
  6426; 6425; 6424; 6424; 6423; 6423; 6422; 6422; 6421; 6421; 6420; 6420; 6419; 6418; 6418; 6417; 6417; 6416;
  6416; 6415; 6415; 6414; 6414; 6413; 6412; 6412; 6411; 6411; 6410; 6410; 6409; 6409; 6408; 6408; 6407; 6406;
  6406; 6405; 6405; 6404; 6404; 6403; 6403; 6402; 6402; 6401; 6400; 6400; 6399; 6399; 6398; 6398; 6397; 6397;
  6396; 6396; 6395; 6394; 6394; 6393; 6393; 6392; 6392; 6391; 6391; 6390; 6390; 6389; 6389; 6388; 6387; 6387;
  6386; 6386; 6385; 6385; 6384; 6384; 6383; 6383; 6382; 6381; 6381; 6380; 6380; 6379; 6379; 6378; 6378; 6377;
  6377; 6376; 6375; 6375; 6374; 6374; 6373; 6373; 6372; 6372; 6371; 6371; 6370; 6369; 6369; 6368; 6368; 6367;
  6367; 6366; 6366; 6365; 6365; 6364; 6364; 6363; 6362; 6362; 6361; 6361; 6360; 6360; 6359; 6359; 6358; 6358;
  6357; 6356; 6356; 6355; 6355; 6354; 6354; 6353; 6353; 6352; 6352; 6351; 6350; 6350; 6349; 6349; 6348; 6348;
  6347; 6347; 6346; 6346; 6345; 6345; 6344; 6343; 6343; 6342; 6342; 6341; 6341; 6340; 6340; 6339; 6339; 6338;
  6337; 6337; 6336; 6336; 6335; 6335; 6334; 6334; 6333; 6333; 6332; 6331; 6331; 6330; 6330; 6329; 6329; 6328;
  6328; 6327; 6327; 6326; 6326; 6325; 6324; 6324; 6323; 6323; 6322; 6322; 6321; 6321; 6320; 6320; 6319; 6318;
  6318; 6317; 6317; 6316; 6316; 6315; 6315; 6314; 6314; 6313; 6313; 6312; 6311; 6311; 6310; 6310; 6309; 6309;
  6308; 6308; 6307; 6307; 6306; 6305; 6305; 6304; 6304; 6303; 6303; 6302; 6302; 6301; 6301; 6300; 6300; 6299;
  6298; 6298; 6297; 6297; 6296; 6296; 6295; 6295; 6294; 6294; 6293; 6292; 6292; 6291; 6291; 6290; 6290; 6289;
  6289; 6288; 6288; 6287; 6286; 6286; 6285; 6285; 6284; 6284; 6283; 6283; 6282; 6282; 6281; 6281; 6280; 6279;
  6279; 6278; 6278; 6277; 6277; 6276; 6276; 6275; 6275; 6274; 6274; 6273; 6272; 6272; 6271; 6271; 6270; 6270;
  6269; 6269; 6268; 6268; 6267; 6266; 6266; 6265; 6265; 6264; 6264; 6263; 6263; 6262; 6262; 6261; 6261; 6260;
  6259; 6259; 6258; 6258; 6257; 6257; 6256; 6256; 6255; 6255; 6254; 6253; 6253; 6252; 6252; 6251; 6251; 6250;
  6250; 6249; 6249; 6248; 6248; 6247; 6246; 6246; 6245; 6245; 6244; 6244; 6243; 6243; 6242; 6242; 6241; 6240;
  6240; 6239; 6239; 6238; 6238; 6237; 6237; 6236; 6236; 6235; 6235; 6234; 6233; 6233; 6232; 6232; 6231; 6231;
  6230; 6230; 6229; 6229; 6228; 6228; 6227; 6226; 6226; 6225; 6225; 6224; 6224; 6223; 6223; 6222; 6222; 6221;
  6220; 6220; 6219; 6219; 6218; 6218; 6217; 6217; 6216; 6216; 6215; 6215; 6214; 6213; 6213; 6212; 6212; 6211;
  6211; 6210; 6210; 6209; 6209; 6208; 6208; 6207; 6206; 6206; 6205; 6205; 6204; 6204; 6203; 6203; 6202; 6202;
  6201; 6201; 6200; 6199; 6199; 6198; 6198; 6197; 6197; 6196; 6196; 6195; 6195; 6194; 6193; 6193; 6192; 6192;
  6191; 6191; 6190; 6190; 6189; 6189; 6188; 6188; 6187; 6186; 6186; 6185; 6185; 6184; 6184; 6183; 6183; 6182;
  6182; 6181; 6181; 6180; 6179; 6179; 6178; 6178; 6177; 6177; 6176; 6176; 6175; 6175; 6174; 6174; 6173; 6172;
  6172; 6171; 6171; 6170; 6170; 6169; 6169; 6168; 6168; 6167; 6167; 6166; 6165; 6165; 6164; 6164; 6163; 6163;
  6162; 6162; 6161; 6161; 6160; 6159; 6159; 6158; 6158; 6157; 6157; 6156; 6156; 6155; 6155; 6154; 6154; 6153;
  6152; 6152; 6151; 6151; 6150; 6150; 6149; 6149; 6148; 6148; 6147; 6147; 6146; 6145; 6145; 6144; 6144; 6143;
  6143; 6142; 6142; 6141; 6141; 6140; 6140; 6139; 6138; 6138; 6137; 6137; 6136; 6136; 6135; 6135; 6134; 6134;
  6133; 6133; 6132; 6131; 6131; 6130; 6130; 6129; 6129; 6128; 6128; 6127; 6127; 6126; 6126; 6125; 6124; 6124;
  6123; 6123; 6122; 6122; 6121; 6121; 6120; 6120; 6119; 6119; 6118; 6117; 6117; 6116; 6116; 6115; 6115; 6114;
  6114; 6113; 6113; 6112; 6112; 6111; 6110; 6110; 6109; 6109; 6108; 6108; 6107; 6107; 6106; 6106; 6105; 6105;
  6104; 6103; 6103; 6102; 6102; 6101; 6101; 6100; 6100; 6099; 6099; 6098; 6098; 6097; 6096; 6096; 6095; 6095;
  6094; 6094; 6093; 6093; 6092; 6092; 6091; 6091; 6090; 6089; 6089; 6088; 6088; 6087; 6087; 6086; 6086; 6085;
  6085; 6084; 6084; 6083; 6082; 6082; 6081; 6081; 6080; 6080; 6079; 6079; 6078; 6078; 6077; 6077; 6076; 6075;
  6075; 6074; 6074; 6073; 6073; 6072; 6072; 6071; 6071; 6070; 6070; 6069; 6069; 6068; 6067; 6067; 6066; 6066;
  6065; 6065; 6064; 6064; 6063; 6063; 6062; 6062; 6061; 6060; 6060; 6059; 6059; 6058; 6058; 6057; 6057; 6056;
  6056; 6055; 6055; 6054; 6053; 6053; 6052; 6052; 6051; 6051; 6050; 6050; 6049; 6049; 6048; 6048; 6047; 6046;
  6046; 6045; 6045; 6044; 6044; 6043; 6043; 6042; 6042; 6041; 6041; 6040; 6040; 6039; 6038; 6038; 6037; 6037;
  6036; 6036; 6035; 6035; 6034; 6034; 6033; 6033; 6032; 6031; 6031; 6030; 6030; 6029; 6029; 6028; 6028; 6027;
  6027; 6026; 6026; 6025; 6024; 6024; 6023; 6023; 6022; 6022; 6021; 6021; 6020; 6020; 6019; 6019; 6018; 6017;
  6017; 6016; 6016; 6015; 6015; 6014; 6014; 6013; 6013; 6012; 6012; 6011; 6011; 6010; 6009; 6009; 6008; 6008;
  6007; 6007; 6006; 6006; 6005; 6005; 6004; 6004; 6003; 6002; 6002; 6001; 6001; 6000; 6000; 5999; 5999; 5998].
Definition log_lut_59 : list Z := [
  5998; 5997; 5997; 5996; 5996; 5995; 5994; 5994; 5993; 5993; 5992; 5992; 5991; 5991; 5990; 5990; 5989; 5989;
  5988; 5987; 5987; 5986; 5986; 5985; 5985; 5984; 5984; 5983; 5983; 5982; 5982; 5981; 5980; 5980; 5979; 5979;
  5978; 5978; 5977; 5977; 5976; 5976; 5975; 5975; 5974; 5974; 5973; 5972; 5972; 5971; 5971; 5970; 5970; 5969;
  5969; 5968; 5968; 5967; 5967; 5966; 5965; 5965; 5964; 5964; 5963; 5963; 5962; 5962; 5961; 5961; 5960; 5960;
  5959; 5959; 5958; 5957; 5957; 5956; 5956; 5955; 5955; 5954; 5954; 5953; 5953; 5952; 5952; 5951; 5951; 5950;
  5949; 5949; 5948; 5948; 5947; 5947; 5946; 5946; 5945; 5945; 5944; 5944; 5943; 5942; 5942; 5941; 5941; 5940;
  5940; 5939; 5939; 5938; 5938; 5937; 5937; 5936; 5936; 5935; 5934; 5934; 5933; 5933; 5932; 5932; 5931; 5931;
  5930; 5930; 5929; 5929; 5928; 5927; 5927; 5926; 5926; 5925; 5925; 5924; 5924; 5923; 5923; 5922; 5922; 5921;
  5921; 5920; 5919; 5919; 5918; 5918; 5917; 5917; 5916; 5916; 5915; 5915; 5914; 5914; 5913; 5913; 5912; 5911;
  5911; 5910; 5910; 5909; 5909; 5908; 5908; 5907; 5907; 5906; 5906; 5905; 5905; 5904; 5903; 5903; 5902; 5902;
  5901; 5901; 5900; 5900; 5899; 5899; 5898; 5898; 5897; 5896; 5896; 5895; 5895; 5894; 5894; 5893; 5893; 5892;
  5892; 5891; 5891; 5890; 5890; 5889; 5888; 5888; 5887; 5887; 5886; 5886; 5885; 5885; 5884; 5884; 5883; 5883;
  5882; 5882; 5881; 5880; 5880; 5879; 5879; 5878; 5878; 5877; 5877; 5876; 5876; 5875; 5875; 5874; 5874; 5873;
  5872; 5872; 5871; 5871; 5870; 5870; 5869; 5869; 5868; 5868; 5867; 5867; 5866; 5866; 5865; 5864; 5864; 5863;
  5863; 5862; 5862; 5861; 5861; 5860; 5860; 5859; 5859; 5858; 5858; 5857; 5856; 5856; 5855; 5855; 5854; 5854;
  5853; 5853; 5852; 5852; 5851; 5851; 5850; 5850; 5849; 5848; 5848; 5847; 5847; 5846; 5846; 5845; 5845; 5844;
  5844; 5843; 5843; 5842; 5842; 5841; 5840; 5840; 5839; 5839; 5838; 5838; 5837; 5837; 5836; 5836; 5835; 5835;
  5834; 5834; 5833; 5832; 5832; 5831; 5831; 5830; 5830; 5829; 5829; 5828; 5828; 5827; 5827; 5826; 5826; 5825;
  5824; 5824; 5823; 5823; 5822; 5822; 5821; 5821; 5820; 5820; 5819; 5819; 5818; 5818; 5817; 5816; 5816; 5815;
  5815; 5814; 5814; 5813; 5813; 5812; 5812; 5811; 5811; 5810; 5810; 5809; 5808; 5808; 5807; 5807; 5806; 5806;
  5805; 5805; 5804; 5804; 5803; 5803; 5802; 5802; 5801; 5800; 5800; 5799; 5799; 5798; 5798; 5797; 5797; 5796;
  5796; 5795; 5795; 5794; 5794; 5793; 5792; 5792; 5791; 5791; 5790; 5790; 5789; 5789; 5788; 5788; 5787; 5787;
  5786; 5786; 5785; 5785; 5784; 5783; 5783; 5782; 5782; 5781; 5781; 5780; 5780; 5779; 5779; 5778; 5778; 5777;
  5777; 5776; 5775; 5775; 5774; 5774; 5773; 5773; 5772; 5772; 5771; 5771; 5770; 5770; 5769; 5769; 5768; 5767;
  5767; 5766; 5766; 5765; 5765; 5764; 5764; 5763; 5763; 5762; 5762; 5761; 5761; 5760; 5760; 5759; 5758; 5758;
  5757; 5757; 5756; 5756; 5755; 5755; 5754; 5754; 5753; 5753; 5752; 5752; 5751; 5750; 5750; 5749; 5749; 5748;
  5748; 5747; 5747; 5746; 5746; 5745; 5745; 5744; 5744; 5743; 5743; 5742; 5741; 5741; 5740; 5740; 5739; 5739;
  5738; 5738; 5737; 5737; 5736; 5736; 5735; 5735; 5734; 5733; 5733; 5732; 5732; 5731; 5731; 5730; 5730; 5729;
  5729; 5728; 5728; 5727; 5727; 5726; 5726; 5725; 5724; 5724; 5723; 5723; 5722; 5722; 5721; 5721; 5720; 5720;
  5719; 5719; 5718; 5718; 5717; 5716; 5716; 5715; 5715; 5714; 5714; 5713; 5713; 5712; 5712; 5711; 5711; 5710;
  5710; 5709; 5709; 5708; 5707; 5707; 5706; 5706; 5705; 5705; 5704; 5704; 5703; 5703; 5702; 5702; 5701; 5701;
  5700; 5699; 5699; 5698; 5698; 5697; 5697; 5696; 5696; 5695; 5695; 5694; 5694; 5693; 5693; 5692; 5692; 5691;
  5690; 5690; 5689; 5689; 5688; 5688; 5687; 5687; 5686; 5686; 5685; 5685; 5684; 5684; 5683; 5683; 5682; 5681;
  5681; 5680; 5680; 5679; 5679; 5678; 5678; 5677; 5677; 5676; 5676; 5675; 5675; 5674; 5674; 5673; 5672; 5672;
  5671; 5671; 5670; 5670; 5669; 5669; 5668; 5668; 5667; 5667; 5666; 5666; 5665; 5664; 5664; 5663; 5663; 5662;
  5662; 5661; 5661; 5660; 5660; 5659; 5659; 5658; 5658; 5657; 5657; 5656; 5655; 5655; 5654; 5654; 5653; 5653;
  5652; 5652; 5651; 5651; 5650; 5650; 5649; 5649; 5648; 5648; 5647; 5646; 5646; 5645; 5645; 5644; 5644; 5643;
  5643; 5642; 5642; 5641; 5641; 5640; 5640; 5639; 5639; 5638; 5637; 5637; 5636; 5636; 5635; 5635; 5634; 5634;
  5633; 5633; 5632; 5632; 5631; 5631; 5630; 5630; 5629; 5628; 5628; 5627; 5627; 5626; 5626; 5625; 5625; 5624;
  5624; 5623; 5623; 5622; 5622; 5621; 5621; 5620; 5619; 5619; 5618; 5618; 5617; 5617; 5616; 5616; 5615; 5615;
  5614; 5614; 5613; 5613; 5612; 5612; 5611; 5610; 5610; 5609; 5609; 5608; 5608; 5607; 5607; 5606; 5606; 5605;
  5605; 5604; 5604; 5603; 5603; 5602; 5602; 5601; 5600; 5600; 5599; 5599; 5598; 5598; 5597; 5597; 5596; 5596;
  5595; 5595; 5594; 5594; 5593; 5593; 5592; 5591; 5591; 5590; 5590; 5589; 5589; 5588; 5588; 5587; 5587; 5586;
  5586; 5585; 5585; 5584; 5584; 5583; 5582; 5582; 5581; 5581; 5580; 5580; 5579; 5579; 5578; 5578; 5577; 5577;
  5576; 5576; 5575; 5575; 5574; 5573; 5573; 5572; 5572; 5571; 5571; 5570; 5570; 5569; 5569; 5568; 5568; 5567;
  5567; 5566; 5566; 5565; 5565; 5564; 5563; 5563; 5562; 5562; 5561; 5561; 5560; 5560; 5559; 5559; 5558; 5558;
  5557; 5557; 5556; 5556; 5555; 5554; 5554; 5553; 5553; 5552; 5552; 5551; 5551; 5550; 5550; 5549; 5549; 5548;
  5548; 5547; 5547; 5546; 5546; 5545; 5544; 5544; 5543; 5543; 5542; 5542; 5541; 5541; 5540; 5540; 5539; 5539;
  5538; 5538; 5537; 5537; 5536; 5535; 5535; 5534; 5534; 5533; 5533; 5532; 5532; 5531; 5531; 5530; 5530; 5529;
  5529; 5528; 5528; 5527; 5527; 5526; 5525; 5525; 5524; 5524; 5523; 5523; 5522; 5522; 5521; 5521; 5520; 5520].
Definition log_lut_60 : list Z := [
  5519; 5519; 5518; 5518; 5517; 5516; 5516; 5515; 5515; 5514; 5514; 5513; 5513; 5512; 5512; 5511; 5511; 5510;
  5510; 5509; 5509; 5508; 5508; 5507; 5506; 5506; 5505; 5505; 5504; 5504; 5503; 5503; 5502; 5502; 5501; 5501;
  5500; 5500; 5499; 5499; 5498; 5498; 5497; 5496; 5496; 5495; 5495; 5494; 5494; 5493; 5493; 5492; 5492; 5491;
  5491; 5490; 5490; 5489; 5489; 5488; 5488; 5487; 5486; 5486; 5485; 5485; 5484; 5484; 5483; 5483; 5482; 5482;
  5481; 5481; 5480; 5480; 5479; 5479; 5478; 5478; 5477; 5476; 5476; 5475; 5475; 5474; 5474; 5473; 5473; 5472;
  5472; 5471; 5471; 5470; 5470; 5469; 5469; 5468; 5468; 5467; 5466; 5466; 5465; 5465; 5464; 5464; 5463; 5463;
  5462; 5462; 5461; 5461; 5460; 5460; 5459; 5459; 5458; 5458; 5457; 5456; 5456; 5455; 5455; 5454; 5454; 5453;
  5453; 5452; 5452; 5451; 5451; 5450; 5450; 5449; 5449; 5448; 5448; 5447; 5446; 5446; 5445; 5445; 5444; 5444;
  5443; 5443; 5442; 5442; 5441; 5441; 5440; 5440; 5439; 5439; 5438; 5438; 5437; 5436; 5436; 5435; 5435; 5434;
  5434; 5433; 5433; 5432; 5432; 5431; 5431; 5430; 5430; 5429; 5429; 5428; 5428; 5427; 5426; 5426; 5425; 5425;
  5424; 5424; 5423; 5423; 5422; 5422; 5421; 5421; 5420; 5420; 5419; 5419; 5418; 5418; 5417; 5417; 5416; 5415;
  5415; 5414; 5414; 5413; 5413; 5412; 5412; 5411; 5411; 5410; 5410; 5409; 5409; 5408; 5408; 5407; 5407; 5406;
  5405; 5405; 5404; 5404; 5403; 5403; 5402; 5402; 5401; 5401; 5400; 5400; 5399; 5399; 5398; 5398; 5397; 5397;
  5396; 5396; 5395; 5394; 5394; 5393; 5393; 5392; 5392; 5391; 5391; 5390; 5390; 5389; 5389; 5388; 5388; 5387;
  5387; 5386; 5386; 5385; 5384; 5384; 5383; 5383; 5382; 5382; 5381; 5381; 5380; 5380; 5379; 5379; 5378; 5378;
  5377; 5377; 5376; 5376; 5375; 5375; 5374; 5373; 5373; 5372; 5372; 5371; 5371; 5370; 5370; 5369; 5369; 5368;
  5368; 5367; 5367; 5366; 5366; 5365; 5365; 5364; 5363; 5363; 5362; 5362; 5361; 5361; 5360; 5360; 5359; 5359;
  5358; 5358; 5357; 5357; 5356; 5356; 5355; 5355; 5354; 5354; 5353; 5352; 5352; 5351; 5351; 5350; 5350; 5349;
  5349; 5348; 5348; 5347; 5347; 5346; 5346; 5345; 5345; 5344; 5344; 5343; 5343; 5342; 5341; 5341; 5340; 5340;
  5339; 5339; 5338; 5338; 5337; 5337; 5336; 5336; 5335; 5335; 5334; 5334; 5333; 5333; 5332; 5332; 5331; 5330;
  5330; 5329; 5329; 5328; 5328; 5327; 5327; 5326; 5326; 5325; 5325; 5324; 5324; 5323; 5323; 5322; 5322; 5321;
  5321; 5320; 5319; 5319; 5318; 5318; 5317; 5317; 5316; 5316; 5315; 5315; 5314; 5314; 5313; 5313; 5312; 5312;
  5311; 5311; 5310; 5310; 5309; 5308; 5308; 5307; 5307; 5306; 5306; 5305; 5305; 5304; 5304; 5303; 5303; 5302;
  5302; 5301; 5301; 5300; 5300; 5299; 5299; 5298; 5298; 5297; 5296; 5296; 5295; 5295; 5294; 5294; 5293; 5293;
  5292; 5292; 5291; 5291; 5290; 5290; 5289; 5289; 5288; 5288; 5287; 5287; 5286; 5285; 5285; 5284; 5284; 5283;
  5283; 5282; 5282; 5281; 5281; 5280; 5280; 5279; 5279; 5278; 5278; 5277; 5277; 5276; 5276; 5275; 5274; 5274;
  5273; 5273; 5272; 5272; 5271; 5271; 5270; 5270; 5269; 5269; 5268; 5268; 5267; 5267; 5266; 5266; 5265; 5265;
  5264; 5264; 5263; 5262; 5262; 5261; 5261; 5260; 5260; 5259; 5259; 5258; 5258; 5257; 5257; 5256; 5256; 5255;
  5255; 5254; 5254; 5253; 5253; 5252; 5252; 5251; 5250; 5250; 5249; 5249; 5248; 5248; 5247; 5247; 5246; 5246;
  5245; 5245; 5244; 5244; 5243; 5243; 5242; 5242; 5241; 5241; 5240; 5239; 5239; 5238; 5238; 5237; 5237; 5236;
  5236; 5235; 5235; 5234; 5234; 5233; 5233; 5232; 5232; 5231; 5231; 5230; 5230; 5229; 5229; 5228; 5227; 5227;
  5226; 5226; 5225; 5225; 5224; 5224; 5223; 5223; 5222; 5222; 5221; 5221; 5220; 5220; 5219; 5219; 5218; 5218;
  5217; 5217; 5216; 5215; 5215; 5214; 5214; 5213; 5213; 5212; 5212; 5211; 5211; 5210; 5210; 5209; 5209; 5208;
  5208; 5207; 5207; 5206; 5206; 5205; 5205; 5204; 5203; 5203; 5202; 5202; 5201; 5201; 5200; 5200; 5199; 5199;
  5198; 5198; 5197; 5197; 5196; 5196; 5195; 5195; 5194; 5194; 5193; 5193; 5192; 5192; 5191; 5190; 5190; 5189;
  5189; 5188; 5188; 5187; 5187; 5186; 5186; 5185; 5185; 5184; 5184; 5183; 5183; 5182; 5182; 5181; 5181; 5180;
  5180; 5179; 5178; 5178; 5177; 5177; 5176; 5176; 5175; 5175; 5174; 5174; 5173; 5173; 5172; 5172; 5171; 5171;
  5170; 5170; 5169; 5169; 5168; 5168; 5167; 5166; 5166; 5165; 5165; 5164; 5164; 5163; 5163; 5162; 5162; 5161;
  5161; 5160; 5160; 5159; 5159; 5158; 5158; 5157; 5157; 5156; 5156; 5155; 5155; 5154; 5153; 5153; 5152; 5152;
  5151; 5151; 5150; 5150; 5149; 5149; 5148; 5148; 5147; 5147; 5146; 5146; 5145; 5145; 5144; 5144; 5143; 5143;
  5142; 5142; 5141; 5140; 5140; 5139; 5139; 5138; 5138; 5137; 5137; 5136; 5136; 5135; 5135; 5134; 5134; 5133;
  5133; 5132; 5132; 5131; 5131; 5130; 5130; 5129; 5129; 5128; 5127; 5127; 5126; 5126; 5125; 5125; 5124; 5124;
  5123; 5123; 5122; 5122; 5121; 5121; 5120; 5120; 5119; 5119; 5118; 5118; 5117; 5117; 5116; 5116; 5115; 5114;
  5114; 5113; 5113; 5112; 5112; 5111; 5111; 5110; 5110; 5109; 5109; 5108; 5108; 5107; 5107; 5106; 5106; 5105;
  5105; 5104; 5104; 5103; 5103; 5102; 5101; 5101; 5100; 5100; 5099; 5099; 5098; 5098; 5097; 5097; 5096; 5096;
  5095; 5095; 5094; 5094; 5093; 5093; 5092; 5092; 5091; 5091; 5090; 5090; 5089; 5088; 5088; 5087; 5087; 5086;
  5086; 5085; 5085; 5084; 5084; 5083; 5083; 5082; 5082; 5081; 5081; 5080; 5080; 5079; 5079; 5078; 5078; 5077;
  5077; 5076; 5076; 5075; 5074; 5074; 5073; 5073; 5072; 5072; 5071; 5071; 5070; 5070; 5069; 5069; 5068; 5068;
  5067; 5067; 5066; 5066; 5065; 5065; 5064; 5064; 5063; 5063; 5062; 5061; 5061; 5060; 5060; 5059; 5059; 5058;
  5058; 5057; 5057; 5056; 5056; 5055; 5055; 5054; 5054; 5053; 5053; 5052; 5052; 5051; 5051; 5050; 5050; 5049].
Definition log_lut_61 : list Z := [
  5049; 5048; 5047; 5047; 5046; 5046; 5045; 5045; 5044; 5044; 5043; 5043; 5042; 5042; 5041; 5041; 5040; 5040;
  5039; 5039; 5038; 5038; 5037; 5037; 5036; 5036; 5035; 5035; 5034; 5033; 5033; 5032; 5032; 5031; 5031; 5030;
  5030; 5029; 5029; 5028; 5028; 5027; 5027; 5026; 5026; 5025; 5025; 5024; 5024; 5023; 5023; 5022; 5022; 5021;
  5021; 5020; 5020; 5019; 5018; 5018; 5017; 5017; 5016; 5016; 5015; 5015; 5014; 5014; 5013; 5013; 5012; 5012;
  5011; 5011; 5010; 5010; 5009; 5009; 5008; 5008; 5007; 5007; 5006; 5006; 5005; 5004; 5004; 5003; 5003; 5002;
  5002; 5001; 5001; 5000; 5000; 4999; 4999; 4998; 4998; 4997; 4997; 4996; 4996; 4995; 4995; 4994; 4994; 4993;
  4993; 4992; 4992; 4991; 4991; 4990; 4989; 4989; 4988; 4988; 4987; 4987; 4986; 4986; 4985; 4985; 4984; 4984;
  4983; 4983; 4982; 4982; 4981; 4981; 4980; 4980; 4979; 4979; 4978; 4978; 4977; 4977; 4976; 4976; 4975; 4974;
  4974; 4973; 4973; 4972; 4972; 4971; 4971; 4970; 4970; 4969; 4969; 4968; 4968; 4967; 4967; 4966; 4966; 4965;
  4965; 4964; 4964; 4963; 4963; 4962; 4962; 4961; 4961; 4960; 4959; 4959; 4958; 4958; 4957; 4957; 4956; 4956;
  4955; 4955; 4954; 4954; 4953; 4953; 4952; 4952; 4951; 4951; 4950; 4950; 4949; 4949; 4948; 4948; 4947; 4947;
  4946; 4946; 4945; 4944; 4944; 4943; 4943; 4942; 4942; 4941; 4941; 4940; 4940; 4939; 4939; 4938; 4938; 4937;
  4937; 4936; 4936; 4935; 4935; 4934; 4934; 4933; 4933; 4932; 4932; 4931; 4931; 4930; 4930; 4929; 4928; 4928;
  4927; 4927; 4926; 4926; 4925; 4925; 4924; 4924; 4923; 4923; 4922; 4922; 4921; 4921; 4920; 4920; 4919; 4919;
  4918; 4918; 4917; 4917; 4916; 4916; 4915; 4915; 4914; 4913; 4913; 4912; 4912; 4911; 4911; 4910; 4910; 4909;
  4909; 4908; 4908; 4907; 4907; 4906; 4906; 4905; 4905; 4904; 4904; 4903; 4903; 4902; 4902; 4901; 4901; 4900;
  4900; 4899; 4899; 4898; 4898; 4897; 4896; 4896; 4895; 4895; 4894; 4894; 4893; 4893; 4892; 4892; 4891; 4891;
  4890; 4890; 4889; 4889; 4888; 4888; 4887; 4887; 4886; 4886; 4885; 4885; 4884; 4884; 4883; 4883; 4882; 4882;
  4881; 4880; 4880; 4879; 4879; 4878; 4878; 4877; 4877; 4876; 4876; 4875; 4875; 4874; 4874; 4873; 4873; 4872;
  4872; 4871; 4871; 4870; 4870; 4869; 4869; 4868; 4868; 4867; 4867; 4866; 4866; 4865; 4865; 4864; 4863; 4863;
  4862; 4862; 4861; 4861; 4860; 4860; 4859; 4859; 4858; 4858; 4857; 4857; 4856; 4856; 4855; 4855; 4854; 4854;
  4853; 4853; 4852; 4852; 4851; 4851; 4850; 4850; 4849; 4849; 4848; 4848; 4847; 4846; 4846; 4845; 4845; 4844;
  4844; 4843; 4843; 4842; 4842; 4841; 4841; 4840; 4840; 4839; 4839; 4838; 4838; 4837; 4837; 4836; 4836; 4835;
  4835; 4834; 4834; 4833; 4833; 4832; 4832; 4831; 4831; 4830; 4829; 4829; 4828; 4828; 4827; 4827; 4826; 4826;
  4825; 4825; 4824; 4824; 4823; 4823; 4822; 4822; 4821; 4821; 4820; 4820; 4819; 4819; 4818; 4818; 4817; 4817;
  4816; 4816; 4815; 4815; 4814; 4814; 4813; 4813; 4812; 4811; 4811; 4810; 4810; 4809; 4809; 4808; 4808; 4807;
  4807; 4806; 4806; 4805; 4805; 4804; 4804; 4803; 4803; 4802; 4802; 4801; 4801; 4800; 4800; 4799; 4799; 4798;
  4798; 4797; 4797; 4796; 4796; 4795; 4795; 4794; 4793; 4793; 4792; 4792; 4791; 4791; 4790; 4790; 4789; 4789;
  4788; 4788; 4787; 4787; 4786; 4786; 4785; 4785; 4784; 4784; 4783; 4783; 4782; 4782; 4781; 4781; 4780; 4780;
  4779; 4779; 4778; 4778; 4777; 4777; 4776; 4776; 4775; 4774; 4774; 4773; 4773; 4772; 4772; 4771; 4771; 4770;
  4770; 4769; 4769; 4768; 4768; 4767; 4767; 4766; 4766; 4765; 4765; 4764; 4764; 4763; 4763; 4762; 4762; 4761;
  4761; 4760; 4760; 4759; 4759; 4758; 4758; 4757; 4757; 4756; 4755; 4755; 4754; 4754; 4753; 4753; 4752; 4752;
  4751; 4751; 4750; 4750; 4749; 4749; 4748; 4748; 4747; 4747; 4746; 4746; 4745; 4745; 4744; 4744; 4743; 4743;
  4742; 4742; 4741; 4741; 4740; 4740; 4739; 4739; 4738; 4738; 4737; 4736; 4736; 4735; 4735; 4734; 4734; 4733;
  4733; 4732; 4732; 4731; 4731; 4730; 4730; 4729; 4729; 4728; 4728; 4727; 4727; 4726; 4726; 4725; 4725; 4724;
  4724; 4723; 4723; 4722; 4722; 4721; 4721; 4720; 4720; 4719; 4719; 4718; 4718; 4717; 4717; 4716; 4715; 4715;
  4714; 4714; 4713; 4713; 4712; 4712; 4711; 4711; 4710; 4710; 4709; 4709; 4708; 4708; 4707; 4707; 4706; 4706;
  4705; 4705; 4704; 4704; 4703; 4703; 4702; 4702; 4701; 4701; 4700; 4700; 4699; 4699; 4698; 4698; 4697; 4697;
  4696; 4695; 4695; 4694; 4694; 4693; 4693; 4692; 4692; 4691; 4691; 4690; 4690; 4689; 4689; 4688; 4688; 4687;
  4687; 4686; 4686; 4685; 4685; 4684; 4684; 4683; 4683; 4682; 4682; 4681; 4681; 4680; 4680; 4679; 4679; 4678;
  4678; 4677; 4677; 4676; 4676; 4675; 4675; 4674; 4673; 4673; 4672; 4672; 4671; 4671; 4670; 4670; 4669; 4669;
  4668; 4668; 4667; 4667; 4666; 4666; 4665; 4665; 4664; 4664; 4663; 4663; 4662; 4662; 4661; 4661; 4660; 4660;
  4659; 4659; 4658; 4658; 4657; 4657; 4656; 4656; 4655; 4655; 4654; 4654; 4653; 4653; 4652; 4651; 4651; 4650;
  4650; 4649; 4649; 4648; 4648; 4647; 4647; 4646; 4646; 4645; 4645; 4644; 4644; 4643; 4643; 4642; 4642; 4641;
  4641; 4640; 4640; 4639; 4639; 4638; 4638; 4637; 4637; 4636; 4636; 4635; 4635; 4634; 4634; 4633; 4633; 4632;
  4632; 4631; 4631; 4630; 4629; 4629; 4628; 4628; 4627; 4627; 4626; 4626; 4625; 4625; 4624; 4624; 4623; 4623;
  4622; 4622; 4621; 4621; 4620; 4620; 4619; 4619; 4618; 4618; 4617; 4617; 4616; 4616; 4615; 4615; 4614; 4614;
  4613; 4613; 4612; 4612; 4611; 4611; 4610; 4610; 4609; 4609; 4608; 4608; 4607; 4607; 4606; 4605; 4605; 4604;
  4604; 4603; 4603; 4602; 4602; 4601; 4601; 4600; 4600; 4599; 4599; 4598; 4598; 4597; 4597; 4596; 4596; 4595;
  4595; 4594; 4594; 4593; 4593; 4592; 4592; 4591; 4591; 4590; 4590; 4589; 4589; 4588; 4588; 4587; 4587; 4586].
Definition log_lut_62 : list Z := [
  4586; 4585; 4585; 4584; 4584; 4583; 4583; 4582; 4582; 4581; 4580; 4580; 4579; 4579; 4578; 4578; 4577; 4577;
  4576; 4576; 4575; 4575; 4574; 4574; 4573; 4573; 4572; 4572; 4571; 4571; 4570; 4570; 4569; 4569; 4568; 4568;
  4567; 4567; 4566; 4566; 4565; 4565; 4564; 4564; 4563; 4563; 4562; 4562; 4561; 4561; 4560; 4560; 4559; 4559;
  4558; 4558; 4557; 4557; 4556; 4555; 4555; 4554; 4554; 4553; 4553; 4552; 4552; 4551; 4551; 4550; 4550; 4549;
  4549; 4548; 4548; 4547; 4547; 4546; 4546; 4545; 4545; 4544; 4544; 4543; 4543; 4542; 4542; 4541; 4541; 4540;
  4540; 4539; 4539; 4538; 4538; 4537; 4537; 4536; 4536; 4535; 4535; 4534; 4534; 4533; 4533; 4532; 4532; 4531;
  4531; 4530; 4530; 4529; 4528; 4528; 4527; 4527; 4526; 4526; 4525; 4525; 4524; 4524; 4523; 4523; 4522; 4522;
  4521; 4521; 4520; 4520; 4519; 4519; 4518; 4518; 4517; 4517; 4516; 4516; 4515; 4515; 4514; 4514; 4513; 4513;
  4512; 4512; 4511; 4511; 4510; 4510; 4509; 4509; 4508; 4508; 4507; 4507; 4506; 4506; 4505; 4505; 4504; 4504;
  4503; 4503; 4502; 4502; 4501; 4501; 4500; 4499; 4499; 4498; 4498; 4497; 4497; 4496; 4496; 4495; 4495; 4494;
  4494; 4493; 4493; 4492; 4492; 4491; 4491; 4490; 4490; 4489; 4489; 4488; 4488; 4487; 4487; 4486; 4486; 4485;
  4485; 4484; 4484; 4483; 4483; 4482; 4482; 4481; 4481; 4480; 4480; 4479; 4479; 4478; 4478; 4477; 4477; 4476;
  4476; 4475; 4475; 4474; 4474; 4473; 4473; 4472; 4472; 4471; 4471; 4470; 4469; 4469; 4468; 4468; 4467; 4467;
  4466; 4466; 4465; 4465; 4464; 4464; 4463; 4463; 4462; 4462; 4461; 4461; 4460; 4460; 4459; 4459; 4458; 4458;
  4457; 4457; 4456; 4456; 4455; 4455; 4454; 4454; 4453; 4453; 4452; 4452; 4451; 4451; 4450; 4450; 4449; 4449;
  4448; 4448; 4447; 4447; 4446; 4446; 4445; 4445; 4444; 4444; 4443; 4443; 4442; 4442; 4441; 4441; 4440; 4440;
  4439; 4439; 4438; 4437; 4437; 4436; 4436; 4435; 4435; 4434; 4434; 4433; 4433; 4432; 4432; 4431; 4431; 4430;
  4430; 4429; 4429; 4428; 4428; 4427; 4427; 4426; 4426; 4425; 4425; 4424; 4424; 4423; 4423; 4422; 4422; 4421;
  4421; 4420; 4420; 4419; 4419; 4418; 4418; 4417; 4417; 4416; 4416; 4415; 4415; 4414; 4414; 4413; 4413; 4412;
  4412; 4411; 4411; 4410; 4410; 4409; 4409; 4408; 4408; 4407; 4407; 4406; 4406; 4405; 4405; 4404; 4404; 4403;
  4402; 4402; 4401; 4401; 4400; 4400; 4399; 4399; 4398; 4398; 4397; 4397; 4396; 4396; 4395; 4395; 4394; 4394;
  4393; 4393; 4392; 4392; 4391; 4391; 4390; 4390; 4389; 4389; 4388; 4388; 4387; 4387; 4386; 4386; 4385; 4385;
  4384; 4384; 4383; 4383; 4382; 4382; 4381; 4381; 4380; 4380; 4379; 4379; 4378; 4378; 4377; 4377; 4376; 4376;
  4375; 4375; 4374; 4374; 4373; 4373; 4372; 4372; 4371; 4371; 4370; 4370; 4369; 4369; 4368; 4368; 4367; 4367;
  4366; 4366; 4365; 4364; 4364; 4363; 4363; 4362; 4362; 4361; 4361; 4360; 4360; 4359; 4359; 4358; 4358; 4357;
  4357; 4356; 4356; 4355; 4355; 4354; 4354; 4353; 4353; 4352; 4352; 4351; 4351; 4350; 4350; 4349; 4349; 4348;
  4348; 4347; 4347; 4346; 4346; 4345; 4345; 4344; 4344; 4343; 4343; 4342; 4342; 4341; 4341; 4340; 4340; 4339;
  4339; 4338; 4338; 4337; 4337; 4336; 4336; 4335; 4335; 4334; 4334; 4333; 4333; 4332; 4332; 4331; 4331; 4330;
  4330; 4329; 4329; 4328; 4328; 4327; 4327; 4326; 4326; 4325; 4325; 4324; 4324; 4323; 4323; 4322; 4321; 4321;
  4320; 4320; 4319; 4319; 4318; 4318; 4317; 4317; 4316; 4316; 4315; 4315; 4314; 4314; 4313; 4313; 4312; 4312;
  4311; 4311; 4310; 4310; 4309; 4309; 4308; 4308; 4307; 4307; 4306; 4306; 4305; 4305; 4304; 4304; 4303; 4303;
  4302; 4302; 4301; 4301; 4300; 4300; 4299; 4299; 4298; 4298; 4297; 4297; 4296; 4296; 4295; 4295; 4294; 4294;
  4293; 4293; 4292; 4292; 4291; 4291; 4290; 4290; 4289; 4289; 4288; 4288; 4287; 4287; 4286; 4286; 4285; 4285;
  4284; 4284; 4283; 4283; 4282; 4282; 4281; 4281; 4280; 4280; 4279; 4279; 4278; 4278; 4277; 4277; 4276; 4276;
  4275; 4275; 4274; 4274; 4273; 4273; 4272; 4271; 4271; 4270; 4270; 4269; 4269; 4268; 4268; 4267; 4267; 4266;
  4266; 4265; 4265; 4264; 4264; 4263; 4263; 4262; 4262; 4261; 4261; 4260; 4260; 4259; 4259; 4258; 4258; 4257;
  4257; 4256; 4256; 4255; 4255; 4254; 4254; 4253; 4253; 4252; 4252; 4251; 4251; 4250; 4250; 4249; 4249; 4248;
  4248; 4247; 4247; 4246; 4246; 4245; 4245; 4244; 4244; 4243; 4243; 4242; 4242; 4241; 4241; 4240; 4240; 4239;
  4239; 4238; 4238; 4237; 4237; 4236; 4236; 4235; 4235; 4234; 4234; 4233; 4233; 4232; 4232; 4231; 4231; 4230;
  4230; 4229; 4229; 4228; 4228; 4227; 4227; 4226; 4226; 4225; 4225; 4224; 4224; 4223; 4223; 4222; 4222; 4221;
  4221; 4220; 4220; 4219; 4219; 4218; 4218; 4217; 4217; 4216; 4216; 4215; 4215; 4214; 4214; 4213; 4213; 4212;
  4212; 4211; 4210; 4210; 4209; 4209; 4208; 4208; 4207; 4207; 4206; 4206; 4205; 4205; 4204; 4204; 4203; 4203;
  4202; 4202; 4201; 4201; 4200; 4200; 4199; 4199; 4198; 4198; 4197; 4197; 4196; 4196; 4195; 4195; 4194; 4194;
  4193; 4193; 4192; 4192; 4191; 4191; 4190; 4190; 4189; 4189; 4188; 4188; 4187; 4187; 4186; 4186; 4185; 4185;
  4184; 4184; 4183; 4183; 4182; 4182; 4181; 4181; 4180; 4180; 4179; 4179; 4178; 4178; 4177; 4177; 4176; 4176;
  4175; 4175; 4174; 4174; 4173; 4173; 4172; 4172; 4171; 4171; 4170; 4170; 4169; 4169; 4168; 4168; 4167; 4167;
  4166; 4166; 4165; 4165; 4164; 4164; 4163; 4163; 4162; 4162; 4161; 4161; 4160; 4160; 4159; 4159; 4158; 4158;
  4157; 4157; 4156; 4156; 4155; 4155; 4154; 4154; 4153; 4153; 4152; 4152; 4151; 4151; 4150; 4150; 4149; 4149;
  4148; 4148; 4147; 4147; 4146; 4146; 4145; 4145; 4144; 4144; 4143; 4143; 4142; 4142; 4141; 4141; 4140; 4140;
  4139; 4139; 4138; 4138; 4137; 4137; 4136; 4136; 4135; 4135; 4134; 4134; 4133; 4133; 4132; 4132; 4131; 4131].
Definition log_lut_63 : list Z := [
  4130; 4130; 4129; 4129; 4128; 4128; 4127; 4127; 4126; 4126; 4125; 4125; 4124; 4124; 4123; 4123; 4122; 4122;
  4121; 4121; 4120; 4120; 4119; 4118; 4118; 4117; 4117; 4116; 4116; 4115; 4115; 4114; 4114; 4113; 4113; 4112;
  4112; 4111; 4111; 4110; 4110; 4109; 4109; 4108; 4108; 4107; 4107; 4106; 4106; 4105; 4105; 4104; 4104; 4103;
  4103; 4102; 4102; 4101; 4101; 4100; 4100; 4099; 4099; 4098; 4098; 4097; 4097; 4096; 4096; 4095; 4095; 4094;
  4094; 4093; 4093; 4092; 4092; 4091; 4091; 4090; 4090; 4089; 4089; 4088; 4088; 4087; 4087; 4086; 4086; 4085;
  4085; 4084; 4084; 4083; 4083; 4082; 4082; 4081; 4081; 4080; 4080; 4079; 4079; 4078; 4078; 4077; 4077; 4076;
  4076; 4075; 4075; 4074; 4074; 4073; 4073; 4072; 4072; 4071; 4071; 4070; 4070; 4069; 4069; 4068; 4068; 4067;
  4067; 4066; 4066; 4065; 4065; 4064; 4064; 4063; 4063; 4062; 4062; 4061; 4061; 4060; 4060; 4059; 4059; 4058;
  4058; 4057; 4057; 4056; 4056; 4055; 4055; 4054; 4054; 4053; 4053; 4052; 4052; 4051; 4051; 4050; 4050; 4049;
  4049; 4048; 4048; 4047; 4047; 4046; 4046; 4045; 4045; 4044; 4044; 4043; 4043; 4042; 4042; 4041; 4041; 4040;
  4040; 4039; 4039; 4038; 4038; 4037; 4037; 4036; 4036; 4035; 4035; 4034; 4034; 4033; 4033; 4032; 4032; 4031;
  4031; 4030; 4030; 4029; 4029; 4028; 4028; 4027; 4027; 4026; 4026; 4025; 4025; 4024; 4024; 4023; 4023; 4022;
  4022; 4021; 4021; 4020; 4020; 4019; 4019; 4018; 4018; 4017; 4017; 4016; 4016; 4015; 4015; 4014; 4014; 4013;
  4013; 4012; 4012; 4011; 4011; 4010; 4010; 4009; 4009; 4008; 4008; 4007; 4007; 4006; 4006; 4005; 4005; 4004;
  4004; 4003; 4003; 4002; 4002; 4001; 4001; 4000; 4000; 3999; 3999; 3998; 3998; 3997; 3997; 3996; 3996; 3995;
  3995; 3994; 3994; 3993; 3993; 3992; 3992; 3991; 3991; 3990; 3990; 3989; 3989; 3988; 3988; 3987; 3987; 3986;
  3986; 3985; 3985; 3984; 3984; 3983; 3983; 3982; 3982; 3981; 3981; 3980; 3980; 3979; 3979; 3978; 3978; 3977;
  3977; 3976; 3976; 3975; 3975; 3974; 3974; 3973; 3973; 3972; 3972; 3971; 3971; 3970; 3970; 3969; 3969; 3968;
  3968; 3967; 3967; 3966; 3966; 3965; 3965; 3964; 3964; 3963; 3963; 3962; 3962; 3961; 3961; 3960; 3960; 3959;
  3959; 3958; 3958; 3957; 3957; 3956; 3956; 3955; 3955; 3954; 3954; 3953; 3953; 3952; 3952; 3951; 3951; 3950;
  3950; 3949; 3949; 3948; 3948; 3947; 3947; 3946; 3946; 3945; 3945; 3944; 3944; 3943; 3943; 3942; 3942; 3941;
  3941; 3940; 3940; 3939; 3939; 3938; 3938; 3937; 3937; 3936; 3936; 3935; 3935; 3934; 3934; 3933; 3933; 3932;
  3932; 3931; 3931; 3930; 3930; 3929; 3929; 3928; 3928; 3927; 3927; 3926; 3926; 3925; 3925; 3924; 3924; 3923;
  3923; 3922; 3922; 3921; 3921; 3920; 3920; 3919; 3919; 3918; 3918; 3917; 3917; 3916; 3916; 3915; 3915; 3914;
  3914; 3913; 3913; 3912; 3912; 3911; 3911; 3910; 3910; 3909; 3909; 3908; 3908; 3907; 3907; 3906; 3906; 3905;
  3905; 3904; 3904; 3903; 3903; 3902; 3902; 3901; 3901; 3900; 3900; 3900; 3899; 3899; 3898; 3898; 3897; 3897;
  3896; 3896; 3895; 3895; 3894; 3894; 3893; 3893; 3892; 3892; 3891; 3891; 3890; 3890; 3889; 3889; 3888; 3888;
  3887; 3887; 3886; 3886; 3885; 3885; 3884; 3884; 3883; 3883; 3882; 3882; 3881; 3881; 3880; 3880; 3879; 3879;
  3878; 3878; 3877; 3877; 3876; 3876; 3875; 3875; 3874; 3874; 3873; 3873; 3872; 3872; 3871; 3871; 3870; 3870;
  3869; 3869; 3868; 3868; 3867; 3867; 3866; 3866; 3865; 3865; 3864; 3864; 3863; 3863; 3862; 3862; 3861; 3861;
  3860; 3860; 3859; 3859; 3858; 3858; 3857; 3857; 3856; 3856; 3855; 3855; 3854; 3854; 3853; 3853; 3852; 3852;
  3851; 3851; 3850; 3850; 3849; 3849; 3848; 3848; 3847; 3847; 3846; 3846; 3845; 3845; 3844; 3844; 3843; 3843;
  3842; 3842; 3841; 3841; 3840; 3840; 3839; 3839; 3838; 3838; 3837; 3837; 3836; 3836; 3835; 3835; 3834; 3834;
  3833; 3833; 3832; 3832; 3831; 3831; 3830; 3830; 3829; 3829; 3828; 3828; 3827; 3827; 3826; 3826; 3825; 3825;
  3824; 3824; 3823; 3823; 3822; 3822; 3821; 3821; 3820; 3820; 3819; 3819; 3818; 3818; 3817; 3817; 3816; 3816;
  3815; 3815; 3814; 3814; 3813; 3813; 3812; 3812; 3811; 3811; 3810; 3810; 3809; 3809; 3808; 3808; 3808; 3807;
  3807; 3806; 3806; 3805; 3805; 3804; 3804; 3803; 3803; 3802; 3802; 3801; 3801; 3800; 3800; 3799; 3799; 3798;
  3798; 3797; 3797; 3796; 3796; 3795; 3795; 3794; 3794; 3793; 3793; 3792; 3792; 3791; 3791; 3790; 3790; 3789;
  3789; 3788; 3788; 3787; 3787; 3786; 3786; 3785; 3785; 3784; 3784; 3783; 3783; 3782; 3782; 3781; 3781; 3780;
  3780; 3779; 3779; 3778; 3778; 3777; 3777; 3776; 3776; 3775; 3775; 3774; 3774; 3773; 3773; 3772; 3772; 3771;
  3771; 3770; 3770; 3769; 3769; 3768; 3768; 3767; 3767; 3766; 3766; 3765; 3765; 3764; 3764; 3763; 3763; 3762;
  3762; 3761; 3761; 3760; 3760; 3759; 3759; 3758; 3758; 3757; 3757; 3756; 3756; 3755; 3755; 3754; 3754; 3753;
  3753; 3752; 3752; 3751; 3751; 3750; 3750; 3749; 3749; 3748; 3748; 3747; 3747; 3747; 3746; 3746; 3745; 3745;
  3744; 3744; 3743; 3743; 3742; 3742; 3741; 3741; 3740; 3740; 3739; 3739; 3738; 3738; 3737; 3737; 3736; 3736;
  3735; 3735; 3734; 3734; 3733; 3733; 3732; 3732; 3731; 3731; 3730; 3730; 3729; 3729; 3728; 3728; 3727; 3727;
  3726; 3726; 3725; 3725; 3724; 3724; 3723; 3723; 3722; 3722; 3721; 3721; 3720; 3720; 3719; 3719; 3718; 3718;
  3717; 3717; 3716; 3716; 3715; 3715; 3714; 3714; 3713; 3713; 3712; 3712; 3711; 3711; 3710; 3710; 3709; 3709;
  3708; 3708; 3707; 3707; 3706; 3706; 3705; 3705; 3704; 3704; 3703; 3703; 3702; 3702; 3701; 3701; 3700; 3700;
  3699; 3699; 3698; 3698; 3698; 3697; 3697; 3696; 3696; 3695; 3695; 3694; 3694; 3693; 3693; 3692; 3692; 3691;
  3691; 3690; 3690; 3689; 3689; 3688; 3688; 3687; 3687; 3686; 3686; 3685; 3685; 3684; 3684; 3683; 3683; 3682].
Definition log_lut_64 : list Z := [
  3682; 3681; 3681; 3680; 3680; 3679; 3679; 3678; 3678; 3677; 3677; 3676; 3676; 3675; 3675; 3674; 3674; 3673;
  3673; 3672; 3672; 3671; 3671; 3670; 3670; 3669; 3669; 3668; 3668; 3667; 3667; 3666; 3666; 3665; 3665; 3664;
  3664; 3663; 3663; 3662; 3662; 3661; 3661; 3660; 3660; 3659; 3659; 3658; 3658; 3657; 3657; 3656; 3656; 3655;
  3655; 3655; 3654; 3654; 3653; 3653; 3652; 3652; 3651; 3651; 3650; 3650; 3649; 3649; 3648; 3648; 3647; 3647;
  3646; 3646; 3645; 3645; 3644; 3644; 3643; 3643; 3642; 3642; 3641; 3641; 3640; 3640; 3639; 3639; 3638; 3638;
  3637; 3637; 3636; 3636; 3635; 3635; 3634; 3634; 3633; 3633; 3632; 3632; 3631; 3631; 3630; 3630; 3629; 3629;
  3628; 3628; 3627; 3627; 3626; 3626; 3625; 3625; 3624; 3624; 3623; 3623; 3622; 3622; 3621; 3621; 3620; 3620;
  3619; 3619; 3618; 3618; 3617; 3617; 3617; 3616; 3616; 3615; 3615; 3614; 3614; 3613; 3613; 3612; 3612; 3611;
  3611; 3610; 3610; 3609; 3609; 3608; 3608; 3607; 3607; 3606; 3606; 3605; 3605; 3604; 3604; 3603; 3603; 3602;
  3602; 3601; 3601; 3600; 3600; 3599; 3599; 3598; 3598; 3597; 3597; 3596; 3596; 3595; 3595; 3594; 3594; 3593;
  3593; 3592; 3592; 3591; 3591; 3590; 3590; 3589; 3589; 3588; 3588; 3587; 3587; 3586; 3586; 3585; 3585; 3584;
  3584; 3583; 3583; 3583; 3582; 3582; 3581; 3581; 3580; 3580; 3579; 3579; 3578; 3578; 3577; 3577; 3576; 3576;
  3575; 3575; 3574; 3574; 3573; 3573; 3572; 3572; 3571; 3571; 3570; 3570; 3569; 3569; 3568; 3568; 3567; 3567;
  3566; 3566; 3565; 3565; 3564; 3564; 3563; 3563; 3562; 3562; 3561; 3561; 3560; 3560; 3559; 3559; 3558; 3558;
  3557; 3557; 3556; 3556; 3555; 3555; 3554; 3554; 3553; 3553; 3552; 3552; 3551; 3551; 3551; 3550; 3550; 3549;
  3549; 3548; 3548; 3547; 3547; 3546; 3546; 3545; 3545; 3544; 3544; 3543; 3543; 3542; 3542; 3541; 3541; 3540;
  3540; 3539; 3539; 3538; 3538; 3537; 3537; 3536; 3536; 3535; 3535; 3534; 3534; 3533; 3533; 3532; 3532; 3531;
  3531; 3530; 3530; 3529; 3529; 3528; 3528; 3527; 3527; 3526; 3526; 3525; 3525; 3524; 3524; 3523; 3523; 3522;
  3522; 3521; 3521; 3521; 3520; 3520; 3519; 3519; 3518; 3518; 3517; 3517; 3516; 3516; 3515; 3515; 3514; 3514;
  3513; 3513; 3512; 3512; 3511; 3511; 3510; 3510; 3509; 3509; 3508; 3508; 3507; 3507; 3506; 3506; 3505; 3505;
  3504; 3504; 3503; 3503; 3502; 3502; 3501; 3501; 3500; 3500; 3499; 3499; 3498; 3498; 3497; 3497; 3496; 3496;
  3495; 3495; 3494; 3494; 3493; 3493; 3493; 3492; 3492; 3491; 3491; 3490; 3490; 3489; 3489; 3488; 3488; 3487;
  3487; 3486; 3486; 3485; 3485; 3484; 3484; 3483; 3483; 3482; 3482; 3481; 3481; 3480; 3480; 3479; 3479; 3478;
  3478; 3477; 3477; 3476; 3476; 3475; 3475; 3474; 3474; 3473; 3473; 3472; 3472; 3471; 3471; 3470; 3470; 3469;
  3469; 3468; 3468; 3467; 3467; 3466; 3466; 3466; 3465; 3465; 3464; 3464; 3463; 3463; 3462; 3462; 3461; 3461;
  3460; 3460; 3459; 3459; 3458; 3458; 3457; 3457; 3456; 3456; 3455; 3455; 3454; 3454; 3453; 3453; 3452; 3452;
  3451; 3451; 3450; 3450; 3449; 3449; 3448; 3448; 3447; 3447; 3446; 3446; 3445; 3445; 3444; 3444; 3443; 3443;
  3442; 3442; 3441; 3441; 3441; 3440; 3440; 3439; 3439; 3438; 3438; 3437; 3437; 3436; 3436; 3435; 3435; 3434;
  3434; 3433; 3433; 3432; 3432; 3431; 3431; 3430; 3430; 3429; 3429; 3428; 3428; 3427; 3427; 3426; 3426; 3425;
  3425; 3424; 3424; 3423; 3423; 3422; 3422; 3421; 3421; 3420; 3420; 3419; 3419; 3418; 3418; 3417; 3417; 3417;
  3416; 3416; 3415; 3415; 3414; 3414; 3413; 3413; 3412; 3412; 3411; 3411; 3410; 3410; 3409; 3409; 3408; 3408;
  3407; 3407; 3406; 3406; 3405; 3405; 3404; 3404; 3403; 3403; 3402; 3402; 3401; 3401; 3400; 3400; 3399; 3399;
  3398; 3398; 3397; 3397; 3396; 3396; 3395; 3395; 3394; 3394; 3394; 3393; 3393; 3392; 3392; 3391; 3391; 3390;
  3390; 3389; 3389; 3388; 3388; 3387; 3387; 3386; 3386; 3385; 3385; 3384; 3384; 3383; 3383; 3382; 3382; 3381;
  3381; 3380; 3380; 3379; 3379; 3378; 3378; 3377; 3377; 3376; 3376; 3375; 3375; 3374; 3374; 3373; 3373; 3372;
  3372; 3371; 3371; 3371; 3370; 3370; 3369; 3369; 3368; 3368; 3367; 3367; 3366; 3366; 3365; 3365; 3364; 3364;
  3363; 3363; 3362; 3362; 3361; 3361; 3360; 3360; 3359; 3359; 3358; 3358; 3357; 3357; 3356; 3356; 3355; 3355;
  3354; 3354; 3353; 3353; 3352; 3352; 3351; 3351; 3350; 3350; 3349; 3349; 3349; 3348; 3348; 3347; 3347; 3346;
  3346; 3345; 3345; 3344; 3344; 3343; 3343; 3342; 3342; 3341; 3341; 3340; 3340; 3339; 3339; 3338; 3338; 3337;
  3337; 3336; 3336; 3335; 3335; 3334; 3334; 3333; 3333; 3332; 3332; 3331; 3331; 3330; 3330; 3329; 3329; 3328;
  3328; 3328; 3327; 3327; 3326; 3326; 3325; 3325; 3324; 3324; 3323; 3323; 3322; 3322; 3321; 3321; 3320; 3320;
  3319; 3319; 3318; 3318; 3317; 3317; 3316; 3316; 3315; 3315; 3314; 3314; 3313; 3313; 3312; 3312; 3311; 3311;
  3310; 3310; 3309; 3309; 3308; 3308; 3308; 3307; 3307; 3306; 3306; 3305; 3305; 3304; 3304; 3303; 3303; 3302;
  3302; 3301; 3301; 3300; 3300; 3299; 3299; 3298; 3298; 3297; 3297; 3296; 3296; 3295; 3295; 3294; 3294; 3293;
  3293; 3292; 3292; 3291; 3291; 3290; 3290; 3289; 3289; 3288; 3288; 3288; 3287; 3287; 3286; 3286; 3285; 3285;
  3284; 3284; 3283; 3283; 3282; 3282; 3281; 3281; 3280; 3280; 3279; 3279; 3278; 3278; 3277; 3277; 3276; 3276;
  3275; 3275; 3274; 3274; 3273; 3273; 3272; 3272; 3271; 3271; 3270; 3270; 3269; 3269; 3269; 3268; 3268; 3267;
  3267; 3266; 3266; 3265; 3265; 3264; 3264; 3263; 3263; 3262; 3262; 3261; 3261; 3260; 3260; 3259; 3259; 3258;
  3258; 3257; 3257; 3256; 3256; 3255; 3255; 3254; 3254; 3253; 3253; 3252; 3252; 3251; 3251; 3250; 3250; 3250;
  3249; 3249; 3248; 3248; 3247; 3247; 3246; 3246; 3245; 3245; 3244; 3244; 3243; 3243; 3242; 3242; 3241; 3241].
Definition log_lut_65 : list Z := [
  3240; 3240; 3239; 3239; 3238; 3238; 3237; 3237; 3236; 3236; 3235; 3235; 3234; 3234; 3233; 3233; 3232; 3232;
  3232; 3231; 3231; 3230; 3230; 3229; 3229; 3228; 3228; 3227; 3227; 3226; 3226; 3225; 3225; 3224; 3224; 3223;
  3223; 3222; 3222; 3221; 3221; 3220; 3220; 3219; 3219; 3218; 3218; 3217; 3217; 3216; 3216; 3215; 3215; 3214;
  3214; 3214; 3213; 3213; 3212; 3212; 3211; 3211; 3210; 3210; 3209; 3209; 3208; 3208; 3207; 3207; 3206; 3206;
  3205; 3205; 3204; 3204; 3203; 3203; 3202; 3202; 3201; 3201; 3200; 3200; 3199; 3199; 3198; 3198; 3197; 3197;
  3197; 3196; 3196; 3195; 3195; 3194; 3194; 3193; 3193; 3192; 3192; 3191; 3191; 3190; 3190; 3189; 3189; 3188;
  3188; 3187; 3187; 3186; 3186; 3185; 3185; 3184; 3184; 3183; 3183; 3182; 3182; 3181; 3181; 3180; 3180; 3180;
  3179; 3179; 3178; 3178; 3177; 3177; 3176; 3176; 3175; 3175; 3174; 3174; 3173; 3173; 3172; 3172; 3171; 3171;
  3170; 3170; 3169; 3169; 3168; 3168; 3167; 3167; 3166; 3166; 3165; 3165; 3164; 3164; 3163; 3163; 3163; 3162;
  3162; 3161; 3161; 3160; 3160; 3159; 3159; 3158; 3158; 3157; 3157; 3156; 3156; 3155; 3155; 3154; 3154; 3153;
  3153; 3152; 3152; 3151; 3151; 3150; 3150; 3149; 3149; 3148; 3148; 3147; 3147; 3147; 3146; 3146; 3145; 3145;
  3144; 3144; 3143; 3143; 3142; 3142; 3141; 3141; 3140; 3140; 3139; 3139; 3138; 3138; 3137; 3137; 3136; 3136;
  3135; 3135; 3134; 3134; 3133; 3133; 3132; 3132; 3131; 3131; 3130; 3130; 3130; 3129; 3129; 3128; 3128; 3127;
  3127; 3126; 3126; 3125; 3125; 3124; 3124; 3123; 3123; 3122; 3122; 3121; 3121; 3120; 3120; 3119; 3119; 3118;
  3118; 3117; 3117; 3116; 3116; 3115; 3115; 3115; 3114; 3114; 3113; 3113; 3112; 3112; 3111; 3111; 3110; 3110;
  3109; 3109; 3108; 3108; 3107; 3107; 3106; 3106; 3105; 3105; 3104; 3104; 3103; 3103; 3102; 3102; 3101; 3101;
  3100; 3100; 3099; 3099; 3099; 3098; 3098; 3097; 3097; 3096; 3096; 3095; 3095; 3094; 3094; 3093; 3093; 3092;
  3092; 3091; 3091; 3090; 3090; 3089; 3089; 3088; 3088; 3087; 3087; 3086; 3086; 3085; 3085; 3084; 3084; 3084;
  3083; 3083; 3082; 3082; 3081; 3081; 3080; 3080; 3079; 3079; 3078; 3078; 3077; 3077; 3076; 3076; 3075; 3075;
  3074; 3074; 3073; 3073; 3072; 3072; 3071; 3071; 3070; 3070; 3069; 3069; 3069; 3068; 3068; 3067; 3067; 3066;
  3066; 3065; 3065; 3064; 3064; 3063; 3063; 3062; 3062; 3061; 3061; 3060; 3060; 3059; 3059; 3058; 3058; 3057;
  3057; 3056; 3056; 3055; 3055; 3054; 3054; 3054; 3053; 3053; 3052; 3052; 3051; 3051; 3050; 3050; 3049; 3049;
  3048; 3048; 3047; 3047; 3046; 3046; 3045; 3045; 3044; 3044; 3043; 3043; 3042; 3042; 3041; 3041; 3040; 3040;
  3040; 3039; 3039; 3038; 3038; 3037; 3037; 3036; 3036; 3035; 3035; 3034; 3034; 3033; 3033; 3032; 3032; 3031;
  3031; 3030; 3030; 3029; 3029; 3028; 3028; 3027; 3027; 3026; 3026; 3025; 3025; 3025; 3024; 3024; 3023; 3023;
  3022; 3022; 3021; 3021; 3020; 3020; 3019; 3019; 3018; 3018; 3017; 3017; 3016; 3016; 3015; 3015; 3014; 3014;
  3013; 3013; 3012; 3012; 3011; 3011; 3011; 3010; 3010; 3009; 3009; 3008; 3008; 3007; 3007; 3006; 3006; 3005;
  3005; 3004; 3004; 3003; 3003; 3002; 3002; 3001; 3001; 3000; 3000; 2999; 2999; 2998; 2998; 2997; 2997; 2997;
  2996; 2996; 2995; 2995; 2994; 2994; 2993; 2993; 2992; 2992; 2991; 2991; 2990; 2990; 2989; 2989; 2988; 2988;
  2987; 2987; 2986; 2986; 2985; 2985; 2984; 2984; 2984; 2983; 2983; 2982; 2982; 2981; 2981; 2980; 2980; 2979;
  2979; 2978; 2978; 2977; 2977; 2976; 2976; 2975; 2975; 2974; 2974; 2973; 2973; 2972; 2972; 2971; 2971; 2970;
  2970; 2970; 2969; 2969; 2968; 2968; 2967; 2967; 2966; 2966; 2965; 2965; 2964; 2964; 2963; 2963; 2962; 2962;
  2961; 2961; 2960; 2960; 2959; 2959; 2958; 2958; 2957; 2957; 2957; 2956; 2956; 2955; 2955; 2954; 2954; 2953;
  2953; 2952; 2952; 2951; 2951; 2950; 2950; 2949; 2949; 2948; 2948; 2947; 2947; 2946; 2946; 2945; 2945; 2944;
  2944; 2943; 2943; 2943; 2942; 2942; 2941; 2941; 2940; 2940; 2939; 2939; 2938; 2938; 2937; 2937; 2936; 2936;
  2935; 2935; 2934; 2934; 2933; 2933; 2932; 2932; 2931; 2931; 2930; 2930; 2930; 2929; 2929; 2928; 2928; 2927;
  2927; 2926; 2926; 2925; 2925; 2924; 2924; 2923; 2923; 2922; 2922; 2921; 2921; 2920; 2920; 2919; 2919; 2918;
  2918; 2918; 2917; 2917; 2916; 2916; 2915; 2915; 2914; 2914; 2913; 2913; 2912; 2912; 2911; 2911; 2910; 2910;
  2909; 2909; 2908; 2908; 2907; 2907; 2906; 2906; 2905; 2905; 2905; 2904; 2904; 2903; 2903; 2902; 2902; 2901;
  2901; 2900; 2900; 2899; 2899; 2898; 2898; 2897; 2897; 2896; 2896; 2895; 2895; 2894; 2894; 2893; 2893; 2892;
  2892; 2892; 2891; 2891; 2890; 2890; 2889; 2889; 2888; 2888; 2887; 2887; 2886; 2886; 2885; 2885; 2884; 2884;
  2883; 2883; 2882; 2882; 2881; 2881; 2880; 2880; 2880; 2879; 2879; 2878; 2878; 2877; 2877; 2876; 2876; 2875;
  2875; 2874; 2874; 2873; 2873; 2872; 2872; 2871; 2871; 2870; 2870; 2869; 2869; 2868; 2868; 2868; 2867; 2867;
  2866; 2866; 2865; 2865; 2864; 2864; 2863; 2863; 2862; 2862; 2861; 2861; 2860; 2860; 2859; 2859; 2858; 2858;
  2857; 2857; 2856; 2856; 2855; 2855; 2855; 2854; 2854; 2853; 2853; 2852; 2852; 2851; 2851; 2850; 2850; 2849;
  2849; 2848; 2848; 2847; 2847; 2846; 2846; 2845; 2845; 2844; 2844; 2843; 2843; 2843; 2842; 2842; 2841; 2841;
  2840; 2840; 2839; 2839; 2838; 2838; 2837; 2837; 2836; 2836; 2835; 2835; 2834; 2834; 2833; 2833; 2832; 2832;
  2832; 2831; 2831; 2830; 2830; 2829; 2829; 2828; 2828; 2827; 2827; 2826; 2826; 2825; 2825; 2824; 2824; 2823;
  2823; 2822; 2822; 2821; 2821; 2820; 2820; 2820; 2819; 2819; 2818; 2818; 2817; 2817; 2816; 2816; 2815; 2815;
  2814; 2814; 2813; 2813; 2812; 2812; 2811; 2811; 2810; 2810; 2809; 2809; 2808; 2808; 2808; 2807; 2807; 2806].
Definition log_lut_66 : list Z := [
  2806; 2805; 2805; 2804; 2804; 2803; 2803; 2802; 2802; 2801; 2801; 2800; 2800; 2799; 2799; 2798; 2798; 2797;
  2797; 2797; 2796; 2796; 2795; 2795; 2794; 2794; 2793; 2793; 2792; 2792; 2791; 2791; 2790; 2790; 2789; 2789;
  2788; 2788; 2787; 2787; 2786; 2786; 2785; 2785; 2785; 2784; 2784; 2783; 2783; 2782; 2782; 2781; 2781; 2780;
  2780; 2779; 2779; 2778; 2778; 2777; 2777; 2776; 2776; 2775; 2775; 2774; 2774; 2774; 2773; 2773; 2772; 2772;
  2771; 2771; 2770; 2770; 2769; 2769; 2768; 2768; 2767; 2767; 2766; 2766; 2765; 2765; 2764; 2764; 2763; 2763;
  2763; 2762; 2762; 2761; 2761; 2760; 2760; 2759; 2759; 2758; 2758; 2757; 2757; 2756; 2756; 2755; 2755; 2754;
  2754; 2753; 2753; 2752; 2752; 2751; 2751; 2751; 2750; 2750; 2749; 2749; 2748; 2748; 2747; 2747; 2746; 2746;
  2745; 2745; 2744; 2744; 2743; 2743; 2742; 2742; 2741; 2741; 2740; 2740; 2740; 2739; 2739; 2738; 2738; 2737;
  2737; 2736; 2736; 2735; 2735; 2734; 2734; 2733; 2733; 2732; 2732; 2731; 2731; 2730; 2730; 2730; 2729; 2729;
  2728; 2728; 2727; 2727; 2726; 2726; 2725; 2725; 2724; 2724; 2723; 2723; 2722; 2722; 2721; 2721; 2720; 2720;
  2719; 2719; 2719; 2718; 2718; 2717; 2717; 2716; 2716; 2715; 2715; 2714; 2714; 2713; 2713; 2712; 2712; 2711;
  2711; 2710; 2710; 2709; 2709; 2708; 2708; 2708; 2707; 2707; 2706; 2706; 2705; 2705; 2704; 2704; 2703; 2703;
  2702; 2702; 2701; 2701; 2700; 2700; 2699; 2699; 2698; 2698; 2697; 2697; 2697; 2696; 2696; 2695; 2695; 2694;
  2694; 2693; 2693; 2692; 2692; 2691; 2691; 2690; 2690; 2689; 2689; 2688; 2688; 2687; 2687; 2687; 2686; 2686;
  2685; 2685; 2684; 2684; 2683; 2683; 2682; 2682; 2681; 2681; 2680; 2680; 2679; 2679; 2678; 2678; 2677; 2677;
  2676; 2676; 2676; 2675; 2675; 2674; 2674; 2673; 2673; 2672; 2672; 2671; 2671; 2670; 2670; 2669; 2669; 2668;
  2668; 2667; 2667; 2666; 2666; 2666; 2665; 2665; 2664; 2664; 2663; 2663; 2662; 2662; 2661; 2661; 2660; 2660;
  2659; 2659; 2658; 2658; 2657; 2657; 2656; 2656; 2656; 2655; 2655; 2654; 2654; 2653; 2653; 2652; 2652; 2651;
  2651; 2650; 2650; 2649; 2649; 2648; 2648; 2647; 2647; 2646; 2646; 2645; 2645; 2645; 2644; 2644; 2643; 2643;
  2642; 2642; 2641; 2641; 2640; 2640; 2639; 2639; 2638; 2638; 2637; 2637; 2636; 2636; 2635; 2635; 2635; 2634;
  2634; 2633; 2633; 2632; 2632; 2631; 2631; 2630; 2630; 2629; 2629; 2628; 2628; 2627; 2627; 2626; 2626; 2625;
  2625; 2625; 2624; 2624; 2623; 2623; 2622; 2622; 2621; 2621; 2620; 2620; 2619; 2619; 2618; 2618; 2617; 2617;
  2616; 2616; 2615; 2615; 2615; 2614; 2614; 2613; 2613; 2612; 2612; 2611; 2611; 2610; 2610; 2609; 2609; 2608;
  2608; 2607; 2607; 2606; 2606; 2605; 2605; 2605; 2604; 2604; 2603; 2603; 2602; 2602; 2601; 2601; 2600; 2600;
  2599; 2599; 2598; 2598; 2597; 2597; 2596; 2596; 2595; 2595; 2595; 2594; 2594; 2593; 2593; 2592; 2592; 2591;
  2591; 2590; 2590; 2589; 2589; 2588; 2588; 2587; 2587; 2586; 2586; 2586; 2585; 2585; 2584; 2584; 2583; 2583;
  2582; 2582; 2581; 2581; 2580; 2580; 2579; 2579; 2578; 2578; 2577; 2577; 2576; 2576; 2576; 2575; 2575; 2574;
  2574; 2573; 2573; 2572; 2572; 2571; 2571; 2570; 2570; 2569; 2569; 2568; 2568; 2567; 2567; 2566; 2566; 2566;
  2565; 2565; 2564; 2564; 2563; 2563; 2562; 2562; 2561; 2561; 2560; 2560; 2559; 2559; 2558; 2558; 2557; 2557;
  2557; 2556; 2556; 2555; 2555; 2554; 2554; 2553; 2553; 2552; 2552; 2551; 2551; 2550; 2550; 2549; 2549; 2548;
  2548; 2547; 2547; 2547; 2546; 2546; 2545; 2545; 2544; 2544; 2543; 2543; 2542; 2542; 2541; 2541; 2540; 2540;
  2539; 2539; 2538; 2538; 2538; 2537; 2537; 2536; 2536; 2535; 2535; 2534; 2534; 2533; 2533; 2532; 2532; 2531;
  2531; 2530; 2530; 2529; 2529; 2528; 2528; 2528; 2527; 2527; 2526; 2526; 2525; 2525; 2524; 2524; 2523; 2523;
  2522; 2522; 2521; 2521; 2520; 2520; 2519; 2519; 2519; 2518; 2518; 2517; 2517; 2516; 2516; 2515; 2515; 2514;
  2514; 2513; 2513; 2512; 2512; 2511; 2511; 2510; 2510; 2510; 2509; 2509; 2508; 2508; 2507; 2507; 2506; 2506;
  2505; 2505; 2504; 2504; 2503; 2503; 2502; 2502; 2501; 2501; 2501; 2500; 2500; 2499; 2499; 2498; 2498; 2497;
  2497; 2496; 2496; 2495; 2495; 2494; 2494; 2493; 2493; 2492; 2492; 2491; 2491; 2491; 2490; 2490; 2489; 2489;
  2488; 2488; 2487; 2487; 2486; 2486; 2485; 2485; 2484; 2484; 2483; 2483; 2482; 2482; 2482; 2481; 2481; 2480;
  2480; 2479; 2479; 2478; 2478; 2477; 2477; 2476; 2476; 2475; 2475; 2474; 2474; 2473; 2473; 2473; 2472; 2472;
  2471; 2471; 2470; 2470; 2469; 2469; 2468; 2468; 2467; 2467; 2466; 2466; 2465; 2465; 2464; 2464; 2464; 2463;
  2463; 2462; 2462; 2461; 2461; 2460; 2460; 2459; 2459; 2458; 2458; 2457; 2457; 2456; 2456; 2455; 2455; 2455;
  2454; 2454; 2453; 2453; 2452; 2452; 2451; 2451; 2450; 2450; 2449; 2449; 2448; 2448; 2447; 2447; 2446; 2446;
  2446; 2445; 2445; 2444; 2444; 2443; 2443; 2442; 2442; 2441; 2441; 2440; 2440; 2439; 2439; 2438; 2438; 2438;
  2437; 2437; 2436; 2436; 2435; 2435; 2434; 2434; 2433; 2433; 2432; 2432; 2431; 2431; 2430; 2430; 2429; 2429;
  2429; 2428; 2428; 2427; 2427; 2426; 2426; 2425; 2425; 2424; 2424; 2423; 2423; 2422; 2422; 2421; 2421; 2420;
  2420; 2420; 2419; 2419; 2418; 2418; 2417; 2417; 2416; 2416; 2415; 2415; 2414; 2414; 2413; 2413; 2412; 2412;
  2411; 2411; 2411; 2410; 2410; 2409; 2409; 2408; 2408; 2407; 2407; 2406; 2406; 2405; 2405; 2404; 2404; 2403;
  2403; 2403; 2402; 2402; 2401; 2401; 2400; 2400; 2399; 2399; 2398; 2398; 2397; 2397; 2396; 2396; 2395; 2395;
  2394; 2394; 2394; 2393; 2393; 2392; 2392; 2391; 2391; 2390; 2390; 2389; 2389; 2388; 2388; 2387; 2387; 2386;
  2386; 2386; 2385; 2385; 2384; 2384; 2383; 2383; 2382; 2382; 2381; 2381; 2380; 2380; 2379; 2379; 2378; 2378].
Definition log_lut_67 : list Z := [
  2377; 2377; 2377; 2376; 2376; 2375; 2375; 2374; 2374; 2373; 2373; 2372; 2372; 2371; 2371; 2370; 2370; 2369;
  2369; 2369; 2368; 2368; 2367; 2367; 2366; 2366; 2365; 2365; 2364; 2364; 2363; 2363; 2362; 2362; 2361; 2361;
  2360; 2360; 2360; 2359; 2359; 2358; 2358; 2357; 2357; 2356; 2356; 2355; 2355; 2354; 2354; 2353; 2353; 2352;
  2352; 2352; 2351; 2351; 2350; 2350; 2349; 2349; 2348; 2348; 2347; 2347; 2346; 2346; 2345; 2345; 2344; 2344;
  2344; 2343; 2343; 2342; 2342; 2341; 2341; 2340; 2340; 2339; 2339; 2338; 2338; 2337; 2337; 2336; 2336; 2335;
  2335; 2335; 2334; 2334; 2333; 2333; 2332; 2332; 2331; 2331; 2330; 2330; 2329; 2329; 2328; 2328; 2327; 2327;
  2327; 2326; 2326; 2325; 2325; 2324; 2324; 2323; 2323; 2322; 2322; 2321; 2321; 2320; 2320; 2319; 2319; 2319;
  2318; 2318; 2317; 2317; 2316; 2316; 2315; 2315; 2314; 2314; 2313; 2313; 2312; 2312; 2311; 2311; 2311; 2310;
  2310; 2309; 2309; 2308; 2308; 2307; 2307; 2306; 2306; 2305; 2305; 2304; 2304; 2303; 2303; 2303; 2302; 2302;
  2301; 2301; 2300; 2300; 2299; 2299; 2298; 2298; 2297; 2297; 2296; 2296; 2295; 2295; 2295; 2294; 2294; 2293;
  2293; 2292; 2292; 2291; 2291; 2290; 2290; 2289; 2289; 2288; 2288; 2287; 2287; 2287; 2286; 2286; 2285; 2285;
  2284; 2284; 2283; 2283; 2282; 2282; 2281; 2281; 2280; 2280; 2279; 2279; 2279; 2278; 2278; 2277; 2277; 2276;
  2276; 2275; 2275; 2274; 2274; 2273; 2273; 2272; 2272; 2271; 2271; 2271; 2270; 2270; 2269; 2269; 2268; 2268;
  2267; 2267; 2266; 2266; 2265; 2265; 2264; 2264; 2263; 2263; 2263; 2262; 2262; 2261; 2261; 2260; 2260; 2259;
  2259; 2258; 2258; 2257; 2257; 2256; 2256; 2255; 2255; 2255; 2254; 2254; 2253; 2253; 2252; 2252; 2251; 2251;
  2250; 2250; 2249; 2249; 2248; 2248; 2247; 2247; 2247; 2246; 2246; 2245; 2245; 2244; 2244; 2243; 2243; 2242;
  2242; 2241; 2241; 2240; 2240; 2239; 2239; 2239; 2238; 2238; 2237; 2237; 2236; 2236; 2235; 2235; 2234; 2234;
  2233; 2233; 2232; 2232; 2231; 2231; 2231; 2230; 2230; 2229; 2229; 2228; 2228; 2227; 2227; 2226; 2226; 2225;
  2225; 2224; 2224; 2224; 2223; 2223; 2222; 2222; 2221; 2221; 2220; 2220; 2219; 2219; 2218; 2218; 2217; 2217;
  2216; 2216; 2216; 2215; 2215; 2214; 2214; 2213; 2213; 2212; 2212; 2211; 2211; 2210; 2210; 2209; 2209; 2208;
  2208; 2208; 2207; 2207; 2206; 2206; 2205; 2205; 2204; 2204; 2203; 2203; 2202; 2202; 2201; 2201; 2201; 2200;
  2200; 2199; 2199; 2198; 2198; 2197; 2197; 2196; 2196; 2195; 2195; 2194; 2194; 2193; 2193; 2193; 2192; 2192;
  2191; 2191; 2190; 2190; 2189; 2189; 2188; 2188; 2187; 2187; 2186; 2186; 2185; 2185; 2185; 2184; 2184; 2183;
  2183; 2182; 2182; 2181; 2181; 2180; 2180; 2179; 2179; 2178; 2178; 2178; 2177; 2177; 2176; 2176; 2175; 2175;
  2174; 2174; 2173; 2173; 2172; 2172; 2171; 2171; 2170; 2170; 2170; 2169; 2169; 2168; 2168; 2167; 2167; 2166;
  2166; 2165; 2165; 2164; 2164; 2163; 2163; 2163; 2162; 2162; 2161; 2161; 2160; 2160; 2159; 2159; 2158; 2158;
  2157; 2157; 2156; 2156; 2155; 2155; 2155; 2154; 2154; 2153; 2153; 2152; 2152; 2151; 2151; 2150; 2150; 2149;
  2149; 2148; 2148; 2148; 2147; 2147; 2146; 2146; 2145; 2145; 2144; 2144; 2143; 2143; 2142; 2142; 2141; 2141;
  2141; 2140; 2140; 2139; 2139; 2138; 2138; 2137; 2137; 2136; 2136; 2135; 2135; 2134; 2134; 2133; 2133; 2133;
  2132; 2132; 2131; 2131; 2130; 2130; 2129; 2129; 2128; 2128; 2127; 2127; 2126; 2126; 2126; 2125; 2125; 2124;
  2124; 2123; 2123; 2122; 2122; 2121; 2121; 2120; 2120; 2119; 2119; 2119; 2118; 2118; 2117; 2117; 2116; 2116;
  2115; 2115; 2114; 2114; 2113; 2113; 2112; 2112; 2111; 2111; 2111; 2110; 2110; 2109; 2109; 2108; 2108; 2107;
  2107; 2106; 2106; 2105; 2105; 2104; 2104; 2104; 2103; 2103; 2102; 2102; 2101; 2101; 2100; 2100; 2099; 2099;
  2098; 2098; 2097; 2097; 2097; 2096; 2096; 2095; 2095; 2094; 2094; 2093; 2093; 2092; 2092; 2091; 2091; 2090;
  2090; 2090; 2089; 2089; 2088; 2088; 2087; 2087; 2086; 2086; 2085; 2085; 2084; 2084; 2083; 2083; 2083; 2082;
  2082; 2081; 2081; 2080; 2080; 2079; 2079; 2078; 2078; 2077; 2077; 2076; 2076; 2076; 2075; 2075; 2074; 2074;
  2073; 2073; 2072; 2072; 2071; 2071; 2070; 2070; 2069; 2069; 2068; 2068; 2068; 2067; 2067; 2066; 2066; 2065;
  2065; 2064; 2064; 2063; 2063; 2062; 2062; 2061; 2061; 2061; 2060; 2060; 2059; 2059; 2058; 2058; 2057; 2057;
  2056; 2056; 2055; 2055; 2054; 2054; 2054; 2053; 2053; 2052; 2052; 2051; 2051; 2050; 2050; 2049; 2049; 2048;
  2048; 2047; 2047; 2047; 2046; 2046; 2045; 2045; 2044; 2044; 2043; 2043; 2042; 2042; 2041; 2041; 2040; 2040;
  2040; 2039; 2039; 2038; 2038; 2037; 2037; 2036; 2036; 2035; 2035; 2034; 2034; 2033; 2033; 2033; 2032; 2032;
  2031; 2031; 2030; 2030; 2029; 2029; 2028; 2028; 2027; 2027; 2026; 2026; 2026; 2025; 2025; 2024; 2024; 2023;
  2023; 2022; 2022; 2021; 2021; 2020; 2020; 2019; 2019; 2019; 2018; 2018; 2017; 2017; 2016; 2016; 2015; 2015;
  2014; 2014; 2013; 2013; 2013; 2012; 2012; 2011; 2011; 2010; 2010; 2009; 2009; 2008; 2008; 2007; 2007; 2006;
  2006; 2006; 2005; 2005; 2004; 2004; 2003; 2003; 2002; 2002; 2001; 2001; 2000; 2000; 1999; 1999; 1999; 1998;
  1998; 1997; 1997; 1996; 1996; 1995; 1995; 1994; 1994; 1993; 1993; 1992; 1992; 1992; 1991; 1991; 1990; 1990;
  1989; 1989; 1988; 1988; 1987; 1987; 1986; 1986; 1985; 1985; 1985; 1984; 1984; 1983; 1983; 1982; 1982; 1981;
  1981; 1980; 1980; 1979; 1979; 1978; 1978; 1978; 1977; 1977; 1976; 1976; 1975; 1975; 1974; 1974; 1973; 1973;
  1972; 1972; 1972; 1971; 1971; 1970; 1970; 1969; 1969; 1968; 1968; 1967; 1967; 1966; 1966; 1965; 1965; 1965;
  1964; 1964; 1963; 1963; 1962; 1962; 1961; 1961; 1960; 1960; 1959; 1959; 1958; 1958; 1958; 1957; 1957; 1956].
Definition log_lut_68 : list Z := [
  1956; 1955; 1955; 1954; 1954; 1953; 1953; 1952; 1952; 1952; 1951; 1951; 1950; 1950; 1949; 1949; 1948; 1948;
  1947; 1947; 1946; 1946; 1945; 1945; 1945; 1944; 1944; 1943; 1943; 1942; 1942; 1941; 1941; 1940; 1940; 1939;
  1939; 1938; 1938; 1938; 1937; 1937; 1936; 1936; 1935; 1935; 1934; 1934; 1933; 1933; 1932; 1932; 1932; 1931;
  1931; 1930; 1930; 1929; 1929; 1928; 1928; 1927; 1927; 1926; 1926; 1925; 1925; 1925; 1924; 1924; 1923; 1923;
  1922; 1922; 1921; 1921; 1920; 1920; 1919; 1919; 1919; 1918; 1918; 1917; 1917; 1916; 1916; 1915; 1915; 1914;
  1914; 1913; 1913; 1912; 1912; 1912; 1911; 1911; 1910; 1910; 1909; 1909; 1908; 1908; 1907; 1907; 1906; 1906;
  1905; 1905; 1905; 1904; 1904; 1903; 1903; 1902; 1902; 1901; 1901; 1900; 1900; 1899; 1899; 1899; 1898; 1898;
  1897; 1897; 1896; 1896; 1895; 1895; 1894; 1894; 1893; 1893; 1892; 1892; 1892; 1891; 1891; 1890; 1890; 1889;
  1889; 1888; 1888; 1887; 1887; 1886; 1886; 1886; 1885; 1885; 1884; 1884; 1883; 1883; 1882; 1882; 1881; 1881;
  1880; 1880; 1880; 1879; 1879; 1878; 1878; 1877; 1877; 1876; 1876; 1875; 1875; 1874; 1874; 1873; 1873; 1873;
  1872; 1872; 1871; 1871; 1870; 1870; 1869; 1869; 1868; 1868; 1867; 1867; 1867; 1866; 1866; 1865; 1865; 1864;
  1864; 1863; 1863; 1862; 1862; 1861; 1861; 1860; 1860; 1860; 1859; 1859; 1858; 1858; 1857; 1857; 1856; 1856;
  1855; 1855; 1854; 1854; 1854; 1853; 1853; 1852; 1852; 1851; 1851; 1850; 1850; 1849; 1849; 1848; 1848; 1848;
  1847; 1847; 1846; 1846; 1845; 1845; 1844; 1844; 1843; 1843; 1842; 1842; 1841; 1841; 1841; 1840; 1840; 1839;
  1839; 1838; 1838; 1837; 1837; 1836; 1836; 1835; 1835; 1835; 1834; 1834; 1833; 1833; 1832; 1832; 1831; 1831;
  1830; 1830; 1829; 1829; 1829; 1828; 1828; 1827; 1827; 1826; 1826; 1825; 1825; 1824; 1824; 1823; 1823; 1822;
  1822; 1822; 1821; 1821; 1820; 1820; 1819; 1819; 1818; 1818; 1817; 1817; 1816; 1816; 1816; 1815; 1815; 1814;
  1814; 1813; 1813; 1812; 1812; 1811; 1811; 1810; 1810; 1810; 1809; 1809; 1808; 1808; 1807; 1807; 1806; 1806;
  1805; 1805; 1804; 1804; 1804; 1803; 1803; 1802; 1802; 1801; 1801; 1800; 1800; 1799; 1799; 1798; 1798; 1798;
  1797; 1797; 1796; 1796; 1795; 1795; 1794; 1794; 1793; 1793; 1792; 1792; 1791; 1791; 1791; 1790; 1790; 1789;
  1789; 1788; 1788; 1787; 1787; 1786; 1786; 1785; 1785; 1785; 1784; 1784; 1783; 1783; 1782; 1782; 1781; 1781;
  1780; 1780; 1779; 1779; 1779; 1778; 1778; 1777; 1777; 1776; 1776; 1775; 1775; 1774; 1774; 1773; 1773; 1773;
  1772; 1772; 1771; 1771; 1770; 1770; 1769; 1769; 1768; 1768; 1767; 1767; 1767; 1766; 1766; 1765; 1765; 1764;
  1764; 1763; 1763; 1762; 1762; 1761; 1761; 1761; 1760; 1760; 1759; 1759; 1758; 1758; 1757; 1757; 1756; 1756;
  1755; 1755; 1755; 1754; 1754; 1753; 1753; 1752; 1752; 1751; 1751; 1750; 1750; 1749; 1749; 1749; 1748; 1748;
  1747; 1747; 1746; 1746; 1745; 1745; 1744; 1744; 1743; 1743; 1743; 1742; 1742; 1741; 1741; 1740; 1740; 1739;
  1739; 1738; 1738; 1737; 1737; 1737; 1736; 1736; 1735; 1735; 1734; 1734; 1733; 1733; 1732; 1732; 1731; 1731;
  1731; 1730; 1730; 1729; 1729; 1728; 1728; 1727; 1727; 1726; 1726; 1725; 1725; 1725; 1724; 1724; 1723; 1723;
  1722; 1722; 1721; 1721; 1720; 1720; 1719; 1719; 1719; 1718; 1718; 1717; 1717; 1716; 1716; 1715; 1715; 1714;
  1714; 1713; 1713; 1713; 1712; 1712; 1711; 1711; 1710; 1710; 1709; 1709; 1708; 1708; 1707; 1707; 1707; 1706;
  1706; 1705; 1705; 1704; 1704; 1703; 1703; 1702; 1702; 1701; 1701; 1701; 1700; 1700; 1699; 1699; 1698; 1698;
  1697; 1697; 1696; 1696; 1695; 1695; 1695; 1694; 1694; 1693; 1693; 1692; 1692; 1691; 1691; 1690; 1690; 1689;
  1689; 1689; 1688; 1688; 1687; 1687; 1686; 1686; 1685; 1685; 1684; 1684; 1683; 1683; 1683; 1682; 1682; 1681;
  1681; 1680; 1680; 1679; 1679; 1678; 1678; 1677; 1677; 1677; 1676; 1676; 1675; 1675; 1674; 1674; 1673; 1673;
  1672; 1672; 1671; 1671; 1671; 1670; 1670; 1669; 1669; 1668; 1668; 1667; 1667; 1666; 1666; 1666; 1665; 1665;
  1664; 1664; 1663; 1663; 1662; 1662; 1661; 1661; 1660; 1660; 1660; 1659; 1659; 1658; 1658; 1657; 1657; 1656;
  1656; 1655; 1655; 1654; 1654; 1654; 1653; 1653; 1652; 1652; 1651; 1651; 1650; 1650; 1649; 1649; 1648; 1648;
  1648; 1647; 1647; 1646; 1646; 1645; 1645; 1644; 1644; 1643; 1643; 1642; 1642; 1642; 1641; 1641; 1640; 1640;
  1639; 1639; 1638; 1638; 1637; 1637; 1637; 1636; 1636; 1635; 1635; 1634; 1634; 1633; 1633; 1632; 1632; 1631;
  1631; 1631; 1630; 1630; 1629; 1629; 1628; 1628; 1627; 1627; 1626; 1626; 1625; 1625; 1625; 1624; 1624; 1623;
  1623; 1622; 1622; 1621; 1621; 1620; 1620; 1619; 1619; 1619; 1618; 1618; 1617; 1617; 1616; 1616; 1615; 1615;
  1614; 1614; 1614; 1613; 1613; 1612; 1612; 1611; 1611; 1610; 1610; 1609; 1609; 1608; 1608; 1608; 1607; 1607;
  1606; 1606; 1605; 1605; 1604; 1604; 1603; 1603; 1602; 1602; 1602; 1601; 1601; 1600; 1600; 1599; 1599; 1598;
  1598; 1597; 1597; 1597; 1596; 1596; 1595; 1595; 1594; 1594; 1593; 1593; 1592; 1592; 1591; 1591; 1591; 1590;
  1590; 1589; 1589; 1588; 1588; 1587; 1587; 1586; 1586; 1585; 1585; 1585; 1584; 1584; 1583; 1583; 1582; 1582;
  1581; 1581; 1580; 1580; 1580; 1579; 1579; 1578; 1578; 1577; 1577; 1576; 1576; 1575; 1575; 1574; 1574; 1574;
  1573; 1573; 1572; 1572; 1571; 1571; 1570; 1570; 1569; 1569; 1569; 1568; 1568; 1567; 1567; 1566; 1566; 1565;
  1565; 1564; 1564; 1563; 1563; 1563; 1562; 1562; 1561; 1561; 1560; 1560; 1559; 1559; 1558; 1558; 1557; 1557;
  1557; 1556; 1556; 1555; 1555; 1554; 1554; 1553; 1553; 1552; 1552; 1552; 1551; 1551; 1550; 1550; 1549; 1549;
  1548; 1548; 1547; 1547; 1546; 1546; 1546; 1545; 1545; 1544; 1544; 1543; 1543; 1542; 1542; 1541; 1541; 1541].
Definition log_lut_69 : list Z := [
  1540; 1540; 1539; 1539; 1538; 1538; 1537; 1537; 1536; 1536; 1535; 1535; 1535; 1534; 1534; 1533; 1533; 1532;
  1532; 1531; 1531; 1530; 1530; 1530; 1529; 1529; 1528; 1528; 1527; 1527; 1526; 1526; 1525; 1525; 1524; 1524;
  1524; 1523; 1523; 1522; 1522; 1521; 1521; 1520; 1520; 1519; 1519; 1519; 1518; 1518; 1517; 1517; 1516; 1516;
  1515; 1515; 1514; 1514; 1513; 1513; 1513; 1512; 1512; 1511; 1511; 1510; 1510; 1509; 1509; 1508; 1508; 1508;
  1507; 1507; 1506; 1506; 1505; 1505; 1504; 1504; 1503; 1503; 1503; 1502; 1502; 1501; 1501; 1500; 1500; 1499;
  1499; 1498; 1498; 1497; 1497; 1497; 1496; 1496; 1495; 1495; 1494; 1494; 1493; 1493; 1492; 1492; 1492; 1491;
  1491; 1490; 1490; 1489; 1489; 1488; 1488; 1487; 1487; 1486; 1486; 1486; 1485; 1485; 1484; 1484; 1483; 1483;
  1482; 1482; 1481; 1481; 1481; 1480; 1480; 1479; 1479; 1478; 1478; 1477; 1477; 1476; 1476; 1476; 1475; 1475;
  1474; 1474; 1473; 1473; 1472; 1472; 1471; 1471; 1470; 1470; 1470; 1469; 1469; 1468; 1468; 1467; 1467; 1466;
  1466; 1465; 1465; 1465; 1464; 1464; 1463; 1463; 1462; 1462; 1461; 1461; 1460; 1460; 1459; 1459; 1459; 1458;
  1458; 1457; 1457; 1456; 1456; 1455; 1455; 1454; 1454; 1454; 1453; 1453; 1452; 1452; 1451; 1451; 1450; 1450;
  1449; 1449; 1449; 1448; 1448; 1447; 1447; 1446; 1446; 1445; 1445; 1444; 1444; 1444; 1443; 1443; 1442; 1442;
  1441; 1441; 1440; 1440; 1439; 1439; 1438; 1438; 1438; 1437; 1437; 1436; 1436; 1435; 1435; 1434; 1434; 1433;
  1433; 1433; 1432; 1432; 1431; 1431; 1430; 1430; 1429; 1429; 1428; 1428; 1428; 1427; 1427; 1426; 1426; 1425;
  1425; 1424; 1424; 1423; 1423; 1422; 1422; 1422; 1421; 1421; 1420; 1420; 1419; 1419; 1418; 1418; 1417; 1417;
  1417; 1416; 1416; 1415; 1415; 1414; 1414; 1413; 1413; 1412; 1412; 1412; 1411; 1411; 1410; 1410; 1409; 1409;
  1408; 1408; 1407; 1407; 1407; 1406; 1406; 1405; 1405; 1404; 1404; 1403; 1403; 1402; 1402; 1401; 1401; 1401;
  1400; 1400; 1399; 1399; 1398; 1398; 1397; 1397; 1396; 1396; 1396; 1395; 1395; 1394; 1394; 1393; 1393; 1392;
  1392; 1391; 1391; 1391; 1390; 1390; 1389; 1389; 1388; 1388; 1387; 1387; 1386; 1386; 1386; 1385; 1385; 1384;
  1384; 1383; 1383; 1382; 1382; 1381; 1381; 1381; 1380; 1380; 1379; 1379; 1378; 1378; 1377; 1377; 1376; 1376;
  1376; 1375; 1375; 1374; 1374; 1373; 1373; 1372; 1372; 1371; 1371; 1370; 1370; 1370; 1369; 1369; 1368; 1368;
  1367; 1367; 1366; 1366; 1365; 1365; 1365; 1364; 1364; 1363; 1363; 1362; 1362; 1361; 1361; 1360; 1360; 1360;
  1359; 1359; 1358; 1358; 1357; 1357; 1356; 1356; 1355; 1355; 1355; 1354; 1354; 1353; 1353; 1352; 1352; 1351;
  1351; 1350; 1350; 1350; 1349; 1349; 1348; 1348; 1347; 1347; 1346; 1346; 1345; 1345; 1345; 1344; 1344; 1343;
  1343; 1342; 1342; 1341; 1341; 1340; 1340; 1340; 1339; 1339; 1338; 1338; 1337; 1337; 1336; 1336; 1335; 1335;
  1335; 1334; 1334; 1333; 1333; 1332; 1332; 1331; 1331; 1330; 1330; 1330; 1329; 1329; 1328; 1328; 1327; 1327;
  1326; 1326; 1325; 1325; 1325; 1324; 1324; 1323; 1323; 1322; 1322; 1321; 1321; 1320; 1320; 1319; 1319; 1319;
  1318; 1318; 1317; 1317; 1316; 1316; 1315; 1315; 1314; 1314; 1314; 1313; 1313; 1312; 1312; 1311; 1311; 1310;
  1310; 1309; 1309; 1309; 1308; 1308; 1307; 1307; 1306; 1306; 1305; 1305; 1304; 1304; 1304; 1303; 1303; 1302;
  1302; 1301; 1301; 1300; 1300; 1299; 1299; 1299; 1298; 1298; 1297; 1297; 1296; 1296; 1295; 1295; 1294; 1294;
  1294; 1293; 1293; 1292; 1292; 1291; 1291; 1290; 1290; 1289; 1289; 1289; 1288; 1288; 1287; 1287; 1286; 1286;
  1285; 1285; 1284; 1284; 1284; 1283; 1283; 1282; 1282; 1281; 1281; 1280; 1280; 1279; 1279; 1279; 1278; 1278;
  1277; 1277; 1276; 1276; 1275; 1275; 1274; 1274; 1274; 1273; 1273; 1272; 1272; 1271; 1271; 1270; 1270; 1269;
  1269; 1269; 1268; 1268; 1267; 1267; 1266; 1266; 1265; 1265; 1265; 1264; 1264; 1263; 1263; 1262; 1262; 1261;
  1261; 1260; 1260; 1260; 1259; 1259; 1258; 1258; 1257; 1257; 1256; 1256; 1255; 1255; 1255; 1254; 1254; 1253;
  1253; 1252; 1252; 1251; 1251; 1250; 1250; 1250; 1249; 1249; 1248; 1248; 1247; 1247; 1246; 1246; 1245; 1245;
  1245; 1244; 1244; 1243; 1243; 1242; 1242; 1241; 1241; 1240; 1240; 1240; 1239; 1239; 1238; 1238; 1237; 1237;
  1236; 1236; 1235; 1235; 1235; 1234; 1234; 1233; 1233; 1232; 1232; 1231; 1231; 1230; 1230; 1230; 1229; 1229;
  1228; 1228; 1227; 1227; 1226; 1226; 1225; 1225; 1225; 1224; 1224; 1223; 1223; 1222; 1222; 1221; 1221; 1220;
  1220; 1220; 1219; 1219; 1218; 1218; 1217; 1217; 1216; 1216; 1216; 1215; 1215; 1214; 1214; 1213; 1213; 1212;
  1212; 1211; 1211; 1211; 1210; 1210; 1209; 1209; 1208; 1208; 1207; 1207; 1206; 1206; 1206; 1205; 1205; 1204;
  1204; 1203; 1203; 1202; 1202; 1201; 1201; 1201; 1200; 1200; 1199; 1199; 1198; 1198; 1197; 1197; 1196; 1196;
  1196; 1195; 1195; 1194; 1194; 1193; 1193; 1192; 1192; 1191; 1191; 1191; 1190; 1190; 1189; 1189; 1188; 1188;
  1187; 1187; 1187; 1186; 1186; 1185; 1185; 1184; 1184; 1183; 1183; 1182; 1182; 1182; 1181; 1181; 1180; 1180;
  1179; 1179; 1178; 1178; 1177; 1177; 1177; 1176; 1176; 1175; 1175; 1174; 1174; 1173; 1173; 1172; 1172; 1172;
  1171; 1171; 1170; 1170; 1169; 1169; 1168; 1168; 1168; 1167; 1167; 1166; 1166; 1165; 1165; 1164; 1164; 1163;
  1163; 1163; 1162; 1162; 1161; 1161; 1160; 1160; 1159; 1159; 1158; 1158; 1158; 1157; 1157; 1156; 1156; 1155;
  1155; 1154; 1154; 1153; 1153; 1153; 1152; 1152; 1151; 1151; 1150; 1150; 1149; 1149; 1149; 1148; 1148; 1147;
  1147; 1146; 1146; 1145; 1145; 1144; 1144; 1144; 1143; 1143; 1142; 1142; 1141; 1141; 1140; 1140; 1139; 1139;
  1139; 1138; 1138; 1137; 1137; 1136; 1136; 1135; 1135; 1134; 1134; 1134; 1133; 1133; 1132; 1132; 1131; 1131].
Definition log_lut_70 : list Z := [
  1130; 1130; 1130; 1129; 1129; 1128; 1128; 1127; 1127; 1126; 1126; 1125; 1125; 1125; 1124; 1124; 1123; 1123;
  1122; 1122; 1121; 1121; 1120; 1120; 1120; 1119; 1119; 1118; 1118; 1117; 1117; 1116; 1116; 1116; 1115; 1115;
  1114; 1114; 1113; 1113; 1112; 1112; 1111; 1111; 1111; 1110; 1110; 1109; 1109; 1108; 1108; 1107; 1107; 1106;
  1106; 1106; 1105; 1105; 1104; 1104; 1103; 1103; 1102; 1102; 1102; 1101; 1101; 1100; 1100; 1099; 1099; 1098;
  1098; 1097; 1097; 1097; 1096; 1096; 1095; 1095; 1094; 1094; 1093; 1093; 1092; 1092; 1092; 1091; 1091; 1090;
  1090; 1089; 1089; 1088; 1088; 1088; 1087; 1087; 1086; 1086; 1085; 1085; 1084; 1084; 1083; 1083; 1083; 1082;
  1082; 1081; 1081; 1080; 1080; 1079; 1079; 1079; 1078; 1078; 1077; 1077; 1076; 1076; 1075; 1075; 1074; 1074;
  1074; 1073; 1073; 1072; 1072; 1071; 1071; 1070; 1070; 1069; 1069; 1069; 1068; 1068; 1067; 1067; 1066; 1066;
  1065; 1065; 1065; 1064; 1064; 1063; 1063; 1062; 1062; 1061; 1061; 1060; 1060; 1060; 1059; 1059; 1058; 1058;
  1057; 1057; 1056; 1056; 1056; 1055; 1055; 1054; 1054; 1053; 1053; 1052; 1052; 1051; 1051; 1051; 1050; 1050;
  1049; 1049; 1048; 1048; 1047; 1047; 1046; 1046; 1046; 1045; 1045; 1044; 1044; 1043; 1043; 1042; 1042; 1042;
  1041; 1041; 1040; 1040; 1039; 1039; 1038; 1038; 1037; 1037; 1037; 1036; 1036; 1035; 1035; 1034; 1034; 1033;
  1033; 1033; 1032; 1032; 1031; 1031; 1030; 1030; 1029; 1029; 1028; 1028; 1028; 1027; 1027; 1026; 1026; 1025;
  1025; 1024; 1024; 1024; 1023; 1023; 1022; 1022; 1021; 1021; 1020; 1020; 1019; 1019; 1019; 1018; 1018; 1017;
  1017; 1016; 1016; 1015; 1015; 1015; 1014; 1014; 1013; 1013; 1012; 1012; 1011; 1011; 1010; 1010; 1010; 1009;
  1009; 1008; 1008; 1007; 1007; 1006; 1006; 1006; 1005; 1005; 1004; 1004; 1003; 1003; 1002; 1002; 1001; 1001;
  1001; 1000; 1000; 999; 999; 998; 998; 997; 997; 997; 996; 996; 995; 995; 994; 994; 993; 993;
  992; 992; 992; 991; 991; 990; 990; 989; 989; 988; 988; 988; 987; 987; 986; 986; 985; 985;
  984; 984; 983; 983; 983; 982; 982; 981; 981; 980; 980; 979; 979; 979; 978; 978; 977; 977;
  976; 976; 975; 975; 974; 974; 974; 973; 973; 972; 972; 971; 971; 970; 970; 970; 969; 969;
  968; 968; 967; 967; 966; 966; 966; 965; 965; 964; 964; 963; 963; 962; 962; 961; 961; 961;
  960; 960; 959; 959; 958; 958; 957; 957; 957; 956; 956; 955; 955; 954; 954; 953; 953; 952;
  952; 952; 951; 951; 950; 950; 949; 949; 948; 948; 948; 947; 947; 946; 946; 945; 945; 944;
  944; 944; 943; 943; 942; 942; 941; 941; 940; 940; 939; 939; 939; 938; 938; 937; 937; 936;
  936; 935; 935; 935; 934; 934; 933; 933; 932; 932; 931; 931; 930; 930; 930; 929; 929; 928;
  928; 927; 927; 926; 926; 926; 925; 925; 924; 924; 923; 923; 922; 922; 922; 921; 921; 920;
  920; 919; 919; 918; 918; 917; 917; 917; 916; 916; 915; 915; 914; 914; 913; 913; 913; 912;
  912; 911; 911; 910; 910; 909; 909; 909; 908; 908; 907; 907; 906; 906; 905; 905; 904; 904;
  904; 903; 903; 902; 902; 901; 901; 900; 900; 900; 899; 899; 898; 898; 897; 897; 896; 896;
  896; 895; 895; 894; 894; 893; 893; 892; 892; 891; 891; 891; 890; 890; 889; 889; 888; 888;
  887; 887; 887; 886; 886; 885; 885; 884; 884; 883; 883; 883; 882; 882; 881; 881; 880; 880;
  879; 879; 878; 878; 878; 877; 877; 876; 876; 875; 875; 874; 874; 874; 873; 873; 872; 872;
  871; 871; 870; 870; 870; 869; 869; 868; 868; 867; 867; 866; 866; 865; 865; 865; 864; 864;
  863; 863; 862; 862; 861; 861; 861; 860; 860; 859; 859; 858; 858; 857; 857; 857; 856; 856;
  855; 855; 854; 854; 853; 853; 853; 852; 852; 851; 851; 850; 850; 849; 849; 848; 848; 848;
  847; 847; 846; 846; 845; 845; 844; 844; 844; 843; 843; 842; 842; 841; 841; 840; 840; 840;
  839; 839; 838; 838; 837; 837; 836; 836; 836; 835; 835; 834; 834; 833; 833; 832; 832; 831;
  831; 831; 830; 830; 829; 829; 828; 828; 827; 827; 827; 826; 826; 825; 825; 824; 824; 823;
  823; 823; 822; 822; 821; 821; 820; 820; 819; 819; 819; 818; 818; 817; 817; 816; 816; 815;
  815; 815; 814; 814; 813; 813; 812; 812; 811; 811; 810; 810; 810; 809; 809; 808; 808; 807;
  807; 806; 806; 806; 805; 805; 804; 804; 803; 803; 802; 802; 802; 801; 801; 800; 800; 799;
  799; 798; 798; 798; 797; 797; 796; 796; 795; 795; 794; 794; 794; 793; 793; 792; 792; 791;
  791; 790; 790; 789; 789; 789; 788; 788; 787; 787; 786; 786; 785; 785; 785; 784; 784; 783;
  783; 782; 782; 781; 781; 781; 780; 780; 779; 779; 778; 778; 777; 777; 777; 776; 776; 775;
  775; 774; 774; 773; 773; 773; 772; 772; 771; 771; 770; 770; 769; 769; 769; 768; 768; 767;
  767; 766; 766; 765; 765; 764; 764; 764; 763; 763; 762; 762; 761; 761; 760; 760; 760; 759;
  759; 758; 758; 757; 757; 756; 756; 756; 755; 755; 754; 754; 753; 753; 752; 752; 752; 751;
  751; 750; 750; 749; 749; 748; 748; 748; 747; 747; 746; 746; 745; 745; 744; 744; 744; 743;
  743; 742; 742; 741; 741; 740; 740; 740; 739; 739; 738; 738; 737; 737; 736; 736; 736; 735;
  735; 734; 734; 733; 733; 732; 732; 731; 731; 731; 730; 730; 729; 729; 728; 728; 727; 727].
Definition log_lut_71 : list Z := [
  727; 726; 726; 725; 725; 724; 724; 723; 723; 723; 722; 722; 721; 721; 720; 720; 719; 719;
  719; 718; 718; 717; 717; 716; 716; 715; 715; 715; 714; 714; 713; 713; 712; 712; 711; 711;
  711; 710; 710; 709; 709; 708; 708; 707; 707; 707; 706; 706; 705; 705; 704; 704; 703; 703;
  703; 702; 702; 701; 701; 700; 700; 699; 699; 699; 698; 698; 697; 697; 696; 696; 695; 695;
  695; 694; 694; 693; 693; 692; 692; 691; 691; 691; 690; 690; 689; 689; 688; 688; 687; 687;
  687; 686; 686; 685; 685; 684; 684; 683; 683; 683; 682; 682; 681; 681; 680; 680; 679; 679;
  679; 678; 678; 677; 677; 676; 676; 675; 675; 675; 674; 674; 673; 673; 672; 672; 671; 671;
  671; 670; 670; 669; 669; 668; 668; 667; 667; 667; 666; 666; 665; 665; 664; 664; 663; 663;
  663; 662; 662; 661; 661; 660; 660; 659; 659; 659; 658; 658; 657; 657; 656; 656; 655; 655;
  655; 654; 654; 653; 653; 652; 652; 651; 651; 651; 650; 650; 649; 649; 648; 648; 647; 647;
  647; 646; 646; 645; 645; 644; 644; 643; 643; 643; 642; 642; 641; 641; 640; 640; 639; 639;
  639; 638; 638; 637; 637; 636; 636; 635; 635; 635; 634; 634; 633; 633; 632; 632; 631; 631;
  631; 630; 630; 629; 629; 628; 628; 627; 627; 627; 626; 626; 625; 625; 624; 624; 623; 623;
  623; 622; 622; 621; 621; 620; 620; 619; 619; 619; 618; 618; 617; 617; 616; 616; 615; 615;
  615; 614; 614; 613; 613; 612; 612; 611; 611; 611; 610; 610; 609; 609; 608; 608; 607; 607;
  607; 606; 606; 605; 605; 604; 604; 603; 603; 603; 602; 602; 601; 601; 600; 600; 599; 599;
  599; 598; 598; 597; 597; 596; 596; 595; 595; 595; 594; 594; 593; 593; 592; 592; 591; 591;
  591; 590; 590; 589; 589; 588; 588; 587; 587; 587; 586; 586; 585; 585; 584; 584; 583; 583;
  583; 582; 582; 581; 581; 580; 580; 580; 579; 579; 578; 578; 577; 577; 576; 576; 576; 575;
  575; 574; 574; 573; 573; 572; 572; 572; 571; 571; 570; 570; 569; 569; 568; 568; 568; 567;
  567; 566; 566; 565; 565; 564; 564; 564; 563; 563; 562; 562; 561; 561; 560; 560; 560; 559;
  559; 558; 558; 557; 557; 556; 556; 556; 555; 555; 554; 554; 553; 553; 552; 552; 552; 551;
  551; 550; 550; 549; 549; 548; 548; 548; 547; 547; 546; 546; 545; 545; 545; 544; 544; 543;
  543; 542; 542; 541; 541; 541; 540; 540; 539; 539; 538; 538; 537; 537; 537; 536; 536; 535;
  535; 534; 534; 533; 533; 533; 532; 532; 531; 531; 530; 530; 529; 529; 529; 528; 528; 527;
  527; 526; 526; 525; 525; 525; 524; 524; 523; 523; 522; 522; 522; 521; 521; 520; 520; 519;
  519; 518; 518; 518; 517; 517; 516; 516; 515; 515; 514; 514; 514; 513; 513; 512; 512; 511;
  511; 510; 510; 510; 509; 509; 508; 508; 507; 507; 506; 506; 506; 505; 505; 504; 504; 503;
  503; 502; 502; 502; 501; 501; 500; 500; 499; 499; 499; 498; 498; 497; 497; 496; 496; 495;
  495; 495; 494; 494; 493; 493; 492; 492; 491; 491; 491; 490; 490; 489; 489; 488; 488; 487;
  487; 487; 486; 486; 485; 485; 484; 484; 483; 483; 483; 482; 482; 481; 481; 480; 480; 480;
  479; 479; 478; 478; 477; 477; 476; 476; 476; 475; 475; 474; 474; 473; 473; 472; 472; 472;
  471; 471; 470; 470; 469; 469; 468; 468; 468; 467; 467; 466; 466; 465; 465; 464; 464; 464;
  463; 463; 462; 462; 461; 461; 461; 460; 460; 459; 459; 458; 458; 457; 457; 457; 456; 456;
  455; 455; 454; 454; 453; 453; 453; 452; 452; 451; 451; 450; 450; 449; 449; 449; 448; 448;
  447; 447; 446; 446; 446; 445; 445; 444; 444; 443; 443; 442; 442; 442; 441; 441; 440; 440;
  439; 439; 438; 438; 438; 437; 437; 436; 436; 435; 435; 434; 434; 434; 433; 433; 432; 432;
  431; 431; 431; 430; 430; 429; 429; 428; 428; 427; 427; 427; 426; 426; 425; 425; 424; 424;
  423; 423; 423; 422; 422; 421; 421; 420; 420; 420; 419; 419; 418; 418; 417; 417; 416; 416;
  416; 415; 415; 414; 414; 413; 413; 412; 412; 412; 411; 411; 410; 410; 409; 409; 408; 408;
  408; 407; 407; 406; 406; 405; 405; 405; 404; 404; 403; 403; 402; 402; 401; 401; 401; 400;
  400; 399; 399; 398; 398; 397; 397; 397; 396; 396; 395; 395; 394; 394; 394; 393; 393; 392;
  392; 391; 391; 390; 390; 390; 389; 389; 388; 388; 387; 387; 386; 386; 386; 385; 385; 384;
  384; 383; 383; 383; 382; 382; 381; 381; 380; 380; 379; 379; 379; 378; 378; 377; 377; 376;
  376; 375; 375; 375; 374; 374; 373; 373; 372; 372; 372; 371; 371; 370; 370; 369; 369; 368;
  368; 368; 367; 367; 366; 366; 365; 365; 364; 364; 364; 363; 363; 362; 362; 361; 361; 361;
  360; 360; 359; 359; 358; 358; 357; 357; 357; 356; 356; 355; 355; 354; 354; 353; 353; 353;
  352; 352; 351; 351; 350; 350; 350; 349; 349; 348; 348; 347; 347; 346; 346; 346; 345; 345;
  344; 344; 343; 343; 342; 342; 342; 341; 341; 340; 340; 339; 339; 339; 338; 338; 337; 337;
  336; 336; 335; 335; 335; 334; 334; 333; 333; 332; 332; 331; 331; 331; 330; 330; 329; 329].
Definition log_lut_72 : list Z := [
  328; 328; 328; 327; 327; 326; 326; 325; 325; 324; 324; 324; 323; 323; 322; 322; 321; 321;
  321; 320; 320; 319; 319; 318; 318; 317; 317; 317; 316; 316; 315; 315; 314; 314; 313; 313;
  313; 312; 312; 311; 311; 310; 310; 310; 309; 309; 308; 308; 307; 307; 306; 306; 306; 305;
  305; 304; 304; 303; 303; 303; 302; 302; 301; 301; 300; 300; 299; 299; 299; 298; 298; 297;
  297; 296; 296; 295; 295; 295; 294; 294; 293; 293; 292; 292; 292; 291; 291; 290; 290; 289;
  289; 288; 288; 288; 287; 287; 286; 286; 285; 285; 285; 284; 284; 283; 283; 282; 282; 281;
  281; 281; 280; 280; 279; 279; 278; 278; 277; 277; 277; 276; 276; 275; 275; 274; 274; 274;
  273; 273; 272; 272; 271; 271; 270; 270; 270; 269; 269; 268; 268; 267; 267; 267; 266; 266;
  265; 265; 264; 264; 263; 263; 263; 262; 262; 261; 261; 260; 260; 260; 259; 259; 258; 258;
  257; 257; 256; 256; 256; 255; 255; 254; 254; 253; 253; 253; 252; 252; 251; 251; 250; 250;
  249; 249; 249; 248; 248; 247; 247; 246; 246; 246; 245; 245; 244; 244; 243; 243; 242; 242;
  242; 241; 241; 240; 240; 239; 239; 238; 238; 238; 237; 237; 236; 236; 235; 235; 235; 234;
  234; 233; 233; 232; 232; 231; 231; 231; 230; 230; 229; 229; 228; 228; 228; 227; 227; 226;
  226; 225; 225; 224; 224; 224; 223; 223; 222; 222; 221; 221; 221; 220; 220; 219; 219; 218;
  218; 217; 217; 217; 216; 216; 215; 215; 214; 214; 214; 213; 213; 212; 212; 211; 211; 210;
  210; 210; 209; 209; 208; 208; 207; 207; 207; 206; 206; 205; 205; 204; 204; 203; 203; 203;
  202; 202; 201; 201; 200; 200; 200; 199; 199; 198; 198; 197; 197; 196; 196; 196; 195; 195;
  194; 194; 193; 193; 193; 192; 192; 191; 191; 190; 190; 189; 189; 189; 188; 188; 187; 187;
  186; 186; 186; 185; 185; 184; 184; 183; 183; 182; 182; 182; 181; 181; 180; 180; 179; 179;
  179; 178; 178; 177; 177; 176; 176; 175; 175; 175; 174; 174; 173; 173; 172; 172; 172; 171;
  171; 170; 170; 169; 169; 169; 168; 168; 167; 167; 166; 166; 165; 165; 165; 164; 164; 163;
  163; 162; 162; 162; 161; 161; 160; 160; 159; 159; 158; 158; 158; 157; 157; 156; 156; 155;
  155; 155; 154; 154; 153; 153; 152; 152; 151; 151; 151; 150; 150; 149; 149; 148; 148; 148;
  147; 147; 146; 146; 145; 145; 144; 144; 144; 143; 143; 142; 142; 141; 141; 141; 140; 140;
  139; 139; 138; 138; 138; 137; 137; 136; 136; 135; 135; 134; 134; 134; 133; 133; 132; 132;
  131; 131; 131; 130; 130; 129; 129; 128; 128; 127; 127; 127; 126; 126; 125; 125; 124; 124;
  124; 123; 123; 122; 122; 121; 121; 120; 120; 120; 119; 119; 118; 118; 117; 117; 117; 116;
  116; 115; 115; 114; 114; 114; 113; 113; 112; 112; 111; 111; 110; 110; 110; 109; 109; 108;
  108; 107; 107; 107; 106; 106; 105; 105; 104; 104; 103; 103; 103; 102; 102; 101; 101; 100;
  100; 100; 99; 99; 98; 98; 97; 97; 97; 96; 96; 95; 95; 94; 94; 93; 93; 93;
  92; 92; 91; 91; 90; 90; 90; 89; 89; 88; 88; 87; 87; 86; 86; 86; 85; 85;
  84; 84; 83; 83; 83; 82; 82; 81; 81; 80; 80; 80; 79; 79; 78; 78; 77; 77;
  76; 76; 76; 75; 75; 74; 74; 73; 73; 73; 72; 72; 71; 71; 70; 70; 70; 69;
  69; 68; 68; 67; 67; 66; 66; 66; 65; 65; 64; 64; 63; 63; 63; 62; 62; 61;
  61; 60; 60; 59; 59; 59; 58; 58; 57; 57; 56; 56; 56; 55; 55; 54; 54; 53;
  53; 53; 52; 52; 51; 51; 50; 50; 49; 49; 49; 48; 48; 47; 47; 46; 46; 46;
  45; 45; 44; 44; 43; 43; 43; 42; 42; 41; 41; 40; 40; 39; 39; 39; 38; 38;
  37; 37; 36; 36; 36; 35; 35; 34; 34; 33; 33; 33; 32; 32; 31; 31; 30; 30;
  29; 29; 29; 28; 28; 27; 27; 26; 26; 26; 25; 25; 24; 24; 23; 23; 23; 22;
  22; 21; 21; 20; 20; 19; 19; 19; 18; 18; 17; 17; 16; 16; 16; 15; 15; 14;
  14; 13; 13; 13; 12; 12; 11; 11; 10; 10; 9; 9; 9; 8; 8; 7; 7; 6;
  6; 6; 5; 5; 4; 4; 3; 3; 3; 2; 2; 1; 1; 0; 0].
Definition pow_lut_0 : list Z := [
  41021;
  41020; 41019; 41018; 41017; 41016; 41015; 41014; 41013; 41012; 41011; 41010; 41009; 41008; 41007; 41006; 41005; 41004; 41003;
  41002; 41001; 41000; 40999; 40998; 40997; 40996; 40995; 40994; 40993; 40992; 40991; 40990; 40989; 40988; 40987; 40986; 40985;
  40984; 40983; 40982; 40981; 40980; 40979; 40978; 40977; 40976; 40975; 40974; 40973; 40972; 40971; 40970; 40969; 40968; 40967;
  40966; 40965; 40964; 40963; 40962; 40961; 40960; 40959; 40958; 40957; 40956; 40955; 40954; 40953; 40952; 40951; 40950; 40949;
  40948; 40947; 40946; 40945; 40944; 40942; 40941; 40940; 40939; 40938; 40937; 40936; 40935; 40934; 40933; 40932; 40931; 40930;
  40929; 40928; 40927; 40926; 40925; 40924; 40923; 40922; 40921; 40920; 40919; 40918; 40917; 40916; 40915; 40914; 40913; 40912;
  40911; 40910; 40909; 40908; 40907; 40906; 40905; 40904; 40903; 40902; 40901; 40900; 40899; 40898; 40897; 40896; 40895; 40894;
  40893; 40892; 40891; 40890; 40889; 40888; 40887; 40886; 40885; 40884; 40883; 40882; 40881; 40880; 40879; 40878; 40877; 40876;
  40875; 40874; 40873; 40872; 40871; 40870; 40869; 40868; 40867; 40866; 40865; 40864; 40863; 40862; 40861; 40860; 40859; 40858;
  40857; 40856; 40855; 40854; 40853; 40852; 40851; 40850; 40849; 40848; 40847; 40846; 40845; 40844; 40843; 40842; 40841; 40840;
  40839; 40838; 40837; 40836; 40835; 40834; 40833; 40832; 40831; 40830; 40829; 40828; 40827; 40826; 40825; 40824; 40823; 40822;
  40821; 40820; 40819; 40818; 40817; 40816; 40815; 40814; 40813; 40812; 40811; 40810; 40809; 40808; 40807; 40806; 40805; 40804;
  40803; 40802; 40801; 40800; 40799; 40798; 40797; 40796; 40795; 40794; 40793; 40792; 40791; 40790; 40789; 40788; 40787; 40786;
  40785; 40784; 40783; 40782; 40781; 40780; 40779; 40778; 40777; 40776; 40775; 40774; 40773; 40772; 40771; 40770; 40769; 40768;
  40767; 40766; 40765; 40764; 40763; 40762; 40761; 40760; 40759; 40758; 40757; 40756; 40755; 40754; 40753; 40752; 40751; 40750;
  40749; 40748; 40747; 40746; 40745; 40744; 40743; 40742; 40741; 40740; 40739; 40738; 40737; 40736; 40735; 40734; 40733; 40732;
  40731; 40730; 40729; 40728; 40727; 40726; 40725; 40724; 40723; 40722; 40721; 40720; 40719; 40718; 40717; 40716; 40715; 40714;
  40713; 40712; 40711; 40710; 40709; 40708; 40707; 40706; 40705; 40704; 40703; 40702; 40701; 40700; 40699; 40698; 40697; 40696;
  40695; 40694; 40693; 40692; 40691; 40690; 40689; 40688; 40687; 40686; 40685; 40684; 40683; 40682; 40681; 40680; 40679; 40678;
  40677; 40676; 40675; 40674; 40673; 40672; 40671; 40670; 40669; 40668; 40667; 40666; 40665; 40664; 40663; 40662; 40661; 40660;
  40659; 40658; 40657; 40656; 40655; 40654; 40653; 40652; 40651; 40650; 40649; 40648; 40647; 40646; 40645; 40644; 40643; 40642;
  40641; 40640; 40639; 40638; 40637; 40636; 40635; 40634; 40633; 40632; 40631; 40630; 40629; 40628; 40627; 40626; 40625; 40624;
  40623; 40622; 40621; 40620; 40619; 40618; 40617; 40616; 40615; 40614; 40613; 40612; 40611; 40610; 40609; 40608; 40607; 40606;
  40605; 40604; 40603; 40602; 40601; 40600; 40599; 40598; 40597; 40596; 40595; 40594; 40593; 40592; 40591; 40590; 40589; 40588;
  40587; 40586; 40585; 40584; 40583; 40582; 40581; 40580; 40579; 40578; 40577; 40576; 40575; 40574; 40573; 40572; 40571; 40570;
  40569; 40568; 40567; 40566; 40565; 40564; 40563; 40562; 40561; 40560; 40559; 40558; 40557; 40556; 40555; 40554; 40553; 40552;
  40551; 40550; 40549; 40548; 40547; 40546; 40545; 40544; 40543; 40542; 40541; 40540; 40539; 40538; 40537; 40536; 40535; 40534;
  40533; 40532; 40531; 40530; 40529; 40528; 40527; 40526; 40525; 40524; 40523; 40522; 40521; 40520; 40519; 40518; 40517; 40516;
  40515; 40514; 40513; 40512; 40511; 40510; 40509; 40508; 40507; 40506; 40505; 40504; 40503; 40502; 40501; 40500; 40499; 40498;
  40497; 40497; 40496; 40495; 40494; 40493; 40492; 40491; 40490; 40489; 40488; 40487; 40486; 40485; 40484; 40483; 40482; 40481;
  40480; 40479; 40478; 40477; 40476; 40475; 40474; 40473; 40472; 40471; 40470; 40469; 40468; 40467; 40466; 40465; 40464; 40463;
  40462; 40461; 40460; 40459; 40458; 40457; 40456; 40455; 40454; 40453; 40452; 40451; 40450; 40449; 40448; 40447; 40446; 40445;
  40444; 40443; 40442; 40441; 40440; 40439; 40438; 40437; 40436; 40435; 40434; 40433; 40432; 40431; 40430; 40429; 40428; 40427;
  40426; 40425; 40424; 40423; 40422; 40421; 40420; 40419; 40418; 40417; 40416; 40415; 40414; 40413; 40412; 40411; 40410; 40409;
  40408; 40407; 40406; 40405; 40404; 40403; 40402; 40401; 40400; 40399; 40398; 40397; 40396; 40395; 40394; 40393; 40392; 40391;
  40390; 40389; 40388; 40387; 40386; 40385; 40384; 40383; 40382; 40381; 40380; 40379; 40378; 40377; 40376; 40375; 40374; 40373;
  40372; 40371; 40370; 40369; 40368; 40367; 40366; 40365; 40364; 40363; 40362; 40361; 40360; 40359; 40358; 40358; 40357; 40356;
  40355; 40354; 40353; 40352; 40351; 40350; 40349; 40348; 40347; 40346; 40345; 40344; 40343; 40342; 40341; 40340; 40339; 40338;
  40337; 40336; 40335; 40334; 40333; 40332; 40331; 40330; 40329; 40328; 40327; 40326; 40325; 40324; 40323; 40322; 40321; 40320;
  40319; 40318; 40317; 40316; 40315; 40314; 40313; 40312; 40311; 40310; 40309; 40308; 40307; 40306; 40305; 40304; 40303; 40302;
  40301; 40300; 40299; 40298; 40297; 40296; 40295; 40294; 40293; 40292; 40291; 40290; 40289; 40288; 40287; 40286; 40285; 40284;
  40283; 40282; 40281; 40280; 40279; 40278; 40277; 40276; 40275; 40274; 40273; 40272; 40271; 40270; 40269; 40268; 40267; 40266;
  40265; 40264; 40263; 40262; 40261; 40260; 40260; 40259; 40258; 40257; 40256; 40255; 40254; 40253; 40252; 40251; 40250; 40249;
  40248; 40247; 40246; 40245; 40244; 40243; 40242; 40241; 40240; 40239; 40238; 40237; 40236; 40235; 40234; 40233; 40232; 40231;
  40230; 40229; 40228; 40227; 40226; 40225; 40224; 40223; 40222; 40221; 40220; 40219; 40218; 40217; 40216; 40215; 40214; 40213;
  40212; 40211; 40210; 40209; 40208; 40207; 40206; 40205; 40204; 40203; 40202; 40201; 40200; 40199; 40198; 40197; 40196; 40195;
  40194; 40193; 40192; 40191; 40190; 40189; 40188; 40187; 40186; 40185; 40184; 40183; 40182; 40181; 40180; 40179; 40179; 40178;
  40177; 40176; 40175; 40174; 40173; 40172; 40171; 40170; 40169; 40168; 40167; 40166; 40165; 40164; 40163; 40162; 40161; 40160;
  40159; 40158; 40157; 40156; 40155; 40154; 40153; 40152; 40151; 40150; 40149; 40148; 40147; 40146; 40145; 40144; 40143; 40142].
Definition pow_lut_1 : list Z := [
  40141; 40140; 40139; 40138; 40137; 40136; 40135; 40134; 40133; 40132; 40131; 40130; 40129; 40128; 40127; 40126; 40125; 40124;
  40123; 40122; 40121; 40120; 40119; 40118; 40117; 40116; 40115; 40114; 40113; 40112; 40111; 40110; 40110; 40109; 40108; 40107;
  40106; 40105; 40104; 40103; 40102; 40101; 40100; 40099; 40098; 40097; 40096; 40095; 40094; 40093; 40092; 40091; 40090; 40089;
  40088; 40087; 40086; 40085; 40084; 40083; 40082; 40081; 40080; 40079; 40078; 40077; 40076; 40075; 40074; 40073; 40072; 40071;
  40070; 40069; 40068; 40067; 40066; 40065; 40064; 40063; 40062; 40061; 40060; 40059; 40058; 40057; 40056; 40055; 40054; 40053;
  40052; 40051; 40050; 40049; 40048; 40047; 40047; 40046; 40045; 40044; 40043; 40042; 40041; 40040; 40039; 40038; 40037; 40036;
  40035; 40034; 40033; 40032; 40031; 40030; 40029; 40028; 40027; 40026; 40025; 40024; 40023; 40022; 40021; 40020; 40019; 40018;
  40017; 40016; 40015; 40014; 40013; 40012; 40011; 40010; 40009; 40008; 40007; 40006; 40005; 40004; 40003; 40002; 40001; 40000;
  39999; 39998; 39997; 39996; 39995; 39994; 39993; 39992; 39991; 39990; 39990; 39989; 39988; 39987; 39986; 39985; 39984; 39983;
  39982; 39981; 39980; 39979; 39978; 39977; 39976; 39975; 39974; 39973; 39972; 39971; 39970; 39969; 39968; 39967; 39966; 39965;
  39964; 39963; 39962; 39961; 39960; 39959; 39958; 39957; 39956; 39955; 39954; 39953; 39952; 39951; 39950; 39949; 39948; 39947;
  39946; 39945; 39944; 39943; 39942; 39941; 39940; 39939; 39938; 39937; 39937; 39936; 39935; 39934; 39933; 39932; 39931; 39930;
  39929; 39928; 39927; 39926; 39925; 39924; 39923; 39922; 39921; 39920; 39919; 39918; 39917; 39916; 39915; 39914; 39913; 39912;
  39911; 39910; 39909; 39908; 39907; 39906; 39905; 39904; 39903; 39902; 39901; 39900; 39899; 39898; 39897; 39896; 39895; 39894;
  39893; 39892; 39891; 39890; 39889; 39888; 39888; 39887; 39886; 39885; 39884; 39883; 39882; 39881; 39880; 39879; 39878; 39877;
  39876; 39875; 39874; 39873; 39872; 39871; 39870; 39869; 39868; 39867; 39866; 39865; 39864; 39863; 39862; 39861; 39860; 39859;
  39858; 39857; 39856; 39855; 39854; 39853; 39852; 39851; 39850; 39849; 39848; 39847; 39846; 39845; 39844; 39843; 39842; 39841;
  39841; 39840; 39839; 39838; 39837; 39836; 39835; 39834; 39833; 39832; 39831; 39830; 39829; 39828; 39827; 39826; 39825; 39824;
  39823; 39822; 39821; 39820; 39819; 39818; 39817; 39816; 39815; 39814; 39813; 39812; 39811; 39810; 39809; 39808; 39807; 39806;
  39805; 39804; 39803; 39802; 39801; 39800; 39799; 39798; 39797; 39797; 39796; 39795; 39794; 39793; 39792; 39791; 39790; 39789;
  39788; 39787; 39786; 39785; 39784; 39783; 39782; 39781; 39780; 39779; 39778; 39777; 39776; 39775; 39774; 39773; 39772; 39771;
  39770; 39769; 39768; 39767; 39766; 39765; 39764; 39763; 39762; 39761; 39760; 39759; 39758; 39757; 39756; 39755; 39755; 39754;
  39753; 39752; 39751; 39750; 39749; 39748; 39747; 39746; 39745; 39744; 39743; 39742; 39741; 39740; 39739; 39738; 39737; 39736;
  39735; 39734; 39733; 39732; 39731; 39730; 39729; 39728; 39727; 39726; 39725; 39724; 39723; 39722; 39721; 39720; 39719; 39718;
  39717; 39716; 39715; 39714; 39714; 39713; 39712; 39711; 39710; 39709; 39708; 39707; 39706; 39705; 39704; 39703; 39702; 39701;
  39700; 39699; 39698; 39697; 39696; 39695; 39694; 39693; 39692; 39691; 39690; 39689; 39688; 39687; 39686; 39685; 39684; 39683;
  39682; 39681; 39680; 39679; 39678; 39677; 39676; 39676; 39675; 39674; 39673; 39672; 39671; 39670; 39669; 39668; 39667; 39666;
  39665; 39664; 39663; 39662; 39661; 39660; 39659; 39658; 39657; 39656; 39655; 39654; 39653; 39652; 39651; 39650; 39649; 39648;
  39647; 39646; 39645; 39644; 39643; 39642; 39641; 39640; 39639; 39638; 39638; 39637; 39636; 39635; 39634; 39633; 39632; 39631;
  39630; 39629; 39628; 39627; 39626; 39625; 39624; 39623; 39622; 39621; 39620; 39619; 39618; 39617; 39616; 39615; 39614; 39613;
  39612; 39611; 39610; 39609; 39608; 39607; 39606; 39605; 39604; 39603; 39602; 39602; 39601; 39600; 39599; 39598; 39597; 39596;
  39595; 39594; 39593; 39592; 39591; 39590; 39589; 39588; 39587; 39586; 39585; 39584; 39583; 39582; 39581; 39580; 39579; 39578;
  39577; 39576; 39575; 39574; 39573; 39572; 39571; 39570; 39569; 39568; 39567; 39567; 39566; 39565; 39564; 39563; 39562; 39561;
  39560; 39559; 39558; 39557; 39556; 39555; 39554; 39553; 39552; 39551; 39550; 39549; 39548; 39547; 39546; 39545; 39544; 39543;
  39542; 39541; 39540; 39539; 39538; 39537; 39536; 39535; 39534; 39533; 39533; 39532; 39531; 39530; 39529; 39528; 39527; 39526;
  39525; 39524; 39523; 39522; 39521; 39520; 39519; 39518; 39517; 39516; 39515; 39514; 39513; 39512; 39511; 39510; 39509; 39508;
  39507; 39506; 39505; 39504; 39503; 39502; 39501; 39501; 39500; 39499; 39498; 39497; 39496; 39495; 39494; 39493; 39492; 39491;
  39490; 39489; 39488; 39487; 39486; 39485; 39484; 39483; 39482; 39481; 39480; 39479; 39478; 39477; 39476; 39475; 39474; 39473;
  39472; 39471; 39470; 39469; 39469; 39468; 39467; 39466; 39465; 39464; 39463; 39462; 39461; 39460; 39459; 39458; 39457; 39456;
  39455; 39454; 39453; 39452; 39451; 39450; 39449; 39448; 39447; 39446; 39445; 39444; 39443; 39442; 39441; 39440; 39439; 39438;
  39437; 39437; 39436; 39435; 39434; 39433; 39432; 39431; 39430; 39429; 39428; 39427; 39426; 39425; 39424; 39423; 39422; 39421;
  39420; 39419; 39418; 39417; 39416; 39415; 39414; 39413; 39412; 39411; 39410; 39409; 39408; 39407; 39407; 39406; 39405; 39404;
  39403; 39402; 39401; 39400; 39399; 39398; 39397; 39396; 39395; 39394; 39393; 39392; 39391; 39390; 39389; 39388; 39387; 39386;
  39385; 39384; 39383; 39382; 39381; 39380; 39379; 39378; 39377; 39377; 39376; 39375; 39374; 39373; 39372; 39371; 39370; 39369;
  39368; 39367; 39366; 39365; 39364; 39363; 39362; 39361; 39360; 39359; 39358; 39357; 39356; 39355; 39354; 39353; 39352; 39351;
  39350; 39349; 39348; 39348; 39347; 39346; 39345; 39344; 39343; 39342; 39341; 39340; 39339; 39338; 39337; 39336; 39335; 39334;
  39333; 39332; 39331; 39330; 39329; 39328; 39327; 39326; 39325; 39324; 39323; 39322; 39321; 39320; 39320; 39319; 39318; 39317;
  39316; 39315; 39314; 39313; 39312; 39311; 39310; 39309; 39308; 39307; 39306; 39305; 39304; 39303; 39302; 39301; 39300; 39299;
  39298; 39297; 39296; 39295; 39294; 39293; 39292; 39292; 39291; 39290; 39289; 39288; 39287; 39286; 39285; 39284; 39283; 39282;
  39281; 39280; 39279; 39278; 39277; 39276; 39275; 39274; 39273; 39272; 39271; 39270; 39269; 39268; 39267; 39266; 39265; 39265].
Definition pow_lut_2 : list Z := [
  39264; 39263; 39262; 39261; 39260; 39259; 39258; 39257; 39256; 39255; 39254; 39253; 39252; 39251; 39250; 39249; 39248; 39247;
  39246; 39245; 39244; 39243; 39242; 39241; 39240; 39239; 39238; 39238; 39237; 39236; 39235; 39234; 39233; 39232; 39231; 39230;
  39229; 39228; 39227; 39226; 39225; 39224; 39223; 39222; 39221; 39220; 39219; 39218; 39217; 39216; 39215; 39214; 39213; 39212;
  39212; 39211; 39210; 39209; 39208; 39207; 39206; 39205; 39204; 39203; 39202; 39201; 39200; 39199; 39198; 39197; 39196; 39195;
  39194; 39193; 39192; 39191; 39190; 39189; 39188; 39187; 39186; 39186; 39185; 39184; 39183; 39182; 39181; 39180; 39179; 39178;
  39177; 39176; 39175; 39174; 39173; 39172; 39171; 39170; 39169; 39168; 39167; 39166; 39165; 39164; 39163; 39162; 39161; 39161;
  39160; 39159; 39158; 39157; 39156; 39155; 39154; 39153; 39152; 39151; 39150; 39149; 39148; 39147; 39146; 39145; 39144; 39143;
  39142; 39141; 39140; 39139; 39138; 39137; 39136; 39136; 39135; 39134; 39133; 39132; 39131; 39130; 39129; 39128; 39127; 39126;
  39125; 39124; 39123; 39122; 39121; 39120; 39119; 39118; 39117; 39116; 39115; 39114; 39113; 39112; 39111; 39111; 39110; 39109;
  39108; 39107; 39106; 39105; 39104; 39103; 39102; 39101; 39100; 39099; 39098; 39097; 39096; 39095; 39094; 39093; 39092; 39091;
  39090; 39089; 39088; 39087; 39087; 39086; 39085; 39084; 39083; 39082; 39081; 39080; 39079; 39078; 39077; 39076; 39075; 39074;
  39073; 39072; 39071; 39070; 39069; 39068; 39067; 39066; 39065; 39064; 39063; 39063; 39062; 39061; 39060; 39059; 39058; 39057;
  39056; 39055; 39054; 39053; 39052; 39051; 39050; 39049; 39048; 39047; 39046; 39045; 39044; 39043; 39042; 39041; 39040; 39040;
  39039; 39038; 39037; 39036; 39035; 39034; 39033; 39032; 39031; 39030; 39029; 39028; 39027; 39026; 39025; 39024; 39023; 39022;
  39021; 39020; 39019; 39018; 39017; 39017; 39016; 39015; 39014; 39013; 39012; 39011; 39010; 39009; 39008; 39007; 39006; 39005;
  39004; 39003; 39002; 39001; 39000; 38999; 38998; 38997; 38996; 38995; 38994; 38994; 38993; 38992; 38991; 38990; 38989; 38988;
  38987; 38986; 38985; 38984; 38983; 38982; 38981; 38980; 38979; 38978; 38977; 38976; 38975; 38974; 38973; 38972; 38972; 38971;
  38970; 38969; 38968; 38967; 38966; 38965; 38964; 38963; 38962; 38961; 38960; 38959; 38958; 38957; 38956; 38955; 38954; 38953;
  38952; 38951; 38950; 38950; 38949; 38948; 38947; 38946; 38945; 38944; 38943; 38942; 38941; 38940; 38939; 38938; 38937; 38936;
  38935; 38934; 38933; 38932; 38931; 38930; 38929; 38928; 38928; 38927; 38926; 38925; 38924; 38923; 38922; 38921; 38920; 38919;
  38918; 38917; 38916; 38915; 38914; 38913; 38912; 38911; 38910; 38909; 38908; 38907; 38906; 38906; 38905; 38904; 38903; 38902;
  38901; 38900; 38899; 38898; 38897; 38896; 38895; 38894; 38893; 38892; 38891; 38890; 38889; 38888; 38887; 38886; 38885; 38885;
  38884; 38883; 38882; 38881; 38880; 38879; 38878; 38877; 38876; 38875; 38874; 38873; 38872; 38871; 38870; 38869; 38868; 38867;
  38866; 38865; 38864; 38864; 38863; 38862; 38861; 38860; 38859; 38858; 38857; 38856; 38855; 38854; 38853; 38852; 38851; 38850;
  38849; 38848; 38847; 38846; 38845; 38844; 38843; 38843; 38842; 38841; 38840; 38839; 38838; 38837; 38836; 38835; 38834; 38833;
  38832; 38831; 38830; 38829; 38828; 38827; 38826; 38825; 38824; 38823; 38822; 38822; 38821; 38820; 38819; 38818; 38817; 38816;
  38815; 38814; 38813; 38812; 38811; 38810; 38809; 38808; 38807; 38806; 38805; 38804; 38803; 38802; 38802; 38801; 38800; 38799;
  38798; 38797; 38796; 38795; 38794; 38793; 38792; 38791; 38790; 38789; 38788; 38787; 38786; 38785; 38784; 38783; 38782; 38782;
  38781; 38780; 38779; 38778; 38777; 38776; 38775; 38774; 38773; 38772; 38771; 38770; 38769; 38768; 38767; 38766; 38765; 38764;
  38763; 38762; 38762; 38761; 38760; 38759; 38758; 38757; 38756; 38755; 38754; 38753; 38752; 38751; 38750; 38749; 38748; 38747;
  38746; 38745; 38744; 38743; 38742; 38742; 38741; 38740; 38739; 38738; 38737; 38736; 38735; 38734; 38733; 38732; 38731; 38730;
  38729; 38728; 38727; 38726; 38725; 38724; 38723; 38723; 38722; 38721; 38720; 38719; 38718; 38717; 38716; 38715; 38714; 38713;
  38712; 38711; 38710; 38709; 38708; 38707; 38706; 38705; 38704; 38703; 38703; 38702; 38701; 38700; 38699; 38698; 38697; 38696;
  38695; 38694; 38693; 38692; 38691; 38690; 38689; 38688; 38687; 38686; 38685; 38684; 38684; 38683; 38682; 38681; 38680; 38679;
  38678; 38677; 38676; 38675; 38674; 38673; 38672; 38671; 38670; 38669; 38668; 38667; 38666; 38665; 38665; 38664; 38663; 38662;
  38661; 38660; 38659; 38658; 38657; 38656; 38655; 38654; 38653; 38652; 38651; 38650; 38649; 38648; 38647; 38647; 38646; 38645;
  38644; 38643; 38642; 38641; 38640; 38639; 38638; 38637; 38636; 38635; 38634; 38633; 38632; 38631; 38630; 38629; 38628; 38628;
  38627; 38626; 38625; 38624; 38623; 38622; 38621; 38620; 38619; 38618; 38617; 38616; 38615; 38614; 38613; 38612; 38611; 38610;
  38610; 38609; 38608; 38607; 38606; 38605; 38604; 38603; 38602; 38601; 38600; 38599; 38598; 38597; 38596; 38595; 38594; 38593;
  38592; 38591; 38591; 38590; 38589; 38588; 38587; 38586; 38585; 38584; 38583; 38582; 38581; 38580; 38579; 38578; 38577; 38576;
  38575; 38574; 38573; 38573; 38572; 38571; 38570; 38569; 38568; 38567; 38566; 38565; 38564; 38563; 38562; 38561; 38560; 38559;
  38558; 38557; 38556; 38556; 38555; 38554; 38553; 38552; 38551; 38550; 38549; 38548; 38547; 38546; 38545; 38544; 38543; 38542;
  38541; 38540; 38539; 38538; 38538; 38537; 38536; 38535; 38534; 38533; 38532; 38531; 38530; 38529; 38528; 38527; 38526; 38525;
  38524; 38523; 38522; 38521; 38520; 38520; 38519; 38518; 38517; 38516; 38515; 38514; 38513; 38512; 38511; 38510; 38509; 38508;
  38507; 38506; 38505; 38504; 38503; 38503; 38502; 38501; 38500; 38499; 38498; 38497; 38496; 38495; 38494; 38493; 38492; 38491;
  38490; 38489; 38488; 38487; 38486; 38485; 38485; 38484; 38483; 38482; 38481; 38480; 38479; 38478; 38477; 38476; 38475; 38474;
  38473; 38472; 38471; 38470; 38469; 38468; 38468; 38467; 38466; 38465; 38464; 38463; 38462; 38461; 38460; 38459; 38458; 38457;
  38456; 38455; 38454; 38453; 38452; 38451; 38451; 38450; 38449; 38448; 38447; 38446; 38445; 38444; 38443; 38442; 38441; 38440;
  38439; 38438; 38437; 38436; 38435; 38434; 38434; 38433; 38432; 38431; 38430; 38429; 38428; 38427; 38426; 38425; 38424; 38423;
  38422; 38421; 38420; 38419; 38418; 38418; 38417; 38416; 38415; 38414; 38413; 38412; 38411; 38410; 38409; 38408; 38407; 38406].
Definition pow_lut_3 : list Z := [
  38405; 38404; 38403; 38402; 38401; 38401; 38400; 38399; 38398; 38397; 38396; 38395; 38394; 38393; 38392; 38391; 38390; 38389;
  38388; 38387; 38386; 38385; 38384; 38384; 38383; 38382; 38381; 38380; 38379; 38378; 38377; 38376; 38375; 38374; 38373; 38372;
  38371; 38370; 38369; 38368; 38368; 38367; 38366; 38365; 38364; 38363; 38362; 38361; 38360; 38359; 38358; 38357; 38356; 38355;
  38354; 38353; 38352; 38352; 38351; 38350; 38349; 38348; 38347; 38346; 38345; 38344; 38343; 38342; 38341; 38340; 38339; 38338;
  38337; 38336; 38336; 38335; 38334; 38333; 38332; 38331; 38330; 38329; 38328; 38327; 38326; 38325; 38324; 38323; 38322; 38321;
  38320; 38320; 38319; 38318; 38317; 38316; 38315; 38314; 38313; 38312; 38311; 38310; 38309; 38308; 38307; 38306; 38305; 38304;
  38304; 38303; 38302; 38301; 38300; 38299; 38298; 38297; 38296; 38295; 38294; 38293; 38292; 38291; 38290; 38289; 38288; 38288;
  38287; 38286; 38285; 38284; 38283; 38282; 38281; 38280; 38279; 38278; 38277; 38276; 38275; 38274; 38273; 38272; 38272; 38271;
  38270; 38269; 38268; 38267; 38266; 38265; 38264; 38263; 38262; 38261; 38260; 38259; 38258; 38257; 38257; 38256; 38255; 38254;
  38253; 38252; 38251; 38250; 38249; 38248; 38247; 38246; 38245; 38244; 38243; 38242; 38241; 38241; 38240; 38239; 38238; 38237;
  38236; 38235; 38234; 38233; 38232; 38231; 38230; 38229; 38228; 38227; 38226; 38226; 38225; 38224; 38223; 38222; 38221; 38220;
  38219; 38218; 38217; 38216; 38215; 38214; 38213; 38212; 38211; 38211; 38210; 38209; 38208; 38207; 38206; 38205; 38204; 38203;
  38202; 38201; 38200; 38199; 38198; 38197; 38196; 38195; 38195; 38194; 38193; 38192; 38191; 38190; 38189; 38188; 38187; 38186;
  38185; 38184; 38183; 38182; 38181; 38180; 38180; 38179; 38178; 38177; 38176; 38175; 38174; 38173; 38172; 38171; 38170; 38169;
  38168; 38167; 38166; 38165; 38165; 38164; 38163; 38162; 38161; 38160; 38159; 38158; 38157; 38156; 38155; 38154; 38153; 38152;
  38151; 38150; 38150; 38149; 38148; 38147; 38146; 38145; 38144; 38143; 38142; 38141; 38140; 38139; 38138; 38137; 38136; 38136;
  38135; 38134; 38133; 38132; 38131; 38130; 38129; 38128; 38127; 38126; 38125; 38124; 38123; 38122; 38121; 38121; 38120; 38119;
  38118; 38117; 38116; 38115; 38114; 38113; 38112; 38111; 38110; 38109; 38108; 38107; 38106; 38106; 38105; 38104; 38103; 38102;
  38101; 38100; 38099; 38098; 38097; 38096; 38095; 38094; 38093; 38092; 38092; 38091; 38090; 38089; 38088; 38087; 38086; 38085;
  38084; 38083; 38082; 38081; 38080; 38079; 38078; 38077; 38077; 38076; 38075; 38074; 38073; 38072; 38071; 38070; 38069; 38068;
  38067; 38066; 38065; 38064; 38063; 38063; 38062; 38061; 38060; 38059; 38058; 38057; 38056; 38055; 38054; 38053; 38052; 38051;
  38050; 38049; 38049; 38048; 38047; 38046; 38045; 38044; 38043; 38042; 38041; 38040; 38039; 38038; 38037; 38036; 38035; 38034;
  38034; 38033; 38032; 38031; 38030; 38029; 38028; 38027; 38026; 38025; 38024; 38023; 38022; 38021; 38020; 38020; 38019; 38018;
  38017; 38016; 38015; 38014; 38013; 38012; 38011; 38010; 38009; 38008; 38007; 38006; 38006; 38005; 38004; 38003; 38002; 38001;
  38000; 37999; 37998; 37997; 37996; 37995; 37994; 37993; 37992; 37992; 37991; 37990; 37989; 37988; 37987; 37986; 37985; 37984;
  37983; 37982; 37981; 37980; 37979; 37978; 37978; 37977; 37976; 37975; 37974; 37973; 37972; 37971; 37970; 37969; 37968; 37967;
  37966; 37965; 37965; 37964; 37963; 37962; 37961; 37960; 37959; 37958; 37957; 37956; 37955; 37954; 37953; 37952; 37951; 37951;
  37950; 37949; 37948; 37947; 37946; 37945; 37944; 37943; 37942; 37941; 37940; 37939; 37938; 37937; 37937; 37936; 37935; 37934;
  37933; 37932; 37931; 37930; 37929; 37928; 37927; 37926; 37925; 37924; 37924; 37923; 37922; 37921; 37920; 37919; 37918; 37917;
  37916; 37915; 37914; 37913; 37912; 37911; 37910; 37910; 37909; 37908; 37907; 37906; 37905; 37904; 37903; 37902; 37901; 37900;
  37899; 37898; 37897; 37897; 37896; 37895; 37894; 37893; 37892; 37891; 37890; 37889; 37888; 37887; 37886; 37885; 37884; 37883;
  37883; 37882; 37881; 37880; 37879; 37878; 37877; 37876; 37875; 37874; 37873; 37872; 37871; 37870; 37870; 37869; 37868; 37867;
  37866; 37865; 37864; 37863; 37862; 37861; 37860; 37859; 37858; 37857; 37857; 37856; 37855; 37854; 37853; 37852; 37851; 37850;
  37849; 37848; 37847; 37846; 37845; 37844; 37843; 37843; 37842; 37841; 37840; 37839; 37838; 37837; 37836; 37835; 37834; 37833;
  37832; 37831; 37830; 37830; 37829; 37828; 37827; 37826; 37825; 37824; 37823; 37822; 37821; 37820; 37819; 37818; 37817; 37817;
  37816; 37815; 37814; 37813; 37812; 37811; 37810; 37809; 37808; 37807; 37806; 37805; 37804; 37804; 37803; 37802; 37801; 37800;
  37799; 37798; 37797; 37796; 37795; 37794; 37793; 37792; 37791; 37791; 37790; 37789; 37788; 37787; 37786; 37785; 37784; 37783;
  37782; 37781; 37780; 37779; 37778; 37778; 37777; 37776; 37775; 37774; 37773; 37772; 37771; 37770; 37769; 37768; 37767; 37766;
  37766; 37765; 37764; 37763; 37762; 37761; 37760; 37759; 37758; 37757; 37756; 37755; 37754; 37753; 37753; 37752; 37751; 37750;
  37749; 37748; 37747; 37746; 37745; 37744; 37743; 37742; 37741; 37740; 37740; 37739; 37738; 37737; 37736; 37735; 37734; 37733;
  37732; 37731; 37730; 37729; 37728; 37727; 37727; 37726; 37725; 37724; 37723; 37722; 37721; 37720; 37719; 37718; 37717; 37716;
  37715; 37715; 37714; 37713; 37712; 37711; 37710; 37709; 37708; 37707; 37706; 37705; 37704; 37703; 37702; 37702; 37701; 37700;
  37699; 37698; 37697; 37696; 37695; 37694; 37693; 37692; 37691; 37690; 37690; 37689; 37688; 37687; 37686; 37685; 37684; 37683;
  37682; 37681; 37680; 37679; 37678; 37677; 37677; 37676; 37675; 37674; 37673; 37672; 37671; 37670; 37669; 37668; 37667; 37666;
  37665; 37665; 37664; 37663; 37662; 37661; 37660; 37659; 37658; 37657; 37656; 37655; 37654; 37653; 37653; 37652; 37651; 37650;
  37649; 37648; 37647; 37646; 37645; 37644; 37643; 37642; 37641; 37641; 37640; 37639; 37638; 37637; 37636; 37635; 37634; 37633;
  37632; 37631; 37630; 37629; 37628; 37628; 37627; 37626; 37625; 37624; 37623; 37622; 37621; 37620; 37619; 37618; 37617; 37616;
  37616; 37615; 37614; 37613; 37612; 37611; 37610; 37609; 37608; 37607; 37606; 37605; 37604; 37604; 37603; 37602; 37601; 37600;
  37599; 37598; 37597; 37596; 37595; 37594; 37593; 37592; 37592; 37591; 37590; 37589; 37588; 37587; 37586; 37585; 37584; 37583;
  37582; 37581; 37580; 37580; 37579; 37578; 37577; 37576; 37575; 37574; 37573; 37572; 37571; 37570; 37569; 37568; 37568; 37567].
Definition pow_lut_4 : list Z := [
  37566; 37565; 37564; 37563; 37562; 37561; 37560; 37559; 37558; 37557; 37556; 37556; 37555; 37554; 37553; 37552; 37551; 37550;
  37549; 37548; 37547; 37546; 37545; 37544; 37544; 37543; 37542; 37541; 37540; 37539; 37538; 37537; 37536; 37535; 37534; 37533;
  37533; 37532; 37531; 37530; 37529; 37528; 37527; 37526; 37525; 37524; 37523; 37522; 37521; 37521; 37520; 37519; 37518; 37517;
  37516; 37515; 37514; 37513; 37512; 37511; 37510; 37509; 37509; 37508; 37507; 37506; 37505; 37504; 37503; 37502; 37501; 37500;
  37499; 37498; 37497; 37497; 37496; 37495; 37494; 37493; 37492; 37491; 37490; 37489; 37488; 37487; 37486; 37486; 37485; 37484;
  37483; 37482; 37481; 37480; 37479; 37478; 37477; 37476; 37475; 37474; 37474; 37473; 37472; 37471; 37470; 37469; 37468; 37467;
  37466; 37465; 37464; 37463; 37463; 37462; 37461; 37460; 37459; 37458; 37457; 37456; 37455; 37454; 37453; 37452; 37451; 37451;
  37450; 37449; 37448; 37447; 37446; 37445; 37444; 37443; 37442; 37441; 37440; 37440; 37439; 37438; 37437; 37436; 37435; 37434;
  37433; 37432; 37431; 37430; 37429; 37428; 37428; 37427; 37426; 37425; 37424; 37423; 37422; 37421; 37420; 37419; 37418; 37417;
  37417; 37416; 37415; 37414; 37413; 37412; 37411; 37410; 37409; 37408; 37407; 37406; 37406; 37405; 37404; 37403; 37402; 37401;
  37400; 37399; 37398; 37397; 37396; 37395; 37394; 37394; 37393; 37392; 37391; 37390; 37389; 37388; 37387; 37386; 37385; 37384;
  37383; 37383; 37382; 37381; 37380; 37379; 37378; 37377; 37376; 37375; 37374; 37373; 37372; 37372; 37371; 37370; 37369; 37368;
  37367; 37366; 37365; 37364; 37363; 37362; 37361; 37361; 37360; 37359; 37358; 37357; 37356; 37355; 37354; 37353; 37352; 37351;
  37350; 37350; 37349; 37348; 37347; 37346; 37345; 37344; 37343; 37342; 37341; 37340; 37339; 37339; 37338; 37337; 37336; 37335;
  37334; 37333; 37332; 37331; 37330; 37329; 37328; 37328; 37327; 37326; 37325; 37324; 37323; 37322; 37321; 37320; 37319; 37318;
  37317; 37317; 37316; 37315; 37314; 37313; 37312; 37311; 37310; 37309; 37308; 37307; 37306; 37306; 37305; 37304; 37303; 37302;
  37301; 37300; 37299; 37298; 37297; 37296; 37295; 37295; 37294; 37293; 37292; 37291; 37290; 37289; 37288; 37287; 37286; 37285;
  37284; 37284; 37283; 37282; 37281; 37280; 37279; 37278; 37277; 37276; 37275; 37274; 37273; 37273; 37272; 37271; 37270; 37269;
  37268; 37267; 37266; 37265; 37264; 37263; 37262; 37262; 37261; 37260; 37259; 37258; 37257; 37256; 37255; 37254; 37253; 37252;
  37252; 37251; 37250; 37249; 37248; 37247; 37246; 37245; 37244; 37243; 37242; 37241; 37241; 37240; 37239; 37238; 37237; 37236;
  37235; 37234; 37233; 37232; 37231; 37230; 37230; 37229; 37228; 37227; 37226; 37225; 37224; 37223; 37222; 37221; 37220; 37220;
  37219; 37218; 37217; 37216; 37215; 37214; 37213; 37212; 37211; 37210; 37209; 37209; 37208; 37207; 37206; 37205; 37204; 37203;
  37202; 37201; 37200; 37199; 37198; 37198; 37197; 37196; 37195; 37194; 37193; 37192; 37191; 37190; 37189; 37188; 37188; 37187;
  37186; 37185; 37184; 37183; 37182; 37181; 37180; 37179; 37178; 37177; 37177; 37176; 37175; 37174; 37173; 37172; 37171; 37170;
  37169; 37168; 37167; 37167; 37166; 37165; 37164; 37163; 37162; 37161; 37160; 37159; 37158; 37157; 37156; 37156; 37155; 37154;
  37153; 37152; 37151; 37150; 37149; 37148; 37147; 37146; 37146; 37145; 37144; 37143; 37142; 37141; 37140; 37139; 37138; 37137;
  37136; 37136; 37135; 37134; 37133; 37132; 37131; 37130; 37129; 37128; 37127; 37126; 37125; 37125; 37124; 37123; 37122; 37121;
  37120; 37119; 37118; 37117; 37116; 37115; 37115; 37114; 37113; 37112; 37111; 37110; 37109; 37108; 37107; 37106; 37105; 37105;
  37104; 37103; 37102; 37101; 37100; 37099; 37098; 37097; 37096; 37095; 37094; 37094; 37093; 37092; 37091; 37090; 37089; 37088;
  37087; 37086; 37085; 37084; 37084; 37083; 37082; 37081; 37080; 37079; 37078; 37077; 37076; 37075; 37074; 37074; 37073; 37072;
  37071; 37070; 37069; 37068; 37067; 37066; 37065; 37064; 37064; 37063; 37062; 37061; 37060; 37059; 37058; 37057; 37056; 37055;
  37054; 37054; 37053; 37052; 37051; 37050; 37049; 37048; 37047; 37046; 37045; 37044; 37044; 37043; 37042; 37041; 37040; 37039;
  37038; 37037; 37036; 37035; 37034; 37034; 37033; 37032; 37031; 37030; 37029; 37028; 37027; 37026; 37025; 37024; 37024; 37023;
  37022; 37021; 37020; 37019; 37018; 37017; 37016; 37015; 37014; 37014; 37013; 37012; 37011; 37010; 37009; 37008; 37007; 37006;
  37005; 37004; 37004; 37003; 37002; 37001; 37000; 36999; 36998; 36997; 36996; 36995; 36994; 36994; 36993; 36992; 36991; 36990;
  36989; 36988; 36987; 36986; 36985; 36984; 36984; 36983; 36982; 36981; 36980; 36979; 36978; 36977; 36976; 36975; 36974; 36974;
  36973; 36972; 36971; 36970; 36969; 36968; 36967; 36966; 36965; 36964; 36964; 36963; 36962; 36961; 36960; 36959; 36958; 36957;
  36956; 36955; 36954; 36954; 36953; 36952; 36951; 36950; 36949; 36948; 36947; 36946; 36945; 36944; 36944; 36943; 36942; 36941;
  36940; 36939; 36938; 36937; 36936; 36935; 36935; 36934; 36933; 36932; 36931; 36930; 36929; 36928; 36927; 36926; 36925; 36925;
  36924; 36923; 36922; 36921; 36920; 36919; 36918; 36917; 36916; 36915; 36915; 36914; 36913; 36912; 36911; 36910; 36909; 36908;
  36907; 36906; 36905; 36905; 36904; 36903; 36902; 36901; 36900; 36899; 36898; 36897; 36896; 36896; 36895; 36894; 36893; 36892;
  36891; 36890; 36889; 36888; 36887; 36886; 36886; 36885; 36884; 36883; 36882; 36881; 36880; 36879; 36878; 36877; 36876; 36876;
  36875; 36874; 36873; 36872; 36871; 36870; 36869; 36868; 36867; 36867; 36866; 36865; 36864; 36863; 36862; 36861; 36860; 36859;
  36858; 36857; 36857; 36856; 36855; 36854; 36853; 36852; 36851; 36850; 36849; 36848; 36848; 36847; 36846; 36845; 36844; 36843;
  36842; 36841; 36840; 36839; 36838; 36838; 36837; 36836; 36835; 36834; 36833; 36832; 36831; 36830; 36829; 36829; 36828; 36827;
  36826; 36825; 36824; 36823; 36822; 36821; 36820; 36819; 36819; 36818; 36817; 36816; 36815; 36814; 36813; 36812; 36811; 36810;
  36810; 36809; 36808; 36807; 36806; 36805; 36804; 36803; 36802; 36801; 36801; 36800; 36799; 36798; 36797; 36796; 36795; 36794;
  36793; 36792; 36791; 36791; 36790; 36789; 36788; 36787; 36786; 36785; 36784; 36783; 36782; 36782; 36781; 36780; 36779; 36778;
  36777; 36776; 36775; 36774; 36773; 36772; 36772; 36771; 36770; 36769; 36768; 36767; 36766; 36765; 36764; 36763; 36763; 36762;
  36761; 36760; 36759; 36758; 36757; 36756; 36755; 36754; 36754; 36753; 36752; 36751; 36750; 36749; 36748; 36747; 36746; 36745].
Definition pow_lut_5 : list Z := [
  36745; 36744; 36743; 36742; 36741; 36740; 36739; 36738; 36737; 36736; 36735; 36735; 36734; 36733; 36732; 36731; 36730; 36729;
  36728; 36727; 36726; 36726; 36725; 36724; 36723; 36722; 36721; 36720; 36719; 36718; 36717; 36717; 36716; 36715; 36714; 36713;
  36712; 36711; 36710; 36709; 36708; 36708; 36707; 36706; 36705; 36704; 36703; 36702; 36701; 36700; 36699; 36699; 36698; 36697;
  36696; 36695; 36694; 36693; 36692; 36691; 36690; 36690; 36689; 36688; 36687; 36686; 36685; 36684; 36683; 36682; 36681; 36680;
  36680; 36679; 36678; 36677; 36676; 36675; 36674; 36673; 36672; 36671; 36671; 36670; 36669; 36668; 36667; 36666; 36665; 36664;
  36663; 36662; 36662; 36661; 36660; 36659; 36658; 36657; 36656; 36655; 36654; 36653; 36653; 36652; 36651; 36650; 36649; 36648;
  36647; 36646; 36645; 36644; 36644; 36643; 36642; 36641; 36640; 36639; 36638; 36637; 36636; 36635; 36635; 36634; 36633; 36632;
  36631; 36630; 36629; 36628; 36627; 36626; 36626; 36625; 36624; 36623; 36622; 36621; 36620; 36619; 36618; 36617; 36617; 36616;
  36615; 36614; 36613; 36612; 36611; 36610; 36609; 36609; 36608; 36607; 36606; 36605; 36604; 36603; 36602; 36601; 36600; 36600;
  36599; 36598; 36597; 36596; 36595; 36594; 36593; 36592; 36591; 36591; 36590; 36589; 36588; 36587; 36586; 36585; 36584; 36583;
  36582; 36582; 36581; 36580; 36579; 36578; 36577; 36576; 36575; 36574; 36573; 36573; 36572; 36571; 36570; 36569; 36568; 36567;
  36566; 36565; 36564; 36564; 36563; 36562; 36561; 36560; 36559; 36558; 36557; 36556; 36555; 36555; 36554; 36553; 36552; 36551;
  36550; 36549; 36548; 36547; 36547; 36546; 36545; 36544; 36543; 36542; 36541; 36540; 36539; 36538; 36538; 36537; 36536; 36535;
  36534; 36533; 36532; 36531; 36530; 36529; 36529; 36528; 36527; 36526; 36525; 36524; 36523; 36522; 36521; 36521; 36520; 36519;
  36518; 36517; 36516; 36515; 36514; 36513; 36512; 36512; 36511; 36510; 36509; 36508; 36507; 36506; 36505; 36504; 36503; 36503;
  36502; 36501; 36500; 36499; 36498; 36497; 36496; 36495; 36495; 36494; 36493; 36492; 36491; 36490; 36489; 36488; 36487; 36486;
  36486; 36485; 36484; 36483; 36482; 36481; 36480; 36479; 36478; 36477; 36477; 36476; 36475; 36474; 36473; 36472; 36471; 36470;
  36469; 36469; 36468; 36467; 36466; 36465; 36464; 36463; 36462; 36461; 36460; 36460; 36459; 36458; 36457; 36456; 36455; 36454;
  36453; 36452; 36452; 36451; 36450; 36449; 36448; 36447; 36446; 36445; 36444; 36443; 36443; 36442; 36441; 36440; 36439; 36438;
  36437; 36436; 36435; 36435; 36434; 36433; 36432; 36431; 36430; 36429; 36428; 36427; 36426; 36426; 36425; 36424; 36423; 36422;
  36421; 36420; 36419; 36418; 36418; 36417; 36416; 36415; 36414; 36413; 36412; 36411; 36410; 36409; 36409; 36408; 36407; 36406;
  36405; 36404; 36403; 36402; 36401; 36401; 36400; 36399; 36398; 36397; 36396; 36395; 36394; 36393; 36392; 36392; 36391; 36390;
  36389; 36388; 36387; 36386; 36385; 36384; 36384; 36383; 36382; 36381; 36380; 36379; 36378; 36377; 36376; 36375; 36375; 36374;
  36373; 36372; 36371; 36370; 36369; 36368; 36367; 36367; 36366; 36365; 36364; 36363; 36362; 36361; 36360; 36359; 36359; 36358;
  36357; 36356; 36355; 36354; 36353; 36352; 36351; 36350; 36350; 36349; 36348; 36347; 36346; 36345; 36344; 36343; 36342; 36342;
  36341; 36340; 36339; 36338; 36337; 36336; 36335; 36334; 36334; 36333; 36332; 36331; 36330; 36329; 36328; 36327; 36326; 36326;
  36325; 36324; 36323; 36322; 36321; 36320; 36319; 36318; 36317; 36317; 36316; 36315; 36314; 36313; 36312; 36311; 36310; 36309;
  36309; 36308; 36307; 36306; 36305; 36304; 36303; 36302; 36301; 36301; 36300; 36299; 36298; 36297; 36296; 36295; 36294; 36293;
  36293; 36292; 36291; 36290; 36289; 36288; 36287; 36286; 36285; 36284; 36284; 36283; 36282; 36281; 36280; 36279; 36278; 36277;
  36276; 36276; 36275; 36274; 36273; 36272; 36271; 36270; 36269; 36268; 36268; 36267; 36266; 36265; 36264; 36263; 36262; 36261;
  36260; 36260; 36259; 36258; 36257; 36256; 36255; 36254; 36253; 36252; 36252; 36251; 36250; 36249; 36248; 36247; 36246; 36245;
  36244; 36244; 36243; 36242; 36241; 36240; 36239; 36238; 36237; 36236; 36236; 36235; 36234; 36233; 36232; 36231; 36230; 36229;
  36228; 36228; 36227; 36226; 36225; 36224; 36223; 36222; 36221; 36220; 36220; 36219; 36218; 36217; 36216; 36215; 36214; 36213;
  36212; 36211; 36211; 36210; 36209; 36208; 36207; 36206; 36205; 36204; 36203; 36203; 36202; 36201; 36200; 36199; 36198; 36197;
  36196; 36195; 36195; 36194; 36193; 36192; 36191; 36190; 36189; 36188; 36187; 36187; 36186; 36185; 36184; 36183; 36182; 36181;
  36180; 36179; 36179; 36178; 36177; 36176; 36175; 36174; 36173; 36172; 36171; 36171; 36170; 36169; 36168; 36167; 36166; 36165;
  36164; 36164; 36163; 36162; 36161; 36160; 36159; 36158; 36157; 36156; 36156; 36155; 36154; 36153; 36152; 36151; 36150; 36149;
  36148; 36148; 36147; 36146; 36145; 36144; 36143; 36142; 36141; 36140; 36140; 36139; 36138; 36137; 36136; 36135; 36134; 36133;
  36132; 36132; 36131; 36130; 36129; 36128; 36127; 36126; 36125; 36124; 36124; 36123; 36122; 36121; 36120; 36119; 36118; 36117;
  36116; 36116; 36115; 36114; 36113; 36112; 36111; 36110; 36109; 36108; 36108; 36107; 36106; 36105; 36104; 36103; 36102; 36101;
  36101; 36100; 36099; 36098; 36097; 36096; 36095; 36094; 36093; 36093; 36092; 36091; 36090; 36089; 36088; 36087; 36086; 36085;
  36085; 36084; 36083; 36082; 36081; 36080; 36079; 36078; 36077; 36077; 36076; 36075; 36074; 36073; 36072; 36071; 36070; 36069;
  36069; 36068; 36067; 36066; 36065; 36064; 36063; 36062; 36062; 36061; 36060; 36059; 36058; 36057; 36056; 36055; 36054; 36054;
  36053; 36052; 36051; 36050; 36049; 36048; 36047; 36046; 36046; 36045; 36044; 36043; 36042; 36041; 36040; 36039; 36038; 36038;
  36037; 36036; 36035; 36034; 36033; 36032; 36031; 36031; 36030; 36029; 36028; 36027; 36026; 36025; 36024; 36023; 36023; 36022;
  36021; 36020; 36019; 36018; 36017; 36016; 36015; 36015; 36014; 36013; 36012; 36011; 36010; 36009; 36008; 36008; 36007; 36006;
  36005; 36004; 36003; 36002; 36001; 36000; 36000; 35999; 35998; 35997; 35996; 35995; 35994; 35993; 35993; 35992; 35991; 35990;
  35989; 35988; 35987; 35986; 35985; 35985; 35984; 35983; 35982; 35981; 35980; 35979; 35978; 35977; 35977; 35976; 35975; 35974;
  35973; 35972; 35971; 35970; 35970; 35969; 35968; 35967; 35966; 35965; 35964; 35963; 35962; 35962; 35961; 35960; 35959; 35958;
  35957; 35956; 35955; 35955; 35954; 35953; 35952; 35951; 35950; 35949; 35948; 35947; 35947; 35946; 35945; 35944; 35943; 35942].
Definition pow_lut_6 : list Z := [
  35941; 35940; 35940; 35939; 35938; 35937; 35936; 35935; 35934; 35933; 35932; 35932; 35931; 35930; 35929; 35928; 35927; 35926;
  35925; 35925; 35924; 35923; 35922; 35921; 35920; 35919; 35918; 35917; 35917; 35916; 35915; 35914; 35913; 35912; 35911; 35910;
  35910; 35909; 35908; 35907; 35906; 35905; 35904; 35903; 35902; 35902; 35901; 35900; 35899; 35898; 35897; 35896; 35895; 35895;
  35894; 35893; 35892; 35891; 35890; 35889; 35888; 35887; 35887; 35886; 35885; 35884; 35883; 35882; 35881; 35880; 35880; 35879;
  35878; 35877; 35876; 35875; 35874; 35873; 35872; 35872; 35871; 35870; 35869; 35868; 35867; 35866; 35865; 35865; 35864; 35863;
  35862; 35861; 35860; 35859; 35858; 35858; 35857; 35856; 35855; 35854; 35853; 35852; 35851; 35850; 35850; 35849; 35848; 35847;
  35846; 35845; 35844; 35843; 35843; 35842; 35841; 35840; 35839; 35838; 35837; 35836; 35836; 35835; 35834; 35833; 35832; 35831;
  35830; 35829; 35828; 35828; 35827; 35826; 35825; 35824; 35823; 35822; 35821; 35821; 35820; 35819; 35818; 35817; 35816; 35815;
  35814; 35814; 35813; 35812; 35811; 35810; 35809; 35808; 35807; 35806; 35806; 35805; 35804; 35803; 35802; 35801; 35800; 35799;
  35799; 35798; 35797; 35796; 35795; 35794; 35793; 35792; 35792; 35791; 35790; 35789; 35788; 35787; 35786; 35785; 35785; 35784;
  35783; 35782; 35781; 35780; 35779; 35778; 35777; 35777; 35776; 35775; 35774; 35773; 35772; 35771; 35770; 35770; 35769; 35768;
  35767; 35766; 35765; 35764; 35763; 35763; 35762; 35761; 35760; 35759; 35758; 35757; 35756; 35756; 35755; 35754; 35753; 35752;
  35751; 35750; 35749; 35748; 35748; 35747; 35746; 35745; 35744; 35743; 35742; 35741; 35741; 35740; 35739; 35738; 35737; 35736;
  35735; 35734; 35734; 35733; 35732; 35731; 35730; 35729; 35728; 35727; 35727; 35726; 35725; 35724; 35723; 35722; 35721; 35720;
  35720; 35719; 35718; 35717; 35716; 35715; 35714; 35713; 35713; 35712; 35711; 35710; 35709; 35708; 35707; 35706; 35705; 35705;
  35704; 35703; 35702; 35701; 35700; 35699; 35698; 35698; 35697; 35696; 35695; 35694; 35693; 35692; 35691; 35691; 35690; 35689;
  35688; 35687; 35686; 35685; 35684; 35684; 35683; 35682; 35681; 35680; 35679; 35678; 35677; 35677; 35676; 35675; 35674; 35673;
  35672; 35671; 35670; 35670; 35669; 35668; 35667; 35666; 35665; 35664; 35663; 35663; 35662; 35661; 35660; 35659; 35658; 35657;
  35656; 35656; 35655; 35654; 35653; 35652; 35651; 35650; 35649; 35649; 35648; 35647; 35646; 35645; 35644; 35643; 35642; 35642;
  35641; 35640; 35639; 35638; 35637; 35636; 35635; 35635; 35634; 35633; 35632; 35631; 35630; 35629; 35628; 35628; 35627; 35626;
  35625; 35624; 35623; 35622; 35621; 35621; 35620; 35619; 35618; 35617; 35616; 35615; 35614; 35614; 35613; 35612; 35611; 35610;
  35609; 35608; 35607; 35607; 35606; 35605; 35604; 35603; 35602; 35601; 35600; 35600; 35599; 35598; 35597; 35596; 35595; 35594;
  35593; 35593; 35592; 35591; 35590; 35589; 35588; 35587; 35586; 35586; 35585; 35584; 35583; 35582; 35581; 35580; 35579; 35579;
  35578; 35577; 35576; 35575; 35574; 35573; 35572; 35572; 35571; 35570; 35569; 35568; 35567; 35566; 35565; 35565; 35564; 35563;
  35562; 35561; 35560; 35559; 35558; 35558; 35557; 35556; 35555; 35554; 35553; 35552; 35552; 35551; 35550; 35549; 35548; 35547;
  35546; 35545; 35545; 35544; 35543; 35542; 35541; 35540; 35539; 35538; 35538; 35537; 35536; 35535; 35534; 35533; 35532; 35531;
  35531; 35530; 35529; 35528; 35527; 35526; 35525; 35524; 35524; 35523; 35522; 35521; 35520; 35519; 35518; 35517; 35517; 35516;
  35515; 35514; 35513; 35512; 35511; 35510; 35510; 35509; 35508; 35507; 35506; 35505; 35504; 35504; 35503; 35502; 35501; 35500;
  35499; 35498; 35497; 35497; 35496; 35495; 35494; 35493; 35492; 35491; 35490; 35490; 35489; 35488; 35487; 35486; 35485; 35484;
  35483; 35483; 35482; 35481; 35480; 35479; 35478; 35477; 35476; 35476; 35475; 35474; 35473; 35472; 35471; 35470; 35470; 35469;
  35468; 35467; 35466; 35465; 35464; 35463; 35463; 35462; 35461; 35460; 35459; 35458; 35457; 35456; 35456; 35455; 35454; 35453;
  35452; 35451; 35450; 35449; 35449; 35448; 35447; 35446; 35445; 35444; 35443; 35443; 35442; 35441; 35440; 35439; 35438; 35437;
  35436; 35436; 35435; 35434; 35433; 35432; 35431; 35430; 35429; 35429; 35428; 35427; 35426; 35425; 35424; 35423; 35423; 35422;
  35421; 35420; 35419; 35418; 35417; 35416; 35416; 35415; 35414; 35413; 35412; 35411; 35410; 35409; 35409; 35408; 35407; 35406;
  35405; 35404; 35403; 35403; 35402; 35401; 35400; 35399; 35398; 35397; 35396; 35396; 35395; 35394; 35393; 35392; 35391; 35390;
  35389; 35389; 35388; 35387; 35386; 35385; 35384; 35383; 35383; 35382; 35381; 35380; 35379; 35378; 35377; 35376; 35376; 35375;
  35374; 35373; 35372; 35371; 35370; 35369; 35369; 35368; 35367; 35366; 35365; 35364; 35363; 35363; 35362; 35361; 35360; 35359;
  35358; 35357; 35356; 35356; 35355; 35354; 35353; 35352; 35351; 35350; 35350; 35349; 35348; 35347; 35346; 35345; 35344; 35343;
  35343; 35342; 35341; 35340; 35339; 35338; 35337; 35337; 35336; 35335; 35334; 35333; 35332; 35331; 35330; 35330; 35329; 35328;
  35327; 35326; 35325; 35324; 35323; 35323; 35322; 35321; 35320; 35319; 35318; 35317; 35317; 35316; 35315; 35314; 35313; 35312;
  35311; 35310; 35310; 35309; 35308; 35307; 35306; 35305; 35304; 35304; 35303; 35302; 35301; 35300; 35299; 35298; 35297; 35297;
  35296; 35295; 35294; 35293; 35292; 35291; 35291; 35290; 35289; 35288; 35287; 35286; 35285; 35284; 35284; 35283; 35282; 35281;
  35280; 35279; 35278; 35278; 35277; 35276; 35275; 35274; 35273; 35272; 35271; 35271; 35270; 35269; 35268; 35267; 35266; 35265;
  35265; 35264; 35263; 35262; 35261; 35260; 35259; 35258; 35258; 35257; 35256; 35255; 35254; 35253; 35252; 35252; 35251; 35250;
  35249; 35248; 35247; 35246; 35245; 35245; 35244; 35243; 35242; 35241; 35240; 35239; 35239; 35238; 35237; 35236; 35235; 35234;
  35233; 35233; 35232; 35231; 35230; 35229; 35228; 35227; 35226; 35226; 35225; 35224; 35223; 35222; 35221; 35220; 35220; 35219;
  35218; 35217; 35216; 35215; 35214; 35213; 35213; 35212; 35211; 35210; 35209; 35208; 35207; 35207; 35206; 35205; 35204; 35203;
  35202; 35201; 35201; 35200; 35199; 35198; 35197; 35196; 35195; 35194; 35194; 35193; 35192; 35191; 35190; 35189; 35188; 35188;
  35187; 35186; 35185; 35184; 35183; 35182; 35182; 35181; 35180; 35179; 35178; 35177; 35176; 35175; 35175; 35174; 35173; 35172;
  35171; 35170; 35169; 35169; 35168; 35167; 35166; 35165; 35164; 35163; 35163; 35162; 35161; 35160; 35159; 35158; 35157; 35156].
Definition pow_lut_7 : list Z := [
  35156; 35155; 35154; 35153; 35152; 35151; 35150; 35150; 35149; 35148; 35147; 35146; 35145; 35144; 35144; 35143; 35142; 35141;
  35140; 35139; 35138; 35137; 35137; 35136; 35135; 35134; 35133; 35132; 35131; 35131; 35130; 35129; 35128; 35127; 35126; 35125;
  35125; 35124; 35123; 35122; 35121; 35120; 35119; 35118; 35118; 35117; 35116; 35115; 35114; 35113; 35112; 35112; 35111; 35110;
  35109; 35108; 35107; 35106; 35106; 35105; 35104; 35103; 35102; 35101; 35100; 35100; 35099; 35098; 35097; 35096; 35095; 35094;
  35093; 35093; 35092; 35091; 35090; 35089; 35088; 35087; 35087; 35086; 35085; 35084; 35083; 35082; 35081; 35081; 35080; 35079;
  35078; 35077; 35076; 35075; 35075; 35074; 35073; 35072; 35071; 35070; 35069; 35069; 35068; 35067; 35066; 35065; 35064; 35063;
  35062; 35062; 35061; 35060; 35059; 35058; 35057; 35056; 35056; 35055; 35054; 35053; 35052; 35051; 35050; 35050; 35049; 35048;
  35047; 35046; 35045; 35044; 35044; 35043; 35042; 35041; 35040; 35039; 35038; 35038; 35037; 35036; 35035; 35034; 35033; 35032;
  35031; 35031; 35030; 35029; 35028; 35027; 35026; 35025; 35025; 35024; 35023; 35022; 35021; 35020; 35019; 35019; 35018; 35017;
  35016; 35015; 35014; 35013; 35013; 35012; 35011; 35010; 35009; 35008; 35007; 35007; 35006; 35005; 35004; 35003; 35002; 35001;
  35001; 35000; 34999; 34998; 34997; 34996; 34995; 34995; 34994; 34993; 34992; 34991; 34990; 34989; 34988; 34988; 34987; 34986;
  34985; 34984; 34983; 34982; 34982; 34981; 34980; 34979; 34978; 34977; 34976; 34976; 34975; 34974; 34973; 34972; 34971; 34970;
  34970; 34969; 34968; 34967; 34966; 34965; 34964; 34964; 34963; 34962; 34961; 34960; 34959; 34958; 34958; 34957; 34956; 34955;
  34954; 34953; 34952; 34952; 34951; 34950; 34949; 34948; 34947; 34946; 34946; 34945; 34944; 34943; 34942; 34941; 34940; 34940;
  34939; 34938; 34937; 34936; 34935; 34934; 34934; 34933; 34932; 34931; 34930; 34929; 34928; 34928; 34927; 34926; 34925; 34924;
  34923; 34922; 34922; 34921; 34920; 34919; 34918; 34917; 34916; 34916; 34915; 34914; 34913; 34912; 34911; 34910; 34910; 34909;
  34908; 34907; 34906; 34905; 34904; 34904; 34903; 34902; 34901; 34900; 34899; 34898; 34898; 34897; 34896; 34895; 34894; 34893;
  34892; 34892; 34891; 34890; 34889; 34888; 34887; 34886; 34886; 34885; 34884; 34883; 34882; 34881; 34880; 34880; 34879; 34878;
  34877; 34876; 34875; 34874; 34874; 34873; 34872; 34871; 34870; 34869; 34868; 34868; 34867; 34866; 34865; 34864; 34863; 34862;
  34862; 34861; 34860; 34859; 34858; 34857; 34856; 34856; 34855; 34854; 34853; 34852; 34851; 34850; 34850; 34849; 34848; 34847;
  34846; 34845; 34844; 34844; 34843; 34842; 34841; 34840; 34839; 34838; 34838; 34837; 34836; 34835; 34834; 34833; 34832; 34832;
  34831; 34830; 34829; 34828; 34827; 34826; 34826; 34825; 34824; 34823; 34822; 34821; 34820; 34820; 34819; 34818; 34817; 34816;
  34815; 34815; 34814; 34813; 34812; 34811; 34810; 34809; 34809; 34808; 34807; 34806; 34805; 34804; 34803; 34803; 34802; 34801;
  34800; 34799; 34798; 34797; 34797; 34796; 34795; 34794; 34793; 34792; 34791; 34791; 34790; 34789; 34788; 34787; 34786; 34785;
  34785; 34784; 34783; 34782; 34781; 34780; 34779; 34779; 34778; 34777; 34776; 34775; 34774; 34773; 34773; 34772; 34771; 34770;
  34769; 34768; 34768; 34767; 34766; 34765; 34764; 34763; 34762; 34762; 34761; 34760; 34759; 34758; 34757; 34756; 34756; 34755;
  34754; 34753; 34752; 34751; 34750; 34750; 34749; 34748; 34747; 34746; 34745; 34744; 34744; 34743; 34742; 34741; 34740; 34739;
  34738; 34738; 34737; 34736; 34735; 34734; 34733; 34733; 34732; 34731; 34730; 34729; 34728; 34727; 34727; 34726; 34725; 34724;
  34723; 34722; 34721; 34721; 34720; 34719; 34718; 34717; 34716; 34715; 34715; 34714; 34713; 34712; 34711; 34710; 34709; 34709;
  34708; 34707; 34706; 34705; 34704; 34704; 34703; 34702; 34701; 34700; 34699; 34698; 34698; 34697; 34696; 34695; 34694; 34693;
  34692; 34692; 34691; 34690; 34689; 34688; 34687; 34686; 34686; 34685; 34684; 34683; 34682; 34681; 34681; 34680; 34679; 34678;
  34677; 34676; 34675; 34675; 34674; 34673; 34672; 34671; 34670; 34669; 34669; 34668; 34667; 34666; 34665; 34664; 34663; 34663;
  34662; 34661; 34660; 34659; 34658; 34658; 34657; 34656; 34655; 34654; 34653; 34652; 34652; 34651; 34650; 34649; 34648; 34647;
  34646; 34646; 34645; 34644; 34643; 34642; 34641; 34641; 34640; 34639; 34638; 34637; 34636; 34635; 34635; 34634; 34633; 34632;
  34631; 34630; 34629; 34629; 34628; 34627; 34626; 34625; 34624; 34624; 34623; 34622; 34621; 34620; 34619; 34618; 34618; 34617;
  34616; 34615; 34614; 34613; 34612; 34612; 34611; 34610; 34609; 34608; 34607; 34607; 34606; 34605; 34604; 34603; 34602; 34601;
  34601; 34600; 34599; 34598; 34597; 34596; 34595; 34595; 34594; 34593; 34592; 34591; 34590; 34590; 34589; 34588; 34587; 34586;
  34585; 34584; 34584; 34583; 34582; 34581; 34580; 34579; 34578; 34578; 34577; 34576; 34575; 34574; 34573; 34573; 34572; 34571;
  34570; 34569; 34568; 34567; 34567; 34566; 34565; 34564; 34563; 34562; 34561; 34561; 34560; 34559; 34558; 34557; 34556; 34556;
  34555; 34554; 34553; 34552; 34551; 34550; 34550; 34549; 34548; 34547; 34546; 34545; 34545; 34544; 34543; 34542; 34541; 34540;
  34539; 34539; 34538; 34537; 34536; 34535; 34534; 34533; 34533; 34532; 34531; 34530; 34529; 34528; 34528; 34527; 34526; 34525;
  34524; 34523; 34522; 34522; 34521; 34520; 34519; 34518; 34517; 34517; 34516; 34515; 34514; 34513; 34512; 34511; 34511; 34510;
  34509; 34508; 34507; 34506; 34506; 34505; 34504; 34503; 34502; 34501; 34500; 34500; 34499; 34498; 34497; 34496; 34495; 34495;
  34494; 34493; 34492; 34491; 34490; 34489; 34489; 34488; 34487; 34486; 34485; 34484; 34483; 34483; 34482; 34481; 34480; 34479;
  34478; 34478; 34477; 34476; 34475; 34474; 34473; 34472; 34472; 34471; 34470; 34469; 34468; 34467; 34467; 34466; 34465; 34464;
  34463; 34462; 34461; 34461; 34460; 34459; 34458; 34457; 34456; 34456; 34455; 34454; 34453; 34452; 34451; 34450; 34450; 34449;
  34448; 34447; 34446; 34445; 34445; 34444; 34443; 34442; 34441; 34440; 34439; 34439; 34438; 34437; 34436; 34435; 34434; 34434;
  34433; 34432; 34431; 34430; 34429; 34428; 34428; 34427; 34426; 34425; 34424; 34423; 34423; 34422; 34421; 34420; 34419; 34418;
  34418; 34417; 34416; 34415; 34414; 34413; 34412; 34412; 34411; 34410; 34409; 34408; 34407; 34407; 34406; 34405; 34404; 34403;
  34402; 34401; 34401; 34400; 34399; 34398; 34397; 34396; 34396; 34395; 34394; 34393; 34392; 34391; 34390; 34390; 34389; 34388].
Definition pow_lut_8 : list Z := [
  34387; 34386; 34385; 34385; 34384; 34383; 34382; 34381; 34380; 34379; 34379; 34378; 34377; 34376; 34375; 34374; 34374; 34373;
  34372; 34371; 34370; 34369; 34369; 34368; 34367; 34366; 34365; 34364; 34363; 34363; 34362; 34361; 34360; 34359; 34358; 34358;
  34357; 34356; 34355; 34354; 34353; 34352; 34352; 34351; 34350; 34349; 34348; 34347; 34347; 34346; 34345; 34344; 34343; 34342;
  34342; 34341; 34340; 34339; 34338; 34337; 34336; 34336; 34335; 34334; 34333; 34332; 34331; 34331; 34330; 34329; 34328; 34327;
  34326; 34325; 34325; 34324; 34323; 34322; 34321; 34320; 34320; 34319; 34318; 34317; 34316; 34315; 34315; 34314; 34313; 34312;
  34311; 34310; 34309; 34309; 34308; 34307; 34306; 34305; 34304; 34304; 34303; 34302; 34301; 34300; 34299; 34299; 34298; 34297;
  34296; 34295; 34294; 34293; 34293; 34292; 34291; 34290; 34289; 34288; 34288; 34287; 34286; 34285; 34284; 34283; 34283; 34282;
  34281; 34280; 34279; 34278; 34277; 34277; 34276; 34275; 34274; 34273; 34272; 34272; 34271; 34270; 34269; 34268; 34267; 34267;
  34266; 34265; 34264; 34263; 34262; 34261; 34261; 34260; 34259; 34258; 34257; 34256; 34256; 34255; 34254; 34253; 34252; 34251;
  34251; 34250; 34249; 34248; 34247; 34246; 34246; 34245; 34244; 34243; 34242; 34241; 34240; 34240; 34239; 34238; 34237; 34236;
  34235; 34235; 34234; 34233; 34232; 34231; 34230; 34230; 34229; 34228; 34227; 34226; 34225; 34224; 34224; 34223; 34222; 34221;
  34220; 34219; 34219; 34218; 34217; 34216; 34215; 34214; 34214; 34213; 34212; 34211; 34210; 34209; 34209; 34208; 34207; 34206;
  34205; 34204; 34203; 34203; 34202; 34201; 34200; 34199; 34198; 34198; 34197; 34196; 34195; 34194; 34193; 34193; 34192; 34191;
  34190; 34189; 34188; 34188; 34187; 34186; 34185; 34184; 34183; 34182; 34182; 34181; 34180; 34179; 34178; 34177; 34177; 34176;
  34175; 34174; 34173; 34172; 34172; 34171; 34170; 34169; 34168; 34167; 34167; 34166; 34165; 34164; 34163; 34162; 34162; 34161;
  34160; 34159; 34158; 34157; 34156; 34156; 34155; 34154; 34153; 34152; 34151; 34151; 34150; 34149; 34148; 34147; 34146; 34146;
  34145; 34144; 34143; 34142; 34141; 34141; 34140; 34139; 34138; 34137; 34136; 34136; 34135; 34134; 34133; 34132; 34131; 34130;
  34130; 34129; 34128; 34127; 34126; 34125; 34125; 34124; 34123; 34122; 34121; 34120; 34120; 34119; 34118; 34117; 34116; 34115;
  34115; 34114; 34113; 34112; 34111; 34110; 34110; 34109; 34108; 34107; 34106; 34105; 34105; 34104; 34103; 34102; 34101; 34100;
  34099; 34099; 34098; 34097; 34096; 34095; 34094; 34094; 34093; 34092; 34091; 34090; 34089; 34089; 34088; 34087; 34086; 34085;
  34084; 34084; 34083; 34082; 34081; 34080; 34079; 34079; 34078; 34077; 34076; 34075; 34074; 34074; 34073; 34072; 34071; 34070;
  34069; 34069; 34068; 34067; 34066; 34065; 34064; 34063; 34063; 34062; 34061; 34060; 34059; 34058; 34058; 34057; 34056; 34055;
  34054; 34053; 34053; 34052; 34051; 34050; 34049; 34048; 34048; 34047; 34046; 34045; 34044; 34043; 34043; 34042; 34041; 34040;
  34039; 34038; 34038; 34037; 34036; 34035; 34034; 34033; 34033; 34032; 34031; 34030; 34029; 34028; 34028; 34027; 34026; 34025;
  34024; 34023; 34023; 34022; 34021; 34020; 34019; 34018; 34018; 34017; 34016; 34015; 34014; 34013; 34012; 34012; 34011; 34010;
  34009; 34008; 34007; 34007; 34006; 34005; 34004; 34003; 34002; 34002; 34001; 34000; 33999; 33998; 33997; 33997; 33996; 33995;
  33994; 33993; 33992; 33992; 33991; 33990; 33989; 33988; 33987; 33987; 33986; 33985; 33984; 33983; 33982; 33982; 33981; 33980;
  33979; 33978; 33977; 33977; 33976; 33975; 33974; 33973; 33972; 33972; 33971; 33970; 33969; 33968; 33967; 33967; 33966; 33965;
  33964; 33963; 33962; 33962; 33961; 33960; 33959; 33958; 33957; 33957; 33956; 33955; 33954; 33953; 33952; 33952; 33951; 33950;
  33949; 33948; 33947; 33947; 33946; 33945; 33944; 33943; 33942; 33942; 33941; 33940; 33939; 33938; 33937; 33937; 33936; 33935;
  33934; 33933; 33932; 33932; 33931; 33930; 33929; 33928; 33927; 33927; 33926; 33925; 33924; 33923; 33922; 33922; 33921; 33920;
  33919; 33918; 33917; 33917; 33916; 33915; 33914; 33913; 33912; 33912; 33911; 33910; 33909; 33908; 33907; 33907; 33906; 33905;
  33904; 33903; 33902; 33902; 33901; 33900; 33899; 33898; 33897; 33897; 33896; 33895; 33894; 33893; 33892; 33892; 33891; 33890;
  33889; 33888; 33887; 33887; 33886; 33885; 33884; 33883; 33882; 33882; 33881; 33880; 33879; 33878; 33877; 33877; 33876; 33875;
  33874; 33873; 33872; 33872; 33871; 33870; 33869; 33868; 33867; 33867; 33866; 33865; 33864; 33863; 33862; 33862; 33861; 33860;
  33859; 33858; 33857; 33857; 33856; 33855; 33854; 33853; 33853; 33852; 33851; 33850; 33849; 33848; 33848; 33847; 33846; 33845;
  33844; 33843; 33843; 33842; 33841; 33840; 33839; 33838; 33838; 33837; 33836; 33835; 33834; 33833; 33833; 33832; 33831; 33830;
  33829; 33828; 33828; 33827; 33826; 33825; 33824; 33823; 33823; 33822; 33821; 33820; 33819; 33818; 33818; 33817; 33816; 33815;
  33814; 33813; 33813; 33812; 33811; 33810; 33809; 33808; 33808; 33807; 33806; 33805; 33804; 33803; 33803; 33802; 33801; 33800;
  33799; 33799; 33798; 33797; 33796; 33795; 33794; 33794; 33793; 33792; 33791; 33790; 33789; 33789; 33788; 33787; 33786; 33785;
  33784; 33784; 33783; 33782; 33781; 33780; 33779; 33779; 33778; 33777; 33776; 33775; 33774; 33774; 33773; 33772; 33771; 33770;
  33769; 33769; 33768; 33767; 33766; 33765; 33764; 33764; 33763; 33762; 33761; 33760; 33760; 33759; 33758; 33757; 33756; 33755;
  33755; 33754; 33753; 33752; 33751; 33750; 33750; 33749; 33748; 33747; 33746; 33745; 33745; 33744; 33743; 33742; 33741; 33740;
  33740; 33739; 33738; 33737; 33736; 33735; 33735; 33734; 33733; 33732; 33731; 33731; 33730; 33729; 33728; 33727; 33726; 33726;
  33725; 33724; 33723; 33722; 33721; 33721; 33720; 33719; 33718; 33717; 33716; 33716; 33715; 33714; 33713; 33712; 33711; 33711;
  33710; 33709; 33708; 33707; 33706; 33706; 33705; 33704; 33703; 33702; 33702; 33701; 33700; 33699; 33698; 33697; 33697; 33696;
  33695; 33694; 33693; 33692; 33692; 33691; 33690; 33689; 33688; 33687; 33687; 33686; 33685; 33684; 33683; 33682; 33682; 33681;
  33680; 33679; 33678; 33678; 33677; 33676; 33675; 33674; 33673; 33673; 33672; 33671; 33670; 33669; 33668; 33668; 33667; 33666;
  33665; 33664; 33663; 33663; 33662; 33661; 33660; 33659; 33659; 33658; 33657; 33656; 33655; 33654; 33654; 33653; 33652; 33651;
  33650; 33649; 33649; 33648; 33647; 33646; 33645; 33644; 33644; 33643; 33642; 33641; 33640; 33640; 33639; 33638; 33637; 33636].
Definition pow_lut_9 : list Z := [
  33635; 33635; 33634; 33633; 33632; 33631; 33630; 33630; 33629; 33628; 33627; 33626; 33625; 33625; 33624; 33623; 33622; 33621;
  33621; 33620; 33619; 33618; 33617; 33616; 33616; 33615; 33614; 33613; 33612; 33611; 33611; 33610; 33609; 33608; 33607; 33606;
  33606; 33605; 33604; 33603; 33602; 33602; 33601; 33600; 33599; 33598; 33597; 33597; 33596; 33595; 33594; 33593; 33592; 33592;
  33591; 33590; 33589; 33588; 33588; 33587; 33586; 33585; 33584; 33583; 33583; 33582; 33581; 33580; 33579; 33578; 33578; 33577;
  33576; 33575; 33574; 33573; 33573; 33572; 33571; 33570; 33569; 33569; 33568; 33567; 33566; 33565; 33564; 33564; 33563; 33562;
  33561; 33560; 33559; 33559; 33558; 33557; 33556; 33555; 33555; 33554; 33553; 33552; 33551; 33550; 33550; 33549; 33548; 33547;
  33546; 33545; 33545; 33544; 33543; 33542; 33541; 33541; 33540; 33539; 33538; 33537; 33536; 33536; 33535; 33534; 33533; 33532;
  33531; 33531; 33530; 33529; 33528; 33527; 33527; 33526; 33525; 33524; 33523; 33522; 33522; 33521; 33520; 33519; 33518; 33517;
  33517; 33516; 33515; 33514; 33513; 33513; 33512; 33511; 33510; 33509; 33508; 33508; 33507; 33506; 33505; 33504; 33503; 33503;
  33502; 33501; 33500; 33499; 33499; 33498; 33497; 33496; 33495; 33494; 33494; 33493; 33492; 33491; 33490; 33489; 33489; 33488;
  33487; 33486; 33485; 33485; 33484; 33483; 33482; 33481; 33480; 33480; 33479; 33478; 33477; 33476; 33476; 33475; 33474; 33473;
  33472; 33471; 33471; 33470; 33469; 33468; 33467; 33466; 33466; 33465; 33464; 33463; 33462; 33462; 33461; 33460; 33459; 33458;
  33457; 33457; 33456; 33455; 33454; 33453; 33453; 33452; 33451; 33450; 33449; 33448; 33448; 33447; 33446; 33445; 33444; 33443;
  33443; 33442; 33441; 33440; 33439; 33439; 33438; 33437; 33436; 33435; 33434; 33434; 33433; 33432; 33431; 33430; 33430; 33429;
  33428; 33427; 33426; 33425; 33425; 33424; 33423; 33422; 33421; 33420; 33420; 33419; 33418; 33417; 33416; 33416; 33415; 33414;
  33413; 33412; 33411; 33411; 33410; 33409; 33408; 33407; 33407; 33406; 33405; 33404; 33403; 33402; 33402; 33401; 33400; 33399;
  33398; 33398; 33397; 33396; 33395; 33394; 33393; 33393; 33392; 33391; 33390; 33389; 33388; 33388; 33387; 33386; 33385; 33384;
  33384; 33383; 33382; 33381; 33380; 33379; 33379; 33378; 33377; 33376; 33375; 33375; 33374; 33373; 33372; 33371; 33370; 33370;
  33369; 33368; 33367; 33366; 33366; 33365; 33364; 33363; 33362; 33361; 33361; 33360; 33359; 33358; 33357; 33357; 33356; 33355;
  33354; 33353; 33352; 33352; 33351; 33350; 33349; 33348; 33348; 33347; 33346; 33345; 33344; 33343; 33343; 33342; 33341; 33340;
  33339; 33339; 33338; 33337; 33336; 33335; 33334; 33334; 33333; 33332; 33331; 33330; 33329; 33329; 33328; 33327; 33326; 33325;
  33325; 33324; 33323; 33322; 33321; 33320; 33320; 33319; 33318; 33317; 33316; 33316; 33315; 33314; 33313; 33312; 33311; 33311;
  33310; 33309; 33308; 33307; 33307; 33306; 33305; 33304; 33303; 33302; 33302; 33301; 33300; 33299; 33298; 33298; 33297; 33296;
  33295; 33294; 33294; 33293; 33292; 33291; 33290; 33289; 33289; 33288; 33287; 33286; 33285; 33285; 33284; 33283; 33282; 33281;
  33280; 33280; 33279; 33278; 33277; 33276; 33276; 33275; 33274; 33273; 33272; 33271; 33271; 33270; 33269; 33268; 33267; 33267;
  33266; 33265; 33264; 33263; 33262; 33262; 33261; 33260; 33259; 33258; 33258; 33257; 33256; 33255; 33254; 33253; 33253; 33252;
  33251; 33250; 33249; 33249; 33248; 33247; 33246; 33245; 33244; 33244; 33243; 33242; 33241; 33240; 33240; 33239; 33238; 33237;
  33236; 33236; 33235; 33234; 33233; 33232; 33231; 33231; 33230; 33229; 33228; 33227; 33227; 33226; 33225; 33224; 33223; 33222;
  33222; 33221; 33220; 33219; 33218; 33218; 33217; 33216; 33215; 33214; 33213; 33213; 33212; 33211; 33210; 33209; 33209; 33208;
  33207; 33206; 33205; 33204; 33204; 33203; 33202; 33201; 33200; 33200; 33199; 33198; 33197; 33196; 33196; 33195; 33194; 33193;
  33192; 33191; 33191; 33190; 33189; 33188; 33187; 33187; 33186; 33185; 33184; 33183; 33182; 33182; 33181; 33180; 33179; 33178;
  33178; 33177; 33176; 33175; 33174; 33174; 33173; 33172; 33171; 33170; 33169; 33169; 33168; 33167; 33166; 33165; 33165; 33164;
  33163; 33162; 33161; 33160; 33160; 33159; 33158; 33157; 33156; 33156; 33155; 33154; 33153; 33152; 33152; 33151; 33150; 33149;
  33148; 33147; 33147; 33146; 33145; 33144; 33143; 33143; 33142; 33141; 33140; 33139; 33139; 33138; 33137; 33136; 33135; 33134;
  33134; 33133; 33132; 33131; 33130; 33130; 33129; 33128; 33127; 33126; 33125; 33125; 33124; 33123; 33122; 33121; 33121; 33120;
  33119; 33118; 33117; 33117; 33116; 33115; 33114; 33113; 33112; 33112; 33111; 33110; 33109; 33108; 33108; 33107; 33106; 33105;
  33104; 33104; 33103; 33102; 33101; 33100; 33099; 33099; 33098; 33097; 33096; 33095; 33095; 33094; 33093; 33092; 33091; 33091;
  33090; 33089; 33088; 33087; 33086; 33086; 33085; 33084; 33083; 33082; 33082; 33081; 33080; 33079; 33078; 33078; 33077; 33076;
  33075; 33074; 33073; 33073; 33072; 33071; 33070; 33069; 33069; 33068; 33067; 33066; 33065; 33065; 33064; 33063; 33062; 33061;
  33060; 33060; 33059; 33058; 33057; 33056; 33056; 33055; 33054; 33053; 33052; 33052; 33051; 33050; 33049; 33048; 33047; 33047;
  33046; 33045; 33044; 33043; 33043; 33042; 33041; 33040; 33039; 33039; 33038; 33037; 33036; 33035; 33035; 33034; 33033; 33032;
  33031; 33030; 33030; 33029; 33028; 33027; 33026; 33026; 33025; 33024; 33023; 33022; 33022; 33021; 33020; 33019; 33018; 33017;
  33017; 33016; 33015; 33014; 33013; 33013; 33012; 33011; 33010; 33009; 33009; 33008; 33007; 33006; 33005; 33005; 33004; 33003;
  33002; 33001; 33000; 33000; 32999; 32998; 32997; 32996; 32996; 32995; 32994; 32993; 32992; 32992; 32991; 32990; 32989; 32988;
  32987; 32987; 32986; 32985; 32984; 32983; 32983; 32982; 32981; 32980; 32979; 32979; 32978; 32977; 32976; 32975; 32975; 32974;
  32973; 32972; 32971; 32970; 32970; 32969; 32968; 32967; 32966; 32966; 32965; 32964; 32963; 32962; 32962; 32961; 32960; 32959;
  32958; 32958; 32957; 32956; 32955; 32954; 32953; 32953; 32952; 32951; 32950; 32949; 32949; 32948; 32947; 32946; 32945; 32945;
  32944; 32943; 32942; 32941; 32941; 32940; 32939; 32938; 32937; 32936; 32936; 32935; 32934; 32933; 32932; 32932; 32931; 32930;
  32929; 32928; 32928; 32927; 32926; 32925; 32924; 32924; 32923; 32922; 32921; 32920; 32920; 32919; 32918; 32917; 32916; 32915;
  32915; 32914; 32913; 32912; 32911; 32911; 32910; 32909; 32908; 32907; 32907; 32906; 32905; 32904; 32903; 32903; 32902; 32901].
Definition pow_lut_10 : list Z := [
  32900; 32899; 32898; 32898; 32897; 32896; 32895; 32894; 32894; 32893; 32892; 32891; 32890; 32890; 32889; 32888; 32887; 32886;
  32886; 32885; 32884; 32883; 32882; 32882; 32881; 32880; 32879; 32878; 32877; 32877; 32876; 32875; 32874; 32873; 32873; 32872;
  32871; 32870; 32869; 32869; 32868; 32867; 32866; 32865; 32865; 32864; 32863; 32862; 32861; 32861; 32860; 32859; 32858; 32857;
  32857; 32856; 32855; 32854; 32853; 32852; 32852; 32851; 32850; 32849; 32848; 32848; 32847; 32846; 32845; 32844; 32844; 32843;
  32842; 32841; 32840; 32840; 32839; 32838; 32837; 32836; 32836; 32835; 32834; 32833; 32832; 32832; 32831; 32830; 32829; 32828;
  32827; 32827; 32826; 32825; 32824; 32823; 32823; 32822; 32821; 32820; 32819; 32819; 32818; 32817; 32816; 32815; 32815; 32814;
  32813; 32812; 32811; 32811; 32810; 32809; 32808; 32807; 32807; 32806; 32805; 32804; 32803; 32802; 32802; 32801; 32800; 32799;
  32798; 32798; 32797; 32796; 32795; 32794; 32794; 32793; 32792; 32791; 32790; 32790; 32789; 32788; 32787; 32786; 32786; 32785;
  32784; 32783; 32782; 32782; 32781; 32780; 32779; 32778; 32778; 32777; 32776; 32775; 32774; 32774; 32773; 32772; 32771; 32770;
  32769; 32769; 32768; 32767; 32766; 32765; 32765; 32764; 32763; 32762; 32761; 32761; 32760; 32759; 32758; 32757; 32757; 32756;
  32755; 32754; 32753; 32753; 32752; 32751; 32750; 32749; 32749; 32748; 32747; 32746; 32745; 32745; 32744; 32743; 32742; 32741;
  32741; 32740; 32739; 32738; 32737; 32736; 32736; 32735; 32734; 32733; 32732; 32732; 32731; 32730; 32729; 32728; 32728; 32727;
  32726; 32725; 32724; 32724; 32723; 32722; 32721; 32720; 32720; 32719; 32718; 32717; 32716; 32716; 32715; 32714; 32713; 32712;
  32712; 32711; 32710; 32709; 32708; 32708; 32707; 32706; 32705; 32704; 32704; 32703; 32702; 32701; 32700; 32700; 32699; 32698;
  32697; 32696; 32696; 32695; 32694; 32693; 32692; 32692; 32691; 32690; 32689; 32688; 32687; 32687; 32686; 32685; 32684; 32683;
  32683; 32682; 32681; 32680; 32679; 32679; 32678; 32677; 32676; 32675; 32675; 32674; 32673; 32672; 32671; 32671; 32670; 32669;
  32668; 32667; 32667; 32666; 32665; 32664; 32663; 32663; 32662; 32661; 32660; 32659; 32659; 32658; 32657; 32656; 32655; 32655;
  32654; 32653; 32652; 32651; 32651; 32650; 32649; 32648; 32647; 32647; 32646; 32645; 32644; 32643; 32643; 32642; 32641; 32640;
  32639; 32639; 32638; 32637; 32636; 32635; 32635; 32634; 32633; 32632; 32631; 32631; 32630; 32629; 32628; 32627; 32627; 32626;
  32625; 32624; 32623; 32623; 32622; 32621; 32620; 32619; 32619; 32618; 32617; 32616; 32615; 32615; 32614; 32613; 32612; 32611;
  32611; 32610; 32609; 32608; 32607; 32607; 32606; 32605; 32604; 32603; 32603; 32602; 32601; 32600; 32599; 32599; 32598; 32597;
  32596; 32595; 32595; 32594; 32593; 32592; 32591; 32591; 32590; 32589; 32588; 32587; 32587; 32586; 32585; 32584; 32583; 32583;
  32582; 32581; 32580; 32579; 32579; 32578; 32577; 32576; 32575; 32575; 32574; 32573; 32572; 32571; 32571; 32570; 32569; 32568;
  32567; 32567; 32566; 32565; 32564; 32563; 32563; 32562; 32561; 32560; 32559; 32559; 32558; 32557; 32556; 32555; 32555; 32554;
  32553; 32552; 32551; 32551; 32550; 32549; 32548; 32547; 32547; 32546; 32545; 32544; 32543; 32543; 32542; 32541; 32540; 32539;
  32539; 32538; 32537; 32536; 32535; 32535; 32534; 32533; 32532; 32531; 32531; 32530; 32529; 32528; 32527; 32527; 32526; 32525;
  32524; 32523; 32523; 32522; 32521; 32520; 32519; 32519; 32518; 32517; 32516; 32515; 32515; 32514; 32513; 32512; 32511; 32511;
  32510; 32509; 32508; 32507; 32507; 32506; 32505; 32504; 32503; 32503; 32502; 32501; 32500; 32499; 32499; 32498; 32497; 32496;
  32495; 32495; 32494; 32493; 32492; 32491; 32491; 32490; 32489; 32488; 32487; 32487; 32486; 32485; 32484; 32483; 32483; 32482;
  32481; 32480; 32479; 32479; 32478; 32477; 32476; 32475; 32475; 32474; 32473; 32472; 32471; 32471; 32470; 32469; 32468; 32467;
  32467; 32466; 32465; 32464; 32463; 32463; 32462; 32461; 32460; 32460; 32459; 32458; 32457; 32456; 32456; 32455; 32454; 32453;
  32452; 32452; 32451; 32450; 32449; 32448; 32448; 32447; 32446; 32445; 32444; 32444; 32443; 32442; 32441; 32440; 32440; 32439;
  32438; 32437; 32436; 32436; 32435; 32434; 32433; 32432; 32432; 32431; 32430; 32429; 32428; 32428; 32427; 32426; 32425; 32424;
  32424; 32423; 32422; 32421; 32420; 32420; 32419; 32418; 32417; 32416; 32416; 32415; 32414; 32413; 32413; 32412; 32411; 32410;
  32409; 32409; 32408; 32407; 32406; 32405; 32405; 32404; 32403; 32402; 32401; 32401; 32400; 32399; 32398; 32397; 32397; 32396;
  32395; 32394; 32393; 32393; 32392; 32391; 32390; 32389; 32389; 32388; 32387; 32386; 32385; 32385; 32384; 32383; 32382; 32381;
  32381; 32380; 32379; 32378; 32378; 32377; 32376; 32375; 32374; 32374; 32373; 32372; 32371; 32370; 32370; 32369; 32368; 32367;
  32366; 32366; 32365; 32364; 32363; 32362; 32362; 32361; 32360; 32359; 32358; 32358; 32357; 32356; 32355; 32354; 32354; 32353;
  32352; 32351; 32350; 32350; 32349; 32348; 32347; 32347; 32346; 32345; 32344; 32343; 32343; 32342; 32341; 32340; 32339; 32339;
  32338; 32337; 32336; 32335; 32335; 32334; 32333; 32332; 32331; 32331; 32330; 32329; 32328; 32327; 32327; 32326; 32325; 32324;
  32323; 32323; 32322; 32321; 32320; 32320; 32319; 32318; 32317; 32316; 32316; 32315; 32314; 32313; 32312; 32312; 32311; 32310;
  32309; 32308; 32308; 32307; 32306; 32305; 32304; 32304; 32303; 32302; 32301; 32300; 32300; 32299; 32298; 32297; 32297; 32296;
  32295; 32294; 32293; 32293; 32292; 32291; 32290; 32289; 32289; 32288; 32287; 32286; 32285; 32285; 32284; 32283; 32282; 32281;
  32281; 32280; 32279; 32278; 32277; 32277; 32276; 32275; 32274; 32274; 32273; 32272; 32271; 32270; 32270; 32269; 32268; 32267;
  32266; 32266; 32265; 32264; 32263; 32262; 32262; 32261; 32260; 32259; 32258; 32258; 32257; 32256; 32255; 32254; 32254; 32253;
  32252; 32251; 32251; 32250; 32249; 32248; 32247; 32247; 32246; 32245; 32244; 32243; 32243; 32242; 32241; 32240; 32239; 32239;
  32238; 32237; 32236; 32235; 32235; 32234; 32233; 32232; 32232; 32231; 32230; 32229; 32228; 32228; 32227; 32226; 32225; 32224;
  32224; 32223; 32222; 32221; 32220; 32220; 32219; 32218; 32217; 32216; 32216; 32215; 32214; 32213; 32213; 32212; 32211; 32210;
  32209; 32209; 32208; 32207; 32206; 32205; 32205; 32204; 32203; 32202; 32201; 32201; 32200; 32199; 32198; 32198; 32197; 32196;
  32195; 32194; 32194; 32193; 32192; 32191; 32190; 32190; 32189; 32188; 32187; 32186; 32186; 32185; 32184; 32183; 32182; 32182].
Definition pow_lut_11 : list Z := [
  32181; 32180; 32179; 32179; 32178; 32177; 32176; 32175; 32175; 32174; 32173; 32172; 32171; 32171; 32170; 32169; 32168; 32167;
  32167; 32166; 32165; 32164; 32164; 32163; 32162; 32161; 32160; 32160; 32159; 32158; 32157; 32156; 32156; 32155; 32154; 32153;
  32152; 32152; 32151; 32150; 32149; 32149; 32148; 32147; 32146; 32145; 32145; 32144; 32143; 32142; 32141; 32141; 32140; 32139;
  32138; 32137; 32137; 32136; 32135; 32134; 32134; 32133; 32132; 32131; 32130; 32130; 32129; 32128; 32127; 32126; 32126; 32125;
  32124; 32123; 32122; 32122; 32121; 32120; 32119; 32119; 32118; 32117; 32116; 32115; 32115; 32114; 32113; 32112; 32111; 32111;
  32110; 32109; 32108; 32107; 32107; 32106; 32105; 32104; 32104; 32103; 32102; 32101; 32100; 32100; 32099; 32098; 32097; 32096;
  32096; 32095; 32094; 32093; 32093; 32092; 32091; 32090; 32089; 32089; 32088; 32087; 32086; 32085; 32085; 32084; 32083; 32082;
  32081; 32081; 32080; 32079; 32078; 32078; 32077; 32076; 32075; 32074; 32074; 32073; 32072; 32071; 32070; 32070; 32069; 32068;
  32067; 32067; 32066; 32065; 32064; 32063; 32063; 32062; 32061; 32060; 32059; 32059; 32058; 32057; 32056; 32055; 32055; 32054;
  32053; 32052; 32052; 32051; 32050; 32049; 32048; 32048; 32047; 32046; 32045; 32044; 32044; 32043; 32042; 32041; 32041; 32040;
  32039; 32038; 32037; 32037; 32036; 32035; 32034; 32033; 32033; 32032; 32031; 32030; 32030; 32029; 32028; 32027; 32026; 32026;
  32025; 32024; 32023; 32022; 32022; 32021; 32020; 32019; 32019; 32018; 32017; 32016; 32015; 32015; 32014; 32013; 32012; 32011;
  32011; 32010; 32009; 32008; 32008; 32007; 32006; 32005; 32004; 32004; 32003; 32002; 32001; 32000; 32000; 31999; 31998; 31997;
  31997; 31996; 31995; 31994; 31993; 31993; 31992; 31991; 31990; 31989; 31989; 31988; 31987; 31986; 31986; 31985; 31984; 31983;
  31982; 31982; 31981; 31980; 31979; 31978; 31978; 31977; 31976; 31975; 31975; 31974; 31973; 31972; 31971; 31971; 31970; 31969;
  31968; 31967; 31967; 31966; 31965; 31964; 31964; 31963; 31962; 31961; 31960; 31960; 31959; 31958; 31957; 31956; 31956; 31955;
  31954; 31953; 31953; 31952; 31951; 31950; 31949; 31949; 31948; 31947; 31946; 31945; 31945; 31944; 31943; 31942; 31942; 31941;
  31940; 31939; 31938; 31938; 31937; 31936; 31935; 31934; 31934; 31933; 31932; 31931; 31931; 31930; 31929; 31928; 31927; 31927;
  31926; 31925; 31924; 31924; 31923; 31922; 31921; 31920; 31920; 31919; 31918; 31917; 31916; 31916; 31915; 31914; 31913; 31913;
  31912; 31911; 31910; 31909; 31909; 31908; 31907; 31906; 31905; 31905; 31904; 31903; 31902; 31902; 31901; 31900; 31899; 31898;
  31898; 31897; 31896; 31895; 31895; 31894; 31893; 31892; 31891; 31891; 31890; 31889; 31888; 31887; 31887; 31886; 31885; 31884;
  31884; 31883; 31882; 31881; 31880; 31880; 31879; 31878; 31877; 31877; 31876; 31875; 31874; 31873; 31873; 31872; 31871; 31870;
  31869; 31869; 31868; 31867; 31866; 31866; 31865; 31864; 31863; 31862; 31862; 31861; 31860; 31859; 31859; 31858; 31857; 31856;
  31855; 31855; 31854; 31853; 31852; 31851; 31851; 31850; 31849; 31848; 31848; 31847; 31846; 31845; 31844; 31844; 31843; 31842;
  31841; 31841; 31840; 31839; 31838; 31837; 31837; 31836; 31835; 31834; 31833; 31833; 31832; 31831; 31830; 31830; 31829; 31828;
  31827; 31826; 31826; 31825; 31824; 31823; 31823; 31822; 31821; 31820; 31819; 31819; 31818; 31817; 31816; 31816; 31815; 31814;
  31813; 31812; 31812; 31811; 31810; 31809; 31808; 31808; 31807; 31806; 31805; 31805; 31804; 31803; 31802; 31801; 31801; 31800;
  31799; 31798; 31798; 31797; 31796; 31795; 31794; 31794; 31793; 31792; 31791; 31791; 31790; 31789; 31788; 31787; 31787; 31786;
  31785; 31784; 31783; 31783; 31782; 31781; 31780; 31780; 31779; 31778; 31777; 31776; 31776; 31775; 31774; 31773; 31773; 31772;
  31771; 31770; 31769; 31769; 31768; 31767; 31766; 31766; 31765; 31764; 31763; 31762; 31762; 31761; 31760; 31759; 31759; 31758;
  31757; 31756; 31755; 31755; 31754; 31753; 31752; 31751; 31751; 31750; 31749; 31748; 31748; 31747; 31746; 31745; 31744; 31744;
  31743; 31742; 31741; 31741; 31740; 31739; 31738; 31737; 31737; 31736; 31735; 31734; 31734; 31733; 31732; 31731; 31730; 31730;
  31729; 31728; 31727; 31727; 31726; 31725; 31724; 31723; 31723; 31722; 31721; 31720; 31720; 31719; 31718; 31717; 31716; 31716;
  31715; 31714; 31713; 31713; 31712; 31711; 31710; 31709; 31709; 31708; 31707; 31706; 31706; 31705; 31704; 31703; 31702; 31702;
  31701; 31700; 31699; 31699; 31698; 31697; 31696; 31695; 31695; 31694; 31693; 31692; 31692; 31691; 31690; 31689; 31688; 31688;
  31687; 31686; 31685; 31685; 31684; 31683; 31682; 31681; 31681; 31680; 31679; 31678; 31678; 31677; 31676; 31675; 31674; 31674;
  31673; 31672; 31671; 31671; 31670; 31669; 31668; 31667; 31667; 31666; 31665; 31664; 31664; 31663; 31662; 31661; 31660; 31660;
  31659; 31658; 31657; 31657; 31656; 31655; 31654; 31653; 31653; 31652; 31651; 31650; 31650; 31649; 31648; 31647; 31646; 31646;
  31645; 31644; 31643; 31643; 31642; 31641; 31640; 31639; 31639; 31638; 31637; 31636; 31636; 31635; 31634; 31633; 31632; 31632;
  31631; 31630; 31629; 31629; 31628; 31627; 31626; 31625; 31625; 31624; 31623; 31622; 31622; 31621; 31620; 31619; 31618; 31618;
  31617; 31616; 31615; 31615; 31614; 31613; 31612; 31611; 31611; 31610; 31609; 31608; 31608; 31607; 31606; 31605; 31604; 31604;
  31603; 31602; 31601; 31601; 31600; 31599; 31598; 31597; 31597; 31596; 31595; 31594; 31594; 31593; 31592; 31591; 31590; 31590;
  31589; 31588; 31587; 31587; 31586; 31585; 31584; 31584; 31583; 31582; 31581; 31580; 31580; 31579; 31578; 31577; 31577; 31576;
  31575; 31574; 31573; 31573; 31572; 31571; 31570; 31570; 31569; 31568; 31567; 31566; 31566; 31565; 31564; 31563; 31563; 31562;
  31561; 31560; 31559; 31559; 31558; 31557; 31556; 31556; 31555; 31554; 31553; 31553; 31552; 31551; 31550; 31549; 31549; 31548;
  31547; 31546; 31546; 31545; 31544; 31543; 31542; 31542; 31541; 31540; 31539; 31539; 31538; 31537; 31536; 31535; 31535; 31534;
  31533; 31532; 31532; 31531; 31530; 31529; 31528; 31528; 31527; 31526; 31525; 31525; 31524; 31523; 31522; 31522; 31521; 31520;
  31519; 31518; 31518; 31517; 31516; 31515; 31515; 31514; 31513; 31512; 31511; 31511; 31510; 31509; 31508; 31508; 31507; 31506;
  31505; 31504; 31504; 31503; 31502; 31501; 31501; 31500; 31499; 31498; 31498; 31497; 31496; 31495; 31494; 31494; 31493; 31492;
  31491; 31491; 31490; 31489; 31488; 31487; 31487; 31486; 31485; 31484; 31484; 31483; 31482; 31481; 31481; 31480; 31479; 31478].
Definition pow_lut_12 : list Z := [
  31477; 31477; 31476; 31475; 31474; 31474; 31473; 31472; 31471; 31470; 31470; 31469; 31468; 31467; 31467; 31466; 31465; 31464;
  31464; 31463; 31462; 31461; 31460; 31460; 31459; 31458; 31457; 31457; 31456; 31455; 31454; 31453; 31453; 31452; 31451; 31450;
  31450; 31449; 31448; 31447; 31447; 31446; 31445; 31444; 31443; 31443; 31442; 31441; 31440; 31440; 31439; 31438; 31437; 31436;
  31436; 31435; 31434; 31433; 31433; 31432; 31431; 31430; 31430; 31429; 31428; 31427; 31426; 31426; 31425; 31424; 31423; 31423;
  31422; 31421; 31420; 31420; 31419; 31418; 31417; 31416; 31416; 31415; 31414; 31413; 31413; 31412; 31411; 31410; 31409; 31409;
  31408; 31407; 31406; 31406; 31405; 31404; 31403; 31403; 31402; 31401; 31400; 31399; 31399; 31398; 31397; 31396; 31396; 31395;
  31394; 31393; 31393; 31392; 31391; 31390; 31389; 31389; 31388; 31387; 31386; 31386; 31385; 31384; 31383; 31382; 31382; 31381;
  31380; 31379; 31379; 31378; 31377; 31376; 31376; 31375; 31374; 31373; 31372; 31372; 31371; 31370; 31369; 31369; 31368; 31367;
  31366; 31366; 31365; 31364; 31363; 31362; 31362; 31361; 31360; 31359; 31359; 31358; 31357; 31356; 31356; 31355; 31354; 31353;
  31352; 31352; 31351; 31350; 31349; 31349; 31348; 31347; 31346; 31346; 31345; 31344; 31343; 31342; 31342; 31341; 31340; 31339;
  31339; 31338; 31337; 31336; 31336; 31335; 31334; 31333; 31332; 31332; 31331; 31330; 31329; 31329; 31328; 31327; 31326; 31326;
  31325; 31324; 31323; 31322; 31322; 31321; 31320; 31319; 31319; 31318; 31317; 31316; 31316; 31315; 31314; 31313; 31312; 31312;
  31311; 31310; 31309; 31309; 31308; 31307; 31306; 31306; 31305; 31304; 31303; 31302; 31302; 31301; 31300; 31299; 31299; 31298;
  31297; 31296; 31296; 31295; 31294; 31293; 31292; 31292; 31291; 31290; 31289; 31289; 31288; 31287; 31286; 31286; 31285; 31284;
  31283; 31282; 31282; 31281; 31280; 31279; 31279; 31278; 31277; 31276; 31276; 31275; 31274; 31273; 31272; 31272; 31271; 31270;
  31269; 31269; 31268; 31267; 31266; 31266; 31265; 31264; 31263; 31262; 31262; 31261; 31260; 31259; 31259; 31258; 31257; 31256;
  31256; 31255; 31254; 31253; 31253; 31252; 31251; 31250; 31249; 31249; 31248; 31247; 31246; 31246; 31245; 31244; 31243; 31243;
  31242; 31241; 31240; 31239; 31239; 31238; 31237; 31236; 31236; 31235; 31234; 31233; 31233; 31232; 31231; 31230; 31229; 31229;
  31228; 31227; 31226; 31226; 31225; 31224; 31223; 31223; 31222; 31221; 31220; 31220; 31219; 31218; 31217; 31216; 31216; 31215;
  31214; 31213; 31213; 31212; 31211; 31210; 31210; 31209; 31208; 31207; 31206; 31206; 31205; 31204; 31203; 31203; 31202; 31201;
  31200; 31200; 31199; 31198; 31197; 31197; 31196; 31195; 31194; 31193; 31193; 31192; 31191; 31190; 31190; 31189; 31188; 31187;
  31187; 31186; 31185; 31184; 31184; 31183; 31182; 31181; 31180; 31180; 31179; 31178; 31177; 31177; 31176; 31175; 31174; 31174;
  31173; 31172; 31171; 31170; 31170; 31169; 31168; 31167; 31167; 31166; 31165; 31164; 31164; 31163; 31162; 31161; 31161; 31160;
  31159; 31158; 31157; 31157; 31156; 31155; 31154; 31154; 31153; 31152; 31151; 31151; 31150; 31149; 31148; 31148; 31147; 31146;
  31145; 31144; 31144; 31143; 31142; 31141; 31141; 31140; 31139; 31138; 31138; 31137; 31136; 31135; 31135; 31134; 31133; 31132;
  31131; 31131; 31130; 31129; 31128; 31128; 31127; 31126; 31125; 31125; 31124; 31123; 31122; 31122; 31121; 31120; 31119; 31118;
  31118; 31117; 31116; 31115; 31115; 31114; 31113; 31112; 31112; 31111; 31110; 31109; 31109; 31108; 31107; 31106; 31105; 31105;
  31104; 31103; 31102; 31102; 31101; 31100; 31099; 31099; 31098; 31097; 31096; 31096; 31095; 31094; 31093; 31093; 31092; 31091;
  31090; 31089; 31089; 31088; 31087; 31086; 31086; 31085; 31084; 31083; 31083; 31082; 31081; 31080; 31080; 31079; 31078; 31077;
  31076; 31076; 31075; 31074; 31073; 31073; 31072; 31071; 31070; 31070; 31069; 31068; 31067; 31067; 31066; 31065; 31064; 31064;
  31063; 31062; 31061; 31060; 31060; 31059; 31058; 31057; 31057; 31056; 31055; 31054; 31054; 31053; 31052; 31051; 31051; 31050;
  31049; 31048; 31047; 31047; 31046; 31045; 31044; 31044; 31043; 31042; 31041; 31041; 31040; 31039; 31038; 31038; 31037; 31036;
  31035; 31035; 31034; 31033; 31032; 31031; 31031; 31030; 31029; 31028; 31028; 31027; 31026; 31025; 31025; 31024; 31023; 31022;
  31022; 31021; 31020; 31019; 31019; 31018; 31017; 31016; 31015; 31015; 31014; 31013; 31012; 31012; 31011; 31010; 31009; 31009;
  31008; 31007; 31006; 31006; 31005; 31004; 31003; 31003; 31002; 31001; 31000; 30999; 30999; 30998; 30997; 30996; 30996; 30995;
  30994; 30993; 30993; 30992; 30991; 30990; 30990; 30989; 30988; 30987; 30987; 30986; 30985; 30984; 30984; 30983; 30982; 30981;
  30980; 30980; 30979; 30978; 30977; 30977; 30976; 30975; 30974; 30974; 30973; 30972; 30971; 30971; 30970; 30969; 30968; 30968;
  30967; 30966; 30965; 30964; 30964; 30963; 30962; 30961; 30961; 30960; 30959; 30958; 30958; 30957; 30956; 30955; 30955; 30954;
  30953; 30952; 30952; 30951; 30950; 30949; 30949; 30948; 30947; 30946; 30945; 30945; 30944; 30943; 30942; 30942; 30941; 30940;
  30939; 30939; 30938; 30937; 30936; 30936; 30935; 30934; 30933; 30933; 30932; 30931; 30930; 30930; 30929; 30928; 30927; 30926;
  30926; 30925; 30924; 30923; 30923; 30922; 30921; 30920; 30920; 30919; 30918; 30917; 30917; 30916; 30915; 30914; 30914; 30913;
  30912; 30911; 30911; 30910; 30909; 30908; 30908; 30907; 30906; 30905; 30904; 30904; 30903; 30902; 30901; 30901; 30900; 30899;
  30898; 30898; 30897; 30896; 30895; 30895; 30894; 30893; 30892; 30892; 30891; 30890; 30889; 30889; 30888; 30887; 30886; 30886;
  30885; 30884; 30883; 30882; 30882; 30881; 30880; 30879; 30879; 30878; 30877; 30876; 30876; 30875; 30874; 30873; 30873; 30872;
  30871; 30870; 30870; 30869; 30868; 30867; 30867; 30866; 30865; 30864; 30864; 30863; 30862; 30861; 30860; 30860; 30859; 30858;
  30857; 30857; 30856; 30855; 30854; 30854; 30853; 30852; 30851; 30851; 30850; 30849; 30848; 30848; 30847; 30846; 30845; 30845;
  30844; 30843; 30842; 30842; 30841; 30840; 30839; 30839; 30838; 30837; 30836; 30835; 30835; 30834; 30833; 30832; 30832; 30831;
  30830; 30829; 30829; 30828; 30827; 30826; 30826; 30825; 30824; 30823; 30823; 30822; 30821; 30820; 30820; 30819; 30818; 30817;
  30817; 30816; 30815; 30814; 30814; 30813; 30812; 30811; 30811; 30810; 30809; 30808; 30807; 30807; 30806; 30805; 30804; 30804;
  30803; 30802; 30801; 30801; 30800; 30799; 30798; 30798; 30797; 30796; 30795; 30795; 30794; 30793; 30792; 30792; 30791; 30790].
Definition pow_lut_13 : list Z := [
  30789; 30789; 30788; 30787; 30786; 30786; 30785; 30784; 30783; 30783; 30782; 30781; 30780; 30779; 30779; 30778; 30777; 30776;
  30776; 30775; 30774; 30773; 30773; 30772; 30771; 30770; 30770; 30769; 30768; 30767; 30767; 30766; 30765; 30764; 30764; 30763;
  30762; 30761; 30761; 30760; 30759; 30758; 30758; 30757; 30756; 30755; 30755; 30754; 30753; 30752; 30752; 30751; 30750; 30749;
  30749; 30748; 30747; 30746; 30746; 30745; 30744; 30743; 30742; 30742; 30741; 30740; 30739; 30739; 30738; 30737; 30736; 30736;
  30735; 30734; 30733; 30733; 30732; 30731; 30730; 30730; 30729; 30728; 30727; 30727; 30726; 30725; 30724; 30724; 30723; 30722;
  30721; 30721; 30720; 30719; 30718; 30718; 30717; 30716; 30715; 30715; 30714; 30713; 30712; 30712; 30711; 30710; 30709; 30709;
  30708; 30707; 30706; 30706; 30705; 30704; 30703; 30702; 30702; 30701; 30700; 30699; 30699; 30698; 30697; 30696; 30696; 30695;
  30694; 30693; 30693; 30692; 30691; 30690; 30690; 30689; 30688; 30687; 30687; 30686; 30685; 30684; 30684; 30683; 30682; 30681;
  30681; 30680; 30679; 30678; 30678; 30677; 30676; 30675; 30675; 30674; 30673; 30672; 30672; 30671; 30670; 30669; 30669; 30668;
  30667; 30666; 30666; 30665; 30664; 30663; 30663; 30662; 30661; 30660; 30660; 30659; 30658; 30657; 30657; 30656; 30655; 30654;
  30654; 30653; 30652; 30651; 30651; 30650; 30649; 30648; 30648; 30647; 30646; 30645; 30644; 30644; 30643; 30642; 30641; 30641;
  30640; 30639; 30638; 30638; 30637; 30636; 30635; 30635; 30634; 30633; 30632; 30632; 30631; 30630; 30629; 30629; 30628; 30627;
  30626; 30626; 30625; 30624; 30623; 30623; 30622; 30621; 30620; 30620; 30619; 30618; 30617; 30617; 30616; 30615; 30614; 30614;
  30613; 30612; 30611; 30611; 30610; 30609; 30608; 30608; 30607; 30606; 30605; 30605; 30604; 30603; 30602; 30602; 30601; 30600;
  30599; 30599; 30598; 30597; 30596; 30596; 30595; 30594; 30593; 30593; 30592; 30591; 30590; 30590; 30589; 30588; 30587; 30587;
  30586; 30585; 30584; 30584; 30583; 30582; 30581; 30581; 30580; 30579; 30578; 30578; 30577; 30576; 30575; 30575; 30574; 30573;
  30572; 30572; 30571; 30570; 30569; 30569; 30568; 30567; 30566; 30566; 30565; 30564; 30563; 30563; 30562; 30561; 30560; 30560;
  30559; 30558; 30557; 30557; 30556; 30555; 30554; 30554; 30553; 30552; 30551; 30551; 30550; 30549; 30548; 30548; 30547; 30546;
  30545; 30545; 30544; 30543; 30542; 30542; 30541; 30540; 30539; 30539; 30538; 30537; 30536; 30536; 30535; 30534; 30533; 30533;
  30532; 30531; 30530; 30530; 30529; 30528; 30527; 30527; 30526; 30525; 30524; 30524; 30523; 30522; 30521; 30521; 30520; 30519;
  30518; 30518; 30517; 30516; 30515; 30515; 30514; 30513; 30512; 30512; 30511; 30510; 30509; 30509; 30508; 30507; 30506; 30506;
  30505; 30504; 30503; 30503; 30502; 30501; 30500; 30500; 30499; 30498; 30497; 30497; 30496; 30495; 30494; 30494; 30493; 30492;
  30491; 30491; 30490; 30489; 30488; 30488; 30487; 30486; 30485; 30485; 30484; 30483; 30482; 30482; 30481; 30480; 30479; 30479;
  30478; 30477; 30476; 30476; 30475; 30474; 30473; 30473; 30472; 30471; 30470; 30470; 30469; 30468; 30467; 30467; 30466; 30465;
  30464; 30464; 30463; 30462; 30461; 30461; 30460; 30459; 30458; 30458; 30457; 30456; 30455; 30455; 30454; 30453; 30452; 30452;
  30451; 30450; 30449; 30449; 30448; 30447; 30446; 30446; 30445; 30444; 30443; 30443; 30442; 30441; 30440; 30440; 30439; 30438;
  30437; 30437; 30436; 30435; 30434; 30434; 30433; 30432; 30432; 30431; 30430; 30429; 30429; 30428; 30427; 30426; 30426; 30425;
  30424; 30423; 30423; 30422; 30421; 30420; 30420; 30419; 30418; 30417; 30417; 30416; 30415; 30414; 30414; 30413; 30412; 30411;
  30411; 30410; 30409; 30408; 30408; 30407; 30406; 30405; 30405; 30404; 30403; 30402; 30402; 30401; 30400; 30399; 30399; 30398;
  30397; 30396; 30396; 30395; 30394; 30393; 30393; 30392; 30391; 30390; 30390; 30389; 30388; 30387; 30387; 30386; 30385; 30384;
  30384; 30383; 30382; 30381; 30381; 30380; 30379; 30378; 30378; 30377; 30376; 30376; 30375; 30374; 30373; 30373; 30372; 30371;
  30370; 30370; 30369; 30368; 30367; 30367; 30366; 30365; 30364; 30364; 30363; 30362; 30361; 30361; 30360; 30359; 30358; 30358;
  30357; 30356; 30355; 30355; 30354; 30353; 30352; 30352; 30351; 30350; 30349; 30349; 30348; 30347; 30346; 30346; 30345; 30344;
  30343; 30343; 30342; 30341; 30340; 30340; 30339; 30338; 30337; 30337; 30336; 30335; 30335; 30334; 30333; 30332; 30332; 30331;
  30330; 30329; 30329; 30328; 30327; 30326; 30326; 30325; 30324; 30323; 30323; 30322; 30321; 30320; 30320; 30319; 30318; 30317;
  30317; 30316; 30315; 30314; 30314; 30313; 30312; 30311; 30311; 30310; 30309; 30308; 30308; 30307; 30306; 30305; 30305; 30304;
  30303; 30302; 30302; 30301; 30300; 30300; 30299; 30298; 30297; 30297; 30296; 30295; 30294; 30294; 30293; 30292; 30291; 30291;
  30290; 30289; 30288; 30288; 30287; 30286; 30285; 30285; 30284; 30283; 30282; 30282; 30281; 30280; 30279; 30279; 30278; 30277;
  30276; 30276; 30275; 30274; 30273; 30273; 30272; 30271; 30271; 30270; 30269; 30268; 30268; 30267; 30266; 30265; 30265; 30264;
  30263; 30262; 30262; 30261; 30260; 30259; 30259; 30258; 30257; 30256; 30256; 30255; 30254; 30253; 30253; 30252; 30251; 30250;
  30250; 30249; 30248; 30247; 30247; 30246; 30245; 30244; 30244; 30243; 30242; 30242; 30241; 30240; 30239; 30239; 30238; 30237;
  30236; 30236; 30235; 30234; 30233; 30233; 30232; 30231; 30230; 30230; 30229; 30228; 30227; 30227; 30226; 30225; 30224; 30224;
  30223; 30222; 30221; 30221; 30220; 30219; 30219; 30218; 30217; 30216; 30216; 30215; 30214; 30213; 30213; 30212; 30211; 30210;
  30210; 30209; 30208; 30207; 30207; 30206; 30205; 30204; 30204; 30203; 30202; 30201; 30201; 30200; 30199; 30198; 30198; 30197;
  30196; 30196; 30195; 30194; 30193; 30193; 30192; 30191; 30190; 30190; 30189; 30188; 30187; 30187; 30186; 30185; 30184; 30184;
  30183; 30182; 30181; 30181; 30180; 30179; 30178; 30178; 30177; 30176; 30175; 30175; 30174; 30173; 30173; 30172; 30171; 30170;
  30170; 30169; 30168; 30167; 30167; 30166; 30165; 30164; 30164; 30163; 30162; 30161; 30161; 30160; 30159; 30158; 30158; 30157;
  30156; 30155; 30155; 30154; 30153; 30153; 30152; 30151; 30150; 30150; 30149; 30148; 30147; 30147; 30146; 30145; 30144; 30144;
  30143; 30142; 30141; 30141; 30140; 30139; 30138; 30138; 30137; 30136; 30136; 30135; 30134; 30133; 30133; 30132; 30131; 30130;
  30130; 30129; 30128; 30127; 30127; 30126; 30125; 30124; 30124; 30123; 30122; 30121; 30121; 30120; 30119; 30118; 30118; 30117].
Definition pow_lut_14 : list Z := [
  30116; 30116; 30115; 30114; 30113; 30113; 30112; 30111; 30110; 30110; 30109; 30108; 30107; 30107; 30106; 30105; 30104; 30104;
  30103; 30102; 30101; 30101; 30100; 30099; 30099; 30098; 30097; 30096; 30096; 30095; 30094; 30093; 30093; 30092; 30091; 30090;
  30090; 30089; 30088; 30087; 30087; 30086; 30085; 30084; 30084; 30083; 30082; 30082; 30081; 30080; 30079; 30079; 30078; 30077;
  30076; 30076; 30075; 30074; 30073; 30073; 30072; 30071; 30070; 30070; 30069; 30068; 30067; 30067; 30066; 30065; 30065; 30064;
  30063; 30062; 30062; 30061; 30060; 30059; 30059; 30058; 30057; 30056; 30056; 30055; 30054; 30053; 30053; 30052; 30051; 30051;
  30050; 30049; 30048; 30048; 30047; 30046; 30045; 30045; 30044; 30043; 30042; 30042; 30041; 30040; 30039; 30039; 30038; 30037;
  30036; 30036; 30035; 30034; 30034; 30033; 30032; 30031; 30031; 30030; 30029; 30028; 30028; 30027; 30026; 30025; 30025; 30024;
  30023; 30022; 30022; 30021; 30020; 30020; 30019; 30018; 30017; 30017; 30016; 30015; 30014; 30014; 30013; 30012; 30011; 30011;
  30010; 30009; 30008; 30008; 30007; 30006; 30006; 30005; 30004; 30003; 30003; 30002; 30001; 30000; 30000; 29999; 29998; 29997;
  29997; 29996; 29995; 29994; 29994; 29993; 29992; 29992; 29991; 29990; 29989; 29989; 29988; 29987; 29986; 29986; 29985; 29984;
  29983; 29983; 29982; 29981; 29980; 29980; 29979; 29978; 29978; 29977; 29976; 29975; 29975; 29974; 29973; 29972; 29972; 29971;
  29970; 29969; 29969; 29968; 29967; 29967; 29966; 29965; 29964; 29964; 29963; 29962; 29961; 29961; 29960; 29959; 29958; 29958;
  29957; 29956; 29955; 29955; 29954; 29953; 29953; 29952; 29951; 29950; 29950; 29949; 29948; 29947; 29947; 29946; 29945; 29944;
  29944; 29943; 29942; 29941; 29941; 29940; 29939; 29939; 29938; 29937; 29936; 29936; 29935; 29934; 29933; 29933; 29932; 29931;
  29930; 29930; 29929; 29928; 29928; 29927; 29926; 29925; 29925; 29924; 29923; 29922; 29922; 29921; 29920; 29919; 29919; 29918;
  29917; 29916; 29916; 29915; 29914; 29914; 29913; 29912; 29911; 29911; 29910; 29909; 29908; 29908; 29907; 29906; 29905; 29905;
  29904; 29903; 29903; 29902; 29901; 29900; 29900; 29899; 29898; 29897; 29897; 29896; 29895; 29894; 29894; 29893; 29892; 29892;
  29891; 29890; 29889; 29889; 29888; 29887; 29886; 29886; 29885; 29884; 29883; 29883; 29882; 29881; 29881; 29880; 29879; 29878;
  29878; 29877; 29876; 29875; 29875; 29874; 29873; 29872; 29872; 29871; 29870; 29870; 29869; 29868; 29867; 29867; 29866; 29865;
  29864; 29864; 29863; 29862; 29861; 29861; 29860; 29859; 29859; 29858; 29857; 29856; 29856; 29855; 29854; 29853; 29853; 29852;
  29851; 29850; 29850; 29849; 29848; 29848; 29847; 29846; 29845; 29845; 29844; 29843; 29842; 29842; 29841; 29840; 29839; 29839;
  29838; 29837; 29837; 29836; 29835; 29834; 29834; 29833; 29832; 29831; 29831; 29830; 29829; 29828; 29828; 29827; 29826; 29826;
  29825; 29824; 29823; 29823; 29822; 29821; 29820; 29820; 29819; 29818; 29817; 29817; 29816; 29815; 29815; 29814; 29813; 29812;
  29812; 29811; 29810; 29809; 29809; 29808; 29807; 29806; 29806; 29805; 29804; 29804; 29803; 29802; 29801; 29801; 29800; 29799;
  29798; 29798; 29797; 29796; 29796; 29795; 29794; 29793; 29793; 29792; 29791; 29790; 29790; 29789; 29788; 29787; 29787; 29786;
  29785; 29785; 29784; 29783; 29782; 29782; 29781; 29780; 29779; 29779; 29778; 29777; 29776; 29776; 29775; 29774; 29774; 29773;
  29772; 29771; 29771; 29770; 29769; 29768; 29768; 29767; 29766; 29766; 29765; 29764; 29763; 29763; 29762; 29761; 29760; 29760;
  29759; 29758; 29757; 29757; 29756; 29755; 29755; 29754; 29753; 29752; 29752; 29751; 29750; 29749; 29749; 29748; 29747; 29747;
  29746; 29745; 29744; 29744; 29743; 29742; 29741; 29741; 29740; 29739; 29738; 29738; 29737; 29736; 29736; 29735; 29734; 29733;
  29733; 29732; 29731; 29730; 29730; 29729; 29728; 29728; 29727; 29726; 29725; 29725; 29724; 29723; 29722; 29722; 29721; 29720;
  29720; 29719; 29718; 29717; 29717; 29716; 29715; 29714; 29714; 29713; 29712; 29711; 29711; 29710; 29709; 29709; 29708; 29707;
  29706; 29706; 29705; 29704; 29703; 29703; 29702; 29701; 29701; 29700; 29699; 29698; 29698; 29697; 29696; 29695; 29695; 29694;
  29693; 29693; 29692; 29691; 29690; 29690; 29689; 29688; 29687; 29687; 29686; 29685; 29685; 29684; 29683; 29682; 29682; 29681;
  29680; 29679; 29679; 29678; 29677; 29676; 29676; 29675; 29674; 29674; 29673; 29672; 29671; 29671; 29670; 29669; 29668; 29668;
  29667; 29666; 29666; 29665; 29664; 29663; 29663; 29662; 29661; 29660; 29660; 29659; 29658; 29658; 29657; 29656; 29655; 29655;
  29654; 29653; 29652; 29652; 29651; 29650; 29650; 29649; 29648; 29647; 29647; 29646; 29645; 29644; 29644; 29643; 29642; 29642;
  29641; 29640; 29639; 29639; 29638; 29637; 29636; 29636; 29635; 29634; 29634; 29633; 29632; 29631; 29631; 29630; 29629; 29628;
  29628; 29627; 29626; 29626; 29625; 29624; 29623; 29623; 29622; 29621; 29620; 29620; 29619; 29618; 29618; 29617; 29616; 29615;
  29615; 29614; 29613; 29612; 29612; 29611; 29610; 29610; 29609; 29608; 29607; 29607; 29606; 29605; 29604; 29604; 29603; 29602;
  29602; 29601; 29600; 29599; 29599; 29598; 29597; 29596; 29596; 29595; 29594; 29594; 29593; 29592; 29591; 29591; 29590; 29589;
  29588; 29588; 29587; 29586; 29586; 29585; 29584; 29583; 29583; 29582; 29581; 29580; 29580; 29579; 29578; 29578; 29577; 29576;
  29575; 29575; 29574; 29573; 29572; 29572; 29571; 29570; 29570; 29569; 29568; 29567; 29567; 29566; 29565; 29564; 29564; 29563;
  29562; 29562; 29561; 29560; 29559; 29559; 29558; 29557; 29556; 29556; 29555; 29554; 29554; 29553; 29552; 29551; 29551; 29550;
  29549; 29548; 29548; 29547; 29546; 29546; 29545; 29544; 29543; 29543; 29542; 29541; 29541; 29540; 29539; 29538; 29538; 29537;
  29536; 29535; 29535; 29534; 29533; 29533; 29532; 29531; 29530; 29530; 29529; 29528; 29527; 29527; 29526; 29525; 29525; 29524;
  29523; 29522; 29522; 29521; 29520; 29519; 29519; 29518; 29517; 29517; 29516; 29515; 29514; 29514; 29513; 29512; 29512; 29511;
  29510; 29509; 29509; 29508; 29507; 29506; 29506; 29505; 29504; 29504; 29503; 29502; 29501; 29501; 29500; 29499; 29498; 29498;
  29497; 29496; 29496; 29495; 29494; 29493; 29493; 29492; 29491; 29490; 29490; 29489; 29488; 29488; 29487; 29486; 29485; 29485;
  29484; 29483; 29483; 29482; 29481; 29480; 29480; 29479; 29478; 29477; 29477; 29476; 29475; 29475; 29474; 29473; 29472; 29472;
  29471; 29470; 29469; 29469; 29468; 29467; 29467; 29466; 29465; 29464; 29464; 29463; 29462; 29462; 29461; 29460; 29459; 29459].
Definition pow_lut_15 : list Z := [
  29458; 29457; 29456; 29456; 29455; 29454; 29454; 29453; 29452; 29451; 29451; 29450; 29449; 29449; 29448; 29447; 29446; 29446;
  29445; 29444; 29443; 29443; 29442; 29441; 29441; 29440; 29439; 29438; 29438; 29437; 29436; 29436; 29435; 29434; 29433; 29433;
  29432; 29431; 29430; 29430; 29429; 29428; 29428; 29427; 29426; 29425; 29425; 29424; 29423; 29422; 29422; 29421; 29420; 29420;
  29419; 29418; 29417; 29417; 29416; 29415; 29415; 29414; 29413; 29412; 29412; 29411; 29410; 29409; 29409; 29408; 29407; 29407;
  29406; 29405; 29404; 29404; 29403; 29402; 29402; 29401; 29400; 29399; 29399; 29398; 29397; 29396; 29396; 29395; 29394; 29394;
  29393; 29392; 29391; 29391; 29390; 29389; 29389; 29388; 29387; 29386; 29386; 29385; 29384; 29384; 29383; 29382; 29381; 29381;
  29380; 29379; 29378; 29378; 29377; 29376; 29376; 29375; 29374; 29373; 29373; 29372; 29371; 29371; 29370; 29369; 29368; 29368;
  29367; 29366; 29365; 29365; 29364; 29363; 29363; 29362; 29361; 29360; 29360; 29359; 29358; 29358; 29357; 29356; 29355; 29355;
  29354; 29353; 29352; 29352; 29351; 29350; 29350; 29349; 29348; 29347; 29347; 29346; 29345; 29345; 29344; 29343; 29342; 29342;
  29341; 29340; 29340; 29339; 29338; 29337; 29337; 29336; 29335; 29334; 29334; 29333; 29332; 29332; 29331; 29330; 29329; 29329;
  29328; 29327; 29327; 29326; 29325; 29324; 29324; 29323; 29322; 29322; 29321; 29320; 29319; 29319; 29318; 29317; 29316; 29316;
  29315; 29314; 29314; 29313; 29312; 29311; 29311; 29310; 29309; 29309; 29308; 29307; 29306; 29306; 29305; 29304; 29304; 29303;
  29302; 29301; 29301; 29300; 29299; 29298; 29298; 29297; 29296; 29296; 29295; 29294; 29293; 29293; 29292; 29291; 29291; 29290;
  29289; 29288; 29288; 29287; 29286; 29286; 29285; 29284; 29283; 29283; 29282; 29281; 29280; 29280; 29279; 29278; 29278; 29277;
  29276; 29275; 29275; 29274; 29273; 29273; 29272; 29271; 29270; 29270; 29269; 29268; 29268; 29267; 29266; 29265; 29265; 29264;
  29263; 29263; 29262; 29261; 29260; 29260; 29259; 29258; 29257; 29257; 29256; 29255; 29255; 29254; 29253; 29252; 29252; 29251;
  29250; 29250; 29249; 29248; 29247; 29247; 29246; 29245; 29245; 29244; 29243; 29242; 29242; 29241; 29240; 29240; 29239; 29238;
  29237; 29237; 29236; 29235; 29235; 29234; 29233; 29232; 29232; 29231; 29230; 29229; 29229; 29228; 29227; 29227; 29226; 29225;
  29224; 29224; 29223; 29222; 29222; 29221; 29220; 29219; 29219; 29218; 29217; 29217; 29216; 29215; 29214; 29214; 29213; 29212;
  29212; 29211; 29210; 29209; 29209; 29208; 29207; 29207; 29206; 29205; 29204; 29204; 29203; 29202; 29201; 29201; 29200; 29199;
  29199; 29198; 29197; 29196; 29196; 29195; 29194; 29194; 29193; 29192; 29191; 29191; 29190; 29189; 29189; 29188; 29187; 29186;
  29186; 29185; 29184; 29184; 29183; 29182; 29181; 29181; 29180; 29179; 29179; 29178; 29177; 29176; 29176; 29175; 29174; 29174;
  29173; 29172; 29171; 29171; 29170; 29169; 29169; 29168; 29167; 29166; 29166; 29165; 29164; 29164; 29163; 29162; 29161; 29161;
  29160; 29159; 29159; 29158; 29157; 29156; 29156; 29155; 29154; 29153; 29153; 29152; 29151; 29151; 29150; 29149; 29148; 29148;
  29147; 29146; 29146; 29145; 29144; 29143; 29143; 29142; 29141; 29141; 29140; 29139; 29138; 29138; 29137; 29136; 29136; 29135;
  29134; 29133; 29133; 29132; 29131; 29131; 29130; 29129; 29128; 29128; 29127; 29126; 29126; 29125; 29124; 29123; 29123; 29122;
  29121; 29121; 29120; 29119; 29118; 29118; 29117; 29116; 29116; 29115; 29114; 29113; 29113; 29112; 29111; 29111; 29110; 29109;
  29108; 29108; 29107; 29106; 29106; 29105; 29104; 29103; 29103; 29102; 29101; 29101; 29100; 29099; 29098; 29098; 29097; 29096;
  29096; 29095; 29094; 29093; 29093; 29092; 29091; 29091; 29090; 29089; 29088; 29088; 29087; 29086; 29086; 29085; 29084; 29083;
  29083; 29082; 29081; 29081; 29080; 29079; 29078; 29078; 29077; 29076; 29076; 29075; 29074; 29073; 29073; 29072; 29071; 29071;
  29070; 29069; 29068; 29068; 29067; 29066; 29066; 29065; 29064; 29063; 29063; 29062; 29061; 29061; 29060; 29059; 29058; 29058;
  29057; 29056; 29056; 29055; 29054; 29053; 29053; 29052; 29051; 29051; 29050; 29049; 29048; 29048; 29047; 29046; 29046; 29045;
  29044; 29043; 29043; 29042; 29041; 29041; 29040; 29039; 29038; 29038; 29037; 29036; 29036; 29035; 29034; 29033; 29033; 29032;
  29031; 29031; 29030; 29029; 29028; 29028; 29027; 29026; 29026; 29025; 29024; 29023; 29023; 29022; 29021; 29021; 29020; 29019;
  29018; 29018; 29017; 29016; 29016; 29015; 29014; 29013; 29013; 29012; 29011; 29011; 29010; 29009; 29009; 29008; 29007; 29006;
  29006; 29005; 29004; 29004; 29003; 29002; 29001; 29001; 29000; 28999; 28999; 28998; 28997; 28996; 28996; 28995; 28994; 28994;
  28993; 28992; 28991; 28991; 28990; 28989; 28989; 28988; 28987; 28986; 28986; 28985; 28984; 28984; 28983; 28982; 28981; 28981;
  28980; 28979; 28979; 28978; 28977; 28976; 28976; 28975; 28974; 28974; 28973; 28972; 28971; 28971; 28970; 28969; 28969; 28968;
  28967; 28967; 28966; 28965; 28964; 28964; 28963; 28962; 28962; 28961; 28960; 28959; 28959; 28958; 28957; 28957; 28956; 28955;
  28954; 28954; 28953; 28952; 28952; 28951; 28950; 28949; 28949; 28948; 28947; 28947; 28946; 28945; 28944; 28944; 28943; 28942;
  28942; 28941; 28940; 28939; 28939; 28938; 28937; 28937; 28936; 28935; 28935; 28934; 28933; 28932; 28932; 28931; 28930; 28930;
  28929; 28928; 28927; 28927; 28926; 28925; 28925; 28924; 28923; 28922; 28922; 28921; 28920; 28920; 28919; 28918; 28917; 28917;
  28916; 28915; 28915; 28914; 28913; 28912; 28912; 28911; 28910; 28910; 28909; 28908; 28908; 28907; 28906; 28905; 28905; 28904;
  28903; 28903; 28902; 28901; 28900; 28900; 28899; 28898; 28898; 28897; 28896; 28895; 28895; 28894; 28893; 28893; 28892; 28891;
  28890; 28890; 28889; 28888; 28888; 28887; 28886; 28886; 28885; 28884; 28883; 28883; 28882; 28881; 28881; 28880; 28879; 28878;
  28878; 28877; 28876; 28876; 28875; 28874; 28873; 28873; 28872; 28871; 28871; 28870; 28869; 28869; 28868; 28867; 28866; 28866;
  28865; 28864; 28864; 28863; 28862; 28861; 28861; 28860; 28859; 28859; 28858; 28857; 28856; 28856; 28855; 28854; 28854; 28853;
  28852; 28851; 28851; 28850; 28849; 28849; 28848; 28847; 28847; 28846; 28845; 28844; 28844; 28843; 28842; 28842; 28841; 28840;
  28839; 28839; 28838; 28837; 28837; 28836; 28835; 28834; 28834; 28833; 28832; 28832; 28831; 28830; 28830; 28829; 28828; 28827;
  28827; 28826; 28825; 28825; 28824; 28823; 28822; 28822; 28821; 28820; 28820; 28819; 28818; 28818; 28817; 28816; 28815; 28815].
Definition pow_lut_16 : list Z := [
  28814; 28813; 28813; 28812; 28811; 28810; 28810; 28809; 28808; 28808; 28807; 28806; 28805; 28805; 28804; 28803; 28803; 28802;
  28801; 28801; 28800; 28799; 28798; 28798; 28797; 28796; 28796; 28795; 28794; 28793; 28793; 28792; 28791; 28791; 28790; 28789;
  28789; 28788; 28787; 28786; 28786; 28785; 28784; 28784; 28783; 28782; 28781; 28781; 28780; 28779; 28779; 28778; 28777; 28776;
  28776; 28775; 28774; 28774; 28773; 28772; 28772; 28771; 28770; 28769; 28769; 28768; 28767; 28767; 28766; 28765; 28764; 28764;
  28763; 28762; 28762; 28761; 28760; 28760; 28759; 28758; 28757; 28757; 28756; 28755; 28755; 28754; 28753; 28752; 28752; 28751;
  28750; 28750; 28749; 28748; 28748; 28747; 28746; 28745; 28745; 28744; 28743; 28743; 28742; 28741; 28740; 28740; 28739; 28738;
  28738; 28737; 28736; 28736; 28735; 28734; 28733; 28733; 28732; 28731; 28731; 28730; 28729; 28728; 28728; 28727; 28726; 28726;
  28725; 28724; 28724; 28723; 28722; 28721; 28721; 28720; 28719; 28719; 28718; 28717; 28716; 28716; 28715; 28714; 28714; 28713;
  28712; 28712; 28711; 28710; 28709; 28709; 28708; 28707; 28707; 28706; 28705; 28704; 28704; 28703; 28702; 28702; 28701; 28700;
  28700; 28699; 28698; 28697; 28697; 28696; 28695; 28695; 28694; 28693; 28693; 28692; 28691; 28690; 28690; 28689; 28688; 28688;
  28687; 28686; 28685; 28685; 28684; 28683; 28683; 28682; 28681; 28681; 28680; 28679; 28678; 28678; 28677; 28676; 28676; 28675;
  28674; 28673; 28673; 28672; 28671; 28671; 28670; 28669; 28669; 28668; 28667; 28666; 28666; 28665; 28664; 28664; 28663; 28662;
  28662; 28661; 28660; 28659; 28659; 28658; 28657; 28657; 28656; 28655; 28654; 28654; 28653; 28652; 28652; 28651; 28650; 28650;
  28649; 28648; 28647; 28647; 28646; 28645; 28645; 28644; 28643; 28643; 28642; 28641; 28640; 28640; 28639; 28638; 28638; 28637;
  28636; 28635; 28635; 28634; 28633; 28633; 28632; 28631; 28631; 28630; 28629; 28628; 28628; 28627; 28626; 28626; 28625; 28624;
  28624; 28623; 28622; 28621; 28621; 28620; 28619; 28619; 28618; 28617; 28617; 28616; 28615; 28614; 28614; 28613; 28612; 28612;
  28611; 28610; 28609; 28609; 28608; 28607; 28607; 28606; 28605; 28605; 28604; 28603; 28602; 28602; 28601; 28600; 28600; 28599;
  28598; 28598; 28597; 28596; 28595; 28595; 28594; 28593; 28593; 28592; 28591; 28591; 28590; 28589; 28588; 28588; 28587; 28586;
  28586; 28585; 28584; 28583; 28583; 28582; 28581; 28581; 28580; 28579; 28579; 28578; 28577; 28576; 28576; 28575; 28574; 28574;
  28573; 28572; 28572; 28571; 28570; 28569; 28569; 28568; 28567; 28567; 28566; 28565; 28565; 28564; 28563; 28562; 28562; 28561;
  28560; 28560; 28559; 28558; 28558; 28557; 28556; 28555; 28555; 28554; 28553; 28553; 28552; 28551; 28551; 28550; 28549; 28548;
  28548; 28547; 28546; 28546; 28545; 28544; 28544; 28543; 28542; 28541; 28541; 28540; 28539; 28539; 28538; 28537; 28537; 28536;
  28535; 28534; 28534; 28533; 28532; 28532; 28531; 28530; 28529; 28529; 28528; 28527; 28527; 28526; 28525; 28525; 28524; 28523;
  28522; 28522; 28521; 28520; 28520; 28519; 28518; 28518; 28517; 28516; 28515; 28515; 28514; 28513; 28513; 28512; 28511; 28511;
  28510; 28509; 28508; 28508; 28507; 28506; 28506; 28505; 28504; 28504; 28503; 28502; 28501; 28501; 28500; 28499; 28499; 28498;
  28497; 28497; 28496; 28495; 28494; 28494; 28493; 28492; 28492; 28491; 28490; 28490; 28489; 28488; 28487; 28487; 28486; 28485;
  28485; 28484; 28483; 28483; 28482; 28481; 28480; 28480; 28479; 28478; 28478; 28477; 28476; 28476; 28475; 28474; 28474; 28473;
  28472; 28471; 28471; 28470; 28469; 28469; 28468; 28467; 28467; 28466; 28465; 28464; 28464; 28463; 28462; 28462; 28461; 28460;
  28460; 28459; 28458; 28457; 28457; 28456; 28455; 28455; 28454; 28453; 28453; 28452; 28451; 28450; 28450; 28449; 28448; 28448;
  28447; 28446; 28446; 28445; 28444; 28443; 28443; 28442; 28441; 28441; 28440; 28439; 28439; 28438; 28437; 28436; 28436; 28435;
  28434; 28434; 28433; 28432; 28432; 28431; 28430; 28429; 28429; 28428; 28427; 28427; 28426; 28425; 28425; 28424; 28423; 28423;
  28422; 28421; 28420; 28420; 28419; 28418; 28418; 28417; 28416; 28416; 28415; 28414; 28413; 28413; 28412; 28411; 28411; 28410;
  28409; 28409; 28408; 28407; 28406; 28406; 28405; 28404; 28404; 28403; 28402; 28402; 28401; 28400; 28399; 28399; 28398; 28397;
  28397; 28396; 28395; 28395; 28394; 28393; 28393; 28392; 28391; 28390; 28390; 28389; 28388; 28388; 28387; 28386; 28386; 28385;
  28384; 28383; 28383; 28382; 28381; 28381; 28380; 28379; 28379; 28378; 28377; 28376; 28376; 28375; 28374; 28374; 28373; 28372;
  28372; 28371; 28370; 28370; 28369; 28368; 28367; 28367; 28366; 28365; 28365; 28364; 28363; 28363; 28362; 28361; 28360; 28360;
  28359; 28358; 28358; 28357; 28356; 28356; 28355; 28354; 28353; 28353; 28352; 28351; 28351; 28350; 28349; 28349; 28348; 28347;
  28347; 28346; 28345; 28344; 28344; 28343; 28342; 28342; 28341; 28340; 28340; 28339; 28338; 28337; 28337; 28336; 28335; 28335;
  28334; 28333; 28333; 28332; 28331; 28331; 28330; 28329; 28328; 28328; 28327; 28326; 28326; 28325; 28324; 28324; 28323; 28322;
  28321; 28321; 28320; 28319; 28319; 28318; 28317; 28317; 28316; 28315; 28315; 28314; 28313; 28312; 28312; 28311; 28310; 28310;
  28309; 28308; 28308; 28307; 28306; 28305; 28305; 28304; 28303; 28303; 28302; 28301; 28301; 28300; 28299; 28299; 28298; 28297;
  28296; 28296; 28295; 28294; 28294; 28293; 28292; 28292; 28291; 28290; 28289; 28289; 28288; 28287; 28287; 28286; 28285; 28285;
  28284; 28283; 28283; 28282; 28281; 28280; 28280; 28279; 28278; 28278; 28277; 28276; 28276; 28275; 28274; 28274; 28273; 28272;
  28271; 28271; 28270; 28269; 28269; 28268; 28267; 28267; 28266; 28265; 28264; 28264; 28263; 28262; 28262; 28261; 28260; 28260;
  28259; 28258; 28258; 28257; 28256; 28255; 28255; 28254; 28253; 28253; 28252; 28251; 28251; 28250; 28249; 28249; 28248; 28247;
  28246; 28246; 28245; 28244; 28244; 28243; 28242; 28242; 28241; 28240; 28240; 28239; 28238; 28237; 28237; 28236; 28235; 28235;
  28234; 28233; 28233; 28232; 28231; 28231; 28230; 28229; 28228; 28228; 28227; 28226; 28226; 28225; 28224; 28224; 28223; 28222;
  28221; 28221; 28220; 28219; 28219; 28218; 28217; 28217; 28216; 28215; 28215; 28214; 28213; 28212; 28212; 28211; 28210; 28210;
  28209; 28208; 28208; 28207; 28206; 28206; 28205; 28204; 28203; 28203; 28202; 28201; 28201; 28200; 28199; 28199; 28198; 28197;
  28197; 28196; 28195; 28194; 28194; 28193; 28192; 28192; 28191; 28190; 28190; 28189; 28188; 28188; 28187; 28186; 28185; 28185].
Definition pow_lut_17 : list Z := [
  28184; 28183; 28183; 28182; 28181; 28181; 28180; 28179; 28179; 28178; 28177; 28176; 28176; 28175; 28174; 28174; 28173; 28172;
  28172; 28171; 28170; 28170; 28169; 28168; 28167; 28167; 28166; 28165; 28165; 28164; 28163; 28163; 28162; 28161; 28161; 28160;
  28159; 28158; 28158; 28157; 28156; 28156; 28155; 28154; 28154; 28153; 28152; 28152; 28151; 28150; 28150; 28149; 28148; 28147;
  28147; 28146; 28145; 28145; 28144; 28143; 28143; 28142; 28141; 28141; 28140; 28139; 28138; 28138; 28137; 28136; 28136; 28135;
  28134; 28134; 28133; 28132; 28132; 28131; 28130; 28129; 28129; 28128; 28127; 28127; 28126; 28125; 28125; 28124; 28123; 28123;
  28122; 28121; 28120; 28120; 28119; 28118; 28118; 28117; 28116; 28116; 28115; 28114; 28114; 28113; 28112; 28112; 28111; 28110;
  28109; 28109; 28108; 28107; 28107; 28106; 28105; 28105; 28104; 28103; 28103; 28102; 28101; 28100; 28100; 28099; 28098; 28098;
  28097; 28096; 28096; 28095; 28094; 28094; 28093; 28092; 28091; 28091; 28090; 28089; 28089; 28088; 28087; 28087; 28086; 28085;
  28085; 28084; 28083; 28083; 28082; 28081; 28080; 28080; 28079; 28078; 28078; 28077; 28076; 28076; 28075; 28074; 28074; 28073;
  28072; 28071; 28071; 28070; 28069; 28069; 28068; 28067; 28067; 28066; 28065; 28065; 28064; 28063; 28063; 28062; 28061; 28060;
  28060; 28059; 28058; 28058; 28057; 28056; 28056; 28055; 28054; 28054; 28053; 28052; 28052; 28051; 28050; 28049; 28049; 28048;
  28047; 28047; 28046; 28045; 28045; 28044; 28043; 28043; 28042; 28041; 28040; 28040; 28039; 28038; 28038; 28037; 28036; 28036;
  28035; 28034; 28034; 28033; 28032; 28032; 28031; 28030; 28029; 28029; 28028; 28027; 28027; 28026; 28025; 28025; 28024; 28023;
  28023; 28022; 28021; 28021; 28020; 28019; 28018; 28018; 28017; 28016; 28016; 28015; 28014; 28014; 28013; 28012; 28012; 28011;
  28010; 28010; 28009; 28008; 28007; 28007; 28006; 28005; 28005; 28004; 28003; 28003; 28002; 28001; 28001; 28000; 27999; 27999;
  27998; 27997; 27996; 27996; 27995; 27994; 27994; 27993; 27992; 27992; 27991; 27990; 27990; 27989; 27988; 27988; 27987; 27986;
  27985; 27985; 27984; 27983; 27983; 27982; 27981; 27981; 27980; 27979; 27979; 27978; 27977; 27977; 27976; 27975; 27974; 27974;
  27973; 27972; 27972; 27971; 27970; 27970; 27969; 27968; 27968; 27967; 27966; 27966; 27965; 27964; 27963; 27963; 27962; 27961;
  27961; 27960; 27959; 27959; 27958; 27957; 27957; 27956; 27955; 27955; 27954; 27953; 27952; 27952; 27951; 27950; 27950; 27949;
  27948; 27948; 27947; 27946; 27946; 27945; 27944; 27944; 27943; 27942; 27941; 27941; 27940; 27939; 27939; 27938; 27937; 27937;
  27936; 27935; 27935; 27934; 27933; 27933; 27932; 27931; 27931; 27930; 27929; 27928; 27928; 27927; 27926; 27926; 27925; 27924;
  27924; 27923; 27922; 27922; 27921; 27920; 27920; 27919; 27918; 27917; 27917; 27916; 27915; 27915; 27914; 27913; 27913; 27912;
  27911; 27911; 27910; 27909; 27909; 27908; 27907; 27907; 27906; 27905; 27904; 27904; 27903; 27902; 27902; 27901; 27900; 27900;
  27899; 27898; 27898; 27897; 27896; 27896; 27895; 27894; 27894; 27893; 27892; 27891; 27891; 27890; 27889; 27889; 27888; 27887;
  27887; 27886; 27885; 27885; 27884; 27883; 27883; 27882; 27881; 27880; 27880; 27879; 27878; 27878; 27877; 27876; 27876; 27875;
  27874; 27874; 27873; 27872; 27872; 27871; 27870; 27870; 27869; 27868; 27867; 27867; 27866; 27865; 27865; 27864; 27863; 27863;
  27862; 27861; 27861; 27860; 27859; 27859; 27858; 27857; 27857; 27856; 27855; 27854; 27854; 27853; 27852; 27852; 27851; 27850;
  27850; 27849; 27848; 27848; 27847; 27846; 27846; 27845; 27844; 27844; 27843; 27842; 27841; 27841; 27840; 27839; 27839; 27838;
  27837; 27837; 27836; 27835; 27835; 27834; 27833; 27833; 27832; 27831; 27831; 27830; 27829; 27829; 27828; 27827; 27826; 27826;
  27825; 27824; 27824; 27823; 27822; 27822; 27821; 27820; 27820; 27819; 27818; 27818; 27817; 27816; 27816; 27815; 27814; 27813;
  27813; 27812; 27811; 27811; 27810; 27809; 27809; 27808; 27807; 27807; 27806; 27805; 27805; 27804; 27803; 27803; 27802; 27801;
  27800; 27800; 27799; 27798; 27798; 27797; 27796; 27796; 27795; 27794; 27794; 27793; 27792; 27792; 27791; 27790; 27790; 27789;
  27788; 27788; 27787; 27786; 27785; 27785; 27784; 27783; 27783; 27782; 27781; 27781; 27780; 27779; 27779; 27778; 27777; 27777;
  27776; 27775; 27775; 27774; 27773; 27773; 27772; 27771; 27770; 27770; 27769; 27768; 27768; 27767; 27766; 27766; 27765; 27764;
  27764; 27763; 27762; 27762; 27761; 27760; 27760; 27759; 27758; 27758; 27757; 27756; 27755; 27755; 27754; 27753; 27753; 27752;
  27751; 27751; 27750; 27749; 27749; 27748; 27747; 27747; 27746; 27745; 27745; 27744; 27743; 27743; 27742; 27741; 27740; 27740;
  27739; 27738; 27738; 27737; 27736; 27736; 27735; 27734; 27734; 27733; 27732; 27732; 27731; 27730; 27730; 27729; 27728; 27728;
  27727; 27726; 27725; 27725; 27724; 27723; 27723; 27722; 27721; 27721; 27720; 27719; 27719; 27718; 27717; 27717; 27716; 27715;
  27715; 27714; 27713; 27713; 27712; 27711; 27711; 27710; 27709; 27708; 27708; 27707; 27706; 27706; 27705; 27704; 27704; 27703;
  27702; 27702; 27701; 27700; 27700; 27699; 27698; 27698; 27697; 27696; 27696; 27695; 27694; 27694; 27693; 27692; 27691; 27691;
  27690; 27689; 27689; 27688; 27687; 27687; 27686; 27685; 27685; 27684; 27683; 27683; 27682; 27681; 27681; 27680; 27679; 27679;
  27678; 27677; 27677; 27676; 27675; 27674; 27674; 27673; 27672; 27672; 27671; 27670; 27670; 27669; 27668; 27668; 27667; 27666;
  27666; 27665; 27664; 27664; 27663; 27662; 27662; 27661; 27660; 27660; 27659; 27658; 27657; 27657; 27656; 27655; 27655; 27654;
  27653; 27653; 27652; 27651; 27651; 27650; 27649; 27649; 27648; 27647; 27647; 27646; 27645; 27645; 27644; 27643; 27643; 27642;
  27641; 27641; 27640; 27639; 27638; 27638; 27637; 27636; 27636; 27635; 27634; 27634; 27633; 27632; 27632; 27631; 27630; 27630;
  27629; 27628; 27628; 27627; 27626; 27626; 27625; 27624; 27624; 27623; 27622; 27622; 27621; 27620; 27619; 27619; 27618; 27617;
  27617; 27616; 27615; 27615; 27614; 27613; 27613; 27612; 27611; 27611; 27610; 27609; 27609; 27608; 27607; 27607; 27606; 27605;
  27605; 27604; 27603; 27603; 27602; 27601; 27600; 27600; 27599; 27598; 27598; 27597; 27596; 27596; 27595; 27594; 27594; 27593;
  27592; 27592; 27591; 27590; 27590; 27589; 27588; 27588; 27587; 27586; 27586; 27585; 27584; 27584; 27583; 27582; 27582; 27581;
  27580; 27579; 27579; 27578; 27577; 27577; 27576; 27575; 27575; 27574; 27573; 27573; 27572; 27571; 27571; 27570; 27569; 27569].
Definition pow_lut_18 : list Z := [
  27568; 27567; 27567; 27566; 27565; 27565; 27564; 27563; 27563; 27562; 27561; 27561; 27560; 27559; 27559; 27558; 27557; 27556;
  27556; 27555; 27554; 27554; 27553; 27552; 27552; 27551; 27550; 27550; 27549; 27548; 27548; 27547; 27546; 27546; 27545; 27544;
  27544; 27543; 27542; 27542; 27541; 27540; 27540; 27539; 27538; 27538; 27537; 27536; 27536; 27535; 27534; 27533; 27533; 27532;
  27531; 27531; 27530; 27529; 27529; 27528; 27527; 27527; 27526; 27525; 27525; 27524; 27523; 27523; 27522; 27521; 27521; 27520;
  27519; 27519; 27518; 27517; 27517; 27516; 27515; 27515; 27514; 27513; 27513; 27512; 27511; 27510; 27510; 27509; 27508; 27508;
  27507; 27506; 27506; 27505; 27504; 27504; 27503; 27502; 27502; 27501; 27500; 27500; 27499; 27498; 27498; 27497; 27496; 27496;
  27495; 27494; 27494; 27493; 27492; 27492; 27491; 27490; 27490; 27489; 27488; 27488; 27487; 27486; 27486; 27485; 27484; 27483;
  27483; 27482; 27481; 27481; 27480; 27479; 27479; 27478; 27477; 27477; 27476; 27475; 27475; 27474; 27473; 27473; 27472; 27471;
  27471; 27470; 27469; 27469; 27468; 27467; 27467; 27466; 27465; 27465; 27464; 27463; 27463; 27462; 27461; 27461; 27460; 27459;
  27459; 27458; 27457; 27456; 27456; 27455; 27454; 27454; 27453; 27452; 27452; 27451; 27450; 27450; 27449; 27448; 27448; 27447;
  27446; 27446; 27445; 27444; 27444; 27443; 27442; 27442; 27441; 27440; 27440; 27439; 27438; 27438; 27437; 27436; 27436; 27435;
  27434; 27434; 27433; 27432; 27432; 27431; 27430; 27430; 27429; 27428; 27428; 27427; 27426; 27425; 27425; 27424; 27423; 27423;
  27422; 27421; 27421; 27420; 27419; 27419; 27418; 27417; 27417; 27416; 27415; 27415; 27414; 27413; 27413; 27412; 27411; 27411;
  27410; 27409; 27409; 27408; 27407; 27407; 27406; 27405; 27405; 27404; 27403; 27403; 27402; 27401; 27401; 27400; 27399; 27399;
  27398; 27397; 27397; 27396; 27395; 27395; 27394; 27393; 27393; 27392; 27391; 27390; 27390; 27389; 27388; 27388; 27387; 27386;
  27386; 27385; 27384; 27384; 27383; 27382; 27382; 27381; 27380; 27380; 27379; 27378; 27378; 27377; 27376; 27376; 27375; 27374;
  27374; 27373; 27372; 27372; 27371; 27370; 27370; 27369; 27368; 27368; 27367; 27366; 27366; 27365; 27364; 27364; 27363; 27362;
  27362; 27361; 27360; 27360; 27359; 27358; 27358; 27357; 27356; 27356; 27355; 27354; 27354; 27353; 27352; 27352; 27351; 27350;
  27349; 27349; 27348; 27347; 27347; 27346; 27345; 27345; 27344; 27343; 27343; 27342; 27341; 27341; 27340; 27339; 27339; 27338;
  27337; 27337; 27336; 27335; 27335; 27334; 27333; 27333; 27332; 27331; 27331; 27330; 27329; 27329; 27328; 27327; 27327; 27326;
  27325; 27325; 27324; 27323; 27323; 27322; 27321; 27321; 27320; 27319; 27319; 27318; 27317; 27317; 27316; 27315; 27315; 27314;
  27313; 27313; 27312; 27311; 27311; 27310; 27309; 27309; 27308; 27307; 27307; 27306; 27305; 27305; 27304; 27303; 27303; 27302;
  27301; 27301; 27300; 27299; 27298; 27298; 27297; 27296; 27296; 27295; 27294; 27294; 27293; 27292; 27292; 27291; 27290; 27290;
  27289; 27288; 27288; 27287; 27286; 27286; 27285; 27284; 27284; 27283; 27282; 27282; 27281; 27280; 27280; 27279; 27278; 27278;
  27277; 27276; 27276; 27275; 27274; 27274; 27273; 27272; 27272; 27271; 27270; 27270; 27269; 27268; 27268; 27267; 27266; 27266;
  27265; 27264; 27264; 27263; 27262; 27262; 27261; 27260; 27260; 27259; 27258; 27258; 27257; 27256; 27256; 27255; 27254; 27254;
  27253; 27252; 27252; 27251; 27250; 27250; 27249; 27248; 27248; 27247; 27246; 27246; 27245; 27244; 27244; 27243; 27242; 27242;
  27241; 27240; 27240; 27239; 27238; 27238; 27237; 27236; 27236; 27235; 27234; 27234; 27233; 27232; 27232; 27231; 27230; 27230;
  27229; 27228; 27228; 27227; 27226; 27226; 27225; 27224; 27224; 27223; 27222; 27222; 27221; 27220; 27219; 27219; 27218; 27217;
  27217; 27216; 27215; 27215; 27214; 27213; 27213; 27212; 27211; 27211; 27210; 27209; 27209; 27208; 27207; 27207; 27206; 27205;
  27205; 27204; 27203; 27203; 27202; 27201; 27201; 27200; 27199; 27199; 27198; 27197; 27197; 27196; 27195; 27195; 27194; 27193;
  27193; 27192; 27191; 27191; 27190; 27189; 27189; 27188; 27187; 27187; 27186; 27185; 27185; 27184; 27183; 27183; 27182; 27181;
  27181; 27180; 27179; 27179; 27178; 27177; 27177; 27176; 27175; 27175; 27174; 27173; 27173; 27172; 27171; 27171; 27170; 27169;
  27169; 27168; 27167; 27167; 27166; 27165; 27165; 27164; 27163; 27163; 27162; 27161; 27161; 27160; 27159; 27159; 27158; 27157;
  27157; 27156; 27155; 27155; 27154; 27153; 27153; 27152; 27151; 27151; 27150; 27149; 27149; 27148; 27147; 27147; 27146; 27145;
  27145; 27144; 27143; 27143; 27142; 27141; 27141; 27140; 27139; 27139; 27138; 27137; 27137; 27136; 27135; 27135; 27134; 27133;
  27133; 27132; 27131; 27131; 27130; 27129; 27129; 27128; 27127; 27127; 27126; 27125; 27125; 27124; 27123; 27123; 27122; 27121;
  27121; 27120; 27119; 27119; 27118; 27117; 27117; 27116; 27115; 27115; 27114; 27113; 27113; 27112; 27111; 27111; 27110; 27109;
  27109; 27108; 27107; 27107; 27106; 27105; 27105; 27104; 27103; 27103; 27102; 27101; 27101; 27100; 27099; 27099; 27098; 27097;
  27097; 27096; 27095; 27095; 27094; 27093; 27093; 27092; 27091; 27091; 27090; 27089; 27089; 27088; 27087; 27087; 27086; 27085;
  27085; 27084; 27083; 27083; 27082; 27081; 27081; 27080; 27079; 27079; 27078; 27077; 27077; 27076; 27075; 27075; 27074; 27073;
  27073; 27072; 27072; 27071; 27070; 27070; 27069; 27068; 27068; 27067; 27066; 27066; 27065; 27064; 27064; 27063; 27062; 27062;
  27061; 27060; 27060; 27059; 27058; 27058; 27057; 27056; 27056; 27055; 27054; 27054; 27053; 27052; 27052; 27051; 27050; 27050;
  27049; 27048; 27048; 27047; 27046; 27046; 27045; 27044; 27044; 27043; 27042; 27042; 27041; 27040; 27040; 27039; 27038; 27038;
  27037; 27036; 27036; 27035; 27034; 27034; 27033; 27032; 27032; 27031; 27030; 27030; 27029; 27028; 27028; 27027; 27026; 27026;
  27025; 27024; 27024; 27023; 27022; 27022; 27021; 27020; 27020; 27019; 27018; 27018; 27017; 27016; 27016; 27015; 27014; 27014;
  27013; 27012; 27012; 27011; 27010; 27010; 27009; 27008; 27008; 27007; 27006; 27006; 27005; 27004; 27004; 27003; 27002; 27002;
  27001; 27000; 27000; 26999; 26998; 26998; 26997; 26996; 26996; 26995; 26994; 26994; 26993; 26993; 26992; 26991; 26991; 26990;
  26989; 26989; 26988; 26987; 26987; 26986; 26985; 26985; 26984; 26983; 26983; 26982; 26981; 26981; 26980; 26979; 26979; 26978;
  26977; 26977; 26976; 26975; 26975; 26974; 26973; 26973; 26972; 26971; 26971; 26970; 26969; 26969; 26968; 26967; 26967; 26966].
Definition pow_lut_19 : list Z := [
  26965; 26965; 26964; 26963; 26963; 26962; 26961; 26961; 26960; 26959; 26959; 26958; 26957; 26957; 26956; 26955; 26955; 26954;
  26953; 26953; 26952; 26951; 26951; 26950; 26949; 26949; 26948; 26947; 26947; 26946; 26945; 26945; 26944; 26943; 26943; 26942;
  26942; 26941; 26940; 26940; 26939; 26938; 26938; 26937; 26936; 26936; 26935; 26934; 26934; 26933; 26932; 26932; 26931; 26930;
  26930; 26929; 26928; 26928; 26927; 26926; 26926; 26925; 26924; 26924; 26923; 26922; 26922; 26921; 26920; 26920; 26919; 26918;
  26918; 26917; 26916; 26916; 26915; 26914; 26914; 26913; 26912; 26912; 26911; 26910; 26910; 26909; 26908; 26908; 26907; 26906;
  26906; 26905; 26904; 26904; 26903; 26902; 26902; 26901; 26901; 26900; 26899; 26899; 26898; 26897; 26897; 26896; 26895; 26895;
  26894; 26893; 26893; 26892; 26891; 26891; 26890; 26889; 26889; 26888; 26887; 26887; 26886; 26885; 26885; 26884; 26883; 26883;
  26882; 26881; 26881; 26880; 26879; 26879; 26878; 26877; 26877; 26876; 26875; 26875; 26874; 26873; 26873; 26872; 26871; 26871;
  26870; 26869; 26869; 26868; 26868; 26867; 26866; 26866; 26865; 26864; 26864; 26863; 26862; 26862; 26861; 26860; 26860; 26859;
  26858; 26858; 26857; 26856; 26856; 26855; 26854; 26854; 26853; 26852; 26852; 26851; 26850; 26850; 26849; 26848; 26848; 26847;
  26846; 26846; 26845; 26844; 26844; 26843; 26842; 26842; 26841; 26840; 26840; 26839; 26838; 26838; 26837; 26837; 26836; 26835;
  26835; 26834; 26833; 26833; 26832; 26831; 26831; 26830; 26829; 26829; 26828; 26827; 26827; 26826; 26825; 26825; 26824; 26823;
  26823; 26822; 26821; 26821; 26820; 26819; 26819; 26818; 26817; 26817; 26816; 26815; 26815; 26814; 26813; 26813; 26812; 26811;
  26811; 26810; 26810; 26809; 26808; 26808; 26807; 26806; 26806; 26805; 26804; 26804; 26803; 26802; 26802; 26801; 26800; 26800;
  26799; 26798; 26798; 26797; 26796; 26796; 26795; 26794; 26794; 26793; 26792; 26792; 26791; 26790; 26790; 26789; 26788; 26788;
  26787; 26786; 26786; 26785; 26784; 26784; 26783; 26783; 26782; 26781; 26781; 26780; 26779; 26779; 26778; 26777; 26777; 26776;
  26775; 26775; 26774; 26773; 26773; 26772; 26771; 26771; 26770; 26769; 26769; 26768; 26767; 26767; 26766; 26765; 26765; 26764;
  26763; 26763; 26762; 26761; 26761; 26760; 26760; 26759; 26758; 26758; 26757; 26756; 26756; 26755; 26754; 26754; 26753; 26752;
  26752; 26751; 26750; 26750; 26749; 26748; 26748; 26747; 26746; 26746; 26745; 26744; 26744; 26743; 26742; 26742; 26741; 26740;
  26740; 26739; 26738; 26738; 26737; 26737; 26736; 26735; 26735; 26734; 26733; 26733; 26732; 26731; 26731; 26730; 26729; 26729;
  26728; 26727; 26727; 26726; 26725; 26725; 26724; 26723; 26723; 26722; 26721; 26721; 26720; 26719; 26719; 26718; 26717; 26717;
  26716; 26716; 26715; 26714; 26714; 26713; 26712; 26712; 26711; 26710; 26710; 26709; 26708; 26708; 26707; 26706; 26706; 26705;
  26704; 26704; 26703; 26702; 26702; 26701; 26700; 26700; 26699; 26698; 26698; 26697; 26696; 26696; 26695; 26695; 26694; 26693;
  26693; 26692; 26691; 26691; 26690; 26689; 26689; 26688; 26687; 26687; 26686; 26685; 26685; 26684; 26683; 26683; 26682; 26681;
  26681; 26680; 26679; 26679; 26678; 26677; 26677; 26676; 26676; 26675; 26674; 26674; 26673; 26672; 26672; 26671; 26670; 26670;
  26669; 26668; 26668; 26667; 26666; 26666; 26665; 26664; 26664; 26663; 26662; 26662; 26661; 26660; 26660; 26659; 26658; 26658;
  26657; 26657; 26656; 26655; 26655; 26654; 26653; 26653; 26652; 26651; 26651; 26650; 26649; 26649; 26648; 26647; 26647; 26646;
  26645; 26645; 26644; 26643; 26643; 26642; 26641; 26641; 26640; 26640; 26639; 26638; 26638; 26637; 26636; 26636; 26635; 26634;
  26634; 26633; 26632; 26632; 26631; 26630; 26630; 26629; 26628; 26628; 26627; 26626; 26626; 26625; 26624; 26624; 26623; 26623;
  26622; 26621; 26621; 26620; 26619; 26619; 26618; 26617; 26617; 26616; 26615; 26615; 26614; 26613; 26613; 26612; 26611; 26611;
  26610; 26609; 26609; 26608; 26607; 26607; 26606; 26606; 26605; 26604; 26604; 26603; 26602; 26602; 26601; 26600; 26600; 26599;
  26598; 26598; 26597; 26596; 26596; 26595; 26594; 26594; 26593; 26592; 26592; 26591; 26590; 26590; 26589; 26589; 26588; 26587;
  26587; 26586; 26585; 26585; 26584; 26583; 26583; 26582; 26581; 26581; 26580; 26579; 26579; 26578; 26577; 26577; 26576; 26575;
  26575; 26574; 26574; 26573; 26572; 26572; 26571; 26570; 26570; 26569; 26568; 26568; 26567; 26566; 26566; 26565; 26564; 26564;
  26563; 26562; 26562; 26561; 26560; 26560; 26559; 26559; 26558; 26557; 26557; 26556; 26555; 26555; 26554; 26553; 26553; 26552;
  26551; 26551; 26550; 26549; 26549; 26548; 26547; 26547; 26546; 26545; 26545; 26544; 26544; 26543; 26542; 26542; 26541; 26540;
  26540; 26539; 26538; 26538; 26537; 26536; 26536; 26535; 26534; 26534; 26533; 26532; 26532; 26531; 26530; 26530; 26529; 26529;
  26528; 26527; 26527; 26526; 26525; 26525; 26524; 26523; 26523; 26522; 26521; 26521; 26520; 26519; 26519; 26518; 26517; 26517;
  26516; 26516; 26515; 26514; 26514; 26513; 26512; 26512; 26511; 26510; 26510; 26509; 26508; 26508; 26507; 26506; 26506; 26505;
  26504; 26504; 26503; 26502; 26502; 26501; 26501; 26500; 26499; 26499; 26498; 26497; 26497; 26496; 26495; 26495; 26494; 26493;
  26493; 26492; 26491; 26491; 26490; 26489; 26489; 26488; 26488; 26487; 26486; 26486; 26485; 26484; 26484; 26483; 26482; 26482;
  26481; 26480; 26480; 26479; 26478; 26478; 26477; 26476; 26476; 26475; 26475; 26474; 26473; 26473; 26472; 26471; 26471; 26470;
  26469; 26469; 26468; 26467; 26467; 26466; 26465; 26465; 26464; 26463; 26463; 26462; 26462; 26461; 26460; 26460; 26459; 26458;
  26458; 26457; 26456; 26456; 26455; 26454; 26454; 26453; 26452; 26452; 26451; 26450; 26450; 26449; 26449; 26448; 26447; 26447;
  26446; 26445; 26445; 26444; 26443; 26443; 26442; 26441; 26441; 26440; 26439; 26439; 26438; 26437; 26437; 26436; 26436; 26435;
  26434; 26434; 26433; 26432; 26432; 26431; 26430; 26430; 26429; 26428; 26428; 26427; 26426; 26426; 26425; 26424; 26424; 26423;
  26423; 26422; 26421; 26421; 26420; 26419; 26419; 26418; 26417; 26417; 26416; 26415; 26415; 26414; 26413; 26413; 26412; 26412;
  26411; 26410; 26410; 26409; 26408; 26408; 26407; 26406; 26406; 26405; 26404; 26404; 26403; 26402; 26402; 26401; 26400; 26400;
  26399; 26399; 26398; 26397; 26397; 26396; 26395; 26395; 26394; 26393; 26393; 26392; 26391; 26391; 26390; 26389; 26389; 26388;
  26388; 26387; 26386; 26386; 26385; 26384; 26384; 26383; 26382; 26382; 26381; 26380; 26380; 26379; 26378; 26378; 26377; 26377].
Definition pow_lut_20 : list Z := [
  26376; 26375; 26375; 26374; 26373; 26373; 26372; 26371; 26371; 26370; 26369; 26369; 26368; 26367; 26367; 26366; 26366; 26365;
  26364; 26364; 26363; 26362; 26362; 26361; 26360; 26360; 26359; 26358; 26358; 26357; 26356; 26356; 26355; 26355; 26354; 26353;
  26353; 26352; 26351; 26351; 26350; 26349; 26349; 26348; 26347; 26347; 26346; 26345; 26345; 26344; 26344; 26343; 26342; 26342;
  26341; 26340; 26340; 26339; 26338; 26338; 26337; 26336; 26336; 26335; 26334; 26334; 26333; 26333; 26332; 26331; 26331; 26330;
  26329; 26329; 26328; 26327; 26327; 26326; 26325; 26325; 26324; 26323; 26323; 26322; 26322; 26321; 26320; 26320; 26319; 26318;
  26318; 26317; 26316; 26316; 26315; 26314; 26314; 26313; 26312; 26312; 26311; 26311; 26310; 26309; 26309; 26308; 26307; 26307;
  26306; 26305; 26305; 26304; 26303; 26303; 26302; 26301; 26301; 26300; 26300; 26299; 26298; 26298; 26297; 26296; 26296; 26295;
  26294; 26294; 26293; 26292; 26292; 26291; 26291; 26290; 26289; 26289; 26288; 26287; 26287; 26286; 26285; 26285; 26284; 26283;
  26283; 26282; 26281; 26281; 26280; 26280; 26279; 26278; 26278; 26277; 26276; 26276; 26275; 26274; 26274; 26273; 26272; 26272;
  26271; 26270; 26270; 26269; 26269; 26268; 26267; 26267; 26266; 26265; 26265; 26264; 26263; 26263; 26262; 26261; 26261; 26260;
  26260; 26259; 26258; 26258; 26257; 26256; 26256; 26255; 26254; 26254; 26253; 26252; 26252; 26251; 26251; 26250; 26249; 26249;
  26248; 26247; 26247; 26246; 26245; 26245; 26244; 26243; 26243; 26242; 26241; 26241; 26240; 26240; 26239; 26238; 26238; 26237;
  26236; 26236; 26235; 26234; 26234; 26233; 26232; 26232; 26231; 26231; 26230; 26229; 26229; 26228; 26227; 26227; 26226; 26225;
  26225; 26224; 26223; 26223; 26222; 26222; 26221; 26220; 26220; 26219; 26218; 26218; 26217; 26216; 26216; 26215; 26214; 26214;
  26213; 26212; 26212; 26211; 26211; 26210; 26209; 26209; 26208; 26207; 26207; 26206; 26205; 26205; 26204; 26203; 26203; 26202;
  26202; 26201; 26200; 26200; 26199; 26198; 26198; 26197; 26196; 26196; 26195; 26194; 26194; 26193; 26193; 26192; 26191; 26191;
  26190; 26189; 26189; 26188; 26187; 26187; 26186; 26185; 26185; 26184; 26184; 26183; 26182; 26182; 26181; 26180; 26180; 26179;
  26178; 26178; 26177; 26176; 26176; 26175; 26175; 26174; 26173; 26173; 26172; 26171; 26171; 26170; 26169; 26169; 26168; 26167;
  26167; 26166; 26166; 26165; 26164; 26164; 26163; 26162; 26162; 26161; 26160; 26160; 26159; 26158; 26158; 26157; 26157; 26156;
  26155; 26155; 26154; 26153; 26153; 26152; 26151; 26151; 26150; 26149; 26149; 26148; 26148; 26147; 26146; 26146; 26145; 26144;
  26144; 26143; 26142; 26142; 26141; 26140; 26140; 26139; 26139; 26138; 26137; 26137; 26136; 26135; 26135; 26134; 26133; 26133;
  26132; 26132; 26131; 26130; 26130; 26129; 26128; 26128; 26127; 26126; 26126; 26125; 26124; 26124; 26123; 26123; 26122; 26121;
  26121; 26120; 26119; 26119; 26118; 26117; 26117; 26116; 26115; 26115; 26114; 26114; 26113; 26112; 26112; 26111; 26110; 26110;
  26109; 26108; 26108; 26107; 26106; 26106; 26105; 26105; 26104; 26103; 26103; 26102; 26101; 26101; 26100; 26099; 26099; 26098;
  26098; 26097; 26096; 26096; 26095; 26094; 26094; 26093; 26092; 26092; 26091; 26090; 26090; 26089; 26089; 26088; 26087; 26087;
  26086; 26085; 26085; 26084; 26083; 26083; 26082; 26082; 26081; 26080; 26080; 26079; 26078; 26078; 26077; 26076; 26076; 26075;
  26074; 26074; 26073; 26073; 26072; 26071; 26071; 26070; 26069; 26069; 26068; 26067; 26067; 26066; 26065; 26065; 26064; 26064;
  26063; 26062; 26062; 26061; 26060; 26060; 26059; 26058; 26058; 26057; 26057; 26056; 26055; 26055; 26054; 26053; 26053; 26052;
  26051; 26051; 26050; 26049; 26049; 26048; 26048; 26047; 26046; 26046; 26045; 26044; 26044; 26043; 26042; 26042; 26041; 26041;
  26040; 26039; 26039; 26038; 26037; 26037; 26036; 26035; 26035; 26034; 26034; 26033; 26032; 26032; 26031; 26030; 26030; 26029;
  26028; 26028; 26027; 26026; 26026; 26025; 26025; 26024; 26023; 26023; 26022; 26021; 26021; 26020; 26019; 26019; 26018; 26018;
  26017; 26016; 26016; 26015; 26014; 26014; 26013; 26012; 26012; 26011; 26010; 26010; 26009; 26009; 26008; 26007; 26007; 26006;
  26005; 26005; 26004; 26003; 26003; 26002; 26002; 26001; 26000; 26000; 25999; 25998; 25998; 25997; 25996; 25996; 25995; 25995;
  25994; 25993; 25993; 25992; 25991; 25991; 25990; 25989; 25989; 25988; 25988; 25987; 25986; 25986; 25985; 25984; 25984; 25983;
  25982; 25982; 25981; 25980; 25980; 25979; 25979; 25978; 25977; 25977; 25976; 25975; 25975; 25974; 25973; 25973; 25972; 25972;
  25971; 25970; 25970; 25969; 25968; 25968; 25967; 25966; 25966; 25965; 25965; 25964; 25963; 25963; 25962; 25961; 25961; 25960;
  25959; 25959; 25958; 25958; 25957; 25956; 25956; 25955; 25954; 25954; 25953; 25952; 25952; 25951; 25951; 25950; 25949; 25949;
  25948; 25947; 25947; 25946; 25945; 25945; 25944; 25944; 25943; 25942; 25942; 25941; 25940; 25940; 25939; 25938; 25938; 25937;
  25937; 25936; 25935; 25935; 25934; 25933; 25933; 25932; 25931; 25931; 25930; 25930; 25929; 25928; 25928; 25927; 25926; 25926;
  25925; 25924; 25924; 25923; 25922; 25922; 25921; 25921; 25920; 25919; 25919; 25918; 25917; 25917; 25916; 25915; 25915; 25914;
  25914; 25913; 25912; 25912; 25911; 25910; 25910; 25909; 25908; 25908; 25907; 25907; 25906; 25905; 25905; 25904; 25903; 25903;
  25902; 25901; 25901; 25900; 25900; 25899; 25898; 25898; 25897; 25896; 25896; 25895; 25895; 25894; 25893; 25893; 25892; 25891;
  25891; 25890; 25889; 25889; 25888; 25888; 25887; 25886; 25886; 25885; 25884; 25884; 25883; 25882; 25882; 25881; 25881; 25880;
  25879; 25879; 25878; 25877; 25877; 25876; 25875; 25875; 25874; 25874; 25873; 25872; 25872; 25871; 25870; 25870; 25869; 25868;
  25868; 25867; 25867; 25866; 25865; 25865; 25864; 25863; 25863; 25862; 25861; 25861; 25860; 25860; 25859; 25858; 25858; 25857;
  25856; 25856; 25855; 25854; 25854; 25853; 25853; 25852; 25851; 25851; 25850; 25849; 25849; 25848; 25847; 25847; 25846; 25846;
  25845; 25844; 25844; 25843; 25842; 25842; 25841; 25841; 25840; 25839; 25839; 25838; 25837; 25837; 25836; 25835; 25835; 25834;
  25834; 25833; 25832; 25832; 25831; 25830; 25830; 25829; 25828; 25828; 25827; 25827; 25826; 25825; 25825; 25824; 25823; 25823;
  25822; 25821; 25821; 25820; 25820; 25819; 25818; 25818; 25817; 25816; 25816; 25815; 25814; 25814; 25813; 25813; 25812; 25811;
  25811; 25810; 25809; 25809; 25808; 25808; 25807; 25806; 25806; 25805; 25804; 25804; 25803; 25802; 25802; 25801; 25801; 25800].
Definition pow_lut_21 : list Z := [
  25799; 25799; 25798; 25797; 25797; 25796; 25795; 25795; 25794; 25794; 25793; 25792; 25792; 25791; 25790; 25790; 25789; 25789;
  25788; 25787; 25787; 25786; 25785; 25785; 25784; 25783; 25783; 25782; 25782; 25781; 25780; 25780; 25779; 25778; 25778; 25777;
  25776; 25776; 25775; 25775; 25774; 25773; 25773; 25772; 25771; 25771; 25770; 25770; 25769; 25768; 25768; 25767; 25766; 25766;
  25765; 25764; 25764; 25763; 25763; 25762; 25761; 25761; 25760; 25759; 25759; 25758; 25758; 25757; 25756; 25756; 25755; 25754;
  25754; 25753; 25752; 25752; 25751; 25751; 25750; 25749; 25749; 25748; 25747; 25747; 25746; 25745; 25745; 25744; 25744; 25743;
  25742; 25742; 25741; 25740; 25740; 25739; 25739; 25738; 25737; 25737; 25736; 25735; 25735; 25734; 25733; 25733; 25732; 25732;
  25731; 25730; 25730; 25729; 25728; 25728; 25727; 25727; 25726; 25725; 25725; 25724; 25723; 25723; 25722; 25721; 25721; 25720;
  25720; 25719; 25718; 25718; 25717; 25716; 25716; 25715; 25715; 25714; 25713; 25713; 25712; 25711; 25711; 25710; 25709; 25709;
  25708; 25708; 25707; 25706; 25706; 25705; 25704; 25704; 25703; 25703; 25702; 25701; 25701; 25700; 25699; 25699; 25698; 25697;
  25697; 25696; 25696; 25695; 25694; 25694; 25693; 25692; 25692; 25691; 25691; 25690; 25689; 25689; 25688; 25687; 25687; 25686;
  25685; 25685; 25684; 25684; 25683; 25682; 25682; 25681; 25680; 25680; 25679; 25679; 25678; 25677; 25677; 25676; 25675; 25675;
  25674; 25674; 25673; 25672; 25672; 25671; 25670; 25670; 25669; 25668; 25668; 25667; 25667; 25666; 25665; 25665; 25664; 25663;
  25663; 25662; 25662; 25661; 25660; 25660; 25659; 25658; 25658; 25657; 25656; 25656; 25655; 25655; 25654; 25653; 25653; 25652;
  25651; 25651; 25650; 25650; 25649; 25648; 25648; 25647; 25646; 25646; 25645; 25645; 25644; 25643; 25643; 25642; 25641; 25641;
  25640; 25639; 25639; 25638; 25638; 25637; 25636; 25636; 25635; 25634; 25634; 25633; 25633; 25632; 25631; 25631; 25630; 25629;
  25629; 25628; 25628; 25627; 25626; 25626; 25625; 25624; 25624; 25623; 25622; 25622; 25621; 25621; 25620; 25619; 25619; 25618;
  25617; 25617; 25616; 25616; 25615; 25614; 25614; 25613; 25612; 25612; 25611; 25611; 25610; 25609; 25609; 25608; 25607; 25607;
  25606; 25606; 25605; 25604; 25604; 25603; 25602; 25602; 25601; 25600; 25600; 25599; 25599; 25598; 25597; 25597; 25596; 25595;
  25595; 25594; 25594; 25593; 25592; 25592; 25591; 25590; 25590; 25589; 25589; 25588; 25587; 25587; 25586; 25585; 25585; 25584;
  25584; 25583; 25582; 25582; 25581; 25580; 25580; 25579; 25578; 25578; 25577; 25577; 25576; 25575; 25575; 25574; 25573; 25573;
  25572; 25572; 25571; 25570; 25570; 25569; 25568; 25568; 25567; 25567; 25566; 25565; 25565; 25564; 25563; 25563; 25562; 25562;
  25561; 25560; 25560; 25559; 25558; 25558; 25557; 25557; 25556; 25555; 25555; 25554; 25553; 25553; 25552; 25551; 25551; 25550;
  25550; 25549; 25548; 25548; 25547; 25546; 25546; 25545; 25545; 25544; 25543; 25543; 25542; 25541; 25541; 25540; 25540; 25539;
  25538; 25538; 25537; 25536; 25536; 25535; 25535; 25534; 25533; 25533; 25532; 25531; 25531; 25530; 25530; 25529; 25528; 25528;
  25527; 25526; 25526; 25525; 25525; 25524; 25523; 25523; 25522; 25521; 25521; 25520; 25519; 25519; 25518; 25518; 25517; 25516;
  25516; 25515; 25514; 25514; 25513; 25513; 25512; 25511; 25511; 25510; 25509; 25509; 25508; 25508; 25507; 25506; 25506; 25505;
  25504; 25504; 25503; 25503; 25502; 25501; 25501; 25500; 25499; 25499; 25498; 25498; 25497; 25496; 25496; 25495; 25494; 25494;
  25493; 25493; 25492; 25491; 25491; 25490; 25489; 25489; 25488; 25488; 25487; 25486; 25486; 25485; 25484; 25484; 25483; 25483;
  25482; 25481; 25481; 25480; 25479; 25479; 25478; 25478; 25477; 25476; 25476; 25475; 25474; 25474; 25473; 25473; 25472; 25471;
  25471; 25470; 25469; 25469; 25468; 25468; 25467; 25466; 25466; 25465; 25464; 25464; 25463; 25463; 25462; 25461; 25461; 25460;
  25459; 25459; 25458; 25458; 25457; 25456; 25456; 25455; 25454; 25454; 25453; 25453; 25452; 25451; 25451; 25450; 25449; 25449;
  25448; 25448; 25447; 25446; 25446; 25445; 25444; 25444; 25443; 25443; 25442; 25441; 25441; 25440; 25439; 25439; 25438; 25438;
  25437; 25436; 25436; 25435; 25434; 25434; 25433; 25433; 25432; 25431; 25431; 25430; 25429; 25429; 25428; 25428; 25427; 25426;
  25426; 25425; 25424; 25424; 25423; 25423; 25422; 25421; 25421; 25420; 25419; 25419; 25418; 25418; 25417; 25416; 25416; 25415;
  25414; 25414; 25413; 25413; 25412; 25411; 25411; 25410; 25409; 25409; 25408; 25408; 25407; 25406; 25406; 25405; 25404; 25404;
  25403; 25403; 25402; 25401; 25401; 25400; 25399; 25399; 25398; 25398; 25397; 25396; 25396; 25395; 25394; 25394; 25393; 25393;
  25392; 25391; 25391; 25390; 25389; 25389; 25388; 25388; 25387; 25386; 25386; 25385; 25384; 25384; 25383; 25383; 25382; 25381;
  25381; 25380; 25379; 25379; 25378; 25378; 25377; 25376; 25376; 25375; 25375; 25374; 25373; 25373; 25372; 25371; 25371; 25370;
  25370; 25369; 25368; 25368; 25367; 25366; 25366; 25365; 25365; 25364; 25363; 25363; 25362; 25361; 25361; 25360; 25360; 25359;
  25358; 25358; 25357; 25356; 25356; 25355; 25355; 25354; 25353; 25353; 25352; 25351; 25351; 25350; 25350; 25349; 25348; 25348;
  25347; 25346; 25346; 25345; 25345; 25344; 25343; 25343; 25342; 25342; 25341; 25340; 25340; 25339; 25338; 25338; 25337; 25337;
  25336; 25335; 25335; 25334; 25333; 25333; 25332; 25332; 25331; 25330; 25330; 25329; 25328; 25328; 25327; 25327; 25326; 25325;
  25325; 25324; 25323; 25323; 25322; 25322; 25321; 25320; 25320; 25319; 25318; 25318; 25317; 25317; 25316; 25315; 25315; 25314;
  25314; 25313; 25312; 25312; 25311; 25310; 25310; 25309; 25309; 25308; 25307; 25307; 25306; 25305; 25305; 25304; 25304; 25303;
  25302; 25302; 25301; 25300; 25300; 25299; 25299; 25298; 25297; 25297; 25296; 25295; 25295; 25294; 25294; 25293; 25292; 25292;
  25291; 25291; 25290; 25289; 25289; 25288; 25287; 25287; 25286; 25286; 25285; 25284; 25284; 25283; 25282; 25282; 25281; 25281;
  25280; 25279; 25279; 25278; 25277; 25277; 25276; 25276; 25275; 25274; 25274; 25273; 25273; 25272; 25271; 25271; 25270; 25269;
  25269; 25268; 25268; 25267; 25266; 25266; 25265; 25264; 25264; 25263; 25263; 25262; 25261; 25261; 25260; 25259; 25259; 25258;
  25258; 25257; 25256; 25256; 25255; 25255; 25254; 25253; 25253; 25252; 25251; 25251; 25250; 25250; 25249; 25248; 25248; 25247;
  25246; 25246; 25245; 25245; 25244; 25243; 25243; 25242; 25242; 25241; 25240; 25240; 25239; 25238; 25238; 25237; 25237; 25236].
Definition pow_lut_22 : list Z := [
  25235; 25235; 25234; 25233; 25233; 25232; 25232; 25231; 25230; 25230; 25229; 25228; 25228; 25227; 25227; 25226; 25225; 25225;
  25224; 25224; 25223; 25222; 25222; 25221; 25220; 25220; 25219; 25219; 25218; 25217; 25217; 25216; 25215; 25215; 25214; 25214;
  25213; 25212; 25212; 25211; 25211; 25210; 25209; 25209; 25208; 25207; 25207; 25206; 25206; 25205; 25204; 25204; 25203; 25202;
  25202; 25201; 25201; 25200; 25199; 25199; 25198; 25198; 25197; 25196; 25196; 25195; 25194; 25194; 25193; 25193; 25192; 25191;
  25191; 25190; 25189; 25189; 25188; 25188; 25187; 25186; 25186; 25185; 25185; 25184; 25183; 25183; 25182; 25181; 25181; 25180;
  25180; 25179; 25178; 25178; 25177; 25177; 25176; 25175; 25175; 25174; 25173; 25173; 25172; 25172; 25171; 25170; 25170; 25169;
  25168; 25168; 25167; 25167; 25166; 25165; 25165; 25164; 25164; 25163; 25162; 25162; 25161; 25160; 25160; 25159; 25159; 25158;
  25157; 25157; 25156; 25155; 25155; 25154; 25154; 25153; 25152; 25152; 25151; 25151; 25150; 25149; 25149; 25148; 25147; 25147;
  25146; 25146; 25145; 25144; 25144; 25143; 25143; 25142; 25141; 25141; 25140; 25139; 25139; 25138; 25138; 25137; 25136; 25136;
  25135; 25134; 25134; 25133; 25133; 25132; 25131; 25131; 25130; 25130; 25129; 25128; 25128; 25127; 25126; 25126; 25125; 25125;
  25124; 25123; 25123; 25122; 25122; 25121; 25120; 25120; 25119; 25118; 25118; 25117; 25117; 25116; 25115; 25115; 25114; 25114;
  25113; 25112; 25112; 25111; 25110; 25110; 25109; 25109; 25108; 25107; 25107; 25106; 25105; 25105; 25104; 25104; 25103; 25102;
  25102; 25101; 25101; 25100; 25099; 25099; 25098; 25097; 25097; 25096; 25096; 25095; 25094; 25094; 25093; 25093; 25092; 25091;
  25091; 25090; 25089; 25089; 25088; 25088; 25087; 25086; 25086; 25085; 25085; 25084; 25083; 25083; 25082; 25081; 25081; 25080;
  25080; 25079; 25078; 25078; 25077; 25077; 25076; 25075; 25075; 25074; 25073; 25073; 25072; 25072; 25071; 25070; 25070; 25069;
  25069; 25068; 25067; 25067; 25066; 25065; 25065; 25064; 25064; 25063; 25062; 25062; 25061; 25061; 25060; 25059; 25059; 25058;
  25057; 25057; 25056; 25056; 25055; 25054; 25054; 25053; 25053; 25052; 25051; 25051; 25050; 25049; 25049; 25048; 25048; 25047;
  25046; 25046; 25045; 25045; 25044; 25043; 25043; 25042; 25041; 25041; 25040; 25040; 25039; 25038; 25038; 25037; 25037; 25036;
  25035; 25035; 25034; 25033; 25033; 25032; 25032; 25031; 25030; 25030; 25029; 25029; 25028; 25027; 25027; 25026; 25025; 25025;
  25024; 25024; 25023; 25022; 25022; 25021; 25021; 25020; 25019; 25019; 25018; 25017; 25017; 25016; 25016; 25015; 25014; 25014;
  25013; 25013; 25012; 25011; 25011; 25010; 25009; 25009; 25008; 25008; 25007; 25006; 25006; 25005; 25005; 25004; 25003; 25003;
  25002; 25002; 25001; 25000; 25000; 24999; 24998; 24998; 24997; 24997; 24996; 24995; 24995; 24994; 24994; 24993; 24992; 24992;
  24991; 24990; 24990; 24989; 24989; 24988; 24987; 24987; 24986; 24986; 24985; 24984; 24984; 24983; 24982; 24982; 24981; 24981;
  24980; 24979; 24979; 24978; 24978; 24977; 24976; 24976; 24975; 24975; 24974; 24973; 24973; 24972; 24971; 24971; 24970; 24970;
  24969; 24968; 24968; 24967; 24967; 24966; 24965; 24965; 24964; 24963; 24963; 24962; 24962; 24961; 24960; 24960; 24959; 24959;
  24958; 24957; 24957; 24956; 24956; 24955; 24954; 24954; 24953; 24952; 24952; 24951; 24951; 24950; 24949; 24949; 24948; 24948;
  24947; 24946; 24946; 24945; 24944; 24944; 24943; 24943; 24942; 24941; 24941; 24940; 24940; 24939; 24938; 24938; 24937; 24937;
  24936; 24935; 24935; 24934; 24933; 24933; 24932; 24932; 24931; 24930; 24930; 24929; 24929; 24928; 24927; 24927; 24926; 24925;
  24925; 24924; 24924; 24923; 24922; 24922; 24921; 24921; 24920; 24919; 24919; 24918; 24918; 24917; 24916; 24916; 24915; 24914;
  24914; 24913; 24913; 24912; 24911; 24911; 24910; 24910; 24909; 24908; 24908; 24907; 24907; 24906; 24905; 24905; 24904; 24903;
  24903; 24902; 24902; 24901; 24900; 24900; 24899; 24899; 24898; 24897; 24897; 24896; 24896; 24895; 24894; 24894; 24893; 24892;
  24892; 24891; 24891; 24890; 24889; 24889; 24888; 24888; 24887; 24886; 24886; 24885; 24885; 24884; 24883; 24883; 24882; 24881;
  24881; 24880; 24880; 24879; 24878; 24878; 24877; 24877; 24876; 24875; 24875; 24874; 24874; 24873; 24872; 24872; 24871; 24870;
  24870; 24869; 24869; 24868; 24867; 24867; 24866; 24866; 24865; 24864; 24864; 24863; 24863; 24862; 24861; 24861; 24860; 24859;
  24859; 24858; 24858; 24857; 24856; 24856; 24855; 24855; 24854; 24853; 24853; 24852; 24852; 24851; 24850; 24850; 24849; 24848;
  24848; 24847; 24847; 24846; 24845; 24845; 24844; 24844; 24843; 24842; 24842; 24841; 24841; 24840; 24839; 24839; 24838; 24838;
  24837; 24836; 24836; 24835; 24834; 24834; 24833; 24833; 24832; 24831; 24831; 24830; 24830; 24829; 24828; 24828; 24827; 24827;
  24826; 24825; 24825; 24824; 24823; 24823; 24822; 24822; 24821; 24820; 24820; 24819; 24819; 24818; 24817; 24817; 24816; 24816;
  24815; 24814; 24814; 24813; 24813; 24812; 24811; 24811; 24810; 24809; 24809; 24808; 24808; 24807; 24806; 24806; 24805; 24805;
  24804; 24803; 24803; 24802; 24802; 24801; 24800; 24800; 24799; 24798; 24798; 24797; 24797; 24796; 24795; 24795; 24794; 24794;
  24793; 24792; 24792; 24791; 24791; 24790; 24789; 24789; 24788; 24788; 24787; 24786; 24786; 24785; 24784; 24784; 24783; 24783;
  24782; 24781; 24781; 24780; 24780; 24779; 24778; 24778; 24777; 24777; 24776; 24775; 24775; 24774; 24774; 24773; 24772; 24772;
  24771; 24770; 24770; 24769; 24769; 24768; 24767; 24767; 24766; 24766; 24765; 24764; 24764; 24763; 24763; 24762; 24761; 24761;
  24760; 24760; 24759; 24758; 24758; 24757; 24757; 24756; 24755; 24755; 24754; 24753; 24753; 24752; 24752; 24751; 24750; 24750;
  24749; 24749; 24748; 24747; 24747; 24746; 24746; 24745; 24744; 24744; 24743; 24743; 24742; 24741; 24741; 24740; 24739; 24739;
  24738; 24738; 24737; 24736; 24736; 24735; 24735; 24734; 24733; 24733; 24732; 24732; 24731; 24730; 24730; 24729; 24729; 24728;
  24727; 24727; 24726; 24726; 24725; 24724; 24724; 24723; 24722; 24722; 24721; 24721; 24720; 24719; 24719; 24718; 24718; 24717;
  24716; 24716; 24715; 24715; 24714; 24713; 24713; 24712; 24712; 24711; 24710; 24710; 24709; 24709; 24708; 24707; 24707; 24706;
  24705; 24705; 24704; 24704; 24703; 24702; 24702; 24701; 24701; 24700; 24699; 24699; 24698; 24698; 24697; 24696; 24696; 24695;
  24695; 24694; 24693; 24693; 24692; 24692; 24691; 24690; 24690; 24689; 24689; 24688; 24687; 24687; 24686; 24685; 24685; 24684].
Definition pow_lut_23 : list Z := [
  24684; 24683; 24682; 24682; 24681; 24681; 24680; 24679; 24679; 24678; 24678; 24677; 24676; 24676; 24675; 24675; 24674; 24673;
  24673; 24672; 24672; 24671; 24670; 24670; 24669; 24669; 24668; 24667; 24667; 24666; 24665; 24665; 24664; 24664; 24663; 24662;
  24662; 24661; 24661; 24660; 24659; 24659; 24658; 24658; 24657; 24656; 24656; 24655; 24655; 24654; 24653; 24653; 24652; 24652;
  24651; 24650; 24650; 24649; 24649; 24648; 24647; 24647; 24646; 24645; 24645; 24644; 24644; 24643; 24642; 24642; 24641; 24641;
  24640; 24639; 24639; 24638; 24638; 24637; 24636; 24636; 24635; 24635; 24634; 24633; 24633; 24632; 24632; 24631; 24630; 24630;
  24629; 24629; 24628; 24627; 24627; 24626; 24626; 24625; 24624; 24624; 24623; 24623; 24622; 24621; 24621; 24620; 24619; 24619;
  24618; 24618; 24617; 24616; 24616; 24615; 24615; 24614; 24613; 24613; 24612; 24612; 24611; 24610; 24610; 24609; 24609; 24608;
  24607; 24607; 24606; 24606; 24605; 24604; 24604; 24603; 24603; 24602; 24601; 24601; 24600; 24600; 24599; 24598; 24598; 24597;
  24597; 24596; 24595; 24595; 24594; 24594; 24593; 24592; 24592; 24591; 24590; 24590; 24589; 24589; 24588; 24587; 24587; 24586;
  24586; 24585; 24584; 24584; 24583; 24583; 24582; 24581; 24581; 24580; 24580; 24579; 24578; 24578; 24577; 24577; 24576; 24575;
  24575; 24574; 24574; 24573; 24572; 24572; 24571; 24571; 24570; 24569; 24569; 24568; 24568; 24567; 24566; 24566; 24565; 24565;
  24564; 24563; 24563; 24562; 24562; 24561; 24560; 24560; 24559; 24558; 24558; 24557; 24557; 24556; 24555; 24555; 24554; 24554;
  24553; 24552; 24552; 24551; 24551; 24550; 24549; 24549; 24548; 24548; 24547; 24546; 24546; 24545; 24545; 24544; 24543; 24543;
  24542; 24542; 24541; 24540; 24540; 24539; 24539; 24538; 24537; 24537; 24536; 24536; 24535; 24534; 24534; 24533; 24533; 24532;
  24531; 24531; 24530; 24530; 24529; 24528; 24528; 24527; 24527; 24526; 24525; 24525; 24524; 24524; 24523; 24522; 24522; 24521;
  24521; 24520; 24519; 24519; 24518; 24518; 24517; 24516; 24516; 24515; 24515; 24514; 24513; 24513; 24512; 24511; 24511; 24510;
  24510; 24509; 24508; 24508; 24507; 24507; 24506; 24505; 24505; 24504; 24504; 24503; 24502; 24502; 24501; 24501; 24500; 24499;
  24499; 24498; 24498; 24497; 24496; 24496; 24495; 24495; 24494; 24493; 24493; 24492; 24492; 24491; 24490; 24490; 24489; 24489;
  24488; 24487; 24487; 24486; 24486; 24485; 24484; 24484; 24483; 24483; 24482; 24481; 24481; 24480; 24480; 24479; 24478; 24478;
  24477; 24477; 24476; 24475; 24475; 24474; 24474; 24473; 24472; 24472; 24471; 24471; 24470; 24469; 24469; 24468; 24468; 24467;
  24466; 24466; 24465; 24465; 24464; 24463; 24463; 24462; 24462; 24461; 24460; 24460; 24459; 24459; 24458; 24457; 24457; 24456;
  24456; 24455; 24454; 24454; 24453; 24453; 24452; 24451; 24451; 24450; 24450; 24449; 24448; 24448; 24447; 24447; 24446; 24445;
  24445; 24444; 24444; 24443; 24442; 24442; 24441; 24441; 24440; 24439; 24439; 24438; 24438; 24437; 24436; 24436; 24435; 24435;
  24434; 24433; 24433; 24432; 24432; 24431; 24430; 24430; 24429; 24429; 24428; 24427; 24427; 24426; 24426; 24425; 24424; 24424;
  24423; 24423; 24422; 24421; 24421; 24420; 24420; 24419; 24418; 24418; 24417; 24417; 24416; 24415; 24415; 24414; 24414; 24413;
  24412; 24412; 24411; 24411; 24410; 24409; 24409; 24408; 24408; 24407; 24406; 24406; 24405; 24405; 24404; 24403; 24403; 24402;
  24402; 24401; 24400; 24400; 24399; 24399; 24398; 24397; 24397; 24396; 24396; 24395; 24394; 24394; 24393; 24393; 24392; 24391;
  24391; 24390; 24390; 24389; 24388; 24388; 24387; 24387; 24386; 24385; 24385; 24384; 24384; 24383; 24382; 24382; 24381; 24381;
  24380; 24379; 24379; 24378; 24378; 24377; 24376; 24376; 24375; 24375; 24374; 24373; 24373; 24372; 24372; 24371; 24370; 24370;
  24369; 24369; 24368; 24367; 24367; 24366; 24366; 24365; 24364; 24364; 24363; 24363; 24362; 24361; 24361; 24360; 24360; 24359;
  24358; 24358; 24357; 24357; 24356; 24355; 24355; 24354; 24354; 24353; 24352; 24352; 24351; 24351; 24350; 24350; 24349; 24348;
  24348; 24347; 24347; 24346; 24345; 24345; 24344; 24344; 24343; 24342; 24342; 24341; 24341; 24340; 24339; 24339; 24338; 24338;
  24337; 24336; 24336; 24335; 24335; 24334; 24333; 24333; 24332; 24332; 24331; 24330; 24330; 24329; 24329; 24328; 24327; 24327;
  24326; 24326; 24325; 24324; 24324; 24323; 24323; 24322; 24321; 24321; 24320; 24320; 24319; 24318; 24318; 24317; 24317; 24316;
  24315; 24315; 24314; 24314; 24313; 24312; 24312; 24311; 24311; 24310; 24309; 24309; 24308; 24308; 24307; 24306; 24306; 24305;
  24305; 24304; 24304; 24303; 24302; 24302; 24301; 24301; 24300; 24299; 24299; 24298; 24298; 24297; 24296; 24296; 24295; 24295;
  24294; 24293; 24293; 24292; 24292; 24291; 24290; 24290; 24289; 24289; 24288; 24287; 24287; 24286; 24286; 24285; 24284; 24284;
  24283; 24283; 24282; 24281; 24281; 24280; 24280; 24279; 24278; 24278; 24277; 24277; 24276; 24275; 24275; 24274; 24274; 24273;
  24272; 24272; 24271; 24271; 24270; 24270; 24269; 24268; 24268; 24267; 24267; 24266; 24265; 24265; 24264; 24264; 24263; 24262;
  24262; 24261; 24261; 24260; 24259; 24259; 24258; 24258; 24257; 24256; 24256; 24255; 24255; 24254; 24253; 24253; 24252; 24252;
  24251; 24250; 24250; 24249; 24249; 24248; 24247; 24247; 24246; 24246; 24245; 24244; 24244; 24243; 24243; 24242; 24242; 24241;
  24240; 24240; 24239; 24239; 24238; 24237; 24237; 24236; 24236; 24235; 24234; 24234; 24233; 24233; 24232; 24231; 24231; 24230;
  24230; 24229; 24228; 24228; 24227; 24227; 24226; 24225; 24225; 24224; 24224; 24223; 24222; 24222; 24221; 24221; 24220; 24219;
  24219; 24218; 24218; 24217; 24217; 24216; 24215; 24215; 24214; 24214; 24213; 24212; 24212; 24211; 24211; 24210; 24209; 24209;
  24208; 24208; 24207; 24206; 24206; 24205; 24205; 24204; 24203; 24203; 24202; 24202; 24201; 24200; 24200; 24199; 24199; 24198;
  24197; 24197; 24196; 24196; 24195; 24195; 24194; 24193; 24193; 24192; 24192; 24191; 24190; 24190; 24189; 24189; 24188; 24187;
  24187; 24186; 24186; 24185; 24184; 24184; 24183; 24183; 24182; 24181; 24181; 24180; 24180; 24179; 24178; 24178; 24177; 24177;
  24176; 24176; 24175; 24174; 24174; 24173; 24173; 24172; 24171; 24171; 24170; 24170; 24169; 24168; 24168; 24167; 24167; 24166;
  24165; 24165; 24164; 24164; 24163; 24162; 24162; 24161; 24161; 24160; 24159; 24159; 24158; 24158; 24157; 24157; 24156; 24155;
  24155; 24154; 24154; 24153; 24152; 24152; 24151; 24151; 24150; 24149; 24149; 24148; 24148; 24147; 24146; 24146; 24145; 24145].
Definition pow_lut_24 : list Z := [
  24144; 24143; 24143; 24142; 24142; 24141; 24141; 24140; 24139; 24139; 24138; 24138; 24137; 24136; 24136; 24135; 24135; 24134;
  24133; 24133; 24132; 24132; 24131; 24130; 24130; 24129; 24129; 24128; 24127; 24127; 24126; 24126; 24125; 24125; 24124; 24123;
  24123; 24122; 24122; 24121; 24120; 24120; 24119; 24119; 24118; 24117; 24117; 24116; 24116; 24115; 24114; 24114; 24113; 24113;
  24112; 24111; 24111; 24110; 24110; 24109; 24109; 24108; 24107; 24107; 24106; 24106; 24105; 24104; 24104; 24103; 24103; 24102;
  24101; 24101; 24100; 24100; 24099; 24098; 24098; 24097; 24097; 24096; 24095; 24095; 24094; 24094; 24093; 24093; 24092; 24091;
  24091; 24090; 24090; 24089; 24088; 24088; 24087; 24087; 24086; 24085; 24085; 24084; 24084; 24083; 24082; 24082; 24081; 24081;
  24080; 24080; 24079; 24078; 24078; 24077; 24077; 24076; 24075; 24075; 24074; 24074; 24073; 24072; 24072; 24071; 24071; 24070;
  24069; 24069; 24068; 24068; 24067; 24067; 24066; 24065; 24065; 24064; 24064; 24063; 24062; 24062; 24061; 24061; 24060; 24059;
  24059; 24058; 24058; 24057; 24056; 24056; 24055; 24055; 24054; 24054; 24053; 24052; 24052; 24051; 24051; 24050; 24049; 24049;
  24048; 24048; 24047; 24046; 24046; 24045; 24045; 24044; 24043; 24043; 24042; 24042; 24041; 24041; 24040; 24039; 24039; 24038;
  24038; 24037; 24036; 24036; 24035; 24035; 24034; 24033; 24033; 24032; 24032; 24031; 24030; 24030; 24029; 24029; 24028; 24028;
  24027; 24026; 24026; 24025; 24025; 24024; 24023; 24023; 24022; 24022; 24021; 24020; 24020; 24019; 24019; 24018; 24018; 24017;
  24016; 24016; 24015; 24015; 24014; 24013; 24013; 24012; 24012; 24011; 24010; 24010; 24009; 24009; 24008; 24007; 24007; 24006;
  24006; 24005; 24005; 24004; 24003; 24003; 24002; 24002; 24001; 24000; 24000; 23999; 23999; 23998; 23997; 23997; 23996; 23996;
  23995; 23995; 23994; 23993; 23993; 23992; 23992; 23991; 23990; 23990; 23989; 23989; 23988; 23987; 23987; 23986; 23986; 23985;
  23985; 23984; 23983; 23983; 23982; 23982; 23981; 23980; 23980; 23979; 23979; 23978; 23977; 23977; 23976; 23976; 23975; 23974;
  23974; 23973; 23973; 23972; 23972; 23971; 23970; 23970; 23969; 23969; 23968; 23967; 23967; 23966; 23966; 23965; 23964; 23964;
  23963; 23963; 23962; 23962; 23961; 23960; 23960; 23959; 23959; 23958; 23957; 23957; 23956; 23956; 23955; 23954; 23954; 23953;
  23953; 23952; 23952; 23951; 23950; 23950; 23949; 23949; 23948; 23947; 23947; 23946; 23946; 23945; 23944; 23944; 23943; 23943;
  23942; 23942; 23941; 23940; 23940; 23939; 23939; 23938; 23937; 23937; 23936; 23936; 23935; 23934; 23934; 23933; 23933; 23932;
  23932; 23931; 23930; 23930; 23929; 23929; 23928; 23927; 23927; 23926; 23926; 23925; 23924; 23924; 23923; 23923; 23922; 23922;
  23921; 23920; 23920; 23919; 23919; 23918; 23917; 23917; 23916; 23916; 23915; 23915; 23914; 23913; 23913; 23912; 23912; 23911;
  23910; 23910; 23909; 23909; 23908; 23907; 23907; 23906; 23906; 23905; 23905; 23904; 23903; 23903; 23902; 23902; 23901; 23900;
  23900; 23899; 23899; 23898; 23897; 23897; 23896; 23896; 23895; 23895; 23894; 23893; 23893; 23892; 23892; 23891; 23890; 23890;
  23889; 23889; 23888; 23888; 23887; 23886; 23886; 23885; 23885; 23884; 23883; 23883; 23882; 23882; 23881; 23880; 23880; 23879;
  23879; 23878; 23878; 23877; 23876; 23876; 23875; 23875; 23874; 23873; 23873; 23872; 23872; 23871; 23871; 23870; 23869; 23869;
  23868; 23868; 23867; 23866; 23866; 23865; 23865; 23864; 23863; 23863; 23862; 23862; 23861; 23861; 23860; 23859; 23859; 23858;
  23858; 23857; 23856; 23856; 23855; 23855; 23854; 23854; 23853; 23852; 23852; 23851; 23851; 23850; 23849; 23849; 23848; 23848;
  23847; 23846; 23846; 23845; 23845; 23844; 23844; 23843; 23842; 23842; 23841; 23841; 23840; 23839; 23839; 23838; 23838; 23837;
  23837; 23836; 23835; 23835; 23834; 23834; 23833; 23832; 23832; 23831; 23831; 23830; 23830; 23829; 23828; 23828; 23827; 23827;
  23826; 23825; 23825; 23824; 23824; 23823; 23822; 23822; 23821; 23821; 23820; 23820; 23819; 23818; 23818; 23817; 23817; 23816;
  23815; 23815; 23814; 23814; 23813; 23813; 23812; 23811; 23811; 23810; 23810; 23809; 23808; 23808; 23807; 23807; 23806; 23806;
  23805; 23804; 23804; 23803; 23803; 23802; 23801; 23801; 23800; 23800; 23799; 23799; 23798; 23797; 23797; 23796; 23796; 23795;
  23794; 23794; 23793; 23793; 23792; 23791; 23791; 23790; 23790; 23789; 23789; 23788; 23787; 23787; 23786; 23786; 23785; 23784;
  23784; 23783; 23783; 23782; 23782; 23781; 23780; 23780; 23779; 23779; 23778; 23777; 23777; 23776; 23776; 23775; 23775; 23774;
  23773; 23773; 23772; 23772; 23771; 23770; 23770; 23769; 23769; 23768; 23768; 23767; 23766; 23766; 23765; 23765; 23764; 23763;
  23763; 23762; 23762; 23761; 23761; 23760; 23759; 23759; 23758; 23758; 23757; 23756; 23756; 23755; 23755; 23754; 23754; 23753;
  23752; 23752; 23751; 23751; 23750; 23749; 23749; 23748; 23748; 23747; 23747; 23746; 23745; 23745; 23744; 23744; 23743; 23742;
  23742; 23741; 23741; 23740; 23740; 23739; 23738; 23738; 23737; 23737; 23736; 23735; 23735; 23734; 23734; 23733; 23733; 23732;
  23731; 23731; 23730; 23730; 23729; 23728; 23728; 23727; 23727; 23726; 23726; 23725; 23724; 23724; 23723; 23723; 23722; 23721;
  23721; 23720; 23720; 23719; 23719; 23718; 23717; 23717; 23716; 23716; 23715; 23714; 23714; 23713; 23713; 23712; 23712; 23711;
  23710; 23710; 23709; 23709; 23708; 23708; 23707; 23706; 23706; 23705; 23705; 23704; 23703; 23703; 23702; 23702; 23701; 23701;
  23700; 23699; 23699; 23698; 23698; 23697; 23696; 23696; 23695; 23695; 23694; 23694; 23693; 23692; 23692; 23691; 23691; 23690;
  23689; 23689; 23688; 23688; 23687; 23687; 23686; 23685; 23685; 23684; 23684; 23683; 23682; 23682; 23681; 23681; 23680; 23680;
  23679; 23678; 23678; 23677; 23677; 23676; 23676; 23675; 23674; 23674; 23673; 23673; 23672; 23671; 23671; 23670; 23670; 23669;
  23669; 23668; 23667; 23667; 23666; 23666; 23665; 23664; 23664; 23663; 23663; 23662; 23662; 23661; 23660; 23660; 23659; 23659;
  23658; 23657; 23657; 23656; 23656; 23655; 23655; 23654; 23653; 23653; 23652; 23652; 23651; 23651; 23650; 23649; 23649; 23648;
  23648; 23647; 23646; 23646; 23645; 23645; 23644; 23644; 23643; 23642; 23642; 23641; 23641; 23640; 23639; 23639; 23638; 23638;
  23637; 23637; 23636; 23635; 23635; 23634; 23634; 23633; 23633; 23632; 23631; 23631; 23630; 23630; 23629; 23628; 23628; 23627;
  23627; 23626; 23626; 23625; 23624; 23624; 23623; 23623; 23622; 23621; 23621; 23620; 23620; 23619; 23619; 23618; 23617; 23617].
Definition pow_lut_25 : list Z := [
  23616; 23616; 23615; 23615; 23614; 23613; 23613; 23612; 23612; 23611; 23610; 23610; 23609; 23609; 23608; 23608; 23607; 23606;
  23606; 23605; 23605; 23604; 23604; 23603; 23602; 23602; 23601; 23601; 23600; 23599; 23599; 23598; 23598; 23597; 23597; 23596;
  23595; 23595; 23594; 23594; 23593; 23593; 23592; 23591; 23591; 23590; 23590; 23589; 23588; 23588; 23587; 23587; 23586; 23586;
  23585; 23584; 23584; 23583; 23583; 23582; 23581; 23581; 23580; 23580; 23579; 23579; 23578; 23577; 23577; 23576; 23576; 23575;
  23575; 23574; 23573; 23573; 23572; 23572; 23571; 23570; 23570; 23569; 23569; 23568; 23568; 23567; 23566; 23566; 23565; 23565;
  23564; 23564; 23563; 23562; 23562; 23561; 23561; 23560; 23560; 23559; 23558; 23558; 23557; 23557; 23556; 23555; 23555; 23554;
  23554; 23553; 23553; 23552; 23551; 23551; 23550; 23550; 23549; 23549; 23548; 23547; 23547; 23546; 23546; 23545; 23544; 23544;
  23543; 23543; 23542; 23542; 23541; 23540; 23540; 23539; 23539; 23538; 23538; 23537; 23536; 23536; 23535; 23535; 23534; 23533;
  23533; 23532; 23532; 23531; 23531; 23530; 23529; 23529; 23528; 23528; 23527; 23527; 23526; 23525; 23525; 23524; 23524; 23523;
  23523; 23522; 23521; 23521; 23520; 23520; 23519; 23518; 23518; 23517; 23517; 23516; 23516; 23515; 23514; 23514; 23513; 23513;
  23512; 23512; 23511; 23510; 23510; 23509; 23509; 23508; 23507; 23507; 23506; 23506; 23505; 23505; 23504; 23503; 23503; 23502;
  23502; 23501; 23501; 23500; 23499; 23499; 23498; 23498; 23497; 23497; 23496; 23495; 23495; 23494; 23494; 23493; 23492; 23492;
  23491; 23491; 23490; 23490; 23489; 23488; 23488; 23487; 23487; 23486; 23486; 23485; 23484; 23484; 23483; 23483; 23482; 23482;
  23481; 23480; 23480; 23479; 23479; 23478; 23477; 23477; 23476; 23476; 23475; 23475; 23474; 23473; 23473; 23472; 23472; 23471;
  23471; 23470; 23469; 23469; 23468; 23468; 23467; 23467; 23466; 23465; 23465; 23464; 23464; 23463; 23463; 23462; 23461; 23461;
  23460; 23460; 23459; 23458; 23458; 23457; 23457; 23456; 23456; 23455; 23454; 23454; 23453; 23453; 23452; 23452; 23451; 23450;
  23450; 23449; 23449; 23448; 23448; 23447; 23446; 23446; 23445; 23445; 23444; 23443; 23443; 23442; 23442; 23441; 23441; 23440;
  23439; 23439; 23438; 23438; 23437; 23437; 23436; 23435; 23435; 23434; 23434; 23433; 23433; 23432; 23431; 23431; 23430; 23430;
  23429; 23429; 23428; 23427; 23427; 23426; 23426; 23425; 23425; 23424; 23423; 23423; 23422; 23422; 23421; 23420; 23420; 23419;
  23419; 23418; 23418; 23417; 23416; 23416; 23415; 23415; 23414; 23414; 23413; 23412; 23412; 23411; 23411; 23410; 23410; 23409;
  23408; 23408; 23407; 23407; 23406; 23406; 23405; 23404; 23404; 23403; 23403; 23402; 23402; 23401; 23400; 23400; 23399; 23399;
  23398; 23397; 23397; 23396; 23396; 23395; 23395; 23394; 23393; 23393; 23392; 23392; 23391; 23391; 23390; 23389; 23389; 23388;
  23388; 23387; 23387; 23386; 23385; 23385; 23384; 23384; 23383; 23383; 23382; 23381; 23381; 23380; 23380; 23379; 23379; 23378;
  23377; 23377; 23376; 23376; 23375; 23375; 23374; 23373; 23373; 23372; 23372; 23371; 23370; 23370; 23369; 23369; 23368; 23368;
  23367; 23366; 23366; 23365; 23365; 23364; 23364; 23363; 23362; 23362; 23361; 23361; 23360; 23360; 23359; 23358; 23358; 23357;
  23357; 23356; 23356; 23355; 23354; 23354; 23353; 23353; 23352; 23352; 23351; 23350; 23350; 23349; 23349; 23348; 23348; 23347;
  23346; 23346; 23345; 23345; 23344; 23344; 23343; 23342; 23342; 23341; 23341; 23340; 23340; 23339; 23338; 23338; 23337; 23337;
  23336; 23336; 23335; 23334; 23334; 23333; 23333; 23332; 23331; 23331; 23330; 23330; 23329; 23329; 23328; 23327; 23327; 23326;
  23326; 23325; 23325; 23324; 23323; 23323; 23322; 23322; 23321; 23321; 23320; 23319; 23319; 23318; 23318; 23317; 23317; 23316;
  23315; 23315; 23314; 23314; 23313; 23313; 23312; 23311; 23311; 23310; 23310; 23309; 23309; 23308; 23307; 23307; 23306; 23306;
  23305; 23305; 23304; 23303; 23303; 23302; 23302; 23301; 23301; 23300; 23299; 23299; 23298; 23298; 23297; 23297; 23296; 23295;
  23295; 23294; 23294; 23293; 23293; 23292; 23291; 23291; 23290; 23290; 23289; 23289; 23288; 23287; 23287; 23286; 23286; 23285;
  23285; 23284; 23283; 23283; 23282; 23282; 23281; 23281; 23280; 23279; 23279; 23278; 23278; 23277; 23277; 23276; 23275; 23275;
  23274; 23274; 23273; 23273; 23272; 23271; 23271; 23270; 23270; 23269; 23269; 23268; 23267; 23267; 23266; 23266; 23265; 23265;
  23264; 23263; 23263; 23262; 23262; 23261; 23261; 23260; 23259; 23259; 23258; 23258; 23257; 23257; 23256; 23255; 23255; 23254;
  23254; 23253; 23253; 23252; 23251; 23251; 23250; 23250; 23249; 23249; 23248; 23247; 23247; 23246; 23246; 23245; 23245; 23244;
  23243; 23243; 23242; 23242; 23241; 23241; 23240; 23239; 23239; 23238; 23238; 23237; 23237; 23236; 23235; 23235; 23234; 23234;
  23233; 23233; 23232; 23231; 23231; 23230; 23230; 23229; 23229; 23228; 23227; 23227; 23226; 23226; 23225; 23225; 23224; 23223;
  23223; 23222; 23222; 23221; 23221; 23220; 23219; 23219; 23218; 23218; 23217; 23217; 23216; 23215; 23215; 23214; 23214; 23213;
  23213; 23212; 23211; 23211; 23210; 23210; 23209; 23209; 23208; 23207; 23207; 23206; 23206; 23205; 23205; 23204; 23203; 23203;
  23202; 23202; 23201; 23201; 23200; 23200; 23199; 23198; 23198; 23197; 23197; 23196; 23196; 23195; 23194; 23194; 23193; 23193;
  23192; 23192; 23191; 23190; 23190; 23189; 23189; 23188; 23188; 23187; 23186; 23186; 23185; 23185; 23184; 23184; 23183; 23182;
  23182; 23181; 23181; 23180; 23180; 23179; 23178; 23178; 23177; 23177; 23176; 23176; 23175; 23174; 23174; 23173; 23173; 23172;
  23172; 23171; 23170; 23170; 23169; 23169; 23168; 23168; 23167; 23166; 23166; 23165; 23165; 23164; 23164; 23163; 23163; 23162;
  23161; 23161; 23160; 23160; 23159; 23159; 23158; 23157; 23157; 23156; 23156; 23155; 23155; 23154; 23153; 23153; 23152; 23152;
  23151; 23151; 23150; 23149; 23149; 23148; 23148; 23147; 23147; 23146; 23145; 23145; 23144; 23144; 23143; 23143; 23142; 23141;
  23141; 23140; 23140; 23139; 23139; 23138; 23137; 23137; 23136; 23136; 23135; 23135; 23134; 23134; 23133; 23132; 23132; 23131;
  23131; 23130; 23130; 23129; 23128; 23128; 23127; 23127; 23126; 23126; 23125; 23124; 23124; 23123; 23123; 23122; 23122; 23121;
  23120; 23120; 23119; 23119; 23118; 23118; 23117; 23116; 23116; 23115; 23115; 23114; 23114; 23113; 23112; 23112; 23111; 23111;
  23110; 23110; 23109; 23109; 23108; 23107; 23107; 23106; 23106; 23105; 23105; 23104; 23103; 23103; 23102; 23102; 23101; 23101].
Definition pow_lut_26 : list Z := [
  23100; 23099; 23099; 23098; 23098; 23097; 23097; 23096; 23095; 23095; 23094; 23094; 23093; 23093; 23092; 23092; 23091; 23090;
  23090; 23089; 23089; 23088; 23088; 23087; 23086; 23086; 23085; 23085; 23084; 23084; 23083; 23082; 23082; 23081; 23081; 23080;
  23080; 23079; 23078; 23078; 23077; 23077; 23076; 23076; 23075; 23075; 23074; 23073; 23073; 23072; 23072; 23071; 23071; 23070;
  23069; 23069; 23068; 23068; 23067; 23067; 23066; 23065; 23065; 23064; 23064; 23063; 23063; 23062; 23061; 23061; 23060; 23060;
  23059; 23059; 23058; 23058; 23057; 23056; 23056; 23055; 23055; 23054; 23054; 23053; 23052; 23052; 23051; 23051; 23050; 23050;
  23049; 23048; 23048; 23047; 23047; 23046; 23046; 23045; 23044; 23044; 23043; 23043; 23042; 23042; 23041; 23041; 23040; 23039;
  23039; 23038; 23038; 23037; 23037; 23036; 23035; 23035; 23034; 23034; 23033; 23033; 23032; 23031; 23031; 23030; 23030; 23029;
  23029; 23028; 23028; 23027; 23026; 23026; 23025; 23025; 23024; 23024; 23023; 23022; 23022; 23021; 23021; 23020; 23020; 23019;
  23018; 23018; 23017; 23017; 23016; 23016; 23015; 23015; 23014; 23013; 23013; 23012; 23012; 23011; 23011; 23010; 23009; 23009;
  23008; 23008; 23007; 23007; 23006; 23005; 23005; 23004; 23004; 23003; 23003; 23002; 23002; 23001; 23000; 23000; 22999; 22999;
  22998; 22998; 22997; 22996; 22996; 22995; 22995; 22994; 22994; 22993; 22992; 22992; 22991; 22991; 22990; 22990; 22989; 22989;
  22988; 22987; 22987; 22986; 22986; 22985; 22985; 22984; 22983; 22983; 22982; 22982; 22981; 22981; 22980; 22979; 22979; 22978;
  22978; 22977; 22977; 22976; 22976; 22975; 22974; 22974; 22973; 22973; 22972; 22972; 22971; 22970; 22970; 22969; 22969; 22968;
  22968; 22967; 22967; 22966; 22965; 22965; 22964; 22964; 22963; 22963; 22962; 22961; 22961; 22960; 22960; 22959; 22959; 22958;
  22957; 22957; 22956; 22956; 22955; 22955; 22954; 22954; 22953; 22952; 22952; 22951; 22951; 22950; 22950; 22949; 22948; 22948;
  22947; 22947; 22946; 22946; 22945; 22945; 22944; 22943; 22943; 22942; 22942; 22941; 22941; 22940; 22939; 22939; 22938; 22938;
  22937; 22937; 22936; 22936; 22935; 22934; 22934; 22933; 22933; 22932; 22932; 22931; 22930; 22930; 22929; 22929; 22928; 22928;
  22927; 22927; 22926; 22925; 22925; 22924; 22924; 22923; 22923; 22922; 22921; 22921; 22920; 22920; 22919; 22919; 22918; 22918;
  22917; 22916; 22916; 22915; 22915; 22914; 22914; 22913; 22912; 22912; 22911; 22911; 22910; 22910; 22909; 22908; 22908; 22907;
  22907; 22906; 22906; 22905; 22905; 22904; 22903; 22903; 22902; 22902; 22901; 22901; 22900; 22899; 22899; 22898; 22898; 22897;
  22897; 22896; 22896; 22895; 22894; 22894; 22893; 22893; 22892; 22892; 22891; 22891; 22890; 22889; 22889; 22888; 22888; 22887;
  22887; 22886; 22885; 22885; 22884; 22884; 22883; 22883; 22882; 22882; 22881; 22880; 22880; 22879; 22879; 22878; 22878; 22877;
  22876; 22876; 22875; 22875; 22874; 22874; 22873; 22873; 22872; 22871; 22871; 22870; 22870; 22869; 22869; 22868; 22867; 22867;
  22866; 22866; 22865; 22865; 22864; 22864; 22863; 22862; 22862; 22861; 22861; 22860; 22860; 22859; 22858; 22858; 22857; 22857;
  22856; 22856; 22855; 22855; 22854; 22853; 22853; 22852; 22852; 22851; 22851; 22850; 22850; 22849; 22848; 22848; 22847; 22847;
  22846; 22846; 22845; 22844; 22844; 22843; 22843; 22842; 22842; 22841; 22841; 22840; 22839; 22839; 22838; 22838; 22837; 22837;
  22836; 22835; 22835; 22834; 22834; 22833; 22833; 22832; 22832; 22831; 22830; 22830; 22829; 22829; 22828; 22828; 22827; 22827;
  22826; 22825; 22825; 22824; 22824; 22823; 22823; 22822; 22821; 22821; 22820; 22820; 22819; 22819; 22818; 22818; 22817; 22816;
  22816; 22815; 22815; 22814; 22814; 22813; 22812; 22812; 22811; 22811; 22810; 22810; 22809; 22809; 22808; 22807; 22807; 22806;
  22806; 22805; 22805; 22804; 22804; 22803; 22802; 22802; 22801; 22801; 22800; 22800; 22799; 22798; 22798; 22797; 22797; 22796;
  22796; 22795; 22795; 22794; 22793; 22793; 22792; 22792; 22791; 22791; 22790; 22790; 22789; 22788; 22788; 22787; 22787; 22786;
  22786; 22785; 22784; 22784; 22783; 22783; 22782; 22782; 22781; 22781; 22780; 22779; 22779; 22778; 22778; 22777; 22777; 22776;
  22776; 22775; 22774; 22774; 22773; 22773; 22772; 22772; 22771; 22771; 22770; 22769; 22769; 22768; 22768; 22767; 22767; 22766;
  22765; 22765; 22764; 22764; 22763; 22763; 22762; 22762; 22761; 22760; 22760; 22759; 22759; 22758; 22758; 22757; 22757; 22756;
  22755; 22755; 22754; 22754; 22753; 22753; 22752; 22752; 22751; 22750; 22750; 22749; 22749; 22748; 22748; 22747; 22746; 22746;
  22745; 22745; 22744; 22744; 22743; 22743; 22742; 22741; 22741; 22740; 22740; 22739; 22739; 22738; 22738; 22737; 22736; 22736;
  22735; 22735; 22734; 22734; 22733; 22733; 22732; 22731; 22731; 22730; 22730; 22729; 22729; 22728; 22727; 22727; 22726; 22726;
  22725; 22725; 22724; 22724; 22723; 22722; 22722; 22721; 22721; 22720; 22720; 22719; 22719; 22718; 22717; 22717; 22716; 22716;
  22715; 22715; 22714; 22714; 22713; 22712; 22712; 22711; 22711; 22710; 22710; 22709; 22709; 22708; 22707; 22707; 22706; 22706;
  22705; 22705; 22704; 22704; 22703; 22702; 22702; 22701; 22701; 22700; 22700; 22699; 22698; 22698; 22697; 22697; 22696; 22696;
  22695; 22695; 22694; 22693; 22693; 22692; 22692; 22691; 22691; 22690; 22690; 22689; 22688; 22688; 22687; 22687; 22686; 22686;
  22685; 22685; 22684; 22683; 22683; 22682; 22682; 22681; 22681; 22680; 22680; 22679; 22678; 22678; 22677; 22677; 22676; 22676;
  22675; 22675; 22674; 22673; 22673; 22672; 22672; 22671; 22671; 22670; 22670; 22669; 22668; 22668; 22667; 22667; 22666; 22666;
  22665; 22665; 22664; 22663; 22663; 22662; 22662; 22661; 22661; 22660; 22660; 22659; 22658; 22658; 22657; 22657; 22656; 22656;
  22655; 22654; 22654; 22653; 22653; 22652; 22652; 22651; 22651; 22650; 22649; 22649; 22648; 22648; 22647; 22647; 22646; 22646;
  22645; 22644; 22644; 22643; 22643; 22642; 22642; 22641; 22641; 22640; 22639; 22639; 22638; 22638; 22637; 22637; 22636; 22636;
  22635; 22634; 22634; 22633; 22633; 22632; 22632; 22631; 22631; 22630; 22629; 22629; 22628; 22628; 22627; 22627; 22626; 22626;
  22625; 22624; 22624; 22623; 22623; 22622; 22622; 22621; 22621; 22620; 22619; 22619; 22618; 22618; 22617; 22617; 22616; 22616;
  22615; 22614; 22614; 22613; 22613; 22612; 22612; 22611; 22611; 22610; 22609; 22609; 22608; 22608; 22607; 22607; 22606; 22606;
  22605; 22604; 22604; 22603; 22603; 22602; 22602; 22601; 22601; 22600; 22599; 22599; 22598; 22598; 22597; 22597; 22596; 22596].
Definition pow_lut_27 : list Z := [
  22595; 22594; 22594; 22593; 22593; 22592; 22592; 22591; 22591; 22590; 22589; 22589; 22588; 22588; 22587; 22587; 22586; 22586;
  22585; 22585; 22584; 22583; 22583; 22582; 22582; 22581; 22581; 22580; 22580; 22579; 22578; 22578; 22577; 22577; 22576; 22576;
  22575; 22575; 22574; 22573; 22573; 22572; 22572; 22571; 22571; 22570; 22570; 22569; 22568; 22568; 22567; 22567; 22566; 22566;
  22565; 22565; 22564; 22563; 22563; 22562; 22562; 22561; 22561; 22560; 22560; 22559; 22558; 22558; 22557; 22557; 22556; 22556;
  22555; 22555; 22554; 22553; 22553; 22552; 22552; 22551; 22551; 22550; 22550; 22549; 22548; 22548; 22547; 22547; 22546; 22546;
  22545; 22545; 22544; 22543; 22543; 22542; 22542; 22541; 22541; 22540; 22540; 22539; 22539; 22538; 22537; 22537; 22536; 22536;
  22535; 22535; 22534; 22534; 22533; 22532; 22532; 22531; 22531; 22530; 22530; 22529; 22529; 22528; 22527; 22527; 22526; 22526;
  22525; 22525; 22524; 22524; 22523; 22522; 22522; 22521; 22521; 22520; 22520; 22519; 22519; 22518; 22517; 22517; 22516; 22516;
  22515; 22515; 22514; 22514; 22513; 22513; 22512; 22511; 22511; 22510; 22510; 22509; 22509; 22508; 22508; 22507; 22506; 22506;
  22505; 22505; 22504; 22504; 22503; 22503; 22502; 22501; 22501; 22500; 22500; 22499; 22499; 22498; 22498; 22497; 22496; 22496;
  22495; 22495; 22494; 22494; 22493; 22493; 22492; 22492; 22491; 22490; 22490; 22489; 22489; 22488; 22488; 22487; 22487; 22486;
  22485; 22485; 22484; 22484; 22483; 22483; 22482; 22482; 22481; 22480; 22480; 22479; 22479; 22478; 22478; 22477; 22477; 22476;
  22476; 22475; 22474; 22474; 22473; 22473; 22472; 22472; 22471; 22471; 22470; 22469; 22469; 22468; 22468; 22467; 22467; 22466;
  22466; 22465; 22464; 22464; 22463; 22463; 22462; 22462; 22461; 22461; 22460; 22459; 22459; 22458; 22458; 22457; 22457; 22456;
  22456; 22455; 22455; 22454; 22453; 22453; 22452; 22452; 22451; 22451; 22450; 22450; 22449; 22448; 22448; 22447; 22447; 22446;
  22446; 22445; 22445; 22444; 22444; 22443; 22442; 22442; 22441; 22441; 22440; 22440; 22439; 22439; 22438; 22437; 22437; 22436;
  22436; 22435; 22435; 22434; 22434; 22433; 22432; 22432; 22431; 22431; 22430; 22430; 22429; 22429; 22428; 22428; 22427; 22426;
  22426; 22425; 22425; 22424; 22424; 22423; 22423; 22422; 22421; 22421; 22420; 22420; 22419; 22419; 22418; 22418; 22417; 22417;
  22416; 22415; 22415; 22414; 22414; 22413; 22413; 22412; 22412; 22411; 22410; 22410; 22409; 22409; 22408; 22408; 22407; 22407;
  22406; 22406; 22405; 22404; 22404; 22403; 22403; 22402; 22402; 22401; 22401; 22400; 22399; 22399; 22398; 22398; 22397; 22397;
  22396; 22396; 22395; 22395; 22394; 22393; 22393; 22392; 22392; 22391; 22391; 22390; 22390; 22389; 22388; 22388; 22387; 22387;
  22386; 22386; 22385; 22385; 22384; 22384; 22383; 22382; 22382; 22381; 22381; 22380; 22380; 22379; 22379; 22378; 22377; 22377;
  22376; 22376; 22375; 22375; 22374; 22374; 22373; 22373; 22372; 22371; 22371; 22370; 22370; 22369; 22369; 22368; 22368; 22367;
  22366; 22366; 22365; 22365; 22364; 22364; 22363; 22363; 22362; 22362; 22361; 22360; 22360; 22359; 22359; 22358; 22358; 22357;
  22357; 22356; 22355; 22355; 22354; 22354; 22353; 22353; 22352; 22352; 22351; 22351; 22350; 22349; 22349; 22348; 22348; 22347;
  22347; 22346; 22346; 22345; 22345; 22344; 22343; 22343; 22342; 22342; 22341; 22341; 22340; 22340; 22339; 22338; 22338; 22337;
  22337; 22336; 22336; 22335; 22335; 22334; 22334; 22333; 22332; 22332; 22331; 22331; 22330; 22330; 22329; 22329; 22328; 22328;
  22327; 22326; 22326; 22325; 22325; 22324; 22324; 22323; 22323; 22322; 22321; 22321; 22320; 22320; 22319; 22319; 22318; 22318;
  22317; 22317; 22316; 22315; 22315; 22314; 22314; 22313; 22313; 22312; 22312; 22311; 22311; 22310; 22309; 22309; 22308; 22308;
  22307; 22307; 22306; 22306; 22305; 22304; 22304; 22303; 22303; 22302; 22302; 22301; 22301; 22300; 22300; 22299; 22298; 22298;
  22297; 22297; 22296; 22296; 22295; 22295; 22294; 22294; 22293; 22292; 22292; 22291; 22291; 22290; 22290; 22289; 22289; 22288;
  22288; 22287; 22286; 22286; 22285; 22285; 22284; 22284; 22283; 22283; 22282; 22281; 22281; 22280; 22280; 22279; 22279; 22278;
  22278; 22277; 22277; 22276; 22275; 22275; 22274; 22274; 22273; 22273; 22272; 22272; 22271; 22271; 22270; 22269; 22269; 22268;
  22268; 22267; 22267; 22266; 22266; 22265; 22265; 22264; 22263; 22263; 22262; 22262; 22261; 22261; 22260; 22260; 22259; 22259;
  22258; 22257; 22257; 22256; 22256; 22255; 22255; 22254; 22254; 22253; 22253; 22252; 22251; 22251; 22250; 22250; 22249; 22249;
  22248; 22248; 22247; 22247; 22246; 22245; 22245; 22244; 22244; 22243; 22243; 22242; 22242; 22241; 22240; 22240; 22239; 22239;
  22238; 22238; 22237; 22237; 22236; 22236; 22235; 22234; 22234; 22233; 22233; 22232; 22232; 22231; 22231; 22230; 22230; 22229;
  22228; 22228; 22227; 22227; 22226; 22226; 22225; 22225; 22224; 22224; 22223; 22222; 22222; 22221; 22221; 22220; 22220; 22219;
  22219; 22218; 22218; 22217; 22216; 22216; 22215; 22215; 22214; 22214; 22213; 22213; 22212; 22212; 22211; 22210; 22210; 22209;
  22209; 22208; 22208; 22207; 22207; 22206; 22206; 22205; 22204; 22204; 22203; 22203; 22202; 22202; 22201; 22201; 22200; 22200;
  22199; 22198; 22198; 22197; 22197; 22196; 22196; 22195; 22195; 22194; 22194; 22193; 22192; 22192; 22191; 22191; 22190; 22190;
  22189; 22189; 22188; 22188; 22187; 22186; 22186; 22185; 22185; 22184; 22184; 22183; 22183; 22182; 22182; 22181; 22180; 22180;
  22179; 22179; 22178; 22178; 22177; 22177; 22176; 22176; 22175; 22175; 22174; 22173; 22173; 22172; 22172; 22171; 22171; 22170;
  22170; 22169; 22169; 22168; 22167; 22167; 22166; 22166; 22165; 22165; 22164; 22164; 22163; 22163; 22162; 22161; 22161; 22160;
  22160; 22159; 22159; 22158; 22158; 22157; 22157; 22156; 22155; 22155; 22154; 22154; 22153; 22153; 22152; 22152; 22151; 22151;
  22150; 22149; 22149; 22148; 22148; 22147; 22147; 22146; 22146; 22145; 22145; 22144; 22143; 22143; 22142; 22142; 22141; 22141;
  22140; 22140; 22139; 22139; 22138; 22138; 22137; 22136; 22136; 22135; 22135; 22134; 22134; 22133; 22133; 22132; 22132; 22131;
  22130; 22130; 22129; 22129; 22128; 22128; 22127; 22127; 22126; 22126; 22125; 22124; 22124; 22123; 22123; 22122; 22122; 22121;
  22121; 22120; 22120; 22119; 22118; 22118; 22117; 22117; 22116; 22116; 22115; 22115; 22114; 22114; 22113; 22113; 22112; 22111;
  22111; 22110; 22110; 22109; 22109; 22108; 22108; 22107; 22107; 22106; 22105; 22105; 22104; 22104; 22103; 22103; 22102; 22102].
Definition pow_lut_28 : list Z := [
  22101; 22101; 22100; 22099; 22099; 22098; 22098; 22097; 22097; 22096; 22096; 22095; 22095; 22094; 22094; 22093; 22092; 22092;
  22091; 22091; 22090; 22090; 22089; 22089; 22088; 22088; 22087; 22086; 22086; 22085; 22085; 22084; 22084; 22083; 22083; 22082;
  22082; 22081; 22080; 22080; 22079; 22079; 22078; 22078; 22077; 22077; 22076; 22076; 22075; 22075; 22074; 22073; 22073; 22072;
  22072; 22071; 22071; 22070; 22070; 22069; 22069; 22068; 22067; 22067; 22066; 22066; 22065; 22065; 22064; 22064; 22063; 22063;
  22062; 22062; 22061; 22060; 22060; 22059; 22059; 22058; 22058; 22057; 22057; 22056; 22056; 22055; 22054; 22054; 22053; 22053;
  22052; 22052; 22051; 22051; 22050; 22050; 22049; 22049; 22048; 22047; 22047; 22046; 22046; 22045; 22045; 22044; 22044; 22043;
  22043; 22042; 22041; 22041; 22040; 22040; 22039; 22039; 22038; 22038; 22037; 22037; 22036; 22036; 22035; 22034; 22034; 22033;
  22033; 22032; 22032; 22031; 22031; 22030; 22030; 22029; 22028; 22028; 22027; 22027; 22026; 22026; 22025; 22025; 22024; 22024;
  22023; 22023; 22022; 22021; 22021; 22020; 22020; 22019; 22019; 22018; 22018; 22017; 22017; 22016; 22016; 22015; 22014; 22014;
  22013; 22013; 22012; 22012; 22011; 22011; 22010; 22010; 22009; 22008; 22008; 22007; 22007; 22006; 22006; 22005; 22005; 22004;
  22004; 22003; 22003; 22002; 22001; 22001; 22000; 22000; 21999; 21999; 21998; 21998; 21997; 21997; 21996; 21996; 21995; 21994;
  21994; 21993; 21993; 21992; 21992; 21991; 21991; 21990; 21990; 21989; 21988; 21988; 21987; 21987; 21986; 21986; 21985; 21985;
  21984; 21984; 21983; 21983; 21982; 21981; 21981; 21980; 21980; 21979; 21979; 21978; 21978; 21977; 21977; 21976; 21976; 21975;
  21974; 21974; 21973; 21973; 21972; 21972; 21971; 21971; 21970; 21970; 21969; 21969; 21968; 21967; 21967; 21966; 21966; 21965;
  21965; 21964; 21964; 21963; 21963; 21962; 21962; 21961; 21960; 21960; 21959; 21959; 21958; 21958; 21957; 21957; 21956; 21956;
  21955; 21955; 21954; 21953; 21953; 21952; 21952; 21951; 21951; 21950; 21950; 21949; 21949; 21948; 21947; 21947; 21946; 21946;
  21945; 21945; 21944; 21944; 21943; 21943; 21942; 21942; 21941; 21940; 21940; 21939; 21939; 21938; 21938; 21937; 21937; 21936;
  21936; 21935; 21935; 21934; 21933; 21933; 21932; 21932; 21931; 21931; 21930; 21930; 21929; 21929; 21928; 21928; 21927; 21926;
  21926; 21925; 21925; 21924; 21924; 21923; 21923; 21922; 21922; 21921; 21921; 21920; 21919; 21919; 21918; 21918; 21917; 21917;
  21916; 21916; 21915; 21915; 21914; 21914; 21913; 21912; 21912; 21911; 21911; 21910; 21910; 21909; 21909; 21908; 21908; 21907;
  21907; 21906; 21905; 21905; 21904; 21904; 21903; 21903; 21902; 21902; 21901; 21901; 21900; 21900; 21899; 21899; 21898; 21897;
  21897; 21896; 21896; 21895; 21895; 21894; 21894; 21893; 21893; 21892; 21892; 21891; 21890; 21890; 21889; 21889; 21888; 21888;
  21887; 21887; 21886; 21886; 21885; 21885; 21884; 21883; 21883; 21882; 21882; 21881; 21881; 21880; 21880; 21879; 21879; 21878;
  21878; 21877; 21876; 21876; 21875; 21875; 21874; 21874; 21873; 21873; 21872; 21872; 21871; 21871; 21870; 21869; 21869; 21868;
  21868; 21867; 21867; 21866; 21866; 21865; 21865; 21864; 21864; 21863; 21862; 21862; 21861; 21861; 21860; 21860; 21859; 21859;
  21858; 21858; 21857; 21857; 21856; 21856; 21855; 21854; 21854; 21853; 21853; 21852; 21852; 21851; 21851; 21850; 21850; 21849;
  21849; 21848; 21847; 21847; 21846; 21846; 21845; 21845; 21844; 21844; 21843; 21843; 21842; 21842; 21841; 21840; 21840; 21839;
  21839; 21838; 21838; 21837; 21837; 21836; 21836; 21835; 21835; 21834; 21834; 21833; 21832; 21832; 21831; 21831; 21830; 21830;
  21829; 21829; 21828; 21828; 21827; 21827; 21826; 21825; 21825; 21824; 21824; 21823; 21823; 21822; 21822; 21821; 21821; 21820;
  21820; 21819; 21819; 21818; 21817; 21817; 21816; 21816; 21815; 21815; 21814; 21814; 21813; 21813; 21812; 21812; 21811; 21810;
  21810; 21809; 21809; 21808; 21808; 21807; 21807; 21806; 21806; 21805; 21805; 21804; 21804; 21803; 21802; 21802; 21801; 21801;
  21800; 21800; 21799; 21799; 21798; 21798; 21797; 21797; 21796; 21795; 21795; 21794; 21794; 21793; 21793; 21792; 21792; 21791;
  21791; 21790; 21790; 21789; 21789; 21788; 21787; 21787; 21786; 21786; 21785; 21785; 21784; 21784; 21783; 21783; 21782; 21782;
  21781; 21781; 21780; 21779; 21779; 21778; 21778; 21777; 21777; 21776; 21776; 21775; 21775; 21774; 21774; 21773; 21772; 21772;
  21771; 21771; 21770; 21770; 21769; 21769; 21768; 21768; 21767; 21767; 21766; 21766; 21765; 21764; 21764; 21763; 21763; 21762;
  21762; 21761; 21761; 21760; 21760; 21759; 21759; 21758; 21758; 21757; 21756; 21756; 21755; 21755; 21754; 21754; 21753; 21753;
  21752; 21752; 21751; 21751; 21750; 21750; 21749; 21748; 21748; 21747; 21747; 21746; 21746; 21745; 21745; 21744; 21744; 21743;
  21743; 21742; 21741; 21741; 21740; 21740; 21739; 21739; 21738; 21738; 21737; 21737; 21736; 21736; 21735; 21735; 21734; 21733;
  21733; 21732; 21732; 21731; 21731; 21730; 21730; 21729; 21729; 21728; 21728; 21727; 21727; 21726; 21725; 21725; 21724; 21724;
  21723; 21723; 21722; 21722; 21721; 21721; 21720; 21720; 21719; 21719; 21718; 21717; 21717; 21716; 21716; 21715; 21715; 21714;
  21714; 21713; 21713; 21712; 21712; 21711; 21711; 21710; 21709; 21709; 21708; 21708; 21707; 21707; 21706; 21706; 21705; 21705;
  21704; 21704; 21703; 21703; 21702; 21701; 21701; 21700; 21700; 21699; 21699; 21698; 21698; 21697; 21697; 21696; 21696; 21695;
  21695; 21694; 21693; 21693; 21692; 21692; 21691; 21691; 21690; 21690; 21689; 21689; 21688; 21688; 21687; 21687; 21686; 21686;
  21685; 21684; 21684; 21683; 21683; 21682; 21682; 21681; 21681; 21680; 21680; 21679; 21679; 21678; 21678; 21677; 21676; 21676;
  21675; 21675; 21674; 21674; 21673; 21673; 21672; 21672; 21671; 21671; 21670; 21670; 21669; 21668; 21668; 21667; 21667; 21666;
  21666; 21665; 21665; 21664; 21664; 21663; 21663; 21662; 21662; 21661; 21660; 21660; 21659; 21659; 21658; 21658; 21657; 21657;
  21656; 21656; 21655; 21655; 21654; 21654; 21653; 21653; 21652; 21651; 21651; 21650; 21650; 21649; 21649; 21648; 21648; 21647;
  21647; 21646; 21646; 21645; 21645; 21644; 21643; 21643; 21642; 21642; 21641; 21641; 21640; 21640; 21639; 21639; 21638; 21638;
  21637; 21637; 21636; 21635; 21635; 21634; 21634; 21633; 21633; 21632; 21632; 21631; 21631; 21630; 21630; 21629; 21629; 21628;
  21628; 21627; 21626; 21626; 21625; 21625; 21624; 21624; 21623; 21623; 21622; 21622; 21621; 21621; 21620; 21620; 21619; 21619].
Definition pow_lut_29 : list Z := [
  21618; 21617; 21617; 21616; 21616; 21615; 21615; 21614; 21614; 21613; 21613; 21612; 21612; 21611; 21611; 21610; 21609; 21609;
  21608; 21608; 21607; 21607; 21606; 21606; 21605; 21605; 21604; 21604; 21603; 21603; 21602; 21602; 21601; 21600; 21600; 21599;
  21599; 21598; 21598; 21597; 21597; 21596; 21596; 21595; 21595; 21594; 21594; 21593; 21593; 21592; 21591; 21591; 21590; 21590;
  21589; 21589; 21588; 21588; 21587; 21587; 21586; 21586; 21585; 21585; 21584; 21583; 21583; 21582; 21582; 21581; 21581; 21580;
  21580; 21579; 21579; 21578; 21578; 21577; 21577; 21576; 21576; 21575; 21574; 21574; 21573; 21573; 21572; 21572; 21571; 21571;
  21570; 21570; 21569; 21569; 21568; 21568; 21567; 21567; 21566; 21565; 21565; 21564; 21564; 21563; 21563; 21562; 21562; 21561;
  21561; 21560; 21560; 21559; 21559; 21558; 21558; 21557; 21556; 21556; 21555; 21555; 21554; 21554; 21553; 21553; 21552; 21552;
  21551; 21551; 21550; 21550; 21549; 21549; 21548; 21547; 21547; 21546; 21546; 21545; 21545; 21544; 21544; 21543; 21543; 21542;
  21542; 21541; 21541; 21540; 21540; 21539; 21538; 21538; 21537; 21537; 21536; 21536; 21535; 21535; 21534; 21534; 21533; 21533;
  21532; 21532; 21531; 21531; 21530; 21529; 21529; 21528; 21528; 21527; 21527; 21526; 21526; 21525; 21525; 21524; 21524; 21523;
  21523; 21522; 21522; 21521; 21521; 21520; 21519; 21519; 21518; 21518; 21517; 21517; 21516; 21516; 21515; 21515; 21514; 21514;
  21513; 21513; 21512; 21512; 21511; 21510; 21510; 21509; 21509; 21508; 21508; 21507; 21507; 21506; 21506; 21505; 21505; 21504;
  21504; 21503; 21503; 21502; 21501; 21501; 21500; 21500; 21499; 21499; 21498; 21498; 21497; 21497; 21496; 21496; 21495; 21495;
  21494; 21494; 21493; 21493; 21492; 21491; 21491; 21490; 21490; 21489; 21489; 21488; 21488; 21487; 21487; 21486; 21486; 21485;
  21485; 21484; 21484; 21483; 21482; 21482; 21481; 21481; 21480; 21480; 21479; 21479; 21478; 21478; 21477; 21477; 21476; 21476;
  21475; 21475; 21474; 21474; 21473; 21472; 21472; 21471; 21471; 21470; 21470; 21469; 21469; 21468; 21468; 21467; 21467; 21466;
  21466; 21465; 21465; 21464; 21464; 21463; 21462; 21462; 21461; 21461; 21460; 21460; 21459; 21459; 21458; 21458; 21457; 21457;
  21456; 21456; 21455; 21455; 21454; 21453; 21453; 21452; 21452; 21451; 21451; 21450; 21450; 21449; 21449; 21448; 21448; 21447;
  21447; 21446; 21446; 21445; 21445; 21444; 21443; 21443; 21442; 21442; 21441; 21441; 21440; 21440; 21439; 21439; 21438; 21438;
  21437; 21437; 21436; 21436; 21435; 21435; 21434; 21433; 21433; 21432; 21432; 21431; 21431; 21430; 21430; 21429; 21429; 21428;
  21428; 21427; 21427; 21426; 21426; 21425; 21425; 21424; 21423; 21423; 21422; 21422; 21421; 21421; 21420; 21420; 21419; 21419;
  21418; 21418; 21417; 21417; 21416; 21416; 21415; 21415; 21414; 21413; 21413; 21412; 21412; 21411; 21411; 21410; 21410; 21409;
  21409; 21408; 21408; 21407; 21407; 21406; 21406; 21405; 21405; 21404; 21403; 21403; 21402; 21402; 21401; 21401; 21400; 21400;
  21399; 21399; 21398; 21398; 21397; 21397; 21396; 21396; 21395; 21395; 21394; 21394; 21393; 21392; 21392; 21391; 21391; 21390;
  21390; 21389; 21389; 21388; 21388; 21387; 21387; 21386; 21386; 21385; 21385; 21384; 21384; 21383; 21382; 21382; 21381; 21381;
  21380; 21380; 21379; 21379; 21378; 21378; 21377; 21377; 21376; 21376; 21375; 21375; 21374; 21374; 21373; 21373; 21372; 21371;
  21371; 21370; 21370; 21369; 21369; 21368; 21368; 21367; 21367; 21366; 21366; 21365; 21365; 21364; 21364; 21363; 21363; 21362;
  21361; 21361; 21360; 21360; 21359; 21359; 21358; 21358; 21357; 21357; 21356; 21356; 21355; 21355; 21354; 21354; 21353; 21353;
  21352; 21352; 21351; 21350; 21350; 21349; 21349; 21348; 21348; 21347; 21347; 21346; 21346; 21345; 21345; 21344; 21344; 21343;
  21343; 21342; 21342; 21341; 21341; 21340; 21339; 21339; 21338; 21338; 21337; 21337; 21336; 21336; 21335; 21335; 21334; 21334;
  21333; 21333; 21332; 21332; 21331; 21331; 21330; 21330; 21329; 21328; 21328; 21327; 21327; 21326; 21326; 21325; 21325; 21324;
  21324; 21323; 21323; 21322; 21322; 21321; 21321; 21320; 21320; 21319; 21319; 21318; 21317; 21317; 21316; 21316; 21315; 21315;
  21314; 21314; 21313; 21313; 21312; 21312; 21311; 21311; 21310; 21310; 21309; 21309; 21308; 21308; 21307; 21306; 21306; 21305;
  21305; 21304; 21304; 21303; 21303; 21302; 21302; 21301; 21301; 21300; 21300; 21299; 21299; 21298; 21298; 21297; 21297; 21296;
  21295; 21295; 21294; 21294; 21293; 21293; 21292; 21292; 21291; 21291; 21290; 21290; 21289; 21289; 21288; 21288; 21287; 21287;
  21286; 21286; 21285; 21285; 21284; 21283; 21283; 21282; 21282; 21281; 21281; 21280; 21280; 21279; 21279; 21278; 21278; 21277;
  21277; 21276; 21276; 21275; 21275; 21274; 21274; 21273; 21272; 21272; 21271; 21271; 21270; 21270; 21269; 21269; 21268; 21268;
  21267; 21267; 21266; 21266; 21265; 21265; 21264; 21264; 21263; 21263; 21262; 21262; 21261; 21260; 21260; 21259; 21259; 21258;
  21258; 21257; 21257; 21256; 21256; 21255; 21255; 21254; 21254; 21253; 21253; 21252; 21252; 21251; 21251; 21250; 21250; 21249;
  21248; 21248; 21247; 21247; 21246; 21246; 21245; 21245; 21244; 21244; 21243; 21243; 21242; 21242; 21241; 21241; 21240; 21240;
  21239; 21239; 21238; 21238; 21237; 21236; 21236; 21235; 21235; 21234; 21234; 21233; 21233; 21232; 21232; 21231; 21231; 21230;
  21230; 21229; 21229; 21228; 21228; 21227; 21227; 21226; 21226; 21225; 21224; 21224; 21223; 21223; 21222; 21222; 21221; 21221;
  21220; 21220; 21219; 21219; 21218; 21218; 21217; 21217; 21216; 21216; 21215; 21215; 21214; 21214; 21213; 21212; 21212; 21211;
  21211; 21210; 21210; 21209; 21209; 21208; 21208; 21207; 21207; 21206; 21206; 21205; 21205; 21204; 21204; 21203; 21203; 21202;
  21202; 21201; 21201; 21200; 21199; 21199; 21198; 21198; 21197; 21197; 21196; 21196; 21195; 21195; 21194; 21194; 21193; 21193;
  21192; 21192; 21191; 21191; 21190; 21190; 21189; 21189; 21188; 21188; 21187; 21186; 21186; 21185; 21185; 21184; 21184; 21183;
  21183; 21182; 21182; 21181; 21181; 21180; 21180; 21179; 21179; 21178; 21178; 21177; 21177; 21176; 21176; 21175; 21174; 21174;
  21173; 21173; 21172; 21172; 21171; 21171; 21170; 21170; 21169; 21169; 21168; 21168; 21167; 21167; 21166; 21166; 21165; 21165;
  21164; 21164; 21163; 21163; 21162; 21162; 21161; 21160; 21160; 21159; 21159; 21158; 21158; 21157; 21157; 21156; 21156; 21155;
  21155; 21154; 21154; 21153; 21153; 21152; 21152; 21151; 21151; 21150; 21150; 21149; 21149; 21148; 21147; 21147; 21146; 21146].
Definition pow_lut_30 : list Z := [
  21145; 21145; 21144; 21144; 21143; 21143; 21142; 21142; 21141; 21141; 21140; 21140; 21139; 21139; 21138; 21138; 21137; 21137;
  21136; 21136; 21135; 21134; 21134; 21133; 21133; 21132; 21132; 21131; 21131; 21130; 21130; 21129; 21129; 21128; 21128; 21127;
  21127; 21126; 21126; 21125; 21125; 21124; 21124; 21123; 21123; 21122; 21122; 21121; 21120; 21120; 21119; 21119; 21118; 21118;
  21117; 21117; 21116; 21116; 21115; 21115; 21114; 21114; 21113; 21113; 21112; 21112; 21111; 21111; 21110; 21110; 21109; 21109;
  21108; 21108; 21107; 21106; 21106; 21105; 21105; 21104; 21104; 21103; 21103; 21102; 21102; 21101; 21101; 21100; 21100; 21099;
  21099; 21098; 21098; 21097; 21097; 21096; 21096; 21095; 21095; 21094; 21094; 21093; 21092; 21092; 21091; 21091; 21090; 21090;
  21089; 21089; 21088; 21088; 21087; 21087; 21086; 21086; 21085; 21085; 21084; 21084; 21083; 21083; 21082; 21082; 21081; 21081;
  21080; 21080; 21079; 21079; 21078; 21077; 21077; 21076; 21076; 21075; 21075; 21074; 21074; 21073; 21073; 21072; 21072; 21071;
  21071; 21070; 21070; 21069; 21069; 21068; 21068; 21067; 21067; 21066; 21066; 21065; 21065; 21064; 21064; 21063; 21062; 21062;
  21061; 21061; 21060; 21060; 21059; 21059; 21058; 21058; 21057; 21057; 21056; 21056; 21055; 21055; 21054; 21054; 21053; 21053;
  21052; 21052; 21051; 21051; 21050; 21050; 21049; 21049; 21048; 21047; 21047; 21046; 21046; 21045; 21045; 21044; 21044; 21043;
  21043; 21042; 21042; 21041; 21041; 21040; 21040; 21039; 21039; 21038; 21038; 21037; 21037; 21036; 21036; 21035; 21035; 21034;
  21034; 21033; 21032; 21032; 21031; 21031; 21030; 21030; 21029; 21029; 21028; 21028; 21027; 21027; 21026; 21026; 21025; 21025;
  21024; 21024; 21023; 21023; 21022; 21022; 21021; 21021; 21020; 21020; 21019; 21019; 21018; 21018; 21017; 21016; 21016; 21015;
  21015; 21014; 21014; 21013; 21013; 21012; 21012; 21011; 21011; 21010; 21010; 21009; 21009; 21008; 21008; 21007; 21007; 21006;
  21006; 21005; 21005; 21004; 21004; 21003; 21003; 21002; 21002; 21001; 21000; 21000; 20999; 20999; 20998; 20998; 20997; 20997;
  20996; 20996; 20995; 20995; 20994; 20994; 20993; 20993; 20992; 20992; 20991; 20991; 20990; 20990; 20989; 20989; 20988; 20988;
  20987; 20987; 20986; 20986; 20985; 20985; 20984; 20983; 20983; 20982; 20982; 20981; 20981; 20980; 20980; 20979; 20979; 20978;
  20978; 20977; 20977; 20976; 20976; 20975; 20975; 20974; 20974; 20973; 20973; 20972; 20972; 20971; 20971; 20970; 20970; 20969;
  20969; 20968; 20968; 20967; 20966; 20966; 20965; 20965; 20964; 20964; 20963; 20963; 20962; 20962; 20961; 20961; 20960; 20960;
  20959; 20959; 20958; 20958; 20957; 20957; 20956; 20956; 20955; 20955; 20954; 20954; 20953; 20953; 20952; 20952; 20951; 20951;
  20950; 20949; 20949; 20948; 20948; 20947; 20947; 20946; 20946; 20945; 20945; 20944; 20944; 20943; 20943; 20942; 20942; 20941;
  20941; 20940; 20940; 20939; 20939; 20938; 20938; 20937; 20937; 20936; 20936; 20935; 20935; 20934; 20934; 20933; 20933; 20932;
  20931; 20931; 20930; 20930; 20929; 20929; 20928; 20928; 20927; 20927; 20926; 20926; 20925; 20925; 20924; 20924; 20923; 20923;
  20922; 20922; 20921; 20921; 20920; 20920; 20919; 20919; 20918; 20918; 20917; 20917; 20916; 20916; 20915; 20915; 20914; 20914;
  20913; 20912; 20912; 20911; 20911; 20910; 20910; 20909; 20909; 20908; 20908; 20907; 20907; 20906; 20906; 20905; 20905; 20904;
  20904; 20903; 20903; 20902; 20902; 20901; 20901; 20900; 20900; 20899; 20899; 20898; 20898; 20897; 20897; 20896; 20896; 20895;
  20895; 20894; 20893; 20893; 20892; 20892; 20891; 20891; 20890; 20890; 20889; 20889; 20888; 20888; 20887; 20887; 20886; 20886;
  20885; 20885; 20884; 20884; 20883; 20883; 20882; 20882; 20881; 20881; 20880; 20880; 20879; 20879; 20878; 20878; 20877; 20877;
  20876; 20876; 20875; 20875; 20874; 20873; 20873; 20872; 20872; 20871; 20871; 20870; 20870; 20869; 20869; 20868; 20868; 20867;
  20867; 20866; 20866; 20865; 20865; 20864; 20864; 20863; 20863; 20862; 20862; 20861; 20861; 20860; 20860; 20859; 20859; 20858;
  20858; 20857; 20857; 20856; 20856; 20855; 20855; 20854; 20854; 20853; 20852; 20852; 20851; 20851; 20850; 20850; 20849; 20849;
  20848; 20848; 20847; 20847; 20846; 20846; 20845; 20845; 20844; 20844; 20843; 20843; 20842; 20842; 20841; 20841; 20840; 20840;
  20839; 20839; 20838; 20838; 20837; 20837; 20836; 20836; 20835; 20835; 20834; 20834; 20833; 20833; 20832; 20831; 20831; 20830;
  20830; 20829; 20829; 20828; 20828; 20827; 20827; 20826; 20826; 20825; 20825; 20824; 20824; 20823; 20823; 20822; 20822; 20821;
  20821; 20820; 20820; 20819; 20819; 20818; 20818; 20817; 20817; 20816; 20816; 20815; 20815; 20814; 20814; 20813; 20813; 20812;
  20812; 20811; 20811; 20810; 20810; 20809; 20808; 20808; 20807; 20807; 20806; 20806; 20805; 20805; 20804; 20804; 20803; 20803;
  20802; 20802; 20801; 20801; 20800; 20800; 20799; 20799; 20798; 20798; 20797; 20797; 20796; 20796; 20795; 20795; 20794; 20794;
  20793; 20793; 20792; 20792; 20791; 20791; 20790; 20790; 20789; 20789; 20788; 20788; 20787; 20787; 20786; 20786; 20785; 20784;
  20784; 20783; 20783; 20782; 20782; 20781; 20781; 20780; 20780; 20779; 20779; 20778; 20778; 20777; 20777; 20776; 20776; 20775;
  20775; 20774; 20774; 20773; 20773; 20772; 20772; 20771; 20771; 20770; 20770; 20769; 20769; 20768; 20768; 20767; 20767; 20766;
  20766; 20765; 20765; 20764; 20764; 20763; 20763; 20762; 20762; 20761; 20761; 20760; 20759; 20759; 20758; 20758; 20757; 20757;
  20756; 20756; 20755; 20755; 20754; 20754; 20753; 20753; 20752; 20752; 20751; 20751; 20750; 20750; 20749; 20749; 20748; 20748;
  20747; 20747; 20746; 20746; 20745; 20745; 20744; 20744; 20743; 20743; 20742; 20742; 20741; 20741; 20740; 20740; 20739; 20739;
  20738; 20738; 20737; 20737; 20736; 20736; 20735; 20735; 20734; 20733; 20733; 20732; 20732; 20731; 20731; 20730; 20730; 20729;
  20729; 20728; 20728; 20727; 20727; 20726; 20726; 20725; 20725; 20724; 20724; 20723; 20723; 20722; 20722; 20721; 20721; 20720;
  20720; 20719; 20719; 20718; 20718; 20717; 20717; 20716; 20716; 20715; 20715; 20714; 20714; 20713; 20713; 20712; 20712; 20711;
  20711; 20710; 20710; 20709; 20709; 20708; 20708; 20707; 20707; 20706; 20706; 20705; 20704; 20704; 20703; 20703; 20702; 20702;
  20701; 20701; 20700; 20700; 20699; 20699; 20698; 20698; 20697; 20697; 20696; 20696; 20695; 20695; 20694; 20694; 20693; 20693;
  20692; 20692; 20691; 20691; 20690; 20690; 20689; 20689; 20688; 20688; 20687; 20687; 20686; 20686; 20685; 20685; 20684; 20684].
Definition pow_lut_31 : list Z := [
  20683; 20683; 20682; 20682; 20681; 20681; 20680; 20680; 20679; 20679; 20678; 20678; 20677; 20677; 20676; 20676; 20675; 20675;
  20674; 20674; 20673; 20672; 20672; 20671; 20671; 20670; 20670; 20669; 20669; 20668; 20668; 20667; 20667; 20666; 20666; 20665;
  20665; 20664; 20664; 20663; 20663; 20662; 20662; 20661; 20661; 20660; 20660; 20659; 20659; 20658; 20658; 20657; 20657; 20656;
  20656; 20655; 20655; 20654; 20654; 20653; 20653; 20652; 20652; 20651; 20651; 20650; 20650; 20649; 20649; 20648; 20648; 20647;
  20647; 20646; 20646; 20645; 20645; 20644; 20644; 20643; 20643; 20642; 20642; 20641; 20641; 20640; 20640; 20639; 20638; 20638;
  20637; 20637; 20636; 20636; 20635; 20635; 20634; 20634; 20633; 20633; 20632; 20632; 20631; 20631; 20630; 20630; 20629; 20629;
  20628; 20628; 20627; 20627; 20626; 20626; 20625; 20625; 20624; 20624; 20623; 20623; 20622; 20622; 20621; 20621; 20620; 20620;
  20619; 20619; 20618; 20618; 20617; 20617; 20616; 20616; 20615; 20615; 20614; 20614; 20613; 20613; 20612; 20612; 20611; 20611;
  20610; 20610; 20609; 20609; 20608; 20608; 20607; 20607; 20606; 20606; 20605; 20605; 20604; 20604; 20603; 20603; 20602; 20602;
  20601; 20601; 20600; 20600; 20599; 20598; 20598; 20597; 20597; 20596; 20596; 20595; 20595; 20594; 20594; 20593; 20593; 20592;
  20592; 20591; 20591; 20590; 20590; 20589; 20589; 20588; 20588; 20587; 20587; 20586; 20586; 20585; 20585; 20584; 20584; 20583;
  20583; 20582; 20582; 20581; 20581; 20580; 20580; 20579; 20579; 20578; 20578; 20577; 20577; 20576; 20576; 20575; 20575; 20574;
  20574; 20573; 20573; 20572; 20572; 20571; 20571; 20570; 20570; 20569; 20569; 20568; 20568; 20567; 20567; 20566; 20566; 20565;
  20565; 20564; 20564; 20563; 20563; 20562; 20562; 20561; 20561; 20560; 20560; 20559; 20559; 20558; 20558; 20557; 20557; 20556;
  20556; 20555; 20555; 20554; 20554; 20553; 20553; 20552; 20552; 20551; 20550; 20550; 20549; 20549; 20548; 20548; 20547; 20547;
  20546; 20546; 20545; 20545; 20544; 20544; 20543; 20543; 20542; 20542; 20541; 20541; 20540; 20540; 20539; 20539; 20538; 20538;
  20537; 20537; 20536; 20536; 20535; 20535; 20534; 20534; 20533; 20533; 20532; 20532; 20531; 20531; 20530; 20530; 20529; 20529;
  20528; 20528; 20527; 20527; 20526; 20526; 20525; 20525; 20524; 20524; 20523; 20523; 20522; 20522; 20521; 20521; 20520; 20520;
  20519; 20519; 20518; 20518; 20517; 20517; 20516; 20516; 20515; 20515; 20514; 20514; 20513; 20513; 20512; 20512; 20511; 20511;
  20510; 20510; 20509; 20509; 20508; 20508; 20507; 20507; 20506; 20506; 20505; 20505; 20504; 20504; 20503; 20503; 20502; 20502;
  20501; 20501; 20500; 20500; 20499; 20499; 20498; 20498; 20497; 20497; 20496; 20496; 20495; 20495; 20494; 20494; 20493; 20493;
  20492; 20492; 20491; 20491; 20490; 20490; 20489; 20489; 20488; 20488; 20487; 20486; 20486; 20485; 20485; 20484; 20484; 20483;
  20483; 20482; 20482; 20481; 20481; 20480; 20480; 20479; 20479; 20478; 20478; 20477; 20477; 20476; 20476; 20475; 20475; 20474;
  20474; 20473; 20473; 20472; 20472; 20471; 20471; 20470; 20470; 20469; 20469; 20468; 20468; 20467; 20467; 20466; 20466; 20465;
  20465; 20464; 20464; 20463; 20463; 20462; 20462; 20461; 20461; 20460; 20460; 20459; 20459; 20458; 20458; 20457; 20457; 20456;
  20456; 20455; 20455; 20454; 20454; 20453; 20453; 20452; 20452; 20451; 20451; 20450; 20450; 20449; 20449; 20448; 20448; 20447;
  20447; 20446; 20446; 20445; 20445; 20444; 20444; 20443; 20443; 20442; 20442; 20441; 20441; 20440; 20440; 20439; 20439; 20438;
  20438; 20437; 20437; 20436; 20436; 20435; 20435; 20434; 20434; 20433; 20433; 20432; 20432; 20431; 20431; 20430; 20430; 20429;
  20429; 20428; 20428; 20427; 20427; 20426; 20426; 20425; 20425; 20424; 20424; 20423; 20423; 20422; 20422; 20421; 20421; 20420;
  20420; 20419; 20419; 20418; 20418; 20417; 20417; 20416; 20416; 20415; 20415; 20414; 20414; 20413; 20413; 20412; 20412; 20411;
  20411; 20410; 20410; 20409; 20409; 20408; 20408; 20407; 20407; 20406; 20406; 20405; 20405; 20404; 20404; 20403; 20403; 20402;
  20402; 20401; 20401; 20400; 20400; 20399; 20399; 20398; 20398; 20397; 20397; 20396; 20396; 20395; 20395; 20394; 20394; 20393;
  20393; 20392; 20392; 20391; 20391; 20390; 20390; 20389; 20389; 20388; 20388; 20387; 20387; 20386; 20386; 20385; 20385; 20384;
  20384; 20383; 20383; 20382; 20382; 20381; 20381; 20380; 20380; 20379; 20379; 20378; 20378; 20377; 20377; 20376; 20376; 20375;
  20375; 20374; 20374; 20373; 20373; 20372; 20372; 20371; 20371; 20370; 20370; 20369; 20369; 20368; 20368; 20367; 20367; 20366;
  20366; 20365; 20365; 20364; 20364; 20363; 20363; 20362; 20362; 20361; 20361; 20360; 20360; 20359; 20359; 20358; 20358; 20357;
  20357; 20356; 20356; 20355; 20355; 20354; 20354; 20353; 20353; 20352; 20352; 20351; 20351; 20350; 20350; 20349; 20349; 20348;
  20348; 20347; 20347; 20346; 20346; 20345; 20345; 20344; 20344; 20343; 20343; 20342; 20342; 20341; 20341; 20340; 20340; 20339;
  20339; 20338; 20338; 20337; 20337; 20336; 20336; 20335; 20335; 20334; 20334; 20333; 20333; 20332; 20332; 20331; 20331; 20330;
  20330; 20329; 20329; 20328; 20328; 20327; 20327; 20326; 20326; 20325; 20325; 20324; 20324; 20323; 20323; 20322; 20322; 20321;
  20321; 20320; 20320; 20319; 20319; 20318; 20318; 20317; 20317; 20316; 20316; 20315; 20315; 20314; 20314; 20313; 20313; 20312;
  20312; 20311; 20311; 20310; 20310; 20309; 20309; 20308; 20308; 20307; 20307; 20306; 20306; 20305; 20305; 20304; 20304; 20303;
  20303; 20302; 20302; 20301; 20301; 20300; 20300; 20299; 20299; 20298; 20298; 20297; 20297; 20296; 20296; 20295; 20295; 20294;
  20294; 20293; 20293; 20292; 20292; 20291; 20291; 20290; 20290; 20289; 20289; 20288; 20288; 20287; 20287; 20286; 20286; 20285;
  20285; 20284; 20284; 20283; 20283; 20282; 20282; 20281; 20281; 20280; 20280; 20279; 20279; 20278; 20278; 20277; 20277; 20276;
  20276; 20275; 20275; 20274; 20274; 20273; 20273; 20272; 20272; 20271; 20271; 20270; 20270; 20269; 20269; 20268; 20268; 20267;
  20267; 20266; 20266; 20265; 20265; 20264; 20264; 20263; 20263; 20262; 20262; 20261; 20261; 20260; 20260; 20259; 20259; 20258;
  20258; 20257; 20257; 20256; 20256; 20255; 20255; 20254; 20254; 20253; 20253; 20252; 20252; 20251; 20251; 20250; 20250; 20249;
  20249; 20248; 20248; 20247; 20247; 20246; 20246; 20245; 20245; 20244; 20244; 20243; 20243; 20242; 20242; 20241; 20241; 20240;
  20240; 20239; 20239; 20238; 20238; 20237; 20237; 20236; 20236; 20235; 20235; 20234; 20234; 20233; 20233; 20233; 20232; 20232].
Definition pow_lut_32 : list Z := [
  20231; 20231; 20230; 20230; 20229; 20229; 20228; 20228; 20227; 20227; 20226; 20226; 20225; 20225; 20224; 20224; 20223; 20223;
  20222; 20222; 20221; 20221; 20220; 20220; 20219; 20219; 20218; 20218; 20217; 20217; 20216; 20216; 20215; 20215; 20214; 20214;
  20213; 20213; 20212; 20212; 20211; 20211; 20210; 20210; 20209; 20209; 20208; 20208; 20207; 20207; 20206; 20206; 20205; 20205;
  20204; 20204; 20203; 20203; 20202; 20202; 20201; 20201; 20200; 20200; 20199; 20199; 20198; 20198; 20197; 20197; 20196; 20196;
  20195; 20195; 20194; 20194; 20193; 20193; 20192; 20192; 20191; 20191; 20190; 20190; 20189; 20189; 20188; 20188; 20187; 20187;
  20186; 20186; 20185; 20185; 20184; 20184; 20183; 20183; 20182; 20182; 20181; 20181; 20180; 20180; 20179; 20179; 20178; 20178;
  20177; 20177; 20176; 20176; 20175; 20175; 20174; 20174; 20173; 20173; 20172; 20172; 20171; 20171; 20170; 20170; 20169; 20169;
  20169; 20168; 20168; 20167; 20167; 20166; 20166; 20165; 20165; 20164; 20164; 20163; 20163; 20162; 20162; 20161; 20161; 20160;
  20160; 20159; 20159; 20158; 20158; 20157; 20157; 20156; 20156; 20155; 20155; 20154; 20154; 20153; 20153; 20152; 20152; 20151;
  20151; 20150; 20150; 20149; 20149; 20148; 20148; 20147; 20147; 20146; 20146; 20145; 20145; 20144; 20144; 20143; 20143; 20142;
  20142; 20141; 20141; 20140; 20140; 20139; 20139; 20138; 20138; 20137; 20137; 20136; 20136; 20135; 20135; 20134; 20134; 20133;
  20133; 20132; 20132; 20131; 20131; 20130; 20130; 20129; 20129; 20128; 20128; 20127; 20127; 20126; 20126; 20125; 20125; 20124;
  20124; 20123; 20123; 20122; 20122; 20122; 20121; 20121; 20120; 20120; 20119; 20119; 20118; 20118; 20117; 20117; 20116; 20116;
  20115; 20115; 20114; 20114; 20113; 20113; 20112; 20112; 20111; 20111; 20110; 20110; 20109; 20109; 20108; 20108; 20107; 20107;
  20106; 20106; 20105; 20105; 20104; 20104; 20103; 20103; 20102; 20102; 20101; 20101; 20100; 20100; 20099; 20099; 20098; 20098;
  20097; 20097; 20096; 20096; 20095; 20095; 20094; 20094; 20093; 20093; 20092; 20092; 20091; 20091; 20090; 20090; 20089; 20089;
  20088; 20088; 20087; 20087; 20086; 20086; 20085; 20085; 20084; 20084; 20083; 20083; 20083; 20082; 20082; 20081; 20081; 20080;
  20080; 20079; 20079; 20078; 20078; 20077; 20077; 20076; 20076; 20075; 20075; 20074; 20074; 20073; 20073; 20072; 20072; 20071;
  20071; 20070; 20070; 20069; 20069; 20068; 20068; 20067; 20067; 20066; 20066; 20065; 20065; 20064; 20064; 20063; 20063; 20062;
  20062; 20061; 20061; 20060; 20060; 20059; 20059; 20058; 20058; 20057; 20057; 20056; 20056; 20055; 20055; 20054; 20054; 20053;
  20053; 20052; 20052; 20051; 20051; 20050; 20050; 20049; 20049; 20049; 20048; 20048; 20047; 20047; 20046; 20046; 20045; 20045;
  20044; 20044; 20043; 20043; 20042; 20042; 20041; 20041; 20040; 20040; 20039; 20039; 20038; 20038; 20037; 20037; 20036; 20036;
  20035; 20035; 20034; 20034; 20033; 20033; 20032; 20032; 20031; 20031; 20030; 20030; 20029; 20029; 20028; 20028; 20027; 20027;
  20026; 20026; 20025; 20025; 20024; 20024; 20023; 20023; 20022; 20022; 20021; 20021; 20020; 20020; 20019; 20019; 20018; 20018;
  20018; 20017; 20017; 20016; 20016; 20015; 20015; 20014; 20014; 20013; 20013; 20012; 20012; 20011; 20011; 20010; 20010; 20009;
  20009; 20008; 20008; 20007; 20007; 20006; 20006; 20005; 20005; 20004; 20004; 20003; 20003; 20002; 20002; 20001; 20001; 20000;
  20000; 19999; 19999; 19998; 19998; 19997; 19997; 19996; 19996; 19995; 19995; 19994; 19994; 19993; 19993; 19992; 19992; 19991;
  19991; 19990; 19990; 19990; 19989; 19989; 19988; 19988; 19987; 19987; 19986; 19986; 19985; 19985; 19984; 19984; 19983; 19983;
  19982; 19982; 19981; 19981; 19980; 19980; 19979; 19979; 19978; 19978; 19977; 19977; 19976; 19976; 19975; 19975; 19974; 19974;
  19973; 19973; 19972; 19972; 19971; 19971; 19970; 19970; 19969; 19969; 19968; 19968; 19967; 19967; 19966; 19966; 19965; 19965;
  19964; 19964; 19964; 19963; 19963; 19962; 19962; 19961; 19961; 19960; 19960; 19959; 19959; 19958; 19958; 19957; 19957; 19956;
  19956; 19955; 19955; 19954; 19954; 19953; 19953; 19952; 19952; 19951; 19951; 19950; 19950; 19949; 19949; 19948; 19948; 19947;
  19947; 19946; 19946; 19945; 19945; 19944; 19944; 19943; 19943; 19942; 19942; 19941; 19941; 19940; 19940; 19939; 19939; 19939;
  19938; 19938; 19937; 19937; 19936; 19936; 19935; 19935; 19934; 19934; 19933; 19933; 19932; 19932; 19931; 19931; 19930; 19930;
  19929; 19929; 19928; 19928; 19927; 19927; 19926; 19926; 19925; 19925; 19924; 19924; 19923; 19923; 19922; 19922; 19921; 19921;
  19920; 19920; 19919; 19919; 19918; 19918; 19917; 19917; 19916; 19916; 19916; 19915; 19915; 19914; 19914; 19913; 19913; 19912;
  19912; 19911; 19911; 19910; 19910; 19909; 19909; 19908; 19908; 19907; 19907; 19906; 19906; 19905; 19905; 19904; 19904; 19903;
  19903; 19902; 19902; 19901; 19901; 19900; 19900; 19899; 19899; 19898; 19898; 19897; 19897; 19896; 19896; 19895; 19895; 19894;
  19894; 19894; 19893; 19893; 19892; 19892; 19891; 19891; 19890; 19890; 19889; 19889; 19888; 19888; 19887; 19887; 19886; 19886;
  19885; 19885; 19884; 19884; 19883; 19883; 19882; 19882; 19881; 19881; 19880; 19880; 19879; 19879; 19878; 19878; 19877; 19877;
  19876; 19876; 19875; 19875; 19874; 19874; 19873; 19873; 19873; 19872; 19872; 19871; 19871; 19870; 19870; 19869; 19869; 19868;
  19868; 19867; 19867; 19866; 19866; 19865; 19865; 19864; 19864; 19863; 19863; 19862; 19862; 19861; 19861; 19860; 19860; 19859;
  19859; 19858; 19858; 19857; 19857; 19856; 19856; 19855; 19855; 19854; 19854; 19853; 19853; 19853; 19852; 19852; 19851; 19851;
  19850; 19850; 19849; 19849; 19848; 19848; 19847; 19847; 19846; 19846; 19845; 19845; 19844; 19844; 19843; 19843; 19842; 19842;
  19841; 19841; 19840; 19840; 19839; 19839; 19838; 19838; 19837; 19837; 19836; 19836; 19835; 19835; 19834; 19834; 19834; 19833;
  19833; 19832; 19832; 19831; 19831; 19830; 19830; 19829; 19829; 19828; 19828; 19827; 19827; 19826; 19826; 19825; 19825; 19824;
  19824; 19823; 19823; 19822; 19822; 19821; 19821; 19820; 19820; 19819; 19819; 19818; 19818; 19817; 19817; 19816; 19816; 19816;
  19815; 19815; 19814; 19814; 19813; 19813; 19812; 19812; 19811; 19811; 19810; 19810; 19809; 19809; 19808; 19808; 19807; 19807;
  19806; 19806; 19805; 19805; 19804; 19804; 19803; 19803; 19802; 19802; 19801; 19801; 19800; 19800; 19799; 19799; 19798; 19798;
  19798; 19797; 19797; 19796; 19796; 19795; 19795; 19794; 19794; 19793; 19793; 19792; 19792; 19791; 19791; 19790; 19790; 19789].
Definition pow_lut_33 : list Z := [
  19789; 19788; 19788; 19787; 19787; 19786; 19786; 19785; 19785; 19784; 19784; 19783; 19783; 19782; 19782; 19781; 19781; 19780;
  19780; 19780; 19779; 19779; 19778; 19778; 19777; 19777; 19776; 19776; 19775; 19775; 19774; 19774; 19773; 19773; 19772; 19772;
  19771; 19771; 19770; 19770; 19769; 19769; 19768; 19768; 19767; 19767; 19766; 19766; 19765; 19765; 19764; 19764; 19763; 19763;
  19763; 19762; 19762; 19761; 19761; 19760; 19760; 19759; 19759; 19758; 19758; 19757; 19757; 19756; 19756; 19755; 19755; 19754;
  19754; 19753; 19753; 19752; 19752; 19751; 19751; 19750; 19750; 19749; 19749; 19748; 19748; 19747; 19747; 19747; 19746; 19746;
  19745; 19745; 19744; 19744; 19743; 19743; 19742; 19742; 19741; 19741; 19740; 19740; 19739; 19739; 19738; 19738; 19737; 19737;
  19736; 19736; 19735; 19735; 19734; 19734; 19733; 19733; 19732; 19732; 19731; 19731; 19731; 19730; 19730; 19729; 19729; 19728;
  19728; 19727; 19727; 19726; 19726; 19725; 19725; 19724; 19724; 19723; 19723; 19722; 19722; 19721; 19721; 19720; 19720; 19719;
  19719; 19718; 19718; 19717; 19717; 19716; 19716; 19716; 19715; 19715; 19714; 19714; 19713; 19713; 19712; 19712; 19711; 19711;
  19710; 19710; 19709; 19709; 19708; 19708; 19707; 19707; 19706; 19706; 19705; 19705; 19704; 19704; 19703; 19703; 19702; 19702;
  19701; 19701; 19701; 19700; 19700; 19699; 19699; 19698; 19698; 19697; 19697; 19696; 19696; 19695; 19695; 19694; 19694; 19693;
  19693; 19692; 19692; 19691; 19691; 19690; 19690; 19689; 19689; 19688; 19688; 19687; 19687; 19686; 19686; 19686; 19685; 19685;
  19684; 19684; 19683; 19683; 19682; 19682; 19681; 19681; 19680; 19680; 19679; 19679; 19678; 19678; 19677; 19677; 19676; 19676;
  19675; 19675; 19674; 19674; 19673; 19673; 19672; 19672; 19671; 19671; 19671; 19670; 19670; 19669; 19669; 19668; 19668; 19667;
  19667; 19666; 19666; 19665; 19665; 19664; 19664; 19663; 19663; 19662; 19662; 19661; 19661; 19660; 19660; 19659; 19659; 19658;
  19658; 19657; 19657; 19657; 19656; 19656; 19655; 19655; 19654; 19654; 19653; 19653; 19652; 19652; 19651; 19651; 19650; 19650;
  19649; 19649; 19648; 19648; 19647; 19647; 19646; 19646; 19645; 19645; 19644; 19644; 19643; 19643; 19643; 19642; 19642; 19641;
  19641; 19640; 19640; 19639; 19639; 19638; 19638; 19637; 19637; 19636; 19636; 19635; 19635; 19634; 19634; 19633; 19633; 19632;
  19632; 19631; 19631; 19630; 19630; 19630; 19629; 19629; 19628; 19628; 19627; 19627; 19626; 19626; 19625; 19625; 19624; 19624;
  19623; 19623; 19622; 19622; 19621; 19621; 19620; 19620; 19619; 19619; 19618; 19618; 19617; 19617; 19616; 19616; 19616; 19615;
  19615; 19614; 19614; 19613; 19613; 19612; 19612; 19611; 19611; 19610; 19610; 19609; 19609; 19608; 19608; 19607; 19607; 19606;
  19606; 19605; 19605; 19604; 19604; 19603; 19603; 19603; 19602; 19602; 19601; 19601; 19600; 19600; 19599; 19599; 19598; 19598;
  19597; 19597; 19596; 19596; 19595; 19595; 19594; 19594; 19593; 19593; 19592; 19592; 19591; 19591; 19590; 19590; 19590; 19589;
  19589; 19588; 19588; 19587; 19587; 19586; 19586; 19585; 19585; 19584; 19584; 19583; 19583; 19582; 19582; 19581; 19581; 19580;
  19580; 19579; 19579; 19578; 19578; 19578; 19577; 19577; 19576; 19576; 19575; 19575; 19574; 19574; 19573; 19573; 19572; 19572;
  19571; 19571; 19570; 19570; 19569; 19569; 19568; 19568; 19567; 19567; 19566; 19566; 19565; 19565; 19565; 19564; 19564; 19563;
  19563; 19562; 19562; 19561; 19561; 19560; 19560; 19559; 19559; 19558; 19558; 19557; 19557; 19556; 19556; 19555; 19555; 19554;
  19554; 19553; 19553; 19553; 19552; 19552; 19551; 19551; 19550; 19550; 19549; 19549; 19548; 19548; 19547; 19547; 19546; 19546;
  19545; 19545; 19544; 19544; 19543; 19543; 19542; 19542; 19541; 19541; 19541; 19540; 19540; 19539; 19539; 19538; 19538; 19537;
  19537; 19536; 19536; 19535; 19535; 19534; 19534; 19533; 19533; 19532; 19532; 19531; 19531; 19530; 19530; 19529; 19529; 19529;
  19528; 19528; 19527; 19527; 19526; 19526; 19525; 19525; 19524; 19524; 19523; 19523; 19522; 19522; 19521; 19521; 19520; 19520;
  19519; 19519; 19518; 19518; 19518; 19517; 19517; 19516; 19516; 19515; 19515; 19514; 19514; 19513; 19513; 19512; 19512; 19511;
  19511; 19510; 19510; 19509; 19509; 19508; 19508; 19507; 19507; 19506; 19506; 19506; 19505; 19505; 19504; 19504; 19503; 19503;
  19502; 19502; 19501; 19501; 19500; 19500; 19499; 19499; 19498; 19498; 19497; 19497; 19496; 19496; 19495; 19495; 19495; 19494;
  19494; 19493; 19493; 19492; 19492; 19491; 19491; 19490; 19490; 19489; 19489; 19488; 19488; 19487; 19487; 19486; 19486; 19485;
  19485; 19484; 19484; 19484; 19483; 19483; 19482; 19482; 19481; 19481; 19480; 19480; 19479; 19479; 19478; 19478; 19477; 19477;
  19476; 19476; 19475; 19475; 19474; 19474; 19473; 19473; 19473; 19472; 19472; 19471; 19471; 19470; 19470; 19469; 19469; 19468;
  19468; 19467; 19467; 19466; 19466; 19465; 19465; 19464; 19464; 19463; 19463; 19462; 19462; 19462; 19461; 19461; 19460; 19460;
  19459; 19459; 19458; 19458; 19457; 19457; 19456; 19456; 19455; 19455; 19454; 19454; 19453; 19453; 19452; 19452; 19451; 19451;
  19451; 19450; 19450; 19449; 19449; 19448; 19448; 19447; 19447; 19446; 19446; 19445; 19445; 19444; 19444; 19443; 19443; 19442;
  19442; 19441; 19441; 19440; 19440; 19440; 19439; 19439; 19438; 19438; 19437; 19437; 19436; 19436; 19435; 19435; 19434; 19434;
  19433; 19433; 19432; 19432; 19431; 19431; 19430; 19430; 19430; 19429; 19429; 19428; 19428; 19427; 19427; 19426; 19426; 19425;
  19425; 19424; 19424; 19423; 19423; 19422; 19422; 19421; 19421; 19420; 19420; 19419; 19419; 19419; 19418; 19418; 19417; 19417;
  19416; 19416; 19415; 19415; 19414; 19414; 19413; 19413; 19412; 19412; 19411; 19411; 19410; 19410; 19409; 19409; 19409; 19408;
  19408; 19407; 19407; 19406; 19406; 19405; 19405; 19404; 19404; 19403; 19403; 19402; 19402; 19401; 19401; 19400; 19400; 19399;
  19399; 19399; 19398; 19398; 19397; 19397; 19396; 19396; 19395; 19395; 19394; 19394; 19393; 19393; 19392; 19392; 19391; 19391;
  19390; 19390; 19389; 19389; 19389; 19388; 19388; 19387; 19387; 19386; 19386; 19385; 19385; 19384; 19384; 19383; 19383; 19382;
  19382; 19381; 19381; 19380; 19380; 19379; 19379; 19379; 19378; 19378; 19377; 19377; 19376; 19376; 19375; 19375; 19374; 19374;
  19373; 19373; 19372; 19372; 19371; 19371; 19370; 19370; 19369; 19369; 19369; 19368; 19368; 19367; 19367; 19366; 19366; 19365;
  19365; 19364; 19364; 19363; 19363; 19362; 19362; 19361; 19361; 19360; 19360; 19359; 19359; 19359; 19358; 19358; 19357; 19357].
Definition pow_lut_34 : list Z := [
  19356; 19356; 19355; 19355; 19354; 19354; 19353; 19353; 19352; 19352; 19351; 19351; 19350; 19350; 19350; 19349; 19349; 19348;
  19348; 19347; 19347; 19346; 19346; 19345; 19345; 19344; 19344; 19343; 19343; 19342; 19342; 19341; 19341; 19340; 19340; 19340;
  19339; 19339; 19338; 19338; 19337; 19337; 19336; 19336; 19335; 19335; 19334; 19334; 19333; 19333; 19332; 19332; 19331; 19331;
  19331; 19330; 19330; 19329; 19329; 19328; 19328; 19327; 19327; 19326; 19326; 19325; 19325; 19324; 19324; 19323; 19323; 19322;
  19322; 19321; 19321; 19321; 19320; 19320; 19319; 19319; 19318; 19318; 19317; 19317; 19316; 19316; 19315; 19315; 19314; 19314;
  19313; 19313; 19312; 19312; 19312; 19311; 19311; 19310; 19310; 19309; 19309; 19308; 19308; 19307; 19307; 19306; 19306; 19305;
  19305; 19304; 19304; 19303; 19303; 19303; 19302; 19302; 19301; 19301; 19300; 19300; 19299; 19299; 19298; 19298; 19297; 19297;
  19296; 19296; 19295; 19295; 19294; 19294; 19294; 19293; 19293; 19292; 19292; 19291; 19291; 19290; 19290; 19289; 19289; 19288;
  19288; 19287; 19287; 19286; 19286; 19285; 19285; 19285; 19284; 19284; 19283; 19283; 19282; 19282; 19281; 19281; 19280; 19280;
  19279; 19279; 19278; 19278; 19277; 19277; 19276; 19276; 19276; 19275; 19275; 19274; 19274; 19273; 19273; 19272; 19272; 19271;
  19271; 19270; 19270; 19269; 19269; 19268; 19268; 19267; 19267; 19267; 19266; 19266; 19265; 19265; 19264; 19264; 19263; 19263;
  19262; 19262; 19261; 19261; 19260; 19260; 19259; 19259; 19258; 19258; 19258; 19257; 19257; 19256; 19256; 19255; 19255; 19254;
  19254; 19253; 19253; 19252; 19252; 19251; 19251; 19250; 19250; 19250; 19249; 19249; 19248; 19248; 19247; 19247; 19246; 19246;
  19245; 19245; 19244; 19244; 19243; 19243; 19242; 19242; 19241; 19241; 19241; 19240; 19240; 19239; 19239; 19238; 19238; 19237;
  19237; 19236; 19236; 19235; 19235; 19234; 19234; 19233; 19233; 19232; 19232; 19232; 19231; 19231; 19230; 19230; 19229; 19229;
  19228; 19228; 19227; 19227; 19226; 19226; 19225; 19225; 19224; 19224; 19224; 19223; 19223; 19222; 19222; 19221; 19221; 19220;
  19220; 19219; 19219; 19218; 19218; 19217; 19217; 19216; 19216; 19215; 19215; 19215; 19214; 19214; 19213; 19213; 19212; 19212;
  19211; 19211; 19210; 19210; 19209; 19209; 19208; 19208; 19207; 19207; 19207; 19206; 19206; 19205; 19205; 19204; 19204; 19203;
  19203; 19202; 19202; 19201; 19201; 19200; 19200; 19199; 19199; 19199; 19198; 19198; 19197; 19197; 19196; 19196; 19195; 19195;
  19194; 19194; 19193; 19193; 19192; 19192; 19191; 19191; 19191; 19190; 19190; 19189; 19189; 19188; 19188; 19187; 19187; 19186;
  19186; 19185; 19185; 19184; 19184; 19183; 19183; 19182; 19182; 19182; 19181; 19181; 19180; 19180; 19179; 19179; 19178; 19178;
  19177; 19177; 19176; 19176; 19175; 19175; 19174; 19174; 19174; 19173; 19173; 19172; 19172; 19171; 19171; 19170; 19170; 19169;
  19169; 19168; 19168; 19167; 19167; 19166; 19166; 19166; 19165; 19165; 19164; 19164; 19163; 19163; 19162; 19162; 19161; 19161;
  19160; 19160; 19159; 19159; 19158; 19158; 19158; 19157; 19157; 19156; 19156; 19155; 19155; 19154; 19154; 19153; 19153; 19152;
  19152; 19151; 19151; 19150; 19150; 19150; 19149; 19149; 19148; 19148; 19147; 19147; 19146; 19146; 19145; 19145; 19144; 19144;
  19143; 19143; 19142; 19142; 19142; 19141; 19141; 19140; 19140; 19139; 19139; 19138; 19138; 19137; 19137; 19136; 19136; 19135;
  19135; 19134; 19134; 19134; 19133; 19133; 19132; 19132; 19131; 19131; 19130; 19130; 19129; 19129; 19128; 19128; 19127; 19127;
  19127; 19126; 19126; 19125; 19125; 19124; 19124; 19123; 19123; 19122; 19122; 19121; 19121; 19120; 19120; 19119; 19119; 19119;
  19118; 19118; 19117; 19117; 19116; 19116; 19115; 19115; 19114; 19114; 19113; 19113; 19112; 19112; 19111; 19111; 19111; 19110;
  19110; 19109; 19109; 19108; 19108; 19107; 19107; 19106; 19106; 19105; 19105; 19104; 19104; 19104; 19103; 19103; 19102; 19102;
  19101; 19101; 19100; 19100; 19099; 19099; 19098; 19098; 19097; 19097; 19096; 19096; 19096; 19095; 19095; 19094; 19094; 19093;
  19093; 19092; 19092; 19091; 19091; 19090; 19090; 19089; 19089; 19089; 19088; 19088; 19087; 19087; 19086; 19086; 19085; 19085;
  19084; 19084; 19083; 19083; 19082; 19082; 19081; 19081; 19081; 19080; 19080; 19079; 19079; 19078; 19078; 19077; 19077; 19076;
  19076; 19075; 19075; 19074; 19074; 19074; 19073; 19073; 19072; 19072; 19071; 19071; 19070; 19070; 19069; 19069; 19068; 19068;
  19067; 19067; 19066; 19066; 19066; 19065; 19065; 19064; 19064; 19063; 19063; 19062; 19062; 19061; 19061; 19060; 19060; 19059;
  19059; 19059; 19058; 19058; 19057; 19057; 19056; 19056; 19055; 19055; 19054; 19054; 19053; 19053; 19052; 19052; 19052; 19051;
  19051; 19050; 19050; 19049; 19049; 19048; 19048; 19047; 19047; 19046; 19046; 19045; 19045; 19044; 19044; 19044; 19043; 19043;
  19042; 19042; 19041; 19041; 19040; 19040; 19039; 19039; 19038; 19038; 19037; 19037; 19037; 19036; 19036; 19035; 19035; 19034;
  19034; 19033; 19033; 19032; 19032; 19031; 19031; 19030; 19030; 19030; 19029; 19029; 19028; 19028; 19027; 19027; 19026; 19026;
  19025; 19025; 19024; 19024; 19023; 19023; 19023; 19022; 19022; 19021; 19021; 19020; 19020; 19019; 19019; 19018; 19018; 19017;
  19017; 19016; 19016; 19016; 19015; 19015; 19014; 19014; 19013; 19013; 19012; 19012; 19011; 19011; 19010; 19010; 19009; 19009;
  19009; 19008; 19008; 19007; 19007; 19006; 19006; 19005; 19005; 19004; 19004; 19003; 19003; 19002; 19002; 19002; 19001; 19001;
  19000; 19000; 18999; 18999; 18998; 18998; 18997; 18997; 18996; 18996; 18995; 18995; 18995; 18994; 18994; 18993; 18993; 18992;
  18992; 18991; 18991; 18990; 18990; 18989; 18989; 18988; 18988; 18988; 18987; 18987; 18986; 18986; 18985; 18985; 18984; 18984;
  18983; 18983; 18982; 18982; 18981; 18981; 18981; 18980; 18980; 18979; 18979; 18978; 18978; 18977; 18977; 18976; 18976; 18975;
  18975; 18974; 18974; 18974; 18973; 18973; 18972; 18972; 18971; 18971; 18970; 18970; 18969; 18969; 18968; 18968; 18967; 18967;
  18967; 18966; 18966; 18965; 18965; 18964; 18964; 18963; 18963; 18962; 18962; 18961; 18961; 18960; 18960; 18960; 18959; 18959;
  18958; 18958; 18957; 18957; 18956; 18956; 18955; 18955; 18954; 18954; 18954; 18953; 18953; 18952; 18952; 18951; 18951; 18950;
  18950; 18949; 18949; 18948; 18948; 18947; 18947; 18947; 18946; 18946; 18945; 18945; 18944; 18944; 18943; 18943; 18942; 18942;
  18941; 18941; 18940; 18940; 18940; 18939; 18939; 18938; 18938; 18937; 18937; 18936; 18936; 18935; 18935; 18934; 18934; 18933].
Definition pow_lut_35 : list Z := [
  18933; 18933; 18932; 18932; 18931; 18931; 18930; 18930; 18929; 18929; 18928; 18928; 18927; 18927; 18927; 18926; 18926; 18925;
  18925; 18924; 18924; 18923; 18923; 18922; 18922; 18921; 18921; 18920; 18920; 18920; 18919; 18919; 18918; 18918; 18917; 18917;
  18916; 18916; 18915; 18915; 18914; 18914; 18914; 18913; 18913; 18912; 18912; 18911; 18911; 18910; 18910; 18909; 18909; 18908;
  18908; 18907; 18907; 18907; 18906; 18906; 18905; 18905; 18904; 18904; 18903; 18903; 18902; 18902; 18901; 18901; 18901; 18900;
  18900; 18899; 18899; 18898; 18898; 18897; 18897; 18896; 18896; 18895; 18895; 18894; 18894; 18894; 18893; 18893; 18892; 18892;
  18891; 18891; 18890; 18890; 18889; 18889; 18888; 18888; 18888; 18887; 18887; 18886; 18886; 18885; 18885; 18884; 18884; 18883;
  18883; 18882; 18882; 18881; 18881; 18881; 18880; 18880; 18879; 18879; 18878; 18878; 18877; 18877; 18876; 18876; 18875; 18875;
  18875; 18874; 18874; 18873; 18873; 18872; 18872; 18871; 18871; 18870; 18870; 18869; 18869; 18869; 18868; 18868; 18867; 18867;
  18866; 18866; 18865; 18865; 18864; 18864; 18863; 18863; 18862; 18862; 18862; 18861; 18861; 18860; 18860; 18859; 18859; 18858;
  18858; 18857; 18857; 18856; 18856; 18856; 18855; 18855; 18854; 18854; 18853; 18853; 18852; 18852; 18851; 18851; 18850; 18850;
  18850; 18849; 18849; 18848; 18848; 18847; 18847; 18846; 18846; 18845; 18845; 18844; 18844; 18844; 18843; 18843; 18842; 18842;
  18841; 18841; 18840; 18840; 18839; 18839; 18838; 18838; 18837; 18837; 18837; 18836; 18836; 18835; 18835; 18834; 18834; 18833;
  18833; 18832; 18832; 18831; 18831; 18831; 18830; 18830; 18829; 18829; 18828; 18828; 18827; 18827; 18826; 18826; 18825; 18825;
  18825; 18824; 18824; 18823; 18823; 18822; 18822; 18821; 18821; 18820; 18820; 18819; 18819; 18819; 18818; 18818; 18817; 18817;
  18816; 18816; 18815; 18815; 18814; 18814; 18813; 18813; 18813; 18812; 18812; 18811; 18811; 18810; 18810; 18809; 18809; 18808;
  18808; 18807; 18807; 18807; 18806; 18806; 18805; 18805; 18804; 18804; 18803; 18803; 18802; 18802; 18801; 18801; 18801; 18800;
  18800; 18799; 18799; 18798; 18798; 18797; 18797; 18796; 18796; 18795; 18795; 18795; 18794; 18794; 18793; 18793; 18792; 18792;
  18791; 18791; 18790; 18790; 18789; 18789; 18789; 18788; 18788; 18787; 18787; 18786; 18786; 18785; 18785; 18784; 18784; 18783;
  18783; 18783; 18782; 18782; 18781; 18781; 18780; 18780; 18779; 18779; 18778; 18778; 18777; 18777; 18777; 18776; 18776; 18775;
  18775; 18774; 18774; 18773; 18773; 18772; 18772; 18771; 18771; 18771; 18770; 18770; 18769; 18769; 18768; 18768; 18767; 18767;
  18766; 18766; 18765; 18765; 18765; 18764; 18764; 18763; 18763; 18762; 18762; 18761; 18761; 18760; 18760; 18759; 18759; 18759;
  18758; 18758; 18757; 18757; 18756; 18756; 18755; 18755; 18754; 18754; 18753; 18753; 18753; 18752; 18752; 18751; 18751; 18750;
  18750; 18749; 18749; 18748; 18748; 18747; 18747; 18747; 18746; 18746; 18745; 18745; 18744; 18744; 18743; 18743; 18742; 18742;
  18742; 18741; 18741; 18740; 18740; 18739; 18739; 18738; 18738; 18737; 18737; 18736; 18736; 18736; 18735; 18735; 18734; 18734;
  18733; 18733; 18732; 18732; 18731; 18731; 18730; 18730; 18730; 18729; 18729; 18728; 18728; 18727; 18727; 18726; 18726; 18725;
  18725; 18724; 18724; 18724; 18723; 18723; 18722; 18722; 18721; 18721; 18720; 18720; 18719; 18719; 18719; 18718; 18718; 18717;
  18717; 18716; 18716; 18715; 18715; 18714; 18714; 18713; 18713; 18713; 18712; 18712; 18711; 18711; 18710; 18710; 18709; 18709;
  18708; 18708; 18707; 18707; 18707; 18706; 18706; 18705; 18705; 18704; 18704; 18703; 18703; 18702; 18702; 18702; 18701; 18701;
  18700; 18700; 18699; 18699; 18698; 18698; 18697; 18697; 18696; 18696; 18696; 18695; 18695; 18694; 18694; 18693; 18693; 18692;
  18692; 18691; 18691; 18690; 18690; 18690; 18689; 18689; 18688; 18688; 18687; 18687; 18686; 18686; 18685; 18685; 18685; 18684;
  18684; 18683; 18683; 18682; 18682; 18681; 18681; 18680; 18680; 18679; 18679; 18679; 18678; 18678; 18677; 18677; 18676; 18676;
  18675; 18675; 18674; 18674; 18674; 18673; 18673; 18672; 18672; 18671; 18671; 18670; 18670; 18669; 18669; 18668; 18668; 18668;
  18667; 18667; 18666; 18666; 18665; 18665; 18664; 18664; 18663; 18663; 18663; 18662; 18662; 18661; 18661; 18660; 18660; 18659;
  18659; 18658; 18658; 18657; 18657; 18657; 18656; 18656; 18655; 18655; 18654; 18654; 18653; 18653; 18652; 18652; 18652; 18651;
  18651; 18650; 18650; 18649; 18649; 18648; 18648; 18647; 18647; 18646; 18646; 18646; 18645; 18645; 18644; 18644; 18643; 18643;
  18642; 18642; 18641; 18641; 18641; 18640; 18640; 18639; 18639; 18638; 18638; 18637; 18637; 18636; 18636; 18635; 18635; 18635;
  18634; 18634; 18633; 18633; 18632; 18632; 18631; 18631; 18630; 18630; 18630; 18629; 18629; 18628; 18628; 18627; 18627; 18626;
  18626; 18625; 18625; 18625; 18624; 18624; 18623; 18623; 18622; 18622; 18621; 18621; 18620; 18620; 18619; 18619; 18619; 18618;
  18618; 18617; 18617; 18616; 18616; 18615; 18615; 18614; 18614; 18614; 18613; 18613; 18612; 18612; 18611; 18611; 18610; 18610;
  18609; 18609; 18609; 18608; 18608; 18607; 18607; 18606; 18606; 18605; 18605; 18604; 18604; 18603; 18603; 18603; 18602; 18602;
  18601; 18601; 18600; 18600; 18599; 18599; 18598; 18598; 18598; 18597; 18597; 18596; 18596; 18595; 18595; 18594; 18594; 18593;
  18593; 18593; 18592; 18592; 18591; 18591; 18590; 18590; 18589; 18589; 18588; 18588; 18587; 18587; 18587; 18586; 18586; 18585;
  18585; 18584; 18584; 18583; 18583; 18582; 18582; 18582; 18581; 18581; 18580; 18580; 18579; 18579; 18578; 18578; 18577; 18577;
  18577; 18576; 18576; 18575; 18575; 18574; 18574; 18573; 18573; 18572; 18572; 18572; 18571; 18571; 18570; 18570; 18569; 18569;
  18568; 18568; 18567; 18567; 18567; 18566; 18566; 18565; 18565; 18564; 18564; 18563; 18563; 18562; 18562; 18561; 18561; 18561;
  18560; 18560; 18559; 18559; 18558; 18558; 18557; 18557; 18556; 18556; 18556; 18555; 18555; 18554; 18554; 18553; 18553; 18552;
  18552; 18551; 18551; 18551; 18550; 18550; 18549; 18549; 18548; 18548; 18547; 18547; 18546; 18546; 18546; 18545; 18545; 18544;
  18544; 18543; 18543; 18542; 18542; 18541; 18541; 18541; 18540; 18540; 18539; 18539; 18538; 18538; 18537; 18537; 18536; 18536;
  18536; 18535; 18535; 18534; 18534; 18533; 18533; 18532; 18532; 18531; 18531; 18531; 18530; 18530; 18529; 18529; 18528; 18528;
  18527; 18527; 18526; 18526; 18526; 18525; 18525; 18524; 18524; 18523; 18523; 18522; 18522; 18521; 18521; 18521; 18520; 18520].
Definition pow_lut_36 : list Z := [
  18519; 18519; 18518; 18518; 18517; 18517; 18516; 18516; 18516; 18515; 18515; 18514; 18514; 18513; 18513; 18512; 18512; 18511;
  18511; 18511; 18510; 18510; 18509; 18509; 18508; 18508; 18507; 18507; 18506; 18506; 18506; 18505; 18505; 18504; 18504; 18503;
  18503; 18502; 18502; 18501; 18501; 18501; 18500; 18500; 18499; 18499; 18498; 18498; 18497; 18497; 18496; 18496; 18496; 18495;
  18495; 18494; 18494; 18493; 18493; 18492; 18492; 18491; 18491; 18491; 18490; 18490; 18489; 18489; 18488; 18488; 18487; 18487;
  18486; 18486; 18486; 18485; 18485; 18484; 18484; 18483; 18483; 18482; 18482; 18481; 18481; 18481; 18480; 18480; 18479; 18479;
  18478; 18478; 18477; 18477; 18476; 18476; 18476; 18475; 18475; 18474; 18474; 18473; 18473; 18472; 18472; 18471; 18471; 18471;
  18470; 18470; 18469; 18469; 18468; 18468; 18467; 18467; 18466; 18466; 18466; 18465; 18465; 18464; 18464; 18463; 18463; 18462;
  18462; 18461; 18461; 18461; 18460; 18460; 18459; 18459; 18458; 18458; 18457; 18457; 18456; 18456; 18456; 18455; 18455; 18454;
  18454; 18453; 18453; 18452; 18452; 18452; 18451; 18451; 18450; 18450; 18449; 18449; 18448; 18448; 18447; 18447; 18447; 18446;
  18446; 18445; 18445; 18444; 18444; 18443; 18443; 18442; 18442; 18442; 18441; 18441; 18440; 18440; 18439; 18439; 18438; 18438;
  18437; 18437; 18437; 18436; 18436; 18435; 18435; 18434; 18434; 18433; 18433; 18432; 18432; 18432; 18431; 18431; 18430; 18430;
  18429; 18429; 18428; 18428; 18428; 18427; 18427; 18426; 18426; 18425; 18425; 18424; 18424; 18423; 18423; 18423; 18422; 18422;
  18421; 18421; 18420; 18420; 18419; 18419; 18418; 18418; 18418; 18417; 18417; 18416; 18416; 18415; 18415; 18414; 18414; 18413;
  18413; 18413; 18412; 18412; 18411; 18411; 18410; 18410; 18409; 18409; 18409; 18408; 18408; 18407; 18407; 18406; 18406; 18405;
  18405; 18404; 18404; 18404; 18403; 18403; 18402; 18402; 18401; 18401; 18400; 18400; 18399; 18399; 18399; 18398; 18398; 18397;
  18397; 18396; 18396; 18395; 18395; 18394; 18394; 18394; 18393; 18393; 18392; 18392; 18391; 18391; 18390; 18390; 18390; 18389;
  18389; 18388; 18388; 18387; 18387; 18386; 18386; 18385; 18385; 18385; 18384; 18384; 18383; 18383; 18382; 18382; 18381; 18381;
  18380; 18380; 18380; 18379; 18379; 18378; 18378; 18377; 18377; 18376; 18376; 18376; 18375; 18375; 18374; 18374; 18373; 18373;
  18372; 18372; 18371; 18371; 18371; 18370; 18370; 18369; 18369; 18368; 18368; 18367; 18367; 18367; 18366; 18366; 18365; 18365;
  18364; 18364; 18363; 18363; 18362; 18362; 18362; 18361; 18361; 18360; 18360; 18359; 18359; 18358; 18358; 18357; 18357; 18357;
  18356; 18356; 18355; 18355; 18354; 18354; 18353; 18353; 18353; 18352; 18352; 18351; 18351; 18350; 18350; 18349; 18349; 18348;
  18348; 18348; 18347; 18347; 18346; 18346; 18345; 18345; 18344; 18344; 18344; 18343; 18343; 18342; 18342; 18341; 18341; 18340;
  18340; 18339; 18339; 18339; 18338; 18338; 18337; 18337; 18336; 18336; 18335; 18335; 18335; 18334; 18334; 18333; 18333; 18332;
  18332; 18331; 18331; 18330; 18330; 18330; 18329; 18329; 18328; 18328; 18327; 18327; 18326; 18326; 18326; 18325; 18325; 18324;
  18324; 18323; 18323; 18322; 18322; 18321; 18321; 18321; 18320; 18320; 18319; 18319; 18318; 18318; 18317; 18317; 18317; 18316;
  18316; 18315; 18315; 18314; 18314; 18313; 18313; 18312; 18312; 18312; 18311; 18311; 18310; 18310; 18309; 18309; 18308; 18308;
  18308; 18307; 18307; 18306; 18306; 18305; 18305; 18304; 18304; 18303; 18303; 18303; 18302; 18302; 18301; 18301; 18300; 18300;
  18299; 18299; 18299; 18298; 18298; 18297; 18297; 18296; 18296; 18295; 18295; 18294; 18294; 18294; 18293; 18293; 18292; 18292;
  18291; 18291; 18290; 18290; 18290; 18289; 18289; 18288; 18288; 18287; 18287; 18286; 18286; 18285; 18285; 18285; 18284; 18284;
  18283; 18283; 18282; 18282; 18281; 18281; 18281; 18280; 18280; 18279; 18279; 18278; 18278; 18277; 18277; 18277; 18276; 18276;
  18275; 18275; 18274; 18274; 18273; 18273; 18272; 18272; 18272; 18271; 18271; 18270; 18270; 18269; 18269; 18268; 18268; 18268;
  18267; 18267; 18266; 18266; 18265; 18265; 18264; 18264; 18264; 18263; 18263; 18262; 18262; 18261; 18261; 18260; 18260; 18259;
  18259; 18259; 18258; 18258; 18257; 18257; 18256; 18256; 18255; 18255; 18255; 18254; 18254; 18253; 18253; 18252; 18252; 18251;
  18251; 18251; 18250; 18250; 18249; 18249; 18248; 18248; 18247; 18247; 18246; 18246; 18246; 18245; 18245; 18244; 18244; 18243;
  18243; 18242; 18242; 18242; 18241; 18241; 18240; 18240; 18239; 18239; 18238; 18238; 18238; 18237; 18237; 18236; 18236; 18235;
  18235; 18234; 18234; 18233; 18233; 18233; 18232; 18232; 18231; 18231; 18230; 18230; 18229; 18229; 18229; 18228; 18228; 18227;
  18227; 18226; 18226; 18225; 18225; 18225; 18224; 18224; 18223; 18223; 18222; 18222; 18221; 18221; 18221; 18220; 18220; 18219;
  18219; 18218; 18218; 18217; 18217; 18216; 18216; 18216; 18215; 18215; 18214; 18214; 18213; 18213; 18212; 18212; 18212; 18211;
  18211; 18210; 18210; 18209; 18209; 18208; 18208; 18208; 18207; 18207; 18206; 18206; 18205; 18205; 18204; 18204; 18204; 18203;
  18203; 18202; 18202; 18201; 18201; 18200; 18200; 18199; 18199; 18199; 18198; 18198; 18197; 18197; 18196; 18196; 18195; 18195;
  18195; 18194; 18194; 18193; 18193; 18192; 18192; 18191; 18191; 18191; 18190; 18190; 18189; 18189; 18188; 18188; 18187; 18187;
  18187; 18186; 18186; 18185; 18185; 18184; 18184; 18183; 18183; 18183; 18182; 18182; 18181; 18181; 18180; 18180; 18179; 18179;
  18178; 18178; 18178; 18177; 18177; 18176; 18176; 18175; 18175; 18174; 18174; 18174; 18173; 18173; 18172; 18172; 18171; 18171;
  18170; 18170; 18170; 18169; 18169; 18168; 18168; 18167; 18167; 18166; 18166; 18166; 18165; 18165; 18164; 18164; 18163; 18163;
  18162; 18162; 18162; 18161; 18161; 18160; 18160; 18159; 18159; 18158; 18158; 18158; 18157; 18157; 18156; 18156; 18155; 18155;
  18154; 18154; 18154; 18153; 18153; 18152; 18152; 18151; 18151; 18150; 18150; 18149; 18149; 18149; 18148; 18148; 18147; 18147;
  18146; 18146; 18145; 18145; 18145; 18144; 18144; 18143; 18143; 18142; 18142; 18141; 18141; 18141; 18140; 18140; 18139; 18139;
  18138; 18138; 18137; 18137; 18137; 18136; 18136; 18135; 18135; 18134; 18134; 18133; 18133; 18133; 18132; 18132; 18131; 18131;
  18130; 18130; 18129; 18129; 18129; 18128; 18128; 18127; 18127; 18126; 18126; 18125; 18125; 18125; 18124; 18124; 18123; 18123;
  18122; 18122; 18121; 18121; 18121; 18120; 18120; 18119; 18119; 18118; 18118; 18117; 18117; 18117; 18116; 18116; 18115; 18115].
Definition pow_lut_37 : list Z := [
  18114; 18114; 18113; 18113; 18113; 18112; 18112; 18111; 18111; 18110; 18110; 18109; 18109; 18109; 18108; 18108; 18107; 18107;
  18106; 18106; 18105; 18105; 18105; 18104; 18104; 18103; 18103; 18102; 18102; 18101; 18101; 18101; 18100; 18100; 18099; 18099;
  18098; 18098; 18097; 18097; 18097; 18096; 18096; 18095; 18095; 18094; 18094; 18093; 18093; 18093; 18092; 18092; 18091; 18091;
  18090; 18090; 18089; 18089; 18089; 18088; 18088; 18087; 18087; 18086; 18086; 18085; 18085; 18085; 18084; 18084; 18083; 18083;
  18082; 18082; 18081; 18081; 18081; 18080; 18080; 18079; 18079; 18078; 18078; 18077; 18077; 18077; 18076; 18076; 18075; 18075;
  18074; 18074; 18073; 18073; 18073; 18072; 18072; 18071; 18071; 18070; 18070; 18069; 18069; 18069; 18068; 18068; 18067; 18067;
  18066; 18066; 18065; 18065; 18065; 18064; 18064; 18063; 18063; 18062; 18062; 18061; 18061; 18061; 18060; 18060; 18059; 18059;
  18058; 18058; 18057; 18057; 18057; 18056; 18056; 18055; 18055; 18054; 18054; 18053; 18053; 18053; 18052; 18052; 18051; 18051;
  18050; 18050; 18049; 18049; 18049; 18048; 18048; 18047; 18047; 18046; 18046; 18045; 18045; 18045; 18044; 18044; 18043; 18043;
  18042; 18042; 18042; 18041; 18041; 18040; 18040; 18039; 18039; 18038; 18038; 18038; 18037; 18037; 18036; 18036; 18035; 18035;
  18034; 18034; 18034; 18033; 18033; 18032; 18032; 18031; 18031; 18030; 18030; 18030; 18029; 18029; 18028; 18028; 18027; 18027;
  18026; 18026; 18026; 18025; 18025; 18024; 18024; 18023; 18023; 18022; 18022; 18022; 18021; 18021; 18020; 18020; 18019; 18019;
  18018; 18018; 18018; 18017; 18017; 18016; 18016; 18015; 18015; 18014; 18014; 18014; 18013; 18013; 18012; 18012; 18011; 18011;
  18011; 18010; 18010; 18009; 18009; 18008; 18008; 18007; 18007; 18007; 18006; 18006; 18005; 18005; 18004; 18004; 18003; 18003;
  18003; 18002; 18002; 18001; 18001; 18000; 18000; 17999; 17999; 17999; 17998; 17998; 17997; 17997; 17996; 17996; 17995; 17995;
  17995; 17994; 17994; 17993; 17993; 17992; 17992; 17992; 17991; 17991; 17990; 17990; 17989; 17989; 17988; 17988; 17988; 17987;
  17987; 17986; 17986; 17985; 17985; 17984; 17984; 17984; 17983; 17983; 17982; 17982; 17981; 17981; 17980; 17980; 17980; 17979;
  17979; 17978; 17978; 17977; 17977; 17976; 17976; 17976; 17975; 17975; 17974; 17974; 17973; 17973; 17973; 17972; 17972; 17971;
  17971; 17970; 17970; 17969; 17969; 17969; 17968; 17968; 17967; 17967; 17966; 17966; 17965; 17965; 17965; 17964; 17964; 17963;
  17963; 17962; 17962; 17961; 17961; 17961; 17960; 17960; 17959; 17959; 17958; 17958; 17958; 17957; 17957; 17956; 17956; 17955;
  17955; 17954; 17954; 17954; 17953; 17953; 17952; 17952; 17951; 17951; 17950; 17950; 17950; 17949; 17949; 17948; 17948; 17947;
  17947; 17946; 17946; 17946; 17945; 17945; 17944; 17944; 17943; 17943; 17943; 17942; 17942; 17941; 17941; 17940; 17940; 17939;
  17939; 17939; 17938; 17938; 17937; 17937; 17936; 17936; 17935; 17935; 17935; 17934; 17934; 17933; 17933; 17932; 17932; 17932;
  17931; 17931; 17930; 17930; 17929; 17929; 17928; 17928; 17928; 17927; 17927; 17926; 17926; 17925; 17925; 17924; 17924; 17924;
  17923; 17923; 17922; 17922; 17921; 17921; 17921; 17920; 17920; 17919; 17919; 17918; 17918; 17917; 17917; 17917; 17916; 17916;
  17915; 17915; 17914; 17914; 17913; 17913; 17913; 17912; 17912; 17911; 17911; 17910; 17910; 17910; 17909; 17909; 17908; 17908;
  17907; 17907; 17906; 17906; 17906; 17905; 17905; 17904; 17904; 17903; 17903; 17902; 17902; 17902; 17901; 17901; 17900; 17900;
  17899; 17899; 17899; 17898; 17898; 17897; 17897; 17896; 17896; 17895; 17895; 17895; 17894; 17894; 17893; 17893; 17892; 17892;
  17891; 17891; 17891; 17890; 17890; 17889; 17889; 17888; 17888; 17888; 17887; 17887; 17886; 17886; 17885; 17885; 17884; 17884;
  17884; 17883; 17883; 17882; 17882; 17881; 17881; 17881; 17880; 17880; 17879; 17879; 17878; 17878; 17877; 17877; 17877; 17876;
  17876; 17875; 17875; 17874; 17874; 17873; 17873; 17873; 17872; 17872; 17871; 17871; 17870; 17870; 17870; 17869; 17869; 17868;
  17868; 17867; 17867; 17866; 17866; 17866; 17865; 17865; 17864; 17864; 17863; 17863; 17863; 17862; 17862; 17861; 17861; 17860;
  17860; 17859; 17859; 17859; 17858; 17858; 17857; 17857; 17856; 17856; 17855; 17855; 17855; 17854; 17854; 17853; 17853; 17852;
  17852; 17852; 17851; 17851; 17850; 17850; 17849; 17849; 17848; 17848; 17848; 17847; 17847; 17846; 17846; 17845; 17845; 17845;
  17844; 17844; 17843; 17843; 17842; 17842; 17841; 17841; 17841; 17840; 17840; 17839; 17839; 17838; 17838; 17838; 17837; 17837;
  17836; 17836; 17835; 17835; 17834; 17834; 17834; 17833; 17833; 17832; 17832; 17831; 17831; 17831; 17830; 17830; 17829; 17829;
  17828; 17828; 17827; 17827; 17827; 17826; 17826; 17825; 17825; 17824; 17824; 17824; 17823; 17823; 17822; 17822; 17821; 17821;
  17820; 17820; 17820; 17819; 17819; 17818; 17818; 17817; 17817; 17817; 17816; 17816; 17815; 17815; 17814; 17814; 17813; 17813;
  17813; 17812; 17812; 17811; 17811; 17810; 17810; 17810; 17809; 17809; 17808; 17808; 17807; 17807; 17806; 17806; 17806; 17805;
  17805; 17804; 17804; 17803; 17803; 17803; 17802; 17802; 17801; 17801; 17800; 17800; 17799; 17799; 17799; 17798; 17798; 17797;
  17797; 17796; 17796; 17796; 17795; 17795; 17794; 17794; 17793; 17793; 17792; 17792; 17792; 17791; 17791; 17790; 17790; 17789;
  17789; 17789; 17788; 17788; 17787; 17787; 17786; 17786; 17785; 17785; 17785; 17784; 17784; 17783; 17783; 17782; 17782; 17782;
  17781; 17781; 17780; 17780; 17779; 17779; 17778; 17778; 17778; 17777; 17777; 17776; 17776; 17775; 17775; 17775; 17774; 17774;
  17773; 17773; 17772; 17772; 17771; 17771; 17771; 17770; 17770; 17769; 17769; 17768; 17768; 17768; 17767; 17767; 17766; 17766;
  17765; 17765; 17765; 17764; 17764; 17763; 17763; 17762; 17762; 17761; 17761; 17761; 17760; 17760; 17759; 17759; 17758; 17758;
  17758; 17757; 17757; 17756; 17756; 17755; 17755; 17754; 17754; 17754; 17753; 17753; 17752; 17752; 17751; 17751; 17751; 17750;
  17750; 17749; 17749; 17748; 17748; 17748; 17747; 17747; 17746; 17746; 17745; 17745; 17744; 17744; 17744; 17743; 17743; 17742;
  17742; 17741; 17741; 17741; 17740; 17740; 17739; 17739; 17738; 17738; 17737; 17737; 17737; 17736; 17736; 17735; 17735; 17734;
  17734; 17734; 17733; 17733; 17732; 17732; 17731; 17731; 17731; 17730; 17730; 17729; 17729; 17728; 17728; 17727; 17727; 17727;
  17726; 17726; 17725; 17725; 17724; 17724; 17724; 17723; 17723; 17722; 17722; 17721; 17721; 17721; 17720; 17720; 17719; 17719].
Definition pow_lut_38 : list Z := [
  17718; 17718; 17717; 17717; 17717; 17716; 17716; 17715; 17715; 17714; 17714; 17714; 17713; 17713; 17712; 17712; 17711; 17711;
  17710; 17710; 17710; 17709; 17709; 17708; 17708; 17707; 17707; 17707; 17706; 17706; 17705; 17705; 17704; 17704; 17704; 17703;
  17703; 17702; 17702; 17701; 17701; 17700; 17700; 17700; 17699; 17699; 17698; 17698; 17697; 17697; 17697; 17696; 17696; 17695;
  17695; 17694; 17694; 17694; 17693; 17693; 17692; 17692; 17691; 17691; 17690; 17690; 17690; 17689; 17689; 17688; 17688; 17687;
  17687; 17687; 17686; 17686; 17685; 17685; 17684; 17684; 17684; 17683; 17683; 17682; 17682; 17681; 17681; 17681; 17680; 17680;
  17679; 17679; 17678; 17678; 17677; 17677; 17677; 17676; 17676; 17675; 17675; 17674; 17674; 17674; 17673; 17673; 17672; 17672;
  17671; 17671; 17671; 17670; 17670; 17669; 17669; 17668; 17668; 17667; 17667; 17667; 17666; 17666; 17665; 17665; 17664; 17664;
  17664; 17663; 17663; 17662; 17662; 17661; 17661; 17661; 17660; 17660; 17659; 17659; 17658; 17658; 17658; 17657; 17657; 17656;
  17656; 17655; 17655; 17654; 17654; 17654; 17653; 17653; 17652; 17652; 17651; 17651; 17651; 17650; 17650; 17649; 17649; 17648;
  17648; 17648; 17647; 17647; 17646; 17646; 17645; 17645; 17645; 17644; 17644; 17643; 17643; 17642; 17642; 17641; 17641; 17641;
  17640; 17640; 17639; 17639; 17638; 17638; 17638; 17637; 17637; 17636; 17636; 17635; 17635; 17635; 17634; 17634; 17633; 17633;
  17632; 17632; 17632; 17631; 17631; 17630; 17630; 17629; 17629; 17628; 17628; 17628; 17627; 17627; 17626; 17626; 17625; 17625;
  17625; 17624; 17624; 17623; 17623; 17622; 17622; 17622; 17621; 17621; 17620; 17620; 17619; 17619; 17619; 17618; 17618; 17617;
  17617; 17616; 17616; 17615; 17615; 17615; 17614; 17614; 17613; 17613; 17612; 17612; 17612; 17611; 17611; 17610; 17610; 17609;
  17609; 17609; 17608; 17608; 17607; 17607; 17606; 17606; 17606; 17605; 17605; 17604; 17604; 17603; 17603; 17603; 17602; 17602;
  17601; 17601; 17600; 17600; 17599; 17599; 17599; 17598; 17598; 17597; 17597; 17596; 17596; 17596; 17595; 17595; 17594; 17594;
  17593; 17593; 17593; 17592; 17592; 17591; 17591; 17590; 17590; 17590; 17589; 17589; 17588; 17588; 17587; 17587; 17587; 17586;
  17586; 17585; 17585; 17584; 17584; 17584; 17583; 17583; 17582; 17582; 17581; 17581; 17580; 17580; 17580; 17579; 17579; 17578;
  17578; 17577; 17577; 17577; 17576; 17576; 17575; 17575; 17574; 17574; 17574; 17573; 17573; 17572; 17572; 17571; 17571; 17571;
  17570; 17570; 17569; 17569; 17568; 17568; 17568; 17567; 17567; 17566; 17566; 17565; 17565; 17565; 17564; 17564; 17563; 17563;
  17562; 17562; 17562; 17561; 17561; 17560; 17560; 17559; 17559; 17558; 17558; 17558; 17557; 17557; 17556; 17556; 17555; 17555;
  17555; 17554; 17554; 17553; 17553; 17552; 17552; 17552; 17551; 17551; 17550; 17550; 17549; 17549; 17549; 17548; 17548; 17547;
  17547; 17546; 17546; 17546; 17545; 17545; 17544; 17544; 17543; 17543; 17543; 17542; 17542; 17541; 17541; 17540; 17540; 17540;
  17539; 17539; 17538; 17538; 17537; 17537; 17537; 17536; 17536; 17535; 17535; 17534; 17534; 17533; 17533; 17533; 17532; 17532;
  17531; 17531; 17530; 17530; 17530; 17529; 17529; 17528; 17528; 17527; 17527; 17527; 17526; 17526; 17525; 17525; 17524; 17524;
  17524; 17523; 17523; 17522; 17522; 17521; 17521; 17521; 17520; 17520; 17519; 17519; 17518; 17518; 17518; 17517; 17517; 17516;
  17516; 17515; 17515; 17515; 17514; 17514; 17513; 17513; 17512; 17512; 17512; 17511; 17511; 17510; 17510; 17509; 17509; 17509;
  17508; 17508; 17507; 17507; 17506; 17506; 17506; 17505; 17505; 17504; 17504; 17503; 17503; 17503; 17502; 17502; 17501; 17501;
  17500; 17500; 17500; 17499; 17499; 17498; 17498; 17497; 17497; 17496; 17496; 17496; 17495; 17495; 17494; 17494; 17493; 17493;
  17493; 17492; 17492; 17491; 17491; 17490; 17490; 17490; 17489; 17489; 17488; 17488; 17487; 17487; 17487; 17486; 17486; 17485;
  17485; 17484; 17484; 17484; 17483; 17483; 17482; 17482; 17481; 17481; 17481; 17480; 17480; 17479; 17479; 17478; 17478; 17478;
  17477; 17477; 17476; 17476; 17475; 17475; 17475; 17474; 17474; 17473; 17473; 17472; 17472; 17472; 17471; 17471; 17470; 17470;
  17469; 17469; 17469; 17468; 17468; 17467; 17467; 17466; 17466; 17466; 17465; 17465; 17464; 17464; 17463; 17463; 17463; 17462;
  17462; 17461; 17461; 17460; 17460; 17460; 17459; 17459; 17458; 17458; 17457; 17457; 17457; 17456; 17456; 17455; 17455; 17454;
  17454; 17454; 17453; 17453; 17452; 17452; 17451; 17451; 17451; 17450; 17450; 17449; 17449; 17448; 17448; 17448; 17447; 17447;
  17446; 17446; 17445; 17445; 17445; 17444; 17444; 17443; 17443; 17442; 17442; 17442; 17441; 17441; 17440; 17440; 17439; 17439;
  17439; 17438; 17438; 17437; 17437; 17436; 17436; 17436; 17435; 17435; 17434; 17434; 17433; 17433; 17433; 17432; 17432; 17431;
  17431; 17430; 17430; 17430; 17429; 17429; 17428; 17428; 17427; 17427; 17427; 17426; 17426; 17425; 17425; 17424; 17424; 17424;
  17423; 17423; 17422; 17422; 17421; 17421; 17421; 17420; 17420; 17419; 17419; 17418; 17418; 17418; 17417; 17417; 17416; 17416;
  17415; 17415; 17415; 17414; 17414; 17413; 17413; 17412; 17412; 17412; 17411; 17411; 17410; 17410; 17409; 17409; 17409; 17408;
  17408; 17407; 17407; 17406; 17406; 17406; 17405; 17405; 17404; 17404; 17404; 17403; 17403; 17402; 17402; 17401; 17401; 17401;
  17400; 17400; 17399; 17399; 17398; 17398; 17398; 17397; 17397; 17396; 17396; 17395; 17395; 17395; 17394; 17394; 17393; 17393;
  17392; 17392; 17392; 17391; 17391; 17390; 17390; 17389; 17389; 17389; 17388; 17388; 17387; 17387; 17386; 17386; 17386; 17385;
  17385; 17384; 17384; 17383; 17383; 17383; 17382; 17382; 17381; 17381; 17380; 17380; 17380; 17379; 17379; 17378; 17378; 17377;
  17377; 17377; 17376; 17376; 17375; 17375; 17374; 17374; 17374; 17373; 17373; 17372; 17372; 17371; 17371; 17371; 17370; 17370;
  17369; 17369; 17368; 17368; 17368; 17367; 17367; 17366; 17366; 17366; 17365; 17365; 17364; 17364; 17363; 17363; 17363; 17362;
  17362; 17361; 17361; 17360; 17360; 17360; 17359; 17359; 17358; 17358; 17357; 17357; 17357; 17356; 17356; 17355; 17355; 17354;
  17354; 17354; 17353; 17353; 17352; 17352; 17351; 17351; 17351; 17350; 17350; 17349; 17349; 17348; 17348; 17348; 17347; 17347;
  17346; 17346; 17345; 17345; 17345; 17344; 17344; 17343; 17343; 17342; 17342; 17342; 17341; 17341; 17340; 17340; 17340; 17339;
  17339; 17338; 17338; 17337; 17337; 17337; 17336; 17336; 17335; 17335; 17334; 17334; 17334; 17333; 17333; 17332; 17332; 17331].
Definition pow_lut_39 : list Z := [
  17331; 17331; 17330; 17330; 17329; 17329; 17328; 17328; 17328; 17327; 17327; 17326; 17326; 17325; 17325; 17325; 17324; 17324;
  17323; 17323; 17322; 17322; 17322; 17321; 17321; 17320; 17320; 17320; 17319; 17319; 17318; 17318; 17317; 17317; 17317; 17316;
  17316; 17315; 17315; 17314; 17314; 17314; 17313; 17313; 17312; 17312; 17311; 17311; 17311; 17310; 17310; 17309; 17309; 17308;
  17308; 17308; 17307; 17307; 17306; 17306; 17305; 17305; 17305; 17304; 17304; 17303; 17303; 17303; 17302; 17302; 17301; 17301;
  17300; 17300; 17300; 17299; 17299; 17298; 17298; 17297; 17297; 17297; 17296; 17296; 17295; 17295; 17294; 17294; 17294; 17293;
  17293; 17292; 17292; 17291; 17291; 17291; 17290; 17290; 17289; 17289; 17288; 17288; 17288; 17287; 17287; 17286; 17286; 17286;
  17285; 17285; 17284; 17284; 17283; 17283; 17283; 17282; 17282; 17281; 17281; 17280; 17280; 17280; 17279; 17279; 17278; 17278;
  17277; 17277; 17277; 17276; 17276; 17275; 17275; 17274; 17274; 17274; 17273; 17273; 17272; 17272; 17272; 17271; 17271; 17270;
  17270; 17269; 17269; 17269; 17268; 17268; 17267; 17267; 17266; 17266; 17266; 17265; 17265; 17264; 17264; 17263; 17263; 17263;
  17262; 17262; 17261; 17261; 17260; 17260; 17260; 17259; 17259; 17258; 17258; 17258; 17257; 17257; 17256; 17256; 17255; 17255;
  17255; 17254; 17254; 17253; 17253; 17252; 17252; 17252; 17251; 17251; 17250; 17250; 17249; 17249; 17249; 17248; 17248; 17247;
  17247; 17247; 17246; 17246; 17245; 17245; 17244; 17244; 17244; 17243; 17243; 17242; 17242; 17241; 17241; 17241; 17240; 17240;
  17239; 17239; 17238; 17238; 17238; 17237; 17237; 17236; 17236; 17235; 17235; 17235; 17234; 17234; 17233; 17233; 17233; 17232;
  17232; 17231; 17231; 17230; 17230; 17230; 17229; 17229; 17228; 17228; 17227; 17227; 17227; 17226; 17226; 17225; 17225; 17224;
  17224; 17224; 17223; 17223; 17222; 17222; 17222; 17221; 17221; 17220; 17220; 17219; 17219; 17219; 17218; 17218; 17217; 17217;
  17216; 17216; 17216; 17215; 17215; 17214; 17214; 17213; 17213; 17213; 17212; 17212; 17211; 17211; 17211; 17210; 17210; 17209;
  17209; 17208; 17208; 17208; 17207; 17207; 17206; 17206; 17205; 17205; 17205; 17204; 17204; 17203; 17203; 17203; 17202; 17202;
  17201; 17201; 17200; 17200; 17200; 17199; 17199; 17198; 17198; 17197; 17197; 17197; 17196; 17196; 17195; 17195; 17194; 17194;
  17194; 17193; 17193; 17192; 17192; 17192; 17191; 17191; 17190; 17190; 17189; 17189; 17189; 17188; 17188; 17187; 17187; 17186;
  17186; 17186; 17185; 17185; 17184; 17184; 17184; 17183; 17183; 17182; 17182; 17181; 17181; 17181; 17180; 17180; 17179; 17179;
  17178; 17178; 17178; 17177; 17177; 17176; 17176; 17175; 17175; 17175; 17174; 17174; 17173; 17173; 17173; 17172; 17172; 17171;
  17171; 17170; 17170; 17170; 17169; 17169; 17168; 17168; 17167; 17167; 17167; 17166; 17166; 17165; 17165; 17165; 17164; 17164;
  17163; 17163; 17162; 17162; 17162; 17161; 17161; 17160; 17160; 17159; 17159; 17159; 17158; 17158; 17157; 17157; 17157; 17156;
  17156; 17155; 17155; 17154; 17154; 17154; 17153; 17153; 17152; 17152; 17151; 17151; 17151; 17150; 17150; 17149; 17149; 17149;
  17148; 17148; 17147; 17147; 17146; 17146; 17146; 17145; 17145; 17144; 17144; 17143; 17143; 17143; 17142; 17142; 17141; 17141;
  17141; 17140; 17140; 17139; 17139; 17138; 17138; 17138; 17137; 17137; 17136; 17136; 17135; 17135; 17135; 17134; 17134; 17133;
  17133; 17133; 17132; 17132; 17131; 17131; 17130; 17130; 17130; 17129; 17129; 17128; 17128; 17127; 17127; 17127; 17126; 17126;
  17125; 17125; 17125; 17124; 17124; 17123; 17123; 17122; 17122; 17122; 17121; 17121; 17120; 17120; 17119; 17119; 17119; 17118;
  17118; 17117; 17117; 17117; 17116; 17116; 17115; 17115; 17114; 17114; 17114; 17113; 17113; 17112; 17112; 17111; 17111; 17111;
  17110; 17110; 17109; 17109; 17109; 17108; 17108; 17107; 17107; 17106; 17106; 17106; 17105; 17105; 17104; 17104; 17104; 17103;
  17103; 17102; 17102; 17101; 17101; 17101; 17100; 17100; 17099; 17099; 17098; 17098; 17098; 17097; 17097; 17096; 17096; 17096;
  17095; 17095; 17094; 17094; 17093; 17093; 17093; 17092; 17092; 17091; 17091; 17090; 17090; 17090; 17089; 17089; 17088; 17088;
  17088; 17087; 17087; 17086; 17086; 17085; 17085; 17085; 17084; 17084; 17083; 17083; 17083; 17082; 17082; 17081; 17081; 17080;
  17080; 17080; 17079; 17079; 17078; 17078; 17077; 17077; 17077; 17076; 17076; 17075; 17075; 17075; 17074; 17074; 17073; 17073;
  17072; 17072; 17072; 17071; 17071; 17070; 17070; 17070; 17069; 17069; 17068; 17068; 17067; 17067; 17067; 17066; 17066; 17065;
  17065; 17064; 17064; 17064; 17063; 17063; 17062; 17062; 17062; 17061; 17061; 17060; 17060; 17059; 17059; 17059; 17058; 17058;
  17057; 17057; 17057; 17056; 17056; 17055; 17055; 17054; 17054; 17054; 17053; 17053; 17052; 17052; 17052; 17051; 17051; 17050;
  17050; 17049; 17049; 17049; 17048; 17048; 17047; 17047; 17046; 17046; 17046; 17045; 17045; 17044; 17044; 17044; 17043; 17043;
  17042; 17042; 17041; 17041; 17041; 17040; 17040; 17039; 17039; 17039; 17038; 17038; 17037; 17037; 17036; 17036; 17036; 17035;
  17035; 17034; 17034; 17034; 17033; 17033; 17032; 17032; 17031; 17031; 17031; 17030; 17030; 17029; 17029; 17028; 17028; 17028;
  17027; 17027; 17026; 17026; 17026; 17025; 17025; 17024; 17024; 17023; 17023; 17023; 17022; 17022; 17021; 17021; 17021; 17020;
  17020; 17019; 17019; 17018; 17018; 17018; 17017; 17017; 17016; 17016; 17016; 17015; 17015; 17014; 17014; 17013; 17013; 17013;
  17012; 17012; 17011; 17011; 17011; 17010; 17010; 17009; 17009; 17008; 17008; 17008; 17007; 17007; 17006; 17006; 17006; 17005;
  17005; 17004; 17004; 17003; 17003; 17003; 17002; 17002; 17001; 17001; 17000; 17000; 17000; 16999; 16999; 16998; 16998; 16998;
  16997; 16997; 16996; 16996; 16995; 16995; 16995; 16994; 16994; 16993; 16993; 16993; 16992; 16992; 16991; 16991; 16990; 16990;
  16990; 16989; 16989; 16988; 16988; 16988; 16987; 16987; 16986; 16986; 16985; 16985; 16985; 16984; 16984; 16983; 16983; 16983;
  16982; 16982; 16981; 16981; 16980; 16980; 16980; 16979; 16979; 16978; 16978; 16978; 16977; 16977; 16976; 16976; 16975; 16975;
  16975; 16974; 16974; 16973; 16973; 16973; 16972; 16972; 16971; 16971; 16970; 16970; 16970; 16969; 16969; 16968; 16968; 16968;
  16967; 16967; 16966; 16966; 16965; 16965; 16965; 16964; 16964; 16963; 16963; 16963; 16962; 16962; 16961; 16961; 16960; 16960;
  16960; 16959; 16959; 16958; 16958; 16958; 16957; 16957; 16956; 16956; 16955; 16955; 16955; 16954; 16954; 16953; 16953; 16953].
Definition pow_lut_40 : list Z := [
  16952; 16952; 16951; 16951; 16950; 16950; 16950; 16949; 16949; 16948; 16948; 16948; 16947; 16947; 16946; 16946; 16945; 16945;
  16945; 16944; 16944; 16943; 16943; 16943; 16942; 16942; 16941; 16941; 16940; 16940; 16940; 16939; 16939; 16938; 16938; 16938;
  16937; 16937; 16936; 16936; 16935; 16935; 16935; 16934; 16934; 16933; 16933; 16933; 16932; 16932; 16931; 16931; 16930; 16930;
  16930; 16929; 16929; 16928; 16928; 16928; 16927; 16927; 16926; 16926; 16926; 16925; 16925; 16924; 16924; 16923; 16923; 16923;
  16922; 16922; 16921; 16921; 16921; 16920; 16920; 16919; 16919; 16918; 16918; 16918; 16917; 16917; 16916; 16916; 16916; 16915;
  16915; 16914; 16914; 16913; 16913; 16913; 16912; 16912; 16911; 16911; 16911; 16910; 16910; 16909; 16909; 16908; 16908; 16908;
  16907; 16907; 16906; 16906; 16906; 16905; 16905; 16904; 16904; 16903; 16903; 16903; 16902; 16902; 16901; 16901; 16901; 16900;
  16900; 16899; 16899; 16899; 16898; 16898; 16897; 16897; 16896; 16896; 16896; 16895; 16895; 16894; 16894; 16894; 16893; 16893;
  16892; 16892; 16891; 16891; 16891; 16890; 16890; 16889; 16889; 16889; 16888; 16888; 16887; 16887; 16886; 16886; 16886; 16885;
  16885; 16884; 16884; 16884; 16883; 16883; 16882; 16882; 16882; 16881; 16881; 16880; 16880; 16879; 16879; 16879; 16878; 16878;
  16877; 16877; 16877; 16876; 16876; 16875; 16875; 16874; 16874; 16874; 16873; 16873; 16872; 16872; 16872; 16871; 16871; 16870;
  16870; 16869; 16869; 16869; 16868; 16868; 16867; 16867; 16867; 16866; 16866; 16865; 16865; 16865; 16864; 16864; 16863; 16863;
  16862; 16862; 16862; 16861; 16861; 16860; 16860; 16860; 16859; 16859; 16858; 16858; 16857; 16857; 16857; 16856; 16856; 16855;
  16855; 16855; 16854; 16854; 16853; 16853; 16853; 16852; 16852; 16851; 16851; 16850; 16850; 16850; 16849; 16849; 16848; 16848;
  16848; 16847; 16847; 16846; 16846; 16845; 16845; 16845; 16844; 16844; 16843; 16843; 16843; 16842; 16842; 16841; 16841; 16841;
  16840; 16840; 16839; 16839; 16838; 16838; 16838; 16837; 16837; 16836; 16836; 16836; 16835; 16835; 16834; 16834; 16833; 16833;
  16833; 16832; 16832; 16831; 16831; 16831; 16830; 16830; 16829; 16829; 16829; 16828; 16828; 16827; 16827; 16826; 16826; 16826;
  16825; 16825; 16824; 16824; 16824; 16823; 16823; 16822; 16822; 16821; 16821; 16821; 16820; 16820; 16819; 16819; 16819; 16818;
  16818; 16817; 16817; 16817; 16816; 16816; 16815; 16815; 16814; 16814; 16814; 16813; 16813; 16812; 16812; 16812; 16811; 16811;
  16810; 16810; 16810; 16809; 16809; 16808; 16808; 16807; 16807; 16807; 16806; 16806; 16805; 16805; 16805; 16804; 16804; 16803;
  16803; 16803; 16802; 16802; 16801; 16801; 16800; 16800; 16800; 16799; 16799; 16798; 16798; 16798; 16797; 16797; 16796; 16796;
  16795; 16795; 16795; 16794; 16794; 16793; 16793; 16793; 16792; 16792; 16791; 16791; 16791; 16790; 16790; 16789; 16789; 16788;
  16788; 16788; 16787; 16787; 16786; 16786; 16786; 16785; 16785; 16784; 16784; 16784; 16783; 16783; 16782; 16782; 16781; 16781;
  16781; 16780; 16780; 16779; 16779; 16779; 16778; 16778; 16777; 16777; 16777; 16776; 16776; 16775; 16775; 16774; 16774; 16774;
  16773; 16773; 16772; 16772; 16772; 16771; 16771; 16770; 16770; 16770; 16769; 16769; 16768; 16768; 16767; 16767; 16767; 16766;
  16766; 16765; 16765; 16765; 16764; 16764; 16763; 16763; 16763; 16762; 16762; 16761; 16761; 16760; 16760; 16760; 16759; 16759;
  16758; 16758; 16758; 16757; 16757; 16756; 16756; 16756; 16755; 16755; 16754; 16754; 16753; 16753; 16753; 16752; 16752; 16751;
  16751; 16751; 16750; 16750; 16749; 16749; 16749; 16748; 16748; 16747; 16747; 16746; 16746; 16746; 16745; 16745; 16744; 16744;
  16744; 16743; 16743; 16742; 16742; 16742; 16741; 16741; 16740; 16740; 16739; 16739; 16739; 16738; 16738; 16737; 16737; 16737;
  16736; 16736; 16735; 16735; 16735; 16734; 16734; 16733; 16733; 16733; 16732; 16732; 16731; 16731; 16730; 16730; 16730; 16729;
  16729; 16728; 16728; 16728; 16727; 16727; 16726; 16726; 16726; 16725; 16725; 16724; 16724; 16723; 16723; 16723; 16722; 16722;
  16721; 16721; 16721; 16720; 16720; 16719; 16719; 16719; 16718; 16718; 16717; 16717; 16716; 16716; 16716; 16715; 16715; 16714;
  16714; 16714; 16713; 16713; 16712; 16712; 16712; 16711; 16711; 16710; 16710; 16710; 16709; 16709; 16708; 16708; 16707; 16707;
  16707; 16706; 16706; 16705; 16705; 16705; 16704; 16704; 16703; 16703; 16703; 16702; 16702; 16701; 16701; 16700; 16700; 16700;
  16699; 16699; 16698; 16698; 16698; 16697; 16697; 16696; 16696; 16696; 16695; 16695; 16694; 16694; 16694; 16693; 16693; 16692;
  16692; 16691; 16691; 16691; 16690; 16690; 16689; 16689; 16689; 16688; 16688; 16687; 16687; 16687; 16686; 16686; 16685; 16685;
  16684; 16684; 16684; 16683; 16683; 16682; 16682; 16682; 16681; 16681; 16680; 16680; 16680; 16679; 16679; 16678; 16678; 16678;
  16677; 16677; 16676; 16676; 16675; 16675; 16675; 16674; 16674; 16673; 16673; 16673; 16672; 16672; 16671; 16671; 16671; 16670;
  16670; 16669; 16669; 16669; 16668; 16668; 16667; 16667; 16666; 16666; 16666; 16665; 16665; 16664; 16664; 16664; 16663; 16663;
  16662; 16662; 16662; 16661; 16661; 16660; 16660; 16660; 16659; 16659; 16658; 16658; 16657; 16657; 16657; 16656; 16656; 16655;
  16655; 16655; 16654; 16654; 16653; 16653; 16653; 16652; 16652; 16651; 16651; 16651; 16650; 16650; 16649; 16649; 16648; 16648;
  16648; 16647; 16647; 16646; 16646; 16646; 16645; 16645; 16644; 16644; 16644; 16643; 16643; 16642; 16642; 16642; 16641; 16641;
  16640; 16640; 16639; 16639; 16639; 16638; 16638; 16637; 16637; 16637; 16636; 16636; 16635; 16635; 16635; 16634; 16634; 16633;
  16633; 16633; 16632; 16632; 16631; 16631; 16630; 16630; 16630; 16629; 16629; 16628; 16628; 16628; 16627; 16627; 16626; 16626;
  16626; 16625; 16625; 16624; 16624; 16624; 16623; 16623; 16622; 16622; 16622; 16621; 16621; 16620; 16620; 16619; 16619; 16619;
  16618; 16618; 16617; 16617; 16617; 16616; 16616; 16615; 16615; 16615; 16614; 16614; 16613; 16613; 16613; 16612; 16612; 16611;
  16611; 16610; 16610; 16610; 16609; 16609; 16608; 16608; 16608; 16607; 16607; 16606; 16606; 16606; 16605; 16605; 16604; 16604;
  16604; 16603; 16603; 16602; 16602; 16602; 16601; 16601; 16600; 16600; 16599; 16599; 16599; 16598; 16598; 16597; 16597; 16597;
  16596; 16596; 16595; 16595; 16595; 16594; 16594; 16593; 16593; 16593; 16592; 16592; 16591; 16591; 16591; 16590; 16590; 16589;
  16589; 16588; 16588; 16588; 16587; 16587; 16586; 16586; 16586; 16585; 16585; 16584; 16584; 16584; 16583; 16583; 16582; 16582].
Definition pow_lut_41 : list Z := [
  16582; 16581; 16581; 16580; 16580; 16580; 16579; 16579; 16578; 16578; 16577; 16577; 16577; 16576; 16576; 16575; 16575; 16575;
  16574; 16574; 16573; 16573; 16573; 16572; 16572; 16571; 16571; 16571; 16570; 16570; 16569; 16569; 16569; 16568; 16568; 16567;
  16567; 16566; 16566; 16566; 16565; 16565; 16564; 16564; 16564; 16563; 16563; 16562; 16562; 16562; 16561; 16561; 16560; 16560;
  16560; 16559; 16559; 16558; 16558; 16558; 16557; 16557; 16556; 16556; 16556; 16555; 16555; 16554; 16554; 16553; 16553; 16553;
  16552; 16552; 16551; 16551; 16551; 16550; 16550; 16549; 16549; 16549; 16548; 16548; 16547; 16547; 16547; 16546; 16546; 16545;
  16545; 16545; 16544; 16544; 16543; 16543; 16543; 16542; 16542; 16541; 16541; 16540; 16540; 16540; 16539; 16539; 16538; 16538;
  16538; 16537; 16537; 16536; 16536; 16536; 16535; 16535; 16534; 16534; 16534; 16533; 16533; 16532; 16532; 16532; 16531; 16531;
  16530; 16530; 16530; 16529; 16529; 16528; 16528; 16527; 16527; 16527; 16526; 16526; 16525; 16525; 16525; 16524; 16524; 16523;
  16523; 16523; 16522; 16522; 16521; 16521; 16521; 16520; 16520; 16519; 16519; 16519; 16518; 16518; 16517; 16517; 16517; 16516;
  16516; 16515; 16515; 16514; 16514; 16514; 16513; 16513; 16512; 16512; 16512; 16511; 16511; 16510; 16510; 16510; 16509; 16509;
  16508; 16508; 16508; 16507; 16507; 16506; 16506; 16506; 16505; 16505; 16504; 16504; 16504; 16503; 16503; 16502; 16502; 16502;
  16501; 16501; 16500; 16500; 16499; 16499; 16499; 16498; 16498; 16497; 16497; 16497; 16496; 16496; 16495; 16495; 16495; 16494;
  16494; 16493; 16493; 16493; 16492; 16492; 16491; 16491; 16491; 16490; 16490; 16489; 16489; 16489; 16488; 16488; 16487; 16487;
  16487; 16486; 16486; 16485; 16485; 16485; 16484; 16484; 16483; 16483; 16482; 16482; 16482; 16481; 16481; 16480; 16480; 16480;
  16479; 16479; 16478; 16478; 16478; 16477; 16477; 16476; 16476; 16476; 16475; 16475; 16474; 16474; 16474; 16473; 16473; 16472;
  16472; 16472; 16471; 16471; 16470; 16470; 16470; 16469; 16469; 16468; 16468; 16468; 16467; 16467; 16466; 16466; 16465; 16465;
  16465; 16464; 16464; 16463; 16463; 16463; 16462; 16462; 16461; 16461; 16461; 16460; 16460; 16459; 16459; 16459; 16458; 16458;
  16457; 16457; 16457; 16456; 16456; 16455; 16455; 16455; 16454; 16454; 16453; 16453; 16453; 16452; 16452; 16451; 16451; 16451;
  16450; 16450; 16449; 16449; 16449; 16448; 16448; 16447; 16447; 16446; 16446; 16446; 16445; 16445; 16444; 16444; 16444; 16443;
  16443; 16442; 16442; 16442; 16441; 16441; 16440; 16440; 16440; 16439; 16439; 16438; 16438; 16438; 16437; 16437; 16436; 16436;
  16436; 16435; 16435; 16434; 16434; 16434; 16433; 16433; 16432; 16432; 16432; 16431; 16431; 16430; 16430; 16430; 16429; 16429;
  16428; 16428; 16428; 16427; 16427; 16426; 16426; 16426; 16425; 16425; 16424; 16424; 16423; 16423; 16423; 16422; 16422; 16421;
  16421; 16421; 16420; 16420; 16419; 16419; 16419; 16418; 16418; 16417; 16417; 16417; 16416; 16416; 16415; 16415; 16415; 16414;
  16414; 16413; 16413; 16413; 16412; 16412; 16411; 16411; 16411; 16410; 16410; 16409; 16409; 16409; 16408; 16408; 16407; 16407;
  16407; 16406; 16406; 16405; 16405; 16405; 16404; 16404; 16403; 16403; 16403; 16402; 16402; 16401; 16401; 16401; 16400; 16400;
  16399; 16399; 16399; 16398; 16398; 16397; 16397; 16396; 16396; 16396; 16395; 16395; 16394; 16394; 16394; 16393; 16393; 16392;
  16392; 16392; 16391; 16391; 16390; 16390; 16390; 16389; 16389; 16388; 16388; 16388; 16387; 16387; 16386; 16386; 16386; 16385;
  16385; 16384; 16384; 16384; 16383; 16383; 16382; 16382; 16382; 16381; 16381; 16380; 16380; 16380; 16379; 16379; 16378; 16378;
  16378; 16377; 16377; 16376; 16376; 16376; 16375; 16375; 16374; 16374; 16374; 16373; 16373; 16372; 16372; 16372; 16371; 16371;
  16370; 16370; 16370; 16369; 16369; 16368; 16368; 16368; 16367; 16367; 16366; 16366; 16366; 16365; 16365; 16364; 16364; 16364;
  16363; 16363; 16362; 16362; 16361; 16361; 16361; 16360; 16360; 16359; 16359; 16359; 16358; 16358; 16357; 16357; 16357; 16356;
  16356; 16355; 16355; 16355; 16354; 16354; 16353; 16353; 16353; 16352; 16352; 16351; 16351; 16351; 16350; 16350; 16349; 16349;
  16349; 16348; 16348; 16347; 16347; 16347; 16346; 16346; 16345; 16345; 16345; 16344; 16344; 16343; 16343; 16343; 16342; 16342;
  16341; 16341; 16341; 16340; 16340; 16339; 16339; 16339; 16338; 16338; 16337; 16337; 16337; 16336; 16336; 16335; 16335; 16335;
  16334; 16334; 16333; 16333; 16333; 16332; 16332; 16331; 16331; 16331; 16330; 16330; 16329; 16329; 16329; 16328; 16328; 16327;
  16327; 16327; 16326; 16326; 16325; 16325; 16325; 16324; 16324; 16323; 16323; 16323; 16322; 16322; 16321; 16321; 16321; 16320;
  16320; 16319; 16319; 16319; 16318; 16318; 16317; 16317; 16317; 16316; 16316; 16315; 16315; 16315; 16314; 16314; 16313; 16313;
  16313; 16312; 16312; 16311; 16311; 16311; 16310; 16310; 16309; 16309; 16309; 16308; 16308; 16307; 16307; 16307; 16306; 16306;
  16305; 16305; 16305; 16304; 16304; 16303; 16303; 16303; 16302; 16302; 16301; 16301; 16301; 16300; 16300; 16299; 16299; 16299;
  16298; 16298; 16297; 16297; 16297; 16296; 16296; 16295; 16295; 16295; 16294; 16294; 16293; 16293; 16293; 16292; 16292; 16291;
  16291; 16291; 16290; 16290; 16289; 16289; 16289; 16288; 16288; 16287; 16287; 16287; 16286; 16286; 16285; 16285; 16285; 16284;
  16284; 16283; 16283; 16283; 16282; 16282; 16281; 16281; 16281; 16280; 16280; 16279; 16279; 16279; 16278; 16278; 16277; 16277;
  16277; 16276; 16276; 16275; 16275; 16275; 16274; 16274; 16273; 16273; 16273; 16272; 16272; 16271; 16271; 16271; 16270; 16270;
  16269; 16269; 16269; 16268; 16268; 16267; 16267; 16267; 16266; 16266; 16265; 16265; 16265; 16264; 16264; 16263; 16263; 16263;
  16262; 16262; 16261; 16261; 16261; 16260; 16260; 16259; 16259; 16259; 16258; 16258; 16257; 16257; 16257; 16256; 16256; 16255;
  16255; 16255; 16254; 16254; 16253; 16253; 16253; 16252; 16252; 16251; 16251; 16251; 16250; 16250; 16249; 16249; 16249; 16248;
  16248; 16247; 16247; 16247; 16246; 16246; 16245; 16245; 16245; 16244; 16244; 16243; 16243; 16243; 16242; 16242; 16241; 16241;
  16241; 16240; 16240; 16239; 16239; 16239; 16238; 16238; 16237; 16237; 16237; 16236; 16236; 16235; 16235; 16235; 16234; 16234;
  16233; 16233; 16233; 16232; 16232; 16231; 16231; 16231; 16230; 16230; 16229; 16229; 16229; 16228; 16228; 16227; 16227; 16227;
  16226; 16226; 16225; 16225; 16225; 16224; 16224; 16223; 16223; 16223; 16222; 16222; 16221; 16221; 16221; 16220; 16220; 16219].
Definition pow_lut_42 : list Z := [
  16219; 16219; 16218; 16218; 16217; 16217; 16217; 16216; 16216; 16215; 16215; 16215; 16214; 16214; 16213; 16213; 16213; 16212;
  16212; 16212; 16211; 16211; 16210; 16210; 16210; 16209; 16209; 16208; 16208; 16208; 16207; 16207; 16206; 16206; 16206; 16205;
  16205; 16204; 16204; 16204; 16203; 16203; 16202; 16202; 16202; 16201; 16201; 16200; 16200; 16200; 16199; 16199; 16198; 16198;
  16198; 16197; 16197; 16196; 16196; 16196; 16195; 16195; 16194; 16194; 16194; 16193; 16193; 16192; 16192; 16192; 16191; 16191;
  16190; 16190; 16190; 16189; 16189; 16188; 16188; 16188; 16187; 16187; 16186; 16186; 16186; 16185; 16185; 16184; 16184; 16184;
  16183; 16183; 16182; 16182; 16182; 16181; 16181; 16180; 16180; 16180; 16179; 16179; 16178; 16178; 16178; 16177; 16177; 16177;
  16176; 16176; 16175; 16175; 16175; 16174; 16174; 16173; 16173; 16173; 16172; 16172; 16171; 16171; 16171; 16170; 16170; 16169;
  16169; 16169; 16168; 16168; 16167; 16167; 16167; 16166; 16166; 16165; 16165; 16165; 16164; 16164; 16163; 16163; 16163; 16162;
  16162; 16161; 16161; 16161; 16160; 16160; 16159; 16159; 16159; 16158; 16158; 16157; 16157; 16157; 16156; 16156; 16155; 16155;
  16155; 16154; 16154; 16153; 16153; 16153; 16152; 16152; 16151; 16151; 16151; 16150; 16150; 16150; 16149; 16149; 16148; 16148;
  16148; 16147; 16147; 16146; 16146; 16146; 16145; 16145; 16144; 16144; 16144; 16143; 16143; 16142; 16142; 16142; 16141; 16141;
  16140; 16140; 16140; 16139; 16139; 16138; 16138; 16138; 16137; 16137; 16136; 16136; 16136; 16135; 16135; 16134; 16134; 16134;
  16133; 16133; 16132; 16132; 16132; 16131; 16131; 16130; 16130; 16130; 16129; 16129; 16129; 16128; 16128; 16127; 16127; 16127;
  16126; 16126; 16125; 16125; 16125; 16124; 16124; 16123; 16123; 16123; 16122; 16122; 16121; 16121; 16121; 16120; 16120; 16119;
  16119; 16119; 16118; 16118; 16117; 16117; 16117; 16116; 16116; 16115; 16115; 16115; 16114; 16114; 16113; 16113; 16113; 16112;
  16112; 16111; 16111; 16111; 16110; 16110; 16110; 16109; 16109; 16108; 16108; 16108; 16107; 16107; 16106; 16106; 16106; 16105;
  16105; 16104; 16104; 16104; 16103; 16103; 16102; 16102; 16102; 16101; 16101; 16100; 16100; 16100; 16099; 16099; 16098; 16098;
  16098; 16097; 16097; 16096; 16096; 16096; 16095; 16095; 16094; 16094; 16094; 16093; 16093; 16093; 16092; 16092; 16091; 16091;
  16091; 16090; 16090; 16089; 16089; 16089; 16088; 16088; 16087; 16087; 16087; 16086; 16086; 16085; 16085; 16085; 16084; 16084;
  16083; 16083; 16083; 16082; 16082; 16081; 16081; 16081; 16080; 16080; 16079; 16079; 16079; 16078; 16078; 16077; 16077; 16077;
  16076; 16076; 16076; 16075; 16075; 16074; 16074; 16074; 16073; 16073; 16072; 16072; 16072; 16071; 16071; 16070; 16070; 16070;
  16069; 16069; 16068; 16068; 16068; 16067; 16067; 16066; 16066; 16066; 16065; 16065; 16064; 16064; 16064; 16063; 16063; 16062;
  16062; 16062; 16061; 16061; 16061; 16060; 16060; 16059; 16059; 16059; 16058; 16058; 16057; 16057; 16057; 16056; 16056; 16055;
  16055; 16055; 16054; 16054; 16053; 16053; 16053; 16052; 16052; 16051; 16051; 16051; 16050; 16050; 16049; 16049; 16049; 16048;
  16048; 16048; 16047; 16047; 16046; 16046; 16046; 16045; 16045; 16044; 16044; 16044; 16043; 16043; 16042; 16042; 16042; 16041;
  16041; 16040; 16040; 16040; 16039; 16039; 16038; 16038; 16038; 16037; 16037; 16036; 16036; 16036; 16035; 16035; 16035; 16034;
  16034; 16033; 16033; 16033; 16032; 16032; 16031; 16031; 16031; 16030; 16030; 16029; 16029; 16029; 16028; 16028; 16027; 16027;
  16027; 16026; 16026; 16025; 16025; 16025; 16024; 16024; 16023; 16023; 16023; 16022; 16022; 16022; 16021; 16021; 16020; 16020;
  16020; 16019; 16019; 16018; 16018; 16018; 16017; 16017; 16016; 16016; 16016; 16015; 16015; 16014; 16014; 16014; 16013; 16013;
  16012; 16012; 16012; 16011; 16011; 16011; 16010; 16010; 16009; 16009; 16009; 16008; 16008; 16007; 16007; 16007; 16006; 16006;
  16005; 16005; 16005; 16004; 16004; 16003; 16003; 16003; 16002; 16002; 16001; 16001; 16001; 16000; 16000; 16000; 15999; 15999;
  15998; 15998; 15998; 15997; 15997; 15996; 15996; 15996; 15995; 15995; 15994; 15994; 15994; 15993; 15993; 15992; 15992; 15992;
  15991; 15991; 15990; 15990; 15990; 15989; 15989; 15989; 15988; 15988; 15987; 15987; 15987; 15986; 15986; 15985; 15985; 15985;
  15984; 15984; 15983; 15983; 15983; 15982; 15982; 15981; 15981; 15981; 15980; 15980; 15979; 15979; 15979; 15978; 15978; 15978;
  15977; 15977; 15976; 15976; 15976; 15975; 15975; 15974; 15974; 15974; 15973; 15973; 15972; 15972; 15972; 15971; 15971; 15970;
  15970; 15970; 15969; 15969; 15968; 15968; 15968; 15967; 15967; 15967; 15966; 15966; 15965; 15965; 15965; 15964; 15964; 15963;
  15963; 15963; 15962; 15962; 15961; 15961; 15961; 15960; 15960; 15959; 15959; 15959; 15958; 15958; 15958; 15957; 15957; 15956;
  15956; 15956; 15955; 15955; 15954; 15954; 15954; 15953; 15953; 15952; 15952; 15952; 15951; 15951; 15950; 15950; 15950; 15949;
  15949; 15949; 15948; 15948; 15947; 15947; 15947; 15946; 15946; 15945; 15945; 15945; 15944; 15944; 15943; 15943; 15943; 15942;
  15942; 15941; 15941; 15941; 15940; 15940; 15939; 15939; 15939; 15938; 15938; 15938; 15937; 15937; 15936; 15936; 15936; 15935;
  15935; 15934; 15934; 15934; 15933; 15933; 15932; 15932; 15932; 15931; 15931; 15930; 15930; 15930; 15929; 15929; 15929; 15928;
  15928; 15927; 15927; 15927; 15926; 15926; 15925; 15925; 15925; 15924; 15924; 15923; 15923; 15923; 15922; 15922; 15922; 15921;
  15921; 15920; 15920; 15920; 15919; 15919; 15918; 15918; 15918; 15917; 15917; 15916; 15916; 15916; 15915; 15915; 15914; 15914;
  15914; 15913; 15913; 15913; 15912; 15912; 15911; 15911; 15911; 15910; 15910; 15909; 15909; 15909; 15908; 15908; 15907; 15907;
  15907; 15906; 15906; 15905; 15905; 15905; 15904; 15904; 15904; 15903; 15903; 15902; 15902; 15902; 15901; 15901; 15900; 15900;
  15900; 15899; 15899; 15898; 15898; 15898; 15897; 15897; 15896; 15896; 15896; 15895; 15895; 15895; 15894; 15894; 15893; 15893;
  15893; 15892; 15892; 15891; 15891; 15891; 15890; 15890; 15889; 15889; 15889; 15888; 15888; 15888; 15887; 15887; 15886; 15886;
  15886; 15885; 15885; 15884; 15884; 15884; 15883; 15883; 15882; 15882; 15882; 15881; 15881; 15880; 15880; 15880; 15879; 15879;
  15879; 15878; 15878; 15877; 15877; 15877; 15876; 15876; 15875; 15875; 15875; 15874; 15874; 15873; 15873; 15873; 15872; 15872;
  15872; 15871; 15871; 15870; 15870; 15870; 15869; 15869; 15868; 15868; 15868; 15867; 15867; 15866; 15866; 15866; 15865; 15865].
Definition pow_lut_43 : list Z := [
  15865; 15864; 15864; 15863; 15863; 15863; 15862; 15862; 15861; 15861; 15861; 15860; 15860; 15859; 15859; 15859; 15858; 15858;
  15858; 15857; 15857; 15856; 15856; 15856; 15855; 15855; 15854; 15854; 15854; 15853; 15853; 15852; 15852; 15852; 15851; 15851;
  15850; 15850; 15850; 15849; 15849; 15849; 15848; 15848; 15847; 15847; 15847; 15846; 15846; 15845; 15845; 15845; 15844; 15844;
  15843; 15843; 15843; 15842; 15842; 15842; 15841; 15841; 15840; 15840; 15840; 15839; 15839; 15838; 15838; 15838; 15837; 15837;
  15836; 15836; 15836; 15835; 15835; 15835; 15834; 15834; 15833; 15833; 15833; 15832; 15832; 15831; 15831; 15831; 15830; 15830;
  15829; 15829; 15829; 15828; 15828; 15828; 15827; 15827; 15826; 15826; 15826; 15825; 15825; 15824; 15824; 15824; 15823; 15823;
  15822; 15822; 15822; 15821; 15821; 15821; 15820; 15820; 15819; 15819; 15819; 15818; 15818; 15817; 15817; 15817; 15816; 15816;
  15815; 15815; 15815; 15814; 15814; 15814; 15813; 15813; 15812; 15812; 15812; 15811; 15811; 15810; 15810; 15810; 15809; 15809;
  15809; 15808; 15808; 15807; 15807; 15807; 15806; 15806; 15805; 15805; 15805; 15804; 15804; 15803; 15803; 15803; 15802; 15802;
  15802; 15801; 15801; 15800; 15800; 15800; 15799; 15799; 15798; 15798; 15798; 15797; 15797; 15796; 15796; 15796; 15795; 15795;
  15795; 15794; 15794; 15793; 15793; 15793; 15792; 15792; 15791; 15791; 15791; 15790; 15790; 15789; 15789; 15789; 15788; 15788;
  15788; 15787; 15787; 15786; 15786; 15786; 15785; 15785; 15784; 15784; 15784; 15783; 15783; 15783; 15782; 15782; 15781; 15781;
  15781; 15780; 15780; 15779; 15779; 15779; 15778; 15778; 15777; 15777; 15777; 15776; 15776; 15776; 15775; 15775; 15774; 15774;
  15774; 15773; 15773; 15772; 15772; 15772; 15771; 15771; 15771; 15770; 15770; 15769; 15769; 15769; 15768; 15768; 15767; 15767;
  15767; 15766; 15766; 15765; 15765; 15765; 15764; 15764; 15764; 15763; 15763; 15762; 15762; 15762; 15761; 15761; 15760; 15760;
  15760; 15759; 15759; 15759; 15758; 15758; 15757; 15757; 15757; 15756; 15756; 15755; 15755; 15755; 15754; 15754; 15753; 15753;
  15753; 15752; 15752; 15752; 15751; 15751; 15750; 15750; 15750; 15749; 15749; 15748; 15748; 15748; 15747; 15747; 15747; 15746;
  15746; 15745; 15745; 15745; 15744; 15744; 15743; 15743; 15743; 15742; 15742; 15741; 15741; 15741; 15740; 15740; 15740; 15739;
  15739; 15738; 15738; 15738; 15737; 15737; 15736; 15736; 15736; 15735; 15735; 15735; 15734; 15734; 15733; 15733; 15733; 15732;
  15732; 15731; 15731; 15731; 15730; 15730; 15730; 15729; 15729; 15728; 15728; 15728; 15727; 15727; 15726; 15726; 15726; 15725;
  15725; 15724; 15724; 15724; 15723; 15723; 15723; 15722; 15722; 15721; 15721; 15721; 15720; 15720; 15719; 15719; 15719; 15718;
  15718; 15718; 15717; 15717; 15716; 15716; 15716; 15715; 15715; 15714; 15714; 15714; 15713; 15713; 15713; 15712; 15712; 15711;
  15711; 15711; 15710; 15710; 15709; 15709; 15709; 15708; 15708; 15708; 15707; 15707; 15706; 15706; 15706; 15705; 15705; 15704;
  15704; 15704; 15703; 15703; 15702; 15702; 15702; 15701; 15701; 15701; 15700; 15700; 15699; 15699; 15699; 15698; 15698; 15697;
  15697; 15697; 15696; 15696; 15696; 15695; 15695; 15694; 15694; 15694; 15693; 15693; 15692; 15692; 15692; 15691; 15691; 15691;
  15690; 15690; 15689; 15689; 15689; 15688; 15688; 15687; 15687; 15687; 15686; 15686; 15686; 15685; 15685; 15684; 15684; 15684;
  15683; 15683; 15682; 15682; 15682; 15681; 15681; 15681; 15680; 15680; 15679; 15679; 15679; 15678; 15678; 15677; 15677; 15677;
  15676; 15676; 15676; 15675; 15675; 15674; 15674; 15674; 15673; 15673; 15672; 15672; 15672; 15671; 15671; 15671; 15670; 15670;
  15669; 15669; 15669; 15668; 15668; 15667; 15667; 15667; 15666; 15666; 15666; 15665; 15665; 15664; 15664; 15664; 15663; 15663;
  15662; 15662; 15662; 15661; 15661; 15661; 15660; 15660; 15659; 15659; 15659; 15658; 15658; 15657; 15657; 15657; 15656; 15656;
  15656; 15655; 15655; 15654; 15654; 15654; 15653; 15653; 15652; 15652; 15652; 15651; 15651; 15651; 15650; 15650; 15649; 15649;
  15649; 15648; 15648; 15647; 15647; 15647; 15646; 15646; 15646; 15645; 15645; 15644; 15644; 15644; 15643; 15643; 15642; 15642;
  15642; 15641; 15641; 15641; 15640; 15640; 15639; 15639; 15639; 15638; 15638; 15637; 15637; 15637; 15636; 15636; 15636; 15635;
  15635; 15634; 15634; 15634; 15633; 15633; 15632; 15632; 15632; 15631; 15631; 15631; 15630; 15630; 15629; 15629; 15629; 15628;
  15628; 15627; 15627; 15627; 15626; 15626; 15626; 15625; 15625; 15624; 15624; 15624; 15623; 15623; 15622; 15622; 15622; 15621;
  15621; 15621; 15620; 15620; 15619; 15619; 15619; 15618; 15618; 15617; 15617; 15617; 15616; 15616; 15616; 15615; 15615; 15614;
  15614; 15614; 15613; 15613; 15613; 15612; 15612; 15611; 15611; 15611; 15610; 15610; 15609; 15609; 15609; 15608; 15608; 15608;
  15607; 15607; 15606; 15606; 15606; 15605; 15605; 15604; 15604; 15604; 15603; 15603; 15603; 15602; 15602; 15601; 15601; 15601;
  15600; 15600; 15599; 15599; 15599; 15598; 15598; 15598; 15597; 15597; 15596; 15596; 15596; 15595; 15595; 15594; 15594; 15594;
  15593; 15593; 15593; 15592; 15592; 15591; 15591; 15591; 15590; 15590; 15590; 15589; 15589; 15588; 15588; 15588; 15587; 15587;
  15586; 15586; 15586; 15585; 15585; 15585; 15584; 15584; 15583; 15583; 15583; 15582; 15582; 15581; 15581; 15581; 15580; 15580;
  15580; 15579; 15579; 15578; 15578; 15578; 15577; 15577; 15577; 15576; 15576; 15575; 15575; 15575; 15574; 15574; 15573; 15573;
  15573; 15572; 15572; 15572; 15571; 15571; 15570; 15570; 15570; 15569; 15569; 15568; 15568; 15568; 15567; 15567; 15567; 15566;
  15566; 15565; 15565; 15565; 15564; 15564; 15564; 15563; 15563; 15562; 15562; 15562; 15561; 15561; 15560; 15560; 15560; 15559;
  15559; 15559; 15558; 15558; 15557; 15557; 15557; 15556; 15556; 15555; 15555; 15555; 15554; 15554; 15554; 15553; 15553; 15552;
  15552; 15552; 15551; 15551; 15551; 15550; 15550; 15549; 15549; 15549; 15548; 15548; 15547; 15547; 15547; 15546; 15546; 15546;
  15545; 15545; 15544; 15544; 15544; 15543; 15543; 15543; 15542; 15542; 15541; 15541; 15541; 15540; 15540; 15539; 15539; 15539;
  15538; 15538; 15538; 15537; 15537; 15536; 15536; 15536; 15535; 15535; 15534; 15534; 15534; 15533; 15533; 15533; 15532; 15532;
  15531; 15531; 15531; 15530; 15530; 15530; 15529; 15529; 15528; 15528; 15528; 15527; 15527; 15526; 15526; 15526; 15525; 15525;
  15525; 15524; 15524; 15523; 15523; 15523; 15522; 15522; 15522; 15521; 15521; 15520; 15520; 15520; 15519; 15519; 15518; 15518].
Definition pow_lut_44 : list Z := [
  15518; 15517; 15517; 15517; 15516; 15516; 15515; 15515; 15515; 15514; 15514; 15514; 15513; 15513; 15512; 15512; 15512; 15511;
  15511; 15510; 15510; 15510; 15509; 15509; 15509; 15508; 15508; 15507; 15507; 15507; 15506; 15506; 15506; 15505; 15505; 15504;
  15504; 15504; 15503; 15503; 15502; 15502; 15502; 15501; 15501; 15501; 15500; 15500; 15499; 15499; 15499; 15498; 15498; 15498;
  15497; 15497; 15496; 15496; 15496; 15495; 15495; 15494; 15494; 15494; 15493; 15493; 15493; 15492; 15492; 15491; 15491; 15491;
  15490; 15490; 15490; 15489; 15489; 15488; 15488; 15488; 15487; 15487; 15486; 15486; 15486; 15485; 15485; 15485; 15484; 15484;
  15483; 15483; 15483; 15482; 15482; 15482; 15481; 15481; 15480; 15480; 15480; 15479; 15479; 15479; 15478; 15478; 15477; 15477;
  15477; 15476; 15476; 15475; 15475; 15475; 15474; 15474; 15474; 15473; 15473; 15472; 15472; 15472; 15471; 15471; 15471; 15470;
  15470; 15469; 15469; 15469; 15468; 15468; 15467; 15467; 15467; 15466; 15466; 15466; 15465; 15465; 15464; 15464; 15464; 15463;
  15463; 15463; 15462; 15462; 15461; 15461; 15461; 15460; 15460; 15460; 15459; 15459; 15458; 15458; 15458; 15457; 15457; 15456;
  15456; 15456; 15455; 15455; 15455; 15454; 15454; 15453; 15453; 15453; 15452; 15452; 15452; 15451; 15451; 15450; 15450; 15450;
  15449; 15449; 15449; 15448; 15448; 15447; 15447; 15447; 15446; 15446; 15445; 15445; 15445; 15444; 15444; 15444; 15443; 15443;
  15442; 15442; 15442; 15441; 15441; 15441; 15440; 15440; 15439; 15439; 15439; 15438; 15438; 15438; 15437; 15437; 15436; 15436;
  15436; 15435; 15435; 15434; 15434; 15434; 15433; 15433; 15433; 15432; 15432; 15431; 15431; 15431; 15430; 15430; 15430; 15429;
  15429; 15428; 15428; 15428; 15427; 15427; 15427; 15426; 15426; 15425; 15425; 15425; 15424; 15424; 15423; 15423; 15423; 15422;
  15422; 15422; 15421; 15421; 15420; 15420; 15420; 15419; 15419; 15419; 15418; 15418; 15417; 15417; 15417; 15416; 15416; 15416;
  15415; 15415; 15414; 15414; 15414; 15413; 15413; 15413; 15412; 15412; 15411; 15411; 15411; 15410; 15410; 15409; 15409; 15409;
  15408; 15408; 15408; 15407; 15407; 15406; 15406; 15406; 15405; 15405; 15405; 15404; 15404; 15403; 15403; 15403; 15402; 15402;
  15402; 15401; 15401; 15400; 15400; 15400; 15399; 15399; 15399; 15398; 15398; 15397; 15397; 15397; 15396; 15396; 15395; 15395;
  15395; 15394; 15394; 15394; 15393; 15393; 15392; 15392; 15392; 15391; 15391; 15391; 15390; 15390; 15389; 15389; 15389; 15388;
  15388; 15388; 15387; 15387; 15386; 15386; 15386; 15385; 15385; 15385; 15384; 15384; 15383; 15383; 15383; 15382; 15382; 15381;
  15381; 15381; 15380; 15380; 15380; 15379; 15379; 15378; 15378; 15378; 15377; 15377; 15377; 15376; 15376; 15375; 15375; 15375;
  15374; 15374; 15374; 15373; 15373; 15372; 15372; 15372; 15371; 15371; 15371; 15370; 15370; 15369; 15369; 15369; 15368; 15368;
  15368; 15367; 15367; 15366; 15366; 15366; 15365; 15365; 15365; 15364; 15364; 15363; 15363; 15363; 15362; 15362; 15361; 15361;
  15361; 15360; 15360; 15360; 15359; 15359; 15358; 15358; 15358; 15357; 15357; 15357; 15356; 15356; 15355; 15355; 15355; 15354;
  15354; 15354; 15353; 15353; 15352; 15352; 15352; 15351; 15351; 15351; 15350; 15350; 15349; 15349; 15349; 15348; 15348; 15348;
  15347; 15347; 15346; 15346; 15346; 15345; 15345; 15345; 15344; 15344; 15343; 15343; 15343; 15342; 15342; 15342; 15341; 15341;
  15340; 15340; 15340; 15339; 15339; 15338; 15338; 15338; 15337; 15337; 15337; 15336; 15336; 15335; 15335; 15335; 15334; 15334;
  15334; 15333; 15333; 15332; 15332; 15332; 15331; 15331; 15331; 15330; 15330; 15329; 15329; 15329; 15328; 15328; 15328; 15327;
  15327; 15326; 15326; 15326; 15325; 15325; 15325; 15324; 15324; 15323; 15323; 15323; 15322; 15322; 15322; 15321; 15321; 15320;
  15320; 15320; 15319; 15319; 15319; 15318; 15318; 15317; 15317; 15317; 15316; 15316; 15316; 15315; 15315; 15314; 15314; 15314;
  15313; 15313; 15313; 15312; 15312; 15311; 15311; 15311; 15310; 15310; 15310; 15309; 15309; 15308; 15308; 15308; 15307; 15307;
  15307; 15306; 15306; 15305; 15305; 15305; 15304; 15304; 15304; 15303; 15303; 15302; 15302; 15302; 15301; 15301; 15300; 15300;
  15300; 15299; 15299; 15299; 15298; 15298; 15297; 15297; 15297; 15296; 15296; 15296; 15295; 15295; 15294; 15294; 15294; 15293;
  15293; 15293; 15292; 15292; 15291; 15291; 15291; 15290; 15290; 15290; 15289; 15289; 15288; 15288; 15288; 15287; 15287; 15287;
  15286; 15286; 15285; 15285; 15285; 15284; 15284; 15284; 15283; 15283; 15282; 15282; 15282; 15281; 15281; 15281; 15280; 15280;
  15279; 15279; 15279; 15278; 15278; 15278; 15277; 15277; 15276; 15276; 15276; 15275; 15275; 15275; 15274; 15274; 15273; 15273;
  15273; 15272; 15272; 15272; 15271; 15271; 15270; 15270; 15270; 15269; 15269; 15269; 15268; 15268; 15267; 15267; 15267; 15266;
  15266; 15266; 15265; 15265; 15264; 15264; 15264; 15263; 15263; 15263; 15262; 15262; 15261; 15261; 15261; 15260; 15260; 15260;
  15259; 15259; 15258; 15258; 15258; 15257; 15257; 15257; 15256; 15256; 15255; 15255; 15255; 15254; 15254; 15254; 15253; 15253;
  15252; 15252; 15252; 15251; 15251; 15251; 15250; 15250; 15249; 15249; 15249; 15248; 15248; 15248; 15247; 15247; 15246; 15246;
  15246; 15245; 15245; 15245; 15244; 15244; 15243; 15243; 15243; 15242; 15242; 15242; 15241; 15241; 15240; 15240; 15240; 15239;
  15239; 15239; 15238; 15238; 15237; 15237; 15237; 15236; 15236; 15236; 15235; 15235; 15235; 15234; 15234; 15233; 15233; 15233;
  15232; 15232; 15232; 15231; 15231; 15230; 15230; 15230; 15229; 15229; 15229; 15228; 15228; 15227; 15227; 15227; 15226; 15226;
  15226; 15225; 15225; 15224; 15224; 15224; 15223; 15223; 15223; 15222; 15222; 15221; 15221; 15221; 15220; 15220; 15220; 15219;
  15219; 15218; 15218; 15218; 15217; 15217; 15217; 15216; 15216; 15215; 15215; 15215; 15214; 15214; 15214; 15213; 15213; 15212;
  15212; 15212; 15211; 15211; 15211; 15210; 15210; 15209; 15209; 15209; 15208; 15208; 15208; 15207; 15207; 15206; 15206; 15206;
  15205; 15205; 15205; 15204; 15204; 15203; 15203; 15203; 15202; 15202; 15202; 15201; 15201; 15200; 15200; 15200; 15199; 15199;
  15199; 15198; 15198; 15198; 15197; 15197; 15196; 15196; 15196; 15195; 15195; 15195; 15194; 15194; 15193; 15193; 15193; 15192;
  15192; 15192; 15191; 15191; 15190; 15190; 15190; 15189; 15189; 15189; 15188; 15188; 15187; 15187; 15187; 15186; 15186; 15186;
  15185; 15185; 15184; 15184; 15184; 15183; 15183; 15183; 15182; 15182; 15181; 15181; 15181; 15180; 15180; 15180; 15179; 15179].
Definition pow_lut_45 : list Z := [
  15178; 15178; 15178; 15177; 15177; 15177; 15176; 15176; 15176; 15175; 15175; 15174; 15174; 15174; 15173; 15173; 15173; 15172;
  15172; 15171; 15171; 15171; 15170; 15170; 15170; 15169; 15169; 15168; 15168; 15168; 15167; 15167; 15167; 15166; 15166; 15165;
  15165; 15165; 15164; 15164; 15164; 15163; 15163; 15162; 15162; 15162; 15161; 15161; 15161; 15160; 15160; 15159; 15159; 15159;
  15158; 15158; 15158; 15157; 15157; 15157; 15156; 15156; 15155; 15155; 15155; 15154; 15154; 15154; 15153; 15153; 15152; 15152;
  15152; 15151; 15151; 15151; 15150; 15150; 15149; 15149; 15149; 15148; 15148; 15148; 15147; 15147; 15146; 15146; 15146; 15145;
  15145; 15145; 15144; 15144; 15143; 15143; 15143; 15142; 15142; 15142; 15141; 15141; 15141; 15140; 15140; 15139; 15139; 15139;
  15138; 15138; 15138; 15137; 15137; 15136; 15136; 15136; 15135; 15135; 15135; 15134; 15134; 15133; 15133; 15133; 15132; 15132;
  15132; 15131; 15131; 15130; 15130; 15130; 15129; 15129; 15129; 15128; 15128; 15128; 15127; 15127; 15126; 15126; 15126; 15125;
  15125; 15125; 15124; 15124; 15123; 15123; 15123; 15122; 15122; 15122; 15121; 15121; 15120; 15120; 15120; 15119; 15119; 15119;
  15118; 15118; 15117; 15117; 15117; 15116; 15116; 15116; 15115; 15115; 15115; 15114; 15114; 15113; 15113; 15113; 15112; 15112;
  15112; 15111; 15111; 15110; 15110; 15110; 15109; 15109; 15109; 15108; 15108; 15107; 15107; 15107; 15106; 15106; 15106; 15105;
  15105; 15104; 15104; 15104; 15103; 15103; 15103; 15102; 15102; 15102; 15101; 15101; 15100; 15100; 15100; 15099; 15099; 15099;
  15098; 15098; 15097; 15097; 15097; 15096; 15096; 15096; 15095; 15095; 15094; 15094; 15094; 15093; 15093; 15093; 15092; 15092;
  15092; 15091; 15091; 15090; 15090; 15090; 15089; 15089; 15089; 15088; 15088; 15087; 15087; 15087; 15086; 15086; 15086; 15085;
  15085; 15084; 15084; 15084; 15083; 15083; 15083; 15082; 15082; 15082; 15081; 15081; 15080; 15080; 15080; 15079; 15079; 15079;
  15078; 15078; 15077; 15077; 15077; 15076; 15076; 15076; 15075; 15075; 15074; 15074; 15074; 15073; 15073; 15073; 15072; 15072;
  15072; 15071; 15071; 15070; 15070; 15070; 15069; 15069; 15069; 15068; 15068; 15067; 15067; 15067; 15066; 15066; 15066; 15065;
  15065; 15064; 15064; 15064; 15063; 15063; 15063; 15062; 15062; 15062; 15061; 15061; 15060; 15060; 15060; 15059; 15059; 15059;
  15058; 15058; 15057; 15057; 15057; 15056; 15056; 15056; 15055; 15055; 15054; 15054; 15054; 15053; 15053; 15053; 15052; 15052;
  15052; 15051; 15051; 15050; 15050; 15050; 15049; 15049; 15049; 15048; 15048; 15047; 15047; 15047; 15046; 15046; 15046; 15045;
  15045; 15045; 15044; 15044; 15043; 15043; 15043; 15042; 15042; 15042; 15041; 15041; 15040; 15040; 15040; 15039; 15039; 15039;
  15038; 15038; 15037; 15037; 15037; 15036; 15036; 15036; 15035; 15035; 15035; 15034; 15034; 15033; 15033; 15033; 15032; 15032;
  15032; 15031; 15031; 15030; 15030; 15030; 15029; 15029; 15029; 15028; 15028; 15028; 15027; 15027; 15026; 15026; 15026; 15025;
  15025; 15025; 15024; 15024; 15023; 15023; 15023; 15022; 15022; 15022; 15021; 15021; 15021; 15020; 15020; 15019; 15019; 15019;
  15018; 15018; 15018; 15017; 15017; 15016; 15016; 15016; 15015; 15015; 15015; 15014; 15014; 15014; 15013; 15013; 15012; 15012;
  15012; 15011; 15011; 15011; 15010; 15010; 15009; 15009; 15009; 15008; 15008; 15008; 15007; 15007; 15007; 15006; 15006; 15005;
  15005; 15005; 15004; 15004; 15004; 15003; 15003; 15002; 15002; 15002; 15001; 15001; 15001; 15000; 15000; 15000; 14999; 14999;
  14998; 14998; 14998; 14997; 14997; 14997; 14996; 14996; 14995; 14995; 14995; 14994; 14994; 14994; 14993; 14993; 14993; 14992;
  14992; 14991; 14991; 14991; 14990; 14990; 14990; 14989; 14989; 14988; 14988; 14988; 14987; 14987; 14987; 14986; 14986; 14986;
  14985; 14985; 14984; 14984; 14984; 14983; 14983; 14983; 14982; 14982; 14981; 14981; 14981; 14980; 14980; 14980; 14979; 14979;
  14979; 14978; 14978; 14977; 14977; 14977; 14976; 14976; 14976; 14975; 14975; 14974; 14974; 14974; 14973; 14973; 14973; 14972;
  14972; 14972; 14971; 14971; 14970; 14970; 14970; 14969; 14969; 14969; 14968; 14968; 14967; 14967; 14967; 14966; 14966; 14966;
  14965; 14965; 14965; 14964; 14964; 14963; 14963; 14963; 14962; 14962; 14962; 14961; 14961; 14961; 14960; 14960; 14959; 14959;
  14959; 14958; 14958; 14958; 14957; 14957; 14956; 14956; 14956; 14955; 14955; 14955; 14954; 14954; 14954; 14953; 14953; 14952;
  14952; 14952; 14951; 14951; 14951; 14950; 14950; 14949; 14949; 14949; 14948; 14948; 14948; 14947; 14947; 14947; 14946; 14946;
  14945; 14945; 14945; 14944; 14944; 14944; 14943; 14943; 14943; 14942; 14942; 14941; 14941; 14941; 14940; 14940; 14940; 14939;
  14939; 14938; 14938; 14938; 14937; 14937; 14937; 14936; 14936; 14936; 14935; 14935; 14934; 14934; 14934; 14933; 14933; 14933;
  14932; 14932; 14932; 14931; 14931; 14930; 14930; 14930; 14929; 14929; 14929; 14928; 14928; 14927; 14927; 14927; 14926; 14926;
  14926; 14925; 14925; 14925; 14924; 14924; 14923; 14923; 14923; 14922; 14922; 14922; 14921; 14921; 14921; 14920; 14920; 14919;
  14919; 14919; 14918; 14918; 14918; 14917; 14917; 14916; 14916; 14916; 14915; 14915; 14915; 14914; 14914; 14914; 14913; 14913;
  14912; 14912; 14912; 14911; 14911; 14911; 14910; 14910; 14910; 14909; 14909; 14908; 14908; 14908; 14907; 14907; 14907; 14906;
  14906; 14905; 14905; 14905; 14904; 14904; 14904; 14903; 14903; 14903; 14902; 14902; 14901; 14901; 14901; 14900; 14900; 14900;
  14899; 14899; 14899; 14898; 14898; 14897; 14897; 14897; 14896; 14896; 14896; 14895; 14895; 14895; 14894; 14894; 14893; 14893;
  14893; 14892; 14892; 14892; 14891; 14891; 14890; 14890; 14890; 14889; 14889; 14889; 14888; 14888; 14888; 14887; 14887; 14886;
  14886; 14886; 14885; 14885; 14885; 14884; 14884; 14884; 14883; 14883; 14882; 14882; 14882; 14881; 14881; 14881; 14880; 14880;
  14880; 14879; 14879; 14878; 14878; 14878; 14877; 14877; 14877; 14876; 14876; 14876; 14875; 14875; 14874; 14874; 14874; 14873;
  14873; 14873; 14872; 14872; 14871; 14871; 14871; 14870; 14870; 14870; 14869; 14869; 14869; 14868; 14868; 14867; 14867; 14867;
  14866; 14866; 14866; 14865; 14865; 14865; 14864; 14864; 14863; 14863; 14863; 14862; 14862; 14862; 14861; 14861; 14861; 14860;
  14860; 14859; 14859; 14859; 14858; 14858; 14858; 14857; 14857; 14857; 14856; 14856; 14855; 14855; 14855; 14854; 14854; 14854;
  14853; 14853; 14853; 14852; 14852; 14851; 14851; 14851; 14850; 14850; 14850; 14849; 14849; 14848; 14848; 14848; 14847; 14847].
Definition pow_lut_46 : list Z := [
  14847; 14846; 14846; 14846; 14845; 14845; 14844; 14844; 14844; 14843; 14843; 14843; 14842; 14842; 14842; 14841; 14841; 14840;
  14840; 14840; 14839; 14839; 14839; 14838; 14838; 14838; 14837; 14837; 14836; 14836; 14836; 14835; 14835; 14835; 14834; 14834;
  14834; 14833; 14833; 14832; 14832; 14832; 14831; 14831; 14831; 14830; 14830; 14830; 14829; 14829; 14828; 14828; 14828; 14827;
  14827; 14827; 14826; 14826; 14826; 14825; 14825; 14824; 14824; 14824; 14823; 14823; 14823; 14822; 14822; 14822; 14821; 14821;
  14820; 14820; 14820; 14819; 14819; 14819; 14818; 14818; 14818; 14817; 14817; 14816; 14816; 14816; 14815; 14815; 14815; 14814;
  14814; 14814; 14813; 14813; 14812; 14812; 14812; 14811; 14811; 14811; 14810; 14810; 14810; 14809; 14809; 14808; 14808; 14808;
  14807; 14807; 14807; 14806; 14806; 14806; 14805; 14805; 14804; 14804; 14804; 14803; 14803; 14803; 14802; 14802; 14802; 14801;
  14801; 14800; 14800; 14800; 14799; 14799; 14799; 14798; 14798; 14798; 14797; 14797; 14796; 14796; 14796; 14795; 14795; 14795;
  14794; 14794; 14794; 14793; 14793; 14792; 14792; 14792; 14791; 14791; 14791; 14790; 14790; 14790; 14789; 14789; 14788; 14788;
  14788; 14787; 14787; 14787; 14786; 14786; 14786; 14785; 14785; 14784; 14784; 14784; 14783; 14783; 14783; 14782; 14782; 14782;
  14781; 14781; 14780; 14780; 14780; 14779; 14779; 14779; 14778; 14778; 14778; 14777; 14777; 14776; 14776; 14776; 14775; 14775;
  14775; 14774; 14774; 14774; 14773; 14773; 14772; 14772; 14772; 14771; 14771; 14771; 14770; 14770; 14770; 14769; 14769; 14768;
  14768; 14768; 14767; 14767; 14767; 14766; 14766; 14766; 14765; 14765; 14764; 14764; 14764; 14763; 14763; 14763; 14762; 14762;
  14762; 14761; 14761; 14761; 14760; 14760; 14759; 14759; 14759; 14758; 14758; 14758; 14757; 14757; 14757; 14756; 14756; 14755;
  14755; 14755; 14754; 14754; 14754; 14753; 14753; 14753; 14752; 14752; 14751; 14751; 14751; 14750; 14750; 14750; 14749; 14749;
  14749; 14748; 14748; 14747; 14747; 14747; 14746; 14746; 14746; 14745; 14745; 14745; 14744; 14744; 14743; 14743; 14743; 14742;
  14742; 14742; 14741; 14741; 14741; 14740; 14740; 14740; 14739; 14739; 14738; 14738; 14738; 14737; 14737; 14737; 14736; 14736;
  14736; 14735; 14735; 14734; 14734; 14734; 14733; 14733; 14733; 14732; 14732; 14732; 14731; 14731; 14730; 14730; 14730; 14729;
  14729; 14729; 14728; 14728; 14728; 14727; 14727; 14726; 14726; 14726; 14725; 14725; 14725; 14724; 14724; 14724; 14723; 14723;
  14722; 14722; 14722; 14721; 14721; 14721; 14720; 14720; 14720; 14719; 14719; 14719; 14718; 14718; 14717; 14717; 14717; 14716;
  14716; 14716; 14715; 14715; 14715; 14714; 14714; 14713; 14713; 14713; 14712; 14712; 14712; 14711; 14711; 14711; 14710; 14710;
  14709; 14709; 14709; 14708; 14708; 14708; 14707; 14707; 14707; 14706; 14706; 14706; 14705; 14705; 14704; 14704; 14704; 14703;
  14703; 14703; 14702; 14702; 14702; 14701; 14701; 14700; 14700; 14700; 14699; 14699; 14699; 14698; 14698; 14698; 14697; 14697;
  14696; 14696; 14696; 14695; 14695; 14695; 14694; 14694; 14694; 14693; 14693; 14693; 14692; 14692; 14691; 14691; 14691; 14690;
  14690; 14690; 14689; 14689; 14689; 14688; 14688; 14687; 14687; 14687; 14686; 14686; 14686; 14685; 14685; 14685; 14684; 14684;
  14683; 14683; 14683; 14682; 14682; 14682; 14681; 14681; 14681; 14680; 14680; 14680; 14679; 14679; 14678; 14678; 14678; 14677;
  14677; 14677; 14676; 14676; 14676; 14675; 14675; 14674; 14674; 14674; 14673; 14673; 14673; 14672; 14672; 14672; 14671; 14671;
  14671; 14670; 14670; 14669; 14669; 14669; 14668; 14668; 14668; 14667; 14667; 14667; 14666; 14666; 14665; 14665; 14665; 14664;
  14664; 14664; 14663; 14663; 14663; 14662; 14662; 14662; 14661; 14661; 14660; 14660; 14660; 14659; 14659; 14659; 14658; 14658;
  14658; 14657; 14657; 14656; 14656; 14656; 14655; 14655; 14655; 14654; 14654; 14654; 14653; 14653; 14653; 14652; 14652; 14651;
  14651; 14651; 14650; 14650; 14650; 14649; 14649; 14649; 14648; 14648; 14647; 14647; 14647; 14646; 14646; 14646; 14645; 14645;
  14645; 14644; 14644; 14644; 14643; 14643; 14642; 14642; 14642; 14641; 14641; 14641; 14640; 14640; 14640; 14639; 14639; 14638;
  14638; 14638; 14637; 14637; 14637; 14636; 14636; 14636; 14635; 14635; 14635; 14634; 14634; 14633; 14633; 14633; 14632; 14632;
  14632; 14631; 14631; 14631; 14630; 14630; 14630; 14629; 14629; 14628; 14628; 14628; 14627; 14627; 14627; 14626; 14626; 14626;
  14625; 14625; 14624; 14624; 14624; 14623; 14623; 14623; 14622; 14622; 14622; 14621; 14621; 14621; 14620; 14620; 14619; 14619;
  14619; 14618; 14618; 14618; 14617; 14617; 14617; 14616; 14616; 14616; 14615; 14615; 14614; 14614; 14614; 14613; 14613; 14613;
  14612; 14612; 14612; 14611; 14611; 14610; 14610; 14610; 14609; 14609; 14609; 14608; 14608; 14608; 14607; 14607; 14607; 14606;
  14606; 14605; 14605; 14605; 14604; 14604; 14604; 14603; 14603; 14603; 14602; 14602; 14602; 14601; 14601; 14600; 14600; 14600;
  14599; 14599; 14599; 14598; 14598; 14598; 14597; 14597; 14596; 14596; 14596; 14595; 14595; 14595; 14594; 14594; 14594; 14593;
  14593; 14593; 14592; 14592; 14591; 14591; 14591; 14590; 14590; 14590; 14589; 14589; 14589; 14588; 14588; 14588; 14587; 14587;
  14586; 14586; 14586; 14585; 14585; 14585; 14584; 14584; 14584; 14583; 14583; 14583; 14582; 14582; 14581; 14581; 14581; 14580;
  14580; 14580; 14579; 14579; 14579; 14578; 14578; 14578; 14577; 14577; 14576; 14576; 14576; 14575; 14575; 14575; 14574; 14574;
  14574; 14573; 14573; 14572; 14572; 14572; 14571; 14571; 14571; 14570; 14570; 14570; 14569; 14569; 14569; 14568; 14568; 14567;
  14567; 14567; 14566; 14566; 14566; 14565; 14565; 14565; 14564; 14564; 14564; 14563; 14563; 14562; 14562; 14562; 14561; 14561;
  14561; 14560; 14560; 14560; 14559; 14559; 14559; 14558; 14558; 14557; 14557; 14557; 14556; 14556; 14556; 14555; 14555; 14555;
  14554; 14554; 14554; 14553; 14553; 14552; 14552; 14552; 14551; 14551; 14551; 14550; 14550; 14550; 14549; 14549; 14549; 14548;
  14548; 14547; 14547; 14547; 14546; 14546; 14546; 14545; 14545; 14545; 14544; 14544; 14544; 14543; 14543; 14542; 14542; 14542;
  14541; 14541; 14541; 14540; 14540; 14540; 14539; 14539; 14539; 14538; 14538; 14537; 14537; 14537; 14536; 14536; 14536; 14535;
  14535; 14535; 14534; 14534; 14534; 14533; 14533; 14532; 14532; 14532; 14531; 14531; 14531; 14530; 14530; 14530; 14529; 14529;
  14529; 14528; 14528; 14527; 14527; 14527; 14526; 14526; 14526; 14525; 14525; 14525; 14524; 14524; 14524; 14523; 14523; 14522].
Definition pow_lut_47 : list Z := [
  14522; 14522; 14521; 14521; 14521; 14520; 14520; 14520; 14519; 14519; 14519; 14518; 14518; 14517; 14517; 14517; 14516; 14516;
  14516; 14515; 14515; 14515; 14514; 14514; 14514; 14513; 14513; 14512; 14512; 14512; 14511; 14511; 14511; 14510; 14510; 14510;
  14509; 14509; 14509; 14508; 14508; 14508; 14507; 14507; 14506; 14506; 14506; 14505; 14505; 14505; 14504; 14504; 14504; 14503;
  14503; 14503; 14502; 14502; 14501; 14501; 14501; 14500; 14500; 14500; 14499; 14499; 14499; 14498; 14498; 14498; 14497; 14497;
  14496; 14496; 14496; 14495; 14495; 14495; 14494; 14494; 14494; 14493; 14493; 14493; 14492; 14492; 14491; 14491; 14491; 14490;
  14490; 14490; 14489; 14489; 14489; 14488; 14488; 14488; 14487; 14487; 14486; 14486; 14486; 14485; 14485; 14485; 14484; 14484;
  14484; 14483; 14483; 14483; 14482; 14482; 14482; 14481; 14481; 14480; 14480; 14480; 14479; 14479; 14479; 14478; 14478; 14478;
  14477; 14477; 14477; 14476; 14476; 14475; 14475; 14475; 14474; 14474; 14474; 14473; 14473; 14473; 14472; 14472; 14472; 14471;
  14471; 14470; 14470; 14470; 14469; 14469; 14469; 14468; 14468; 14468; 14467; 14467; 14467; 14466; 14466; 14466; 14465; 14465;
  14464; 14464; 14464; 14463; 14463; 14463; 14462; 14462; 14462; 14461; 14461; 14461; 14460; 14460; 14459; 14459; 14459; 14458;
  14458; 14458; 14457; 14457; 14457; 14456; 14456; 14456; 14455; 14455; 14455; 14454; 14454; 14453; 14453; 14453; 14452; 14452;
  14452; 14451; 14451; 14451; 14450; 14450; 14450; 14449; 14449; 14448; 14448; 14448; 14447; 14447; 14447; 14446; 14446; 14446;
  14445; 14445; 14445; 14444; 14444; 14444; 14443; 14443; 14442; 14442; 14442; 14441; 14441; 14441; 14440; 14440; 14440; 14439;
  14439; 14439; 14438; 14438; 14437; 14437; 14437; 14436; 14436; 14436; 14435; 14435; 14435; 14434; 14434; 14434; 14433; 14433;
  14433; 14432; 14432; 14431; 14431; 14431; 14430; 14430; 14430; 14429; 14429; 14429; 14428; 14428; 14428; 14427; 14427; 14426;
  14426; 14426; 14425; 14425; 14425; 14424; 14424; 14424; 14423; 14423; 14423; 14422; 14422; 14422; 14421; 14421; 14420; 14420;
  14420; 14419; 14419; 14419; 14418; 14418; 14418; 14417; 14417; 14417; 14416; 14416; 14416; 14415; 14415; 14414; 14414; 14414;
  14413; 14413; 14413; 14412; 14412; 14412; 14411; 14411; 14411; 14410; 14410; 14409; 14409; 14409; 14408; 14408; 14408; 14407;
  14407; 14407; 14406; 14406; 14406; 14405; 14405; 14405; 14404; 14404; 14403; 14403; 14403; 14402; 14402; 14402; 14401; 14401;
  14401; 14400; 14400; 14400; 14399; 14399; 14399; 14398; 14398; 14397; 14397; 14397; 14396; 14396; 14396; 14395; 14395; 14395;
  14394; 14394; 14394; 14393; 14393; 14393; 14392; 14392; 14391; 14391; 14391; 14390; 14390; 14390; 14389; 14389; 14389; 14388;
  14388; 14388; 14387; 14387; 14387; 14386; 14386; 14385; 14385; 14385; 14384; 14384; 14384; 14383; 14383; 14383; 14382; 14382;
  14382; 14381; 14381; 14381; 14380; 14380; 14379; 14379; 14379; 14378; 14378; 14378; 14377; 14377; 14377; 14376; 14376; 14376;
  14375; 14375; 14375; 14374; 14374; 14373; 14373; 14373; 14372; 14372; 14372; 14371; 14371; 14371; 14370; 14370; 14370; 14369;
  14369; 14369; 14368; 14368; 14367; 14367; 14367; 14366; 14366; 14366; 14365; 14365; 14365; 14364; 14364; 14364; 14363; 14363;
  14363; 14362; 14362; 14361; 14361; 14361; 14360; 14360; 14360; 14359; 14359; 14359; 14358; 14358; 14358; 14357; 14357; 14357;
  14356; 14356; 14355; 14355; 14355; 14354; 14354; 14354; 14353; 14353; 14353; 14352; 14352; 14352; 14351; 14351; 14351; 14350;
  14350; 14349; 14349; 14349; 14348; 14348; 14348; 14347; 14347; 14347; 14346; 14346; 14346; 14345; 14345; 14345; 14344; 14344;
  14343; 14343; 14343; 14342; 14342; 14342; 14341; 14341; 14341; 14340; 14340; 14340; 14339; 14339; 14339; 14338; 14338; 14337;
  14337; 14337; 14336; 14336; 14336; 14335; 14335; 14335; 14334; 14334; 14334; 14333; 14333; 14333; 14332; 14332; 14332; 14331;
  14331; 14330; 14330; 14330; 14329; 14329; 14329; 14328; 14328; 14328; 14327; 14327; 14327; 14326; 14326; 14326; 14325; 14325;
  14324; 14324; 14324; 14323; 14323; 14323; 14322; 14322; 14322; 14321; 14321; 14321; 14320; 14320; 14320; 14319; 14319; 14318;
  14318; 14318; 14317; 14317; 14317; 14316; 14316; 14316; 14315; 14315; 14315; 14314; 14314; 14314; 14313; 14313; 14313; 14312;
  14312; 14311; 14311; 14311; 14310; 14310; 14310; 14309; 14309; 14309; 14308; 14308; 14308; 14307; 14307; 14307; 14306; 14306;
  14305; 14305; 14305; 14304; 14304; 14304; 14303; 14303; 14303; 14302; 14302; 14302; 14301; 14301; 14301; 14300; 14300; 14300;
  14299; 14299; 14298; 14298; 14298; 14297; 14297; 14297; 14296; 14296; 14296; 14295; 14295; 14295; 14294; 14294; 14294; 14293;
  14293; 14292; 14292; 14292; 14291; 14291; 14291; 14290; 14290; 14290; 14289; 14289; 14289; 14288; 14288; 14288; 14287; 14287;
  14287; 14286; 14286; 14285; 14285; 14285; 14284; 14284; 14284; 14283; 14283; 14283; 14282; 14282; 14282; 14281; 14281; 14281;
  14280; 14280; 14280; 14279; 14279; 14278; 14278; 14278; 14277; 14277; 14277; 14276; 14276; 14276; 14275; 14275; 14275; 14274;
  14274; 14274; 14273; 14273; 14272; 14272; 14272; 14271; 14271; 14271; 14270; 14270; 14270; 14269; 14269; 14269; 14268; 14268;
  14268; 14267; 14267; 14267; 14266; 14266; 14265; 14265; 14265; 14264; 14264; 14264; 14263; 14263; 14263; 14262; 14262; 14262;
  14261; 14261; 14261; 14260; 14260; 14260; 14259; 14259; 14258; 14258; 14258; 14257; 14257; 14257; 14256; 14256; 14256; 14255;
  14255; 14255; 14254; 14254; 14254; 14253; 14253; 14253; 14252; 14252; 14251; 14251; 14251; 14250; 14250; 14250; 14249; 14249;
  14249; 14248; 14248; 14248; 14247; 14247; 14247; 14246; 14246; 14246; 14245; 14245; 14244; 14244; 14244; 14243; 14243; 14243;
  14242; 14242; 14242; 14241; 14241; 14241; 14240; 14240; 14240; 14239; 14239; 14239; 14238; 14238; 14237; 14237; 14237; 14236;
  14236; 14236; 14235; 14235; 14235; 14234; 14234; 14234; 14233; 14233; 14233; 14232; 14232; 14232; 14231; 14231; 14230; 14230;
  14230; 14229; 14229; 14229; 14228; 14228; 14228; 14227; 14227; 14227; 14226; 14226; 14226; 14225; 14225; 14225; 14224; 14224;
  14224; 14223; 14223; 14222; 14222; 14222; 14221; 14221; 14221; 14220; 14220; 14220; 14219; 14219; 14219; 14218; 14218; 14218;
  14217; 14217; 14217; 14216; 14216; 14215; 14215; 14215; 14214; 14214; 14214; 14213; 14213; 14213; 14212; 14212; 14212; 14211;
  14211; 14211; 14210; 14210; 14210; 14209; 14209; 14208; 14208; 14208; 14207; 14207; 14207; 14206; 14206; 14206; 14205; 14205].
Definition pow_lut_48 : list Z := [
  14205; 14204; 14204; 14204; 14203; 14203; 14203; 14202; 14202; 14202; 14201; 14201; 14200; 14200; 14200; 14199; 14199; 14199;
  14198; 14198; 14198; 14197; 14197; 14197; 14196; 14196; 14196; 14195; 14195; 14195; 14194; 14194; 14193; 14193; 14193; 14192;
  14192; 14192; 14191; 14191; 14191; 14190; 14190; 14190; 14189; 14189; 14189; 14188; 14188; 14188; 14187; 14187; 14187; 14186;
  14186; 14185; 14185; 14185; 14184; 14184; 14184; 14183; 14183; 14183; 14182; 14182; 14182; 14181; 14181; 14181; 14180; 14180;
  14180; 14179; 14179; 14179; 14178; 14178; 14177; 14177; 14177; 14176; 14176; 14176; 14175; 14175; 14175; 14174; 14174; 14174;
  14173; 14173; 14173; 14172; 14172; 14172; 14171; 14171; 14171; 14170; 14170; 14169; 14169; 14169; 14168; 14168; 14168; 14167;
  14167; 14167; 14166; 14166; 14166; 14165; 14165; 14165; 14164; 14164; 14164; 14163; 14163; 14163; 14162; 14162; 14161; 14161;
  14161; 14160; 14160; 14160; 14159; 14159; 14159; 14158; 14158; 14158; 14157; 14157; 14157; 14156; 14156; 14156; 14155; 14155;
  14155; 14154; 14154; 14153; 14153; 14153; 14152; 14152; 14152; 14151; 14151; 14151; 14150; 14150; 14150; 14149; 14149; 14149;
  14148; 14148; 14148; 14147; 14147; 14147; 14146; 14146; 14145; 14145; 14145; 14144; 14144; 14144; 14143; 14143; 14143; 14142;
  14142; 14142; 14141; 14141; 14141; 14140; 14140; 14140; 14139; 14139; 14139; 14138; 14138; 14137; 14137; 14137; 14136; 14136;
  14136; 14135; 14135; 14135; 14134; 14134; 14134; 14133; 14133; 14133; 14132; 14132; 14132; 14131; 14131; 14131; 14130; 14130;
  14130; 14129; 14129; 14128; 14128; 14128; 14127; 14127; 14127; 14126; 14126; 14126; 14125; 14125; 14125; 14124; 14124; 14124;
  14123; 14123; 14123; 14122; 14122; 14122; 14121; 14121; 14120; 14120; 14120; 14119; 14119; 14119; 14118; 14118; 14118; 14117;
  14117; 14117; 14116; 14116; 14116; 14115; 14115; 14115; 14114; 14114; 14114; 14113; 14113; 14113; 14112; 14112; 14111; 14111;
  14111; 14110; 14110; 14110; 14109; 14109; 14109; 14108; 14108; 14108; 14107; 14107; 14107; 14106; 14106; 14106; 14105; 14105;
  14105; 14104; 14104; 14104; 14103; 14103; 14102; 14102; 14102; 14101; 14101; 14101; 14100; 14100; 14100; 14099; 14099; 14099;
  14098; 14098; 14098; 14097; 14097; 14097; 14096; 14096; 14096; 14095; 14095; 14095; 14094; 14094; 14093; 14093; 14093; 14092;
  14092; 14092; 14091; 14091; 14091; 14090; 14090; 14090; 14089; 14089; 14089; 14088; 14088; 14088; 14087; 14087; 14087; 14086;
  14086; 14086; 14085; 14085; 14084; 14084; 14084; 14083; 14083; 14083; 14082; 14082; 14082; 14081; 14081; 14081; 14080; 14080;
  14080; 14079; 14079; 14079; 14078; 14078; 14078; 14077; 14077; 14077; 14076; 14076; 14075; 14075; 14075; 14074; 14074; 14074;
  14073; 14073; 14073; 14072; 14072; 14072; 14071; 14071; 14071; 14070; 14070; 14070; 14069; 14069; 14069; 14068; 14068; 14068;
  14067; 14067; 14066; 14066; 14066; 14065; 14065; 14065; 14064; 14064; 14064; 14063; 14063; 14063; 14062; 14062; 14062; 14061;
  14061; 14061; 14060; 14060; 14060; 14059; 14059; 14059; 14058; 14058; 14058; 14057; 14057; 14056; 14056; 14056; 14055; 14055;
  14055; 14054; 14054; 14054; 14053; 14053; 14053; 14052; 14052; 14052; 14051; 14051; 14051; 14050; 14050; 14050; 14049; 14049;
  14049; 14048; 14048; 14048; 14047; 14047; 14046; 14046; 14046; 14045; 14045; 14045; 14044; 14044; 14044; 14043; 14043; 14043;
  14042; 14042; 14042; 14041; 14041; 14041; 14040; 14040; 14040; 14039; 14039; 14039; 14038; 14038; 14038; 14037; 14037; 14036;
  14036; 14036; 14035; 14035; 14035; 14034; 14034; 14034; 14033; 14033; 14033; 14032; 14032; 14032; 14031; 14031; 14031; 14030;
  14030; 14030; 14029; 14029; 14029; 14028; 14028; 14028; 14027; 14027; 14026; 14026; 14026; 14025; 14025; 14025; 14024; 14024;
  14024; 14023; 14023; 14023; 14022; 14022; 14022; 14021; 14021; 14021; 14020; 14020; 14020; 14019; 14019; 14019; 14018; 14018;
  14018; 14017; 14017; 14016; 14016; 14016; 14015; 14015; 14015; 14014; 14014; 14014; 14013; 14013; 14013; 14012; 14012; 14012;
  14011; 14011; 14011; 14010; 14010; 14010; 14009; 14009; 14009; 14008; 14008; 14008; 14007; 14007; 14007; 14006; 14006; 14005;
  14005; 14005; 14004; 14004; 14004; 14003; 14003; 14003; 14002; 14002; 14002; 14001; 14001; 14001; 14000; 14000; 14000; 13999;
  13999; 13999; 13998; 13998; 13998; 13997; 13997; 13997; 13996; 13996; 13996; 13995; 13995; 13994; 13994; 13994; 13993; 13993;
  13993; 13992; 13992; 13992; 13991; 13991; 13991; 13990; 13990; 13990; 13989; 13989; 13989; 13988; 13988; 13988; 13987; 13987;
  13987; 13986; 13986; 13986; 13985; 13985; 13985; 13984; 13984; 13983; 13983; 13983; 13982; 13982; 13982; 13981; 13981; 13981;
  13980; 13980; 13980; 13979; 13979; 13979; 13978; 13978; 13978; 13977; 13977; 13977; 13976; 13976; 13976; 13975; 13975; 13975;
  13974; 13974; 13974; 13973; 13973; 13972; 13972; 13972; 13971; 13971; 13971; 13970; 13970; 13970; 13969; 13969; 13969; 13968;
  13968; 13968; 13967; 13967; 13967; 13966; 13966; 13966; 13965; 13965; 13965; 13964; 13964; 13964; 13963; 13963; 13963; 13962;
  13962; 13962; 13961; 13961; 13960; 13960; 13960; 13959; 13959; 13959; 13958; 13958; 13958; 13957; 13957; 13957; 13956; 13956;
  13956; 13955; 13955; 13955; 13954; 13954; 13954; 13953; 13953; 13953; 13952; 13952; 13952; 13951; 13951; 13951; 13950; 13950;
  13950; 13949; 13949; 13948; 13948; 13948; 13947; 13947; 13947; 13946; 13946; 13946; 13945; 13945; 13945; 13944; 13944; 13944;
  13943; 13943; 13943; 13942; 13942; 13942; 13941; 13941; 13941; 13940; 13940; 13940; 13939; 13939; 13939; 13938; 13938; 13938;
  13937; 13937; 13937; 13936; 13936; 13935; 13935; 13935; 13934; 13934; 13934; 13933; 13933; 13933; 13932; 13932; 13932; 13931;
  13931; 13931; 13930; 13930; 13930; 13929; 13929; 13929; 13928; 13928; 13928; 13927; 13927; 13927; 13926; 13926; 13926; 13925;
  13925; 13925; 13924; 13924; 13924; 13923; 13923; 13922; 13922; 13922; 13921; 13921; 13921; 13920; 13920; 13920; 13919; 13919;
  13919; 13918; 13918; 13918; 13917; 13917; 13917; 13916; 13916; 13916; 13915; 13915; 13915; 13914; 13914; 13914; 13913; 13913;
  13913; 13912; 13912; 13912; 13911; 13911; 13911; 13910; 13910; 13909; 13909; 13909; 13908; 13908; 13908; 13907; 13907; 13907;
  13906; 13906; 13906; 13905; 13905; 13905; 13904; 13904; 13904; 13903; 13903; 13903; 13902; 13902; 13902; 13901; 13901; 13901;
  13900; 13900; 13900; 13899; 13899; 13899; 13898; 13898; 13898; 13897; 13897; 13897; 13896; 13896; 13895; 13895; 13895; 13894].
Definition pow_lut_49 : list Z := [
  13894; 13894; 13893; 13893; 13893; 13892; 13892; 13892; 13891; 13891; 13891; 13890; 13890; 13890; 13889; 13889; 13889; 13888;
  13888; 13888; 13887; 13887; 13887; 13886; 13886; 13886; 13885; 13885; 13885; 13884; 13884; 13884; 13883; 13883; 13883; 13882;
  13882; 13882; 13881; 13881; 13880; 13880; 13880; 13879; 13879; 13879; 13878; 13878; 13878; 13877; 13877; 13877; 13876; 13876;
  13876; 13875; 13875; 13875; 13874; 13874; 13874; 13873; 13873; 13873; 13872; 13872; 13872; 13871; 13871; 13871; 13870; 13870;
  13870; 13869; 13869; 13869; 13868; 13868; 13868; 13867; 13867; 13867; 13866; 13866; 13866; 13865; 13865; 13864; 13864; 13864;
  13863; 13863; 13863; 13862; 13862; 13862; 13861; 13861; 13861; 13860; 13860; 13860; 13859; 13859; 13859; 13858; 13858; 13858;
  13857; 13857; 13857; 13856; 13856; 13856; 13855; 13855; 13855; 13854; 13854; 13854; 13853; 13853; 13853; 13852; 13852; 13852;
  13851; 13851; 13851; 13850; 13850; 13850; 13849; 13849; 13848; 13848; 13848; 13847; 13847; 13847; 13846; 13846; 13846; 13845;
  13845; 13845; 13844; 13844; 13844; 13843; 13843; 13843; 13842; 13842; 13842; 13841; 13841; 13841; 13840; 13840; 13840; 13839;
  13839; 13839; 13838; 13838; 13838; 13837; 13837; 13837; 13836; 13836; 13836; 13835; 13835; 13835; 13834; 13834; 13834; 13833;
  13833; 13833; 13832; 13832; 13831; 13831; 13831; 13830; 13830; 13830; 13829; 13829; 13829; 13828; 13828; 13828; 13827; 13827;
  13827; 13826; 13826; 13826; 13825; 13825; 13825; 13824; 13824; 13824; 13823; 13823; 13823; 13822; 13822; 13822; 13821; 13821;
  13821; 13820; 13820; 13820; 13819; 13819; 13819; 13818; 13818; 13818; 13817; 13817; 13817; 13816; 13816; 13816; 13815; 13815;
  13815; 13814; 13814; 13813; 13813; 13813; 13812; 13812; 13812; 13811; 13811; 13811; 13810; 13810; 13810; 13809; 13809; 13809;
  13808; 13808; 13808; 13807; 13807; 13807; 13806; 13806; 13806; 13805; 13805; 13805; 13804; 13804; 13804; 13803; 13803; 13803;
  13802; 13802; 13802; 13801; 13801; 13801; 13800; 13800; 13800; 13799; 13799; 13799; 13798; 13798; 13798; 13797; 13797; 13797;
  13796; 13796; 13796; 13795; 13795; 13795; 13794; 13794; 13793; 13793; 13793; 13792; 13792; 13792; 13791; 13791; 13791; 13790;
  13790; 13790; 13789; 13789; 13789; 13788; 13788; 13788; 13787; 13787; 13787; 13786; 13786; 13786; 13785; 13785; 13785; 13784;
  13784; 13784; 13783; 13783; 13783; 13782; 13782; 13782; 13781; 13781; 13781; 13780; 13780; 13780; 13779; 13779; 13779; 13778;
  13778; 13778; 13777; 13777; 13777; 13776; 13776; 13776; 13775; 13775; 13775; 13774; 13774; 13774; 13773; 13773; 13773; 13772;
  13772; 13771; 13771; 13771; 13770; 13770; 13770; 13769; 13769; 13769; 13768; 13768; 13768; 13767; 13767; 13767; 13766; 13766;
  13766; 13765; 13765; 13765; 13764; 13764; 13764; 13763; 13763; 13763; 13762; 13762; 13762; 13761; 13761; 13761; 13760; 13760;
  13760; 13759; 13759; 13759; 13758; 13758; 13758; 13757; 13757; 13757; 13756; 13756; 13756; 13755; 13755; 13755; 13754; 13754;
  13754; 13753; 13753; 13753; 13752; 13752; 13752; 13751; 13751; 13751; 13750; 13750; 13750; 13749; 13749; 13749; 13748; 13748;
  13748; 13747; 13747; 13746; 13746; 13746; 13745; 13745; 13745; 13744; 13744; 13744; 13743; 13743; 13743; 13742; 13742; 13742;
  13741; 13741; 13741; 13740; 13740; 13740; 13739; 13739; 13739; 13738; 13738; 13738; 13737; 13737; 13737; 13736; 13736; 13736;
  13735; 13735; 13735; 13734; 13734; 13734; 13733; 13733; 13733; 13732; 13732; 13732; 13731; 13731; 13731; 13730; 13730; 13730;
  13729; 13729; 13729; 13728; 13728; 13728; 13727; 13727; 13727; 13726; 13726; 13726; 13725; 13725; 13725; 13724; 13724; 13724;
  13723; 13723; 13723; 13722; 13722; 13722; 13721; 13721; 13721; 13720; 13720; 13720; 13719; 13719; 13718; 13718; 13718; 13717;
  13717; 13717; 13716; 13716; 13716; 13715; 13715; 13715; 13714; 13714; 13714; 13713; 13713; 13713; 13712; 13712; 13712; 13711;
  13711; 13711; 13710; 13710; 13710; 13709; 13709; 13709; 13708; 13708; 13708; 13707; 13707; 13707; 13706; 13706; 13706; 13705;
  13705; 13705; 13704; 13704; 13704; 13703; 13703; 13703; 13702; 13702; 13702; 13701; 13701; 13701; 13700; 13700; 13700; 13699;
  13699; 13699; 13698; 13698; 13698; 13697; 13697; 13697; 13696; 13696; 13696; 13695; 13695; 13695; 13694; 13694; 13694; 13693;
  13693; 13693; 13692; 13692; 13692; 13691; 13691; 13691; 13690; 13690; 13690; 13689; 13689; 13689; 13688; 13688; 13688; 13687;
  13687; 13687; 13686; 13686; 13686; 13685; 13685; 13685; 13684; 13684; 13684; 13683; 13683; 13682; 13682; 13682; 13681; 13681;
  13681; 13680; 13680; 13680; 13679; 13679; 13679; 13678; 13678; 13678; 13677; 13677; 13677; 13676; 13676; 13676; 13675; 13675;
  13675; 13674; 13674; 13674; 13673; 13673; 13673; 13672; 13672; 13672; 13671; 13671; 13671; 13670; 13670; 13670; 13669; 13669;
  13669; 13668; 13668; 13668; 13667; 13667; 13667; 13666; 13666; 13666; 13665; 13665; 13665; 13664; 13664; 13664; 13663; 13663;
  13663; 13662; 13662; 13662; 13661; 13661; 13661; 13660; 13660; 13660; 13659; 13659; 13659; 13658; 13658; 13658; 13657; 13657;
  13657; 13656; 13656; 13656; 13655; 13655; 13655; 13654; 13654; 13654; 13653; 13653; 13653; 13652; 13652; 13652; 13651; 13651;
  13651; 13650; 13650; 13650; 13649; 13649; 13649; 13648; 13648; 13648; 13647; 13647; 13647; 13646; 13646; 13646; 13645; 13645;
  13645; 13644; 13644; 13644; 13643; 13643; 13643; 13642; 13642; 13642; 13641; 13641; 13641; 13640; 13640; 13640; 13639; 13639;
  13639; 13638; 13638; 13638; 13637; 13637; 13637; 13636; 13636; 13636; 13635; 13635; 13635; 13634; 13634; 13634; 13633; 13633;
  13633; 13632; 13632; 13632; 13631; 13631; 13631; 13630; 13630; 13630; 13629; 13629; 13629; 13628; 13628; 13627; 13627; 13627;
  13626; 13626; 13626; 13625; 13625; 13625; 13624; 13624; 13624; 13623; 13623; 13623; 13622; 13622; 13622; 13621; 13621; 13621;
  13620; 13620; 13620; 13619; 13619; 13619; 13618; 13618; 13618; 13617; 13617; 13617; 13616; 13616; 13616; 13615; 13615; 13615;
  13614; 13614; 13614; 13613; 13613; 13613; 13612; 13612; 13612; 13611; 13611; 13611; 13610; 13610; 13610; 13609; 13609; 13609;
  13608; 13608; 13608; 13607; 13607; 13607; 13606; 13606; 13606; 13605; 13605; 13605; 13604; 13604; 13604; 13603; 13603; 13603;
  13602; 13602; 13602; 13601; 13601; 13601; 13600; 13600; 13600; 13599; 13599; 13599; 13598; 13598; 13598; 13597; 13597; 13597;
  13596; 13596; 13596; 13595; 13595; 13595; 13594; 13594; 13594; 13593; 13593; 13593; 13592; 13592; 13592; 13591; 13591; 13591].
Definition pow_lut_50 : list Z := [
  13590; 13590; 13590; 13589; 13589; 13589; 13588; 13588; 13588; 13587; 13587; 13587; 13586; 13586; 13586; 13585; 13585; 13585;
  13584; 13584; 13584; 13583; 13583; 13583; 13582; 13582; 13582; 13581; 13581; 13581; 13580; 13580; 13580; 13579; 13579; 13579;
  13578; 13578; 13578; 13577; 13577; 13577; 13576; 13576; 13576; 13575; 13575; 13575; 13574; 13574; 13574; 13573; 13573; 13573;
  13572; 13572; 13572; 13571; 13571; 13571; 13570; 13570; 13570; 13569; 13569; 13569; 13568; 13568; 13568; 13567; 13567; 13567;
  13566; 13566; 13566; 13565; 13565; 13565; 13564; 13564; 13564; 13563; 13563; 13563; 13562; 13562; 13562; 13561; 13561; 13561;
  13560; 13560; 13560; 13559; 13559; 13559; 13558; 13558; 13558; 13557; 13557; 13557; 13556; 13556; 13556; 13555; 13555; 13555;
  13554; 13554; 13554; 13553; 13553; 13553; 13552; 13552; 13552; 13551; 13551; 13551; 13550; 13550; 13550; 13549; 13549; 13549;
  13548; 13548; 13548; 13547; 13547; 13547; 13546; 13546; 13546; 13545; 13545; 13545; 13544; 13544; 13544; 13543; 13543; 13543;
  13542; 13542; 13542; 13541; 13541; 13541; 13540; 13540; 13540; 13539; 13539; 13539; 13538; 13538; 13538; 13537; 13537; 13537;
  13536; 13536; 13536; 13535; 13535; 13535; 13534; 13534; 13534; 13533; 13533; 13533; 13532; 13532; 13532; 13531; 13531; 13531;
  13530; 13530; 13530; 13529; 13529; 13529; 13528; 13528; 13528; 13527; 13527; 13527; 13526; 13526; 13526; 13525; 13525; 13525;
  13524; 13524; 13524; 13523; 13523; 13523; 13522; 13522; 13522; 13521; 13521; 13521; 13520; 13520; 13520; 13519; 13519; 13519;
  13518; 13518; 13518; 13518; 13517; 13517; 13517; 13516; 13516; 13516; 13515; 13515; 13515; 13514; 13514; 13514; 13513; 13513;
  13513; 13512; 13512; 13512; 13511; 13511; 13511; 13510; 13510; 13510; 13509; 13509; 13509; 13508; 13508; 13508; 13507; 13507;
  13507; 13506; 13506; 13506; 13505; 13505; 13505; 13504; 13504; 13504; 13503; 13503; 13503; 13502; 13502; 13502; 13501; 13501;
  13501; 13500; 13500; 13500; 13499; 13499; 13499; 13498; 13498; 13498; 13497; 13497; 13497; 13496; 13496; 13496; 13495; 13495;
  13495; 13494; 13494; 13494; 13493; 13493; 13493; 13492; 13492; 13492; 13491; 13491; 13491; 13490; 13490; 13490; 13489; 13489;
  13489; 13488; 13488; 13488; 13487; 13487; 13487; 13486; 13486; 13486; 13485; 13485; 13485; 13484; 13484; 13484; 13483; 13483;
  13483; 13482; 13482; 13482; 13481; 13481; 13481; 13480; 13480; 13480; 13479; 13479; 13479; 13478; 13478; 13478; 13477; 13477;
  13477; 13476; 13476; 13476; 13475; 13475; 13475; 13474; 13474; 13474; 13473; 13473; 13473; 13472; 13472; 13472; 13471; 13471;
  13471; 13470; 13470; 13470; 13469; 13469; 13469; 13468; 13468; 13468; 13467; 13467; 13467; 13466; 13466; 13466; 13465; 13465;
  13465; 13464; 13464; 13464; 13463; 13463; 13463; 13463; 13462; 13462; 13462; 13461; 13461; 13461; 13460; 13460; 13460; 13459;
  13459; 13459; 13458; 13458; 13458; 13457; 13457; 13457; 13456; 13456; 13456; 13455; 13455; 13455; 13454; 13454; 13454; 13453;
  13453; 13453; 13452; 13452; 13452; 13451; 13451; 13451; 13450; 13450; 13450; 13449; 13449; 13449; 13448; 13448; 13448; 13447;
  13447; 13447; 13446; 13446; 13446; 13445; 13445; 13445; 13444; 13444; 13444; 13443; 13443; 13443; 13442; 13442; 13442; 13441;
  13441; 13441; 13440; 13440; 13440; 13439; 13439; 13439; 13438; 13438; 13438; 13437; 13437; 13437; 13436; 13436; 13436; 13435;
  13435; 13435; 13434; 13434; 13434; 13433; 13433; 13433; 13432; 13432; 13432; 13431; 13431; 13431; 13430; 13430; 13430; 13429;
  13429; 13429; 13428; 13428; 13428; 13428; 13427; 13427; 13427; 13426; 13426; 13426; 13425; 13425; 13425; 13424; 13424; 13424;
  13423; 13423; 13423; 13422; 13422; 13422; 13421; 13421; 13421; 13420; 13420; 13420; 13419; 13419; 13419; 13418; 13418; 13418;
  13417; 13417; 13417; 13416; 13416; 13416; 13415; 13415; 13415; 13414; 13414; 13414; 13413; 13413; 13413; 13412; 13412; 13412;
  13411; 13411; 13411; 13410; 13410; 13410; 13409; 13409; 13409; 13408; 13408; 13408; 13407; 13407; 13407; 13406; 13406; 13406;
  13405; 13405; 13405; 13404; 13404; 13404; 13403; 13403; 13403; 13402; 13402; 13402; 13401; 13401; 13401; 13400; 13400; 13400;
  13400; 13399; 13399; 13399; 13398; 13398; 13398; 13397; 13397; 13397; 13396; 13396; 13396; 13395; 13395; 13395; 13394; 13394;
  13394; 13393; 13393; 13393; 13392; 13392; 13392; 13391; 13391; 13391; 13390; 13390; 13390; 13389; 13389; 13389; 13388; 13388;
  13388; 13387; 13387; 13387; 13386; 13386; 13386; 13385; 13385; 13385; 13384; 13384; 13384; 13383; 13383; 13383; 13382; 13382;
  13382; 13381; 13381; 13381; 13380; 13380; 13380; 13379; 13379; 13379; 13378; 13378; 13378; 13377; 13377; 13377; 13376; 13376;
  13376; 13376; 13375; 13375; 13375; 13374; 13374; 13374; 13373; 13373; 13373; 13372; 13372; 13372; 13371; 13371; 13371; 13370;
  13370; 13370; 13369; 13369; 13369; 13368; 13368; 13368; 13367; 13367; 13367; 13366; 13366; 13366; 13365; 13365; 13365; 13364;
  13364; 13364; 13363; 13363; 13363; 13362; 13362; 13362; 13361; 13361; 13361; 13360; 13360; 13360; 13359; 13359; 13359; 13358;
  13358; 13358; 13357; 13357; 13357; 13356; 13356; 13356; 13355; 13355; 13355; 13354; 13354; 13354; 13354; 13353; 13353; 13353;
  13352; 13352; 13352; 13351; 13351; 13351; 13350; 13350; 13350; 13349; 13349; 13349; 13348; 13348; 13348; 13347; 13347; 13347;
  13346; 13346; 13346; 13345; 13345; 13345; 13344; 13344; 13344; 13343; 13343; 13343; 13342; 13342; 13342; 13341; 13341; 13341;
  13340; 13340; 13340; 13339; 13339; 13339; 13338; 13338; 13338; 13337; 13337; 13337; 13336; 13336; 13336; 13335; 13335; 13335;
  13335; 13334; 13334; 13334; 13333; 13333; 13333; 13332; 13332; 13332; 13331; 13331; 13331; 13330; 13330; 13330; 13329; 13329;
  13329; 13328; 13328; 13328; 13327; 13327; 13327; 13326; 13326; 13326; 13325; 13325; 13325; 13324; 13324; 13324; 13323; 13323;
  13323; 13322; 13322; 13322; 13321; 13321; 13321; 13320; 13320; 13320; 13319; 13319; 13319; 13318; 13318; 13318; 13317; 13317;
  13317; 13317; 13316; 13316; 13316; 13315; 13315; 13315; 13314; 13314; 13314; 13313; 13313; 13313; 13312; 13312; 13312; 13311;
  13311; 13311; 13310; 13310; 13310; 13309; 13309; 13309; 13308; 13308; 13308; 13307; 13307; 13307; 13306; 13306; 13306; 13305;
  13305; 13305; 13304; 13304; 13304; 13303; 13303; 13303; 13302; 13302; 13302; 13301; 13301; 13301; 13300; 13300; 13300; 13300;
  13299; 13299; 13299; 13298; 13298; 13298; 13297; 13297; 13297; 13296; 13296; 13296; 13295; 13295; 13295; 13294; 13294; 13294].
Definition pow_lut_51 : list Z := [
  13293; 13293; 13293; 13292; 13292; 13292; 13291; 13291; 13291; 13290; 13290; 13290; 13289; 13289; 13289; 13288; 13288; 13288;
  13287; 13287; 13287; 13286; 13286; 13286; 13285; 13285; 13285; 13284; 13284; 13284; 13284; 13283; 13283; 13283; 13282; 13282;
  13282; 13281; 13281; 13281; 13280; 13280; 13280; 13279; 13279; 13279; 13278; 13278; 13278; 13277; 13277; 13277; 13276; 13276;
  13276; 13275; 13275; 13275; 13274; 13274; 13274; 13273; 13273; 13273; 13272; 13272; 13272; 13271; 13271; 13271; 13270; 13270;
  13270; 13269; 13269; 13269; 13269; 13268; 13268; 13268; 13267; 13267; 13267; 13266; 13266; 13266; 13265; 13265; 13265; 13264;
  13264; 13264; 13263; 13263; 13263; 13262; 13262; 13262; 13261; 13261; 13261; 13260; 13260; 13260; 13259; 13259; 13259; 13258;
  13258; 13258; 13257; 13257; 13257; 13256; 13256; 13256; 13255; 13255; 13255; 13255; 13254; 13254; 13254; 13253; 13253; 13253;
  13252; 13252; 13252; 13251; 13251; 13251; 13250; 13250; 13250; 13249; 13249; 13249; 13248; 13248; 13248; 13247; 13247; 13247;
  13246; 13246; 13246; 13245; 13245; 13245; 13244; 13244; 13244; 13243; 13243; 13243; 13242; 13242; 13242; 13241; 13241; 13241;
  13241; 13240; 13240; 13240; 13239; 13239; 13239; 13238; 13238; 13238; 13237; 13237; 13237; 13236; 13236; 13236; 13235; 13235;
  13235; 13234; 13234; 13234; 13233; 13233; 13233; 13232; 13232; 13232; 13231; 13231; 13231; 13230; 13230; 13230; 13229; 13229;
  13229; 13228; 13228; 13228; 13228; 13227; 13227; 13227; 13226; 13226; 13226; 13225; 13225; 13225; 13224; 13224; 13224; 13223;
  13223; 13223; 13222; 13222; 13222; 13221; 13221; 13221; 13220; 13220; 13220; 13219; 13219; 13219; 13218; 13218; 13218; 13217;
  13217; 13217; 13216; 13216; 13216; 13216; 13215; 13215; 13215; 13214; 13214; 13214; 13213; 13213; 13213; 13212; 13212; 13212;
  13211; 13211; 13211; 13210; 13210; 13210; 13209; 13209; 13209; 13208; 13208; 13208; 13207; 13207; 13207; 13206; 13206; 13206;
  13205; 13205; 13205; 13204; 13204; 13204; 13204; 13203; 13203; 13203; 13202; 13202; 13202; 13201; 13201; 13201; 13200; 13200;
  13200; 13199; 13199; 13199; 13198; 13198; 13198; 13197; 13197; 13197; 13196; 13196; 13196; 13195; 13195; 13195; 13194; 13194;
  13194; 13193; 13193; 13193; 13192; 13192; 13192; 13192; 13191; 13191; 13191; 13190; 13190; 13190; 13189; 13189; 13189; 13188;
  13188; 13188; 13187; 13187; 13187; 13186; 13186; 13186; 13185; 13185; 13185; 13184; 13184; 13184; 13183; 13183; 13183; 13182;
  13182; 13182; 13181; 13181; 13181; 13181; 13180; 13180; 13180; 13179; 13179; 13179; 13178; 13178; 13178; 13177; 13177; 13177;
  13176; 13176; 13176; 13175; 13175; 13175; 13174; 13174; 13174; 13173; 13173; 13173; 13172; 13172; 13172; 13171; 13171; 13171;
  13170; 13170; 13170; 13170; 13169; 13169; 13169; 13168; 13168; 13168; 13167; 13167; 13167; 13166; 13166; 13166; 13165; 13165;
  13165; 13164; 13164; 13164; 13163; 13163; 13163; 13162; 13162; 13162; 13161; 13161; 13161; 13160; 13160; 13160; 13159; 13159;
  13159; 13159; 13158; 13158; 13158; 13157; 13157; 13157; 13156; 13156; 13156; 13155; 13155; 13155; 13154; 13154; 13154; 13153;
  13153; 13153; 13152; 13152; 13152; 13151; 13151; 13151; 13150; 13150; 13150; 13149; 13149; 13149; 13148; 13148; 13148; 13148;
  13147; 13147; 13147; 13146; 13146; 13146; 13145; 13145; 13145; 13144; 13144; 13144; 13143; 13143; 13143; 13142; 13142; 13142;
  13141; 13141; 13141; 13140; 13140; 13140; 13139; 13139; 13139; 13138; 13138; 13138; 13138; 13137; 13137; 13137; 13136; 13136;
  13136; 13135; 13135; 13135; 13134; 13134; 13134; 13133; 13133; 13133; 13132; 13132; 13132; 13131; 13131; 13131; 13130; 13130;
  13130; 13129; 13129; 13129; 13128; 13128; 13128; 13128; 13127; 13127; 13127; 13126; 13126; 13126; 13125; 13125; 13125; 13124;
  13124; 13124; 13123; 13123; 13123; 13122; 13122; 13122; 13121; 13121; 13121; 13120; 13120; 13120; 13119; 13119; 13119; 13118;
  13118; 13118; 13118; 13117; 13117; 13117; 13116; 13116; 13116; 13115; 13115; 13115; 13114; 13114; 13114; 13113; 13113; 13113;
  13112; 13112; 13112; 13111; 13111; 13111; 13110; 13110; 13110; 13109; 13109; 13109; 13109; 13108; 13108; 13108; 13107; 13107;
  13107; 13106; 13106; 13106; 13105; 13105; 13105; 13104; 13104; 13104; 13103; 13103; 13103; 13102; 13102; 13102; 13101; 13101;
  13101; 13100; 13100; 13100; 13100; 13099; 13099; 13099; 13098; 13098; 13098; 13097; 13097; 13097; 13096; 13096; 13096; 13095;
  13095; 13095; 13094; 13094; 13094; 13093; 13093; 13093; 13092; 13092; 13092; 13091; 13091; 13091; 13090; 13090; 13090; 13090;
  13089; 13089; 13089; 13088; 13088; 13088; 13087; 13087; 13087; 13086; 13086; 13086; 13085; 13085; 13085; 13084; 13084; 13084;
  13083; 13083; 13083; 13082; 13082; 13082; 13082; 13081; 13081; 13081; 13080; 13080; 13080; 13079; 13079; 13079; 13078; 13078;
  13078; 13077; 13077; 13077; 13076; 13076; 13076; 13075; 13075; 13075; 13074; 13074; 13074; 13073; 13073; 13073; 13073; 13072;
  13072; 13072; 13071; 13071; 13071; 13070; 13070; 13070; 13069; 13069; 13069; 13068; 13068; 13068; 13067; 13067; 13067; 13066;
  13066; 13066; 13065; 13065; 13065; 13064; 13064; 13064; 13064; 13063; 13063; 13063; 13062; 13062; 13062; 13061; 13061; 13061;
  13060; 13060; 13060; 13059; 13059; 13059; 13058; 13058; 13058; 13057; 13057; 13057; 13056; 13056; 13056; 13056; 13055; 13055;
  13055; 13054; 13054; 13054; 13053; 13053; 13053; 13052; 13052; 13052; 13051; 13051; 13051; 13050; 13050; 13050; 13049; 13049;
  13049; 13048; 13048; 13048; 13047; 13047; 13047; 13047; 13046; 13046; 13046; 13045; 13045; 13045; 13044; 13044; 13044; 13043;
  13043; 13043; 13042; 13042; 13042; 13041; 13041; 13041; 13040; 13040; 13040; 13039; 13039; 13039; 13039; 13038; 13038; 13038;
  13037; 13037; 13037; 13036; 13036; 13036; 13035; 13035; 13035; 13034; 13034; 13034; 13033; 13033; 13033; 13032; 13032; 13032;
  13031; 13031; 13031; 13031; 13030; 13030; 13030; 13029; 13029; 13029; 13028; 13028; 13028; 13027; 13027; 13027; 13026; 13026;
  13026; 13025; 13025; 13025; 13024; 13024; 13024; 13023; 13023; 13023; 13023; 13022; 13022; 13022; 13021; 13021; 13021; 13020;
  13020; 13020; 13019; 13019; 13019; 13018; 13018; 13018; 13017; 13017; 13017; 13016; 13016; 13016; 13015; 13015; 13015; 13015;
  13014; 13014; 13014; 13013; 13013; 13013; 13012; 13012; 13012; 13011; 13011; 13011; 13010; 13010; 13010; 13009; 13009; 13009;
  13008; 13008; 13008; 13007; 13007; 13007; 13007; 13006; 13006; 13006; 13005; 13005; 13005; 13004; 13004; 13004; 13003; 13003].
Definition pow_lut_52 : list Z := [
  13003; 13002; 13002; 13002; 13001; 13001; 13001; 13000; 13000; 13000; 13000; 12999; 12999; 12999; 12998; 12998; 12998; 12997;
  12997; 12997; 12996; 12996; 12996; 12995; 12995; 12995; 12994; 12994; 12994; 12993; 12993; 12993; 12992; 12992; 12992; 12992;
  12991; 12991; 12991; 12990; 12990; 12990; 12989; 12989; 12989; 12988; 12988; 12988; 12987; 12987; 12987; 12986; 12986; 12986;
  12985; 12985; 12985; 12985; 12984; 12984; 12984; 12983; 12983; 12983; 12982; 12982; 12982; 12981; 12981; 12981; 12980; 12980;
  12980; 12979; 12979; 12979; 12978; 12978; 12978; 12978; 12977; 12977; 12977; 12976; 12976; 12976; 12975; 12975; 12975; 12974;
  12974; 12974; 12973; 12973; 12973; 12972; 12972; 12972; 12971; 12971; 12971; 12970; 12970; 12970; 12970; 12969; 12969; 12969;
  12968; 12968; 12968; 12967; 12967; 12967; 12966; 12966; 12966; 12965; 12965; 12965; 12964; 12964; 12964; 12963; 12963; 12963;
  12963; 12962; 12962; 12962; 12961; 12961; 12961; 12960; 12960; 12960; 12959; 12959; 12959; 12958; 12958; 12958; 12957; 12957;
  12957; 12956; 12956; 12956; 12956; 12955; 12955; 12955; 12954; 12954; 12954; 12953; 12953; 12953; 12952; 12952; 12952; 12951;
  12951; 12951; 12950; 12950; 12950; 12949; 12949; 12949; 12949; 12948; 12948; 12948; 12947; 12947; 12947; 12946; 12946; 12946;
  12945; 12945; 12945; 12944; 12944; 12944; 12943; 12943; 12943; 12942; 12942; 12942; 12942; 12941; 12941; 12941; 12940; 12940;
  12940; 12939; 12939; 12939; 12938; 12938; 12938; 12937; 12937; 12937; 12936; 12936; 12936; 12936; 12935; 12935; 12935; 12934;
  12934; 12934; 12933; 12933; 12933; 12932; 12932; 12932; 12931; 12931; 12931; 12930; 12930; 12930; 12929; 12929; 12929; 12929;
  12928; 12928; 12928; 12927; 12927; 12927; 12926; 12926; 12926; 12925; 12925; 12925; 12924; 12924; 12924; 12923; 12923; 12923;
  12922; 12922; 12922; 12922; 12921; 12921; 12921; 12920; 12920; 12920; 12919; 12919; 12919; 12918; 12918; 12918; 12917; 12917;
  12917; 12916; 12916; 12916; 12916; 12915; 12915; 12915; 12914; 12914; 12914; 12913; 12913; 12913; 12912; 12912; 12912; 12911;
  12911; 12911; 12910; 12910; 12910; 12909; 12909; 12909; 12909; 12908; 12908; 12908; 12907; 12907; 12907; 12906; 12906; 12906;
  12905; 12905; 12905; 12904; 12904; 12904; 12903; 12903; 12903; 12903; 12902; 12902; 12902; 12901; 12901; 12901; 12900; 12900;
  12900; 12899; 12899; 12899; 12898; 12898; 12898; 12897; 12897; 12897; 12896; 12896; 12896; 12896; 12895; 12895; 12895; 12894;
  12894; 12894; 12893; 12893; 12893; 12892; 12892; 12892; 12891; 12891; 12891; 12890; 12890; 12890; 12890; 12889; 12889; 12889;
  12888; 12888; 12888; 12887; 12887; 12887; 12886; 12886; 12886; 12885; 12885; 12885; 12884; 12884; 12884; 12884; 12883; 12883;
  12883; 12882; 12882; 12882; 12881; 12881; 12881; 12880; 12880; 12880; 12879; 12879; 12879; 12878; 12878; 12878; 12877; 12877;
  12877; 12877; 12876; 12876; 12876; 12875; 12875; 12875; 12874; 12874; 12874; 12873; 12873; 12873; 12872; 12872; 12872; 12871;
  12871; 12871; 12871; 12870; 12870; 12870; 12869; 12869; 12869; 12868; 12868; 12868; 12867; 12867; 12867; 12866; 12866; 12866;
  12865; 12865; 12865; 12865; 12864; 12864; 12864; 12863; 12863; 12863; 12862; 12862; 12862; 12861; 12861; 12861; 12860; 12860;
  12860; 12859; 12859; 12859; 12859; 12858; 12858; 12858; 12857; 12857; 12857; 12856; 12856; 12856; 12855; 12855; 12855; 12854;
  12854; 12854; 12853; 12853; 12853; 12853; 12852; 12852; 12852; 12851; 12851; 12851; 12850; 12850; 12850; 12849; 12849; 12849;
  12848; 12848; 12848; 12847; 12847; 12847; 12847; 12846; 12846; 12846; 12845; 12845; 12845; 12844; 12844; 12844; 12843; 12843;
  12843; 12842; 12842; 12842; 12841; 12841; 12841; 12841; 12840; 12840; 12840; 12839; 12839; 12839; 12838; 12838; 12838; 12837;
  12837; 12837; 12836; 12836; 12836; 12836; 12835; 12835; 12835; 12834; 12834; 12834; 12833; 12833; 12833; 12832; 12832; 12832;
  12831; 12831; 12831; 12830; 12830; 12830; 12830; 12829; 12829; 12829; 12828; 12828; 12828; 12827; 12827; 12827; 12826; 12826;
  12826; 12825; 12825; 12825; 12824; 12824; 12824; 12824; 12823; 12823; 12823; 12822; 12822; 12822; 12821; 12821; 12821; 12820;
  12820; 12820; 12819; 12819; 12819; 12818; 12818; 12818; 12818; 12817; 12817; 12817; 12816; 12816; 12816; 12815; 12815; 12815;
  12814; 12814; 12814; 12813; 12813; 12813; 12813; 12812; 12812; 12812; 12811; 12811; 12811; 12810; 12810; 12810; 12809; 12809;
  12809; 12808; 12808; 12808; 12807; 12807; 12807; 12807; 12806; 12806; 12806; 12805; 12805; 12805; 12804; 12804; 12804; 12803;
  12803; 12803; 12802; 12802; 12802; 12802; 12801; 12801; 12801; 12800; 12800; 12800; 12799; 12799; 12799; 12798; 12798; 12798;
  12797; 12797; 12797; 12796; 12796; 12796; 12796; 12795; 12795; 12795; 12794; 12794; 12794; 12793; 12793; 12793; 12792; 12792;
  12792; 12791; 12791; 12791; 12791; 12790; 12790; 12790; 12789; 12789; 12789; 12788; 12788; 12788; 12787; 12787; 12787; 12786;
  12786; 12786; 12785; 12785; 12785; 12785; 12784; 12784; 12784; 12783; 12783; 12783; 12782; 12782; 12782; 12781; 12781; 12781;
  12780; 12780; 12780; 12780; 12779; 12779; 12779; 12778; 12778; 12778; 12777; 12777; 12777; 12776; 12776; 12776; 12775; 12775;
  12775; 12774; 12774; 12774; 12774; 12773; 12773; 12773; 12772; 12772; 12772; 12771; 12771; 12771; 12770; 12770; 12770; 12769;
  12769; 12769; 12769; 12768; 12768; 12768; 12767; 12767; 12767; 12766; 12766; 12766; 12765; 12765; 12765; 12764; 12764; 12764;
  12764; 12763; 12763; 12763; 12762; 12762; 12762; 12761; 12761; 12761; 12760; 12760; 12760; 12759; 12759; 12759; 12759; 12758;
  12758; 12758; 12757; 12757; 12757; 12756; 12756; 12756; 12755; 12755; 12755; 12754; 12754; 12754; 12753; 12753; 12753; 12753;
  12752; 12752; 12752; 12751; 12751; 12751; 12750; 12750; 12750; 12749; 12749; 12749; 12748; 12748; 12748; 12748; 12747; 12747;
  12747; 12746; 12746; 12746; 12745; 12745; 12745; 12744; 12744; 12744; 12743; 12743; 12743; 12743; 12742; 12742; 12742; 12741;
  12741; 12741; 12740; 12740; 12740; 12739; 12739; 12739; 12738; 12738; 12738; 12738; 12737; 12737; 12737; 12736; 12736; 12736;
  12735; 12735; 12735; 12734; 12734; 12734; 12733; 12733; 12733; 12733; 12732; 12732; 12732; 12731; 12731; 12731; 12730; 12730;
  12730; 12729; 12729; 12729; 12728; 12728; 12728; 12728; 12727; 12727; 12727; 12726; 12726; 12726; 12725; 12725; 12725; 12724;
  12724; 12724; 12723; 12723; 12723; 12723; 12722; 12722; 12722; 12721; 12721; 12721; 12720; 12720; 12720; 12719; 12719; 12719].
Definition pow_lut_53 : list Z := [
  12718; 12718; 12718; 12718; 12717; 12717; 12717; 12716; 12716; 12716; 12715; 12715; 12715; 12714; 12714; 12714; 12713; 12713;
  12713; 12713; 12712; 12712; 12712; 12711; 12711; 12711; 12710; 12710; 12710; 12709; 12709; 12709; 12708; 12708; 12708; 12708;
  12707; 12707; 12707; 12706; 12706; 12706; 12705; 12705; 12705; 12704; 12704; 12704; 12703; 12703; 12703; 12703; 12702; 12702;
  12702; 12701; 12701; 12701; 12700; 12700; 12700; 12699; 12699; 12699; 12698; 12698; 12698; 12698; 12697; 12697; 12697; 12696;
  12696; 12696; 12695; 12695; 12695; 12694; 12694; 12694; 12693; 12693; 12693; 12693; 12692; 12692; 12692; 12691; 12691; 12691;
  12690; 12690; 12690; 12689; 12689; 12689; 12689; 12688; 12688; 12688; 12687; 12687; 12687; 12686; 12686; 12686; 12685; 12685;
  12685; 12684; 12684; 12684; 12684; 12683; 12683; 12683; 12682; 12682; 12682; 12681; 12681; 12681; 12680; 12680; 12680; 12679;
  12679; 12679; 12679; 12678; 12678; 12678; 12677; 12677; 12677; 12676; 12676; 12676; 12675; 12675; 12675; 12674; 12674; 12674;
  12674; 12673; 12673; 12673; 12672; 12672; 12672; 12671; 12671; 12671; 12670; 12670; 12670; 12670; 12669; 12669; 12669; 12668;
  12668; 12668; 12667; 12667; 12667; 12666; 12666; 12666; 12665; 12665; 12665; 12665; 12664; 12664; 12664; 12663; 12663; 12663;
  12662; 12662; 12662; 12661; 12661; 12661; 12660; 12660; 12660; 12660; 12659; 12659; 12659; 12658; 12658; 12658; 12657; 12657;
  12657; 12656; 12656; 12656; 12656; 12655; 12655; 12655; 12654; 12654; 12654; 12653; 12653; 12653; 12652; 12652; 12652; 12651;
  12651; 12651; 12651; 12650; 12650; 12650; 12649; 12649; 12649; 12648; 12648; 12648; 12647; 12647; 12647; 12647; 12646; 12646;
  12646; 12645; 12645; 12645; 12644; 12644; 12644; 12643; 12643; 12643; 12642; 12642; 12642; 12642; 12641; 12641; 12641; 12640;
  12640; 12640; 12639; 12639; 12639; 12638; 12638; 12638; 12638; 12637; 12637; 12637; 12636; 12636; 12636; 12635; 12635; 12635;
  12634; 12634; 12634; 12633; 12633; 12633; 12633; 12632; 12632; 12632; 12631; 12631; 12631; 12630; 12630; 12630; 12629; 12629;
  12629; 12629; 12628; 12628; 12628; 12627; 12627; 12627; 12626; 12626; 12626; 12625; 12625; 12625; 12624; 12624; 12624; 12624;
  12623; 12623; 12623; 12622; 12622; 12622; 12621; 12621; 12621; 12620; 12620; 12620; 12620; 12619; 12619; 12619; 12618; 12618;
  12618; 12617; 12617; 12617; 12616; 12616; 12616; 12615; 12615; 12615; 12615; 12614; 12614; 12614; 12613; 12613; 12613; 12612;
  12612; 12612; 12611; 12611; 12611; 12611; 12610; 12610; 12610; 12609; 12609; 12609; 12608; 12608; 12608; 12607; 12607; 12607;
  12607; 12606; 12606; 12606; 12605; 12605; 12605; 12604; 12604; 12604; 12603; 12603; 12603; 12602; 12602; 12602; 12602; 12601;
  12601; 12601; 12600; 12600; 12600; 12599; 12599; 12599; 12598; 12598; 12598; 12598; 12597; 12597; 12597; 12596; 12596; 12596;
  12595; 12595; 12595; 12594; 12594; 12594; 12594; 12593; 12593; 12593; 12592; 12592; 12592; 12591; 12591; 12591; 12590; 12590;
  12590; 12589; 12589; 12589; 12589; 12588; 12588; 12588; 12587; 12587; 12587; 12586; 12586; 12586; 12585; 12585; 12585; 12585;
  12584; 12584; 12584; 12583; 12583; 12583; 12582; 12582; 12582; 12581; 12581; 12581; 12581; 12580; 12580; 12580; 12579; 12579;
  12579; 12578; 12578; 12578; 12577; 12577; 12577; 12577; 12576; 12576; 12576; 12575; 12575; 12575; 12574; 12574; 12574; 12573;
  12573; 12573; 12572; 12572; 12572; 12572; 12571; 12571; 12571; 12570; 12570; 12570; 12569; 12569; 12569; 12568; 12568; 12568;
  12568; 12567; 12567; 12567; 12566; 12566; 12566; 12565; 12565; 12565; 12564; 12564; 12564; 12564; 12563; 12563; 12563; 12562;
  12562; 12562; 12561; 12561; 12561; 12560; 12560; 12560; 12560; 12559; 12559; 12559; 12558; 12558; 12558; 12557; 12557; 12557;
  12556; 12556; 12556; 12556; 12555; 12555; 12555; 12554; 12554; 12554; 12553; 12553; 12553; 12552; 12552; 12552; 12552; 12551;
  12551; 12551; 12550; 12550; 12550; 12549; 12549; 12549; 12548; 12548; 12548; 12548; 12547; 12547; 12547; 12546; 12546; 12546;
  12545; 12545; 12545; 12544; 12544; 12544; 12544; 12543; 12543; 12543; 12542; 12542; 12542; 12541; 12541; 12541; 12540; 12540;
  12540; 12540; 12539; 12539; 12539; 12538; 12538; 12538; 12537; 12537; 12537; 12536; 12536; 12536; 12535; 12535; 12535; 12535;
  12534; 12534; 12534; 12533; 12533; 12533; 12532; 12532; 12532; 12531; 12531; 12531; 12531; 12530; 12530; 12530; 12529; 12529;
  12529; 12528; 12528; 12528; 12527; 12527; 12527; 12527; 12526; 12526; 12526; 12525; 12525; 12525; 12524; 12524; 12524; 12523;
  12523; 12523; 12523; 12522; 12522; 12522; 12521; 12521; 12521; 12520; 12520; 12520; 12520; 12519; 12519; 12519; 12518; 12518;
  12518; 12517; 12517; 12517; 12516; 12516; 12516; 12516; 12515; 12515; 12515; 12514; 12514; 12514; 12513; 12513; 12513; 12512;
  12512; 12512; 12512; 12511; 12511; 12511; 12510; 12510; 12510; 12509; 12509; 12509; 12508; 12508; 12508; 12508; 12507; 12507;
  12507; 12506; 12506; 12506; 12505; 12505; 12505; 12504; 12504; 12504; 12504; 12503; 12503; 12503; 12502; 12502; 12502; 12501;
  12501; 12501; 12500; 12500; 12500; 12500; 12499; 12499; 12499; 12498; 12498; 12498; 12497; 12497; 12497; 12496; 12496; 12496;
  12496; 12495; 12495; 12495; 12494; 12494; 12494; 12493; 12493; 12493; 12492; 12492; 12492; 12492; 12491; 12491; 12491; 12490;
  12490; 12490; 12489; 12489; 12489; 12488; 12488; 12488; 12488; 12487; 12487; 12487; 12486; 12486; 12486; 12485; 12485; 12485;
  12484; 12484; 12484; 12484; 12483; 12483; 12483; 12482; 12482; 12482; 12481; 12481; 12481; 12481; 12480; 12480; 12480; 12479;
  12479; 12479; 12478; 12478; 12478; 12477; 12477; 12477; 12477; 12476; 12476; 12476; 12475; 12475; 12475; 12474; 12474; 12474;
  12473; 12473; 12473; 12473; 12472; 12472; 12472; 12471; 12471; 12471; 12470; 12470; 12470; 12469; 12469; 12469; 12469; 12468;
  12468; 12468; 12467; 12467; 12467; 12466; 12466; 12466; 12466; 12465; 12465; 12465; 12464; 12464; 12464; 12463; 12463; 12463;
  12462; 12462; 12462; 12462; 12461; 12461; 12461; 12460; 12460; 12460; 12459; 12459; 12459; 12458; 12458; 12458; 12458; 12457;
  12457; 12457; 12456; 12456; 12456; 12455; 12455; 12455; 12454; 12454; 12454; 12454; 12453; 12453; 12453; 12452; 12452; 12452;
  12451; 12451; 12451; 12451; 12450; 12450; 12450; 12449; 12449; 12449; 12448; 12448; 12448; 12447; 12447; 12447; 12447; 12446;
  12446; 12446; 12445; 12445; 12445; 12444; 12444; 12444; 12443; 12443; 12443; 12443; 12442; 12442; 12442; 12441; 12441; 12441].
Definition pow_lut_54 : list Z := [
  12440; 12440; 12440; 12440; 12439; 12439; 12439; 12438; 12438; 12438; 12437; 12437; 12437; 12436; 12436; 12436; 12436; 12435;
  12435; 12435; 12434; 12434; 12434; 12433; 12433; 12433; 12432; 12432; 12432; 12432; 12431; 12431; 12431; 12430; 12430; 12430;
  12429; 12429; 12429; 12429; 12428; 12428; 12428; 12427; 12427; 12427; 12426; 12426; 12426; 12425; 12425; 12425; 12425; 12424;
  12424; 12424; 12423; 12423; 12423; 12422; 12422; 12422; 12421; 12421; 12421; 12421; 12420; 12420; 12420; 12419; 12419; 12419;
  12418; 12418; 12418; 12418; 12417; 12417; 12417; 12416; 12416; 12416; 12415; 12415; 12415; 12414; 12414; 12414; 12414; 12413;
  12413; 12413; 12412; 12412; 12412; 12411; 12411; 12411; 12411; 12410; 12410; 12410; 12409; 12409; 12409; 12408; 12408; 12408;
  12407; 12407; 12407; 12407; 12406; 12406; 12406; 12405; 12405; 12405; 12404; 12404; 12404; 12404; 12403; 12403; 12403; 12402;
  12402; 12402; 12401; 12401; 12401; 12400; 12400; 12400; 12400; 12399; 12399; 12399; 12398; 12398; 12398; 12397; 12397; 12397;
  12397; 12396; 12396; 12396; 12395; 12395; 12395; 12394; 12394; 12394; 12393; 12393; 12393; 12393; 12392; 12392; 12392; 12391;
  12391; 12391; 12390; 12390; 12390; 12390; 12389; 12389; 12389; 12388; 12388; 12388; 12387; 12387; 12387; 12386; 12386; 12386;
  12386; 12385; 12385; 12385; 12384; 12384; 12384; 12383; 12383; 12383; 12383; 12382; 12382; 12382; 12381; 12381; 12381; 12380;
  12380; 12380; 12379; 12379; 12379; 12379; 12378; 12378; 12378; 12377; 12377; 12377; 12376; 12376; 12376; 12376; 12375; 12375;
  12375; 12374; 12374; 12374; 12373; 12373; 12373; 12372; 12372; 12372; 12372; 12371; 12371; 12371; 12370; 12370; 12370; 12369;
  12369; 12369; 12369; 12368; 12368; 12368; 12367; 12367; 12367; 12366; 12366; 12366; 12365; 12365; 12365; 12365; 12364; 12364;
  12364; 12363; 12363; 12363; 12362; 12362; 12362; 12362; 12361; 12361; 12361; 12360; 12360; 12360; 12359; 12359; 12359; 12359;
  12358; 12358; 12358; 12357; 12357; 12357; 12356; 12356; 12356; 12355; 12355; 12355; 12355; 12354; 12354; 12354; 12353; 12353;
  12353; 12352; 12352; 12352; 12352; 12351; 12351; 12351; 12350; 12350; 12350; 12349; 12349; 12349; 12348; 12348; 12348; 12348;
  12347; 12347; 12347; 12346; 12346; 12346; 12345; 12345; 12345; 12345; 12344; 12344; 12344; 12343; 12343; 12343; 12342; 12342;
  12342; 12342; 12341; 12341; 12341; 12340; 12340; 12340; 12339; 12339; 12339; 12338; 12338; 12338; 12338; 12337; 12337; 12337;
  12336; 12336; 12336; 12335; 12335; 12335; 12335; 12334; 12334; 12334; 12333; 12333; 12333; 12332; 12332; 12332; 12332; 12331;
  12331; 12331; 12330; 12330; 12330; 12329; 12329; 12329; 12328; 12328; 12328; 12328; 12327; 12327; 12327; 12326; 12326; 12326;
  12325; 12325; 12325; 12325; 12324; 12324; 12324; 12323; 12323; 12323; 12322; 12322; 12322; 12322; 12321; 12321; 12321; 12320;
  12320; 12320; 12319; 12319; 12319; 12319; 12318; 12318; 12318; 12317; 12317; 12317; 12316; 12316; 12316; 12315; 12315; 12315;
  12315; 12314; 12314; 12314; 12313; 12313; 12313; 12312; 12312; 12312; 12312; 12311; 12311; 12311; 12310; 12310; 12310; 12309;
  12309; 12309; 12309; 12308; 12308; 12308; 12307; 12307; 12307; 12306; 12306; 12306; 12306; 12305; 12305; 12305; 12304; 12304;
  12304; 12303; 12303; 12303; 12302; 12302; 12302; 12302; 12301; 12301; 12301; 12300; 12300; 12300; 12299; 12299; 12299; 12299;
  12298; 12298; 12298; 12297; 12297; 12297; 12296; 12296; 12296; 12296; 12295; 12295; 12295; 12294; 12294; 12294; 12293; 12293;
  12293; 12293; 12292; 12292; 12292; 12291; 12291; 12291; 12290; 12290; 12290; 12290; 12289; 12289; 12289; 12288; 12288; 12288;
  12287; 12287; 12287; 12286; 12286; 12286; 12286; 12285; 12285; 12285; 12284; 12284; 12284; 12283; 12283; 12283; 12283; 12282;
  12282; 12282; 12281; 12281; 12281; 12280; 12280; 12280; 12280; 12279; 12279; 12279; 12278; 12278; 12278; 12277; 12277; 12277;
  12277; 12276; 12276; 12276; 12275; 12275; 12275; 12274; 12274; 12274; 12274; 12273; 12273; 12273; 12272; 12272; 12272; 12271;
  12271; 12271; 12271; 12270; 12270; 12270; 12269; 12269; 12269; 12268; 12268; 12268; 12267; 12267; 12267; 12267; 12266; 12266;
  12266; 12265; 12265; 12265; 12264; 12264; 12264; 12264; 12263; 12263; 12263; 12262; 12262; 12262; 12261; 12261; 12261; 12261;
  12260; 12260; 12260; 12259; 12259; 12259; 12258; 12258; 12258; 12258; 12257; 12257; 12257; 12256; 12256; 12256; 12255; 12255;
  12255; 12255; 12254; 12254; 12254; 12253; 12253; 12253; 12252; 12252; 12252; 12252; 12251; 12251; 12251; 12250; 12250; 12250;
  12249; 12249; 12249; 12249; 12248; 12248; 12248; 12247; 12247; 12247; 12246; 12246; 12246; 12246; 12245; 12245; 12245; 12244;
  12244; 12244; 12243; 12243; 12243; 12243; 12242; 12242; 12242; 12241; 12241; 12241; 12240; 12240; 12240; 12240; 12239; 12239;
  12239; 12238; 12238; 12238; 12237; 12237; 12237; 12236; 12236; 12236; 12236; 12235; 12235; 12235; 12234; 12234; 12234; 12233;
  12233; 12233; 12233; 12232; 12232; 12232; 12231; 12231; 12231; 12230; 12230; 12230; 12230; 12229; 12229; 12229; 12228; 12228;
  12228; 12227; 12227; 12227; 12227; 12226; 12226; 12226; 12225; 12225; 12225; 12224; 12224; 12224; 12224; 12223; 12223; 12223;
  12222; 12222; 12222; 12221; 12221; 12221; 12221; 12220; 12220; 12220; 12219; 12219; 12219; 12218; 12218; 12218; 12218; 12217;
  12217; 12217; 12216; 12216; 12216; 12215; 12215; 12215; 12215; 12214; 12214; 12214; 12213; 12213; 12213; 12212; 12212; 12212;
  12212; 12211; 12211; 12211; 12210; 12210; 12210; 12209; 12209; 12209; 12209; 12208; 12208; 12208; 12207; 12207; 12207; 12206;
  12206; 12206; 12206; 12205; 12205; 12205; 12204; 12204; 12204; 12203; 12203; 12203; 12203; 12202; 12202; 12202; 12201; 12201;
  12201; 12200; 12200; 12200; 12200; 12199; 12199; 12199; 12198; 12198; 12198; 12197; 12197; 12197; 12197; 12196; 12196; 12196;
  12195; 12195; 12195; 12194; 12194; 12194; 12194; 12193; 12193; 12193; 12192; 12192; 12192; 12192; 12191; 12191; 12191; 12190;
  12190; 12190; 12189; 12189; 12189; 12189; 12188; 12188; 12188; 12187; 12187; 12187; 12186; 12186; 12186; 12186; 12185; 12185;
  12185; 12184; 12184; 12184; 12183; 12183; 12183; 12183; 12182; 12182; 12182; 12181; 12181; 12181; 12180; 12180; 12180; 12180;
  12179; 12179; 12179; 12178; 12178; 12178; 12177; 12177; 12177; 12177; 12176; 12176; 12176; 12175; 12175; 12175; 12174; 12174;
  12174; 12174; 12173; 12173; 12173; 12172; 12172; 12172; 12171; 12171; 12171; 12171; 12170; 12170; 12170; 12169; 12169; 12169].
Definition pow_lut_55 : list Z := [
  12168; 12168; 12168; 12168; 12167; 12167; 12167; 12166; 12166; 12166; 12165; 12165; 12165; 12165; 12164; 12164; 12164; 12163;
  12163; 12163; 12162; 12162; 12162; 12162; 12161; 12161; 12161; 12160; 12160; 12160; 12160; 12159; 12159; 12159; 12158; 12158;
  12158; 12157; 12157; 12157; 12157; 12156; 12156; 12156; 12155; 12155; 12155; 12154; 12154; 12154; 12154; 12153; 12153; 12153;
  12152; 12152; 12152; 12151; 12151; 12151; 12151; 12150; 12150; 12150; 12149; 12149; 12149; 12148; 12148; 12148; 12148; 12147;
  12147; 12147; 12146; 12146; 12146; 12145; 12145; 12145; 12145; 12144; 12144; 12144; 12143; 12143; 12143; 12142; 12142; 12142;
  12142; 12141; 12141; 12141; 12140; 12140; 12140; 12140; 12139; 12139; 12139; 12138; 12138; 12138; 12137; 12137; 12137; 12137;
  12136; 12136; 12136; 12135; 12135; 12135; 12134; 12134; 12134; 12134; 12133; 12133; 12133; 12132; 12132; 12132; 12131; 12131;
  12131; 12131; 12130; 12130; 12130; 12129; 12129; 12129; 12128; 12128; 12128; 12128; 12127; 12127; 12127; 12126; 12126; 12126;
  12126; 12125; 12125; 12125; 12124; 12124; 12124; 12123; 12123; 12123; 12123; 12122; 12122; 12122; 12121; 12121; 12121; 12120;
  12120; 12120; 12120; 12119; 12119; 12119; 12118; 12118; 12118; 12117; 12117; 12117; 12117; 12116; 12116; 12116; 12115; 12115;
  12115; 12114; 12114; 12114; 12114; 12113; 12113; 12113; 12112; 12112; 12112; 12112; 12111; 12111; 12111; 12110; 12110; 12110;
  12109; 12109; 12109; 12109; 12108; 12108; 12108; 12107; 12107; 12107; 12106; 12106; 12106; 12106; 12105; 12105; 12105; 12104;
  12104; 12104; 12103; 12103; 12103; 12103; 12102; 12102; 12102; 12101; 12101; 12101; 12101; 12100; 12100; 12100; 12099; 12099;
  12099; 12098; 12098; 12098; 12098; 12097; 12097; 12097; 12096; 12096; 12096; 12095; 12095; 12095; 12095; 12094; 12094; 12094;
  12093; 12093; 12093; 12093; 12092; 12092; 12092; 12091; 12091; 12091; 12090; 12090; 12090; 12090; 12089; 12089; 12089; 12088;
  12088; 12088; 12087; 12087; 12087; 12087; 12086; 12086; 12086; 12085; 12085; 12085; 12084; 12084; 12084; 12084; 12083; 12083;
  12083; 12082; 12082; 12082; 12082; 12081; 12081; 12081; 12080; 12080; 12080; 12079; 12079; 12079; 12079; 12078; 12078; 12078;
  12077; 12077; 12077; 12076; 12076; 12076; 12076; 12075; 12075; 12075; 12074; 12074; 12074; 12074; 12073; 12073; 12073; 12072;
  12072; 12072; 12071; 12071; 12071; 12071; 12070; 12070; 12070; 12069; 12069; 12069; 12068; 12068; 12068; 12068; 12067; 12067;
  12067; 12066; 12066; 12066; 12066; 12065; 12065; 12065; 12064; 12064; 12064; 12063; 12063; 12063; 12063; 12062; 12062; 12062;
  12061; 12061; 12061; 12060; 12060; 12060; 12060; 12059; 12059; 12059; 12058; 12058; 12058; 12058; 12057; 12057; 12057; 12056;
  12056; 12056; 12055; 12055; 12055; 12055; 12054; 12054; 12054; 12053; 12053; 12053; 12052; 12052; 12052; 12052; 12051; 12051;
  12051; 12050; 12050; 12050; 12050; 12049; 12049; 12049; 12048; 12048; 12048; 12047; 12047; 12047; 12047; 12046; 12046; 12046;
  12045; 12045; 12045; 12044; 12044; 12044; 12044; 12043; 12043; 12043; 12042; 12042; 12042; 12042; 12041; 12041; 12041; 12040;
  12040; 12040; 12039; 12039; 12039; 12039; 12038; 12038; 12038; 12037; 12037; 12037; 12037; 12036; 12036; 12036; 12035; 12035;
  12035; 12034; 12034; 12034; 12034; 12033; 12033; 12033; 12032; 12032; 12032; 12031; 12031; 12031; 12031; 12030; 12030; 12030;
  12029; 12029; 12029; 12029; 12028; 12028; 12028; 12027; 12027; 12027; 12026; 12026; 12026; 12026; 12025; 12025; 12025; 12024;
  12024; 12024; 12024; 12023; 12023; 12023; 12022; 12022; 12022; 12021; 12021; 12021; 12021; 12020; 12020; 12020; 12019; 12019;
  12019; 12018; 12018; 12018; 12018; 12017; 12017; 12017; 12016; 12016; 12016; 12016; 12015; 12015; 12015; 12014; 12014; 12014;
  12013; 12013; 12013; 12013; 12012; 12012; 12012; 12011; 12011; 12011; 12011; 12010; 12010; 12010; 12009; 12009; 12009; 12008;
  12008; 12008; 12008; 12007; 12007; 12007; 12006; 12006; 12006; 12006; 12005; 12005; 12005; 12004; 12004; 12004; 12003; 12003;
  12003; 12003; 12002; 12002; 12002; 12001; 12001; 12001; 12000; 12000; 12000; 12000; 11999; 11999; 11999; 11998; 11998; 11998;
  11998; 11997; 11997; 11997; 11996; 11996; 11996; 11995; 11995; 11995; 11995; 11994; 11994; 11994; 11993; 11993; 11993; 11993;
  11992; 11992; 11992; 11991; 11991; 11991; 11990; 11990; 11990; 11990; 11989; 11989; 11989; 11988; 11988; 11988; 11988; 11987;
  11987; 11987; 11986; 11986; 11986; 11985; 11985; 11985; 11985; 11984; 11984; 11984; 11983; 11983; 11983; 11983; 11982; 11982;
  11982; 11981; 11981; 11981; 11980; 11980; 11980; 11980; 11979; 11979; 11979; 11978; 11978; 11978; 11978; 11977; 11977; 11977;
  11976; 11976; 11976; 11975; 11975; 11975; 11975; 11974; 11974; 11974; 11973; 11973; 11973; 11973; 11972; 11972; 11972; 11971;
  11971; 11971; 11970; 11970; 11970; 11970; 11969; 11969; 11969; 11968; 11968; 11968; 11968; 11967; 11967; 11967; 11966; 11966;
  11966; 11965; 11965; 11965; 11965; 11964; 11964; 11964; 11963; 11963; 11963; 11963; 11962; 11962; 11962; 11961; 11961; 11961;
  11960; 11960; 11960; 11960; 11959; 11959; 11959; 11958; 11958; 11958; 11958; 11957; 11957; 11957; 11956; 11956; 11956; 11955;
  11955; 11955; 11955; 11954; 11954; 11954; 11953; 11953; 11953; 11953; 11952; 11952; 11952; 11951; 11951; 11951; 11950; 11950;
  11950; 11950; 11949; 11949; 11949; 11948; 11948; 11948; 11948; 11947; 11947; 11947; 11946; 11946; 11946; 11946; 11945; 11945;
  11945; 11944; 11944; 11944; 11943; 11943; 11943; 11943; 11942; 11942; 11942; 11941; 11941; 11941; 11941; 11940; 11940; 11940;
  11939; 11939; 11939; 11938; 11938; 11938; 11938; 11937; 11937; 11937; 11936; 11936; 11936; 11936; 11935; 11935; 11935; 11934;
  11934; 11934; 11933; 11933; 11933; 11933; 11932; 11932; 11932; 11931; 11931; 11931; 11931; 11930; 11930; 11930; 11929; 11929;
  11929; 11929; 11928; 11928; 11928; 11927; 11927; 11927; 11926; 11926; 11926; 11926; 11925; 11925; 11925; 11924; 11924; 11924;
  11924; 11923; 11923; 11923; 11922; 11922; 11922; 11921; 11921; 11921; 11921; 11920; 11920; 11920; 11919; 11919; 11919; 11919;
  11918; 11918; 11918; 11917; 11917; 11917; 11916; 11916; 11916; 11916; 11915; 11915; 11915; 11914; 11914; 11914; 11914; 11913;
  11913; 11913; 11912; 11912; 11912; 11912; 11911; 11911; 11911; 11910; 11910; 11910; 11909; 11909; 11909; 11909; 11908; 11908;
  11908; 11907; 11907; 11907; 11907; 11906; 11906; 11906; 11905; 11905; 11905; 11905; 11904; 11904; 11904; 11903; 11903; 11903].
Definition pow_lut_56 : list Z := [
  11902; 11902; 11902; 11902; 11901; 11901; 11901; 11900; 11900; 11900; 11900; 11899; 11899; 11899; 11898; 11898; 11898; 11897;
  11897; 11897; 11897; 11896; 11896; 11896; 11895; 11895; 11895; 11895; 11894; 11894; 11894; 11893; 11893; 11893; 11893; 11892;
  11892; 11892; 11891; 11891; 11891; 11890; 11890; 11890; 11890; 11889; 11889; 11889; 11888; 11888; 11888; 11888; 11887; 11887;
  11887; 11886; 11886; 11886; 11886; 11885; 11885; 11885; 11884; 11884; 11884; 11883; 11883; 11883; 11883; 11882; 11882; 11882;
  11881; 11881; 11881; 11881; 11880; 11880; 11880; 11879; 11879; 11879; 11879; 11878; 11878; 11878; 11877; 11877; 11877; 11876;
  11876; 11876; 11876; 11875; 11875; 11875; 11874; 11874; 11874; 11874; 11873; 11873; 11873; 11872; 11872; 11872; 11872; 11871;
  11871; 11871; 11870; 11870; 11870; 11869; 11869; 11869; 11869; 11868; 11868; 11868; 11867; 11867; 11867; 11867; 11866; 11866;
  11866; 11865; 11865; 11865; 11865; 11864; 11864; 11864; 11863; 11863; 11863; 11862; 11862; 11862; 11862; 11861; 11861; 11861;
  11860; 11860; 11860; 11860; 11859; 11859; 11859; 11858; 11858; 11858; 11858; 11857; 11857; 11857; 11856; 11856; 11856; 11855;
  11855; 11855; 11855; 11854; 11854; 11854; 11853; 11853; 11853; 11853; 11852; 11852; 11852; 11851; 11851; 11851; 11851; 11850;
  11850; 11850; 11849; 11849; 11849; 11849; 11848; 11848; 11848; 11847; 11847; 11847; 11846; 11846; 11846; 11846; 11845; 11845;
  11845; 11844; 11844; 11844; 11844; 11843; 11843; 11843; 11842; 11842; 11842; 11842; 11841; 11841; 11841; 11840; 11840; 11840;
  11839; 11839; 11839; 11839; 11838; 11838; 11838; 11837; 11837; 11837; 11837; 11836; 11836; 11836; 11835; 11835; 11835; 11835;
  11834; 11834; 11834; 11833; 11833; 11833; 11833; 11832; 11832; 11832; 11831; 11831; 11831; 11830; 11830; 11830; 11830; 11829;
  11829; 11829; 11828; 11828; 11828; 11828; 11827; 11827; 11827; 11826; 11826; 11826; 11826; 11825; 11825; 11825; 11824; 11824;
  11824; 11824; 11823; 11823; 11823; 11822; 11822; 11822; 11821; 11821; 11821; 11821; 11820; 11820; 11820; 11819; 11819; 11819;
  11819; 11818; 11818; 11818; 11817; 11817; 11817; 11817; 11816; 11816; 11816; 11815; 11815; 11815; 11815; 11814; 11814; 11814;
  11813; 11813; 11813; 11812; 11812; 11812; 11812; 11811; 11811; 11811; 11810; 11810; 11810; 11810; 11809; 11809; 11809; 11808;
  11808; 11808; 11808; 11807; 11807; 11807; 11806; 11806; 11806; 11806; 11805; 11805; 11805; 11804; 11804; 11804; 11803; 11803;
  11803; 11803; 11802; 11802; 11802; 11801; 11801; 11801; 11801; 11800; 11800; 11800; 11799; 11799; 11799; 11799; 11798; 11798;
  11798; 11797; 11797; 11797; 11797; 11796; 11796; 11796; 11795; 11795; 11795; 11795; 11794; 11794; 11794; 11793; 11793; 11793;
  11792; 11792; 11792; 11792; 11791; 11791; 11791; 11790; 11790; 11790; 11790; 11789; 11789; 11789; 11788; 11788; 11788; 11788;
  11787; 11787; 11787; 11786; 11786; 11786; 11786; 11785; 11785; 11785; 11784; 11784; 11784; 11783; 11783; 11783; 11783; 11782;
  11782; 11782; 11781; 11781; 11781; 11781; 11780; 11780; 11780; 11779; 11779; 11779; 11779; 11778; 11778; 11778; 11777; 11777;
  11777; 11777; 11776; 11776; 11776; 11775; 11775; 11775; 11775; 11774; 11774; 11774; 11773; 11773; 11773; 11773; 11772; 11772;
  11772; 11771; 11771; 11771; 11770; 11770; 11770; 11770; 11769; 11769; 11769; 11768; 11768; 11768; 11768; 11767; 11767; 11767;
  11766; 11766; 11766; 11766; 11765; 11765; 11765; 11764; 11764; 11764; 11764; 11763; 11763; 11763; 11762; 11762; 11762; 11762;
  11761; 11761; 11761; 11760; 11760; 11760; 11760; 11759; 11759; 11759; 11758; 11758; 11758; 11757; 11757; 11757; 11757; 11756;
  11756; 11756; 11755; 11755; 11755; 11755; 11754; 11754; 11754; 11753; 11753; 11753; 11753; 11752; 11752; 11752; 11751; 11751;
  11751; 11751; 11750; 11750; 11750; 11749; 11749; 11749; 11749; 11748; 11748; 11748; 11747; 11747; 11747; 11747; 11746; 11746;
  11746; 11745; 11745; 11745; 11744; 11744; 11744; 11744; 11743; 11743; 11743; 11742; 11742; 11742; 11742; 11741; 11741; 11741;
  11740; 11740; 11740; 11740; 11739; 11739; 11739; 11738; 11738; 11738; 11738; 11737; 11737; 11737; 11736; 11736; 11736; 11736;
  11735; 11735; 11735; 11734; 11734; 11734; 11734; 11733; 11733; 11733; 11732; 11732; 11732; 11732; 11731; 11731; 11731; 11730;
  11730; 11730; 11730; 11729; 11729; 11729; 11728; 11728; 11728; 11727; 11727; 11727; 11727; 11726; 11726; 11726; 11725; 11725;
  11725; 11725; 11724; 11724; 11724; 11723; 11723; 11723; 11723; 11722; 11722; 11722; 11721; 11721; 11721; 11721; 11720; 11720;
  11720; 11719; 11719; 11719; 11719; 11718; 11718; 11718; 11717; 11717; 11717; 11717; 11716; 11716; 11716; 11715; 11715; 11715;
  11715; 11714; 11714; 11714; 11713; 11713; 11713; 11713; 11712; 11712; 11712; 11711; 11711; 11711; 11711; 11710; 11710; 11710;
  11709; 11709; 11709; 11708; 11708; 11708; 11708; 11707; 11707; 11707; 11706; 11706; 11706; 11706; 11705; 11705; 11705; 11704;
  11704; 11704; 11704; 11703; 11703; 11703; 11702; 11702; 11702; 11702; 11701; 11701; 11701; 11700; 11700; 11700; 11700; 11699;
  11699; 11699; 11698; 11698; 11698; 11698; 11697; 11697; 11697; 11696; 11696; 11696; 11696; 11695; 11695; 11695; 11694; 11694;
  11694; 11694; 11693; 11693; 11693; 11692; 11692; 11692; 11692; 11691; 11691; 11691; 11690; 11690; 11690; 11690; 11689; 11689;
  11689; 11688; 11688; 11688; 11688; 11687; 11687; 11687; 11686; 11686; 11686; 11686; 11685; 11685; 11685; 11684; 11684; 11684;
  11684; 11683; 11683; 11683; 11682; 11682; 11682; 11681; 11681; 11681; 11681; 11680; 11680; 11680; 11679; 11679; 11679; 11679;
  11678; 11678; 11678; 11677; 11677; 11677; 11677; 11676; 11676; 11676; 11675; 11675; 11675; 11675; 11674; 11674; 11674; 11673;
  11673; 11673; 11673; 11672; 11672; 11672; 11671; 11671; 11671; 11671; 11670; 11670; 11670; 11669; 11669; 11669; 11669; 11668;
  11668; 11668; 11667; 11667; 11667; 11667; 11666; 11666; 11666; 11665; 11665; 11665; 11665; 11664; 11664; 11664; 11663; 11663;
  11663; 11663; 11662; 11662; 11662; 11661; 11661; 11661; 11661; 11660; 11660; 11660; 11659; 11659; 11659; 11659; 11658; 11658;
  11658; 11657; 11657; 11657; 11657; 11656; 11656; 11656; 11655; 11655; 11655; 11655; 11654; 11654; 11654; 11653; 11653; 11653;
  11653; 11652; 11652; 11652; 11651; 11651; 11651; 11651; 11650; 11650; 11650; 11649; 11649; 11649; 11649; 11648; 11648; 11648;
  11647; 11647; 11647; 11647; 11646; 11646; 11646; 11645; 11645; 11645; 11645; 11644; 11644; 11644; 11643; 11643; 11643; 11643].
Definition pow_lut_57 : list Z := [
  11642; 11642; 11642; 11641; 11641; 11641; 11641; 11640; 11640; 11640; 11639; 11639; 11639; 11639; 11638; 11638; 11638; 11637;
  11637; 11637; 11637; 11636; 11636; 11636; 11635; 11635; 11635; 11635; 11634; 11634; 11634; 11633; 11633; 11633; 11633; 11632;
  11632; 11632; 11631; 11631; 11631; 11631; 11630; 11630; 11630; 11629; 11629; 11629; 11629; 11628; 11628; 11628; 11627; 11627;
  11627; 11627; 11626; 11626; 11626; 11625; 11625; 11625; 11625; 11624; 11624; 11624; 11623; 11623; 11623; 11623; 11622; 11622;
  11622; 11621; 11621; 11621; 11621; 11620; 11620; 11620; 11619; 11619; 11619; 11619; 11618; 11618; 11618; 11617; 11617; 11617;
  11617; 11616; 11616; 11616; 11615; 11615; 11615; 11615; 11614; 11614; 11614; 11613; 11613; 11613; 11613; 11612; 11612; 11612;
  11611; 11611; 11611; 11611; 11610; 11610; 11610; 11609; 11609; 11609; 11609; 11608; 11608; 11608; 11607; 11607; 11607; 11607;
  11606; 11606; 11606; 11605; 11605; 11605; 11605; 11604; 11604; 11604; 11603; 11603; 11603; 11603; 11602; 11602; 11602; 11601;
  11601; 11601; 11601; 11600; 11600; 11600; 11599; 11599; 11599; 11599; 11598; 11598; 11598; 11597; 11597; 11597; 11597; 11596;
  11596; 11596; 11595; 11595; 11595; 11595; 11594; 11594; 11594; 11593; 11593; 11593; 11593; 11592; 11592; 11592; 11591; 11591;
  11591; 11591; 11590; 11590; 11590; 11589; 11589; 11589; 11589; 11588; 11588; 11588; 11587; 11587; 11587; 11587; 11586; 11586;
  11586; 11586; 11585; 11585; 11585; 11584; 11584; 11584; 11584; 11583; 11583; 11583; 11582; 11582; 11582; 11582; 11581; 11581;
  11581; 11580; 11580; 11580; 11580; 11579; 11579; 11579; 11578; 11578; 11578; 11578; 11577; 11577; 11577; 11576; 11576; 11576;
  11576; 11575; 11575; 11575; 11574; 11574; 11574; 11574; 11573; 11573; 11573; 11572; 11572; 11572; 11572; 11571; 11571; 11571;
  11570; 11570; 11570; 11570; 11569; 11569; 11569; 11568; 11568; 11568; 11568; 11567; 11567; 11567; 11566; 11566; 11566; 11566;
  11565; 11565; 11565; 11564; 11564; 11564; 11564; 11563; 11563; 11563; 11562; 11562; 11562; 11562; 11561; 11561; 11561; 11560;
  11560; 11560; 11560; 11559; 11559; 11559; 11559; 11558; 11558; 11558; 11557; 11557; 11557; 11557; 11556; 11556; 11556; 11555;
  11555; 11555; 11555; 11554; 11554; 11554; 11553; 11553; 11553; 11553; 11552; 11552; 11552; 11551; 11551; 11551; 11551; 11550;
  11550; 11550; 11549; 11549; 11549; 11549; 11548; 11548; 11548; 11547; 11547; 11547; 11547; 11546; 11546; 11546; 11545; 11545;
  11545; 11545; 11544; 11544; 11544; 11543; 11543; 11543; 11543; 11542; 11542; 11542; 11541; 11541; 11541; 11541; 11540; 11540;
  11540; 11539; 11539; 11539; 11539; 11538; 11538; 11538; 11538; 11537; 11537; 11537; 11536; 11536; 11536; 11536; 11535; 11535;
  11535; 11534; 11534; 11534; 11534; 11533; 11533; 11533; 11532; 11532; 11532; 11532; 11531; 11531; 11531; 11530; 11530; 11530;
  11530; 11529; 11529; 11529; 11528; 11528; 11528; 11528; 11527; 11527; 11527; 11526; 11526; 11526; 11526; 11525; 11525; 11525;
  11524; 11524; 11524; 11524; 11523; 11523; 11523; 11523; 11522; 11522; 11522; 11521; 11521; 11521; 11521; 11520; 11520; 11520;
  11519; 11519; 11519; 11519; 11518; 11518; 11518; 11517; 11517; 11517; 11517; 11516; 11516; 11516; 11515; 11515; 11515; 11515;
  11514; 11514; 11514; 11513; 11513; 11513; 11513; 11512; 11512; 11512; 11511; 11511; 11511; 11511; 11510; 11510; 11510; 11509;
  11509; 11509; 11509; 11508; 11508; 11508; 11508; 11507; 11507; 11507; 11506; 11506; 11506; 11506; 11505; 11505; 11505; 11504;
  11504; 11504; 11504; 11503; 11503; 11503; 11502; 11502; 11502; 11502; 11501; 11501; 11501; 11500; 11500; 11500; 11500; 11499;
  11499; 11499; 11498; 11498; 11498; 11498; 11497; 11497; 11497; 11497; 11496; 11496; 11496; 11495; 11495; 11495; 11495; 11494;
  11494; 11494; 11493; 11493; 11493; 11493; 11492; 11492; 11492; 11491; 11491; 11491; 11491; 11490; 11490; 11490; 11489; 11489;
  11489; 11489; 11488; 11488; 11488; 11487; 11487; 11487; 11487; 11486; 11486; 11486; 11485; 11485; 11485; 11485; 11484; 11484;
  11484; 11484; 11483; 11483; 11483; 11482; 11482; 11482; 11482; 11481; 11481; 11481; 11480; 11480; 11480; 11480; 11479; 11479;
  11479; 11478; 11478; 11478; 11478; 11477; 11477; 11477; 11476; 11476; 11476; 11476; 11475; 11475; 11475; 11475; 11474; 11474;
  11474; 11473; 11473; 11473; 11473; 11472; 11472; 11472; 11471; 11471; 11471; 11471; 11470; 11470; 11470; 11469; 11469; 11469;
  11469; 11468; 11468; 11468; 11467; 11467; 11467; 11467; 11466; 11466; 11466; 11465; 11465; 11465; 11465; 11464; 11464; 11464;
  11464; 11463; 11463; 11463; 11462; 11462; 11462; 11462; 11461; 11461; 11461; 11460; 11460; 11460; 11460; 11459; 11459; 11459;
  11458; 11458; 11458; 11458; 11457; 11457; 11457; 11456; 11456; 11456; 11456; 11455; 11455; 11455; 11455; 11454; 11454; 11454;
  11453; 11453; 11453; 11453; 11452; 11452; 11452; 11451; 11451; 11451; 11451; 11450; 11450; 11450; 11449; 11449; 11449; 11449;
  11448; 11448; 11448; 11447; 11447; 11447; 11447; 11446; 11446; 11446; 11446; 11445; 11445; 11445; 11444; 11444; 11444; 11444;
  11443; 11443; 11443; 11442; 11442; 11442; 11442; 11441; 11441; 11441; 11440; 11440; 11440; 11440; 11439; 11439; 11439; 11438;
  11438; 11438; 11438; 11437; 11437; 11437; 11437; 11436; 11436; 11436; 11435; 11435; 11435; 11435; 11434; 11434; 11434; 11433;
  11433; 11433; 11433; 11432; 11432; 11432; 11431; 11431; 11431; 11431; 11430; 11430; 11430; 11430; 11429; 11429; 11429; 11428;
  11428; 11428; 11428; 11427; 11427; 11427; 11426; 11426; 11426; 11426; 11425; 11425; 11425; 11424; 11424; 11424; 11424; 11423;
  11423; 11423; 11422; 11422; 11422; 11422; 11421; 11421; 11421; 11421; 11420; 11420; 11420; 11419; 11419; 11419; 11419; 11418;
  11418; 11418; 11417; 11417; 11417; 11417; 11416; 11416; 11416; 11415; 11415; 11415; 11415; 11414; 11414; 11414; 11414; 11413;
  11413; 11413; 11412; 11412; 11412; 11412; 11411; 11411; 11411; 11410; 11410; 11410; 11410; 11409; 11409; 11409; 11408; 11408;
  11408; 11408; 11407; 11407; 11407; 11407; 11406; 11406; 11406; 11405; 11405; 11405; 11405; 11404; 11404; 11404; 11403; 11403;
  11403; 11403; 11402; 11402; 11402; 11401; 11401; 11401; 11401; 11400; 11400; 11400; 11400; 11399; 11399; 11399; 11398; 11398;
  11398; 11398; 11397; 11397; 11397; 11396; 11396; 11396; 11396; 11395; 11395; 11395; 11394; 11394; 11394; 11394; 11393; 11393;
  11393; 11393; 11392; 11392; 11392; 11391; 11391; 11391; 11391; 11390; 11390; 11390; 11389; 11389; 11389; 11389; 11388; 11388].
Definition pow_lut_58 : list Z := [
  11388; 11387; 11387; 11387; 11387; 11386; 11386; 11386; 11386; 11385; 11385; 11385; 11384; 11384; 11384; 11384; 11383; 11383;
  11383; 11382; 11382; 11382; 11382; 11381; 11381; 11381; 11380; 11380; 11380; 11380; 11379; 11379; 11379; 11379; 11378; 11378;
  11378; 11377; 11377; 11377; 11377; 11376; 11376; 11376; 11375; 11375; 11375; 11375; 11374; 11374; 11374; 11373; 11373; 11373;
  11373; 11372; 11372; 11372; 11372; 11371; 11371; 11371; 11370; 11370; 11370; 11370; 11369; 11369; 11369; 11368; 11368; 11368;
  11368; 11367; 11367; 11367; 11367; 11366; 11366; 11366; 11365; 11365; 11365; 11365; 11364; 11364; 11364; 11363; 11363; 11363;
  11363; 11362; 11362; 11362; 11361; 11361; 11361; 11361; 11360; 11360; 11360; 11360; 11359; 11359; 11359; 11358; 11358; 11358;
  11358; 11357; 11357; 11357; 11356; 11356; 11356; 11356; 11355; 11355; 11355; 11355; 11354; 11354; 11354; 11353; 11353; 11353;
  11353; 11352; 11352; 11352; 11351; 11351; 11351; 11351; 11350; 11350; 11350; 11350; 11349; 11349; 11349; 11348; 11348; 11348;
  11348; 11347; 11347; 11347; 11346; 11346; 11346; 11346; 11345; 11345; 11345; 11344; 11344; 11344; 11344; 11343; 11343; 11343;
  11343; 11342; 11342; 11342; 11341; 11341; 11341; 11341; 11340; 11340; 11340; 11339; 11339; 11339; 11339; 11338; 11338; 11338;
  11338; 11337; 11337; 11337; 11336; 11336; 11336; 11336; 11335; 11335; 11335; 11334; 11334; 11334; 11334; 11333; 11333; 11333;
  11333; 11332; 11332; 11332; 11331; 11331; 11331; 11331; 11330; 11330; 11330; 11329; 11329; 11329; 11329; 11328; 11328; 11328;
  11328; 11327; 11327; 11327; 11326; 11326; 11326; 11326; 11325; 11325; 11325; 11324; 11324; 11324; 11324; 11323; 11323; 11323;
  11322; 11322; 11322; 11322; 11321; 11321; 11321; 11321; 11320; 11320; 11320; 11319; 11319; 11319; 11319; 11318; 11318; 11318;
  11317; 11317; 11317; 11317; 11316; 11316; 11316; 11316; 11315; 11315; 11315; 11314; 11314; 11314; 11314; 11313; 11313; 11313;
  11312; 11312; 11312; 11312; 11311; 11311; 11311; 11311; 11310; 11310; 11310; 11309; 11309; 11309; 11309; 11308; 11308; 11308;
  11307; 11307; 11307; 11307; 11306; 11306; 11306; 11306; 11305; 11305; 11305; 11304; 11304; 11304; 11304; 11303; 11303; 11303;
  11302; 11302; 11302; 11302; 11301; 11301; 11301; 11301; 11300; 11300; 11300; 11299; 11299; 11299; 11299; 11298; 11298; 11298;
  11297; 11297; 11297; 11297; 11296; 11296; 11296; 11296; 11295; 11295; 11295; 11294; 11294; 11294; 11294; 11293; 11293; 11293;
  11293; 11292; 11292; 11292; 11291; 11291; 11291; 11291; 11290; 11290; 11290; 11289; 11289; 11289; 11289; 11288; 11288; 11288;
  11288; 11287; 11287; 11287; 11286; 11286; 11286; 11286; 11285; 11285; 11285; 11284; 11284; 11284; 11284; 11283; 11283; 11283;
  11283; 11282; 11282; 11282; 11281; 11281; 11281; 11281; 11280; 11280; 11280; 11279; 11279; 11279; 11279; 11278; 11278; 11278;
  11278; 11277; 11277; 11277; 11276; 11276; 11276; 11276; 11275; 11275; 11275; 11274; 11274; 11274; 11274; 11273; 11273; 11273;
  11273; 11272; 11272; 11272; 11271; 11271; 11271; 11271; 11270; 11270; 11270; 11270; 11269; 11269; 11269; 11268; 11268; 11268;
  11268; 11267; 11267; 11267; 11266; 11266; 11266; 11266; 11265; 11265; 11265; 11265; 11264; 11264; 11264; 11263; 11263; 11263;
  11263; 11262; 11262; 11262; 11261; 11261; 11261; 11261; 11260; 11260; 11260; 11260; 11259; 11259; 11259; 11258; 11258; 11258;
  11258; 11257; 11257; 11257; 11257; 11256; 11256; 11256; 11255; 11255; 11255; 11255; 11254; 11254; 11254; 11253; 11253; 11253;
  11253; 11252; 11252; 11252; 11252; 11251; 11251; 11251; 11250; 11250; 11250; 11250; 11249; 11249; 11249; 11248; 11248; 11248;
  11248; 11247; 11247; 11247; 11247; 11246; 11246; 11246; 11245; 11245; 11245; 11245; 11244; 11244; 11244; 11244; 11243; 11243;
  11243; 11242; 11242; 11242; 11242; 11241; 11241; 11241; 11240; 11240; 11240; 11240; 11239; 11239; 11239; 11239; 11238; 11238;
  11238; 11237; 11237; 11237; 11237; 11236; 11236; 11236; 11236; 11235; 11235; 11235; 11234; 11234; 11234; 11234; 11233; 11233;
  11233; 11232; 11232; 11232; 11232; 11231; 11231; 11231; 11231; 11230; 11230; 11230; 11229; 11229; 11229; 11229; 11228; 11228;
  11228; 11228; 11227; 11227; 11227; 11226; 11226; 11226; 11226; 11225; 11225; 11225; 11224; 11224; 11224; 11224; 11223; 11223;
  11223; 11223; 11222; 11222; 11222; 11221; 11221; 11221; 11221; 11220; 11220; 11220; 11220; 11219; 11219; 11219; 11218; 11218;
  11218; 11218; 11217; 11217; 11217; 11216; 11216; 11216; 11216; 11215; 11215; 11215; 11215; 11214; 11214; 11214; 11213; 11213;
  11213; 11213; 11212; 11212; 11212; 11212; 11211; 11211; 11211; 11210; 11210; 11210; 11210; 11209; 11209; 11209; 11209; 11208;
  11208; 11208; 11207; 11207; 11207; 11207; 11206; 11206; 11206; 11205; 11205; 11205; 11205; 11204; 11204; 11204; 11204; 11203;
  11203; 11203; 11202; 11202; 11202; 11202; 11201; 11201; 11201; 11201; 11200; 11200; 11200; 11199; 11199; 11199; 11199; 11198;
  11198; 11198; 11198; 11197; 11197; 11197; 11196; 11196; 11196; 11196; 11195; 11195; 11195; 11194; 11194; 11194; 11194; 11193;
  11193; 11193; 11193; 11192; 11192; 11192; 11191; 11191; 11191; 11191; 11190; 11190; 11190; 11190; 11189; 11189; 11189; 11188;
  11188; 11188; 11188; 11187; 11187; 11187; 11187; 11186; 11186; 11186; 11185; 11185; 11185; 11185; 11184; 11184; 11184; 11183;
  11183; 11183; 11183; 11182; 11182; 11182; 11182; 11181; 11181; 11181; 11180; 11180; 11180; 11180; 11179; 11179; 11179; 11179;
  11178; 11178; 11178; 11177; 11177; 11177; 11177; 11176; 11176; 11176; 11176; 11175; 11175; 11175; 11174; 11174; 11174; 11174;
  11173; 11173; 11173; 11173; 11172; 11172; 11172; 11171; 11171; 11171; 11171; 11170; 11170; 11170; 11169; 11169; 11169; 11169;
  11168; 11168; 11168; 11168; 11167; 11167; 11167; 11166; 11166; 11166; 11166; 11165; 11165; 11165; 11165; 11164; 11164; 11164;
  11163; 11163; 11163; 11163; 11162; 11162; 11162; 11162; 11161; 11161; 11161; 11160; 11160; 11160; 11160; 11159; 11159; 11159;
  11159; 11158; 11158; 11158; 11157; 11157; 11157; 11157; 11156; 11156; 11156; 11156; 11155; 11155; 11155; 11154; 11154; 11154;
  11154; 11153; 11153; 11153; 11152; 11152; 11152; 11152; 11151; 11151; 11151; 11151; 11150; 11150; 11150; 11149; 11149; 11149;
  11149; 11148; 11148; 11148; 11148; 11147; 11147; 11147; 11146; 11146; 11146; 11146; 11145; 11145; 11145; 11145; 11144; 11144;
  11144; 11143; 11143; 11143; 11143; 11142; 11142; 11142; 11142; 11141; 11141; 11141; 11140; 11140; 11140; 11140; 11139; 11139].
Definition pow_lut_59 : list Z := [
  11139; 11139; 11138; 11138; 11138; 11137; 11137; 11137; 11137; 11136; 11136; 11136; 11136; 11135; 11135; 11135; 11134; 11134;
  11134; 11134; 11133; 11133; 11133; 11133; 11132; 11132; 11132; 11131; 11131; 11131; 11131; 11130; 11130; 11130; 11130; 11129;
  11129; 11129; 11128; 11128; 11128; 11128; 11127; 11127; 11127; 11127; 11126; 11126; 11126; 11125; 11125; 11125; 11125; 11124;
  11124; 11124; 11123; 11123; 11123; 11123; 11122; 11122; 11122; 11122; 11121; 11121; 11121; 11120; 11120; 11120; 11120; 11119;
  11119; 11119; 11119; 11118; 11118; 11118; 11117; 11117; 11117; 11117; 11116; 11116; 11116; 11116; 11115; 11115; 11115; 11114;
  11114; 11114; 11114; 11113; 11113; 11113; 11113; 11112; 11112; 11112; 11111; 11111; 11111; 11111; 11110; 11110; 11110; 11110;
  11109; 11109; 11109; 11108; 11108; 11108; 11108; 11107; 11107; 11107; 11107; 11106; 11106; 11106; 11105; 11105; 11105; 11105;
  11104; 11104; 11104; 11104; 11103; 11103; 11103; 11102; 11102; 11102; 11102; 11101; 11101; 11101; 11101; 11100; 11100; 11100;
  11099; 11099; 11099; 11099; 11098; 11098; 11098; 11098; 11097; 11097; 11097; 11096; 11096; 11096; 11096; 11095; 11095; 11095;
  11095; 11094; 11094; 11094; 11093; 11093; 11093; 11093; 11092; 11092; 11092; 11092; 11091; 11091; 11091; 11090; 11090; 11090;
  11090; 11089; 11089; 11089; 11089; 11088; 11088; 11088; 11087; 11087; 11087; 11087; 11086; 11086; 11086; 11086; 11085; 11085;
  11085; 11085; 11084; 11084; 11084; 11083; 11083; 11083; 11083; 11082; 11082; 11082; 11082; 11081; 11081; 11081; 11080; 11080;
  11080; 11080; 11079; 11079; 11079; 11079; 11078; 11078; 11078; 11077; 11077; 11077; 11077; 11076; 11076; 11076; 11076; 11075;
  11075; 11075; 11074; 11074; 11074; 11074; 11073; 11073; 11073; 11073; 11072; 11072; 11072; 11071; 11071; 11071; 11071; 11070;
  11070; 11070; 11070; 11069; 11069; 11069; 11068; 11068; 11068; 11068; 11067; 11067; 11067; 11067; 11066; 11066; 11066; 11065;
  11065; 11065; 11065; 11064; 11064; 11064; 11064; 11063; 11063; 11063; 11062; 11062; 11062; 11062; 11061; 11061; 11061; 11061;
  11060; 11060; 11060; 11059; 11059; 11059; 11059; 11058; 11058; 11058; 11058; 11057; 11057; 11057; 11056; 11056; 11056; 11056;
  11055; 11055; 11055; 11055; 11054; 11054; 11054; 11054; 11053; 11053; 11053; 11052; 11052; 11052; 11052; 11051; 11051; 11051;
  11051; 11050; 11050; 11050; 11049; 11049; 11049; 11049; 11048; 11048; 11048; 11048; 11047; 11047; 11047; 11046; 11046; 11046;
  11046; 11045; 11045; 11045; 11045; 11044; 11044; 11044; 11043; 11043; 11043; 11043; 11042; 11042; 11042; 11042; 11041; 11041;
  11041; 11040; 11040; 11040; 11040; 11039; 11039; 11039; 11039; 11038; 11038; 11038; 11038; 11037; 11037; 11037; 11036; 11036;
  11036; 11036; 11035; 11035; 11035; 11035; 11034; 11034; 11034; 11033; 11033; 11033; 11033; 11032; 11032; 11032; 11032; 11031;
  11031; 11031; 11030; 11030; 11030; 11030; 11029; 11029; 11029; 11029; 11028; 11028; 11028; 11027; 11027; 11027; 11027; 11026;
  11026; 11026; 11026; 11025; 11025; 11025; 11025; 11024; 11024; 11024; 11023; 11023; 11023; 11023; 11022; 11022; 11022; 11022;
  11021; 11021; 11021; 11020; 11020; 11020; 11020; 11019; 11019; 11019; 11019; 11018; 11018; 11018; 11017; 11017; 11017; 11017;
  11016; 11016; 11016; 11016; 11015; 11015; 11015; 11014; 11014; 11014; 11014; 11013; 11013; 11013; 11013; 11012; 11012; 11012;
  11012; 11011; 11011; 11011; 11010; 11010; 11010; 11010; 11009; 11009; 11009; 11009; 11008; 11008; 11008; 11007; 11007; 11007;
  11007; 11006; 11006; 11006; 11006; 11005; 11005; 11005; 11004; 11004; 11004; 11004; 11003; 11003; 11003; 11003; 11002; 11002;
  11002; 11002; 11001; 11001; 11001; 11000; 11000; 11000; 11000; 10999; 10999; 10999; 10999; 10998; 10998; 10998; 10997; 10997;
  10997; 10997; 10996; 10996; 10996; 10996; 10995; 10995; 10995; 10994; 10994; 10994; 10994; 10993; 10993; 10993; 10993; 10992;
  10992; 10992; 10992; 10991; 10991; 10991; 10990; 10990; 10990; 10990; 10989; 10989; 10989; 10989; 10988; 10988; 10988; 10987;
  10987; 10987; 10987; 10986; 10986; 10986; 10986; 10985; 10985; 10985; 10985; 10984; 10984; 10984; 10983; 10983; 10983; 10983;
  10982; 10982; 10982; 10982; 10981; 10981; 10981; 10980; 10980; 10980; 10980; 10979; 10979; 10979; 10979; 10978; 10978; 10978;
  10977; 10977; 10977; 10977; 10976; 10976; 10976; 10976; 10975; 10975; 10975; 10975; 10974; 10974; 10974; 10973; 10973; 10973;
  10973; 10972; 10972; 10972; 10972; 10971; 10971; 10971; 10970; 10970; 10970; 10970; 10969; 10969; 10969; 10969; 10968; 10968;
  10968; 10968; 10967; 10967; 10967; 10966; 10966; 10966; 10966; 10965; 10965; 10965; 10965; 10964; 10964; 10964; 10963; 10963;
  10963; 10963; 10962; 10962; 10962; 10962; 10961; 10961; 10961; 10961; 10960; 10960; 10960; 10959; 10959; 10959; 10959; 10958;
  10958; 10958; 10958; 10957; 10957; 10957; 10956; 10956; 10956; 10956; 10955; 10955; 10955; 10955; 10954; 10954; 10954; 10954;
  10953; 10953; 10953; 10952; 10952; 10952; 10952; 10951; 10951; 10951; 10951; 10950; 10950; 10950; 10949; 10949; 10949; 10949;
  10948; 10948; 10948; 10948; 10947; 10947; 10947; 10947; 10946; 10946; 10946; 10945; 10945; 10945; 10945; 10944; 10944; 10944;
  10944; 10943; 10943; 10943; 10943; 10942; 10942; 10942; 10941; 10941; 10941; 10941; 10940; 10940; 10940; 10940; 10939; 10939;
  10939; 10938; 10938; 10938; 10938; 10937; 10937; 10937; 10937; 10936; 10936; 10936; 10936; 10935; 10935; 10935; 10934; 10934;
  10934; 10934; 10933; 10933; 10933; 10933; 10932; 10932; 10932; 10931; 10931; 10931; 10931; 10930; 10930; 10930; 10930; 10929;
  10929; 10929; 10929; 10928; 10928; 10928; 10927; 10927; 10927; 10927; 10926; 10926; 10926; 10926; 10925; 10925; 10925; 10925;
  10924; 10924; 10924; 10923; 10923; 10923; 10923; 10922; 10922; 10922; 10922; 10921; 10921; 10921; 10920; 10920; 10920; 10920;
  10919; 10919; 10919; 10919; 10918; 10918; 10918; 10918; 10917; 10917; 10917; 10916; 10916; 10916; 10916; 10915; 10915; 10915;
  10915; 10914; 10914; 10914; 10914; 10913; 10913; 10913; 10912; 10912; 10912; 10912; 10911; 10911; 10911; 10911; 10910; 10910;
  10910; 10909; 10909; 10909; 10909; 10908; 10908; 10908; 10908; 10907; 10907; 10907; 10907; 10906; 10906; 10906; 10905; 10905;
  10905; 10905; 10904; 10904; 10904; 10904; 10903; 10903; 10903; 10903; 10902; 10902; 10902; 10901; 10901; 10901; 10901; 10900;
  10900; 10900; 10900; 10899; 10899; 10899; 10899; 10898; 10898; 10898; 10897; 10897; 10897; 10897; 10896; 10896; 10896; 10896].
Definition pow_lut_60 : list Z := [
  10895; 10895; 10895; 10895; 10894; 10894; 10894; 10893; 10893; 10893; 10893; 10892; 10892; 10892; 10892; 10891; 10891; 10891;
  10890; 10890; 10890; 10890; 10889; 10889; 10889; 10889; 10888; 10888; 10888; 10888; 10887; 10887; 10887; 10886; 10886; 10886;
  10886; 10885; 10885; 10885; 10885; 10884; 10884; 10884; 10884; 10883; 10883; 10883; 10882; 10882; 10882; 10882; 10881; 10881;
  10881; 10881; 10880; 10880; 10880; 10880; 10879; 10879; 10879; 10878; 10878; 10878; 10878; 10877; 10877; 10877; 10877; 10876;
  10876; 10876; 10876; 10875; 10875; 10875; 10874; 10874; 10874; 10874; 10873; 10873; 10873; 10873; 10872; 10872; 10872; 10872;
  10871; 10871; 10871; 10870; 10870; 10870; 10870; 10869; 10869; 10869; 10869; 10868; 10868; 10868; 10868; 10867; 10867; 10867;
  10866; 10866; 10866; 10866; 10865; 10865; 10865; 10865; 10864; 10864; 10864; 10864; 10863; 10863; 10863; 10862; 10862; 10862;
  10862; 10861; 10861; 10861; 10861; 10860; 10860; 10860; 10860; 10859; 10859; 10859; 10858; 10858; 10858; 10858; 10857; 10857;
  10857; 10857; 10856; 10856; 10856; 10856; 10855; 10855; 10855; 10854; 10854; 10854; 10854; 10853; 10853; 10853; 10853; 10852;
  10852; 10852; 10852; 10851; 10851; 10851; 10850; 10850; 10850; 10850; 10849; 10849; 10849; 10849; 10848; 10848; 10848; 10848;
  10847; 10847; 10847; 10846; 10846; 10846; 10846; 10845; 10845; 10845; 10845; 10844; 10844; 10844; 10844; 10843; 10843; 10843;
  10842; 10842; 10842; 10842; 10841; 10841; 10841; 10841; 10840; 10840; 10840; 10840; 10839; 10839; 10839; 10838; 10838; 10838;
  10838; 10837; 10837; 10837; 10837; 10836; 10836; 10836; 10836; 10835; 10835; 10835; 10834; 10834; 10834; 10834; 10833; 10833;
  10833; 10833; 10832; 10832; 10832; 10832; 10831; 10831; 10831; 10830; 10830; 10830; 10830; 10829; 10829; 10829; 10829; 10828;
  10828; 10828; 10828; 10827; 10827; 10827; 10826; 10826; 10826; 10826; 10825; 10825; 10825; 10825; 10824; 10824; 10824; 10824;
  10823; 10823; 10823; 10823; 10822; 10822; 10822; 10821; 10821; 10821; 10821; 10820; 10820; 10820; 10820; 10819; 10819; 10819;
  10819; 10818; 10818; 10818; 10817; 10817; 10817; 10817; 10816; 10816; 10816; 10816; 10815; 10815; 10815; 10815; 10814; 10814;
  10814; 10813; 10813; 10813; 10813; 10812; 10812; 10812; 10812; 10811; 10811; 10811; 10811; 10810; 10810; 10810; 10809; 10809;
  10809; 10809; 10808; 10808; 10808; 10808; 10807; 10807; 10807; 10807; 10806; 10806; 10806; 10806; 10805; 10805; 10805; 10804;
  10804; 10804; 10804; 10803; 10803; 10803; 10803; 10802; 10802; 10802; 10802; 10801; 10801; 10801; 10800; 10800; 10800; 10800;
  10799; 10799; 10799; 10799; 10798; 10798; 10798; 10798; 10797; 10797; 10797; 10796; 10796; 10796; 10796; 10795; 10795; 10795;
  10795; 10794; 10794; 10794; 10794; 10793; 10793; 10793; 10793; 10792; 10792; 10792; 10791; 10791; 10791; 10791; 10790; 10790;
  10790; 10790; 10789; 10789; 10789; 10789; 10788; 10788; 10788; 10787; 10787; 10787; 10787; 10786; 10786; 10786; 10786; 10785;
  10785; 10785; 10785; 10784; 10784; 10784; 10783; 10783; 10783; 10783; 10782; 10782; 10782; 10782; 10781; 10781; 10781; 10781;
  10780; 10780; 10780; 10780; 10779; 10779; 10779; 10778; 10778; 10778; 10778; 10777; 10777; 10777; 10777; 10776; 10776; 10776;
  10776; 10775; 10775; 10775; 10774; 10774; 10774; 10774; 10773; 10773; 10773; 10773; 10772; 10772; 10772; 10772; 10771; 10771;
  10771; 10771; 10770; 10770; 10770; 10769; 10769; 10769; 10769; 10768; 10768; 10768; 10768; 10767; 10767; 10767; 10767; 10766;
  10766; 10766; 10766; 10765; 10765; 10765; 10764; 10764; 10764; 10764; 10763; 10763; 10763; 10763; 10762; 10762; 10762; 10762;
  10761; 10761; 10761; 10760; 10760; 10760; 10760; 10759; 10759; 10759; 10759; 10758; 10758; 10758; 10758; 10757; 10757; 10757;
  10757; 10756; 10756; 10756; 10755; 10755; 10755; 10755; 10754; 10754; 10754; 10754; 10753; 10753; 10753; 10753; 10752; 10752;
  10752; 10752; 10751; 10751; 10751; 10750; 10750; 10750; 10750; 10749; 10749; 10749; 10749; 10748; 10748; 10748; 10748; 10747;
  10747; 10747; 10746; 10746; 10746; 10746; 10745; 10745; 10745; 10745; 10744; 10744; 10744; 10744; 10743; 10743; 10743; 10743;
  10742; 10742; 10742; 10741; 10741; 10741; 10741; 10740; 10740; 10740; 10740; 10739; 10739; 10739; 10739; 10738; 10738; 10738;
  10738; 10737; 10737; 10737; 10736; 10736; 10736; 10736; 10735; 10735; 10735; 10735; 10734; 10734; 10734; 10734; 10733; 10733;
  10733; 10733; 10732; 10732; 10732; 10731; 10731; 10731; 10731; 10730; 10730; 10730; 10730; 10729; 10729; 10729; 10729; 10728;
  10728; 10728; 10728; 10727; 10727; 10727; 10726; 10726; 10726; 10726; 10725; 10725; 10725; 10725; 10724; 10724; 10724; 10724;
  10723; 10723; 10723; 10722; 10722; 10722; 10722; 10721; 10721; 10721; 10721; 10720; 10720; 10720; 10720; 10719; 10719; 10719;
  10719; 10718; 10718; 10718; 10717; 10717; 10717; 10717; 10716; 10716; 10716; 10716; 10715; 10715; 10715; 10715; 10714; 10714;
  10714; 10714; 10713; 10713; 10713; 10712; 10712; 10712; 10712; 10711; 10711; 10711; 10711; 10710; 10710; 10710; 10710; 10709;
  10709; 10709; 10709; 10708; 10708; 10708; 10707; 10707; 10707; 10707; 10706; 10706; 10706; 10706; 10705; 10705; 10705; 10705;
  10704; 10704; 10704; 10704; 10703; 10703; 10703; 10703; 10702; 10702; 10702; 10701; 10701; 10701; 10701; 10700; 10700; 10700;
  10700; 10699; 10699; 10699; 10699; 10698; 10698; 10698; 10698; 10697; 10697; 10697; 10696; 10696; 10696; 10696; 10695; 10695;
  10695; 10695; 10694; 10694; 10694; 10694; 10693; 10693; 10693; 10693; 10692; 10692; 10692; 10691; 10691; 10691; 10691; 10690;
  10690; 10690; 10690; 10689; 10689; 10689; 10689; 10688; 10688; 10688; 10688; 10687; 10687; 10687; 10686; 10686; 10686; 10686;
  10685; 10685; 10685; 10685; 10684; 10684; 10684; 10684; 10683; 10683; 10683; 10683; 10682; 10682; 10682; 10681; 10681; 10681;
  10681; 10680; 10680; 10680; 10680; 10679; 10679; 10679; 10679; 10678; 10678; 10678; 10678; 10677; 10677; 10677; 10677; 10676;
  10676; 10676; 10675; 10675; 10675; 10675; 10674; 10674; 10674; 10674; 10673; 10673; 10673; 10673; 10672; 10672; 10672; 10672;
  10671; 10671; 10671; 10670; 10670; 10670; 10670; 10669; 10669; 10669; 10669; 10668; 10668; 10668; 10668; 10667; 10667; 10667;
  10667; 10666; 10666; 10666; 10666; 10665; 10665; 10665; 10664; 10664; 10664; 10664; 10663; 10663; 10663; 10663; 10662; 10662;
  10662; 10662; 10661; 10661; 10661; 10661; 10660; 10660; 10660; 10659; 10659; 10659; 10659; 10658; 10658; 10658; 10658; 10657].
Definition pow_lut_61 : list Z := [
  10657; 10657; 10657; 10656; 10656; 10656; 10656; 10655; 10655; 10655; 10655; 10654; 10654; 10654; 10653; 10653; 10653; 10653;
  10652; 10652; 10652; 10652; 10651; 10651; 10651; 10651; 10650; 10650; 10650; 10650; 10649; 10649; 10649; 10648; 10648; 10648;
  10648; 10647; 10647; 10647; 10647; 10646; 10646; 10646; 10646; 10645; 10645; 10645; 10645; 10644; 10644; 10644; 10644; 10643;
  10643; 10643; 10642; 10642; 10642; 10642; 10641; 10641; 10641; 10641; 10640; 10640; 10640; 10640; 10639; 10639; 10639; 10639;
  10638; 10638; 10638; 10638; 10637; 10637; 10637; 10636; 10636; 10636; 10636; 10635; 10635; 10635; 10635; 10634; 10634; 10634;
  10634; 10633; 10633; 10633; 10633; 10632; 10632; 10632; 10632; 10631; 10631; 10631; 10630; 10630; 10630; 10630; 10629; 10629;
  10629; 10629; 10628; 10628; 10628; 10628; 10627; 10627; 10627; 10627; 10626; 10626; 10626; 10626; 10625; 10625; 10625; 10624;
  10624; 10624; 10624; 10623; 10623; 10623; 10623; 10622; 10622; 10622; 10622; 10621; 10621; 10621; 10621; 10620; 10620; 10620;
  10620; 10619; 10619; 10619; 10618; 10618; 10618; 10618; 10617; 10617; 10617; 10617; 10616; 10616; 10616; 10616; 10615; 10615;
  10615; 10615; 10614; 10614; 10614; 10614; 10613; 10613; 10613; 10612; 10612; 10612; 10612; 10611; 10611; 10611; 10611; 10610;
  10610; 10610; 10610; 10609; 10609; 10609; 10609; 10608; 10608; 10608; 10608; 10607; 10607; 10607; 10606; 10606; 10606; 10606;
  10605; 10605; 10605; 10605; 10604; 10604; 10604; 10604; 10603; 10603; 10603; 10603; 10602; 10602; 10602; 10602; 10601; 10601;
  10601; 10600; 10600; 10600; 10600; 10599; 10599; 10599; 10599; 10598; 10598; 10598; 10598; 10597; 10597; 10597; 10597; 10596;
  10596; 10596; 10596; 10595; 10595; 10595; 10594; 10594; 10594; 10594; 10593; 10593; 10593; 10593; 10592; 10592; 10592; 10592;
  10591; 10591; 10591; 10591; 10590; 10590; 10590; 10590; 10589; 10589; 10589; 10589; 10588; 10588; 10588; 10587; 10587; 10587;
  10587; 10586; 10586; 10586; 10586; 10585; 10585; 10585; 10585; 10584; 10584; 10584; 10584; 10583; 10583; 10583; 10583; 10582;
  10582; 10582; 10581; 10581; 10581; 10581; 10580; 10580; 10580; 10580; 10579; 10579; 10579; 10579; 10578; 10578; 10578; 10578;
  10577; 10577; 10577; 10577; 10576; 10576; 10576; 10576; 10575; 10575; 10575; 10574; 10574; 10574; 10574; 10573; 10573; 10573;
  10573; 10572; 10572; 10572; 10572; 10571; 10571; 10571; 10571; 10570; 10570; 10570; 10570; 10569; 10569; 10569; 10569; 10568;
  10568; 10568; 10567; 10567; 10567; 10567; 10566; 10566; 10566; 10566; 10565; 10565; 10565; 10565; 10564; 10564; 10564; 10564;
  10563; 10563; 10563; 10563; 10562; 10562; 10562; 10562; 10561; 10561; 10561; 10560; 10560; 10560; 10560; 10559; 10559; 10559;
  10559; 10558; 10558; 10558; 10558; 10557; 10557; 10557; 10557; 10556; 10556; 10556; 10556; 10555; 10555; 10555; 10555; 10554;
  10554; 10554; 10553; 10553; 10553; 10553; 10552; 10552; 10552; 10552; 10551; 10551; 10551; 10551; 10550; 10550; 10550; 10550;
  10549; 10549; 10549; 10549; 10548; 10548; 10548; 10548; 10547; 10547; 10547; 10546; 10546; 10546; 10546; 10545; 10545; 10545;
  10545; 10544; 10544; 10544; 10544; 10543; 10543; 10543; 10543; 10542; 10542; 10542; 10542; 10541; 10541; 10541; 10541; 10540;
  10540; 10540; 10539; 10539; 10539; 10539; 10538; 10538; 10538; 10538; 10537; 10537; 10537; 10537; 10536; 10536; 10536; 10536;
  10535; 10535; 10535; 10535; 10534; 10534; 10534; 10534; 10533; 10533; 10533; 10532; 10532; 10532; 10532; 10531; 10531; 10531;
  10531; 10530; 10530; 10530; 10530; 10529; 10529; 10529; 10529; 10528; 10528; 10528; 10528; 10527; 10527; 10527; 10527; 10526;
  10526; 10526; 10526; 10525; 10525; 10525; 10524; 10524; 10524; 10524; 10523; 10523; 10523; 10523; 10522; 10522; 10522; 10522;
  10521; 10521; 10521; 10521; 10520; 10520; 10520; 10520; 10519; 10519; 10519; 10519; 10518; 10518; 10518; 10517; 10517; 10517;
  10517; 10516; 10516; 10516; 10516; 10515; 10515; 10515; 10515; 10514; 10514; 10514; 10514; 10513; 10513; 10513; 10513; 10512;
  10512; 10512; 10512; 10511; 10511; 10511; 10511; 10510; 10510; 10510; 10509; 10509; 10509; 10509; 10508; 10508; 10508; 10508;
  10507; 10507; 10507; 10507; 10506; 10506; 10506; 10506; 10505; 10505; 10505; 10505; 10504; 10504; 10504; 10504; 10503; 10503;
  10503; 10503; 10502; 10502; 10502; 10501; 10501; 10501; 10501; 10500; 10500; 10500; 10500; 10499; 10499; 10499; 10499; 10498;
  10498; 10498; 10498; 10497; 10497; 10497; 10497; 10496; 10496; 10496; 10496; 10495; 10495; 10495; 10495; 10494; 10494; 10494;
  10494; 10493; 10493; 10493; 10492; 10492; 10492; 10492; 10491; 10491; 10491; 10491; 10490; 10490; 10490; 10490; 10489; 10489;
  10489; 10489; 10488; 10488; 10488; 10488; 10487; 10487; 10487; 10487; 10486; 10486; 10486; 10486; 10485; 10485; 10485; 10484;
  10484; 10484; 10484; 10483; 10483; 10483; 10483; 10482; 10482; 10482; 10482; 10481; 10481; 10481; 10481; 10480; 10480; 10480;
  10480; 10479; 10479; 10479; 10479; 10478; 10478; 10478; 10478; 10477; 10477; 10477; 10477; 10476; 10476; 10476; 10475; 10475;
  10475; 10475; 10474; 10474; 10474; 10474; 10473; 10473; 10473; 10473; 10472; 10472; 10472; 10472; 10471; 10471; 10471; 10471;
  10470; 10470; 10470; 10470; 10469; 10469; 10469; 10469; 10468; 10468; 10468; 10468; 10467; 10467; 10467; 10466; 10466; 10466;
  10466; 10465; 10465; 10465; 10465; 10464; 10464; 10464; 10464; 10463; 10463; 10463; 10463; 10462; 10462; 10462; 10462; 10461;
  10461; 10461; 10461; 10460; 10460; 10460; 10460; 10459; 10459; 10459; 10459; 10458; 10458; 10458; 10457; 10457; 10457; 10457;
  10456; 10456; 10456; 10456; 10455; 10455; 10455; 10455; 10454; 10454; 10454; 10454; 10453; 10453; 10453; 10453; 10452; 10452;
  10452; 10452; 10451; 10451; 10451; 10451; 10450; 10450; 10450; 10450; 10449; 10449; 10449; 10449; 10448; 10448; 10448; 10447;
  10447; 10447; 10447; 10446; 10446; 10446; 10446; 10445; 10445; 10445; 10445; 10444; 10444; 10444; 10444; 10443; 10443; 10443;
  10443; 10442; 10442; 10442; 10442; 10441; 10441; 10441; 10441; 10440; 10440; 10440; 10440; 10439; 10439; 10439; 10438; 10438;
  10438; 10438; 10437; 10437; 10437; 10437; 10436; 10436; 10436; 10436; 10435; 10435; 10435; 10435; 10434; 10434; 10434; 10434;
  10433; 10433; 10433; 10433; 10432; 10432; 10432; 10432; 10431; 10431; 10431; 10431; 10430; 10430; 10430; 10430; 10429; 10429;
  10429; 10429; 10428; 10428; 10428; 10427; 10427; 10427; 10427; 10426; 10426; 10426; 10426; 10425; 10425; 10425; 10425; 10424].
Definition pow_lut_62 : list Z := [
  10424; 10424; 10424; 10423; 10423; 10423; 10423; 10422; 10422; 10422; 10422; 10421; 10421; 10421; 10421; 10420; 10420; 10420;
  10420; 10419; 10419; 10419; 10419; 10418; 10418; 10418; 10417; 10417; 10417; 10417; 10416; 10416; 10416; 10416; 10415; 10415;
  10415; 10415; 10414; 10414; 10414; 10414; 10413; 10413; 10413; 10413; 10412; 10412; 10412; 10412; 10411; 10411; 10411; 10411;
  10410; 10410; 10410; 10410; 10409; 10409; 10409; 10409; 10408; 10408; 10408; 10408; 10407; 10407; 10407; 10407; 10406; 10406;
  10406; 10405; 10405; 10405; 10405; 10404; 10404; 10404; 10404; 10403; 10403; 10403; 10403; 10402; 10402; 10402; 10402; 10401;
  10401; 10401; 10401; 10400; 10400; 10400; 10400; 10399; 10399; 10399; 10399; 10398; 10398; 10398; 10398; 10397; 10397; 10397;
  10397; 10396; 10396; 10396; 10396; 10395; 10395; 10395; 10394; 10394; 10394; 10394; 10393; 10393; 10393; 10393; 10392; 10392;
  10392; 10392; 10391; 10391; 10391; 10391; 10390; 10390; 10390; 10390; 10389; 10389; 10389; 10389; 10388; 10388; 10388; 10388;
  10387; 10387; 10387; 10387; 10386; 10386; 10386; 10386; 10385; 10385; 10385; 10385; 10384; 10384; 10384; 10384; 10383; 10383;
  10383; 10383; 10382; 10382; 10382; 10381; 10381; 10381; 10381; 10380; 10380; 10380; 10380; 10379; 10379; 10379; 10379; 10378;
  10378; 10378; 10378; 10377; 10377; 10377; 10377; 10376; 10376; 10376; 10376; 10375; 10375; 10375; 10375; 10374; 10374; 10374;
  10374; 10373; 10373; 10373; 10373; 10372; 10372; 10372; 10372; 10371; 10371; 10371; 10371; 10370; 10370; 10370; 10370; 10369;
  10369; 10369; 10368; 10368; 10368; 10368; 10367; 10367; 10367; 10367; 10366; 10366; 10366; 10366; 10365; 10365; 10365; 10365;
  10364; 10364; 10364; 10364; 10363; 10363; 10363; 10363; 10362; 10362; 10362; 10362; 10361; 10361; 10361; 10361; 10360; 10360;
  10360; 10360; 10359; 10359; 10359; 10359; 10358; 10358; 10358; 10358; 10357; 10357; 10357; 10357; 10356; 10356; 10356; 10356;
  10355; 10355; 10355; 10354; 10354; 10354; 10354; 10353; 10353; 10353; 10353; 10352; 10352; 10352; 10352; 10351; 10351; 10351;
  10351; 10350; 10350; 10350; 10350; 10349; 10349; 10349; 10349; 10348; 10348; 10348; 10348; 10347; 10347; 10347; 10347; 10346;
  10346; 10346; 10346; 10345; 10345; 10345; 10345; 10344; 10344; 10344; 10344; 10343; 10343; 10343; 10343; 10342; 10342; 10342;
  10342; 10341; 10341; 10341; 10341; 10340; 10340; 10340; 10340; 10339; 10339; 10339; 10338; 10338; 10338; 10338; 10337; 10337;
  10337; 10337; 10336; 10336; 10336; 10336; 10335; 10335; 10335; 10335; 10334; 10334; 10334; 10334; 10333; 10333; 10333; 10333;
  10332; 10332; 10332; 10332; 10331; 10331; 10331; 10331; 10330; 10330; 10330; 10330; 10329; 10329; 10329; 10329; 10328; 10328;
  10328; 10328; 10327; 10327; 10327; 10327; 10326; 10326; 10326; 10326; 10325; 10325; 10325; 10325; 10324; 10324; 10324; 10324;
  10323; 10323; 10323; 10323; 10322; 10322; 10322; 10321; 10321; 10321; 10321; 10320; 10320; 10320; 10320; 10319; 10319; 10319;
  10319; 10318; 10318; 10318; 10318; 10317; 10317; 10317; 10317; 10316; 10316; 10316; 10316; 10315; 10315; 10315; 10315; 10314;
  10314; 10314; 10314; 10313; 10313; 10313; 10313; 10312; 10312; 10312; 10312; 10311; 10311; 10311; 10311; 10310; 10310; 10310;
  10310; 10309; 10309; 10309; 10309; 10308; 10308; 10308; 10308; 10307; 10307; 10307; 10307; 10306; 10306; 10306; 10306; 10305;
  10305; 10305; 10305; 10304; 10304; 10304; 10304; 10303; 10303; 10303; 10302; 10302; 10302; 10302; 10301; 10301; 10301; 10301;
  10300; 10300; 10300; 10300; 10299; 10299; 10299; 10299; 10298; 10298; 10298; 10298; 10297; 10297; 10297; 10297; 10296; 10296;
  10296; 10296; 10295; 10295; 10295; 10295; 10294; 10294; 10294; 10294; 10293; 10293; 10293; 10293; 10292; 10292; 10292; 10292;
  10291; 10291; 10291; 10291; 10290; 10290; 10290; 10290; 10289; 10289; 10289; 10289; 10288; 10288; 10288; 10288; 10287; 10287;
  10287; 10287; 10286; 10286; 10286; 10286; 10285; 10285; 10285; 10285; 10284; 10284; 10284; 10284; 10283; 10283; 10283; 10283;
  10282; 10282; 10282; 10282; 10281; 10281; 10281; 10281; 10280; 10280; 10280; 10279; 10279; 10279; 10279; 10278; 10278; 10278;
  10278; 10277; 10277; 10277; 10277; 10276; 10276; 10276; 10276; 10275; 10275; 10275; 10275; 10274; 10274; 10274; 10274; 10273;
  10273; 10273; 10273; 10272; 10272; 10272; 10272; 10271; 10271; 10271; 10271; 10270; 10270; 10270; 10270; 10269; 10269; 10269;
  10269; 10268; 10268; 10268; 10268; 10267; 10267; 10267; 10267; 10266; 10266; 10266; 10266; 10265; 10265; 10265; 10265; 10264;
  10264; 10264; 10264; 10263; 10263; 10263; 10263; 10262; 10262; 10262; 10262; 10261; 10261; 10261; 10261; 10260; 10260; 10260;
  10260; 10259; 10259; 10259; 10259; 10258; 10258; 10258; 10258; 10257; 10257; 10257; 10257; 10256; 10256; 10256; 10256; 10255;
  10255; 10255; 10255; 10254; 10254; 10254; 10254; 10253; 10253; 10253; 10253; 10252; 10252; 10252; 10252; 10251; 10251; 10251;
  10251; 10250; 10250; 10250; 10249; 10249; 10249; 10249; 10248; 10248; 10248; 10248; 10247; 10247; 10247; 10247; 10246; 10246;
  10246; 10246; 10245; 10245; 10245; 10245; 10244; 10244; 10244; 10244; 10243; 10243; 10243; 10243; 10242; 10242; 10242; 10242;
  10241; 10241; 10241; 10241; 10240; 10240; 10240; 10240; 10239; 10239; 10239; 10239; 10238; 10238; 10238; 10238; 10237; 10237;
  10237; 10237; 10236; 10236; 10236; 10236; 10235; 10235; 10235; 10235; 10234; 10234; 10234; 10234; 10233; 10233; 10233; 10233;
  10232; 10232; 10232; 10232; 10231; 10231; 10231; 10231; 10230; 10230; 10230; 10230; 10229; 10229; 10229; 10229; 10228; 10228;
  10228; 10228; 10227; 10227; 10227; 10227; 10226; 10226; 10226; 10226; 10225; 10225; 10225; 10225; 10224; 10224; 10224; 10224;
  10223; 10223; 10223; 10223; 10222; 10222; 10222; 10222; 10221; 10221; 10221; 10221; 10220; 10220; 10220; 10220; 10219; 10219;
  10219; 10219; 10218; 10218; 10218; 10218; 10217; 10217; 10217; 10217; 10216; 10216; 10216; 10216; 10215; 10215; 10215; 10215;
  10214; 10214; 10214; 10214; 10213; 10213; 10213; 10213; 10212; 10212; 10212; 10212; 10211; 10211; 10211; 10211; 10210; 10210;
  10210; 10210; 10209; 10209; 10209; 10209; 10208; 10208; 10208; 10208; 10207; 10207; 10207; 10207; 10206; 10206; 10206; 10206;
  10205; 10205; 10205; 10205; 10204; 10204; 10204; 10204; 10203; 10203; 10203; 10203; 10202; 10202; 10202; 10202; 10201; 10201;
  10201; 10201; 10200; 10200; 10200; 10200; 10199; 10199; 10199; 10199; 10198; 10198; 10198; 10198; 10197; 10197; 10197; 10197].
Definition pow_lut_63 : list Z := [
  10196; 10196; 10196; 10196; 10195; 10195; 10195; 10195; 10194; 10194; 10194; 10194; 10193; 10193; 10193; 10193; 10192; 10192;
  10192; 10192; 10191; 10191; 10191; 10191; 10190; 10190; 10190; 10190; 10189; 10189; 10189; 10189; 10188; 10188; 10188; 10188;
  10187; 10187; 10187; 10187; 10186; 10186; 10186; 10186; 10185; 10185; 10185; 10185; 10184; 10184; 10184; 10184; 10183; 10183;
  10183; 10183; 10182; 10182; 10182; 10182; 10181; 10181; 10181; 10181; 10180; 10180; 10180; 10180; 10179; 10179; 10179; 10179;
  10178; 10178; 10178; 10178; 10177; 10177; 10177; 10177; 10176; 10176; 10176; 10176; 10175; 10175; 10175; 10175; 10174; 10174;
  10174; 10174; 10173; 10173; 10173; 10173; 10172; 10172; 10172; 10172; 10171; 10171; 10171; 10171; 10170; 10170; 10170; 10170;
  10169; 10169; 10169; 10169; 10168; 10168; 10168; 10168; 10167; 10167; 10167; 10167; 10166; 10166; 10166; 10166; 10165; 10165;
  10165; 10165; 10164; 10164; 10164; 10164; 10163; 10163; 10163; 10163; 10162; 10162; 10162; 10162; 10161; 10161; 10161; 10161;
  10160; 10160; 10160; 10160; 10159; 10159; 10159; 10159; 10158; 10158; 10158; 10158; 10157; 10157; 10157; 10157; 10156; 10156;
  10156; 10156; 10155; 10155; 10155; 10155; 10154; 10154; 10154; 10154; 10153; 10153; 10153; 10153; 10152; 10152; 10152; 10152;
  10151; 10151; 10151; 10151; 10150; 10150; 10150; 10150; 10149; 10149; 10149; 10149; 10148; 10148; 10148; 10148; 10147; 10147;
  10147; 10147; 10146; 10146; 10146; 10146; 10145; 10145; 10145; 10145; 10144; 10144; 10144; 10144; 10143; 10143; 10143; 10143;
  10142; 10142; 10142; 10142; 10141; 10141; 10141; 10141; 10140; 10140; 10140; 10140; 10139; 10139; 10139; 10139; 10138; 10138;
  10138; 10138; 10137; 10137; 10137; 10137; 10136; 10136; 10136; 10136; 10135; 10135; 10135; 10135; 10134; 10134; 10134; 10134;
  10133; 10133; 10133; 10133; 10132; 10132; 10132; 10132; 10131; 10131; 10131; 10131; 10130; 10130; 10130; 10130; 10129; 10129;
  10129; 10129; 10128; 10128; 10128; 10128; 10127; 10127; 10127; 10127; 10126; 10126; 10126; 10126; 10125; 10125; 10125; 10125;
  10124; 10124; 10124; 10124; 10123; 10123; 10123; 10123; 10122; 10122; 10122; 10122; 10121; 10121; 10121; 10121; 10120; 10120;
  10120; 10120; 10119; 10119; 10119; 10119; 10118; 10118; 10118; 10118; 10117; 10117; 10117; 10117; 10116; 10116; 10116; 10116;
  10115; 10115; 10115; 10115; 10114; 10114; 10114; 10114; 10113; 10113; 10113; 10113; 10112; 10112; 10112; 10112; 10111; 10111;
  10111; 10111; 10110; 10110; 10110; 10110; 10109; 10109; 10109; 10109; 10109; 10108; 10108; 10108; 10108; 10107; 10107; 10107;
  10107; 10106; 10106; 10106; 10106; 10105; 10105; 10105; 10105; 10104; 10104; 10104; 10104; 10103; 10103; 10103; 10103; 10102;
  10102; 10102; 10102; 10101; 10101; 10101; 10101; 10100; 10100; 10100; 10100; 10099; 10099; 10099; 10099; 10098; 10098; 10098;
  10098; 10097; 10097; 10097; 10097; 10096; 10096; 10096; 10096; 10095; 10095; 10095; 10095; 10094; 10094; 10094; 10094; 10093;
  10093; 10093; 10093; 10092; 10092; 10092; 10092; 10091; 10091; 10091; 10091; 10090; 10090; 10090; 10090; 10089; 10089; 10089;
  10089; 10088; 10088; 10088; 10088; 10087; 10087; 10087; 10087; 10086; 10086; 10086; 10086; 10085; 10085; 10085; 10085; 10084;
  10084; 10084; 10084; 10083; 10083; 10083; 10083; 10082; 10082; 10082; 10082; 10081; 10081; 10081; 10081; 10080; 10080; 10080;
  10080; 10080; 10079; 10079; 10079; 10079; 10078; 10078; 10078; 10078; 10077; 10077; 10077; 10077; 10076; 10076; 10076; 10076;
  10075; 10075; 10075; 10075; 10074; 10074; 10074; 10074; 10073; 10073; 10073; 10073; 10072; 10072; 10072; 10072; 10071; 10071;
  10071; 10071; 10070; 10070; 10070; 10070; 10069; 10069; 10069; 10069; 10068; 10068; 10068; 10068; 10067; 10067; 10067; 10067;
  10066; 10066; 10066; 10066; 10065; 10065; 10065; 10065; 10064; 10064; 10064; 10064; 10063; 10063; 10063; 10063; 10062; 10062;
  10062; 10062; 10061; 10061; 10061; 10061; 10060; 10060; 10060; 10060; 10059; 10059; 10059; 10059; 10058; 10058; 10058; 10058;
  10057; 10057; 10057; 10057; 10057; 10056; 10056; 10056; 10056; 10055; 10055; 10055; 10055; 10054; 10054; 10054; 10054; 10053;
  10053; 10053; 10053; 10052; 10052; 10052; 10052; 10051; 10051; 10051; 10051; 10050; 10050; 10050; 10050; 10049; 10049; 10049;
  10049; 10048; 10048; 10048; 10048; 10047; 10047; 10047; 10047; 10046; 10046; 10046; 10046; 10045; 10045; 10045; 10045; 10044;
  10044; 10044; 10044; 10043; 10043; 10043; 10043; 10042; 10042; 10042; 10042; 10041; 10041; 10041; 10041; 10040; 10040; 10040;
  10040; 10039; 10039; 10039; 10039; 10038; 10038; 10038; 10038; 10038; 10037; 10037; 10037; 10037; 10036; 10036; 10036; 10036;
  10035; 10035; 10035; 10035; 10034; 10034; 10034; 10034; 10033; 10033; 10033; 10033; 10032; 10032; 10032; 10032; 10031; 10031;
  10031; 10031; 10030; 10030; 10030; 10030; 10029; 10029; 10029; 10029; 10028; 10028; 10028; 10028; 10027; 10027; 10027; 10027;
  10026; 10026; 10026; 10026; 10025; 10025; 10025; 10025; 10024; 10024; 10024; 10024; 10023; 10023; 10023; 10023; 10022; 10022;
  10022; 10022; 10021; 10021; 10021; 10021; 10021; 10020; 10020; 10020; 10020; 10019; 10019; 10019; 10019; 10018; 10018; 10018;
  10018; 10017; 10017; 10017; 10017; 10016; 10016; 10016; 10016; 10015; 10015; 10015; 10015; 10014; 10014; 10014; 10014; 10013;
  10013; 10013; 10013; 10012; 10012; 10012; 10012; 10011; 10011; 10011; 10011; 10010; 10010; 10010; 10010; 10009; 10009; 10009;
  10009; 10008; 10008; 10008; 10008; 10007; 10007; 10007; 10007; 10006; 10006; 10006; 10006; 10006; 10005; 10005; 10005; 10005;
  10004; 10004; 10004; 10004; 10003; 10003; 10003; 10003; 10002; 10002; 10002; 10002; 10001; 10001; 10001; 10001; 10000; 10000;
  10000; 10000; 9999; 9999; 9999; 9999; 9998; 9998; 9998; 9998; 9997; 9997; 9997; 9997; 9996; 9996; 9996; 9996;
  9995; 9995; 9995; 9995; 9994; 9994; 9994; 9994; 9993; 9993; 9993; 9993; 9992; 9992; 9992; 9992; 9992; 9991;
  9991; 9991; 9991; 9990; 9990; 9990; 9990; 9989; 9989; 9989; 9989; 9988; 9988; 9988; 9988; 9987; 9987; 9987;
  9987; 9986; 9986; 9986; 9986; 9985; 9985; 9985; 9985; 9984; 9984; 9984; 9984; 9983; 9983; 9983; 9983; 9982;
  9982; 9982; 9982; 9981; 9981; 9981; 9981; 9980; 9980; 9980; 9980; 9979; 9979; 9979; 9979; 9979; 9978; 9978;
  9978; 9978; 9977; 9977; 9977; 9977; 9976; 9976; 9976; 9976; 9975; 9975; 9975; 9975; 9974; 9974; 9974; 9974].
Definition pow_lut_64 : list Z := [
  9973; 9973; 9973; 9973; 9972; 9972; 9972; 9972; 9971; 9971; 9971; 9971; 9970; 9970; 9970; 9970; 9969; 9969;
  9969; 9969; 9968; 9968; 9968; 9968; 9967; 9967; 9967; 9967; 9967; 9966; 9966; 9966; 9966; 9965; 9965; 9965;
  9965; 9964; 9964; 9964; 9964; 9963; 9963; 9963; 9963; 9962; 9962; 9962; 9962; 9961; 9961; 9961; 9961; 9960;
  9960; 9960; 9960; 9959; 9959; 9959; 9959; 9958; 9958; 9958; 9958; 9957; 9957; 9957; 9957; 9956; 9956; 9956;
  9956; 9956; 9955; 9955; 9955; 9955; 9954; 9954; 9954; 9954; 9953; 9953; 9953; 9953; 9952; 9952; 9952; 9952;
  9951; 9951; 9951; 9951; 9950; 9950; 9950; 9950; 9949; 9949; 9949; 9949; 9948; 9948; 9948; 9948; 9947; 9947;
  9947; 9947; 9946; 9946; 9946; 9946; 9945; 9945; 9945; 9945; 9945; 9944; 9944; 9944; 9944; 9943; 9943; 9943;
  9943; 9942; 9942; 9942; 9942; 9941; 9941; 9941; 9941; 9940; 9940; 9940; 9940; 9939; 9939; 9939; 9939; 9938;
  9938; 9938; 9938; 9937; 9937; 9937; 9937; 9936; 9936; 9936; 9936; 9935; 9935; 9935; 9935; 9935; 9934; 9934;
  9934; 9934; 9933; 9933; 9933; 9933; 9932; 9932; 9932; 9932; 9931; 9931; 9931; 9931; 9930; 9930; 9930; 9930;
  9929; 9929; 9929; 9929; 9928; 9928; 9928; 9928; 9927; 9927; 9927; 9927; 9926; 9926; 9926; 9926; 9925; 9925;
  9925; 9925; 9925; 9924; 9924; 9924; 9924; 9923; 9923; 9923; 9923; 9922; 9922; 9922; 9922; 9921; 9921; 9921;
  9921; 9920; 9920; 9920; 9920; 9919; 9919; 9919; 9919; 9918; 9918; 9918; 9918; 9917; 9917; 9917; 9917; 9916;
  9916; 9916; 9916; 9915; 9915; 9915; 9915; 9915; 9914; 9914; 9914; 9914; 9913; 9913; 9913; 9913; 9912; 9912;
  9912; 9912; 9911; 9911; 9911; 9911; 9910; 9910; 9910; 9910; 9909; 9909; 9909; 9909; 9908; 9908; 9908; 9908;
  9907; 9907; 9907; 9907; 9906; 9906; 9906; 9906; 9906; 9905; 9905; 9905; 9905; 9904; 9904; 9904; 9904; 9903;
  9903; 9903; 9903; 9902; 9902; 9902; 9902; 9901; 9901; 9901; 9901; 9900; 9900; 9900; 9900; 9899; 9899; 9899;
  9899; 9898; 9898; 9898; 9898; 9897; 9897; 9897; 9897; 9897; 9896; 9896; 9896; 9896; 9895; 9895; 9895; 9895;
  9894; 9894; 9894; 9894; 9893; 9893; 9893; 9893; 9892; 9892; 9892; 9892; 9891; 9891; 9891; 9891; 9890; 9890;
  9890; 9890; 9889; 9889; 9889; 9889; 9888; 9888; 9888; 9888; 9888; 9887; 9887; 9887; 9887; 9886; 9886; 9886;
  9886; 9885; 9885; 9885; 9885; 9884; 9884; 9884; 9884; 9883; 9883; 9883; 9883; 9882; 9882; 9882; 9882; 9881;
  9881; 9881; 9881; 9880; 9880; 9880; 9880; 9880; 9879; 9879; 9879; 9879; 9878; 9878; 9878; 9878; 9877; 9877;
  9877; 9877; 9876; 9876; 9876; 9876; 9875; 9875; 9875; 9875; 9874; 9874; 9874; 9874; 9873; 9873; 9873; 9873;
  9872; 9872; 9872; 9872; 9872; 9871; 9871; 9871; 9871; 9870; 9870; 9870; 9870; 9869; 9869; 9869; 9869; 9868;
  9868; 9868; 9868; 9867; 9867; 9867; 9867; 9866; 9866; 9866; 9866; 9865; 9865; 9865; 9865; 9864; 9864; 9864;
  9864; 9864; 9863; 9863; 9863; 9863; 9862; 9862; 9862; 9862; 9861; 9861; 9861; 9861; 9860; 9860; 9860; 9860;
  9859; 9859; 9859; 9859; 9858; 9858; 9858; 9858; 9857; 9857; 9857; 9857; 9856; 9856; 9856; 9856; 9856; 9855;
  9855; 9855; 9855; 9854; 9854; 9854; 9854; 9853; 9853; 9853; 9853; 9852; 9852; 9852; 9852; 9851; 9851; 9851;
  9851; 9850; 9850; 9850; 9850; 9849; 9849; 9849; 9849; 9849; 9848; 9848; 9848; 9848; 9847; 9847; 9847; 9847;
  9846; 9846; 9846; 9846; 9845; 9845; 9845; 9845; 9844; 9844; 9844; 9844; 9843; 9843; 9843; 9843; 9842; 9842;
  9842; 9842; 9841; 9841; 9841; 9841; 9841; 9840; 9840; 9840; 9840; 9839; 9839; 9839; 9839; 9838; 9838; 9838;
  9838; 9837; 9837; 9837; 9837; 9836; 9836; 9836; 9836; 9835; 9835; 9835; 9835; 9834; 9834; 9834; 9834; 9834;
  9833; 9833; 9833; 9833; 9832; 9832; 9832; 9832; 9831; 9831; 9831; 9831; 9830; 9830; 9830; 9830; 9829; 9829;
  9829; 9829; 9828; 9828; 9828; 9828; 9827; 9827; 9827; 9827; 9827; 9826; 9826; 9826; 9826; 9825; 9825; 9825;
  9825; 9824; 9824; 9824; 9824; 9823; 9823; 9823; 9823; 9822; 9822; 9822; 9822; 9821; 9821; 9821; 9821; 9820;
  9820; 9820; 9820; 9820; 9819; 9819; 9819; 9819; 9818; 9818; 9818; 9818; 9817; 9817; 9817; 9817; 9816; 9816;
  9816; 9816; 9815; 9815; 9815; 9815; 9814; 9814; 9814; 9814; 9813; 9813; 9813; 9813; 9813; 9812; 9812; 9812;
  9812; 9811; 9811; 9811; 9811; 9810; 9810; 9810; 9810; 9809; 9809; 9809; 9809; 9808; 9808; 9808; 9808; 9807;
  9807; 9807; 9807; 9807; 9806; 9806; 9806; 9806; 9805; 9805; 9805; 9805; 9804; 9804; 9804; 9804; 9803; 9803;
  9803; 9803; 9802; 9802; 9802; 9802; 9801; 9801; 9801; 9801; 9800; 9800; 9800; 9800; 9800; 9799; 9799; 9799;
  9799; 9798; 9798; 9798; 9798; 9797; 9797; 9797; 9797; 9796; 9796; 9796; 9796; 9795; 9795; 9795; 9795; 9794;
  9794; 9794; 9794; 9794; 9793; 9793; 9793; 9793; 9792; 9792; 9792; 9792; 9791; 9791; 9791; 9791; 9790; 9790;
  9790; 9790; 9789; 9789; 9789; 9789; 9788; 9788; 9788; 9788; 9788; 9787; 9787; 9787; 9787; 9786; 9786; 9786;
  9786; 9785; 9785; 9785; 9785; 9784; 9784; 9784; 9784; 9783; 9783; 9783; 9783; 9782; 9782; 9782; 9782; 9781;
  9781; 9781; 9781; 9781; 9780; 9780; 9780; 9780; 9779; 9779; 9779; 9779; 9778; 9778; 9778; 9778; 9777; 9777;
  9777; 9777; 9776; 9776; 9776; 9776; 9775; 9775; 9775; 9775; 9775; 9774; 9774; 9774; 9774; 9773; 9773; 9773;
  9773; 9772; 9772; 9772; 9772; 9771; 9771; 9771; 9771; 9770; 9770; 9770; 9770; 9769; 9769; 9769; 9769; 9769;
  9768; 9768; 9768; 9768; 9767; 9767; 9767; 9767; 9766; 9766; 9766; 9766; 9765; 9765; 9765; 9765; 9764; 9764;
  9764; 9764; 9763; 9763; 9763; 9763; 9763; 9762; 9762; 9762; 9762; 9761; 9761; 9761; 9761; 9760; 9760; 9760;
  9760; 9759; 9759; 9759; 9759; 9758; 9758; 9758; 9758; 9758; 9757; 9757; 9757; 9757; 9756; 9756; 9756; 9756].
Definition pow_lut_65 : list Z := [
  9755; 9755; 9755; 9755; 9754; 9754; 9754; 9754; 9753; 9753; 9753; 9753; 9752; 9752; 9752; 9752; 9752; 9751;
  9751; 9751; 9751; 9750; 9750; 9750; 9750; 9749; 9749; 9749; 9749; 9748; 9748; 9748; 9748; 9747; 9747; 9747;
  9747; 9746; 9746; 9746; 9746; 9746; 9745; 9745; 9745; 9745; 9744; 9744; 9744; 9744; 9743; 9743; 9743; 9743;
  9742; 9742; 9742; 9742; 9741; 9741; 9741; 9741; 9741; 9740; 9740; 9740; 9740; 9739; 9739; 9739; 9739; 9738;
  9738; 9738; 9738; 9737; 9737; 9737; 9737; 9736; 9736; 9736; 9736; 9735; 9735; 9735; 9735; 9735; 9734; 9734;
  9734; 9734; 9733; 9733; 9733; 9733; 9732; 9732; 9732; 9732; 9731; 9731; 9731; 9731; 9730; 9730; 9730; 9730;
  9730; 9729; 9729; 9729; 9729; 9728; 9728; 9728; 9728; 9727; 9727; 9727; 9727; 9726; 9726; 9726; 9726; 9725;
  9725; 9725; 9725; 9724; 9724; 9724; 9724; 9724; 9723; 9723; 9723; 9723; 9722; 9722; 9722; 9722; 9721; 9721;
  9721; 9721; 9720; 9720; 9720; 9720; 9719; 9719; 9719; 9719; 9719; 9718; 9718; 9718; 9718; 9717; 9717; 9717;
  9717; 9716; 9716; 9716; 9716; 9715; 9715; 9715; 9715; 9714; 9714; 9714; 9714; 9714; 9713; 9713; 9713; 9713;
  9712; 9712; 9712; 9712; 9711; 9711; 9711; 9711; 9710; 9710; 9710; 9710; 9709; 9709; 9709; 9709; 9708; 9708;
  9708; 9708; 9708; 9707; 9707; 9707; 9707; 9706; 9706; 9706; 9706; 9705; 9705; 9705; 9705; 9704; 9704; 9704;
  9704; 9703; 9703; 9703; 9703; 9703; 9702; 9702; 9702; 9702; 9701; 9701; 9701; 9701; 9700; 9700; 9700; 9700;
  9699; 9699; 9699; 9699; 9698; 9698; 9698; 9698; 9698; 9697; 9697; 9697; 9697; 9696; 9696; 9696; 9696; 9695;
  9695; 9695; 9695; 9694; 9694; 9694; 9694; 9693; 9693; 9693; 9693; 9693; 9692; 9692; 9692; 9692; 9691; 9691;
  9691; 9691; 9690; 9690; 9690; 9690; 9689; 9689; 9689; 9689; 9688; 9688; 9688; 9688; 9688; 9687; 9687; 9687;
  9687; 9686; 9686; 9686; 9686; 9685; 9685; 9685; 9685; 9684; 9684; 9684; 9684; 9683; 9683; 9683; 9683; 9683;
  9682; 9682; 9682; 9682; 9681; 9681; 9681; 9681; 9680; 9680; 9680; 9680; 9679; 9679; 9679; 9679; 9679; 9678;
  9678; 9678; 9678; 9677; 9677; 9677; 9677; 9676; 9676; 9676; 9676; 9675; 9675; 9675; 9675; 9674; 9674; 9674;
  9674; 9674; 9673; 9673; 9673; 9673; 9672; 9672; 9672; 9672; 9671; 9671; 9671; 9671; 9670; 9670; 9670; 9670;
  9669; 9669; 9669; 9669; 9669; 9668; 9668; 9668; 9668; 9667; 9667; 9667; 9667; 9666; 9666; 9666; 9666; 9665;
  9665; 9665; 9665; 9664; 9664; 9664; 9664; 9664; 9663; 9663; 9663; 9663; 9662; 9662; 9662; 9662; 9661; 9661;
  9661; 9661; 9660; 9660; 9660; 9660; 9660; 9659; 9659; 9659; 9659; 9658; 9658; 9658; 9658; 9657; 9657; 9657;
  9657; 9656; 9656; 9656; 9656; 9655; 9655; 9655; 9655; 9655; 9654; 9654; 9654; 9654; 9653; 9653; 9653; 9653;
  9652; 9652; 9652; 9652; 9651; 9651; 9651; 9651; 9650; 9650; 9650; 9650; 9650; 9649; 9649; 9649; 9649; 9648;
  9648; 9648; 9648; 9647; 9647; 9647; 9647; 9646; 9646; 9646; 9646; 9646; 9645; 9645; 9645; 9645; 9644; 9644;
  9644; 9644; 9643; 9643; 9643; 9643; 9642; 9642; 9642; 9642; 9641; 9641; 9641; 9641; 9641; 9640; 9640; 9640;
  9640; 9639; 9639; 9639; 9639; 9638; 9638; 9638; 9638; 9637; 9637; 9637; 9637; 9637; 9636; 9636; 9636; 9636;
  9635; 9635; 9635; 9635; 9634; 9634; 9634; 9634; 9633; 9633; 9633; 9633; 9632; 9632; 9632; 9632; 9632; 9631;
  9631; 9631; 9631; 9630; 9630; 9630; 9630; 9629; 9629; 9629; 9629; 9628; 9628; 9628; 9628; 9628; 9627; 9627;
  9627; 9627; 9626; 9626; 9626; 9626; 9625; 9625; 9625; 9625; 9624; 9624; 9624; 9624; 9624; 9623; 9623; 9623;
  9623; 9622; 9622; 9622; 9622; 9621; 9621; 9621; 9621; 9620; 9620; 9620; 9620; 9619; 9619; 9619; 9619; 9619;
  9618; 9618; 9618; 9618; 9617; 9617; 9617; 9617; 9616; 9616; 9616; 9616; 9615; 9615; 9615; 9615; 9615; 9614;
  9614; 9614; 9614; 9613; 9613; 9613; 9613; 9612; 9612; 9612; 9612; 9611; 9611; 9611; 9611; 9611; 9610; 9610;
  9610; 9610; 9609; 9609; 9609; 9609; 9608; 9608; 9608; 9608; 9607; 9607; 9607; 9607; 9607; 9606; 9606; 9606;
  9606; 9605; 9605; 9605; 9605; 9604; 9604; 9604; 9604; 9603; 9603; 9603; 9603; 9603; 9602; 9602; 9602; 9602;
  9601; 9601; 9601; 9601; 9600; 9600; 9600; 9600; 9599; 9599; 9599; 9599; 9598; 9598; 9598; 9598; 9598; 9597;
  9597; 9597; 9597; 9596; 9596; 9596; 9596; 9595; 9595; 9595; 9595; 9594; 9594; 9594; 9594; 9594; 9593; 9593;
  9593; 9593; 9592; 9592; 9592; 9592; 9591; 9591; 9591; 9591; 9590; 9590; 9590; 9590; 9590; 9589; 9589; 9589;
  9589; 9588; 9588; 9588; 9588; 9587; 9587; 9587; 9587; 9586; 9586; 9586; 9586; 9586; 9585; 9585; 9585; 9585;
  9584; 9584; 9584; 9584; 9583; 9583; 9583; 9583; 9582; 9582; 9582; 9582; 9582; 9581; 9581; 9581; 9581; 9580;
  9580; 9580; 9580; 9579; 9579; 9579; 9579; 9578; 9578; 9578; 9578; 9578; 9577; 9577; 9577; 9577; 9576; 9576;
  9576; 9576; 9575; 9575; 9575; 9575; 9574; 9574; 9574; 9574; 9574; 9573; 9573; 9573; 9573; 9572; 9572; 9572;
  9572; 9571; 9571; 9571; 9571; 9570; 9570; 9570; 9570; 9570; 9569; 9569; 9569; 9569; 9568; 9568; 9568; 9568;
  9567; 9567; 9567; 9567; 9566; 9566; 9566; 9566; 9566; 9565; 9565; 9565; 9565; 9564; 9564; 9564; 9564; 9563;
  9563; 9563; 9563; 9562; 9562; 9562; 9562; 9562; 9561; 9561; 9561; 9561; 9560; 9560; 9560; 9560; 9559; 9559;
  9559; 9559; 9559; 9558; 9558; 9558; 9558; 9557; 9557; 9557; 9557; 9556; 9556; 9556; 9556; 9555; 9555; 9555;
  9555; 9555; 9554; 9554; 9554; 9554; 9553; 9553; 9553; 9553; 9552; 9552; 9552; 9552; 9551; 9551; 9551; 9551;
  9551; 9550; 9550; 9550; 9550; 9549; 9549; 9549; 9549; 9548; 9548; 9548; 9548; 9547; 9547; 9547; 9547; 9547;
  9546; 9546; 9546; 9546; 9545; 9545; 9545; 9545; 9544; 9544; 9544; 9544; 9543; 9543; 9543; 9543; 9543; 9542].
Definition pow_lut_66 : list Z := [
  9542; 9542; 9542; 9541; 9541; 9541; 9541; 9540; 9540; 9540; 9540; 9540; 9539; 9539; 9539; 9539; 9538; 9538;
  9538; 9538; 9537; 9537; 9537; 9537; 9536; 9536; 9536; 9536; 9536; 9535; 9535; 9535; 9535; 9534; 9534; 9534;
  9534; 9533; 9533; 9533; 9533; 9532; 9532; 9532; 9532; 9532; 9531; 9531; 9531; 9531; 9530; 9530; 9530; 9530;
  9529; 9529; 9529; 9529; 9529; 9528; 9528; 9528; 9528; 9527; 9527; 9527; 9527; 9526; 9526; 9526; 9526; 9525;
  9525; 9525; 9525; 9525; 9524; 9524; 9524; 9524; 9523; 9523; 9523; 9523; 9522; 9522; 9522; 9522; 9521; 9521;
  9521; 9521; 9521; 9520; 9520; 9520; 9520; 9519; 9519; 9519; 9519; 9518; 9518; 9518; 9518; 9518; 9517; 9517;
  9517; 9517; 9516; 9516; 9516; 9516; 9515; 9515; 9515; 9515; 9514; 9514; 9514; 9514; 9514; 9513; 9513; 9513;
  9513; 9512; 9512; 9512; 9512; 9511; 9511; 9511; 9511; 9510; 9510; 9510; 9510; 9510; 9509; 9509; 9509; 9509;
  9508; 9508; 9508; 9508; 9507; 9507; 9507; 9507; 9507; 9506; 9506; 9506; 9506; 9505; 9505; 9505; 9505; 9504;
  9504; 9504; 9504; 9503; 9503; 9503; 9503; 9503; 9502; 9502; 9502; 9502; 9501; 9501; 9501; 9501; 9500; 9500;
  9500; 9500; 9500; 9499; 9499; 9499; 9499; 9498; 9498; 9498; 9498; 9497; 9497; 9497; 9497; 9496; 9496; 9496;
  9496; 9496; 9495; 9495; 9495; 9495; 9494; 9494; 9494; 9494; 9493; 9493; 9493; 9493; 9493; 9492; 9492; 9492;
  9492; 9491; 9491; 9491; 9491; 9490; 9490; 9490; 9490; 9490; 9489; 9489; 9489; 9489; 9488; 9488; 9488; 9488;
  9487; 9487; 9487; 9487; 9486; 9486; 9486; 9486; 9486; 9485; 9485; 9485; 9485; 9484; 9484; 9484; 9484; 9483;
  9483; 9483; 9483; 9483; 9482; 9482; 9482; 9482; 9481; 9481; 9481; 9481; 9480; 9480; 9480; 9480; 9479; 9479;
  9479; 9479; 9479; 9478; 9478; 9478; 9478; 9477; 9477; 9477; 9477; 9476; 9476; 9476; 9476; 9476; 9475; 9475;
  9475; 9475; 9474; 9474; 9474; 9474; 9473; 9473; 9473; 9473; 9473; 9472; 9472; 9472; 9472; 9471; 9471; 9471;
  9471; 9470; 9470; 9470; 9470; 9469; 9469; 9469; 9469; 9469; 9468; 9468; 9468; 9468; 9467; 9467; 9467; 9467;
  9466; 9466; 9466; 9466; 9466; 9465; 9465; 9465; 9465; 9464; 9464; 9464; 9464; 9463; 9463; 9463; 9463; 9463;
  9462; 9462; 9462; 9462; 9461; 9461; 9461; 9461; 9460; 9460; 9460; 9460; 9459; 9459; 9459; 9459; 9459; 9458;
  9458; 9458; 9458; 9457; 9457; 9457; 9457; 9456; 9456; 9456; 9456; 9456; 9455; 9455; 9455; 9455; 9454; 9454;
  9454; 9454; 9453; 9453; 9453; 9453; 9453; 9452; 9452; 9452; 9452; 9451; 9451; 9451; 9451; 9450; 9450; 9450;
  9450; 9449; 9449; 9449; 9449; 9449; 9448; 9448; 9448; 9448; 9447; 9447; 9447; 9447; 9446; 9446; 9446; 9446;
  9446; 9445; 9445; 9445; 9445; 9444; 9444; 9444; 9444; 9443; 9443; 9443; 9443; 9443; 9442; 9442; 9442; 9442;
  9441; 9441; 9441; 9441; 9440; 9440; 9440; 9440; 9440; 9439; 9439; 9439; 9439; 9438; 9438; 9438; 9438; 9437;
  9437; 9437; 9437; 9437; 9436; 9436; 9436; 9436; 9435; 9435; 9435; 9435; 9434; 9434; 9434; 9434; 9434; 9433;
  9433; 9433; 9433; 9432; 9432; 9432; 9432; 9431; 9431; 9431; 9431; 9430; 9430; 9430; 9430; 9430; 9429; 9429;
  9429; 9429; 9428; 9428; 9428; 9428; 9427; 9427; 9427; 9427; 9427; 9426; 9426; 9426; 9426; 9425; 9425; 9425;
  9425; 9424; 9424; 9424; 9424; 9424; 9423; 9423; 9423; 9423; 9422; 9422; 9422; 9422; 9421; 9421; 9421; 9421;
  9421; 9420; 9420; 9420; 9420; 9419; 9419; 9419; 9419; 9418; 9418; 9418; 9418; 9418; 9417; 9417; 9417; 9417;
  9416; 9416; 9416; 9416; 9415; 9415; 9415; 9415; 9415; 9414; 9414; 9414; 9414; 9413; 9413; 9413; 9413; 9412;
  9412; 9412; 9412; 9412; 9411; 9411; 9411; 9411; 9410; 9410; 9410; 9410; 9409; 9409; 9409; 9409; 9409; 9408;
  9408; 9408; 9408; 9407; 9407; 9407; 9407; 9406; 9406; 9406; 9406; 9406; 9405; 9405; 9405; 9405; 9404; 9404;
  9404; 9404; 9403; 9403; 9403; 9403; 9403; 9402; 9402; 9402; 9402; 9401; 9401; 9401; 9401; 9400; 9400; 9400;
  9400; 9400; 9399; 9399; 9399; 9399; 9398; 9398; 9398; 9398; 9397; 9397; 9397; 9397; 9397; 9396; 9396; 9396;
  9396; 9395; 9395; 9395; 9395; 9394; 9394; 9394; 9394; 9394; 9393; 9393; 9393; 9393; 9392; 9392; 9392; 9392;
  9391; 9391; 9391; 9391; 9391; 9390; 9390; 9390; 9390; 9389; 9389; 9389; 9389; 9388; 9388; 9388; 9388; 9388;
  9387; 9387; 9387; 9387; 9386; 9386; 9386; 9386; 9385; 9385; 9385; 9385; 9385; 9384; 9384; 9384; 9384; 9383;
  9383; 9383; 9383; 9382; 9382; 9382; 9382; 9382; 9381; 9381; 9381; 9381; 9380; 9380; 9380; 9380; 9379; 9379;
  9379; 9379; 9379; 9378; 9378; 9378; 9378; 9377; 9377; 9377; 9377; 9376; 9376; 9376; 9376; 9376; 9375; 9375;
  9375; 9375; 9374; 9374; 9374; 9374; 9373; 9373; 9373; 9373; 9373; 9372; 9372; 9372; 9372; 9371; 9371; 9371;
  9371; 9370; 9370; 9370; 9370; 9370; 9369; 9369; 9369; 9369; 9368; 9368; 9368; 9368; 9367; 9367; 9367; 9367;
  9367; 9366; 9366; 9366; 9366; 9365; 9365; 9365; 9365; 9364; 9364; 9364; 9364; 9364; 9363; 9363; 9363; 9363;
  9362; 9362; 9362; 9362; 9361; 9361; 9361; 9361; 9361; 9360; 9360; 9360; 9360; 9359; 9359; 9359; 9359; 9359;
  9358; 9358; 9358; 9358; 9357; 9357; 9357; 9357; 9356; 9356; 9356; 9356; 9356; 9355; 9355; 9355; 9355; 9354;
  9354; 9354; 9354; 9353; 9353; 9353; 9353; 9353; 9352; 9352; 9352; 9352; 9351; 9351; 9351; 9351; 9350; 9350;
  9350; 9350; 9350; 9349; 9349; 9349; 9349; 9348; 9348; 9348; 9348; 9347; 9347; 9347; 9347; 9347; 9346; 9346;
  9346; 9346; 9345; 9345; 9345; 9345; 9344; 9344; 9344; 9344; 9344; 9343; 9343; 9343; 9343; 9342; 9342; 9342;
  9342; 9342; 9341; 9341; 9341; 9341; 9340; 9340; 9340; 9340; 9339; 9339; 9339; 9339; 9339; 9338; 9338; 9338;
  9338; 9337; 9337; 9337; 9337; 9336; 9336; 9336; 9336; 9336; 9335; 9335; 9335; 9335; 9334; 9334; 9334; 9334].
Definition pow_lut_67 : list Z := [
  9333; 9333; 9333; 9333; 9333; 9332; 9332; 9332; 9332; 9331; 9331; 9331; 9331; 9331; 9330; 9330; 9330; 9330;
  9329; 9329; 9329; 9329; 9328; 9328; 9328; 9328; 9328; 9327; 9327; 9327; 9327; 9326; 9326; 9326; 9326; 9325;
  9325; 9325; 9325; 9325; 9324; 9324; 9324; 9324; 9323; 9323; 9323; 9323; 9322; 9322; 9322; 9322; 9322; 9321;
  9321; 9321; 9321; 9320; 9320; 9320; 9320; 9320; 9319; 9319; 9319; 9319; 9318; 9318; 9318; 9318; 9317; 9317;
  9317; 9317; 9317; 9316; 9316; 9316; 9316; 9315; 9315; 9315; 9315; 9314; 9314; 9314; 9314; 9314; 9313; 9313;
  9313; 9313; 9312; 9312; 9312; 9312; 9312; 9311; 9311; 9311; 9311; 9310; 9310; 9310; 9310; 9309; 9309; 9309;
  9309; 9309; 9308; 9308; 9308; 9308; 9307; 9307; 9307; 9307; 9306; 9306; 9306; 9306; 9306; 9305; 9305; 9305;
  9305; 9304; 9304; 9304; 9304; 9304; 9303; 9303; 9303; 9303; 9302; 9302; 9302; 9302; 9301; 9301; 9301; 9301;
  9301; 9300; 9300; 9300; 9300; 9299; 9299; 9299; 9299; 9298; 9298; 9298; 9298; 9298; 9297; 9297; 9297; 9297;
  9296; 9296; 9296; 9296; 9296; 9295; 9295; 9295; 9295; 9294; 9294; 9294; 9294; 9293; 9293; 9293; 9293; 9293;
  9292; 9292; 9292; 9292; 9291; 9291; 9291; 9291; 9290; 9290; 9290; 9290; 9290; 9289; 9289; 9289; 9289; 9288;
  9288; 9288; 9288; 9288; 9287; 9287; 9287; 9287; 9286; 9286; 9286; 9286; 9285; 9285; 9285; 9285; 9285; 9284;
  9284; 9284; 9284; 9283; 9283; 9283; 9283; 9283; 9282; 9282; 9282; 9282; 9281; 9281; 9281; 9281; 9280; 9280;
  9280; 9280; 9280; 9279; 9279; 9279; 9279; 9278; 9278; 9278; 9278; 9277; 9277; 9277; 9277; 9277; 9276; 9276;
  9276; 9276; 9275; 9275; 9275; 9275; 9275; 9274; 9274; 9274; 9274; 9273; 9273; 9273; 9273; 9272; 9272; 9272;
  9272; 9272; 9271; 9271; 9271; 9271; 9270; 9270; 9270; 9270; 9270; 9269; 9269; 9269; 9269; 9268; 9268; 9268;
  9268; 9267; 9267; 9267; 9267; 9267; 9266; 9266; 9266; 9266; 9265; 9265; 9265; 9265; 9265; 9264; 9264; 9264;
  9264; 9263; 9263; 9263; 9263; 9262; 9262; 9262; 9262; 9262; 9261; 9261; 9261; 9261; 9260; 9260; 9260; 9260;
  9260; 9259; 9259; 9259; 9259; 9258; 9258; 9258; 9258; 9257; 9257; 9257; 9257; 9257; 9256; 9256; 9256; 9256;
  9255; 9255; 9255; 9255; 9255; 9254; 9254; 9254; 9254; 9253; 9253; 9253; 9253; 9252; 9252; 9252; 9252; 9252;
  9251; 9251; 9251; 9251; 9250; 9250; 9250; 9250; 9250; 9249; 9249; 9249; 9249; 9248; 9248; 9248; 9248; 9247;
  9247; 9247; 9247; 9247; 9246; 9246; 9246; 9246; 9245; 9245; 9245; 9245; 9245; 9244; 9244; 9244; 9244; 9243;
  9243; 9243; 9243; 9242; 9242; 9242; 9242; 9242; 9241; 9241; 9241; 9241; 9240; 9240; 9240; 9240; 9240; 9239;
  9239; 9239; 9239; 9238; 9238; 9238; 9238; 9237; 9237; 9237; 9237; 9237; 9236; 9236; 9236; 9236; 9235; 9235;
  9235; 9235; 9235; 9234; 9234; 9234; 9234; 9233; 9233; 9233; 9233; 9232; 9232; 9232; 9232; 9232; 9231; 9231;
  9231; 9231; 9230; 9230; 9230; 9230; 9230; 9229; 9229; 9229; 9229; 9228; 9228; 9228; 9228; 9228; 9227; 9227;
  9227; 9227; 9226; 9226; 9226; 9226; 9225; 9225; 9225; 9225; 9225; 9224; 9224; 9224; 9224; 9223; 9223; 9223;
  9223; 9223; 9222; 9222; 9222; 9222; 9221; 9221; 9221; 9221; 9220; 9220; 9220; 9220; 9220; 9219; 9219; 9219;
  9219; 9218; 9218; 9218; 9218; 9218; 9217; 9217; 9217; 9217; 9216; 9216; 9216; 9216; 9215; 9215; 9215; 9215;
  9215; 9214; 9214; 9214; 9214; 9213; 9213; 9213; 9213; 9213; 9212; 9212; 9212; 9212; 9211; 9211; 9211; 9211;
  9211; 9210; 9210; 9210; 9210; 9209; 9209; 9209; 9209; 9208; 9208; 9208; 9208; 9208; 9207; 9207; 9207; 9207;
  9206; 9206; 9206; 9206; 9206; 9205; 9205; 9205; 9205; 9204; 9204; 9204; 9204; 9204; 9203; 9203; 9203; 9203;
  9202; 9202; 9202; 9202; 9201; 9201; 9201; 9201; 9201; 9200; 9200; 9200; 9200; 9199; 9199; 9199; 9199; 9199;
  9198; 9198; 9198; 9198; 9197; 9197; 9197; 9197; 9197; 9196; 9196; 9196; 9196; 9195; 9195; 9195; 9195; 9194;
  9194; 9194; 9194; 9194; 9193; 9193; 9193; 9193; 9192; 9192; 9192; 9192; 9192; 9191; 9191; 9191; 9191; 9190;
  9190; 9190; 9190; 9190; 9189; 9189; 9189; 9189; 9188; 9188; 9188; 9188; 9187; 9187; 9187; 9187; 9187; 9186;
  9186; 9186; 9186; 9185; 9185; 9185; 9185; 9185; 9184; 9184; 9184; 9184; 9183; 9183; 9183; 9183; 9183; 9182;
  9182; 9182; 9182; 9181; 9181; 9181; 9181; 9180; 9180; 9180; 9180; 9180; 9179; 9179; 9179; 9179; 9178; 9178;
  9178; 9178; 9178; 9177; 9177; 9177; 9177; 9176; 9176; 9176; 9176; 9176; 9175; 9175; 9175; 9175; 9174; 9174;
  9174; 9174; 9173; 9173; 9173; 9173; 9173; 9172; 9172; 9172; 9172; 9171; 9171; 9171; 9171; 9171; 9170; 9170;
  9170; 9170; 9169; 9169; 9169; 9169; 9169; 9168; 9168; 9168; 9168; 9167; 9167; 9167; 9167; 9167; 9166; 9166;
  9166; 9166; 9165; 9165; 9165; 9165; 9164; 9164; 9164; 9164; 9164; 9163; 9163; 9163; 9163; 9162; 9162; 9162;
  9162; 9162; 9161; 9161; 9161; 9161; 9160; 9160; 9160; 9160; 9160; 9159; 9159; 9159; 9159; 9158; 9158; 9158;
  9158; 9158; 9157; 9157; 9157; 9157; 9156; 9156; 9156; 9156; 9155; 9155; 9155; 9155; 9155; 9154; 9154; 9154;
  9154; 9153; 9153; 9153; 9153; 9153; 9152; 9152; 9152; 9152; 9151; 9151; 9151; 9151; 9151; 9150; 9150; 9150;
  9150; 9149; 9149; 9149; 9149; 9149; 9148; 9148; 9148; 9148; 9147; 9147; 9147; 9147; 9147; 9146; 9146; 9146;
  9146; 9145; 9145; 9145; 9145; 9144; 9144; 9144; 9144; 9144; 9143; 9143; 9143; 9143; 9142; 9142; 9142; 9142;
  9142; 9141; 9141; 9141; 9141; 9140; 9140; 9140; 9140; 9140; 9139; 9139; 9139; 9139; 9138; 9138; 9138; 9138;
  9138; 9137; 9137; 9137; 9137; 9136; 9136; 9136; 9136; 9136; 9135; 9135; 9135; 9135; 9134; 9134; 9134; 9134;
  9133; 9133; 9133; 9133; 9133; 9132; 9132; 9132; 9132; 9131; 9131; 9131; 9131; 9131; 9130; 9130; 9130; 9130].
Definition pow_lut_68 : list Z := [
  9129; 9129; 9129; 9129; 9129; 9128; 9128; 9128; 9128; 9127; 9127; 9127; 9127; 9127; 9126; 9126; 9126; 9126;
  9125; 9125; 9125; 9125; 9125; 9124; 9124; 9124; 9124; 9123; 9123; 9123; 9123; 9122; 9122; 9122; 9122; 9122;
  9121; 9121; 9121; 9121; 9120; 9120; 9120; 9120; 9120; 9119; 9119; 9119; 9119; 9118; 9118; 9118; 9118; 9118;
  9117; 9117; 9117; 9117; 9116; 9116; 9116; 9116; 9116; 9115; 9115; 9115; 9115; 9114; 9114; 9114; 9114; 9114;
  9113; 9113; 9113; 9113; 9112; 9112; 9112; 9112; 9112; 9111; 9111; 9111; 9111; 9110; 9110; 9110; 9110; 9110;
  9109; 9109; 9109; 9109; 9108; 9108; 9108; 9108; 9107; 9107; 9107; 9107; 9107; 9106; 9106; 9106; 9106; 9105;
  9105; 9105; 9105; 9105; 9104; 9104; 9104; 9104; 9103; 9103; 9103; 9103; 9103; 9102; 9102; 9102; 9102; 9101;
  9101; 9101; 9101; 9101; 9100; 9100; 9100; 9100; 9099; 9099; 9099; 9099; 9099; 9098; 9098; 9098; 9098; 9097;
  9097; 9097; 9097; 9097; 9096; 9096; 9096; 9096; 9095; 9095; 9095; 9095; 9095; 9094; 9094; 9094; 9094; 9093;
  9093; 9093; 9093; 9093; 9092; 9092; 9092; 9092; 9091; 9091; 9091; 9091; 9091; 9090; 9090; 9090; 9090; 9089;
  9089; 9089; 9089; 9089; 9088; 9088; 9088; 9088; 9087; 9087; 9087; 9087; 9086; 9086; 9086; 9086; 9086; 9085;
  9085; 9085; 9085; 9084; 9084; 9084; 9084; 9084; 9083; 9083; 9083; 9083; 9082; 9082; 9082; 9082; 9082; 9081;
  9081; 9081; 9081; 9080; 9080; 9080; 9080; 9080; 9079; 9079; 9079; 9079; 9078; 9078; 9078; 9078; 9078; 9077;
  9077; 9077; 9077; 9076; 9076; 9076; 9076; 9076; 9075; 9075; 9075; 9075; 9074; 9074; 9074; 9074; 9074; 9073;
  9073; 9073; 9073; 9072; 9072; 9072; 9072; 9072; 9071; 9071; 9071; 9071; 9070; 9070; 9070; 9070; 9070; 9069;
  9069; 9069; 9069; 9068; 9068; 9068; 9068; 9068; 9067; 9067; 9067; 9067; 9066; 9066; 9066; 9066; 9066; 9065;
  9065; 9065; 9065; 9064; 9064; 9064; 9064; 9064; 9063; 9063; 9063; 9063; 9062; 9062; 9062; 9062; 9062; 9061;
  9061; 9061; 9061; 9060; 9060; 9060; 9060; 9060; 9059; 9059; 9059; 9059; 9058; 9058; 9058; 9058; 9058; 9057;
  9057; 9057; 9057; 9056; 9056; 9056; 9056; 9056; 9055; 9055; 9055; 9055; 9054; 9054; 9054; 9054; 9054; 9053;
  9053; 9053; 9053; 9052; 9052; 9052; 9052; 9052; 9051; 9051; 9051; 9051; 9050; 9050; 9050; 9050; 9050; 9049;
  9049; 9049; 9049; 9048; 9048; 9048; 9048; 9048; 9047; 9047; 9047; 9047; 9046; 9046; 9046; 9046; 9046; 9045;
  9045; 9045; 9045; 9044; 9044; 9044; 9044; 9044; 9043; 9043; 9043; 9043; 9042; 9042; 9042; 9042; 9042; 9041;
  9041; 9041; 9041; 9040; 9040; 9040; 9040; 9040; 9039; 9039; 9039; 9039; 9038; 9038; 9038; 9038; 9038; 9037;
  9037; 9037; 9037; 9036; 9036; 9036; 9036; 9036; 9035; 9035; 9035; 9035; 9034; 9034; 9034; 9034; 9034; 9033;
  9033; 9033; 9033; 9032; 9032; 9032; 9032; 9032; 9031; 9031; 9031; 9031; 9030; 9030; 9030; 9030; 9030; 9029;
  9029; 9029; 9029; 9028; 9028; 9028; 9028; 9028; 9027; 9027; 9027; 9027; 9026; 9026; 9026; 9026; 9026; 9025;
  9025; 9025; 9025; 9024; 9024; 9024; 9024; 9024; 9023; 9023; 9023; 9023; 9022; 9022; 9022; 9022; 9022; 9021;
  9021; 9021; 9021; 9020; 9020; 9020; 9020; 9020; 9019; 9019; 9019; 9019; 9018; 9018; 9018; 9018; 9018; 9017;
  9017; 9017; 9017; 9016; 9016; 9016; 9016; 9016; 9015; 9015; 9015; 9015; 9014; 9014; 9014; 9014; 9014; 9013;
  9013; 9013; 9013; 9012; 9012; 9012; 9012; 9012; 9011; 9011; 9011; 9011; 9010; 9010; 9010; 9010; 9010; 9009;
  9009; 9009; 9009; 9009; 9008; 9008; 9008; 9008; 9007; 9007; 9007; 9007; 9007; 9006; 9006; 9006; 9006; 9005;
  9005; 9005; 9005; 9005; 9004; 9004; 9004; 9004; 9003; 9003; 9003; 9003; 9003; 9002; 9002; 9002; 9002; 9001;
  9001; 9001; 9001; 9001; 9000; 9000; 9000; 9000; 8999; 8999; 8999; 8999; 8999; 8998; 8998; 8998; 8998; 8997;
  8997; 8997; 8997; 8997; 8996; 8996; 8996; 8996; 8995; 8995; 8995; 8995; 8995; 8994; 8994; 8994; 8994; 8993;
  8993; 8993; 8993; 8993; 8992; 8992; 8992; 8992; 8991; 8991; 8991; 8991; 8991; 8990; 8990; 8990; 8990; 8989;
  8989; 8989; 8989; 8989; 8988; 8988; 8988; 8988; 8988; 8987; 8987; 8987; 8987; 8986; 8986; 8986; 8986; 8986;
  8985; 8985; 8985; 8985; 8984; 8984; 8984; 8984; 8984; 8983; 8983; 8983; 8983; 8982; 8982; 8982; 8982; 8982;
  8981; 8981; 8981; 8981; 8980; 8980; 8980; 8980; 8980; 8979; 8979; 8979; 8979; 8978; 8978; 8978; 8978; 8978;
  8977; 8977; 8977; 8977; 8976; 8976; 8976; 8976; 8976; 8975; 8975; 8975; 8975; 8974; 8974; 8974; 8974; 8974;
  8973; 8973; 8973; 8973; 8973; 8972; 8972; 8972; 8972; 8971; 8971; 8971; 8971; 8971; 8970; 8970; 8970; 8970;
  8969; 8969; 8969; 8969; 8969; 8968; 8968; 8968; 8968; 8967; 8967; 8967; 8967; 8967; 8966; 8966; 8966; 8966;
  8965; 8965; 8965; 8965; 8965; 8964; 8964; 8964; 8964; 8963; 8963; 8963; 8963; 8963; 8962; 8962; 8962; 8962;
  8962; 8961; 8961; 8961; 8961; 8960; 8960; 8960; 8960; 8960; 8959; 8959; 8959; 8959; 8958; 8958; 8958; 8958;
  8958; 8957; 8957; 8957; 8957; 8956; 8956; 8956; 8956; 8956; 8955; 8955; 8955; 8955; 8954; 8954; 8954; 8954;
  8954; 8953; 8953; 8953; 8953; 8952; 8952; 8952; 8952; 8952; 8951; 8951; 8951; 8951; 8951; 8950; 8950; 8950;
  8950; 8949; 8949; 8949; 8949; 8949; 8948; 8948; 8948; 8948; 8947; 8947; 8947; 8947; 8947; 8946; 8946; 8946;
  8946; 8945; 8945; 8945; 8945; 8945; 8944; 8944; 8944; 8944; 8943; 8943; 8943; 8943; 8943; 8942; 8942; 8942;
  8942; 8941; 8941; 8941; 8941; 8941; 8940; 8940; 8940; 8940; 8940; 8939; 8939; 8939; 8939; 8938; 8938; 8938;
  8938; 8938; 8937; 8937; 8937; 8937; 8936; 8936; 8936; 8936; 8936; 8935; 8935; 8935; 8935; 8934; 8934; 8934;
  8934; 8934; 8933; 8933; 8933; 8933; 8932; 8932; 8932; 8932; 8932; 8931; 8931; 8931; 8931; 8931; 8930; 8930].
Definition pow_lut_69 : list Z := [
  8930; 8930; 8929; 8929; 8929; 8929; 8929; 8928; 8928; 8928; 8928; 8927; 8927; 8927; 8927; 8927; 8926; 8926;
  8926; 8926; 8925; 8925; 8925; 8925; 8925; 8924; 8924; 8924; 8924; 8924; 8923; 8923; 8923; 8923; 8922; 8922;
  8922; 8922; 8922; 8921; 8921; 8921; 8921; 8920; 8920; 8920; 8920; 8920; 8919; 8919; 8919; 8919; 8918; 8918;
  8918; 8918; 8918; 8917; 8917; 8917; 8917; 8916; 8916; 8916; 8916; 8916; 8915; 8915; 8915; 8915; 8915; 8914;
  8914; 8914; 8914; 8913; 8913; 8913; 8913; 8913; 8912; 8912; 8912; 8912; 8911; 8911; 8911; 8911; 8911; 8910;
  8910; 8910; 8910; 8909; 8909; 8909; 8909; 8909; 8908; 8908; 8908; 8908; 8908; 8907; 8907; 8907; 8907; 8906;
  8906; 8906; 8906; 8906; 8905; 8905; 8905; 8905; 8904; 8904; 8904; 8904; 8904; 8903; 8903; 8903; 8903; 8902;
  8902; 8902; 8902; 8902; 8901; 8901; 8901; 8901; 8901; 8900; 8900; 8900; 8900; 8899; 8899; 8899; 8899; 8899;
  8898; 8898; 8898; 8898; 8897; 8897; 8897; 8897; 8897; 8896; 8896; 8896; 8896; 8896; 8895; 8895; 8895; 8895;
  8894; 8894; 8894; 8894; 8894; 8893; 8893; 8893; 8893; 8892; 8892; 8892; 8892; 8892; 8891; 8891; 8891; 8891;
  8890; 8890; 8890; 8890; 8890; 8889; 8889; 8889; 8889; 8889; 8888; 8888; 8888; 8888; 8887; 8887; 8887; 8887;
  8887; 8886; 8886; 8886; 8886; 8885; 8885; 8885; 8885; 8885; 8884; 8884; 8884; 8884; 8883; 8883; 8883; 8883;
  8883; 8882; 8882; 8882; 8882; 8882; 8881; 8881; 8881; 8881; 8880; 8880; 8880; 8880; 8880; 8879; 8879; 8879;
  8879; 8878; 8878; 8878; 8878; 8878; 8877; 8877; 8877; 8877; 8877; 8876; 8876; 8876; 8876; 8875; 8875; 8875;
  8875; 8875; 8874; 8874; 8874; 8874; 8873; 8873; 8873; 8873; 8873; 8872; 8872; 8872; 8872; 8872; 8871; 8871;
  8871; 8871; 8870; 8870; 8870; 8870; 8870; 8869; 8869; 8869; 8869; 8868; 8868; 8868; 8868; 8868; 8867; 8867;
  8867; 8867; 8866; 8866; 8866; 8866; 8866; 8865; 8865; 8865; 8865; 8865; 8864; 8864; 8864; 8864; 8863; 8863;
  8863; 8863; 8863; 8862; 8862; 8862; 8862; 8861; 8861; 8861; 8861; 8861; 8860; 8860; 8860; 8860; 8860; 8859;
  8859; 8859; 8859; 8858; 8858; 8858; 8858; 8858; 8857; 8857; 8857; 8857; 8856; 8856; 8856; 8856; 8856; 8855;
  8855; 8855; 8855; 8855; 8854; 8854; 8854; 8854; 8853; 8853; 8853; 8853; 8853; 8852; 8852; 8852; 8852; 8851;
  8851; 8851; 8851; 8851; 8850; 8850; 8850; 8850; 8850; 8849; 8849; 8849; 8849; 8848; 8848; 8848; 8848; 8848;
  8847; 8847; 8847; 8847; 8846; 8846; 8846; 8846; 8846; 8845; 8845; 8845; 8845; 8845; 8844; 8844; 8844; 8844;
  8843; 8843; 8843; 8843; 8843; 8842; 8842; 8842; 8842; 8841; 8841; 8841; 8841; 8841; 8840; 8840; 8840; 8840;
  8840; 8839; 8839; 8839; 8839; 8838; 8838; 8838; 8838; 8838; 8837; 8837; 8837; 8837; 8836; 8836; 8836; 8836;
  8836; 8835; 8835; 8835; 8835; 8835; 8834; 8834; 8834; 8834; 8833; 8833; 8833; 8833; 8833; 8832; 8832; 8832;
  8832; 8832; 8831; 8831; 8831; 8831; 8830; 8830; 8830; 8830; 8830; 8829; 8829; 8829; 8829; 8828; 8828; 8828;
  8828; 8828; 8827; 8827; 8827; 8827; 8827; 8826; 8826; 8826; 8826; 8825; 8825; 8825; 8825; 8825; 8824; 8824;
  8824; 8824; 8823; 8823; 8823; 8823; 8823; 8822; 8822; 8822; 8822; 8822; 8821; 8821; 8821; 8821; 8820; 8820;
  8820; 8820; 8820; 8819; 8819; 8819; 8819; 8818; 8818; 8818; 8818; 8818; 8817; 8817; 8817; 8817; 8817; 8816;
  8816; 8816; 8816; 8815; 8815; 8815; 8815; 8815; 8814; 8814; 8814; 8814; 8814; 8813; 8813; 8813; 8813; 8812;
  8812; 8812; 8812; 8812; 8811; 8811; 8811; 8811; 8810; 8810; 8810; 8810; 8810; 8809; 8809; 8809; 8809; 8809;
  8808; 8808; 8808; 8808; 8807; 8807; 8807; 8807; 8807; 8806; 8806; 8806; 8806; 8806; 8805; 8805; 8805; 8805;
  8804; 8804; 8804; 8804; 8804; 8803; 8803; 8803; 8803; 8802; 8802; 8802; 8802; 8802; 8801; 8801; 8801; 8801;
  8801; 8800; 8800; 8800; 8800; 8799; 8799; 8799; 8799; 8799; 8798; 8798; 8798; 8798; 8798; 8797; 8797; 8797;
  8797; 8796; 8796; 8796; 8796; 8796; 8795; 8795; 8795; 8795; 8794; 8794; 8794; 8794; 8794; 8793; 8793; 8793;
  8793; 8793; 8792; 8792; 8792; 8792; 8791; 8791; 8791; 8791; 8791; 8790; 8790; 8790; 8790; 8790; 8789; 8789;
  8789; 8789; 8788; 8788; 8788; 8788; 8788; 8787; 8787; 8787; 8787; 8787; 8786; 8786; 8786; 8786; 8785; 8785;
  8785; 8785; 8785; 8784; 8784; 8784; 8784; 8783; 8783; 8783; 8783; 8783; 8782; 8782; 8782; 8782; 8782; 8781;
  8781; 8781; 8781; 8780; 8780; 8780; 8780; 8780; 8779; 8779; 8779; 8779; 8779; 8778; 8778; 8778; 8778; 8777;
  8777; 8777; 8777; 8777; 8776; 8776; 8776; 8776; 8776; 8775; 8775; 8775; 8775; 8774; 8774; 8774; 8774; 8774;
  8773; 8773; 8773; 8773; 8772; 8772; 8772; 8772; 8772; 8771; 8771; 8771; 8771; 8771; 8770; 8770; 8770; 8770;
  8769; 8769; 8769; 8769; 8769; 8768; 8768; 8768; 8768; 8768; 8767; 8767; 8767; 8767; 8766; 8766; 8766; 8766;
  8766; 8765; 8765; 8765; 8765; 8765; 8764; 8764; 8764; 8764; 8763; 8763; 8763; 8763; 8763; 8762; 8762; 8762;
  8762; 8762; 8761; 8761; 8761; 8761; 8760; 8760; 8760; 8760; 8760; 8759; 8759; 8759; 8759; 8758; 8758; 8758;
  8758; 8758; 8757; 8757; 8757; 8757; 8757; 8756; 8756; 8756; 8756; 8755; 8755; 8755; 8755; 8755; 8754; 8754;
  8754; 8754; 8754; 8753; 8753; 8753; 8753; 8752; 8752; 8752; 8752; 8752; 8751; 8751; 8751; 8751; 8751; 8750;
  8750; 8750; 8750; 8749; 8749; 8749; 8749; 8749; 8748; 8748; 8748; 8748; 8748; 8747; 8747; 8747; 8747; 8746;
  8746; 8746; 8746; 8746; 8745; 8745; 8745; 8745; 8745; 8744; 8744; 8744; 8744; 8743; 8743; 8743; 8743; 8743;
  8742; 8742; 8742; 8742; 8742; 8741; 8741; 8741; 8741; 8740; 8740; 8740; 8740; 8740; 8739; 8739; 8739; 8739;
  8739; 8738; 8738; 8738; 8738; 8737; 8737; 8737; 8737; 8737; 8736; 8736; 8736; 8736; 8736; 8735; 8735; 8735].
Definition pow_lut_70 : list Z := [
  8735; 8734; 8734; 8734; 8734; 8734; 8733; 8733; 8733; 8733; 8733; 8732; 8732; 8732; 8732; 8731; 8731; 8731;
  8731; 8731; 8730; 8730; 8730; 8730; 8730; 8729; 8729; 8729; 8729; 8728; 8728; 8728; 8728; 8728; 8727; 8727;
  8727; 8727; 8727; 8726; 8726; 8726; 8726; 8725; 8725; 8725; 8725; 8725; 8724; 8724; 8724; 8724; 8724; 8723;
  8723; 8723; 8723; 8722; 8722; 8722; 8722; 8722; 8721; 8721; 8721; 8721; 8721; 8720; 8720; 8720; 8720; 8719;
  8719; 8719; 8719; 8719; 8718; 8718; 8718; 8718; 8718; 8717; 8717; 8717; 8717; 8716; 8716; 8716; 8716; 8716;
  8715; 8715; 8715; 8715; 8715; 8714; 8714; 8714; 8714; 8713; 8713; 8713; 8713; 8713; 8712; 8712; 8712; 8712;
  8712; 8711; 8711; 8711; 8711; 8710; 8710; 8710; 8710; 8710; 8709; 8709; 8709; 8709; 8709; 8708; 8708; 8708;
  8708; 8707; 8707; 8707; 8707; 8707; 8706; 8706; 8706; 8706; 8706; 8705; 8705; 8705; 8705; 8704; 8704; 8704;
  8704; 8704; 8703; 8703; 8703; 8703; 8703; 8702; 8702; 8702; 8702; 8701; 8701; 8701; 8701; 8701; 8700; 8700;
  8700; 8700; 8700; 8699; 8699; 8699; 8699; 8698; 8698; 8698; 8698; 8698; 8697; 8697; 8697; 8697; 8697; 8696;
  8696; 8696; 8696; 8695; 8695; 8695; 8695; 8695; 8694; 8694; 8694; 8694; 8694; 8693; 8693; 8693; 8693; 8692;
  8692; 8692; 8692; 8692; 8691; 8691; 8691; 8691; 8691; 8690; 8690; 8690; 8690; 8690; 8689; 8689; 8689; 8689;
  8688; 8688; 8688; 8688; 8688; 8687; 8687; 8687; 8687; 8687; 8686; 8686; 8686; 8686; 8685; 8685; 8685; 8685;
  8685; 8684; 8684; 8684; 8684; 8684; 8683; 8683; 8683; 8683; 8682; 8682; 8682; 8682; 8682; 8681; 8681; 8681;
  8681; 8681; 8680; 8680; 8680; 8680; 8679; 8679; 8679; 8679; 8679; 8678; 8678; 8678; 8678; 8678; 8677; 8677;
  8677; 8677; 8676; 8676; 8676; 8676; 8676; 8675; 8675; 8675; 8675; 8675; 8674; 8674; 8674; 8674; 8674; 8673;
  8673; 8673; 8673; 8672; 8672; 8672; 8672; 8672; 8671; 8671; 8671; 8671; 8671; 8670; 8670; 8670; 8670; 8669;
  8669; 8669; 8669; 8669; 8668; 8668; 8668; 8668; 8668; 8667; 8667; 8667; 8667; 8666; 8666; 8666; 8666; 8666;
  8665; 8665; 8665; 8665; 8665; 8664; 8664; 8664; 8664; 8664; 8663; 8663; 8663; 8663; 8662; 8662; 8662; 8662;
  8662; 8661; 8661; 8661; 8661; 8661; 8660; 8660; 8660; 8660; 8659; 8659; 8659; 8659; 8659; 8658; 8658; 8658;
  8658; 8658; 8657; 8657; 8657; 8657; 8656; 8656; 8656; 8656; 8656; 8655; 8655; 8655; 8655; 8655; 8654; 8654;
  8654; 8654; 8654; 8653; 8653; 8653; 8653; 8652; 8652; 8652; 8652; 8652; 8651; 8651; 8651; 8651; 8651; 8650;
  8650; 8650; 8650; 8649; 8649; 8649; 8649; 8649; 8648; 8648; 8648; 8648; 8648; 8647; 8647; 8647; 8647; 8647;
  8646; 8646; 8646; 8646; 8645; 8645; 8645; 8645; 8645; 8644; 8644; 8644; 8644; 8644; 8643; 8643; 8643; 8643;
  8642; 8642; 8642; 8642; 8642; 8641; 8641; 8641; 8641; 8641; 8640; 8640; 8640; 8640; 8639; 8639; 8639; 8639;
  8639; 8638; 8638; 8638; 8638; 8638; 8637; 8637; 8637; 8637; 8637; 8636; 8636; 8636; 8636; 8635; 8635; 8635;
  8635; 8635; 8634; 8634; 8634; 8634; 8634; 8633; 8633; 8633; 8633; 8632; 8632; 8632; 8632; 8632; 8631; 8631;
  8631; 8631; 8631; 8630; 8630; 8630; 8630; 8630; 8629; 8629; 8629; 8629; 8628; 8628; 8628; 8628; 8628; 8627;
  8627; 8627; 8627; 8627; 8626; 8626; 8626; 8626; 8626; 8625; 8625; 8625; 8625; 8624; 8624; 8624; 8624; 8624;
  8623; 8623; 8623; 8623; 8623; 8622; 8622; 8622; 8622; 8621; 8621; 8621; 8621; 8621; 8620; 8620; 8620; 8620;
  8620; 8619; 8619; 8619; 8619; 8619; 8618; 8618; 8618; 8618; 8617; 8617; 8617; 8617; 8617; 8616; 8616; 8616;
  8616; 8616; 8615; 8615; 8615; 8615; 8614; 8614; 8614; 8614; 8614; 8613; 8613; 8613; 8613; 8613; 8612; 8612;
  8612; 8612; 8612; 8611; 8611; 8611; 8611; 8610; 8610; 8610; 8610; 8610; 8609; 8609; 8609; 8609; 8609; 8608;
  8608; 8608; 8608; 8608; 8607; 8607; 8607; 8607; 8606; 8606; 8606; 8606; 8606; 8605; 8605; 8605; 8605; 8605;
  8604; 8604; 8604; 8604; 8604; 8603; 8603; 8603; 8603; 8602; 8602; 8602; 8602; 8602; 8601; 8601; 8601; 8601;
  8601; 8600; 8600; 8600; 8600; 8599; 8599; 8599; 8599; 8599; 8598; 8598; 8598; 8598; 8598; 8597; 8597; 8597;
  8597; 8597; 8596; 8596; 8596; 8596; 8595; 8595; 8595; 8595; 8595; 8594; 8594; 8594; 8594; 8594; 8593; 8593;
  8593; 8593; 8593; 8592; 8592; 8592; 8592; 8591; 8591; 8591; 8591; 8591; 8590; 8590; 8590; 8590; 8590; 8589;
  8589; 8589; 8589; 8589; 8588; 8588; 8588; 8588; 8587; 8587; 8587; 8587; 8587; 8586; 8586; 8586; 8586; 8586;
  8585; 8585; 8585; 8585; 8585; 8584; 8584; 8584; 8584; 8583; 8583; 8583; 8583; 8583; 8582; 8582; 8582; 8582;
  8582; 8581; 8581; 8581; 8581; 8581; 8580; 8580; 8580; 8580; 8579; 8579; 8579; 8579; 8579; 8578; 8578; 8578;
  8578; 8578; 8577; 8577; 8577; 8577; 8576; 8576; 8576; 8576; 8576; 8575; 8575; 8575; 8575; 8575; 8574; 8574;
  8574; 8574; 8574; 8573; 8573; 8573; 8573; 8572; 8572; 8572; 8572; 8572; 8571; 8571; 8571; 8571; 8571; 8570;
  8570; 8570; 8570; 8570; 8569; 8569; 8569; 8569; 8568; 8568; 8568; 8568; 8568; 8567; 8567; 8567; 8567; 8567;
  8566; 8566; 8566; 8566; 8566; 8565; 8565; 8565; 8565; 8565; 8564; 8564; 8564; 8564; 8563; 8563; 8563; 8563;
  8563; 8562; 8562; 8562; 8562; 8562; 8561; 8561; 8561; 8561; 8561; 8560; 8560; 8560; 8560; 8559; 8559; 8559;
  8559; 8559; 8558; 8558; 8558; 8558; 8558; 8557; 8557; 8557; 8557; 8557; 8556; 8556; 8556; 8556; 8555; 8555;
  8555; 8555; 8555; 8554; 8554; 8554; 8554; 8554; 8553; 8553; 8553; 8553; 8553; 8552; 8552; 8552; 8552; 8551;
  8551; 8551; 8551; 8551; 8550; 8550; 8550; 8550; 8550; 8549; 8549; 8549; 8549; 8549; 8548; 8548; 8548; 8548;
  8547; 8547; 8547; 8547; 8547; 8546; 8546; 8546; 8546; 8546; 8545; 8545; 8545; 8545; 8545; 8544; 8544; 8544].
Definition pow_lut_71 : list Z := [
  8544; 8543; 8543; 8543; 8543; 8543; 8542; 8542; 8542; 8542; 8542; 8541; 8541; 8541; 8541; 8541; 8540; 8540;
  8540; 8540; 8540; 8539; 8539; 8539; 8539; 8538; 8538; 8538; 8538; 8538; 8537; 8537; 8537; 8537; 8537; 8536;
  8536; 8536; 8536; 8536; 8535; 8535; 8535; 8535; 8534; 8534; 8534; 8534; 8534; 8533; 8533; 8533; 8533; 8533;
  8532; 8532; 8532; 8532; 8532; 8531; 8531; 8531; 8531; 8530; 8530; 8530; 8530; 8530; 8529; 8529; 8529; 8529;
  8529; 8528; 8528; 8528; 8528; 8528; 8527; 8527; 8527; 8527; 8527; 8526; 8526; 8526; 8526; 8525; 8525; 8525;
  8525; 8525; 8524; 8524; 8524; 8524; 8524; 8523; 8523; 8523; 8523; 8523; 8522; 8522; 8522; 8522; 8521; 8521;
  8521; 8521; 8521; 8520; 8520; 8520; 8520; 8520; 8519; 8519; 8519; 8519; 8519; 8518; 8518; 8518; 8518; 8518;
  8517; 8517; 8517; 8517; 8516; 8516; 8516; 8516; 8516; 8515; 8515; 8515; 8515; 8515; 8514; 8514; 8514; 8514;
  8514; 8513; 8513; 8513; 8513; 8512; 8512; 8512; 8512; 8512; 8511; 8511; 8511; 8511; 8511; 8510; 8510; 8510;
  8510; 8510; 8509; 8509; 8509; 8509; 8509; 8508; 8508; 8508; 8508; 8507; 8507; 8507; 8507; 8507; 8506; 8506;
  8506; 8506; 8506; 8505; 8505; 8505; 8505; 8505; 8504; 8504; 8504; 8504; 8504; 8503; 8503; 8503; 8503; 8502;
  8502; 8502; 8502; 8502; 8501; 8501; 8501; 8501; 8501; 8500; 8500; 8500; 8500; 8500; 8499; 8499; 8499; 8499;
  8498; 8498; 8498; 8498; 8498; 8497; 8497; 8497; 8497; 8497; 8496; 8496; 8496; 8496; 8496; 8495; 8495; 8495;
  8495; 8495; 8494; 8494; 8494; 8494; 8493; 8493; 8493; 8493; 8493; 8492; 8492; 8492; 8492; 8492; 8491; 8491;
  8491; 8491; 8491; 8490; 8490; 8490; 8490; 8490; 8489; 8489; 8489; 8489; 8488; 8488; 8488; 8488; 8488; 8487;
  8487; 8487; 8487; 8487; 8486; 8486; 8486; 8486; 8486; 8485; 8485; 8485; 8485; 8485; 8484; 8484; 8484; 8484;
  8483; 8483; 8483; 8483; 8483; 8482; 8482; 8482; 8482; 8482; 8481; 8481; 8481; 8481; 8481; 8480; 8480; 8480;
  8480; 8480; 8479; 8479; 8479; 8479; 8478; 8478; 8478; 8478; 8478; 8477; 8477; 8477; 8477; 8477; 8476; 8476;
  8476; 8476; 8476; 8475; 8475; 8475; 8475; 8475; 8474; 8474; 8474; 8474; 8473; 8473; 8473; 8473; 8473; 8472;
  8472; 8472; 8472; 8472; 8471; 8471; 8471; 8471; 8471; 8470; 8470; 8470; 8470; 8470; 8469; 8469; 8469; 8469;
  8468; 8468; 8468; 8468; 8468; 8467; 8467; 8467; 8467; 8467; 8466; 8466; 8466; 8466; 8466; 8465; 8465; 8465;
  8465; 8465; 8464; 8464; 8464; 8464; 8464; 8463; 8463; 8463; 8463; 8462; 8462; 8462; 8462; 8462; 8461; 8461;
  8461; 8461; 8461; 8460; 8460; 8460; 8460; 8460; 8459; 8459; 8459; 8459; 8459; 8458; 8458; 8458; 8458; 8457;
  8457; 8457; 8457; 8457; 8456; 8456; 8456; 8456; 8456; 8455; 8455; 8455; 8455; 8455; 8454; 8454; 8454; 8454;
  8454; 8453; 8453; 8453; 8453; 8452; 8452; 8452; 8452; 8452; 8451; 8451; 8451; 8451; 8451; 8450; 8450; 8450;
  8450; 8450; 8449; 8449; 8449; 8449; 8449; 8448; 8448; 8448; 8448; 8448; 8447; 8447; 8447; 8447; 8446; 8446;
  8446; 8446; 8446; 8445; 8445; 8445; 8445; 8445; 8444; 8444; 8444; 8444; 8444; 8443; 8443; 8443; 8443; 8443;
  8442; 8442; 8442; 8442; 8442; 8441; 8441; 8441; 8441; 8440; 8440; 8440; 8440; 8440; 8439; 8439; 8439; 8439;
  8439; 8438; 8438; 8438; 8438; 8438; 8437; 8437; 8437; 8437; 8437; 8436; 8436; 8436; 8436; 8435; 8435; 8435;
  8435; 8435; 8434; 8434; 8434; 8434; 8434; 8433; 8433; 8433; 8433; 8433; 8432; 8432; 8432; 8432; 8432; 8431;
  8431; 8431; 8431; 8431; 8430; 8430; 8430; 8430; 8429; 8429; 8429; 8429; 8429; 8428; 8428; 8428; 8428; 8428;
  8427; 8427; 8427; 8427; 8427; 8426; 8426; 8426; 8426; 8426; 8425; 8425; 8425; 8425; 8425; 8424; 8424; 8424;
  8424; 8423; 8423; 8423; 8423; 8423; 8422; 8422; 8422; 8422; 8422; 8421; 8421; 8421; 8421; 8421; 8420; 8420;
  8420; 8420; 8420; 8419; 8419; 8419; 8419; 8419; 8418; 8418; 8418; 8418; 8417; 8417; 8417; 8417; 8417; 8416;
  8416; 8416; 8416; 8416; 8415; 8415; 8415; 8415; 8415; 8414; 8414; 8414; 8414; 8414; 8413; 8413; 8413; 8413;
  8413; 8412; 8412; 8412; 8412; 8411; 8411; 8411; 8411; 8411; 8410; 8410; 8410; 8410; 8410; 8409; 8409; 8409;
  8409; 8409; 8408; 8408; 8408; 8408; 8408; 8407; 8407; 8407; 8407; 8407; 8406; 8406; 8406; 8406; 8406; 8405;
  8405; 8405; 8405; 8404; 8404; 8404; 8404; 8404; 8403; 8403; 8403; 8403; 8403; 8402; 8402; 8402; 8402; 8402;
  8401; 8401; 8401; 8401; 8401; 8400; 8400; 8400; 8400; 8400; 8399; 8399; 8399; 8399; 8398; 8398; 8398; 8398;
  8398; 8397; 8397; 8397; 8397; 8397; 8396; 8396; 8396; 8396; 8396; 8395; 8395; 8395; 8395; 8395; 8394; 8394;
  8394; 8394; 8394; 8393; 8393; 8393; 8393; 8393; 8392; 8392; 8392; 8392; 8391; 8391; 8391; 8391; 8391; 8390;
  8390; 8390; 8390; 8390; 8389; 8389; 8389; 8389; 8389; 8388; 8388; 8388; 8388; 8388; 8387; 8387; 8387; 8387;
  8387; 8386; 8386; 8386; 8386; 8386; 8385; 8385; 8385; 8385; 8384; 8384; 8384; 8384; 8384; 8383; 8383; 8383;
  8383; 8383; 8382; 8382; 8382; 8382; 8382; 8381; 8381; 8381; 8381; 8381; 8380; 8380; 8380; 8380; 8380; 8379;
  8379; 8379; 8379; 8379; 8378; 8378; 8378; 8378; 8377; 8377; 8377; 8377; 8377; 8376; 8376; 8376; 8376; 8376;
  8375; 8375; 8375; 8375; 8375; 8374; 8374; 8374; 8374; 8374; 8373; 8373; 8373; 8373; 8373; 8372; 8372; 8372;
  8372; 8372; 8371; 8371; 8371; 8371; 8370; 8370; 8370; 8370; 8370; 8369; 8369; 8369; 8369; 8369; 8368; 8368;
  8368; 8368; 8368; 8367; 8367; 8367; 8367; 8367; 8366; 8366; 8366; 8366; 8366; 8365; 8365; 8365; 8365; 8365;
  8364; 8364; 8364; 8364; 8363; 8363; 8363; 8363; 8363; 8362; 8362; 8362; 8362; 8362; 8361; 8361; 8361; 8361;
  8361; 8360; 8360; 8360; 8360; 8360; 8359; 8359; 8359; 8359; 8359; 8358; 8358; 8358; 8358; 8358; 8357; 8357].
Definition pow_lut_72 : list Z := [
  8357; 8357; 8357; 8356; 8356; 8356; 8356; 8355; 8355; 8355; 8355; 8355; 8354; 8354; 8354; 8354; 8354; 8353;
  8353; 8353; 8353; 8353; 8352; 8352; 8352; 8352; 8352; 8351; 8351; 8351; 8351; 8351; 8350; 8350; 8350; 8350;
  8350; 8349; 8349; 8349; 8349; 8349; 8348; 8348; 8348; 8348; 8347; 8347; 8347; 8347; 8347; 8346; 8346; 8346;
  8346; 8346; 8345; 8345; 8345; 8345; 8345; 8344; 8344; 8344; 8344; 8344; 8343; 8343; 8343; 8343; 8343; 8342;
  8342; 8342; 8342; 8342; 8341; 8341; 8341; 8341; 8341; 8340; 8340; 8340; 8340; 8340; 8339; 8339; 8339; 8339;
  8338; 8338; 8338; 8338; 8338; 8337; 8337; 8337; 8337; 8337; 8336; 8336; 8336; 8336; 8336; 8335; 8335; 8335;
  8335; 8335; 8334; 8334; 8334; 8334; 8334; 8333; 8333; 8333; 8333; 8333; 8332; 8332; 8332; 8332; 8332; 8331;
  8331; 8331; 8331; 8330; 8330; 8330; 8330; 8330; 8329; 8329; 8329; 8329; 8329; 8328; 8328; 8328; 8328; 8328;
  8327; 8327; 8327; 8327; 8327; 8326; 8326; 8326; 8326; 8326; 8325; 8325; 8325; 8325; 8325; 8324; 8324; 8324;
  8324; 8324; 8323; 8323; 8323; 8323; 8323; 8322; 8322; 8322; 8322; 8321; 8321; 8321; 8321; 8321; 8320; 8320;
  8320; 8320; 8320; 8319; 8319; 8319; 8319; 8319; 8318; 8318; 8318; 8318; 8318; 8317; 8317; 8317; 8317; 8317;
  8316; 8316; 8316; 8316; 8316; 8315; 8315; 8315; 8315; 8315; 8314; 8314; 8314; 8314; 8314; 8313; 8313; 8313;
  8313; 8313; 8312; 8312; 8312; 8312; 8311; 8311; 8311; 8311; 8311; 8310; 8310; 8310; 8310; 8310; 8309; 8309;
  8309; 8309; 8309; 8308; 8308; 8308; 8308; 8308; 8307; 8307; 8307; 8307; 8307; 8306; 8306; 8306; 8306; 8306;
  8305; 8305; 8305; 8305; 8305; 8304; 8304; 8304; 8304; 8304; 8303; 8303; 8303; 8303; 8303; 8302; 8302; 8302;
  8302; 8301; 8301; 8301; 8301; 8301; 8300; 8300; 8300; 8300; 8300; 8299; 8299; 8299; 8299; 8299; 8298; 8298;
  8298; 8298; 8298; 8297; 8297; 8297; 8297; 8297; 8296; 8296; 8296; 8296; 8296; 8295; 8295; 8295; 8295; 8295;
  8294; 8294; 8294; 8294; 8294; 8293; 8293; 8293; 8293; 8293; 8292; 8292; 8292; 8292; 8292; 8291; 8291; 8291;
  8291; 8290; 8290; 8290; 8290; 8290; 8289; 8289; 8289; 8289; 8289; 8288; 8288; 8288; 8288; 8288; 8287; 8287;
  8287; 8287; 8287; 8286; 8286; 8286; 8286; 8286; 8285; 8285; 8285; 8285; 8285; 8284; 8284; 8284; 8284; 8284;
  8283; 8283; 8283; 8283; 8283; 8282; 8282; 8282; 8282; 8282; 8281; 8281; 8281; 8281; 8281; 8280; 8280; 8280;
  8280; 8280; 8279; 8279; 8279; 8279; 8278; 8278; 8278; 8278; 8278; 8277; 8277; 8277; 8277; 8277; 8276; 8276;
  8276; 8276; 8276; 8275; 8275; 8275; 8275; 8275; 8274; 8274; 8274; 8274; 8274; 8273; 8273; 8273; 8273; 8273;
  8272; 8272; 8272; 8272; 8272; 8271; 8271; 8271; 8271; 8271; 8270; 8270; 8270; 8270; 8270; 8269; 8269; 8269;
  8269; 8269; 8268; 8268; 8268; 8268; 8268; 8267; 8267; 8267; 8267; 8266; 8266; 8266; 8266; 8266; 8265; 8265;
  8265; 8265; 8265; 8264; 8264; 8264; 8264; 8264; 8263; 8263; 8263; 8263; 8263; 8262; 8262; 8262; 8262; 8262;
  8261; 8261; 8261; 8261; 8261; 8260; 8260; 8260; 8260; 8260; 8259; 8259; 8259; 8259; 8259; 8258; 8258; 8258;
  8258; 8258; 8257; 8257; 8257; 8257; 8257; 8256; 8256; 8256; 8256; 8256; 8255; 8255; 8255; 8255; 8255; 8254;
  8254; 8254; 8254; 8254; 8253; 8253; 8253; 8253; 8253; 8252; 8252; 8252; 8252; 8251; 8251; 8251; 8251; 8251;
  8250; 8250; 8250; 8250; 8250; 8249; 8249; 8249; 8249; 8249; 8248; 8248; 8248; 8248; 8248; 8247; 8247; 8247;
  8247; 8247; 8246; 8246; 8246; 8246; 8246; 8245; 8245; 8245; 8245; 8245; 8244; 8244; 8244; 8244; 8244; 8243;
  8243; 8243; 8243; 8243; 8242; 8242; 8242; 8242; 8242; 8241; 8241; 8241; 8241; 8241; 8240; 8240; 8240; 8240;
  8240; 8239; 8239; 8239; 8239; 8239; 8238; 8238; 8238; 8238; 8238; 8237; 8237; 8237; 8237; 8237; 8236; 8236;
  8236; 8236; 8235; 8235; 8235; 8235; 8235; 8234; 8234; 8234; 8234; 8234; 8233; 8233; 8233; 8233; 8233; 8232;
  8232; 8232; 8232; 8232; 8231; 8231; 8231; 8231; 8231; 8230; 8230; 8230; 8230; 8230; 8229; 8229; 8229; 8229;
  8229; 8228; 8228; 8228; 8228; 8228; 8227; 8227; 8227; 8227; 8227; 8226; 8226; 8226; 8226; 8226; 8225; 8225;
  8225; 8225; 8225; 8224; 8224; 8224; 8224; 8224; 8223; 8223; 8223; 8223; 8223; 8222; 8222; 8222; 8222; 8222;
  8221; 8221; 8221; 8221; 8221; 8220; 8220; 8220; 8220; 8220; 8219; 8219; 8219; 8219; 8219; 8218; 8218; 8218;
  8218; 8218; 8217; 8217; 8217; 8217; 8217; 8216; 8216; 8216; 8216; 8215; 8215; 8215; 8215; 8215; 8214; 8214;
  8214; 8214; 8214; 8213; 8213; 8213; 8213; 8213; 8212; 8212; 8212; 8212; 8212; 8211; 8211; 8211; 8211; 8211;
  8210; 8210; 8210; 8210; 8210; 8209; 8209; 8209; 8209; 8209; 8208; 8208; 8208; 8208; 8208; 8207; 8207; 8207;
  8207; 8207; 8206; 8206; 8206; 8206; 8206; 8205; 8205; 8205; 8205; 8205; 8204; 8204; 8204; 8204].
End Rows.

(** An array of [LGC_LUT_SIZE] entries from the values of its initialiser. *)
Definition initialised (values : list Z) : list Z :=
  values ++ repeat 0 (Z.to_nat LGC_LUT_SIZE - length values).

Definition log_lut : list Z := initialised (concat [
  Rows.log_lut_0; Rows.log_lut_1; Rows.log_lut_2; Rows.log_lut_3; Rows.log_lut_4; Rows.log_lut_5; Rows.log_lut_6; Rows.log_lut_7;
  Rows.log_lut_8; Rows.log_lut_9; Rows.log_lut_10; Rows.log_lut_11; Rows.log_lut_12; Rows.log_lut_13; Rows.log_lut_14; Rows.log_lut_15;
  Rows.log_lut_16; Rows.log_lut_17; Rows.log_lut_18; Rows.log_lut_19; Rows.log_lut_20; Rows.log_lut_21; Rows.log_lut_22; Rows.log_lut_23;
  Rows.log_lut_24; Rows.log_lut_25; Rows.log_lut_26; Rows.log_lut_27; Rows.log_lut_28; Rows.log_lut_29; Rows.log_lut_30; Rows.log_lut_31;
  Rows.log_lut_32; Rows.log_lut_33; Rows.log_lut_34; Rows.log_lut_35; Rows.log_lut_36; Rows.log_lut_37; Rows.log_lut_38; Rows.log_lut_39;
  Rows.log_lut_40; Rows.log_lut_41; Rows.log_lut_42; Rows.log_lut_43; Rows.log_lut_44; Rows.log_lut_45; Rows.log_lut_46; Rows.log_lut_47;
  Rows.log_lut_48; Rows.log_lut_49; Rows.log_lut_50; Rows.log_lut_51; Rows.log_lut_52; Rows.log_lut_53; Rows.log_lut_54; Rows.log_lut_55;
  Rows.log_lut_56; Rows.log_lut_57; Rows.log_lut_58; Rows.log_lut_59; Rows.log_lut_60; Rows.log_lut_61; Rows.log_lut_62; Rows.log_lut_63;
  Rows.log_lut_64; Rows.log_lut_65; Rows.log_lut_66; Rows.log_lut_67; Rows.log_lut_68; Rows.log_lut_69; Rows.log_lut_70; Rows.log_lut_71;
  Rows.log_lut_72]).

Definition pow_lut : list Z := initialised (concat [
  Rows.pow_lut_0; Rows.pow_lut_1; Rows.pow_lut_2; Rows.pow_lut_3; Rows.pow_lut_4; Rows.pow_lut_5; Rows.pow_lut_6; Rows.pow_lut_7;
  Rows.pow_lut_8; Rows.pow_lut_9; Rows.pow_lut_10; Rows.pow_lut_11; Rows.pow_lut_12; Rows.pow_lut_13; Rows.pow_lut_14; Rows.pow_lut_15;
  Rows.pow_lut_16; Rows.pow_lut_17; Rows.pow_lut_18; Rows.pow_lut_19; Rows.pow_lut_20; Rows.pow_lut_21; Rows.pow_lut_22; Rows.pow_lut_23;
  Rows.pow_lut_24; Rows.pow_lut_25; Rows.pow_lut_26; Rows.pow_lut_27; Rows.pow_lut_28; Rows.pow_lut_29; Rows.pow_lut_30; Rows.pow_lut_31;
  Rows.pow_lut_32; Rows.pow_lut_33; Rows.pow_lut_34; Rows.pow_lut_35; Rows.pow_lut_36; Rows.pow_lut_37; Rows.pow_lut_38; Rows.pow_lut_39;
  Rows.pow_lut_40; Rows.pow_lut_41; Rows.pow_lut_42; Rows.pow_lut_43; Rows.pow_lut_44; Rows.pow_lut_45; Rows.pow_lut_46; Rows.pow_lut_47;
  Rows.pow_lut_48; Rows.pow_lut_49; Rows.pow_lut_50; Rows.pow_lut_51; Rows.pow_lut_52; Rows.pow_lut_53; Rows.pow_lut_54; Rows.pow_lut_55;
  Rows.pow_lut_56; Rows.pow_lut_57; Rows.pow_lut_58; Rows.pow_lut_59; Rows.pow_lut_60; Rows.pow_lut_61; Rows.pow_lut_62; Rows.pow_lut_63;
  Rows.pow_lut_64; Rows.pow_lut_65; Rows.pow_lut_66; Rows.pow_lut_67; Rows.pow_lut_68; Rows.pow_lut_69; Rows.pow_lut_70; Rows.pow_lut_71;
  Rows.pow_lut_72]).

(** ** Tests of a whole table *)

Definition within (hi : Z) (l : list Z) : bool := forallb (fun x => (0 <=? x) && (x <=? hi)) l.

Fixpoint descending (l : list Z) : bool :=
  match l with
  | x :: (y :: _) as l' => (y <=? x) && descending l'
  | _ => true
  end.

Lemma within_entry hi l i x : within hi l = true -> l !! i = Some x -> 0 <= x <= hi.
Proof.
  intros Hw Hx%list_elem_of_lookup_2%list_elem_of_In. unfold within in Hw. rewrite List.forallb_forall in Hw.
  apply Hw in Hx. lia.
Qed.

Lemma descending_entry l i j x y :
  descending l = true -> (i <= j)%nat -> l !! i = Some x -> l !! j = Some y -> y <= x.
Proof.
  revert i j x. induction l as [|a l IH]; intros i j x Hd Hij Hx Hy; [done|].
  assert (descending l = true) as Hl by (destruct l; [done|]; cbn in Hd; by apply andb_prop in Hd as [_ ?]).
  destruct j as [|j]; [destruct i; [|lia]; cbn in *; simplify_eq; lia|].
  destruct i as [|i]; [|by apply (IH i j); [done|lia|done|done]]. cbn in Hx. simplify_eq.
  destruct l as [|b l]; [done|]. cbn in Hd. apply andb_prop in Hd as [Hb _].
  assert (y <= b); [|lia]. apply (IH 0%nat j); [done|lia|done|done].
Qed.

Lemma log_lut_size : Z.of_nat (length log_lut) = LGC_LUT_SIZE.
Proof. apply Z.eqb_eq. vm_compute. reflexivity. Qed.
Lemma pow_lut_size : Z.of_nat (length pow_lut) = LGC_LUT_SIZE.
Proof. apply Z.eqb_eq. vm_compute. reflexivity. Qed.
Lemma log_lut_within : within 315652 log_lut = true.
Proof. vm_compute. reflexivity. Qed.
Lemma pow_lut_within : within 41021 pow_lut = true.
Proof. vm_compute. reflexivity. Qed.
Lemma log_lut_descending : descending log_lut = true.
Proof. vm_compute. reflexivity. Qed.
Lemma pow_lut_descending : descending pow_lut = true.
Proof. vm_compute. reflexivity. Qed.

(** ** The largest step *)

(** One minus the average share of marks, after a share [c] and an average of at most 65535. *)
Definition least_rest (c : Z) : Z := 65536 - (62259 * 65535 + 3276 * c) / 65536.

(** Shares between [c0] and [c1]: both tables are largest at an end. *)
Definition range_ok (c0 c1 : Z) : bool :=
  match pow_lut !! Z.to_nat c0, log_lut !! Z.to_nat (least_rest c1) with
  | Some gr, Some l => gr * l <=? 2 ^ 32
  | _, _ => false
  end.

Lemma range_ok_entry c0 c1 c i gr l :
  range_ok c0 c1 = true -> 0 <= c0 <= c -> c <= c1 -> 0 <= least_rest c1 <= Z.of_nat i ->
  pow_lut !! Z.to_nat c = Some gr -> log_lut !! i = Some l -> gr * l <= 2 ^ 32.
Proof.
  intros Hr Hc0 Hc1 Hi Hgr Hl. unfold range_ok in Hr.
  destruct (pow_lut !! Z.to_nat c0) as [g0|] eqn:E0; [|done].
  destruct (log_lut !! Z.to_nat (least_rest c1)) as [l1|] eqn:E1; [|done].
  pose proof (descending_entry _ _ _ _ _ pow_lut_descending (proj1 (Z2Nat.inj_le c0 c ltac:(lia) ltac:(lia)) ltac:(lia)) E0 Hgr).
  pose proof (descending_entry log_lut (Z.to_nat (least_rest c1)) i _ _ log_lut_descending ltac:(lia) E1 Hl).
  pose proof (within_entry _ _ _ _ pow_lut_within Hgr). pose proof (within_entry _ _ _ _ log_lut_within Hl). nia.
Qed.

Lemma ranges_ok : range_ok 0 32466 && range_ok 32466 65214 && range_ok 65214 65536 = true.
Proof. vm_compute. reflexivity. Qed.

(** For every share of marks [c] and every average [f], the product of the growth and of the logarithm of
    what the new average leaves is at most 1, as a 32-bit fraction. *)
Lemma step_bound c f (counted : bool) gr l :
  0 <= c <= 65536 -> 0 <= f < 65536 -> pow_lut !! Z.to_nat c = Some gr ->
  log_lut !! Z.to_nat (65536 - (62259 * f + (if counted then 3276 * c else 0)) / 65536) = Some l ->
  gr * l <= 2 ^ 32.
Proof.
  intros Hc Hf Hgr Hl. set (i := Z.to_nat _) in Hl.
  assert (forall c1, c <= c1 <= 65536 -> 0 <= least_rest c1 <= Z.of_nat i) as Hi.
  { intros c1 Hc1. unfold least_rest. subst i.
    assert ((62259 * f + (if counted then 3276 * c else 0)) / 65536 <= (62259 * 65535 + 3276 * c1) / 65536)
      by (apply Z.div_le_mono; [lia|destruct counted; lia]).
    assert ((62259 * 65535 + 3276 * c1) / 65536 <= 65536) by (apply Z.div_le_upper_bound; lia). lia. }
  pose proof ranges_ok as [[H1 H2]%andb_prop H3]%andb_prop.
  destruct (Z.le_gt_cases c 32466); [by apply (range_ok_entry 0 32466 c i gr l); auto with lia|].
  destruct (Z.le_gt_cases c 65214); [by apply (range_ok_entry 32466 65214 c i gr l); auto with lia|].
  by apply (range_ok_entry 65214 65536 c i gr l); auto with lia.
Qed.
