(* ===== verification/LgcDtcp.v ===== *)
(** * The LGC-ShQ policy set of DTCP

    [src/plugins/lgc-shq/dtcp-ps-lgcshq.c]: the receiver counts the congestion marks of
    the PDUs it takes, and once per observation window computes a new sending rate from
    the share of marked ones (logistic growth congestion control), and from the rate the
    credit it advertises.

    The two tables of [tcp_lgc_lut.c] are arguments of the section, with what their
    declaration says of them (65537 entries) as the hypotheses [log_lut_ok] and
    [pow_lut_ok]: the theorems of this file hold for any contents.  [LgcLut.v] holds the tables of
    the source, and [LgcLaw.v] what the control law does with them.  The conversion of a string to an
    integer is a function of Linux, and also an argument.  A division by zero and a read
    outside of a table are faults. *)

From S2P Require Import Prelude Kucommon Pci Rds Queues EfcpState Policies LgcLut.
From Stdlib Require Import ZArith Lia String.
From stdpp Require Import base list numbers option.
#[local] Open Scope Z_scope.
#[local] Open Scope efcp_scope.

(** [do_div] of Linux: a 64-bit dividend and a divisor cut to 32 bits. *)
Definition do_div (n base : Z) : option Z :=
  if u32 base =? 0 then None else Some (n / u32 base).

(** ** Constants *)

Definition LGCSHQ_ALPHA : Z := Z.shiftl 5 16 / 100.
Definition ONE : Z := Z.shiftl 1 16.
Definition ALMOST_ONE : Z := Z.shiftl 999 16 / 1000.
Definition ONE_MINUS_ALPHA : Z := Z.shiftl 95 16 / 100.
Definition DEFAULT_LGC_MAX_RATE : Z := 100.
Definition DEFAULT_THRESH : Z := Z.shiftl 8 16 / 10.
Definition DEFAULT_MIN_RTT : Z := 10000.
Definition DEFAULT_PACKET_SIZE : Z := 1484.

Record lgcshq_dtcp_ps_data := mk_lgc {
  init_credit : Z;
  sshtresh : Z;
  samples_received : Z;
  ecn_received : Z;
  obs_window_size : Z;
  lgc_max_rate : Z;
  ecn_bits : Z;
  s_max_rate64 : Z;
  s_cur_rate64 : Z;
  max_rate32 : Z;
  rate_thresh : Z;
  min_RTT : Z;
  fraction : Z
}.

Implicit Types d : lgcshq_dtcp_ps_data.

Definition set_samples (s e : Z) d : lgcshq_dtcp_ps_data :=
  mk_lgc d.(init_credit) d.(sshtresh) s e d.(obs_window_size) d.(lgc_max_rate) d.(ecn_bits)
    d.(s_max_rate64) d.(s_cur_rate64) d.(max_rate32) d.(rate_thresh) d.(min_RTT) d.(fraction).
Definition set_obs_window_size (v : Z) d : lgcshq_dtcp_ps_data :=
  mk_lgc d.(init_credit) d.(sshtresh) d.(samples_received) d.(ecn_received) v d.(lgc_max_rate)
    d.(ecn_bits) d.(s_max_rate64) d.(s_cur_rate64) d.(max_rate32) d.(rate_thresh) d.(min_RTT)
    d.(fraction).
Definition set_rate_fraction (r f : Z) d : lgcshq_dtcp_ps_data :=
  mk_lgc d.(init_credit) d.(sshtresh) d.(samples_received) d.(ecn_received) d.(obs_window_size)
    d.(lgc_max_rate) d.(ecn_bits) d.(s_max_rate64) r d.(max_rate32) d.(rate_thresh) d.(min_RTT) f.
Definition set_params (mr th rtt eb : Z) d : lgcshq_dtcp_ps_data :=
  mk_lgc d.(init_credit) d.(sshtresh) d.(samples_received) d.(ecn_received) d.(obs_window_size)
    mr eb d.(s_max_rate64) d.(s_cur_rate64) d.(max_rate32) th rtt d.(fraction).

Section Lgc.
Context (log_lut pow_lut : list Z).
Context (kstrtoint kstrtouint : cstring -> option Z).

Definition lgc_log_lut_lookup (f : Z) : option Z :=
  if f <? LGC_LUT_SIZE then log_lut !! Z.to_nat f else Some 0.

Definition lgc_pow_lut_lookup (f : Z) : option Z := pow_lut !! Z.to_nat f.

(** ** The control law *)

(** The share of marked samples, scaled by 16 bits. *)
Definition delivered_ce d : Z := u32 (Z.shiftl d.(ecn_received) 16) / Z.max d.(samples_received) 1.

Definition new_fraction d : Z :=
  let ce := delivered_ce d in
  let f := if d.(rate_thresh) <=? ce
           then u32 (u32 (ONE_MINUS_ALPHA * d.(fraction)) + u32 (LGCSHQ_ALPHA * ce))
           else u32 (ONE_MINUS_ALPHA * d.(fraction)) in
  let f := Z.shiftr f 16 in
  if ONE <=? f then ALMOST_ONE else f.

(** The new rate before it is limited, from the old one, the growth [gr] and the
    gradient.  The products are taken in 64 bits; the kernel is compiled so that a signed
    overflow wraps. *)
Definition raw_rate (rate64 gr gradient : Z) : Z :=
  let g := s64 (gr * rate64) in
  let g := Z.shiftr g 16 in
  let g := s64 (g * gradient) in
  Z.shiftr (u64 (u64 (Z.shiftl rate64 16) + g)) 16.

Definition limited_rate (rate64 new_rate64 : Z) : Z :=
  if u64 (Z.shiftl rate64 1) <? new_rate64 then u64 (Z.shiftl rate64 1)
  else if new_rate64 =? 0 then 65536
  else new_rate64.

Definition lgc_update_rate d : option lgcshq_dtcp_ps_data :=
  let rate64 := d.(s_cur_rate64) in
  let ce := delivered_ce d in
  let f := new_fraction d in
  tmp_rate64 ← do_div rate64 d.(max_rate32);
  first_term ← lgc_log_lut_lookup (u32 tmp_rate64);
  second_term ← lgc_log_lut_lookup (u32 (ONE - f));
  let gradient := s32 (first_term - second_term) in
  gr ← lgc_pow_lut_lookup ce;
  let rate64 := limited_rate rate64 (raw_rate rate64 gr gradient) in
  let rate64 := if d.(s_max_rate64) <? rate64 then d.(s_max_rate64) else rate64 in
  Some (set_rate_fraction rate64 f d).

(** The window, and the rate that goes with it. *)
Definition window_of_rate (rate rtt : Z) : Z :=
  let target64 := Z.shiftr (u64 (rate * rtt)) 16 / (DEFAULT_PACKET_SIZE * 1000) in
  Z.max (u32 (u32 target64 + 1)) 10.

Definition rate_of_window (cwnd rtt : Z) : option Z :=
  do_div (u64 (Z.shiftl (u32 (cwnd * DEFAULT_PACKET_SIZE * 1000)) 16)) rtt.

Definition lgc_set_cwnd d : option (lgcshq_dtcp_ps_data * Z) :=
  let cwnd := window_of_rate d.(s_cur_rate64) d.(min_RTT) in
  target64 ← rate_of_window cwnd d.(min_RTT);
  Some (set_rate_fraction target64 d.(fraction) d, cwnd).

Definition lgc_init_rate d : option Z := rate_of_window d.(init_credit) d.(min_RTT).

(** ** The policies *)

(** One of the seven tests of the flags: [k] is the number of ECN bits it needs. *)
Definition count_ecn (pci_flags : Z) (k bit : Z) d : lgcshq_dtcp_ps_data :=
  if k <=? d.(ecn_bits) then
    set_samples (u32 (d.(samples_received) + 1))
      (if negb (Z.land pci_flags bit =? 0) then u32 (d.(ecn_received) + 1) else d.(ecn_received)) d
  else d.

Definition count_flags (pci_flags : Z) d : lgcshq_dtcp_ps_data :=
  let d := count_ecn pci_flags 1 0x01 d in
  let d := count_ecn pci_flags 2 0x02 d in
  let d := count_ecn pci_flags 3 0x04 d in
  let d := count_ecn pci_flags 4 0x08 d in
  let d := count_ecn pci_flags 5 0x10 d in
  let d := count_ecn pci_flags 6 0x20 d in
  count_ecn pci_flags 7 0x40 d.

(** The end of an observation window. *)
Definition end_window d : option (lgcshq_dtcp_ps_data * Z) :=
  d ← lgc_update_rate d;
  '(d, cwnd) ← lgc_set_cwnd d;
  Some (set_obs_window_size cwnd (set_samples 0 0 d), cwnd).

Definition lgcshq_rcvr_flow_control d (pci : pdu) : M (Z * lgcshq_dtcp_ps_data) :=
  let d := count_flags (pci.(attr) A_FLAGS) d in
  let! d :=
    (if d.(obs_window_size) <=? d.(samples_received) then
       match end_window d with
       | None => fault
       | Some (d, cwnd) => mod_csv (set_rcvr_credit cwnd) ;;; ret d
       end
     else ret d) in
  let! sv := get_sv in
  mod_csv (fun c =>
    let edge := u32 (sv.(rcv_left_window_edge) + c.(rcvr_credit)) in
    if c.(rcvr_rt_wind_edge) <? edge then set_rcvr_rt_wind_edge edge c else c) ;;;
  ret (0, d).

(** Parameters: each name is compared in turn, and a value that does not parse is
    ignored. *)
Definition parsed (r : option Z) (old : Z) (f : Z -> Z) : Z :=
  match r with Some v => f v | None => old end.

Definition dtcp_ps_set_policy_set_param d (name value : string_ptr) : Z * lgcshq_dtcp_ps_data :=
  match name, value with
  | Some name, Some value =>
      let named s := strcmp_eq name (c_str s) in
      let mr := if named "lgc_max_rate"%string then parsed (kstrtoint value) d.(lgc_max_rate) u32
                else d.(lgc_max_rate) in
      let th := if named "rate_thresh"%string then parsed (kstrtoint value) d.(rate_thresh) u32
                else d.(rate_thresh) in
      let rtt := if named "min_RTT"%string then parsed (kstrtoint value) d.(min_RTT) (fun v => u32 (v * 1010))
                 else d.(min_RTT) in
      let eb := if named "ecn_bits"%string
                then parsed (kstrtouint value) d.(ecn_bits)
                       (fun v => let ival := s32 v in
                          if (0 <? ival) && (ival <? 8) then ival else d.(ecn_bits))
                else d.(ecn_bits) in
      (0, set_params mr th rtt eb d)
  | _, _ => (-1, d)
  end.

Definition dtcp_ps_lgcshq_load_param d (cfg : option dtcp_config) (param_name : string)
  : option (Z * lgcshq_dtcp_ps_data) :=
  ps_param ← match cfg with
             | Some cfg => policy_param_find cfg.(dc_dtcp_ps) (Some (c_str param_name))
             | None => Some None
             end;
  match ps_param with
  | None => Some (0, d)
  | Some p => Some (0, snd (dtcp_ps_set_policy_set_param d (policy_param_name (Some p))
                              (policy_param_value (Some p))))
  end.

(** The data before the parameters of the configuration are loaded. *)
Definition default_data : lgcshq_dtcp_ps_data :=
  mk_lgc 10 0xFFFFFFFF 0 0 10 DEFAULT_LGC_MAX_RATE 1 0 0 0 DEFAULT_THRESH DEFAULT_MIN_RTT 0.

(** The rates, once the parameters are known. *)
Definition derive_rates d : option lgcshq_dtcp_ps_data :=
  let mr := u32 (d.(lgc_max_rate) * 125) in
  r ← lgc_init_rate d;
  Some (mk_lgc d.(init_credit) d.(sshtresh) d.(samples_received) d.(ecn_received) d.(obs_window_size)
          d.(lgc_max_rate) d.(ecn_bits) (u64 (Z.shiftl mr 16)) r mr d.(rate_thresh) d.(min_RTT) 0).

Definition load_params (cfg : option dtcp_config) d : option lgcshq_dtcp_ps_data :=
  '(_, d) ← dtcp_ps_lgcshq_load_param d cfg "lgc_max_rate";
  '(_, d) ← dtcp_ps_lgcshq_load_param d cfg "rate_thresh";
  '(_, d) ← dtcp_ps_lgcshq_load_param d cfg "min_RTT";
  '(_, d) ← dtcp_ps_lgcshq_load_param d cfg "ecn_bits";
  Some d.

(** Two allocations; the credit of the connection is set before the parameters are
    read. *)
Definition dtcp_ps_lgcshq_create : M (option lgcshq_dtcp_ps_data) :=
  let! ps := ask in
  let! data := ask in
  let! dtp := get_dtp in
  match dtp.(dtp_dtcp) with
  | None => ret None
  | Some c =>
      if negb ps || negb data then ret None
      else
        mod_csv (set_rcvr_credit default_data.(init_credit)) ;;;
        match d ← load_params (Some c.(dtcp_cfg)) default_data; derive_rates d with
        | None => fault
        | Some d => ret (Some d)
        end
  end.
End Lgc.

(** ** Invariant *)

Record lgc_ok d : Prop := {
  ok_ecn : 0 <= d.(ecn_received) <= d.(samples_received);
  ok_samples : d.(samples_received) < d.(obs_window_size);
  ok_window : d.(obs_window_size) <= 2 ^ 28;
  ok_fraction : 0 <= d.(fraction) < ONE;
  ok_rtt : 0 < d.(min_RTT) < 2 ^ 32;
  ok_max_rate : 0 < d.(max_rate32) < 2 ^ 32;
  ok_s_max_rate : d.(s_max_rate64) = d.(max_rate32) * 65536;
  ok_rate : in_u 64 d.(s_cur_rate64)
}.

(** The bandwidth-delay product in packets, and one more; at least the initial window. *)
Definition window_cap d : Z := Z.max 10 (d.(max_rate32) * d.(min_RTT) / 1484000 + 1).

Lemma delivered_ce_range d :
  0 <= d.(ecn_received) <= d.(samples_received) -> 0 <= delivered_ce d <= 65536.
Proof.
  intros He. unfold delivered_ce. rewrite Z.shiftl_mul_pow2 by lia. unfold uwrap.
  change (2 ^ 16) with 65536. change (2 ^ 32) with 4294967296.
  pose proof (Z.mod_pos_bound (ecn_received d * 65536) 4294967296 ltac:(lia)) as Hm.
  split; [apply Z.div_pos; lia|].
  apply Z.div_le_upper_bound; [lia|].
  destruct (Z.lt_ge_cases (ecn_received d) 65536) as [H|H]; [rewrite Z.mod_small by lia|]; lia.
Qed.

(** The share of marks is an exponential average; the limit to [ALMOST_ONE] is never used. *)
Lemma new_fraction_exact d :
  0 <= d.(ecn_received) <= d.(samples_received) -> 0 <= d.(fraction) < ONE ->
  new_fraction d =
    (62259 * d.(fraction) + (if d.(rate_thresh) <=? delivered_ce d then 3276 * delivered_ce d else 0)) / 65536 /\
  0 <= new_fraction d < ONE.
Proof.
  intros He Hf. pose proof (delivered_ce_range d He) as Hc. change ONE with 65536 in *.
  assert (forall x, 0 <= x < 4294967296 -> Z.shiftr (u32 x) 16 = x / 65536 /\ 0 <= x / 65536 < 65536) as Hs.
  { intros x Hx. unfold uwrap. change (2 ^ 32) with 4294967296.
    rewrite Z.mod_small, Z.shiftr_div_pow2 by lia. change (2 ^ 16) with 65536.
    split; [done|]. split; [apply Z.div_pos; lia|apply Z.div_lt_upper_bound; lia]. }
  unfold new_fraction. cbv zeta. change ONE_MINUS_ALPHA with 62259. change LGCSHQ_ALPHA with 3276.
  set (x := 62259 * fraction d + (if rate_thresh d <=? delivered_ce d then 3276 * delivered_ce d else 0)).
  assert (0 <= x < 4294967296) as Hx by (subst x; destruct (_ <=? _); lia).
  replace (if rate_thresh d <=? delivered_ce d then _ else u32 (62259 * fraction d)) with (u32 x).
  - destruct (Hs x Hx) as [E Hr]. rewrite E, (proj2 (Z.leb_gt ONE (x / 65536))) by (change ONE with 65536; lia).
    done.
  - subst x. destruct (_ <=? _); [|by rewrite Z.add_0_r].
    unfold uwrap. change (2 ^ 32) with 4294967296.
    by rewrite (Z.mod_small (62259 * _)), (Z.mod_small (3276 * _)) by lia.
Qed.

Lemma do_div_pos n b : 0 < b < 2 ^ 32 -> do_div n b = Some (n / b).
Proof.
  intros Hb. unfold do_div, uwrap. rewrite Z.mod_small by lia.
  by rewrite (proj2 (Z.eqb_neq b 0)) by lia.
Qed.

Lemma limited_rate_range rate new : in_u 64 new -> in_u 64 (limited_rate rate new).
Proof.
  unfold limited_rate, in_u, uwrap. intros Hn.
  pose proof (Z.mod_pos_bound (Z.shiftl rate 1) (2 ^ 64) ltac:(lia)).
  destruct (Z.ltb_spec ((Z.shiftl rate 1) mod 2 ^ 64) new); [done|].
  destruct (Z.eqb_spec new 0); lia.
Qed.

Lemma raw_rate_range rate gr g : in_u 64 (raw_rate rate gr g).
Proof.
  unfold raw_rate, in_u, uwrap. rewrite (Z.shiftr_div_pow2 _ 16) by lia.
  match goal with |- context [?x mod 2 ^ 64 / _] => pose proof (Z.mod_pos_bound x (2 ^ 64) ltac:(lia)) end.
  split; [apply Z.div_pos; lia|]. apply Z.div_lt_upper_bound; lia.
Qed.

Lemma u32_succ x : 0 <= x < 2 ^ 28 -> u32 (u32 x + 1) = x + 1.
Proof. intros Hx. rewrite !uwrap_small; unfold in_u; rewrite ?uwrap_small; unfold in_u; lia. Qed.

Lemma window_of_rate_range rate rtt : 10 <= window_of_rate rate rtt <= 2 ^ 28.
Proof.
  unfold window_of_rate. change (DEFAULT_PACKET_SIZE * 1000) with 1484000.
  split; [lia|]. apply Z.max_lub; [|lia].
  unfold uwrap at 3. rewrite (Z.shiftr_div_pow2 _ 16) by lia.
  pose proof (Z.mod_pos_bound (rate * rtt) (2 ^ 64) ltac:(lia)) as Hm.
  assert (0 <= (rate * rtt) mod 2 ^ 64 / 2 ^ 16 < 2 ^ 48) as H1.
  { split; [apply Z.div_pos; lia|apply Z.div_lt_upper_bound; lia]. }
  assert (0 <= (rate * rtt) mod 2 ^ 64 / 2 ^ 16 / 1484000 < 2 ^ 28 - 1) as H2.
  { split; [apply Z.div_pos; lia|apply Z.div_lt_upper_bound; lia]. }
  rewrite u32_succ; lia.
Qed.

(** A rate below the link rate asks for no more than the bandwidth-delay product. *)
Lemma window_of_rate_cap rate mr rtt :
  0 <= rate <= mr * 65536 -> 0 < rtt -> 0 < mr -> mr * rtt < 2 ^ 48 ->
  window_of_rate rate rtt <= Z.max 10 (mr * rtt / 1484000 + 1).
Proof.
  intros Hr Ht Hm Hb. unfold window_of_rate. change (DEFAULT_PACKET_SIZE * 1000) with 1484000.
  rewrite (Z.shiftr_div_pow2 _ 16) by lia. change (2 ^ 16) with 65536.
  assert (0 <= rate * rtt <= mr * rtt * 65536) by nia.
  rewrite (uwrap_small 64) by (unfold in_u; lia).
  assert (0 <= rate * rtt / 65536 <= mr * rtt) as H1.
  { split; [apply Z.div_pos; lia|apply Z.div_le_upper_bound; lia]. }
  assert (0 <= rate * rtt / 65536 / 1484000 <= mr * rtt / 1484000) as H2.
  { split; [apply Z.div_pos; lia|apply Z.div_le_mono; lia]. }
  assert (mr * rtt / 1484000 < 2 ^ 28) by (apply Z.div_lt_upper_bound; lia).
  rewrite u32_succ; lia.
Qed.

(** ** Counting *)

(** [d'] is [d] after at most [n] more samples. *)
Definition counted (n : Z) d d' : Prop :=
  exists s e, d' = set_samples s e d /\ 0 <= e <= s /\ d.(samples_received) <= s <= d.(samples_received) + n.

Lemma count_ecn_counted fl k bit n d d' :
  0 <= d.(samples_received) -> d.(samples_received) + n + 1 < 2 ^ 32 ->
  counted n d d' -> counted (n + 1) d (count_ecn fl k bit d').
Proof.
  intros H0 Hb (s & e & -> & He & Hs). unfold count_ecn.
  destruct (k <=? _); [|exists s, e; repeat split; lia].
  cbn [samples_received ecn_received set_samples].
  rewrite (uwrap_small 32 (s + 1)) by (unfold in_u; lia).
  rewrite (uwrap_small 32 (e + 1)) by (unfold in_u; lia).
  destruct (negb _); [exists (s + 1), (e + 1)|exists (s + 1), e]; repeat split; lia.
Qed.

Lemma count_flags_counted fl d :
  0 <= d.(ecn_received) <= d.(samples_received) -> d.(samples_received) <= 2 ^ 28 ->
  counted 7 d (count_flags fl d).
Proof.
  intros He Hs. unfold count_flags.
  change 7 with (0 + 1 + 1 + 1 + 1 + 1 + 1 + 1).
  do 7 (apply count_ecn_counted; [lia|lia|]).
  exists d.(samples_received), d.(ecn_received). destruct d; repeat split; cbn in *; lia.
Qed.

(** The connection after a call of the policy. *)
Definition with_csv (c : dtcp) (sv : dtcp_sv) (s : st) : st :=
  set_st_dtp (set_dtp_dtcp (Some (set_dtcp_sv_of sv c)) s.(st_dtp)) s.

(** The right edge moves to the left edge plus the credit, forwards only. *)
Lemma move_edge_run {A} (x : A) (c : dtcp) (sv0 : dtcp_sv) (s : st) :
  (let! sv := get_sv in
   mod_csv (fun c =>
     let edge := u32 (sv.(rcv_left_window_edge) + c.(rcvr_credit)) in
     if c.(rcvr_rt_wind_edge) <? edge then set_rcvr_rt_wind_edge edge c else c) ;;;
   ret x) (with_csv c sv0 s) =
  Some (x, with_csv c (set_rcvr_rt_wind_edge
    (Z.max sv0.(rcvr_rt_wind_edge) (u32 (s.(st_dtp).(dtp_sv_of).(rcv_left_window_edge) + sv0.(rcvr_credit)))) sv0) s).
Proof.
  destruct s as [dt0 o l], dt0 as [? ? ? ? ? sv ? ? ? ? ?], c, sv0.
  unfold bind, mod_csv, mod_dtcp, get_sv, gets, ret. cbn. unfold with_csv. cbn.
  match goal with |- context [?a <? ?b] => destruct (Z.ltb_spec a b) end;
    [rewrite Z.max_r by lia|rewrite Z.max_l by lia]; reflexivity.
Qed.

Lemma with_csv_id (c : dtcp) (s : st) :
  s.(st_dtp).(dtp_dtcp) = Some c -> with_csv c c.(dtcp_sv_of) s = s.
Proof. destruct s as [dt0 o l], dt0, c. cbn. intros ->. reflexivity. Qed.

Lemma raw_rate_exact rate gr g :
  0 <= rate < 2 ^ 44 -> 0 <= gr <= 65536 -> - 2 ^ 19 <= g <= 2 ^ 19 ->
  0 <= rate * 65536 + gr * rate / 65536 * g ->
  raw_rate rate gr g = rate + gr * rate / 65536 * g / 65536.
Proof.
  intros Hr Hg Hgr Hpos. unfold raw_rate.
  assert (0 <= gr * rate / 65536 <= rate) as Ht.
  { split; [apply Z.div_pos; nia|apply Z.div_le_upper_bound; nia]. }
  rewrite (swrap_small 64 (gr * rate)) by (unfold in_s; nia).
  rewrite (Z.shiftr_div_pow2 (gr * rate) 16) by lia. change (2 ^ 16) with 65536.
  set (t := gr * rate / 65536) in *.
  rewrite (swrap_small 64 (t * g)) by (unfold in_s; nia).
  rewrite Z.shiftl_mul_pow2 by lia. change (2 ^ 16) with 65536.
  rewrite (uwrap_small 64 (rate * 65536)) by (unfold in_u; lia).
  rewrite (uwrap_small 64) by (unfold in_u; nia).
  rewrite Z.shiftr_div_pow2 by lia. change (2 ^ 16) with 65536.
  by rewrite Z.div_add_l by lia.
Qed.

Lemma limited_rate_spec rate new :
  0 <= rate < 2 ^ 44 ->
  limited_rate rate new = if 2 * rate <? new then 2 * rate else if new =? 0 then 65536 else new.
Proof.
  intros Hr. unfold limited_rate. rewrite Z.shiftl_mul_pow2 by lia. change (2 ^ 1) with 2.
  rewrite uwrap_small by (unfold in_u; lia). by rewrite (Z.mul_comm rate 2).
Qed.

Section Facts.
Context (log_lut pow_lut : list Z).
Context (log_lut_ok : Z.of_nat (length log_lut) = LGC_LUT_SIZE).
Context (pow_lut_ok : Z.of_nat (length pow_lut) = LGC_LUT_SIZE).

Lemma lut_in_range (l : list Z) i :
  Z.of_nat (length l) = LGC_LUT_SIZE -> 0 <= i < LGC_LUT_SIZE -> is_Some (l !! Z.to_nat i).
Proof. intros Hl Hi. apply lookup_lt_is_Some. lia. Qed.

Lemma log_lookup_total f : 0 <= f -> is_Some (lgc_log_lut_lookup log_lut f).
Proof.
  intros Hf. unfold lgc_log_lut_lookup. destruct (Z.ltb_spec f LGC_LUT_SIZE); [|by eexists].
  by apply lut_in_range.
Qed.

(** What one update of the rate changes. *)
Lemma lgc_update_rate_spec d :
  0 <= d.(ecn_received) <= d.(samples_received) -> 0 <= d.(fraction) < ONE ->
  0 < d.(max_rate32) < 2 ^ 32 ->
  exists first second gr,
    lgc_log_lut_lookup log_lut (u32 (d.(s_cur_rate64) / d.(max_rate32))) = Some first /\
    lgc_log_lut_lookup log_lut (ONE - new_fraction d) = Some second /\
    lgc_pow_lut_lookup pow_lut (delivered_ce d) = Some gr /\
    lgc_update_rate log_lut pow_lut d = Some (set_rate_fraction
      (Z.min (limited_rate d.(s_cur_rate64) (raw_rate d.(s_cur_rate64) gr (s32 (first - second))))
         d.(s_max_rate64)) (new_fraction d) d).
Proof.
  intros He Hf Hm. destruct (new_fraction_exact d He Hf) as [_ Hn].
  pose proof (delivered_ce_range d He) as Hc.
  destruct (log_lookup_total (u32 (d.(s_cur_rate64) / d.(max_rate32)))) as [first E1].
  { unfold uwrap. apply Z.mod_pos_bound. lia. }
  destruct (log_lookup_total (ONE - new_fraction d)) as [second E2]; [lia|].
  destruct (lut_in_range pow_lut (delivered_ce d) pow_lut_ok) as [gr E3]; [unfold LGC_LUT_SIZE; lia|].
  exists first, second, gr. do 3 (split; [assumption|]).
  unfold lgc_update_rate. rewrite do_div_pos by done. cbn [mbind option_bind].
  rewrite E1. cbn [mbind option_bind].
  replace (u32 (ONE - new_fraction d)) with (ONE - new_fraction d)
    by (unfold uwrap; rewrite Z.mod_small; change ONE with 65536 in *; lia).
  rewrite E2. cbn [mbind option_bind]. unfold lgc_pow_lut_lookup in *. rewrite E3. cbn [mbind option_bind].
  do 2 f_equal. match goal with |- (if ?a <? ?b then _ else _) = _ => destruct (Z.ltb_spec a b) end; lia.
Qed.

(** ** The end of a window *)

Lemma end_window_spec d :
  0 <= d.(ecn_received) <= d.(samples_received) -> 0 <= d.(fraction) < ONE ->
  0 < d.(min_RTT) < 2 ^ 32 -> 0 < d.(max_rate32) < 2 ^ 32 ->
  d.(s_max_rate64) = d.(max_rate32) * 65536 ->
  exists d' cwnd, end_window log_lut pow_lut d = Some (d', cwnd) /\ lgc_ok d' /\
    d'.(obs_window_size) = cwnd /\ d'.(max_rate32) = d.(max_rate32) /\ d'.(min_RTT) = d.(min_RTT) /\
    10 <= cwnd /\ (d.(max_rate32) * d.(min_RTT) < 2 ^ 48 -> cwnd <= window_cap d).
Proof.
  intros He Hf Ht Hm Hmax. destruct (new_fraction_exact d He Hf) as [_ Hn].
  destruct (lgc_update_rate_spec d He Hf Hm) as (first & second & gr & _ & _ & _ & E).
  unfold end_window. rewrite E. cbn [mbind option_bind].
  set (r := Z.min _ (s_max_rate64 d)).
  assert (0 <= r <= d.(max_rate32) * 65536) as Hr.
  { pose proof (limited_rate_range (s_cur_rate64 d) _ (raw_rate_range (s_cur_rate64 d) gr (s32 (first - second)))) as [H0 _].
    subst r. lia. }
  unfold lgc_set_cwnd. cbn [s_cur_rate64 min_RTT set_rate_fraction].
  unfold rate_of_window. rewrite do_div_pos by done. cbn [mbind option_bind].
  pose proof (window_of_rate_range r d.(min_RTT)) as Hw.
  eexists _, _. split; [reflexivity|].
  cbn [obs_window_size set_obs_window_size set_samples set_rate_fraction max_rate32 min_RTT].
  repeat split; cbn [obs_window_size set_obs_window_size set_samples set_rate_fraction max_rate32
    min_RTT ecn_received samples_received fraction s_cur_rate64 s_max_rate64]; try lia.
  - apply Z.div_pos; [apply Z.mod_pos_bound; lia|lia].
  - pose proof (uwrap_range 64 (Z.shiftl (u32 (window_of_rate r (min_RTT d) * DEFAULT_PACKET_SIZE * 1000)) 16)
      ltac:(lia)) as Hu. unfold in_u in Hu. apply Z.div_lt_upper_bound; [lia|]. nia.
  - intros Hb. apply window_of_rate_cap; lia.
Qed.

(** C25: the flow control policy, on every PDU: it does not fault (no division by zero, no
    read outside of the tables), keeps the invariant of its data, and changes nothing of
    the connection but the credit and the right window edge.  The credit stays
    between 10 and the bandwidth-delay product plus one packet; the edge becomes the left
    edge plus the credit, and never moves back. *)
Theorem lgc_flow_control_safe d (pci : pdu) (s : st) (c : dtcp) :
  lgc_ok d -> s.(st_dtp).(dtp_dtcp) = Some c ->
  d.(max_rate32) * d.(min_RTT) < 2 ^ 48 ->
  10 <= c.(dtcp_sv_of).(rcvr_credit) <= window_cap d ->
  exists d' credit,
    lgcshq_rcvr_flow_control log_lut pow_lut d pci s =
      Some ((0, d'),
        with_csv c (set_rcvr_rt_wind_edge
          (Z.max c.(dtcp_sv_of).(rcvr_rt_wind_edge) (u32 (s.(st_dtp).(dtp_sv_of).(rcv_left_window_edge) + credit)))
          (set_rcvr_credit credit c.(dtcp_sv_of))) s) /\
    lgc_ok d' /\ window_cap d' = window_cap d /\ 10 <= credit <= window_cap d.
Proof.
  intros Hok Hc Hb Hcr. pose proof Hok as [He Hs Hw Hf Ht Hm Hx Hr].
  destruct (count_flags_counted (pci.(attr) A_FLAGS) d He ltac:(lia)) as (n & e & Ed & Hen & Hn).
  unfold lgcshq_rcvr_flow_control. rewrite Ed. cbn [obs_window_size samples_received set_samples].
  destruct (Z.leb_spec d.(obs_window_size) n) as [Hge|Hlt].
  - destruct (end_window_spec (set_samples n e d)) as (d' & cwnd & E & Hok' & Ho & H1 & H2 & H3 & H4); try assumption.
    rewrite E. exists d', cwnd.
    assert (window_cap d' = window_cap d) as Hcap by (unfold window_cap; by rewrite H1, H2).
    split; [|split; [done|split; [done|split; [done|by apply H4]]]].
    rewrite <- (with_csv_id c s Hc) at 1. apply (move_edge_run (0, d') c (set_rcvr_credit cwnd (dtcp_sv_of c)) s).
  - exists (set_samples n e d), c.(dtcp_sv_of).(rcvr_credit).
    split; [|split; [constructor; cbn; try lia; done|done]].
    rewrite <- (with_csv_id c s Hc) at 1. unfold bind at 1, ret at 1. rewrite move_edge_run. by destruct (dtcp_sv_of c).
Qed.

(** ** The control law without wrap-around *)

(** The rate before it is limited, in unbounded integers: the old one and the step. *)
Definition law_rate (r gr gradient : Z) : Z := r + gr * r / 65536 * gradient / 65536.

(** The limits: twice the old rate, one byte per millisecond instead of 0, the rate of the link. *)
Definition law_limited (r new max : Z) : Z :=
  Z.min max (if 2 * r <? new then 2 * r else if new =? 0 then 65536 else new).

Lemma lgc_update_rate_exact d first second gr :
  0 <= d.(ecn_received) <= d.(samples_received) -> 0 <= d.(fraction) < ONE ->
  0 < d.(max_rate32) < 2 ^ 32 -> 0 < d.(s_cur_rate64) < 2 ^ 44 ->
  lgc_log_lut_lookup log_lut (u32 (d.(s_cur_rate64) / d.(max_rate32))) = Some first ->
  lgc_log_lut_lookup log_lut (ONE - new_fraction d) = Some second ->
  lgc_pow_lut_lookup pow_lut (delivered_ce d) = Some gr ->
  0 <= first <= 2 ^ 19 -> 0 <= second <= 2 ^ 19 -> 0 <= gr <= 65536 -> gr * second <= 2 ^ 32 ->
  lgc_update_rate log_lut pow_lut d = Some (set_rate_fraction
    (law_limited d.(s_cur_rate64) (law_rate d.(s_cur_rate64) gr (first - second)) d.(s_max_rate64)) (new_fraction d) d) /\
  0 <= law_rate d.(s_cur_rate64) gr (first - second).
Proof.
  intros He Hf Hm Hr E1 E2 E3 H1 H2 Hg Hst. set (r := s_cur_rate64 d) in *.
  destruct (lgc_update_rate_spec d He Hf Hm) as (f' & s' & g' & E1' & E2' & E3' & E).
  fold r in E1', E. rewrite E1 in E1'. rewrite E2 in E2'. rewrite E3 in E3'.
  injection E1' as <-. injection E2' as <-. injection E3' as <-.
  assert (0 <= gr * r / 65536 /\ gr * r / 65536 * 65536 <= gr * r) as [Ht Ht'].
  { split; [apply Z.div_pos; nia|]. rewrite Z.mul_comm. apply Z.mul_div_le. lia. }
  assert (0 <= r * 65536 + gr * r / 65536 * (first - second)) as Hpos.
  { assert (gr * r / 65536 * second <= r * 65536) by nia. nia. }
  rewrite E, (swrap_small 32 (first - second)) by (unfold in_s; lia).
  rewrite limited_rate_spec by lia. rewrite raw_rate_exact by lia. unfold law_limited, law_rate. split.
  - do 2 f_equal. apply Z.min_comm.
  - rewrite <- Z.div_add_l by lia. apply Z.div_pos; lia.
Qed.
End Facts.

(** The rate that goes with a window is [cwnd] packets per round-trip time as long as
    [cwnd] is at most 2894; from 2895 packets on the 32-bit product wraps, and the rate
    is less than that of 2895 packets. *)
Theorem rate_of_window_wraps (cwnd rtt : Z) :
  0 <= cwnd -> 0 < rtt < 2 ^ 32 ->
  exists r, rate_of_window cwnd rtt = Some r /\
    (cwnd <= 2894 -> r = cwnd * 1484000 * 65536 / rtt) /\
    (2895 <= cwnd -> r <= 2895 * 1484000 * 65536 / rtt).
Proof.
  intros Hc Ht. unfold rate_of_window. rewrite do_div_pos by done. eexists. split; [reflexivity|].
  replace (cwnd * DEFAULT_PACKET_SIZE * 1000) with (cwnd * 1484000) by (unfold DEFAULT_PACKET_SIZE; lia).
  pose proof (uwrap_range 32 (cwnd * 1484000) ltac:(lia)) as Hu. unfold in_u in Hu.
  rewrite Z.shiftl_mul_pow2 by lia. change (2 ^ 16) with 65536.
  rewrite (uwrap_small 64) by (unfold in_u; lia). split.
  - intros Hle. by rewrite uwrap_small by (unfold in_u; lia).
  - intros _. apply Z.div_le_mono; lia.
Qed.

(** ** Creation *)

(** What loading a parameter keeps. *)
Definition fresh d : Prop :=
  d.(init_credit) = 10 /\ d.(samples_received) = 0 /\ d.(ecn_received) = 0 /\
  d.(obs_window_size) = 10 /\ in_u 32 d.(min_RTT).

Section Create.
Context (kstrtoint kstrtouint : cstring -> option Z).

Lemma set_param_fresh d name value :
  fresh d -> fresh (snd (dtcp_ps_set_policy_set_param kstrtoint kstrtouint d name value)).
Proof.
  intros (Hi & Hs & He & Ho & Ht). unfold dtcp_ps_set_policy_set_param.
  destruct name as [name|], value as [value|]; try done. cbn [snd]. repeat split; try done.
  all: cbn [min_RTT set_params]; destruct (strcmp_eq _ _); [|apply Ht]; unfold parsed;
    destruct (kstrtoint value); [|apply Ht]; apply (uwrap_range 32); lia.
Qed.

Lemma load_param_fresh d cfg name r d' :
  dtcp_ps_lgcshq_load_param kstrtoint kstrtouint d cfg name = Some (r, d') -> fresh d -> fresh d'.
Proof.
  unfold dtcp_ps_lgcshq_load_param. intros E Hd.
  destruct (match cfg with Some _ => _ | None => _ end) as [[p|]|]; cbn [mbind option_bind] in E; simplify_eq;
    [by apply set_param_fresh|done].
Qed.

Lemma load_params_fresh cfg d d' :
  load_params kstrtoint kstrtouint cfg d = Some d' -> fresh d -> fresh d'.
Proof.
  unfold load_params. intros E Hd.
  destruct (dtcp_ps_lgcshq_load_param _ _ d _ _) as [[? d1]|] eqn:E1; [|done]. cbn in E.
  destruct (dtcp_ps_lgcshq_load_param _ _ d1 _ _) as [[? d2]|] eqn:E2; [|done]. cbn in E.
  destruct (dtcp_ps_lgcshq_load_param _ _ d2 _ _) as [[? d3]|] eqn:E3; [|done]. cbn in E.
  destruct (dtcp_ps_lgcshq_load_param _ _ d3 _ _) as [[? d4]|] eqn:E4; [|done]. cbn in E.
  simplify_eq. eauto using load_param_fresh.
Qed.

(** A policy set created for a link with a rate - whatever parameters the configuration
    gives, as long as the maximum rate is not 0 modulo 2^32 bytes per millisecond -
    starts in the invariant, with a credit of 10 PDUs: creation faults, rather
    than return a policy set, when the round-trip time is 0. *)
Theorem lgc_create_establishes (s s' : st) d :
  dtcp_ps_lgcshq_create kstrtoint kstrtouint s = Some (Some d, s') -> d.(max_rate32) <> 0 ->
  lgc_ok d /\ exists c, s'.(st_dtp).(dtp_dtcp) = Some c /\ c.(dtcp_sv_of).(rcvr_credit) = 10.
Proof.
  intros E Hm. unfold dtcp_ps_lgcshq_create, ask, get_dtp, gets, bind, ret in E.
  destruct (rkmalloc (st_oracle s)) as [b1 o1]. cbn [st_oracle set_st_oracle] in E.
  destruct (rkmalloc o1) as [b2 o2]. cbn [st_dtp set_st_oracle] in E.
  destruct (dtp_dtcp (st_dtp s)) as [c|] eqn:Ec; [|simplify_eq].
  destruct (negb b1 || negb b2); [simplify_eq|].
  unfold mod_csv, mod_dtcp in E. cbn [st_dtp set_st_oracle] in E. rewrite Ec in E.
  destruct (load_params _ _ _ default_data) as [d1|] eqn:El; [|done]. cbn [mbind option_bind] in E.
  assert (fresh d1) as (Hi & Hs & He & Ho & Ht) by (apply (load_params_fresh _ _ _ El); done).
  unfold derive_rates, lgc_init_rate, rate_of_window, do_div in E.
  rewrite (uwrap_small 32 (min_RTT d1) Ht) in E.
  destruct (Z.eqb_spec (min_RTT d1) 0) as [|Hr]; [done|]. cbn [mbind option_bind] in E. simplify_eq.
  unfold in_u in Ht. split; [|eexists; split; reflexivity].
  pose proof (uwrap_range 32 (lgc_max_rate d1 * 125) ltac:(lia)) as Hmr. unfold in_u in Hmr.
  cbn [max_rate32] in Hm.
  constructor; cbn [ecn_received samples_received obs_window_size fraction min_RTT max_rate32 s_max_rate64 s_cur_rate64];
    rewrite ?Hs, ?He, ?Ho; try lia; try done.
  - rewrite Z.shiftl_mul_pow2 by lia. apply uwrap_small. unfold in_u. lia.
  - match goal with |- in_u 64 (uwrap 64 ?x / _) => pose proof (uwrap_range 64 x ltac:(lia)) as Hu end.
    unfold in_u in *. split; [apply Z.div_pos; lia|apply Z.div_lt_upper_bound; nia].
Qed.
End Create.
