(* ===== verification/LgcLaw.v ===== *)
(** * The control law of LGC-ShQ with its tables

    What [lgc_update_rate] of [src/plugins/lgc-shq/dtcp-ps-lgcshq.c] computes with the tables of
    [tcp_lgc_lut.c]: no step of its 32- and 64-bit arithmetic wraps, and the rate moves in the direction of
    the difference of its two logarithmic terms. *)

From S2P Require Import Prelude Kucommon Pci Rds Queues EfcpState Policies LgcLut LgcDtcp.
From Stdlib Require Import ZArith Lia.
From stdpp Require Import base list numbers option.
#[local] Open Scope Z_scope.

Lemma log_lookup_small f x : lgc_log_lut_lookup log_lut f = Some x -> 0 <= x <= 315652.
Proof.
  unfold lgc_log_lut_lookup. destruct (_ <? _); [apply within_entry, log_lut_within|intros [= <-]; lia].
Qed.

(** The growth and the second term, as the law uses them, make a step of at most the whole rate. *)
Lemma second_term_bound d gr second :
  0 <= d.(ecn_received) <= d.(samples_received) -> 0 <= d.(fraction) < ONE ->
  lgc_pow_lut_lookup pow_lut (delivered_ce d) = Some gr ->
  lgc_log_lut_lookup log_lut (ONE - new_fraction d) = Some second -> gr * second <= 2 ^ 32.
Proof.
  intros He Hf Hgr Hs. destruct (new_fraction_exact d He Hf) as [Hn Hr]. change ONE with 65536 in *.
  unfold lgc_log_lut_lookup, lgc_pow_lut_lookup in *.
  rewrite (proj2 (Z.ltb_lt _ LGC_LUT_SIZE)) in Hs by (unfold LGC_LUT_SIZE; lia). rewrite Hn in Hs.
  eapply (step_bound (delivered_ce d) d.(fraction) (d.(rate_thresh) <=? delivered_ce d));
    [by apply delivered_ce_range|done|exact Hgr|exact Hs].
Qed.

(** C30: the control law with the tables of the source, in a state with the invariant [lgc_ok], for a rate above 0 and below 2^28 bytes per
    millisecond.  With [t] the growth of the rate for the share of marks, [first] = log (rate / max rate) and
    [second] = log (1 - average share of marks): the new rate is exactly the old one plus [t] times the difference
    of the terms, limited to twice the old rate and to the rate of the link, and raised to one byte per
    millisecond when it is 0; it never wraps.  So, below the rate of the link, the rate grows when the
    difference makes a step of at least one unit, shrinks when the difference is negative, the growth is
    at least one unit and the result is not 0, and rests when the terms are equal. *)
Theorem lgc_update_rate_law d :
  lgc_ok d -> 0 < d.(s_cur_rate64) < 2 ^ 44 ->
  let r := d.(s_cur_rate64) in
  exists first second gr d',
    lgc_log_lut_lookup log_lut (u32 (r / d.(max_rate32))) = Some first /\
    lgc_log_lut_lookup log_lut (ONE - new_fraction d) = Some second /\
    lgc_pow_lut_lookup pow_lut (delivered_ce d) = Some gr /\
    lgc_update_rate log_lut pow_lut d = Some d' /\
    d'.(s_cur_rate64) = law_limited r (law_rate r gr (first - second)) d.(s_max_rate64) /\
    0 <= law_rate r gr (first - second) /\
    (65536 <= gr * r / 65536 * (first - second) -> r < d.(s_max_rate64) -> r < d'.(s_cur_rate64)) /\
    (first < second -> 65536 <= gr * r -> law_rate r gr (first - second) <> 0 -> d'.(s_cur_rate64) < r) /\
    (first = second -> d'.(s_cur_rate64) = Z.min d.(s_max_rate64) r).
Proof.
  intros [He _ _ Hf _ Hm Hx _] Hr r.
  destruct (lgc_update_rate_spec log_lut pow_lut log_lut_size pow_lut_size d He Hf Hm)
    as (first & second & gr & E1 & E2 & E3 & _).
  pose proof (log_lookup_small _ _ E1). pose proof (log_lookup_small _ _ E2).
  pose proof (within_entry _ _ _ _ pow_lut_within E3). pose proof (second_term_bound d gr second He Hf E3 E2).
  destruct (lgc_update_rate_exact log_lut pow_lut log_lut_size pow_lut_size d first second gr) as [E Hpos]; try done; try lia.
  exists first, second, gr. eexists. do 3 (split; [assumption|]). split; [exact E|].
  cbn [s_cur_rate64 set_rate_fraction]. split; [done|]. split; [exact Hpos|]. fold r in Hr, Hpos |- *.
  unfold law_limited, law_rate in *. set (t := gr * r / 65536) in *. split_and!.
  - intros Hstep Hlink. assert (1 <= t * (first - second) / 65536) by (apply Z.div_le_lower_bound; lia).
    destruct (Z.ltb_spec (2 * r) (r + t * (first - second) / 65536)); [lia|]. destruct (Z.eqb_spec (r + t * (first - second) / 65536) 0); lia.
  - intros Hlt Hgr Hne. assert (1 <= t) by (apply Z.div_le_lower_bound; lia).
    assert (t * (first - second) / 65536 < 0) by (apply Z.div_lt_upper_bound; nia).
    destruct (Z.ltb_spec (2 * r) (r + t * (first - second) / 65536)); [lia|]. destruct (Z.eqb_spec (r + t * (first - second) / 65536) 0); lia.
  - intros ->. rewrite Z.sub_diag, Z.mul_0_r. change (0 / 65536) with 0. rewrite Z.add_0_r.
    destruct (Z.ltb_spec (2 * r) r); [lia|]. destruct (Z.eqb_spec r 0); lia.
Qed.
