(* ===== verification/LgcRmt.v ===== *)
(** * The LGC-ShQ policy set of the RMT

    [src/plugins/lgc-shq/rmt-ps-lgcshq.c]: one queue per N-1 port, limited in length, whose
    PDUs are marked with a probability that follows the load of the port (a shadow queue).

    The clock, the conversions of Linux between scheduler ticks and nanoseconds, the
    conversion of strings to integers and the random numbers are arguments.  The length
    of a PDU is that of its header and its user data.  A division by zero and a null
    pointer are faults ([None]). *)

From S2P Require Import Prelude Kucommon Pci Rds Queues EfcpState Policies RmtPs LgcDtcp.
From Stdlib Require Import ZArith Lia String.
From stdpp Require Import base list numbers option.
Import Rqueue Rfifo FifoList.
#[local] Open Scope Z_scope.

Definition NSEC_PER_MSEC : Z := 1000000.
Definition DEFAULT_LIMIT : Z := 1000.
Definition DEFAULT_MAXP : Z := Z.shiftl 8 16 / 10.
Definition DEFAULT_ALPHA : Z := Z.shiftl 95 16 / 100.
Definition DEFAULT_BANDWIDTH : Z := 12500.

Record lgcshq_rmt_ps_data := mk_rmt_data {
  limit : Z;
  interval : Z;
  maxp : Z;
  alpha : Z;
  bandwidth : Z;
  rmt_ecn_bits : Z;
  prob : Z;
  avg_qlen : Z;
  count : Z;
  one_minus_alpha : Z;
  maxp64 : Z;
  last : Z
}.

Implicit Types d : lgcshq_rmt_ps_data.

Definition set_stats (pr av co la : Z) d : lgcshq_rmt_ps_data :=
  mk_rmt_data d.(limit) d.(interval) d.(maxp) d.(alpha) d.(bandwidth) d.(rmt_ecn_bits)
    pr av co d.(one_minus_alpha) d.(maxp64) la.

Record lgcshq_rmt_queue := mk_lgc_queue { queue : option (rfifo pdu); q_port_id : Z }.

(** The port as the policies see it. *)
Abbreviation lgc_port := (ps_port lgcshq_rmt_queue).

Section LgcRmt.
Context (D : dt_cons).
Context (psched_ticks2ns psched_ns2ticks : Z -> Z).
Context (kstrtouint kstrtoull : cstring -> option Z).

(** [du_len] of a PDU with its header. *)
Definition pdu_len (p : pdu) : Z := pci_calculate_size (config_of D) (pdu_type p) + pdu_data_len p.

(** ** The marking probability *)

(** The average after a measurement, scaled by 16 bits. *)
Definition new_avg d (backlog : Z) : Z :=
  let count := u64 (Z.shiftl (u64 (d.(count) + backlog)) 16) in
  Z.shiftr (u64 (u64 (d.(avg_qlen) * d.(one_minus_alpha)) + u64 (count * d.(alpha)))) 16.

(** The bytes the link can send in [delta] ticks. *)
Definition max_bytes d (delta : Z) : Z := u64 (d.(bandwidth) * u64 (psched_ticks2ns delta)) / NSEC_PER_MSEC.

Definition calc_probability d (delta backlog now : Z) : option lgcshq_rmt_ps_data :=
  let avg := new_avg d backlog in
  let p := u64 (avg * d.(maxp)) in
  p ← do_div p (max_bytes d delta);
  let p := if d.(maxp64) <=? p then 0xffffffff else p in
  Some (set_stats p avg 0 now d).

Definition should_mark (prob rand : Z) : bool := rand <? prob.

(** ** Queues *)

Definition lgcshq_queue_create (port : Z) (o : oracle) : option lgcshq_rmt_queue * oracle :=
  let '(ok, o) := rkmalloc o in
  if negb ok then (None, o)
  else
    let '(m1, o) := rkmalloc o in
    let '(m2, o) := if m1 then rkmalloc o else (true, o) in
    match rfifo_create_gfp m1 m2 with
    | None => (None, o)
    | Some f => (Some (mk_lgc_queue (Some f) port), o)
    end.

(** The PDUs that were destroyed. *)
Definition lgcshq_rmt_queue_destroy (q : option lgcshq_rmt_queue) : Z * list pdu :=
  match q with
  | None => (-1, [])
  | Some q =>
      (0, match q.(queue) with
          | Some f => snd (rqueue_destroy (Some f.(Rfifo.q)) true)
          | None => []
          end)
  end.

(** [ps] holds the private data. *)
Definition lgcshq_rmt_q_create_policy (ps : option (option lgcshq_rmt_ps_data)) (port : option lgc_port)
  (o : oracle) : option lgcshq_rmt_queue * oracle :=
  match ps, port with
  | Some (Some _), Some port => lgcshq_queue_create port.(port_id) o
  | _, _ => (None, o)
  end.

Definition lgcshq_rmt_q_destroy_policy (ps : option (option lgcshq_rmt_ps_data)) (port : option lgc_port)
  : Z * list pdu :=
  match ps, port with
  | Some _, Some port =>
      match port.(rmt_ps_queues) with
      | Some q => lgcshq_rmt_queue_destroy (Some q)
      | None => (-1, [])
      end
  | _, _ => (-1, [])
  end.

(** ** Enqueueing *)

(** One of the seven marks: the flags read so far and the PDU; the result of
    [pci_flags_set] is ignored. *)
Definition mark (guard : bool) (prob rand bit : Z) (fp : Z * pdu) : Z * pdu :=
  let '(fl, p) := fp in
  if guard && should_mark prob rand then
    let fl := u8 (Z.lor fl bit) in (fl, snd (pdu_set D p A_FLAGS fl))
  else (fl, p).

(** [rand k] is the [k]-th random number of the call. *)
Definition mark_all d (rand : nat -> Z) (p : pdu) : pdu :=
  let b k := k <=? d.(rmt_ecn_bits) in
  let x := (p.(attr) A_FLAGS, p) in
  let x := mark true d.(prob) (rand 0%nat) 0x01 x in
  let x := mark (b 2) d.(prob) (rand 1%nat) 0x02 x in
  let x := mark (b 3) d.(prob) (rand 2%nat) 0x04 x in
  let x := mark (b 4) d.(prob) (rand 3%nat) 0x08 x in
  let x := mark (b 5) d.(prob) (rand 4%nat) 0x10 x in
  let x := mark (b 6) d.(prob) (rand 5%nat) 0x20 x in
  let x := mark (b 7) d.(prob) (rand 6%nat) 0x40 x in
  snd x.

(** The measurement an arriving PDU causes: its bytes are counted, and when the interval is
    over the probability is computed.  [now k] is the [k]-th reading of [psched_get_time]. *)
Definition measure d (p : pdu) (qlen : Z) (now : nat -> Z) : option lgcshq_rmt_ps_data :=
  let d := set_stats d.(prob) d.(avg_qlen) (u64 (d.(count) + pdu_len p)) d.(last) d in
  let delta := s64 (now 0%nat - d.(last)) in
  if d.(interval) <? u64 delta then calc_probability d delta qlen (now 1%nat) else Some d.

(** The result, the data, the queue and the fate of the PDU.  [mem] tells whether the
    allocation in [rfifo_push_ni] succeeds; its result is not looked at. *)
Definition lgcshq_rmt_enqueue_policy (ps : option (option lgcshq_rmt_ps_data)) (port : option lgc_port)
  (du : option pdu) (must_enqueue : bool) (now rand : nat -> Z) (mem : bool)
  : option (Z * option lgcshq_rmt_ps_data * option lgc_port * fate) :=
  match ps with
  | None => None
  | Some data =>
      match port, du, data with
      | Some po, Some p, Some d =>
          match po.(rmt_ps_queues) with
          | None => Some (RMT_PS_ENQ_ERR, data, port, Destroyed p)
          | Some q =>
              let qlen := u32 (rfifo_length q.(queue)) in
              if (d.(limit) <=? qlen) && negb (pdu_type p =? PDU_TYPE_MGMT)
              then Some (RMT_PS_ENQ_DROP, data, port, Destroyed p)
              else
                d ← measure d p qlen now;
                let p := mark_all d rand p in
                if negb must_enqueue && rfifo_is_empty q.(queue)
                then Some (RMT_PS_ENQ_SEND, Some d, port, Sent p)
                else
                  let '(_, f) := rfifo_push mem q.(queue) p in
                  Some (RMT_PS_ENQ_SCHED, Some d,
                        Some (mk_ps_port po.(port_id) (Some (mk_lgc_queue f q.(q_port_id)))),
                        if mem then Queued p else Lost p)
          end
      | _, _, _ => Some (RMT_PS_ENQ_ERR, data, port, Untouched)
      end
  end.

Definition lgcshq_rmt_dequeue_policy (ps : option (option lgcshq_rmt_ps_data)) (port : option lgc_port)
  : option (option pdu * option lgc_port) :=
  match ps with
  | None => None
  | Some data =>
      match port, data with
      | Some po, Some _ =>
          match po.(rmt_ps_queues) with
          | None => Some (None, port)
          | Some q =>
              let '(r, f) := rfifo_pop q.(queue) in
              Some (r, Some (mk_ps_port po.(port_id) (Some (mk_lgc_queue f q.(q_port_id)))))
          end
      | _, _ => Some (None, port)
      end
  end.

(** ** Parameters and creation *)

Definition lgcshq_rmt_ps_set_policy_set_param d (name value : string_ptr) : Z * lgcshq_rmt_ps_data :=
  match name, value with
  | Some name, Some value =>
      let named s := strcmp_eq name (c_str s) in
      let li := if named "limit"%string then parsed (kstrtouint value) d.(limit) id else d.(limit) in
      let iv := if named "interval"%string
                then parsed (kstrtoull value) d.(interval) (fun v => psched_ns2ticks (u64 (v * NSEC_PER_MSEC)))
                else d.(interval) in
      let mp := if named "maxp"%string then parsed (kstrtouint value) d.(maxp) id else d.(maxp) in
      let al := if named "alpha"%string then parsed (kstrtouint value) d.(alpha) id else d.(alpha) in
      let bw := if named "bandwidth"%string
                then parsed (kstrtouint value) d.(bandwidth) (fun v => u32 (v * 125)) else d.(bandwidth) in
      let eb := if named "ecn_bits"%string
                then parsed (kstrtouint value) d.(rmt_ecn_bits)
                       (fun v => if (0 <? v) && (v <? 8) then v else d.(rmt_ecn_bits))
                else d.(rmt_ecn_bits) in
      (0, mk_rmt_data li iv mp al bw eb d.(prob) d.(avg_qlen) d.(count) d.(one_minus_alpha) d.(maxp64) d.(last))
  | _, _ => (-1, d)
  end.

(** [cfg] is the policy of the RMT configuration; [None] without a configuration. *)
Definition rmt_ps_load_param d (cfg : option (option policy)) (param_name : string)
  : option (Z * lgcshq_rmt_ps_data) :=
  ps_param ← match cfg with
             | Some pol => policy_param_find pol (Some (c_str param_name))
             | None => Some None
             end;
  match ps_param with
  | None => Some (0, d)
  | Some p => Some (0, snd (lgcshq_rmt_ps_set_policy_set_param d (policy_param_name (Some p))
                              (policy_param_value (Some p))))
  end.

Definition rmt_defaults : lgcshq_rmt_ps_data :=
  mk_rmt_data DEFAULT_LIMIT (psched_ns2ticks (10 * NSEC_PER_MSEC)) DEFAULT_MAXP DEFAULT_ALPHA
    DEFAULT_BANDWIDTH 1 0 0 0 0 0 0.

Definition rmt_load_params (cfg : option (option policy)) d : option lgcshq_rmt_ps_data :=
  '(_, d) ← rmt_ps_load_param d cfg "limit";
  '(_, d) ← rmt_ps_load_param d cfg "interval";
  '(_, d) ← rmt_ps_load_param d cfg "maxp";
  '(_, d) ← rmt_ps_load_param d cfg "alpha";
  '(_, d) ← rmt_ps_load_param d cfg "bandwidth";
  '(_, d) ← rmt_ps_load_param d cfg "ecn_bits";
  Some d.

Definition derive_variables (now : Z) d : lgcshq_rmt_ps_data :=
  mk_rmt_data d.(limit) d.(interval) d.(maxp) d.(alpha) d.(bandwidth) d.(rmt_ecn_bits) d.(prob) 0 0
    (u32 (65536 - d.(alpha))) (u64 (Z.shiftl d.(maxp) 16)) now.

Definition rmt_ps_lgcshq_create (cfg : option (option policy)) (now : Z) (o : oracle)
  : option (option lgcshq_rmt_ps_data * oracle) :=
  let '(ok, o) := rkmalloc o in
  if negb ok then Some (None, o)
  else
    let '(ok, o) := rkmalloc o in
    if negb ok then Some (None, o)
    else
      d ← rmt_load_params cfg rmt_defaults;
      Some (Some (derive_variables now d), o).
End LgcRmt.

(** ** The marking probability *)

(** The relation of the variables that creation establishes, and sizes for which nothing
    overflows: an average and a sample below 2^31 bytes. *)
Record shq_ok d (backlog : Z) : Prop := {
  shq_alpha : 0 <= d.(alpha) <= 65536;
  shq_weights : d.(one_minus_alpha) = 65536 - d.(alpha);
  shq_maxp : 0 <= d.(maxp) <= 65536;
  shq_maxp64 : d.(maxp64) = d.(maxp) * 65536;
  shq_avg : 0 <= d.(avg_qlen) < 2 ^ 47;
  shq_sample : 0 <= d.(count) + backlog < 2 ^ 31
}.

Lemma new_avg_exact d backlog :
  shq_ok d backlog ->
  new_avg d backlog =
    (d.(avg_qlen) * (65536 - d.(alpha)) + (d.(count) + backlog) * 65536 * d.(alpha)) / 65536.
Proof.
  intros [Ha Hw _ _ Hv Hs]. unfold new_avg. rewrite Hw.
  rewrite (uwrap_small 64 (count d + backlog)) by (unfold in_u; lia).
  rewrite Z.shiftl_mul_pow2, Z.shiftr_div_pow2 by lia. change (2 ^ 16) with 65536.
  rewrite (uwrap_small 64 ((count d + backlog) * 65536)) by (unfold in_u; lia).
  rewrite (uwrap_small 64 (avg_qlen d * _)) by (unfold in_u; nia).
  rewrite (uwrap_small 64 ((count d + backlog) * 65536 * alpha d)) by (unfold in_u; nia).
  by rewrite uwrap_small by (unfold in_u; nia).
Qed.

Lemma new_avg_between d backlog :
  shq_ok d backlog ->
  Z.min d.(avg_qlen) ((d.(count) + backlog) * 65536) <= new_avg d backlog
    <= Z.max d.(avg_qlen) ((d.(count) + backlog) * 65536).
Proof.
  intros Hok. rewrite (new_avg_exact _ _ Hok). destruct Hok as [Ha Hw _ _ Hv Hs].
  set (x := (count d + backlog) * 65536). split.
  - apply Z.div_le_lower_bound; nia.
  - apply Z.div_le_upper_bound; nia.
Qed.

(** C29: a measurement. When the weights add up to one, [maxp] is at most one and fewer than
    2^31 bytes arrived ([shq_ok]), and while the link can carry between 1 and 2^32 - 1 bytes in
    the interval, the new average is the weighted mean of the old one and of the bytes that
    arrived, and lies between them; the new probability, a 32-bit fraction, is [maxp] times the
    average over the bytes the link can carry, or 2^32 - 1, which is certainty and above [maxp],
    when that reaches [maxp]; and a new interval starts. *)
Theorem calc_probability_spec (psched_ticks2ns : Z -> Z) d (delta backlog now : Z) :
  shq_ok d backlog -> 0 < max_bytes psched_ticks2ns d delta < 2 ^ 32 ->
  exists avg p,
    calc_probability psched_ticks2ns d delta backlog now = Some (set_stats p avg 0 now d) /\
    avg = (d.(avg_qlen) * (65536 - d.(alpha)) + (d.(count) + backlog) * 65536 * d.(alpha)) / 65536 /\
    Z.min d.(avg_qlen) ((d.(count) + backlog) * 65536) <= avg
      <= Z.max d.(avg_qlen) ((d.(count) + backlog) * 65536) /\
    p = (let q := avg * d.(maxp) / max_bytes psched_ticks2ns d delta in
         if d.(maxp) * 65536 <=? q then 2 ^ 32 - 1 else q) /\
    0 <= p < 2 ^ 32.
Proof.
  intros Hok Hm. pose proof (new_avg_between _ _ Hok) as Hb. pose proof (new_avg_exact _ _ Hok) as He.
  destruct Hok as [Ha Hw Hp Hp64 Hv Hs].
  exists (new_avg d backlog). eexists. unfold calc_probability. rewrite do_div_pos by done. cbn [mbind option_bind].
  rewrite Hp64, (uwrap_small 64) by (unfold in_u; nia).
  split; [reflexivity|]. split; [exact He|]. split; [exact Hb|]. split; [reflexivity|].
  assert (0 <= new_avg d backlog * maxp d / max_bytes psched_ticks2ns d delta) by (apply Z.div_pos; nia).
  destruct (Z.leb_spec (maxp d * 65536) (new_avg d backlog * maxp d / max_bytes psched_ticks2ns d delta)); lia.
Qed.

(** ** Marks *)

Section Marks.
Context (D : dt_cons).

(** [p] is [p0] but for the flags [fl], which are those of [p0] and the bits of [f]. *)
Definition marks_ok (p0 : pdu) (fp : Z * pdu) (f : Z -> bool) : Prop :=
  in_u 8 (fst fp) /\ (snd fp).(attr) A_FLAGS = fst fp /\
  (forall a, a <> A_FLAGS -> (snd fp).(attr) a = p0.(attr) a) /\ (snd fp).(pdu_data) = p0.(pdu_data) /\
  (forall j, 0 <= j -> Z.testbit (fst fp) j = Z.testbit (p0.(attr) A_FLAGS) j || f j).

Lemma mark_ok p0 fp f guard pr r k :
  0 <= k < 8 -> marks_ok p0 fp f ->
  marks_ok p0 (mark D guard pr r (2 ^ k) fp) (fun j => f j || ((j =? k) && (guard && (r <? pr)))).
Proof.
  destruct fp as [fl p]. intros Hk (Hu & Hf & Ha & Hd & Hb). cbn [fst snd] in *. unfold mark, should_mark.
  destruct (guard && (r <? pr)).
  - assert (in_u 8 (Z.lor fl (2 ^ k))) as Hl.
    { unfold in_u in *. rewrite <- Z.shiftl_1_l. split; [apply Z.lor_nonneg; split; [lia|by apply Z.shiftl_nonneg]|].
      destruct (Z.eq_dec (Z.lor fl (Z.shiftl 1 k)) 0) as [->|Hz]; [lia|].
      assert (0 <= Z.lor fl (Z.shiftl 1 k)) by (apply Z.lor_nonneg; split; [lia|by apply Z.shiftl_nonneg]).
      apply Z.log2_lt_pow2; [lia|]. rewrite Z.log2_lor; [|lia|by apply Z.shiftl_nonneg].
      rewrite Z.log2_shiftl by lia. change (Z.log2 1) with 0.
      apply Z.max_lub_lt; [|lia]. destruct (Z.eq_dec fl 0) as [->|]; [done|]. apply Z.log2_lt_pow2; lia. }
    rewrite (uwrap_small 8 _ Hl). unfold pdu_set. cbn [attr_slot fst snd].
    split; [exact Hl|]. cbn [attr pdu_data fst snd]. rewrite decide_True by done.
    split; [cbn [attr_cast]; change (8 * FLAGS_SIZE) with 8; by rewrite uwrap_uwrap, uwrap_small|].
    split; [intros a Hn; rewrite decide_False by done; by apply Ha|]. split; [done|].
    intros j Hj. rewrite Z.lor_spec, Hb by done. rewrite Z.pow2_bits_eqb by lia.
    rewrite (Z.eqb_sym k j), andb_true_r. by rewrite orb_assoc.
  - split; [done|]. do 3 (split; [done|]). intros j Hj. cbn [fst snd] in *. rewrite Hb by done.
    by rewrite andb_false_r, orb_false_r.
Qed.

(** The bits that a PDU gets. *)
Definition mark_bit d (rand : nat -> Z) (j : Z) : bool :=
  (j <? 7) && ((j =? 0) || (j + 1 <=? d.(rmt_ecn_bits))) && (rand (Z.to_nat j) <? d.(prob)).

Lemma mark_all_ok d rand (p : pdu) :
  in_u 8 (p.(attr) A_FLAGS) -> 
  marks_ok p ((mark_all D d rand p).(attr) A_FLAGS, mark_all D d rand p) (mark_bit d rand).
Proof.
  intros Hu. unfold mark_all. cbv zeta.
  match goal with |- marks_ok p (attr (snd ?x) _, _) _ => assert (exists f, marks_ok p x f /\ forall j, 0 <= j -> f j = mark_bit d rand j) as (f & Hf & He) end.
  { eexists. split.
    - change 0x01 with (2 ^ 0). change 0x02 with (2 ^ 1). change 0x04 with (2 ^ 2).
      change 0x08 with (2 ^ 3). change 0x10 with (2 ^ 4). change 0x20 with (2 ^ 5). change 0x40 with (2 ^ 6).
      do 7 (apply mark_ok; [lia|]). instantiate (1 := fun _ => false).
      split; [done|]. do 3 (split; [done|]). intros j _. by rewrite orb_false_r.
    - intros j Hj. cbn beta. unfold mark_bit.
      assert (j = 0 \/ j = 1 \/ j = 2 \/ j = 3 \/ j = 4 \/ j = 5 \/ j = 6 \/ 7 <= j) as Hc by lia.
      destruct Hc as [->|[->|[->|[->|[->|[->|[->|Hc]]]]]]]; cbn -[Z.leb Z.ltb]; rewrite ?orb_false_r; try reflexivity.
      rewrite (proj2 (Z.ltb_ge j 7)) by lia.
      rewrite !(proj2 (Z.eqb_neq j _)) by lia. reflexivity. }
  destruct Hf as (H1 & H2 & H3 & H4 & H5). rewrite H2.
  split; [done|]. do 3 (split; [done|]). intros j Hj. cbn [fst] in *. by rewrite H5, He by done.
Qed.
End Marks.

(** ** Enqueueing *)

Section Enqueue.
Context (D : dt_cons) (psched_ticks2ns : Z -> Z).

(** A port whose queue holds the PDUs [l]. *)
Definition port_holds (po : lgc_port) (l : list pdu) : Prop :=
  exists q, po.(rmt_ps_queues) = Some q /\ fifo_holds q.(queue) l.

Lemma port_holds_length po l :
  port_holds po l -> Z.of_nat (length l) < 2 ^ 32 ->
  exists q, po.(rmt_ps_queues) = Some q /\ fifo_holds q.(queue) l /\
    u32 (rfifo_length q.(queue)) = Z.of_nat (length l).
Proof.
  intros (q & Hq & Hf) Hl. exists q. split; [done|]. split; [done|].
  rewrite (proj1 (fifo_holds_length _ _ Hf)). apply uwrap_small. unfold in_u. lia.
Qed.

(** The policy on a queue that holds [l], as one expression. *)
Lemma lgc_enqueue_run d po q l (p : pdu) must now rand mem :
  po.(rmt_ps_queues) = Some q -> fifo_holds q.(queue) l -> Z.of_nat (length l) < 2 ^ 32 ->
  lgcshq_rmt_enqueue_policy D psched_ticks2ns (Some (Some d)) (Some po) (Some p) must now rand mem =
    if (d.(limit) <=? Z.of_nat (length l)) && negb (pdu_type p =? PDU_TYPE_MGMT)
    then Some (RMT_PS_ENQ_DROP, Some d, Some po, Destroyed p)
    else match measure D psched_ticks2ns d p (Z.of_nat (length l)) now with
         | None => None
         | Some d' =>
             let p' := mark_all D d' rand p in
             if negb must && bool_decide (l = [])
             then Some (RMT_PS_ENQ_SEND, Some d', Some po, Sent p')
             else Some (RMT_PS_ENQ_SCHED, Some d',
                        Some (mk_ps_port po.(port_id)
                                (Some (mk_lgc_queue (snd (rfifo_push mem q.(queue) p')) q.(q_port_id)))),
                        if mem then Queued p' else Lost p')
         end.
Proof.
  intros Hq Hf Hl. unfold lgcshq_rmt_enqueue_policy. rewrite Hq.
  destruct (fifo_holds_length _ _ Hf) as [-> ->]. rewrite (uwrap_small 32) by (unfold in_u; lia).
  destruct (_ && _); [done|]. destruct (measure _ _ _ _ _ _) as [d'|]; [|done]. cbn [mbind option_bind].
  cbv zeta. destruct (negb must && _); [done|]. by destruct (rfifo_push _ _ _).
Qed.

(** C28: enqueueing on a port whose queue holds [l].  A queue that has reached the limit
    drops every PDU but a management one, and nothing else changes.  Otherwise, once
    the load has been measured, the PDU gets the congestion marks that the random numbers
    below the probability ask for - nothing else of it changes - and is either given back to be
    sent, which happens exactly when the queue is empty and the caller allows it, or
    appended to the queue; only when there is no memory it is lost, and the
    result is the same. *)
Theorem lgc_enqueue_spec d po l (p : pdu) must now rand mem :
  port_holds po l -> Z.of_nat (length l) < 2 ^ 32 - 1 -> in_u 8 (p.(attr) A_FLAGS) ->
  let run := lgcshq_rmt_enqueue_policy D psched_ticks2ns (Some (Some d)) (Some po) (Some p) must now rand mem in
  let qlen := Z.of_nat (length l) in
  (d.(limit) <= qlen -> pdu_type p <> PDU_TYPE_MGMT ->
     run = Some (RMT_PS_ENQ_DROP, Some d, Some po, Destroyed p)) /\
  (qlen < d.(limit) \/ pdu_type p = PDU_TYPE_MGMT ->
     match measure D psched_ticks2ns d p qlen now with
     | None => run = None
     | Some d' =>
         exists p', marks_ok p (p'.(attr) A_FLAGS, p') (mark_bit d' rand) /\
           if negb must && bool_decide (l = [])
           then run = Some (RMT_PS_ENQ_SEND, Some d', Some po, Sent p')
           else exists po', port_holds po' (if mem then l ++ [p'] else l) /\
                  run = Some (RMT_PS_ENQ_SCHED, Some d', Some po', if mem then Queued p' else Lost p')
     end).
Proof.
  intros Hp Hl Hfl. destruct (port_holds_length _ _ Hp ltac:(lia)) as (q & Hq & Hf & _).
  cbv zeta. rewrite (lgc_enqueue_run d po q l) by (done || lia). split.
  - intros Hlim Hty. rewrite (proj2 (Z.leb_le _ _)) by lia. by rewrite (proj2 (Z.eqb_neq _ _)) by done.
  - intros Hor. replace ((limit d <=? _) && _) with false.
    2: { destruct Hor as [H| ->]; [by rewrite (proj2 (Z.leb_gt _ _)) by lia|].
         by rewrite Z.eqb_refl, andb_false_r. }
    destruct (measure _ _ _ _ _ _) as [d'|]; [|done]. cbv zeta.
    exists (mark_all D d' rand p). split; [by apply mark_all_ok|].
    destruct (negb must && _); [done|]. eexists. split; [|reflexivity].
    eexists. split; [reflexivity|]. cbn [queue]. apply fifo_holds_push; [done|lia].
Qed.

(** The PDUs leave a port in the order in which they were queued. *)
Theorem lgc_dequeue_spec d po p l :
  port_holds po (p :: l) ->
  exists po', lgcshq_rmt_dequeue_policy (Some (Some d)) (Some po) = Some (Some p, Some po') /\
    port_holds po' l.
Proof.
  intros (q & Hq & Hf). unfold lgcshq_rmt_dequeue_policy. rewrite Hq.
  destruct (fifo_holds_pop _ _ Hf) as [Hr Ht]. destruct (rfifo_pop (queue q)) as [r f]. cbn [fst snd] in *.
  rewrite Hr. eexists. split; [reflexivity|]. eexists. split; [reflexivity|done].
Qed.

(** ** The policy set satisfies the interface of the RMT *)

#[export] Instance lgc_ps : RmtPs lgcshq_rmt_ps_data lgcshq_rmt_queue ((nat -> Z) * (nat -> Z) * bool) := {|
  ps_enqueue d q p must x :=
    match lgcshq_rmt_enqueue_policy D psched_ticks2ns (Some (Some d)) (Some (mk_ps_port 0 (Some q))) (Some p)
            must x.1.1 x.1.2 x.2 with
    | Some (r, Some d', Some (mk_ps_port _ (Some q')), f) => Some (r, d', q', f)
    | _ => None
    end;
  ps_dequeue d q :=
    match lgcshq_rmt_dequeue_policy (Some (Some d)) (Some (mk_ps_port 0 (Some q))) with
    | Some (r, Some (mk_ps_port _ (Some q'))) => (r, q')
    | _ => (None, q)
    end;
  q_new := mk_lgc_queue (rfifo_create_gfp true true) 0;
  q_wf q := fifo_holds q.(queue) (fifo_list q.(queue));
  q_elems q := fifo_list q.(queue);
  x_mem x := x.2;
  ps_class _ := true
|}.

#[export] Instance lgc_ps_laws : RmtPsLaws lgcshq_rmt_ps_data lgcshq_rmt_queue ((nat -> Z) * (nat -> Z) * bool).
Proof.
  split.
  - split; [apply fifo_holds_new|done].
  - intros d q p must [[now rand] mem] r d' q' f Hq Hmem Hl E. cbn [x_mem lgc_ps snd fst] in Hmem. subst mem.
    cbn [ps_enqueue q_elems q_wf lgc_ps fst snd] in *.
    rewrite (lgc_enqueue_run d _ q (fifo_list (queue q))) in E by (done || lia).
    destruct (_ && _); [simplify_eq; right; right; split; [by left|]; split; [done|]; split; [done|by left]|].
    destruct (measure _ _ _ _ _ _) as [d1|]; [|done]. cbv zeta in E.
    destruct (negb must && _) eqn:Es; simplify_eq.
    + right; left. apply andb_prop in Es as [Es _]. destruct must; [done|].
      split; [done|]. split; [done|]. split; [done|]. split; [done|]. by eexists.
    + left. cbn [queue port_id]. pose proof (fifo_holds_push _ _ (mark_all D d' rand p) true Hq ltac:(lia)) as Hp.
      rewrite (fifo_holds_list _ _ Hp). split; [done|]. split; [done|].
      eexists. split; [reflexivity|]. split; [rewrite length_app; cbn; lia|done].
  - intros d q Hq. cbn [ps_dequeue q_elems q_wf lgc_ps] in *. unfold lgcshq_rmt_dequeue_policy.
    cbn [rmt_ps_queues port_id]. destruct (fifo_holds_pop _ _ Hq) as [Hr Hp].
    destruct (rfifo_pop (queue q)) as [r f]. cbn [fst snd queue] in *. by rewrite (fifo_holds_list _ _ Hp).
Qed.
End Enqueue.

(** ** The idle link *)

(** The conversions of Linux: a tick is 64 nanoseconds. *)
Definition linux_ticks2ns (x : Z) : Z := Z.shiftl x 6.
Definition linux_ns2ticks (x : Z) : Z := Z.shiftr x 6.

(** The data of a policy set without parameters, created at time 0. *)
Definition shq_example : lgcshq_rmt_ps_data := derive_variables 0 (rmt_defaults linux_ns2ticks).

(** A port that was idle for 343.6 seconds (5368709120 ticks) on a link of 100 Mbit/s:
    the bytes the link could have carried, 2^32, are cut to 32 bits before the division,
    and the PDU that ends the idle period divides by zero. *)
Theorem shq_idle_divides_by_zero (D : dt_cons) po l (p : pdu) must rand mem :
  port_holds po l -> Z.of_nat (length l) < 1000 ->
  lgcshq_rmt_enqueue_policy D linux_ticks2ns (Some (Some shq_example)) (Some po) (Some p) must
    (fun _ => 5368709120) rand mem = None.
Proof.
  intros Hp Hl. destruct (port_holds_length _ _ Hp ltac:(lia)) as (q & Hq & Hf & Hlen).
  unfold lgcshq_rmt_enqueue_policy. rewrite Hq, Hlen.
  rewrite (proj2 (Z.leb_gt _ _)) by (change (limit shq_example) with 1000; lia). cbn [andb].
  unfold measure. change (s64 (5368709120 - last (set_stats _ _ _ _ _))) with 5368709120.
  change (interval (set_stats _ _ _ _ _) <? u64 5368709120) with true. cbv iota.
  unfold calc_probability. change (max_bytes linux_ticks2ns (set_stats _ _ _ _ _) 5368709120) with (2 ^ 32).
  reflexivity.
Qed.
