(* ===== verification/LgcExamples.v ===== *)
(** * Examples for the LGC-ShQ policy sets

    Instances of the theorems of [LgcDtcp.v], [LgcLaw.v] and [LgcRmt.v] at concrete inputs, and the
    behaviours that come with a change of parameters at run time. *)

From S2P Require Import Prelude Kucommon Pci Rds Queues EfcpState EfcpExamples Policies RmtPs LgcLut LgcDtcp LgcLaw LgcRmt.
From Stdlib Require Import ZArith Lia String.
From stdpp Require Import base list numbers option.
Import Rqueue Rfifo.
#[local] Open Scope Z_scope.

(** ** DTCP *)

(** Strings of decimal digits. *)
Definition ex_kstrto (s : cstring) : option Z :=
  foldl (fun a c => a ← a; if (48 <=? c) && (c <=? 57) then Some (10 * a + (c - 48)) else None) (Some 0) s.

(** The policy set without parameters: 100 Mbit/s and 10 ms. *)
Definition ex_lgc : lgcshq_dtcp_ps_data :=
  mk_lgc 10 0xFFFFFFFF 9 4 10 100 1 (12500 * 65536) 97255424 12500 DEFAULT_THRESH 10000 0.

Lemma ex_lgc_ok : lgc_ok ex_lgc.
Proof. constructor; unfold ex_lgc, in_u; cbn; try done; lia. Qed.

Definition ex_lgc_csv : dtcp_sv := set_rcvr_credit 10 (ex_dtcp 7 0).(dtcp_sv_of).
Definition ex_lgc_dtcp : dtcp := set_dtcp_sv_of ex_lgc_csv (ex_dtcp 7 0).
Definition ex_lgc_st : st := set_st_dtp (set_dtp_dtcp (Some ex_lgc_dtcp) (ex_dtp 7 0 false [])) (ex_st 7 0 false []).

(** The tenth sample ends the observation window. *)
Lemma lgc_flow_control_safe_witness :
  exists d' credit,
    lgcshq_rcvr_flow_control log_lut pow_lut ex_lgc (ex_pdu 8 [1]) ex_lgc_st =
      Some ((0, d'),
        with_csv ex_lgc_dtcp (set_rcvr_rt_wind_edge
          (Z.max ex_lgc_dtcp.(dtcp_sv_of).(rcvr_rt_wind_edge)
             (u32 (ex_lgc_st.(st_dtp).(dtp_sv_of).(rcv_left_window_edge) + credit)))
          (set_rcvr_credit credit ex_lgc_dtcp.(dtcp_sv_of))) ex_lgc_st) /\
    lgc_ok d' /\ window_cap d' = window_cap ex_lgc /\ 10 <= credit <= window_cap ex_lgc.
Proof.
  apply (lgc_flow_control_safe log_lut pow_lut log_lut_size pow_lut_size ex_lgc (ex_pdu 8 [1]) ex_lgc_st ex_lgc_dtcp ex_lgc_ok).
  - reflexivity.
  - reflexivity.
  - split; vm_compute; discriminate.
Defined.

(** With 4 of 9 samples marked, which is below the threshold, the rate grows. *)
Lemma lgc_update_rate_law_witness :
  exists d', lgc_update_rate log_lut pow_lut ex_lgc = Some d' /\ 97255424 < d'.(s_cur_rate64).
Proof.
  destruct (lgc_update_rate_law ex_lgc ex_lgc_ok) as (first & second & gr & d' & E1 & E2 & E3 & E & _ & _ & Hup & _).
  - cbn. lia.
  - exists d'. split; [exact E|].
    assert (lgc_log_lut_lookup log_lut (u32 (ex_lgc.(s_cur_rate64) / ex_lgc.(max_rate32))) = Some 60653) as F1 by (vm_compute; reflexivity).
    assert (lgc_log_lut_lookup log_lut (ONE - new_fraction ex_lgc) = Some 0) as F2 by (vm_compute; reflexivity).
    assert (lgc_pow_lut_lookup pow_lut (delivered_ce ex_lgc) = Some 20061) as F3 by (vm_compute; reflexivity).
    rewrite E1 in F1. rewrite E2 in F2. rewrite E3 in F3. injection F1 as ->. injection F2 as ->. injection F3 as ->.
    apply Hup; vm_compute; [discriminate|reflexivity].
Defined.

(** A link of 10 Gbit/s with a round-trip time of 10.1 ms asks for 8508 packets. *)
Lemma rate_of_window_wraps_witness :
  window_of_rate (1250000 * 65536) 10100 = 8508 /\
  exists r, rate_of_window 8508 10100 = Some r /\
    (8508 <= 2894 -> r = 8508 * 1484000 * 65536 / 10100) /\
    (2895 <= 8508 -> r <= 2895 * 1484000 * 65536 / 10100).
Proof.
  split; [reflexivity|]. apply (rate_of_window_wraps 8508 10100); lia.
Defined.

(** The rate it stores is a third of the rate of that window. *)
Example rate_of_window_10G : rate_of_window 8508 10100 = Some 26188039006.
Proof. reflexivity. Qed.

Lemma lgc_create_establishes_witness :
  exists d s', dtcp_ps_lgcshq_create ex_kstrto ex_kstrto ex_lgc_st = Some (Some d, s') /\
    lgc_ok d /\ exists c, s'.(st_dtp).(dtp_dtcp) = Some c /\ c.(dtcp_sv_of).(rcvr_credit) = 10.
Proof.
  eexists _, _. split; [reflexivity|].
  apply (lgc_create_establishes ex_kstrto ex_kstrto ex_lgc_st); [reflexivity|discriminate].
Defined.

(** ** RMT *)

(** 100000 bytes in the first 10 ms. *)
Definition ex_shq : lgcshq_rmt_ps_data := set_stats 0 0 100000 0 shq_example.

Lemma ex_shq_ok : shq_ok ex_shq 3.
Proof. constructor; cbn; try lia; done. Qed.

Lemma calc_probability_spec_witness :
  exists avg p,
    calc_probability linux_ticks2ns ex_shq 156251 3 156251 = Some (set_stats p avg 0 156251 ex_shq) /\
    avg = (0 * (65536 - 62259) + (100000 + 3) * 65536 * 62259) / 65536 /\
    Z.min 0 ((100000 + 3) * 65536) <= avg <= Z.max 0 ((100000 + 3) * 65536) /\
    p = (let q := avg * 52428 / max_bytes linux_ticks2ns ex_shq 156251 in
         if 52428 * 65536 <=? q then 2 ^ 32 - 1 else q) /\
    0 <= p < 2 ^ 32.
Proof.
  apply (calc_probability_spec linux_ticks2ns ex_shq 156251 3 156251 ex_shq_ok). vm_compute. by split.
Defined.

Definition ex_port (l : list pdu) : lgc_port :=
  mk_ps_port 4 (Some (mk_lgc_queue (Some (mk_rfifo (mk_rqueue l (Z.of_nat (length l))))) 4)).

Lemma ex_port_holds l : Z.of_nat (length l) < 2 ^ 64 - 1 -> port_holds (ex_port l) l.
Proof. intros Hl. eexists. split; [reflexivity|]. by eexists. Qed.

Lemma lgc_enqueue_spec_witness :
  let l := [ex_pdu 8 [1]] in
  let p := ex_pdu 9 [2] in
  let run := lgcshq_rmt_enqueue_policy (dt ex_env) linux_ticks2ns (Some (Some ex_shq)) (Some (ex_port l)) (Some p)
               true (fun _ => 200000) (fun _ => 5) true in
  (ex_shq.(limit) <= 1 -> pdu_type p <> PDU_TYPE_MGMT ->
     run = Some (RMT_PS_ENQ_DROP, Some ex_shq, Some (ex_port l), Destroyed p)) /\
  (1 < ex_shq.(limit) \/ pdu_type p = PDU_TYPE_MGMT ->
     match measure (dt ex_env) linux_ticks2ns ex_shq p 1 (fun _ => 200000) with
     | None => run = None
     | Some d' =>
         exists p', marks_ok p (p'.(attr) A_FLAGS, p') (mark_bit d' (fun _ => 5)) /\
           if negb true && bool_decide (l = [])
           then run = Some (RMT_PS_ENQ_SEND, Some d', Some (ex_port l), Sent p')
           else exists po', port_holds po' (if true then l ++ [p'] else l) /\
                  run = Some (RMT_PS_ENQ_SCHED, Some d', Some po', if true then Queued p' else Lost p')
     end).
Proof.
  apply (lgc_enqueue_spec (dt ex_env) linux_ticks2ns ex_shq (ex_port [ex_pdu 8 [1]]) [ex_pdu 8 [1]] (ex_pdu 9 [2])
    true (fun _ => 200000) (fun _ => 5) true).
  - apply ex_port_holds. cbn. lia.
  - cbn. lia.
  - vm_compute. by split.
Defined.

Lemma lgc_dequeue_spec_witness :
  exists po', lgcshq_rmt_dequeue_policy (Some (Some ex_shq)) (Some (ex_port [ex_pdu 8 [1]; ex_pdu 9 [2]])) =
      Some (Some (ex_pdu 8 [1]), Some po') /\ port_holds po' [ex_pdu 9 [2]].
Proof. apply (lgc_dequeue_spec ex_shq). apply ex_port_holds. cbn. lia. Defined.

Lemma shq_idle_divides_by_zero_witness :
  lgcshq_rmt_enqueue_policy (dt ex_env) linux_ticks2ns (Some (Some shq_example)) (Some (ex_port []))
    (Some (ex_pdu 8 [1])) true (fun _ => 5368709120) (fun _ => 0) true = None.
Proof.
  apply (shq_idle_divides_by_zero (dt ex_env) (ex_port []) []); [apply ex_port_holds|]; cbn; lia.
Defined.

(** [alpha] set at run time: [one_minus_alpha] keeps its value, the weights no longer add up
    to one, and the average exceeds both the old average and the sample. *)
Lemma shq_alpha_at_run_time :
  let d := set_stats 0 (1000 * 65536) 1000 0 shq_example in
  let '(r, d') := lgcshq_rmt_ps_set_policy_set_param linux_ns2ticks ex_kstrto ex_kstrto d
                    (Some (c_str "alpha")) (Some (c_str "65536")) in
  r = 0 /\ d'.(count) * 65536 = d.(avg_qlen) /\ d.(avg_qlen) < new_avg d' 0.
Proof. vm_compute. by repeat split. Qed.
