(* ===== verification/CcDtcp.v ===== *)
(** * Congestion control at the receiver: DCTCP, RED and CAS

    Three policy sets of DTCP that may take the place of LGC-ShQ
    ([src/plugins/dctcp/dtcp-ps-dctcp.c], [red/dtcp-ps-red.c], [cong_avoidance/dtcp-ps-cas.c]).  Each
    replaces one policy, [rcvr_flow_control]: for every PDU it takes, the receiver computes a
    new credit from the congestion mark of the PDU, and moves the right window edge.

    [CreditPolicy] is what the three have in common and [CreditPolicyLaws] what is promised of them;
    the handler and its theorem are for any instance.  The conversion of a string to an integer is a
    function of Linux.  A division by zero and a shift by more than the width are faults. *)

From S2P Require Import Prelude Kucommon Pci Rds Queues EfcpState Policies DtpUtils Dtcp LgcDtcp.
From Stdlib Require Import ZArith Lia String.
From stdpp Require Import base list numbers option.
#[local] Open Scope Z_scope.
#[local] Open Scope efcp_scope.

(** ** Interface

    A step takes the private data, the credit and the flags of a PDU, and gives the new data and
    credit; [cp_edge] gives the right edge from the old one and the left edge plus the
    credit; [cp_inc] is how much the credit may grow with one PDU. *)

Class CreditPolicy (D : Type) := {
  cp_step : D -> Z -> Z -> option (D * Z);
  cp_edge : Z -> Z -> Z;
  cp_inv : D -> Z -> Prop;
  cp_inc : D -> Z;
  cp_low : Z;
  cp_high : Z
}.

Class CreditPolicyLaws (D : Type) `{CreditPolicy D} := {
  cp_step_law d w f :
    cp_inv d w -> w + cp_inc d < cp_high ->
    exists d' w', cp_step d w f = Some (d', w') /\ cp_inv d' w' /\ w' <= w + cp_inc d /\ cp_inc d' = cp_inc d;
  cp_inc_law d w : cp_inv d w -> 0 <= cp_inc d;
  cp_low_law d w : cp_inv d w -> cp_low <= w
}.

Section Handler.
Context {D : Type} `{CreditPolicyLaws D}.

(** The handler [rcvr_flow_control] of a policy set. *)
Definition rcvr_flow_control (d : D) (pci : pdu) : M (Z * D) :=
  let! c := get_csv in
  match cp_step d c.(rcvr_credit) (pci.(attr) A_FLAGS) with
  | None => fault
  | Some (d, w) =>
      mod_csv (set_rcvr_credit w) ;;;
      let! sv := get_sv in
      mod_csv (fun c => set_rcvr_rt_wind_edge (cp_edge c.(rcvr_rt_wind_edge) (u32 (sv.(rcv_left_window_edge) + w))) c) ;;;
      ret (0, d)
  end.

(** The PDUs of a run, one after the other. *)
Fixpoint take_all (d : D) (l : list pdu) : M D :=
  match l with
  | [] => ret d
  | p :: l' => let! r := rcvr_flow_control d p in take_all (snd r) l'
  end.

Definition moved (w e : Z) (sv : dtcp_sv) : dtcp_sv := set_rcvr_rt_wind_edge e (set_rcvr_credit w sv).

Lemma handler_run d d' w (pci : pdu) c sv s :
  cp_step d sv.(rcvr_credit) (pci.(attr) A_FLAGS) = Some (d', w) ->
  rcvr_flow_control d pci (with_csv c sv s) =
    Some ((0, d'), with_csv c (moved w (cp_edge sv.(rcvr_rt_wind_edge) (u32 (s.(st_dtp).(dtp_sv_of).(rcv_left_window_edge) + w))) sv) s).
Proof.
  intros Hs. unfold rcvr_flow_control. rewrite (run_bind _ _ _ _ _ (get_csv_run (with_csv c sv s) (set_dtcp_sv_of sv c) eq_refl)).
  replace (dtcp_sv_of (set_dtcp_sv_of sv c)) with sv by by destruct c. rewrite Hs.
  destruct s as [dt0 o l], dt0, c, sv. reflexivity.
Qed.

Lemma moved_moved w e w' e' sv : moved w' e' (moved w e sv) = moved w' e' sv.
Proof. by destruct sv. Qed.

Lemma take_all_run l : forall d c sv s,
  cp_inv d sv.(rcvr_credit) -> sv.(rcvr_credit) + cp_inc d * Z.of_nat (length l) < cp_high ->
  exists d' w e, take_all d l (with_csv c sv s) = Some (d', with_csv c (moved w e sv) s) /\
    cp_inv d' w /\ w <= sv.(rcvr_credit) + cp_inc d * Z.of_nat (length l).
Proof.
  induction l as [|p l IH]; intros d c sv s Hi Hh.
  - exists d, sv.(rcvr_credit), sv.(rcvr_rt_wind_edge). replace (moved _ _ sv) with sv by by destruct sv.
    split; [done|]. split; [done|]. cbn. lia.
  - cbn [length] in Hh. pose proof (cp_inc_law _ _ Hi).
    destruct (cp_step_law d sv.(rcvr_credit) (p.(attr) A_FLAGS) Hi) as (d1 & w1 & Hs & Hi1 & Hw1 & Hinc); [nia|].
    cbn [take_all]. rewrite (run_bind _ _ _ _ _ (handler_run d d1 w1 p c sv s Hs)). cbn [snd].
    set (e1 := cp_edge _ _).
    destruct (IH d1 c (moved w1 e1 sv) s) as (d' & w & e & E & Hi' & Hw).
    + by replace (rcvr_credit (moved w1 e1 sv)) with w1 by by destruct sv.
    + replace (rcvr_credit (moved w1 e1 sv)) with w1 by by destruct sv. rewrite Hinc. nia.
    + replace (rcvr_credit (moved w1 e1 sv)) with w1 in Hw by by destruct sv.
      exists d', w, e. rewrite E, moved_moved. split; [done|]. split; [done|]. rewrite Hinc in Hw. cbn [length]. nia.
Qed.

(** On a run of PDUs a policy set changes the credit, which stays between [low] and what it may grow to
    by [inc] with each PDU, and the right window edge; nothing else of the connection, and without a
    fault. *)
Definition keeps_credit (d : D) (l : list pdu) (s : st) (c : dtcp) (low inc : Z) : Prop :=
  exists d' w e,
    take_all d l s = Some (d', with_csv c (set_rcvr_rt_wind_edge e (set_rcvr_credit w c.(dtcp_sv_of))) s) /\
    low <= w <= c.(dtcp_sv_of).(rcvr_credit) + inc * Z.of_nat (length l).

(** So does every policy set that keeps the laws. *)
Lemma credit_policy_safe (d : D) (l : list pdu) (s : st) (c : dtcp) :
  s.(st_dtp).(dtp_dtcp) = Some c -> cp_inv d c.(dtcp_sv_of).(rcvr_credit) ->
  c.(dtcp_sv_of).(rcvr_credit) + cp_inc d * Z.of_nat (length l) < cp_high -> keeps_credit d l s c cp_low (cp_inc d).
Proof.
  intros Hc Hi Hh. destruct (take_all_run l d c (dtcp_sv_of c) s Hi Hh) as (d' & w & e & E & Hi' & Hw).
  exists d', w, e. rewrite <- (with_csv_id c s Hc) at 1. split; [exact E|]. split; [by eapply cp_low_law|done].
Qed.
End Handler.

Definition DEC_PRECISION : Z := 1000000.

Inductive tx_state := SLOW_START | CONG_AVOID.

Definition marked (flags : Z) : bool := negb (Z.land flags PDU_FLAGS_EXPLICIT_CONGESTION =? 0).

(** Additive increase: one more PDU of credit per credit's worth of PDUs. *)
Definition add_fraction (dec w : Z) : option (Z * Z) :=
  if w =? 0 then None
  else
    let dec := u32 (dec + DEC_PRECISION / w) in
    Some (if DEC_PRECISION <=? dec then (u32 (dec - DEC_PRECISION), u32 (w + 1)) else (dec, w)).

Lemma add_fraction_spec dec w :
  0 <= dec < DEC_PRECISION -> 2 <= w < 2 ^ 32 - 1 ->
  exists dec' w', add_fraction dec w = Some (dec', w') /\ 0 <= dec' < DEC_PRECISION /\ w <= w' <= w + 1.
Proof.
  unfold add_fraction, DEC_PRECISION. intros Hd Hw. destruct (Z.eqb_spec w 0); [lia|].
  assert (0 <= 1000000 / w < 1000000) as Hq.
  { split; [apply Z.div_pos; lia|apply Z.div_lt_upper_bound; lia]. }
  rewrite uwrap_small by (unfold in_u; lia). destruct (Z.leb_spec 1000000 (dec + 1000000 / w)).
  - rewrite !uwrap_small by (unfold in_u; lia). eexists _, _. split; [reflexivity|]. lia.
  - eexists _, _. split; [reflexivity|]. lia.
Qed.

(** [kstrtoint] is a function of Linux. *)
Section Parameters.
Context (kstrtoint : cstring -> option Z).

(** The policy set has one parameter; a value that does not parse is ignored. *)
Definition set_one_param {D} (param : string) (put : Z -> D -> D) (d : D) (name value : string_ptr) : Z * D :=
  match name, value with
  | Some name, Some value =>
      (0, if strcmp_eq name (c_str param)
          then match kstrtoint value with Some v => put (u32 v) d | None => d end
          else d)
  | _, _ => (-1, d)
  end.
End Parameters.

(** ** DCTCP *)

Module Dctcp.

Definition DCTCP_MAX_ALPHA : Z := 1024.

Record dctcp_dtcp_ps_data := mk_data {
  init_credit : Z;
  sshtresh : Z;
  state : tx_state;
  dec_credit : Z;
  shift_g : Z;
  sent_total : Z;
  ecn_total : Z;
  dctcp_alpha : Z;
  obs_window_size : Z
}.

Implicit Types d : dctcp_dtcp_ps_data.

Definition set_window (th : Z) (st : tx_state) (dec sent ecn : Z) d : dctcp_dtcp_ps_data :=
  mk_data d.(init_credit) th st dec d.(shift_g) sent ecn d.(dctcp_alpha) d.(obs_window_size).

(** [alpha = (1-g) * alpha + g * F], at the end of an observation window. *)
Definition update_alpha (w : Z) d : option dctcp_dtcp_ps_data :=
  if d.(obs_window_size) <=? d.(sent_total) then
    if (10 <? d.(shift_g)) || (d.(sent_total) =? 0) then None
    else
      let alpha_old := d.(dctcp_alpha) in
      let alpha := u32 (u32 (alpha_old - Z.shiftr alpha_old d.(shift_g)) +
                        u32 (Z.shiftl d.(ecn_total) (10 - d.(shift_g))) / d.(sent_total)) in
      Some (mk_data d.(init_credit) d.(sshtresh) d.(state) d.(dec_credit) d.(shift_g) 0 0 alpha w)
  else Some d.

(** The new data and credit; [w] is the credit, [flags] are those of the PDU. *)
Definition dctcp_rcvr_flow_control d (w flags : Z) : option (dctcp_dtcp_ps_data * Z) :=
  let st := if d.(sshtresh) <=? w then CONG_AVOID else d.(state) in
  let sent := u32 (d.(sent_total) + 1) in
  if marked flags then
    let w := Z.max (u32 (w - Z.shiftr (u32 (w * d.(dctcp_alpha))) 11)) 2 in
    d ← update_alpha w (set_window w CONG_AVOID d.(dec_credit) sent (u32 (d.(ecn_total) + 1)) d);
    Some (d, w)
  else
    '(dec, w) ← (match st with SLOW_START => Some (d.(dec_credit), u32 (w + 1)) | CONG_AVOID => add_fraction d.(dec_credit) w end);
    d ← update_alpha w (set_window d.(sshtresh) st dec sent d.(ecn_total) d);
    Some (d, w).

(** The structure is allocated with zeros: the first [alpha] is 0. *)
Definition dctcp_initial : dctcp_dtcp_ps_data := mk_data 3 0xFFFFFFFF SLOW_START 0 4 0 0 0 3.

(** Two allocations, and the credit of the connection. *)
Definition dtcp_ps_dctcp_create : M (option dctcp_dtcp_ps_data) :=
  let! ps := ask in
  let! data := ask in
  let! dtp := get_dtp in
  match dtp.(dtp_dtcp) with
  | None => ret None
  | Some c =>
      if negb ps || negb data then ret None
      else mod_csv (set_rcvr_credit dctcp_initial.(init_credit)) ;;; ret (Some dctcp_initial)
  end.

Definition put_shift_g (v : Z) d : dctcp_dtcp_ps_data :=
  mk_data d.(init_credit) d.(sshtresh) d.(state) d.(dec_credit) v d.(sent_total) d.(ecn_total) d.(dctcp_alpha) d.(obs_window_size).

Definition dtcp_ps_set_policy_set_param (kstrtoint : cstring -> option Z) d (name value : string_ptr) : Z * dctcp_dtcp_ps_data :=
  set_one_param kstrtoint "shift_g" put_shift_g d name value.

(** [alpha] is a fraction of 1024; a window has no more marks than PDUs. *)
Record data_ok d (w : Z) : Prop := {
  ok_credit : 2 <= w;
  ok_alpha : 0 <= d.(dctcp_alpha) <= DCTCP_MAX_ALPHA;
  ok_shift : 0 <= d.(shift_g) <= 10;
  ok_ecn : 0 <= d.(ecn_total) <= d.(sent_total);
  ok_sent : d.(sent_total) < d.(obs_window_size);
  ok_window : d.(obs_window_size) < 2 ^ 21;
  ok_dec : 0 <= d.(dec_credit) < DEC_PRECISION
}.

(** The new [alpha] is again a fraction. *)
Lemma alpha_range g a ecn sent :
  0 <= g <= 10 -> 0 <= a <= 1024 -> 0 <= ecn <= sent -> 0 < sent ->
  0 <= a - Z.shiftr a g /\ a - Z.shiftr a g + Z.shiftl ecn (10 - g) / sent <= 1024.
Proof.
  intros Hg Ha He Hs. rewrite Z.shiftr_div_pow2, Z.shiftl_mul_pow2 by lia.
  assert (1 <= 2 ^ g) by (pose proof (Z.pow_pos_nonneg 2 g); lia).
  assert (2 ^ g * 2 ^ (10 - g) = 1024) as Hp by (rewrite <- Z.pow_add_r by lia; replace (g + (10 - g)) with 10 by lia; done).
  set (q := 2 ^ g) in *. set (r := 2 ^ (10 - g)) in *.
  assert (ecn * r / sent <= r) as H1 by (apply Z.div_le_upper_bound; nia).
  pose proof (Z.div_mod a q ltac:(lia)) as Hd. pose proof (Z.mod_pos_bound a q ltac:(lia)) as Hm.
  assert (0 <= a / q) by (apply Z.div_pos; lia). split; [nia|].
  assert (a - a / q <= 1024 - r); [|lia].
  assert (a / q <= r) by (apply Z.div_le_upper_bound; lia).
  destruct (Z.eq_dec (a / q) r) as [E|E]; [nia|]. assert (a / q <= r - 1) by lia.
  assert (a <= q * (a / q) + (q - 1)) by lia. nia.
Qed.

Lemma update_alpha_ok w d :
  2 <= w < 2 ^ 21 -> 0 <= d.(dctcp_alpha) <= 1024 -> 0 <= d.(shift_g) <= 10 -> 0 <= d.(ecn_total) <= d.(sent_total) ->
  1 <= d.(sent_total) <= 2 ^ 21 -> d.(obs_window_size) < 2 ^ 21 -> 0 <= d.(dec_credit) < DEC_PRECISION ->
  exists d', update_alpha w d = Some d' /\ data_ok d' w.
Proof.
  intros Hw Ha Hg He Hs Ho Hd. unfold update_alpha. destruct (Z.leb_spec d.(obs_window_size) d.(sent_total)) as [Hle|Hlt].
  2:{ eexists. split; [reflexivity|]. constructor; unfold DCTCP_MAX_ALPHA; lia. }
  destruct (Z.ltb_spec 10 d.(shift_g)); [lia|]. destruct (Z.eqb_spec d.(sent_total) 0); [lia|]. cbn [orb].
  destruct (alpha_range d.(shift_g) d.(dctcp_alpha) d.(ecn_total) d.(sent_total)) as [H1 H2]; try lia.
  eexists. split; [reflexivity|].
  assert (0 <= Z.shiftl (ecn_total d) (10 - shift_g d) < 2 ^ 32) as Hsh.
  { rewrite Z.shiftl_mul_pow2 by lia. assert (1 <= 2 ^ (10 - shift_g d) <= 2 ^ 10).
    { split; [pose proof (Z.pow_pos_nonneg 2 (10 - shift_g d)); lia|apply Z.pow_le_mono_r; lia]. } nia. }
  assert (0 <= Z.shiftl (ecn_total d) (10 - shift_g d) / sent_total d) by (apply Z.div_pos; lia).
  rewrite (uwrap_small 32 (Z.shiftl _ _)) by (unfold in_u; lia).
  assert (0 <= Z.shiftr (dctcp_alpha d) (shift_g d)) by (apply Z.shiftr_nonneg; lia).
  rewrite (uwrap_small 32 (dctcp_alpha d - _)) by (unfold in_u; lia). rewrite uwrap_small by (unfold in_u; lia).
  constructor; cbn; unfold DCTCP_MAX_ALPHA; lia.
Qed.

(** A mark takes at most half of the credit. *)
Lemma decrease_range w a : 2 <= w < 2 ^ 21 -> 0 <= a <= 1024 -> 0 <= Z.shiftr (u32 (w * a)) 11 <= w / 2.
Proof.
  intros Hw Ha. rewrite uwrap_small by (unfold in_u; nia). rewrite Z.shiftr_div_pow2 by lia. split; [apply Z.div_pos; nia|].
  change (2 ^ 11) with (1024 * 2). rewrite <- Z.div_div by lia. apply Z.div_le_mono; [lia|]. apply Z.div_le_upper_bound; nia.
Qed.

Lemma step_ok d w f :
  data_ok d w -> w + 1 < 2 ^ 21 ->
  exists d' w', dctcp_rcvr_flow_control d w f = Some (d', w') /\ data_ok d' w' /\ w' <= w + 1 /\
    (marked f = true -> w - w / 2 <= w' <= Z.max 2 w) /\ (marked f = false -> w <= w').
Proof.
  intros [Hw Ha Hg He Hs Ho Hd] Hh. unfold dctcp_rcvr_flow_control, DCTCP_MAX_ALPHA in *.
  rewrite (uwrap_small 32 (sent_total d + 1)) by (unfold in_u; lia).
  destruct (marked f) eqn:Em.
  - pose proof (decrease_range w d.(dctcp_alpha) ltac:(lia) ltac:(lia)) as Hr. set (x := Z.shiftr _ 11) in *.
    assert (w / 2 <= w) by (apply Z.div_le_upper_bound; lia). rewrite !uwrap_small by (unfold in_u; lia).
    edestruct (update_alpha_ok (Z.max (w - x) 2)) as (d' & -> & Hok); [..|eexists d', _; split; [reflexivity|]];
      cbn [set_window dctcp_alpha shift_g ecn_total sent_total obs_window_size dec_credit]; try lia.
    split; [done|]. split; [lia|]. split; [lia|done].
  - assert (exists dec w', (match (if d.(sshtresh) <=? w then CONG_AVOID else d.(state)) with
      | SLOW_START => Some (d.(dec_credit), u32 (w + 1)) | CONG_AVOID => add_fraction d.(dec_credit) w end) = Some (dec, w') /\
      0 <= dec < DEC_PRECISION /\ w <= w' <= w + 1) as (dec & w' & -> & Hdec & Hw').
    { destruct (if _ <=? _ then _ else _); [|apply add_fraction_spec; lia].
      rewrite uwrap_small by (unfold in_u; lia). eexists _, _. split; [reflexivity|]. lia. }
    cbn [mbind option_bind].
    edestruct (update_alpha_ok w') as (d' & -> & Hok); [..|eexists d', _; split; [reflexivity|]];
      cbn [set_window dctcp_alpha shift_g ecn_total sent_total obs_window_size dec_credit]; try lia.
    split; [done|]. split; [lia|]. split; [done|lia].
Qed.

#[global] Instance dctcp_policy : CreditPolicy dctcp_dtcp_ps_data := {|
  cp_step := dctcp_rcvr_flow_control;
  (* the window does not shrink *)
  cp_edge old new := if old <? new then new else old;
  cp_inv := data_ok;
  cp_inc _ := 1;
  cp_low := 2;
  cp_high := 2 ^ 21
|}.

#[global] Instance dctcp_policy_laws : CreditPolicyLaws dctcp_dtcp_ps_data.
Proof.
  split.
  - intros d w f Hi Hh. destruct (step_ok d w f Hi Hh) as (d' & w' & E & Hok & Hw & _). eauto 10.
  - intros d w _. cbn. lia.
  - intros d w []. cbn. lia.
Qed.

Lemma dctcp_initial_ok : data_ok dctcp_initial 3.
Proof. split; cbn; unfold DCTCP_MAX_ALPHA, DEC_PRECISION; lia. Qed.
End Dctcp.

(** ** RED *)

Module Red.

Record red_dtcp_ps_data := mk_data {
  new_ecn_burst : Z;
  init_credit : Z;
  sshtresh : Z;
  state : tx_state;
  dec_credit : Z
}.

Implicit Types d : red_dtcp_ps_data.

(** The increase of the credit, before the mark is looked at. *)
Definition grow d (w : Z) : option (red_dtcp_ps_data * Z) :=
  match d.(state) with
  | SLOW_START =>
      let w := u32 (w + 1) in
      Some (mk_data d.(new_ecn_burst) d.(init_credit) d.(sshtresh) (if d.(sshtresh) <=? w then CONG_AVOID else SLOW_START) d.(dec_credit), w)
  | CONG_AVOID =>
      '(dec, w) ← add_fraction d.(dec_credit) w;
      Some (mk_data d.(new_ecn_burst) d.(init_credit) d.(sshtresh) CONG_AVOID dec, w)
  end.

(** A mark halves the credit, at most once in as many PDUs as the credit was then. *)
Definition red_rcvr_flow_control d (w flags : Z) : option (red_dtcp_ps_data * Z) :=
  '(d, w) ← grow d w;
  if marked flags && (d.(new_ecn_burst) =? 0) then
    let w := if Z.shiftr w 1 <=? 2 then 2 else Z.shiftr w 1 in
    Some (mk_data w d.(init_credit) w CONG_AVOID d.(dec_credit), w)
  else if negb (d.(new_ecn_burst) =? 0) then
    Some (mk_data (u32 (d.(new_ecn_burst) - 1)) d.(init_credit) d.(sshtresh) d.(state) d.(dec_credit), w)
  else Some (d, w).

Definition red_initial : red_dtcp_ps_data := mk_data 0 3 0xFFFFFFFF SLOW_START 0.

Definition dtcp_ps_red_create : M (option red_dtcp_ps_data) :=
  let! ps := ask in
  let! data := ask in
  let! dtp := get_dtp in
  match dtp.(dtp_dtcp) with
  | None => ret None
  | Some c =>
      if negb ps || negb data then ret None
      else mod_csv (set_rcvr_credit red_initial.(init_credit)) ;;; ret (Some red_initial)
  end.

Record data_ok d (w : Z) : Prop := {
  ok_credit : 2 <= w;
  ok_dec : 0 <= d.(dec_credit) < DEC_PRECISION;
  ok_burst : in_u 32 d.(new_ecn_burst)
}.

Lemma grow_ok d w :
  data_ok d w -> w + 1 < 2 ^ 32 - 1 ->
  exists d' w', grow d w = Some (d', w') /\ data_ok d' w' /\ w <= w' <= w + 1.
Proof.
  intros [Hw Hd Hb] Hh. unfold grow. destruct d.(state).
  - rewrite uwrap_small by (unfold in_u; lia). eexists _, _. split; [reflexivity|]. split; [constructor; cbn; (lia || done)|lia].
  - destruct (add_fraction_spec d.(dec_credit) w Hd) as (dec & w' & -> & Hdec & Hw'); [lia|]. cbn [mbind option_bind].
    eexists _, _. split; [reflexivity|]. split; [constructor; cbn; (lia || done)|lia].
Qed.

#[global] Instance red_policy : CreditPolicy red_dtcp_ps_data := {|
  cp_step := red_rcvr_flow_control;
  cp_edge old new := if old <? new then new else old;
  cp_inv := data_ok;
  cp_inc _ := 1;
  cp_low := 2;
  cp_high := 2 ^ 32 - 1
|}.

#[global] Instance red_policy_laws : CreditPolicyLaws red_dtcp_ps_data.
Proof.
  split; [|intros d w _; cbn; lia|intros d w []; cbn; lia].
  intros d w f Hi Hh. cbn [cp_step cp_inv cp_inc cp_high red_policy] in *. unfold red_rcvr_flow_control.
  destruct (grow_ok d w Hi Hh) as (d1 & w1 & -> & [Hw1 Hd1 Hb1] & Hg). cbn [mbind option_bind].
  destruct (marked f && _) eqn:Em; [|destruct (Z.eqb_spec d1.(new_ecn_burst) 0) as [E|E]; cbn [negb]];
    eexists _, _; (split; [reflexivity|]).
  - assert (0 <= Z.shiftr w1 1 <= w1) as Hs.
    { rewrite Z.shiftr_div_pow2 by lia. change (2 ^ 1) with 2. split; [apply Z.div_pos; lia|apply Z.div_le_upper_bound; lia]. }
    split; [|split; [|done]]; [constructor; cbn|]; try done; unfold in_u in *; destruct (Z.leb_spec (Z.shiftr w1 1) 2); lia.
  - split; [by constructor|]. split; [lia|done].
  - split; [constructor; cbn; try done|split; [lia|done]]. apply uwrap_range. lia.
Qed.

Lemma red_initial_ok : data_ok red_initial 3.
Proof. split; cbn; unfold in_u, DEC_PRECISION; lia. Qed.
End Red.

(** ** CAS: congestion avoidance with a window in fixed point *)

Module Cas.

Record cas_dtcp_ps_data := mk_data {
  wc : Z;
  wp : Z;
  w_inc_a_p : Z;
  ecn_count : Z;
  rcv_count : Z;
  real_window : Z      (* 16 bits of fraction *)
}.

Implicit Types d : cas_dtcp_ps_data.

Definition round_half_to_even (real_window : Z) : Z :=
  let decimal_part := Z.land real_window 0x0000FFFF in
  let integer_part := Z.shiftr (Z.land real_window 0xFFFF0000) 16 in
  if 0x00007FFF <? decimal_part then u32 (integer_part + 1)
  else if decimal_part <? 0x00007FFF then integer_part
  else if Z.land integer_part 1 =? 0 then u32 (integer_part + 1)
  else integer_part.

(** The end of an observation window, of [wc] PDUs after the [wp] of the one before. *)
Definition update_window d : cas_dtcp_ps_data :=
  let wp := d.(wc) in
  if Z.shiftr d.(wc) 1 <? d.(ecn_count) then
    if negb (d.(wc) =? 1) then
      let real := u32 (d.(real_window) - Z.shiftr d.(real_window) 3) in
      mk_data (round_half_to_even real) wp d.(w_inc_a_p) 0 0 real
    else mk_data d.(wc) wp d.(w_inc_a_p) 0 0 d.(real_window)
  else
    let real := u32 (d.(real_window) + u32 (Z.shiftl d.(w_inc_a_p) 16)) in
    mk_data (round_half_to_even real) wp d.(w_inc_a_p) 0 0 real.

Definition cas_rcvr_flow_control d (w flags : Z) : option (cas_dtcp_ps_data * Z) :=
  let rcv := u32 (d.(rcv_count) + 1) in
  let ecn := if (d.(wp) <? rcv) && marked flags then u32 (d.(ecn_count) + 1) else d.(ecn_count) in
  let d := mk_data d.(wc) d.(wp) d.(w_inc_a_p) ecn rcv d.(real_window) in
  if rcv =? u32 (d.(wc) + d.(wp)) then let d := update_window d in Some (d, d.(wc))
  else Some (d, w).

Definition W_INC_A_P_DEFAULT : Z := 1.

Definition put_w_inc_a_p (v : Z) d : cas_dtcp_ps_data :=
  mk_data d.(wc) d.(wp) v d.(ecn_count) d.(rcv_count) d.(real_window).

Definition dtcp_ps_cas_set_policy_set_param (kstrtoint : cstring -> option Z) d (name value : string_ptr) : Z * cas_dtcp_ps_data :=
  set_one_param kstrtoint "w_inc_a_p" put_w_inc_a_p d name value.

Definition cas_initial (credit : Z) : cas_dtcp_ps_data :=
  mk_data credit 0 W_INC_A_P_DEFAULT 0 0 (u32 (Z.shiftl credit 16)).

(** The parameter is looked up in the configuration; the credit of the connection is not set. *)
Definition dtcp_ps_cas_create (kstrtoint : cstring -> option Z) : M (option cas_dtcp_ps_data) :=
  let! ps := ask in
  let! data := ask in
  let! dtp := get_dtp in
  match dtp.(dtp_dtcp) with
  | None => ret None
  | Some c =>
      if negb ps || negb data then ret None
      else
        match c.(dtcp_cfg).(dc_dtcp_ps) with
        | None => ret None
        | Some ps_conf =>
            match policy_param_find (Some ps_conf) (Some (c_str "w_inc_a_p")) with
            | None => fault
            | Some prm =>
                ret (Some (snd (dtcp_ps_cas_set_policy_set_param kstrtoint (cas_initial (dtcp_initial_credit c.(dtcp_cfg)))
                                  (policy_param_name prm) (policy_param_value prm))))
            end
        end
  end.

(** ** Rounding *)

Lemma parts r : in_u 32 r ->
  Z.land r 0x0000FFFF = r mod 65536 /\ Z.shiftr (Z.land r 0xFFFF0000) 16 = r / 65536.
Proof.
  intros Hr. change 0x0000FFFF with (Z.ones 16). rewrite Z.land_ones by lia. split; [done|].
  change 0xFFFF0000 with (Z.shiftl (Z.ones 16) 16).
  rewrite Z.shiftr_land, Z.shiftr_shiftl_l, Z.shiftl_0_r, Z.land_ones, Z.shiftr_div_pow2 by lia.
  change (2 ^ 16) with 65536. apply Z.mod_small. unfold in_u in Hr. split; [apply Z.div_pos; lia|apply Z.div_lt_upper_bound; lia].
Qed.

(** How far a window is from its rounded value. *)
Lemma round_range r : in_u 32 r -> - 32769 <= r - 65536 * round_half_to_even r <= 32767 /\ r / 65536 <= round_half_to_even r <= 65536.
Proof.
  intros Hr. unfold round_half_to_even. destruct (parts r Hr) as [-> ->]. unfold in_u in Hr.
  pose proof (Z.div_mod r 65536 ltac:(lia)). pose proof (Z.mod_pos_bound r 65536 ltac:(lia)).
  assert (0 <= r / 65536 <= 65535).
  { split; [apply Z.div_pos; lia|]. assert (r / 65536 < 65536); [apply Z.div_lt_upper_bound; lia|lia]. }
  destruct (Z.ltb_spec 32767 (r mod 65536)); [rewrite uwrap_small by (unfold in_u; lia); lia|].
  destruct (Z.ltb_spec (r mod 65536) 32767); [lia|].
  destruct (_ =? 0); [rewrite uwrap_small by (unfold in_u; lia)|]; lia.
Qed.

(** The rounding is not to even: a window of an even number of PDUs and a half becomes odd, and so
    does one just below the half. *)
Lemma round_to_odd n :
  0 <= n < 65535 -> Z.even n = true ->
  round_half_to_even (65536 * n + 0x8000) = n + 1 /\ round_half_to_even (65536 * n + 0x7FFF) = n + 1.
Proof.
  intros Hn He. unfold round_half_to_even.
  destruct (parts (65536 * n + 0x8000)) as [-> ->]; [unfold in_u; lia|]. destruct (parts (65536 * n + 0x7FFF)) as [-> ->]; [unfold in_u; lia|].
  replace (65536 * n + 0x8000) with (0x8000 + n * 65536) by lia. replace (65536 * n + 0x7FFF) with (0x7FFF + n * 65536) by lia.
  rewrite !Z.mod_add, !Z.div_add by lia. change (0x8000 mod 65536) with 32768. change (0x7FFF mod 65536) with 32767.
  change (0x8000 / 65536) with 0. change (0x7FFF / 65536) with 0. rewrite !Z.add_0_l. cbn [Z.ltb Z.compare].
  replace (Z.land n 1) with (n mod 2) by (symmetry; apply (Z.land_ones n 1); lia). rewrite Zmod_even, He. cbn [Z.eqb].
  rewrite uwrap_small by (unfold in_u; lia). done.
Qed.

(** The window is at least one PDU, and its fixed-point value rounds to it. *)
Record data_ok d (w : Z) : Prop := {
  ok_credit : w = d.(wc);
  ok_low : 1 <= d.(wc);
  ok_round : d.(wc) = round_half_to_even d.(real_window);
  ok_real : in_u 32 d.(real_window);
  ok_before : 0 <= d.(wp) <= 65536;
  ok_count : 0 <= d.(rcv_count) < d.(wc) + d.(wp);
  ok_inc : 0 <= d.(w_inc_a_p)
}.

Lemma update_window_ok d :
  1 <= d.(wc) -> d.(wc) = round_half_to_even d.(real_window) -> in_u 32 d.(real_window) -> 0 <= d.(w_inc_a_p) ->
  d.(wc) + (d.(w_inc_a_p) + 1) < 65536 ->
  data_ok (update_window d) (update_window d).(wc) /\ (update_window d).(wc) <= d.(wc) + (d.(w_inc_a_p) + 1) /\
  (update_window d).(w_inc_a_p) = d.(w_inc_a_p).
Proof.
  intros Hl Hr Hu Hi Hh. pose proof (round_range _ Hu) as [Hd _]. rewrite <- Hr in Hd. unfold in_u in Hu.
  unfold update_window. destruct (_ <? _); [destruct (Z.eqb_spec d.(wc) 1) as [E|E]; cbn [negb]|].
  - split; [constructor; cbn; unfold in_u; (lia || done)|]. cbn. lia.
  - rewrite Z.shiftr_div_pow2 by lia. change (2 ^ 3) with 8.
    pose proof (Z.div_mod (real_window d) 8 ltac:(lia)). pose proof (Z.mod_pos_bound (real_window d) 8 ltac:(lia)).
    rewrite uwrap_small by (unfold in_u; lia). set (r := real_window d - real_window d / 8).
    assert (in_u 32 r) as Hr' by (unfold in_u; lia). pose proof (round_range r Hr') as [Hd' Hq].
    split; [constructor; cbn; try (lia || done)|cbn; lia].
  - rewrite Z.shiftl_mul_pow2 by lia. change (2 ^ 16) with 65536. rewrite (uwrap_small 32 (_ * _)) by (unfold in_u; lia).
    rewrite uwrap_small by (unfold in_u; lia). set (r := real_window d + w_inc_a_p d * 65536).
    assert (in_u 32 r) as Hr' by (unfold in_u; lia). pose proof (round_range r Hr') as [Hd' Hq].
    assert (1 <= round_half_to_even r) as H1.
    { destruct (Z.eq_dec (w_inc_a_p d) 0) as [E|E]; [|lia].
      replace r with (real_window d) by (subst r; rewrite E; lia). by rewrite <- Hr. }
    split; [constructor; cbn; try (lia || done)|cbn; lia].
Qed.

#[global] Instance cas_policy : CreditPolicy cas_dtcp_ps_data := {|
  cp_step := cas_rcvr_flow_control;
  (* the window may shrink *)
  cp_edge _ new := new;
  cp_inv := data_ok;
  cp_inc d := d.(w_inc_a_p) + 1;
  cp_low := 1;
  cp_high := 65536
|}.

#[global] Instance cas_policy_laws : CreditPolicyLaws cas_dtcp_ps_data.
Proof.
  split; [|intros d w []; cbn; lia|intros d w []; cbn; lia].
  intros d w f [Hw Hl Hr Hu Hb Hc Hi] Hh. cbn [cp_step cp_inv cp_inc cp_high cas_policy] in *. unfold cas_rcvr_flow_control.
  cbn [wc wp]. rewrite (uwrap_small 32 (rcv_count d + 1)), (uwrap_small 32 (wc d + wp d)) by (unfold in_u; lia).
  set (ecn := if _ && _ then _ else _). destruct (Z.eqb_spec (rcv_count d + 1) (wc d + wp d)).
  - set (d1 := mk_data _ _ _ ecn _ _). destruct (update_window_ok d1) as (Hok & Hw' & Hi'); cbn; try (lia || done).
    eexists _, _. split; [reflexivity|]. cbn in Hw', Hi'. split; [done|]. rewrite Hi'. split; [lia|done].
  - eexists _, _. split; [reflexivity|]. split; [constructor; cbn; try (lia || done)|cbn; lia].
Qed.

Lemma cas_initial_ok credit : 1 <= credit <= 65535 -> data_ok (cas_initial credit) credit.
Proof.
  intros Hc. unfold cas_initial. rewrite Z.shiftl_mul_pow2 by lia. change (2 ^ 16) with 65536.
  rewrite uwrap_small by (unfold in_u; lia). constructor; cbn; unfold W_INC_A_P_DEFAULT, in_u; try lia.
  unfold round_half_to_even. destruct (parts (credit * 65536)) as [-> ->]; [unfold in_u; lia|].
  by rewrite Z.mod_mul, Z.div_mul by lia.
Qed.

(** Above 65534 PDUs the fixed-point window wraps around: the credit falls to 0. *)
Example window_wraps :
  round_half_to_even (u32 (0xFFFF0000 + u32 (Z.shiftl 1 16))) = 0 /\
  cas_rcvr_flow_control (mk_data 65535 65535 1 0 131069 0xFFFF0000) 65535 0 = Some (mk_data 0 65535 1 0 0 0, 0).
Proof. split; vm_compute; reflexivity. Qed.
End Cas.

(** C27: the congestion control policies of DCTCP, RED and CAS, from the state they are created in and on
    every run of PDUs, marked or not: they do not fault (no division by zero, no shift out of range), change nothing of the
    connection but the credit and the right window edge, and keep the credit above 2, 2 and 1 PDUs and
    below a growth of 1, 1 and 2 with every PDU - as long as it stays below 2^21, 2^32 - 1 and 2^16
    PDUs, where their arithmetic wraps around. *)
Theorem cc_policies_safe (l : list pdu) (s : st) (c : dtcp) (w := c.(dtcp_sv_of).(rcvr_credit)) :
  s.(st_dtp).(dtp_dtcp) = Some c ->
  (w = 3 -> 3 + Z.of_nat (length l) < 2 ^ 21 -> keeps_credit Dctcp.dctcp_initial l s c 2 1) /\
  (w = 3 -> 3 + Z.of_nat (length l) < 2 ^ 32 - 1 -> keeps_credit Red.red_initial l s c 2 1) /\
  (1 <= w -> w + 2 * Z.of_nat (length l) < 65536 -> keeps_credit (Cas.cas_initial w) l s c 1 2).
Proof.
  intros Hc. split; [|split].
  - intros Hw Hl. change (keeps_credit Dctcp.dctcp_initial l s c (cp_low (D := Dctcp.dctcp_dtcp_ps_data)) (cp_inc Dctcp.dctcp_initial)).
    apply (credit_policy_safe Dctcp.dctcp_initial l s c Hc); fold w; rewrite Hw; [exact Dctcp.dctcp_initial_ok|].
    cbn [cp_inc cp_high Dctcp.dctcp_policy]. lia.
  - intros Hw Hl. change (keeps_credit Red.red_initial l s c (cp_low (D := Red.red_dtcp_ps_data)) (cp_inc Red.red_initial)).
    apply (credit_policy_safe Red.red_initial l s c Hc); fold w; rewrite Hw; [exact Red.red_initial_ok|].
    cbn [cp_inc cp_high Red.red_policy]. lia.
  - intros Hw Hl. change (keeps_credit (Cas.cas_initial w) l s c (cp_low (D := Cas.cas_dtcp_ps_data)) (cp_inc (Cas.cas_initial w))).
    apply (credit_policy_safe (Cas.cas_initial w) l s c Hc); fold w; [apply Cas.cas_initial_ok; lia|].
    cbn [cp_inc cp_high Cas.cas_policy Cas.cas_initial Cas.w_inc_a_p Cas.W_INC_A_P_DEFAULT]. unfold Cas.W_INC_A_P_DEFAULT. lia.
Qed.
