(* ===== verification/CcExamples.v ===== *)
(** * DCTCP, RED and CAS on a concrete connection *)

From S2P Require Import Prelude Kucommon Pci Rds Queues EfcpState EfcpExamples LgcDtcp CcDtcp.
From Stdlib Require Import ZArith Lia.
From stdpp Require Import base list numbers option.
#[local] Open Scope Z_scope.

Definition ex_cc_dtcp : dtcp := set_dtcp_sv_of (set_rcvr_credit 3 (ex_dtcp 7 0).(dtcp_sv_of)) (ex_dtcp 7 0).
Definition ex_cc_st : st := set_st_dtp (set_dtp_dtcp (Some ex_cc_dtcp) (ex_dtp 7 0 false [])) (ex_st 7 0 false []).

(** Four PDUs without and one with a congestion mark. *)
Definition ex_marked (n : Z) : pdu :=
  let p := ex_pdu n [1] in mk_pdu (fun a => match a with A_FLAGS => PDU_FLAGS_EXPLICIT_CONGESTION | _ => p.(attr) a end) p.(pdu_data).
Definition ex_run : list pdu := [ex_pdu 8 [1]; ex_pdu 9 [1]; ex_pdu 10 [1]; ex_pdu 11 [1]; ex_marked 12].

Lemma cc_policies_safe_witness :
  keeps_credit Dctcp.dctcp_initial ex_run ex_cc_st ex_cc_dtcp 2 1 /\
  keeps_credit Red.red_initial ex_run ex_cc_st ex_cc_dtcp 2 1 /\
  keeps_credit (Cas.cas_initial 3) ex_run ex_cc_st ex_cc_dtcp 1 2.
Proof.
  destruct (cc_policies_safe ex_run ex_cc_st ex_cc_dtcp eq_refl) as (H1 & H2 & H3).
  split; [|split]; [apply H1|apply H2|apply H3]; (reflexivity || (vm_compute; congruence)).
Defined.

Definition credit_after {D} `{CreditPolicy D} (d : D) : option Z :=
  match take_all d ex_run ex_cc_st with
  | Some (_, s) => match s.(st_dtp).(dtp_dtcp) with Some c => Some c.(dtcp_sv_of).(rcvr_credit) | None => None end
  | None => None
  end.

(** The first mark does nothing to the credit of DCTCP, whose [alpha] is still 0; RED halves it; CAS
    counts it. *)
Example ex_credits :
  credit_after Dctcp.dctcp_initial = Some 7 /\ credit_after Red.red_initial = Some 4 /\ credit_after (Cas.cas_initial 3) = Some 4.
Proof. vm_compute. done. Qed.
