(* ===== verification/CcRmt.v ===== *)
(** * Marking at the RMT: DCTCP, RED and CAS

    The RMT halves of three congestion control plugins ([src/plugins/dctcp/rmt-ps-dctcp.c],
    [red/rmt-ps-red.c], [cong_avoidance/rmt-ps-cas.c]): one queue per N-1 port, and a congestion mark
    on PDUs that find it long.  DCTCP and RED are instances of [RmtPs] and keep its laws, so that the
    theorems on the RMT hold with them; CAS does not ([Cas.dequeue_destroys]).

    [linux/red.h] is a parameter ([RedLinux]), as are the conversion of strings to integers, the clock
    and the random numbers. *)

From S2P Require Import Prelude Kucommon Pci Rds Queues EfcpState Policies RmtPs LgcDtcp.
From Stdlib Require Import ZArith Lia String.
From stdpp Require Import base list numbers option.
Import Rqueue Rfifo FifoList.
#[local] Open Scope Z_scope.

Section Mark.
Context (D : dt_cons).

(** [pci_flags_set] with one more flag; its result is not looked at. *)
Definition mark_ecn (p : pdu) : pdu :=
  snd (pdu_set D p A_FLAGS (u8 (Z.lor (p.(attr) A_FLAGS) PDU_FLAGS_EXPLICIT_CONGESTION))).
End Mark.

(** What the creation of the three queues does to the allocations. *)
Definition fifo_for {Q} (mk : option (rfifo pdu) -> Q) (o : oracle) : option Q * oracle :=
  let '(ok, o) := rkmalloc o in
  if negb ok then (None, o)
  else
    let '(f, o) := rfifo_create_ni o in
    match f with None => (None, o) | Some f => (Some (mk (Some f)), o) end.

(** The destruction of a queue: its result and the PDUs destroyed. *)
Definition destroy_queue (ps port : bool) (f : option (option (rfifo pdu))) : Z * list pdu :=
  if negb ps || negb port then (-1, [])
  else match f with Some f => (0, destroyed_fifo f) | None => (-1, []) end.

(** ** DCTCP *)

Module DctcpRmt.
Section DctcpRmt.
Context (D : dt_cons) (kstrtoint : cstring -> option Z).

Definition DEFAULT_Q_THRESHOLD : Z := 20.
Definition DEFAULT_Q_MAX : Z := 200.

Record dctcp_rmt_ps_data := mk_data { q_threshold : Z; q_max : Z }.
Record dctcp_rmt_queue := mk_queue { queue : option (rfifo pdu); q_port_id : Z }.

Abbreviation port_t := (ps_port dctcp_rmt_queue).

Definition dctcp_queue_create (port : Z) (o : oracle) : option dctcp_rmt_queue * oracle :=
  fifo_for (fun f => mk_queue f port) o.

Definition dctcp_rmt_q_create_policy (ps : option (option dctcp_rmt_ps_data)) (port : option port_t) (o : oracle)
  : option dctcp_rmt_queue * oracle :=
  match ps, port with Some (Some _), Some port => dctcp_queue_create port.(port_id) o | _, _ => (None, o) end.

Definition dctcp_rmt_q_destroy_policy (ps : option (option dctcp_rmt_ps_data)) (port : option port_t) : Z * list pdu :=
  match ps, port with
  | Some _, Some port => destroy_queue true true (queue <$> port.(rmt_ps_queues))
  | _, _ => (-1, [])
  end.

(** The result, the port and the fate of the PDU.  [mem] tells whether the allocation in
    [rfifo_push_ni] succeeds; its result is not looked at. *)
Definition dctcp_rmt_enqueue_policy (ps : option (option dctcp_rmt_ps_data)) (port : option port_t) (du : option pdu)
  (must_enqueue mem : bool) : option (Z * option port_t * fate) :=
  match ps with
  | None => None
  | Some data =>
      match port, du, data with
      | Some po, Some p, Some d =>
          match po.(rmt_ps_queues) with
          | None => Some (RMT_PS_ENQ_ERR, port, Destroyed p)
          | Some q =>
              let qlen := u32 (rfifo_length q.(queue)) in
              let full := d.(q_max) <=? qlen in
              if full && negb (pdu_type p =? PDU_TYPE_MGMT) then Some (RMT_PS_ENQ_DROP, port, Destroyed p)
              else
                let p := if (d.(q_threshold) <=? qlen) && negb full then mark_ecn D p else p in
                if negb must_enqueue && rfifo_is_empty q.(queue) then Some (RMT_PS_ENQ_SEND, port, Sent p)
                else
                  let '(_, f) := rfifo_push mem q.(queue) p in
                  Some (RMT_PS_ENQ_SCHED, Some (mk_ps_port po.(port_id) (Some (mk_queue f q.(q_port_id)))),
                        if mem then Queued p else Lost p)
          end
      | _, _, _ => Some (RMT_PS_ENQ_ERR, port, Untouched)
      end
  end.

Definition dctcp_rmt_dequeue_policy (ps : option (option dctcp_rmt_ps_data)) (port : option port_t)
  : option (option pdu * option port_t) :=
  match ps with
  | None => None
  | Some data =>
      match port, data with
      | Some po, Some _ =>
          match po.(rmt_ps_queues) with
          | None => Some (None, port)
          | Some q =>
              let '(r, f) := rfifo_pop q.(queue) in
              Some (r, Some (mk_ps_port po.(port_id) (Some (mk_queue f q.(q_port_id)))))
          end
      | _, _ => Some (None, port)
      end
  end.

Definition dctcp_rmt_ps_set_policy_set_param (d : dctcp_rmt_ps_data) (name value : string_ptr) : Z * dctcp_rmt_ps_data :=
  match name, value with
  | Some name, Some value =>
      let named s := strcmp_eq name (c_str s) in
      (0, mk_data (if named "q_threshold"%string then parsed (kstrtoint value) d.(q_threshold) u32 else d.(q_threshold))
            (if named "q_max"%string then parsed (kstrtoint value) d.(q_max) u32 else d.(q_max)))
  | _, _ => (-1, d)
  end.

(** [cfg] is the policy of the RMT configuration; [None] without a configuration. *)
Definition rmt_ps_load_param (d : dctcp_rmt_ps_data) (cfg : option (option policy)) (param_name : string) : option dctcp_rmt_ps_data :=
  ps_param ← match cfg with Some pol => policy_param_find pol (Some (c_str param_name)) | None => Some None end;
  Some (match ps_param with
        | None => d
        | Some p => snd (dctcp_rmt_ps_set_policy_set_param d (policy_param_name (Some p)) (policy_param_value (Some p)))
        end).

Definition rmt_ps_dctcp_create (cfg : option (option policy)) (o : oracle) : option (option dctcp_rmt_ps_data * oracle) :=
  let '(ok1, o) := rkmalloc o in
  if negb ok1 then Some (None, o)
  else let '(ok2, o) := rkmalloc o in
  if negb ok2 then Some (None, o)
  else
    d ← rmt_ps_load_param (mk_data DEFAULT_Q_THRESHOLD DEFAULT_Q_MAX) cfg "q_threshold";
    d ← rmt_ps_load_param d cfg "q_max";
    Some (Some d, o).

#[export] Instance dctcp_ps : RmtPs dctcp_rmt_ps_data dctcp_rmt_queue bool := {|
  ps_enqueue d q p must mem :=
    match dctcp_rmt_enqueue_policy (Some (Some d)) (Some (mk_ps_port 0 (Some q))) (Some p) must mem with
    | Some (r, Some (mk_ps_port _ (Some q')), f) => Some (r, d, q', f)
    | _ => None
    end;
  ps_dequeue d q :=
    match dctcp_rmt_dequeue_policy (Some (Some d)) (Some (mk_ps_port 0 (Some q))) with
    | Some (r, Some (mk_ps_port _ (Some q'))) => (r, q')
    | _ => (None, q)
    end;
  q_new := mk_queue (rfifo_create_gfp true true) 0;
  q_wf q := fifo_holds q.(queue) (fifo_list q.(queue));
  q_elems q := fifo_list q.(queue);
  x_mem mem := mem;
  ps_class _ := true
|}.

#[export] Instance dctcp_ps_laws : RmtPsLaws dctcp_rmt_ps_data dctcp_rmt_queue bool.
Proof.
  split.
  - split; [apply fifo_holds_new|done].
  - intros d q p must mem r d' q' f Hq Hmem Hl E. cbn [x_mem dctcp_ps] in Hmem. subst mem.
    cbn [ps_enqueue q_elems q_wf dctcp_ps] in *. unfold dctcp_rmt_enqueue_policy in E. cbn [rmt_ps_queues port_id] in E.
    destruct (_ && negb (_ =? PDU_TYPE_MGMT)); [simplify_eq; right; right; split; [by left|]; split; [done|]; split; [done|by left]|].
    set (p1 := if (_ <=? _) && _ then _ else _) in E. destruct (negb must && _) eqn:Es.
    + simplify_eq. right; left. apply andb_prop in Es as [Es _]. destruct must; [done|].
      split; [done|]. split; [done|]. split; [done|]. split; [done|]. by eexists.
    + left. pose proof (fifo_holds_push _ _ p1 true Hq ltac:(lia)) as Hp.
      destruct (rfifo_push true (queue q) p1) as [r0 f0]. cbn [snd] in Hp. simplify_eq. cbn [queue].
      rewrite (fifo_holds_list _ _ Hp). split; [done|]. split; [done|].
      eexists. split; [reflexivity|]. split; [rewrite length_app; cbn; lia|done].
  - intros d q Hq. cbn [ps_dequeue q_elems q_wf dctcp_ps] in *. unfold dctcp_rmt_dequeue_policy.
    cbn [rmt_ps_queues port_id]. destruct (fifo_holds_pop _ _ Hq) as [Hr Hp].
    destruct (rfifo_pop (queue q)) as [r f]. cbn [fst snd queue] in *. by rewrite (fifo_holds_list _ _ Hp).
Qed.

(** What is marked: a PDU that finds between [q_threshold] and [q_max] PDUs; what is dropped: one that
    finds [q_max], unless it is for management. *)
Lemma dctcp_enqueue_spec d q l p must id :
  fifo_holds q.(queue) l -> Z.of_nat (length l) < 2 ^ 32 - 1 ->
  let n := Z.of_nat (length l) in
  let p' := if (d.(q_threshold) <=? n) && (n <? d.(q_max)) then mark_ecn D p else p in
  exists q', dctcp_rmt_enqueue_policy (Some (Some d)) (Some (mk_ps_port id (Some q))) (Some p) must true =
    (if (d.(q_max) <=? n) && negb (pdu_type p =? PDU_TYPE_MGMT) then Some (RMT_PS_ENQ_DROP, Some (mk_ps_port id (Some q)), Destroyed p)
     else if negb must && bool_decide (l = []) then Some (RMT_PS_ENQ_SEND, Some (mk_ps_port id (Some q)), Sent p')
     else Some (RMT_PS_ENQ_SCHED, Some (mk_ps_port id (Some q')), Queued p')) /\
    fifo_holds q'.(queue) (l ++ [p']).
Proof.
  intros Hq Hl n p'. destruct (fifo_holds_length _ _ Hq) as [Hn He].
  pose proof (fifo_holds_push _ _ p' true Hq ltac:(lia)) as Hp.
  exists (mk_queue (snd (rfifo_push true q.(queue) p')) q.(q_port_id)). split; [|exact Hp].
  unfold dctcp_rmt_enqueue_policy. cbn [rmt_ps_queues port_id]. rewrite Hn, He, uwrap_small by (unfold in_u; lia). fold n.
  rewrite <- Z.ltb_antisym. fold p'.
  destruct (_ && negb _); [done|]. destruct (negb must && _); [done|]. by destruct (rfifo_push true (queue q) p').
Qed.
End DctcpRmt.
End DctcpRmt.

(** ** RED *)

(** [include/net/red.h] of Linux.  [red_action] takes a random number; it changes the variables. *)
Inductive red_act := RED_DONT_MARK | RED_PROB_MARK | RED_HARD_MARK.

Class RedLinux := {
  red_parms : Type;
  red_vars : Type;
  (* qth_min, qth_max, Wlog, Plog, Scell_log, stab *)
  red_set_parms : Z -> Z -> Z -> Z -> Z -> list Z -> red_parms;
  red_set_vars : red_vars;
  qavg : red_vars -> Z;
  put_qavg : Z -> red_vars -> red_vars;
  red_calc_qavg : red_parms -> red_vars -> Z -> Z;
  red_action : red_parms -> red_vars -> Z -> Z -> red_act * red_vars
}.

Module RedRmt.
Section RedRmt.
Context `{RedLinux} (D : dt_cons) (kstrtoint kstrtoul : cstring -> option Z) (copy_from_user : Z -> list Z * Z).

(** [struct tc_red_qopt]: what the policy set uses of it. *)
Record tc_red_qopt := mk_conf { limit : Z; qth_min : Z; qth_max : Z; Wlog : Z; Plog : Z; Scell_log : Z }.
Record red_rmt_ps_data := mk_data { conf_data : tc_red_qopt; stab : list Z }.
Record red_stats := mk_stats { forced_drop : Z; prob_mark : Z; forced_mark : Z }.
Record red_rmt_queue := mk_queue {
  queue : option (rfifo pdu); q_port_id : Z; parms : red_parms; vars : red_vars; stats : red_stats
}.

Abbreviation port_t := (ps_port red_rmt_queue).
Implicit Types q : red_rmt_queue.

Definition set_vars v q : red_rmt_queue := mk_queue q.(queue) q.(q_port_id) q.(parms) v q.(stats).
Definition set_stats s q : red_rmt_queue := mk_queue q.(queue) q.(q_port_id) q.(parms) q.(vars) s.
Definition set_fifo f q : red_rmt_queue := mk_queue f q.(q_port_id) q.(parms) q.(vars) q.(stats).

Definition red_queue_create (port : Z) (cfg : tc_red_qopt) (stab : list Z) (o : oracle) : option red_rmt_queue * oracle :=
  fifo_for (fun f => mk_queue f port (red_set_parms cfg.(qth_min) cfg.(qth_max) cfg.(Wlog) cfg.(Plog) cfg.(Scell_log) stab)
                       red_set_vars (mk_stats 0 0 0)) o.

Definition red_rmt_q_create_policy (ps : option (option red_rmt_ps_data)) (port : option port_t) (o : oracle)
  : option red_rmt_queue * oracle :=
  match ps, port with Some (Some d), Some port => red_queue_create port.(port_id) d.(conf_data) d.(stab) o | _, _ => (None, o) end.

Definition red_rmt_q_destroy_policy (ps : option (option red_rmt_ps_data)) (port : option port_t) : Z * list pdu :=
  match ps, port with
  | Some (Some _), Some port => destroy_queue true true (queue <$> port.(rmt_ps_queues))
  | _, _ => (-1, [])
  end.

Definition calc_qavg (qlen : Z) q : red_rmt_queue := set_vars (put_qavg (red_calc_qavg q.(parms) q.(vars) qlen) q.(vars)) q.

(** The action of RED on a PDU: the queue with its counters, and the PDU. *)
Definition act (rand : Z) (p : pdu) q : red_rmt_queue * pdu :=
  let '(a, v) := red_action q.(parms) q.(vars) (qavg q.(vars)) rand in
  let q := set_vars v q in
  let s := q.(stats) in
  match a with
  | RED_DONT_MARK => (q, p)
  | RED_PROB_MARK => (set_stats (mk_stats s.(forced_drop) (u32 (s.(prob_mark) + 1)) s.(forced_mark)) q, mark_ecn D p)
  | RED_HARD_MARK => (set_stats (mk_stats s.(forced_drop) s.(prob_mark) (u32 (s.(forced_mark) + 1))) q, mark_ecn D p)
  end.

Definition red_rmt_enqueue_policy (ps : option (option red_rmt_ps_data)) (port : option port_t) (du : option pdu)
  (must_enqueue : bool) (rand : Z) (mem : bool) : option (Z * option port_t * fate) :=
  match ps with
  | None => None
  | Some data =>
      match port, du, data with
      | Some po, Some p, Some d =>
          match po.(rmt_ps_queues) with
          | None => Some (RMT_PS_ENQ_ERR, port, Destroyed p)
          | Some q =>
              let back q := Some (mk_ps_port po.(port_id) (Some q)) in
              let qlen := u32 (rfifo_length q.(queue)) in
              let q := calc_qavg qlen q in
              if d.(conf_data).(limit) <=? qlen then
                let s := q.(stats) in
                Some (RMT_PS_ENQ_DROP, back (set_stats (mk_stats (u32 (s.(forced_drop) + 1)) s.(prob_mark) s.(forced_mark)) q), Destroyed p)
              else
                let '(q, p) := act rand p q in
                if negb must_enqueue && rfifo_is_empty q.(queue) then Some (RMT_PS_ENQ_SEND, back q, Sent p)
                else
                  let '(_, f) := rfifo_push mem q.(queue) p in
                  Some (RMT_PS_ENQ_SCHED, back (set_fifo f q), if mem then Queued p else Lost p)
          end
      | _, _, _ => Some (RMT_PS_ENQ_ERR, port, Untouched)
      end
  end.

(** The average is computed from the length before the PDU is taken. *)
Definition red_rmt_dequeue_policy (ps : option (option red_rmt_ps_data)) (port : option port_t)
  : option (option pdu * option port_t) :=
  match ps with
  | None => None
  | Some data =>
      match port, data with
      | Some po, Some _ =>
          match po.(rmt_ps_queues) with
          | None => Some (None, port)
          | Some q =>
              let qlen := u32 (rfifo_length q.(queue)) in
              let '(r, f) := rfifo_pop q.(queue) in
              Some (r, Some (mk_ps_port po.(port_id) (Some (calc_qavg qlen (set_fifo f q)))))
          end
      | _, _ => Some (None, port)
      end
  end.

(** The parameters.  [junk] is the address when the string does not parse; when it does, the
    address is set to 0.  The table is allocated without a test; memory is granted here. *)
Definition red_rmt_ps_set_policy_set_param (d : red_rmt_ps_data) (name value : string_ptr) (junk : Z) : Z * red_rmt_ps_data :=
  match name, value with
  | Some name, Some value =>
      let c := d.(conf_data) in
      let put s old := if strcmp_eq name (c_str s) then parsed (kstrtoint value) old u32 else old in
      let put8 s old := if strcmp_eq name (c_str s) then parsed (kstrtoint value) old u8 else old in
      (0, mk_data
            (mk_conf (put "qmax_p"%string c.(limit)) (put "qth_min_p"%string c.(qth_min)) (put "qth_max_p"%string c.(qth_max))
               (put8 "Wlog_p"%string c.(Wlog)) (put8 "Plog_p"%string c.(Plog)) (put8 "Scell_log_p"%string c.(Scell_log)))
            (if strcmp_eq name (c_str "stab_address_p") then
               let '(tab, missing) := copy_from_user (match kstrtoul value with Some _ => 0 | None => junk end) in
               if missing =? 0 then tab else repeat 0 256
             else d.(stab)))
  | _, _ => (-1, d)
  end.

(** [rmt_ps_load_param]; a parameter that is not configured is left as it is. *)
Definition red_load_param (cfg : option (option policy)) (junk : Z) (d : red_rmt_ps_data) (param_name : string) : option red_rmt_ps_data :=
  ps_param ← match cfg with Some pol => policy_param_find pol (Some (c_str param_name)) | None => Some None end;
  Some (match ps_param with
        | None => d
        | Some p => snd (red_rmt_ps_set_policy_set_param d (policy_param_name (Some p)) (policy_param_value (Some p)) junk)
        end).

Fixpoint red_load_params (cfg : option (option policy)) (junk : Z) (l : list string) (d : red_rmt_ps_data) : option red_rmt_ps_data :=
  match l with
  | [] => Some d
  | name :: l' => d ← red_load_param cfg junk d name; red_load_params cfg junk l' d
  end.

Definition rmt_ps_red_create (cfg : option (option policy)) (junk : Z) (o : oracle) : option (option red_rmt_ps_data * oracle) :=
  let '(ok1, o) := rkmalloc o in
  if negb ok1 then Some (None, o)
  else let '(ok2, o) := rkmalloc o in
  if negb ok2 then Some (None, o)
  else
    d ← red_load_params cfg junk
          ["qmax_p"%string; "qth_min_p"%string; "qth_max_p"%string; "Wlog_p"%string; "Plog_p"%string; "Scell_log_p"%string; "stab_address_p"%string]
          (mk_data (mk_conf 0 0 0 0 0 0) []);
    Some (Some d, o).

#[export] Instance red_ps : RmtPs red_rmt_ps_data red_rmt_queue (Z * bool) := {|
  ps_enqueue d q p must x :=
    match red_rmt_enqueue_policy (Some (Some d)) (Some (mk_ps_port 0 (Some q))) (Some p) must x.1 x.2 with
    | Some (r, Some (mk_ps_port _ (Some q')), f) => Some (r, d, q', f)
    | _ => None
    end;
  ps_dequeue d q :=
    match red_rmt_dequeue_policy (Some (Some d)) (Some (mk_ps_port 0 (Some q))) with
    | Some (r, Some (mk_ps_port _ (Some q'))) => (r, q')
    | _ => (None, q)
    end;
  q_new := mk_queue (rfifo_create_gfp true true) 0 (red_set_parms 0 0 0 0 0 []) red_set_vars (mk_stats 0 0 0);
  q_wf q := fifo_holds q.(queue) (fifo_list q.(queue));
  q_elems q := fifo_list q.(queue);
  x_mem x := x.2;
  ps_class _ := true
|}.

Lemma act_queue rand p q : (act rand p q).1.(queue) = q.(queue).
Proof. unfold act. destruct (red_action _ _ _ _) as [[] v]; done. Qed.

#[export] Instance red_ps_laws : RmtPsLaws red_rmt_ps_data red_rmt_queue (Z * bool).
Proof.
  split.
  - split; [apply fifo_holds_new|done].
  - intros d q p must [rand mem] r d' q' f Hq Hmem Hl E. cbn [x_mem red_ps snd] in Hmem. subst mem.
    cbn [ps_enqueue q_elems q_wf red_ps fst snd] in *. unfold red_rmt_enqueue_policy in E. cbn [rmt_ps_queues port_id] in E.
    destruct (_ <=? _); [simplify_eq; right; right; split; [by left|]; split; [done|]; split; [done|by left]|].
    pose proof (act_queue rand p (calc_qavg (u32 (rfifo_length (queue q))) q)) as Ha.
    destruct (act _ _ _) as [q1 p1]. cbn [fst] in Ha. change (queue (calc_qavg _ q)) with (queue q) in Ha. rewrite Ha in E.
    destruct (negb must && _) eqn:Es.
    + simplify_eq. right; left. apply andb_prop in Es as [Es _]. destruct must; [done|].
      split; [done|]. split; [done|]. rewrite Ha. split; [done|]. split; [done|]. by eexists.
    + left. pose proof (fifo_holds_push _ _ p1 true Hq ltac:(lia)) as Hp.
      destruct (rfifo_push true (queue q) p1) as [r0 f0]. cbn [snd] in Hp. simplify_eq. cbn [queue set_fifo].
      rewrite (fifo_holds_list _ _ Hp). split; [done|]. split; [done|].
      eexists. split; [reflexivity|]. split; [rewrite length_app; cbn; lia|done].
  - intros d q Hq. cbn [ps_dequeue q_elems q_wf red_ps] in *. unfold red_rmt_dequeue_policy.
    cbn [rmt_ps_queues port_id]. destruct (fifo_holds_pop _ _ Hq) as [Hr Hp].
    destruct (rfifo_pop (queue q)) as [r f]. cbn [fst snd queue calc_qavg set_fifo set_vars] in *. by rewrite (fifo_holds_list _ _ Hp).
Qed.

(** Without the parameter [qmax_p] the limit is the 0 of the allocation: every PDU is dropped,
    also one for management. *)
Lemma red_default_drops q l p must rand mem conf stab id :
  fifo_holds q.(queue) l -> Z.of_nat (length l) < 2 ^ 32 -> conf.(limit) = 0 ->
  exists q', red_rmt_enqueue_policy (Some (Some (mk_data conf stab))) (Some (mk_ps_port id (Some q))) (Some p) must rand mem =
    Some (RMT_PS_ENQ_DROP, Some (mk_ps_port id (Some q')), Destroyed p).
Proof.
  intros Hq Hl Hc. destruct (fifo_holds_length _ _ Hq) as [Hn _]. unfold red_rmt_enqueue_policy. cbn [rmt_ps_queues port_id conf_data].
  rewrite Hn, Hc, uwrap_small by (unfold in_u; lia). destruct (Z.leb_spec 0 (Z.of_nat (length l))); [|lia]. by eexists.
Qed.
End RedRmt.
End RedRmt.

(** ** CAS *)

Module CasRmt.
Section CasRmt.
Context (D : dt_cons) (kstrtoint : cstring -> option Z).

(** [struct timespec64]. *)
Record timespec := mk_timespec { tv_sec : Z; tv_nsec : Z }.

Record reg_cycle_t := mk_cycle { t_start : timespec; t_last_start : timespec; t_end : timespec; sum_area : Z; avg_len : Z }.
Record cas_rmt_queue := mk_queue {
  queue : option (rfifo pdu); q_port_id : Z; prev_cycle : reg_cycle_t; cur_cycle : reg_cycle_t; first_run : bool
}.
Record cas_rmt_ps_data := mk_data { q_max : Z }.

Abbreviation port_t := (ps_port cas_rmt_queue).
Implicit Types (q : cas_rmt_queue) (now : timespec).

Definition zero_cycle : reg_cycle_t := mk_cycle (mk_timespec 0 0) (mk_timespec 0 0) (mk_timespec 0 0) 0 0.

Definition cas_queue_create (port : Z) (o : oracle) : option cas_rmt_queue * oracle :=
  fifo_for (fun f => mk_queue f port zero_cycle zero_cycle true) o.

Definition timespec_sub_ns (a b : timespec) : Z :=
  s64 (s32 (a.(tv_sec) - b.(tv_sec)) * 1000000000 + (s32 a.(tv_nsec) - s32 b.(tv_nsec))).

(** What a PDU that is enqueued adds to the area under the queue length; [now] is the clock. *)
Definition measure (cur : reg_cycle_t) (cur_qlen : Z) now : reg_cycle_t :=
  if cur_qlen =? 0 then
    let t := timespec_sub_ns now cur.(t_last_start) in
    mk_cycle cur.(t_start) now now (u64 (cur.(sum_area) + u64 (u64 cur_qlen * u64 t))) cur.(avg_len)
  else
    let t := timespec_sub_ns now cur.(t_end) in
    mk_cycle cur.(t_start) cur.(t_end) now (u64 (cur.(sum_area) + u64 (u64 cur_qlen * u64 t))) cur.(avg_len).

(** The average; -1 when no time has passed since the queue was created. *)
Definition average (prev cur : reg_cycle_t) : Z * reg_cycle_t :=
  let t := timespec_sub_ns cur.(t_end) prev.(t_start) in
  let avg := u64 (cur.(sum_area) + prev.(sum_area)) in
  let with_avg v := mk_cycle cur.(t_start) cur.(t_last_start) cur.(t_end) cur.(sum_area) v in
  if t <=? 0 then (-1, with_avg avg) else (0, with_avg (avg / t)).

(** The [else if] of the code belongs to [if (!enqueue)]: nothing is measured for a PDU that is
    dequeued. *)
Definition update_cycles (prev cur : reg_cycle_t) (cur_qlen : Z) (enqueue : bool) now : Z * reg_cycle_t :=
  if negb enqueue then if cur_qlen =? 0 then (-1, cur) else average prev cur
  else average prev (measure cur cur_qlen now).

Definition set_cycle c q : cas_rmt_queue := mk_queue q.(queue) q.(q_port_id) q.(prev_cycle) c q.(first_run).
Definition set_fifo f q : cas_rmt_queue := mk_queue f q.(q_port_id) q.(prev_cycle) q.(cur_cycle) q.(first_run).

(** [ps] and [port] are not tested. *)
Definition cas_rmt_enqueue_policy (ps : option cas_rmt_ps_data) (po : port_t) (p : pdu) (must_enqueue : bool) now (mem : bool)
  : option (Z * port_t * fate) :=
  match po.(rmt_ps_queues) with
  | None => Some (RMT_PS_ENQ_ERR, po, Untouched)
  | Some q =>
      match ps with
      | None => None
      | Some d =>
          let back q := mk_ps_port po.(port_id) (Some q) in
          let cur_qlen := rfifo_length q.(queue) in
          if d.(q_max) <=? cur_qlen then Some (RMT_PS_ENQ_DROP, po, Destroyed p)
          else
            let '(r, c) := update_cycles q.(prev_cycle) q.(cur_cycle) cur_qlen true now in
            let q := set_cycle c q in
            if negb (r =? 0) then Some (RMT_PS_ENQ_ERR, back q, Destroyed p)
            else
              let p := if 1 <=? c.(avg_len) then mark_ecn D p else p in
              if negb must_enqueue && rfifo_is_empty q.(queue) then Some (RMT_PS_ENQ_SEND, back q, Sent p)
              else
                let '(_, f) := rfifo_push mem q.(queue) p in
                Some (RMT_PS_ENQ_SCHED, back (set_fifo f q), if mem then Queued p else Lost p)
      end
  end.

(** The PDU that is returned, and the one that is destroyed. *)
Definition cas_rmt_dequeue_policy (po : port_t) now : option pdu * option pdu * port_t :=
  match po.(rmt_ps_queues) with
  | None => (None, None, po)
  | Some q =>
      let back q := mk_ps_port po.(port_id) (Some q) in
      let cur_qlen := rfifo_length q.(queue) in
      let '(r, f) := rfifo_pop q.(queue) in
      let q := set_fifo f q in
      match r with
      | None => (None, None, back q)
      | Some p =>
          let '(e, c) := update_cycles q.(prev_cycle) q.(cur_cycle) cur_qlen false now in
          let q := set_cycle c q in
          if negb (e =? 0) then (None, Some p, back q) else (Some p, None, back q)
      end
  end.

(** [now k] is the [k]-th reading of the clock. *)
Definition cas_rmt_q_create_policy (ps : option (option cas_rmt_ps_data)) (port : option port_t) (now : nat -> timespec) (o : oracle)
  : option cas_rmt_queue * oracle :=
  match ps, port with
  | Some (Some _), Some port =>
      let '(q, o) := cas_queue_create port.(port_id) o in
      (match q with
       | None => None
       | Some q =>
           let c := mk_cycle (now 0%nat) (now 1%nat) (now 2%nat) 0 0 in
           Some (mk_queue q.(queue) q.(q_port_id) c c q.(first_run))
       end, o)
  | _, _ => (None, o)
  end.

Definition cas_rmt_q_destroy_policy (ps : option (option cas_rmt_ps_data)) (port : option port_t) : Z * list pdu :=
  match ps, port with
  | Some (Some _), Some port => destroy_queue true true (queue <$> port.(rmt_ps_queues))
  | _, _ => (-1, [])
  end.

Definition rmt_cas_set_policy_set_param (d : cas_rmt_ps_data) (name value : string_ptr) : Z * cas_rmt_ps_data :=
  match name, value with
  | Some name, Some value =>
      (0, if strcmp_eq name (c_str "q_max") then mk_data (parsed (kstrtoint value) d.(q_max) u32) else d)
  | _, _ => (-1, d)
  end.

Definition rmt_ps_cas_create (o : oracle) : option cas_rmt_ps_data * oracle :=
  let '(ok1, o) := rkmalloc o in
  let '(ok2, o) := rkmalloc o in
  (if negb ok1 || negb ok2 then None else Some (mk_data 200), o).

Lemma average_early prev cur : timespec_sub_ns cur.(t_end) prev.(t_start) <= 0 -> exists c, average prev cur = (-1, c).
Proof. intros Ht. unfold average. destruct (Z.leb_spec (timespec_sub_ns (t_end cur) (t_start prev)) 0); [by eexists|lia]. Qed.

(** While the clock is not behind the creation of the queue - the wall clock was set back, or has not
    moved - no PDU passes: those that come are destroyed with an error. *)
Lemma enqueue_destroys d q l p id must mem now :
  fifo_holds q.(queue) l -> Z.of_nat (length l) < d.(q_max) -> timespec_sub_ns now q.(prev_cycle).(t_start) <= 0 ->
  exists q', cas_rmt_enqueue_policy (Some d) (mk_ps_port id (Some q)) p must now mem =
    Some (RMT_PS_ENQ_ERR, mk_ps_port id (Some q'), Destroyed p).
Proof.
  intros Hq Hl Ht. destruct (fifo_holds_length _ _ Hq) as [Hn _]. unfold cas_rmt_enqueue_policy. cbn [rmt_ps_queues port_id].
  rewrite Hn. destruct (Z.leb_spec d.(q_max) (Z.of_nat (length l))); [lia|].
  assert (timespec_sub_ns (t_end (measure (cur_cycle q) (Z.of_nat (length l)) now)) (t_start (prev_cycle q)) <= 0) as Ht'.
  { unfold measure. by destruct (_ =? 0). }
  destruct (average_early _ _ Ht') as [c Hc]. unfold update_cycles. cbn [negb]. rewrite Hc. by eexists.
Qed.

(** And a PDU that is queued is destroyed when it is dequeued: the RMT, which counted it, is given
    nothing. *)
Lemma dequeue_destroys q p l id now :
  fifo_holds q.(queue) (p :: l) -> timespec_sub_ns q.(cur_cycle).(t_end) q.(prev_cycle).(t_start) <= 0 ->
  exists q', cas_rmt_dequeue_policy (mk_ps_port id (Some q)) now = (None, Some p, mk_ps_port id (Some q')) /\
    fifo_holds q'.(queue) l.
Proof.
  intros Hq Ht. destruct (fifo_holds_length _ _ Hq) as [Hn _]. destruct (fifo_holds_pop _ _ Hq) as [Hr Hp].
  unfold cas_rmt_dequeue_policy. cbn [rmt_ps_queues port_id]. rewrite Hn. destruct (rfifo_pop (queue q)) as [r f]. cbn [fst snd] in *. subst r.
  cbn [hd_error]. unfold update_cycles. cbn [negb length]. destruct (Z.eqb_spec (Z.of_nat (S (length l))) 0); [lia|].
  cbn [set_fifo prev_cycle cur_cycle]. destruct (average_early _ _ Ht) as [c ->]. cbn [Z.eqb negb]. by eexists.
Qed.
End CasRmt.
End CasRmt.
