(* ===== verification/Pff.v ===== *)
(** * The PDU forwarding function

    The forwarding table of the default policy set ([src/kernel/pff-ps-default.c]).  The
    table is the list of entries in the order of the code, newest first; an entry maps a
    destination and a QoS id to the ports of the next hops, newest first, and an entry with
    QoS id 0 serves every QoS id of its destination.

    An operation returns [None] when it writes through a null pointer: the data of the
    deferred sysfs work is allocated without a test.  What the deferred work does is
    outside of the model. *)

From S2P Require Import Prelude Kucommon Pci Rds Queues EfcpState Config.
From Stdlib Require Import ZArith Lia.
From stdpp Require Import base list numbers option gmap sets.
#[local] Open Scope Z_scope.

(** ** [common.c] *)

Definition is_address_ok (address : Z) : bool := negb (address =? u32 (-1)).
Definition is_qos_id_ok (id : Z) : bool := negb (id =? -1).

(** ** The table *)

Record pft_entry := mk_pft_entry { destination : Z; qos_id : Z; ports : list Z }.

Implicit Types (T : list pft_entry) (o : oracle).

Definition set_ports (l : list Z) (e : pft_entry) : pft_entry := mk_pft_entry e.(destination) e.(qos_id) l.

Definition matches (dst q : Z) (e : pft_entry) : bool :=
  (e.(destination) =? dst) && ((e.(qos_id) =? 0) || (e.(qos_id) =? q)).

(** The position of the first entry that matches. *)
Fixpoint pft_find T (dst q : Z) : option nat :=
  match T with
  | [] => None
  | pos :: T' => if matches dst q pos then Some 0%nat else S <$> pft_find T' dst q
  end.

(** The work item that creates or removes the sysfs entry: its data, which is not tested,
    and the item. *)
Definition post_sysfs_work o : option oracle :=
  let '(wdata, o) := rkmalloc o in
  if negb wdata then None
  else let '(_, o) := rkmalloc o in Some o.

Definition pfte_destroy T (i : nat) o : option (list pft_entry * oracle) :=
  o ← post_sysfs_work o;
  Some (base.delete i T, o).

Definition pfte_port_find (l : list Z) (id : Z) : bool := existsb (Z.eqb id) l.

Definition pfte_port_add (l : list Z) (id : Z) o : Z * list Z * oracle :=
  if pfte_port_find l id then (0, l, o)
  else
    let '(ok, o) := rkmalloc o in
    if ok then (0, id :: l, o) else (-1, l, o).

Definition pfte_port_remove (l : list Z) (id : Z) : list Z := remove_first (Z.eqb id) l.

(** The ports are copied to an array that the caller reuses: [old] is the array it holds
    (of [*entries] ports). *)
Definition pfte_ports_copy (l old : list Z) o : Z * list Z * oracle :=
  if bool_decide (length l = length old) then (0, l, o)
  else if bool_decide (l = []) then (0, [], o)
  else
    let '(ok, o) := rkmalloc o in
    if ok then (0, l, o) else (-1, [], o).

(** The ports of an entry after the alternatives [alts]: the first port of each; [false] when
    there was no memory. *)
Fixpoint add_ports (l : list Z) (alts : list port_id_altlist) o : option (bool * list Z * oracle) :=
  match alts with
  | [] => Some (true, l, o)
  | a :: alts' =>
      if a.(pia_num_ports) <? 1 then add_ports l alts' o
      else match a.(pia_ports) with
           | [] => None
           | p :: _ =>
               let '(r, l, o) := pfte_port_add l p o in
               if negb (r =? 0) then Some (false, l, o) else add_ports l alts' o
           end
  end.

Fixpoint remove_ports (l : list Z) (alts : list port_id_altlist) : option (list Z) :=
  match alts with
  | [] => Some l
  | a :: alts' =>
      if a.(pia_num_ports) <? 1 then remove_ports l alts'
      else match a.(pia_ports) with
           | [] => None
           | p :: _ => remove_ports (pfte_port_remove l p) alts'
           end
  end.

(** The second half of [__pff_add], on the entry at [i]. *)
Definition pff_add_at T (i : nat) (alts : list port_id_altlist) o : option (Z * list pft_entry * oracle) :=
  match T !! i with
  | None => None
  | Some e =>
      '(ok, l, o) ← add_ports e.(ports) alts o;
      let T := <[i := set_ports l e]> T in
      if (ok : bool) then Some (0, T, o)
      else '(T, o) ← pfte_destroy T i o; Some (-1, T, o)
  end.

Definition __pff_add T (entry : mod_pff_entry) o : option (Z * list pft_entry * oracle) :=
  match pft_find T entry.(mpe_fwd_info) entry.(mpe_qos_id) with
  | Some i => pff_add_at T i entry.(mpe_port_id_altlists) o
  | None =>
      let '(ok, o) := rkmalloc o in
      if negb ok then Some (-1, T, o)
      else
        o ← post_sysfs_work o;
        pff_add_at (mk_pft_entry entry.(mpe_fwd_info) entry.(mpe_qos_id) [] :: T) 0
          entry.(mpe_port_id_altlists) o
  end.

Definition entry_ok (entry : mod_pff_entry) : bool :=
  is_address_ok entry.(mpe_fwd_info) && is_qos_id_ok entry.(mpe_qos_id).

(** The policies; [priv] is the private data of the policy set. *)
Definition default_add (priv : option (list pft_entry)) (entry : option mod_pff_entry) o
  : option (Z * option (list pft_entry) * oracle) :=
  match priv, entry with
  | Some T, Some entry =>
      if negb (entry_ok entry) then Some (-1, priv, o)
      else '(r, T, o) ← __pff_add T entry o; Some (r, Some T, o)
  | _, _ => Some (-1, priv, o)
  end.

Definition default_remove (priv : option (list pft_entry)) (entry : option mod_pff_entry) o
  : option (Z * option (list pft_entry) * oracle) :=
  match priv, entry with
  | Some T, Some entry =>
      if negb (entry_ok entry) then Some (-1, priv, o)
      else
        match pft_find T entry.(mpe_fwd_info) entry.(mpe_qos_id) with
        | None => Some (-1, priv, o)
        | Some i =>
            e ← T !! i;
            l ← remove_ports e.(ports) entry.(mpe_port_id_altlists);
            let T := <[i := set_ports l e]> T in
            if bool_decide (l = []) then
              '(T, o) ← pfte_destroy T i o; Some (0, Some T, o)
            else Some (0, Some T, o)
        end
  | _, _ => Some (-1, priv, o)
  end.

Definition default_is_empty (priv : option (list pft_entry)) : bool :=
  match priv with None => false | Some T => bool_decide (T = []) end.

(** The loop destroys the first entry until there is none. *)
Fixpoint flush_entries (n : nat) T o : option (list pft_entry * oracle) :=
  match n, T with
  | S n, _ :: _ => '(T, o) ← pfte_destroy T 0 o; flush_entries n T o
  | _, _ => Some (T, o)
  end.

Definition __pff_flush T o : option (list pft_entry * oracle) := flush_entries (length T) T o.

Definition default_flush (priv : option (list pft_entry)) o : option (Z * option (list pft_entry) * oracle) :=
  match priv with
  | None => Some (-1, None, o)
  | Some T => '(T, o) ← __pff_flush T o; Some (0, Some T, o)
  end.

(** The results of [__pff_add] are not looked at. *)
Fixpoint add_all T (entries : list mod_pff_entry) o : option (list pft_entry * oracle) :=
  match entries with
  | [] => Some (T, o)
  | entry :: entries' =>
      if negb (is_address_ok entry.(mpe_fwd_info)) then add_all T entries' o
      else if negb (is_qos_id_ok entry.(mpe_qos_id)) then add_all T entries' o
      else '(_, T, o) ← __pff_add T entry o; add_all T entries' o
  end.

Definition default_modify (priv : option (list pft_entry)) (entries : list mod_pff_entry) o
  : option (Z * option (list pft_entry) * oracle) :=
  match priv with
  | None => Some (-1, None, o)
  | Some T =>
      '(T, o) ← __pff_flush T o;
      '(T, o) ← add_all T entries o;
      Some (0, Some T, o)
  end.

(** [old] is the array of the caller, which is not null. *)
Definition default_nhop (priv : option (list pft_entry)) (pci : pdu) (old : list Z) o : Z * list Z * oracle :=
  match priv with
  | None => (-1, old, o)
  | Some T =>
      let destination := pci.(attr) A_DESTINATION in
      let qos_id := pci.(attr) A_QOS_ID in
      if negb (is_address_ok destination) then (-1, old, o)
      else if negb (is_qos_id_ok qos_id) then (-1, old, o)
      else match pft_find T destination qos_id with
           | None => (-1, old, o)
           | Some i => match T !! i with
                       | None => (-1, old, o)
                       | Some e => pfte_ports_copy e.(ports) old o
                       end
           end
  end.

(** The alternatives of an entry; the list built so far is kept on a failure. *)
Fixpoint pfte_port_id_altlists_copy (l : list Z) (acc : list port_id_altlist) o
  : Z * list port_id_altlist * oracle :=
  match l with
  | [] => (0, acc, o)
  | p :: l' =>
      let '(ok, o) := rkmalloc o in
      if negb ok then (-1, acc, o)
      else
        let '(ok, o) := rkmalloc o in
        if negb ok then (-1, acc, o)
        else pfte_port_id_altlists_copy l' (acc ++ [mk_port_id_altlist [p] 1]) o
  end.

(** [junk] is what an allocated entry holds: the cost of a dumped entry is never set. *)
Fixpoint dump_loop (junk : Z) T (entries : list mod_pff_entry) o : Z * list mod_pff_entry * oracle :=
  match T with
  | [] => (0, entries, o)
  | pos :: T' =>
      let '(ok, o) := rkmalloc o in
      if negb ok then (-1, entries, o)
      else
        let '(r, alts, o) := pfte_port_id_altlists_copy pos.(ports) [] o in
        if negb (r =? 0) then (-1, entries, o)
        else dump_loop junk T' (mk_mod_pff_entry pos.(destination) pos.(qos_id) junk alts :: entries) o
  end.

Definition default_dump (priv : option (list pft_entry)) (junk : Z) (entries : list mod_pff_entry) o
  : Z * list mod_pff_entry * oracle :=
  match priv with
  | None => (-1, entries, o)
  | Some T => dump_loop junk T entries o
  end.

(** ** Specification

    A finite map from pairs of a destination and a QoS id to ports. *)

Abbreviation fmap_t := (gmap (Z * Z) (list Z)).
Implicit Types m : fmap_t.

(** The pair that serves a destination and a QoS id. *)
Definition route_key m (dst q : Z) : Z * Z := if decide (is_Some (m !! (dst, 0))) then (dst, 0) else (dst, q).

Definition spec_route m (dst q : Z) : option (list Z) := m !! route_key m dst q.

Definition first_ports (alts : list port_id_altlist) : list Z :=
  omap (fun a => if a.(pia_num_ports) <? 1 then None else head a.(pia_ports)) alts.

(** New ports come first; a port is there once. *)
Definition spec_merge (l new : list Z) : list Z :=
  foldl (fun l p => if decide (p ∈ l) then l else p :: l) l new.

Definition spec_unmerge (l old : list Z) : list Z := foldl pfte_port_remove l old.

Definition spec_add m (e : mod_pff_entry) : fmap_t :=
  let k := route_key m e.(mpe_fwd_info) e.(mpe_qos_id) in
  <[k := spec_merge (default [] (m !! k)) (first_ports e.(mpe_port_id_altlists))]> m.

Definition spec_remove m (e : mod_pff_entry) : Z * fmap_t :=
  let k := route_key m e.(mpe_fwd_info) e.(mpe_qos_id) in
  match m !! k with
  | None => (-1, m)
  | Some l =>
      let l := spec_unmerge l (first_ports e.(mpe_port_id_altlists)) in
      (0, if decide (l = []) then base.delete k m else <[k := l]> m)
  end.

Definition spec_modify (es : list mod_pff_entry) : fmap_t :=
  foldl (fun m e => if entry_ok e then spec_add m e else m) ∅ es.

(** ** Refinement *)

(** No entry matches the pair of a newer one. *)
Fixpoint pft_ok T : Prop :=
  match T with
  | [] => True
  | e :: T' => pft_find T' e.(destination) e.(qos_id) = None /\ pft_ok T'
  end.

Definition entry_key (e : pft_entry) : Z * Z := (e.(destination), e.(qos_id)).

Definition table_map T : fmap_t := list_to_map ((fun e => (entry_key e, e.(ports))) <$> T).

(** The map of a table. *)
Definition represents_map T m : Prop := pft_ok T /\ table_map T = m.

Lemma matches_spec dst q e :
  matches dst q e = true <-> e.(destination) = dst /\ (e.(qos_id) = 0 \/ e.(qos_id) = q).
Proof. unfold matches. rewrite andb_true_iff, orb_true_iff, !Z.eqb_eq. done. Qed.

Lemma table_map_None T k : table_map T !! k = None <-> Forall (fun e => entry_key e <> k) T.
Proof.
  unfold table_map. rewrite <- not_elem_of_list_to_map, list_elem_of_fmap, List.Forall_forall. split.
  - intros Hn e He Hk. apply Hn. exists (entry_key e, ports e). split; [done|].
    apply list_elem_of_fmap. exists e. split; [done|]. by apply list_elem_of_In.
  - intros Hn ([k' l] & -> & (e & [= -> ->] & He)%list_elem_of_fmap). apply list_elem_of_In in He.
    by apply (Hn e He).
Qed.

Lemma pft_find_None T dst q :
  pft_find T dst q = None <-> table_map T !! (dst, 0) = None /\ table_map T !! (dst, q) = None.
Proof.
  rewrite !table_map_None. induction T as [|e T IH]; cbn [pft_find]; [done|].
  destruct (matches dst q e) eqn:E.
  - apply matches_spec in E as [Hd Hq]. split; [done|]. intros [H0 Hq'].
    inversion_clear H0; inversion_clear Hq'. unfold entry_key in *. destruct Hq; congruence.
  - assert (entry_key e <> (dst, 0) /\ entry_key e <> (dst, q)) as [H0 H1].
    { split; intros Hk; injection Hk as Hd Hq; assert (matches dst q e = true) by (apply matches_spec; auto);
        congruence. }
    rewrite fmap_None, IH. split.
    + intros [? ?]. by split; constructor.
    + intros [Ha Hb]. inversion_clear Ha; by inversion_clear Hb.
Qed.

Lemma table_map_cons e T : table_map (e :: T) = <[entry_key e := ports e]> (table_map T).
Proof. done. Qed.

(** The entry that is found has the key of the route. *)
Lemma pft_find_Some T dst q i :
  pft_ok T -> pft_find T dst q = Some i ->
  exists e, T !! i = Some e /\ entry_key e = route_key (table_map T) dst q /\
    table_map T !! entry_key e = Some e.(ports).
Proof.
  revert i. induction T as [|e T IH]; intros i Hok Hf; [done|]. destruct Hok as [Hn Hok].
  cbn [pft_find] in Hf. apply pft_find_None in Hn as [Hn0 Hnq].
  rewrite table_map_cons. destruct (matches dst q e) eqn:E.
  - injection Hf as <-. exists e. split; [done|]. split; [|by rewrite lookup_insert_eq].
    apply matches_spec in E as [<- Hq]. unfold route_key.
    destruct (decide (qos_id e = 0)) as [E0|E0].
    + rewrite decide_True; [unfold entry_key; by rewrite E0|]. unfold entry_key. rewrite E0, lookup_insert_eq. by eexists.
    + destruct Hq as [|<-]; [done|]. rewrite decide_False; [done|].
      unfold entry_key. rewrite lookup_insert_ne, Hn0 by congruence. by intros [? ?].
  - apply fmap_Some in Hf as (j & Hf & ->). destruct (IH j Hok Hf) as (x & Hx & Hk & Hm).
    exists x. cbn [lookup list_lookup]. split; [done|].
    assert (entry_key e <> (dst, 0) /\ entry_key e <> (dst, q)) as [H0 H1].
    { split; intros Hk'; injection Hk' as Hd Hq; assert (matches dst q e = true) by (apply matches_spec; auto);
        congruence. }
    assert (entry_key e <> entry_key x) as Hne.
    { rewrite Hk. unfold route_key. by case_decide. }
    split; [|by rewrite lookup_insert_ne].
    rewrite Hk. unfold route_key. by rewrite lookup_insert_ne.
Qed.

Lemma pft_find_insert T i e l dst q :
  T !! i = Some e -> pft_find (<[i := set_ports l e]> T) dst q = pft_find T dst q.
Proof.
  revert i. induction T as [|x T IH]; intros [|i] He; cbn in *; simplify_eq; [done|].
  by rewrite IH.
Qed.

Lemma pft_ok_insert T i e l : pft_ok T -> T !! i = Some e -> pft_ok (<[i := set_ports l e]> T).
Proof.
  revert i. induction T as [|x T IH]; intros [|i] Hok He; cbn in *; simplify_eq; [done|].
  destruct Hok as [Hn Hok]. split; [by rewrite pft_find_insert|by apply IH].
Qed.

Lemma table_map_insert T i e l :
  pft_ok T -> T !! i = Some e ->
  table_map (<[i := set_ports l e]> T) = <[entry_key e := l]> (table_map T).
Proof.
  revert i. induction T as [|x T IH]; intros [|i] Hok He; cbn in He; simplify_eq.
  - cbn [insert list_insert]. rewrite !table_map_cons. by rewrite insert_insert_eq.
  - destruct Hok as [Hn Hok]. cbn [insert list_insert]. rewrite !table_map_cons, IH by done.
    rewrite insert_insert_ne; [done|]. intros Hk. apply pft_find_None in Hn as [_ Hn].
    rewrite table_map_None, List.Forall_forall in Hn. apply (Hn e); [|done].
    apply list_elem_of_In. by eapply list_elem_of_lookup_2.
Qed.

Lemma pft_find_delete T i dst q : pft_find T dst q = None -> pft_find (base.delete i T) dst q = None.
Proof.
  revert i. induction T as [|x T IH]; intros [|i] Hn; cbn in *; try done.
  - destruct (matches dst q x); [done|]. by apply fmap_None in Hn.
  - destruct (matches dst q x); [done|]. apply fmap_None in Hn. apply fmap_None, IH, Hn.
Qed.

Lemma pft_ok_delete T i : pft_ok T -> pft_ok (base.delete i T).
Proof.
  revert i. induction T as [|x T IH]; intros [|i] Hok; cbn in *; [done..|by destruct Hok|].
  destruct Hok. split; [by apply pft_find_delete|by apply IH].
Qed.

Lemma table_map_delete T i e :
  pft_ok T -> T !! i = Some e -> table_map (base.delete i T) = base.delete (entry_key e) (table_map T).
Proof.
  revert i. induction T as [|x T IH]; intros [|i] Hok He; cbn in He; simplify_eq.
  - destruct Hok as [[_ Hn]%pft_find_None _]. cbn [base.delete list_delete].
    by rewrite table_map_cons, delete_insert_id.
  - destruct Hok as [[_ Hn]%pft_find_None Hok]. cbn [base.delete list_delete].
    rewrite !table_map_cons, IH by done. rewrite delete_insert_ne; [done|]. intros Hk.
    rewrite table_map_None, List.Forall_forall in Hn. apply (Hn e); [|done].
    apply list_elem_of_In. by eapply list_elem_of_lookup_2.
Qed.

(** An alternative that counts ports has one. *)
Definition alts_ok (alts : list port_id_altlist) : Prop :=
  Forall (fun a => a.(pia_num_ports) < 1 \/ a.(pia_ports) <> []) alts.

Lemma pfte_port_find_spec l id : pfte_port_find l id = bool_decide (id ∈ l).
Proof.
  unfold pfte_port_find. apply eq_true_iff_eq. rewrite existsb_exists, bool_decide_eq_true. split.
  - intros (x & Hx & ->%Z.eqb_eq). by apply list_elem_of_In.
  - intros Hx. exists id. split; [by apply list_elem_of_In|apply Z.eqb_refl].
Qed.

(** With or without memory: a success adds every port. *)
Lemma add_ports_spec l alts o :
  alts_ok alts ->
  exists b l' o', add_ports l alts o = Some (b, l', o') /\
    (b = true -> l' = spec_merge l (first_ports alts)) /\ (o = [] -> b = true /\ o' = []).
Proof.
  intros Hok. revert l o. induction Hok as [|a alts Ha Hok IH]; intros l o; [by eexists true, _, _|].
  cbn [add_ports first_ports omap list_omap]. destruct (Z.ltb_spec (pia_num_ports a) 1) as [Hn|Hn]; [apply IH|].
  destruct Ha as [|Ha]; [lia|]. destruct (pia_ports a) as [|p ps]; [done|]. cbn [head].
  unfold pfte_port_add. rewrite pfte_port_find_spec. case_bool_decide as Hp.
  - destruct (IH l o) as (b & l' & o' & E & H1 & H2). exists b, l', o'. split; [exact E|]. split; [|done].
    intros Hb. rewrite (H1 Hb). unfold first_ports, spec_merge. cbn [foldl]. by rewrite decide_True.
  - destruct (rkmalloc o) as [ok o1] eqn:Eo. destruct ok; cbn [Z.eqb negb].
    + destruct (IH (p :: l) o1) as (b & l' & o' & E & H1 & H2). exists b, l', o'. split; [exact E|]. split.
      * intros Hb. rewrite (H1 Hb). unfold first_ports, spec_merge. cbn [foldl]. by rewrite decide_False.
      * intros ->. injection Eo as <-. by apply H2.
    + eexists false, _, _. split; [reflexivity|]. split; [done|]. intros ->. done.
Qed.

Lemma remove_ports_spec l alts :
  alts_ok alts -> remove_ports l alts = Some (spec_unmerge l (first_ports alts)).
Proof.
  intros Hok. revert l. induction Hok as [|a alts Ha Hok IH]; intros l; [done|].
  cbn [remove_ports first_ports omap list_omap]. destruct (Z.ltb_spec (pia_num_ports a) 1); [apply IH|].
  destruct Ha as [|Ha]; [lia|]. destruct (pia_ports a) as [|p ps]; [done|]. apply IH.
Qed.

Lemma pfte_destroy_spec T m i e o T' o' :
  represents_map T m -> T !! i = Some e -> pfte_destroy T i o = Some (T', o') ->
  represents_map T' (base.delete (entry_key e) m) /\ (o = [] -> o' = []).
Proof.
  intros [Hok <-] He E. unfold pfte_destroy, post_sysfs_work in E.
  destruct (rkmalloc o) as [b o1] eqn:E1. destruct b; [|done]. cbn [negb] in E.
  destruct (rkmalloc o1) as [b o2] eqn:E2. cbn [mbind option_bind] in E. injection E as <- <-.
  split; [split; [by apply pft_ok_delete|by apply table_map_delete]|].
  intros ->. injection E1 as <-. by injection E2 as _ <-.
Qed.

(** The second half of [__pff_add]; a failure destroys the entry. *)
Lemma pff_add_at_spec T m i e alts o r T' o' :
  represents_map T m -> T !! i = Some e -> alts_ok alts ->
  pff_add_at T i alts o = Some (r, T', o') ->
  (r = 0 /\ represents_map T' (<[entry_key e := spec_merge e.(ports) (first_ports alts)]> m)) \/
  (r = -1 /\ represents_map T' (base.delete (entry_key e) m)).
Proof.
  intros [Hok <-] He Ha E. unfold pff_add_at in E. rewrite He in E.
  destruct (add_ports_spec e.(ports) alts o Ha) as (b & l' & o1 & Ea & Hl & _). rewrite Ea in E. cbn [mbind option_bind] in E.
  assert (represents_map (<[i := set_ports l' e]> T) (<[entry_key e := l']> (table_map T))) as Hr.
  { split; [by apply pft_ok_insert|by apply table_map_insert]. }
  destruct b.
  - injection E as <- <- <-. left. split; [done|]. by rewrite <- Hl.
  - right. destruct (pfte_destroy _ i o1) as [[T2 o2]|] eqn:Ed; [|done]. cbn [mbind option_bind] in E.
    injection E as <- <- <-. split; [done|].
    assert (<[i := set_ports l' e]> T !! i = Some (set_ports l' e)) as Hi.
    { apply list_lookup_insert_eq. by eapply lookup_lt_Some. }
    destruct (pfte_destroy_spec _ _ _ _ _ _ _ Hr Hi Ed) as [Hd _]. change (entry_key (set_ports l' e)) with (entry_key e) in Hd.
    by rewrite delete_insert_eq in Hd.
Qed.

Lemma represents_new T m dst q :
  represents_map T m -> pft_find T dst q = None ->
  represents_map (mk_pft_entry dst q [] :: T) (<[(dst, q) := []]> m) /\ route_key m dst q = (dst, q) /\
  m !! (dst, q) = None.
Proof.
  intros [Hok <-] Hn. pose proof Hn as [H0 Hq]%pft_find_None. split; [by repeat split|]. split; [|done].
  unfold route_key. rewrite decide_False; [done|]. rewrite H0. by intros [? ?].
Qed.

(** [__pff_add], whether or not there is memory. *)
Lemma pff_add_refines T m e o r T' o' :
  represents_map T m -> alts_ok e.(mpe_port_id_altlists) ->
  __pff_add T e o = Some (r, T', o') ->
  (r = 0 /\ represents_map T' (spec_add m e)) \/
  (r = -1 /\ (represents_map T' m \/
              represents_map T' (base.delete (route_key m e.(mpe_fwd_info) e.(mpe_qos_id)) m))).
Proof.
  intros Hr Ha E. unfold __pff_add in E. unfold spec_add.
  destruct (pft_find T _ _) as [i|] eqn:Ef.
  - destruct Hr as [Hok <-]. destruct (pft_find_Some _ _ _ _ Hok Ef) as (x & Hx & <- & Hm).
    rewrite Hm. cbn [default].
    destruct (pff_add_at_spec T _ i x _ _ _ _ _ (conj Hok eq_refl) Hx Ha E) as [[-> H]|[-> H]]; eauto.
  - destruct (represents_new _ _ _ _ Hr Ef) as (Hr' & -> & Hm).
    destruct (rkmalloc o) as [ok o1]. destruct ok; cbn [negb] in E; [|injection E as <- <- <-; auto].
    destruct (post_sysfs_work o1) as [o2|]; [|done]. cbn [mbind option_bind] in E.
    destruct (pff_add_at_spec _ _ 0 _ _ _ _ _ _ Hr' eq_refl Ha E) as [[-> H]|[-> H]].
    + left. split; [done|]. rewrite Hm. cbn [default ports entry_key destination qos_id] in *.
      by rewrite insert_insert_eq in H.
    + right. split; [done|]. right. cbn [entry_key destination qos_id] in H. by rewrite delete_insert_eq in H.
Qed.

(** With memory it succeeds. *)
Lemma pff_add_memory T m e :
  represents_map T m -> alts_ok e.(mpe_port_id_altlists) ->
  exists T', __pff_add T e [] = Some (0, T', []) /\ represents_map T' (spec_add m e).
Proof.
  intros Hr Ha.
  assert (exists T', __pff_add T e [] = Some (0, T', [])) as [T' E].
  { unfold __pff_add. destruct (pft_find T _ _) as [i|] eqn:Ef.
    - destruct Hr as [Hok _]. destruct (pft_find_Some _ _ _ _ Hok Ef) as (x & Hx & _ & _).
      unfold pff_add_at. rewrite Hx.
      destruct (add_ports_spec x.(ports) (mpe_port_id_altlists e) [] Ha) as (b & l' & o1 & -> & _ & Hb).
      destruct (Hb eq_refl) as [-> ->]. by eexists.
    - cbn [rkmalloc negb post_sysfs_work mbind option_bind]. unfold pff_add_at. cbn [lookup list_lookup].
      destruct (add_ports_spec [] (mpe_port_id_altlists e) [] Ha) as (b & l' & o1 & E & _ & Hb).
      destruct (Hb eq_refl) as [-> ->]. cbn [ports]. rewrite E. by eexists. }
  exists T'. split; [exact E|]. by destruct (pff_add_refines _ _ _ _ _ _ _ Hr Ha E) as [[_ H]|[? _]].
Qed.

Lemma flush_entries_memory n T : (length T <= n)%nat -> flush_entries n T [] = Some ([], []).
Proof.
  revert T. induction n as [|n IH]; intros [|e T] Hl; cbn in Hl; try done; try lia.
  cbn. apply IH. lia.
Qed.

Lemma add_all_memory es T m :
  represents_map T m -> Forall (fun e => alts_ok e.(mpe_port_id_altlists)) es ->
  exists T', add_all T es [] = Some (T', []) /\
    represents_map T' (foldl (fun m e => if entry_ok e then spec_add m e else m) m es).
Proof.
  intros Hr Hes. revert T m Hr. induction Hes as [|e es He Hes IH]; intros T m Hr; [by eexists|].
  cbn [add_all foldl]. unfold entry_ok.
  destruct (is_address_ok (mpe_fwd_info e)); cbn [negb andb]; [|by apply IH].
  destruct (is_qos_id_ok (mpe_qos_id e)); cbn [negb]; [|by apply IH].
  destruct (pff_add_memory T m e Hr He) as (T1 & -> & Hr1). cbn [mbind option_bind]. by apply IH.
Qed.

Lemma remove_memory T m e :
  represents_map T m -> alts_ok e.(mpe_port_id_altlists) -> entry_ok e = true ->
  exists T', default_remove (Some T) (Some e) [] = Some (fst (spec_remove m e), Some T', []) /\
    represents_map T' (snd (spec_remove m e)).
Proof.
  intros Hr Ha He. unfold default_remove, spec_remove. rewrite He. cbn [negb].
  destruct (pft_find T _ _) as [i|] eqn:Ef.
  - pose proof Hr as [Hok <-]. destruct (pft_find_Some _ _ _ _ Hok Ef) as (x & Hx & Hk & Hm).
    rewrite <- Hk, Hm, Hx. cbn [mbind option_bind]. rewrite remove_ports_spec by done. cbn [mbind option_bind].
    set (l := spec_unmerge _ _).
    assert (represents_map (<[i := set_ports l x]> T) (<[entry_key x := l]> (table_map T))) as Hr'.
    { split; [by apply pft_ok_insert|by apply table_map_insert]. }
    assert (<[i := set_ports l x]> T !! i = Some (set_ports l x)) as Hi.
    { apply list_lookup_insert_eq. by eapply lookup_lt_Some. }
    cbn [fst snd]. case_bool_decide as El; [rewrite decide_True by done|rewrite decide_False by done].
    + cbn [pfte_destroy post_sysfs_work rkmalloc negb mbind option_bind]. eexists. split; [reflexivity|].
      destruct (pfte_destroy_spec _ _ _ _ [] _ _ Hr' Hi eq_refl) as [Hd _].
      change (entry_key (set_ports l x)) with (entry_key x) in Hd. by rewrite delete_insert_eq in Hd.
    + by eexists.
  - destruct (represents_new _ _ _ _ Hr Ef) as (_ & -> & ->). by eexists.
Qed.

Lemma nhop_route T m (pci : pdu) old :
  represents_map T m ->
  default_nhop (Some T) pci old [] =
    match (if is_address_ok (pci.(attr) A_DESTINATION) && is_qos_id_ok (pci.(attr) A_QOS_ID)
           then spec_route m (pci.(attr) A_DESTINATION) (pci.(attr) A_QOS_ID) else None) with
    | Some l => (0, l, [])
    | None => (-1, old, [])
    end.
Proof.
  intros Hr. unfold default_nhop, spec_route.
  destruct (is_address_ok _); cbn [negb andb]; [|done]. destruct (is_qos_id_ok _); cbn [negb]; [|done].
  destruct (pft_find T _ _) as [i|] eqn:Ef.
  - destruct Hr as [Hok <-]. destruct (pft_find_Some _ _ _ _ Hok Ef) as (x & -> & <- & ->).
    unfold pfte_ports_copy. case_bool_decide; [done|]. by case_bool_decide as E; [rewrite E|].
  - by destruct (represents_new _ _ _ _ Hr Ef) as (_ & -> & ->).
Qed.

(** ** Sequences of operations *)

Inductive pff_op :=
| OpAdd (e : mod_pff_entry)
| OpRemove (e : mod_pff_entry)
| OpFlush
| OpModify (es : list mod_pff_entry)
| OpIsEmpty
| OpNhop (pci : pdu) (old : list Z).

Inductive pff_ans := AnsRet (r : Z) | AnsBool (b : bool) | AnsHops (r : Z) (l : list Z).

Definition pff_step (priv : option (list pft_entry)) (op : pff_op) o
  : option (pff_ans * option (list pft_entry) * oracle) :=
  let lift := fun x => '(r, priv, o) ← x; Some (AnsRet r, priv, o) in
  match op with
  | OpAdd e => lift (default_add priv (Some e) o)
  | OpRemove e => lift (default_remove priv (Some e) o)
  | OpFlush => lift (default_flush priv o)
  | OpModify es => lift (default_modify priv es o)
  | OpIsEmpty => Some (AnsBool (default_is_empty priv), priv, o)
  | OpNhop pci old => let '(r, l, o) := default_nhop priv pci old o in Some (AnsHops r l, priv, o)
  end.

Fixpoint pff_run (priv : option (list pft_entry)) (ops : list pff_op) o
  : option (list pff_ans * option (list pft_entry)) :=
  match ops with
  | [] => Some ([], priv)
  | op :: ops' =>
      '(a, priv, o) ← pff_step priv op o;
      '(l, priv) ← pff_run priv ops' o;
      Some (a :: l, priv)
  end.

Definition spec_step m (op : pff_op) : pff_ans * fmap_t :=
  match op with
  | OpAdd e => if entry_ok e then (AnsRet 0, spec_add m e) else (AnsRet (-1), m)
  | OpRemove e => if entry_ok e then (AnsRet (fst (spec_remove m e)), snd (spec_remove m e)) else (AnsRet (-1), m)
  | OpFlush => (AnsRet 0, ∅)
  | OpModify es => (AnsRet 0, spec_modify es)
  | OpIsEmpty => (AnsBool (bool_decide (m = ∅)), m)
  | OpNhop pci old =>
      (match (if is_address_ok (pci.(attr) A_DESTINATION) && is_qos_id_ok (pci.(attr) A_QOS_ID)
              then spec_route m (pci.(attr) A_DESTINATION) (pci.(attr) A_QOS_ID) else None) with
       | Some l => AnsHops 0 l
       | None => AnsHops (-1) old
       end, m)
  end.

Fixpoint spec_run m (ops : list pff_op) : list pff_ans * fmap_t :=
  match ops with
  | [] => ([], m)
  | op :: ops' =>
      let '(a, m) := spec_step m op in
      let '(l, m) := spec_run m ops' in (a :: l, m)
  end.

Definition op_ok (op : pff_op) : Prop :=
  match op with
  | OpAdd e | OpRemove e => alts_ok e.(mpe_port_id_altlists)
  | OpModify es => Forall (fun e => alts_ok e.(mpe_port_id_altlists)) es
  | _ => True
  end.

Lemma represents_empty : represents_map [] ∅.
Proof. done. Qed.

Lemma pff_step_refines T m op :
  represents_map T m -> op_ok op ->
  exists T', pff_step (Some T) op [] = Some (fst (spec_step m op), Some T', []) /\
    represents_map T' (snd (spec_step m op)).
Proof.
  intros Hr Hop. destruct op as [e|e| |es| |pci old]; cbn [pff_step spec_step op_ok] in *.
  - cbn [default_add]. destruct (entry_ok e) eqn:E; cbn [negb]; [|by eexists].
    destruct (pff_add_memory T m e Hr Hop) as (T' & -> & Hr'). by eexists.
  - destruct (entry_ok e) eqn:E.
    + destruct (remove_memory T m e Hr Hop E) as (T' & -> & Hr'). by eexists.
    + unfold default_remove. rewrite E. by eexists.
  - cbn [default_flush]. unfold __pff_flush. rewrite flush_entries_memory by done. eexists. by split.
  - cbn [default_modify]. unfold __pff_flush. rewrite flush_entries_memory by done. cbn [mbind option_bind].
    destruct (add_all_memory es [] ∅ represents_empty Hop) as (T' & -> & Hr'). by eexists.
  - eexists. split; [|exact Hr]. cbn [fst snd default_is_empty]. do 4 f_equal. apply bool_decide_ext.
    destruct Hr as [Hok <-]. destruct T as [|e T]; [done|]. rewrite table_map_cons. split; [done|].
    intros H. by apply insert_non_empty in H.
  - eexists. split; [|exact Hr]. rewrite (nhop_route T m) by done. by destruct (if _ && _ then _ else _).
Qed.

(** C26: the forwarding table refines the finite map: from a table that represents [m], any
    sequence of additions, removals, replacements, flushes and look-ups, with memory,
    gives the answers of the map and a table that represents its last state. *)
Theorem pff_refines T m ops :
  represents_map T m -> Forall op_ok ops ->
  exists T', pff_run (Some T) ops [] = Some (fst (spec_run m ops), Some T') /\
    represents_map T' (snd (spec_run m ops)).
Proof.
  intros Hr Hops. revert T m Hr. induction Hops as [|op ops Hop Hops IH]; intros T m Hr; [by eexists|].
  cbn [pff_run spec_run]. destruct (pff_step_refines T m op Hr Hop) as (T1 & -> & Hr1). cbn [mbind option_bind].
  destruct (spec_step m op) as [a m1]. destruct (IH T1 m1 Hr1) as (T2 & -> & Hr2). cbn [fst snd mbind option_bind].
  destruct (spec_run m1 ops) as [l m2]. by eexists.
Qed.

(** An addition that finds no memory returns -1 and leaves the routes as they were, or
    without the entry it was to extend - including the ports that entry had. *)
Theorem pff_add_no_memory T m e o T' o' :
  represents_map T m -> alts_ok e.(mpe_port_id_altlists) -> entry_ok e = true ->
  default_add (Some T) (Some e) o = Some (-1, Some T', o') ->
  represents_map T' m \/ represents_map T' (base.delete (route_key m e.(mpe_fwd_info) e.(mpe_qos_id)) m).
Proof.
  intros Hr Ha He E. unfold default_add in E. rewrite He in E. cbn [negb] in E.
  destruct (__pff_add T e o) as [[[r T1] o1]|] eqn:E1; [|done]. cbn [mbind option_bind] in E. simplify_eq.
  by destruct (pff_add_refines _ _ _ _ _ _ _ Hr Ha E1) as [[? _]|[_ H]].
Qed.

(** ** Dump and restore *)

Definition dump_entry (junk : Z) (e : pft_entry) : mod_pff_entry :=
  mk_mod_pff_entry e.(destination) e.(qos_id) junk ((fun p => mk_port_id_altlist [p] 1) <$> e.(ports)).

Lemma altlists_copy_memory l acc :
  pfte_port_id_altlists_copy l acc [] = (0, acc ++ ((fun p => mk_port_id_altlist [p] 1) <$> l), []).
Proof.
  revert acc. induction l as [|p l IH]; intros acc; cbn; [by rewrite app_nil_r|].
  by rewrite IH, <- (assoc_L (++)).
Qed.

Lemma dump_loop_memory junk T es :
  dump_loop junk T es [] = (0, reverse (dump_entry junk <$> T) ++ es, []).
Proof.
  revert es. induction T as [|e T IH]; intros es; [done|].
  cbn [dump_loop rkmalloc negb]. rewrite altlists_copy_memory. cbn [app Z.eqb negb].
  rewrite IH. rewrite fmap_cons, reverse_cons, <- (assoc_L (++)). done.
Qed.

Lemma add_all_app T es1 es2 o :
  add_all T (es1 ++ es2) o = '(T, o) ← add_all T es1 o; add_all T es2 o.
Proof.
  revert T o. induction es1 as [|e es1 IH]; intros T o; [done|]. cbn [app add_all].
  destruct (negb _); [apply IH|]. destruct (negb _); [apply IH|].
  destruct (__pff_add T e o) as [[[r T1] o1]|]; [|done]. cbn [mbind option_bind]. apply IH.
Qed.

Lemma first_ports_dump l : first_ports ((fun p => mk_port_id_altlist [p] 1) <$> l) = l.
Proof. unfold first_ports. induction l as [|p l IH]; [done|]. cbn. by f_equal. Qed.

Lemma alts_ok_dump l : alts_ok ((fun p => mk_port_id_altlist [p] 1) <$> l).
Proof. unfold alts_ok. induction l; cbn; constructor; [by right|done]. Qed.

Lemma spec_merge_NoDup l acc :
  NoDup (l ++ acc) -> spec_merge acc l = reverse l ++ acc.
Proof.
  revert acc. induction l as [|p l IH]; intros acc Hnd; [done|]. unfold spec_merge in *. cbn [foldl].
  cbn [app] in Hnd. apply NoDup_cons in Hnd as [Hp Hnd].
  rewrite decide_False by (intros H; apply Hp, elem_of_app; by right).
  rewrite IH; [by rewrite reverse_cons, <- (assoc_L (++))|].
  rewrite <- Permutation_middle. by constructor.
Qed.

Definition reversed (e : pft_entry) : pft_entry := set_ports (reverse e.(ports)) e.

Lemma pft_find_reversed T dst q : pft_find (reversed <$> T) dst q = pft_find T dst q.
Proof. induction T as [|e T IH]; [done|]. rewrite fmap_cons. cbn [pft_find]. by rewrite IH. Qed.

(** Entries that the operations accept, with each port once. *)
Definition restorable (e : pft_entry) : Prop :=
  is_address_ok e.(destination) = true /\ is_qos_id_ok e.(qos_id) = true /\ NoDup e.(ports).

Lemma restore_all junk T :
  pft_ok T -> Forall restorable T ->
  add_all [] (reverse (dump_entry junk <$> T)) [] = Some (reversed <$> T, []).
Proof.
  induction T as [|e T IH]; intros Hok Ht; [done|]. destruct Hok as [Hn Hok].
  inversion_clear Ht as [|? ? (Hd & Hq & Hnd) Ht'].
  rewrite fmap_cons, reverse_cons, add_all_app, IH by done. cbn [mbind option_bind add_all].
  cbn [dump_entry mpe_fwd_info mpe_qos_id]. rewrite Hd, Hq. cbn [negb].
  unfold __pff_add. cbn [dump_entry mpe_fwd_info mpe_qos_id mpe_port_id_altlists].
  rewrite pft_find_reversed, Hn. cbn [rkmalloc negb post_sysfs_work mbind option_bind].
  unfold pff_add_at. cbn [lookup list_lookup ports].
  destruct (add_ports_spec [] _ [] (alts_ok_dump (ports e))) as (b & l' & o' & -> & Hl & Hb). destruct (Hb eq_refl) as [-> ->].
  cbn [mbind option_bind]. rewrite (Hl eq_refl), first_ports_dump.
  rewrite spec_merge_NoDup by (by rewrite app_nil_r). rewrite app_nil_r. done.
Qed.

(** Replacing a table by its own dump gives the same entries in the same order, so every
    destination and QoS id keeps its ports, each entry's in reverse order. *)
Theorem pff_dump_modify T0 T junk :
  pft_ok T -> Forall restorable T ->
  exists es, default_dump (Some T) junk [] [] = (0, es, []) /\
    default_modify (Some T0) es [] = Some (0, Some (reversed <$> T), []) /\
    forall dst q, pft_find (reversed <$> T) dst q = pft_find T dst q.
Proof.
  intros Hok Ht. eexists. cbn [default_dump]. rewrite dump_loop_memory, app_nil_r. split; [reflexivity|].
  split; [|intros; apply pft_find_reversed].
  cbn [default_modify]. unfold __pff_flush. rewrite flush_entries_memory by done. cbn [mbind option_bind].
  by rewrite restore_all.
Qed.

(** ** Examples *)

Definition ex_entry (dst q : Z) (l : list Z) : mod_pff_entry := dump_entry 0 (mk_pft_entry dst q l).

Definition ex_data_pdu (dst q : Z) : pdu :=
  mk_pdu (fun a => match a with A_DESTINATION => dst | A_QOS_ID => q | _ => 0 end) [].

Definition ex_ops : list pff_op :=
  [OpAdd (ex_entry 20 5 [1]); OpAdd (ex_entry 20 0 [2; 3]); OpNhop (ex_data_pdu 20 5) [];
   OpRemove (ex_entry 20 5 [2; 3]); OpNhop (ex_data_pdu 20 5) []].

Lemma ex_ops_ok : Forall op_ok ex_ops.
Proof. unfold ex_ops. repeat (apply List.Forall_cons; [try done; apply alts_ok_dump|]). constructor. Qed.

Lemma pff_refines_witness :
  exists T', pff_run (Some []) ex_ops [] = Some (fst (spec_run ∅ ex_ops), Some T') /\
    represents_map T' (snd (spec_run ∅ ex_ops)).
Proof. apply (pff_refines [] ∅ ex_ops); [split; reflexivity|exact ex_ops_ok]. Defined.

(** A later entry for QoS id 0 hides the entry of QoS id 5, and a removal for QoS id 5 then
    takes the ports of QoS id 0: the hidden entry is back. *)
Example pff_default_hides :
  fst <$> pff_run (Some []) ex_ops [] =
    Some [AnsRet 0; AnsRet 0; AnsHops 0 [3; 2]; AnsRet 0; AnsHops 0 [1]].
Proof. reflexivity. Qed.

Definition ex_table : list pft_entry := [mk_pft_entry 20 0 [2; 3]; mk_pft_entry 20 5 [1]].

(** No memory for the second new port: the entry is destroyed. *)
Lemma pff_add_no_memory_witness :
  default_add (Some ex_table) (Some (ex_entry 20 0 [7; 8])) [true; false] =
    Some (-1, Some [mk_pft_entry 20 5 [1]], []) /\
  (represents_map [mk_pft_entry 20 5 [1]] (table_map ex_table) \/
   represents_map [mk_pft_entry 20 5 [1]]
     (base.delete (route_key (table_map ex_table) 20 0) (table_map ex_table))).
Proof.
  split; [reflexivity|].
  apply (pff_add_no_memory ex_table (table_map ex_table) (ex_entry 20 0 [7; 8]) [true; false] _ []).
  - by repeat split.
  - apply alts_ok_dump.
  - reflexivity.
  - reflexivity.
Defined.

Lemma pff_dump_modify_witness :
  exists es, default_dump (Some ex_table) 0 [] [] = (0, es, []) /\
    default_modify (Some []) es [] = Some (0, Some (reversed <$> ex_table), []) /\
    forall dst q, pft_find (reversed <$> ex_table) dst q = pft_find ex_table dst q.
Proof.
  apply (pff_dump_modify [] ex_table 0); [by repeat split|].
  repeat constructor; set_solver.
Defined.
