(* ===== verification/Rmt.v ===== *)
(** * The relaying and multiplexing task

    The N-1 ports of an RMT ([src/kernel/rmt.c]) under concurrency: senders, the egress
    tasklet, the notifications of the N-1 flows and the binding of ports run interleaved.
    The model is a transition system whose steps are the critical sections of the code:
    what happens between taking and releasing the lock of a port is one step, and so is a
    call of the write operation of the N-1 IPC process, which is made without locks.

    - [section] is one such step of a thread, [worker_section] one of the tasklet
      ([send_worker]); both are functions of the port.  [rmt_step] adds what looks up, binds and
      frees ports and moves the tasklet along the hash table.
    - A port is known by its address, a pair of its bucket and a serial number; addresses are not
      reused.  A step that touches a freed port does not exist: the run is stuck there.
    - The binding of a port, whose [hash_add] takes no lock, is one step; the memory it needs
      is found, the one for SDU protection included.
    - [refs_c] counts without wrap-around; a port is taken to hold fewer than 2^32 - 2 PDUs,
      and an entry of a queue to find memory.
    - [g_accepted] and [g_done] are not part of the code: the PDUs a port took, and those whose
      write has ended. *)

From S2P Require Import Prelude Kucommon Pci Rds Queues EfcpState RmtPs.
From Stdlib Require Import ZArith Lia.
From stdpp Require Import base list numbers option gmap sets relations.
#[local] Open Scope Z_scope.

Definition MAX_PDUS_SENT_PER_CYCLE : Z := 10.
Definition EAGAIN : Z := 11.
(** The table has 2^7 buckets. *)
Definition N1_BUCKETS : nat := 128.

Inductive flow_state :=
| N1_PORT_STATE_ENABLED
| N1_PORT_STATE_DISABLED
| N1_PORT_STATE_DO_NOT_DISABLE
| N1_PORT_STATE_DEALLOCATED.

#[export] Instance flow_state_eq_dec : EqDecision flow_state.
Proof. solve_decision. Defined.

Record n1_port_stats := mk_stats {
  plen : Z;
  drop_pdus : Z;
  err_pdus : Z;
  tx_pdus : Z;
  tx_bytes : Z;
  rx_pdus : Z;
  rx_bytes : Z
}.

(** An address: bucket and serial number. *)
Abbreviation ptr := (nat * nat)%type.

(** The result of a write: the PDU was refused for now, or not kept ([ret] is its length, or
    an error after which it is destroyed). *)
Inductive write_result := WRefused | WDone (ret : Z).

(** Where a thread is.  [TEnqueue] ... [TRelease] are the critical sections of
    [rmt_send_port_id], each named by what it does next. *)
Inductive thread :=
| TEnqueue (a : ptr) (p : pdu)
| TWrite (a : ptr) (p : pdu)
| TAgain (a : ptr) (p : pdu)
| TFinish (a : ptr) (ret : Z)
| TRelease (a : ptr)
| TCleanup (a : ptr)
| TEnable (a : ptr)
| TDisable (a : ptr)
| TUnbind (a : ptr).

(** How far the tasklet is: the next bucket, the next port of the present one, and whether to
    schedule the tasklet again. *)
Record scan := mk_scan { bucket : nat; nxt : option ptr; resched : bool }.

Inductive worker :=
| WIdle
| WScan (c : scan)
| WWrite (a : ptr) (p : pdu) (n : Z) (c : scan)
| WAgain (a : ptr) (p : pdu) (n : Z) (c : scan)
| WBack (a : ptr) (ret n : Z) (c : scan)
| WCleanup (a : ptr) (c : scan).

Section Rmt.
Context {P Q X : Type} `{RmtPsLaws P Q X}.

Record n1_port := mk_n1_port {
  n1_id : Z;
  state : flow_state;
  refs_c : Z;
  pending_du : option pdu;
  stats : n1_port_stats;
  wbusy : bool;
  queues : Q;
  g_accepted : list pdu;
  g_done : list pdu
}.

Implicit Types (po : n1_port) (a : ptr).

Definition set_state v po : n1_port :=
  mk_n1_port po.(n1_id) v po.(refs_c) po.(pending_du) po.(stats) po.(wbusy) po.(queues) po.(g_accepted) po.(g_done).
Definition set_refs_c v po : n1_port :=
  mk_n1_port po.(n1_id) po.(state) v po.(pending_du) po.(stats) po.(wbusy) po.(queues) po.(g_accepted) po.(g_done).
Definition set_pending_du v po : n1_port :=
  mk_n1_port po.(n1_id) po.(state) po.(refs_c) v po.(stats) po.(wbusy) po.(queues) po.(g_accepted) po.(g_done).
Definition set_stats v po : n1_port :=
  mk_n1_port po.(n1_id) po.(state) po.(refs_c) po.(pending_du) v po.(wbusy) po.(queues) po.(g_accepted) po.(g_done).
Definition set_wbusy v po : n1_port :=
  mk_n1_port po.(n1_id) po.(state) po.(refs_c) po.(pending_du) po.(stats) v po.(queues) po.(g_accepted) po.(g_done).
Definition set_queues v po : n1_port :=
  mk_n1_port po.(n1_id) po.(state) po.(refs_c) po.(pending_du) po.(stats) po.(wbusy) v po.(g_accepted) po.(g_done).
Definition accept (p : pdu) po : n1_port :=
  mk_n1_port po.(n1_id) po.(state) po.(refs_c) po.(pending_du) po.(stats) po.(wbusy) po.(queues)
    (po.(g_accepted) ++ [p]) po.(g_done).
Definition finish_pdu (p : pdu) po : n1_port :=
  mk_n1_port po.(n1_id) po.(state) po.(refs_c) po.(pending_du) po.(stats) po.(wbusy) po.(queues)
    po.(g_accepted) (po.(g_done) ++ [p]).

Definition set_plen v (s : n1_port_stats) : n1_port_stats :=
  mk_stats (u32 v) s.(drop_pdus) s.(err_pdus) s.(tx_pdus) s.(tx_bytes) s.(rx_pdus) s.(rx_bytes).
Definition add_plen (d : Z) po : n1_port := set_stats (set_plen (po.(stats).(plen) + d) po.(stats)) po.
Definition inc_drop po : n1_port :=
  let s := po.(stats) in
  set_stats (mk_stats s.(plen) (u32 (s.(drop_pdus) + 1)) s.(err_pdus) s.(tx_pdus) s.(tx_bytes) s.(rx_pdus) s.(rx_bytes)) po.
Definition inc_err po : n1_port :=
  let s := po.(stats) in
  set_stats (mk_stats s.(plen) s.(drop_pdus) (u32 (s.(err_pdus) + 1)) s.(tx_pdus) s.(tx_bytes) s.(rx_pdus) s.(rx_bytes)) po.
Definition stats_inc_tx (bytes : Z) po : n1_port :=
  let s := po.(stats) in
  set_stats (mk_stats s.(plen) s.(drop_pdus) s.(err_pdus) (u32 (s.(tx_pdus) + 1)) (u32 (s.(tx_bytes) + bytes))
               s.(rx_pdus) s.(rx_bytes)) po.
Definition stats_inc_rx (bytes : Z) po : n1_port :=
  let s := po.(stats) in
  set_stats (mk_stats s.(plen) s.(drop_pdus) s.(err_pdus) s.(tx_pdus) s.(tx_bytes)
               (u32 (s.(rx_pdus) + 1)) (u32 (s.(rx_bytes) + bytes))) po.

Definition n1_port_create (id : Z) : n1_port :=
  mk_n1_port id N1_PORT_STATE_ENABLED 0 None (mk_stats 0 0 0 0 0 0 0) false q_new [] [].

(** ** Critical sections of the threads *)

Definition has_plen po : bool := negb (po.(stats).(plen) =? 0).
Definition in_state (s : flow_state) po : bool := bool_decide (po.(state) = s).

Definition must_enqueue po : bool := has_plen po || po.(wbusy) || in_state N1_PORT_STATE_DISABLED po.

(** What a section gives: the data of the policy set, the port, what the thread does next, and
    whether it scheduled the tasklet. *)
Definition result : Type := P * n1_port * list thread * bool.

(** [rmt_send_port_id], from the lock to the unlock. *)
Definition enqueue_section (ps : P) po a (p : pdu) (x : X) : option result :=
  let must := must_enqueue po in
  match ps_enqueue ps po.(queues) p must x with
  | None => None
  | Some (r, ps, q, f) =>
      let po := set_queues q po in
      let po := match f with Queued p' => accept p' po | _ => po end in
      if r =? RMT_PS_ENQ_SCHED then Some (ps, add_plen 1 po, [TRelease a], true)
      else if r =? RMT_PS_ENQ_DROP then Some (ps, inc_drop po, [TRelease a], false)
      else if r =? RMT_PS_ENQ_ERR then Some (ps, inc_err po, [TRelease a], false)
      else if r =? RMT_PS_ENQ_SEND then
        if must then Some (ps, inc_err po, [TRelease a], false)
        else match f with
             | Sent p' => Some (ps, set_wbusy true (accept p' po), [TWrite a p'], false)
             | _ => None
             end
      else Some (ps, po, [TRelease a], false)
  end.

(** The end of [n1_port_write_du] after [-EAGAIN]. *)
Definition again_section po (p : pdu) : n1_port * bool :=
  let po := match po.(pending_du) with Some _ => add_plen (-1) po | None => po end in
  let po := add_plen 1 (set_pending_du (Some p) po) in
  if in_state N1_PORT_STATE_DO_NOT_DISABLE po
  then (set_state N1_PORT_STATE_ENABLED po, true)
  else (set_state N1_PORT_STATE_DISABLED po, false).

(** The end of [rmt_send_port_id] after a write. *)
Definition finish_section po (ret : Z) : n1_port :=
  let po := set_wbusy false po in
  if 0 <=? ret then stats_inc_tx ret po else po.

(** [n1pmap_release]: the port, and whether it is to be freed. *)
Definition n1pmap_release po : n1_port * bool :=
  let po := set_refs_c (po.(refs_c) - 1) po in
  (po, (po.(refs_c) =? 0) && in_state N1_PORT_STATE_DEALLOCATED po).

Definition rmt_enable_port_id po : n1_port * bool :=
  let po := if in_state N1_PORT_STATE_ENABLED po then set_state N1_PORT_STATE_DO_NOT_DISABLE po
            else set_state N1_PORT_STATE_ENABLED po in
  (set_refs_c (po.(refs_c) - 1) po, has_plen po).

Definition rmt_disable_port_id po : n1_port * bool :=
  let '(po, sc) :=
    if in_state N1_PORT_STATE_DISABLED po then (po, false)
    else if in_state N1_PORT_STATE_DO_NOT_DISABLE po then (set_state N1_PORT_STATE_ENABLED po, has_plen po)
    else (set_state N1_PORT_STATE_DISABLED po, false) in
  (set_refs_c (po.(refs_c) - 1) po, sc).

(** The reference is dropped in a section of its own. *)
Definition rmt_n1port_unbind po : n1_port := set_state N1_PORT_STATE_DEALLOCATED po.

(** What a section takes from outside. *)
Inductive input := INone | IEnqueue (x : X) | IWrite (r : write_result).

(** The next section of a thread; [TCleanup], which frees the port, is a step of its own. *)
Definition section (ps : P) po (t : thread) (i : input) : option result :=
  match t, i with
  | TEnqueue a p, IEnqueue x => enqueue_section ps po a p x
  | TWrite a p, IWrite WRefused => Some (ps, po, [TAgain a p], false)
  | TWrite a p, IWrite (WDone ret) => Some (ps, finish_pdu p po, [TFinish a ret], false)
  | TAgain a p, INone =>
      let '(po, sc) := again_section po p in Some (ps, po, [TFinish a (- EAGAIN)], sc)
  | TFinish a ret, INone => Some (ps, finish_section po ret, [TRelease a], false)
  | TRelease a, INone =>
      let '(po, free) := n1pmap_release po in Some (ps, po, if free then [TCleanup a] else [], false)
  | TEnable a, INone => let '(po, sc) := rmt_enable_port_id po in Some (ps, po, [], sc)
  | TDisable a, INone => let '(po, sc) := rmt_disable_port_id po in Some (ps, po, [], sc)
  | TUnbind a, INone => Some (ps, rmt_n1port_unbind po, [TRelease a], false)
  | _, _ => None
  end.

(** ** Critical sections of the tasklet *)

Definition enabled po : bool := in_state N1_PORT_STATE_ENABLED po || in_state N1_PORT_STATE_DO_NOT_DISABLE po.

(** After the loop on a port. *)
Definition leave_port po a (c : scan) : n1_port * worker :=
  let r := c.(resched) || (enabled po && has_plen po) in
  let c := mk_scan c.(bucket) c.(nxt) r in
  let po := set_wbusy false po in
  let '(po, free) := n1pmap_release po in
  (po, if free then WCleanup a c else WScan c).

(** The head of the loop: [n] PDUs were sent. *)
Definition send_loop (ps : P) po a (n : Z) (c : scan) : n1_port * worker :=
  if (n <? MAX_PDUS_SENT_PER_CYCLE) && has_plen po then
    match po.(pending_du) with
    | Some p => (add_plen (-1) (set_pending_du None po), WWrite a p n c)
    | None =>
        let '(r, q) := ps_dequeue ps po.(queues) in
        let po := set_queues q po in
        match r with
        | None => leave_port po a c
        | Some p => (add_plen (-1) po, WWrite a p n c)
        end
    end
  else leave_port po a c.

(** The first look at a port; [c] is the position behind it. *)
Definition visit_port (ps : P) po a (c : scan) : n1_port * worker :=
  if in_state N1_PORT_STATE_DEALLOCATED po && (po.(refs_c) =? 0) then (po, WCleanup a c)
  else if in_state N1_PORT_STATE_DISABLED po || negb (has_plen po) then (po, WScan c)
  else if po.(wbusy) then (po, WScan (mk_scan c.(bucket) c.(nxt) true))
  else send_loop ps (set_wbusy true (set_refs_c (po.(refs_c) + 1) po)) a 0 c.

(** The next section of the tasklet while it is at a port. *)
Definition worker_section (ps : P) po (w : worker) (i : input) : option (n1_port * worker * bool) :=
  match w, i with
  | WWrite a p n c, IWrite WRefused => Some (po, WAgain a p n c, false)
  | WWrite a p n c, IWrite (WDone ret) => Some (finish_pdu p po, WBack a ret n c, false)
  | WAgain a p n c, INone =>
      let '(po, sc) := again_section po p in Some (po, WBack a (- EAGAIN) n c, sc)
  | WBack a ret n c, INone =>
      Some (if ret <? 0 then leave_port po a c
            else send_loop ps (stats_inc_tx ret po) a (n + 1) c, false)
  | _, _ => None
  end.

(** ** The RMT *)

Record rmt := mk_rmt {
  r_ps : P;
  n1_ports : gmap ptr n1_port;
  hash_order : list ptr;           (* the ports of all buckets, the newest first *)
  serial : nat;               (* of the next port *)
  egress_tasklet : bool;      (* scheduled *)
  wk : worker;
  threads : list thread
}.

Implicit Types s : rmt.

Definition upd s (ps : P) a po (sc : bool) (w : worker) (ts : list thread) : rmt :=
  mk_rmt ps (<[a := po]> s.(n1_ports)) s.(hash_order) s.(serial) (s.(egress_tasklet) || sc) w ts.

Definition set_wk s (sc : bool) (w : worker) : rmt :=
  mk_rmt s.(r_ps) s.(n1_ports) s.(hash_order) s.(serial) sc w s.(threads).

(** [n1_port_cleanup]: out of the table, and freed. *)
Definition n1_port_cleanup s a (w : worker) (ts : list thread) : rmt :=
  mk_rmt s.(r_ps) (base.delete a s.(n1_ports)) (filter (fun b => b <> a) s.(hash_order)) s.(serial)
    s.(egress_tasklet) w ts.

(** [n1pmap_find], without the reference it takes. *)
Fixpoint find_ptr (m : gmap ptr n1_port) (l : list ptr) (id : Z) : option ptr :=
  match l with
  | [] => None
  | a :: l' =>
      match m !! a with
      | Some po =>
          if po.(n1_id) =? id
          then if in_state N1_PORT_STATE_DEALLOCATED po then None else Some a
          else find_ptr m l' id
      | None => find_ptr m l' id
      end
  end.

Definition n1pmap_find s (id : Z) : option ptr :=
  if 0 <=? id then find_ptr s.(n1_ports) s.(hash_order) id else None.

(** [rmt_n1port_bind] when there is no port for [id] and memory is found: a port in bucket [b],
    which stands for the hash of [id]; [hash_add] puts it in front. *)
Definition rmt_n1port_bind s (b : nat) (id : Z) : rmt :=
  mk_rmt s.(r_ps) (<[(b, s.(serial)) := n1_port_create id]> s.(n1_ports))
    ((b, s.(serial)) :: s.(hash_order)) (S s.(serial)) s.(egress_tasklet) s.(wk) s.(threads).

(** The entries behind [a]. *)
Fixpoint after a (l : list ptr) : list ptr :=
  match l with
  | [] => []
  | b :: l' => if decide (a = b) then l' else after a l'
  end.

Definition in_bucket (b : nat) (l : list ptr) : list ptr := filter (fun a => a.1 = b) l.

(** [hash_for_each_safe]: the next entry of the bucket of [a]. *)
Definition next_entry s a : option ptr := hd_error (in_bucket a.1 (after a s.(hash_order))).

(** The operations that start with a look-up of the port, and what they are then. *)
Inductive request := RSend (p : pdu) | REnable | RDisable | RUnbind | RReceive (bytes : Z) | RReceiveBad (bytes : Z) | RBind.

(** A received PDU that the SDU protection refuses, and a binding that finds the port, keep
    their reference. *)
Definition start (r : request) a po : n1_port * list thread :=
  match r with
  | RSend p => (po, [TEnqueue a p])
  | REnable => (po, [TEnable a])
  | RDisable => (po, [TDisable a])
  | RUnbind => (po, [TUnbind a])
  | RReceive bytes => (stats_inc_rx bytes po, [TRelease a])
  | RReceiveBad bytes => (stats_inc_rx bytes po, [])
  | RBind => (po, [])
  end.

(** The port a thread works on. *)
Definition port_of (t : thread) : ptr :=
  match t with
  | TEnqueue a _ | TWrite a _ | TAgain a _ | TFinish a _ | TRelease a | TCleanup a | TEnable a
  | TDisable a | TUnbind a => a
  end.

(** A section finds memory for a queue entry, in a queue of fewer than 2^32 - 2 PDUs. *)
Definition fits po (i : input) : Prop :=
  match i with
  | IEnqueue x => x_mem x = true /\ Z.of_nat (length (q_elems po.(queues))) < 2 ^ 32 - 2
  | _ => True
  end.

Inductive rmt_step : rmt -> rmt -> Prop :=
(* a call of an operation that finds its port *)
| step_start s r id a po po' ts :
    n1pmap_find s id = Some a -> s.(n1_ports) !! a = Some po ->
    start r a (set_refs_c (po.(refs_c) + 1) po) = (po', ts) ->
    rmt_step s (upd s s.(r_ps) a po' false s.(wk) (ts ++ s.(threads)))
(* a binding that does not *)
| step_bind s b id :
    n1pmap_find s id = None -> 0 <= id -> (b < N1_BUCKETS)%nat ->
    rmt_step s (rmt_n1port_bind s b id)
(* a section of a thread *)
| step_thread s l1 t l2 i a po ps' po' ts sc :
    s.(threads) = l1 ++ t :: l2 -> port_of t = a -> s.(n1_ports) !! a = Some po -> fits po i ->
    section s.(r_ps) po t i = Some (ps', po', ts, sc) ->
    rmt_step s (upd s ps' a po' sc s.(wk) (l1 ++ ts ++ l2))
| step_cleanup s l1 a l2 :
    s.(threads) = l1 ++ TCleanup a :: l2 -> is_Some (s.(n1_ports) !! a) ->
    rmt_step s (n1_port_cleanup s a s.(wk) (l1 ++ l2))
(* the tasklet: it starts, takes the next bucket, ends *)
| step_run s :
    s.(egress_tasklet) = true -> s.(wk) = WIdle ->
    rmt_step s (set_wk s false (WScan (mk_scan 0 None false)))
| step_bucket s b r :
    s.(wk) = WScan (mk_scan b None r) -> (b < N1_BUCKETS)%nat ->
    rmt_step s (set_wk s s.(egress_tasklet) (WScan (mk_scan (S b) (hd_error (in_bucket b s.(hash_order))) r)))
| step_end s b r :
    s.(wk) = WScan (mk_scan b None r) -> (N1_BUCKETS <= b)%nat ->
    rmt_step s (set_wk s (s.(egress_tasklet) || r) WIdle)
(* it looks at a port *)
| step_visit s b a r po po' w :
    s.(wk) = WScan (mk_scan b (Some a) r) -> s.(n1_ports) !! a = Some po ->
    visit_port s.(r_ps) po a (mk_scan b (next_entry s a) r) = (po', w) ->
    rmt_step s (upd s s.(r_ps) a po' false w s.(threads))
| step_worker s a i po po' w sc :
    (match s.(wk) with
     | WWrite b _ _ _ | WAgain b _ _ _ | WBack b _ _ _ => b = a
     | _ => False
     end) ->
    s.(n1_ports) !! a = Some po ->
    worker_section s.(r_ps) po s.(wk) i = Some (po', w, sc) ->
    rmt_step s (upd s s.(r_ps) a po' sc w s.(threads))
| step_worker_cleanup s a c :
    s.(wk) = WCleanup a c -> is_Some (s.(n1_ports) !! a) ->
    rmt_step s (n1_port_cleanup s a (WScan c) s.(threads)).

Definition rmt_init (ps : P) : rmt := mk_rmt ps ∅ [] 0 false WIdle [].

Definition reachable (ps : P) s : Prop := rtc rmt_step (rmt_init ps) s.

(** ** What the threads do to a port *)

Definition holds a (t : thread) : Z :=
  match t with TCleanup _ => 0 | _ => if decide (port_of t = a) then 1 else 0 end.
Definition writes a (t : thread) : Z :=
  match t with
  | TWrite b _ | TAgain b _ | TFinish b _ => if decide (b = a) then 1 else 0
  | _ => 0
  end.
Definition carries a (t : thread) : list pdu :=
  match t with TWrite b p | TAgain b p => if decide (b = a) then [p] else [] | _ => [] end.

Fixpoint holds_all a (l : list thread) : Z :=
  match l with [] => 0 | t :: l' => holds a t + holds_all a l' end.
Fixpoint writes_all a (l : list thread) : Z :=
  match l with [] => 0 | t :: l' => writes a t + writes_all a l' end.
Fixpoint carries_all a (l : list thread) : list pdu :=
  match l with [] => [] | t :: l' => carries a t ++ carries_all a l' end.

(** The tasklet at a port does what a thread does. *)
Definition wk_threads (w : worker) : list thread :=
  match w with
  | WWrite a p _ _ => [TWrite a p]
  | WAgain a p _ _ => [TAgain a p]
  | WBack a ret _ _ => [TFinish a ret]
  | WCleanup a _ => [TCleanup a]
  | _ => []
  end.

Definition actors s : list thread := wk_threads s.(wk) ++ s.(threads).

Lemma holds_all_app a l1 l2 : holds_all a (l1 ++ l2) = holds_all a l1 + holds_all a l2.
Proof. induction l1 as [|t l1 IH]; [done|]. cbn. lia. Qed.
Lemma writes_all_app a l1 l2 : writes_all a (l1 ++ l2) = writes_all a l1 + writes_all a l2.
Proof. induction l1 as [|t l1 IH]; [done|]. cbn. lia. Qed.
Lemma carries_all_app a l1 l2 : carries_all a (l1 ++ l2) = carries_all a l1 ++ carries_all a l2.
Proof. induction l1 as [|t l1 IH]; [done|]. cbn. by rewrite IH, (assoc_L (++)). Qed.

Lemma holds_range a t : 0 <= holds a t <= 1.
Proof. unfold holds. destruct t; try case_decide; lia. Qed.
Lemma holds_all_nonneg a l : 0 <= holds_all a l.
Proof. induction l as [|t l IH]; cbn; [done|]. pose proof (holds_range a t). lia. Qed.
Lemma carries_writes a l : Z.of_nat (length (carries_all a l)) <= writes_all a l.
Proof.
  induction l as [|t l IH]; [done|]. cbn. rewrite length_app.
  assert (Z.of_nat (length (carries a t)) <= writes a t); [|lia].
  destruct t; cbn; try case_decide; cbn; lia.
Qed.
Lemma writes_all_nonneg a l : 0 <= writes_all a l.
Proof. pose proof (carries_writes a l). lia. Qed.
Lemma writes_holds a l : writes_all a l <= holds_all a l.
Proof.
  induction l as [|t l IH]; [done|]. cbn.
  assert (writes a t <= holds a t); [|lia]. destruct t; cbn; try case_decide; lia.
Qed.

(** Threads at other ports. *)
Definition all_at a (l : list thread) : Prop := Forall (fun t => port_of t = a) l.

Lemma elsewhere a b l :
  all_at b l -> a <> b -> holds_all a l = 0 /\ writes_all a l = 0 /\ carries_all a l = [].
Proof.
  intros Hl Hne. induction Hl as [|t l Ht Hl IH]; [done|]. cbn. destruct IH as (-> & -> & ->).
  destruct t; cbn in *; rewrite ?decide_False by congruence; repeat split.
Qed.
End Rmt.
