(* ===== verification/RmtInv.v ===== *)
(** * Invariants of the RMT

    What holds in every reachable state of the transition system of [Rmt.v], for any policy
    set that satisfies the interface of [RmtPs.v]: the port a thread works on is
    allocated, a port has one writer at a time, its counters are exact, and the PDUs of a class
    leave it in the order in which it took them. *)

From S2P Require Import Prelude Kucommon Pci Rds Queues EfcpState RmtPs Rmt.
From Stdlib Require Import ZArith Lia.
From stdpp Require Import base list numbers option gmap sets relations.
#[local] Open Scope Z_scope.

(** The pending PDU as a list. *)
Definition pend_list (o : option pdu) : list pdu := match o with Some p => [p] | None => [] end.

(** Unfold the assignments to a port. *)
Ltac port_simpl :=
  unfold add_plen, inc_drop, inc_err, stats_inc_tx, stats_inc_rx, accept, finish_pdu, set_queues, set_wbusy,
    set_pending_du, set_refs_c, set_state, set_stats, set_plen in *;
  cbn [n1_id state refs_c pending_du stats wbusy queues g_accepted g_done plen drop_pdus err_pdus tx_pdus
    tx_bytes rx_pdus rx_bytes pend_list length] in *.

Section Inv.
Context {P Q X : Type} `{RmtPsLaws P Q X}.
Implicit Types (po : n1_port (Q := Q)) (a : ptr) (s : rmt (P := P) (Q := Q)).

(** ** One port

    [h] threads hold a reference, [w] of them write, and they carry the PDUs [c]. *)
Record port_inv po (h w : Z) (c : list pdu) : Prop := {
  pi_refs : h <= po.(refs_c);
  pi_busy : w = if po.(wbusy) then 1 else 0;
  pi_wf : q_wf po.(queues);
  pi_fits : Z.of_nat (length (q_elems po.(queues))) <= 2 ^ 32 - 2;
  pi_plen : po.(stats).(plen) =
    Z.of_nat (length (q_elems po.(queues))) + Z.of_nat (length (pend_list po.(pending_du)));
  pi_pending : c <> [] -> po.(pending_du) = None;
  pi_order k : of_class k (po.(g_done) ++ c ++ pend_list po.(pending_du) ++ q_elems po.(queues)) =
    of_class k po.(g_accepted)
}.

Lemma has_plen_false po h w c :
  port_inv po h w c -> has_plen po = false -> q_elems po.(queues) = [] /\ po.(pending_du) = None.
Proof.
  intros Hi Hp. unfold has_plen in Hp. apply negb_false_iff, Z.eqb_eq in Hp. rewrite (pi_plen _ _ _ _ Hi) in Hp.
  destruct (q_elems (queues po)); cbn in Hp; [|lia]. by destruct (pending_du po).
Qed.

(** Fields the invariant does not speak of. *)
Lemma port_inv_ext po po' h w c :
  port_inv po h w c -> po'.(refs_c) = po.(refs_c) -> po'.(wbusy) = po.(wbusy) -> po'.(queues) = po.(queues) ->
  po'.(stats).(plen) = po.(stats).(plen) -> po'.(pending_du) = po.(pending_du) ->
  po'.(g_done) = po.(g_done) -> po'.(g_accepted) = po.(g_accepted) -> port_inv po' h w c.
Proof. intros [] E1 E2 E3 E4 E5 E6 E7. split; rewrite ?E1, ?E2, ?E3, ?E4, ?E5, ?E6, ?E7; done. Qed.

(** Queues with the same PDUs. *)
Lemma port_inv_queues po q h w c :
  port_inv po h w c -> q_wf q -> q_elems q = q_elems po.(queues) -> port_inv (set_queues q po) h w c.
Proof. intros [] Hw He. split; port_simpl; rewrite ?He; done. Qed.

Lemma port_inv_refs po h w c d :
  port_inv po h w c -> port_inv (set_refs_c (po.(refs_c) + d) po) (h + d) w c.
Proof. intros []. split; port_simpl; try done. lia. Qed.

Lemma enqueue_section_inv ps po a p x ps' po' ts sc h w c :
  fits po (IEnqueue x) -> enqueue_section ps po a p x = Some (ps', po', ts, sc) ->
  Z.of_nat (length c) <= w -> port_inv po (h + 1) w c ->
  exists t, ts = [t] /\ port_of t = a /\ holds a t = 1 /\
    port_inv po' (h + 1) (w + writes a t) (c ++ carries a t).
Proof.
  intros [Hm Hf] E Hc Hi. unfold enqueue_section in E.
  destruct (ps_enqueue ps (queues po) p (must_enqueue po) x) as [[[[r ps1] q] f]|] eqn:Eq; [|done].
  pose proof (pi_wf _ _ _ _ Hi) as Hwf. pose proof (pi_plen _ _ _ _ Hi) as Hp.
  destruct (ps_enqueue_law _ _ _ _ _ _ _ _ _ Hwf Hm Hf Eq)
    as [(-> & Hwf' & p' & -> & Hl & Hk)|[(-> & Hmu & Hwf' & Hel & p' & ->)|(Hr & Hwf' & Hel & Hd)]].
  - cbn in E. injection E as <- <- <- <-. exists (TRelease a). split; [done|]. split; [done|].
    split; [cbn; by rewrite decide_True|]. cbn [writes carries]. rewrite Z.add_0_r, app_nil_r.
    destruct Hi as [I1 I2 I3 I4 I5 I6 I7]. split; port_simpl; try done.
    + rewrite Hl. lia.
    + rewrite Hl, uwrap_small; [lia|]. unfold in_u. destruct (pending_du po); cbn in *; lia.
    + intros k. rewrite !of_class_app, Hk, of_class_app, !(assoc_L (++)). rewrite <- (I7 k).
      by rewrite !of_class_app, !(assoc_L (++)).
  - cbn in E. rewrite Hmu in E. cbn in E. injection E as <- <- <- <-.
    unfold must_enqueue in Hmu. apply orb_false_iff in Hmu as [[Hpl Hb]%orb_false_iff _].
    destruct (has_plen_false _ _ _ _ Hi Hpl) as [Hq Hn]. destruct Hi as [I1 I2 I3 I4 I5 I6 I7].
    rewrite Hb in I2. assert (c = []) as -> by (destruct c; [done|cbn in Hc; lia]).
    exists (TWrite a p'). split; [done|]. split; [done|]. split; [cbn; by rewrite decide_True|].
    cbn [writes carries]. rewrite !decide_True by done.
    rewrite <- Hel in I4, I5, I7, Hq.
    split; port_simpl; try done; try lia. intros k. specialize (I7 k). rewrite Hn, Hq in *. cbn [pend_list app] in *.
    rewrite !app_nil_r in *. by rewrite !of_class_app, I7.
  - pose proof (port_inv_queues po q (h + 1) w c Hi Hwf' Hel) as Hi'.
    assert (match f with Queued p' => accept p' (set_queues q po) | _ => set_queues q po end
            = set_queues q po) as Ef by (by destruct Hd as [->| ->]).
    rewrite Ef in E. destruct Hr as [->| ->]; cbn in E; injection E as <- <- <- <-; exists (TRelease a);
      (split; [done|]; split; [done|]; split; [cbn; by rewrite decide_True|]);
      cbn [writes carries]; rewrite Z.add_0_r, app_nil_r; (eapply port_inv_ext; [exact Hi'|..]; done).
Qed.

Lemma again_section_inv po p po' sc h w c :
  again_section po p = (po', sc) -> c = [] -> port_inv po h w (c ++ [p]) -> port_inv po' h w c.
Proof.
  intros E -> Hi. unfold again_section in E. pose proof (pi_pending _ _ _ _ Hi ltac:(done)) as Hn. rewrite Hn in E.
  destruct Hi as [I1 I2 I3 I4 I5 I6 I7].
  assert (port_inv (add_plen 1 (set_pending_du (Some p) po)) h w []) as Ha.
  { split; port_simpl; try done.
    - rewrite Hn in I5. cbn in I5. rewrite uwrap_small; [lia|]. unfold in_u. lia.
    - intros k. rewrite <- (I7 k), Hn. done. }
  destruct (in_state _ _); injection E as <- <-; (eapply port_inv_ext; [exact Ha|..]; done).
Qed.

Lemma release_inv po po' free h w c :
  n1pmap_release po = (po', free) -> port_inv po (h + 1) w c ->
  port_inv po' h w c /\ (free = true -> po'.(refs_c) = 0 /\ po'.(state) = N1_PORT_STATE_DEALLOCATED).
Proof.
  intros E Hi. unfold n1pmap_release in E. injection E as <- <-. split.
  - apply (port_inv_refs _ _ _ _ (-1)) in Hi. by replace (h + 1 + -1) with h in Hi by lia.
  - intros [H1%Z.eqb_eq H2]%andb_prop. unfold in_state in H2. apply bool_decide_eq_true in H2. by split.
Qed.

(** What a step at [a] leaves behind: its threads [ts] at [a], in the place of [t]. *)
Definition section_post a po' (ts : list thread) (h w : Z) (c1 c2 : list pdu) : Prop :=
  port_inv po' (h + holds_all a ts) (w + writes_all a ts) (c1 ++ carries_all a ts ++ c2) /\ all_at a ts /\
  (forall b, TCleanup b ∈ ts -> po'.(refs_c) = 0 /\ po'.(state) = N1_PORT_STATE_DEALLOCATED).

Lemma section_post_one a po' t h w c1 c2 :
  port_of t = a -> (forall b, t <> TCleanup b) ->
  port_inv po' (h + holds a t) (w + writes a t) (c1 ++ carries a t ++ c2) -> section_post a po' [t] h w c1 c2.
Proof.
  intros Ha Hn Hi. split; [|split].
  - cbn. by rewrite !Z.add_0_r, app_nil_r.
  - by constructor.
  - intros b Hb. apply list_elem_of_singleton in Hb. by destruct (Hn b).
Qed.

Lemma section_post_none a po' h w c1 c2 : port_inv po' h w (c1 ++ c2) -> section_post a po' [] h w c1 c2.
Proof.
  intros Hi. split; [cbn; by rewrite !Z.add_0_r|]. split; [constructor|]. intros b Hb. by apply not_elem_of_nil in Hb.
Qed.

Lemma section_post_free a po' free h w c1 c2 :
  port_inv po' h w (c1 ++ c2) ->
  (free = true -> po'.(refs_c) = 0 /\ po'.(state) = N1_PORT_STATE_DEALLOCATED) ->
  section_post a po' (if free then [TCleanup a] else []) h w c1 c2.
Proof.
  intros Hi Hf. destruct free; [|by apply section_post_none]. split; [|split].
  - cbn. by rewrite !Z.add_0_r.
  - by constructor.
  - intros b _. by apply Hf.
Qed.

(** Nobody else carries a PDU to the port of a writer. *)
Lemma lone_writer po h w c1 p c2 :
  Z.of_nat (length c1 + length c2) <= w -> port_inv po h (w + 1) (c1 ++ [p] ++ c2) -> c1 = [] /\ c2 = [] /\ w = 0.
Proof.
  intros Hl Hi. pose proof (pi_busy _ _ _ _ Hi) as Hb.
  assert (w = 0) as -> by (destruct (wbusy po); lia). by destruct c1, c2; cbn in Hl; repeat split; lia.
Qed.

Lemma section_inv ps po t i ps' po' ts sc h w c1 c2 a :
  fits po i -> section ps po t i = Some (ps', po', ts, sc) -> port_of t = a ->
  Z.of_nat (length c1 + length c2) <= w ->
  port_inv po (h + holds a t) (w + writes a t) (c1 ++ carries a t ++ c2) ->
  section_post a po' ts h w c1 c2.
Proof.
  intros Hfit E Ha Hl Hi.
  destruct t as [b p|b p|b p|b ret|b|b|b|b|b], i as [|x|[|ret']]; cbn in Ha; subst b; cbn [section] in E; try done;
    cbn [holds writes carries port_of] in Hi; rewrite ?decide_True in Hi by done; rewrite ?Z.add_0_r in Hi.
  - rewrite app_nil_l in Hi. destruct (enqueue_section_inv _ _ _ _ _ _ _ _ _ h w (c1 ++ c2) Hfit E) as (t & -> & Ht & Hh & Hi').
    { by rewrite length_app. } { done. }
    apply section_post_one; [done|by intros b ->; rewrite <- Ht in Hh|]. rewrite Hh.
    destruct (carries a t) as [|p' l'] eqn:Ec; [by rewrite !app_nil_r in *|].
    assert (l' = [] /\ writes a t = 1) as [-> Hw].
    { destruct t; cbn in *; try done; case_decide; by simplify_eq. }
    rewrite Hw in *. pose proof (pi_busy _ _ _ _ Hi') as Hb.
    assert (w = 0) as -> by (destruct (wbusy po'); lia).
    assert (c1 = [] /\ c2 = []) as [-> ->] by (destruct c1, c2; cbn in Hl; repeat split; lia). done.
  - injection E as <- <- <- <-. apply section_post_one; [done..|]. cbn [holds writes carries port_of].
    by rewrite !decide_True.
  - injection E as <- <- <- <-. destruct (lone_writer _ _ _ _ _ _ Hl Hi) as (-> & -> & ->).
    apply section_post_one; [done..|]. cbn [holds writes carries port_of]. rewrite !decide_True by done.
    destruct Hi as [I1 I2 I3 I4 I5 I6 I7]. split; port_simpl; try done. intros k. rewrite <- (I7 k).
    by rewrite <- (assoc_L (++)).
  - destruct (again_section po p) as [po1 sc1] eqn:Eg. injection E as <- <- <- <-.
    destruct (lone_writer _ _ _ _ _ _ Hl Hi) as (-> & -> & ->).
    apply section_post_one; [done..|]. cbn [holds writes carries port_of]. rewrite !decide_True by done.
    eapply again_section_inv; [exact Eg|done|exact Hi].
  - injection E as <- <- <- <-. apply section_post_one; [done..|]. cbn [holds writes carries port_of].
    rewrite !decide_True, ?Z.add_0_r by done. unfold finish_section. destruct Hi as [I1 I2 I3 I4 I5 I6 I7].
    assert (w = 0) as -> by (destruct (wbusy po); lia).
    destruct (0 <=? ret); split; port_simpl; done.
  - destruct (n1pmap_release po) as [po1 free] eqn:Er. injection E as <- <- <- <-.
    destruct (release_inv _ _ _ _ _ _ Er Hi) as [Hi' Hf]. by apply section_post_free.
  - unfold rmt_enable_port_id in E. injection E as <- <- <- <-. apply section_post_none.
    apply (port_inv_refs _ _ _ _ (-1)) in Hi. replace (h + 1 + -1) with h in Hi by lia.
    destruct (in_state _ _); (eapply port_inv_ext; [exact Hi|..]; done).
  - unfold rmt_disable_port_id in E.
    apply (port_inv_refs _ _ _ _ (-1)) in Hi. replace (h + 1 + -1) with h in Hi by lia.
    destruct (in_state _ po); [|destruct (in_state _ po)]; injection E as <- <- <- <-; apply section_post_none;
      (eapply port_inv_ext; [exact Hi|..]; done).
  - injection E as <- <- <- <-. apply section_post_one; [done..|]. cbn [holds writes carries port_of].
    rewrite !decide_True, ?Z.add_0_r by done. eapply port_inv_ext; [exact Hi|..]; done.
Qed.

(** ** The tasklet at a port *)

Lemma leave_port_inv po a c po' wk' h w c1 c2 :
  leave_port po a c = (po', wk') -> w = 0 -> port_inv po (h + 1) (w + 1) (c1 ++ c2) ->
  section_post a po' (wk_threads wk') h w c1 c2.
Proof.
  intros E -> Hi. unfold leave_port in E.
  assert (port_inv (set_wbusy false po) (h + 1) 0 (c1 ++ c2)) as Hi'.
  { destruct Hi as [I1 I2 I3 I4 I5 I6 I7]. split; port_simpl; done. }
  destruct (n1pmap_release (set_wbusy false po)) as [po1 free] eqn:Er. injection E as <- <-.
  destruct (release_inv _ _ _ _ _ _ Er Hi') as [Hi2 Hf].
  replace (wk_threads (if free then _ else _)) with (if free then [TCleanup a] else [] : list thread)
    by (by destruct free). by apply section_post_free.
Qed.

Lemma send_loop_inv ps po a n c po' wk' h :
  send_loop ps po a n c = (po', wk') -> port_inv po (h + 1) 1 [] ->
  section_post a po' (wk_threads wk') h 0 [] [].
Proof.
  intros E Hi. unfold send_loop in E.
  destruct (_ && has_plen po) eqn:Ec; [|by eapply leave_port_inv].
  destruct (pending_du po) as [p|] eqn:Ep.
  - injection E as <- <-. apply section_post_one; [done..|].
    cbn [holds writes carries port_of wk_threads]. rewrite !decide_True by done.
    destruct Hi as [I1 I2 I3 I4 I5 I6 I7]. rewrite Ep in *. split; port_simpl; try done.
    rewrite uwrap_small; [lia|]. unfold in_u. lia.
  - destruct (ps_dequeue ps (queues po)) as [r q] eqn:Ed.
    destruct (ps_dequeue_law ps (queues po) (pi_wf _ _ _ _ Hi)) as (Hwf & Hr & Hq). rewrite Ed in *. cbn [fst snd] in *.
    destruct Hi as [I1 I2 I3 I4 I5 I6 I7]. rewrite Ep in *.
    destruct (q_elems (queues po)) as [|p l] eqn:Eq; cbn [hd_error tail] in *; subst r.
    + eapply leave_port_inv; [exact E|done|]. split; port_simpl; rewrite ?Ep, ?Hq; done.
    + injection E as <- <-. apply section_post_one; [done..|].
      cbn [holds writes carries port_of wk_threads]. rewrite !decide_True by done.
      split; port_simpl; rewrite ?Ep, ?Hq; try done.
      * cbn [length] in I4. lia.
      * cbn [length pend_list] in *. rewrite uwrap_small; [lia|]. unfold in_u. lia.
Qed.

Lemma visit_port_inv ps po a c po' wk' h w cs :
  visit_port ps po a c = (po', wk') -> Z.of_nat (length cs) <= w -> port_inv po h w cs ->
  section_post a po' (wk_threads wk') h w [] cs /\
  (po.(refs_c) = 0 /\ po.(state) = N1_PORT_STATE_DEALLOCATED -> po' = po).
Proof.
  intros E Hl Hi. unfold visit_port, in_state in E.
  case_bool_decide as Hd; cbn [andb] in E; [destruct (Z.eqb_spec (refs_c po) 0) as [Hr|Hr]|].
  - injection E as <- <-. split; [|done]. by apply (section_post_free a po true).
  - rewrite bool_decide_false in E by congruence. cbn [orb] in E.
    destruct (has_plen po) eqn:Ep; cbn [negb] in E; [|injection E as <- <-; split; [by apply section_post_none|tauto]].
    destruct (wbusy po) eqn:Eb; [injection E as <- <-; split; [by apply section_post_none|tauto]|].
    split; [|tauto]. pose proof (pi_busy _ _ _ _ Hi) as Hw. rewrite Eb in Hw. subst w.
    assert (cs = []) as -> by (destruct cs; [done|cbn in Hl; lia]).
    eapply send_loop_inv; [exact E|]. destruct Hi as [I1 I2 I3 I4 I5 I6 I7]. split; port_simpl; try done. lia.
  - destruct (bool_decide (state po = N1_PORT_STATE_DISABLED) || negb (has_plen po));
      [injection E as <- <-; split; [by apply section_post_none|tauto]|].
    destruct (wbusy po) eqn:Eb; [injection E as <- <-; split; [by apply section_post_none|tauto]|].
    split; [|tauto]. pose proof (pi_busy _ _ _ _ Hi) as Hw. rewrite Eb in Hw. subst w.
    assert (cs = []) as -> by (destruct cs; [done|cbn in Hl; lia]).
    eapply send_loop_inv; [exact E|]. destruct Hi as [I1 I2 I3 I4 I5 I6 I7]. split; port_simpl; try done. lia.
Qed.

Lemma worker_section_inv ps po wk0 i po' wk' sc a h w c2 :
  worker_section ps po wk0 i = Some (po', wk', sc) ->
  (match wk0 with WWrite b _ _ _ | WAgain b _ _ _ | WBack b _ _ _ => b = a | _ => False end) ->
  Z.of_nat (length c2) <= w ->
  port_inv po (h + holds_all a (wk_threads wk0)) (w + writes_all a (wk_threads wk0))
    (carries_all a (wk_threads wk0) ++ c2) ->
  section_post a po' (wk_threads wk') h w [] c2 /\ all_at a (wk_threads wk0).
Proof.
  intros E Ha Hl Hi. destruct wk0 as [| |b p n c|b p n c|b ret n c|]; try done; subst b;
    cbn [wk_threads holds_all writes_all carries_all holds writes carries port_of] in Hi;
    rewrite !decide_True in Hi by done; rewrite ?Z.add_0_r in Hi;
    (split; [|by constructor]).
  - cbn [app] in Hi. destruct i as [|x|[|ret]]; cbn [worker_section] in E; simplify_eq.
    + apply section_post_one; [done..|]. cbn [holds writes carries port_of]. by rewrite !decide_True.
    + destruct (lone_writer po (h + 1) w [] p c2 Hl Hi) as (_ & -> & ->).
      apply section_post_one; [done..|]. cbn [holds writes carries port_of]. rewrite !decide_True by done.
      destruct Hi as [I1 I2 I3 I4 I5 I6 I7]. split; port_simpl; try done. intros k. rewrite <- (I7 k).
      by rewrite <- (assoc_L (++)).
  - cbn [app] in Hi. destruct i; cbn [worker_section] in E; try done.
    destruct (again_section po p) as [po1 sc1] eqn:Eg. injection E as <- <- <-.
    destruct (lone_writer po (h + 1) w [] p c2 Hl Hi) as (_ & -> & ->).
    apply section_post_one; [done..|]. cbn [holds writes carries port_of]. rewrite !decide_True by done.
    eapply again_section_inv; [exact Eg|done|exact Hi].
  - destruct i; cbn [worker_section] in E; try done. injection E as E <-. cbn [app] in Hi.
    pose proof (pi_busy _ _ _ _ Hi) as Hb. assert (w = 0) as -> by (destruct (wbusy po); lia).
    assert (c2 = []) as -> by (destruct c2; [done|cbn in Hl; lia]).
    destruct (ret <? 0); [by eapply leave_port_inv|].
    eapply send_loop_inv; [exact E|]. eapply port_inv_ext; [exact Hi|..]; done.
Qed.

(** ** The whole RMT *)

Record rmt_inv s : Prop := {
  inv_ports a po : s.(n1_ports) !! a = Some po ->
    port_inv po (holds_all a (actors s)) (writes_all a (actors s)) (carries_all a (actors s));
  inv_none a : s.(n1_ports) !! a = None -> holds_all a (actors s) = 0;
  inv_cleanup a po : TCleanup a ∈ actors s -> s.(n1_ports) !! a = Some po ->
    po.(refs_c) = 0 /\ po.(state) = N1_PORT_STATE_DEALLOCATED;
  inv_order a : a ∈ s.(hash_order) <-> is_Some (s.(n1_ports) !! a);
  inv_nodup : NoDup s.(hash_order);
  inv_fresh a : is_Some (s.(n1_ports) !! a) -> (a.2 < s.(serial))%nat;
  inv_actors t : t ∈ actors s -> ((port_of t).2 < s.(serial))%nat
}.

(** The threads [old] at [a] do a step and become [new]; the others stay. *)
Lemma inv_replace s s' a po po' L1 old L2 new :
  rmt_inv s -> actors s = L1 ++ old ++ L2 -> actors s' = L1 ++ new ++ L2 -> all_at a old ->
  s.(n1_ports) !! a = Some po -> s'.(n1_ports) = <[a := po']> s.(n1_ports) ->
  s'.(hash_order) = s.(hash_order) -> s'.(serial) = s.(serial) ->
  (forall h w c1 c2, h = holds_all a L1 + holds_all a L2 -> w = writes_all a L1 + writes_all a L2 ->
     c1 = carries_all a L1 -> c2 = carries_all a L2 -> Z.of_nat (length c1 + length c2) <= w ->
     port_inv po (h + holds_all a old) (w + writes_all a old) (c1 ++ carries_all a old ++ c2) ->
     section_post a po' new h w c1 c2 /\
     (TCleanup a ∈ L1 ++ L2 -> po'.(refs_c) = 0 /\ po'.(state) = N1_PORT_STATE_DEALLOCATED)) ->
  rmt_inv s'.
Proof.
  intros Hi Ea Ea' Hold Hpo Hm Ho Hs Hsec.
  destruct (Hsec _ _ _ _ eq_refl eq_refl eq_refl eq_refl) as [(Hpi & Hnew & Hcl) Hcl'].
  { pose proof (carries_writes a L1). pose proof (carries_writes a L2). lia. }
  { pose proof (inv_ports _ Hi a po Hpo) as Hp. rewrite Ea, !holds_all_app, !writes_all_app, !carries_all_app in Hp.
    rewrite (Z.add_comm (holds_all a old)), (Z.add_comm (writes_all a old)), !Z.add_assoc in Hp. done. }
  assert (forall b, b <> a -> holds_all b (actors s') = holds_all b (actors s) /\
            writes_all b (actors s') = writes_all b (actors s) /\
            carries_all b (actors s') = carries_all b (actors s)) as Hother.
  { intros b Hb. destruct (elsewhere b a old Hold Hb) as (E1 & E2 & E3).
    destruct (elsewhere b a new Hnew Hb) as (F1 & F2 & F3).
    by rewrite Ea, Ea', !holds_all_app, !writes_all_app, !carries_all_app, E1, E2, E3, F1, F2, F3. }
  split; rewrite ?Ho, ?Hs.
  - intros b pb Hb. rewrite Hm in Hb. destruct (decide (b = a)) as [->|Hne].
    + rewrite lookup_insert_eq in Hb. injection Hb as <-. rewrite Ea', !holds_all_app, !writes_all_app, !carries_all_app.
      rewrite (Z.add_comm (holds_all a new)), (Z.add_comm (writes_all a new)), !Z.add_assoc. done.
    + rewrite lookup_insert_ne in Hb by done. destruct (Hother b Hne) as (-> & -> & ->). by apply (inv_ports _ Hi).
  - intros b Hb. rewrite Hm in Hb. apply lookup_insert_None in Hb as [Hb Hne].
    destruct (Hother b ltac:(done)) as (-> & _). by apply (inv_none _ Hi).
  - intros b pb Hin Hb. rewrite Hm in Hb. rewrite Ea' in Hin. destruct (decide (b = a)) as [->|Hne].
    + rewrite lookup_insert_eq in Hb. injection Hb as <-.
      rewrite !elem_of_app in Hin. destruct Hin as [Hin|[Hin|Hin]].
      * apply Hcl', elem_of_app. by left.
      * by eapply Hcl.
      * apply Hcl', elem_of_app. by right.
    + rewrite lookup_insert_ne in Hb by done. apply (inv_cleanup _ Hi b pb); [|done]. rewrite Ea.
      rewrite !elem_of_app in *. destruct Hin as [Hin|[Hin|Hin]]; auto.
      unfold all_at in Hnew. rewrite List.Forall_forall in Hnew. apply list_elem_of_In, Hnew in Hin. done.
  - intros b. rewrite (inv_order _ Hi b), Hm. destruct (decide (b = a)) as [->|Hne].
    + rewrite lookup_insert_eq, Hpo. split; by eexists.
    + by rewrite lookup_insert_ne.
  - apply (inv_nodup _ Hi).
  - intros b Hb. apply (inv_fresh _ Hi b). rewrite Hm in Hb. destruct (decide (b = a)) as [->|Hne].
    + rewrite Hpo. by eexists.
    + by rewrite lookup_insert_ne in Hb.
  - intros t Ht. rewrite Ea' in Ht. rewrite !elem_of_app in Ht. destruct Ht as [Ht|[Ht|Ht]].
    + apply (inv_actors _ Hi). rewrite Ea, !elem_of_app. auto.
    + unfold all_at in Hnew. rewrite List.Forall_forall in Hnew. apply list_elem_of_In, Hnew in Ht. rewrite Ht.
      apply (inv_fresh _ Hi). rewrite Hpo. by eexists.
    + apply (inv_actors _ Hi). rewrite Ea, !elem_of_app. auto.
Qed.

Lemma find_ptr_allocated (m : gmap ptr n1_port) l id a po :
  find_ptr m l id = Some a -> m !! a = Some po -> po.(state) <> N1_PORT_STATE_DEALLOCATED.
Proof.
  intros Hf Ha. induction l as [|b l IH]; [done|]. cbn in Hf.
  destruct (m !! b) as [pb|] eqn:Eb; [|by apply IH]. destruct (n1_id pb =? id); [|by apply IH].
  unfold in_state in Hf. case_bool_decide; [done|]. congruence.
Qed.

Lemma find_allocated s id a po :
  n1pmap_find s id = Some a -> s.(n1_ports) !! a = Some po -> po.(state) <> N1_PORT_STATE_DEALLOCATED.
Proof. unfold n1pmap_find. destruct (0 <=? id); [apply find_ptr_allocated|done]. Qed.

Lemma actors_start s ts sc a ps po : actors (upd s ps a po sc s.(wk) (ts ++ s.(threads))) = wk_threads s.(wk) ++ ts ++ s.(threads).
Proof. done. Qed.

(** A port that somebody holds is not about to be freed. *)
Lemma held_not_cleanup s a po t :
  rmt_inv s -> s.(n1_ports) !! a = Some po -> t ∈ actors s -> holds a t = 1 -> TCleanup a ∈ actors s -> False.
Proof.
  intros Hi Ha Ht Hh Hc. destruct (inv_cleanup _ Hi a po Hc Ha) as [Hr _].
  pose proof (pi_refs _ _ _ _ (inv_ports _ Hi a po Ha)) as Hp.
  apply list_elem_of_split in Ht as (l1 & l2 & Hl). rewrite Hl, holds_all_app in Hp. cbn in Hp.
  pose proof (holds_all_nonneg a l1). pose proof (holds_all_nonneg a l2). lia.
Qed.

Lemma rmt_inv_init ps : rmt_inv (rmt_init ps).
Proof.
  unfold rmt_init. split; unfold actors; cbn [n1_ports hash_order wk threads wk_threads app serial]; try done.
  - intros a. rewrite lookup_empty. split; [intros Hin; by apply not_elem_of_nil in Hin|by intros [? ?]].
  - constructor.
  - intros a [? Hx]. by rewrite lookup_empty in Hx.
  - intros t Ht. by apply not_elem_of_nil in Ht.
Qed.

(** A port that is freed was held by nobody. *)
Lemma cleanup_inv s s' a L1 L2 :
  rmt_inv s -> actors s = L1 ++ TCleanup a :: L2 -> actors s' = L1 ++ L2 -> is_Some (s.(n1_ports) !! a) ->
  s'.(n1_ports) = base.delete a s.(n1_ports) -> s'.(hash_order) = filter (fun b => b <> a) s.(hash_order) ->
  s'.(serial) = s.(serial) -> rmt_inv s'.
Proof.
  intros Hi Ea Ea' [po Ha] Hm Ho Hs.
  assert (forall b, holds_all b (actors s') = holds_all b (actors s) /\
            writes_all b (actors s') = writes_all b (actors s) /\
            carries_all b (actors s') = carries_all b (actors s)) as Hsame.
  { intros b. rewrite Ea, Ea', !holds_all_app, !writes_all_app, !carries_all_app. done. }
  assert (forall t, t ∈ actors s' -> t ∈ actors s) as Hsub.
  { intros t. rewrite Ea, Ea', !elem_of_app, elem_of_cons. tauto. }
  assert (forall b pb, s'.(n1_ports) !! b = Some pb -> s.(n1_ports) !! b = Some pb) as Hold.
  { intros b pb. rewrite Hm. by intros [_ Hb]%lookup_delete_Some. }
  split.
  - intros b pb Hb. destruct (Hsame b) as (-> & -> & ->). apply (inv_ports _ Hi), Hold, Hb.
  - intros b Hb. destruct (Hsame b) as (-> & _). destruct (decide (b = a)) as [->|Hne].
    + destruct (inv_cleanup _ Hi a po) as [Hr _]; [rewrite Ea, elem_of_app; right; left|done|].
      pose proof (pi_refs _ _ _ _ (inv_ports _ Hi a po Ha)). pose proof (holds_all_nonneg a (actors s)). lia.
    + apply (inv_none _ Hi). rewrite Hm, lookup_delete_ne in Hb by done. done.
  - intros b pb Hin Hb. apply (inv_cleanup _ Hi b pb); auto.
  - intros b. rewrite Ho, Hm, list_elem_of_filter, (inv_order _ Hi b). destruct (decide (b = a)) as [->|Hne].
    + rewrite lookup_delete_eq. split; [by intros [? _]|by intros [? ?]].
    + rewrite lookup_delete_ne by done. tauto.
  - rewrite Ho. apply NoDup_filter, (inv_nodup _ Hi).
  - intros b [pb Hb]. rewrite Hs. apply (inv_fresh _ Hi). exists pb. auto.
  - intros t Ht. rewrite Hs. by apply (inv_actors _ Hi), Hsub.
Qed.

Lemma step_bind_inv s b id :
  rmt_inv s ->
  rmt_inv (mk_rmt s.(r_ps) (<[(b, s.(serial)) := n1_port_create id]> s.(n1_ports))
             ((b, s.(serial)) :: s.(hash_order)) (S s.(serial)) s.(egress_tasklet) s.(wk) s.(threads)).
Proof.
  intros Hi. set (a := (b, s.(serial))).
  assert (s.(n1_ports) !! a = None) as Hn.
  { destruct (s.(n1_ports) !! a) as [po|] eqn:E; [|done]. pose proof (inv_fresh _ Hi a ltac:(by eexists)) as Hf. cbn in Hf. lia. }
  assert (holds_all a (actors s) = 0) as Hh by (by apply (inv_none _ Hi)).
  split; unfold actors in *; cbn [n1_ports hash_order serial wk threads] in *.
  - intros c pc Hc. destruct (decide (c = a)) as [->|Hne].
    + rewrite lookup_insert_eq in Hc. injection Hc as <-. rewrite Hh.
      pose proof (writes_holds a (wk_threads (wk s) ++ threads s)) as Hw.
      pose proof (carries_writes a (wk_threads (wk s) ++ threads s)) as Hc.
      pose proof (writes_all_nonneg a (wk_threads (wk s) ++ threads s)).
      destruct q_new_law as [Hq1 Hq2].
      assert (carries_all a (wk_threads (wk s) ++ threads s) = []) as ->.
      { destruct (carries_all _ _); [done|]. cbn in Hc. lia. }
      unfold n1_port_create. split; cbn; rewrite ?Hq2; try done; try lia.
    + rewrite lookup_insert_ne in Hc by done. by apply (inv_ports _ Hi).
  - intros c Hc. apply lookup_insert_None in Hc as [Hc _]. by apply (inv_none _ Hi).
  - intros c pc Hin Hc. destruct (decide (c = a)) as [->|Hne].
    + pose proof (inv_actors _ Hi _ Hin) as Hf. cbn in Hf. lia.
    + rewrite lookup_insert_ne in Hc by done. by apply (inv_cleanup _ Hi c pc).
  - intros c. rewrite elem_of_cons, (inv_order _ Hi c). destruct (decide (c = a)) as [->|Hne].
    + rewrite lookup_insert_eq. split; [by eexists|auto].
    + rewrite lookup_insert_ne by done. naive_solver.
  - constructor; [|apply (inv_nodup _ Hi)]. rewrite (inv_order _ Hi a), Hn. by intros [? ?].
  - intros c Hc. destruct (decide (c = a)) as [->|Hne]; [cbn; lia|]. rewrite lookup_insert_ne in Hc by done.
    pose proof (inv_fresh _ Hi c Hc). lia.
  - intros t Ht. pose proof (inv_actors _ Hi t Ht). lia.
Qed.

(** Steps that move only the tasklet. *)
Lemma set_wk_inv s sc w : wk_threads w = wk_threads s.(wk) -> rmt_inv s -> rmt_inv (set_wk s sc w).
Proof. intros E [I1 I2 I3 I4 I5 I6 I7]. split; unfold actors in *; cbn; rewrite ?E; done. Qed.

Lemma rmt_step_inv s s' : rmt_step s s' -> rmt_inv s -> rmt_inv s'.
Proof.
  intros Hstep Hi. destruct Hstep as
    [s r id a po po' ts Hf Ha Est|s b id _ _ _|s l1 t l2 i a po ps' po' ts sc Et Hp Ha Hfit Esec
    |s l1 a l2 Et Ha|s Hsc Hw|s b r Hw Hb|s b r Hw Hb|s b a r po po' w Hw Ha Ev
    |s a i po po' w sc Hw Ha Esec|s a c Hw Ha].
  - eapply (inv_replace s _ a po po' (wk_threads s.(wk)) [] s.(threads) ts); try done; [constructor|].
    intros h w c1 c2 -> -> -> -> Hl Hp. cbn [holds_all writes_all carries_all app] in Hp. rewrite !Z.add_0_r in Hp.
    split.
    + apply (port_inv_refs _ _ _ _ 1) in Hp.
      destruct r; cbn [start] in Est; injection Est as <- <-;
        try (apply section_post_one; [done..|]; cbn [holds writes carries port_of]; rewrite !decide_True, ?Z.add_0_r by done;
             first [exact Hp|eapply port_inv_ext; [exact Hp|..]; done]);
        (apply section_post_none; destruct Hp as [I1 I2 I3 I4 I5 I6 I7]; split; port_simpl; try done; lia).
    + intros Hc. exfalso. apply (find_allocated s id a po Hf Ha). by apply (inv_cleanup _ Hi a po Hc Ha).
  - by apply step_bind_inv.
  - eapply (inv_replace s _ a po po' (wk_threads s.(wk) ++ l1) [t] l2 ts); try done.
    + unfold actors. rewrite Et. by rewrite <- (assoc_L (++)).
    + unfold actors. cbn. by rewrite <- (assoc_L (++)).
    + by constructor.
    + intros h w c1 c2 -> -> -> -> Hl Hpi. cbn [holds_all writes_all carries_all] in Hpi.
      rewrite !Z.add_0_r, app_nil_r in Hpi. split; [by eapply section_inv|].
      intros Hc. exfalso. apply (held_not_cleanup s a po t Hi Ha).
      * unfold actors. rewrite Et, !elem_of_app, elem_of_cons. auto.
      * destruct t; cbn in Esec |- *; try done; by rewrite decide_True.
      * unfold actors. rewrite Et. rewrite !elem_of_app in *. rewrite elem_of_cons. tauto.
  - eapply (cleanup_inv s _ a (wk_threads s.(wk) ++ l1) l2); try done; unfold actors; cbn; rewrite ?Et, <- (assoc_L (++)); done.
  - apply set_wk_inv; [by rewrite Hw|done].
  - apply set_wk_inv; [by rewrite Hw|done].
  - apply set_wk_inv; [by rewrite Hw|done].
  - eapply (inv_replace s _ a po po' [] [] s.(threads) (wk_threads w)); try done.
    + unfold actors. by rewrite Hw.
    + constructor.
    + intros h w0 c1 c2 -> -> -> -> Hl Hpi. cbn [holds_all writes_all carries_all app] in *. rewrite !Z.add_0_r in *.
      destruct (visit_port_inv _ _ _ _ _ _ _ _ _ Ev Hl Hpi) as [Hs Hk]. split; [exact Hs|].
      intros Hc. destruct (inv_cleanup _ Hi a po) as [Hr Hd]; [unfold actors; by rewrite Hw|done|].
      by rewrite (Hk (conj Hr Hd)).
  - eapply (inv_replace s _ a po po' [] (wk_threads s.(wk)) s.(threads) (wk_threads w)); try done.
    + destruct (wk s); try done; subst; by constructor.
    + intros h w0 c1 c2 -> -> -> -> Hl Hpi. cbn [holds_all writes_all carries_all app] in *.
      rewrite !Z.add_0_l in *. cbn [length] in Hl.
      split; [by eapply worker_section_inv|]. intros Hc. exfalso.
      assert (exists t, wk_threads s.(wk) = [t] /\ holds a t = 1) as (t & Ht & Hh).
      { destruct (wk s); try done; subst; eexists; (split; [reflexivity|]); cbn; by rewrite decide_True. }
      apply (held_not_cleanup s a po t Hi Ha); [|done|]; unfold actors; rewrite Ht, ?elem_of_app; [left; left|by right].
  - eapply (cleanup_inv s _ a [] s.(threads)); try done. unfold actors. by rewrite Hw.
Qed.

Lemma reachable_inv ps s : reachable ps s -> rmt_inv s.
Proof.
  intros Hr. unfold reachable in Hr. remember (rmt_init ps) as s0 eqn:E0.
  assert (rmt_inv s0) as Hi by (subst; apply rmt_inv_init). clear E0.
  induction Hr as [|s1 s2 s3 Hs _ IH]; [done|]. by apply IH, (rmt_step_inv s1).
Qed.

(** C7: whatever the interleaving: the port that a sender, or the tasklet for the port of its
    turn, works on is allocated, and its reference count is at least the number of those that
    hold it; one of them at most writes to it, and [wbusy] says so; [plen] is the number of the
    PDUs that wait, in the queues or refused by the N-1 flow, and none is pending while one is
    being written - so a pending PDU is never replaced. Two uses of a port are left out, since
    the code does free it under them: an unbinding that has dropped the last reference and is
    about to clean the port up ([TCleanup]; [rmt_double_free]), and the next port that the
    tasklet has saved for its walk of the map ([WScan]; rmt.c:768), which is no actor. *)
Theorem rmt_ports_safe ps s :
  reachable ps s ->
  (forall t, t ∈ actors s -> (forall a, t <> TCleanup a) -> is_Some (s.(n1_ports) !! port_of t)) /\
  forall a po, s.(n1_ports) !! a = Some po ->
    holds_all a (actors s) <= po.(refs_c) /\
    writes_all a (actors s) = (if po.(wbusy) then 1 else 0) /\
    po.(stats).(plen) = Z.of_nat (length (q_elems po.(queues)) + length (pend_list po.(pending_du))) /\
    (carries_all a (actors s) <> [] -> po.(pending_du) = None).
Proof.
  intros Hr. pose proof (reachable_inv ps s Hr) as Hi. split.
  - intros t Ht Hn. destruct (s.(n1_ports) !! port_of t) as [po|] eqn:E; [by eexists|].
    pose proof (inv_none _ Hi _ E) as Hh. apply list_elem_of_split in Ht as (l1 & l2 & Hl).
    rewrite Hl, holds_all_app in Hh. cbn in Hh. pose proof (holds_all_nonneg (port_of t) l1).
    pose proof (holds_all_nonneg (port_of t) l2).
    assert (holds (port_of t) t = 1); [|lia]. destruct t; cbn; rewrite ?decide_True by done; try done. by destruct (Hn a).
  - intros a po Ha. destruct (inv_ports _ Hi a po Ha) as [I1 I2 _ _ I5 I6 _].
    split; [done|]. split; [done|]. split; [lia|done].
Qed.

(** C8: with memory for the queue entries, per class of PDUs, what a port has handed to the N-1
    flow (also when that write failed), what is being written, what is pending and what is
    queued, in this order, is what the port took, in the order in which it took it. *)
Theorem rmt_port_order ps s a po k :
  reachable ps s -> s.(n1_ports) !! a = Some po ->
  of_class k po.(g_done) ++ of_class k (carries_all a (actors s)) ++ of_class k (pend_list po.(pending_du)) ++
    of_class k (q_elems po.(queues)) = of_class k po.(g_accepted).
Proof.
  intros Hr Ha. pose proof (pi_order _ _ _ _ (inv_ports _ (reachable_inv ps s Hr) a po Ha) k) as Ho.
  by rewrite !of_class_app in Ho.
Qed.
End Inv.
