(* ===== verification/RmtWake.v ===== *)
(** * The egress tasklet misses no PDU

    In every reachable state of the transition system of [Rmt.v], a PDU that waits at an
    enabled port will be looked at: the tasklet is scheduled, or running and yet to come to the port. *)

From S2P Require Import Prelude Kucommon Pci Rds Queues EfcpState RmtPs Rmt RmtInv.
From Stdlib Require Import ZArith Lia.
From stdpp Require Import base list numbers option gmap sets relations.
#[local] Open Scope Z_scope.

(** ** Entries behind another *)

Lemma after_elem a b l : b ∈ after a l -> b ∈ l.
Proof. induction l as [|x l IH]; [done|]. cbn. case_decide; rewrite elem_of_cons; auto. Qed.

Lemma after_cons a x l : a <> x -> after a (x :: l) = after a l.
Proof. intros Hn. cbn. by rewrite decide_False. Qed.

Lemma after_app a l1 l2 : a ∉ l1 -> after a (l1 ++ a :: l2) = l2.
Proof.
  induction l1 as [|x l1 IH]; intros Hn; cbn; [by rewrite decide_True|].
  rewrite decide_False; [|intros ->; apply Hn; left]. apply IH. intros Hin. apply Hn. by right.
Qed.

(** The first entry of a bucket of a list, and the rest of the bucket behind it. *)
Lemma bucket_first (b : nat) (l : list ptr) a :
  a ∈ l -> a.1 = b -> exists n, hd_error (in_bucket b l) = Some n /\ n.1 = b /\ n ∈ l /\ (a = n \/ a ∈ after n l).
Proof.
  induction l as [|x l IH]; [by intros ?%not_elem_of_nil|]. intros Hin Hb. unfold in_bucket. rewrite filter_cons.
  case_decide as Hx.
  - exists x. cbn. split; [done|]. split; [done|]. split; [left|]. rewrite decide_True by done.
    apply elem_of_cons in Hin as [->|Hin]; auto.
  - apply elem_of_cons in Hin as [->|Hin]; [done|]. destruct (IH Hin Hb) as (n & Hn & Hnb & Hnl & Ha).
    exists n. split; [exact Hn|]. split; [done|]. split; [by right|].
    destruct (decide (n = x)) as [->|Hne]; [congruence|]. by rewrite after_cons.
Qed.

(** Behind an entry that is behind another. *)
Lemma after_after (n c : ptr) (l : list ptr) :
  NoDup l -> n ∈ after c l -> after n l = after n (after c l).
Proof.
  induction l as [|x l IH]; [done|]. intros Hnd Hn. apply NoDup_cons in Hnd as [Hx Hnd]. cbn [after] in *.
  destruct (decide (c = x)) as [->|Hc].
  - rewrite decide_False; [done|]. by intros ->.
  - rewrite decide_False; [by apply IH|]. intros ->. by apply Hx, (after_elem c).
Qed.

Lemma after_filter (n d a : ptr) (l : list ptr) :
  n <> d -> a <> d -> a ∈ after n l -> a ∈ after n (filter (fun b => b <> d) l).
Proof.
  intros Hn Ha. induction l as [|x l IH]; [done|]. rewrite filter_cons. cbn [after].
  destruct (decide (n = x)) as [->|Hx].
  - intros Hin. rewrite decide_True by done. cbn [after]. rewrite decide_True by done. by apply list_elem_of_filter.
  - intros Hin. case_decide; [cbn [after]; rewrite decide_False by done|]; by apply IH.
Qed.

Section Wake.
Context {P Q X : Type} `{RmtPsLaws P Q X}.
Implicit Types (po : n1_port (Q := Q)) (a : ptr) (s : rmt (P := P) (Q := Q)).

(** The position of the tasklet, and the port it is at. *)
Definition wk_scan (w : worker) : option scan :=
  match w with
  | WIdle => None
  | WScan c | WWrite _ _ _ c | WAgain _ _ _ c | WBack _ _ _ c | WCleanup _ c => Some c
  end.
Definition wk_at (w : worker) : option ptr :=
  match w with WWrite a _ _ _ | WAgain a _ _ _ | WBack a _ _ _ => Some a | _ => None end.

(** The tasklet is yet to come to [a]. *)
Definition ahead (l : list ptr) (c : scan) a : Prop :=
  (c.(bucket) <= a.1)%nat \/ exists n, c.(nxt) = Some n /\ n.1 = a.1 /\ (a = n \/ a ∈ after n l).

(** The entry it kept as the next one was freed. *)
Definition dangling s (c : scan) : Prop := exists n, c.(nxt) = Some n /\ s.(n1_ports) !! n = None.

Definition covered s a : Prop :=
  s.(egress_tasklet) = true \/ wk_at s.(wk) = Some a \/
  exists c, wk_scan s.(wk) = Some c /\ (c.(resched) = true \/ ahead s.(hash_order) c a \/ dangling s c).

Definition waits po : Prop := enabled po = true /\ has_plen po = true.

Record wake_inv s : Prop := {
  wi_covered a po : s.(n1_ports) !! a = Some po -> waits po -> covered s a;
  wi_buckets a : is_Some (s.(n1_ports) !! a) -> (a.1 < N1_BUCKETS)%nat;
  wi_next c n : wk_scan s.(wk) = Some c -> c.(nxt) = Some n -> (n.2 < s.(serial))%nat
}.

(** ** Sections *)

Lemma section_wake ps po t i ps' po' ts sc :
  section ps po t i = Some (ps', po', ts, sc) -> waits po' -> sc = true \/ waits po.
Proof.
  unfold waits, enabled, has_plen, in_state. intros E Hw.
  destruct t as [b p|b p|b p|b ret|b|b|b|b|b], i as [|x|[|ret']]; cbn [section] in E; try done.
  - unfold enqueue_section in E. cbv zeta in E. destruct (ps_enqueue _ _ _ _ _) as [[[[r ps1] q] f]|]; [|done].
    destruct (r =? RMT_PS_ENQ_SCHED); [injection E as <- <- <- <-; by left|]. right.
    assert (forall po1, po1 = match f with Queued p' => accept p' (set_queues q po) | _ => set_queues q po end ->
      po1.(state) = po.(state) /\ po1.(stats).(plen) = po.(stats).(plen)) as Hsame by (intros ? ->; by destruct f).
    destruct (r =? RMT_PS_ENQ_DROP); [injection E as <- <- <- <-|
      destruct (r =? RMT_PS_ENQ_ERR); [injection E as <- <- <- <-|
        destruct (r =? RMT_PS_ENQ_SEND); [destruct (must_enqueue po); [injection E as <- <- <- <-|]|injection E as <- <- <- <-]]].
    1,2,3,5: destruct (Hsame _ eq_refl) as [H1 H2]; port_simpl; by rewrite H1, H2 in Hw.
    destruct f; try done. injection E as <- <- <- <-. done.
  - injection E as <- <- <- <-. by right.
  - injection E as <- <- <- <-. by right.
  - destruct (again_section po p) as [po1 sc1] eqn:Eg. injection E as <- <- <- <-. unfold again_section in Eg.
    destruct (in_state N1_PORT_STATE_DO_NOT_DISABLE _); injection Eg as <- <-; [by left|]. by destruct Hw.
  - injection E as <- <- <- <-. right. unfold finish_section in Hw. by destruct (0 <=? ret).
  - unfold n1pmap_release in E. injection E as <- <- <- <-. by right.
  - unfold rmt_enable_port_id, has_plen, in_state in E. injection E as <- <- <- <-. left.
    destruct Hw as [_ Hw]. by destruct (bool_decide _).
  - unfold rmt_disable_port_id, has_plen, in_state in E. destruct Hw as [Hs Hw].
    destruct (bool_decide (state po = N1_PORT_STATE_DISABLED)) eqn:E1;
      [|destruct (bool_decide (state po = N1_PORT_STATE_DO_NOT_DISABLE)) eqn:E2];
      injection E as <- <- <- <-; port_simpl; [|by left|done].
    apply bool_decide_eq_true in E1. by rewrite E1 in Hs.
  - injection E as <- <- <- <-. port_simpl. by destruct Hw.
Qed.

(** What a section of the tasklet at [a] leaves: the same position; the tasklet is still at
    [a], or has noted that PDUs wait there. *)
Definition stays a (c : scan) po' (w : worker) : Prop :=
  exists r, wk_scan w = Some (mk_scan c.(bucket) c.(nxt) r) /\ (c.(resched) = true -> r = true) /\
    (wk_at w = Some a \/ (waits po' -> r = true)).

Lemma leave_port_stays po a c po' w : leave_port po a c = (po', w) -> stays a c po' w.
Proof.
  intros E. unfold leave_port, n1pmap_release in E. injection E as <- <-.
  exists (c.(resched) || (enabled po && has_plen po)). split; [by destruct (_ && _)|].
  split; [by intros ->|]. right. intros [H1 H2]. change (enabled po = true) in H1. change (has_plen po = true) in H2.
  by rewrite H1, H2, orb_true_r.
Qed.

Lemma send_loop_stays ps po a n c po' w : send_loop ps po a n c = (po', w) -> stays a c po' w.
Proof.
  intros E. unfold send_loop in E. destruct (_ && has_plen po); [|by eapply leave_port_stays].
  destruct (pending_du po).
  - injection E as <- <-. exists c.(resched). destruct c. repeat split; auto.
  - destruct (ps_dequeue ps (queues po)) as [[p|] q]; [|by eapply leave_port_stays].
    injection E as <- <-. exists c.(resched). destruct c. repeat split; auto.
Qed.

Lemma visit_port_stays ps po a c po' w : visit_port ps po a c = (po', w) -> stays a c po' w.
Proof.
  intros E. unfold visit_port, in_state in E.
  destruct (bool_decide (state po = N1_PORT_STATE_DEALLOCATED) && _) eqn:E1.
  { injection E as <- <-. exists c.(resched). destruct c. repeat split; auto. right. intros [Hs _].
    apply andb_prop in E1 as [E1 _]. apply bool_decide_eq_true in E1.
    unfold enabled, in_state in Hs. by rewrite E1 in Hs. }
  destruct (bool_decide (state po = N1_PORT_STATE_DISABLED) || negb (has_plen po)) eqn:E2.
  { injection E as <- <-. exists c.(resched). destruct c. repeat split; auto. right. intros [Hs Hp].
    apply orb_prop in E2 as [E2|E2]; [|by rewrite Hp in E2]. apply bool_decide_eq_true in E2.
    unfold enabled, in_state in Hs. by rewrite E2 in Hs. }
  destruct (wbusy po); [|by eapply send_loop_stays].
  injection E as <- <-. exists true. repeat split; auto.
Qed.

Lemma worker_section_stays ps po w0 i po' w sc a c :
  worker_section ps po w0 i = Some (po', w, sc) -> wk_at w0 = Some a -> wk_scan w0 = Some c -> stays a c po' w.
Proof.
  intros E Ha Hc. destruct w0 as [| |b p n c'|b p n c'|b ret n c'|]; try done; cbn in Ha, Hc;
    injection Ha as ->; injection Hc as ->; destruct i as [|x|[|ret']]; cbn [worker_section] in E; try done.
  - injection E as <- <- <-. exists c.(resched). destruct c. repeat split; auto.
  - injection E as <- <- <-. exists c.(resched). destruct c. repeat split; auto.
  - destruct (again_section po p) as [po1 sc1]. injection E as <- <- <-. exists c.(resched). destruct c. repeat split; auto.
  - injection E as E <-. destruct (ret <? 0); [by eapply leave_port_stays|by eapply send_loop_stays].
Qed.

(** ** Steps *)

Lemma wake_init ps : wake_inv (rmt_init ps).
Proof.
  split; cbn.
  - intros a po Ha. by rewrite lookup_empty in Ha.
  - intros a [? Ha]. by rewrite lookup_empty in Ha.
  - done.
Qed.

(** A port changes while the tasklet stays where it is. *)
Lemma wake_upd s ps a po po' sc ts :
  wake_inv s -> s.(n1_ports) !! a = Some po -> (waits po' -> sc = true \/ waits po) ->
  wake_inv (upd s ps a po' sc s.(wk) ts).
Proof.
  intros [Hc Hb Hn] Ha Hw. split; cbn [upd n1_ports wk serial].
  - intros b pb Hpb Hwb.
    assert (sc = true \/ covered s b) as [->|Hcov].
    { destruct (decide (b = a)) as [->|Hne].
      - rewrite lookup_insert_eq in Hpb. injection Hpb as <-. destruct (Hw Hwb); eauto.
      - rewrite lookup_insert_ne in Hpb by done. eauto. }
    { left. cbn. apply orb_true_r. }
    destruct Hcov as [He|[Hat|(c & Ec & Hcc)]]; [left; cbn; by rewrite He|by right; left|].
    right; right. exists c. split; [done|]. destruct Hcc as [?|[?|(n & En & Hnn)]]; auto.
    right; right. exists n. split; [done|]. cbn. rewrite lookup_insert_None. split; [done|]. intros ->. congruence.
  - intros b Hpb. apply Hb. destruct (decide (b = a)) as [->|Hne]; [rewrite Ha; by eexists|].
    by rewrite lookup_insert_ne in Hpb.
  - done.
Qed.

(** A section of the tasklet at [a]: its position moves from [c0] to [c], which is as far
    ahead for every other port. *)
Lemma wake_worker s a po po' sc w c0 c :
  wake_inv s -> s.(n1_ports) !! a = Some po -> wk_scan s.(wk) = Some c0 -> stays a c po' w ->
  (wk_at s.(wk) = None \/ wk_at s.(wk) = Some a) ->
  (c0.(resched) = true -> c.(resched) = true) ->
  (forall b, b <> a -> is_Some (s.(n1_ports) !! b) -> ahead s.(hash_order) c0 b \/ dangling s c0 ->
     ahead s.(hash_order) c b \/ dangling s c) ->
  (forall n, c.(nxt) = Some n -> (n.2 < s.(serial))%nat) ->
  wake_inv (upd s s.(r_ps) a po' sc w s.(threads)).
Proof.
  intros [Hc Hb Hn] Ha Hs (r & Er & Hr & Hst) Hat Hres Hmove Hnew. split; cbn [upd n1_ports wk serial].
  - intros b pb Hpb Hwb. destruct (decide (b = a)) as [->|Hne].
    + rewrite lookup_insert_eq in Hpb. injection Hpb as <-. unfold covered. cbn.
      destruct Hst as [?|Hst]; [auto|]. right; right. eexists. split; [exact Er|]. left. by apply Hst.
    + rewrite lookup_insert_ne in Hpb by done.
      destruct (Hc b pb Hpb Hwb) as [He|[Hat'|(c1 & Ec & Hcc)]].
      * left. cbn. by rewrite He.
      * destruct Hat as [Hat|Hat]; congruence.
      * rewrite Hs in Ec. injection Ec as <-. right; right. eexists. split; [exact Er|].
        destruct Hcc as [Hcc|Hcc]; [left; cbn; auto|].
        destruct (Hmove b Hne ltac:(by eexists) Hcc) as [Hm|(n & En & Hnn)]; [by right; left|].
        right; right. exists n. split; [done|]. cbn. rewrite lookup_insert_None. split; [done|]. intros ->. congruence.
  - intros b Hpb. apply Hb. destruct (decide (b = a)) as [->|Hne]; [rewrite Ha; by eexists|].
    by rewrite lookup_insert_ne in Hpb.
  - intros c1 n Ec En. rewrite Er in Ec. injection Ec as <-. by apply Hnew.
Qed.

Lemma wake_cleanup s a w ts :
  wake_inv s -> wk_scan w = wk_scan s.(wk) -> (forall b, wk_at s.(wk) = Some b -> wk_at w = Some b) ->
  wake_inv (n1_port_cleanup s a w ts).
Proof.
  intros [Hc Hb Hn] Ew Hat. split; cbn [n1_port_cleanup n1_ports wk serial].
  - intros b pb [Hne Hpb]%lookup_delete_Some Hwb.
    destruct (Hc b pb Hpb Hwb) as [He|[Hat'|(c & Ec & Hcc)]]; [by left|by right; left; apply Hat|].
    right; right. exists c. split; [cbn; by rewrite Ew|]. destruct Hcc as [?|[Hah|(n & En & Hnn)]]; [auto| |].
    + destruct Hah as [?|(n & En & Hnb & Hin)]; [right; left; by left|].
      destruct (decide (n = a)) as [->|Hna].
      * right; right. exists a. split; [done|]. cbn. apply lookup_delete_eq.
      * right; left. right. exists n. split; [done|]. split; [done|].
        destruct Hin as [?|Hin]; [auto|]. right. by apply after_filter.
    + right; right. exists n. split; [done|]. cbn. rewrite lookup_delete_None. auto.
  - intros b [pb Hpb]. apply Hb. apply lookup_delete_Some in Hpb as [_ Hpb]. by eexists.
  - intros c n Ec. apply Hn. by rewrite <- Ew.
Qed.

Lemma wake_bind s b id :
  rmt_inv s -> wake_inv s -> (b < N1_BUCKETS)%nat ->
  wake_inv (mk_rmt s.(r_ps) (<[(b, s.(serial)) := n1_port_create id]> s.(n1_ports))
             ((b, s.(serial)) :: s.(hash_order)) (S s.(serial)) s.(egress_tasklet) s.(wk) s.(threads)).
Proof.
  intros Hi [Hc Hb Hn] Hlt. set (a := (b, s.(serial))).
  split; cbn [n1_ports wk serial].
  - intros d pd Hpd Hwd. destruct (decide (d = a)) as [->|Hne].
    { rewrite lookup_insert_eq in Hpd. injection Hpd as <-. by destruct Hwd. }
    rewrite lookup_insert_ne in Hpd by done.
    destruct (Hc d pd Hpd Hwd) as [?|[?|(c & Ec & Hcc)]]; [by left|by right; left|].
    right; right. exists c. split; [done|]. destruct Hcc as [?|[Hah|(n & En & Hnn)]]; [auto| |].
    + right; left. destruct Hah as [?|(n & En & Hnb & Hin)]; [by left|]. right. exists n. split; [done|]. split; [done|].
      cbn [hash_order]. rewrite after_cons; [done|]. intros ->. specialize (Hn c a Ec En). cbn in Hn. lia.
    + right; right. exists n. split; [done|]. cbn. rewrite lookup_insert_None. split; [done|].
      intros <-. specialize (Hn c a Ec En). cbn in Hn. lia.
  - intros d Hd. destruct (decide (d = a)) as [->|Hne]; [done|]. rewrite lookup_insert_ne in Hd by done. auto.
  - intros c n Ec En. specialize (Hn c n Ec En). lia.
Qed.

Lemma rmt_step_wake s s' : rmt_step s s' -> rmt_inv s -> wake_inv s -> wake_inv s'.
Proof.
  intros Hstep Hi Hw. destruct Hstep as
    [s r id a po po' ts Hf Ha Est|s b id _ _ Hb|s l1 t l2 i a po ps' po' ts sc Et Hp Ha Hfit Esec
    |s l1 a l2 Et Ha|s Hsc Hwk|s b r Hwk Hb|s b r Hwk Hb|s b a r po po' w Hwk Ha Ev
    |s a i po po' w sc Hwk Ha Esec|s a c Hwk Ha].
  - eapply wake_upd; [done..|]. intros Hwp. right. destruct r; cbn [start] in Est; injection Est as <- <-; done.
  - by apply wake_bind.
  - eapply wake_upd; [done..|]. by eapply section_wake.
  - by apply wake_cleanup.
  - destruct Hw as [Hc Hbk Hn]. split; cbn [set_wk n1_ports wk serial]; [|done|].
    + intros a po _ _. right; right. eexists. split; [reflexivity|]. right; left. left. cbn. lia.
    + intros c n [= <-]. done.
  - destruct Hw as [Hc Hbk Hn]. split; cbn [set_wk n1_ports wk serial]; [|done|].
    + intros a po Ha Hwa. destruct (Hc a po Ha Hwa) as [?|[Hat|(c & Ec & Hcc)]]; [by left|by rewrite Hwk in Hat|].
      rewrite Hwk in Ec. injection Ec as <-. right; right. eexists. split; [reflexivity|].
      destruct Hcc as [Hr|[[Hle|(n & En & _)]|(n & En & _)]]; [by left| |done|done]. cbn [bucket] in Hle.
      right; left. destruct (decide (a.1 = b)) as [Heq|Hneq]; [|left; cbn; lia]. right. cbn [nxt].
      destruct (bucket_first b s.(hash_order) a) as (n & En & Hnb & _ & Hin); [by apply (inv_order _ Hi); eexists|done|].
      exists n. split; [done|]. by split; [congruence|].
    + intros c n [= <-] En. cbn [nxt] in En. apply (inv_fresh _ Hi), (inv_order _ Hi).
      unfold in_bucket in En. destruct (filter _ _) as [|x l] eqn:Ef; [done|]. injection En as ->.
      assert (n ∈ n :: l) as Hin by left. rewrite <- Ef in Hin. by apply list_elem_of_filter in Hin as [_ ?].
  - destruct Hw as [Hc Hbk Hn]. split; cbn [set_wk n1_ports wk serial]; [|done|done].
    intros a po Ha Hwa. left. cbn. destruct (Hc a po Ha Hwa) as [He|[Hat|(c & Ec & Hcc)]]; [by rewrite He|by rewrite Hwk in Hat|].
    rewrite Hwk in Ec. injection Ec as <-. destruct Hcc as [Hr|[[Hle|(n & En & _)]|(n & En & _)]]; [|exfalso|done|done].
    + cbn in Hr. rewrite Hr. apply orb_true_r.
    + cbn in Hle. pose proof (Hbk a ltac:(by eexists)). lia.
  - eapply (wake_worker s a po po' false w (mk_scan b (Some a) r)); [done..|by rewrite Hwk|by eapply visit_port_stays
      |left; by rewrite Hwk|done| |].
    + intros d Hne Hd [[Hle|(n & En & Hnb & Hin)]|(n & En & Hnn)].
      * by left; left.
      * cbn in En. injection En as <-. destruct Hin as [?|Hin]; [done|]. left; right. cbn [nxt]. unfold next_entry.
        rewrite Hnb. destruct (bucket_first d.1 (after a s.(hash_order)) d Hin eq_refl) as (m & Em & Hmb & Hml & Hmin).
        exists m. split; [done|]. split; [done|]. rewrite (after_after m a) by (done || apply (inv_nodup _ Hi)). done.
      * cbn in En. injection En as <-. congruence.
    + intros n En. cbn [nxt] in En. unfold next_entry, in_bucket in En.
      destruct (filter _ _) as [|x l] eqn:Ef; [done|]. injection En as ->.
      apply (inv_fresh _ Hi), (inv_order _ Hi), (after_elem a).
      assert (n ∈ n :: l) as Hin by left. rewrite <- Ef in Hin. by apply list_elem_of_filter in Hin as [_ ?].
  - assert (exists c, wk_scan s.(wk) = Some c /\ wk_at s.(wk) = Some a) as (c & Ec & Hat).
    { destruct (wk s); try done; subst; eexists; split; reflexivity. }
    eapply (wake_worker s a po po' sc w c c); try done; [by eapply worker_section_stays|by right|].
    intros n. by apply (wi_next _ Hw).
  - apply wake_cleanup; [done|by rewrite Hwk|]. intros b Hb. by rewrite Hwk in Hb.
Qed.

Lemma reachable_wake ps s : reachable ps s -> wake_inv s.
Proof.
  intros Hr. unfold reachable in Hr. remember (rmt_init ps) as s0 eqn:E0.
  assert (rmt_inv s0) as Hi by (subst; apply rmt_inv_init). assert (wake_inv s0) as Hw by (subst; apply wake_init). clear E0.
  induction Hr as [|s1 s2 s3 Hs _ IH]; [done|]. apply IH; [by apply (rmt_step_inv s1)|by apply (rmt_step_wake s1)].
Qed.

(** C9: the tasklet misses no PDU: when it is neither scheduled nor running, an enabled port
    has nothing queued and nothing pending. *)
Theorem rmt_no_lost_wakeup ps s a po :
  reachable ps s -> s.(n1_ports) !! a = Some po -> enabled po = true ->
  s.(egress_tasklet) = false -> s.(wk) = WIdle ->
  q_elems po.(queues) = [] /\ po.(pending_du) = None.
Proof.
  intros Hr Ha He Hs Hw. apply (has_plen_false po _ _ _ (inv_ports _ (reachable_inv ps s Hr) a po Ha)).
  destruct (has_plen po) eqn:Ep; [exfalso|done].
  destruct (wi_covered _ (reachable_wake ps s Hr) a po Ha (conj He Ep)) as [H1|[H1|(c & H1 & _)]].
  - congruence.
  - by rewrite Hw in H1.
  - by rewrite Hw in H1.
Qed.
End Wake.
