(* ===== verification/RmtRuns.v ===== *)
(** * Runs of the RMT

    An executable scheduler for the transition system of [Rmt.v] - a run is a list of choices -
    and with it concrete runs with the default policy set: instances of the theorems of
    [RmtInv.v] and [RmtWake.v], and three races in which the code does not do what it means to. *)

From S2P Require Import Prelude Kucommon Pci Rds Queues EfcpState RmtPs Rmt RmtInv RmtWake.
From Stdlib Require Import ZArith Lia.
From stdpp Require Import base list numbers option gmap sets relations.
#[local] Open Scope Z_scope.

(** A choice: which step comes next, and what it takes from outside.  Threads are chosen by
    their position. *)
Inductive choice {X : Type} :=
| CStart (r : request) (id : Z)
| CBind (b : nat) (id : Z)
| CThread (k : nat) (i : input (X := X))
| CCleanup (k : nat)
| CRun
| CBucket
| CEnd
| CVisit
| CWorker (i : input (X := X))
| CWorkerCleanup.
Arguments choice : clear implicits.

Section Runs.
Context {P Q X : Type} `{RmtPsLaws P Q X}.
Implicit Types (s : rmt (P := P) (Q := Q)).

Definition fitsb (po : n1_port (Q := Q)) (i : input (X := X)) : bool :=
  match i with
  | IEnqueue x => x_mem x && (Z.of_nat (length (q_elems po.(queues))) <? 2 ^ 32 - 2)
  | _ => true
  end.

Definition exec s (c : choice X) : option rmt :=
  match c with
  | CStart r id =>
      a ← n1pmap_find s id; po ← s.(n1_ports) !! a;
      let '(po', ts) := start r a (set_refs_c (po.(refs_c) + 1) po) in
      Some (upd s s.(r_ps) a po' false s.(wk) (ts ++ s.(threads)))
  | CBind b id =>
      match n1pmap_find s id with
      | Some _ => None
      | None =>
          if (0 <=? id) && bool_decide (b < N1_BUCKETS)%nat then
            Some (rmt_n1port_bind s b id)
          else None
      end
  | CThread k i =>
      t ← s.(threads) !! k; po ← s.(n1_ports) !! port_of t;
      if fitsb po i then
        '(ps', po', ts, sc) ← section s.(r_ps) po t i;
        Some (upd s ps' (port_of t) po' sc s.(wk) (take k s.(threads) ++ ts ++ drop (S k) s.(threads)))
      else None
  | CCleanup k =>
      match s.(threads) !! k with
      | Some (TCleanup a) =>
          _ ← s.(n1_ports) !! a;
          Some (n1_port_cleanup s a s.(wk) (take k s.(threads) ++ drop (S k) s.(threads)))
      | _ => None
      end
  | CRun =>
      match s.(wk) with
      | WIdle => if s.(egress_tasklet) then Some (set_wk s false (WScan (mk_scan 0 None false))) else None
      | _ => None
      end
  | CBucket =>
      match s.(wk) with
      | WScan (mk_scan b None r) =>
          if bool_decide (b < N1_BUCKETS)%nat
          then Some (set_wk s s.(egress_tasklet) (WScan (mk_scan (S b) (hd_error (in_bucket b s.(hash_order))) r)))
          else None
      | _ => None
      end
  | CEnd =>
      match s.(wk) with
      | WScan (mk_scan b None r) =>
          if bool_decide (N1_BUCKETS <= b)%nat then Some (set_wk s (s.(egress_tasklet) || r) WIdle) else None
      | _ => None
      end
  | CVisit =>
      match s.(wk) with
      | WScan (mk_scan b (Some a) r) =>
          po ← s.(n1_ports) !! a;
          let '(po', w) := visit_port s.(r_ps) po a (mk_scan b (next_entry s a) r) in
          Some (upd s s.(r_ps) a po' false w s.(threads))
      | _ => None
      end
  | CWorker i =>
      a ← wk_at s.(wk); po ← s.(n1_ports) !! a;
      '(po', w, sc) ← worker_section s.(r_ps) po s.(wk) i;
      Some (upd s s.(r_ps) a po' sc w s.(threads))
  | CWorkerCleanup =>
      match s.(wk) with
      | WCleanup a c => _ ← s.(n1_ports) !! a; Some (n1_port_cleanup s a (WScan c) s.(threads))
      | _ => None
      end
  end.

Fixpoint run s (l : list (choice X)) : option rmt :=
  match l with
  | [] => Some s
  | c :: l' => s ← exec s c; run s l'
  end.

Lemma exec_step s c s' : exec s c = Some s' -> rmt_step s s'.
Proof.
  destruct c as [r id|b id|k i|k| | | | |i|]; cbn [exec].
  - destruct (n1pmap_find s id) as [a|] eqn:Ef; [|done]. cbn.
    destruct (n1_ports s !! a) as [po|] eqn:Ea; [|done]. cbn.
    destruct (start r a _) as [po' ts] eqn:Es. intros [= <-]. by eapply step_start.
  - destruct (n1pmap_find s id) eqn:Ef; [done|]. destruct (Z.leb_spec 0 id); [|done]. cbn [andb].
    case_bool_decide; [|done]. intros [= <-]. by apply step_bind.
  - destruct (threads s !! k) as [t|] eqn:Et; [|done]. cbn.
    destruct (n1_ports s !! port_of t) as [po|] eqn:Ea; [|done]. cbn.
    destruct (fitsb po i) eqn:Ef; [|done].
    destruct (section (r_ps s) po t i) as [[[[ps' po'] ts] sc]|] eqn:Es; [|done]. cbn. intros [= <-].
    eapply step_thread; [by symmetry; apply take_drop_middle|done|done| |done].
    destruct i; cbn in *; try done. apply andb_prop in Ef as [? ?%Z.ltb_lt]. done.
  - destruct (threads s !! k) as [[]|] eqn:Et; try done.
    destruct (n1_ports s !! a) eqn:Ea; [|done]. cbn. intros [= <-].
    eapply step_cleanup; [by symmetry; apply take_drop_middle|by eexists].
  - destruct (wk s) eqn:Ew; try done. destruct (egress_tasklet s) eqn:Ee; [|done]. intros [= <-]. by apply step_run.
  - destruct (wk s) as [|[b [n|] r]| | | |] eqn:Ew; try done. case_bool_decide; [|done]. intros [= <-]. by apply step_bucket.
  - destruct (wk s) as [|[b [n|] r]| | | |] eqn:Ew; try done. case_bool_decide; [|done]. intros [= <-]. by eapply step_end.
  - destruct (wk s) as [|[b [n|] r]| | | |] eqn:Ew; try done.
    destruct (n1_ports s !! n) as [po|] eqn:Ea; [|done]. cbn.
    destruct (visit_port _ _ _ _) as [po' w] eqn:Ev. intros [= <-]. by eapply step_visit.
  - destruct (wk_at (wk s)) as [a|] eqn:Ew; [|done]. cbn.
    destruct (n1_ports s !! a) as [po|] eqn:Ea; [|done]. cbn.
    destruct (worker_section _ _ _ _) as [[[po' w] sc]|] eqn:Es; [|done]. cbn. intros [= <-].
    eapply step_worker; [|done|done]. by destruct (wk s); cbn in Ew; simplify_eq.
  - destruct (wk s) as [| | | | |a c] eqn:Ew; try done. destruct (n1_ports s !! a) eqn:Ea; [|done]. cbn. intros [= <-].
    eapply step_worker_cleanup; [done|by eexists].
Qed.

Lemma run_steps s l s' : run s l = Some s' -> rtc rmt_step s s'.
Proof.
  revert s. induction l as [|c l IH]; intros s; cbn; [by intros [= <-]|].
  destruct (exec s c) as [s1|] eqn:E; [|done]. cbn. intros Hr. eapply rtc_l; [by apply (exec_step s c)|by apply IH].
Qed.

Lemma run_app s l1 l2 : run s (l1 ++ l2) = s ← run s l1; run s l2.
Proof. revert s. induction l1 as [|c l1 IH]; intros s; [done|]. cbn. destruct (exec s c); [apply IH|done]. Qed.
End Runs.

(** ** Runs with the default policy set *)

Definition ex_ps : rmt_ps_default_data := mk_default_data 1000.
Definition ex_pkt (n : Z) : pdu := mk_pdu (fun a => match a with A_TYPE => PDU_TYPE_DT | _ => 0 end) [n].

(** A port for id 7 in the first bucket; a sender writes, a second PDU is queued and the tasklet
    scheduled. *)
Definition ex_busy : list (choice bool) :=
  [CBind 0 7; CStart (RSend (ex_pkt 1)) 7; CThread 0 (IEnqueue true);
   CStart (RSend (ex_pkt 2)) 7; CThread 0 (IEnqueue true); CThread 0 INone].

Definition ex_a : ptr := (0%nat, 0%nat).

(** What can be compared of a state. *)
Definition port_view (s : rmt (P := rmt_ps_default_data) (Q := rmt_queue))
  : option (flow_state * Z * Z * bool * option (list Z) * list (list Z)) :=
  po ← s.(n1_ports) !! ex_a;
  Some (po.(state), po.(refs_c), po.(stats).(plen), po.(wbusy), pdu_data <$> po.(pending_du),
        pdu_data <$> q_elems po.(queues)).

Definition ex_init : rmt (P := rmt_ps_default_data) (Q := rmt_queue) := rmt_init ex_ps.

(** The state after a run, or the first one. *)
Definition after_run (l : list (choice bool)) : rmt := default ex_init (run ex_init l).

Lemma after_run_reachable l : is_Some (run ex_init l) -> reachable ex_ps (after_run l).
Proof. intros [s Hs]. unfold after_run. rewrite Hs. by apply (run_steps ex_init l). Qed.

Lemma after_run_app l1 l2 :
  is_Some (run ex_init (l1 ++ l2)) -> run (after_run l1) l2 = Some (after_run (l1 ++ l2)).
Proof.
  intros [s Hs]. unfold after_run. rewrite Hs. rewrite run_app in Hs.
  destruct (run ex_init l1); [exact Hs|discriminate].
Qed.

Example ex_busy_view :
  port_view (after_run ex_busy) = Some (N1_PORT_STATE_ENABLED, 1, 1, true, None, [[2]]) /\
  egress_tasklet (after_run ex_busy) = true /\ length (threads (after_run ex_busy)) = 1%nat.
Proof. vm_compute. by repeat split. Qed.

Lemma ex_busy_runs : is_Some (run ex_init ex_busy).
Proof. vm_compute. by eexists. Qed.

Lemma rmt_ports_safe_witness :
  let s := after_run ex_busy in
  (forall t, t ∈ actors s -> (forall a, t <> TCleanup a) -> is_Some (s.(n1_ports) !! port_of t)) /\
  forall a po, s.(n1_ports) !! a = Some po ->
    holds_all a (actors s) <= po.(refs_c) /\
    writes_all a (actors s) = (if po.(wbusy) then 1 else 0) /\
    po.(stats).(plen) = Z.of_nat (length (q_elems po.(queues)) + length (pend_list po.(pending_du))) /\
    (carries_all a (actors s) <> [] -> po.(pending_du) = None).
Proof. apply (rmt_ports_safe ex_ps (after_run ex_busy)). apply after_run_reachable, ex_busy_runs. Defined.

Lemma rmt_port_order_witness :
  exists po, (after_run ex_busy).(n1_ports) !! ex_a = Some po /\
    of_class false po.(g_done) ++ of_class false (carries_all ex_a (actors (after_run ex_busy))) ++
      of_class false (pend_list po.(pending_du)) ++ of_class false (q_elems po.(queues)) =
    of_class false po.(g_accepted).
Proof.
  destruct ((after_run ex_busy).(n1_ports) !! ex_a) as [po|] eqn:E.
  - exists po. split; [reflexivity|]. apply (rmt_port_order ex_ps (after_run ex_busy) ex_a po false); [|exact E].
    apply after_run_reachable, ex_busy_runs.
  - exfalso. assert (is_Some (port_view (after_run ex_busy))) as [v Hv] by (vm_compute; by eexists).
    unfold port_view in Hv. by rewrite E in Hv.
Defined.

(** The tasklet sends the queued PDU and ends. *)
Definition ex_drained : list (choice bool) :=
  ex_busy ++ [CThread 0 (IWrite (WDone 1)); CThread 0 INone; CThread 0 INone; CRun; CBucket; CVisit;
              CWorker (IWrite (WDone 1)); CWorker INone] ++ replicate 127 CBucket ++ [CEnd].

Lemma ex_drained_runs : is_Some (run ex_init ex_drained).
Proof. vm_compute. by eexists. Qed.

Lemma rmt_no_lost_wakeup_witness :
  exists po, (after_run ex_drained).(n1_ports) !! ex_a = Some po /\
    q_elems po.(queues) = [] /\ po.(pending_du) = None.
Proof.
  destruct ((after_run ex_drained).(n1_ports) !! ex_a) as [po|] eqn:E.
  - exists po. split; [reflexivity|].
    apply (rmt_no_lost_wakeup ex_ps (after_run ex_drained) ex_a po); [|exact E| |vm_compute; reflexivity|vm_compute; reflexivity].
    + apply after_run_reachable, ex_drained_runs.
    + assert (port_view (after_run ex_drained) = Some (N1_PORT_STATE_ENABLED, 0, 0, false, None, [])) as Hv
        by (vm_compute; reflexivity).
      unfold port_view in Hv. rewrite E in Hv. cbn [mbind option_bind] in Hv.
      unfold enabled, in_state. apply (f_equal (fmap (fun v => v.1.1.1.1.1))) in Hv. cbn in Hv. injection Hv as ->. reflexivity.
  - exfalso. assert (is_Some (port_view (after_run ex_drained))) as [v Hv] by (vm_compute; by eexists).
    unfold port_view in Hv. by rewrite E in Hv.
Defined.

(** ** Races *)

(** An unbinding that is about to free the port, while the tasklet runs. *)
Definition ex_double_free : list (choice bool) :=
  ex_busy ++ [CThread 0 (IWrite (WDone 1)); CThread 0 INone; CThread 0 INone;
              CStart RUnbind 7; CThread 0 INone; CThread 0 INone;
              CRun; CBucket; CVisit; CWorkerCleanup].

(** C36: [n1pmap_release] drops the lock of the port before it frees it; the tasklet, which also
    frees deallocated ports that nobody holds, can do so in between: a thread is then about to
    free a port that is freed. *)
Theorem rmt_double_free :
  exists s : rmt (P := rmt_ps_default_data) (Q := rmt_queue),
    reachable ex_ps s /\ s.(threads) = [TCleanup ex_a] /\ s.(n1_ports) !! ex_a = None.
Proof.
  exists (after_run ex_double_free). split; [|vm_compute; by split].
  apply after_run_reachable. vm_compute. by eexists.
Qed.

(** A write is under way when the port is unbound, and is refused. *)
Definition ex_unbind : list (choice bool) :=
  [CBind 0 7; CStart (RSend (ex_pkt 1)) 7; CThread 0 (IEnqueue true); CStart RUnbind 7].
Definition ex_unbind_rest : list (choice bool) :=
  [CThread 0 INone; CThread 0 INone; CThread 0 (IWrite WRefused); CThread 0 INone; CThread 0 INone; CThread 0 INone].

(** [n1_port_write_du] sets the state of a port after a refused write whatever it was: an
    unbinding under way is forgotten, and when all threads have ended the port is still there,
    and found. *)
Theorem rmt_unbind_forgotten :
  exists s1 s2 : rmt (P := rmt_ps_default_data) (Q := rmt_queue),
    reachable ex_ps s1 /\ TUnbind ex_a ∈ s1.(threads) /\
    run s1 ex_unbind_rest = Some s2 /\ s2.(threads) = [] /\ s2.(wk) = WIdle /\
    n1pmap_find s2 7 = Some ex_a /\
    port_view s2 = Some (N1_PORT_STATE_DISABLED, 0, 1, false, Some [1], []).
Proof.
  exists (after_run ex_unbind), (after_run (ex_unbind ++ ex_unbind_rest)).
  split; [apply after_run_reachable; vm_compute; by eexists|]. split; [vm_compute; left|].
  split; [apply after_run_app; vm_compute; by eexists|]. vm_compute. by repeat split.
Qed.

(** The port is disabled while a write is under way, which is refused, and enabled again before
    the refusal is recorded. *)
Definition ex_stale : list (choice bool) :=
  [CBind 0 7; CStart (RSend (ex_pkt 1)) 7; CThread 0 (IEnqueue true); CStart RDisable 7; CThread 0 INone;
   CThread 0 (IWrite WRefused); CStart REnable 7].
Definition ex_stale_rest : list (choice bool) := [CThread 0 INone; CThread 0 INone; CThread 0 INone; CThread 0 INone].

(** The state DO_NOT_DISABLE protects an enabled port from a refusal that is older than the
    last enabling, but not a port that was disabled in between: the port ends
    disabled with a PDU pending, although the last notification was to enable it. *)
Theorem rmt_stale_refusal :
  exists s1 s2 : rmt (P := rmt_ps_default_data) (Q := rmt_queue),
    reachable ex_ps s1 /\ s1.(threads) !! 0%nat = Some (TEnable ex_a) /\ length s1.(threads) = 2%nat /\
    run s1 ex_stale_rest = Some s2 /\ s2.(threads) = [] /\ s2.(wk) = WIdle /\ s2.(egress_tasklet) = false /\
    port_view s2 = Some (N1_PORT_STATE_DISABLED, 0, 1, false, Some [1], []).
Proof.
  exists (after_run ex_stale), (after_run (ex_stale ++ ex_stale_rest)).
  split; [apply after_run_reachable; vm_compute; by eexists|]. split; [vm_compute; done|]. split; [vm_compute; done|].
  split; [apply after_run_app; vm_compute; by eexists|]. vm_compute. by repeat split.
Qed.

(** ** A PDU that was lost for want of memory

    The result of [rfifo_push_ni] is not looked at, and [plen] counts the PDU all the same:
    whenever the tasklet comes to the port it finds nothing, and schedules itself again. *)
Lemma rmt_lost_pdu_reschedules (ps : rmt_ps_default_data) (po : n1_port (Q := rmt_queue)) a c :
  po.(state) = N1_PORT_STATE_ENABLED -> po.(wbusy) = false -> po.(pending_du) = None ->
  q_wf po.(queues) -> q_elems po.(queues) = [] -> has_plen po = true ->
  exists po', visit_port ps po a c = (po', WScan (mk_scan c.(bucket) c.(nxt) true)) /\
    po'.(stats).(plen) = po.(stats).(plen) /\ q_elems po'.(queues) = [].
Proof.
  intros Hs Hb Hn Hwf Hq Hp. unfold visit_port, in_state. rewrite !Hs, Hp, Hb.
  rewrite !bool_decide_false by done. cbn [andb orb negb]. unfold send_loop.
  change (has_plen (set_wbusy true (set_refs_c (refs_c po + 1) po))) with (has_plen po). rewrite Hp.
  change (0 <? MAX_PDUS_SENT_PER_CYCLE) with true. cbn [andb].
  change (pending_du (set_wbusy true (set_refs_c (refs_c po + 1) po))) with (pending_du po). rewrite Hn.
  change (queues (set_wbusy true (set_refs_c (refs_c po + 1) po))) with (queues po).
  destruct (ps_dequeue_law ps (queues po) Hwf) as (_ & Hr & Hd). rewrite Hq in Hr, Hd.
  destruct (ps_dequeue ps (queues po)) as [r q]. cbn [fst snd hd_error tail] in *. subst r.
  unfold leave_port, enabled, in_state, has_plen. port_simpl. rewrite Hs, !bool_decide_true by done.
  unfold has_plen in Hp. rewrite Hp. cbn [orb andb]. rewrite orb_true_r.
  unfold n1pmap_release, in_state. port_simpl. rewrite bool_decide_false, andb_false_r by done.
  eexists. split; [reflexivity|]. by split.
Qed.

Example rmt_lost_pdu :
  (po ← (after_run [CBind 0 7; CStart (RSend (ex_pkt 1)) 7; CThread 0 (IEnqueue true)]).(n1_ports) !! ex_a;
   '(_, po', _, sc) ← enqueue_section ex_ps po ex_a (ex_pkt 2) false;
   Some (po'.(stats).(plen), pdu_data <$> q_elems po'.(queues), sc)) = Some (1, [], true).
Proof. vm_compute. reflexivity. Qed.
