(* ===== verification/SdupReplay.v ===== *)
(** * The replay window of SDU protection

    [del_seq_num] of the default encryption policy
    ([src/kernel/sdup-crypto-ps-default.c]) keeps a bitmap of the sequence numbers received
    last: bit [k] (counted from the most significant bit of the first byte) stands for the
    number [rx_seq_num - k].  The window refines the set of all numbers accepted so far; with a
    window size that is a multiple of 8 the oldest number of the window has no bit. *)

From S2P Require Import Prelude.
From Stdlib Require Import ZArith Lia.
From stdpp Require Import base list numbers option sets.
#[local] Open Scope Z_scope.

Record replay := mk_replay { rx_seq_num : Z; seq_bmap : list Z; seq_win_size : Z }.

(** The length of the bitmap for a window. *)
Definition bmap_len (win : Z) : Z := win / 8 + (if win mod 8 =? 0 then 0 else 1).

Definition replay_create (win : Z) : replay := mk_replay 0 (repeat 0 (Z.to_nat (bmap_len win))) win.

(** The inner loop: index [i] from [n - 1] down to 0. *)
Fixpoint shift_loop (n : nat) (bmap : list Z) : list Z :=
  match n with
  | O => bmap
  | S i =>
      let b := Z.shiftr (bmap !!! i) 1 in
      let b := if (0 <? i)%nat && Z.testbit (bmap !!! (i - 1)%nat) 0 then Z.lor b (Z.shiftl 1 7) else b in
      shift_loop i (<[i := b]> bmap)
  end.

Definition shift_right (bmap : list Z) : list Z := shift_loop (length bmap) bmap.

(** [while (shift_length-- > 0)]. *)
Definition shift_bits (n : nat) (bmap : list Z) : list Z := Nat.iter n shift_right bmap.

(** A conversion of an unsigned to a signed integer. *)
Definition to_int (x : Z) : Z := if u32 x <? 2 ^ 31 then u32 x else u32 x - 2 ^ 32.

(** What is done with a sequence number once it is taken from the PDU: 0 or -1.  No result is an
    access behind the bitmap. *)
Definition check_seq_num (r : replay) (seq_num : Z) : option (Z * replay) :=
  let win := r.(seq_win_size) in
  if win =? 0 then Some (0, r)
  else
    let min_seq_num := r.(rx_seq_num) - win in
    if seq_num <? min_seq_num then Some (-1, r)
    else
      let bmap := shift_bits (Z.to_nat (to_int (seq_num - r.(rx_seq_num)))) r.(seq_bmap) in
      let rx := if r.(rx_seq_num) <? seq_num then seq_num else r.(rx_seq_num) in
      let dist := u32 (rx - seq_num) in
      let byte_pos := Z.to_nat (dist / 8) in
      let bit_pos := 7 - dist mod 8 in
      b ← bmap !! byte_pos;
      if negb (Z.land b (Z.shiftl 1 bit_pos) =? 0) then Some (-1, mk_replay rx bmap win)
      else Some (0, mk_replay rx (<[byte_pos := Z.lor b (Z.shiftl 1 bit_pos)]> bmap) win).

(** ** What the window promises *)

(** Of the numbers accepted before and the highest one: a number is accepted when it is not
    older than the window and was not accepted before. *)
Definition fresh (win hi : Z) (acc : list Z) (seq_num : Z) : bool :=
  (hi - win <=? seq_num) && negb (bool_decide (seq_num ∈ acc)).

Fixpoint spec_run (win hi : Z) (acc l : list Z) : list Z :=
  match l with
  | [] => []
  | q :: l' =>
      if fresh win hi acc q then 0 :: spec_run win (Z.max hi q) (q :: acc) l'
      else -1 :: spec_run win hi acc l'
  end.

Fixpoint replay_run (r : replay) (l : list Z) : option (list Z) :=
  match l with
  | [] => Some []
  | q :: l' => '(v, r') ← check_seq_num r q; vs ← replay_run r' l'; Some (v :: vs)
  end.

(** The numbers that were accepted. *)
Fixpoint accepted (l vs : list Z) : list Z :=
  match l, vs with
  | q :: l', v :: vs' => if v =? 0 then q :: accepted l' vs' else accepted l' vs'
  | _, _ => []
  end.

(** ** Bits *)

Definition bit (bmap : list Z) (k : nat) : bool := Z.testbit (bmap !!! (k / 8)%nat) (7 - Z.of_nat (k mod 8)).

Lemma mask_bit b n : 0 <= n -> negb (Z.land b (Z.shiftl 1 n) =? 0) = Z.testbit b n.
Proof.
  intros Hn. rewrite Z.shiftl_1_l. destruct (Z.testbit b n) eqn:E; destruct (Z.eqb_spec (Z.land b (2 ^ n)) 0) as [H|H]; try done.
  - apply (f_equal (fun x => Z.testbit x n)) in H. rewrite Z.land_spec, E, Z.pow2_bits_true, Z.bits_0 in H; done.
  - contradict H. apply Z.bits_inj'. intros m Hm. rewrite Z.land_spec, Z.bits_0.
    destruct (decide (m = n)) as [->|Hne]; [by rewrite E|]. rewrite Z.pow2_bits_false by lia. by rewrite andb_false_r.
Qed.

Lemma set_bit b n m : 0 <= n -> 0 <= m -> Z.testbit (Z.lor b (Z.shiftl 1 n)) m = Z.testbit b m || (m =? n).
Proof.
  intros Hn Hm. rewrite Z.lor_spec, Z.shiftl_1_l. f_equal. rewrite Z.pow2_bits_eqb by done. apply Z.eqb_sym.
Qed.

Lemma byte_bit_8 b : in_u 8 b -> Z.testbit b 8 = false.
Proof.
  intros [H0 H1]. destruct (decide (b = 0)) as [->|]; [done|]. apply Z.bits_above_log2; [done|].
  apply Z.log2_lt_pow2; lia.
Qed.

Lemma byte_shiftr b : in_u 8 b -> in_u 8 (Z.shiftr b 1).
Proof.
  unfold in_u. change (2 ^ 8) with 256. intros. rewrite Z.shiftr_div_pow2 by lia. change (2 ^ 1) with 2.
  split; [apply Z.div_pos; lia|]. apply Z.div_lt_upper_bound; lia.
Qed.

Lemma byte_set b n : in_u 8 b -> 0 <= n < 8 -> in_u 8 (Z.lor b (Z.shiftl 1 n)).
Proof.
  intros [H0 H1] Hn. rewrite Z.shiftl_1_l. pose proof (Z.pow_pos_nonneg 2 n ltac:(lia) ltac:(lia)).
  split; [apply Z.lor_nonneg; lia|].
  destruct (decide (b = 0)) as [->|Hne]; [rewrite Z.lor_0_l; apply Z.pow_lt_mono_r; lia|].
  assert (0 < Z.lor b (2 ^ n)).
  { assert (0 <= Z.lor b (2 ^ n)) by (apply Z.lor_nonneg; lia).
    assert (Z.lor b (2 ^ n) <> 0) by (intros E; apply Z.lor_eq_0_iff in E; lia). lia. }
  apply Z.log2_lt_pow2; [done|]. rewrite Z.log2_lor, Z.log2_pow2 by lia.
  assert (Z.log2 b < 8) by (apply Z.log2_lt_pow2; lia). lia.
Qed.

(** Byte [j] after one shift. *)
Definition shifted (bmap : list Z) (j : nat) : Z :=
  let b := Z.shiftr (bmap !!! j) 1 in
  if (0 <? j)%nat && Z.testbit (bmap !!! (j - 1)%nat) 0 then Z.lor b (Z.shiftl 1 7) else b.

Lemma shift_loop_spec n bmap :
  (n <= length bmap)%nat ->
  length (shift_loop n bmap) = length bmap /\
  forall j, shift_loop n bmap !!! j = if decide (j < n)%nat then shifted bmap j else bmap !!! j.
Proof.
  revert bmap. induction n as [|i IH]; intros bmap Hn; cbn [shift_loop].
  { split; [done|]. intros j. by rewrite decide_False by lia. }
  change (if (0 <? i)%nat && Z.testbit (bmap !!! (i - 1)%nat) 0
          then Z.lor (Z.shiftr (bmap !!! i) 1) (Z.shiftl 1 7) else Z.shiftr (bmap !!! i) 1) with (shifted bmap i).
  destruct (IH (<[i := shifted bmap i]> bmap)) as [Hl Hs]; [rewrite length_insert; lia|].
  split; [by rewrite Hl, length_insert|]. intros j. rewrite Hs.
  destruct (decide (j < i)%nat) as [Hj|Hj].
  - rewrite decide_True by lia. unfold shifted. by rewrite !list_lookup_total_insert_ne by lia.
  - destruct (decide (j = i)) as [->|Hne].
    + rewrite decide_True by lia. by rewrite list_lookup_total_insert_eq by lia.
    + rewrite decide_False by lia. by rewrite list_lookup_total_insert_ne by lia.
Qed.

Lemma shift_right_length bmap : length (shift_right bmap) = length bmap.
Proof. by apply shift_loop_spec. Qed.

(** A byte position and a bit position behind another. *)
Lemma next_pos k :
  (k mod 8 = 7 /\ S k mod 8 = 0 /\ S k / 8 = S (k / 8))%nat \/
  (k mod 8 < 7 /\ S k mod 8 = S (k mod 8) /\ S k / 8 = k / 8)%nat.
Proof.
  pose proof (Nat.div_mod_eq k 8). pose proof (Nat.mod_upper_bound k 8 ltac:(lia)).
  pose proof (Nat.div_mod_eq (S k) 8). pose proof (Nat.mod_upper_bound (S k) 8 ltac:(lia)). lia.
Qed.

Lemma Forall_total bmap j : Forall (in_u 8) bmap -> in_u 8 (bmap !!! j).
Proof.
  intros Hb. destruct (bmap !! j) as [b|] eqn:E.
  - rewrite (list_lookup_total_correct _ _ _ E). eapply Forall_lookup_1; done.
  - apply lookup_ge_None in E. rewrite list_lookup_total_alt, lookup_ge_None_2 by done. cbn. unfold in_u. lia.
Qed.

Lemma shifted_byte bmap j : Forall (in_u 8) bmap -> in_u 8 (shifted bmap j).
Proof.
  intros Hb. unfold shifted. pose proof (byte_shiftr _ (Forall_total bmap j Hb)).
  destruct (_ && _); [apply byte_set; [done|lia]|done].
Qed.

Lemma shift_right_bytes bmap : Forall (in_u 8) bmap -> Forall (in_u 8) (shift_right bmap).
Proof.
  intros Hb. apply Forall_lookup_2. intros j b Hj. rewrite <- (list_lookup_total_correct _ _ _ Hj).
  destruct (shift_loop_spec (length bmap) bmap) as [Hl Hs]; [done|]. unfold shift_right. rewrite Hs.
  apply lookup_lt_Some in Hj. rewrite shift_right_length in Hj. rewrite decide_True by done. by apply shifted_byte.
Qed.

Lemma shift_right_bit bmap k :
  (k < 8 * length bmap)%nat -> Forall (in_u 8) bmap ->
  bit (shift_right bmap) k = match k with O => false | S k' => bit bmap k' end.
Proof.
  intros Hk Hb. unfold bit, shift_right. destruct (shift_loop_spec (length bmap) bmap) as [_ Hs]; [done|].
  rewrite Hs. assert (k / 8 < length bmap)%nat by (apply Nat.Div0.div_lt_upper_bound; lia).
  rewrite decide_True by done. unfold shifted. destruct k as [|k].
  - change (0 / 8)%nat with 0%nat. change (0 <? 0)%nat with false. cbn [andb].
    rewrite Z.shiftr_spec by done. apply byte_bit_8, Forall_total, Hb.
  - destruct (next_pos k) as [(Hm & Hm' & Hd)|(Hm & Hm' & Hd)]; rewrite Hm', Hd.
    + rewrite Hm. change (0 <? S (k / 8))%nat with true. cbn [andb].
      replace (S (k / 8) - 1)%nat with (k / 8)%nat by lia. change (7 - Z.of_nat 7) with 0. change (7 - Z.of_nat 0) with 7.
      destruct (Z.testbit (bmap !!! (k / 8)%nat) 0) eqn:E; [by rewrite set_bit, orb_true_r by lia|].
      rewrite Z.shiftr_spec by done. apply byte_bit_8, Forall_total, Hb.
    + destruct (_ && _); rewrite ?set_bit, Z.shiftr_spec by lia.
      * destruct (Z.eqb_spec (7 - Z.of_nat (S (k mod 8))) 7) as [|_]; [lia|]. rewrite orb_false_r. f_equal. lia.
      * f_equal. lia.
Qed.

Lemma shift_bits_spec n bmap :
  Forall (in_u 8) bmap ->
  length (shift_bits n bmap) = length bmap /\ Forall (in_u 8) (shift_bits n bmap) /\
  forall k, (k < 8 * length bmap)%nat ->
    bit (shift_bits n bmap) k = if decide (k < n)%nat then false else bit bmap (k - n).
Proof.
  intros Hb. induction n as [|n (Hl & Hf & IH)].
  { repeat split; [done|]. intros k Hk. rewrite decide_False by lia. f_equal. lia. }
  change (shift_bits (S n) bmap) with (shift_right (shift_bits n bmap)).
  split; [by rewrite shift_right_length|]. split; [by apply shift_right_bytes|].
  intros k Hk. rewrite shift_right_bit by first [done | rewrite Hl; lia]. destruct k as [|k]; [by rewrite decide_True by lia|].
  rewrite IH by lia. repeat case_decide; first [lia | done | f_equal; lia].
Qed.

Lemma insert_bit bmap d k :
  (d < 8 * length bmap)%nat ->
  bit (<[(d / 8)%nat := Z.lor (bmap !!! (d / 8)%nat) (Z.shiftl 1 (7 - Z.of_nat (d mod 8)))]> bmap) k =
  bit bmap k || bool_decide (k = d).
Proof.
  intros Hd. unfold bit. assert (d / 8 < length bmap)%nat by (apply Nat.Div0.div_lt_upper_bound; lia).
  pose proof (Nat.div_mod_eq k 8). pose proof (Nat.mod_upper_bound k 8 ltac:(lia)).
  pose proof (Nat.div_mod_eq d 8). pose proof (Nat.mod_upper_bound d 8 ltac:(lia)).
  destruct (decide (k / 8 = d / 8)%nat) as [E|E].
  - rewrite E, list_lookup_total_insert_eq, set_bit by lia. f_equal.
    case_bool_decide; [subst; apply Z.eqb_refl|]. apply Z.eqb_neq. lia.
  - rewrite list_lookup_total_insert_ne by done. rewrite bool_decide_false by congruence. by rewrite orb_false_r.
Qed.

(** ** Refinement *)

(** The bitmap stands for the numbers accepted that are not too old. *)
Record represents (win hi : Z) (acc : list Z) (r : replay) : Prop := {
  rep_win : r.(seq_win_size) = win;
  rep_hi : r.(rx_seq_num) = hi;
  rep_len : Z.of_nat (length r.(seq_bmap)) = bmap_len win;
  rep_bytes : Forall (in_u 8) r.(seq_bmap);
  rep_acc : Forall (fun a => a <= hi) acc;
  rep_bits k : (k < 8 * length r.(seq_bmap))%nat -> bit r.(seq_bmap) k = bool_decide (hi - Z.of_nat k ∈ acc)
}.

Lemma bmap_len_bound win : 0 < win -> win mod 8 <> 0 -> 0 < bmap_len win /\ win < 8 * bmap_len win.
Proof.
  intros Hw Hm. unfold bmap_len. destruct (Z.eqb_spec (win mod 8) 0); [done|].
  pose proof (Z.div_mod win 8 ltac:(lia)). pose proof (Z.mod_pos_bound win 8 ltac:(lia)). lia.
Qed.

Lemma repeat_bit n k : (k < 8 * n)%nat -> bit (repeat 0 n) k = false.
Proof.
  intros Hk. unfold bit. assert (k / 8 < length (repeat 0%Z n))%nat as Hl.
  { rewrite repeat_length. apply Nat.Div0.div_lt_upper_bound. lia. }
  pose proof (list_lookup_lookup_total_lt (repeat 0 n) _ Hl) as E. apply list_elem_of_lookup_2, list_elem_of_In, repeat_spec in E.
  rewrite E. apply Z.bits_0.
Qed.

Lemma create_represents win : 0 < win -> represents win 0 [] (replay_create win).
Proof.
  intros Hw. unfold replay_create. constructor; cbn [rx_seq_num seq_bmap seq_win_size]; try done.
  - rewrite repeat_length. unfold bmap_len. assert (0 <= win / 8) by (apply Z.div_pos; lia). destruct (_ =? 0); lia.
  - apply List.Forall_forall. intros b ->%repeat_spec. done.
  - intros k Hk. rewrite repeat_length in Hk. rewrite repeat_bit, bool_decide_false; [done|apply not_elem_of_nil|done].
Qed.

Lemma to_int_small x : 0 <= x < 2 ^ 31 -> to_int x = x.
Proof. intros. unfold to_int. rewrite uwrap_small by (unfold in_u; lia). destruct (Z.ltb_spec x (2 ^ 31)); lia. Qed.
Lemma to_int_neg x : - 2 ^ 31 <= x < 0 -> to_int x = x.
Proof.
  intros. unfold to_int, uwrap. rewrite <- (Z.mod_add x 1 (2 ^ 32)) by lia. rewrite Z.mod_small by lia.
  destruct (Z.ltb_spec (x + 1 * 2 ^ 32) (2 ^ 31)); lia.
Qed.

(** One number: the shift and the highest number, before the bit is looked at. *)
Lemma shift_represents win hi acc r q :
  represents win hi acc r -> 0 <= hi < 2 ^ 31 -> 0 <= q < 2 ^ 31 ->
  represents win (Z.max hi q) acc
    (mk_replay (Z.max hi q) (shift_bits (Z.to_nat (to_int (q - hi))) r.(seq_bmap)) win).
Proof.
  intros [Hw Hh Hl Hb Ha Hk] Hhi Hq.
  assert (Z.to_nat (to_int (q - hi)) = Z.to_nat (q - hi)) as ->.
  { destruct (decide (q < hi)); [rewrite to_int_neg by lia; done|by rewrite to_int_small by lia]. }
  destruct (shift_bits_spec (Z.to_nat (q - hi)) r.(seq_bmap) Hb) as (Hl' & Hb' & Hs).
  constructor; cbn [rx_seq_num seq_bmap seq_win_size]; try done.
  - by rewrite Hl'.
  - eapply List.Forall_impl; [|exact Ha]. cbn. lia.
  - intros k Hk'. rewrite Hl' in Hk'. rewrite Hs by done. case_decide.
    + symmetry. apply bool_decide_false. rewrite List.Forall_forall in Ha. intros Hin%list_elem_of_In%Ha. lia.
    + rewrite Hk by lia. replace (hi - Z.of_nat (k - Z.to_nat (q - hi))) with (hi `max` q - Z.of_nat k) by lia. done.
Qed.

Lemma accept_represents win hi acc bmap q d :
  represents win hi acc (mk_replay hi bmap win) -> d = Z.to_nat (hi - q) -> q <= hi -> (d < 8 * length bmap)%nat ->
  represents win hi (q :: acc)
    (mk_replay hi (<[(d / 8)%nat := Z.lor (bmap !!! (d / 8)%nat) (Z.shiftl 1 (7 - Z.of_nat (d mod 8)))]> bmap) win).
Proof.
  intros [Hw Hh Hl Hb Ha Hk] -> Hq Hd. cbn [rx_seq_num seq_bmap seq_win_size] in *.
  constructor; cbn [rx_seq_num seq_bmap seq_win_size]; try done.
  - by rewrite length_insert.
  - apply Forall_insert; [done|]. apply byte_set; [by apply Forall_total|].
    pose proof (Nat.mod_upper_bound (Z.to_nat (hi - q)) 8 ltac:(lia)). lia.
  - by constructor.
  - intros k Hk'. rewrite length_insert in Hk'. rewrite insert_bit, Hk by done.
    apply eq_bool_prop_intro. rewrite orb_True, !bool_decide_spec, elem_of_cons.
    split; [intros [?| ->]; [by right|left; lia]|intros [?|?]; [right; lia|by left]].
Qed.

Lemma check_represents win hi acc r q :
  0 < win < 2 ^ 31 -> win mod 8 <> 0 -> represents win hi acc r -> 0 <= hi < 2 ^ 31 -> 0 <= q < 2 ^ 31 ->
  exists r', check_seq_num r q = Some (if fresh win hi acc q then 0 else -1, r') /\
    if fresh win hi acc q then represents win (Z.max hi q) (q :: acc) r' else represents win hi acc r'.
Proof.
  intros Hw Hm Hr Hhi Hq. unfold check_seq_num, fresh. pose proof Hr as [Ew Eh _ _ Ha _]. rewrite Ew, Eh.
  destruct (Z.eqb_spec win 0); [lia|].
  destruct (Z.ltb_spec q (hi - win)) as [Hlt|Hge].
  { exists r. destruct (Z.leb_spec (hi - win) q); [lia|]. by cbn [andb]. }
  destruct (Z.leb_spec (hi - win) q); [|lia]. cbn [andb].
  pose proof (shift_represents win hi acc r q Hr Hhi Hq) as Hs.
  set (bmap := shift_bits _ _) in *. clearbody bmap.
  replace (if hi <? q then q else hi) with (Z.max hi q) by (destruct (Z.ltb_spec hi q); lia).
  set (rx := Z.max hi q) in *. set (d := Z.to_nat (rx - q)).
  destruct (bmap_len_bound win) as [Hb0 Hb1]; [lia|done|].
  pose proof (rep_len _ _ _ _ Hs) as Hl. cbn [seq_bmap] in Hl.
  assert (d < 8 * length bmap)%nat as Hd by lia.
  assert (d / 8 < length bmap)%nat by (apply Nat.Div0.div_lt_upper_bound; lia).
  rewrite uwrap_small by (unfold in_u; lia).
  replace (Z.to_nat ((rx - q) / 8)) with (d / 8)%nat by (subst d; rewrite Z2Nat.inj_div by lia; done).
  replace ((rx - q) mod 8) with (Z.of_nat (d mod 8)) by (subst d; rewrite Nat2Z.inj_mod, Z2Nat.id by lia; done).
  rewrite (list_lookup_lookup_total_lt bmap) by done. cbn [mbind option_bind].
  assert (Z.testbit (bmap !!! (d / 8)%nat) (7 - Z.of_nat (d mod 8)) = bool_decide (q ∈ acc)) as Hbit.
  { transitivity (bit bmap d); [done|]. rewrite (rep_bits _ _ _ _ Hs d Hd : bit bmap d = _).
    replace (rx - Z.of_nat d) with q by lia. done. }
  pose proof (Nat.mod_upper_bound d 8 ltac:(lia)).
  rewrite mask_bit, Hbit by lia. case_bool_decide as Hin; cbn [negb]; (eexists; split; [reflexivity|]).
  - rewrite List.Forall_forall in Ha. apply list_elem_of_In, Ha in Hin. replace hi with rx by lia. done.
  - apply accept_represents; [done|done|lia|done].
Qed.

Lemma spec_run_accepted win hi acc l q :
  q ∈ accepted l (spec_run win hi acc l) -> q ∉ acc.
Proof.
  revert hi acc. induction l as [|a l IH]; intros hi acc; cbn; [by intros ?%elem_of_nil|].
  destruct (fresh win hi acc a) eqn:E; cbn.
  - apply andb_prop in E as [_ E]. apply negb_true_iff, bool_decide_eq_false in E.
    intros [->|Hq]%elem_of_cons; [done|]. apply IH in Hq. set_solver.
  - apply IH.
Qed.

Lemma spec_run_nodup win hi acc l : NoDup (accepted l (spec_run win hi acc l)).
Proof.
  revert hi acc. induction l as [|a l IH]; intros hi acc; cbn; [constructor|].
  destruct (fresh win hi acc a); cbn; [|apply IH]. constructor; [|apply IH].
  intros Hin%spec_run_accepted. set_solver.
Qed.

Lemma run_represents win hi acc r l :
  0 < win < 2 ^ 31 -> win mod 8 <> 0 -> represents win hi acc r -> 0 <= hi < 2 ^ 31 ->
  Forall (fun q => 0 <= q < 2 ^ 31) l ->
  replay_run r l = Some (spec_run win hi acc l).
Proof.
  intros Hw Hm Hr Hhi Hl. revert hi acc r Hr Hhi. induction Hl as [|q l Hq Hl IH]; intros hi acc r Hr Hhi; [done|].
  cbn [replay_run spec_run]. destruct (check_represents win hi acc r q Hw Hm Hr Hhi Hq) as (r' & -> & Hr').
  cbn [mbind option_bind]. destruct (fresh win hi acc q); by rewrite (IH _ _ _ Hr') by lia.
Qed.

(** C21: with a window size that is not a multiple of 8 and numbers below 2^31, the window
    gives for every sequence of numbers the verdicts of the reference, which remembers every
    number accepted; no number is accepted twice. *)
Theorem replay_refines win l :
  0 < win < 2 ^ 31 -> win mod 8 <> 0 -> Forall (fun q => 0 <= q < 2 ^ 31) l ->
  replay_run (replay_create win) l = Some (spec_run win 0 [] l) /\ NoDup (accepted l (spec_run win 0 [] l)).
Proof.
  intros Hw Hm Hl. split; [|apply spec_run_nodup]. apply run_represents; [done|done| |lia|done].
  apply create_represents. lia.
Qed.

Lemma replay_refines_witness :
  replay_run (replay_create 12) [3; 1; 3; 20; 8; 7; 1; 20; 9] = Some [0; 0; -1; 0; 0; -1; -1; -1; 0] /\
  NoDup (accepted [3; 1; 3; 20; 8; 7; 1; 20; 9] (spec_run 12 0 [] [3; 1; 3; 20; 8; 7; 1; 20; 9])).
Proof.
  destruct (replay_refines 12 [3; 1; 3; 20; 8; 7; 1; 20; 9]) as [H1 H2]; [lia|done|repeat constructor; lia|].
  split; [rewrite H1; reflexivity|exact H2].
Defined.

(** With a window size that is a multiple of 8, the oldest number of the window is looked
    up in the byte behind the bitmap. *)
Theorem replay_overruns win hi acc r :
  0 < win < 2 ^ 31 -> win mod 8 = 0 -> represents win hi acc r -> win <= hi < 2 ^ 31 ->
  check_seq_num r (hi - win) = None.
Proof.
  intros Hw Hm [Ew Eh Hl Hb _ _] Hhi. unfold check_seq_num. rewrite Ew, Eh.
  destruct (Z.eqb_spec win 0); [lia|]. rewrite Z.ltb_irrefl.
  destruct (Z.ltb_spec hi (hi - win)); [lia|]. replace (hi - (hi - win)) with win by lia.
  rewrite uwrap_small by (unfold in_u; lia). rewrite lookup_ge_None_2; [done|].
  destruct (shift_bits_spec (Z.to_nat (to_int (hi - win - hi))) r.(seq_bmap) Hb) as [-> _].
  unfold bmap_len in Hl. rewrite Hm, Z.eqb_refl in Hl. lia.
Qed.

Lemma replay_overruns_witness : replay_run (replay_create 8) [9; 1] = None.
Proof.
  cbn [replay_run]. destruct (check_seq_num (replay_create 8) 9) as [[v r]|] eqn:E; [|done]. cbn [mbind option_bind].
  assert (represents 8 9 [9] r) as Hr.
  { assert (r = mk_replay 9 [128] 8) as -> by (vm_compute in E; congruence).
    constructor; cbn [rx_seq_num seq_bmap seq_win_size]; try done; [repeat constructor; lia|repeat constructor; lia|].
    intros k Hk. do 8 (destruct k as [|k]; [reflexivity|]). cbn in Hk. lia. }
  assert (check_seq_num r 1 = None) as ->; [|done]. apply (replay_overruns 8 9 [9] r); [lia|done|done|lia].
Defined.

(** A number 2^31 or more ahead does not shift the bitmap: it is refused as a duplicate, and
    everything before it is then too old. *)
Example replay_jump : replay_run (replay_create 12) [0; 2 ^ 31 + 1; 1] = Some [0; -1; -1].
Proof. vm_compute. reflexivity. Qed.
