(* ===== verification/SdupMem.v ===== *)
(** * Memory of a data unit

    What SDU protection ([src/kernel/sdup*.c]) does to a data unit, down to the pointers: the
    policies keep the address of the data while they grow the buffer, and write through it
    afterwards.  An address is the number of the buffer it points into and a position in it;
    [pskb_expand_head] moves the data to a new buffer and releases the old one.

    [SkBuffMem] adds to the interface of [Skb.v] what is known of the bytes in front of the
    data.  [M] is the monad of the policies: a computation reads and changes a data unit and
    the private data of a policy, and gives no result when it touches a byte outside of the
    head room and the data, or of a buffer that was released. *)

From S2P Require Import Prelude Kucommon Pci Skb Du.
From Stdlib Require Import ZArith Lia.
From stdpp Require Import base list numbers option.
#[local] Open Scope Z_scope.

(** Head room and data as one block; [skb_poke] writes into it. *)
Class SkBuffMem (S : Type) `{SkBuff S} := {
  skb_mem : S -> list Z;
  skb_poke : S -> nat -> list Z -> S
}.

Class SkBuffMemLaws (S : Type) `{SkBuffMem S} := {
  mem_data s : drop (skb_headroom s) (skb_mem s) = skb_data s /\
    length (skb_mem s) = (skb_headroom s + skb_len s)%nat;
  mem_push s n : (n <= skb_headroom s)%nat ->
    skb_mem (skb_push s n) = skb_mem s /\ skb_tailroom (skb_push s n) = skb_tailroom s;
  mem_pull s n : (n <= skb_len s)%nat ->
    skb_mem (skb_pull s n) = skb_mem s /\ skb_tailroom (skb_pull s n) = skb_tailroom s;
  mem_put s n : (n <= skb_tailroom s)%nat -> take (length (skb_mem s)) (skb_mem (skb_put s n)) = skb_mem s;
  mem_trim s n : (n <= skb_len s)%nat -> skb_mem (skb_trim s n) = take (skb_headroom s + n) (skb_mem s);
  mem_poke s pos bs : (pos + length bs <= length (skb_mem s))%nat ->
    skb_mem (skb_poke s pos bs) = take pos (skb_mem s) ++ bs ++ drop (pos + length bs) (skb_mem s) /\
    skb_headroom (skb_poke s pos bs) = skb_headroom s /\ skb_tailroom (skb_poke s pos bs) = skb_tailroom s
}.

#[export] Instance lskb_SkBuffMem : SkBuffMem lskb := {|
  skb_mem s := s.(l_head) ++ s.(l_data);
  skb_poke s pos bs :=
    let m := s.(l_head) ++ s.(l_data) in
    let m := take pos m ++ bs ++ drop (pos + length bs) m in
    mk_lskb (take (length s.(l_head)) m) (drop (length s.(l_head)) m) s.(l_tail)
|}.

#[export] Instance lskb_SkBuffMemLaws : SkBuffMemLaws lskb.
Proof.
  constructor; unfold skb_len; cbn; intros s.
  - by rewrite drop_app_length, length_app.
  - intros n Hn. by rewrite (assoc_L (++)), take_drop.
  - intros n Hn. rewrite decide_True by done. cbn. by rewrite <- (assoc_L (++)), take_drop.
  - intros n Hn. by rewrite (assoc_L (++)), take_app_length.
  - intros n Hn. rewrite take_app, (take_ge s.(l_head)) by lia. f_equal. f_equal. lia.
  - intros pos bs Hl. rewrite take_drop. repeat split.
    rewrite length_take, !length_app, length_take, length_drop, length_app. rewrite length_app in Hl. lia.
Qed.

(** The number of a buffer and a position in it. *)
Record bufptr := mk_bufptr { b_gen : nat; b_pos : Z }.
Definition ptr_add (p : bufptr) (d : Z) : bufptr := mk_bufptr p.(b_gen) (p.(b_pos) + d).

(** [struct du] with its [sdup_head], the number of its buffer, the outcomes of the
    allocations and the random bytes to come, and the private data of the policy. *)
Record io (S Pv : Type) := mk_io {
  io_du : du S;
  io_gen : nat;
  sdup_head : option bufptr;
  io_alloc : oracle;
  io_rand : list Z;
  io_priv : Pv
}.
Arguments mk_io {S Pv}.
Arguments io_du {S Pv}.
Arguments io_gen {S Pv}.
Arguments sdup_head {S Pv}.
Arguments io_alloc {S Pv}.
Arguments io_rand {S Pv}.
Arguments io_priv {S Pv}.

Section Mem.
Context {S : Type} `{SkBuffLaws S} `{!SkBuffMem S} `{!SkBuffMemLaws S} {Pv : Type}.
Implicit Types (e : io S Pv) (x : du S).

Definition M (A : Type) : Type := io S Pv -> option (A * io S Pv).
Definition m_ret {A} (a : A) : M A := fun e => Some (a, e).
Definition mthen {A B} (m : M A) (k : A -> M B) : M B :=
  fun e => match m e with Some (a, e') => k a e' | None => None end.

Definition set_du x (gen : nat) (o : oracle) e : io S Pv :=
  mk_io x gen e.(sdup_head) o e.(io_rand) e.(io_priv).
Definition get_priv : M Pv := fun e => Some (e.(io_priv), e).
Definition set_priv (p : Pv) : M unit :=
  fun e => Some (tt, mk_io e.(io_du) e.(io_gen) e.(sdup_head) e.(io_alloc) e.(io_rand) p).

Definition m_buffer : M bufptr := fun e => Some (mk_bufptr e.(io_gen) (Z.of_nat (skb_headroom e.(io_du).(du_skb))), e).
Definition m_len : M Z := fun e => Some (du_len e.(io_du), e).

Definition du_sdup_head : M (option bufptr) := fun e => Some (e.(sdup_head), e).
Definition du_sdup_head_set (p : bufptr) : M unit :=
  fun e => Some (tt, mk_io e.(io_du) e.(io_gen) (Some p) e.(io_alloc) e.(io_rand) e.(io_priv)).

Definition m_tail_grow (n : nat) : M Z := fun e =>
  let moves := bool_decide (skb_tailroom e.(io_du).(du_skb) < n)%nat in
  let '(r, o) := du_tail_grow e.(io_du) n e.(io_alloc) in
  match r with
  | Some (ret, x) => Some (ret, set_du x (if moves && (ret =? 0) then Datatypes.S e.(io_gen) else e.(io_gen)) o e)
  | None => None
  end.

Definition m_head_grow (n : nat) : M Z := fun e =>
  let moves := bool_decide (skb_headroom e.(io_du).(du_skb) < n)%nat in
  let '(r, o) := du_head_grow e.(io_du) n e.(io_alloc) in
  match r with
  | Some (ret, x) => Some (ret, set_du x (if moves && (ret =? 0) then Datatypes.S e.(io_gen) else e.(io_gen)) o e)
  | None => None
  end.

Definition m_tail_shrink (n : Z) : M Z := fun e =>
  let '(ret, x) := du_tail_shrink e.(io_du) n in Some (ret, set_du x e.(io_gen) e.(io_alloc) e).
Definition m_head_shrink (n : nat) : M Z := fun e =>
  let '(ret, x) := du_head_shrink e.(io_du) n in Some (ret, set_du x e.(io_gen) e.(io_alloc) e).

Definition m_alloc : M bool := fun e =>
  let '(ok, o) := rkmalloc e.(io_alloc) in
  Some (ok, set_du e.(io_du) e.(io_gen) o e).

(** The bytes [p, p + n) are there. *)
Definition accessible (p : bufptr) (n : Z) e : bool :=
  bool_decide (p.(b_gen) = e.(io_gen)) && (0 <=? p.(b_pos)) && (0 <=? n) &&
  (p.(b_pos) + n <=? Z.of_nat (length (skb_mem e.(io_du).(du_skb)))).

Definition m_load (p : bufptr) (n : Z) : M (list Z) := fun e =>
  if accessible p n e
  then Some (take (Z.to_nat n) (drop (Z.to_nat p.(b_pos)) (skb_mem e.(io_du).(du_skb))), e)
  else None.

Definition m_store (p : bufptr) (bs : list Z) : M unit := fun e =>
  if accessible p (Z.of_nat (length bs)) e
  then Some (tt, set_du (set_skb e.(io_du) (skb_poke e.(io_du).(du_skb) (Z.to_nat p.(b_pos)) bs)) e.(io_gen) e.(io_alloc) e)
  else None.

(** [get_random_bytes] into [n] bytes. *)
Definition m_random (n : nat) : M (list Z) := fun e =>
  Some (take n (e.(io_rand) ++ repeat 0 n),
        mk_io e.(io_du) e.(io_gen) e.(sdup_head) e.(io_alloc) (drop n e.(io_rand)) e.(io_priv)).

(** ** What the operations do

    [at_ e hd bs t]: the head room holds [hd], the data unit [bs], and at least [t] bytes of
    tail room are left.  [head_ok]: the PCI, if there is one, is not in front of the data. *)

Definition head_ok x : Prop :=
  match x.(pci_h) with Some p => (skb_headroom x.(du_skb) <= p)%nat | None => True end.

Record at_ e (hd bs : list Z) (t : nat) : Prop := {
  at_mem : skb_mem e.(io_du).(du_skb) = hd ++ bs;
  at_head : skb_headroom e.(io_du).(du_skb) = length hd;
  at_tail : (t <= skb_tailroom e.(io_du).(du_skb))%nat;
  at_pci : head_ok e.(io_du)
}.

(** Everything but the bytes of the data unit is as before. *)
Record frame e e' : Prop := {
  fr_gen : e'.(io_gen) = e.(io_gen);
  fr_alloc : e'.(io_alloc) = e.(io_alloc);
  fr_priv : e'.(io_priv) = e.(io_priv);
  fr_head : e'.(sdup_head) = e.(sdup_head);
  fr_cfg : e'.(io_du).(du_cfg) = e.(io_du).(du_cfg)
}.

Lemma frame_refl e : frame e e.
Proof. done. Qed.
Lemma frame_trans e1 e2 e3 : frame e1 e2 -> frame e2 e3 -> frame e1 e3.
Proof. intros [] []. constructor; congruence. Qed.

Lemma at_data e hd bs t : at_ e hd bs t -> du_buffer e.(io_du) = bs /\ du_len e.(io_du) = Z.of_nat (length bs).
Proof.
  intros [Hm Hh _ _]. unfold du_len, du_buffer, skb_len. destruct (mem_data e.(io_du).(du_skb)) as [<- _].
  by rewrite Hm, Hh, drop_app_length.
Qed.

Lemma at_intro e : head_ok e.(io_du) -> exists hd, at_ e hd (du_buffer e.(io_du)) (skb_tailroom e.(io_du).(du_skb)).
Proof.
  intros Hp. destruct (mem_data e.(io_du).(du_skb)) as [Hd Hl]. set (s := du_skb (io_du e)) in *.
  exists (take (skb_headroom s) (skb_mem s)). constructor; try done.
  - unfold du_buffer. fold s. by rewrite <- Hd, take_drop.
  - fold s. rewrite length_take. lia.
Qed.

Lemma mthen_some {A B} (m : M A) (k : A -> M B) e a e' : m e = Some (a, e') -> mthen m k e = k a e'.
Proof. intros Hm. unfold mthen. by rewrite Hm. Qed.

Lemma tail_grow_ok e hd bs t n :
  at_ e hd bs t -> (n <= t)%nat ->
  exists e' j, m_tail_grow n e = Some (0, e') /\ length j = n /\ at_ e' hd (bs ++ j) (t - n) /\ frame e e'.
Proof.
  intros [Hm Hh Ht Hp] Hn. unfold m_tail_grow, du_tail_grow.
  rewrite bool_decide_false, decide_False by lia. cbn [andb].
  set (s := du_skb (io_du e)) in *.
  destruct (skb_put_spec s n) as (Hl & _ & Hhr & Htr); [lia|]. pose proof (mem_put s n ltac:(lia)) as Hmp.
  destruct (mem_data (skb_put s n)) as [_ Hml]. destruct (mem_data s) as [_ Hml0].
  exists (set_du (set_skb (io_du e) (skb_put s n)) (io_gen e) (io_alloc e) e), (drop (length (hd ++ bs)) (skb_mem (skb_put s n))).
  split; [done|]. rewrite Hm in *. split; [rewrite length_drop; lia|]. split; [|done].
  constructor; cbn [io_du set_du set_skb du_skb].
  - rewrite (assoc_L (++)). rewrite <- (take_drop (length (hd ++ bs)) (skb_mem (skb_put s n))) at 1. by rewrite Hmp.
  - lia.
  - lia.
  - unfold head_ok in *. cbn [set_skb pci_h du_skb]. fold s in Hp. by rewrite Hhr.
Qed.

(** A change of the data unit without allocation. *)
Lemma set_du_frame e x : x.(du_cfg) = e.(io_du).(du_cfg) -> frame e (set_du x e.(io_gen) e.(io_alloc) e).
Proof. done. Qed.

Lemma tail_shrink_ok e hd b1 b2 t :
  at_ e hd (b1 ++ b2) t -> Z.of_nat (length (b1 ++ b2)) < 2 ^ 32 ->
  exists e' t', m_tail_shrink (Z.of_nat (length b2)) e = Some (0, e') /\ at_ e' hd b1 t' /\ frame e e'.
Proof.
  intros Ha Hsm. destruct (at_data _ _ _ _ Ha) as [_ Hl]. destruct Ha as [Hm Hh Ht Hp].
  unfold m_tail_shrink, du_tail_shrink. rewrite Hl, length_app, Nat2Z.inj_add in *.
  rewrite uwrap_small by (unfold in_u; lia).
  replace (Z.to_nat _) with (length b1) by lia. set (s := du_skb (io_du e)) in *.
  destruct (mem_data s) as [_ Hml]. rewrite Hm, !length_app in Hml.
  destruct (skb_trim_spec s (length b1)) as [_ Hhr]. pose proof (mem_trim s (length b1) ltac:(lia)) as Hmt.
  eexists _, 0%nat. split; [reflexivity|]. split; [|by apply set_du_frame].
  constructor; cbn [io_du set_du set_skb du_skb]; [|by rewrite Hhr|lia|].
  - by rewrite Hmt, Hm, Hh, (assoc_L (++)), <- length_app, take_app_length.
  - unfold head_ok in *. cbn [set_skb pci_h du_skb]. fold s in Hp. by rewrite Hhr.
Qed.

Lemma head_shrink_ok e hd j bs t :
  at_ e hd (j ++ bs) t ->
  exists e', m_head_shrink (length j) e = Some (0, e') /\ at_ e' (hd ++ j) bs t /\ frame e e'.
Proof.
  intros [Hm Hh Ht Hp]. unfold m_head_shrink, du_head_shrink. set (s := du_skb (io_du e)) in *.
  destruct (mem_data s) as [_ Hml]. rewrite Hm, !length_app in Hml.
  destruct (skb_pull_spec s (length j)) as [_ Hhr]; [lia|]. destruct (mem_pull s (length j)) as [Hmp Htr]; [lia|].
  eexists. split; [reflexivity|]. split; [|by apply set_du_frame].
  constructor; cbn [io_du set_du set_skb du_skb].
  - by rewrite Hmp, Hm, (assoc_L (++)).
  - rewrite Hhr, length_app. lia.
  - by rewrite Htr.
  - unfold head_ok. cbn [pci_h du_skb]. destruct (pci_h (io_du e)); [|done]. by rewrite decide_True by lia.
Qed.

(** With the PCI not in front of the data, [du_head_grow] pushes what it is asked for. *)
Lemma push_length x n :
  head_ok x ->
  match x.(pci_h) with
  | Some _ =>
      if match x.(pci_h) with Some p => Z.of_nat (skb_headroom x.(du_skb)) - Z.of_nat p | None => 0 end <=? 0 then n
      else (Z.to_nat (match x.(pci_h) with Some p => Z.of_nat (skb_headroom x.(du_skb)) - Z.of_nat p | None => 0 end) + n)%nat
  | None => n
  end = n.
Proof.
  unfold head_ok. destruct (pci_h x) as [p|]; [|done]. intros Hp.
  by destruct (Z.leb_spec (Z.of_nat (skb_headroom (du_skb x)) - Z.of_nat p) 0); [|lia].
Qed.

(** [du_head_grow] with room: the bytes in front of the data come to belong to it. *)
Lemma head_grow_ok e hd j bs t :
  at_ e (hd ++ j) bs t ->
  exists e', m_head_grow (length j) e = Some (0, e') /\ at_ e' hd (j ++ bs) t /\ frame e e'.
Proof.
  intros [Hm Hh Ht Hp]. unfold m_head_grow, du_head_grow. set (s := du_skb (io_du e)) in *.
  rewrite length_app in Hh. rewrite bool_decide_false, decide_False by lia. cbn [andb].
  destruct (skb_push_spec s (length j)) as (_ & _ & Hhr); [lia|]. destruct (mem_push s (length j)) as [Hmp Htr]; [lia|].
  rewrite (push_length (io_du e)) by done.
  rewrite decide_True by lia. eexists. split; [reflexivity|]. split; [|by apply set_du_frame].
  constructor; cbn [io_du set_du set_skb du_skb].
  - by rewrite Hmp, Hm, (assoc_L (++)).
  - lia.
  - by rewrite Htr.
  - unfold head_ok in *. cbn [set_skb pci_h du_skb]. destruct (pci_h (io_du e)); [|done]. fold s in Hp. lia.
Qed.

(** With memory, whatever the room. *)
Lemma head_grow_any e hd bs t n :
  at_ e hd bs t -> e.(io_alloc) = [] ->
  exists e' hd' j, m_head_grow n e = Some (0, e') /\ length j = n /\ at_ e' hd' (j ++ bs) t /\
    (length hd <= length hd' + n)%nat /\ e'.(io_alloc) = [] /\ e'.(io_priv) = e.(io_priv).
Proof.
  intros Ha Ho. destruct (decide (n <= length hd)%nat) as [Hn|Hn].
  { rewrite <- (take_drop (length hd - n) hd) in Ha. destruct (head_grow_ok _ _ _ _ _ Ha) as (e' & He & Ha' & Hf).
    rewrite length_drop in He. replace (length hd - (length hd - n))%nat with n in He by lia.
    exists e', (take (length hd - n) hd), (drop (length hd - n) hd). split; [done|]. split; [rewrite length_drop; lia|].
    split; [done|]. split; [rewrite length_take; lia|]. by rewrite (fr_alloc _ _ Hf), (fr_priv _ _ Hf). }
  destruct (at_data _ _ _ _ Ha) as [Hb _]. destruct Ha as [Hm Hh Ht Hp]. unfold m_head_grow, du_head_grow.
  set (x := io_du e) in *. set (s := du_skb x) in *.
  rewrite bool_decide_true, decide_True, Ho by lia. cbn [rkmalloc negb].
  set (s1 := pskb_expand_head s n 0). destruct (skb_expand_spec s n 0) as (Hd1 & Hh1 & Ht1). fold s1 in Hd1, Hh1, Ht1.
  set (y := mk_du (du_cfg x) _ (pci_len x) s1).
  pose proof (push_length x n Hp) as Hpl. fold s in Hpl.
  replace (match pci_h y with Some _ => _ | None => n end) with n.
  2:{ rewrite <- Hpl at 1. subst y. cbn [pci_h]. by destruct (pci_h x). }
  destruct (skb_push_spec s1 n) as (Hl2 & Hd2 & Hh2); [lia|]. destruct (mem_push s1 n) as [_ Ht2]; [lia|].
  destruct (mem_data (skb_push s1 n)) as [Hmd Hml].
  change (du_skb y) with s1. rewrite decide_True by lia. cbn [Z.eqb andb].
  eexists _, (take (skb_headroom (skb_push s1 n)) (skb_mem (skb_push s1 n))), (take n (skb_data (skb_push s1 n))).
  split; [reflexivity|]. unfold skb_len in *. split; [rewrite length_take; lia|].
  split; [|split; [rewrite length_take; lia|done]].
  constructor; cbn [io_du set_du set_skb du_skb].
  - rewrite <- Hb. unfold du_buffer. fold s. rewrite <- Hd1, <- Hd2, take_drop, <- Hmd. by rewrite take_drop.
  - rewrite length_take. lia.
  - lia.
  - unfold head_ok. subst y. cbn [set_skb pci_h du_skb]. destruct (pci_h x); [|done]. lia.
Qed.

Lemma load_ok e hd bs t pre mid post n p :
  at_ e hd bs t -> hd ++ bs = pre ++ mid ++ post ->
  p = mk_bufptr e.(io_gen) (Z.of_nat (length pre)) -> n = Z.of_nat (length mid) ->
  m_load p n e = Some (mid, e).
Proof.
  intros [Hm _ _ _] Hs -> ->. unfold m_load, accessible. cbn [b_gen b_pos]. rewrite Hm, Hs.
  rewrite bool_decide_true by done. rewrite !length_app, !Nat2Z.inj_add.
  destruct (Z.leb_spec 0 (Z.of_nat (length pre))); [|lia]. destruct (Z.leb_spec 0 (Z.of_nat (length mid))); [|lia].
  destruct (Z.leb_spec (Z.of_nat (length pre) + Z.of_nat (length mid))
              (Z.of_nat (length pre) + (Z.of_nat (length mid) + Z.of_nat (length post)))); [|lia].
  cbn [andb]. by rewrite !Nat2Z.id, drop_app_length, take_app_length.
Qed.

Lemma store_ok e hd b1 old b2 t bs p :
  at_ e hd (b1 ++ old ++ b2) t -> length bs = length old ->
  p = mk_bufptr e.(io_gen) (Z.of_nat (length hd + length b1)) ->
  exists e', m_store p bs e = Some (tt, e') /\ at_ e' hd (b1 ++ bs ++ b2) t /\ frame e e'.
Proof.
  intros [Hm Hh Ht Hp] Hl ->. unfold m_store, accessible. cbn [b_gen b_pos].
  set (s := du_skb (io_du e)) in *. rewrite Nat2Z.id.
  assert (length hd + length b1 + length bs <= length (skb_mem s))%nat as Hb by (rewrite Hm, !length_app; lia).
  rewrite bool_decide_true by done. destruct (Z.leb_spec 0 (Z.of_nat (length hd + length b1))); [|lia].
  destruct (Z.leb_spec 0 (Z.of_nat (length bs))); [|lia].
  destruct (Z.leb_spec (Z.of_nat (length hd + length b1) + Z.of_nat (length bs)) (Z.of_nat (length (skb_mem s)))); [|lia].
  cbn [andb]. destruct (mem_poke s (length hd + length b1) bs Hb) as (Hmp & Hhr & Htr).
  eexists. split; [reflexivity|]. split; [|by apply set_du_frame].
  constructor; cbn [io_du set_du set_skb du_skb].
  - rewrite Hmp, Hm. replace (hd ++ b1 ++ old ++ b2) with ((hd ++ b1) ++ old ++ b2) by by rewrite <- (assoc_L (++)).
    rewrite <- length_app, take_app_length, Hl, drop_app.
    rewrite (drop_ge (hd ++ b1)) by (rewrite length_app; lia).
    replace (length (hd ++ b1) + length old - length (hd ++ b1))%nat with (length old) by lia.
    by rewrite drop_app_length, <- !(assoc_L (++)).
  - by rewrite Hhr.
  - by rewrite Htr.
  - unfold head_ok in *. cbn [set_skb pci_h du_skb]. fold s in Hp. by rewrite Hhr.
Qed.

(** A write into the head room. *)
Lemma store_head_ok e h1 old h2 data t bs p :
  at_ e (h1 ++ old ++ h2) data t -> length bs = length old ->
  p = mk_bufptr e.(io_gen) (Z.of_nat (length h1)) ->
  exists e', m_store p bs e = Some (tt, e') /\ at_ e' (h1 ++ bs ++ h2) data t /\ frame e e'.
Proof.
  intros [Hm Hh Ht Hp] Hl ->. unfold m_store, accessible. cbn [b_gen b_pos].
  set (s := du_skb (io_du e)) in *. rewrite Nat2Z.id.
  assert (length h1 + length bs <= length (skb_mem s))%nat as Hb by (rewrite Hm, !length_app; lia).
  rewrite bool_decide_true by done. destruct (Z.leb_spec 0 (Z.of_nat (length h1))); [|lia].
  destruct (Z.leb_spec 0 (Z.of_nat (length bs))); [|lia].
  destruct (Z.leb_spec (Z.of_nat (length h1) + Z.of_nat (length bs)) (Z.of_nat (length (skb_mem s)))); [|lia].
  cbn [andb]. destruct (mem_poke s (length h1) bs Hb) as (Hmp & Hhr & Htr).
  eexists. split; [reflexivity|]. split; [|by apply set_du_frame].
  constructor; cbn [io_du set_du set_skb du_skb].
  - rewrite Hmp, Hm, <- !(assoc_L (++)), take_app_length, Hl, drop_app.
    rewrite (drop_ge h1) by lia. replace (length h1 + length old - length h1)%nat with (length old) by lia.
    by rewrite drop_app_length.
  - rewrite Hhr, Hh, !length_app. lia.
  - by rewrite Htr.
  - unfold head_ok in *. cbn [set_skb pci_h du_skb]. fold s in Hp. by rewrite Hhr.
Qed.

(** The PCI is where it was. *)
Definition same_pci e e' : Prop := e'.(io_du).(pci_h) = e.(io_du).(pci_h) /\ e'.(io_du).(pci_len) = e.(io_du).(pci_len).

Lemma same_pci_trans e1 e2 e3 : same_pci e1 e2 -> same_pci e2 e3 -> same_pci e1 e3.
Proof. intros [] []. split; congruence. Qed.

Lemma store_pci p bs e e' : m_store p bs e = Some (tt, e') -> same_pci e e'.
Proof. unfold m_store. destruct (accessible _ _ _); [|done]. by intros [= <-]. Qed.

Lemma head_grow_pci n e r e' :
  (n <= skb_headroom e.(io_du).(du_skb))%nat -> m_head_grow n e = Some (r, e') -> same_pci e e'.
Proof.
  intros Hn. unfold m_head_grow, du_head_grow. rewrite (decide_False (P := (_ < _)%nat)) by lia.
  case_decide; [|done]. by intros [= <- <-].
Qed.

(** ** Postconditions *)

(** A computation has a result, and it satisfies [Q]. *)
Definition sat {A} (m : M A) e (Q : A -> io S Pv -> Prop) : Prop := exists a e', m e = Some (a, e') /\ Q a e'.

Lemma sat_ret {A} (a : A) e (Q : A -> io S Pv -> Prop) : Q a e -> sat (m_ret a) e Q.
Proof. intros HQ. by exists a, e. Qed.

Lemma sat_bind {A B} (m : M A) (k : A -> M B) e (Q : A -> io S Pv -> Prop) R :
  sat m e Q -> (forall a e', Q a e' -> sat (k a) e' R) -> sat (mthen m k) e R.
Proof.
  intros (a & e' & Hm & HQ) Hk. destruct (Hk a e' HQ) as (b & e2 & Hk2 & HR).
  exists b, e2. split; [|done]. by rewrite (mthen_some _ _ _ _ _ Hm).
Qed.

Lemma sat_run {A B} (m : M A) (k : A -> M B) e a e' R : m e = Some (a, e') -> sat (k a) e' R -> sat (mthen m k) e R.
Proof. intros Hm Hk. unfold sat. by rewrite (mthen_some _ _ _ _ _ Hm). Qed.

Lemma sat_weaken {A} (m : M A) e (Q R : A -> io S Pv -> Prop) :
  sat m e Q -> (forall a e', Q a e' -> R a e') -> sat m e R.
Proof. intros (a & e' & Hm & HQ) HR. exists a, e'. auto. Qed.

(** Allocations and private data are as before. *)
Definition keeps e e' : Prop := e'.(io_alloc) = e.(io_alloc) /\ e'.(io_priv) = e.(io_priv).

Lemma frame_keeps e e' : frame e e' -> keeps e e'.
Proof. by intros []. Qed.
Lemma keeps_refl e : keeps e e.
Proof. done. Qed.
Lemma keeps_trans e1 e2 e3 : keeps e1 e2 -> keeps e2 e3 -> keeps e1 e3.
Proof. intros [] []. split; congruence. Qed.
End Mem.

Arguments M : clear implicits.

Declare Scope sdup_scope.
Delimit Scope sdup_scope with sdup.
Notation "x <- m ;; k" := (mthen m (fun x => k)) (at level 100, m at next level, k at level 200, right associativity) : sdup_scope.
Notation "m1 ;; m2" := (mthen m1 (fun _ => m2)) (at level 100, m2 at level 200, right associativity) : sdup_scope.
