(* ===== verification/Sdup.v ===== *)
(** * SDU protection

    The default policy sets of SDU protection: lifetime limit
    ([src/kernel/sdup-ttl-ps-default.c]), error check ([sdup-errc-ps-default.c]) and
    encryption ([sdup-crypto-ps-default.c]: compression, sequence numbers, message
    authentication, padding and encryption), and the port of [sdup.c] that calls them.  The
    algorithms of the Linux crypto interface and [crc32_le] are parameters ([KernelCrypto]),
    described by what is documented of them ([KernelCryptoLaws]).  A computation without a
    result touches memory that it may not touch (see [SdupMem.v]). *)

From S2P Require Import Prelude Kucommon Pci Skb Du SdupMem SdupReplay.
From Stdlib Require Import ZArith Lia.
From stdpp Require Import base list numbers option.
#[local] Open Scope Z_scope.
#[local] Open Scope sdup_scope.

(** ** The crypto interface of Linux *)

Class KernelCrypto := {
  cipher : Type;
  shash : Type;
  comp : Type;
  blocksize : cipher -> nat;
  ivsize : cipher -> nat;
  cipher_encrypt : cipher -> list Z -> list Z -> option (list Z);
  cipher_decrypt : cipher -> list Z -> list Z -> option (list Z);
  digestsize : shash -> nat;
  shash_digest : shash -> list Z -> option (list Z);
  (* the second argument is the room for the result *)
  comp_compress : comp -> Z -> list Z -> option (list Z);
  comp_decompress : comp -> Z -> list Z -> option (list Z);
  crc32_le : Z -> list Z -> Z
}.

(** A block cipher encrypts whole blocks in place and decrypts what it encrypted; a digest has
    its length; what was compressed is decompressed when there is room for it. *)
Class KernelCryptoLaws `{KernelCrypto} := {
  blocksize_law c : (0 < blocksize c < 128)%nat;
  cipher_law c iv bs :
    length iv = ivsize c -> (exists n, length bs = n * blocksize c)%nat ->
    exists ct, cipher_encrypt c iv bs = Some ct /\ length ct = length bs /\ cipher_decrypt c iv ct = Some bs;
  digest_law h bs : exists d, shash_digest h bs = Some d /\ length d = digestsize h;
  comp_law c room bs cs max :
    comp_compress c room bs = Some cs -> Z.of_nat (length bs) <= max -> comp_decompress c max cs = Some bs
}.

Section Sdup.
Context {S : Type} `{SkBuffLaws S} `{!SkBuffMem S} `{!SkBuffMemLaws S} `{KC : KernelCrypto}.

(** [struct sdup_crypto_ps_default_crypto_state]: what is null is disabled. *)
Record crypto_state := mk_crypto_state {
  cs_cipher : option cipher;
  cs_shash : option shash;
  cs_compress : option comp;
  comp_scratch_size : Z
}.

Definition crypto_state_create : crypto_state := mk_crypto_state None None None 0.

(** [struct sdup_crypto_ps_default_data]. *)
Record crypto_data := mk_crypto_data {
  current_rx_state : crypto_state;
  current_tx_state : crypto_state;
  next_rx_state : crypto_state;
  next_tx_state : crypto_state;
  tx_seq_num : Z;
  window : replay
}.

Definition priv_data_create (win : Z) : crypto_data :=
  mk_crypto_data crypto_state_create crypto_state_create crypto_state_create crypto_state_create 0
    (if win =? 0 then mk_replay 0 [] 0 else replay_create win).

Definition set_tx_seq_num (n : Z) (d : crypto_data) : crypto_data :=
  mk_crypto_data d.(current_rx_state) d.(current_tx_state) d.(next_rx_state) d.(next_tx_state) n d.(window).
Definition set_window (w : replay) (d : crypto_data) : crypto_data :=
  mk_crypto_data d.(current_rx_state) d.(current_tx_state) d.(next_rx_state) d.(next_tx_state) d.(tx_seq_num) w.

(** [struct sdup_port]: the policy sets selected for it, with their private data. *)
Record sdup_port := mk_sdup_port {
  sp_crypto : option crypto_data;
  sp_errc : bool;
  sp_ttl : option Z;                  (* the initial lifetime *)
  max_pdu_size : Z
}.

Abbreviation SM := (M S sdup_port).

(** [if (m) return -1] and [result = m; if (result) return result]. *)
Definition or_fail (m k : SM Z) : SM Z := r <- m;; if negb (r =? 0) then m_ret (-1) else k.
Definition or_return (m k : SM Z) : SM Z := r <- m;; if negb (r =? 0) then m_ret r else k.

Definition with_crypto (k : crypto_data -> SM Z) : SM Z :=
  p <- get_priv;; match p.(sp_crypto) with Some d => k d | None => m_ret (-1) end.
Definition set_crypto (d : crypto_data) : SM unit :=
  p <- get_priv;; set_priv (mk_sdup_port (Some d) p.(sp_errc) p.(sp_ttl) p.(max_pdu_size)).

(** A byte as a [char]. *)
Definition schar (b : Z) : Z := if b <? 128 then b else b - 256.
Definition byte_at (p : bufptr) : SM Z := bs <- m_load p 1;; m_ret (nth 0 bs 0).

(** ** Padding *)

(** [for (i = padded_size - 1; i >= buffer_size; i--)]: the comparison is one of unsigned
    integers. *)
Fixpoint pad_loop (fuel : nat) (buf : bufptr) (i buffer_size pad : Z) : SM Z :=
  match fuel with
  | O => fun _ => None
  | Datatypes.S fuel =>
      if buffer_size <=? u32 i
      then m_store (ptr_add buf i) [u8 pad];; pad_loop fuel buf (i - 1) buffer_size pad
      else m_ret 0
  end.

Definition add_padding : SM Z := with_crypto (fun d =>
  match d.(current_tx_state).(cs_cipher) with
  | None => m_ret 0
  | Some c =>
      len <- m_len;;
      let blk_size := Z.of_nat (blocksize c) in
      let buffer_size := u32 len in
      let padded_size := u32 ((buffer_size / blk_size + 1) * blk_size) in
      or_fail (m_tail_grow (Z.to_nat (u32 (padded_size - buffer_size))))
        (buf <- m_buffer;;
         pad_loop (Z.to_nat padded_size + 1) buf (padded_size - 1) buffer_size (padded_size - buffer_size))
  end).

(** The check of [n] bytes down from [i]. *)
Fixpoint pad_check (n : nat) (buf : bufptr) (i pad_len : Z) : SM bool :=
  match n with
  | O => m_ret true
  | Datatypes.S n =>
      b <- byte_at (ptr_add buf i);;
      if schar b =? pad_len then pad_check n buf (i - 1) pad_len else m_ret false
  end.

Definition remove_padding : SM Z := with_crypto (fun d =>
  match d.(current_rx_state).(cs_cipher) with
  | None => m_ret 0
  | Some _ =>
      buf <- m_buffer;;
      len <- m_len;;
      b <- byte_at (ptr_add buf (len - 1));;
      let pad_len := schar b in
      ok <- pad_check (Z.to_nat pad_len) buf (len - 1) pad_len;;
      if negb ok then m_ret (-1)
      else or_fail (m_tail_shrink pad_len) (m_ret 0)
  end).

(** ** Encryption *)

(** The result of growing the head for the initialisation vector is not looked at. *)
Definition encrypt : SM Z := with_crypto (fun d =>
  match d.(current_tx_state).(cs_cipher) with
  | None => m_ret 0
  | Some c =>
      buffer_size <- m_len;;
      data <- m_buffer;;
      iv <- (if decide (ivsize c = 0%nat) then m_ret None
             else
               m_head_grow (ivsize c);;
               iv <- m_buffer;;
               rb <- m_random (ivsize c);;
               m_store iv rb;;
               m_ret (Some iv));;
      ivb <- (match iv with Some p => m_load p (Z.of_nat (ivsize c)) | None => m_ret [] end);;
      plain <- m_load data buffer_size;;
      match cipher_encrypt c ivb plain with
      | None =>
          match iv with Some _ => m_head_shrink (ivsize c);; m_ret (-1) | None => m_ret (-1) end
      | Some ct => m_store data ct;; m_ret 0
      end
  end).

Definition decrypt : SM Z := with_crypto (fun d =>
  match d.(current_rx_state).(cs_cipher) with
  | None => m_ret 0
  | Some c =>
      iv <- m_buffer;;
      or_fail (if decide (ivsize c = 0%nat) then m_ret 0 else m_head_shrink (ivsize c))
        (data <- m_buffer;;
         len <- m_len;;
         ivb <- m_load iv (Z.of_nat (ivsize c));;
         ct <- m_load data (u32 len);;
         match cipher_decrypt c ivb ct with
         | None => m_ret (-1)
         | Some plain => m_store data plain;; m_ret 0
         end)
  end).

(** ** Message authentication *)

(** [data] is taken before the tail grows. *)
Definition add_hmac : SM Z := with_crypto (fun d =>
  match d.(current_tx_state).(cs_shash) with
  | None => m_ret 0
  | Some h =>
      len <- m_len;;
      let buffer_size := u32 len in
      data <- m_buffer;;
      or_fail (m_tail_grow (digestsize h))
        (bs <- m_load data buffer_size;;
         match shash_digest h bs with
         | None => m_ret (-1)
         | Some dg => m_store (ptr_add data buffer_size) dg;; m_ret 0
         end)
  end).

Definition check_hmac : SM Z := with_crypto (fun d =>
  match d.(current_rx_state).(cs_shash) with
  | None => m_ret 0
  | Some h =>
      len <- m_len;;
      let buffer_size := u32 len in
      data <- m_buffer;;
      let digest_size := Z.of_nat (digestsize h) in
      ok <- m_alloc;;
      if negb ok then m_ret (-1)
      else
        bs <- m_load data (u32 (buffer_size - digest_size));;
        match shash_digest h bs with
        | None => m_ret (-1)
        | Some dg =>
            v <- m_load (ptr_add data (buffer_size - digest_size)) digest_size;;
            if negb (bool_decide (dg = v)) then m_ret (-1)
            else or_fail (m_tail_shrink digest_size) (m_ret 0)
        end
  end).

(** ** Compression *)

(** The head of the data unit is moved so that [new_size] bytes fit, which are then written. *)
Definition replace_data (buffer_size : Z) (bs : list Z) : SM Z :=
  let new_size := Z.of_nat (length bs) in
  or_fail (if new_size <? buffer_size then m_head_shrink (Z.to_nat (buffer_size - new_size))
           else m_head_grow (Z.to_nat (new_size - buffer_size)))
    (data <- m_buffer;; m_store data bs;; m_ret 0).

Definition compress : SM Z := with_crypto (fun d =>
  match d.(current_tx_state).(cs_compress) with
  | None => m_ret 0
  | Some c =>
      len <- m_len;;
      let buffer_size := u32 len in
      data <- m_buffer;;
      bs <- m_load data buffer_size;;
      match comp_compress c d.(current_tx_state).(comp_scratch_size) bs with
      | None => m_ret (-1)
      | Some cs => replace_data buffer_size cs
      end
  end).

Definition decompress : SM Z := with_crypto (fun d =>
  match d.(current_rx_state).(cs_compress) with
  | None => m_ret 0
  | Some c =>
      len <- m_len;;
      let buffer_size := u32 len in
      data <- m_buffer;;
      ok <- m_alloc;;
      if negb ok then m_ret (-1)
      else
        bs <- m_load data buffer_size;;
        p <- get_priv;;
        match comp_decompress c p.(max_pdu_size) bs with
        | None => m_ret (-1)
        | Some ds => replace_data buffer_size ds
        end
  end).

(** ** Sequence numbers *)

Definition add_seq_num : SM Z := with_crypto (fun d =>
  match d.(current_tx_state).(cs_cipher) with
  | None => m_ret 0
  | Some _ =>
      or_fail (m_head_grow 4)
        (data <- m_buffer;;
         m_store data (le_encode 4 d.(tx_seq_num));;
         set_crypto (set_tx_seq_num (u32 (d.(tx_seq_num) + 1)) d);;
         m_ret 0)
  end).

Definition del_seq_num : SM Z := with_crypto (fun d =>
  match d.(current_rx_state).(cs_cipher) with
  | None => m_ret 0
  | Some _ =>
      data <- m_buffer;;
      sn <- m_load data 4;;
      or_fail (m_head_shrink 4)
        (match check_seq_num d.(window) (le_decode sn) with
         | None => fun _ => None
         | Some (r, w) => set_crypto (set_window w d);; m_ret r
         end)
  end).

Definition default_sdup_apply_crypto : SM Z := with_crypto (fun d =>
  or_return compress (or_return add_seq_num
    (or_return (match d.(current_tx_state).(cs_shash) with Some _ => add_hmac | None => m_ret 0 end)
      (or_return add_padding encrypt)))).

Definition default_sdup_remove_crypto : SM Z := with_crypto (fun d =>
  or_return decrypt (or_return remove_padding
    (or_return (match d.(current_rx_state).(cs_shash) with Some _ => check_hmac | None => m_ret 0 end)
      (or_return del_seq_num decompress)))).

(** ** Error check *)

(** [data] is taken before the tail grows. *)
Definition default_sdup_add_error_check_policy : SM Z :=
  data <- m_buffer;;
  len <- m_len;;
  bs <- m_load data len;;
  let crc := crc32_le 0 bs in
  or_fail (m_tail_grow 4) (m_store (ptr_add data len) (le_encode 4 crc);; m_ret 0).

(** The length without the check is passed as a [size_t]. *)
Definition default_sdup_check_error_check_policy : SM Z :=
  data <- m_buffer;;
  len <- m_len;;
  bs <- m_load data (uwrap 64 (len - 4));;
  let crc := crc32_le 0 bs in
  v <- m_load (ptr_add data (len - 4)) 4;;
  if negb (bool_decide (le_encode 4 crc = v)) then m_ret (-1)
  else or_fail (m_tail_shrink 4) (m_ret 0).

(** ** Lifetime *)

Definition default_sdup_set_lifetime_limit_policy (initial_ttl_value : Z) : SM Z :=
  h <- du_sdup_head;;
  match h with
  | None =>
      if 0 <? initial_ttl_value then
        or_fail (m_head_grow 1)
          (b <- m_buffer;; du_sdup_head_set b;; b <- m_buffer;; m_store b [initial_ttl_value];; m_ret 0)
      else m_ret 0
  | Some _ => m_ret 0
  end.

Definition default_sdup_get_lifetime_limit_policy (initial_ttl_value : Z) : SM Z :=
  if 0 <? initial_ttl_value then
    b <- m_buffer;; du_sdup_head_set b;; or_fail (m_head_shrink 1) (m_ret 0)
  else m_ret 0.

Definition default_sdup_dec_check_lifetime_limit_policy (initial_ttl_value : Z) : SM Z :=
  if 0 <? initial_ttl_value then
    h <- du_sdup_head;;
    match h with
    | None => fun _ => None
    | Some p =>
        b <- byte_at p;;
        let ttl := u8 (b - 1) in
        if ttl =? 0 then m_ret (-1)
        else m_store p [ttl];; m_head_grow 1;; m_ret 0
    end
  else m_ret 0.

(** ** The port *)

Definition sdup_protect_pdu : SM Z :=
  p <- get_priv;;
  or_fail (match p.(sp_crypto) with Some _ => default_sdup_apply_crypto | None => m_ret 0 end)
    (or_fail (if p.(sp_errc) then default_sdup_add_error_check_policy else m_ret 0) (m_ret 0)).

Definition sdup_unprotect_pdu : SM Z :=
  p <- get_priv;;
  or_fail (if p.(sp_errc) then default_sdup_check_error_check_policy else m_ret 0)
    (or_fail (match p.(sp_crypto) with Some _ => default_sdup_remove_crypto | None => m_ret 0 end) (m_ret 0)).

Definition lifetime (policy : Z -> SM Z) : SM Z :=
  p <- get_priv;;
  match p.(sp_ttl) with Some v => or_fail (policy v) (m_ret 0) | None => m_ret 0 end.

Definition sdup_set_lifetime_limit : SM Z := lifetime default_sdup_set_lifetime_limit_policy.
Definition sdup_get_lifetime_limit : SM Z := lifetime default_sdup_get_lifetime_limit_policy.
Definition sdup_dec_check_lifetime_limit : SM Z := lifetime default_sdup_dec_check_lifetime_limit_policy.

(** ** Relaying

    [du_decap], [du_encap] and [pci_type] on the memory of the data unit; the PCI is read where
    [pci->h] points to. *)

Definition m_decap : SM Z := fun e =>
  match du_decap e.(io_du) with Some (r, x) => Some (r, set_du x e.(io_gen) e.(io_alloc) e) | None => None end.
Definition m_encap (type : Z) : SM Z := fun e =>
  match du_encap e.(io_du) type with Some (r, x) => Some (r, set_du x e.(io_gen) e.(io_alloc) e) | None => None end.
Definition m_pci_type : SM Z := fun e =>
  p ← e.(io_du).(pci_h); cfg ← e.(io_du).(du_cfg);
  type ← pci_type cfg (drop p (skb_mem e.(io_du).(du_skb))); Some (type, e).

(** What [rmt_receive] does with a PDU that it forwards, until it calls [rmt_send]. *)
Definition rmt_relay : SM Z :=
  or_fail sdup_unprotect_pdu
    (or_fail sdup_get_lifetime_limit
       (or_fail m_decap
          (pdu_type <- m_pci_type;;
           or_fail (m_encap pdu_type)
             (or_fail sdup_dec_check_lifetime_limit (m_ret 0))))).
End Sdup.
