(* ===== verification/SdupLaws.v ===== *)
(** * Round trip of SDU protection

    The form of a protected PDU ([wire]), that protection produces it and that its removal gives
    back the PDU: the theorem [sdup_roundtrip].  Each stage of the default policy sets has a
    lemma for either direction; [sat] is the postcondition of a computation
    ([SdupMem.v]). *)

From S2P Require Import Prelude Kucommon Pci Skb Du SdupMem SdupReplay Sdup.
From Stdlib Require Import ZArith Lia.
From stdpp Require Import base list numbers option.
#[local] Open Scope Z_scope.
#[local] Open Scope sdup_scope.

Create HintDb sdup.
#[export] Hint Resolve frame_keeps keeps_refl keeps_trans frame_refl frame_trans : sdup.

Section Laws.
Context {S : Type} `{SkBuffLaws S} `{!SkBuffMem S} `{!SkBuffMemLaws S} `{KC : KernelCrypto} `{!KernelCryptoLaws}.
Implicit Types (e : io S sdup_port) (d : crypto_data) (hd bs : list Z).

Abbreviation SM := (M S sdup_port).

Lemma with_crypto_run (k : crypto_data -> SM Z) e d R :
  e.(io_priv).(sp_crypto) = Some d -> sat (k d) e R -> sat (with_crypto k) e R.
Proof. intros Hd Hk. unfold with_crypto. eapply sat_run; [reflexivity|]. by rewrite Hd. Qed.

Lemma or_fail_run (m k : SM Z) e e' R : m e = Some (0, e') -> sat k e' R -> sat (or_fail m k) e R.
Proof. intros Hm Hk. by eapply sat_run. Qed.

Lemma or_return_run (m k : SM Z) e Q R :
  sat m e (fun r e' => r = 0 /\ Q e') -> (forall e', Q e' -> sat k e' R) -> sat (or_return m k) e R.
Proof. intros Hm Hk. eapply sat_bind; [exact Hm|]. intros r e' [-> HQ]. by apply Hk. Qed.

Lemma or_fail_sat (m k : SM Z) e Q R :
  sat m e (fun r e' => r = 0 /\ Q e') -> (forall e', Q e' -> sat k e' R) -> sat (or_fail m k) e R.
Proof. intros Hm Hk. eapply sat_bind; [exact Hm|]. intros r e' [-> HQ]. by apply Hk. Qed.

Lemma buffer_run e hd bs t : at_ e hd bs t -> m_buffer e = Some (mk_bufptr e.(io_gen) (Z.of_nat (length hd)), e).
Proof. intros [_ Hh _ _]. unfold m_buffer. by rewrite Hh. Qed.
Lemma len_run e hd bs t : at_ e hd bs t -> m_len e = Some (Z.of_nat (length bs), e).
Proof. intros Ha. unfold m_len. by destruct (at_data _ _ _ _ Ha) as [_ ->]. Qed.

(** ** Message authentication *)

Lemma add_hmac_ok e hd bs t d h :
  e.(io_priv).(sp_crypto) = Some d -> d.(current_tx_state).(cs_shash) = Some h ->
  at_ e hd bs t -> (digestsize h <= t)%nat -> Z.of_nat (length bs) < 2 ^ 31 ->
  sat add_hmac e (fun r e' => r = 0 /\ exists dg, shash_digest h bs = Some dg /\ length dg = digestsize h /\
    at_ e' hd (bs ++ dg) (t - digestsize h) /\ keeps e e').
Proof.
  intros Hd Hh Ha Ht Hl. unfold add_hmac. eapply with_crypto_run; [done|]. rewrite Hh.
  eapply sat_run; [by eapply len_run|]. rewrite uwrap_small by (unfold in_u; lia).
  eapply sat_run; [by eapply buffer_run|].
  destruct (tail_grow_ok e hd bs t (digestsize h) Ha Ht) as (e1 & j & He1 & Hj & Ha1 & Hf1).
  eapply or_fail_run; [exact He1|]. rewrite <- (fr_gen _ _ Hf1).
  eapply sat_run; [by apply (load_ok e1 hd (bs ++ j) (t - digestsize h) hd bs j)|].
  destruct (digest_law h bs) as (dg & Hdg & Hdl). rewrite Hdg.
  rewrite <- (app_nil_r j) in Ha1.
  destruct (store_ok e1 hd bs j [] _ dg (ptr_add (mk_bufptr (io_gen e1) (Z.of_nat (length hd))) (Z.of_nat (length bs))) Ha1)
    as (e2 & He2 & Ha2 & Hf2); [lia|unfold ptr_add; cbn; f_equal; lia|].
  eapply sat_run; [exact He2|]. apply sat_ret. split; [done|]. exists dg. rewrite app_nil_r in Ha2. eauto 8 with sdup.
Qed.

Lemma check_hmac_ok e hd bs dg t d h :
  e.(io_priv).(sp_crypto) = Some d -> d.(current_rx_state).(cs_shash) = Some h -> e.(io_alloc) = [] ->
  shash_digest h bs = Some dg -> length dg = digestsize h ->
  at_ e hd (bs ++ dg) t -> Z.of_nat (length (bs ++ dg)) < 2 ^ 31 ->
  sat check_hmac e (fun r e' => r = 0 /\ exists t', at_ e' hd bs t' /\ keeps e e').
Proof.
  intros Hd Hh Ho Hdg Hdl Ha Hl. unfold check_hmac. eapply with_crypto_run; [done|]. rewrite Hh.
  eapply sat_run; [by eapply len_run|]. rewrite (uwrap_small 32 (Z.of_nat (length (bs ++ dg)))) by (unfold in_u; lia).
  eapply sat_run; [by eapply buffer_run|].
  assert (m_alloc e = Some (true, e)) as Hal by (unfold m_alloc; rewrite Ho; cbn; unfold set_du; rewrite <- Ho at 1; by destruct e).
  eapply sat_run; [exact Hal|]. cbn [negb]. rewrite <- Hdl.
  replace (Z.of_nat (length (bs ++ dg)) - Z.of_nat (length dg)) with (Z.of_nat (length bs)) by (rewrite length_app; lia).
  rewrite length_app in Hl. rewrite uwrap_small by (unfold in_u; lia).
  eapply sat_run; [by apply (load_ok e hd (bs ++ dg) t hd bs dg)|]. rewrite Hdg.
  eapply sat_run.
  { apply (load_ok e hd (bs ++ dg) t (hd ++ bs) dg []); [done|by rewrite app_nil_r, (assoc_L (++))| |done].
    unfold ptr_add. cbn. f_equal. rewrite length_app. lia. }
  rewrite bool_decide_true by done. cbn [negb].
  destruct (tail_shrink_ok e hd bs dg t Ha) as (e1 & t1 & He1 & Ha1 & Hf1); [rewrite length_app; lia|].
  eapply or_fail_run; [exact He1|]. apply sat_ret. split; [done|]. exists t1. auto with sdup.
Qed.

(** ** Padding *)

Lemma pad_loop_ok m : forall e hd bs j post t k fuel,
  at_ e hd (bs ++ j ++ post) t -> length j = m -> bs <> [] -> (m < fuel)%nat ->
  Z.of_nat (length bs + m) < 2 ^ 31 -> 0 <= k < 256 ->
  sat (pad_loop fuel (mk_bufptr e.(io_gen) (Z.of_nat (length hd))) (Z.of_nat (length bs + m) - 1) (Z.of_nat (length bs)) k) e
    (fun r e' => r = 0 /\ at_ e' hd (bs ++ repeat k m ++ post) t /\ frame e e').
Proof.
  induction m as [|m IH]; intros e hd bs j post t k fuel Ha Hj Hne Hf Hl Hk; (destruct fuel as [|fuel]; [lia|]); cbn [pad_loop].
  - assert (0 < length bs)%nat by (destruct bs; [done|cbn; lia]).
    rewrite uwrap_small by (unfold in_u; lia). destruct (Z.leb_spec (Z.of_nat (length bs)) (Z.of_nat (length bs + 0) - 1)); [lia|].
    apply nil_length_inv in Hj as ->. apply sat_ret. auto with sdup.
  - rewrite uwrap_small by (unfold in_u; lia).
    destruct (Z.leb_spec (Z.of_nat (length bs)) (Z.of_nat (length bs + Datatypes.S m) - 1)); [|lia].
    rewrite uwrap_small by (unfold in_u; lia).
    destruct (exists_last (l := j)) as (j' & x & ->); [by destruct j|]. rewrite length_app in Hj. cbn in Hj.
    destruct (store_ok e hd (bs ++ j') [x] post t [k]
      (ptr_add (mk_bufptr (io_gen e) (Z.of_nat (length hd))) (Z.of_nat (length bs + Datatypes.S m) - 1)))
      as (e1 & He1 & Ha1 & Hf1); [by rewrite <- !(assoc_L (++)) in *|done|unfold ptr_add; cbn; f_equal; rewrite length_app; lia|].
    eapply sat_run; [exact He1|]. rewrite <- (fr_gen _ _ Hf1).
    replace (Z.of_nat (length bs + Datatypes.S m) - 1 - 1) with (Z.of_nat (length bs + m) - 1) by lia.
    rewrite <- (assoc_L (++)) in Ha1.
    eapply sat_weaken; [apply (IH e1 hd bs j' ([k] ++ post) t k fuel Ha1); (done || lia)|].
    intros r e' (-> & Ha2 & Hf2). split; [done|]. split; [|by eapply frame_trans].
    replace (repeat k (Datatypes.S m)) with (repeat k m ++ [k]) by (symmetry; apply repeat_cons).
    by rewrite <- (assoc_L (++)).
Qed.

Lemma add_padding_ok e hd bs t d c :
  e.(io_priv).(sp_crypto) = Some d -> d.(current_tx_state).(cs_cipher) = Some c ->
  at_ e hd bs t -> (blocksize c <= t)%nat -> bs <> [] -> Z.of_nat (length bs) + 256 < 2 ^ 31 ->
  sat add_padding e (fun r e' => r = 0 /\ exists k, (0 < k <= blocksize c)%nat /\
    (exists n, length bs + k = n * blocksize c)%nat /\
    at_ e' hd (bs ++ repeat (Z.of_nat k) k) (t - k) /\ keeps e e').
Proof.
  intros Hd Hc Ha Ht Hne Hl. unfold add_padding. eapply with_crypto_run; [done|]. rewrite Hc.
  eapply sat_run; [by eapply len_run|]. pose proof (blocksize_law c) as Hb.
  set (b := Z.of_nat (blocksize c)). set (l := Z.of_nat (length bs)) in *.
  rewrite (uwrap_small 32 l) by (unfold in_u; lia).
  pose proof (Z.div_mod l b ltac:(lia)) as Hdm. pose proof (Z.mod_pos_bound l b ltac:(lia)) as Hmb.
  assert ((l / b + 1) * b = l + (b - l mod b)) as Hp by lia. rewrite Hp.
  assert (0 <= l / b) by (apply Z.div_pos; lia).
  rewrite (uwrap_small 32 (l + (b - l mod b))) by (unfold in_u; lia).
  replace (l + (b - l mod b) - l) with (b - l mod b) by lia. rewrite uwrap_small by (unfold in_u; lia).
  set (k := Z.to_nat (b - l mod b)).
  destruct (tail_grow_ok e hd bs t k Ha) as (e1 & j & He1 & Hj & Ha1 & Hf1); [lia|].
  eapply or_fail_run; [exact He1|]. eapply sat_run; [by eapply buffer_run|].
  rewrite <- (app_nil_r j) in Ha1.
  replace (l + (b - l mod b) - 1) with (Z.of_nat (length bs + k) - 1) by lia.
  eapply sat_weaken; [apply (pad_loop_ok k e1 hd bs j [] (t - k) (b - l mod b)); (done || lia)|].
  intros r e' (-> & Ha2 & Hf2). split; [done|]. exists k. split; [lia|].
  split. { exists (Z.to_nat (l / b + 1)). nia. }
  rewrite app_nil_r in Ha2. replace (Z.of_nat k) with (b - l mod b) by lia. eauto with sdup.
Qed.

Lemma byte_at_ok e hd b1 x b2 t off :
  at_ e hd (b1 ++ [x] ++ b2) t -> off = Z.of_nat (length b1) ->
  byte_at (ptr_add (mk_bufptr e.(io_gen) (Z.of_nat (length hd))) off) e = Some (x, e).
Proof.
  intros Ha ->. unfold byte_at, mthen. rewrite (load_ok e hd _ t (hd ++ b1) [x] b2 1 _ Ha); [done| | |done].
  - by rewrite <- !(assoc_L (++)).
  - unfold ptr_add. cbn. f_equal. rewrite length_app. lia.
Qed.

Lemma repeat_last {A} (x : A) m : repeat x (Datatypes.S m) = repeat x m ++ [x].
Proof. apply repeat_cons. Qed.

Lemma pad_check_ok m : forall e hd bs post t k,
  at_ e hd (bs ++ repeat k m ++ post) t -> 0 <= k < 128 ->
  pad_check m (mk_bufptr e.(io_gen) (Z.of_nat (length hd))) (Z.of_nat (length bs + m) - 1) k e = Some (true, e).
Proof.
  induction m as [|m IH]; intros e hd bs post t k Ha Hk; [done|]. cbn [pad_check].
  rewrite repeat_last, <- (assoc_L (++)) in Ha.
  rewrite (mthen_some _ _ _ k e). 2:{ apply (byte_at_ok e hd (bs ++ repeat k m) k post t); [by rewrite <- (assoc_L (++))|].
    rewrite length_app, repeat_length. lia. }
  unfold schar. destruct (Z.ltb_spec k 128); [|lia]. rewrite Z.eqb_refl.
  replace (Z.of_nat (length bs + Datatypes.S m) - 1 - 1) with (Z.of_nat (length bs + m) - 1) by lia.
  by apply (IH e hd bs ([k] ++ post) t k).
Qed.

Lemma remove_padding_ok e hd bs k t d c :
  e.(io_priv).(sp_crypto) = Some d -> d.(current_rx_state).(cs_cipher) = Some c ->
  at_ e hd (bs ++ repeat (Z.of_nat k) k) t -> (0 < k < 128)%nat -> Z.of_nat (length bs + k) < 2 ^ 31 ->
  sat remove_padding e (fun r e' => r = 0 /\ exists t', at_ e' hd bs t' /\ keeps e e').
Proof.
  intros Hd Hc Ha Hk Hl. unfold remove_padding. eapply with_crypto_run; [done|]. rewrite Hc.
  eapply sat_run; [by eapply buffer_run|]. eapply sat_run; [by eapply len_run|].
  rewrite length_app, repeat_length. destruct k as [|k]; [lia|].
  eapply sat_run.
  { apply (byte_at_ok e hd (bs ++ repeat (Z.of_nat (Datatypes.S k)) k) (Z.of_nat (Datatypes.S k)) [] t).
    - rewrite app_nil_r, <- (assoc_L (++)), <- repeat_last. exact Ha.
    - rewrite length_app, repeat_length. lia. }
  unfold schar. destruct (Z.ltb_spec (Z.of_nat (Datatypes.S k)) 128); [|lia]. rewrite Nat2Z.id.
  eapply sat_run; [apply (pad_check_ok (Datatypes.S k) e hd bs [] t); [by rewrite app_nil_r|lia]|]. cbn [negb].
  destruct (tail_shrink_ok e hd bs (repeat (Z.of_nat (Datatypes.S k)) (Datatypes.S k)) t Ha) as (e1 & t1 & He1 & Ha1 & Hf1);
    [rewrite length_app, repeat_length; lia|]. rewrite repeat_length in He1.
  eapply or_fail_run; [exact He1|]. apply sat_ret. split; [done|]. exists t1. auto with sdup.
Qed.

(** ** Encryption *)

Lemma split_head (hd : list Z) n : (n <= length hd)%nat -> exists h1 h2, hd = h1 ++ h2 /\ length h2 = n /\ length h1 = (length hd - n)%nat.
Proof.
  intros Hn. exists (take (length hd - n) hd), (drop (length hd - n) hd).
  rewrite take_drop, length_drop, length_take. repeat split; lia.
Qed.

Lemma random_length n e : exists rb e', m_random (Pv := sdup_port) n e = Some (rb, e') /\ length rb = n /\
  forall hd bs t, at_ e hd bs t -> at_ e' hd bs t /\ frame e e'.
Proof.
  eexists _, _. split; [reflexivity|]. split; [rewrite length_take, length_app, repeat_length; lia|].
  intros hd bs t []. by split.
Qed.

Lemma encrypt_ok e hd bs t d c :
  e.(io_priv).(sp_crypto) = Some d -> d.(current_tx_state).(cs_cipher) = Some c ->
  at_ e hd bs t -> (ivsize c <= length hd)%nat -> (exists n, length bs = n * blocksize c)%nat ->
  sat encrypt e (fun r e' => r = 0 /\ exists hd' iv ct, length iv = ivsize c /\ length ct = length bs /\
    cipher_decrypt c iv ct = Some bs /\ at_ e' hd' (iv ++ ct) t /\ keeps e e').
Proof.
  intros Hd Hc Ha Hiv Hn. unfold encrypt. eapply with_crypto_run; [done|]. rewrite Hc.
  eapply sat_run; [by eapply len_run|]. eapply sat_run; [by eapply buffer_run|].
  destruct (decide (ivsize c = 0%nat)) as [E0|E0].
  - eapply sat_run; [reflexivity|]. eapply sat_run; [reflexivity|].
    eapply sat_run; [by apply (load_ok e hd bs t hd bs []); [|rewrite app_nil_r| |]|].
    destruct (cipher_law c [] bs) as (ct & -> & Hct & Hdec); [done|done|].
    destruct (store_ok e hd [] bs [] t ct (mk_bufptr (io_gen e) (Z.of_nat (length hd)))) as (e1 & He1 & Ha1 & Hf1);
      [by rewrite app_nil_r|done|by rewrite Nat.add_0_r|].
    eapply sat_run; [exact He1|]. apply sat_ret. split; [done|]. exists hd, [], ct. rewrite app_nil_r in Ha1. auto 8 with sdup.
  - destruct (split_head hd (ivsize c) Hiv) as (h1 & h2 & -> & Hh2 & _).
    destruct (head_grow_ok e h1 h2 bs t Ha) as (e1 & He1 & Ha1 & Hf1). rewrite Hh2 in He1.
    eapply (sat_bind _ _ _ (fun iv e' => exists rb, iv = Some (mk_bufptr e.(io_gen) (Z.of_nat (length h1))) /\
      length rb = ivsize c /\ at_ e' h1 (rb ++ bs) t /\ frame e e')).
    { eapply sat_run; [exact He1|]. eapply sat_run; [by eapply buffer_run|].
      destruct (random_length (ivsize c) e1) as (rb & e2 & He2 & Hrb & Ha2). destruct (Ha2 _ _ _ Ha1) as [Ha2' Hf2].
      eapply sat_run; [exact He2|].
      destruct (store_ok e2 h1 [] h2 bs t rb (mk_bufptr (io_gen e1) (Z.of_nat (length h1)))) as (e3 & He3 & Ha3 & Hf3);
        [done|lia|by rewrite (fr_gen _ _ Hf2), Nat.add_0_r|].
      eapply sat_run; [exact He3|]. apply sat_ret. exists rb. rewrite (fr_gen _ _ Hf1). split_and!; [done|done|exact Ha3|eauto with sdup]. }
    intros iv e2 (rb & -> & Hrb & Ha2 & Hf2). rewrite <- (fr_gen _ _ Hf2).
    eapply sat_run; [apply (load_ok e2 h1 (rb ++ bs) t h1 rb bs); [done|done|done|by rewrite Hrb]|].
    eapply sat_run.
    { apply (load_ok e2 h1 (rb ++ bs) t (h1 ++ rb) bs []); [done|by rewrite app_nil_r, (assoc_L (++))| |done].
      f_equal. rewrite !length_app. lia. }
    destruct (cipher_law c rb bs Hrb Hn) as (ct & -> & Hct & Hdec).
    rewrite <- (app_nil_r bs) in Ha2.
    destruct (store_ok e2 h1 rb bs [] t ct (mk_bufptr (io_gen e2) (Z.of_nat (length (h1 ++ h2))))) as (e3 & He3 & Ha3 & Hf3);
      [done|done|f_equal; rewrite length_app; lia|].
    eapply sat_run; [exact He3|]. apply sat_ret. split; [done|]. exists h1, rb, ct. rewrite app_nil_r in Ha3. eauto 10 with sdup.
Qed.

Lemma decrypt_ok e hd iv ct bs t d c :
  e.(io_priv).(sp_crypto) = Some d -> d.(current_rx_state).(cs_cipher) = Some c ->
  at_ e hd (iv ++ ct) t -> length iv = ivsize c -> length ct = length bs -> cipher_decrypt c iv ct = Some bs ->
  Z.of_nat (length bs) < 2 ^ 31 ->
  sat decrypt e (fun r e' => r = 0 /\ exists hd', at_ e' hd' bs t /\ keeps e e').
Proof.
  intros Hd Hc Ha Hiv Hct Hdec Hl. unfold decrypt. eapply with_crypto_run; [done|]. rewrite Hc.
  eapply sat_run; [by eapply buffer_run|].
  assert (exists e1, (if decide (ivsize c = 0%nat) then m_ret 0 else m_head_shrink (ivsize c)) e = Some (0, e1) /\
    at_ e1 (hd ++ iv) ct t /\ frame e e1) as (e1 & He1 & Ha1 & Hf1).
  { destruct (decide (ivsize c = 0%nat)) as [E0|E0].
    - exists e. rewrite E0 in Hiv. apply nil_length_inv in Hiv as ->. rewrite app_nil_r. auto with sdup.
    - rewrite <- Hiv. by apply head_shrink_ok. }
  eapply or_fail_run; [exact He1|]. eapply sat_run; [by eapply buffer_run|]. eapply sat_run; [by eapply len_run|].
  rewrite uwrap_small by (unfold in_u; lia). rewrite <- (fr_gen _ _ Hf1).
  eapply sat_run; [apply (load_ok e1 (hd ++ iv) ct t hd iv ct); [done|by rewrite (assoc_L (++))|done|by rewrite Hiv]|].
  eapply sat_run; [apply (load_ok e1 (hd ++ iv) ct t (hd ++ iv) ct []); [done|by rewrite app_nil_r|done|done]|].
  rewrite Hdec. rewrite <- (app_nil_r ct) in Ha1.
  destruct (store_ok e1 (hd ++ iv) [] ct [] t bs (mk_bufptr (io_gen e1) (Z.of_nat (length (hd ++ iv))))) as (e2 & He2 & Ha2 & Hf2);
    [done|done|by rewrite Nat.add_0_r|].
  eapply sat_run; [exact He2|]. apply sat_ret. split; [done|]. rewrite app_nil_r in Ha2. eauto with sdup.
Qed.

(** ** Sequence numbers *)

Lemma set_crypto_run d e hd bs t :
  at_ e hd bs t ->
  exists e', set_crypto d e = Some (tt, e') /\ at_ e' hd bs t /\ e'.(io_alloc) = e.(io_alloc) /\
    e'.(io_priv) = mk_sdup_port (Some d) e.(io_priv).(sp_errc) e.(io_priv).(sp_ttl) e.(io_priv).(max_pdu_size).
Proof. intros []. eexists. split; [reflexivity|]. repeat split; done. Qed.

(** The private data with another part for encryption. *)
Definition with_data d (p : sdup_port) : sdup_port := mk_sdup_port (Some d) p.(sp_errc) p.(sp_ttl) p.(max_pdu_size).

Lemma add_seq_num_ok e hd bs t d c :
  e.(io_priv).(sp_crypto) = Some d -> d.(current_tx_state).(cs_cipher) = Some c ->
  at_ e hd bs t -> (4 <= length hd)%nat ->
  sat add_seq_num e (fun r e' => r = 0 /\ exists hd', length hd' = (length hd - 4)%nat /\
    at_ e' hd' (le_encode 4 d.(tx_seq_num) ++ bs) t /\ e'.(io_alloc) = e.(io_alloc) /\
    e'.(io_priv) = with_data (set_tx_seq_num (u32 (d.(tx_seq_num) + 1)) d) e.(io_priv)).
Proof.
  intros Hd Hc Ha Hh. unfold add_seq_num. eapply with_crypto_run; [done|]. rewrite Hc.
  destruct (split_head hd 4 Hh) as (h1 & h2 & -> & Hh2 & Hh1).
  destruct (head_grow_ok e h1 h2 bs t Ha) as (e1 & He1 & Ha1 & Hf1). rewrite Hh2 in He1.
  eapply or_fail_run; [exact He1|]. eapply sat_run; [by eapply buffer_run|].
  destruct (store_ok e1 h1 [] h2 bs t (le_encode 4 d.(tx_seq_num)) (mk_bufptr (io_gen e1) (Z.of_nat (length h1)))) as (e2 & He2 & Ha2 & Hf2);
    [done|by rewrite length_le_encode, Hh2|by rewrite Nat.add_0_r|].
  eapply sat_run; [exact He2|].
  destruct (set_crypto_run (set_tx_seq_num (u32 (d.(tx_seq_num) + 1)) d) e2 _ _ _ Ha2) as (e3 & He3 & Ha3 & Ho3 & Hp3).
  eapply sat_run; [exact He3|]. apply sat_ret. split; [done|]. exists h1. split; [lia|]. split; [done|].
  destruct (keeps_trans _ _ _ (frame_keeps _ _ Hf1) (frame_keeps _ _ Hf2)) as [Hk1 Hk2].
  rewrite Ho3, Hp3, Hk2. by split.
Qed.

Lemma del_seq_num_ok e hd bs t d c n w :
  e.(io_priv).(sp_crypto) = Some d -> d.(current_rx_state).(cs_cipher) = Some c ->
  at_ e hd (le_encode 4 n ++ bs) t -> check_seq_num d.(window) (u32 n) = Some (0, w) ->
  sat del_seq_num e (fun r e' => r = 0 /\ exists hd', at_ e' hd' bs t /\ e'.(io_alloc) = e.(io_alloc) /\
    e'.(io_priv) = with_data (set_window w d) e.(io_priv)).
Proof.
  intros Hd Hc Ha Hw. unfold del_seq_num. eapply with_crypto_run; [done|]. rewrite Hc.
  eapply sat_run; [by eapply buffer_run|].
  eapply sat_run; [by apply (load_ok e hd _ t hd (le_encode 4 n) bs 4 _ Ha)|].
  destruct (head_shrink_ok e hd (le_encode 4 n) bs t Ha) as (e1 & He1 & Ha1 & Hf1). rewrite length_le_encode in He1.
  eapply or_fail_run; [exact He1|]. rewrite le_decode_encode. change (8 * Z.of_nat 4) with 32. rewrite Hw.
  destruct (set_crypto_run (set_window w d) e1 _ _ _ Ha1) as (e2 & He2 & Ha2 & Ho2 & Hp2).
  eapply sat_run; [exact He2|]. apply sat_ret. split; [done|]. exists (hd ++ le_encode 4 n). split; [done|].
  rewrite Ho2, Hp2. destruct (frame_keeps _ _ Hf1) as [-> ->]. by split.
Qed.

(** ** Compression *)

Lemma alloc_run e hd bs t :
  at_ e hd bs t -> e.(io_alloc) = [] -> exists e', m_alloc e = Some (true, e') /\ at_ e' hd bs t /\ frame e e'.
Proof. intros [] Ho. unfold m_alloc. rewrite Ho. cbn [rkmalloc]. eexists. split; [reflexivity|]. repeat split; done. Qed.

Lemma replace_data_ok e hd bs t new :
  at_ e hd bs t -> e.(io_alloc) = [] ->
  sat (replace_data (Z.of_nat (length bs)) new) e (fun r e' => r = 0 /\ exists hd', at_ e' hd' new t /\
    (length hd + length bs <= length hd' + length new)%nat /\ keeps e e').
Proof.
  intros Ha Ho. unfold replace_data.
  eapply (or_fail_sat _ _ _ (fun e' => exists hd' old, at_ e' hd' old t /\ length old = length new /\
    (length hd + length bs <= length hd' + length new)%nat /\ keeps e e')).
  - destruct (Z.ltb_spec (Z.of_nat (length new)) (Z.of_nat (length bs))) as [Hlt|Hge].
    + replace (Z.to_nat _) with (length bs - length new)%nat by lia.
      rewrite <- (take_drop (length bs - length new) bs) in Ha.
      destruct (head_shrink_ok _ _ _ _ _ Ha) as (e1 & He1 & Ha1 & Hf1).
      rewrite length_take in He1. replace (min _ _) with (length bs - length new)%nat in He1 by lia.
      exists 0, e1. split; [done|]. split; [done|]. eexists _, _. split; [exact Ha1|].
      rewrite length_drop, length_app, length_take. split; [lia|]. split; [lia|]. by apply frame_keeps.
    + replace (Z.to_nat _) with (length new - length bs)%nat by lia.
      destruct (head_grow_any e hd bs t (length new - length bs) Ha Ho) as (e1 & hd1 & j & He1 & Hj & Ha1 & Hh & Ho1 & Hp1).
      exists 0, e1. split; [done|]. split; [done|]. eexists _, _. split; [exact Ha1|]. rewrite length_app.
      split; [lia|]. split; [lia|]. split; congruence.
  - intros e1 (hd1 & old & Ha1 & Hlen & Hroom & Hk). eapply sat_run; [by eapply buffer_run|].
    rewrite <- (app_nil_r old) in Ha1.
    destruct (store_ok e1 hd1 [] old [] t new (mk_bufptr (io_gen e1) (Z.of_nat (length hd1)))) as (e2 & He2 & Ha2 & Hf2);
      [done|done|by rewrite Nat.add_0_r|].
    eapply sat_run; [exact He2|]. apply sat_ret. split; [done|]. rewrite app_nil_r in Ha2. eauto 6 with sdup.
Qed.

Lemma compress_ok e hd bs cs t d c :
  e.(io_priv).(sp_crypto) = Some d -> d.(current_tx_state).(cs_compress) = Some c ->
  at_ e hd bs t -> e.(io_alloc) = [] -> Z.of_nat (length bs) < 2 ^ 31 ->
  comp_compress c d.(current_tx_state).(comp_scratch_size) bs = Some cs ->
  sat compress e (fun r e' => r = 0 /\ exists hd', at_ e' hd' cs t /\
    (length hd + length bs <= length hd' + length cs)%nat /\ keeps e e').
Proof.
  intros Hd Hc Ha Ho Hl Hcs. unfold compress. eapply with_crypto_run; [done|]. rewrite Hc.
  eapply sat_run; [by eapply len_run|]. rewrite (uwrap_small 32) by (unfold in_u; lia).
  eapply sat_run; [by eapply buffer_run|].
  eapply sat_run; [apply (load_ok e hd bs t hd bs []); [done|by rewrite app_nil_r|done|done]|].
  rewrite Hcs. by apply replace_data_ok.
Qed.

Lemma decompress_ok e hd bs cs t d c scratch :
  e.(io_priv).(sp_crypto) = Some d -> d.(current_rx_state).(cs_compress) = Some c ->
  at_ e hd cs t -> e.(io_alloc) = [] -> Z.of_nat (length cs) < 2 ^ 31 ->
  comp_compress c scratch bs = Some cs -> Z.of_nat (length bs) <= e.(io_priv).(max_pdu_size) ->
  sat decompress e (fun r e' => r = 0 /\ exists hd', at_ e' hd' bs t).
Proof.
  intros Hd Hc Ha Ho Hl Hcs Hmax. unfold decompress. eapply with_crypto_run; [done|]. rewrite Hc.
  eapply sat_run; [by eapply len_run|]. rewrite (uwrap_small 32) by (unfold in_u; lia).
  eapply sat_run; [by eapply buffer_run|]. destruct (alloc_run _ _ _ _ Ha Ho) as (e1 & He1 & Ha1 & Hf1).
  eapply sat_run; [exact He1|]. cbn [negb]. rewrite <- (fr_gen _ _ Hf1).
  eapply sat_run; [apply (load_ok e1 hd cs t hd cs []); [done|by rewrite app_nil_r|done|done]|].
  eapply sat_run; [reflexivity|]. rewrite (fr_priv _ _ Hf1), (comp_law c scratch bs cs) by done.
  eapply sat_weaken; [apply (replace_data_ok e1 hd cs t bs Ha1); by rewrite (fr_alloc _ _ Hf1)|].
  intros r e' (-> & hd' & Ha' & _). eauto.
Qed.

(** ** Error check *)

Lemma add_error_check_ok e hd bs t :
  at_ e hd bs t -> (4 <= t)%nat ->
  sat default_sdup_add_error_check_policy e (fun r e' => r = 0 /\ at_ e' hd (bs ++ le_encode 4 (crc32_le 0 bs)) (t - 4) /\ keeps e e').
Proof.
  intros Ha Ht. unfold default_sdup_add_error_check_policy.
  eapply sat_run; [by eapply buffer_run|]. eapply sat_run; [by eapply len_run|].
  eapply sat_run; [apply (load_ok e hd bs t hd bs []); [done|by rewrite app_nil_r|done|done]|].
  destruct (tail_grow_ok e hd bs t 4 Ha Ht) as (e1 & j & He1 & Hj & Ha1 & Hf1).
  eapply or_fail_run; [exact He1|]. rewrite <- (fr_gen _ _ Hf1). rewrite <- (app_nil_r j) in Ha1.
  destruct (store_ok e1 hd bs j [] _ (le_encode 4 (crc32_le 0 bs))
    (ptr_add (mk_bufptr (io_gen e1) (Z.of_nat (length hd))) (Z.of_nat (length bs))) Ha1)
    as (e2 & He2 & Ha2 & Hf2); [by rewrite length_le_encode|unfold ptr_add; cbn; f_equal; lia|].
  eapply sat_run; [exact He2|]. apply sat_ret. rewrite app_nil_r in Ha2. eauto with sdup.
Qed.

Lemma check_error_check_ok e hd bs t :
  at_ e hd (bs ++ le_encode 4 (crc32_le 0 bs)) t -> Z.of_nat (length bs) < 2 ^ 31 ->
  sat default_sdup_check_error_check_policy e (fun r e' => r = 0 /\ exists t', at_ e' hd bs t' /\ keeps e e').
Proof.
  intros Ha Hl. unfold default_sdup_check_error_check_policy.
  eapply sat_run; [by eapply buffer_run|]. eapply sat_run; [by eapply len_run|].
  set (crc := le_encode 4 (crc32_le 0 bs)) in *. assert (length crc = 4%nat) as Hc by apply length_le_encode.
  replace (Z.of_nat (length (bs ++ crc)) - 4) with (Z.of_nat (length bs)) by (rewrite length_app; lia).
  rewrite (uwrap_small 64) by (unfold in_u; lia).
  eapply sat_run; [by apply (load_ok e hd _ t hd bs crc _ _ Ha)|].
  eapply sat_run.
  { apply (load_ok e hd _ t (hd ++ bs) crc [] _ _ Ha); [by rewrite app_nil_r, (assoc_L (++))| |by rewrite Hc].
    unfold ptr_add. cbn. f_equal. rewrite length_app. lia. }
  rewrite bool_decide_true by done. cbn [negb].
  destruct (tail_shrink_ok e hd bs crc t Ha) as (e1 & t1 & He1 & Ha1 & Hf1); [rewrite length_app; lia|].
  rewrite Hc in He1. eapply or_fail_run; [exact He1|]. apply sat_ret. split; [done|]. exists t1. auto with sdup.
Qed.

(** ** The form of a protected PDU *)

Definition stage {A} (o : option A) (P : A -> list Z -> list Z -> Prop) (x y : list Z) : Prop :=
  match o with Some a => P a x y | None => y = x end.

Definition compressed (st : crypto_state) : list Z -> list Z -> Prop :=
  stage st.(cs_compress) (fun c x y => comp_compress c st.(comp_scratch_size) x = Some y).
Definition numbered (st : crypto_state) (n : Z) : list Z -> list Z -> Prop :=
  stage st.(cs_cipher) (fun _ x y => y = le_encode 4 n ++ x).
Definition authenticated (st : crypto_state) : list Z -> list Z -> Prop :=
  stage st.(cs_shash) (fun h x y => exists dg, shash_digest h x = Some dg /\ length dg = digestsize h /\ y = x ++ dg).
Definition encrypted (st : crypto_state) : list Z -> list Z -> Prop :=
  stage st.(cs_cipher) (fun c x y => exists k iv ct, (0 < k <= blocksize c)%nat /\ length iv = ivsize c /\
    length ct = length (x ++ repeat (Z.of_nat k) k) /\ cipher_decrypt c iv ct = Some (x ++ repeat (Z.of_nat k) k) /\
    y = iv ++ ct).
Definition checked (errc : bool) (x y : list Z) : Prop := y = if errc then x ++ le_encode 4 (crc32_le 0 x) else x.

(** Bytes that encryption with [st] adds in front and behind. *)
Definition iv_room (st : crypto_state) : nat := match st.(cs_cipher) with Some c => 4 + ivsize c | None => 0 end.
Definition pad_room (st : crypto_state) : nat := match st.(cs_cipher) with Some c => blocksize c | None => 0 end.
Definition mac_room (st : crypto_state) : nat := match st.(cs_shash) with Some h => digestsize h | None => 0 end.

(** ** Protection *)

Lemma opt_compress e hd bs cs t d :
  e.(io_priv).(sp_crypto) = Some d -> at_ e hd bs t -> e.(io_alloc) = [] -> Z.of_nat (length bs) < 2 ^ 31 ->
  compressed d.(current_tx_state) bs cs ->
  sat compress e (fun r e' => r = 0 /\ exists hd', at_ e' hd' cs t /\
    (length hd + length bs <= length hd' + length cs)%nat /\ keeps e e').
Proof.
  intros Hd Ha Ho Hl Hcs. unfold compressed, stage in Hcs. destruct (cs_compress (current_tx_state d)) as [c|] eqn:Ec.
  - by eapply compress_ok.
  - subst cs. unfold compress. eapply with_crypto_run; [done|]. rewrite Ec. apply sat_ret. eauto 6 with sdup.
Qed.

Lemma opt_seq_num e hd x t d :
  e.(io_priv).(sp_crypto) = Some d -> at_ e hd x t -> (iv_room d.(current_tx_state) <= length hd)%nat ->
  sat add_seq_num e (fun r e' => r = 0 /\ exists hd' d' y, numbered d.(current_tx_state) d.(tx_seq_num) x y /\
    at_ e' hd' y t /\ (length hd + length x = length hd' + length y)%nat /\ (length y <= length x + 4)%nat /\
    e'.(io_priv).(sp_crypto) = Some d' /\ d'.(current_tx_state) = d.(current_tx_state)).
Proof.
  intros Hd Ha Hr. unfold numbered, stage, iv_room in *. destruct (cs_cipher (current_tx_state d)) as [c|] eqn:Ec.
  - eapply sat_weaken; [eapply add_seq_num_ok; [done|done|done|lia]|].
    intros r e' (-> & hd' & Hh & Ha' & _ & Hp). split; [done|]. eexists hd', _, _. split; [reflexivity|]. split; [done|].
    rewrite length_app, length_le_encode. split; [lia|]. split; [lia|]. by rewrite Hp.
  - unfold add_seq_num. eapply with_crypto_run; [done|]. rewrite Ec. apply sat_ret. split; [done|]. exists hd, d, x.
    split_and!; (done || lia).
Qed.

Lemma opt_hmac e hd x t d :
  e.(io_priv).(sp_crypto) = Some d -> at_ e hd x t -> (mac_room d.(current_tx_state) <= t)%nat -> Z.of_nat (length x) < 2 ^ 31 ->
  sat (match d.(current_tx_state).(cs_shash) with Some _ => add_hmac | None => m_ret 0 end) e
    (fun r e' => r = 0 /\ exists y, authenticated d.(current_tx_state) x y /\
      at_ e' hd y (t - mac_room d.(current_tx_state)) /\ (length y = length x + mac_room d.(current_tx_state))%nat /\ keeps e e').
Proof.
  intros Hd Ha Ht Hl. unfold authenticated, stage, mac_room in *. destruct (cs_shash (current_tx_state d)) as [h|] eqn:Eh.
  - eapply sat_weaken; [by eapply add_hmac_ok|]. intros r e' (-> & dg & Hdg & Hdl & Ha' & Hk).
    split; [done|]. eexists. split; [eauto|]. rewrite length_app. auto.
  - apply sat_ret. split; [done|]. exists x. rewrite Nat.sub_0_r, Nat.add_0_r. auto with sdup.
Qed.

Lemma opt_encrypt e hd x t d :
  e.(io_priv).(sp_crypto) = Some d -> at_ e hd x t -> (pad_room d.(current_tx_state) <= t)%nat ->
  (match d.(current_tx_state).(cs_cipher) with Some c => ivsize c <= length hd | None => True end)%nat ->
  (d.(current_tx_state).(cs_cipher) = None \/ x <> []) -> Z.of_nat (length x) + 256 < 2 ^ 31 ->
  sat (or_return add_padding encrypt) e (fun r e' => r = 0 /\ exists hd' y t', encrypted d.(current_tx_state) x y /\
    at_ e' hd' y t' /\ (t <= t' + pad_room d.(current_tx_state))%nat).
Proof.
  intros Hd Ha Ht Hh Hx Hl. unfold encrypted, stage, pad_room in *. destruct (cs_cipher (current_tx_state d)) as [c|] eqn:Ec.
  - eapply or_return_run. { eapply sat_weaken; [eapply add_padding_ok; [done|done|done|done| |done]|].
      { by destruct Hx. } intros r e1 (-> & Hq). split; [done|]. exact Hq. }
    intros e1 (k & Hk & Hn & Ha1 & Hk1 & Hp1). pose proof Hd as Hd1. rewrite <- Hp1 in Hd1.
    eapply sat_weaken; [eapply encrypt_ok; [exact Hd1|done|done|done|by rewrite length_app, repeat_length]|].
    intros r e2 (-> & hd' & iv & ct & Hiv & Hct & Hdec & Ha2 & _). split; [done|]. eexists hd', _, _.
    split; [exists k, iv, ct; split_and!; (done || lia)|]. split; [exact Ha2|]. lia.
  - eapply (or_return_run _ _ _ (fun e' => e' = e)).
    { unfold add_padding. eapply with_crypto_run; [done|]. rewrite Ec. by apply sat_ret. }
    intros e' ->. unfold encrypt. eapply with_crypto_run; [done|]. rewrite Ec. apply sat_ret. split; [done|].
    exists hd, x, t. split; [done|]. split; [done|lia].
Qed.

(** What the four stages of encryption make of [bs], compressed to [cs]. *)
Definition sealed (st : crypto_state) (n : Z) (cs out : list Z) : Prop :=
  exists x y, numbered st n cs x /\ authenticated st x y /\ encrypted st y out.

Lemma apply_crypto_ok e hd bs cs t d (st := d.(current_tx_state)) :
  e.(io_priv).(sp_crypto) = Some d -> at_ e hd bs t -> e.(io_alloc) = [] ->
  compressed st bs cs -> (iv_room st + length cs <= length hd + length bs)%nat -> (mac_room st + pad_room st <= t)%nat ->
  Z.of_nat (length bs) < 2 ^ 31 -> Z.of_nat (length cs + mac_room st) + 260 < 2 ^ 31 ->
  sat default_sdup_apply_crypto e (fun r e' => r = 0 /\ exists hd' out t', sealed st d.(tx_seq_num) cs out /\
    at_ e' hd' out t' /\ (t <= t' + mac_room st + pad_room st)%nat).
Proof.
  intros Hd Ha Ho Hcs Hroom Ht Hl Hlc. unfold default_sdup_apply_crypto. eapply with_crypto_run; [done|].
  eapply or_return_run; [by eapply opt_compress|]. intros e1 (hd1 & Ha1 & Hh1 & Ho1 & Hp1).
  pose proof Hd as Hd1. rewrite <- Hp1 in Hd1.
  eapply or_return_run; [eapply opt_seq_num; [done|done|unfold st in *; lia]|].
  intros e2 (hd2 & d2 & x & Hx & Ha2 & Hh2 & Hx2 & Hd2 & Est). fold st in Hx, Est. rewrite <- Est in *.
  assert (match cs_cipher (current_tx_state d2) with Some c => ivsize c <= length hd2 | None => True end)%nat as Hiv.
  { unfold numbered, stage, iv_room in *. destruct (cs_cipher (current_tx_state d2)); [|done]. subst x.
    rewrite length_app, length_le_encode in Hh2. lia. }
  rewrite <- (eq_trans Est eq_refl : current_tx_state d2 = current_tx_state d).
  eapply or_return_run; [eapply opt_hmac; [done|done|lia|lia]|]. intros e3 (y & Hy & Ha3 & Hly & Hk3 & Hp3).
  pose proof Hd2 as Hd3. rewrite <- Hp3 in Hd3.
  eapply sat_weaken; [eapply opt_encrypt; [exact Hd3|done|lia|done| |lia]|].
  { unfold numbered, stage, authenticated in *. destruct (cs_cipher (current_tx_state d2)); [right|by left].
    assert (0 < length x)%nat by (subst x; rewrite length_app, length_le_encode; lia). destruct y; [|done]. cbn in *. lia. }
  intros r e4 (-> & hd4 & out & t4 & Henc & Ha4 & Ht4). split; [done|]. exists hd4, out, t4.
  split; [by exists x, y|]. split; [done|]. lia.
Qed.

(** ** Removal *)

(** The algorithms and keys of the two ends. *)
Definition same_algorithms (st st' : crypto_state) : Prop :=
  st'.(cs_cipher) = st.(cs_cipher) /\ st'.(cs_shash) = st.(cs_shash) /\ st'.(cs_compress) = st.(cs_compress).

(** The replay window of the receiver takes the number. *)
Definition takes (d : crypto_data) (n : Z) : Prop :=
  d.(current_rx_state).(cs_cipher) = None \/ exists w, check_seq_num d.(window) (u32 n) = Some (0, w).

Lemma opt_decrypt e hd x y t d st :
  e.(io_priv).(sp_crypto) = Some d -> same_algorithms st d.(current_rx_state) -> at_ e hd y t ->
  encrypted st x y -> Z.of_nat (length y) < 2 ^ 31 ->
  sat decrypt e (fun r e' => r = 0 /\ exists hd' k, (k < 128)%nat /\ (st.(cs_cipher) <> None -> 0 < k)%nat /\
    (st.(cs_cipher) = None -> k = 0%nat) /\
    at_ e' hd' (x ++ repeat (Z.of_nat k) k) t /\ (length x + k <= length y)%nat /\ keeps e e').
Proof.
  intros Hd (Hc & _ & _) Ha Henc Hl. unfold encrypted, stage in Henc. destruct (cs_cipher st) as [c|] eqn:Ec.
  - destruct Henc as (k & iv & ct & Hk & Hiv & Hct & Hdec & ->). pose proof (blocksize_law c). rewrite length_app in Hl.
    eapply sat_weaken; [eapply decrypt_ok; [done|done|done|done|exact Hct|done|lia]|].
    intros r e' (-> & hd' & Ha' & Hk'). split; [done|]. exists hd', k.
    rewrite length_app, Hct, length_app, repeat_length. split_and!; (done || lia).
  - subst y. unfold decrypt. eapply with_crypto_run; [done|]. rewrite Hc. apply sat_ret. split; [done|]. exists hd, 0%nat.
    cbn [repeat]. rewrite app_nil_r. split_and!; (done || lia).
Qed.

Lemma opt_unpad e hd x k t d :
  e.(io_priv).(sp_crypto) = Some d -> at_ e hd (x ++ repeat (Z.of_nat k) k) t ->
  (k < 128)%nat -> (d.(current_rx_state).(cs_cipher) <> None -> 0 < k)%nat ->
  (d.(current_rx_state).(cs_cipher) = None -> k = 0%nat) -> Z.of_nat (length x + k) < 2 ^ 31 ->
  sat remove_padding e (fun r e' => r = 0 /\ exists t', at_ e' hd x t' /\ keeps e e').
Proof.
  intros Hd Ha Hk Hpos Hnone Hl. destruct (cs_cipher (current_rx_state d)) as [c|] eqn:Ec.
  - eapply remove_padding_ok; [done|done|done| |done]. specialize (Hpos ltac:(done)). lia.
  - rewrite Hnone in Ha by done. cbn [repeat] in Ha. rewrite app_nil_r in Ha.
    unfold remove_padding. eapply with_crypto_run; [done|]. rewrite Ec. apply sat_ret. eauto with sdup.
Qed.

Lemma opt_check_hmac e hd x y t d st :
  e.(io_priv).(sp_crypto) = Some d -> same_algorithms st d.(current_rx_state) -> at_ e hd y t -> e.(io_alloc) = [] ->
  authenticated st x y -> Z.of_nat (length y) < 2 ^ 31 ->
  sat (match d.(current_rx_state).(cs_shash) with Some _ => check_hmac | None => m_ret 0 end) e
    (fun r e' => r = 0 /\ exists t', at_ e' hd x t' /\ (length x <= length y)%nat /\ keeps e e').
Proof.
  intros Hd (_ & Hh & _) Ha Ho Hau Hl. unfold authenticated, stage in Hau. rewrite Hh. destruct (cs_shash st) as [h|] eqn:Eh.
  - destruct Hau as (dg & Hdg & Hdl & ->). eapply sat_weaken; [by eapply check_hmac_ok|].
    intros r e' (-> & t' & Ha' & Hk). split; [done|]. exists t'. rewrite length_app. split_and!; (done || lia).
  - subst y. apply sat_ret. split; [done|]. exists t. auto with sdup.
Qed.

Lemma opt_del_seq_num e hd x y t d st n :
  e.(io_priv).(sp_crypto) = Some d -> same_algorithms st d.(current_rx_state) -> at_ e hd y t -> numbered st n x y -> takes d n ->
  sat del_seq_num e (fun r e' => r = 0 /\ exists hd' d', at_ e' hd' x t /\ (length x <= length y)%nat /\
    e'.(io_alloc) = e.(io_alloc) /\ e'.(io_priv).(max_pdu_size) = e.(io_priv).(max_pdu_size) /\
    e'.(io_priv).(sp_crypto) = Some d' /\ d'.(current_rx_state) = d.(current_rx_state)).
Proof.
  intros Hd (Hc & _ & _) Ha Hn Htk. unfold numbered, stage, takes in *. rewrite Hc in *. destruct (cs_cipher st) as [c|] eqn:Ec.
  - destruct Htk as [|[w Hw]]; [done|]. subst y.
    eapply sat_weaken; [by eapply del_seq_num_ok|]. intros r e' (-> & hd' & Ha' & Ho' & Hp'). split; [done|].
    eexists hd', _. rewrite Hp', length_app. split_and!; try done. lia.
  - subst y. unfold del_seq_num. eapply with_crypto_run; [done|]. rewrite Hc. apply sat_ret. split; [done|]. exists hd, d. split_and!; (done || lia).
Qed.

Lemma opt_decompress e hd bs cs t d st :
  e.(io_priv).(sp_crypto) = Some d -> same_algorithms st d.(current_rx_state) -> at_ e hd cs t -> e.(io_alloc) = [] ->
  compressed st bs cs -> Z.of_nat (length cs) < 2 ^ 31 -> Z.of_nat (length bs) <= e.(io_priv).(max_pdu_size) ->
  sat decompress e (fun r e' => r = 0 /\ exists hd', at_ e' hd' bs t).
Proof.
  intros Hd (_ & _ & Hc) Ha Ho Hcs Hl Hm. unfold compressed, stage in Hcs. destruct (cs_compress st) as [c|] eqn:Ec.
  - by eapply decompress_ok.
  - subst cs. unfold decompress. eapply with_crypto_run; [done|]. rewrite Hc. apply sat_ret. eauto.
Qed.

Lemma remove_crypto_ok e hd bs cs out t d st n :
  e.(io_priv).(sp_crypto) = Some d -> same_algorithms st d.(current_rx_state) -> at_ e hd out t -> e.(io_alloc) = [] ->
  compressed st bs cs -> sealed st n cs out -> takes d n ->
  Z.of_nat (length out) < 2 ^ 31 -> Z.of_nat (length bs) <= e.(io_priv).(max_pdu_size) ->
  sat default_sdup_remove_crypto e (fun r e' => r = 0 /\ exists hd' t', at_ e' hd' bs t').
Proof.
  intros Hd Hsame Ha Ho Hcs (x & y & Hx & Hy & Henc) Htk Hl Hm.
  unfold default_sdup_remove_crypto. eapply with_crypto_run; [done|].
  eapply or_return_run; [by eapply opt_decrypt|]. intros e1 (hd1 & k & Hk & Hk1 & Hk0 & Ha1 & Hl1 & Ho1 & Hp1).
  pose proof Hd as Hd1. rewrite <- Hp1 in Hd1.
  eapply or_return_run. { eapply opt_unpad; [exact Hd1|done|done| | |lia]; destruct Hsame as (-> & _ & _); done. }
  intros e2 (t2 & Ha2 & Ho2 & Hp2). pose proof Hd1 as Hd2. rewrite <- Hp2 in Hd2.
  eapply or_return_run; [eapply opt_check_hmac; [done|done|done|congruence|done|lia]|].
  intros e3 (t3 & Ha3 & Hl3 & Ho3 & Hp3). pose proof Hd2 as Hd3. rewrite <- Hp3 in Hd3.
  eapply or_return_run; [by eapply opt_del_seq_num|].
  intros e4 (hd4 & d4 & Ha4 & Hl4 & Ho4 & Hm4 & Hd4 & Est).
  rewrite <- Est in Hsame.
  eapply sat_weaken; [eapply opt_decompress; [exact Hd4|exact Hsame|done|congruence|done|lia|congruence]|].
  intros r e5 (-> & hd5 & Ha5). eauto.
Qed.

(** ** Round trip *)

(** The ends of a protected port: error checks and encryption agree, and the receiver's
    window takes the number of the sender. *)
Definition ends_agree (tx rx : sdup_port) : Prop :=
  rx.(sp_errc) = tx.(sp_errc) /\
  match tx.(sp_crypto), rx.(sp_crypto) with
  | Some d, Some d' => same_algorithms d.(current_tx_state) d'.(current_rx_state) /\ takes d' d.(tx_seq_num)
  | None, None => True
  | _, _ => False
  end.

(** The PDU can be compressed, and there is room for what protection adds. *)
Definition protectable (tx : sdup_port) (hroom troom : nat) bs : Prop :=
  Z.of_nat (length bs) < 2 ^ 31 /\
  match tx.(sp_crypto) with
  | Some d => let st := d.(current_tx_state) in exists cs, compressed st bs cs /\
      (iv_room st + length cs <= hroom + length bs)%nat /\ (mac_room st + pad_room st + 4 <= troom)%nat /\
      Z.of_nat (length cs + mac_room st) + 260 < 2 ^ 31
  | None => (4 <= troom)%nat
  end.

Lemma protect_ok e hd bs t :
  at_ e hd bs t -> e.(io_alloc) = [] -> protectable e.(io_priv) (length hd) t bs ->
  sat sdup_protect_pdu e (fun r e' => r = 0 /\ exists hd' x out t', at_ e' hd' out t' /\ checked e.(io_priv).(sp_errc) x out /\
    match e.(io_priv).(sp_crypto) with
    | Some d => exists cs, compressed d.(current_tx_state) bs cs /\ sealed d.(current_tx_state) d.(tx_seq_num) cs x
    | None => x = bs
    end).
Proof.
  intros Ha Ho [Hl Hp]. unfold sdup_protect_pdu. eapply sat_run; [reflexivity|].
  eapply (or_fail_sat _ _ _ (fun e1 => exists hd1 x t1, at_ e1 hd1 x t1 /\ (4 <= t1)%nat /\
    match e.(io_priv).(sp_crypto) with
    | Some d => exists cs, compressed d.(current_tx_state) bs cs /\ sealed d.(current_tx_state) d.(tx_seq_num) cs x
    | None => x = bs
    end)).
  - destruct (sp_crypto (io_priv e)) as [d|] eqn:Ed; [|apply sat_ret; eauto 8].
    destruct Hp as (cs & Hcs & Hh & Ht & Hlc).
    eapply sat_weaken; [eapply apply_crypto_ok; [done|done|done|exact Hcs|done|lia|done|done]|].
    intros r e1 (-> & hd1 & x & t1 & Hs & Ha1 & Ht1). split; [done|]. exists hd1, x, t1. split; [done|]. split; [lia|]. eauto.
  - intros e1 (hd1 & x & t1 & Ha1 & Ht1 & Hx). unfold checked. destruct (sp_errc (io_priv e)).
    + eapply or_fail_sat; [eapply sat_weaken; [by eapply add_error_check_ok|]; intros r e2 [-> [Ha2 _]]; split; [done|exact Ha2]|].
      intros e2 Ha2. apply sat_ret. split; [done|]. eexists hd1, x, _, _. split; [exact Ha2|]. by split.
    + eapply or_fail_run; [reflexivity|]. apply sat_ret. split; [done|]. exists hd1, x, x, t1. by split.
Qed.

Lemma checked_length b x y : checked b x y -> (length x <= length y)%nat.
Proof. unfold checked. intros ->. destruct b; rewrite ?length_app; lia. Qed.

Lemma unprotect_ok tx e hd bs x out t :
  ends_agree tx e.(io_priv) -> at_ e hd out t -> e.(io_alloc) = [] -> checked tx.(sp_errc) x out ->
  match tx.(sp_crypto) with
  | Some d => exists cs, compressed d.(current_tx_state) bs cs /\ sealed d.(current_tx_state) d.(tx_seq_num) cs x
  | None => x = bs
  end ->
  Z.of_nat (length out) < 2 ^ 31 -> Z.of_nat (length bs) <= e.(io_priv).(max_pdu_size) ->
  sat sdup_unprotect_pdu e (fun r e' => r = 0 /\ du_buffer e'.(io_du) = bs).
Proof.
  intros [Ee Hc] Ha Ho Hck Hx Hl Hm. pose proof (checked_length _ _ _ Hck) as Hlx.
  unfold sdup_unprotect_pdu. eapply sat_run; [reflexivity|]. rewrite Ee.
  eapply (or_fail_sat _ _ _ (fun e1 => exists t1, at_ e1 hd x t1 /\ keeps e e1)).
  - unfold checked in Hck. destruct (sp_errc tx); subst out; [|apply sat_ret; eauto with sdup].
    apply check_error_check_ok with t; [done|lia].
  - intros e1 (t1 & Ha1 & Ho1 & Hp1). rewrite <- Hp1 in Hc, Hm |- *.
    destruct (sp_crypto tx) as [d|], (sp_crypto (io_priv e1)) as [d'|] eqn:Ed'; try done.
    + destruct Hc as [Hsame Htk]. destruct Hx as (cs & Hcs & Hs).
      eapply or_fail_sat; [eapply remove_crypto_ok; [done|exact Hsame|done|congruence|exact Hcs|exact Hs|done|lia|done]|].
      intros e2 (hd2 & t2 & Ha2). apply sat_ret. split; [done|]. apply (at_data _ _ _ _ Ha2).
    + subst x. eapply or_fail_run; [reflexivity|]. apply sat_ret. split; [done|]. apply (at_data _ _ _ _ Ha1).
Qed.

(** C20: a PDU that is protected with room in front and behind arrives as it was: whatever is
    selected of compression, sequence numbers, authentication, padding, encryption and error
    check, removing the protection of the bytes that were sent gives back the PDU, when the two
    ends agree and the number is not a replay. *)
Theorem sdup_roundtrip e r :
  let x := e.(io_du) in
  head_ok x -> e.(io_alloc) = [] ->
  protectable e.(io_priv) (skb_headroom x.(du_skb)) (skb_tailroom x.(du_skb)) (du_buffer x) ->
  ends_agree e.(io_priv) r.(io_priv) -> r.(io_alloc) = [] -> head_ok r.(io_du) ->
  du_len x <= r.(io_priv).(max_pdu_size) ->
  exists e', sdup_protect_pdu e = Some (0, e') /\
    (du_buffer r.(io_du) = du_buffer e'.(io_du) -> du_len e'.(io_du) < 2 ^ 31 ->
     exists r', sdup_unprotect_pdu r = Some (0, r') /\ du_buffer r'.(io_du) = du_buffer x).
Proof.
  intros x Hok Ho Hp Hag Hor Hokr Hm. subst x. destruct (at_intro e Hok) as [hd Ha].
  rewrite (at_head _ _ _ _ Ha) in Hp.
  destruct (protect_ok _ _ _ _ Ha Ho Hp) as (z & e' & He & -> & hd' & y & out & t' & Ha' & Hck & Hy).
  exists e'. split; [done|]. destruct (at_data _ _ _ _ Ha') as [-> ->]. intros Hbuf Hl.
  destruct (at_intro r Hokr) as [hdr Har]. rewrite Hbuf in Har.
  destruct (unprotect_ok (io_priv e) r hdr (du_buffer (io_du e)) y out _ Hag Har Hor Hck Hy Hl Hm) as (z & r' & Hr & -> & Hb).
  eauto.
Qed.
End Laws.
