(* ===== verification/SdupTtl.v ===== *)
(** * Lifetime and errors of SDU protection

    A PDU is relayed fewer times than its lifetime says ([ttl_bounds_relays]), and the inputs
    on which the default policies leave the data unit or the buffer they work on. *)

From S2P Require Import Prelude Kucommon Pci Skb Du SdupMem SdupReplay Sdup SdupLaws.
From Stdlib Require Import ZArith Lia.
From stdpp Require Import base list numbers option.
#[local] Open Scope Z_scope.
#[local] Open Scope sdup_scope.

Section Ttl.
Context {S : Type} `{SkBuffLaws S} `{!SkBuffMem S} `{!SkBuffMemLaws S} `{KC : KernelCrypto}.
Implicit Types (e : io S sdup_port) (hd bs pdu : list Z).

(** A PDU whose header is complete and says its length. *)
Definition pdu_ok (cfg : efcp_config) pdu : Prop :=
  exists type, pci_type cfg pdu = Some type /\ pdu_type_is_ok type = true /\
    0 < pci_calculate_size cfg type <= Z.of_nat (length pdu) /\ pci_length cfg pdu = Some (Z.of_nat (length pdu)).

(** A data unit as it is received on a port with a lifetime limit only. *)
Record arrives (cfg : efcp_config) (v : Z) e bs : Prop := {
  ar_priv : exists m, e.(io_priv) = mk_sdup_port None false (Some v) m;
  ar_cfg : e.(io_du).(du_cfg) = Some cfg;
  ar_pci : e.(io_du).(pci_h) = None;
  ar_data : du_buffer e.(io_du) = bs
}.

(** The PCI points at the PDU [pdu], behind [hd]. *)
Record pci_at (cfg : efcp_config) hd pdu e : Prop := {
  pa_mem : skb_mem e.(io_du).(du_skb) = hd ++ pdu;
  pa_h : e.(io_du).(pci_h) = Some (length hd);
  pa_len : 0 < e.(io_du).(pci_len);
  pa_cfg : e.(io_du).(du_cfg) = Some cfg
}.

Lemma decap_encap_ok e hd pdu t cfg :
  at_ e hd pdu t -> e.(io_du).(du_cfg) = Some cfg -> pdu_ok cfg pdu ->
  exists e1 type e2, m_decap e = Some (0, e1) /\ m_pci_type e1 = Some (type, e1) /\
    m_encap type e1 = Some (0, e2) /\ at_ e2 hd pdu t /\ frame e e2 /\
    pci_at cfg hd pdu e1 /\ pci_at cfg hd pdu e2 /\ pci_type cfg pdu = Some type /\
    du_buffer e1.(io_du) = drop (Z.to_nat (pci_calculate_size cfg type)) pdu.
Proof.
  intros Ha Hc (type & Hty & Hok & Hsz & Hlen). destruct (at_data _ _ _ _ Ha) as [Hb Hl].
  destruct Ha as [Hm Hh Ht _]. set (x := io_du e) in *. set (s := du_skb x) in *.
  set (sz := pci_calculate_size cfg type) in *.
  assert (length (skb_mem s) = length hd + length pdu)%nat as Hml by (rewrite Hm, length_app; done).
  destruct (mem_data s) as [_ Hmd]. assert (Z.to_nat sz <= skb_len s)%nat as Hsz' by lia.
  destruct (skb_pull_spec s (Z.to_nat sz) Hsz') as [_ Hhp]. destruct (mem_pull s (Z.to_nat sz) Hsz') as [Hmp Htp].
  set (y := mk_du (Some cfg) (Some (skb_headroom s)) sz (skb_pull s (Z.to_nat sz))).
  assert (du_decap x = Some (0, y)) as Hdec.
  { unfold du_decap. change (du_buffer (set_pci_h x _)) with (du_buffer x). cbn [du_cfg set_pci_h]. rewrite Hc, Hb.
    cbn [mbind option_bind]. rewrite Hty. cbn [mbind option_bind]. rewrite Hok. cbn [negb]. fold sz.
    destruct (Z.leb_spec sz 0); [lia|]. rewrite Hlen. cbn [mbind option_bind].
    change (du_len (set_pci_h x _)) with (du_len x). rewrite Hl, Z.ltb_irrefl. cbn [set_pci_h du_cfg pci_h du_skb]. by rewrite Hc. }
  assert (du_encap y type = Some (0, mk_du (Some cfg) (Some (skb_headroom (skb_push (du_skb y) (Z.to_nat sz)))) sz
            (skb_push (du_skb y) (Z.to_nat sz)))) as Henc.
  { unfold du_encap. cbn [du_cfg du_skb y mbind option_bind]. fold sz. destruct (Z.ltb_spec 0 sz); [|lia].
    by rewrite decide_True by lia. }
  destruct (skb_push_spec (du_skb y) (Z.to_nat sz)) as (_ & _ & Hh2); [cbn [du_skb y]; lia|].
  destruct (mem_push (du_skb y) (Z.to_nat sz)) as [Hm2 Ht2]; [cbn [du_skb y]; lia|].
  eexists _, type, _. split; [unfold m_decap; fold x; rewrite Hdec; reflexivity|]. split.
  { unfold m_pci_type. cbn [io_du set_du pci_h du_cfg y mbind option_bind du_skb]. rewrite Hmp, Hm, Hh, drop_app_length, Hty.
    done. }
  split; [unfold m_encap; cbn [io_du set_du]; rewrite Henc; reflexivity|].
  cbn [du_skb y] in *. split.
  { constructor; cbn [io_du set_du du_skb]; [by rewrite Hm2, Hmp|lia|by rewrite Ht2, Htp|].
    unfold head_ok. cbn [pci_h du_skb]. lia. }
  split; [by constructor; cbn|]. split; [by constructor; cbn; [rewrite Hmp|rewrite Hh|lia|]|].
  split; [constructor; cbn; [by rewrite Hm2, Hmp|f_equal; lia|lia|done]|]. split; [done|].
  unfold du_buffer. cbn [io_du set_du du_skb y]. by rewrite (proj1 (skb_pull_spec s _ Hsz')), <- Hb.
Qed.

Lemma get_lifetime_ok e hd ttl pdu t v m :
  0 < v -> e.(io_priv) = mk_sdup_port None false (Some v) m -> at_ e hd (ttl :: pdu) t ->
  sat sdup_get_lifetime_limit e (fun r e' => r = 0 /\ at_ e' (hd ++ [ttl]) pdu t /\
    e'.(sdup_head) = Some (mk_bufptr e'.(io_gen) (Z.of_nat (length hd))) /\ keeps e e' /\
    e'.(io_du).(du_cfg) = e.(io_du).(du_cfg)).
Proof.
  intros Hv Hp Ha. unfold sdup_get_lifetime_limit, lifetime. eapply sat_run; [reflexivity|]. rewrite Hp. cbn [sp_ttl].
  set (p := mk_bufptr (io_gen e) (Z.of_nat (length hd))).
  set (e1 := mk_io (io_du e) (io_gen e) (Some p) (io_alloc e) (io_rand e) (io_priv e)).
  assert (at_ e1 hd ([ttl] ++ pdu) t) as Ha1 by by destruct Ha.
  destruct (head_shrink_ok e1 hd [ttl] pdu t Ha1) as (e2 & He2 & Ha2 & Hf2).
  eapply (or_fail_sat _ _ _ (fun e' => e' = e2)).
  - unfold default_sdup_get_lifetime_limit_policy. rewrite (proj2 (Z.ltb_lt 0 v)) by done.
    eapply sat_run; [by eapply buffer_run|]. fold p. eapply (sat_run _ _ _ tt e1); [done|].
    eapply or_fail_run; [exact He2|]. by apply sat_ret.
  - intros e' ->. apply sat_ret. destruct Hf2 as [Hg Hal Hpr Hhd Hc]. cbn in *. split_and!; try done; by rewrite Hg.
Qed.

Lemma dec_check_ok e hd ttl pdu t v m :
  0 < v -> e.(io_priv) = mk_sdup_port None false (Some v) m -> at_ e (hd ++ [ttl]) pdu t ->
  e.(sdup_head) = Some (mk_bufptr e.(io_gen) (Z.of_nat (length hd))) ->
  sat sdup_dec_check_lifetime_limit e (fun r e' => if u8 (ttl - 1) =? 0 then r = -1
    else r = 0 /\ at_ e' hd (u8 (ttl - 1) :: pdu) t /\ e'.(sdup_head) <> None /\ frame e e' /\ same_pci e e').
Proof.
  intros Hv Hp Ha Hh. unfold sdup_dec_check_lifetime_limit, lifetime. eapply sat_run; [reflexivity|]. rewrite Hp. cbn [sp_ttl].
  set (p := mk_bufptr (io_gen e) (Z.of_nat (length hd))) in *.
  assert (byte_at p e = Some (ttl, e)) as Hb.
  { unfold byte_at, mthen. by rewrite (load_ok e (hd ++ [ttl]) pdu _ hd [ttl] pdu 1 p Ha) by (done || by rewrite <- (assoc_L (++))). }
  eapply (sat_bind _ _ _ (fun r e' => if u8 (ttl - 1) =? 0 then r = -1
    else r = 0 /\ at_ e' hd (u8 (ttl - 1) :: pdu) t /\ e'.(sdup_head) <> None /\ frame e e' /\ same_pci e e')).
  - unfold default_sdup_dec_check_lifetime_limit_policy. rewrite (proj2 (Z.ltb_lt 0 v)) by done.
    eapply sat_run; [reflexivity|]. rewrite Hh. eapply sat_run; [exact Hb|].
    destruct (u8 (ttl - 1) =? 0); [by apply sat_ret|].
    rewrite <- (app_nil_r [ttl]) in Ha.
    destruct (store_head_ok e hd [ttl] [] pdu t [u8 (ttl - 1)] p Ha) as (e1 & He1 & Ha1 & Hf1); [done|done|].
    eapply sat_run; [exact He1|]. rewrite app_nil_r in Ha1.
    destruct (head_grow_ok e1 hd [u8 (ttl - 1)] pdu t Ha1) as (e2 & He2 & Ha2 & Hf2).
    eapply sat_run; [exact He2|]. apply sat_ret. split; [done|]. split; [exact Ha2|].
    split; [by rewrite (fr_head _ _ Hf2), (fr_head _ _ Hf1), Hh|]. split; [by eapply frame_trans|].
    eapply same_pci_trans; [by eapply store_pci|]. eapply head_grow_pci; [|exact He2].
    rewrite (at_head _ _ _ _ Ha1), length_app. cbn. lia.
  - intros r e' Hr. destruct (u8 (ttl - 1) =? 0); [subst r; by apply sat_ret|]. destruct Hr as (-> & Ha' & Hs). by apply sat_ret.
Qed.

(** One relay: the lifetime is decremented, as an unsigned byte; the PDU is not changed. *)
Lemma relay_step cfg v e ttl pdu :
  0 < v -> arrives cfg v e (ttl :: pdu) -> pdu_ok cfg pdu ->
  sat rmt_relay e (fun r e' =>
    if u8 (ttl - 1) =? 0 then r = -1
    else r = 0 /\ du_buffer e'.(io_du) = u8 (ttl - 1) :: pdu /\ e'.(sdup_head) <> None).
Proof.
  intros Hv [[m Hp] Hc Hn Hd] Hok. destruct (at_intro e) as [hd Ha]; [unfold head_ok; by rewrite Hn|]. rewrite Hd in Ha.
  unfold rmt_relay, sdup_unprotect_pdu. eapply or_fail_run.
  { rewrite (mthen_some _ _ _ (io_priv e) e) by done. rewrite Hp. reflexivity. }
  eapply or_fail_sat; [by eapply get_lifetime_ok|]. intros e2 (Ha2 & Hh2 & [_ Hp2] & Hc2).
  destruct (decap_encap_ok e2 (hd ++ [ttl]) pdu _ cfg Ha2) as (e3 & type & e4 & He3 & Hty & He4 & Ha4 & Hf4 & _);
    [by rewrite Hc2|done|].
  eapply or_fail_run; [exact He3|]. eapply sat_run; [exact Hty|]. eapply or_fail_run; [exact He4|].
  eapply sat_bind.
  { eapply dec_check_ok; [done|by rewrite (fr_priv _ _ Hf4), Hp2|done|by rewrite (fr_head _ _ Hf4), Hh2, (fr_gen _ _ Hf4)]. }
  intros r e' Hr. cbn beta in Hr. destruct (u8 (ttl - 1) =? 0); [subst r; by apply sat_ret|]. destruct Hr as (-> & Ha' & Hs & _).
  apply sat_ret. split; [done|]. split; [apply (at_data _ _ _ _ Ha')|done].
Qed.

(** A PDU that is relayed [n] times, by ports with a lifetime limit: what one relay sends is what
    the next one receives. *)
Inductive relayed (cfg : efcp_config) : list Z -> nat -> list Z -> Prop :=
| relayed_none bs : relayed cfg bs 0 bs
| relayed_more bs n bs1 v e e' :
    relayed cfg bs n bs1 -> 0 < v -> arrives cfg v e bs1 -> rmt_relay e = Some (0, e') ->
    relayed cfg bs (Datatypes.S n) (du_buffer e'.(io_du)).

(** A PDU sent with lifetime [ttl] is relayed fewer than [ttl] times, whatever its way: after
    [n] relays it carries [ttl - n] and is otherwise unchanged. *)
Theorem ttl_bounds_relays cfg ttl pdu n bs :
  1 <= ttl < 256 -> pdu_ok cfg pdu -> relayed cfg (ttl :: pdu) n bs ->
  Z.of_nat n < ttl /\ bs = (ttl - Z.of_nat n) :: pdu.
Proof.
  intros Ht Hok Hr. remember (ttl :: pdu) as b0 eqn:E. induction Hr as [|b0 n bs1 v e e' Hr IH Hv Ha He].
  { subst bs. rewrite Z.sub_0_r. split; [lia|done]. }
  destruct (IH E) as [Hn ->]. destruct (relay_step cfg v e (ttl - Z.of_nat n) pdu Hv Ha Hok) as (r & e2 & He2 & Hq).
  rewrite He in He2. injection He2 as <- <-. rewrite uwrap_small in Hq by (unfold in_u; lia).
  destruct (Z.eqb_spec (ttl - Z.of_nat n - 1) 0); [done|]. destruct Hq as (_ & Hb & _).
  split; [lia|]. rewrite Hb. f_equal. lia.
Qed.

(** A lifetime of 0 on the wire is taken for 256. *)
Lemma ttl_zero_wraps cfg v e pdu :
  0 < v -> arrives cfg v e (0 :: pdu) -> pdu_ok cfg pdu ->
  exists e', rmt_relay e = Some (0, e') /\ du_buffer e'.(io_du) = 255 :: pdu.
Proof.
  intros Hv Ha Hok. destruct (relay_step cfg v e 0 pdu Hv Ha Hok) as (r & e' & He & Hr). change (u8 (0 - 1)) with 255 in Hr.
  destruct Hr as (-> & Hb & _). eauto.
Qed.

(** ** Growing the buffer under a pointer *)

Lemma tail_grow_moves e n :
  (skb_tailroom e.(io_du).(du_skb) < n)%nat -> e.(io_alloc) = [] ->
  exists e', m_tail_grow n e = Some (0, e') /\ e'.(io_gen) = Datatypes.S e.(io_gen).
Proof.
  intros Hn Ho. unfold m_tail_grow, du_tail_grow. rewrite bool_decide_true, decide_True, Ho by done. cbn [rkmalloc negb].
  by eexists.
Qed.

Lemma stale_load e p n : p.(b_gen) <> e.(io_gen) -> m_load p n e = None.
Proof. intros Hg. unfold m_load, accessible. by rewrite bool_decide_false by done. Qed.
Lemma stale_store e p bs : p.(b_gen) <> e.(io_gen) -> m_store p bs e = None.
Proof. intros Hg. unfold m_store, accessible. by rewrite bool_decide_false by done. Qed.

(** C40: when the tail room does not suffice, the authentication code and the error check are
    computed from, or written to, the buffer that growing the tail has released. *)
Theorem sdup_writes_released e hd bs t :
  at_ e hd bs t -> e.(io_alloc) = [] ->
  (forall d h, e.(io_priv).(sp_crypto) = Some d -> d.(current_tx_state).(cs_shash) = Some h ->
     (skb_tailroom e.(io_du).(du_skb) < digestsize h)%nat -> add_hmac e = None) /\
  ((skb_tailroom e.(io_du).(du_skb) < 4)%nat -> default_sdup_add_error_check_policy e = None).
Proof.
  intros Ha Ho. split.
  - intros d h Hd Hh Ht. unfold add_hmac, with_crypto. rewrite (mthen_some _ _ _ (io_priv e) e) by done. rewrite Hd, Hh.
    erewrite mthen_some by (by eapply len_run). erewrite mthen_some by (by eapply buffer_run).
    destruct (tail_grow_moves e (digestsize h)) as (e' & He' & Hg); [done|done|].
    unfold or_fail. rewrite (mthen_some _ _ _ _ _ He'). cbn [Z.eqb negb]. unfold mthen. rewrite stale_load; [done|]. cbn. lia.
  - intros Ht. unfold default_sdup_add_error_check_policy.
    erewrite mthen_some by (by eapply buffer_run). erewrite mthen_some by (by eapply len_run).
    erewrite mthen_some by (apply (load_ok e hd bs t hd bs []); [done|by rewrite app_nil_r|done|done]).
    destruct (tail_grow_moves e 4) as (e' & He' & Hg); [done|done|].
    unfold or_fail. rewrite (mthen_some _ _ _ _ _ He'). cbn [Z.eqb negb]. unfold mthen. rewrite stale_store; [done|]. cbn. lia.
Qed.

(** ** Short and badly padded PDUs *)

(** A PDU shorter than the error check: the length of the data wraps around. *)
Lemma check_error_check_short e hd bs t :
  at_ e hd bs t -> (length bs < 4)%nat -> Z.of_nat (length hd) < 2 ^ 63 ->
  default_sdup_check_error_check_policy e = None.
Proof.
  intros Ha Hl Hh. unfold default_sdup_check_error_check_policy.
  erewrite mthen_some by (by eapply buffer_run). erewrite mthen_some by (by eapply len_run).
  unfold mthen, m_load, accessible. cbn [b_gen b_pos]. rewrite (at_mem _ _ _ _ Ha), length_app.
  replace (uwrap 64 (Z.of_nat (length bs) - 4)) with (Z.of_nat (length bs) - 4 + 2 ^ 64).
  2:{ unfold uwrap. rewrite <- (Z.mod_add _ 1) by done. rewrite Z.mod_small; lia. }
  match goal with |- context [?a + ?b <=? ?c] => destruct (Z.leb_spec (a + b) c) end; [lia|by rewrite andb_false_r].
Qed.

(** Padding that says 0, or a byte above 127, which is a negative [char]: nothing is checked and
    nothing is removed. *)
Lemma remove_padding_unchecked e hd bs b t d c :
  e.(io_priv).(sp_crypto) = Some d -> d.(current_rx_state).(cs_cipher) = Some c ->
  at_ e hd (bs ++ [b]) t -> b = 0 \/ 128 <= b < 256 -> Z.of_nat (length bs) + 256 < 2 ^ 32 ->
  sat remove_padding e (fun r e' => r = 0 /\ du_buffer e'.(io_du) = bs ++ [b]).
Proof.
  intros Hd Hc Ha Hb Hl. unfold remove_padding. eapply with_crypto_run; [done|]. rewrite Hc.
  eapply sat_run; [by eapply buffer_run|]. eapply sat_run; [by eapply len_run|].
  eapply sat_run. { apply (byte_at_ok e hd bs b [] t); [exact Ha|rewrite length_app; cbn; lia]. }
  assert (-128 <= schar b <= 0) as Hs by (unfold schar; destruct (Z.ltb_spec b 128); lia).
  replace (Z.to_nat (schar b)) with 0%nat by lia. eapply sat_run; [reflexivity|]. cbn [negb].
  destruct (at_data _ _ _ _ Ha) as [Hbuf Hlen]. rewrite length_app in Hlen. cbn in Hlen.
  assert (exists e', m_tail_shrink (schar b) e = Some (0, e') /\ du_buffer (io_du e') = bs ++ [b]) as (e' & He' & Hb').
  { unfold m_tail_shrink, du_tail_shrink. eexists. split; [reflexivity|]. unfold du_buffer. cbn [io_du set_du set_skb du_skb].
    rewrite (proj1 (skb_trim_spec _ _)). fold (du_buffer (io_du e)). rewrite Hbuf. apply take_ge.
    rewrite Hlen, uwrap_small by (unfold in_u; lia). rewrite length_app. cbn. lia. }
  eapply or_fail_run; [exact He'|]. by apply sat_ret.
Qed.
End Ttl.
