(* ===== verification/SdupExamples.v ===== *)
(** * SDU protection on concrete PDUs

    A toy instance of the crypto interface, which satisfies its laws, and with it instances
    of the theorems of [SdupLaws.v] and [SdupTtl.v]. *)

From S2P Require Import Prelude Kucommon Pci Skb Du SdupMem SdupReplay Sdup SdupLaws SdupTtl.
From Stdlib Require Import ZArith Lia.
From stdpp Require Import base list numbers option.
#[local] Open Scope Z_scope.

(** A cipher that combines each byte with a key, a digest that adds up the bytes, a compression
    that only marks what it was given. *)
Definition toy_sum (key : Z) (bs : list Z) : Z := foldr Z.add key bs mod 256.

#[export] Instance toy_crypto : KernelCrypto := {|
  cipher := Z;
  shash := Z;
  comp := unit;
  blocksize _ := 16%nat;
  ivsize _ := 16%nat;
  cipher_encrypt key iv bs := Some (Z.lxor key <$> bs);
  cipher_decrypt key iv bs := Some (Z.lxor key <$> bs);
  digestsize key := if key =? 90 then 16%nat else 32%nat;
  shash_digest key bs := Some (repeat (toy_sum key bs) (if key =? 90 then 16%nat else 32%nat));
  comp_compress _ room bs := if Z.of_nat (length bs) <? room then Some (77 :: bs) else None;
  comp_decompress _ max cs := if Z.of_nat (length cs) - 1 <=? max then Some (tail cs) else None;
  crc32_le seed bs := u32 (seed + foldr Z.add 0 bs)
|}.

#[export] Instance toy_crypto_laws : KernelCryptoLaws.
Proof.
  constructor; cbn.
  - intros _. lia.
  - intros key iv bs _ _. eexists. split; [reflexivity|]. split; [apply length_fmap|]. f_equal.
    rewrite <- list_fmap_compose. rewrite <- (list_fmap_id bs) at 2. apply list_fmap_ext. intros i b _. cbn.
    by rewrite <- Z.lxor_assoc, Z.lxor_nilpotent, Z.lxor_0_l.
  - intros h bs. eexists. split; [reflexivity|]. by rewrite repeat_length.
  - intros _ room bs cs max. destruct (Z.of_nat (length bs) <? room); [|done]. intros [= <-] Hm. cbn [length tail].
    destruct (Z.leb_spec (Z.of_nat (Datatypes.S (length bs)) - 1) max); [done|lia].
Qed.

Definition ex_state : crypto_state := mk_crypto_state (Some 165) (Some 90) (Some tt) 2000.
Definition ex_data (seq win : Z) : crypto_data :=
  mk_crypto_data ex_state ex_state crypto_state_create crypto_state_create seq (replay_create win).
Definition ex_port (seq win : Z) : sdup_port := mk_sdup_port (Some (ex_data seq win)) true None 1500.
Definition ex_du (hroom troom : nat) (bs : list Z) : du lskb := mk_du None None 0 (mk_lskb (repeat 0 hroom) bs (repeat 0 troom)).
Definition ex_io (p : sdup_port) (x : du lskb) : io lskb sdup_port := mk_io x 0 None [] [3; 1; 4; 1; 5] p.

(** What is sent for the PDU [1; 2; 3] with sequence number 7. *)
Definition ex_sent : option (list Z) :=
  match sdup_protect_pdu (ex_io (ex_port 7 12) (ex_du 200 60 [1; 2; 3])) with
  | Some (_, e) => Some (du_buffer e.(io_du))
  | None => None
  end.
Example ex_sent_length : length <$> ex_sent = Some 52%nat.
Proof. vm_compute. reflexivity. Qed.

Definition ex_received : io lskb sdup_port := ex_io (ex_port 0 12) (ex_du 0 0 (default [] ex_sent)).

Definition ex_sender : io lskb sdup_port := ex_io (ex_port 7 12) (ex_du 200 60 [1; 2; 3]).

Lemma ex_takes : takes (ex_data 0 12) 7.
Proof.
  right. destruct (check_seq_num (window (ex_data 0 12)) (u32 7)) as [[v w]|] eqn:E.
  - exists w. assert (v = 0) as ->; [|done]. apply (f_equal (fmap fst)) in E. vm_compute in E. congruence.
  - exfalso. apply (f_equal (fmap fst)) in E. vm_compute in E. congruence.
Qed.

Lemma ex_protectable :
  let x := ex_sender.(io_du) in
  protectable ex_sender.(io_priv) (skb_headroom x.(du_skb)) (skb_tailroom x.(du_skb)) (du_buffer x).
Proof.
  split; [vm_compute; reflexivity|]. exists [77; 1; 2; 3].
  split; [vm_compute; reflexivity|]. split; [vm_compute; lia|]. split; [vm_compute; lia|]. vm_compute. reflexivity.
Qed.

Lemma ex_agree : ends_agree (ex_port 7 12) (ex_port 0 12).
Proof. split; [reflexivity|]. split; [by repeat split|exact ex_takes]. Qed.

Lemma ex_sent_of e' : sdup_protect_pdu ex_sender = Some (0, e') -> ex_sent = Some (du_buffer e'.(io_du)) /\ du_len e'.(io_du) < 2 ^ 31.
Proof.
  intros He. assert (ex_sent = Some (du_buffer (io_du e'))) as Hs by (unfold ex_sent; fold ex_sender; by rewrite He).
  split; [done|]. pose proof ex_sent_length as Hl. rewrite Hs in Hl. apply (inj Some) in Hl.
  unfold du_len. change (skb_len (du_skb (io_du e'))) with (length (du_buffer (io_du e'))). rewrite Hl. lia.
Qed.

Lemma sdup_roundtrip_witness :
  exists r', sdup_unprotect_pdu ex_received = Some (0, r') /\ du_buffer r'.(io_du) = [1; 2; 3].
Proof.
  destruct (sdup_roundtrip ex_sender ex_received I eq_refl ex_protectable ex_agree eq_refl I) as (e' & He & Hr).
  - unfold Z.le. vm_compute. discriminate.
  - destruct (ex_sent_of e' He) as [Hs Hl]. apply Hr; [|exact Hl].
    unfold ex_received. rewrite Hs. reflexivity.
Defined.

(** ** Lifetime *)

Definition ex_cfg : efcp_config := config_of example_dt_cons.
Definition ex_pdu : list Z :=
  match pci_format ex_cfg (repeat 0 30) 1 2 22 23 2533 1 0 30 PDU_TYPE_MGMT with Some (_, h) => h | None => [] end.
Definition ex_arrived : io lskb sdup_port :=
  mk_io (mk_du (Some ex_cfg) None 0 (mk_lskb [] (64 :: ex_pdu) [])) 0 None [] [] (mk_sdup_port None false (Some 64) 1500).

Lemma ex_pdu_ok : pdu_ok ex_cfg ex_pdu.
Proof.
  exists PDU_TYPE_MGMT. split; [vm_compute; reflexivity|]. split; [reflexivity|].
  split; [vm_compute; split; congruence|]. vm_compute. reflexivity.
Qed.

Lemma ttl_bounds_relays_witness :
  exists e', rmt_relay ex_arrived = Some (0, e') /\ du_buffer e'.(io_du) = (64 - Z.of_nat 1) :: ex_pdu.
Proof.
  assert (arrives ex_cfg 64 ex_arrived (64 :: ex_pdu)) as Ha by (constructor; try reflexivity; by eexists).
  destruct (rmt_relay ex_arrived) as [[r e']|] eqn:E; [|exfalso].
  - assert (r = 0) as -> by (apply (f_equal (fmap fst)) in E; vm_compute in E; congruence). exists e'. split; [reflexivity|].
    apply (ttl_bounds_relays ex_cfg 64 ex_pdu 1); [lia|apply ex_pdu_ok|].
    apply (relayed_more _ _ 0 (64 :: ex_pdu) 64 ex_arrived e'); [constructor|lia|exact Ha|exact E].
  - apply (f_equal (fmap fst)) in E. vm_compute in E. congruence.
Defined.

(** ** Released buffers *)

(** The tail room that [du_create] leaves (20 bytes) is too short for an authentication code of
    32 bytes, the size of SHA-256. *)
Definition sha_data : crypto_data :=
  mk_crypto_data ex_state (mk_crypto_state (Some 165) (Some 91) None 0) crypto_state_create crypto_state_create 0 (replay_create 12).
Definition ex_short : io lskb sdup_port :=
  ex_io (mk_sdup_port (Some sha_data) true None 1500) (ex_du MAX_PCIS_LEN MAX_TAIL_LEN [1; 2; 3]).

Lemma sdup_writes_released_witness : add_hmac ex_short = None.
Proof.
  assert (at_ ex_short (repeat 0 MAX_PCIS_LEN) [1; 2; 3] MAX_TAIL_LEN) as Ha by (constructor; vm_compute; done).
  destruct (sdup_writes_released ex_short (repeat 0 MAX_PCIS_LEN) [1; 2; 3] MAX_TAIL_LEN Ha eq_refl) as [H1 _].
  apply (H1 sha_data 91); [reflexivity|reflexivity|vm_compute; lia].
Defined.

(** ** Copies of a data unit

    [du_dup] copies the structure and shares the bytes; what the copy reads after the original was
    protected, when the buffer is still the same. *)

Definition copy_reads (before after : io lskb sdup_port) : option (list Z) :=
  let s := before.(io_du).(du_skb) in
  if bool_decide (after.(io_gen) = before.(io_gen))
  then Some (take (skb_len s) (drop (skb_headroom s) (skb_mem after.(io_du).(du_skb)))) else None.

Definition cipher_data : crypto_data :=
  mk_crypto_data ex_state (mk_crypto_state (Some 165) None None 0) crypto_state_create crypto_state_create 0 (replay_create 12).
Definition ex_kept : io lskb sdup_port :=
  ex_io (mk_sdup_port (Some cipher_data) false None 1500) (ex_du MAX_PCIS_LEN MAX_TAIL_LEN [1; 2; 3]).

(** With the room that [du_create] leaves, encryption happens in place: a copy kept for
    retransmission, or for another port, reads the ciphertext. *)
Example copy_encrypted :
  (match sdup_protect_pdu ex_kept with Some (_, e) => copy_reads ex_kept e | None => None end) = Some [164; 167; 166].
Proof. vm_compute. reflexivity. Qed.
