(* ===== verification/RmtFwd.v ===== *)
(** * Relaying PDUs

    What the RMT does with the bytes of a PDU: [rmt_receive], [rmt_send] and [n1_port_write]
    ([src/kernel/rmt.c]), with the SDU protection of [Sdup.v], the headers of [Pci.v] and the
    forwarding table of [Pff.v], and a network of nodes that relay each other's PDUs.

    - A computation works on one data unit ([SdupMem.v]); its private data is the SDU
      protection of the port.  It has no result when it touches memory it may not touch.
    - [rmt_receive] ends by handing the data unit to the management agent or to the EFCP
      container, by dropping it, or by sending it on: [rx].  Counters and references of the ports
      are in [Rmt.v].
    - A PDU that a port takes is written in the end ([RmtWake.v]); the ports of this file
      write at once.  What a write delivers is received as it was written, in a buffer [rx_skb]
      of the N-1 IPC process.
    - A copy made by [du_dup] shares the bytes with the original.  The theorems are about ports
      with a lifetime limit only, which write nothing behind the first byte of a relayed
      PDU; the sharing is not visible there.
    - [junk] is what the memory of a copy held where its [sdup_head] is: [du_dup] does not set it. *)

From S2P Require Import Prelude Kucommon Config Pci Skb Du Rds Queues EfcpState PduRefine Pff SdupMem SdupReplay Sdup.
From S2P Require Import SdupLaws SdupTtl.
From Stdlib Require Import ZArith Lia.
From stdpp Require Import base list numbers option gmap sets.
#[local] Open Scope Z_scope.
#[local] Open Scope sdup_scope.

Definition is_port_id_ok (id : Z) : bool := 0 <=? id.
Definition is_cep_id_ok (id : Z) : bool := 0 <=? id.

(** What becomes of a received data unit; [RxLeak] is the return without destroying it. *)
Inductive rx := RxDrop | RxLeak | RxMgmt | RxEfcp (cep : Z) | RxForward.

Definition pdu_is_addressed_to_me (addrs : list Z) (address : Z) : bool := existsb (fun a => a =? address) addrs.

Definition rmt_address_add (addrs : list Z) (address : Z) (o : oracle) : Z * list Z * oracle :=
  let '(ok, o) := rkmalloc o in
  if negb ok then (-1, addrs, o) else (0, address :: addrs, o).

(** The first entry of the list with this address. *)
Definition rmt_address_remove (addrs : list Z) (address : Z) : Z * list Z :=
  if existsb (fun a => a =? address) addrs then (0, remove_first (fun a => a =? address) addrs) else (-1, addrs).

Lemma addressed_spec l a : pdu_is_addressed_to_me l a = bool_decide (a ∈ l).
Proof.
  unfold pdu_is_addressed_to_me. induction l as [|b l IH]; [done|]. cbn [existsb]. rewrite IH.
  destruct (Z.eqb_spec b a) as [->|Hne]; cbn [orb].
  - symmetry. apply bool_decide_true. set_solver.
  - apply bool_decide_ext. set_solver.
Qed.

(** An address is the node's own from its addition to its removal, if it was not there before. *)
Lemma address_add_remove l a o l' o' b :
  pdu_is_addressed_to_me l a = false -> rmt_address_add l a o = (0, l', o') ->
  pdu_is_addressed_to_me l' b = (a =? b) || pdu_is_addressed_to_me l b /\ rmt_address_remove l' a = (0, l).
Proof.
  intros Ha. unfold rmt_address_add. destruct (rkmalloc o) as [[] o1]; cbn [negb]; [|done]. intros [= <- <-].
  split; [done|]. unfold rmt_address_remove. cbn [existsb remove_first]. by rewrite Z.eqb_refl.
Qed.

Section Fwd.
Context {S : Type} `{SkBuffLaws S} `{!SkBuffMem S} `{!SkBuffMemLaws S} `{KC : KernelCrypto}.
Implicit Types (e : io S sdup_port) (hd bs pdu : list Z).

Abbreviation SM := (M S sdup_port).

(** The part of [struct rmt] that forwarding uses: its addresses, the private data of the
    policy set of the PFF, the cache of next hops, and the SDU protection of its N-1 ports. *)
Record rmt_node := mk_rmt_node {
  addresses : list Z;
  r_pff : option (list pft_entry);
  cache : list Z;
  n1_sdup : Z -> option sdup_port
}.

Implicit Types R : rmt_node.

(** A getter of the PCI, which reads where [pci->h] points to. *)
Definition m_attr (a : pci_attr) : SM Z := fun e =>
  p ← e.(io_du).(pci_h); cfg ← e.(io_du).(du_cfg);
  v ← attr_get cfg a (drop p (skb_mem e.(io_du).(du_skb))); Some (v, e).

Definition m_set_cfg (cfg : efcp_config) : SM unit := fun e =>
  let x := e.(io_du) in Some (tt, set_du (mk_du (Some cfg) x.(pci_h) x.(pci_len) x.(du_skb)) e.(io_gen) e.(io_alloc) e).

(** [if (m) { ...; return err; }]. *)
Definition or_else {A} (m : SM Z) (err : A) (k : SM A) : SM A := r <- m;; if negb (r =? 0) then m_ret err else k.

Definition m_pci_is_ok : SM bool := fun e =>
  match e.(io_du).(pci_h) with
  | None => Some (false, e)
  | Some _ =>
      if 0 <? e.(io_du).(pci_len) then (type <- m_attr A_TYPE;; m_ret (pdu_type_is_ok type)) e
      else Some (false, e)
  end.

(** ** Reception *)

Definition process_dt_pdu : SM rx :=
  dst_addr <- m_attr A_DESTINATION;;
  if negb (is_address_ok dst_addr) then m_ret RxDrop
  else
    pdu_type <- m_attr A_TYPE;;
    if pdu_type =? PDU_TYPE_MGMT then m_ret RxDrop
    else
      c <- m_attr A_CEP_DESTINATION;;
      if negb (is_cep_id_ok c) then m_ret RxDrop else m_ret (RxEfcp c).

(** The types of PDU of the [switch] that go to the EFCP container. *)
Definition is_efcp_type (t : Z) : bool :=
  (t =? PDU_TYPE_CACK) || (t =? PDU_TYPE_SACK) || (t =? PDU_TYPE_NACK) || (t =? PDU_TYPE_FC) || (t =? PDU_TYPE_ACK) ||
  (t =? PDU_TYPE_ACK_AND_FC) || (t =? PDU_TYPE_RENDEZVOUS) || (t =? PDU_TYPE_DT).

(** [rmt_receive] once the port is found; [cfg] is the configuration of the EFCP container. *)
Definition rmt_receive (cfg : efcp_config) (addrs : list Z) : SM rx :=
  m_set_cfg cfg;;
  or_else sdup_unprotect_pdu RxDrop (or_else sdup_get_lifetime_limit RxDrop (or_else m_decap RxDrop (
    pdu_type <- m_attr A_TYPE;;
    dst_addr <- m_attr A_DESTINATION;;
    qos_id <- m_attr A_QOS_ID;;
    if negb (pdu_type_is_ok pdu_type) || negb (is_address_ok dst_addr) || negb (is_qos_id_ok qos_id)
    then m_ret RxDrop
    else if pdu_is_addressed_to_me addrs dst_addr then
      if pdu_type =? PDU_TYPE_MGMT then m_ret RxMgmt
      else if is_efcp_type pdu_type then process_dt_pdu
      else m_ret RxDrop
    else if dst_addr =? 0 then m_ret RxMgmt
    else
      or_else (m_encap pdu_type) RxLeak
        (or_else sdup_dec_check_lifetime_limit RxDrop (m_ret RxForward))))).

(** ** Sending *)

(** The fields of the PCI that the PFF reads. *)
Definition hop_pci (dst q : Z) : EfcpState.pdu :=
  mk_pdu (fun a => match a with A_DESTINATION => dst | A_QOS_ID => q | _ => 0 end) [].

Definition set_alloc (o : oracle) e : io S sdup_port := set_du e.(io_du) e.(io_gen) o e.
Definition set_port (p : sdup_port) e : io S sdup_port :=
  mk_io e.(io_du) e.(io_gen) e.(sdup_head) e.(io_alloc) e.(io_rand) p.

(** The loop of [rmt_send]: the last port gets the data unit, the others a copy, or the null
    pointer. *)
Fixpoint fan_out (junk : option bufptr) (pids : list Z) e : list (Z * option (io S sdup_port)) :=
  match pids with
  | [] => []
  | [pid] => [(pid, Some e)]
  | pid :: pids' =>
      let '(c, o) := du_dup_gfp e.(io_du) e.(io_alloc) in
      (pid, match c with Some x => Some (mk_io x e.(io_gen) junk o e.(io_rand) e.(io_priv)) | None => None end)
        :: fan_out junk pids' (set_alloc o e)
  end.

(** The result, the cache, and what [rmt_send_port_id] is called with. *)
Definition rmt_send R (junk : option bufptr) e : option (Z * list Z * list (Z * option (io S sdup_port))) :=
  '(ok, e) ← m_pci_is_ok e;
  if negb (ok : bool) then Some (-1, R.(cache), [])
  else
    '(dst, e) ← m_attr A_DESTINATION e;
    '(q, e) ← m_attr A_QOS_ID e;
    let '(r, pids, o) := default_nhop R.(r_pff) (hop_pci dst q) R.(cache) e.(io_alloc) in
    if negb (r =? 0) then Some (-1, pids, [])
    else Some (0, pids, fan_out junk pids (set_alloc o e)).

(** [n1_port_write], until the write of the N-1 IPC process. *)
Definition n1_port_write : SM Z := or_fail sdup_set_lifetime_limit (or_fail sdup_protect_pdu (m_ret 0)).

(** What comes of one call of [rmt_send_port_id]: the bytes that are written, or nothing - the port
    is not there, the policy set refuses the null pointer, or SDU protection fails. *)
Definition rmt_send_port_id R (c : Z * option (io S sdup_port)) : option (option (list Z)) :=
  match n1_sdup R c.1, c.2 with
  | Some sp, Some e =>
      '(r, e) ← n1_port_write (set_port sp e);
      Some (if r =? 0 then Some (du_buffer e.(io_du)) else None)
  | _, _ => Some None
  end.

(** ** A network *)

(** How the way of a PDU, or of a copy, ends.  [Fault]: memory is touched that may not be;
    [Travelling]: it has not ended after the number of hops looked at. *)
Inductive outcome :=
| Delivered (n cep : Z) (sdu : list Z)
| Management (n : Z)
| Dropped (n : Z)
| Unlinked (n port : Z)
| Fault (n : Z)
| Travelling.

Section Network.
Context (nodes : Z -> rmt_node) (link : Z -> Z -> option (Z * Z)) (cfg : efcp_config) (junk : option bufptr)
  (rx_skb : list Z -> S).

(** [du_create_from_skb], with memory. *)
Definition du_create_from_skb (s : S) (sp : sdup_port) : io S sdup_port :=
  mk_io (mk_du None None 0 s) 0 None [] [] sp.

(** The copies of [rmt_send] at node [n], each to the end of its way; [rcv] is reception at the
    other end of a link. *)
Definition send_copy (rcv : Z -> Z -> list Z -> list outcome) (n : Z) (c : Z * option (io S sdup_port)) : list outcome :=
  match rmt_send_port_id (nodes n) c with
  | None => [Fault n]
  | Some None => [Dropped n]
  | Some (Some bs) => match link n c.1 with None => [Unlinked n c.1] | Some (n', p') => rcv n' p' bs end
  end.

Definition send_from (rcv : Z -> Z -> list Z -> list outcome) (n : Z) e : list outcome :=
  match rmt_send (nodes n) junk e with
  | None => [Fault n]
  | Some (_, _, []) => [Dropped n]
  | Some (_, _, out) => flat_map (send_copy rcv n) out
  end.

(** Reception of [bs] on port [from] of node [n], and what follows. *)
Fixpoint travel (fuel : nat) (n from : Z) bs : list outcome :=
  match fuel with
  | O => [Travelling]
  | Datatypes.S fuel =>
      match (if is_port_id_ok from then n1_sdup (nodes n) from else None) with
      | None => [Dropped n]
      | Some sp =>
          match rmt_receive cfg (addresses (nodes n)) (du_create_from_skb (rx_skb bs) sp) with
          | None => [Fault n]
          | Some (RxDrop, _) | Some (RxLeak, _) => [Dropped n]
          | Some (RxMgmt, _) => [Management n]
          | Some (RxEfcp c, e) => [Delivered n c (du_buffer e.(io_du))]
          | Some (RxForward, e) => send_from (travel fuel) n e
          end
      end
  end.
End Network.

(** ** Specification

    The same on headers: a PDU is its attributes and its remaining lifetime, and the
    forwarding tables are finite maps. *)

Section Spec.
Context (nodes : Z -> rmt_node) (link : Z -> Z -> option (Z * Z)) (routes : Z -> fmap_t)
  (p : EfcpState.pdu) (sdu : list Z).

Definition bound (n port : Z) : bool := bool_decide (is_Some (n1_sdup (nodes n) port)).

Definition next_hops (n : Z) : list Z := default [] (spec_route (routes n) (p.(attr) A_DESTINATION) (p.(attr) A_QOS_ID)).

Definition local_outcome (n : Z) : outcome :=
  let cep := p.(attr) A_CEP_DESTINATION in
  if pdu_type p =? PDU_TYPE_MGMT then Management n
  else if is_efcp_type (pdu_type p) && is_cep_id_ok cep then Delivered n cep sdu
  else Dropped n.

Definition spec_copy (rcv : Z -> Z -> Z -> list outcome) (n ttl pid : Z) : list outcome :=
  if negb (bound n pid) then [Dropped n]
  else match link n pid with None => [Unlinked n pid] | Some (n', p') => rcv n' p' ttl end.

Fixpoint spec_travel (fuel : nat) (n from ttl : Z) : list outcome :=
  match fuel with
  | O => [Travelling]
  | Datatypes.S fuel =>
      let dst := p.(attr) A_DESTINATION in
      if negb (is_port_id_ok from && bound n from) then [Dropped n]
      else if negb (is_address_ok dst) || negb (is_qos_id_ok (p.(attr) A_QOS_ID)) then [Dropped n]
      else if bool_decide (dst ∈ addresses (nodes n)) then [local_outcome n]
      else if dst =? 0 then [Management n]
      else if ttl =? 1 then [Dropped n]
      else match next_hops n with
           | [] => [Dropped n]
           | l => flat_map (spec_copy (spec_travel fuel) n (ttl - 1)) l
           end
  end.
End Spec.

(** ** Lemmas *)

(** Lifetime limit only; the initial lifetime is a byte. *)
Definition ttl_only (sp : sdup_port) : Prop := exists v m, 0 < v < 256 /\ sp = mk_sdup_port None false (Some v) m.

Lemma or_else_run {A} (m : SM Z) (err : A) (k : SM A) e e' Q : m e = Some (0, e') -> sat k e' Q -> sat (or_else m err k) e Q.
Proof. intros Hm Hk. by eapply sat_run. Qed.

Lemma or_else_sat {A} (m : SM Z) (err : A) (k : SM A) e Q P :
  sat m e (fun r e' => r = 0 /\ P e') -> (forall e', P e' -> sat k e' Q) -> sat (or_else m err k) e Q.
Proof. intros Hm Hk. eapply sat_bind; [exact Hm|]. intros r e' [-> HP]. by apply Hk. Qed.

Lemma attr_run cfg hd pdu e a v : pci_at cfg hd pdu e -> attr_get cfg a pdu = Some v -> m_attr a e = Some (v, e).
Proof.
  intros [Hm Hh _ Hc] Ha. unfold m_attr. rewrite Hh, Hc. cbn [mbind option_bind]. by rewrite Hm, drop_app_length, Ha.
Qed.

(** A PDU on the wire: its bytes represent [p], and its length is right. *)
Record carries (d : dt_cons) (p : EfcpState.pdu) pdu : Prop := {
  ca_rep : PduRefine.represents d pdu p;
  ca_len : p.(attr) A_LENGTH = Z.of_nat (length pdu)
}.

Lemma carries_pdu_ok d p pdu : widths_ok d -> carries d p pdu -> pdu_ok (config_of d) pdu.
Proof.
  intros Hw [[Ht Hsz Ha] Hl]. exists (pdu_type p). split; [apply (Ha A_TYPE)|].
  split; [header_cases Ht; rewrite ?Ht; done|].
  split; [split; [by apply header_size_pos|done]|]. rewrite <- Hl. apply (Ha A_LENGTH).
Qed.

(** A data unit on its way from [rmt_receive] to [rmt_send]. *)
Record forwarded (cfg : efcp_config) (ttl : Z) pdu e : Prop := {
  fw_buf : du_buffer e.(io_du) = ttl :: pdu;
  fw_head : e.(sdup_head) <> None;
  fw_pci : exists hd, pci_at cfg hd pdu e;
  fw_alloc : e.(io_alloc) = []
}.

(** The end of [rmt_receive], for a PDU that is not for this node. *)
Definition relay_on (type : Z) : SM rx :=
  or_else (m_encap type) RxLeak (or_else sdup_dec_check_lifetime_limit RxDrop (m_ret RxForward)).

Definition relays_on (cfg : efcp_config) (ttl : Z) pdu (r : rx) e : Prop :=
  if ttl =? 1 then r = RxDrop else r = RxForward /\ forwarded cfg (ttl - 1) pdu e.

Lemma relay_on_ok cfg hd ttl pdu t v m e e1 type e2 :
  1 <= ttl < 256 -> 0 < v -> m_encap type e1 = Some (0, e2) -> at_ e2 (hd ++ [ttl]) pdu t -> frame e e2 ->
  pci_at cfg (hd ++ [ttl]) pdu e2 -> e.(io_priv) = mk_sdup_port None false (Some v) m -> e.(io_alloc) = [] ->
  e.(sdup_head) = Some (mk_bufptr e.(io_gen) (Z.of_nat (length hd))) ->
  sat (relay_on type) e1 (relays_on cfg ttl pdu).
Proof.
  intros Ht Hv He Ha [Hg Hal Hp Hh Hc] [Hm Hph Hpl Hpc] Hpr Ho Hs. unfold relay_on, relays_on. eapply or_else_run; [exact He|].
  eapply sat_bind. { eapply dec_check_ok; [exact Hv|rewrite Hp; exact Hpr|exact Ha|by rewrite Hh, Hs, Hg]. }
  intros r e' Hr. cbn beta in Hr. rewrite uwrap_small in Hr by (unfold in_u; lia).
  destruct (Z.eqb_spec (ttl - 1) 0), (Z.eqb_spec ttl 1); try lia; [subst r; by apply sat_ret|]. destruct Hr as (-> & Ha' & Hs' & [_ Hal' _ _ Hc'] & [Hh' Hl']).
  apply sat_ret. split; [done|]. constructor; [apply (at_data _ _ _ _ Ha')|done| |congruence].
  exists (hd ++ [ttl - 1]). constructor.
  - by rewrite (at_mem _ _ _ _ Ha'), <- (assoc_L (++)).
  - rewrite Hh', Hph, !length_app. done.
  - by rewrite Hl'.
  - by rewrite Hc'.
Qed.

(** The beginning of [rmt_receive], up to the decapsulation. *)
Lemma receive_head d p sp s ttl pdu (k : SM rx) Q (cfg := config_of d) (e0 := du_create_from_skb s sp) :
  widths_ok d -> carries d p pdu -> ttl_only sp -> skb_data s = ttl :: pdu -> 1 <= ttl < 256 ->
  (forall hd e1, pci_at cfg hd pdu e1 ->
     du_buffer e1.(io_du) = drop (Z.to_nat (pci_calculate_size cfg (pdu_type p))) pdu ->
     sat (relay_on (pdu_type p)) e1 (relays_on cfg ttl pdu) -> sat k e1 Q) ->
  sat (m_set_cfg cfg;; or_else sdup_unprotect_pdu RxDrop (or_else sdup_get_lifetime_limit RxDrop (or_else m_decap RxDrop k))) e0 Q.
Proof.
  intros Hw Hca (v & m & Hv & ->) Hs Ht Hk. eapply sat_run; [reflexivity|]. set (e := set_du _ _ _ _).
  destruct (at_intro e) as [hd Ha]; [done|]. change (du_buffer (io_du e)) with (skb_data s) in Ha. rewrite Hs in Ha.
  eapply or_else_run; [reflexivity|].
  eapply or_else_sat; [eapply get_lifetime_ok; [apply Hv|reflexivity|exact Ha]|]. intros e2 (Ha2 & Hh2 & [Ho2 Hp2] & Hc2).
  destruct (decap_encap_ok e2 (hd ++ [ttl]) pdu _ cfg Ha2) as (e3 & type & e4 & He3 & _ & He4 & Ha4 & Hf4 & Hp3 & Hp4 & Hty & Hb3);
    [by rewrite Hc2|by eapply carries_pdu_ok|].
  assert (type = pdu_type p) as -> by (apply (inj Some); rewrite <- Hty; apply (rp_attr _ _ _ (ca_rep _ _ _ Hca) A_TYPE)).
  eapply or_else_run; [exact He3|]. eapply Hk; [exact Hp3|exact Hb3|].
  eapply relay_on_ok; [exact Ht|apply Hv|exact He4|exact Ha4|exact Hf4|exact Hp4|rewrite Hp2; reflexivity|by rewrite Ho2|exact Hh2].
Qed.

Definition local_rx (p : EfcpState.pdu) : rx :=
  let cep := p.(attr) A_CEP_DESTINATION in
  if pdu_type p =? PDU_TYPE_MGMT then RxMgmt
  else if is_efcp_type (pdu_type p) && is_cep_id_ok cep then RxEfcp cep else RxDrop.

Definition received d p pdu (addrs : list Z) (ttl : Z) (r : rx) e : Prop :=
  let dst := p.(attr) A_DESTINATION in
  if negb (is_address_ok dst) || negb (is_qos_id_ok (p.(attr) A_QOS_ID)) then r = RxDrop
  else if bool_decide (dst ∈ addrs) then
    r = local_rx p /\ du_buffer e.(io_du) = drop (Z.to_nat (pci_calculate_size (config_of d) (pdu_type p))) pdu
  else if dst =? 0 then r = RxMgmt
  else relays_on (config_of d) ttl pdu r e.

Lemma receive_step d p sp s ttl pdu addrs :
  widths_ok d -> carries d p pdu -> ttl_only sp -> skb_data s = ttl :: pdu -> 1 <= ttl < 256 ->
  sat (rmt_receive (config_of d) addrs) (du_create_from_skb s sp) (received d p pdu addrs ttl).
Proof.
  intros Hw Hca Hsp Hs Ht. pose proof (rp_attr _ _ _ (ca_rep _ _ _ Hca)) as Hat.
  eapply receive_head; [exact Hw|exact Hca|exact Hsp|exact Hs|exact Ht|]. intros hd e1 Hp1 Hb1 Hrel.
  eapply sat_run; [eapply attr_run; [exact Hp1|apply (Hat A_TYPE)]|].
  eapply sat_run; [eapply attr_run; [exact Hp1|apply Hat]|]. eapply sat_run; [eapply attr_run; [exact Hp1|apply Hat]|].
  assert (pdu_type_is_ok (pdu_type p) = true) as Hok.
  { pose proof (rp_type _ _ _ (ca_rep _ _ _ Hca)) as Hty. header_cases Hty; rewrite Hty; done. }
  unfold received. fold (pdu_type p). rewrite Hok, addressed_spec. cbn [negb orb].
  destruct (negb (is_address_ok _) || _) eqn:Ebad; [by apply sat_ret|].
  case_bool_decide as Eme; [|destruct (_ =? 0); [by apply sat_ret|exact Hrel]].
  unfold local_rx. destruct (pdu_type p =? PDU_TYPE_MGMT) eqn:Em; [by apply sat_ret|].
  destruct (is_efcp_type _); [|by apply sat_ret]. cbn [andb]. unfold process_dt_pdu.
  eapply sat_run; [eapply attr_run; [exact Hp1|apply Hat]|]. apply orb_false_iff in Ebad as [-> _].
  eapply sat_run; [eapply attr_run; [exact Hp1|apply (Hat A_TYPE)]|]. fold (pdu_type p). rewrite Em.
  eapply sat_run; [eapply attr_run; [exact Hp1|apply Hat]|]. destruct (is_cep_id_ok _); by apply sat_ret.
Qed.

Lemma send_routes d p pdu R junk T m e hd :
  carries d p pdu -> pci_at (config_of d) hd pdu e -> e.(io_alloc) = [] -> r_pff R = Some T -> represents_map T m ->
  is_address_ok (p.(attr) A_DESTINATION) = true -> is_qos_id_ok (p.(attr) A_QOS_ID) = true ->
  exists r c, rmt_send R junk e =
    Some (r, c, fan_out junk (default [] (spec_route m (p.(attr) A_DESTINATION) (p.(attr) A_QOS_ID))) e).
Proof.
  intros Hca Hp Ho HT Hm Hd Hq. pose proof (rp_attr _ _ _ (ca_rep _ _ _ Hca)) as Hat.
  assert (m_pci_is_ok e = Some (true, e)) as Hok.
  { unfold m_pci_is_ok. rewrite (pa_h _ _ _ _ Hp), (proj2 (Z.ltb_lt _ _) (pa_len _ _ _ _ Hp)).
    rewrite (mthen_some _ _ _ _ _ (attr_run _ _ _ _ _ _ Hp (Hat A_TYPE))).
    pose proof (rp_type _ _ _ (ca_rep _ _ _ Hca)) as Hty. unfold m_ret. fold (pdu_type p).
    header_cases Hty; by rewrite Hty. }
  assert (set_alloc [] e = e) as He by (destruct e; cbn in *; by subst).
  unfold rmt_send. rewrite Hok. cbn [mbind option_bind negb]. rewrite (attr_run _ _ _ _ _ _ Hp (Hat A_DESTINATION)).
  cbn [mbind option_bind]. rewrite (attr_run _ _ _ _ _ _ Hp (Hat A_QOS_ID)). cbn [mbind option_bind]. rewrite HT, Ho, (nhop_route T m) by done. cbn [hop_pci attr].
  rewrite Hd, Hq. cbn [andb]. destruct (spec_route m _ _) as [l|]; cbn [Z.eqb negb default].
  - eexists _, _. by rewrite He.
  - by eexists _, _.
Qed.

(** The data unit and its copies, with the ports. *)
Definition on_port (cfg : efcp_config) (ttl : Z) pdu (c : Z * option (io S sdup_port)) (pid : Z) : Prop :=
  c.1 = pid /\ exists e, c.2 = Some e /\ forwarded cfg ttl pdu e.

Lemma fan_out_ok cfg ttl pdu junk l e :
  forwarded cfg ttl pdu e -> junk <> None \/ (length l <= 1)%nat -> Forall2 (on_port cfg ttl pdu) (fan_out junk l e) l.
Proof.
  intros Hf Hj. assert (set_alloc [] e = e) as He by (destruct Hf as [_ _ _ Ho]; destruct e; cbn in *; by subst).
  induction l as [|pid [|pid' l] IH]; [constructor| |].
  - constructor; [|constructor]. split; [done|]. by exists e.
  - destruct Hj as [Hj|]; [|cbn in *; lia]. change (fan_out junk (pid :: pid' :: l) e) with
      (let '(c, o) := du_dup_gfp e.(io_du) e.(io_alloc) in
       (pid, match c with Some x => Some (mk_io x e.(io_gen) junk o e.(io_rand) e.(io_priv)) | None => None end)
         :: fan_out junk (pid' :: l) (set_alloc o e)).
    rewrite (fw_alloc _ _ _ _ Hf). cbn [du_dup_gfp rkmalloc negb]. rewrite He. constructor; [|apply IH; by left].
    split; [done|]. eexists. split; [reflexivity|]. destruct Hf as [Hb _ [hd [Hm Hh Hl Hc]] _].
    constructor; [exact Hb|exact Hj| |done]. exists hd. by constructor.
Qed.

(** A port with a lifetime limit adds nothing when [sdup_head] is set. *)
Lemma kept_write v m e (e0 := set_port (mk_sdup_port None false (Some v) m) e) :
  e.(sdup_head) <> None -> sat n1_port_write e0 (fun r e' => r = 0 /\ e' = e0).
Proof.
  intros Hs. eexists _, _. split; [|by split].
  unfold n1_port_write, or_fail, sdup_set_lifetime_limit, lifetime, default_sdup_set_lifetime_limit_policy, or_fail.
  destruct (sdup_head e) as [h|] eqn:E; [|done]. unfold mthen, get_priv, du_sdup_head. cbn. by rewrite E.
Qed.

Lemma port_writes R cfg ttl pdu c pid :
  (forall sp, n1_sdup R pid = Some sp -> ttl_only sp) -> on_port cfg ttl pdu c pid ->
  rmt_send_port_id R c = Some (if bool_decide (is_Some (n1_sdup R pid)) then Some (ttl :: pdu) else None).
Proof.
  intros Hsp (<- & e & He & [Hb Hs _ _]). unfold rmt_send_port_id. rewrite He.
  destruct (n1_sdup R c.1) as [sp|]; [|done]. destruct (Hsp sp eq_refl) as (v & m & Hv & ->).
  rewrite bool_decide_true by done.
  destruct (kept_write v m e Hs) as (r & e' & -> & -> & ->).
  cbn [mbind option_bind Z.eqb]. by rewrite <- Hb.
Qed.

Lemma flat_map_Forall2 {A B C} (f : A -> list C) (g : B -> list C) l k :
  Forall2 (fun x y => f x = g y) l k -> flat_map f l = flat_map g k.
Proof. induction 1 as [|x y l k Hxy _ IH]; [done|]. cbn. by rewrite Hxy, IH. Qed.

(** ** Refinement *)

(** Every port has a lifetime limit and nothing else, every table represents a map, and copies are
    not made, or are made in memory that held something else than the null pointer. *)
Record network_ok (nodes : Z -> rmt_node) (routes : Z -> fmap_t) (junk : option bufptr) (rx_skb : list Z -> S)
    (p : EfcpState.pdu) : Prop := {
  net_ports n pid sp : n1_sdup (nodes n) pid = Some sp -> ttl_only sp;
  net_tables n : exists T, r_pff (nodes n) = Some T /\ represents_map T (routes n);
  net_copies : junk <> None \/ forall n, (length (next_hops routes p n) <= 1)%nat;
  net_wire bs : skb_data (rx_skb bs) = bs
}.

(** From a reception on, the bytes go the way of the header. *)
Lemma travel_spec d p pdu nodes link routes junk rx_skb fuel n from ttl :
  widths_ok d -> carries d p pdu -> network_ok nodes routes junk rx_skb p -> 1 <= ttl < 256 ->
  travel nodes link (config_of d) junk rx_skb fuel n from (ttl :: pdu) =
  spec_travel nodes link routes p (drop (Z.to_nat (pci_calculate_size (config_of d) (pdu_type p))) pdu) fuel n from ttl.
Proof.
  intros Hw Hca [Hpo Htb Hcp Hrx]. revert n from ttl. induction fuel as [|fuel IH]; intros n from ttl Ht; [done|].
  cbn [travel spec_travel]. unfold bound.
  destruct (is_port_id_ok from); [|done]. destruct (n1_sdup (nodes n) from) as [sp|] eqn:Esp; [|done].
  rewrite (bool_decide_true (is_Some (Some sp))) by done. cbn [andb negb].
  destruct (receive_step d p sp (rx_skb (ttl :: pdu)) ttl pdu (addresses (nodes n)) Hw Hca (Hpo _ _ _ Esp) (Hrx _) Ht)
    as (r & e & He & Hr). rewrite He. unfold received in Hr.
  destruct (is_address_ok _) eqn:Ead; cbn [negb orb] in *; [|by rewrite Hr].
  destruct (is_qos_id_ok _) eqn:Eqo; cbn [negb] in *; [|by rewrite Hr].
  case_bool_decide as Eme.
  { destruct Hr as [-> Hb]. unfold local_rx, local_outcome. destruct (_ =? PDU_TYPE_MGMT); [done|].
    destruct (_ && _); [by rewrite Hb|done]. }
  destruct (_ =? 0); [by rewrite Hr|]. unfold relays_on in Hr. destruct (Z.eqb_spec ttl 1); [by rewrite Hr|].
  destruct Hr as [-> Hf]. destruct (Htb n) as (T & HT & Hm).
  destruct (fw_pci _ _ _ _ Hf) as [hd Hp].
  destruct (send_routes d p pdu (nodes n) junk T (routes n) e hd Hca Hp (fw_alloc _ _ _ _ Hf) HT Hm Ead Eqo) as (r & c & Hs).
  unfold send_from. rewrite Hs. fold (next_hops routes p n).
  assert (Forall2 (on_port (config_of d) (ttl - 1) pdu) (fan_out junk (next_hops routes p n) e) (next_hops routes p n)) as Hfo.
  { apply fan_out_ok; [done|]. destruct Hcp as [|Hcp]; [by left|right; apply Hcp]. }
  assert (forall x y, on_port (config_of d) (ttl - 1) pdu x y ->
    send_copy nodes link (travel nodes link (config_of d) junk rx_skb fuel) n x = spec_copy nodes link
      (spec_travel nodes link routes p (drop (Z.to_nat (pci_calculate_size (config_of d) (pdu_type p))) pdu) fuel) n (ttl - 1) y) as Hc.
  { intros x y Hxy. unfold send_copy, spec_copy, bound. rewrite (port_writes _ _ _ _ _ _ (fun sp => Hpo n _ sp) Hxy).
    destruct Hxy as [-> _]. case_bool_decide; [|done]. cbn [negb]. destruct (link n y) as [[n' p']|]; [apply IH; lia|done]. }
  revert Hfo. generalize (fan_out junk (next_hops routes p n) e), (next_hops routes p n). intros ? ? Hfo.
  destruct Hfo as [|x y l k Hxy Hfo]; [done|]. apply flat_map_Forall2.
  constructor; [by apply Hc|]. eapply Forall2_impl; [exact Hfo|]. exact Hc.
Qed.

(** A data unit as EFCP hands it to [rmt_send]: no lifetime yet. *)
Record originated (cfg : efcp_config) pdu e : Prop := {
  or_at : exists hd t, at_ e hd pdu t /\ pci_at cfg hd pdu e;
  or_head : e.(sdup_head) = None;
  or_alloc : e.(io_alloc) = []
}.

(** The port adds its initial lifetime. *)
Lemma first_write e hd pdu t v m :
  at_ e hd pdu t -> e.(sdup_head) = None -> e.(io_alloc) = [] -> 0 < v ->
  sat n1_port_write (set_port (mk_sdup_port None false (Some v) m) e)
    (fun r e' => r = 0 /\ du_buffer e'.(io_du) = v :: pdu).
Proof.
  intros Ha Hs Ho Hv. set (e0 := set_port _ e). assert (at_ e0 hd pdu t) as Ha0 by by destruct Ha.
  destruct (head_grow_any e0 hd pdu t 1 Ha0 Ho) as (e1 & hd1 & j & He1 & Hj & Ha1 & _ & _ & Hp1).
  set (e2 := mk_io (io_du e1) (io_gen e1) (Some (mk_bufptr (io_gen e1) (Z.of_nat (length hd1)))) (io_alloc e1) (io_rand e1) (io_priv e1)).
  assert (at_ e2 hd1 ([] ++ j ++ pdu) t) as Ha2 by by destruct Ha1.
  destruct (store_ok e2 hd1 [] j pdu t [v] (mk_bufptr (io_gen e1) (Z.of_nat (length hd1)))) as (e3 & He3 & Ha3 & Hf3);
    [exact Ha2|by rewrite Hj|cbn; f_equal; lia|].
  unfold n1_port_write. eapply (or_fail_sat _ _ _ (fun e' => e' = e3)).
  - unfold sdup_set_lifetime_limit, lifetime. eapply sat_run; [reflexivity|]. cbn [e0 set_port io_priv sp_ttl].
    eapply (or_fail_sat _ _ _ (fun e' => e' = e3)); [|intros e' ->; by apply sat_ret].
    unfold default_sdup_set_lifetime_limit_policy. eapply sat_run; [reflexivity|]. change (sdup_head e0) with (sdup_head e). rewrite Hs.
    rewrite (proj2 (Z.ltb_lt 0 v)) by lia. eapply or_fail_run; [exact He1|].
    eapply sat_run; [by eapply buffer_run|]. eapply (sat_run _ _ _ tt e2); [done|].
    eapply sat_run; [by eapply buffer_run|]. eapply sat_run; [exact He3|]. by apply sat_ret.
  - intros e' ->. eapply or_fail_run; [|apply sat_ret; split; [done|apply (at_data _ _ _ _ Ha3)]].
    unfold sdup_protect_pdu, mthen, get_priv. rewrite (fr_priv _ _ Hf3). cbn [e2 io_priv]. rewrite Hp1. reflexivity.
Qed.

(** The lifetime a port gives to a PDU. *)
Definition first_ttl (nodes : Z -> rmt_node) (n pid : Z) : Z :=
  match n1_sdup (nodes n) pid with Some sp => default 0 sp.(sp_ttl) | None => 0 end.

(** A PDU sent by node [n], on headers. *)
Definition spec_send (nodes : Z -> rmt_node) link routes p sdu (fuel : nat) (n : Z) : list outcome :=
  match next_hops routes p n with
  | [] => [Dropped n]
  | l => flat_map (fun pid => spec_copy nodes link (spec_travel nodes link routes p sdu fuel) n (first_ttl nodes n pid) pid) l
  end.

Lemma send_spec d p pdu nodes link routes junk rx_skb fuel n e :
  widths_ok d -> carries d p pdu -> network_ok nodes routes junk rx_skb p -> originated (config_of d) pdu e ->
  is_address_ok (p.(attr) A_DESTINATION) = true -> is_qos_id_ok (p.(attr) A_QOS_ID) = true ->
  (length (next_hops routes p n) <= 1)%nat ->
  send_from nodes link junk (travel nodes link (config_of d) junk rx_skb fuel) n e =
  spec_send nodes link routes p (drop (Z.to_nat (pci_calculate_size (config_of d) (pdu_type p))) pdu) fuel n.
Proof.
  intros Hw Hca Hnet Hor Hd Hq Hone. pose proof Hor as [(hd & t & Ha & Hp) Hh Ho].
  destruct (net_tables _ _ _ _ _ Hnet n) as (T & HT & Hm).
  destruct (send_routes d p pdu (nodes n) junk T (routes n) e hd Hca Hp Ho HT Hm Hd Hq) as (r & c & Hs).
  unfold send_from, spec_send. rewrite Hs. fold (next_hops routes p n).
  destruct (next_hops routes p n) as [|pid [|]]; [done| |cbn in Hone; lia]. cbn [fan_out flat_map]. rewrite !app_nil_r.
  unfold send_copy, spec_copy, bound, rmt_send_port_id, first_ttl. cbn [fst snd].
  destruct (n1_sdup (nodes n) pid) as [sp|] eqn:Esp; [|done]. rewrite bool_decide_true by done. cbn [negb].
  destruct (net_ports _ _ _ _ _ Hnet _ _ _ Esp) as (v & m & Hv & ->).
  destruct (first_write _ _ _ _ v m Ha Hh Ho (proj1 Hv)) as (r' & e' & -> & -> & Hb).
  cbn [mbind option_bind Z.eqb sp_ttl default]. rewrite Hb.
  destruct (link n pid) as [[n' p']|]; [|done]. apply travel_spec; [exact Hw|exact Hca|exact Hnet|exact (conj (Zlt_le_succ _ _ (proj1 Hv)) (proj2 Hv))].
Qed.
End Fwd.
