(* ===== verification/RmtNet.v ===== *)
(** * Forwarding in a network

    What follows from [RmtFwd.v] for the way of a PDU: it is delivered where the tables lead
    to its destination, its way ends whatever the tables are, and what goes wrong when a PDU is
    sent to several ports, or by several senders at the same time. *)

From S2P Require Import Prelude Kucommon Config Pci Skb Du Rds Queues EfcpState PduRefine Pff SdupMem SdupReplay Sdup.
From S2P Require Import SdupLaws SdupTtl SdupExamples RmtFwd.
From Stdlib Require Import ZArith Lia.
From stdpp Require Import base list numbers option gmap sets relations.
#[local] Open Scope Z_scope.

Section Net.
Context {S : Type} `{SkBuffLaws S} `{!SkBuffMem S} `{!SkBuffMemLaws S} `{KC : KernelCrypto}.
Implicit Types (e : io S sdup_port) (hd bs pdu : list Z) (nodes : Z -> rmt_node) (link : Z -> Z -> option (Z * Z))
  (routes : Z -> fmap_t) (p : EfcpState.pdu).

Lemma flat_map_not_nil {A B} (f : A -> list B) l : l <> [] -> Forall (fun x => f x <> []) l -> flat_map f l <> [].
Proof. destruct l as [|x l]; [done|]. intros _ Hl. inversion_clear Hl as [|? ? Hx _]. cbn. by destruct (f x). Qed.

(** ** Every way ends *)

(** Not by a fault, and not by running out of hops to look at. *)
Definition ended (o : outcome) : Prop := match o with Fault _ | Travelling => False | _ => True end.

Lemma spec_travel_ends nodes link routes p sdu fuel n from ttl :
  1 <= ttl -> (Z.to_nat ttl <= fuel)%nat -> Forall ended (spec_travel nodes link routes p sdu fuel n from ttl).
Proof.
  revert n from ttl. induction fuel as [|fuel IH]; intros n from ttl Ht Hf; [lia|].
  assert (forall o, ended o -> Forall ended [o]) as H1 by (intros o Ho; by constructor). cbn [spec_travel].
  repeat (case_match; try by apply H1).
  - apply H1. unfold local_outcome. by repeat case_match.
  - apply List.Forall_flat_map, List.Forall_forall. intros pid _. unfold spec_copy.
    case_match; [by apply H1|]. case_match; [|by apply H1]. case_match. apply IH; [|lia].
    match goal with Ht1 : (ttl =? 1) = false |- _ => apply Z.eqb_neq in Ht1 end. lia.
Qed.

(** C19: in a network whose ports have a lifetime limit and no other protection, and whose nodes
    have at most one next hop for the PDU or find a non-null pointer where a copy has its
    uninitialised protection header ([network_ok]): whatever the forwarding tables and the links
    are - loops included - the way of a PDU that is received with lifetime [ttl], and of every
    copy, ends after at most [ttl] receptions: it is handed over at a node, or dropped; and no
    node touches memory it may not touch. *)
Theorem rmt_forwarding_ends d p pdu nodes link routes junk rx_skb fuel n from ttl :
  widths_ok d -> carries d p pdu -> network_ok nodes routes junk rx_skb p -> 1 <= ttl < 256 ->
  (Z.to_nat ttl <= fuel)%nat ->
  Forall ended (travel nodes link (config_of d) junk rx_skb fuel n from (ttl :: pdu)).
Proof.
  intros Hw Hca Hnet Ht Hf. rewrite (travel_spec d p pdu nodes link routes) by done. apply spec_travel_ends; [lia|done].
Qed.

(** ** Delivery *)

(** [dist] says how far a node is from the destination of [p], if it has a way: the node itself
    has the address, or all its next hops are nearer. *)
Record routed nodes link routes p (dist : Z -> option nat) : Prop := {
  rd_here n : dist n = Some 0%nat -> p.(attr) A_DESTINATION ∈ addresses (nodes n);
  rd_next n k : dist n = Some (Datatypes.S k) -> next_hops routes p n <> [] /\
    forall pid, pid ∈ next_hops routes p n -> bound nodes n pid = true /\
      exists (n' p' : Z) k', link n pid = Some (n', p') /\ is_port_id_ok p' && bound nodes n' p' = true /\
        dist n' = Some k' /\ (k' <= k)%nat
}.

(** A PDU for an EFCP connection. *)
Record deliverable p : Prop := {
  dl_address : is_address_ok (p.(attr) A_DESTINATION) = true;
  dl_nonzero : p.(attr) A_DESTINATION <> 0;
  dl_qos : is_qos_id_ok (p.(attr) A_QOS_ID) = true;
  dl_type : is_efcp_type (pdu_type p) = true;
  dl_cep : is_cep_id_ok (p.(attr) A_CEP_DESTINATION) = true
}.

Definition delivered nodes p sdu (o : outcome) : Prop :=
  exists n, o = Delivered n (p.(attr) A_CEP_DESTINATION) sdu /\ p.(attr) A_DESTINATION ∈ addresses (nodes n).

Lemma local_delivers p sdu n : deliverable p -> local_outcome p sdu n = Delivered n (p.(attr) A_CEP_DESTINATION) sdu.
Proof.
  intros [_ _ _ Ht Hc]. unfold local_outcome. rewrite Ht, Hc. destruct (Z.eqb_spec (pdu_type p) PDU_TYPE_MGMT) as [E|]; [|done].
  by rewrite E in Ht.
Qed.

Lemma spec_travel_delivers nodes link routes p sdu dist fuel n from ttl k :
  routed nodes link routes p dist -> deliverable p -> dist n = Some k -> is_port_id_ok from && bound nodes n from = true ->
  (k < fuel)%nat -> Z.of_nat k < ttl ->
  spec_travel nodes link routes p sdu fuel n from ttl <> [] /\
  Forall (delivered nodes p sdu) (spec_travel nodes link routes p sdu fuel n from ttl).
Proof.
  intros Hr Hd. revert n from ttl k. induction fuel as [|fuel IH]; intros n from ttl k Hk Hp Hf Ht; [lia|].
  cbn [spec_travel]. rewrite Hp, (dl_address _ Hd), (dl_qos _ Hd). cbn [negb orb].
  case_bool_decide as Eme.
  { rewrite local_delivers by done. split; [done|]. constructor; [by exists n|done]. }
  destruct (Z.eqb_spec (p.(attr) A_DESTINATION) 0) as [E|_]; [by destruct (dl_nonzero _ Hd)|].
  destruct k as [|k]; [by destruct Eme; apply (rd_here _ _ _ _ _ Hr)|].
  destruct (Z.eqb_spec ttl 1); [lia|]. destruct (rd_next _ _ _ _ _ Hr _ _ Hk) as [Hne Hn].
  assert (forall pid, pid ∈ next_hops routes p n ->
    spec_copy nodes link (spec_travel nodes link routes p sdu fuel) n (ttl - 1) pid <> [] /\
    Forall (delivered nodes p sdu) (spec_copy nodes link (spec_travel nodes link routes p sdu fuel) n (ttl - 1) pid)) as Hc.
  { intros pid Hin. destruct (Hn pid Hin) as (Hb & n' & p' & k' & Hl & Hp' & Hk' & Hle). unfold spec_copy. rewrite Hb, Hl. cbn [negb].
    apply (IH n' p' (ttl - 1) k'); (done || lia). }
  replace (match next_hops routes p n with [] => _ | _ => _ end)
    with (flat_map (spec_copy nodes link (spec_travel nodes link routes p sdu fuel) n (ttl - 1)) (next_hops routes p n))
    by by destruct (next_hops routes p n).
  split.
  - apply flat_map_not_nil; [done|]. apply List.Forall_forall. intros pid Hin%list_elem_of_In. by apply Hc.
  - apply List.Forall_flat_map, List.Forall_forall. intros pid Hin%list_elem_of_In. by apply Hc.
Qed.

(** C18: a PDU that EFCP sends is delivered. The ports have a lifetime limit and no other
    protection ([network_ok]), and the node of origin has one next hop for the PDU. Where the
    forwarding tables bring it nearer to its destination with every hop, and its initial
    lifetime is longer than the way, every copy that is made on the way is handed to the EFCP
    container of a node with the destination address, for the destination's CEP id and with the
    user data unchanged; and there is one. *)
Theorem rmt_forwarding_delivers d p pdu nodes link routes junk rx_skb dist fuel n e k pid
    (sdu := drop (Z.to_nat (pci_calculate_size (config_of d) (pdu_type p))) pdu)
    (out := send_from nodes link junk (travel nodes link (config_of d) junk rx_skb fuel) n e) :
  widths_ok d -> carries d p pdu -> network_ok nodes routes junk rx_skb p -> originated (config_of d) pdu e ->
  routed nodes link routes p dist -> deliverable p -> next_hops routes p n = [pid] ->
  dist n = Some (Datatypes.S k) -> Z.of_nat k < first_ttl nodes n pid -> (k < fuel)%nat ->
  out <> [] /\ Forall (delivered nodes p sdu) out.
Proof.
  intros Hw Hca Hnet Hor Hr Hd Hh Hk Ht Hf. subst out.
  rewrite (send_spec d p pdu nodes link routes) by (done || apply Hd || by rewrite Hh). fold sdu. unfold spec_send. rewrite Hh.
  cbn [flat_map]. rewrite app_nil_r. destruct (rd_next _ _ _ _ _ Hr _ _ Hk) as [_ Hn].
  destruct (Hn pid) as (Hb & n' & p' & k' & Hl & Hp' & Hk' & Hle); [rewrite Hh; set_solver|].
  unfold spec_copy. rewrite Hb, Hl. cbn [negb]. apply (spec_travel_delivers _ _ _ _ _ dist _ _ _ _ k'); (done || lia).
Qed.

(** ** Several next hops *)

Lemma forwarded_at cfg ttl pdu e : forwarded cfg ttl pdu e -> exists hd t, at_ e hd (ttl :: pdu) t.
Proof.
  intros [Hb _ [hd [Hm Hh _ _]] _]. destruct (at_intro e) as [h Ha]; [|rewrite Hb in Ha; eauto].
  unfold head_ok. rewrite Hh. destruct (mem_data (du_skb (io_du e))) as [_ Hl].
  change (skb_len (du_skb (io_du e))) with (length (du_buffer (io_du e))) in Hl. rewrite Hm, Hb, length_app in Hl. cbn in Hl. lia.
Qed.

Lemma port_runs R pid e v m : n1_sdup R pid = Some (mk_sdup_port None false (Some v) m) -> 
  (forall bs, sat n1_port_write (set_port (mk_sdup_port None false (Some v) m) e) (fun r e' => r = 0 /\ du_buffer e'.(io_du) = bs) ->
    rmt_send_port_id R (pid, Some e) = Some (Some bs)).
Proof. intros Hp bs (r & e' & He & -> & <-). unfold rmt_send_port_id. cbn [fst snd]. by rewrite Hp, He. Qed.

(** The copy for the first of several ports. *)
Definition first_copy (junk : option bufptr) e : io S sdup_port := mk_io e.(io_du) e.(io_gen) junk [] e.(io_rand) e.(io_priv).

Lemma fan_out_copy junk pid pid' l e :
  e.(io_alloc) = [] -> head (fan_out junk (pid :: pid' :: l) e) = Some (pid, Some (first_copy junk e)).
Proof. intros Ho. cbn [fan_out]. rewrite Ho. cbn [du_dup_gfp rkmalloc negb head]. unfold first_copy. by destruct (io_du e). Qed.

(** C38: with several next hops the first copy is sent with the wrong number of lifetimes,
    because [du_dup] leaves [sdup_head] as the memory was: if it held the null pointer, the copy of a
    relayed PDU has a second lifetime in front of its own, and if it did not, the copy of a
    PDU of EFCP has none. *)
Theorem rmt_copies_lifetime d p pdu R T m junk e pid pid' l v mps :
  carries d p pdu -> deliverable p -> r_pff R = Some T -> represents_map T m ->
  spec_route m (p.(attr) A_DESTINATION) (p.(attr) A_QOS_ID) = Some (pid :: pid' :: l) ->
  n1_sdup R pid = Some (mk_sdup_port None false (Some v) mps) -> 0 < v ->
  (junk = None -> forall ttl, forwarded (config_of d) ttl pdu e ->
     exists r c out, rmt_send R junk e = Some (r, c, out) /\
       (x ← head out; rmt_send_port_id R x) = Some (Some (v :: ttl :: pdu))) /\
  (junk <> None -> originated (config_of d) pdu e ->
     exists r c out, rmt_send R junk e = Some (r, c, out) /\
       (x ← head out; rmt_send_port_id R x) = Some (Some pdu)).
Proof.
  intros Hca Hd HT Hm Hrt Hsp Hv. split; intros Hj.
  - subst junk. intros ttl Hf. destruct (fw_pci _ _ _ _ Hf) as [hd Hp].
    destruct (send_routes d p pdu R None T m e hd Hca Hp (fw_alloc _ _ _ _ Hf) HT Hm (dl_address _ Hd) (dl_qos _ Hd)) as (r & c & Hs).
    eexists r, c, _. split; [exact Hs|]. rewrite Hrt. cbn [default]. unfold id. rewrite (fan_out_copy _ _ _ _ _ (fw_alloc _ _ _ _ Hf)).
    cbn [mbind option_bind]. eapply port_runs; [exact Hsp|]. destruct (forwarded_at _ _ _ _ Hf) as (h & t & Ha).
    eapply first_write; [|done|done|done]. by destruct Ha.
  - intros [(hd & t & Ha & Hp) _ Ho].
    destruct (send_routes d p pdu R junk T m e hd Hca Hp Ho HT Hm (dl_address _ Hd) (dl_qos _ Hd)) as (r & c & Hs).
    eexists r, c, _. split; [exact Hs|]. rewrite Hrt. cbn [default]. unfold id. rewrite (fan_out_copy _ _ _ _ _ Ho).
    cbn [mbind option_bind]. eapply port_runs; [exact Hsp|]. eapply sat_weaken; [by apply kept_write|].
    intros r' e' [-> ->]. split; [done|]. apply (at_data _ _ _ _ Ha).
Qed.
End Net.

(** ** Several senders

    [rmt_send] at the granularity that matters for the cache of next hops, which all senders share:
    the look-up is one step, and one turn of the loop. *)

(** Before the look-up; in the loop, with [given] when the data unit itself was passed on (and not a
    copy); at the end. *)
Inductive sender := SRoute (p : EfcpState.pdu) | SLoop (p : EfcpState.pdu) (i : nat) (given : bool) | SEnd.

(** The cache, the senders, and what [rmt_send_port_id] was called with. *)
Record race := mk_race { rc_cache : list Z; rc_senders : list sender; rc_sent : list (Z * EfcpState.pdu) }.

(** One step of a sender: [None] when it uses a data unit it has given away. *)
Definition sender_step (T : list pft_entry) (c : list Z) (t : sender) : option (list Z * sender * list (Z * EfcpState.pdu)) :=
  match t with
  | SRoute p =>
      let '(r, pids, _) := default_nhop (Some T) p c [] in
      Some (pids, if negb (r =? 0) || bool_decide (pids = []) then SEnd else SLoop p 0 false, [])
  | SLoop p i given =>
      match c !! i with
      | None => Some (c, SEnd, [])
      | Some pid => if given then None else Some (c, SLoop p (Datatypes.S i) (bool_decide (i = length c - 1)%nat), [(pid, p)])
      end
  | SEnd => Some (c, SEnd, [])
  end.

Inductive race_step (T : list pft_entry) : race -> race -> Prop :=
| race_one c l1 t l2 sent c' t' out :
    sender_step T c t = Some (c', t', out) ->
    race_step T (mk_race c (l1 ++ t :: l2) sent) (mk_race c' (l1 ++ t' :: l2) (sent ++ out)).

(** The ports of a PDU. *)
Definition ports_of (m : fmap_t) (p : EfcpState.pdu) (l : list Z) : Prop :=
  is_address_ok (p.(attr) A_DESTINATION) = true /\ is_qos_id_ok (p.(attr) A_QOS_ID) = true /\
  spec_route m (p.(attr) A_DESTINATION) (p.(attr) A_QOS_ID) = Some l.

Lemma route_step T m p l c :
  represents_map T m -> ports_of m p l -> l <> [] -> sender_step T c (SRoute p) = Some (l, SLoop p 0 false, []).
Proof.
  intros Hm (Hd & Hq & Hl) Hne. cbn [sender_step]. rewrite (nhop_route T m), Hd, Hq by done. cbn [andb]. rewrite Hl.
  by rewrite bool_decide_false by done.
Qed.

Lemma loop_step T c p i pid :
  c !! i = Some pid ->
  sender_step T c (SLoop p i false) = Some (c, SLoop p (Datatypes.S i) (bool_decide (i = length c - 1)%nat), [(pid, p)]).
Proof. intros Hi. cbn [sender_step]. by rewrite Hi. Qed.

(** The loop of a sender that is not interrupted, from turn [i] on. *)
Lemma loop_alone T c p n : forall i sent,
  (i + n = length c)%nat -> rtc (race_step T) (mk_race c [SLoop p i (bool_decide (i = length c)%nat)] sent)
    (mk_race c [SEnd] (sent ++ ((fun pid => (pid, p)) <$> drop i c))).
Proof.
  induction n as [|n IH]; intros i sent Hi.
  - rewrite drop_ge by lia. eapply (rtc_l _ _ (mk_race c [SEnd] (sent ++ []))); [|apply rtc_refl].
    apply (race_one T c [] _ []). cbn [sender_step]. rewrite lookup_ge_None_2 by lia. done.
  - destruct (lookup_lt_is_Some_2 c i) as [pid Hp]; [lia|]. rewrite (drop_S c pid i Hp), bool_decide_false by lia.
    eapply rtc_l; [apply (race_one T c [] _ [] sent), loop_step, Hp|]. cbn [app].
    replace (bool_decide (i = length c - 1)%nat) with (bool_decide (Datatypes.S i = length c)%nat) by (apply bool_decide_ext; lia).
    specialize (IH (Datatypes.S i) (sent ++ [(pid, p)])). rewrite <- (assoc_L (++)) in IH. apply IH. lia.
Qed.

(** A sender that is not interrupted sends on its ports, in their order. *)
Lemma rmt_send_alone T m p l c :
  represents_map T m -> ports_of m p l -> l <> [] ->
  rtc (race_step T) (mk_race c [SRoute p] []) (mk_race l [SEnd] ((fun pid => (pid, p)) <$> l)).
Proof.
  intros Hm Hp Hne. eapply rtc_l; [by eapply (race_one T c [] _ [] []), route_step|]. cbn [app].
  pose proof (loop_alone T l p (length l) 0 [] eq_refl) as Hl. rewrite bool_decide_false in Hl by (by destruct l). exact Hl.
Qed.

(** C39: two senders at the same time: the PDU [a], whose port is [pa], is sent on the first port of
    [b]; and in another order of the steps the sender of [a] goes on with its data unit after it
    has given it away. *)
Theorem rmt_send_races T m a b pa pb pb' lb c :
  represents_map T m -> ports_of m a [pa] -> ports_of m b (pb :: pb' :: lb) ->
  (exists s, rtc (race_step T) (mk_race c [SRoute a; SRoute b] []) s /\ (pb, a) ∈ rc_sent s) /\
  (exists s t, rtc (race_step T) (mk_race c [SRoute a; SRoute b] []) s /\ t ∈ rc_senders s /\
     sender_step T (rc_cache s) t = None).
Proof.
  intros Hm Ha Hb. set (l := pb :: pb' :: lb) in *.
  pose proof (fun c => route_step T m a [pa] c Hm Ha ltac:(done)) as Sa.
  pose proof (fun c => route_step T m b l c Hm Hb ltac:(done)) as Sb. split.
  - eexists. split.
    + eapply rtc_l; [apply (race_one T c [] _ [SRoute b] []), Sa|].
      eapply rtc_l; [apply (race_one T _ [SLoop a 0 false] _ []), Sb|].
      eapply rtc_l; [apply (race_one T _ [] _ [SLoop b 0 false]), (loop_step T l a 0 pb eq_refl)|]. apply rtc_refl.
    + cbn. set_solver.
  - eexists _, (SLoop a 1 true). split; [|split].
    + eapply rtc_l; [apply (race_one T c [] _ [SRoute b] []), Sa|].
      eapply rtc_l; [apply (race_one T _ [] _ [SRoute b]), (loop_step T [pa] a 0 pa eq_refl)|].
      eapply rtc_l; [apply (race_one T _ [SLoop a 1 true] _ []), Sb|]. apply rtc_refl.
    + cbn. set_solver.
    + reflexivity.
Qed.

(** ** A line of three nodes

    Node [n] has the address [10 * n] and the ports 1 and 2, and sends PDUs for address 30 on port
    [n]; node 1 is linked to node 2 and node 2 to node 3. *)

Definition ex_port64 : sdup_port := mk_sdup_port None false (Some 64) 1500.
Definition ex_line_table (n : Z) : list pft_entry := [mk_pft_entry 30 0 [n]].
Definition ex_line (n : Z) : rmt_node :=
  mk_rmt_node [10 * n] (Some (ex_line_table n)) [] (fun pid => if (pid =? 1) || (pid =? 2) then Some ex_port64 else None).
Definition ex_routes (n : Z) : fmap_t := table_map (ex_line_table n).
Definition ex_link (n pid : Z) : option (Z * Z) :=
  if (n =? 1) && (pid =? 1) then Some (2, 1) else if (n =? 2) && (pid =? 2) then Some (3, 1) else None.
Definition ex_skb (bs : list Z) : lskb := mk_lskb [] bs [].

(** A data PDU from 10 to 30, with the user data [5; 6; 7]. *)
Definition ex_bytes : list Z :=
  match pci_format ex_cfg (repeat 0 19 ++ [5; 6; 7]) 1 2 10 30 7 1 0 22 PDU_TYPE_DT with Some (_, h) => h | None => [] end.
Definition ex_header_of (bs : list Z) : EfcpState.pdu := mk_pdu (fun a => default 0 (attr_get ex_cfg a bs)) [].
Definition ex_p : EfcpState.pdu := ex_header_of ex_bytes.
Definition ex_sending : io lskb sdup_port :=
  mk_io (mk_du (Some ex_cfg) (Some 200%nat) 19 (mk_lskb (repeat 0 200) ex_bytes [])) 0 None [] [] ex_port64.

Lemma ex_carries : carries example_dt_cons ex_p ex_bytes.
Proof.
  split; [|vm_compute; reflexivity]. split; [apply list_elem_of_In; vm_compute; tauto|vm_compute; congruence|].
  intros a. destruct a; vm_compute; reflexivity.
Qed.

Lemma ex_hops n : next_hops ex_routes ex_p n = [n].
Proof.
  unfold next_hops, ex_routes, ex_line_table. change (attr ex_p A_DESTINATION) with 30. unfold spec_route, route_key.
  rewrite table_map_cons. cbn [entry_key destination qos_id ports]. rewrite decide_True by (rewrite lookup_insert_eq; by eexists).
  by rewrite lookup_insert_eq.
Qed.

Lemma ex_network : network_ok ex_line ex_routes None ex_skb ex_p.
Proof.
  split.
  - intros n pid sp. cbn. destruct (_ || _); [|done]. intros [= <-]. exists 64, 1500. split; [lia|done].
  - intros n. exists (ex_line_table n). split; [done|]. by repeat split.
  - right. intros n. by rewrite ex_hops.
  - done.
Qed.

Lemma ex_originated : originated ex_cfg ex_bytes ex_sending.
Proof.
  split; [|done|done]. exists (repeat 0 200), 0%nat. split; constructor; try reflexivity; vm_compute; lia.
Qed.

Definition ex_dist (n : Z) : option nat :=
  if n =? 1 then Some 2%nat else if n =? 2 then Some 1%nat else if n =? 3 then Some 0%nat else None.

Lemma ex_routed : routed ex_line ex_link ex_routes ex_p ex_dist.
Proof.
  split; intros n; unfold ex_dist.
  - destruct (Z.eqb_spec n 1), (Z.eqb_spec n 2), (Z.eqb_spec n 3) as [->|]; try done. intros _. vm_compute. set_solver.
  - intros k. rewrite ex_hops. destruct (Z.eqb_spec n 1) as [->|]; [|destruct (Z.eqb_spec n 2) as [->|]; [|by destruct (n =? 3)]];
      intros [= <-]; split; try done; intros pid ->%list_elem_of_singleton; (split; [vm_compute; reflexivity|]).
    + exists 2, 1, 1%nat. repeat split. lia.
    + exists 3, 1, 0%nat. repeat split. lia.
Qed.

Lemma ex_deliverable : deliverable ex_p.
Proof. split; vm_compute; congruence. Qed.

Lemma rmt_forwarding_delivers_witness :
  let out := send_from ex_line ex_link None (travel ex_line ex_link ex_cfg None ex_skb 2) 1 ex_sending in
  out <> [] /\ Forall (delivered ex_line ex_p (drop 19 ex_bytes)) out.
Proof.
  apply (rmt_forwarding_delivers example_dt_cons ex_p ex_bytes ex_line ex_link ex_routes None ex_skb ex_dist 2 1 ex_sending 1 1
    example_widths_ok ex_carries ex_network ex_originated ex_routed ex_deliverable (ex_hops 1) eq_refl).
  - vm_compute. reflexivity.
  - lia.
Defined.

(** The same by evaluation. *)
Example ex_line_delivers :
  send_from ex_line ex_link None (travel ex_line ex_link ex_cfg None ex_skb 2) 1 ex_sending = [Delivered 3 2 [5; 6; 7]].
Proof. vm_compute. reflexivity. Qed.

(** With a link back from node 2 to node 1 the PDU is dropped after 64 receptions. *)
Definition ex_loop (n pid : Z) : option (Z * Z) :=
  if (n =? 1) && (pid =? 1) then Some (2, 1) else if (n =? 2) && (pid =? 2) then Some (1, 2) else None.

Lemma rmt_forwarding_ends_witness : Forall ended (travel ex_line ex_loop ex_cfg None ex_skb 64 1 1 (64 :: ex_bytes)).
Proof.
  apply (rmt_forwarding_ends example_dt_cons ex_p ex_bytes ex_line ex_loop ex_routes None ex_skb 64 1 1 64
    example_widths_ok ex_carries ex_network); [lia|vm_compute; lia].
Defined.

Example ex_loop_drops :
  travel ex_line ex_loop ex_cfg None ex_skb 63 1 1 (64 :: ex_bytes) = [Travelling] /\
  travel ex_line ex_loop ex_cfg None ex_skb 64 1 1 (64 :: ex_bytes) = [Dropped 2].
Proof. split; vm_compute; reflexivity. Qed.

(** ** Two next hops *)

Definition ex_two_table : list pft_entry := [mk_pft_entry 30 0 [1; 2]].
Definition ex_two : rmt_node := mk_rmt_node [20] (Some ex_two_table) [] (fun pid => if (pid =? 1) || (pid =? 2) then Some ex_port64 else None).
Definition ex_relayed : io lskb sdup_port :=
  mk_io (mk_du (Some ex_cfg) (Some 11%nat) 19 (mk_lskb (repeat 0 10) (63 :: ex_bytes) [])) 0 (Some (mk_bufptr 0 10)) [] [] ex_port64.

Lemma ex_forwarded : forwarded ex_cfg 63 ex_bytes ex_relayed.
Proof.
  split; try done. exists (repeat 0 10 ++ [63]). constructor; try reflexivity; vm_compute; lia.
Qed.

Lemma ex_two_hops : spec_route (table_map ex_two_table) (attr ex_p A_DESTINATION) (attr ex_p A_QOS_ID) = Some [1; 2].
Proof. vm_compute. reflexivity. Qed.

Lemma rmt_copies_lifetime_witness :
  (exists r c out, rmt_send ex_two None ex_relayed = Some (r, c, out) /\
     (x ← head out; rmt_send_port_id ex_two x) = Some (Some (64 :: 63 :: ex_bytes))) /\
  (exists r c out, rmt_send ex_two (Some (mk_bufptr 7 0)) ex_sending = Some (r, c, out) /\
     (x ← head out; rmt_send_port_id ex_two x) = Some (Some ex_bytes)).
Proof.
  split.
  - destruct (rmt_copies_lifetime example_dt_cons ex_p ex_bytes ex_two ex_two_table (table_map ex_two_table) None ex_relayed
      1 2 [] 64 1500 ex_carries ex_deliverable eq_refl (conj (conj eq_refl I) eq_refl) ex_two_hops eq_refl eq_refl) as [H1 _].
    apply H1; [reflexivity|exact ex_forwarded].
  - destruct (rmt_copies_lifetime example_dt_cons ex_p ex_bytes ex_two ex_two_table (table_map ex_two_table)
      (Some (mk_bufptr 7 0)) ex_sending 1 2 [] 64 1500 ex_carries ex_deliverable eq_refl (conj (conj eq_refl I) eq_refl)
      ex_two_hops eq_refl eq_refl) as [_ H1].
    apply H1; [discriminate|exact ex_originated].
Defined.

(** Either copy is lost at the next node. *)
Example ex_copies_lost :
  travel ex_line ex_link ex_cfg None ex_skb 1 3 1 (64 :: 63 :: ex_bytes) = [Dropped 3] /\
  travel ex_line ex_link ex_cfg None ex_skb 1 3 1 ex_bytes = [Dropped 3].
Proof. split; vm_compute; reflexivity. Qed.

(** ** Two senders *)

Definition ex_both_table : list pft_entry := [mk_pft_entry 40 0 [3]; mk_pft_entry 30 0 [1; 2]].

Lemma rmt_send_races_witness :
  (exists s, rtc (race_step ex_both_table) (mk_race [] [SRoute (hop_pci 40 1); SRoute (hop_pci 30 1)] []) s /\
     (1, hop_pci 40 1) ∈ rc_sent s) /\
  (exists s t, rtc (race_step ex_both_table) (mk_race [] [SRoute (hop_pci 40 1); SRoute (hop_pci 30 1)] []) s /\
     t ∈ rc_senders s /\ sender_step ex_both_table (rc_cache s) t = None).
Proof.
  apply (rmt_send_races ex_both_table (table_map ex_both_table) (hop_pci 40 1) (hop_pci 30 1) 3 1 2 [] []).
  - by repeat split.
  - by repeat split.
  - by repeat split.
Defined.
