(* ===== verification/Hmap.v ===== *)
(** * Maps from identifiers to objects

    The flow allocator, the container of EFCP instances and the KIPCM keep their objects in hash tables under
    an identifier; [src/kernel/kfa-utils.c], [efcp-utils.c] and [kipcm-utils.c] have the same code for it.  A table is the list of its
    entries, the newest first: entries with the same key are in the same bucket, whose head is
    the newest.  An object is known by its address. *)

From S2P Require Import Prelude.
From Stdlib Require Import ZArith Lia.
From stdpp Require Import base list numbers option gmap sets.
#[local] Open Scope Z_scope.

Abbreviation hmap_of A := (list (Z * A)).
Abbreviation hmap := (hmap_of nat).

Section Hmap.
Context {A : Type}.
Implicit Types (m : hmap_of A) (a : A).

Fixpoint hmap_find (m : hmap_of A) (key : Z) : option A :=
  match m with
  | [] => None
  | (k, a) :: m' => if k =? key then Some a else hmap_find m' key
  end.

Definition hmap_add (m : hmap_of A) (key : Z) (a : A) : hmap_of A := (key, a) :: m.

Fixpoint hmap_remove (m : hmap_of A) (key : Z) : hmap_of A :=
  match m with
  | [] => []
  | (k, a) :: m' => if k =? key then m' else (k, a) :: hmap_remove m' key
  end.

Lemma hmap_find_elem m id a : hmap_find m id = Some a -> (id, a) ∈ m.
Proof.
  induction m as [|[k b] m IH]; cbn; [done|].
  destruct (Z.eqb_spec k id) as [->|]; intros E; simplify_eq; [left|right; auto].
Qed.

Lemma hmap_elem_find m id a : NoDup m.*1 -> (id, a) ∈ m -> hmap_find m id = Some a.
Proof.
  induction m as [|[k b] m IH]; cbn; intros Hn Hin; [by apply elem_of_nil in Hin|].
  apply NoDup_cons in Hn as [Hk Hn]. apply elem_of_cons in Hin as [[= -> ->]|Hin]; [by rewrite Z.eqb_refl|].
  destruct (Z.eqb_spec k id) as [->|]; [|auto].
  destruct Hk. by apply (list_elem_of_fmap_2 fst _ (id, a)).
Qed.

Lemma hmap_find_None m id : hmap_find m id = None -> id ∉ m.*1.
Proof.
  induction m as [|[k b] m IH]; cbn; intros E Hin; [by apply elem_of_nil in Hin|].
  destruct (Z.eqb_spec k id); [done|]. apply elem_of_cons in Hin as [->|Hin]; [done|]. by apply IH.
Qed.

Lemma hmap_remove_sub m id x : x ∈ hmap_remove m id -> x ∈ m.
Proof.
  induction m as [|[k b] m IH]; cbn; [done|].
  destruct (k =? id); intros Hx; [by right|]. apply elem_of_cons in Hx as [->|]; [left|right; auto].
Qed.

Lemma hmap_remove_ne m id id' a' :
  (id', a') ∈ m -> id' ≠ id -> (id', a') ∈ hmap_remove m id.
Proof.
  intros Hin Hne. induction m as [|[k b] m IH]; cbn; [done|].
  apply elem_of_cons in Hin as [[= -> ->]|Hin].
  - rewrite (proj2 (Z.eqb_neq _ _) Hne). left.
  - destruct (k =? id); [done|]. right. auto.
Qed.

Lemma hmap_remove_NoDup {B} (g : Z * A -> B) m id : NoDup (g <$> m) -> NoDup (g <$> hmap_remove m id).
Proof.
  induction m as [|[k b] m IH]; cbn; [done|]. intros [Hk Hn]%NoDup_cons.
  destruct (k =? id); [done|]. cbn. apply NoDup_cons. split; [|auto].
  intros (x & Hx & Hin)%list_elem_of_fmap. apply Hk. rewrite Hx. apply list_elem_of_fmap_2.
  by apply hmap_remove_sub in Hin.
Qed.

Lemma hmap_remove_key m id : NoDup m.*1 -> id ∉ (hmap_remove m id).*1.
Proof.
  induction m as [|[k b] m IH]; cbn; [by intros _ ?%elem_of_nil|]. intros [Hk Hn]%NoDup_cons.
  destruct (Z.eqb_spec k id) as [->|]; [done|]. cbn. intros [->|Hin]%elem_of_cons; [done|]. by apply IH.
Qed.

(** In a table of distinct keys and objects, each belongs to one of the other. *)
Lemma hmap_same_key m id id' a : NoDup m.*2 -> (id, a) ∈ m -> (id', a) ∈ m -> id = id'.
Proof.
  intros Hn H1 H2. apply list_elem_of_lookup in H1 as [i Hi]. apply list_elem_of_lookup in H2 as [j Hj].
  assert (i = j) as ->; [|congruence].
  eapply (NoDup_lookup _ i j a Hn); rewrite list_lookup_fmap; [by rewrite Hi|by rewrite Hj].
Qed.

Lemma hmap_same_addr m id a a' : NoDup m.*1 -> (id, a) ∈ m -> (id, a') ∈ m -> a = a'.
Proof. intros Hn H1%(hmap_elem_find _ _ _ Hn) H2%(hmap_elem_find _ _ _ Hn). congruence. Qed.

Lemma hmap_find_remove_ne m id id' : id' ≠ id -> hmap_find (hmap_remove m id) id' = hmap_find m id'.
Proof.
  intros Hne. induction m as [|[k b] m IH]; cbn; [done|].
  destruct (Z.eqb_spec k id) as [->|]; [by rewrite (proj2 (Z.eqb_neq id id'))|]. cbn. by rewrite IH.
Qed.

Lemma hmap_find_add_ne m id id' a : id' ≠ id -> hmap_find (hmap_add m id a) id' = hmap_find m id'.
Proof. intros Hne. cbn. by rewrite (proj2 (Z.eqb_neq id id')). Qed.

Lemma hmap_remove_perm m id a : hmap_find m id = Some a -> m ≡ₚ (id, a) :: hmap_remove m id.
Proof.
  induction m as [|[k b] m IH]; cbn; [done|]. destruct (Z.eqb_spec k id) as [->|]; [by intros [= ->]|].
  intros E. rewrite (IH E) at 1. apply Permutation_swap.
Qed.
End Hmap.
