(* ===== verification/Kfa.v ===== *)
(** * The kernel flow allocator

    Flows between applications and IPC processes ([src/kernel/kfa.c], [kfa-utils.c]): an SDU
    that arrives is posted to the queue of its flow, where a reader finds it; a writer cuts
    what it is given into SDUs for the IPC process.  Readers and writers may sleep, flows are
    created, bound, disabled, enabled and deallocated meanwhile.

    The model is a transition system.  What happens between taking and releasing the lock of
    the KFA is one step; so is what happens between two of them (copying, the write operation of
    the IPC process, a look at the condition in [wait_event_interruptible]).

    - The label [finish] is reached without the lock when an SDU could not be created
      (line 708): the system takes it as one step too; what may happen inside of it is shown by
      [kfa_finish_races] of [KfaRuns.v].
    - A flow is known by its address, which is not reused.  A section without a result follows a
      null pointer or the address of a flow that was freed.
    - A sleeping thread is marked awake by [wake_up]; awake, it looks at its condition and goes
      back to sleep when it does not hold, as [wait_event_interruptible] does.
    - Flows of the IP device, which are read by the network stack, and the poll operation are left
      out; [g_posted] and [g_read] are not part of the code. *)

From S2P Require Import Prelude Ids Rds Hmap.
From Stdlib Require Import ZArith Lia.
From stdpp Require Import base list numbers option gmap sets relations.
Import Rqueue Rfifo FifoList.
#[local] Open Scope Z_scope.

Definition EIO : Z := 5.
Definition EBADF : Z := 9.
Definition E_AGAIN : Z := 11.
Definition EINVAL : Z := 22.
Definition EMSGSIZE : Z := 90.
Definition ESHUTDOWN : Z := 108.
Definition ERESTARTSYS : Z := 512.

Abbreviation sdu := (list Z).

Inductive flow_state :=
| PORT_STATE_NULL
| PORT_STATE_PENDING
| PORT_STATE_ALLOCATED
| PORT_STATE_DEALLOCATED
| PORT_STATE_DISABLED.

#[export] Instance flow_state_eq_dec : EqDecision flow_state.
Proof. solve_decision. Defined.

(** [struct ipcp_flow]; [wqs] says whether there are wait queues. *)
Record ipcp_flow := mk_flow {
  fl_state : flow_state;
  ipc_process : Z;
  sdu_ready : option (rfifo sdu);
  wqs : bool;
  readers : Z;
  writers : Z;
  posters : Z;
  msg_boundaries : bool;
  g_posted : list sdu;
  g_read : list sdu
}.

Definition set_fl_state v (f : ipcp_flow) : ipcp_flow :=
  mk_flow v f.(ipc_process) f.(sdu_ready) f.(wqs) f.(readers) f.(writers) f.(posters) f.(msg_boundaries) f.(g_posted) f.(g_read).
Definition set_wqs v (f : ipcp_flow) : ipcp_flow :=
  mk_flow f.(fl_state) f.(ipc_process) f.(sdu_ready) v f.(readers) f.(writers) f.(posters) f.(msg_boundaries) f.(g_posted) f.(g_read).
Definition add_readers d (f : ipcp_flow) : ipcp_flow :=
  mk_flow f.(fl_state) f.(ipc_process) f.(sdu_ready) f.(wqs) (f.(readers) + d) f.(writers) f.(posters) f.(msg_boundaries) f.(g_posted) f.(g_read).
Definition add_writers d (f : ipcp_flow) : ipcp_flow :=
  mk_flow f.(fl_state) f.(ipc_process) f.(sdu_ready) f.(wqs) f.(readers) (f.(writers) + d) f.(posters) f.(msg_boundaries) f.(g_posted) f.(g_read).
Definition set_fifo q (f : ipcp_flow) : ipcp_flow :=
  mk_flow f.(fl_state) f.(ipc_process) q f.(wqs) f.(readers) f.(writers) f.(posters) f.(msg_boundaries) f.(g_posted) f.(g_read).
Definition set_bound ipcp q (f : ipcp_flow) : ipcp_flow :=
  mk_flow PORT_STATE_ALLOCATED ipcp q f.(wqs) f.(readers) f.(writers) f.(posters) f.(msg_boundaries) f.(g_posted) f.(g_read).
Definition posted (d : sdu) (f : ipcp_flow) : ipcp_flow :=
  mk_flow f.(fl_state) f.(ipc_process) f.(sdu_ready) f.(wqs) f.(readers) f.(writers) f.(posters) f.(msg_boundaries) (f.(g_posted) ++ [d]) f.(g_read).
Definition taken (d : sdu) (f : ipcp_flow) : ipcp_flow :=
  mk_flow f.(fl_state) f.(ipc_process) f.(sdu_ready) f.(wqs) f.(readers) f.(writers) f.(posters) f.(msg_boundaries) f.(g_posted) (f.(g_read) ++ [d]).

Definition in_state (s : flow_state) (f : ipcp_flow) : bool := bool_decide (f.(fl_state) = s).

(** ** The map of flows *)

Abbreviation pmap := hmap.

Definition kfa_pmap_find : pmap -> Z -> option nat := hmap_find.
Definition kfa_pmap_add : pmap -> Z -> nat -> pmap := hmap_add.
Definition kfa_pmap_remove : pmap -> Z -> pmap := hmap_remove.

Record kfa := mk_kfa {
  k_pidm : option Pidm.pidm;
  flows : pmap;
  heap : gmap nat ipcp_flow;
  next_addr : nat
}.

Definition upd (k : kfa) (a : nat) (f : ipcp_flow) : kfa := mk_kfa k.(k_pidm) k.(flows) (<[a := f]> k.(heap)) k.(next_addr).

(** ** Threads *)

(** What a writer keeps while the lock is not held: the flow, what is left to write and what was
    written, the size of an SDU, and whether it may sleep. *)
Record wr := mk_wr { w_addr : nat; w_id : Z; w_left : sdu; w_done : Z; w_max : Z; w_blocking : bool }.

Inductive thread :=
| RSleep (a : nat) (id size : Z) (awake : bool)
| RWoken (a : nat) (id size : Z) (signal : bool)
| WCopy (w : wr)                       (* it creates the next SDU *)
| WLock (w : wr)
| WSleep (w : wr) (awake : bool)
| WWoken (w : wr) (signal : bool)
| WOut (w : wr)                        (* in the write operation of the IPC process *)
| WBack (w : wr) (ok : bool)
| WUnlocked (w : wr) (retval : Z)      (* at the label [finish] without the lock *)
| PWake (a : nat)                      (* a poster behind its critical section *)
| DWake (a : nat).                     (* the worker that deallocates flows, likewise *)

(** Wake-ups: of the readers, of the writers, of all who sleep on a flow. *)
Inductive wake := WakeR (a : nat) | WakeW (a : nat) | WakeAll (a : nat).

Definition wake_thread (w : wake) (t : thread) : thread :=
  match w, t with
  | (WakeR a | WakeAll a), RSleep b id size _ => if decide (a = b) then RSleep b id size true else t
  | (WakeW a | WakeAll a), WSleep wr _ => if decide (a = wr.(w_addr)) then WSleep wr true else t
  | _, _ => t
  end.
Definition wake_threads (ws : list wake) (l : list thread) : list thread :=
  foldl (fun l w => wake_thread w <$> l) l ws.

(** How a section ends: it returns a value (and, when it reads, an SDU), or goes on. *)
Inductive outcome := Ret (v : Z) | RetSdu (v : Z) (d : sdu) | Next (t : thread).

(** The state, how the thread ends, whom it wakes up, work posted for the deallocation worker. *)
Definition result : Type := kfa * outcome * list wake * list Z.
Definition stop (k : kfa) (o : outcome) : result := (k, o, [], []).

(** [if (flow->wqs)]. *)
Definition wake_if (f : ipcp_flow) (w : list wake) : list wake := if f.(wqs) then w else [].

(** ** Destruction *)

Definition kfa_flow_destroy (k : kfa) (a : nat) (id : Z) (f : ipcp_flow) : kfa * list wake :=
  (mk_kfa (snd (Pidm.pidm_release k.(k_pidm) id)) (kfa_pmap_remove k.(flows) id) (base.delete a k.(heap)) k.(next_addr),
   wake_if f [WakeAll a]).

Definition unused (f : ipcp_flow) : bool := (f.(readers) =? 0) && (f.(writers) =? 0) && (f.(posters) =? 0).

(** The label [finish]: the counter of [f] was decremented. *)
Definition finish (k : kfa) (a : nat) (id : Z) (f : ipcp_flow) (o : outcome) : result :=
  if unused f && in_state PORT_STATE_DEALLOCATED f
  then let '(k, ws) := kfa_flow_destroy k a id f in (k, o, ws, [])
  else stop (upd k a f) o.

Definition leave_reader (k : kfa) (a : nat) (id : Z) (f : ipcp_flow) (o : outcome) : result :=
  finish k a id (add_readers (-1) f) o.
Definition leave_writer (k : kfa) (w : wr) (f : ipcp_flow) (retval : Z) : result :=
  finish k w.(w_addr) w.(w_id) (add_writers (-1) f) (Ret (if w.(w_done) =? 0 then retval else w.(w_done))).

(** The same without the lock, in the two parts between which others may run: the counter goes down,
    then the flow is looked at again. *)
Definition finish_dec (k : kfa) (w : wr) (f : ipcp_flow) : kfa := upd k w.(w_addr) (add_writers (-1) f).
Definition finish_test (k : kfa) (w : wr) (retval : Z) : option result :=
  f ← k.(heap) !! w.(w_addr);
  Some (finish k w.(w_addr) w.(w_id) f (Ret (if w.(w_done) =? 0 then retval else w.(w_done)))).

(** ** Reading *)

Definition queue_ready (f : ipcp_flow) : bool :=
  if in_state PORT_STATE_DEALLOCATED f then true
  else negb (in_state PORT_STATE_PENDING f) && negb (rfifo_is_empty f.(sdu_ready)).

(** [rfifo_peek] of a null or empty queue gives a null pointer, which [du_len] follows. *)
Definition get_du_to_read (f : ipcp_flow) (size : Z) : option (sdu * ipcp_flow) :=
  match rfifo_peek f.(sdu_ready) with
  | None => None
  | Some d =>
      if Z.of_nat (length d) <=? size then
        match rfifo_pop f.(sdu_ready) with
        | (Some d, q) => Some (d, taken d (set_fifo q f))
        | (None, _) => None
        end
      else Some (d, f)
  end.

Definition read_take (k : kfa) (a : nat) (id size : Z) (f : ipcp_flow) : option result :=
  '(d, f) ← get_du_to_read f size;
  Some (leave_reader k a id f (RetSdu (Z.of_nat (length d)) d)).

(** The head of the loop of a blocking read. *)
Definition read_loop (k : kfa) (a : nat) (id size : Z) (f : ipcp_flow) : option result :=
  if in_state PORT_STATE_PENDING f || rfifo_is_empty f.(sdu_ready)
  then Some (stop (upd k a f) (Next (RSleep a id size true)))
  else read_take k a id size f.

Definition kfa_flow_du_read (k : kfa) (id size : Z) (blocking : bool) : option result :=
  if negb (Pidm.is_port_id_ok id) then Some (stop k (Ret (- EINVAL)))
  else match kfa_pmap_find k.(flows) id with
  | None => Some (stop k (Ret (- EBADF)))
  | Some a =>
      f ← k.(heap) !! a;
      if in_state PORT_STATE_DEALLOCATED f then Some (stop k (Ret (- ESHUTDOWN)))
      else
        let f := add_readers 1 f in
        if blocking then
          if negb f.(wqs) then Some (leave_reader k a id f (Ret 0))
          else read_loop k a id size f
        else if in_state PORT_STATE_PENDING f then Some (leave_reader k a id f (Ret (- E_AGAIN)))
        else if rfifo_is_empty f.(sdu_ready) then Some (leave_reader k a id f (Ret (- E_AGAIN)))
        else read_take k a id size f
  end.

(** After the sleep: the flow is looked up again.  The body after the loop first tests the queue
    once more. *)
Definition read_woken (k : kfa) (id size : Z) (signal : bool) : option result :=
  match kfa_pmap_find k.(flows) id with
  | None => Some (stop k (Ret 0))
  | Some a =>
      f ← k.(heap) !! a;
      if negb f.(wqs) then Some (leave_reader k a id f (Ret 0))
      else if signal then Some (leave_reader k a id f (Ret (- ERESTARTSYS)))
      else if in_state PORT_STATE_DEALLOCATED f then
        if rfifo_is_empty f.(sdu_ready) then Some (leave_reader k a id f (Ret 0))
        else read_take k a id size f
      else read_loop k a id size f
  end.

(** ** Writing *)

Definition ok_write (f : ipcp_flow) : bool :=
  negb (in_state PORT_STATE_PENDING f || in_state PORT_STATE_DISABLED f) || in_state PORT_STATE_DEALLOCATED f.

(** [while (left)]: the lock is dropped before the next SDU is created. *)
Definition write_loop (k : kfa) (w : wr) (f : ipcp_flow) : result :=
  match w.(w_left) with
  | [] => leave_writer k w f 0
  | _ => stop (upd k w.(w_addr) f) (Next (WCopy w))
  end.

Section Write.
(* [max_sdu_size] of an IPC process *)
Context (max_sdu_size : Z -> Z).

Definition kfa_flow_ub_write (k : kfa) (id : Z) (data : sdu) (blocking : bool) : option result :=
  match kfa_pmap_find k.(flows) id with
  | None => Some (stop k (Ret (- EBADF)))
  | Some a =>
      f ← k.(heap) !! a;
      if in_state PORT_STATE_DEALLOCATED f then Some (stop k (Ret (- ESHUTDOWN)))
      else
        let max := max_sdu_size f.(ipc_process) in
        if f.(msg_boundaries) && (max <? Z.of_nat (length data)) then Some (stop k (Ret (- EMSGSIZE)))
        else Some (write_loop k (mk_wr a id data 0 max blocking) (add_writers 1 f))
  end.
End Write.

Definition copylen (w : wr) : Z := Z.min (Z.of_nat (length w.(w_left))) w.(w_max).

(** A blocking writer that holds the lock and an SDU. *)
Definition write_or_sleep (k : kfa) (w : wr) (f : ipcp_flow) : result :=
  stop k (Next (if ok_write f then WOut w else WSleep w true)).

Definition write_lock (k : kfa) (w : wr) : option result :=
  f ← k.(heap) !! w.(w_addr);
  if w.(w_blocking) then
    if negb f.(wqs) then Some (leave_writer k w f (- EBADF))
    else Some (write_or_sleep k w f)
  else if in_state PORT_STATE_PENDING f || in_state PORT_STATE_DISABLED f then Some (leave_writer k w f (- E_AGAIN))
  else if in_state PORT_STATE_DEALLOCATED f then Some (leave_writer k w f (- ESHUTDOWN))
  else Some (stop k (Next (WOut w))).

(** After the sleep.  Without a flow the label [finish] follows a null pointer. *)
Definition write_woken (k : kfa) (w : wr) (signal : bool) : option result :=
  a ← kfa_pmap_find k.(flows) w.(w_id);
  f ← k.(heap) !! a;
  let w := mk_wr a w.(w_id) w.(w_left) w.(w_done) w.(w_max) w.(w_blocking) in
  if negb f.(wqs) then Some (leave_writer k w f (- EBADF))
  else if signal then Some (leave_writer k w f (- ERESTARTSYS))
  else if in_state PORT_STATE_DEALLOCATED f then Some (leave_writer k w f (- ESHUTDOWN))
  else Some (write_or_sleep k w f).

Definition write_back (k : kfa) (w : wr) (ok : bool) : option result :=
  f ← k.(heap) !! w.(w_addr);
  if negb ok then Some (leave_writer k w f (- EIO))
  else
    let n := copylen w in
    Some (write_loop k (mk_wr w.(w_addr) w.(w_id) (drop (Z.to_nat n) w.(w_left)) (w.(w_done) + n) w.(w_max) w.(w_blocking)) f).

(** [kfa_flow_du_write]: one SDU that exists already, without sleeping.  It goes on as a writer
    whose SDU is all there is to write. *)
Section DuWrite.
Context (max_sdu_size : Z -> Z).

Definition kfa_flow_du_write (k : kfa) (id : Z) (d : sdu) : option result :=
  match kfa_pmap_find k.(flows) id with
  | None => Some (stop k (Ret (- EBADF)))
  | Some a =>
      f ← k.(heap) !! a;
      if in_state PORT_STATE_DEALLOCATED f then Some (stop k (Ret (- ESHUTDOWN)))
      else if max_sdu_size f.(ipc_process) <? Z.of_nat (length d) then Some (stop k (Ret (- EMSGSIZE)))
      else
        let w := mk_wr a id d 0 (Z.of_nat (length d)) false in
        let f := add_writers 1 f in
        if in_state PORT_STATE_PENDING f || in_state PORT_STATE_DISABLED f
        then Some (leave_writer k w f (- E_AGAIN))
        else Some (stop (upd k a f) (Next (WOut w)))
  end.
End DuWrite.

(** ** Posting, binding and notifications *)

(** The operations that begin with [is_port_id_ok] and [kfa_pmap_find] and give -1 without a flow. *)
Definition with_flow (k : kfa) (id : Z) (F : nat -> ipcp_flow -> result) : option result :=
  if negb (Pidm.is_port_id_ok id) then Some (stop k (Ret (-1)))
  else match kfa_pmap_find k.(flows) id with
  | None => Some (stop k (Ret (-1)))
  | Some a => f ← k.(heap) !! a; Some (F a f)
  end.

(** The number of posters goes up and down again under the lock. *)
Definition kfa_du_post (k : kfa) (id : Z) (d : sdu) (mem : bool) : option result :=
  with_flow k id (fun a f =>
    if in_state PORT_STATE_DEALLOCATED f then stop k (Ret (-1))
    else
      let '(r, q) := rfifo_push mem f.(sdu_ready) d in
      if r =? 0 then stop (upd k a (posted d (set_fifo q f))) (Next (PWake a))
      else stop (upd k a (set_fifo q f)) (Ret (-1))).

Definition kfa_flow_create (k : kfa) (pid ipcp : Z) (boundaries mem : bool) : kfa * Z :=
  if negb mem then (k, -1)
  else
    let f := mk_flow PORT_STATE_PENDING ipcp None false 0 0 0 boundaries [] [] in
    (mk_kfa k.(k_pidm) (kfa_pmap_add k.(flows) pid k.(next_addr)) (<[k.(next_addr) := f]> k.(heap)) (S k.(next_addr)), 0).

(** Without memory for the queue the flow is freed, whoever uses it. *)
Definition kfa_flow_ipcp_bind (k : kfa) (pid ipcp : Z) (mem : bool) : option result :=
  with_flow k pid (fun a f =>
    if mem then stop (upd k a (set_bound ipcp (rfifo_create_gfp true true) f)) (Ret 0)
    else stop (mk_kfa k.(k_pidm) (kfa_pmap_remove k.(flows) pid) (base.delete a k.(heap)) k.(next_addr)) (Ret (-1))).

Definition mark_deallocated (k : kfa) (id : Z) : option result :=
  with_flow k id (fun a f =>
    let f := set_fl_state PORT_STATE_DEALLOCATED f in
    let ws := wake_if f [WakeAll a] in
    if unused f then let '(k, ws') := kfa_flow_destroy k a id f in (k, Ret 0, ws ++ ws', [])
    else (upd k a f, Ret 0, ws, [id])).

(** A flow that is in use is left to the worker.  [data] and [item] say whether there is memory for
    the data of the work, which is not tested, and for its item; without the item the function
    returns with the lock held, and no section runs any more. *)
Definition kfa_flow_deallocate (k : kfa) (id : Z) (data item : bool) : option result :=
  r ← mark_deallocated k id;
  match r.2 with
  | [] => Some r
  | _ => if data && item then Some r else None
  end.

Definition kfa_flow_deallocate_worker (k : kfa) (id : Z) : option result :=
  if negb (Pidm.is_port_id_ok id) then Some (stop k (Ret (-1)))
  else match kfa_pmap_find k.(flows) id with
  | None => Some (stop k (Ret 0))
  | Some a =>
      f ← k.(heap) !! a;
      if negb (in_state PORT_STATE_DEALLOCATED f) then Some (stop k (Ret 0))
      else if unused f then let '(k, ws) := kfa_flow_destroy k a id f in Some (k, Ret 0, ws, [])
      else Some (stop k (Next (DWake a)))
  end.

Definition disable_write (k : kfa) (id : Z) : option result :=
  with_flow k id (fun a f =>
    if in_state PORT_STATE_DEALLOCATED f then stop k (Ret 0)
    else stop (upd k a (set_fl_state PORT_STATE_DISABLED f)) (Ret 0)).

Definition enable_write (k : kfa) (id : Z) : option result :=
  with_flow k id (fun a f =>
    if in_state PORT_STATE_DEALLOCATED f then stop k (Ret 0)
    else if in_state PORT_STATE_DISABLED f
    then (upd k a (set_fl_state PORT_STATE_ALLOCATED f), Ret 0, wake_if f [WakeW a], [])
    else stop k (Ret 0)).

Definition kfa_flow_set_iowqs (k : kfa) (id : Z) : option result :=
  with_flow k id (fun a f => stop (upd k a (set_wqs true f)) (Ret 0)).

Definition kfa_flow_cancel_iowqs (k : kfa) (id : Z) : option result :=
  with_flow k id (fun a f =>
    (upd k a (set_wqs false f), Ret (if f.(wqs) then 0 else -1), wake_if f [WakeAll a], [])).

Definition kfa_flow_exists (k : kfa) (id : Z) : bool := bool_decide (is_Some (kfa_pmap_find k.(flows) id)).

(** ** Port ids *)

Definition kfa_port_id_reserve (fuel : nat) (mem : bool) (k : kfa) : option (kfa * Z) :=
  '(id, p) ← Pidm.pidm_allocate fuel mem k.(k_pidm);
  Some (mk_kfa p k.(flows) k.(heap) k.(next_addr), id).

(** The port id of a flow is released with the flow. *)
Definition kfa_port_id_release (k : kfa) (id : Z) : kfa * Z :=
  if negb (Pidm.is_port_id_ok id) then (k, -1)
  else match kfa_pmap_find k.(flows) id with
  | Some _ => (k, 0)
  | None =>
      match k.(k_pidm) with
      | None => (k, -1)
      | Some _ =>
          let '(r, p) := Pidm.pidm_release k.(k_pidm) id in
          (mk_kfa p k.(flows) k.(heap) k.(next_addr), if r =? 0 then 0 else -1)
      end
  end.

(** ** Threads under way *)

(** What a step is told: nothing, that a signal is pending, how the creation of an SDU ended
    (an error number, or none), whether the IPC process took the SDU. *)
Inductive input := INone | ISignal | ICopy (error : option Z) | IOut (ok : bool).

(** [wait_event_interruptible]: [cond] is looked at when the thread runs. *)
Definition wait_event (cond awake : bool) (i : input) (asleep : thread) (woken : bool -> thread) : option thread :=
  match i with
  | INone => if awake then Some (if cond then woken false else asleep) else None
  | ISignal => Some (woken (negb cond))
  | _ => None
  end.

Definition section (k : kfa) (t : thread) (i : input) : option result :=
  match t with
  | RSleep a id size awake =>
      f ← k.(heap) !! a;
      t ← wait_event (queue_ready f) awake i (RSleep a id size false) (RWoken a id size);
      Some (stop k (Next t))
  | RWoken _ id size signal => read_woken k id size signal
  | WCopy w =>
      match i with
      | ICopy None => Some (stop k (Next (WLock w)))
      | ICopy (Some e) => Some (stop k (Next (WUnlocked w (- e))))
      | _ => None
      end
  | WLock w => write_lock k w
  | WSleep w awake =>
      f ← k.(heap) !! w.(w_addr);
      t ← wait_event (ok_write f) awake i (WSleep w false) (WWoken w);
      Some (stop k (Next t))
  | WWoken w signal => write_woken k w signal
  | WOut w => match i with IOut ok => Some (stop k (Next (WBack w ok))) | _ => None end
  | WBack w ok => write_back k w ok
  | WUnlocked w retval => f ← k.(heap) !! w.(w_addr); Some (leave_writer k w f retval)
  | PWake a => f ← k.(heap) !! a; Some (k, Ret 0, wake_if f [WakeR a], [])
  | DWake a => f ← k.(heap) !! a; Some (k, Ret 0, wake_if f [WakeAll a], [])
  end.

(** ** Calls *)

Inductive call :=
| CReserve (mem : bool)
| CRelease (id : Z)
| CCreate (pid ipcp : Z) (boundaries mem : bool)
| CBind (pid ipcp : Z) (mem : bool)
| CDealloc (id : Z) (data item : bool)
| CDisable (id : Z)
| CEnable (id : Z)
| CSet (id : Z)
| CCancel (id : Z)
| CRead (id size : Z) (blocking : bool)
| CWrite (id : Z) (data : sdu) (blocking : bool)
| CDuWrite (id : Z) (d : sdu)
| CPost (id : Z) (d : sdu) (mem : bool).

Section System.
Context (max_sdu_size : Z -> Z).

Definition call_section (k : kfa) (c : call) : option result :=
  match c with
  | CReserve mem => '(k, id) ← kfa_port_id_reserve Pidm.turn mem k; Some (stop k (Ret id))
  | CRelease id => let '(k, r) := kfa_port_id_release k id in Some (stop k (Ret r))
  | CCreate pid ipcp b mem => let '(k, r) := kfa_flow_create k pid ipcp b mem in Some (stop k (Ret r))
  | CBind pid ipcp mem => kfa_flow_ipcp_bind k pid ipcp mem
  | CDealloc id data item => kfa_flow_deallocate k id data item
  | CDisable id => disable_write k id
  | CEnable id => enable_write k id
  | CSet id => kfa_flow_set_iowqs k id
  | CCancel id => kfa_flow_cancel_iowqs k id
  | CRead id size b => kfa_flow_du_read k id size b
  | CWrite id d b => kfa_flow_ub_write max_sdu_size k id d b
  | CDuWrite id d => kfa_flow_du_write max_sdu_size k id d
  | CPost id d mem => kfa_du_post k id d mem
  end.

(** How the rest of the stack uses the KFA: a flow is created once, on a port id that was
    reserved; it is bound while it is pending, with memory for its queue; it is disabled only
    once bound; it is not deallocated before it is bound under the eyes of a reader. *)
Definition flow_at (k : kfa) (id : Z) : option ipcp_flow := kfa_pmap_find k.(flows) id ≫= (k.(heap) !!.).
Definition all_flow (P : ipcp_flow -> bool) (o : option ipcp_flow) : bool := match o with Some f => P f | None => true end.
Definition bound (f : ipcp_flow) : bool := match f.(sdu_ready) with Some _ => true | None => false end.
Definition reserved (k : kfa) (id : Z) : bool :=
  match k.(k_pidm) with Some p => bool_decide (id ∈ p.(Pidm.allocated_ports)) | None => false end.

Definition allowed (cancel : bool) (k : kfa) (c : call) : bool :=
  match c with
  | CCreate pid _ _ _ => reserved k pid && bool_decide (kfa_pmap_find k.(flows) pid = None)
  | CBind pid _ mem => mem && all_flow (in_state PORT_STATE_PENDING) (flow_at k pid)
  | CDealloc id _ _ => all_flow (fun f => bound f || (f.(readers) =? 0)) (flow_at k id)
  | CDisable id => all_flow bound (flow_at k id)
  | CCancel _ => cancel
  | _ => true
  end.

(** ** Steps *)

Record sys := mk_sys { s_kfa : kfa; threads : list thread; work : list Z }.

Definition next (o : outcome) : list thread := match o with Next t => [t] | _ => [] end.

(** The section of the thread between [l1] and [l2] ends with [r]; [w] is the work left. *)
Definition land (r : result) (l1 l2 : list thread) (w : list Z) : sys :=
  let '(k, o, ws, ids) := r in mk_sys k (wake_threads ws (l1 ++ next o ++ l2)) (w ++ ids).

Inductive kfa_step (cancel : bool) : sys -> sys -> Prop :=
| step_call s c r :
    allowed cancel s.(s_kfa) c = true -> call_section s.(s_kfa) c = Some r ->
    kfa_step cancel s (land r [] s.(threads) s.(work))
| step_thread s l1 t l2 i r :
    s.(threads) = l1 ++ t :: l2 -> section s.(s_kfa) t i = Some r ->
    kfa_step cancel s (land r l1 l2 s.(work))
| step_work s w1 id w2 r :
    s.(work) = w1 ++ id :: w2 -> kfa_flow_deallocate_worker s.(s_kfa) id = Some r ->
    kfa_step cancel s (land r [] s.(threads) (w1 ++ w2)).

(** [kfa_create]. *)
Definition kfa_create (mem : bool) : option kfa :=
  p ← Pidm.pidm_create mem; Some (mk_kfa (Some p) [] ∅ 0).

Definition kfa_init : sys := mk_sys (mk_kfa (Some (Pidm.mk_pidm [] 0)) [] ∅ 0) [] [].
Definition reachable (cancel : bool) (s : sys) : Prop := rtc (kfa_step cancel) kfa_init s.
End System.
