(* ===== verification/KfaInv.v ===== *)
(** * The invariant of the kernel flow allocator

    What holds in every reachable state of the transition system of [Kfa.v]: every flow is mapped
    once, a thread that reads or writes finds its flow mapped and not freed, the counters of a flow
    are the numbers of these threads, what was posted is what was read followed by what is queued, and a
    flow that was deallocated is still there only while somebody uses it. *)

From S2P Require Import Prelude Ids Rds Hmap Kfa.
From Stdlib Require Import ZArith Lia.
From stdpp Require Import base list numbers option gmap sets relations.
Import Rqueue Rfifo.
#[local] Open Scope Z_scope.

(** ** Who uses a flow *)

(** A reader ([true]) or writer that is counted, its flow and its port id. *)
Definition reg (t : thread) : option (bool * nat * Z) :=
  match t with
  | RSleep a id _ _ | RWoken a id _ _ => Some (true, a, id)
  | WCopy w | WLock w | WSleep w _ | WWoken w _ | WOut w | WBack w _ | WUnlocked w _ => Some (false, w.(w_addr), w.(w_id))
  | PWake _ | DWake _ => None
  end.

Abbreviation regs := (list (bool * nat * Z)).

Definition cnt (b : bool) (a : nat) (R : regs) : Z := Z.of_nat (length (filter (fun x => x.1 = (b, a)) R)).

Lemma cnt_app b a R1 R2 : cnt b a (R1 ++ R2) = cnt b a R1 + cnt b a R2.
Proof. unfold cnt. rewrite filter_app, length_app. lia. Qed.

Lemma cnt_nonneg b a R : 0 <= cnt b a R.
Proof. unfold cnt. lia. Qed.

Lemma cnt_one b a id b' a' : cnt b a [(b', a', id)] = if decide ((b', a') = (b, a)) then 1 else 0.
Proof. unfold cnt. rewrite filter_cons. case_decide as E; cbn in E; case_decide; try done. Qed.

Lemma cnt_nil b a : cnt b a [] = 0.
Proof. done. Qed.

Lemma cnt_zero b a id R : cnt b a R = 0 -> (b, a, id) ∉ R.
Proof.
  unfold cnt. intros E Hin. assert (filter (fun x : bool * nat * Z => x.1 = (b, a)) R = []) as E' by (apply length_zero_iff_nil; lia).
  assert ((b, a, id) ∈ filter (fun x : bool * nat * Z => x.1 = (b, a)) R) as Hf by by apply list_elem_of_filter.
  rewrite E' in Hf. by apply elem_of_nil in Hf.
Qed.

Lemma cnt_none b a R : (forall id, (b, a, id) ∉ R) -> cnt b a R = 0.
Proof.
  intros Hn. unfold cnt. induction R as [|[x id] R IH]; [done|]. rewrite filter_cons_False.
  - apply IH. intros id' Hin. apply (Hn id'). by right.
  - cbn. intros ->. apply (Hn id). left.
Qed.

(** All of [R] use the flow [a], under the port id [id]. *)
Definition at_flow (a : nat) (id : Z) (R : regs) : Prop := Forall (fun x => x.1.2 = a /\ x.2 = id) R.

Lemma at_flow_cnt a id R b a' : at_flow a id R -> a' ≠ a -> cnt b a' R = 0.
Proof.
  intros HR Hne. unfold cnt. induction R as [|[[b' a''] id'] R IH]; [done|].
  apply Forall_cons in HR as [[Hx _] HR]. rewrite filter_cons_False; [auto|]. cbn in *. congruence.
Qed.

Lemma at_flow_one b a id : at_flow a id [(b, a, id)].
Proof. by constructor. Qed.

#[export] Hint Resolve at_flow_one : irati.
#[export] Hint Rewrite cnt_app cnt_one cnt_nil : irati_rw.

(** ** The invariant *)

Definition queue_inv (f : ipcp_flow) (r : Z) : Prop :=
  match f.(sdu_ready) with
  | None => (f.(fl_state) = PORT_STATE_PENDING \/ f.(fl_state) = PORT_STATE_DEALLOCATED /\ r = 0) /\
            f.(g_posted) = [] /\ f.(g_read) = []
  | Some q => f.(fl_state) ≠ PORT_STATE_PENDING /\ f.(g_posted) = f.(g_read) ++ q.(Rfifo.q).(Rqueue.head)
  end.

Record flow_inv (f : ipcp_flow) (r w : Z) : Prop := {
  fi_readers : f.(readers) = r;
  fi_writers : f.(writers) = w;
  fi_posters : f.(posters) = 0;
  fi_used : f.(fl_state) = PORT_STATE_DEALLOCATED -> 0 < r + w;
  fi_queue : queue_inv f r
}.

Record kfa_inv (k : kfa) (R : regs) : Prop := {
  inv_ids : NoDup k.(flows).*1;
  inv_addrs : NoDup k.(flows).*2;
  inv_reserved id : id ∈ k.(flows).*1 -> reserved k id = true;
  inv_reg b a id : (b, a, id) ∈ R -> (id, a) ∈ k.(flows);
  inv_heap a f : k.(heap) !! a = Some f -> exists id, (id, a) ∈ k.(flows);
  inv_flow id a : (id, a) ∈ k.(flows) ->
    (a < k.(next_addr))%nat /\ exists f, k.(heap) !! a = Some f /\ flow_inv f (cnt true a R) (cnt false a R)
}.

(** A port has one flow. *)
Lemma inv_same_id k R id id' a : kfa_inv k R -> (id, a) ∈ k.(flows) -> (id', a) ∈ k.(flows) -> id = id'.
Proof. intros Hi. apply hmap_same_key, Hi. Qed.

Lemma inv_same_addr k R id a a' : kfa_inv k R -> (id, a) ∈ k.(flows) -> (id, a') ∈ k.(flows) -> a = a'.
Proof. intros Hi. apply hmap_same_addr, Hi. Qed.

Lemma inv_find k R id a : kfa_inv k R -> (id, a) ∈ k.(flows) -> kfa_pmap_find k.(flows) id = Some a.
Proof. intros Hi. apply hmap_elem_find, (inv_ids _ _ Hi). Qed.

(** ** One section

    [R1] and [R2] are the other threads, [old] what the thread of the section was counted as: the
    section uses the flow [a] of the port [id]. *)

Section Sections.
Context (R1 R2 : regs).

Definition others (new : regs) : regs := R1 ++ new ++ R2.

Lemma others_cnt a id old new b a' :
  at_flow a id old -> at_flow a id new -> a' ≠ a -> cnt b a' (others old) = cnt b a' (others new).
Proof.
  intros Ho Hn Hne. unfold others. rewrite !cnt_app.
  by rewrite (at_flow_cnt _ _ _ b a' Ho Hne), (at_flow_cnt _ _ _ b a' Hn Hne).
Qed.

Lemma others_reg a id old new x :
  at_flow a id new -> x ∈ others new -> x ∈ others old \/ x.1.2 = a /\ x.2 = id.
Proof.
  intros Hn. unfold others. rewrite !elem_of_app. intros [?|[Hx|?]]; [tauto| |tauto].
  right. by apply (proj1 (List.Forall_forall _ _) Hn), list_elem_of_In.
Qed.

Lemma inv_upd k a id f old new :
  kfa_inv k (others old) -> at_flow a id old -> at_flow a id new -> (id, a) ∈ k.(flows) ->
  flow_inv f (cnt true a (others new)) (cnt false a (others new)) ->
  kfa_inv (upd k a f) (others new).
Proof.
  intros Hi Ho Hn Hin Hf. split; cbn [upd flows heap next_addr k_pidm].
  - apply Hi.
  - apply Hi.
  - apply Hi.
  - intros b a' id' [Hx|[Ha Hid]]%(others_reg a id old); [|cbn in *; by subst|done]. by apply (inv_reg _ _ Hi) in Hx.
  - intros a' f'. destruct (decide (a' = a)) as [->|]; [by exists id|].
    rewrite lookup_insert_ne by done. apply (inv_heap _ _ Hi).
  - intros id' a' Hin'. destruct (inv_flow _ _ Hi _ _ Hin') as (Hlt & f' & Hf' & Hfi). split; [done|].
    destruct (decide (a' = a)) as [->|Hne].
    + exists f. by rewrite lookup_insert_eq.
    + exists f'. rewrite lookup_insert_ne by done.
      by rewrite !(others_cnt a id new old _ a') by done.
Qed.

Lemma reserved_release k id id' fl h n :
  id' ≠ id -> reserved k id' = true ->
  reserved (mk_kfa (snd (Pidm.pidm_release k.(k_pidm) id)) fl h n) id' = true.
Proof.
  unfold reserved, Pidm.pidm_release. cbn [k_pidm]. destruct (negb _); [done|].
  destruct (k_pidm k) as [p|]; [|done]. cbn. intros Hne Hr. apply bool_decide_eq_true in Hr.
  by apply bool_decide_eq_true, elem_of_remove_all.
Qed.

Lemma inv_destroy k a id f old :
  kfa_inv k (others old) -> at_flow a id old -> (id, a) ∈ k.(flows) ->
  cnt true a (others []) = 0 -> cnt false a (others []) = 0 ->
  kfa_inv (fst (kfa_flow_destroy k a id f)) (others []).
Proof.
  intros Hi Ho Hin Hr Hw. pose proof (inv_ids _ _ Hi) as Hnd.
  assert (forall id' a', (id', a') ∈ kfa_pmap_remove (flows k) id -> id' ≠ id /\ a' ≠ a) as Hrem.
  { intros id' a' Hx. assert (id' ≠ id) as Hne.
    { intros ->. eapply (hmap_remove_key (flows k) id Hnd), (list_elem_of_fmap_2 fst _ (id, a') Hx). }
    split; [done|]. intros ->. apply hmap_remove_sub in Hx. apply Hne. exact (inv_same_id _ _ _ _ _ Hi Hx Hin). }
  split; cbn [kfa_flow_destroy fst flows heap next_addr].
  - by apply hmap_remove_NoDup.
  - apply hmap_remove_NoDup, Hi.
  - intros id' ([id'' a'] & -> & Hx)%list_elem_of_fmap. apply reserved_release; [exact (proj1 (Hrem _ _ Hx))|].
    apply Hi. apply (list_elem_of_fmap_2 fst _ (id'', a')). by apply hmap_remove_sub in Hx.
  - intros b a' id' Hx. pose proof Hx as [Hx'|[Ha _]]%(others_reg a id old); [|cbn in Ha; subst a'|by constructor].
    + apply hmap_remove_ne; [by apply (inv_reg _ _ Hi) in Hx'|]. intros ->.
      assert (a' = a) as -> by (eapply inv_same_addr; [done|by apply (inv_reg _ _ Hi) in Hx'|done]).
      destruct b; by eapply cnt_zero in Hx.
    + destruct b; by eapply cnt_zero in Hx.
  - intros a' f' [Hne Hl]%lookup_delete_Some. destruct (inv_heap _ _ Hi _ _ Hl) as [id' Hin'].
    exists id'. apply hmap_remove_ne; [done|]. intros ->. apply Hne. exact (inv_same_addr _ _ _ _ _ Hi Hin Hin').
  - intros id' a' Hx. pose proof (Hrem _ _ Hx) as [_ Hne]. apply hmap_remove_sub in Hx.
    destruct (inv_flow _ _ Hi _ _ Hx) as (Hlt & f' & Hf' & Hfi). split; [done|]. exists f'.
    rewrite lookup_delete_ne by done. rewrite !(others_cnt a id [] old _ a') by (done || by constructor). done.
Qed.

(** What a section leaves behind; a section that faults satisfies no such thing. *)
Definition post (r : option result) : Prop :=
  match r with
  | Some (k, o, _, _) => kfa_inv k (others (omap reg (next o)))
  | None => False
  end.

(** The thread is counted as a reader ([b]) or a writer in [f], which is what the flow [a] will be. *)
Record pre (k : kfa) (a : nat) (id : Z) (b : bool) (f : ipcp_flow) : Prop := {
  pre_old : exists old, at_flow a id old /\ kfa_inv k (others old);
  pre_map : (id, a) ∈ k.(flows);
  pre_flow : flow_inv f (cnt true a (others [(b, a, id)])) (cnt false a (others [(b, a, id)]))
}.

Lemma others_one b a id b' :
  cnt b' a (others [(b, a, id)]) = cnt b' a (others []) + (if Bool.eqb b b' then 1 else 0).
Proof.
  unfold others. rewrite !cnt_app, cnt_one, cnt_nil. case_decide; destruct b, b'; simplify_eq; cbn; lia.
Qed.

Lemma pre_inside k a id b :
  kfa_inv k (others [(b, a, id)]) -> exists f, k.(heap) !! a = Some f /\ pre k a id b f /\ kfa_pmap_find k.(flows) id = Some a.
Proof.
  intros Hi. assert ((id, a) ∈ flows k) as Hin.
  { apply (inv_reg _ _ Hi b). unfold others. rewrite !elem_of_app. right. left. by apply list_elem_of_singleton. }
  destruct (inv_flow _ _ Hi _ _ Hin) as (_ & f & Hf & Hfi). exists f. split; [done|]. split.
  - split; [|done|done]. exists [(b, a, id)]. eauto with irati.
  - by eapply inv_find.
Qed.

Lemma inv_at k R id a :
  kfa_inv k R -> kfa_pmap_find k.(flows) id = Some a ->
  exists f, k.(heap) !! a = Some f /\ (id, a) ∈ k.(flows) /\ flow_inv f (cnt true a R) (cnt false a R).
Proof.
  intros Hi Hin%hmap_find_elem. destruct (inv_flow _ _ Hi _ _ Hin) as (_ & f & Hf & Hfi). by exists f.
Qed.

Lemma pre_join k a id b f :
  kfa_inv k (others []) -> (id, a) ∈ k.(flows) ->
  flow_inv f (cnt true a (others [])) (cnt false a (others [])) -> in_state PORT_STATE_DEALLOCATED f = false ->
  pre k a id b (if b then add_readers 1 f else add_writers 1 f).
Proof.
  intros Hi Hin [Hr Hw Hp Hu Hq] Hst. apply bool_decide_eq_false in Hst. split; [|done|].
  - exists []. split; [by constructor|done].
  - rewrite !others_one.
    destruct b; split; cbn; rewrite ?Z.add_0_r; try (intros; congruence); unfold queue_inv in *; cbn;
      (destruct (sdu_ready f); [done|]); tauto.
Qed.

Lemma pre_stay k a id b f t ws ids :
  pre k a id b f -> reg t = Some (b, a, id) -> post (Some (upd k a f, Next t, ws, ids)).
Proof.
  intros [(old & Ho & Hi) Hin Hf] Ht. cbn. rewrite Ht. by apply (inv_upd k a id f old); auto with irati.
Qed.

(** The flow is as it was: nothing is written back. *)
Lemma pre_keep k a id b t ws ids :
  kfa_inv k (others [(b, a, id)]) -> reg t = Some (b, a, id) -> post (Some (k, Next t, ws, ids)).
Proof. intros Hi Ht. cbn. by rewrite Ht. Qed.

Lemma finish_post k a id b f o :
  pre k a id b f -> next o = [] ->
  post (Some (finish k a id (if b then add_readers (-1) f else add_writers (-1) f) o)).
Proof.
  intros [(old & Ho & Hi) Hin [Hr Hw Hp Hu Hq]] Hn. rewrite !others_one in *.
  set (f' := if b then _ else _).
  assert (flow_inv f' (cnt true a (others [])) (cnt false a (others [])) \/
          unused f' && in_state PORT_STATE_DEALLOCATED f' = true) as Hf'.
  { destruct (unused f' && in_state PORT_STATE_DEALLOCATED f') eqn:E; [by right|left].
    pose proof (cnt_nonneg true a (others [])). pose proof (cnt_nonneg false a (others [])).
    apply andb_false_iff in E. unfold unused, in_state in E.
    subst f'. destruct b; cbn in *; (split; cbn; [lia|lia|lia| |]).
    - intros Hst. destruct E as [E|E]; [|by apply bool_decide_eq_false in E]. lia.
    - unfold queue_inv in *. cbn. destruct (sdu_ready f); [done|]. destruct Hq as [[?|[? ?]] ?]; [by auto|lia].
    - intros Hst. destruct E as [E|E]; [|by apply bool_decide_eq_false in E]. lia.
    - unfold queue_inv in *. cbn. rewrite Z.add_0_r in Hq. done. }
  unfold finish. destruct (unused f' && in_state PORT_STATE_DEALLOCATED f') eqn:E.
  - cbn. rewrite Hn. apply andb_prop in E as [E _]. unfold unused in E.
    apply (inv_destroy k a id f' old); try done; subst f'; destruct b; cbn in *; lia.
  - cbn. rewrite Hn. destruct Hf' as [Hf'|]; [|done]. apply (inv_upd k a id f' old); [done|done|by constructor|done|done].
Qed.

Lemma leave_reader_post k a id f o :
  pre k a id true f -> next o = [] -> post (Some (leave_reader k a id f o)).
Proof. apply finish_post. Qed.

Lemma leave_writer_post k w f r :
  pre k w.(w_addr) w.(w_id) false f -> post (Some (leave_writer k w f r)).
Proof. intros H. by apply (finish_post _ _ _ _ _ _ H). Qed.

(** ** Reading *)

Lemma get_du_to_read_post k a id f size :
  pre k a id true f -> in_state PORT_STATE_PENDING f = false -> rfifo_is_empty f.(sdu_ready) = false ->
  exists d f', get_du_to_read f size = Some (d, f') /\ pre k a id true f'.
Proof.
  intros [Hold Hin [Hr Hw Hp Hu Hq]] Hst He. apply bool_decide_eq_false in Hst.
  pose proof (cnt_nonneg true a (others [])).
  unfold get_du_to_read. destruct (sdu_ready f) as [[q]|] eqn:Eq; unfold queue_inv in Hq; rewrite Eq in Hq.
  2:{ destruct Hq as [[?|[_ Hz]] _]; [done|]. rewrite others_one in Hz. cbn in Hz. lia. }
  cbn in *. destruct Hq as [Hs Hg]. destruct (head q) as [|d l] eqn:Eh; [done|]. destruct (_ <=? size).
  - do 2 eexists. split; [done|]. split; [done|done|]. split; cbn; try done.
    unfold queue_inv. cbn. split; [done|]. rewrite Hg, <- app_assoc. done.
  - do 2 eexists. split; [done|]. split; [done|done|]. split; try done.
    unfold queue_inv. rewrite Eq. cbn. by rewrite Eh.
Qed.

Lemma read_take_post k a id size f :
  pre k a id true f -> in_state PORT_STATE_PENDING f = false -> rfifo_is_empty f.(sdu_ready) = false ->
  post (read_take k a id size f).
Proof.
  intros Hp Hs He. destruct (get_du_to_read_post _ _ _ _ size Hp Hs He) as (d & f' & E & Hp').
  unfold read_take. rewrite E. by apply leave_reader_post.
Qed.

Lemma read_loop_post k a id size f : pre k a id true f -> post (read_loop k a id size f).
Proof.
  intros Hp. unfold read_loop. destruct (in_state PORT_STATE_PENDING f) eqn:Es; [by apply (pre_stay _ a id true)|].
  destruct (rfifo_is_empty _) eqn:Ee; [by apply (pre_stay _ a id true)|]. by apply read_take_post.
Qed.

(** A section that leaves everything as it was. *)
Lemma post_same k o ws ids : kfa_inv k (others []) -> omap reg (next o) = [] -> post (Some (k, o, ws, ids)).
Proof. intros Hi Ho. cbn. by rewrite Ho. Qed.

Lemma du_read_post k id size blocking : kfa_inv k (others []) -> post (kfa_flow_du_read k id size blocking).
Proof.
  intros Hi. unfold kfa_flow_du_read. destruct (negb _); [by apply post_same|].
  destruct (kfa_pmap_find _ _) as [a|] eqn:Ef; [|by apply post_same].
  destruct (inv_at _ _ _ _ Hi Ef) as (f & Hf & Hin & Hfi). rewrite Hf. cbn [option_bind mbind].
  destruct (in_state PORT_STATE_DEALLOCATED f) eqn:Ed; [by apply post_same|].
  pose proof (pre_join _ _ _ true _ Hi Hin Hfi Ed) as Hp. cbn [option_bind mbind]. destruct blocking.
  - destruct (negb _); [by apply leave_reader_post|by apply read_loop_post].
  - destruct (in_state PORT_STATE_PENDING _) eqn:Es; [by apply leave_reader_post|].
    destruct (rfifo_is_empty _) eqn:Ee; [by apply leave_reader_post|by apply read_take_post].
Qed.

Lemma in_state_excl s s' f : in_state s f = true -> s ≠ s' -> in_state s' f = false.
Proof. unfold in_state. intros E%bool_decide_eq_true Hne. apply bool_decide_eq_false. congruence. Qed.

Lemma read_woken_post k a id size signal :
  kfa_inv k (others [(true, a, id)]) -> post (read_woken k id size signal).
Proof.
  intros Hi. destruct (pre_inside _ _ _ _ Hi) as (f & Hf & Hp & Efind). unfold read_woken. rewrite Efind, Hf.
  cbn [option_bind mbind]. destruct (negb _); [by apply leave_reader_post|].
  destruct signal; [by apply leave_reader_post|].
  destruct (in_state PORT_STATE_DEALLOCATED f) eqn:Ed; [|by apply read_loop_post].
  destruct (rfifo_is_empty _) eqn:Ee; [by apply leave_reader_post|].
  apply read_take_post; try done. by apply (in_state_excl PORT_STATE_DEALLOCATED).
Qed.

(** ** Writing *)

Lemma write_loop_post k w f : pre k w.(w_addr) w.(w_id) false f -> post (Some (write_loop k w f)).
Proof.
  intros Hp. unfold write_loop. destruct (w_left w); [by apply leave_writer_post|].
  by apply (pre_stay _ _ _ false _ _ _ _ Hp).
Qed.

Lemma ub_write_post max_sdu_size k id data blocking :
  kfa_inv k (others []) -> post (kfa_flow_ub_write max_sdu_size k id data blocking).
Proof.
  intros Hi. unfold kfa_flow_ub_write. destruct (kfa_pmap_find _ _) as [a|] eqn:Ef; [|by apply post_same].
  destruct (inv_at _ _ _ _ Hi Ef) as (f & Hf & Hin & Hfi). rewrite Hf. cbn [option_bind mbind].
  destruct (in_state PORT_STATE_DEALLOCATED f) eqn:Ed; [by apply post_same|].
  destruct (_ && _); [by apply post_same|]. apply write_loop_post. by apply (pre_join _ _ _ false).
Qed.

Lemma du_write_post max_sdu_size k id d : kfa_inv k (others []) -> post (kfa_flow_du_write max_sdu_size k id d).
Proof.
  intros Hi. unfold kfa_flow_du_write. destruct (kfa_pmap_find _ _) as [a|] eqn:Ef; [|by apply post_same].
  destruct (inv_at _ _ _ _ Hi Ef) as (f & Hf & Hin & Hfi). rewrite Hf. cbn [option_bind mbind].
  destruct (in_state PORT_STATE_DEALLOCATED f) eqn:Ed; [by apply post_same|].
  destruct (_ <? _); [by apply post_same|]. pose proof (pre_join _ _ _ false _ Hi Hin Hfi Ed) as Hp.
  destruct (_ || _); [by apply leave_writer_post|]. by apply (pre_stay _ a id false).
Qed.

Lemma write_or_sleep_post k w f :
  kfa_inv k (others [(false, w.(w_addr), w.(w_id))]) -> post (Some (write_or_sleep k w f)).
Proof. intros Hi. apply (pre_keep _ _ _ _ _ _ _ Hi). by destruct (ok_write f). Qed.

Lemma write_lock_post k w :
  kfa_inv k (others [(false, w.(w_addr), w.(w_id))]) -> post (write_lock k w).
Proof.
  intros Hi. destruct (pre_inside _ _ _ _ Hi) as (f & Hf & Hp & _). unfold write_lock. rewrite Hf.
  cbn [option_bind mbind]. destruct (w_blocking w).
  - destruct (negb _); [by apply leave_writer_post|by apply write_or_sleep_post].
  - destruct (_ || _); [by apply leave_writer_post|]. destruct (in_state _ _); [by apply leave_writer_post|].
    by apply (pre_keep _ _ _ _ _ _ _ Hi).
Qed.

Lemma write_woken_post k w signal :
  kfa_inv k (others [(false, w.(w_addr), w.(w_id))]) -> post (write_woken k w signal).
Proof.
  intros Hi. destruct (pre_inside _ _ _ _ Hi) as (f & Hf & Hp & Efind). unfold write_woken. rewrite Efind.
  cbn [option_bind mbind]. rewrite Hf. cbn [option_bind mbind].
  destruct (negb _); [by apply leave_writer_post|]. destruct signal; [by apply leave_writer_post|].
  destruct (in_state _ _); [by apply leave_writer_post|by apply write_or_sleep_post].
Qed.

Lemma write_back_post k w ok :
  kfa_inv k (others [(false, w.(w_addr), w.(w_id))]) -> post (write_back k w ok).
Proof.
  intros Hi. destruct (pre_inside _ _ _ _ Hi) as (f & Hf & Hp & _). unfold write_back. rewrite Hf.
  cbn [option_bind mbind]. destruct (negb ok); [by apply leave_writer_post|]. by apply write_loop_post.
Qed.

(** ** The other operations *)

Abbreviation counts f a := (flow_inv f (cnt true a (others [])) (cnt false a (others []))).

Lemma with_flow_post k id F :
  kfa_inv k (others []) ->
  (forall a f, k.(heap) !! a = Some f -> flow_at k id = Some f -> (id, a) ∈ k.(flows) -> counts f a ->
     post (Some (F a f))) ->
  post (with_flow k id F).
Proof.
  intros Hi HF. unfold with_flow. destruct (negb _); [by apply post_same|].
  destruct (kfa_pmap_find _ _) as [a|] eqn:Ef; [|by apply post_same].
  destruct (inv_at _ _ _ _ Hi Ef) as (f & Hf & Hin & Hfi). rewrite Hf. cbn [option_bind mbind].
  apply HF; try done. unfold flow_at. by rewrite Ef.
Qed.

Lemma post_upd k a id f o ws ids :
  kfa_inv k (others []) -> (id, a) ∈ k.(flows) -> counts f a -> omap reg (next o) = [] ->
  post (Some (upd k a f, o, ws, ids)).
Proof. intros Hi Hin Hf Ho. cbn. rewrite Ho. by eapply inv_upd; try done; constructor. Qed.

Lemma du_post_post k id d mem : kfa_inv k (others []) -> post (kfa_du_post k id d mem).
Proof.
  intros Hi. apply with_flow_post; [done|]. intros a f _ _ Hin [Hr Hw Hp Hu Hq].
  destruct (in_state PORT_STATE_DEALLOCATED f) eqn:Ed; [by apply post_same|].
  unfold queue_inv in Hq. destruct (sdu_ready f) as [[q]|] eqn:Eq.
  - destruct mem; cbn -[post]; (eapply post_upd; [done|done| |done]); split; cbn; try done; unfold queue_inv; cbn.
    destruct Hq as [? ->]. by rewrite app_assoc.
  - cbn -[post]. eapply post_upd; [done|done| |done]. split; cbn; try done.
Qed.

Lemma bind_post k pid ipcp :
  kfa_inv k (others []) -> all_flow (in_state PORT_STATE_PENDING) (flow_at k pid) = true ->
  post (kfa_flow_ipcp_bind k pid ipcp true).
Proof.
  intros Hi Hs. apply with_flow_post; [done|]. intros a f _ Efl Hin [Hr Hw Hp Hu Hq].
  rewrite Efl in Hs. cbn in Hs. apply bool_decide_eq_true in Hs.
  eapply post_upd; [done|done| |done]. split; cbn; try done.
  unfold queue_inv in *. cbn. split; [done|].
  destruct (sdu_ready f); [by destruct Hq|]. destruct Hq as (_ & -> & ->). done.
Qed.

Lemma unused_cnt f a R : flow_inv f (cnt true a R) (cnt false a R) -> unused f = true -> cnt true a R = 0 /\ cnt false a R = 0.
Proof. intros [Hr Hw Hp _ _]. unfold unused. lia. Qed.

Lemma destroy_post k a id f o ws ids :
  kfa_inv k (others []) -> (id, a) ∈ k.(flows) -> cnt true a (others []) = 0 -> cnt false a (others []) = 0 ->
  next o = [] -> post (Some (fst (kfa_flow_destroy k a id f), o, ws, ids)).
Proof. intros Hi Hin Hr Hw Ho. cbn. rewrite Ho. by apply (inv_destroy k a id f []); try done; constructor. Qed.

Lemma deallocate_post k id :
  kfa_inv k (others []) -> all_flow (fun f => bound f || (f.(readers) =? 0)) (flow_at k id) = true ->
  post (mark_deallocated k id).
Proof.
  intros Hi Hs. apply with_flow_post; [done|]. intros a f _ Efl Hin Hfi.
  rewrite Efl in Hs. cbn in Hs. cbv beta zeta. destruct (unused _) eqn:Eu.
  - destruct (unused_cnt _ _ _ Hfi Eu) as [Hr Hw]. by apply (destroy_post k a id f).
  - eapply post_upd; [done|done| |done]. destruct Hfi as [Hr Hw Hp Hu Hq].
    pose proof (cnt_nonneg true a (others [])). pose proof (cnt_nonneg false a (others [])).
    unfold unused in Eu. cbn in Eu. split; cbn; try done; [lia|].
    unfold queue_inv, bound in *. cbn. destruct (sdu_ready f); [by split; [|apply Hq]|].
    cbn in Hs. split; [|tauto]. right. split; [done|lia].
Qed.

Lemma deallocate_mem k id data item r :
  kfa_flow_deallocate k id data item = Some r -> mark_deallocated k id = Some r.
Proof.
  unfold kfa_flow_deallocate. destruct (mark_deallocated k id) as [r'|]; [|done]. cbn.
  destruct r'.2; [done|]. by destruct (data && item).
Qed.

Lemma worker_post k id : kfa_inv k (others []) -> post (kfa_flow_deallocate_worker k id).
Proof.
  intros Hi. unfold kfa_flow_deallocate_worker. destruct (negb _); [by apply post_same|].
  destruct (kfa_pmap_find _ _) as [a|] eqn:Ef; [|by apply post_same].
  destruct (inv_at _ _ _ _ Hi Ef) as (f & Hf & Hin & Hfi). rewrite Hf. cbn [option_bind mbind].
  destruct (negb _); [by apply post_same|]. destruct (unused f) eqn:Eu; [|by apply post_same].
  destruct (unused_cnt _ _ _ Hfi Eu) as [Hr Hw]. by apply (destroy_post k a id f).
Qed.

(** A change of the state, from or to neither pending nor deallocated. *)
Lemma set_state_counts f a st :
  counts f a -> in_state PORT_STATE_DEALLOCATED f = false -> bound f = true ->
  st ≠ PORT_STATE_PENDING -> st ≠ PORT_STATE_DEALLOCATED -> counts (set_fl_state st f) a.
Proof.
  intros [Hr Hw Hp Hu Hq] Hs Hb H1 H2. split; cbn; try done.
  unfold queue_inv, bound in *. cbn. by destruct (sdu_ready f); [split; [|apply Hq]|].
Qed.

Lemma disable_post k id :
  kfa_inv k (others []) -> all_flow bound (flow_at k id) = true -> post (disable_write k id).
Proof.
  intros Hi Hs. apply with_flow_post; [done|]. intros a f _ Efl Hin Hfi. rewrite Efl in Hs.
  destruct (in_state PORT_STATE_DEALLOCATED f) eqn:Ed; [by apply post_same|].
  eapply post_upd; [done|done| |done]. by apply set_state_counts.
Qed.

Lemma disabled_bound f r w : flow_inv f r w -> in_state PORT_STATE_DISABLED f = true -> bound f = true.
Proof.
  intros [_ _ _ _ Hq] Hs%bool_decide_eq_true. unfold queue_inv, bound in *.
  destruct (sdu_ready f); [done|]. rewrite Hs in Hq. naive_solver.
Qed.

Lemma enable_post k id : kfa_inv k (others []) -> post (enable_write k id).
Proof.
  intros Hi. apply with_flow_post; [done|]. intros a f _ Efl Hin Hfi.
  destruct (in_state PORT_STATE_DEALLOCATED f) eqn:Ed; [by apply post_same|].
  destruct (in_state PORT_STATE_DISABLED f) eqn:Es; [|by apply post_same].
  eapply post_upd; [done|done| |done]. apply set_state_counts; try done. by eapply disabled_bound.
Qed.

Lemma set_wqs_counts f a v : counts f a -> counts (set_wqs v f) a.
Proof. by intros []; split. Qed.

Lemma set_iowqs_post k id : kfa_inv k (others []) -> post (kfa_flow_set_iowqs k id).
Proof.
  intros Hi. apply with_flow_post; [done|]. intros a f _ _ Hin Hfi.
  eapply post_upd; [done|done| |done]. by apply set_wqs_counts.
Qed.

Lemma cancel_iowqs_post k id : kfa_inv k (others []) -> post (kfa_flow_cancel_iowqs k id).
Proof.
  intros Hi. apply with_flow_post; [done|]. intros a f _ _ Hin Hfi.
  eapply post_upd; [done|done| |done]. by apply set_wqs_counts.
Qed.

(** The port ids of flows stay reserved. *)
Lemma inv_pidm k p :
  kfa_inv k (others []) ->
  (forall id, id ∈ k.(flows).*1 -> reserved k id = true -> reserved (mk_kfa p k.(flows) k.(heap) k.(next_addr)) id = true) ->
  kfa_inv (mk_kfa p k.(flows) k.(heap) k.(next_addr)) (others []).
Proof. intros [] Hp. split; cbn; eauto. Qed.

Lemma reserve_post k mem k' id :
  kfa_inv k (others []) -> kfa_port_id_reserve Pidm.turn mem k = Some (k', id) -> kfa_inv k' (others []).
Proof.
  intros Hi. unfold kfa_port_id_reserve, Pidm.pidm_allocate. destruct (k_pidm k) as [p|] eqn:Ep.
  2:{ cbn. intros [= <- _]. apply inv_pidm; [done|]. intros id' _. unfold reserved. by rewrite Ep. }
  destruct (Pidm.pidm_allocate_loop _ _ _) as [pid|]; [|done]. destruct mem; cbn; intros [= <- _]; apply inv_pidm; try done;
    intros id' _; unfold reserved; rewrite Ep; cbn; [|done].
  intros H%bool_decide_eq_true. apply bool_decide_eq_true. by right.
Qed.

Lemma release_post k id : kfa_inv k (others []) -> kfa_inv (fst (kfa_port_id_release k id)) (others []).
Proof.
  intros Hi. unfold kfa_port_id_release. destruct (negb _); [done|].
  destruct (kfa_pmap_find _ _) eqn:Ef; [done|]. destruct (k_pidm k) as [p|] eqn:Ep; [|done].
  destruct (Pidm.pidm_release (Some p) id) as [r p'] eqn:Er. cbn. apply inv_pidm; [done|].
  intros id' Hid' Hr. assert (p' = snd (Pidm.pidm_release (k_pidm k) id)) as -> by by rewrite Ep, Er.
  apply reserved_release; [|done]. intros ->. by apply hmap_find_None in Ef.
Qed.

Lemma create_post k pid ipcp b mem :
  kfa_inv k (others []) -> reserved k pid = true -> kfa_pmap_find k.(flows) pid = None ->
  kfa_inv (fst (kfa_flow_create k pid ipcp b mem)) (others []).
Proof.
  intros Hi Hres Hn%hmap_find_None. unfold kfa_flow_create. destruct mem; [|done]. cbn.
  assert (forall id a, (id, a) ∈ flows k -> a ≠ next_addr k) as Hne.
  { intros id a Hin. destruct (inv_flow _ _ Hi _ _ Hin) as [Hlt _]. lia. }
  assert (forall b', cnt b' (next_addr k) (others []) = 0) as Hz.
  { intros b'. apply cnt_none. intros id Hin%(inv_reg _ _ Hi). by eapply Hne. }
  split; cbn.
  - apply NoDup_cons. split; [done|apply Hi].
  - apply NoDup_cons. split; [|apply Hi]. intros ([id a] & E & Hin)%list_elem_of_fmap. by eapply Hne.
  - intros id [->|Hin]%elem_of_cons; [done|by apply (inv_reserved _ _ Hi)].
  - intros b' a id Hin. right. by eapply (inv_reg _ _ Hi).
  - intros a f. destruct (decide (a = next_addr k)) as [->|Ha]; [exists pid; left|].
    rewrite lookup_insert_ne by done. intros Hl. destruct (inv_heap _ _ Hi _ _ Hl) as [id ?]. exists id. by right.
  - intros id a [[= -> ->]|Hin]%elem_of_cons.
    + split; [lia|]. eexists. rewrite lookup_insert_eq. split; [done|]. rewrite !Hz. by repeat (split; auto).
    + pose proof (Hne _ _ Hin). destruct (inv_flow _ _ Hi _ _ Hin) as (? & f & ? & ?). split; [lia|].
      exists f. by rewrite lookup_insert_ne.
Qed.
End Sections.

(** ** Steps *)

Lemma wake_thread_reg w t : reg (wake_thread w t) = reg t.
Proof. destruct w, t; cbn; try done; by case_decide. Qed.

Lemma wake_threads_regs ws l : omap reg (wake_threads ws l) = omap reg l.
Proof.
  revert l. induction ws as [|w ws IH]; intros l; cbn; [done|]. unfold wake_threads in IH. rewrite IH.
  induction l as [|t l IHl]; cbn; [done|]. by rewrite wake_thread_reg, IHl.
Qed.

Definition sys_inv (s : sys) : Prop := kfa_inv s.(s_kfa) (omap reg s.(threads)).

Lemma post_land l1 l2 w r :
  post (omap reg l1) (omap reg l2) (Some r) -> sys_inv (land r l1 l2 w).
Proof.
  destruct r as [[[k o] ws] ids]. unfold post, sys_inv, land, others. cbn [s_kfa threads].
  by rewrite wake_threads_regs, !omap_app.
Qed.

(** Threads whose next section holds the lock or only looks at a flow that counts them. *)
Definition counted (t : thread) : bool := match reg t with Some _ => true | None => false end.

(** The inputs a thread waits for. *)
Definition ready (t : thread) (i : input) : bool :=
  match t, i with
  | (RSleep _ _ _ true | WSleep _ true), INone => true
  | (RSleep _ _ _ _ | WSleep _ _), ISignal => true
  | WCopy _, ICopy _ => true
  | WOut _, IOut _ => true
  | (RWoken _ _ _ _ | WLock _ | WWoken _ _ | WBack _ _ | WUnlocked _ _ | PWake _ | DWake _), _ => true
  | _, _ => false
  end.

Lemma wait_event_post R1 R2 k cond awake i asleep woken b a id :
  kfa_inv k (others R1 R2 [(b, a, id)]) -> reg asleep = Some (b, a, id) -> (forall s, reg (woken s) = Some (b, a, id)) ->
  match i with INone => awake | ISignal => true | _ => false end = true ->
  post R1 R2 (t ← wait_event cond awake i asleep woken; Some (stop k (Next t))).
Proof.
  intros Hi Ha Hw Hr. unfold wait_event. destruct i; try done.
  - rewrite Hr. destruct cond; cbn [mbind option_bind]; by apply (pre_keep _ _ _ _ _ _ _ _ _ Hi).
  - by apply (pre_keep _ _ _ _ _ _ _ _ _ Hi).
Qed.

Lemma counted_post R1 R2 k t i x :
  reg t = Some x -> kfa_inv k (others R1 R2 [x]) -> ready t i = true -> post R1 R2 (section k t i).
Proof.
  intros Ht Hi Hr. destruct t; cbn in Ht; simplify_eq; cbn [section].
  - destruct (pre_inside _ _ _ _ _ _ Hi) as (f & -> & _). cbn [mbind option_bind].
    eapply wait_event_post; try done. by destruct i, awake.
  - by eapply read_woken_post.
  - destruct i as [| |[e|]|]; try done; by apply (pre_keep _ _ _ _ _ _ _ _ _ Hi).
  - by apply write_lock_post.
  - destruct (pre_inside _ _ _ _ _ _ Hi) as (f & -> & _). cbn [mbind option_bind].
    eapply wait_event_post; try done. by destruct i, awake.
  - by apply write_woken_post.
  - destruct i; try done; by apply (pre_keep _ _ _ _ _ _ _ _ _ Hi).
  - by apply write_back_post.
  - destruct (pre_inside _ _ _ _ _ _ Hi) as (f & -> & Hp & _). by apply leave_writer_post.
Qed.

(** A section that has a result was given what it waits for. *)
Lemma section_ready k t i r : section k t i = Some r -> ready t i = true.
Proof.
  destruct t, i; cbn [section ready]; try done; try (by destruct awake);
    destruct (heap k !! _); cbn; try done; by destruct awake.
Qed.

Lemma section_post R1 R2 k t i r :
  kfa_inv k (others R1 R2 (omap reg [t])) -> section k t i = Some r -> post R1 R2 (Some r).
Proof.
  intros Hi E. rewrite <- E. destruct (reg t) as [x|] eqn:Et; cbn in Hi; rewrite Et in Hi.
  - eapply counted_post; [done|done|]. by eapply section_ready.
  - destruct t; cbn in Et; simplify_eq; cbn in E |- *; destruct (heap k !! a); cbn in *; by simplify_eq.
Qed.

Section Runs.
Context (max_sdu_size : Z -> Z).

(** An allowed call returns, unless it searches for a port id and all are taken. *)
Lemma call_post R1 R2 cancel k c :
  kfa_inv k (others R1 R2 []) -> allowed cancel k c = true ->
  call_section max_sdu_size k c = None \/
  post R1 R2 (call_section max_sdu_size k c).
Proof.
  intros Hi Ha. destruct c; cbn [call_section]; cbn [allowed] in Ha; try (right; auto using enable_post, set_iowqs_post,
    cancel_iowqs_post, du_read_post, ub_write_post, du_write_post, du_post_post, disable_post; done).
  - destruct (kfa_port_id_reserve _ _ _) as [[k' id]|] eqn:E; [right|by left]. by eapply reserve_post.
  - right. pose proof (release_post _ _ k id Hi) as H. by destruct (kfa_port_id_release k id).
  - right. apply andb_prop in Ha as [Hr Hn%bool_decide_eq_true].
    pose proof (create_post _ _ k pid ipcp boundaries mem Hi Hr Hn) as H. by destruct (kfa_flow_create _ _ _ _ _).
  - right. apply andb_prop in Ha as [-> Hs]. by apply bind_post.
  - destruct (kfa_flow_deallocate k id data item) as [r|] eqn:E; [right|by left].
    rewrite <- (deallocate_mem _ _ _ _ _ E). by apply deallocate_post.
Qed.

Lemma step_inv cancel s s' : sys_inv s -> kfa_step max_sdu_size cancel s s' -> sys_inv s'.
Proof.
  intros Hi Hs. destruct Hs as [s c r Ha Hr|s l1 t l2 i r Ht Hr|s w1 id w2 r Hw Hr].
  - apply post_land. rewrite <- Hr. destruct (call_post [] (omap reg (threads s)) _ _ _ Hi Ha) as [E|]; [|done].
    by rewrite E in Hr.
  - apply post_land. eapply section_post; [|done]. unfold sys_inv in Hi.
    unfold others. rewrite <- !omap_app. by rewrite Ht in Hi.
  - apply post_land. rewrite <- Hr. by apply worker_post.
Qed.

Lemma init_inv : sys_inv kfa_init.
Proof.
  split; cbn; try by constructor.
  - by intros id ?%elem_of_nil.
  - by intros b a id ?%elem_of_nil.
  - intros a f. by rewrite lookup_empty.
  - by intros id a ?%elem_of_nil.
Qed.

Lemma kfa_reachable_inv cancel s : reachable max_sdu_size cancel s -> sys_inv s.
Proof.
  intros Hr. eapply (rtc_ind_r (fun s => sys_inv s)); [apply init_inv| |exact Hr].
  intros y z _ Hs Hy. by eapply step_inv.
Qed.

Lemma threads_split s i t :
  s.(threads) !! i = Some t ->
  omap reg s.(threads) = others (omap reg (take i s.(threads))) (omap reg (drop (S i) s.(threads))) (omap reg [t]).
Proof. intros Ht. unfold others. rewrite <- !omap_app. f_equal. symmetry. by apply take_drop_middle. Qed.

(** C12: When flows are used as the stack uses them ([allowed]: created once on a reserved port
    id, bound once and with memory, disabled only once bound, not deallocated while they are
    pending and have readers), then whatever readers, writers, posters and the deallocation
    worker do, in whatever order of their critical sections: a thread that reads or writes finds
    its flow mapped under its port and not freed, so that its next section has a result; the
    counters of a flow are the numbers of such threads; a flow that was deallocated is kept only
    while somebody uses it; every flow in memory is mapped, and the port id of a flow is never
    free for another. Without these conditions the code faults ([kfa_pending_reader_null]); the
    label [finish] without the lock is one section here ([kfa_finish_races]). *)
Theorem kfa_flows_safe (cancel : bool) (s : sys) :
  reachable max_sdu_size cancel s ->
  (forall j t b a id i, s.(threads) !! j = Some t -> reg t = Some (b, a, id) ->
     kfa_pmap_find s.(s_kfa).(flows) id = Some a /\ is_Some (s.(s_kfa).(heap) !! a) /\
     (ready t i = true -> is_Some (section s.(s_kfa) t i))) /\
  (forall a f, s.(s_kfa).(heap) !! a = Some f ->
     f.(readers) = cnt true a (omap reg s.(threads)) /\ f.(writers) = cnt false a (omap reg s.(threads)) /\
     (f.(fl_state) = PORT_STATE_DEALLOCATED -> 0 < f.(readers) + f.(writers)) /\
     exists id, kfa_pmap_find s.(s_kfa).(flows) id = Some a /\ reserved s.(s_kfa) id = true).
Proof.
  intros Hi%kfa_reachable_inv. split.
  - intros j t b a id i Ht Hreg. unfold sys_inv in Hi. rewrite (threads_split _ _ _ Ht) in Hi. cbn in Hi. rewrite Hreg in Hi.
    destruct (pre_inside _ _ _ _ _ _ Hi) as (f & Hf & _ & Hfind). split_and!; [done|by exists f|]. intros Hr.
    pose proof (counted_post _ _ _ _ _ _ Hreg Hi Hr) as Hp. destruct (section _ t i); [by eexists|done].
  - intros a f Hf. destruct (inv_heap _ _ Hi _ _ Hf) as [id Hin].
    destruct (inv_flow _ _ Hi _ _ Hin) as (_ & f' & Hf' & [Hr Hw _ Hu _]). simplify_eq. split_and!; [done..| |].
    { intros Hd. specialize (Hu Hd). lia. }
    exists id. split; [by eapply inv_find|]. apply (inv_reserved _ _ Hi). by apply (list_elem_of_fmap_2 fst _ (id, a)).
Qed.

(** C13: When flows are used as the stack uses them ([allowed]; in particular a bound flow is
    not bound again, which would lose its queue), what was posted to a flow is, in order, what
    its readers took followed by what is queued: no SDU is lost, duplicated or overtaken, and a
    flow that is not bound yet has none. *)
Theorem kfa_fifo_order (cancel : bool) (s : sys) (a : nat) (f : ipcp_flow) :
  reachable max_sdu_size cancel s -> s.(s_kfa).(heap) !! a = Some f ->
  f.(g_posted) = f.(g_read) ++ match f.(sdu_ready) with Some q => q.(Rfifo.q).(Rqueue.head) | None => [] end.
Proof.
  intros Hi%kfa_reachable_inv Hf. destruct (inv_heap _ _ Hi _ _ Hf) as [id Hin].
  destruct (inv_flow _ _ Hi _ _ Hin) as (_ & f' & Hf' & [_ _ _ _ Hq]). simplify_eq.
  unfold queue_inv in Hq. destruct (sdu_ready f); [apply Hq|]. by destruct Hq as (_ & -> & ->).
Qed.
End Runs.
