(* ===== verification/KfaWake.v ===== *)
(** * The readers of the kernel flow allocator are woken up

    Over the transition system of [Kfa.v], without [kfa_flow_cancel_iowqs]: a reader sleeps on a flow
    only as long as the flow has nothing for it, or a poster is on its way to wake it up. *)

From S2P Require Import Prelude Ids Rds Kfa KfaInv.
From Stdlib Require Import ZArith Lia.
From stdpp Require Import base list numbers option gmap sets relations.
Import Rqueue Rfifo.
#[local] Open Scope Z_scope.

(** ** What a wake-up does to the threads *)

Definition wakes (a : nat) (ws : list wake) : Prop := WakeR a ∈ ws \/ WakeAll a ∈ ws.

Lemma wake_thread_asleep w t a id size aw :
  wake_thread w t = RSleep a id size aw ->
  exists aw0, t = RSleep a id size aw0 /\ (aw = false -> aw0 = false /\ w ≠ WakeR a /\ w ≠ WakeAll a).
Proof.
  destruct w, t; cbn; try done; try case_decide; intros E; simplify_eq; eexists; (split; [done|]); intros Haw; try discriminate Haw;
    split_and!; congruence.
Qed.

Lemma wake_threads_asleep ws l a id size aw :
  RSleep a id size aw ∈ wake_threads ws l ->
  exists aw0, RSleep a id size aw0 ∈ l /\ (aw = false -> aw0 = false /\ ~ wakes a ws).
Proof.
  revert l. induction ws as [|w ws IH]; intros l Hin.
  - exists aw. split; [done|]. intros ->. split; [done|]. by intros [?%elem_of_nil|?%elem_of_nil].
  - apply (IH (wake_thread w <$> l)) in Hin as (aw1 & (t & Et & Hin)%list_elem_of_fmap & H1).
    symmetry in Et. apply wake_thread_asleep in Et as (aw0 & -> & H0). exists aw0. split; [done|].
    intros ->. destruct (H1 eq_refl) as [-> Hn]. destruct (H0 eq_refl) as (-> & HR & HA). split; [done|].
    unfold wakes in *. rewrite !elem_of_cons. intros [[E|?]|[E|?]]; try congruence; tauto.
Qed.

Lemma wake_threads_poster ws l a : PWake a ∈ l -> PWake a ∈ wake_threads ws l.
Proof.
  revert l. induction ws as [|w ws IH]; intros l Hin; [done|]. apply IH.
  apply list_elem_of_fmap. exists (PWake a). split; [by destruct w|done].
Qed.

(** ** What a section does to the flows *)

(** A flow keeps its wait queues and gets nothing for readers. *)
Definition calm (f f' : ipcp_flow) : Prop :=
  (f.(wqs) = true -> f'.(wqs) = true) /\ (queue_ready f' = true -> queue_ready f = true).

Definition sleeper_ok (k : kfa) (o : outcome) : Prop :=
  match o with
  | Next (RSleep a _ _ aw) =>
      forall f, k.(heap) !! a = Some f -> f.(wqs) = true /\ (aw = false -> queue_ready f = false)
  | _ => True
  end.

(** Flows with wait queues keep them; a flow gets something for its readers only when they are
    woken up or when the thread is about to do so; who goes to sleep has a reason. *)
Definition wake_ok (k : kfa) (r : result) : Prop :=
  let '(k', o, ws, _) := r in
  (forall a f f', k.(heap) !! a = Some f -> k'.(heap) !! a = Some f' -> f.(wqs) = true ->
     f'.(wqs) = true /\ (queue_ready f' = true -> queue_ready f = true \/ o = Next (PWake a) \/ wakes a ws)) /\
  sleeper_ok k' o.

Lemma calm_refl f : calm f f.
Proof. by split. Qed.

Lemma wake_ok_same k o ws ids : sleeper_ok k o -> wake_ok k (k, o, ws, ids).
Proof. intros Ho. split; [|done]. intros a f f' Hf Hf' Hw. simplify_eq. tauto. Qed.

Lemma wake_ok_upd k a f f' o ws ids :
  k.(heap) !! a = Some f -> calm f f' -> sleeper_ok (upd k a f') o -> wake_ok k (upd k a f', o, ws, ids).
Proof.
  intros Hf [Hc Hq] Ho. split; [|done]. intros b g g' Hg Hg' Hw. cbn in Hg'.
  destruct (decide (b = a)) as [->|]; [rewrite lookup_insert_eq in Hg'|rewrite lookup_insert_ne in Hg' by done];
    simplify_eq; tauto.
Qed.

Lemma wake_ok_destroy k a id f o ws ids :
  sleeper_ok (fst (kfa_flow_destroy k a id f)) o -> wake_ok k (fst (kfa_flow_destroy k a id f), o, ws, ids).
Proof.
  intros Ho. split; [|done]. intros b g g' Hg Hg' Hw. cbn in Hg'. apply lookup_delete_Some in Hg' as [_ Hg'].
  simplify_eq. tauto.
Qed.

Lemma wake_ok_finish k a id f f' o :
  k.(heap) !! a = Some f -> calm f f' -> next o = [] -> wake_ok k (finish k a id f' o).
Proof.
  intros Hf Hc Ho. assert (forall k, sleeper_ok k o) by (intros k'; destruct o; done).
  unfold finish. destruct (_ && _); [by apply (wake_ok_destroy _ _ _ f')|]. by eapply wake_ok_upd.
Qed.

(** The counters of readers and writers do not matter. *)
Lemma calm_readers f d f' : calm f f' -> calm f (add_readers d f').
Proof. done. Qed.
Lemma calm_writers f d f' : calm f f' -> calm f (add_writers d f').
Proof. done. Qed.
#[export] Hint Resolve calm_refl calm_readers calm_writers : irati.

Lemma leave_reader_wake k a id f f' o :
  k.(heap) !! a = Some f -> calm f f' -> next o = [] -> wake_ok k (leave_reader k a id f' o).
Proof. intros Hf Hc. by apply (wake_ok_finish _ _ _ f); [|auto with irati]. Qed.

Lemma leave_writer_wake k w f f' r :
  k.(heap) !! w.(w_addr) = Some f -> calm f f' -> wake_ok k (leave_writer k w f' r).
Proof. intros Hf Hc. by apply (wake_ok_finish _ _ _ f); [|auto with irati|]. Qed.

(** ** Reading *)

Lemma get_du_to_read_calm f size d f' : get_du_to_read f size = Some (d, f') -> calm f f'.
Proof.
  unfold get_du_to_read, calm, queue_ready, in_state. destruct (sdu_ready f) as [[[[|d' l] n]]|] eqn:Eq; cbn; try done.
  destruct (_ <=? size); intros [= <- <-]; cbn; rewrite ?Eq; cbn; [|done]. split; [done|].
  destruct (bool_decide (fl_state f = _)); [done|]. destruct (bool_decide (fl_state f = _)); done.
Qed.

Lemma read_take_wake k a id size f f' r :
  k.(heap) !! a = Some f -> calm f f' -> read_take k a id size f' = Some r -> wake_ok k r.
Proof.
  intros Hf Hc. unfold read_take. destruct (get_du_to_read f' size) as [[d f2]|] eqn:E; [|done].
  intros [= <-]. apply get_du_to_read_calm in E. eapply leave_reader_wake; try done. unfold calm in *. tauto.
Qed.

Lemma read_loop_wake k a id size f f' r :
  k.(heap) !! a = Some f -> calm f f' -> f'.(wqs) = true -> read_loop k a id size f' = Some r -> wake_ok k r.
Proof.
  intros Hf Hc Hw. unfold read_loop. destruct (_ || _); [|by apply (read_take_wake _ _ _ _ f)].
  intros [= <-]. eapply wake_ok_upd; try done. cbn. intros g. rewrite lookup_insert_eq. intros [= <-]. done.
Qed.

Lemma du_read_wake k id size blocking r : kfa_flow_du_read k id size blocking = Some r -> wake_ok k r.
Proof.
  unfold kfa_flow_du_read. destruct (negb _); [intros [= <-]; by apply wake_ok_same|].
  destruct (kfa_pmap_find _ _) as [a|]; [|intros [= <-]; by apply wake_ok_same].
  destruct (heap k !! a) as [f|] eqn:Hf; [|done]. cbn [mbind option_bind].
  destruct (in_state PORT_STATE_DEALLOCATED f); [intros [= <-]; by apply wake_ok_same|].
  assert (calm f (add_readers 1 f)) as Hc by auto with irati.
  destruct blocking; [destruct (wqs (add_readers 1 f)) eqn:Ew|destruct (in_state _ _); [|destruct (rfifo_is_empty _)]]; cbn [negb].
  - by eapply read_loop_wake.
  - intros [= <-]. by eapply leave_reader_wake.
  - intros [= <-]. by eapply leave_reader_wake.
  - intros [= <-]. by eapply leave_reader_wake.
  - by eapply read_take_wake.
Qed.

Lemma read_woken_wake k id size signal r : read_woken k id size signal = Some r -> wake_ok k r.
Proof.
  unfold read_woken. destruct (kfa_pmap_find _ _) as [a|]; [|intros [= <-]; by apply wake_ok_same].
  destruct (heap k !! a) as [f|] eqn:Hf; [|done]. cbn [mbind option_bind].
  destruct (wqs f) eqn:Ew; cbn [negb]; [|intros [= <-]; eapply leave_reader_wake; eauto with irati].
  destruct signal; [intros [= <-]; eapply leave_reader_wake; eauto with irati|].
  destruct (in_state _ _); [destruct (rfifo_is_empty _)|].
  - intros [= <-]; eapply leave_reader_wake; eauto with irati.
  - eapply read_take_wake; eauto with irati.
  - eapply read_loop_wake; eauto with irati.
Qed.

(** ** Writing *)

Lemma write_loop_wake k w f f' :
  k.(heap) !! w.(w_addr) = Some f -> calm f f' -> wake_ok k (write_loop k w f').
Proof.
  intros Hf Hc. unfold write_loop. destruct (w_left w); [by eapply leave_writer_wake|by eapply wake_ok_upd].
Qed.

(** The sections of a writer have a flow, which they leave or keep. *)
Ltac writer :=
  repeat first
    [ intros [= <-]; first
        [ by apply wake_ok_same
        | by eapply leave_writer_wake; eauto with irati
        | by eapply write_loop_wake; eauto with irati
        | by eapply wake_ok_upd; eauto with irati ]
    | done
    | match goal with
      | |- context [kfa_pmap_find ?m ?i] => destruct (kfa_pmap_find m i) eqn:?
      | |- context [heap ?k !! ?a] => destruct (heap k !! a) eqn:?
      | |- context [if ?c then _ else _] => destruct c eqn:?
      end; cbn [mbind option_bind negb] ].

Lemma ub_write_wake m k id data blocking r : kfa_flow_ub_write m k id data blocking = Some r -> wake_ok k r.
Proof. unfold kfa_flow_ub_write. writer. Qed.

Lemma du_write_wake m k id d r : kfa_flow_du_write m k id d = Some r -> wake_ok k r.
Proof. unfold kfa_flow_du_write. writer. Qed.

Lemma write_lock_wake k w r : write_lock k w = Some r -> wake_ok k r.
Proof. unfold write_lock, write_or_sleep. writer. Qed.

Lemma write_woken_wake k w signal r : write_woken k w signal = Some r -> wake_ok k r.
Proof. unfold write_woken, write_or_sleep. writer. Qed.

Lemma write_back_wake k w ok r : write_back k w ok = Some r -> wake_ok k r.
Proof. unfold write_back. writer. Qed.

(** ** Sections and calls *)

Lemma wait_event_next cond awake i asleep woken t :
  wait_event cond awake i asleep woken = Some t -> (t = asleep /\ cond = false) \/ exists b, t = woken b.
Proof.
  unfold wait_event. destruct i; try done; [destruct awake; [|done]; destruct cond|]; intros [= <-]; eauto.
Qed.

Lemma kfa_section_wake k t i r :
  (forall a id size aw, t = RSleep a id size aw -> exists f, k.(heap) !! a = Some f /\ f.(wqs) = true) ->
  section k t i = Some r -> wake_ok k r.
Proof.
  intros Ht. destruct t; cbn [section].
  - destruct (Ht _ _ _ _ eq_refl) as (f & Hf & Hw). rewrite Hf. cbn [mbind option_bind].
    destruct (wait_event _ _ _ _ _) as [t|] eqn:E; [|done]. intros [= <-]. apply wake_ok_same.
    apply wait_event_next in E as [[-> Hq]|[b ->]]; [|done]. cbn. intros g Hg. by simplify_eq.
  - by apply read_woken_wake.
  - destruct i as [| |[e|]|]; try done; intros [= <-]; by apply wake_ok_same.
  - by apply write_lock_wake.
  - destruct (heap k !! _) as [f|]; [|done]. cbn [mbind option_bind].
    destruct (wait_event _ _ _ _ _) as [t|] eqn:E; [|done]. intros [= <-]. apply wake_ok_same.
    by apply wait_event_next in E as [[-> _]|[b ->]].
  - by apply write_woken_wake.
  - destruct i; try done; intros [= <-]; by apply wake_ok_same.
  - by apply write_back_wake.
  - destruct (heap k !! _) as [f|] eqn:Hf; [|done]. intros [= <-]. eapply leave_writer_wake; eauto with irati.
  - destruct (heap k !! _); [|done]. intros [= <-]. by apply wake_ok_same.
  - destruct (heap k !! _); [|done]. intros [= <-]. by apply wake_ok_same.
Qed.

Lemma wake_ok_upd_wake k a f f' o ws ids :
  k.(heap) !! a = Some f -> sleeper_ok (upd k a f') o ->
  (f.(wqs) = true -> f'.(wqs) = true /\ (queue_ready f' = true -> queue_ready f = true \/ o = Next (PWake a) \/ wakes a ws)) ->
  wake_ok k (upd k a f', o, ws, ids).
Proof.
  intros Hf Ho Hw. split; [|done]. intros b g g' Hg Hg' Hwq. cbn in Hg'.
  destruct (decide (b = a)) as [->|]; [rewrite lookup_insert_eq in Hg'|rewrite lookup_insert_ne in Hg' by done];
    simplify_eq; tauto.
Qed.

Section Calls.
Context (k : kfa) (R : regs) (Hi : kfa_inv k R).

Lemma with_flow_wake id F r :
  (forall a f, k.(heap) !! a = Some f -> flow_at k id = Some f -> flow_inv f (cnt true a R) (cnt false a R) ->
     wake_ok k (F a f)) ->
  with_flow k id F = Some r -> wake_ok k r.
Proof.
  intros HF. unfold with_flow. destruct (negb _); [intros [= <-]; by apply wake_ok_same|].
  destruct (kfa_pmap_find _ _) as [a|] eqn:Ef; [|intros [= <-]; by apply wake_ok_same].
  destruct (inv_at _ _ _ _ Hi Ef) as (f & Hf & _ & Hfi). rewrite Hf. intros [= <-]. apply HF; try done.
  unfold flow_at. by rewrite Ef.
Qed.

Lemma du_post_wake id d mem r : kfa_du_post k id d mem = Some r -> wake_ok k r.
Proof.
  apply with_flow_wake. intros a f Hf _ _. destruct (in_state _ _); [by apply wake_ok_same|].
  destruct (rfifo_push mem (sdu_ready f) d) as [v q] eqn:Ep. destruct (Z.eqb_spec v 0) as [->|Hv].
  - apply (wake_ok_upd_wake _ _ f); [done|done|]. intros Hw. split; [done|]. auto.
  - apply (wake_ok_upd _ _ f); [done| |done]. split; [done|].
    destruct (sdu_ready f) as [[[l n]]|] eqn:Eq; [destruct mem|]; cbn in Ep; simplify_eq;
      unfold queue_ready, in_state; cbn; by rewrite Eq.
Qed.

Lemma bind_wake pid ipcp r :
  all_flow (in_state PORT_STATE_PENDING) (flow_at k pid) = true ->
  kfa_flow_ipcp_bind k pid ipcp true = Some r -> wake_ok k r.
Proof. intros _. apply with_flow_wake. intros a f Hf _ _. by apply (wake_ok_upd _ _ f). Qed.

Lemma deallocate_wake id data item r : kfa_flow_deallocate k id data item = Some r -> wake_ok k r.
Proof.
  intros E%deallocate_mem. revert E. apply with_flow_wake. intros a f Hf _ _. cbv beta zeta. destruct (unused _).
  - by apply (wake_ok_destroy _ _ _ f).
  - apply (wake_ok_upd_wake _ _ f); [done|done|]. intros Hw. split; [done|]. intros _. right. right. right.
    unfold wake_if. cbn. rewrite Hw. left.
Qed.

Lemma worker_wake id r : kfa_flow_deallocate_worker k id = Some r -> wake_ok k r.
Proof.
  unfold kfa_flow_deallocate_worker. destruct (negb _); [intros [= <-]; by apply wake_ok_same|].
  destruct (kfa_pmap_find _ _) as [a|]; [|intros [= <-]; by apply wake_ok_same].
  destruct (heap k !! a) as [f|]; [|done]. cbn [mbind option_bind].
  destruct (negb _); [intros [= <-]; by apply wake_ok_same|].
  destruct (unused f); intros [= <-]; [by apply (wake_ok_destroy _ _ _ f)|by apply wake_ok_same].
Qed.

(** Neither state is pending. *)
Lemma calm_state f r w st :
  flow_inv f r w -> bound f = true -> in_state PORT_STATE_DEALLOCATED f = false ->
  st ≠ PORT_STATE_DEALLOCATED -> calm f (set_fl_state st f).
Proof.
  intros [_ _ _ _ Hq] Hb Hd Hst. split; [done|]. unfold queue_ready, queue_inv, bound in *.
  rewrite Hd. destruct (sdu_ready f) as [q|] eqn:Eq; [|done]. destruct Hq as [Hp _].
  unfold in_state. cbn. rewrite Eq, (bool_decide_eq_false_2 (st = _)), (bool_decide_eq_false_2 (fl_state f = _)) by done.
  by intros [_ He]%andb_prop.
Qed.

Lemma disable_wake id r :
  all_flow bound (flow_at k id) = true -> disable_write k id = Some r -> wake_ok k r.
Proof.
  intros Hb. apply with_flow_wake. intros a f Hf Efl Hfi. rewrite Efl in Hb.
  destruct (in_state _ _) eqn:Ed; [by apply wake_ok_same|]. apply (wake_ok_upd _ _ f); try done. by eapply calm_state.
Qed.

Lemma enable_wake id r : enable_write k id = Some r -> wake_ok k r.
Proof.
  apply with_flow_wake. intros a f Hf _ Hfi. destruct (in_state PORT_STATE_DEALLOCATED f) eqn:Ed; [by apply wake_ok_same|].
  destruct (in_state PORT_STATE_DISABLED f) eqn:Es; [|by apply wake_ok_same].
  apply (wake_ok_upd _ _ f); try done. eapply calm_state; try done. by eapply disabled_bound.
Qed.

Lemma set_iowqs_wake id r : kfa_flow_set_iowqs k id = Some r -> wake_ok k r.
Proof. apply with_flow_wake. intros a f Hf _ _. by apply (wake_ok_upd _ _ f). Qed.

Lemma wake_ok_pidm p o ws ids :
  sleeper_ok (mk_kfa p k.(flows) k.(heap) k.(next_addr)) o -> wake_ok k (mk_kfa p k.(flows) k.(heap) k.(next_addr), o, ws, ids).
Proof. intros Ho. split; [|done]. intros a f f' Hf Hf' Hw. cbn in *. simplify_eq. tauto. Qed.

Lemma create_wake pid ipcp b mem r :
  wake_ok k (stop (fst (kfa_flow_create k pid ipcp b mem)) (Ret r)).
Proof.
  unfold kfa_flow_create. destruct mem; [|by apply wake_ok_same]. cbn. split; [|done].
  intros a f f' Hf. rewrite lookup_insert_ne; [intros; simplify_eq; tauto|].
  intros <-. destruct (inv_heap _ _ Hi _ _ Hf) as [id Hin]. destruct (inv_flow _ _ Hi _ _ Hin) as [Hlt _]. lia.
Qed.

Lemma call_wake m c r :
  allowed false k c = true -> call_section m k c = Some r -> wake_ok k r.
Proof.
  destruct c; cbn [allowed call_section]; try done;
    eauto using du_read_wake, ub_write_wake, du_write_wake, du_post_wake, deallocate_wake, disable_wake, enable_wake,
      set_iowqs_wake.
  - intros _. unfold kfa_port_id_reserve. destruct (Pidm.pidm_allocate _ _ _) as [[id p]|]; [|done].
    intros [= <-]. by apply wake_ok_pidm.
  - intros _. unfold kfa_port_id_release. destruct (negb _); [intros [= <-]; by apply wake_ok_same|].
    destruct (kfa_pmap_find _ _); [intros [= <-]; by apply wake_ok_same|].
    destruct (k_pidm k); [|intros [= <-]; by apply wake_ok_same].
    destruct (Pidm.pidm_release _ _). intros [= <-]. by apply wake_ok_pidm.
  - intros _. pose proof (create_wake pid ipcp boundaries mem) as H.
    destruct (kfa_flow_create _ _ _ _ _) as [k' v]. intros [= <-]. apply H.
  - intros [-> Hs]%andb_prop. by apply bind_wake.
Qed.
End Calls.

(** ** The invariant *)

Definition wake_inv (s : sys) : Prop :=
  forall a id size aw, RSleep a id size aw ∈ s.(threads) ->
  exists f, s.(s_kfa).(heap) !! a = Some f /\ f.(wqs) = true /\
    (aw = false -> queue_ready f = true -> PWake a ∈ s.(threads)).

(** A sleeping reader has a flow. *)
Lemma sleeper_flow s a id size aw :
  sys_inv s -> RSleep a id size aw ∈ s.(threads) -> exists f, s.(s_kfa).(heap) !! a = Some f.
Proof.
  intros Hi Hin. assert ((true, a, id) ∈ omap reg (threads s)) as Hreg.
  { apply list_elem_of_omap. eexists. split; [exact Hin|done]. }
  apply (inv_reg _ _ Hi) in Hreg. destruct (inv_flow _ _ Hi _ _ Hreg) as (_ & f & Hf & _). by exists f.
Qed.

(** A section between [l1] and [l2]: a thread that was to wake up the readers of a flow either
    is still there or did so. *)
Lemma wake_land s l1 l2 w k o ws ids :
  wake_inv s -> sys_inv (land (k, o, ws, ids) l1 l2 w) -> wake_ok s.(s_kfa) (k, o, ws, ids) ->
  (forall t, t ∈ l1 ++ l2 -> t ∈ s.(threads)) ->
  (forall a, PWake a ∈ s.(threads) -> PWake a ∈ l1 ++ l2 \/
     forall f, s.(s_kfa).(heap) !! a = Some f -> f.(wqs) = true -> wakes a ws) ->
  wake_inv (land (k, o, ws, ids) l1 l2 w).
Proof.
  intros Hw Hi [Hk Ho] Hsub Hpw a id size aw Hin.
  destruct (sleeper_flow _ _ _ _ _ Hi Hin) as [f' Hf']. exists f'. split; [done|]. cbn [land s_kfa threads] in *.
  apply wake_threads_asleep in Hin as (aw0 & Hin & Haw). rewrite !elem_of_app in Hin.
  assert (RSleep a id size aw0 ∈ l1 ++ l2 \/ o = Next (RSleep a id size aw0)) as [Hold| ->].
  { destruct Hin as [?|[Hin|?]]; [left; apply elem_of_app; tauto| |left; apply elem_of_app; tauto].
    right. destruct o as [| |t]; cbn in Hin; [by apply elem_of_nil in Hin..|]. apply list_elem_of_singleton in Hin. by subst. }
  - destruct (Hw _ _ _ _ (Hsub _ Hold)) as (f & Hf & Hwq & Hq). destruct (Hk _ _ _ Hf Hf' Hwq) as [Hwq' Hq'].
    split; [done|]. intros -> Hr. destruct (Haw eq_refl) as [-> Hnw]. apply wake_threads_poster.
    destruct (Hq' Hr) as [Hr0|[->|?]]; [|rewrite !elem_of_app; right; left; left|done].
    destruct (Hpw a (Hq eq_refl Hr0)) as [Hp|Hp]; [rewrite !elem_of_app in *; tauto|]. by destruct Hnw; eapply Hp.
  - destruct (Ho _ Hf') as [Hwq Hq]. split; [done|]. intros -> Hr. destruct (Haw eq_refl) as [-> _].
    rewrite (Hq eq_refl) in Hr. done.
Qed.

Section Runs.
Context (max_sdu_size : Z -> Z).

Lemma step_wake s s' :
  sys_inv s -> wake_inv s -> kfa_step max_sdu_size false s s' -> wake_inv s'.
Proof.
  intros Hi Hw Hs. pose proof (step_inv _ _ _ _ Hi Hs) as Hi'.
  destruct Hs as [s c r Ha Hr|s l1 t l2 i r Ht Hr|s w1 id w2 r Hwk Hr]; destruct r as [[[k o] ws] ids].
  - apply (wake_land _ _ _ _ _ _ _ _ Hw Hi'); [by eapply call_wake|done|by left].
  - apply (wake_land _ _ _ _ _ _ _ _ Hw Hi').
    + eapply kfa_section_wake; [|done]. intros a id size aw ->.
      destruct (Hw a id size aw) as (f & Hf & Hwq & _); [rewrite Ht, elem_of_app; right; left|by exists f].
    + intros t'. rewrite Ht, !elem_of_app, elem_of_cons. tauto.
    + intros a. rewrite Ht, !elem_of_app, elem_of_cons. intros [?|[<-|?]]; [tauto| |tauto]. right.
      intros f Hf Hwq. cbn in Hr. rewrite Hf in Hr. cbn in Hr. simplify_eq. unfold wake_if. rewrite Hwq. left. left.
  - apply (wake_land _ _ _ _ _ _ _ _ Hw Hi'); [by eapply worker_wake|done|by left].
Qed.

Lemma kfa_reachable_wake s : reachable max_sdu_size false s -> wake_inv s.
Proof.
  intros Hr. apply (rtc_ind_r (fun s => sys_inv s /\ wake_inv s) kfa_init) in Hr; [apply Hr| |].
  - split; [apply init_inv|]. by intros a id size aw ?%elem_of_nil.
  - intros y z _ Hs [Hi Hw]. split; [by eapply step_inv|by eapply step_wake].
Qed.

(** Nobody runs: every thread sleeps and was not woken up. *)
Definition asleep (t : thread) : bool := match t with RSleep _ _ _ aw | WSleep _ aw => negb aw | _ => false end.

(** C14: No reader is forgotten: once every thread sleeps, a reader sleeps on a flow that is not
    deallocated and has no SDU to read; before that, whoever posts to its flow is still going
    to wake it up. *)
Theorem kfa_no_lost_wakeup (s : sys) (a : nat) (id size : Z) (f : ipcp_flow) :
  reachable max_sdu_size false s -> RSleep a id size false ∈ s.(threads) -> s.(s_kfa).(heap) !! a = Some f ->
  (queue_ready f = true -> PWake a ∈ s.(threads)) /\
  (forallb asleep s.(threads) = true -> f.(fl_state) ≠ PORT_STATE_DEALLOCATED /\
     (f.(fl_state) = PORT_STATE_PENDING \/ exists q, f.(sdu_ready) = Some q /\ q.(Rfifo.q).(Rqueue.head) = [])).
Proof.
  intros Hr Hin Hf. pose proof (kfa_reachable_wake _ Hr _ _ _ _ Hin) as (g & Hg & _ & Hq). simplify_eq.
  split; [by apply Hq|]. intros Hall. assert (queue_ready f = false) as Hn.
  { apply not_true_is_false. intros Hy. apply (Hq eq_refl), list_elem_of_In in Hy.
    by apply (proj1 (forallb_forall _ _) Hall) in Hy. }
  unfold queue_ready, in_state in Hn. case_bool_decide; [done|]. split; [done|].
  case_bool_decide; [by left|right]. destruct (sdu_ready f) as [[[l n]]|] eqn:Eq; [|done].
  cbn in Hn. destruct l; [|done]. eexists. split; [done|]. done.
Qed.
End Runs.
