(* ===== verification/KfaRuns.v ===== *)
(** * Runs of the kernel flow allocator

    Runs of the transition system of [Kfa.v] given by the list of their steps: the theorems on it
    at concrete states, and the runs that end badly. *)

From S2P Require Import Prelude Ids Rds Kfa KfaInv KfaWake.
From Stdlib Require Import ZArith Lia.
From stdpp Require Import base list numbers option gmap sets relations.
Import Rqueue Rfifo.
#[local] Open Scope Z_scope.

Inductive action := ACall (c : call) | AThread (j : nat) (i : input) | AWork (j : nat).

Section Exec.
Context (max_sdu_size : Z -> Z) (cancel : bool).

Definition exec (s : sys) (x : action) : option sys :=
  match x with
  | ACall c =>
      if allowed cancel s.(s_kfa) c
      then r ← call_section max_sdu_size s.(s_kfa) c; Some (land r [] s.(threads) s.(work))
      else None
  | AThread j i =>
      t ← s.(threads) !! j; r ← section s.(s_kfa) t i;
      Some (land r (take j s.(threads)) (drop (S j) s.(threads)) s.(work))
  | AWork j =>
      id ← s.(work) !! j; r ← kfa_flow_deallocate_worker s.(s_kfa) id;
      Some (land r [] s.(threads) (take j s.(work) ++ drop (S j) s.(work)))
  end.

Fixpoint run (s : sys) (l : list action) : option sys :=
  match l with [] => Some s | x :: l => s ← exec s x; run s l end.

Lemma kfa_exec_step s x s' : exec s x = Some s' -> kfa_step max_sdu_size cancel s s'.
Proof.
  destruct x as [c|j i|j]; cbn.
  - destruct (allowed _ _ _) eqn:Ea; [|done]. destruct (call_section _ _ _) eqn:E; cbn; intros; simplify_eq.
    by eapply step_call.
  - destruct (threads s !! j) as [t|] eqn:Et; [|done]. cbn. destruct (section _ _ _) eqn:E; cbn; intros; simplify_eq.
    eapply step_thread; [|done]. symmetry. by apply take_drop_middle.
  - destruct (work s !! j) as [id|] eqn:Et; [|done]. cbn.
    destruct (kfa_flow_deallocate_worker _ _) eqn:E; cbn; intros; simplify_eq.
    eapply step_work; [|done]. symmetry. by apply take_drop_middle.
Qed.

Lemma kfa_run_steps l s s' : run s l = Some s' -> rtc (kfa_step max_sdu_size cancel) s s'.
Proof.
  revert s. induction l as [|x l IH]; intros s; cbn; [intros [= ->]; done|].
  destruct (exec s x) as [s1|] eqn:E; [|done]. intros H. eapply rtc_l; [by eapply kfa_exec_step|by apply IH].
Qed.

Lemma run_reachable l s : run kfa_init l = Some s -> reachable max_sdu_size cancel s.
Proof. apply kfa_run_steps. Qed.
End Exec.

Lemma kfa_init_created : kfa_create true = Some kfa_init.(s_kfa).
Proof. done. Qed.

(** An IPC process takes SDUs of up to four bytes. *)
Definition four (ipcp : Z) : Z := 4.

(** A flow on the port 1, with wait queues. *)
Definition created : list action := [ACall (CReserve true); ACall (CCreate 1 7 false true); ACall (CSet 1)].
Definition bound_flow : list action := created ++ [ACall (CBind 1 7 true)].

(** A reader fell asleep, then an SDU was posted. *)
Definition reader_asleep : list action := bound_flow ++ [ACall (CRead 1 10 true); AThread 0 INone].
Definition sdu_posted : list action := reader_asleep ++ [ACall (CPost 1 [1; 2; 3] true)].

Definition at_end (cancel : bool) (l : list action) : sys := default kfa_init (run four cancel kfa_init l).

Lemma at_end_reachable cancel l : bool_decide (is_Some (run four cancel kfa_init l)) = true -> reachable four cancel (at_end cancel l).
Proof.
  intros [s E]%bool_decide_eq_true. unfold at_end. rewrite E. by eapply run_reachable.
Qed.

(** The flow at the address 0, the only one of the runs. *)
Definition the_flow (s : sys) : ipcp_flow :=
  default (mk_flow PORT_STATE_NULL 0 None false 0 0 0 false [] []) (s.(s_kfa).(heap) !! 0%nat).

Lemma sdu_posted_flow : (at_end false sdu_posted).(s_kfa).(heap) !! 0%nat = Some (the_flow (at_end false sdu_posted)).
Proof. vm_compute. reflexivity. Qed.

Lemma kfa_flows_safe_witness :
  readers (the_flow (at_end false sdu_posted)) = 1 /\
  exists id, kfa_pmap_find (at_end false sdu_posted).(s_kfa).(flows) id = Some 0%nat.
Proof.
  assert (reachable four false (at_end false sdu_posted)) as Hr by (apply at_end_reachable; vm_compute; reflexivity).
  destruct (proj2 (kfa_flows_safe four false _ Hr) _ _ sdu_posted_flow) as (H & _ & _ & id & Hid & _).
  split; [rewrite H; vm_compute; reflexivity|by exists id].
Defined.

Lemma kfa_fifo_order_witness :
  g_posted (the_flow (at_end false sdu_posted)) = g_read (the_flow (at_end false sdu_posted)) ++ [[1; 2; 3]].
Proof.
  assert (reachable four false (at_end false sdu_posted)) as Hr by (apply at_end_reachable; vm_compute; reflexivity).
  rewrite (kfa_fifo_order four false _ _ _ Hr sdu_posted_flow). vm_compute. reflexivity.
Defined.

Lemma sdu_posted_threads : (at_end false sdu_posted).(threads) = [PWake 0; RSleep 0 1 10 false].
Proof. vm_compute. reflexivity. Qed.

Lemma kfa_no_lost_wakeup_witness : PWake 0 ∈ (at_end false sdu_posted).(threads).
Proof.
  assert (reachable four false (at_end false sdu_posted)) as Hr by (apply at_end_reachable; vm_compute; reflexivity).
  apply (proj1 (kfa_no_lost_wakeup four _ 0 1 10 (the_flow (at_end false sdu_posted)) Hr
    ltac:(rewrite sdu_posted_threads; right; left) sdu_posted_flow)).
  vm_compute. reflexivity.
Defined.

(** The reader is woken up and takes the SDU; the flow is destroyed when it is deallocated. *)
Example reader_served :
  let s := at_end false (sdu_posted ++ [AThread 0 INone; AThread 0 INone; AThread 0 INone]) in
  s.(threads) = [] /\ g_read (the_flow s) = [[1; 2; 3]] /\ readers (the_flow s) = 0.
Proof. vm_compute. split_and!; reflexivity. Qed.

(** ** Runs that end badly *)

(** [kfa_du_post] looks at the flow again after it released the lock.  A flow that has neither
    readers nor writers is freed by a deallocation in between: the poster reads freed memory. *)
Theorem kfa_poster_use_after_free :
  exists s a, reachable four false s /\ PWake a ∈ s.(threads) /\ s.(s_kfa).(heap) !! a = None /\
    forall i, section s.(s_kfa) (PWake a) i = None.
Proof.
  set (l := bound_flow ++ [ACall (CPost 1 [1] true); ACall (CDealloc 1 true true)]).
  assert (heap (s_kfa (at_end false l)) !! 0%nat = None) as Hn by (vm_compute; reflexivity).
  exists (at_end false l), 0%nat. split_and!; [apply at_end_reachable; vm_compute; reflexivity| |done|].
  - assert (threads (at_end false l) = [PWake 0]) as -> by (vm_compute; reflexivity). left.
  - intros i. cbn [section]. by rewrite Hn.
Qed.

(** [kfa_flow_cancel_iowqs] takes the wait queues away from a flow and wakes up who sleeps
    there, but they wait for something else and go back to sleep; nobody can wake them up any
    more.  The flow, once deallocated, stays allocated with its port id for good. *)
Theorem kfa_cancel_strands_reader :
  exists s a id size f, reachable four true s /\ s.(threads) = [RSleep a id size false] /\ s.(work) = [] /\
    s.(s_kfa).(heap) !! a = Some f /\ f.(fl_state) = PORT_STATE_DEALLOCATED /\ f.(wqs) = false /\
    section s.(s_kfa) (RSleep a id size false) INone = None.
Proof.
  set (l := reader_asleep ++ [ACall (CCancel 1); AThread 0 INone; ACall (CDealloc 1 true true); AWork 0; AThread 0 INone]).
  exists (at_end true l), 0%nat, 1, 10, (the_flow (at_end true l)).
  split_and!; [apply at_end_reachable; vm_compute; reflexivity| vm_compute; reflexivity..].
Qed.

(** [kfa_flow_ipcp_bind] does not wake up a writer that sleeps because the flow was pending,
    and [enable_write] wakes up only writers of flows that were disabled. *)
Theorem kfa_bind_strands_writer :
  exists s w f, reachable four false s /\ s.(threads) = [WSleep w false] /\
    s.(s_kfa).(heap) !! w.(w_addr) = Some f /\ f.(fl_state) = PORT_STATE_ALLOCATED /\ ok_write f = true /\
    section s.(s_kfa) (WSleep w false) INone = None /\
    (exists s', run four false s [ACall (CEnable 1)] = Some s' /\ s'.(threads) = [WSleep w false]).
Proof.
  set (l := created ++ [ACall (CWrite 1 [1; 2] true); AThread 0 (ICopy None); AThread 0 INone; AThread 0 INone; ACall (CBind 1 7 true)]).
  exists (at_end false l), (mk_wr 0 1 [1; 2] 0 4 true), (the_flow (at_end false l)).
  split_and!; [apply at_end_reachable; vm_compute; reflexivity| vm_compute; reflexivity..|].
  exists (at_end false (l ++ [ACall (CEnable 1)])). split; vm_compute; reflexivity.
Qed.

(** A flow is deallocated before it was bound, and a reader sleeps on it: the reader asks a
    queue that does not exist for an SDU. *)
Theorem kfa_pending_reader_null :
  exists s r s', reachable four false s /\ call_section four s.(s_kfa) (CDealloc 1 true true) = Some r /\
    run four false (land r [] s.(threads) s.(work)) [AThread 0 INone] = Some s' /\
    exists t, s'.(threads) = [t] /\ forall i, section s'.(s_kfa) t i = None.
Proof.
  set (l := created ++ [ACall (CRead 1 10 true); AThread 0 INone]).
  destruct (call_section four (s_kfa (at_end false l)) (CDealloc 1 true true)) as [r|] eqn:Er; [|by vm_compute in Er].
  destruct (run four false (land r [] (threads (at_end false l)) (work (at_end false l))) [AThread 0 INone]) as [s'|] eqn:Es;
    vm_compute in Er; injection Er as <-; [|by vm_compute in Es].
  exists (at_end false l). do 2 eexists. split_and!; [apply at_end_reachable; vm_compute; reflexivity|vm_compute; reflexivity|exact Es|].
  vm_compute in Es. injection Es as <-. eexists. split; [reflexivity|]. intros i. vm_compute. reflexivity.
Qed.

(** A writer whose SDU could not be created leaves without the lock.  Between its counter going down
    and its look at the flow a deallocation finds the flow unused and frees it. *)
Theorem kfa_finish_races (k : kfa) (w : wr) (f : ipcp_flow) (retval : Z) (data item : bool) :
  Pidm.is_port_id_ok w.(w_id) = true -> kfa_pmap_find k.(flows) w.(w_id) = Some w.(w_addr) ->
  f.(readers) = 0 -> f.(writers) = 1 -> f.(posters) = 0 ->
  exists r, kfa_flow_deallocate (finish_dec k w f) w.(w_id) data item = Some r /\
    finish_test r.1.1.1 w retval = None.
Proof.
  intros Hid Hf Hr Hw Hp. unfold kfa_flow_deallocate, mark_deallocated, with_flow. rewrite Hid. cbn [negb].
  unfold finish_dec, upd. cbn [flows heap k_pidm next_addr]. rewrite Hf, lookup_insert_eq. cbn [mbind option_bind].
  unfold unused. cbn [set_fl_state add_writers readers writers posters]. rewrite Hr, Hw, Hp. change ((0 =? 0) && (1 + -1 =? 0) && (0 =? 0)) with true. cbn [fst snd].
  eexists. split; [reflexivity|]. unfold finish_test. cbn [fst kfa_flow_destroy heap]. by rewrite lookup_delete_eq.
Qed.
