(* ===== verification/EfcpCont.v ===== *)
(** * The container of EFCP instances

    [src/kernel/efcp.c] and [efcp-utils.c]: connections are created and destroyed while writes and arriving PDUs
    run on them.  What an operation does to its connection is the matter of [Dtp.v], [Dtcp.v] and
    [Efcp.v]; here it is who finds which instance, and when an instance is freed.

    The model is a transition system as that of [Kfa.v].  An operation raises [pending_ops] under
    the lock of the container, runs without it, and lowers the counter under it again; the thread
    that destroys a connection takes it out of the map and waits for the counter to be zero, which
    it looks at without the lock.  So the operation that brings the counter to zero and then looks at
    the state of the instance does so in two steps ([CLeave], [CDec]), holding the lock in between.
    - A section without a result follows a null pointer or uses an instance that was freed.
    - The creation of a connection, whose objects nobody else knows before the last of its
      steps, is one step; [fails] says which of its steps fail. *)

From S2P Require Import Prelude Ids Hmap EfcpState.
From Stdlib Require Import ZArith Lia.
From stdpp Require Import base list numbers option gmap sets relations.
#[local] Open Scope Z_scope.

Inductive efcp_state := EFCP_ALLOCATED | EFCP_DEALLOCATED.

#[export] Instance efcp_state_eq_dec : EqDecision efcp_state.
Proof. solve_decision. Defined.

(** The steps of [efcp_connection_create] that may fail. *)
Inductive stage :=
| MkConnection | MkEfcp | MkCepId | MkSysfs | MkDelim | MkDelimPs | MkDtp | MkDtcp | MkCwq | MkRtxq | MkRttq | MkSv | MkEntry.

#[export] Instance stage_eq_dec : EqDecision stage.
Proof. solve_decision. Defined.

(** What [efcp_connection_create] looks at in the configurations of the DIF, of DTP and DTCP. *)
Record conn_config := mk_conn_config {
  dif_frag : bool;
  dtcp_present : bool;
  window_based : bool;
  rate_based : bool;
  rtx_ctrl : bool
}.

(** [struct efcp]; [parts] are the objects the instance was built of. *)
Record efcp := mk_efcp {
  e_state : efcp_state;
  pending_ops : Z;
  user_ipcp : bool;
  e_connection : option connection;
  parts : list stage
}.

Definition set_e_state v (e : efcp) : efcp := mk_efcp v e.(pending_ops) e.(user_ipcp) e.(e_connection) e.(parts).
Definition add_pending d (e : efcp) : efcp := mk_efcp e.(e_state) (e.(pending_ops) + d) e.(user_ipcp) e.(e_connection) e.(parts).
Definition set_user v (e : efcp) : efcp := mk_efcp e.(e_state) e.(pending_ops) v e.(e_connection) e.(parts).
Definition set_conn v (e : efcp) : efcp := mk_efcp e.(e_state) e.(pending_ops) e.(user_ipcp) v e.(parts).

(** [struct efcp_container]; [unbound] are the ports of which the user IPC process was told
    that they are unbound. *)
Record efcp_container := mk_cont {
  instances : hmap;
  c_cidm : option Cidm.cidm;
  c_heap : gmap nat efcp;
  c_next : nat;
  c_lock : bool;
  unbound : list Z
}.

Definition upd_heap (c : efcp_container) h : efcp_container :=
  mk_cont c.(instances) c.(c_cidm) h c.(c_next) c.(c_lock) c.(unbound).
Definition upd_inst (c : efcp_container) (a : nat) (e : efcp) : efcp_container := upd_heap c (<[a := e]> c.(c_heap)).
Definition set_lock v (c : efcp_container) : efcp_container :=
  mk_cont c.(instances) c.(c_cidm) c.(c_heap) c.(c_next) v c.(unbound).
Definition set_instances m (c : efcp_container) : efcp_container :=
  mk_cont m c.(c_cidm) c.(c_heap) c.(c_next) c.(c_lock) c.(unbound).

Definition is_cep_id_ok (id : Z) : bool := 0 <=? id.
Definition efcp_imap_find : hmap -> Z -> option nat := hmap_find.
Definition efcp_imap_add : hmap -> Z -> nat -> hmap := hmap_add.
Definition efcp_imap_remove : hmap -> Z -> hmap := hmap_remove.

(** ** Destruction of an instance *)

(** The user IPC process is told to unbind the port of the connection, the cep-id of the connection is
    given back, everything is freed.  An instance with a user and without a connection: a null pointer. *)
Definition efcp_destroy (c : efcp_container) (e : efcp) : option efcp_container :=
  match e.(e_connection) with
  | None => if e.(user_ipcp) then None else Some c
  | Some cn =>
      let ports := if e.(user_ipcp) then c.(unbound) ++ [cn.(conn_port_id)] else c.(unbound) in
      let cidm := if is_cep_id_ok cn.(source_cep_id)
                  then snd (Cidm.cidm_release c.(c_cidm) cn.(source_cep_id)) else c.(c_cidm) in
      Some (mk_cont c.(instances) cidm c.(c_heap) c.(c_next) c.(c_lock) ports)
  end.

(** [efcp_destroy] of an instance of the container. *)
Definition destroy_at (c : efcp_container) (a : nat) : option efcp_container :=
  e ← c.(c_heap) !! a;
  c ← efcp_destroy c e;
  Some (upd_heap c (base.delete a c.(c_heap))).

(** ** Creation *)

Definition stages (cfg : conn_config) : list stage :=
  [MkSysfs] ++ (if cfg.(dif_frag) then [MkDelim; MkDelimPs] else []) ++ [MkDtp] ++
  (if cfg.(dtcp_present) then [MkDtcp] else []) ++
  (if cfg.(window_based) || cfg.(rate_based) then [MkCwq] else []) ++
  [if cfg.(rtx_ctrl) then MkRtxq else MkRttq] ++ [MkSv].

Definition is_candidate_connection_ok (cn : connection) : bool :=
  is_cep_id_ok cn.(source_cep_id) && Cidm.is_port_id_ok cn.(conn_port_id).

Definition cep_id_bad : Z := -1.

(** The cep-id [src_cep_id] that is passed is replaced by a new one. *)
Definition efcp_connection_create (c : efcp_container) (user : bool) (src_addr dst_addr port_id qos_id src_cep_id dst_cep_id : Z)
    (cfg : conn_config) (fails : stage -> bool) : option (efcp_container * Z) :=
  if fails MkConnection || fails MkEfcp then Some (c, cep_id_bad)
  else
    let e := mk_efcp EFCP_ALLOCATED 0 user None (stages cfg) in
    '(cep_id, cidm) ← Cidm.cidm_allocate Cidm.turn (negb (fails MkCepId)) c.(c_cidm);
    let c := mk_cont c.(instances) cidm c.(c_heap) c.(c_next) c.(c_lock) c.(unbound) in
    let connection := mk_connection port_id src_addr dst_addr cep_id dst_cep_id qos_id in
    if negb (is_cep_id_ok cep_id) then c ← efcp_destroy c e; Some (c, cep_id_bad)
    else if negb (is_candidate_connection_ok connection) then c ← efcp_destroy c e; Some (c, cep_id_bad)
    else
      let e := set_conn (Some connection) e in
      if existsb fails (stages cfg ++ [MkEntry]) then c ← efcp_destroy c e; Some (c, cep_id_bad)
      else Some (mk_cont (efcp_imap_add c.(instances) cep_id c.(c_next)) c.(c_cidm) (<[c.(c_next) := e]> c.(c_heap))
                   (S c.(c_next)) c.(c_lock) c.(unbound), cep_id).

(** ** Threads *)

Inductive cthread :=
| COp (a : nat)                  (* in [efcp_write] or [efcp_receive] *)
| CLeave (a : nat)               (* about to lower the counter *)
| CDec (a : nat)                 (* the counter was lowered to zero; it holds the lock *)
| CWait (a : nat) (awake : bool) (* waits for the operations to end *)
| CDestroy (a : nat).

Inductive coutcome := CRet (v : Z) | CNext (t : cthread).

(** The container, how the thread ends, whether who waits is woken up. *)
Definition cresult : Type := efcp_container * coutcome * bool.

(** The calls that look up an instance under the lock. *)
Definition with_efcp (c : efcp_container) (id : Z) (F : nat -> efcp -> option cresult) : option cresult :=
  match efcp_imap_find c.(instances) id with
  | None => Some (c, CRet (-1), false)
  | Some a => e ← c.(c_heap) !! a; F a e
  end.
Definition checked (c : efcp_container) (id : Z) (r : option cresult) : option cresult :=
  if negb (is_cep_id_ok id) then Some (c, CRet (-1), false) else r.

(** ** Operations *)

Definition in_e_state (s : efcp_state) (e : efcp) : bool := bool_decide (e.(e_state) = s).

Definition efcp_container_write (c : efcp_container) (id : Z) : option cresult :=
  checked c id (with_efcp c id (fun a e =>
    if in_e_state EFCP_DEALLOCATED e then Some (c, CRet 0, false)
    else Some (upd_inst c a (add_pending 1 e), CNext (COp a), false))).

(** [dt] says that the PDU carries data, [src] is the cep-id of its sender. *)
Definition efcp_container_receive (c : efcp_container) (id : Z) (dt : bool) (src : Z) : option cresult :=
  checked c id (with_efcp c id (fun a e =>
    if in_e_state EFCP_DEALLOCATED e then Some (c, CRet 0, false)
    else
      let e := add_pending 1 e in
      if dt then
        cn ← e.(e_connection);
        let cn := if cn.(destination_cep_id) <? 0
                  then mk_connection cn.(conn_port_id) cn.(source_address) cn.(destination_address) cn.(source_cep_id) src cn.(conn_qos_id)
                  else cn in
        Some (upd_inst c a (set_conn (Some cn) e), CNext (COp a), false)
      else Some (upd_inst c a e, CNext (COp a), false))).

Definition efcp_container_unbind_user_ipcp (c : efcp_container) (id : Z) : option cresult :=
  checked c id (with_efcp c id (fun a e => Some (upd_inst c a (set_user false e), CRet 0, false))).

Definition efcp_connection_destroy (c : efcp_container) (id : Z) : option cresult :=
  checked c id (with_efcp c id (fun a e =>
    let e := set_e_state EFCP_DEALLOCATED e in
    let c := upd_inst (set_instances (efcp_imap_remove c.(instances) id) c) a e in
    Some (c, CNext (if e.(pending_ops) =? 0 then CDestroy a else CWait a true), false))).

(** [efcp_connection_update] and [efcp_connection_modify] destroy an instance that is deallocated
    and has no operation on it. *)
Definition change_connection (c : efcp_container) (a : nat) (e : efcp) (g : connection -> connection) : option cresult :=
  if (e.(pending_ops) =? 0) && in_e_state EFCP_DEALLOCATED e then c ← destroy_at c a; Some (c, CRet 0, false)
  else cn ← e.(e_connection); Some (upd_inst c a (set_conn (Some (g cn)) e), CRet 0, false).

Definition efcp_connection_update (c : efcp_container) (from to : Z) : option cresult :=
  checked c from (checked c to (with_efcp c from (fun a e =>
    change_connection c a e (fun cn =>
      mk_connection cn.(conn_port_id) cn.(source_address) cn.(destination_address) cn.(source_cep_id) to cn.(conn_qos_id))))).

Definition efcp_connection_modify (c : efcp_container) (id src dst : Z) : option cresult :=
  with_efcp c id (fun a e =>
    change_connection c a e (fun cn =>
      mk_connection cn.(conn_port_id) src dst cn.(source_cep_id) cn.(destination_cep_id) cn.(conn_qos_id))).

(** [efcp_imap_address_change] goes through the map. *)
Fixpoint change_addresses (h : gmap nat efcp) (m : hmap) (address : Z) : option (gmap nat efcp) :=
  match m with
  | [] => Some h
  | (_, a) :: m =>
      e ← h !! a; cn ← e.(e_connection);
      change_addresses (<[a := set_conn (Some (mk_connection cn.(conn_port_id) address cn.(destination_address) cn.(source_cep_id)
                                                 cn.(destination_cep_id) cn.(conn_qos_id))) e]> h) m address
  end.

Definition efcp_address_change (c : efcp_container) (address : Z) : option cresult :=
  h ← change_addresses c.(c_heap) c.(instances) address; Some (upd_heap c h, CRet 0, false).

(** ** Sections of the threads under way *)

Inductive cinput := CNone | CSignal.

Definition csection (c : efcp_container) (t : cthread) (i : cinput) : option cresult :=
  match t with
  | COp a => e ← c.(c_heap) !! a; Some (c, CNext (CLeave a), false)
  | CLeave a =>
      if c.(c_lock) then None
      else
        e ← c.(c_heap) !! a;
        let e := add_pending (-1) e in
        if e.(pending_ops) =? 0 then Some (set_lock true (upd_inst c a e), CNext (CDec a), false)
        else Some (upd_inst c a e, CRet 0, false)
  | CDec a => e ← c.(c_heap) !! a; Some (set_lock false c, CRet 0, in_e_state EFCP_DEALLOCATED e)
  | CWait a awake =>
      e ← c.(c_heap) !! a;
      let cond := (e.(pending_ops) =? 0) && in_e_state EFCP_DEALLOCATED e in
      match i with
      | CNone => if awake then Some (c, CNext (if cond then CDestroy a else CWait a false), false) else None
      | CSignal => Some (c, CNext (CDestroy a), false)
      end
  | CDestroy a => c ← destroy_at c a; Some (c, CRet 0, false)
  end.

(** ** The transition system *)

Inductive ccall :=
| KCreate (user : bool) (src_addr dst_addr port_id qos_id src_cep dst_cep : Z) (cfg : conn_config) (fails : stage -> bool)
| KDestroy (id : Z)
| KWrite (id : Z)
| KReceive (id : Z) (dt : bool) (src : Z)
| KUnbind (id : Z)
| KUpdate (from to : Z)
| KModify (id src dst : Z)
| KAddress (address : Z).

Definition ccall_section (c : efcp_container) (k : ccall) : option cresult :=
  if c.(c_lock) then None
  else match k with
  | KCreate user sa da port qos scep dcep cfg fails =>
      '(c, id) ← efcp_connection_create c user sa da port qos scep dcep cfg fails; Some (c, CRet id, false)
  | KDestroy id => efcp_connection_destroy c id
  | KWrite id => efcp_container_write c id
  | KReceive id dt src => efcp_container_receive c id dt src
  | KUnbind id => efcp_container_unbind_user_ipcp c id
  | KUpdate from to => efcp_connection_update c from to
  | KModify id src dst => efcp_connection_modify c id src dst
  | KAddress address => efcp_address_change c address
  end.

Record csys := mk_csys { s_cont : efcp_container; cthreads : list cthread }.

Definition cwake (w : bool) (t : cthread) : cthread :=
  match t with CWait a _ => if w then CWait a true else t | _ => t end.
Definition cnext (o : coutcome) : list cthread := match o with CNext t => [t] | CRet _ => [] end.
Definition cland (r : cresult) (l1 l2 : list cthread) : csys :=
  let '(c, o, w) := r in mk_csys c (cwake w <$> l1 ++ cnext o ++ l2).

(** [signals] says whether the wait of [efcp_connection_destroy] can be interrupted. *)
Inductive cont_step (signals : bool) : csys -> csys -> Prop :=
| cstep_call s k r :
    ccall_section s.(s_cont) k = Some r -> cont_step signals s (cland r [] s.(cthreads))
| cstep_thread s l1 t l2 i r :
    s.(cthreads) = l1 ++ t :: l2 -> (i = CSignal -> signals = true) -> csection s.(s_cont) t i = Some r ->
    cont_step signals s (cland r l1 l2).

Definition efcp_container_create (mem : bool) : option efcp_container :=
  if mem then Some (mk_cont [] (Cidm.cidm_create true) ∅ 0 false []) else None.

Definition cont_init : csys := mk_csys (mk_cont [] (Cidm.cidm_create true) ∅ 0 false []) [].
Definition cont_reachable (signals : bool) (s : csys) : Prop := rtc (cont_step signals) cont_init s.
