(* ===== verification/EfcpContInv.v ===== *)
(** * The lifetime of EFCP instances

    The invariant of the transition system of [EfcpCont.v] when the wait of a destruction is not
    interrupted: an operation under way has its instance, instances have distinct cep-ids that are
    reserved for them, and an instance is in the map or being destroyed by one thread. *)

From S2P Require Import Prelude Ids Hmap EfcpState EfcpCont.
From Stdlib Require Import ZArith Lia.
From stdpp Require Import base list numbers option gmap sets relations.
#[local] Open Scope Z_scope.

(** ** Who uses an instance *)

Inductive kind := UOp | UWait | UGo.
#[export] Instance kind_eq_dec : EqDecision kind.
Proof. solve_decision. Defined.

Definition creg (t : cthread) : option (kind * nat) :=
  match t with
  | COp a | CLeave a => Some (UOp, a)
  | CWait a _ => Some (UWait, a)
  | CDestroy a => Some (UGo, a)
  | CDec _ => None
  end.

Abbreviation uses := (list (kind * nat)).

Definition ccnt (k : kind) (a : nat) (R : uses) : Z := Z.of_nat (length (filter (fun x => x = (k, a)) R)).

Lemma ccnt_app k a R1 R2 : ccnt k a (R1 ++ R2) = ccnt k a R1 + ccnt k a R2.
Proof. unfold ccnt. rewrite filter_app, length_app. lia. Qed.

Lemma ccnt_nonneg k a R : 0 <= ccnt k a R.
Proof. unfold ccnt. lia. Qed.

Lemma ccnt_one k a x : ccnt k a [x] = if decide (x = (k, a)) then 1 else 0.
Proof. unfold ccnt. rewrite filter_cons. by case_decide. Qed.

Lemma ccnt_pos k a R : (k, a) ∈ R -> 0 < ccnt k a R.
Proof.
  intros Hin. unfold ccnt. assert ((k, a) ∈ filter (fun x => x = (k, a)) R) as Hf by by apply list_elem_of_filter.
  destruct (filter _ R); [by apply elem_of_nil in Hf|cbn; lia].
Qed.

Lemma ccnt_none k a R : (k, a) ∉ R -> ccnt k a R = 0.
Proof.
  intros Hn. unfold ccnt. induction R as [|x R IH]; [done|]. rewrite filter_cons_False.
  - apply IH. intros H. apply Hn. by right.
  - intros ->. apply Hn. left.
Qed.

(** ** The invariant *)

Definition cep_of (c : efcp_container) (a : nat) : option Z :=
  e ← c.(c_heap) !! a; cn ← e.(e_connection); Some cn.(source_cep_id).

Definition inst_ok (m : hmap) (ids : list Z) (a : nat) (e : efcp) (R : uses) : Prop :=
  exists cn, e.(e_connection) = Some cn /\ cn.(source_cep_id) ∈ ids /\ e.(pending_ops) = ccnt UOp a R /\
    ((cn.(source_cep_id), a) ∈ m /\ e.(e_state) = EFCP_ALLOCATED /\ ccnt UWait a R = 0 /\ ccnt UGo a R = 0 \/
     a ∉ m.*2 /\ e.(e_state) = EFCP_DEALLOCATED /\ ccnt UWait a R + ccnt UGo a R = 1 /\ (ccnt UGo a R = 1 -> ccnt UOp a R = 0)).

Definition cidm_ids (c : efcp_container) : list Z :=
  match c.(c_cidm) with Some p => p.(Cidm.allocated_cep_ids) | None => [] end.

Record cont_inv (c : efcp_container) (R : uses) : Prop := {
  ci_cidm : exists p, c.(c_cidm) = Some p /\ Cidm.wf p;
  ci_ids : NoDup c.(instances).*1;
  ci_addrs : NoDup c.(instances).*2;
  ci_map id a : (id, a) ∈ c.(instances) -> cep_of c a = Some id;
  ci_use k a : (k, a) ∈ R -> is_Some (c.(c_heap) !! a);
  ci_inst a e : c.(c_heap) !! a = Some e -> (a < c.(c_next))%nat /\ inst_ok c.(instances) (cidm_ids c) a e R;
  ci_inj a a' id : cep_of c a = Some id -> cep_of c a' = Some id -> a = a'
}.

(** ** A step changes one instance *)

Lemma cep_of_heap c c' a : c'.(c_heap) !! a = c.(c_heap) !! a -> cep_of c' a = cep_of c a.
Proof. unfold cep_of. by intros ->. Qed.

Lemma inst_cep c R a e : cont_inv c R -> c.(c_heap) !! a = Some e -> exists id, cep_of c a = Some id /\ id ∈ cidm_ids c.
Proof.
  intros Hi He. destruct (ci_inst _ _ Hi _ _ He) as [_ (cn & Hcn & Hin & _)].
  exists (source_cep_id cn). unfold cep_of. by rewrite He; cbn; rewrite Hcn.
Qed.

Lemma cep_of_inst c a id : cep_of c a = Some id -> exists e, c.(c_heap) !! a = Some e.
Proof. unfold cep_of. destruct (c_heap c !! a) as [e|]; [by exists e|done]. Qed.

(** [c'] and [c] differ at [a] only. *)
Record elsewhere_same (a : nat) (c c' : efcp_container) (R R' : uses) : Prop := {
  es_heap a' : a' ≠ a -> c'.(c_heap) !! a' = c.(c_heap) !! a';
  es_map id a' : a' ≠ a -> (id, a') ∈ c'.(instances) <-> (id, a') ∈ c.(instances);
  es_uses k a' : a' ≠ a -> (k, a') ∈ R' <-> (k, a') ∈ R;
  es_cnt k a' : a' ≠ a -> ccnt k a' R' = ccnt k a' R;
  es_next : (c.(c_next) <= c'.(c_next))%nat;
  es_ids a' id : a' ≠ a -> cep_of c a' = Some id -> id ∈ cidm_ids c -> id ∈ cidm_ids c'
}.

Lemma inv_local a c c' R R' :
  cont_inv c R -> elsewhere_same a c c' R R' ->
  (exists p, c'.(c_cidm) = Some p /\ Cidm.wf p) -> NoDup c'.(instances).*1 -> NoDup c'.(instances).*2 ->
  (forall id, (id, a) ∈ c'.(instances) -> cep_of c' a = Some id) ->
  (forall k, (k, a) ∈ R' -> is_Some (c'.(c_heap) !! a)) ->
  (forall e, c'.(c_heap) !! a = Some e -> (a < c'.(c_next))%nat /\ inst_ok c'.(instances) (cidm_ids c') a e R') ->
  (forall a' id, a' ≠ a -> cep_of c' a = Some id -> cep_of c a' ≠ Some id) ->
  cont_inv c' R'.
Proof.
  intros Hi Hs Hc Hn1 Hn2 Hm Hu Hin Hinj. split; try done.
  - intros id a' Hx. destruct (decide (a' = a)) as [->|Hne]; [auto|].
    rewrite (cep_of_heap c) by by apply (es_heap _ _ _ _ _ Hs). apply Hi. by apply (es_map _ _ _ _ _ Hs).
  - intros k a' Hx. destruct (decide (a' = a)) as [->|Hne]; [eauto|].
    rewrite (es_heap _ _ _ _ _ Hs) by done. apply (ci_use _ _ Hi k). by apply (es_uses _ _ _ _ _ Hs).
  - intros a' e He. destruct (decide (a' = a)) as [->|Hne]; [auto|].
    rewrite (es_heap _ _ _ _ _ Hs) in He by done.
    destruct (ci_inst _ _ Hi _ _ He) as (Hlt & cn & Hcn & Hid & Hp & Hst). pose proof (es_next _ _ _ _ _ Hs).
    split; [lia|]. exists cn. rewrite !(es_cnt _ _ _ _ _ Hs) by done. split_and!; try done.
    + eapply (es_ids _ _ _ _ _ Hs); [done| |done]. unfold cep_of. by rewrite He; cbn; rewrite Hcn.
    + destruct Hst as [(? & ?)|(Hnin & ?)]; [left; split; [by apply (es_map _ _ _ _ _ Hs)|done]|right; split; [|done]].
      intros ([id a''] & -> & Hx)%list_elem_of_fmap. cbn in *. apply Hnin.
      apply (list_elem_of_fmap_2 snd _ (id, a'')). by apply (es_map _ _ _ _ _ Hs).
  - intros a1 a2 id H1 H2. destruct (decide (a1 = a)) as [->|Hn]; destruct (decide (a2 = a)) as [->|Hn']; try done.
    + exfalso. eapply Hinj; [exact Hn'|exact H1|]. by rewrite <- (cep_of_heap c c') by by apply (es_heap _ _ _ _ _ Hs).
    + exfalso. eapply Hinj; [exact Hn|exact H2|]. by rewrite <- (cep_of_heap c c') by by apply (es_heap _ _ _ _ _ Hs).
    + rewrite (cep_of_heap c) in H1, H2 by by apply (es_heap _ _ _ _ _ Hs). by eapply (ci_inj _ _ Hi).
Qed.

Lemma inv_lock v c R : cont_inv c R -> cont_inv (set_lock v c) R.
Proof. by intros []; split. Qed.

(** ** One section: [R1] and [R2] are the uses of the other threads *)

Section Sections.
Context (R1 R2 : uses).

Definition amid (new : uses) : uses := R1 ++ new ++ R2.
Definition at_inst (a : nat) (R : uses) : Prop := Forall (fun x => x.2 = a) R.

Lemma amid_uses a old new k a' :
  at_inst a old -> at_inst a new -> a' ≠ a -> (k, a') ∈ amid new <-> (k, a') ∈ amid old.
Proof.
  intros Ho Hn Hne. unfold amid. rewrite !elem_of_app. unfold at_inst in *. rewrite List.Forall_forall in Ho, Hn.
  split; (intros [?|[H|?]]; [tauto| |tauto]); apply list_elem_of_In in H; [apply Hn in H|apply Ho in H]; by cbn in H.
Qed.

Lemma at_inst_cnt a R k a' : at_inst a R -> a' ≠ a -> ccnt k a' R = 0.
Proof.
  intros HR Hne. apply ccnt_none. intros Hin%list_elem_of_In. apply (proj1 (List.Forall_forall _ _) HR) in Hin. done.
Qed.

Lemma amid_cnt a old new k a' :
  at_inst a old -> at_inst a new -> a' ≠ a -> ccnt k a' (amid new) = ccnt k a' (amid old).
Proof.
  intros Ho Hn Hne. unfold amid. rewrite !ccnt_app.
  by rewrite (at_inst_cnt _ _ k a' Ho Hne), (at_inst_cnt _ _ k a' Hn Hne).
Qed.

Lemma amid_one k a k' :
  ccnt k' a (amid [(k, a)]) = ccnt k' a (amid []) + (if decide (k = k') then 1 else 0).
Proof.
  unfold amid. rewrite !ccnt_app, ccnt_one. change (ccnt k' a []) with 0.
  repeat case_decide; simplify_eq; lia.
Qed.

Lemma at_inst_nil a : at_inst a [].
Proof. constructor. Qed.
Lemma at_inst_one k a : at_inst a [(k, a)].
Proof. by constructor. Qed.
#[local] Hint Resolve at_inst_nil at_inst_one : core.

Definition same_cep (e e' : efcp) : Prop :=
  source_cep_id <$> e'.(e_connection) = source_cep_id <$> e.(e_connection).

Lemma cep_of_fmap c a : cep_of c a = e ← c.(c_heap) !! a; source_cep_id <$> e.(e_connection).
Proof. unfold cep_of. destruct (c_heap c !! a) as [e|]; cbn; [|done]. by destruct (e_connection e). Qed.

Lemma inv_upd_inst c a e e' old new :
  cont_inv c (amid old) -> at_inst a old -> at_inst a new -> c.(c_heap) !! a = Some e -> same_cep e e' ->
  inst_ok c.(instances) (cidm_ids c) a e' (amid new) -> cont_inv (upd_inst c a e') (amid new).
Proof.
  intros Hi Ho Hn He Hc Hok.
  assert (cep_of (upd_inst c a e') a = cep_of c a) as Hcep.
  { rewrite !cep_of_fmap. cbn [upd_inst upd_heap c_heap]. by rewrite lookup_insert_eq, He. }
  apply (inv_local a c _ (amid old)); try done; try (by apply Hi).
  - split; cbn; try done.
    + intros a' Hne. by rewrite lookup_insert_ne.
    + intros k a' Hne. by apply (amid_uses a).
    + intros k a' Hne. by apply (amid_cnt a).
  - intros id Hin. rewrite Hcep. by apply Hi.
  - intros k _. cbn. rewrite lookup_insert_eq. by eexists.
  - cbn. rewrite lookup_insert_eq. intros e2 [= <-]. split; [by eapply (ci_inst _ _ Hi)|done].
  - intros a' id Hne Hid Hid'. rewrite Hcep in Hid. apply Hne. by eapply (ci_inj _ _ Hi).
Qed.

(** The connection leaves the map, a thread goes on to destroy it. *)
Lemma inv_unmap c a id e k :
  cont_inv c (amid []) -> (id, a) ∈ c.(instances) -> c.(c_heap) !! a = Some e ->
  k = (if e.(pending_ops) =? 0 then UGo else UWait) ->
  cont_inv (upd_inst (set_instances (efcp_imap_remove c.(instances) id) c) a (set_e_state EFCP_DEALLOCATED e)) (amid [(k, a)]).
Proof.
  intros Hi Hin He ->. set (k := if _ =? _ then _ else _).
  destruct (ci_inst _ _ Hi _ _ He) as (Hlt & cn & Hcn & Hid & Hp & Hst).
  assert (cep_of c a = Some id) as Hcep by by apply Hi.
  assert (a ∉ (hmap_remove (instances c) id).*2) as Hout.
  { intros ([id' a'] & Ea & Hx)%list_elem_of_fmap. cbn in Ea. subst a'.
    assert (id' = id) as -> by exact (hmap_same_key _ _ _ _ (ci_addrs _ _ Hi) (hmap_remove_sub _ _ _ Hx) Hin).
    eapply (hmap_remove_key _ id (ci_ids _ _ Hi)), (list_elem_of_fmap_2 fst _ (id, a) Hx). }
  apply (inv_local a c _ (amid [])); try done; try (by apply Hi).
  - split; cbn; try done.
    + intros a' Hne. by rewrite lookup_insert_ne.
    + intros id' a' Hne. split; [apply hmap_remove_sub|]. intros Hx. apply hmap_remove_ne; [done|].
      intros ->. apply Hne. exact (hmap_same_addr _ _ _ _ (ci_ids _ _ Hi) Hx Hin).
    + intros k' a' Hne. by apply (amid_uses a).
    + intros k' a' Hne. by apply (amid_cnt a).
  - by apply hmap_remove_NoDup, Hi.
  - by apply hmap_remove_NoDup, Hi.
  - cbn. intros id' Hx. destruct Hout. by apply (list_elem_of_fmap_2 snd _ (id', a)).
  - intros k' _. cbn. rewrite lookup_insert_eq. by eexists.
  - cbn. rewrite lookup_insert_eq. intros e2 [= <-]. split; [done|]. exists cn. split_and!; try done.
    + cbn. rewrite Hp, amid_one. subst k. destruct (_ =? 0); case_decide; simplify_eq; lia.
    + right. cbn. destruct Hst as [(_ & _ & Hw & Hg)|(Hx & _)].
      * rewrite !amid_one, Hw, Hg, <- Hp. subst k.
        destruct (Z.eqb_spec (pending_ops e) 0); repeat case_decide; simplify_eq; split_and!; try done; lia.
      * destruct Hx. by apply (list_elem_of_fmap_2 snd _ (id, a)).
  - intros a' id' Hne Hid'. rewrite cep_of_fmap in Hid'. cbn in Hid'. rewrite lookup_insert_eq in Hid'. cbn in Hid'.
    intros Hid2. apply Hne. rewrite cep_of_fmap, He in Hcep. cbn in Hcep.
    eapply (ci_inj _ _ Hi); [exact Hid2|]. rewrite cep_of_fmap, He. done.
Qed.

(** ** Destruction *)

Lemma released c R id :
  cont_inv c R -> id ∈ cidm_ids c ->
  is_cep_id_ok id = true /\
  exists p', snd (Cidm.cidm_release c.(c_cidm) id) = Some p' /\ Cidm.wf p' /\
    forall x, x ∈ p'.(Cidm.allocated_cep_ids) <-> x ∈ cidm_ids c /\ x ≠ id.
Proof.
  intros Hi Hin. destruct (ci_cidm _ _ Hi) as (p & Hp & Hwf). unfold cidm_ids in *. rewrite Hp in *.
  assert (0 <= id) as Hpos.
  { pose proof (Cyclic.wf_ids _ _ _ Hwf) as Hr. rewrite List.Forall_forall in Hr.
    apply list_elem_of_In, Hr in Hin. unfold Cyclic.in_range in Hin. lia. }
  split; [by apply Z.leb_le|]. destruct (Cidm.cidm_release_spec p id Hwf Hpos) as (r & p' & Hr & Hwf' & _ & _ & _ & Hx).
  exists p'. by rewrite Hr.
Qed.

Lemma destroy_at_post c a :
  cont_inv c (amid [(UGo, a)]) -> exists c', destroy_at c a = Some c' /\ cont_inv c' (amid []) /\ c'.(c_lock) = c.(c_lock).
Proof.
  intros Hi. destruct (ci_use _ _ Hi UGo a) as [e He].
  { unfold amid. rewrite !elem_of_app. right. left. by apply list_elem_of_singleton. }
  destruct (ci_inst _ _ Hi _ _ He) as (_ & cn & Hcn & Hid & Hp & Hst).
  rewrite !amid_one in Hst. repeat case_decide; simplify_eq.
  pose proof (ccnt_nonneg UGo a (amid [])). pose proof (ccnt_nonneg UWait a (amid [])).
  destruct Hst as [(_ & _ & _ & Hg)|(Hout & _ & Hone & Hgo)]; [lia|].
  assert (forall k, (k, a) ∉ amid []) as Hnone.
  { intros k Hk%ccnt_pos. destruct k; lia. }
  destruct (released _ _ _ Hi Hid) as (Hok & p' & Hrel & Hwf & Hids).
  unfold destroy_at, efcp_destroy. rewrite He. cbn [mbind option_bind]. rewrite Hcn, Hok, Hrel. cbn [mbind option_bind].
  eexists. split; [reflexivity|]. split; [|done].
  assert (cep_of c a = Some (source_cep_id cn)) as Hcep by by rewrite cep_of_fmap, He; cbn; rewrite Hcn.
  apply (inv_local a c _ (amid [(UGo, a)])); try done; try (by apply Hi).
  - split; cbn; try done.
    + intros a' Hne. by rewrite lookup_delete_ne.
    + intros k a' Hne. by apply (amid_uses a).
    + intros k a' Hne. by apply (amid_cnt a).
    + intros a' id Hne Hc Hin. unfold cidm_ids. cbn. apply Hids. split; [done|].
      intros ->. apply Hne. by eapply (ci_inj _ _ Hi).
  - by exists p'.
  - cbn. intros id Hx. destruct Hout. by apply (list_elem_of_fmap_2 snd _ (id, a)).
  - intros k Hk. by destruct (Hnone k).
  - cbn. intros e'. by rewrite lookup_delete_eq.
  - intros a' id _. unfold cep_of. cbn. by rewrite lookup_delete_eq.
Qed.

(** ** Creation *)

(** Only the identifiers in use changed. *)
Lemma inv_cidm c p ports R :
  cont_inv c R -> Cidm.wf p -> (forall id a, cep_of c a = Some id -> id ∈ cidm_ids c -> id ∈ p.(Cidm.allocated_cep_ids)) ->
  cont_inv (mk_cont c.(instances) (Some p) c.(c_heap) c.(c_next) c.(c_lock) ports) R.
Proof.
  intros Hi Hwf Hids. split; try (by apply Hi); [by exists p|].
  cbn. intros a e He. destruct (ci_inst _ _ Hi _ _ He) as (Hlt & cn & Hcn & Hid & Hrest). split; [done|].
    exists cn. split_and!; try done; try apply Hrest. eapply (Hids _ a); [|done]. by rewrite cep_of_fmap, He; cbn; rewrite Hcn.
Qed.

Lemma cep_of_in c R a id : cont_inv c R -> cep_of c a = Some id -> id ∈ cidm_ids c.
Proof.
  intros Hi Hc. destruct (cep_of_inst _ _ _ Hc) as [e He]. destruct (inst_cep _ _ _ _ Hi He) as (id' & Hid' & Hin). congruence.
Qed.

Lemma create_add c p cep cn parts user :
  cont_inv c (amid []) -> Cidm.wf p -> p.(Cidm.allocated_cep_ids) = cep :: cidm_ids c -> cep ∉ cidm_ids c ->
  cn.(source_cep_id) = cep ->
  cont_inv (mk_cont (efcp_imap_add c.(instances) cep c.(c_next)) (Some p)
    (<[c.(c_next) := mk_efcp EFCP_ALLOCATED 0 user (Some cn) parts]> c.(c_heap)) (S c.(c_next)) c.(c_lock) c.(unbound)) (amid []).
Proof.
  intros Hi Hwf Hids Hnew <-. set (a := c_next c).
  assert (c_heap c !! a = None) as Hfree.
  { destruct (c_heap c !! a) as [e|] eqn:He; [|done]. destruct (ci_inst _ _ Hi _ _ He) as [Hlt _]. lia. }
  assert (forall k, (k, a) ∉ amid []) as Hno.
  { intros k Hk. apply (ci_use _ _ Hi) in Hk as [e He]. congruence. }
  assert (forall id, (id, a) ∉ instances c) as Hno'.
  { intros id Hx. apply (ci_map _ _ Hi) in Hx. unfold cep_of in Hx. by rewrite Hfree in Hx. }
  assert (source_cep_id cn ∉ (instances c).*1) as Hkey.
  { intros ([id a'] & E & Hx)%list_elem_of_fmap. cbn in E. subst id. apply Hnew.
    by eapply cep_of_in, (ci_map _ _ Hi). }
  apply (inv_local a c _ (amid [])); cbn; try done.
  - split; cbn; try done; [|intros id a' Hne; unfold efcp_imap_add, hmap_add; rewrite elem_of_cons; naive_solver|lia|].
    + intros a' Hne. by rewrite lookup_insert_ne.
    + intros a' id Hne _ Hin. unfold cidm_ids. cbn. rewrite Hids. by right.
  - by exists p.
  - apply NoDup_cons. split; [done|apply Hi].
  - apply NoDup_cons. split; [|apply Hi]. intros ([id a'] & E & Hx)%list_elem_of_fmap. cbn in E. subst a'. by eapply Hno'.
  - intros id [[= ->]|Hx]%elem_of_cons; [|by destruct (Hno' id)]. unfold cep_of. cbn. by rewrite lookup_insert_eq.
  - intros k Hk. by destruct (Hno k).
  - rewrite lookup_insert_eq. intros e [= <-]. split; [lia|]. exists cn. unfold cidm_ids. cbn. rewrite Hids.
    split_and!; [done|left|by rewrite ccnt_none|]. left. split_and!; [left|done|by rewrite ccnt_none..].
  - intros a' id Hne. unfold cep_of at 1. cbn. rewrite lookup_insert_eq. cbn. intros [= <-] Hc.
    by apply Hnew, (cep_of_in _ _ _ _ Hi Hc).
Qed.

Lemma release_new c p cep ports :
  cont_inv c (amid []) -> c.(c_cidm) = Some p -> (forall a, cep_of c a ≠ Some cep) ->
  cont_inv (mk_cont c.(instances) (if is_cep_id_ok cep then snd (Cidm.cidm_release c.(c_cidm) cep) else c.(c_cidm))
              c.(c_heap) c.(c_next) c.(c_lock) ports) (amid []).
Proof.
  intros Hi Hp Hnew. destruct (ci_cidm _ _ Hi) as (p0 & Hp0 & Hwf). simplify_eq. rewrite Hp.
  destruct (is_cep_id_ok cep) eqn:Hok; [|by apply inv_cidm; [| |unfold cidm_ids; rewrite Hp]].
  destruct (Cidm.cidm_release_spec p cep Hwf) as (r & p' & Hr & Hwf' & _ & _ & _ & Hx); [by apply Z.leb_le|].
  rewrite Hr. apply inv_cidm; [done|done|]. intros id a Hc Hin. apply Hx. unfold cidm_ids in Hin. rewrite Hp in Hin.
  split; [done|]. intros ->. by eapply Hnew.
Qed.

Lemma create_connection_post c user sa da port qos scep dcep cfg fails c' r :
  cont_inv c (amid []) -> efcp_connection_create c user sa da port qos scep dcep cfg fails = Some (c', r) ->
  cont_inv c' (amid []).
Proof.
  intros Hi. unfold efcp_connection_create. destruct (_ || _); [by intros [= <- _]|].
  destruct (ci_cidm _ _ Hi) as (p & Hp & Hwf). rewrite Hp.
  destruct (Cidm.cidm_allocate _ _ _) as [[cep q]|] eqn:Ea; [|done]. cbn [mbind option_bind].
  apply Cidm.cidm_allocate_result in Ea as (p' & -> & Hwf' & Hmem); [|done].
  assert (cidm_ids c = p.(Cidm.allocated_cep_ids)) as Hids by by (unfold cidm_ids; rewrite Hp).
  assert (forall id, id ∈ cidm_ids c -> id ∈ p'.(Cidm.allocated_cep_ids)) as Hsup.
  { rewrite Hids. destruct (negb _); destruct Hmem as (_ & Hm); [destruct Hm as [_ Hm]|]; rewrite Hm; intros id; rewrite ?elem_of_cons; auto. }
  assert (cont_inv (mk_cont c.(instances) (Some p') c.(c_heap) c.(c_next) c.(c_lock) c.(unbound)) (amid [])) as Hi'.
  { apply inv_cidm; auto. }
  destruct (negb (is_cep_id_ok cep)) eqn:Eok; [cbn; destruct user; [done|by intros [= <- _]]|].
  destruct (negb (is_candidate_connection_ok _)); [cbn; destruct user; [done|by intros [= <- _]]|].
  destruct (negb (fails MkCepId)) eqn:Ef; [|destruct Hmem as [-> _]; done]. destruct Hmem as (Hr & Hnew & Hm).
  destruct (existsb _ _).
  - cbn. intros [= <- _]. refine (release_new _ p' cep _ Hi' eq_refl _). intros a Hc. apply Hnew. rewrite <- Hids.
    by apply (cep_of_in _ _ _ _ Hi Hc).
  - intros [= <- _]. apply create_add; [done|done| |by rewrite Hids|done]. by rewrite Hm, Hids.
Qed.

(** ** Sections *)

Definition cpost (r : cresult) : Prop := let '(c, o, _) := r in cont_inv c (amid (omap creg (cnext o))).

Lemma with_efcp_post c id F r :
  cont_inv c (amid []) ->
  (forall a e cn, c.(c_heap) !! a = Some e -> (id, a) ∈ c.(instances) -> e.(e_connection) = Some cn ->
     e.(e_state) = EFCP_ALLOCATED -> inst_ok c.(instances) (cidm_ids c) a e (amid []) -> F a e = Some r -> cpost r) ->
  with_efcp c id F = Some r -> cpost r.
Proof.
  intros Hi HF. unfold with_efcp. destruct (efcp_imap_find _ _) as [a|] eqn:Ef; [|by intros [= <-]].
  destruct (c_heap c !! a) as [e|] eqn:He; [|done]. cbn [mbind option_bind]. apply hmap_find_elem in Ef.
  destruct (ci_inst _ _ Hi _ _ He) as [_ Hok]. pose proof Hok as (cn & Hcn & _ & _ & [(_ & Hst & _)|(Hout & _)]); [by eapply HF|].
  destruct Hout. by apply (list_elem_of_fmap_2 snd _ (id, a)).
Qed.

Lemma checked_post c id x r :
  cont_inv c (amid []) -> (x = Some r -> cpost r) -> checked c id x = Some r -> cpost r.
Proof. intros Hi Hx. unfold checked. destruct (negb _); [by intros [= <-]|done]. Qed.

(** The instance is in the map: its connection may change except for its cep-id, and an
    operation may begin. *)
Lemma upd_mapped c a e e' k :
  cont_inv c (amid []) -> c.(c_heap) !! a = Some e -> e.(e_state) = EFCP_ALLOCATED ->
  inst_ok c.(instances) (cidm_ids c) a e (amid []) -> same_cep e e' -> e'.(e_state) = EFCP_ALLOCATED ->
  e'.(pending_ops) = e.(pending_ops) + Z.of_nat (length k) -> (k = [] \/ k = [(UOp, a)]) ->
  cont_inv (upd_inst c a e') (amid k).
Proof.
  intros Hi He Hst (cn & Hcn & Hid & Hp & Hm) Hc Hst' Hp' Hk.
  destruct Hm as [(Hin & _ & Hw & Hg)|(_ & ? & _)]; [|congruence].
  unfold same_cep in Hc. rewrite Hcn in Hc. destruct (e_connection e') as [cn'|] eqn:Hcn'; [|done]. cbn in Hc. injection Hc as Hc.
  apply (inv_upd_inst c a e e' []); try done; [by destruct Hk as [-> | ->]|unfold same_cep; by rewrite Hcn, Hcn'; cbn; rewrite Hc|].
  exists cn'. rewrite Hc. destruct Hk as [-> | ->]; cbn in Hp'.
  - split_and!; try done; [lia|]. by left.
  - rewrite !amid_one. repeat case_decide; simplify_eq. split_and!; try done; [lia|]. left. by rewrite !Z.add_0_r.
Qed.

Lemma change_connection_post c a e g r :
  cont_inv c (amid []) -> c.(c_heap) !! a = Some e -> e.(e_state) = EFCP_ALLOCATED ->
  inst_ok c.(instances) (cidm_ids c) a e (amid []) -> (forall cn, (g cn).(source_cep_id) = cn.(source_cep_id)) ->
  change_connection c a e g = Some r -> cpost r.
Proof.
  intros Hi He Hst Hok Hg. unfold change_connection, in_e_state. rewrite Hst.
  rewrite (bool_decide_eq_false_2 (EFCP_ALLOCATED = _)) by done. rewrite andb_false_r.
  destruct (e_connection e) as [cn|] eqn:Hcn; [|done]. intros [= <-]. cbn.
  eapply (upd_mapped c a e); try done; [|cbn; lia|by left]. unfold same_cep. rewrite Hcn. cbn. by rewrite Hg.
Qed.

Lemma change_addresses_post m c address h :
  cont_inv c (amid []) -> (forall id a, (id, a) ∈ m -> (id, a) ∈ c.(instances)) ->
  change_addresses c.(c_heap) m address = Some h -> cont_inv (upd_heap c h) (amid []).
Proof.
  revert c. induction m as [|[id a] m IH]; intros c Hi Hsub; cbn.
  - intros [= <-]. by destruct c.
  - destruct (c_heap c !! a) as [e|] eqn:He; [|done]. cbn. destruct (e_connection e) as [cn|] eqn:Hcn; [|done]. cbn.
    set (e' := set_conn _ e). intros Hh. apply (IH (upd_inst c a e')); [|intros; apply Hsub; by right|done].
    destruct (ci_inst _ _ Hi _ _ He) as [_ Hok]. pose proof Hok as (cn' & _ & _ & _ & [(_ & Hst & _)|(Hout & _)]).
    + apply (upd_mapped c a e); try done; [|cbn; lia|by left]. unfold same_cep. cbn. by rewrite Hcn.
    + destruct Hout. apply (list_elem_of_fmap_2 snd _ (id, a)). apply Hsub. left.
Qed.

Lemma ccall_post c k r : cont_inv c (amid []) -> ccall_section c k = Some r -> cpost r.
Proof.
  intros Hi. unfold ccall_section. destruct (c_lock c); [done|]. destruct k.
  - destruct (efcp_connection_create _ _ _ _ _ _ _ _ _ _) as [[c' id]|] eqn:E; [|done]. intros [= <-].
    by eapply create_connection_post.
  - apply checked_post; [done|]. apply with_efcp_post; [done|]. intros a e cn He Hin _ _ _ [= <-]. unfold cpost. cbn [cnext].
    change (pending_ops (set_e_state _ e)) with (pending_ops e).
    replace (omap creg [_]) with [(if pending_ops e =? 0 then UGo else UWait, a)] by by destruct (_ =? _).
    by apply inv_unmap.
  - apply checked_post; [done|]. apply with_efcp_post; [done|]. intros a e cn He Hin Hcn Hst Hok.
    destruct (in_e_state _ _); intros [= <-]; [done|]. cbn. eapply upd_mapped; try done. by right.
  - apply checked_post; [done|]. apply with_efcp_post; [done|]. intros a e cn He Hin Hcn Hst Hok.
    destruct (in_e_state _ _); [by intros [= <-]|]. cbn. rewrite Hcn. destruct dt; intros [= <-]; cbn.
    + eapply upd_mapped; try done; [|by right]. unfold same_cep. cbn. rewrite Hcn. by destruct (_ <? 0).
    + eapply upd_mapped; try done. by right.
  - apply checked_post; [done|]. apply with_efcp_post; [done|]. intros a e cn He Hin Hcn Hst Hok [= <-]. cbn.
    eapply upd_mapped; try done; [cbn; lia|by left].
  - apply checked_post; [done|]. apply checked_post; [done|]. apply with_efcp_post; [done|].
    intros a e cn He Hin Hcn Hst Hok. by apply change_connection_post.
  - apply with_efcp_post; [done|]. intros a e cn He Hin Hcn Hst Hok. by apply change_connection_post.
  - unfold efcp_address_change. destruct (change_addresses _ _ _) as [h|] eqn:Eh; [|done]. intros [= <-]. cbn.
    by eapply change_addresses_post.
Qed.

Lemma inv_reuse c a e old new :
  cont_inv c (amid old) -> at_inst a old -> at_inst a new -> c.(c_heap) !! a = Some e ->
  inst_ok c.(instances) (cidm_ids c) a e (amid new) -> cont_inv c (amid new).
Proof.
  intros Hi Ho Hn He Hok. replace c with (upd_inst c a e); [by eapply inv_upd_inst|].
  destruct c. unfold upd_inst, upd_heap. cbn in *. by rewrite insert_id.
Qed.

(** A use of an instance has it. *)
Lemma used_inst c k a :
  cont_inv c (amid [(k, a)]) -> exists e, c.(c_heap) !! a = Some e /\ inst_ok c.(instances) (cidm_ids c) a e (amid [(k, a)]).
Proof.
  intros Hi. destruct (ci_use _ _ Hi k a) as [e He].
  { unfold amid. rewrite !elem_of_app. right. left. by apply list_elem_of_singleton. }
  exists e. split; [done|]. apply (ci_inst _ _ Hi _ _ He).
Qed.

Lemma leave_post c a r : cont_inv c (amid [(UOp, a)]) -> csection c (CLeave a) CNone = Some r -> cpost r.
Proof.
  intros Hi. destruct (used_inst _ _ _ Hi) as (e & He & Hok). cbn. destruct (c_lock c); [done|]. rewrite He. cbn.
  assert (cont_inv (upd_inst c a (add_pending (-1) e)) (amid [])) as Hi'.
  { eapply inv_upd_inst; try done. destruct Hok as (cn & Hcn & Hid & Hp & Hst). exists cn.
    rewrite !amid_one in Hst. rewrite amid_one in Hp. repeat case_decide; simplify_eq. rewrite !Z.add_0_r in Hst.
    pose proof (ccnt_nonneg UOp a (amid [])). split_and!; try done; [cbn; lia|].
    destruct Hst as [?|(? & ? & ? & Hgo)]; [by left|right]. split_and!; try done. lia. }
  destruct (_ =? 0); intros [= <-]; [by apply inv_lock|done].
Qed.

Lemma wait_post c a awake r : cont_inv c (amid [(UWait, a)]) -> csection c (CWait a awake) CNone = Some r -> cpost r.
Proof.
  intros Hi. destruct (used_inst _ _ _ Hi) as (e & He & Hok). cbn. rewrite He. cbn. destruct awake; [|done].
  destruct (Z.eqb_spec (pending_ops e) 0) as [Hz|]; cbn; [|by intros [= <-]].
  destruct (in_e_state _ _) eqn:Es; intros [= <-]; [|done]. cbn. eapply (inv_reuse _ a); try done.
  apply bool_decide_eq_true in Es. destruct Hok as (cn & Hcn & Hid & Hp & Hst). exists cn.
  rewrite !amid_one in *. repeat case_decide; simplify_eq. split_and!; try done.
  destruct Hst as [(_ & ? & _)|(? & ? & ? & Hgo)]; [congruence|right]. pose proof (ccnt_nonneg UGo a (amid [])).
  pose proof (ccnt_nonneg UWait a (amid [])). split_and!; try done; lia.
Qed.

Lemma csection_post c t r : cont_inv c (amid (omap creg [t])) -> csection c t CNone = Some r -> cpost r.
Proof.
  intros Hi. destruct t; cbn in Hi.
  - destruct (used_inst _ _ _ Hi) as (e & He & _). cbn. rewrite He. by intros [= <-].
  - by apply leave_post.
  - cbn. destruct (c_heap c !! a); [|done]. intros [= <-]. by apply inv_lock.
  - by apply wait_post.
  - destruct (destroy_at_post _ _ Hi) as (c' & E & Hi' & _). cbn. rewrite E. by intros [= <-].
Qed.
End Sections.

(** ** Steps *)

Definition csys_inv (s : csys) : Prop := cont_inv s.(s_cont) (omap creg s.(cthreads)).

Lemma cwake_regs w (l : list cthread) : omap creg (cwake w <$> l) = omap creg l.
Proof.
  induction l as [|t l IH]; cbn; [done|]. rewrite IH. by destruct t, w.
Qed.

Lemma cpost_land l1 l2 r : cpost (omap creg l1) (omap creg l2) r -> csys_inv (cland r l1 l2).
Proof.
  destruct r as [[c o] w]. unfold cpost, csys_inv, cland, amid. cbn [s_cont cthreads].
  by rewrite cwake_regs, !omap_app.
Qed.

Lemma cont_step_inv s s' : csys_inv s -> cont_step false s s' -> csys_inv s'.
Proof.
  intros Hi Hs. destruct Hs as [s k r Hr|s l1 t l2 i r Ht Hsig Hr]; apply cpost_land.
  - by apply (ccall_post [] _ (s_cont s) k).
  - destruct i; [|by specialize (Hsig eq_refl)]. eapply csection_post; [|exact Hr]. unfold amid. rewrite <- !omap_app.
    unfold csys_inv in Hi. by rewrite Ht in Hi.
Qed.

Lemma cont_init_inv : csys_inv cont_init.
Proof.
  split; cbn; try by constructor.
  - destruct (Cidm.cidm_create_wf _ eq_refl) as [Hwf _]. eexists. split; [reflexivity|exact Hwf].
  - by intros id a ?%elem_of_nil.
  - by intros k a ?%elem_of_nil.
  - by intros a e He.
Qed.

Lemma cont_reachable_inv s : cont_reachable false s -> csys_inv s.
Proof.
  intros Hr. eapply (rtc_ind_r (fun s => csys_inv s)); [apply cont_init_inv| |exact Hr].
  intros y z _ Hs Hy. by eapply cont_step_inv.
Qed.

(** C10: whatever connections are created, changed and destroyed while operations run on them,
    when the wait of a destruction is not interrupted: an operation that is counted as pending
    and a destruction under way have their instance; no two instances have the same cep-id, also
    those being destroyed, and every cep-id of an instance is reserved; the counter of an
    instance is the number of these operations; an instance is either in the map under its
    cep-id, or deallocated and in the hands of exactly one destruction. An operation that has
    lowered the counter and only looks at the state of the instance once more ([CDec],
    efcp.c:374) is left out: it may read an instance that was freed
    ([efcp_leave_use_after_free]). *)
Theorem efcp_container_safe (s : csys) :
  cont_reachable false s ->
  (forall t k a, t ∈ s.(cthreads) -> creg t = Some (k, a) -> is_Some (s.(s_cont).(c_heap) !! a)) /\
  (forall a a' id, cep_of s.(s_cont) a = Some id -> cep_of s.(s_cont) a' = Some id -> a = a') /\
  (forall a e, s.(s_cont).(c_heap) !! a = Some e ->
     exists id, cep_of s.(s_cont) a = Some id /\ id ∈ cidm_ids s.(s_cont) /\
       e.(pending_ops) = ccnt UOp a (omap creg s.(cthreads)) /\
       (efcp_imap_find s.(s_cont).(instances) id = Some a /\ e.(e_state) = EFCP_ALLOCATED \/
        e.(e_state) = EFCP_DEALLOCATED /\
        ccnt UWait a (omap creg s.(cthreads)) + ccnt UGo a (omap creg s.(cthreads)) = 1)).
Proof.
  intros Hi%cont_reachable_inv. split_and!.
  - intros t k a Ht Hreg. apply (ci_use _ _ Hi k). apply list_elem_of_omap. by exists t.
  - apply Hi.
  - intros a e He. destruct (ci_inst _ _ Hi _ _ He) as (_ & cn & Hcn & Hid & Hp & Hst).
    exists (source_cep_id cn). split_and!; try done; [by rewrite cep_of_fmap, He; cbn; rewrite Hcn|].
    destruct Hst as [(Hin & ? & _)|(_ & ? & ? & _)]; [left|by right]. split; [|done].
    by apply (hmap_elem_find _ _ _ (ci_ids _ _ Hi)).
Qed.
