(* ===== verification/EfcpContRuns.v ===== *)
(** * Destructions of connections end; runs of the container

    Over the transition system of [EfcpCont.v]: who destroys a connection is woken up; runs given by the
    list of their steps, and those that end badly. *)

From S2P Require Import Prelude Ids Hmap EfcpState EfcpCont EfcpContInv.
From Stdlib Require Import ZArith Lia.
From stdpp Require Import base list numbers option gmap sets relations.
#[local] Open Scope Z_scope.

(** ** No destruction is forgotten *)

(** A counter gets to zero only in the hands of who will look at the state of the instance;
    who goes to sleep has operations to wait for. *)
Definition count_ok (c : efcp_container) (r : cresult) : Prop :=
  let '(c', o, _) := r in
  (forall a e e', c.(c_heap) !! a = Some e -> c'.(c_heap) !! a = Some e' -> e'.(pending_ops) = 0 ->
     e.(pending_ops) <= 0 \/ o = CNext (CDec a)) /\
  (forall a e', o = CNext (CWait a false) -> c'.(c_heap) !! a = Some e' -> e'.(pending_ops) = 0 -> e'.(e_state) = EFCP_ALLOCATED).

Definition not_waiting (o : coutcome) : Prop := forall a, o ≠ CNext (CWait a false).

Lemma count_ok_same c o w : not_waiting o -> count_ok c (c, o, w).
Proof. intros Ho. split; [intros; simplify_eq; lia|intros a e' ->; by destruct (Ho a)]. Qed.

(** The heap changes at one instance, whose counter does not go down. *)
Lemma count_ok_heap c c' a e e' o w :
  c.(c_heap) !! a = Some e -> c'.(c_heap) = <[a := e']> c.(c_heap) -> e.(pending_ops) <= e'.(pending_ops) ->
  not_waiting o -> count_ok c (c', o, w).
Proof.
  intros He Hh Hp Ho. split; [|intros ? ? ->; by destruct (Ho a0)].
  intros b g g' Hg Hg' Hz. rewrite Hh in Hg'.
  destruct (decide (b = a)) as [->|]; [rewrite lookup_insert_eq in Hg'|rewrite lookup_insert_ne in Hg' by done];
    simplify_eq; lia.
Qed.

Lemma count_ok_delete c c' a o w :
  c'.(c_heap) = base.delete a c.(c_heap) -> not_waiting o -> count_ok c (c', o, w).
Proof.
  intros Hh Ho. split; [|intros ? ? ->; by destruct (Ho a0)].
  intros b g g' Hg Hg' Hz. rewrite Hh in Hg'. apply lookup_delete_Some in Hg' as [_ Hg']. simplify_eq. lia.
Qed.

Lemma efcp_destroy_heap c e c' : efcp_destroy c e = Some c' -> c'.(c_heap) = c.(c_heap).
Proof. unfold efcp_destroy. destruct (e_connection e); [by intros [= <-]|]. destruct (user_ipcp e); by intros; simplify_eq. Qed.

Lemma destroy_at_heap c a c' : destroy_at c a = Some c' -> c'.(c_heap) = base.delete a c.(c_heap).
Proof.
  unfold destroy_at. destruct (c_heap c !! a) as [e|]; [|done]. cbn. destruct (efcp_destroy c e) as [c1|] eqn:E; [|done].
  intros [= <-]. cbn. by rewrite (efcp_destroy_heap _ _ _ E).
Qed.

Lemma not_waiting_ret v : not_waiting (CRet v).
Proof. by intros a. Qed.
Lemma not_waiting_op a : not_waiting (CNext (COp a)).
Proof. by intros b. Qed.
#[local] Hint Resolve not_waiting_ret not_waiting_op : core.

Lemma with_efcp_count c id F r :
  (forall a e, c.(c_heap) !! a = Some e -> F a e = Some r -> count_ok c r) -> with_efcp c id F = Some r -> count_ok c r.
Proof.
  intros HF. unfold with_efcp. destruct (efcp_imap_find _ _) as [a|]; [|intros [= <-]; auto using count_ok_same].
  destruct (c_heap c !! a) as [e|] eqn:He; [|done]. by apply HF.
Qed.

Lemma checked_count c id x r : (x = Some r -> count_ok c r) -> checked c id x = Some r -> count_ok c r.
Proof. intros Hx. unfold checked. destruct (negb _); [intros [= <-]; auto using count_ok_same|done]. Qed.

Lemma change_connection_count c a e g r :
  c.(c_heap) !! a = Some e -> change_connection c a e g = Some r -> count_ok c r.
Proof.
  intros He. unfold change_connection. destruct (_ && _).
  - destruct (destroy_at c a) as [c'|] eqn:E; [|done]. intros [= <-]. by eapply count_ok_delete; [eapply destroy_at_heap|].
  - destruct (e_connection e); [|done]. intros [= <-]. by eapply count_ok_heap.
Qed.

Lemma change_addresses_pending m h address h' a e e' :
  change_addresses h m address = Some h' -> h !! a = Some e -> h' !! a = Some e' -> e'.(pending_ops) = e.(pending_ops).
Proof.
  revert h e. induction m as [|[id b] m IH]; cbn; intros h e; [intros; by simplify_eq|].
  destruct (h !! b) as [g|] eqn:Hg; [|done]. cbn. destruct (e_connection g); [|done]. cbn. intros Hh He He'.
  destruct (decide (b = a)) as [->|Hne]; simplify_eq.
  - by erewrite (IH _ _ Hh) by (done || apply lookup_insert_eq).
  - by erewrite (IH _ _ Hh) by (done || by rewrite lookup_insert_ne).
Qed.

Lemma create_count R c user sa da port qos scep dcep cfg fails c' r v :
  cont_inv c R -> efcp_connection_create c user sa da port qos scep dcep cfg fails = Some (c', v) ->
  r = (c', CRet v, false) -> count_ok c r.
Proof.
  intros Hi. unfold efcp_connection_create.
  assert (forall c1, c1.(c_heap) = c.(c_heap) -> forall v, count_ok c (c1, CRet v, false)) as Hsame.
  { intros c1 Hh v'. split; [|done]. rewrite Hh. intros; simplify_eq. lia. }
  destruct (_ || _); [intros [= <- <-] ->; auto|].
  destruct (Cidm.cidm_allocate _ _ _) as [[cep q]|]; [|done]. cbn [mbind option_bind].
  set (c1 := mk_cont _ q _ _ _ _). intros H ->.
  assert (forall e, (c2 ← efcp_destroy c1 e; Some (c2, cep_id_bad)) = Some (c', v) -> count_ok c (c', CRet v, false)) as Hd.
  { intros e. destruct (efcp_destroy c1 e) as [c2|] eqn:E; [|done]. intros [= <- <-]. apply Hsame.
    by rewrite (efcp_destroy_heap _ _ _ E). }
  destruct (negb _); [by eapply Hd|]. destruct (negb _); [by eapply Hd|]. destruct (existsb _ _); [by eapply Hd|].
  injection H as <- <-. split; [|done]. cbn. intros a e e' He He' Hz. rewrite lookup_insert_ne in He'; [simplify_eq; lia|].
  intros <-. destruct (ci_inst _ _ Hi _ _ He) as [Hlt _]. lia.
Qed.

Lemma ccall_count R c k r : cont_inv c R -> ccall_section c k = Some r -> count_ok c r.
Proof.
  intros Hi. unfold ccall_section. destruct (c_lock c); [done|]. destruct k.
  - destruct (efcp_connection_create _ _ _ _ _ _ _ _ _ _) as [[c' id]|] eqn:E; [|done]. intros [= <-]. by eapply create_count.
  - apply checked_count, with_efcp_count. intros a e He [= <-]. eapply count_ok_heap; [done|done|done|].
    intros b. by destruct (_ =? _).
  - apply checked_count, with_efcp_count. intros a e He. destruct (in_e_state _ _); intros [= <-].
    + auto using count_ok_same.
    + eapply count_ok_heap; try done; cbn; lia.
  - apply checked_count, with_efcp_count. intros a e He. destruct (in_e_state _ _); [intros [= <-]; auto using count_ok_same|].
    destruct dt; [cbn; destruct (e_connection e); [|done]|]; intros [= <-]; (eapply count_ok_heap; try done; cbn; lia).
  - apply checked_count, with_efcp_count. intros a e He [= <-]. by eapply count_ok_heap.
  - apply checked_count, checked_count, with_efcp_count. intros a e He. by apply change_connection_count.
  - apply with_efcp_count. intros a e He. by apply change_connection_count.
  - unfold efcp_address_change. destruct (change_addresses _ _ _) as [h|] eqn:E; [|done]. intros [= <-].
    split; [|done]. cbn. intros a e e' He He' Hz. rewrite (change_addresses_pending _ _ _ _ _ _ _ E He He') in Hz. lia.
Qed.

Lemma csection_count c t r : csection c t CNone = Some r -> count_ok c r.
Proof.
  destruct t; cbn.
  - destruct (c_heap c !! a); [|done]. intros [= <-]. by apply count_ok_same.
  - destruct (c_lock c); [done|]. destruct (c_heap c !! a) as [e|] eqn:He; [|done]. cbn.
    destruct (Z.eqb_spec (pending_ops e + -1) 0) as [Hz|Hz]; intros [= <-].
    + split; [|done]. cbn. intros b g g' Hg Hg' Hz'.
      destruct (decide (b = a)) as [->|]; [by right|]. rewrite lookup_insert_ne in Hg' by done. simplify_eq. lia.
    + split; [|done]. cbn. intros b g g' Hg Hg' Hz'.
      destruct (decide (b = a)) as [->|]; [rewrite lookup_insert_eq in Hg'|rewrite lookup_insert_ne in Hg' by done];
        simplify_eq; cbn in *; lia.
  - destruct (c_heap c !! a); [|done]. intros [= <-]. split; [|done]. cbn. intros; simplify_eq. lia.
  - destruct (c_heap c !! a) as [e|] eqn:He; [|done]. cbn. destruct awake; [|done].
    destruct ((pending_ops e =? 0) && in_e_state EFCP_DEALLOCATED e) eqn:Ec; intros [= <-]; [by apply count_ok_same|].
    split; [intros; simplify_eq; lia|]. intros b e' [= <-] He' Hz. simplify_eq. rewrite Hz in Ec. cbn in Ec.
    apply bool_decide_eq_false in Ec. by destruct (e_state e).
  - destruct (destroy_at c a) as [c'|] eqn:E; [|done]. intros [= <-]. by eapply count_ok_delete; [eapply destroy_at_heap|].
Qed.

Definition wait_inv (s : csys) : Prop :=
  forall a e, CWait a false ∈ s.(cthreads) -> s.(s_cont).(c_heap) !! a = Some e -> e.(pending_ops) = 0 ->
  CDec a ∈ s.(cthreads).

Lemma cwake_asleep w (l : list cthread) a : CWait a false ∈ cwake w <$> l -> w = false /\ CWait a false ∈ l.
Proof.
  intros (t & Et & Hin)%list_elem_of_fmap. destruct t; cbn in Et; try done. destruct w; [done|]. by simplify_eq.
Qed.

Lemma cwake_dec w (l : list cthread) a : CDec a ∈ l -> CDec a ∈ cwake w <$> l.
Proof. intros Hin. apply list_elem_of_fmap. by exists (CDec a). Qed.

(** Who waits for an instance finds it deallocated. *)
Lemma waiter_deallocated s a aw e :
  csys_inv s -> CWait a aw ∈ s.(cthreads) -> s.(s_cont).(c_heap) !! a = Some e ->
  e.(e_state) = EFCP_DEALLOCATED /\ 0 <= e.(pending_ops).
Proof.
  intros Hi Hin He. destruct (ci_inst _ _ Hi _ _ He) as (_ & cn & _ & _ & Hp & Hst).
  assert ((UWait, a) ∈ omap creg (cthreads s)) as Hr by (apply list_elem_of_omap; eexists; split; [exact Hin|done]).
  apply ccnt_pos in Hr. rewrite Hp. split; [|apply ccnt_nonneg]. destruct Hst as [(_ & _ & ? & _)|(_ & ? & _)]; [lia|done].
Qed.

Lemma waiter_inst s a aw : csys_inv s -> CWait a aw ∈ s.(cthreads) -> is_Some (s.(s_cont).(c_heap) !! a).
Proof.
  intros Hi Hin. apply (ci_use _ _ Hi UWait). apply list_elem_of_omap. by eexists.
Qed.

Lemma wait_land s l1 l2 c o w :
  wait_inv s -> csys_inv s -> csys_inv (cland (c, o, w) l1 l2) -> count_ok s.(s_cont) (c, o, w) ->
  (forall t, t ∈ l1 ++ l2 -> t ∈ s.(cthreads)) ->
  (forall a, CDec a ∈ s.(cthreads) -> CDec a ∈ l1 ++ l2 \/
     forall e, s.(s_cont).(c_heap) !! a = Some e -> e.(e_state) = EFCP_DEALLOCATED -> w = true) ->
  wait_inv (cland (c, o, w) l1 l2).
Proof.
  intros Hw Hi Hi' [Hc Ho] Hsub Hdec a e' Hin He' Hz. pose proof (waiter_deallocated _ _ _ _ Hi' Hin He') as [Hd _].
  cbn [cland s_cont cthreads] in *. apply cwake_asleep in Hin as [-> Hin]. apply cwake_dec.
  assert (CWait a false ∈ l1 ++ l2 \/ o = CNext (CWait a false)) as [Hold| ->].
  { rewrite !elem_of_app in *. destruct Hin as [?|[Hin|?]]; [tauto| |tauto]. right.
    destruct o as [|t]; cbn in Hin; [by apply elem_of_nil in Hin|]. apply list_elem_of_singleton in Hin. by subst. }
  - destruct (waiter_inst _ _ _ Hi (Hsub _ Hold)) as [e He].
    destruct (waiter_deallocated _ _ _ _ Hi (Hsub _ Hold) He) as [Hd0 Hpos].
    destruct (Hc _ _ _ He He' Hz) as [Hle| ->]; [|rewrite !elem_of_app; right; left; left].
    assert (CDec a ∈ cthreads s) as Hda by (eapply Hw; [by apply Hsub|done|lia]).
    destruct (Hdec a Hda) as [?|Hx]; [rewrite !elem_of_app in *; tauto|]. by specialize (Hx _ He Hd0).
  - rewrite (Ho _ _ eq_refl He' Hz) in Hd. done.
Qed.

Lemma cont_step_wait s s' : csys_inv s -> wait_inv s -> cont_step false s s' -> wait_inv s'.
Proof.
  intros Hi Hw Hs. pose proof (cont_step_inv _ _ Hi Hs) as Hi'.
  destruct Hs as [s k r Hr|s l1 t l2 i r Ht Hsig Hr]; destruct r as [[c o] w].
  - apply (wait_land s); try done; [by eapply ccall_count|by left].
  - destruct i; [|by specialize (Hsig eq_refl)]. apply (wait_land s); try done.
    + by eapply csection_count.
    + intros t'. rewrite Ht, !elem_of_app, elem_of_cons. tauto.
    + intros a. rewrite Ht, !elem_of_app, elem_of_cons. intros [?|[<-|?]]; [tauto| |tauto]. right.
      intros e He Hd. cbn in Hr. rewrite He in Hr. cbn in Hr. simplify_eq. unfold in_e_state. by rewrite Hd.
Qed.

Lemma cont_reachable_wait s : cont_reachable false s -> csys_inv s /\ wait_inv s.
Proof.
  intros Hr. apply (rtc_ind_r (fun s => csys_inv s /\ wait_inv s) cont_init) in Hr; [apply Hr| |].
  - split; [apply cont_init_inv|]. by intros a e ?%elem_of_nil.
  - intros y z _ Hs [Hi Hw]. split; [by eapply cont_step_inv|by eapply cont_step_wait].
Qed.

Definition casleep (t : cthread) : bool := match t with CWait _ aw => negb aw | _ => false end.

(** C11: a destruction is not forgotten: when every thread of the container sleeps, there is
    none.  Every connection that was to be destroyed is, its cep-id is free again, and what is
    left are the instances in the map, on which nothing runs. *)
Theorem efcp_destroy_completes (s : csys) :
  cont_reachable false s -> forallb casleep s.(cthreads) = true ->
  s.(cthreads) = [] /\
  forall a e, s.(s_cont).(c_heap) !! a = Some e ->
    e.(e_state) = EFCP_ALLOCATED /\ e.(pending_ops) = 0 /\
    exists id, cep_of s.(s_cont) a = Some id /\ efcp_imap_find s.(s_cont).(instances) id = Some a.
Proof.
  intros [Hi Hw]%cont_reachable_wait Hall.
  assert (forall t, t ∈ cthreads s -> casleep t = true) as Hs by
    (intros t Ht; by apply (proj1 (forallb_forall _ _) Hall), list_elem_of_In).
  assert (forall a, ccnt UOp a (omap creg (cthreads s)) = 0) as Hz.
  { intros a. apply ccnt_none. intros (t & Ht & E)%list_elem_of_omap. apply Hs in Ht. by destruct t. }
  assert (cthreads s = []) as Hnil.
  { apply elem_of_nil_inv. intros t Ht. pose proof (Hs _ Ht) as Hc. destruct t as [| | |a aw|]; try done. destruct aw; [done|].
    destruct (waiter_inst _ _ _ Hi Ht) as [e He].
    destruct (ci_inst _ _ Hi _ _ He) as (_ & cn & _ & _ & Hp & _). rewrite Hz in Hp.
    by apply (Hw a e Ht He), Hs in Hp. }
  split; [done|]. intros a e He. destruct (ci_inst _ _ Hi _ _ He) as (_ & cn & Hcn & _ & Hp & Hst).
  rewrite Hnil in Hst, Hp. destruct Hst as [(Hin & ? & _)|(_ & _ & Hone & _)]; [|by cbn in Hone].
  split_and!; try done. exists (source_cep_id cn). split; [by rewrite cep_of_fmap, He; cbn; rewrite Hcn|].
  by apply (hmap_elem_find _ _ _ (ci_ids _ _ Hi)).
Qed.

(** ** Runs *)

Inductive caction := DCall (k : ccall) | DThread (j : nat) (i : cinput).

Definition cexec (signals : bool) (s : csys) (x : caction) : option csys :=
  match x with
  | DCall k => r ← ccall_section s.(s_cont) k; Some (cland r [] s.(cthreads))
  | DThread j i =>
      if (match i with CNone => true | CSignal => signals end) then
        t ← s.(cthreads) !! j; r ← csection s.(s_cont) t i;
        Some (cland r (take j s.(cthreads)) (drop (S j) s.(cthreads)))
      else None
  end.

Fixpoint crun (signals : bool) (s : csys) (l : list caction) : option csys :=
  match l with [] => Some s | x :: l => s ← cexec signals s x; crun signals s l end.

Lemma cexec_step signals s x s' : cexec signals s x = Some s' -> cont_step signals s s'.
Proof.
  destruct x as [k|j i]; cbn.
  - destruct (ccall_section _ _) eqn:E; cbn; intros; simplify_eq. by eapply cstep_call.
  - destruct (match i with CNone => true | CSignal => signals end) eqn:Hs; [|done].
    destruct (cthreads s !! j) as [t|] eqn:Et; [|done]. cbn. destruct (csection _ _ _) eqn:E; cbn; intros; simplify_eq.
    eapply cstep_thread; [|intros Hi; by rewrite Hi in Hs|exact E]. symmetry. by apply take_drop_middle.
Qed.

Lemma crun_steps signals l s s' : crun signals s l = Some s' -> rtc (cont_step signals) s s'.
Proof.
  revert s. induction l as [|x l IH]; intros s; cbn; [intros [= ->]; done|].
  destruct (cexec signals s x) as [s1|] eqn:E; [|done]. intros H. eapply rtc_l; [by eapply cexec_step|by apply IH].
Qed.

Definition cend (signals : bool) (l : list caction) : csys := default cont_init (crun signals cont_init l).

Lemma cend_reachable signals l :
  bool_decide (is_Some (crun signals cont_init l)) = true -> cont_reachable signals (cend signals l).
Proof. intros [s E]%bool_decide_eq_true. unfold cend. rewrite E. by eapply crun_steps. Qed.

Lemma cont_init_created : efcp_container_create true = Some cont_init.(s_cont).
Proof. done. Qed.

(** A reliable connection, and a write on it. *)
Definition reliable : conn_config := mk_conn_config true true true false true.
Definition one_connection : list caction := [DCall (KCreate true 10 20 5 0 (-1) (-1) reliable (fun _ => false))].
Definition writing : list caction := one_connection ++ [DCall (KWrite 1)].

(** It is destroyed while the write is under way. *)
Definition destroying : list caction := writing ++ [DCall (KDestroy 1); DThread 0 CNone].

Lemma destroying_threads : (cend false destroying).(cthreads) = [CWait 0 false; COp 0].
Proof. vm_compute. reflexivity. Qed.

Lemma efcp_container_safe_witness :
  is_Some ((cend false destroying).(s_cont).(c_heap) !! 0%nat) /\
  (forall a a' id, cep_of (cend false destroying).(s_cont) a = Some id -> cep_of (cend false destroying).(s_cont) a' = Some id -> a = a').
Proof.
  assert (cont_reachable false (cend false destroying)) as Hr by (apply cend_reachable; vm_compute; reflexivity).
  split; [|exact (proj1 (proj2 (efcp_container_safe _ Hr)))].
  apply (proj1 (efcp_container_safe _ Hr) (COp 0) UOp); [rewrite destroying_threads; right; left|reflexivity].
Defined.

(** The write ends, the connection is destroyed and its cep-id given out again. *)
Definition destroyed : list caction :=
  destroying ++ [DThread 1 CNone; DThread 1 CNone; DThread 1 CNone; DThread 0 CNone; DThread 0 CNone].

Lemma efcp_destroy_completes_witness :
  (cend false destroyed).(cthreads) = [] /\ (cend false destroyed).(s_cont).(unbound) = [5].
Proof.
  assert (cont_reachable false (cend false destroyed)) as Hr by (apply cend_reachable; vm_compute; reflexivity).
  split; [|vm_compute; reflexivity].
  apply (efcp_destroy_completes _ Hr). vm_compute. reflexivity.
Defined.

(** The objects of a connection follow its configuration: with retransmission control it
    has a retransmission queue, otherwise a queue for round-trip times, never both. *)
Lemma stages_queues cfg :
  (MkRtxq ∈ stages cfg <-> cfg.(rtx_ctrl) = true) /\ (MkRttq ∈ stages cfg <-> cfg.(rtx_ctrl) = false) /\
  (MkCwq ∈ stages cfg <-> cfg.(window_based) || cfg.(rate_based) = true) /\
  (MkDelim ∈ stages cfg <-> cfg.(dif_frag) = true).
Proof. destruct cfg as [[] [] [] [] []]; cbn; set_solver. Qed.

(** ** Runs that end badly *)

(** C37: a signal that interrupts the wait of [efcp_connection_destroy] is logged and then
    ignored: the connection is destroyed under the operation that runs on it. *)
Theorem efcp_signal_use_after_free :
  exists s a, cont_reachable true s /\ COp a ∈ s.(cthreads) /\ s.(s_cont).(c_heap) !! a = None /\
    csection s.(s_cont) (COp a) CNone = None.
Proof.
  set (l := destroying ++ [DThread 0 CSignal; DThread 0 CNone]).
  exists (cend true l), 0%nat. split_and!; [apply cend_reachable; vm_compute; reflexivity| |vm_compute; reflexivity..].
  assert (cthreads (cend true l) = [COp 0]) as -> by (vm_compute; reflexivity). left.
Qed.

(** Without signals: the operation that brings the counter to zero looks at the state of the
    instance afterwards.  The destruction, which looks at the counter without the lock, frees the instance in
    between; the lock is never released. *)
Theorem efcp_leave_use_after_free :
  exists s a, cont_reachable false s /\ s.(cthreads) = [CDec a] /\ s.(s_cont).(c_heap) !! a = None /\
    s.(s_cont).(c_lock) = true /\ forall i, csection s.(s_cont) (CDec a) i = None.
Proof.
  set (l := writing ++ [DCall (KDestroy 1); DThread 1 CNone; DThread 1 CNone; DThread 0 CNone; DThread 0 CNone]).
  assert (c_heap (s_cont (cend false l)) !! 0%nat = None) as Hn by (vm_compute; reflexivity).
  exists (cend false l), 0%nat. split_and!; [apply cend_reachable; vm_compute; reflexivity|vm_compute; reflexivity|done|vm_compute; reflexivity|].
  intros i. cbn [csection]. by rewrite Hn.
Qed.

(** When no cep-id can be had, or the port is not valid, the instance is destroyed before it
    has a connection, and the user IPC process is to be told about the port of the connection: a null pointer. *)
Theorem efcp_create_null (c : efcp_container) (p : Cidm.cidm) (cfg : conn_config) (sa da port qos sc dc : Z) (fails : stage -> bool) :
  c.(c_cidm) = Some p -> fails MkConnection = false -> fails MkEfcp = false -> fails MkCepId = true \/ port < 0 ->
  efcp_connection_create c true sa da port qos sc dc cfg fails = None.
Proof.
  intros Hp H1 H2 H3. unfold efcp_connection_create. rewrite H1, H2, Hp. cbn [orb].
  destruct (Cidm.cidm_allocate _ _ _) as [[cep q]|] eqn:E; [|done]. cbn [mbind option_bind].
  destruct (is_cep_id_ok cep) eqn:Eok; [|done]. destruct H3 as [H3|H3].
  - unfold Cidm.cidm_allocate in E. rewrite H3 in E. destruct (Cidm.cidm_allocate_loop _ _ _) as [[]|]; [|done]. cbn in E. by simplify_eq.
  - unfold is_candidate_connection_ok, Cidm.is_port_id_ok. cbn. rewrite (proj2 (Z.leb_gt 0 port) H3), andb_false_r. done.
Qed.
