(* ===== verification/ContView.v ===== *)
(** * The container of EFCP instances as a map

    What the IPC process that owns a container sees of it: the connections by their cep-id, each with the port
    it serves.  A creation adds one, a destruction removes one, nothing else changes them: neither the other
    calls nor the threads under way. *)

From S2P Require Import Prelude Ids Hmap EfcpState EfcpCont EfcpContInv.
From Stdlib Require Import ZArith Lia.
From stdpp Require Import base list numbers option gmap sets relations.
#[local] Open Scope Z_scope.

Definition port_at (c : efcp_container) (a : nat) : option Z := e ← c.(c_heap) !! a; conn_port_id <$> e.(e_connection).
Definition conns (c : efcp_container) : hmap_of (option Z) := prod_map id (port_at c) <$> c.(instances).

(** ** Tables *)

Lemma hmap_remove_none {A} (m : hmap_of A) id : hmap_find m id = None -> hmap_remove m id = m.
Proof.
  induction m as [|[k b] m IH]; cbn; [done|]. destruct (k =? id); [done|]. intros E. by rewrite IH.
Qed.

Lemma hmap_remove_fmap {A B} (g : A -> B) (m : hmap_of A) key : prod_map id g <$> hmap_remove m key = hmap_remove (prod_map id g <$> m) key.
Proof. induction m as [|[k b] m IH]; cbn; [done|]. destruct (k =? key); [done|]. cbn. by rewrite IH. Qed.

Lemma hmap_find_fmap {A B} (g : A -> B) (m : hmap_of A) key : hmap_find (prod_map id g <$> m) key = g <$> hmap_find m key.
Proof. induction m as [|[k b] m IH]; cbn; [done|]. by destruct (k =? key). Qed.

(** ** Changes of one instance *)

Lemma conns_eq c c' :
  c'.(instances) = c.(instances) -> (forall id a, (id, a) ∈ c.(instances) -> port_at c' a = port_at c a) -> conns c' = conns c.
Proof.
  intros Hm Hp. unfold conns. rewrite Hm. apply list_fmap_ext. intros i [id a] Hi. unfold prod_map. cbn. f_equal.
  eapply Hp. by apply list_elem_of_lookup_2 in Hi.
Qed.

Lemma port_at_upd c a e e' b :
  c.(c_heap) !! a = Some e -> conn_port_id <$> e'.(e_connection) = conn_port_id <$> e.(e_connection) ->
  port_at (upd_inst c a e') b = port_at c b.
Proof.
  intros He Hc. unfold port_at, upd_inst, upd_heap. cbn. destruct (decide (b = a)) as [->|Hne].
  - rewrite lookup_insert_eq, He. done.
  - by rewrite lookup_insert_ne.
Qed.

Lemma conns_upd c a e e' :
  c.(c_heap) !! a = Some e -> conn_port_id <$> e'.(e_connection) = conn_port_id <$> e.(e_connection) ->
  conns (upd_inst c a e') = conns c.
Proof. intros He Hc. apply conns_eq; [done|]. intros id b _. by eapply port_at_upd. Qed.

(** A call that keeps the view; the lock stays free. *)
Definition keeps (c : efcp_container) (r : cresult) : Prop := conns r.1.1 = conns c /\ r.1.1.(c_lock) = c.(c_lock).

Lemma with_efcp_keeps c R id F :
  cont_inv c R ->
  (forall a e cn, c.(c_heap) !! a = Some e -> e.(e_connection) = Some cn -> e.(e_state) = EFCP_ALLOCATED -> exists r, F a e = Some r /\ keeps c r) ->
  exists r, with_efcp c id F = Some r /\ keeps c r.
Proof.
  intros Hi HF. unfold with_efcp. destruct (efcp_imap_find _ _) as [a|] eqn:Ef; [|by eexists].
  apply hmap_find_elem in Ef. pose proof (ci_map _ _ Hi _ _ Ef) as Hc. destruct (cep_of_inst _ _ _ Hc) as [e He]. rewrite He. cbn.
  destruct (ci_inst _ _ Hi _ _ He) as [_ (cn & Hcn & _ & _ & [(_ & Hst & _)|(Hout & _)])]; [by eapply HF|].
  destruct Hout. by apply (list_elem_of_fmap_2 snd _ (id, a)).
Qed.

Lemma checked_keeps c id x : (exists r, x = Some r /\ keeps c r) -> exists r, checked c id x = Some r /\ keeps c r.
Proof. intros H. unfold checked. destruct (negb _); [by eexists|done]. Qed.

Lemma change_connection_keeps c a e cn g :
  c.(c_heap) !! a = Some e -> e.(e_connection) = Some cn -> e.(e_state) = EFCP_ALLOCATED -> (forall cn, (g cn).(conn_port_id) = cn.(conn_port_id)) ->
  exists r, change_connection c a e g = Some r /\ keeps c r.
Proof.
  intros He Hcn Hst Hg. unfold change_connection, in_e_state. rewrite Hst, bool_decide_false, andb_false_r by done. rewrite Hcn. cbn.
  eexists. split; [reflexivity|]. split; [|done]. eapply conns_upd; [done|]. rewrite Hcn. cbn. by rewrite Hg.
Qed.

Lemma change_addresses_keeps m address : forall c R,
  cont_inv c R -> (forall id a, (id, a) ∈ m -> is_Some (c.(c_heap) !! a)) ->
  (forall a e, c.(c_heap) !! a = Some e -> is_Some e.(e_connection)) ->
  exists h, change_addresses c.(c_heap) m address = Some h /\ forall b, port_at (upd_heap c h) b = port_at c b.
Proof.
  intros c R _. revert c. induction m as [|[id a] m IH]; intros c Hm Hc; cbn.
  - exists c.(c_heap). split; [done|]. by destruct c.
  - destruct (Hm id a) as [e He]; [left|]. destruct (Hc a e He) as [cn Hcn]. rewrite He. cbn. rewrite Hcn. cbn. set (e' := set_conn _ e).
    destruct (IH (upd_inst c a e')) as (h & Eh & Hh).
    + intros id' b Hin. cbn. rewrite lookup_insert_is_Some. destruct (decide (a = b)); [by left|right]. split; [done|]. eapply Hm. by right.
    + cbn. intros b x Hx. apply lookup_insert_Some in Hx as [[_ <-]|[_ Hx]]; [done|by eapply Hc].
    + exists h. split; [done|]. intros b. specialize (Hh b). rewrite (port_at_upd c a e e') in Hh by (done || by cbn; rewrite Hcn). exact Hh.
Qed.

(** ** Calls *)

Definition changes_conns (k : ccall) : bool := match k with KCreate _ _ _ _ _ _ _ _ _ | KDestroy _ => true | _ => false end.

Lemma view_call c R k :
  cont_inv c R -> c.(c_lock) = false -> changes_conns k = false -> exists r, ccall_section c k = Some r /\ keeps c r.
Proof.
  intros Hi Hl Hk. unfold ccall_section. rewrite Hl. destruct k; try discriminate Hk.
  - apply checked_keeps. eapply with_efcp_keeps; [done|]. intros a e cn He Hcn Hst. unfold in_e_state. rewrite Hst, bool_decide_false by done.
    eexists. split; [done|]. split; [|done]. by eapply conns_upd.
  - apply checked_keeps. eapply with_efcp_keeps; [done|]. intros a e cn He Hcn Hst. unfold in_e_state. rewrite Hst, bool_decide_false by done.
    destruct dt; [cbn; rewrite Hcn; cbn|]; (eexists; split; [done|]; split; [|done]); eapply conns_upd; try done.
    cbn. rewrite Hcn. by destruct (_ <? 0).
  - apply checked_keeps. eapply with_efcp_keeps; [done|]. intros a e cn He Hcn Hst. eexists. split; [done|]. split; [|done]. by eapply conns_upd.
  - apply checked_keeps, checked_keeps. eapply with_efcp_keeps; [done|]. intros a e cn He Hcn Hst. by eapply change_connection_keeps.
  - eapply with_efcp_keeps; [done|]. intros a e cn He Hcn Hst. by eapply change_connection_keeps.
  - unfold efcp_address_change. destruct (change_addresses_keeps c.(instances) address c R Hi) as (h & -> & Hh).
    + intros id a Hin. pose proof (ci_map _ _ Hi _ _ Hin) as Hc. destruct (cep_of_inst _ _ _ Hc) as [e He]. by rewrite He.
    + intros a e He. destruct (ci_inst _ _ Hi _ _ He) as [_ (cn & Hcn & _)]. by rewrite Hcn.
    + eexists. split; [done|]. split; [|done]. apply conns_eq; [done|]. intros id a _. apply Hh.
Qed.

(** Cep-ids are positive, and distinct. *)
Lemma conns_keys c R : cont_inv c R -> NoDup (conns c).*1 /\ forall id p, (id, p) ∈ conns c -> 1 <= id.
Proof.
  intros Hi. assert ((conns c).*1 = c.(instances).*1) as E by (unfold conns; rewrite <- list_fmap_compose; by apply list_fmap_ext).
  rewrite E. split; [apply Hi|]. intros id p Hin.
  apply (list_elem_of_fmap_2 fst) in Hin. rewrite E in Hin. apply list_elem_of_fmap in Hin as ([id' a] & Hx & Hin). cbn in Hx. subst id'.
  pose proof (cep_of_in _ _ _ _ Hi (ci_map _ _ Hi _ _ Hin)) as Hid. destruct (ci_cidm _ _ Hi) as (q & Hq & Hwf).
  unfold cidm_ids in Hid. rewrite Hq in Hid. pose proof (Cyclic.wf_ids _ _ _ Hwf) as Hr. rewrite List.Forall_forall in Hr.
  apply list_elem_of_In, Hr in Hid. unfold Cyclic.in_range in Hid. lia.
Qed.

Lemma view_destroy c R id :
  cont_inv c R -> c.(c_lock) = false ->
  exists r, ccall_section c (KDestroy id) = Some r /\ conns r.1.1 = hmap_remove (conns c) id /\ r.1.1.(c_lock) = false.
Proof.
  intros Hi Hl. unfold ccall_section. rewrite Hl. unfold efcp_connection_destroy, checked, with_efcp.
  destruct (efcp_imap_find _ id) as [a|] eqn:Ef.
  - pose proof (hmap_find_elem _ _ _ Ef) as Hin. pose proof (ci_map _ _ Hi _ _ Hin) as Hc. destruct (cep_of_inst _ _ _ Hc) as [e He].
    destruct (conns_keys _ _ Hi) as [_ Hpos]. assert (1 <= id) as Hid.
    { apply (Hpos _ (port_at c a)). apply list_elem_of_fmap. by exists (id, a). }
    unfold is_cep_id_ok. rewrite (proj2 (Z.leb_le 0 id)) by lia. cbn [negb]. rewrite He. cbn [mbind option_bind].
    eexists. split; [done|]. split; [|done]. unfold conns. cbn [fst instances upd_inst upd_heap set_instances].
    unfold efcp_imap_remove. rewrite <- hmap_remove_fmap. apply list_fmap_ext. intros i [id' b] _. unfold prod_map. cbn. f_equal.
    by apply (port_at_upd c a e).
  - destruct (negb _); (eexists; split; [done|]; split; [|done]); cbn; rewrite hmap_remove_none; try done;
      unfold conns; rewrite hmap_find_fmap; unfold efcp_imap_find in Ef; by rewrite Ef.
Qed.

Lemma efcp_destroy_conns c e c' : efcp_destroy c e = Some c' -> conns c' = conns c /\ c'.(c_lock) = c.(c_lock).
Proof. unfold efcp_destroy. destruct (e_connection e), (user_ipcp e); intros [= <-]; done. Qed.

(** A creation that failed. *)
Lemma undone c0 c e c' cep :
  conns c = conns c0 -> c.(c_lock) = false -> (c ← efcp_destroy c e; Some (c, cep_id_bad)) = Some (c', cep) ->
  c'.(c_lock) = false /\ cep = cep_id_bad /\ conns c' = conns c0.
Proof.
  intros Hc Hl. destruct (efcp_destroy c e) as [c1|] eqn:E; [|done]. cbn. intros [= <- <-]. apply efcp_destroy_conns in E as [H1 H2].
  split_and!; congruence.
Qed.

Lemma view_create c R user sa da port qos scep dcep cfg fails r :
  cont_inv c R -> c.(c_lock) = false -> ccall_section c (KCreate user sa da port qos scep dcep cfg fails) = Some r ->
  r.1.1.(c_lock) = false /\ exists cep, r.1.2 = CRet cep /\
    (is_cep_id_ok cep = false /\ conns r.1.1 = conns c \/ is_cep_id_ok cep = true /\ conns r.1.1 = (cep, Some port) :: conns c).
Proof.
  intros Hi Hl. unfold ccall_section. rewrite Hl.
  destruct (efcp_connection_create _ _ _ _ _ _ _ _ _ _) as [[c' cep]|] eqn:E; [|done]. intros [= <-]. cbn [fst snd].
  revert E. unfold efcp_connection_create. destruct (_ || _); [intros [= <- <-]; split; [done|]; exists cep_id_bad; auto|].
  destruct (Cidm.cidm_allocate _ _ _) as [[cep' q]|]; [|done]. cbn [mbind option_bind]. set (c1 := mk_cont _ q _ _ _ _).
  assert (forall e c2 x, (c3 ← efcp_destroy c1 e; Some (c3, cep_id_bad)) = Some (c2, x) ->
    c2.(c_lock) = false /\ exists cep, CRet x = CRet cep /\
      (is_cep_id_ok cep = false /\ conns c2 = conns c \/ is_cep_id_ok cep = true /\ conns c2 = (cep, Some port) :: conns c)) as Hu.
  { intros e c2 x H. destruct (undone c c1 e c2 x eq_refl Hl H) as (? & -> & ?). split; [done|]. exists cep_id_bad. auto. }
  destruct (is_cep_id_ok cep') eqn:Eok; cbn [negb]; [|apply Hu].
  destruct (negb (is_candidate_connection_ok _)); [apply Hu|]. destruct (existsb _ _); [apply Hu|].
  intros [= <- <-]. split; [done|]. exists cep'. split; [done|]. right. split; [done|]. unfold conns. cbn. f_equal.
  - unfold prod_map, port_at. cbn. by rewrite lookup_insert_eq.
  - apply list_fmap_ext. intros i [id a] Ha. unfold prod_map. cbn. f_equal. unfold port_at. cbn. rewrite lookup_insert_ne; [done|].
    apply list_elem_of_lookup_2 in Ha. pose proof (ci_map _ _ Hi _ _ Ha) as Hc. destruct (cep_of_inst _ _ _ Hc) as [e He].
    destruct (ci_inst _ _ Hi _ _ He) as [Hlt _]. lia.
Qed.

(** ** Threads *)

Lemma conns_delete c c' a :
  c'.(instances) = c.(instances) -> c'.(c_heap) = base.delete a c.(c_heap) -> a ∉ c.(instances).*2 -> conns c' = conns c.
Proof.
  intros Hm Hh Hn. apply conns_eq; [done|]. intros id b Hin. unfold port_at. rewrite Hh, lookup_delete_ne; [done|].
  intros ->. apply Hn. by apply (list_elem_of_fmap_2 snd _ (id, b)).
Qed.

Lemma view_thread R1 R2 c t r :
  cont_inv c (amid R1 R2 (omap creg [t])) -> csection c t CNone = Some r -> conns r.1.1 = conns c.
Proof.
  intros Hi. destruct t; cbn in Hi |- *.
  - destruct (c_heap c !! a); [|done]. by intros [= <-].
  - destruct (c_lock c); [done|]. destruct (c_heap c !! a) as [e|] eqn:He; [|done]. cbn. destruct (_ =? 0); intros [= <-]; cbn.
    + rewrite <- (conns_upd c a e (add_pending (-1) e)) by done. done.
    + by eapply conns_upd.
  - destruct (c_heap c !! a); [|done]. by intros [= <-].
  - destruct (c_heap c !! a) as [e|]; [|done]. cbn. destruct awake; [|done]. by intros [= <-].
  - destruct (used_inst _ _ _ _ _ Hi) as (e & He & cn & Hcn & _ & _ & Hst). unfold destroy_at. rewrite He. cbn [mbind option_bind].
    rewrite !amid_one in Hst. repeat case_decide; simplify_eq.
    destruct Hst as [(_ & _ & _ & Hg)|(Hout & _)]; [pose proof (ccnt_nonneg UGo a (amid R1 R2 [])); lia|].
    destruct (efcp_destroy c e) as [c2|] eqn:E; [|done]. cbn [mbind option_bind]. intros [= <-]. cbn [fst].
    unfold efcp_destroy in E. rewrite Hcn in E. simplify_eq. by apply (conns_delete c _ a).
Qed.
