(* ===== verification/Prog.v ===== *)
(** * Programs

    A program of the control part of the kernel reads and changes a state, and may fault (no result).
    [wp m s Q] says that [m] does not fault in [s] and ends with [Q]. *)

From Stdlib Require Import ZArith.
From stdpp Require Import base list option.

Section Monad.
Context {S : Type}.
Definition M (A : Type) : Type := S -> option (A * S).
Definition ret {A} (a : A) : M A := fun s => Some (a, s).
Definition bind {A B} (m : M A) (k : A -> M B) : M B :=
  fun s => match m s with Some (a, s') => k a s' | None => None end.
Definition fault {A} : M A := fun _ => None.
Definition gets {A} (f : S -> A) : M A := fun s => Some (f s, s).
Definition modify (f : S -> S) : M unit := fun s => Some (tt, f s).

Lemma run_prog {A B} (m : M A) (k : A -> M B) s a s' : m s = Some (a, s') -> bind m k s = k a s'.
Proof. intros H. unfold bind. by rewrite H. Qed.
End Monad.
Arguments M : clear implicits.

Declare Scope prog_scope.
Delimit Scope prog_scope with prog.
Notation "'let!' x ':=' m 'in' k" := (bind m (fun x => k))
  (at level 200, x pattern, m at level 100, k at level 200) : prog_scope.
Notation "m ;;; k" := (bind m (fun _ => k)) (at level 100, right associativity) : prog_scope.

(** ** Their logic *)

Section Wp.
Context {S : Type}.

Definition wp {A} (m : M S A) (s : S) (Q : A -> S -> Prop) : Prop := exists a s', m s = Some (a, s') /\ Q a s'.

Lemma wp_ret {A} (a : A) s Q : Q a s -> wp (ret a) s Q.
Proof. intros. by exists a, s. Qed.

Lemma wp_bind {A B} (m : M S A) (k : A -> M S B) s Q : wp m s (fun a s' => wp (k a) s' Q) -> wp (bind m k) s Q.
Proof. intros (a & s' & E & b & s'' & E' & H). exists b, s''. by rewrite (run_prog _ _ _ _ _ E). Qed.

Lemma wp_mono {A} (m : M S A) s (Q R : A -> S -> Prop) : wp m s Q -> (forall a s', Q a s' -> R a s') -> wp m s R.
Proof. intros (a & s' & E & H) HR. exists a, s'. auto. Qed.

Lemma wp_gets {A} (f : S -> A) s Q : Q (f s) s -> wp (gets f) s Q.
Proof. intros. by exists (f s), s. Qed.

Lemma wp_modify (f : S -> S) s (Q : unit -> S -> Prop) : Q tt (f s) -> wp (modify f) s Q.
Proof. intros. by exists tt, (f s). Qed.

Lemma wp_if {A} (b : bool) (m n : M S A) s Q : (b = true -> wp m s Q) -> (b = false -> wp n s Q) -> wp (if b then m else n) s Q.
Proof. destruct b; auto. Qed.

Lemma wp_run {A} (m : M S A) s a s' Q : m s = Some (a, s') -> wp m s Q -> Q a s'.
Proof. intros E (b & s'' & E' & H). congruence. Qed.
End Wp.

(** One step of a program. *)
Ltac wp_step :=
  lazymatch goal with
  | |- wp (bind _ _) _ _ => apply wp_bind
  | |- wp (ret _) _ _ => apply wp_ret
  | |- wp (gets _) _ _ => apply wp_gets
  | |- wp (modify _) _ _ => apply wp_modify
  end; cbv beta.
Ltac wp_steps := repeat wp_step.
