(* ===== verification/Normal.v ===== *)
(** * The normal IPC process

    [src/kernel/ipcps/normal-ipcp.c]: the flows of an IPC process, each with the connections that serve
    it, over the container of EFCP instances ([EfcpCont.v]).  The KIPCM calls these operations
    ([Kipcm.v]); the flow is known by its port id, the connection by its cep-id.

    - A call of the container runs its first critical section here.  What is left of a destruction (the
      wait for the operations under way, and freeing) stays in the container as a thread: what
      the caller does afterwards does not touch the instance.
    - The user of a flow is the KFA or another IPC process; what it is asked is recorded in [asked].
      Its answers, whether the KIPCM finds this IPC process, the failures inside the creation of a
      connection and the result of a transmission are arguments.
    - A fault (a null pointer, an instance that was freed) has no result. *)

From S2P Require Import Prelude Ids Rds Hmap EfcpState EfcpCont Prog.
From Stdlib Require Import ZArith Lia.
From stdpp Require Import base list numbers option gmap.
#[local] Open Scope Z_scope.
#[local] Open Scope prog_scope.

Inductive normal_flow_state :=
| PORT_STATE_NULL | PORT_STATE_PENDING | PORT_STATE_ALLOCATED | PORT_STATE_DEALLOCATED | PORT_STATE_DISABLED.

#[export] Instance normal_flow_state_eq_dec : EqDecision normal_flow_state.
Proof. solve_decision. Defined.

Inductive flow_user := UserKfa | UserIpcp (id : Z).

(** [struct normal_flow], with the list of its [struct cep_ids_entry]. *)
Record normal_flow := mk_flow {
  port_id : Z;
  active : Z;
  cep_ids_list : list Z;
  f_state : normal_flow_state;
  f_user : option flow_user
}.

(** What others are asked. *)
Inductive request :=
| RBind (user : flow_user) (port : Z)      (* [flow_binding_ipcp] *)
| RUnbind (user : flow_user) (port : Z)    (* [flow_unbinding_ipcp] *)
| RRelease (port : Z).                     (* [kfa_port_id_release] *)

(** [struct ipcp_instance_data]; [addresses] are those of its RMT, [mem] the outcomes of
    allocations to come. *)
Record ipcp_data := mk_data {
  flows : list normal_flow;
  efcpc : csys;
  address : Z;
  old_address : Z;
  addresses : list Z;
  use_naddress : option Z;
  kill_oaddress : option Z;
  mem : oracle;
  asked : list request
}.

Implicit Types (d : ipcp_data) (f : normal_flow).
Definition set_flows v d : ipcp_data :=
  mk_data v d.(efcpc) d.(address) d.(old_address) d.(addresses) d.(use_naddress) d.(kill_oaddress) d.(mem) d.(asked).
Definition set_efcpc v d : ipcp_data :=
  mk_data d.(flows) v d.(address) d.(old_address) d.(addresses) d.(use_naddress) d.(kill_oaddress) d.(mem) d.(asked).
Definition set_mem v d : ipcp_data :=
  mk_data d.(flows) d.(efcpc) d.(address) d.(old_address) d.(addresses) d.(use_naddress) d.(kill_oaddress) v d.(asked).
Definition add_asked r d : ipcp_data :=
  mk_data d.(flows) d.(efcpc) d.(address) d.(old_address) d.(addresses) d.(use_naddress) d.(kill_oaddress) d.(mem) (d.(asked) ++ [r]).

Abbreviation NM := (M ipcp_data).

Definition alloc : NM bool := fun d => let '(b, o) := rkmalloc d.(mem) in Some (b, set_mem o d).
Definition ask (r : request) : NM unit := modify (add_asked r).

(** A call of the container; [v] is what a call gives that goes on in a thread. *)
Definition efcp_call (v : Z) (k : ccall) : NM Z :=
  fun d =>
    match ccall_section d.(efcpc).(s_cont) k with
    | None => None
    | Some r => Some (match r.1.2 with CRet v => v | CNext _ => v end, set_efcpc (cland r [] d.(efcpc).(cthreads)) d)
    end.
Abbreviation efcp_do := (efcp_call 0).

(** ** Flows *)

Fixpoint find_flow (l : list normal_flow) (port : Z) : option normal_flow :=
  match l with
  | [] => None
  | f :: l' => if f.(port_id) =? port then Some f else find_flow l' port
  end.

Fixpoint find_flow_cepid (l : list normal_flow) (cep : Z) : option normal_flow :=
  match l with
  | [] => None
  | f :: l' => if f.(active) =? cep then Some f else find_flow_cepid l' cep
  end.

(** The flow that was found is changed, or taken out of the list with [None]. *)
Fixpoint put_flow (p : normal_flow -> bool) (g : normal_flow -> option normal_flow) (l : list normal_flow) : list normal_flow :=
  match l with
  | [] => []
  | f :: l' => if p f then option_list (g f) ++ l' else f :: put_flow p g l'
  end.
Definition on_port (port : Z) (g : normal_flow -> option normal_flow) : NM unit :=
  modify (fun d => set_flows (put_flow (fun f => f.(port_id) =? port) g d.(flows)) d).
Definition on_cep (cep : Z) (g : normal_flow -> option normal_flow) : NM unit :=
  modify (fun d => set_flows (put_flow (fun f => f.(active) =? cep) g d.(flows)) d).

Definition in_state (s : normal_flow_state) f : bool := bool_decide (f.(f_state) = s).
Definition with_state s f : normal_flow := mk_flow f.(port_id) f.(active) f.(cep_ids_list) s f.(f_user).

(** ** Operations *)

(** The flow has no connection yet: [active] is 0. *)
Definition normal_flow_prebind (user : option flow_user) (port : Z) : NM Z :=
  if negb (Cidm.is_port_id_ok port) then ret (-1)
  else
    let! ok := alloc in
    if negb ok then ret (-1)
    else modify (fun d => set_flows (mk_flow port 0 [] PORT_STATE_PENDING (Some (default UserKfa user)) :: d.(flows)) d) ;;; ret 0.

(** How a connection is to be made: its addresses, QoS and configuration, and what fails. *)
Record conn_args := mk_args {
  a_source : Z;
  a_dest : Z;
  a_qos : Z;
  a_cfg : conn_config;
  a_fails : stage -> bool;
  a_found : bool;     (* whether [kipcm_find_ipcp] finds this IPC process *)
  a_bind : Z          (* what [flow_binding_ipcp] of the user gives *)
}.

Definition undo (cep : Z) : NM Z := efcp_do (KDestroy cep) ;;; ret cep_id_bad.

(** The common part of [connection_create_request] and [connection_create_arrived]. *)
Definition create_connection (user : option flow_user) (port dst_cep : Z) (s : normal_flow_state) (x : conn_args) : NM Z :=
  match user with
  | None => ret cep_id_bad
  | Some u =>
      let! cep := efcp_do (KCreate true x.(a_source) x.(a_dest) port x.(a_qos) cep_id_bad dst_cep x.(a_cfg) x.(a_fails)) in
      if negb (is_cep_id_ok cep) then ret cep_id_bad
      else
        let! ok := alloc in
        if negb ok then undo cep
        else if negb x.(a_found) then undo cep
        else
          let! l := gets flows in
          match find_flow l port with
          | None => undo cep
          | Some _ =>
              ask (RBind u port) ;;;
              if negb (x.(a_bind) =? 0) then undo cep
              else on_port port (fun f => Some (mk_flow f.(port_id) cep (cep :: f.(cep_ids_list)) s f.(f_user))) ;;; ret cep
          end
  end.

Definition connection_create_request (user : option flow_user) (port : Z) (x : conn_args) : NM Z :=
  create_connection user port cep_id_bad PORT_STATE_PENDING x.
Definition connection_create_arrived (user : option flow_user) (port dst_cep : Z) (x : conn_args) : NM Z :=
  create_connection user port dst_cep PORT_STATE_ALLOCATED x.

(** A failure destroys the connection and leaves its cep-id in the list of its flow. *)
Definition connection_update_request (port src_cep dst_cep : Z) (found : bool) : NM Z :=
  if negb found then efcp_do (KDestroy src_cep) ;;; ret (-1)
  else
    let! r := efcp_do (KUpdate src_cep dst_cep) in
    if negb (r =? 0) then ret (-1)
    else
      let! l := gets flows in
      match find_flow l port with
      | None => efcp_do (KDestroy src_cep) ;;; ret (-1)
      | Some f =>
          if negb (in_state PORT_STATE_PENDING f) then efcp_do (KDestroy src_cep) ;;; ret (-1)
          else on_port port (fun f => Some (with_state PORT_STATE_ALLOCATED f)) ;;; ret 0
      end.

Definition connection_modify_request (src_cep src dst : Z) : NM Z := efcp_do (KModify src_cep src dst).

(** The first entry with this cep-id. *)
Definition remove_cep_id_from_flow (cep : Z) f : normal_flow :=
  mk_flow f.(port_id) f.(active) (remove_first (fun c => c =? cep) f.(cep_ids_list)) f.(f_state) f.(f_user).

Definition connection_destroy_request (src_cep : Z) : NM Z :=
  efcp_do (KDestroy src_cep) ;;;
  let! l := gets flows in
  match find_flow_cepid l src_cep with
  | None => ret (-1)
  | Some _ =>
      on_cep src_cep (fun f =>
        let f := remove_cep_id_from_flow src_cep f in
        if bool_decide (f.(cep_ids_list) = []) then None else Some f) ;;;
      ret 0
  end.

(** The container is asked with the cep-id read once the lock is given back. *)
Definition normal_flow_unbinding_user_ipcp (port : Z) : NM Z :=
  let! l := gets flows in
  match find_flow l port with
  | None => ret (-1)
  | Some f =>
      if negb (is_cep_id_ok f.(active)) then ret (-1)
      else
        on_port port (fun f => Some (mk_flow f.(port_id) f.(active) f.(cep_ids_list) f.(f_state) None)) ;;;
        let! r := efcp_do (KUnbind f.(active)) in
        ret (if negb (r =? 0) then -1 else 0)
  end.

Fixpoint remove_all_cepid (l : list Z) : NM Z :=
  match l with
  | [] => ret 0
  | cep :: l' => efcp_do (KDestroy cep) ;;; remove_all_cepid l'
  end.

(** The name of a user is that of an IPC process; the KFA has none. *)
Definition has_name (u : option flow_user) : bool := match u with Some (UserIpcp _) => true | _ => false end.

Definition normal_deallocate (port : Z) : NM Z :=
  let! l := gets flows in
  match find_flow l port with
  | None => ret (-1)
  | Some f =>
      on_port port (fun _ => None) ;;;
      match (if in_state PORT_STATE_PENDING f then f.(f_user) else None) with
      | Some u => ask (RUnbind u port) ;;; ret 0
      | None => remove_all_cepid f.(cep_ids_list)
      end ;;;
      (if has_name f.(f_user) then ask (RRelease port) else ret tt) ;;;
      ret 0
  end.

Fixpoint deallocate_loop (l : list normal_flow) : NM Z :=
  match l with
  | [] => ret 0
  | f :: l' => remove_all_cepid f.(cep_ids_list) ;;; modify (set_flows l') ;;; deallocate_loop l'
  end.
Definition normal_deallocate_all : NM Z := let! l := gets flows in deallocate_loop l.

(** [sent] is what the transmission gives once the connection is found. *)
Definition normal_du_write (port sent : Z) : NM Z :=
  let! l := gets flows in
  match find_flow l port with
  | None => ret (-1)
  | Some f =>
      if negb (in_state PORT_STATE_ALLOCATED f) then ret (-1)
      else
        let! r := efcp_call sent (KWrite f.(active)) in
        ret (if negb (r =? 0) then -1 else 0)
  end.

(** ** Addresses *)

Section Addresses.
(** The frequency and the value of the clock of the timers. *)
Context (HZ jiffies : Z).

Definition rmt_address_add (a : Z) : NM Z :=
  let! ok := alloc in
  if negb ok then ret (-1)
  else modify (fun d => mk_data d.(flows) d.(efcpc) d.(address) d.(old_address) (a :: d.(addresses)) d.(use_naddress) d.(kill_oaddress)
                          d.(mem) d.(asked)) ;;; ret 0.

(** The connections keep the old address and the RMT both until the timers fire. *)
Definition normal_address_change (new old use_new deprecate_old : Z) : NM Z :=
  modify (fun d => mk_data d.(flows) d.(efcpc) new old d.(addresses) d.(use_naddress) d.(kill_oaddress) d.(mem) d.(asked)) ;;;
  rmt_address_add new ;;;
  modify (fun d => mk_data d.(flows) d.(efcpc) d.(address) d.(old_address) d.(addresses)
                     (snd (Rtimer.rtimer_restart HZ jiffies d.(use_naddress) use_new))
                     (snd (Rtimer.rtimer_restart HZ jiffies d.(kill_oaddress) deprecate_old)) d.(mem) d.(asked)) ;;;
  ret 0.

(** The two functions of the timers, which find the data of the IPC process as the kernels before
    version 4.15 give it to them. *)
Definition tf_use_naddress : NM unit :=
  modify (fun d => mk_data d.(flows) d.(efcpc) d.(address) d.(old_address) d.(addresses) None d.(kill_oaddress) d.(mem) d.(asked)) ;;;
  let! a := gets address in
  efcp_do (KAddress a) ;;; ret tt.

Definition tf_kill_oaddress : NM unit :=
  modify (fun d => mk_data d.(flows) d.(efcpc) d.(address) d.(old_address)
                     (remove_first (fun a => a =? d.(old_address)) d.(addresses)) d.(use_naddress) None d.(mem) d.(asked)).
End Addresses.

(** ** Paths of policy sets

    A path names a component, its parts separated by dots, as in [efcp.5.dtcp]; strings are lists of bytes. *)

Definition DOT : Z := 46.

(** The length of the first part of a path, and where the next one begins. *)
Fixpoint ps_factory_parse_component_id (path : list Z) : nat * nat :=
  match path with
  | [] => (0, 0)%nat
  | c :: path' =>
      if c =? DOT then (0, 1)%nat
      else let '(cmplen, offset) := ps_factory_parse_component_id path' in (S cmplen, S offset)
  end.

(** [strncmp(a, b, n) == 0]. *)
Definition strncmp_eq (a b : list Z) (n : nat) : bool := bool_decide (take n (a ++ [0]) = take n (b ++ [0])).

(** [kstrtoint] with base 10, for strings so short that the number is an [int]. *)
Fixpoint digits (acc : Z) (s : list Z) : option Z :=
  match s with
  | [] => Some acc
  | [10] => Some acc
  | c :: s' => if (48 <=? c) && (c <=? 57) then digits (10 * acc + (c - 48)) s' else None
  end.
Definition unsigned (s : list Z) : option Z :=
  match s with c :: _ => if (48 <=? c) && (c <=? 57) then digits 0 s else None | [] => None end.
Definition kstrtoint (s : list Z) : option Z :=
  match s with
  | 45 :: s' => Z.opp <$> unsigned s'
  | 43 :: s' => unsigned s'
  | _ => unsigned s
  end.

(** The cep-id of the connection that the port id at the head of the path means, and the rest of the path. *)
Definition efcp_container_parse_component_id (d : ipcp_data) (path : list Z) : option (Z * list Z) :=
  let '(cmplen, offset) := ps_factory_parse_component_id path in
  if (7 <? cmplen)%nat then None
  else
    xid ← kstrtoint (take cmplen path);
    f ← find_flow d.(flows) xid;
    _ ← efcp_imap_find d.(efcpc).(s_cont).(instances) f.(active);
    Some (f.(active), drop offset path).

(** What a path is about, and the path inside of it. *)
Inductive component := CompRmt | CompDtp (cep : Z) | CompDtcp (cep : Z).

(** [dtcp] says which connections have DTCP.  [nonempty] is the test [select_policy_set] makes of the
    length of the component, and [set_policy_set_param] does not. *)
Definition efcp_component (nonempty : bool) (dtcp : Z -> bool) (cep : Z) (path : list Z) : option (component * list Z) :=
  let '(cmplen, offset) := ps_factory_parse_component_id path in
  let named name := (negb nonempty || negb (cmplen =? 0)%nat) && strncmp_eq path name cmplen in
  if named [100; 116; 112] then Some (CompDtp cep, drop offset path)
  else if named [100; 116; 99; 112] && dtcp cep then Some (CompDtcp cep, drop offset path)
  else None.

Definition path_component (nonempty : bool) (dtcp : Z -> bool) (d : ipcp_data) (path : list Z) : option (component * list Z) :=
  let '(cmplen, offset) := ps_factory_parse_component_id path in
  let named name := (negb nonempty || negb (cmplen =? 0)%nat) && strncmp_eq path name cmplen in
  if named [114; 109; 116] then Some (CompRmt, drop offset path)
  else if named [101; 102; 99; 112] then
    '(cep, rest) ← efcp_container_parse_component_id d (drop offset path); efcp_component nonempty dtcp cep rest
  else None.

(** The component gives the result; without one it is -1. *)
Definition normal_select_policy_set (dtcp : Z -> bool) (select : component -> list Z -> Z) (path : list Z) : NM Z :=
  let! d := gets id in
  ret (match path_component true dtcp d path with Some (c, rest) => select c rest | None => -1 end).
Definition normal_set_policy_set_param (dtcp : Z -> bool) (set : component -> list Z -> Z) (path : list Z) : NM Z :=
  let! d := gets id in
  ret (match path_component false dtcp d path with Some (c, rest) => set c rest | None => -1 end).
