(* ===== verification/NormalInv.v ===== *)
(** * Flows and connections of the normal IPC process

    The connections of the container are those of the flows, each with the port of its flow, whatever the
    order of the calls of the KIPCM and of what happens inside the container. *)

From S2P Require Import Prelude Ids Rds Hmap EfcpState EfcpCont EfcpContInv ContView Prog Normal.
From Stdlib Require Import ZArith Lia.
From stdpp Require Import base list numbers option gmap sets relations sorting.
#[local] Open Scope Z_scope.
#[local] Open Scope prog_scope.

(** The connection of a flow, as the container has it. *)
Definition flow_conn (f : normal_flow) : option (Z * option Z) :=
  match f.(cep_ids_list) with [] => None | _ :: _ => Some (f.(active), Some f.(port_id)) end.

(** No connection yet, or one, the active one. *)
Definition flow_ok (f : normal_flow) : Prop :=
  f.(cep_ids_list) = [] /\ f.(active) = 0 /\ f.(f_state) = PORT_STATE_PENDING \/ f.(cep_ids_list) = [f.(active)].

Abbreviation cont d := (d.(efcpc).(s_cont)).
Definition free (d : ipcp_data) : Prop := (cont d).(c_lock) = false.

(** The flows and the connections; [ninv] is for the flows of the IPC process itself. *)
Record ninv_of (l : list normal_flow) (d : ipcp_data) : Prop := {
  ni_cont : cont_reachable false d.(efcpc);
  ni_free : free d;
  ni_ports : NoDup (port_id <$> l);
  ni_flow : Forall flow_ok l;
  ni_conns : omap flow_conn l ≡ₚ conns (cont d)
}.
Abbreviation ninv d := (ninv_of d.(flows) d).

Lemma ni_inv l d : ninv_of l d -> cont_inv (cont d) (omap creg d.(efcpc).(cthreads)).
Proof. intros Hi. apply (cont_reachable_inv _ (ni_cont _ _ Hi)). Qed.

(** ** Lists of flows *)

Lemma find_flow_split l port f :
  find_flow l port = Some f ->
  exists l1 l2, l = l1 ++ f :: l2 /\ f.(port_id) = port /\
    forall g, put_flow (fun f => f.(port_id) =? port) g l = l1 ++ option_list (g f) ++ l2.
Proof.
  induction l as [|x l IH]; cbn; [done|]. destruct (Z.eqb_spec (port_id x) port) as [E|E].
  - intros [= ->]. by exists [], l.
  - intros (l1 & l2 & -> & Hp & Hg)%IH. exists (x :: l1), l2. split_and!; try done. intros g. by rewrite Hg.
Qed.

Lemma find_flow_cepid_split l cep f :
  find_flow_cepid l cep = Some f ->
  exists l1 l2, l = l1 ++ f :: l2 /\ f.(active) = cep /\
    forall g, put_flow (fun f => f.(active) =? cep) g l = l1 ++ option_list (g f) ++ l2.
Proof.
  induction l as [|x l IH]; cbn; [done|]. destruct (Z.eqb_spec (active x) cep) as [E|E].
  - intros [= ->]. by exists [], l.
  - intros (l1 & l2 & -> & Hp & Hg)%IH. exists (x :: l1), l2. split_and!; try done. intros g. by rewrite Hg.
Qed.

Lemma find_flow_cepid_None l cep f : find_flow_cepid l cep = None -> f ∈ l -> f.(active) <> cep.
Proof.
  induction l as [|x l IH]; cbn; [by intros _ ?%elem_of_nil|]. destruct (Z.eqb_spec (active x) cep); [done|].
  intros E [->|Hin]%elem_of_cons; auto.
Qed.

(** A flow in the middle is replaced by one with the same port, or taken out. *)
Lemma conns_middle l1 f l2 :
  omap flow_conn (l1 ++ f :: l2) ≡ₚ option_list (flow_conn f) ++ omap flow_conn (l1 ++ l2).
Proof. rewrite !omap_app. cbn. destruct (flow_conn f); cbn; [by rewrite Permutation_middle|done]. Qed.

Lemma flows_replace l1 f f' l2 d :
  ninv_of (l1 ++ f :: l2) d -> f'.(port_id) = f.(port_id) -> flow_ok f' ->
  NoDup (port_id <$> l1 ++ f' :: l2) /\ Forall flow_ok (l1 ++ f' :: l2).
Proof.
  intros Hi Hp Hf. split; [|pose proof (ni_flow _ _ Hi) as Ho; rewrite !Forall_app, !Forall_cons in *; tauto].
  pose proof (ni_ports _ _ Hi) as Hn. rewrite fmap_app in *. cbn in *. by rewrite Hp.
Qed.

Lemma flows_drop l1 f l2 d : ninv_of (l1 ++ f :: l2) d -> NoDup (port_id <$> l1 ++ l2) /\ Forall flow_ok (l1 ++ l2).
Proof.
  intros Hi. pose proof (ni_ports _ _ Hi) as Hn. pose proof (ni_flow _ _ Hi) as Ho. rewrite fmap_app in *. cbn in Hn.
  apply NoDup_app in Hn as (H1 & H2 & [H3 H4]%NoDup_cons). split.
  - apply NoDup_app. split_and!; try done. intros x Hx Hx2. apply (H2 x Hx). by right.
  - rewrite !Forall_app, Forall_cons in *. tauto.
Qed.

(** ** Calls of the container *)

Lemma ninv_eq l d d' : ninv_of l d -> d'.(efcpc) = d.(efcpc) -> ninv_of l d'.
Proof. intros [H1 H2 H3 H4 H5] E. split; unfold free in *; rewrite ?E; done. Qed.

Lemma cland_cont (r : cresult) l1 l2 : s_cont (cland r l1 l2) = r.1.1.
Proof. by destruct r as [[c o] w]. Qed.

Lemma wp_cont d v k r (Q : Z -> ipcp_data -> Prop) :
  cont_reachable false d.(efcpc) -> ccall_section (cont d) k = Some r ->
  (forall x c, cont_reachable false c -> s_cont c = r.1.1 -> x = match r.1.2 with CRet v => v | CNext _ => v end -> Q x (set_efcpc c d)) ->
  wp (efcp_call v k) d Q.
Proof.
  intros Hr E HQ. unfold wp, efcp_call. rewrite E. eexists _, _. split; [reflexivity|]. apply HQ; [|apply cland_cont|done].
  eapply rtc_r; [exact Hr|]. by eapply cstep_call.
Qed.

Lemma wp_keep l d v k (Q : Z -> ipcp_data -> Prop) :
  ninv_of l d -> changes_conns k = false -> (forall x c, ninv_of l (set_efcpc c d) -> Q x (set_efcpc c d)) -> wp (efcp_call v k) d Q.
Proof.
  intros Hi Hk HQ. destruct (view_call _ _ k (ni_inv _ _ Hi) (ni_free _ _ Hi) Hk) as (r & E & Hc & Hl).
  eapply wp_cont; [apply Hi|done|]. intros x c Hr Ec _. apply HQ. destruct Hi as [H1 H2 H3 H4 H5].
  split; unfold free; cbn [efcpc set_efcpc]; rewrite ?Ec; try done; [congruence|by rewrite Hc].
Qed.

(** A destruction; the flows are [l'] afterwards. *)
Lemma wp_drop l l' d v cep (Q : Z -> ipcp_data -> Prop) :
  ninv_of l d -> NoDup (port_id <$> l') -> Forall flow_ok l' -> omap flow_conn l' ≡ₚ hmap_remove (conns (cont d)) cep ->
  (forall x c, ninv_of l' (set_efcpc c d) -> Q x (set_efcpc c d)) -> wp (efcp_call v (KDestroy cep)) d Q.
Proof.
  intros Hi Hn Hf Hc HQ. destruct (view_destroy _ _ cep (ni_inv _ _ Hi) (ni_free _ _ Hi)) as (r & E & Hr & Hl).
  eapply wp_cont; [apply Hi|done|]. intros x c Hrc Ec _. apply HQ.
  split; unfold free; cbn [efcpc set_efcpc]; rewrite ?Ec; try done. by rewrite Hr.
Qed.

(** A connection that no flow has is not in the container. *)
Lemma unknown_cep l d cep : ninv_of l d -> (forall f, f ∈ l -> f.(cep_ids_list) <> [] -> f.(active) <> cep) -> hmap_remove (conns (cont d)) cep = conns (cont d).
Proof.
  intros Hi Hn. apply hmap_remove_none. destruct (hmap_find _ cep) as [p|] eqn:E; [|done]. apply hmap_find_elem in E.
  rewrite <- (ni_conns _ _ Hi) in E. apply list_elem_of_omap in E as (f & Hf & Ef). unfold flow_conn in Ef.
  destruct (cep_ids_list f) eqn:El; [done|]. simplify_eq. by destruct (Hn f Hf); [rewrite El|].
Qed.

(** A flow with a connection: it is there. *)
Lemma known_cep l1 f l2 d :
  ninv_of (l1 ++ f :: l2) d -> f.(cep_ids_list) <> [] ->
  omap flow_conn (l1 ++ l2) ≡ₚ hmap_remove (conns (cont d)) f.(active).
Proof.
  intros Hi Hne. pose proof (ni_conns _ _ Hi) as Hc. rewrite conns_middle in Hc. unfold flow_conn at 1 in Hc.
  destruct (cep_ids_list f) eqn:El; [done|]. cbn [option_list app] in Hc.
  destruct (conns_keys _ _ (ni_inv _ _ Hi)) as [Hn _].
  assert (hmap_find (conns (cont d)) (active f) = Some (Some (port_id f))) as Ef.
  { apply hmap_elem_find; [done|]. rewrite <- Hc. left. }
  rewrite (hmap_remove_perm _ _ _ Ef) in Hc. by apply Permutation_cons_inv in Hc.
Qed.

Lemma cep_pos l d f : ninv_of l d -> f ∈ l -> f.(cep_ids_list) <> [] -> 1 <= f.(active).
Proof.
  intros Hi Hf Hne. destruct (conns_keys _ _ (ni_inv _ _ Hi)) as [_ Hp]. apply (Hp _ (Some (port_id f))). rewrite <- (ni_conns _ _ Hi).
  apply list_elem_of_omap. exists f. split; [done|]. unfold flow_conn. by destruct (cep_ids_list f).
Qed.

(** ** Operations *)

Lemma wp_alloc d (Q : bool -> ipcp_data -> Prop) : (forall b o, Q b (set_mem o d)) -> wp alloc d Q.
Proof. intros H. unfold wp, alloc. destruct (rkmalloc (mem d)) as [b o]. by eexists _, _. Qed.

Definition stays (v : Z) (d : ipcp_data) : Prop := ninv d.

Lemma wp_flow_prebind d user port :
  ninv d -> find_flow d.(flows) port = None -> wp (normal_flow_prebind user port) d stays.
Proof.
  intros Hi Hn. unfold normal_flow_prebind. apply wp_if; intros _; [by apply wp_ret|]. apply wp_bind, wp_alloc. intros b o.
  destruct b; cbn [negb]; [|apply wp_ret; by eapply ninv_eq]. wp_steps. destruct Hi as [H1 H2 H3 H4 H5]. split; try done; cbn.
  - apply NoDup_cons. split; [|done]. intros (f & Hf & Hin)%list_elem_of_fmap. clear -Hn Hf Hin.
    induction (flows d) as [|x l IH]; [by apply elem_of_nil in Hin|]. cbn in Hn. destruct (Z.eqb_spec (port_id x) port) as [|Hx]; [done|].
    apply elem_of_cons in Hin as [->|Hin]; [by rewrite <- Hf in Hx|auto].
  - constructor; [by left|done].
Qed.

(** Making a connection: the flow has none, and the creation does not follow a null pointer. *)
Definition create_ok d (user : option flow_user) (port dst_cep : Z) (x : conn_args) : Prop :=
  (forall f, find_flow d.(flows) port = Some f -> f.(cep_ids_list) = []) /\
  (user <> None -> is_Some (ccall_section (cont d)
    (KCreate true x.(a_source) x.(a_dest) port x.(a_qos) cep_id_bad dst_cep x.(a_cfg) x.(a_fails)))).

(** A new connection without a flow is destroyed. *)
Lemma wp_undo d d1 cep port :
  ninv d -> cont_reachable false d1.(efcpc) -> free d1 -> conns (cont d1) = (cep, Some port) :: conns (cont d) -> d1.(flows) = d.(flows) ->
  wp (undo cep) d1 stays.
Proof.
  intros Hi Hr Hf Hc Hfl. unfold undo. apply wp_bind.
  destruct (view_destroy _ _ cep (cont_reachable_inv _ Hr) Hf) as (r & E & Hd & Hl). eapply wp_cont; [done|done|].
  intros x c Hrc Ec _. apply wp_ret. unfold stays. cbn [flows set_efcpc]. rewrite Hfl. destruct Hi as [H1 H2 H3 H4 H5].
  split; unfold free; cbn [efcpc set_efcpc]; rewrite ?Ec; try done. rewrite Hd, Hc. cbn. by rewrite Z.eqb_refl.
Qed.

Lemma wp_create_connection d user port dst s x :
  ninv d -> create_ok d user port dst x -> wp (create_connection user port dst s x) d stays.
Proof.
  intros Hi [He Hc]. unfold create_connection. destruct user as [u|]; [|by apply wp_ret]. destruct Hc as [r Hc]; [done|].
  destruct (view_create _ _ _ _ _ _ _ _ _ _ _ _ (ni_inv _ _ Hi) (ni_free _ _ Hi) Hc) as (Hl & cep & Hcep & Hv).
  apply wp_bind. eapply wp_cont; [apply Hi|done|]. intros v c Hrc Ec ->. rewrite Hcep.
  destruct Hv as [[Hok Hv]|[Hok Hv]]; rewrite Hok; cbn [negb].
  { apply wp_ret. unfold stays. cbn [flows set_efcpc]. destruct Hi as [H1 H2 H3 H4 H5].
    split; unfold free; cbn [efcpc set_efcpc]; rewrite ?Ec; try done. by rewrite Hv. }
  apply wp_bind, wp_alloc. intros b o. set (d1 := set_mem o (set_efcpc c d)).
  assert (free d1) as Hf1 by (unfold free; cbn; by rewrite Ec). assert (conns (cont d1) = (cep, Some port) :: conns (cont d)) as Hc1 by (cbn; by rewrite Ec).
  apply wp_if; intros _; [by eapply wp_undo|]. apply wp_if; intros _; [by eapply wp_undo|]. wp_steps.
  destruct (find_flow (flows d1) port) as [f|] eqn:Ef; [|by eapply wp_undo]. unfold ask, on_port. wp_steps.
  apply wp_if; intros _; [by eapply wp_undo|]. wp_steps. unfold stays. cbn [flows set_flows add_asked].
  destruct (find_flow_split _ _ _ Ef) as (l1 & l2 & El & Hp & Hput). rewrite Hput. cbn [option_list app]. set (f' := mk_flow _ _ _ _ _).
  change (flows d1) with (flows d) in *. specialize (He f Ef). rewrite El in Hi.
  destruct (flows_replace l1 f f' l2 d Hi) as [Hn Ho]; [done|right; cbn; by rewrite He|].
  split; try done. change (option_list (Some f') ++ l2) with (f' :: l2). rewrite conns_middle. cbn [efcpc set_flows add_asked]. rewrite Hc1, <- Hp. cbn. constructor.
  rewrite <- (ni_conns _ _ Hi), conns_middle. unfold flow_conn at 2. by rewrite He.
Qed.

(** An update of a connection that exists is for the pending flow that has it. *)
Definition update_ok d (port src_cep : Z) (found : bool) : Prop :=
  is_Some (hmap_find (conns (cont d)) src_cep) ->
  found = true /\ exists f, find_flow d.(flows) port = Some f /\ f.(f_state) = PORT_STATE_PENDING /\ src_cep ∈ f.(cep_ids_list).

Lemma wp_drop_unknown d cep : ninv d -> hmap_find (conns (cont d)) cep = None -> wp (efcp_do (KDestroy cep) ;;; ret (-1)) d stays.
Proof.
  intros Hi Hn. apply wp_bind. eapply (wp_drop _ d.(flows)); [done|apply Hi|apply Hi| |].
  - rewrite hmap_remove_none by done. apply Hi.
  - intros x c Hc. by apply wp_ret.
Qed.

Lemma update_unknown d src dst :
  ninv d -> hmap_find (conns (cont d)) src = None -> wp (efcp_do (KUpdate src dst)) d (fun r d' => r = -1 /\ ninv d').
Proof.
  intros Hi Hn. unfold conns in Hn. rewrite hmap_find_fmap in Hn.
  assert (ccall_section (cont d) (KUpdate src dst) = Some (cont d, CRet (-1), false)) as E.
  { unfold ccall_section. rewrite (ni_free _ _ Hi). unfold efcp_connection_update, checked, with_efcp, efcp_imap_find.
    destruct (hmap_find (instances (cont d)) src); [done|]. by repeat case_match. }
  eapply wp_cont; [apply Hi|done|]. intros x c Hc Ec ->. split; [done|]. destruct Hi as [H1 H2 H3 H4 H5].
  split; unfold free; cbn [efcpc set_efcpc]; rewrite ?Ec; done.
Qed.

Lemma wp_update d port src dst found :
  ninv d -> update_ok d port src found -> wp (connection_update_request port src dst found) d stays.
Proof.
  intros Hi Hok. unfold connection_update_request.
  destruct (hmap_find (conns (cont d)) src) as [p|] eqn:E.
  - destruct (Hok (ltac:(by rewrite E))) as (-> & f & Ef & Hst & Hin). cbn [negb]. apply wp_bind. eapply wp_keep; [done|done|].
    intros r c Hc. apply wp_if; intros _; [by apply wp_ret|]. unfold on_port. wp_steps. cbn [flows set_efcpc]. rewrite Ef.
    unfold in_state. rewrite Hst, bool_decide_true by done. cbn [negb]. wp_steps. unfold stays. cbn [flows set_flows set_efcpc] in *.
    destruct (find_flow_split _ _ _ Ef) as (l1 & l2 & El & Hp & Hput). rewrite Hput. change (option_list (Some ?f) ++ l2) with (f :: l2).
    rewrite El in Hc. destruct (flows_replace l1 f (with_state PORT_STATE_ALLOCATED f) l2 _ Hc) as [Hn Ho]; [done| |].
    + pose proof (ni_flow _ _ Hc) as Hall. rewrite Forall_app, Forall_cons in Hall. destruct Hall as (_ & [(E0 & _)|E0] & _); [|by right].
      rewrite E0 in Hin. by apply elem_of_nil in Hin.
    + destruct Hc as [H1 H2 H3 H4 H5]. split; try done. rewrite <- H5, !conns_middle. done.
  - destruct found; cbn [negb]; [|by apply wp_drop_unknown]. apply wp_bind. eapply wp_mono; [by apply update_unknown|].
    intros r d' [-> Hi']. by apply wp_ret.
Qed.

Lemma wp_destroy_request d cep : ninv d -> wp (connection_destroy_request cep) d stays.
Proof.
  intros Hi. unfold connection_destroy_request, on_cep. apply wp_bind.
  destruct (find_flow_cepid (flows d) cep) as [f|] eqn:Ef.
  - destruct (find_flow_cepid_split _ _ _ Ef) as (l1 & l2 & El & Ha & Hput). rewrite El in Hi. destruct (flows_drop _ _ _ _ Hi) as [Hn Ho].
    eapply (wp_drop _ (l1 ++ l2)); [exact Hi|done|done| |].
    + destruct (cep_ids_list f) eqn:Ec; [|rewrite <- Ha; apply known_cep; [done|by rewrite Ec]].
      rewrite (unknown_cep _ _ _ Hi), <- (ni_conns _ _ Hi), conns_middle; [unfold flow_conn at 2; by rewrite Ec|].
      intros g Hg Hne. pose proof (cep_pos _ _ _ Hi Hg Hne).
      pose proof (ni_flow _ _ Hi) as Hall. rewrite Forall_app, Forall_cons in Hall. destruct Hall as (_ & [(_ & E0 & _)|E0] & _); [lia|congruence].
    + intros x c Hc. wp_steps. cbn [flows set_efcpc]. rewrite Ef. wp_steps. unfold stays. cbn [flows set_flows set_efcpc]. rewrite Hput.
      pose proof (ni_flow _ _ Hi) as Hall. rewrite Forall_app, Forall_cons in Hall. destruct Hall as (_ & Hf & _).
      replace (if bool_decide _ then _ else _) with (@None normal_flow); [cbn; by eapply ninv_eq|].
      cbn. destruct Hf as [(-> & _)| ->]; cbn; [done|]. by rewrite Ha, Z.eqb_refl.
  - eapply (wp_drop _ d.(flows)); [done|apply Hi|apply Hi| |].
    + rewrite (unknown_cep _ _ _ Hi); [apply Hi|]. intros f Hf _. by eapply find_flow_cepid_None.
    + intros x c Hc. wp_steps. cbn [flows set_efcpc]. rewrite Ef. by apply wp_ret.
Qed.

Lemma wp_unbind d port : ninv d -> wp (normal_flow_unbinding_user_ipcp port) d stays.
Proof.
  intros Hi. unfold normal_flow_unbinding_user_ipcp, on_port. wp_steps. destruct (find_flow (flows d) port) as [f|] eqn:Ef; [|by apply wp_ret].
  apply wp_if; intros _; [by apply wp_ret|]. wp_steps.
  destruct (find_flow_split _ _ _ Ef) as (l1 & l2 & El & Hp & Hput). rewrite Hput. change (option_list (Some ?f) ++ l2) with (f :: l2).
  set (f' := mk_flow _ _ _ _ _). set (d1 := set_flows _ d).
  assert (ninv d1) as Hi1.
  { rewrite El in Hi. destruct (flows_replace l1 f f' l2 d Hi) as [Hn Ho]; [done| |].
    - pose proof (ni_flow _ _ Hi) as Hall. rewrite Forall_app, Forall_cons in Hall. exact (proj1 (proj2 Hall)).
    - destruct Hi as [H1 H2 H3 H4 H5]. split; try done. cbn [flows d1 set_flows]. rewrite conns_middle. rewrite conns_middle in H5. exact H5. }
  eapply wp_keep; [done|done|]. intros r c Hc. by apply wp_ret.
Qed.

(** The connections of a flow that is gone from the list. *)
Lemma wp_remove_all d0 l1 f l2 d (Q : Z -> ipcp_data -> Prop) :
  ninv_of (l1 ++ f :: l2) d0 -> d.(efcpc) = d0.(efcpc) ->
  (forall c, ninv_of (l1 ++ l2) (set_efcpc c d) -> Q 0 (set_efcpc c d)) -> wp (remove_all_cepid f.(cep_ids_list)) d Q.
Proof.
  intros Hi E HQ. assert (ninv_of (l1 ++ f :: l2) d) as Hd by by eapply ninv_eq.
  pose proof (ni_flow _ _ Hi) as Hall. rewrite Forall_app, Forall_cons in Hall. destruct Hall as (_ & Hf & _).
  destruct (flows_drop _ _ _ _ Hd) as [Hn Ho]. destruct Hf as [(Ec & _)|Ec]; rewrite Ec; cbn [remove_all_cepid].
  - apply wp_ret. replace d with (set_efcpc (efcpc d) d) by by destruct d. apply HQ. destruct Hd as [H1 H2 H3 H4 H5]. split; try done.
    rewrite conns_middle in H5. unfold flow_conn at 1 in H5. by rewrite Ec in H5.
  - apply wp_bind. eapply (wp_drop _ (l1 ++ l2)); [exact Hd|done|done|apply known_cep; [done|by rewrite Ec]|].
    intros x c Hc. apply wp_ret. by apply HQ.
Qed.

(** A pending flow that is deallocated has no connection: one it has would stay in the container. *)
Definition dealloc_ok d (port : Z) : Prop :=
  forall f, find_flow d.(flows) port = Some f -> f.(f_state) = PORT_STATE_PENDING -> f.(f_user) <> None -> f.(cep_ids_list) = [].

Lemma wp_released d u port : ninv d -> wp (if has_name u then ask (RRelease port) else ret tt) d (fun _ d' => wp (ret 0) d' stays).
Proof. intros Hi. unfold ask. apply wp_if; intros _; wp_steps; [by eapply ninv_eq|done]. Qed.

Lemma wp_deallocate d port : ninv d -> dealloc_ok d port -> wp (normal_deallocate port) d stays.
Proof.
  intros Hi Hok. unfold normal_deallocate, on_port. wp_steps. destruct (find_flow (flows d) port) as [f|] eqn:Ef; [|by apply wp_ret].
  wp_steps. destruct (find_flow_split _ _ _ Ef) as (l1 & l2 & El & Hp & Hput). rewrite Hput. cbn [option_list app].
  rewrite El in Hi. destruct (if in_state PORT_STATE_PENDING f then f_user f else None) as [u|] eqn:Eu.
  - unfold ask at 1. wp_steps. apply wp_released. cbn [flows set_flows add_asked].
    unfold in_state in Eu. case_bool_decide as Hs; [|done]. pose proof (Hok f Ef Hs (ltac:(by rewrite Eu))) as Ec.
    destruct (flows_drop _ _ _ _ Hi) as [Hn Ho]. destruct Hi as [H1 H2 H3 H4 H5]. split; try done.
    rewrite conns_middle in H5. unfold flow_conn at 1 in H5. by rewrite Ec in H5.
  - eapply wp_remove_all; [exact Hi|done|]. intros c Hc. apply wp_bind, wp_released. cbn [flows set_efcpc set_flows]. done.
Qed.

Lemma wp_deallocate_all d : ninv d -> wp normal_deallocate_all d stays.
Proof.
  intros Hi. unfold normal_deallocate_all. wp_steps. remember (flows d) as l eqn:E. revert d E Hi. induction l as [|f l IH]; intros d E Hi; cbn [deallocate_loop].
  - apply wp_ret. unfold stays. by rewrite <- E.
  - apply wp_bind. eapply (wp_remove_all d [] f l); [exact Hi|done|]. intros c Hc. wp_steps. apply IH; [done|by eapply ninv_eq].
Qed.

Lemma wp_du_write d port sent : ninv d -> wp (normal_du_write port sent) d stays.
Proof.
  intros Hi. unfold normal_du_write. wp_steps. destruct (find_flow (flows d) port) as [f|]; [|by apply wp_ret].
  apply wp_if; intros _; [by apply wp_ret|]. apply wp_bind. eapply wp_keep; [done|done|]. intros r c Hc. by apply wp_ret.
Qed.

Lemma wp_address_change d HZ jiffies new old use dep : ninv d -> wp (normal_address_change HZ jiffies new old use dep) d stays.
Proof.
  intros Hi. unfold normal_address_change, rmt_address_add. wp_steps. apply wp_alloc. intros b o.
  apply wp_if; intros _; wp_steps; by eapply ninv_eq.
Qed.

Lemma wp_use_naddress d : ninv d -> wp tf_use_naddress d (fun _ => stays 0).
Proof.
  intros Hi. unfold tf_use_naddress. wp_steps. eapply (wp_keep d.(flows)); [by eapply ninv_eq|done|]. intros r c Hc. by apply wp_ret.
Qed.

(** ** Runs *)

Inductive nevent :=
| EPrebind (user : option flow_user) (port : Z)
| ECreateRequest (user : option flow_user) (port : Z) (x : conn_args)
| ECreateArrived (user : option flow_user) (port dst_cep : Z) (x : conn_args)
| EUpdate (port src_cep dst_cep : Z) (found : bool)
| EModify (src_cep src dst : Z)
| EDestroy (src_cep : Z)
| EUnbindUser (port : Z)
| EDeallocate (port : Z)
| EDeallocateAll
| EWrite (port sent : Z)
| EAddress (HZ jiffies new old use dep : Z)
| EUseNew
| EKillOld.

Definition nexec (ev : nevent) : NM Z :=
  match ev with
  | EPrebind user port => normal_flow_prebind user port
  | ECreateRequest user port x => connection_create_request user port x
  | ECreateArrived user port dst x => connection_create_arrived user port dst x
  | EUpdate port src dst found => connection_update_request port src dst found
  | EModify cep src dst => connection_modify_request cep src dst
  | EDestroy cep => connection_destroy_request cep
  | EUnbindUser port => normal_flow_unbinding_user_ipcp port
  | EDeallocate port => normal_deallocate port
  | EDeallocateAll => normal_deallocate_all
  | EWrite port sent => normal_du_write port sent
  | EAddress HZ jiffies new old use dep => normal_address_change HZ jiffies new old use dep
  | EUseNew => tf_use_naddress ;;; ret 0
  | EKillOld => tf_kill_oaddress ;;; ret 0
  end.

(** How the KIPCM and the daemon use an IPC process. *)
Definition nev_ok d (ev : nevent) : Prop :=
  match ev with
  | EPrebind _ port => find_flow d.(flows) port = None
  | ECreateRequest user port x => create_ok d user port cep_id_bad x
  | ECreateArrived user port dst x => create_ok d user port dst x
  | EUpdate port src _ found => update_ok d port src found
  | EDeallocate port => dealloc_ok d port
  | _ => True
  end.

Lemma wp_nevent d ev : ninv d -> nev_ok d ev -> wp (nexec ev) d stays.
Proof.
  intros Hi Hok. destruct ev; cbn [nexec nev_ok] in *.
  - by apply wp_flow_prebind.
  - by apply wp_create_connection.
  - by apply wp_create_connection.
  - by apply wp_update.
  - eapply wp_keep; by eauto.
  - by apply wp_destroy_request.
  - by apply wp_unbind.
  - by apply wp_deallocate.
  - by apply wp_deallocate_all.
  - by apply wp_du_write.
  - by apply wp_address_change.
  - apply wp_bind. eapply wp_mono; [by apply wp_use_naddress|]. intros [] d' Hd. by apply wp_ret.
  - unfold tf_kill_oaddress. wp_steps. by eapply ninv_eq.
Qed.

(** Events happen while nobody holds the lock of the container.  Between them, threads of the container
    take their steps, PDUs arrive, and allocations come out as they do. *)
Inductive nstep : ipcp_data -> ipcp_data -> Prop :=
| n_event d ev r d' : free d -> nev_ok d ev -> nexec ev d = Some (r, d') -> nstep d d'
| n_thread d l1 t l2 r :
    d.(efcpc).(cthreads) = l1 ++ t :: l2 -> csection (cont d) t CNone = Some r -> nstep d (set_efcpc (cland r l1 l2) d)
| n_receive d id dt src r :
    ccall_section (cont d) (KReceive id dt src) = Some r -> nstep d (set_efcpc (cland r [] d.(efcpc).(cthreads)) d)
| n_mem d o : nstep d (set_mem o d).

(** The invariant without the lock. *)
Record nsteady (d : ipcp_data) : Prop := {
  ns_cont : cont_reachable false d.(efcpc);
  ns_ports : NoDup (port_id <$> d.(flows));
  ns_flow : Forall flow_ok d.(flows);
  ns_conns : omap flow_conn d.(flows) ≡ₚ conns (cont d)
}.

Lemma nsteady_ninv d : nsteady d -> free d -> ninv d.
Proof. intros [H1 H2 H3 H4] Hf. by split. Qed.

Lemma nstep_steady d d' : nsteady d -> nstep d d' -> nsteady d'.
Proof.
  intros Hs Hstep. destruct Hstep as [d ev r d' Hf Hok E|d l1 t l2 r Et E|d id dt src r E|d o].
  - destruct (wp_nevent d ev (nsteady_ninv _ Hs Hf) Hok) as (r' & d1 & E1 & H1). rewrite E in E1. simplify_eq.
    destruct H1 as [? _ ? ? ?]. by split.
  - destruct Hs as [H1 H2 H3 H4]. split; try done; cbn [efcpc set_efcpc].
    + eapply rtc_r; [exact H1|]. eapply (cstep_thread false (efcpc d) l1 t l2 CNone); done.
    + rewrite cland_cont, (view_thread (omap creg l1) (omap creg l2) (cont d) t r); [done| |done].
      pose proof (cont_reachable_inv _ H1) as Hi. unfold csys_inv in Hi. rewrite Et in Hi. unfold amid. rewrite <- !omap_app. exact Hi.
  - destruct Hs as [H1 H2 H3 H4]. assert (free d) as Hf by (unfold free, ccall_section in *; by destruct (c_lock (cont d))).
    destruct (view_call _ _ (KReceive id dt src) (cont_reachable_inv _ H1) Hf eq_refl) as (r' & E' & Hc & _). simplify_eq.
    split; try done; cbn [efcpc set_efcpc]; [eapply rtc_r; [exact H1|by eapply cstep_call]|]. by rewrite cland_cont, Hc.
  - destruct Hs as [H1 H2 H3 H4]. by split.
Qed.

Lemma nrun_steady d d' : nsteady d -> rtc nstep d d' -> nsteady d'.
Proof. intros Hd Hr. induction Hr; eauto using nstep_steady. Qed.

(** An IPC process that was just created. *)
Definition ninit (d : ipcp_data) : Prop := d.(flows) = [] /\ d.(efcpc) = cont_init.

Lemma ninit_steady d : ninit d -> nsteady d.
Proof. intros [H1 H2]. split; rewrite ?H1, ?H2; by constructor. Qed.

Lemma steady_cep_ids d : nsteady d -> concat (cep_ids_list <$> d.(flows)) = (omap flow_conn d.(flows)).*1.
Proof.
  intros Hs. pose proof (ns_flow _ Hs) as Hf. induction Hf as [|f l Hf _ IH]; [done|]. cbn. rewrite IH. unfold flow_conn at 2.
  by destruct Hf as [(E & _)|E]; rewrite E.
Qed.

Lemma conns_instances c : (conns c).*1 = c.(instances).*1.
Proof. unfold conns. rewrite <- list_fmap_compose. by apply list_fmap_ext. Qed.

(** C17: a normal IPC process and its container agree on the connections, whatever the order of prebindings,
    creations, updates, destructions, deallocations, writes and changes of address, of arriving PDUs and of
    operations and destructions under way in the container.  The ports of the flows are distinct; the
    cep-ids in the lists of the flows are, up to order, those of the container, so that no connection is
    left without a flow and no flow with a cep-id that is free for another connection; an SDU written to an
    allocated flow finds the connection that was made for the port of that flow; the container is in a state
    the theorems on it are about; and no event faults.  The IPC process is used as the daemons mean
    to: a port is prebound once, a flow gets one connection, an update is for the pending flow of the
    connection, and a pending flow that is deallocated has no connection. *)
Theorem normal_flows_served (d0 d : ipcp_data) :
  ninit d0 -> rtc nstep d0 d ->
  NoDup (port_id <$> d.(flows)) /\
  concat (cep_ids_list <$> d.(flows)) ≡ₚ (cont d).(instances).*1 /\
  (forall port f, find_flow d.(flows) port = Some f -> f.(f_state) = PORT_STATE_ALLOCATED ->
     exists a e cn, efcp_imap_find (cont d).(instances) f.(active) = Some a /\ (cont d).(c_heap) !! a = Some e /\
       e.(e_connection) = Some cn /\ cn.(conn_port_id) = port) /\
  cont_reachable false d.(efcpc) /\
  (forall ev, free d -> nev_ok d ev -> is_Some (nexec ev d)).
Proof.
  intros H0 Hr. pose proof (nrun_steady _ _ (ninit_steady _ H0) Hr) as Hs. split; [apply Hs|]. split; [|split; [|split; [apply Hs|]]].
  - by rewrite (steady_cep_ids _ Hs), (ns_conns _ Hs), conns_instances.
  - intros port f Ef Hst. destruct (find_flow_split _ _ _ Ef) as (l1 & l2 & El & Hp & _).
    assert (f ∈ flows d) as Hin by (rewrite El; apply elem_of_app; right; left).
    pose proof (ns_flow _ Hs) as Ho. rewrite Forall_forall in Ho. specialize (Ho f Hin). destruct Ho as [(_ & _ & E)|Ec]; [congruence|].
    assert ((active f, Some port) ∈ conns (cont d)) as Hc.
    { rewrite <- (ns_conns _ Hs). apply list_elem_of_omap. exists f. split; [done|]. unfold flow_conn. by rewrite Ec, Hp. }
    apply list_elem_of_fmap in Hc as ([id a] & Hx & Ha). unfold prod_map, port_at in Hx. cbn in Hx. injection Hx as -> Hx.
    destruct (c_heap (cont d) !! a) as [e|] eqn:He; [|done]. cbn in Hx. destruct (e_connection e) as [cn|] eqn:Hcn; [|done]. cbn in Hx.
    exists a, e, cn. split; [|by simplify_eq]. apply hmap_elem_find; [|done]. apply (cont_reachable_inv _ (ns_cont _ Hs)).
  - intros ev Hf Hok. destruct (wp_nevent d ev (nsteady_ninv _ Hs Hf) Hok) as (r & d' & E & _). by exists (r, d').
Qed.
