(* ===== verification/NormalExamples.v ===== *)
(** * Examples of the normal IPC process

    A flow over a normal IPC process, and uses after which the flows and the container no longer
    agree. *)

From S2P Require Import Prelude Ids Rds Hmap EfcpState EfcpCont EfcpContInv EfcpContRuns ContView Prog Policies Normal NormalInv.
From Stdlib Require Import ZArith Lia String.
From stdpp Require Import base list numbers option gmap sets relations.
#[local] Open Scope Z_scope.
#[local] Open Scope prog_scope.

Definition fresh_ipcp : ipcp_data := mk_data [] cont_init 10 0 [10] None None [] [].
Definition good : conn_args := mk_args 10 20 1 reliable (fun _ => false) true 0.

Definition nafter (ev : nevent) (d : ipcp_data) : ipcp_data := default d (snd <$> nexec ev d).
Fixpoint nruns (l : list nevent) (d : ipcp_data) : ipcp_data := match l with [] => d | ev :: l' => nruns l' (nafter ev d) end.

(** ** A flow *)

Definition prebound : ipcp_data := nruns [EPrebind None 5] fresh_ipcp.
Definition requested : ipcp_data := nruns [ECreateRequest (Some UserKfa) 5 good] prebound.
Definition allocated : ipcp_data := nruns [EUpdate 5 1 7 true] requested.
Definition written : ipcp_data := nruns [EWrite 5 0] allocated.

Lemma nevent_step d ev r : free d -> nev_ok d ev -> fst <$> nexec ev d = Some r -> nstep d (nafter ev d).
Proof.
  intros Hf Hok E. unfold nafter. destruct (nexec ev d) as [[r' d']|] eqn:E'; [|done]. by eapply n_event.
Qed.

Lemma normal_flows_served_witness :
  (exists a e cn, efcp_imap_find (instances (s_cont (efcpc written))) 1 = Some a /\ (s_cont (efcpc written)).(c_heap) !! a = Some e /\
     e.(e_connection) = Some cn /\ cn.(conn_port_id) = 5) /\
  written.(efcpc).(cthreads) = [COp 0] /\ is_Some (nexec (EDeallocate 5) written).
Proof.
  assert (rtc nstep fresh_ipcp written) as Hr.
  { eapply rtc_l; [by apply (nevent_step _ (EPrebind None 5) 0)|].
    eapply rtc_l; [apply (nevent_step prebound (ECreateRequest (Some UserKfa) 5 good) 1); [done| |by vm_compute]|].
    { split; [intros f E; vm_compute in E; by simplify_eq|]. intros _. vm_compute. eauto. }
    eapply rtc_l; [apply (nevent_step requested (EUpdate 5 1 7 true) 0); [done| |by vm_compute]|].
    { intros _. split; [done|]. eexists. split; [reflexivity|]. split; [done|left]. }
    eapply rtc_l; [by apply (nevent_step allocated (EWrite 5 0) 0)|]. apply rtc_refl. }
  destruct (normal_flows_served fresh_ipcp written (conj eq_refl eq_refl) Hr) as (_ & _ & Hw & _ & Hev).
  split; [|split; [by vm_compute|]].
  - apply (Hw 5 (mk_flow 5 1 [1] PORT_STATE_ALLOCATED (Some UserKfa))); by vm_compute.
  - apply Hev; [done|]. intros f E Hs. vm_compute in E. by simplify_eq.
Defined.

(** ** Uses that go wrong *)

(** A second update of a connection destroys it and leaves its cep-id in the list of the flow, which
    stays allocated: writes fail, and the cep-id may be given to another connection, which a deallocation of
    this flow would destroy. *)
Example update_twice :
  let d := nruns [EUpdate 5 1 7 true] allocated in
  map cep_ids_list d.(flows) = [[1]] /\ map f_state d.(flows) = [PORT_STATE_ALLOCATED] /\ instances (s_cont (efcpc d)) = [] /\
  fst <$> nexec (EWrite 5 0) d = Some (-1).
Proof. by vm_compute. Qed.

(** A flow that is deallocated before its connection is updated leaves the connection in the container. *)
Example pending_connection_leaks :
  let d := nruns [EDeallocate 5] requested in
  d.(flows) = [] /\ (instances (s_cont (efcpc d))).*1 = [1] /\ d.(asked) = [RBind UserKfa 5; RUnbind UserKfa 5].
Proof. by vm_compute. Qed.

(** The destruction of a connection with cep-id 0, which no connection has, takes away a flow that
    waits for its connection. *)
Example destroy_zero :
  let d := nruns [EDestroy 0] prebound in d.(flows) = [] /\ fst <$> nexec (EDestroy 0) prebound = Some 0.
Proof. by vm_compute. Qed.

(** ** Paths *)

Definition all_dtcp : Z -> bool := fun _ => true.

(** Components are compared up to the length of what is written: a prefix of a name is taken for the name,
    and for parameters, where the length is not tested, so is the empty string. *)
Example paths :
  path_component true all_dtcp allocated (c_str "efcp.5.dtcp.x") = Some (CompDtcp 1, c_str "x") /\
  path_component true all_dtcp allocated (c_str "rmt") = Some (CompRmt, []) /\
  path_component true all_dtcp allocated (c_str "e.5.d") = Some (CompDtp 1, []) /\
  path_component true all_dtcp allocated [] = None /\
  path_component false all_dtcp allocated [] = Some (CompRmt, []) /\
  path_component false all_dtcp allocated (c_str "efcp.5") = Some (CompDtp 1, []) /\
  path_component true all_dtcp allocated (c_str "efcp.6.dtp") = None.
Proof. by vm_compute. Qed.
