(* ===== verification/KfaPids.v ===== *)
(** * The port ids of the KFA under its steps

    Sections of the KFA release port ids and reserve fresh ones; the manager of port ids stays well
    formed, and a call touches the port id it names only. *)

From S2P Require Import Prelude Ids Rds Hmap Kfa KfaInv.
From Stdlib Require Import ZArith Lia.
From stdpp Require Import base list numbers option gmap sets relations.
#[local] Open Scope Z_scope.

(** What a section does to the port ids: nothing, or it releases one of those in [ids]. *)
Definition pidm_keeps (P : Z -> Prop) (k k' : kfa) : Prop :=
  k'.(k_pidm) = k.(k_pidm) \/ exists id, P id /\ k'.(k_pidm) = snd (Pidm.pidm_release k.(k_pidm) id).

Ltac keeps := repeat (case_match || simplify_option_eq); simplify_eq; try (by left); try (right; by eexists).

Section Sections.
Abbreviation any := (fun _ : Z => True).

Lemma finish_keeps k a id f o : pidm_keeps any k (finish k a id f o).1.1.1.
Proof. unfold finish, kfa_flow_destroy. keeps. Qed.

Lemma leave_reader_keeps k a id f o : pidm_keeps any k (leave_reader k a id f o).1.1.1.
Proof. apply finish_keeps. Qed.

Lemma leave_writer_keeps k w f r : pidm_keeps any k (leave_writer k w f r).1.1.1.
Proof. apply finish_keeps. Qed.

Lemma read_take_keeps k a id size f r : read_take k a id size f = Some r -> pidm_keeps any k r.1.1.1.
Proof. unfold read_take. intros E. keeps. apply leave_reader_keeps. Qed.

Hint Resolve finish_keeps leave_reader_keeps leave_writer_keeps read_take_keeps : core.

Lemma section_keeps k t i r : section k t i = Some r -> pidm_keeps any k r.1.1.1.
Proof.
  intros E. destruct t; unfold section, read_woken, write_lock, write_woken, write_back, write_or_sleep, write_loop, stop, read_loop in E;
    keeps; eauto.
Qed.

Lemma worker_keeps k id r : kfa_flow_deallocate_worker k id = Some r -> pidm_keeps any k r.1.1.1.
Proof. unfold kfa_flow_deallocate_worker, kfa_flow_destroy, stop. intros E. keeps. Qed.
End Sections.

Section Calls.
Context (max_sdu_size : Z -> Z).

(** The port id that a call may release. *)
Definition releases (c : call) (id : Z) : Prop :=
  match c with CRelease i | CDealloc i _ _ | CRead i _ _ | CBind i _ _ | CWrite i _ _ | CDuWrite i _ => i = id | _ => False end.

(** A call other than a reservation. *)
Lemma call_keeps k c r :
  call_section max_sdu_size k c = Some r -> (forall mem, c <> CReserve mem) -> pidm_keeps (releases c) k r.1.1.1.
Proof.
  intros E Hn. destruct c; cbn [call_section] in E; try (by destruct (Hn mem)); try apply deallocate_mem in E;
    unfold kfa_port_id_release, kfa_flow_create, kfa_flow_ipcp_bind, mark_deallocated, disable_write, enable_write, kfa_flow_set_iowqs,
      kfa_flow_cancel_iowqs, kfa_flow_du_read, kfa_flow_ub_write, kfa_flow_du_write, kfa_du_post, with_flow, kfa_flow_destroy, stop,
      read_loop, read_take, leave_reader, leave_writer, finish, write_loop in E.
  all: keeps.
  all: match goal with
       | H : k_pidm _ = _, H' : Pidm.pidm_release _ _ = _ |- _ =>
           right; exists id; (split; [done|]); cbn [fst k_pidm]; rewrite H; by rewrite H'
       | _ => unfold leave_writer, finish, kfa_flow_destroy; keeps
       end.
Qed.

(** The manager of port ids is there and well formed. *)
Definition pidm_ok (k : kfa) : Prop := exists p, k.(k_pidm) = Some p /\ Pidm.wf p.

Lemma keeps_ok P k k' : pidm_ok k -> pidm_keeps P k k' -> pidm_ok k'.
Proof.
  intros (p & Hp & Hw) [E|(id & _ & E)]; unfold pidm_ok; rewrite E, Hp; [by exists p|]. unfold Pidm.pidm_release.
  destruct (negb _); [by exists p|]. cbn. eexists. split; [done|]. by apply Cyclic.wf_remove.
Qed.

Lemma keeps_reserved P k k' id : pidm_keeps P k k' -> ~ P id -> reserved k id = true -> reserved k' id = true.
Proof.
  intros [E|(id' & Hp & E)] Hn Hr; unfold reserved in *; rewrite E; [done|].
  apply (reserved_release k id' id [] ∅ 0%nat); [congruence|done].
Qed.

(** A reservation with memory and a free port id. *)
Lemma reserve_fresh k p :
  k.(k_pidm) = Some p -> Pidm.wf p -> (length p.(Pidm.allocated_ports) < Pidm.turn)%nat ->
  exists k' id, kfa_port_id_reserve Pidm.turn true k = Some (k', id) /\ Pidm.is_port_id_ok id = true /\ reserved k id = false /\
    reserved k' id = true /\ (forall x, reserved k x = true -> reserved k' x = true) /\ pidm_ok k' /\ k'.(flows) = k.(flows) /\
    in_s 32 id.
Proof.
  intros Hp Hw Hl. destruct (Pidm.pidm_allocate_release p Hw Hl) as (id & p' & p'' & E & Hr & Hn & Ha & Hw' & _).
  unfold kfa_port_id_reserve. rewrite Hp, E. cbn [mbind option_bind]. eexists _, id. split; [done|].
  unfold Cyclic.in_range in Hr. unfold reserved. rewrite Hp. cbn [k_pidm flows]. rewrite Ha.
  split; [apply Z.leb_le; lia|]. split; [by apply bool_decide_eq_false|]. split; [apply bool_decide_eq_true; left|].
  split; [intros x Hx%bool_decide_eq_true; apply bool_decide_eq_true; by right|]. split; [by exists p'|]. split; [done|].
  change Pidm.MAX_PORT_ID with 2047 in Hr. unfold in_s. lia.
Qed.

Lemma reserve_ok k mem k' id : pidm_ok k -> kfa_port_id_reserve Pidm.turn mem k = Some (k', id) -> pidm_ok k'.
Proof.
  intros (p & Hp & Hw). unfold kfa_port_id_reserve, Pidm.pidm_allocate. rewrite Hp, Pidm.pidm_loop_search.
  change (if Pidm.last_allocated p =? _ then _ else _) with (Cyclic.next_id Pidm.MAX_PORT_ID (Pidm.last_allocated p)).
  destruct (Cyclic.search _ _ _ _) as [[pid n]|] eqn:Es; [|done]. cbn [fmap option_fmap option_map fst].
  destruct mem; cbn; intros [= <- <-]; [|by exists p].
  apply Cyclic.search_Some in Es as (Hr & Hn & _); [|done|by eapply Cyclic.wf_start].
  eexists. split; [done|]. by eapply Cyclic.wf_add.
Qed.

Lemma reserve_reserved k mem k' id x :
  kfa_port_id_reserve Pidm.turn mem k = Some (k', id) -> reserved k x = true -> reserved k' x = true.
Proof.
  unfold kfa_port_id_reserve, Pidm.pidm_allocate, reserved. destruct (k_pidm k) as [p|]; [|done].
  destruct (Pidm.pidm_allocate_loop _ _ _) as [pid|]; [|done]. destruct mem; cbn; intros [= <- _]; cbn [k_pidm]; [|done].
  intros H%bool_decide_eq_true. apply bool_decide_eq_true. by right.
Qed.

Lemma step_pidm cancel s s' : kfa_step max_sdu_size cancel s s' -> pidm_ok s.(s_kfa) -> pidm_ok s'.(s_kfa).
Proof.
  intros Hs Hk. destruct Hs as [s c r Ha Hr|s l1 t l2 i r Ht Hr|s w1 id w2 r Hw Hr].
  - replace (s_kfa (land r [] (threads s) (work s))) with r.1.1.1 by by destruct r as [[[? ?] ?] ?].
    assert ((exists mem, c = CReserve mem) \/ forall mem, c <> CReserve mem) as [[mem ->]|Hn] by (destruct c; eauto).
    + cbn in Hr. destruct (kfa_port_id_reserve _ _ _) as [[k' id]|] eqn:E; [|done]. simplify_option_eq. by eapply reserve_ok.
    + eapply keeps_ok, call_keeps; done.
  - replace (s_kfa (land r l1 l2 (work s))) with r.1.1.1 by by destruct r as [[[? ?] ?] ?]. by eapply keeps_ok, section_keeps.
  - replace (s_kfa (land r [] (threads s) (w1 ++ w2))) with r.1.1.1 by by destruct r as [[[? ?] ?] ?]. by eapply keeps_ok, worker_keeps.
Qed.

Lemma reachable_pidm cancel s : reachable max_sdu_size cancel s -> pidm_ok s.(s_kfa).
Proof.
  intros Hr. eapply (rtc_ind_r (fun s => pidm_ok s.(s_kfa))); [|intros y z _ Hs Hy; by eapply step_pidm|exact Hr].
  eexists. split; [done|]. id_wf.
Qed.
End Calls.
