(* ===== verification/Ctrldev.v ===== *)
(** * The control device

    The file [/dev/irati-ctrl] through which the daemons and the kernel exchange control messages
    ([src/kernel/ctrldev.c]).  A process opens the device and binds it to a control port; what is
    written goes to the queue of another port, or, with destination port 0, to the handler in the
    kernel of its message type; what is queued is read.

    Handlers are known by a tag of type [Cb]; [invoke] runs one, on the state of the devices and on
    the state [K] of those who registered them.  A fault (a read or write outside a buffer or an
    array) has no result.  The operations run one after the other; the binding of a port, which is not
    atomic, is looked at in its two halves. *)

From S2P Require Import Prelude Ids Rds Config Wire MsgLayout Messages Prog.
From Stdlib Require Import ZArith Lia.
From stdpp Require Import base list numbers option.
Import Rqueue Rfifo FifoList.
#[local] Open Scope Z_scope.
#[local] Open Scope prog_scope.

Definition EAGAIN : Z := 11.
Definition ENOMEM : Z := 12.
Definition EFAULT : Z := 14.
Definition EBUSY : Z := 16.
Definition EINVAL : Z := 22.
Definition ENOBUFS : Z := 105.

Definition IRATI_RINA_C_MIN : Z := RINA_C_MIN + 1.
Definition IRATI_RINA_C_MAX : Z := RINA_C_MAX.

(** [struct msg_queue_entry]: a buffer and the bytes of it that are a message. *)
Record msg_queue_entry := mk_entry { sermsg : list Z; serlen : Z }.

(** [struct ctrldev_priv]. *)
Record ctrldev_priv := mk_priv { p_port : Z; flushed : bool; pending_msgs : option (rfifo msg_queue_entry) }.

Definition set_pending v (p : ctrldev_priv) : ctrldev_priv := mk_priv p.(p_port) p.(flushed) v.

Definition port_id_bad32 : Z := u32 Pidm.port_id_bad.
Definition is_ctrl_port_ok (port : Z) : bool := Pidm.is_port_id_ok (s32 port).

(** [struct irati_ctrl_dm]; an open file is known by a number. *)
Record irati_ctrl_dm {Cb : Type} := mk_dm {
  ctrl_devs : list (nat * ctrldev_priv);
  handlers : list (option Cb);
  sn_counter : Z
}.
Arguments irati_ctrl_dm : clear implicits.
Arguments mk_dm {_}.

(** The state: the devices, the state of the handlers, the outcomes of allocations to come, and what
    uninitialised memory holds. *)
Record sys {Cb K : Type} := mk_sys { s_dm : irati_ctrl_dm Cb; s_k : K; s_mem : oracle; s_junk : Z }.
Arguments sys : clear implicits.
Arguments mk_sys {_ _}.

Section Ctrldev.
Context {Cb K : Type}.
Implicit Types (s : sys Cb K) (d : irati_ctrl_dm Cb).

Definition set_dm d s : sys Cb K := mk_sys d s.(s_k) s.(s_mem) s.(s_junk).
Definition set_k k s : sys Cb K := mk_sys s.(s_dm) k s.(s_mem) s.(s_junk).
Definition set_devs v d : irati_ctrl_dm Cb := mk_dm v d.(handlers) d.(sn_counter).
Definition set_handlers v d : irati_ctrl_dm Cb := mk_dm d.(ctrl_devs) v d.(sn_counter).

Definition get_dm : M (sys Cb K) (irati_ctrl_dm Cb) := gets s_dm.
Definition mod_dm (f : irati_ctrl_dm Cb -> irati_ctrl_dm Cb) : M (sys Cb K) unit := modify (fun s => set_dm (f s.(s_dm)) s).

(** An allocation. *)
Definition ask : M (sys Cb K) bool :=
  fun s => let '(b, o) := rkmalloc s.(s_mem) in Some (b, mk_sys s.(s_dm) s.(s_k) o s.(s_junk)).

(** ** Handlers *)

(** The test of the range is a conjunction that never holds. *)
Definition irati_handler_register (msg_type : Z) (handler : option Cb) : M (sys Cb K) Z :=
  match handler with
  | None => ret (-1)
  | Some h =>
      if (msg_type <=? IRATI_RINA_C_MIN) && (IRATI_RINA_C_MAX <=? msg_type) then ret (-1)
      else
        let! d := get_dm in
        match d.(handlers) !! Z.to_nat msg_type with
        | None => fault
        | Some (Some _) => ret (-1)
        | Some None => mod_dm (set_handlers (<[Z.to_nat msg_type := Some h]> d.(handlers))) ;;; ret 0
        end
  end.

Definition irati_handler_unregister (msg_type : Z) : M (sys Cb K) Z :=
  if (msg_type <=? IRATI_RINA_C_MIN) || (IRATI_RINA_C_MAX <=? msg_type) then ret (-1)
  else mod_dm (fun d => set_handlers (<[Z.to_nat msg_type := None]> d.(handlers)) d) ;;; ret 0.

Definition ctrl_dev_get_next_seqn : M (sys Cb K) Z :=
  let! d := get_dm in
  mod_dm (fun d => mk_dm d.(ctrl_devs) d.(handlers) (u32 (d.(sn_counter) + 1))) ;;;
  ret d.(sn_counter).

(** ** Queues *)

Fixpoint get_ctrl_dev (l : list (nat * ctrldev_priv)) (port : Z) : option (nat * ctrldev_priv) :=
  match l with
  | [] => None
  | (f, p) :: l' => if p.(p_port) =? port then Some (f, p) else get_ctrl_dev l' port
  end.

(** [f->private_data]. *)
Fixpoint private_data (l : list (nat * ctrldev_priv)) (f : nat) : option ctrldev_priv :=
  match l with
  | [] => None
  | (g, p) :: l' => if (g =? f)%nat then Some p else private_data l' f
  end.

Definition put_dev (f : nat) (p : ctrldev_priv) (l : list (nat * ctrldev_priv)) : list (nat * ctrldev_priv) :=
  map (fun x => if (x.1 =? f)%nat then (f, p) else x) l.

Definition ctrl_dev_data_post (entry : msg_queue_entry) (port : Z) : M (sys Cb K) Z :=
  let! d := get_dm in
  match get_ctrl_dev d.(ctrl_devs) port with
  | None => ret (-1)
  | Some (f, p) =>
      match p.(pending_msgs) with
      | None => ret (-1)
      | Some q =>
          let! mem := ask in
          let '(r, q') := rfifo_push mem (Some q) entry in
          mod_dm (fun d => set_devs (put_dev f (set_pending q' p) d.(ctrl_devs)) d) ;;;
          ret (if r =? 0 then 0 else -1)
      end
  end.

(** A message of the kernel: its bytes are put in a buffer of the announced length. *)
Definition irati_ctrl_dev_snd_resp_msg (port : Z) (m : irati_msg) : M (sys Cb K) Z :=
  let! ok := ask in
  if negb ok then ret (-1)
  else
    match irati_msg_serlen irati_ker_numtables RINA_C_MAX m with
    | None => fault
    | Some n =>
        let! ok := ask in
        if negb ok then ret (-1)
        else
          match serialize_irati_msg irati_ker_numtables IRATI_RINA_C_MAX m with
          | None => fault
          | Some (r, bs) =>
              if n <? Z.of_nat (length bs) then fault
              else if r <=? 0 then ret (-1)
              else
                let! e := ctrl_dev_data_post (mk_entry (bs ++ repeat 0 (Z.to_nat n - length bs)) (u32 r)) port in
                ret (if e =? 0 then 0 else -1)
          end
    end.

(** ** Operations on files *)

Section Write.
Context (invoke : Cb -> Z -> irati_msg -> M (sys Cb K) Z).

(** [copied] says whether [copy_from_user] copies everything; [o] are the allocations of the
    deserialiser. *)
Definition ctrldev_write (f : nat) (ubuf : list Z) (copied : bool) (o : oracle) : M (sys Cb K) Z :=
  let! d := get_dm in
  let len := Z.of_nat (length ubuf) in
  match private_data d.(ctrl_devs) f with
  | None => fault
  | Some priv =>
      if len <? 2 then ret (- EINVAL)
      else
        let! ok := ask in
        if negb ok then ret (- ENOMEM)
        else if negb copied then ret (- EFAULT)
        else
          match load 4 6 ubuf with
          | None => fault
          | Some dest_port =>
              if negb (dest_port =? 0) then
                let! ok := ask in
                if negb ok then ret (- ENOMEM)
                else
                  let! e := ctrl_dev_data_post (mk_entry ubuf (u32 len)) dest_port in
                  ret (if e =? 0 then len else - EFAULT)
              else
                match msg_type ubuf with
                | None => fault
                | Some t =>
                    match (if IRATI_RINA_C_MAX <=? t then None else default None (d.(handlers) !! Z.to_nat t)) with
                    | None => ret (- EINVAL)
                    | Some h =>
                        let! j := gets s_junk in
                        match deserialize_irati_msg irati_ker_numtables IRATI_RINA_C_MAX ubuf len o j with
                        | None => fault
                        | Some None => ret (- EINVAL)
                        | Some (Some m) =>
                            let! r := invoke h priv.(p_port) m in
                            ret (if negb (r =? 0) then r else len)
                        end
                    end
                end
          end
  end.
End Write.

(** A reader returns with a result and what was copied, or sleeps until its queue is not empty; woken
    up, it starts again. *)
Inductive read_result := RDone (v : Z) (data : list Z) | RSleep.

Definition queue_ready (p : option ctrldev_priv) : bool :=
  match p with
  | Some p => match p.(pending_msgs) with Some q => negb (rfifo_is_empty (Some q)) | None => true end
  | None => true
  end.

Definition ctrldev_read (f : nat) (size : Z) (blocking copied : bool) : M (sys Cb K) read_result :=
  let! d := get_dm in
  match private_data d.(ctrl_devs) f with
  | None => fault
  | Some priv =>
      match priv.(pending_msgs) with
      | None => ret (RDone (-1) [])
      | Some q =>
          if rfifo_is_empty (Some q) then ret (if blocking then RSleep else RDone (- EAGAIN) [])
          else
            match rfifo_peek (Some q) with
            | None => ret (RDone (- EFAULT) [])
            | Some e =>
                if size =? 0 then ret (if copied then RDone 4 (le_encode 4 e.(serlen)) else RDone (- EFAULT) [])
                else if size <? e.(serlen) then ret (RDone (- ENOBUFS) [])
                else
                  let '(_, q') := rfifo_pop (Some q) in
                  mod_dm (fun d => set_devs (put_dev f (set_pending q' priv) d.(ctrl_devs)) d) ;;;
                  if Z.of_nat (length e.(sermsg)) <? e.(serlen) then fault
                  else ret (if copied then RDone e.(serlen) (take (Z.to_nat e.(serlen)) e.(sermsg)) else RDone (- EFAULT) [])
            end
      end
  end.

(** [POLLIN | POLLRDNORM] and [POLLOUT | POLLWRNORM]. *)
Definition ctrldev_poll (f : nat) : M (sys Cb K) (bool * bool) :=
  let! d := get_dm in
  match private_data d.(ctrl_devs) f with
  | None => ret (false, false)
  | Some priv => ret (negb (rfifo_is_empty priv.(pending_msgs)), true)
  end.

(** [f] is a file that is not open. *)
Definition ctrldev_open (f : nat) : M (sys Cb K) Z :=
  let! ok := ask in
  if negb ok then ret (- ENOMEM)
  else
    let! ok1 := ask in
    let! ok2 := (if ok1 then ask else ret false) in
    match rfifo_create_gfp ok1 ok2 with
    | None => ret (- ENOMEM)
    | Some q => mod_dm (fun d => set_devs (d.(ctrl_devs) ++ [(f, mk_priv port_id_bad32 false (Some q))]) d) ;;; ret 0
    end.

(** The device is freed with its queue. *)
Definition ctrldev_release (f : nat) : M (sys Cb K) Z :=
  mod_dm (fun d => set_devs (List.filter (fun x => negb (x.1 =? f)%nat) d.(ctrl_devs)) d) ;;; ret 0.

Definition ctrldev_flush (f : nat) : M (sys Cb K) Z :=
  let! d := get_dm in
  match private_data d.(ctrl_devs) f with
  | None => fault
  | Some p => mod_dm (fun d => set_devs (put_dev f (mk_priv p.(p_port) true p.(pending_msgs)) d.(ctrl_devs)) d) ;;; ret 0
  end.

Definition ctrl_port_in_use (port : Z) (l : list (nat * ctrldev_priv)) : bool :=
  existsb (fun x => (port =? x.2.(p_port)) && negb x.2.(flushed)) l.

(** The two halves of [ctrldev_ioctl]: the tests, of which the second and the third may be out of
    date when the port is set. *)
Definition ioctl_check (f : nat) (bind_cmd copied : bool) (port : Z) : M (sys Cb K) Z :=
  if negb bind_cmd then ret (- EINVAL)
  else if negb copied then ret (- EFAULT)
  else if negb (is_ctrl_port_ok port) then ret (- EINVAL)
  else
    let! d := get_dm in
    match private_data d.(ctrl_devs) f with
    | None => fault
    | Some p =>
        if ctrl_port_in_use port d.(ctrl_devs) then ret (- EINVAL)
        else if is_ctrl_port_ok p.(p_port) then ret (- EBUSY)
        else ret 0
    end.

Definition ioctl_set (f : nat) (port : Z) : M (sys Cb K) Z :=
  let! d := get_dm in
  match private_data d.(ctrl_devs) f with
  | None => fault
  | Some p => mod_dm (fun d => set_devs (put_dev f (mk_priv port p.(flushed) p.(pending_msgs)) d.(ctrl_devs)) d) ;;; ret 0
  end.

Definition ctrldev_ioctl (f : nat) (bind_cmd copied : bool) (port : Z) : M (sys Cb K) Z :=
  let! r := ioctl_check f bind_cmd copied port in
  if negb (r =? 0) then ret r else ioctl_set f port.

(** [r] is what the registration of the device gives. *)
Definition ctrldev_init (r : Z) : M (sys Cb K) Z :=
  mod_dm (fun d => mk_dm [] d.(handlers) 0) ;;; ret r.
End Ctrldev.
