(* ===== verification/Kipcm.v ===== *)
(** * The kernel IPC manager

    [src/kernel/kipcm.c] with its maps ([kipcm-utils.c]) and the registry of factories
    ([ipcp-factories.c]).  The KIPCM keeps the IPC processes of the kernel, answers the requests that
    arrive on the control device ([Ctrldev.v]) by calling the operations of an IPC process, and
    remembers which port id a request to allocate a flow was given.  Port ids and flows are those of
    the KFA ([Kfa.v]).

    IPC processes are outside of this file.  An operation of one gives what the next element of
    [world] says: a result, and the calls it makes meanwhile to the KIPCM and the KFA.  An operation
    an IPC process does not have is a null pointer; calling it is a fault.  Handlers run one after
    the other, as they do for a single writer; [told] records what IPC processes
    were asked, and [sent] the messages for the daemons. *)

From S2P Require Import Prelude Ids Rds Kucommon Config Policies Wire MsgLayout Messages Hmap Kfa Prog Ctrldev.
From Stdlib Require Import ZArith Lia String.
From stdpp Require Import base list numbers option.
#[local] Open Scope Z_scope.
#[local] Open Scope prog_scope.

(** ** Fields of messages *)

Definition offset (st : cstruct) (i : nat) : nat := Z.to_nat (foldr Z.add 0 (take i st.(cs_plain))).
Definition width (st : cstruct) (i : nat) : nat := Z.to_nat (nth i st.(cs_plain) 0).

(** The [i]-th plain field of a structure. *)
Definition field (st : cstruct) (i : nat) (m : irati_msg) : option Z := load (width st i) (offset st i) m.(im_plain).

(** The plain fields of a message from their values. *)
Definition plain (st : cstruct) (vals : list Z) : list Z :=
  List.concat (zip_with (fun w v => le_encode (Z.to_nat w) v) st.(cs_plain) vals).

(** ** IPC processes *)

Inductive user_ipcp := UKfa | UIpcp (id : Z).

Inductive op_tag :=
| T_flow_allocate_request | T_flow_allocate_response | T_flow_deallocate | T_application_register
| T_application_unregister | T_assign_to_dif | T_update_dif_config | T_connection_create | T_connection_update
| T_connection_modify | T_connection_destroy | T_connection_create_arrived | T_flow_prebind | T_mgmt_du_write
| T_pff_add | T_pff_remove | T_pff_dump | T_pff_modify | T_query_rib | T_set_policy_set_param | T_select_policy_set
| T_update_crypto_state | T_address_change.

#[export] Instance op_tag_eq_dec : EqDecision op_tag.
Proof. solve_decision. Defined.

(** The operations of [struct ipcp_instance_ops] that the KIPCM calls, with their arguments. *)
Inductive ipcp_op :=
| flow_allocate_request (user : user_ipcp) (source dest : option name) (spec : option flow_spec) (id : Z)
| flow_allocate_response (user : option user_ipcp) (port_id result : Z)
| flow_deallocate (id : Z)
| application_register (source daf_name : option name)
| application_unregister (source : option name)
| assign_to_dif (dif_name : option name) (type : string_ptr) (config : option dif_config)
| update_dif_config (config : option dif_config)
| connection_create (user : user_ipcp) (port_id source dest qos_id : Z) (dtp : option dtp_config) (dtcp : option dtcp_config)
| connection_update (port_id src_id dst_id : Z)
| connection_modify (src_cep_id src_address dst_address : Z)
| connection_destroy (src_id : Z)
| connection_create_arrived (user : user_ipcp) (port_id source dest qos_id dst_cep : Z) (dtp : option dtp_config) (dtcp : option dtcp_config)
| flow_prebind (user : option Z) (port_id : Z)
| mgmt_du_write (port_id : Z) (du : list Z)
| pff_add (entry : mod_pff_entry)
| pff_remove (entry : mod_pff_entry)
| pff_dump
| pff_modify (entries : list mod_pff_entry)
| query_rib (object_class object_name : string_ptr) (object_instance scope : Z) (filter : string_ptr)
| set_policy_set_param (path param_name param_value : string_ptr)
| select_policy_set (path ps_name : string_ptr)
| update_crypto_state (state : option sdup_crypto_state) (port_id : Z)
| address_change (new_address old_address use_new deprecate_old : Z).

Definition tag_of (op : ipcp_op) : op_tag :=
  match op with
  | flow_allocate_request _ _ _ _ _ => T_flow_allocate_request
  | flow_allocate_response _ _ _ => T_flow_allocate_response
  | flow_deallocate _ => T_flow_deallocate
  | application_register _ _ => T_application_register
  | application_unregister _ => T_application_unregister
  | assign_to_dif _ _ _ => T_assign_to_dif
  | update_dif_config _ => T_update_dif_config
  | connection_create _ _ _ _ _ _ _ => T_connection_create
  | connection_update _ _ _ => T_connection_update
  | connection_modify _ _ _ => T_connection_modify
  | connection_destroy _ => T_connection_destroy
  | connection_create_arrived _ _ _ _ _ _ _ _ => T_connection_create_arrived
  | flow_prebind _ _ => T_flow_prebind
  | mgmt_du_write _ _ => T_mgmt_du_write
  | pff_add _ => T_pff_add
  | pff_remove _ => T_pff_remove
  | pff_dump => T_pff_dump
  | pff_modify _ => T_pff_modify
  | query_rib _ _ _ _ _ => T_query_rib
  | set_policy_set_param _ _ _ => T_set_policy_set_param
  | select_policy_set _ _ => T_select_policy_set
  | update_crypto_state _ _ => T_update_crypto_state
  | address_change _ _ _ _ => T_address_change
  end.

(** The tables of operations of the normal IPC process and of the shim over Ethernet. *)
Definition normal_instance_ops : list op_tag :=
  [T_flow_deallocate; T_flow_prebind; T_assign_to_dif; T_connection_create; T_connection_update; T_connection_destroy;
   T_connection_create_arrived; T_connection_modify; T_mgmt_du_write; T_pff_add; T_pff_remove; T_pff_dump; T_pff_modify;
   T_set_policy_set_param; T_select_policy_set; T_update_crypto_state; T_address_change].
Definition eth_instance_ops : list op_tag :=
  [T_flow_allocate_request; T_flow_allocate_response; T_flow_deallocate; T_application_register; T_application_unregister;
   T_assign_to_dif; T_update_dif_config; T_query_rib].

(** [struct ipcp_instance]; a factory is known by its name. *)
Record ipcp_instance := mk_instance { i_factory : cstring; i_name : option name; i_ops : list op_tag }.

Definition has_op (t : op_tag) (i : ipcp_instance) : bool := bool_decide (t ∈ i.(i_ops)).

(** What an IPC process calls while it works. *)
Inductive callback :=
| CbResult (ipc_id pid res : Z)
| CbArrived (ipc_id port_id : Z) (dif_name local remote : option name) (spec : option flow_spec)
| CbDealloc (ipc_id code port_id irati_port : Z)
| CbKfa (c : Kfa.call).

(** What an operation gives: a result, the calls made meanwhile, and the lists it fills in; for the
    creation of an IPC process, the operations it has. *)
Record op_out := mk_out {
  out_r : Z;
  out_calls : list callback;
  out_pff : list mod_pff_entry;
  out_rib : list rib_object_data;
  out_ops : list op_tag
}.

(** ** State *)

(** [struct kipcm]. *)
Record kipcm := mk_kipcm {
  factories : list cstring;
  instances : hmap_of ipcp_instance;
  ingress : hmap_of Z;
  egress : hmap_of Z;
  kfa_of : Kfa.sys;
  world : list op_out;
  told : list (Z * ipcp_op);
  sent : list (Z * irati_msg)
}.

Implicit Types k : kipcm.
Definition set_factories v k : kipcm := mk_kipcm v k.(instances) k.(ingress) k.(egress) k.(kfa_of) k.(world) k.(told) k.(sent).
Definition set_instances v k : kipcm := mk_kipcm k.(factories) v k.(ingress) k.(egress) k.(kfa_of) k.(world) k.(told) k.(sent).
Definition set_ingress v k : kipcm := mk_kipcm k.(factories) k.(instances) v k.(egress) k.(kfa_of) k.(world) k.(told) k.(sent).
Definition set_egress v k : kipcm := mk_kipcm k.(factories) k.(instances) k.(ingress) v k.(kfa_of) k.(world) k.(told) k.(sent).
Definition set_kfa v k : kipcm := mk_kipcm k.(factories) k.(instances) k.(ingress) k.(egress) v k.(world) k.(told) k.(sent).

(** The handlers of [kipcm_handlers]. *)
Inductive kipcm_handler :=
| Hassign_dif_request | Hallocate_flow_request | Hallocate_flow_response | Hregister_app_request | Hunregister_app_request
| Hdeallocate_flow_request | Hupdate_dif_config_request | Hconn_create_req | Hconn_create_arrived | Hconn_update_req
| Hconn_destroy_req | Hconn_modify_req | Hmodify_pffe | Hdump_pff | Hquery_rib | Hset_policy_set_param
| Hselect_policy_set | Hupdate_crypto_state | Haddress_change | Hallocate_port | Hdeallocate_port | Hwrite_mgmt_sdu
| Hcreate_ipcp | Hdestroy_ipcp.

Abbreviation ksys := (sys kipcm_handler kipcm).
Abbreviation KM := (M ksys).

Definition get_k : KM kipcm := gets s_k.
Definition mod_k (f : kipcm -> kipcm) : KM unit := modify (fun s => set_k (f s.(s_k)) s).

Definition fld (st : cstruct) (i : nat) (m : irati_msg) : KM Z :=
  match field st i m with Some v => ret v | None => fault end.

(** The fields every message has. *)
Definition src_ipcp_id : irati_msg -> KM Z := fld irati_msg_base 3.
Definition dest_ipcp_id : irati_msg -> KM Z := fld irati_msg_base 4.
Definition event_id : irati_msg -> KM Z := fld irati_msg_base 5.

(** The [i]-th pointer. *)
Definition ptr_at {A} (i : nat) (m : irati_msg) (f : ptr -> option A) : KM A :=
  match m.(im_ptrs) !! i ≫= f with Some v => ret v | None => fault end.
Definition as_name (p : ptr) := match p with PName p => Some p | _ => None end.
Definition as_string (p : ptr) := match p with PString p => Some p | _ => None end.
Definition as_flow_spec (p : ptr) := match p with PFlowSpec p => Some p | _ => None end.
Definition as_dif_config (p : ptr) := match p with PDifConfig p => Some p | _ => None end.
Definition as_dtp_config (p : ptr) := match p with PDtpConfig p => Some p | _ => None end.
Definition as_dtcp_config (p : ptr) := match p with PDtcpConfig p => Some p | _ => None end.
Definition as_pff (p : ptr) := match p with PPffEntryList p => Some p | _ => None end.
Definition as_crypto (p : ptr) := match p with PSdupCryptoState p => Some p | _ => None end.
Definition as_buffer (p : ptr) := match p with PBuffer p => Some p | _ => None end.

Definition cep_id_bad : Z := -1.
Definition is_cep_id_ok (id : Z) : bool := 0 <=? id.

(** ** Maps *)

Definition ipcp_imap_find : hmap_of ipcp_instance -> Z -> option ipcp_instance := hmap_find.

Definition ipcp_imap_add (id : Z) (i : ipcp_instance) : KM Z :=
  let! mem := ask in
  if negb mem then ret (-1) else mod_k (fun k => set_instances (hmap_add k.(instances) id i) k) ;;; ret 0.

Definition ipcp_imap_remove (id : Z) : KM Z :=
  let! k := get_k in
  match hmap_find k.(instances) id with
  | None => ret (-1)
  | Some _ => mod_k (set_instances (hmap_remove k.(instances) id)) ;;; ret 0
  end.

Definition seq_num_bad : Z := u32 (-1).
Definition kipcm_pmap_find (m : hmap_of Z) (key : Z) : Z := default seq_num_bad (hmap_find m key).
Definition kipcm_pmap_add (key value : Z) : KM Z :=
  let! mem := ask in
  if negb mem then ret (-1) else mod_k (fun k => set_ingress (hmap_add k.(ingress) key value) k) ;;; ret 0.
Definition kipcm_pmap_remove (key : Z) : KM Z :=
  let! k := get_k in
  match hmap_find k.(ingress) key with
  | None => ret (-1)
  | Some _ => mod_k (set_ingress (hmap_remove k.(ingress) key)) ;;; ret 0
  end.

Definition kipcm_smap_find (m : hmap_of Z) (key : Z) : Z := default Pidm.port_id_bad (hmap_find m key).
Definition kipcm_smap_add (key value : Z) : KM Z :=
  let! mem := ask in
  if negb mem then ret (-1) else mod_k (fun k => set_egress (hmap_add k.(egress) key value) k) ;;; ret 0.
Definition kipcm_smap_remove (key : Z) : KM Z :=
  let! k := get_k in
  match hmap_find k.(egress) key with
  | None => ret (-1)
  | Some _ => mod_k (set_egress (hmap_remove k.(egress) key)) ;;; ret 0
  end.

Section Kipcm.
(** The size of SDUs an IPC process takes; the order in which the entries of the hash table of IPC
    processes are visited. *)
Context (max_sdu_size : Z -> Z) (walk : hmap_of ipcp_instance -> hmap_of ipcp_instance).

(** ** Calls of the KFA *)

Definition kfa_value (r : Kfa.result) : Z :=
  let '(_, o, _, _) := r in match o with Ret v => v | RetSdu v _ => v | Next _ => 0 end.

(** A call runs its critical section; the threads and the work of the KFA stay. *)
Definition kfa_do (c : Kfa.call) : KM Z :=
  let! k := get_k in
  let s := k.(kfa_of) in
  match Kfa.call_section max_sdu_size s.(s_kfa) c with
  | None => fault
  | Some r => mod_k (set_kfa (Kfa.land r [] s.(threads) s.(work))) ;;; ret (kfa_value r)
  end.

Definition kfa_port_id_reserve : KM Z := let! mem := ask in kfa_do (CReserve mem).
Definition kfa_port_id_release (pid : Z) : KM Z := kfa_do (CRelease pid).

(** The comparison that finds flows of the IP device dereferences the entity name; the device itself
    is left out. *)
Definition kfa_flow_create (pid ipc_id : Z) (user : option name) (boundaries : bool) : KM Z :=
  match user with
  | Some n =>
      match n.(entity_name) with
      | None => fault
      | Some e => let! mem := ask in kfa_do (CCreate pid ipc_id (strcmp_eq e (c_str "RINA_IP") || boundaries) mem)
      end
  | None => let! mem := ask in kfa_do (CCreate pid ipc_id boundaries mem)
  end.

(** ** Messages of the KIPCM

    Fields that are not set hold what the stack held. *)

Definition log_sent (port : Z) (m : irati_msg) k : kipcm :=
  mk_kipcm k.(factories) k.(instances) k.(ingress) k.(egress) k.(kfa_of) k.(world) k.(told) (k.(sent) ++ [(port, m)]).

Definition send (port : Z) (m : irati_msg) : KM Z :=
  mod_k (log_sent port m) ;;;
  let! r := irati_ctrl_dev_snd_resp_msg port m in
  ret (if r =? 0 then 0 else -1).

Definition send_multi (port type ipc_id seq_num result pid : Z) : KM Z :=
  let! j := gets s_junk in
  send port (mk_irati_msg (plain irati_kmsg_multi_msg [type; j; j; ipc_id; 0; seq_num; result; pid; j]) []).

Definition send_base_resp (port type ipc_id seq_num result : Z) : KM Z :=
  let! j := gets s_junk in
  send port (mk_irati_msg (plain irati_msg_base_resp [type; j; j; ipc_id; 0; seq_num; result]) []).

Definition alloc_flow_req_reply (ctrl_port id res seq_num pid : Z) : KM Z :=
  send_multi ctrl_port RINA_C_IPCM_ALLOCATE_FLOW_REQUEST_RESULT id seq_num res pid.
Definition assign_to_dif_reply (ctrl_port id res seq_num : Z) : KM Z :=
  send_base_resp ctrl_port RINA_C_IPCM_ASSIGN_TO_DIF_RESPONSE id seq_num res.
Definition update_dif_config_reply (ctrl_port id res seq_num : Z) : KM Z :=
  send_base_resp ctrl_port RINA_C_IPCM_UPDATE_DIF_CONFIG_RESPONSE id seq_num res.
Definition reg_unreg_resp_reply (ctrl_port id res seq_num : Z) (is_register : bool) : KM Z :=
  send_base_resp ctrl_port
    (if is_register then RINA_C_IPCM_REGISTER_APPLICATION_RESPONSE else RINA_C_IPCM_UNREGISTER_APPLICATION_RESPONSE) id seq_num res.
Definition conn_create_resp_reply (ctrl_port id pid src_cep seq_num : Z) : KM Z :=
  let! j := gets s_junk in
  send ctrl_port (mk_irati_msg (plain irati_kmsg_ipcp_conn_update
    [RINA_C_IPCP_CONN_CREATE_RESPONSE; j; j; id; 0; seq_num; pid; src_cep; j; j; j]) []).
Definition conn_create_result_reply (ctrl_port id pid src_cep dst_cep seq_num : Z) : KM Z :=
  let! j := gets s_junk in
  send ctrl_port (mk_irati_msg (plain irati_kmsg_ipcp_conn_update
    [RINA_C_IPCP_CONN_CREATE_RESULT; j; j; id; 0; seq_num; pid; src_cep; dst_cep; j; j]) []).
Definition conn_update_result_reply (ctrl_port id result pid seq_num : Z) : KM Z :=
  send_multi ctrl_port RINA_C_IPCP_CONN_UPDATE_RESULT id seq_num result pid.
Definition conn_destroy_result_reply (ctrl_port id result pid seq_num : Z) : KM Z :=
  send_multi ctrl_port RINA_C_IPCP_CONN_DESTROY_RESULT id seq_num result pid.

(** [entries] is [None] when the list was not initialised: [list_replace] then follows what the stack
    held. *)
Definition ipcp_dump_pff_reply (ctrl_port ipc_id result : Z) (entries : option (list mod_pff_entry)) (seq_num : Z) : KM Z :=
  let! mem := ask in
  if negb mem then ret (-1)
  else match entries with
  | None => fault
  | Some l =>
      let! j := gets s_junk in
      send ctrl_port (mk_irati_msg (plain irati_kmsg_rmt_dump_ft [RINA_C_RMT_DUMP_FT_REPLY; j; j; ipc_id; 0; seq_num; result; j])
        [PPffEntryList (Some (mk_pff_entry_list l))])
  end.
Definition ipcm_query_rib_reply (ctrl_port ipc_id result : Z) (entries : option (list rib_object_data)) (seq_num : Z) : KM Z :=
  let! mem := ask in
  if negb mem then ret (-1)
  else match entries with
  | None => fault
  | Some l =>
      let! j := gets s_junk in
      send ctrl_port (mk_irati_msg (plain irati_kmsg_ipcm_query_rib_resp [RINA_C_IPCM_QUERY_RIB_RESPONSE; j; j; ipc_id; 0; seq_num; result])
        [PQueryRibResp (Some (mk_query_rib_resp l))])
  end.

(** ** What IPC processes call *)

Definition IPCM_CTRLDEV_PORT : Z := 1.

Definition kipcm_flow_arrived (ipc_id port_id : Z) (dif_name local remote : option name) (spec : option flow_spec) : KM Z :=
  let! k := get_k in
  match ipcp_imap_find k.(instances) ipc_id with
  | None => ret (-1)
  | Some _ =>
      let! seq_num := ctrl_dev_get_next_seqn in
      let! r := kipcm_smap_add seq_num port_id in
      if negb (r =? 0) then ret (-1)
      else
        let! j := gets s_junk in
        send IPCM_CTRLDEV_PORT (mk_irati_msg
          (plain irati_kmsg_ipcm_allocate_flow [RINA_C_IPCM_ALLOCATE_FLOW_REQUEST_ARRIVED; j; j; ipc_id; 0; seq_num; port_id; j])
          [PName local; PName remote; PName dif_name; PFlowSpec spec])
  end.

Definition kipcm_notify_flow_alloc_req_result (ipc_id pid res : Z) : KM Z :=
  if negb (Pidm.is_port_id_ok pid) then ret (-1)
  else
    let! k := get_k in
    let seq_num := kipcm_pmap_find k.(ingress) pid in
    let! r := kipcm_pmap_remove pid in
    if negb (r =? 0) then ret (-1)
    else
      (if negb (res =? 0) then kfa_port_id_release pid else ret 0) ;;;
      send_multi IPCM_CTRLDEV_PORT RINA_C_IPCM_ALLOCATE_FLOW_REQUEST_RESULT ipc_id seq_num res pid.

Definition kipcm_notify_flow_dealloc (ipc_id code port_id irati_port : Z) : KM Z :=
  send_multi irati_port RINA_C_IPCM_FLOW_DEALLOCATED_NOTIFICATION ipc_id 0 code port_id.

Definition run_callback (c : callback) : KM Z :=
  match c with
  | CbResult ipc_id pid res => kipcm_notify_flow_alloc_req_result ipc_id pid res
  | CbArrived ipc_id pid dif local remote spec => kipcm_flow_arrived ipc_id pid dif local remote spec
  | CbDealloc ipc_id code pid port => kipcm_notify_flow_dealloc ipc_id code pid port
  | CbKfa c => kfa_do c
  end.

Fixpoint run_callbacks (l : list callback) : KM unit :=
  match l with
  | [] => ret tt
  | c :: l' => run_callback c ;;; run_callbacks l'
  end.

(** What an IPC process or a factory gives next. *)
Definition next_out : KM op_out :=
  fun s =>
    let k := s.(s_k) in
    match k.(world) with
    | [] => Some (mk_out 0 [] [] [] [], s)
    | o :: w => Some (o, set_k (mk_kipcm k.(factories) k.(instances) k.(ingress) k.(egress) k.(kfa_of) w k.(told) k.(sent)) s)
    end.

Definition log_told (id : Z) (op : ipcp_op) : KM unit :=
  mod_k (fun k => mk_kipcm k.(factories) k.(instances) k.(ingress) k.(egress) k.(kfa_of) k.(world) (k.(told) ++ [(id, op)]) k.(sent)).

Definition enter_op (id : Z) (op : ipcp_op) : KM op_out := log_told id op ;;; next_out.

(** [ipcp->ops->op(...)]. *)
Definition call_op (id : Z) (i : ipcp_instance) (op : ipcp_op) : KM op_out :=
  if negb (has_op (tag_of op) i) then fault
  else let! o := enter_op id op in run_callbacks o.(out_calls) ;;; ret o.

(** ** Registry *)

Definition name_is_ok (n : option name) : bool :=
  match n with
  | Some n => match n.(process_name) with Some p => negb (bool_decide (p = [])) | None => false end
  | None => false
  end.

Definition DEFAULT_FACTORY : cstring := c_str "normal-ipc".

Definition string_is_ok (s : string_ptr) : bool := match s with Some s => negb (bool_decide (s = [])) | None => false end.

Definition ipcpf_find (l : list cstring) (name : cstring) : bool :=
  string_is_ok (Some name) && bool_decide (name ∈ l).

(** [ops] says whether the four operations are there; the initialisation of the factory is one of its
    operations. *)
Definition ipcpf_register (name : string_ptr) (ops : bool) : KM Z :=
  match name with
  | None => ret (-1)
  | Some name =>
      if negb (string_is_ok (Some name)) || negb ops then ret (-1)
      else
        let! k := get_k in
        if ipcpf_find k.(factories) name then ret (-1)
        else
          let! mem := ask in
          let! dup := (if mem then ask else ret false) in
          let! added := (if dup then ask else ret false) in
          if negb added then ret (-1)
          else
            let! o := next_out in
            if negb (o.(out_r) =? 0) then ret (-1)
            else mod_k (fun k => set_factories (name :: k.(factories)) k) ;;; ret 0
  end.

Definition ipcpf_unregister (name : cstring) : KM Z :=
  let! k := get_k in
  if negb (ipcpf_find k.(factories) name) then ret (-1)
  else next_out ;;; mod_k (fun k => set_factories (List.filter (fun n => negb (strcmp_eq n name)) k.(factories)) k) ;;; ret 0.

(** [strcmp] of two strings of which neither may be a null pointer. *)
Definition strcmp0 (a b : string_ptr) : option bool :=
  match a, b with Some a, Some b => Some (strcmp_eq a b) | _, _ => None end.

(** The entry with a name; the walk ends at an entry without a proper name. *)
Fixpoint find_by_name (l : hmap_of ipcp_instance) (n : name) : option (option Z) :=
  match l with
  | [] => Some None
  | (id, i) :: l' =>
      match i.(i_name) with
      | None => Some None
      | Some e =>
          if negb (name_is_ok (Some e)) then Some None
          else
            a ← strcmp0 e.(process_name) n.(process_name);
            b ← (if (a : bool) then strcmp0 e.(process_instance) n.(process_instance) else Some false);
            if (b : bool) then Some (Some id) else find_by_name l' n
      end
  end.

(** [None] is a fault; the instance is given by its id. *)
Definition ipcp_imap_find_by_name (m : hmap_of ipcp_instance) (n : option name) : option (option Z) :=
  match n with None => None | Some n => find_by_name (walk m) n end.

(** The id of an instance of a factory, or 0. *)
Fixpoint find_factory (l : hmap_of ipcp_instance) (f : cstring) : Z :=
  match l with
  | [] => 0
  | (id, i) :: l' => if strcmp_eq i.(i_factory) f then id else find_factory l' f
  end.
Definition ipcp_imap_find_factory (m : hmap_of ipcp_instance) (f : cstring) : Z := find_factory (walk m) f.

Definition kipcm_ipc_create (ipcp_name : option name) (id us_nl_port : Z) (factory_name : string_ptr) : KM Z :=
  if negb (name_is_ok ipcp_name) then ret (-1)
  else
    let! mem := ask in
    if negb mem then ret (-1)
    else
      let fname := default DEFAULT_FACTORY factory_name in
      let! k := get_k in
      match ipcp_imap_find k.(instances) id with
      | Some _ => ret (-1)
      | None =>
          if negb (ipcpf_find k.(factories) fname) then ret (-1)
          else
            let! o := next_out in
            if negb (o.(out_r) =? 0) then ret (-1)
            else
              let! r := ipcp_imap_add id (mk_instance fname ipcp_name o.(out_ops)) in
              if negb (r =? 0) then next_out ;;; ret (-1) else ret 0
      end.

Definition kipcm_ipc_destroy (id : Z) : KM Z :=
  let! k := get_k in
  match ipcp_imap_find k.(instances) id with
  | None => ret (-1)
  | Some _ =>
      let! o := next_out in
      if negb (o.(out_r) =? 0) then ret (-1)
      else
        let! r := ipcp_imap_remove id in
        ret (if negb (r =? 0) then -1 else 0)
  end.

(** The loop of [kipcm_ipcp_factory_unregister]. *)
Fixpoint destroy_instances (fuel : nat) (f : cstring) : KM (option Z) :=
  match fuel with
  | O => fault
  | S fuel' =>
      let! k := get_k in
      let id := ipcp_imap_find_factory k.(instances) f in
      if id =? 0 then ret None
      else
        match ipcp_imap_find k.(instances) id with
        | None => ret (Some (-1))
        | Some _ =>
            let! o := next_out in
            if negb (o.(out_r) =? 0) then ret (Some (-1))
            else
              let! r := ipcp_imap_remove id in
              if negb (r =? 0) then ret (Some (-1)) else destroy_instances fuel' f
        end
  end.

Definition kipcm_ipcp_factory_unregister (f : cstring) : KM Z :=
  let! k := get_k in
  let! e := destroy_instances (S (length k.(instances))) f in
  match e with Some r => ret r | None => ipcpf_unregister f end.

(** ** Flows of IPC processes *)

Definition kipcm_flow_create (ipc_id : Z) (boundaries : bool) (process : option name) : KM Z :=
  let! k := get_k in
  match ipcp_imap_find k.(instances) ipc_id with
  | None => ret Pidm.port_id_bad
  | Some i =>
      let! pid := kfa_port_id_reserve in
      if negb (Pidm.is_port_id_ok pid) then ret Pidm.port_id_bad
      else
        match ipcp_imap_find_by_name k.(instances) process with
        | None => fault
        | Some user =>
            (if has_op T_flow_prebind i then call_op ipc_id i (flow_prebind user pid) ;;; ret tt else ret tt) ;;;
            match user with
            | Some _ => ret pid
            | None =>
                let! r := kfa_flow_create pid ipc_id process boundaries in
                if negb (r =? 0) then kfa_port_id_release pid ;;; ret Pidm.port_id_bad else ret pid
            end
        end
  end.

Definition kipcm_flow_destroy (ipc_id port_id : Z) : KM Z :=
  let! k := get_k in
  match ipcp_imap_find k.(instances) ipc_id with
  | None => ret (-1)
  | Some i =>
      let! o := call_op ipc_id i (flow_deallocate port_id) in
      ret (if negb (o.(out_r) =? 0) then -1 else 0)
  end.

Definition kipcm_mgmt_du_write (id port_id : Z) (du : list Z) : KM Z :=
  let! k := get_k in
  match ipcp_imap_find k.(instances) id with
  | None => ret (-1)
  | Some i =>
      if negb (has_op T_mgmt_du_write i) then ret (-1)
      else
        let! o := call_op id i (mgmt_du_write port_id du) in
        ret (if negb (o.(out_r) =? 0) then -1 else 0)
  end.

(** ** Handlers *)

Section Handlers.
Context (ctrl_port : Z) (m : irati_msg).

(** A request to allocate a flow, up to the call of the IPC process: the IPC process, the user of the
    flow and the port id.  Whether a port id was had is not tested. *)
Definition allocate_flow_prepare (user_id ipc_id event : Z) (spec : option flow_spec) : KM (option (ipcp_instance * user_ipcp * Z)) :=
  let! k := get_k in
  match ipcp_imap_find k.(instances) ipc_id with
  | None => ret None
  | Some i =>
      let! pid := kfa_port_id_reserve in
      let! r := kipcm_pmap_add pid event in
      if negb (r =? 0) then kfa_port_id_release pid ;;; ret None
      else
        let! user :=
          (if negb (user_id =? 0) then
             match ipcp_imap_find k.(instances) user_id with
             | None => ret None
             | Some _ => ret (Some (UIpcp user_id))
             end
           else
             match spec with
             | None => fault
             | Some fs =>
                 let! r := kfa_flow_create pid ipc_id None fs.(fs_msg_boundaries) in
                 ret (if negb (r =? 0) then None else Some UKfa)
             end) in
        match user with
        | None => kfa_port_id_release pid ;;; ret None
        | Some user => ret (Some (i, user, pid))
        end
  end.

Definition notify_ipcp_allocate_flow_request : KM Z :=
  let! user_id := src_ipcp_id m in
  let! ipc_id := dest_ipcp_id m in
  let! event := event_id m in
  let! local := ptr_at 0 m as_name in
  let! remote := ptr_at 1 m as_name in
  let! spec := ptr_at 3 m as_flow_spec in
  let fail := alloc_flow_req_reply ctrl_port ipc_id (-1) event Pidm.port_id_bad in
  let! p := allocate_flow_prepare user_id ipc_id event spec in
  match p with
  | None => fail
  | Some (i, user, pid) =>
      let! o := call_op ipc_id i (flow_allocate_request user local remote spec pid) in
      if negb (o.(out_r) =? 0) then kfa_port_id_release pid ;;; fail else ret 0
  end.

Definition notify_ipcp_allocate_flow_response : KM Z :=
  let! user_id := src_ipcp_id m in
  let! ipc_id := dest_ipcp_id m in
  let! event := event_id m in
  let! result := fld irati_kmsg_ipcm_allocate_flow_resp 6 m in
  let! k := get_k in
  let pid := kipcm_smap_find k.(egress) event in
  match ipcp_imap_find k.(instances) ipc_id with
  | None => kfa_port_id_release pid ;;; ret 0
  | Some i =>
      if negb (Pidm.is_port_id_ok pid) then kfa_port_id_release pid ;;; ret 0
      else
        let! r := kipcm_smap_remove event in
        if negb (r =? 0) then kfa_port_id_release pid ;;; ret 0
        else
          let user := if negb (user_id =? 0)
                      then (if ipcp_imap_find k.(instances) user_id then Some (UIpcp user_id) else None)
                      else Some UKfa in
          call_op ipc_id i (flow_allocate_response user pid (swrap 8 result)) ;;; ret 0
  end.

Definition notify_ipcp_deallocate_flow_request : KM Z :=
  let! ipc_id := dest_ipcp_id m in
  let! port_id := fld irati_kmsg_multi_msg 7 m in
  let! k := get_k in
  match ipcp_imap_find k.(instances) ipc_id with
  | None => ret 0
  | Some i =>
      let! o := call_op ipc_id i (flow_deallocate (s32 port_id)) in
      if negb (o.(out_r) =? 0) then ret 0 else kfa_port_id_release (s32 port_id) ;;; ret 0
  end.

Definition notify_ipcp_assign_dif_request : KM Z :=
  let! ipc_id := dest_ipcp_id m in
  let! event := event_id m in
  let! dif := ptr_at 0 m as_name in
  let! type := ptr_at 1 m as_string in
  let! cfg := ptr_at 2 m as_dif_config in
  let! k := get_k in
  match ipcp_imap_find k.(instances) ipc_id with
  | None => assign_to_dif_reply ctrl_port ipc_id (-1) event
  | Some i =>
      let! o := call_op ipc_id i (assign_to_dif dif type cfg) in
      assign_to_dif_reply ctrl_port ipc_id (if negb (o.(out_r) =? 0) then -1 else 0) event
  end.

Definition notify_ipcp_update_dif_config_request : KM Z :=
  let! ipc_id := dest_ipcp_id m in
  let! event := event_id m in
  let! cfg := ptr_at 0 m as_dif_config in
  let! k := get_k in
  match ipcp_imap_find k.(instances) ipc_id with
  | None => update_dif_config_reply ctrl_port ipc_id (-1) event
  | Some i =>
      let! o := call_op ipc_id i (update_dif_config cfg) in
      update_dif_config_reply ctrl_port ipc_id (if negb (o.(out_r) =? 0) then -1 else 0) event
  end.

Definition notify_ipcp_register_app_request : KM Z :=
  let! ipc_id := dest_ipcp_id m in
  let! event := event_id m in
  let! app := ptr_at 0 m as_name in
  let! daf := ptr_at 1 m as_name in
  let! k := get_k in
  match ipcp_imap_find k.(instances) ipc_id with
  | None => reg_unreg_resp_reply ctrl_port ipc_id (-1) event true
  | Some i =>
      let! o := call_op ipc_id i (application_register app daf) in
      reg_unreg_resp_reply ctrl_port ipc_id (if negb (o.(out_r) =? 0) then -1 else 0) event true
  end.

Definition notify_ipcp_unregister_app_request : KM Z :=
  let! ipc_id := dest_ipcp_id m in
  let! event := event_id m in
  let! app := ptr_at 0 m as_name in
  let! k := get_k in
  match ipcp_imap_find k.(instances) ipc_id with
  | None => reg_unreg_resp_reply ctrl_port ipc_id (-1) event false
  | Some i =>
      let! o := call_op ipc_id i (application_unregister app) in
      reg_unreg_resp_reply ctrl_port ipc_id (if negb (o.(out_r) =? 0) then -1 else 0) event false
  end.

(** The user of a connection: the KFA, or an IPC process that has to exist. *)
Definition connection_user (k : kipcm) (user_id : Z) : option user_ipcp :=
  if negb (user_id =? 0) then (if ipcp_imap_find k.(instances) user_id then Some (UIpcp user_id) else None) else Some UKfa.

Definition notify_ipcp_conn_create_req : KM Z :=
  let st := irati_kmsg_ipcp_conn_create_arrived in
  let! ipc_id := dest_ipcp_id m in
  let! event := event_id m in
  let! port_id := fld st 6 m in
  let! src := fld st 7 m in
  let! dst := fld st 8 m in
  let! qos := fld st 11 m in
  let! user_id := fld st 12 m in
  let! dtp := ptr_at 0 m as_dtp_config in
  let! dtcp := ptr_at 1 m as_dtcp_config in
  let fail := conn_create_resp_reply ctrl_port ipc_id port_id cep_id_bad event in
  let! k := get_k in
  match ipcp_imap_find k.(instances) ipc_id with
  | None => fail
  | Some i =>
      match connection_user k user_id with
      | None => fail
      | Some user =>
          let! o := call_op ipc_id i (connection_create user (s32 port_id) src dst qos dtp dtcp) in
          let src_cep := s32 o.(out_r) in
          if negb (is_cep_id_ok src_cep) then fail
          else conn_create_resp_reply ctrl_port ipc_id port_id src_cep event
      end
  end.

Definition notify_ipcp_conn_create_arrived : KM Z :=
  let st := irati_kmsg_ipcp_conn_create_arrived in
  let! ipc_id := dest_ipcp_id m in
  let! event := event_id m in
  let! port_id := fld st 6 m in
  let! src := fld st 7 m in
  let! dst := fld st 8 m in
  let! dst_cep := fld st 9 m in
  let! qos := fld st 11 m in
  let! user_id := fld st 12 m in
  let! dtp := ptr_at 0 m as_dtp_config in
  let! dtcp := ptr_at 1 m as_dtcp_config in
  let fail := conn_create_result_reply ctrl_port ipc_id port_id cep_id_bad cep_id_bad event in
  let! k := get_k in
  match ipcp_imap_find k.(instances) ipc_id with
  | None => fail
  | Some i =>
      match connection_user k user_id with
      | None => fail
      | Some user =>
          let! o := call_op ipc_id i (connection_create_arrived user (s32 port_id) src dst qos (s32 dst_cep) dtp dtcp) in
          let src_cep := s32 o.(out_r) in
          if negb (is_cep_id_ok src_cep) then fail
          else conn_create_result_reply ctrl_port ipc_id port_id src_cep dst_cep event
      end
  end.

Definition notify_ipcp_conn_update_req : KM Z :=
  let st := irati_kmsg_ipcp_conn_update in
  let! ipc_id := dest_ipcp_id m in
  let! event := event_id m in
  let! port_id := fld st 6 m in
  let! src_cep := fld st 7 m in
  let! dst_cep := fld st 8 m in
  let! k := get_k in
  match ipcp_imap_find k.(instances) ipc_id with
  | None => conn_update_result_reply ctrl_port ipc_id (-1) port_id event
  | Some i =>
      let! o := call_op ipc_id i (connection_update (s32 port_id) (s32 src_cep) (s32 dst_cep)) in
      conn_update_result_reply ctrl_port ipc_id (if negb (o.(out_r) =? 0) then -1 else 0) port_id event
  end.

Definition notify_ipcp_conn_destroy_req : KM Z :=
  let st := irati_kmsg_multi_msg in
  let! ipc_id := dest_ipcp_id m in
  let! event := event_id m in
  let! port_id := fld st 7 m in
  let! cep := fld st 8 m in
  let! k := get_k in
  match ipcp_imap_find k.(instances) ipc_id with
  | None => conn_destroy_result_reply ctrl_port ipc_id (-1) port_id event
  | Some i =>
      let! o := call_op ipc_id i (connection_destroy (s32 cep)) in
      conn_destroy_result_reply ctrl_port ipc_id (if negb (o.(out_r) =? 0) then -1 else 0) port_id event
  end.

Definition notify_ipcp_conn_modify_req : KM Z :=
  let st := irati_kmsg_ipcp_conn_update in
  let! ipc_id := dest_ipcp_id m in
  let! src_cep := fld st 7 m in
  let! src := fld st 9 m in
  let! dst := fld st 10 m in
  let! k := get_k in
  match ipcp_imap_find k.(instances) ipc_id with
  | None => ret (-1)
  | Some i =>
      let! o := call_op ipc_id i (connection_modify (s32 src_cep) src dst) in
      ret (if negb (o.(out_r) =? 0) then -1 else 0)
  end.

(** The entries one after the other, up to the first that is refused. *)
Fixpoint modify_entries (ipc_id : Z) (i : ipcp_instance) (op : mod_pff_entry -> ipcp_op) (l : list mod_pff_entry) : KM Z :=
  match l with
  | [] => ret 0
  | e :: l' =>
      let! o := call_op ipc_id i (op e) in
      if negb (o.(out_r) =? 0) then ret (-1) else modify_entries ipc_id i op l'
  end.

Definition notify_ipcp_modify_pffe : KM Z :=
  let! ipc_id := dest_ipcp_id m in
  let! mode := fld irati_kmsg_rmt_dump_ft 7 m in
  let! entries := ptr_at 0 m as_pff in
  let! k := get_k in
  match ipcp_imap_find k.(instances) ipc_id with
  | None => ret (-1)
  | Some i =>
      match entries with
      | None => if (0 <=? mode) && (mode <=? 2) then fault else ret (-1)
      | Some l =>
          if mode =? 2 then let! o := call_op ipc_id i (pff_modify l.(pel_pff_entries)) in ret o.(out_r)
          else if mode =? 1 then modify_entries ipc_id i pff_remove l.(pel_pff_entries)
          else if mode =? 0 then modify_entries ipc_id i pff_add l.(pel_pff_entries)
          else ret (-1)
      end
  end.

(** The list of entries is initialised only once the IPC process is found. *)
Definition notify_ipcp_dump_pff : KM Z :=
  let! ipc_id := dest_ipcp_id m in
  let! event := event_id m in
  let! k := get_k in
  match ipcp_imap_find k.(instances) ipc_id with
  | None => ipcp_dump_pff_reply ctrl_port ipc_id (-1) None event
  | Some i =>
      let! o := call_op ipc_id i pff_dump in
      ipcp_dump_pff_reply ctrl_port ipc_id (if negb (o.(out_r) =? 0) then -1 else 0) (Some o.(out_pff)) event
  end.

Definition notify_ipcm_query_rib : KM Z :=
  let st := irati_kmsg_ipcm_query_rib in
  let! ipc_id := dest_ipcp_id m in
  let! event := event_id m in
  let! instance := fld st 6 m in
  let! scope := fld st 7 m in
  let! filter := ptr_at 0 m as_string in
  let! class := ptr_at 1 m as_string in
  let! name := ptr_at 2 m as_string in
  let! k := get_k in
  match ipcp_imap_find k.(instances) ipc_id with
  | None => ipcm_query_rib_reply ctrl_port ipc_id (-1) None event
  | Some i =>
      let! o := call_op ipc_id i (query_rib class name instance scope filter) in
      ipcm_query_rib_reply ctrl_port ipc_id (if negb (o.(out_r) =? 0) then -1 else 0) (Some o.(out_rib)) event
  end.

(** The result of an operation that an IPC process may lack. *)
Definition optional_op (ipc_id : Z) (op : ipcp_op) : KM Z :=
  let! k := get_k in
  match ipcp_imap_find k.(instances) ipc_id with
  | None => ret (-1)
  | Some i => if has_op (tag_of op) i then let! o := call_op ipc_id i op in ret o.(out_r) else ret (-1)
  end.

Definition notify_ipcp_set_policy_set_param : KM Z :=
  let! ipc_id := dest_ipcp_id m in
  let! event := event_id m in
  let! path := ptr_at 0 m as_string in
  let! name := ptr_at 1 m as_string in
  let! value := ptr_at 2 m as_string in
  let! retval := optional_op ipc_id (set_policy_set_param path name value) in
  send_base_resp ctrl_port RINA_C_IPCP_SET_POLICY_SET_PARAM_RESPONSE ipc_id event retval.

Definition notify_ipcp_select_policy_set : KM Z :=
  let! ipc_id := dest_ipcp_id m in
  let! event := event_id m in
  let! path := ptr_at 0 m as_string in
  let! name := ptr_at 1 m as_string in
  let! retval := optional_op ipc_id (select_policy_set path name) in
  send_base_resp ctrl_port RINA_C_IPCP_SELECT_POLICY_SET_RESPONSE ipc_id event retval.

Definition notify_ipcp_update_crypto_state : KM Z :=
  let! ipc_id := dest_ipcp_id m in
  let! event := event_id m in
  let! port_id := fld irati_kmsg_ipcp_update_crypto_state 6 m in
  let! state := ptr_at 0 m as_crypto in
  let! retval := optional_op ipc_id (update_crypto_state state (s32 port_id)) in
  send_multi ctrl_port RINA_C_IPCP_UPDATE_CRYPTO_STATE_RESPONSE ipc_id event retval port_id.

Definition notify_ipcp_address_change : KM Z :=
  let st := irati_kmsg_ipcp_address_change in
  let! ipc_id := dest_ipcp_id m in
  let! new := fld st 6 m in
  let! old := fld st 7 m in
  let! use := fld st 8 m in
  let! dep := fld st 9 m in
  optional_op ipc_id (address_change new old use dep) ;;; ret 0.

Definition notify_allocate_port : KM Z :=
  let! ipc_id := src_ipcp_id m in
  let! event := event_id m in
  let! boundaries := fld irati_kmsg_ipcp_allocate_port 6 m in
  let! app := ptr_at 0 m as_name in
  let! port_id := kipcm_flow_create ipc_id (negb (boundaries =? 0)) app in
  send_multi ctrl_port RINA_C_IPCP_ALLOCATE_PORT_RESPONSE ipc_id event (if port_id =? Pidm.port_id_bad then -1 else 0) port_id.

Definition notify_deallocate_port : KM Z :=
  let! ipc_id := src_ipcp_id m in
  let! event := event_id m in
  let! port_id := fld irati_kmsg_multi_msg 7 m in
  let! retval := kipcm_flow_destroy ipc_id (s32 port_id) in
  send_multi ctrl_port RINA_C_IPCP_DEALLOCATE_PORT_RESPONSE ipc_id event retval port_id.

Definition notify_ipcp_write_mgmt_sdu : KM Z :=
  let! ipc_id := src_ipcp_id m in
  let! event := event_id m in
  let! port_id := fld irati_kmsg_ipcp_mgmt_sdu 6 m in
  let! sdu := ptr_at 0 m as_buffer in
  match sdu with
  | None => fault
  | Some b =>
      let! mem := ask in
      let! retval := (if negb mem then ret (-1) else kipcm_mgmt_du_write ipc_id (s32 port_id) b.(buf_data)) in
      send_base_resp ctrl_port RINA_C_IPCP_MANAGEMENT_SDU_WRITE_RESPONSE ipc_id event retval
  end.

(** The source IPC process of the next two replies is not set. *)
Definition notify_create_ipcp : KM Z :=
  let st := irati_kmsg_ipcm_create_ipcp in
  let! event := event_id m in
  let! id := fld st 6 m in
  let! port := fld st 7 m in
  let! name := ptr_at 0 m as_name in
  let! type := ptr_at 1 m as_string in
  let! retval := kipcm_ipc_create name id port type in
  let! j := gets s_junk in
  send_base_resp ctrl_port RINA_C_IPCM_CREATE_IPCP_RESPONSE j event retval.

Definition notify_destroy_ipcp : KM Z :=
  let! event := event_id m in
  let! id := fld irati_kmsg_ipcm_destroy_ipcp 6 m in
  let! retval := kipcm_ipc_destroy id in
  let! j := gets s_junk in
  send_base_resp ctrl_port RINA_C_IPCM_DESTROY_IPCP_RESPONSE j event retval.
End Handlers.

(** ** Registration of the handlers *)

Definition kipcm_invoke (h : kipcm_handler) (ctrl_port : Z) (m : irati_msg) : KM Z :=
  match h with
  | Hassign_dif_request => notify_ipcp_assign_dif_request ctrl_port m
  | Hallocate_flow_request => notify_ipcp_allocate_flow_request ctrl_port m
  | Hallocate_flow_response => notify_ipcp_allocate_flow_response m
  | Hregister_app_request => notify_ipcp_register_app_request ctrl_port m
  | Hunregister_app_request => notify_ipcp_unregister_app_request ctrl_port m
  | Hdeallocate_flow_request => notify_ipcp_deallocate_flow_request m
  | Hupdate_dif_config_request => notify_ipcp_update_dif_config_request ctrl_port m
  | Hconn_create_req => notify_ipcp_conn_create_req ctrl_port m
  | Hconn_create_arrived => notify_ipcp_conn_create_arrived ctrl_port m
  | Hconn_update_req => notify_ipcp_conn_update_req ctrl_port m
  | Hconn_destroy_req => notify_ipcp_conn_destroy_req ctrl_port m
  | Hconn_modify_req => notify_ipcp_conn_modify_req m
  | Hmodify_pffe => notify_ipcp_modify_pffe m
  | Hdump_pff => notify_ipcp_dump_pff ctrl_port m
  | Hquery_rib => notify_ipcm_query_rib ctrl_port m
  | Hset_policy_set_param => notify_ipcp_set_policy_set_param ctrl_port m
  | Hselect_policy_set => notify_ipcp_select_policy_set ctrl_port m
  | Hupdate_crypto_state => notify_ipcp_update_crypto_state ctrl_port m
  | Haddress_change => notify_ipcp_address_change m
  | Hallocate_port => notify_allocate_port ctrl_port m
  | Hdeallocate_port => notify_deallocate_port ctrl_port m
  | Hwrite_mgmt_sdu => notify_ipcp_write_mgmt_sdu ctrl_port m
  | Hcreate_ipcp => notify_create_ipcp ctrl_port m
  | Hdestroy_ipcp => notify_destroy_ipcp ctrl_port m
  end.

(** The array [kipcm_handlers], as its entries; they are registered in the order of the types. *)
Definition kipcm_handlers : list (Z * kipcm_handler) := [
  (RINA_C_IPCM_ASSIGN_TO_DIF_REQUEST, Hassign_dif_request);
  (RINA_C_IPCM_UPDATE_DIF_CONFIG_REQUEST, Hupdate_dif_config_request);
  (RINA_C_IPCM_ALLOCATE_FLOW_REQUEST, Hallocate_flow_request);
  (RINA_C_IPCM_ALLOCATE_FLOW_RESPONSE, Hallocate_flow_response);
  (RINA_C_IPCM_DEALLOCATE_FLOW_REQUEST, Hdeallocate_flow_request);
  (RINA_C_IPCM_REGISTER_APPLICATION_REQUEST, Hregister_app_request);
  (RINA_C_IPCM_UNREGISTER_APPLICATION_REQUEST, Hunregister_app_request);
  (RINA_C_IPCM_QUERY_RIB_REQUEST, Hquery_rib);
  (RINA_C_RMT_MODIFY_FTE_REQUEST, Hmodify_pffe);
  (RINA_C_RMT_DUMP_FT_REQUEST, Hdump_pff);
  (RINA_C_IPCP_CONN_CREATE_REQUEST, Hconn_create_req);
  (RINA_C_IPCP_CONN_CREATE_ARRIVED, Hconn_create_arrived);
  (RINA_C_IPCP_CONN_UPDATE_REQUEST, Hconn_update_req);
  (RINA_C_IPCP_CONN_DESTROY_REQUEST, Hconn_destroy_req);
  (RINA_C_IPCP_SET_POLICY_SET_PARAM_REQUEST, Hset_policy_set_param);
  (RINA_C_IPCP_SELECT_POLICY_SET_REQUEST, Hselect_policy_set);
  (RINA_C_IPCP_UPDATE_CRYPTO_STATE_REQUEST, Hupdate_crypto_state);
  (RINA_C_IPCP_ADDRESS_CHANGE_REQUEST, Haddress_change);
  (RINA_C_IPCP_ALLOCATE_PORT_REQUEST, Hallocate_port);
  (RINA_C_IPCP_DEALLOCATE_PORT_REQUEST, Hdeallocate_port);
  (RINA_C_IPCP_MANAGEMENT_SDU_WRITE_REQUEST, Hwrite_mgmt_sdu);
  (RINA_C_IPCM_CREATE_IPCP_REQUEST, Hcreate_ipcp);
  (RINA_C_IPCM_DESTROY_IPCP_REQUEST, Hdestroy_ipcp);
  (RINA_C_IPCP_CONN_MODIFY_REQUEST, Hconn_modify_req)].

Fixpoint unregister_all (l : list Z) : KM Z :=
  match l with
  | [] => ret 0
  | t :: l' =>
      let! r := irati_handler_unregister t in
      let! r' := unregister_all l' in
      ret (if negb (r =? 0) then -1 else r')
  end.

Definition ctrldev_handlers_unregister : KM Z := unregister_all kipcm_handlers.*1.

(** [done] are the types registered so far, the last one first. *)
Fixpoint register_loop (l : list (Z * kipcm_handler)) (done : list Z) : KM Z :=
  match l with
  | [] => ret 0
  | (t, h) :: l' =>
      let! r := irati_handler_register t (Some h) in
      if negb (r =? 0) then unregister_all done ;;; ret (-1) else register_loop l' (t :: done)
  end.

Definition ctrldev_handlers_register : KM Z := register_loop kipcm_handlers [].
End Kipcm.
