(* ===== verification/KipcmLaws.v ===== *)
(** * Laws of the messages and of the maps of the KIPCM

    Fields of messages that are built from their values, sending, calls of the KFA, and the loop over the
    registry. *)

From S2P Require Import Prelude Ids Rds Kucommon Config Policies Wire SerdesLaws SerdesLen MsgLayout Messages Hmap Kfa Prog Ctrldev Kipcm.
From Stdlib Require Import ZArith Lia.
From stdpp Require Import base list numbers option relations.
Import Rqueue Rfifo FifoList.
#[local] Open Scope Z_scope.
#[local] Open Scope prog_scope.

(** ** Fields *)

Lemma load_middle n v (a c : list Z) : load n (length a) (a ++ le_encode n v ++ c) = Some (uwrap (8 * Z.of_nat n) v).
Proof.
  unfold load. rewrite decide_True by (rewrite !length_app, length_le_encode; lia). f_equal.
  rewrite drop_app_length. rewrite take_app_le by (rewrite length_le_encode; lia).
  rewrite take_ge by (rewrite length_le_encode; lia). apply le_decode_encode.
Qed.

Abbreviation enc := (zip_with (fun w v => le_encode (Z.to_nat w) v)).

Lemma length_enc ws vals :
  Forall (fun w => 0 <= w) ws -> (length ws <= length vals)%nat ->
  Z.of_nat (length (List.concat (enc ws vals))) = foldr Z.add 0 ws.
Proof.
  intros Hw. revert vals. induction Hw as [|w ws Hw _ IH]; intros [|v vals] Hl; cbn in Hl |- *; try lia.
  rewrite length_app, length_le_encode, Nat2Z.inj_add, IH by lia. lia.
Qed.

Lemma load_enc ws vals i w v :
  Forall (fun w => 0 <= w) ws -> ws !! i = Some w -> vals !! i = Some v ->
  load (Z.to_nat w) (Z.to_nat (foldr Z.add 0 (take i ws))) (List.concat (enc ws vals)) = Some (uwrap (8 * w) v).
Proof.
  intros Hw Hi Hv. pose proof (lookup_lt_Some _ _ _ Hi). pose proof (lookup_lt_Some _ _ _ Hv).
  rewrite <- (take_drop_middle ws i w Hi) at 2. rewrite <- (take_drop_middle vals i v Hv).
  rewrite zip_with_app by (rewrite !length_take; lia). cbn [zip_with]. rewrite List.concat_app. cbn [List.concat].
  pose proof (length_enc (take i ws) (take i vals) (Forall_take _ _ _ Hw)) as Hl.
  rewrite <- Hl, Nat2Z.id by (rewrite !length_take; lia).
  rewrite load_middle. rewrite Z2Nat.id; [done|]. by apply (proj1 (Forall_lookup _ _) Hw i).
Qed.

(** The [i]-th field of a message built from its values. *)
Lemma field_plain st vals ps i w v :
  Forall (fun w => 0 <= w) st.(cs_plain) -> st.(cs_plain) !! i = Some w -> vals !! i = Some v ->
  field st i (mk_irati_msg (plain st vals) ps) = Some (uwrap (8 * w) v).
Proof.
  intros Hw Hi Hv. unfold field, width, offset, plain. cbn [im_plain].
  rewrite (nth_lookup_Some _ _ _ _ Hi). by apply load_enc.
Qed.

(** A message with these fields is a message of its type. *)
Lemma plain_msg_ok st t vals ps :
  table_lookup (uwrap 16 t) message_structs = Some st -> Forall (fun w => 0 <= w) st.(cs_plain) -> st.(cs_plain) !! 0%nat = Some 2 ->
  length vals = pred (length st.(cs_plain)) -> map kind_of ps = st.(cs_ptrs) -> Forall w_ok ps ->
  msg_ok (uwrap 16 t) (mk_irati_msg (plain st (t :: vals)) ps).
Proof.
  intros Hst Hw H0 Hl Hk Hp. exists st. split; [done|]. split.
  { cbn [im_plain]. unfold plain. rewrite length_enc; [done|done|]. apply lookup_lt_Some in H0. cbn. lia. }
  split; [|done]. cbn [im_plain]. unfold msg_type, plain.
  apply (load_enc st.(cs_plain) (t :: vals) 0 2 t); done.
Qed.

(** ** Sending *)

(** Serialising a well-formed message has a result that fits the buffer of the announced length. *)
Lemma serialised t m :
  msg_ok t m -> Forall (fun p => p <> PBuffer None) m.(im_ptrs) ->
  let bs := m.(im_plain) ++ List.concat (map serialize_ptr m.(im_ptrs)) in
  Z.of_nat (length bs) < 2 ^ 31 ->
  irati_msg_serlen irati_ker_numtables RINA_C_MAX m = Some (Z.of_nat (length bs)) /\
  serialize_irati_msg irati_ker_numtables RINA_C_MAX m = Some (Z.of_nat (length bs), bs).
Proof.
  intros Hm Hb bs Hs. split.
  - rewrite (serlen_ok t m Hm Hb). fold bs. by rewrite uwrap_small by (unfold in_u; lia).
  - rewrite (serialize_ok t m Hm). fold bs. rewrite uwrap_small by (unfold in_u; lia).
    rewrite swrap_small; [done|unfold in_s; lia|lia].
Qed.

(** A message that can be sent. *)
Definition sendable (m : irati_msg) : Prop :=
  exists t, msg_ok t m /\ Forall (fun p => p <> PBuffer None) m.(im_ptrs) /\
    Z.of_nat (length (m.(im_plain) ++ List.concat (map serialize_ptr m.(im_ptrs)))) < 2 ^ 31.

Section Sys.
Context {Cb K : Type}.
Implicit Types s : sys Cb K.

Lemma wp_ask s Q :
  (forall mem, Q (hd true s.(s_mem)) (mk_sys s.(s_dm) s.(s_k) mem s.(s_junk))) -> wp ask s Q.
Proof. intros H. unfold wp, ask, rkmalloc. destruct (s_mem s); (eexists _, _; split; [reflexivity|apply H]). Qed.

(** What others than the control device see of a state. *)
Definition same_k s s' : Prop := s'.(s_k) = s.(s_k) /\ s'.(s_junk) = s.(s_junk).

Lemma wp_post entry port s : wp (ctrl_dev_data_post entry port) s (fun _ s' => same_k s s').
Proof.
  unfold ctrl_dev_data_post, get_dm, mod_dm. wp_steps. destruct (get_ctrl_dev _ _) as [[f p]|]; [|by apply wp_ret].
  destruct (pending_msgs p) as [q|]; [|by apply wp_ret]. apply wp_bind, wp_ask. intros mem.
  destruct (rfifo_push _ _ _) as [r q']. by wp_steps.
Qed.

Lemma wp_snd port m s : sendable m -> wp (irati_ctrl_dev_snd_resp_msg port m) s (fun _ s' => same_k s s').
Proof.
  intros (t & Hm & Hb & Hl). destruct (serialised t m Hm Hb Hl) as [Hn Hs]. unfold irati_ctrl_dev_snd_resp_msg, IRATI_RINA_C_MAX.
  apply wp_bind, wp_ask. intros mem. destruct (hd _ _); cbn [negb]; [|by apply wp_ret]. rewrite Hn.
  apply wp_bind, wp_ask. intros mem'. destruct (hd _ _); cbn [negb]; [|by apply wp_ret]. rewrite Hs, Z.ltb_irrefl.
  apply wp_if; intros _; [by apply wp_ret|]. apply wp_bind. eapply wp_mono; [apply wp_post|].
  intros r s' [H1 H2]. apply wp_ret. by split.
Qed.
End Sys.

Lemma wp_send port m (s : ksys) Q :
  sendable m -> (forall r s', s'.(s_k) = log_sent port m s.(s_k) -> s'.(s_junk) = s.(s_junk) -> Q r s') -> wp (send port m) s Q.
Proof.
  intros Hm HQ. unfold send, mod_k. wp_steps. eapply wp_mono; [by apply wp_snd|].
  intros r s' [H1 H2]. apply wp_ret. by apply HQ.
Qed.

(** The structures of the replies without pointers. *)
Lemma plain_sendable st t vals :
  table_lookup (uwrap 16 t) message_structs = Some st -> Forall (fun w => 0 <= w) st.(cs_plain) -> st.(cs_plain) !! 0%nat = Some 2 ->
  length vals = pred (length st.(cs_plain)) -> st.(cs_ptrs) = [] -> sizeof_plain st < 2 ^ 31 ->
  sendable (mk_irati_msg (plain st (t :: vals)) []).
Proof.
  intros Hst Hw H0 Hl Hp Hs. exists (uwrap 16 t). split; [by apply plain_msg_ok|]. split; [done|].
  cbn [im_plain im_ptrs map List.concat]. rewrite app_nil_r. unfold plain. rewrite length_enc; [done|done|].
  apply lookup_lt_Some in H0. cbn. lia.
Qed.

Lemma multi_sendable t vals :
  table_lookup (uwrap 16 t) message_structs = Some irati_kmsg_multi_msg -> length vals = 8%nat ->
  sendable (mk_irati_msg (plain irati_kmsg_multi_msg (t :: vals)) []).
Proof. intros Ht Hl. apply plain_sendable; try done. repeat constructor; lia. Qed.

Lemma base_sendable t vals :
  table_lookup (uwrap 16 t) message_structs = Some irati_msg_base_resp -> length vals = 6%nat ->
  sendable (mk_irati_msg (plain irati_msg_base_resp (t :: vals)) []).
Proof. intros Ht Hl. apply plain_sendable; try done. repeat constructor; lia. Qed.

(** ** Calls of the KFA *)

Section Kfa.
Context (max_sdu_size : Z -> Z).

Lemma wp_kfa_do c (s : ksys) r Q :
  Kfa.call_section max_sdu_size s.(s_k).(kfa_of).(s_kfa) c = Some r ->
  Q (kfa_value r) (set_k (set_kfa (Kfa.land r [] s.(s_k).(kfa_of).(threads) s.(s_k).(kfa_of).(work)) s.(s_k)) s) ->
  wp (kfa_do max_sdu_size c) s Q.
Proof. intros E HQ. unfold kfa_do, get_k, mod_k. wp_steps. rewrite E. by wp_steps. Qed.

(** An allowed call is a step of the KFA. *)
Lemma call_reachable k c r :
  Kfa.reachable max_sdu_size false k -> allowed false k.(s_kfa) c = true -> Kfa.call_section max_sdu_size k.(s_kfa) c = Some r ->
  Kfa.reachable max_sdu_size false (Kfa.land r [] k.(threads) k.(work)).
Proof. intros Hr Ha E. eapply rtc_r; [exact Hr|]. by eapply step_call. Qed.
End Kfa.

(** ** Registry *)

(** The loop that destroys the instances of a factory ends: each turn removes one of them, so that the fuel
    [kipcm_ipcp_factory_unregister] gives it is enough. *)
Lemma wp_destroy_instances walk fuel f (s : ksys) :
  (length s.(s_k).(instances) < fuel)%nat -> wp (destroy_instances walk fuel f) s (fun _ _ => True).
Proof.
  revert s. induction fuel as [|fuel IH]; intros s Hl; [lia|]. cbn [destroy_instances]. unfold get_k. wp_steps.
  apply wp_if; intros _; [by apply wp_ret|]. destruct (ipcp_imap_find _ _) as [i|] eqn:E; [|by apply wp_ret].
  apply wp_bind. apply wp_mono with (Q := fun _ s' => s'.(s_k).(instances) = s.(s_k).(instances)).
  { unfold wp, next_out. destruct (world (s_k s)); by eexists _, _. }
  intros o s1 H1. apply wp_if; intros _; [by apply wp_ret|]. unfold ipcp_imap_find in E.
  unfold ipcp_imap_remove, get_k, mod_k. wp_steps. rewrite H1, E. wp_steps. cbn [Z.eqb negb]. apply IH.
  apply hmap_remove_perm, Permutation_length in E. cbn in E |- *. lia.
Qed.

Lemma wp_factory_unregister walk f (s : ksys) : wp (kipcm_ipcp_factory_unregister walk f) s (fun _ _ => True).
Proof.
  unfold kipcm_ipcp_factory_unregister, get_k. wp_steps. eapply wp_mono; [apply wp_destroy_instances; lia|].
  intros [r|] s1 _; [by apply wp_ret|]. unfold ipcpf_unregister, get_k, mod_k. wp_steps. apply wp_if; intros _; [by apply wp_ret|].
  apply wp_bind. unfold wp at 1, next_out. destruct (world (s_k s1)); (eexists _, _; split; [reflexivity|]; by wp_steps).
Qed.
