(* ===== verification/KipcmInv.v ===== *)
(** * Requests to allocate a flow are answered once

    The KIPCM gives a request to allocate a flow a port id and remembers under it the event id of the
    request ([ingress]); the IPC process reports the result later, under the port id.  Here: whatever
    the order of requests, responses, deallocations and reports, each request is answered exactly
    once and with its own event id, although entries of requests that failed stay in the map; the
    port ids of pending requests are distinct and reserved; and the KIPCM uses the KFA as [Kfa.v]
    requires, so that the theorems on the KFA hold under it.

    [asked] are the event ids of the requests, in the order in which they came; [owed] the port ids
    handed to an IPC process that accepted them and has not reported, with their event ids. *)

From S2P Require Import Prelude Ids Rds Kucommon Config Wire MsgLayout Messages Hmap Kfa KfaInv KfaPids Prog Ctrldev Kipcm KipcmLaws.
From Stdlib Require Import ZArith Lia.
From stdpp Require Import base list numbers option gmap sets relations sorting.
#[local] Open Scope Z_scope.
#[local] Open Scope prog_scope.

Abbreviation RESULT := RINA_C_IPCM_ALLOCATE_FLOW_REQUEST_RESULT.

(** The event ids of the answers that were sent. *)
Definition answer (x : Z * irati_msg) : option Z :=
  if decide (field irati_msg_base 0 x.2 = Some RESULT) then field irati_msg_base 5 x.2 else None.
Definition answers (l : list (Z * irati_msg)) : list Z := omap answer l.

Lemma answer_multi port t vals seq :
  vals !! 4%nat = Some seq -> length vals = 8%nat ->
  answer (port, mk_irati_msg (plain irati_kmsg_multi_msg (t :: vals)) []) =
    if decide (uwrap 16 t = RESULT) then Some (u32 seq) else None.
Proof.
  intros Hs Hl. unfold answer. cbn [snd].
  change (field irati_msg_base 0) with (field irati_kmsg_multi_msg 0). change (field irati_msg_base 5) with (field irati_kmsg_multi_msg 5).
  rewrite (field_plain irati_kmsg_multi_msg (t :: vals) [] 0 2 t), (field_plain irati_kmsg_multi_msg (t :: vals) [] 5 4 seq)
    by (done || (repeat constructor; lia)).
  change (8 * 2) with 16. change (8 * 4) with 32. destruct (decide (uwrap 16 t = RESULT)) as [E|E]; [by rewrite E, decide_True|].
  rewrite decide_False; [done|]. congruence.
Qed.

Section Inv.
Context (max_sdu_size : Z -> Z) (walk : hmap_of ipcp_instance -> hmap_of ipcp_instance).
Implicit Types (s : ksys) (owed : list (Z * Z)).

Abbreviation kfa_s s := (s.(s_k).(kfa_of)).

Record kinv (asked : list Z) owed s : Prop := {
  ki_kfa : Kfa.reachable max_sdu_size false (kfa_s s);
  ki_nodup : NoDup owed.*1;
  ki_owed pid e : (pid, e) ∈ owed ->
    reserved (kfa_s s).(s_kfa) pid = true /\ Pidm.is_port_id_ok pid = true /\ hmap_find s.(s_k).(ingress) pid = Some e /\ in_u 32 e;
  ki_count : asked ≡ₚ answers s.(s_k).(sent) ++ owed.*2
}.

(** What the operations of this file leave alone. *)
Definition frame s s' : Prop :=
  s'.(s_k).(instances) = s.(s_k).(instances) /\ s'.(s_k).(world) = s.(s_k).(world) /\ s'.(s_k).(told) = s.(s_k).(told) /\
  s'.(s_junk) = s.(s_junk).

Lemma kframe_refl s : frame s s.
Proof. by repeat split. Qed.
Lemma kframe_trans s s' s'' : frame s s' -> frame s' s'' -> frame s s''.
Proof. intros (? & ? & ? & ?) (? & ? & ? & ?). repeat split; congruence. Qed.

(** The invariant is about the KFA, the map and the messages. *)
Lemma kinv_eq asked owed s s' :
  kinv asked owed s -> kfa_s s' = kfa_s s -> s'.(s_k).(ingress) = s.(s_k).(ingress) ->
  answers s'.(s_k).(sent) = answers s.(s_k).(sent) -> kinv asked owed s'.
Proof. intros [H1 H2 H3 H4] E1 E2 E3. split; rewrite ?E1, ?E2, ?E3; auto. Qed.

(** A message that is no answer. *)
Lemma kinv_sent asked owed s s' port m :
  kinv asked owed s -> answer (port, m) = None -> s'.(s_k) = log_sent port m s.(s_k) -> kinv asked owed s'.
Proof.
  intros Hi Ha E. apply (kinv_eq _ _ s); rewrite ?E; try done. cbn [log_sent sent]. unfold answers. rewrite omap_app. cbn.
  by rewrite Ha, app_nil_r.
Qed.

(** The answer to a request that is not pending. *)
Lemma kinv_answer asked owed s s' port m e :
  kinv asked owed s -> answer (port, m) = Some e -> s'.(s_k) = log_sent port m s.(s_k) -> kinv (asked ++ [e]) owed s'.
Proof.
  intros [H1 H2 H3 H4] Ha E. split; rewrite ?E; try done.
  cbn [log_sent sent]. unfold answers. rewrite omap_app. cbn. rewrite Ha, <- app_assoc. cbn. rewrite H4.
  rewrite <- app_assoc. by rewrite (Permutation_app_comm owed.*2).
Qed.

(** ** The KFA *)

(** An allowed call that releases no port id of a pending request. *)
Lemma wp_call asked owed s c r :
  kinv asked owed s -> allowed false (kfa_s s).(s_kfa) c = true -> Kfa.call_section max_sdu_size (kfa_s s).(s_kfa) c = Some r ->
  (forall pid, pid ∈ owed.*1 -> ~ releases c pid) ->
  wp (kfa_do max_sdu_size c) s (fun v s' => v = kfa_value r /\ kinv asked owed s' /\ frame s s' /\
    (kfa_s s').(s_kfa) = r.1.1.1 /\ s'.(s_k).(ingress) = s.(s_k).(ingress) /\ s'.(s_mem) = s.(s_mem)).
Proof.
  intros [H1 H2 H3 H4] Ha E Hn. eapply wp_kfa_do; [exact E|].
  assert ((Kfa.land r [] (threads (kfa_s s)) (work (kfa_s s))).(s_kfa) = r.1.1.1) as El by by destruct r as [[[? ?] ?] ?].
  split; [done|]. split; [|by repeat split].
  split; cbn [s_k set_k set_kfa kfa_of ingress sent]; try done; [by eapply call_reachable|].
  intros pid e Hp. destruct (H3 pid e Hp) as (Hr & ? & ? & ?). split; [|done]. rewrite El.
  assert ((exists mem, c = CReserve mem) \/ forall mem, c <> CReserve mem) as [[mem ->]|Hc] by (destruct c; eauto).
  - cbn in E. destruct (Kfa.kfa_port_id_reserve _ _ _) as [[k' id]|] eqn:Ek; [|done]. simplify_option_eq. by eapply reserve_reserved.
  - eapply keeps_reserved; [by eapply call_keeps| |done]. by apply Hn, (list_elem_of_fmap_2 fst _ (pid, e)).
Qed.

Lemma wp_release asked owed s pid :
  kinv asked owed s -> pid ∉ owed.*1 ->
  wp (kfa_port_id_release max_sdu_size pid) s (fun _ s' => kinv asked owed s' /\ frame s s' /\ s'.(s_k).(ingress) = s.(s_k).(ingress)).
Proof.
  intros Hi Hn. destruct (Kfa.kfa_port_id_release (kfa_s s).(s_kfa) pid) as [k r] eqn:E.
  eapply wp_mono; [eapply (wp_call asked owed s (CRelease pid)); [done|done|cbn; by rewrite E|]|].
  - cbn. intros pid' Hp ->. done.
  - cbv beta. tauto.
Qed.

Lemma kinv_perm asked asked' owed s : asked ≡ₚ asked' -> kinv asked owed s -> kinv asked' owed s.
Proof. intros Hp [H1 H2 H3 H4]. split; auto. by rewrite <- Hp. Qed.

(** ** What IPC processes call *)

(** A report settles a pending request. *)
Definition settle owed (c : callback) : list (Z * Z) :=
  match c with CbResult _ pid _ => hmap_remove owed pid | _ => owed end.

Definition arrived_ok (local remote dif : option name) (spec : option flow_spec) : Prop :=
  let ps := [PName local; PName remote; PName dif; PFlowSpec spec] in
  Forall w_ok ps /\ Z.of_nat (length (List.concat (map serialize_ptr ps))) < 2 ^ 30.

(** How IPC processes use the KIPCM and the KFA: they report on the port ids they were given, once, and
    release none of them before. *)
Definition cb_ok owed s (c : callback) : Prop :=
  match c with
  | CbResult _ pid _ => pid ∈ owed.*1
  | CbArrived _ _ dif local remote spec => arrived_ok local remote dif spec
  | CbDealloc _ _ _ _ => True
  | CbKfa c =>
      allowed false (kfa_s s).(s_kfa) c = true /\ is_Some (Kfa.call_section max_sdu_size (kfa_s s).(s_kfa) c) /\
      forall pid, pid ∈ owed.*1 -> ~ releases c pid
  end.

Fixpoint cbs_ok owed s (l : list callback) : Prop :=
  match l with
  | [] => True
  | c :: l' => cb_ok owed s c /\ forall r s', run_callback max_sdu_size c s = Some (r, s') -> cbs_ok (settle owed c) s' l'
  end.

Lemma owed_find owed pid : NoDup owed.*1 -> pid ∈ owed.*1 -> exists e, hmap_find owed pid = Some e /\ (pid, e) ∈ owed.
Proof.
  intros Hn ([p e] & -> & Hin)%list_elem_of_fmap. exists e. split; [by apply hmap_elem_find|done].
Qed.

(** A pending request of which nothing is left but the answer. *)
Lemma kinv_settle asked owed s s' pid e :
  kinv asked owed s -> hmap_find owed pid = Some e ->
  s'.(s_k) = set_ingress (hmap_remove s.(s_k).(ingress) pid) s.(s_k) ->
  kinv (answers s.(s_k).(sent) ++ (hmap_remove owed pid).*2) (hmap_remove owed pid) s' /\ pid ∉ (hmap_remove owed pid).*1 /\
  asked ≡ₚ (answers s.(s_k).(sent) ++ (hmap_remove owed pid).*2) ++ [e].
Proof.
  intros [H1 H2 H3 H4] Hf E. pose proof (hmap_remove_key owed pid H2) as Hk. split; [|split; [done|]].
  - split; rewrite ?E; cbn [set_ingress kfa_of ingress sent]; try done; [by apply (hmap_remove_NoDup fst)|].
    intros p e' Hin. destruct (H3 p e') as (? & ? & ? & ?); [by eapply hmap_remove_sub|]. split_and!; try done.
    rewrite hmap_find_remove_ne; [done|]. intros ->. apply Hk. by apply (list_elem_of_fmap_2 fst _ (pid, e')).
  - rewrite H4, (hmap_remove_perm _ _ _ Hf) at 1. cbn. rewrite <- app_assoc. by rewrite (Permutation_app_comm _ [e]).
Qed.

(** The answer of a report. *)
Lemma wp_answer asked owed s port ipc_id e res pid :
  kinv asked owed s -> in_u 32 e ->
  wp (send_multi port RESULT ipc_id e res pid) s (fun _ s' => kinv (asked ++ [e]) owed s' /\ frame s s').
Proof.
  intros Hi He. unfold send_multi. wp_steps. apply wp_send; [by apply multi_sendable|].
  intros r s' E Ej. split; [|unfold frame; rewrite E; by repeat split].
  eapply kinv_answer; [done| |done]. rewrite (answer_multi _ _ _ e), decide_True by done. by rewrite uwrap_small.
Qed.

(** Another message. *)
Lemma wp_other asked owed s port m :
  kinv asked owed s -> sendable m -> answer (port, m) = None -> wp (send port m) s (fun _ s' => kinv asked owed s' /\ frame s s').
Proof.
  intros Hi Hm Ha. apply wp_send; [done|]. intros r s' E Ej. split; [by eapply kinv_sent|unfold frame; rewrite E; by repeat split].
Qed.

Lemma wp_report asked owed s ipc_id pid res :
  kinv asked owed s -> pid ∈ owed.*1 ->
  wp (kipcm_notify_flow_alloc_req_result max_sdu_size ipc_id pid res) s (fun _ s' => kinv asked (hmap_remove owed pid) s' /\ frame s s').
Proof.
  intros Hi Hp. destruct (owed_find owed pid) as (e & Hf & Hin); [apply Hi|done|].
  destruct (ki_owed _ _ _ Hi pid e Hin) as (_ & Hok & Hg & He).
  unfold kipcm_notify_flow_alloc_req_result, kipcm_pmap_remove, get_k, mod_k. rewrite Hok. cbn [negb]. wp_steps.
  unfold kipcm_pmap_find. rewrite Hg. wp_steps. cbn [default Z.eqb negb].
  set (s1 := set_k (set_ingress _ _) s). destruct (kinv_settle asked owed s s1 pid e Hi Hf eq_refl) as (Hi1 & Hn & Hperm).
  assert (frame s s1) as Hfr by by repeat split.
  wp_steps. apply wp_mono with (Q := fun _ s2 => kinv (answers (sent (s_k s)) ++ (hmap_remove owed pid).*2) (hmap_remove owed pid) s2 /\ frame s s2).
  { apply wp_if; intros _; [|by apply wp_ret].
    eapply wp_mono; [by apply wp_release|]. intros _ s2 (? & ? & _). split; [done|by eapply kframe_trans]. }
  intros _ s2 [Hi2 Hfr2]. eapply wp_mono; [by eapply wp_answer|]. cbv beta. intros _ s3 [Hi3 Hfr3].
  split; [by eapply kinv_perm|by eapply kframe_trans].
Qed.

Lemma arrived_sendable vals local remote dif spec :
  arrived_ok local remote dif spec -> length vals = 7%nat ->
  let m := mk_irati_msg (plain irati_kmsg_ipcm_allocate_flow (RINA_C_IPCM_ALLOCATE_FLOW_REQUEST_ARRIVED :: vals))
             [PName local; PName remote; PName dif; PFlowSpec spec] in
  sendable m /\ forall port, answer (port, m) = None.
Proof.
  intros [Hw Hs] Hl m. assert (Forall (fun w => 0 <= w) (cs_plain irati_kmsg_ipcm_allocate_flow)) as Hp by (repeat constructor; lia).
  split.
  - exists (uwrap 16 RINA_C_IPCM_ALLOCATE_FLOW_REQUEST_ARRIVED). split; [by apply plain_msg_ok|]. split; [by repeat constructor|].
    unfold m. cbn [im_plain im_ptrs]. rewrite length_app, Nat2Z.inj_add. unfold plain. rewrite length_enc; [|done|cbn; lia].
    change (foldr Z.add 0 (cs_plain irati_kmsg_ipcm_allocate_flow)) with 26. lia.
  - intros port. unfold answer. cbn [snd]. change (field irati_msg_base 0) with (field irati_kmsg_ipcm_allocate_flow 0).
    unfold m. erewrite field_plain by done. by rewrite decide_False.
Qed.

Lemma wp_arrived asked owed s ipc_id pid dif local remote spec :
  kinv asked owed s -> arrived_ok local remote dif spec ->
  wp (kipcm_flow_arrived ipc_id pid dif local remote spec) s (fun _ s' => kinv asked owed s' /\ frame s s').
Proof.
  intros Hi Ha. unfold kipcm_flow_arrived, get_k, ctrl_dev_get_next_seqn, get_dm, mod_dm. wp_steps.
  destruct (ipcp_imap_find _ _); [|by apply wp_ret]. wp_steps. unfold kipcm_smap_add, mod_k. wp_steps. apply wp_ask. intros mem.
  apply wp_if; intros _; wp_steps; cbn [Z.eqb negb].
  - apply wp_ret. split; [by eapply kinv_eq|by repeat split].
  - wp_steps. destruct (arrived_sendable [s_junk s; s_junk s; ipc_id; 0; sn_counter (s_dm s); pid; s_junk s] local remote dif spec Ha eq_refl) as [Hm Hn].
    eapply wp_mono; [eapply (wp_other asked owed); [|exact Hm|apply Hn]|].
    + by eapply kinv_eq.
    + intros _ s' [Hi' Hf']. split; [done|]. eapply kframe_trans; [|exact Hf']. by repeat split.
Qed.

Lemma wp_cb asked owed s c :
  kinv asked owed s -> cb_ok owed s c -> wp (run_callback max_sdu_size c) s (fun _ s' => kinv asked (settle owed c) s' /\ frame s s').
Proof.
  intros Hi Hc. destruct c as [ipc pid res|ipc pid dif local remote spec|ipc code pid port|c]; cbn [run_callback settle cb_ok] in *.
  - by apply wp_report.
  - by apply wp_arrived.
  - unfold kipcm_notify_flow_dealloc, send_multi. wp_steps. apply wp_other; [done|by apply multi_sendable|].
    rewrite (answer_multi _ _ _ 0) by done. by rewrite decide_False.
  - destruct Hc as (Ha & [r Hr] & Hn). eapply wp_mono; [by eapply (wp_call asked owed s c r)|]. cbv beta. tauto.
Qed.

Lemma wp_cbs asked l : forall owed s, kinv asked owed s -> cbs_ok owed s l ->
  wp (run_callbacks max_sdu_size l) s (fun _ s' => kinv asked (foldl settle owed l) s' /\ frame s s').
Proof.
  induction l as [|c l IH]; intros owed s Hi Hc; [by apply wp_ret|]. destruct Hc as [Hc Hl]. cbn [run_callbacks foldl].
  destruct (wp_cb asked owed s c Hi Hc) as (r & s1 & E & Hi1 & Hf1). apply wp_bind. exists r, s1. split; [done|].
  eapply wp_mono; [apply IH; [done|by apply (Hl r)]|]. intros _ s2 [Hi2 Hf2]. split; [done|by eapply kframe_trans].
Qed.

(** ** Operations of IPC processes *)

(** The operation is there, and what the IPC process calls meanwhile is in order. *)
Definition op_ok owed s (ipc_id : Z) (i : ipcp_instance) (op : ipcp_op) : Prop :=
  has_op (tag_of op) i = true /\
  forall o s1, enter_op ipc_id op s = Some (o, s1) -> cbs_ok owed s1 o.(out_calls).

Lemma enter_op_run ipc_id op s :
  exists o s1, enter_op ipc_id op s = Some (o, s1) /\ s1.(s_k).(kfa_of) = s.(s_k).(kfa_of) /\ s1.(s_k).(ingress) = s.(s_k).(ingress) /\
    s1.(s_k).(sent) = s.(s_k).(sent) /\ s1.(s_k).(instances) = s.(s_k).(instances) /\ s1.(s_junk) = s.(s_junk).
Proof.
  unfold enter_op, log_told, mod_k, bind, modify, next_out. cbn [s_k set_k world].
  destruct (world (s_k s)); (eexists _, _; split; [reflexivity|by repeat split]).
Qed.

Lemma wp_op asked owed s ipc_id i op o s1 :
  kinv asked owed s -> has_op (tag_of op) i = true -> enter_op ipc_id op s = Some (o, s1) -> cbs_ok owed s1 o.(out_calls) ->
  wp (call_op max_sdu_size ipc_id i op) s (fun o' s' => o' = o /\ kinv asked (foldl settle owed o.(out_calls)) s' /\ s'.(s_junk) = s.(s_junk)).
Proof.
  intros Hi Ho E Hc. destruct (enter_op_run ipc_id op s) as (o' & s1' & E' & Hk & Hg & Hs & _ & Hj).
  rewrite E in E'. simplify_eq. unfold call_op. rewrite Ho. cbn [negb]. apply wp_bind. exists o', s1'. split; [done|].
  apply wp_bind. eapply wp_mono; [apply (wp_cbs asked); [|exact Hc]; eapply kinv_eq; [done|done|done|by rewrite Hs]|].
  intros _ s2 [Hi2 Hf2]. apply wp_ret. split; [done|]. split; [done|]. destruct Hf2 as (_ & _ & _ & ->). done.
Qed.

(** ** Requests *)

(** A port id that was just reserved for the request [e]. *)
Record fresh (pid : Z) owed s : Prop := {
  fr_reserved : reserved (kfa_s s).(s_kfa) pid = true;
  fr_ok : Pidm.is_port_id_ok pid = true;
  fr_new : pid ∉ owed.*1;
  fr_flow : kfa_pmap_find (kfa_s s).(s_kfa).(flows) pid = None
}.

Definition port_free s : Prop :=
  hd true s.(s_mem) = true /\
  exists p, (kfa_s s).(s_kfa).(k_pidm) = Some p /\ (length p.(Pidm.allocated_ports) < Pidm.turn)%nat.

Lemma no_flow_unreserved k pid :
  Kfa.reachable max_sdu_size false k -> reserved k.(s_kfa) pid = false -> kfa_pmap_find k.(s_kfa).(flows) pid = None.
Proof.
  intros Hr%kfa_reachable_inv Hn. destruct (kfa_pmap_find _ _) as [a|] eqn:E; [|done].
  apply hmap_find_elem in E. apply (list_elem_of_fmap_2 fst) in E. pose proof (inv_reserved _ _ Hr _ E). cbn in *. congruence.
Qed.

Lemma wp_reserve asked owed s :
  kinv asked owed s -> port_free s ->
  wp (kfa_port_id_reserve max_sdu_size) s (fun pid s' => kinv asked owed s' /\ fresh pid owed s' /\ frame s s').
Proof.
  intros Hi [Hm (p & Hp & Hl)]. unfold kfa_port_id_reserve. apply wp_bind, wp_ask. intros mem. rewrite Hm.
  destruct (reachable_pidm _ _ _ (ki_kfa _ _ _ Hi)) as (p' & Hp' & Hw). rewrite Hp in Hp'. simplify_eq.
  destruct (reserve_fresh _ _ Hp Hw Hl) as (k' & pid & E & Hok & Hn & Hr & _ & _ & Hfl & _).
  set (s0 := mk_sys _ _ mem _). assert (kinv asked owed s0) as Hi0 by by eapply kinv_eq.
  eapply wp_mono; [eapply (wp_call asked owed s0 (CReserve true)); [done|done|cbn; by rewrite E|intros ? _ []]|].
  intros v s' (-> & Hi' & Hf' & Hk' & _). cbn [kfa_value stop fst] in *. split; [done|]. split; [|done].
  split; rewrite ?Hk'; try done.
  - intros ([x e] & -> & Hin)%list_elem_of_fmap. destruct (ki_owed _ _ _ Hi _ _ Hin) as [Hx _]. cbn in Hn. congruence.
  - rewrite Hfl. by apply (no_flow_unreserved _ _ (ki_kfa _ _ _ Hi)).
Qed.

(** A request with its port id becomes pending. *)
Lemma kinv_pending_reserved asked owed s pid e :
  kinv asked owed s -> reserved (kfa_s s).(s_kfa) pid = true -> Pidm.is_port_id_ok pid = true -> pid ∉ owed.*1 ->
  hmap_find s.(s_k).(ingress) pid = Some e -> in_u 32 e ->
  kinv (asked ++ [e]) ((pid, e) :: owed) s.
Proof.
  intros [H1 H2 H3 H4] Hr Ho Hn Hg He. split; try done; [by apply NoDup_cons|..].
  - intros p x [[= -> ->]|Hin]%elem_of_cons; [done|by apply H3].
  - cbn. rewrite H4. rewrite <- app_assoc. by rewrite (Permutation_app_comm owed.*2).
Qed.

Lemma kinv_unpend asked owed s pid e : kinv (asked ++ [e]) ((pid, e) :: owed) s -> kinv asked owed s /\ pid ∉ owed.*1.
Proof.
  intros [H1 H2 H3 H4]. cbn in H2. apply NoDup_cons in H2 as [Hn H2]. split; [|done]. split; try done.
  - intros p x Hin. apply H3. by right.
  - cbn in H4. apply (Permutation_app_inv_r [e]). rewrite H4, <- app_assoc. by rewrite (Permutation_app_comm owed.*2).
Qed.

Lemma wp_create asked owed s pid ipc_id b :
  kinv asked owed s -> fresh pid owed s ->
  wp (kfa_flow_create max_sdu_size pid ipc_id None b) s
    (fun _ s' => kinv asked owed s' /\ reserved (kfa_s s').(s_kfa) pid = true /\ s'.(s_k).(ingress) = s.(s_k).(ingress) /\ frame s s').
Proof.
  intros Hi [Hr Ho Hn Hf]. unfold kfa_flow_create. apply wp_bind, wp_ask. intros mem. set (s0 := mk_sys _ _ mem _).
  assert (kinv asked owed s0) as Hi0 by by eapply kinv_eq.
  destruct (Kfa.kfa_flow_create (s_kfa (kfa_s s)) pid ipc_id b (hd true (s_mem s))) as [k' v] eqn:E.
  eapply wp_mono; [eapply (wp_call asked owed s0 (CCreate pid ipc_id b (hd true (s_mem s)))); [done| |cbn; by rewrite E|intros ? _ []]|].
  - cbn. rewrite Hr, Hf. done.
  - intros v' s' (_ & Hi' & Hf' & Hk' & Hg' & _). split; [done|]. split; [|done]. rewrite Hk'. cbn.
    unfold Kfa.kfa_flow_create in E. destruct (hd true (s_mem s)); cbn in E; simplify_eq; done.
Qed.

(** What the handler has when it calls the IPC process. *)
Definition prepared asked owed (s : ksys) (ipc_id e : Z) (p : option (ipcp_instance * user_ipcp * Z)) (s1 : ksys) : Prop :=
  s1.(s_junk) = s.(s_junk) /\
  match p with
  | None => kinv asked owed s1
  | Some (i, _, pid) => ipcp_imap_find s.(s_k).(instances) ipc_id = Some i /\ kinv (asked ++ [e]) ((pid, e) :: owed) s1
  end.

Lemma wp_give_up asked owed s0 s ipc_id e pid :
  kinv asked owed s -> pid ∉ owed.*1 -> s.(s_junk) = s0.(s_junk) ->
  wp (kfa_port_id_release max_sdu_size pid ;;; ret None) s (prepared asked owed s0 ipc_id e).
Proof.
  intros Hi Hn Hj. apply wp_bind. eapply wp_mono; [by apply wp_release|]. intros _ s' (Hi' & (_ & _ & _ & Hj') & _).
  apply wp_ret. split; [congruence|done].
Qed.

Lemma wp_prepare asked owed s user_id ipc_id e spec :
  kinv asked owed s -> port_free s -> in_u 32 e -> (user_id = 0 -> is_Some spec) ->
  wp (allocate_flow_prepare max_sdu_size user_id ipc_id e spec) s (prepared asked owed s ipc_id e).
Proof.
  intros Hi Hp He Hs. unfold allocate_flow_prepare, get_k. wp_steps.
  destruct (ipcp_imap_find _ ipc_id) as [i|] eqn:Ei; [|by apply wp_ret].
  apply wp_bind. eapply wp_mono; [by apply wp_reserve|]. intros pid s1 (Hi1 & Hf1 & Hfr1).
  unfold kipcm_pmap_add, mod_k. wp_steps. apply wp_ask. intros mem. destruct (hd true (s_mem s1)); cbn [negb]; wp_steps; cbn [Z.eqb negb].
  2:{ apply wp_give_up; [by eapply kinv_eq|apply Hf1|apply Hfr1]. }
  set (s2 := set_k _ _).
  assert (kinv asked owed s2) as Hi2.
  { destruct Hi1 as [H1 H2 H3 H4]. split; try done. intros p x Hin. destruct (H3 p x Hin) as (? & ? & ? & ?). split_and!; try done.
    cbn [s2 s_k set_k set_ingress ingress]. rewrite hmap_find_add_ne; [done|]. intros ->. apply (fr_new _ _ _ Hf1).
    by apply (list_elem_of_fmap_2 fst _ (pid, x)). }
  assert (fresh pid owed s2) as Hf2 by (destruct Hf1; by split).
  assert (hmap_find (ingress (s_k s2)) pid = Some e) as Hg2 by (cbn; by rewrite Z.eqb_refl).
  assert (s_junk s2 = s_junk s) as Hj2 by apply Hfr1.
  wp_steps. destruct (Z.eqb_spec user_id 0) as [Eu|Eu]; cbn [negb].
  - destruct (Hs Eu) as [fs ->]. apply wp_bind. eapply wp_mono; [by apply wp_create|]. intros r s3 (Hi3 & Hr3 & Hg3 & Hfr3).
    assert (s_junk s3 = s_junk s) as Hj3 by (rewrite <- Hj2; apply Hfr3). wp_steps.
    destruct (negb (r =? 0)); [apply wp_give_up; [done|apply Hf2|done]|]. apply wp_ret. split; [done|]. split; [done|].
    apply kinv_pending_reserved; try done; [apply Hf2|apply Hf2|by rewrite Hg3].
  - destruct (ipcp_imap_find _ user_id); apply wp_ret; cbv beta iota.
    + apply wp_ret. split; [done|]. split; [done|]. apply kinv_pending_reserved; try done; apply Hf2.
    + apply wp_give_up; [done|apply Hf2|done].
Qed.

(** The fields of a request. *)
Record req := mk_req { q_user : Z; q_ipc : Z; q_event : Z; q_local : option name; q_remote : option name; q_spec : option flow_spec }.

Definition request_view (m : irati_msg) : option req :=
  user ← field irati_msg_base 3 m; ipc ← field irati_msg_base 4 m; e ← field irati_msg_base 5 m;
  match m.(im_ptrs) with
  | [PName local; PName remote; _; PFlowSpec spec] => Some (mk_req user ipc e local remote spec)
  | _ => None
  end.

Lemma request_view_inv m q :
  request_view m = Some q ->
  field irati_msg_base 3 m = Some q.(q_user) /\ field irati_msg_base 4 m = Some q.(q_ipc) /\ field irati_msg_base 5 m = Some q.(q_event) /\
  exists d, m.(im_ptrs) = [PName q.(q_local); PName q.(q_remote); d; PFlowSpec q.(q_spec)].
Proof. unfold request_view. intros E. repeat (case_match || simplify_option_eq); try done. split_and!; try done. by eexists. Qed.

Definition request_op (q : req) (u : user_ipcp) (pid : Z) : ipcp_op := flow_allocate_request u q.(q_local) q.(q_remote) q.(q_spec) pid.
Abbreviation prepare q := (allocate_flow_prepare max_sdu_size q.(q_user) q.(q_ipc) q.(q_event) q.(q_spec)).

(** What is pending once the IPC process was called. *)
Definition handed owed (pid e : Z) (o : op_out) : list (Z * Z) := if o.(out_r) =? 0 then (pid, e) :: owed else owed.
Definition owed_request owed s (q : req) : list (Z * Z) :=
  match prepare q s with
  | Some (Some (i, u, pid), s1) =>
      match enter_op q.(q_ipc) (request_op q u pid) s1 with
      | Some (o, _) => foldl settle (handed owed pid q.(q_event) o) o.(out_calls)
      | None => owed
      end
  | _ => owed
  end.

(** A request the KIPCM can serve: a port id is to be had, the IPC process it is for, if it exists, allocates
    flows, and behaves. *)
Definition request_ok owed s (q : req) : Prop :=
  port_free s /\ in_u 32 q.(q_event) /\ (q.(q_user) = 0 -> is_Some q.(q_spec)) /\
  forall i u pid s1, prepare q s = Some (Some (i, u, pid), s1) ->
    has_op T_flow_allocate_request i = true /\
    forall o s2, enter_op q.(q_ipc) (request_op q u pid) s1 = Some (o, s2) -> cbs_ok (handed owed pid q.(q_event) o) s2 o.(out_calls).

Lemma foldl_settle_sub l : forall owed x, x ∈ (foldl settle owed l).*1 -> x ∈ owed.*1.
Proof.
  induction l as [|c l IH]; intros owed x Hx; [done|]. apply IH in Hx. destruct c; try done. cbn in Hx.
  apply list_elem_of_fmap in Hx as (y & -> & Hy%hmap_remove_sub). by apply list_elem_of_fmap_2.
Qed.

Lemma wp_fail asked owed s port ipc_id e :
  kinv asked owed s -> in_u 32 e ->
  wp (alloc_flow_req_reply port ipc_id (-1) e Pidm.port_id_bad) s (fun _ s' => kinv (asked ++ [e]) owed s').
Proof. intros Hi He. eapply wp_mono; [by apply wp_answer|]. cbv beta. tauto. Qed.

Lemma wp_request asked owed s port m q :
  kinv asked owed s -> request_view m = Some q -> request_ok owed s q ->
  wp (notify_ipcp_allocate_flow_request max_sdu_size port m) s (fun _ s' => kinv (asked ++ [q.(q_event)]) (owed_request owed s q) s').
Proof.
  intros Hi Hq (Hp & He & Hs & Hop). destruct (request_view_inv m q Hq) as (H3 & H4 & H5 & d & Hps).
  unfold notify_ipcp_allocate_flow_request, src_ipcp_id, dest_ipcp_id, event_id, fld, ptr_at. rewrite H3, H4, H5, Hps.
  cbn [lookup list_lookup mbind option_bind as_name as_flow_spec]. wp_steps.
  destruct (wp_prepare asked owed s q.(q_user) q.(q_ipc) q.(q_event) q.(q_spec) Hi Hp He Hs) as (p & s1 & E & Hj & Hpre).
  exists p, s1. split; [done|]. unfold owed_request. rewrite E. destruct p as [[[i u] pid]|]; [|by apply wp_fail].
  destruct Hpre as [_ Hi1]. destruct (Hop i u pid s1 E) as [Hh Hc]. destruct (enter_op_run q.(q_ipc) (request_op q u pid) s1) as (o & s2 & E2 & _).
  rewrite E2. specialize (Hc o s2 E2). apply wp_bind. unfold handed in *. destruct (Z.eqb_spec (out_r o) 0) as [Er|Er].
  - eapply wp_mono; [by eapply (wp_op _ _ _ _ i (request_op q u pid))|]. cbv beta. intros o' s3 (-> & Hi3 & _).
    rewrite Er. by apply wp_ret.
  - destruct (kinv_unpend _ _ _ _ _ Hi1) as [Hi1' Hn].
    eapply wp_mono; [by eapply (wp_op _ _ _ _ i (request_op q u pid))|]. cbv beta. intros o' s3 (-> & Hi3 & _).
    rewrite (proj2 (Z.eqb_neq _ _) Er). cbn [negb]. apply wp_bind. eapply wp_mono; [apply wp_release; [done|]|].
    + intros Hx. apply Hn. by apply foldl_settle_sub in Hx.
    + intros _ s4 (Hi4 & _). by apply wp_fail.
Qed.

(** ** Other events *)

Lemma owed_not_bad asked owed s pid : kinv asked owed s -> Pidm.is_port_id_ok pid = false -> pid ∉ owed.*1.
Proof. intros Hi Hb ([x e] & -> & Hin)%list_elem_of_fmap. destruct (ki_owed _ _ _ Hi _ _ Hin) as (_ & H & _). cbn in *. congruence. Qed.

(** A response to a request that arrived, for an IPC process that exists. *)
Definition response_op (k : kipcm) (user_id event result : Z) : ipcp_op :=
  flow_allocate_response (if negb (user_id =? 0) then (if ipcp_imap_find k.(instances) user_id then Some (UIpcp user_id) else None) else Some UKfa)
    (kipcm_smap_find k.(egress) event) (swrap 8 result).

Definition without_event (event : Z) s : ksys := set_k (set_egress (hmap_remove s.(s_k).(egress) event) s.(s_k)) s.

Definition response_ok owed s (user_id ipc_id event result : Z) : Prop :=
  exists i, ipcp_imap_find s.(s_k).(instances) ipc_id = Some i /\
    op_ok owed (without_event event s) ipc_id i (response_op s.(s_k) user_id event result).

Definition owed_op owed s (ipc_id : Z) (op : ipcp_op) : list (Z * Z) :=
  match enter_op ipc_id op s with Some (o, _) => foldl settle owed o.(out_calls) | None => owed end.

(** A response that finds no port id changes nothing. *)
Definition owed_response owed s (user_id ipc_id event result : Z) : list (Z * Z) :=
  if Pidm.is_port_id_ok (kipcm_smap_find s.(s_k).(egress) event)
  then owed_op owed (without_event event s) ipc_id (response_op s.(s_k) user_id event result) else owed.

Definition response_fields (m : irati_msg) (user_id ipc_id event result : Z) : Prop :=
  field irati_msg_base 3 m = Some user_id /\ field irati_msg_base 4 m = Some ipc_id /\ field irati_msg_base 5 m = Some event /\
  field irati_kmsg_ipcm_allocate_flow_resp 6 m = Some result.

Lemma wp_response asked owed s m user_id ipc_id event result :
  kinv asked owed s -> response_fields m user_id ipc_id event result -> response_ok owed s user_id ipc_id event result ->
  wp (notify_ipcp_allocate_flow_response max_sdu_size m) s (fun _ s' => kinv asked (owed_response owed s user_id ipc_id event result) s').
Proof.
  intros Hi (H3 & H4 & H5 & H6) (i & Ei & Hh & Hc).
  unfold notify_ipcp_allocate_flow_response, src_ipcp_id, dest_ipcp_id, event_id, fld, get_k. rewrite H3, H4, H5, H6. wp_steps.
  rewrite Ei. unfold owed_response. destruct (Pidm.is_port_id_ok _) eqn:Ep; cbn [negb].
  2:{ apply wp_bind. eapply wp_mono; [apply wp_release; [done|by eapply owed_not_bad]|]. intros _ s' (Hi' & _). by apply wp_ret. }
  unfold kipcm_smap_remove, get_k, mod_k. wp_steps. unfold kipcm_smap_find in Ep.
  destruct (hmap_find (egress (s_k s)) event) as [pid|] eqn:Ef; [|done]. wp_steps. cbn [Z.eqb negb].
  fold (without_event event s). set (s1 := without_event event s) in *.
  assert (kinv asked owed s1) as Hi1 by by eapply kinv_eq.
  destruct (enter_op_run ipc_id (response_op (s_k s) user_id event result) s1) as (o & s2 & E2 & _). unfold owed_op. rewrite E2.
  apply wp_bind. eapply wp_mono; [by eapply (wp_op _ _ _ _ i (response_op (s_k s) user_id event result)); [|..|eapply Hc]|].
  cbv beta. intros o' s3 (_ & Hi3 & _). by apply wp_ret.
Qed.

(** A deallocation: a port id that the IPC process gives up is not pending. *)
Definition dealloc_ok owed s (ipc_id pid : Z) : Prop :=
  forall i, ipcp_imap_find s.(s_k).(instances) ipc_id = Some i ->
    op_ok owed s ipc_id i (flow_deallocate pid) /\
    forall o s1, enter_op ipc_id (flow_deallocate pid) s = Some (o, s1) -> o.(out_r) = 0 -> pid ∉ (foldl settle owed o.(out_calls)).*1.

Definition owed_dealloc owed s (ipc_id pid : Z) : list (Z * Z) :=
  match ipcp_imap_find s.(s_k).(instances) ipc_id with
  | Some _ => owed_op owed s ipc_id (flow_deallocate pid)
  | None => owed
  end.

Lemma wp_dealloc asked owed s m ipc_id port :
  kinv asked owed s -> field irati_msg_base 4 m = Some ipc_id -> field irati_kmsg_multi_msg 7 m = Some port -> dealloc_ok owed s ipc_id (s32 port) ->
  wp (notify_ipcp_deallocate_flow_request max_sdu_size m) s (fun _ s' => kinv asked (owed_dealloc owed s ipc_id (s32 port)) s').
Proof.
  intros Hi H4 H7 Hd. unfold notify_ipcp_deallocate_flow_request, dest_ipcp_id, fld, get_k. rewrite H4, H7. wp_steps. unfold owed_dealloc.
  destruct (ipcp_imap_find _ ipc_id) as [i|] eqn:Ei; [|by apply wp_ret]. destruct (Hd i Ei) as [[Hh Hc] Hn].
  destruct (enter_op_run ipc_id (flow_deallocate (s32 port)) s) as (o & s2 & E2 & _). unfold owed_op. rewrite E2.
  apply wp_bind. eapply wp_mono; [by eapply (wp_op _ _ _ _ i (flow_deallocate (s32 port))); [|..|eapply Hc]|].
  cbv beta. intros o' s3 (-> & Hi3 & _). destruct (Z.eqb_spec (out_r o) 0) as [Er|Er]; cbn [negb]; [|by apply wp_ret].
  apply wp_bind. eapply wp_mono; [apply wp_release; [done|by eapply Hn]|]. intros _ s4 (Hi4 & _). by apply wp_ret.
Qed.

(** The registry of IPC processes has nothing to do with requests. *)
Lemma wp_next_out asked owed s (Q : op_out -> ksys -> Prop) :
  kinv asked owed s -> (forall o s', kinv asked owed s' -> s'.(s_k).(instances) = s.(s_k).(instances) -> Q o s') -> wp next_out s Q.
Proof.
  intros Hi HQ. unfold wp, next_out. destruct (world (s_k s)); (eexists _, _; split; [reflexivity|]; apply HQ; [by eapply kinv_eq|done]).
Qed.

Lemma wp_create_ipcp asked owed s n id port f :
  kinv asked owed s -> wp (kipcm_ipc_create n id port f) s (fun _ s' => kinv asked owed s').
Proof.
  intros Hi. unfold kipcm_ipc_create, get_k. apply wp_if; intros _; [by apply wp_ret|]. apply wp_bind, wp_ask. intros mem.
  apply wp_if; intros _; [apply wp_ret; by eapply kinv_eq|]. wp_steps. set (s1 := mk_sys _ _ mem _).
  assert (kinv asked owed s1) as Hi1 by by eapply kinv_eq.
  destruct (ipcp_imap_find _ _); [by apply wp_ret|]. apply wp_if; intros _; [by apply wp_ret|].
  apply wp_bind. apply (wp_next_out asked owed); [done|]. intros o s2 Hi2 _. apply wp_if; intros _; [by apply wp_ret|].
  unfold ipcp_imap_add, mod_k. wp_steps. apply wp_ask. intros mem'. apply wp_if; intros _; wp_steps; cbn [Z.eqb negb].
  - wp_steps. apply (wp_next_out asked owed); [by eapply kinv_eq|]. intros o' s3 Hi3 _. by apply wp_ret.
  - apply wp_ret. by eapply kinv_eq.
Qed.

Lemma wp_destroy_ipcp asked owed s id : kinv asked owed s -> wp (kipcm_ipc_destroy id) s (fun _ s' => kinv asked owed s').
Proof.
  intros Hi. unfold kipcm_ipc_destroy, get_k. wp_steps. destruct (ipcp_imap_find _ _); [|by apply wp_ret].
  apply wp_bind. apply (wp_next_out asked owed); [done|]. intros o s2 Hi2 _. apply wp_if; intros _; [by apply wp_ret|].
  unfold ipcp_imap_remove, get_k, mod_k. wp_steps. destruct (hmap_find _ _); wp_steps; [by eapply kinv_eq|done].
Qed.

(** The name of the user of a flow decides on the boundaries only. *)
Lemma kfa_flow_create_named pid ipc_id n b e :
  n.(entity_name) = Some e -> exists b', kfa_flow_create max_sdu_size pid ipc_id (Some n) b = kfa_flow_create max_sdu_size pid ipc_id None b'.
Proof. intros E. unfold kfa_flow_create. rewrite E. by eexists. Qed.

(** A port for an IPC process or an application: the preparation of the IPC process calls nothing. *)
Definition port_ok s (process : option name) : Prop :=
  port_free s /\ (forall o s1, next_out s = Some (o, s1) -> o.(out_calls) = []) /\
  exists n e, process = Some n /\ n.(entity_name) = Some e /\ is_Some (ipcp_imap_find_by_name walk s.(s_k).(instances) process).

Lemma wp_prebind asked owed s s0 ipc_id i op :
  kinv asked owed s -> has_op (tag_of op) i = true -> (forall o s1, next_out s0 = Some (o, s1) -> o.(out_calls) = []) -> s.(s_k).(world) = s0.(s_k).(world) ->
  wp (call_op max_sdu_size ipc_id i op ;;; ret tt) s (fun _ s' => kinv asked owed s' /\ kfa_s s' = kfa_s s).
Proof.
  intros Hi Hh Hc Hw. destruct (enter_op_run ipc_id op s) as (o & s1 & E & Hk & Hg & Hs & _).
  assert (out_calls o = []) as Ho.
  { unfold enter_op, log_told, mod_k, bind, modify, next_out in E. unfold next_out in Hc. cbn in E. rewrite Hw in E.
    destruct (world (s_k s0)); simplify_eq; [done|]. by eapply Hc. }
  unfold call_op. rewrite Hh. cbn [negb]. wp_steps. exists o, s1. split; [done|]. rewrite Ho. cbn [run_callbacks]. wp_steps.
  split; [|done]. eapply kinv_eq; [done|done|done|by rewrite Hs].
Qed.

Lemma wp_port asked owed s ipc_id b process :
  kinv asked owed s -> port_ok s process ->
  wp (kipcm_flow_create max_sdu_size walk ipc_id b process) s (fun _ s' => kinv asked owed s').
Proof.
  intros Hi (Hp & Hc & n & en & -> & En & [user Hu]). unfold kipcm_flow_create, get_k. wp_steps.
  destruct (ipcp_imap_find _ _) as [i|]; [|by apply wp_ret]. apply wp_bind. eapply wp_mono; [by apply wp_reserve|].
  intros pid s1 (Hi1 & Hf1 & Hfr1). rewrite (fr_ok _ _ _ Hf1). cbn [negb]. rewrite Hu.
  apply wp_bind. apply wp_mono with (Q := fun _ s2 => kinv asked owed s2 /\ kfa_s s2 = kfa_s s1).
  { apply wp_if; intros Hh; [|by apply wp_ret]. eapply wp_prebind; [done|done|done|apply Hfr1]. }
  intros _ s2 [Hi2 Hk2]. destruct user; [by apply wp_ret|]. apply wp_bind.
  assert (fresh pid owed s2) as Hf2 by (destruct Hf1; split; by rewrite ?Hk2).
  destruct (kfa_flow_create_named pid ipc_id n b en En) as [b' ->]. eapply wp_mono; [by apply wp_create|]. intros r s3 (Hi3 & _).
  apply wp_if; intros _; [|by apply wp_ret]. apply wp_bind. eapply wp_mono; [apply wp_release; [done|apply Hf2]|].
  intros _ s4 (Hi4 & _). by apply wp_ret.
Qed.
End Inv.
