(* ===== verification/KipcmRuns.v ===== *)
(** * Runs of the KIPCM

    Messages of the daemons about flows, calls of IPC processes, changes of the registry and steps of
    the KFA in any order: requests are answered once.  And runs in which the KIPCM goes wrong. *)

From S2P Require Import Prelude Ids Rds Kucommon Config Policies Wire MsgLayout Messages Hmap Kfa KfaInv KfaPids Prog Ctrldev Kipcm KipcmLaws KipcmInv.
From Stdlib Require Import ZArith Lia String.
From stdpp Require Import base list numbers option gmap sets relations sorting.
#[local] Open Scope Z_scope.
#[local] Open Scope prog_scope.

Inductive kevent :=
| ERequest (ctrl_port : Z) (m : irati_msg)
| EResponse (m : irati_msg)
| EDealloc (m : irati_msg)
| ECallback (c : callback)
| ECreate (n : option name) (id port : Z) (factory : string_ptr)
| EDestroy (id : Z)
| EPort (ipc_id : Z) (boundaries : bool) (process : option name).

Section Runs.
Context (max_sdu_size : Z -> Z) (walk : hmap_of ipcp_instance -> hmap_of ipcp_instance).
Implicit Types (s : ksys) (owed : list (Z * Z)).

Definition exec (ev : kevent) : KM Z :=
  match ev with
  | ERequest port m => notify_ipcp_allocate_flow_request max_sdu_size port m
  | EResponse m => notify_ipcp_allocate_flow_response max_sdu_size m
  | EDealloc m => notify_ipcp_deallocate_flow_request max_sdu_size m
  | ECallback c => run_callback max_sdu_size c
  | ECreate n id port f => kipcm_ipc_create n id port f
  | EDestroy id => kipcm_ipc_destroy id
  | EPort ipc_id b process => kipcm_flow_create max_sdu_size walk ipc_id b process
  end.

(** What is required of a message, of the IPC process that is called for it, and of what IPC processes
    call. *)
Definition ev_ok owed s (ev : kevent) : Prop :=
  match ev with
  | ERequest _ m => exists q, request_view m = Some q /\ request_ok max_sdu_size owed s q
  | EResponse m => exists u i e r, response_fields m u i e r /\ response_ok max_sdu_size owed s u i e r
  | EDealloc m => exists i port, field irati_msg_base 4 m = Some i /\ field irati_kmsg_multi_msg 7 m = Some port /\
                    dealloc_ok max_sdu_size owed s i (s32 port)
  | ECallback c => cb_ok max_sdu_size owed s c
  | ECreate _ _ _ _ | EDestroy _ => True
  | EPort _ _ process => port_ok walk s process
  end.

Definition owed_after owed s (ev : kevent) : list (Z * Z) :=
  match ev with
  | ERequest _ m => match request_view m with Some q => owed_request max_sdu_size owed s q | None => owed end
  | EResponse m =>
      match field irati_msg_base 3 m, field irati_msg_base 4 m, field irati_msg_base 5 m, field irati_kmsg_ipcm_allocate_flow_resp 6 m with
      | Some u, Some i, Some e, Some r => owed_response owed s u i e r
      | _, _, _, _ => owed
      end
  | EDealloc m =>
      match field irati_msg_base 4 m, field irati_kmsg_multi_msg 7 m with
      | Some i, Some port => owed_dealloc owed s i (s32 port)
      | _, _ => owed
      end
  | ECallback c => settle owed c
  | _ => owed
  end.

Definition asked_after (asked : list Z) (ev : kevent) : list Z :=
  match ev with
  | ERequest _ m => asked ++ option_list (q_event <$> request_view m)
  | _ => asked
  end.

(** A state of a run: the requests so far, those that are pending, the state of the KIPCM.  Between two
    events the devices, the outcome of allocations and the plans of the IPC processes are anything, and the
    KFA takes steps that leave the port ids of pending requests reserved. *)
Abbreviation run := (list Z * list (Z * Z) * ksys)%type.

Inductive kstep : run -> run -> Prop :=
| k_event asked owed s ev r s' :
    ev_ok owed s ev -> exec ev s = Some (r, s') ->
    kstep (asked, owed, s) (asked_after asked ev, owed_after owed s ev, s')
| k_kfa asked owed s k :
    kfa_step max_sdu_size false s.(s_k).(kfa_of) k ->
    (forall pid, pid ∈ owed.*1 -> reserved k.(s_kfa) pid = true) ->
    kstep (asked, owed, s) (asked, owed, set_k (set_kfa k s.(s_k)) s)
| k_env asked owed s s' :
    s'.(s_k).(kfa_of) = s.(s_k).(kfa_of) -> s'.(s_k).(ingress) = s.(s_k).(ingress) -> s'.(s_k).(sent) = s.(s_k).(sent) ->
    s'.(s_k).(instances) = s.(s_k).(instances) -> s'.(s_k).(egress) = s.(s_k).(egress) ->
    kstep (asked, owed, s) (asked, owed, s').

Lemma wp_event asked owed s ev :
  kinv max_sdu_size asked owed s -> ev_ok owed s ev ->
  wp (exec ev) s (fun _ s' => kinv max_sdu_size (asked_after asked ev) (owed_after owed s ev) s').
Proof.
  intros Hi He. destruct ev as [port m|m|m|c|n id port f|id|ipc_id b process]; cbn [exec ev_ok asked_after owed_after] in *.
  - destruct He as (q & Hq & Hok). rewrite Hq. by apply wp_request.
  - destruct He as (u & i & e & r & Hf & Hok). pose proof Hf as (-> & -> & -> & ->). by apply wp_response.
  - destruct He as (i & port & H4 & H7 & Hok). rewrite H4, H7. by apply wp_dealloc.
  - eapply wp_mono; [by apply wp_cb|]. cbv beta. tauto.
  - by apply wp_create_ipcp.
  - by apply wp_destroy_ipcp.
  - by apply wp_port.
Qed.

Definition step_ok (x : run) : Prop := let '(asked, owed, s) := x in kinv max_sdu_size asked owed s.

Lemma step_kinv x y : step_ok x -> kstep x y -> step_ok y.
Proof.
  intros Hi Hs. destruct Hs as [asked owed s ev r s' Hok E|asked owed s k Hk Hr|asked owed s s' H1 H2 H3 H4 H5]; cbn in *.
  - destruct (wp_event asked owed s ev Hi Hok) as (r' & s1 & E1 & H1). rewrite E in E1. by simplify_eq.
  - destruct Hi as [K1 K2 K3 K4]. split; try done; [by eapply rtc_r|].
    intros pid e Hin. destruct (K3 pid e Hin) as (_ & ? & ? & ?). split_and!; try done. by apply Hr, (list_elem_of_fmap_2 fst _ (pid, e)).
  - eapply kinv_eq; [done|done|done|by rewrite H3].
Qed.

Lemma run_kinv x y : step_ok x -> rtc kstep x y -> step_ok y.
Proof. intros Hx Hr. induction Hr; eauto using step_kinv. Qed.

(** No request yet. *)
Definition kinit s : Prop := s.(s_k).(kfa_of) = kfa_init /\ s.(s_k).(ingress) = [] /\ s.(s_k).(sent) = [].

Lemma init_kinv s : kinit s -> kinv max_sdu_size [] [] s.
Proof. intros (H1 & H2 & H3). split; rewrite ?H1, ?H2, ?H3; [by left|by constructor|by intros pid e ?%elem_of_nil|done]. Qed.

(** C15: requests to allocate a flow are answered exactly once, each with its own event id.  Whatever the order
    of requests, responses and deallocations of the daemons, of reports of the IPC processes (each on
    a port id it was given, once), of changes of the registry and of steps of the KFA: the requests so far
    are, up to order, those whose answer was given to the control device and those that are pending.  The pending ones have
    distinct port ids, which are reserved and under which their event ids are found, although entries of
    requests that failed stay in the map.  The KIPCM uses the KFA as the KFA requires, so that its state is
    one its theorems are about; and no event that meets its requirements faults. *)
Theorem kipcm_answers_once (s0 s : ksys) (asked : list Z) (owed : list (Z * Z)) :
  kinit s0 -> rtc kstep ([], [], s0) (asked, owed, s) ->
  asked ≡ₚ answers s.(s_k).(sent) ++ owed.*2 /\ NoDup owed.*1 /\
  (forall pid e, (pid, e) ∈ owed ->
    reserved s.(s_k).(kfa_of).(s_kfa) pid = true /\ kipcm_pmap_find s.(s_k).(ingress) pid = e) /\
  Kfa.reachable max_sdu_size false s.(s_k).(kfa_of) /\
  forall ev, ev_ok owed s ev -> is_Some (exec ev s).
Proof.
  intros H0 Hr. assert (step_ok (asked, owed, s)) as Hi.
  { apply (run_kinv ([], [], s0)); [by apply init_kinv|done]. }
  cbn in Hi. split; [apply Hi|]. split; [apply Hi|]. split; [|split; [apply Hi|]].
  - intros pid e Hin. destruct (ki_owed _ _ _ _ Hi pid e Hin) as (? & _ & Hg & _). split; [done|]. unfold kipcm_pmap_find. by rewrite Hg.
  - intros ev Hok. destruct (wp_event asked owed s ev Hi Hok) as (r & s' & E & _). by exists (r, s').
Qed.
End Runs.
