(* ===== verification/KipcmCtl.v ===== *)
(** * From the control device to the IPC process and back

    A daemon writes a serialised request to the control device, the KIPCM reads it, calls the operation of
    the IPC process and sends a reply, and the daemon reads the reply.  Shown for the requests that are
    answered at once with a result: those about DIFs, about applications and about policy sets. *)

From S2P Require Import Prelude Ids Rds Kucommon Config Policies Wire MsgLayout Messages Hmap Kfa Prog Ctrldev Kipcm KipcmLaws.
From Stdlib Require Import ZArith Lia.
From stdpp Require Import base list numbers option gmap.
Import Rqueue Rfifo FifoList.
#[local] Open Scope Z_scope.
#[local] Open Scope prog_scope.

(** ** Queues of devices *)

Section Devices.
Context {Cb K : Type}.
Implicit Types s : sys Cb K.

Lemma private_data_put l f p p' : private_data l f = Some p -> private_data (put_dev f p' l) f = Some p'.
Proof.
  induction l as [|[g x] l IH]; cbn; [done|]. destruct (Nat.eqb_spec g f) as [->|Hn]; cbn; [by rewrite Nat.eqb_refl|].
  rewrite (proj2 (Nat.eqb_neq _ _) Hn). auto.
Qed.

(** The queue of an open file. *)
Definition queue s (f : nat) (port : Z) (l : list msg_queue_entry) : Prop :=
  exists p, private_data s.(s_dm).(ctrl_devs) f = Some p /\ p.(p_port) = port /\ fifo_holds p.(pending_msgs) l.

(** Messages for a port are put in the queue of this file. *)
Definition bound s (f : nat) (port : Z) (l : list msg_queue_entry) : Prop :=
  exists p, private_data s.(s_dm).(ctrl_devs) f = Some p /\ get_ctrl_dev s.(s_dm).(ctrl_devs) port = Some (f, p) /\
    p.(p_port) = port /\ fifo_holds p.(pending_msgs) l.

Lemma wp_ask_nil s (Q : bool -> sys Cb K -> Prop) : s.(s_mem) = [] -> Q true s -> wp ask s Q.
Proof. destruct s as [dm k mem j]. cbn. intros -> H. by exists true, (mk_sys dm k [] j). Qed.

Lemma wp_post_queue entry f port l s :
  s.(s_mem) = [] -> bound s f port l -> Z.of_nat (length l) < 2 ^ 32 ->
  wp (ctrl_dev_data_post entry port) s (fun r s' => r = 0 /\ queue s' f port (l ++ [entry]) /\ same_k s s' /\ s'.(s_mem) = []).
Proof.
  intros Hm (p & Hp & Hg & Hport & Hq) Hl. unfold ctrl_dev_data_post, get_dm, mod_dm. wp_steps. rewrite Hg.
  pose proof (fifo_holds_push _ _ entry true Hq Hl) as Hpush. destruct Hq as (q & Eq & Hwf & Hh). rewrite Eq in *.
  apply wp_bind, wp_ask_nil; [done|]. cbn [rfifo_push lift_push rqueue_tail_push_gfp entry_create] in *.
  wp_steps. split; [done|]. split; [|done].
  eexists. split; [by eapply private_data_put|]. split; [done|]. exact Hpush.
Qed.

Lemma wp_snd_queue m t f port l s :
  let bs := m.(im_plain) ++ List.concat (map serialize_ptr m.(im_ptrs)) in
  msg_ok t m -> Forall (fun p => p <> PBuffer None) m.(im_ptrs) -> 0 < Z.of_nat (length bs) < 2 ^ 31 ->
  s.(s_mem) = [] -> bound s f port l -> Z.of_nat (length l) < 2 ^ 32 ->
  wp (irati_ctrl_dev_snd_resp_msg port m) s
    (fun r s' => r = 0 /\ queue s' f port (l ++ [mk_entry bs (Z.of_nat (length bs))]) /\ same_k s s' /\ s'.(s_mem) = []).
Proof.
  intros bs Hok Hb Hs Hm Hq Hl. destruct (serialised t m Hok Hb (proj2 Hs)) as [Hn Hse]. fold bs in Hn, Hse.
  unfold irati_ctrl_dev_snd_resp_msg, IRATI_RINA_C_MAX. apply wp_bind, wp_ask_nil; [done|]. cbn [negb]. rewrite Hn.
  apply wp_bind, wp_ask_nil; [done|]. cbn [negb]. rewrite Hse, Z.ltb_irrefl. rewrite (proj2 (Z.leb_gt _ _)) by lia.
  rewrite Nat2Z.id, Nat.sub_diag. cbn [repeat]. rewrite app_nil_r, uwrap_small by (unfold in_u; lia).
  apply wp_bind. eapply wp_mono; [by apply wp_post_queue|]. intros r s' (-> & H). by apply wp_ret.
Qed.

(** The oldest message of the queue is read whole. *)
Lemma wp_read f port e l size blocking s :
  queue s f port (e :: l) -> e.(serlen) = Z.of_nat (length e.(sermsg)) -> 0 < size -> e.(serlen) <= size ->
  wp (ctrldev_read f size blocking true) s (fun r s' => r = RDone e.(serlen) e.(sermsg) /\ queue s' f port l /\ same_k s s').
Proof.
  intros (p & Hp & Hport & Hq) He H0 Hs. unfold ctrldev_read, get_dm, mod_dm. wp_steps. rewrite Hp.
  pose proof (fifo_holds_peek _ _ Hq) as Hpk. destruct (fifo_holds_pop _ _ Hq) as [_ Hpop]. destruct (fifo_holds_length _ _ Hq) as [_ Hem].
  destruct (pending_msgs p) as [q|] eqn:Eq; [|by destruct Hq as (? & ? & _)].
  rewrite Hem, bool_decide_false, Hpk by done. cbn [hd_error].
  rewrite (proj2 (Z.eqb_neq _ _)), (proj2 (Z.ltb_ge _ _)) by lia. destruct (rfifo_pop (Some q)) as [e' q'] eqn:Ep. cbn [snd tail] in Hpop.
  wp_steps. rewrite He, Z.ltb_irrefl. apply wp_ret. rewrite Nat2Z.id, firstn_all. split; [done|]. split; [|done].
  eexists. split; [by eapply private_data_put|]. by split.
Qed.
End Devices.

(** ** Requests that are answered at once *)

(** The operation a request asks for, the type of the reply, and whether the IPC process may lack the
    operation; its result is then passed on as it is, and otherwise as success or failure. *)
Record asks := mk_asks { a_op : ipcp_op; a_reply : Z; a_optional : bool }.

Definition asks_of (h : kipcm_handler) (ps : list ptr) : option asks :=
  match h, ps with
  | Hassign_dif_request, [PName dif; PString type; PDifConfig cfg] =>
      Some (mk_asks (assign_to_dif dif type cfg) RINA_C_IPCM_ASSIGN_TO_DIF_RESPONSE false)
  | Hupdate_dif_config_request, [PDifConfig cfg] =>
      Some (mk_asks (update_dif_config cfg) RINA_C_IPCM_UPDATE_DIF_CONFIG_RESPONSE false)
  | Hregister_app_request, [PName app; PName daf; _] =>
      Some (mk_asks (application_register app daf) RINA_C_IPCM_REGISTER_APPLICATION_RESPONSE false)
  | Hunregister_app_request, [PName app; _] =>
      Some (mk_asks (application_unregister app) RINA_C_IPCM_UNREGISTER_APPLICATION_RESPONSE false)
  | Hset_policy_set_param, [PString path; PString name; PString value] =>
      Some (mk_asks (set_policy_set_param path name value) RINA_C_IPCP_SET_POLICY_SET_PARAM_RESPONSE true)
  | Hselect_policy_set, [PString path; PString name] =>
      Some (mk_asks (select_policy_set path name) RINA_C_IPCP_SELECT_POLICY_SET_RESPONSE true)
  | _, _ => None
  end.

(** The result, and what the IPC process was asked. *)
Definition outcome (s : ksys) (ipc_id : Z) (a : asks) : Z * list (Z * ipcp_op) :=
  match ipcp_imap_find s.(s_k).(instances) ipc_id with
  | None => (-1, [])
  | Some i =>
      if negb (has_op (tag_of a.(a_op)) i) then (-1, [])
      else
        let r := (hd (mk_out 0 [] [] [] []) s.(s_k).(world)).(out_r) in
        (if a.(a_optional) then r else if negb (r =? 0) then -1 else 0, [(ipc_id, a.(a_op))])
  end.

(** The IPC process, if it exists, has the operation or may lack it, and calls nobody meanwhile. *)
Definition can_serve (s : ksys) (ipc_id : Z) (a : asks) : Prop :=
  (forall i, ipcp_imap_find s.(s_k).(instances) ipc_id = Some i -> a.(a_optional) = false -> has_op (tag_of a.(a_op)) i = true) /\
  (hd (mk_out 0 [] [] [] []) s.(s_k).(world)).(out_calls) = [].

Section Ctl.
Context (max_sdu_size : Z -> Z) (walk : hmap_of ipcp_instance -> hmap_of ipcp_instance).
Implicit Types s : ksys.

Lemma wp_quiet_op s ipc_id i op :
  has_op (tag_of op) i = true -> (hd (mk_out 0 [] [] [] []) s.(s_k).(world)).(out_calls) = [] ->
  wp (call_op max_sdu_size ipc_id i op) s (fun o s' =>
    o = hd (mk_out 0 [] [] [] []) s.(s_k).(world) /\ s'.(s_k).(told) = s.(s_k).(told) ++ [(ipc_id, op)] /\
    s'.(s_dm) = s.(s_dm) /\ s'.(s_mem) = s.(s_mem) /\ s'.(s_junk) = s.(s_junk)).
Proof.
  intros Hh Hc. unfold call_op, enter_op, log_told, mod_k. rewrite Hh. cbn [negb]. wp_steps. unfold next_out, wp at 1.
  cbn [s_k set_k world]. destruct (world (s_k s)) as [|o w]; cbn [hd] in Hc |- *;
    (eexists _, _; split; [reflexivity|]); cbn [out_calls]; rewrite ?Hc; cbn [run_callbacks]; by wp_steps.
Qed.

(** The reply. *)
Definition reply s (type ipc_id event result : Z) : irati_msg :=
  mk_irati_msg (plain irati_msg_base_resp [type; s.(s_junk); s.(s_junk); ipc_id; 0; event; result]) [].

(** The state in which the reply is sent. *)
Definition asked_ipcp s ipc_id a s1 : Prop :=
  s1.(s_k).(told) = s.(s_k).(told) ++ (outcome s ipc_id a).2 /\ s1.(s_dm) = s.(s_dm) /\ s1.(s_mem) = s.(s_mem) /\ s1.(s_junk) = s.(s_junk).

Lemma wp_mandatory s ipc_id a (k : Z -> KM Z) Q :
  a.(a_optional) = false -> can_serve s ipc_id a ->
  (forall s1, asked_ipcp s ipc_id a s1 -> wp (k (outcome s ipc_id a).1) s1 Q) ->
  wp (let! x := get_k in
      match ipcp_imap_find x.(instances) ipc_id with
      | None => k (-1)
      | Some i => let! o := call_op max_sdu_size ipc_id i a.(a_op) in k (if negb (o.(out_r) =? 0) then -1 else 0)
      end) s Q.
Proof.
  intros Ho [Hh Hc] HQ. unfold get_k, asked_ipcp, outcome in *. wp_steps. rewrite Ho in *.
  destruct (ipcp_imap_find _ ipc_id) as [i|]; [|apply HQ; by rewrite app_nil_r].
  rewrite (Hh i eq_refl eq_refl) in HQ. apply wp_bind. eapply wp_mono; [apply wp_quiet_op; [by apply Hh|done]|].
  intros o s1 (-> & H). by apply HQ.
Qed.

Lemma wp_optional s ipc_id a (k : Z -> KM Z) Q :
  a.(a_optional) = true -> can_serve s ipc_id a ->
  (forall s1, asked_ipcp s ipc_id a s1 -> wp (k (outcome s ipc_id a).1) s1 Q) ->
  wp (let! r := optional_op max_sdu_size ipc_id a.(a_op) in k r) s Q.
Proof.
  intros Ho [Hh Hc] HQ. unfold optional_op, get_k, asked_ipcp, outcome in *. wp_steps. rewrite Ho in *.
  destruct (ipcp_imap_find _ ipc_id) as [i|]; [|apply wp_ret, HQ; by rewrite app_nil_r].
  destruct (has_op _ i) eqn:E; cbn [negb] in HQ |- *; [|apply wp_ret, HQ; by rewrite app_nil_r].
  apply wp_bind. eapply wp_mono; [by apply wp_quiet_op|]. intros o s1 (-> & H). apply wp_ret. by apply HQ.
Qed.

Lemma wp_served s h port m ipc_id event a Q :
  field irati_msg_base 4 m = Some ipc_id -> field irati_msg_base 5 m = Some event -> asks_of h m.(im_ptrs) = Some a -> can_serve s ipc_id a ->
  (forall s1, asked_ipcp s ipc_id a s1 -> wp (send_base_resp port a.(a_reply) ipc_id event (outcome s ipc_id a).1) s1 Q) ->
  wp (kipcm_invoke max_sdu_size walk h port m) s Q.
Proof.
  intros H4 H5 Ha Hc HQ. destruct h; try discriminate Ha; cbn [asks_of] in Ha; repeat (case_match; try discriminate Ha); simplify_eq.
  all: cbn [kipcm_invoke]; unfold notify_ipcp_assign_dif_request, notify_ipcp_update_dif_config_request, notify_ipcp_register_app_request,
      notify_ipcp_unregister_app_request, notify_ipcp_set_policy_set_param, notify_ipcp_select_policy_set, assign_to_dif_reply,
      update_dif_config_reply, reg_unreg_resp_reply, dest_ipcp_id, event_id, fld, ptr_at; rewrite H4, H5.
  all: match goal with E : im_ptrs _ = _ |- _ => rewrite E end; cbn [lookup list_lookup mbind option_bind as_name as_string as_dif_config].
  all: repeat apply wp_bind, wp_ret.
  all: match type of Hc with can_serve _ _ ?a =>
    first [apply (wp_mandatory s ipc_id a (fun v => send_base_resp port a.(a_reply) ipc_id event v) Q eq_refl Hc HQ)
          |apply (wp_optional s ipc_id a (fun v => send_base_resp port a.(a_reply) ipc_id event v) Q eq_refl Hc HQ)] end.
Qed.

(** ** Replies *)

Lemma asks_reply h ps a :
  asks_of h ps = Some a ->
  uwrap 16 a.(a_reply) = a.(a_reply) /\ table_lookup a.(a_reply) message_structs = Some irati_msg_base_resp /\
  a.(a_reply) <> RINA_C_APP_FLOW_DEALLOCATED_NOTIFICATION.
Proof. intros E. destruct h; try discriminate E; cbn [asks_of] in E; repeat (case_match; try discriminate E); by simplify_eq. Qed.

(** The bytes of a reply, and what is read from them. *)
Lemma reply_read s h ps a ipc_id event result junk :
  asks_of h ps = Some a ->
  let m := reply s a.(a_reply) ipc_id event result in
  msg_ok a.(a_reply) m /\ length m.(im_plain) = 19%nat /\
  deserialize_irati_msg irati_ker_numtables RINA_C_MAX m.(im_plain) 19 [] junk = Some (Some m).
Proof.
  intros (Hu & Ht & Hn)%asks_reply m.
  assert (msg_ok (a_reply a) m) as Hok.
  { rewrite <- Hu. apply plain_msg_ok; rewrite ?Hu; try done. repeat constructor; lia. }
  assert (length (im_plain m) = 19%nat) as Hl.
  { apply Nat2Z.inj. unfold m, reply, plain. cbn [im_plain]. rewrite length_enc; [done|repeat constructor; lia|cbn; lia]. }
  split; [done|]. split; [done|]. pose proof (read_back _ m junk Hok Hn) as Hr. cbn [reply m im_ptrs map List.concat] in Hr.
  rewrite app_nil_r in Hr. fold m in Hr. by rewrite Hl in Hr.
Qed.

Lemma reply_fields s type ipc_id event result :
  let m := reply s type ipc_id event result in
  field irati_msg_base_resp 0 m = Some (uwrap 16 type) /\ field irati_msg_base_resp 3 m = Some (uwrap 16 ipc_id) /\
  field irati_msg_base_resp 5 m = Some (uwrap 32 event) /\ field irati_msg_base_resp 6 m = Some (uwrap 8 result).
Proof. cbv zeta. split_and!; (unfold reply; erewrite field_plain; [|repeat constructor; lia|reflexivity|reflexivity]; reflexivity). Qed.

Lemma wp_reply s h ps a ipc_id event result f port l :
  asks_of h ps = Some a -> s.(s_mem) = [] -> bound s f port l -> Z.of_nat (length l) < 2 ^ 32 ->
  wp (send_base_resp port a.(a_reply) ipc_id event result) s (fun r s' =>
    r = 0 /\ queue s' f port (l ++ [mk_entry (reply s a.(a_reply) ipc_id event result).(im_plain) 19]) /\ s'.(s_k).(told) = s.(s_k).(told)).
Proof.
  intros Ha Hm Hb Hl. destruct (reply_read s h ps a ipc_id event result 0 Ha) as (Hok & Hlen & _).
  unfold send_base_resp. wp_steps. fold (reply s a.(a_reply) ipc_id event result). unfold send, mod_k. wp_steps.
  eapply wp_mono; [eapply (wp_snd_queue _ _ f port l); [exact Hok|done| |done|done|done]|].
  - cbn [reply im_ptrs map List.concat]. rewrite app_nil_r. fold (reply s a.(a_reply) ipc_id event result). rewrite Hlen. lia.
  - intros r s' (-> & Hq & Hk & _). apply wp_ret. split; [done|]. split; [|by rewrite (proj1 Hk)].
    cbn [reply im_ptrs map List.concat] in Hq. rewrite app_nil_r in Hq. fold (reply s a.(a_reply) ipc_id event result) in Hq. by rewrite Hlen in Hq.
Qed.

(** ** Requests as bytes *)

(** The handlers as [ctrldev_handlers_register] leaves them. *)
Definition registered s : Prop := forall t h, (t, h) ∈ kipcm_handlers -> s.(s_dm).(handlers) !! Z.to_nat t = Some (Some h).

Definition bytes (m : irati_msg) : list Z := m.(im_plain) ++ List.concat (map serialize_ptr m.(im_ptrs)).

Lemma handler_types t h : (t, h) ∈ kipcm_handlers -> t <> RINA_C_APP_FLOW_DEALLOCATED_NOTIFICATION.
Proof.
  assert (Forall (fun x : Z * kipcm_handler => x.1 <> RINA_C_APP_FLOW_DEALLOCATED_NOTIFICATION) kipcm_handlers) as H by by repeat constructor.
  rewrite Forall_forall in H. intros Hin. exact (H _ Hin).
Qed.

Lemma load_length n o l v : load n o l = Some v -> (o + n <= length l)%nat.
Proof. unfold load. case_decide; [done|discriminate]. Qed.

(** What is written for the kernel reaches the handler of its type, as the structure it was. *)
Lemma wp_write s f p t h m Q :
  registered s -> (t, h) ∈ kipcm_handlers -> msg_ok t m -> field irati_msg_base 2 m = Some 0 ->
  private_data s.(s_dm).(ctrl_devs) f = Some p -> s.(s_mem) = [] ->
  wp (kipcm_invoke max_sdu_size walk h p.(p_port) (msg_read m)) s
    (fun r s' => Q (if negb (r =? 0) then r else Z.of_nat (length (bytes m))) s') ->
  wp (ctrldev_write (kipcm_invoke max_sdu_size walk) f (bytes m) true []) s Q.
Proof.
  intros Hr Hin Hok H2 Hp Hm HQ. unfold ctrldev_write, get_dm. wp_steps. rewrite Hp.
  pose proof Hok as (st & Hst & _ & Ht & _). pose proof (message_structs_range _ _ Hst) as Hrange.
  change (field irati_msg_base 2 m) with (load 4 6 m.(im_plain)) in H2. pose proof (load_length _ _ _ _ H2) as Hlen.
  rewrite (proj2 (Z.ltb_ge _ _)) by (unfold bytes; rewrite length_app; lia).
  apply wp_bind, wp_ask_nil; [done|]. cbn [negb]. unfold bytes at 1. rewrite (load_app _ _ _ _ _ H2). cbn [Z.eqb negb].
  unfold bytes at 1. unfold msg_type in *. rewrite (load_app _ _ _ _ _ Ht). unfold IRATI_RINA_C_MAX. rewrite (proj2 (Z.leb_gt _ _)) by lia.
  pose proof (read_back t m (s_junk s) Hok (handler_types _ _ Hin)) as Hb. cbv zeta in Hb. fold (bytes m) in Hb.
  rewrite (Hr t h Hin). cbn [default id]. wp_steps. rewrite Hb.
  wp_steps. eapply wp_mono; [exact HQ|]. intros r s' H. by apply wp_ret.
Qed.

(** C16: a request about a DIF, an application or a policy set that a daemon writes to its
    control device as bytes is answered at once. Its handler calls the operation of the IPC
    process with what was in the message, and only it; the next read of the device gives one
    message, which deserialises to the reply of the right type, from that IPC process, with the
    event id of the request and with the result of the operation in its eight bits (-1 when
    there is no such IPC process, or when it lacks an operation the code tests for); nothing is
    left in the queue. Premises: the handlers are registered, the file is the one messages for
    its port go to, its queue is empty, memory is to be had, and the IPC process has the
    operations the code calls without a test and calls nobody meanwhile. *)
Theorem control_request_answered s (f : nat) (port t : Z) (h : kipcm_handler) (m : irati_msg) (ipc_id event : Z) (a : asks)
    (size : Z) (blocking : bool) (junk : Z) :
  registered s -> (t, h) ∈ kipcm_handlers -> msg_ok t m -> field irati_msg_base 2 m = Some 0 ->
  field irati_msg_base 4 m = Some ipc_id -> field irati_msg_base 5 m = Some event -> in_u 16 ipc_id -> in_u 32 event ->
  asks_of h (msg_read m).(im_ptrs) = Some a -> can_serve s ipc_id a ->
  bound s f port [] -> s.(s_mem) = [] -> 19 <= size ->
  exists s1 s2 bs r,
    ctrldev_write (kipcm_invoke max_sdu_size walk) f (bytes m) true [] s = Some (Z.of_nat (length (bytes m)), s1) /\
    s1.(s_k).(told) = s.(s_k).(told) ++ (outcome s ipc_id a).2 /\
    ctrldev_read f size blocking true s1 = Some (RDone 19 bs, s2) /\ queue s2 f port [] /\
    deserialize_irati_msg irati_ker_numtables RINA_C_MAX bs 19 [] junk = Some (Some r) /\
    field irati_msg_base_resp 0 r = Some a.(a_reply) /\ field irati_msg_base_resp 3 r = Some ipc_id /\
    field irati_msg_base_resp 5 r = Some event /\ field irati_msg_base_resp 6 r = Some (uwrap 8 (outcome s ipc_id a).1).
Proof.
  intros Hr Hin Hok H2 H4 H5 Hi He Ha Hs Hb Hm Hsz. pose proof Hb as (p & Hp & _ & Hport & _).
  set (Q := fun (r : Z) (s' : ksys) => r = 0 /\ exists s1, asked_ipcp s ipc_id a s1 /\
    queue s' f port [mk_entry (reply s1 a.(a_reply) ipc_id event (outcome s ipc_id a).1).(im_plain) 19] /\ s'.(s_k).(told) = s1.(s_k).(told)).
  assert (wp (kipcm_invoke max_sdu_size walk h (p_port p) (msg_read m)) s Q) as Hw.
  { eapply wp_served; [exact H4|exact H5|exact Ha|done|]. intros s1 H1. pose proof H1 as (_ & Hd & Hm1 & _). rewrite Hport.
    eapply wp_mono; [eapply (wp_reply s1 _ _ a _ _ _ f port []); [done|congruence| |cbn; lia]|].
    - unfold bound in *. by rewrite Hd.
    - intros r s' (-> & Hq & Ht). split; [done|]. by exists s1. }
  destruct (wp_write s f p t h m (fun v s' => v = Z.of_nat (length (bytes m)) /\ Q 0 s')) as (v & s1 & E1 & -> & _ & s0 & H0 & Hq & Ht); try done.
  { eapply wp_mono; [exact Hw|]. intros r s' HQ. pose proof HQ as [-> _]. by split. }
  destruct (reply_read s0 h _ a ipc_id event (outcome s ipc_id a).1 junk Ha) as (_ & Hlen & Hde).
  destruct (wp_read f port _ [] size blocking s1 Hq) as (rr & s2 & E2 & -> & Hq2 & _); cbn [serlen sermsg]; rewrite ?Hlen; try done; try lia.
  exists s1, s2, (im_plain (reply s0 a.(a_reply) ipc_id event (outcome s ipc_id a).1)), (reply s0 a.(a_reply) ipc_id event (outcome s ipc_id a).1).
  split; [done|]. split; [by rewrite Ht, (proj1 H0)|]. split; [done|]. split; [done|]. split; [done|].
  destruct (asks_reply _ _ _ Ha) as (Hu & _).
  destruct (reply_fields s0 a.(a_reply) ipc_id event (outcome s ipc_id a).1) as (F0 & F3 & F5 & F6).
  rewrite (uwrap_small 16) in F3 by done. rewrite (uwrap_small 32) in F5 by done. rewrite Hu in F0. done.
Qed.
End Ctl.
