(* ===== verification/KipcmExamples.v ===== *)
(** * Examples of the KIPCM

    A run of the KIPCM with a shim IPC process, and inputs on which the code goes wrong: messages of a
    daemon that make the kernel call a null pointer or follow an uninitialised one, the handler that
    stays registered, and the IPC process that survives its factory. *)

From S2P Require Import Prelude Ids Rds Kucommon Config Policies Wire MsgLayout Messages Hmap Kfa KfaInv KfaPids Prog Ctrldev Kipcm KipcmLaws KipcmInv KipcmRuns KipcmCtl.
From Stdlib Require Import ZArith Lia String.
From stdpp Require Import base list numbers option gmap sets relations.
#[local] Open Scope Z_scope.
#[local] Open Scope prog_scope.

Definition no_limit : Z -> Z := fun _ => 65535.
Definition in_order (m : hmap_of ipcp_instance) : hmap_of ipcp_instance := m.

Definition proc (s : string) : option name := Some (mk_name (Some (c_str s)) (Some (c_str "1")) (Some (c_str "")) (Some (c_str ""))).
Definition shim : ipcp_instance := mk_instance (c_str "shim-eth") (proc "shim") eth_instance_ops.
Definition normal : ipcp_instance := mk_instance (c_str "normal-ipc") (proc "normal") normal_instance_ops.

(** The device of the IPC manager daemon is bound; the handlers are those given. *)
Definition start (l : hmap_of ipcp_instance) (h : list (option kipcm_handler)) : ksys :=
  mk_sys (mk_dm [(0%nat, mk_priv IPCM_CTRLDEV_PORT false (Rfifo.rfifo_create_gfp true true))] h 0) (mk_kipcm [c_str "shim-eth"; c_str "normal-ipc"] l [] [] kfa_init [] [] []) [] 0.
Definition no_handlers : list (option kipcm_handler) := repeat None (Z.to_nat RINA_C_MAX).
Definition two : ksys := start [(1, shim); (2, normal)] no_handlers.

(** ** A run *)

(** A flow for an application, over an IPC process. *)
Definition request (ipc_id event : Z) : irati_msg :=
  mk_irati_msg (plain irati_kmsg_ipcm_allocate_flow [RINA_C_IPCM_ALLOCATE_FLOW_REQUEST; 1; 0; 0; ipc_id; event; 0; 0])
    [PName (proc "a"); PName (proc "b"); PName None; PFlowSpec (Some rina_fspec_create)].

Definition after (ev : kevent) (s : ksys) : ksys := default s (snd <$> exec no_limit in_order ev s).

(** The first request is accepted, the second one is for an IPC process that does not exist, and the
    report on the first one comes last. *)
Definition ev1 : kevent := ERequest 1 (request 1 77).
Definition ev2 : kevent := ERequest 1 (request 9 78).
Definition ev3 : kevent := ECallback (CbResult 1 1 0).
Definition run1 : ksys := after ev1 two.
Definition run2 : ksys := after ev2 run1.
Definition run3 : ksys := after ev3 run2.

Lemma port_free_now (s : ksys) p :
  s.(s_mem) = [] -> s.(s_k).(kfa_of).(s_kfa).(k_pidm) = Some p -> (length p.(Pidm.allocated_ports) < 10)%nat -> port_free s.
Proof.
  intros Hm Hp Hl. split; [by rewrite Hm|]. exists p. split; [done|]. unfold Pidm.turn. eapply Nat.lt_le_trans; [done|].
  apply Nat.leb_le. vm_compute. done.
Qed.

(** A request to an IPC process of this kind, which answers later. *)
Lemma request_now (s : ksys) q p :
  s.(s_mem) = [] -> s.(s_k).(kfa_of).(s_kfa).(k_pidm) = Some p -> (length p.(Pidm.allocated_ports) < 10)%nat ->
  0 <= q.(q_event) < 2 ^ 32 -> is_Some q.(q_spec) ->
  match allocate_flow_prepare no_limit q.(q_user) q.(q_ipc) q.(q_event) q.(q_spec) s with
  | Some (Some (i, _, _), s1) => has_op T_flow_allocate_request i = true /\ s1.(s_k).(world) = []
  | _ => True
  end ->
  forall owed, request_ok no_limit owed s q.
Proof.
  intros Hm Hp Hl He Hs Hw owed. split; [by eapply port_free_now|]. split; [done|]. split; [done|].
  intros i u pid s1 E. rewrite E in Hw. destruct Hw as [Hh Hw]. split; [done|]. intros o s2 E2.
  unfold enter_op, log_told, mod_k, bind, modify, next_out in E2. cbn [s_k set_k world] in E2. rewrite Hw in E2. by simplify_eq.
Qed.

Lemma kipcm_answers_once_witness :
  answers run3.(s_k).(sent) = [78; 77] /\
  [77; 78] ≡ₚ answers run3.(s_k).(sent) ++ [] /\
  [77; 78] ≡ₚ answers run2.(s_k).(sent) ++ [77] /\
  reserved run2.(s_k).(kfa_of).(s_kfa) 1 = true.
Proof.
  assert (kinit two) as H0 by done.
  assert (forall q, request_view (request 1 77) = Some q -> forall owed, request_ok no_limit owed two q) as R1.
  { intros q [= <-]. eapply request_now; [done|reflexivity|vm_compute; lia|by vm_compute|vm_compute; eauto|by vm_compute]. }
  assert (forall q, request_view (request 9 78) = Some q -> forall owed, request_ok no_limit owed run1 q) as R2.
  { intros q [= <-]. eapply request_now; [by vm_compute|by vm_compute|vm_compute; lia|by vm_compute|vm_compute; eauto|by vm_compute]. }
  assert (rtc (kstep no_limit in_order) ([], [], two) ([77; 78], [(1, 77)], run2)) as H2.
  { eapply rtc_l; [eapply (k_event _ _ [] [] two ev1 0 run1); [eexists; split; [reflexivity|by apply R1]|by vm_compute]|].
    eapply rtc_l; [eapply (k_event _ _ _ _ run1 ev2 0 run2); [eexists; split; [reflexivity|by apply R2]|by vm_compute]|].
    apply reflexive_eq. by vm_compute. }
  assert (rtc (kstep no_limit in_order) ([], [], two) ([77; 78], [], run3)) as H3.
  { eapply rtc_r; [exact H2|]. apply (k_event no_limit in_order [77; 78] [(1, 77)] run2 ev3 0 run3); [by left|by vm_compute]. }
  split; [by vm_compute|].
  split; [exact (proj1 (kipcm_answers_once no_limit in_order two run3 _ _ H0 H3))|].
  destruct (kipcm_answers_once no_limit in_order two run2 _ _ H0 H2) as (Hp & _ & Hr & _).
  split; [exact Hp|]. apply (Hr 1 77). by left.
Defined.

(** ** A request as bytes *)

(** The handlers registered, and an application to be registered with the shim. *)
Definition ready : ksys := default two (snd <$> ctrldev_handlers_register two).
Definition register_app : irati_msg :=
  mk_irati_msg (plain irati_kmsg_ipcm_reg_app [RINA_C_IPCM_REGISTER_APPLICATION_REQUEST; 1; 0; 0; 1; 90; 0])
    [PName (proc "a"); PName (proc "b"); PName (proc "d")].

Lemma ready_registered : registered ready.
Proof.
  assert (Forall (fun x : Z * kipcm_handler => ready.(s_dm).(handlers) !! Z.to_nat x.1 = Some (Some x.2)) kipcm_handlers) as H
    by (repeat constructor; by vm_compute).
  rewrite Forall_forall in H. intros t h Hin. exact (H _ Hin).
Qed.

Definition register_asks : asks :=
  mk_asks (application_register (proc "a") (proc "b")) RINA_C_IPCM_REGISTER_APPLICATION_RESPONSE false.

Lemma register_app_ok : msg_ok RINA_C_IPCM_REGISTER_APPLICATION_REQUEST register_app.
Proof.
  eexists. split; [reflexivity|]. split; [by vm_compute|]. split; [by vm_compute|]. split; [done|].
  cbn. repeat first [split | constructor | done | intros ?; discriminate].
Qed.

Lemma register_outcome : outcome ready 1 register_asks = (0, [(1, application_register (proc "a") (proc "b"))]).
Proof. by vm_compute. Qed.

Lemma control_request_answered_witness :
  exists s1 s2 bs r,
    ctrldev_write (kipcm_invoke no_limit in_order) 0 (bytes register_app) true [] ready = Some (Z.of_nat (length (bytes register_app)), s1) /\
    s1.(s_k).(told) = ready.(s_k).(told) ++ [(1, application_register (proc "a") (proc "b"))] /\
    ctrldev_read 0 64 false true s1 = Some (RDone 19 bs, s2) /\ queue s2 0 IPCM_CTRLDEV_PORT [] /\
    deserialize_irati_msg irati_ker_numtables RINA_C_MAX bs 19 [] 0 = Some (Some r) /\
    field irati_msg_base_resp 0 r = Some RINA_C_IPCM_REGISTER_APPLICATION_RESPONSE /\ field irati_msg_base_resp 3 r = Some 1 /\
    field irati_msg_base_resp 5 r = Some 90 /\ field irati_msg_base_resp 6 r = Some (uwrap 8 0).
Proof.
  pose proof (control_request_answered no_limit in_order ready 0 IPCM_CTRLDEV_PORT RINA_C_IPCM_REGISTER_APPLICATION_REQUEST
    Hregister_app_request register_app 1 90 register_asks 64 false 0) as H.
  rewrite register_outcome in H. apply H; clear H.
  - apply ready_registered.
  - do 5 right. by left.
  - apply register_app_ok.
  - by vm_compute.
  - by vm_compute.
  - by vm_compute.
  - by vm_compute.
  - by vm_compute.
  - by vm_compute.
  - split; [|by vm_compute]. intros i E _. vm_compute in E. by simplify_eq.
  - eexists. split; [by vm_compute|]. split; [by vm_compute|]. split; [done|]. by eexists.
  - by vm_compute.
  - lia.
Defined.

(** ** What goes wrong *)

(** The handlers are registered when the module is loaded and unregistered when it is removed; the first of
    them, for requests to assign an IPC process to a DIF, stays, and with it a pointer to the KIPCM
    that was freed. *)
Example handler_survives :
  match (ctrldev_handlers_register ;;; ctrldev_handlers_unregister) (start [] no_handlers) with
  | Some (r, s) => r = -1 /\ omap id s.(s_dm).(handlers) = [Hassign_dif_request]
  | None => False
  end.
Proof. by vm_compute. Qed.

(** A request for the forwarding table or the RIB of an IPC process that does not exist follows a list
    that was not initialised, whenever there is memory for the reply. *)
Lemma dump_unknown_faults port m (s : ksys) :
  is_Some (field irati_msg_base 4 m) -> is_Some (field irati_msg_base 5 m) -> hd true s.(s_mem) = true ->
  (forall id, ipcp_imap_find s.(s_k).(instances) id = None) -> notify_ipcp_dump_pff no_limit port m s = None.
Proof.
  intros [i Hi] [e He] Hm Hn. unfold notify_ipcp_dump_pff, dest_ipcp_id, event_id, fld, get_k, bind, ret, gets. rewrite Hi, He, Hn.
  unfold ipcp_dump_pff_reply, bind, ask, rkmalloc. destruct (s_mem s) as [|b o]; cbn in *; by subst.
Qed.

(** A request to allocate a flow over a normal IPC process, whose flows are allocated in user space, calls
    a null pointer. *)
Example null_operation : exec no_limit in_order (ERequest 1 (request 2 79)) two = None.
Proof. by vm_compute. Qed.

(** Unregistering the factory of an IPC process with id 0 takes its id for the end of the list: the IPC
    process stays, without its factory. *)
Example factory_leaves_instance :
  match kipcm_ipcp_factory_unregister in_order (c_str "shim-eth") (start [(0, shim)] no_handlers) with
  | Some (r, s) => r = 0 /\ s.(s_k).(instances) = [(0, shim)] /\ s.(s_k).(factories) = [c_str "normal-ipc"]
  | None => False
  end.
Proof. by vm_compute. Qed.

(** A request whose user is an IPC process that does not exist is answered, but its entry stays in the
    map, under a port id that was released. *)
Example failed_request_leaves_entry :
  let m := mk_irati_msg (plain irati_kmsg_ipcm_allocate_flow [RINA_C_IPCM_ALLOCATE_FLOW_REQUEST; 1; 0; 5; 1; 80; 0; 0])
             [PName None; PName None; PName None; PFlowSpec None] in
  match exec no_limit in_order (ERequest 1 m) two with
  | Some (_, s) => answers s.(s_k).(sent) = [80] /\ s.(s_k).(ingress) = [(1, 80)] /\ reserved s.(s_k).(kfa_of).(s_kfa) 1 = false
  | None => False
  end.
Proof. by vm_compute. Qed.

(** The control port is tested and set in two steps: two files that are bound at the same time both get
    the port, and what is sent to it goes to the first of them. *)
Example bind_race :
  let devs := mk_sys (mk_dm [(0%nat, mk_priv port_id_bad32 false None); (1%nat, mk_priv port_id_bad32 false None)] no_handlers 0)
                two.(s_k) [] 0 in
  let both := (let! a := ioctl_check 0 true true 7 in let! b := ioctl_check 1 true true 7 in
               ioctl_set 0 7 ;;; ioctl_set 1 7 ;;; ret (a, b)) in
  match both devs with
  | Some (r, s) => r = (0, 0) /\ map (fun x => p_port x.2) s.(s_dm).(ctrl_devs) = [7; 7] /\
      fst <$> get_ctrl_dev s.(s_dm).(ctrl_devs) 7 = Some 0%nat
  | None => False
  end.
Proof. by vm_compute. Qed.
